(* ===== verification/_CoqProject ===== *)
-Q . S2P
Prelude.v
Bytes.v
MemoryMap.v
MemoryImage.v
Catalog.v
BuiltinCatalog.v
ChecksumPrimitives.v
ChecksumFamily.v
ChecksumDenso.v
ChecksumBalanced.v
ChecksumHitachi.v
FlashDevices.v
ChecksumDispatch.v
Ssm.v
KeyRecovery.v
Ports.v
Uds.v
UdsClient.v
CanFlash.v
FlashPlan.v
SingleWindowPlans.v
WholeRomPlans.v
Colt.v
StagedPlans.v
FlashExecution.v
FlashWorkflow.v
FlashDialog.v
FlashRouting.v
FlashLogic.v
FlashMemory.v
HitachiM32rCan.v
CvtExecutors.v
CvtFlashing.v
DensoBootloader.v
DensoFlashing.v
CanLiveness.v
HitachiM32rUnit.v
Expression.v
MutDma.v
MutDmaDriver.v
CdbgDriver.v
DtcTables.v
Dtc.v
DefinitionModel.v
Numeric.v
FixedNotation.v
CalibrationLayout.v
NumericEdit.v
CalibrationSession.v
CopyPaste.v
Files.v
Xml.v
DefinitionResolver.v
DefinitionParsers.v
DefinitionWriter.v
DefinitionService.v
Configuration.v
RomOpen.v
LoggerModel.v
LoggingSession.v
LoggingRun.v
LoggingProtocols.v
Scripts.v
Diagnostics.v
ServiceFunctions.v
KlineExecution.v
KlineExecutors.v
KlineFlashing.v
KlineUnit.v
