(* ===== verification/Prelude.v ===== *)
(** * FastECU: a verification of its memory, checksum, protocol and flashing core

    FastECU reads, corrects and writes the flash of engine and transmission
    control units. The part verified here is the path a ROM file takes: the file
    is placed at ECU addresses by a memory map, its checksums are corrected by the
    family of its flash method, a plan is built and validated for the operation,
    and an executor talks to the unit over an adapter, encrypting what it sends and
    decrypting what it reads.

    ** The parts and the files that model them (paths under [src/])

    - [Prelude]: results, machine integers, byte vectors, tactics and shared lemmas.
    - [Bytes]: [algorithms/protocol/bytes*.h], [fixed_buffer.h] (accessors, the
      frame composer [ComposeBe]).
    - [MemoryMap], [MemoryImage]: [algorithms/memory/*] (map creation, lookup,
      slicing and placement; [Render], [CheckWrite], [Write] on an image).
    - [ChecksumPrimitives], [ChecksumDenso], [ChecksumBalanced], [ChecksumHitachi]:
      [algorithms/checksum/*] (word folds, CRC-32 and every ROM family, one Module
      per family). [ChecksumFamily] is the class a family implements and the
      dispatcher is proved against.
    - [FlashDevices]: [backend/flash/kernel/kernelmemorymodels.h] and
      [flash_device_lookup.cpp].
    - [ChecksumDispatch]: [backend/checksum/dispatch.cpp] (route, family, write-back).
    - [Ssm]: [algorithms/protocol/ssm/ssm_protocol_core.*] (frames, the Feistel
      cipher of seed keys and payloads). [KeyRecovery]:
      [algorithms/crypto/subaru_key_recovery.*].
    - [Uds]: [algorithms/protocol/uds/*], the negative-response texts of
      [algorithms/diagnostics].
    - [Catalog], [BuiltinCatalog]: [backend/config/catalog.*], [config_paths.cpp],
      [builtin_catalog.cpp] (memory map specifications, ROM file placement, lookups,
      the consistency check and the whole table of protocols and vehicles).
    - [Ports]: [backend/ports/*], errors and the effect model. [UdsClient]:
      [backend/protocol/uds/*]; the class [ChannelSpec] is what a channel promises
      the client. [CanFlash]: [can_flash_uds_channel.cpp],
      [guarded_can_flash_transport.cpp] and the transport of [flash_executor.h]
      under [backend/flash]; it discharges [ChannelSpec].
    - [FlashPlan]: [flash_types.h], [flash_plan.*], [flash_validation.cpp],
      [ecu/single_window_plan.cpp] and the Hitachi M32R CAN plan.
      [SingleWindowPlans]: the [ecu/subaru_*_plan.cpp] of the twelve other
      single-window families, one Module each. [WholeRomPlans]: the six families
      that load a kernel and take the whole ROM, and [ecu/plan_primitives.*].
      [StagedPlans]: the families with shapes of their own (Colt, Hitachi SH7058,
      MC68HC16Y5, Unisia Jecs, Denso EEPROM) and [ecu/protocol_kernel.*].
    - [FlashExecution]: [flash_executor.h], [guarded_flash_execution.cpp],
      [ecu/flash_phase_progress.h], [ecu/uds_client_exchange_common.cpp],
      [ecu/bootloader_operation.h]. [FlashLogic], [FlashMemory]: the program logic
      over histories of calls and the reading and writing of a region in pieces.
    - [HitachiM32rCan]: [ecu/subaru_hitachi_m32r_can_executor.cpp]. [CvtExecutors],
      [CvtFlashing]: the three CVT transmission executors and their theorems.
      [DensoBootloader], [DensoFlashing]: [ecu/denso_iso15765_*] and the four
      families on it. [CanLiveness], [HitachiM32rUnit]: the promise of a unit that
      keeps its protocol, and what the executor achieves against it.
    - [FlashWorkflow]: [backend/flash/workflow/flash_workflow.*] and
      [flash_operation_request.cpp] (the four kinds of workflow as state machines,
      the routes). [FlashDialog]: [ui/desktop/flash/common/flash_dialog.cpp], the
      loop that drives a workflow, and the scripts it amounts to. [FlashRouting]:
      the routes, the catalog and the dialog together.
    - [Expression]: [algorithms/expression/*]. [MutDma], [MutDmaDriver]:
      [algorithms/protocol/mut_dma/*], [backend/protocol/mut_dma_driver.cpp].
      [Colt], [CdbgDriver]: [algorithms/protocol/colt/*], [algorithms/protocol/biu/*]
      and [backend/protocol/mitsu_colt_can_*]. [DtcTables], [Dtc]:
      [algorithms/diagnostics/dtc_*].
    - [DefinitionModel]: [backend/definition/definition_model.*] (the records of a ROM
      definition, the catalog of definitions). [CalibrationLayout]: [map_edit.cpp],
      [map_placement.cpp], [definition_interpretation_internal.cpp] and
      [scaling_internal.cpp] under [backend/calibration] (where a map's cells lie).
      [Numeric]: the double operations of calibration, a class with a binary64
      instance; [FixedNotation]: that its printed numbers read back. [NumericEdit]: [numeric_map_edit.cpp], [calibration_service.cpp]
      (decoding a map; increments, assignments, interpolation, paste).
      [CalibrationSession]: [session/*.cpp] there but [rom_open.cpp] (sessions, the
      workspace, edits, copy, save). [CopyPaste]: the clipboard split of
      [ui/desktop/calibration/map_edit_adapter.cpp].
    - [Files]: the file ports of [backend/ports] as an arbitrary world, and the laws of
      a working file system. [Xml]: the document tree of the XML library and its
      accessors. Under [backend/definition]: [DefinitionResolver] ([definition_resolver.*]:
      merging, inheritance, completion), [DefinitionParsers] ([parser_utils.*],
      [ecuflash_parser.cpp], [romraider_parser.cpp], [text_format.*]), [DefinitionWriter]
      ([definition_writer.*], [definition_header_fields.*]), [DefinitionService]
      ([definition_service.*]: catalogs, matching, loading, authoring).
      [Configuration]: [backend/config/app_config.*], [provisioning.cpp],
      [config_session.*]. [RomOpen]: [definition_catalog_session.*] and
      [calibration/session/rom_open.*], and the application over them.
    - Under [backend/logging]: [LoggerModel] ([logger_*.cpp],
      [logging_selection_use_case.cpp]: definitions, capabilities, selections),
      [LoggingSession] ([logging_session.cpp], [logging_read_plan.cpp],
      [logging_channel_preparation.cpp], [logging_run_snapshot.cpp],
      [logging_conversion.cpp], [logging_csv_*.cpp]), [LoggingRun]
      ([logging_use_case.cpp], the run over any protocol: the class
      [LoggingRun.LoggingProtocol]), [LoggingProtocols] ([protocols/portable_*.cpp],
      its three instances).
    - [Scripts]: the logic of computations that follow a script of calls.
      [Diagnostics]: [backend/diagnostics/*] (OBD frames, trouble-code sessions, SSM
      identification, terminal scripts). [ServiceFunctions]:
      [backend/service_functions/*], the three sessions as instances of the class
      [ServiceFunctionSession].
    - [KlineExecution]: the K-Line side of [flash_executor.h] and
      [guarded_flash_execution.cpp], and [ecu/m32r_ssm_exchange.*]. [KlineExecutors]:
      the K-Line executors of the Hitachi and Mitsubishi M32R engines, the Hitachi M32R
      transmission and the Hitachi SH7058 ([ecu/subaru_*_kline_executor.cpp]), one Module
      each. [KlineFlashing]: what their attempts put on the line. [KlineUnit]: the two
      engine families against a unit.

    ** How state and effects are modelled

    Bytes and w-bit integers are [Z] with their wrap-around written out; a mutated
    span is returned; [std::expected] is [result]. The effectful backend runs in an
    environment (adapter, unit, clock, operator) known only through its calls:
    [Ports.Env] answers each call from the whole history of calls, a computation is
    a function on that history ([Ports.M]), and what it sent and read is a function
    of the history it leaves. A theorem for every [Env] therefore covers every
    behaviour of the world, cancellation at any moment and any reply included.
    A workflow is a record with [Next] and [Submit] (the class
    [FlashWorkflow.FlashWorkflow]); the dialog's world answers prompts and attempts
    from the trace of what was shown and run. Files and events are a [Files.World], any
    type with any answers; a computation over it is [Files.IO], and what a working file
    system adds is the class [Files.FileSystemLaws]. The XML library is a parser and a
    printer of document trees ([load_buffer], [load_all], [save]), a sort by time is any
    function that sorts, a loader of definitions any function with a state: parameters
    of the definitions that use them, with what the code relies on as named hypotheses
    ([prints_settings], [prints_headers], [sorts], [stable]). What a string holds after it was moved
    from is a parameter ([moved_from]); the operations on [double] the expression
    evaluator and the calibration edits use are parameter classes ([Expression.Double],
    [Numeric.Numeric]; printing a double in logging is a parameter too) with their documented behaviour as a second class, which the
    binary64 instances meet.

    ** What the theorems show

    - Memory: the maps accepted are exactly the well-formed layouts; slices
      partition a range; file and address placement are inverse; rendering and
      writing agree with the byte each address holds; a refused write changes
      nothing.
    - Checksums: which families leave a ROM their unit accepts, for which ROMs, and
      the exact exceptions (a second pass needed, a stale sum, a correction not
      reported); end to end, a file the dispatcher produces renders to bytes with every
      checksum right, under a stated condition for the families that may need a second
      run, and it is produced exactly when every corrected byte is writable.
    - Protocol: the cipher is its own inverse under reversed keys; a valid frame is
      a built frame; composed fields read back; the recovered keys reproduce every
      pair they were recovered from.
    - Plans: what each single-window family builds, that its plans pass no other
      family's validation and erase whole flash blocks only.
      The kernel-backed families build exactly the plans of their tables, with
      kernels that fit their block.
    - Catalog: the check reports nothing exactly for consistent catalogs; a ROM file
      is placed by its size alone; the built-in catalog is consistent, its protocols
      are the routed ones, and an operation it does not list is refused before
      anything happens.
    - Dialog: over every routed workflow it ends; over those of one mode it follows the
      script of its kind;
      an attempt runs only with an admitted plan and nothing declined before it; the
      notice to remove programming voltage follows every attempt that needed it; a
      boot-mode program only follows a successful kernel.
    - Expressions: the compiler accepts exactly the grammar, ends on every text, and
      compiled programs never read an empty stack.
    - MUT-DMA and Colt: frames store and stream what they say; drivers in every
      environment stay inside their address windows and send fixed scripts.
    - Calibration: a map passes the placement check exactly when its cells lie in file
      bytes of one writability; element addresses are exact while they fit; an encoded
      value reads back; an edit changes only the cells it covers, all or none of them,
      and the next decode shows what it stored; copied finite numbers paste back;
      identifiers of
      sessions are never reused; a catalog answers with the first entry given.
    - Definitions: resolving computes inheritance, whatever the memo holds, and what it
      returns is complete and typed; the index read from a file agrees with the
      definition read from it; a match is the first entry that recognises the ROM, and
      it is placed by the flash method the loaded definition has; an authored header
      reads back, as a definition and for editing.
    - Settings and opening: what is saved is what the next start restores; provisioning
      keeps files; an opened ROM is its file under its protocol's map; every workspace
      the program can reach meets what the calibration theorems assume.
    - Logging: a prepared run measures what was selected, each once, on the channels
      the definitions describe; a run, whatever its protocol answers, reports every
      answered poll's samples, the states and restarts its policy calls for, and stops
      the protocol once; an SSM poll returns the unit's memory;
      a saved selection is the one restored; a record reads back.
    - Diagnostics and service functions: in every environment a trouble-code session
      follows one script and reports codes cleared only on the unit's acknowledgement;
      against a unit whose answers carry data it reports its codes and vehicle; a
      relearn never acts ahead of the operator; parameters set are the ones read; a
      terminal script reads back.
    - Flashing, in every environment: an exchange sends its request once; an attempt
      opens, runs and closes the transport exactly once; a write attempt never
      writes before the unit answered the erase as its family asks, sends the chunks of the
      encrypted image in order and reports success only when all went out; a read
      attempt never writes, and asks for the pages in order. Against a unit that keeps its protocol both succeed, and
      what is written is read back. This is shown for the executors over CAN and for
      those over the K-Line.

    ** Fuel

    Loops that count are recursions on the number of rounds left, computed from the
    source's bounds: page and chunk loops get one or two rounds more than the region
    has pages ([kLength / kPageSize + 2], [kLength / kChunkSize + 1]), the pending
    loop [max_pending_repeats + 1] reads, the erase wait 20 reads and the block close
    6 requests as in the source. The K-Line chunk loops get one round more than the region
    has chunks (the transmission's two, its last block is short); 1000 wake attempts, 20
    reads of the erase answer and 5 attempts at a block are the source's. The expression parser gets four times the length of
    its text plus five, the scan of an assignment's tokens the length of its text plus
    one; the dialog's loop one turn per prompt and attempt
    ([workflow_rounds]: 5, 8 and 11 turns for the staged workflows, the plan's
    confirmations plus three otherwise). The resolver and the search of flash methods get
    257 levels, since a chain of definitions is refused past 256; the search of a
    directory gets as many levels as directories nest. A logging run gets a number of
    turns and a trouble-code session a number of reads of one answer: the source bounds
    neither, the theorems for every environment hold of any number (running out is an
    outcome of its own, [None]), and against a unit two reads are enough. The terminal
    parser gets the length of its entry. The theorems that count requests or show success
    prove that the fuel does not run out first.

    ** Not modelled

    The Qt user interface beyond the flash dialog's loop, operating-system and
    adapter input/output (they are the environment), the XML library, the conversion of
    map packs, and the executors of the kernel-backed, Unisia Jecs and Colt families with
    the mixed CAN and K-Line transport they use (their plans are modelled).
    Exceptions other than those the code turns into results, heap exhaustion and real
    time are out of scope.

    ** Plan

    Next: the mixed CAN and K-Line transport with the executors of the kernel-backed
    families. *)
From Stdlib Require Export ZArith Lia Bool Ascii.
From stdpp Require Export base list numbers strings option sets.
#[global] Open Scope Z_scope.

(** Conversions to unary numbers are never unfolded by simplification: ROM
    offsets are as large as a million. *)
#[global] Arguments Z.to_nat : simpl never.
#[global] Arguments Z.of_nat : simpl never.
#[global] Arguments Z.modulo : simpl never.
#[global] Arguments Z.div : simpl never.

(** Conversion unfolds the program's own definitions before arithmetic. *)
Strategy 100 [Z.add Z.sub Z.mul Z.to_nat Z.of_nat Z.modulo Z.div Z.leb Z.ltb Z.eqb Nat.iter].

(** ** Results: [std::expected<A, E>] *)
Inductive result (E A : Type) : Type :=
| Ok (a : A)
| Err (e : E).
Arguments Ok {E A} a.
Arguments Err {E A} e.

Definition result_bind {E A B} (r : result E A) (k : A -> result E B) : result E B :=
  match r with Ok a => k a | Err e => Err e end.

Declare Scope result_scope.
Delimit Scope result_scope with res.
Notation "'let!' x ':=' r 'in' k" := (result_bind r (fun x => k))
  (at level 10, x pattern, r at level 100, k at level 200) : result_scope.
#[global] Open Scope result_scope.

Lemma result_bind_Ok {E A B} (r : result E A) (k : A -> result E B) b :
  result_bind r k = Ok b -> exists a, r = Ok a /\ k a = Ok b.
Proof. destruct r as [a|e]; [|done]. by exists a. Qed.
Definition is_ok {E A} (r : result E A) : bool :=
  match r with Ok _ => true | Err _ => false end.

(** ** Machine integers: a [w]-bit unsigned value is its residue *)
Definition u8 (z : Z) : Z := z mod 256.
Definition u16 (z : Z) : Z := z mod 65536.
Definition u32 (z : Z) : Z := z mod 4294967296.
Definition u64 (z : Z) : Z := z mod 18446744073709551616.

Definition kU32Max : Z := 4294967295.

Definition byte_ok (b : Z) : Prop := 0 <= b < 256.
Definition bytes_ok (l : list Z) : Prop := Forall byte_ok l.
Definition u16_ok (z : Z) : Prop := 0 <= z < 65536.
Definition u32_ok (z : Z) : Prop := 0 <= z < 4294967296.

(** Arithmetic goals with division and remainder by constants. *)
Ltac zmod := unfold u8, u16, u32, u64, byte_ok, u16_ok, u32_ok in *;
  Z.to_euclidean_division_equations; lia.

Lemma u8_range z : byte_ok (u8 z).
Proof. unfold byte_ok, u8. apply Z.mod_pos_bound. lia. Qed.
Lemma u16_range z : u16_ok (u16 z).
Proof. unfold u16_ok, u16. apply Z.mod_pos_bound. lia. Qed.
Lemma u32_range z : u32_ok (u32 z).
Proof. unfold u32_ok, u32. apply Z.mod_pos_bound. lia. Qed.
Lemma u8_small z : byte_ok z -> u8 z = z.
Proof. unfold byte_ok, u8. intros. apply Z.mod_small. lia. Qed.
Lemma u16_small z : u16_ok z -> u16 z = z.
Proof. unfold u16_ok, u16. intros. apply Z.mod_small. lia. Qed.
Lemma u32_small z : u32_ok z -> u32 z = z.
Proof. unfold u32_ok, u32. intros. apply Z.mod_small. lia. Qed.

(** Residues may be dropped inside a sum. *)
Lemma u32_add_l a b : u32 (u32 a + b) = u32 (a + b).
Proof. unfold u32. apply Zplus_mod_idemp_l. Qed.
Lemma u32_add_r a b : u32 (a + u32 b) = u32 (a + b).
Proof. unfold u32. apply Zplus_mod_idemp_r. Qed.
Lemma u32_sub_l a b : u32 (u32 a - b) = u32 (a - b).
Proof. unfold u32. apply Zminus_mod_idemp_l. Qed.
Lemma u32_sub_r a b : u32 (a - u32 b) = u32 (a - b).
Proof. unfold u32. apply Zminus_mod_idemp_r. Qed.
Lemma u32_u32 a : u32 (u32 a) = u32 a.
Proof. unfold u32. apply Z.mod_mod. lia. Qed.
Lemma u16_add_l a b : u16 (u16 a + b) = u16 (a + b).
Proof. unfold u16. apply Zplus_mod_idemp_l. Qed.
Lemma u16_add_r a b : u16 (a + u16 b) = u16 (a + b).
Proof. unfold u16. apply Zplus_mod_idemp_r. Qed.
Lemma u16_u16 a : u16 (u16 a) = u16 a.
Proof. unfold u16. apply Z.mod_mod. lia. Qed.
Lemma u16_u32 a : u16 (u32 a) = u16 a.
Proof. zmod. Qed.
Lemma u8_add_l a b : u8 (u8 a + b) = u8 (a + b).
Proof. unfold u8. apply Zplus_mod_idemp_l. Qed.
Lemma u8_add_r a b : u8 (a + u8 b) = u8 (a + b).
Proof. unfold u8. apply Zplus_mod_idemp_r. Qed.

Create HintDb word.
Create Rewrite HintDb word.
#[export] Hint Resolve u8_range u16_range u32_range : word.
#[export] Hint Rewrite u32_add_l u32_add_r u32_sub_l u32_sub_r u32_u32
  u16_add_l u16_add_r u16_u16 u16_u32 u8_add_l u8_add_r : word.

(** ** Vectors indexed by [Z]

    [std::vector] and [std::span] as lists with positions in [Z]. [zget] is
    [operator[]]: the code only applies it inside its own range checks, and the
    model gives 0 outside. *)
Section vectors.
Context {A : Type}.
Implicit Types l : list A.

Definition zlen l : Z := Z.of_nat (length l).
Definition ztake (n : Z) l : list A := take (Z.to_nat n) l.
Definition zdrop (n : Z) l : list A := drop (Z.to_nat n) l.
(** [span.subspan(offset, count)]. *)
Definition subspan l (offset count : Z) : list A := ztake count (zdrop offset l).
Definition zrepeat (n : Z) (x : A) : list A := replicate (Z.to_nat n) x.
Definition zset l (i : Z) (x : A) : list A := if decide (0 <= i) then <[Z.to_nat i := x]> l else l.
(** [std::copy] of [p] to position [off], clamped to the target's end. *)
Definition splice l (off : Z) (p : list A) : list A :=
  ztake off l ++ ztake (zlen l - off) p ++ zdrop (off + zlen p) l.

Lemma zlen_nonneg l : 0 <= zlen l.
Proof. unfold zlen. lia. Qed.
Lemma zlen_nil : zlen (@nil A) = 0.
Proof. reflexivity. Qed.
Lemma zlen_cons x l : zlen (x :: l) = 1 + zlen l.
Proof. unfold zlen. simpl. lia. Qed.
Lemma zlen_app l1 l2 : zlen (l1 ++ l2) = zlen l1 + zlen l2.
Proof. unfold zlen. rewrite length_app. lia. Qed.
Lemma zlen_ztake n l : zlen (ztake n l) = Z.min (Z.max 0 n) (zlen l).
Proof. unfold zlen, ztake. rewrite length_take. lia. Qed.
Lemma zlen_zdrop n l : zlen (zdrop n l) = Z.max 0 (zlen l - Z.max 0 n).
Proof. unfold zlen, zdrop. rewrite length_drop. lia. Qed.
Lemma zlen_subspan l o n : zlen (subspan l o n) = Z.min (Z.max 0 n) (Z.max 0 (zlen l - Z.max 0 o)).
Proof. unfold subspan. by rewrite zlen_ztake, zlen_zdrop. Qed.
Lemma zlen_zrepeat n x : zlen (zrepeat n x) = Z.max 0 n.
Proof. unfold zlen, zrepeat. rewrite length_replicate. lia. Qed.
Lemma zlen_zset l i x : zlen (zset l i x) = zlen l.
Proof. unfold zlen, zset. case_decide; [by rewrite length_insert|done]. Qed.
Lemma zlen_splice l off p :
  0 <= off -> off + zlen p <= zlen l -> zlen (splice l off p) = zlen l.
Proof.
  intros. unfold splice. rewrite !zlen_app, !zlen_ztake, zlen_zdrop.
  pose proof (zlen_nonneg p). lia.
Qed.

(** The element at a position, as an option. *)
Definition zlookup l (i : Z) : option A := if decide (0 <= i) then l !! Z.to_nat i else None.

Lemma zlookup_ext l1 l2 : (forall i, 0 <= i -> zlookup l1 i = zlookup l2 i) -> l1 = l2.
Proof.
  intros H. apply list_eq. intros k. specialize (H (Z.of_nat k) ltac:(lia)).
  unfold zlookup in H. rewrite !decide_True, Nat2Z.id in H by lia. exact H.
Qed.
Lemma zlookup_neg l i : i < 0 -> zlookup l i = None.
Proof. intros. unfold zlookup. by rewrite decide_False by lia. Qed.
Lemma zlookup_ge l i : zlen l <= i -> zlookup l i = None.
Proof.
  intros. unfold zlookup, zlen in *. case_decide; [|done]. apply lookup_ge_None. lia.
Qed.
Lemma zlookup_lt l i : 0 <= i < zlen l -> is_Some (zlookup l i).
Proof.
  intros. unfold zlookup, zlen in *. rewrite decide_True by lia. apply lookup_lt_is_Some. lia.
Qed.
Lemma zlookup_app l1 l2 i :
  zlookup (l1 ++ l2) i = if decide (i < zlen l1) then zlookup l1 i else zlookup l2 (i - zlen l1).
Proof.
  unfold zlookup, zlen. repeat case_decide; try lia; try done.
  - apply lookup_app_l. lia.
  - rewrite lookup_app_r by lia. f_equal. lia.
Qed.
Lemma zlookup_ztake l n i :
  zlookup (ztake n l) i = if decide (i < n) then zlookup l i else None.
Proof.
  unfold zlookup, ztake. repeat case_decide; try done.
  - apply lookup_take_lt. lia.
  - apply lookup_take_ge. lia.
Qed.
Lemma zlookup_zdrop l n i :
  0 <= i -> zlookup (zdrop n l) i = zlookup l (Z.max 0 n + i).
Proof.
  intros. unfold zlookup, zdrop. rewrite !decide_True by lia. rewrite lookup_drop. f_equal. lia.
Qed.
Lemma zlookup_zset l i x j :
  zlookup (zset l i x) j = if decide (i = j /\ 0 <= j < zlen l) then Some x else zlookup l j.
Proof.
  unfold zlookup, zset, zlen. repeat case_decide; try done; try lia.
  - rewrite list_lookup_insert. rewrite decide_True by lia. done.
  - rewrite list_lookup_insert. rewrite decide_False by lia. done.
Qed.
Lemma zlookup_zrepeat n x i :
  zlookup (zrepeat n x) i = if decide (0 <= i < n) then Some x else None.
Proof.
  unfold zlookup, zrepeat. repeat case_decide; try lia; try done.
  - apply lookup_replicate_2. lia.
  - apply lookup_ge_None. rewrite length_replicate. lia.
Qed.
Lemma zlookup_splice l off p i :
  0 <= off -> off + zlen p <= zlen l ->
  zlookup (splice l off p) i =
    if decide (off <= i < off + zlen p) then zlookup p (i - off) else zlookup l i.
Proof.
  intros. pose proof (zlen_nonneg p). unfold splice.
  rewrite !zlookup_app, !zlookup_ztake, !zlen_ztake.
  destruct (decide (i < 0)) as [Hneg|].
  { rewrite (zlookup_neg l i) by done. repeat case_decide; try lia; try done. }
  repeat case_decide; try lia; try done.
  - f_equal; lia.
  - rewrite zlookup_zdrop by lia. f_equal. lia.
Qed.
End vectors.

(** [operator[]] on bytes and words. *)
Definition zget (l : list Z) (i : Z) : Z := default 0 (zlookup l i).

Create Rewrite HintDb zlen.
#[export] Hint Rewrite @zlen_nil @zlen_cons @zlen_app @zlen_ztake @zlen_zdrop @zlen_subspan
  @zlen_zrepeat @zlen_zset : zlen.

(** Length goals. *)
Ltac zl := autorewrite with zlen in *; try lia.

Lemma zlookup_zget l i : 0 <= i < zlen l -> zlookup l i = Some (zget l i).
Proof. intros H. destruct (zlookup_lt l i H) as [x Hx]. unfold zget. by rewrite Hx. Qed.
Lemma zget_out l i : i < 0 \/ zlen l <= i -> zget l i = 0.
Proof. intros [H|H]; unfold zget; [by rewrite zlookup_neg|by rewrite zlookup_ge]. Qed.

Lemma zget_ext l1 l2 :
  zlen l1 = zlen l2 -> (forall i, 0 <= i < zlen l1 -> zget l1 i = zget l2 i) -> l1 = l2.
Proof.
  intros Hl H. apply zlookup_ext. intros i Hi.
  destruct (decide (i < zlen l1)) as [Hlt|Hge].
  - rewrite !zlookup_zget by lia. by rewrite H by lia.
  - rewrite !zlookup_ge by lia. done.
Qed.
Lemma zget_cons_0 x l : zget (x :: l) 0 = x.
Proof. reflexivity. Qed.
Lemma zget_cons_S x l i : 0 < i -> zget (x :: l) i = zget l (i - 1).
Proof.
  intros. unfold zget, zlookup. rewrite !decide_True by lia.
  replace (Z.to_nat i) with (S (Z.to_nat (i - 1))) by lia. done.
Qed.
Lemma zget_app_l l1 l2 i : i < zlen l1 -> zget (l1 ++ l2) i = zget l1 i.
Proof. intros. unfold zget. rewrite zlookup_app. by rewrite decide_True. Qed.
Lemma zget_app_r l1 l2 i : zlen l1 <= i -> zget (l1 ++ l2) i = zget l2 (i - zlen l1).
Proof. intros. unfold zget. rewrite zlookup_app. by rewrite decide_False by lia. Qed.
Lemma zget_ztake l n i : i < n -> zget (ztake n l) i = zget l i.
Proof. intros. unfold zget. rewrite zlookup_ztake. by rewrite decide_True. Qed.
Lemma zget_zdrop l n i : 0 <= n -> 0 <= i -> zget (zdrop n l) i = zget l (n + i).
Proof. intros. unfold zget. rewrite zlookup_zdrop by lia. by rewrite Z.max_r by lia. Qed.
Lemma zget_subspan l o n i : 0 <= o -> 0 <= i < n -> zget (subspan l o n) i = zget l (o + i).
Proof. intros. unfold subspan. rewrite zget_ztake by lia. by apply zget_zdrop; lia. Qed.
Lemma zget_zset l i x j :
  zget (zset l i x) j = if decide (i = j /\ 0 <= j < zlen l) then x else zget l j.
Proof. unfold zget. rewrite zlookup_zset. by case_decide. Qed.
Lemma zget_splice l off p i :
  0 <= off -> off + zlen p <= zlen l ->
  zget (splice l off p) i =
    if decide (off <= i < off + zlen p) then zget p (i - off) else zget l i.
Proof. intros. unfold zget. rewrite zlookup_splice by done. by case_decide. Qed.
Lemma zget_zrepeat n x i : 0 <= i < n -> zget (zrepeat n x) i = x.
Proof. intros. unfold zget. rewrite zlookup_zrepeat. by rewrite decide_True. Qed.

(** A span of an overwritten vector. *)
Lemma subspan_splice_inside (l p : list Z) o off n :
  0 <= o -> o <= off -> off + zlen p <= o + n -> o + n <= zlen l ->
  subspan (splice l off p) o n = splice (subspan l o n) (off - o) p.
Proof.
  intros. pose proof (zlen_nonneg p).
  assert (zlen (subspan l o n) = n) by (zl).
  apply zget_ext.
  - rewrite zlen_splice by lia. rewrite zlen_subspan, zlen_splice by lia. lia.
  - intros i Hi. rewrite zlen_subspan, zlen_splice in Hi by lia.
    rewrite zget_subspan, !zget_splice by lia.
    repeat case_decide; try lia; [f_equal; lia|by rewrite zget_subspan by lia].
Qed.
Lemma subspan_splice_outside (l p : list Z) o off n :
  0 <= o -> 0 <= off -> 0 <= n -> off + zlen p <= zlen l -> o + n <= zlen l ->
  off + zlen p <= o \/ o + n <= off ->
  subspan (splice l off p) o n = subspan l o n.
Proof.
  intros. pose proof (zlen_nonneg p). apply zget_ext.
  - rewrite !zlen_subspan, zlen_splice by lia. done.
  - intros i Hi. rewrite zlen_subspan, zlen_splice in Hi by lia.
    rewrite !zget_subspan, zget_splice by lia. by rewrite decide_False by lia.
Qed.
Lemma subspan_splice_within (l p : list Z) off k n :
  0 <= off -> off + zlen p <= zlen l -> 0 <= k -> 0 <= n -> k + n <= zlen p ->
  subspan (splice l off p) (off + k) n = subspan p k n.
Proof.
  intros. apply zget_ext; [rewrite !zlen_subspan, zlen_splice by lia; lia|].
  intros i Hi. rewrite zlen_subspan, zlen_splice in Hi by lia. rewrite !zget_subspan, zget_splice by lia.
  rewrite decide_True by lia. f_equal. lia.
Qed.
Lemma subspan_splice_same (l p : list Z) off n :
  0 <= off -> n = zlen p -> off + zlen p <= zlen l -> subspan (splice l off p) off n = p.
Proof.
  intros ? -> ?. pose proof (zlen_nonneg p). apply zget_ext.
  - rewrite zlen_subspan, zlen_splice by lia. lia.
  - intros i Hi. rewrite zlen_subspan, zlen_splice in Hi by lia.
    rewrite zget_subspan, zget_splice by lia. rewrite decide_True by lia. f_equal. lia.
Qed.
Lemma subspan_full (l : list Z) n : n = zlen l -> subspan l 0 n = l.
Proof.
  intros ->. pose proof (zlen_nonneg l). apply zget_ext; [zl|].
  intros i Hi. rewrite zlen_subspan in Hi. rewrite zget_subspan by lia. f_equal.
Qed.
Lemma splice_id (l : list Z) off n :
  0 <= off -> 0 <= n -> off + n <= zlen l -> splice l off (subspan l off n) = l.
Proof.
  intros. assert (zlen (subspan l off n) = n) by (rewrite zlen_subspan; lia).
  apply zget_ext; [by rewrite zlen_splice by lia|].
  intros i Hi. rewrite zlen_splice in Hi by lia. rewrite zget_splice by lia.
  case_decide; [|done]. rewrite zget_subspan by lia. f_equal. lia.
Qed.

(** Every element a byte. *)
Lemma bytes_ok_zget l i : bytes_ok l -> byte_ok (zget l i).
Proof.
  intros H. unfold zget, zlookup. case_decide; [|simpl; unfold byte_ok; lia].
  destruct (l !! Z.to_nat i) eqn:E; simpl; [|unfold byte_ok; lia].
  exact (Forall_lookup_1 _ _ _ _ H E).
Qed.
Lemma bytes_ok_of_zget l : (forall i, 0 <= i < zlen l -> byte_ok (zget l i)) -> bytes_ok l.
Proof.
  intros H. apply Forall_lookup. intros k x Hk.
  pose proof (lookup_lt_Some _ _ _ Hk) as Hlt. specialize (H (Z.of_nat k)). unfold zlen in H.
  unfold zget, zlookup in H. rewrite decide_True, Nat2Z.id, Hk in H by lia. apply H. lia.
Qed.
Lemma bytes_ok_app l1 l2 : bytes_ok l1 -> bytes_ok l2 -> bytes_ok (l1 ++ l2).
Proof. intros. by apply Forall_app. Qed.
Lemma bytes_ok_ztake n l : bytes_ok l -> bytes_ok (ztake n l).
Proof. apply Forall_take. Qed.
Lemma bytes_ok_zdrop n l : bytes_ok l -> bytes_ok (zdrop n l).
Proof. apply Forall_drop. Qed.
Lemma bytes_ok_subspan l o n : bytes_ok l -> bytes_ok (subspan l o n).
Proof. intros. apply bytes_ok_ztake. by apply bytes_ok_zdrop. Qed.
Lemma bytes_ok_splice l o p : bytes_ok l -> bytes_ok p -> bytes_ok (splice l o p).
Proof.
  intros. unfold splice.
  apply bytes_ok_app; [by apply bytes_ok_ztake|].
  apply bytes_ok_app; [by apply bytes_ok_ztake|by apply bytes_ok_zdrop].
Qed.
Lemma bytes_ok_zset l i x : bytes_ok l -> byte_ok x -> bytes_ok (zset l i x).
Proof. intros. unfold zset. case_decide; [|done]. by apply Forall_insert. Qed.
Lemma bytes_ok_zrepeat n x : byte_ok x -> bytes_ok (zrepeat n x).
Proof. intros. by apply Forall_replicate. Qed.
Create HintDb bytes.
#[export] Hint Resolve bytes_ok_zget bytes_ok_app bytes_ok_ztake bytes_ok_zdrop bytes_ok_subspan
  bytes_ok_splice bytes_ok_zset bytes_ok_zrepeat u8_range Forall_nil_2 : bytes.

(** ** Bit operations as arithmetic *)
Lemma land_255 x : Z.land x 255 = x mod 256.
Proof. change 255 with (Z.ones 8). by rewrite Z.land_ones by lia. Qed.
Lemma land_65535 x : Z.land x 65535 = x mod 65536.
Proof. change 65535 with (Z.ones 16). by rewrite Z.land_ones by lia. Qed.
Lemma testbit_high b n k : 0 <= b < 2 ^ n -> 0 <= n <= k -> Z.testbit b k = false.
Proof.
  intros. destruct (decide (b = 0)) as [->|]; [apply Z.bits_0|].
  apply Z.bits_above_log2; [lia|]. apply Z.log2_lt_pow2; [lia|].
  apply Z.lt_le_trans with (2 ^ n); [lia|]. apply Z.pow_le_mono_r; lia.
Qed.
Lemma land_shiftl_low a b n : 0 <= n -> 0 <= b < 2 ^ n -> Z.land (Z.shiftl a n) b = 0.
Proof.
  intros. apply Z.bits_inj'. intros k Hk. rewrite Z.land_spec, Z.shiftl_spec, Z.bits_0 by lia.
  destruct (decide (k < n)); [by rewrite Z.testbit_neg_r by lia|].
  by rewrite (testbit_high b n k), andb_false_r by lia.
Qed.
Lemma lor_shiftl_add a b n : 0 <= n -> 0 <= b < 2 ^ n -> Z.lor (Z.shiftl a n) b = a * 2 ^ n + b.
Proof.
  intros. rewrite <- Z.shiftl_mul_pow2 by lia.
  pose proof (land_shiftl_low a b n ltac:(lia) ltac:(lia)).
  by rewrite Z.add_nocarry_lxor, Z.lxor_lor by done.
Qed.
Lemma shiftr_div x n : 0 <= n -> Z.shiftr x n = x / 2 ^ n.
Proof. apply Z.shiftr_div_pow2. Qed.

(** ** Counted loops

    [for_steps n i step body s]: [body] at [i], [i + step], ... [n] times. *)
Fixpoint for_steps {S : Type} (n : nat) (i step : Z) (body : Z -> S -> S) (s : S) : S :=
  match n with
  | O => s
  | Datatypes.S n' => for_steps n' (i + step) step body (body i s)
  end.

(** ** Sums of lists *)
Definition zsum (l : list Z) : Z := fold_right Z.add 0 l.
Lemma zsum_app l1 l2 : zsum (l1 ++ l2) = zsum l1 + zsum l2.
Proof. unfold zsum. induction l1 as [|x l1 IH]; simpl; [lia|]. rewrite IH. lia. Qed.
Lemma fold_left_u32_zsum l acc : fold_left (fun a b => u32 (a + b)) l (u32 acc) = u32 (acc + zsum l).
Proof.
  revert acc. induction l as [|x l IH]; intros acc; simpl.
  - f_equal. lia.
  - rewrite u32_add_l, IH. f_equal. lia.
Qed.

(** ** [std::find_if] *)
Lemma find_None_Forall {A} (f : A -> bool) l : List.find f l = None <-> Forall (fun x => f x = false) l.
Proof.
  induction l as [|x l IH]; [split; [constructor|done]|]. cbn. destruct (f x) eqn:E.
  - split; [done|]. intros H. inversion H. congruence.
  - rewrite IH. split; [by constructor|]. intros H. by inversion H.
Qed.
Lemma find_ext {A} (f g : A -> bool) l : (forall x, f x = g x) -> List.find f l = List.find g l.
Proof. intros H. induction l as [|x l IH]; cbn; [done|]. by rewrite H, IH. Qed.

(** ** Facts checked by evaluation over a finite range *)
Lemma forall_range (P : Z -> bool) n x :
  forallb P (seqZ 0 n) = true -> 0 <= x < n -> P x = true.
Proof.
  intros H Hx. apply (proj1 (forallb_forall P (seqZ 0 n))); [done|].
  apply list_elem_of_In, elem_of_seqZ. lia.
Qed.

(** Literal positions of literal vectors. *)
Lemma zget_0 a (l : list Z) : zget (a :: l) 0 = a. Proof. reflexivity. Qed.
Lemma zget_1 a b (l : list Z) : zget (a :: b :: l) 1 = b. Proof. reflexivity. Qed.
Lemma zget_2 a b c (l : list Z) : zget (a :: b :: c :: l) 2 = c. Proof. reflexivity. Qed.
Lemma zget_3 a b c d (l : list Z) : zget (a :: b :: c :: d :: l) 3 = d. Proof. reflexivity. Qed.
Ltac zgets := rewrite ?zget_0, ?zget_1, ?zget_2, ?zget_3.

(** ** [std::format] of unsigned integers: [{:x}] and [{}] *)
Definition digit_char (d : Z) : ascii :=
  ascii_of_N (Z.to_N (if d <? 10 then 48 + d else 87 + d)).
Fixpoint fmt_digits (fuel : nat) (base z : Z) (acc : string) : string :=
  let acc := String (digit_char (z mod base)) acc in
  match fuel with
  | O => acc
  | S fuel => if z / base =? 0 then acc else fmt_digits fuel base (z / base) acc
  end.
(** 64 digits are enough for 64-bit values in any base. *)
Definition fmt_x (z : Z) : string := fmt_digits 64 16 z "".
Definition fmt_d (z : Z) : string := fmt_digits 64 10 z "".
(** [{:02x}], for values below 256. *)
Definition fmt_02x (z : Z) : string := if z <? 16 then "0" +:+ fmt_x z else fmt_x z.
(** [{:X}]. *)
Definition upper_char (c : ascii) : ascii :=
  let n := N_of_ascii c in if (N.leb 97 n && N.leb n 122)%N then ascii_of_N (n - 32) else c.
Definition fmt_X (z : Z) : string :=
  String.string_of_list_ascii (map upper_char (String.list_ascii_of_string (fmt_x z))).
(** [{:02X}], for values below 256. *)
Definition fmt_02X (z : Z) : string := if z <? 16 then "0" +:+ fmt_X z else fmt_X z.
(** [{:08X}]. *)
Definition fmt_08X (z : Z) : string :=
  let digits := String.list_ascii_of_string (fmt_X z) in
  String.string_of_list_ascii (replicate (8 - length digits) "0"%char ++ digits).
#[global] Arguments fmt_08X : simpl never.
#[global] Arguments fmt_x : simpl never.
#[global] Arguments fmt_X : simpl never.
#[global] Arguments fmt_02x : simpl never.
#[global] Arguments fmt_02X : simpl never.
#[global] Arguments fmt_d : simpl never.

(** ** Pieces of one width laid end to end *)
Lemma zlen_concat_map (f : Z -> list Z) w l :
  (forall x, zlen (f x) = w) -> zlen (List.concat (map f l)) = w * zlen l.
Proof.
  intros Hw. induction l as [|x l IH]; [cbn [map List.concat]; rewrite !zlen_nil; lia|].
  cbn [map List.concat]. rewrite zlen_app, Hw, IH, zlen_cons. lia.
Qed.
Lemma zget_concat_map (f : Z -> list Z) w l k i :
  (forall x, zlen (f x) = w) -> 0 <= k < zlen l -> 0 <= i < w ->
  zget (List.concat (map f l)) (w * k + i) = zget (f (zget l k)) i.
Proof.
  intros Hw. revert k. induction l as [|x l IH]; intros k Hk Hi; [unfold zlen in Hk; cbn [length] in Hk; lia|].
  rewrite zlen_cons in Hk. cbn [map List.concat]. destruct (decide (k = 0)) as [->|].
  - rewrite Z.mul_0_r, Z.add_0_l, zget_cons_0. by rewrite zget_app_l by (rewrite Hw; lia).
  - rewrite zget_app_r by (rewrite Hw; nia). rewrite Hw.
    replace (w * k + i - w) with (w * (k - 1) + i) by lia. rewrite IH by lia.
    by rewrite zget_cons_S by lia.
Qed.
Lemma zlen_map {A B} (f : A -> B) l : zlen (map f l) = zlen l.
Proof. unfold zlen. by rewrite length_map. Qed.
Lemma zlen_seqZ a n : zlen (seqZ a n) = Z.max 0 n.
Proof. unfold zlen. rewrite length_seqZ. lia. Qed.
Lemma zget_map_seqZ (f : Z -> Z) n k : 0 <= k < n -> zget (map f (seqZ 0 n)) k = f k.
Proof.
  intros Hk. unfold zget, zlookup. rewrite decide_True by lia.
  change (map f (seqZ 0 n)) with (f <$> seqZ 0 n). rewrite list_lookup_fmap.
  rewrite lookup_seqZ_lt by lia. cbn. f_equal. lia.
Qed.

(** ** Exclusive or keeps the width *)
Lemma lxor_range a b n : 0 <= n -> 0 <= a < 2 ^ n -> 0 <= b < 2 ^ n -> 0 <= Z.lxor a b < 2 ^ n.
Proof.
  intros Hn Ha Hb.
  assert (Z.lxor a b = Z.lxor a b mod 2 ^ n) as ->; [|apply Z.mod_pos_bound; lia].
  rewrite <- Z.land_ones by lia. apply Z.bits_inj'. intros k Hk.
  rewrite Z.land_spec, Z.testbit_ones_nonneg by lia. destruct (Z.ltb_spec k n); [by rewrite andb_true_r|].
  rewrite andb_false_r, Z.lxor_spec. by rewrite !(testbit_high _ n) by lia.
Qed.
Lemma lor_range a b n : 0 <= n -> 0 <= a < 2 ^ n -> 0 <= b < 2 ^ n -> 0 <= Z.lor a b < 2 ^ n.
Proof.
  intros Hn Ha Hb.
  assert (Z.lor a b = Z.lor a b mod 2 ^ n) as ->; [|apply Z.mod_pos_bound; lia].
  rewrite <- Z.land_ones by lia. apply Z.bits_inj'. intros k Hk.
  rewrite Z.land_spec, Z.testbit_ones_nonneg by lia. destruct (Z.ltb_spec k n); [by rewrite andb_true_r|].
  rewrite andb_false_r, Z.lor_spec. by rewrite !(testbit_high _ n) by lia.
Qed.
Lemma u16_lxor_ok a b : u16_ok a -> u16_ok b -> u16_ok (Z.lxor a b).
Proof. intros Ha Hb. apply (lxor_range a b 16); unfold u16_ok in *; lia. Qed.

(** ** Counted loops by their invariant, and filters *)
(** A counted loop by its invariant. *)
Lemma for_steps_inv {S} (P : Z -> S -> Prop) n i body (s : S) :
  P i s -> (forall k s, i <= k < i + Z.of_nat n -> P k s -> P (k + 1) (body k s)) ->
  P (i + Z.of_nat n) (for_steps n i 1 body s).
Proof.
  revert i s. induction n as [|n IH]; intros i s H0 Hs; cbn [for_steps].
  - by replace (i + Z.of_nat 0) with i by lia.
  - replace (i + Z.of_nat (Datatypes.S n)) with ((i + 1) + Z.of_nat n) by lia.
    apply IH; [apply Hs; [lia|done]|]. intros k s' Hk. apply Hs. lia.
Qed.
Lemma for_steps_ext {S} n i (f g : Z -> S -> S) s :
  (forall k s, i <= k < i + Z.of_nat n -> f k s = g k s) -> for_steps n i 1 f s = for_steps n i 1 g s.
Proof.
  revert i s. induction n as [|n IH]; intros i s H; cbn [for_steps]; [done|].
  rewrite H by lia. apply IH. intros k s' Hk. apply H. lia.
Qed.
Lemma filter_all {A} (P : A -> bool) l : Forall (fun x => P x = true) l -> List.filter P l = l.
Proof. induction 1 as [|x l E _ IH]; [done|]. cbn. by rewrite E, IH. Qed.

(** ** A list cut into pieces of one length *)
Lemma subspan_add {A} (l : list A) o a b :
  0 <= o -> 0 <= a -> 0 <= b -> subspan l o (a + b) = subspan l o a ++ subspan l (o + a) b.
Proof.
  intros Ho Ha Hb. unfold subspan, ztake, zdrop. rewrite Z2Nat.inj_add by lia.
  replace (Z.to_nat (o + a)) with (Z.to_nat o + Z.to_nat a)%nat by lia.
  by rewrite <- drop_drop, take_take_drop.
Qed.
Lemma subspan_subspan {A} (l : list A) o n a b :
  0 <= o -> 0 <= a -> 0 <= b -> a + b <= n -> subspan (subspan l o n) a b = subspan l (o + a) b.
Proof.
  intros Ho Ha Hb Hn. unfold subspan, ztake, zdrop. rewrite skipn_firstn_comm, drop_drop, take_take.
  f_equal; [|f_equal]; lia.
Qed.
Lemma subspan_app_middle {A} (a b c : list A) o n : zlen a = o -> zlen b = n -> subspan (a ++ b ++ c) o n = b.
Proof. intros <- <-. unfold subspan, ztake, zdrop, zlen. by rewrite !Nat2Z.id, drop_app_length, take_app_length. Qed.
Lemma subspan_cons (l : list Z) o n :
  0 <= o < zlen l -> 0 < n -> subspan l o n = zget l o :: subspan l (o + 1) (n - 1).
Proof.
  intros Ho Hn. replace n with (1 + (n - 1)) at 1 by lia. rewrite subspan_add by lia.
  change (zget l o :: subspan l (o + 1) (n - 1)) with ([zget l o] ++ subspan l (o + 1) (n - 1)). f_equal.
  apply zget_ext; [rewrite zlen_subspan; change (zlen [zget l o]) with 1; lia|]. intros i Hi. rewrite zlen_subspan in Hi.
  assert (i = 0) as -> by lia. rewrite zget_subspan by lia. by rewrite Z.add_0_r.
Qed.
Lemma concat_pieces {A} (l : list A) w i n :
  0 <= w -> 0 <= i -> 0 <= n ->
  List.concat (map (fun k => subspan l (w * k) w) (seqZ i n)) = subspan l (w * i) (w * n).
Proof.
  intros Hw Hi Hn. revert i Hi. pattern n. apply natlike_ind; [| |done].
  - intros i Hi. rewrite Z.mul_0_r. done.
  - intros m Hm IH i Hi. rewrite seqZ_cons by lia. cbn [map List.concat]. rewrite Z.pred_succ, IH by lia.
    replace (w * Z.succ m) with (w + w * m) by lia. rewrite subspan_add by nia. by replace (w * Z.succ i) with (w * i + w) by lia.
Qed.

(** ** Memory: the byte at every address; memories are compared address by address *)
Definition memory : Type := Z -> Z.
Definition store (m : memory) (addr : Z) (bytes : list Z) : memory :=
  fun a => if bool_decide (addr <= a < addr + zlen bytes) then zget bytes (a - addr) else m a.
#[global] Instance memory_equiv : Equiv memory := pointwise_relation Z eq.
#[global] Instance memory_equivalence : Equivalence (≡@{memory}).
Proof. unfold equiv, memory_equiv. apply _. Qed.
Lemma store_nil m addr a : store m addr [] a = m a.
Proof. unfold store. rewrite bool_decide_eq_false_2; [done|]. change (zlen []) with 0. lia. Qed.
Lemma store_app m addr p q a : store (store m addr p) (addr + zlen p) q a = store m addr (p ++ q) a.
Proof.
  pose proof (zlen_nonneg p). pose proof (zlen_nonneg q). unfold store. rewrite zlen_app. repeat case_bool_decide; try lia.
  - rewrite zget_app_r by lia. f_equal. lia.
  - by rewrite zget_app_l by lia.
Qed.
Lemma store_ext m1 m2 addr p : (forall a, m1 a = m2 a) -> forall a, store m1 addr p a = store m2 addr p a.
Proof. intros E a. unfold store. by case_bool_decide. Qed.
#[global] Instance store_proper : Proper ((≡@{memory}) ==> eq ==> eq ==> (≡@{memory})) store.
Proof. intros m1 m2 E addr _ <- p _ <-. exact (store_ext m1 m2 addr p E). Qed.
(** Two adjacent stores are one. *)
Lemma store_store m addr p q : store (store m addr p) (addr + zlen p) q ≡ store m addr (p ++ q).
Proof. exact (store_app m addr p q). Qed.
(** Obeying a sequence of frames respects the equality of memories. *)
Lemma fold_left_memory_proper {F} (obey : memory -> F -> memory) :
  (forall f, Proper ((≡@{memory}) ==> (≡@{memory})) (fun m => obey m f)) ->
  forall frames, Proper ((≡@{memory}) ==> (≡@{memory})) (fold_left obey frames).
Proof.
  intros Ho frames. induction frames as [|f l IH]; intros m1 m2 E; [done|]. cbn [fold_left]. apply IH. exact (Ho f m1 m2 E).
Qed.
Lemma concat_singletons {A B} (f : A -> B) l : List.concat (map (fun a => [f a]) l) = map f l.
Proof. induction l as [|a l IH]; [done|]. cbn. by rewrite IH. Qed.

(** ** A positive number as the list of its bits, for sample encodings of data as bytes *)
Fixpoint pos_bits (p : positive) : list Z := match p with xH => [] | xO p => 0 :: pos_bits p | xI p => 1 :: pos_bits p end.
Fixpoint bits_pos (l : list Z) : positive :=
  match l with [] => xH | b :: l => if b =? 0 then xO (bits_pos l) else xI (bits_pos l) end.
Lemma bits_pos_bits p : bits_pos (pos_bits p) = p.
Proof. induction p as [p IH|p IH|]; cbn; [by rewrite IH..|done]. Qed.
Lemma pos_bits_bytes p : bytes_ok (pos_bits p).
Proof. induction p as [p IH|p IH|]; constructor; try done; unfold byte_ok; lia. Qed.
