(* ===== verification/Bytes.v ===== *)
(** * Bytes: [src/algorithms/protocol/bytes.h], [bytes_compose.h],
    [bytes_views.h] and [fixed_buffer.h]

    Byte vectors, the fixed-width big- and little-endian accessors, the frame
    composer and the 8-bit additive checksum every protocol module uses. Byte
    values are integers in [0, 256); [Bytes], [ByteView] and [MutableByteView]
    are lists, and a function that mutates its argument returns the new list. *)
From S2P Require Import Prelude.
From Stdlib Require Import Ascii.

(** ** Appending *)
Definition AppendU16Be (out : list Z) (value : Z) : list Z :=
  out ++ [u8 (Z.land (Z.shiftr value 8) 255); u8 (Z.land value 255)].
Definition AppendU24Be (out : list Z) (value : Z) : list Z :=
  out ++ [u8 (Z.land (Z.shiftr value 16) 255); u8 (Z.land (Z.shiftr value 8) 255);
          u8 (Z.land value 255)].
Definition AppendU32Be (out : list Z) (value : Z) : list Z :=
  out ++ [u8 (Z.land (Z.shiftr value 24) 255); u8 (Z.land (Z.shiftr value 16) 255);
          u8 (Z.land (Z.shiftr value 8) 255); u8 (Z.land value 255)].
Definition AppendU16Le (out : list Z) (value : Z) : list Z :=
  out ++ [u8 (Z.land value 255); u8 (Z.land (Z.shiftr value 8) 255)].
Definition AppendU24Le (out : list Z) (value : Z) : list Z :=
  out ++ [u8 (Z.land value 255); u8 (Z.land (Z.shiftr value 8) 255);
          u8 (Z.land (Z.shiftr value 16) 255)].
Definition AppendU32Le (out : list Z) (value : Z) : list Z :=
  out ++ [u8 (Z.land value 255); u8 (Z.land (Z.shiftr value 8) 255);
          u8 (Z.land (Z.shiftr value 16) 255); u8 (Z.land (Z.shiftr value 24) 255)].

(** ** Reading: 0 when the field does not fit *)
Definition FitsAt (bytes : list Z) (offset count : Z) : bool :=
  (count <=? zlen bytes) && (offset <=? zlen bytes - count).

Definition ReadU16Be (bytes : list Z) (offset : Z) : Z :=
  if negb (FitsAt bytes offset 2) then 0
  else u16 (Z.lor (Z.shiftl (zget bytes offset) 8) (zget bytes (offset + 1))).
Definition ReadU24Be (bytes : list Z) (offset : Z) : Z :=
  if negb (FitsAt bytes offset 3) then 0
  else Z.lor (Z.lor (Z.shiftl (zget bytes offset) 16) (Z.shiftl (zget bytes (offset + 1)) 8))
             (zget bytes (offset + 2)).
Definition ReadU32Be (bytes : list Z) (offset : Z) : Z :=
  if negb (FitsAt bytes offset 4) then 0
  else Z.lor (Z.lor (Z.lor (Z.shiftl (zget bytes offset) 24) (Z.shiftl (zget bytes (offset + 1)) 16))
                    (Z.shiftl (zget bytes (offset + 2)) 8))
             (zget bytes (offset + 3)).
Definition ReadU16Le (bytes : list Z) (offset : Z) : Z :=
  if negb (FitsAt bytes offset 2) then 0
  else u16 (Z.lor (zget bytes offset) (Z.shiftl (zget bytes (offset + 1)) 8)).
Definition ReadU24Le (bytes : list Z) (offset : Z) : Z :=
  if negb (FitsAt bytes offset 3) then 0
  else Z.lor (Z.lor (zget bytes offset) (Z.shiftl (zget bytes (offset + 1)) 8))
             (Z.shiftl (zget bytes (offset + 2)) 16).
Definition ReadU32Le (bytes : list Z) (offset : Z) : Z :=
  if negb (FitsAt bytes offset 4) then 0
  else Z.lor (Z.lor (Z.lor (zget bytes offset) (Z.shiftl (zget bytes (offset + 1)) 8))
                    (Z.shiftl (zget bytes (offset + 2)) 16))
             (Z.shiftl (zget bytes (offset + 3)) 24).

Definition ReadUBe (bytes : list Z) (offset width : Z) : Z :=
  if width =? 1 then (if offset <? zlen bytes then zget bytes offset else 0)
  else if width =? 2 then ReadU16Be bytes offset
  else if width =? 3 then ReadU24Be bytes offset
  else if width =? 4 then ReadU32Be bytes offset
  else 0.
Definition ReadULe (bytes : list Z) (offset width : Z) : Z :=
  if width =? 1 then (if offset <? zlen bytes then zget bytes offset else 0)
  else if width =? 2 then ReadU16Le bytes offset
  else if width =? 3 then ReadU24Le bytes offset
  else if width =? 4 then ReadU32Le bytes offset
  else 0.

(** ** Writing in place: nothing when the field does not fit *)
Definition OverwriteAt (out : list Z) (offset : Z) (payload : list Z) : list Z :=
  if zlen out <=? offset then out
  else
    let count := Z.min (zlen payload) (zlen out - offset) in
    splice out offset (ztake count payload).

Definition WriteU16Be (out : list Z) (offset value : Z) : list Z :=
  if negb (FitsAt out offset 2) then out
  else
    let out := zset out offset (u8 (Z.land (Z.shiftr value 8) 255)) in
    zset out (offset + 1) (u8 (Z.land value 255)).
Definition WriteU24Be (out : list Z) (offset value : Z) : list Z :=
  if negb (FitsAt out offset 3) then out
  else
    let out := zset out offset (u8 (Z.land (Z.shiftr value 16) 255)) in
    let out := zset out (offset + 1) (u8 (Z.land (Z.shiftr value 8) 255)) in
    zset out (offset + 2) (u8 (Z.land value 255)).
Definition WriteU32Be (out : list Z) (offset value : Z) : list Z :=
  if negb (FitsAt out offset 4) then out
  else
    let out := zset out offset (u8 (Z.land (Z.shiftr value 24) 255)) in
    let out := zset out (offset + 1) (u8 (Z.land (Z.shiftr value 16) 255)) in
    let out := zset out (offset + 2) (u8 (Z.land (Z.shiftr value 8) 255)) in
    zset out (offset + 3) (u8 (Z.land value 255)).
Definition WriteU16Le (out : list Z) (offset value : Z) : list Z :=
  if negb (FitsAt out offset 2) then out
  else
    let out := zset out offset (u8 (Z.land value 255)) in
    zset out (offset + 1) (u8 (Z.land (Z.shiftr value 8) 255)).
Definition WriteU24Le (out : list Z) (offset value : Z) : list Z :=
  if negb (FitsAt out offset 3) then out
  else
    let out := zset out offset (u8 (Z.land value 255)) in
    let out := zset out (offset + 1) (u8 (Z.land (Z.shiftr value 8) 255)) in
    zset out (offset + 2) (u8 (Z.land (Z.shiftr value 16) 255)).
Definition WriteU32Le (out : list Z) (offset value : Z) : list Z :=
  if negb (FitsAt out offset 4) then out
  else
    let out := zset out offset (u8 (Z.land value 255)) in
    let out := zset out (offset + 1) (u8 (Z.land (Z.shiftr value 8) 255)) in
    let out := zset out (offset + 2) (u8 (Z.land (Z.shiftr value 16) 255)) in
    zset out (offset + 3) (u8 (Z.land (Z.shiftr value 24) 255)).

(** ** The additive 8-bit checksum

    [std::accumulate] from [0U] adds in 32 bits. *)
Definition Sum8Range (bytes : list Z) (from len : Z) : Z :=
  if zlen bytes <=? from then 0
  else
    let slice := subspan bytes from (Z.min len (zlen bytes - from)) in
    let sum := fold_left (fun acc b => u32 (acc + b)) slice 0 in
    u8 (Z.land sum 255).
Definition Sum8 (bytes : list Z) : Z := Sum8Range bytes 0 (zlen bytes).

(** ** Hexadecimal text *)
Definition hex_digit (d : Z) : ascii :=
  ascii_of_N (Z.to_N (if d <? 10 then 48 + d else 87 + d)).
(** [ToHex] with its default format: two lowercase digits and a space per byte. *)
Definition ToHex (bytes : list Z) : string :=
  fold_right (fun b s => String (hex_digit (b / 16)) (String (hex_digit (b mod 16)) (String " " s)))
    EmptyString bytes.

(** ** Composing frames: [bytes_compose.h]

    One constructor per argument type the width law accepts. *)
Inductive field : Type :=
| FByte (value : Z)
| FU16 (value : Z)
| FU24 (value : Z)
| FU32 (value : Z)
| FText (text : string)
| FBytes (range : list Z)
| FWide (element_width : nat) (range : list Z).

Definition text_bytes (s : string) : list Z :=
  map (fun c => Z.of_N (N_of_ascii c)) (String.list_ascii_of_string s).

Definition WidthBe (arg : field) : Z :=
  match arg with
  | FByte _ => 1
  | FU16 _ => 2
  | FU24 _ => 3
  | FU32 _ => 4
  | FText s => Z.of_nat (String.length s)
  | FBytes l => zlen l
  | FWide w l => Z.of_nat w * zlen l
  end.

(** [for (shift = Width; shift-- > 0;) *out++ = value >> (8 * shift)]. *)
Fixpoint EmitIntegerBe (shift : nat) (value : Z) : list Z :=
  match shift with
  | O => []
  | S k => u8 (Z.shiftr value (8 * Z.of_nat k)) :: EmitIntegerBe k value
  end.

Definition EmitBe (arg : field) : list Z :=
  match arg with
  | FByte v => EmitIntegerBe 1 v
  | FU16 v => EmitIntegerBe 2 v
  | FU24 v => EmitIntegerBe 3 v
  | FU32 v => EmitIntegerBe 4 v
  | FText s => text_bytes s
  | FBytes l => map u8 l
  | FWide w l => List.concat (map (EmitIntegerBe w) l)
  end.

Definition ComposeBe (args : list field) : list Z := List.concat (map EmitBe args).
(** The checksum's return type fixes how many bytes it appends. *)
Definition ComposeBeWithChecksum (checksum : list Z -> field) (args : list field) : list Z :=
  let out := ComposeBe args in out ++ EmitBe (checksum out).
Definition Sum8Field (bytes : list Z) : field := FByte (Sum8 bytes).

(** ** [bytes_views.h]: each four bytes as a big-endian word *)
Definition kU32Be (data : list Z) : list Z :=
  map (fun word =>
         let b := subspan data (word * 4) 4 in
         Z.lor (Z.lor (Z.lor (Z.shiftl (zget b 0) 24) (Z.shiftl (zget b 1) 16)) (Z.shiftl (zget b 2) 8))
               (zget b 3))
      (seqZ 0 (zlen data / 4)).

(** ** [fixed_buffer.h]: text up to the first NUL *)
Fixpoint FromFixedBuffer (buffer : list Z) : list Z :=
  match buffer with
  | [] => []
  | c :: rest => if c =? 0 then [] else c :: FromFixedBuffer rest
  end.
Definition FromFixedBufferDroppingLast (buffer : list Z) : list Z :=
  let text := FromFixedBuffer buffer in
  match text with [] => [] | _ => ztake (zlen text - 1) text end.

(** ** Lemmas *)
Definition be16 (v : Z) : list Z := AppendU16Be [] v.
Definition be32 (v : Z) : list Z := AppendU32Be [] v.

Lemma FitsAt_iff l off n : 0 <= n -> 0 <= off -> FitsAt l off n = true <-> off + n <= zlen l.
Proof. intros. unfold FitsAt. rewrite andb_true_iff, !Z.leb_le. lia. Qed.
Lemma FitsAt_true l off n : 0 <= n -> 0 <= off -> off + n <= zlen l -> FitsAt l off n = true.
Proof. intros. by apply FitsAt_iff. Qed.
Lemma FitsAt_false l off n : 0 <= n -> 0 <= off -> zlen l < off + n -> FitsAt l off n = false.
Proof. intros. apply not_true_iff_false. rewrite FitsAt_iff by lia. lia. Qed.

Lemma byte_lane v k : 0 <= k -> u8 (Z.land (Z.shiftr v k) 255) = (v / 2 ^ k) mod 256.
Proof. intros. rewrite land_255, shiftr_div by done. apply u8_small, Z.mod_pos_bound. lia. Qed.
Lemma byte_lane0 v : u8 (Z.land v 255) = v mod 256.
Proof. rewrite land_255. apply u8_small, Z.mod_pos_bound. lia. Qed.
Lemma byte_lane8 v : u8 (Z.land (Z.shiftr v 8) 255) = (v / 256) mod 256.
Proof. by apply byte_lane. Qed.
Lemma byte_lane16 v : u8 (Z.land (Z.shiftr v 16) 255) = (v / 65536) mod 256.
Proof. by apply byte_lane. Qed.
Lemma byte_lane24 v : u8 (Z.land (Z.shiftr v 24) 255) = (v / 16777216) mod 256.
Proof. by apply byte_lane. Qed.
#[export] Hint Rewrite byte_lane8 byte_lane16 byte_lane24 : word.
Ltac lanes := rewrite ?byte_lane8, ?byte_lane16, ?byte_lane24, ?byte_lane0.

(** Big-endian combination of byte values as arithmetic. *)
Lemma be_combine2 a b : byte_ok b -> Z.lor (Z.shiftl a 8) b = a * 256 + b.
Proof. intros. by rewrite lor_shiftl_add by (unfold byte_ok in *; lia). Qed.
Lemma be_combine3 a b c :
  byte_ok b -> byte_ok c ->
  Z.lor (Z.lor (Z.shiftl a 16) (Z.shiftl b 8)) c = a * 65536 + b * 256 + c.
Proof.
  unfold byte_ok. intros. rewrite <- Z.lor_assoc, (lor_shiftl_add b c 8) by lia.
  rewrite lor_shiftl_add by lia. lia.
Qed.
Lemma be_combine4 a b c d :
  byte_ok b -> byte_ok c -> byte_ok d ->
  Z.lor (Z.lor (Z.lor (Z.shiftl a 24) (Z.shiftl b 16)) (Z.shiftl c 8)) d
  = a * 16777216 + b * 65536 + c * 256 + d.
Proof.
  unfold byte_ok. intros. rewrite <- !Z.lor_assoc, (lor_shiftl_add c d 8) by lia.
  rewrite (lor_shiftl_add b _ 16) by lia. rewrite lor_shiftl_add by lia. lia.
Qed.

Lemma ReadU16Be_val l off :
  bytes_ok l -> 0 <= off -> off + 2 <= zlen l ->
  ReadU16Be l off = zget l off * 256 + zget l (off + 1).
Proof.
  intros. unfold ReadU16Be. rewrite FitsAt_true by lia. simpl.
  pose proof (bytes_ok_zget l off ltac:(done)). pose proof (bytes_ok_zget l (off + 1) ltac:(done)).
  rewrite be_combine2 by done. apply u16_small. unfold byte_ok, u16_ok in *. lia.
Qed.
Lemma ReadU32Be_val l off :
  bytes_ok l -> 0 <= off -> off + 4 <= zlen l ->
  ReadU32Be l off =
    zget l off * 16777216 + zget l (off + 1) * 65536 + zget l (off + 2) * 256 + zget l (off + 3).
Proof.
  intros. unfold ReadU32Be. rewrite FitsAt_true by lia. simpl.
  apply be_combine4; by apply bytes_ok_zget.
Qed.
Lemma ReadU32Be_range l off : bytes_ok l -> 0 <= off -> u32_ok (ReadU32Be l off).
Proof.
  intros Hl Ho. destruct (decide (off + 4 <= zlen l)).
  - rewrite ReadU32Be_val by (done || lia).
    pose proof (bytes_ok_zget l off Hl). pose proof (bytes_ok_zget l (off + 1) Hl).
    pose proof (bytes_ok_zget l (off + 2) Hl). pose proof (bytes_ok_zget l (off + 3) Hl).
    unfold byte_ok, u32_ok in *. lia.
  - unfold ReadU32Be. rewrite FitsAt_false by lia. unfold u32_ok. simpl. lia.
Qed.
Lemma ReadU16Be_range l off : u16_ok (ReadU16Be l off).
Proof. unfold ReadU16Be. destruct (negb _); [unfold u16_ok; lia|apply u16_range]. Qed.

(** A write of a field is a splice of its encoding. *)
Lemma zset2_splice (l : list Z) off a b :
  0 <= off -> off + 2 <= zlen l -> zset (zset l off a) (off + 1) b = splice l off [a; b].
Proof.
  intros. apply zget_ext; [rewrite !zlen_zset, zlen_splice by (zl); done|].
  rewrite !zlen_zset. intros i Hi.
  rewrite zget_splice by (zl). rewrite !zget_zset, !zlen_zset. change (zlen [a; b]) with 2.
  destruct (decide (i = off)) as [->|]; [|destruct (decide (i = off + 1)) as [->|]].
  - rewrite decide_False, !decide_True by lia. by rewrite Z.sub_diag.
  - rewrite !decide_True by lia. by replace (off + 1 - off) with 1 by lia.
  - by rewrite !decide_False by lia.
Qed.
Lemma zset4_splice (l : list Z) off a b c d :
  0 <= off -> off + 4 <= zlen l ->
  zset (zset (zset (zset l off a) (off + 1) b) (off + 2) c) (off + 3) d = splice l off [a; b; c; d].
Proof.
  intros. apply zget_ext; [rewrite !zlen_zset, zlen_splice by (zl); done|].
  rewrite !zlen_zset. intros i Hi.
  rewrite zget_splice by (zl). rewrite !zget_zset, !zlen_zset. change (zlen [a; b; c; d]) with 4.
  destruct (decide (off <= i < off + 4)) as [H4|H4]; [|by rewrite !decide_False by lia].
  assert (i - off = 0 \/ i - off = 1 \/ i - off = 2 \/ i - off = 3) as [E|[E|[E|E]]] by lia;
    rewrite E; repeat case_decide; try lia; reflexivity.
Qed.
Lemma WriteU16Be_splice l off v :
  0 <= off -> off + 2 <= zlen l -> WriteU16Be l off v = splice l off (be16 v).
Proof. intros. unfold WriteU16Be. rewrite FitsAt_true by lia. simpl. by rewrite zset2_splice by lia. Qed.
Lemma WriteU32Be_splice l off v :
  0 <= off -> off + 4 <= zlen l -> WriteU32Be l off v = splice l off (be32 v).
Proof. intros. unfold WriteU32Be. rewrite FitsAt_true by lia. simpl. by rewrite zset4_splice by lia. Qed.

Lemma zlen_be16 v : zlen (be16 v) = 2.
Proof. reflexivity. Qed.
Lemma zlen_be32 v : zlen (be32 v) = 4.
Proof. reflexivity. Qed.
Lemma bytes_ok_be16 v : bytes_ok (be16 v).
Proof. repeat constructor; apply u8_range. Qed.
Lemma bytes_ok_be32 v : bytes_ok (be32 v).
Proof. repeat constructor; apply u8_range. Qed.
Lemma zlen_WriteU16Be l off v : zlen (WriteU16Be l off v) = zlen l.
Proof. unfold WriteU16Be. destruct (negb _); [done|]. by rewrite !zlen_zset. Qed.
Lemma zlen_WriteU32Be l off v : zlen (WriteU32Be l off v) = zlen l.
Proof. unfold WriteU32Be. destruct (negb _); [done|]. by rewrite !zlen_zset. Qed.
Lemma bytes_ok_WriteU16Be l off v : bytes_ok l -> bytes_ok (WriteU16Be l off v).
Proof. intros. unfold WriteU16Be. destruct (negb _); eauto 8 with bytes. Qed.
Lemma bytes_ok_WriteU32Be l off v : bytes_ok l -> bytes_ok (WriteU32Be l off v).
Proof. intros. unfold WriteU32Be. destruct (negb _); eauto 8 with bytes. Qed.
#[export] Hint Rewrite zlen_be16 zlen_be32 zlen_WriteU16Be zlen_WriteU32Be : zlen.
#[export] Hint Resolve bytes_ok_be16 bytes_ok_be32 bytes_ok_WriteU16Be bytes_ok_WriteU32Be : bytes.

(** Reading from a splice. *)
Lemma ReadU32Be_ext l1 l2 off1 off2 :
  0 <= off1 -> 0 <= off2 -> off1 + 4 <= zlen l1 -> off2 + 4 <= zlen l2 ->
  (forall i, 0 <= i < 4 -> zget l1 (off1 + i) = zget l2 (off2 + i)) ->
  ReadU32Be l1 off1 = ReadU32Be l2 off2.
Proof.
  intros ? ? ? ? H. unfold ReadU32Be. rewrite !FitsAt_true by lia. simpl.
  rewrite (H 1), (H 2), (H 3) by lia. specialize (H 0 ltac:(lia)). rewrite !Z.add_0_r in H. by rewrite H.
Qed.
Lemma ReadU16Be_ext l1 l2 off1 off2 :
  0 <= off1 -> 0 <= off2 -> off1 + 2 <= zlen l1 -> off2 + 2 <= zlen l2 ->
  (forall i, 0 <= i < 2 -> zget l1 (off1 + i) = zget l2 (off2 + i)) ->
  ReadU16Be l1 off1 = ReadU16Be l2 off2.
Proof.
  intros ? ? ? ? H. unfold ReadU16Be. rewrite !FitsAt_true by lia. simpl.
  rewrite (H 1) by lia. specialize (H 0 ltac:(lia)). rewrite !Z.add_0_r in H. by rewrite H.
Qed.
Lemma ReadU32Be_subspan l o n off :
  0 <= o -> 0 <= off -> off + 4 <= n -> o + n <= zlen l ->
  ReadU32Be (subspan l o n) off = ReadU32Be l (o + off).
Proof.
  intros. apply ReadU32Be_ext; [lia|lia|rewrite zlen_subspan; lia|lia|].
  intros i Hi. rewrite zget_subspan by lia. f_equal. lia.
Qed.
Lemma ReadU32Be_be32 v : ReadU32Be (be32 v) 0 = u32 v.
Proof.
  rewrite ReadU32Be_val by (first [apply bytes_ok_be32|rewrite ?zlen_be32; lia]).
  unfold be32, AppendU32Be, zget, zlookup. simpl. lanes. zmod.
Qed.
Lemma ReadU16Be_be16 v : ReadU16Be (be16 v) 0 = u16 v.
Proof.
  rewrite ReadU16Be_val by (first [apply bytes_ok_be16|rewrite ?zlen_be16; lia]).
  unfold be16, AppendU16Be, zget, zlookup. simpl. lanes. zmod.
Qed.
Lemma ReadU32Be_WriteU32Be_same l off v :
  0 <= off -> off + 4 <= zlen l -> ReadU32Be (WriteU32Be l off v) off = u32 v.
Proof.
  intros. rewrite WriteU32Be_splice by lia. rewrite <- (ReadU32Be_be32 v).
  apply ReadU32Be_ext; [lia|lia|rewrite zlen_splice; zl|zl|].
  intros i Hi. rewrite zget_splice by (zl). rewrite decide_True by (zl). f_equal. lia.
Qed.
Lemma ReadU16Be_WriteU16Be_same l off v :
  0 <= off -> off + 2 <= zlen l -> ReadU16Be (WriteU16Be l off v) off = u16 v.
Proof.
  intros. rewrite WriteU16Be_splice by lia. rewrite <- (ReadU16Be_be16 v).
  apply ReadU16Be_ext; [lia|lia|rewrite zlen_splice; zl|zl|].
  intros i Hi. rewrite zget_splice by (zl). rewrite decide_True by (zl). f_equal. lia.
Qed.
Lemma ReadU32Be_splice_other l off p off' :
  0 <= off -> 0 <= off' -> off + zlen p <= zlen l -> off' + 4 <= zlen l ->
  off' + 4 <= off \/ off + zlen p <= off' ->
  ReadU32Be (splice l off p) off' = ReadU32Be l off'.
Proof.
  intros. apply ReadU32Be_ext; [lia|lia|rewrite zlen_splice; lia|lia|].
  intros i Hi. rewrite zget_splice by lia. by rewrite decide_False by lia.
Qed.

(** ** Composed frames *)
Lemma zlen_EmitIntegerBe n v : zlen (EmitIntegerBe n v) = Z.of_nat n.
Proof. induction n as [|n IH]; [done|]. cbn [EmitIntegerBe]. rewrite zlen_cons, IH. lia. Qed.
Lemma bytes_ok_EmitIntegerBe n v : bytes_ok (EmitIntegerBe n v).
Proof. induction n; constructor; [apply u8_range|done]. Qed.
Lemma text_bytes_ok s : bytes_ok (text_bytes s).
Proof.
  apply Forall_map, Forall_true. intros c. unfold byte_ok.
  pose proof (N_ascii_bounded c). lia.
Qed.
Lemma zlen_text_bytes s : zlen (text_bytes s) = Z.of_nat (String.length s).
Proof.
  unfold text_bytes, zlen. rewrite length_map. f_equal. induction s as [|c s IH]; [done|].
  simpl. by rewrite IH.
Qed.
Lemma zlen_EmitBe f : zlen (EmitBe f) = WidthBe f.
Proof.
  destruct f as [| | | |s|l|w l]; try apply zlen_EmitIntegerBe; cbn [EmitBe WidthBe].
  - apply zlen_text_bytes.
  - unfold zlen. by rewrite length_map.
  - induction l as [|x l IH]; [by rewrite Z.mul_0_r|].
    cbn [map List.concat]. rewrite zlen_app, IH, zlen_EmitIntegerBe, zlen_cons. lia.
Qed.
Lemma bytes_ok_EmitBe f : bytes_ok (EmitBe f).
Proof.
  destruct f as [| | | |s|l|w l]; try apply bytes_ok_EmitIntegerBe; cbn [EmitBe].
  - apply text_bytes_ok.
  - apply Forall_map, Forall_true. intros; apply u8_range.
  - induction l; [constructor|]. apply bytes_ok_app; [apply bytes_ok_EmitIntegerBe|done].
Qed.
Lemma ComposeBe_cons f fs : ComposeBe (f :: fs) = EmitBe f ++ ComposeBe fs.
Proof. reflexivity. Qed.
Lemma bytes_ok_ComposeBe fs : bytes_ok (ComposeBe fs).
Proof. induction fs; [constructor|]. apply bytes_ok_app; [apply bytes_ok_EmitBe|done]. Qed.
Lemma EmitBe_FByte b : byte_ok b -> EmitBe (FByte b) = [b].
Proof. intros. cbn. rewrite Z.shiftr_0_r. by rewrite u8_small. Qed.
Lemma EmitBe_FBytes l : bytes_ok l -> EmitBe (FBytes l) = l.
Proof.
  intros H. cbn. induction H as [|x l Hx Hl IH]; [done|]. cbn. by rewrite IH, u8_small.
Qed.
#[export] Hint Resolve bytes_ok_EmitIntegerBe bytes_ok_EmitBe bytes_ok_ComposeBe : bytes.
#[export] Hint Rewrite zlen_EmitIntegerBe zlen_EmitBe : zlen.

(** The 32-bit accumulator never changes the 8-bit sum. *)
Lemma Sum8_zsum l : Sum8 l = u8 (zsum l).
Proof.
  unfold Sum8, Sum8Range. destruct l as [|x l]; [done|].
  assert ((zlen (x :: l) <=? 0) = false) as ->.
  { apply Z.leb_gt. rewrite zlen_cons. pose proof (zlen_nonneg l). lia. }
  rewrite subspan_full by lia. change 0 with (u32 0) at 1.
  rewrite fold_left_u32_zsum. rewrite byte_lane0. zmod.
Qed.
Lemma Sum8_range l : byte_ok (Sum8 l).
Proof. rewrite Sum8_zsum. apply u8_range. Qed.
Lemma Sum8Range_prefix l n : 0 < n -> n <= zlen l -> Sum8Range l 0 n = Sum8 (ztake n l).
Proof.
  intros. unfold Sum8, Sum8Range. rewrite zlen_ztake.
  rewrite !(proj2 (Z.leb_gt _ _)) by lia. rewrite !Z.sub_0_r, !Z.min_l by lia.
  rewrite (Z.max_r 0 n) by lia. unfold subspan, zdrop, ztake. change (Z.to_nat 0) with 0%nat.
  by rewrite !drop_0, take_take, Nat.min_id.
Qed.

(** Reading back an integer field: the big-endian reader of the field's width
    gives the value the composer was given. *)
Lemma zget_EmitIntegerBe n v k :
  0 <= k < Z.of_nat n -> zget (EmitIntegerBe n v) k = (v / 2 ^ (8 * (Z.of_nat n - 1 - k))) mod 256.
Proof.
  revert k. induction n as [|n IH]; intros k Hk; [lia|]. cbn [EmitIntegerBe].
  destruct (decide (k = 0)) as [->|].
  - rewrite zget_cons_0. unfold u8. rewrite shiftr_div by lia. do 3 f_equal. lia.
  - rewrite zget_cons_S by lia. rewrite IH by lia. do 4 f_equal. lia.
Qed.
Lemma ReadUBe_EmitIntegerBe n v :
  (1 <= n <= 4)%nat -> ReadUBe (EmitIntegerBe n v) 0 (Z.of_nat n) = v mod 2 ^ (8 * Z.of_nat n).
Proof.
  intros Hn. pose proof (bytes_ok_EmitIntegerBe n v) as Hb. pose proof (zlen_EmitIntegerBe n v) as Hl.
  assert (n = 1 \/ n = 2 \/ n = 3 \/ n = 4)%nat as [-> | [-> | [-> | ->]]] by lia.
  - cbn. rewrite Z.shiftr_0_r. reflexivity.
  - cbn [ReadUBe]. change (ReadU16Be (EmitIntegerBe 2 v) 0 = v mod 65536).
    rewrite ReadU16Be_val by (done || lia). rewrite !zget_EmitIntegerBe by lia.
    change (2 ^ (8 * (Z.of_nat 2 - 1 - 0))) with 256. change (2 ^ (8 * (Z.of_nat 2 - 1 - (0 + 1)))) with 1. zmod.
  - change (ReadU24Be (EmitIntegerBe 3 v) 0 = v mod 16777216).
    unfold ReadU24Be. rewrite FitsAt_true by lia. simpl negb. cbv iota.
    rewrite be_combine3 by (by apply bytes_ok_zget). rewrite !zget_EmitIntegerBe by lia.
    change (2 ^ (8 * (Z.of_nat 3 - 1 - 0))) with 65536. change (2 ^ (8 * (Z.of_nat 3 - 1 - (0 + 1)))) with 256.
    change (2 ^ (8 * (Z.of_nat 3 - 1 - (0 + 2)))) with 1. zmod.
  - change (ReadU32Be (EmitIntegerBe 4 v) 0 = v mod 4294967296).
    rewrite ReadU32Be_val by (done || lia). rewrite !zget_EmitIntegerBe by lia.
    change (2 ^ (8 * (Z.of_nat 4 - 1 - 0))) with 16777216. change (2 ^ (8 * (Z.of_nat 4 - 1 - (0 + 1)))) with 65536.
    change (2 ^ (8 * (Z.of_nat 4 - 1 - (0 + 2)))) with 256. change (2 ^ (8 * (Z.of_nat 4 - 1 - (0 + 3)))) with 1. zmod.
Qed.

(** Little-endian combination. *)
Lemma ReadU32Le_4 a b c d :
  byte_ok a -> byte_ok b -> byte_ok c -> byte_ok d ->
  ReadU32Le [a; b; c; d] 0 = d * 16777216 + c * 65536 + b * 256 + a.
Proof.
  intros. unfold ReadU32Le. cbn [FitsAt negb]. change (negb (FitsAt [a; b; c; d] 0 4)) with false. cbv iota.
  change (0 + 1) with 1. change (0 + 2) with 2. change (0 + 3) with 3. zgets.
  rewrite <- (be_combine4 d c b a) by done.
  rewrite (Z.lor_comm _ (Z.shiftl d 24)), (Z.lor_comm _ (Z.shiftl c 16)), !Z.lor_assoc.
  rewrite <- !Z.lor_assoc. do 2 f_equal. apply Z.lor_comm.
Qed.

(** The little-endian value of some bytes, and the bytes of a value. *)
Fixpoint le_value (l : list Z) : Z := match l with [] => 0 | b :: l => b + 256 * le_value l end.
Fixpoint le_bytes (n : nat) (v : Z) : list Z :=
  match n with O => [] | S n => v mod 256 :: le_bytes n (v / 256) end.
Lemma zlen_le_bytes n v : zlen (le_bytes n v) = Z.of_nat n.
Proof. revert v. induction n as [|n IH]; intros v; [done|]. cbn [le_bytes]. rewrite zlen_cons, IH. lia. Qed.
Lemma bytes_ok_le_bytes n v : bytes_ok (le_bytes n v).
Proof. revert v. induction n as [|n IH]; intros v; constructor; [apply (u8_range v)|apply IH]. Qed.
Lemma le_value_bytes n v : le_value (le_bytes n v) = v mod 256 ^ Z.of_nat n.
Proof.
  revert v. induction n as [|n IH]; intros v; cbn [le_value le_bytes]; [by rewrite Z.mod_1_r|].
  rewrite IH. rewrite Nat2Z.inj_succ, Z.pow_succ_r by lia. rewrite Z.rem_mul_r by lia. done.
Qed.
Lemma ReadULe_val l off w :
  bytes_ok l -> 0 <= off -> 1 <= w <= 4 -> off + w <= zlen l -> ReadULe l off w = le_value (subspan l off w).
Proof.
  intros Hl Ho Hw Hf.
  pose proof (bytes_ok_zget l off Hl) as B0. pose proof (bytes_ok_zget l (off + 1) Hl) as B1.
  pose proof (bytes_ok_zget l (off + 2) Hl) as B2. pose proof (bytes_ok_zget l (off + 3) Hl) as B3.
  assert (w = 1 \/ w = 2 \/ w = 3 \/ w = 4) as [-> | [-> | [-> | ->]]] by lia; unfold ReadULe; cbn [Z.eqb Pos.eqb];
    repeat rewrite subspan_cons by lia; replace (off + 1 + 1) with (off + 2) by lia;
    replace (off + 2 + 1) with (off + 3) by lia;
    repeat match goal with |- context [subspan l ?a ?b] => change (subspan l a b) with (@nil Z) end; cbn [le_value].
  - rewrite (proj2 (Z.ltb_lt _ _)) by lia. lia.
  - unfold ReadU16Le. rewrite FitsAt_true by lia. cbn [negb]. rewrite Z.lor_comm, be_combine2 by done.
    rewrite u16_small; unfold byte_ok, u16_ok in *; lia.
  - unfold ReadU24Le. rewrite FitsAt_true by lia. cbn [negb].
    rewrite Z.lor_comm, (Z.lor_comm (zget l off)), Z.lor_assoc, be_combine3 by done. lia.
  - unfold ReadU32Le. rewrite FitsAt_true by lia. cbn [negb].
    rewrite Z.lor_comm, (Z.lor_comm _ (Z.shiftl (zget l (off + 2)) 16)), (Z.lor_comm (zget l off)), !Z.lor_assoc,
      be_combine4 by done. lia.
Qed.

(** A field read out of the middle of a frame. *)
Lemma ReadUBe_ext l1 l2 off1 off2 w :
  0 <= off1 -> 0 <= off2 -> 1 <= w <= 4 -> off1 + w <= zlen l1 -> off2 + w <= zlen l2 ->
  (forall i, 0 <= i < w -> zget l1 (off1 + i) = zget l2 (off2 + i)) ->
  ReadUBe l1 off1 w = ReadUBe l2 off2 w.
Proof.
  intros ? ? Hw ? ? H. assert (w = 1 \/ w = 2 \/ w = 3 \/ w = 4) as [-> | [-> | [-> | ->]]] by lia;
    unfold ReadUBe; cbn [Z.eqb Pos.eqb].
  - rewrite !(proj2 (Z.ltb_lt _ _)) by lia. specialize (H 0 ltac:(lia)). by rewrite !Z.add_0_r in H.
  - by apply ReadU16Be_ext.
  - unfold ReadU24Be. rewrite !FitsAt_true by lia. cbn [negb].
    rewrite (H 1), (H 2) by lia. specialize (H 0 ltac:(lia)). rewrite !Z.add_0_r in H. by rewrite H.
  - by apply ReadU32Be_ext.
Qed.
Lemma ReadUBe_middle pre e post w :
  1 <= w <= 4 -> zlen e = w -> ReadUBe (pre ++ e ++ post) (zlen pre) w = ReadUBe e 0 w.
Proof.
  intros Hw He. pose proof (zlen_nonneg pre). pose proof (zlen_nonneg post).
  apply ReadUBe_ext; try lia; [rewrite !zlen_app; lia|]. intros i Hi.
  rewrite zget_app_r, zget_app_l by lia. f_equal. lia.
Qed.
Lemma ComposeBe_app fs gs : ComposeBe (fs ++ gs) = ComposeBe fs ++ ComposeBe gs.
Proof. induction fs as [|f fs IH]; [done|]. cbn [app]. by rewrite !ComposeBe_cons, IH, app_assoc. Qed.
Definition widths (fs : list field) : Z := zsum (map WidthBe fs).
Lemma zlen_ComposeBe fs : zlen (ComposeBe fs) = widths fs.
Proof.
  induction fs as [|f fs IH]; [done|]. rewrite ComposeBe_cons, zlen_app, IH, zlen_EmitBe. done.
Qed.
(** The value of an integer field. *)
Definition field_value (f : field) : option Z :=
  match f with FByte v | FU16 v | FU24 v | FU32 v => Some v | _ => None end.

(** a composed frame is as long as its fields are wide and made of bytes, and
    every integer field can be read back at its offset with the reader of its
    width, whatever precedes and follows it. *)
Theorem ComposeBe_fields_read_back pre f post v :
  field_value f = Some v ->
  let frame := ComposeBe (pre ++ f :: post) in
  zlen frame = widths pre + WidthBe f + widths post /\ bytes_ok frame
  /\ ReadUBe frame (widths pre) (WidthBe f) = v mod 2 ^ (8 * WidthBe f).
Proof.
  intros Hf frame. unfold frame. rewrite ComposeBe_app, ComposeBe_cons.
  rewrite !zlen_app, zlen_EmitBe, !zlen_ComposeBe. split; [lia|]. split; [auto with bytes|].
  rewrite <- (zlen_ComposeBe pre).
  destruct f; try done; injection Hf as <-; rewrite ReadUBe_middle by (rewrite ?zlen_EmitBe; cbn [WidthBe]; lia).
  - exact (ReadUBe_EmitIntegerBe 1 value ltac:(lia)).
  - exact (ReadUBe_EmitIntegerBe 2 value ltac:(lia)).
  - exact (ReadUBe_EmitIntegerBe 3 value ltac:(lia)).
  - exact (ReadUBe_EmitIntegerBe 4 value ltac:(lia)).
Qed.
Lemma ComposeBe_fields_read_back_witness :
  ReadUBe (ComposeBe ([FByte 0x34; FBytes [1; 2]] ++ FU24 0x123456 :: [FByte 7])) 3 3 = 0x123456.
Proof. exact (proj2 (proj2 (ComposeBe_fields_read_back [FByte 0x34; FBytes [1; 2]] (FU24 0x123456) [FByte 7] 0x123456 eq_refl))). Defined.
