(* ===== verification/MemoryMap.v ===== *)
(** * MemoryMap: [src/algorithms/memory/address.h], [memory_error.h] and
    [memory_map.{h,cpp}]

    Positions ([FlashAddress], [FileOffset], [DefinitionAddress]) and
    [ByteCount]s are 32-bit values in [Z]; the tags that keep them apart are the
    C++ compiler's business. A memory map places a ROM file at ECU addresses by
    an ordered list of blocks; a pointer to a block is the block, the map being
    immutable. *)
From stdpp Require Import sorting.
From S2P Require Import Prelude Bytes.

(** ** [address.h] *)
Definition FromSize (size : Z) : option Z := if kU32Max <? size then None else Some size.
Definition Advance (value count : Z) : option Z :=
  if kU32Max - value <? count then None else Some (value + count).
Definition DistanceFrom (value base : Z) : option Z :=
  if value <? base then None else Some (value - base).

Record AddressRange : Type := mkAddressRange { Start : Z; Size : Z; End : Z }.
#[export] Instance AddressRange_eq_dec : EqDecision AddressRange.
Proof. solve_decision. Defined.
Definition Make (start size : Z) : option AddressRange :=
  if size =? 0 then None
  else match Advance start size with
       | None => None
       | Some end_ => Some (mkAddressRange start size end_)
       end.
Definition ContainsAddress (r : AddressRange) (address : Z) : bool :=
  (Start r <=? address) && (address <? End r).
Definition ContainsRange (r other : AddressRange) : bool :=
  (Start r <=? Start other) && (End other <=? End r).
Definition Overlaps (r other : AddressRange) : bool :=
  (Start r <? End other) && (Start other <? End r).

(** ** [memory_error.h] *)
Inductive MemoryErrorKind : Type :=
| kInvalidLayout | kFileSizeMismatch | kUnmapped | kFillBlock | kNotWritable.
#[export] Instance MemoryErrorKind_eq_dec : EqDecision MemoryErrorKind.
Proof. solve_decision. Defined.
Record MemoryError : Type := mkMemoryError { kind : MemoryErrorKind; detail : string }.

(** ** Blocks and maps *)
Inductive Backing : Type :=
| FileBacking (offset : Z)
| FillBacking (value : Z).
Inductive Writability : Type := kReadOnly | kWritable.
#[export] Instance Backing_eq_dec : EqDecision Backing.
Proof. solve_decision. Defined.
#[export] Instance Writability_eq_dec : EqDecision Writability.
Proof. solve_decision. Defined.
Record MemoryBlock : Type := mkMemoryBlock {
  range : AddressRange;
  backing : Backing;
  writability : Writability
}.
#[export] Instance MemoryBlock_eq_dec : EqDecision MemoryBlock.
Proof. solve_decision. Defined.
Record BlockSlice : Type := mkBlockSlice { block : option MemoryBlock; slice_range : AddressRange }.
Record MemoryMap : Type := mkMemoryMap {
  blocks_ : list MemoryBlock;
  file_size_ : Z;
  definition_base_ : Z
}.

(** ** Creating a map *)
Definition InvalidLayout {A} (d : string) : result MemoryError A :=
  Err (mkMemoryError kInvalidLayout d).

(** The lexicographic order [std::ranges::sort] uses on the pairs. *)
Definition file_range_le (p q : Z * Z) : Prop := p.1 < q.1 \/ p.1 = q.1 /\ p.2 <= q.2.
#[export] Instance file_range_le_dec : RelDecision file_range_le.
Proof. intros p q. unfold file_range_le. apply _. Defined.

Definition file_range (b : MemoryBlock) : list (Z * Z) :=
  match backing b with
  | FileBacking offset => [(offset, Size (range b))]
  | FillBacking _ => []
  end.
(** The loop over the sorted file ranges; [next] is the first unplaced byte. *)
Fixpoint place_ranges (next : Z) (file_ranges : list (Z * Z)) : result MemoryError Z :=
  match file_ranges with
  | [] => Ok next
  | (offset, size) :: rest =>
      if offset <? next then
        InvalidLayout ("ROM file byte 0x" +:+ fmt_x offset +:+ " is placed by two blocks")
      else if next <? offset then
        InvalidLayout ("ROM file bytes 0x" +:+ fmt_x next +:+ "-0x" +:+ fmt_x (offset - 1)
                       +:+ " are not placed")
      else
        match Advance offset size with
        | None => InvalidLayout "a file-backed block runs past the 32-bit file range"
        | Some end_ => place_ranges end_ rest
        end
  end.
Definition CheckFilePlacement (blocks : list MemoryBlock) (file_size : Z) : result MemoryError unit :=
  let file_ranges := merge_sort file_range_le (mjoin (file_range <$> blocks)) in
  let! next := place_ranges 0 file_ranges in
  if next <? file_size then
    InvalidLayout ("ROM file bytes from 0x" +:+ fmt_x next +:+ " are not placed")
  else if file_size <? next then
    InvalidLayout ("file-backed blocks run past the " +:+ fmt_d file_size +:+ "-byte ROM file")
  else Ok tt.

Definition writable_fill (b : MemoryBlock) : bool :=
  match backing b with
  | FillBacking _ => bool_decide (writability b = kWritable)
  | FileBacking _ => false
  end.
(** [std::ranges::adjacent_find]: the later block of the first pair out of order. *)
Fixpoint disorder (blocks : list MemoryBlock) : option MemoryBlock :=
  match blocks with
  | before :: ((after :: _) as rest) =>
      if Start (range after) <? End (range before) then Some after else disorder rest
  | _ => None
  end.
Definition Create (blocks : list MemoryBlock) (file_size definition_base : Z)
    : result MemoryError MemoryMap :=
  match blocks with
  | [] => InvalidLayout "a memory map needs at least one block"
  | _ =>
      if file_size =? 0 then InvalidLayout "a memory map needs a non-empty ROM file"
      else match List.find writable_fill blocks with
      | Some b => InvalidLayout ("the fill block at 0x" +:+ fmt_x (Start (range b))
                                 +:+ " is marked writable")
      | None =>
          match disorder blocks with
          | Some b => InvalidLayout ("the block at 0x" +:+ fmt_x (Start (range b))
                                     +:+ " overlaps or precedes the block before it")
          | None =>
              let! _ := CheckFilePlacement blocks file_size in
              Ok (mkMemoryMap blocks file_size definition_base)
          end
      end
  end.
Definition Identity (file_size : Z) : result MemoryError MemoryMap :=
  match Make 0 file_size with
  | None => InvalidLayout "an identity memory map needs a non-empty ROM file"
  | Some r => Create [mkMemoryBlock r (FileBacking 0) kWritable] file_size 0
  end.

(** ** Queries *)
(** [[start, end)] for [start < end]; [Between_make] below shows that the two
    dereferenced optionals hold a value there. *)
Definition Between (start end_ : Z) : AddressRange :=
  default (mkAddressRange start 0 start) (DistanceFrom end_ start ≫= Make start).
Definition Span (m : MemoryMap) : option AddressRange :=
  match list.head (blocks_ m), list.last (blocks_ m) with
  | Some front, Some back =>
      let start := Start (range front) in
      DistanceFrom (End (range back)) start ≫= Make start
  | _, _ => None
  end.

(** [std::ranges::upper_bound] on a sorted vector: the elements from the first
    one whose key is above [value] on, and the ones before it. *)
Fixpoint upper_bound (key : MemoryBlock -> Z) (value : Z) (blocks : list MemoryBlock)
    : list MemoryBlock * list MemoryBlock :=
  match blocks with
  | [] => ([], [])
  | b :: rest =>
      if value <? key b then ([], blocks)
      else let '(before, after) := upper_bound key value rest in (b :: before, after)
  end.
Definition BlockAt (m : MemoryMap) (address : Z) : option MemoryBlock :=
  match list.last (fst (upper_bound (fun b => Start (range b)) address (blocks_ m))) with
  | None => None
  | Some candidate => if ContainsAddress (range candidate) address then Some candidate else None
  end.
Definition ToFlashAddress (m : MemoryMap) (address : Z) : option Z :=
  Advance (definition_base_ m) address.

(** The loop of [Slices]: [block] is the rest of the blocks, [end_] the end of
    the range. A turn either moves past a block or closes a gap before one, so
    two turns per block and one for a trailing gap reach the end. *)
Fixpoint slices_loop (fuel : nat) (block : list MemoryBlock) (end_ cursor : Z) : list BlockSlice :=
  match fuel with
  | O => []
  | S fuel =>
      if negb (cursor <? end_) then []
      else match block with
      | [] => mkBlockSlice None (Between cursor end_) :: slices_loop fuel block end_ end_
      | b :: rest =>
          if cursor <? Start (range b) then
            let gap_end := Z.min (Start (range b)) end_ in
            mkBlockSlice None (Between cursor gap_end) :: slices_loop fuel block end_ gap_end
          else
            let stop := Z.min (End (range b)) end_ in
            mkBlockSlice (Some b) (Between cursor stop) :: slices_loop fuel rest end_ stop
      end
  end.
Definition Slices (m : MemoryMap) (r : AddressRange) : list BlockSlice :=
  let block := snd (upper_bound (fun b => End (range b)) (Start r) (blocks_ m)) in
  slices_loop (2 * length block + 2) block (End r) (Start r).

Definition FileStart (s : BlockSlice) : option Z :=
  match block s with
  | None => None
  | Some b =>
      match backing b with
      | FillBacking _ => None
      | FileBacking offset =>
          DistanceFrom (Start (slice_range s)) (Start (range b)) ≫= Advance offset
      end
  end.
Definition FileOffsetOf (m : MemoryMap) (r : AddressRange) : option Z :=
  match Slices m r with
  | [s] => FileStart s
  | _ => None
  end.

(** ** Well-formed layouts *)
Definition range_ok (r : AddressRange) : Prop :=
  0 <= Start r /\ 0 < Size r /\ End r = Start r + Size r /\ End r <= kU32Max.
Definition block_ok (b : MemoryBlock) : Prop :=
  range_ok (range b)
  /\ match backing b with FileBacking offset => 0 <= offset | FillBacking v => byte_ok v end.
(** [b] ends at or before the start of [c]. *)
Definition precedes (b c : MemoryBlock) : Prop := End (range b) <= Start (range c).
(** How many blocks place file byte [o]. *)
Definition covers (o : Z) (p : Z * Z) : Prop := p.1 <= o < p.1 + p.2.
Definition count_covers (rs : list (Z * Z)) (o : Z) : nat := length (filter (covers o) rs).
Definition placements (blocks : list MemoryBlock) (o : Z) : nat :=
  count_covers (mjoin (file_range <$> blocks)) o.
(** What [Create] demands of a layout: some blocks, sorted and disjoint, no
    writable fill block, every file byte placed exactly once and none past the
    file. *)
Definition layout_ok (blocks : list MemoryBlock) (file_size : Z) : Prop :=
  blocks <> [] /\ file_size <> 0
  /\ Forall (fun b => writable_fill b = false) blocks
  /\ StronglySorted precedes blocks
  /\ forall o, placements blocks o = if decide (0 <= o < file_size) then 1%nat else 0%nat.
Definition map_ok (m : MemoryMap) : Prop :=
  Forall block_ok (blocks_ m) /\ 0 <= file_size_ m <= kU32Max /\ layout_ok (blocks_ m) (file_size_ m).

Lemma Make_spec start size :
  0 <= start -> 0 <= size ->
  Make start size = if decide (0 < size /\ start + size <= kU32Max)
                    then Some (mkAddressRange start size (start + size)) else None.
Proof.
  intros. unfold Make, Advance. destruct (Z.eqb_spec size 0); [by rewrite decide_False by lia|].
  destruct (Z.ltb_spec (kU32Max - start) size); case_decide; (done || lia).
Qed.
Lemma Make_ok start size r : 0 <= start -> 0 <= size -> Make start size = Some r ->
  range_ok r /\ Start r = start /\ Size r = size.
Proof. intros ? ?. rewrite Make_spec by done. case_decide; [|done]. intros [= <-]. unfold range_ok. cbn. lia. Qed.
Lemma Between_make start end_ :
  0 <= start < end_ -> end_ <= kU32Max ->
  DistanceFrom end_ start ≫= Make start = Some (mkAddressRange start (end_ - start) end_).
Proof.
  intros. unfold DistanceFrom. rewrite (proj2 (Z.ltb_ge _ _)) by lia. cbn.
  rewrite Make_spec, decide_True by lia. do 2 f_equal. lia.
Qed.
Lemma Between_eq start end_ :
  0 <= start < end_ -> end_ <= kU32Max -> Between start end_ = mkAddressRange start (end_ - start) end_.
Proof. intros. unfold Between. by rewrite Between_make. Qed.
Lemma ContainsAddress_iff r a : ContainsAddress r a = true <-> Start r <= a < End r.
Proof. unfold ContainsAddress. rewrite andb_true_iff, Z.leb_le, Z.ltb_lt. done. Qed.

(** *** File placement *)
#[export] Instance file_range_le_trans : Transitive file_range_le.
Proof. intros [] [] []. unfold file_range_le. cbn. lia. Qed.
#[export] Instance file_range_le_total : Total file_range_le.
Proof. intros [] []. unfold file_range_le. cbn. lia. Qed.
Lemma count_covers_cons p rs o :
  count_covers (p :: rs) o = ((if decide (covers o p) then 1 else 0) + count_covers rs o)%nat.
Proof. unfold count_covers. rewrite filter_cons. by case_decide. Qed.
Lemma count_covers_below rs o q :
  o < q.1 -> Forall (file_range_le q) rs -> count_covers rs o = 0%nat.
Proof.
  intros Ho. induction 1 as [|p rs Hp _ IH]; [done|]. rewrite count_covers_cons, IH.
  rewrite decide_False; [done|]. unfold covers, file_range_le in *. lia.
Qed.
Definition file_ranges_ok (rs : list (Z * Z)) : Prop := Forall (fun p => 0 <= p.1 /\ 0 < p.2) rs.
Lemma place_ranges_sound next rs n :
  file_ranges_ok rs -> 0 <= next <= kU32Max -> place_ranges next rs = Ok n ->
  next <= n <= kU32Max
  /\ forall o, count_covers rs o = if decide (next <= o < n) then 1%nat else 0%nat.
Proof.
  revert next. induction rs as [|[off size] rs IH]; intros next Hrs Hn E.
  - injection E as <-. split; [lia|]. intros o. by rewrite decide_False by lia.
  - inversion Hrs as [|? ? Hp Hrs']; subst. cbn in Hp. cbn [place_ranges] in E.
    destruct (Z.ltb_spec off next); [done|]. destruct (Z.ltb_spec next off); [done|].
    unfold Advance in E. destruct (Z.ltb_spec (kU32Max - off) size); [done|].
    destruct (IH (off + size) Hrs' ltac:(lia) E) as [Hle Hc]. split; [lia|]. intros o.
    rewrite count_covers_cons, Hc. unfold covers. cbn. repeat case_decide; lia.
Qed.
Lemma place_ranges_complete next rs n :
  file_ranges_ok rs -> StronglySorted file_range_le rs -> 0 <= next <= n -> n <= kU32Max ->
  (forall o, count_covers rs o = if decide (next <= o < n) then 1%nat else 0%nat) ->
  place_ranges next rs = Ok n.
Proof.
  revert next. induction rs as [|[off size] rs IH]; intros next Hrs Hs Hn Hmax Hc.
  - cbn. f_equal. specialize (Hc next). cbn in Hc. case_decide; [done|lia].
  - inversion Hrs as [|? ? Hp Hrs']; subst. inversion Hs as [|? ? Hs' Hall]; subst. cbn in Hp.
    assert (forall o, covers o (off, size) -> next <= o < n) as Hin.
    { intros o Ho. specialize (Hc o). rewrite count_covers_cons, decide_True in Hc by done.
      case_decide; [done|lia]. }
    pose proof (Hin off) as H0. pose proof (Hin (off + size - 1)) as H1. unfold covers in H0, H1. cbn in H0, H1.
    assert (off = next) as ->.
    { destruct (decide (next < off)) as [Hlt|]; [|lia]. specialize (Hc next).
      rewrite count_covers_cons, decide_False, (count_covers_below rs next (off, size)) in Hc
        by (done || unfold covers; cbn; lia). rewrite decide_True in Hc by lia. done. }
    cbn [place_ranges]. rewrite Z.ltb_irrefl. unfold Advance. rewrite (proj2 (Z.ltb_ge _ _)) by lia.
    apply IH; [done|done|lia|done|]. intros o. specialize (Hc o). rewrite count_covers_cons in Hc.
    unfold covers in Hc. cbn in Hc. repeat case_decide; lia.
Qed.
Lemma placed_ranges_ok blocks :
  Forall block_ok blocks -> file_ranges_ok (mjoin (file_range <$> blocks)).
Proof.
  intros H. induction H as [|b bs [Hr Hb] _ IH]; [constructor|]. cbn.
  apply Forall_app. split; [|done]. unfold file_range, range_ok in *.
  destruct (backing b); repeat constructor; cbn; lia.
Qed.
Lemma CheckFilePlacement_iff blocks file_size :
  Forall block_ok blocks -> 0 <= file_size <= kU32Max ->
  CheckFilePlacement blocks file_size = Ok tt <->
  forall o, placements blocks o = if decide (0 <= o < file_size) then 1%nat else 0%nat.
Proof.
  intros Hb Hn. unfold CheckFilePlacement, placements. set (rs := mjoin _).
  set (sorted := merge_sort file_range_le rs).
  assert (sorted ≡ₚ rs) as Hp by apply merge_sort_Permutation.
  assert (file_ranges_ok sorted) as Hok by (unfold file_ranges_ok; rewrite Hp; by apply placed_ranges_ok).
  assert (forall o, count_covers sorted o = count_covers rs o) as Hc
    by (intros; unfold count_covers; by rewrite Hp).
  split.
  - destruct (place_ranges 0 sorted) as [n|] eqn:E; [|done]. cbn. intros E'.
    apply place_ranges_sound in E as [_ E]; [|done|unfold kU32Max; lia].
    destruct (Z.ltb_spec n file_size); [done|]. destruct (Z.ltb_spec file_size n); [done|].
    intros o. rewrite <- Hc, E. by replace n with file_size by lia.
  - intros H. rewrite (place_ranges_complete 0 sorted file_size);
      [cbn; by rewrite Z.ltb_irrefl|done|apply StronglySorted_merge_sort; apply _|lia|lia|].
    intros o. by rewrite Hc.
Qed.
Lemma disorder_None blocks :
  Forall block_ok blocks -> disorder blocks = None <-> StronglySorted precedes blocks.
Proof.
  intros H. induction H as [|b bs Hb Hbs IH]; [split; [constructor|done]|].
  destruct bs as [|c bs]; [split; [repeat constructor|done]|]. cbn [disorder].
  split.
  - destruct (Z.ltb_spec (Start (range c)) (End (range b))); [done|]. intros E.
    apply IH in E. constructor; [done|]. inversion E as [|? ? Es Ea]; subst.
    constructor; [unfold precedes; lia|]. apply Forall_forall. intros x Hx.
    rewrite Forall_forall in Ea. specialize (Ea x Hx). inversion Hbs as [|? ? [Hc _] _]; subst.
    unfold precedes, range_ok in *. lia.
  - intros E. inversion E as [|? ? Es Ea]; subst. inversion Ea as [|? ? Hbc _]; subst.
    unfold precedes in Hbc. rewrite (proj2 (Z.ltb_ge _ _)) by lia. by apply IH.
Qed.

(** *** Which block holds an address *)
Definition holds (b : MemoryBlock) (a : Z) : Prop := Start (range b) <= a < End (range b).
Definition sorted_blocks (bs : list MemoryBlock) : Prop :=
  Forall block_ok bs /\ StronglySorted precedes bs.
Definition holds_at (bs : list MemoryBlock) (a : Z) (ob : option MemoryBlock) : Prop :=
  match ob with
  | Some b => b ∈ bs /\ holds b a
  | None => forall b, b ∈ bs -> ~ holds b a
  end.
Lemma sorted_blocks_cons b bs :
  sorted_blocks (b :: bs) ->
  block_ok b /\ sorted_blocks bs /\ forall c, c ∈ bs -> End (range b) <= Start (range c).
Proof.
  intros [Hb Hs]. inversion Hb; subst. inversion Hs as [|? ? Hs' Ha]; subst.
  split; [done|]. split; [done|]. rewrite list.Forall_forall in Ha. exact Ha.
Qed.
Lemma sorted_blocks_elem bs b : sorted_blocks bs -> b ∈ bs -> block_ok b.
Proof. intros [H _] Hb. rewrite list.Forall_forall in H. auto. Qed.
Lemma holds_at_unique bs a ob oc :
  sorted_blocks bs -> holds_at bs a ob -> holds_at bs a oc -> ob = oc.
Proof.
  revert ob oc.
  assert (forall b c, sorted_blocks bs -> b ∈ bs -> c ∈ bs -> holds b a -> holds c a -> b = c) as Hu.
  { induction bs as [|x bs IH]; intros b c Hs Hb Hc H1 H2; [set_solver|].
    apply sorted_blocks_cons in Hs as (_ & Hs & Hx). unfold holds in *.
    apply elem_of_cons in Hb as [-> | Hb]; apply elem_of_cons in Hc as [-> | Hc]; auto.
    - specialize (Hx c Hc). lia.
    - specialize (Hx b Hb). lia. }
  intros [b|] [c|] Hs H1 H2; cbn in *; try done.
  - f_equal. apply Hu; tauto.
  - destruct H1. exfalso. by apply (H2 b).
  - destruct H2. exfalso. by apply (H1 c).
Qed.
Lemma upper_bound_app key v bs :
  let '(before, after) := upper_bound key v bs in
  bs = before ++ after /\ Forall (fun b => key b <= v) before
  /\ match after with [] => True | b :: _ => v < key b end.
Proof.
  induction bs as [|b bs IH]; [done|]. cbn. destruct (Z.ltb_spec v (key b)); [done|].
  destruct (upper_bound key v bs) as [before after]. destruct IH as (-> & H1 & H2).
  split; [done|]. split; [by constructor|done].
Qed.
Lemma BlockAt_holds m a : sorted_blocks (blocks_ m) -> holds_at (blocks_ m) a (BlockAt m a).
Proof.
  unfold BlockAt. generalize (blocks_ m). clear m. intros bs Hs.
  pose proof (upper_bound_app (fun b => Start (range b)) a bs) as U.
  destruct (upper_bound _ _ _) as [before after]. cbn [fst]. destruct U as (-> & Hb & Ha).
  assert (forall c, c ∈ after -> a < Start (range c)) as Hafter.
  { destruct after as [|x after]; [set_solver|]. intros c Hc.
    assert (sorted_blocks (x :: after)) as Hs'.
    { destruct Hs as [Hf Hs]. split; [by apply list.Forall_app in Hf as [_ Hf]|].
      eapply StronglySorted_app_1_r. exact Hs. }
    apply sorted_blocks_cons in Hs' as ([Hr _] & _ & Hx). unfold range_ok in Hr.
    apply elem_of_cons in Hc as [-> | Hc]; [done|]. specialize (Hx c Hc). lia. }
  destruct (list.last before) as [b|] eqn:El.
  - apply last_Some in El as [pre ->]. destruct (ContainsAddress _ _) eqn:Ec.
    + apply ContainsAddress_iff in Ec. cbn. split; [set_solver|done].
    + intros c Hc Hh. assert (~ holds b a) as Hnb.
      { unfold holds. rewrite <- ContainsAddress_iff. congruence. }
      rewrite <- app_assoc in Hc, Hs. apply elem_of_app in Hc as [Hc|Hc].
      * destruct Hs as [_ Hs]. pose proof (StronglySorted_app_1_elem_of _ _ _ _ _ Hs Hc
          (list_elem_of_here b after)) as Hp.
        apply list.Forall_app in Hb as [_ Hb]. inversion Hb; subst. unfold precedes, holds in *. lia.
      * apply elem_of_cons in Hc as [-> | Hc]; [done|]. specialize (Hafter c Hc). unfold holds in Hh. lia.
  - apply last_None in El. subst before. cbn. intros c Hc. specialize (Hafter c Hc). unfold holds. lia.
Qed.

(** *** Slices *)
(** Non-empty ranges laid end to end from [cursor] to [end_]. *)
Fixpoint tiles (cursor end_ : Z) (ss : list BlockSlice) : Prop :=
  match ss with
  | [] => cursor = end_
  | s :: rest =>
      Start (slice_range s) = cursor /\ range_ok (slice_range s)
      /\ tiles (End (slice_range s)) end_ rest
  end.
Lemma tiles_le cursor end_ ss : tiles cursor end_ ss -> cursor <= end_.
Proof.
  revert cursor. induction ss as [|x ss IH]; intros c; cbn; [lia|]. intros (E & Hr & Ht).
  apply IH in Ht. unfold range_ok in Hr. lia.
Qed.
Lemma tiles_bounds cursor end_ ss s :
  tiles cursor end_ ss -> s ∈ ss -> cursor <= Start (slice_range s) /\ End (slice_range s) <= end_.
Proof.
  revert cursor. induction ss as [|x ss IH]; intros cursor; [set_solver|]. intros (E & Hr & Ht) Hs.
  pose proof (tiles_le _ _ _ Ht). unfold range_ok in Hr. apply elem_of_cons in Hs as [-> | Hs].
  - lia.
  - apply (IH _ Ht) in Hs. lia.
Qed.
Lemma tiles_range_ok cursor end_ ss s : tiles cursor end_ ss -> s ∈ ss -> range_ok (slice_range s).
Proof.
  revert cursor. induction ss as [|x ss IH]; [set_solver|].
  intros c (_ & Hx & T) Hin. apply elem_of_cons in Hin as [-> | Hin]; eauto.
Qed.
Definition slice_ok (bs : list MemoryBlock) (s : BlockSlice) : Prop :=
  forall a, Start (slice_range s) <= a < End (slice_range s) -> holds_at bs a (block s).
Lemma slices_loop_spec fuel bs end_ cursor :
  sorted_blocks bs -> 0 <= cursor <= end_ -> end_ <= kU32Max ->
  match bs with [] => True | b :: _ => cursor < End (range b) end ->
  (cursor < end_ -> (2 * length bs + match bs with
                   | [] => 1
                   | b :: _ => if (cursor <? Start (range b))%Z then 1 else 0
                   end <= fuel)%nat) ->
  tiles cursor end_ (slices_loop fuel bs end_ cursor)
  /\ Forall (slice_ok bs) (slices_loop fuel bs end_ cursor).
Proof.
  revert bs cursor. induction fuel as [|fuel IH]; intros bs cursor Hs Hc He Hhd Hf.
  { cbn. split; [|constructor]. destruct (decide (cursor < end_)) as [Hlt|]; [|lia].
    apply Hf in Hlt. destruct bs; cbn in Hlt; lia. }
  cbn [slices_loop]. destruct (Z.ltb_spec cursor end_) as [Hlt|]; cbn [negb];
    [|split; [cbn; lia|constructor]]. specialize (Hf Hlt).
  destruct bs as [|b rest].
  - rewrite Between_eq by lia. cbn [tiles slice_range Start End].
    assert (slices_loop fuel [] end_ end_ = []) as ->
      by (destruct fuel; [done|]; cbn; by rewrite Z.ltb_irrefl).
    split; [split; [done|]; split; [unfold range_ok; cbn; lia|done]|].
    repeat constructor. intros a _ c Hcc. set_solver.
  - pose proof (sorted_blocks_cons b rest Hs) as ([Hr _] & Hs' & Hb). unfold range_ok in Hr.
    destruct (Z.ltb_spec cursor (Start (range b))) as [Hgap|Hin].
    + set (gap := Z.min (Start (range b)) end_).
      destruct (IH (b :: rest) gap) as [T F]; try done; try lia.
      { intros Hg. rewrite (proj2 (Z.ltb_ge _ _)) by lia. lia. }
      rewrite Between_eq by lia. cbn [tiles slice_range Start End]. split.
      * split; [done|]. split; [unfold range_ok; cbn; lia|done].
      * constructor; [|done]. intros a Ha c Hcc. cbn in Ha. unfold holds.
        apply elem_of_cons in Hcc as [-> | Hcc]; [lia|]. specialize (Hb c Hcc). lia.
    + set (stop := Z.min (End (range b)) end_).
      destruct (IH rest stop) as [T F]; try done; try lia.
      { destruct rest as [|c rest]; [done|]. pose proof (Hb c (list_elem_of_here _ _)).
        apply sorted_blocks_cons in Hs' as ([Hr' _] & _). unfold range_ok in Hr'. lia. }
      { intros _. destruct rest as [|c rest]; cbn in Hf |- *; [lia|]. destruct (_ <? _); lia. }
      rewrite Between_eq by lia. cbn [tiles slice_range Start End]. split.
      * split; [done|]. split; [unfold range_ok; cbn; lia|done].
      * constructor.
        { intros a Ha. cbn in Ha |- *. split; [set_solver|]. unfold holds. lia. }
        apply list.Forall_forall. intros s Hin'. rewrite list.Forall_forall in F.
        pose proof (tiles_bounds _ _ _ _ T Hin') as Hbd. intros a Ha. specialize (F s Hin' a Ha).
        destruct (block s) as [c|]; cbn in F |- *; [split; [set_solver|tauto]|].
        intros c Hcc. apply elem_of_cons in Hcc as [-> | Hcc]; [unfold holds; lia|auto].
Qed.
Lemma map_ok_sorted m : map_ok m -> sorted_blocks (blocks_ m).
Proof. intros (Hb & _ & _ & _ & _ & Hs & _). by split. Qed.
Lemma Slices_spec m r :
  sorted_blocks (blocks_ m) -> range_ok r ->
  tiles (Start r) (End r) (Slices m r) /\ Forall (slice_ok (blocks_ m)) (Slices m r).
Proof.
  intros Hs Hr. unfold Slices, range_ok in *. generalize dependent (blocks_ m). clear m. intros bs Hs.
  pose proof (upper_bound_app (fun b => End (range b)) (Start r) bs) as U.
  destruct (upper_bound _ _ _) as [before after]. cbn [snd]. destruct U as (-> & Hb & Ha).
  assert (sorted_blocks after) as Hs'.
  { destruct Hs as [Hf Hs]. split; [by apply list.Forall_app in Hf as [_ Hf]|].
    eapply StronglySorted_app_1_r. exact Hs. }
  destruct (slices_loop_spec (2 * length after + 2) after (End r) (Start r)) as [T F]; try done; try lia.
  { intros _. destruct after; [cbn; lia|]. destruct (_ <? _); lia. }
  split; [done|]. apply list.Forall_forall. intros s Hs_in a Hin.
  pose proof (tiles_bounds _ _ _ _ T Hs_in) as Hbd. rewrite list.Forall_forall in F.
  specialize (F s Hs_in a Hin). destruct (block s) as [c|]; cbn in *; [split; [set_solver|tauto]|].
  intros c Hc. apply elem_of_app in Hc as [Hc|Hc]; [|auto].
  rewrite list.Forall_forall in Hb. specialize (Hb c Hc). cbn in Hb. unfold holds. lia.
Qed.
Lemma Slices_BlockAt m r s a :
  sorted_blocks (blocks_ m) -> range_ok r -> s ∈ Slices m r ->
  Start (slice_range s) <= a < End (slice_range s) -> BlockAt m a = block s.
Proof.
  intros Hs Hr Hin Ha. destruct (Slices_spec m r Hs Hr) as [_ F]. rewrite list.Forall_forall in F.
  eapply holds_at_unique; [done|by apply BlockAt_holds|by apply F].
Qed.
(** The file position of an address, when a file-backed block holds it. *)
Definition file_pos (m : MemoryMap) (a : Z) : option Z :=
  match BlockAt m a with
  | Some b => match backing b with
              | FileBacking offset => Some (offset + (a - Start (range b)))
              | FillBacking _ => None
              end
  | None => None
  end.
(** A position a block places is in the file. *)
Lemma placements_elem blocks b offset o :
  b ∈ blocks -> backing b = FileBacking offset -> offset <= o < offset + Size (range b) ->
  (1 <= placements blocks o)%nat.
Proof.
  intros Hb Ef Ho. unfold placements, count_covers.
  assert ((offset, Size (range b)) ∈ filter (covers o) (mjoin (file_range <$> blocks))) as Hin.
  { apply list_elem_of_filter. split; [done|]. apply list_elem_of_join.
    exists (file_range b). split; [|by apply list_elem_of_fmap_2].
    unfold file_range. rewrite Ef. set_solver. }
  destruct (filter _ _); [set_solver|cbn; lia].
Qed.
Lemma file_pos_range m a p : map_ok m -> file_pos m a = Some p -> 0 <= p < file_size_ m.
Proof.
  intros Hm. pose proof (map_ok_sorted m Hm) as Hs. unfold file_pos.
  pose proof (BlockAt_holds m a Hs) as Hh. destruct (BlockAt m a) as [b|]; [|done].
  destruct Hh as [Hb Ha]. destruct (backing b) as [offset|] eqn:Ef; [|done]. intros [= <-].
  destruct Hm as (_ & _ & _ & _ & _ & _ & Hp).
  pose proof (sorted_blocks_elem _ _ Hs Hb) as [Hr _]. unfold holds, range_ok in *.
  pose proof (placements_elem (blocks_ m) b offset (offset + (a - Start (range b))) Hb Ef ltac:(lia)) as Hc.
  rewrite Hp in Hc. case_decide; [done|lia].
Qed.
Lemma placements_cons b bs o :
  placements (b :: bs) o = (count_covers (file_range b) o + placements bs o)%nat.
Proof. unfold placements, count_covers. cbn. by rewrite filter_app, length_app. Qed.
Lemma count_file_range b offset o :
  backing b = FileBacking offset -> offset <= o < offset + Size (range b) ->
  count_covers (file_range b) o = 1%nat.
Proof. intros E Ho. unfold file_range. rewrite E, count_covers_cons. by rewrite decide_True. Qed.
Lemma placements_two blocks b c ob oc o :
  b ∈ blocks -> c ∈ blocks -> b <> c ->
  backing b = FileBacking ob -> ob <= o < ob + Size (range b) ->
  backing c = FileBacking oc -> oc <= o < oc + Size (range c) ->
  (2 <= placements blocks o)%nat.
Proof.
  intros Hb Hc Hne Eb Ob Ec Oc. induction blocks as [|x bs IH]; [set_solver|].
  rewrite placements_cons.
  apply elem_of_cons in Hb as [-> | Hb]; apply elem_of_cons in Hc as [-> | Hc].
  - done.
  - rewrite (count_file_range x ob) by done. pose proof (placements_elem bs c oc o Hc Ec Oc). lia.
  - rewrite (count_file_range x oc) by done. pose proof (placements_elem bs b ob o Hb Eb Ob). lia.
  - specialize (IH Hb Hc). lia.
Qed.
Lemma file_pos_inj m a a' p :
  map_ok m -> file_pos m a = Some p -> file_pos m a' = Some p -> a = a'.
Proof.
  intros Hm. pose proof (map_ok_sorted m Hm) as Hs. unfold file_pos.
  pose proof (BlockAt_holds m a Hs) as Hh. pose proof (BlockAt_holds m a' Hs) as Hh'.
  destruct (BlockAt m a) as [b|]; [|done]. destruct (BlockAt m a') as [c|]; [|done].
  destruct Hh as [Hb Ha], Hh' as [Hc Ha'].
  destruct (backing b) as [ob|] eqn:Eb; [|done]. destruct (backing c) as [oc|] eqn:Ec; [|done].
  intros [= E1] [= E2]. destruct (decide (b = c)) as [<-|Hne]; [assert (ob = oc) by congruence; lia|].
  pose proof (sorted_blocks_elem _ _ Hs Hb) as [Rb _]. pose proof (sorted_blocks_elem _ _ Hs Hc) as [Rc _].
  destruct Hm as (_ & _ & _ & _ & _ & _ & Hp). unfold holds, range_ok in *.
  pose proof (placements_two (blocks_ m) b c ob oc p Hb Hc Hne Eb ltac:(lia) Ec ltac:(lia)) as H2.
  rewrite Hp in H2. case_decide; lia.
Qed.
Lemma file_pos_surj m o : map_ok m -> 0 <= o < file_size_ m -> exists a, file_pos m a = Some o.
Proof.
  intros Hm Ho. pose proof (map_ok_sorted m Hm) as Hs. pose proof Hm as (_ & _ & _ & _ & _ & _ & Hp).
  specialize (Hp o). rewrite decide_True in Hp by done. unfold placements, count_covers in Hp.
  destruct (filter _ _) as [|[off size] l] eqn:E; [done|].
  assert ((off, size) ∈ filter (covers o) (mjoin (file_range <$> blocks_ m))) as Hin
    by (rewrite E; apply list_elem_of_here).
  apply list_elem_of_filter in Hin as [Hcov Hin]. apply list_elem_of_join in Hin as (l' & Hin & Hl').
  apply list_elem_of_fmap in Hl' as (b & -> & Hb). unfold file_range in Hin.
  destruct (backing b) as [offset|] eqn:Eb; [|set_solver].
  apply list_elem_of_singleton in Hin. injection Hin as -> ->. unfold covers in Hcov. cbn in Hcov.
  pose proof (sorted_blocks_elem _ _ Hs Hb) as [Rb _]. unfold range_ok in Rb.
  exists (Start (range b) + (o - offset)). unfold file_pos.
  rewrite (holds_at_unique (blocks_ m) (Start (range b) + (o - offset)) _ (Some b) Hs (BlockAt_holds m _ Hs)).
  - rewrite Eb. f_equal. lia.
  - split; [done|]. unfold holds. lia.
Qed.
(** Inside a slice the file positions run on from the slice's file start. *)
Lemma FileStart_spec m r s :
  map_ok m -> range_ok r -> s ∈ Slices m r ->
  match FileStart s with
  | Some f => forall a, Start (slice_range s) <= a < End (slice_range s) ->
                file_pos m a = Some (f + (a - Start (slice_range s)))
  | None => forall a, Start (slice_range s) <= a < End (slice_range s) -> file_pos m a = None
  end.
Proof.
  intros Hm Hr Hin. pose proof (map_ok_sorted m Hm) as Hs.
  pose proof (Slices_BlockAt m r s) as HB. destruct (Slices_spec m r Hs Hr) as [T F].
  rewrite list.Forall_forall in F. specialize (F s Hin).
  assert (forall a, Start (slice_range s) <= a < End (slice_range s) -> BlockAt m a = block s) as HB'
    by (intros; by apply HB).
  pose proof (tiles_range_ok _ _ _ _ T Hin) as Rs. unfold range_ok in Rs. pose proof (F (Start (slice_range s)) ltac:(lia)) as F0.
  unfold FileStart. destruct (block s) as [b|] eqn:Eb.
  2: { intros a Ha. unfold file_pos. by rewrite HB'. }
  destruct (backing b) as [offset|] eqn:Ef.
  2: { intros a Ha. unfold file_pos. by rewrite HB', Ef. }
  destruct F0 as [Hb F0]. unfold holds in F0. unfold DistanceFrom. rewrite (proj2 (Z.ltb_ge _ _)) by lia. cbn.
  assert (file_pos m (Start (slice_range s)) = Some (offset + (Start (slice_range s) - Start (range b)))) as E0
    by (unfold file_pos; by rewrite HB', Ef by lia).
  apply (file_pos_range m _ _ Hm) in E0. destruct Hm as (_ & Hn & _).
  unfold Advance. rewrite (proj2 (Z.ltb_ge _ _)) by lia. intros a Ha. unfold file_pos.
  rewrite HB', Ef by done. f_equal. lia.
Qed.

Lemma Create_layout blocks file_size base :
  Forall block_ok blocks -> 0 <= file_size <= kU32Max ->
  match Create blocks file_size base with
  | Ok m => m = mkMemoryMap blocks file_size base /\ layout_ok blocks file_size
  | Err e => kind e = kInvalidLayout /\ ~ layout_ok blocks file_size
  end.
Proof.
  intros Hb Hn.
  assert (layout_ok blocks file_size <->
    blocks <> [] /\ file_size <> 0 /\ List.find writable_fill blocks = None /\ disorder blocks = None
    /\ CheckFilePlacement blocks file_size = Ok tt) as Hl.
  { unfold layout_ok. by rewrite find_None_Forall, disorder_None, CheckFilePlacement_iff. }
  unfold Create. destruct blocks as [|b bs]; [cbn; tauto|].
  set (blocks := b :: bs) in *. destruct (Z.eqb_spec file_size 0); [cbn; tauto|].
  destruct (List.find _ blocks); [cbn; split; [done|intros (_ & _ & ? & _)%Hl; done]|].
  destruct (disorder blocks); [cbn; split; [done|intros (_ & _ & _ & ? & _)%Hl; done]|].
  destruct (CheckFilePlacement blocks file_size) as [[]|e] eqn:E; cbn.
  - split; [done|]. by apply Hl.
  - split; [|intros (_ & _ & _ & _ & ?)%Hl; congruence]. revert E. unfold CheckFilePlacement.
    assert (forall rs n e', place_ranges n rs = Err e' -> kind e' = kInvalidLayout) as Hk.
    { induction rs as [|[o s] rs IH]; intros n' e'; [done|]. cbn [place_ranges].
      repeat destruct (_ <? _); try (by intros [= <-]). unfold Advance.
      destruct (_ <? _); [by intros [= <-]|]. apply IH. }
    destruct (place_ranges _ _) eqn:Ep; cbn; [|intros [= <-]; by eapply Hk].
    repeat destruct (_ <? _); by intros [= <-].
Qed.

(** [MemoryMap::Create] accepts exactly the layouts whose blocks are sorted
    and disjoint, hold no writable fill block and place every byte of the
    non-empty ROM file exactly once and nothing past it; every other layout is
    an [kInvalidLayout] error. *)
Theorem Create_accepts_exactly_layouts blocks file_size base :
  Forall block_ok blocks -> 0 <= file_size <= kU32Max ->
  match Create blocks file_size base with
  | Ok m => m = mkMemoryMap blocks file_size base /\ layout_ok blocks file_size
  | Err e => kind e = kInvalidLayout /\ ~ layout_ok blocks file_size
  end.
Proof. apply Create_layout. Qed.
Definition two_blocks : list MemoryBlock :=
  [mkMemoryBlock (mkAddressRange 0 0x8000 0x8000) (FileBacking 0x4000) kWritable;
   mkMemoryBlock (mkAddressRange 0x8000 0x1000 0x9000) (FillBacking 0xff) kReadOnly;
   mkMemoryBlock (mkAddressRange 0x20000 0x4000 0x24000) (FileBacking 0) kWritable].
Lemma Create_accepts_exactly_layouts_witness : layout_ok two_blocks 0xc000.
Proof.
  assert (Forall block_ok two_blocks) as Hb.
  { repeat constructor; unfold kU32Max; cbn; lia. }
  exact (proj2 (Create_accepts_exactly_layouts two_blocks 0xc000 0 Hb ltac:(unfold kU32Max; lia))).
Defined.

(** [MemoryMap::BlockAt] finds the block holding an address by binary search
    on the block starts: it returns a block exactly when that block is in the
    map and holds the address. *)
Theorem BlockAt_correct m a b :
  map_ok m -> BlockAt m a = Some b <-> b ∈ blocks_ m /\ Start (range b) <= a < End (range b).
Proof.
  intros Hm. pose proof (map_ok_sorted m Hm) as Hs. pose proof (BlockAt_holds m a Hs) as Hh. split.
  - intros E. by rewrite E in Hh.
  - intros Hb. exact (holds_at_unique (blocks_ m) a _ (Some b) Hs Hh Hb).
Qed.
Definition sample_map : MemoryMap := mkMemoryMap two_blocks 0xc000 0.
Lemma two_blocks_placed o :
  placements two_blocks o = if decide (0 <= o < 0xc000) then 1%nat else 0%nat.
Proof.
  unfold placements. change (mjoin (file_range <$> two_blocks)) with [(0x4000, 0x8000); (0, 0x4000)].
  rewrite !count_covers_cons. unfold covers. cbn [fst snd].
  change (count_covers [] o) with 0%nat. repeat case_decide; lia.
Qed.
Lemma sample_map_ok : map_ok sample_map.
Proof.
  repeat split; try (unfold kU32Max; cbn; lia); try apply two_blocks_placed; try done;
    repeat constructor; unfold kU32Max, precedes; cbn; lia.
Qed.
Lemma BlockAt_correct_witness : 0x20000 <= 0x20010 < 0x24000 /\ exists b, BlockAt sample_map 0x20010 = Some b.
Proof.
  split; [lia|]. eexists. apply (BlockAt_correct sample_map 0x20010 _ sample_map_ok).
  split; [|cbn; shelve]. do 2 apply list_elem_of_further. apply list_elem_of_here.
  Unshelve. cbn. lia.
Defined.

(** [MemoryMap::Slices] splits a range at the block boundaries: the slices are
    non-empty and lie end to end from the start of the range to its end, and
    every address of a slice is held by the slice's block, or by no block when
    the slice is a gap. *)
Theorem Slices_partition m r :
  map_ok m -> range_ok r ->
  tiles (Start r) (End r) (Slices m r)
  /\ forall s a, s ∈ Slices m r -> Start (slice_range s) <= a < End (slice_range s) ->
       BlockAt m a = block s.
Proof.
  intros Hm Hr. pose proof (map_ok_sorted m Hm) as Hs. split; [by apply Slices_spec|].
  intros s a. by apply Slices_BlockAt.
Qed.
Lemma Slices_partition_witness :
  length (Slices sample_map (mkAddressRange 0x7000 0x1a000 0x21000)) = 4%nat
  /\ tiles 0x7000 0x21000 (Slices sample_map (mkAddressRange 0x7000 0x1a000 0x21000)).
Proof.
  split; [vm_compute; reflexivity|].
  apply (Slices_partition sample_map (mkAddressRange 0x7000 0x1a000 0x21000) sample_map_ok).
  unfold range_ok, kU32Max. cbn. lia.
Defined.

(** the map is a bijection between the ROM file's bytes and the addresses of
    its file-backed blocks: an address maps into the file, no two addresses map
    to one byte, and every byte has an address. *)
Theorem file_placement_bijective m :
  map_ok m ->
  (forall a p, file_pos m a = Some p -> 0 <= p < file_size_ m)
  /\ (forall a a' p, file_pos m a = Some p -> file_pos m a' = Some p -> a = a')
  /\ (forall p, 0 <= p < file_size_ m -> exists a, file_pos m a = Some p).
Proof.
  intros Hm. split; [intros a p; by apply file_pos_range|].
  split; [intros a a' p; by apply file_pos_inj|]. intros p. by apply file_pos_surj.
Qed.
Lemma file_placement_bijective_witness : exists a, file_pos sample_map 0x100 = Some a /\ 0 <= a < 0xc000.
Proof.
  exists 0x4100. split; [reflexivity|].
  exact (proj1 (file_placement_bijective sample_map sample_map_ok) 0x100 0x4100 ltac:(reflexivity)).
Defined.
