(* ===== verification/MemoryImage.v ===== *)
(** * MemoryImage: [src/algorithms/memory/memory_image.{h,cpp}]

    A ROM file's bytes seen through its memory map. [Render] copies an address
    range out, [Write] stores bytes back; the theorems state both against
    [byte_at], the byte an ECU address holds. [Write] mutates the image, so its
    model returns the image beside the result. *)
From S2P Require Import Prelude Bytes MemoryMap.

Record MemoryView : Type := mkMemoryView { view_range : AddressRange; view_data : list Z }.
Record MemoryImage : Type := mkMemoryImage { map_ : MemoryMap; file_ : list Z }.

Definition Fail {A} (k : MemoryErrorKind) (d : string) : result MemoryError A := Err (mkMemoryError k d).

(** ** Slice checks *)
Definition HeldByABlock (slice : BlockSlice) : result MemoryError unit :=
  match block slice with
  | None => Fail kUnmapped ("no memory block holds address 0x" +:+ fmt_x (Start (slice_range slice)))
  | Some _ => Ok tt
  end.
Definition WritableFileBlock (slice : BlockSlice) : result MemoryError unit :=
  match HeldByABlock slice with
  | Err e => Err e
  | Ok _ =>
      match block slice with
      | None => Ok tt
      | Some b =>
          match backing b with
          | FillBacking _ =>
              Fail kFillBlock ("address 0x" +:+ fmt_x (Start (slice_range slice)) +:+ " is in a fill block")
          | FileBacking _ =>
              if bool_decide (writability b <> kWritable) then
                Fail kNotWritable ("address 0x" +:+ fmt_x (Start (slice_range slice))
                                   +:+ " is in a block that is not writable")
              else Ok tt
          end
      end
  end.
Fixpoint first_failure (check : BlockSlice -> result MemoryError unit) (slices : list BlockSlice)
    : option MemoryError :=
  match slices with
  | [] => None
  | s :: rest => match check s with Err e => Some e | Ok _ => first_failure check rest end
  end.
Definition CheckedSlices (m : MemoryMap) (r : AddressRange) (check : BlockSlice -> result MemoryError unit)
    : result MemoryError (list BlockSlice) :=
  let slices := Slices m r in
  match first_failure check slices with Some e => Err e | None => Ok slices end.
Definition OffsetIn (r : AddressRange) (slice : BlockSlice) : Z := u32 (Start (slice_range slice) - Start r).

(** ** Operations *)
Definition MemoryImage_Create (m : MemoryMap) (file : list Z) : result MemoryError MemoryImage :=
  if negb (zlen file =? file_size_ m) then
    Fail kFileSizeMismatch ("the ROM file is " +:+ fmt_d (zlen file) +:+ " bytes; its memory map places "
                            +:+ fmt_d (file_size_ m))
  else Ok (mkMemoryImage m file).

(** The bytes [Render] copies for one slice. [std::get<FillBacking>] would throw
    for anything but a fill block; a checked slice without a file start is one. *)
Definition slice_bytes (file : list Z) (slice : BlockSlice) : list Z :=
  let size := Size (slice_range slice) in
  match FileStart slice with
  | Some file_start => subspan file file_start size
  | None =>
      match block slice with
      | Some (mkMemoryBlock _ (FillBacking value) _) => zrepeat size value
      | _ => zrepeat size 0
      end
  end.
Definition Render (img : MemoryImage) (r : AddressRange) : result MemoryError MemoryView :=
  let! slices := CheckedSlices (map_ img) r HeldByABlock in
  let data := fold_left (fun data slice => splice data (OffsetIn r slice) (slice_bytes (file_ img) slice))
                slices (zrepeat (Size r) 0) in
  Ok (mkMemoryView r data).

Definition past_address_space {A} (size start : Z) : result MemoryError A :=
  Fail kUnmapped ("a " +:+ fmt_d size +:+ "-byte write at 0x" +:+ fmt_x start
                  +:+ " runs past the address space").
Definition CheckWrite (img : MemoryImage) (start size : Z) : result MemoryError unit :=
  if size =? 0 then Ok tt
  else match Make start size with
       | None => past_address_space size start
       | Some r => let! _ := CheckedSlices (map_ img) r WritableFileBlock in Ok tt
       end.
Definition store_slice (r : AddressRange) (data : list Z) (file : list Z) (slice : BlockSlice) : list Z :=
  match FileStart slice with
  | Some file_start => splice file file_start (subspan data (OffsetIn r slice) (Size (slice_range slice)))
  | None => file (* a writable file-backed block always has a file start *)
  end.
Definition Write (img : MemoryImage) (start : Z) (data : list Z) : MemoryImage * result MemoryError unit :=
  match data with
  | [] => (img, Ok tt)
  | _ =>
      match FromSize (zlen data) ≫= Make start with
      | None => (img, past_address_space (zlen data) start)
      | Some r =>
          match CheckedSlices (map_ img) r WritableFileBlock with
          | Err e => (img, Err e)
          | Ok slices => (mkMemoryImage (map_ img) (fold_left (store_slice r data) slices (file_ img)), Ok tt)
          end
      end
  end.

(** ** The image as a partial map from addresses to bytes *)
Definition image_ok (img : MemoryImage) : Prop :=
  map_ok (map_ img) /\ zlen (file_ img) = file_size_ (map_ img) /\ bytes_ok (file_ img).
Definition byte_at (img : MemoryImage) (a : Z) : option Z :=
  match BlockAt (map_ img) a with
  | None => None
  | Some b =>
      match backing b with
      | FillBacking value => Some value
      | FileBacking offset => Some (zget (file_ img) (offset + (a - Start (range b))))
      end
  end.
(** Why an address cannot be written. *)
Definition write_error (m : MemoryMap) (a : Z) : option (MemoryErrorKind * string) :=
  match BlockAt m a with
  | None => Some (kUnmapped, "no memory block holds address 0x" +:+ fmt_x a)
  | Some b =>
      match backing b with
      | FillBacking _ => Some (kFillBlock, "address 0x" +:+ fmt_x a +:+ " is in a fill block")
      | FileBacking _ =>
          if decide (writability b = kWritable) then None
          else Some (kNotWritable, "address 0x" +:+ fmt_x a +:+ " is in a block that is not writable")
      end
  end.
Definition read_error (m : MemoryMap) (a : Z) : option (MemoryErrorKind * string) :=
  match BlockAt m a with
  | None => Some (kUnmapped, "no memory block holds address 0x" +:+ fmt_x a)
  | Some _ => None
  end.
Definition check_of (o : option (MemoryErrorKind * string)) : result MemoryError unit :=
  match o with None => Ok tt | Some (k, d) => Err (mkMemoryError k d) end.

Lemma byte_at_file img a p : file_pos (map_ img) a = Some p -> byte_at img a = Some (zget (file_ img) p).
Proof.
  unfold file_pos, byte_at. destruct (BlockAt _ a) as [b|]; [|done].
  destruct (backing b); [|done]. by intros [= <-].
Qed.

(** *** The checks, address by address *)
Lemma HeldByABlock_at m r s :
  sorted_blocks (blocks_ m) -> range_ok r -> s ∈ Slices m r -> range_ok (slice_range s) ->
  HeldByABlock s = check_of (read_error m (Start (slice_range s))).
Proof.
  intros Hs Hr Hin Rs. unfold read_error, HeldByABlock, range_ok in *.
  rewrite (Slices_BlockAt m r s) by (done || lia). by destruct (block s).
Qed.
Lemma WritableFileBlock_at m r s :
  sorted_blocks (blocks_ m) -> range_ok r -> s ∈ Slices m r -> range_ok (slice_range s) ->
  WritableFileBlock s = check_of (write_error m (Start (slice_range s))).
Proof.
  intros Hs Hr Hin Rs. unfold write_error, WritableFileBlock, HeldByABlock, range_ok in *.
  rewrite (Slices_BlockAt m r s) by (done || lia). destruct (block s) as [b|]; [|done].
  destruct (backing b); [|done]. by case_decide as E; case_bool_decide.
Qed.
Lemma first_failure_None check ss : first_failure check ss = None <-> Forall (fun s => check s = Ok tt) ss.
Proof.
  induction ss as [|s ss IH]; [split; [constructor|done]|]. cbn. destruct (check s) as [[]|e] eqn:E.
  - rewrite IH. split; [by constructor|]. intros H. by inversion H.
  - split; [done|]. intros H. inversion H. congruence.
Qed.

(** A check decided by an address predicate that is constant in its failing or
    passing on each slice reports the first failing address. *)
Section checked.
Context (check : BlockSlice -> result MemoryError unit) (err : Z -> option (MemoryErrorKind * string)).
Definition slice_checked (s : BlockSlice) : Prop :=
  check s = check_of (err (Start (slice_range s)))
  /\ forall a, Start (slice_range s) <= a < End (slice_range s) ->
       err (Start (slice_range s)) = None <-> err a = None.

Lemma checked_passes c e ss :
  tiles c e ss -> Forall slice_checked ss -> (forall a, c <= a < e -> err a = None) ->
  first_failure check ss = None.
Proof.
  revert c. induction ss as [|s ss IH]; intros c; [done|]. intros (<- & Rs & T) F H.
  inversion F as [|? ? [Hc _] F']; subst. pose proof (tiles_le _ _ _ T). unfold range_ok in Rs.
  cbn. rewrite Hc, H by lia. cbn. apply (IH _ T F'). intros a Ha. apply H. lia.
Qed.
Lemma checked_fails c e ss a0 k d :
  tiles c e ss -> Forall slice_checked ss -> c <= a0 < e -> err a0 = Some (k, d) ->
  (forall a, c <= a < a0 -> err a = None) ->
  first_failure check ss = Some (mkMemoryError k d).
Proof.
  revert c. induction ss as [|s ss IH]; intros c; [cbn; lia|]. intros (<- & Rs & T) F Ha0 E H.
  inversion F as [|? ? [Hc Hu] F']; subst. unfold range_ok in Rs. cbn. rewrite Hc.
  destruct (decide (a0 < End (slice_range s))) as [Hin|Hout].
  - destruct (decide (Start (slice_range s) = a0)) as [->|]; [by rewrite E|].
    pose proof (H (Start (slice_range s)) ltac:(lia)) as H0.
    rewrite (proj1 (Hu a0 ltac:(lia)) H0) in E. done.
  - rewrite H by lia. cbn. apply (IH _ T F'); [lia|done|]. intros a Ha. apply H. lia.
Qed.
Lemma checked_only_if c e ss a :
  tiles c e ss -> Forall slice_checked ss -> first_failure check ss = None -> c <= a < e -> err a = None.
Proof.
  revert c. induction ss as [|s ss IH]; intros c; [cbn; lia|]. intros (<- & Rs & T) F.
  inversion F as [|? ? [Hc Hu] F']; subst. cbn. intros Hff Ha.
  destruct (err (Start (slice_range s))) as [[k d]|] eqn:E; rewrite Hc in Hff; [done|]. cbn in Hff.
  destruct (decide (a < End (slice_range s))); [apply Hu; [lia|done]|]. apply (IH _ T F' Hff). lia.
Qed.
End checked.
Lemma slices_checked_read m r :
  map_ok m -> range_ok r -> Forall (slice_checked HeldByABlock (read_error m)) (Slices m r).
Proof.
  intros Hm Hr. pose proof (map_ok_sorted m Hm) as Hs. destruct (Slices_spec m r Hs Hr) as [T _].
  apply list.Forall_forall. intros s Hin. pose proof (tiles_range_ok _ _ _ _ T Hin) as Rs.
  split; [by apply (HeldByABlock_at m r)|]. intros a Ha. unfold read_error, range_ok in *.
  rewrite !(Slices_BlockAt m r s) by (done || lia). by destruct (block s).
Qed.
Lemma slices_checked_write m r :
  map_ok m -> range_ok r -> Forall (slice_checked WritableFileBlock (write_error m)) (Slices m r).
Proof.
  intros Hm Hr. pose proof (map_ok_sorted m Hm) as Hs. destruct (Slices_spec m r Hs Hr) as [T _].
  apply list.Forall_forall. intros s Hin. pose proof (tiles_range_ok _ _ _ _ T Hin) as Rs.
  split; [by apply (WritableFileBlock_at m r)|]. intros a Ha. unfold write_error, range_ok in *.
  rewrite !(Slices_BlockAt m r s) by (done || lia). destruct (block s) as [b|]; [|done].
  destruct (backing b); [|done]. by case_decide.
Qed.

(** *** Copying out *)
Lemma fold_splice_tiles base c e ss (g : BlockSlice -> list Z) (src : Z -> Z) data :
  tiles c e ss -> base <= c -> e - base <= zlen data ->
  (forall s, s ∈ ss -> zlen (g s) = Size (slice_range s)
     /\ forall a, Start (slice_range s) <= a < End (slice_range s) ->
          zget (g s) (a - Start (slice_range s)) = src a) ->
  let data' := fold_left (fun data s => splice data (Start (slice_range s) - base) (g s)) ss data in
  zlen data' = zlen data
  /\ forall a, base <= a -> zget data' (a - base) = if decide (c <= a < e) then src a else zget data (a - base).
Proof.
  revert c data. induction ss as [|s ss IH]; intros c data T Hb He Hg.
  - cbn in T |- *. split; [done|]. intros a _. by rewrite decide_False by lia.
  - destruct T as (<- & Rs & T). pose proof (tiles_le _ _ _ T) as Hle.
    destruct (Hg s (list_elem_of_here _ _)) as [Hl Hv]. unfold range_ok in Rs. cbn [fold_left].
    assert (zlen (splice data (Start (slice_range s) - base) (g s)) = zlen data) as Hz
      by (apply zlen_splice; lia).
    destruct (IH (End (slice_range s)) (splice data (Start (slice_range s) - base) (g s)) T)
      as [Hz' Hv']; [lia|lia|intros; apply Hg; by apply list_elem_of_further|].
    split; [by rewrite Hz'|]. intros a Ha. rewrite Hv' by lia. rewrite zget_splice by lia. rewrite Hl.
    replace (a - base - (Start (slice_range s) - base)) with (a - Start (slice_range s)) by lia.
    repeat case_decide; try lia; try done. apply Hv. lia.
Qed.
Lemma OffsetIn_slice m r s :
  map_ok m -> range_ok r -> s ∈ Slices m r -> OffsetIn r s = Start (slice_range s) - Start r.
Proof.
  intros Hm Hr Hin. destruct (Slices_spec m r (map_ok_sorted m Hm) Hr) as [T _].
  pose proof (tiles_bounds _ _ _ _ T Hin). pose proof (tiles_range_ok _ _ _ _ T Hin) as Rs.
  unfold OffsetIn. apply u32_small. unfold range_ok, u32_ok, kU32Max in *. lia.
Qed.
Lemma FileStart_bounds m r s f :
  map_ok m -> range_ok r -> s ∈ Slices m r -> FileStart s = Some f ->
  0 <= f /\ f + Size (slice_range s) <= file_size_ m.
Proof.
  intros Hm Hr Hin E. destruct (Slices_spec m r (map_ok_sorted m Hm) Hr) as [T _].
  pose proof (tiles_range_ok _ _ _ _ T Hin) as Rs. unfold range_ok in Rs.
  pose proof (FileStart_spec m r s Hm Hr Hin) as H. rewrite E in H.
  pose proof (file_pos_range m _ _ Hm (H (Start (slice_range s)) ltac:(lia))).
  pose proof (file_pos_range m _ _ Hm (H (End (slice_range s) - 1) ltac:(lia))). lia.
Qed.
Lemma slice_bytes_spec img r s :
  image_ok img -> range_ok r -> s ∈ Slices (map_ img) r ->
  zlen (slice_bytes (file_ img) s) = Size (slice_range s)
  /\ forall a, Start (slice_range s) <= a < End (slice_range s) -> read_error (map_ img) a = None ->
       zget (slice_bytes (file_ img) s) (a - Start (slice_range s)) = default 0 (byte_at img a).
Proof.
  intros (Hm & Hl & _) Hr Hin. destruct (Slices_spec _ r (map_ok_sorted _ Hm) Hr) as [T _].
  pose proof (tiles_range_ok _ _ _ _ T Hin) as Rs. unfold range_ok in Rs.
  pose proof (FileStart_spec _ r s Hm Hr Hin) as H. unfold slice_bytes.
  destruct (FileStart s) as [f|] eqn:E.
  - pose proof (FileStart_bounds _ r s f Hm Hr Hin E). rewrite zlen_subspan. split; [lia|].
    intros a Ha _. rewrite zget_subspan by lia. by rewrite (byte_at_file img a _ (H a Ha)).
  - split.
    { destruct (block s) as [[? [] ?]|]; rewrite zlen_zrepeat; lia. }
    intros a Ha Hre. specialize (H a Ha). unfold file_pos, read_error, byte_at in *.
    rewrite (Slices_BlockAt _ r s a) in * by (done || by apply map_ok_sorted).
    destruct (block s) as [[? [] ?]|]; cbn in *; try done. rewrite zget_zrepeat by lia. done.
Qed.
Lemma Render_fold img r :
  image_ok img -> range_ok r -> (forall a, Start r <= a < End r -> read_error (map_ img) a = None) ->
  exists data, Render img r = Ok (mkMemoryView r data) /\ zlen data = Size r
    /\ forall a, Start r <= a < End r -> byte_at img a = Some (zget data (a - Start r)).
Proof.
  intros Hi Hr Hread. pose proof Hi as (Hm & _).
  destruct (Slices_spec _ r (map_ok_sorted _ Hm) Hr) as [T _].
  unfold Render, CheckedSlices.
  rewrite (checked_passes _ _ _ _ _ T (slices_checked_read _ r Hm Hr) Hread). cbn.
  eexists. split; [reflexivity|].
  destruct (fold_splice_tiles (Start r) (Start r) (End r) (Slices (map_ img) r) (slice_bytes (file_ img))
    (fun a => default 0 (byte_at img a)) (zrepeat (Size r) 0) T) as [Hz Hv].
  - lia.
  - rewrite zlen_zrepeat. unfold range_ok in Hr. lia.
  - intros s Hin. destruct (slice_bytes_spec img r s Hi Hr Hin) as [Hl Hv]. split; [done|].
    intros a Ha. apply Hv; [done|]. apply Hread. pose proof (tiles_bounds _ _ _ _ T Hin). lia.
  - assert (forall ss data, (forall s, s ∈ ss -> s ∈ Slices (map_ img) r) ->
      fold_left (fun data s => splice data (OffsetIn r s) (slice_bytes (file_ img) s)) ss data
      = fold_left (fun data s => splice data (Start (slice_range s) - Start r)
                                   (slice_bytes (file_ img) s)) ss data) as Ef.
    { induction ss as [|s ss IH]; intros data Hss; [done|]. cbn.
      rewrite (OffsetIn_slice _ r s Hm Hr) by (apply Hss, list_elem_of_here). apply IH.
      intros. by apply Hss, list_elem_of_further. }
    rewrite (Ef _ _ (fun _ H => H)). split.
    + rewrite Hz, zlen_zrepeat. unfold range_ok in Hr. lia.
    + intros a Ha. rewrite Hv, decide_True by lia. specialize (Hread a Ha).
      unfold read_error, byte_at in *. destruct (BlockAt _ a) as [b|]; [|done]. by destruct (backing b).
Qed.

(** *** Storing *)
Lemma store_slice_spec m r data file s f :
  map_ok m -> range_ok r -> zlen data = Size r -> s ∈ Slices m r -> FileStart s = Some f ->
  zlen file = file_size_ m ->
  zlen (store_slice r data file s) = file_size_ m
  /\ forall a p, file_pos m a = Some p ->
       zget (store_slice r data file s) p =
         if decide (Start (slice_range s) <= a < End (slice_range s))
         then zget data (a - Start r) else zget file p.
Proof.
  intros Hm Hr Hd Hin E Hl. unfold store_slice. rewrite E, (OffsetIn_slice m r s Hm Hr Hin).
  destruct (Slices_spec m r (map_ok_sorted m Hm) Hr) as [T _].
  pose proof (tiles_range_ok _ _ _ _ T Hin) as Rs. pose proof (tiles_bounds _ _ _ _ T Hin) as Bs.
  pose proof (FileStart_bounds m r s f Hm Hr Hin E) as Hf. unfold range_ok in Rs, Hr.
  pose proof (FileStart_spec m r s Hm Hr Hin) as Hp. rewrite E in Hp.
  set (piece := subspan data (Start (slice_range s) - Start r) (Size (slice_range s))).
  assert (zlen piece = Size (slice_range s)) as Hpl by (unfold piece; rewrite zlen_subspan; lia).
  split; [rewrite zlen_splice; lia|]. intros a p Ha. rewrite zget_splice by lia. rewrite Hpl.
  destruct (decide (Start (slice_range s) <= a < End (slice_range s))) as [Hs|Hs].
  - pose proof (Hp a Hs) as Ea. rewrite Ha in Ea. injection Ea as ->. rewrite decide_True by lia.
    unfold piece. rewrite zget_subspan by lia. f_equal. lia.
  - rewrite decide_False; [done|]. intros Hpf. apply Hs.
    pose proof (Hp (Start (slice_range s) + (p - f)) ltac:(lia)) as Ea.
    replace (f + (Start (slice_range s) + (p - f) - Start (slice_range s))) with p in Ea by lia.
    rewrite (file_pos_inj m a _ p Hm Ha Ea). lia.
Qed.
Lemma store_fold m r data file c e ss :
  map_ok m -> range_ok r -> zlen data = Size r -> zlen file = file_size_ m -> tiles c e ss ->
  (forall s, s ∈ ss -> s ∈ Slices m r /\ is_Some (FileStart s)) ->
  zlen (fold_left (store_slice r data) ss file) = file_size_ m
  /\ forall a p, file_pos m a = Some p ->
       zget (fold_left (store_slice r data) ss file) p =
         if decide (c <= a < e) then zget data (a - Start r) else zget file p.
Proof.
  intros Hm Hr Hd. revert c file. induction ss as [|s ss IH]; intros c file Hl T Hss.
  - cbn in T |- *. split; [done|]. intros. by rewrite decide_False by lia.
  - destruct T as (<- & Rs & T). pose proof (tiles_le _ _ _ T).
    destruct (Hss s (list_elem_of_here _ _)) as [Hin [f Hf]].
    destruct (store_slice_spec m r data file s f) as [Hl' Hv]; try done. cbn [fold_left].
    destruct (IH (End (slice_range s)) (store_slice r data file s) Hl' T) as [Hl'' Hv'].
    { intros. by apply Hss, list_elem_of_further. }
    split; [done|]. intros a p Ha. rewrite (Hv' a p Ha), (Hv a p Ha). unfold range_ok in Rs.
    repeat case_decide; try lia; done.
Qed.
Lemma bytes_ok_store r data file ss :
  bytes_ok data -> bytes_ok file -> bytes_ok (fold_left (store_slice r data) ss file).
Proof.
  intros Hd. revert file. induction ss as [|s ss IH]; intros file Hf; [done|]. cbn. apply IH.
  unfold store_slice. destruct (FileStart s); auto with bytes.
Qed.
(** A writable slice has a file start. *)
Lemma writable_FileStart m r s :
  map_ok m -> range_ok r -> s ∈ Slices m r -> write_error m (Start (slice_range s)) = None ->
  is_Some (FileStart s).
Proof.
  intros Hm Hr Hin Hw. pose proof (FileStart_spec m r s Hm Hr Hin) as H.
  destruct (FileStart s) as [f|]; [done|].
  destruct (Slices_spec m r (map_ok_sorted m Hm) Hr) as [T _].
  pose proof (tiles_range_ok _ _ _ _ T Hin) as Rs. unfold range_ok in Rs.
  specialize (H (Start (slice_range s)) ltac:(lia)). unfold file_pos, write_error in *.
  destruct (BlockAt m _) as [b|]; [|done]. by destruct (backing b).
Qed.
(** An address that is not backed by the file reads the same in every image of
    the map. *)
Lemma byte_at_unbacked img img' a :
  map_ img' = map_ img -> file_pos (map_ img) a = None -> byte_at img' a = byte_at img a.
Proof.
  unfold file_pos, byte_at. intros ->. destruct (BlockAt _ a) as [b|]; [|done]. by destruct (backing b).
Qed.
Lemma write_range start (data : list Z) :
  0 <= start -> data <> [] -> start + zlen data <= kU32Max ->
  exists r, FromSize (zlen data) ≫= Make start = Some r /\ range_ok r /\ Start r = start
    /\ Size r = zlen data /\ End r = start + zlen data.
Proof.
  intros Hs Hne Hm. destruct data as [|x l]; [done|]. pose proof (zlen_nonneg l). rewrite zlen_cons in *.
  unfold FromSize. rewrite (proj2 (Z.ltb_ge _ _)) by lia. cbn. rewrite Make_spec, decide_True by lia.
  eexists. split; [done|]. unfold range_ok. cbn. lia.
Qed.
(** A successful write reached only writable addresses. *)
Lemma Write_ok_writable img start data img' r :
  image_ok img -> FromSize (zlen data) ≫= Make start = Some r -> range_ok r ->
  Write img start data = (img', Ok tt) ->
  data = [] \/ forall a, Start r <= a < End r -> write_error (map_ img) a = None.
Proof.
  intros (Hm & _) Er Hr E. destruct data as [|x l]; [by left|]. right. intros a Ha.
  unfold Write in E. rewrite Er in E. unfold CheckedSlices in E.
  destruct (first_failure _ _) eqn:Ef; [done|].
  destruct (Slices_spec _ r (map_ok_sorted _ Hm) Hr) as [T _].
  exact (checked_only_if _ _ _ _ _ a T (slices_checked_write _ r Hm Hr) Ef Ha).
Qed.
Lemma Write_stores_lemma img start data :
  image_ok img -> bytes_ok data -> data <> [] -> 0 <= start -> start + zlen data <= kU32Max ->
  (forall a, start <= a < start + zlen data -> write_error (map_ img) a = None) ->
  exists img', Write img start data = (img', Ok tt) /\ map_ img' = map_ img /\ image_ok img'
    /\ forall a, byte_at img' a = if decide (start <= a < start + zlen data)
                                  then Some (zget data (a - start)) else byte_at img a.
Proof.
  intros (Hm & Hl & Hb) Hd Hne Hs Hmax Hw.
  destruct (write_range start data Hs Hne Hmax) as (r & Er & Hr & <- & Hsz & He). rewrite <- He in *.
  unfold Write. destruct data as [|x l]; [done|]. rewrite Er.
  destruct (Slices_spec _ r (map_ok_sorted _ Hm) Hr) as [T _]. unfold CheckedSlices.
  rewrite (checked_passes _ _ _ _ _ T (slices_checked_write _ r Hm Hr) Hw).
  assert (forall s, s ∈ Slices (map_ img) r -> s ∈ Slices (map_ img) r /\ is_Some (FileStart s)) as Hss.
  { intros s Hin. split; [done|]. apply (writable_FileStart (map_ img) r s Hm Hr Hin), Hw.
    pose proof (tiles_bounds _ _ _ _ T Hin). pose proof (tiles_range_ok _ _ _ _ T Hin) as Rs.
    unfold range_ok in Rs. lia. }
  destruct (store_fold (map_ img) r (x :: l) (file_ img) _ _ _ Hm Hr (eq_sym Hsz) Hl T Hss) as [Hl' Hv].
  eexists. split; [reflexivity|]. split; [done|]. split.
  { split; [done|]. split; [done|]. by apply bytes_ok_store. }
  intros a. destruct (file_pos (map_ img) a) as [p|] eqn:Ep.
  - rewrite (byte_at_file img a p Ep). rewrite (byte_at_file (mkMemoryImage _ _) a p Ep). cbn [file_].
    rewrite (Hv a p Ep). by case_decide.
  - rewrite (byte_at_unbacked img) by done. case_decide as Ha; [|done].
    specialize (Hw a Ha). unfold file_pos, write_error in *.
    destruct (BlockAt _ a) as [b|]; [|done]. by destruct (backing b).
Qed.

(** ** Claims *)

(** [Render] returns, for a range whose every address a block holds, the
    range's bytes in address order; otherwise it fails with [kUnmapped] naming
    the first address no block holds. *)
Theorem Render_reads_bytes img r :
  image_ok img -> range_ok r ->
  ((forall a, Start r <= a < End r -> BlockAt (map_ img) a <> None) ->
   exists data, Render img r = Ok (mkMemoryView r data) /\ zlen data = Size r
     /\ forall a, Start r <= a < End r -> byte_at img a = Some (zget data (a - Start r)))
  /\ (forall a0, Start r <= a0 < End r -> BlockAt (map_ img) a0 = None ->
      (forall a, Start r <= a < a0 -> BlockAt (map_ img) a <> None) ->
      Render img r = Err (mkMemoryError kUnmapped ("no memory block holds address 0x" +:+ fmt_x a0))).
Proof.
  intros Hi Hr. pose proof Hi as (Hm & _).
  assert (forall a, BlockAt (map_ img) a <> None -> read_error (map_ img) a = None) as Hre
    by (intros a; unfold read_error; by destruct (BlockAt _ a)).
  split.
  - intros Hall. apply Render_fold; auto.
  - intros a0 Ha0 E0 Hbefore. destruct (Slices_spec _ r (map_ok_sorted _ Hm) Hr) as [T _].
    unfold Render, CheckedSlices.
    rewrite (checked_fails _ _ _ _ _ a0 kUnmapped ("no memory block holds address 0x" +:+ fmt_x a0) T
      (slices_checked_read _ r Hm Hr)); [done|done| |].
    + unfold read_error. by rewrite E0.
    + intros a Ha. by apply Hre, Hbefore.
Qed.
Definition sample_image : MemoryImage := mkMemoryImage sample_map (zrepeat 0xc000 0).
Lemma sample_image_ok : image_ok sample_image.
Proof.
  split; [exact sample_map_ok|]. split; [unfold sample_image; cbn [file_]; by rewrite zlen_zrepeat|].
  apply bytes_ok_zrepeat. unfold byte_ok. lia.
Qed.
Lemma Render_reads_bytes_witness :
  Render sample_image (mkAddressRange 0x8ffe 4 0x9002)
  = Err (mkMemoryError kUnmapped "no memory block holds address 0x9000").
Proof.
  refine (proj2 (Render_reads_bytes sample_image (mkAddressRange 0x8ffe 4 0x9002) sample_image_ok _)
            0x9000 _ _ _).
  - unfold range_ok, kU32Max. cbn. lia.
  - cbn. lia.
  - reflexivity.
  - cbn [Start]. intros a Ha. assert (a = 0x8ffe \/ a = 0x8fff) as [-> | ->] by lia; discriminate.
Defined.

(** a [Write] whose every address lies in a writable file-backed block
    succeeds, keeps the map and the file size, and changes exactly the bytes at
    the addresses written: each holds the datum, every other address of the map
    reads as before. *)
Theorem Write_stores img start data :
  image_ok img -> bytes_ok data -> data <> [] -> 0 <= start -> start + zlen data <= kU32Max ->
  (forall a, start <= a < start + zlen data -> write_error (map_ img) a = None) ->
  exists img', Write img start data = (img', Ok tt) /\ map_ img' = map_ img /\ image_ok img'
    /\ forall a, byte_at img' a = if decide (start <= a < start + zlen data)
                                  then Some (zget data (a - start)) else byte_at img a.
Proof. apply Write_stores_lemma. Qed.
Lemma sample_writable a : 0x7ffe <= a < 0x8000 -> write_error sample_map a = None.
Proof. intros Ha. assert (a = 0x7ffe \/ a = 0x7fff) as [-> | ->] by lia; reflexivity. Qed.
Lemma Write_stores_witness :
  exists img', Write sample_image 0x7ffe [1; 2] = (img', Ok tt) /\ byte_at img' 0x7fff = Some 2.
Proof.
  destruct (Write_stores sample_image 0x7ffe [1; 2] sample_image_ok) as (img' & E & _ & _ & V).
  - repeat constructor; unfold byte_ok; lia.
  - discriminate.
  - lia.
  - unfold kU32Max. change (zlen [1; 2]) with 2. lia.
  - intros a Ha. apply sample_writable. change (zlen [1; 2]) with 2 in Ha. lia.
  - exists img'. split; [exact E|]. rewrite (V 0x7fff), decide_True; [reflexivity|].
    change (zlen [1; 2]) with 2. lia.
Defined.

(** C40: a [Write] that reaches an unmapped, fill or read-only address is rejected
    with the error of the first such address and leaves the image as it was. *)
Theorem Write_rejects_first img start data a0 k d :
  image_ok img -> 0 <= start -> start + zlen data <= kU32Max ->
  start <= a0 < start + zlen data -> write_error (map_ img) a0 = Some (k, d) ->
  (forall a, start <= a < a0 -> write_error (map_ img) a = None) ->
  Write img start data = (img, Err (mkMemoryError k d)).
Proof.
  intros (Hm & _) Hs Hmax Ha0 E Hb. assert (data <> []) as Hne.
  { intros ->. change (zlen (@nil Z)) with 0 in Ha0. lia. }
  destruct (write_range start data Hs Hne Hmax) as (r & Er & Hr & <- & Hsz & He). rewrite <- He in *.
  destruct (Slices_spec _ r (map_ok_sorted _ Hm) Hr) as [T _].
  unfold Write. destruct data as [|x l]; [done|]. rewrite Er. unfold CheckedSlices.
  by rewrite (checked_fails _ _ _ _ _ a0 k d T (slices_checked_write _ r Hm Hr) Ha0 E Hb).
Qed.
Lemma Write_rejects_first_witness :
  Write sample_image 0x7ffe [1; 2; 3]
  = (sample_image, Err (mkMemoryError kFillBlock "address 0x8000 is in a fill block")).
Proof.
  refine (Write_rejects_first sample_image 0x7ffe [1; 2; 3] 0x8000 _ _ sample_image_ok _ _ _ _ _).
  - lia.
  - unfold kU32Max. change (zlen [1; 2; 3]) with 3. lia.
  - change (zlen [1; 2; 3]) with 3. lia.
  - reflexivity.
  - exact sample_writable.
Defined.

(** [CheckWrite] predicts [Write]: for every image, address and data of a
    32-bit length it gives the very result, error and detail included, that
    [Write] gives. *)
Theorem CheckWrite_predicts_Write img start data :
  zlen data <= kU32Max -> CheckWrite img start (zlen data) = snd (Write img start data).
Proof.
  intros Hl. unfold CheckWrite, Write. destruct data as [|x l]; [done|].
  set (data := x :: l) in *. assert (0 < zlen data) as Hp.
  { unfold data. rewrite zlen_cons. pose proof (zlen_nonneg l). lia. }
  unfold FromSize. rewrite (proj2 (Z.ltb_ge _ _)), (proj2 (Z.eqb_neq _ _)) by lia. cbn.
  destruct (Make start (zlen data)); [|done]. by destruct (CheckedSlices _ _ _).
Qed.
Lemma CheckWrite_predicts_Write_witness :
  CheckWrite sample_image 0x8fff 1 = snd (Write sample_image 0x8fff [0]).
Proof. apply (CheckWrite_predicts_Write sample_image 0x8fff [0]). unfold kU32Max. change (zlen [0]) with 1. lia. Defined.

(** what a successful [Write] stored is what [Render] of the same range
    returns. *)
Theorem Write_Render_roundtrip img start data img' r :
  image_ok img -> bytes_ok data -> 0 <= start -> Make start (zlen data) = Some r ->
  Write img start data = (img', Ok tt) -> Render img' r = Ok (mkMemoryView r data).
Proof.
  intros Hi Hd Hs Hmk E. pose proof (zlen_nonneg data).
  rewrite Make_spec in Hmk by lia. case_decide as Hc; [|done]. injection Hmk as <-.
  assert (data <> []) as Hne by (intros ->; change (zlen (@nil Z)) with 0 in Hc; lia).
  destruct (write_range start data Hs Hne ltac:(lia)) as (r & Hfs & Hr & E1 & _ & E2).
  destruct (Write_ok_writable img start data img' r Hi Hfs Hr E) as [?|Hw]; [done|]. rewrite E1, E2 in Hw.
  destruct (Write_stores_lemma img start data) as (img'' & E' & Em & Hi' & Hv); try done; try lia.
  rewrite E in E'. injection E' as <-.
  destruct (Render_fold img' (mkAddressRange start (zlen data) (start + zlen data))) as (out & Er & Hl & Ho).
  - done.
  - unfold range_ok. cbn. lia.
  - cbn. intros a Ha. rewrite Em. specialize (Hw a Ha). unfold write_error, read_error in *.
    by destruct (BlockAt _ a).
  - rewrite Er. do 2 f_equal. cbn in Hl, Ho. apply zget_ext; [done|]. intros i Hi2.
    specialize (Ho (start + i) ltac:(lia)). rewrite Hv, decide_True in Ho by lia.
    replace (start + i - start) with i in Ho by lia. congruence.
Qed.
Lemma Write_Render_roundtrip_witness :
  Render (fst (Write sample_image 0x7ffe [1; 2])) (mkAddressRange 0x7ffe 2 0x8000)
  = Ok (mkMemoryView (mkAddressRange 0x7ffe 2 0x8000) [1; 2]).
Proof.
  apply (Write_Render_roundtrip sample_image 0x7ffe [1; 2]).
  - exact sample_image_ok.
  - repeat constructor; unfold byte_ok; lia.
  - lia.
  - reflexivity.
  - destruct (Write_stores_lemma sample_image 0x7ffe [1; 2]) as (img' & E & _).
    + exact sample_image_ok.
    + repeat constructor; unfold byte_ok; lia.
    + discriminate.
    + lia.
    + unfold kU32Max. change (zlen [1; 2]) with 2. lia.
    + exact sample_writable.
    + by rewrite E.
Defined.
