(* ===== verification/Catalog.v ===== *)
(** * Catalog: [src/backend/config/catalog.h], [catalog.cpp], [config_paths.h],
    [config_paths.cpp]

    The protocols and vehicles the application knows, as constant data: memory maps
    selected by the size of the ROM file, the lookups, and the consistency check; and
    the directories of the installation. *)
From stdpp Require Import sorting.
From S2P Require Import Prelude MemoryMap MemoryImage.

(** ** [config_paths.h], [config_paths.cpp] *)
Record ConfigPaths := {
  base_config_directory : string; version_config_directory : string; calibration_files_directory : string;
  config_files_directory : string; definition_files_directory : string; kernel_files_directory : string;
  datalog_files_directory : string; syslog_files_directory : string; config_file : string; logger_file : string
}.
Definition KernelFileHandle (paths : ConfigPaths) (kernel : string) : string := kernel_files_directory paths +:+ kernel.
Definition ResolveConfigPaths (app_root_path version : string) : ConfigPaths :=
  let base := app_root_path +:+ "/" +:+ version in
  let config_files := base +:+ "/config/" in
  {| base_config_directory := app_root_path; version_config_directory := base +:+ "/";
     calibration_files_directory := base +:+ "/calibrations/"; config_files_directory := config_files;
     definition_files_directory := base +:+ "/definitions/"; kernel_files_directory := base +:+ "/kernels/";
     datalog_files_directory := base +:+ "/datalogs/"; syslog_files_directory := base +:+ "/syslogs/";
     config_file := config_files +:+ "fastecu.cfg"; logger_file := config_files +:+ "logger.cfg" |}.

(** ** [catalog.h]: the data *)
Inductive ChecksumSupport : Set := kCorrected | kMissing | kNoChecksum.
Definition ChecksumFlag (support : ChecksumSupport) : string :=
  match support with kCorrected => "yes" | kMissing => "n/a" | kNoChecksum => "no" end.
Record MemoryMapSpec := { map_blocks : list MemoryBlock; map_definition_base : Z }.
(** The end of the furthest file-backed block, saturated. *)
Definition FileSize (spec : MemoryMapSpec) : Z :=
  Z.min (fold_left (fun end_ b => match backing b with
                                  | FileBacking offset => Z.max end_ (offset + Size (range b))
                                  | FillBacking _ => end_
                                  end) (map_blocks spec) 0) kU32Max.
(** The [consteval] builders: [None] where the initializer does not compile. *)
Definition FileBlock (start size file_offset : Z) (w : Writability) : option MemoryBlock :=
  r ← Make start size; Some (mkMemoryBlock r (FileBacking file_offset) w).
Definition FillBlock (start size fill : Z) : option MemoryBlock :=
  r ← Make start size; Some (mkMemoryBlock r (FillBacking fill) kReadOnly).
Record LinearSegment := { seg_start : Z; seg_writability : Writability }.
Definition ReadOnlyFrom (start : Z) : LinearSegment := {| seg_start := start; seg_writability := kReadOnly |}.
Definition WritableFrom (start : Z) : LinearSegment := {| seg_start := start; seg_writability := kWritable |}.
Definition LinearSegmentEnd (rest : list LinearSegment) (file_end : Z) : Z :=
  match rest with next :: _ => seg_start next | [] => file_end end.
(** [LinearSegmentEnd(list, index, file_end) <= list[index].start] at some index. *)
Fixpoint out_of_order (segments : list LinearSegment) (file_end : Z) : bool :=
  match segments with
  | [] => false
  | s :: rest => (LinearSegmentEnd rest file_end <=? seg_start s) || out_of_order rest file_end
  end.
Fixpoint linear_blocks (segments : list LinearSegment) (base file_end : Z) : option (list MemoryBlock) :=
  match segments with
  | [] => Some []
  | s :: rest =>
      b ← FileBlock (seg_start s) (u32 (LinearSegmentEnd rest file_end - seg_start s)) (seg_start s - base)
            (seg_writability s);
      bs ← linear_blocks rest base file_end; Some (b :: bs)
  end.
Definition LinearBlocks (file_size : Z) (segments : list LinearSegment) : option (list MemoryBlock) :=
  match segments with
  | [] => None
  | first :: _ =>
      let base := seg_start first in
      let file_end := base + file_size in
      if (file_size =? 0) || (kU32Max <? file_end) then None
      else if out_of_order segments file_end then None
      else linear_blocks segments base file_end
  end.
Record ProtocolSpec := {
  name : string; alias : string; ecu : string; mcu : string; mode : string; checksum : ChecksumSupport;
  read : bool; test_write : bool; write : bool; flash_transport : string; log_transport : string; log_protocol : string;
  kernel : string; kernel_load_address : option Z; description : string; memory_maps : list MemoryMapSpec
}.
(** A pointer to a protocol: where the object is, and the object. *)
Record ProtocolObject := { address : Z; spec : ProtocolSpec }.
Record VehicleSpec := {
  id : string; make : string; model : string; version : string; type : string; kw : string; hp : string; fuel : string;
  year : string; protocol : option ProtocolObject
}.
Definition ProtocolIn (protocols : list ProtocolObject) (n : string) : option ProtocolObject :=
  List.find (fun p => String.eqb (name (spec p)) n) protocols.
Definition points_to (v : VehicleSpec) (p : ProtocolObject) : bool :=
  match protocol v with Some q => address q =? address p | None => false end.
Definition CatalogReferencesResolve (protocols : list ProtocolObject) (vehicles : list VehicleSpec) : bool :=
  forallb (fun v => bool_decide (is_Some (protocol v))) vehicles
  && forallb (fun p => existsb (fun v => points_to v p) vehicles) protocols
  && forallb (fun p => negb (bool_decide (is_Some (kernel_load_address (spec p)))) || negb (String.eqb (kernel (spec p)) ""))
       protocols.
Record Catalog := { Protocols : list ProtocolObject; Vehicles : list VehicleSpec }.

(** ** [catalog.cpp] *)
Definition KernelLoadAddressText (p : ProtocolSpec) : string :=
  match kernel_load_address p with Some a => "0x" +:+ fmt_X a | None => "" end.
Definition FileSizeError {A} (detail : string) : result MemoryError A := Err (mkMemoryError kFileSizeMismatch detail).
Definition SelectMemoryMap (p : option ProtocolSpec) (file_size : Z) : result MemoryError MemoryMap :=
  if file_size =? 0 then FileSizeError "the ROM file is empty"
  else match FromSize file_size with
  | None => FileSizeError ("the " +:+ fmt_d file_size +:+ "-byte ROM file is larger than 4 GiB")
  | Some size =>
      match p with
      | None => Identity size
      | Some p =>
          match memory_maps p with
          | [] => Identity size
          | maps =>
              match List.find (fun m => FileSize m =? size) maps with
              | None => FileSizeError ("protocol '" +:+ name p +:+ "' has no memory map for 0x" +:+ fmt_x file_size
                                       +:+ "-byte ROM files")
              | Some m => Create (map_blocks m) (FileSize m) (map_definition_base m)
              end
          end
      end
  end.
Definition PlaceRomFile (p : option ProtocolSpec) (file : list Z) : result MemoryError MemoryImage :=
  let! map := SelectMemoryMap p (zlen file) in MemoryImage_Create map file.
Definition FindProtocol (c : Catalog) (n : string) : option ProtocolObject :=
  List.find (fun p => String.eqb (name (spec p)) n) (Protocols c).
(** The position of the first vehicle that satisfies a test. *)
Fixpoint position {A} (f : A -> bool) (row : Z) (l : list A) : option Z :=
  match l with [] => None | a :: l => if f a then Some row else position f (row + 1) l end.
Definition FindVehicle (c : Catalog) (n : string) : option Z :=
  if String.eqb n "" then None else position (fun v => String.eqb (id v) n) 0 (Vehicles c).
Definition has_protocol_named (n : string) (v : VehicleSpec) : bool :=
  match protocol v with Some p => String.eqb (name (spec p)) n | None => false end.
Fixpoint last_row (f : VehicleSpec -> bool) (row : Z) (last : option Z) (l : list VehicleSpec) : option Z :=
  match l with [] => last | v :: l => last_row f (row + 1) (if f v then Some row else last) l end.
Definition LastVehicleForProtocol (c : Catalog) (n : string) : option Z := last_row (has_protocol_named n) 0 None (Vehicles c).
Definition FirstVehicleForAlias (c : Catalog) (flash_method : string) : option VehicleSpec :=
  if String.eqb flash_method "" then None
  else List.find (fun v => match protocol v with Some p => String.eqb (alias (spec p)) flash_method | None => false end)
         (Vehicles c).
(** The characters of a vehicle id. *)
Definition id_char (c : Ascii.ascii) : bool :=
  let n := Z.of_nat (Ascii.nat_of_ascii c) in
  ((97 <=? n) && (n <=? 122)) || ((48 <=? n) && (n <=? 57)) || (n =? 45).
Fixpoint string_all (f : Ascii.ascii -> bool) (s : string) : bool :=
  match s with EmptyString => true | String c s => f c && string_all f s end.
Definition IsVehicleId (s : string) : bool := negb (String.eqb s "") && string_all id_char s.
Fixpoint string_contains (c : Ascii.ascii) (s : string) : bool :=
  match s with EmptyString => false | String d s => Ascii.eqb c d || string_contains c s end.
(** A loop over the elements with the ones before them. *)
Fixpoint with_earlier {A B} (f : list A -> A -> list B) (earlier l : list A) : list B :=
  match l with [] => [] | a :: l => f earlier a ++ with_earlier f (earlier ++ [a]) l end.
Definition memory_map_problems (p : ProtocolSpec) (earlier : list MemoryMapSpec) (m : MemoryMapSpec) : list string :=
  match Create (map_blocks m) (FileSize m) (map_definition_base m) with
  | Ok _ => []
  | Err e => [("protocol '" +:+ name p +:+ "' memory map for 0x" +:+ fmt_x (FileSize m) +:+ "-byte files is invalid: "
               +:+ detail e)]
  end
  ++ (if existsb (fun m' => FileSize m' =? FileSize m) earlier then
        [("protocol '" +:+ name p +:+ "' declares two memory maps for 0x" +:+ fmt_x (FileSize m) +:+ "-byte files")]
      else []).
Definition AddMemoryMapProblems (p : ProtocolSpec) : list string := with_earlier (memory_map_problems p) [] (memory_maps p).
Definition protocol_problems (c : Catalog) (earlier : list ProtocolObject) (o : ProtocolObject) : list string :=
  let p := spec o in
  (if String.eqb (name p) "" then ["protocol name is empty"%string]
   else if existsb (fun q => String.eqb (name (spec q)) (name p)) earlier then
     [("duplicate protocol name '" +:+ name p +:+ "'")]
   else [])
  ++ (if string_contains "," (alias p) then
        [("protocol '" +:+ name p +:+ "' alias '" +:+ alias p +:+ "' contains ','")] else [])
  ++ (if bool_decide (is_Some (kernel_load_address p)) && String.eqb (kernel p) "" then
        [("protocol '" +:+ name p +:+ "' has a kernel load address but no kernel")] else [])
  ++ (if negb (existsb (fun v => points_to v o) (Vehicles c)) then [("protocol '" +:+ name p +:+ "' has no vehicle")] else [])
  ++ AddMemoryMapProblems p.
Definition AddProtocolProblems (c : Catalog) : list string := with_earlier (protocol_problems c) [] (Protocols c).
Definition vehicle_problems (c : Catalog) (earlier : list VehicleSpec) (v : VehicleSpec) : list string :=
  (if negb (IsVehicleId (id v)) then [("vehicle id '" +:+ id v +:+ "' is not lowercase [a-z0-9-]")]
   else if existsb (fun w => String.eqb (id w) (id v)) earlier then [("duplicate vehicle id '" +:+ id v +:+ "'")]
   else [])
  ++ match protocol v with
     | None => [("vehicle '" +:+ id v +:+ "' has no protocol")]
     | Some _ =>
         if negb (existsb (points_to v) (Protocols c)) then
           [("vehicle '" +:+ id v +:+ "' protocol is not in this catalog")] else []
     end.
Definition AddVehicleProblems (c : Catalog) : list string := with_earlier (vehicle_problems c) [] (Vehicles c).
Definition CatalogProblems (c : Catalog) : list string := AddProtocolProblems c ++ AddVehicleProblems c.

(** ** Consistent catalogs *)
Definition map_spec_ok (m : MemoryMapSpec) : Prop :=
  exists map, Create (map_blocks m) (FileSize m) (map_definition_base m) = Ok map.
Definition protocol_ok (c : Catalog) (o : ProtocolObject) : Prop :=
  name (spec o) <> ""%string /\ string_contains "," (alias (spec o)) = false
  /\ (is_Some (kernel_load_address (spec o)) -> kernel (spec o) <> ""%string)
  /\ (exists v, v ∈ Vehicles c /\ points_to v o = true)
  /\ Forall map_spec_ok (memory_maps (spec o)) /\ NoDup (map FileSize (memory_maps (spec o))).
Definition vehicle_ok (c : Catalog) (v : VehicleSpec) : Prop :=
  IsVehicleId (id v) = true /\ exists o, o ∈ Protocols c /\ points_to v o = true.
Definition catalog_ok (c : Catalog) : Prop :=
  Forall (protocol_ok c) (Protocols c) /\ NoDup (map (fun o => name (spec o)) (Protocols c))
  /\ Forall (vehicle_ok c) (Vehicles c) /\ NoDup (map id (Vehicles c)).

(** ** Lemmas *)
Lemma with_earlier_nil {A B} (f : list A -> A -> list B) earlier l :
  with_earlier f earlier l = [] <-> forall pre a post, l = pre ++ a :: post -> f (earlier ++ pre) a = [].
Proof.
  revert earlier. induction l as [|a l IH]; intros earlier; cbn [with_earlier].
  { split; [|done]. intros _ pre b post E. by destruct pre. }
  split.
  - intros [Ha Hl]%app_nil pre b post E. destruct pre as [|x pre]; injection E; intros -> ->; [by rewrite app_nil_r|].
    specialize (proj1 (IH (earlier ++ [x])) Hl pre b post eq_refl) as Hb. by rewrite <- app_assoc in Hb.
  - intros H. apply app_nil. split.
    + specialize (H [] a l eq_refl). by rewrite app_nil_r in H.
    + apply IH. intros pre b post ->. rewrite <- app_assoc. apply (H (a :: pre) b post eq_refl).
Qed.
(** A loop that compares a key with the keys before it finds a repeated key. *)
Lemma no_repeat_iff {A K} (key : A -> K) (same : A -> A -> bool) l :
  (forall a b, same a b = true <-> key a = key b) ->
  (forall pre a post, l = pre ++ a :: post -> existsb (fun b => same b a) pre = false) <-> NoDup (map key l).
Proof.
  intros Hs. induction l as [|a l IH] using rev_ind.
  { split; [constructor|]. intros _ pre a post E. by destruct pre. }
  rewrite map_app. cbn [map]. rewrite NoDup_app, <- IH. split.
  - intros H. split_and!.
    + intros pre b post ->. apply (H pre b (post ++ [a])). by rewrite <- app_assoc.
    + intros k Hk ->%list_elem_of_singleton. apply list_elem_of_In, in_map_iff in Hk as (b & E & Hb).
      specialize (H l a [] eq_refl). assert (existsb (fun b => same b a) l = true); [|congruence].
      apply existsb_exists. exists b. split; [done|by apply Hs].
    + apply NoDup_singleton.
  - intros (H & Hn & _) pre b post E. destruct post as [|c post] using rev_ind.
    + apply app_inj_tail in E as [<- <-]. destruct (existsb _ l) eqn:Ex; [|done].
      apply existsb_exists in Ex as (b & Hb & Eb%Hs). destruct (Hn (key b)).
      * apply list_elem_of_In. by apply in_map.
      * by apply list_elem_of_singleton.
    + rewrite app_comm_cons, app_assoc in E. apply app_inj_tail in E as [-> _]. by apply (H pre b post).
Qed.
Lemma if_nil {A} (b : bool) (x : A) : (if b then [x] else []) = [] <-> b = false.
Proof. by destruct b. Qed.
Lemma Forall_split {A} (P : A -> Prop) l : (forall pre a post, l = pre ++ a :: post -> P a) <-> Forall P l.
Proof.
  rewrite list.Forall_forall. split.
  - intros H a Ha. apply list_elem_of_split in Ha as (pre & post & ->). by apply (H pre a post).
  - intros H pre a post ->. apply H. set_solver.
Qed.
Lemma AddMemoryMapProblems_nil p :
  AddMemoryMapProblems p = [] <-> Forall map_spec_ok (memory_maps p) /\ NoDup (map FileSize (memory_maps p)).
Proof.
  unfold AddMemoryMapProblems. rewrite with_earlier_nil.
  rewrite <- (no_repeat_iff FileSize (fun a b => FileSize a =? FileSize b)) by (intros; apply Z.eqb_eq).
  rewrite <- Forall_split. cbn [app]. unfold memory_map_problems, map_spec_ok. split.
  - intros H. split; intros pre m post E; specialize (H pre m post E); apply app_nil in H as [H1 H2].
    + destruct (Create _ _ _) as [map|]; [by exists map|done].
    + by apply if_nil in H2.
  - intros [H1 H2] pre m post E. apply app_nil. split.
    + destruct (H1 pre m post E) as [map ->]. done.
    + by apply if_nil, (H2 pre m post).
Qed.
Lemma AddProtocolProblems_nil c :
  AddProtocolProblems c = [] <->
  Forall (protocol_ok c) (Protocols c) /\ NoDup (map (fun o => name (spec o)) (Protocols c)).
Proof.
  unfold AddProtocolProblems. rewrite with_earlier_nil.
  rewrite <- (no_repeat_iff (fun o => name (spec o)) (fun a b => String.eqb (name (spec a)) (name (spec b))))
    by (intros; apply String.eqb_eq).
  rewrite <- Forall_split. cbn [app]. unfold protocol_problems, protocol_ok. cbv zeta.
  assert (forall o, (if negb (existsb (fun v => points_to v o) (Vehicles c))
    then [("protocol '" +:+ name (spec o) +:+ "' has no vehicle")] else []) = []
    <-> exists v, v ∈ Vehicles c /\ points_to v o = true) as Hv.
  { intros o. rewrite if_nil, negb_false_iff, existsb_exists. by setoid_rewrite list_elem_of_In. }
  split.
  - intros H.
    assert (forall pre o post, Protocols c = pre ++ o :: post ->
      protocol_ok c o /\ existsb (fun b => String.eqb (name (spec b)) (name (spec o))) pre = false) as Hall.
    { intros pre o post E. specialize (H pre o post E).
      apply app_nil in H as [H1 [H2 [H3 [H4 H5%AddMemoryMapProblems_nil]%app_nil]%app_nil]%app_nil].
      apply if_nil in H2, H3. apply Hv in H4.
      destruct (String.eqb_spec (name (spec o)) ""); [done|]. apply if_nil in H1. split; [|done].
      split_and!; try done; try apply H5. intros Hk Ek. rewrite Ek, bool_decide_eq_true_2 in H3 by done. done. }
    split; intros pre o post E; apply (Hall pre o post E).
  - intros [H1 H2] pre o post E. destruct (H1 pre o post E) as (Hn & Ha & Hk & Hve & Hm & Hd).
    rewrite !app_nil. split_and!.
    + destruct (String.eqb_spec (name (spec o)) ""); [done|]. by apply if_nil, (H2 pre o post).
    + by apply if_nil.
    + apply if_nil, andb_false_iff. destruct (decide (is_Some (kernel_load_address (spec o)))) as [Hs|Hs].
      * right. apply String.eqb_neq. by apply Hk.
      * left. by rewrite bool_decide_eq_false_2.
    + by apply Hv.
    + by apply AddMemoryMapProblems_nil.
Qed.
Lemma AddVehicleProblems_nil c :
  AddVehicleProblems c = [] <-> Forall (vehicle_ok c) (Vehicles c) /\ NoDup (map id (Vehicles c)).
Proof.
  unfold AddVehicleProblems. rewrite with_earlier_nil.
  rewrite <- (no_repeat_iff id (fun a b => String.eqb (id a) (id b))) by (intros; apply String.eqb_eq).
  rewrite <- Forall_split. cbn [app]. unfold vehicle_problems, vehicle_ok.
  assert (forall v, match protocol v with
     | None => [("vehicle '" +:+ id v +:+ "' has no protocol")]
     | Some _ => if negb (existsb (points_to v) (Protocols c)) then
           [("vehicle '" +:+ id v +:+ "' protocol is not in this catalog")] else []
     end = [] <-> exists o, o ∈ Protocols c /\ points_to v o = true) as Hv.
  { intros v. unfold points_to. destruct (protocol v) as [q|].
    - rewrite if_nil, negb_false_iff, existsb_exists. by setoid_rewrite list_elem_of_In.
    - split; [done|]. by intros (o & _ & [=]). }
  split.
  - intros H. split; intros pre v post E; specialize (H pre v post E); apply app_nil in H as [H1 H2%Hv].
    + destruct (IsVehicleId (id v)); [done|]. done.
    + destruct (IsVehicleId (id v)); cbn [negb] in H1; [by apply if_nil in H1|done].
  - intros [H1 H2] pre v post E. destruct (H1 pre v post E) as [Hi Ho]. apply app_nil. split; [|by apply Hv].
    rewrite Hi. cbn [negb]. by apply if_nil, (H2 pre v post).
Qed.
(** *** Linear files *)
Lemma linear_blocks_spec segments base file_end :
  let s0 := LinearSegmentEnd segments file_end in
  Forall (fun s => u32_ok (seg_start s)) segments -> 0 <= base <= s0 -> out_of_order segments file_end = false ->
  file_end <= kU32Max ->
  exists blocks, linear_blocks segments base file_end = Some blocks
    /\ Forall block_ok blocks /\ StronglySorted precedes blocks
    /\ Forall (fun b => s0 <= Start (range b) /\ End (range b) <= file_end
                       /\ backing b = FileBacking (Start (range b) - base)) blocks
    /\ (forall o, placements blocks o = if decide (s0 - base <= o < file_end - base) then 1%nat else 0%nat)
    /\ (forall pre s rest a, segments = pre ++ s :: rest -> seg_start s <= a < LinearSegmentEnd rest file_end ->
         exists b, b ∈ blocks /\ holds b a /\ writability b = seg_writability s)
    /\ (segments = [] \/ s0 < file_end).
Proof.
  cbv zeta. induction segments as [|s rest IH]; intros Hu Hb Ho Hm.
  { exists []. split_and!; try done; try constructor.
    - intros o. cbn. by rewrite decide_False by lia.
    - intros pre s rest a E. by destruct pre.
    - done. }
  cbn [out_of_order] in Ho. apply orb_false_iff in Ho as [Hlt%Z.leb_gt Ho]. inversion Hu as [|? ? Hs Hr]; subst.
  cbn [LinearSegmentEnd] in Hb |- *. unfold u32_ok in Hs.
  assert (LinearSegmentEnd rest file_end <= file_end) as Hle.
  { destruct (IH Hr ltac:(lia) Ho Hm) as (_ & _ & _ & _ & _ & _ & _ & [->|]); cbn [LinearSegmentEnd]; lia. }
  destruct (IH Hr ltac:(lia) Ho Hm) as (bs & Ebs & Hbs & Hso & Hall & Hpl & Hw & _). cbn [linear_blocks].
  assert (u32 (LinearSegmentEnd rest file_end - seg_start s) = LinearSegmentEnd rest file_end - seg_start s) as ->
    by (apply u32_small; unfold u32_ok, kU32Max in *; lia).
  unfold FileBlock. rewrite Make_spec, decide_True by lia. cbn [mbind option_bind]. rewrite Ebs. cbn [mbind option_bind].
  eexists. split; [reflexivity|]. unfold kU32Max in *. split_and!.
  - constructor; [|done]. split; [|cbn; lia]. unfold range_ok, kU32Max. cbn. lia.
  - constructor; [done|]. rewrite list.Forall_forall in Hall |- *. intros b Hin. destruct (Hall b Hin) as (H1 & _).
    unfold precedes. cbn. lia.
  - constructor; [cbn; split_and!; [lia|lia|done]|]. eapply list.Forall_impl; [exact Hall|]. cbn. intros b (? & ? & ?). split_and!; [lia|lia|done].
  - intros o. rewrite placements_cons, Hpl. unfold file_range. cbn [backing range Size].
    rewrite count_covers_cons. change (count_covers [] o) with 0%nat. unfold covers. cbn [fst snd].
    repeat case_decide; lia.
  - intros [|x pre] s' rest' a E Ha; injection E; intros; subst.
    + eexists. split; [apply list_elem_of_here|]. split; [|done]. unfold holds. cbn. lia.
    + destruct (Hw pre s' rest' a eq_refl Ha) as (b & Hb' & ? & ?). exists b. split_and!; try done. by right.
  - right. lia.
Qed.
Lemma linear_last segments file_end :
  segments <> [] -> out_of_order segments file_end = false ->
  exists pre s, segments = pre ++ [s] /\ seg_start s < file_end.
Proof.
  intros Hne. induction segments as [|s rest IH]; [done|]. cbn [out_of_order]. intros [Hlt%Z.leb_gt Ho]%orb_false_iff.
  destruct rest as [|s' rest]; [by exists [], s|]. destruct (IH ltac:(done) Ho) as (pre & l & E & Hl).
  exists (s :: pre), l. by rewrite E.
Qed.
Lemma fold_file_end base blocks init :
  Forall (fun b => backing b = FileBacking (Start (range b) - base) /\ range_ok (range b)) blocks ->
  fold_left (fun end_ b => match backing b with
                           | FileBacking offset => Z.max end_ (offset + Size (range b))
                           | FillBacking _ => end_
                           end) blocks init
  = fold_left Z.max (map (fun b => End (range b) - base) blocks) init.
Proof.
  revert init. induction blocks as [|b bs IH]; intros init H; [done|]. inversion H as [|? ? [Hb Hr] Hbs]; subst.
  cbn [fold_left map]. rewrite Hb, IH by done. unfold range_ok in Hr. do 2 f_equal. lia.
Qed.
Lemma fold_max_le l init n : init <= n -> Forall (fun x => x <= n) l -> init <= fold_left Z.max l init <= n.
Proof.
  revert init. induction l as [|x l IH]; intros init Hi Hl; [cbn; lia|]. inversion Hl; subst. cbn [fold_left].
  specialize (IH (Z.max init x) ltac:(lia) ltac:(done)). lia.
Qed.
Lemma fold_max_elem l init x : x ∈ l -> x <= fold_left Z.max l init.
Proof.
  revert init. induction l as [|y l IH]; intros init Hx; [set_solver|]. cbn [fold_left].
  assert (forall i, i <= fold_left Z.max l i) as Hi.
  { clear. induction l as [|z l IH]; intros i; [cbn; lia|]. cbn [fold_left]. specialize (IH (Z.max i z)). lia. }
  apply elem_of_cons in Hx as [->|Hx]; [|by apply IH]. specialize (Hi (Z.max init y)). lia.
Qed.
Lemma linear_FileSize blocks base def n :
  Forall block_ok blocks -> 0 <= n <= kU32Max ->
  Forall (fun b => backing b = FileBacking (Start (range b) - base) /\ End (range b) <= base + n) blocks ->
  (exists b, b ∈ blocks /\ End (range b) = base + n) -> FileSize {| map_blocks := blocks; map_definition_base := def |} = n.
Proof.
  intros Hb Hn Hall (b & Hin & He). unfold FileSize. cbn [map_blocks]. rewrite list.Forall_forall in Hb, Hall.
  rewrite (fold_file_end base) by (apply list.Forall_forall; intros c Hc; split; [apply (Hall c Hc)|apply (Hb c Hc)]).
  assert (End (range b) - base <= fold_left Z.max (map (fun b => End (range b) - base) blocks) 0)
    by (apply fold_max_elem, list_elem_of_In, (in_map (fun b => End (range b) - base)), list_elem_of_In, Hin).
  pose proof (fold_max_le (map (fun b => End (range b) - base) blocks) 0 n ltac:(lia)) as Hmax.
  destruct Hmax; [|lia]. apply List.Forall_map, list.Forall_forall. intros c Hc. destruct (Hall c Hc). lia.
Qed.
Lemma linear_file_pos m base a :
  map_ok m -> Forall (fun b => backing b = FileBacking (Start (range b) - base)) (blocks_ m) ->
  file_pos m a = if decide (base <= a < base + file_size_ m) then Some (a - base) else None.
Proof.
  intros Hm Hall. rewrite list.Forall_forall in Hall. pose proof (map_ok_sorted m Hm) as Hs.
  assert (forall a p, file_pos m a = Some p -> p = a - base) as Hpos.
  { intros a' p. unfold file_pos. pose proof (BlockAt_holds m a' Hs) as Hh. destruct (BlockAt m a') as [b|]; [|done].
    destruct Hh as [Hb _]. rewrite (Hall b Hb). intros [= <-]. lia. }
  case_decide as Ha.
  - destruct (file_pos_surj m (a - base) Hm ltac:(lia)) as [a' E]. pose proof (Hpos a' _ E).
    by replace a' with a in E by lia.
  - destruct (file_pos m a) as [p|] eqn:E; [|done]. pose proof (Hpos a p E). pose proof (file_pos_range m a p Hm E). lia.
Qed.
(** *** Selecting a map *)
Lemma Identity_ok n : 0 < n <= kU32Max ->
  Identity n = Ok (mkMemoryMap [mkMemoryBlock (mkAddressRange 0 n n) (FileBacking 0) kWritable] n 0).
Proof.
  intros Hn. unfold Identity. rewrite Make_spec, decide_True by lia. unfold Create.
  destruct (Z.eqb_spec n 0); [lia|]. cbn [List.find writable_fill backing disorder].
  unfold CheckFilePlacement. cbn [fmap list_fmap mjoin list_join file_range backing range Size app].
  change (merge_sort file_range_le [(0, n)]) with [(0, n)]. cbn [place_ranges].
  unfold Advance. change (0 <? 0) with false. cbv iota. destruct (Z.ltb_spec (kU32Max - 0) n); [lia|].
  cbn [result_bind]. replace (0 + n) with n by lia. rewrite !Z.ltb_irrefl. reflexivity.
Qed.
Lemma Create_Ok blocks n base m : Create blocks n base = Ok m -> m = mkMemoryMap blocks n base.
Proof.
  unfold Create. destruct blocks; [done|]. destruct (n =? 0); [done|]. destruct (List.find _ _); [done|].
  destruct (disorder _); [done|]. intros E. apply result_bind_Ok in E as (? & _ & E). by injection E as <-.
Qed.
Lemma SelectMemoryMap_spec p n :
  Forall map_spec_ok (memory_maps p) -> 0 <= n ->
  match SelectMemoryMap (Some p) n with
  | Ok m => file_size_ m = n /\ 0 < n <= kU32Max
            /\ (memory_maps p = [] /\ Identity n = Ok m
                \/ exists s, s ∈ memory_maps p /\ FileSize s = n /\ m = mkMemoryMap (map_blocks s) n (map_definition_base s))
  | Err e => kind e = kFileSizeMismatch
             /\ (0 < n <= kU32Max -> memory_maps p <> [] /\ Forall (fun s => FileSize s <> n) (memory_maps p))
  end.
Proof.
  intros Hm Hn. unfold SelectMemoryMap. destruct (Z.eqb_spec n 0); [cbn; split; [done|lia]|].
  unfold FromSize. destruct (Z.ltb_spec kU32Max n); [cbn; split; [done|lia]|].
  destruct (memory_maps p) as [|s0 ss] eqn:E.
  - rewrite Identity_ok by lia. cbn. split_and!; [done|lia|lia|]. by left.
  - destruct (List.find _ (s0 :: ss)) as [s|] eqn:Ef.
    + apply find_some in Ef as [Hin Es%Z.eqb_eq]. rewrite list.Forall_forall in Hm. apply list_elem_of_In in Hin.
      destruct (Hm s Hin) as [m Em]. rewrite Em. rewrite (Create_Ok _ _ _ _ Em), Es. cbn. split_and!; [done|lia|lia|].
      right. by exists s.
    + cbn. split; [done|]. intros _. split; [done|]. apply list.Forall_forall. intros s Hs Es.
      apply list_elem_of_In in Hs. pose proof (find_none _ _ Ef s Hs) as Hf. cbn in Hf. lia.
Qed.

(** ** Claims *)
(** [CatalogProblems] is a complete check of a catalog: it has nothing to say exactly
    when every protocol has a name of its own, an alias without a comma, a kernel
    where it has a load address, a vehicle that points at it, and memory maps that
    [MemoryMap::Create] accepts with no two for one file size; and every vehicle has
    a well-spelled id of its own and a protocol of this catalog. *)
Theorem CatalogProblems_complete c : CatalogProblems c = [] <-> catalog_ok c.
Proof. unfold CatalogProblems, catalog_ok. rewrite app_nil, AddProtocolProblems_nil, AddVehicleProblems_nil. tauto. Qed.

(** the compile-time layout of a linear ROM file is the one it describes: whenever
    [LinearBlocks] is a constant expression, [MemoryMap::Create] accepts its blocks
    for a file of that size, each address of the file's range holds the file byte at
    its distance from the first segment's start and no other address holds one, the
    bytes of a segment are writable exactly when the segment says so, and the size by
    which the map is selected is the file's. *)
Theorem LinearBlocks_linear file_size segments blocks base0 :
  0 <= file_size -> Forall (fun s => u32_ok (seg_start s)) segments -> LinearBlocks file_size segments = Some blocks ->
  let m := mkMemoryMap blocks file_size base0 in
  let base := LinearSegmentEnd segments 0 in
  Create blocks file_size base0 = Ok m
  /\ (forall a, file_pos m a = if decide (base <= a < base + file_size) then Some (a - base) else None)
  /\ (forall pre s rest a, segments = pre ++ s :: rest -> seg_start s <= a < LinearSegmentEnd rest (base + file_size) ->
       exists b, BlockAt m a = Some b /\ writability b = seg_writability s)
  /\ FileSize {| map_blocks := blocks; map_definition_base := base0 |} = file_size.
Proof.
  intros Hn Hu. destruct segments as [|first rest0] eqn:Es; [done|]. cbn [LinearBlocks]. cbv zeta.
  destruct (Z.eqb_spec file_size 0); [done|]. cbn [orb].
  destruct (Z.ltb_spec kU32Max (seg_start first + file_size)); [done|].
  destruct (out_of_order _ _) eqn:Ho; [done|]. rewrite <- Es in Hu, Ho |- *. intros E.
  assert (LinearSegmentEnd segments 0 = seg_start first) as -> by (by rewrite Es).
  assert (LinearSegmentEnd segments (seg_start first + file_size) = seg_start first) as Hs0 by (by rewrite Es).
  assert (u32_ok (seg_start first)) as Hf by (rewrite Es in Hu; by inversion Hu). unfold u32_ok in Hf.
  destruct (linear_blocks_spec segments (seg_start first) (seg_start first + file_size) Hu ltac:(lia) Ho ltac:(lia))
    as (bs & E' & Hbs & Hso & Hall & Hpl & Hw & _).
  rewrite E in E'. injection E' as <-. rewrite Hs0 in Hall, Hpl. rewrite list.Forall_forall in Hall.
  assert (sorted_blocks blocks) as Hsb by done.
  assert (forall a b, b ∈ blocks -> holds b a -> BlockAt (mkMemoryMap blocks file_size base0) a = Some b) as Hat.
  { intros a b Hb Hh. by apply (holds_at_unique blocks a _ (Some b) Hsb (BlockAt_holds (mkMemoryMap blocks file_size base0) a Hsb)). }
  assert (layout_ok blocks file_size) as Hlay.
  { split_and!; [|lia| |done|].
    - intros ->. specialize (Hpl 0). rewrite decide_True in Hpl by lia. done.
    - apply list.Forall_forall. intros b Hb. destruct (Hall b Hb) as (_ & _ & Eb). unfold writable_fill. by rewrite Eb.
    - intros o. rewrite Hpl. repeat case_decide; lia || done. }
  split_and!.
  - pose proof (Create_layout blocks file_size base0 Hbs ltac:(lia)) as Hc.
    destruct (Create _ _ _) as [m|e]; [by destruct Hc as [-> _]|by destruct Hc].
  - intros a. apply (linear_file_pos (mkMemoryMap blocks file_size base0)); [|apply list.Forall_forall; intros b Hb; apply (Hall b Hb)].
    split; [done|]. split; [cbn; lia|done].
  - intros pre s rest a Hsp Ha. destruct (Hw pre s rest a Hsp Ha) as (b & Hb & Hh & Hwr). exists b. split; [by apply Hat|done].
  - apply (linear_FileSize blocks (seg_start first) base0 file_size Hbs ltac:(lia)).
    + apply list.Forall_forall. intros b Hb. destruct (Hall b Hb) as (_ & ? & ?). done.
    + destruct (linear_last segments (seg_start first + file_size)) as (pre & s & -> & Hlt); [by rewrite Es|done|].
      destruct (Hw pre s [] (seg_start first + file_size - 1) eq_refl ltac:(cbn [LinearSegmentEnd]; lia)) as (b & Hb & Hh & _).
      exists b. split; [done|]. destruct (Hall b Hb) as (_ & ? & _). unfold holds in Hh. lia.
Qed.
Lemma LinearBlocks_linear_witness :
  file_pos (mkMemoryMap [mkMemoryBlock (mkAddressRange 0x8000 0x10 0x8010) (FileBacking 0) kReadOnly;
                         mkMemoryBlock (mkAddressRange 0x8010 0x20 0x8030) (FileBacking 0x10) kWritable] 0x30 0) 0x8011 = Some 0x11.
Proof.
  rewrite (proj1 (proj2 (LinearBlocks_linear 0x30 [ReadOnlyFrom 0x8000; WritableFrom 0x8010]
    [mkMemoryBlock (mkAddressRange 0x8000 0x10 0x8010) (FileBacking 0) kReadOnly;
     mkMemoryBlock (mkAddressRange 0x8010 0x20 0x8030) (FileBacking 0x10) kWritable] 0
    ltac:(lia) ltac:(repeat constructor; vm_compute; congruence) ltac:(vm_compute; reflexivity)))).
  reflexivity.
Defined.

(** a ROM file is placed or refused by its size alone, never padded or cut: for a
    protocol of a consistent catalog, [PlaceRomFile] succeeds exactly when the file is
    not empty, has at most 4 GiB less one byte and, where the protocol declares maps,
    has the size of one; the image is the file itself under that map (the identity
    map where none is declared), and every refusal is a file-size mismatch. *)
Theorem PlaceRomFile_by_size c o file :
  CatalogProblems c = [] -> o ∈ Protocols c ->
  match PlaceRomFile (Some (spec o)) file with
  | Ok img => file_ img = file /\ file_size_ (map_ img) = zlen file
              /\ (memory_maps (spec o) = [] /\ Identity (zlen file) = Ok (map_ img)
                  \/ exists s, s ∈ memory_maps (spec o) /\ FileSize s = zlen file
                             /\ map_ img = mkMemoryMap (map_blocks s) (zlen file) (map_definition_base s))
  | Err e => kind e = kFileSizeMismatch
             /\ (zlen file = 0 \/ kU32Max < zlen file
                 \/ memory_maps (spec o) <> [] /\ Forall (fun s => FileSize s <> zlen file) (memory_maps (spec o)))
  end.
Proof.
  unfold CatalogProblems. intros [Hp _]%app_nil Ho. apply AddProtocolProblems_nil in Hp as [Hp _].
  rewrite list.Forall_forall in Hp. destruct (Hp o Ho) as (_ & _ & _ & _ & Hm & _).
  pose proof (zlen_nonneg file) as Hn. pose proof (SelectMemoryMap_spec (spec o) (zlen file) Hm Hn) as Hs.
  unfold PlaceRomFile. destruct (SelectMemoryMap _ _) as [m|e]; cbn [result_bind].
  - destruct Hs as (Hf & Hr & Hc). unfold MemoryImage_Create. rewrite Hf, Z.eqb_refl. cbn. split_and!; try done.
  - destruct Hs as [Hk Hc]. split; [done|]. destruct (decide (0 < zlen file <= kU32Max)) as [Hd|Hd]; [|lia].
    right. right. by apply Hc.
Qed.
(** A catalog of one protocol with one vehicle. *)
Definition sample_protocol : ProtocolObject := {| address := 0; spec := {|
  name := "p"; alias := ""; ecu := "e"; mcu := "m"; mode := "OBD2"; checksum := kNoChecksum; read := true;
  test_write := false; write := true; flash_transport := "CAN"; log_transport := ""; log_protocol := ""; kernel := "";
  kernel_load_address := None; description := "";
  memory_maps := [{| map_blocks := default [] (LinearBlocks 4 [ReadOnlyFrom 0; WritableFrom 1]); map_definition_base := 0 |}]
|} |}.
Definition sample_catalog : Catalog := {|
  Protocols := [sample_protocol];
  Vehicles := [{| id := "v-1"; make := ""; model := ""; version := ""; type := ""; kw := ""; hp := ""; fuel := ""; year := "";
                  protocol := Some sample_protocol |}]
|}.
Lemma PlaceRomFile_by_size_witness :
  exists img, PlaceRomFile (Some (spec sample_protocol)) [1; 2; 3; 4] = Ok img /\ file_ img = [1; 2; 3; 4].
Proof.
  pose proof (PlaceRomFile_by_size sample_catalog sample_protocol [1; 2; 3; 4] ltac:(vm_compute; reflexivity)
    (list_elem_of_here _ _)) as H.
  destruct (PlaceRomFile (Some (spec sample_protocol)) [1; 2; 3; 4]) as [img|e] eqn:E.
  - exists img. split; [reflexivity|exact (proj1 H)].
  - vm_compute in E. discriminate E.
Defined.
