(* ===== verification/BuiltinCatalog.v ===== *)
(** * BuiltinCatalog: [src/backend/config/builtin_catalog.cpp]

    The protocols and vehicles of the application, one definition per entry and in
    the order of the source. *)
From S2P Require Import Prelude MemoryMap MemoryImage Catalog.

(** ** Memory maps *)
(** The value of a [consteval] builder, which compiled. *)
Definition constant {A} (d : A) (o : option A) : A := default d o.
Definition linear (file_size : Z) (segments : list LinearSegment) : list MemoryBlock :=
  constant [] (LinearBlocks file_size segments).
Definition kMc68PackedBlocks : list MemoryBlock :=
  constant [] (a ← FileBlock 0x00000 0x20000 0x00000 kWritable; b ← FillBlock 0x20000 0x08000 0xFF;
               c ← FileBlock 0x28000 0x08000 0x20000 kWritable; Some [a; b; c]).
Definition kMc68FullBlocks : list MemoryBlock :=
  linear 0x30000 [WritableFrom 0x00000; ReadOnlyFrom 0x20000; WritableFrom 0x28000].
Definition map_at_zero (blocks : list MemoryBlock) : MemoryMapSpec := {| map_blocks := blocks; map_definition_base := 0 |}.
Definition kMc68Maps : list MemoryMapSpec := [map_at_zero kMc68PackedBlocks; map_at_zero kMc68FullBlocks].
Definition kBootloaderOf512kBlocks : list MemoryBlock := linear 0x80000 [ReadOnlyFrom 0x00000; WritableFrom 0x08000].
Definition kBootloaderOf512kMaps : list MemoryMapSpec := [map_at_zero kBootloaderOf512kBlocks].
Definition kColt384kBlocks : list MemoryBlock := linear 0x60000 [ReadOnlyFrom 0x00000; WritableFrom 0x08000].
Definition kColt384kMaps : list MemoryMapSpec := [map_at_zero kColt384kBlocks].
Definition kMh8111ReadBlocks : list MemoryBlock := linear 0x80000 [ReadOnlyFrom 0x00000].
Definition kMh8111Blocks : list MemoryBlock := linear 0x180000 [ReadOnlyFrom 0x00000; WritableFrom 0x80000].
Definition kMh8111Maps : list MemoryMapSpec := [map_at_zero kMh8111ReadBlocks; map_at_zero kMh8111Blocks].
Definition kSh72543rBlocks : list MemoryBlock := linear 0x200000 [ReadOnlyFrom 0x0000; WritableFrom 0x6000].
Definition kSh72543rMaps : list MemoryMapSpec := [map_at_zero kSh72543rBlocks].
Definition kSh72531Blocks : list MemoryBlock :=
  linear 0x140000 [ReadOnlyFrom 0x000000; WritableFrom 0x008000; ReadOnlyFrom 0x13FF00].
Definition kSh72531Maps : list MemoryMapSpec := [map_at_zero kSh72531Blocks].
Definition kSh72543DieselBlocks : list MemoryBlock :=
  linear 0x200000 [ReadOnlyFrom 0x000000; WritableFrom 0x008000; ReadOnlyFrom 0x1FFF00].
Definition kSh72543DieselMaps : list MemoryMapSpec := [map_at_zero kSh72543DieselBlocks].
Definition kN83m4mBlocks : list MemoryBlock :=
  linear 0x3E4000 [ReadOnlyFrom 0x08F9C000; WritableFrom 0x08FAC000; ReadOnlyFrom 0x0937FF00].
Definition kN83m4mMaps : list MemoryMapSpec := [{| map_blocks := kN83m4mBlocks; map_definition_base := 0x08F9C000 |}].
Definition kN83m1_5mBlocks : list MemoryBlock :=
  linear 0x184000 [ReadOnlyFrom 0x08F9C000; WritableFrom 0x08FAC000; ReadOnlyFrom 0x0911FF00].
Definition kN83m1_5mMaps : list MemoryMapSpec := [{| map_blocks := kN83m1_5mBlocks; map_definition_base := 0x08F9C000 |}].

(** ** Protocols *)
Definition p_sub_ecu_denso_sh7055_densocan : ProtocolSpec := {|
  name := "sub_ecu_denso_sh7055_densocan"; alias := "";
  ecu := "Denso SH7055"; mcu := "SH7055"; mode := "OBD2"; checksum := kCorrected;
  read := true; test_write := true; write := true;
  flash_transport := "CAN"; log_transport := "K-Line"; log_protocol := "SSM";
  kernel := "ssmk_can_sh7055.bin"; kernel_load_address := Some 0xFFFF6004;
  description := "Subaru Forester/Impreza/Legacy SH7055 DensoCAN bootloader"; memory_maps := []
|}.
Definition p_sub_ecu_denso_sh7058_densocan : ProtocolSpec := {|
  name := "sub_ecu_denso_sh7058_densocan"; alias := "";
  ecu := "Denso SH7058"; mcu := "SH7058"; mode := "OBD2"; checksum := kCorrected;
  read := true; test_write := true; write := true;
  flash_transport := "CAN"; log_transport := "K-Line"; log_protocol := "SSM";
  kernel := "ssmk_can_sh7058.bin"; kernel_load_address := Some 0xFFFF3000;
  description := "Subaru Forester/Impreza/Legacy SH7058 DensoCAN bootloader"; memory_maps := []
|}.
Definition p_sub_ecu_denso_sh7058s_densocan : ProtocolSpec := {|
  name := "sub_ecu_denso_sh7058s_densocan"; alias := "";
  ecu := "Denso SH7058S"; mcu := "SH7058"; mode := "OBD2"; checksum := kCorrected;
  read := true; test_write := true; write := true;
  flash_transport := "CAN"; log_transport := "K-Line"; log_protocol := "SSM";
  kernel := "ssmk_can_sh7058.bin"; kernel_load_address := Some 0xFFFF3000;
  description := "Subaru Forester/Impreza/Legacy SH7058s DensoCAN bootloader"; memory_maps := []
|}.
Definition p_sub_ecu_denso_sh7058s_diesel_densocan : ProtocolSpec := {|
  name := "sub_ecu_denso_sh7058s_diesel_densocan"; alias := "";
  ecu := "Denso SH7058S"; mcu := "SH7058"; mode := "OBD2"; checksum := kCorrected;
  read := true; test_write := true; write := true;
  flash_transport := "CAN"; log_transport := "K-Line"; log_protocol := "SSM";
  kernel := "ssmk_can_sh7058.bin"; kernel_load_address := Some 0xFFFF3000;
  description := "Subaru Forester/Impreza/Legacy SH7058s Diesel DensoCAN bootloader"; memory_maps := []
|}.
Definition p_sub_ecu_denso_sh7059_diesel_densocan : ProtocolSpec := {|
  name := "sub_ecu_denso_sh7059_diesel_densocan"; alias := "";
  ecu := "Denso SH7059"; mcu := "SH7059d"; mode := "OBD2"; checksum := kCorrected;
  read := true; test_write := true; write := true;
  flash_transport := "CAN"; log_transport := "K-Line"; log_protocol := "SSM";
  kernel := "ssmk_can_sh7059d_euro5.bin"; kernel_load_address := Some 0xFFFEE000;
  description := "Subaru Forester/Impreza/Legacy SH7059 Diesel DensoCAN bootloader"; memory_maps := []
|}.
Definition p_sub_ecu_denso_mc68hc16y5_02_tpu : ProtocolSpec := {|
  name := "sub_ecu_denso_mc68hc16y5_02_tpu"; alias := "";
  ecu := "Denso MC68HC16Y5"; mcu := "MC68HC16Y5_TPU"; mode := "BDM"; checksum := kNoChecksum;
  read := true; test_write := false; write := false;
  flash_transport := "K-Line"; log_transport := "K-Line"; log_protocol := "SSM";
  kernel := "ssmk_mc68hc916y5.bin"; kernel_load_address := Some 0x20000;
  description := "Subaru Forester/Impreza/Legacy 16bit Denso non-USDM 2001-2005 (USDM 2002-2003) K-Line (HC16 TPU/4KB)"; memory_maps := []
|}.
Definition p_sub_ecu_denso_mc68hc16y5_02_bdm : ProtocolSpec := {|
  name := "sub_ecu_denso_mc68hc16y5_02_bdm"; alias := "";
  ecu := "Denso MC68HC16Y5"; mcu := "MC68HC16Y5"; mode := "BDM"; checksum := kNoChecksum;
  read := true; test_write := false; write := true;
  flash_transport := "BDM"; log_transport := "K-Line"; log_protocol := "SSM";
  kernel := "ssmk_mc68hc916y5.bin"; kernel_load_address := Some 0x20000;
  description := "Subaru Forester/Impreza/Legacy 16bit Denso non-USDM 2001-2005 (USDM 2002-2003) BDM (HC16/160KB)"; memory_maps := kMc68Maps
|}.
Definition p_sub_ecu_denso_mc68hc16y5_02 : ProtocolSpec := {|
  name := "sub_ecu_denso_mc68hc16y5_02"; alias := "wrx02";
  ecu := "Denso MC68HC16Y5"; mcu := "MC68HC16Y5"; mode := "OBD2"; checksum := kNoChecksum;
  read := true; test_write := true; write := true;
  flash_transport := "K-Line"; log_transport := "K-Line"; log_protocol := "SSM";
  kernel := "ssmk_mc68hc916y5.bin"; kernel_load_address := Some 0x20000;
  description := "Subaru Forester/Impreza/Legacy 16bit Denso non-USDM 2001-2005 (USDM 2002-2003) K-Line (HC16/160KB)"; memory_maps := kMc68Maps
|}.
Definition p_sub_ecu_denso_mc68hc16y5_02_ecutek : ProtocolSpec := {|
  name := "sub_ecu_denso_mc68hc16y5_02_ecutek"; alias := "wrx02";
  ecu := "Denso MC68HC16Y5"; mcu := "MC68HC16Y5"; mode := "OBD2"; checksum := kNoChecksum;
  read := true; test_write := true; write := true;
  flash_transport := "K-Line"; log_transport := "K-Line"; log_protocol := "SSM";
  kernel := "ssmk_mc68hc916y5.bin"; kernel_load_address := Some 0x20000;
  description := "Subaru Forester/Impreza/Legacy 16bit Denso non-USDM 2001-2005 (USDM 2002-2003) K-Line (HC16/160KB) EcuTek"; memory_maps := kMc68Maps
|}.
Definition p_sub_ecu_denso_sh7055_02 : ProtocolSpec := {|
  name := "sub_ecu_denso_sh7055_02"; alias := "fxt02";
  ecu := "Denso SH7055"; mcu := "SH7055"; mode := "OBD2"; checksum := kCorrected;
  read := true; test_write := true; write := true;
  flash_transport := "K-Line,CAN"; log_transport := "K-Line"; log_protocol := "SSM";
  kernel := "ssmk_kline_sh7055.bin"; kernel_load_address := Some 0xFFFF6004;
  description := "Subaru Forester XT/Cross sports 32bit DBW Denso 2002-2007 K-Line (SH7055/512KB)"; memory_maps := []
|}.
Definition p_sub_ecu_denso_sh7055_02_ecutek : ProtocolSpec := {|
  name := "sub_ecu_denso_sh7055_02_ecutek"; alias := "fxt02";
  ecu := "Denso SH7055"; mcu := "SH7055"; mode := "OBD2"; checksum := kCorrected;
  read := true; test_write := true; write := true;
  flash_transport := "K-Line,CAN"; log_transport := "K-Line"; log_protocol := "SSM";
  kernel := "ssmk_kline_sh7055.bin"; kernel_load_address := Some 0xFFFF6004;
  description := "Subaru Forester XT/Cross sports 32bit DBW Denso 2002-2007 K-Line (SH7055/512KB) EcuTek"; memory_maps := []
|}.
Definition p_sub_ecu_denso_sh7055_04 : ProtocolSpec := {|
  name := "sub_ecu_denso_sh7055_04"; alias := "sti04";
  ecu := "Denso SH7055"; mcu := "SH7055"; mode := "OBD2"; checksum := kCorrected;
  read := true; test_write := true; write := true;
  flash_transport := "K-Line,CAN"; log_transport := "K-Line"; log_protocol := "SSM";
  kernel := "ssmk_kline_sh7055.bin"; kernel_load_address := Some 0xFFFF6004;
  description := "Subaru Forester/Impreza/Legacy 32bit DBW Denso 2003-2005 K-Line (SH7055/512KB)"; memory_maps := []
|}.
Definition p_sub_ecu_denso_sh7055_04_ecutek : ProtocolSpec := {|
  name := "sub_ecu_denso_sh7055_04_ecutek"; alias := "sti04_ecutek";
  ecu := "Denso SH7055"; mcu := "SH7055"; mode := "OBD2"; checksum := kCorrected;
  read := true; test_write := true; write := true;
  flash_transport := "K-Line,CAN"; log_transport := "K-Line"; log_protocol := "SSM";
  kernel := "ssmk_kline_sh7055.bin"; kernel_load_address := Some 0xFFFF6004;
  description := "Subaru Forester/Impreza/Legacy 32bit DBW Denso 2003-2005 K-Line (SH7055/512KB) EcuTek"; memory_maps := []
|}.
Definition p_sub_ecu_denso_sh7055_04_cobb : ProtocolSpec := {|
  name := "sub_ecu_denso_sh7055_04_cobb"; alias := "sti04_cobb";
  ecu := "Denso SH7055"; mcu := "SH7055"; mode := "OBD2"; checksum := kCorrected;
  read := false; test_write := true; write := false;
  flash_transport := "K-Line,CAN"; log_transport := "K-Line"; log_protocol := "SSM";
  kernel := "ssmk_kline_sh7055.bin"; kernel_load_address := Some 0xFFFF6004;
  description := "Subaru Forester/Impreza/Legacy 32bit DBW Denso 2003-2005 K-Line (SH7055/512KB) COBB"; memory_maps := []
|}.
Definition p_sub_ecu_denso_sh7058 : ProtocolSpec := {|
  name := "sub_ecu_denso_sh7058"; alias := "sti05";
  ecu := "Denso SH7058"; mcu := "SH7058"; mode := "OBD2"; checksum := kCorrected;
  read := true; test_write := true; write := true;
  flash_transport := "K-Line,CAN"; log_transport := "K-Line"; log_protocol := "SSM";
  kernel := "ssmk_kline_sh7058.bin"; kernel_load_address := Some 0xFFFF3000;
  description := "Subaru Forester/Impreza/Legacy 32bit DBW Denso 2006-2007 K-Line (SH7058/1MB)"; memory_maps := []
|}.
Definition p_sub_ecu_denso_sh7058_ecutek : ProtocolSpec := {|
  name := "sub_ecu_denso_sh7058_ecutek"; alias := "sti05_ecutek";
  ecu := "Denso SH7058"; mcu := "SH7058"; mode := "OBD2"; checksum := kCorrected;
  read := true; test_write := true; write := true;
  flash_transport := "K-Line,CAN"; log_transport := "K-Line"; log_protocol := "SSM";
  kernel := "ssmk_kline_sh7058.bin"; kernel_load_address := Some 0xFFFF3000;
  description := "Subaru Forester/Impreza/Legacy 32bit DBW Denso 2006-2007 K-Line (SH7058/1MB) EcuTek"; memory_maps := []
|}.
Definition p_sub_ecu_denso_sh7058_cobb : ProtocolSpec := {|
  name := "sub_ecu_denso_sh7058_cobb"; alias := "sti05_cobb";
  ecu := "Denso SH7058"; mcu := "SH7058"; mode := "OBD2"; checksum := kCorrected;
  read := false; test_write := true; write := false;
  flash_transport := "K-Line,CAN"; log_transport := "K-Line"; log_protocol := "SSM";
  kernel := "ssmk_kline_sh7058.bin"; kernel_load_address := Some 0xFFFF3000;
  description := "Subaru Forester/Impreza/Legacy 32bit DBW Denso 2006-2007 K-Line (SH7058/1MB) COBB"; memory_maps := []
|}.
Definition p_sub_ecu_denso_sh7058_can : ProtocolSpec := {|
  name := "sub_ecu_denso_sh7058_can"; alias := "subarucan";
  ecu := "Denso SH7058"; mcu := "SH7058"; mode := "OBD2"; checksum := kCorrected;
  read := true; test_write := true; write := true;
  flash_transport := "iso15765,CAN"; log_transport := "K-Line"; log_protocol := "SSM";
  kernel := "ssmk_can_tp_sh7058.bin"; kernel_load_address := Some 0xFFFF3000;
  description := "Subaru Forester/Impreza/Legacy 32bit DBW Denso 2007+ CAN (SH7058S/1MB)"; memory_maps := []
|}.
Definition p_sub_ecu_denso_sh7058_can_ecutek : ProtocolSpec := {|
  name := "sub_ecu_denso_sh7058_can_ecutek"; alias := "subarucan_ecutek";
  ecu := "Denso SH7058"; mcu := "SH7058"; mode := "OBD2"; checksum := kCorrected;
  read := true; test_write := true; write := true;
  flash_transport := "iso15765,CAN"; log_transport := "K-Line"; log_protocol := "SSM";
  kernel := "ssmk_can_tp_sh7058.bin"; kernel_load_address := Some 0xFFFF3000;
  description := "Subaru Forester/Impreza/Legacy 32bit DBW Denso 2007+ CAN (SH7058S/1MB) EcuTek"; memory_maps := []
|}.
Definition p_sub_ecu_denso_sh7058_can_ecutek_racerom : ProtocolSpec := {|
  name := "sub_ecu_denso_sh7058_can_ecutek_racerom"; alias := "subarucan_ecutek_racerom";
  ecu := "Denso SH7058"; mcu := "SH7058"; mode := "OBD2"; checksum := kCorrected;
  read := true; test_write := true; write := true;
  flash_transport := "iso15765,CAN"; log_transport := "K-Line"; log_protocol := "SSM";
  kernel := "ssmk_can_tp_sh7058.bin"; kernel_load_address := Some 0xFFFF3000;
  description := "Subaru Forester/Impreza/Legacy 32bit DBW Denso 2007+ CAN (SH7058S/1MB) EcuTek RaceRom"; memory_maps := []
|}.
Definition p_sub_ecu_denso_sh7058_can_ecutek_racerom_alt : ProtocolSpec := {|
  name := "sub_ecu_denso_sh7058_can_ecutek_racerom_alt"; alias := "subarucan_ecutek_racerom_alt";
  ecu := "Denso SH7058"; mcu := "SH7058"; mode := "OBD2"; checksum := kCorrected;
  read := true; test_write := true; write := true;
  flash_transport := "iso15765,CAN"; log_transport := "K-Line"; log_protocol := "SSM";
  kernel := "ssmk_can_tp_sh7058.bin"; kernel_load_address := Some 0xFFFF3000;
  description := "Subaru Forester/Impreza/Legacy 32bit DBW Denso 2007+ CAN (SH7058S/1MB) EcuTek RaceRom Alt"; memory_maps := []
|}.
Definition p_sub_ecu_denso_sh7058_can_cobb : ProtocolSpec := {|
  name := "sub_ecu_denso_sh7058_can_cobb"; alias := "subarucan_cobb";
  ecu := "Denso SH7058"; mcu := "SH7058"; mode := "OBD2"; checksum := kCorrected;
  read := true; test_write := true; write := true;
  flash_transport := "iso15765,CAN"; log_transport := "K-Line"; log_protocol := "SSM";
  kernel := "ssmk_can_tp_sh7058.bin"; kernel_load_address := Some 0xFFFF3000;
  description := "Subaru Forester/Impreza/Legacy 32bit DBW Denso 2007+ CAN (SH7058S/1MB) COBB"; memory_maps := []
|}.
Definition p_sub_ecu_denso_sh7058_can_diesel : ProtocolSpec := {|
  name := "sub_ecu_denso_sh7058_can_diesel"; alias := "subarucand";
  ecu := "Denso SH7058"; mcu := "SH7058d"; mode := "OBD2"; checksum := kCorrected;
  read := true; test_write := true; write := true;
  flash_transport := "iso15765,CAN"; log_transport := "K-Line"; log_protocol := "SSM";
  kernel := "ssmk_can_tp_sh7058d_euro4.bin"; kernel_load_address := Some 0xFFFF4000;
  description := "Subaru Forester/Impreza/Legacy 32bit DBW Denso 2007+ CAN EURO4 Diesel (SH7058S/1MB)"; memory_maps := []
|}.
Definition p_sub_ecu_denso_sh7059_can_diesel : ProtocolSpec := {|
  name := "sub_ecu_denso_sh7059_can_diesel"; alias := "subarucand";
  ecu := "Denso SH7059"; mcu := "SH7059d"; mode := "OBD2"; checksum := kCorrected;
  read := true; test_write := true; write := true;
  flash_transport := "iso15765,CAN"; log_transport := "K-Line"; log_protocol := "SSM";
  kernel := "ssmk_can_tp_sh7059d_euro5.bin"; kernel_load_address := Some 0xFFFEE000;
  description := "Subaru Forester/Impreza/Legacy 32bit DBW Denso 2011+ CAN EURO5 Diesel (SH7059/1.5MB)"; memory_maps := []
|}.
Definition p_sub_ecu_denso_sh72543_can_diesel : ProtocolSpec := {|
  name := "sub_ecu_denso_sh72543_can_diesel"; alias := "";
  ecu := "Denso SH72543"; mcu := "SH72543d"; mode := "OBD2"; checksum := kCorrected;
  read := true; test_write := false; write := true;
  flash_transport := "iso15765,CAN"; log_transport := "iso15765"; log_protocol := "SSM";
  kernel := ""; kernel_load_address := None;
  description := "Subaru Forester/Impreza/Legacy 32bit DBW Denso 2017+ CAN EURO6 Diesel (SH72543/2MB)"; memory_maps := kSh72543DieselMaps
|}.
Definition p_sub_ecu_unisia_jecs_20_bootmode : ProtocolSpec := {|
  name := "sub_ecu_unisia_jecs_20_bootmode"; alias := "";
  ecu := "WA12212920WWW"; mcu := "M32R_128KB"; mode := "OBD2"; checksum := kNoChecksum;
  read := true; test_write := false; write := true;
  flash_transport := "K-Line"; log_transport := "K-Line"; log_protocol := "SSM";
  kernel := "ssmk_uj20_bootmode.bin"; kernel_load_address := None;
  description := "Subaru Forester/Impreza/Legacy 2000-2002 K-Line (UJ WA12212920WWW/128KB) Bootmode"; memory_maps := []
|}.
Definition p_sub_ecu_unisia_jecs_20 : ProtocolSpec := {|
  name := "sub_ecu_unisia_jecs_20"; alias := "";
  ecu := "WA12212920WWW"; mcu := "M32R_128KB"; mode := "OBD2"; checksum := kNoChecksum;
  read := true; test_write := false; write := true;
  flash_transport := "K-Line"; log_transport := "K-Line"; log_protocol := "SSM";
  kernel := ""; kernel_load_address := None;
  description := "Subaru Forester/Impreza/Legacy 2000-2002 K-Line (UJ WA12212920WWW/128KB)"; memory_maps := []
|}.
Definition p_sub_ecu_unisia_jecs_30_bootmode : ProtocolSpec := {|
  name := "sub_ecu_unisia_jecs_30_bootmode"; alias := "";
  ecu := "WA12212930WWW"; mcu := "M32R_256KB"; mode := "OBD2"; checksum := kNoChecksum;
  read := true; test_write := false; write := true;
  flash_transport := "K-Line"; log_transport := "K-Line"; log_protocol := "SSM";
  kernel := "ssmk_uj30_bootmode.bin"; kernel_load_address := None;
  description := "Subaru Forester/Impreza/Legacy 2000-2002 K-Line (UJ WA12212930WWW/256KB) Bootmode"; memory_maps := []
|}.
Definition p_sub_ecu_unisia_jecs_30 : ProtocolSpec := {|
  name := "sub_ecu_unisia_jecs_30"; alias := "";
  ecu := "WA12212930WWW"; mcu := "M32R_256KB"; mode := "OBD2"; checksum := kNoChecksum;
  read := true; test_write := false; write := true;
  flash_transport := "K-Line"; log_transport := "K-Line"; log_protocol := "SSM";
  kernel := ""; kernel_load_address := None;
  description := "Subaru Forester/Impreza/Legacy 2000-2002 K-Line (UJ WA12212930WWW/256KB)"; memory_maps := []
|}.
Definition p_sub_ecu_unisia_jecs_40 : ProtocolSpec := {|
  name := "sub_ecu_unisia_jecs_40"; alias := "";
  ecu := "WA12212940WWW"; mcu := "M32R_384KB"; mode := "OBD2"; checksum := kNoChecksum;
  read := true; test_write := false; write := false;
  flash_transport := "K-Line"; log_transport := "K-Line"; log_protocol := "SSM";
  kernel := ""; kernel_load_address := None;
  description := "Subaru Forester/Impreza/Legacy 2002-2005 K-Line (UJ/Hitachi WA12212940WWW/384KB)"; memory_maps := []
|}.
Definition p_sub_ecu_unisia_jecs_70 : ProtocolSpec := {|
  name := "sub_ecu_unisia_jecs_70"; alias := "";
  ecu := "WA12212970WWW"; mcu := "M32R_512KB"; mode := "OBD2"; checksum := kNoChecksum;
  read := true; test_write := false; write := false;
  flash_transport := "K-Line"; log_transport := "K-Line"; log_protocol := "SSM";
  kernel := ""; kernel_load_address := None;
  description := "Subaru Forester/Impreza/Legacy 2002-2005 K-Line (UJ/Hitachi WA12212970WWW/512KB)"; memory_maps := []
|}.
Definition p_sub_ecu_hitachi_m32r_kline_recovery : ProtocolSpec := {|
  name := "sub_ecu_hitachi_m32r_kline_recovery"; alias := "";
  ecu := "WA12212970WWW"; mcu := "M32R_512KB_1block"; mode := "OBD2"; checksum := kCorrected;
  read := true; test_write := false; write := true;
  flash_transport := "K-Line"; log_transport := "K-Line"; log_protocol := "SSM";
  kernel := ""; kernel_load_address := None;
  description := "Subaru Forester 2006, Impreza 2006-2007 K-Line (Hitachi WA12212970WWW/512KB) (Recovery)"; memory_maps := []
|}.
Definition p_sub_ecu_hitachi_m32r_kline : ProtocolSpec := {|
  name := "sub_ecu_hitachi_m32r_kline"; alias := "";
  ecu := "WA12212970WWW"; mcu := "M32R_512KB_1block"; mode := "OBD2"; checksum := kCorrected;
  read := true; test_write := false; write := true;
  flash_transport := "K-Line"; log_transport := "K-Line"; log_protocol := "SSM";
  kernel := ""; kernel_load_address := None;
  description := "Subaru Forester 2006, Impreza 2006-2007 K-Line (Hitachi WA12212970WWW/512KB)"; memory_maps := []
|}.
Definition p_sub_ecu_hitachi_m32r_can : ProtocolSpec := {|
  name := "sub_ecu_hitachi_m32r_can"; alias := "";
  ecu := "WA12212970WWW"; mcu := "M32R_512KB_1block"; mode := "OBD2"; checksum := kCorrected;
  read := true; test_write := false; write := true;
  flash_transport := "iso15765"; log_transport := "K-Line"; log_protocol := "SSM";
  kernel := ""; kernel_load_address := None;
  description := "Subaru Forester 2007-2008/Impreza 2008+/Legacy 2006+ CAN (Hitachi WA12212970WWW/512KB)"; memory_maps := []
|}.
Definition p_sub_tcu_hitachi_m32r_kline : ProtocolSpec := {|
  name := "sub_tcu_hitachi_m32r_kline"; alias := "";
  ecu := "M32176F4"; mcu := "M32R_512KB"; mode := "OBD2"; checksum := kCorrected;
  read := true; test_write := false; write := false;
  flash_transport := "K-Line"; log_transport := "K-Line"; log_protocol := "SSM";
  kernel := ""; kernel_load_address := None;
  description := "Subaru Legacy/Outback 2003-2007 Kline (Hitachi M32176F4/512KB)"; memory_maps := []
|}.
Definition p_sub_tcu_hitachi_m32r_can : ProtocolSpec := {|
  name := "sub_tcu_hitachi_m32r_can"; alias := "";
  ecu := "M32176F4"; mcu := "M32R_512KB"; mode := "OBD2"; checksum := kCorrected;
  read := true; test_write := false; write := true;
  flash_transport := "iso15765"; log_transport := "K-Line"; log_protocol := "SSM";
  kernel := ""; kernel_load_address := None;
  description := "Unknown unk-unk CAN (Hitachi M32176F4/512KB)"; memory_maps := kBootloaderOf512kMaps
|}.
Definition p_sub_tcu_cvt_hitachi_m32r_can : ProtocolSpec := {|
  name := "sub_tcu_cvt_hitachi_m32r_can"; alias := "";
  ecu := "M32176F4"; mcu := "M32R_512KB"; mode := "OBD2"; checksum := kMissing;
  read := true; test_write := false; write := true;
  flash_transport := "iso15765"; log_transport := "K-Line"; log_protocol := "SSM";
  kernel := ""; kernel_load_address := None;
  description := "Unknown unk-unk CVT CAN (Hitachi M32176F4/512KB)"; memory_maps := kBootloaderOf512kMaps
|}.
Definition p_sub_tcu_denso_sh7058_can : ProtocolSpec := {|
  name := "sub_tcu_denso_sh7058_can"; alias := "";
  ecu := "Denso SH7058"; mcu := "SH7058"; mode := "OBD2"; checksum := kCorrected;
  read := true; test_write := false; write := true;
  flash_transport := "iso15765"; log_transport := "K-Line"; log_protocol := "SSM";
  kernel := "ssmk_tcu_can_sh7058.bin"; kernel_load_address := Some 0xFFFF3000;
  description := "Subaru Tribeca (USDM) 2009-2014 CAN (Denso SH7058/1024KB)"; memory_maps := []
|}.
Definition p_sub_tcu_denso_sh7055_can : ProtocolSpec := {|
  name := "sub_tcu_denso_sh7055_can"; alias := "";
  ecu := "Denso SH7055"; mcu := "SH7055"; mode := "OBD2"; checksum := kCorrected;
  read := true; test_write := false; write := false;
  flash_transport := "iso15765"; log_transport := "K-Line"; log_protocol := "SSM";
  kernel := "ssmk_tcu_can_sh7055_35.bin"; kernel_load_address := Some 0xFFFF9000;
  description := "Unknown unk-unk CAN (Denso SH7055/512KB)"; memory_maps := []
|}.
Definition p_sub_tcu_cvt_mitsu_mh8104_can : ProtocolSpec := {|
  name := "sub_tcu_cvt_mitsu_mh8104_can"; alias := "";
  ecu := "Mitsubish MH8104"; mcu := "MH8104"; mode := "OBD2"; checksum := kCorrected;
  read := true; test_write := false; write := true;
  flash_transport := "iso15765"; log_transport := "K-Line"; log_protocol := "SSM";
  kernel := ""; kernel_load_address := None;
  description := "Subaru Legacy 2010-2014 CVT CAN (Mitsubishi MH8104/512KB)"; memory_maps := kBootloaderOf512kMaps
|}.
Definition p_sub_tcu_cvt_mitsu_mh8111_can : ProtocolSpec := {|
  name := "sub_tcu_cvt_mitsu_mh8111_can"; alias := "";
  ecu := "Mitsubish MH8111"; mcu := "MH8111"; mode := "OBD2"; checksum := kMissing;
  read := true; test_write := false; write := true;
  flash_transport := "iso15765"; log_transport := "K-Line"; log_protocol := "SSM";
  kernel := ""; kernel_load_address := None;
  description := "TCU CVT CAN (Mitsubishi MH8111/1536KB)"; memory_maps := kMh8111Maps
|}.
Definition p_sub_ecu_mitsu_m32r_kline : ProtocolSpec := {|
  name := "sub_ecu_mitsu_m32r_kline"; alias := "";
  ecu := "Mitsubish M32R"; mcu := "M32R_512KB_4blocks"; mode := "OBD2"; checksum := kMissing;
  read := true; test_write := false; write := true;
  flash_transport := "K-Line"; log_transport := "K-Line"; log_protocol := "SSM";
  kernel := ""; kernel_load_address := None;
  description := "ECU Kline (Mitsubishi M32R/512KB)"; memory_maps := kBootloaderOf512kMaps
|}.
Definition p_mitsu_ecu_m32r_kline_mut_dma : ProtocolSpec := {|
  name := "mitsu_ecu_m32r_kline_mut_dma"; alias := "";
  ecu := "Mitsubishi M32R"; mcu := "M32170"; mode := "K-Line"; checksum := kNoChecksum;
  read := false; test_write := false; write := false;
  flash_transport := "K-Line"; log_transport := "K-Line"; log_protocol := "MUT_DMA";
  kernel := ""; kernel_load_address := None;
  description := "Mitsubishi M32R K-Line MUT/DMA free-form logging (experimental)"; memory_maps := []
|}.
Definition p_mitsu_ecu_m32r_can : ProtocolSpec := {|
  name := "mitsu_ecu_m32r_can"; alias := "";
  ecu := "Mitsubishi M32R"; mcu := "M32R_384KB_1block"; mode := "OBD2"; checksum := kCorrected;
  read := true; test_write := false; write := true;
  flash_transport := "iso15765"; log_transport := "CAN"; log_protocol := "CDBG";
  kernel := ""; kernel_load_address := None;
  description := "Mitsubishi Colt CZT Z37A CAN (M32176F3/384KB, ROM 47110032)"; memory_maps := kColt384kMaps
|}.
Definition p_mitsu_ecu_m32r_can_vendor_ext : ProtocolSpec := {|
  name := "mitsu_ecu_m32r_can_vendor_ext"; alias := "";
  ecu := "Mitsubishi M32R"; mcu := "M32R_384KB_1block"; mode := "OBD2"; checksum := kCorrected;
  read := true; test_write := false; write := true;
  flash_transport := "iso15765"; log_transport := "CAN"; log_protocol := "CDBG";
  kernel := ""; kernel_load_address := None;
  description := "Mitsubishi Colt CZT Z37A CAN vendor diagnostic extension (M32176F3/384KB, ROM 47110032)"; memory_maps := kColt384kMaps
|}.
Definition p_mitsu_ecu_m32r_can_512kb : ProtocolSpec := {|
  name := "mitsu_ecu_m32r_can_512kb"; alias := "";
  ecu := "Mitsubishi M32R"; mcu := "M32R_512KB_1block"; mode := "OBD2"; checksum := kCorrected;
  read := true; test_write := false; write := true;
  flash_transport := "iso15765"; log_transport := "CAN"; log_protocol := "CDBG";
  kernel := ""; kernel_load_address := None;
  description := "Mitsubishi Colt CZT Z37A CAN full flash (M32176F3/512KB, ROM 47110032)"; memory_maps := kBootloaderOf512kMaps
|}.
Definition p_mitsu_ecu_m32r_can_vendor_ext_512kb : ProtocolSpec := {|
  name := "mitsu_ecu_m32r_can_vendor_ext_512kb"; alias := "";
  ecu := "Mitsubishi M32R"; mcu := "M32R_512KB_1block"; mode := "OBD2"; checksum := kCorrected;
  read := true; test_write := false; write := true;
  flash_transport := "iso15765"; log_transport := "CAN"; log_protocol := "CDBG";
  kernel := ""; kernel_load_address := None;
  description := "Mitsubishi Colt CZT Z37A CAN vendor diagnostic extension full flash (M32176F3/512KB, ROM 47110032)"; memory_maps := kBootloaderOf512kMaps
|}.
Definition p_sub_ecu_hitachi_sh7058_can : ProtocolSpec := {|
  name := "sub_ecu_hitachi_sh7058_can"; alias := "";
  ecu := "Hitachi SH7058"; mcu := "SH7058_1block"; mode := "OBD2"; checksum := kCorrected;
  read := true; test_write := false; write := true;
  flash_transport := "iso15765"; log_transport := "iso15765"; log_protocol := "SSM";
  kernel := ""; kernel_load_address := None;
  description := "Subaru Forester 2009-2011/Legacy 2010-2011 CAN (Hitachi SH7058/1MB)"; memory_maps := []
|}.
Definition p_sub_ecu_hitachi_sh72543r_can : ProtocolSpec := {|
  name := "sub_ecu_hitachi_sh72543r_can"; alias := "";
  ecu := "Hitachi SH72543R"; mcu := "SH72543R"; mode := "OBD2"; checksum := kCorrected;
  read := true; test_write := false; write := true;
  flash_transport := "iso15765"; log_transport := "iso15765"; log_protocol := "SSM";
  kernel := ""; kernel_load_address := None;
  description := "Subaru Forester 2013+ CAN (Hitachi SH72543R/2MB)"; memory_maps := kSh72543rMaps
|}.
Definition p_sub_ecu_hitachi_sh72543r_can_recovery : ProtocolSpec := {|
  name := "sub_ecu_hitachi_sh72543r_can_recovery"; alias := "";
  ecu := "Hitachi SH72543R"; mcu := "SH72543R"; mode := "OBD2"; checksum := kCorrected;
  read := true; test_write := false; write := true;
  flash_transport := "iso15765"; log_transport := "iso15765"; log_protocol := "SSM";
  kernel := ""; kernel_load_address := None;
  description := "Subaru Forester 2013+ CAN (Hitachi SH72543R/2MB)"; memory_maps := kSh72543rMaps
|}.
Definition p_sub_ecu_denso_sh72531_can : ProtocolSpec := {|
  name := "sub_ecu_denso_sh72531_can"; alias := "";
  ecu := "Denso SH72531"; mcu := "SH72531"; mode := "OBD2"; checksum := kCorrected;
  read := true; test_write := false; write := true;
  flash_transport := "iso15765"; log_transport := "iso15765"; log_protocol := "SSM";
  kernel := ""; kernel_load_address := None;
  description := "Subaru Legacy/Outback 2014-2018 CAN (Denso SH72531R/1.3MB)"; memory_maps := kSh72531Maps
|}.
Definition p_sub_ecu_denso_1n83m_4m_can : ProtocolSpec := {|
  name := "sub_ecu_denso_1n83m_4m_can"; alias := "";
  ecu := "Denso 1N83M 4MB"; mcu := "N83M_4MB"; mode := "OBD2"; checksum := kCorrected;
  read := true; test_write := false; write := true;
  flash_transport := "iso15765"; log_transport := "iso15765"; log_protocol := "SSM";
  kernel := ""; kernel_load_address := None;
  description := "Subaru Forester/XV 2018- (Denso 1N83M/4MB)"; memory_maps := kN83m4mMaps
|}.
Definition p_sub_ecu_denso_1n83m_1_5m_can : ProtocolSpec := {|
  name := "sub_ecu_denso_1n83m_1_5m_can"; alias := "";
  ecu := "Denso 1N83M 1.5MB"; mcu := "N83M_1_5MB"; mode := "OBD2"; checksum := kCorrected;
  read := true; test_write := false; write := true;
  flash_transport := "iso15765"; log_transport := "iso15765"; log_protocol := "SSM";
  kernel := ""; kernel_load_address := None;
  description := "Subaru Forester/XV 1.6L 2.0L 2018-2021 (Denso 1N83M/1.5MB)"; memory_maps := kN83m1_5mMaps
|}.
Definition p_sub_ecu_eeprom_denso_sh7055_kline : ProtocolSpec := {|
  name := "sub_ecu_eeprom_denso_sh7055_kline"; alias := "";
  ecu := "Denso SH7055"; mcu := "SH7055"; mode := "OBD2"; checksum := kNoChecksum;
  read := true; test_write := false; write := false;
  flash_transport := "K-Line"; log_transport := "K-Line"; log_protocol := "SSM";
  kernel := "ssmk_kline_sh7055.bin"; kernel_load_address := Some 0xFFFF6004;
  description := "Subaru EEPROM Denso SH7055 K-Line"; memory_maps := []
|}.
Definition p_sub_ecu_eeprom_denso_sh7058_kline : ProtocolSpec := {|
  name := "sub_ecu_eeprom_denso_sh7058_kline"; alias := "";
  ecu := "Denso SH7058"; mcu := "SH7058"; mode := "OBD2"; checksum := kNoChecksum;
  read := true; test_write := false; write := false;
  flash_transport := "K-Line"; log_transport := "K-Line"; log_protocol := "SSM";
  kernel := "ssmk_kline_sh7058.bin"; kernel_load_address := Some 0xFFFF3000;
  description := "Subaru EEPROM Denso SH7058 K-Line"; memory_maps := []
|}.
Definition p_sub_ecu_eeprom_denso_sh7055_densocan : ProtocolSpec := {|
  name := "sub_ecu_eeprom_denso_sh7055_densocan"; alias := "";
  ecu := "Denso SH7055"; mcu := "SH7055"; mode := "OBD2"; checksum := kNoChecksum;
  read := true; test_write := false; write := false;
  flash_transport := "CAN"; log_transport := "K-Line"; log_protocol := "SSM";
  kernel := "ssmk_can_sh7055.bin"; kernel_load_address := Some 0xFFFF6004;
  description := "Subaru EEPROM Denso SH7055 DensoCAN"; memory_maps := []
|}.
Definition p_sub_ecu_eeprom_denso_sh7058_densocan : ProtocolSpec := {|
  name := "sub_ecu_eeprom_denso_sh7058_densocan"; alias := "";
  ecu := "Denso SH7058"; mcu := "SH7058"; mode := "OBD2"; checksum := kNoChecksum;
  read := true; test_write := false; write := false;
  flash_transport := "CAN"; log_transport := "K-Line"; log_protocol := "SSM";
  kernel := "ssmk_can_sh7058.bin"; kernel_load_address := Some 0xFFFF3000;
  description := "Subaru EEPROM Denso SH7058 DensoCAN"; memory_maps := []
|}.
Definition p_sub_ecu_eeprom_denso_sh7058_can : ProtocolSpec := {|
  name := "sub_ecu_eeprom_denso_sh7058_can"; alias := "";
  ecu := "Denso SH7058"; mcu := "SH7058"; mode := "OBD2"; checksum := kNoChecksum;
  read := true; test_write := false; write := false;
  flash_transport := "iso15765"; log_transport := "K-Line"; log_protocol := "SSM";
  kernel := "ssmk_can_tp_sh7058.bin"; kernel_load_address := Some 0xFFFF3000;
  description := "Subaru EEPROM Denso SH7058 CAN"; memory_maps := []
|}.
Definition p_sub_ecu_eeprom_denso_sh7058_can_diesel : ProtocolSpec := {|
  name := "sub_ecu_eeprom_denso_sh7058_can_diesel"; alias := "";
  ecu := "Denso SH7058"; mcu := "SH7058"; mode := "OBD2"; checksum := kNoChecksum;
  read := true; test_write := false; write := false;
  flash_transport := "iso15765"; log_transport := "K-Line"; log_protocol := "SSM";
  kernel := "ssmk_can_tp_sh7058d_euro4.bin"; kernel_load_address := Some 0xFFFF4000;
  description := "Subaru EEPROM Denso SH7058 CAN EURO4 Diesel"; memory_maps := []
|}.
Definition p_sub_ecu_unisia_jecs_m3779x : ProtocolSpec := {|
  name := "sub_ecu_unisia_jecs_m3779x"; alias := "";
  ecu := "Unisia Jecs"; mcu := "M3779x"; mode := "SSM1"; checksum := kMissing;
  read := true; test_write := false; write := false;
  flash_transport := "K-Line"; log_transport := "SSM"; log_protocol := "SSM1";
  kernel := ""; kernel_load_address := None;
  description := "Subaru Impreza, Legacy, SVX 1992-1996 SSM"; memory_maps := []
|}.
Definition p_sub_ecu_unisia_jecs_m3775x : ProtocolSpec := {|
  name := "sub_ecu_unisia_jecs_m3775x"; alias := "";
  ecu := "Unisia Jecs"; mcu := "M3775x"; mode := "SSM1"; checksum := kMissing;
  read := true; test_write := false; write := false;
  flash_transport := "K-Line"; log_transport := "SSM"; log_protocol := "SSM1";
  kernel := ""; kernel_load_address := None;
  description := "Subaru Impreza, Legacy, SVX 1997-1998 OBD2 SSM"; memory_maps := []
|}.
(** The array: the position of an object stands for its address. *)
Definition objects (ps : list ProtocolSpec) : list ProtocolObject :=
  imap (fun i p => {| address := Z.of_nat i; spec := p |}) ps.
Definition kProtocols : list ProtocolObject := objects
  [ p_sub_ecu_denso_sh7055_densocan;
    p_sub_ecu_denso_sh7058_densocan;
    p_sub_ecu_denso_sh7058s_densocan;
    p_sub_ecu_denso_sh7058s_diesel_densocan;
    p_sub_ecu_denso_sh7059_diesel_densocan;
    p_sub_ecu_denso_mc68hc16y5_02_tpu;
    p_sub_ecu_denso_mc68hc16y5_02_bdm;
    p_sub_ecu_denso_mc68hc16y5_02;
    p_sub_ecu_denso_mc68hc16y5_02_ecutek;
    p_sub_ecu_denso_sh7055_02;
    p_sub_ecu_denso_sh7055_02_ecutek;
    p_sub_ecu_denso_sh7055_04;
    p_sub_ecu_denso_sh7055_04_ecutek;
    p_sub_ecu_denso_sh7055_04_cobb;
    p_sub_ecu_denso_sh7058;
    p_sub_ecu_denso_sh7058_ecutek;
    p_sub_ecu_denso_sh7058_cobb;
    p_sub_ecu_denso_sh7058_can;
    p_sub_ecu_denso_sh7058_can_ecutek;
    p_sub_ecu_denso_sh7058_can_ecutek_racerom;
    p_sub_ecu_denso_sh7058_can_ecutek_racerom_alt;
    p_sub_ecu_denso_sh7058_can_cobb;
    p_sub_ecu_denso_sh7058_can_diesel;
    p_sub_ecu_denso_sh7059_can_diesel;
    p_sub_ecu_denso_sh72543_can_diesel;
    p_sub_ecu_unisia_jecs_20_bootmode;
    p_sub_ecu_unisia_jecs_20;
    p_sub_ecu_unisia_jecs_30_bootmode;
    p_sub_ecu_unisia_jecs_30;
    p_sub_ecu_unisia_jecs_40;
    p_sub_ecu_unisia_jecs_70;
    p_sub_ecu_hitachi_m32r_kline_recovery;
    p_sub_ecu_hitachi_m32r_kline;
    p_sub_ecu_hitachi_m32r_can;
    p_sub_tcu_hitachi_m32r_kline;
    p_sub_tcu_hitachi_m32r_can;
    p_sub_tcu_cvt_hitachi_m32r_can;
    p_sub_tcu_denso_sh7058_can;
    p_sub_tcu_denso_sh7055_can;
    p_sub_tcu_cvt_mitsu_mh8104_can;
    p_sub_tcu_cvt_mitsu_mh8111_can;
    p_sub_ecu_mitsu_m32r_kline;
    p_mitsu_ecu_m32r_kline_mut_dma;
    p_mitsu_ecu_m32r_can;
    p_mitsu_ecu_m32r_can_vendor_ext;
    p_mitsu_ecu_m32r_can_512kb;
    p_mitsu_ecu_m32r_can_vendor_ext_512kb;
    p_sub_ecu_hitachi_sh7058_can;
    p_sub_ecu_hitachi_sh72543r_can;
    p_sub_ecu_hitachi_sh72543r_can_recovery;
    p_sub_ecu_denso_sh72531_can;
    p_sub_ecu_denso_1n83m_4m_can;
    p_sub_ecu_denso_1n83m_1_5m_can;
    p_sub_ecu_eeprom_denso_sh7055_kline;
    p_sub_ecu_eeprom_denso_sh7058_kline;
    p_sub_ecu_eeprom_denso_sh7055_densocan;
    p_sub_ecu_eeprom_denso_sh7058_densocan;
    p_sub_ecu_eeprom_denso_sh7058_can;
    p_sub_ecu_eeprom_denso_sh7058_can_diesel;
    p_sub_ecu_unisia_jecs_m3779x;
    p_sub_ecu_unisia_jecs_m3775x ].

(** ** Vehicles *)
Definition v_01 : VehicleSpec := {|
  id := "subaru-impreza-2-0-wrx-sti-2008--sub-ecu-eeprom-denso-sh7058-can";
  make := "Subaru"; model := "Impreza"; version := "2.0 WRX STi"; type := "EJ20"; kw := "220";
  hp := "300"; fuel := "Petrol"; year := "2008"; protocol := ProtocolIn kProtocols "sub_ecu_eeprom_denso_sh7058_can"
|}.
Definition v_02 : VehicleSpec := {|
  id := "subaru-legacy-2-0-a-t-1990--sub-ecu-unisia-jecs-m3779x";
  make := "Subaru"; model := "Legacy"; version := "2.0 A/T"; type := "EJ20"; kw := "195";
  hp := "265"; fuel := "Petrol"; year := "1990"; protocol := ProtocolIn kProtocols "sub_ecu_unisia_jecs_m3779x"
|}.
Definition v_03 : VehicleSpec := {|
  id := "subaru-legacy-2-0-a-t-1990--sub-ecu-unisia-jecs-m3775x";
  make := "Subaru"; model := "Legacy"; version := "2.0 A/T"; type := "EJ20"; kw := "195";
  hp := "265"; fuel := "Petrol"; year := "1990"; protocol := ProtocolIn kProtocols "sub_ecu_unisia_jecs_m3775x"
|}.
Definition v_04 : VehicleSpec := {|
  id := "subaru-impreza-wrx-2-0-5mt-2001--sub-ecu-denso-mc68hc16y5-02-tpu";
  make := "Subaru"; model := "Impreza WRX"; version := "2.0 5MT"; type := "EJ20"; kw := "195";
  hp := "265"; fuel := "Petrol"; year := "2001"; protocol := ProtocolIn kProtocols "sub_ecu_denso_mc68hc16y5_02_tpu"
|}.
Definition v_05 : VehicleSpec := {|
  id := "subaru-impreza-wrx-2-0-5mt-2001--sub-ecu-denso-mc68hc16y5-02-bdm";
  make := "Subaru"; model := "Impreza WRX"; version := "2.0 5MT"; type := "EJ20"; kw := "195";
  hp := "265"; fuel := "Petrol"; year := "2001"; protocol := ProtocolIn kProtocols "sub_ecu_denso_mc68hc16y5_02_bdm"
|}.
Definition v_06 : VehicleSpec := {|
  id := "subaru-impreza-wrx-2-0-5mt-2001--sub-ecu-denso-mc68hc16y5-02";
  make := "Subaru"; model := "Impreza WRX"; version := "2.0 5MT"; type := "EJ20"; kw := "195";
  hp := "265"; fuel := "Petrol"; year := "2001"; protocol := ProtocolIn kProtocols "sub_ecu_denso_mc68hc16y5_02"
|}.
Definition v_07 : VehicleSpec := {|
  id := "subaru-impreza-wrx-2-0-5mt-2001--sub-ecu-denso-mc68hc16y5-02-ecutek";
  make := "Subaru"; model := "Impreza WRX"; version := "2.0 5MT"; type := "EJ20"; kw := "195";
  hp := "265"; fuel := "Petrol"; year := "2001"; protocol := ProtocolIn kProtocols "sub_ecu_denso_mc68hc16y5_02_ecutek"
|}.
Definition v_08 : VehicleSpec := {|
  id := "subaru-legacy-b4-twin-turbo-rev-d-2-0-5mt-2001--sub-ecu-denso-mc68hc16y5-02";
  make := "Subaru"; model := "Legacy B4 Twin Turbo (Rev.D)"; version := "2.0 5MT"; type := "EJ20"; kw := "206";
  hp := "280"; fuel := "Petrol"; year := "2001"; protocol := ProtocolIn kProtocols "sub_ecu_denso_mc68hc16y5_02"
|}.
Definition v_09 : VehicleSpec := {|
  id := "subaru-forester-turbo-s-2-0-5mt-2001--sub-ecu-denso-mc68hc16y5-02";
  make := "Subaru"; model := "Forester Turbo S"; version := "2.0 5MT"; type := "EJ20"; kw := "125";
  hp := "170"; fuel := "Petrol"; year := "2001"; protocol := ProtocolIn kProtocols "sub_ecu_denso_mc68hc16y5_02"
|}.
Definition v_10 : VehicleSpec := {|
  id := "subaru-impreza-wrx-sti-2-0-6mt-2001--sub-ecu-denso-mc68hc16y5-02";
  make := "Subaru"; model := "Impreza WRX STi"; version := "2.0 6MT"; type := "EJ20"; kw := "206";
  hp := "280"; fuel := "Petrol"; year := "2001"; protocol := ProtocolIn kProtocols "sub_ecu_denso_mc68hc16y5_02"
|}.
Definition v_11 : VehicleSpec := {|
  id := "subaru-legacy-gt-2-0-5mt-2003--sub-ecu-denso-sh7055-04";
  make := "Subaru"; model := "Legacy GT"; version := "2.0 5MT"; type := "EJ20"; kw := "206";
  hp := "280"; fuel := "Petrol"; year := "2003"; protocol := ProtocolIn kProtocols "sub_ecu_denso_sh7055_04"
|}.
Definition v_12 : VehicleSpec := {|
  id := "subaru-forester-cross-sports-2-0-at-2003--sub-ecu-denso-sh7055-02";
  make := "Subaru"; model := "Forester Cross Sports"; version := "2.0 AT"; type := "EJ20"; kw := "162";
  hp := "220"; fuel := "Petrol"; year := "2003"; protocol := ProtocolIn kProtocols "sub_ecu_denso_sh7055_02"
|}.
Definition v_13 : VehicleSpec := {|
  id := "subaru-forester-xt-2-0-5mt-2001--sub-ecu-denso-mc68hc16y5-02";
  make := "Subaru"; model := "Forester XT"; version := "2.0 5MT"; type := "EJ20"; kw := "130";
  hp := "177"; fuel := "Petrol"; year := "2001"; protocol := ProtocolIn kProtocols "sub_ecu_denso_mc68hc16y5_02"
|}.
Definition v_14 : VehicleSpec := {|
  id := "subaru-forester-xt-2-0-at-2001--sub-ecu-denso-mc68hc16y5-02";
  make := "Subaru"; model := "Forester XT"; version := "2.0 AT"; type := "EJ20"; kw := "130";
  hp := "177"; fuel := "Petrol"; year := "2001"; protocol := ProtocolIn kProtocols "sub_ecu_denso_mc68hc16y5_02"
|}.
Definition v_15 : VehicleSpec := {|
  id := "subaru-forester-xt-2-0-at-2003--sub-ecu-denso-sh7055-04";
  make := "Subaru"; model := "Forester XT"; version := "2.0 AT"; type := "EJ20"; kw := "162";
  hp := "220"; fuel := "Petrol"; year := "2003"; protocol := ProtocolIn kProtocols "sub_ecu_denso_sh7055_04"
|}.
Definition v_16 : VehicleSpec := {|
  id := "subaru-legacy-2-0-2003--sub-ecu-unisia-jecs-20-bootmode";
  make := "Subaru"; model := "Legacy"; version := "2.0"; type := "EJ20"; kw := "162";
  hp := "220"; fuel := "Petrol"; year := "2003"; protocol := ProtocolIn kProtocols "sub_ecu_unisia_jecs_20_bootmode"
|}.
Definition v_17 : VehicleSpec := {|
  id := "subaru-legacy-2-0-2003--sub-ecu-unisia-jecs-20";
  make := "Subaru"; model := "Legacy"; version := "2.0"; type := "EJ20"; kw := "162";
  hp := "220"; fuel := "Petrol"; year := "2003"; protocol := ProtocolIn kProtocols "sub_ecu_unisia_jecs_20"
|}.
Definition v_18 : VehicleSpec := {|
  id := "subaru-legacy-2-0-2003--sub-ecu-unisia-jecs-30-bootmode";
  make := "Subaru"; model := "Legacy"; version := "2.0"; type := "EJ20"; kw := "162";
  hp := "220"; fuel := "Petrol"; year := "2003"; protocol := ProtocolIn kProtocols "sub_ecu_unisia_jecs_30_bootmode"
|}.
Definition v_19 : VehicleSpec := {|
  id := "subaru-legacy-2-0-2003--sub-ecu-unisia-jecs-30";
  make := "Subaru"; model := "Legacy"; version := "2.0"; type := "EJ20"; kw := "162";
  hp := "220"; fuel := "Petrol"; year := "2003"; protocol := ProtocolIn kProtocols "sub_ecu_unisia_jecs_30"
|}.
Definition v_20 : VehicleSpec := {|
  id := "subaru-legacy-2-0-2003--sub-ecu-unisia-jecs-40";
  make := "Subaru"; model := "Legacy"; version := "2.0"; type := "EJ20"; kw := "162";
  hp := "220"; fuel := "Petrol"; year := "2003"; protocol := ProtocolIn kProtocols "sub_ecu_unisia_jecs_40"
|}.
Definition v_21 : VehicleSpec := {|
  id := "subaru-legacy-2-0-2003--sub-ecu-unisia-jecs-70";
  make := "Subaru"; model := "Legacy"; version := "2.0"; type := "EJ20"; kw := "162";
  hp := "220"; fuel := "Petrol"; year := "2003"; protocol := ProtocolIn kProtocols "sub_ecu_unisia_jecs_70"
|}.
Definition v_22 : VehicleSpec := {|
  id := "subaru-unknown-unk-unk--sub-ecu-hitachi-m32r-kline";
  make := "Subaru"; model := "Unknown"; version := "Unk"; type := "Unk"; kw := "Unk";
  hp := "Unk"; fuel := "Unk"; year := "Unk"; protocol := ProtocolIn kProtocols "sub_ecu_hitachi_m32r_kline"
|}.
Definition v_23 : VehicleSpec := {|
  id := "subaru-unknown-unk-unk--sub-ecu-hitachi-m32r-kline-recovery";
  make := "Subaru"; model := "Unknown"; version := "Unk"; type := "Unk"; kw := "Unk";
  hp := "Unk"; fuel := "Unk"; year := "Unk"; protocol := ProtocolIn kProtocols "sub_ecu_hitachi_m32r_kline_recovery"
|}.
Definition v_24 : VehicleSpec := {|
  id := "subaru-impreza-wrx-sti-2-5-6mt-2006--sub-ecu-denso-sh7058";
  make := "Subaru"; model := "Impreza WRX STi"; version := "2.5 6MT"; type := "EJ257"; kw := "208";
  hp := "280"; fuel := "Petrol"; year := "2006"; protocol := ProtocolIn kProtocols "sub_ecu_denso_sh7058"
|}.
Definition v_25 : VehicleSpec := {|
  id := "subaru-impreza-wrx-sti-2-5-6mt-2008--sub-ecu-denso-sh7058-can";
  make := "Subaru"; model := "Impreza WRX STi"; version := "2.5 6MT"; type := "EJ257"; kw := "208";
  hp := "280"; fuel := "Petrol"; year := "2008"; protocol := ProtocolIn kProtocols "sub_ecu_denso_sh7058_can"
|}.
Definition v_26 : VehicleSpec := {|
  id := "subaru-legacy-gt-2-0-5mt-2006--sub-ecu-denso-sh7058";
  make := "Subaru"; model := "Legacy GT"; version := "2.0 5MT"; type := "EJ20"; kw := "208";
  hp := "280"; fuel := "Petrol"; year := "2006"; protocol := ProtocolIn kProtocols "sub_ecu_denso_sh7058"
|}.
Definition v_27 : VehicleSpec := {|
  id := "subaru-legacy-b4-twin-turbo-rev-a-c-2-0-5mt-2000--sub-ecu-unisia-jecs-20";
  make := "Subaru"; model := "Legacy B4 Twin Turbo (Rev.A-C)"; version := "2.0 5MT"; type := "EJ20"; kw := "206";
  hp := "280"; fuel := "Petrol"; year := "2000"; protocol := ProtocolIn kProtocols "sub_ecu_unisia_jecs_20"
|}.
Definition v_28 : VehicleSpec := {|
  id := "subaru-legacy-b4-twin-turbo-rev-a-c-2-0-at-2000--sub-ecu-unisia-jecs-20";
  make := "Subaru"; model := "Legacy B4 Twin Turbo (Rev.A-C)"; version := "2.0 AT"; type := "EJ20"; kw := "193";
  hp := "260"; fuel := "Petrol"; year := "2000"; protocol := ProtocolIn kProtocols "sub_ecu_unisia_jecs_20"
|}.
Definition v_29 : VehicleSpec := {|
  id := "subaru-impreza-gt-2-0-5mt-2000--sub-ecu-unisia-jecs-20";
  make := "Subaru"; model := "Impreza GT"; version := "2.0 5MT"; type := "EJ20"; kw := "160";
  hp := "215"; fuel := "Petrol"; year := "2000"; protocol := ProtocolIn kProtocols "sub_ecu_unisia_jecs_20"
|}.
Definition v_30 : VehicleSpec := {|
  id := "subaru-legacy-2-0-2003--sub-ecu-hitachi-m32r-kline";
  make := "Subaru"; model := "Legacy"; version := "2.0"; type := "EJ20"; kw := "162";
  hp := "220"; fuel := "Petrol"; year := "2003"; protocol := ProtocolIn kProtocols "sub_ecu_hitachi_m32r_kline"
|}.
Definition v_31 : VehicleSpec := {|
  id := "subaru-legacy-2-0-2003--sub-ecu-hitachi-m32r-can";
  make := "Subaru"; model := "Legacy"; version := "2.0"; type := "EJ20"; kw := "162";
  hp := "220"; fuel := "Petrol"; year := "2003"; protocol := ProtocolIn kProtocols "sub_ecu_hitachi_m32r_can"
|}.
Definition v_32 : VehicleSpec := {|
  id := "subaru-all-sh705x-denso-can-models-sh7055-2003--sub-ecu-denso-sh7055-densocan";
  make := "Subaru"; model := "All SH705x Denso CAN models"; version := "SH7055"; type := "All"; kw := "208";
  hp := "280"; fuel := "Petrol"; year := "2003"; protocol := ProtocolIn kProtocols "sub_ecu_denso_sh7055_densocan"
|}.
Definition v_33 : VehicleSpec := {|
  id := "subaru-all-sh705x-denso-can-models-sh7058-2005--sub-ecu-denso-sh7058-densocan";
  make := "Subaru"; model := "All SH705x Denso CAN models"; version := "SH7058"; type := "All"; kw := "208";
  hp := "280"; fuel := "Petrol"; year := "2005"; protocol := ProtocolIn kProtocols "sub_ecu_denso_sh7058_densocan"
|}.
Definition v_34 : VehicleSpec := {|
  id := "subaru-all-sh705x-denso-can-models-sh7058s-2007--sub-ecu-denso-sh7058s-densocan";
  make := "Subaru"; model := "All SH705x Denso CAN models"; version := "SH7058S"; type := "All"; kw := "208";
  hp := "280"; fuel := "Petrol"; year := "2007"; protocol := ProtocolIn kProtocols "sub_ecu_denso_sh7058s_densocan"
|}.
Definition v_35 : VehicleSpec := {|
  id := "subaru-all-sh7058-denso-can-diesel-models-sh7058s-2007--sub-ecu-denso-sh7058s-diesel-densocan";
  make := "Subaru"; model := "All SH7058 Denso CAN Diesel models"; version := "SH7058S"; type := "All"; kw := "208";
  hp := "280"; fuel := "Petrol"; year := "2007"; protocol := ProtocolIn kProtocols "sub_ecu_denso_sh7058s_diesel_densocan"
|}.
Definition v_36 : VehicleSpec := {|
  id := "subaru-all-sh7059-denso-can-diesel-models-sh7059-2011--sub-ecu-denso-sh7059-diesel-densocan";
  make := "Subaru"; model := "All SH7059 Denso CAN Diesel models"; version := "SH7059"; type := "All"; kw := "208";
  hp := "280"; fuel := "Petrol"; year := "2011"; protocol := ProtocolIn kProtocols "sub_ecu_denso_sh7059_diesel_densocan"
|}.
Definition v_37 : VehicleSpec := {|
  id := "subaru-legacy-2-0-td-euro4-2007--sub-ecu-denso-sh7058-can-diesel";
  make := "Subaru"; model := "Legacy"; version := "2.0 TD EURO4"; type := "EE20"; kw := "208";
  hp := "280"; fuel := "Diesel"; year := "2007"; protocol := ProtocolIn kProtocols "sub_ecu_denso_sh7058_can_diesel"
|}.
Definition v_38 : VehicleSpec := {|
  id := "subaru-forester-2-0-td-euro5-2011--sub-ecu-denso-sh7059-can-diesel";
  make := "Subaru"; model := "Forester"; version := "2.0 TD EURO5"; type := "EE20"; kw := "208";
  hp := "280"; fuel := "Diesel"; year := "2011"; protocol := ProtocolIn kProtocols "sub_ecu_denso_sh7059_can_diesel"
|}.
Definition v_39 : VehicleSpec := {|
  id := "subaru-forester-2-0-td-euro6-2017--sub-ecu-denso-sh72543-can-diesel";
  make := "Subaru"; model := "Forester"; version := "2.0 TD EURO6"; type := "EE20"; kw := "208";
  hp := "280"; fuel := "Diesel"; year := "2017"; protocol := ProtocolIn kProtocols "sub_ecu_denso_sh72543_can_diesel"
|}.
Definition v_40 : VehicleSpec := {|
  id := "subaru-legacy-gt-2-0-5mt-2003--sub-ecu-denso-sh7055-04-ecutek";
  make := "Subaru"; model := "Legacy GT"; version := "2.0 5MT"; type := "EJ20"; kw := "206";
  hp := "280"; fuel := "Petrol"; year := "2003"; protocol := ProtocolIn kProtocols "sub_ecu_denso_sh7055_04_ecutek"
|}.
Definition v_41 : VehicleSpec := {|
  id := "subaru-legacy-gt-2-0-5mt-2006--sub-ecu-denso-sh7058-ecutek";
  make := "Subaru"; model := "Legacy GT"; version := "2.0 5MT"; type := "EJ20"; kw := "206";
  hp := "280"; fuel := "Petrol"; year := "2006"; protocol := ProtocolIn kProtocols "sub_ecu_denso_sh7058_ecutek"
|}.
Definition v_42 : VehicleSpec := {|
  id := "subaru-impreza-wrx-sti-2-5-6mt-ecutek-2006--sub-ecu-denso-sh7058-ecutek";
  make := "Subaru"; model := "Impreza WRX STi"; version := "2.5 6MT (EcuTek)"; type := "EJ257"; kw := "208";
  hp := "280"; fuel := "Petrol"; year := "2006"; protocol := ProtocolIn kProtocols "sub_ecu_denso_sh7058_ecutek"
|}.
Definition v_43 : VehicleSpec := {|
  id := "subaru-impreza-wrx-sti-2-5-6mt-ecutek-2008--sub-ecu-denso-sh7058-ecutek";
  make := "Subaru"; model := "Impreza WRX STi"; version := "2.5 6MT (EcuTek)"; type := "EJ257"; kw := "208";
  hp := "280"; fuel := "Petrol"; year := "2008"; protocol := ProtocolIn kProtocols "sub_ecu_denso_sh7058_ecutek"
|}.
Definition v_44 : VehicleSpec := {|
  id := "subaru-impreza-wrx-sti-2-5-6mt-ecutek-2008--sub-ecu-denso-sh7058-can-ecutek";
  make := "Subaru"; model := "Impreza WRX STi"; version := "2.5 6MT (EcuTek)"; type := "EJ257"; kw := "208";
  hp := "280"; fuel := "Petrol"; year := "2008"; protocol := ProtocolIn kProtocols "sub_ecu_denso_sh7058_can_ecutek"
|}.
Definition v_45 : VehicleSpec := {|
  id := "subaru-impreza-wrx-sti-2-5-6mt-ecutek-2008--sub-ecu-denso-sh7058-can-ecutek-racerom";
  make := "Subaru"; model := "Impreza WRX STi"; version := "2.5 6MT (EcuTek)"; type := "EJ257"; kw := "208";
  hp := "280"; fuel := "Petrol"; year := "2008"; protocol := ProtocolIn kProtocols "sub_ecu_denso_sh7058_can_ecutek_racerom"
|}.
Definition v_46 : VehicleSpec := {|
  id := "subaru-impreza-wrx-sti-2-5-6mt-ecutek-2008--sub-ecu-denso-sh7058-can-ecutek-racerom-alt";
  make := "Subaru"; model := "Impreza WRX STi"; version := "2.5 6MT (EcuTek)"; type := "EJ257"; kw := "208";
  hp := "280"; fuel := "Petrol"; year := "2008"; protocol := ProtocolIn kProtocols "sub_ecu_denso_sh7058_can_ecutek_racerom_alt"
|}.
Definition v_47 : VehicleSpec := {|
  id := "subaru-tcu-unk-5eat-unk--sub-tcu-hitachi-m32r-can";
  make := "Subaru"; model := "TCU"; version := "unk 5EAT"; type := "Unk"; kw := "Unk";
  hp := "Unk"; fuel := "Petrol"; year := "Unk"; protocol := ProtocolIn kProtocols "sub_tcu_hitachi_m32r_can"
|}.
Definition v_48 : VehicleSpec := {|
  id := "subaru-tcu-unk-cvt-unk--sub-tcu-cvt-hitachi-m32r-can";
  make := "Subaru"; model := "TCU"; version := "unk CVT"; type := "Unk"; kw := "Unk";
  hp := "Unk"; fuel := "Petrol"; year := "Unk"; protocol := ProtocolIn kProtocols "sub_tcu_cvt_hitachi_m32r_can"
|}.
Definition v_49 : VehicleSpec := {|
  id := "subaru-tcu-outback-3-0-h6-5eat-2004--sub-tcu-hitachi-m32r-kline";
  make := "Subaru"; model := "TCU"; version := "Outback 3.0 H6 5EAT"; type := "EZ30"; kw := "162";
  hp := "217"; fuel := "Petrol"; year := "2004"; protocol := ProtocolIn kProtocols "sub_tcu_hitachi_m32r_kline"
|}.
Definition v_50 : VehicleSpec := {|
  id := "subaru-tcu-tribeca-3-6-h6-5eat-2014--sub-tcu-denso-sh7058-can";
  make := "Subaru"; model := "TCU"; version := "Tribeca 3.6 H6 5EAT"; type := "EZ36D"; kw := "192";
  hp := "256"; fuel := "Petrol"; year := "2014"; protocol := ProtocolIn kProtocols "sub_tcu_denso_sh7058_can"
|}.
Definition v_51 : VehicleSpec := {|
  id := "subaru-tcu-forester-xt-4eat-2009--sub-tcu-denso-sh7055-can";
  make := "Subaru"; model := "TCU"; version := "Forester XT 4EAT"; type := "EJ253"; kw := "195";
  hp := "265"; fuel := "Petrol"; year := "2009"; protocol := ProtocolIn kProtocols "sub_tcu_denso_sh7055_can"
|}.
Definition v_52 : VehicleSpec := {|
  id := "subaru-tcu-legacy-2-5-cvt-2010--sub-tcu-cvt-mitsu-mh8104-can";
  make := "Subaru"; model := "TCU"; version := "Legacy 2.5 CVT"; type := "EJ253"; kw := "123";
  hp := "165"; fuel := "Petrol"; year := "2010"; protocol := ProtocolIn kProtocols "sub_tcu_cvt_mitsu_mh8104_can"
|}.
Definition v_53 : VehicleSpec := {|
  id := "subaru-tcu-unk-cvt-unk--sub-tcu-cvt-mitsu-mh8111-can";
  make := "Subaru"; model := "TCU"; version := "unk CVT"; type := "Unk"; kw := "Unk";
  hp := "Unk"; fuel := "Petrol"; year := "Unk"; protocol := ProtocolIn kProtocols "sub_tcu_cvt_mitsu_mh8111_can"
|}.
Definition v_54 : VehicleSpec := {|
  id := "subaru-unknown-unk-ecu-unk--sub-ecu-mitsu-m32r-kline";
  make := "Subaru"; model := "Unknown"; version := "unk ECU"; type := "Unk"; kw := "Unk";
  hp := "Unk"; fuel := "Petrol"; year := "Unk"; protocol := ProtocolIn kProtocols "sub_ecu_mitsu_m32r_kline"
|}.
Definition v_55 : VehicleSpec := {|
  id := "mitsubishi-colt-czt-z37a-5mt-384kb-2005--mitsu-ecu-m32r-can";
  make := "Mitsubishi"; model := "Colt CZT"; version := "Z37A 5MT 384KB"; type := "4G15T"; kw := "110";
  hp := "150"; fuel := "Petrol"; year := "2005"; protocol := ProtocolIn kProtocols "mitsu_ecu_m32r_can"
|}.
Definition v_56 : VehicleSpec := {|
  id := "mitsubishi-colt-czt-z37a-5mt-384kb-vendor-diagnostic-extension-2005--mitsu-ecu-m32r-can-vendor-ext";
  make := "Mitsubishi"; model := "Colt CZT"; version := "Z37A 5MT 384KB vendor diagnostic extension"; type := "4G15T"; kw := "110";
  hp := "150"; fuel := "Petrol"; year := "2005"; protocol := ProtocolIn kProtocols "mitsu_ecu_m32r_can_vendor_ext"
|}.
Definition v_57 : VehicleSpec := {|
  id := "subaru-unknown-unk-ecu-unk--sub-ecu-hitachi-sh7058-can";
  make := "Subaru"; model := "Unknown"; version := "unk ECU"; type := "Unk"; kw := "Unk";
  hp := "Unk"; fuel := "Petrol"; year := "Unk"; protocol := ProtocolIn kProtocols "sub_ecu_hitachi_sh7058_can"
|}.
Definition v_58 : VehicleSpec := {|
  id := "subaru-unknown-unk-ecu-unk--sub-ecu-hitachi-sh72543r-can";
  make := "Subaru"; model := "Unknown"; version := "unk ECU"; type := "Unk"; kw := "Unk";
  hp := "Unk"; fuel := "Petrol"; year := "Unk"; protocol := ProtocolIn kProtocols "sub_ecu_hitachi_sh72543r_can"
|}.
Definition v_59 : VehicleSpec := {|
  id := "subaru-unknown-unk-ecu-unk--sub-ecu-hitachi-sh72543r-can-recovery";
  make := "Subaru"; model := "Unknown"; version := "unk ECU"; type := "Unk"; kw := "Unk";
  hp := "Unk"; fuel := "Petrol"; year := "Unk"; protocol := ProtocolIn kProtocols "sub_ecu_hitachi_sh72543r_can_recovery"
|}.
Definition v_60 : VehicleSpec := {|
  id := "subaru-unknown-unk-ecu-unk--sub-ecu-denso-sh72531-can";
  make := "Subaru"; model := "Unknown"; version := "unk ECU"; type := "Unk"; kw := "Unk";
  hp := "Unk"; fuel := "Petrol"; year := "Unk"; protocol := ProtocolIn kProtocols "sub_ecu_denso_sh72531_can"
|}.
Definition v_61 : VehicleSpec := {|
  id := "subaru-forester-n-a-2018--sub-ecu-denso-1n83m-4m-can";
  make := "Subaru"; model := "Forester"; version := "N.A."; type := "All"; kw := "All";
  hp := "All"; fuel := "Petrol"; year := "2018"; protocol := ProtocolIn kProtocols "sub_ecu_denso_1n83m_4m_can"
|}.
Definition v_62 : VehicleSpec := {|
  id := "subaru-xv-all-2018--sub-ecu-denso-1n83m-4m-can";
  make := "Subaru"; model := "XV"; version := "All"; type := "All"; kw := "All";
  hp := "All"; fuel := "Petrol"; year := "2018"; protocol := ProtocolIn kProtocols "sub_ecu_denso_1n83m_4m_can"
|}.
Definition v_63 : VehicleSpec := {|
  id := "subaru-xv-all-2018-2021--sub-ecu-denso-1n83m-1-5m-can";
  make := "Subaru"; model := "XV"; version := "All"; type := "All"; kw := "All";
  hp := "All"; fuel := "Petrol"; year := "2018-2021"; protocol := ProtocolIn kProtocols "sub_ecu_denso_1n83m_1_5m_can"
|}.
Definition v_64 : VehicleSpec := {|
  id := "mitsubishi-colt-czt-z37a-5mt-512kb-2005--mitsu-ecu-m32r-can-512kb";
  make := "Mitsubishi"; model := "Colt CZT"; version := "Z37A 5MT 512KB"; type := "4G15T"; kw := "110";
  hp := "150"; fuel := "Petrol"; year := "2005"; protocol := ProtocolIn kProtocols "mitsu_ecu_m32r_can_512kb"
|}.
Definition v_65 : VehicleSpec := {|
  id := "mitsubishi-colt-czt-z37a-5mt-512kb-vendor-diagnostic-extension-2005--mitsu-ecu-m32r-can-vendor-ext-512kb";
  make := "Mitsubishi"; model := "Colt CZT"; version := "Z37A 5MT 512KB vendor diagnostic extension"; type := "4G15T"; kw := "110";
  hp := "150"; fuel := "Petrol"; year := "2005"; protocol := ProtocolIn kProtocols "mitsu_ecu_m32r_can_vendor_ext_512kb"
|}.
Definition v_66 : VehicleSpec := {|
  id := "mitsubishi-unknown-unk-ecu-unk--mitsu-ecu-m32r-kline-mut-dma";
  make := "Mitsubishi"; model := "Unknown"; version := "unk ECU"; type := "Unk"; kw := "Unk";
  hp := "Unk"; fuel := "Petrol"; year := "Unk"; protocol := ProtocolIn kProtocols "mitsu_ecu_m32r_kline_mut_dma"
|}.
Definition v_67 : VehicleSpec := {|
  id := "subaru-unknown-unk-ecu-unk--sub-ecu-denso-sh7055-02-ecutek";
  make := "Subaru"; model := "Unknown"; version := "unk ECU"; type := "Unk"; kw := "Unk";
  hp := "Unk"; fuel := "Petrol"; year := "Unk"; protocol := ProtocolIn kProtocols "sub_ecu_denso_sh7055_02_ecutek"
|}.
Definition v_68 : VehicleSpec := {|
  id := "subaru-unknown-unk-ecu-unk--sub-ecu-denso-sh7055-04-cobb";
  make := "Subaru"; model := "Unknown"; version := "unk ECU"; type := "Unk"; kw := "Unk";
  hp := "Unk"; fuel := "Petrol"; year := "Unk"; protocol := ProtocolIn kProtocols "sub_ecu_denso_sh7055_04_cobb"
|}.
Definition v_69 : VehicleSpec := {|
  id := "subaru-unknown-unk-ecu-unk--sub-ecu-denso-sh7058-cobb";
  make := "Subaru"; model := "Unknown"; version := "unk ECU"; type := "Unk"; kw := "Unk";
  hp := "Unk"; fuel := "Petrol"; year := "Unk"; protocol := ProtocolIn kProtocols "sub_ecu_denso_sh7058_cobb"
|}.
Definition v_70 : VehicleSpec := {|
  id := "subaru-unknown-unk-ecu-unk--sub-ecu-denso-sh7058-can-cobb";
  make := "Subaru"; model := "Unknown"; version := "unk ECU"; type := "Unk"; kw := "Unk";
  hp := "Unk"; fuel := "Petrol"; year := "Unk"; protocol := ProtocolIn kProtocols "sub_ecu_denso_sh7058_can_cobb"
|}.
Definition v_71 : VehicleSpec := {|
  id := "subaru-unknown-unk-ecu-unk--sub-ecu-eeprom-denso-sh7055-kline";
  make := "Subaru"; model := "Unknown"; version := "unk ECU"; type := "Unk"; kw := "Unk";
  hp := "Unk"; fuel := "Petrol"; year := "Unk"; protocol := ProtocolIn kProtocols "sub_ecu_eeprom_denso_sh7055_kline"
|}.
Definition v_72 : VehicleSpec := {|
  id := "subaru-unknown-unk-ecu-unk--sub-ecu-eeprom-denso-sh7058-kline";
  make := "Subaru"; model := "Unknown"; version := "unk ECU"; type := "Unk"; kw := "Unk";
  hp := "Unk"; fuel := "Petrol"; year := "Unk"; protocol := ProtocolIn kProtocols "sub_ecu_eeprom_denso_sh7058_kline"
|}.
Definition v_73 : VehicleSpec := {|
  id := "subaru-unknown-unk-ecu-unk--sub-ecu-eeprom-denso-sh7055-densocan";
  make := "Subaru"; model := "Unknown"; version := "unk ECU"; type := "Unk"; kw := "Unk";
  hp := "Unk"; fuel := "Petrol"; year := "Unk"; protocol := ProtocolIn kProtocols "sub_ecu_eeprom_denso_sh7055_densocan"
|}.
Definition v_74 : VehicleSpec := {|
  id := "subaru-unknown-unk-ecu-unk--sub-ecu-eeprom-denso-sh7058-densocan";
  make := "Subaru"; model := "Unknown"; version := "unk ECU"; type := "Unk"; kw := "Unk";
  hp := "Unk"; fuel := "Petrol"; year := "Unk"; protocol := ProtocolIn kProtocols "sub_ecu_eeprom_denso_sh7058_densocan"
|}.
Definition v_75 : VehicleSpec := {|
  id := "subaru-unknown-unk-ecu-unk--sub-ecu-eeprom-denso-sh7058-can-diesel";
  make := "Subaru"; model := "Unknown"; version := "unk ECU"; type := "Unk"; kw := "Unk";
  hp := "Unk"; fuel := "Diesel"; year := "Unk"; protocol := ProtocolIn kProtocols "sub_ecu_eeprom_denso_sh7058_can_diesel"
|}.
Definition kVehicles : list VehicleSpec :=
  [ v_01; v_02; v_03; v_04; v_05; v_06; v_07; v_08; v_09; v_10; v_11; v_12; v_13; v_14; v_15; v_16; v_17; v_18;
    v_19; v_20; v_21; v_22; v_23; v_24; v_25; v_26; v_27; v_28; v_29; v_30; v_31; v_32; v_33; v_34; v_35; v_36;
    v_37; v_38; v_39; v_40; v_41; v_42; v_43; v_44; v_45; v_46; v_47; v_48; v_49; v_50; v_51; v_52; v_53; v_54;
    v_55; v_56; v_57; v_58; v_59; v_60; v_61; v_62; v_63; v_64; v_65; v_66; v_67; v_68; v_69; v_70; v_71; v_72;
    v_73; v_74; v_75 ].
Definition kBuiltinCatalog : Catalog := {| Protocols := kProtocols; Vehicles := kVehicles |}.
Definition BuiltinCatalog : Catalog := kBuiltinCatalog.
