(* ===== verification/ChecksumPrimitives.v ===== *)
(** * ChecksumPrimitives: [src/algorithms/checksum/checksum_primitives.{h,cpp}]
    and [checksum_result.h]

    The word folds, balance-word writers and 8-bit and CRC-32 checksums the
    ROM families are built from, with the algebra of folds under a ROM write
    (what one written word does to a sum or an XOR over a window). *)
From S2P Require Import Prelude Bytes.

(** ** [ChecksumResult] *)
Inductive ChecksumStatus : Type :=
| kUnchanged | kCorrected | kDisabled | kInvalidSize | kUnsupportedRom | kParseError.
#[export] Instance ChecksumStatus_eq_dec : EqDecision ChecksumStatus.
Proof. solve_decision. Defined.

Record ChecksumResult : Type := mkChecksumResult {
  status : ChecksumStatus;
  rom_data : list Z;
  message : string
}.
Definition Changed (r : ChecksumResult) : bool := bool_decide (status r = kCorrected).
Definition ResultOk (r : ChecksumResult) : bool :=
  bool_decide (status r = kUnchanged) || bool_decide (status r = kCorrected)
  || bool_decide (status r = kDisabled).

(** ** Balance words: [stored + target - observed] in the field's width *)
Definition RebalanceU16Be (rom : list Z) (offset observed target : Z) : list Z :=
  let stored := ReadU16Be rom offset in
  WriteU16Be rom offset (u16 (stored + target - observed)).
Definition RebalanceU32Be (rom : list Z) (offset observed target : Z) : list Z :=
  let stored := ReadU32Be rom offset in
  WriteU32Be rom offset (u32 (stored + target - observed)).

(** ** Folds over windows *)
Record WordFold : Type := mkWordFold { fold_sum : Z; fold_xor : Z }.

(** [for (offset = 0; offset + 4 <= piece.size(); offset += 4)]. *)
Definition FoldPieceU32Be (fold : WordFold) (piece : list Z) : WordFold :=
  for_steps (Z.to_nat (zlen piece / 4)) 0 4
    (fun offset fold =>
       let word := ReadU32Be piece offset in
       mkWordFold (u32 (fold_sum fold + word)) (Z.lxor (fold_xor fold) word))
    fold.
Definition SumPieceU16Be (sum : Z) (piece : list Z) : Z :=
  for_steps (Z.to_nat (zlen piece / 2)) 0 2
    (fun offset sum => u16 (sum + ReadU16Be piece offset)) sum.
Definition FoldU32Be (pieces : list (list Z)) : WordFold :=
  fold_left FoldPieceU32Be pieces (mkWordFold 0 0).
Definition SumU16Be (pieces : list (list Z)) : Z := fold_left SumPieceU16Be pieces 0.

(** ** 8-bit checksums *)
Definition cks_add8_step (sum byte : Z) : Z :=
  let sum := u16 (sum + byte) in
  let sum := if negb (Z.land sum 256 =? 0) then u16 (sum + 1) else sum in
  u8 sum.
Definition CksAdd8 (data : list Z) : Z := u8 (fold_left cks_add8_step data 0).
Definition NegatedSum8 (data : list Z) : Z := u8 (256 - Sum8 data).

(** ** CRC-32 with polynomial 0x5AA5A55A *)
Definition kPolynomial : Z := 0x5AA5A55A.

(** One turn of the inner loop of [MakeCrcTable], on the pair [(crc, c)]. *)
Definition crc_table_bit (st : Z * Z) : Z * Z :=
  let '(crc, c) := st in
  let crc :=
    if negb (Z.land (Z.lxor crc c) 1 =? 0) then Z.lxor (Z.shiftr crc 1) kPolynomial
    else Z.shiftr crc 1 in
  (crc, Z.shiftr c 1).
Definition crc_table_entry (i : Z) : Z := fst (Nat.iter 8 crc_table_bit (0, i)).
Definition MakeCrcTable : list Z := map crc_table_entry (seqZ 0 256).
Definition kCrcTable : list Z := MakeCrcTable.

Definition crc_step (crc byte : Z) : Z :=
  Z.lxor (zget kCrcTable (Z.land (Z.lxor crc byte) 255)) (Z.shiftr crc 8).
Definition Crc32 (data : list Z) : Z := Z.lxor (fold_left crc_step data 0xFFFFFFFF) 0xFFFFFFFF.
(** The pointer overload: 0 for a null buffer. *)
Definition Crc32Ptr (buf : option (list Z)) (len : Z) : Z :=
  match buf with None => 0 | Some b => Crc32 (ztake len b) end.

(** ** Sums over an index range *)
Fixpoint isum (f : Z -> Z) (n : nat) : Z :=
  match n with O => 0 | S n' => isum f n' + f (Z.of_nat n') end.
Fixpoint ixor (f : Z -> Z) (n : nat) : Z :=
  match n with O => 0 | S n' => Z.lxor (ixor f n') (f (Z.of_nat n')) end.

Lemma for_steps_snoc {S} n i step (body : Z -> S -> S) s :
  for_steps (Datatypes.S n) i step body s = body (i + Z.of_nat n * step) (for_steps n i step body s).
Proof.
  revert i s. induction n as [|n IH]; intros i s; [cbn; f_equal; lia|].
  change (for_steps (Datatypes.S (Datatypes.S n)) i step body s)
    with (for_steps (Datatypes.S n) (i + step) step body (body i s)).
  rewrite IH. cbn [for_steps]. f_equal. lia.
Qed.
Lemma isum_ext f g n : (forall k, 0 <= k < Z.of_nat n -> f k = g k) -> isum f n = isum g n.
Proof. induction n as [|n IH]; intros H; [done|]. cbn. rewrite IH, H; [done|lia|]. intros; apply H; lia. Qed.
Lemma ixor_ext f g n : (forall k, 0 <= k < Z.of_nat n -> f k = g k) -> ixor f n = ixor g n.
Proof. induction n as [|n IH]; intros H; [done|]. cbn. rewrite IH, H; [done|lia|]. intros; apply H; lia. Qed.
Lemma isum_update f g n k0 :
  0 <= k0 < Z.of_nat n -> (forall k, 0 <= k < Z.of_nat n -> k <> k0 -> f k = g k) ->
  isum g n = isum f n - f k0 + g k0.
Proof.
  induction n as [|n IH]; intros Hk H; [lia|]. cbn.
  destruct (decide (k0 = Z.of_nat n)) as [->|].
  - rewrite (isum_ext f g) by (intros; apply H; lia). lia.
  - rewrite IH by (try lia; intros; apply H; lia). rewrite (H (Z.of_nat n)) by lia. lia.
Qed.
Lemma isum_zero f n : (forall k, 0 <= k < Z.of_nat n -> f k = 0) -> isum f n = 0.
Proof. induction n as [|n IH]; intros H; [done|]. cbn. rewrite IH, H; [done|lia|]. intros; apply H; lia. Qed.
Lemma ixor_zero f n : (forall k, 0 <= k < Z.of_nat n -> f k = 0) -> ixor f n = 0.
Proof. induction n as [|n IH]; intros H; [done|]. cbn. rewrite IH, H; [done|lia|]. intros; apply H; lia. Qed.
Lemma isum_range f n : (forall k, 0 <= k < Z.of_nat n -> 0 <= f k) -> 0 <= isum f n.
Proof.
  induction n as [|n IH]; intros H; [cbn; lia|]. cbn.
  pose proof (H (Z.of_nat n) ltac:(lia)). assert (0 <= isum f n) by (apply IH; intros; apply H; lia). lia.
Qed.

(** ** Word sums and XORs of a window, without wrap-around *)
Definition word_at (l : list Z) (k : Z) : Z := ReadU32Be l (4 * k).
Definition half_at (l : list Z) (k : Z) : Z := ReadU16Be l (2 * k).
Definition word_sum (l : list Z) : Z := isum (word_at l) (Z.to_nat (zlen l / 4)).
Definition word_xor (l : list Z) : Z := ixor (word_at l) (Z.to_nat (zlen l / 4)).
Definition half_sum (l : list Z) : Z := isum (half_at l) (Z.to_nat (zlen l / 2)).

Strategy 90 [word_sum half_sum word_xor FoldU32Be SumU16Be].

Lemma FoldPieceU32Be_spec s x piece :
  FoldPieceU32Be (mkWordFold (u32 s) x) piece
  = mkWordFold (u32 (s + word_sum piece)) (Z.lxor x (word_xor piece)).
Proof.
  unfold FoldPieceU32Be, word_sum, word_xor.
  induction (Z.to_nat (zlen piece / 4)) as [|n IH].
  - cbn. by rewrite Z.add_0_r, Z.lxor_0_r.
  - rewrite for_steps_snoc, IH. cbn [isum ixor fold_sum fold_xor].
    replace (0 + Z.of_nat n * 4) with (4 * Z.of_nat n) by lia. fold (word_at piece (Z.of_nat n)).
    rewrite u32_add_l, Z.lxor_assoc. f_equal. f_equal. lia.
Qed.
Lemma FoldU32Be_spec pieces :
  FoldU32Be pieces = mkWordFold (u32 (zsum (map word_sum pieces)))
                                (fold_left Z.lxor (map word_xor pieces) 0).
Proof.
  unfold FoldU32Be.
  enough (forall s x, fold_left FoldPieceU32Be pieces (mkWordFold (u32 s) x) =
          mkWordFold (u32 (s + zsum (map word_sum pieces))) (fold_left Z.lxor (map word_xor pieces) x)) as H.
  { exact (H 0 0). }
  induction pieces as [|p ps IH]; intros s x; cbn.
  - by rewrite Z.add_0_r.
  - rewrite FoldPieceU32Be_spec, IH. f_equal. f_equal. unfold zsum. lia.
Qed.
Lemma SumU16Be_spec pieces : SumU16Be pieces = u16 (zsum (map half_sum pieces)).
Proof.
  unfold SumU16Be.
  assert (forall s p, SumPieceU16Be (u16 s) p = u16 (s + half_sum p)) as Hp.
  { intros s p. unfold SumPieceU16Be, half_sum. induction (Z.to_nat (zlen p / 2)) as [|n IH].
    - cbn. by rewrite Z.add_0_r.
    - rewrite for_steps_snoc, IH. cbn [isum]. replace (0 + Z.of_nat n * 2) with (2 * Z.of_nat n) by lia.
      fold (half_at p (Z.of_nat n)). rewrite u16_add_l. f_equal. lia. }
  enough (forall s, fold_left SumPieceU16Be pieces (u16 s) = u16 (s + zsum (map half_sum pieces))) as H.
  { exact (H 0). }
  induction pieces as [|p ps IH]; intros s; cbn; [by rewrite Z.add_0_r|].
  rewrite Hp, IH. f_equal. unfold zsum. lia.
Qed.

(** What a write does to the words of a vector. *)
Lemma zget_WriteU32Be_other l off v i :
  0 <= off -> off + 4 <= zlen l -> i < off \/ off + 4 <= i -> zget (WriteU32Be l off v) i = zget l i.
Proof.
  intros. rewrite WriteU32Be_splice, zget_splice by (zl). by rewrite decide_False by (zl).
Qed.
Lemma zget_WriteU16Be_other l off v i :
  0 <= off -> off + 2 <= zlen l -> i < off \/ off + 2 <= i -> zget (WriteU16Be l off v) i = zget l i.
Proof.
  intros. rewrite WriteU16Be_splice, zget_splice by (zl). by rewrite decide_False by (zl).
Qed.
Lemma word_at_ext l1 l2 k :
  0 <= k -> 4 * k + 4 <= zlen l1 -> zlen l1 = zlen l2 ->
  (forall i, 4 * k <= i < 4 * k + 4 -> zget l1 i = zget l2 i) -> word_at l1 k = word_at l2 k.
Proof.
  intros. apply ReadU32Be_ext; try lia. intros i Hi. by apply H2; lia.
Qed.
Lemma word_sum_WriteU32Be l off v :
  0 <= off -> off mod 4 = 0 -> off + 4 <= zlen l ->
  word_sum (WriteU32Be l off v) = word_sum l - ReadU32Be l off + u32 v.
Proof.
  intros Ho Ha Hl. unfold word_sum. rewrite zlen_WriteU32Be.
  assert (off = 4 * (off / 4)) as E by (Z.to_euclidean_division_equations; lia).
  rewrite (isum_update (word_at l) _ _ (off / 4)).
  - unfold word_at. rewrite <- E. by rewrite ReadU32Be_WriteU32Be_same by lia.
  - split; [Z.to_euclidean_division_equations; lia|].
    rewrite Z2Nat.id by (Z.to_euclidean_division_equations; lia).
    Z.to_euclidean_division_equations; lia.
  - intros k Hk Hne. apply word_at_ext; [lia| |by rewrite zlen_WriteU32Be|].
    + Z.to_euclidean_division_equations; lia.
    + intros i Hi. symmetry. apply zget_WriteU32Be_other; lia.
Qed.
(** A written half-word in the low half of an aligned word. *)
Lemma word_sum_WriteU16Be_low l off v :
  bytes_ok l -> 0 <= off -> off mod 4 = 2 -> off + 2 <= zlen l ->
  word_sum (WriteU16Be l off v) = word_sum l - ReadU16Be l off + u16 v.
Proof.
  intros Hb Ho Ha Hl. unfold word_sum. rewrite zlen_WriteU16Be.
  assert (exists k, off = 4 * k + 2) as [k E] by (exists (off / 4); Z.to_euclidean_division_equations; lia).
  rewrite (isum_update (word_at l) _ _ k).
  - assert (ReadU16Be (WriteU16Be l off v) off = u16 v) as Hr by (by apply ReadU16Be_WriteU16Be_same).
    rewrite ReadU16Be_val in Hr |- * by (rewrite ?zlen_WriteU16Be; auto with bytes lia).
    unfold word_at. rewrite !ReadU32Be_val by (rewrite ?zlen_WriteU16Be; auto with bytes lia).
    replace (4 * k + 2) with off by lia. replace (4 * k + 3) with (off + 1) by lia.
    rewrite !(zget_WriteU16Be_other l off v (4 * k)), !(zget_WriteU16Be_other l off v (4 * k + 1)) by lia.
    lia.
  - split; [lia|]. rewrite Z2Nat.id by (Z.to_euclidean_division_equations; lia).
    Z.to_euclidean_division_equations; lia.
  - intros j Hj Hne. apply word_at_ext; [lia| |by rewrite zlen_WriteU16Be|].
    + Z.to_euclidean_division_equations; lia.
    + intros i Hi. symmetry. apply zget_WriteU16Be_other; lia.
Qed.
Lemma half_sum_WriteU16Be l off v :
  0 <= off -> off mod 2 = 0 -> off + 2 <= zlen l ->
  half_sum (WriteU16Be l off v) = half_sum l - ReadU16Be l off + u16 v.
Proof.
  intros Ho Ha Hl. unfold half_sum. rewrite zlen_WriteU16Be.
  assert (off = 2 * (off / 2)) as E by (Z.to_euclidean_division_equations; lia).
  rewrite (isum_update (half_at l) _ _ (off / 2)).
  - unfold half_at. rewrite <- E. by rewrite ReadU16Be_WriteU16Be_same by lia.
  - split; [Z.to_euclidean_division_equations; lia|].
    rewrite Z2Nat.id by (Z.to_euclidean_division_equations; lia).
    Z.to_euclidean_division_equations; lia.
  - intros k Hk Hne. apply ReadU16Be_ext; rewrite ?zlen_WriteU16Be;
      try (Z.to_euclidean_division_equations; lia).
    intros i Hi. symmetry. apply zget_WriteU16Be_other; lia.
Qed.

(** ** CRC-32: the table against the bit-serial register *)
Definition crc_bit (x : Z) : Z :=
  if Z.testbit x 0 then Z.lxor (Z.shiftr x 1) kPolynomial else Z.shiftr x 1.
(** One byte into a reflected CRC register, a bit at a time. *)
Definition crc_serial_byte (crc byte : Z) : Z := Nat.iter 8 crc_bit (Z.lxor crc byte).
Definition crc_serial (data : list Z) : Z :=
  Z.lxor (fold_left crc_serial_byte data 0xFFFFFFFF) 0xFFFFFFFF.

Lemma crc_bit_lxor a b : crc_bit (Z.lxor a b) = Z.lxor (crc_bit a) (crc_bit b).
Proof.
  unfold crc_bit. rewrite Z.lxor_spec, Z.shiftr_lxor.
  destruct (Z.testbit a 0), (Z.testbit b 0); cbn [xorb]; apply Z.bits_inj'; intros k _;
    rewrite !Z.lxor_spec; generalize (Z.testbit kPolynomial k) as p;
    destruct (Z.testbit (Z.shiftr a 1) k), (Z.testbit (Z.shiftr b 1) k); by intros [].
Qed.
Lemma crc_bit_double x : crc_bit (2 * x) = x.
Proof.
  unfold crc_bit. rewrite Z.testbit_even_0. rewrite shiftr_div by lia.
  rewrite Z.mul_comm. by apply Z.div_mul.
Qed.
Lemma iter_crc_bit_lxor n a b :
  Nat.iter n crc_bit (Z.lxor a b) = Z.lxor (Nat.iter n crc_bit a) (Nat.iter n crc_bit b).
Proof. induction n as [|n IH]; [done|]. rewrite !Nat.iter_succ. by rewrite IH, crc_bit_lxor. Qed.
Lemma iter_crc_bit_high x : Nat.iter 8 crc_bit (Z.shiftl x 8) = x.
Proof.
  replace (Z.shiftl x 8) with (2 * (2 * (2 * (2 * (2 * (2 * (2 * (2 * x)))))))).
  - cbn [Nat.iter nat_rect]. by rewrite !crc_bit_double.
  - rewrite Z.shiftl_mul_pow2 by lia. lia.
Qed.
Lemma kCrcTable_serial i : 0 <= i < 256 -> zget kCrcTable i = Nat.iter 8 crc_bit i.
Proof.
  intros Hi. apply Z.eqb_eq.
  apply (forall_range (fun i => zget kCrcTable i =? Nat.iter 8 crc_bit i) 256); [|done].
  vm_compute. reflexivity.
Qed.
Lemma crc_step_serial crc byte : byte_ok byte -> crc_step crc byte = crc_serial_byte crc byte.
Proof.
  intros Hb. unfold crc_step, crc_serial_byte. set (x := Z.lxor crc byte).
  assert (Z.shiftr crc 8 = Z.shiftr x 8) as ->.
  { unfold x. rewrite Z.shiftr_lxor, (shiftr_div byte) by lia.
    rewrite (Z.div_small byte) by (unfold byte_ok in Hb; lia). by rewrite Z.lxor_0_r. }
  assert (Z.lxor (Z.land x 255) (Z.shiftl (Z.shiftr x 8) 8) = x) as E.
  { apply Z.bits_inj'. intros k Hk. change 255 with (Z.ones 8).
    rewrite Z.lxor_spec, Z.land_spec, Z.shiftl_spec by lia.
    destruct (decide (k < 8)).
    - rewrite Z.ones_spec_low, (Z.testbit_neg_r _ (k - 8)) by lia. by rewrite andb_true_r, xorb_false_r.
    - rewrite Z.ones_spec_high, Z.shiftr_spec by lia. rewrite andb_false_r, xorb_false_l. f_equal. lia. }
  rewrite <- E at 3. rewrite iter_crc_bit_lxor, iter_crc_bit_high. f_equal.
  apply kCrcTable_serial. rewrite land_255. apply Z.mod_pos_bound. lia.
Qed.

(** the table-driven CRC-32 of [Crc32] is the bit-serial CRC with the
    reflected polynomial 0x5AA5A55A, initial value and final XOR all ones, for
    every byte string. *)
Theorem crc32_table_is_bit_serial data : bytes_ok data -> Crc32 data = crc_serial data.
Proof.
  intros H. unfold Crc32, crc_serial. f_equal. generalize 0xFFFFFFFF as acc.
  induction H as [|b l Hb _ IH]; intros acc; [done|]. cbn. by rewrite crc_step_serial, IH.
Qed.
Lemma crc32_table_is_bit_serial_witness : Crc32 [0x12; 0x34; 0xFF] = crc_serial [0x12; 0x34; 0xFF].
Proof. apply crc32_table_is_bit_serial. repeat constructor; unfold byte_ok; lia. Defined.

(** The end-around-carry residue of a total. *)
Definition carry_residue (s : Z) : Z := if decide (s = 0) then 0 else (s - 1) mod 255 + 1.
Lemma carry_residue_range s : byte_ok (carry_residue s).
Proof.
  unfold carry_residue, byte_ok. case_decide; [lia|]. pose proof (Z.mod_pos_bound (s - 1) 255). lia.
Qed.
Lemma cks_add8_step_residue s b :
  0 <= s -> byte_ok b -> cks_add8_step (carry_residue s) b = carry_residue (s + b).
Proof.
  intros Hs Hb. pose proof (carry_residue_range s) as Hn. unfold byte_ok in *.
  unfold cks_add8_step. rewrite (u16_small (_ + b)) by (unfold u16_ok; lia).
  assert (negb (Z.land (carry_residue s + b) 256 =? 0) = (256 <=? carry_residue s + b)) as ->.
  { apply eqb_prop, (forall_range (fun x => eqb (negb (Z.land x 256 =? 0)) (256 <=? x)) 512); [|lia].
    vm_compute. reflexivity. }
  unfold carry_residue in *. destruct (256 <=? _) eqn:E; [apply Z.leb_le in E|apply Z.leb_gt in E];
    repeat case_decide; zmod.
Qed.

(** [CksAdd8] is the end-around-carry sum: the residue of the byte total
    modulo 255 in the range 1..255, and 0 only for a zero total. *)
Theorem CksAdd8_end_around_carry data :
  bytes_ok data ->
  CksAdd8 data = if decide (zsum data = 0) then 0 else (zsum data - 1) mod 255 + 1.
Proof.
  intros H. change (CksAdd8 data = carry_residue (zsum data)).
  enough (forall l s, bytes_ok l -> 0 <= s ->
     fold_left cks_add8_step l (carry_residue s) = carry_residue (s + zsum l)) as E.
  { specialize (E data 0 H ltac:(lia)). change (carry_residue 0) with 0 in E.
    unfold CksAdd8. rewrite E. apply u8_small, carry_residue_range. }
  clear H data. induction l as [|b l IH]; intros s Hl Hs; [cbn; f_equal; lia|].
  inversion Hl as [|? ? Hb Hl']; subst. cbn [fold_left].
  rewrite cks_add8_step_residue, IH by (done || unfold byte_ok in Hb; lia).
  f_equal. unfold zsum. cbn. lia.
Qed.
Lemma CksAdd8_end_around_carry_witness : CksAdd8 [0xF0; 0x20; 0xFF] = 0x11.
Proof. rewrite CksAdd8_end_around_carry; [reflexivity|]. repeat constructor; unfold byte_ok; lia. Defined.

(** ** Windows of a ROM under a write *)
(** [span.subspan(offset)]: to the end. *)
Definition subspan_from (l : list Z) (offset : Z) : list Z := zdrop offset l.
Lemma subspan_from_eq l o : 0 <= o -> subspan_from l o = subspan l o (zlen l - o).
Proof.
  intros. unfold subspan_from, subspan, ztake, zdrop. rewrite take_ge; [done|].
  rewrite length_drop. unfold zlen. lia.
Qed.

Lemma window_WriteU32Be_out rom off v o n :
  0 <= o -> 0 <= n -> 0 <= off -> off + 4 <= zlen rom -> o + n <= zlen rom ->
  off + 4 <= o \/ o + n <= off ->
  subspan (WriteU32Be rom off v) o n = subspan rom o n.
Proof. intros. rewrite WriteU32Be_splice by lia. apply subspan_splice_outside; rewrite ?zlen_be32; lia. Qed.
Lemma window_WriteU16Be_out rom off v o n :
  0 <= o -> 0 <= n -> 0 <= off -> off + 2 <= zlen rom -> o + n <= zlen rom ->
  off + 2 <= o \/ o + n <= off ->
  subspan (WriteU16Be rom off v) o n = subspan rom o n.
Proof. intros. rewrite WriteU16Be_splice by lia. apply subspan_splice_outside; rewrite ?zlen_be16; lia. Qed.
Lemma window_WriteU32Be_in rom off v o n :
  0 <= o -> o <= off -> off + 4 <= o + n -> o + n <= zlen rom ->
  subspan (WriteU32Be rom off v) o n = WriteU32Be (subspan rom o n) (off - o) v.
Proof.
  intros. rewrite !WriteU32Be_splice by (zl). apply subspan_splice_inside; rewrite ?zlen_be32; lia.
Qed.
Lemma window_WriteU16Be_in rom off v o n :
  0 <= o -> o <= off -> off + 2 <= o + n -> o + n <= zlen rom ->
  subspan (WriteU16Be rom off v) o n = WriteU16Be (subspan rom o n) (off - o) v.
Proof.
  intros. rewrite !WriteU16Be_splice by (zl). apply subspan_splice_inside; rewrite ?zlen_be16; lia.
Qed.
Lemma ReadU16Be_subspan l o n off :
  0 <= o -> 0 <= off -> off + 2 <= n -> o + n <= zlen l ->
  ReadU16Be (subspan l o n) off = ReadU16Be l (o + off).
Proof.
  intros. apply ReadU16Be_ext; [lia|lia|rewrite zlen_subspan; lia|lia|].
  intros i Hi. rewrite zget_subspan by lia. f_equal. lia.
Qed.
(** The sum over a window that holds the written field. *)
Lemma word_sum_window_u32 rom off v o n :
  0 <= o -> o <= off -> (off - o) mod 4 = 0 -> off + 4 <= o + n -> o + n <= zlen rom ->
  word_sum (subspan (WriteU32Be rom off v) o n) = word_sum (subspan rom o n) - ReadU32Be rom off + u32 v.
Proof.
  intros. rewrite window_WriteU32Be_in by lia. rewrite word_sum_WriteU32Be by (zl).
  rewrite ReadU32Be_subspan by lia. by replace (o + (off - o)) with off by lia.
Qed.
Lemma word_sum_window_u16_low rom off v o n :
  bytes_ok rom -> 0 <= o -> o <= off -> (off - o) mod 4 = 2 -> off + 2 <= o + n -> o + n <= zlen rom ->
  word_sum (subspan (WriteU16Be rom off v) o n) = word_sum (subspan rom o n) - ReadU16Be rom off + u16 v.
Proof.
  intros. rewrite window_WriteU16Be_in by lia.
  rewrite word_sum_WriteU16Be_low by (zl; auto with bytes).
  rewrite ReadU16Be_subspan by lia. by replace (o + (off - o)) with off by lia.
Qed.
Lemma half_sum_window_u16 rom off v o n :
  0 <= o -> o <= off -> (off - o) mod 2 = 0 -> off + 2 <= o + n -> o + n <= zlen rom ->
  half_sum (subspan (WriteU16Be rom off v) o n) = half_sum (subspan rom o n) - ReadU16Be rom off + u16 v.
Proof.
  intros. rewrite window_WriteU16Be_in by lia. rewrite half_sum_WriteU16Be by (zl).
  rewrite ReadU16Be_subspan by lia. by replace (o + (off - o)) with off by lia.
Qed.
Lemma ReadU32Be_WriteU32Be_other rom off v off' :
  0 <= off -> 0 <= off' -> off + 4 <= zlen rom -> off' + 4 <= zlen rom ->
  off' + 4 <= off \/ off + 4 <= off' ->
  ReadU32Be (WriteU32Be rom off v) off' = ReadU32Be rom off'.
Proof. intros. rewrite WriteU32Be_splice by lia. apply ReadU32Be_splice_other; rewrite ?zlen_be32; lia. Qed.
Lemma ReadU32Be_WriteU16Be_other rom off v off' :
  0 <= off -> 0 <= off' -> off + 2 <= zlen rom -> off' + 4 <= zlen rom ->
  off' + 4 <= off \/ off + 2 <= off' ->
  ReadU32Be (WriteU16Be rom off v) off' = ReadU32Be rom off'.
Proof. intros. rewrite WriteU16Be_splice by lia. apply ReadU32Be_splice_other; rewrite ?zlen_be16; lia. Qed.
(** A write of the value already stored changes nothing. *)
Lemma be32_ReadU32Be l off :
  bytes_ok l -> 0 <= off -> off + 4 <= zlen l -> be32 (ReadU32Be l off) = subspan l off 4.
Proof.
  intros Hl Ho Hle. apply zget_ext; [zl|]. rewrite zlen_be32. intros i Hi.
  rewrite zget_subspan by lia. rewrite ReadU32Be_val by done.
  assert (i = 0 \/ i = 1 \/ i = 2 \/ i = 3) as Hcase by lia.
  assert (zget l (off + i) = zget [zget l off; zget l (off + 1); zget l (off + 2); zget l (off + 3)] i) as ->
    by (destruct Hcase as [-> | [-> | [-> | ->]]]; rewrite ?Z.add_0_r; reflexivity).
  generalize (bytes_ok_zget l off Hl) (bytes_ok_zget l (off + 1) Hl)
    (bytes_ok_zget l (off + 2) Hl) (bytes_ok_zget l (off + 3) Hl).
  generalize (zget l off) (zget l (off + 1)) (zget l (off + 2)) (zget l (off + 3)).
  intros w x y z ? ? ? ?. unfold be32, AppendU32Be. lanes. cbn [app].
  destruct Hcase as [-> | [-> | [-> | ->]]]; zgets; zmod.
Qed.
Lemma WriteU32Be_id l off :
  bytes_ok l -> 0 <= off -> off + 4 <= zlen l -> WriteU32Be l off (ReadU32Be l off) = l.
Proof. intros. rewrite WriteU32Be_splice, be32_ReadU32Be by done. apply splice_id; lia. Qed.

(** A later write to the same field wins. *)
Lemma WriteU32Be_overwrite l off v w :
  0 <= off -> off + 4 <= zlen l -> WriteU32Be (WriteU32Be l off v) off w = WriteU32Be l off w.
Proof.
  intros. rewrite (WriteU32Be_splice l off w), (WriteU32Be_splice (WriteU32Be _ _ _)) by (zl).
  apply zget_ext; [rewrite !zlen_splice by (zl); zl|]. intros i _. rewrite !zget_splice by (zl).
  case_decide; [done|]. apply zget_WriteU32Be_other; zl.
Qed.

(** ** Rebalancing makes the sum the target *)
Lemma zlen_RebalanceU32Be rom off obs tgt : zlen (RebalanceU32Be rom off obs tgt) = zlen rom.
Proof. apply zlen_WriteU32Be. Qed.
Lemma zlen_RebalanceU16Be rom off obs tgt : zlen (RebalanceU16Be rom off obs tgt) = zlen rom.
Proof. apply zlen_WriteU16Be. Qed.
#[export] Hint Rewrite zlen_RebalanceU32Be zlen_RebalanceU16Be : zlen.
Lemma rebalance_u32_sum S obs stored tgt x :
  u32 (S + x) = u32 obs -> u32 (S - stored + u32 (u32 (stored + tgt - obs)) + x) = u32 tgt.
Proof. zmod. Qed.
