(* ===== verification/ChecksumFamily.v ===== *)
(** * ChecksumFamily: what a ROM checksum family promises its callers

    The interface between the checksum families
    ([src/algorithms/checksum/checksum_*.cpp]) and the dispatcher that runs
    them ([src/backend/checksum/dispatch.cpp]). A family is a correction
    function with the ROMs it accepts, the validity predicate its ECU checks
    and the byte positions it may write. *)
From S2P Require Import Prelude Bytes ChecksumPrimitives.

Class ChecksumFamily (calc : list Z -> ChecksumResult)
    (fits valid : list Z -> Prop) (slot : Z -> Prop) : Prop := {
  family_size rom : fits rom -> bytes_ok rom -> zlen (rom_data (calc rom)) = zlen rom;
  family_bytes rom : fits rom -> bytes_ok rom -> bytes_ok (rom_data (calc rom));
  family_valid rom : fits rom -> bytes_ok rom -> valid (rom_data (calc rom));
  family_stable rom : fits rom -> bytes_ok rom -> valid rom -> rom_data (calc rom) = rom;
  family_frame rom i : fits rom -> bytes_ok rom -> ~ slot i -> zget (rom_data (calc rom)) i = zget rom i
}.

Section family.
Context {calc fits valid slot} `{!ChecksumFamily calc fits valid slot}.

(** Correcting a corrected ROM changes nothing. *)
Lemma family_idempotent rom :
  fits rom -> fits (rom_data (calc rom)) -> bytes_ok rom ->
  rom_data (calc (rom_data (calc rom))) = rom_data (calc rom).
Proof.
  intros Hf Hf' Hb. apply family_stable; [done|by apply family_bytes|by apply family_valid].
Qed.
End family.

(** ** One balance word

    The families that keep a single sum: [observed] is the sum the code
    computes, [balance] writes the word that moves it to [target]. *)
Section balanced.
Context (observed : list Z -> Z) (balance : list Z -> list Z) (target : Z)
        (title : string) (fits : list Z -> Prop) (slot_start slot_end : Z).
Definition balanced_calc (rom : list Z) : ChecksumResult :=
  if observed rom =? target then mkChecksumResult kUnchanged rom ""
  else mkChecksumResult kCorrected (balance rom) title.

Hypothesis balance_size : forall rom, fits rom -> zlen (balance rom) = zlen rom.
Hypothesis balance_bytes : forall rom, fits rom -> bytes_ok rom -> bytes_ok (balance rom).
Hypothesis balance_sum : forall rom, fits rom -> bytes_ok rom -> observed (balance rom) = target.
Hypothesis balance_frame : forall rom i,
  fits rom -> ~ slot_start <= i < slot_end -> zget (balance rom) i = zget rom i.

Lemma balanced_family :
  ChecksumFamily balanced_calc fits (fun rom => observed rom = target)
    (fun i => slot_start <= i < slot_end).
Proof.
  split; unfold balanced_calc; intros; destruct (_ =? _) eqn:E; cbn; auto.
  - by apply Z.eqb_eq.
  - apply Z.eqb_neq in E. contradiction.
Qed.
Lemma balanced_status rom :
  status (balanced_calc rom) = kUnchanged <-> observed rom = target.
Proof.
  unfold balanced_calc. destruct (_ =? _) eqn:E; cbn.
  - apply Z.eqb_eq in E. done.
  - apply Z.eqb_neq in E. split; [done|contradiction].
Qed.
End balanced.

Lemma family_ext calc calc' fits valid slot :
  (forall rom, calc rom = calc' rom) -> ChecksumFamily calc' fits valid slot ->
  ChecksumFamily calc fits valid slot.
Proof. intros E [B1 B2 B3 B4 B5]. split; intros; rewrite E; auto. Qed.

(** Balance arithmetic in 32 and 16 bits. *)
Lemma rebalance_u32 s stored target adj :
  u32_ok target ->
  u32 (s - stored + u32 (u32 (stored + target - u32 (s + adj))) + adj) = target.
Proof. zmod. Qed.
Lemma rebalance_u16 s stored target :
  u16_ok target -> u16 (s - stored + u16 (u16 (stored + target - u16 s))) = target.
Proof. zmod. Qed.

Lemma bytes_ok_RebalanceU32Be rom off obs tgt : bytes_ok rom -> bytes_ok (RebalanceU32Be rom off obs tgt).
Proof. apply bytes_ok_WriteU32Be. Qed.
Lemma bytes_ok_RebalanceU16Be rom off obs tgt : bytes_ok rom -> bytes_ok (RebalanceU16Be rom off obs tgt).
Proof. apply bytes_ok_WriteU16Be. Qed.
#[export] Hint Resolve bytes_ok_RebalanceU32Be bytes_ok_RebalanceU16Be : bytes.
Lemma zget_RebalanceU32Be_other rom off obs tgt i :
  0 <= off -> off + 4 <= zlen rom -> ~ off <= i < off + 4 ->
  zget (RebalanceU32Be rom off obs tgt) i = zget rom i.
Proof. intros. apply zget_WriteU32Be_other; lia. Qed.
Lemma zget_RebalanceU16Be_other rom off obs tgt i :
  0 <= off -> off + 2 <= zlen rom -> ~ off <= i < off + 2 ->
  zget (RebalanceU16Be rom off obs tgt) i = zget rom i.
Proof. intros. apply zget_WriteU16Be_other; lia. Qed.

(** ** ROMs that agree outside some positions *)
Definition same_except (P : Z -> Prop) (rom rom' : list Z) : Prop :=
  zlen rom' = zlen rom /\ forall i, ~ P i -> zget rom' i = zget rom i.
Lemma same_except_refl P rom : same_except P rom rom.
Proof. by split. Qed.
Lemma same_except_mono (P Q : Z -> Prop) rom rom' :
  (forall i, P i -> Q i) -> same_except P rom rom' -> same_except Q rom rom'.
Proof. intros H [E F]. split; [done|]. intros i Hi. apply F. intros Hp. by apply Hi, H. Qed.
Lemma same_except_trans (P Q R : Z -> Prop) rom1 rom2 rom3 :
  same_except P rom1 rom2 -> same_except Q rom2 rom3 ->
  (forall i, P i \/ Q i -> R i) -> same_except R rom1 rom3.
Proof.
  intros [E1 F1] [E2 F2] H. split; [congruence|]. intros i Hi.
  rewrite F2, F1; [done|..]; intros Hp; apply Hi, H; auto.
Qed.
Lemma same_except_subspan P rom rom' o n :
  same_except P rom rom' -> 0 <= o -> (forall i, o <= i < o + n -> ~ P i) ->
  subspan rom' o n = subspan rom o n.
Proof.
  intros [E F] Ho H. apply zget_ext; [by rewrite !zlen_subspan, E|]. intros i Hi.
  rewrite zlen_subspan in Hi. rewrite !zget_subspan by lia. apply F, H. lia.
Qed.
Lemma same_except_subspan_from P rom rom' o :
  same_except P rom rom' -> 0 <= o -> (forall i, o <= i -> ~ P i) ->
  subspan_from rom' o = subspan_from rom o.
Proof.
  intros S Ho H. rewrite !subspan_from_eq by done. rewrite (proj1 S).
  eapply same_except_subspan; [done..|]. intros i Hi. apply H. lia.
Qed.
Lemma same_except_ReadU32Be P rom rom' off :
  same_except P rom rom' -> 0 <= off -> (forall i, off <= i < off + 4 -> ~ P i) ->
  ReadU32Be rom' off = ReadU32Be rom off.
Proof.
  intros [E F] Ho H. destruct (decide (off + 4 <= zlen rom)).
  - apply ReadU32Be_ext; try lia. intros i Hi. apply F, H. lia.
  - unfold ReadU32Be. by rewrite !FitsAt_false by lia.
Qed.
Lemma same_except_WriteU32Be rom off v :
  0 <= off -> off + 4 <= zlen rom -> same_except (fun i => off <= i < off + 4) rom (WriteU32Be rom off v).
Proof. intros. split; [apply zlen_WriteU32Be|]. intros i Hi. apply zget_WriteU32Be_other; lia. Qed.
Lemma same_except_WriteU16Be rom off v :
  0 <= off -> off + 2 <= zlen rom -> same_except (fun i => off <= i < off + 2) rom (WriteU16Be rom off v).
Proof. intros. split; [apply zlen_WriteU16Be|]. intros i Hi. apply zget_WriteU16Be_other; lia. Qed.
Lemma same_except_zset rom i v : same_except (fun j => j = i) rom (zset rom i v).
Proof.
  split; [apply zlen_zset|]. intros j Hj. rewrite zget_zset. rewrite decide_False; [done|]. lia.
Qed.
