(* ===== verification/ChecksumDenso.v ===== *)
(** * ChecksumDenso: [denso_checksum_table.{h,cpp}],
    [checksum_ecu_subaru_denso_sh7xxx.cpp] and
    [checksum_ecu_subaru_denso_sh705x_diesel.cpp] under [src/algorithms/checksum/]

    Denso ROMs hold a table of 12-byte records: the first and last address of a
    block and the value that brings the block's word sum to 0x5AA5A55A. *)
From S2P Require Import Prelude Bytes MemoryMap MemoryImage ChecksumPrimitives ChecksumFamily.

Definition kRecordLength : Z := 12.
Definition kChecksumTarget : Z := 0x5AA5A55A.

Record DensoWordOverride : Type := mkDensoWordOverride { override_address : Z; override_value : Z }.
Record DensoTableSpec : Type := mkDensoTableSpec {
  table_address : Z;
  table_length : Z;
  overrides : list DensoWordOverride;
  detect_disabled : bool
}.
Module Outcome.
Inductive DensoTableOutcome : Type :=
| kUnchanged | kCorrected | kDisabled | kInvalidTableRange | kInvalidBlockRange | kMalformedBlockRange
| kInvalidRecordLength.
End Outcome.
#[local] Abbreviation DensoTableOutcome := Outcome.DensoTableOutcome.
#[export] Instance DensoTableOutcome_eq_dec : EqDecision DensoTableOutcome.
Proof. solve_decision. Defined.

(** ** One block *)
Definition WordAt (blk : list Z) (offset block_address : Z) (ovs : list DensoWordOverride) : Z :=
  let ecu_address := u32 (block_address + u32 offset) in
  match List.find (fun item => override_address item =? ecu_address) ovs with
  | None => ReadU32Be blk offset
  | Some item => override_value item
  end.
Definition EcuAcceptsBlock (start end_ : Z) : bool :=
  (start mod 4 =? 0) && (start <=? end_) && ((start =? end_) || (end_ mod 4 =? 3)).
Definition SumBlock (rom : list Z) (base start end_ : Z) (ovs : list DensoWordOverride)
    : result DensoTableOutcome Z :=
  if negb (EcuAcceptsBlock start end_) then Err Outcome.kMalformedBlockRange
  else if start =? end_ then Ok 0
  else if (start <? base) || (zlen rom <=? u32 (end_ - base)) then Err Outcome.kInvalidBlockRange
  else
    let blk := subspan rom (u32 (start - base)) (u32 (end_ - start + 1)) in
    Ok (for_steps (Z.to_nat ((zlen blk + 3) / 4)) 0 4
          (fun offset sum => u32 (sum + WordAt blk offset start ovs)) 0).

(** ** The table *)
(** The record loop, from record [record] (a byte offset in the table) on for
    [n] records; [Err] is an early return. *)
Fixpoint correct_records (n : nat) (record position : Z) (rom : list Z) (base : Z) (spec : DensoTableSpec)
    (corrected : list Z) (changed : bool) : result DensoTableOutcome (list Z * bool) :=
  match n with
  | O => Ok (corrected, changed)
  | S n =>
      let start := ReadU32Be rom (position + record) in
      let end_ := ReadU32Be rom (position + record + 4) in
      let stored := ReadU32Be rom (position + record + 8) in
      if (record =? 0) && detect_disabled spec && (start =? 0) && (end_ =? 0) && (stored =? kChecksumTarget)
      then Err Outcome.kDisabled
      else
        let! sum := SumBlock rom base start end_ (overrides spec) in
        let expected := u32 (kChecksumTarget - sum) in
        let changed := changed || negb (stored =? expected) in
        let corrected := AppendU32Be corrected start in
        let corrected := AppendU32Be corrected end_ in
        let corrected := AppendU32Be corrected expected in
        correct_records n (record + kRecordLength) position rom base spec corrected changed
  end.
Definition CorrectDensoTable (base : Z) (rom : list Z) (spec : DensoTableSpec) : list Z * DensoTableOutcome :=
  if negb (table_length spec mod kRecordLength =? 0) then (rom, Outcome.kInvalidRecordLength)
  else
    match DistanceFrom (table_address spec) base with
    | None => (rom, Outcome.kInvalidTableRange)
    | Some table_position =>
        if (zlen rom <? table_position) || (zlen rom - table_position <? table_length spec)
        then (rom, Outcome.kInvalidTableRange)
        else
          match correct_records (Z.to_nat (table_length spec / kRecordLength)) 0 table_position rom base spec
                  [] false with
          | Err outcome => (rom, outcome)
          | Ok (corrected, changed) =>
              if negb changed then (rom, Outcome.kUnchanged)
              else (OverwriteAt rom table_position corrected, Outcome.kCorrected)
          end
    end.
Definition FailureOf (outcome : DensoTableOutcome) : option (ChecksumStatus * string) :=
  match outcome with
  | Outcome.kUnchanged | Outcome.kCorrected | Outcome.kDisabled => None
  | Outcome.kInvalidTableRange => Some (kInvalidSize, "ROM is too small for the configured checksum area")
  | Outcome.kInvalidBlockRange => Some (kInvalidSize, "ROM is too small for a checksum block range")
  | Outcome.kMalformedBlockRange =>
      Some (kParseError, "A checksum block must start on a word and end at or after it, on a word's last byte")
  | Outcome.kInvalidRecordLength =>
      Some (kParseError, "Checksum area length must be a multiple of 12 bytes")
  end.

(** ** The two families *)
Module SH7xxx.
Definition CalculateChecksumResult (rom : MemoryView) (table_address table_length : Z) : ChecksumResult :=
  let spec := mkDensoTableSpec table_address table_length [] true in
  let '(data, outcome) := CorrectDensoTable (Start (view_range rom)) (view_data rom) spec in
  match FailureOf outcome with
  | Some (st, msg) => mkChecksumResult st data msg
  | None =>
      match outcome with
      | Outcome.kCorrected => mkChecksumResult kCorrected data "Checksums corrected"
      | Outcome.kDisabled => mkChecksumResult kDisabled data "ROM has all checksums disabled"
      | _ => mkChecksumResult kUnchanged data "Checksums OK"
      end
  end.
End SH7xxx.

Module SH705xDiesel.
Definition active_overrides (checksum_area_start : Z) : list DensoWordOverride :=
  if checksum_area_start =? 0x0FFB80 then [mkDensoWordOverride 0x0FFAFC 0xFFFFFFFF]
  else if checksum_area_start =? 0x17FB80 then [mkDensoWordOverride 0x17FAFC 0xFFFFFFFF]
  else [].
Definition CalculateChecksumResult (rom : MemoryView) (table_address table_length : Z) : ChecksumResult :=
  let rom_view := view_data rom in
  let base := Start (view_range rom) in
  let primary := mkDensoTableSpec table_address table_length (active_overrides table_address) true in
  let '(data, primary_outcome) := CorrectDensoTable base rom_view primary in
  if bool_decide (primary_outcome = Outcome.kDisabled) then
    mkChecksumResult kDisabled data "ROM has all checksums disabled"
  else
    match FailureOf primary_outcome with
    | Some (st, msg) => mkChecksumResult st data msg
    | None =>
        let '(data, secondary_outcome) :=
          if table_address =? 0x1FF800
          then CorrectDensoTable base data (mkDensoTableSpec 0x1FF8E8 24 [] false)
          else (data, Outcome.kUnchanged) in
        match (if table_address =? 0x1FF800 then FailureOf secondary_outcome else None) with
        | Some (st, msg) => mkChecksumResult st rom_view msg
        | None =>
            if bool_decide (primary_outcome = Outcome.kCorrected)
               || bool_decide (secondary_outcome = Outcome.kCorrected)
            then mkChecksumResult kCorrected data "Subaru Denso SH705x Checksum"
            else mkChecksumResult kUnchanged data ""
        end
    end.
End SH705xDiesel.

(** ** Fixed-width pieces laid end to end *)
Fixpoint pieces_from (f : Z -> list Z) (k : Z) (n : nat) : list Z :=
  match n with O => [] | S n => f k ++ pieces_from f (k + 1) n end.
Lemma zlen_pieces_from f w k n : (forall j, zlen (f j) = w) -> zlen (pieces_from f k n) = w * Z.of_nat n.
Proof.
  intros Hw. revert k. induction n as [|n IH]; intros k; [cbn [pieces_from]; rewrite zlen_nil; lia|].
  cbn [pieces_from]. rewrite zlen_app, Hw, IH. lia.
Qed.
Lemma zget_pieces_from f w k n j i :
  (forall j, zlen (f j) = w) -> 0 <= j < Z.of_nat n -> 0 <= i < w ->
  zget (pieces_from f k n) (w * j + i) = zget (f (k + j)) i.
Proof.
  intros Hw. revert k j. induction n as [|n IH]; intros k j Hj Hi; [lia|]. cbn [pieces_from].
  destruct (decide (j = 0)) as [->|].
  - rewrite Z.mul_0_r, Z.add_0_l, Z.add_0_r. by rewrite zget_app_l by (rewrite Hw; lia).
  - rewrite zget_app_r by (rewrite Hw; nia). rewrite Hw.
    replace (w * j + i - w) with (w * (j - 1) + i) by lia. rewrite IH by lia.
    by replace (k + 1 + (j - 1)) with (k + j) by lia.
Qed.

(** ** Record by record *)
Section table.
Context (base : Z) (rom : list Z) (spec : DensoTableSpec) (pos : Z).
Definition rec_start (r : list Z) (k : Z) : Z := ReadU32Be r (pos + 12 * k).
Definition rec_end (r : list Z) (k : Z) : Z := ReadU32Be r (pos + 12 * k + 4).
Definition rec_stored (r : list Z) (k : Z) : Z := ReadU32Be r (pos + 12 * k + 8).
Definition rec_sum (r : list Z) (k : Z) : result DensoTableOutcome Z :=
  SumBlock r base (rec_start r k) (rec_end r k) (overrides spec).
Definition rec_expected (k : Z) : Z :=
  match rec_sum rom k with Ok s => u32 (kChecksumTarget - s) | Err _ => 0 end.
Definition rec_bytes (k : Z) : list Z :=
  be32 (rec_start rom k) ++ be32 (rec_end rom k) ++ be32 (rec_expected k).
Lemma zlen_rec_bytes k : zlen (rec_bytes k) = 12.
Proof. reflexivity. Qed.

(** The record holds the value its block needs. *)
Definition rec_valid (r : list Z) (k : Z) : Prop :=
  exists s, rec_sum r k = Ok s /\ rec_stored r k = u32 (kChecksumTarget - s).
Definition first_disabled (k : Z) : bool :=
  (k =? 0) && detect_disabled spec && (rec_start rom k =? 0) && (rec_end rom k =? 0)
  && (rec_stored rom k =? kChecksumTarget).

Lemma AppendU32Be_app out v : AppendU32Be out v = out ++ be32 v.
Proof. reflexivity. Qed.
Lemma correct_records_spec n k corrected changed :
  0 <= k ->
  match correct_records n (12 * k) pos rom base spec corrected changed with
  | Ok (out, ch) =>
      out = corrected ++ pieces_from rec_bytes k n
      /\ (forall j, k <= j < k + Z.of_nat n -> exists s, rec_sum rom j = Ok s)
      /\ (ch = false <-> changed = false /\ forall j, k <= j < k + Z.of_nat n -> rec_valid rom j)
  | Err o =>
      (o = Outcome.kDisabled /\ exists j, k <= j < k + Z.of_nat n /\ first_disabled j = true)
      \/ exists j, k <= j < k + Z.of_nat n /\ rec_sum rom j = Err o
  end.
Proof.
  revert k corrected changed. induction n as [|n IH]; intros k corrected changed Hk.
  { cbn. rewrite app_nil_r. split; [done|]. split; [intros; lia|]. split; [|tauto].
    intros ->. split; [done|]. intros; lia. }
  cbn [correct_records].
  assert ((12 * k =? 0) && detect_disabled spec && (ReadU32Be rom (pos + 12 * k) =? 0)
    && (ReadU32Be rom (pos + 12 * k + 4) =? 0) && (ReadU32Be rom (pos + 12 * k + 8) =? kChecksumTarget)
    = first_disabled k) as ->.
  { unfold first_disabled, rec_start, rec_end, rec_stored. do 4 f_equal.
    destruct (Z.eqb_spec (12 * k) 0), (Z.eqb_spec k 0); (done || lia). }
  destruct (first_disabled k) eqn:Ed; [left; split; [done|]; exists k; split; [lia|done]|].
  change (SumBlock rom base (ReadU32Be rom (pos + 12 * k)) (ReadU32Be rom (pos + 12 * k + 4)) (overrides spec))
    with (rec_sum rom k).
  destruct (rec_sum rom k) as [s|o] eqn:Es; cbn [result_bind]; [|right; exists k; split; [lia|done]].
  replace (12 * k + kRecordLength) with (12 * (k + 1)) by (unfold kRecordLength; lia).
  specialize (IH (k + 1)
    (AppendU32Be (AppendU32Be (AppendU32Be corrected (rec_start rom k)) (rec_end rom k))
       (u32 (kChecksumTarget - s)))
    (changed || negb (rec_stored rom k =? u32 (kChecksumTarget - s))) ltac:(lia)).
  unfold rec_start at 1, rec_end at 1, rec_stored at 1 in IH.
  destruct (correct_records n _ _ _ _ _ _ _) as [[out ch]|o].
  - destruct IH as (-> & Hs & Hc). split; [|split].
    + cbn [pieces_from]. unfold rec_bytes at 2, rec_expected. rewrite Es, !AppendU32Be_app.
      by rewrite <- !app_assoc.
    + intros j Hj. destruct (decide (j = k)) as [->|]; [by exists s|]. apply Hs. lia.
    + rewrite Hc, orb_false_iff, negb_false_iff, Z.eqb_eq. split.
      * intros ([-> E] & Hv). split; [done|]. intros j Hj.
        destruct (decide (j = k)) as [->|]; [by exists s|]. apply Hv. lia.
      * intros (-> & Hv). split; [split; [done|]|intros; apply Hv; lia].
        destruct (Hv k ltac:(lia)) as (s' & E & Est). congruence.
  - destruct IH as [(-> & j & Hj & E)|(j & Hj & E)]; [left; split; [done|]|right]; exists j;
      (split; [lia|done]).
Qed.

(** *** What the corrected table does to the ROM *)
Context (n : nat) (Hbytes : bytes_ok rom) (Hpos : 0 <= pos) (Hfit : pos + 12 * Z.of_nat n <= zlen rom).
Definition overwritten : list Z := OverwriteAt rom pos (pieces_from rec_bytes 0 n).
(** The positions of the records' values. *)
Definition value_slot (i : Z) : Prop := pos <= i < pos + 12 * Z.of_nat n /\ 8 <= (i - pos) mod 12.
Definition rec_avoids (k : Z) : Prop :=
  rec_start rom k = rec_end rom k \/ rec_end rom k < base + pos
  \/ base + pos + 12 * Z.of_nat n <= rec_start rom k.

Lemma overwritten_splice : overwritten = splice rom pos (pieces_from rec_bytes 0 n).
Proof.
  unfold overwritten, OverwriteAt. pose proof (zlen_pieces_from rec_bytes 12 0 n zlen_rec_bytes) as Hl.
  rewrite Hl. destruct (Z.leb_spec (zlen rom) pos) as [Hle|Hgt].
  - assert (n = 0%nat) as -> by lia. symmetry. apply zget_ext; [by rewrite zlen_splice|].
    intros i Hi. rewrite zget_splice by (cbn [pieces_from]; rewrite ?zlen_nil; lia).
    cbn [pieces_from]. rewrite zlen_nil. by rewrite decide_False by lia.
  - f_equal. rewrite Z.min_l by lia. unfold ztake. apply take_ge. unfold zlen in Hl. lia.
Qed.
Lemma zlen_overwritten : zlen overwritten = zlen rom.
Proof.
  rewrite overwritten_splice. apply zlen_splice; [done|].
  by rewrite (zlen_pieces_from rec_bytes 12 0 n zlen_rec_bytes).
Qed.
Lemma zget_overwritten k i :
  0 <= k < Z.of_nat n -> 0 <= i < 12 -> zget overwritten (pos + 12 * k + i) = zget (rec_bytes k) i.
Proof.
  intros Hk Hi. rewrite overwritten_splice.
  pose proof (zlen_pieces_from rec_bytes 12 0 n zlen_rec_bytes) as Hl.
  rewrite zget_splice by lia. rewrite decide_True by lia.
  replace (pos + 12 * k + i - pos) with (12 * k + i) by lia.
  rewrite (zget_pieces_from rec_bytes 12 0 n k i) by (apply zlen_rec_bytes || lia). done.
Qed.
Lemma same_overwritten : same_except value_slot rom overwritten.
Proof.
  split; [apply zlen_overwritten|]. intros i Hi.
  destruct (decide (pos <= i < pos + 12 * Z.of_nat n)) as [Hin|Hout].
  - assert ((i - pos) mod 12 < 8) as Hm by (destruct (decide (8 <= (i - pos) mod 12)); [by destruct Hi|lia]).
    set (k := (i - pos) / 12). set (j := (i - pos) mod 12) in *.
    assert (i = pos + 12 * k + j) as Ei by (unfold k, j; pose proof (Z.div_mod (i - pos) 12); lia).
    assert (0 <= j) by (unfold j; apply Z.mod_pos_bound; lia).
    rewrite Ei, zget_overwritten by lia.
    unfold rec_bytes, rec_start, rec_end. rewrite !be32_ReadU32Be by (done || lia).
    destruct (decide (j < 4)).
    + rewrite zget_app_l by (rewrite zlen_subspan; lia). by rewrite zget_subspan by lia.
    + assert (zlen (subspan rom (pos + 12 * k) 4) = 4) as E4 by (rewrite zlen_subspan; lia).
      assert (zlen (subspan rom (pos + 12 * k + 4) 4) = 4) as E8 by (rewrite zlen_subspan; lia).
      rewrite zget_app_r, E4, zget_app_l, zget_subspan by lia. f_equal. lia.
  - rewrite overwritten_splice. pose proof (zlen_pieces_from rec_bytes 12 0 n zlen_rec_bytes) as Hl.
    rewrite zget_splice by lia. by rewrite decide_False by lia.
Qed.
Lemma not_value_slot k i j : 0 <= k < Z.of_nat n -> i = pos + 12 * k + j -> 0 <= j < 8 -> ~ value_slot i.
Proof. unfold value_slot. intros Hk -> Hj. Z.to_euclidean_division_equations. lia. Qed.
Lemma rec_start_overwritten k : 0 <= k < Z.of_nat n -> rec_start overwritten k = rec_start rom k.
Proof.
  intros Hk. eapply same_except_ReadU32Be; [apply same_overwritten|lia|]. intros i Hi.
  apply (not_value_slot k i (i - (pos + 12 * k))); lia.
Qed.
Lemma rec_end_overwritten k : 0 <= k < Z.of_nat n -> rec_end overwritten k = rec_end rom k.
Proof.
  intros Hk. eapply same_except_ReadU32Be; [apply same_overwritten|lia|]. intros i Hi.
  apply (not_value_slot k i (i - (pos + 12 * k))); lia.
Qed.
Lemma rec_stored_overwritten k : 0 <= k < Z.of_nat n -> rec_stored overwritten k = rec_expected k.
Proof.
  intros Hk. transitivity (u32 (rec_expected k)).
  - rewrite <- (ReadU32Be_be32 (rec_expected k)). unfold rec_stored.
    apply ReadU32Be_ext; [lia|lia|rewrite zlen_overwritten; lia|rewrite zlen_be32; lia|].
    intros i Hi. replace (pos + 12 * k + 8 + i) with (pos + 12 * k + (8 + i)) by lia.
    rewrite zget_overwritten by lia. unfold rec_bytes.
    rewrite zget_app_r, zget_app_r by (rewrite ?zlen_be32; lia). rewrite !zlen_be32. f_equal. lia.
  - unfold rec_expected. destruct (rec_sum rom k); [apply u32_u32|done].
Qed.
Lemma bytes_ok_overwritten : bytes_ok overwritten.
Proof.
  rewrite overwritten_splice. apply bytes_ok_splice; [done|]. clear. generalize 0.
  induction n as [|m IH]; intros k; [constructor|]. cbn [pieces_from]. apply bytes_ok_app; [|done].
  unfold rec_bytes. auto with bytes.
Qed.

(** The sum of a block that does not meet the changed positions. *)
Lemma SumBlock_same P r r' start end_ ovs :
  same_except P r r' -> 0 <= base <= kU32Max -> u32_ok start -> u32_ok end_ ->
  (start = end_ \/ forall i, start - base <= i <= end_ - base -> ~ P i) ->
  SumBlock r' base start end_ ovs = SumBlock r base start end_ ovs.
Proof.
  intros S Hb Hs He HP. unfold SumBlock. rewrite (proj1 S).
  destruct (EcuAcceptsBlock start end_) eqn:Ea; [|done]. cbn [negb].
  destruct (Z.eqb_spec start end_) as [|Hne]; [done|]. destruct HP as [?|HP]; [done|].
  destruct (Z.ltb_spec start base) as [|Hge]; [done|]. cbn [orb].
  destruct (_ <=? _); [done|].
  unfold EcuAcceptsBlock in Ea. rewrite !andb_true_iff, Z.leb_le in Ea.
  rewrite (same_except_subspan P r r' _ _ S); [done|apply (u32_range _)|].
  intros i Hi. apply HP. unfold kU32Max in *. revert Hi. unfold u32, u32_ok in *.
  rewrite (Z.mod_small (start - base)) by lia.
  destruct (decide (end_ - start + 1 < 4294967296)); [rewrite Z.mod_small by lia; lia|].
  replace (end_ - start + 1) with 4294967296 by lia. change (4294967296 mod 4294967296) with 0. lia.
Qed.
Lemma rec_valid_overwritten k :
  0 <= base <= kU32Max -> 0 <= k < Z.of_nat n -> rec_avoids k -> (exists s, rec_sum rom k = Ok s) ->
  rec_valid overwritten k.
Proof.
  intros Hb Hk Hav [s Es]. exists s. split.
  - unfold rec_sum in *. rewrite rec_start_overwritten, rec_end_overwritten by done. rewrite <- Es.
    eapply SumBlock_same; [apply same_overwritten|done|apply ReadU32Be_range; [done|lia]..|].
    destruct Hav as [|[Hlt|Hgt]]; [by left|right..]; intros i Hi; unfold value_slot; lia.
  - rewrite rec_stored_overwritten by done. unfold rec_expected. by rewrite Es.
Qed.
End table.

Definition table_records (spec : DensoTableSpec) : nat := Z.to_nat (table_length spec / kRecordLength).
Lemma table_records_12 spec :
  0 <= table_length spec -> table_length spec mod kRecordLength = 0 ->
  12 * Z.of_nat (table_records spec) = table_length spec.
Proof. unfold table_records, kRecordLength. intros. Z.to_euclidean_division_equations. lia. Qed.

(** What each outcome of the table correction says of the ROM before and after. *)
Definition table_outcome (base : Z) (rom : list Z) (spec : DensoTableSpec) (rom' : list Z)
    (o : DensoTableOutcome) : Prop :=
  let pos := table_address spec - base in
  let n := table_records spec in
  match o with
  | Outcome.kCorrected =>
      same_except (value_slot pos n) rom rom' /\ bytes_ok rom'
      /\ ((forall k, 0 <= k < Z.of_nat n -> rec_avoids base rom pos n k) ->
          forall k, 0 <= k < Z.of_nat n -> rec_valid base spec pos rom' k)
  | Outcome.kUnchanged => rom' = rom /\ forall k, 0 <= k < Z.of_nat n -> rec_valid base spec pos rom k
  | Outcome.kDisabled => rom' = rom /\ first_disabled rom spec pos 0 = true
  | Outcome.kInvalidRecordLength => rom' = rom /\ table_length spec mod kRecordLength <> 0
  | Outcome.kInvalidTableRange =>
      rom' = rom /\ (table_address spec < base \/ zlen rom < pos + table_length spec)
  | Outcome.kInvalidBlockRange | Outcome.kMalformedBlockRange =>
      rom' = rom /\ exists k, 0 <= k < Z.of_nat n /\ rec_sum base spec pos rom k = Err o
  end.
Lemma SumBlock_Err rom base start end_ ovs o :
  SumBlock rom base start end_ ovs = Err o -> o = Outcome.kInvalidBlockRange \/ o = Outcome.kMalformedBlockRange.
Proof.
  unfold SumBlock. destruct (negb _); [intros [= <-]; auto|]. destruct (_ =? _); [done|].
  destruct (_ || _); [intros [= <-]; auto|done].
Qed.
Lemma CorrectDensoTable_outcome base rom spec :
  bytes_ok rom -> 0 <= base <= kU32Max -> 0 <= table_length spec ->
  table_outcome base rom spec (fst (CorrectDensoTable base rom spec)) (snd (CorrectDensoTable base rom spec)).
Proof.
  intros Hb Hbase Hlen. unfold CorrectDensoTable.
  destruct (Z.eqb_spec (table_length spec mod kRecordLength) 0) as [Hm|Hm]; [|done].
  unfold DistanceFrom. destruct (Z.ltb_spec (table_address spec) base) as [Hlt|Hge]; [cbn; auto|].
  set (pos := table_address spec - base). cbn [negb].
  destruct (Z.ltb_spec (zlen rom) pos) as [|Hp]; [cbn; split; [done|right; lia]|].
  destruct (Z.ltb_spec (zlen rom - pos) (table_length spec)) as [|Hf]; [cbn; split; [done|right; lia]|].
  cbn [orb]. pose proof (table_records_12 spec Hlen Hm) as H12.
  assert (pos + 12 * Z.of_nat (table_records spec) <= zlen rom) as Hfit by lia.
  assert (0 <= pos) as Hpos by lia.
  pose proof (correct_records_spec base rom spec pos (table_records spec) 0 [] false ltac:(lia)) as R.
  change (12 * 0) with 0 in R.
  change (Z.to_nat (table_length spec / kRecordLength)) with (table_records spec).
  destruct (correct_records _ _ _ _ _ _ _ _) as [[out ch]|o].
  - destruct R as (-> & Hs & Hc). cbn [app]. destruct ch; cbn [negb fst snd].
    + change (table_outcome base rom spec (overwritten base rom spec pos (table_records spec)) Outcome.kCorrected).
      split; [by apply same_overwritten|]. split; [by apply bytes_ok_overwritten|].
      intros Hav k Hk. apply rec_valid_overwritten; auto.
    + split; [done|]. intros k Hk. apply (proj2 (proj1 Hc eq_refl)). lia.
  - cbn [fst snd]. destruct R as [(-> & j & Hj & E)|(j & Hj & E)].
    + split; [done|]. assert (j = 0) as ->; [|done]. unfold first_disabled in E.
      destruct (Z.eqb_spec j 0); [done|]. by rewrite !andb_false_l in E.
    + destruct (SumBlock_Err _ _ _ _ _ _ E) as [-> | ->]; (split; [done|]; exists j; split; [lia|done]).
Qed.
(** A table whose records are all right is left alone. *)
Lemma CorrectDensoTable_stable base rom spec :
  bytes_ok rom -> 0 <= base <= kU32Max -> 0 <= table_length spec ->
  (forall k, 0 <= k < Z.of_nat (table_records spec) ->
     rec_valid base spec (table_address spec - base) rom k) ->
  fst (CorrectDensoTable base rom spec) = rom.
Proof.
  intros Hb Hbase Hlen Hv. unfold CorrectDensoTable. destruct (negb _); [done|].
  unfold DistanceFrom. destruct (_ <? base); [done|]. destruct (_ || _); [done|].
  pose proof (correct_records_spec base rom spec (table_address spec - base) (table_records spec) 0 [] false
    ltac:(lia)) as R. change (12 * 0) with 0 in R.
  change (Z.to_nat (table_length spec / kRecordLength)) with (table_records spec).
  destruct (correct_records _ _ _ _ _ _ _ _) as [[out ch]|o]; [|done].
  destruct R as (_ & _ & Hc). rewrite (proj2 Hc); [done|]. split; [done|]. intros; apply Hv; lia.
Qed.

(** each outcome of [CorrectDensoTable] means what it says: [kCorrected]
    changes only the value words of the records and, when no block meets the
    table, leaves every record with the value its block needs, so that a second
    run changes nothing; [kUnchanged] means every record was right; every other
    outcome leaves the ROM alone and names a real defect of the table. *)
Theorem denso_table_corrects base rom spec :
  bytes_ok rom -> 0 <= base <= kU32Max -> 0 <= table_length spec ->
  let '(rom', o) := CorrectDensoTable base rom spec in
  table_outcome base rom spec rom' o
  /\ (o = Outcome.kCorrected ->
      (forall k, 0 <= k < Z.of_nat (table_records spec) ->
         rec_avoids base rom (table_address spec - base) (table_records spec) k) ->
      fst (CorrectDensoTable base rom' spec) = rom').
Proof.
  intros Hb Hbase Hlen. pose proof (CorrectDensoTable_outcome base rom spec Hb Hbase Hlen) as H.
  destruct (CorrectDensoTable base rom spec) as [rom' o]. cbn [fst snd] in H. split; [done|].
  intros -> Hav. destruct H as (_ & Hb' & Hv). apply CorrectDensoTable_stable; auto.
Qed.
(** Two words and a one-record table at offset 8 whose value is wrong. *)
Definition denso_rom : list Z := [0;0;0;1; 0;0;0;2] ++ [0;0;0x10;0; 0;0;0x10;7; 0;0;0;0].
Definition denso_spec : DensoTableSpec := mkDensoTableSpec 0x1008 12 [] true.
Lemma denso_table_corrects_witness :
  CorrectDensoTable 0x1000 denso_rom denso_spec
  = ([0;0;0;1; 0;0;0;2] ++ [0;0;0x10;0; 0;0;0x10;7; 0x5A;0xA5;0xA5;0x57], Outcome.kCorrected)
  /\ rec_valid 0x1000 denso_spec 8 (fst (CorrectDensoTable 0x1000 denso_rom denso_spec)) 0.
Proof.
  assert (bytes_ok denso_rom) as Hb by (repeat constructor; unfold byte_ok; lia).
  pose proof (denso_table_corrects 0x1000 denso_rom denso_spec Hb ltac:(unfold kU32Max; lia)
    ltac:(cbn; lia)) as H.
  assert (CorrectDensoTable 0x1000 denso_rom denso_spec
    = ([0;0;0;1; 0;0;0;2] ++ [0;0;0x10;0; 0;0;0x10;7; 0x5A;0xA5;0xA5;0x57], Outcome.kCorrected)) as E
    by (vm_compute; reflexivity).
  rewrite E in H |- *. split; [reflexivity|]. destruct H as [(_ & _ & V) _].
  refine (V _ 0 _); [|vm_compute; split; congruence]. intros k Hk. right. left.
  change (Z.of_nat (table_records denso_spec)) with 1 in Hk. assert (k = 0) as -> by lia. reflexivity.
Defined.

(** neither Denso family hands back a half-corrected ROM: whenever the status
    is not [kCorrected] the returned bytes are the input bytes, also when the
    diesel family's second table fails after the first was corrected. *)
Theorem denso_families_atomic rom table_address table_length :
  bytes_ok (view_data rom) -> 0 <= Start (view_range rom) <= kU32Max -> 0 <= table_length ->
  (status (SH7xxx.CalculateChecksumResult rom table_address table_length) <> kCorrected ->
   rom_data (SH7xxx.CalculateChecksumResult rom table_address table_length) = view_data rom)
  /\ (status (SH705xDiesel.CalculateChecksumResult rom table_address table_length) <> kCorrected ->
      rom_data (SH705xDiesel.CalculateChecksumResult rom table_address table_length) = view_data rom).
Proof.
  intros Hb Hbase Hlen. split.
  - unfold SH7xxx.CalculateChecksumResult. set (spec := mkDensoTableSpec _ _ _ _).
    pose proof (CorrectDensoTable_outcome _ _ spec Hb Hbase Hlen) as H.
    destruct (CorrectDensoTable _ _ _) as [data o]. cbn [fst snd] in H.
    destruct o; cbn; try done; intros _; apply H.
  - unfold SH705xDiesel.CalculateChecksumResult. set (primary := mkDensoTableSpec table_address _ _ _).
    set (secondary := mkDensoTableSpec 0x1FF8E8 _ _ _).
    pose proof (CorrectDensoTable_outcome _ _ primary Hb Hbase Hlen) as H.
    destruct (CorrectDensoTable _ (view_data rom) primary) as [data o]. cbn [fst snd] in H.
    case_bool_decide as Ed; [subst o; intros _; apply H|].
    destruct (FailureOf o) as [[st msg]|] eqn:Ef.
    { intros _. cbn. destruct o; try done; apply H. }
    destruct (_ =? 0x1FF800).
    + assert (bytes_ok data) as Hd by (destruct o; try done; [by destruct H as [-> _]|apply H]).
      pose proof (CorrectDensoTable_outcome _ _ secondary Hd Hbase ltac:(cbn; lia)) as H2.
      destruct (CorrectDensoTable _ data secondary) as [data2 o2]. cbn [fst snd] in H2.
      destruct (FailureOf o2) as [[st msg]|] eqn:Ef2; [done|].
      destruct o, o2; cbn; try done; intros _; destruct H as [-> _]; apply H2.
    + destruct o; cbn; try done. intros _. apply H.
Qed.
Lemma denso_families_atomic_witness :
  let rom := mkMemoryView (mkAddressRange 0 20 20) denso_rom in
  status (SH705xDiesel.CalculateChecksumResult rom 8 12) = kInvalidSize
  /\ rom_data (SH705xDiesel.CalculateChecksumResult rom 8 12) = denso_rom.
Proof.
  intros rom. assert (status (SH705xDiesel.CalculateChecksumResult rom 8 12) = kInvalidSize) as E
    by (vm_compute; reflexivity).
  split; [exact E|]. refine (proj2 (denso_families_atomic rom 8 12 _ _ _) _).
  - repeat constructor; unfold byte_ok; lia.
  - unfold kU32Max. cbn. lia.
  - lia.
  - rewrite E. discriminate.
Defined.
