(* ===== verification/ChecksumBalanced.v ===== *)
(** * ChecksumBalanced: the families that keep one balanced sum

    [checksum_ecu_subaru_hitachi_sh72543r.cpp],
    [checksum_tcu_subaru_denso_sh7055.cpp], [checksum_tcu_mitsu_mh8104_can.cpp]
    and [checksum_ecu_mitsu_m32r_can.cpp] under [src/algorithms/checksum/]. *)
From S2P Require Import Prelude Bytes ChecksumPrimitives ChecksumFamily.

(** ** Hitachi SH72543R ECU: a 16-bit sum over [0x6000, 0x200000) *)
Module SH72543r.
Definition kRomSize : Z := 0x200000.
Definition CalculateChecksumResult (rom : list Z) : ChecksumResult :=
  let data := rom in
  let chksum := SumU16Be [subspan_from rom 0x6000] in
  if negb (chksum =? 0x5aa5) then
    let data := RebalanceU16Be data 0x1ffffe chksum 0x5aa5 in
    mkChecksumResult kCorrected data "Subaru Hitachi SH72543r ECU Checksum"
  else mkChecksumResult kUnchanged data "".

Definition fits (rom : list Z) : Prop := zlen rom = kRomSize.
(** The sum the ECU checks. *)
Definition observed (rom : list Z) : Z := SumU16Be [subspan_from rom 0x6000].

Lemma sh72543r_observed_spec rom : fits rom -> observed rom = u16 (half_sum (subspan rom 0x6000 0x1fa000)).
Proof.
  unfold fits, kRomSize. intros H. unfold observed. rewrite SumU16Be_spec, subspan_from_eq, H by lia.
  unfold zsum. cbn [map fold_right]. f_equal. rewrite Z.add_0_r. reflexivity.
Qed.
Definition balance (rom : list Z) : list Z := RebalanceU16Be rom 0x1ffffe (observed rom) 0x5aa5.
Lemma sh72543r_calc_balanced rom :
  CalculateChecksumResult rom
  = balanced_calc observed balance 0x5aa5 "Subaru Hitachi SH72543r ECU Checksum" rom.
Proof. unfold CalculateChecksumResult, balanced_calc, balance, observed. by destruct (_ =? _). Qed.
#[export] Instance family :
  ChecksumFamily CalculateChecksumResult fits (fun rom => observed rom = 0x5aa5)
    (fun i => 0x1ffffe <= i < 0x200000).
Proof.
  eapply family_ext; [apply sh72543r_calc_balanced|apply balanced_family].
  - intros. apply zlen_RebalanceU16Be.
  - unfold balance. auto with bytes.
  - intros rom Hf Hb. unfold balance.
    rewrite !sh72543r_observed_spec by (unfold fits in *; by rewrite ?zlen_RebalanceU16Be).
    unfold RebalanceU16Be. unfold fits, kRomSize in Hf.
    rewrite half_sum_window_u16 by (rewrite ?Hf; done || lia). apply rebalance_u16. unfold u16_ok. lia.
  - unfold fits, kRomSize. intros. apply zget_RebalanceU16Be_other; lia.
Qed.
End SH72543r.

(** ** Denso SH7055 TCU: a 16-bit sum over twelve areas *)
Module DensoTcuSH7055.
Definition kRomSize : Z := 0x80000.
(** [(area_start, word_count)] pairs. *)
Definition kChecksumAreas : list (Z * Z) :=
  [(0x1000, 0x0800); (0x3000, 0x003a); (0x3080, 0x4c00); (0xc880, 0x83f6); (0x1d06c, 0x83f6);
   (0x2d858, 0x83f8); (0x3e048, 0x0fdc); (0x40000, 0x741c); (0x4e838, 0x83f6); (0x5f024, 0x83f8);
   (0x6f814, 0x8174); (0x7fb80, 0x0240)].
Definition areas (rom : list Z) : list (list Z) :=
  map (fun '(start, word_count) => subspan rom start (2 * word_count)) kChecksumAreas.
Definition CalculateChecksumResult (rom : list Z) : ChecksumResult :=
  let data := rom in
  let checksum := SumU16Be (areas rom) in
  if negb (checksum =? 0x5aa5) then
    let data := RebalanceU16Be data 0x7fff4 checksum 0x5aa5 in
    mkChecksumResult kCorrected data "Subaru Denso SH7055 TCU Checksum"
  else mkChecksumResult kUnchanged data "".

Definition fits (rom : list Z) : Prop := zlen rom = kRomSize.
Definition observed (rom : list Z) : Z := SumU16Be (areas rom).
Definition balance (rom : list Z) : list Z := RebalanceU16Be rom 0x7fff4 (observed rom) 0x5aa5.
Lemma sh7055_calc_balanced rom :
  CalculateChecksumResult rom
  = balanced_calc observed balance 0x5aa5 "Subaru Denso SH7055 TCU Checksum" rom.
Proof. unfold CalculateChecksumResult, balanced_calc, balance, observed. by destruct (_ =? _). Qed.
(** Only the last area holds the balance half-word, which is aligned in it. *)
Lemma areas_write rom v :
  fits rom ->
  zsum (map half_sum (areas (WriteU16Be rom 0x7fff4 v)))
  = zsum (map half_sum (areas rom)) - ReadU16Be rom 0x7fff4 + u16 v.
Proof.
  unfold fits, kRomSize. intros Hf. unfold areas, kChecksumAreas. cbn [map].
  rewrite (half_sum_window_u16 rom 0x7fff4 v 0x7fb80) by (rewrite ?Hf; done || lia).
  rewrite !(window_WriteU16Be_out rom 0x7fff4) by (rewrite ?Hf; done || lia).
  unfold zsum. cbn [fold_right]. lia.
Qed.
#[export] Instance family :
  ChecksumFamily CalculateChecksumResult fits (fun rom => observed rom = 0x5aa5)
    (fun i => 0x7fff4 <= i < 0x7fff6).
Proof.
  eapply family_ext; [apply sh7055_calc_balanced|apply balanced_family].
  - intros. apply zlen_RebalanceU16Be.
  - unfold balance. auto with bytes.
  - intros rom Hf Hb. unfold balance, RebalanceU16Be, observed. rewrite !SumU16Be_spec.
    rewrite areas_write by done. apply rebalance_u16. unfold u16_ok. lia.
  - unfold fits, kRomSize. intros. apply zget_RebalanceU16Be_other; lia.
Qed.
End DensoTcuSH7055.

(** ** Mitsubishi MH8104 TCU: a 32-bit sum over [0x8000, 0x80000) *)
Module MitsuMH8104.
Definition kRomSize : Z := 0x80000.
Definition kChecksumBalanceAddress : Z := 0x81fc.
Definition kChecksumTarget : Z := 0x5aa45aab.
Definition CalculateChecksumResult (rom : list Z) : ChecksumResult :=
  let data := rom in
  let checksum := u32 (u32 (fold_sum (FoldU32Be [subspan_from rom 0x8000]) - 0xffff) + 5) in
  let '(checksum_ok, data) :=
    if negb (checksum =? kChecksumTarget)
    then (false, RebalanceU32Be data kChecksumBalanceAddress checksum kChecksumTarget)
    else (true, data) in
  if negb checksum_ok
  then mkChecksumResult kCorrected data "Subaru Hitachi M32R K-Line/CAN ECU Checksum"
  else mkChecksumResult kUnchanged data "".

Definition fits (rom : list Z) : Prop := zlen rom = kRomSize.
Definition observed (rom : list Z) : Z :=
  u32 (u32 (fold_sum (FoldU32Be [subspan_from rom 0x8000]) - 0xffff) + 5).
Definition balance (rom : list Z) : list Z :=
  RebalanceU32Be rom kChecksumBalanceAddress (observed rom) kChecksumTarget.
Lemma mh8104_calc_balanced rom :
  CalculateChecksumResult rom
  = balanced_calc observed balance kChecksumTarget "Subaru Hitachi M32R K-Line/CAN ECU Checksum" rom.
Proof. unfold CalculateChecksumResult, balanced_calc, balance, observed. by destruct (_ =? _). Qed.
Lemma mh8104_observed_spec rom :
  fits rom -> observed rom = u32 (word_sum (subspan rom 0x8000 0x78000) + (5 - 0xffff)).
Proof.
  unfold fits, kRomSize. intros H. unfold observed. rewrite FoldU32Be_spec, subspan_from_eq, H by lia.
  unfold zsum. cbn [fold_sum map fold_right]. change (0x80000 - 0x8000) with 0x78000.
  autorewrite with word. f_equal. lia.
Qed.
#[export] Instance family :
  ChecksumFamily CalculateChecksumResult fits (fun rom => observed rom = kChecksumTarget)
    (fun i => 0x81fc <= i < 0x8200).
Proof.
  eapply family_ext; [apply mh8104_calc_balanced|apply balanced_family].
  - intros. apply zlen_RebalanceU32Be.
  - unfold balance. auto with bytes.
  - intros rom Hf Hb. unfold balance.
    rewrite !mh8104_observed_spec by (unfold fits in *; by rewrite ?zlen_RebalanceU32Be).
    unfold RebalanceU32Be. unfold fits, kRomSize, kChecksumBalanceAddress in *.
    rewrite word_sum_window_u32 by (rewrite ?Hf; done || lia).
    apply rebalance_u32. unfold u32_ok, kChecksumTarget. lia.
  - unfold fits, kRomSize. intros. apply zget_RebalanceU32Be_other; unfold kChecksumBalanceAddress; lia.
Qed.
End MitsuMH8104.

(** ** Mitsubishi Colt M32R ECU: a 32-bit sum over the area a ROM byte names,
    less the six correction words *)
Module MitsuM32rCan.
Definition kTargetChecksum : Z := 0x5AA55AA5.
Definition kCorrectionWords : Z := 0x3FFCE.
Definition kCorrectionWordCount : Z := 5.
Definition kBalanceSlot : Z := 0x3FFC0.
Definition kAreaCodeOffset : Z := 0x3FFCB.
Definition kAreaCodes : list (Z * Z) :=
  [(0x40, 0x040000); (0x50, 0x080000); (0x60, 0x100000); (0x80, 0x140000);
   (0xC0, 0x050000); (0xC2, 0x060000); (0xC3, 0x0C0000)].
Definition AreaEndFor (code : Z) : option Z :=
  option_map snd (List.find (fun '(c, _) => c =? code) kAreaCodes).
Definition kLayoutEnd : Z := kCorrectionWords + 2 + kCorrectionWordCount * 4.
Definition UnchangedWith (st : ChecksumStatus) (rom_view : list Z) (msg : string) : ChecksumResult :=
  mkChecksumResult st rom_view msg.

(** The running [checksum] variable, up to the comparison. *)
Definition area_checksum (rom_view : list Z) (area_end : Z) : Z :=
  let checksum := fold_sum (FoldU32Be [subspan rom_view 0 area_end]) in
  let checksum := u32 (checksum - ReadU16Be rom_view kCorrectionWords) in
  let checksum := for_steps (Z.to_nat kCorrectionWordCount) 0 1
    (fun index checksum => u32 (checksum - ReadU32Be rom_view (kCorrectionWords + 2 + index * 4))) checksum in
  let checksum := u32 (checksum + 0xFFFF) in
  u32 (checksum - 5).

Definition CalculateChecksumResult (rom_view : list Z) : ChecksumResult :=
  if zlen rom_view <? kLayoutEnd then
    UnchangedWith kInvalidSize rom_view "ROM is too small to carry the Mitsubishi M32R checksum layout"
  else
    match AreaEndFor (zget rom_view kAreaCodeOffset) with
    | None => UnchangedWith kDisabled rom_view "Unrecognised checksum area code; checksums disabled"
    | Some area_end =>
        if zlen rom_view <? area_end then
          UnchangedWith kDisabled rom_view
            "Checksum area extends past the end of the ROM; checksums disabled"
        else
          let checksum := area_checksum rom_view area_end in
          if checksum =? kTargetChecksum then mkChecksumResult kUnchanged rom_view ""
          else mkChecksumResult kCorrected
                 (RebalanceU32Be rom_view kBalanceSlot checksum kTargetChecksum)
                 "Mitsubishi M32R CAN ECU Checksum"
    end.

(** A ROM whose area code names an area it holds. *)
Definition area_of (rom : list Z) : option Z :=
  match AreaEndFor (zget rom kAreaCodeOffset) with
  | Some e => if (kLayoutEnd <=? zlen rom) && (e <=? zlen rom) then Some e else None
  | None => None
  end.
Definition fits (rom : list Z) : Prop := is_Some (area_of rom).
Definition observed (rom : list Z) : Z :=
  match area_of rom with Some e => area_checksum rom e | None => kTargetChecksum end.
Definition balance (rom : list Z) : list Z :=
  if area_of rom is Some _ then RebalanceU32Be rom kBalanceSlot (observed rom) kTargetChecksum else rom.

Lemma AreaEndFor_bounds code e :
  AreaEndFor code = Some e -> 0x40000 <= e /\ e mod 4 = 0.
Proof.
  unfold AreaEndFor. intros H. destruct (find _ _) as [[c e']|] eqn:F; [|done].
  apply find_some in F as [Hin _]. cbn in H. injection H as ->.
  cbn in Hin. repeat (destruct Hin as [Hin|Hin]; [injection Hin as <- <-; done|]). done.
Qed.
Lemma area_of_bounds rom e : area_of rom = Some e -> 0x40000 <= e <= zlen rom /\ e mod 4 = 0.
Proof.
  unfold area_of. destruct (AreaEndFor _) as [e'|] eqn:E; [|done].
  destruct (_ && _) eqn:B; [|done]. intros [= ->].
  apply andb_true_iff in B as [_ B]. apply Z.leb_le in B. apply AreaEndFor_bounds in E. lia.
Qed.
Lemma area_of_write rom v :
  0x40000 <= zlen rom -> area_of (WriteU32Be rom kBalanceSlot v) = area_of rom.
Proof.
  intros. unfold area_of. rewrite zlen_WriteU32Be, zget_WriteU32Be_other; [done|..];
    unfold kBalanceSlot, kAreaCodeOffset; lia.
Qed.
(** The words subtracted from the sum lie outside the balance slot. *)
Definition correction (rom : list Z) : Z :=
  ReadU16Be rom 0x3FFCE + ReadU32Be rom 0x3FFD0 + ReadU32Be rom 0x3FFD4 + ReadU32Be rom 0x3FFD8
  + ReadU32Be rom 0x3FFDC + ReadU32Be rom 0x3FFE0.
Lemma area_checksum_spec rom e :
  area_checksum rom e = u32 (word_sum (subspan rom 0 e) + (0xFFFA - correction rom)).
Proof.
  unfold area_checksum, correction. rewrite FoldU32Be_spec. unfold zsum.
  change (Z.to_nat kCorrectionWordCount) with 5%nat.
  cbn [fold_sum map fold_right for_steps]. unfold kCorrectionWords.
  change (262094 + 2 + 0 * 4) with 0x3FFD0. change (262094 + 2 + (0 + 1) * 4) with 0x3FFD4.
  change (262094 + 2 + (0 + 1 + 1) * 4) with 0x3FFD8.
  change (262094 + 2 + (0 + 1 + 1 + 1) * 4) with 0x3FFDC.
  change (262094 + 2 + (0 + 1 + 1 + 1 + 1) * 4) with 0x3FFE0.
  generalize (word_sum (subspan rom 0 e)), (ReadU16Be rom 0x3FFCE), (ReadU32Be rom 0x3FFD0),
    (ReadU32Be rom 0x3FFD4), (ReadU32Be rom 0x3FFD8), (ReadU32Be rom 0x3FFDC), (ReadU32Be rom 0x3FFE0).
  intros. zmod.
Qed.
Lemma correction_write rom v :
  0x40000 <= zlen rom -> correction (WriteU32Be rom kBalanceSlot v) = correction rom.
Proof.
  intros. unfold correction. rewrite !ReadU32Be_WriteU32Be_other by (unfold kBalanceSlot; lia).
  do 5 f_equal. apply ReadU16Be_ext; rewrite ?zlen_WriteU32Be; try lia.
  intros i Hi. apply zget_WriteU32Be_other; unfold kBalanceSlot; lia.
Qed.
Lemma balance_sum rom : fits rom -> observed (balance rom) = kTargetChecksum.
Proof.
  intros [e He]. unfold balance, observed at 1, RebalanceU32Be. rewrite He.
  pose proof (area_of_bounds _ _ He). rewrite area_of_write, He by lia.
  unfold observed. rewrite He, !area_checksum_spec, correction_write by lia.
  rewrite word_sum_window_u32 by (unfold kBalanceSlot; done || lia).
  apply rebalance_u32. unfold u32_ok, kTargetChecksum. lia.
Qed.
Lemma colt_calc_balanced rom :
  fits rom -> CalculateChecksumResult rom
  = balanced_calc observed balance kTargetChecksum "Mitsubishi M32R CAN ECU Checksum" rom.
Proof.
  intros [e He]. unfold balanced_calc, observed, balance, observed. rewrite He.
  unfold CalculateChecksumResult, area_of in *. destruct (AreaEndFor _) as [e'|]; [|done].
  destruct (_ && _) eqn:B; [|done]. injection He as ->.
  apply andb_true_iff in B as [B1 B2]. rewrite !Z.ltb_antisym, B1, B2. cbn. by destruct (_ =? _).
Qed.
#[export] Instance family :
  ChecksumFamily CalculateChecksumResult fits (fun rom => observed rom = kTargetChecksum)
    (fun i => kBalanceSlot <= i < kBalanceSlot + 4).
Proof.
  assert (ChecksumFamily (balanced_calc observed balance kTargetChecksum "Mitsubishi M32R CAN ECU Checksum")
    fits (fun rom => observed rom = kTargetChecksum) (fun i => kBalanceSlot <= i < kBalanceSlot + 4))
    as [B1 B2 B3 B4 B5].
  { apply balanced_family.
    - intros rom [e He]. unfold balance. rewrite He. apply zlen_RebalanceU32Be.
    - intros rom [e He]. unfold balance. rewrite He. auto with bytes.
    - intros. by apply balance_sum.
    - intros rom i [e He] Hi. unfold balance. rewrite He. pose proof (area_of_bounds _ _ He).
      apply zget_RebalanceU32Be_other; unfold kBalanceSlot in *; lia. }
  split; intros; rewrite colt_calc_balanced by done; auto.
Qed.
(** Every other ROM is returned as it was, with a status that is not an edit. *)
Lemma no_area_unchanged rom :
  ~ fits rom -> rom_data (CalculateChecksumResult rom) = rom
    /\ (status (CalculateChecksumResult rom) = kInvalidSize
        \/ status (CalculateChecksumResult rom) = kDisabled).
Proof.
  intros Hn. unfold CalculateChecksumResult. destruct (zlen rom <? kLayoutEnd) eqn:B1; [cbn; auto|].
  destruct (AreaEndFor _) as [e|] eqn:E; [|cbn; auto].
  destruct (zlen rom <? e) eqn:B2; [cbn; auto|]. exfalso. apply Hn. exists e.
  unfold area_of. rewrite E. apply Z.ltb_ge in B1, B2.
  by rewrite (proj2 (Z.leb_le _ _) B1), (proj2 (Z.leb_le _ _) B2).
Qed.
End MitsuM32rCan.

(** on every Colt M32R ROM whose area code names an area the ROM holds, the
    corrected image sums to the target the ECU checks, differs from the input
    only in the balance word at 0x3FFC0, and is the input itself when the sum
    was already right; on every other ROM nothing is written and the status is
    [kInvalidSize] or [kDisabled]. *)
Theorem mitsu_m32r_can_corrects rom :
  bytes_ok rom ->
  let r := MitsuM32rCan.CalculateChecksumResult rom in
  (MitsuM32rCan.fits rom ->
     MitsuM32rCan.observed (rom_data r) = MitsuM32rCan.kTargetChecksum
     /\ (forall i, ~ MitsuM32rCan.kBalanceSlot <= i < MitsuM32rCan.kBalanceSlot + 4 ->
           zget (rom_data r) i = zget rom i)
     /\ (status r = kUnchanged <-> MitsuM32rCan.observed rom = MitsuM32rCan.kTargetChecksum)
     /\ (status r = kUnchanged -> rom_data r = rom))
  /\ (~ MitsuM32rCan.fits rom ->
       rom_data r = rom /\ (status r = kInvalidSize \/ status r = kDisabled)).
Proof.
  intros Hb r. split; [|apply MitsuM32rCan.no_area_unchanged]. intros Hf.
  assert (status r = kUnchanged <-> MitsuM32rCan.observed rom = MitsuM32rCan.kTargetChecksum) as Hs.
  { unfold r. rewrite MitsuM32rCan.colt_calc_balanced by done. apply balanced_status. }
  split; [|split; [|split]].
  - exact (@family_valid _ _ _ _ MitsuM32rCan.family rom Hf Hb).
  - intros i Hi. exact (@family_frame _ _ _ _ MitsuM32rCan.family rom i Hf Hb Hi).
  - exact Hs.
  - intros E. exact (@family_stable _ _ _ _ MitsuM32rCan.family rom Hf Hb (proj1 Hs E)).
Qed.
(** A 0x40000-byte ROM with area code 0x40, all other bytes zero. *)
Definition colt_sample_rom : list Z := zset (zrepeat 0x40000 0) 0x3FFCB 0x40.
Lemma colt_sample_bytes : bytes_ok colt_sample_rom.
Proof. apply bytes_ok_zset; [apply bytes_ok_zrepeat|]; unfold byte_ok; lia. Qed.
Lemma colt_sample_fits : MitsuM32rCan.fits colt_sample_rom.
Proof.
  exists 0x40000. unfold MitsuM32rCan.area_of, colt_sample_rom.
  rewrite zget_zset, zlen_zset, zlen_zrepeat. unfold MitsuM32rCan.kAreaCodeOffset.
  rewrite decide_True by lia. reflexivity.
Qed.
Lemma mitsu_m32r_can_corrects_witness :
  MitsuM32rCan.observed (rom_data (MitsuM32rCan.CalculateChecksumResult colt_sample_rom)) = 0x5AA55AA5.
Proof.
  exact (proj1 (proj1 (mitsu_m32r_can_corrects colt_sample_rom colt_sample_bytes) colt_sample_fits)).
Defined.

(** the SH72543R ECU, SH7055 TCU and MH8104 TCU corrections each return an
    image of the same size whose sum is the ECU's target and which differs from
    the input only in the family's balance field, and leave a ROM with a right
    sum as it was. *)
Theorem balanced_families_correct :
  ChecksumFamily SH72543r.CalculateChecksumResult SH72543r.fits
    (fun rom => SH72543r.observed rom = 0x5aa5) (fun i => 0x1ffffe <= i < 0x200000)
  /\ ChecksumFamily DensoTcuSH7055.CalculateChecksumResult DensoTcuSH7055.fits
    (fun rom => DensoTcuSH7055.observed rom = 0x5aa5) (fun i => 0x7fff4 <= i < 0x7fff6)
  /\ ChecksumFamily MitsuMH8104.CalculateChecksumResult MitsuMH8104.fits
    (fun rom => MitsuMH8104.observed rom = MitsuMH8104.kChecksumTarget)
    (fun i => 0x81fc <= i < 0x8200).
Proof.
  exact (conj SH72543r.family (conj DensoTcuSH7055.family MitsuMH8104.family)).
Qed.
