(* ===== verification/ChecksumHitachi.v ===== *)
(** * ChecksumHitachi: the Hitachi families that store several checksums

    [checksum_ecu_subaru_hitachi_m32r_can.cpp],
    [checksum_ecu_subaru_hitachi_m32r_kline.cpp],
    [checksum_ecu_subaru_hitachi_sh7058.cpp] and
    [checksum_tcu_subaru_hitachi_m32r_can.cpp] under [src/algorithms/checksum/].

    Each function threads the pair [(checksum_ok, rom_data)] through its steps;
    a fold over [image] reads the corrections written before it, because
    [image] is a span of [rom_data]. *)
From S2P Require Import Prelude Bytes ChecksumPrimitives ChecksumFamily.

(** ** The steps the families share *)

(** Compute a sum and an XOR over [pieces] and store the ones that differ. *)
Definition fix_sum_xor (st : bool * list Z) (pieces : list Z -> list (list Z)) (sum_at xor_at : Z)
    : bool * list Z :=
  let '(checksum_ok, rom_data) := st in
  let fold := FoldU32Be (pieces rom_data) in
  let sum_stored := ReadU32Be rom_data sum_at in
  let xor_stored := ReadU32Be rom_data xor_at in
  let '(checksum_ok, rom_data) :=
    if negb (fold_sum fold =? sum_stored)
    then (false, WriteU32Be rom_data sum_at (fold_sum fold)) else (checksum_ok, rom_data) in
  if negb (fold_xor fold =? xor_stored)
  then (false, WriteU32Be rom_data xor_at (fold_xor fold)) else (checksum_ok, rom_data).
(** Balance the low 16 bits of a 32-bit sum over [pieces] to [0x5aa5]. *)
Definition fix_balance16 (st : bool * list Z) (pieces : list Z -> list (list Z)) (balance_at : Z)
    : bool * list Z :=
  let '(checksum_ok, rom_data) := st in
  let calculated := u16 (fold_sum (FoldU32Be (pieces rom_data))) in
  if negb (calculated =? 0x5aa5)
  then (false, RebalanceU16Be rom_data balance_at calculated 0x5aa5) else (checksum_ok, rom_data).
(** The 8-bit sum and XOR of every byte outside [first .. last]. *)
Definition sum_xor8_except (rom_data : list Z) (first last : Z) : Z * Z :=
  for_steps (Z.to_nat (zlen rom_data)) 0 1
    (fun i '(hi, lo) =>
       if (i <? first) || (last <? i)
       then (u8 (hi + zget rom_data i), Z.lxor lo (zget rom_data i)) else (hi, lo))
    (0, 0).
Definition finish (st : bool * list Z) (title : string) : ChecksumResult :=
  let '(checksum_ok, rom_data) := st in
  if negb checksum_ok then mkChecksumResult kCorrected rom_data title
  else mkChecksumResult kUnchanged rom_data "".

(** What the ECU checks of a stored sum and XOR, and of a balanced sum. *)
Definition sum_xor_stored (rom : list Z) (pieces : list Z -> list (list Z)) (sum_at xor_at : Z) : Prop :=
  ReadU32Be rom sum_at = fold_sum (FoldU32Be (pieces rom))
  /\ ReadU32Be rom xor_at = fold_xor (FoldU32Be (pieces rom)).
Definition balanced16 (rom : list Z) (pieces : list Z -> list (list Z)) : Prop :=
  u16 (fold_sum (FoldU32Be (pieces rom))) = 0x5aa5.

Lemma word_xor_range l : bytes_ok l -> u32_ok (word_xor l).
Proof.
  intros Hl. unfold word_xor. induction (Z.to_nat _) as [|n IH]; [unfold u32_ok; cbn; lia|].
  cbn [ixor]. apply (lxor_range _ _ 32); [lia|done|]. apply ReadU32Be_range; [done|lia].
Qed.
Lemma fold_xor_range pieces : Forall bytes_ok pieces -> u32_ok (fold_xor (FoldU32Be pieces)).
Proof.
  intros H. rewrite FoldU32Be_spec. cbn [fold_xor].
  enough (forall acc, u32_ok acc -> u32_ok (fold_left Z.lxor (map word_xor pieces) acc)) as E
    by (apply E; unfold u32_ok; lia).
  induction H as [|p ps Hp _ IH]; intros acc Ha; [done|]. cbn. apply IH.
  apply (lxor_range _ _ 32); [lia|done|by apply word_xor_range].
Qed.
Lemma fold_sum_range pieces : u32_ok (fold_sum (FoldU32Be pieces)).
Proof. rewrite FoldU32Be_spec. apply u32_range. Qed.

(** Storing or balancing, without the test: writing what is already there is
    no change. *)
Lemma fix_sum_xor_data ok rom pieces a b :
  bytes_ok rom -> 0 <= a -> 0 <= b -> a + 4 <= zlen rom -> b + 4 <= zlen rom ->
  a + 4 <= b \/ b + 4 <= a ->
  snd (fix_sum_xor (ok, rom) pieces a b)
  = WriteU32Be (WriteU32Be rom a (fold_sum (FoldU32Be (pieces rom)))) b
      (fold_xor (FoldU32Be (pieces rom))).
Proof.
  intros. unfold fix_sum_xor.
  assert (forall l at_ v, bytes_ok l -> 0 <= at_ -> at_ + 4 <= zlen l -> v = ReadU32Be l at_ ->
    WriteU32Be l at_ v = l) as Hid by (intros; subst; by apply WriteU32Be_id).
  destruct (fold_sum _ =? _) eqn:E1; destruct (fold_xor _ =? _) eqn:E2; cbn [negb snd];
    try apply Z.eqb_eq in E1; try apply Z.eqb_eq in E2.
  - rewrite (Hid rom a) by done. by rewrite Hid.
  - by rewrite (Hid rom a).
  - symmetry. apply Hid; [auto with bytes|done|zl|]. by rewrite ReadU32Be_WriteU32Be_other by lia.
  - done.
Qed.
Lemma fix_sum_xor_stable ok rom pieces a b :
  sum_xor_stored rom pieces a b -> fix_sum_xor (ok, rom) pieces a b = (ok, rom).
Proof. intros [E1 E2]. unfold fix_sum_xor. by rewrite E1, E2, !Z.eqb_refl. Qed.
Lemma fix_balance16_stable ok rom pieces a :
  balanced16 rom pieces -> fix_balance16 (ok, rom) pieces a = (ok, rom).
Proof. intros E. unfold fix_balance16. by rewrite E. Qed.

(** ** M32R CAN ECU *)
Module M32rCan.
Definition kRomSize : Z := 0x80000.
Definition kChecksum1Address : Z := 0x7ffe8.
Definition kChecksum2Address : Z := 0x7ffec.
Definition kChecksum3Address : Z := 0x7fff0.
Definition kChecksum4Address : Z := 0x7fff4.
Definition kChecksum5BalanceAddress : Z := 0x7fffa.
Definition kChecksum6Address : Z := 0x10000.
Definition pieces12 (image : list Z) : list (list Z) := [subspan image 0x6000 0x2000].
Definition pieces34 (image : list Z) : list (list Z) :=
  [subspan image 0 0x10000; subspan image 0x10004 0x6ffec].
Definition pieces5 (image : list Z) : list (list Z) :=
  [subspan image 0x4000 0xc000; subspan_from image 0x10004].

Definition checksum6_ok (st : bool * list Z) : bool :=
  let '(checksum_ok, rom_data) := st in
  let '(hi, lo) := sum_xor8_except rom_data 0x10000 0x10003 in
  let calculated := u16 (Z.shiftl hi 8 + lo) in
  let stored := ReadU16Be rom_data kChecksum6Address in
  if negb (calculated =? stored) then false else checksum_ok.

Definition CalculateChecksumResult (rom : list Z) : ChecksumResult :=
  let st := (true, rom) in
  let st := fix_sum_xor st pieces12 kChecksum1Address kChecksum2Address in
  let st := fix_sum_xor st pieces34 kChecksum3Address kChecksum4Address in
  let st := fix_balance16 st pieces5 kChecksum5BalanceAddress in
  (* A checksum-6 mismatch is reported as corrected although nothing is written. *)
  let st := (checksum6_ok st, snd st) in
  finish st "Subaru Hitachi M32R CAN ECU Checksum".

Definition fits (rom : list Z) : Prop := zlen rom = kRomSize.
(** Checksums 1 to 5; the sixth is never written. *)
Definition valid (rom : list Z) : Prop :=
  sum_xor_stored rom pieces12 kChecksum1Address kChecksum2Address
  /\ sum_xor_stored rom pieces34 kChecksum3Address kChecksum4Address
  /\ balanced16 rom pieces5.
Definition slot (i : Z) : Prop := 0x7ffe8 <= i < 0x7fff8 \/ 0x7fffa <= i < 0x7fffc.
End M32rCan.

(** ** SH7058 ECU *)
Module SH7058.
Definition kRomSize : Z := 0x100000.
Definition kChecksum1Address : Z := 0xfffe8.
Definition kChecksum2Address : Z := 0xfffec.
Definition kChecksum3Address : Z := 0xffff0.
Definition kChecksum4Address : Z := 0xffff4.
Definition kChecksum5BalanceAddress : Z := 0xffff8.
Definition pieces12 (image : list Z) : list (list Z) := [subspan image 0x18400 0x5c00].
Definition pieces5 (image : list Z) : list (list Z) :=
  [subspan image 0x4000 0xfbff0; subspan_from image 0xffff8].
Definition pieces34 (image : list Z) : list (list Z) :=
  [subspan image 0 0xffff0; subspan_from image 0xffff8].

(** Unlike the other steps, this one leaves [checksum_ok] alone. *)
Definition fix_balance32 (st : bool * list Z) : bool * list Z :=
  let '(checksum_ok, rom_data) := st in
  let calculated := fold_sum (FoldU32Be (pieces5 rom_data)) in
  if negb (calculated =? 0x5aa5a55a)
  then (checksum_ok, RebalanceU32Be rom_data kChecksum5BalanceAddress calculated 0x5aa5a55a)
  else (checksum_ok, rom_data).

Definition CalculateChecksumResult (rom : list Z) : ChecksumResult :=
  let st := (true, rom) in
  let st := fix_sum_xor st pieces12 kChecksum1Address kChecksum2Address in
  let st := fix_balance32 st in
  let st := fix_sum_xor st pieces34 kChecksum3Address kChecksum4Address in
  finish st "Subaru Hitachi SH7058 CAN ECU Checksum".

Definition fits (rom : list Z) : Prop := zlen rom = kRomSize.
Definition valid (rom : list Z) : Prop :=
  sum_xor_stored rom pieces12 kChecksum1Address kChecksum2Address
  /\ fold_sum (FoldU32Be (pieces5 rom)) = 0x5aa5a55a
  /\ sum_xor_stored rom pieces34 kChecksum3Address kChecksum4Address.
Definition slot (i : Z) : Prop := 0xfffe8 <= i < 0xffffc.
End SH7058.

(** ** M32R K-Line ECU *)
Module M32rKline.
Definition kRomSize : Z := 0x80000.
Definition kChecksum1Address : Z := 0x8100.
Definition kChecksum2Address : Z := 0x8101.
Definition kChecksum3BalanceAddress : Z := 0x7fffa.
Definition pieces3 (image : list Z) : list (list Z) :=
  [subspan image 0x4000 0x4100; subspan_from image 0x8104].

Definition fix_bytes (st : bool * list Z) : bool * list Z :=
  let '(checksum_ok, rom_data) := st in
  let '(calculated1, calculated2) := sum_xor8_except rom_data 0x8100 0x8101 in
  let stored1 := zget rom_data kChecksum1Address in
  let stored2 := zget rom_data kChecksum2Address in
  let '(checksum_ok, rom_data) :=
    if negb (calculated1 =? stored1)
    then (false, zset rom_data kChecksum1Address calculated1) else (checksum_ok, rom_data) in
  if negb (calculated2 =? stored2)
  then (false, zset rom_data kChecksum2Address calculated2) else (checksum_ok, rom_data).

Definition CalculateChecksumResult (rom : list Z) : ChecksumResult :=
  let st := (true, rom) in
  let st := fix_bytes st in
  let st := fix_balance16 st pieces3 kChecksum3BalanceAddress in
  finish st "Subaru Hitachi M32R K-Line ECU Checksum".

Definition fits (rom : list Z) : Prop := zlen rom = kRomSize.
Definition bytes_stored (rom : list Z) : Prop :=
  sum_xor8_except rom 0x8100 0x8101 = (zget rom kChecksum1Address, zget rom kChecksum2Address).
Definition valid (rom : list Z) : Prop := bytes_stored rom /\ balanced16 rom pieces3.
End M32rKline.

(** ** M32R TCU *)
Module TcuM32r.
Definition kChecksum1BalanceAddress : Z := 0x8020.
Definition kChecksum2Address : Z := 0x8000.
(** The sum of every word outside the two fields, stored as its complement. *)
Definition Checksum2Field (rom : list Z) : Z :=
  let sum := fold_sum (FoldU32Be [subspan rom 0 0x8000; subspan_from rom 0x8008]) in
  let b3 := u8 (0xff - Z.land (Z.shiftr sum 24) 0xff) in
  let b2 := u8 (0xff - Z.land (Z.shiftr sum 16) 0xff) in
  let b1 := u8 (0xff - Z.land (Z.shiftr sum 8) 0xff) in
  let b0 := u8 (0x100 - Z.land sum 0xff) in
  ReadU32Le [b0; b1; b2; b3] 0.

Definition CalculateChecksumResult (rom_view : list Z) : ChecksumResult :=
  if (zlen rom_view <? 0x8024) || negb (zlen rom_view mod 4 =? 0) then
    mkChecksumResult kInvalidSize rom_view "ROM size does not match the checksum layout"
  else
    let rom_data := rom_view in
    let calculated1 := fold_sum (FoldU32Be [subspan_from rom_data 0x8020]) in
    let calculated2 := Checksum2Field rom_data in
    let stored2 := ReadU32Be rom_data kChecksum2Address in
    let '(checksum_ok, rom_data) :=
      if negb (calculated1 =? 0x5aa5a55a)
      then (false, RebalanceU32Be rom_data kChecksum1BalanceAddress calculated1 0x5aa5a55a)
      else (true, rom_data) in
    let '(checksum_ok, rom_data) :=
      if negb (calculated2 =? stored2)
      then
        let field := Checksum2Field rom_data in
        let rom_data := WriteU32Be rom_data kChecksum2Address field in
        (false, WriteU32Be rom_data (kChecksum2Address + 4) field)
      else (checksum_ok, rom_data) in
    finish (checksum_ok, rom_data) "Subaru Hitachi M32R K-Line/CAN ECU Checksum".

Definition fits (rom : list Z) : Prop := 0x8024 <= zlen rom /\ zlen rom mod 4 = 0.
(** Both TCU checksums: the balanced sum from 0x8020 on and the stored field. *)
Definition valid (rom : list Z) : Prop :=
  fold_sum (FoldU32Be [subspan_from rom 0x8020]) = 0x5aa5a55a
  /\ ReadU32Be rom kChecksum2Address = Checksum2Field rom.
End TcuM32r.

(** ** What one step establishes *)
Lemma fix_sum_xor_spec ok rom pieces a b :
  bytes_ok rom -> 0 <= a -> 0 <= b -> a + 4 <= zlen rom -> b + 4 <= zlen rom ->
  a + 4 <= b \/ b + 4 <= a ->
  (forall rom', same_except (fun i => a <= i < a + 4 \/ b <= i < b + 4) rom rom' ->
     pieces rom' = pieces rom) ->
  Forall bytes_ok (pieces rom) ->
  let rom' := snd (fix_sum_xor (ok, rom) pieces a b) in
  same_except (fun i => a <= i < a + 4 \/ b <= i < b + 4) rom rom'
  /\ bytes_ok rom' /\ sum_xor_stored rom' pieces a b.
Proof.
  intros Hb Ha0 Hb0 Ha Hbl Hd Hp Hpb rom'. unfold rom'. rewrite fix_sum_xor_data by done.
  set (s := fold_sum _). set (x := fold_xor _).
  assert (same_except (fun i => a <= i < a + 4 \/ b <= i < b + 4) rom
            (WriteU32Be (WriteU32Be rom a s) b x)) as S.
  { eapply same_except_trans; [by apply (same_except_WriteU32Be rom a s)| |].
    - apply same_except_WriteU32Be; [done|]. by rewrite zlen_WriteU32Be.
    - tauto. }
  split; [done|]. split; [auto with bytes|]. unfold sum_xor_stored. rewrite (Hp _ S).
  split.
  - rewrite ReadU32Be_WriteU32Be_other by (rewrite ?zlen_WriteU32Be; lia).
    rewrite ReadU32Be_WriteU32Be_same by lia. apply u32_small, fold_sum_range.
  - rewrite ReadU32Be_WriteU32Be_same by (rewrite ?zlen_WriteU32Be; lia).
    by apply u32_small, fold_xor_range.
Qed.
Lemma fix_balance16_spec ok rom pieces a :
  bytes_ok rom -> 0 <= a -> a + 2 <= zlen rom ->
  (forall v, zsum (map word_sum (pieces (WriteU16Be rom a v)))
             = zsum (map word_sum (pieces rom)) - ReadU16Be rom a + u16 v) ->
  let rom' := snd (fix_balance16 (ok, rom) pieces a) in
  same_except (fun i => a <= i < a + 2) rom rom' /\ bytes_ok rom' /\ balanced16 rom' pieces.
Proof.
  intros Hb Ha Hl Hp rom'. unfold rom', fix_balance16, balanced16.
  destruct (_ =? _) eqn:E; cbn [negb snd].
  - apply Z.eqb_eq in E. split; [apply same_except_refl|done].
  - split; [|split; [auto with bytes|]].
    + by apply same_except_WriteU16Be.
    + rewrite !FoldU32Be_spec. cbn [fold_sum]. unfold RebalanceU16Be.
      rewrite Hp. rewrite !u16_u32. apply rebalance_u16. unfold u16_ok. lia.
Qed.
Lemma sum_xor_stored_same P rom rom' pieces a b :
  same_except P rom rom' -> 0 <= a -> 0 <= b ->
  (forall i, a <= i < a + 4 -> ~ P i) -> (forall i, b <= i < b + 4 -> ~ P i) ->
  pieces rom' = pieces rom -> sum_xor_stored rom pieces a b -> sum_xor_stored rom' pieces a b.
Proof.
  intros S ? ? HA HB Hp [E1 E2]. unfold sum_xor_stored.
  rewrite (same_except_ReadU32Be _ _ _ a S), (same_except_ReadU32Be _ _ _ b S), Hp by done. done.
Qed.

(** Window obligations: the positions written lie outside the window read. *)
Ltac windows := intros; unfold M32rCan.pieces12, M32rCan.pieces34, M32rCan.pieces5,
    SH7058.pieces12, SH7058.pieces34, SH7058.pieces5, M32rKline.pieces3;
  repeat first [ erewrite same_except_subspan; [reflexivity|eassumption|lia|cbv beta; lia]
               | f_equal ].
Ltac piece_bytes := repeat constructor; unfold subspan_from; auto with bytes.

Ltac rom_size H := unfold M32rCan.fits, M32rCan.kRomSize, SH7058.fits, SH7058.kRomSize,
  M32rKline.fits, M32rKline.kRomSize in H.
Ltac addresses := unfold M32rCan.kChecksum1Address, M32rCan.kChecksum2Address, M32rCan.kChecksum3Address,
  M32rCan.kChecksum4Address, M32rCan.kChecksum5BalanceAddress, SH7058.kChecksum1Address,
  SH7058.kChecksum2Address, SH7058.kChecksum3Address, SH7058.kChecksum4Address,
  SH7058.kChecksum5BalanceAddress, M32rKline.kChecksum1Address, M32rKline.kChecksum2Address,
  M32rKline.kChecksum3BalanceAddress in *.

(** *** M32R CAN *)
Module M32rCanFacts.
Import M32rCan.
Lemma m32r_step12 ok rom :
  fits rom -> bytes_ok rom ->
  let d := snd (fix_sum_xor (ok, rom) pieces12 kChecksum1Address kChecksum2Address) in
  same_except (fun i => 0x7ffe8 <= i < 0x7ffec \/ 0x7ffec <= i < 0x7fff0) rom d /\ bytes_ok d
  /\ sum_xor_stored d pieces12 kChecksum1Address kChecksum2Address.
Proof.
  intros H Hb. rom_size H. apply fix_sum_xor_spec; addresses; try done; try lia;
    [intros rom' S; windows|piece_bytes].
Qed.
Lemma m32r_step34 ok rom :
  fits rom -> bytes_ok rom ->
  let d := snd (fix_sum_xor (ok, rom) pieces34 kChecksum3Address kChecksum4Address) in
  same_except (fun i => 0x7fff0 <= i < 0x7fff4 \/ 0x7fff4 <= i < 0x7fff8) rom d /\ bytes_ok d
  /\ sum_xor_stored d pieces34 kChecksum3Address kChecksum4Address.
Proof.
  intros H Hb. rom_size H. apply fix_sum_xor_spec; addresses; try done; try lia;
    [intros rom' S; windows|piece_bytes].
Qed.
Lemma m32r_step5 ok rom :
  fits rom -> bytes_ok rom ->
  let d := snd (fix_balance16 (ok, rom) pieces5 kChecksum5BalanceAddress) in
  same_except (fun i => 0x7fffa <= i < 0x7fffc) rom d /\ bytes_ok d /\ balanced16 d pieces5.
Proof.
  intros H Hb. rom_size H. apply fix_balance16_spec; addresses; try done; try lia.
  intros v. unfold pieces5. rewrite !subspan_from_eq, zlen_WriteU16Be, H by lia.
  cbn [map]. rewrite window_WriteU16Be_out by (rewrite ?H; lia).
  rewrite (word_sum_window_u16_low rom) by (rewrite ?H; done || lia).
  unfold zsum. cbn [fold_right]. lia.
Qed.
#[local] Abbreviation corrected rom := (rom_data (CalculateChecksumResult rom)).
Lemma m32r_corrected_spec rom :
  fits rom -> bytes_ok rom ->
  same_except slot rom (corrected rom) /\ bytes_ok (corrected rom) /\ valid (corrected rom).
Proof.
  intros H Hb. unfold CalculateChecksumResult.
  destruct (m32r_step12 true rom H Hb) as (S1 & B1 & V1).
  destruct (fix_sum_xor (true, rom) _ _ _) as [ok1 d1]. cbn [snd] in *.
  assert (fits d1) as H1 by (unfold fits in *; by rewrite (proj1 S1)).
  destruct (m32r_step34 ok1 d1 H1 B1) as (S2 & B2 & V2).
  destruct (fix_sum_xor (ok1, d1) _ _ _) as [ok2 d2]. cbn [snd] in *.
  assert (fits d2) as H2 by (unfold fits in *; by rewrite (proj1 S2)).
  destruct (m32r_step5 ok2 d2 H2 B2) as (S3 & B3 & V3).
  destruct (fix_balance16 (ok2, d2) _ _) as [ok3 d3]. cbn [snd] in *.
  replace (rom_data _) with d3 by (unfold finish; by destruct (negb _)).
  split; [|split; [done|split; [|split; [|done]]]].
  - eapply same_except_trans; [exact S1| |]; [eapply same_except_trans; [exact S2|exact S3|intros i Hi; exact Hi]|].
    unfold slot. cbv beta. lia.
  - eapply sum_xor_stored_same; [exact S3|addresses; lia..|windows|].
    eapply sum_xor_stored_same; [exact S2|addresses; lia..|windows|done].
  - eapply sum_xor_stored_same; [exact S3|addresses; lia..|windows|done].
Qed.
#[export] Instance family : ChecksumFamily CalculateChecksumResult fits valid slot.
Proof.
  split; intros rom.
  - intros H Hb. by apply m32r_corrected_spec.
  - intros H Hb. by apply m32r_corrected_spec.
  - intros H Hb. by apply m32r_corrected_spec.
  - intros H Hb (V1 & V2 & V3). unfold CalculateChecksumResult.
    rewrite fix_sum_xor_stable, fix_sum_xor_stable, fix_balance16_stable by done.
    unfold finish. by destruct (negb _).
  - intros i H Hb Hi. by apply m32r_corrected_spec.
Qed.
End M32rCanFacts.

(** *** SH7058 *)
Module SH7058Facts.
Import SH7058.
Lemma sh7058_step12 ok rom :
  fits rom -> bytes_ok rom ->
  let d := snd (fix_sum_xor (ok, rom) pieces12 kChecksum1Address kChecksum2Address) in
  same_except (fun i => 0xfffe8 <= i < 0xfffec \/ 0xfffec <= i < 0xffff0) rom d /\ bytes_ok d
  /\ sum_xor_stored d pieces12 kChecksum1Address kChecksum2Address.
Proof.
  intros H Hb. rom_size H. apply fix_sum_xor_spec; addresses; try done; try lia;
    [intros rom' S; windows|piece_bytes].
Qed.
Lemma pieces34_same rom rom' :
  same_except (fun i => 0xffff0 <= i < 0xffff4 \/ 0xffff4 <= i < 0xffff8) rom rom' ->
  pieces34 rom' = pieces34 rom.
Proof.
  intros S. unfold pieces34. f_equal; [windows|]. f_equal.
  eapply same_except_subspan_from; [exact S|lia|cbv beta; lia].
Qed.
Lemma pieces5_same rom rom' :
  same_except (fun i => 0xffff0 <= i < 0xffff4 \/ 0xffff4 <= i < 0xffff8) rom rom' ->
  pieces5 rom' = pieces5 rom.
Proof.
  intros S. unfold pieces5. f_equal; [windows|]. f_equal.
  eapply same_except_subspan_from; [exact S|lia|cbv beta; lia].
Qed.
Lemma sh7058_step34 ok rom :
  fits rom -> bytes_ok rom ->
  let d := snd (fix_sum_xor (ok, rom) pieces34 kChecksum3Address kChecksum4Address) in
  same_except (fun i => 0xffff0 <= i < 0xffff4 \/ 0xffff4 <= i < 0xffff8) rom d /\ bytes_ok d
  /\ sum_xor_stored d pieces34 kChecksum3Address kChecksum4Address.
Proof.
  intros H Hb. rom_size H. apply fix_sum_xor_spec; addresses; try done; try lia;
    [intros rom' S; by apply pieces34_same|piece_bytes].
Qed.
Lemma sh7058_step5 ok rom :
  fits rom -> bytes_ok rom ->
  let d := snd (fix_balance32 (ok, rom)) in
  same_except (fun i => 0xffff8 <= i < 0xffffc) rom d /\ bytes_ok d
  /\ fold_sum (FoldU32Be (pieces5 d)) = 0x5aa5a55a.
Proof.
  intros H Hb. unfold fix_balance32. rom_size H. destruct (_ =? _) eqn:E; cbn [negb snd].
  - apply Z.eqb_eq in E. split; [apply same_except_refl|done].
  - split; [apply same_except_WriteU32Be; addresses; lia|]. split; [auto with bytes|].
    rewrite !FoldU32Be_spec. cbn [fold_sum]. unfold RebalanceU32Be, pieces5. addresses.
    rewrite !subspan_from_eq, zlen_WriteU32Be, H by lia. cbn [map].
    rewrite window_WriteU32Be_out by (rewrite ?H; lia).
    rewrite (word_sum_window_u32 rom) by (rewrite ?H; done || lia).
    unfold zsum. cbn [fold_right].
    generalize (word_sum (subspan rom 0x4000 0xfbff0)), (ReadU32Be rom 0xffff8),
      (word_sum (subspan rom 0xffff8 (0x100000 - 0xffff8))). intros. zmod.
Qed.
#[local] Abbreviation corrected rom := (rom_data (CalculateChecksumResult rom)).
Lemma sh7058_corrected_spec rom :
  fits rom -> bytes_ok rom ->
  same_except slot rom (corrected rom) /\ bytes_ok (corrected rom) /\ valid (corrected rom).
Proof.
  intros H Hb. unfold CalculateChecksumResult.
  destruct (sh7058_step12 true rom H Hb) as (S1 & B1 & V1).
  destruct (fix_sum_xor (true, rom) _ _ _) as [ok1 d1]. cbn [snd] in *.
  assert (fits d1) as H1 by (unfold fits in *; by rewrite (proj1 S1)).
  destruct (sh7058_step5 ok1 d1 H1 B1) as (S2 & B2 & V2).
  destruct (fix_balance32 (ok1, d1)) as [ok2 d2]. cbn [snd] in *.
  assert (fits d2) as H2 by (unfold fits in *; by rewrite (proj1 S2)).
  destruct (sh7058_step34 ok2 d2 H2 B2) as (S3 & B3 & V3).
  destruct (fix_sum_xor (ok2, d2) _ _ _) as [ok3 d3]. cbn [snd] in *.
  replace (rom_data _) with d3 by (unfold finish; by destruct (negb _)).
  split; [|split; [done|split; [|split; [|done]]]].
  - eapply same_except_trans; [exact S1| |]; [eapply same_except_trans; [exact S2|exact S3|intros i Hi; exact Hi]|].
    unfold slot. cbv beta. lia.
  - eapply sum_xor_stored_same; [exact S3|addresses; lia..|windows|].
    eapply sum_xor_stored_same; [exact S2|addresses; lia..|windows|done].
  - by rewrite (pieces5_same _ _ S3).
Qed.
#[export] Instance family : ChecksumFamily CalculateChecksumResult fits valid slot.
Proof.
  split; intros rom.
  - intros H Hb. by apply sh7058_corrected_spec.
  - intros H Hb. by apply sh7058_corrected_spec.
  - intros H Hb. by apply sh7058_corrected_spec.
  - intros H Hb (V1 & V2 & V3). unfold CalculateChecksumResult.
    rewrite fix_sum_xor_stable by done.
    assert (fix_balance32 (true, rom) = (true, rom)) as -> by (unfold fix_balance32; by rewrite V2).
    by rewrite fix_sum_xor_stable.
  - intros i H Hb Hi. by apply sh7058_corrected_spec.
Qed.
End SH7058Facts.

(** *** M32R K-Line *)
Module M32rKlineFacts.
Import M32rKline.
#[local] Abbreviation corrected rom := (rom_data (CalculateChecksumResult rom)).

(** The byte a position contributes, 0 inside the excluded range. *)
Definition counted (rom : list Z) (first last i : Z) : Z :=
  if (i <? first) || (last <? i) then zget rom i else 0.
Lemma sum_xor8_except_spec rom first last :
  sum_xor8_except rom first last
  = (u8 (isum (counted rom first last) (Z.to_nat (zlen rom))),
     ixor (counted rom first last) (Z.to_nat (zlen rom))).
Proof.
  unfold sum_xor8_except. induction (Z.to_nat (zlen rom)) as [|n IH]; [done|].
  rewrite for_steps_snoc, IH. cbn [isum ixor]. replace (0 + Z.of_nat n * 1) with (Z.of_nat n) by lia.
  assert (counted rom first last (Z.of_nat n)
    = if (Z.of_nat n <? first) || (last <? Z.of_nat n) then zget rom (Z.of_nat n) else 0) as -> by done.
  destruct (_ || _).
  - by rewrite u8_add_l.
  - by rewrite Z.add_0_r, Z.lxor_0_r.
Qed.
Lemma sum_xor8_except_same rom rom' first last :
  same_except (fun i => first <= i <= last) rom rom' ->
  sum_xor8_except rom' first last = sum_xor8_except rom first last.
Proof.
  intros [E F]. rewrite !sum_xor8_except_spec, E.
  assert (forall k, counted rom' first last k = counted rom first last k) as Hc.
  { intros k. unfold counted. destruct (_ || _) eqn:B; [|done]. apply F.
    apply orb_true_iff in B as [B|B]; apply Z.ltb_lt in B; lia. }
  f_equal; [f_equal; apply isum_ext|apply ixor_ext]; auto.
Qed.
Lemma sum_xor8_except_range rom first last :
  bytes_ok rom ->
  byte_ok (fst (sum_xor8_except rom first last)) /\ byte_ok (snd (sum_xor8_except rom first last)).
Proof.
  intros Hb. rewrite sum_xor8_except_spec. cbn [fst snd]. split; [apply u8_range|].
  induction (Z.to_nat _) as [|n IH]; [unfold byte_ok; cbn; lia|]. cbn [ixor].
  apply (lxor_range _ _ 8); [lia|done|]. unfold counted. destruct (_ || _); [|lia].
  apply (bytes_ok_zget rom _ Hb).
Qed.
Lemma fix_bytes_spec ok rom :
  fits rom -> bytes_ok rom ->
  let d := snd (fix_bytes (ok, rom)) in
  same_except (fun i => 0x8100 <= i <= 0x8101) rom d /\ bytes_ok d /\ bytes_stored d.
Proof.
  intros H Hb. rom_size H. unfold fix_bytes.
  destruct (sum_xor8_except_range rom 0x8100 0x8101 Hb) as [R1 R2].
  destruct (sum_xor8_except rom 0x8100 0x8101) as [c1 c2] eqn:Ec. cbn [fst snd] in R1, R2.
  assert (forall d, d = zset (zset rom kChecksum1Address c1) kChecksum2Address c2 ->
    same_except (fun i => 0x8100 <= i <= 0x8101) rom d /\ bytes_ok d /\ bytes_stored d) as Hw.
  { intros d ->.
    assert (same_except (fun i => 0x8100 <= i <= 0x8101) rom
      (zset (zset rom kChecksum1Address c1) kChecksum2Address c2)) as S.
    { eapply same_except_trans; [apply same_except_zset|apply same_except_zset|].
      addresses. cbv beta. lia. }
    split; [done|]. split; [auto with bytes|]. unfold bytes_stored.
    rewrite (sum_xor8_except_same _ _ _ _ S), Ec, !zget_zset, !zlen_zset, H. addresses.
    by rewrite (decide_False (P := 0x8101 = 0x8100 /\ _)), !decide_True by lia. }
  assert (forall l i v, zget l i = v -> zset l i v = l) as Hid.
  { intros l i v E. apply zget_ext; [apply zlen_zset|]. intros j _. rewrite zget_zset.
    case_decide as Hd; [|done]. destruct Hd as [<- _]. done. }
  destruct (c1 =? _) eqn:E1; destruct (c2 =? _) eqn:E2; cbn [negb snd]; apply Hw;
    try apply Z.eqb_eq in E1; try apply Z.eqb_eq in E2.
  - rewrite (Hid rom kChecksum1Address c1) by done. by rewrite Hid.
  - by rewrite (Hid rom kChecksum1Address c1).
  - symmetry. apply Hid. rewrite zget_zset. addresses. by rewrite decide_False by lia.
  - done.
Qed.
Lemma pieces3_same rom rom' :
  same_except (fun i => 0x8100 <= i <= 0x8101) rom rom' -> pieces3 rom' = pieces3 rom.
Proof.
  intros S. unfold pieces3. f_equal; [windows|]. f_equal.
  eapply same_except_subspan_from; [exact S|lia|cbv beta; lia].
Qed.
Lemma step3 ok rom :
  fits rom -> bytes_ok rom ->
  let d := snd (fix_balance16 (ok, rom) pieces3 kChecksum3BalanceAddress) in
  same_except (fun i => 0x7fffa <= i < 0x7fffc) rom d /\ bytes_ok d /\ balanced16 d pieces3.
Proof.
  intros H Hb. rom_size H. apply fix_balance16_spec; addresses; try done; try lia.
  intros v. unfold pieces3. rewrite !subspan_from_eq, zlen_WriteU16Be, H by lia.
  cbn [map]. rewrite window_WriteU16Be_out by (rewrite ?H; lia).
  rewrite (word_sum_window_u16_low rom) by (rewrite ?H; done || lia).
  unfold zsum. cbn [fold_right]. lia.
Qed.
(** One pass leaves the balanced sum right; the two stored bytes are right too
    when no rebalancing was needed. *)
Lemma kline_one_pass rom :
  fits rom -> bytes_ok rom ->
  same_except (fun i => 0x8100 <= i <= 0x8101 \/ 0x7fffa <= i < 0x7fffc) rom (corrected rom)
  /\ bytes_ok (corrected rom) /\ balanced16 (corrected rom) pieces3
  /\ (balanced16 rom pieces3 -> valid (corrected rom)).
Proof.
  intros H Hb. unfold CalculateChecksumResult.
  destruct (fix_bytes_spec true rom H Hb) as (S1 & B1 & V1).
  destruct (fix_bytes (true, rom)) as [ok1 d1]. cbn [snd] in *.
  assert (fits d1) as H1 by (unfold fits in *; by rewrite (proj1 S1)).
  destruct (step3 ok1 d1 H1 B1) as (S2 & B2 & V2).
  assert (balanced16 rom pieces3 -> balanced16 d1 pieces3) as Hbal
    by (unfold balanced16; by rewrite (pieces3_same _ _ S1)).
  assert (balanced16 d1 pieces3 ->
    snd (fix_balance16 (ok1, d1) pieces3 kChecksum3BalanceAddress) = d1) as Hst
    by (intros; by rewrite fix_balance16_stable).
  destruct (fix_balance16 (ok1, d1) _ _) as [ok2 d2]. cbn [snd] in *.
  replace (rom_data _) with d2 by (unfold finish; by destruct (negb _)).
  split; [eapply same_except_trans; [exact S1|exact S2|cbv beta; tauto]|].
  split; [done|]. split; [done|]. intros Hv. rewrite Hst by auto. split; auto.
Qed.

(** What a change of the two bytes at [a] does to the stored byte sum and XOR. *)
Lemma counted_pair rom rom' a :
  fits rom -> same_except (fun i => a <= i < a + 2) rom rom' -> 0x8101 < a -> a + 2 <= kRomSize ->
  isum (counted rom' 0x8100 0x8101) (Z.to_nat (zlen rom'))
  = isum (counted rom 0x8100 0x8101) (Z.to_nat (zlen rom))
    - (zget rom a + zget rom (a + 1)) + (zget rom' a + zget rom' (a + 1)).
Proof.
  intros H [E F] Ha Hl. rewrite E. unfold fits in H. rewrite H. unfold kRomSize in *.
  set (f := counted rom 0x8100 0x8101). set (g := counted rom' 0x8100 0x8101).
  set (m := fun k => if decide (k = a) then g a else f k).
  assert (forall r k, 0x8101 < k -> counted r 0x8100 0x8101 k = zget r k) as Hc.
  { intros r k Hk. unfold counted. by rewrite (proj2 (Z.ltb_lt 0x8101 k)), orb_true_r by lia. }
  assert (forall k, ~ a <= k < a + 2 -> f k = g k) as Hfg.
  { intros k Hk. unfold f, g, counted. by rewrite F. }
  rewrite (isum_update m g _ (a + 1)), (isum_update f m _ a).
  - unfold m at 1 2. rewrite decide_True, decide_False by lia. unfold f, g.
    rewrite !Hc by lia. lia.
  - lia.
  - intros k _ Hk. unfold m. by rewrite decide_False.
  - lia.
  - intros k _ Hk. unfold m. case_decide; [by subst|]. apply Hfg. lia.
Qed.
(** After one pass the stored byte sum is off by what rebalancing did to the
    byte total of the balance half-word. *)
Lemma one_pass_sum rom :
  fits rom -> bytes_ok rom ->
  let half r := zget r 0x7fffa + zget r 0x7fffb in
  fst (sum_xor8_except (corrected rom) 0x8100 0x8101)
  = u8 (zget (corrected rom) kChecksum1Address - half rom + half (corrected rom)).
Proof.
  intros H Hb half. unfold CalculateChecksumResult.
  destruct (fix_bytes_spec true rom H Hb) as (S1 & B1 & V1).
  destruct (fix_bytes (true, rom)) as [ok1 d1]. cbn [snd] in *.
  assert (fits d1) as H1 by (unfold fits in *; by rewrite (proj1 S1)).
  destruct (step3 ok1 d1 H1 B1) as (S2 & _ & _).
  destruct (fix_balance16 (ok1, d1) _ _) as [ok2 d2]. cbn [snd] in *.
  replace (rom_data _) with d2 by (unfold finish; by destruct (negb _)).
  unfold bytes_stored in V1. rewrite sum_xor8_except_spec in V1. injection V1 as V1 _.
  rewrite sum_xor8_except_spec. cbn [fst].
  rewrite (counted_pair d1 d2 0x7fffa) by (done || unfold kRomSize; lia).
  rewrite (proj2 S2 kChecksum1Address), <- V1 by (unfold kChecksum1Address; lia). unfold half.
  rewrite (proj2 S1 0x7fffa), (proj2 S1 (0x7fffa + 1)) by lia. change (0x7fffa + 1) with 0x7fffb.
  generalize (isum (counted d1 0x8100 0x8101) (Z.to_nat (zlen d1))), (zget rom 0x7fffa),
    (zget rom 0x7fffb), (zget d2 0x7fffa), (zget d2 0x7fffb). intros. zmod.
Qed.
End M32rKlineFacts.

(** *** M32R TCU *)
Module TcuM32rFacts.
Import TcuM32r.
#[local] Abbreviation corrected rom := (rom_data (CalculateChecksumResult rom)).

(** The stored field of a sum, and that no two sums share one. *)
Definition field_of (s : Z) : Z :=
  (255 - s / 16777216 mod 256) * 16777216 + (255 - s / 65536 mod 256) * 65536
  + (255 - s / 256 mod 256) * 256 + (256 - s mod 256) mod 256.
Definition sum2 (rom : list Z) : Z := word_sum (subspan rom 0 0x8000) + word_sum (subspan_from rom 0x8008).
Lemma Checksum2Field_spec rom : Checksum2Field rom = field_of (u32 (sum2 rom)).
Proof.
  unfold Checksum2Field. rewrite FoldU32Be_spec. cbn [fold_sum map]. unfold zsum. cbn [fold_right].
  rewrite Z.add_0_r.
  assert (word_sum (subspan rom 0 0x8000) + word_sum (subspan_from rom 0x8008) = sum2 rom) as ->
    by (unfold sum2; reflexivity).
  generalize (u32 (sum2 rom)) as s. intros s.
  rewrite ReadU32Le_4 by apply u8_range. rewrite !land_255, !shiftr_div by lia.
  change (2 ^ 24) with 16777216. change (2 ^ 16) with 65536. change (2 ^ 8) with 256.
  unfold field_of, u8. zmod.
Qed.
Lemma field_of_inj s s' : u32_ok s -> u32_ok s' -> field_of s = field_of s' -> s = s'.
Proof. unfold field_of. intros. zmod. Qed.
Lemma field_of_range s : u32_ok s -> u32_ok (field_of s).
Proof. unfold field_of. intros. zmod. Qed.

Lemma sum2_same rom rom' :
  same_except (fun i => 0x8000 <= i < 0x8008) rom rom' -> sum2 rom' = sum2 rom.
Proof.
  intros S. unfold sum2.
  rewrite (same_except_subspan_from _ _ _ 0x8008 S) by (cbv beta; lia).
  by rewrite (same_except_subspan _ _ _ 0 0x8000 S) by (cbv beta; lia).
Qed.

Section tcu.
Variable rom : list Z.
Hypothesis Hfits : fits rom.
Hypothesis Hbytes : bytes_ok rom.
Let sum1 (r : list Z) : Z := fold_sum (FoldU32Be [subspan_from r 0x8020]).
Let rebalanced : list Z := RebalanceU32Be rom kChecksum1BalanceAddress (sum1 rom) 0x5aa5a55a.

Lemma sum1_rebalanced : sum1 rebalanced = 0x5aa5a55a.
Proof.
  destruct Hfits as [Hl Hm]. unfold rebalanced, sum1, RebalanceU32Be, kChecksum1BalanceAddress.
  rewrite !FoldU32Be_spec. cbn [fold_sum map]. rewrite !subspan_from_eq, zlen_WriteU32Be by lia.
  rewrite word_sum_window_u32 by (done || lia). unfold zsum. cbn [fold_right].
  pose proof (rebalance_u32 (word_sum (subspan rom 0x8020 (zlen rom - 0x8020)))
    (ReadU32Be rom 0x8020) 0x5aa5a55a 0) as E. apply E. unfold u32_ok. lia.
Qed.
Lemma sum2_rebalanced :
  u32 (sum2 rebalanced) = u32 (sum2 rom + 0x5aa5a55a - sum1 rom).
Proof.
  destruct Hfits as [Hl Hm]. unfold rebalanced, sum2, RebalanceU32Be, kChecksum1BalanceAddress.
  rewrite !subspan_from_eq, zlen_WriteU32Be by lia.
  rewrite window_WriteU32Be_out by lia. rewrite (word_sum_window_u32 rom) by (done || lia).
  generalize (sum1 rom), (word_sum (subspan rom 0 0x8000)), (ReadU32Be rom 0x8020),
    (word_sum (subspan rom 0x8008 (zlen rom - 0x8008))). intros. zmod.
Qed.
Lemma fits_rebalanced : fits rebalanced.
Proof. unfold fits, rebalanced in *. by rewrite zlen_RebalanceU32Be. Qed.
Lemma stored_rebalanced : ReadU32Be rebalanced kChecksum2Address = ReadU32Be rom kChecksum2Address.
Proof.
  destruct Hfits as [Hl Hm]. apply ReadU32Be_WriteU32Be_other; unfold kChecksum1BalanceAddress,
    kChecksum2Address; lia.
Qed.
(** Writing the field twice at 0x8000 leaves both sums alone. *)
Lemma valid_after_store r :
  fits r -> bytes_ok r -> sum1 r = 0x5aa5a55a ->
  valid (WriteU32Be (WriteU32Be r kChecksum2Address (Checksum2Field r)) (kChecksum2Address + 4)
           (Checksum2Field r)).
Proof.
  intros [Hl Hm] Hb H1. unfold kChecksum2Address. set (f := Checksum2Field r).
  assert (same_except (fun i => 0x8000 <= i < 0x8008) r
    (WriteU32Be (WriteU32Be r 0x8000 f) (0x8000 + 4) f)) as S.
  { eapply same_except_trans; [apply (same_except_WriteU32Be r 0x8000 f); lia| |].
    - apply same_except_WriteU32Be; rewrite ?zlen_WriteU32Be; lia.
    - cbv beta. lia. }
  split.
  - erewrite same_except_subspan_from; [exact H1|exact S|lia|cbv beta; lia].
  - unfold kChecksum2Address.
    rewrite ReadU32Be_WriteU32Be_other by (rewrite ?zlen_WriteU32Be; lia).
    rewrite ReadU32Be_WriteU32Be_same by lia.
    rewrite Checksum2Field_spec, (sum2_same _ _ S). unfold f. rewrite Checksum2Field_spec.
    apply u32_small, field_of_range, u32_range.
Qed.
Lemma calc_fits :
  CalculateChecksumResult rom =
    let d1 := if sum1 rom =? 0x5aa5a55a then rom else rebalanced in
    let stale := negb (Checksum2Field rom =? ReadU32Be rom kChecksum2Address) in
    let d2 := if stale then WriteU32Be (WriteU32Be d1 kChecksum2Address (Checksum2Field d1))
                              (kChecksum2Address + 4) (Checksum2Field d1) else d1 in
    finish ((sum1 rom =? 0x5aa5a55a) && negb stale, d2) "Subaru Hitachi M32R K-Line/CAN ECU Checksum".
Proof.
  destruct Hfits as [Hl Hm]. unfold CalculateChecksumResult.
  rewrite (proj2 (Z.ltb_ge _ _)), Hm by lia. cbn [orb negb Z.eqb].
  unfold sum1, rebalanced, sum1.
  destruct (_ =? 0x5aa5a55a), (Checksum2Field rom =? _); reflexivity.
Qed.
End tcu.

Lemma tcu_one_pass rom :
  fits rom -> bytes_ok rom ->
  fits (corrected rom) /\ bytes_ok (corrected rom)
  /\ fold_sum (FoldU32Be [subspan_from (corrected rom) 0x8020]) = 0x5aa5a55a
  /\ (valid (corrected rom) <->
      fold_sum (FoldU32Be [subspan_from rom 0x8020]) = 0x5aa5a55a
      \/ ReadU32Be rom kChecksum2Address <> Checksum2Field rom).
Proof.
  intros H Hb. rewrite (calc_fits rom H). cbv zeta.
  set (s1 := fold_sum (FoldU32Be [subspan_from rom 0x8020])).
  set (d1 := if s1 =? 0x5aa5a55a then rom else _).
  assert (fits d1 /\ bytes_ok d1 /\ fold_sum (FoldU32Be [subspan_from d1 0x8020]) = 0x5aa5a55a)
    as (F1 & B1 & E1).
  { unfold d1. destruct (s1 =? 0x5aa5a55a) eqn:E; [apply Z.eqb_eq in E; done|].
    split; [by apply fits_rebalanced|]. split; [auto with bytes|]. by apply sum1_rebalanced. }
  replace (rom_data (finish _ _)) with
    (if negb (Checksum2Field rom =? ReadU32Be rom kChecksum2Address)
     then WriteU32Be (WriteU32Be d1 kChecksum2Address (Checksum2Field d1)) (kChecksum2Address + 4)
            (Checksum2Field d1) else d1)
    by (unfold finish; by destruct (_ && _)).
  destruct (Checksum2Field rom =? _) eqn:E; cbn [negb].
  - apply Z.eqb_eq in E. split; [done|]. split; [done|]. split; [done|].
    unfold d1, s1. split; [|intros [E'|E']; [|congruence]].
    + destruct (_ =? 0x5aa5a55a) eqn:Ee; [apply Z.eqb_eq in Ee; by left|]. intros [_ V]. exfalso.
      apply Z.eqb_neq in Ee. apply Ee. rewrite stored_rebalanced, <- E in V by done.
      rewrite !Checksum2Field_spec in V.
      apply field_of_inj in V; [|apply u32_range..].
      rewrite sum2_rebalanced in V by done. pose proof (fold_sum_range [subspan_from rom 0x8020]) as R.
      unfold s1. revert V R.
      generalize (sum2 rom), (fold_sum (FoldU32Be [subspan_from rom 0x8020])). clear. intros. zmod.
    + rewrite E', Z.eqb_refl. split; [done|]. by rewrite E.
  - apply Z.eqb_neq in E. pose proof (valid_after_store d1 F1 B1 E1) as V.
    split; [unfold fits in *; by rewrite !zlen_WriteU32Be|]. split; [auto with bytes|].
    split; [apply V|]. split; [intros _; right; congruence|done].
Qed.
Lemma zlen_corrected rom : zlen (corrected rom) = zlen rom.
Proof.
  unfold CalculateChecksumResult. destruct (_ || _); [done|].
  destruct (negb _), (negb _); unfold finish; cbn [negb rom_data];
    by rewrite ?zlen_WriteU32Be, ?zlen_RebalanceU32Be.
Qed.
End TcuM32rFacts.

(** ** Claims *)
Lemma zero_rom_bytes n : bytes_ok (zrepeat n 0).
Proof. apply bytes_ok_zrepeat. unfold byte_ok. lia. Qed.

(** on every 512 KiB image the M32R CAN correction returns an image in which
    checksums 1 to 4 equal the values stored for them and checksum 5 is
    balanced, all at once (no later correction spoils an earlier one), that
    differs from the input only in the five fields; a valid image comes back
    unchanged. *)
Theorem m32r_can_corrects rom :
  M32rCan.fits rom -> bytes_ok rom ->
  let data := rom_data (M32rCan.CalculateChecksumResult rom) in
  M32rCan.valid data /\ same_except M32rCan.slot rom data
  /\ (M32rCan.valid rom -> data = rom)
  /\ rom_data (M32rCan.CalculateChecksumResult data) = data.
Proof.
  intros H Hb data. destruct (M32rCanFacts.m32r_corrected_spec rom H Hb) as (S & B & V).
  split; [done|]. split; [done|]. split.
  - intros Hv. exact (@family_stable _ _ _ _ M32rCanFacts.family rom H Hb Hv).
  - apply (@family_idempotent _ _ _ _ M32rCanFacts.family); [done| |done].
    unfold M32rCan.fits in *. by rewrite (proj1 S).
Qed.
Lemma m32r_can_corrects_witness :
  M32rCan.valid (rom_data (M32rCan.CalculateChecksumResult (zrepeat 0x80000 0))).
Proof.
  refine (proj1 (m32r_can_corrects (zrepeat 0x80000 0) _ (zero_rom_bytes _))).
  unfold M32rCan.fits. by rewrite zlen_zrepeat.
Defined.

(** on every 1 MiB image the SH7058 correction returns an image with all
    five checksums right at once, differing only in [0xfffe8, 0xffffc), and a
    second run changes nothing. *)
Theorem sh7058_corrects rom :
  SH7058.fits rom -> bytes_ok rom ->
  let data := rom_data (SH7058.CalculateChecksumResult rom) in
  SH7058.valid data /\ same_except SH7058.slot rom data
  /\ (SH7058.valid rom -> data = rom)
  /\ rom_data (SH7058.CalculateChecksumResult data) = data.
Proof.
  intros H Hb data. destruct (SH7058Facts.sh7058_corrected_spec rom H Hb) as (S & B & V).
  split; [done|]. split; [done|]. split.
  - intros Hv. exact (@family_stable _ _ _ _ SH7058Facts.family rom H Hb Hv).
  - apply (@family_idempotent _ _ _ _ SH7058Facts.family); [done| |done].
    unfold SH7058.fits in *. by rewrite (proj1 S).
Qed.
Lemma sh7058_corrects_witness :
  SH7058.valid (rom_data (SH7058.CalculateChecksumResult (zrepeat 0x100000 0))).
Proof.
  refine (proj1 (sh7058_corrects (zrepeat 0x100000 0) _ (zero_rom_bytes _))).
  unfold SH7058.fits. by rewrite zlen_zrepeat.
Defined.

(** The image a valid SH7058 image becomes when only its balance word is
    disturbed. *)
Definition disturb_balance (rom : list Z) (v : Z) : list Z :=
  WriteU32Be rom SH7058.kChecksum5BalanceAddress v.
Lemma sh7058_rebalance_restores rom v :
  SH7058.fits rom -> bytes_ok rom -> SH7058.valid rom -> u32_ok v ->
  v <> ReadU32Be rom SH7058.kChecksum5BalanceAddress ->
  SH7058.fix_balance32 (true, disturb_balance rom v) = (true, rom).
Proof.
  intros H Hb (_ & V & _) Hv Hne. unfold SH7058.fits, SH7058.kRomSize in H.
  unfold disturb_balance, SH7058.fix_balance32, SH7058.kChecksum5BalanceAddress in *.
  set (stored := ReadU32Be rom 0xffff8) in *.
  pose proof (ReadU32Be_range rom 0xffff8 Hb ltac:(lia)) as Hs. fold stored in Hs.
  assert (fold_sum (FoldU32Be (SH7058.pieces5 (WriteU32Be rom 0xffff8 v)))
          = u32 (0x5aa5a55a - stored + v)) as E.
  { rewrite FoldU32Be_spec in V |- *. cbn [fold_sum] in V |- *. rewrite <- V. unfold SH7058.pieces5.
    rewrite !subspan_from_eq, zlen_WriteU32Be, H by lia. cbn [map].
    rewrite window_WriteU32Be_out by (rewrite ?H; lia).
    rewrite (word_sum_window_u32 rom) by (rewrite ?H; done || lia). fold stored.
    unfold zsum. cbn [fold_right]. rewrite (u32_small v) by done.
    generalize (word_sum (subspan rom 0x4000 0xfbff0)),
      (word_sum (subspan rom 0xffff8 (0x100000 - 0xffff8))). intros. zmod. }
  rewrite E.
  assert ((u32 (0x5aa5a55a - stored + v) =? 0x5aa5a55a) = false) as -> by (apply Z.eqb_neq; zmod).
  cbn [negb]. f_equal. unfold RebalanceU32Be.
  rewrite ReadU32Be_WriteU32Be_same, WriteU32Be_overwrite by lia.
  replace (u32 (u32 v + _ - _)) with stored by zmod.
  by apply WriteU32Be_id; [|lia..].
Qed.
(** the SH7058 correction can change the image and report [kUnchanged]: from
    any valid image with only its balance word altered it restores that word
    and still answers [kUnchanged], because the balance step does not clear
    [checksum_ok]. *)
Theorem sh7058_unreported_rebalance rom v :
  SH7058.fits rom -> bytes_ok rom -> SH7058.valid rom -> u32_ok v ->
  v <> ReadU32Be rom SH7058.kChecksum5BalanceAddress ->
  status (SH7058.CalculateChecksumResult (disturb_balance rom v)) = kUnchanged
  /\ rom_data (SH7058.CalculateChecksumResult (disturb_balance rom v)) = rom
  /\ rom <> disturb_balance rom v.
Proof.
  intros H Hb V Hv Hne.
  assert (zlen rom = 0x100000) as Hz by exact H.
  assert (same_except (fun i => 0xffff8 <= i < 0xffffc) rom (disturb_balance rom v)) as S.
  { apply same_except_WriteU32Be; unfold SH7058.kChecksum5BalanceAddress; lia. }
  assert (SH7058.CalculateChecksumResult (disturb_balance rom v) = mkChecksumResult kUnchanged rom "") as ->.
  { unfold SH7058.CalculateChecksumResult. rewrite fix_sum_xor_stable.
    - rewrite sh7058_rebalance_restores by done. rewrite fix_sum_xor_stable; [done|apply V].
    - eapply sum_xor_stored_same; [exact S|addresses; lia..|windows|apply V]. }
  split; [done|]. split; [done|]. intros E. apply Hne.
  assert (ReadU32Be (disturb_balance rom v) SH7058.kChecksum5BalanceAddress = u32 v) as Er
    by (apply ReadU32Be_WriteU32Be_same; unfold SH7058.kChecksum5BalanceAddress; lia).
  rewrite <- E in Er. by rewrite Er, u32_small.
Qed.
Lemma sh7058_unreported_rebalance_witness :
  let rom := rom_data (SH7058.CalculateChecksumResult (zrepeat 0x100000 0)) in
  let v := u32 (ReadU32Be rom SH7058.kChecksum5BalanceAddress + 1) in
  status (SH7058.CalculateChecksumResult (disturb_balance rom v)) = kUnchanged
  /\ rom <> disturb_balance rom v.
Proof.
  intros rom v.
  assert (SH7058.fits (zrepeat 0x100000 0)) as F by (unfold SH7058.fits; by rewrite zlen_zrepeat).
  destruct (SH7058Facts.sh7058_corrected_spec _ F (zero_rom_bytes _)) as (S & B & V).
  assert (SH7058.fits rom) as F' by (unfold SH7058.fits in *; exact (eq_trans (proj1 S) F)).
  assert (v <> ReadU32Be rom SH7058.kChecksum5BalanceAddress) as Hne.
  { unfold v. generalize (ReadU32Be rom SH7058.kChecksum5BalanceAddress). intros. zmod. }
  destruct (sh7058_unreported_rebalance rom v F' B V (u32_range _) Hne) as (E1 & _ & E2).
  exact (conj E1 E2).
Defined.

(** one pass of the M32R K-Line correction always balances checksum 3 and
    gives a fully valid image when it was balanced already; a second pass gives
    a fully valid image in every case, and only the two stored bytes and the
    balance half-word ever change. *)
Theorem m32r_kline_two_passes rom :
  M32rKline.fits rom -> bytes_ok rom ->
  let once := rom_data (M32rKline.CalculateChecksumResult rom) in
  let twice := rom_data (M32rKline.CalculateChecksumResult once) in
  balanced16 once M32rKline.pieces3
  /\ (balanced16 rom M32rKline.pieces3 -> M32rKline.valid once)
  /\ M32rKline.valid twice
  /\ same_except (fun i => 0x8100 <= i <= 0x8101 \/ 0x7fffa <= i < 0x7fffc) rom twice.
Proof.
  intros H Hb once twice. destruct (M32rKlineFacts.kline_one_pass rom H Hb) as (S & B & V & W).
  assert (M32rKline.fits once) as H1 by (unfold M32rKline.fits in *; exact (eq_trans (proj1 S) H)).
  destruct (M32rKlineFacts.kline_one_pass once H1 B) as (S' & _ & _ & W').
  split; [done|]. split; [done|]. split; [by apply W'|].
  eapply same_except_trans; [exact S|exact S'|cbv beta; tauto].
Qed.
Lemma zero_kline_fits : M32rKline.fits (zrepeat 0x80000 0).
Proof. unfold M32rKline.fits. by rewrite zlen_zrepeat. Qed.
Lemma m32r_kline_two_passes_witness :
  M32rKline.valid (rom_data (M32rKline.CalculateChecksumResult
    (rom_data (M32rKline.CalculateChecksumResult (zrepeat 0x80000 0))))).
Proof. apply (m32r_kline_two_passes (zrepeat 0x80000 0) zero_kline_fits (zero_rom_bytes _)). Defined.

(** checksums 1 and 2 of the M32R K-Line ECU are computed before checksum 3
    is rebalanced although they cover its balance half-word: whenever
    rebalancing changes the byte total of that half-word (modulo 256), the image
    one pass returns as corrected does not hold the checksum 1 of its own
    bytes. *)
Theorem m32r_kline_one_pass_stale rom :
  M32rKline.fits rom -> bytes_ok rom ->
  let once := rom_data (M32rKline.CalculateChecksumResult rom) in
  u8 (zget once 0x7fffa + zget once 0x7fffb) <> u8 (zget rom 0x7fffa + zget rom 0x7fffb) ->
  ~ M32rKline.bytes_stored once.
Proof.
  intros H Hb once Hne Hs. pose proof (M32rKlineFacts.one_pass_sum rom H Hb) as E. cbv zeta in E.
  fold once in E. unfold M32rKline.bytes_stored in Hs. rewrite Hs in E. cbn [fst] in E.
  destruct (M32rKlineFacts.kline_one_pass rom H Hb) as (_ & B & _). fold once in B.
  pose proof (bytes_ok_zget once M32rKline.kChecksum1Address B).
  apply Hne. revert E H0.
  generalize (zget once M32rKline.kChecksum1Address), (zget rom 0x7fffa), (zget rom 0x7fffb),
    (zget once 0x7fffa), (zget once 0x7fffb). intros. zmod.
Qed.
(** On an all-zero image the pass writes [0x5aa5] and keeps the zero byte sum. *)
Lemma zget_zeros n i : zget (zrepeat n 0) i = 0.
Proof. unfold zget. rewrite zlookup_zrepeat. by case_decide. Qed.
Lemma word_sum_zeros l : (forall i, zget l i = 0) -> word_sum l = 0.
Proof.
  intros Hz. apply isum_zero. intros k _. unfold word_at, ReadU32Be. rewrite !Hz.
  by destruct (negb _).
Qed.
Lemma zget_subspan_zeros n o m i : 0 <= o -> zget (subspan (zrepeat n 0) o m) i = 0.
Proof.
  intros Ho. destruct (decide (0 <= i < m)) as [|Hi]; [by rewrite zget_subspan, zget_zeros by lia|].
  apply zget_out. rewrite zlen_subspan. pose proof (zlen_nonneg (zrepeat n 0)). lia.
Qed.
Lemma zero_kline_pass :
  rom_data (M32rKline.CalculateChecksumResult (zrepeat 0x80000 0))
  = WriteU16Be (zrepeat 0x80000 0) 0x7fffa 0x5aa5.
Proof.
  set (z := zrepeat 0x80000 0). unfold M32rKline.CalculateChecksumResult.
  assert (forall i, zget z i = 0) as Hz by (intros; apply zget_zeros).
  assert (M32rKline.fix_bytes (true, z) = (true, z)) as ->.
  { assert (sum_xor8_except z 0x8100 0x8101 = (0, 0)) as E.
    { rewrite M32rKlineFacts.sum_xor8_except_spec.
      assert (forall k, M32rKlineFacts.counted z 0x8100 0x8101 k = 0) as Hc
        by (intros; unfold M32rKlineFacts.counted; rewrite Hz; by destruct (_ || _)).
      rewrite isum_zero, ixor_zero by auto. reflexivity. }
    unfold M32rKline.fix_bytes. by rewrite E, !Hz. }
  unfold fix_balance16.
  assert (fold_sum (FoldU32Be (M32rKline.pieces3 z)) = 0) as ->.
  { rewrite FoldU32Be_spec. unfold M32rKline.pieces3. rewrite subspan_from_eq by lia. cbn [fold_sum map].
    rewrite !word_sum_zeros by (intros; apply zget_subspan_zeros; lia). done. }
  change (negb (u16 0 =? 0x5aa5)) with true. cbv iota. unfold finish. cbn [negb rom_data].
  unfold RebalanceU16Be, M32rKline.kChecksum3BalanceAddress.
  assert (ReadU16Be z 0x7fffa = 0) as ->
    by (unfold ReadU16Be; rewrite !Hz; by destruct (negb _)).
  done.
Qed.
Lemma m32r_kline_one_pass_stale_witness :
  ~ M32rKline.bytes_stored (rom_data (M32rKline.CalculateChecksumResult (zrepeat 0x80000 0))).
Proof.
  apply (m32r_kline_one_pass_stale (zrepeat 0x80000 0) zero_kline_fits (zero_rom_bytes _)).
  rewrite zero_kline_pass, !zget_zeros.
  rewrite WriteU16Be_splice by (rewrite ?zlen_zrepeat; lia).
  rewrite !zget_splice by (rewrite ?zlen_zrepeat, ?zlen_be16; lia). done.
Defined.

(** the TCU correction always balances checksum 1, and its result holds the
    right checksum 2 exactly when checksum 1 was balanced before or the stored
    checksum 2 did not match the image before: a matching checksum 2 is left as
    it was although rebalancing checksum 1 changes the bytes it covers. A second
    run always gives a valid image. *)
Theorem tcu_m32r_corrects_iff rom :
  TcuM32r.fits rom -> bytes_ok rom ->
  let data := rom_data (TcuM32r.CalculateChecksumResult rom) in
  fold_sum (FoldU32Be [subspan_from data 0x8020]) = 0x5aa5a55a
  /\ (TcuM32r.valid data <->
      fold_sum (FoldU32Be [subspan_from rom 0x8020]) = 0x5aa5a55a
      \/ ReadU32Be rom TcuM32r.kChecksum2Address <> TcuM32r.Checksum2Field rom)
  /\ TcuM32r.valid (rom_data (TcuM32r.CalculateChecksumResult data)).
Proof.
  intros H Hb data. destruct (TcuM32rFacts.tcu_one_pass rom H Hb) as (F & B & S & V).
  split; [done|]. split; [done|].
  destruct (TcuM32rFacts.tcu_one_pass _ F B) as (_ & _ & _ & V'). apply V'. by left.
Qed.
(** Zeros whose stored checksum 2 is the complement of a zero sum. *)
Definition tcu_rom : list Z := WriteU32Be (zrepeat 0x8024 0) 0x8000 0xffffff00.
Lemma tcu_rom_ok : TcuM32r.fits tcu_rom /\ bytes_ok tcu_rom.
Proof.
  split; [unfold TcuM32r.fits, tcu_rom; by rewrite zlen_WriteU32Be, zlen_zrepeat|].
  apply bytes_ok_WriteU32Be, zero_rom_bytes.
Qed.
Lemma tcu_m32r_corrects_iff_witness :
  ~ TcuM32r.valid (rom_data (TcuM32r.CalculateChecksumResult tcu_rom)).
Proof.
  intros V.
  apply (tcu_m32r_corrects_iff tcu_rom (proj1 tcu_rom_ok) (proj2 tcu_rom_ok)) in V.
  destruct V as [E|E].
  - rewrite FoldU32Be_spec in E. cbn [fold_sum map] in E. unfold tcu_rom in E.
    rewrite subspan_from_eq, zlen_WriteU32Be, zlen_zrepeat in E by lia.
    rewrite window_WriteU32Be_out in E by (rewrite ?zlen_zrepeat; lia).
    rewrite word_sum_zeros in E by (intros; apply zget_subspan_zeros; lia). discriminate E.
  - apply E. rewrite TcuM32rFacts.Checksum2Field_spec. unfold tcu_rom.
    rewrite (TcuM32rFacts.sum2_same (zrepeat 0x8024 0)).
    + unfold TcuM32rFacts.sum2. rewrite subspan_from_eq by lia.
      rewrite !word_sum_zeros by (intros; apply zget_subspan_zeros; lia).
      unfold TcuM32r.kChecksum2Address. rewrite ReadU32Be_WriteU32Be_same by (rewrite ?zlen_zrepeat; lia).
      reflexivity.
    + eapply same_except_mono; [|apply same_except_WriteU32Be; rewrite ?zlen_zrepeat; lia].
      cbv beta. lia.
Defined.
