(* ===== verification/FlashDevices.v ===== *)
(** * FlashDevices: [src/backend/flash/kernel/kernelmemorymodels.h] and
    [src/backend/flash/flash_device_lookup.cpp]

    The table of flash devices: each microcontroller's ROM size and its flash,
    RAM, kernel and EEPROM blocks, in the order of the source, and the lookup by
    name. A pointer to the first block of an array is the array. *)
From S2P Require Import Prelude.

Inductive McuType : Type :=
| kM32R128Kb
| kM32R256Kb
| kM32R384Kb
| kM32R512Kb
| kM32R512Kb1block
| kM32R512Kb4blocks
| kM32R384Kb1block
| kMC68HC16Y5
| kMC68HC16Y5Tpu
| kSH7051
| kSH7055
| kSH7058
| kSH70581block
| kSH7058d
| kSH7059d
| kSH72543d
| kSH72531
| kN83M4Mb
| kN83M15Mb
| kSH72543R
| kMH8104
| kMH5006
| kMH8111
| kM3779x
| kM3775x
| kShInvalid.
#[export] Instance McuType_eq_dec : EqDecision McuType.
Proof. solve_decision. Defined.

(** [FlashBlock], [RamBlock], [KernelBlock] and [EepromBlock]. *)
Record FlashBlock : Type := mkFlashBlock { start : Z; len : Z }.
#[export] Instance FlashBlock_eq_dec : EqDecision FlashBlock.
Proof. solve_decision. Defined.

Record FlashDevice : Type := mkFlashDevice {
  name : string;
  mcutype : McuType;
  romsize : Z;
  numblocks : Z;
  fblocks : list FlashBlock;
  rblocks : list FlashBlock;
  kblocks : list FlashBlock;
  eblocks : list FlashBlock
}.
#[local] Abbreviation B := mkFlashBlock.

Definition kFlashBlocksSH72543d : list FlashBlock :=
  [B 0x00008000 0x001F7F00].
Definition kRamBlocksSH72543d : list FlashBlock :=
  [B 0xFFF80000 0x00004000; B 0xFFF84000 0x00004000; B 0xFFF88000 0x00004000;
   B 0xFFF8C000 0x00004000; B 0xFFF90000 0x00004000; B 0xFFF94000 0x00004000;
   B 0xFFF98000 0x00004000; B 0xFFF9C000 0x00004000].
Definition kKernelBlocksSH72543d : list FlashBlock :=
  [B 0xFFF80000 0xFFF9FFFF].
Definition kEepromBlocksSH72543d : list FlashBlock :=
  [B 0x00000000 0x00000100].
Definition kFlashBlocksSH7059d : list FlashBlock :=
  [B 0x00000000 0x00001000; B 0x00001000 0x00001000; B 0x00002000 0x00001000;
   B 0x00003000 0x00001000; B 0x00004000 0x00001000; B 0x00005000 0x00001000;
   B 0x00006000 0x00001000; B 0x00007000 0x00001000; B 0x00008000 0x00018000;
   B 0x00020000 0x00020000; B 0x00040000 0x00020000; B 0x00060000 0x00020000;
   B 0x00080000 0x00040000; B 0x000C0000 0x00040000; B 0x00100000 0x00040000;
   B 0x00140000 0x00040000].
Definition kRamBlocksSH7059d : list FlashBlock :=
  [B 0xFFFE8000 0x00009000].
Definition kKernelBlocksSH7059d : list FlashBlock :=
  [B 0xFFFE8000 0x00009000].
Definition kEepromBlocksSH7059d : list FlashBlock :=
  [B 0x00000000 0x00000100].
Definition kFlashBlocksSH7058d : list FlashBlock :=
  [B 0x00000000 0x00001000; B 0x00001000 0x00001000; B 0x00002000 0x00001000;
   B 0x00003000 0x00001000; B 0x00004000 0x00001000; B 0x00005000 0x00001000;
   B 0x00006000 0x00001000; B 0x00007000 0x00001000; B 0x00008000 0x00018000;
   B 0x00020000 0x00020000; B 0x00040000 0x00020000; B 0x00060000 0x00020000;
   B 0x00080000 0x00020000; B 0x000A0000 0x00020000; B 0x000C0000 0x00020000;
   B 0x000E0000 0x00020000].
Definition kRamBlocksSH7058d : list FlashBlock :=
  [B 0xFFFF3000 0x00009000].
Definition kKernelBlocksSH7058d : list FlashBlock :=
  [B 0xFFFF4000 0x00009000].
Definition kEepromBlocksSH7058d : list FlashBlock :=
  [B 0x00000000 0x00000100].
Definition kFlashBlocksSH7058 : list FlashBlock :=
  [B 0x00000000 0x00001000; B 0x00001000 0x00001000; B 0x00002000 0x00001000;
   B 0x00003000 0x00001000; B 0x00004000 0x00001000; B 0x00005000 0x00001000;
   B 0x00006000 0x00001000; B 0x00007000 0x00001000; B 0x00008000 0x00018000;
   B 0x00020000 0x00020000; B 0x00040000 0x00020000; B 0x00060000 0x00020000;
   B 0x00080000 0x00020000; B 0x000A0000 0x00020000; B 0x000C0000 0x00020000;
   B 0x000E0000 0x00020000].
Definition kRamBlocksSH7058 : list FlashBlock :=
  [B 0xFFFF3000 0x00009000].
Definition kKernelBlocksSH7058 : list FlashBlock :=
  [B 0xFFFF3000 0x00009000].
Definition kEepromBlocksSH7058 : list FlashBlock :=
  [B 0x00000000 0x00000100].
Definition kFlashBlocksSH7058_1block : list FlashBlock :=
  [B 0x00000000 0x00100000].
Definition kFlashBlocksSH72531 : list FlashBlock :=
  [B 0x00000000 0x00008000; B 0x00008000 0x00137F00; B 0x00137F00 0x00000100].
Definition kFlashBlocksN83M_4MB : list FlashBlock :=
  [B 0x08F9C000 0x00010000; B 0x08FAC000 0x003D3F00; B 0x0937FF00 0x00000100].
Definition kFlashBlocksN83M_1_5MB : list FlashBlock :=
  [B 0x08F9C000 0x00010000; B 0x08FAC000 0x00173F00; B 0x0911FF00 0x00000100].
Definition kFlashBlocksSH72543R : list FlashBlock :=
  [B 0x00000000 0x00006000; B 0x00006000 0x001FA000].
Definition kFlashBlocksSH7055 : list FlashBlock :=
  [B 0x00000000 0x00001000; B 0x00001000 0x00001000; B 0x00002000 0x00001000;
   B 0x00003000 0x00001000; B 0x00004000 0x00001000; B 0x00005000 0x00001000;
   B 0x00006000 0x00001000; B 0x00007000 0x00001000; B 0x00008000 0x00008000;
   B 0x00010000 0x00010000; B 0x00020000 0x00010000; B 0x00030000 0x00010000;
   B 0x00040000 0x00010000; B 0x00050000 0x00010000; B 0x00060000 0x00010000;
   B 0x00070000 0x00010000].
Definition kRamBlocksSH7055 : list FlashBlock :=
  [B 0xFFFF6000 0x00006000].
Definition kKernelBlocksSH7055 : list FlashBlock :=
  [B 0xFFFF6004 0x00006000].
Definition kEepromBlocksSH7055 : list FlashBlock :=
  [B 0x00000000 0x00000100].
Definition kFlashBlocksSH7051 : list FlashBlock :=
  [B 0x00000000 0x00040000].
Definition kRamBlocksSH7051 : list FlashBlock :=
  [B 0xFFFFD800 0x00002800].
Definition kKernelBlocksSH7051 : list FlashBlock :=
  [B 0xFFFFD800 0x00002800].
Definition kEepromBlocksSH7051 : list FlashBlock :=
  [B 0x00000000 0x00000100].
Definition kFlashBlocksM3779x : list FlashBlock :=
  [B 0x00008000 0x0000FFFF].
Definition kRamBlocksM3779x : list FlashBlock :=
  [B 0x00001000 0x000014FF].
Definition kKernelBlocksM3779x : list FlashBlock :=
  [B 0x00000000 0x00000100].
Definition kEepromBlocksM3779x : list FlashBlock :=
  [B 0x00000000 0x00000100].
Definition kFlashBlocksM3775x : list FlashBlock :=
  [B 0x00001000 0x0000FFFF].
Definition kRamBlocksM3775x : list FlashBlock :=
  [B 0x00001000 0x000014FF].
Definition kKernelBlocksM3775x : list FlashBlock :=
  [B 0x00000000 0x00000100].
Definition kEepromBlocksM3775x : list FlashBlock :=
  [B 0x00000000 0x00000100].
Definition kFlashBlocksMC68HC16Y5_TPU : list FlashBlock :=
  [B 0x00060000 0x00001000; B 0x00061000 0x00001000; B 0x00062000 0x00001000;
   B 0x00063000 0x00001000].
Definition kFlashBlocksMC68HC16Y5 : list FlashBlock :=
  [B 0x00000000 0x00004000; B 0x00004000 0x00004000; B 0x00008000 0x00004000;
   B 0x0000C000 0x00004000; B 0x00010000 0x00004000; B 0x00014000 0x00004000;
   B 0x00018000 0x00004000; B 0x0001C000 0x00004000; B 0x00028000 0x00004000;
   B 0x0002C000 0x00004000].
Definition kRamBlocksMC68HC16Y5 : list FlashBlock :=
  [B 0x00020000 0x00008000].
Definition kKernelBlocksMC68HC16Y5 : list FlashBlock :=
  [B 0x00020000 0x00008000].
Definition kEepromBlocksMC68HC16Y5 : list FlashBlock :=
  [B 0x00000000 0x00000100].
Definition kFlashBlocksM32R_128KB : list FlashBlock :=
  [B 0x00000000 0x00010000; B 0x00010000 0x00010000].
Definition kRamBlocksM32R_128KB : list FlashBlock :=
  [B 0x00801000 0x00001800].
Definition kKernelBlocksM32R_128KB : list FlashBlock :=
  [B 0x00801000 0x00001800].
Definition kEepromBlocksM32R_128KB : list FlashBlock :=
  [B 0x00000000 0x00000100].
Definition kFlashBlocksM32R_256KB : list FlashBlock :=
  [B 0x00000000 0x00004000; B 0x00004000 0x00002000; B 0x00006000 0x00002000;
   B 0x00008000 0x00008000; B 0x00010000 0x00010000; B 0x00020000 0x00010000;
   B 0x00030000 0x00010000].
Definition kRamBlocksM32R_256KB : list FlashBlock :=
  [B 0x00804000 0x00004000].
Definition kKernelBlocksM32R_256KB : list FlashBlock :=
  [B 0x00804000 0x00004000].
Definition kEepromBlocksM32R_256KB : list FlashBlock :=
  [B 0x00000000 0x00000100].
Definition kFlashBlocksM32R_384KB : list FlashBlock :=
  [B 0x00000000 0x00004000; B 0x00004000 0x00002000; B 0x00006000 0x00002000;
   B 0x00008000 0x00008000; B 0x00010000 0x00010000; B 0x00020000 0x00010000;
   B 0x00030000 0x00010000; B 0x00040000 0x00010000; B 0x00050000 0x00010000].
Definition kRamBlocksM32R_384KB : list FlashBlock :=
  [B 0x00804000 0x00008000].
Definition kKernelBlocksM32R_384KB : list FlashBlock :=
  [B 0x00804000 0x00008000].
Definition kEepromBlocksM32R_384KB : list FlashBlock :=
  [B 0x00000000 0x00000100].
Definition kFlashBlocksM32R_512KB : list FlashBlock :=
  [B 0x00000000 0x00004000; B 0x00004000 0x00002000; B 0x00006000 0x00002000;
   B 0x00008000 0x00008000; B 0x00010000 0x00010000; B 0x00020000 0x00010000;
   B 0x00030000 0x00010000; B 0x00040000 0x00010000; B 0x00050000 0x00010000;
   B 0x00060000 0x00010000; B 0x00070000 0x00010000].
Definition kFlashBlocksM32R_512KB_1block : list FlashBlock :=
  [B 0x00000000 0x00080000].
Definition kFlashBlocksM32R_512KB_4blocks : list FlashBlock :=
  [B 0x00000000 0x00004000; B 0x00004000 0x00002000; B 0x00006000 0x00002000;
   B 0x00008000 0x00078000].
Definition kFlashBlocksM32R_384KB_1block : list FlashBlock :=
  [B 0x00008000 0x00058000].
Definition kRamBlocksM32R_512KB : list FlashBlock :=
  [B 0x00804000 0x0000A000].
Definition kKernelBlocksM32R_512KB : list FlashBlock :=
  [B 0x00804000 0x0000A000].
Definition kEepromBlocksM32R_512KB : list FlashBlock :=
  [B 0x00000000 0x00000100].
Definition kFlashBlocksMH8104 : list FlashBlock :=
  [B 0x00000000 0x00004000; B 0x00004000 0x00002000; B 0x00006000 0x00002000;
   B 0x00008000 0x00078000].
Definition kRamBlocksMH8104 : list FlashBlock :=
  [B 0x00804000 0x0000A000].
Definition kKernelBlocksMH8104 : list FlashBlock :=
  [B 0x00804000 0x0000A000].
Definition kEepromBlocksMH8104 : list FlashBlock :=
  [B 0x00000000 0x00000100].
Definition kFlashBlocksMH5006 : list FlashBlock :=
  [B 0x00000000 0x00004000; B 0x00004000 0x00002000; B 0x00006000 0x00002000;
   B 0x00008000 0x000F8000].
Definition kRamBlocksMH5006 : list FlashBlock :=
  [B 0x00804000 0x0000A000].
Definition kKernelBlocksMH5006 : list FlashBlock :=
  [B 0x00804000 0x0000A000].
Definition kEepromBlocksMH5006 : list FlashBlock :=
  [B 0x00000000 0x00000100].
Definition kFlashBlocksMH8111 : list FlashBlock :=
  [B 0x00000000 0x00040000; B 0x00040000 0x00020000; B 0x00060000 0x00020000;
   B 0x00080000 0x00100000].
Definition kRamBlocksMH8111 : list FlashBlock :=
  [B 0x00804000 0x0000A000].
Definition kKernelBlocksMH8111 : list FlashBlock :=
  [B 0x00804000 0x0000A000].
Definition kEepromBlocksMH8111 : list FlashBlock :=
  [B 0x00000000 0x00000100].
Definition kFlashDevices : list FlashDevice :=
  [mkFlashDevice "M32R_128KB" kM32R128Kb (128 * 1024) 2 kFlashBlocksM32R_128KB kRamBlocksM32R_128KB kKernelBlocksM32R_128KB kEepromBlocksM32R_128KB;
   mkFlashDevice "M32R_256KB" kM32R256Kb (256 * 1024) 7 kFlashBlocksM32R_256KB kRamBlocksM32R_256KB kKernelBlocksM32R_256KB kEepromBlocksM32R_256KB;
   mkFlashDevice "M32R_384KB" kM32R384Kb (384 * 1024) 9 kFlashBlocksM32R_384KB kRamBlocksM32R_384KB kKernelBlocksM32R_384KB kEepromBlocksM32R_384KB;
   mkFlashDevice "M32R_512KB" kM32R512Kb (512 * 1024) 11 kFlashBlocksM32R_512KB kRamBlocksM32R_512KB kKernelBlocksM32R_512KB kEepromBlocksM32R_512KB;
   mkFlashDevice "M32R_512KB_1block" kM32R512Kb1block (512 * 1024) 1 kFlashBlocksM32R_512KB_1block kRamBlocksM32R_512KB kKernelBlocksM32R_512KB kEepromBlocksM32R_512KB;
   mkFlashDevice "M32R_512KB_4blocks" kM32R512Kb4blocks (512 * 1024) 4 kFlashBlocksM32R_512KB_4blocks kRamBlocksM32R_512KB kKernelBlocksM32R_512KB kEepromBlocksM32R_512KB;
   mkFlashDevice "M32R_384KB_1block" kM32R384Kb1block (384 * 1024) 1 kFlashBlocksM32R_384KB_1block kRamBlocksM32R_512KB kKernelBlocksM32R_512KB kEepromBlocksM32R_512KB;
   mkFlashDevice "MC68HC16Y5" kMC68HC16Y5 (160 * 1024) 10 kFlashBlocksMC68HC16Y5 kRamBlocksMC68HC16Y5 kKernelBlocksMC68HC16Y5 kEepromBlocksMC68HC16Y5;
   mkFlashDevice "MC68HC16Y5_TPU" kMC68HC16Y5Tpu (4 * 1024) 4 kFlashBlocksMC68HC16Y5_TPU kRamBlocksMC68HC16Y5 kKernelBlocksMC68HC16Y5 kEepromBlocksMC68HC16Y5;
   mkFlashDevice "SH7051" kSH7051 (256 * 1024) 1 kFlashBlocksSH7051 kRamBlocksSH7051 kKernelBlocksSH7051 kEepromBlocksSH7051;
   mkFlashDevice "SH7055" kSH7055 (512 * 1024) 16 kFlashBlocksSH7055 kRamBlocksSH7055 kKernelBlocksSH7055 kEepromBlocksSH7055;
   mkFlashDevice "SH7058" kSH7058 (1024 * 1024) 16 kFlashBlocksSH7058 kRamBlocksSH7058 kKernelBlocksSH7058 kEepromBlocksSH7058;
   mkFlashDevice "SH7058_1block" kSH7058 (1024 * 1024) 1 kFlashBlocksSH7058_1block kRamBlocksSH7058 kKernelBlocksSH7058 kEepromBlocksSH7058;
   mkFlashDevice "SH7058d" kSH7058d (1024 * 1024) 16 kFlashBlocksSH7058d kRamBlocksSH7058d kKernelBlocksSH7058d kEepromBlocksSH7058d;
   mkFlashDevice "SH7059d" kSH7059d (1536 * 1024) 16 kFlashBlocksSH7059d kRamBlocksSH7059d kKernelBlocksSH7059d kEepromBlocksSH7059d;
   mkFlashDevice "SH72543d" kSH72543d (2 * 1024 * 1024) 1 kFlashBlocksSH72543d kRamBlocksSH72543d kKernelBlocksSH72543d kEepromBlocksSH72543d;
   mkFlashDevice "SH72531" kSH72531 (1280 * 1024) 3 kFlashBlocksSH72531 kRamBlocksSH7058 kKernelBlocksSH7058 kEepromBlocksSH7058;
   mkFlashDevice "N83M_4MB" kN83M4Mb (3984 * 1024) 3 kFlashBlocksN83M_4MB kRamBlocksSH7058 kKernelBlocksSH7058 kEepromBlocksSH7058;
   mkFlashDevice "N83M_1_5MB" kN83M15Mb (1488 * 1024) 3 kFlashBlocksN83M_1_5MB kRamBlocksSH7058 kKernelBlocksSH7058 kEepromBlocksSH7058;
   mkFlashDevice "SH72543R" kSH72543R (2 * 1024 * 1024) 2 kFlashBlocksSH72543R kRamBlocksSH7058 kKernelBlocksSH7058 kEepromBlocksSH7058;
   mkFlashDevice "MH8104" kMH8104 (512 * 1024) 4 kFlashBlocksMH8104 kRamBlocksMH8104 kKernelBlocksMH8104 kEepromBlocksMH8104;
   mkFlashDevice "MH5006" kMH5006 (1024 * 1024) 4 kFlashBlocksMH5006 kRamBlocksMH5006 kKernelBlocksMH5006 kEepromBlocksMH5006;
   mkFlashDevice "MH8111" kMH8111 (3 * 512 * 1024) 4 kFlashBlocksMH8111 kRamBlocksMH8111 kKernelBlocksMH8111 kEepromBlocksMH8111;
   mkFlashDevice "M3779x" kM3779x (64 * 1024) 1 kFlashBlocksM3779x kRamBlocksM3779x kKernelBlocksM3779x kEepromBlocksM3779x;
   mkFlashDevice "M3775x" kM3775x (64 * 1024) 1 kFlashBlocksM3775x kRamBlocksM3775x kKernelBlocksM3775x kEepromBlocksM3775x].

(** ** Lookup *)
Fixpoint find_index (mcu_type : string) (i : Z) (devices : list FlashDevice) : Z :=
  match devices with
  | [] => -1
  | d :: rest => if decide (name d = mcu_type) then i else find_index mcu_type (i + 1) rest
  end.
Definition FindFlashDeviceIndex (mcu_type : string) : Z := find_index mcu_type 0 kFlashDevices.
Definition FindFlashDevice (mcu_type : string) : option FlashDevice :=
  let index := FindFlashDeviceIndex mcu_type in
  if index <? 0 then None else kFlashDevices !! Z.to_nat index.

(** ** The table's shape *)
Fixpoint ascending (blocks : list FlashBlock) : bool :=
  match blocks with
  | b :: ((c :: _) as rest) => (start b + len b <=? start c) && ascending rest
  | _ => true
  end.
Definition block_total (blocks : list FlashBlock) : Z := fold_right (fun b acc => len b + acc) 0 blocks.
Definition u32_block (b : FlashBlock) : bool := (0 <=? start b) && (0 <? len b) && (start b + len b <=? 2 ^ 32).
Definition device_ok (d : FlashDevice) : bool :=
  (numblocks d =? zlen (fblocks d)) && forallb u32_block (fblocks d) && ascending (fblocks d)
  && (0 <? zlen (rblocks d)) && (0 <? zlen (kblocks d)) && (0 <? zlen (eblocks d)).

Lemma find_index_spec n i devices :
  0 <= i ->
  match find_index n i devices with
  | Zneg _ => forall d, d ∈ devices -> name d <> n
  | r => i <= r /\ exists d, devices !! Z.to_nat (r - i) = Some d /\ name d = n
  end.
Proof.
  revert i. induction devices as [|d ds IH]; intros i Hi; [cbn; set_solver|]. cbn [find_index].
  case_decide as E.
  - destruct i; [| |lia]; (split; [lia|]; exists d; by rewrite Z.sub_diag).
  - specialize (IH (i + 1) ltac:(lia)). destruct (find_index n (i + 1) ds) as [|p|p] eqn:Ef.
    + destruct IH; lia.
    + destruct IH as (Hle & d' & Hd & Hn). split; [lia|]. exists d'. split; [|done].
      replace (Z.to_nat (Z.pos p - i)) with (S (Z.to_nat (Z.pos p - (i + 1)))) by lia. done.
    + intros d' Hd'. apply elem_of_cons in Hd' as [-> | Hd']; [done|auto].
Qed.

(** the device lookup returns the one table entry of the given name, for
    every entry of the table, and nothing for any other name. *)
Theorem FindFlashDevice_correct n d :
  FindFlashDevice n = Some d <-> d ∈ kFlashDevices /\ name d = n.
Proof.
  assert (NoDup (name <$> kFlashDevices)) as Hu by (apply (bool_decide_unpack _); vm_compute; exact I).
  unfold FindFlashDevice, FindFlashDeviceIndex.
  pose proof (find_index_spec n 0 kFlashDevices ltac:(lia)) as H.
  assert (forall k d', kFlashDevices !! k = Some d' -> name d' = n -> d ∈ kFlashDevices -> name d = n -> d' = d) as Huniq.
  { intros k d' Hk Hn Hd Hn'. apply list_elem_of_lookup in Hd as [j Hj].
    assert (k = j) as ->; [|congruence].
    eapply (NoDup_lookup (name <$> kFlashDevices) k j n); [done|rewrite list_lookup_fmap, ?Hk, ?Hj; cbn; congruence..]. }
  destruct (find_index n 0 kFlashDevices) as [|p|p].
  - destruct H as (_ & d' & Hd & Hn). change (Z.to_nat (0 - 0)) with (Z.to_nat 0) in Hd.
    change (0 <? 0) with false. cbv iota. rewrite Hd. split.
    + intros [= <-]. split; [by eapply list_elem_of_lookup_2|done].
    + intros [Hd' Hn']. f_equal. by eapply Huniq.
  - destruct H as (_ & d' & Hd & Hn). rewrite Z.sub_0_r in Hd.
    change (Z.pos p <? 0) with false. cbv iota. rewrite Hd. split.
    + intros [= <-]. split; [by eapply list_elem_of_lookup_2|done].
    + intros [Hd' Hn']. f_equal. by eapply Huniq.
  - change (Z.neg p <? 0) with true. cbv iota. split; [done|]. intros [Hd Hn]. by destruct (H d Hd).
Qed.

(** every flash device but SH72531 lists as many flash blocks as it declares,
    in ascending order without overlap and inside the 32-bit space; SH72531's
    last block (0x137F00) lies inside its second, which runs to 0x13FF00. *)
Theorem flash_devices_well_formed d :
  d ∈ kFlashDevices -> device_ok d = negb (bool_decide (name d = "SH72531")).
Proof.
  intros Hd. assert (forallb (fun d => eqb (device_ok d) (negb (bool_decide (name d = "SH72531"))))
    kFlashDevices = true) as H by (vm_compute; reflexivity).
  rewrite forallb_forall in H. apply eqb_prop, H, list_elem_of_In, Hd.
Qed.
Lemma flash_devices_well_formed_witness :
  exists d, FindFlashDevice "SH72531" = Some d /\ device_ok d = false /\ block_total (fblocks d) = romsize d.
Proof.
  eexists. split; [vm_compute; reflexivity|]. split.
  - rewrite (flash_devices_well_formed _); [vm_compute; reflexivity|].
    eapply (list_elem_of_lookup_2 _ 16). vm_compute. reflexivity.
  - vm_compute. reflexivity.
Defined.
