(* ===== verification/ChecksumDispatch.v ===== *)
(** * ChecksumDispatch: [src/backend/checksum/dispatch.cpp] and
    [checksum_selection.h]

    Picks the checksum family of a flash method, runs it on the ECU window the
    ROM's memory map spans, and writes the bytes it corrected back through the
    map. The theorems combine the families' interface ([ChecksumFamily]) with
    the memory image's. *)
From S2P Require Import Prelude Bytes MemoryMap MemoryImage ChecksumPrimitives ChecksumFamily ChecksumDenso.
From S2P Require Import ChecksumBalanced ChecksumHitachi FlashDevices.

Record ChecksumSelection : Type := mkChecksumSelection {
  sel_make : string;
  checksum_flag : string;
  flash_method : string;
  mcu_type : string;
  rom_id : string
}.
Inductive CorrectionStatus : Type :=
| kUnknownMcuType | kBadRomSize | kNoModuleForProtocol | kFamilyRan.
Record ChecksumCorrectionOutcome : Type := mkOutcome {
  outcome_status : CorrectionStatus;
  family_result : option ChecksumResult;
  corrected_file : option (list Z)
}.

(** ** Routes *)
Definition kDensoTableLength : Z := 17 * 12.
Definition StartsWith (value prefix : string) : bool :=
  String.eqb (String.substring 0 (String.length prefix) value) prefix.

Definition run_DensoSh7xxx (rom : MemoryView) (table_address : Z) : ChecksumResult :=
  let result := SH7xxx.CalculateChecksumResult rom table_address kDensoTableLength in
  if Changed result
  then mkChecksumResult (status result) (rom_data result) "Subaru Denso SH705x Checksum"
  else result.
Definition run_DensoSh705xDiesel (rom : MemoryView) (table_address : Z) : ChecksumResult :=
  SH705xDiesel.CalculateChecksumResult rom table_address kDensoTableLength.
Definition RunFixedLayout (family : list Z -> ChecksumResult) (view : MemoryView) : ChecksumResult :=
  family (view_data view).

Inductive Route : Type :=
| kDensoSh7xxx | kDensoDiesel | kDensoTcuSh7055 | kM32rByRomId | kM32rCan | kSh7058 | kSh72543r
| kHitachiM32rTcu | kMitsuMh8104Tcu | kMitsuColtM32rCan.
#[export] Instance Route_eq_dec : EqDecision Route.
Proof. solve_decision. Defined.
(** [consteval]: a window that cannot be made is a compile error. *)
Definition EcuWindow (start size : Z) : AddressRange :=
  default (mkAddressRange start 0 start) (Make start size).
Record RouteSpec : Type := mkRouteSpec {
  prefix : string;
  make : string;
  route : Route;
  window : AddressRange;
  route_table_address : Z
}.
Definition kRoutes : list RouteSpec :=
  [mkRouteSpec "sub_ecu_denso_sh7055" "Subaru" kDensoSh7xxx (EcuWindow 0 0x80000) 0x07FB80;
   mkRouteSpec "sub_ecu_denso_sh7058_can_diesel" "Subaru" kDensoDiesel (EcuWindow 0 0x100000) 0x0FFB80;
   mkRouteSpec "sub_ecu_denso_sh7058s_diesel_densocan" "Subaru" kDensoDiesel (EcuWindow 0 0x100000) 0x0FFB80;
   mkRouteSpec "sub_ecu_denso_sh7058" "Subaru" kDensoSh7xxx (EcuWindow 0 0x100000) 0x0FFB80;
   mkRouteSpec "sub_ecu_denso_sh72531_can" "Subaru" kDensoSh7xxx (EcuWindow 0 0x140000) 0x13F500;
   mkRouteSpec "sub_ecu_denso_1n83m_4m_can" "Subaru" kDensoSh7xxx (EcuWindow 0x08F9C000 0x3E4000) 0x0937FE00;
   mkRouteSpec "sub_ecu_denso_1n83m_1_5m_can" "Subaru" kDensoSh7xxx (EcuWindow 0x08F9C000 0x184000) 0x0911FE00;
   mkRouteSpec "sub_ecu_denso_sh7059_can_diesel" "Subaru" kDensoDiesel (EcuWindow 0 0x180000) 0x17FB80;
   mkRouteSpec "sub_ecu_denso_sh7059_diesel_densocan" "Subaru" kDensoDiesel (EcuWindow 0 0x180000) 0x17FB80;
   mkRouteSpec "sub_ecu_denso_sh72543_can_diesel" "Subaru" kDensoDiesel (EcuWindow 0 0x200000) 0x1FF800;
   mkRouteSpec "sub_tcu_denso_sh7055_can" "Subaru" kDensoTcuSh7055 (EcuWindow 0 DensoTcuSH7055.kRomSize) 0;
   mkRouteSpec "sub_tcu_denso_sh7058_can" "Subaru" kDensoSh7xxx (EcuWindow 0 0x100000) 0x0FFB80;
   mkRouteSpec "sub_ecu_hitachi_m32r_kline" "Subaru" kM32rByRomId (EcuWindow 0 M32rKline.kRomSize) 0;
   mkRouteSpec "sub_ecu_hitachi_m32r_can" "Subaru" kM32rCan (EcuWindow 0 M32rCan.kRomSize) 0;
   mkRouteSpec "sub_ecu_hitachi_sh7058_can" "Subaru" kSh7058 (EcuWindow 0 SH7058.kRomSize) 0;
   mkRouteSpec "sub_ecu_hitachi_sh72543r" "Subaru" kSh72543r (EcuWindow 0 SH72543r.kRomSize) 0;
   mkRouteSpec "sub_tcu_hitachi_m32r_can" "Subaru" kHitachiM32rTcu (EcuWindow 0 0x80000) 0;
   mkRouteSpec "sub_tcu_hitachi_m32r_kline" "Subaru" kHitachiM32rTcu (EcuWindow 0 0x80000) 0;
   mkRouteSpec "sub_tcu_cvt_mitsu_mh8104_can" "Subaru" kMitsuMh8104Tcu (EcuWindow 0 MitsuMH8104.kRomSize) 0;
   mkRouteSpec "mitsu_ecu_m32r_can_512kb" "Mitsubishi" kMitsuColtM32rCan (EcuWindow 0 0x80000) 0;
   mkRouteSpec "mitsu_ecu_m32r_can_vendor_ext_512kb" "Mitsubishi" kMitsuColtM32rCan (EcuWindow 0 0x80000) 0;
   mkRouteSpec "mitsu_ecu_m32r_can" "Mitsubishi" kMitsuColtM32rCan (EcuWindow 0 0x60000) 0].

Definition FixedRomSize (r : Route) : option Z :=
  match r with
  | kDensoTcuSh7055 => Some DensoTcuSH7055.kRomSize
  | kM32rByRomId => Some M32rKline.kRomSize
  | kM32rCan => Some M32rCan.kRomSize
  | kSh7058 => Some SH7058.kRomSize
  | kSh72543r => Some SH72543r.kRomSize
  | kMitsuMh8104Tcu => Some MitsuMH8104.kRomSize
  | kDensoSh7xxx | kDensoDiesel | kHitachiM32rTcu | kMitsuColtM32rCan => None
  end.
(** One route against the ones before it. *)
Definition route_consistent (earlier : list RouteSpec) (r : RouteSpec) : bool :=
  negb (match FixedRomSize (route r) with
        | Some fixed => negb (Start (window r) =? 0) || negb (Size (window r) =? fixed)
        | None => false
        end)
  && negb ((bool_decide (route r = kMitsuColtM32rCan) || bool_decide (route r = kHitachiM32rTcu))
           && negb (Start (window r) =? 0))
  && negb ((bool_decide (route r = kDensoSh7xxx) || bool_decide (route r = kDensoDiesel))
           && match Make (route_table_address r) kDensoTableLength with
              | None => true
              | Some table => negb (ContainsRange (window r) table)
              end)
  && forallb (fun e => negb (String.eqb (make e) (make r) && StartsWith (prefix r) (prefix e))) earlier.
Fixpoint routes_consistent_from (earlier routes : list RouteSpec) : bool :=
  match routes with
  | [] => true
  | r :: rest => route_consistent earlier r && routes_consistent_from (earlier ++ [r]) rest
  end.
Definition RoutesAreConsistent (routes : list RouteSpec) : bool := routes_consistent_from [] routes.

Definition Execute (spec : RouteSpec) (id : string) (view : MemoryView) : option ChecksumResult :=
  match route spec with
  | kDensoSh7xxx => Some (run_DensoSh7xxx view (route_table_address spec))
  | kDensoDiesel => Some (run_DensoSh705xDiesel view (route_table_address spec))
  | kDensoTcuSh7055 => Some (RunFixedLayout DensoTcuSH7055.CalculateChecksumResult view)
  | kM32rByRomId =>
      if StartsWith id "3" then Some (RunFixedLayout M32rKline.CalculateChecksumResult view)
      else if StartsWith id "4" || StartsWith id "6"
      then Some (RunFixedLayout M32rCan.CalculateChecksumResult view)
      else None
  | kM32rCan => Some (RunFixedLayout M32rCan.CalculateChecksumResult view)
  | kSh7058 => Some (RunFixedLayout SH7058.CalculateChecksumResult view)
  | kSh72543r => Some (RunFixedLayout SH72543r.CalculateChecksumResult view)
  | kHitachiM32rTcu => Some (TcuM32r.CalculateChecksumResult (view_data view))
  | kMitsuMh8104Tcu => Some (RunFixedLayout MitsuMH8104.CalculateChecksumResult view)
  | kMitsuColtM32rCan => Some (MitsuM32rCan.CalculateChecksumResult (view_data view))
  end.
Definition FindRoute (mk method : string) : option RouteSpec :=
  List.find (fun spec => String.eqb (make spec) mk && StartsWith method (prefix spec)) kRoutes.
Definition HasRoute (mk method : string) : bool :=
  match FindRoute mk method with Some _ => true | None => false end.

(** ** Writing the corrected bytes back *)
(** The inner loop: the end of the run of differing bytes at [index]. *)
Fixpoint run_end (fuel : nat) (original after : list Z) (index : Z) : Z :=
  match fuel with
  | O => index
  | S fuel =>
      if (index <? zlen original) && negb (zget original index =? zget after index)
      then run_end fuel original after (index + 1) else index
  end.
(** The outer loop; a turn moves [index] on, so as many turns as there are bytes
    reach the end. *)
Fixpoint write_back_loop (fuel : nat) (image : MemoryImage) (before : MemoryView) (after : list Z)
    (index : Z) : MemoryImage * result MemoryError unit :=
  match fuel with
  | O => (image, Ok tt)
  | S fuel' =>
      let original := view_data before in
      if negb (index <? zlen original) then (image, Ok tt)
      else if zget original index =? zget after index
      then write_back_loop fuel' image before after (index + 1)
      else
        let run_start := index in
        let index := run_end fuel original after index in
        let address := default 0 (Advance (Start (view_range before)) (u32 run_start)) in
        match Write image address (subspan after run_start (index - run_start)) with
        | (image, Err e) => (image, Err e)
        | (image, Ok _) => write_back_loop fuel' image before after index
        end
  end.
Definition WriteBack (image : MemoryImage) (before : MemoryView) (after : list Z)
    : MemoryImage * result MemoryError unit :=
  write_back_loop (length (view_data before)) image before after 0.

Definition ApplyChecksumCorrection (image : MemoryImage) (selection : ChecksumSelection)
    : ChecksumCorrectionOutcome :=
  match FindFlashDevice (mcu_type selection) with
  | None => mkOutcome kUnknownMcuType None None
  | Some _ =>
      if negb (String.eqb (checksum_flag selection) "yes") then mkOutcome kNoModuleForProtocol None None
      else match FindRoute (sel_make selection) (flash_method selection) with
      | None => mkOutcome kNoModuleForProtocol None None
      | Some r =>
          if bool_decide (Span (map_ image) <> Some (window r)) then mkOutcome kBadRomSize None None
          else match Render image (window r) with
          | Err _ => mkOutcome kBadRomSize None None
          | Ok view =>
              match Execute r (rom_id selection) view with
              | None => mkOutcome kFamilyRan None None
              | Some res =>
                  if negb (ResultOk res) || negb (zlen (rom_data res) =? zlen (view_data view))
                  then mkOutcome kFamilyRan (Some res) None
                  else match WriteBack image view (rom_data res) with
                  | (_, Err e) =>
                      mkOutcome kFamilyRan
                        (Some (mkChecksumResult kUnsupportedRom (rom_data res)
                           ("Checksum correction would change ROM bytes the protocol cannot write: "
                            +:+ detail e))) None
                  | (corrected, Ok _) => mkOutcome kFamilyRan (Some res) (Some (file_ corrected))
                  end
              end
          end
      end
  end.

(** ** Write-back *)
Lemma run_end_spec fuel original after i :
  0 <= i <= zlen original -> zlen original - i <= Z.of_nat fuel ->
  let j := run_end fuel original after i in
  i <= j <= zlen original
  /\ (forall k, i <= k < j -> zget original k <> zget after k)
  /\ (i < zlen original -> zget original i <> zget after i -> i < j).
Proof.
  revert i. induction fuel as [|fuel IH]; intros i Hi Hf; [cbn; split; [lia|]; split; intros; lia|].
  cbn [run_end]. destruct (Z.ltb_spec i (zlen original)) as [Hlt|]; cbn [andb];
    [|split; [lia|]; split; intros; lia].
  destruct (Z.eqb_spec (zget original i) (zget after i)) as [|Hne]; cbn [negb];
    [split; [lia|]; split; intros; lia|].
  destruct (IH (i + 1) ltac:(lia) ltac:(lia)) as (Hj & Hk & _). cbv zeta.
  split; [lia|]. split; [|lia]. intros k Hk'. destruct (decide (k = i)) as [->|]; [done|]. apply Hk. lia.
Qed.
Lemma byte_at_ok img a v : image_ok img -> byte_at img a = Some v -> byte_ok v.
Proof.
  intros (Hm & _ & Hb). unfold byte_at. pose proof (map_ok_sorted _ Hm) as Hs.
  pose proof (BlockAt_holds (map_ img) a Hs) as Hh. destruct (BlockAt _ a) as [b|]; [|done].
  destruct Hh as [Hin _]. destruct (sorted_blocks_elem _ _ Hs Hin) as [_ Hok].
  destruct (backing b); intros [= <-]; [by apply bytes_ok_zget|done].
Qed.

(** [img] holds [data] from address [start] on. *)
Definition holds_bytes (img : MemoryImage) (start : Z) (data : list Z) : Prop :=
  forall i, 0 <= i < zlen data -> byte_at img (start + i) = Some (zget data i).

Section write_back.
Context (img0 : MemoryImage) (before : MemoryView) (after : list Z).
Let original := view_data before.
Let s := Start (view_range before).
Hypothesis Hrange : range_ok (view_range before).
Hypothesis Hsize : Size (view_range before) = zlen original.
Hypothesis Hafter : zlen after = zlen original.
Hypothesis Hbytes : bytes_ok after.
Hypothesis Hbefore : holds_bytes img0 s original.

(** The image after the bytes before [index] were written back. *)
Definition progress (img : MemoryImage) (index : Z) : Prop :=
  image_ok img /\ map_ img = map_ img0
  /\ forall a, byte_at img a = if decide (s <= a < s + index) then Some (zget after (a - s))
                               else byte_at img0 a.
(** Every byte that differs from [index] on may be written. *)
Definition writable_from (index : Z) : Prop :=
  forall i, index <= i < zlen original -> zget original i <> zget after i ->
    write_error (map_ img0) (s + i) = None.

Lemma progress_equal img index :
  0 <= index < zlen original -> zget original index = zget after index ->
  progress img index -> progress img (index + 1).
Proof.
  intros Hi E (Hok & Hm & Hv). split; [done|]. split; [done|]. intros a. rewrite Hv.
  repeat case_decide; try lia; try done. assert (a = s + index) as -> by lia.
  rewrite Hbefore by done. rewrite E. do 2 f_equal. lia.
Qed.
Lemma progress_run img img' i j :
  0 <= i < j -> j <= zlen original -> progress img i ->
  Write img (s + i) (subspan after i (j - i)) = (img', Ok tt) ->
  progress img' j /\ forall k, i <= k < j -> write_error (map_ img0) (s + k) = None.
Proof.
  intros Hi Hj (Hok & Hm & Hv) E. unfold range_ok in Hrange. set (data := subspan after i (j - i)) in *.
  assert (zlen data = j - i) as Hl by (unfold data; rewrite zlen_subspan; lia).
  assert (data <> []) as Hne by (intros E0; rewrite E0, zlen_nil in Hl; lia).
  assert (0 <= s + i) as H0 by (unfold s; lia).
  assert (s + i + zlen data <= kU32Max) as H1 by (unfold s; lia).
  destruct (write_range (s + i) data H0 Hne H1) as (r & Er & Hr & E1 & _ & E2).
  destruct (Write_ok_writable img (s + i) data img' r Hok Er Hr E) as [?|Hw]; [done|].
  rewrite E1, E2, Hl, Hm in Hw.
  destruct (Write_stores_lemma img (s + i) data) as (img'' & E' & Hm' & Hok' & Hv'); try done.
  { unfold data. auto with bytes. }
  { intros a Ha. rewrite Hm. apply Hw. lia. }
  rewrite E in E'. injection E' as <-. split.
  - split; [done|]. split; [congruence|]. intros a. rewrite Hv', Hv, Hl.
    repeat case_decide; try lia; try done. unfold data. rewrite zget_subspan by lia. do 2 f_equal. lia.
  - intros k Hk. apply Hw. lia.
Qed.
Lemma Write_run_fails img img' i j e :
  0 <= i < j -> j <= zlen original -> progress img i ->
  Write img (s + i) (subspan after i (j - i)) = (img', Err e) ->
  ~ forall k, i <= k < j -> write_error (map_ img0) (s + k) = None.
Proof.
  intros Hi Hj (Hok & Hm & _) E Hw. unfold range_ok in Hrange. set (data := subspan after i (j - i)) in *.
  assert (zlen data = j - i) as Hl by (unfold data; rewrite zlen_subspan; lia).
  destruct (Write_stores_lemma img (s + i) data) as (img'' & E' & _); try done.
  - unfold data. auto with bytes.
  - intros E0. rewrite E0, zlen_nil in Hl. lia.
  - unfold s. lia.
  - unfold s. lia.
  - intros a Ha. rewrite Hm. replace a with (s + (a - s)) by lia. apply Hw. lia.
  - rewrite E in E'. done.
Qed.
Lemma write_back_loop_spec fuel img index :
  0 <= index <= zlen original -> zlen original - index <= Z.of_nat fuel -> progress img index ->
  match write_back_loop fuel img before after index with
  | (img', Ok _) => progress img' (zlen original) /\ writable_from index
  | (_, Err _) => ~ writable_from index
  end.
Proof.
  revert img index. induction fuel as [|fuel IH]; intros img index Hi Hf Hp.
  { cbn. assert (index = zlen original) as -> by lia. split; [done|]. intros k Hk. lia. }
  cbn [write_back_loop]. fold original.
  destruct (Z.ltb_spec index (zlen original)) as [Hlt|]; cbn [negb].
  2: { assert (index = zlen original) as -> by lia. split; [done|]. intros k Hk. lia. }
  destruct (Z.eqb_spec (zget original index) (zget after index)) as [E|Hne].
  - specialize (IH img (index + 1) ltac:(lia) ltac:(lia) (progress_equal img index ltac:(lia) E Hp)).
    destruct (write_back_loop fuel _ _ _ _) as [img' [u|e]].
    + destruct IH as [Hp' Hw]. split; [done|]. intros k Hk Hd.
      destruct (decide (k = index)) as [->|]; [done|]. apply Hw; [lia|done].
    + intros Hw. apply IH. intros k Hk. apply Hw. lia.
  - set (j := run_end (S fuel) original after index).
    destruct (run_end_spec (S fuel) original after index ltac:(lia) ltac:(lia)) as (Hj & Hd & Hgt).
    fold j in Hj, Hd, Hgt. specialize (Hgt Hlt Hne).
    assert (default 0 (Advance (Start (view_range before)) (u32 index)) = s + index) as ->.
    { unfold range_ok, kU32Max in Hrange. rewrite u32_small by (unfold u32_ok; lia).
      unfold Advance, kU32Max. rewrite (proj2 (Z.ltb_ge _ _)) by lia. done. }
    destruct (Write img (s + index) (subspan after index (j - index))) as [img' [u|e]] eqn:Ew.
    + destruct u. destruct (progress_run img img' index j ltac:(lia) ltac:(lia) Hp Ew) as [Hp' Hw'].
      specialize (IH img' j ltac:(lia) ltac:(lia) Hp').
      destruct (write_back_loop fuel _ _ _ _) as [img'' [u|e]].
      * destruct IH as [Hp'' Hw]. split; [done|]. intros k Hk Hdk.
        destruct (decide (k < j)); [apply Hw'; lia|apply Hw; [lia|done]].
      * intros Hw. apply IH. intros k Hk. apply Hw. lia.
    + intros Hw. apply (Write_run_fails img img' index j e ltac:(lia) ltac:(lia) Hp Ew).
      intros k Hk. apply Hw; [lia|]. apply Hd. lia.
Qed.
End write_back.

(** ** The route table *)
(** What the dispatcher relies on of every route. *)
Definition route_shape (r : RouteSpec) : bool :=
  (0 <=? Start (window r)) && (0 <? Size (window r))
  && (End (window r) =? Start (window r) + Size (window r)) && (End (window r) <=? kU32Max)
  && match FixedRomSize (route r) with
     | Some n => (Start (window r) =? 0) && (Size (window r) =? n)
     | None => true
     end
  && (if bool_decide (route r = kHitachiM32rTcu) then Size (window r) =? 0x80000 else true)
  && (if bool_decide (route r = kDensoSh7xxx) then Start (window r) <=? route_table_address r else true).
Lemma routes_shape r : r ∈ kRoutes -> route_shape r = true.
Proof.
  intros Hr. assert (forallb route_shape kRoutes = true) as H by (vm_compute; reflexivity).
  rewrite forallb_forall in H. by apply H, list_elem_of_In.
Qed.
Lemma FindRoute_elem mk method r : FindRoute mk method = Some r -> r ∈ kRoutes.
Proof. intros H. apply List.find_some in H as [H _]. by apply list_elem_of_In. Qed.

(** ** What a family run guarantees of the window's bytes *)
Definition sh7xxx_spec (r : RouteSpec) : DensoTableSpec :=
  mkDensoTableSpec (route_table_address r) kDensoTableLength [] true.
Definition window_valid (r : RouteSpec) (id : string) (rom : list Z) : Prop :=
  match route r with
  | kDensoSh7xxx =>
      let base := Start (window r) in
      let pos := route_table_address r - base in
      first_disabled rom (sh7xxx_spec r) pos 0 = true
      \/ ((forall k, 0 <= k < 17 -> rec_avoids base rom pos 17 k) ->
          forall k, 0 <= k < 17 -> rec_valid base (sh7xxx_spec r) pos rom k)
  | kDensoDiesel => True
  | kDensoTcuSh7055 => DensoTcuSH7055.observed rom = 0x5aa5
  | kM32rByRomId => if StartsWith id "3" then balanced16 rom M32rKline.pieces3 else M32rCan.valid rom
  | kM32rCan => M32rCan.valid rom
  | kSh7058 => SH7058.valid rom
  | kSh72543r => SH72543r.observed rom = 0x5aa5
  | kHitachiM32rTcu => fold_sum (FoldU32Be [subspan_from rom 0x8020]) = 0x5aa5a55a
  | kMitsuMh8104Tcu => MitsuMH8104.observed rom = MitsuMH8104.kChecksumTarget
  | kMitsuColtM32rCan => MitsuM32rCan.fits rom -> MitsuM32rCan.observed rom = MitsuM32rCan.kTargetChecksum
  end.
(** Every checksum of the family is right, as its ECU computes them (of the M32R CAN ECU
    the five that a correction writes; the sixth is only compared). *)
Definition all_right (r : RouteSpec) (id : string) (rom : list Z) : Prop :=
  match route r with
  | kDensoSh7xxx =>
      let base := Start (window r) in
      let pos := route_table_address r - base in
      first_disabled rom (sh7xxx_spec r) pos 0 = true \/ forall k, 0 <= k < 17 -> rec_valid base (sh7xxx_spec r) pos rom k
  | kDensoDiesel => True
  | kDensoTcuSh7055 => DensoTcuSH7055.observed rom = 0x5aa5
  | kM32rByRomId => if StartsWith id "3" then M32rKline.valid rom else M32rCan.valid rom
  | kM32rCan => M32rCan.valid rom
  | kSh7058 => SH7058.valid rom
  | kSh72543r => SH72543r.observed rom = 0x5aa5
  | kHitachiM32rTcu => TcuM32r.valid rom
  | kMitsuMh8104Tcu => MitsuMH8104.observed rom = MitsuMH8104.kChecksumTarget
  | kMitsuColtM32rCan => MitsuM32rCan.observed rom = MitsuM32rCan.kTargetChecksum
  end.
(** When one run is enough for that, by the bytes before it: no record of a Denso table
    covers the table's own values; the balance word of an M32R K-Line ECU, or that of an
    M32R TCU, is right already, or the TCU's other checksum is not; the area code of a
    Colt names an area. Every other family always gets there. *)
Definition one_run_enough (r : RouteSpec) (id : string) (before : list Z) : Prop :=
  match route r with
  | kDensoSh7xxx =>
      let base := Start (window r) in
      forall k, 0 <= k < 17 -> rec_avoids base before (route_table_address r - base) 17 k
  | kM32rByRomId => if StartsWith id "3" then balanced16 before M32rKline.pieces3 else True
  | kHitachiM32rTcu => fold_sum (FoldU32Be [subspan_from before 0x8020]) = 0x5aa5a55a
                       \/ ReadU32Be before TcuM32r.kChecksum2Address <> TcuM32r.Checksum2Field before
  | kMitsuColtM32rCan => MitsuM32rCan.fits before
  | _ => True
  end.
(** What a run leaves. *)
Definition left_right (r : RouteSpec) (id : string) (before after : list Z) : Prop :=
  window_valid r id after /\ (one_run_enough r id before -> all_right r id after).
(** The three facts the dispatcher takes from a family's result. *)
Definition run_ok (P : list Z -> Prop) (rom : list Z) (res : ChecksumResult) : Prop :=
  zlen (rom_data res) = zlen rom /\ bytes_ok (rom_data res) /\ (ResultOk res = true -> P (rom_data res)).
Lemma family_run_ok {calc fits valid slot} `{!ChecksumFamily calc fits valid slot} rom :
  fits rom -> bytes_ok rom -> run_ok valid rom (calc rom).
Proof. intros. split; [by apply family_size|]. split; [by apply family_bytes|]. intros _. by apply family_valid. Qed.
(** Both Denso families keep the size and the bytes. *)
Lemma denso_table_sized base rom spec :
  bytes_ok rom -> 0 <= base <= kU32Max -> 0 <= table_length spec ->
  zlen (fst (CorrectDensoTable base rom spec)) = zlen rom
  /\ bytes_ok (fst (CorrectDensoTable base rom spec)).
Proof.
  intros Hb Hbase Hlen. pose proof (CorrectDensoTable_outcome base rom spec Hb Hbase Hlen) as H.
  destruct (CorrectDensoTable base rom spec) as [rom' []]; cbn [fst snd] in *;
    first [destruct H as (-> & _); done | destruct H as (S & B & _); split; [apply S|done]].
Qed.
Lemma run_DensoSh7xxx_data rom t :
  rom_data (run_DensoSh7xxx rom t)
  = fst (CorrectDensoTable (Start (view_range rom)) (view_data rom) (mkDensoTableSpec t kDensoTableLength [] true)).
Proof.
  unfold run_DensoSh7xxx, SH7xxx.CalculateChecksumResult.
  destruct (CorrectDensoTable _ _ _) as [data []]; reflexivity.
Qed.
(** A table that reads as right or disabled after the run. *)
Lemma sh7xxx_run_ok r view :
  bytes_ok (view_data view) -> range_ok (view_range view) -> route r = kDensoSh7xxx ->
  view_range view = window r -> Start (window r) <= route_table_address r ->
  run_ok (left_right r "" (view_data view)) (view_data view) (run_DensoSh7xxx view (route_table_address r)).
Proof.
  intros Hb Hr Er Ew Hp. unfold run_ok. rewrite run_DensoSh7xxx_data.
  assert (0 <= Start (view_range view) <= kU32Max) as Hbase by (unfold range_ok in Hr; lia).
  assert (0 <= table_length (sh7xxx_spec r)) as Hlen by (cbn; unfold kDensoTableLength; lia).
  destruct (denso_table_sized _ (view_data view) (sh7xxx_spec r) Hb Hbase Hlen) as [Hz Hd].
  change (mkDensoTableSpec (route_table_address r) kDensoTableLength [] true) with (sh7xxx_spec r).
  split; [done|]. split; [done|]. clear Hz Hd.
  unfold left_right, window_valid, one_run_enough, all_right, run_DensoSh7xxx, SH7xxx.CalculateChecksumResult. rewrite Er. cbv zeta.
  change (mkDensoTableSpec (route_table_address r) kDensoTableLength [] true) with (sh7xxx_spec r).
  pose proof (CorrectDensoTable_outcome _ _ (sh7xxx_spec r) Hb Hbase Hlen) as H.
  unfold table_outcome in H. change (table_records (sh7xxx_spec r)) with 17%nat in H.
  change (table_address (sh7xxx_spec r)) with (route_table_address r) in H. rewrite Ew in *.
  set (pos := route_table_address r - Start (window r)) in *.
  destruct (CorrectDensoTable _ _ _) as [rom' []]; cbn [fst snd] in *; try done; intros _.
  - destruct H as [-> Hv]. split; [by right|]. intros _. by right.
  - destruct H as (S & _ & Hv). split; [right|by right; apply Hv]. intros Hav. apply Hv. intros k Hk. specialize (Hav k Hk).
    assert (forall j, j = 0 \/ j = 4 -> forall i, pos + 12 * k + j <= i < pos + 12 * k + j + 4 ->
      ~ value_slot pos 17 i) as Hns.
    { intros j Hj i Hi. unfold value_slot. intros [_ Hm]. revert Hm.
      Z.to_euclidean_division_equations. lia. }
    unfold rec_avoids, rec_start, rec_end in *.
    rewrite (same_except_ReadU32Be _ _ _ (pos + 12 * k) S) in Hav
      by (lia || (intros i Hi; apply (Hns 0); lia)).
    rewrite (same_except_ReadU32Be _ _ _ (pos + 12 * k + 4) S) in Hav
      by (lia || (intros i Hi; apply (Hns 4); lia)). done.
  - destruct H as [-> Hd]. split; by left.
Qed.
Lemma diesel_run_ok rom t :
  bytes_ok (view_data rom) -> range_ok (view_range rom) ->
  run_ok (fun _ => True) (view_data rom) (run_DensoSh705xDiesel rom t).
Proof.
  intros Hb Hr. assert (0 <= Start (view_range rom) <= kU32Max) as Hbase by (unfold range_ok in Hr; lia).
  unfold run_DensoSh705xDiesel, SH705xDiesel.CalculateChecksumResult.
  set (primary := mkDensoTableSpec t _ _ _). set (secondary := mkDensoTableSpec 0x1FF8E8 _ _ _).
  destruct (denso_table_sized _ (view_data rom) primary Hb Hbase ltac:(cbn; unfold kDensoTableLength; lia))
    as [Hz Hd].
  destruct (CorrectDensoTable _ (view_data rom) primary) as [data o]. cbn [fst] in *.
  case_bool_decide; [by repeat split|]. destruct (FailureOf o) as [[st msg]|]; [by repeat split|].
  destruct (t =? 0x1FF800).
  - destruct (denso_table_sized _ data secondary Hd Hbase ltac:(cbn; lia)) as [Hz2 Hd2].
    destruct (CorrectDensoTable _ data secondary) as [data2 o2]. cbn [fst] in *.
    destruct (FailureOf o2) as [[st msg]|]; [by repeat split|].
    destruct (_ || _); repeat split; cbn; congruence || done.
  - destruct (_ || _); by repeat split.
Qed.
Lemma colt_run_ok rom :
  bytes_ok rom ->
  run_ok (fun after => (MitsuM32rCan.fits after -> MitsuM32rCan.observed after = MitsuM32rCan.kTargetChecksum)
    /\ (MitsuM32rCan.fits rom -> MitsuM32rCan.observed after = MitsuM32rCan.kTargetChecksum)) rom
    (MitsuM32rCan.CalculateChecksumResult rom).
Proof.
  intros Hb. destruct (MitsuM32rCan.area_of rom) as [e|] eqn:E.
  - assert (MitsuM32rCan.fits rom) as F by (unfold MitsuM32rCan.fits; rewrite E; done).
    destruct (family_run_ok (ChecksumFamily0 := MitsuM32rCan.family) rom F Hb) as (H1 & H2 & H3).
    repeat split; auto.
  - assert (~ MitsuM32rCan.fits rom) as F by (unfold MitsuM32rCan.fits; rewrite E; intros [? ?]; done).
    unfold run_ok. destruct (MitsuM32rCan.no_area_unchanged rom F) as [-> _]. repeat split; done.
Qed.
(** A family that one run always sets right. *)
Ltac plain_run family Er :=
  match goal with
  | Hz : zlen (view_data ?view) = _, Hb : bytes_ok (view_data ?view) |- _ =>
      destruct (family_run_ok (ChecksumFamily0 := family) _ Hz Hb) as (? & ? & ?); split_and!; [done|done|]; intros ?;
      unfold left_right, window_valid, one_run_enough, all_right; rewrite Er; auto
  end.
Lemma Execute_run_ok r id view res :
  r ∈ kRoutes -> view_range view = window r -> zlen (view_data view) = Size (window r) ->
  bytes_ok (view_data view) -> Execute r id view = Some res ->
  run_ok (left_right r id (view_data view)) (view_data view) res.
Proof.
  intros Hr Ew Hz Hb. pose proof (routes_shape r Hr) as Hs. unfold route_shape in Hs.
  rewrite !andb_true_iff, !Z.leb_le, Z.ltb_lt, Z.eqb_eq in Hs.
  destruct Hs as ((((((H0 & H1) & H2) & H3) & Hfix) & Htcu) & Hden).
  assert (range_ok (view_range view)) as Hok by (rewrite Ew; by repeat split).
  unfold Execute, RunFixedLayout.
  destruct (route r) eqn:Er; cbn [FixedRomSize] in Hfix;
    try (apply andb_true_iff in Hfix as [_ Hfix%Z.eqb_eq]; rewrite Hfix in Hz); intros E.
  - injection E as <-. pose proof (sh7xxx_run_ok r view Hb Hok Er Ew ltac:(apply Z.leb_le, Hden)) as H.
    unfold left_right, window_valid, one_run_enough, all_right in *. by rewrite Er in *.
  - injection E as <-. pose proof (diesel_run_ok view (route_table_address r) Hb Hok) as (S & B & _). split_and!; [done|done|]. intros _.
    unfold left_right, window_valid, all_right. by rewrite Er.
  - injection E as <-. plain_run DensoTcuSH7055.family Er.
  - destruct (StartsWith id "3") eqn:Eid.
    + injection E as <-. destruct (M32rKlineFacts.kline_one_pass _ Hz Hb) as (S & B & V & W). split_and!; [apply S|done|]. intros _.
      unfold left_right, window_valid, one_run_enough, all_right. by rewrite Er, Eid.
    + destruct (_ || _); [|done]. injection E as <-.
      destruct (family_run_ok (ChecksumFamily0 := M32rCanFacts.family) _ Hz Hb) as (S & B & V). split_and!; [done|done|]. intros Hres.
      unfold left_right, window_valid, one_run_enough, all_right. rewrite Er, Eid. auto.
  - injection E as <-. plain_run M32rCanFacts.family Er.
  - injection E as <-. plain_run SH7058Facts.family Er.
  - injection E as <-. plain_run SH72543r.family Er.
  - injection E as <-. apply Z.eqb_eq in Htcu. rewrite Htcu in Hz.
    assert (TcuM32r.fits (view_data view)) as F by (unfold TcuM32r.fits; rewrite Hz; done).
    destruct (TcuM32rFacts.tcu_one_pass _ F Hb) as (F' & B & S & V). split_and!; [apply TcuM32rFacts.zlen_corrected|done|]. intros _.
    unfold left_right, window_valid, one_run_enough, all_right. rewrite Er. split; [done|]. apply V.
  - injection E as <-. plain_run MitsuMH8104.family Er.
  - injection E as <-. destruct (colt_run_ok _ Hb) as (S & B & V). split_and!; [done|done|]. intros Hres.
    unfold left_right, window_valid, one_run_enough, all_right. rewrite Er. by apply V.
Qed.

(** ** The correction as a whole *)
(** A successful render holds the image's bytes. *)
Lemma Render_holds img r view :
  image_ok img -> range_ok r -> Render img r = Ok view ->
  view_range view = r /\ zlen (view_data view) = Size r /\ bytes_ok (view_data view)
  /\ holds_bytes img (Start r) (view_data view).
Proof.
  intros Hi Hr E. pose proof Hi as (Hm & _).
  destruct (Slices_spec _ r (map_ok_sorted _ Hm) Hr) as [T _].
  assert (forall a, Start r <= a < End r -> read_error (map_ img) a = None) as Hread.
  { unfold Render, CheckedSlices in E. destruct (first_failure _ _) eqn:Ef; [done|]. intros a Ha.
    exact (checked_only_if _ _ _ _ _ a T (slices_checked_read _ r Hm Hr) Ef Ha). }
  destruct (Render_fold img r Hi Hr Hread) as (data & Ed & Hz & Hv). rewrite E in Ed. injection Ed as ->.
  cbn [view_range view_data]. unfold range_ok in Hr.
  assert (holds_bytes img (Start r) data) as Hh.
  { intros i Hii. rewrite Hv by lia. do 2 f_equal. lia. }
  repeat split; try done. apply bytes_ok_of_zget. intros i Hii.
  exact (byte_at_ok img _ _ Hi (Hh i Hii)).
Qed.
Lemma Render_of_holds img r data :
  image_ok img -> range_ok r -> zlen data = Size r -> holds_bytes img (Start r) data ->
  Render img r = Ok (mkMemoryView r data).
Proof.
  intros Hi Hr Hz Hh. pose proof Hr as Hr'. unfold range_ok in Hr'.
  destruct (Render_fold img r Hi Hr) as (out & E & Hl & Hv).
  - intros a Ha. specialize (Hh (a - Start r) ltac:(lia)).
    replace (Start r + (a - Start r)) with a in Hh by lia.
    unfold byte_at, read_error in *. by destruct (BlockAt _ a).
  - rewrite E. do 2 f_equal. apply zget_ext; [congruence|]. intros i Hii.
    specialize (Hh i ltac:(lia)). rewrite Hv in Hh by lia.
    replace (Start r + i - Start r) with i in Hh by lia. congruence.
Qed.
Lemma WriteBack_spec img r view after :
  image_ok img -> range_ok r -> Render img r = Ok view -> zlen after = zlen (view_data view) ->
  bytes_ok after ->
  match WriteBack img view after with
  | (img', Ok _) =>
      map_ img' = map_ img /\ image_ok img' /\ Render img' r = Ok (mkMemoryView r after)
      /\ writable_from img view after 0
  | (_, Err _) => ~ writable_from img view after 0
  end.
Proof.
  intros Hi Hr E Hz Hb. destruct (Render_holds img r view Hi Hr E) as (<- & Hs & Hvb & Hh).
  unfold WriteBack.
  pose proof (write_back_loop_spec img view after Hr (eq_sym Hs) Hz Hb Hh (length (view_data view)) img 0) as H.
  assert (progress img view after img 0) as Hp.
  { split; [done|]. split; [done|]. intros a. by rewrite decide_False by lia. }
  specialize (H ltac:(pose proof (zlen_nonneg (view_data view)); lia) ltac:(unfold zlen; lia) Hp).
  destruct (write_back_loop _ _ _ _ _) as [img' [u|e]]; [|done].
  destruct H as [(Hok & Hm & Hv) Hw]. split; [done|]. split; [done|]. split; [|done].
  apply Render_of_holds; [done|done|congruence|]. intros i Hii. rewrite Hv, decide_True by lia.
  do 2 f_equal. lia.
Qed.

Lemma correction_applied image sel r view res :
  image_ok image -> is_Some (FindFlashDevice (mcu_type sel)) -> checksum_flag sel = "yes" ->
  FindRoute (sel_make sel) (flash_method sel) = Some r -> Span (map_ image) = Some (window r) ->
  Render image (window r) = Ok view -> Execute r (rom_id sel) view = Some res -> ResultOk res = true ->
  (writable_from image view (rom_data res) 0 /\
   exists file, ApplyChecksumCorrection image sel = mkOutcome kFamilyRan (Some res) (Some file)
     /\ zlen file = zlen (file_ image)
     /\ Render (mkMemoryImage (map_ image) file) (window r) = Ok (mkMemoryView (window r) (rom_data res)))
  \/ (~ writable_from image view (rom_data res) 0 /\
      exists msg, ApplyChecksumCorrection image sel
        = mkOutcome kFamilyRan (Some (mkChecksumResult kUnsupportedRom (rom_data res) msg)) None).
Proof.
  intros Hi [d Hd] Hy Hf Hspan Hren Hex Hres. pose proof (FindRoute_elem _ _ _ Hf) as Hr.
  pose proof (routes_shape r Hr) as Hs. unfold route_shape in Hs.
  rewrite !andb_true_iff, !Z.leb_le, Z.ltb_lt, Z.eqb_eq in Hs.
  assert (range_ok (window r)) as Hok by (unfold range_ok; tauto).
  destruct (Render_holds _ _ _ Hi Hok Hren) as (Ew & Hz & Hb & _).
  destruct (Execute_run_ok r (rom_id sel) view res Hr Ew Hz Hb Hex) as (Hsz & Hrb & _).
  pose proof (WriteBack_spec image (window r) view (rom_data res) Hi Hok Hren Hsz Hrb) as HW.
  unfold ApplyChecksumCorrection. rewrite Hd, Hy, Hf.
  rewrite bool_decide_eq_false_2 by (rewrite Hspan; tauto).
  rewrite Hren, Hex, Hres, Hsz, Z.eqb_refl. cbn [negb orb String.eqb].
  destruct (WriteBack _ _ _) as [img' [u|e]].
  - left. destruct HW as (Hm & (_ & Hl & _) & Hrn & Hw). split; [done|]. exists (file_ img').
    rewrite Hm in Hl. destruct Hi as (_ & Hl' & _). destruct img' as [m f]. cbn [map_ file_] in *. subst m.
    split; [done|]. split; [congruence|done].
  - right. split; [done|]. eexists. reflexivity.
Qed.

(** C4: with a known device, the flag set, a matching route and a ROM that spans
    exactly its window, the corrected file is produced exactly when every byte
    the family changed lies in a writable file-backed block; it then renders to
    the family's bytes. Otherwise there is no file, and a refused byte turns the
    result into [kUnsupportedRom]. *)
Theorem correction_applied_iff_writable image sel r view res :
  image_ok image -> is_Some (FindFlashDevice (mcu_type sel)) -> checksum_flag sel = "yes" ->
  FindRoute (sel_make sel) (flash_method sel) = Some r -> Span (map_ image) = Some (window r) ->
  Render image (window r) = Ok view -> Execute r (rom_id sel) view = Some res -> ResultOk res = true ->
  (writable_from image view (rom_data res) 0 /\
   exists file, ApplyChecksumCorrection image sel = mkOutcome kFamilyRan (Some res) (Some file)
     /\ zlen file = zlen (file_ image)
     /\ Render (mkMemoryImage (map_ image) file) (window r) = Ok (mkMemoryView (window r) (rom_data res)))
  \/ (~ writable_from image view (rom_data res) 0 /\
      exists msg, ApplyChecksumCorrection image sel
        = mkOutcome kFamilyRan (Some (mkChecksumResult kUnsupportedRom (rom_data res) msg)) None).
Proof. apply correction_applied. Qed.

(** A 512 KiB ROM of zeros at address 0, and a Hitachi TCU selection for it. *)
Definition zero_block : MemoryBlock := mkMemoryBlock (mkAddressRange 0 0x80000 0x80000) (FileBacking 0) kWritable.
Definition zero_map : MemoryMap := mkMemoryMap [zero_block] 0x80000 0.
Definition zero_image : MemoryImage := mkMemoryImage zero_map (zrepeat 0x80000 0).
Definition tcu_selection : ChecksumSelection :=
  mkChecksumSelection "Subaru" "yes" "sub_tcu_hitachi_m32r_can" "M32R_512KB" "".
Definition tcu_route : RouteSpec :=
  mkRouteSpec "sub_tcu_hitachi_m32r_can" "Subaru" kHitachiM32rTcu (mkAddressRange 0 0x80000 0x80000) 0.
Lemma zero_map_ok : map_ok zero_map.
Proof.
  repeat split; try (unfold kU32Max; cbn; lia); try done;
    try (repeat constructor; unfold kU32Max; cbn; lia).
  intros o. unfold placements.
  change (mjoin (file_range <$> blocks_ zero_map)) with [(0, 0x80000)].
  rewrite count_covers_cons. change (count_covers [] o) with 0%nat. unfold covers. cbn [fst snd file_size_ zero_map].
  repeat case_decide; lia.
Qed.
Lemma zero_image_ok : image_ok zero_image.
Proof.
  split; [exact zero_map_ok|]. unfold zero_image. cbn [file_ map_]. split; [by rewrite zlen_zrepeat|].
  apply zero_rom_bytes.
Qed.
Lemma zero_BlockAt a : 0 <= a < 0x80000 -> BlockAt zero_map a = Some zero_block.
Proof.
  intros Ha. unfold BlockAt, zero_map. cbn [blocks_ upper_bound].
  change (Start (range zero_block)) with 0. rewrite (proj2 (Z.ltb_ge _ _)) by lia.
  cbn [fst list.last]. unfold ContainsAddress. change (Start (range zero_block)) with 0.
  change (End (range zero_block)) with 0x80000.
  by rewrite (proj2 (Z.leb_le _ _)), (proj2 (Z.ltb_lt _ _)) by lia.
Qed.
Lemma zero_Render : Render zero_image (window tcu_route) = Ok (mkMemoryView (window tcu_route) (zrepeat 0x80000 0)).
Proof.
  apply Render_of_holds; [exact zero_image_ok|unfold range_ok, kU32Max; cbn; lia|by rewrite zlen_zrepeat|].
  intros i Hi. rewrite zlen_zrepeat in Hi. change (Start (window tcu_route)) with 0. rewrite Z.add_0_l.
  unfold byte_at. change (map_ zero_image) with zero_map. rewrite zero_BlockAt by lia.
  cbn [backing zero_block file_ zero_image range Start]. by rewrite Z.sub_0_r.
Qed.
Lemma zero_tcu_result_ok : ResultOk (TcuM32r.CalculateChecksumResult (zrepeat 0x80000 0)) = true.
Proof.
  assert (TcuM32r.fits (zrepeat 0x80000 0)) as F by (unfold TcuM32r.fits; by rewrite zlen_zrepeat).
  rewrite (TcuM32rFacts.calc_fits _ F). unfold finish. by destruct (_ && _).
Qed.
Lemma zero_writable after : writable_from zero_image (mkMemoryView (window tcu_route) (zrepeat 0x80000 0)) after 0.
Proof.
  intros i Hi _. cbn [view_data] in Hi. rewrite zlen_zrepeat in Hi. unfold write_error.
  change (map_ zero_image) with zero_map. rewrite zero_BlockAt; [done|]. cbn [view_range Start window tcu_route]. lia.
Qed.
Lemma correction_applied_iff_writable_witness :
  exists file, ApplyChecksumCorrection zero_image tcu_selection
    = mkOutcome kFamilyRan (Some (TcuM32r.CalculateChecksumResult (zrepeat 0x80000 0))) (Some file).
Proof.
  destruct (correction_applied_iff_writable zero_image tcu_selection tcu_route
    (mkMemoryView (window tcu_route) (zrepeat 0x80000 0)) (TcuM32r.CalculateChecksumResult (zrepeat 0x80000 0))
    zero_image_ok) as [(_ & file & E & _)|(Hn & _)].
  - vm_compute. eexists. reflexivity.
  - reflexivity.
  - vm_compute. reflexivity.
  - vm_compute. reflexivity.
  - exact zero_Render.
  - exact eq_refl.
  - exact zero_tcu_result_ok.
  - exists file. exact E.
  - destruct (Hn (zero_writable _)).
Defined.



(** the route table satisfies the invariant its static assertion checks, and
    no route is shadowed: looking up a route's own make and prefix finds that
    route. *)
Theorem routes_consistent_and_reachable :
  RoutesAreConsistent kRoutes = true
  /\ forall r, r ∈ kRoutes -> FindRoute (make r) (prefix r) = Some r.
Proof.
  split; [vm_compute; reflexivity|]. apply list.Forall_forall.
  repeat constructor; vm_compute; reflexivity.
Qed.
