(* ===== verification/Ssm.v ===== *)
(** * Ssm: [src/algorithms/protocol/ssm/ssm_protocol_core.{h,cpp}]

    The Subaru SSM frame and the Feistel cipher behind its seed keys and
    payloads. *)
From S2P Require Import Prelude Bytes.

(** ** Tables *)
(** Entry [i] is [t[i & 0x1F] + (t[(i >> 4) & 0x1F] << 4)]. *)
Definition BuildPairTable (indextransformation : list Z) : list Z :=
  map (fun i => u16 (zget indextransformation (Z.land i 0x1F)
                     + Z.shiftl (zget indextransformation (Z.land (Z.shiftr i 4) 0x1F)) 4)) (seqZ 0 512).
Definition kIndexTransformationStock : list Z :=
  [0x5; 0x6; 0x7; 0x1; 0x9; 0xC; 0xD; 0x8; 0xA; 0xD; 0x2; 0xB; 0xF; 0x4; 0x0; 0x3;
   0xB; 0x4; 0x6; 0x0; 0xF; 0x2; 0xD; 0x9; 0x5; 0xC; 0x1; 0xA; 0x3; 0xD; 0xE; 0x8].
Definition kIndexTransformationEcutek : list Z :=
  [0x4; 0x2; 0x5; 0x1; 0x8; 0xC; 0xD; 0x8; 0xA; 0xD; 0x2; 0xB; 0xF; 0x4; 0x0; 0x3;
   0xB; 0x4; 0x6; 0x0; 0xF; 0x2; 0xD; 0x9; 0x5; 0xC; 0x1; 0xA; 0x3; 0xD; 0xE; 0x8].
Definition kStockPairTable : list Z := BuildPairTable kIndexTransformationStock.
Definition kEcutekPairTable : list Z := BuildPairTable kIndexTransformationEcutek.

(** ** The cipher *)
(** [std::rotr] on 16 bits. *)
Definition rotr16 (x n : Z) : Z := Z.lor (Z.shiftr x n) (u16 (Z.shiftl x (16 - n))).
(** The value one round mixes into the other half. *)
Definition round_key (pairs : list Z) (lo key : Z) : Z :=
  let v := u16 (Z.lxor lo key) in
  let index := Z.lor v (u32 (Z.shiftl v 16)) in
  let encryptionkey :=
    u16 (zget pairs (Z.land index 0x1FF) + Z.shiftl (zget pairs (Z.land (Z.shiftr index 8) 0x1FF)) 8) in
  rotr16 encryptionkey 3.
Definition transform_round (pairs : list Z) (st : Z * Z) (key : Z) : Z * Z :=
  let '(lo, hi) := st in
  let next := u16 (Z.lxor (round_key pairs lo key) hi) in
  (next, lo).
(** [TransformWord<Reverse, Rounds>]; the rounds index [keytogenerateindex] from
    the end when [reverse]. *)
Definition TransformWord (reverse : bool) (word : Z) (keytogenerateindex pairs : list Z) : Z :=
  let lo := u16 word in
  let hi := u16 (Z.shiftr word 16) in
  let keys := if reverse then rev keytogenerateindex else keytogenerateindex in
  let '(lo, hi) := fold_left (transform_round pairs) keys (lo, hi) in
  Z.lor hi (u32 (Z.shiftl lo 16)).

Definition CalculateSeedKey (seed keytogenerateindex pairs : list Z) : list Z :=
  if zlen seed <? 4 then []
  else AppendU32Be [] (TransformWord true (ReadU32Be seed 0) keytogenerateindex pairs).
Definition CalculatePayload (buf keytogenerateindex pairs : list Z) : list Z :=
  ComposeBe [FWide 4 (map (fun word => TransformWord false word keytogenerateindex pairs) (kU32Be buf))].

(** ** Frames *)
Definition AddHeader (output : list Z) (tester_id target_id : Z) : list Z :=
  ComposeBeWithChecksum Sum8Field
    [FByte 0x80; FByte target_id; FByte tester_id; FByte (u8 (zlen output)); FBytes output].
Definition kHeaderLength : Z := 4.
Definition kChecksumLength : Z := 1.
Definition HasValidFrame (frame : list Z) (receiver_id sender_id : Z) : bool :=
  if zlen frame <? kHeaderLength + kChecksumLength then false
  else if negb (zlen frame =? kHeaderLength + zget frame 3 + kChecksumLength) then false
  else if negb (zget frame 0 =? 0x80) || negb (zget frame 1 =? receiver_id)
          || negb (zget frame 2 =? sender_id) then false
  else Sum8 (ztake (zlen frame - kChecksumLength) frame) =? zget frame (zlen frame - kChecksumLength).
Definition HasPayloadPrefix (frame prefix : list Z) (receiver_id sender_id : Z) : bool :=
  if negb (HasValidFrame frame receiver_id sender_id) then false
  else if zget frame 3 <? zlen prefix then false
  else bool_decide (prefix = subspan frame 4 (zlen prefix)).

(** ** Lemmas: the rounds undo one another *)
Definition swap (st : Z * Z) : Z * Z := (snd st, fst st).
Definition halves_ok (st : Z * Z) : Prop := u16_ok (fst st) /\ u16_ok (snd st).
Lemma lxor_cancel a b : Z.lxor a (Z.lxor a b) = b.
Proof. by rewrite <- Z.lxor_assoc, Z.lxor_nilpotent, Z.lxor_0_l. Qed.
Lemma transform_round_ok pairs st key : halves_ok st -> halves_ok (transform_round pairs st key).
Proof. destruct st. intros [H1 H2]. split; [apply u16_range|done]. Qed.
Lemma u16_lxor a b : u16 (Z.lxor a b) = Z.lxor (u16 a) (u16 b).
Proof.
  unfold u16. change 65536 with (2 ^ 16). rewrite <- !Z.land_ones by lia.
  apply Z.bits_inj'. intros k Hk. rewrite !Z.land_spec, !Z.lxor_spec, !Z.land_spec.
  by destruct (Z.testbit a k), (Z.testbit b k), (Z.testbit (Z.ones 16) k).
Qed.
Lemma transform_round_undo pairs st key :
  halves_ok st -> transform_round pairs (swap (transform_round pairs st key)) key = swap st.
Proof.
  destruct st as [lo hi]. intros [H1 H2]. unfold swap, transform_round. cbn [fst snd].
  rewrite !u16_lxor, ?u16_u16, lxor_cancel. cbn [fst snd] in *. by rewrite !u16_small.
Qed.
Lemma fold_rounds_ok pairs keys st : halves_ok st -> halves_ok (fold_left (transform_round pairs) keys st).
Proof. revert st. induction keys as [|k ks IH]; intros st H; [done|]. cbn. by apply IH, transform_round_ok. Qed.
Lemma fold_rounds_undo pairs keys st :
  halves_ok st ->
  fold_left (transform_round pairs) (rev keys) (swap (fold_left (transform_round pairs) keys st)) = swap st.
Proof.
  revert st. induction keys as [|k ks IH]; intros st H; [done|]. cbn [fold_left rev].
  rewrite fold_left_app, IH by (by apply transform_round_ok). cbn. by apply transform_round_undo.
Qed.
(** A word and its halves. *)
Lemma join_halves lo hi : u16_ok lo -> u16_ok hi -> Z.lor hi (u32 (Z.shiftl lo 16)) = lo * 65536 + hi.
Proof.
  intros Hl Hh. rewrite u32_small by (rewrite Z.shiftl_mul_pow2 by lia; unfold u16_ok, u32_ok in *; lia).
  rewrite Z.lor_comm. rewrite lor_shiftl_add by (unfold u16_ok in *; lia). done.
Qed.
Lemma TransformWord_halves reverse w keys pairs :
  TransformWord reverse w keys pairs =
    let st := fold_left (transform_round pairs) (if reverse then rev keys else keys)
                (u16 w, u16 (w / 65536)) in
    fst st * 65536 + snd st.
Proof.
  unfold TransformWord. rewrite (shiftr_div w 16) by lia. change (2 ^ 16) with 65536.
  pose proof (fold_rounds_ok pairs (if reverse then rev keys else keys) (u16 w, u16 (w / 65536))
    (conj (u16_range _) (u16_range _))) as [H1 H2].
  destruct (fold_left _ _ _) as [lo hi]. by apply join_halves.
Qed.
Lemma TransformWord_range reverse w keys pairs : u32_ok (TransformWord reverse w keys pairs).
Proof.
  rewrite TransformWord_halves. cbv zeta.
  pose proof (fold_rounds_ok pairs (if reverse then rev keys else keys) (u16 w, u16 (w / 65536))
    (conj (u16_range _) (u16_range _))) as [H1 H2]. unfold u16_ok, u32_ok in *. lia.
Qed.
Lemma TransformWord_rev_keys w keys pairs :
  TransformWord true w keys pairs = TransformWord false w (rev keys) pairs.
Proof. reflexivity. Qed.
Lemma TransformWord_undo w keys pairs :
  u32_ok w -> TransformWord true (TransformWord false w keys pairs) keys pairs = w.
Proof.
  intros Hw. rewrite (TransformWord_halves true), (TransformWord_halves false). cbv zeta.
  assert (halves_ok (u16 w, u16 (w / 65536))) as H0 by (split; apply u16_range).
  pose proof (fold_rounds_ok pairs keys _ H0) as Hr. pose proof (fold_rounds_undo pairs keys _ H0) as Hu.
  destruct (fold_left (transform_round pairs) keys _) as [lo hi]. destruct Hr as [Hl Hh]. cbn [fst snd] in *.
  assert ((u16 (lo * 65536 + hi), u16 ((lo * 65536 + hi) / 65536)) = swap (lo, hi)) as ->
    by (unfold swap; cbn [fst snd]; f_equal; zmod).
  rewrite Hu. unfold swap. cbn [fst snd]. zmod.
Qed.

(** *** Words of a buffer *)
Lemma kU32Be_spec data : kU32Be data = map (fun k => ReadU32Be data (4 * k)) (seqZ 0 (zlen data / 4)).
Proof.
  unfold kU32Be. apply map_ext_in. intros k Hk. apply list_elem_of_In, elem_of_seqZ in Hk.
  unfold ReadU32Be. rewrite FitsAt_true by (Z.to_euclidean_division_equations; lia). cbn [negb].
  assert (forall i, 0 <= i < 4 -> zget (subspan data (k * 4) 4) i = zget data (4 * k + i)) as Hg
    by (intros; rewrite zget_subspan by lia; f_equal; lia).
  rewrite !Hg by lia. by rewrite Z.add_0_r.
Qed.
Definition words_bytes (l : list Z) : list Z := List.concat (map (EmitIntegerBe 4) l).
Lemma zlen_word4 v : zlen (EmitIntegerBe 4 v) = 4.
Proof. apply (zlen_EmitIntegerBe 4). Qed.
Lemma CalculatePayload_words buf keys pairs :
  CalculatePayload buf keys pairs
  = words_bytes (map (fun word => TransformWord false word keys pairs) (kU32Be buf)).
Proof. unfold CalculatePayload, ComposeBe. cbn [map EmitBe List.concat]. by rewrite app_nil_r. Qed.
(** Reading back composed words. *)
Lemma kU32Be_words l : Forall u32_ok l -> kU32Be (words_bytes l) = l.
Proof.
  intros Hl. rewrite kU32Be_spec.
  assert (zlen (words_bytes l) = 4 * zlen l) as Hz by apply zlen_concat_map, zlen_word4.
  rewrite Hz. replace (4 * zlen l / 4) with (zlen l) by (Z.to_euclidean_division_equations; lia).
  pose proof (zlen_nonneg l). apply zget_ext; [rewrite zlen_map, zlen_seqZ; lia|].
  rewrite zlen_map, zlen_seqZ. intros k Hk. rewrite zget_map_seqZ by lia.
  transitivity (ReadU32Be (EmitIntegerBe 4 (zget l k)) 0).
  - apply ReadU32Be_ext; [lia|lia|lia|rewrite zlen_word4; lia|]. intros i Hi.
    unfold words_bytes. by rewrite (zget_concat_map _ 4) by (apply zlen_word4 || lia).
  - pose proof (ReadUBe_EmitIntegerBe 4 (zget l k) ltac:(lia)) as E.
    change (ReadUBe (EmitIntegerBe 4 (zget l k)) 0 (Z.of_nat 4)) with
      (ReadU32Be (EmitIntegerBe 4 (zget l k)) 0) in E. rewrite E.
    apply u32_small. rewrite list.Forall_forall in Hl. apply Hl.
    pose proof (zlookup_zget l k ltac:(lia)) as Hk'. unfold zlookup in Hk'. rewrite decide_True in Hk' by lia.
    by eapply list_elem_of_lookup_2.
Qed.
Lemma words_of_buffer buf :
  bytes_ok buf -> words_bytes (kU32Be buf) = ztake (4 * (zlen buf / 4)) buf.
Proof.
  intros Hb. pose proof (zlen_nonneg buf). rewrite kU32Be_spec.
  set (n := zlen buf / 4). assert (0 <= n /\ 4 * n <= zlen buf) as [Hn Hle]
    by (unfold n; Z.to_euclidean_division_equations; lia).
  assert (forall l, zlen (words_bytes l) = 4 * zlen l) as Hz by (intros; apply zlen_concat_map, zlen_word4).
  apply zget_ext.
  - rewrite Hz, zlen_map, zlen_seqZ, zlen_ztake. lia.
  - rewrite Hz, zlen_map, zlen_seqZ. intros i Hi. rewrite zget_ztake by lia.
    assert (exists k j, i = 4 * k + j /\ 0 <= j < 4 /\ 0 <= k < n) as (k & j & -> & Hj & Hk)
      by (exists (i / 4), (i mod 4); Z.to_euclidean_division_equations; lia).
    unfold words_bytes. rewrite (zget_concat_map _ 4) by (apply zlen_word4 || rewrite ?zlen_map, ?zlen_seqZ; lia).
    rewrite zget_map_seqZ by lia.
    change (EmitIntegerBe 4 (ReadU32Be buf (4 * k))) with
      (map (fun s => u8 (Z.shiftr (ReadU32Be buf (4 * k)) s)) [24; 16; 8; 0]).
    rewrite ReadU32Be_val by (done || lia).
    assert (zget buf (4 * k + j)
      = zget [zget buf (4 * k); zget buf (4 * k + 1); zget buf (4 * k + 2); zget buf (4 * k + 3)] j) as ->.
    { assert (j = 0 \/ j = 1 \/ j = 2 \/ j = 3) as [-> | [-> | [-> | ->]]] by lia; rewrite ?Z.add_0_r; reflexivity. }
    generalize (bytes_ok_zget buf (4 * k) Hb) (bytes_ok_zget buf (4 * k + 1) Hb)
      (bytes_ok_zget buf (4 * k + 2) Hb) (bytes_ok_zget buf (4 * k + 3) Hb).
    generalize (zget buf (4 * k)) (zget buf (4 * k + 1)) (zget buf (4 * k + 2)) (zget buf (4 * k + 3)).
    intros a b c d ? ? ? ?. cbn [map]. rewrite !shiftr_div by lia.
    change (2 ^ 24) with 16777216. change (2 ^ 16) with 65536. change (2 ^ 8) with 256. change (2 ^ 0) with 1.
    assert (j = 0 \/ j = 1 \/ j = 2 \/ j = 3) as [-> | [-> | [-> | ->]]] by lia; zgets; zmod.
Qed.

Lemma words_ok b : bytes_ok b -> Forall u32_ok (kU32Be b).
Proof.
  intros Hbb. rewrite kU32Be_spec. apply Forall_map, list.Forall_forall. intros k Hk.
  apply elem_of_seqZ in Hk. apply ReadU32Be_range; [done|lia].
Qed.
Lemma CalculatePayload_rev buf keys pairs :
  bytes_ok buf ->
  CalculatePayload (CalculatePayload buf keys pairs) (rev keys) pairs = ztake (4 * (zlen buf / 4)) buf.
Proof.
  intros Hb. rewrite !CalculatePayload_words, kU32Be_words
    by (apply Forall_map, Forall_true; intros x; apply TransformWord_range). rewrite map_map.
  rewrite <- words_of_buffer by done. f_equal. rewrite <- (map_id (kU32Be buf)) at 2.
  apply map_ext_in. intros w Hin. rewrite <- TransformWord_rev_keys. apply TransformWord_undo.
  pose proof (words_ok buf Hb) as Hw. rewrite list.Forall_forall in Hw. by apply Hw, list_elem_of_In.
Qed.
(** Whole words are transformed one by one. *)
Lemma CalculatePayload_app a b keys pairs :
  bytes_ok a -> bytes_ok b -> zlen a mod 4 = 0 -> zlen b mod 4 = 0 ->
  CalculatePayload (a ++ b) keys pairs = CalculatePayload a keys pairs ++ CalculatePayload b keys pairs.
Proof.
  intros Ha Hb Hla Hlb.
  assert (forall l : list Z, bytes_ok l -> zlen l mod 4 = 0 -> words_bytes (kU32Be l) = l) as Hw.
  { intros l Hl Hm. rewrite words_of_buffer by done. unfold ztake. apply take_ge.
    pose proof (zlen_nonneg l). unfold zlen in *. Z.to_euclidean_division_equations; lia. }
  assert (kU32Be (a ++ b) = kU32Be a ++ kU32Be b) as E.
  { rewrite <- (Hw a Ha Hla), <- (Hw b Hb Hlb) at 1. unfold words_bytes. rewrite <- concat_app, <- map_app.
    apply kU32Be_words, list.Forall_app. split; by apply words_ok. }
  rewrite !CalculatePayload_words, E, map_app. unfold words_bytes. by rewrite map_app, concat_app.
Qed.
Lemma zlen_CalculatePayload buf keys pairs : zlen (CalculatePayload buf keys pairs) = 4 * (zlen buf / 4).
Proof.
  rewrite CalculatePayload_words. unfold words_bytes. rewrite (zlen_concat_map _ 4) by apply zlen_word4.
  rewrite zlen_map, kU32Be_spec, zlen_map, zlen_seqZ. pose proof (zlen_nonneg buf).
  rewrite Z.max_r; [done|]. apply Z.div_pos; lia.
Qed.
Lemma bytes_ok_CalculatePayload buf keys pairs : bytes_ok (CalculatePayload buf keys pairs).
Proof. apply bytes_ok_ComposeBe. Qed.

(** the payload cipher is inverted by the same cipher under the round keys in
    reverse order: decrypting an encrypted buffer gives back its whole 32-bit
    words, for every key list and every index table; the seed-key transform is
    the inverse of the payload transform under the same keys. *)
Theorem payload_cipher_inverse buf keys pairs :
  bytes_ok buf ->
  CalculatePayload (CalculatePayload buf keys pairs) (rev keys) pairs = ztake (4 * (zlen buf / 4)) buf
  /\ (4 <= zlen buf ->
      CalculateSeedKey (CalculatePayload (ztake 4 buf) keys pairs) keys pairs = ztake 4 buf).
Proof.
  intros Hb.
  split; [by apply CalculatePayload_rev|].
  intros Hl. set (b := ztake 4 buf). assert (zlen b = 4) as Hz by (unfold b; rewrite zlen_ztake; lia).
  assert (bytes_ok b) as Hbb by (unfold b; auto with bytes).
  assert (kU32Be b = [ReadU32Be b 0]) as Ek.
  { rewrite kU32Be_spec, Hz. reflexivity. }
  unfold CalculateSeedKey. rewrite CalculatePayload_words, Ek. cbn [map].
  assert (zlen (words_bytes [TransformWord false (ReadU32Be b 0) keys pairs]) = 4) as ->.
  { unfold words_bytes. rewrite (zlen_concat_map _ 4) by apply zlen_word4. done. }
  cbn [Z.ltb Z.compare Pos.compare Pos.compare_cont].
  pose proof (kU32Be_words [TransformWord false (ReadU32Be b 0) keys pairs]
    ltac:(repeat constructor; apply TransformWord_range)) as E.
  rewrite kU32Be_spec in E.
  assert (zlen (words_bytes [TransformWord false (ReadU32Be b 0) keys pairs]) = 4) as E4.
  { unfold words_bytes. rewrite (zlen_concat_map _ 4) by apply zlen_word4. done. }
  rewrite E4 in E. change (seqZ 0 (4 / 4)) with [0] in E. cbn [map] in E. injection E as E.
  change (4 * 0) with 0 in E. rewrite E, TransformWord_undo by (apply ReadU32Be_range; [done|lia]).
  transitivity (words_bytes (kU32Be b)).
  - rewrite Ek. unfold words_bytes. cbn [map List.concat]. rewrite app_nil_r.
    unfold AppendU32Be. cbn [app EmitIntegerBe].
    change (8 * Z.of_nat 3) with 24. change (8 * Z.of_nat 2) with 16.
    change (8 * Z.of_nat 1) with 8. change (8 * Z.of_nat 0) with 0. rewrite Z.shiftr_0_r.
    rewrite !land_255. unfold u8. by rewrite !Z.mod_mod by lia.
  - rewrite words_of_buffer, Hz by done. change (4 * (4 / 4)) with 4. unfold ztake. apply take_ge.
    unfold zlen in Hz. lia.
Qed.
Lemma payload_cipher_inverse_witness :
  CalculatePayload (CalculatePayload [1; 2; 3; 4; 5] [0xC85B; 0x32C0] kStockPairTable)
    (rev [0xC85B; 0x32C0]) kStockPairTable = ztake (4 * (zlen [1; 2; 3; 4; 5] / 4)) [1; 2; 3; 4; 5]
  /\ CalculatePayload [1; 2; 3; 4; 5] [0xC85B; 0x32C0] kStockPairTable = [2; 225; 6; 103].
Proof.
  split; [|vm_compute; reflexivity].
  exact (proj1 (payload_cipher_inverse [1; 2; 3; 4; 5] [0xC85B; 0x32C0] kStockPairTable
    ltac:(repeat constructor; done))).
Defined.

(** ** Lemmas: frames *)
Lemma AddHeader_bytes payload s r :
  bytes_ok payload -> byte_ok s -> byte_ok r ->
  AddHeader payload s r =
    (0x80 :: r :: s :: u8 (zlen payload) :: payload)
    ++ [Sum8 (0x80 :: r :: s :: u8 (zlen payload) :: payload)].
Proof.
  intros Hp Hs Hr. unfold AddHeader, ComposeBeWithChecksum.
  assert (ComposeBe [FByte 0x80; FByte r; FByte s; FByte (u8 (zlen payload)); FBytes payload]
    = 0x80 :: r :: s :: u8 (zlen payload) :: payload) as E.
  { rewrite !ComposeBe_cons, !EmitBe_FByte, EmitBe_FBytes by (done || apply u8_range).
    unfold ComposeBe. cbn [map List.concat app]. by rewrite app_nil_r. }
  rewrite E. cbn zeta. unfold Sum8Field. by rewrite EmitBe_FByte by apply Sum8_range.
Qed.
Lemma HasValidFrame_complete payload s r :
  bytes_ok payload -> zlen payload <= 255 -> byte_ok s -> byte_ok r ->
  HasValidFrame (AddHeader payload s r) r s = true.
Proof.
  intros Hp Hl Hs Hr. rewrite AddHeader_bytes by done. pose proof (zlen_nonneg payload).
  rewrite u8_small by (unfold byte_ok; lia). set (h := 0x80 :: r :: s :: zlen payload :: payload).
  assert (zlen h = 4 + zlen payload) as Hh by (unfold h; rewrite !zlen_cons; lia).
  unfold HasValidFrame, kHeaderLength, kChecksumLength. rewrite zlen_app, Hh.
  change (zlen [Sum8 h]) with 1. rewrite (proj2 (Z.ltb_ge _ _)) by lia.
  rewrite !zget_app_l by lia. unfold h at 1 2 3 4. zgets.
  rewrite !Z.eqb_refl. cbn [negb orb].
  replace (4 + zlen payload + 1 - 1) with (zlen h) by lia.
  replace (4 + zlen payload + 1 =? 4 + zlen payload + 1) with true by (symmetry; apply Z.eqb_refl).
  cbn [negb]. rewrite zget_app_r, Z.sub_diag, zget_0 by lia.
  assert (ztake (zlen h) (h ++ [Sum8 h]) = h) as ->.
  { unfold ztake, zlen. rewrite Nat2Z.id. by rewrite take_app_length. }
  apply Z.eqb_refl.
Qed.
Lemma frame_bytes frame :
  5 <= zlen frame ->
  frame = (zget frame 0 :: zget frame 1 :: zget frame 2 :: zget frame 3 :: subspan frame 4 (zlen frame - 5))
          ++ [zget frame (zlen frame - 1)].
Proof.
  intros H. apply zget_ext.
  - zl.
  - intros i Hi. destruct (decide (i = zlen frame - 1)) as [->|].
    + rewrite zget_app_r; rewrite !zlen_cons, zlen_subspan; [|lia].
      match goal with |- context [zget [_] ?i] => replace i with 0 by lia end. by rewrite zget_0.
    + rewrite zget_app_l by (rewrite !zlen_cons, zlen_subspan; lia).
      destruct (decide (i < 4)).
      * assert (i = 0 \/ i = 1 \/ i = 2 \/ i = 3) as [-> | [-> | [-> | ->]]] by lia; by zgets.
      * rewrite !zget_cons_S by lia. rewrite zget_subspan by lia. f_equal; lia.
Qed.
Lemma HasValidFrame_sound frame r s :
  bytes_ok frame -> HasValidFrame frame r s = true ->
  let payload := subspan frame 4 (zlen frame - 5) in
  5 <= zlen frame /\ zget frame 3 = zlen payload /\ zlen payload <= 255 /\ frame = AddHeader payload s r.
Proof.
  intros Hb Hv payload. revert Hv. unfold HasValidFrame, kHeaderLength, kChecksumLength.
  destruct (Z.ltb_spec (zlen frame) (4 + 1)); [done|].
  destruct (Z.eqb_spec (zlen frame) (4 + zget frame 3 + 1)) as [E|]; [|done]. cbn [negb].
  destruct (Z.eqb_spec (zget frame 0) 0x80) as [E0|]; [|done].
  destruct (Z.eqb_spec (zget frame 1) r) as [E1|]; [|done].
  destruct (Z.eqb_spec (zget frame 2) s) as [E2|]; [|done]. cbn [negb orb]. intros Hsum%Z.eqb_eq.
  assert (zlen payload = zget frame 3) as Hp by (unfold payload; rewrite zlen_subspan; lia).
  pose proof (bytes_ok_zget frame 3 Hb) as H3. unfold byte_ok in H3.
  split_and!; [lia|lia|lia|].
  rewrite AddHeader_bytes; [|unfold payload; auto with bytes|rewrite <- E2; by apply bytes_ok_zget
    |rewrite <- E1; by apply bytes_ok_zget].
  rewrite u8_small, Hp, <- E1, <- E2, <- E0 by (unfold byte_ok; lia).
  rewrite (frame_bytes frame) at 1 by lia. fold payload. f_equal. f_equal. rewrite <- Hsum. f_equal.
  rewrite (frame_bytes frame) at 2 by lia. fold payload. unfold ztake. apply take_app_length'.
  cbn [length]. unfold zlen in *. lia.
Qed.

(** a received frame passes [HasValidFrame] for a receiver and a sender exactly
    when it is what [AddHeader] builds for some payload of at most 255 bytes sent
    by that sender to that receiver; and [HasPayloadPrefix] holds exactly when
    that payload starts with the prefix. *)
Theorem valid_frames_are_built_frames frame prefix r s :
  bytes_ok frame -> byte_ok r -> byte_ok s ->
  (HasValidFrame frame r s = true <->
     exists payload, bytes_ok payload /\ zlen payload <= 255 /\ frame = AddHeader payload s r)
  /\ (HasPayloadPrefix frame prefix r s = true <->
     exists rest, bytes_ok (prefix ++ rest) /\ zlen (prefix ++ rest) <= 255
                  /\ frame = AddHeader (prefix ++ rest) s r).
Proof.
  intros Hb Hr Hs. split; split.
  - intros Hv. destruct (HasValidFrame_sound frame r s Hb Hv) as (? & _ & ? & E).
    eexists. split_and!; [|done|done]. auto with bytes.
  - intros (payload & ? & ? & ->). by apply HasValidFrame_complete.
  - unfold HasPayloadPrefix. destruct (HasValidFrame frame r s) eqn:Hv; [|done]. cbn [negb].
    destruct (HasValidFrame_sound frame r s Hb Hv) as (H5 & H3 & ? & E). rewrite H3.
    destruct (Z.ltb_spec (zlen (subspan frame 4 (zlen frame - 5))) (zlen prefix)) as [|Hp]; [done|].
    intros Hpre%bool_decide_eq_true. pose proof (zlen_nonneg prefix).
    set (payload := subspan frame 4 (zlen frame - 5)) in *.
    assert (prefix ++ zdrop (zlen prefix) payload = payload) as Ep.
    { assert (prefix = ztake (zlen prefix) payload) as Ht.
      { rewrite Hpre at 1. apply zget_ext; [rewrite zlen_ztake; unfold payload in *; rewrite zlen_subspan in Hp; rewrite zlen_subspan, zlen_subspan; lia|]. intros i Hi. rewrite zlen_subspan in Hi.
        rewrite zget_subspan, zget_ztake by lia. unfold payload in *. rewrite zlen_subspan in Hp.
        by rewrite zget_subspan by lia. }
      rewrite Ht at 1. apply take_drop. }
    exists (zdrop (zlen prefix) payload). rewrite Ep. split_and!; [|done|done]. unfold payload. auto with bytes.
  - intros (rest & Hok & Hl & ->). unfold HasPayloadPrefix. rewrite HasValidFrame_complete by done. cbn [negb].
    pose proof (zlen_nonneg rest). pose proof (zlen_nonneg prefix). rewrite zlen_app in Hl.
    rewrite AddHeader_bytes, u8_small by (done || rewrite zlen_app; unfold byte_ok; lia).
    cbn [app]. zgets. rewrite zlen_app. rewrite (proj2 (Z.ltb_ge _ _)) by lia.
    apply bool_decide_eq_true. unfold subspan, zdrop, ztake. change (Z.to_nat 4) with 4%nat.
    cbn [drop]. rewrite <- app_assoc. unfold zlen. rewrite Nat2Z.id.
    by rewrite drop_0, take_app_length.
Qed.
Lemma valid_frames_are_built_frames_witness :
  HasPayloadPrefix [0x80; 0xF0; 0x10; 2; 0xE9; 0x01; 0x6C] [0xE9] 0xF0 0x10 = true
  /\ exists rest, bytes_ok ([0xE9] ++ rest) /\ zlen ([0xE9] ++ rest) <= 255
       /\ [0x80; 0xF0; 0x10; 2; 0xE9; 0x01; 0x6C] = AddHeader ([0xE9] ++ rest) 0x10 0xF0.
Proof.
  assert (HasPayloadPrefix [0x80; 0xF0; 0x10; 2; 0xE9; 0x01; 0x6C] [0xE9] 0xF0 0x10 = true) as H
    by (vm_compute; reflexivity).
  split; [exact H|].
  refine (proj1 (proj2 (valid_frames_are_built_frames [0x80; 0xF0; 0x10; 2; 0xE9; 0x01; 0x6C] [0xE9] 0xF0 0x10 _ _ _)) H);
    unfold byte_ok; [repeat constructor; done|lia|lia].
Defined.
