(* ===== verification/KeyRecovery.v ===== *)
(** * KeyRecovery: [src/algorithms/crypto/subaru_key_recovery.{h,cpp}]

    Recovery of the four round keys of the SSM payload cipher from a plaintext
    ROM and its ciphertext: a linear approximation gives the outer keys, a vote
    over all pairs the inner ones. A [std::vector] the code allocates zeroed at
    full size and only updates by index is a [vec]: a finite map whose absent
    entries are the zeroes. *)
From stdpp Require Import gmap.
From S2P Require Import Prelude Bytes Ssm.

Abbreviation vec := (gmap Z Z).
Definition vget (v : vec) (i : Z) : Z := default 0 (v !! i).
Definition vset (v : vec) (i x : Z) : vec := <[i := x]> v.
Definition vadd (v : vec) (i n : Z) : vec := vset v i (vget v i + n).

(** ** Constants *)
Definition kNybbles : Z := 4.
Definition kSubkeys : Z := 0x20.
Definition kKeySpace : Z := 0x10000.
Definition kAnalyzedBytes : Z := 0x20000.
Definition BitPair : Type := Z * Z.
Definition kInBits (nybble : Z) : BitPair :=
  default (0, 0) (zlookup [(20, 21); (24, 25); (28, 29); (32, 17)] nybble).
Definition kOutBits (nybble : Z) : BitPair :=
  default (0, 0) (zlookup [(11, 8); (15, 12); (3, 16); (7, 4)] nybble).

Inductive Failure : Set := kInputTooShort | kNoMatchingKey.
Record WordPair := { wp_plain : Z; wp_cipher : Z }.
Record Equation := { eq_input : Z; eq_output : Z }.
Record ParityTerm := { pt_constant : Z; pt_word : Z }.
Record Recovery := { rec_keys : list Z; distinct_pairs : Z; reproduced_pairs : Z }.

(** ** Bits and halves *)
Definition Bit (value position : Z) : Z := Z.land (Z.shiftr value (32 - position)) 1.
Definition Bits (value : Z) (positions : BitPair) (offset : Z) : Z :=
  Z.lxor (Bit value (fst positions + offset)) (Bit value (snd positions + offset)).
Definition High (word : Z) : Z := u16 (Z.shiftr word 16).
Definition Low (word : Z) : Z := u16 word.

Definition Candidate (nybble subkey : Z) : Z :=
  let key := u16 (Z.shiftl subkey (12 - nybble * 4)) in
  if (nybble =? 0) && (0xF <? subkey) then u16 (key + 1) else key.
Definition Window (nybble word : Z) : Z :=
  let doubled := Z.lor word (u32 (Z.shiftl word 16)) in
  Z.land (Z.shiftr doubled (12 - nybble * 4)) (kSubkeys - 1).

(** ** The round function and the cipher *)
Definition FFunction (word key : Z) : Z :=
  let index := Z.lxor word key in
  let index := u32 (index + Z.shiftl index 16) in
  let substituted :=
    for_steps (Z.to_nat kNybbles) 0 1
      (fun n substituted =>
         let nibble := zget kIndexTransformationStock (Z.land (Z.shiftr index (n * 4)) 0x1F) in
         u16 (substituted + Z.shiftl nibble (n * 4))) 0 in
  rotr16 substituted 3.
(** [std::rotl] by 16 on 32 bits. *)
Definition rotl32_16 (x : Z) : Z := Z.lor (u32 (Z.shiftl x 16)) (Z.shiftr x 16).
Definition Encrypt (plain : Z) (keys : list Z) : Z :=
  rotl32_16 (fold_left (fun word key =>
    let mixed := u16 (Z.lxor (High word) (FFunction (Low word) key)) in
    Z.lor (Z.shiftl (Low word) 16) mixed) keys plain).

(** ** The pairs *)
Definition DistinctPairs (plain cipher : list Z) : list WordPair :=
  fst (for_steps (Z.to_nat (kAnalyzedBytes / 4)) 0 4
    (fun offset st =>
       let '(pairs, seen) := st in
       let word := ReadU32Be plain offset in
       if decide (word ∈ seen) then (pairs, seen)
       else (pairs ++ [{| wp_plain := word; wp_cipher := ReadU32Be cipher offset |}], {[word]} ∪ seen))
    ([] : list WordPair, ∅ : gset Z)).

(** ** The outer keys *)
(** [grouped[constant][window]]: the rows of the two constants. *)
Definition group_terms (term : WordPair -> Z -> ParityTerm) (nybble : Z) (pairs : list WordPair) : vec * vec :=
  fold_left (fun '(g0, g1) pair =>
    let parity := term pair nybble in
    let w := Window nybble (pt_word parity) in
    if pt_constant parity =? 0 then (vadd g0 w 1, g1) else (g0, vadd g1 w 1)) pairs (∅, ∅).
Definition agreeing_of (grouped : vec * vec) (nybble subkey : Z) : Z :=
  for_steps (Z.to_nat kSubkeys) 0 1
    (fun window agreeing =>
       let output := FFunction (Candidate nybble window) (Candidate nybble subkey) in
       agreeing + vget (if Bits output (kInBits nybble) 0 =? 0 then fst grouped else snd grouped) window) 0.
Definition bias_of (half count : Z) : Z := if half <? count then count - half else half - count.
(** The running best of the scan over subkeys: later ties win. *)
Definition best_subkey (half : Z) (agreeing : Z -> Z) : Z :=
  fst (for_steps (Z.to_nat kSubkeys) 0 1
    (fun subkey st =>
       let '(best, best_bias) := st in
       let bias := bias_of half (agreeing subkey) in
       if best_bias <=? bias then (subkey, bias) else (best, best_bias)) (0, 0)).
Definition MostBiasedKey (pairs : list WordPair) (term : WordPair -> Z -> ParityTerm) : Z :=
  let half := zlen pairs / 2 in
  for_steps (Z.to_nat kNybbles) 0 1
    (fun nybble key =>
       let grouped := group_terms term nybble pairs in
       let best := best_subkey half (agreeing_of grouped nybble) in
       u16 (Z.lor key (Z.shiftl (Z.land best 0xF) (12 - nybble * 4)))) 0.

(** ** The inner keys *)
Record FunctionInverse := { first_ : vec; values_ : vec }.
Definition count_outputs : vec :=
  for_steps (Z.to_nat kKeySpace) 0 1 (fun v counts => vadd counts (FFunction v 0) 1) ∅.
Definition first_offsets (counts : vec) : vec :=
  for_steps (Z.to_nat kKeySpace) 0 1
    (fun output first => vset first (output + 1) (vget first output + vget counts output)) ∅.
(** Places each [v] at the next free slot of its output's run. *)
Definition place_values (first : vec) : vec :=
  snd (for_steps (Z.to_nat kKeySpace) 0 1
    (fun v '(next, values) =>
       let output := FFunction v 0 in
       (vadd next output 1, vset values (vget next output) v)) (first, ∅)).
Definition make_FunctionInverse (_ : unit) : FunctionInverse :=
  let first := first_offsets count_outputs in
  {| first_ := first; values_ := place_values first |}.
Definition Preimages (inverse : FunctionInverse) (output : Z) : list Z :=
  let from := vget (first_ inverse) output in
  map (vget (values_ inverse)) (seqZ from (vget (first_ inverse) (output + 1) - from)).

Definition count_votes (equations : list Equation) (inverse : FunctionInverse) : vec :=
  fold_left (fun votes equation =>
    fold_left (fun votes v => vadd votes (Z.lxor (eq_input equation) v) 1)
      (Preimages inverse (eq_output equation)) votes) equations ∅.
(** [std::ranges::max_element] over the key space: the first of the largest. *)
Definition max_element (votes : vec) : Z :=
  for_steps (Z.to_nat (kKeySpace - 1)) 1 1
    (fun key winner => if vget votes winner <? vget votes key then key else winner) 0.
Definition MajorityKey (equations : list Equation) (inverse : FunctionInverse) : result Failure Z :=
  let votes := count_votes equations inverse in
  let winner := max_element votes in
  if vget votes winner * 2 <=? zlen equations then Err kNoMatchingKey else Ok (u16 winner).

(** ** The recovery *)
Definition k4_term (pair : WordPair) (nybble : Z) : ParityTerm :=
  let p := Z.lxor (Bits (wp_plain pair) (kInBits nybble) 0) (Bits (wp_plain pair) (kOutBits nybble) 0) in
  let c := Bits (wp_cipher pair) (kOutBits nybble) 16 in
  {| pt_constant := Z.lxor (Z.lxor p c) (Bits (High (wp_cipher pair)) (kInBits nybble) 0);
     pt_word := Low (wp_cipher pair) |}.
(** The half before round 4, and the one after round 1. *)
Definition x3_of (k4 : Z) (pair : WordPair) : Z :=
  u16 (Z.lxor (High (wp_cipher pair)) (FFunction (Low (wp_cipher pair)) k4)).
Definition x2_of (k1 : Z) (pair : WordPair) : Z :=
  u16 (Z.lxor (High (wp_plain pair)) (FFunction (Low (wp_plain pair)) k1)).
Definition k1_term (k4 : Z) (pair : WordPair) (nybble : Z) : ParityTerm :=
  let x3 := x3_of k4 pair in
  let p := Bits (wp_plain pair) (kOutBits nybble) 16 in
  let c := Bits x3 (kOutBits nybble) 16 in
  {| pt_constant := Z.lxor (Z.lxor p c) (Bits (High (wp_plain pair)) (kInBits nybble) 0);
     pt_word := Low (wp_plain pair) |}.
Definition k2_equation (k1 k4 : Z) (pair : WordPair) : Equation :=
  {| eq_input := x2_of k1 pair; eq_output := u16 (Z.lxor (x3_of k4 pair) (Low (wp_plain pair))) |}.
Definition k3_equation (k1 k4 : Z) (pair : WordPair) : Equation :=
  {| eq_input := x3_of k4 pair; eq_output := u16 (Z.lxor (x2_of k1 pair) (Low (wp_cipher pair))) |}.
(** What [RecoverKeys] does with the distinct pairs. *)
Definition recover_from_pairs (pairs : list WordPair) : result Failure Recovery :=
  let k4 := MostBiasedKey pairs k4_term in
  let k1 := MostBiasedKey pairs (k1_term k4) in
  let inverse := make_FunctionInverse tt in
  let! k2 := MajorityKey (map (k2_equation k1 k4) pairs) inverse in
  let! k3 := MajorityKey (map (k3_equation k1 k4) pairs) inverse in
  let keys := [k1; k2; k3; k4] in
  let reproduced :=
    zlen (List.filter (fun pair => Encrypt (wp_plain pair) keys =? wp_cipher pair) pairs) in
  Ok {| rec_keys := keys; distinct_pairs := zlen pairs; reproduced_pairs := reproduced |}.
Definition RecoverKeys (plain cipher : list Z) : result Failure Recovery :=
  if (zlen plain <? kAnalyzedBytes) || (zlen cipher <? kAnalyzedBytes) then Err kInputTooShort
  else recover_from_pairs (DistinctPairs plain cipher).

(** ** Lemmas: the round function is four S-box lookups *)
Definition sbox (x : Z) : Z := zget kIndexTransformationStock x.
(** The five bits lookup [n] reads of the doubled word. *)
Definition lookup_bits (v n : Z) : Z := Z.land (Z.shiftr (Z.lor v (Z.shiftl v 16)) (n * 4)) 0x1F.
Definition substitute (v : Z) : Z :=
  sbox (lookup_bits v 0) + 16 * sbox (lookup_bits v 1) + 256 * sbox (lookup_bits v 2)
  + 4096 * sbox (lookup_bits v 3).
Lemma sbox_range x : 0 <= sbox x < 16.
Proof.
  unfold sbox, zget, zlookup. case_decide; [|done].
  destruct (_ !! _) as [y|] eqn:E; [|done]. cbn [default].
  assert (Forall (fun y => 0 <= y < 16) kIndexTransformationStock) as Hf by (repeat constructor; done).
  rewrite list.Forall_lookup in Hf. by apply Hf in E.
Qed.
Lemma substitute_range v : u16_ok (substitute v).
Proof.
  unfold substitute, u16_ok. pose proof (sbox_range (lookup_bits v 0)). pose proof (sbox_range (lookup_bits v 1)).
  pose proof (sbox_range (lookup_bits v 2)). pose proof (sbox_range (lookup_bits v 3)). lia.
Qed.
Lemma doubled v : u16_ok v -> Z.lor v (Z.shiftl v 16) = v * 65537 /\ u32_ok (v * 65537).
Proof.
  intros Hv. rewrite Z.lor_comm, lor_shiftl_add by (unfold u16_ok in *; lia).
  change (2 ^ 16) with 65536. unfold u16_ok, u32_ok in *. lia.
Qed.
Lemma FFunction_substitute w k :
  u16_ok w -> u16_ok k -> FFunction w k = rotr16 (substitute (Z.lxor w k)) 3.
Proof.
  intros Hw Hk. unfold FFunction. change (Z.to_nat kNybbles) with 4%nat. cbv zeta. cbn [for_steps].
  pose proof (u16_lxor_ok w k Hw Hk) as Hv. set (v := Z.lxor w k) in *. destruct (doubled v Hv) as [E HE].
  assert (u32 (v + Z.shiftl v 16) = Z.lor v (Z.shiftl v 16)) as ->.
  { rewrite E, Z.shiftl_mul_pow2 by lia. change (2 ^ 16) with 65536. rewrite u32_small; unfold u32_ok in *; lia. }
  fold (lookup_bits v 0) (lookup_bits v (0 + 1)) (lookup_bits v (0 + 1 + 1)) (lookup_bits v (0 + 1 + 1 + 1)).
  fold (sbox (lookup_bits v 0)) (sbox (lookup_bits v (0 + 1))) (sbox (lookup_bits v (0 + 1 + 1)))
       (sbox (lookup_bits v (0 + 1 + 1 + 1))).
  change (0 + 1 + 1 + 1) with 3. change (0 + 1 + 1) with 2. change (0 + 1) with 1.
  f_equal. unfold substitute. rewrite !Z.shiftl_mul_pow2 by lia.
  change (2 ^ (0 * 4)) with 1. change (2 ^ (1 * 4)) with 16. change (2 ^ (2 * 4)) with 256. change (2 ^ (3 * 4)) with 4096.
  pose proof (sbox_range (lookup_bits v 0)). pose proof (sbox_range (lookup_bits v 1)).
  pose proof (sbox_range (lookup_bits v 2)). pose proof (sbox_range (lookup_bits v 3)).
  do 4 (match goal with |- context [u16 ?x] => lazymatch x with context [u16 _] => fail | _ => rewrite (u16_small x) by (unfold u16_ok; lia) end end); lia.
Qed.
Lemma rotr16_range x : u16_ok x -> u16_ok (rotr16 x 3).
Proof.
  intros Hx. unfold rotr16. rewrite Z.lor_comm, shiftr_div by lia. change (16 - 3) with 13.
  rewrite Z.shiftl_mul_pow2 by lia. change (2 ^ 13) with 8192. change (2 ^ 3) with 8.
  assert (u16 (x * 8192) = Z.shiftl (x mod 8) 13) as ->
    by (rewrite Z.shiftl_mul_pow2 by lia; change (2 ^ 13) with 8192; zmod).
  rewrite lor_shiftl_add; unfold u16_ok in *; change (2 ^ 13) with 8192; zmod.
Qed.
Lemma FFunction_range w k : u16_ok w -> u16_ok k -> u16_ok (FFunction w k).
Proof. intros. rewrite FFunction_substitute by done. apply rotr16_range, substitute_range. Qed.
Lemma FFunction_xor w k : u16_ok w -> u16_ok k -> FFunction w k = FFunction (Z.lxor w k) 0.
Proof.
  intros Hw Hk. rewrite !FFunction_substitute, Z.lxor_0_r; try done. by apply u16_lxor_ok.
Qed.

(** The stock pair table gives the same round function, so [Encrypt] is the
    payload cipher. *)
Lemma stock_pair j :
  zget kStockPairTable (Z.land j 0x1FF) = sbox (Z.land j 0x1F) + 16 * sbox (Z.land (Z.shiftr j 4) 0x1F).
Proof.
  unfold kStockPairTable, BuildPairTable. rewrite zget_map_seqZ.
  - rewrite <- Z.land_assoc, Z.shiftr_land, <- Z.land_assoc.
    change (Z.land 511 31) with 31. change (Z.land (Z.shiftr 511 4) 31) with 31.
    fold (sbox (Z.land j 31)) (sbox (Z.land (Z.shiftr j 4) 31)).
    pose proof (sbox_range (Z.land j 31)). pose proof (sbox_range (Z.land (Z.shiftr j 4) 31)).
    rewrite Z.shiftl_mul_pow2 by lia. change (2 ^ 4) with 16. rewrite u16_small; unfold u16_ok; lia.
  - change 511 with (Z.ones 9). rewrite Z.land_ones by lia. apply Z.mod_pos_bound. lia.
Qed.
Lemma round_key_FFunction lo key :
  u16_ok lo -> u16_ok key -> round_key kStockPairTable lo key = FFunction lo key.
Proof.
  intros Hl Hk. rewrite FFunction_substitute by done. unfold round_key.
  pose proof (u16_lxor_ok lo key Hl Hk) as Hv. rewrite (u16_small (Z.lxor lo key)) by done.
  set (v := Z.lxor lo key) in *. f_equal.
  rewrite (u32_small (Z.shiftl v 16)) by
    (rewrite Z.shiftl_mul_pow2 by lia; change (2 ^ 16) with 65536; unfold u16_ok, u32_ok in *; lia).
  rewrite !stock_pair, Z.shiftr_shiftr by lia. change (8 + 4) with 12.
  unfold substitute. set (d := Z.lor v (Z.shiftl v 16)).
  change (Z.land d 31) with (Z.land (Z.shiftr d 0) 31). unfold lookup_bits. fold d.
  change (0 * 4) with 0. change (1 * 4) with 4. change (2 * 4) with 8. change (3 * 4) with 12.
  pose proof (sbox_range (Z.land (Z.shiftr d 0) 31)). pose proof (sbox_range (Z.land (Z.shiftr d 4) 31)).
  pose proof (sbox_range (Z.land (Z.shiftr d 8) 31)). pose proof (sbox_range (Z.land (Z.shiftr d 12) 31)).
  rewrite Z.shiftl_mul_pow2 by lia. change (2 ^ 8) with 256. rewrite u16_small; unfold u16_ok; lia.
Qed.
Definition join (st : Z * Z) : Z := snd st * 65536 + fst st.
Lemma join_split st : halves_ok st -> Low (join st) = fst st /\ High (join st) = snd st.
Proof.
  destruct st as [lo hi]. intros [Hl Hh]. unfold join, Low, High. cbn [fst snd] in *.
  rewrite shiftr_div by lia. change (2 ^ 16) with 65536. split; zmod.
Qed.
Lemma Encrypt_round st key :
  halves_ok st -> u16_ok key ->
  Z.lor (Z.shiftl (Low (join st)) 16) (u16 (Z.lxor (High (join st)) (FFunction (Low (join st)) key)))
  = join (transform_round kStockPairTable st key).
Proof.
  intros Hst Hk. destruct (join_split st Hst) as [-> ->]. destruct st as [lo hi]. destruct Hst as [Hl Hh].
  cbn [fst snd] in *. rewrite lor_shiftl_add by (lia || apply u16_range). unfold join, transform_round.
  cbn [fst snd]. rewrite round_key_FFunction by done. by rewrite Z.lxor_comm.
Qed.
Lemma Encrypt_TransformWord w keys :
  u32_ok w -> Forall u16_ok keys -> Encrypt w keys = TransformWord false w keys kStockPairTable.
Proof.
  intros Hw Hk. rewrite TransformWord_halves. cbv zeta. unfold Encrypt.
  assert (forall st, halves_ok st ->
    fold_left (fun word key => Z.lor (Z.shiftl (Low word) 16) (u16 (Z.lxor (High word) (FFunction (Low word) key))))
      keys (join st) = join (fold_left (transform_round kStockPairTable) keys st)) as Hf.
  { induction Hk as [|key keys Hkey _ IH]; intros st Hst; [done|]. cbn [fold_left].
    rewrite Encrypt_round by done. by apply IH, transform_round_ok. }
  assert (halves_ok (u16 w, u16 (w / 65536))) as H0 by (split; apply u16_range).
  replace w with (join (u16 w, u16 (w / 65536))) at 1 by (unfold join; cbn [fst snd]; zmod).
  cbv zeta. rewrite Hf by done.
  pose proof (fold_rounds_ok kStockPairTable keys _ H0) as [Hl Hh].
  destruct (fold_left _ _ _) as [lo hi]. cbn [fst snd] in *. unfold rotl32_16, join. cbn [fst snd].
  rewrite shiftr_div, Z.shiftl_mul_pow2 by lia. change (2 ^ 16) with 65536.
  assert (u32 ((hi * 65536 + lo) * 65536) = Z.shiftl lo 16) as ->.
  { rewrite Z.shiftl_mul_pow2 by lia. change (2 ^ 16) with 65536. zmod. }
  rewrite lor_shiftl_add by (lia || zmod). change (2 ^ 16) with 65536. zmod.
Qed.

(** ** Lemmas: a nybble's parity reads one S-box *)
Lemma Bit_testbit v p : p <= 32 -> Bit v p = Z.b2z (Z.testbit v (32 - p)).
Proof.
  intros Hp. unfold Bit. change 1 with (Z.ones 1) at 1. rewrite Z.land_ones, shiftr_div by lia.
  change (2 ^ 1) with 2. by rewrite Z.testbit_spec' by lia.
Qed.
Lemma rotr16_testbit s b :
  u16_ok s -> 0 <= b < 16 ->
  Z.testbit (rotr16 s 3) b = Z.testbit s (if b <? 13 then b + 3 else b - 13).
Proof.
  intros Hs Hb. unfold rotr16, u16. change 65536 with (2 ^ 16). rewrite <- Z.land_ones by lia.
  rewrite Z.lor_spec, Z.land_spec, Z.shiftr_spec, Z.shiftl_spec, Z.testbit_ones_nonneg by lia.
  change (16 - 3) with 13. rewrite (proj2 (Z.ltb_lt b 16)) by lia. rewrite andb_true_r.
  destruct (Z.ltb_spec b 13).
  - by rewrite (Z.testbit_neg_r s (b - 13)), orb_false_r by lia.
  - by rewrite (testbit_high s 16 (b + 3)) by (unfold u16_ok in Hs; lia).
Qed.
(** The parity of lookup [x]: its two high bits. *)
Definition sbox_parity (x : Z) : Z := Z.lxor (Z.b2z (Z.testbit (sbox x) 3)) (Z.b2z (Z.testbit (sbox x) 2)).
Lemma substitute_testbit v n i :
  0 <= n < 4 -> 0 <= i < 4 ->
  Z.testbit (substitute v) (4 * n + i) = Z.testbit (sbox (lookup_bits v n)) i.
Proof.
  intros Hn Hi.
  assert (Z.testbit (substitute v) (4 * n + i) = Z.testbit (Z.land (Z.shiftr (substitute v) (4 * n)) (Z.ones 4)) i) as ->.
  { rewrite Z.land_spec, Z.shiftr_spec, Z.testbit_ones_nonneg by lia.
    rewrite (proj2 (Z.ltb_lt i 4)) by lia. rewrite andb_true_r. f_equal. lia. }
  f_equal. rewrite Z.land_ones, shiftr_div by lia. unfold substitute.
  pose proof (sbox_range (lookup_bits v 0)). pose proof (sbox_range (lookup_bits v 1)).
  pose proof (sbox_range (lookup_bits v 2)). pose proof (sbox_range (lookup_bits v 3)).
  assert (n = 0 \/ n = 1 \/ n = 2 \/ n = 3) as [-> | [-> | [-> | ->]]] by lia;
    [change (2 ^ (4 * 0)) with 1|change (2 ^ (4 * 1)) with 16|change (2 ^ (4 * 2)) with 256
    |change (2 ^ (4 * 3)) with 4096]; change (2 ^ 4) with 16; zmod.
Qed.
Lemma Window_lookup_bits n v : u16_ok v -> Window n v = lookup_bits v (3 - n).
Proof.
  intros Hv. unfold Window, lookup_bits, kSubkeys. rewrite u32_small.
  - by replace ((3 - n) * 4) with (12 - n * 4) by lia.
  - rewrite Z.shiftl_mul_pow2 by lia. change (2 ^ 16) with 65536. unfold u16_ok, u32_ok in *. lia.
Qed.
Lemma nybble_cases n : 0 <= n < kNybbles -> n = 0 \/ n = 1 \/ n = 2 \/ n = 3.
Proof. unfold kNybbles. lia. Qed.
Lemma Bits_FFunction w k n :
  u16_ok w -> u16_ok k -> 0 <= n < kNybbles ->
  Bits (FFunction w k) (kInBits n) 0 = sbox_parity (Window n (Z.lxor w k)).
Proof.
  intros Hw Hk Hn. rewrite FFunction_substitute, Window_lookup_bits by (done || by apply u16_lxor_ok).
  set (v := Z.lxor w k). unfold Bits, sbox_parity. pose proof (substitute_range v) as Hs.
  destruct (nybble_cases n Hn) as [-> | [-> | [-> | ->]]].
  all: match goal with |- context [kInBits ?m] => let p := eval vm_compute in (kInBits m) in change (kInBits m) with p end.
  all: cbn [fst snd]; rewrite !Bit_testbit, !rotr16_testbit by (done || lia).
  all: rewrite <- !substitute_testbit by lia; reflexivity.
Qed.
Lemma Window_testbit n v i :
  u16_ok v -> 0 <= n < kNybbles -> 0 <= i ->
  Z.testbit (Window n v) i =
    (i <? 5) && Z.testbit v (let j := i + (12 - n * 4) in if j <? 16 then j else j - 16).
Proof.
  intros Hv Hn Hi. unfold kNybbles in Hn. unfold Window, kSubkeys. change (0x20 - 1) with (Z.ones 5).
  rewrite Z.land_spec, Z.testbit_ones_nonneg, andb_comm by lia. destruct (Z.ltb_spec i 5); [|done]. cbn [andb].
  rewrite u32_small by
    (rewrite Z.shiftl_mul_pow2 by lia; change (2 ^ 16) with 65536; unfold u16_ok, u32_ok in *; lia).
  rewrite Z.shiftr_spec, Z.lor_spec, Z.shiftl_spec by lia. cbv zeta.
  destruct (Z.ltb_spec (i + (12 - n * 4)) 16).
  - by rewrite (Z.testbit_neg_r v (_ - 16)), orb_false_r by lia.
  - by rewrite (testbit_high v 16 (i + _)) by (unfold u16_ok in Hv; lia).
Qed.
Lemma Window_lxor n a b :
  u16_ok a -> u16_ok b -> 0 <= n < kNybbles -> Window n (Z.lxor a b) = Z.lxor (Window n a) (Window n b).
Proof.
  intros Ha Hb Hn. apply Z.bits_inj'. intros i Hi.
  rewrite Z.lxor_spec, !Window_testbit, Z.lxor_spec by (done || by apply u16_lxor_ok).
  by destruct (i <? 5).
Qed.
Lemma Window_range n v : 0 <= Window n v < kSubkeys.
Proof.
  unfold Window, kSubkeys. change (0x20 - 1) with (Z.ones 5). rewrite Z.land_ones by lia.
  change (2 ^ 5) with 32. apply Z.mod_pos_bound. lia.
Qed.
Lemma Candidate_facts n x :
  0 <= n < kNybbles -> 0 <= x < kSubkeys -> u16_ok (Candidate n x) /\ Window n (Candidate n x) = x.
Proof.
  intros Hn Hx.
  pose (P := fun y => (0 <=? Candidate n y) && (Candidate n y <? 65536) && (Window n (Candidate n y) =? y)).
  assert (P x = true) as H.
  { apply (forall_range P 32); [|done]. unfold P.
    destruct (nybble_cases n Hn) as [-> | [-> | [-> | ->]]]; vm_compute; reflexivity. }
  unfold P in H. rewrite !andb_true_iff, Z.leb_le, Z.ltb_lt, Z.eqb_eq in H. unfold u16_ok. tauto.
Qed.
(** A term's parity under a candidate is that of its window. *)
Lemma parity_of_window w n subkey :
  u16_ok w -> 0 <= n < kNybbles -> 0 <= subkey < kSubkeys ->
  Bits (FFunction (Candidate n (Window n w)) (Candidate n subkey)) (kInBits n) 0
  = Bits (FFunction w (Candidate n subkey)) (kInBits n) 0.
Proof.
  intros Hw Hn Hs. destruct (Candidate_facts n subkey Hn Hs) as [Hc Ec].
  destruct (Candidate_facts n (Window n w) Hn (Window_range n w)) as [Hc' Ec'].
  by rewrite !Bits_FFunction, !Window_lxor, Ec' by done.
Qed.

(** ** Lemmas: counting *)
Lemma vget_vset v i x j : vget (vset v i x) j = if i =? j then x else vget v j.
Proof.
  unfold vget, vset. destruct (Z.eqb_spec i j) as [->|]; [by rewrite lookup_insert_eq|].
  by rewrite lookup_insert_ne.
Qed.
Lemma vget_vadd v i n j : vget (vadd v i n) j = vget v j + (if i =? j then n else 0).
Proof. unfold vadd. rewrite vget_vset. destruct (Z.eqb_spec i j) as [->|]; lia. Qed.
Lemma vget_empty i : vget ∅ i = 0.
Proof. unfold vget. by rewrite lookup_empty. Qed.
Lemma for_steps_sum_add n i (f g : Z -> Z) a b :
  for_steps n i 1 (fun w acc => acc + (f w + g w)) (a + b)
  = for_steps n i 1 (fun w acc => acc + f w) a + for_steps n i 1 (fun w acc => acc + g w) b.
Proof.
  revert i a b. induction n as [|n IH]; intros i a b; cbn [for_steps]; [done|].
  rewrite <- IH. f_equal. lia.
Qed.
Lemma for_steps_delta n i (f : Z -> Z) w a :
  i <= w < i + Z.of_nat n -> for_steps n i 1 (fun k acc => acc + (if w =? k then f k else 0)) a = a + f w.
Proof.
  intros Hw.
  pose proof (for_steps_inv (fun k acc => acc = a + (if w <? k then f w else 0)) n i
    (fun k acc => acc + (if w =? k then f k else 0)) a) as H.
  rewrite H.
  - rewrite (proj2 (Z.ltb_lt w _)) by lia. done.
  - rewrite (proj2 (Z.ltb_ge w i)) by lia. lia.
  - intros k s Hk ->. destruct (Z.eqb_spec w k) as [->|].
    + rewrite (proj2 (Z.ltb_ge k k)), (proj2 (Z.ltb_lt k (k + 1))) by lia. lia.
    + destruct (Z.ltb_spec w k); destruct (Z.ltb_spec w (k + 1)); lia.
Qed.

(** ** Lemmas: counting the groups counts the pairs *)
(** How many pairs have parity zero under a candidate, pair by pair. *)
Definition agreeing_pairs (term : WordPair -> Z -> ParityTerm) (pairs : list WordPair) (nybble subkey : Z) : Z :=
  zlen (List.filter (fun pair =>
    let t := term pair nybble in
    Z.lxor (pt_constant t) (Bits (FFunction (pt_word t) (Candidate nybble subkey)) (kInBits nybble) 0) =? 0) pairs).
(** [MostBiasedKey] without the grouping. *)
Definition most_biased_key (pairs : list WordPair) (term : WordPair -> Z -> ParityTerm) : Z :=
  for_steps (Z.to_nat kNybbles) 0 1
    (fun nybble key =>
       let best := best_subkey (zlen pairs / 2) (agreeing_pairs term pairs nybble) in
       u16 (Z.lor key (Z.shiftl (Z.land best 0xF) (12 - nybble * 4)))) 0.
(** The terms the code builds: a one-bit constant and a 16-bit word. *)
Definition term_ok (term : WordPair -> Z -> ParityTerm) : Prop :=
  forall pair nybble, 0 <= nybble < kNybbles ->
    (pt_constant (term pair nybble) = 0 \/ pt_constant (term pair nybble) = 1)
    /\ u16_ok (pt_word (term pair nybble)).
Definition term_agrees (term : WordPair -> Z -> ParityTerm) (nybble subkey : Z) (pair : WordPair) : bool :=
  let t := term pair nybble in
  Z.lxor (pt_constant t) (Bits (FFunction (pt_word t) (Candidate nybble subkey)) (kInBits nybble) 0) =? 0.
Lemma Bits_bit v p o : Bits v p o = 0 \/ Bits v p o = 1.
Proof.
  unfold Bits, Bit.
  assert (forall x, Z.land x 1 = 0 \/ Z.land x 1 = 1) as H.
  { intros x. change 1 with (Z.ones 1). rewrite Z.land_ones by lia. change (2 ^ 1) with 2. change (Z.ones 1) with 1. zmod. }
  destruct (H (Z.shiftr v (32 - (fst p + o)))) as [-> | ->]; destruct (H (Z.shiftr v (32 - (snd p + o)))) as [-> | ->];
    auto.
Qed.
Lemma agreeing_of_add g0 g1 n subkey c w :
  u16_ok w -> (c = 0 \/ c = 1) -> 0 <= n < kNybbles -> 0 <= subkey < kSubkeys ->
  agreeing_of (if c =? 0 then (vadd g0 (Window n w) 1, g1) else (g0, vadd g1 (Window n w) 1)) n subkey
  = agreeing_of (g0, g1) n subkey
    + (if Z.lxor c (Bits (FFunction w (Candidate n subkey)) (kInBits n) 0) =? 0 then 1 else 0).
Proof.
  intros Hw Hc Hn Hs. rewrite <- parity_of_window by done.
  pose (par := fun k => Bits (FFunction (Candidate n k) (Candidate n subkey)) (kInBits n) 0).
  pose (f := fun k => if Z.lxor c (par k) =? 0 then 1 else 0).
  pose proof (for_steps_delta (Z.to_nat kSubkeys) 0 f (Window n w) 0) as Hd.
  pose proof (Window_range n w) as Hr. unfold kSubkeys in Hr.
  rewrite (Z.add_0_l (f _)) in Hd. change (Bits _ _ _) with (par (Window n w)). change (if _ =? 0 then 1 else 0) with (f (Window n w)) at 1.
  rewrite <- Hd by (change (Z.of_nat (Z.to_nat kSubkeys)) with 32; lia).
  unfold agreeing_of. rewrite <- for_steps_sum_add. apply for_steps_ext. intros k acc _. f_equal.
  change (Bits _ _ _) with (par k). unfold f.
  destruct (Bits_bit (FFunction (Candidate n k) (Candidate n subkey)) (kInBits n) 0) as [E|E]; fold (par k) in E; rewrite E;
    destruct Hc as [-> | ->]; cbn [Z.eqb fst snd Z.lxor]; rewrite ?vget_vadd.
  all: match goal with |- context [Z.lxor ?a ?b =? 0] => let r := eval vm_compute in (Z.lxor a b =? 0) in change (Z.lxor a b =? 0) with r end.
  all: destruct (Window n w =? k); lia.
Qed.
Lemma agreeing_of_groups term pairs n subkey :
  term_ok term -> 0 <= n < kNybbles -> 0 <= subkey < kSubkeys ->
  agreeing_of (group_terms term n pairs) n subkey = agreeing_pairs term pairs n subkey.
Proof.
  intros Ht Hn Hs. unfold group_terms.
  enough (forall g0 g1, agreeing_of (fold_left (fun '(g0, g1) pair =>
      let parity := term pair n in
      let w := Window n (pt_word parity) in
      if pt_constant parity =? 0 then (vadd g0 w 1, g1) else (g0, vadd g1 w 1)) pairs (g0, g1)) n subkey
    = agreeing_of (g0, g1) n subkey + agreeing_pairs term pairs n subkey) as ->.
  { replace (agreeing_of (∅, ∅) n subkey) with 0; [lia|]. symmetry. unfold agreeing_of.
    apply (for_steps_inv (fun _ acc => acc = 0)); [done|]. intros k acc _ ->.
    destruct (_ =? 0); cbn [fst snd]; by rewrite vget_empty. }
  unfold agreeing_pairs. induction pairs as [|pair pairs IH]; intros g0 g1; cbn [fold_left List.filter].
  { rewrite zlen_nil. lia. }
  destruct (Ht pair n Hn) as [Hc Hw]. cbv zeta.
  pose proof (agreeing_of_add g0 g1 n subkey _ _ Hw Hc Hn Hs) as Ha.
  destruct (if pt_constant (term pair n) =? 0 then _ else _) as [h0 h1].
  rewrite IH, Ha. destruct (_ =? 0); rewrite ?zlen_cons; lia.
Qed.
Lemma best_subkey_ext half f g :
  (forall k, 0 <= k < kSubkeys -> f k = g k) -> best_subkey half f = best_subkey half g.
Proof.
  intros H. unfold best_subkey. f_equal. apply for_steps_ext. intros k [best bias] Hk.
  by rewrite H by (change (Z.of_nat (Z.to_nat kSubkeys)) with kSubkeys in Hk; lia).
Qed.
(** The scan keeps the last subkey of largest bias. *)
Lemma best_subkey_spec half f :
  let best := best_subkey half f in
  0 <= best < kSubkeys
  /\ (forall k, 0 <= k < kSubkeys -> bias_of half (f k) <= bias_of half (f best))
  /\ (forall k, best < k < kSubkeys -> bias_of half (f k) < bias_of half (f best)).
Proof.
  assert (forall k, 0 <= bias_of half (f k)) as Hpos
    by (intros k; unfold bias_of; destruct (Z.ltb_spec half (f k)); lia).
  unfold best_subkey.
  pose proof (for_steps_inv (fun m (st : Z * Z) => let '(best, bias) := st in
    (m = 0 /\ bias = 0) \/ (0 <= best < m /\ bias = bias_of half (f best)
      /\ (forall k, 0 <= k < m -> bias_of half (f k) <= bias)
      /\ (forall k, best < k < m -> bias_of half (f k) < bias))) (Z.to_nat kSubkeys) 0
    (fun subkey '(best, best_bias) =>
       let bias := bias_of half (f subkey) in
       if best_bias <=? bias then (subkey, bias) else (best, best_bias)) (0, 0)) as H.
  cbn zeta in *. destruct (for_steps _ _ _ _ _) as [best bias]. cbn [fst].
  change (0 + Z.of_nat (Z.to_nat kSubkeys)) with kSubkeys in H.
  destruct H as [[Hm _]|(Hb & -> & Hle & Hlt)]; [by left| |done|done].
  intros m [best' bias'] Hm Hinv. destruct (Z.leb_spec bias' (bias_of half (f m))) as [Hle|Hgt]; right.
  - split_and!; [lia|lia|done| |lia]. intros k Hk. destruct (decide (k = m)) as [->|]; [lia|].
    destruct Hinv as [[-> ->]|(_ & _ & Hall & _)]; [lia|]. specialize (Hall k). lia.
  - destruct Hinv as [[-> ->]|(Hb & -> & Hall & Hafter)]; [specialize (Hpos 0); lia|].
    split_and!; [lia|lia|done| |]; intros k Hk; (destruct (decide (k = m)) as [->|]; [lia|]).
    + apply Hall. lia.
    + apply Hafter. lia.
Qed.
Lemma MostBiasedKey_direct_lemma pairs term :
  term_ok term -> MostBiasedKey pairs term = most_biased_key pairs term.
Proof.
  intros Ht. unfold MostBiasedKey, most_biased_key. apply for_steps_ext. intros n key Hn.
  change (0 + Z.of_nat (Z.to_nat kNybbles)) with kNybbles in Hn.
  cbv zeta. erewrite best_subkey_ext; [done|]. intros k Hk. by apply agreeing_of_groups.
Qed.
Lemma lor_nybble k b s :
  0 <= s -> 0 <= b < 16 -> 0 <= k -> u16_ok (k * 2 ^ (s + 4) + b * 2 ^ s) ->
  u16 (Z.lor (k * 2 ^ (s + 4)) (Z.shiftl b s)) = (k * 16 + b) * 2 ^ s.
Proof.
  intros Hs Hb Hk Hr. assert (0 < 2 ^ s) by lia.
  assert (2 ^ (s + 4) = 2 ^ s * 16) as E by (by rewrite Z.pow_add_r by lia).
  rewrite <- (Z.shiftl_mul_pow2 k), (Z.shiftl_mul_pow2 b) by lia.
  rewrite lor_shiftl_add by (rewrite ?E; nia). rewrite u16_small by done. rewrite E. lia.
Qed.
Lemma key_nybbles b0 b1 b2 b3 :
  0 <= b0 < 16 -> 0 <= b1 < 16 -> 0 <= b2 < 16 -> 0 <= b3 < 16 ->
  u16 (Z.lor (u16 (Z.lor (u16 (Z.lor (u16 (Z.lor 0 (Z.shiftl b0 12))) (Z.shiftl b1 8))) (Z.shiftl b2 4))) (Z.shiftl b3 0))
  = ((b0 * 16 + b1) * 16 + b2) * 16 + b3.
Proof.
  intros H0 H1 H2 H3.
  change 0 with (0 * 2 ^ (12 + 4)) at 1. rewrite lor_nybble by (unfold u16_ok; lia).
  change (2 ^ 12) with (2 ^ (8 + 4)). rewrite lor_nybble by (unfold u16_ok; lia).
  change (2 ^ 8) with (2 ^ (4 + 4)). rewrite lor_nybble by (unfold u16_ok; lia).
  change (2 ^ 4) with (2 ^ (0 + 4)) at 1. rewrite lor_nybble by (unfold u16_ok; lia). lia.
Qed.

(** the grouped linear-approximation vote picks, for each nybble of the key, the
    subkey a count over the individual pairs would pick: the one whose number of
    agreeing pairs strays furthest from half of them, the highest on a tie; the
    key's nybble is its low four bits. *)
Theorem MostBiasedKey_counts_pairs pairs term nybble :
  term_ok term -> 0 <= nybble < kNybbles ->
  let key := MostBiasedKey pairs term in
  let bias subkey := bias_of (zlen pairs / 2) (agreeing_pairs term pairs nybble subkey) in
  u16_ok key /\ exists best, 0 <= best < kSubkeys
    /\ (forall subkey, 0 <= subkey < kSubkeys -> bias subkey <= bias best)
    /\ (forall subkey, best < subkey < kSubkeys -> bias subkey < bias best)
    /\ Z.land (Z.shiftr key (12 - nybble * 4)) 0xF = Z.land best 0xF.
Proof.
  intros Ht Hn key bias.
  pose (b := fun n => best_subkey (zlen pairs / 2) (agreeing_pairs term pairs n)).
  assert (key = ((Z.land (b 0) 15 * 16 + Z.land (b 1) 15) * 16 + Z.land (b 2) 15) * 16 + Z.land (b 3) 15
    /\ forall n, 0 <= Z.land (b n) 15 < 16) as [Ek Hb].
  { assert (forall n, 0 <= Z.land (b n) 15 < 16) as Hb.
    { intros n. change 15 with (Z.ones 4). rewrite Z.land_ones by lia. apply Z.mod_pos_bound. lia. }
    split; [|done]. unfold key. rewrite MostBiasedKey_direct_lemma by done. unfold most_biased_key.
    change (Z.to_nat kNybbles) with 4%nat. cbn [for_steps].
    change (0 + 1 + 1 + 1) with 3. change (0 + 1 + 1) with 2. change (0 + 1) with 1. cbv zeta.
    change (12 - 0 * 4) with 12. change (12 - 1 * 4) with 8. change (12 - 2 * 4) with 4. change (12 - 3 * 4) with 0.
    apply key_nybbles; apply Hb. }
  pose proof (Hb 0). pose proof (Hb 1). pose proof (Hb 2). pose proof (Hb 3).
  split; [rewrite Ek; unfold u16_ok; lia|]. exists (b nybble).
  destruct (best_subkey_spec (zlen pairs / 2) (agreeing_pairs term pairs nybble)) as (H4 & H5 & H6).
  split; [exact H4|split; [exact H5|split; [exact H6|]]].
  rewrite Ek. change 15 with (Z.ones 4) at 5. rewrite Z.land_ones, shiftr_div by (unfold kNybbles in Hn; lia).
  clear - H H0 H1 H2 Hn. destruct (nybble_cases nybble Hn) as [-> | [-> | [-> | ->]]];
    [change (2 ^ (12 - 0 * 4)) with 4096|change (2 ^ (12 - 1 * 4)) with 256
    |change (2 ^ (12 - 2 * 4)) with 16|change (2 ^ (12 - 3 * 4)) with 1]; change (2 ^ 4) with 16; zmod.
Qed.
(** The two terms of the recovery are such terms. *)
Lemma lxor_bit a b : (a = 0 \/ a = 1) -> (b = 0 \/ b = 1) -> Z.lxor a b = 0 \/ Z.lxor a b = 1.
Proof. intros [-> | ->] [-> | ->]; auto. Qed.
Lemma k4_term_ok : term_ok k4_term.
Proof.
  intros pair n Hn. split; [|apply u16_range]. unfold k4_term. cbn [pt_constant].
  repeat (apply Bits_bit || apply lxor_bit).
Qed.
Lemma k1_term_ok k4 : term_ok (k1_term k4).
Proof.
  intros pair n Hn. split; [|apply u16_range]. unfold k1_term. cbn [pt_constant].
  repeat (apply Bits_bit || apply lxor_bit).
Qed.
Lemma MostBiasedKey_counts_pairs_witness :
  exists best, Z.land (Z.shiftr (MostBiasedKey [{| wp_plain := 0x12345678; wp_cipher := 0x9ABCDEF0 |}] k4_term) 8) 0xF
    = Z.land best 0xF.
Proof.
  destruct (proj2 (MostBiasedKey_counts_pairs [{| wp_plain := 0x12345678; wp_cipher := 0x9ABCDEF0 |}] k4_term 1
    k4_term_ok ltac:(unfold kNybbles; lia))) as (best & _ & _ & _ & H).
  exists best. exact H.
Defined.

(** ** Lemmas: the inverse is a counting sort *)
Section counting_sort.
Context (f : Z -> Z) (K : Z).
(** The values below [m] with a given output, in order. *)
Definition preimage (m output : Z) : list Z := List.filter (fun v => f v =? output) (seqZ 0 m).
(** How many values of the whole range have a smaller output. *)
Definition below (output : Z) : Z := zlen (List.filter (fun v => f v <? output) (seqZ 0 K)).
Lemma preimage_S m output :
  0 <= m -> preimage (m + 1) output = preimage m output ++ (if f m =? output then [m] else []).
Proof.
  intros Hm. unfold preimage. rewrite seqZ_app by lia. cbn [Z.add]. rewrite List.filter_app. f_equal.
Qed.
Lemma zlen_preimage_mono m m' output : 0 <= m <= m' -> zlen (preimage m output) <= zlen (preimage m' output).
Proof.
  intros Hm. unfold preimage. replace m' with (m + (m' - m)) by lia. rewrite seqZ_app, List.filter_app, zlen_app by lia.
  pose proof (zlen_nonneg (List.filter (fun v => f v =? output) (seqZ (0 + m) (m' - m)))). lia.
Qed.
Lemma filter_below_S l output :
  zlen (List.filter (fun v => f v <? output + 1) l)
  = zlen (List.filter (fun v => f v <? output) l) + zlen (List.filter (fun v => f v =? output) l).
Proof.
  induction l as [|v l IH]; cbn [List.filter]; [done|].
  destruct (Z.ltb_spec (f v) (output + 1)), (Z.ltb_spec (f v) output), (Z.eqb_spec (f v) output);
    rewrite ?zlen_cons; lia.
Qed.
Lemma below_S output : below (output + 1) = below output + zlen (preimage K output).
Proof. apply filter_below_S. Qed.
Lemma below_mono a b : a <= b -> below a <= below b.
Proof.
  intros Hab. unfold below. generalize (seqZ 0 K). intros l.
  induction l as [|v l IH]; cbn [List.filter]; [lia|].
  destruct (Z.ltb_spec (f v) a), (Z.ltb_spec (f v) b); rewrite ?zlen_cons; lia.
Qed.
Context (Hf : forall v, 0 <= v < K -> 0 <= f v < K) (HK : 0 <= K).
Lemma counts_spec :
  forall output, vget (for_steps (Z.to_nat K) 0 1 (fun v counts => vadd counts (f v) 1) ∅) output
                 = zlen (preimage K output).
Proof.
  pose proof (for_steps_inv (fun m counts => 0 <= m /\ forall output, vget counts output = zlen (preimage m output))
    (Z.to_nat K) 0 (fun v counts => vadd counts (f v) 1) ∅) as H.
  rewrite Z2Nat.id, Z.add_0_l in H by lia. apply H.
  - split; [lia|]. intros output. by rewrite vget_empty.
  - intros m counts Hm [_ Hc]. split; [lia|]. intros output.
    rewrite vget_vadd, Hc, preimage_S, zlen_app by lia. by destruct (f m =? output).
Qed.
Lemma offsets_spec counts :
  (forall output, vget counts output = zlen (preimage K output)) ->
  forall output, 0 <= output <= K ->
  vget (for_steps (Z.to_nat K) 0 1
    (fun output first => vset first (output + 1) (vget first output + vget counts output)) ∅) output = below output.
Proof.
  intros Hc.
  pose proof (for_steps_inv (fun m first => forall output, 0 <= output <= m -> vget first output = below output)
    (Z.to_nat K) 0 (fun output first => vset first (output + 1) (vget first output + vget counts output)) ∅) as H.
  rewrite Z2Nat.id, Z.add_0_l in H by lia. apply H.
  - intros output Ho. replace output with 0 by lia. rewrite vget_empty. symmetry. unfold below.
    assert (forall l, Forall (fun v => 0 <= f v) l -> List.filter (fun v => f v <? 0) l = []) as E.
    { induction 1 as [|v l Hv _ IH]; [done|]. cbn [List.filter]. by rewrite (proj2 (Z.ltb_ge _ _)) by lia. }
    rewrite E; [done|]. apply list.Forall_forall. intros v Hv%elem_of_seqZ. apply Hf. lia.
  - intros m first Hm Hfirst output Ho. rewrite vget_vset. destruct (Z.eqb_spec (m + 1) output) as [<-|].
    + rewrite Hfirst, Hc, below_S by lia. done.
    + apply Hfirst. lia.
Qed.
Lemma placed_spec first :
  (forall output, 0 <= output <= K -> vget first output = below output) ->
  let values := snd (for_steps (Z.to_nat K) 0 1
    (fun v '(next, values) => (vadd next (f v) 1, vset values (vget next (f v)) v)) (first, ∅)) in
  forall output j, 0 <= output < K -> 0 <= j < zlen (preimage K output) ->
    vget values (below output + j) = zget (preimage K output) j.
Proof.
  intros Hfirst.
  pose proof (for_steps_inv (fun m (st : vec * vec) => forall output, 0 <= output < K ->
      vget (fst st) output = below output + zlen (preimage m output)
      /\ forall j, 0 <= j < zlen (preimage m output) -> vget (snd st) (below output + j) = zget (preimage m output) j)
    (Z.to_nat K) 0 (fun v '(next, values) => (vadd next (f v) 1, vset values (vget next (f v)) v)) (first, ∅)) as H.
  rewrite Z2Nat.id, Z.add_0_l in H by lia. intros values output j Ho Hj. apply H; [| |done|done].
  - intros o Ho'. cbn [fst snd]. change (preimage 0 o) with (@nil Z). rewrite zlen_nil, Hfirst by lia. split; lia.
  - clear j Hj output Ho H values. intros m [next values] Hm Hst output Ho. cbn [fst snd].
    specialize (Hf m ltac:(lia)) as Hfm. destruct (Hst (f m) Hfm) as [Hnext _]. cbn [fst snd] in *.
    destruct (Hst output Ho) as [Hn Hv]. cbn [fst snd] in *.
    pose proof (zlen_preimage_mono (m + 1) K (f m) ltac:(lia)) as Hroom.
    rewrite preimage_S, zlen_app, Z.eqb_refl in Hroom by lia. change (zlen [m]) with 1 in Hroom.
    pose proof (zlen_nonneg (preimage m (f m))).
    rewrite preimage_S by lia. destruct (Z.eqb_spec (f m) output) as [<-|Hne].
    + rewrite zlen_app. change (zlen [m]) with 1. rewrite vget_vadd, Z.eqb_refl. split; [lia|]. intros j Hj.
      rewrite vget_vset, Hnext. destruct (Z.eqb_spec (below (f m) + zlen (preimage m (f m))) (below (f m) + j)).
      * replace j with (zlen (preimage m (f m))) by lia. rewrite zget_app_r by lia. by rewrite Z.sub_diag.
      * rewrite zget_app_l by lia. apply Hv. lia.
    + rewrite app_nil_r, vget_vadd, (proj2 (Z.eqb_neq _ _)) by done. split; [lia|]. intros j Hj.
      pose proof (zlen_preimage_mono m K output ltac:(lia)) as Hroom'.
      rewrite vget_vset, Hnext. rewrite (proj2 (Z.eqb_neq _ _)); [apply Hv; lia|].
      pose proof (below_S (f m)). pose proof (below_S output).
      destruct (Z.lt_ge_cases (f m) output) as [Hlt|Hge].
      * pose proof (below_mono (f m + 1) output ltac:(lia)). lia.
      * pose proof (below_mono (output + 1) (f m) ltac:(lia)). lia.
Qed.
End counting_sort.

(** ** Lemmas: the votes count the equations *)
Definition F0 (v : Z) : Z := FFunction v 0.
Lemma F0_range v : 0 <= v < kKeySpace -> 0 <= F0 v < kKeySpace.
Proof. unfold kKeySpace, F0. intros Hv. fold (u16_ok (FFunction v 0)). apply FFunction_range; unfold u16_ok; lia. Qed.
Lemma Preimages_spec output :
  0 <= output < kKeySpace -> Preimages (make_FunctionInverse tt) output = preimage F0 kKeySpace output.
Proof.
  intros Ho. assert (0 <= kKeySpace) as HK by (unfold kKeySpace; lia).
  assert (forall o, 0 <= o <= kKeySpace -> vget (first_offsets count_outputs) o = below F0 kKeySpace o) as Hfirst.
  { unfold first_offsets. refine (offsets_spec F0 kKeySpace F0_range HK count_outputs _).
    unfold count_outputs. refine (counts_spec F0 kKeySpace HK). }
  pose proof (placed_spec F0 kKeySpace F0_range HK _ Hfirst) as Hv. cbv zeta in Hv.
  unfold Preimages, make_FunctionInverse. cbn [first_ values_]. rewrite !Hfirst, below_S by lia.
  replace (below F0 kKeySpace output + zlen (preimage F0 kKeySpace output) - below F0 kKeySpace output)
    with (zlen (preimage F0 kKeySpace output)) by lia.
  pose proof (zlen_nonneg (preimage F0 kKeySpace output)).
  apply zget_ext; [rewrite zlen_map, zlen_seqZ; lia|]. rewrite zlen_map, zlen_seqZ. intros j Hj.
  rewrite <- (Hv output j) by lia.
  unfold zget, zlookup. rewrite decide_True by lia. rewrite list_lookup_fmap, lookup_seqZ_lt by lia.
  cbn [option_fmap option_map default fmap]. by rewrite Z2Nat.id by lia.
Qed.
Definition satisfies (key : Z) (equation : Equation) : bool :=
  FFunction (eq_input equation) key =? eq_output equation.
(** How many equations a key satisfies. *)
Definition satisfied (equations : list Equation) (key : Z) : Z := zlen (List.filter (satisfies key) equations).
Definition equation_ok (equation : Equation) : Prop := u16_ok (eq_input equation) /\ u16_ok (eq_output equation).
Lemma vote_fold input l votes key :
  vget (fold_left (fun votes v => vadd votes (Z.lxor input v) 1) l votes) key
  = vget votes key + zlen (List.filter (fun v => Z.lxor input v =? key) l).
Proof.
  revert votes. induction l as [|v l IH]; intros votes; cbn [fold_left List.filter]; [rewrite zlen_nil; lia|].
  rewrite IH, vget_vadd. destruct (_ =? key); rewrite ?zlen_cons; lia.
Qed.
Lemma filter_unique (l : list Z) x P :
  NoDup l -> (forall v, v ∈ l -> P v = true <-> v = x) ->
  zlen (List.filter P l) = if decide (x ∈ l) then 1 else 0.
Proof.
  intros Hnd HP. induction Hnd as [|v l Hv _ IH]; cbn [List.filter]; [by rewrite decide_False by set_solver|].
  assert (forall u, u ∈ l -> P u = true <-> u = x) as HP' by set_solver. specialize (IH HP').
  destruct (P v) eqn:E.
  - apply HP in E as ->; [|set_solver]. rewrite zlen_cons, IH. rewrite decide_False by done.
    by rewrite decide_True by set_solver.
  - rewrite IH. assert (v <> x) by (intros ->; rewrite (proj2 (HP x ltac:(set_solver)) eq_refl) in E; done).
    destruct (decide (x ∈ l)); [rewrite decide_True by set_solver|rewrite decide_False by set_solver]; done.
Qed.
Definition inverse_ok (inverse : FunctionInverse) : Prop :=
  forall output, 0 <= output < kKeySpace -> Preimages inverse output = preimage F0 kKeySpace output.
Lemma votes_spec inverse equations key :
  inverse_ok inverse ->
  Forall equation_ok equations -> u16_ok key ->
  vget (count_votes equations inverse) key = satisfied equations key.
Proof.
  intros Hinv He Hk. unfold count_votes, satisfied.
  enough (forall votes, vget (fold_left (fun votes equation =>
    fold_left (fun votes v => vadd votes (Z.lxor (eq_input equation) v) 1)
      (Preimages inverse (eq_output equation)) votes) equations votes) key
    = vget votes key + zlen (List.filter (satisfies key) equations)) as ->
    by (rewrite vget_empty; lia).
  induction He as [|e equations [Hi Ho] _ IH]; intros votes; cbn [fold_left List.filter]; [rewrite zlen_nil; lia|].
  rewrite IH, vote_fold, Hinv by exact Ho.
  assert (NoDup (preimage F0 kKeySpace (eq_output e))) as Hnd.
  { unfold preimage. apply NoDup_ListNoDup, List.NoDup_filter, NoDup_ListNoDup, NoDup_seqZ. }
  rewrite (filter_unique _ (Z.lxor (eq_input e) key)); [|done|].
  - unfold satisfies at 2. rewrite (FFunction_xor (eq_input e) key) by done. fold (F0 (Z.lxor (eq_input e) key)).
    pose proof (u16_lxor_ok _ _ Hi Hk) as Hx.
    assert (Z.lxor (eq_input e) key ∈ preimage F0 kKeySpace (eq_output e)
      <-> F0 (Z.lxor (eq_input e) key) = eq_output e) as Hin.
    { unfold preimage. rewrite list_elem_of_In, List.filter_In, <- list_elem_of_In, elem_of_seqZ, Z.eqb_eq.
      unfold u16_ok in Hx. unfold kKeySpace. intuition lia. }
    destruct (Z.eqb_spec (F0 (Z.lxor (eq_input e) key)) (eq_output e)).
    + rewrite decide_True by tauto. rewrite zlen_cons. lia.
    + rewrite decide_False by tauto. lia.
  - intros v _. rewrite Z.eqb_eq. split; [intros <-; by rewrite lxor_cancel|intros ->; apply lxor_cancel].
Qed.
Lemma max_element_spec votes :
  let winner := max_element votes in
  0 <= winner < kKeySpace /\ (forall k, 0 <= k < kKeySpace -> vget votes k <= vget votes winner)
  /\ (forall k, 0 <= k < winner -> vget votes k < vget votes winner).
Proof.
  unfold max_element. cbv zeta.
  pose proof (for_steps_inv (fun m winner => 0 <= winner < m
    /\ (forall k, 0 <= k < m -> vget votes k <= vget votes winner)
    /\ (forall k, 0 <= k < winner -> vget votes k < vget votes winner)) (Z.to_nat (kKeySpace - 1)) 1
    (fun key winner => if vget votes winner <? vget votes key then key else winner) 0) as H.
  rewrite Z2Nat.id in H by (unfold kKeySpace; lia). replace (1 + (kKeySpace - 1)) with kKeySpace in H by lia.
  apply H.
  - split_and!; [lia|lia| |]; intros k Hk; [|lia]. by replace k with 0 by lia.
  - intros m winner Hm (Hw & Hle & Hlt). destruct (Z.ltb_spec (vget votes winner) (vget votes m)).
    + split_and!; [lia|lia| |]; intros k Hk; (destruct (decide (k = m)) as [->|]; [lia|]); specialize (Hle k); lia.
    + split_and!; [lia|lia| |done]. intros k Hk. destruct (decide (k = m)) as [->|]; [lia|]. apply Hle. lia.
Qed.
Lemma MajorityKey_lemma inverse equations :
  inverse_ok inverse -> Forall equation_ok equations ->
  match MajorityKey equations inverse with
  | Ok key =>
      u16_ok key /\ zlen equations < 2 * satisfied equations key
      /\ (forall k, u16_ok k -> satisfied equations k <= satisfied equations key)
      /\ (forall k, 0 <= k < key -> satisfied equations k < satisfied equations key)
  | Err e => e = kNoMatchingKey /\ forall k, u16_ok k -> 2 * satisfied equations k <= zlen equations
  end.
Proof.
  intros Hinv He. unfold MajorityKey. cbv zeta.
  destruct (max_element_spec (count_votes equations inverse)) as (Hw & Hle & Hlt).
  set (winner := max_element _) in *.
  assert (u16_ok winner) as Hu by exact Hw.
  assert (forall k, u16_ok k -> vget (count_votes equations inverse) k = satisfied equations k) as Hs
    by (intros; by apply votes_spec).
  rewrite Hs by done. destruct (Z.leb_spec (satisfied equations winner * 2) (zlen equations)).
  - split; [done|]. intros k Hk. specialize (Hle k Hk). rewrite !Hs in Hle by done. lia.
  - rewrite u16_small by done. split_and!; [exact Hu|lia| |].
    + intros k Hk. specialize (Hle k Hk). by rewrite !Hs in Hle by done.
    + intros k Hk. specialize (Hlt k Hk). assert (u16_ok k) by (unfold u16_ok in *; lia).
      by rewrite !Hs in Hlt by done.
Qed.
Lemma inverse_ok_make : inverse_ok (make_FunctionInverse tt).
Proof. intros output. exact (Preimages_spec output). Qed.

(** the middle-round vote, counted through the precomputed inverse of the round
    function, elects the key that satisfies the most equations, the lowest on a
    tie; it is accepted exactly when it satisfies more than half of them, and no
    key does when the vote fails. *)
Theorem MajorityKey_elects equations :
  Forall equation_ok equations ->
  match MajorityKey equations (make_FunctionInverse tt) with
  | Ok key =>
      u16_ok key /\ zlen equations < 2 * satisfied equations key
      /\ (forall k, u16_ok k -> satisfied equations k <= satisfied equations key)
      /\ (forall k, 0 <= k < key -> satisfied equations k < satisfied equations key)
  | Err e => e = kNoMatchingKey /\ forall k, u16_ok k -> 2 * satisfied equations k <= zlen equations
  end.
Proof. exact (MajorityKey_lemma _ equations inverse_ok_make). Qed.

(** ** Lemmas: the equations are the cipher *)
Ltac xor_solve :=
  apply Z.bits_inj'; intros ? _; rewrite !Z.lxor_spec;
  repeat match goal with |- context [Z.testbit ?x ?k] => destruct (Z.testbit x k) end; reflexivity.
Definition pair_ok (pair : WordPair) : Prop := u32_ok (wp_plain pair) /\ u32_ok (wp_cipher pair).
Lemma word_halves w : u32_ok w -> w = High w * 65536 + Low w.
Proof. intros. unfold High, Low. rewrite shiftr_div by lia. change (2 ^ 16) with 65536. zmod. Qed.
Lemma four_rounds w k1 k2 k3 k4 :
  u32_ok w -> u16_ok k1 -> u16_ok k2 -> u16_ok k3 -> u16_ok k4 ->
  let x2 := Z.lxor (FFunction (Low w) k1) (High w) in
  let a := Z.lxor (FFunction x2 k2) (Low w) in
  let b := Z.lxor (FFunction a k3) x2 in
  TransformWord false w [k1; k2; k3; k4] kStockPairTable = Z.lxor (FFunction b k4) a * 65536 + b
  /\ u16_ok x2 /\ u16_ok a /\ u16_ok b /\ u16_ok (Z.lxor (FFunction b k4) a).
Proof.
  intros Hw H1 H2 H3 H4. cbv zeta.
  assert (u16_ok (Low w)) as HL by apply u16_range. assert (u16_ok (High w)) as HH by apply u16_range.
  assert (forall x y k, u16_ok x -> u16_ok y -> u16_ok k -> u16_ok (Z.lxor (FFunction x k) y)) as Hx
    by (intros; apply u16_lxor_ok; [by apply FFunction_range|done]).
  split; [|auto 10].
  rewrite TransformWord_halves. cbv zeta. fold (Low w).
  assert (u16 (w / 65536) = High w) as -> by (unfold High; by rewrite shiftr_div by lia).
  cbn [fold_left]. unfold transform_round.
  rewrite (round_key_FFunction (Low w) k1), (u16_small (Z.lxor (FFunction (Low w) k1) _)) by auto.
  rewrite (round_key_FFunction _ k2), (u16_small (Z.lxor (FFunction _ k2) _)) by auto.
  rewrite (round_key_FFunction _ k3), (u16_small (Z.lxor (FFunction _ k3) _)) by auto.
  rewrite (round_key_FFunction _ k4), (u16_small (Z.lxor (FFunction _ k4) _)) by auto 10.
  done.
Qed.
Lemma reproduced_iff pair k1 k2 k3 k4 :
  pair_ok pair -> u16_ok k1 -> u16_ok k2 -> u16_ok k3 -> u16_ok k4 ->
  TransformWord false (wp_plain pair) [k1; k2; k3; k4] kStockPairTable = wp_cipher pair
  <-> satisfies k2 (k2_equation k1 k4 pair) = true /\ satisfies k3 (k3_equation k1 k4 pair) = true.
Proof.
  intros [Hp Hc] H1 H2 H3 H4. destruct (four_rounds (wp_plain pair) k1 k2 k3 k4 Hp H1 H2 H3 H4) as (E & Hx2 & Ha & Hb & Hh).
  rewrite E. unfold satisfies. cbn [eq_input eq_output k2_equation k3_equation]. rewrite !Z.eqb_eq.
  unfold x2_of, x3_of.
  set (L := Low (wp_plain pair)) in *. set (H := High (wp_plain pair)) in *.
  assert (u16_ok L) as HL by apply u16_range.
  assert (u16_ok (Low (wp_cipher pair))) as HCL by apply u16_range.
  assert (u16_ok (High (wp_cipher pair))) as HCH by apply u16_range.
  rewrite (word_halves (wp_cipher pair) Hc) at 1.
  set (CL := Low (wp_cipher pair)) in *. set (CH := High (wp_cipher pair)) in *.
  rewrite (Z.lxor_comm H). set (x2 := Z.lxor (FFunction L k1) H) in *. rewrite (u16_small x2) by done.
  assert (u16_ok (FFunction CL k4)) as HF by (by apply FFunction_range).
  pose proof (u16_lxor_ok _ _ HCH HF) as Hx3. set (x3 := Z.lxor CH (FFunction CL k4)) in *.
  rewrite (u16_small x3), (u16_small (Z.lxor x3 L)), (u16_small (Z.lxor x2 CL)) by (done || by apply u16_lxor_ok).
  set (a := Z.lxor (FFunction x2 k2) L) in *. set (b := Z.lxor (FFunction a k3) x2) in *. split.
  - intros Eq. assert (b = CL /\ Z.lxor (FFunction b k4) a = CH) as [Eb Ea] by (unfold u16_ok in *; lia).
    assert (x3 = a) as -> by (unfold x3; rewrite <- Ea, Eb; xor_solve).
    split; [unfold a; xor_solve|]. rewrite <- Eb. unfold b. xor_solve.
  - intros [E2 E3]. assert (a = x3) as Ea by (unfold a; rewrite E2; xor_solve).
    assert (b = CL) as Eb by (unfold b; rewrite Ea, E3; xor_solve).
    rewrite Eb, Ea. f_equal. f_equal. unfold x3. xor_solve.
Qed.
Lemma k2_equation_ok k1 k4 pairs : Forall equation_ok (map (k2_equation k1 k4) pairs).
Proof. apply Forall_map, Forall_true. intros. split; apply u16_range. Qed.
Lemma k3_equation_ok k1 k4 pairs : Forall equation_ok (map (k3_equation k1 k4) pairs).
Proof. apply Forall_map, Forall_true. intros. split; apply u16_range. Qed.
(** A key that satisfies every equation is elected, or one that does as well. *)
Lemma MajorityKey_unanimous inverse equations key :
  inverse_ok inverse -> Forall equation_ok equations -> equations <> [] -> u16_ok key ->
  Forall (fun e => satisfies key e = true) equations ->
  exists k, MajorityKey equations inverse = Ok k /\ u16_ok k /\ Forall (fun e => satisfies k e = true) equations.
Proof.
  intros Hinv He Hne Hk Hall. pose proof (MajorityKey_lemma inverse equations Hinv He) as Hm.
  assert (forall k (l : list Equation), zlen (List.filter (satisfies k) l) <= zlen l) as Hle.
  { intros k l. unfold zlen. pose proof (List.filter_length_le (satisfies k) l). lia. }
  assert (satisfied equations key = zlen equations) as Hs.
  { unfold satisfied. by rewrite filter_all. }
  assert (0 < zlen equations) by (destruct equations; [done|rewrite zlen_cons; pose proof (zlen_nonneg equations); lia]).
  destruct (MajorityKey equations inverse) as [k|e].
  - destruct Hm as (Hku & _ & Hbest & _). exists k. split; [done|]. split; [done|].
    specialize (Hbest key Hk). rewrite Hs in Hbest. clear - Hbest Hle. unfold satisfied in Hbest.
    induction equations as [|e l IH]; [done|]. cbn [List.filter] in Hbest. rewrite zlen_cons in Hbest.
    destruct (satisfies k e) eqn:E; [|pose proof (Hle k l); lia].
    rewrite zlen_cons in Hbest. constructor; [done|]. apply IH. lia.
  - destruct Hm as [_ Hm]. specialize (Hm key Hk). lia.
Qed.
Lemma MostBiasedKey_range pairs term : u16_ok (MostBiasedKey pairs term).
Proof. unfold MostBiasedKey. change (Z.to_nat kNybbles) with 4%nat. cbn [for_steps]. apply u16_range. Qed.

(** when the ciphertext is the payload cipher of the plaintext under some keys and
    the linear stage finds the outer two of them, the recovery succeeds and the
    keys it returns encrypt every pair to its ciphertext: all the distinct pairs
    are reported as reproduced. *)
Theorem recovery_reproduces_every_pair pairs k1 k2 k3 k4 :
  pairs <> [] -> Forall pair_ok pairs -> u16_ok k2 -> u16_ok k3 ->
  Forall (fun pair => TransformWord false (wp_plain pair) [k1; k2; k3; k4] kStockPairTable = wp_cipher pair) pairs ->
  MostBiasedKey pairs k4_term = k4 -> MostBiasedKey pairs (k1_term k4) = k1 ->
  exists k2' k3',
    recover_from_pairs pairs = Ok {| rec_keys := [k1; k2'; k3'; k4];
                                     distinct_pairs := zlen pairs; reproduced_pairs := zlen pairs |}
    /\ Forall (fun pair => TransformWord false (wp_plain pair) [k1; k2'; k3'; k4] kStockPairTable = wp_cipher pair) pairs.
Proof.
  intros Hne Hok H2 H3 Henc E4 E1.
  assert (u16_ok k1) as H1 by (rewrite <- E1; apply MostBiasedKey_range).
  assert (u16_ok k4) as H4 by (rewrite <- E4; apply MostBiasedKey_range).
  assert (forall a b, u16_ok a -> u16_ok b ->
    Forall (fun pair => TransformWord false (wp_plain pair) [k1; a; b; k4] kStockPairTable = wp_cipher pair) pairs
    <-> Forall (fun e => satisfies a e = true) (map (k2_equation k1 k4) pairs)
        /\ Forall (fun e => satisfies b e = true) (map (k3_equation k1 k4) pairs)) as Hiff.
  { intros a b Ha Hb. rewrite !Forall_map, !list.Forall_forall. rewrite list.Forall_forall in Hok.
    split; [intros H; split|intros [Hl Hr]]; intros pair Hin; specialize (Hok pair Hin) as Hp;
      [apply (reproduced_iff pair k1 a b k4)|apply (reproduced_iff pair k1 a b k4)|apply reproduced_iff]; auto. }
  destruct (proj1 (Hiff k2 k3 H2 H3) Henc) as [Hs2 Hs3].
  assert (forall f, map f pairs <> @nil Equation) as Hmap by (intros f E; apply Hne, (map_eq_nil f), E).
  destruct (MajorityKey_unanimous _ _ k2 inverse_ok_make (k2_equation_ok k1 k4 pairs) (Hmap _) H2 Hs2)
    as (k2' & Em2 & Hk2 & Hs2').
  destruct (MajorityKey_unanimous _ _ k3 inverse_ok_make (k3_equation_ok k1 k4 pairs) (Hmap _) H3 Hs3)
    as (k3' & Em3 & Hk3 & Hs3').
  pose proof (proj2 (Hiff k2' k3' Hk2 Hk3) (conj Hs2' Hs3')) as Hall.
  exists k2', k3'. split; [|done]. unfold recover_from_pairs. cbv zeta. rewrite E4, E1.
  rewrite Em2. cbn [result_bind]. rewrite Em3. cbn [result_bind]. rewrite filter_all; [done|].
  rewrite list.Forall_forall in Hall, Hok |- *. intros pair Hin. rewrite Z.eqb_eq.
  rewrite Encrypt_TransformWord; [by apply Hall|by apply Hok|do 4 (constructor; [assumption|]); constructor].
Qed.
Lemma recovery_reproduces_every_pair_witness :
  exists k2' k3',
    recover_from_pairs [{| wp_plain := 0x2265B1F5; wp_cipher := 0x91B7584A |}]
    = Ok {| rec_keys := [0xEFCF; k2'; k3'; 0xEFEF]; distinct_pairs := 1; reproduced_pairs := 1 |}.
Proof.
  destruct (recovery_reproduces_every_pair [{| wp_plain := 0x2265B1F5; wp_cipher := 0x91B7584A |}]
    0xEFCF 0x9091 0xA88F 0xEFEF) as (a & b & E & _).
  - discriminate.
  - repeat constructor; done.
  - done.
  - done.
  - constructor; [vm_compute; reflexivity|constructor].
  - vm_compute. reflexivity.
  - vm_compute. reflexivity.
  - exists a, b. exact E.
Defined.
Lemma MajorityKey_elects_witness :
  match MajorityKey [{| eq_input := 7; eq_output := 9 |}] (make_FunctionInverse tt) with
  | Ok key => u16_ok key
  | Err e => e = kNoMatchingKey
  end.
Proof.
  pose proof (MajorityKey_elects [{| eq_input := 7; eq_output := 9 |}] ltac:(repeat constructor; done)) as H.
  revert H. generalize (MajorityKey [{| eq_input := 7; eq_output := 9 |}] (make_FunctionInverse tt)).
  intros [k|e] H; exact (proj1 H).
Defined.
