(* ===== verification/Ports.v ===== *)
(** * Ports: [src/backend/ports] and the flash transports' call interface

    Errors, and the effectful computations of the backend. A computation runs
    in an environment (adapter, unit on the bus, clock, operator) it knows only
    through its calls: [Env] answers each call from the whole history of calls
    and answers so far, so a theorem for every [Env] covers every behaviour of
    the world, cancellation at any moment included. The state a computation
    threads is that history, the trace. *)
From S2P Require Import Prelude.

(** ** [error.h], [result.h] *)
Inductive ErrorKind : Set :=
  kInvalidConfig | kTimeout | kDisconnected | kBadResponse | kCancelled | kUnsupported | kInternal.
Inductive CancellationIoExposure : Set := kMayHaveStarted | kRefusedBeforeDelegation.
Record Error := { kind : ErrorKind; detail : string; cancellation_io_exposure : CancellationIoExposure }.
Definition CancelledBeforeDelegation (detail : string) : Error :=
  {| kind := kCancelled; detail := detail; cancellation_io_exposure := kRefusedBeforeDelegation |}.
Definition AfterIoMayHaveStarted (error : Error) : Error :=
  match kind error with
  | kCancelled => {| kind := kCancelled; detail := detail error; cancellation_io_exposure := kMayHaveStarted |}
  | _ => error
  end.
Definition Fail {A} (k : ErrorKind) (d : string) : result Error A :=
  Err {| kind := k; detail := d; cancellation_io_exposure := kMayHaveStarted |}.
Definition Status : Type := result Error unit.
#[global] Instance ErrorKind_eq_dec : EqDecision ErrorKind.
Proof. solve_decision. Defined.
#[global] Instance CancellationIoExposure_eq_dec : EqDecision CancellationIoExposure.
Proof. solve_decision. Defined.
#[global] Instance Error_eq_dec : EqDecision Error.
Proof. solve_decision. Defined.
(** The one error that says the operation was refused before anything was sent. *)
Definition refused (e : Error) : Prop :=
  kind e = kCancelled /\ cancellation_io_exposure e = kRefusedBeforeDelegation.
Lemma AfterIoMayHaveStarted_not_refused e : ~ refused (AfterIoMayHaveStarted e).
Proof. destruct e as [[] d []]; unfold refused, AfterIoMayHaveStarted; cbn; intros []; congruence. Qed.
Lemma AfterIoMayHaveStarted_kind e : kind (AfterIoMayHaveStarted e) = kind e.
Proof. by destruct e as [[] d x]. Qed.

(** ** [event_sink.h]; the CAN transport's configuration *)
Inductive LogLevel : Set := LError | LWarning | LInfo | LDebug.
Record PhaseProgressEvent :=
  { phase_name : string; phase_index : Z; phase_count : Z; done_ : Z; total_ : Z }.
Record Iso15765Config := { bitrate : Z; cfg_request_id : Z; cfg_response_id : Z; extended_id : bool }.

(** ** The K-Line, raw-CAN and SSM transports' calls, the diagnostic link's, the clock's

    [ikline_transport.h], [flash_executor.h] ([IKlineFlashTransport]),
    [ican_transport.h], [issm_transport.h], [idiagnostic_link.h], [clock.h]
    (nanoseconds) and the plain progress of [event_sink.h]; each call has its own type
    of answer. *)
Inductive KlineParity : Set := kNone | kEven | kOdd.
Record KlineConfig := { baud : Z; iso14230 : bool; tester_id : Z; target_id : Z; parity : KlineParity }.
Record CanFrame := { frame_id : Z; payload : list Z }.
Inductive KlineHeader : Set := kHeaderNone | kHeaderSsm | kHeaderIso9141 | kHeaderIso14230.
Inductive Parity : Set := kParityNone | kParityEven.
Record KlineLinkConfig := {
  kl_header : KlineHeader; kl_iso14230_connection : bool; kl_baud : Z; kl_start_byte : Z; kl_tester_id : Z; kl_target_id : Z;
  kl_parity : Parity }.
Record CanLinkConfig := { cl_iso15765 : bool; cl_bitrate : Z; cl_extended_id : bool; cl_source_id : Z; cl_destination_id : Z }.
Inductive port_call : Type :=
| KlineSetBaud (baud : Z)
| KlineWrite (data : list Z)
| KlineRead (timeout : Z)
| KlineIsOpen
| KlineWriteRaw (data : list Z)
| KlineReadRaw (timeout : Z)
| KlineConfigure (config : KlineConfig)
| KlineOpen
| KlineClose
| KlineResetConnection
| KlineDisableLecLines
| KlinePulseLec2Line (timeout : Z)
| KlineEnableProgrammingVoltageLine
| KlineEnableBootModeLines
| KlineRequiresPostKernelUploadDelay
| KlineSetAddIso14230Header (add_header : bool)
| CanWrite (can_id : Z) (payload : list Z)
| CanRead (timeout : Z)
| CanIsOpen
| SsmWrite (data : list Z)
| SsmRead (timeout : Z)
| SsmIsOpen
| LinkOpenKline (config : KlineLinkConfig)
| LinkOpenCan (config : CanLinkConfig)
| LinkReset
| LinkSetHeader (header : KlineHeader)
| LinkSetP1Max (p1_max : Z)
| LinkFiveBaudInit (address : Z)
| LinkFastInit (wakeup : list Z)
| LinkWrite (data : list Z)
| LinkRead (timeout : Z)
| LinkReadObd (timeout : Z)
| LinkUsesJ2534
| EventsProgress (done total : Z)
| ClockNow.
Definition port_answer (c : port_call) : Type :=
  match c with
  | KlineWrite _ | KlineWriteRaw _ | CanWrite _ _ | SsmWrite _ => result Error Z
  | KlineRead _ | KlineReadRaw _ | SsmRead _ | LinkRead _ | LinkReadObd _ => result Error (option (list Z))
  | LinkFiveBaudInit _ | LinkWrite _ => result Error (list Z)
  | CanRead _ => result Error (option CanFrame)
  | KlineIsOpen | CanIsOpen | KlineRequiresPostKernelUploadDelay | SsmIsOpen | LinkUsesJ2534 => bool
  | EventsProgress _ _ => unit
  | ClockNow => Z
  | _ => Status
  end.

(** ** Calls and their answers *)
Inductive event : Type :=
| EvCancelled (answer : bool)
| EvSleep (ms : Z) (answer : Status)
| EvLog (level : LogLevel) (message : string)
| EvPhase (p : PhaseProgressEvent)
| EvNotice (message : string)
| EvReset (answer : Status)
| EvConfigure (config : Iso15765Config) (answer : Status)
| EvOpen (answer : Status)
| EvClose (answer : Status)
| EvWrite (data : list Z) (answer : Status)
| EvRead (timeout : Z) (answer : result Error (option (list Z)))
| EvPort (c : port_call) (answer : port_answer c).
Definition trace : Type := list event.
Class Env := {
  env_cancelled : trace -> bool;
  env_sleep : trace -> Z -> Status;
  env_reset : trace -> Status;
  env_configure : trace -> Iso15765Config -> Status;
  env_open : trace -> Status;
  env_close : trace -> Status;
  env_write : trace -> list Z -> Status;
  env_read : trace -> Z -> result Error (option (list Z));
  env_port : trace -> forall c : port_call, port_answer c
}.
(** A port without a device: nothing is open and no call succeeds. *)
Definition absent_port (c : port_call) : port_answer c :=
  match c with
  | KlineIsOpen | CanIsOpen | KlineRequiresPostKernelUploadDelay | SsmIsOpen | LinkUsesJ2534 => false
  | EventsProgress _ _ => tt
  | ClockNow => 0
  | _ => Err {| kind := kDisconnected; detail := ""; cancellation_io_exposure := kMayHaveStarted |}
  end.

(** ** Computations *)
Definition M (A : Type) : Type := trace -> A * trace.
Definition ret {A} (a : A) : M A := fun t => (a, t).
Definition bind {A B} (m : M A) (k : A -> M B) : M B := fun t => let '(a, t) := m t in k a t.
(** [and_then] and the early return on an error. *)
Definition try {A B} (m : M (result Error A)) (k : A -> M (result Error B)) : M (result Error B) :=
  bind m (fun r => match r with Ok a => k a | Err e => ret (Err e) end).
Declare Scope m_scope.
Delimit Scope m_scope with M.
Notation "'do' x <- m ; k" := (bind m (fun x => k))
  (at level 10, x pattern, m at level 100, k at level 200) : m_scope.
Notation "'do!' x <- m ; k" := (try m (fun x => k))
  (at level 10, x pattern, m at level 100, k at level 200) : m_scope.
#[global] Open Scope m_scope.

(** The ports. *)
Section ports.
Context `{Env}.
Definition Cancelled : M bool := fun t => let b := env_cancelled t in (b, t ++ [EvCancelled b]).
Definition Sleep (ms : Z) : M Status := fun t => let r := env_sleep t ms in (r, t ++ [EvSleep ms r]).
Definition Log (level : LogLevel) (message : string) : M unit := fun t => (tt, t ++ [EvLog level message]).
Definition PhaseProgress (p : PhaseProgressEvent) : M unit := fun t => (tt, t ++ [EvPhase p]).
Definition Notice (message : string) : M unit := fun t => (tt, t ++ [EvNotice message]).
Definition Call (c : port_call) : M (port_answer c) := fun t => let r := env_port t c in (r, t ++ [EvPort c r]).
Definition CheckCancelled (detail : string) : M Status :=
  do c <- Cancelled; ret (if c then Fail kCancelled detail else Ok tt).
End ports.

(** ** Reasoning about computations

    [runs m P]: from any history, [m] extends it by calls [d] and returns [a]
    with [P a d]. *)
Definition runs {A} (m : M A) (P : A -> trace -> Prop) : Prop :=
  forall t, exists d, snd (m t) = t ++ d /\ P (fst (m t)) d.
Lemma runs_ret {A} (a : A) (P : A -> trace -> Prop) : P a [] -> runs (ret a) P.
Proof. intros HP t. exists []. by rewrite app_nil_r. Qed.
Lemma runs_weaken {A} (m : M A) (P Q : A -> trace -> Prop) :
  runs m P -> (forall a d, P a d -> Q a d) -> runs m Q.
Proof. intros Hm HPQ t. destruct (Hm t) as (d & E & HP). exists d. auto. Qed.
Lemma runs_bind {A B} (m : M A) (k : A -> M B) P (Q : B -> trace -> Prop) :
  runs m P -> (forall a, runs (k a) (fun b d2 => forall d1, P a d1 -> Q b (d1 ++ d2))) -> runs (bind m k) Q.
Proof.
  intros Hm Hk t. destruct (Hm t) as (d1 & E1 & HP). unfold bind. destruct (m t) as [a t1]. cbn [fst snd] in *.
  subst t1. destruct (Hk a (t ++ d1)) as (d2 & E2 & HQ). exists (d1 ++ d2).
  rewrite E2, <- app_assoc. auto.
Qed.
Lemma runs_try {A B} (m : M (result Error A)) (k : A -> M (result Error B)) P (Q : result Error B -> trace -> Prop) :
  runs m P ->
  (forall a, runs (k a) (fun b d2 => forall d1, P (Ok a) d1 -> Q b (d1 ++ d2))) ->
  (forall e d, P (Err e) d -> Q (Err e) d) -> runs (try m k) Q.
Proof.
  intros Hm Hk He. apply (runs_bind _ _ P); [done|]. intros [a|e]; [apply Hk|].
  apply runs_ret. intros d1 HP. rewrite app_nil_r. auto.
Qed.
Lemma runs_call {A} (f : trace -> A) (ev : A -> event) (P : A -> trace -> Prop) :
  (forall a, P a [ev a]) -> runs (fun t => let r := f t in (r, t ++ [ev r])) P.
Proof. intros HP t. exists [ev (f t)]. cbn. auto. Qed.
Section port_specs.
Context `{Env}.
Lemma runs_Cancelled (P : bool -> trace -> Prop) : (forall b, P b [EvCancelled b]) -> runs Cancelled P.
Proof. apply runs_call. Qed.
Lemma runs_Sleep ms (P : Status -> trace -> Prop) : (forall r, P r [EvSleep ms r]) -> runs (Sleep ms) P.
Proof. apply runs_call. Qed.
Lemma runs_Call c (P : port_answer c -> trace -> Prop) : (forall r, P r [EvPort c r]) -> runs (Call c) P.
Proof. apply runs_call. Qed.
Lemma runs_Log level message (P : unit -> trace -> Prop) :
  P tt [EvLog level message] -> runs (Log level message) P.
Proof. intros HP t. exists [EvLog level message]. done. Qed.
Lemma runs_PhaseProgress p (P : unit -> trace -> Prop) : P tt [EvPhase p] -> runs (PhaseProgress p) P.
Proof. intros HP t. exists [EvPhase p]. done. Qed.
Lemma runs_Notice message (P : unit -> trace -> Prop) : P tt [EvNotice message] -> runs (Notice message) P.
Proof. intros HP t. exists [EvNotice message]. done. Qed.
End port_specs.

(** ** Reasoning about part of the calls

    [obs] says what of a call matters; [observes obs m P]: from any history, [m]
    makes calls that show [l] and returns [a] with [P a l]. *)
Section observing.
Context {O : Type} {obs : event -> list O}.
Definition observed (d : trace) : list O := List.concat (map obs d).
Lemma observed_app d1 d2 : observed (d1 ++ d2) = observed d1 ++ observed d2.
Proof. unfold observed. by rewrite map_app, List.concat_app. Qed.
Definition observes {A} (m : M A) (P : A -> list O -> Prop) : Prop := runs m (fun a d => P a (observed d)).
Lemma observes_ret {A} (a : A) (P : A -> list O -> Prop) : P a [] -> observes (ret a) P.
Proof. apply (runs_ret a (fun a d => P a (observed d))). Qed.
Lemma observes_weaken {A} (m : M A) (P Q : A -> list O -> Prop) :
  observes m P -> (forall a l, P a l -> Q a l) -> observes m Q.
Proof. intros Hm HPQ. apply (runs_weaken _ _ _ Hm). auto. Qed.
Lemma observes_bind {A B} (m : M A) (k : A -> M B) P (Q : B -> list O -> Prop) :
  observes m P -> (forall a l1, P a l1 -> observes (k a) (fun b l2 => Q b (l1 ++ l2))) -> observes (bind m k) Q.
Proof.
  intros Hm Hk t. destruct (Hm t) as (d1 & E1 & H1). unfold bind. destruct (m t) as [a t1]. cbn [fst snd] in *. subst t1.
  destruct (Hk a _ H1 (t ++ d1)) as (d2 & E2 & H2). exists (d1 ++ d2). by rewrite E2, <- app_assoc, observed_app.
Qed.
Lemma observes_try {A B} (m : M (result Error A)) (k : A -> M (result Error B)) P (Q : result Error B -> list O -> Prop) :
  observes m P -> (forall a l1, P (Ok a) l1 -> observes (k a) (fun b l2 => Q b (l1 ++ l2))) ->
  (forall e l, P (Err e) l -> Q (Err e) l) -> observes (try m k) Q.
Proof.
  intros Hm Hk He. apply (observes_bind _ _ _ _ Hm). intros [a|e] l1 HP; [by apply Hk|].
  apply observes_ret. rewrite app_nil_r. auto.
Qed.
End observing.
#[global] Arguments observed {O} obs d.
#[global] Arguments observes {O} obs {A} m P.

(** ** What a stretch of the trace put on the bus and took from it *)
Fixpoint written (d : trace) : list (list Z) :=
  match d with
  | [] => []
  | EvWrite data _ :: d => data :: written d
  | _ :: d => written d
  end.
Fixpoint reads (d : trace) : list (result Error (option (list Z))) :=
  match d with
  | [] => []
  | EvRead _ r :: d => r :: reads d
  | _ :: d => reads d
  end.
Lemma written_app d1 d2 : written (d1 ++ d2) = written d1 ++ written d2.
Proof. induction d1 as [|[] d1 IH]; cbn; congruence. Qed.
Lemma reads_app d1 d2 : reads (d1 ++ d2) = reads d1 ++ reads d2.
Proof. induction d1 as [|[] d1 IH]; cbn; congruence. Qed.
(** Calls that leave the bus alone. *)
Definition silent (d : trace) : Prop := written d = [] /\ reads d = [].
Lemma silent_nil : silent [].
Proof. done. Qed.
Lemma silent_app d1 d2 : silent d1 -> silent d2 -> silent (d1 ++ d2).
Proof. intros [H1 H2] [H3 H4]. split; [rewrite written_app, H1|rewrite reads_app, H2]; done. Qed.
Create HintDb ports.
#[export] Hint Resolve silent_nil silent_app : ports.
#[export] Hint Extern 1 (silent [_]) => (split; reflexivity) : ports.
