(* ===== verification/Uds.v ===== *)
(** * Uds: [src/algorithms/protocol/uds] and the negative-response texts

    UDS/KWP2000 application PDUs: requests, the classification of responses and
    their descriptions. *)
From S2P Require Import Prelude Bytes.

(** ** [uds_pdu.h], [uds_pdu.cpp] *)
Definition kNegativeResponse : Z := 0x7F.
Definition kPositiveResponseOffset : Z := 0x40.
Definition kNrcResponsePending : Z := 0x78.
Definition kNrcBusyRepeatRequest : Z := 0x21.
Definition PositiveResponse (sid : Z) : Z := u8 (sid + kPositiveResponseOffset).
Definition RequestFromPositive (positive_sid : Z) : Z := u8 (positive_sid - kPositiveResponseOffset).
Definition BuildRequest (sid : Z) : list Z := ComposeBe [FByte sid].
Definition BuildRequest_sub (sid subfunction : Z) : list Z := ComposeBe [FByte sid; FByte subfunction].
Definition BuildRequest_data (sid : Z) (data : list Z) : list Z := ComposeBe [FByte sid; FBytes data].
Definition BuildRequest_sub_data (sid subfunction : Z) (data : list Z) : list Z :=
  ComposeBe [FByte sid; FByte subfunction; FBytes data].

(** ** [uds_service_ids.h]: the identifiers the executors use *)
Definition kSidDiagnosticSessionControl : Z := 0x10.
Definition kSidSecurityAccess : Z := 0x27.
Definition kSidReadDataByIdentifier : Z := 0x22.
Definition kSidRoutineControl : Z := 0x31.
Definition kSidRequestDownload : Z := 0x34.
Definition kSidRequestUpload : Z := 0x35.
Definition kSidTransferData : Z := 0x36.
Definition kSidRequestTransferExit : Z := 0x37.
Definition kSidVehicleInfoRequest : Z := 0x09.
Definition kSidEcuIdQuery : Z := 0xAA.
Definition kSidReadMemoryChunk : Z := 0xB7.
Definition kSidWriteMemoryChunk : Z := 0xB6.
Definition kSecurityAccessRequestSeed : Z := 0x01.
Definition kSecurityAccessSendKey : Z := 0x02.
Definition kRoutineControlStart : Z := 0x01.
Definition kRoutineControlStop : Z := 0x02.
Definition kSessionProgramming : Z := 0x02.
Definition kSessionExtendedDiagnostic : Z := 0x03.
Definition kVehicleInfoPidVin : Z := 0x02.
Definition kVehicleInfoPidCalId : Z := 0x04.
Definition kVehicleInfoPidCvn : Z := 0x06.

(** ** [uds_response.h], [uds_response.cpp] *)
Inductive ResponseKind : Set := kPositive | kNegative | kMalformed.
Record Response := { resp_kind : ResponseKind; service : Z; nrc : Z; data : list Z }.
Definition malformed : Response := {| resp_kind := kMalformed; service := 0; nrc := 0; data := [] |}.
Definition IsPending (r : Response) : bool :=
  match resp_kind r with kNegative => nrc r =? kNrcResponsePending | _ => false end.
Definition Matches (r : Response) (sid : Z) : bool :=
  match resp_kind r with kPositive => service r =? sid | _ => false end.
Definition ParseResponse (pdu : list Z) : Response :=
  if zlen pdu =? 0 then malformed
  else if zget pdu 0 =? kNegativeResponse then
    if zlen pdu <? 3 then malformed
    else {| resp_kind := kNegative; service := zget pdu 1; nrc := zget pdu 2; data := zdrop 3 pdu |}
  else if zget pdu 0 <? kPositiveResponseOffset then malformed
  else {| resp_kind := kPositive; service := RequestFromPositive (zget pdu 0); nrc := 0; data := zdrop 1 pdu |}.
Definition Payload (pdu : list Z) : list Z := if zlen pdu =? 0 then [] else zdrop 1 pdu.
Definition Subfunction (pdu : list Z) : option Z := if zlen pdu <? 2 then None else Some (zget pdu 1).

(** ** [diagnostics/nrc_parser.cpp], [dtc_tables.cpp] *)
Definition NrcCodes : list (Z * string) :=
  [(0x10, "General reject"%string);
   (0x11, "Service not supported"%string);
   (0x12, "Subfunction not supported"%string);
   (0x13, "Incorrect message length or invalid format"%string);
   (0x14, "Response too long"%string);
   (0x21, "Busy, repeat request"%string);
   (0x22, "Conditions not correct"%string);
   (0x24, "Request sequence error"%string);
   (0x25, "No response from subnet component"%string);
   (0x26, "Failure prevents execution of requested action"%string);
   (0x31, "Request out of range"%string);
   (0x33, "Security access denied"%string);
   (0x34, "Authentication failed"%string);
   (0x35, "Invalid key"%string);
   (0x36, "Exceeded number of attempts"%string);
   (0x37, "Required time delay not expired"%string);
   (0x38, "Secure data transmission required"%string);
   (0x39, "Secure data transmission not allowed"%string);
   (0x3A, "Secure data verification failed"%string);
   (0x50, "Certificate validation failed, invalid time period"%string);
   (0x51, "Certificate validation failed, invalid signature"%string);
   (0x52, "Certificate validation failed, invalid chain of trust"%string);
   (0x53, "Certificate validation failed, invalid type"%string);
   (0x54, "Certificate validation failed, invalid format"%string);
   (0x55, "Certificate validation failed, invalid content"%string);
   (0x56, "Certificate validation failed, invalid scope"%string);
   (0x57, "Certificate validation failed, invalid certificate"%string);
   (0x58, "Ownership verification failed"%string);
   (0x59, "Challenge calculation failed"%string);
   (0x5A, "Setting access right failed"%string);
   (0x5B, "Session key creation/derivation failed"%string);
   (0x5C, "Configuration data usage failed"%string);
   (0x5D, "Deauthentication failed"%string);
   (0x70, "Upload download not accepted"%string);
   (0x71, "Transfer data suspended"%string);
   (0x72, "General programming failure"%string);
   (0x73, "Wrong block sequence number"%string);
   (0x78, "Request correctly received, response pending"%string);
   (0x7E, "Subfunction not supported in active session"%string);
   (0x7F, "Service not supported in active session"%string);
   (0x81, "RPM too high"%string);
   (0x82, "RPM too low"%string);
   (0x83, "Engine is running"%string);
   (0x84, "Engine is not running"%string);
   (0x85, "Engine run time too low"%string);
   (0x86, "Temperature too high"%string);
   (0x87, "Temperature too low"%string);
   (0x88, "Vehicle speed too high"%string);
   (0x89, "Vehicle speed too low"%string);
   (0x8A, "Throttle/pedal too high"%string);
   (0x8B, "Throttle/pedal too low"%string);
   (0x8C, "Transmission range not in neutral"%string);
   (0x8D, "Transmission range not in gear"%string);
   (0x8F, "Brake switch not closed"%string);
   (0x90, "Shifter lever not in park"%string);
   (0x91, "Torque converter clutch locked"%string);
   (0x92, "Voltage too high"%string);
   (0x93, "Voltage too low"%string);
   (0x94, "Resource temporary unavailable"%string)].
Definition NrcDescription (pdu : list Z) (codes : list (Z * string)) : string :=
  if (zlen pdu <? 3) || negb (zget pdu 0 =? 0x7F) then "Not a valid answer"%string
  else match find (fun entry => fst entry =? zget pdu 2) codes with
       | Some entry => snd entry
       | None => "Unknown error code"%string
       end.
Definition Describe (pdu : list Z) : string := NrcDescription pdu NrcCodes.

(** ** Lemmas *)
(** The frame a unit sends to accept service [sid]. *)
Definition positive_reply (sid : Z) (frame : list Z) : Prop :=
  0 < zlen frame /\ zget frame 0 = sid + 0x40 /\ sid + 0x40 <> 0x7F.
(** The frame a unit sends to ask for more time. *)
Definition pending_reply (frame : list Z) : Prop :=
  3 <= zlen frame /\ zget frame 0 = 0x7F /\ zget frame 2 = 0x78.
Lemma IsPending_iff frame : IsPending (ParseResponse frame) = true <-> pending_reply frame.
Proof.
  unfold IsPending, ParseResponse, pending_reply, kNegativeResponse, kNrcResponsePending, kPositiveResponseOffset.
  destruct (Z.eqb_spec (zlen frame) 0); cbn; [split; [done|lia]|].
  destruct (Z.eqb_spec (zget frame 0) 0x7F); cbn.
  - destruct (Z.ltb_spec (zlen frame) 3); cbn; [split; [done|lia]|]. rewrite Z.eqb_eq. tauto.
  - destruct (_ <? _); cbn; split; (done || lia).
Qed.
Lemma Matches_iff frame sid :
  bytes_ok frame -> byte_ok sid -> Matches (ParseResponse frame) sid = true <-> positive_reply sid frame.
Proof.
  intros Hb Hs. pose proof (zlen_nonneg frame). pose proof (bytes_ok_zget frame 0 Hb) as H0.
  unfold Matches, ParseResponse, positive_reply, kNegativeResponse, kPositiveResponseOffset, RequestFromPositive,
    kPositiveResponseOffset, byte_ok in *.
  destruct (Z.eqb_spec (zlen frame) 0); cbn; [split; [done|lia]|].
  destruct (Z.eqb_spec (zget frame 0) 0x7F) as [E|]; cbn.
  - destruct (_ <? _); cbn; split; (done || lia).
  - destruct (Z.ltb_spec (zget frame 0) 0x40); cbn; [split; [done|lia]|].
    rewrite Z.eqb_eq, u8_small by (unfold byte_ok; lia). lia.
Qed.
