(* ===== verification/UdsClient.v ===== *)
(** * UdsClient: [src/backend/protocol/uds]

    One UDS request/response round trip over a channel. The client is written
    and specified against the channel interface; [CanFlash] provides the channel
    the flash executors use and proves that it keeps the interface's promises. *)
From S2P Require Import Prelude Bytes Ports Uds.

(** ** [exchange_policy.h], [iuds_channel.h] *)
Record ExchangePolicy := {
  pre_read_delay : Z; read_timeout : Z; pending_timeout : Z; max_pending_repeats : Z
}.
Definition default_policy : ExchangePolicy :=
  {| pre_read_delay := 0; read_timeout := 500; pending_timeout := 3000; max_pending_repeats := 10 |}.
Record UdsChannel := {
  Send : list Z -> M Status;
  Receive : Z -> M (result Error (option (list Z)))
}.
(** The calls of [Write] in a stretch of the trace, with their answers. *)
Fixpoint writes (d : trace) : list (list Z * Status) :=
  match d with
  | [] => []
  | EvWrite data r :: d => (data, r) :: writes d
  | _ :: d => writes d
  end.
Lemma writes_app d1 d2 : writes (d1 ++ d2) = writes d1 ++ writes d2.
Proof. induction d1 as [|[] d1 IH]; cbn; congruence. Qed.
Lemma written_writes d : written d = map fst (writes d).
Proof. induction d as [|[] d IH]; cbn; congruence. Qed.
(** What a channel promises: [Send] puts the wrapped PDU on the bus once and
    returns the transport's answer, or refuses without touching the bus;
    [Receive] writes nothing, reads at most once, and what it returns is the
    unwrapped frame of that read. *)
Class ChannelSpec (ch : UdsChannel) (wrap : list Z -> list Z) (unwrap : list Z -> option (list Z)) := {
  send_spec : forall pdu, runs (Send ch pdu) (fun r d => reads d = [] /\
    (writes d = [(wrap pdu, r)] \/ (writes d = [] /\ exists e, r = Err e /\ refused e)));
  receive_spec : forall timeout, runs (Receive ch timeout) (fun r d => writes d = [] /\
    match r with
    | Ok (Some frame) => exists raw, reads d = [Ok (Some raw)] /\ unwrap raw = Some frame
    | Ok None => reads d = [Ok None]
    | Err _ => (length (reads d) <= 1)%nat
    end)
}.

(** ** [uds_client.cpp] *)
Section client.
Context `{Env} (channel_ : UdsChannel).
(** The reads that are left, [n] of them. *)
Fixpoint read_loop (policy : ExchangePolicy) (expected_service : Z) (n : nat) (delay timeout : Z)
    : M (result Error (list Z)) :=
  match n with
  | O => ret (Fail kTimeout ("ECU still reporting responsePending after "
                             +:+ fmt_d (max_pending_repeats policy) +:+ " repeats"))
  | S n =>
      do slept <- (if 0 <? delay then Sleep delay else ret (Ok tt));
      match slept with
      | Err e => ret (Err (AfterIoMayHaveStarted e))
      | Ok _ =>
          do received <- Receive channel_ timeout;
          match received with
          | Err e => ret (Err (AfterIoMayHaveStarted e))
          | Ok None => ret (Fail kTimeout "no response within the read timeout")
          | Ok (Some frame) =>
              let parsed := ParseResponse frame in
              if IsPending parsed then
                do _ <- Log LDebug ("ECU reported responsePending for SID 0x" +:+ fmt_02x expected_service
                                    +:+ "; waiting");
                read_loop policy expected_service n 0 (pending_timeout policy)
              else
                ret (match resp_kind parsed with
                     | kMalformed => Fail kBadResponse ("malformed UDS response: " +:+ ToHex frame)
                     | kNegative => Fail kBadResponse (Describe frame)
                     | kPositive =>
                         if negb (Matches parsed expected_service) then
                           Fail kBadResponse ("expected response to SID 0x" +:+ fmt_02x expected_service
                                              +:+ ", got 0x" +:+ fmt_02x (service parsed))
                         else Ok frame
                     end)
          end
      end
  end.
Definition Request (pdu : list Z) (policy : ExchangePolicy) : M (result Error (list Z)) :=
  if zlen pdu =? 0 then ret (Fail kInternal "UDS request PDU is empty")
  else
    do cancelled <- Cancelled;
    if cancelled then ret (Err (CancelledBeforeDelegation "cancelled before request"))
    else
      let expected_service := zget pdu 0 in
      do! _ <- Send channel_ pdu;
      read_loop policy expected_service (Z.to_nat (max_pending_repeats policy + 1))
        (pre_read_delay policy) (read_timeout policy).
End client.

(** ** Lemmas *)
(** The frames of a list of reads, all pending replies. *)
Definition pending_reads (unwrap : list Z -> option (list Z)) (l : list (result Error (option (list Z)))) : Prop :=
  Forall (fun r => exists raw frame, r = Ok (Some raw) /\ unwrap raw = Some frame /\ pending_reply frame) l.
(** What the reading half of an exchange does. *)
Definition reading_spec (unwrap : list Z -> option (list Z)) (sid : Z) (n : nat)
    (r : result Error (list Z)) (d : trace) : Prop :=
  writes d = [] /\ (length (reads d) <= n)%nat
  /\ (forall e, r = Err e -> ~ refused e)
  /\ (forall frame, r = Ok frame ->
        Matches (ParseResponse frame) sid = true
        /\ exists pend raw, reads d = pend ++ [Ok (Some raw)] /\ pending_reads unwrap pend /\ unwrap raw = Some frame).
Section client_specs.
Context `{Env} (ch : UdsChannel) (wrap : list Z -> list Z) (unwrap : list Z -> option (list Z))
  {HC : ChannelSpec ch wrap unwrap}.
Lemma runs_delay delay :
  runs (if 0 <? delay then Sleep delay else ret (Ok tt)) (fun _ d => writes d = [] /\ reads d = []).
Proof. destruct (_ <? _); [by apply runs_Sleep|by apply runs_ret]. Qed.
Lemma Fail_not_refused {A} k s (e : Error) : @Fail A k s = Err e -> ~ refused e.
Proof. intros [= <-]. unfold refused. cbn. intros []. congruence. Qed.
Lemma reading_spec_stop sid n r d1 d2 :
  writes d1 = [] -> reads d1 = [] -> writes d2 = [] -> (length (reads d2) <= 1)%nat ->
  (forall frame, r <> Ok frame) -> (forall e, r = Err e -> ~ refused e) ->
  reading_spec unwrap sid (S n) r (d1 ++ d2).
Proof.
  intros W1 R1 W2 R2 Hno He. split_and!; [by rewrite writes_app, W1, W2|rewrite reads_app, R1; cbn; lia|done|].
  intros frame E. by destruct (Hno frame).
Qed.
Lemma runs_read_loop policy sid n delay timeout :
  runs (read_loop ch policy sid n delay timeout) (reading_spec unwrap sid n).
Proof.
  revert delay timeout. induction n as [|n IH]; intros delay timeout; cbn [read_loop].
  { apply runs_ret. split_and!; [done|done|by apply Fail_not_refused|done]. }
  apply (runs_bind _ _ _ _ (runs_delay delay)). intros [[]|e].
  2:{ apply runs_ret. intros d1 [W R]. apply reading_spec_stop; try done; [by cbn; lia|].
      intros e' [= <-]. apply AfterIoMayHaveStarted_not_refused. }
  apply (runs_bind _ _ _ _ (receive_spec timeout)). intros [[frame|]|e].
  - destruct (IsPending (ParseResponse frame)) eqn:Hp.
    + apply (runs_bind _ _ (fun _ d => writes d = [] /\ reads d = [])); [by apply runs_Log|]. intros [].
      refine (runs_weaken _ _ _ (IH 0 (pending_timeout policy)) _).
      intros r d4 (W4 & R4 & He & Hok) d3 [W3 R3] d2 (W2 & raw & R2 & U2) d1 [W1 R1].
      apply IsPending_iff in Hp. split_and!.
      * by rewrite !writes_app, W1, W2, W3, W4.
      * rewrite !reads_app, R1, R2, R3. cbn. lia.
      * done.
      * intros f Ef. destruct (Hok f Ef) as (Hm & pend & raw' & R4' & Hpend & U4). split; [done|].
        exists (Ok (Some raw) :: pend), raw'. rewrite !reads_app, R1, R2, R3, R4'. split_and!; [done| |done].
        constructor; [|done]. by exists raw, frame.
    + apply runs_ret. intros d2 (W2 & raw & R2 & U2) d1 [W1 R1]. rewrite app_nil_r.
      destruct (resp_kind (ParseResponse frame)) eqn:Hk; [destruct (Matches (ParseResponse frame) sid) eqn:Hm|..]; cbn [negb].
      * split_and!; [by rewrite writes_app, W1, W2|rewrite reads_app, R1, R2; cbn; lia|done|].
        intros f [= <-]. split; [done|]. exists [], raw. rewrite reads_app, R1, R2. split_and!; [done|constructor|done].
      * apply reading_spec_stop; try done; [rewrite R2; cbn; lia|by apply Fail_not_refused].
      * apply reading_spec_stop; try done; [rewrite R2; cbn; lia|by apply Fail_not_refused].
      * apply reading_spec_stop; try done; [rewrite R2; cbn; lia|by apply Fail_not_refused].
  - apply runs_ret. intros d2 [W2 R2] d1 [W1 R1]. rewrite app_nil_r.
    apply reading_spec_stop; try done; [rewrite R2; cbn; lia|by apply Fail_not_refused].
  - apply runs_ret. intros d2 [W2 R2] d1 [W1 R1]. rewrite app_nil_r. apply reading_spec_stop; try done.
    intros e' [= <-]. apply AfterIoMayHaveStarted_not_refused.
Qed.
(** What one exchange does, whatever the environment: the promise the executors
    build on. *)
Definition exchange_spec (pdu : list Z) (policy : ExchangePolicy) (r : result Error (list Z)) (d : trace) : Prop :=
  (writes d = [] \/ exists answer, writes d = [(wrap pdu, answer)])
  /\ (length (reads d) <= Z.to_nat (max_pending_repeats policy + 1))%nat
  /\ (forall e, r = Err e -> refused e ->
        reads d = [] /\ (writes d = [] \/ writes d = [(wrap pdu, Err e)]))
  /\ (forall frame, r = Ok frame ->
        writes d = [(wrap pdu, Ok tt)]
        /\ Matches (ParseResponse frame) (zget pdu 0) = true
        /\ exists pend raw, reads d = pend ++ [Ok (Some raw)] /\ pending_reads unwrap pend /\ unwrap raw = Some frame).
Lemma runs_Request pdu policy : runs (Request ch pdu policy) (exchange_spec pdu policy).
Proof.
  unfold Request. destruct (zlen pdu =? 0).
  { apply runs_ret. split_and!; [by left|by cbn; lia| |done]. intros e E Hr. by destruct (Fail_not_refused _ _ _ E). }
  apply (runs_bind _ _ (fun _ d => writes d = [] /\ reads d = [])); [by apply runs_Cancelled|]. intros [|].
  { apply runs_ret. intros d [W R]. rewrite app_nil_r. split_and!; [by left|rewrite R; cbn; lia|intros e [= <-] _; auto|done]. }
  apply (runs_try _ _ _ _ (send_spec pdu)).
  - intros []. refine (runs_weaken _ _ _ (runs_read_loop policy (zget pdu 0) _ _ _) _).
    intros r d3 (W3 & R3 & He & Hok) d2 [R2 Hw] d1 [W1 R1].
    destruct Hw as [W2|[_ (e & E & _)]]; [|done].
    split_and!.
    + right. exists (Ok tt). by rewrite !writes_app, W1, W2, W3.
    + rewrite !reads_app, R1, R2. done.
    + intros e Ee Hr. by destruct (He e Ee).
    + intros frame Ef. destruct (Hok frame Ef) as (Hm & pend & raw & R3' & Hp & U). split_and!; [|done|].
      * by rewrite !writes_app, W1, W2, W3.
      * exists pend, raw. by rewrite !reads_app, R1, R2, R3'.
  - intros e d2 [R2 Hw] d1 [W1 R1]. split_and!.
    + destruct Hw as [W2|[W2 _]]; rewrite writes_app, W1, W2; [right; by eexists|by left].
    + rewrite reads_app, R1, R2. cbn. lia.
    + intros e' [= <-] _. rewrite reads_app, R1, R2, writes_app, W1. split; [done|].
      destruct Hw as [W2|[W2 _]]; rewrite W2; auto.
    + done.
Qed.
End client_specs.
