(* ===== verification/CanFlash.v ===== *)
(** * CanFlash: the CAN flash transport, its guard and its UDS channel

    [src/backend/flash/flash_executor.h] (the transport interface),
    [guarded_can_flash_transport.cpp] and [can_flash_uds_channel.cpp]. *)
From S2P Require Import Prelude Bytes Ports Uds UdsClient.

(** ** [ICanFlashTransport]: the calls, and the adapter that answers them *)
Record CanFlashTransport := {
  ResetConnection : M Status;
  Configure : Iso15765Config -> M Status;
  Open : M Status;
  Close : M Status;
  Write : list Z -> M Status;
  Read : Z -> M (result Error (option (list Z)))
}.
Section can_flash.
Context `{Env}.
Definition adapter : CanFlashTransport := {|
  ResetConnection := fun t => let r := env_reset t in (r, t ++ [EvReset r]);
  Configure := fun config t => let r := env_configure t config in (r, t ++ [EvConfigure config r]);
  Open := fun t => let r := env_open t in (r, t ++ [EvOpen r]);
  Close := fun t => let r := env_close t in (r, t ++ [EvClose r]);
  Write := fun data t => let r := env_write t data in (r, t ++ [EvWrite data r]);
  Read := fun timeout t => let r := env_read t timeout in (r, t ++ [EvRead timeout r])
|}.
(** The default in-session restart: a checkpoint around every step. *)
Definition RestartIso15765 (transport : CanFlashTransport) (config : Iso15765Config) : M Status :=
  do! _ <- CheckCancelled "ISO-15765 restart cancelled before reset";
  do! _ <- ResetConnection transport;
  do! _ <- CheckCancelled "ISO-15765 restart cancelled after reset";
  do! _ <- Configure transport config;
  do! _ <- CheckCancelled "ISO-15765 restart cancelled after configure";
  do! _ <- Open transport;
  CheckCancelled "ISO-15765 restart cancelled after open".

(** ** [GuardedCanFlashTransport]: a cancelled exchange is refused unsent *)
Definition GuardedCanFlashTransport (inner_ : CanFlashTransport) : CanFlashTransport := {|
  ResetConnection := ResetConnection inner_;
  Configure := Configure inner_;
  Open := Open inner_;
  Close := Close inner_;
  Write := fun data =>
    do cancelled <- Cancelled;
    if cancelled then ret (Err (CancelledBeforeDelegation "CAN write cancelled before delegation"))
    else Write inner_ data;
  Read := fun timeout =>
    do cancelled <- Cancelled;
    if cancelled then ret (Err (CancelledBeforeDelegation "CAN read cancelled before delegation"))
    else Read inner_ timeout
|}.

(** ** [CanFlashUdsChannel]: the four-byte identifier in front of every PDU *)
Definition kEnvelopeSize : Z := 4.
Definition CanFlashUdsChannel (transport_ : CanFlashTransport) (request_id_ response_id_ : Z) : UdsChannel := {|
  Send := fun pdu => Write transport_ (ComposeBe [FU32 request_id_; FBytes pdu]);
  Receive := fun timeout =>
    do frame <- Read transport_ timeout;
    ret (match frame with
         | Err e => Err e
         | Ok None => Ok None
         | Ok (Some raw) =>
             if zlen raw <? kEnvelopeSize then
               Fail kBadResponse ("CAN frame of " +:+ fmt_d (zlen raw)
                                  +:+ " bytes is shorter than its 4-byte id envelope")
             else
               let id := ReadU32Be raw 0 in
               if negb (id =? response_id_) then
                 Fail kBadResponse ("expected CAN reply id 0x" +:+ fmt_x response_id_ +:+ ", got 0x" +:+ fmt_x id)
               else Ok (Some (zdrop kEnvelopeSize raw))
         end)
|}.
End can_flash.

(** ** The channel keeps its promises *)
Definition wrap_can (request_id : Z) (pdu : list Z) : list Z := ComposeBe [FU32 request_id; FBytes pdu].
Definition unwrap_can (response_id : Z) (raw : list Z) : option (list Z) :=
  if (kEnvelopeSize <=? zlen raw) && (ReadU32Be raw 0 =? response_id) then Some (zdrop kEnvelopeSize raw) else None.
Section can_specs.
Context `{Env}.
Lemma runs_adapter_Write data : runs (Write adapter data) (fun r d => d = [EvWrite data r]).
Proof. by apply runs_call. Qed.
Lemma runs_adapter_Read timeout : runs (Read adapter timeout) (fun r d => d = [EvRead timeout r]).
Proof. by apply runs_call. Qed.
Lemma runs_guarded_Write data :
  runs (Write (GuardedCanFlashTransport adapter) data) (fun r d => reads d = [] /\
    (writes d = [(data, r)] \/ (writes d = [] /\ exists e, r = Err e /\ refused e))).
Proof.
  cbn [Write GuardedCanFlashTransport].
  apply (runs_bind _ _ (fun b d => d = [EvCancelled b])); [by apply runs_Cancelled|]. intros [].
  - apply runs_ret. intros d ->. split; [done|]. right. split; [done|]. by eexists.
  - refine (runs_weaken _ _ _ (runs_adapter_Write data) _). intros r d -> d1 ->. split; [done|]. by left.
Qed.
Lemma runs_guarded_Read timeout :
  runs (Read (GuardedCanFlashTransport adapter) timeout) (fun r d => writes d = [] /\
    (reads d = [r] \/ (reads d = [] /\ exists e, r = Err e /\ refused e))).
Proof.
  cbn [Read GuardedCanFlashTransport].
  apply (runs_bind _ _ (fun b d => d = [EvCancelled b])); [by apply runs_Cancelled|]. intros [].
  - apply runs_ret. intros d ->. split; [done|]. right. split; [done|]. by eexists.
  - refine (runs_weaken _ _ _ (runs_adapter_Read timeout) _). intros r d -> d1 ->. split; [done|]. by left.
Qed.
#[export] Instance CanFlashUdsChannel_spec request_id response_id :
  ChannelSpec (CanFlashUdsChannel (GuardedCanFlashTransport adapter) request_id response_id)
    (wrap_can request_id) (unwrap_can response_id).
Proof.
  split.
  - intros pdu. cbn [Send CanFlashUdsChannel]. apply runs_guarded_Write.
  - intros timeout. cbn [Receive CanFlashUdsChannel]. apply (runs_bind _ _ _ _ (runs_guarded_Read timeout)).
    intros r. apply runs_ret. intros d [W R]. rewrite app_nil_r. split; [done|].
    destruct r as [[raw|]|e].
    + destruct R as [R|(_ & e & [=] & _)].
      destruct (Z.ltb_spec (zlen raw) kEnvelopeSize); [rewrite R; cbn; lia|]. cbv zeta.
      destruct (Z.eqb_spec (ReadU32Be raw 0) response_id) as [E|]; cbn [negb]; [|rewrite R; cbn; lia].
      exists raw. split; [done|]. unfold unwrap_can. rewrite (proj2 (Z.leb_le _ _)), (proj2 (Z.eqb_eq _ _)) by done. done.
    + by destruct R as [R|(_ & e & [=] & _)].
    + destruct R as [R|[R _]]; rewrite R; cbn; lia.
Qed.
End can_specs.

(** C32: one UDS exchange over the guarded CAN channel, in every environment: the
    request goes out at most once, framed, and is never sent again, however many
    responsePending replies follow; at most [max_pending_repeats + 1] frames are
    read; a result is the frame of the last read, stripped of its identifier, a
    positive reply to the request, and every earlier frame was a responsePending
    reply; an error marked as refused before delegation means that no frame was
    read and nothing was sent, or that the adapter itself gave that answer. *)
Theorem exchange_never_resends `{Env} request_id response_id pdu policy t :
  exists d,
    let r := fst (Request (CanFlashUdsChannel (GuardedCanFlashTransport adapter) request_id response_id) pdu policy t) in
    snd (Request (CanFlashUdsChannel (GuardedCanFlashTransport adapter) request_id response_id) pdu policy t) = t ++ d
    /\ (writes d = [] \/ exists answer, writes d = [(wrap_can request_id pdu, answer)])
    /\ (length (reads d) <= Z.to_nat (max_pending_repeats policy + 1))%nat
    /\ (forall e, r = Err e -> refused e ->
          reads d = [] /\ (writes d = [] \/ writes d = [(wrap_can request_id pdu, Err e)]))
    /\ (forall frame, r = Ok frame ->
          writes d = [(wrap_can request_id pdu, Ok tt)]
          /\ Matches (ParseResponse frame) (zget pdu 0) = true
          /\ exists pend raw, reads d = pend ++ [Ok (Some raw)]
               /\ pending_reads (unwrap_can response_id) pend /\ unwrap_can response_id raw = Some frame).
Proof.
  destruct (runs_Request (CanFlashUdsChannel (GuardedCanFlashTransport adapter) request_id response_id)
    (wrap_can request_id) (unwrap_can response_id) pdu policy t) as (d & E & Hs).
  exists d. exact (conj E Hs).
Qed.

(** ** A scripted environment: the answers of the reads in order *)
Definition scripted (replies : list (option (list Z))) : Env := {|
  env_cancelled := fun _ => false;
  env_sleep := fun _ _ => Ok tt;
  env_reset := fun _ => Ok tt;
  env_configure := fun _ _ => Ok tt;
  env_open := fun _ => Ok tt;
  env_close := fun _ => Ok tt;
  env_write := fun _ _ => Ok tt;
  env_read := fun t _ => Ok (default None (replies !! length (reads t)));
  env_port := fun _ => absent_port
|}.
(** Two responsePending replies and the answer, on one request. *)
Example pending_then_positive :
  let env := scripted [Some [0; 0; 7; 0xE8; 0x7F; 0x10; 0x78]; Some [0; 0; 7; 0xE8; 0x7F; 0x10; 0x78];
                       Some [0; 0; 7; 0xE8; 0x50; 0x43]] in
  let '(r, t) := Request (H := env) (CanFlashUdsChannel (GuardedCanFlashTransport adapter) 0x7E0 0x7E8)
                   [0x10; 0x43] default_policy [] in
  r = Ok [0x50; 0x43] /\ written t = [[0; 0; 7; 0xE0; 0x10; 0x43]] /\ length (reads t) = 3%nat.
Proof. vm_compute. auto. Qed.
(** The same replies when only one repeat is allowed. *)
Example pending_too_often :
  let env := scripted [Some [0; 0; 7; 0xE8; 0x7F; 0x10; 0x78]; Some [0; 0; 7; 0xE8; 0x7F; 0x10; 0x78];
                       Some [0; 0; 7; 0xE8; 0x50; 0x43]] in
  let '(r, t) := Request (H := env) (CanFlashUdsChannel (GuardedCanFlashTransport adapter) 0x7E0 0x7E8)
                   [0x10; 0x43] {| pre_read_delay := 0; read_timeout := 500; pending_timeout := 3000;
                                   max_pending_repeats := 1 |} [] in
  is_ok r = false /\ length (written t) = 1%nat /\ length (reads t) = 2%nat.
Proof. vm_compute. auto. Qed.
