(* ===== verification/FlashPlan.v ===== *)
(** * FlashPlan: [src/backend/flash/flash_types.h], [flash_family.h],
    [flash_plan.h], [flash_validation.cpp] and [ecu/single_window_plan.cpp]

    What a flash operation is to do, as a value checked before any hardware is
    touched: the generic validation every plan passes, and the builder shared by
    the families whose plan is one window of the ROM. *)
From S2P Require Import Prelude Ports MemoryMap MemoryImage FlashDevices.
Import Ports.

(** ** [flash_types.h], [flash_family.h] *)
Inductive FlashOperation : Set := kRead | kTestWrite | kWrite.
#[global] Instance FlashOperation_eq_dec : EqDecision FlashOperation.
Proof. solve_decision. Defined.
Record MemoryRegion := { reg_start : Z; reg_length : Z }.
#[global] Instance MemoryRegion_eq_dec : EqDecision MemoryRegion.
Proof. solve_decision. Defined.
Record KernelImage := { kernel_id : string; load_address : Z; kernel_bytes : list Z }.
Inductive ConfirmationId : Set :=
  kBeginEepromRead | kInspectEepromBytes | kCycleIgnition | kEraseTrigger | kTopRegionBootstrap
| kApplyProgrammingVoltage | kApplyBootModeVoltages | kStartKlineRead | kKernelBootstrap.
#[global] Instance ConfirmationId_eq_dec : EqDecision ConfirmationId.
Proof. solve_decision. Defined.
Record ConfirmationSpec := { conf_id : ConfirmationId; arguments : list (string * string) }.
#[global] Instance ConfirmationSpec_eq_dec : EqDecision ConfirmationSpec.
Proof. solve_decision. Defined.
Inductive FlashFamily : Set :=
  kDensoSh705xEepromKline | kDensoSh705xEepromCan | kMitsuColtM32rCan | kSubaruMitsuM32rKline
| kSubaruHitachiM32rKline | kSubaruDensoMc68hc16y502 | kSubaruDensoSh705502 | kSubaruHitachiM32rCan
| kSubaruTcuCvtHitachiM32rCan | kSubaruTcuCvtMitsuMh8111Can | kSubaruTcuCvtMitsuMh8104Can
| kSubaruDenso1n83m15mCan | kSubaruDensoSh72531Can | kSubaruDensoSh72543CanDiesel | kSubaruDenso1n83m4mCan
| kSubaruDensoSh705xDensoCan | kSubaruTcuDensoSh705xCan | kSubaruDensoSh7058Can | kSubaruDensoSh7058CanDiesel
| kSubaruTcuHitachiM32rKline | kSubaruTcuHitachiM32rCan | kSubaruHitachiSh72543rCan | kSubaruHitachiSh7058
| kSubaruUnisiaJecs | kSubaruDensoSh705xKline | kSubaruDensoMc68hc16y502Bdm | kSubaruUnisiaJecsM32rKline
| kSubaruUnisiaJecsM32rBootModeKernel | kSubaruUnisiaJecsM32rBootModeProgram.
#[global] Instance FlashFamily_eq_dec : EqDecision FlashFamily.
Proof. solve_decision. Defined.
Inductive TransportKind : Set := kKline | kCanIso15765 | kCanRawIso15765.
#[global] Instance TransportKind_eq_dec : EqDecision TransportKind.
Proof. solve_decision. Defined.

(** The CAN identity every exchange of the Hitachi M32R CAN family needs. *)
Record SubaruHitachiM32rCanPlan :=
  { m32r_request_id : Z; m32r_response_id : Z; m32r_bitrate : Z; m32r_extended_id : bool }.
(** The fields of the plan types of the other single-window families: several
    types have the same fields. *)
Record CanPlan := { can_request_id : Z; can_response_id : Z; can_bitrate : Z; can_extended_id : bool }.
Record PaddedCanPlan := { pad_can : CanPlan; lead_pad_len : Z; tail_pad_len : Z }.
Record PagedCanPlan := { paged_can : CanPlan; page_size : Z; write_frame_size : Z }.
Record SubaruMitsuM32rKlinePlan := {
  mitsu_tester_id : Z; mitsu_target_id : Z; mitsu_initial_baud : Z; mitsu_flash_baud : Z; mitsu_chunk_size : Z;
  unread_prefix_fill : Z
}.
Inductive HitachiM32rKlineSessionMode : Set := kNormal | kRecovery.
#[global] Instance HitachiM32rKlineSessionMode_eq_dec : EqDecision HitachiM32rKlineSessionMode.
Proof. solve_decision. Defined.
Record SubaruHitachiM32rKlinePlan := {
  session_mode : HitachiM32rKlineSessionMode; kline_tester_id : Z; kline_target_id : Z; initial_baud : Z;
  write_baud : Z; read_baud : Z; kline_chunk_size : Z; read_address_bias : Z
}.
Record SubaruTcuHitachiM32rKlinePlan :=
  { tcu_tester_id : Z; tcu_target_id : Z; tcu_baud : Z; tcu_block_size : Z }.
(** The other families' plan types. *)
Inductive SubaruDensoSh7058CanSecurity : Set := kSecurityStock | kSecurityEcuTek | kSecurityRaceRom | kSecurityRaceRomAlt | kSecurityCobb.
#[global] Instance SubaruDensoSh7058CanSecurity_eq_dec : EqDecision SubaruDensoSh7058CanSecurity.
Proof. solve_decision. Defined.
Record SubaruDensoSh7058CanPlan := { sh7058_can : CanPlan; sh7058_security : SubaruDensoSh7058CanSecurity }.
Record SubaruDensoSh705xDensoCanPlan := {
  iso_request_id : Z; iso_response_id : Z; raw_transmit_id : Z; raw_receive_id : Z; densocan_bitrate : Z;
  iso_extended_id : bool; raw_extended_id : bool
}.
Record SubaruDensoSh7055_02Plan := { sh705502_tester_id : Z; sh705502_target_id : Z; read_ecu_id : bool }.
#[global] Instance SubaruDensoSh7055_02Plan_eq_dec : EqDecision SubaruDensoSh7055_02Plan.
Proof. solve_decision. Defined.
Inductive SubaruDensoSh705xKlineSeedKey : Set := kSeedKeyStock | kSeedKeyEcuTek.
#[global] Instance SubaruDensoSh705xKlineSeedKey_eq_dec : EqDecision SubaruDensoSh705xKlineSeedKey.
Proof. solve_decision. Defined.
Record SubaruDensoSh705xKlinePlan :=
  { sh705x_initial_baud : Z; sh705x_tester_id : Z; sh705x_target_id : Z; seed_key : SubaruDensoSh705xKlineSeedKey }.
#[global] Instance SubaruDensoSh705xKlinePlan_eq_dec : EqDecision SubaruDensoSh705xKlinePlan.
Proof. solve_decision. Defined.
Record SubaruDensoMc68hc16y5_02Plan :=
  { connect_baud : Z; kernel_baud : Z; encryption_xor : Z; kernel_magic : Z; bootloader_ok : list Z }.
#[global] Instance SubaruDensoMc68hc16y5_02Plan_eq_dec : EqDecision SubaruDensoMc68hc16y5_02Plan.
Proof. solve_decision. Defined.
Record MitsuColtM32rCanPlan := { colt_can : CanPlan; use_vendor_challenge : bool; colt_session_id : Z }.
Record SubaruHitachiSh7058KlinePlan :=
  { h7058_initial_baud : Z; h7058_tester_id : Z; h7058_target_id : Z; h7058_page_size : Z }.
#[global] Instance SubaruHitachiSh7058KlinePlan_eq_dec : EqDecision SubaruHitachiSh7058KlinePlan.
Proof. solve_decision. Defined.
Record SubaruHitachiSh7058CanPlan :=
  { h7058_bitrate : Z; h7058_request_id : Z; h7058_response_id : Z; h7058_extended_id : bool; h7058_frame_size : Z }.
#[global] Instance SubaruHitachiSh7058CanPlan_eq_dec : EqDecision SubaruHitachiSh7058CanPlan.
Proof. solve_decision. Defined.
Record SubaruUnisiaJecsPlan := { jecs_initial_baud : Z; jecs_even_parity : bool }.
(** [SubaruUnisiaJecsM32rKlinePlan] and the two boot-mode plans have the same fields. *)
Record JecsM32rSession := { session_initial_baud : Z; session_tester_id : Z; session_target_id : Z }.
#[global] Instance JecsM32rSession_eq_dec : EqDecision JecsM32rSession.
Proof. solve_decision. Defined.
Inductive DensoSecurityVariant : Set := kVariantStock | kVariantEcuTek | kVariantCobb | kVariantEcuTekRaceRom.
#[global] Instance DensoSecurityVariant_eq_dec : EqDecision DensoSecurityVariant.
Proof. solve_decision. Defined.
Inductive EepromReadMode : Set := kMode2 | kMode3 | kMode4.
#[global] Instance EepromReadMode_eq_dec : EqDecision EepromReadMode.
Proof. solve_decision. Defined.
Record DensoSh705xEepromKlinePlan := {
  ek_mode : EepromReadMode; ek_security : DensoSecurityVariant; ek_tester_id : Z; ek_target_id : Z; ek_initial_baud : Z;
  ek_kernel_baud : Z
}.
Record DensoSh705xEepromCanPlan := { ec_mode : EepromReadMode; ec_security : DensoSecurityVariant; ec_can : CanPlan }.
(** The type-erased value of a family plan. *)
Inductive plan_value :=
| M32rCanPlan (p : SubaruHitachiM32rCanPlan)
| SubaruTcuCvtHitachiM32rCanPlan (p : CanPlan)
| SubaruTcuCvtMitsuMh8111CanPlan (p : CanPlan)
| SubaruTcuCvtMitsuMh8104CanPlan (p : CanPlan)
| SubaruDenso1n83m_1_5mCanPlan (p : PaddedCanPlan)
| SubaruDenso1n83m_4mCanPlan (p : PaddedCanPlan)
| SubaruDensoSh72531CanPlan (p : PaddedCanPlan)
| SubaruDensoSh72543CanDieselPlan (p : PaddedCanPlan)
| SubaruHitachiSh72543rCanPlan (p : PagedCanPlan)
| SubaruTcuHitachiM32rCanPlan (p : PagedCanPlan)
| MitsuM32rKlinePlan (p : SubaruMitsuM32rKlinePlan)
| HitachiM32rKlinePlan (p : SubaruHitachiM32rKlinePlan)
| TcuHitachiM32rKlinePlan (p : SubaruTcuHitachiM32rKlinePlan)
| Sh7058CanPlan (p : SubaruDensoSh7058CanPlan)
| SubaruDensoSh7058CanDieselPlan (p : CanPlan)
| DensoCanPlan (p : SubaruDensoSh705xDensoCanPlan)
| SubaruTcuDensoSh705xCanPlan (p : CanPlan)
| Sh705502Plan (p : SubaruDensoSh7055_02Plan)
| Sh705xKlinePlan (p : SubaruDensoSh705xKlinePlan)
| Mc68Plan (p : SubaruDensoMc68hc16y5_02Plan)
| SubaruDensoMc68hc16y5_02BdmPlan (baud : Z)
| ColtPlan (p : MitsuColtM32rCanPlan)
| HitachiSh7058KlinePlan (p : SubaruHitachiSh7058KlinePlan)
| HitachiSh7058CanPlan (p : SubaruHitachiSh7058CanPlan)
| JecsPlan (p : SubaruUnisiaJecsPlan)
| SubaruUnisiaJecsM32rKlinePlan (p : JecsM32rSession)
| SubaruUnisiaJecsM32rBootModeKernelPlan (p : JecsM32rSession)
| SubaruUnisiaJecsM32rBootModeProgramPlan (p : JecsM32rSession)
| EepromKlinePlan (p : DensoSh705xEepromKlinePlan)
| EepromCanPlan (p : DensoSh705xEepromCanPlan).
(** [FamilyPlan]: the value with the facts its traits recorded. *)
Record FamilyPlan := {
  fp_value : option plan_value; fp_family : FlashFamily; fp_transport : TransportKind; RequiresKernel : bool
}.
Definition HasValue (p : FamilyPlan) : bool := match fp_value p with Some _ => true | None => false end.
Definition AsM32rCan (p : FamilyPlan) : option SubaruHitachiM32rCanPlan :=
  match fp_value p with Some (M32rCanPlan p) => Some p | _ => None end.
(** [FamilyTraits<SubaruHitachiM32rCanPlan>]. *)
Definition m32r_can_family_plan (p : SubaruHitachiM32rCanPlan) : FamilyPlan :=
  {| fp_value := Some (M32rCanPlan p); fp_family := kSubaruHitachiM32rCan; fp_transport := kCanIso15765;
     RequiresKernel := false |}.

(** ** [flash_plan.h] *)
Record FlashPlanFields := {
  operation : FlashOperation;
  target_id : string;
  mcu_name : string;
  transfer_region : MemoryRegion;
  erase_regions : list MemoryRegion;
  image : option (list Z);
  image_map : option MemoryMap;
  kernel : option KernelImage;
  family_plan : FamilyPlan;
  confirmations : list ConfirmationSpec
}.
Definition without_image_map (f : FlashPlanFields) : FlashPlanFields := {|
  operation := operation f; target_id := target_id f; mcu_name := mcu_name f;
  transfer_region := transfer_region f; erase_regions := erase_regions f; image := image f; image_map := None;
  kernel := kernel f; family_plan := family_plan f; confirmations := confirmations f
|}.
Record FlashPlan := { fields_ : FlashPlanFields; total_transfer_bytes_ : Z; rom_image_ : option MemoryImage }.
Definition Operation (p : FlashPlan) : FlashOperation := operation (fields_ p).
Definition Family (p : FlashPlan) : FlashFamily := fp_family (family_plan (fields_ p)).
Definition TransferRegion (p : FlashPlan) : MemoryRegion := transfer_region (fields_ p).
Definition EraseRegions (p : FlashPlan) : list MemoryRegion := erase_regions (fields_ p).
Definition Image (p : FlashPlan) : option (list Z) := image (fields_ p).
Definition ImageOrEmpty (p : FlashPlan) : list Z := match image (fields_ p) with Some i => i | None => [] end.

(** ** [flash_validation.cpp] *)
Definition RegionEndNotRepresentable (region : MemoryRegion) : bool :=
  0xFFFFFFFF <? reg_start region + reg_length region.
Definition ValidateTargetAndRegions (f : FlashPlanFields) : Status :=
  if String.eqb (target_id f) "" then Fail kInvalidConfig "target_id must not be empty"
  else if String.eqb (mcu_name f) "" then Fail kInvalidConfig "mcu_name must not be empty"
  else if reg_length (transfer_region f) =? 0 then Fail kInvalidConfig "transfer_region must not be empty"
  else if RegionEndNotRepresentable (transfer_region f) then
    Fail kInvalidConfig "transfer_region end address does not fit in 32 bits"
  else if existsb RegionEndNotRepresentable (erase_regions f) then
    Fail kInvalidConfig "erase region end address does not fit in 32 bits"
  else Ok tt.
Definition ValidateOperationShape (f : FlashPlanFields) : Status :=
  match operation f with
  | kRead =>
      match erase_regions f with
      | _ :: _ => Fail kInvalidConfig "Read plans must not declare erase regions"
      | [] => match image f with
              | Some _ => Fail kInvalidConfig "Read plans must not carry an image"
              | None => Ok tt
              end
      end
  | _ => match image f with
         | Some _ => Ok tt
         | None => Fail kInvalidConfig "Write/TestWrite plans must carry an image"
         end
  end.
Definition PlaceImage (f : FlashPlanFields) : result Error (option MemoryImage) :=
  match image_map f with
  | None => Ok None
  | Some map =>
      match image f with
      | None => Fail kInvalidConfig "only a write image can have a memory map"
      | Some image =>
          match MemoryImage_Create map image with
          | Ok placed => Ok (Some placed)
          | Err e => Fail kInvalidConfig ("the image does not fit its memory map: " +:+ MemoryMap.detail e)
          end
      end
  end.
Definition ValidateKernel (f : FlashPlanFields) : Status :=
  match kernel f with
  | None => if RequiresKernel (family_plan f) then Fail kInvalidConfig "family requires a kernel image" else Ok tt
  | Some k =>
      if String.eqb (kernel_id k) "" then Fail kInvalidConfig "kernel id must not be empty"
      else if zlen (kernel_bytes k) =? 0 then Fail kInvalidConfig "kernel bytes must not be empty"
      else if 0xFFFFFFFF <? load_address k + zlen (kernel_bytes k) then
        Fail kInvalidConfig "kernel upload range overflows a 32-bit address space"
      else Ok tt
  end.
Fixpoint repeats_id (seen : list ConfirmationId) (l : list ConfirmationSpec) : bool :=
  match l with
  | [] => false
  | c :: l => if decide (conf_id c ∈ seen) then true else repeats_id (conf_id c :: seen) l
  end.
Definition HasDuplicateConfirmation (f : FlashPlanFields) : bool := repeats_id [] (confirmations f).
Definition ValidateAndBuild (fields : FlashPlanFields) : result Error FlashPlan :=
  let! _ := ValidateTargetAndRegions fields in
  let! _ := ValidateOperationShape fields in
  let! rom_image := PlaceImage fields in
  let! _ := ValidateKernel fields in
  if negb (HasValue (family_plan fields)) then Fail kInvalidConfig "family_plan must not be empty"
  else if HasDuplicateConfirmation fields then Fail kInvalidConfig "duplicate confirmation id declared"
  else Ok {| fields_ := without_image_map fields;
             total_transfer_bytes_ := reg_length (transfer_region fields); rom_image_ := rom_image |}.

(** ** [ecu/single_window_plan.cpp] *)
Record SingleWindowPlanSpec := {
  display_name : string;
  protocols : list string;
  spec_mcu : string;
  read_region : MemoryRegion;
  write_region : MemoryRegion;
  image_size : Z;
  geometry_ok : FlashDevice -> bool;
  wire_params_ok : FlashPlan -> bool;
  supports_write : bool
}.
Definition ValidateIdentity (spec : SingleWindowPlanSpec) (protocol mcu : string) : Status :=
  if negb (existsb (String.eqb protocol) (protocols spec)) then
    Fail kInvalidConfig ("Unsupported " +:+ display_name spec +:+ " protocol: " +:+ protocol)
  else
    let index := FindFlashDeviceIndex mcu in
    if index <? 0 then Fail kInvalidConfig ("Unknown MCU type: " +:+ mcu)
    else if negb (String.eqb mcu (spec_mcu spec)) then
      Fail kInvalidConfig ("Protocol " +:+ protocol +:+ " expects MCU " +:+ spec_mcu spec +:+ "; got " +:+ mcu)
    else if negb (match zlookup kFlashDevices index with Some d => geometry_ok spec d | None => false end) then
      Fail kInvalidConfig (spec_mcu spec +:+ " flash geometry is invalid")
    else Ok tt.
Definition ValidateOperation (spec : SingleWindowPlanSpec) (op : FlashOperation) : Status :=
  match op with
  | kTestWrite => Fail kUnsupported "test_write is not supported by this family"
  | kWrite => if negb (supports_write spec) then
                Fail kUnsupported ("write is not supported by " +:+ display_name spec)
              else Ok tt
  | kRead => Ok tt
  end.
Definition region_for (spec : SingleWindowPlanSpec) (op : FlashOperation) : MemoryRegion :=
  match op with kRead => read_region spec | _ => write_region spec end.
Definition ValidatePlanWindows (spec : SingleWindowPlanSpec) (plan : FlashPlan) : Status :=
  if negb (bool_decide (TransferRegion plan = region_for spec (Operation plan))) then
    Fail kInvalidConfig (display_name spec +:+ " transfer region is invalid")
  else
    match Operation plan with
    | kRead => Ok tt
    | _ =>
        if negb (bool_decide (EraseRegions plan = [write_region spec])) then
          Fail kInvalidConfig (display_name spec +:+ " erase region is invalid")
        else if negb (zlen (ImageOrEmpty plan) =? image_size spec) then
          Fail kInvalidConfig ("ROM file must be exactly 0x" +:+ fmt_X (image_size spec) +:+ " bytes")
        else Ok tt
    end.
Definition ValidateSingleWindowPlan (spec : SingleWindowPlanSpec) (plan : FlashPlan) : Status :=
  let! _ := ValidateIdentity spec (target_id (fields_ plan)) (mcu_name (fields_ plan)) in
  let! _ :=
    if negb (wire_params_ok spec plan) then
      Fail kInvalidConfig (display_name spec +:+ " wire parameters are invalid")
    else match kernel (fields_ plan) with
         | Some _ => Fail kInvalidConfig (display_name spec +:+ " plans are kernel-free")
         | None =>
             match confirmations (fields_ plan) with
             | _ :: _ => Fail kInvalidConfig (display_name spec +:+ " plans must not declare extra confirmations")
             | [] => ValidateOperation spec (Operation plan)
             end
         end in
  ValidatePlanWindows spec plan.
(** The fields the builder fills in. *)
Definition single_window_fields (spec : SingleWindowPlanSpec) (op : FlashOperation) (protocol_name mcu_type : string)
    (img : option (list Z)) (family : FamilyPlan) : FlashPlanFields := {|
  operation := op;
  target_id := protocol_name;
  mcu_name := mcu_type;
  transfer_region := region_for spec op;
  erase_regions := match op with kWrite => [write_region spec] | _ => [] end;
  image := match op with kWrite => img | _ => None end;
  image_map := None;
  kernel := None;
  family_plan := family;
  confirmations := []
|}.
Definition BuildSingleWindowPlan (spec : SingleWindowPlanSpec) (op : FlashOperation)
    (protocol_name mcu_type : string) (img : option (list Z)) (family : FamilyPlan) : result Error FlashPlan :=
  let! _ := ValidateIdentity spec protocol_name mcu_type in
  let! _ := ValidateOperation spec op in
  let! _ :=
    match op with
    | kWrite =>
        match img with
        | None => Fail kInvalidConfig "Write plans must carry a ROM image"
        | Some i =>
            if negb (zlen i =? image_size spec) then
              Fail kInvalidConfig ("ROM file must be exactly 0x" +:+ fmt_X (image_size spec) +:+ " bytes; got 0x"
                                   +:+ fmt_x (zlen i) +:+ " bytes")
            else Ok tt
        end
    | _ => Ok tt
    end in
  let! plan := ValidateAndBuild (single_window_fields spec op protocol_name mcu_type img family) in
  let! _ := ValidateSingleWindowPlan spec plan in
  Ok plan.

(** ** [ecu/subaru_hitachi_m32r_can_plan.cpp] *)
Definition m32r_can_protocols : list string := ["sub_ecu_hitachi_m32r_can"%string].
Definition kRom : MemoryRegion := {| reg_start := 0; reg_length := 0x80000 |}.
Definition m32r_can_geometry_ok (device : FlashDevice) : bool :=
  (romsize device =? reg_length kRom) && (numblocks device =? 1)
  && match fblocks device with
     | b :: _ => (start b =? reg_start kRom) && (len b =? reg_length kRom)
     | [] => false
     end.
Definition m32r_can_wire_params_ok (plan : FlashPlan) : bool :=
  match AsM32rCan (family_plan (fields_ plan)) with
  | Some p => (m32r_request_id p =? 0x7E0) && (m32r_response_id p =? 0x7E8) && (m32r_bitrate p =? 500000)
              && negb (m32r_extended_id p)
  | None => false
  end.
Definition m32r_can_spec : SingleWindowPlanSpec := {|
  display_name := "Subaru Hitachi M32R CAN";
  protocols := m32r_can_protocols;
  spec_mcu := "M32R_512KB_1block";
  read_region := kRom;
  write_region := kRom;
  image_size := reg_length kRom;
  geometry_ok := m32r_can_geometry_ok;
  wire_params_ok := m32r_can_wire_params_ok;
  supports_write := true
|}.
Definition ValidateSubaruHitachiM32rCanPlan (plan : FlashPlan) : Status := ValidateSingleWindowPlan m32r_can_spec plan.
Definition BuildSubaruHitachiM32rCanPlan (op : FlashOperation) (protocol_name mcu_type : string)
    (img : option (list Z)) : result Error FlashPlan :=
  BuildSingleWindowPlan m32r_can_spec op protocol_name mcu_type img
    (m32r_can_family_plan {| m32r_request_id := 0x7E0; m32r_response_id := 0x7E8; m32r_bitrate := 500000;
                             m32r_extended_id := false |}).

(** ** Lemmas *)
(** What [ValidateAndBuild] demands of its fields. *)
Definition region_fits (r : MemoryRegion) : Prop := reg_start r + reg_length r <= 0xFFFFFFFF.
Definition fields_ok (f : FlashPlanFields) : Prop :=
  target_id f <> ""%string /\ mcu_name f <> ""%string
  /\ reg_length (transfer_region f) <> 0 /\ region_fits (transfer_region f) /\ Forall region_fits (erase_regions f)
  /\ (if decide (operation f = kRead) then erase_regions f = [] /\ image f = None else is_Some (image f))
  /\ (forall m, image_map f = Some m -> exists i placed, image f = Some i /\ MemoryImage_Create m i = Ok placed)
  /\ match kernel f with
     | None => RequiresKernel (family_plan f) = false
     | Some k => kernel_id k <> ""%string /\ kernel_bytes k <> [] /\ load_address k + zlen (kernel_bytes k) <= 0xFFFFFFFF
     end
  /\ is_Some (fp_value (family_plan f)) /\ NoDup (map conf_id (confirmations f)).
Lemma repeats_id_iff seen l :
  repeats_id seen l = false <-> NoDup (map conf_id l) /\ (forall c, c ∈ map conf_id l -> c ∉ seen).
Proof.
  revert seen. induction l as [|c l IH]; intros seen; cbn [repeats_id map].
  { split; [intros _; split; [constructor|set_solver]|done]. }
  case_decide as Hc.
  - split; [done|]. intros [_ H]. destruct (H (conf_id c)); set_solver.
  - rewrite IH, NoDup_cons. set_solver.
Qed.
Lemma ValidateTargetAndRegions_iff f :
  ValidateTargetAndRegions f = Ok tt <->
  target_id f <> ""%string /\ mcu_name f <> ""%string /\ reg_length (transfer_region f) <> 0
  /\ region_fits (transfer_region f) /\ Forall region_fits (erase_regions f).
Proof.
  unfold ValidateTargetAndRegions, RegionEndNotRepresentable, region_fits.
  destruct (String.eqb_spec (target_id f) ""); [split; [done|tauto]|].
  destruct (String.eqb_spec (mcu_name f) ""); [split; [done|tauto]|].
  destruct (Z.eqb_spec (reg_length (transfer_region f)) 0); [split; [done|tauto]|].
  destruct (Z.ltb_spec 0xFFFFFFFF (reg_start (transfer_region f) + reg_length (transfer_region f))); [split; [done|lia]|].
  destruct (existsb _ _) eqn:Hx.
  - split; [done|]. intros (_ & _ & _ & _ & Hf). apply existsb_exists in Hx as (r & Hin & Hr%Z.ltb_lt).
    rewrite list.Forall_forall in Hf. apply list_elem_of_In in Hin. specialize (Hf r Hin). lia.
  - split; [|done]. intros _. split_and!; try done. apply list.Forall_forall. intros r Hin.
    destruct (Z.le_gt_cases (reg_start r + reg_length r) 0xFFFFFFFF); [done|].
    assert (existsb (fun region => 0xFFFFFFFF <? reg_start region + reg_length region) (erase_regions f) = true); [|congruence].
    apply existsb_exists. exists r. split; [by apply list_elem_of_In|by apply Z.ltb_lt].
Qed.
Lemma ValidateOperationShape_iff f :
  ValidateOperationShape f = Ok tt <->
  if decide (operation f = kRead) then erase_regions f = [] /\ image f = None else is_Some (image f).
Proof.
  unfold ValidateOperationShape. destruct (operation f); cbn [decide].
  - rewrite decide_True by done. destruct (erase_regions f), (image f); (split; [done|intros []; congruence]) || done.
  - rewrite decide_False by done. destruct (image f); split; (done || intros []; congruence).
  - rewrite decide_False by done. destruct (image f); split; (done || intros []; congruence).
Qed.
Lemma ValidateKernel_iff f :
  ValidateKernel f = Ok tt <->
  match kernel f with
  | None => RequiresKernel (family_plan f) = false
  | Some k => kernel_id k <> ""%string /\ kernel_bytes k <> [] /\ load_address k + zlen (kernel_bytes k) <= 0xFFFFFFFF
  end.
Proof.
  unfold ValidateKernel. destruct (kernel f) as [k|]; [|by destruct (RequiresKernel (family_plan f))].
  destruct (String.eqb_spec (kernel_id k) ""); [split; [done|tauto]|].
  destruct (Z.eqb_spec (zlen (kernel_bytes k)) 0) as [E|E].
  - split; [done|]. intros (_ & Hne & _). destruct (kernel_bytes k); [done|]. rewrite zlen_cons in E.
    pose proof (zlen_nonneg l). lia.
  - destruct (Z.ltb_spec 0xFFFFFFFF (load_address k + zlen (kernel_bytes k))); [split; [done|lia]|].
    split; [|done]. intros _. split_and!; [done|intros E0; by rewrite E0 in E|lia].
Qed.
Lemma PlaceImage_iff f :
  (exists o, PlaceImage f = Ok o) <->
  (forall m, image_map f = Some m -> exists i placed, image f = Some i /\ MemoryImage_Create m i = Ok placed).
Proof.
  unfold PlaceImage. destruct (image_map f) as [m|]; [|split; [done|eauto]].
  destruct (image f) as [i|].
  - destruct (MemoryImage_Create m i) as [placed|e] eqn:E.
    + split; [|eauto]. intros _ m' [= <-]. eauto.
    + split; [by intros []|]. intros H. destruct (H m eq_refl) as (i' & placed & [= <-] & E'). congruence.
  - split; [by intros []|]. intros H. destruct (H m eq_refl) as (i' & placed & [=] & _).
Qed.
Lemma ValidateAndBuild_iff f :
  (exists plan, ValidateAndBuild f = Ok plan) <-> fields_ok f.
Proof.
  unfold fields_ok.
  pose proof (ValidateTargetAndRegions_iff f) as H1. pose proof (ValidateOperationShape_iff f) as H2.
  pose proof (PlaceImage_iff f) as H3. pose proof (ValidateKernel_iff f) as H4.
  unfold ValidateAndBuild, HasValue, HasDuplicateConfirmation. pose proof (repeats_id_iff [] (confirmations f)) as H5.
  destruct (ValidateTargetAndRegions f) as [[]|e1]; cbn [result_bind]; [|split; [by intros []|intuition congruence]].
  destruct (ValidateOperationShape f) as [[]|e2]; cbn [result_bind]; [|split; [by intros []|intuition congruence]].
  destruct (PlaceImage f) as [o|e3]; cbn [result_bind].
  2:{ split; [by intros []|]. intros (_ & _ & _ & _ & _ & _ & Hm & _). apply H3 in Hm as [o Ho]. done. }
  destruct (ValidateKernel f) as [[]|e4]; cbn [result_bind]; [|split; [by intros []|intuition congruence]].
  destruct (fp_value (family_plan f)) as [v|] eqn:Ev; cbn [negb].
  2:{ split; [by intros []|]. intros (_ & _ & _ & _ & _ & _ & _ & _ & [? [=]] & _). }
  destruct (repeats_id [] (confirmations f)) eqn:Er.
  - split; [by intros []|]. intros (_ & _ & _ & _ & _ & _ & _ & _ & _ & Hnd).
    assert (true = false); [|done]. apply H5. split; [done|set_solver].
  - split; [|eauto]. intros _. destruct (proj1 H1 eq_refl) as (? & ? & ? & ? & ?).
    split_and!; first [done | by apply H2 | by apply H4 | by apply H5 | apply H3; eauto | eauto].
Qed.

(** The plan of fields that are right and place no image. *)
Definition plan_of (f : FlashPlanFields) : FlashPlan :=
  {| fields_ := f; total_transfer_bytes_ := reg_length (transfer_region f); rom_image_ := None |}.
Lemma ValidateAndBuild_built f : fields_ok f -> image_map f = None -> ValidateAndBuild f = Ok (plan_of f).
Proof.
  intros Hok Hmap. apply ValidateAndBuild_iff in Hok as [plan E]. rewrite E. f_equal. revert E. unfold ValidateAndBuild.
  destruct (ValidateTargetAndRegions _); cbn [result_bind]; [|done].
  destruct (ValidateOperationShape _); cbn [result_bind]; [|done].
  unfold PlaceImage. rewrite Hmap. cbn [result_bind].
  destruct (ValidateKernel _); cbn [result_bind]; [|done].
  destruct (negb _); [done|]. destruct (HasDuplicateConfirmation _); [done|]. intros [= <-].
  unfold plan_of, without_image_map. rewrite <- Hmap. by destruct f.
Qed.

(** The device a plan is checked against. *)
Lemma ValidateIdentity_iff spec protocol mcu :
  ValidateIdentity spec protocol mcu = Ok tt <->
  protocol ∈ protocols spec /\ mcu = spec_mcu spec
  /\ exists d, FindFlashDevice mcu = Some d /\ geometry_ok spec d = true.
Proof.
  unfold ValidateIdentity, FindFlashDevice. cbv zeta.
  assert (existsb (String.eqb protocol) (protocols spec) = true <-> protocol ∈ protocols spec) as Hin.
  { rewrite existsb_exists, list_elem_of_In. split; [by intros (x & Hx & ->%String.eqb_eq)|].
    intros Hp. exists protocol. by rewrite String.eqb_refl. }
  destruct (existsb _ _); cbn [negb]; [|split; [done|intros (Hp & _); apply Hin in Hp; done]].
  destruct (Z.ltb_spec (FindFlashDeviceIndex mcu) 0) as [|Hge].
  { split; [done|]. by intros (_ & _ & d & [=] & _). }
  destruct (String.eqb_spec mcu (spec_mcu spec)) as [->|]; cbn [negb]; [|split; [done|tauto]].
  unfold zlookup. rewrite decide_True by lia. destruct (kFlashDevices !! _) as [d|].
  - destruct (geometry_ok spec d) eqn:Eg; cbn [negb].
    + split; [|done]. intros _. split_and!; [by apply Hin|done|eauto].
    + split; [done|]. intros (_ & _ & d' & [= <-] & E). congruence.
  - split; [done|]. by intros (_ & _ & d' & [=] & _).
Qed.
(** A family's constants make sense. *)
Definition spec_ok (spec : SingleWindowPlanSpec) : Prop :=
  Forall (fun p => p <> ""%string) (protocols spec) /\ spec_mcu spec <> ""%string
  /\ 0 < reg_length (read_region spec) /\ region_fits (read_region spec)
  /\ 0 < reg_length (write_region spec) /\ region_fits (write_region spec).
Definition operation_ok (spec : SingleWindowPlanSpec) (op : FlashOperation) (img : option (list Z)) : Prop :=
  match op with
  | kRead => True
  | kWrite => supports_write spec = true /\ exists i, img = Some i /\ zlen i = image_size spec
  | kTestWrite => False
  end.
Definition single_window_plan (spec : SingleWindowPlanSpec) (op : FlashOperation) (protocol mcu : string)
    (img : option (list Z)) (family : FamilyPlan) : FlashPlan :=
  {| fields_ := single_window_fields spec op protocol mcu img family;
     total_transfer_bytes_ := reg_length (region_for spec op); rom_image_ := None |}.
Lemma single_window_built spec op protocol mcu img family :
  spec_ok spec -> is_Some (fp_value family) -> RequiresKernel family = false ->
  protocol ∈ protocols spec -> mcu = spec_mcu spec -> operation_ok spec op img ->
  ValidateAndBuild (single_window_fields spec op protocol mcu img family)
  = Ok (single_window_plan spec op protocol mcu img family).
Proof.
  intros (Hp & Hm & Hr & Hrf & Hw & Hwf) Hv Hk Hin -> Hop.
  assert (fields_ok (single_window_fields spec op protocol (spec_mcu spec) img family)) as Hok.
  { rewrite list.Forall_forall in Hp.
    split_and!; cbn [single_window_fields target_id mcu_name transfer_region erase_regions operation image image_map
      kernel family_plan confirmations map]; try done; [by apply Hp|destruct op; cbn; lia|destruct op; done
      |destruct op; repeat constructor; done| |constructor].
    destruct op; cbn in Hop |- *; [by rewrite decide_True|done|rewrite decide_False by done].
    destruct Hop as (_ & i & -> & _). eauto. }
  by rewrite (ValidateAndBuild_built _ Hok eq_refl).
Qed.
Lemma single_window_valid spec op protocol mcu img family :
  operation_ok spec op img ->
  ValidateSingleWindowPlan spec (single_window_plan spec op protocol mcu img family) = Ok tt <->
  ValidateIdentity spec protocol mcu = Ok tt
  /\ wire_params_ok spec (single_window_plan spec op protocol mcu img family) = true.
Proof.
  intros Hop. unfold ValidateSingleWindowPlan.
  change (target_id _) with protocol. change (mcu_name _) with mcu.
  destruct (ValidateIdentity spec protocol mcu) as [[]|e]; cbn [result_bind]; [|split; [done|by intros []]].
  destruct (wire_params_ok spec _); cbn [negb result_bind]; [|split; [done|by intros []]].
  cbn [kernel confirmations fields_ single_window_plan single_window_fields].
  unfold ValidateOperation, Operation. cbn [operation fields_ single_window_plan single_window_fields].
  unfold ValidatePlanWindows, Operation, TransferRegion, EraseRegions, ImageOrEmpty.
  cbn [operation transfer_region erase_regions image fields_ single_window_plan single_window_fields].
  destruct op; cbn [region_for result_bind]; [|done|].
  - by rewrite bool_decide_eq_true_2.
  - destruct Hop as (-> & i & -> & ->). cbn [negb result_bind].
    rewrite !bool_decide_eq_true_2, Z.eqb_refl by done. done.
Qed.

Lemma BuildSingleWindowPlan_lemma spec op protocol mcu img family plan :
  spec_ok spec -> is_Some (fp_value family) -> RequiresKernel family = false ->
  BuildSingleWindowPlan spec op protocol mcu img family = Ok plan <->
  plan = single_window_plan spec op protocol mcu img family
  /\ protocol ∈ protocols spec /\ mcu = spec_mcu spec
  /\ (exists d, FindFlashDevice mcu = Some d /\ geometry_ok spec d = true)
  /\ operation_ok spec op img /\ wire_params_ok spec plan = true.
Proof.
  intros Hs Hv Hk. unfold BuildSingleWindowPlan. pose proof (ValidateIdentity_iff spec protocol mcu) as Hi.
  destruct (ValidateIdentity spec protocol mcu) as [[]|e] eqn:Ei; cbn [result_bind].
  2:{ split; [done|]. intros (_ & H1 & H2 & H3 & _). assert (Err e = Ok tt) as [=]. by apply Hi. }
  destruct (proj1 Hi eq_refl) as (H1 & H2 & H3).
  assert (forall r, (let! _ := ValidateOperation spec op in
    let! _ := match op with
              | kWrite => match img with
                          | None => Fail kInvalidConfig "Write plans must carry a ROM image"
                          | Some i => if negb (zlen i =? image_size spec) then
                              Fail kInvalidConfig ("ROM file must be exactly 0x" +:+ fmt_X (image_size spec)
                                +:+ " bytes; got 0x" +:+ fmt_x (zlen i) +:+ " bytes")
                            else Ok tt
                          end
              | _ => Ok tt
              end in r) = Ok plan <-> operation_ok spec op img /\ r = Ok plan) as Hop.
  { intros r. destruct op; cbn [ValidateOperation result_bind operation_ok]; [tauto|split; [done|tauto]|].
    destruct (supports_write spec); cbn [negb result_bind]; [|split; [done|by intros [[] _]]].
    destruct img as [i|]; cbn [result_bind]; [|split; [done|by intros [(_ & i & [=] & _) _]]].
    destruct (Z.eqb_spec (zlen i) (image_size spec)); cbn [negb result_bind]; [split; [eauto 10|tauto]|].
    split; [done|]. intros [(_ & i' & [= <-] & E) _]. done. }
  rewrite Hop. split.
  - intros [Ho E]. rewrite single_window_built in E by done. cbn [result_bind] in E.
    pose proof (single_window_valid spec op protocol mcu img family Ho) as Hw.
    destruct (ValidateSingleWindowPlan _ _) as [[]|e]; cbn [result_bind] in E; [|done].
    injection E as <-. split_and!; try done. by apply Hw.
  - intros (-> & _ & _ & _ & Ho & Hw). split; [done|]. rewrite single_window_built by done. cbn [result_bind].
    by rewrite (proj2 (single_window_valid spec op protocol mcu img family Ho)).
Qed.

(** A plan of the builder passes the validation its executor repeats. *)
Lemma BuildSingleWindowPlan_valid spec op protocol mcu img family plan :
  BuildSingleWindowPlan spec op protocol mcu img family = Ok plan -> ValidateSingleWindowPlan spec plan = Ok tt.
Proof.
  unfold BuildSingleWindowPlan. intros E. do 3 apply result_bind_Ok in E as (? & _ & E).
  apply result_bind_Ok in E as (built & _ & E). apply result_bind_Ok in E as ([] & Hv & [= <-]). exact Hv.
Qed.
(** the single-window plan builder returns a plan exactly for one of the family's
    protocols, on the family's device with the expected geometry, for a read, or
    for a write of an image of exactly the family's size; the plan it returns
    transfers the family's window, erases nothing on a read and exactly the
    written window on a write, and carries the image it was given. *)
Theorem BuildSingleWindowPlan_iff spec op protocol mcu img family plan :
  spec_ok spec -> is_Some (fp_value family) -> RequiresKernel family = false ->
  BuildSingleWindowPlan spec op protocol mcu img family = Ok plan <->
  plan = single_window_plan spec op protocol mcu img family
  /\ protocol ∈ protocols spec /\ mcu = spec_mcu spec
  /\ (exists d, FindFlashDevice mcu = Some d /\ geometry_ok spec d = true)
  /\ operation_ok spec op img /\ wire_params_ok spec plan = true.
Proof. apply BuildSingleWindowPlan_lemma. Qed.
Lemma m32r_can_spec_ok : spec_ok m32r_can_spec.
Proof. unfold spec_ok, region_fits. cbn. split_and!; try lia; try done. by repeat constructor. Qed.
Lemma BuildSingleWindowPlan_iff_witness :
  exists plan, BuildSubaruHitachiM32rCanPlan kRead "sub_ecu_hitachi_m32r_can" "M32R_512KB_1block" None = Ok plan.
Proof.
  eexists. unfold BuildSubaruHitachiM32rCanPlan.
  apply (BuildSingleWindowPlan_iff m32r_can_spec kRead "sub_ecu_hitachi_m32r_can" "M32R_512KB_1block" None
    (m32r_can_family_plan {| m32r_request_id := 0x7E0; m32r_response_id := 0x7E8; m32r_bitrate := 500000;
                             m32r_extended_id := false |}) _ m32r_can_spec_ok (ex_intro _ _ eq_refl) eq_refl).
  split; [reflexivity|]. split; [apply list_elem_of_In; left; reflexivity|]. split; [reflexivity|].
  split; [eexists; split; reflexivity|]. split; [exact I|reflexivity].
Defined.
