(* ===== verification/SingleWindowPlans.v ===== *)
(** * SingleWindowPlans: the plans of the single-window families

    [src/backend/flash/ecu/subaru_*_plan.{h,cpp}] of the families whose builder is
    [BuildSingleWindowPlan]: protocols, windows, device geometry and wire
    parameters, one Module per family. [FlashPlan] holds the family of
    [subaru_hitachi_m32r_can_plan.cpp]. *)
From S2P Require Import Prelude Ports FlashDevices FlashPlan.

(** [device.fblocks[i]] where the test before it established [i < numblocks]. *)
Definition block_is (device : FlashDevice) (i : nat) (s l : Z) : bool :=
  match fblocks device !! i with Some b => (start b =? s) && (len b =? l) | None => false end.
Definition block_starts (device : FlashDevice) (i : nat) (s : Z) : bool :=
  match fblocks device !! i with Some b => start b =? s | None => false end.
Definition can_params_ok (p : CanPlan) (request_id response_id : Z) : bool :=
  (can_request_id p =? request_id) && (can_response_id p =? response_id) && (can_bitrate p =? 500000)
  && negb (can_extended_id p).
Definition can_plan (request_id response_id : Z) : CanPlan :=
  {| can_request_id := request_id; can_response_id := response_id; can_bitrate := 500000; can_extended_id := false |}.

(** ** [subaru_tcu_cvt_hitachi_m32r_can_plan.cpp] *)
Module TcuCvtHitachiM32rCan.
Definition kProtocols : list string := ["sub_tcu_cvt_hitachi_m32r_can"%string].
Definition kReadRegion : MemoryRegion := {| reg_start := 0x8000; reg_length := 0x78000 |}.
Definition kWriteRegion : MemoryRegion := {| reg_start := 0x8000; reg_length := 0x78000 |}.
Definition kImageSize : Z := 0x80000.
Definition GeometryOk (device : FlashDevice) : bool :=
  (romsize device =? kImageSize) && (numblocks device =? 11) && block_is device 0 0 0x4000.
Definition WireParamsOk (plan : FlashPlan) : bool :=
  match fp_value (family_plan (fields_ plan)) with
  | Some (SubaruTcuCvtHitachiM32rCanPlan p) => can_params_ok p 0x7E1 0x7E9
  | _ => false
  end.
Definition kSpec : SingleWindowPlanSpec := {|
  display_name := "Subaru TCU CVT Hitachi M32R CAN";
  protocols := kProtocols;
  spec_mcu := "M32R_512KB";
  read_region := kReadRegion;
  write_region := kWriteRegion;
  image_size := kImageSize;
  geometry_ok := GeometryOk;
  wire_params_ok := WireParamsOk;
  supports_write := true
|}.
Definition Validate (plan : FlashPlan) : Status := ValidateSingleWindowPlan kSpec plan.
(** The family plan with the facts of its traits. *)
Definition FamilyPlanOf (protocol_name : string) : FamilyPlan :=
  {| fp_value := Some (SubaruTcuCvtHitachiM32rCanPlan (can_plan 0x7E1 0x7E9)); fp_family := kSubaruTcuCvtHitachiM32rCan; fp_transport := kCanIso15765;
     RequiresKernel := false |}.
Definition Build (op : FlashOperation) (protocol_name mcu_type : string) (img : option (list Z))
    : result Error FlashPlan :=
  BuildSingleWindowPlan kSpec op protocol_name mcu_type img (FamilyPlanOf protocol_name).
End TcuCvtHitachiM32rCan.

(** ** [subaru_tcu_cvt_mitsu_mh8111_can_plan.cpp] *)
Module TcuCvtMitsuMh8111Can.
Definition kProtocols : list string := ["sub_tcu_cvt_mitsu_mh8111_can"%string].
Definition kReadRegion : MemoryRegion := {| reg_start := 0x8000; reg_length := 0x78000 |}.
Definition kWriteRegion : MemoryRegion := {| reg_start := 0x80000; reg_length := 0x100000 |}.
Definition kImageSize : Z := 0x180000.
Definition GeometryOk (device : FlashDevice) : bool :=
  (romsize device =? kImageSize) && (numblocks device =? 4) && block_is device 0 0 0x40000
  && block_is device 3 (reg_start kWriteRegion) (reg_length kWriteRegion).
Definition WireParamsOk (plan : FlashPlan) : bool :=
  match fp_value (family_plan (fields_ plan)) with
  | Some (SubaruTcuCvtMitsuMh8111CanPlan p) => can_params_ok p 0x7E1 0x7E9
  | _ => false
  end.
Definition kSpec : SingleWindowPlanSpec := {|
  display_name := "Subaru TCU CVT Mitsu MH8111 CAN";
  protocols := kProtocols;
  spec_mcu := "MH8111";
  read_region := kReadRegion;
  write_region := kWriteRegion;
  image_size := kImageSize;
  geometry_ok := GeometryOk;
  wire_params_ok := WireParamsOk;
  supports_write := true
|}.
Definition Validate (plan : FlashPlan) : Status := ValidateSingleWindowPlan kSpec plan.
(** The family plan with the facts of its traits. *)
Definition FamilyPlanOf (protocol_name : string) : FamilyPlan :=
  {| fp_value := Some (SubaruTcuCvtMitsuMh8111CanPlan (can_plan 0x7E1 0x7E9)); fp_family := kSubaruTcuCvtMitsuMh8111Can; fp_transport := kCanIso15765;
     RequiresKernel := false |}.
Definition Build (op : FlashOperation) (protocol_name mcu_type : string) (img : option (list Z))
    : result Error FlashPlan :=
  BuildSingleWindowPlan kSpec op protocol_name mcu_type img (FamilyPlanOf protocol_name).
End TcuCvtMitsuMh8111Can.

(** ** [subaru_tcu_cvt_mitsu_mh8104_can_plan.cpp] *)
Module TcuCvtMitsuMh8104Can.
Definition kProtocols : list string := ["sub_tcu_cvt_mitsu_mh8104_can"%string].
Definition kReadRegion : MemoryRegion := {| reg_start := 0x8000; reg_length := 0x78000 |}.
Definition kWriteRegion : MemoryRegion := {| reg_start := 0x8000; reg_length := 0x78000 |}.
Definition kImageSize : Z := 0x80000.
Definition GeometryOk (device : FlashDevice) : bool :=
  (romsize device =? kImageSize) && (numblocks device =? 4) && block_is device 0 0 0x4000
  && block_is device 3 (reg_start kWriteRegion) (reg_length kWriteRegion).
Definition WireParamsOk (plan : FlashPlan) : bool :=
  match fp_value (family_plan (fields_ plan)) with
  | Some (SubaruTcuCvtMitsuMh8104CanPlan p) => can_params_ok p 0x7E1 0x7E9
  | _ => false
  end.
Definition kSpec : SingleWindowPlanSpec := {|
  display_name := "Subaru TCU CVT Mitsu MH8104 CAN";
  protocols := kProtocols;
  spec_mcu := "MH8104";
  read_region := kReadRegion;
  write_region := kWriteRegion;
  image_size := kImageSize;
  geometry_ok := GeometryOk;
  wire_params_ok := WireParamsOk;
  supports_write := true
|}.
Definition Validate (plan : FlashPlan) : Status := ValidateSingleWindowPlan kSpec plan.
(** The family plan with the facts of its traits. *)
Definition FamilyPlanOf (protocol_name : string) : FamilyPlan :=
  {| fp_value := Some (SubaruTcuCvtMitsuMh8104CanPlan (can_plan 0x7E1 0x7E9)); fp_family := kSubaruTcuCvtMitsuMh8104Can; fp_transport := kCanIso15765;
     RequiresKernel := false |}.
Definition Build (op : FlashOperation) (protocol_name mcu_type : string) (img : option (list Z))
    : result Error FlashPlan :=
  BuildSingleWindowPlan kSpec op protocol_name mcu_type img (FamilyPlanOf protocol_name).
End TcuCvtMitsuMh8104Can.

(** ** [subaru_denso_1n83m_1_5m_can_plan.cpp] *)
Module Denso1n83m15mCan.
Definition kProtocols : list string := ["sub_ecu_denso_1n83m_1_5m_can"%string].
Definition kMainBlock : MemoryRegion := {| reg_start := 0x08FAC000; reg_length := 0x00173F00 |}.
Definition kImageStart : Z := 0x08F9C000.
Definition kImageSize : Z := 0x184000.
Definition kLeadPad : Z := 0x10000.
Definition kTailPad : Z := 0x100.
Definition GeometryOk (device : FlashDevice) : bool :=
  (numblocks device =? 3) && block_starts device 0 kImageStart
  && block_is device 1 (reg_start kMainBlock) (reg_length kMainBlock).
Definition WireParamsOk (plan : FlashPlan) : bool :=
  match fp_value (family_plan (fields_ plan)) with
  | Some (SubaruDenso1n83m_1_5mCanPlan p) => can_params_ok (pad_can p) 0x7E0 0x7E8 && (lead_pad_len p =? kLeadPad) && (tail_pad_len p =? kTailPad)
  | _ => false
  end.
Definition kSpec : SingleWindowPlanSpec := {|
  display_name := "Subaru Denso 1N83M 1.5M CAN";
  protocols := kProtocols;
  spec_mcu := "N83M_1_5MB";
  read_region := kMainBlock;
  write_region := kMainBlock;
  image_size := kImageSize;
  geometry_ok := GeometryOk;
  wire_params_ok := WireParamsOk;
  supports_write := true
|}.
Definition Validate (plan : FlashPlan) : Status := ValidateSingleWindowPlan kSpec plan.
(** The family plan with the facts of its traits. *)
Definition FamilyPlanOf (protocol_name : string) : FamilyPlan :=
  {| fp_value := Some (SubaruDenso1n83m_1_5mCanPlan {| pad_can := can_plan 0x7E0 0x7E8; lead_pad_len := kLeadPad; tail_pad_len := kTailPad |}); fp_family := kSubaruDenso1n83m15mCan; fp_transport := kCanIso15765;
     RequiresKernel := false |}.
Definition Build (op : FlashOperation) (protocol_name mcu_type : string) (img : option (list Z))
    : result Error FlashPlan :=
  BuildSingleWindowPlan kSpec op protocol_name mcu_type img (FamilyPlanOf protocol_name).
End Denso1n83m15mCan.

(** ** [subaru_denso_1n83m_4m_can_plan.cpp] *)
Module Denso1n83m4mCan.
Definition kProtocols : list string := ["sub_ecu_denso_1n83m_4m_can"%string].
Definition kMainBlock : MemoryRegion := {| reg_start := 0x08FAC000; reg_length := 0x003D3F00 |}.
Definition kImageStart : Z := 0x08F9C000.
Definition kImageSize : Z := 0x3E4000.
Definition kLeadPad : Z := 0x10000.
Definition kTailPad : Z := 0x100.
Definition GeometryOk (device : FlashDevice) : bool :=
  (numblocks device =? 3) && (romsize device =? kImageSize) && block_starts device 0 kImageStart
  && block_is device 1 (reg_start kMainBlock) (reg_length kMainBlock).
Definition WireParamsOk (plan : FlashPlan) : bool :=
  match fp_value (family_plan (fields_ plan)) with
  | Some (SubaruDenso1n83m_4mCanPlan p) => can_params_ok (pad_can p) 0x7E0 0x7E8 && (lead_pad_len p =? kLeadPad) && (tail_pad_len p =? kTailPad)
  | _ => false
  end.
Definition kSpec : SingleWindowPlanSpec := {|
  display_name := "Subaru Denso 1N83M 4M CAN";
  protocols := kProtocols;
  spec_mcu := "N83M_4MB";
  read_region := kMainBlock;
  write_region := kMainBlock;
  image_size := kImageSize;
  geometry_ok := GeometryOk;
  wire_params_ok := WireParamsOk;
  supports_write := true
|}.
Definition Validate (plan : FlashPlan) : Status := ValidateSingleWindowPlan kSpec plan.
(** The family plan with the facts of its traits. *)
Definition FamilyPlanOf (protocol_name : string) : FamilyPlan :=
  {| fp_value := Some (SubaruDenso1n83m_4mCanPlan {| pad_can := can_plan 0x7E0 0x7E8; lead_pad_len := kLeadPad; tail_pad_len := kTailPad |}); fp_family := kSubaruDenso1n83m4mCan; fp_transport := kCanIso15765;
     RequiresKernel := false |}.
Definition Build (op : FlashOperation) (protocol_name mcu_type : string) (img : option (list Z))
    : result Error FlashPlan :=
  BuildSingleWindowPlan kSpec op protocol_name mcu_type img (FamilyPlanOf protocol_name).
End Denso1n83m4mCan.

(** ** [subaru_denso_sh72531_can_plan.cpp] *)
Module DensoSh72531Can.
Definition kProtocols : list string := ["sub_ecu_denso_sh72531_can"%string].
Definition kMainBlock : MemoryRegion := {| reg_start := 0x00008000; reg_length := 0x00137F00 |}.
Definition kImageStart : Z := 0x00000000.
Definition kImageSize : Z := 0x140000.
Definition kLeadPad : Z := 0x8000.
Definition kTailPad : Z := 0x100.
Definition GeometryOk (device : FlashDevice) : bool :=
  (numblocks device =? 3) && (romsize device =? kImageSize) && block_starts device 0 kImageStart
  && block_is device 1 (reg_start kMainBlock) (reg_length kMainBlock).
Definition WireParamsOk (plan : FlashPlan) : bool :=
  match fp_value (family_plan (fields_ plan)) with
  | Some (SubaruDensoSh72531CanPlan p) => can_params_ok (pad_can p) 0x7E0 0x7E8 && (lead_pad_len p =? kLeadPad) && (tail_pad_len p =? kTailPad)
  | _ => false
  end.
Definition kSpec : SingleWindowPlanSpec := {|
  display_name := "Subaru Denso SH72531 CAN";
  protocols := kProtocols;
  spec_mcu := "SH72531";
  read_region := kMainBlock;
  write_region := kMainBlock;
  image_size := kImageSize;
  geometry_ok := GeometryOk;
  wire_params_ok := WireParamsOk;
  supports_write := true
|}.
Definition Validate (plan : FlashPlan) : Status := ValidateSingleWindowPlan kSpec plan.
(** The family plan with the facts of its traits. *)
Definition FamilyPlanOf (protocol_name : string) : FamilyPlan :=
  {| fp_value := Some (SubaruDensoSh72531CanPlan {| pad_can := can_plan 0x7E0 0x7E8; lead_pad_len := kLeadPad; tail_pad_len := kTailPad |}); fp_family := kSubaruDensoSh72531Can; fp_transport := kCanIso15765;
     RequiresKernel := false |}.
Definition Build (op : FlashOperation) (protocol_name mcu_type : string) (img : option (list Z))
    : result Error FlashPlan :=
  BuildSingleWindowPlan kSpec op protocol_name mcu_type img (FamilyPlanOf protocol_name).
End DensoSh72531Can.

(** ** [subaru_denso_sh72543_can_diesel_plan.cpp] *)
Module DensoSh72543CanDiesel.
Definition kProtocols : list string := ["sub_ecu_denso_sh72543_can_diesel"%string].
Definition kMainBlock : MemoryRegion := {| reg_start := 0x00008000; reg_length := 0x001F7F00 |}.
Definition kImageSize : Z := 0x200000.
Definition kLeadPad : Z := 0x8000.
Definition kTailPad : Z := 0x100.
Definition GeometryOk (device : FlashDevice) : bool :=
  (numblocks device =? 1) && (romsize device =? kImageSize)
  && block_is device 0 (reg_start kMainBlock) (reg_length kMainBlock).
Definition WireParamsOk (plan : FlashPlan) : bool :=
  match fp_value (family_plan (fields_ plan)) with
  | Some (SubaruDensoSh72543CanDieselPlan p) => can_params_ok (pad_can p) 0x7E0 0x7E8 && (lead_pad_len p =? kLeadPad) && (tail_pad_len p =? kTailPad)
  | _ => false
  end.
Definition kSpec : SingleWindowPlanSpec := {|
  display_name := "Subaru Denso SH72543 Diesel CAN";
  protocols := kProtocols;
  spec_mcu := "SH72543d";
  read_region := kMainBlock;
  write_region := kMainBlock;
  image_size := kImageSize;
  geometry_ok := GeometryOk;
  wire_params_ok := WireParamsOk;
  supports_write := true
|}.
Definition Validate (plan : FlashPlan) : Status := ValidateSingleWindowPlan kSpec plan.
(** The family plan with the facts of its traits. *)
Definition FamilyPlanOf (protocol_name : string) : FamilyPlan :=
  {| fp_value := Some (SubaruDensoSh72543CanDieselPlan {| pad_can := can_plan 0x7E0 0x7E8; lead_pad_len := kLeadPad; tail_pad_len := kTailPad |}); fp_family := kSubaruDensoSh72543CanDiesel; fp_transport := kCanIso15765;
     RequiresKernel := false |}.
Definition Build (op : FlashOperation) (protocol_name mcu_type : string) (img : option (list Z))
    : result Error FlashPlan :=
  BuildSingleWindowPlan kSpec op protocol_name mcu_type img (FamilyPlanOf protocol_name).
End DensoSh72543CanDiesel.

(** ** [subaru_hitachi_sh72543r_can_plan.cpp] *)
Module HitachiSh72543rCan.
Definition kProtocols : list string := ["sub_ecu_hitachi_sh72543r_can"%string; "sub_ecu_hitachi_sh72543r_can_recovery"%string].
Definition kRomSize : Z := 0x200000.
Definition kReadWindow : MemoryRegion := {| reg_start := 0; reg_length := 0x200000 |}.
Definition kWriteWindow : MemoryRegion := {| reg_start := 0x6000; reg_length := 0x1FA000 |}.
Definition GeometryOk (device : FlashDevice) : bool :=
  (romsize device =? kRomSize) && negb (bool_decide (fblocks device = [])) && (numblocks device =? 2)
  && block_is device 0 0 0x6000 && block_is device 1 0x6000 0x1FA000.
Definition WireParamsOk (plan : FlashPlan) : bool :=
  match fp_value (family_plan (fields_ plan)) with
  | Some (SubaruHitachiSh72543rCanPlan p) => can_params_ok (paged_can p) 0x7E0 0x7E8 && (page_size p =? 0x400) && (write_frame_size p =? 0x100)
  | _ => false
  end.
Definition kSpec : SingleWindowPlanSpec := {|
  display_name := "Subaru Hitachi SH72543R CAN";
  protocols := kProtocols;
  spec_mcu := "SH72543R";
  read_region := kReadWindow;
  write_region := kWriteWindow;
  image_size := kRomSize;
  geometry_ok := GeometryOk;
  wire_params_ok := WireParamsOk;
  supports_write := true
|}.
Definition Validate (plan : FlashPlan) : Status := ValidateSingleWindowPlan kSpec plan.
(** The family plan with the facts of its traits. *)
Definition FamilyPlanOf (protocol_name : string) : FamilyPlan :=
  {| fp_value := Some (SubaruHitachiSh72543rCanPlan {| paged_can := can_plan 0x7E0 0x7E8; page_size := 0x400; write_frame_size := 0x100 |}); fp_family := kSubaruHitachiSh72543rCan; fp_transport := kCanIso15765;
     RequiresKernel := false |}.
Definition Build (op : FlashOperation) (protocol_name mcu_type : string) (img : option (list Z))
    : result Error FlashPlan :=
  if bool_decide (op = kRead) && bool_decide (is_Some img) then
    Fail kInvalidConfig "Subaru Hitachi SH72543R CAN read plans must not carry an image"
  else BuildSingleWindowPlan kSpec op protocol_name mcu_type img (FamilyPlanOf protocol_name).
End HitachiSh72543rCan.

(** ** [subaru_tcu_hitachi_m32r_can_plan.cpp] *)
Module TcuHitachiM32rCan.
Definition kProtocols : list string := ["sub_tcu_hitachi_m32r_can"%string].
Definition kRomSize : Z := 0x80000.
Definition kWindow : MemoryRegion := {| reg_start := 0x8000; reg_length := 0x78000 |}.
Definition GeometryOk (device : FlashDevice) : bool :=
  (romsize device =? kRomSize) && negb (bool_decide (fblocks device = [])).
Definition WireParamsOk (plan : FlashPlan) : bool :=
  match fp_value (family_plan (fields_ plan)) with
  | Some (SubaruTcuHitachiM32rCanPlan p) => can_params_ok (paged_can p) 0x7E1 0x7E9 && (page_size p =? 0x100) && (write_frame_size p =? 128)
  | _ => false
  end.
Definition kSpec : SingleWindowPlanSpec := {|
  display_name := "Subaru TCU Hitachi M32R CAN";
  protocols := kProtocols;
  spec_mcu := "M32R_512KB";
  read_region := kWindow;
  write_region := kWindow;
  image_size := kRomSize;
  geometry_ok := GeometryOk;
  wire_params_ok := WireParamsOk;
  supports_write := true
|}.
Definition Validate (plan : FlashPlan) : Status := ValidateSingleWindowPlan kSpec plan.
(** The family plan with the facts of its traits. *)
Definition FamilyPlanOf (protocol_name : string) : FamilyPlan :=
  {| fp_value := Some (SubaruTcuHitachiM32rCanPlan {| paged_can := can_plan 0x7E1 0x7E9; page_size := 0x100; write_frame_size := 128 |}); fp_family := kSubaruTcuHitachiM32rCan; fp_transport := kCanIso15765;
     RequiresKernel := false |}.
Definition Build (op : FlashOperation) (protocol_name mcu_type : string) (img : option (list Z))
    : result Error FlashPlan :=
  if bool_decide (op = kRead) && bool_decide (is_Some img) then
    Fail kInvalidConfig "Subaru TCU Hitachi M32R CAN read plans must not carry an image"
  else BuildSingleWindowPlan kSpec op protocol_name mcu_type img (FamilyPlanOf protocol_name).
End TcuHitachiM32rCan.

(** ** [subaru_mitsu_m32r_kline_plan.cpp] *)
Module MitsuM32rKline.
Definition kProtocols : list string := ["sub_ecu_mitsu_m32r_kline"%string].
Definition kUserspace : MemoryRegion := {| reg_start := 0x8000; reg_length := 0x78000 |}.
Definition kImageSize : Z := 0x80000.
Definition kExpected : list (Z * Z) := [(0, 0x4000); (0x4000, 0x2000); (0x6000, 0x2000); (0x8000, 0x78000)].
Definition GeometryOk (device : FlashDevice) : bool :=
  if negb (romsize device =? kImageSize) || negb (numblocks device =? zlen kExpected) then false
  else forallb (fun i => let '(s, l) := nth i kExpected (0, 0) in block_is device i s l) (seq 0 (length kExpected)).
Definition WireParamsOk (plan : FlashPlan) : bool :=
  match fp_value (family_plan (fields_ plan)) with
  | Some (MitsuM32rKlinePlan p) => (mitsu_tester_id p =? 0xF0) && (mitsu_target_id p =? 0x10) && (mitsu_initial_baud p =? 4800)
      && (mitsu_flash_baud p =? 15625) && (mitsu_chunk_size p =? 128) && (unread_prefix_fill p =? 0xFF)
  | _ => false
  end.
Definition kSpec : SingleWindowPlanSpec := {|
  display_name := "Subaru Mitsubishi M32R K-Line";
  protocols := kProtocols;
  spec_mcu := "M32R_512KB_4blocks";
  read_region := kUserspace;
  write_region := kUserspace;
  image_size := kImageSize;
  geometry_ok := GeometryOk;
  wire_params_ok := WireParamsOk;
  supports_write := true
|}.
Definition Validate (plan : FlashPlan) : Status := ValidateSingleWindowPlan kSpec plan.
(** The family plan with the facts of its traits. *)
Definition FamilyPlanOf (protocol_name : string) : FamilyPlan :=
  {| fp_value := Some (MitsuM32rKlinePlan {| mitsu_tester_id := 0xF0; mitsu_target_id := 0x10; mitsu_initial_baud := 4800;
      mitsu_flash_baud := 15625; mitsu_chunk_size := 128; unread_prefix_fill := 0xFF |}); fp_family := kSubaruMitsuM32rKline; fp_transport := kKline;
     RequiresKernel := false |}.
Definition Build (op : FlashOperation) (protocol_name mcu_type : string) (img : option (list Z))
    : result Error FlashPlan :=
  BuildSingleWindowPlan kSpec op protocol_name mcu_type img (FamilyPlanOf protocol_name).
End MitsuM32rKline.

(** ** [subaru_hitachi_m32r_kline_plan.cpp] *)
Module HitachiM32rKline.
Definition kProtocols : list string := ["sub_ecu_hitachi_m32r_kline"%string; "sub_ecu_hitachi_m32r_kline_recovery"%string].
Definition kRom : MemoryRegion := {| reg_start := 0; reg_length := 0x80000 |}.
Definition ModeFor (protocol : string) : HitachiM32rKlineSessionMode :=
  if String.eqb protocol "sub_ecu_hitachi_m32r_kline_recovery" then kRecovery else kNormal.
Definition GeometryOk (device : FlashDevice) : bool :=
  (romsize device =? reg_length kRom) && (numblocks device =? 1) && block_is device 0 (reg_start kRom) (reg_length kRom).
Definition WireParamsOk (plan : FlashPlan) : bool :=
  match fp_value (family_plan (fields_ plan)) with
  | Some (HitachiM32rKlinePlan p) => bool_decide (session_mode p = ModeFor (target_id (fields_ plan))) && (kline_tester_id p =? 0xF0)
      && (kline_target_id p =? 0x10) && (initial_baud p =? 4800) && (write_baud p =? 15625) && (read_baud p =? 38400)
      && (kline_chunk_size p =? 128) && (read_address_bias p =? 0x100000)
  | _ => false
  end.
Definition kSpec : SingleWindowPlanSpec := {|
  display_name := "Subaru Hitachi M32R K-Line";
  protocols := kProtocols;
  spec_mcu := "M32R_512KB_1block";
  read_region := kRom;
  write_region := kRom;
  image_size := reg_length kRom;
  geometry_ok := GeometryOk;
  wire_params_ok := WireParamsOk;
  supports_write := true
|}.
Definition Validate (plan : FlashPlan) : Status := ValidateSingleWindowPlan kSpec plan.
(** The family plan with the facts of its traits. *)
Definition FamilyPlanOf (protocol_name : string) : FamilyPlan :=
  {| fp_value := Some (HitachiM32rKlinePlan {| session_mode := ModeFor protocol_name; kline_tester_id := 0xF0; kline_target_id := 0x10;
      initial_baud := 4800; write_baud := 15625; read_baud := 38400; kline_chunk_size := 128; read_address_bias := 0x100000 |}); fp_family := kSubaruHitachiM32rKline; fp_transport := kKline;
     RequiresKernel := false |}.
Definition Build (op : FlashOperation) (protocol_name mcu_type : string) (img : option (list Z))
    : result Error FlashPlan :=
  BuildSingleWindowPlan kSpec op protocol_name mcu_type img (FamilyPlanOf protocol_name).
End HitachiM32rKline.

(** ** [subaru_tcu_hitachi_m32r_kline_plan.cpp] *)
Module TcuHitachiM32rKline.
Definition kProtocols : list string := ["sub_tcu_hitachi_m32r_kline"%string].
Definition kRom : MemoryRegion := {| reg_start := 0; reg_length := 0x80000 |}.
Definition GeometryOk (device : FlashDevice) : bool :=
  (romsize device =? reg_length kRom) && block_starts device 0 (reg_start kRom).
Definition WireParamsOk (plan : FlashPlan) : bool :=
  match fp_value (family_plan (fields_ plan)) with
  | Some (TcuHitachiM32rKlinePlan p) => (tcu_tester_id p =? 0xF0) && (tcu_target_id p =? 0x18) && (tcu_baud p =? 4800) && (tcu_block_size p =? 96)
  | _ => false
  end.
Definition kSpec : SingleWindowPlanSpec := {|
  display_name := "Subaru TCU Hitachi M32R K-Line";
  protocols := kProtocols;
  spec_mcu := "M32R_512KB";
  read_region := kRom;
  write_region := kRom;
  image_size := reg_length kRom;
  geometry_ok := GeometryOk;
  wire_params_ok := WireParamsOk;
  supports_write := false
|}.
Definition Validate (plan : FlashPlan) : Status := ValidateSingleWindowPlan kSpec plan.
(** The family plan with the facts of its traits. *)
Definition FamilyPlanOf (protocol_name : string) : FamilyPlan :=
  {| fp_value := Some (TcuHitachiM32rKlinePlan {| tcu_tester_id := 0xF0; tcu_target_id := 0x18; tcu_baud := 4800; tcu_block_size := 96 |}); fp_family := kSubaruTcuHitachiM32rKline; fp_transport := kKline;
     RequiresKernel := false |}.
Definition Build (op : FlashOperation) (protocol_name mcu_type : string) (img : option (list Z))
    : result Error FlashPlan :=
  BuildSingleWindowPlan kSpec op protocol_name mcu_type img (FamilyPlanOf protocol_name).
End TcuHitachiM32rKline.

(** ** The families together *)
Record family_entry := {
  entry_spec : SingleWindowPlanSpec;
  entry_family : string -> FamilyPlan;
  entry_validate : FlashPlan -> Status;
  entry_build : FlashOperation -> string -> string -> option (list Z) -> result Error FlashPlan;
  (** A read plan must not come with an image; the other families drop it. *)
  rejects_read_image : bool
}.
Definition m32r_can_entry : family_entry := {|
  entry_spec := m32r_can_spec;
  entry_family := fun _ => m32r_can_family_plan {| m32r_request_id := 0x7E0; m32r_response_id := 0x7E8;
                                                    m32r_bitrate := 500000; m32r_extended_id := false |};
  entry_validate := ValidateSubaruHitachiM32rCanPlan; entry_build := BuildSubaruHitachiM32rCanPlan;
  rejects_read_image := false
|}.
Definition families : list family_entry :=
  [ m32r_can_entry;
    Build_family_entry TcuCvtHitachiM32rCan.kSpec TcuCvtHitachiM32rCan.FamilyPlanOf TcuCvtHitachiM32rCan.Validate
      TcuCvtHitachiM32rCan.Build false;
    Build_family_entry TcuCvtMitsuMh8111Can.kSpec TcuCvtMitsuMh8111Can.FamilyPlanOf TcuCvtMitsuMh8111Can.Validate
      TcuCvtMitsuMh8111Can.Build false;
    Build_family_entry TcuCvtMitsuMh8104Can.kSpec TcuCvtMitsuMh8104Can.FamilyPlanOf TcuCvtMitsuMh8104Can.Validate
      TcuCvtMitsuMh8104Can.Build false;
    Build_family_entry Denso1n83m15mCan.kSpec Denso1n83m15mCan.FamilyPlanOf Denso1n83m15mCan.Validate
      Denso1n83m15mCan.Build false;
    Build_family_entry Denso1n83m4mCan.kSpec Denso1n83m4mCan.FamilyPlanOf Denso1n83m4mCan.Validate
      Denso1n83m4mCan.Build false;
    Build_family_entry DensoSh72531Can.kSpec DensoSh72531Can.FamilyPlanOf DensoSh72531Can.Validate
      DensoSh72531Can.Build false;
    Build_family_entry DensoSh72543CanDiesel.kSpec DensoSh72543CanDiesel.FamilyPlanOf DensoSh72543CanDiesel.Validate
      DensoSh72543CanDiesel.Build false;
    Build_family_entry HitachiSh72543rCan.kSpec HitachiSh72543rCan.FamilyPlanOf HitachiSh72543rCan.Validate
      HitachiSh72543rCan.Build true;
    Build_family_entry TcuHitachiM32rCan.kSpec TcuHitachiM32rCan.FamilyPlanOf TcuHitachiM32rCan.Validate
      TcuHitachiM32rCan.Build true;
    Build_family_entry MitsuM32rKline.kSpec MitsuM32rKline.FamilyPlanOf MitsuM32rKline.Validate
      MitsuM32rKline.Build false;
    Build_family_entry HitachiM32rKline.kSpec HitachiM32rKline.FamilyPlanOf HitachiM32rKline.Validate
      HitachiM32rKline.Build false;
    Build_family_entry TcuHitachiM32rKline.kSpec TcuHitachiM32rKline.FamilyPlanOf TcuHitachiM32rKline.Validate
      TcuHitachiM32rKline.Build false ].
(** The blocks of [run] lie end to end from [s] to [e]. *)
Fixpoint tiles (s : Z) (run : list FlashBlock) (e : Z) : bool :=
  match run with [] => s =? e | b :: run => (start b =? s) && tiles (s + len b) run e end.
(** [r] is a run of whole blocks. *)
Definition whole_blocks (r : MemoryRegion) (blocks : list FlashBlock) : Prop :=
  exists pre run post, blocks = pre ++ run ++ post /\ run <> []
    /\ tiles (reg_start r) run (reg_start r + reg_length r) = true.

(** ** Lemmas *)
(** What the registration of a family consists of. *)
Record entry_ok (e : family_entry) : Prop := {
  entry_spec_ok : spec_ok (entry_spec e);
  entry_device : exists d, FindFlashDevice (spec_mcu (entry_spec e)) = Some d /\ geometry_ok (entry_spec e) d = true
    /\ (supports_write (entry_spec e) = true -> whole_blocks (write_region (entry_spec e)) (fblocks d));
  entry_wire op protocol mcu img :
    wire_params_ok (entry_spec e) (single_window_plan (entry_spec e) op protocol mcu img (entry_family e protocol)) = true;
  entry_value protocol : is_Some (fp_value (entry_family e protocol)) /\ RequiresKernel (entry_family e protocol) = false;
  entry_is_build op protocol mcu img plan :
    entry_build e op protocol mcu img = Ok plan <->
    (rejects_read_image e = true -> op = kRead -> img = None)
    /\ BuildSingleWindowPlan (entry_spec e) op protocol mcu img (entry_family e protocol) = Ok plan;
  entry_is_validate plan : entry_validate e plan = ValidateSingleWindowPlan (entry_spec e) plan
}.
Definition can_build (e : family_entry) (op : FlashOperation) (protocol mcu : string) (img : option (list Z)) : Prop :=
  protocol ∈ protocols (entry_spec e) /\ mcu = spec_mcu (entry_spec e) /\ operation_ok (entry_spec e) op img
  /\ (rejects_read_image e = true -> op = kRead -> img = None).
Lemma entry_builds e op protocol mcu img plan :
  entry_ok e ->
  entry_build e op protocol mcu img = Ok plan <->
  can_build e op protocol mcu img /\ plan = single_window_plan (entry_spec e) op protocol mcu img (entry_family e protocol).
Proof.
  intros He. destruct (entry_value e He protocol) as [Hv Hk]. rewrite (entry_is_build e He).
  rewrite (BuildSingleWindowPlan_lemma _ _ _ _ _ _ _ (entry_spec_ok e He) Hv Hk). unfold can_build.
  destruct (entry_device e He) as (d & Hd & Hg & _). split.
  - intros (Hr & -> & Hp & -> & _ & Ho & _). done.
  - intros ((Hp & -> & Ho & Hr) & ->). split_and!; try done; [by exists d|]. apply (entry_wire e He).
Qed.
Lemma build_unguarded (P : Prop) (Q : Prop) : Q <-> (false = true -> P) /\ Q.
Proof. split; [done|]. by intros [_ HQ]. Qed.
Lemma build_guarded op (img : option (list Z)) message (r : result Error FlashPlan) plan :
  (if bool_decide (op = kRead) && bool_decide (is_Some img) then Fail kInvalidConfig message else r) = Ok plan <->
  (true = true -> op = kRead -> img = None) /\ r = Ok plan.
Proof.
  destruct (decide (op = kRead)) as [->|Hop].
  - destruct img as [i|]; cbn; [|naive_solver]. split; [done|]. intros [H _]. by specialize (H eq_refl eq_refl).
  - rewrite (bool_decide_eq_false_2 (op = kRead)) by done. cbn. naive_solver.
Qed.
Ltac entry_tac i j :=
  constructor;
  [ unfold spec_ok, region_fits; cbn; split_and!; try lia; try done; by repeat constructor
  | eexists; split; [reflexivity|]; split; [reflexivity|]; intros ?;
    first [ done | eexists (take i _), (take j (drop i _)), (drop j (drop i _));
                   rewrite !take_drop; split_and!; [reflexivity|done|reflexivity] ]
  | intros; cbn; rewrite ?bool_decide_eq_true_2 by done; reflexivity
  | intros; split; [by eexists|reflexivity]
  | intros; first [ apply build_unguarded | apply build_guarded ]
  | reflexivity ].
Lemma families_ok : Forall entry_ok families.
Proof.
  constructor; [entry_tac 0%nat 1%nat|]. constructor; [entry_tac 3%nat 8%nat|].
  constructor; [entry_tac 3%nat 1%nat|]. constructor; [entry_tac 3%nat 1%nat|].
  constructor; [entry_tac 1%nat 1%nat|]. constructor; [entry_tac 1%nat 1%nat|].
  constructor; [entry_tac 1%nat 1%nat|]. constructor; [entry_tac 0%nat 1%nat|].
  constructor; [entry_tac 1%nat 1%nat|]. constructor; [entry_tac 3%nat 8%nat|].
  constructor; [entry_tac 3%nat 1%nat|]. constructor; [entry_tac 0%nat 1%nat|].
  constructor; [entry_tac 0%nat 1%nat|]. constructor.
Qed.
(** Every protocol names one family. *)
Definition family_of (p : string) : option nat :=
  fst <$> list_find (fun e => p ∈ protocols (entry_spec e)) families.
Lemma family_of_protocol i e p : families !! i = Some e -> p ∈ protocols (entry_spec e) -> family_of p = Some i.
Proof.
  assert (forallb (fun ie : nat * family_entry =>
            forallb (fun p => bool_decide (family_of p = Some (fst ie))) (protocols (entry_spec (snd ie))))
            (imap pair families) = true) as Hall by (by vm_compute).
  rewrite forallb_forall in Hall. intros Hi Hp. specialize (Hall (i, e)). cbn [fst snd] in Hall.
  rewrite forallb_forall in Hall. eapply bool_decide_eq_true_1, Hall; [|by apply list_elem_of_In].
  apply list_elem_of_In, (list_elem_of_lookup_2 _ i). by rewrite list_lookup_imap, Hi.
Qed.
Lemma validated_protocol e plan :
  entry_ok e -> entry_validate e plan = Ok tt -> target_id (fields_ plan) ∈ protocols (entry_spec e).
Proof.
  intros He. rewrite (entry_is_validate e He). unfold ValidateSingleWindowPlan. intros E.
  apply result_bind_Ok in E as ([] & E & _). by apply ValidateIdentity_iff in E as [Hp _].
Qed.
Lemma family_entry_ok i e : families !! i = Some e -> entry_ok e.
Proof. intros Hi. apply (Forall_lookup_1 _ _ _ _ families_ok Hi). Qed.

(** ** Claims *)
(** each of the thirteen single-window families builds exactly the plans it is meant
    to: for its protocol names and its microcontroller (whose entry in the device
    table has the geometry the family checks), a read, or a write with an image of
    the family's size where the family writes at all; a test write never. The two
    families that say so refuse an image with a read. The plan is the family's window
    with the family's wire parameters. *)
Theorem single_window_families_build i e op protocol mcu img plan :
  families !! i = Some e ->
  entry_build e op protocol mcu img = Ok plan <->
  can_build e op protocol mcu img /\ plan = single_window_plan (entry_spec e) op protocol mcu img (entry_family e protocol).
Proof. intros Hi. apply entry_builds, (family_entry_ok i e Hi). Qed.
Lemma single_window_families_build_witness :
  exists e, families !! 11%nat = Some e
    /\ is_ok (entry_build e kRead "sub_ecu_hitachi_m32r_kline_recovery" "M32R_512KB_1block" None) = true.
Proof.
  eexists. split; [reflexivity|].
  erewrite (proj2 (single_window_families_build 11%nat _ kRead "sub_ecu_hitachi_m32r_kline_recovery" "M32R_512KB_1block" None _ eq_refl)).
  - reflexivity.
  - split; [|reflexivity]. split; [apply list_elem_of_In; by right; left|]. by split_and!.
Defined.

(** a plan belongs to one family and erases whole flash blocks: a plan a family's
    builder made passes that family's validation and no other family's, transfers
    the family's window for the operation, and each region it erases is a run of
    whole, adjacent blocks of the device. *)
Theorem single_window_plans_safe i e op protocol mcu img plan :
  families !! i = Some e -> entry_build e op protocol mcu img = Ok plan ->
  entry_validate e plan = Ok tt
  /\ (forall j e', families !! j = Some e' -> entry_validate e' plan = Ok tt -> j = i)
  /\ TransferRegion plan = region_for (entry_spec e) op
  /\ (op = kRead -> EraseRegions plan = [])
  /\ Forall (fun r => exists d, FindFlashDevice mcu = Some d /\ whole_blocks r (fblocks d)) (EraseRegions plan).
Proof.
  intros Hi Hb. pose proof (family_entry_ok i e Hi) as He. pose proof Hb as Hb'.
  apply (entry_is_build e He) in Hb' as [_ Hb']. apply BuildSingleWindowPlan_valid in Hb'.
  apply (entry_builds e _ _ _ _ _ He) in Hb as [(Hp & -> & Ho & _) ->]. split_and!.
  - by rewrite (entry_is_validate e He).
  - intros j e' Hj Hv. apply validated_protocol in Hv; [|by eapply family_entry_ok]. cbn in Hv.
    pose proof (family_of_protocol _ _ _ Hi Hp) as E1. rewrite (family_of_protocol _ _ _ Hj Hv) in E1. by injection E1.
  - done.
  - by intros ->.
  - destruct (entry_device e He) as (d & Hd & _ & Hw). destruct op; cbn; [constructor|done|].
    constructor; [|constructor]. exists d. split; [done|]. by apply Hw, Ho.
Qed.
Lemma single_window_plans_safe_witness :
  exists e plan, families !! 1%nat = Some e
    /\ entry_build e kWrite "sub_tcu_cvt_hitachi_m32r_can" "M32R_512KB" (Some (zrepeat 0x80000 0)) = Ok plan
    /\ EraseRegions plan = [{| reg_start := 0x8000; reg_length := 0x78000 |}]
    /\ entry_validate e plan = Ok tt.
Proof.
  assert (exists e plan, families !! 1%nat = Some e
    /\ entry_build e kWrite "sub_tcu_cvt_hitachi_m32r_can" "M32R_512KB" (Some (zrepeat 0x80000 0)) = Ok plan
    /\ EraseRegions plan = [{| reg_start := 0x8000; reg_length := 0x78000 |}]) as (e & plan & He & Hb & Hr).
  { eexists _, _. split; [reflexivity|]. split.
    - apply entry_builds; [by eapply (family_entry_ok 1)|]. split; [|reflexivity].
      split; [apply list_elem_of_In; by left|]. split; [reflexivity|]. split; [split; [reflexivity|]; eexists; split; [reflexivity|]; by rewrite zlen_zrepeat|discriminate].
    - reflexivity. }
  exists e, plan. split_and!; [exact He|exact Hb|exact Hr|].
  exact (proj1 (single_window_plans_safe 1%nat e kWrite "sub_tcu_cvt_hitachi_m32r_can" "M32R_512KB" _ plan He Hb)).
Defined.
