(* ===== verification/WholeRomPlans.v ===== *)
(** * WholeRomPlans: the plans of the families that load a kernel and take the whole ROM

    [src/backend/flash/ecu/plan_primitives.h], [plan_primitives.cpp], and the plan
    builders of the Denso SH7058 CAN, SH7058 and SH7059 diesel CAN, DensoCAN, SH705x
    TCU CAN, SH7055 revision 02 and SH705x K-Line families. *)
From S2P Require Import Prelude Ports FlashDevices FlashPlan SingleWindowPlans.

(** ** [plan_primitives.h], [plan_primitives.cpp] *)
Definition Kernel (p : FlashPlan) : option KernelImage := kernel (fields_ p).
Definition Confirmations (p : FlashPlan) : list ConfirmationSpec := confirmations (fields_ p).
Definition Transport (p : FlashPlan) : TransportKind := fp_transport (family_plan (fields_ p)).
Definition TargetId (p : FlashPlan) : string := target_id (fields_ p).
Definition McuName (p : FlashPlan) : string := mcu_name (fields_ p).
(** An array of blocks: null when the device has none, read inside its bounds. *)
Definition present (blocks : list FlashBlock) : bool := negb (bool_decide (blocks = [])).
Definition block_at (blocks : list FlashBlock) (i : Z) : FlashBlock := default (mkFlashBlock 0 0) (zlookup blocks i).
Definition FixedShapeDeviceMatches (device : option FlashDevice) (rom_size block_count : Z) : bool :=
  match device with
  | Some d => present (fblocks d) && present (kblocks d) && (romsize d =? rom_size) && (numblocks d =? block_count)
  | None => false
  end.
Definition OperationImageShapeMatches (plan : FlashPlan) (rom_size : Z) : bool :=
  match Operation plan, Image plan with
  | kRead, image => negb (bool_decide (is_Some image))
  | _, Some image => zlen image =? rom_size
  | _, None => false
  end.
Definition TransferMatchesDevice (transfer : MemoryRegion) (device : FlashDevice) : bool :=
  (reg_start transfer =? start (block_at (fblocks device) 0)) && (reg_length transfer =? romsize device).
Definition RequiresOnly (confirmations : list ConfirmationSpec) (id : ConfirmationId) : bool :=
  bool_decide (confirmations = [{| conf_id := id; arguments := [] |}]).
Definition MakeEraseRegions (device : FlashDevice) : list MemoryRegion :=
  map (fun i => {| reg_start := start (block_at (fblocks device) i); reg_length := len (block_at (fblocks device) i) |})
    (seqZ 0 (numblocks device)).
Definition EraseGeometryMatches (regions : list MemoryRegion) (device : FlashDevice) : bool :=
  (zlen regions =? numblocks device)
  && forallb (fun i => match zlookup regions i with
                       | Some r => (reg_start r =? start (block_at (fblocks device) i))
                                   && (reg_length r =? len (block_at (fblocks device) i))
                       | None => false
                       end) (seqZ 0 (numblocks device)).
Definition ValidateRegions (plan : FlashPlan) (device : FlashDevice) : Status :=
  if negb (TransferMatchesDevice (TransferRegion plan) device) then
    Fail kInvalidConfig "transfer region does not match the MCU"
  else if bool_decide (Operation plan = kRead) then
    if bool_decide (EraseRegions plan = []) then Ok tt
    else Fail kInvalidConfig "read plans must not declare erase regions"
  else if negb (EraseGeometryMatches (EraseRegions plan) device) then
    Fail kInvalidConfig "erase geometry does not match the MCU"
  else Ok tt.
(** The rows of a family's catalog: [FindCatalogEntry]. *)
Record CatalogEntry := { entry_protocol : string; entry_mcu : string; entry_rom_size : Z; entry_load_address : Z }.
Definition FindCatalogEntry {Entry} (protocol_of mcu_of : Entry -> string) (catalog : list Entry) (name protocol mcu : string)
    : result Error Entry :=
  match List.find (fun e => String.eqb (protocol_of e) protocol) catalog with
  | None => Fail kInvalidConfig ("Unsupported " +:+ name +:+ " protocol: " +:+ protocol)
  | Some e =>
      if negb (String.eqb mcu (mcu_of e)) then
        Fail kInvalidConfig (name +:+ " protocol " +:+ protocol +:+ " requires MCU " +:+ mcu_of e +:+ ", not " +:+ mcu)
      else Ok e
  end.
Definition kU64Max : Z := 0xFFFFFFFFFFFFFFFF.
Definition padded_size (block_size size : Z) : Z := (size + (block_size - 1)) / block_size * block_size.
Definition ValidateKernelUpload (block_size size load_address expected_load_address : Z) (region : FlashBlock) : Status :=
  if negb (load_address =? expected_load_address) then
    Fail kInvalidConfig "kernel address does not match the selected protocol"
  else if kU64Max - (block_size - 1) <? size then
    Fail kInvalidConfig "kernel size cannot be padded to transfer blocks"
  else
    let region_end := start region + len region in
    if (load_address <? start region) || (region_end <? load_address)
       || (region_end - load_address <? padded_size block_size size) then
      Fail kInvalidConfig "padded kernel lies outside the MCU kernel region"
    else Ok tt.
Definition ValidateWholeRomKernelPlan (block_size : Z) (plan : FlashPlan) (kernel_load_address : Z) (device : FlashDevice)
    : Status :=
  match Kernel plan with
  | None => Fail kInvalidConfig "plan requires a kernel image"
  | Some k =>
      let! _ := ValidateKernelUpload block_size (zlen (kernel_bytes k)) (load_address k) kernel_load_address
                  (block_at (kblocks device) 0) in
      let! _ := ValidateRegions plan device in
      if negb (OperationImageShapeMatches plan (romsize device)) then
        Fail kInvalidConfig (if bool_decide (Operation plan = kRead) then "read plan carries an image"
                             else "ROM file must be exactly 0x" +:+ fmt_x (romsize device) +:+ " bytes")
      else Ok tt
  end.
(** The fields a whole-ROM plan ends up with. *)
Definition whole_rom_fields (op : FlashOperation) (protocol_name mcu_type : string) (family : FamilyPlan)
    (confirmations : list ConfirmationSpec) (img : option (list Z)) (k : KernelImage) (device : FlashDevice)
    : FlashPlanFields := {|
  operation := op;
  target_id := protocol_name;
  mcu_name := mcu_type;
  transfer_region := {| reg_start := start (block_at (fblocks device) 0); reg_length := romsize device |};
  erase_regions := if bool_decide (op = kRead) then [] else MakeEraseRegions device;
  image := if bool_decide (op = kRead) then None else img;
  image_map := None;
  kernel := Some k;
  family_plan := family;
  confirmations := confirmations
|}.
Definition BuildWholeRomKernelPlan (block_size : Z) (op : FlashOperation) (protocol_name mcu_type : string)
    (family : FamilyPlan) (confirmations : list ConfirmationSpec) (img : option (list Z)) (k : KernelImage)
    (kernel_load_address : Z) (device : FlashDevice) (validate : FlashPlan -> Status) : result Error FlashPlan :=
  let! _ := ValidateKernelUpload block_size (zlen (kernel_bytes k)) (load_address k) kernel_load_address
              (block_at (kblocks device) 0) in
  let reading := bool_decide (op = kRead) in
  if reading && bool_decide (is_Some img) then Fail kInvalidConfig "read plans must not carry an image"
  else if negb reading && negb (match img with Some i => zlen i =? romsize device | None => false end) then
    Fail kInvalidConfig ("ROM file must be exactly 0x" +:+ fmt_x (romsize device) +:+ " bytes")
  else
    let! plan := ValidateAndBuild (whole_rom_fields op protocol_name mcu_type family confirmations img k device) in
    let! _ := validate plan in
    Ok plan.
Definition CheckedDevice (mcu : string) (rom_size : Z) : option FlashDevice :=
  let device := FindFlashDevice mcu in if FixedShapeDeviceMatches device rom_size 16 then device else None.
Definition can_wire_ok (p : CanPlan) (request_id response_id : Z) : bool :=
  (can_request_id p =? request_id) && (can_response_id p =? response_id) && (can_bitrate p =? 500000)
  && negb (can_extended_id p).
Definition can_wire (request_id response_id : Z) : CanPlan :=
  {| can_request_id := request_id; can_response_id := response_id; can_bitrate := 500000; can_extended_id := false |}.

(** ** [subaru_denso_sh7058_can_plan.cpp] *)
Module DensoSh7058Can.
Definition kCatalog : list (string * SubaruDensoSh7058CanSecurity) :=
  [ ("sub_ecu_denso_sh7058_can"%string, kSecurityStock); ("sub_ecu_denso_sh7058_can_ecutek"%string, kSecurityEcuTek);
    ("sub_ecu_denso_sh7058_can_ecutek_racerom"%string, kSecurityRaceRom);
    ("sub_ecu_denso_sh7058_can_ecutek_racerom_alt"%string, kSecurityRaceRomAlt);
    ("sub_ecu_denso_sh7058_can_cobb"%string, kSecurityCobb) ].
Definition kMcu : string := "SH7058".
Definition kRomSize : Z := 0x00100000.
Definition kKernelLoadAddress : Z := 0xFFFF3000.
Definition GetCatalogEntry (protocol mcu : string) : result Error (string * SubaruDensoSh7058CanSecurity) :=
  match List.find (fun e => String.eqb (fst e) protocol) kCatalog with
  | None => Fail kInvalidConfig ("Unsupported Subaru Denso SH7058 petrol CAN protocol: " +:+ protocol)
  | Some e =>
      if negb (String.eqb mcu kMcu) then
        Fail kInvalidConfig ("Subaru Denso SH7058 petrol CAN protocol " +:+ protocol +:+ " requires MCU SH7058, not " +:+ mcu)
      else Ok e
  end.
Definition WireParametersMatch (wire : SubaruDensoSh7058CanPlan) (entry : string * SubaruDensoSh7058CanSecurity) : bool :=
  can_wire_ok (sh7058_can wire) 0x7E0 0x7E8 && bool_decide (sh7058_security wire = snd entry).
Definition As (p : FamilyPlan) : option SubaruDensoSh7058CanPlan :=
  match fp_value p with Some (Sh7058CanPlan w) => Some w | _ => None end.
Definition Validate (plan : FlashPlan) : Status :=
  let! entry := GetCatalogEntry (TargetId plan) (McuName plan) in
  if negb (match As (family_plan (fields_ plan)) with Some w => WireParametersMatch w entry | None => false end) then
    Fail kInvalidConfig "petrol SH7058 CAN wire/security parameters are invalid"
  else match CheckedDevice kMcu kRomSize with
  | None => Fail kInvalidConfig "petrol SH7058 catalog does not match the flash device table"
  | Some device =>
      if negb (bool_decide (Confirmations plan = [])) then
        Fail kInvalidConfig "petrol SH7058 plans must not declare extra confirmations"
      else ValidateWholeRomKernelPlan 128 plan kKernelLoadAddress device
  end.
(** [FamilyTraits<SubaruDensoSh7058CanPlan>]. *)
Definition family_of (security : SubaruDensoSh7058CanSecurity) : FamilyPlan :=
  {| fp_value := Some (Sh7058CanPlan {| sh7058_can := can_wire 0x7E0 0x7E8; sh7058_security := security |});
     fp_family := kSubaruDensoSh7058Can; fp_transport := kCanIso15765; RequiresKernel := true |}.
Definition Build (op : FlashOperation) (protocol_name mcu_type : string) (img : option (list Z)) (k : KernelImage)
    : result Error FlashPlan :=
  let! entry := GetCatalogEntry protocol_name mcu_type in
  match CheckedDevice kMcu kRomSize with
  | None => Fail kInvalidConfig "petrol SH7058 catalog does not match the flash device table"
  | Some device =>
      BuildWholeRomKernelPlan 128 op protocol_name mcu_type (family_of (snd entry)) [] img k kKernelLoadAddress device Validate
  end.
Definition Protocols : list string := map fst kCatalog.
End DensoSh7058Can.

(** ** [subaru_denso_sh7058_can_diesel_plan.cpp] *)
Module DensoSh7058CanDiesel.
Definition kCatalog : list CatalogEntry :=
  [ {| entry_protocol := "sub_ecu_denso_sh7058_can_diesel"; entry_mcu := "SH7058d"; entry_rom_size := 0x00100000;
       entry_load_address := 0xFFFF4000 |};
    {| entry_protocol := "sub_ecu_denso_sh7059_can_diesel"; entry_mcu := "SH7059d"; entry_rom_size := 0x00180000;
       entry_load_address := 0xFFFEE000 |} ].
Definition FindEntry (protocol mcu : string) : result Error CatalogEntry :=
  FindCatalogEntry entry_protocol entry_mcu kCatalog "Subaru Denso SH705x diesel CAN" protocol mcu.
Definition As (p : FamilyPlan) : option CanPlan :=
  match fp_value p with Some (SubaruDensoSh7058CanDieselPlan w) => Some w | _ => None end.
Definition Validate (plan : FlashPlan) : Status :=
  let! entry := FindEntry (TargetId plan) (McuName plan) in
  if negb (match As (family_plan (fields_ plan)) with Some w => can_wire_ok w 0x7E0 0x7E8 | None => false end) then
    Fail kInvalidConfig "diesel CAN wire parameters are invalid"
  else match CheckedDevice (entry_mcu entry) (entry_rom_size entry) with
  | None => Fail kInvalidConfig "diesel catalog does not match the flash device table"
  | Some device =>
      if negb (bool_decide (Confirmations plan = [])) then
        Fail kInvalidConfig "diesel plans must not declare extra confirmations"
      else ValidateWholeRomKernelPlan 128 plan (entry_load_address entry) device
  end.
(** [FamilyTraits<SubaruDensoSh7058CanDieselPlan>]. *)
Definition family : FamilyPlan :=
  {| fp_value := Some (SubaruDensoSh7058CanDieselPlan (can_wire 0x7E0 0x7E8)); fp_family := kSubaruDensoSh7058CanDiesel;
     fp_transport := kCanIso15765; RequiresKernel := true |}.
Definition Build (op : FlashOperation) (protocol_name mcu_type : string) (img : option (list Z)) (k : KernelImage)
    : result Error FlashPlan :=
  let! entry := FindEntry protocol_name mcu_type in
  match CheckedDevice (entry_mcu entry) (entry_rom_size entry) with
  | None => Fail kInvalidConfig "diesel catalog does not match the flash device table"
  | Some device =>
      BuildWholeRomKernelPlan 128 op protocol_name mcu_type family [] img k (entry_load_address entry) device Validate
  end.
Definition Protocols : list string := map entry_protocol kCatalog.
End DensoSh7058CanDiesel.

(** ** [subaru_denso_sh705x_densocan_plan.cpp] *)
Module DensoCan.
Definition kCatalog : list CatalogEntry :=
  [ {| entry_protocol := "sub_ecu_denso_sh7055_densocan"; entry_mcu := "SH7055"; entry_rom_size := 0x00080000;
       entry_load_address := 0xFFFF6004 |};
    {| entry_protocol := "sub_ecu_denso_sh7058_densocan"; entry_mcu := "SH7058"; entry_rom_size := 0x00100000;
       entry_load_address := 0xFFFF3000 |};
    {| entry_protocol := "sub_ecu_denso_sh7058s_densocan"; entry_mcu := "SH7058"; entry_rom_size := 0x00100000;
       entry_load_address := 0xFFFF3000 |};
    {| entry_protocol := "sub_ecu_denso_sh7058s_diesel_densocan"; entry_mcu := "SH7058"; entry_rom_size := 0x00100000;
       entry_load_address := 0xFFFF3000 |};
    {| entry_protocol := "sub_ecu_denso_sh7059_diesel_densocan"; entry_mcu := "SH7059d"; entry_rom_size := 0x00180000;
       entry_load_address := 0xFFFEE000 |} ].
Definition FindEntry (protocol mcu : string) : result Error CatalogEntry :=
  FindCatalogEntry entry_protocol entry_mcu kCatalog "DensoCAN" protocol mcu.
Definition WireParameters : SubaruDensoSh705xDensoCanPlan :=
  {| iso_request_id := 0x7E0; iso_response_id := 0x7E8; raw_transmit_id := 0x000FFFFE; raw_receive_id := 0x21;
     densocan_bitrate := 500000; iso_extended_id := false; raw_extended_id := true |}.
Definition WireParametersMatch (wire : SubaruDensoSh705xDensoCanPlan) : bool :=
  (iso_request_id wire =? 0x7E0) && (iso_response_id wire =? 0x7E8) && (raw_transmit_id wire =? 0x000FFFFE)
  && (raw_receive_id wire =? 0x21) && (densocan_bitrate wire =? 500000) && negb (iso_extended_id wire)
  && raw_extended_id wire.
Definition As (p : FamilyPlan) : option SubaruDensoSh705xDensoCanPlan :=
  match fp_value p with Some (DensoCanPlan w) => Some w | _ => None end.
Definition Validate (plan : FlashPlan) : Status :=
  if negb (match As (family_plan (fields_ plan)) with Some w => WireParametersMatch w | None => false end) then
    Fail kInvalidConfig "DensoCAN wire parameters are invalid"
  else
    let! entry := FindEntry (TargetId plan) (McuName plan) in
    match CheckedDevice (entry_mcu entry) (entry_rom_size entry) with
    | None => Fail kInvalidConfig "DensoCAN catalog does not match the flash device table"
    | Some device =>
        if negb (RequiresOnly (Confirmations plan) kCycleIgnition) then
          Fail kInvalidConfig "DensoCAN requires exactly the CycleIgnition confirmation"
        else ValidateWholeRomKernelPlan 6 plan (entry_load_address entry) device
    end.
(** [FamilyTraits<SubaruDensoSh705xDensoCanPlan>]. *)
Definition family : FamilyPlan :=
  {| fp_value := Some (DensoCanPlan WireParameters); fp_family := kSubaruDensoSh705xDensoCan;
     fp_transport := kCanRawIso15765; RequiresKernel := true |}.
Definition Build (op : FlashOperation) (protocol_name mcu_type : string) (img : option (list Z)) (k : KernelImage)
    : result Error FlashPlan :=
  let! entry := FindEntry protocol_name mcu_type in
  match CheckedDevice (entry_mcu entry) (entry_rom_size entry) with
  | None => Fail kInvalidConfig "DensoCAN catalog does not match the flash device table"
  | Some device =>
      BuildWholeRomKernelPlan 6 op protocol_name mcu_type family [{| conf_id := kCycleIgnition; arguments := [] |}] img k
        (entry_load_address entry) device Validate
  end.
Definition Protocols : list string := map entry_protocol kCatalog.
End DensoCan.

(** ** [subaru_tcu_denso_sh705x_can_plan.cpp] *)
Module TcuDensoSh705xCan.
Record TcuCatalogEntry := { tcu_entry : CatalogEntry; entry_supports_write : bool }.
Definition kCatalog : list TcuCatalogEntry :=
  [ {| tcu_entry := {| entry_protocol := "sub_tcu_denso_sh7055_can"; entry_mcu := "SH7055"; entry_rom_size := 0x00080000;
                       entry_load_address := 0xFFFF9000 |}; entry_supports_write := false |};
    {| tcu_entry := {| entry_protocol := "sub_tcu_denso_sh7058_can"; entry_mcu := "SH7058"; entry_rom_size := 0x00100000;
                       entry_load_address := 0xFFFF3000 |}; entry_supports_write := true |} ].
Definition FindEntry (protocol mcu : string) : result Error TcuCatalogEntry :=
  FindCatalogEntry (fun e => entry_protocol (tcu_entry e)) (fun e => entry_mcu (tcu_entry e)) kCatalog
    "Denso SH705x TCU CAN" protocol mcu.
Definition ValidateCapability (op : FlashOperation) (entry : TcuCatalogEntry) : Status :=
  if bool_decide (op = kTestWrite) || (bool_decide (op = kWrite) && negb (entry_supports_write entry)) then
    Fail kUnsupported "operation is not supported by the selected Denso SH705x TCU"
  else Ok tt.
Definition As (p : FamilyPlan) : option CanPlan :=
  match fp_value p with Some (SubaruTcuDensoSh705xCanPlan w) => Some w | _ => None end.
Definition Validate (plan : FlashPlan) : Status :=
  if negb (match As (family_plan (fields_ plan)) with Some w => can_wire_ok w 0x7E1 0x7E9 | None => false end) then
    Fail kInvalidConfig "TCU CAN wire parameters are invalid"
  else
    let! entry := FindEntry (TargetId plan) (McuName plan) in
    let! _ := ValidateCapability (Operation plan) entry in
    match CheckedDevice (entry_mcu (tcu_entry entry)) (entry_rom_size (tcu_entry entry)) with
    | None => Fail kInvalidConfig "TCU catalog does not match the flash device table"
    | Some device =>
        if negb (bool_decide (Confirmations plan = [])) then
          Fail kInvalidConfig "TCU plans must not declare extra confirmations"
        else ValidateWholeRomKernelPlan 128 plan (entry_load_address (tcu_entry entry)) device
    end.
(** [FamilyTraits<SubaruTcuDensoSh705xCanPlan>]. *)
Definition family : FamilyPlan :=
  {| fp_value := Some (SubaruTcuDensoSh705xCanPlan (can_wire 0x7E1 0x7E9)); fp_family := kSubaruTcuDensoSh705xCan;
     fp_transport := kCanIso15765; RequiresKernel := true |}.
Definition Build (op : FlashOperation) (protocol_name mcu_type : string) (img : option (list Z)) (k : KernelImage)
    : result Error FlashPlan :=
  let! entry := FindEntry protocol_name mcu_type in
  let! _ := ValidateCapability op entry in
  match CheckedDevice (entry_mcu (tcu_entry entry)) (entry_rom_size (tcu_entry entry)) with
  | None => Fail kInvalidConfig "TCU catalog does not match the flash device table"
  | Some device =>
      BuildWholeRomKernelPlan 128 op protocol_name mcu_type family [] img k (entry_load_address (tcu_entry entry)) device
        Validate
  end.
Definition Protocols : list string := map (fun e => entry_protocol (tcu_entry e)) kCatalog.
End TcuDensoSh705xCan.

(** ** [subaru_denso_sh7055_02_plan.cpp] *)
Module DensoSh705502.
Definition kProtocols : list string := ["sub_ecu_denso_sh7055_02"%string; "sub_ecu_denso_sh7055_02_ecutek"%string].
Definition ValidateIdentity (protocol mcu : string) : Status :=
  if negb (existsb (String.eqb protocol) kProtocols) then
    Fail kInvalidConfig ("Unsupported SH7055_02 protocol: " +:+ protocol)
  else if negb (String.eqb mcu "SH7055") then
    Fail kInvalidConfig ("SH7055_02 protocol requires MCU SH7055, not " +:+ mcu)
  else Ok tt.
Definition WireParams (op : FlashOperation) : SubaruDensoSh7055_02Plan :=
  {| sh705502_tester_id := 0xf0; sh705502_target_id := 0x10; read_ecu_id := bool_decide (op = kRead) |}.
Definition ValidateImage (plan : FlashPlan) (rom_size : Z) : Status :=
  if negb (bool_decide (Operation plan = kRead)) && negb (OperationImageShapeMatches plan rom_size) then
    Fail kInvalidConfig ("ROM file must be exactly 0x" +:+ fmt_x rom_size +:+ " bytes")
  else Ok tt.
Definition kMaxWireLength : Z := 0x00FFFFFF.
Definition kCanonicalKernelAddress : Z := 0xFFFF6004.
Definition kModelWireRegionLength : Z := 0x00006000.
Definition ValidateKernelUpload (k : KernelImage) : Status :=
  if kMaxWireLength <? zlen (kernel_bytes k) then
    Fail kInvalidConfig "SH7055_02 padded kernel plus envelope exceeds the 24-bit wire length"
  else
    let padded := Z.land (zlen (kernel_bytes k) + 3) (Z.lnot 3) in
    let wire_length := padded + 4 in
    if kMaxWireLength <? wire_length then
      Fail kInvalidConfig "SH7055_02 padded kernel plus envelope exceeds the 24-bit wire length"
    else if negb (load_address k =? kCanonicalKernelAddress) || (kModelWireRegionLength <? wire_length) then
      Fail kInvalidConfig "SH7055_02 kernel address or padded envelope is outside the model kernel region"
    else Ok tt.
Definition As (p : FamilyPlan) : option SubaruDensoSh7055_02Plan :=
  match fp_value p with Some (Sh705502Plan w) => Some w | _ => None end.
Definition Validate (plan : FlashPlan) : Status :=
  let! _ := ValidateIdentity (TargetId plan) (McuName plan) in
  if negb (bool_decide (As (family_plan (fields_ plan)) = Some (WireParams (Operation plan)))) then
    Fail kInvalidConfig "SH7055_02 wire parameters are missing or do not match the operation"
  else if negb (bool_decide (EraseRegions plan = [])) then
    Fail kInvalidConfig "SH7055_02 plans must not declare erase regions"
  else match Kernel plan with
  | None => Fail kInvalidConfig "SH7055_02 requires a kernel image"
  | Some k =>
      let! _ := ValidateKernelUpload k in
      if negb (RequiresOnly (Confirmations plan) kCycleIgnition) then
        Fail kInvalidConfig "SH7055_02 requires exactly the CycleIgnition confirmation"
      else match FindFlashDevice (McuName plan) with
      | None => Fail kInvalidConfig "Unknown MCU type"
      | Some device =>
          if negb (TransferMatchesDevice (TransferRegion plan) device) then
            Fail kInvalidConfig "SH7055_02 transfer region does not match the MCU"
          else ValidateImage plan (romsize device)
      end
  end.
(** [FamilyTraits<SubaruDensoSh7055_02Plan>]. *)
Definition family_of (op : FlashOperation) : FamilyPlan :=
  {| fp_value := Some (Sh705502Plan (WireParams op)); fp_family := kSubaruDensoSh705502; fp_transport := kKline;
     RequiresKernel := true |}.
Definition fields_of (op : FlashOperation) (protocol_name mcu_type : string) (img : option (list Z)) (k : KernelImage)
    (device : FlashDevice) : FlashPlanFields := {|
  operation := op; target_id := protocol_name; mcu_name := mcu_type;
  transfer_region := {| reg_start := start (block_at (fblocks device) 0); reg_length := romsize device |};
  erase_regions := []; image := if bool_decide (op = kRead) then None else img; image_map := None; kernel := Some k;
  family_plan := family_of op; confirmations := [{| conf_id := kCycleIgnition; arguments := [] |}]
|}.
Definition Build (op : FlashOperation) (protocol_name mcu_type : string) (img : option (list Z)) (k : KernelImage)
    : result Error FlashPlan :=
  let! _ := ValidateIdentity protocol_name mcu_type in
  match FindFlashDevice mcu_type with
  | None => Fail kInvalidConfig "Unknown MCU type"
  | Some device =>
      if negb (bool_decide (op = kRead)) && negb (match img with Some i => zlen i =? romsize device | None => false end) then
        Fail kInvalidConfig ("ROM file must be exactly 0x" +:+ fmt_x (romsize device) +:+ " bytes")
      else
        let! _ := ValidateKernelUpload k in
        let! plan := ValidateAndBuild (fields_of op protocol_name mcu_type img k device) in
        let! _ := Validate plan in
        Ok plan
  end.
End DensoSh705502.

(** ** [subaru_denso_sh705x_kline_plan.cpp] *)
Module DensoSh705xKline.
Record Variant := {
  variant_protocol : string; variant_mcu : string; variant_seed_key : SubaruDensoSh705xKlineSeedKey; test_write_only : bool;
  kernel_address : Z
}.
Definition kVariants : list Variant :=
  [ Build_Variant "sub_ecu_denso_sh7055_04" "SH7055" kSeedKeyStock false 0xFFFF6004;
    Build_Variant "sub_ecu_denso_sh7055_04_ecutek" "SH7055" kSeedKeyEcuTek false 0xFFFF6004;
    Build_Variant "sub_ecu_denso_sh7055_04_cobb" "SH7055" kSeedKeyStock true 0xFFFF6004;
    Build_Variant "sub_ecu_denso_sh7058" "SH7058" kSeedKeyStock false 0xFFFF3000;
    Build_Variant "sub_ecu_denso_sh7058_ecutek" "SH7058" kSeedKeyEcuTek false 0xFFFF3000;
    Build_Variant "sub_ecu_denso_sh7058_cobb" "SH7058" kSeedKeyStock true 0xFFFF3000 ].
Definition kCommitBlockSize : Z := 0x1000.
Definition kMaxWireLength : Z := 0x00FFFFFF.
Definition FindVariant (protocol mcu : string) : result Error Variant :=
  FindCatalogEntry variant_protocol variant_mcu kVariants "Denso SH705x K-Line" protocol mcu.
Definition ValidateOperation (variant : Variant) (op : FlashOperation) : Status :=
  if test_write_only variant && negb (bool_decide (op = kTestWrite)) then
    Fail kUnsupported (variant_protocol variant +:+ " supports test write only")
  else Ok tt.
Definition ValidateKernel (variant : Variant) (k : KernelImage) : Status :=
  if zlen (kernel_bytes k) =? 0 then Fail kInvalidConfig "Denso SH705x K-Line kernel is empty"
  else
    let padded := Z.land (zlen (kernel_bytes k) + 2 + 3) (Z.lnot 3) in
    if kMaxWireLength <? padded then
      Fail kInvalidConfig "Denso SH705x K-Line kernel exceeds the 24-bit upload length"
    else if negb (load_address k =? kernel_address variant) then
      Fail kInvalidConfig ("Denso SH705x K-Line kernel address must be 0x" +:+ fmt_08X (kernel_address variant))
    else Ok tt.
Definition ValidateImage (op : FlashOperation) (img : option (list Z)) (rom_size : Z) : Status :=
  if bool_decide (op = kRead) then Ok tt
  else if negb (match img with Some i => zlen i =? rom_size | None => false end) then
    Fail kInvalidConfig ("ROM file must be exactly 0x" +:+ fmt_x rom_size +:+ " bytes")
  else Ok tt.
(** The total length of the blocks, or the first one that is not a multiple. *)
Fixpoint block_lengths (blocks : list FlashBlock) (total : Z) : result Error Z :=
  match blocks with
  | [] => Ok total
  | b :: blocks =>
      if negb (len b mod kCommitBlockSize =? 0) then
        Fail kInvalidConfig "Denso SH705x K-Line flash block is not a multiple of 0x1000"
      else block_lengths blocks (total + len b)
  end.
Definition ValidateSubaruDensoSh705xKlineGeometry (device : FlashDevice) : Status :=
  if (numblocks device =? 0) || negb (start (block_at (fblocks device) 0) =? 0) then
    Fail kInvalidConfig "Denso SH705x K-Line flash blocks must start at address 0"
  else
    let! total := block_lengths (map (block_at (fblocks device)) (seqZ 0 (numblocks device))) 0 in
    if negb (total =? romsize device) then
      Fail kInvalidConfig "Denso SH705x K-Line flash blocks do not cover the ROM"
    else Ok tt.
Definition WireFor (variant : Variant) : SubaruDensoSh705xKlinePlan :=
  {| sh705x_initial_baud := 4800; sh705x_tester_id := 0xF0; sh705x_target_id := 0x10; seed_key := variant_seed_key variant |}.
Definition FindDevice (mcu : string) : result Error FlashDevice :=
  match FindFlashDevice mcu with
  | None => Fail kInvalidConfig "Unknown MCU type"
  | Some device => let! _ := ValidateSubaruDensoSh705xKlineGeometry device in Ok device
  end.
Definition As (p : FamilyPlan) : option SubaruDensoSh705xKlinePlan :=
  match fp_value p with Some (Sh705xKlinePlan w) => Some w | _ => None end.
Definition Validate (plan : FlashPlan) : Status :=
  let! variant := FindVariant (TargetId plan) (McuName plan) in
  let! _ := ValidateOperation variant (Operation plan) in
  if negb (bool_decide (As (family_plan (fields_ plan)) = Some (WireFor variant))) then
    Fail kInvalidConfig "Denso SH705x K-Line wire parameters are invalid"
  else if negb (bool_decide (EraseRegions plan = [])) || negb (bool_decide (Confirmations plan = [])) then
    Fail kInvalidConfig "Denso SH705x K-Line plans carry no erase regions or confirmations"
  else match Kernel plan with
  | None => Fail kInvalidConfig "Denso SH705x K-Line requires a kernel image"
  | Some k =>
      let! _ := ValidateKernel variant k in
      let! device := FindDevice (McuName plan) in
      if negb (bool_decide (TransferRegion plan = {| reg_start := 0; reg_length := romsize device |})) then
        Fail kInvalidConfig "Denso SH705x K-Line transfer region does not match the MCU"
      else ValidateImage (Operation plan) (Image plan) (romsize device)
  end.
(** [FamilyTraits<SubaruDensoSh705xKlinePlan>]. *)
Definition family_of (variant : Variant) : FamilyPlan :=
  {| fp_value := Some (Sh705xKlinePlan (WireFor variant)); fp_family := kSubaruDensoSh705xKline; fp_transport := kKline;
     RequiresKernel := true |}.
Definition fields_of (op : FlashOperation) (protocol_name mcu_type : string) (img : option (list Z)) (k : KernelImage)
    (variant : Variant) (device : FlashDevice) : FlashPlanFields := {|
  operation := op; target_id := protocol_name; mcu_name := mcu_type;
  transfer_region := {| reg_start := 0; reg_length := romsize device |}; erase_regions := [];
  image := if bool_decide (op = kRead) then None else img; image_map := None; kernel := Some k;
  family_plan := family_of variant; confirmations := []
|}.
Definition Build (op : FlashOperation) (protocol_name mcu_type : string) (img : option (list Z)) (k : KernelImage)
    : result Error FlashPlan :=
  let! variant := FindVariant protocol_name mcu_type in
  let! _ := ValidateOperation variant op in
  let! _ := ValidateKernel variant k in
  let! device := FindDevice mcu_type in
  let! _ := ValidateImage op img (romsize device) in
  let! plan := ValidateAndBuild (fields_of op protocol_name mcu_type img k variant device) in
  let! _ := Validate plan in
  Ok plan.
Definition Protocols : list string := map variant_protocol kVariants.
End DensoSh705xKline.

(** ** The families together *)
(** What one protocol name asks for. *)
Record kernel_row := {
  row_protocol : string; row_mcu : string; row_rom_size : Z; row_load_address : Z;
  (** The longest kernel the row takes. *)
  row_kernel_limit : Z;
  row_family : FlashOperation -> FamilyPlan; row_confirmations : list ConfirmationSpec;
  row_allows : FlashOperation -> bool;
  (** The plan lists the blocks to erase. *)
  row_erases : bool;
  (** A read must not come with an image; the other families drop it. *)
  row_refuses_read_image : bool
}.
Definition every_operation (_ : FlashOperation) : bool := true.
Definition cycle_ignition : list ConfirmationSpec := [{| conf_id := kCycleIgnition; arguments := [] |}].
(** A row of the four CAN families: the kernel, padded to the upload's blocks, ends
    inside the kernel region. *)
Definition can_row (e : CatalogEntry) (limit : Z) (family : FamilyPlan) (confs : list ConfirmationSpec)
    (allows : FlashOperation -> bool) : kernel_row := {|
  row_protocol := entry_protocol e; row_mcu := entry_mcu e; row_rom_size := entry_rom_size e;
  row_load_address := entry_load_address e; row_kernel_limit := limit; row_family := fun _ => family;
  row_confirmations := confs; row_allows := allows; row_erases := true; row_refuses_read_image := true
|}.
Definition sh7058_rows : list kernel_row :=
  map (fun e => can_row {| entry_protocol := fst e; entry_mcu := "SH7058"; entry_rom_size := 0x100000;
                           entry_load_address := 0xFFFF3000 |} 0x9000 (DensoSh7058Can.family_of (snd e)) [] every_operation)
    DensoSh7058Can.kCatalog.
Definition diesel_rows : list kernel_row :=
  map (fun el => can_row (fst el) (snd el) DensoSh7058CanDiesel.family [] every_operation)
    (combine DensoSh7058CanDiesel.kCatalog [0x9000; 0x3000]).
Definition densocan_rows : list kernel_row :=
  map (fun el => can_row (fst el) (snd el) DensoCan.family cycle_ignition every_operation)
    (combine DensoCan.kCatalog [0x6000; 0x9000; 0x9000; 0x9000; 0x3000]).
Definition tcu_rows : list kernel_row :=
  map (fun el => can_row (TcuDensoSh705xCan.tcu_entry (fst el)) (snd el) TcuDensoSh705xCan.family []
                   (fun op => match op with
                              | kRead => true
                              | kTestWrite => false
                              | kWrite => TcuDensoSh705xCan.entry_supports_write (fst el)
                              end))
    (combine TcuDensoSh705xCan.kCatalog [0x3000; 0x9000]).
Definition sh705502_rows : list kernel_row :=
  map (fun p => {| row_protocol := p; row_mcu := "SH7055"; row_rom_size := 0x80000; row_load_address := 0xFFFF6004;
                   row_kernel_limit := 0x5FFC; row_family := DensoSh705502.family_of;
                   row_confirmations := cycle_ignition; row_allows := every_operation; row_erases := false;
                   row_refuses_read_image := false |}) DensoSh705502.kProtocols.
(** The upload's length field leaves the 32-bit address space as the only limit. *)
Definition kline_rows : list kernel_row :=
  map (fun vr => {| row_protocol := DensoSh705xKline.variant_protocol (fst vr);
                    row_mcu := DensoSh705xKline.variant_mcu (fst vr); row_rom_size := snd vr;
                    row_load_address := DensoSh705xKline.kernel_address (fst vr);
                    row_kernel_limit := 0xFFFFFFFF - DensoSh705xKline.kernel_address (fst vr);
                    row_family := fun _ => DensoSh705xKline.family_of (fst vr); row_confirmations := [];
                    row_allows := fun op => negb (DensoSh705xKline.test_write_only (fst vr)) || bool_decide (op = kTestWrite);
                    row_erases := false; row_refuses_read_image := false |})
    (combine DensoSh705xKline.kVariants [0x80000; 0x80000; 0x80000; 0x100000; 0x100000; 0x100000]).
Record kernel_family := {
  family_rows : list kernel_row;
  family_build : FlashOperation -> string -> string -> option (list Z) -> KernelImage -> result Error FlashPlan;
  family_validate : FlashPlan -> Status
}.
Definition kernel_families : list kernel_family :=
  [ Build_kernel_family sh7058_rows DensoSh7058Can.Build DensoSh7058Can.Validate;
    Build_kernel_family diesel_rows DensoSh7058CanDiesel.Build DensoSh7058CanDiesel.Validate;
    Build_kernel_family densocan_rows DensoCan.Build DensoCan.Validate;
    Build_kernel_family tcu_rows TcuDensoSh705xCan.Build TcuDensoSh705xCan.Validate;
    Build_kernel_family sh705502_rows DensoSh705502.Build DensoSh705502.Validate;
    Build_kernel_family kline_rows DensoSh705xKline.Build DensoSh705xKline.Validate ].
Definition block_region (b : FlashBlock) : MemoryRegion := {| reg_start := start b; reg_length := len b |}.
Definition row_blocks (r : kernel_row) : list FlashBlock := from_option fblocks [] (FindFlashDevice (row_mcu r)).
Definition row_plan (r : kernel_row) (op : FlashOperation) (img : option (list Z)) (k : KernelImage) : FlashPlan :=
  plan_of {|
    operation := op; target_id := row_protocol r; mcu_name := row_mcu r;
    transfer_region := {| reg_start := 0; reg_length := row_rom_size r |};
    erase_regions := if bool_decide (op = kRead) || negb (row_erases r) then [] else map block_region (row_blocks r);
    image := if bool_decide (op = kRead) then None else img; image_map := None; kernel := Some k;
    family_plan := row_family r op; confirmations := row_confirmations r
  |}.
Definition row_accepts (r : kernel_row) (op : FlashOperation) (img : option (list Z)) (k : KernelImage) : Prop :=
  row_allows r op = true
  /\ kernel_id k <> ""%string /\ kernel_bytes k <> [] /\ load_address k = row_load_address r
  /\ zlen (kernel_bytes k) <= row_kernel_limit r
  /\ (if decide (op = kRead) then row_refuses_read_image r = true -> img = None
      else exists i, img = Some i /\ zlen i = row_rom_size r).

(** ** Lemmas *)
Lemma FindCatalogEntry_iff {Entry} (protocol_of mcu_of : Entry -> string) catalog name protocol mcu e :
  NoDup (map protocol_of catalog) ->
  FindCatalogEntry protocol_of mcu_of catalog name protocol mcu = Ok e <->
  e ∈ catalog /\ protocol = protocol_of e /\ mcu = mcu_of e.
Proof.
  intros Hnd. unfold FindCatalogEntry. destruct (List.find _ catalog) as [e'|] eqn:Ef.
  - apply find_some in Ef as [Hin E%String.eqb_eq]. apply list_elem_of_In in Hin.
    assert (forall e, e ∈ catalog -> protocol = protocol_of e -> e = e') as Hone.
    { intros e0 H0 E0. apply list_elem_of_lookup in H0 as [i Hi]. apply list_elem_of_lookup in Hin as [j Hj].
      assert (i = j) as <-; [|congruence]. eapply (NoDup_lookup _ i j); [exact Hnd| |].
      all: change (map protocol_of catalog) with (protocol_of <$> catalog); rewrite list_lookup_fmap.
      - by rewrite Hi.
      - rewrite Hj. cbn. congruence. }
    destruct (String.eqb_spec mcu (mcu_of e')) as [->|Hm]; cbn [negb].
    + split; [by intros [= <-]|]. intros (He & Ep & _). by rewrite (Hone e He Ep).
    + split; [done|]. intros (He & Ep & ->). by rewrite (Hone e He Ep) in Hm.
  - split; [done|]. intros (He & -> & _). apply list_elem_of_In in He.
    pose proof (find_none _ _ Ef e He) as Hne. cbn in Hne. by rewrite String.eqb_refl in Hne.
Qed.
Lemma padded_size_fits b n room : 0 < b -> padded_size b n <= room <-> n <= room / b * b.
Proof.
  intros Hb. unfold padded_size. pose proof (Z.mul_div_le room b Hb) as Hr.
  pose proof (Z.mul_succ_div_gt room b Hb) as Hr'. pose proof (Z.mul_div_le (n + (b - 1)) b Hb) as Hn.
  pose proof (Z.mul_succ_div_gt (n + (b - 1)) b Hb) as Hn'.
  revert Hr Hr' Hn Hn'. generalize (room / b) ((n + (b - 1)) / b). intros q' q Hr Hr' Hn Hn'. split; intros H.
  - assert (q <= q'); [|nia]. apply Z.lt_succ_r, (Z.mul_lt_mono_pos_l b); lia.
  - assert (q <= q'); [|nia]. apply Z.lt_succ_r, (Z.mul_lt_mono_pos_l b); lia.
Qed.
Lemma ValidateKernelUpload_iff b n load expected region limit :
  0 < b < 2 ^ 32 -> 0 <= n -> start region <= expected <= start region + len region -> start region + len region < 2 ^ 32 ->
  0 <= expected -> (start region + len region - expected) / b * b = limit ->
  ValidateKernelUpload b n load expected region = Ok tt <-> load = expected /\ n <= limit.
Proof.
  intros Hb Hn Hs He H0 Hl. unfold ValidateKernelUpload. cbv zeta.
  pose proof (padded_size_fits b n (start region + len region - expected) ltac:(lia)) as Hp. rewrite Hl in Hp.
  assert (limit <= 2 ^ 32) by (subst limit; rewrite Z.mul_comm; pose proof (Z.mul_div_le (start region + len region - expected) b); lia).
  destruct (Z.eqb_spec load expected) as [->|]; cbn [negb]; [|split; [done|tauto]].
  destruct (Z.ltb_spec (kU64Max - (b - 1)) n); unfold kU64Max in *; [split; [done|lia]|].
  destruct (Z.ltb_spec expected (start region)); [lia|]. destruct (Z.ltb_spec (start region + len region) expected); [lia|].
  cbn [orb]. destruct (Z.ltb_spec (start region + len region - expected) (padded_size b n)).
  - split; [done|]. intros [_ Hle]. apply Hp in Hle. lia.
  - split; [|done]. intros _. split; [done|]. by apply Hp.
Qed.
(** A row against its device. *)
Record row_ok (r : kernel_row) (d : FlashDevice) : Prop := {
  row_device : FindFlashDevice (row_mcu r) = Some d;
  row_named : row_protocol r <> ""%string /\ row_mcu r <> ""%string;
  row_rom : romsize d = row_rom_size r /\ 0 < row_rom_size r <= 0xFFFFFFFF /\ start (block_at (fblocks d) 0) = 0;
  row_regions : MakeEraseRegions d = map block_region (fblocks d);
  row_regions_fit : Forall region_fits (map block_region (fblocks d));
  row_value op : is_Some (fp_value (row_family r op));
  row_distinct : NoDup (map conf_id (row_confirmations r));
  row_address : row_load_address r + row_kernel_limit r <= 0xFFFFFFFF
}.
Lemma row_plan_builds r d op img k :
  row_ok r d -> row_accepts r op img k -> ValidateAndBuild (fields_ (row_plan r op img k)) = Ok (row_plan r op img k).
Proof.
  intros [Hd [Hp Hm] [Hrs [Hs _]] _ Hrf Hv Hn Ha] (_ & Hid & Hb & Hl & Hlim & Hi).
  refine (ValidateAndBuild_built (fields_ (row_plan r op img k)) _ eq_refl).
  split_and!; cbn [row_plan plan_of fields_ target_id mcu_name transfer_region erase_regions operation image image_map
    kernel family_plan confirmations reg_length reg_start]; try done; unfold region_fits; cbn [reg_length reg_start]; try lia.
  - unfold row_blocks. rewrite Hd. cbn [from_option]. destruct (_ || _); [constructor|done].
  - case_decide as E; [subst op; by rewrite bool_decide_eq_true_2|]. rewrite bool_decide_eq_false_2 by done.
    destruct Hi as (i & -> & _). by eexists.
  - split_and!; [done|done|lia].
Qed.
Definition image_accepted (r : kernel_row) (op : FlashOperation) (img : option (list Z)) : Prop :=
  if decide (op = kRead) then row_refuses_read_image r = true -> img = None
  else exists i, img = Some i /\ zlen i = row_rom_size r.
(** The end every builder has: the generic validation and the family's own. *)
Lemma row_tail r d op img k (validate : FlashPlan -> Status) plan :
  row_ok r d -> row_allows r op = true -> load_address k = row_load_address r ->
  (load_address k + zlen (kernel_bytes k) <= 0xFFFFFFFF -> zlen (kernel_bytes k) <= row_kernel_limit r) ->
  image_accepted r op img -> (row_accepts r op img k -> validate (row_plan r op img k) = Ok tt) ->
  (let! p := ValidateAndBuild (fields_ (row_plan r op img k)) in let! _ := validate p in Ok p) = Ok plan <->
  row_accepts r op img k /\ plan = row_plan r op img k.
Proof.
  intros Hr Hop Hl Hlim Hi Hv. split.
  - intros E. apply result_bind_Ok in E as (p & E & E').
    assert (fields_ok (fields_ (row_plan r op img k))) as (_ & _ & _ & _ & _ & _ & _ & (Hid & Hb & Hend) & _)
      by (apply ValidateAndBuild_iff; by eexists).
    assert (row_accepts r op img k) as Ha by (split_and!; try done; by apply Hlim).
    rewrite (row_plan_builds r d op img k Hr Ha) in E. injection E as <-. rewrite (Hv Ha) in E'. by injection E' as <-.
  - intros [Ha ->]. rewrite (row_plan_builds r d op img k Hr Ha). cbn [result_bind]. by rewrite (Hv Ha).
Qed.
(** The four CAN families: the device's kernel region, and the upload's block size. *)
Record can_row_ok (r : kernel_row) (d : FlashDevice) (b : Z) : Prop := {
  can_row_row : row_ok r d;
  can_row_block : 0 < b < 2 ^ 32;
  can_row_blocks : 0 <= numblocks d;
  can_row_flags : row_erases r = true /\ row_refuses_read_image r = true;
  can_row_start : start (block_at (kblocks d) 0) <= row_load_address r /\ 0 <= row_load_address r;
  can_row_end : row_load_address r <= start (block_at (kblocks d) 0) + len (block_at (kblocks d) 0) < 2 ^ 32;
  can_row_limit : (start (block_at (kblocks d) 0) + len (block_at (kblocks d) 0) - row_load_address r) / b * b
    = row_kernel_limit r
}.
Lemma can_row_upload r d b k :
  can_row_ok r d b ->
  ValidateKernelUpload b (zlen (kernel_bytes k)) (load_address k) (row_load_address r) (block_at (kblocks d) 0) = Ok tt <->
  load_address k = row_load_address r /\ zlen (kernel_bytes k) <= row_kernel_limit r.
Proof. intros []. apply ValidateKernelUpload_iff; try lia. apply zlen_nonneg. Qed.
Lemma block_region_geometry d : 0 <= numblocks d -> EraseGeometryMatches (MakeEraseRegions d) d = true.
Proof.
  intros Hn. unfold EraseGeometryMatches, MakeEraseRegions. rewrite zlen_map, zlen_seqZ.
  replace (Z.max 0 (numblocks d) =? numblocks d) with true by lia. cbn [andb]. apply forallb_forall. intros i Hi.
  apply list_elem_of_In, elem_of_seqZ in Hi. unfold zlookup. rewrite decide_True by lia.
  change (map ?f ?l) with (f <$> l). rewrite list_lookup_fmap, lookup_seqZ_lt by lia. cbn.
  by rewrite Z2Nat.id, !Z.eqb_refl by lia.
Qed.
Lemma can_row_validates r d b op img k :
  can_row_ok r d b -> row_accepts r op img k ->
  ValidateWholeRomKernelPlan b (row_plan r op img k) (row_load_address r) d = Ok tt.
Proof.
  intros Hc Ha. pose proof Hc as [[Hd _ (Hrs & _ & Hb0) Hreg _ _ _ _] _ Hnb [Her _] _ _ _].
  pose proof Ha as (_ & _ & _ & Hl & Hlim & Hi). unfold ValidateWholeRomKernelPlan. cbn [Kernel kernel fields_ row_plan plan_of].
  rewrite (proj2 (can_row_upload r d b k Hc)) by done. cbn [result_bind].
  unfold ValidateRegions, TransferMatchesDevice, OperationImageShapeMatches, TransferRegion, EraseRegions, Operation, Image.
  cbn [transfer_region erase_regions operation image fields_ row_plan plan_of reg_start reg_length].
  rewrite Hb0, Hrs, !Z.eqb_refl. cbn [andb negb]. unfold row_blocks. rewrite Hd, Her. cbn [from_option negb orb].
  rewrite orb_false_r.
  case_decide as E.
  - rewrite !bool_decide_eq_true_2 by done. subst op. done.
  - rewrite !(bool_decide_eq_false_2 (op = kRead)) by done. rewrite <- Hreg, block_region_geometry by done.
    cbn [negb result_bind]. destruct Hi as (i & -> & ->). rewrite Z.eqb_refl. by destruct op.
Qed.
Lemma can_row_builds r d b op img k validate plan :
  can_row_ok r d b -> row_allows r op = true ->
  (row_accepts r op img k -> validate (row_plan r op img k) = Ok tt) ->
  BuildWholeRomKernelPlan b op (row_protocol r) (row_mcu r) (row_family r op) (row_confirmations r) img k
    (row_load_address r) d validate = Ok plan <->
  row_accepts r op img k /\ plan = row_plan r op img k.
Proof.
  intros Hc Hop Hv. pose proof Hc as [Hr _ _ [Her Hri] _ _ _]. pose proof Hr as [Hd _ (Hrs & _ & Hb0) Hreg _ _ _ _].
  assert (whole_rom_fields op (row_protocol r) (row_mcu r) (row_family r op) (row_confirmations r) img k d
    = fields_ (row_plan r op img k)) as Hf.
  { unfold whole_rom_fields, row_plan, plan_of, row_blocks. cbn [fields_].
    rewrite Hb0, Hrs, Hd, Her, Hreg. cbn [negb from_option]. by rewrite orb_false_r. }
  unfold BuildWholeRomKernelPlan. cbv zeta. rewrite Hf. pose proof (can_row_upload r d b k Hc) as Hu.
  destruct (ValidateKernelUpload _ _ _ _ _) as [[]|e]; cbn [result_bind].
  2:{ split; [done|]. intros [(_ & _ & _ & ? & ? & _) _]. by assert (Err e = Ok tt) by (by apply Hu). }
  destruct (proj1 Hu eq_refl) as [Hl Hlim]. rewrite Hrs.
  pose proof (row_tail r d op img k validate plan Hr Hop Hl (fun _ => Hlim)) as Ht. unfold image_accepted in Ht.
  assert (row_accepts r op img k -> image_accepted r op img) as Hai by (by intros (_ & _ & _ & _ & _ & ?)).
  unfold image_accepted in Hai. destruct (decide (op = kRead)) as [->|Ho].
  - rewrite !bool_decide_eq_true_2 by done. destruct img as [i|]; cbn [is_Some andb negb].
    + rewrite bool_decide_eq_true_2 by done. split; [done|]. intros [Ha _]. by specialize (Hai Ha Hri).
    + rewrite bool_decide_eq_false_2 by (by intros []). cbn [andb negb]. by apply Ht.
  - rewrite !(bool_decide_eq_false_2 (op = kRead)) by done. cbn [andb negb]. destruct img as [i|].
    + destruct (Z.eqb_spec (zlen i) (row_rom_size r)) as [Ei|Ei]; cbn [negb].
      * apply Ht; [by eexists|done].
      * split; [done|]. intros [Ha _]. by destruct (Hai Ha) as (i' & [= <-] & ?).
    + split; [done|]. intros [Ha _]. by destruct (Hai Ha) as (i' & [=] & ?).
Qed.
(** What makes a family's builder and validation the ones its rows describe. *)
Record family_ok (f : kernel_family) : Prop := {
  family_known op p m img k plan :
    family_build f op p m img k = Ok plan -> exists r, r ∈ family_rows f /\ p = row_protocol r /\ m = row_mcu r;
  family_rows_build r op img k plan :
    r ∈ family_rows f ->
    family_build f op (row_protocol r) (row_mcu r) img k = Ok plan <-> row_accepts r op img k /\ plan = row_plan r op img k;
  family_rows_valid r op img k :
    r ∈ family_rows f -> row_accepts r op img k -> family_validate f (row_plan r op img k) = Ok tt;
  family_valid_known plan :
    family_validate f plan = Ok tt -> exists r, r ∈ family_rows f /\ TargetId plan = row_protocol r
}.
Lemma family_builds f op p m img k plan :
  family_ok f ->
  family_build f op p m img k = Ok plan <->
  exists r, r ∈ family_rows f /\ p = row_protocol r /\ m = row_mcu r /\ row_accepts r op img k /\ plan = row_plan r op img k.
Proof.
  intros Hf. split.
  - intros E. destruct (family_known f Hf _ _ _ _ _ _ E) as (r & Hr & -> & ->).
    apply (family_rows_build f Hf r op img k plan Hr) in E. by exists r.
  - intros (r & Hr & -> & -> & Ha). by apply (family_rows_build f Hf r op img k plan Hr).
Qed.
(** The rows of a CAN family: what the catalog lookup finds, and the device. *)
Definition can_rows_ok {Entry} (find : string -> string -> result Error Entry) (b : Z) (rows : list kernel_row)
    (entry_of : Entry -> kernel_row -> Prop) : Prop :=
  Forall (fun r => exists e d, find (row_protocol r) (row_mcu r) = Ok e /\ entry_of e r
    /\ CheckedDevice (row_mcu r) (row_rom_size r) = Some d /\ can_row_ok r d b) rows.
Ltac can_row_tac :=
  eexists _, _; split; [reflexivity|]; split; [first [reflexivity|by split_and!]|]; split; [reflexivity|]; constructor;
  [ constructor; [reflexivity|by split|by vm_compute|reflexivity|by repeat constructor|by eexists
                 |by repeat constructor; set_solver|by vm_compute]
  | done | done | done | done | done | reflexivity ].
Lemma sh7058_rows_ok :
  can_rows_ok DensoSh7058Can.GetCatalogEntry 128 sh7058_rows
    (fun e r => r = can_row {| entry_protocol := fst e; entry_mcu := "SH7058"; entry_rom_size := 0x100000;
                               entry_load_address := 0xFFFF3000 |} 0x9000 (DensoSh7058Can.family_of (snd e)) [] every_operation).
Proof. unfold can_rows_ok. repeat (constructor; [can_row_tac|]). constructor. Qed.
(** The row of a catalog entry. *)
Definition row_of (family : FamilyPlan) (confs : list ConfirmationSpec) (e : CatalogEntry) (r : kernel_row) : Prop :=
  row_mcu r = entry_mcu e /\ row_rom_size r = entry_rom_size e /\ row_load_address r = entry_load_address e
  /\ (forall op, row_family r op = family) /\ row_confirmations r = confs.
Lemma diesel_rows_ok :
  can_rows_ok DensoSh7058CanDiesel.FindEntry 128 diesel_rows
    (fun e r => row_of DensoSh7058CanDiesel.family [] e r /\ forall op, row_allows r op = true).
Proof. unfold can_rows_ok. repeat (constructor; [can_row_tac|]). constructor. Qed.
Lemma densocan_rows_ok :
  can_rows_ok DensoCan.FindEntry 6 densocan_rows
    (fun e r => row_of DensoCan.family cycle_ignition e r /\ forall op, row_allows r op = true).
Proof. unfold can_rows_ok. repeat (constructor; [can_row_tac|]). constructor. Qed.
Lemma tcu_rows_ok :
  can_rows_ok TcuDensoSh705xCan.FindEntry 128 tcu_rows
    (fun e r => row_of TcuDensoSh705xCan.family [] (TcuDensoSh705xCan.tcu_entry e) r
      /\ forall op, TcuDensoSh705xCan.ValidateCapability op e = Ok tt <-> row_allows r op = true).
Proof.
  unfold can_rows_ok.
  constructor; [|constructor; [|constructor]]; (eexists _, _; split; [reflexivity|]; split; [split; [by split_and!|]|]);
    [by intros []| |by intros []|]; (split; [reflexivity|]; constructor;
  [ constructor; [reflexivity|by split|by vm_compute|reflexivity|by repeat constructor|by eexists|by constructor|by vm_compute]
  | done | done | done | done | done | reflexivity ]).
Qed.
(** The rows name every entry of the catalog. *)
Definition covers {Entry} (protocol_of mcu_of : Entry -> string) (catalog : list Entry) (rows : list kernel_row) : bool :=
  forallb (fun e => existsb (fun r => String.eqb (protocol_of e) (row_protocol r) && String.eqb (mcu_of e) (row_mcu r)) rows)
    catalog.
Lemma FindCatalogEntry_covered {Entry} (protocol_of mcu_of : Entry -> string) catalog name rows p m e :
  covers protocol_of mcu_of catalog rows = true ->
  FindCatalogEntry protocol_of mcu_of catalog name p m = Ok e -> exists r, r ∈ rows /\ p = row_protocol r /\ m = row_mcu r.
Proof.
  unfold covers, FindCatalogEntry. rewrite forallb_forall. intros Hc.
  destruct (List.find _ catalog) as [e'|] eqn:Ef; [|done]. apply find_some in Ef as [Hin <-%String.eqb_eq].
  destruct (String.eqb_spec m (mcu_of e')) as [->|]; cbn [negb]; [|done]. intros _.
  specialize (Hc e' Hin). apply existsb_exists in Hc as (r & Hr & [E1%String.eqb_eq E2%String.eqb_eq]%andb_prop).
  exists r. by rewrite list_elem_of_In.
Qed.
Lemma GetCatalogEntry_covered p m e :
  DensoSh7058Can.GetCatalogEntry p m = Ok e -> exists r, r ∈ sh7058_rows /\ p = row_protocol r /\ m = row_mcu r.
Proof.
  intros E.
  refine (FindCatalogEntry_covered fst (fun _ => DensoSh7058Can.kMcu) DensoSh7058Can.kCatalog "" sh7058_rows p m e eq_refl _).
  revert E. unfold DensoSh7058Can.GetCatalogEntry, FindCatalogEntry. destruct (List.find _ _); [|done].
  by destruct (String.eqb m DensoSh7058Can.kMcu).
Qed.
Lemma sh7058_family_ok : family_ok (Build_kernel_family sh7058_rows DensoSh7058Can.Build DensoSh7058Can.Validate).
Proof.
  pose proof sh7058_rows_ok as Hrows. unfold can_rows_ok in Hrows. rewrite list.Forall_forall in Hrows.
  assert (forall r op img k, r ∈ sh7058_rows -> row_accepts r op img k -> DensoSh7058Can.Validate (row_plan r op img k) = Ok tt) as Hval.
  { intros r op img k Hr Ha. destruct (Hrows r Hr) as (e & d & E & -> & Hd & Hc). unfold DensoSh7058Can.Validate.
    change (DensoSh7058Can.GetCatalogEntry (TargetId _) (McuName _)) with (DensoSh7058Can.GetCatalogEntry (fst e) "SH7058").
    change (DensoSh7058Can.GetCatalogEntry (fst e) "SH7058" = Ok e) in E. rewrite E. cbn [result_bind].
    cbn [DensoSh7058Can.As family_plan fields_ row_plan plan_of row_family can_row fp_value DensoSh7058Can.family_of].
    unfold DensoSh7058Can.WireParametersMatch. cbn [sh7058_security sh7058_can]. rewrite bool_decide_eq_true_2 by done.
    cbn [can_wire_ok can_wire can_request_id can_response_id can_bitrate can_extended_id Z.eqb Pos.eqb negb andb].
    change (CheckedDevice DensoSh7058Can.kMcu DensoSh7058Can.kRomSize = Some d) in Hd. rewrite Hd.
    exact (can_row_validates _ d 128 op img k Hc Ha). }
  constructor; cbn [family_rows family_build family_validate].
  - intros op p m img k plan Hb. apply result_bind_Ok in Hb as (e & E & _). by apply GetCatalogEntry_covered in E.
  - intros r op img k plan Hr. specialize (Hval r op img k Hr). destruct (Hrows r Hr) as (e & d & E & -> & Hd & Hc).
    unfold DensoSh7058Can.Build. rewrite E. cbn [result_bind].
    change (CheckedDevice DensoSh7058Can.kMcu DensoSh7058Can.kRomSize = Some d) in Hd. rewrite Hd.
    by apply can_row_builds.
  - exact Hval.
  - intros plan Hv. apply result_bind_Ok in Hv as (e & E & _). apply GetCatalogEntry_covered in E as (r & ? & ? & _). by exists r.
Qed.
Lemma diesel_validates r op img k :
  r ∈ diesel_rows -> row_accepts r op img k -> DensoSh7058CanDiesel.Validate (row_plan r op img k) = Ok tt.
Proof.
  intros Hr Ha.
  destruct (proj1 (list.Forall_forall _ _) diesel_rows_ok r Hr) as (e & d & E & ((Hm & Hrs & Hl & Hf & Hco) & Hal) & Hd & Hc).
  unfold DensoSh7058CanDiesel.Validate. change (family_plan (fields_ (row_plan r op img k))) with (row_family r op).
  change (Confirmations (row_plan r op img k)) with (row_confirmations r).
  change (DensoSh7058CanDiesel.FindEntry (TargetId _) (McuName _)) with (DensoSh7058CanDiesel.FindEntry (row_protocol r) (row_mcu r)).
  rewrite E. cbn [result_bind].
  rewrite Hf. change (negb (match DensoSh7058CanDiesel.As DensoSh7058CanDiesel.family with Some w => can_wire_ok w 0x7E0 0x7E8 | None => false end))
    with false. cbv iota.
  rewrite <- Hm, <- Hrs, Hd, Hco, <- Hl. rewrite bool_decide_eq_true_2 by done.
  exact (can_row_validates r d 128 op img k Hc Ha).
Qed.
Lemma diesel_family_ok :
  family_ok (Build_kernel_family diesel_rows DensoSh7058CanDiesel.Build DensoSh7058CanDiesel.Validate).
Proof.
  assert (forall p m e, DensoSh7058CanDiesel.FindEntry p m = Ok e ->
    exists r, r ∈ diesel_rows /\ p = row_protocol r /\ m = row_mcu r) as Hcov
    by (intros p m e; by apply FindCatalogEntry_covered).
  constructor; cbn [family_rows family_build family_validate].
  - intros op p m img k plan Hb. apply result_bind_Ok in Hb as (e & E & _). by apply Hcov in E.
  - intros r op img k plan Hr. pose proof (diesel_validates r op img k Hr) as Hv.
    destruct (proj1 (list.Forall_forall _ _) diesel_rows_ok r Hr) as (e & d & E & ((Hm & Hrs & Hl & Hf & Hco) & Hal) & Hd & Hc).
    unfold DensoSh7058CanDiesel.Build. rewrite E. cbn [result_bind].
    rewrite <- Hm, <- Hrs, Hd, <- Hl.
    pose proof (can_row_builds r d 128 op img k DensoSh7058CanDiesel.Validate plan Hc (Hal op) Hv) as Hb.
    by rewrite Hf, Hco in Hb.
  - apply diesel_validates.
  - intros plan Hv. apply result_bind_Ok in Hv as (e & E & _).
    apply Hcov in E as (r & ? & ? & _). by exists r.
Qed.
Lemma densocan_validates r op img k :
  r ∈ densocan_rows -> row_accepts r op img k -> DensoCan.Validate (row_plan r op img k) = Ok tt.
Proof.
  intros Hr Ha.
  destruct (proj1 (list.Forall_forall _ _) densocan_rows_ok r Hr) as (e & d & E & ((Hm & Hrs & Hl & Hf & Hco) & Hal) & Hd & Hc).
  unfold DensoCan.Validate. change (family_plan (fields_ (row_plan r op img k))) with (row_family r op).
  change (Confirmations (row_plan r op img k)) with (row_confirmations r).
  rewrite Hf. change (negb (match DensoCan.As DensoCan.family with Some w => DensoCan.WireParametersMatch w | None => false end))
    with false. cbv iota.
  change (DensoCan.FindEntry (TargetId _) (McuName _)) with (DensoCan.FindEntry (row_protocol r) (row_mcu r)).
  rewrite E. cbn [result_bind].
  rewrite <- Hm, <- Hrs, Hd, Hco, <- Hl. change (negb (RequiresOnly cycle_ignition kCycleIgnition)) with false. cbv iota.
  exact (can_row_validates r d 6 op img k Hc Ha).
Qed.
Lemma densocan_family_ok :
  family_ok (Build_kernel_family densocan_rows DensoCan.Build DensoCan.Validate).
Proof.
  assert (forall p m e, DensoCan.FindEntry p m = Ok e ->
    exists r, r ∈ densocan_rows /\ p = row_protocol r /\ m = row_mcu r) as Hcov
    by (intros p m e; by apply FindCatalogEntry_covered).
  constructor; cbn [family_rows family_build family_validate].
  - intros op p m img k plan Hb. apply result_bind_Ok in Hb as (e & E & _). by apply Hcov in E.
  - intros r op img k plan Hr. pose proof (densocan_validates r op img k Hr) as Hv.
    destruct (proj1 (list.Forall_forall _ _) densocan_rows_ok r Hr) as (e & d & E & ((Hm & Hrs & Hl & Hf & Hco) & Hal) & Hd & Hc).
    unfold DensoCan.Build. rewrite E. cbn [result_bind].
    rewrite <- Hm, <- Hrs, Hd, <- Hl.
    pose proof (can_row_builds r d 6 op img k DensoCan.Validate plan Hc (Hal op) Hv) as Hb.
    by rewrite Hf, Hco in Hb.
  - apply densocan_validates.
  - intros plan Hv. unfold DensoCan.Validate in Hv. destruct (negb _) in Hv; [done|].
    apply result_bind_Ok in Hv as (e & E & _).
    apply Hcov in E as (r & ? & ? & _). by exists r.
Qed.
Lemma tcu_validates r op img k :
  r ∈ tcu_rows -> row_accepts r op img k -> TcuDensoSh705xCan.Validate (row_plan r op img k) = Ok tt.
Proof.
  intros Hr Ha.
  destruct (proj1 (list.Forall_forall _ _) tcu_rows_ok r Hr) as (e & d & E & ((Hm & Hrs & Hl & Hf & Hco) & Hal) & Hd & Hc).
  unfold TcuDensoSh705xCan.Validate. change (family_plan (fields_ (row_plan r op img k))) with (row_family r op).
  change (Confirmations (row_plan r op img k)) with (row_confirmations r).
  rewrite Hf. change (negb (match TcuDensoSh705xCan.As TcuDensoSh705xCan.family with Some w => can_wire_ok w 0x7E1 0x7E9 | None => false end))
    with false. cbv iota.
  change (TcuDensoSh705xCan.FindEntry (TargetId _) (McuName _)) with (TcuDensoSh705xCan.FindEntry (row_protocol r) (row_mcu r)).
  rewrite E. cbn [result_bind].
  change (Operation (row_plan r op img k)) with op. rewrite (proj2 (Hal op)) by apply Ha. cbn [result_bind].
  rewrite <- Hm, <- Hrs, Hd, Hco, <- Hl. rewrite bool_decide_eq_true_2 by done.
  exact (can_row_validates r d 128 op img k Hc Ha).
Qed.
Lemma tcu_family_ok :
  family_ok (Build_kernel_family tcu_rows TcuDensoSh705xCan.Build TcuDensoSh705xCan.Validate).
Proof.
  assert (forall p m e, TcuDensoSh705xCan.FindEntry p m = Ok e ->
    exists r, r ∈ tcu_rows /\ p = row_protocol r /\ m = row_mcu r) as Hcov
    by (intros p m e; by apply FindCatalogEntry_covered).
  constructor; cbn [family_rows family_build family_validate].
  - intros op p m img k plan Hb. apply result_bind_Ok in Hb as (e & E & _). by apply Hcov in E.
  - intros r op img k plan Hr. pose proof (tcu_validates r op img k Hr) as Hv.
    destruct (proj1 (list.Forall_forall _ _) tcu_rows_ok r Hr) as (e & d & E & ((Hm & Hrs & Hl & Hf & Hco) & Hal) & Hd & Hc).
    unfold TcuDensoSh705xCan.Build. rewrite E. cbn [result_bind].
    destruct (TcuDensoSh705xCan.ValidateCapability op e) as [[]|err] eqn:Ecap; cbn [result_bind].
    2:{ split; [done|]. intros [Ha _]. destruct Ha as [Hop _]. apply Hal in Hop. congruence. }
    apply Hal in Ecap.
    rewrite <- Hm, <- Hrs, Hd, <- Hl.
    pose proof (can_row_builds r d 128 op img k TcuDensoSh705xCan.Validate plan Hc Ecap Hv) as Hb.
    by rewrite Hf, Hco in Hb.
  - apply tcu_validates.
  - intros plan Hv. unfold TcuDensoSh705xCan.Validate in Hv. destruct (negb _) in Hv; [done|].
    apply result_bind_Ok in Hv as (e & E & _).
    apply Hcov in E as (r & ? & ? & _). by exists r.
Qed.
Lemma round_up_4 n : Z.land n (Z.lnot 3) = n / 4 * 4.
Proof.
  change 3 with (Z.ones 2). rewrite <- Z.ldiff_land, Z.ldiff_ones_r, Z.shiftl_mul_pow2, Z.shiftr_div_pow2 by lia. done.
Qed.
Lemma sh705502_upload k :
  DensoSh705502.ValidateKernelUpload k = Ok tt <-> load_address k = 0xFFFF6004 /\ zlen (kernel_bytes k) <= 0x5FFC.
Proof.
  unfold DensoSh705502.ValidateKernelUpload, DensoSh705502.kMaxWireLength, DensoSh705502.kCanonicalKernelAddress,
    DensoSh705502.kModelWireRegionLength. cbv zeta. rewrite round_up_4.
  destruct (Z.ltb_spec 0xFFFFFF (zlen (kernel_bytes k))); [split; [done|lia]|].
  destruct (Z.ltb_spec 0xFFFFFF ((zlen (kernel_bytes k) + 3) / 4 * 4 + 4)); [split; [done|Z.to_euclidean_division_equations; lia]|].
  destruct (Z.eqb_spec (load_address k) 0xFFFF6004); cbn [negb orb]; [|split; [done|tauto]].
  destruct (Z.ltb_spec 0x6000 ((zlen (kernel_bytes k) + 3) / 4 * 4 + 4)); split; try done; Z.to_euclidean_division_equations; lia.
Qed.
Lemma kline_kernel v k :
  0xFFFF0000 <= DensoSh705xKline.kernel_address v ->
  DensoSh705xKline.ValidateKernel v k = Ok tt /\ load_address k + zlen (kernel_bytes k) <= 0xFFFFFFFF <->
  load_address k = DensoSh705xKline.kernel_address v /\ kernel_bytes k <> []
  /\ zlen (kernel_bytes k) <= 0xFFFFFFFF - DensoSh705xKline.kernel_address v.
Proof.
  intros Hk. unfold DensoSh705xKline.ValidateKernel, DensoSh705xKline.kMaxWireLength. cbv zeta. rewrite round_up_4.
  destruct (Z.eqb_spec (zlen (kernel_bytes k)) 0) as [E|E].
  { split; [by intros []|]. intros (_ & Hne & _). destruct (kernel_bytes k); [done|]. rewrite zlen_cons in E.
    pose proof (zlen_nonneg l). lia. }
  assert (kernel_bytes k <> []) as Hne by (intros E0; by rewrite E0 in E).
  destruct (Z.ltb_spec 0xFFFFFF ((zlen (kernel_bytes k) + 2 + 3) / 4 * 4)).
  { split; [by intros []|Z.to_euclidean_division_equations; lia]. }
  destruct (Z.eqb_spec (load_address k) (DensoSh705xKline.kernel_address v)); cbn [negb]; [|split; [by intros []|tauto]].
  split; [intros []|intros (? & ? & ?)]; split_and!; try done; lia.
Qed.
Lemma kline_kernel_address v k :
  DensoSh705xKline.ValidateKernel v k = Ok tt -> load_address k = DensoSh705xKline.kernel_address v.
Proof.
  unfold DensoSh705xKline.ValidateKernel. cbv zeta. destruct (zlen _ =? 0); [done|]. destruct (_ <? _); [done|].
  by destruct (Z.eqb_spec (load_address k) (DensoSh705xKline.kernel_address v)).
Qed.
Lemma sh705502_rows_ok : Forall (fun r => exists d, FindFlashDevice "SH7055" = Some d /\ row_ok r d) sh705502_rows.
Proof.
  repeat (constructor; [eexists; split; [reflexivity|]; constructor;
    [reflexivity|by split|by vm_compute|reflexivity|by repeat constructor|by eexists|by repeat constructor; set_solver|by vm_compute]|]).
  constructor.
Qed.
Lemma sh705502_row r :
  r ∈ sh705502_rows ->
  DensoSh705502.ValidateIdentity (row_protocol r) (row_mcu r) = Ok tt /\ row_mcu r = "SH7055"%string
  /\ row_rom_size r = 0x80000 /\ row_load_address r = 0xFFFF6004 /\ row_kernel_limit r = 0x5FFC
  /\ row_family r = DensoSh705502.family_of /\ row_confirmations r = cycle_ignition /\ row_erases r = false
  /\ row_refuses_read_image r = false /\ forall op, row_allows r op = true.
Proof. intros Hr. apply list_elem_of_In in Hr as [<-|[<-|[]]]; by split_and!. Qed.
Lemma sh705502_identity p m :
  DensoSh705502.ValidateIdentity p m = Ok tt -> exists r, r ∈ sh705502_rows /\ p = row_protocol r /\ m = row_mcu r.
Proof.
  unfold DensoSh705502.ValidateIdentity. destruct (existsb (String.eqb p) _) eqn:Ex; cbn [negb]; [|done].
  destruct (String.eqb_spec m "SH7055") as [->|]; cbn [negb]; [|done]. intros _.
  apply existsb_exists in Ex as (q & Hq & ->%String.eqb_eq).
  assert (exists r, row_protocol r = q /\ r ∈ sh705502_rows) as (r & <- & Hr).
  { unfold sh705502_rows. eexists. split; [|apply list_elem_of_In, in_map, Hq]. done. }
  exists r. split_and!; try done. symmetry. by apply sh705502_row.
Qed.
(** The test both K-Line builders make of the image. *)
Lemma kline_image_accepted r op img :
  row_refuses_read_image r = false ->
  negb (bool_decide (op = kRead)) && negb (match img with Some i => zlen i =? row_rom_size r | None => false end) = false <->
  image_accepted r op img.
Proof.
  intros Hri. unfold image_accepted. destruct (decide (op = kRead)) as [->|Ho].
  - rewrite bool_decide_eq_true_2 by done. cbn [negb andb]. split; [|done]. congruence.
  - rewrite bool_decide_eq_false_2 by done. cbn [negb andb]. rewrite negb_false_iff. destruct img as [i|].
    + rewrite Z.eqb_eq. naive_solver.
    + naive_solver.
Qed.
Lemma sh705502_validates r op img k :
  r ∈ sh705502_rows -> row_accepts r op img k -> DensoSh705502.Validate (row_plan r op img k) = Ok tt.
Proof.
  intros Hr Ha. destruct (proj1 (list.Forall_forall _ _) sh705502_rows_ok r Hr) as (d & Hd & Hok).
  destruct (sh705502_row r Hr) as (Hi & Hm & Hs & Hl & Hlim & Hf & Hc & He & Hri & _).
  pose proof Ha as (_ & _ & _ & Hka & Hkl & Himg). rewrite Hl in Hka. rewrite Hlim in Hkl.
  unfold DensoSh705502.Validate. change (TargetId (row_plan r op img k)) with (row_protocol r).
  change (McuName (row_plan r op img k)) with (row_mcu r). rewrite Hi. cbn [result_bind].
  change (family_plan (fields_ (row_plan r op img k))) with (row_family r op). rewrite Hf.
  rewrite bool_decide_eq_true_2 by done. cbn [negb].
  unfold EraseRegions. cbn [erase_regions fields_ row_plan plan_of]. rewrite He, orb_true_r, bool_decide_eq_true_2 by done.
  cbn [negb Kernel kernel fields_ row_plan plan_of Confirmations confirmations].
  rewrite (proj2 (sh705502_upload k)) by done. cbn [result_bind]. rewrite Hc, Hm, Hd.
  change (negb (RequiresOnly cycle_ignition kCycleIgnition)) with false. cbv iota.
  destruct Hok as [_ _ (Hrs & _ & Hb0) _ _ _ _ _].
  unfold TransferMatchesDevice, TransferRegion. cbn [transfer_region fields_ row_plan plan_of reg_start reg_length].
  rewrite Hb0, Hrs, !Z.eqb_refl. cbn [andb negb]. unfold DensoSh705502.ValidateImage, OperationImageShapeMatches.
  change (Operation (row_plan r op img k)) with op. unfold Image. cbn [image fields_ row_plan plan_of].
  destruct op; [done| |]; destruct Himg as (i & -> & Ei); rewrite bool_decide_eq_false_2 by done; by rewrite Ei, Z.eqb_refl.
Qed.
Lemma sh705502_family_ok : family_ok (Build_kernel_family sh705502_rows DensoSh705502.Build DensoSh705502.Validate).
Proof.
  constructor; cbn [family_rows family_build family_validate].
  - intros op p m img k plan Hb. apply result_bind_Ok in Hb as ([] & E & _). by apply sh705502_identity.
  - intros r op img k plan Hr. pose proof (sh705502_validates r op img k Hr) as Hv.
    destruct (proj1 (list.Forall_forall _ _) sh705502_rows_ok r Hr) as (d & Hd & Hok).
    destruct (sh705502_row r Hr) as (Hi & Hm & Hs & Hl & Hlim & Hf & Hc & He & Hri & Hal).
    pose proof Hok as [_ _ (Hrs & _ & Hb0) _ _ _ _ _].
    assert (DensoSh705502.fields_of op (row_protocol r) (row_mcu r) img k d = fields_ (row_plan r op img k)) as Hfs.
    { unfold DensoSh705502.fields_of, row_plan, plan_of. cbn [fields_]. by rewrite Hb0, Hrs, He, Hf, Hc, orb_true_r. }
    unfold DensoSh705502.Build. rewrite Hi. cbn [result_bind].
    replace (FindFlashDevice (row_mcu r)) with (Some d) by (by rewrite Hm). rewrite Hfs, Hrs.
    pose proof (kline_image_accepted r op img Hri) as Himg. pose proof (sh705502_upload k) as Hup.
    assert (row_accepts r op img k -> image_accepted r op img /\ load_address k = 0xFFFF6004 /\ zlen (kernel_bytes k) <= 0x5FFC) as Hacc
      by (intros (_ & _ & _ & Ha1 & Ha2 & Ha3); rewrite Hl in Ha1; rewrite Hlim in Ha2; by split_and!).
    destruct (negb (bool_decide (op = kRead)) && _).
    { split; [done|]. intros [Ha _]. by destruct (proj2 Himg (proj1 (Hacc Ha))). }
    destruct (DensoSh705502.ValidateKernelUpload k) as [[]|e]; cbn [result_bind].
    2:{ split; [done|]. intros [Ha _]. by assert (Err e = Ok tt) by apply Hup, Hacc, Ha. }
    destruct (proj1 Hup eq_refl) as [Hu1 Hu2].
    apply (row_tail r d op img k DensoSh705502.Validate plan Hok (Hal op)); [by rewrite Hl|by rewrite Hlim|by apply Himg|done].
  - apply sh705502_validates.
  - intros plan Hv. apply result_bind_Ok in Hv as ([] & E & _). apply sh705502_identity in E as (r & ? & ? & _). by exists r.
Qed.
Lemma kline_rows_ok :
  Forall (fun r => exists d v, DensoSh705xKline.FindDevice (row_mcu r) = Ok d /\ row_ok r d
    /\ DensoSh705xKline.FindVariant (row_protocol r) (row_mcu r) = Ok v
    /\ (forall op, DensoSh705xKline.ValidateOperation v op = Ok tt <-> row_allows r op = true)
    /\ row_load_address r = DensoSh705xKline.kernel_address v /\ 0xFFFF0000 <= DensoSh705xKline.kernel_address v
    /\ row_kernel_limit r = 0xFFFFFFFF - DensoSh705xKline.kernel_address v
    /\ row_family r = (fun _ => DensoSh705xKline.family_of v) /\ row_confirmations r = []
    /\ row_erases r = false /\ row_refuses_read_image r = false) kline_rows.
Proof.
  repeat (constructor; [eexists _, _; split; [reflexivity|]; split;
    [constructor; [reflexivity|by split|by vm_compute|reflexivity|by repeat constructor|by eexists|by repeat constructor|by vm_compute]
    |split; [reflexivity|]; split_and!; try done; by intros []]|]).
  constructor.
Qed.
Lemma kline_image r op img :
  row_refuses_read_image r = false ->
  DensoSh705xKline.ValidateImage op img (row_rom_size r) = Ok tt <-> image_accepted r op img.
Proof.
  intros Hri. rewrite <- (kline_image_accepted r op img Hri). unfold DensoSh705xKline.ValidateImage.
  destruct (bool_decide (op = kRead)); cbn [negb andb]; [done|]. by destruct (negb _).
Qed.
Lemma kline_validates r op img k :
  r ∈ kline_rows -> row_accepts r op img k -> DensoSh705xKline.Validate (row_plan r op img k) = Ok tt.
Proof.
  intros Hr Ha. destruct (proj1 (list.Forall_forall _ _) kline_rows_ok r Hr)
    as (d & v & Hd & Hok & Hv & Hal & Hl & Hge & Hlim & Hf & Hc & He & Hri).
  pose proof Ha as (Hop & _ & Hne & Hka & Hkl & Himg). rewrite Hl in Hka. rewrite Hlim in Hkl.
  unfold DensoSh705xKline.Validate. change (TargetId (row_plan r op img k)) with (row_protocol r).
  change (McuName (row_plan r op img k)) with (row_mcu r). change (Operation (row_plan r op img k)) with op.
  rewrite Hv. cbn [result_bind]. rewrite (proj2 (Hal op) Hop). cbn [result_bind].
  change (family_plan (fields_ (row_plan r op img k))) with (row_family r op). rewrite Hf.
  rewrite bool_decide_eq_true_2 by done. cbn [negb].
  unfold EraseRegions. cbn [erase_regions fields_ row_plan plan_of]. rewrite He, orb_true_r, bool_decide_eq_true_2 by done.
  cbn [negb orb Kernel kernel fields_ row_plan plan_of Confirmations confirmations].
  rewrite Hc, bool_decide_eq_true_2 by done. cbn [negb].
  rewrite (proj1 (proj2 (kline_kernel v k Hge) (conj Hka (conj Hne Hkl)))). cbn [result_bind]. rewrite Hd. cbn [result_bind].
  pose proof Hok as [_ _ (Hrs & _ & Hb0) _ _ _ _ _]. rewrite Hrs, bool_decide_eq_true_2 by done. cbn [negb].
  apply (kline_image r op _ Hri). unfold Image. cbn [image fields_ row_plan plan_of].
  destruct op; [done|exact Himg..].
Qed.
Lemma kline_family_ok : family_ok (Build_kernel_family kline_rows DensoSh705xKline.Build DensoSh705xKline.Validate).
Proof.
  assert (forall p m v, DensoSh705xKline.FindVariant p m = Ok v ->
    exists r, r ∈ kline_rows /\ p = row_protocol r /\ m = row_mcu r) as Hcov
    by (intros p m v; by apply FindCatalogEntry_covered).
  constructor; cbn [family_rows family_build family_validate].
  - intros op p m img k plan Hb. apply result_bind_Ok in Hb as (v & E & _). by apply Hcov in E.
  - intros r op img k plan Hr. pose proof (kline_validates r op img k Hr) as Hval.
    destruct (proj1 (list.Forall_forall _ _) kline_rows_ok r Hr)
      as (d & v & Hd & Hok & Hv & Hal & Hl & Hge & Hlim & Hf & Hc & He & Hri).
    pose proof Hok as [_ _ (Hrs & _ & Hb0) _ _ _ _ _].
    assert (DensoSh705xKline.fields_of op (row_protocol r) (row_mcu r) img k v d = fields_ (row_plan r op img k)) as Hfs.
    { unfold DensoSh705xKline.fields_of, row_plan, plan_of. cbn [fields_]. by rewrite Hrs, He, Hf, Hc, orb_true_r. }
    pose proof (kline_kernel v k Hge) as Hk. pose proof (kline_image r op img Hri) as Himg.
    assert (row_accepts r op img k -> row_allows r op = true /\ image_accepted r op img
      /\ DensoSh705xKline.ValidateKernel v k = Ok tt) as Hacc.
    { intros (H1 & _ & H3 & H4 & H5 & H6). rewrite Hl in H4. rewrite Hlim in H5. split_and!; [done|done|by apply Hk]. }
    unfold DensoSh705xKline.Build. rewrite Hv. cbn [result_bind]. specialize (Hal op).
    destruct (DensoSh705xKline.ValidateOperation v op) as [[]|e1]; cbn [result_bind].
    2:{ split; [done|]. intros [Ha _]. by assert (Err e1 = Ok tt) by apply Hal, Hacc, Ha. }
    pose proof (kline_kernel_address v k) as Hka.
    destruct (DensoSh705xKline.ValidateKernel v k) as [[]|e2]; cbn [result_bind].
    2:{ split; [done|]. intros [Ha _]. by destruct (Hacc Ha) as (_ & _ & [=]). }
    rewrite Hd. cbn [result_bind]. rewrite Hrs, Hfs.
    destruct (DensoSh705xKline.ValidateImage op img _) as [[]|e3]; cbn [result_bind].
    2:{ split; [done|]. intros [Ha _]. by assert (Err e3 = Ok tt) by apply Himg, Hacc, Ha. }
    specialize (Hka eq_refl).
    apply (row_tail r d op img k DensoSh705xKline.Validate plan Hok); [by apply Hal|congruence|lia|by apply Himg|done].
  - apply kline_validates.
  - intros plan Hv. apply result_bind_Ok in Hv as (v & E & _). apply Hcov in E as (r & ? & ? & _). by exists r.
Qed.
Lemma kernel_families_ok : Forall family_ok kernel_families.
Proof.
  constructor; [apply sh7058_family_ok|]. constructor; [apply diesel_family_ok|]. constructor; [apply densocan_family_ok|].
  constructor; [apply tcu_family_ok|]. constructor; [apply sh705502_family_ok|]. constructor; [apply kline_family_ok|]. constructor.
Qed.
Lemma kernel_family_ok i f : kernel_families !! i = Some f -> family_ok f.
Proof. intros Hi. apply (Forall_lookup_1 _ _ _ _ kernel_families_ok Hi). Qed.
(** Every protocol name belongs to one row of one family. *)
Definition kernel_family_of (p : string) : option nat :=
  fst <$> list_find (fun f => p ∈ map row_protocol (family_rows f)) kernel_families.
Lemma kernel_family_of_row i f r :
  kernel_families !! i = Some f -> r ∈ family_rows f -> kernel_family_of (row_protocol r) = Some i.
Proof.
  assert (forallb (fun jf : nat * kernel_family =>
            forallb (fun p => bool_decide (kernel_family_of p = Some (fst jf))) (map row_protocol (family_rows (snd jf))))
            (imap pair kernel_families) = true) as Hall by (by vm_compute).
  rewrite forallb_forall in Hall. intros Hi Hr. specialize (Hall (i, f)). cbn [fst snd] in Hall.
  rewrite forallb_forall in Hall. eapply bool_decide_eq_true_1, Hall; [|by apply in_map, list_elem_of_In].
  apply list_elem_of_In, (list_elem_of_lookup_2 _ i). by rewrite list_lookup_imap, Hi.
Qed.
(** The blocks of a row's device tile its ROM. *)
Definition row_on_device (i : nat) (r : kernel_row) : bool :=
  match FindFlashDevice (row_mcu r) with
  | Some d => (romsize d =? row_rom_size r) && tiles 0 (fblocks d) (romsize d) && Bool.eqb (row_erases r) (i <? 4)%nat
  | None => false
  end.
Lemma rows_on_device i f r : kernel_families !! i = Some f -> r ∈ family_rows f -> row_on_device i r = true.
Proof.
  assert (forallb (fun jf : nat * kernel_family => forallb (row_on_device (fst jf)) (family_rows (snd jf)))
            (imap pair kernel_families) = true) as Hall by (by vm_compute).
  rewrite forallb_forall in Hall. intros Hi Hr. specialize (Hall (i, f)). cbn [fst snd] in Hall.
  rewrite forallb_forall in Hall. apply Hall; [|by apply list_elem_of_In].
  apply list_elem_of_In, (list_elem_of_lookup_2 _ i). by rewrite list_lookup_imap, Hi.
Qed.

(** ** Claims *)
(** the six families that load a kernel and take the whole ROM build exactly the plans
    their tables list: for a protocol name with its microcontroller, an operation the
    row allows (some rows only test-write, the TCU rows never do, one only reads),
    a kernel with an id at the row's load address and no longer than the row's limit
    (the kernel region less the load address, in whole upload blocks, for the CAN
    families; 0x5FFC bytes, its padded envelope inside the model's region, for the
    SH7055 revision 02; the rest of the address space for the SH705x K-Line), and,
    unless it reads, an image of exactly the size of the ROM. The plan transfers the
    whole ROM and carries that kernel and image with the row's wire parameters and
    confirmations. *)
Theorem kernel_families_build i f op protocol mcu img k plan :
  kernel_families !! i = Some f ->
  family_build f op protocol mcu img k = Ok plan <->
  exists r, r ∈ family_rows f /\ protocol = row_protocol r /\ mcu = row_mcu r
    /\ row_accepts r op img k /\ plan = row_plan r op img k.
Proof. intros Hi. apply family_builds, (kernel_family_ok i f Hi). Qed.
Lemma kernel_families_build_witness :
  exists f, kernel_families !! 3%nat = Some f
    /\ is_ok (family_build f kWrite "sub_tcu_denso_sh7058_can" "SH7058" (Some (zrepeat 0x100000 0))
                {| kernel_id := "k"; load_address := 0xFFFF3000; kernel_bytes := [1; 2; 3] |}) = true.
Proof.
  eexists. split; [reflexivity|].
  erewrite (proj2 (kernel_families_build 3%nat _ kWrite "sub_tcu_denso_sh7058_can" "SH7058" (Some (zrepeat 0x100000 0))
    {| kernel_id := "k"; load_address := 0xFFFF3000; kernel_bytes := [1; 2; 3] |} _ eq_refl)).
  - reflexivity.
  - eexists. split; [apply list_elem_of_In; right; left; reflexivity|]. split; [reflexivity|]. split; [reflexivity|].
    split; [|reflexivity]. split; [reflexivity|]. split; [discriminate|]. split; [discriminate|]. split; [reflexivity|].
    split; [by vm_compute|]. eexists. split; [reflexivity|]. by rewrite zlen_zrepeat.
Defined.

(** a plan of one of these families belongs to it alone and is as safe as it can be
    checked to be: the family's own validation, which the executor repeats, accepts it
    and no other kernel-loading family's does; it transfers the whole of a ROM which
    the device's blocks tile without gap or overlap; a read erases nothing, and the
    regions a CAN write erases are those blocks, all of them in order. *)
Theorem kernel_family_plans_safe i f op protocol mcu img k plan :
  kernel_families !! i = Some f -> family_build f op protocol mcu img k = Ok plan ->
  family_validate f plan = Ok tt
  /\ (forall j f', kernel_families !! j = Some f' -> family_validate f' plan = Ok tt -> j = i)
  /\ exists d, FindFlashDevice mcu = Some d
       /\ TransferRegion plan = {| reg_start := 0; reg_length := romsize d |}
       /\ tiles 0 (fblocks d) (romsize d) = true
       /\ EraseRegions plan = (if bool_decide (op = kRead) || (4 <=? i)%nat then [] else map block_region (fblocks d)).
Proof.
  intros Hi Hb. pose proof (kernel_family_ok i f Hi) as Hf.
  apply (family_builds f _ _ _ _ _ _ Hf) in Hb as (r & Hr & -> & -> & Ha & ->). split; [|split].
  - by apply (family_rows_valid f Hf).
  - intros j f' Hj Hv. destruct (family_valid_known f' (kernel_family_ok j f' Hj) _ Hv) as (r' & Hr' & E).
    change (row_protocol r = row_protocol r') in E. pose proof (kernel_family_of_row i f r Hi Hr) as E1.
    rewrite E, (kernel_family_of_row j f' r' Hj Hr') in E1. by injection E1.
  - pose proof (rows_on_device i f r Hi Hr) as Hd. unfold row_on_device in Hd.
    destruct (FindFlashDevice (row_mcu r)) as [d|] eqn:Ed; [|done].
    apply andb_prop in Hd as [[Hrs%Z.eqb_eq Ht]%andb_prop He%Bool.eqb_prop]. exists d. split_and!; [done|by rewrite Hrs|done|].
    unfold EraseRegions. cbn [erase_regions fields_ row_plan plan_of]. unfold row_blocks. rewrite Ed, He. cbn [from_option].
    by rewrite Nat.leb_antisym.
Qed.
Lemma kernel_family_plans_safe_witness :
  exists f plan, kernel_families !! 4%nat = Some f
    /\ family_build f kRead "sub_ecu_denso_sh7055_02" "SH7055" None
         {| kernel_id := "k"; load_address := 0xFFFF6004; kernel_bytes := [1; 2; 3] |} = Ok plan
    /\ family_validate f plan = Ok tt.
Proof.
  eexists _, _. split; [reflexivity|]. split; [reflexivity|].
  exact (proj1 (kernel_family_plans_safe 4%nat _ kRead "sub_ecu_denso_sh7055_02" "SH7055" None
    {| kernel_id := "k"; load_address := 0xFFFF6004; kernel_bytes := [1; 2; 3] |} _ eq_refl eq_refl)).
Defined.
