(* ===== verification/Colt.v ===== *)
(** * Colt: [src/algorithms/protocol/colt], [src/algorithms/protocol/biu]

    The frame builders of the Mitsubishi Colt reflash protocol, the challenge of a
    vendor's diagnostic extension, and the CDBG logging protocol: its seed-to-key
    function, the packing of channels into streamed frames and their decoding. The
    builder of the Subaru body-unit frames is here too. *)
From S2P Require Import Prelude Bytes Uds.

Module MitsuColtCan.
(** ** [mitsu_colt_can_protocol.{h,cpp}] *)
Definition kServiceDiagnosticSession : Z := 0x10.
Definition kServiceSecurityAccess : Z := 0x27.
Definition kServiceReadMemoryByAddress : Z := 0x23.
Definition kServiceRequestDownload : Z := 0x34.
Definition kServiceTransferData : Z := 0x36.
Definition kServiceRoutineControl : Z := 0x31.
Definition kServiceRequestReflash : Z := 0x3B.
Definition kSessionBasic : Z := 0x81.
Definition kSessionBootload : Z := 0x85.
Definition kCrcTransferAddress : Z := 0x200000.
Definition kCrcTransferSize : Z := 2.
Definition kRoutineCheckCrc : Z := 225.
Definition kRoutineErase : Z := 224.
Definition kUserspaceStart : Z := 0x008000.
Definition kUserspaceEnd : Z := 0x060000.
Definition kProtectedPrefixLength : Z := kUserspaceStart.
Definition kFullRomSize : Z := 0x080000.
Definition kWritableLength : Z := kFullRomSize - kProtectedPrefixLength.
Definition kFlashReadBlockSize : Z := 192.
Definition kTransferChunkSize : Z := 256.
Definition kTopRegionStart : Z := 0x060000.
Definition kTopRegionEnd : Z := kFullRomSize.
Definition kTopRegionLength : Z := kTopRegionEnd - kTopRegionStart.
Definition kEraseRoutineRamAddr : Z := 0x805568.
Definition kWriteRoutineRamAddr : Z := 0x8054AC.
Definition kEraseRoutineSize : Z := 160.
Definition kWriteRoutineSize : Z := 176.
Definition kErasePageRoutine : list Z :=
  [148; 240; 32; 32; 36; 32; 240; 0; 228; 0; 208; 208; 36; 32; 100; 50; 68; 255;
   240; 0; 176; 148; 255; 255; 216; 192; 1; 110; 136; 232; 54; 0; 225; 128; 86; 84;
   30; 193; 240; 0; 225; 128; 7; 225; 33; 145; 240; 0; 129; 193; 0; 1; 176; 145;
   0; 24; 72; 255; 240; 0; 176; 152; 255; 249; 226; 255; 255; 255; 226; 255; 255; 255;
   226; 255; 255; 255; 226; 255; 255; 255; 226; 255; 255; 239; 112; 0; 112; 0; 112; 0;
   112; 0; 112; 0; 112; 0; 112; 0; 112; 0; 112; 0; 112; 0; 112; 0; 112; 0;
   112; 0; 112; 0; 112; 0; 112; 0; 112; 0; 112; 0; 112; 0; 112; 0; 112; 0;
   112; 0; 112; 0; 112; 0; 112; 0; 112; 0; 112; 0; 112; 0; 112; 0; 112; 0;
   112; 0; 112; 0; 96; 1; 240; 0; 176; 152; 0; 2; 96; 0; 240; 0].
Definition kWritePageRoutine : list Z :=
  [148; 240; 65; 65; 36; 32; 240; 0; 133; 160; 1; 0; 36; 177; 36; 32; 64; 2;
   65; 2; 176; 21; 255; 254; 229; 255; 255; 255; 229; 255; 255; 255; 229; 255; 255; 255;
   229; 255; 255; 255; 229; 255; 255; 255; 229; 255; 255; 255; 229; 255; 0; 52; 229; 255;
   255; 255; 112; 0; 112; 0; 112; 0; 112; 0; 112; 0; 112; 0; 112; 0; 112; 0;
   112; 0; 112; 0; 112; 0; 112; 0; 112; 0; 112; 0; 112; 0; 112; 0; 112; 0;
   112; 0; 112; 0; 112; 0; 112; 0; 112; 0; 112; 0; 112; 0; 112; 0; 112; 0;
   112; 0; 112; 0; 112; 0; 112; 0; 112; 0; 112; 0; 112; 0; 112; 0; 216; 192;
   1; 110; 136; 232; 54; 0; 225; 128; 86; 84; 30; 193; 240; 0; 225; 128; 7; 225;
   33; 145; 240; 0; 129; 193; 0; 1; 176; 145; 0; 3; 72; 255; 240; 0; 176; 152;
   255; 249; 96; 1; 240; 0; 176; 152; 0; 2; 96; 0; 240; 0].
Definition kEraseRedirectRoutine : list Z :=
  [211; 192; 0; 2; 131; 227; 128; 0; 0; 83; 125; 21; 210; 192; 0; 5; 130; 226;
   128; 0; 0; 162; 240; 0; 148; 240; 32; 32; 36; 32; 240; 0; 228; 0; 208; 208;
   36; 32; 100; 50; 68; 255; 240; 0; 176; 148; 255; 255; 216; 192; 1; 110; 136; 232;
   54; 0; 225; 128; 86; 84; 30; 193; 240; 0; 225; 128; 7; 225; 33; 145; 240; 0;
   129; 193; 0; 1; 176; 145; 0; 18; 72; 255; 240; 0; 176; 152; 255; 249; 127; 15;
   240; 0; 104; 1; 127; 14; 226; 255; 255; 255; 226; 255; 255; 255; 226; 255; 255; 255;
   226; 255; 255; 255; 226; 255; 255; 255; 226; 255; 255; 255; 226; 255; 255; 255; 226; 0;
   0; 136; 112; 0; 112; 0; 112; 0; 112; 0; 112; 0; 112; 0; 112; 0; 112; 0;
   112; 0; 240; 0; 96; 1; 240; 0; 176; 152; 0; 2; 96; 0; 240; 0].
Definition kWriteRedirectRoutine : list Z :=
  [210; 192; 0; 5; 130; 226; 128; 0; 0; 162; 240; 0; 148; 240; 65; 65; 36; 32;
   240; 0; 133; 160; 1; 0; 36; 177; 36; 32; 64; 2; 65; 2; 176; 21; 255; 254;
   229; 255; 255; 255; 229; 255; 255; 255; 229; 255; 255; 255; 229; 255; 255; 255; 229; 255;
   255; 255; 229; 255; 255; 255; 229; 255; 0; 52; 229; 255; 255; 255; 112; 0; 112; 0;
   112; 0; 112; 0; 112; 0; 112; 0; 112; 0; 112; 0; 112; 0; 112; 0; 112; 0;
   112; 0; 112; 0; 112; 0; 112; 0; 112; 0; 112; 0; 112; 0; 112; 0; 112; 0;
   112; 0; 112; 0; 112; 0; 112; 0; 112; 0; 112; 0; 112; 0; 112; 0; 216; 192;
   1; 110; 136; 232; 54; 0; 225; 128; 86; 84; 30; 193; 240; 0; 225; 128; 7; 225;
   33; 145; 240; 0; 129; 193; 0; 1; 176; 145; 0; 3; 72; 255; 240; 0; 176; 152;
   255; 249; 96; 1; 240; 0; 176; 152; 0; 2; 96; 0; 240; 0].
Definition SeedKeyWord (seed_word : Z) : Z := u16 (u32 (u32 (seed_word * 135) + 1542)).
Definition SeedKey (seed : list Z) : list Z :=
  let pk1 := ReadU16Be seed 0 in
  let pk2 := ReadU16Be seed 2 in
  ComposeBe [FU16 (SeedKeyWord pk1); FU16 (SeedKeyWord pk2)].
Definition Checksum (data : list Z) : Z := fold_left (fun sum byte => u16 (sum + byte)) data 0.
Definition IsDestructiveRequest (pdu : list Z) : bool :=
  match pdu with
  | [] => false
  | _ =>
      if (zget pdu 0 =? kServiceRequestReflash) || (zget pdu 0 =? kServiceRequestDownload)
         || (zget pdu 0 =? kServiceTransferData)
      then true
      else (2 <=? zlen pdu) && (zget pdu 0 =? kServiceRoutineControl) && (zget pdu 1 =? kRoutineErase)
  end.
Definition BuildRequestDownload (start size : Z) : list Z :=
  ComposeBe [FByte kServiceRequestDownload; FU24 start; FByte 0; FU24 size].
(** The loop of [BuildTransferDataFrames]; every pass consumes a byte. *)
Fixpoint transfer_frames (fuel : nat) (payload : list Z) (offset : Z) : list (list Z) :=
  match fuel with
  | O => []
  | S fuel =>
      if offset <? zlen payload then
        let chunk_size := Z.min kTransferChunkSize (zlen payload - offset) in
        BuildRequest_data kServiceTransferData (subspan payload offset chunk_size)
          :: transfer_frames fuel payload (offset + kTransferChunkSize)
      else []
  end.
Definition BuildTransferDataFrames (payload : list Z) : list (list Z) := transfer_frames (length payload) payload 0.
Definition BuildRoutineCheckCrc (target_start : Z) : list Z :=
  ComposeBe [FByte kServiceRoutineControl; FByte kRoutineCheckCrc; FByte (if target_start <? 0x800000 then 2 else 1)].
Definition BuildRoutineErase : list Z := BuildRequest_sub kServiceRoutineControl kRoutineErase.
Definition kData : list Z := [154; 1; 1; 82; 99; 117; 115; 48; 48; 0; 1].
Definition BuildRequestReflashUnlock : list Z := ComposeBe [FByte kServiceRequestReflash; FBytes kData].
Definition BuildReadMemoryByAddress (addr len : Z) : list Z :=
  ComposeBe [FByte kServiceReadMemoryByAddress; FU24 addr; FByte len].
Definition BuildDiagnosticSession (session_id : Z) : list Z := BuildRequest_sub kServiceDiagnosticSession session_id.
Definition BuildSecurityAccessSeedRequest : list Z := BuildRequest_sub kServiceSecurityAccess 5.
Definition BuildSecurityAccessKey (key : list Z) : list Z :=
  ComposeBe [FByte kServiceSecurityAccess; FByte 6; FBytes (ztake 4 key)].
End MitsuColtCan.

Module VendorExt.
(** ** [mitsu_colt_can_vendor_ext_protocol.{h,cpp}] *)
Definition kServiceReadMemoryByAddress : Z := 0x23.
Definition kVendorChallengeSelector : Z := 0x27.
Definition kVendorChallengeSeedSubfunction : Z := 0x41.
Definition kVendorChallengeKeySubfunction : Z := 0x42.
Definition kVendorChallengeAccepted : Z := 0x34.
Definition PermuteBits (x : Z) : Z :=
  Z.lor (Z.lor (Z.lor (u32 (Z.shiftl (Z.land x 0x15555555) 3)) (Z.shiftr (Z.land x 0xaaaaaaa8) 3))
               (Z.shiftr (Z.land x 0x40000000) 29))
        (u32 (Z.shiftl (Z.land x 0x00000002) 29)).
Definition SwapNibbles (x : Z) : Z :=
  Z.lor (u32 (Z.shiftl (Z.land x 0x0f0f0f0f) 4)) (Z.shiftr (Z.land x 0xf0f0f0f0) 4).
Definition kRoundConstants : list Z := [0x45637554; 0x656b2052; 0x4f4d2050; 0x61746368].
Definition challenge_round (x c : Z) : Z := SwapNibbles (u32 (PermuteBits x + c)).
Definition inverse_round (x c : Z) : Z := PermuteBits (u32 (SwapNibbles x - c)).
Definition ChallengeTransform (secret : Z) : Z := fold_left challenge_round kRoundConstants secret.
Definition ChallengeInverseTransform (seed : Z) : Z := fold_left inverse_round (rev kRoundConstants) seed.
Definition BytesToSeed (seed_bytes : list Z) : Z := ReadU32Be seed_bytes 0.
Definition KeyBytes (key : Z) : list Z := ComposeBe [FU32 key].
Definition BuildChallengeSeedRequest : list Z :=
  ComposeBe [FByte kServiceReadMemoryByAddress; FByte kVendorChallengeSelector; FByte kVendorChallengeSeedSubfunction].
Definition BuildChallengeKey (key : Z) : list Z :=
  ComposeBe [FByte kServiceReadMemoryByAddress; FByte kVendorChallengeSelector; FByte kVendorChallengeKeySubfunction;
             FU32 key].
End VendorExt.

Module Cdbg.
(** ** [mitsu_colt_can_cdbg_protocol.{h,cpp}] *)
Definition kRequestCanId : Z := 0x630.
Definition kReplyCanId : Z := 0x631.
Definition kCmdInit : Z := 1.
Definition kCmdSecuritySeed : Z := 18.
Definition kCmdSecurityKey : Z := 19.
Definition kCmdLogReset : Z := 20.
Definition kCmdLogSelectItem : Z := 21.
Definition kCmdLogSetPointer : Z := 22.
Definition kCmdLogStart : Z := 6.
Definition kSecurityLogAccess : Z := 2.
Definition kMaxFrameBytes : Z := 7.
Definition kMaxFrames : Z := 8.
Record CdbgChannel := { pointer : Z; size : Z }.
Definition BuildInitFrame : list Z := [kCmdInit; 1; 0; 0; 0; 0; 0; 0].
Definition BuildSecuritySeedRequestFrame : list Z := [kCmdSecuritySeed; 0; kSecurityLogAccess; 0; 0; 0; 0; 0].
Definition rotl8 (x n : Z) : Z := u8 (Z.lor (Z.shiftl x n) (Z.shiftr x (8 - n))).
(** One byte of the seed: an increment chosen by its low two bits, then a rotation. *)
Definition mix_byte (x : Z) : Z :=
  let low := Z.land x 3 in
  let x := if low =? 0 then u8 (x + 145) else if low =? 1 then u8 (x + 24)
           else if low =? 2 then u8 (x + 211) else u8 (x + 2) in
  rotl8 x 3.
Definition permute (data : list Z) : list Z :=
  let d := zget data in
  let parity := Z.land (d 0) 1 + Z.land (d 1) 1 + Z.land (d 2) 1 + Z.land (d 3) 1 in
  if parity =? 0 then [d 1; d 3; d 2; d 0]
  else if parity =? 1 then [d 3; d 2; d 0; d 1]
  else if parity =? 2 then [d 1; d 2; d 3; d 0]
  else if parity =? 3 then [d 1; d 0; d 2; d 3]
  else [d 2; d 0; d 1; d 3].
Definition SeedToKey (seed : Z) : Z :=
  let data := map mix_byte (ComposeBe [FU32 seed]) in
  let n := zget (permute data) in
  let word0 := u16 ((Z.shiftl (n 0) 8 + n 1) * 3 + n 3 * 8) in
  let word1 := u16 ((Z.shiftl (n 2) 8 + n 3) * 5 + n 1 * 8) in
  Z.lor (Z.lor (Z.lor (Z.shiftl (Z.shiftr word0 8) 24) (Z.shiftl (Z.land word0 0xFF) 16))
               (Z.shiftl (Z.shiftr word1 8) 8))
        (Z.land word1 0xFF).
Definition ExtractSeed (reply : list Z) : Z := if zlen reply <? 8 then 0 else ReadU32Be reply 4.
Definition BuildSecurityKeyFrame (key : Z) : list Z :=
  ComposeBe [FByte kCmdSecurityKey; FByte 0; FU32 key; FByte 0; FByte 0].
Definition SecurityGranted (reply : list Z) : bool := if zlen reply <? 4 then false else negb (zget reply 3 =? 0).
Definition BuildLogResetFrame (instance : Z) : list Z := [kCmdLogReset; 0; instance; 0; 0; 0; 0x06; 0x31].
Definition BuildLogStartFrame (instance frame_count interval_ms : Z) : list Z :=
  let '(unit_flag, encoded) :=
    if 65535 <? interval_ms then (1, u16 (interval_ms / 10)) else (0, u16 interval_ms) in
  ComposeBe [FByte kCmdLogStart; FByte 0; FByte 1; FByte instance; FByte frame_count; FByte unit_flag; FU16 encoded].
(** The loop of [BatchChannelsIntoFrames]: the frames done, the current one and the byte index. *)
Fixpoint batch (channels : list CdbgChannel) (frames : list (list CdbgChannel)) (current : list CdbgChannel)
    (byte_index : Z) : list (list CdbgChannel) :=
  match channels with
  | [] => match current with [] => frames | _ => frames ++ [current] end
  | ch :: channels =>
      if 8 <? byte_index + size ch then batch channels (frames ++ [current]) [ch] (1 + size ch)
      else batch channels frames (current ++ [ch]) (byte_index + size ch)
  end.
(** [None] for [false], which leaves the caller's frames untouched. *)
Definition BatchChannelsIntoFrames (channels : list CdbgChannel) : option (list (list CdbgChannel)) :=
  match channels with
  | [] => None
  | _ =>
      let frames := batch channels [] [] 1 in
      if kMaxFrames <? zlen frames then None else Some frames
  end.
Fixpoint init_frames (instance frame_index i : Z) (frame_items : list CdbgChannel) : list (list Z) :=
  match frame_items with
  | [] => []
  | ch :: frame_items =>
      [kCmdLogSelectItem; 0; instance; frame_index; u8 i; 0; 0; 0]
        :: ComposeBe [FByte kCmdLogSetPointer; FByte 0; FByte (size ch); FByte 0; FU32 (pointer ch)]
        :: init_frames instance frame_index (i + 1) frame_items
  end.
Definition BuildFrameInitFrames (instance frame_index : Z) (frame_items : list CdbgChannel) : list (list Z) :=
  init_frames instance frame_index 0 frame_items.
Fixpoint decode_items (frame_items : list CdbgChannel) (frame : list Z) (offset : Z) : list Z :=
  match frame_items with
  | [] => []
  | ch :: frame_items => ReadUBe frame offset (size ch) :: decode_items frame_items frame (offset + size ch)
  end.
Definition needed (frame_items : list CdbgChannel) : Z := fold_left (fun sum ch => sum + size ch) frame_items 1.
Definition DecodeFrame (expected_frame_index : Z) (frame_items : list CdbgChannel) (frame : list Z) : list Z :=
  match frame with
  | [] => []
  | _ =>
      if negb (zget frame 0 =? expected_frame_index) then []
      else if zlen frame <? needed frame_items then []
      else decode_items frame_items frame 1
  end.
End Cdbg.

Module Biu.
(** ** [subaru_biu_frame.cpp] *)
Definition kFormatBase : Z := 0x80.
Definition kTarget : Z := 0x40.
Definition kSource : Z := 0xF0.
Definition kTesterPresent : Z := 0x3E.
Definition BuildRequest (payload : list Z) : list Z :=
  ComposeBeWithChecksum Sum8Field
    [FByte (u8 (Z.lor kFormatBase (zlen payload))); FByte kTarget; FByte kSource; FBytes payload].
Definition KeepAliveRequest : list Z := BuildRequest [kTesterPresent].
End Biu.

(** ** Packing channels into frames *)
Section batching.
Import Cdbg.
Definition channel_ok (c : CdbgChannel) : Prop := size c = 1 \/ size c = 2 \/ size c = 4.
Definition total (l : list CdbgChannel) : Z := zsum (map size l).
Lemma total_app l1 l2 : total (l1 ++ l2) = total l1 + total l2.
Proof. unfold total. by rewrite map_app, zsum_app. Qed.
Lemma total_cons c l : total (c :: l) = size c + total l.
Proof. done. Qed.
(** A division of the channels into frames that keeps their order and the frames' limit. *)
Definition division (channels : list CdbgChannel) (frames : list (list CdbgChannel)) : Prop :=
  List.concat frames = channels /\ Forall (fun f => total f <= kMaxFrameBytes) frames.
Lemma batch_division channels frames current bi :
  Forall channel_ok channels -> Forall (fun f => f <> [] /\ total f <= kMaxFrameBytes) frames ->
  bi = 1 + total current -> total current <= kMaxFrameBytes -> (current = [] -> frames = []) ->
  List.concat (batch channels frames current bi) = List.concat frames ++ current ++ channels
  /\ Forall (fun f => f <> [] /\ total f <= kMaxFrameBytes) (batch channels frames current bi).
Proof.
  intros Hc. revert frames current bi. induction Hc as [|c cs Hc _ IH]; intros frames current bi Hf -> Ht Hcur.
  { cbn [batch]. destruct current as [|x current]; [by rewrite !app_nil_r|]. rewrite List.concat_app. cbn [List.concat].
    rewrite !app_nil_r. split; [done|]. apply Forall_app_2; [done|]. by repeat constructor. }
  cbn [batch]. unfold kMaxFrameBytes in *. assert (1 <= size c <= 4) as Hs by (destruct Hc as [-> |[-> | ->]]; lia).
  destruct (Z.ltb_spec 8 (1 + total current + size c)).
  - destruct (IH (frames ++ [current]) [c] (1 + size c)) as [E F].
    + apply Forall_app_2; [done|]. repeat constructor; [|lia]. intros ->. change (total []) with 0 in *. lia.
    + unfold total. cbn. lia.
    + unfold total. cbn. lia.
    + done.
    + split; [|exact F]. rewrite E, List.concat_app. cbn [List.concat]. by rewrite app_nil_r, <- !app_assoc.
  - destruct (IH frames (current ++ [c]) (1 + total current + size c)) as [E F].
    + done.
    + rewrite total_app. unfold total. cbn. lia.
    + rewrite total_app. unfold total at 2. cbn. lia.
    + by destruct current.
    + split; [|exact F]. by rewrite E, <- app_assoc.
Qed.
Lemma batch_of channels frames :
  Forall channel_ok channels -> BatchChannelsIntoFrames channels = Some frames ->
  List.concat frames = channels /\ zlen frames <= kMaxFrames.
Proof.
  intros Hc. unfold BatchChannelsIntoFrames. destruct channels as [|c cs]; [done|]. cbv zeta.
  destruct (Z.ltb_spec kMaxFrames (zlen (batch (c :: cs) [] [] 1))); [done|]. intros [= <-]. split; [|done].
  by destruct (batch_division (c :: cs) [] [] 1 Hc) as [E _]; [constructor|done|unfold kMaxFrameBytes; cbn|done|].
Qed.
(** The frames the loop starts, after [used] bytes of the current one. *)
Fixpoint started (used : Z) (channels : list CdbgChannel) : nat :=
  match channels with
  | [] => 0
  | c :: cs => if 7 <? used + size c then S (started (size c) cs) else started (used + size c) cs
  end.
Lemma batch_length channels frames current u :
  current <> [] -> length (batch channels frames current (1 + u)) = (length frames + 1 + started u channels)%nat.
Proof.
  revert frames current u. induction channels as [|c cs IH]; intros frames current u Hc; cbn [batch started].
  - destruct current; [done|]. rewrite length_app. cbn. lia.
  - replace (8 <? 1 + u + size c) with (7 <? u + size c) by (destruct (Z.ltb_spec 7 (u + size c)), (Z.ltb_spec 8 (1 + u + size c)); lia || done).
    destruct (7 <? u + size c).
    + rewrite IH by done. rewrite length_app. cbn. lia.
    + rewrite <- Z.add_assoc, IH by (by destruct current). done.
Qed.
(** A fuller current frame never needs fewer frames, and a fresh one saves at most one. *)
Lemma started_bounds channels u v :
  Forall channel_ok channels -> 0 <= u -> 0 <= v ->
  (u <= v -> (started u channels <= started v channels)%nat) /\ (started u channels <= S (started v channels))%nat.
Proof.
  intros Hc. revert u v. induction Hc as [|c cs Hc _ IH]; intros u v Hu Hv; [cbn; lia|]. cbn [started].
  assert (1 <= size c <= 4) as Hs by (destruct Hc as [-> |[-> | ->]]; lia).
  pose proof (IH (size c) (size c)). pose proof (IH (u + size c) (v + size c)). pose proof (IH (u + size c) (size c)).
  pose proof (IH (size c) (v + size c)).
  destruct (Z.ltb_spec 7 (u + size c)), (Z.ltb_spec 7 (v + size c)); lia.
Qed.
(** No division uses fewer frames than the loop. *)
Lemma started_least channels u v f0 frames :
  Forall channel_ok channels -> 0 <= u <= v -> total f0 + v <= kMaxFrameBytes ->
  channels = f0 ++ List.concat frames -> Forall (fun f => total f <= kMaxFrameBytes) frames ->
  (started u channels <= length frames)%nat.
Proof.
  unfold kMaxFrameBytes. intros Hc. revert u v f0 frames. induction Hc as [|c cs Hc Hcs IH]; intros u v f0 frames Hu Ht E Hf; [cbn; lia|].
  assert (1 <= size c <= 4) as Hs by (destruct Hc as [-> |[-> | ->]]; lia). cbn [started].
  destruct f0 as [|c' f0].
  - cbn [app] in E. revert Hf E. induction frames as [|g frames IHf]; intros Hf E; [done|]. inversion_clear Hf as [|? ? Hg Hfs].
    destruct g as [|c' g]; [cbn [List.concat app length] in *; specialize (IHf Hfs E); lia|].
    cbn [List.concat] in E. injection E as <- E. rewrite total_cons in Hg.
    pose proof (IH (size c) (size c) g frames ltac:(lia) ltac:(lia) E Hfs) as Hn.
    pose proof (proj2 (started_bounds cs (u + size c) (size c) Hcs ltac:(lia) ltac:(lia))) as Hb. cbn [length].
    destruct (7 <? u + size c); lia.
  - injection E as <- E. rewrite total_cons in Ht.
    assert (0 <= total f0).
    { clear -Hcs E. subst cs. apply Forall_app in Hcs as [Hf _]. induction Hf as [|x l [Hx|[Hx|Hx]] _ IHl]; [done|..];
        rewrite total_cons; lia. }
    rewrite (proj2 (Z.ltb_ge _ _)) by lia. apply (IH (u + size c) (v + size c) f0 frames); [lia|lia|done|done].
Qed.
End batching.

(** ** Streamed frames *)
Section streaming.
Import Cdbg.
Definition value_fits (c : CdbgChannel) (v : Z) : Prop := 0 <= v < 2 ^ (8 * size c).
Definition values_bytes (items : list CdbgChannel) (values : list Z) : list Z :=
  List.concat (zip_with (fun c v => EmitIntegerBe (Z.to_nat (size c)) v) items values).
(** The frame a unit streams: the index, the values and any padding. *)
Definition unit_frame (index : Z) (items : list CdbgChannel) (values pad : list Z) : list Z :=
  index :: values_bytes items values ++ pad.
Lemma needed_total items : needed items = 1 + total items.
Proof.
  unfold needed. enough (forall l n, fold_left (fun sum ch => sum + size ch) l n = n + total l) as -> by lia.
  induction l as [|c l IH]; intros n; cbn [fold_left]; [unfold total; cbn; lia|]. rewrite IH, total_cons. lia.
Qed.
Lemma zlen_values_bytes items values :
  Forall2 value_fits items values -> Forall channel_ok items -> zlen (values_bytes items values) = total items.
Proof.
  induction 1 as [|c v cs vs _ _ IH]; intros Hc; [done|]. inversion_clear Hc as [|? ? Ho Hcs]. rewrite total_cons.
  unfold values_bytes in *. cbn [zip_with List.concat]. rewrite zlen_app, zlen_EmitIntegerBe, IH by done.
  destruct Ho as [-> |[-> | ->]]; lia.
Qed.
Lemma decode_items_values items values pre post :
  Forall2 value_fits items values -> Forall channel_ok items ->
  decode_items items (pre ++ values_bytes items values ++ post) (zlen pre) = values.
Proof.
  intros Hv. revert pre. induction Hv as [|c v cs vs Hv _ IH]; intros pre Hc; [done|].
  inversion_clear Hc as [|? ? Ho Hcs]. assert (1 <= size c <= 4) as Hs by (destruct Ho as [-> |[-> | ->]]; lia).
  change (values_bytes (c :: cs) (v :: vs)) with (EmitIntegerBe (Z.to_nat (size c)) v ++ values_bytes cs vs). cbn [decode_items].
  set (e := EmitIntegerBe _ v). assert (zlen e = size c) as Le by (unfold e; rewrite zlen_EmitIntegerBe; lia). f_equal.
  - rewrite <- app_assoc, ReadUBe_middle by done. unfold e. rewrite <- (Z2Nat.id (size c)) at 2 by lia.
    rewrite ReadUBe_EmitIntegerBe by lia. rewrite Z2Nat.id by lia. by apply Z.mod_small.
  - replace (pre ++ (e ++ values_bytes cs vs) ++ post) with ((pre ++ e) ++ values_bytes cs vs ++ post) by (by rewrite <- !app_assoc).
    rewrite <- Le, <- zlen_app. by apply IH.
Qed.
Lemma DecodeFrame_unit_frame index items values pad :
  Forall2 value_fits items values -> Forall channel_ok items ->
  DecodeFrame index items (unit_frame index items values pad) = values.
Proof.
  intros Hv Hc. unfold DecodeFrame, unit_frame. rewrite zget_0, Z.eqb_refl. cbn [negb].
  rewrite needed_total, zlen_cons, zlen_app, zlen_values_bytes by done. pose proof (zlen_nonneg pad).
  rewrite (proj2 (Z.ltb_ge _ _)) by lia. by apply (decode_items_values items values [index] pad).
Qed.
End streaming.

(** The CDBG channel packing is complete and its frames decode: the selected
    channels are accepted exactly when some order-preserving division into at most
    eight frames of at most seven bytes exists (the greedy loop never needs more
    frames than any other division); the accepted frames hold the channels in order,
    none of them empty; and a frame a unit streams for one of them, padded as it
    may be, decodes to the channels' values. *)
Theorem cdbg_channels_streamed channels :
  Forall channel_ok channels ->
  (forall frames, Cdbg.BatchChannelsIntoFrames channels = Some frames ->
     division channels frames /\ Forall (fun f => f <> []) frames /\ zlen frames <= Cdbg.kMaxFrames
     /\ forall k items values pad, frames !! k = Some items -> Forall2 value_fits items values ->
          Cdbg.DecodeFrame (Z.of_nat k) items (unit_frame (Z.of_nat k) items values pad) = values)
  /\ (Cdbg.BatchChannelsIntoFrames channels = None <->
      channels = [] \/ forall frames, division channels frames -> Cdbg.kMaxFrames < zlen frames).
Proof.
  intros Hc. destruct channels as [|c cs]; [split; [done|]; split; [by left|done]|].
  set (channels := c :: cs) in *.
  destruct (batch_division channels [] [] 1 Hc) as [E F]; [constructor|done|by unfold Cdbg.kMaxFrameBytes; cbn|done|].
  cbn [List.concat app] in E. set (greedy := Cdbg.batch channels [] [] 1) in *.
  assert (division channels greedy) as Hg by (split; [done|]; eapply Forall_impl; [exact F|]; by intros f []).
  assert (forall frames, division channels frames -> zlen greedy <= zlen frames) as Hleast.
  { intros frames [Ed Fd]. inversion_clear Hc as [|? ? Ho Hcs]. assert (1 <= Cdbg.size c <= 4) as Hs by (destruct Ho as [-> |[-> | ->]]; lia).
    unfold greedy, channels. cbn [Cdbg.batch]. rewrite (proj2 (Z.ltb_ge _ _)) by lia. cbn [app]. unfold zlen.
    rewrite batch_length by done. cbn [length]. revert Ed Fd. induction frames as [|g frames IHf]; [done|]. intros Ed Fd.
    inversion_clear Fd as [|? ? Hgt Hfs]. destruct g as [|c' g]; [specialize (IHf Ed Hfs); cbn [length]; lia|].
    cbn [List.concat] in Ed. injection Ed as -> Ed. rewrite total_cons in Hgt.
    pose proof (started_least cs (Cdbg.size c) (Cdbg.size c) g frames Hcs ltac:(lia) ltac:(lia) (eq_sym Ed) Hfs). cbn [length]. lia. }
  unfold Cdbg.BatchChannelsIntoFrames. unfold channels at 1 3. fold channels. fold greedy. cbv zeta.
  destruct (Z.ltb_spec Cdbg.kMaxFrames (zlen greedy)) as [Hmany|Hfew].
  - split; [done|]. split; [|done]. intros _. right. intros frames Hd. specialize (Hleast frames Hd). lia.
  - split.
    + intros frames [= <-]. split_and!; [done|by eapply Forall_impl; [exact F|]; intros f []|done|].
      intros k items values pad Hk Hv. apply DecodeFrame_unit_frame; [done|].
      rewrite <- E in Hc. clear -Hc Hk. revert k Hk. induction greedy as [|g frames IH]; intros k Hk; [done|].
      cbn [List.concat] in Hc. apply Forall_app in Hc as [H1 H2]. destruct k as [|k]; [by injection Hk as <-|by apply (IH H2 k)].
    + split; [done|]. intros [|Hd]; [done|]. specialize (Hd greedy Hg). lia.
Qed.
Lemma cdbg_channels_streamed_witness :
  let channels := [Cdbg.Build_CdbgChannel 0x804000 4; Cdbg.Build_CdbgChannel 0x804004 4; Cdbg.Build_CdbgChannel 0x804008 2] in
  Forall channel_ok channels /\ Cdbg.DecodeFrame 1 (drop 1 channels) [1; 0; 0; 1; 2; 255; 254; 0] = [258; 65534].
Proof.
  intros channels. assert (Forall channel_ok channels) as Hc by (repeat constructor; unfold channel_ok; cbn; lia). split; [exact Hc|].
  destruct (cdbg_channels_streamed channels Hc) as [H _].
  destruct (H [take 1 channels; drop 1 channels] ltac:(vm_compute; reflexivity)) as (_ & _ & _ & Hd).
  apply (Hd 1%nat (drop 1 channels) [258; 65534] [0] eq_refl). repeat constructor; unfold value_fits; cbn; lia.
Defined.

(** ** The vendor challenge *)
Section challenge.
Import VendorExt.
(** Where the bits of a permuted word come from. *)
Definition permuted_from (k : Z) : Z :=
  if k =? 1 then 30 else if k =? 30 then 1 else if Z.testbit 0xaaaaaaa8 k then k - 3 else k + 3.
Definition swapped_from (k : Z) : Z := if Z.testbit 0xf0f0f0f0 k then k - 4 else k + 4.
Lemma testbit_u32 x k : 0 <= k < 32 -> Z.testbit (u32 x) k = Z.testbit x k.
Proof. intros Hk. unfold u32. change 4294967296 with (2 ^ 32). by rewrite Z.mod_pow2_bits_low by lia. Qed.
Lemma testbit_u32_high x k : 32 <= k -> Z.testbit (u32 x) k = false.
Proof. intros Hk. unfold u32. change 4294967296 with (2 ^ 32). apply Z.mod_pow2_bits_high. lia. Qed.
(** A bit of a masked and shifted word. *)
Lemma testbit_mask_shl x m n k : 0 <= n -> 0 <= k < 32 ->
  Z.testbit (u32 (Z.shiftl (Z.land x m) n)) k = Z.testbit x (k - n) && Z.testbit m (k - n).
Proof. intros Hn Hk. by rewrite testbit_u32, Z.shiftl_spec, Z.land_spec by lia. Qed.
Lemma testbit_mask_shr x m n k : 0 <= k ->
  Z.testbit (Z.shiftr (Z.land x m) n) k = Z.testbit x (k + n) && Z.testbit m (k + n).
Proof. intros Hk. by rewrite Z.shiftr_spec, Z.land_spec by lia. Qed.
(** A fact about the bits of a 32-bit word, bit by bit. *)
Ltac each_bit k Hk :=
  let Hin := fresh "Hin" in
  assert (k ∈ seqZ 0 32) as Hin by (apply elem_of_seqZ; lia); clear Hk; revert Hin;
  let l := eval vm_compute in (seqZ 0 32) in change (seqZ 0 32) with l; intros Hin;
  repeat (apply elem_of_cons in Hin as [-> |Hin];
    [cbn; rewrite ?andb_true_r, ?andb_false_r, ?orb_false_r; reflexivity|]);
  by apply elem_of_nil in Hin.
Lemma testbit_PermuteBits x k : 0 <= k < 32 -> Z.testbit (PermuteBits x) k = Z.testbit x (permuted_from k).
Proof.
  intros Hk. unfold PermuteBits. rewrite !Z.lor_spec, !testbit_mask_shl, !testbit_mask_shr by lia.
  generalize (Z.testbit x) as g. intros g. each_bit k Hk.
Qed.
Lemma testbit_SwapNibbles x k : 0 <= k < 32 -> Z.testbit (SwapNibbles x) k = Z.testbit x (swapped_from k).
Proof.
  intros Hk. unfold SwapNibbles. rewrite !Z.lor_spec, !testbit_mask_shl, !testbit_mask_shr by lia.
  generalize (Z.testbit x) as g. intros g. each_bit k Hk.
Qed.
Lemma shiftr_land_u32 x m n : 0 <= n -> u32_ok x -> u32_ok (Z.shiftr (Z.land x m) n).
Proof.
  intros Hn Hx. replace (Z.shiftr (Z.land x m) n) with (u32 (Z.shiftr (Z.land x m) n)); [apply u32_range|].
  apply Z.bits_inj'. intros k Hk. destruct (decide (k < 32)); [by rewrite testbit_u32 by lia|].
  rewrite testbit_u32_high, testbit_mask_shr by lia. by rewrite (testbit_high x 32) by (exact Hx || lia).
Qed.
Lemma u32_lor a b : u32_ok a -> u32_ok b -> u32_ok (Z.lor a b).
Proof. intros Ha Hb. apply (lor_range a b 32); [lia|done|done]. Qed.
Lemma PermuteBits_u32 x : u32_ok x -> u32_ok (PermuteBits x).
Proof. intros Hx. unfold PermuteBits. repeat apply u32_lor; (apply u32_range || (apply shiftr_land_u32; [lia|done])). Qed.
Lemma SwapNibbles_u32 x : u32_ok x -> u32_ok (SwapNibbles x).
Proof. intros Hx. unfold SwapNibbles. apply u32_lor; (apply u32_range || (apply shiftr_land_u32; [lia|done])). Qed.
Lemma u32_bits_eq x y : u32_ok x -> u32_ok y -> (forall k, 0 <= k < 32 -> Z.testbit x k = Z.testbit y k) -> x = y.
Proof.
  intros Hx Hy Hb. apply Z.bits_inj'. intros k Hk. destruct (decide (k < 32)); [by apply Hb|].
  by rewrite !(testbit_high _ 32) by (lia || exact Hx || exact Hy).
Qed.
(** Both are their own inverse. *)
Lemma PermuteBits_involutive x : u32_ok x -> PermuteBits (PermuteBits x) = x.
Proof.
  intros Hx. apply u32_bits_eq; [by do 2 apply PermuteBits_u32|done|]. intros k Hk.
  rewrite testbit_PermuteBits by done.
  assert (0 <= permuted_from k < 32 /\ permuted_from (permuted_from k) = k) as [Hr E].
  { assert (k ∈ seqZ 0 32) as Hin by (apply elem_of_seqZ; lia). clear Hk. cbn in Hin.
    repeat (apply elem_of_cons in Hin as [-> |Hin]; [by vm_compute|]). by apply elem_of_nil in Hin. }
  by rewrite testbit_PermuteBits, E by done.
Qed.
Lemma SwapNibbles_involutive x : u32_ok x -> SwapNibbles (SwapNibbles x) = x.
Proof.
  intros Hx. apply u32_bits_eq; [by do 2 apply SwapNibbles_u32|done|]. intros k Hk.
  rewrite testbit_SwapNibbles by done.
  assert (0 <= swapped_from k < 32 /\ swapped_from (swapped_from k) = k) as [Hr E].
  { assert (k ∈ seqZ 0 32) as Hin by (apply elem_of_seqZ; lia). clear Hk. cbn in Hin.
    repeat (apply elem_of_cons in Hin as [-> |Hin]; [by vm_compute|]). by apply elem_of_nil in Hin. }
  by rewrite testbit_SwapNibbles, E by done.
Qed.
Lemma inverse_challenge_round x c : u32_ok x -> inverse_round (challenge_round x c) c = x.
Proof.
  intros Hx. unfold inverse_round, challenge_round. rewrite SwapNibbles_involutive by apply u32_range.
  rewrite u32_sub_l. replace (PermuteBits x + c - c) with (PermuteBits x) by lia.
  rewrite u32_small by (by apply PermuteBits_u32). by apply PermuteBits_involutive.
Qed.
Lemma challenge_inverse_round x c : u32_ok x -> challenge_round (inverse_round x c) c = x.
Proof.
  intros Hx. unfold inverse_round, challenge_round. rewrite PermuteBits_involutive by apply u32_range.
  rewrite u32_add_l. replace (SwapNibbles x - c + c) with (SwapNibbles x) by lia.
  rewrite u32_small by (by apply SwapNibbles_u32). by apply SwapNibbles_involutive.
Qed.
Lemma challenge_round_u32 x c : u32_ok (challenge_round x c).
Proof. apply SwapNibbles_u32, u32_range. Qed.
Lemma inverse_round_u32 x c : u32_ok (inverse_round x c).
Proof. apply PermuteBits_u32, u32_range. Qed.
End challenge.

(** The vendor challenge is solved by the inverse transform: for every 32-bit secret
    the inverse of the seed it produces is the secret, and every 32-bit seed is the
    transform of its inverse, so the transform is a bijection; the key frame carries
    the answer big-endian, and the seed is read back from its four bytes. *)
Theorem vendor_challenge_inverse x :
  u32_ok x ->
  VendorExt.ChallengeInverseTransform (VendorExt.ChallengeTransform x) = x
  /\ VendorExt.ChallengeTransform (VendorExt.ChallengeInverseTransform x) = x
  /\ VendorExt.BytesToSeed (VendorExt.KeyBytes x) = x
  /\ VendorExt.BuildChallengeKey x = [0x23; 0x27; 0x42] ++ VendorExt.KeyBytes x.
Proof.
  intros Hx. unfold VendorExt.ChallengeTransform, VendorExt.ChallengeInverseTransform. cbn [rev app fold_left VendorExt.kRoundConstants].
  split_and!.
  - by rewrite !inverse_challenge_round by (done || apply challenge_round_u32).
  - by rewrite !challenge_inverse_round by (done || apply inverse_round_u32).
  - unfold VendorExt.BytesToSeed, VendorExt.KeyBytes.
    change (ComposeBe [FU32 x]) with (EmitIntegerBe 4 x ++ []). rewrite app_nil_r.
    change (ReadU32Be (EmitIntegerBe 4 x) 0) with (ReadUBe (EmitIntegerBe 4 x) 0 (Z.of_nat 4)).
    rewrite ReadUBe_EmitIntegerBe by lia. by apply Z.mod_small.
  - done.
Qed.
Lemma vendor_challenge_inverse_witness :
  VendorExt.ChallengeInverseTransform (VendorExt.ChallengeTransform 0xDEADBEEF) = 0xDEADBEEF.
Proof. apply (vendor_challenge_inverse 0xDEADBEEF). unfold u32_ok. lia. Defined.

(** The streaming interval of a log start survives its 16-bit encoding exactly up
    to 655359 ms: within the bound, the interval a unit decodes (milliseconds, or
    tens of them when the unit flag is set) is the requested one rounded down to the
    encoding's unit; from 655360 ms on the encoded value has wrapped, and the decoded
    interval is too short by more than 655350 ms. *)
Theorem log_start_interval instance frame_count interval_ms :
  u32_ok interval_ms ->
  let frame := Cdbg.BuildLogStartFrame instance frame_count interval_ms in
  let unit_ms := if zget frame 5 =? 1 then 10 else 1 in
  let decoded := ReadU16Be frame 6 * unit_ms in
  zlen frame = 8 /\ (interval_ms <= 655359 -> decoded <= interval_ms < decoded + unit_ms)
  /\ (655360 <= interval_ms -> decoded <= interval_ms - 655360).
Proof.
  intros Hu. cbv zeta. unfold Cdbg.BuildLogStartFrame. unfold u32_ok in Hu.
  destruct (Z.ltb_spec 65535 interval_ms) as [Hbig|Hsmall].
  - set (f := ComposeBe _). change (zget f 5 =? 1) with true. cbv iota.
    assert (ReadU16Be f 6 = u16 (interval_ms / 10)) as ->.
    { change (ReadU16Be f 6) with (ReadU16Be (EmitIntegerBe 2 (u16 (interval_ms / 10))) 0).
      change (ReadU16Be ?l 0) with (ReadUBe l 0 (Z.of_nat 2)). rewrite ReadUBe_EmitIntegerBe by lia.
      apply Z.mod_small. apply (u16_range (interval_ms / 10)). }
    pose proof (Z.div_mod interval_ms 10). pose proof (Z.mod_pos_bound interval_ms 10).
    unfold u16. pose proof (Z.div_mod (interval_ms / 10) 65536). pose proof (Z.mod_pos_bound (interval_ms / 10) 65536).
    split; [done|]. split.
    + intros Hle. rewrite Z.mod_small by lia. lia.
    + intros Hge. assert (1 <= interval_ms / 10 / 65536) by (apply Z.div_le_lower_bound; lia). lia.
  - set (f := ComposeBe _). change (zget f 5 =? 1) with false. cbv iota.
    assert (ReadU16Be f 6 = interval_ms) as ->; [|split; [done|]; lia].
    change (ReadU16Be f 6) with (ReadU16Be (EmitIntegerBe 2 (u16 interval_ms)) 0).
    change (ReadU16Be ?l 0) with (ReadUBe l 0 (Z.of_nat 2)). rewrite ReadUBe_EmitIntegerBe by lia.
    rewrite Z.mod_small by apply (u16_range interval_ms). apply u16_small. unfold u16_ok. lia.
Qed.
Lemma log_start_interval_witness :
  let frame := Cdbg.BuildLogStartFrame 0 1 655359 in
  ReadU16Be frame 6 * (if zget frame 5 =? 1 then 10 else 1) <= 655359.
Proof. apply (log_start_interval 0 1 655359); [unfold u32_ok; lia|lia]. Defined.
