(* ===== verification/StagedPlans.v ===== *)
(** * StagedPlans: the plans of the families with shapes of their own

    [src/backend/flash/ecu/protocol_kernel.h], [protocol_kernel.cpp], and the plan
    builders of the Colt CZT, Hitachi SH7058, MC68HC16Y5 (K-Line and BDM), Unisia Jecs,
    Unisia Jecs M32R (K-Line and boot mode) families. *)
From S2P Require Import Prelude MemoryMap MemoryImage Catalog.
From S2P Require Import Colt Ports FlashDevices FlashPlan WholeRomPlans.

(** A file repository as its one operation, [IFileRepository::Read]. *)
Definition repository : Type := string -> result Error (list Z).
Definition no_confirmations : list ConfirmationSpec := [].
Definition confirm (i : ConfirmationId) : ConfirmationSpec := {| conf_id := i; arguments := [] |}.
Definition image_size_is (img : option (list Z)) (n : Z) : bool := match img with Some i => zlen i =? n | None => false end.
Definition image_length (img : option (list Z)) : Z := match img with Some i => zlen i | None => 0 end.
Definition is_some {A} (o : option A) : bool := match o with Some _ => true | None => false end.
(** The generic validation, then the family's. *)
Definition ValidatedPlan (validate : FlashPlan -> Status) (fields : FlashPlanFields) : result Error FlashPlan :=
  let! plan := ValidateAndBuild fields in
  let! _ := validate plan in
  Ok plan.

(** ** [protocol_kernel.h], [protocol_kernel.cpp] *)
Definition ReadProtocolKernel (protocol : ProtocolSpec) (paths : ConfigPaths) (files : repository) : result Error KernelImage :=
  match Catalog.kernel_load_address protocol with
  | None => Fail kInvalidConfig ("protocol '" +:+ Catalog.name protocol +:+ "' declares no kernel load address")
  | Some a =>
      let! kernel_bytes := files (KernelFileHandle paths (Catalog.kernel protocol)) in
      Ok {| kernel_id := Catalog.name protocol +:+ "-kernel"; load_address := a; kernel_bytes := kernel_bytes |}
  end.
Definition ReadProtocolKernelBytes (protocol : ProtocolSpec) (paths : ConfigPaths) (files : repository)
    : result Error (list Z) :=
  match files (KernelFileHandle paths (Catalog.kernel protocol)) with
  | Err e => Fail (kind e) ("kernel file '" +:+ Catalog.kernel protocol +:+ "': " +:+ detail e)
  | Ok kernel_bytes => Ok kernel_bytes
  end.
Definition KernelBackedPlanBuilder : Type :=
  FlashOperation -> string -> string -> option (list Z) -> KernelImage -> result Error FlashPlan.
Definition KernelFreePlanBuilder : Type := FlashOperation -> string -> string -> option (list Z) -> result Error FlashPlan.
Definition PlanPreparation : Type :=
  FlashOperation -> ProtocolSpec -> ConfigPaths -> option (list Z) -> repository -> result Error FlashPlan.
Definition PrepareWithProtocolKernel (Build : KernelBackedPlanBuilder) : PlanPreparation :=
  fun operation protocol paths rom_file files =>
    let! kernel := ReadProtocolKernel protocol paths files in
    Build operation (Catalog.name protocol) (Catalog.mcu protocol) rom_file kernel.

(** ** [mitsu_colt_m32r_can_plan.cpp] *)
Module ColtCan.
Record ColtVariant := { protocol_id : string; variant_mcu : string; vendor : bool; capacity : Z }.
Definition kColtVariants : list ColtVariant :=
  [ Build_ColtVariant "mitsu_ecu_m32r_can" "M32R_384KB_1block" false 0x60000;
    Build_ColtVariant "mitsu_ecu_m32r_can_vendor_ext" "M32R_384KB_1block" true 0x60000;
    Build_ColtVariant "mitsu_ecu_m32r_can_512kb" "M32R_512KB_1block" false 0x80000;
    Build_ColtVariant "mitsu_ecu_m32r_can_vendor_ext_512kb" "M32R_512KB_1block" true 0x80000 ].
Definition FindVariant (p : string) : option ColtVariant := List.find (fun v => String.eqb (protocol_id v) p) kColtVariants.
Definition RequireVariant (p : string) : result Error ColtVariant :=
  match FindVariant p with
  | Some v => Ok v
  | None => Fail kInvalidConfig ("Unsupported Mitsubishi Colt M32R CAN protocol: " +:+ p)
  end.
Definition As (p : FamilyPlan) : option MitsuColtM32rCanPlan :=
  match fp_value p with Some (ColtPlan w) => Some w | _ => None end.
Definition Validate (plan : FlashPlan) : Status :=
  let! variant := RequireVariant (TargetId plan) in
  if negb (String.eqb (McuName plan) (variant_mcu variant)) then
    Fail kInvalidConfig ("Protocol " +:+ TargetId plan +:+ " expects MCU " +:+ variant_mcu variant +:+ "; got " +:+ McuName plan)
  else if negb (match As (family_plan (fields_ plan)) with
                | Some family => Bool.eqb (use_vendor_challenge family) (vendor variant)
                | None => false
                end) then
    Fail kInvalidConfig "Mitsubishi Colt authorization variant does not match protocol"
  else
    let read := bool_decide (Operation plan = kRead) in
    let start := if read then 0 else MitsuColtCan.kUserspaceStart in
    let length := u32 (capacity variant - (if read then 0 else MitsuColtCan.kUserspaceStart)) in
    if negb (reg_start (TransferRegion plan) =? start) || negb (reg_length (TransferRegion plan) =? length) then
      Fail kInvalidConfig ("Transfer region does not match protocol capacity 0x" +:+ fmt_x (capacity variant))
    else
      let rom_end := u32 (reg_start (TransferRegion plan) + reg_length (TransferRegion plan)) in
      if (if read then is_some (Image plan) else negb (image_size_is (Image plan) rom_end)) then
        Fail kInvalidConfig ("ROM image size does not match ROM extent 0x" +:+ fmt_x rom_end)
      else Ok tt.
(** [FamilyTraits<MitsuColtM32rCanPlan>]. *)
Definition family_of (variant : ColtVariant) : FamilyPlan :=
  {| fp_value := Some (ColtPlan {| colt_can := can_wire 0x7E0 0x7E8; use_vendor_challenge := vendor variant;
                                   colt_session_id := MitsuColtCan.kSessionBootload |});
     fp_family := kMitsuColtM32rCan; fp_transport := kCanIso15765; RequiresKernel := false |}.
Definition write_confirmations (capacity : Z) : list ConfirmationSpec :=
  let capacity_kib := fmt_d (capacity / 1024) in
  let rom_end := "0x" +:+ fmt_x capacity in
  {| conf_id := kEraseTrigger;
     arguments := [("capacity_kib"%string, capacity_kib); ("writable_start_hex"%string, "0x" +:+ fmt_x MitsuColtCan.kUserspaceStart);
                   ("rom_end_hex"%string, rom_end)] |}
  :: (if capacity =? MitsuColtCan.kFullRomSize then
        [{| conf_id := kTopRegionBootstrap;
            arguments := [("top_region_start_hex"%string, "0x60000"%string); ("rom_end_hex"%string, rom_end)] |}]
      else []).
Definition fields_of (op : FlashOperation) (protocol_name mcu_type : string) (variant : ColtVariant) (region : MemoryRegion)
    (img : option (list Z)) (confs : list ConfirmationSpec) : FlashPlanFields := {|
  operation := op; target_id := protocol_name; mcu_name := mcu_type; transfer_region := region; erase_regions := [];
  image := img; image_map := None; kernel := None; family_plan := family_of variant; confirmations := confs
|}.
Definition Build (op : FlashOperation) (protocol_name mcu_type : string) (img : option (list Z)) : result Error FlashPlan :=
  let! variant := RequireVariant protocol_name in
  if bool_decide (op = kTestWrite) then
    Fail kUnsupported "test_write is not supported by this family; the built-in catalog declares test_write=no and the legacy implementation performed only a diagnostic-session handshake"
  else if FindFlashDeviceIndex mcu_type <? 0 then Fail kInvalidConfig ("Unknown MCU type: " +:+ mcu_type)
  else if negb (String.eqb mcu_type (variant_mcu variant)) then
    Fail kInvalidConfig ("Protocol " +:+ protocol_name +:+ " expects MCU " +:+ variant_mcu variant +:+ "; got " +:+ mcu_type)
  else if bool_decide (op = kRead) then
    ValidatedPlan Validate
      (fields_of op protocol_name mcu_type variant {| reg_start := 0; reg_length := capacity variant |} None [])
  else match img with
  | None => Fail kInvalidConfig "Write plans must carry a ROM image"
  | Some i =>
      if negb (zlen i =? capacity variant) then
        Fail kInvalidConfig ("ROM file must be exactly 0x" +:+ fmt_x (capacity variant) +:+ " bytes; got 0x" +:+ fmt_x (zlen i)
                             +:+ " bytes")
      else
        ValidatedPlan Validate
          (fields_of op protocol_name mcu_type variant
             {| reg_start := MitsuColtCan.kUserspaceStart; reg_length := u32 (capacity variant - MitsuColtCan.kUserspaceStart) |} (Some i)
             (write_confirmations (capacity variant)))
  end.
Definition Protocols : list string := map protocol_id kColtVariants.
End ColtCan.

(** ** [subaru_hitachi_sh7058_plan.cpp] *)
Module HitachiSh7058.
Definition kProtocol : string := "sub_ecu_hitachi_sh7058_can".
Definition kMcu : string := "SH7058_1block".
Definition kSize : Z := 0x100000.
Definition TransferFor (read : bool) : MemoryRegion := {| reg_start := if read then kSize else 0; reg_length := kSize |}.
Definition EraseFor (read : bool) : list MemoryRegion :=
  if read then [] else [{| reg_start := 0; reg_length := kSize |}].
Definition ConfirmationsFor (read : bool) : list ConfirmationSpec := if read then [confirm kStartKlineRead] else [].
(** The default member initializers of the two plan types. *)
Definition kline_wire : SubaruHitachiSh7058KlinePlan :=
  {| h7058_initial_baud := 4800; h7058_tester_id := 0xf0; h7058_target_id := 0x10; h7058_page_size := 0x80 |}.
Definition can_wire_default : SubaruHitachiSh7058CanPlan :=
  {| h7058_bitrate := 500000; h7058_request_id := 0x7e0; h7058_response_id := 0x7e8; h7058_extended_id := false;
     h7058_frame_size := 0x100 |}.
Definition HasDefaultWire (read : bool) (plan : FlashPlan) : bool :=
  match fp_value (family_plan (fields_ plan)) with
  | Some (HitachiSh7058KlinePlan w) => read && bool_decide (Transport plan = kKline) && bool_decide (w = kline_wire)
  | Some (HitachiSh7058CanPlan w) =>
      negb read && bool_decide (Transport plan = kCanIso15765) && bool_decide (w = can_wire_default)
  | _ => false
  end.
Definition DeviceMatches (device : option FlashDevice) : bool :=
  match device with
  | Some d => (romsize d =? kSize) && (numblocks d =? 1) && present (fblocks d) && (start (block_at (fblocks d) 0) =? 0)
              && (len (block_at (fblocks d) 0) =? kSize)
  | None => false
  end.
Definition ValidateShared (plan : FlashPlan) : Status :=
  if negb (bool_decide (Family plan = kSubaruHitachiSh7058)) || negb (String.eqb (TargetId plan) kProtocol)
     || negb (String.eqb (McuName plan) kMcu) then
    Fail kInvalidConfig "invalid SH7058 identity"
  else if bool_decide (Operation plan = kTestWrite) then
    Fail kUnsupported "SH7058 test write performs a live erase and is unsupported"
  else
    let read := bool_decide (Operation plan = kRead) in
    if negb (HasDefaultWire read plan) then Fail kInvalidConfig "invalid SH7058 transport or wire parameters"
    else if negb (bool_decide (TransferRegion plan = TransferFor read)) || negb (bool_decide (EraseRegions plan = EraseFor read))
            || negb (OperationImageShapeMatches plan kSize) || is_some (Kernel plan) then
      Fail kInvalidConfig "invalid SH7058 flash geometry"
    else if negb (bool_decide (Confirmations plan = ConfirmationsFor read)) then
      Fail kInvalidConfig "SH7058 Read requires exactly the StartKlineRead confirmation; Write requires none"
    else Ok tt.
(** [FamilyTraits] of the two plan types. *)
Definition family_of (read : bool) : FamilyPlan :=
  if read then {| fp_value := Some (HitachiSh7058KlinePlan kline_wire); fp_family := kSubaruHitachiSh7058;
                  fp_transport := kKline; RequiresKernel := false |}
  else {| fp_value := Some (HitachiSh7058CanPlan can_wire_default); fp_family := kSubaruHitachiSh7058;
          fp_transport := kCanIso15765; RequiresKernel := false |}.
Definition fields_of (op : FlashOperation) (protocol mcu : string) (img : option (list Z)) : FlashPlanFields :=
  let read := bool_decide (op = kRead) in {|
  operation := op; target_id := protocol; mcu_name := mcu; transfer_region := TransferFor read; erase_regions := EraseFor read;
  image := img; image_map := None; kernel := None; family_plan := family_of read; confirmations := ConfirmationsFor read
|}.
Definition Build (op : FlashOperation) (protocol mcu : string) (img : option (list Z)) : result Error FlashPlan :=
  if negb (String.eqb protocol kProtocol) || negb (String.eqb mcu kMcu) then
    Fail kInvalidConfig "unsupported SH7058 protocol or MCU"
  else if negb (DeviceMatches (FindFlashDevice kMcu)) then Fail kInvalidConfig "invalid SH7058 device geometry"
  else if bool_decide (op = kTestWrite) then
    Fail kUnsupported "SH7058 test write performs a live erase and is unsupported"
  else if (if bool_decide (op = kRead) then is_some img else negb (image_size_is img kSize)) then
    Fail kInvalidConfig "SH7058 ROM image must be exactly 1 MiB for write"
  else ValidatedPlan ValidateShared (fields_of op protocol mcu img).
Definition Protocols : list string := [kProtocol].
Definition ValidateCan (plan : FlashPlan) : Status :=
  let! _ := ValidateShared plan in
  if bool_decide (Operation plan = kWrite) then Ok tt else Fail kUnsupported "SH7058 CAN supports write only".
Definition ValidateKline (plan : FlashPlan) : Status :=
  let! _ := ValidateShared plan in
  if bool_decide (Operation plan = kRead) then Ok tt else Fail kUnsupported "SH7058 K-Line supports read only".
End HitachiSh7058.

(** ** [subaru_denso_mc68hc16y5_02_plan.cpp] *)
Module DensoMc68.
Definition block_not_placed (block : FlashBlock) (e : MemoryError) : Status :=
  Fail kInvalidConfig ("ROM file's memory map does not hold flash block 0x" +:+ fmt_x (start block)
                       +:+ " as writable ROM file bytes: " +:+ MemoryMap.detail e).
Fixpoint check_blocks (image : MemoryImage) (blocks : list FlashBlock) : Status :=
  match blocks with
  | [] => Ok tt
  | block :: blocks =>
      match CheckWrite image (start block) (len block) with
      | Err e => block_not_placed block e
      | Ok _ => check_blocks image blocks
      end
  end.
Definition CheckFlashBlocksPlaced (image : MemoryImage) (device : FlashDevice) : Status :=
  check_blocks image (map (block_at (fblocks device)) (seqZ 0 (numblocks device))).
Definition kTpu : string := "sub_ecu_denso_mc68hc16y5_02_tpu".
Definition kProtocols : list string :=
  ["sub_ecu_denso_mc68hc16y5_02"%string; "sub_ecu_denso_mc68hc16y5_02_ecutek"%string; kTpu].
Definition expected_mcu (protocol : string) : string := if String.eqb protocol kTpu then "MC68HC16Y5_TPU" else "MC68HC16Y5".
Definition ValidateIdentity (protocol mcu : string) : Status :=
  if negb (existsb (String.eqb protocol) kProtocols) then
    Fail kInvalidConfig ("Unsupported MC68HC16Y5_02 protocol: " +:+ protocol)
  else if negb (String.eqb mcu (expected_mcu protocol)) then
    Fail kInvalidConfig ("protocol " +:+ protocol +:+ " requires MCU " +:+ expected_mcu protocol +:+ ", not " +:+ mcu)
  else Ok tt.
Definition ValidateOperation (protocol : string) (op : FlashOperation) : Status :=
  if String.eqb protocol kTpu && negb (bool_decide (op = kRead)) then
    Fail kUnsupported "the built-in catalog declares no supported write or test_write operation for the MC68HC16Y5 TPU variant"
  else Ok tt.
(** [std::string_view::ends_with]. *)
Definition ends_with (s suffix : string) : bool :=
  let n := String.length s in
  let k := String.length suffix in
  (k <=? n)%nat && String.eqb (String.substring (n - k) k s) suffix.
Definition WireParams (protocol : string) : SubaruDensoMc68hc16y5_02Plan :=
  if ends_with protocol "_ecutek" then
    {| connect_baud := 9600; kernel_baud := 11700; encryption_xor := 0x51; kernel_magic := 0x3940;
       bootloader_ok := [0x4C; 0x00; 0xB4] |}
  else
    {| connect_baud := 9600; kernel_baud := 9600; encryption_xor := 0x55; kernel_magic := 0x3941;
       bootloader_ok := [0x4D; 0x00; 0xB3] |}.
Definition kKernelStart : Z := 0x00020000.
Definition kKernelLength : Z := 0x00008000.
Definition kMaxWireLength : Z := 0x00ffffff.
Definition ValidateKernelUpload (k : KernelImage) : Status :=
  if negb (load_address k =? kKernelStart) then
    Fail kInvalidConfig "MC68HC16Y5_02 kernel address is not the canonical wire address"
  else
    let padded_size := Z.land (zlen (kernel_bytes k) + 0x0f) (Z.lnot 0x0f) in
    if kMaxWireLength <? padded_size then
      Fail kInvalidConfig "MC68HC16Y5_02 padded kernel exceeds the 24-bit wire length"
    else if kKernelLength <? padded_size then
      Fail kInvalidConfig "MC68HC16Y5_02 padded kernel is outside the model kernel region"
    else Ok tt.
Definition ValidateRomPlacement (plan : FlashPlan) : Status :=
  match FindFlashDevice (McuName plan) with
  | None => Fail kInvalidConfig "Unknown MCU type"
  | Some device =>
      if negb (TransferMatchesDevice (TransferRegion plan) device) then
        Fail kInvalidConfig "MC68HC16Y5_02 transfer region does not match the MCU"
      else
        let! _ := ValidateOperation (TargetId plan) (Operation plan) in
        if bool_decide (Operation plan = kRead) then Ok tt
        else match rom_image_ plan with
        | None => Fail kInvalidConfig "MC68HC16Y5_02 write requires a ROM image"
        | Some image => CheckFlashBlocksPlaced image device
        end
  end.
Definition IsWrite (op : FlashOperation) : bool := bool_decide (op = kWrite) || bool_decide (op = kTestWrite).
Definition ValidateRequest (op : FlashOperation) (protocol mcu : string) (image : option MemoryImage)
    : result Error FlashDevice :=
  let! _ := ValidateIdentity protocol mcu in
  let! _ := ValidateOperation protocol op in
  match FindFlashDevice mcu with
  | None => Fail kInvalidConfig "Unknown MCU type"
  | Some device =>
      if negb (IsWrite op) then Ok device
      else match image with
      | None => Fail kInvalidConfig "MC68HC16Y5_02 write requires a ROM image"
      | Some image => let! _ := CheckFlashBlocksPlaced image device in Ok device
      end
  end.
Definition As (p : FamilyPlan) : option SubaruDensoMc68hc16y5_02Plan :=
  match fp_value p with Some (Mc68Plan w) => Some w | _ => None end.
Definition Validate (plan : FlashPlan) : Status :=
  match As (family_plan (fields_ plan)) with
  | None => Fail kInvalidConfig "MC68HC16Y5_02 wire parameters are missing"
  | Some family =>
      let! _ := ValidateIdentity (TargetId plan) (McuName plan) in
      if negb (bool_decide (family = WireParams (TargetId plan))) then
        Fail kInvalidConfig "MC68HC16Y5_02 wire parameters are invalid"
      else match Kernel plan with
      | None => Fail kInvalidConfig "MC68HC16Y5_02 requires a kernel image"
      | Some k =>
          let! _ := ValidateKernelUpload k in
          if negb (bool_decide (EraseRegions plan = [])) then
            Fail kInvalidConfig "MC68HC16Y5_02 plans must not declare erase regions"
          else if negb (bool_decide (Confirmations plan = [])) then
            Fail kInvalidConfig "MC68HC16Y5_02 plans must not declare confirmations"
          else ValidateRomPlacement plan
      end
  end.
(** [FamilyTraits<SubaruDensoMc68hc16y5_02Plan>]. *)
Definition family_of (protocol : string) : FamilyPlan :=
  {| fp_value := Some (Mc68Plan (WireParams protocol)); fp_family := kSubaruDensoMc68hc16y502; fp_transport := kKline;
     RequiresKernel := true |}.
Definition fields_of (op : FlashOperation) (protocol_name mcu_type : string) (image : option MemoryImage) (k : KernelImage)
    (device : FlashDevice) : FlashPlanFields :=
  let placed := if IsWrite op then image else None in {|
  operation := op; target_id := protocol_name; mcu_name := mcu_type;
  transfer_region := {| reg_start := start (block_at (fblocks device) 0); reg_length := romsize device |};
  erase_regions := []; FlashPlan.image := file_ <$> placed; image_map := map_ <$> placed; FlashPlan.kernel := Some k;
  family_plan := family_of protocol_name; confirmations := []
|}.
Definition Build (op : FlashOperation) (protocol_name mcu_type : string) (image : option MemoryImage) (k : KernelImage)
    : result Error FlashPlan :=
  let! device := ValidateRequest op protocol_name mcu_type image in
  let! _ := ValidateKernelUpload k in
  ValidatedPlan Validate (fields_of op protocol_name mcu_type image k device).
Definition Prepare : PlanPreparation := fun op protocol paths rom_file files =>
  let! image :=
    match rom_file with
    | None => Ok None
    | Some file =>
        match PlaceRomFile (Some protocol) file with
        | Err e => Fail kInvalidConfig ("ROM file size error: " +:+ MemoryMap.detail e)
        | Ok placed => Ok (Some placed)
        end
    end in
  let! _ := ValidateRequest op (Catalog.name protocol) (Catalog.mcu protocol) image in
  let! k := ReadProtocolKernel protocol paths files in
  Build op (Catalog.name protocol) (Catalog.mcu protocol) image k.
End DensoMc68.

(** ** [subaru_denso_mc68hc16y5_02_bdm_plan.cpp] *)
Module DensoMc68Bdm.
Definition kProtocol : string := "sub_ecu_denso_mc68hc16y5_02_bdm".
Definition kMcu : string := "MC68HC16Y5".
Definition kBaud : Z := 115200.
Definition kReadRegion : MemoryRegion := {| reg_start := 0; reg_length := 0x30000 |}.
Definition kRam : MemoryRegion := {| reg_start := 0x20000; reg_length := 0x8000 |}.
Definition kRomSize : Z := 0x28000.
Definition kUploadChunk : Z := 0x20.
Definition ValidateIdentity (protocol mcu : string) : Status :=
  if negb (String.eqb protocol kProtocol) || negb (String.eqb mcu kMcu) then
    Fail kInvalidConfig ("MC68HC16Y5 BDM protocol '" +:+ protocol +:+ "' does not match MCU '" +:+ mcu +:+ "'")
  else if negb (match FindFlashDevice mcu with
                | Some d => (romsize d =? kRomSize) && present (rblocks d) && (start (block_at (rblocks d) 0) =? reg_start kRam)
                            && (len (block_at (rblocks d) 0) =? reg_length kRam)
                | None => false
                end) then
    Fail kInvalidConfig "MC68HC16Y5 BDM memory map is invalid"
  else Ok tt.
Definition ValidateReadShape (plan : FlashPlan) : Status :=
  if negb (bool_decide (TransferRegion plan = kReadRegion)) || is_some (Image plan) then
    Fail kInvalidConfig "MC68HC16Y5 BDM read-plan shape is invalid"
  else Ok tt.
Definition ValidateBootstrapShape (plan : FlashPlan) : Status :=
  let bad := Fail kInvalidConfig "MC68HC16Y5 BDM kernel-bootstrap plan shape is invalid" in
  match Image plan with
  | None => bad
  | Some i =>
      if (zlen i =? 0) || negb (zlen i mod kUploadChunk =? 0) || (reg_length kRam <? zlen i)
         || negb (bool_decide (TransferRegion plan = {| reg_start := reg_start kRam; reg_length := u32 (zlen i) |})) then bad
      else Ok tt
  end.
Definition PadKernel (k : list Z) : list Z := k ++ zrepeat (padded_size kUploadChunk (zlen k) - zlen k) 0.
Definition Validate (plan : FlashPlan) : Status :=
  let! _ := ValidateIdentity (TargetId plan) (McuName plan) in
  if bool_decide (Operation plan = kTestWrite) then Fail kUnsupported "MC68HC16Y5 BDM has no test write"
  else if negb (match fp_value (family_plan (fields_ plan)) with
                | Some (SubaruDensoMc68hc16y5_02BdmPlan baud) => baud =? kBaud
                | _ => false
                end) then Fail kInvalidConfig "MC68HC16Y5 BDM wire parameters are invalid"
  else if negb (bool_decide (EraseRegions plan = [])) || is_some (Kernel plan) then
    Fail kInvalidConfig "MC68HC16Y5 BDM plan shape is invalid"
  else
    let write := bool_decide (Operation plan = kWrite) in
    if (if write then negb (RequiresOnly (Confirmations plan) kKernelBootstrap)
        else negb (bool_decide (Confirmations plan = []))) then
      Fail kInvalidConfig "MC68HC16Y5 BDM Write requires exactly the KernelBootstrap confirmation; Read requires none"
    else if write then ValidateBootstrapShape plan else ValidateReadShape plan.
(** [FamilyTraits<SubaruDensoMc68hc16y5_02BdmPlan>]. *)
Definition family : FamilyPlan :=
  {| fp_value := Some (SubaruDensoMc68hc16y5_02BdmPlan kBaud); fp_family := kSubaruDensoMc68hc16y502Bdm;
     fp_transport := kKline; RequiresKernel := false |}.
Definition fields_of (op : FlashOperation) (protocol_name mcu_type : string) (region : MemoryRegion) (img : option (list Z))
    : FlashPlanFields := {|
  operation := op; target_id := protocol_name; mcu_name := mcu_type; transfer_region := region; erase_regions := [];
  image := img; image_map := None; kernel := None; family_plan := family;
  confirmations := if bool_decide (op = kWrite) then [confirm kKernelBootstrap] else []
|}.
Definition Build (op : FlashOperation) (protocol_name mcu_type : string) (rom_image : option (list Z))
    (k : option KernelImage) : result Error FlashPlan :=
  let! _ := ValidateIdentity protocol_name mcu_type in
  if bool_decide (op = kTestWrite) then Fail kUnsupported "MC68HC16Y5 BDM has no test write"
  else if is_some rom_image then Fail kInvalidConfig "MC68HC16Y5 BDM plans never carry a ROM image"
  else if bool_decide (op = kRead) then
    if is_some k then Fail kInvalidConfig "MC68HC16Y5 BDM read plans must not carry a kernel"
    else ValidatedPlan Validate (fields_of op protocol_name mcu_type kReadRegion None)
  else match k with
  | None => Fail kInvalidConfig "MC68HC16Y5 BDM kernel bootstrap requires a kernel image"
  | Some k =>
      if negb (load_address k =? reg_start kRam) then
        Fail kInvalidConfig ("MC68HC16Y5 BDM kernel must load at 0x" +:+ fmt_X (reg_start kRam) +:+ ", not 0x"
                             +:+ fmt_X (load_address k))
      else if zlen (kernel_bytes k) =? 0 then Fail kInvalidConfig "MC68HC16Y5 BDM kernel image is empty"
      else
        let padded := PadKernel (kernel_bytes k) in
        if reg_length kRam <? zlen padded then
          Fail kInvalidConfig ("MC68HC16Y5 BDM kernel (" +:+ fmt_d (zlen padded) +:+ " bytes padded) exceeds the 0x"
                               +:+ fmt_X (reg_length kRam) +:+ "-byte RAM block")
        else
          ValidatedPlan Validate
            (fields_of op protocol_name mcu_type {| reg_start := reg_start kRam; reg_length := u32 (zlen padded) |} (Some padded))
  end.
Definition Prepare : PlanPreparation := fun op protocol paths _ files =>
  if negb (bool_decide (op = kWrite)) then Build op (Catalog.name protocol) (Catalog.mcu protocol) None None
  else
    let! k := ReadProtocolKernel protocol paths files in
    Build op (Catalog.name protocol) (Catalog.mcu protocol) None (Some k).
Definition Protocols : list string := [kProtocol].
End DensoMc68Bdm.

(** ** [subaru_unisia_jecs_plan.cpp] *)
Module UnisiaJecs.
Definition kIdentities : list (string * string) :=
  [("sub_ecu_unisia_jecs_m3779x"%string, "M3779x"%string); ("sub_ecu_unisia_jecs_m3775x"%string, "M3775x"%string)].
Definition kRom : MemoryRegion := {| reg_start := 0; reg_length := 0x10000 |}.
Definition kInitialBaud : Z := 1953.
Definition ValidateIdentity (protocol mcu : string) : Status :=
  if negb (match List.find (fun i => String.eqb (fst i) protocol) kIdentities with
           | Some i => String.eqb (snd i) mcu
           | None => false
           end) then
    Fail kInvalidConfig ("Unisia Jecs protocol '" +:+ protocol +:+ "' does not match MCU '" +:+ mcu +:+ "'")
  else if negb (match FindFlashDevice mcu with Some d => romsize d =? reg_length kRom | None => false end) then
    Fail kInvalidConfig "Unisia Jecs flash geometry is invalid"
  else Ok tt.
Definition Validate (plan : FlashPlan) : Status :=
  let! _ := ValidateIdentity (TargetId plan) (McuName plan) in
  if negb (bool_decide (Operation plan = kRead)) then Fail kUnsupported "Unisia Jecs is read-only"
  else if negb (match fp_value (family_plan (fields_ plan)) with
                | Some (JecsPlan w) => (jecs_initial_baud w =? kInitialBaud) && jecs_even_parity w
                | _ => false
                end) then Fail kInvalidConfig "Unisia Jecs wire parameters are invalid"
  else if negb (reg_start (TransferRegion plan) =? reg_start kRom) || negb (reg_length (TransferRegion plan) =? reg_length kRom)
          || negb (bool_decide (EraseRegions plan = [])) || is_some (Image plan) || is_some (Kernel plan)
          || negb (bool_decide (Confirmations plan = [])) then
    Fail kInvalidConfig "Unisia Jecs read-plan shape is invalid"
  else Ok tt.
(** [FamilyTraits<SubaruUnisiaJecsPlan>]. *)
Definition family : FamilyPlan :=
  {| fp_value := Some (JecsPlan {| jecs_initial_baud := kInitialBaud; jecs_even_parity := true |});
     fp_family := kSubaruUnisiaJecs; fp_transport := kKline; RequiresKernel := false |}.
Definition fields_of (op : FlashOperation) (protocol_name mcu_type : string) : FlashPlanFields := {|
  operation := op; target_id := protocol_name; mcu_name := mcu_type; transfer_region := kRom; erase_regions := [];
  image := None; image_map := None; kernel := None; family_plan := family; confirmations := []
|}.
Definition Build (op : FlashOperation) (protocol_name mcu_type : string) (img : option (list Z)) : result Error FlashPlan :=
  let! _ := ValidateIdentity protocol_name mcu_type in
  if negb (bool_decide (op = kRead)) then Fail kUnsupported "Unisia Jecs is read-only"
  else if is_some img then Fail kInvalidConfig "Unisia Jecs read plans must not carry an image"
  else ValidatedPlan Validate (fields_of op protocol_name mcu_type).
Definition Protocols : list string := map fst kIdentities.
End UnisiaJecs.

(** ** [subaru_unisia_jecs_m32r_kline_plan.cpp] *)
Module JecsM32rKline.
Record Variant := { variant_protocol : string; variant_mcu : string; rom_size : Z; writable : bool }.
Definition kVariants : list Variant :=
  [ Build_Variant "sub_ecu_unisia_jecs_20" "M32R_128KB" 0x20000 true;
    Build_Variant "sub_ecu_unisia_jecs_30" "M32R_256KB" 0x40000 true;
    Build_Variant "sub_ecu_unisia_jecs_40" "M32R_384KB" 0x60000 false;
    Build_Variant "sub_ecu_unisia_jecs_70" "M32R_512KB" 0x80000 false ].
Definition kBootModeReadVariants : list Variant :=
  [ Build_Variant "sub_ecu_unisia_jecs_20_bootmode" "M32R_128KB" 0x20000 false;
    Build_Variant "sub_ecu_unisia_jecs_30_bootmode" "M32R_256KB" 0x40000 false ].
Definition kReadBase : Z := 0x100000.
Definition kWire : JecsM32rSession :=
  {| session_initial_baud := 4800; session_tester_id := 0xf0; session_target_id := 0x10 |}.
Definition find_by_protocol (variants : list Variant) (protocol : string) : option Variant :=
  List.find (fun v => String.eqb (variant_protocol v) protocol) variants.
Definition FindVariant (protocol mcu : string) : result Error Variant :=
  let variant := match find_by_protocol kVariants protocol with
                 | Some v => Some v
                 | None => find_by_protocol kBootModeReadVariants protocol
                 end in
  match variant with
  | Some v =>
      if negb (String.eqb (variant_mcu v) mcu) then
        Fail kInvalidConfig ("Unisia Jecs M32R protocol '" +:+ protocol +:+ "' does not match MCU '" +:+ mcu +:+ "'")
      else if negb (match FindFlashDevice mcu with
                    | Some d => (romsize d =? rom_size v) && present (fblocks d) && (start (block_at (fblocks d) 0) =? 0)
                    | None => false
                    end) then
        Fail kInvalidConfig "Unisia Jecs M32R memory map is invalid"
      else Ok v
  | None => Fail kInvalidConfig ("Unisia Jecs M32R protocol '" +:+ protocol +:+ "' does not match MCU '" +:+ mcu +:+ "'")
  end.
Definition CheckOperation (v : Variant) (op : FlashOperation) : Status :=
  if bool_decide (op = kTestWrite) then Fail kUnsupported "Unisia Jecs M32R has no test write"
  else if bool_decide (op = kWrite) && negb (writable v) then
    Fail kUnsupported (variant_protocol v +:+ " is read-only")
  else Ok tt.
Definition RegionFor (v : Variant) (op : FlashOperation) : MemoryRegion :=
  {| reg_start := if bool_decide (op = kRead) then kReadBase else 0; reg_length := rom_size v |}.
Definition ValidateWriteShape (plan : FlashPlan) (v : Variant) : Status :=
  if negb (image_size_is (Image plan) (rom_size v)) then
    Fail kInvalidConfig "Unisia Jecs M32R write image must be exactly the ROM size"
  else if negb (match Confirmations plan with
                | [] => true
                | [c] => bool_decide (conf_id c = kApplyProgrammingVoltage)
                | _ => false
                end) then
    Fail kInvalidConfig "Unisia Jecs M32R write confirmations are invalid"
  else Ok tt.
Definition As (p : FamilyPlan) : option JecsM32rSession :=
  match fp_value p with Some (SubaruUnisiaJecsM32rKlinePlan w) => Some w | _ => None end.
Definition Validate (plan : FlashPlan) : Status :=
  let! v := FindVariant (TargetId plan) (McuName plan) in
  let! _ := CheckOperation v (Operation plan) in
  if negb (bool_decide (As (family_plan (fields_ plan)) = Some kWire)) then
    Fail kInvalidConfig "Unisia Jecs M32R wire parameters are invalid"
  else if negb (bool_decide (EraseRegions plan = [])) || is_some (Kernel plan)
          || negb (bool_decide (TransferRegion plan = RegionFor v (Operation plan))) then
    Fail kInvalidConfig "Unisia Jecs M32R plan shape is invalid"
  else if bool_decide (Operation plan = kRead) then
    if is_some (Image plan) || negb (bool_decide (Confirmations plan = [])) then
      Fail kInvalidConfig "Unisia Jecs M32R read-plan shape is invalid"
    else Ok tt
  else ValidateWriteShape plan v.
(** [FamilyTraits<SubaruUnisiaJecsM32rKlinePlan>]. *)
Definition family : FamilyPlan :=
  {| fp_value := Some (SubaruUnisiaJecsM32rKlinePlan kWire); fp_family := kSubaruUnisiaJecsM32rKline;
     fp_transport := kKline; RequiresKernel := false |}.
Definition ConfirmationsFor (op : FlashOperation) (adapter_supplies_programming_voltage : bool) : list ConfirmationSpec :=
  if bool_decide (op = kWrite) && negb adapter_supplies_programming_voltage then [confirm kApplyProgrammingVoltage] else [].
Definition fields_of (op : FlashOperation) (protocol_name mcu_type : string) (img : option (list Z)) (supplies : bool)
    (v : Variant) : FlashPlanFields := {|
  operation := op; target_id := protocol_name; mcu_name := mcu_type; transfer_region := RegionFor v op; erase_regions := [];
  image := img; image_map := None; kernel := None; family_plan := family; confirmations := ConfirmationsFor op supplies
|}.
Definition Build (op : FlashOperation) (protocol_name mcu_type : string) (img : option (list Z))
    (adapter_supplies_programming_voltage : bool) : result Error FlashPlan :=
  let! v := FindVariant protocol_name mcu_type in
  let! _ := CheckOperation v op in
  let! _ :=
    if bool_decide (op = kRead) then
      if is_some img then Fail kInvalidConfig "Unisia Jecs M32R read plans must not carry an image" else Ok tt
    else if negb (image_size_is img (rom_size v)) then
      Fail kInvalidConfig (variant_protocol v +:+ " write image must be exactly " +:+ fmt_d (rom_size v) +:+ " bytes, not "
                           +:+ fmt_d (image_length img))
    else Ok tt in
  ValidatedPlan Validate (fields_of op protocol_name mcu_type img adapter_supplies_programming_voltage v).
Definition Protocols : list string := map variant_protocol kVariants.
End JecsM32rKline.

(** ** [subaru_unisia_jecs_m32r_bootmode_plan.cpp] *)
Module JecsM32rBootMode.
Record Variant := { variant_protocol : string; variant_mcu : string; rom_size : Z }.
Definition kVariants : list Variant :=
  [ Build_Variant "sub_ecu_unisia_jecs_20_bootmode" "M32R_128KB" 0x20000;
    Build_Variant "sub_ecu_unisia_jecs_30_bootmode" "M32R_256KB" 0x40000 ].
Definition kChunk : Z := 0x80.
Definition kKernelWire : JecsM32rSession :=
  {| session_initial_baud := 39063; session_tester_id := 0xf0; session_target_id := 0x10 |}.
Definition kProgramWire : JecsM32rSession :=
  {| session_initial_baud := 19200; session_tester_id := 0xf0; session_target_id := 0x10 |}.
Definition FindVariant (protocol mcu : string) : result Error Variant :=
  match List.find (fun v => String.eqb (variant_protocol v) protocol) kVariants with
  | Some v =>
      if negb (String.eqb (variant_mcu v) mcu) then
        Fail kInvalidConfig ("Unisia Jecs M32R bootmode protocol '" +:+ protocol +:+ "' does not match MCU '" +:+ mcu +:+ "'")
      else if negb (match FindFlashDevice mcu with Some d => romsize d =? rom_size v | None => false end) then
        Fail kInvalidConfig "Unisia Jecs M32R bootmode memory map is invalid"
      else Ok v
  | None =>
      Fail kInvalidConfig ("Unisia Jecs M32R bootmode protocol '" +:+ protocol +:+ "' does not match MCU '" +:+ mcu +:+ "'")
  end.
Definition CheckOperation (op : FlashOperation) : Status :=
  if negb (bool_decide (op = kWrite)) then Fail kUnsupported "Unisia Jecs M32R bootmode supports only Write here" else Ok tt.
Definition VoltageConfirmation : list ConfirmationSpec := [confirm kApplyBootModeVoltages].
Definition HasOnlyVoltageConfirmation (plan : FlashPlan) : bool :=
  match Confirmations plan with [c] => bool_decide (conf_id c = kApplyBootModeVoltages) | _ => false end.
Definition WireMatches (wire expected : JecsM32rSession) : bool := bool_decide (wire = expected).
Definition ValidateKernelPlan (plan : FlashPlan) : Status :=
  if negb (match fp_value (family_plan (fields_ plan)) with
           | Some (SubaruUnisiaJecsM32rBootModeKernelPlan w) => WireMatches w kKernelWire
           | _ => false
           end) then Fail kInvalidConfig "Unisia Jecs M32R bootmode kernel wire parameters are invalid"
  else if negb (match Image plan with
                | Some i => negb (zlen i =? 0) && (zlen i mod kChunk =? 0)
                            && bool_decide (TransferRegion plan = {| reg_start := 0; reg_length := u32 (zlen i) |})
                | None => false
                end) then Fail kInvalidConfig "Unisia Jecs M32R bootmode kernel image shape is invalid"
  else Ok tt.
Definition ValidateProgram (plan : FlashPlan) (v : Variant) : Status :=
  if negb (match fp_value (family_plan (fields_ plan)) with
           | Some (SubaruUnisiaJecsM32rBootModeProgramPlan w) => WireMatches w kProgramWire
           | _ => false
           end) then Fail kInvalidConfig "Unisia Jecs M32R bootmode program wire parameters are invalid"
  else if negb (image_size_is (Image plan) (rom_size v))
          || negb (bool_decide (TransferRegion plan = {| reg_start := 0; reg_length := rom_size v |})) then
    Fail kInvalidConfig "Unisia Jecs M32R bootmode write image must be exactly the ROM size"
  else Ok tt.
Definition Validate (plan : FlashPlan) : Status :=
  let kernel := bool_decide (Family plan = kSubaruUnisiaJecsM32rBootModeKernel) in
  let! v := FindVariant (TargetId plan) (McuName plan) in
  let! _ := CheckOperation (Operation plan) in
  if negb (bool_decide (EraseRegions plan = [])) || is_some (Kernel plan) || negb (HasOnlyVoltageConfirmation plan) then
    Fail kInvalidConfig "Unisia Jecs M32R bootmode plan shape is invalid"
  else if kernel then ValidateKernelPlan plan else ValidateProgram plan v.
(** [FamilyTraits] of the two plan types. *)
Definition kernel_family : FamilyPlan :=
  {| fp_value := Some (SubaruUnisiaJecsM32rBootModeKernelPlan kKernelWire);
     fp_family := kSubaruUnisiaJecsM32rBootModeKernel; fp_transport := kKline; RequiresKernel := false |}.
Definition program_family : FamilyPlan :=
  {| fp_value := Some (SubaruUnisiaJecsM32rBootModeProgramPlan kProgramWire);
     fp_family := kSubaruUnisiaJecsM32rBootModeProgram; fp_transport := kKline; RequiresKernel := false |}.
Definition fields_of (v : Variant) (img : list Z) (wire : FamilyPlan) : FlashPlanFields := {|
  operation := kWrite; target_id := variant_protocol v; mcu_name := variant_mcu v;
  transfer_region := {| reg_start := 0; reg_length := u32 (zlen img) |}; erase_regions := []; image := Some img;
  image_map := None; kernel := None; family_plan := wire; confirmations := VoltageConfirmation
|}.
Definition Build (v : Variant) (img : list Z) (wire : FamilyPlan) : result Error FlashPlan :=
  ValidatedPlan Validate (fields_of v img wire).
Definition PadKernel (k : list Z) : list Z := k ++ zrepeat (padded_size kChunk (zlen k) - zlen k) 0.
Definition BuildKernelPlan (op : FlashOperation) (protocol_name mcu_type : string) (k : list Z) : result Error FlashPlan :=
  let! v := FindVariant protocol_name mcu_type in
  let! _ := CheckOperation op in
  if zlen k =? 0 then Fail kInvalidConfig "Unisia Jecs M32R bootmode kernel file is empty"
  else Build v (PadKernel k) kernel_family.
Definition BuildProgramPlan (op : FlashOperation) (protocol_name mcu_type : string) (img : option (list Z))
    : result Error FlashPlan :=
  let! v := FindVariant protocol_name mcu_type in
  let! _ := CheckOperation op in
  match img with
  | Some i =>
      if negb (zlen i =? rom_size v) then
        Fail kInvalidConfig (variant_protocol v +:+ " write image must be exactly " +:+ fmt_d (rom_size v) +:+ " bytes, not "
                             +:+ fmt_d (zlen i))
      else Build v i program_family
  | None => Fail kInvalidConfig (variant_protocol v +:+ " write image must be exactly " +:+ fmt_d (rom_size v)
                                 +:+ " bytes, not " +:+ fmt_d 0)
  end.
Definition Protocols : list string := map variant_protocol kVariants.
(** [SubaruUnisiaJecsM32rBootModePlans]. *)
Record BootModePlans := { first : option FlashPlan; program : option FlashPlan }.
Definition Prepare (op : FlashOperation) (protocol : ProtocolSpec) (paths : ConfigPaths) (rom_file : option (list Z))
    (files : repository) : result Error BootModePlans :=
  if bool_decide (op = kRead) then
    let! read := JecsM32rKline.Build kRead (Catalog.name protocol) (Catalog.mcu protocol) None true in
    Ok {| first := Some read; program := None |}
  else
    let! program := BuildProgramPlan op (Catalog.name protocol) (Catalog.mcu protocol) rom_file in
    let! kernel_bytes := ReadProtocolKernelBytes protocol paths files in
    let! k := BuildKernelPlan op (Catalog.name protocol) (Catalog.mcu protocol) kernel_bytes in
    Ok {| first := Some k; program := Some program |}.
End JecsM32rBootMode.

(** ** [src/backend/flash/eeprom/denso_sh705x_eeprom_common.cpp], [eeprom_read_plan.cpp] *)
Module DensoEeprom.
Definition kKlinePayloadAlignment : Z := 4.
Definition kKlineChecksumBypassBytes : Z := 4.
Definition kCanUploadBlockBytes : Z := 128.
Definition CheckedAlignUp (value alignment : Z) : result Error Z :=
  if (kU32Max <? value) || (kU32Max - (alignment - 1) <? value) then
    Fail kInvalidConfig "kernel upload size overflows uint32_t"
  else Ok (Z.land (u32 (value + alignment - 1)) (Z.lnot (alignment - 1))).
Record UploadSizes := { payload_bytes : Z; ram_footprint_bytes : Z }.
Definition ComputeUploadSizes (family : FlashFamily) (raw_kernel_bytes : Z) : result Error UploadSizes :=
  match family with
  | kDensoSh705xEepromKline =>
      let! payload := CheckedAlignUp raw_kernel_bytes kKlinePayloadAlignment in
      if kU32Max - kKlineChecksumBypassBytes <? payload then
        Fail kInvalidConfig "K-Line kernel upload footprint overflows uint32_t"
      else Ok {| payload_bytes := payload; ram_footprint_bytes := payload + kKlineChecksumBypassBytes |}
  | kDensoSh705xEepromCan =>
      let! payload := CheckedAlignUp raw_kernel_bytes kCanUploadBlockBytes in
      Ok {| payload_bytes := payload; ram_footprint_bytes := payload |}
  | _ => Fail kInvalidConfig "unsupported family for Denso SH705x EEPROM kernel upload"
  end.
Definition ResolveSh705xEepromRegion (mcu : string) : result Error MemoryRegion :=
  if String.eqb mcu "SH7055" then Ok {| reg_start := 0x00000000; reg_length := 0x00000100 |}
  else if String.eqb mcu "SH7058" then Ok {| reg_start := 0x00000000; reg_length := 0x00000100 |}
  else Fail kInvalidConfig ("unknown SH705x mcu_name: " +:+ mcu).
Record McuBounds := { eeprom : MemoryRegion; kernel_ram : MemoryRegion }.
Definition ResolveMcuBounds (mcu : string) : result Error McuBounds :=
  let! eeprom := ResolveSh705xEepromRegion mcu in
  if String.eqb mcu "SH7055" then
    Ok {| eeprom := eeprom; kernel_ram := {| reg_start := 0xFFFF6004; reg_length := 0x00006000 |} |}
  else if String.eqb mcu "SH7058" then
    Ok {| eeprom := eeprom; kernel_ram := {| reg_start := 0xFFFF3000; reg_length := 0x00009000 |} |}
  else Fail kInvalidConfig ("unknown SH705x mcu_name: " +:+ mcu).
Definition KlineSupports (security : DensoSecurityVariant) : bool :=
  bool_decide (security = kVariantStock) || bool_decide (security = kVariantEcuTek).
Definition ConfirmationsForMode (mode : EepromReadMode) : list ConfirmationSpec :=
  if bool_decide (mode = kMode2) then [confirm kBeginEepromRead; confirm kInspectEepromBytes]
  else [confirm kBeginEepromRead; confirm kCycleIgnition; confirm kInspectEepromBytes].
(** [DensoSh705xEepromInput]. *)
Record Input := {
  in_operation : FlashOperation; in_family : FlashFamily; in_target_id : string; in_mcu_name : string; in_kernel : KernelImage;
  in_mode : EepromReadMode; in_security : DensoSecurityVariant; in_region : MemoryRegion
}.
Definition ValidateKernelPlacement (input : Input) (kernel_ram : MemoryRegion) (kernel_size : option Z) : Status :=
  let ram_end := reg_start kernel_ram + reg_length kernel_ram in
  let load := load_address (in_kernel input) in
  if (load <? reg_start kernel_ram) || (ram_end <=? load) then
    Fail kInvalidConfig "kernel load range is outside the SH705x RAM region"
  else match kernel_size with
  | None => Ok tt
  | Some size =>
      let! sizes := ComputeUploadSizes (in_family input) size in
      if ram_end - load <? ram_footprint_bytes sizes then
        Fail kInvalidConfig "kernel upload footprint is outside the SH705x RAM region"
      else Ok tt
  end.
Definition ValidatePreflight (input : Input) (kernel_size : option Z) : Status :=
  if negb (bool_decide (in_family input = kDensoSh705xEepromKline))
     && negb (bool_decide (in_family input = kDensoSh705xEepromCan)) then
    Fail kInvalidConfig "unsupported family for Denso SH705x EEPROM builder"
  else if negb (bool_decide (in_operation input = kRead)) then
    Fail kUnsupported "Denso SH705x EEPROM write/test_write is not implemented"
  else if negb (bool_decide (in_mode input = kMode2)) && negb (bool_decide (in_mode input = kMode3))
          && negb (bool_decide (in_mode input = kMode4)) then
    Fail kInvalidConfig "EEPROM mode must be 2, 3, or 4"
  else
    let! bounds := ResolveMcuBounds (in_mcu_name input) in
    if negb (bool_decide (in_region input = eeprom bounds)) then
      Fail kInvalidConfig "eeprom_region does not match the resolved MCU table entry"
    else
      let! _ := ValidateKernelPlacement input (kernel_ram bounds) kernel_size in
      if bool_decide (in_family input = kDensoSh705xEepromKline) && negb (KlineSupports (in_security input)) then
        Fail kInvalidConfig "security variant is not supported on the K-Line transport"
      else Ok tt.
(** [FamilyTraits] of the two plan types. *)
Definition family_of (input : Input) : FamilyPlan :=
  if bool_decide (in_family input = kDensoSh705xEepromKline) then
    {| fp_value := Some (EepromKlinePlan {| ek_mode := in_mode input; ek_security := in_security input; ek_tester_id := 0xf0;
                                            ek_target_id := 0x10; ek_initial_baud := 4800; ek_kernel_baud := 15625 |});
       fp_family := kDensoSh705xEepromKline; fp_transport := kKline; RequiresKernel := true |}
  else
    {| fp_value := Some (EepromCanPlan {| ec_mode := in_mode input; ec_security := in_security input;
                                          ec_can := can_wire 0x7e0 0x7e8 |});
       fp_family := kDensoSh705xEepromCan; fp_transport := kCanIso15765; RequiresKernel := true |}.
Definition fields_of (input : Input) : FlashPlanFields := {|
  operation := kRead; target_id := in_target_id input; mcu_name := in_mcu_name input; transfer_region := in_region input;
  erase_regions := []; image := None; image_map := None; kernel := Some (in_kernel input); family_plan := family_of input;
  confirmations := ConfirmationsForMode (in_mode input)
|}.
Definition BuildDensoSh705xEepromPlan (input : Input) : result Error FlashPlan :=
  let! _ := ValidatePreflight input (Some (zlen (kernel_bytes (in_kernel input)))) in
  ValidateAndBuild (fields_of input).
Definition mode_and_security (p : FamilyPlan) : option (EepromReadMode * DensoSecurityVariant) :=
  match fp_value p with
  | Some (EepromKlinePlan w) => Some (ek_mode w, ek_security w)
  | Some (EepromCanPlan w) => Some (ec_mode w, ec_security w)
  | _ => None
  end.
Definition Validate (plan : FlashPlan) : Status :=
  match Kernel plan with
  | None => Fail kInvalidConfig "Denso SH705x EEPROM plan requires a kernel image"
  | Some k =>
      match mode_and_security (family_plan (fields_ plan)) with
      | None => Fail kInvalidConfig "plan is not a Denso SH705x EEPROM plan"
      | Some (mode, security) =>
          ValidatePreflight
            {| in_operation := Operation plan; in_family := Family plan; in_target_id := TargetId plan;
               in_mcu_name := McuName plan;
               in_kernel := {| kernel_id := kernel_id k; load_address := load_address k; kernel_bytes := [] |};
               in_mode := mode; in_security := security; in_region := TransferRegion plan |}
            (Some (zlen (kernel_bytes k)))
      end
  end.
Definition kKlineProtocols : list string :=
  ["sub_ecu_eeprom_denso_sh7055_kline"%string; "sub_ecu_eeprom_denso_sh7058_kline"%string].
Definition kCanProtocols : list string :=
  ["sub_ecu_eeprom_denso_sh7055_densocan"%string; "sub_ecu_eeprom_denso_sh7058_densocan"%string;
   "sub_ecu_eeprom_denso_sh7058_can"%string; "sub_ecu_eeprom_denso_sh7058_can_diesel"%string].
Definition SecurityForProtocol (protocol_name : string) : result Error DensoSecurityVariant :=
  if DensoMc68.ends_with protocol_name "_ecutek_racerom_alt" then
    Fail kInvalidConfig "_ecutek_racerom_alt is not supported by the portable EEPROM path"
  else if DensoMc68.ends_with protocol_name "_cobb" then Ok kVariantCobb
  else if DensoMc68.ends_with protocol_name "_ecutek_racerom" then Ok kVariantEcuTekRaceRom
  else if DensoMc68.ends_with protocol_name "_ecutek" then Ok kVariantEcuTek
  else Ok kVariantStock.
Definition input_of (family : FlashFamily) (protocol : ProtocolSpec) (mode : EepromReadMode) (security : DensoSecurityVariant)
    (region : MemoryRegion) (load : Z) (bytes : list Z) : Input := {|
  in_operation := kRead; in_family := family; in_target_id := Catalog.name protocol; in_mcu_name := Catalog.mcu protocol;
  in_kernel := {| kernel_id := Catalog.name protocol +:+ "-kernel"; load_address := load; kernel_bytes := bytes |};
  in_mode := mode; in_security := security; in_region := region
|}.
Definition BuildEepromReadPlan (family : FlashFamily) (paths : ConfigPaths) (protocol : ProtocolSpec) (mode : EepromReadMode)
    (file_repository : repository) : result Error FlashPlan :=
  match Catalog.kernel_load_address protocol with
  | None => Fail kInvalidConfig ("protocol '" +:+ Catalog.name protocol +:+ "' declares no kernel load address")
  | Some load =>
      let! region := ResolveSh705xEepromRegion (Catalog.mcu protocol) in
      let! security := SecurityForProtocol (Catalog.name protocol) in
      let input := input_of family protocol mode security region load in
      let! _ := ValidatePreflight (input []) None in
      let! kernel_bytes := file_repository (KernelFileHandle paths (Catalog.kernel protocol)) in
      BuildDensoSh705xEepromPlan (input kernel_bytes)
  end.
End DensoEeprom.
