(* ===== verification/FlashExecution.v ===== *)
(** * FlashExecution: running a flash plan over CAN

    [src/backend/flash/flash_executor.h] (plan admission, the bound attempt and
    its transport lifetime), [guarded_flash_execution.cpp],
    [ecu/flash_phase_progress.h], [ecu/uds_client_exchange_common.cpp] and
    [ecu/bootloader_operation.h]. *)
From S2P Require Import Prelude Bytes Uds Ports UdsClient CanFlash FlashDevices FlashPlan.

(** ** [flash_executor.h]: executors, admission and attempts *)
Record FlashExecutionResult :=
  { res_operation : FlashOperation; read_bytes : option (list Z); rom_id : option string }.
Record ICanFlashExecutor := {
  TransportSetup : FlashPlan -> result Error Iso15765Config;
  BeforeTransportConfigure : CanFlashTransport -> M Status;
  BeforeTransportOpen : M Status;
  Execute : FlashPlan -> CanFlashTransport -> M (result Error FlashExecutionResult)
}.
Definition CheckFamily (plan : FlashPlan) (expected_family : FlashFamily) : Status :=
  if decide (Family plan = expected_family) then Ok tt
  else Fail kInvalidConfig "plan family does not match this executor".
Section execution.
Context `{Env}.
(** [Iso15765ConfigFrom] and a policy that only sets its read timeout. *)
Definition Iso15765ConfigFrom (plan : CanPlan) : Iso15765Config :=
  {| bitrate := can_bitrate plan; cfg_request_id := can_request_id plan; cfg_response_id := can_response_id plan;
     extended_id := can_extended_id plan |}.
Definition policy_within (timeout : Z) : ExchangePolicy :=
  {| pre_read_delay := pre_read_delay default_policy; read_timeout := timeout;
     pending_timeout := pending_timeout default_policy; max_pending_repeats := max_pending_repeats default_policy |}.
(** [FamilyExecutor]: [get] is [FamilyPlan::Get] of the plan type, which throws
    [std::bad_any_cast] on another type. *)
Definition FamilyExecutor {Plan : Type} (family : FlashFamily) (get : FamilyPlan -> option Plan)
    (validate : FlashPlan -> Status) (Setup : Plan -> result Error Iso15765Config)
    (Run : Plan -> FlashPlan -> CanFlashTransport -> M (result Error FlashExecutionResult)) : ICanFlashExecutor :=
  let CheckPlan (plan : FlashPlan) : Status := let! _ := CheckFamily plan family in validate plan in
  let bad_any_cast {A} : result Error A := Fail kInternal "std::bad_any_cast" in
  {| TransportSetup := fun plan =>
       let! _ := CheckPlan plan in
       match get (family_plan (fields_ plan)) with Some p => Setup p | None => bad_any_cast end;
     BeforeTransportConfigure := fun _ => ret (Ok tt);
     BeforeTransportOpen := ret (Ok tt);
     Execute := fun plan transport =>
       match CheckPlan plan with
       | Err e => ret (Err e)
       | Ok _ =>
           do cancelled <- Cancelled;
           if cancelled then ret (Fail kCancelled "cancelled before setup")
           else match get (family_plan (fields_ plan)) with
                | Some p => Run p plan transport
                | None => ret bad_any_cast
                end
       end |}.
(** [ExecuteWithTransportGuard]. *)
Definition ExecuteWithTransportGuard (executor : ICanFlashExecutor) (plan : FlashPlan) (transport : CanFlashTransport)
    : M (result Error FlashExecutionResult) :=
  Execute executor plan (GuardedCanFlashTransport transport).
(** [BoundAttempt::Run]. *)
Definition BoundAttempt_Run (executor : ICanFlashExecutor) (plan : FlashPlan) (transport : CanFlashTransport)
    : M (result Error FlashExecutionResult) :=
  do opened <-
    match TransportSetup executor plan with
    | Err e => ret (Err e)
    | Ok setup =>
        do! _ <- (do cancelled <- Cancelled;
                  if cancelled then ret (Fail kCancelled "cancelled before configure")
                  else do! _ <- BeforeTransportConfigure executor transport; Configure transport setup);
        do! _ <- BeforeTransportOpen executor;
        Open transport
    end;
  match opened with
  | Err e => ret (Err e)
  | Ok _ =>
      do outcome <- ExecuteWithTransportGuard executor plan transport;
      do closed <- Close transport;
      match outcome, closed with
      | Err e, Err _ => do _ <- Log LWarning "close failed after execution error"; ret (Err e)
      | Err e, Ok _ => ret (Err e)
      | Ok _, Err e => ret (Err e)
      | Ok r, Ok _ => ret (Ok r)
      end
  end.

(** ** [ecu/flash_phase_progress.h] *)
Record PhaseReporter := { pr_name : string; pr_index : Z; pr_count : Z; pr_total : Z; pr_last : Z }.
Definition Emit (p : PhaseReporter) (d : Z) : M PhaseReporter :=
  do _ <- PhaseProgress {| phase_name := pr_name p; phase_index := pr_index p; phase_count := pr_count p;
                           done_ := d; total_ := pr_total p |};
  ret {| pr_name := pr_name p; pr_index := pr_index p; pr_count := pr_count p; pr_total := pr_total p; pr_last := d |}.
Definition clamp (v lo hi : Z) : Z := if v <? lo then lo else if hi <? v then hi else v.
Definition Update (p : PhaseReporter) (d : Z) : M PhaseReporter :=
  let maximum_incomplete := Z.max 0 (pr_total p - 1) in
  let next := clamp d (pr_last p) maximum_incomplete in
  if next =? pr_last p then ret p else Emit p next.
Definition Complete (p : PhaseReporter) : M PhaseReporter :=
  if pr_last p =? pr_total p then ret p else Emit p (pr_total p).
(** [PhaseSequence]: the phases' count and the index of the last one started. *)
Record PhaseSequence := { seq_count : Z; seq_index : Z }.
Definition Start (s : PhaseSequence) (name : string) (total : Z) : M (PhaseReporter * PhaseSequence) :=
  let index := seq_index s + 1 in
  do p <- Emit {| pr_name := name; pr_index := index; pr_count := seq_count s; pr_total := total; pr_last := 0 |} 0;
  ret (p, {| seq_count := seq_count s; seq_index := index |}).

(** ** [ecu/uds_client_exchange_common.cpp] *)
Definition ReportExchangeFailure (failure : Error) (rejection_prefix operation : string) : M Error :=
  match kind failure with
  | kCancelled =>
      match cancellation_io_exposure failure with
      | kRefusedBeforeDelegation => ret failure
      | kMayHaveStarted =>
          do _ <- Log LWarning ("Cancelled by operator during " +:+ operation
             +:+ " -- this is not an ECU rejection. The request may already have reached the ECU "
             +:+ "and still be running there; check the unit before power-cycling it.");
          ret failure
      end
  | _ => do _ <- Log LError (rejection_prefix +:+ detail failure); ret failure
  end.
(** [UdsExchangeContext]: the channel the client runs over, and the policy. *)
Record UdsExchangeContext := { ctx_channel : UdsChannel; ctx_policy : ExchangePolicy }.
Definition FatalRequest (ctx : UdsExchangeContext) (pdu : list Z) (rejection_prefix operation : string)
    : M (result Error (list Z)) :=
  do reply <- Request (ctx_channel ctx) pdu (ctx_policy ctx);
  match reply with
  | Err e => do e <- ReportExchangeFailure e rejection_prefix operation; ret (Err e)
  | Ok frame => ret (Ok frame)
  end.
Definition NonFatalQuery (ctx : UdsExchangeContext) (pdu : list Z) (expected_subfunction : option Z)
    (rejection_prefix label : string) : M unit :=
  do reply <- Request (ctx_channel ctx) pdu (ctx_policy ctx);
  match reply with
  | Err e => Log LError (rejection_prefix +:+ detail e)
  | Ok frame =>
      let payload := Payload frame in
      if match expected_subfunction with
         | Some s => (zlen payload =? 0) || negb (zget payload 0 =? s)
         | None => false
         end
      then Log LError (rejection_prefix +:+ "unexpected subfunction")
      else Log LInfo (label +:+ ": " +:+ ToHex payload)
  end.
Definition starts_with (prefix l : list Z) : bool := bool_decide (prefix = ztake (zlen prefix) l).
Definition FatalQuery (ctx : UdsExchangeContext) (pdu expected_prefix : list Z) (rejection_prefix subject : string)
    (min_payload_size : option Z) : M (result Error (list Z)) :=
  do! reply <- FatalRequest ctx pdu rejection_prefix ("the " +:+ subject);
  let payload := Payload reply in
  let required_size := default (zlen expected_prefix) min_payload_size in
  if (zlen payload <? required_size) || negb (starts_with expected_prefix payload) then
    do _ <- Log LError (rejection_prefix +:+ "unexpected " +:+ subject +:+ " response");
    ret (Fail kBadResponse (subject +:+ " rejected"))
  else ret (Ok reply).
Definition kSessionKernelJump : Z := 0x42.
Definition UnlockAndKernelJump (ctx : UdsExchangeContext) (rejection_prefix : string) (seed_key : list Z -> list Z)
    : M Status :=
  do _ <- Log LInfo "Requesting seed";
  do! seed_reply <- FatalQuery ctx [kSidSecurityAccess; kSecurityAccessRequestSeed] [kSecurityAccessRequestSeed]
                      rejection_prefix "seed request" (Some 5);
  do _ <- Log LInfo "Seed request ok";
  let key := seed_key (subspan (Payload seed_reply) 1 4) in
  do _ <- Log LInfo "Sending seed key";
  do! _ <- FatalQuery ctx (ComposeBe [FByte kSidSecurityAccess; FByte kSecurityAccessSendKey; FBytes key])
             [kSecurityAccessSendKey] rejection_prefix "seed key" None;
  do _ <- Log LInfo "Seed key ok";
  do _ <- Log LInfo "Jumping to onboard kernel...";
  do! _ <- FatalQuery ctx [kSidDiagnosticSessionControl; kSessionKernelJump] [kSessionKernelJump]
             rejection_prefix "kernel jump" None;
  do _ <- Log LInfo "Jump to kernel ok";
  ret (Ok tt).
Definition kPageSize : Z := 0x100.
(** The request for the page at [addr]. *)
Definition page_request (addr : Z) : list Z := ComposeBe [FByte kSidReadMemoryChunk; FU24 addr].
Fixpoint read_pages (fuel : nat) (ctx : UdsExchangeContext) (rejection_prefix : string) (last : Z)
    (decrypt_page : list Z -> list Z) (addr : Z) (rom : list Z) (progress : PhaseReporter)
    : M (result Error (list Z * PhaseReporter)) :=
  match fuel with
  | O => ret (Ok (rom, progress))
  | S fuel =>
      if addr <? last then
        do! chunk <- FatalRequest ctx (page_request addr) rejection_prefix ("the flash read at 0x" +:+ fmt_x addr);
        let rom := rom ++ decrypt_page (Payload chunk) in
        do progress <- Update progress (zlen rom);
        read_pages fuel ctx rejection_prefix last decrypt_page (u32 (addr + kPageSize)) rom progress
      else ret (Ok (rom, progress))
  end.
(** The fuel is one more than the pages of the region. *)
Definition ReadEncryptedB7Pages (ctx : UdsExchangeContext) (rejection_prefix : string) (region : MemoryRegion)
    (decrypt_page : list Z -> list Z) (progress : PhaseReporter) : M (result Error (list Z * PhaseReporter)) :=
  do _ <- Log LInfo "Start reading ROM, please wait...";
  read_pages (Z.to_nat (reg_length region / kPageSize + 2)) ctx rejection_prefix
    (u32 (reg_start region + reg_length region)) decrypt_page (reg_start region) [] progress.

(** ** [ecu/bootloader_operation.h] *)
Definition RunBootloaderOperation (plan : FlashPlan) (unit_name : string)
    (connect : M Status)
    (read : PhaseReporter -> M (result Error (list Z * PhaseReporter)))
    (erase : M Status)
    (write : list Z -> PhaseReporter -> M (result Error PhaseReporter)) : M (result Error FlashExecutionResult) :=
  let reading := bool_decide (Operation plan = kRead) in
  let phases := {| seq_count := if reading then 2 else 3; seq_index := 0 |} in
  do (connecting, phases) <- Start phases "Connect" 1;
  do _ <- Log LInfo ("Connecting to " +:+ unit_name +:+ " CAN bootloader, please wait...");
  do! _ <- connect;
  do _ <- Complete connecting;
  if reading then
    do _ <- Notice "Reading ROM, please wait...";
    do _ <- Log LInfo ("Reading ROM from " +:+ unit_name +:+ " using CAN");
    do (read_phase, phases) <- Start phases "Read ROM" (reg_length (TransferRegion plan));
    do! (rom, read_phase) <- read read_phase;
    do _ <- Complete read_phase;
    ret (Ok {| res_operation := kRead; read_bytes := Some rom; rom_id := None |})
  else if negb (bool_decide (Operation plan = kWrite)) then
    ret (Fail kUnsupported ("test_write is not supported by the " +:+ unit_name +:+ " CAN family"))
  else
    do _ <- Notice "Writing ROM, please wait...";
    do _ <- Log LInfo ("Writing ROM to " +:+ unit_name +:+ " using CAN");
    do (erasing, phases) <- Start phases "Erase" 1;
    do! _ <- erase;
    do _ <- Complete erasing;
    do (writing, phases) <- Start phases "Write ROM" (reg_length (TransferRegion plan));
    do! writing <- write (ImageOrEmpty plan) writing;
    do _ <- Complete writing;
    ret (Ok {| res_operation := kWrite; read_bytes := None; rom_id := None |}).
End execution.

(** ** Reasoning by what a computation put on the bus and took from it *)
Definition does {A} (m : M A)
    (R : A -> list (list Z) -> list (result Error (option (list Z))) -> Prop) : Prop :=
  runs m (fun a d => R a (written d) (reads d)).
Definition quiet {A} (m : M A) : Prop := does m (fun _ w r => w = [] /\ r = []).
Lemma does_ret {A} (a : A) (R : A -> _ -> _ -> Prop) : R a [] [] -> does (ret a) R.
Proof. exact (runs_ret a (fun a d => R a (written d) (reads d))). Qed.
Lemma does_weaken {A} (m : M A) (P R : A -> _ -> _ -> Prop) :
  does m P -> (forall a w r, P a w r -> R a w r) -> does m R.
Proof. intros Hm HPR. apply (runs_weaken _ _ _ Hm). auto. Qed.
Lemma does_bind {A B} (m : M A) (k : A -> M B) P (R : B -> _ -> _ -> Prop) :
  does m P ->
  (forall a w1 r1, P a w1 r1 -> does (k a) (fun b w2 r2 => R b (w1 ++ w2) (r1 ++ r2))) -> does (bind m k) R.
Proof.
  intros Hm Hk t. destruct (Hm t) as (d1 & E1 & HP). unfold bind. destruct (m t) as [a t1]. cbn [fst snd] in *.
  subst t1. destruct (Hk a _ _ HP (t ++ d1)) as (d2 & E2 & HR). exists (d1 ++ d2).
  rewrite E2, <- app_assoc, written_app, reads_app. auto.
Qed.
Lemma does_quiet {A B} (m : M A) (k : A -> M B) (R : B -> _ -> _ -> Prop) :
  quiet m -> (forall a, does (k a) R) -> does (bind m k) R.
Proof. intros Hm Hk. apply (does_bind m k (fun _ w r => w = [] /\ r = []) R Hm). by intros a w r [-> ->]. Qed.
Lemma does_try {A B} (m : M (result Error A)) (k : A -> M (result Error B)) P (R : result Error B -> _ -> _ -> Prop) :
  does m P ->
  (forall a w1 r1, P (Ok a) w1 r1 -> does (k a) (fun b w2 r2 => R b (w1 ++ w2) (r1 ++ r2))) ->
  (forall e w r, P (Err e) w r -> R (Err e) w r) -> does (try m k) R.
Proof.
  intros Hm Hk He. apply (does_bind _ _ _ _ Hm). intros [a|e] w r HP; [by apply Hk|].
  apply does_ret. rewrite !app_nil_r. auto.
Qed.
Section execution_specs.
Context `{Env}.
Lemma quiet_bind {A B} (m : M A) (k : A -> M B) : quiet m -> (forall a, quiet (k a)) -> quiet (bind m k).
Proof. intros Hm Hk. by apply does_quiet. Qed.
Lemma quiet_ret {A} (a : A) : quiet (ret a).
Proof. by apply does_ret. Qed.
Lemma quiet_Log level message : quiet (Log level message).
Proof. by apply runs_Log. Qed.
Lemma quiet_Notice message : quiet (Notice message).
Proof. by apply runs_Notice. Qed.
Lemma quiet_Cancelled : quiet Cancelled.
Proof. by apply runs_Cancelled. Qed.
Lemma quiet_Sleep ms : quiet (Sleep ms).
Proof. by apply runs_Sleep. Qed.
Lemma quiet_Emit p d : quiet (Emit p d).
Proof. apply quiet_bind; [by apply runs_PhaseProgress|]. intros. apply quiet_ret. Qed.
Lemma quiet_Update p d : quiet (Update p d).
Proof. unfold Update. destruct (_ =? _); [apply quiet_ret|apply quiet_Emit]. Qed.
Lemma quiet_Complete p : quiet (Complete p).
Proof. unfold Complete. destruct (_ =? _); [apply quiet_ret|apply quiet_Emit]. Qed.
Lemma quiet_Start s name total : quiet (Start s name total).
Proof. apply quiet_bind; [apply quiet_Emit|]. intros. apply quiet_ret. Qed.
(** A failure is reported without changing it. *)
Lemma does_ReportExchangeFailure e p o : does (ReportExchangeFailure e p o) (fun e' w r => e' = e /\ w = [] /\ r = []).
Proof.
  unfold ReportExchangeFailure.
  destruct (kind e); [..|destruct (cancellation_io_exposure e)| |];
    try (by apply does_ret); apply does_quiet; auto using quiet_Log; intros; by apply does_ret.
Qed.

Lemma quiet_adapter config :
  quiet (Configure adapter config) /\ quiet (Open adapter) /\ quiet (Close adapter).
Proof. split_and!; by apply runs_call. Qed.
Context (ctx : UdsExchangeContext) (wrap : list Z -> list Z) (unwrap : list Z -> option (list Z))
  {HC : ChannelSpec (ctx_channel ctx) wrap unwrap}.
(** The reply to a request, as the last frame read. *)
Definition answered (sid : Z) (frame : list Z) (r : list (result Error (option (list Z)))) : Prop :=
  Matches (ParseResponse frame) sid = true
  /\ exists pend raw, r = pend ++ [Ok (Some raw)] /\ unwrap raw = Some frame.
Definition sends_once (pdu : list Z) (res : result Error (list Z)) (w : list (list Z))
    (r : list (result Error (option (list Z)))) : Prop :=
  (w = [] \/ w = [wrap pdu])
  /\ forall frame, res = Ok frame -> w = [wrap pdu] /\ answered (zget pdu 0) frame r.
Lemma does_Request pdu policy : does (Request (ctx_channel ctx) pdu policy) (sends_once pdu).
Proof.
  apply (runs_weaken _ _ _ (runs_Request (ctx_channel ctx) wrap unwrap pdu policy)).
  intros res d (W & _ & _ & Hok). rewrite written_writes. split.
  - destruct W as [-> | [a ->]]; [by left|by right].
  - intros frame E. destruct (Hok frame E) as (-> & Hm & pend & raw & R & _ & U). split; [done|].
    split; [done|]. by exists pend, raw.
Qed.
Lemma does_FatalRequest pdu p o : does (FatalRequest ctx pdu p o) (sends_once pdu).
Proof.
  apply (does_bind _ _ _ _ (does_Request pdu (ctx_policy ctx))). intros [frame|e] w r [Hw Hok].
  - apply does_ret. rewrite !app_nil_r. done.
  - apply (does_bind _ _ _ _ (does_ReportExchangeFailure e p o)). intros e' w' r' (-> & -> & ->).
    apply does_ret. rewrite !app_nil_r. split; [done|]. by intros frame.
Qed.
Lemma does_NonFatalQuery pdu s p l :
  does (NonFatalQuery ctx pdu s p l) (fun _ w _ => w = [] \/ w = [wrap pdu]).
Proof.
  apply (does_bind _ _ _ _ (does_Request pdu (ctx_policy ctx))). intros res w r [Hw _].
  assert (forall level message, does (Log level message) (fun _ w2 r2 => w ++ w2 = [] \/ w ++ w2 = [wrap pdu])) as Hlog.
  { intros level message. eapply does_weaken; [apply quiet_Log|]. cbn. intros _ ? ? [-> _]. by rewrite app_nil_r. }
  destruct res; [|apply Hlog]. cbv zeta. case_match; apply Hlog.
Qed.
Lemma does_FatalQuery pdu prefix p subject m :
  does (FatalQuery ctx pdu prefix p subject m) (fun res w r => sends_once pdu res w r
    /\ forall frame, res = Ok frame -> default (zlen prefix) m <= zlen (Payload frame)
         /\ prefix = ztake (zlen prefix) (Payload frame)).
Proof.
  apply (does_try _ _ _ _ (does_FatalRequest pdu p ("the " +:+ subject))).
  - intros frame w1 r1 [Hw Hok]. cbv zeta. destruct (Z.ltb_spec (zlen (Payload frame)) (default (zlen prefix) m)); cbn [orb].
    + apply does_quiet; [apply quiet_Log|]. intros _. apply does_ret. rewrite !app_nil_r. by repeat split.
    + unfold starts_with. case_bool_decide as Hp; cbn [negb].
      * apply does_ret. rewrite !app_nil_r. split; [done|]. intros f [= <-]. done.
      * apply does_quiet; [apply quiet_Log|]. intros _. apply does_ret. rewrite !app_nil_r. by repeat split.
  - intros e w r [Hw _]. by repeat split.
Qed.
End execution_specs.
#[global] Hint Resolve quiet_ret quiet_Log quiet_Notice quiet_Cancelled quiet_Sleep quiet_Emit quiet_Update
  quiet_Complete quiet_Start : ports.

(** ** The life of the transport during an attempt *)
Definition is_lifecycle (ev : event) : bool :=
  match ev with EvConfigure _ _ | EvOpen _ | EvClose _ => true | _ => false end.
(** The configure, open and close calls of a stretch of the trace. *)
Definition lifecycle (d : trace) : trace := List.filter is_lifecycle d.
(** A computation that leaves the transport's state alone. *)
Definition steady {A} (m : M A) : Prop := runs m (fun _ d => lifecycle d = []).
Lemma lifecycle_app d1 d2 : lifecycle (d1 ++ d2) = lifecycle d1 ++ lifecycle d2.
Proof. apply List.filter_app. Qed.
Lemma steady_ret {A} (a : A) : steady (ret a).
Proof. by apply runs_ret. Qed.
Lemma steady_bind {A B} (m : M A) (k : A -> M B) : steady m -> (forall a, steady (k a)) -> steady (bind m k).
Proof.
  intros Hm Hk. apply (runs_bind m k (fun _ d => lifecycle d = []) _ Hm). intros a.
  apply (runs_weaken (k a) (fun _ d => lifecycle d = []) _ (Hk a)). intros b d2 E2 d1 E1. by rewrite lifecycle_app, E1, E2.
Qed.
Lemma steady_try {A B} (m : M (result Error A)) (k : A -> M (result Error B)) :
  steady m -> (forall a, steady (k a)) -> steady (try m k).
Proof. intros Hm Hk. apply steady_bind; [done|]. intros [a|e]; [apply Hk|apply steady_ret]. Qed.
Lemma bind_eq {A B} (m : M A) (k : A -> M B) t : bind m k t = k (fst (m t)) (snd (m t)).
Proof. unfold bind. by destruct (m t). Qed.
Section steadiness.
Context `{Env}.
Lemma steady_Cancelled : steady Cancelled.
Proof. by apply runs_Cancelled. Qed.
Lemma steady_Sleep ms : steady (Sleep ms).
Proof. by apply runs_Sleep. Qed.
Lemma steady_Log level message : steady (Log level message).
Proof. by apply runs_Log. Qed.
Lemma steady_Notice message : steady (Notice message).
Proof. by apply runs_Notice. Qed.
Lemma steady_PhaseProgress p : steady (PhaseProgress p).
Proof. by apply runs_PhaseProgress. Qed.
Lemma steady_Write data : steady (Write adapter data).
Proof. by apply runs_call. Qed.
Lemma steady_Read timeout : steady (Read adapter timeout).
Proof. by apply runs_call. Qed.
End steadiness.
Create HintDb steady.
(** Follows the structure of a program down to the calls it makes. *)
Ltac steady :=
  repeat first
    [ assumption
    | lazymatch goal with
      | |- steady (ret _) => apply steady_ret
      | |- steady (try _ _) => apply steady_try; [|intros ?]
      | |- steady (bind _ _) => apply steady_bind; [|intros ?]
      | |- steady Cancelled => apply steady_Cancelled
      | |- steady (Sleep _) => apply steady_Sleep
      | |- steady (Log _ _) => apply steady_Log
      | |- steady (Notice _) => apply steady_Notice
      | |- steady (PhaseProgress _) => apply steady_PhaseProgress
      | |- steady (Write adapter _) => apply steady_Write
      | |- steady (Read adapter _) => apply steady_Read
      | |- steady (let _ := _ in _) => cbv zeta
      | |- steady (match ?x with _ => _ end) => destruct x
      end
    | solve [eauto with steady] ].
Section steady_exchanges.
Context `{Env}.
Lemma steady_channel request_id response_id pdu timeout :
  let channel := CanFlashUdsChannel (GuardedCanFlashTransport adapter) request_id response_id in
  steady (Send channel pdu) /\ steady (Receive channel timeout).
Proof. cbn [Send Receive CanFlashUdsChannel Write Read GuardedCanFlashTransport]. split; steady. Qed.
Lemma steady_Emit p d : steady (Emit p d).
Proof. unfold Emit. steady. Qed.
Lemma steady_Update p d : steady (Update p d).
Proof. unfold Update. pose proof (steady_Emit p). steady. Qed.
Lemma steady_Complete p : steady (Complete p).
Proof. unfold Complete. pose proof (steady_Emit p). steady. Qed.
Lemma steady_Start q name total : steady (Start q name total).
Proof. unfold Start. cbv zeta. pose proof steady_Emit. steady. Qed.
Context (ch : UdsChannel) (Hs : forall pdu, steady (Send ch pdu)) (Hr : forall timeout, steady (Receive ch timeout)).
Lemma steady_read_loop policy sid n delay timeout : steady (read_loop ch policy sid n delay timeout).
Proof. revert delay timeout. induction n as [|n IH]; intros delay timeout; cbn [read_loop]; steady. Qed.
#[local] Hint Resolve steady_read_loop : steady.
Lemma steady_Request pdu policy : steady (Request ch pdu policy).
Proof. unfold Request. steady. Qed.
Lemma steady_ReportExchangeFailure e p o : steady (ReportExchangeFailure e p o).
Proof. unfold ReportExchangeFailure. steady. Qed.
#[local] Hint Resolve steady_Request steady_ReportExchangeFailure : steady.
Context (policy : ExchangePolicy).
Abbreviation ctx := {| ctx_channel := ch; ctx_policy := policy |}.
Lemma steady_FatalRequest pdu p o : steady (FatalRequest ctx pdu p o).
Proof. unfold FatalRequest. cbn [ctx_channel ctx_policy]. steady. Qed.
Lemma steady_NonFatalQuery pdu s p l : steady (NonFatalQuery ctx pdu s p l).
Proof. unfold NonFatalQuery. cbn [ctx_channel ctx_policy]. steady. Qed.
#[local] Hint Resolve steady_FatalRequest steady_NonFatalQuery : steady.
Lemma steady_FatalQuery pdu prefix p s m : steady (FatalQuery ctx pdu prefix p s m).
Proof. unfold FatalQuery. steady. Qed.
#[local] Hint Resolve steady_FatalQuery : steady.
Lemma steady_UnlockAndKernelJump p seed_key : steady (UnlockAndKernelJump ctx p seed_key).
Proof. unfold UnlockAndKernelJump. steady. Qed.
Lemma steady_read_pages n p last decrypt addr rom progress : steady (read_pages n ctx p last decrypt addr rom progress).
Proof.
  revert addr rom progress. induction n as [|n IH]; intros addr rom progress; cbn [read_pages]; steady.
  apply steady_Update.
Qed.
Lemma steady_ReadEncryptedB7Pages p region decrypt progress : steady (ReadEncryptedB7Pages ctx p region decrypt progress).
Proof. unfold ReadEncryptedB7Pages. steady. apply steady_read_pages. Qed.
Lemma steady_RunBootloaderOperation plan name connect read erase write :
  steady connect -> (forall p, steady (read p)) -> steady erase -> (forall i p, steady (write i p)) ->
  steady (RunBootloaderOperation plan name connect read erase write).
Proof.
  intros H1 H2 H3 H4. pose proof steady_Start. pose proof steady_Complete. unfold RunBootloaderOperation. steady.
Qed.
End steady_exchanges.

(** How an attempt ends when its executor ended with [outcome] and closing the
    transport with [closed]: the executor's error comes first. *)
Definition attempt_result (outcome : result Error FlashExecutionResult) (closed : Status)
    : result Error FlashExecutionResult :=
  match outcome, closed with
  | Err e, _ => Err e
  | Ok _, Err e => Err e
  | Ok r, Ok _ => Ok r
  end.
(** A configuration, or an open that failed. *)
Definition not_open (ev : event) : Prop :=
  match ev with EvConfigure _ _ | EvOpen (Err _) => True | _ => False end.
(** An attempt that never opened the transport, and one that did. *)
Definition never_opened (res : result Error FlashExecutionResult) (d : trace) : Prop :=
  (exists e, res = Err e) /\ silent d
  /\ Forall not_open (lifecycle d).
(** The executor ran once, on the open transport, from the history it left. *)
Definition opened_and_closed `{Env} (executor : ICanFlashExecutor) (plan : FlashPlan) (t : trace)
    (res : result Error FlashExecutionResult) (d : trace) : Prop :=
  exists config before run after closed,
    let '(outcome, t') := Execute executor plan (GuardedCanFlashTransport adapter) (t ++ before ++ [EvOpen (Ok tt)]) in
    TransportSetup executor plan = Ok config
    /\ d = before ++ [EvOpen (Ok tt)] ++ run ++ [EvClose closed] ++ after
    /\ silent before /\ lifecycle before = [EvConfigure config (Ok tt)]
    /\ t' = t ++ before ++ [EvOpen (Ok tt)] ++ run /\ lifecycle run = []
    /\ silent after /\ lifecycle after = []
    /\ res = attempt_result outcome closed.
Section attempts.
Context `{Env} (executor : ICanFlashExecutor) (plan : FlashPlan).
Definition undisturbed {A} (m : M A) : Prop := runs m (fun _ d => silent d /\ lifecycle d = []).
Context (Hc : undisturbed (BeforeTransportConfigure executor adapter)) (Ho : undisturbed (BeforeTransportOpen executor))
  (He : steady (Execute executor plan (GuardedCanFlashTransport adapter))).
(** What comes before the executor. *)
Lemma runs_opening setup :
  runs (do! _ <- (do cancelled <- Cancelled;
                  if cancelled then ret (Fail kCancelled "cancelled before configure")
                  else do! _ <- BeforeTransportConfigure executor adapter; Configure adapter setup);
        do! _ <- BeforeTransportOpen executor;
        Open adapter)
    (fun res d => silent d /\ match res with
       | Ok _ => exists before, d = before ++ [EvOpen (Ok tt)] /\ silent before
                   /\ lifecycle before = [EvConfigure setup (Ok tt)]
       | Err _ => Forall not_open (lifecycle d)
       end).
Proof.
  apply (runs_try _ _ (fun (r : Status) d => silent d /\
    match r with Ok _ => lifecycle d = [EvConfigure setup (Ok tt)]
            | Err _ => Forall not_open (lifecycle d) end)).
  - apply (runs_bind _ _ (fun b d => d = [EvCancelled b])); [by apply runs_Cancelled|]. intros [].
    + apply runs_ret. intros d ->. split; [done|]. by constructor.
    + apply (runs_try _ _ _ _ Hc).
      * intros []. apply runs_call. intros a d1 [S1 L1] d0 ->. split; [auto with ports|].
        rewrite !lifecycle_app, L1. destruct a as [[]|e]; cbn; by repeat constructor.
      * intros e d1 [S1 L1] d0 ->. split; [auto with ports|]. by rewrite lifecycle_app, L1.
  - intros []. apply (runs_try _ _ _ _ Ho).
    + intros []. apply runs_call. intros a d2 [S2 L2] d1 [S1 L1].
      split; [auto with ports|]. destruct a as [[]|e].
      * exists (d1 ++ d2). rewrite app_assoc, lifecycle_app, L1, L2. split_and!; auto with ports.
      * rewrite !lifecycle_app, L1, L2. by repeat constructor.
    + intros e d2 [S2 L2] d1 [S1 L1]. split; [auto with ports|]. rewrite lifecycle_app, L1, L2. by repeat constructor.
  - intros e d [S1 L1]. done.
Qed.
Lemma runs_closing (outcome : result Error FlashExecutionResult) (closed : Status) :
  runs (match outcome, closed with
        | Err e, Err _ => do _ <- Log LWarning "close failed after execution error"; ret (Err e)
        | Err e, Ok _ => ret (Err e)
        | Ok _, Err e => ret (Err e)
        | Ok r, Ok _ => ret (Ok r)
        end)
    (fun res d => silent d /\ lifecycle d = [] /\ res = attempt_result outcome closed).
Proof.
  destruct outcome as [x|e], closed as [[]|e']; try (by apply runs_ret).
  apply (runs_bind _ _ (fun _ d => d = [EvLog LWarning "close failed after execution error"])); [by apply runs_Log|].
  intros []. apply runs_ret. by intros d ->.
Qed.
Lemma attempt_lifecycle t :
  exists d, snd (BoundAttempt_Run executor plan adapter t) = t ++ d
    /\ (never_opened (fst (BoundAttempt_Run executor plan adapter t)) d
        \/ opened_and_closed executor plan t (fst (BoundAttempt_Run executor plan adapter t)) d).
Proof.
  unfold BoundAttempt_Run. destruct (TransportSetup executor plan) as [setup|e] eqn:Es.
  2:{ exists []. unfold bind, ret. cbn. rewrite app_nil_r. split; [done|]. left. split_and!; [by eexists|done..]. }
  destruct (runs_opening setup t) as (d0 & E0 & S0 & L0). rewrite bind_eq.
  destruct (try _ _ t) as [[[]|e] t0]; cbn [fst snd] in *; subst t0.
  2:{ exists d0. split; [done|]. left. split_and!; [by eexists|done..]. }
  destruct L0 as (before & -> & Sb & Lb). destruct (He (t ++ before ++ [EvOpen (Ok tt)])) as (run & E1 & Lr).
  rewrite bind_eq. unfold ExecuteWithTransportGuard, opened_and_closed.
  destruct (Execute executor plan _ _) as [outcome t1] eqn:Ex. cbn [fst snd] in *. subst t1.
  rewrite bind_eq. cbn [Close adapter fst snd]. set (closed := env_close _).
  edestruct (runs_closing outcome closed) as (after & E2 & Sa & La & Er). rewrite E2.
  exists (before ++ [EvOpen (Ok tt)] ++ run ++ [EvClose closed] ++ after). split; [by rewrite <- !app_assoc|].
  right. exists setup, before, run, after, closed. rewrite Ex. split_and!; try done. by rewrite <- !app_assoc.
Qed.
End attempts.
#[global] Hint Resolve steady_Request steady_FatalRequest steady_NonFatalQuery steady_FatalQuery steady_UnlockAndKernelJump
  steady_ReadEncryptedB7Pages steady_Update : steady.
