(* ===== verification/FlashWorkflow.v ===== *)
(** * FlashWorkflow: [src/backend/flash/workflow/flash_workflow.{h,cpp}],
    [flash_operation_request.cpp] and [src/ui/desktop/flash/common/flash_dialog.cpp]

    The staging of a flash operation: a workflow hands out prompts, attempts and an
    end, one step at a time, and is told the operator's answers and the attempts'
    results; the dialog drives it. The four kinds of workflow, the routes that choose
    one for a protocol, and the dialog's loop. *)
From S2P Require Import Prelude MemoryMap MemoryImage Catalog.
From S2P Require Import Ports FlashDevices FlashPlan SingleWindowPlans WholeRomPlans StagedPlans FlashExecution.

(** ** [flash_workflow.h] *)
Record FlashWorkflowRequest := {
  req_operation : FlashOperation; req_protocol : ProtocolSpec; req_image : option (list Z); req_paths : ConfigPaths;
  display_filename : string
}.
Inductive FlashPromptKind : Set :=
  kBegin | kColtEraseTrigger | kColtTopRegionBootstrap | kInspectRead | kPromptCycleIgnition | kConfirmSh7058Read
| kConfirmBdmKernelBootstrap | kPromptApplyProgrammingVoltage | kRemoveProgrammingVoltage | kPromptApplyBootModeVoltages
| kRemoveMod1.
#[global] Instance FlashPromptKind_eq_dec : EqDecision FlashPromptKind.
Proof. solve_decision. Defined.
Inductive FlashPromptResponse : Set := kAccept | kDecline | kSave | kDiscard.
#[global] Instance FlashPromptResponse_eq_dec : EqDecision FlashPromptResponse.
Proof. solve_decision. Defined.
Inductive FlashWorkflowOutcome : Set := kSucceeded | kOutcomeCancelled | kDiscarded | kFailed.
Record FlashPromptStep := { prompt_kind : FlashPromptKind; prompt_arguments : list (string * string) }.
(** An executor as the workflow knows it: the family and the validation its admission
    checks, and the transport it is bound to. *)
Record executor := { executor_family : FlashFamily; executor_validate : FlashPlan -> Status; executor_transport : TransportKind }.
Definition Admits (e : executor) (plan : FlashPlan) : Status :=
  let! _ := CheckFamily plan (executor_family e) in executor_validate e plan.
(** [BoundFlashAttempt]: the plan with the executor it is bound to. *)
Record FlashAttempt := { attempt_plan : FlashPlan; attempt_executor : executor }.
Record FlashAttemptResult := {
  success : bool; error_kind : ErrorKind; error_detail : string; read_bytes : option (list Z); result_rom_id : option string
}.
Inductive FlashWorkflowStep :=
| PromptStep (p : FlashPromptStep)
| AttemptStep (a : FlashAttempt)
| FlashCompletedStep (outcome : FlashWorkflowOutcome) (accepted_read_bytes : option (list Z)) (rom_id : option string)
| FlashFailureStep (error : Error).
(** The interface the dialog drives. [Next] reads kernel files from the repository as
    it is then. *)
Class FlashWorkflow (W : Type) := {
  Next : repository -> W -> FlashWorkflowStep * W;
  SubmitResponse : FlashPromptResponse -> W -> W;
  SubmitResult : FlashAttemptResult -> W -> W
}.
Definition prompt (k : FlashPromptKind) : FlashPromptStep := {| prompt_kind := k; prompt_arguments := [] |}.

(** ** [flash_operation_request.cpp] *)
Definition FlashOperationFromCommand (command : string) : FlashOperation :=
  if String.eqb command "write" then kWrite else if String.eqb command "test_write" then kTestWrite else kRead.
Definition IsDensoTcuProtocol (protocol : string) : bool :=
  String.eqb protocol "sub_tcu_denso_sh7055_can" || String.eqb protocol "sub_tcu_denso_sh7058_can".
Definition KernelPath (dir file : string) : string :=
  if negb (String.eqb dir "") && negb (DensoMc68.ends_with dir "/") then dir +:+ "/" +:+ file else dir +:+ file.
Definition ReadImageFilename (rom_id timestamp : string) : string :=
  (if String.eqb rom_id "" then "read_image_" else rom_id) +:+ timestamp +:+ ".bin".
Definition PortableImageForOperation (op : FlashOperation) (rom : list Z) : option (list Z) :=
  match op with kRead => None | _ => Some rom end.

Section workflows.
(** What a string holds after it is moved from, which the standard leaves open; a vector
    is empty. *)
Context (moved_from : string -> string).

(** ** [FlashAttemptOutcome] *)
Record FlashAttemptOutcome := {
  terminal_ : bool; outcome_ : FlashWorkflowOutcome; bytes_ : option (list Z); rom_id_ : option string; failure_ : option Error
}.
Definition running : FlashAttemptOutcome :=
  {| terminal_ := false; outcome_ := kFailed; bytes_ := None; rom_id_ := None; failure_ := None |}.
Definition Succeed (bytes : option (list Z)) (rom_id : option string) (o : FlashAttemptOutcome) : FlashAttemptOutcome :=
  {| terminal_ := true; outcome_ := kSucceeded; bytes_ := bytes; rom_id_ := rom_id; failure_ := failure_ o |}.
Definition Cancel (o : FlashAttemptOutcome) : FlashAttemptOutcome :=
  {| terminal_ := true; outcome_ := kOutcomeCancelled; bytes_ := bytes_ o; rom_id_ := rom_id_ o; failure_ := failure_ o |}.
Definition Discard (o : FlashAttemptOutcome) : FlashAttemptOutcome :=
  {| terminal_ := true; outcome_ := kDiscarded; bytes_ := bytes_ o; rom_id_ := rom_id_ o; failure_ := failure_ o |}.
Definition OutcomeFail (e : Error) (o : FlashAttemptOutcome) : FlashAttemptOutcome :=
  {| terminal_ := true; outcome_ := kFailed; bytes_ := bytes_ o; rom_id_ := rom_id_ o; failure_ := Some e |}.
(** [Error{kind, detail}]. *)
Definition error_of (r : FlashAttemptResult) : Error :=
  {| kind := error_kind r; detail := error_detail r; cancellation_io_exposure := kMayHaveStarted |}.
Definition Record_ (r : FlashAttemptResult) (o : FlashAttemptOutcome) : FlashAttemptOutcome :=
  if success r then Succeed (read_bytes r) (result_rom_id r) o
  else if bool_decide (error_kind r = kCancelled) then Cancel o
  else OutcomeFail (error_of r) o.
Definition moved_error (e : Error) : Error :=
  {| kind := kind e; detail := moved_from (detail e); cancellation_io_exposure := cancellation_io_exposure e |}.
Definition moved_bytes (o : option (list Z)) : option (list Z) := (fun _ => []) <$> o.
Definition CompletedStep (o : FlashAttemptOutcome) : FlashWorkflowStep * FlashAttemptOutcome :=
  (FlashCompletedStep (outcome_ o) (bytes_ o) (rom_id_ o),
   {| terminal_ := terminal_ o; outcome_ := outcome_ o; bytes_ := moved_bytes (bytes_ o); rom_id_ := moved_from <$> rom_id_ o;
      failure_ := failure_ o |}).
Definition FinishedStep (o : FlashAttemptOutcome) : option (FlashWorkflowStep * FlashAttemptOutcome) :=
  match failure_ o with
  | Some e => Some (FlashFailureStep e,
                    {| terminal_ := terminal_ o; outcome_ := outcome_ o; bytes_ := bytes_ o; rom_id_ := rom_id_ o;
                       failure_ := Some (moved_error e) |})
  | None => if terminal_ o then Some (CompletedStep o) else None
  end.
Definition AttemptOutcomeName (r : FlashAttemptResult) : string :=
  if success r then "succeeded" else if bool_decide (error_kind r = kCancelled) then "cancelled" else "failed".

(** ** [ConfirmationPrompt], [PromptSequence] *)
(** The enumerators in declaration order. *)
Definition confirmation_number (i : ConfirmationId) : Z :=
  match i with
  | kBeginEepromRead => 0 | kInspectEepromBytes => 1 | kCycleIgnition => 2 | kEraseTrigger => 3 | kTopRegionBootstrap => 4
  | kApplyProgrammingVoltage => 5 | kApplyBootModeVoltages => 6 | kStartKlineRead => 7 | kKernelBootstrap => 8
  end.
Definition confirmation_kind (i : ConfirmationId) : option FlashPromptKind :=
  match i with
  | kCycleIgnition => Some kPromptCycleIgnition
  | kEraseTrigger => Some kColtEraseTrigger
  | kTopRegionBootstrap => Some kColtTopRegionBootstrap
  | kStartKlineRead => Some kConfirmSh7058Read
  | kKernelBootstrap => Some kConfirmBdmKernelBootstrap
  | kBeginEepromRead | kInspectEepromBytes | kApplyProgrammingVoltage | kApplyBootModeVoltages => None
  end.
Definition ConfirmationPrompt (c : ConfirmationSpec) : result Error FlashPromptStep :=
  match confirmation_kind (conf_id c) with
  | Some k => Ok {| prompt_kind := k; prompt_arguments := arguments c |}
  | None => Fail kInternal ("confirmation " +:+ fmt_d (confirmation_number (conf_id c)) +:+ " has no single-attempt prompt")
  end.
Fixpoint prompts_of (l : list ConfirmationSpec) : result Error (list FlashPromptStep) :=
  match l with
  | [] => Ok []
  | c :: l => let! p := ConfirmationPrompt c in let! ps := prompts_of l in Ok (p :: ps)
  end.
Definition PromptSequence (plan : FlashPlan) : result Error (list FlashPromptStep) :=
  let! ps := prompts_of (Confirmations plan) in Ok (prompt kBegin :: ps).
Definition PrepareWithoutKernel (Build : KernelFreePlanBuilder) : PlanPreparation :=
  fun op protocol _ rom_file _ => Build op (Catalog.name protocol) (Catalog.mcu protocol) rom_file.

(** ** [SingleAttemptFlashWorkflow] *)
Record SingleAttemptFlashWorkflow := {
  single_executor : executor; single_prepare : PlanPreparation; (** the template's arguments *)
  single_request : FlashWorkflowRequest; single_plan : option (result Error FlashPlan);
  single_prompts : option (result Error (list FlashPromptStep)); accepted_ : nat; attempted_ : bool;
  single_outcome : FlashAttemptOutcome
}.
Definition single_new (e : executor) (prepare : PlanPreparation) (r : FlashWorkflowRequest) : SingleAttemptFlashWorkflow :=
  {| single_executor := e; single_prepare := prepare; single_request := r; single_plan := None; single_prompts := None;
     accepted_ := 0; attempted_ := false; single_outcome := running |}.
Definition single_set (w : SingleAttemptFlashWorkflow) (plan : result Error FlashPlan)
    (prompts : option (result Error (list FlashPromptStep))) (attempted : bool) (o : FlashAttemptOutcome)
    : SingleAttemptFlashWorkflow :=
  {| single_executor := single_executor w; single_prepare := single_prepare w; single_request := single_request w;
     single_plan := Some plan; single_prompts := prompts; accepted_ := accepted_ w; attempted_ := attempted;
     single_outcome := o |}.
Definition single_Next (files : repository) (w : SingleAttemptFlashWorkflow)
    : FlashWorkflowStep * SingleAttemptFlashWorkflow :=
  let r := single_request w in
  let plan := match single_plan w with
              | Some p => p
              | None => single_prepare w (req_operation r) (req_protocol r) (req_paths r) (req_image r) files
              end in
  match plan with
  | Err e => (FlashFailureStep e, single_set w plan (single_prompts w) (attempted_ w) (single_outcome w))
  | Ok p =>
      let prompts := match single_prompts w with Some ps => ps | None => PromptSequence p end in
      match prompts with
      | Err e => (FlashFailureStep e, single_set w plan (Some prompts) (attempted_ w) (single_outcome w))
      | Ok ps =>
          match FinishedStep (single_outcome w) with
          | Some (step, o) => (step, single_set w plan (Some prompts) (attempted_ w) o)
          | None =>
              match ps !! accepted_ w with
              | Some q => (PromptStep q, single_set w plan (Some prompts) (attempted_ w) (single_outcome w))
              | None =>
                  if negb (attempted_ w) then
                    (AttemptStep {| attempt_plan := p; attempt_executor := single_executor w |},
                     single_set w plan (Some prompts) true (single_outcome w))
                  else
                    let '(step, o) := CompletedStep (single_outcome w) in
                    (step, single_set w plan (Some prompts) (attempted_ w) o)
              end
          end
      end
  end.
Definition single_with (w : SingleAttemptFlashWorkflow) (accepted : nat) (o : FlashAttemptOutcome)
    : SingleAttemptFlashWorkflow :=
  {| single_executor := single_executor w; single_prepare := single_prepare w; single_request := single_request w;
     single_plan := single_plan w; single_prompts := single_prompts w; accepted_ := accepted; attempted_ := attempted_ w;
     single_outcome := o |}.
Definition single_SubmitResponse (r : FlashPromptResponse) (w : SingleAttemptFlashWorkflow) : SingleAttemptFlashWorkflow :=
  if negb (bool_decide (r = kAccept)) then single_with w (accepted_ w) (Cancel (single_outcome w))
  else single_with w (S (accepted_ w)) (single_outcome w).
Definition single_SubmitResult (r : FlashAttemptResult) (w : SingleAttemptFlashWorkflow) : SingleAttemptFlashWorkflow :=
  single_with w (accepted_ w) (Record_ r (single_outcome w)).
#[export] Instance single_workflow : FlashWorkflow SingleAttemptFlashWorkflow :=
  {| Next := single_Next; SubmitResponse := single_SubmitResponse; SubmitResult := single_SubmitResult |}.

(** ** [SubaruUnisiaJecsM32rKlineWorkflow] *)
Inductive jecs_stage : Set := JecsBegin | JecsApplyVpp | JecsAttempt | JecsRemoveVpp | JecsDone.
#[global] Instance jecs_stage_eq_dec : EqDecision jecs_stage.
Proof. solve_decision. Defined.
Definition jecs_executor : executor :=
  {| executor_family := kSubaruUnisiaJecsM32rKline; executor_validate := JecsM32rKline.Validate; executor_transport := kKline |}.
Record SubaruUnisiaJecsM32rKlineWorkflow := {
  jecs_plan : result Error FlashPlan; is_write_ : bool; needs_vpp_ : bool; jecs_stage_ : jecs_stage; attempt_outcome_ : string;
  jecs_outcome : FlashAttemptOutcome
}.
Definition jecs_new (supplies_programming_voltage : bool) (r : FlashWorkflowRequest) : SubaruUnisiaJecsM32rKlineWorkflow :=
  let plan := JecsM32rKline.Build (req_operation r) (Catalog.name (req_protocol r)) (Catalog.mcu (req_protocol r)) (req_image r)
                supplies_programming_voltage in
  {| jecs_plan := plan; is_write_ := bool_decide (req_operation r = kWrite);
     needs_vpp_ := match plan with
                   | Ok p => existsb (fun c => bool_decide (conf_id c = kApplyProgrammingVoltage)) (Confirmations p)
                   | Err _ => false
                   end;
     jecs_stage_ := JecsBegin; attempt_outcome_ := ""; jecs_outcome := running |}.
Definition jecs_set (w : SubaruUnisiaJecsM32rKlineWorkflow) (st : jecs_stage) (name : string) (o : FlashAttemptOutcome)
    : SubaruUnisiaJecsM32rKlineWorkflow :=
  {| jecs_plan := jecs_plan w; is_write_ := is_write_ w; needs_vpp_ := needs_vpp_ w; jecs_stage_ := st;
     attempt_outcome_ := name; jecs_outcome := o |}.
Definition yes_no (b : bool) : string := if b then "yes" else "no".
Definition remove_vpp (outcome : string) (external : bool) : FlashPromptStep :=
  {| prompt_kind := kRemoveProgrammingVoltage;
     prompt_arguments := [("outcome"%string, outcome); ("external_vpp"%string, yes_no external)] |}.
Definition jecs_Next (_ : repository) (w : SubaruUnisiaJecsM32rKlineWorkflow)
    : FlashWorkflowStep * SubaruUnisiaJecsM32rKlineWorkflow :=
  match jecs_plan w with
  | Err e => (FlashFailureStep e, w)
  | Ok p =>
      if bool_decide (jecs_stage_ w = JecsRemoveVpp) then (PromptStep (remove_vpp (attempt_outcome_ w) (needs_vpp_ w)), w)
      else match FinishedStep (jecs_outcome w) with
      | Some (step, o) => (step, jecs_set w (jecs_stage_ w) (attempt_outcome_ w) o)
      | None =>
          match jecs_stage_ w with
          | JecsBegin => (PromptStep (prompt kBegin), w)
          | JecsApplyVpp => (PromptStep (prompt kPromptApplyProgrammingVoltage), w)
          | JecsAttempt => (AttemptStep {| attempt_plan := p; attempt_executor := jecs_executor |},
                            jecs_set w JecsDone (attempt_outcome_ w) (jecs_outcome w))
          | _ => let '(step, o) := CompletedStep (jecs_outcome w) in (step, jecs_set w (jecs_stage_ w) (attempt_outcome_ w) o)
          end
      end
  end.
Definition jecs_SubmitResponse (r : FlashPromptResponse) (w : SubaruUnisiaJecsM32rKlineWorkflow)
    : SubaruUnisiaJecsM32rKlineWorkflow :=
  match jecs_stage_ w with
  | JecsBegin | JecsApplyVpp =>
      if negb (bool_decide (r = kAccept)) then jecs_set w (jecs_stage_ w) (attempt_outcome_ w) (Cancel (jecs_outcome w))
      else jecs_set w (if bool_decide (jecs_stage_ w = JecsBegin) && needs_vpp_ w then JecsApplyVpp else JecsAttempt)
             (attempt_outcome_ w) (jecs_outcome w)
  | JecsRemoveVpp => jecs_set w JecsDone (attempt_outcome_ w) (jecs_outcome w)
  | JecsAttempt | JecsDone => w
  end.
Definition jecs_SubmitResult (r : FlashAttemptResult) (w : SubaruUnisiaJecsM32rKlineWorkflow)
    : SubaruUnisiaJecsM32rKlineWorkflow :=
  if is_write_ w && (needs_vpp_ w || negb (success r)) then
    jecs_set w JecsRemoveVpp (AttemptOutcomeName r) (Record_ r (jecs_outcome w))
  else jecs_set w (jecs_stage_ w) (attempt_outcome_ w) (Record_ r (jecs_outcome w)).
#[export] Instance jecs_workflow : FlashWorkflow SubaruUnisiaJecsM32rKlineWorkflow :=
  {| Next := jecs_Next; SubmitResponse := jecs_SubmitResponse; SubmitResult := jecs_SubmitResult |}.

(** ** [SubaruUnisiaJecsM32rBootModeWorkflow] *)
Inductive boot_stage : Set :=
  BootBegin | BootApplyVoltages | BootFirstAttempt | BootAwaitFirst | BootRemoveMod1 | BootProgramAttempt | BootAwaitProgram
| BootNotice | BootDone.
#[global] Instance boot_stage_eq_dec : EqDecision boot_stage.
Proof. solve_decision. Defined.
Definition boot_kernel_executor : executor :=
  {| executor_family := kSubaruUnisiaJecsM32rBootModeKernel; executor_validate := JecsM32rBootMode.Validate;
     executor_transport := kKline |}.
Definition boot_program_executor : executor :=
  {| executor_family := kSubaruUnisiaJecsM32rBootModeProgram; executor_validate := JecsM32rBootMode.Validate;
     executor_transport := kKline |}.
Record SubaruUnisiaJecsM32rBootModeWorkflow := {
  boot_request : FlashWorkflowRequest; built_ : option (result Error JecsM32rBootMode.BootModePlans); boot_stage_ : boot_stage;
  notice_outcome_ : string; boot_outcome : FlashAttemptOutcome
}.
Definition boot_new (r : FlashWorkflowRequest) : SubaruUnisiaJecsM32rBootModeWorkflow :=
  {| boot_request := r; built_ := None; boot_stage_ := BootBegin; notice_outcome_ := ""; boot_outcome := running |}.
Definition boot_set (w : SubaruUnisiaJecsM32rBootModeWorkflow) (st : boot_stage) (name : string) (o : FlashAttemptOutcome)
    : SubaruUnisiaJecsM32rBootModeWorkflow :=
  {| boot_request := boot_request w; built_ := built_ w; boot_stage_ := st; notice_outcome_ := name; boot_outcome := o |}.
Definition IsWrite (w : SubaruUnisiaJecsM32rBootModeWorkflow) : bool :=
  negb (bool_decide (req_operation (boot_request w) = kRead)).
Definition boot_notice (outcome : string) : FlashPromptStep :=
  {| prompt_kind := kRemoveProgrammingVoltage;
     prompt_arguments := [("outcome"%string, outcome); ("external_vpp"%string, "yes"%string);
                          ("power_off_advice"%string, "no"%string)] |}.
(** [Error{ErrorKind::kInternal, ...}]. *)
Definition internal_error (d : string) : Error :=
  {| kind := kInternal; detail := d; cancellation_io_exposure := kMayHaveStarted |}.
Definition FirstAttempt (plans : JecsM32rBootMode.BootModePlans) (w : SubaruUnisiaJecsM32rBootModeWorkflow)
    : FlashWorkflowStep :=
  match JecsM32rBootMode.first plans with
  | None => FlashFailureStep (internal_error "the Unisia JECS first-stage plan was not built")
  | Some plan =>
      AttemptStep {| attempt_plan := plan; attempt_executor := if IsWrite w then boot_kernel_executor else jecs_executor |}
  end.
(** [StepBeforeStage], then the switch on the stage. *)
Definition boot_Next (files : repository) (w : SubaruUnisiaJecsM32rBootModeWorkflow)
    : FlashWorkflowStep * SubaruUnisiaJecsM32rBootModeWorkflow :=
  let r := boot_request w in
  let built := match built_ w with
               | Some b => b
               | None => JecsM32rBootMode.Prepare (req_operation r) (req_protocol r) (req_paths r) (req_image r) files
               end in
  let w := {| boot_request := r; built_ := Some built; boot_stage_ := boot_stage_ w; notice_outcome_ := notice_outcome_ w;
              boot_outcome := boot_outcome w |} in
  let at_stage st := boot_set w st (notice_outcome_ w) (boot_outcome w) in
  match built with
  | Err e => (FlashFailureStep e, w)
  | Ok plans =>
      if bool_decide (boot_stage_ w = BootNotice) then (PromptStep (boot_notice (notice_outcome_ w)), w)
      else match FinishedStep (boot_outcome w) with
      | Some (step, o) => (step, boot_set w (boot_stage_ w) (notice_outcome_ w) o)
      | None =>
          match boot_stage_ w with
          | BootBegin => (PromptStep (prompt kBegin), w)
          | BootApplyVoltages => (PromptStep (prompt kPromptApplyBootModeVoltages), w)
          | BootFirstAttempt => (FirstAttempt plans w, at_stage BootAwaitFirst)
          | BootRemoveMod1 => (PromptStep (prompt kRemoveMod1), w)
          | BootProgramAttempt =>
              match JecsM32rBootMode.program plans with
              | None => (FlashFailureStep (internal_error "the Unisia JECS program plan was not built"), w)
              | Some plan => (AttemptStep {| attempt_plan := plan; attempt_executor := boot_program_executor |},
                              at_stage BootAwaitProgram)
              end
          | BootAwaitFirst | BootAwaitProgram | BootNotice | BootDone =>
              let '(step, o) := CompletedStep (boot_outcome w) in (step, boot_set w (boot_stage_ w) (notice_outcome_ w) o)
          end
      end
  end.
Definition boot_SubmitResponse (r : FlashPromptResponse) (w : SubaruUnisiaJecsM32rBootModeWorkflow)
    : SubaruUnisiaJecsM32rBootModeWorkflow :=
  let declined := negb (bool_decide (r = kAccept)) in
  match boot_stage_ w with
  | BootBegin | BootApplyVoltages =>
      if declined then boot_set w (boot_stage_ w) (notice_outcome_ w) (Cancel (boot_outcome w))
      else boot_set w (if bool_decide (boot_stage_ w = BootBegin) && IsWrite w then BootApplyVoltages else BootFirstAttempt)
             (notice_outcome_ w) (boot_outcome w)
  | BootRemoveMod1 =>
      if declined then boot_set w BootNotice "cancelled" (Cancel (boot_outcome w))
      else boot_set w BootProgramAttempt (notice_outcome_ w) (boot_outcome w)
  | BootNotice => boot_set w BootDone (notice_outcome_ w) (boot_outcome w)
  | _ => w
  end.
Definition boot_SubmitResult (r : FlashAttemptResult) (w : SubaruUnisiaJecsM32rBootModeWorkflow)
    : SubaruUnisiaJecsM32rBootModeWorkflow :=
  if negb (IsWrite w) then boot_set w (boot_stage_ w) (notice_outcome_ w) (Record_ r (boot_outcome w))
  else if bool_decide (boot_stage_ w = BootAwaitFirst) && success r then
    boot_set w BootRemoveMod1 (notice_outcome_ w) (boot_outcome w)
  else boot_set w BootNotice (AttemptOutcomeName r) (Record_ r (boot_outcome w)).
#[export] Instance boot_workflow : FlashWorkflow SubaruUnisiaJecsM32rBootModeWorkflow :=
  {| Next := boot_Next; SubmitResponse := boot_SubmitResponse; SubmitResult := boot_SubmitResult |}.

(** ** [EepromWorkflow] *)
Record EepromWorkflow := {
  eeprom_executor : executor; (** the template's argument *)
  eeprom_request : FlashWorkflowRequest; mode_ : EepromReadMode; begun_ : bool; need_cycle_ : bool; inspect_ : bool;
  pending_ : option (list Z); eeprom_outcome : FlashAttemptOutcome
}.
Definition eeprom_new (e : executor) (r : FlashWorkflowRequest) : EepromWorkflow :=
  {| eeprom_executor := e; eeprom_request := r; mode_ := kMode2; begun_ := false; need_cycle_ := false; inspect_ := false;
     pending_ := None; eeprom_outcome := running |}.
Definition eeprom_set (w : EepromWorkflow) (mode : EepromReadMode) (begun need_cycle inspect : bool) (pending : option (list Z))
    (o : FlashAttemptOutcome) : EepromWorkflow :=
  {| eeprom_executor := eeprom_executor w; eeprom_request := eeprom_request w; mode_ := mode; begun_ := begun;
     need_cycle_ := need_cycle; inspect_ := inspect; pending_ := pending; eeprom_outcome := o |}.
Definition eeprom_with_outcome (w : EepromWorkflow) (o : FlashAttemptOutcome) : EepromWorkflow :=
  eeprom_set w (mode_ w) (begun_ w) (need_cycle_ w) (inspect_ w) (pending_ w) o.
Definition eeprom_Next (files : repository) (w : EepromWorkflow) : FlashWorkflowStep * EepromWorkflow :=
  let r := eeprom_request w in
  if negb (bool_decide (req_operation r = kRead)) then
    (FlashFailureStep {| kind := kUnsupported; detail := "EEPROM workflows support read operations only";
                         cancellation_io_exposure := kMayHaveStarted |}, w)
  else match FinishedStep (eeprom_outcome w) with
  | Some (step, o) => (step, eeprom_with_outcome w o)
  | None =>
      if negb (begun_ w) then (PromptStep (prompt kBegin), w)
      else if need_cycle_ w then (PromptStep (prompt kPromptCycleIgnition), w)
      else if inspect_ w then (PromptStep (prompt kInspectRead), w)
      else match DensoEeprom.BuildEepromReadPlan (executor_family (eeprom_executor w)) (req_paths r) (req_protocol r) (mode_ w)
                   files with
      | Err e => (FlashFailureStep e, w)
      | Ok plan => (AttemptStep {| attempt_plan := plan; attempt_executor := eeprom_executor w |}, w)
      end
  end.
Definition Advance (mode : EepromReadMode) : EepromReadMode := if bool_decide (mode = kMode2) then kMode3 else kMode4.
Definition eeprom_SubmitResponse (r : FlashPromptResponse) (w : EepromWorkflow) : EepromWorkflow :=
  let o := eeprom_outcome w in
  if negb (begun_ w) then
    if bool_decide (r = kAccept) then eeprom_set w (mode_ w) true (need_cycle_ w) (inspect_ w) (pending_ w) o
    else eeprom_with_outcome w (Cancel o)
  else if need_cycle_ w then
    eeprom_set w (mode_ w) (begun_ w) false (inspect_ w) (pending_ w) (if negb (bool_decide (r = kAccept)) then Cancel o else o)
  else if inspect_ w then
    if bool_decide (r = kSave) then
      eeprom_set w (mode_ w) (begun_ w) (need_cycle_ w) false (moved_bytes (pending_ w)) (Succeed (pending_ w) None o)
    else if bool_decide (mode_ w = kMode4) then
      eeprom_set w (mode_ w) (begun_ w) (need_cycle_ w) false (pending_ w) (Discard o)
    else eeprom_set w (Advance (mode_ w)) (begun_ w) true false None o
  else w.
Definition eeprom_SubmitResult (r : FlashAttemptResult) (w : EepromWorkflow) : EepromWorkflow :=
  let o := eeprom_outcome w in
  if success r then eeprom_set w (mode_ w) (begun_ w) (need_cycle_ w) true (read_bytes r) o
  else if bool_decide (error_kind r = kCancelled) then eeprom_with_outcome w (Cancel o)
  else if negb (bool_decide (mode_ w = kMode4)) then
    eeprom_set w (Advance (mode_ w)) (begun_ w) (need_cycle_ w) (inspect_ w) (pending_ w) o
  else eeprom_with_outcome w (OutcomeFail (error_of r) o).
#[export] Instance eeprom_workflow : FlashWorkflow EepromWorkflow :=
  {| Next := eeprom_Next; SubmitResponse := eeprom_SubmitResponse; SubmitResult := eeprom_SubmitResult |}.

(** ** The workflows of the families *)
Inductive workflow :=
| SingleAttempt (w : SingleAttemptFlashWorkflow)
| JecsKline (w : SubaruUnisiaJecsM32rKlineWorkflow)
| JecsBootMode (w : SubaruUnisiaJecsM32rBootModeWorkflow)
| EepromRead (w : EepromWorkflow).
#[export] Instance workflow_workflow : FlashWorkflow workflow := {|
  Next files w :=
    match w with
    | SingleAttempt w => let '(s, w) := Next files w in (s, SingleAttempt w)
    | JecsKline w => let '(s, w) := Next files w in (s, JecsKline w)
    | JecsBootMode w => let '(s, w) := Next files w in (s, JecsBootMode w)
    | EepromRead w => let '(s, w) := Next files w in (s, EepromRead w)
    end;
  SubmitResponse r w :=
    match w with
    | SingleAttempt w => SingleAttempt (SubmitResponse r w)
    | JecsKline w => JecsKline (SubmitResponse r w)
    | JecsBootMode w => JecsBootMode (SubmitResponse r w)
    | EepromRead w => EepromRead (SubmitResponse r w)
    end;
  SubmitResult r w :=
    match w with
    | SingleAttempt w => SingleAttempt (SubmitResult r w)
    | JecsKline w => JecsKline (SubmitResult r w)
    | JecsBootMode w => JecsBootMode (SubmitResult r w)
    | EepromRead w => EepromRead (SubmitResult r w)
    end
|}.
(** [CreateWorkflow], given whether the adapter supplies programming voltage. *)
Definition CreateWorkflow : Type := bool -> FlashWorkflowRequest -> workflow.
Definition OwnPreparationWorkflow (e : executor) (prepare : PlanPreparation) : CreateWorkflow :=
  fun _ r => SingleAttempt (single_new e prepare r).
Definition KernelFreeWorkflow (e : executor) (Build : KernelFreePlanBuilder) : CreateWorkflow :=
  OwnPreparationWorkflow e (PrepareWithoutKernel Build).
Definition KernelBackedWorkflow (e : executor) (Build : KernelBackedPlanBuilder) : CreateWorkflow :=
  OwnPreparationWorkflow e (PrepareWithProtocolKernel Build).
Definition ColtExecutor : executor :=
  {| executor_family := kMitsuColtM32rCan; executor_validate := ColtCan.Validate; executor_transport := kCanIso15765 |}.
Definition ColtWorkflow : CreateWorkflow := KernelFreeWorkflow ColtExecutor ColtCan.Build.
Definition EepromKlineExecutor : executor :=
  {| executor_family := kDensoSh705xEepromKline; executor_validate := DensoEeprom.Validate; executor_transport := kKline |}.
Definition EepromKlineWorkflow : CreateWorkflow := fun _ r => EepromRead (eeprom_new EepromKlineExecutor r).
Definition EepromCanExecutor : executor :=
  {| executor_family := kDensoSh705xEepromCan; executor_validate := DensoEeprom.Validate; executor_transport := kCanIso15765 |}.
Definition EepromCanWorkflow : CreateWorkflow := fun _ r => EepromRead (eeprom_new EepromCanExecutor r).
Definition SubaruMitsuM32rKlineExecutor : executor :=
  {| executor_family := kSubaruMitsuM32rKline; executor_validate := MitsuM32rKline.Validate; executor_transport := kKline |}.
Definition SubaruMitsuM32rKlineWorkflow : CreateWorkflow := KernelFreeWorkflow SubaruMitsuM32rKlineExecutor MitsuM32rKline.Build.
Definition SubaruHitachiM32rKlineExecutor : executor :=
  {| executor_family := kSubaruHitachiM32rKline; executor_validate := HitachiM32rKline.Validate; executor_transport := kKline |}.
Definition SubaruHitachiM32rKlineWorkflow : CreateWorkflow := KernelFreeWorkflow SubaruHitachiM32rKlineExecutor HitachiM32rKline.Build.
Definition SubaruDensoMc68hc16y5_02Executor : executor :=
  {| executor_family := kSubaruDensoMc68hc16y502; executor_validate := DensoMc68.Validate; executor_transport := kKline |}.
Definition SubaruDensoMc68hc16y5_02Workflow : CreateWorkflow := OwnPreparationWorkflow SubaruDensoMc68hc16y5_02Executor DensoMc68.Prepare.
Definition SubaruDensoSh7055_02Executor : executor :=
  {| executor_family := kSubaruDensoSh705502; executor_validate := DensoSh705502.Validate; executor_transport := kKline |}.
Definition SubaruDensoSh7055_02Workflow : CreateWorkflow := KernelBackedWorkflow SubaruDensoSh7055_02Executor DensoSh705502.Build.
Definition SubaruDensoSh705xDensoCanExecutor : executor :=
  {| executor_family := kSubaruDensoSh705xDensoCan; executor_validate := DensoCan.Validate; executor_transport := kCanRawIso15765 |}.
Definition SubaruDensoSh705xDensoCanWorkflow : CreateWorkflow := KernelBackedWorkflow SubaruDensoSh705xDensoCanExecutor DensoCan.Build.
Definition SubaruTcuDensoSh705xCanExecutor : executor :=
  {| executor_family := kSubaruTcuDensoSh705xCan; executor_validate := TcuDensoSh705xCan.Validate; executor_transport := kCanIso15765 |}.
Definition SubaruTcuDensoSh705xCanWorkflow : CreateWorkflow := KernelBackedWorkflow SubaruTcuDensoSh705xCanExecutor TcuDensoSh705xCan.Build.
Definition SubaruDensoSh7058CanExecutor : executor :=
  {| executor_family := kSubaruDensoSh7058Can; executor_validate := DensoSh7058Can.Validate; executor_transport := kCanIso15765 |}.
Definition SubaruDensoSh7058CanWorkflow : CreateWorkflow := KernelBackedWorkflow SubaruDensoSh7058CanExecutor DensoSh7058Can.Build.
Definition SubaruDensoSh7058CanDieselExecutor : executor :=
  {| executor_family := kSubaruDensoSh7058CanDiesel; executor_validate := DensoSh7058CanDiesel.Validate; executor_transport := kCanIso15765 |}.
Definition SubaruDensoSh7058CanDieselWorkflow : CreateWorkflow := KernelBackedWorkflow SubaruDensoSh7058CanDieselExecutor DensoSh7058CanDiesel.Build.
Definition SubaruHitachiM32rCanExecutor : executor :=
  {| executor_family := kSubaruHitachiM32rCan; executor_validate := ValidateSubaruHitachiM32rCanPlan; executor_transport := kCanIso15765 |}.
Definition SubaruHitachiM32rCanWorkflow : CreateWorkflow := KernelFreeWorkflow SubaruHitachiM32rCanExecutor BuildSubaruHitachiM32rCanPlan.
Definition SubaruTcuHitachiM32rKlineExecutor : executor :=
  {| executor_family := kSubaruTcuHitachiM32rKline; executor_validate := TcuHitachiM32rKline.Validate; executor_transport := kKline |}.
Definition SubaruTcuHitachiM32rKlineWorkflow : CreateWorkflow := KernelFreeWorkflow SubaruTcuHitachiM32rKlineExecutor TcuHitachiM32rKline.Build.
Definition SubaruUnisiaJecsExecutor : executor :=
  {| executor_family := kSubaruUnisiaJecs; executor_validate := UnisiaJecs.Validate; executor_transport := kKline |}.
Definition SubaruUnisiaJecsWorkflow : CreateWorkflow := KernelFreeWorkflow SubaruUnisiaJecsExecutor UnisiaJecs.Build.
Definition SubaruTcuHitachiM32rCanExecutor : executor :=
  {| executor_family := kSubaruTcuHitachiM32rCan; executor_validate := TcuHitachiM32rCan.Validate; executor_transport := kCanIso15765 |}.
Definition SubaruTcuHitachiM32rCanWorkflow : CreateWorkflow := KernelFreeWorkflow SubaruTcuHitachiM32rCanExecutor TcuHitachiM32rCan.Build.
Definition SubaruHitachiSh72543rCanExecutor : executor :=
  {| executor_family := kSubaruHitachiSh72543rCan; executor_validate := HitachiSh72543rCan.Validate; executor_transport := kCanIso15765 |}.
Definition SubaruHitachiSh72543rCanWorkflow : CreateWorkflow := KernelFreeWorkflow SubaruHitachiSh72543rCanExecutor HitachiSh72543rCan.Build.
Definition SubaruHitachiSh7058KlineExecutor : executor :=
  {| executor_family := kSubaruHitachiSh7058; executor_validate := HitachiSh7058.ValidateKline; executor_transport := kKline |}.
Definition SubaruHitachiSh7058CanExecutor : executor :=
  {| executor_family := kSubaruHitachiSh7058; executor_validate := HitachiSh7058.ValidateCan; executor_transport := kCanIso15765 |}.
Definition SubaruHitachiSh7058KlineWorkflow : CreateWorkflow :=
  KernelFreeWorkflow SubaruHitachiSh7058KlineExecutor HitachiSh7058.Build.
Definition SubaruHitachiSh7058CanWorkflow : CreateWorkflow :=
  KernelFreeWorkflow SubaruHitachiSh7058CanExecutor HitachiSh7058.Build.
Definition MakeSubaruHitachiSh7058 : CreateWorkflow := fun supplies r =>
  if bool_decide (req_operation r = kRead) then SubaruHitachiSh7058KlineWorkflow supplies r
  else SubaruHitachiSh7058CanWorkflow supplies r.
Definition SubaruTcuCvtHitachiM32rCanExecutor : executor :=
  {| executor_family := kSubaruTcuCvtHitachiM32rCan; executor_validate := TcuCvtHitachiM32rCan.Validate; executor_transport := kCanIso15765 |}.
Definition SubaruTcuCvtHitachiM32rCanWorkflow : CreateWorkflow := KernelFreeWorkflow SubaruTcuCvtHitachiM32rCanExecutor TcuCvtHitachiM32rCan.Build.
Definition SubaruTcuCvtMitsuMh8111CanExecutor : executor :=
  {| executor_family := kSubaruTcuCvtMitsuMh8111Can; executor_validate := TcuCvtMitsuMh8111Can.Validate; executor_transport := kCanIso15765 |}.
Definition SubaruTcuCvtMitsuMh8111CanWorkflow : CreateWorkflow := KernelFreeWorkflow SubaruTcuCvtMitsuMh8111CanExecutor TcuCvtMitsuMh8111Can.Build.
Definition SubaruTcuCvtMitsuMh8104CanExecutor : executor :=
  {| executor_family := kSubaruTcuCvtMitsuMh8104Can; executor_validate := TcuCvtMitsuMh8104Can.Validate; executor_transport := kCanIso15765 |}.
Definition SubaruTcuCvtMitsuMh8104CanWorkflow : CreateWorkflow := KernelFreeWorkflow SubaruTcuCvtMitsuMh8104CanExecutor TcuCvtMitsuMh8104Can.Build.
Definition SubaruDenso1n83m_1_5mCanExecutor : executor :=
  {| executor_family := kSubaruDenso1n83m15mCan; executor_validate := Denso1n83m15mCan.Validate; executor_transport := kCanIso15765 |}.
Definition SubaruDenso1n83m_1_5mCanWorkflow : CreateWorkflow := KernelFreeWorkflow SubaruDenso1n83m_1_5mCanExecutor Denso1n83m15mCan.Build.
Definition SubaruDensoSh72531CanExecutor : executor :=
  {| executor_family := kSubaruDensoSh72531Can; executor_validate := DensoSh72531Can.Validate; executor_transport := kCanIso15765 |}.
Definition SubaruDensoSh72531CanWorkflow : CreateWorkflow := KernelFreeWorkflow SubaruDensoSh72531CanExecutor DensoSh72531Can.Build.
Definition SubaruDensoSh72543CanDieselExecutor : executor :=
  {| executor_family := kSubaruDensoSh72543CanDiesel; executor_validate := DensoSh72543CanDiesel.Validate; executor_transport := kCanIso15765 |}.
Definition SubaruDensoSh72543CanDieselWorkflow : CreateWorkflow := KernelFreeWorkflow SubaruDensoSh72543CanDieselExecutor DensoSh72543CanDiesel.Build.
Definition SubaruDenso1n83m_4mCanExecutor : executor :=
  {| executor_family := kSubaruDenso1n83m4mCan; executor_validate := Denso1n83m4mCan.Validate; executor_transport := kCanIso15765 |}.
Definition SubaruDenso1n83m_4mCanWorkflow : CreateWorkflow := KernelFreeWorkflow SubaruDenso1n83m_4mCanExecutor Denso1n83m4mCan.Build.
Definition SubaruDensoSh705xKlineExecutor : executor :=
  {| executor_family := kSubaruDensoSh705xKline; executor_validate := DensoSh705xKline.Validate; executor_transport := kKline |}.
Definition SubaruDensoSh705xKlineWorkflow : CreateWorkflow := KernelBackedWorkflow SubaruDensoSh705xKlineExecutor DensoSh705xKline.Build.
Definition SubaruDensoMc68hc16y5_02BdmExecutor : executor :=
  {| executor_family := kSubaruDensoMc68hc16y502Bdm; executor_validate := DensoMc68Bdm.Validate; executor_transport := kKline |}.
Definition SubaruDensoMc68hc16y5_02BdmWorkflow : CreateWorkflow := OwnPreparationWorkflow SubaruDensoMc68hc16y5_02BdmExecutor DensoMc68Bdm.Prepare.
Definition JecsM32rKlineWorkflow : CreateWorkflow := fun supplies r => JecsKline (jecs_new supplies r).
Definition JecsM32rBootModeWorkflow : CreateWorkflow := fun _ r => JecsBootMode (boot_new r).
Record FlashRoute := { route_protocols : list string; create : CreateWorkflow }.
Definition FlashRoutes : list FlashRoute :=
  [ {| route_protocols := ColtCan.Protocols; create := ColtWorkflow |};
    {| route_protocols := DensoEeprom.kKlineProtocols; create := EepromKlineWorkflow |};
    {| route_protocols := DensoEeprom.kCanProtocols; create := EepromCanWorkflow |};
    {| route_protocols := MitsuM32rKline.kProtocols; create := SubaruMitsuM32rKlineWorkflow |};
    {| route_protocols := HitachiM32rKline.kProtocols; create := SubaruHitachiM32rKlineWorkflow |};
    {| route_protocols := DensoMc68.kProtocols; create := SubaruDensoMc68hc16y5_02Workflow |};
    {| route_protocols := DensoSh705502.kProtocols; create := SubaruDensoSh7055_02Workflow |};
    {| route_protocols := DensoCan.Protocols; create := SubaruDensoSh705xDensoCanWorkflow |};
    {| route_protocols := TcuDensoSh705xCan.Protocols; create := SubaruTcuDensoSh705xCanWorkflow |};
    {| route_protocols := DensoSh7058Can.Protocols; create := SubaruDensoSh7058CanWorkflow |};
    {| route_protocols := DensoSh7058CanDiesel.Protocols; create := SubaruDensoSh7058CanDieselWorkflow |};
    {| route_protocols := protocols m32r_can_spec; create := SubaruHitachiM32rCanWorkflow |};
    {| route_protocols := TcuHitachiM32rKline.kProtocols; create := SubaruTcuHitachiM32rKlineWorkflow |};
    {| route_protocols := UnisiaJecs.Protocols; create := SubaruUnisiaJecsWorkflow |};
    {| route_protocols := TcuHitachiM32rCan.kProtocols; create := SubaruTcuHitachiM32rCanWorkflow |};
    {| route_protocols := HitachiSh72543rCan.kProtocols; create := SubaruHitachiSh72543rCanWorkflow |};
    {| route_protocols := HitachiSh7058.Protocols; create := MakeSubaruHitachiSh7058 |};
    {| route_protocols := TcuCvtHitachiM32rCan.kProtocols; create := SubaruTcuCvtHitachiM32rCanWorkflow |};
    {| route_protocols := TcuCvtMitsuMh8111Can.kProtocols; create := SubaruTcuCvtMitsuMh8111CanWorkflow |};
    {| route_protocols := TcuCvtMitsuMh8104Can.kProtocols; create := SubaruTcuCvtMitsuMh8104CanWorkflow |};
    {| route_protocols := Denso1n83m15mCan.kProtocols; create := SubaruDenso1n83m_1_5mCanWorkflow |};
    {| route_protocols := DensoSh72531Can.kProtocols; create := SubaruDensoSh72531CanWorkflow |};
    {| route_protocols := DensoSh72543CanDiesel.kProtocols; create := SubaruDensoSh72543CanDieselWorkflow |};
    {| route_protocols := Denso1n83m4mCan.kProtocols; create := SubaruDenso1n83m_4mCanWorkflow |};
    {| route_protocols := DensoSh705xKline.Protocols; create := SubaruDensoSh705xKlineWorkflow |};
    {| route_protocols := DensoMc68Bdm.Protocols; create := SubaruDensoMc68hc16y5_02BdmWorkflow |};
    {| route_protocols := JecsM32rKline.Protocols; create := JecsM32rKlineWorkflow |};
    {| route_protocols := JecsM32rBootMode.Protocols; create := JecsM32rBootModeWorkflow |} ].
Definition TryCreate (supplies : bool) (r : FlashWorkflowRequest) : option workflow :=
  match List.find (fun route => existsb (String.eqb (Catalog.name (req_protocol r))) (route_protocols route)) FlashRoutes with
  | None => None
  | Some route => Some (create route supplies r)
  end.
Definition RoutedProtocolIds : list string := List.concat (map route_protocols FlashRoutes).
End workflows.
