(* ===== verification/FlashDialog.v ===== *)
(** * FlashDialog: [src/ui/desktop/flash/common/flash_dialog.cpp]

    The dialog that drives a workflow: it shows each prompt and submits the operator's
    answer, runs each attempt on a worker and submits its result, and ends when the
    workflow does; closing the dialog during an attempt cancels it. *)
From S2P Require Import Prelude MemoryMap MemoryImage Catalog.
From S2P Require Import Ports FlashDevices FlashPlan SingleWindowPlans WholeRomPlans StagedPlans FlashExecution FlashWorkflow.

(** ** Prompts *)
(** [promptQuestion]: the responses of the accepting button and of any other answer. *)
Definition accepted (k : FlashPromptKind) : FlashPromptResponse := match k with kInspectRead => kSave | _ => kAccept end.
Definition declined (k : FlashPromptKind) : FlashPromptResponse :=
  match k with kInspectRead => kDiscard | kRemoveProgrammingVoltage => kAccept | _ => kDecline end.
Definition argument (p : FlashPromptStep) (key : string) : string :=
  from_option snd ""%string (List.find (fun a => String.eqb (fst a) key) (prompt_arguments p)).
(** The title and the paragraphs of the notice about the programming voltage. *)
Definition programmingVoltageNotice (p : FlashPromptStep) : string * list string :=
  let externalVpp := String.eqb (argument p "external_vpp") "yes" in
  let succeeded := String.eqb (argument p "outcome") "succeeded" in
  let powerOffAdvice := negb (String.eqb (argument p "power_off_advice") "no") in
  (if externalVpp then "Programming voltage"%string else "ECU operation"%string,
   (if externalVpp then ["Remove VPP voltage from the ECU, then press OK."%string] else [])
   ++ (if negb succeeded && powerOffAdvice then
         ["The write did not complete. If the ECU entered flash mode, do not power it off: the flash kernel is still running and you can try flashing again."%string]
       else if negb succeeded then ["The write did not complete. Press OK to exit and try again."%string]
       else if negb powerOffAdvice then ["Power cycle the ECU and request SSM Init to confirm the write."%string]
       else [])).

(** ** The world of a dialog *)
Inductive worker_end := WorkerFinished (r : FlashAttemptResult) | DialogClosed.
Inductive dialog_event :=
| Shown (p : FlashPromptStep) (response : FlashPromptResponse)
| Ran (a : FlashAttempt) (ended : worker_end)
| SuccessShown
| FailureShown (e : Error).
Definition dialog_trace : Type := list dialog_event.
(** What the dialog meets, each as a function of what has happened: the kernel files,
    whether the operator presses the accepting button, how an attempt ends. *)
Record world := {
  world_files : dialog_trace -> repository;
  world_presses : dialog_trace -> FlashPromptStep -> bool;
  world_worker : dialog_trace -> FlashAttempt -> worker_end
}.
Record FlashDialogResult :=
  { dialog_outcome : FlashWorkflowOutcome; accepted_read_bytes : option (list Z); dialog_rom_id : option string }.
Definition ended_with (o : FlashWorkflowOutcome) : FlashDialogResult :=
  {| dialog_outcome := o; accepted_read_bytes := None; dialog_rom_id := None |}.
Definition dialog_closed_result : FlashAttemptResult :=
  {| success := false; error_kind := kCancelled; error_detail := "cancelled: dialog closed"; read_bytes := None;
     result_rom_id := None |}.

Section dialog.
Context {W : Type} `{FlashWorkflow W} (env : world).
Definition presentPrompt (t : dialog_trace) (p : FlashPromptStep) : FlashPromptResponse :=
  if world_presses env t p then accepted (prompt_kind p) else declined (prompt_kind p).
(** The event of a finished dialog. *)
Definition success_event (o : FlashWorkflowOutcome) : list dialog_event :=
  match o with kSucceeded => [SuccessShown] | _ => [] end.
Definition failure_end (e : Error) : FlashDialogResult * list dialog_event :=
  if bool_decide (kind e = kCancelled) then (ended_with kOutcomeCancelled, []) else (ended_with kFailed, [FailureShown e]).
(** [finishCancelledAttempt]: the prompts that follow a cancelled attempt. *)
Fixpoint finishCancelledAttempt (fuel : nat) (w : W) (t : dialog_trace) : option dialog_trace :=
  match fuel with
  | O => None
  | S fuel =>
      let '(step, w) := Next (world_files env t) w in
      match step with
      | PromptStep p =>
          let r := presentPrompt t p in finishCancelledAttempt fuel (SubmitResponse r w) (t ++ [Shown p r])
      | _ => Some t
      end
  end.
(** [advance], with [startAttempt], [workerFinished] and [closeEvent]; [None] when the
    fuel runs out. *)
Fixpoint advance (fuel : nat) (w : W) (t : dialog_trace) : option (FlashDialogResult * dialog_trace) :=
  match fuel with
  | O => None
  | S fuel =>
      let '(step, w) := Next (world_files env t) w in
      match step with
      | PromptStep p => let r := presentPrompt t p in advance fuel (SubmitResponse r w) (t ++ [Shown p r])
      | AttemptStep a =>
          match world_worker env t a with
          | WorkerFinished r => advance fuel (SubmitResult r w) (t ++ [Ran a (WorkerFinished r)])
          | DialogClosed =>
              match finishCancelledAttempt fuel (SubmitResult dialog_closed_result w) (t ++ [Ran a DialogClosed]) with
              | Some t => Some (ended_with kOutcomeCancelled, t)
              | None => None
              end
          end
      | FlashCompletedStep o bytes rom_id =>
          Some ({| dialog_outcome := o; accepted_read_bytes := bytes; dialog_rom_id := rom_id |}, t ++ success_event o)
      | FlashFailureStep e => let '(r, evs) := failure_end e in Some (r, t ++ evs)
      end
  end.
Definition run (fuel : nat) (w : W) : option (FlashDialogResult * dialog_trace) := advance fuel w [].
End dialog.

(** ** Scripts: what a dialog over a workflow amounts to *)
Section scripts.
Context (env : world).
(** The prompts in order, up to the first one not accepted. *)
Fixpoint ask (prompts : list FlashPromptStep) (t : dialog_trace) : bool * dialog_trace :=
  match prompts with
  | [] => (true, t)
  | p :: prompts =>
      let r := presentPrompt env t p in
      if bool_decide (r = kAccept) then ask prompts (t ++ [Shown p r]) else (false, t ++ [Shown p r])
  end.
(** A notice that is shown whatever its answer. *)
Definition tell (p : FlashPromptStep) (t : dialog_trace) : dialog_trace := t ++ [Shown p (presentPrompt env t p)].
(** The end an attempt's result decides. *)
Definition conclude (r : FlashAttemptResult) (t : dialog_trace) : FlashDialogResult * dialog_trace :=
  if success r then
    ({| dialog_outcome := kSucceeded; accepted_read_bytes := read_bytes r; dialog_rom_id := result_rom_id r |}, t ++ [SuccessShown])
  else if bool_decide (error_kind r = kCancelled) then (ended_with kOutcomeCancelled, t)
  else (ended_with kFailed, t ++ [FailureShown (error_of r)]).
Definition fails (e : Error) (t : dialog_trace) : FlashDialogResult * dialog_trace :=
  let '(r, evs) := failure_end e in (r, t ++ evs).
Definition cancelled (t : dialog_trace) : FlashDialogResult * dialog_trace := (ended_with kOutcomeCancelled, t).

(** One attempt: preparation, the prompts, the attempt. *)
Definition single_script (e : executor) (prepare : PlanPreparation) (q : FlashWorkflowRequest)
    : FlashDialogResult * dialog_trace :=
  match prepare (req_operation q) (req_protocol q) (req_paths q) (req_image q) (world_files env []) with
  | Err err => fails err []
  | Ok plan =>
      match PromptSequence plan with
      | Err err => fails err []
      | Ok prompts =>
          let '(go, t) := ask prompts [] in
          if go then
            let a := {| attempt_plan := plan; attempt_executor := e |} in
            match world_worker env t a with
            | WorkerFinished r => conclude r (t ++ [Ran a (WorkerFinished r)])
            | DialogClosed => cancelled (t ++ [Ran a DialogClosed])
            end
          else cancelled t
      end
  end.
(** The end of a K-Line write: the notice where one is due, before the end. *)
Definition jecs_finish (write vpp : bool) (r : FlashAttemptResult) (t : dialog_trace) : dialog_trace :=
  if write && (vpp || negb (success r)) then tell (remove_vpp (AttemptOutcomeName r) vpp) t else t.
Definition jecs_script (supplies : bool) (q : FlashWorkflowRequest) : FlashDialogResult * dialog_trace :=
  match JecsM32rKline.Build (req_operation q) (Catalog.name (req_protocol q)) (Catalog.mcu (req_protocol q)) (req_image q) supplies with
  | Err err => fails err []
  | Ok plan =>
      let write := bool_decide (req_operation q = kWrite) in
      let vpp := write && negb supplies in
      let '(go, t) := ask (prompt kBegin :: if vpp then [prompt kPromptApplyProgrammingVoltage] else []) [] in
      if go then
        let a := {| attempt_plan := plan; attempt_executor := jecs_executor |} in
        match world_worker env t a with
        | WorkerFinished r => conclude r (jecs_finish write vpp r (t ++ [Ran a (WorkerFinished r)]))
        | DialogClosed => cancelled (jecs_finish write vpp dialog_closed_result (t ++ [Ran a DialogClosed]))
        end
      else cancelled t
  end.
(** The boot-mode write: the kernel, the operator's step, the program; a notice after
    whichever attempt was the last. *)
Definition boot_program_script (plans : JecsM32rBootMode.BootModePlans) (t : dialog_trace) : FlashDialogResult * dialog_trace :=
  let '(go, t) := ask [prompt kRemoveMod1] t in
  if go then
    match JecsM32rBootMode.program plans with
    | None => fails (internal_error "the Unisia JECS program plan was not built") t
    | Some plan =>
        let a := {| attempt_plan := plan; attempt_executor := boot_program_executor |} in
        match world_worker env t a with
        | WorkerFinished r => conclude r (tell (boot_notice (AttemptOutcomeName r)) (t ++ [Ran a (WorkerFinished r)]))
        | DialogClosed => cancelled (tell (boot_notice "cancelled") (t ++ [Ran a DialogClosed]))
        end
    end
  else cancelled (tell (boot_notice "cancelled") t).
Definition boot_write_script (plans : JecsM32rBootMode.BootModePlans) (a : FlashAttempt) (t : dialog_trace)
    : FlashDialogResult * dialog_trace :=
  match world_worker env t a with
  | WorkerFinished r =>
      if success r then boot_program_script plans (t ++ [Ran a (WorkerFinished r)])
      else conclude r (tell (boot_notice (AttemptOutcomeName r)) (t ++ [Ran a (WorkerFinished r)]))
  | DialogClosed => cancelled (tell (boot_notice "cancelled") (t ++ [Ran a DialogClosed]))
  end.
Definition boot_read_script (a : FlashAttempt) (t : dialog_trace) : FlashDialogResult * dialog_trace :=
  match world_worker env t a with
  | WorkerFinished r => conclude r (t ++ [Ran a (WorkerFinished r)])
  | DialogClosed => cancelled (t ++ [Ran a DialogClosed])
  end.
Definition boot_script (q : FlashWorkflowRequest) : FlashDialogResult * dialog_trace :=
  match JecsM32rBootMode.Prepare (req_operation q) (req_protocol q) (req_paths q) (req_image q) (world_files env []) with
  | Err err => fails err []
  | Ok plans =>
      let write := negb (bool_decide (req_operation q = kRead)) in
      let '(go, t) := ask (prompt kBegin :: if write then [prompt kPromptApplyBootModeVoltages] else []) [] in
      if go then
        match JecsM32rBootMode.first plans with
        | None => fails (internal_error "the Unisia JECS first-stage plan was not built") t
        | Some plan =>
            if write then boot_write_script plans {| attempt_plan := plan; attempt_executor := boot_kernel_executor |} t
            else boot_read_script {| attempt_plan := plan; attempt_executor := jecs_executor |} t
        end
      else cancelled t
  end.
(** The EEPROM read: one attempt per mode until the operator saves one. *)
Fixpoint eeprom_modes (e : executor) (q : FlashWorkflowRequest) (modes : list EepromReadMode) (t : dialog_trace)
    : FlashDialogResult * dialog_trace :=
  match modes with
  | [] => (ended_with kDiscarded, t)
  | mode :: rest =>
      match DensoEeprom.BuildEepromReadPlan (executor_family e) (req_paths q) (req_protocol q) mode (world_files env t) with
      | Err err => fails err t
      | Ok plan =>
          let a := {| attempt_plan := plan; attempt_executor := e |} in
          match world_worker env t a with
          | DialogClosed => cancelled (t ++ [Ran a DialogClosed])
          | WorkerFinished r =>
              let t := t ++ [Ran a (WorkerFinished r)] in
              if success r then
                let saved := bool_decide (presentPrompt env t (prompt kInspectRead) = kSave) in
                let t := tell (prompt kInspectRead) t in
                if saved then
                  ({| dialog_outcome := kSucceeded; accepted_read_bytes := read_bytes r; dialog_rom_id := None |},
                   t ++ [SuccessShown])
                else match rest with
                | [] => (ended_with kDiscarded, t)
                | _ => let '(go, t) := ask [prompt kPromptCycleIgnition] t in
                       if go then eeprom_modes e q rest t else cancelled t
                end
              else if bool_decide (error_kind r = kCancelled) then cancelled t
              else match rest with
              | [] => (ended_with kFailed, t ++ [FailureShown (error_of r)])
              | _ => eeprom_modes e q rest t
              end
          end
      end
  end.
Definition eeprom_script (e : executor) (q : FlashWorkflowRequest) : FlashDialogResult * dialog_trace :=
  if negb (bool_decide (req_operation q = kRead)) then
    fails {| kind := kUnsupported; detail := "EEPROM workflows support read operations only";
             cancellation_io_exposure := kMayHaveStarted |} []
  else
    let '(go, t) := ask [prompt kBegin] [] in
    if go then eeprom_modes e q [kMode2; kMode3; kMode4] t else cancelled t.
End scripts.

(** ** Lemmas *)
Section lemmas.
Context (moved_from : string -> string) (env : world).
#[local] Instance single_driven : FlashWorkflow SingleAttemptFlashWorkflow := single_workflow moved_from.
#[local] Instance jecs_driven : FlashWorkflow SubaruUnisiaJecsM32rKlineWorkflow := jecs_workflow moved_from.
#[local] Instance boot_driven : FlashWorkflow SubaruUnisiaJecsM32rBootModeWorkflow := boot_workflow moved_from.
#[local] Instance eeprom_driven : FlashWorkflow EepromWorkflow := eeprom_workflow moved_from.
(** One turn of the loop. *)
Lemma advance_prompt {W} `{FlashWorkflow W} fuel (w w' : W) t p :
  Next (world_files env t) w = (PromptStep p, w') ->
  advance env (S fuel) w t
  = advance env fuel (SubmitResponse (presentPrompt env t p) w') (t ++ [Shown p (presentPrompt env t p)]).
Proof. intros E. cbn [advance]. by rewrite E. Qed.
Lemma finish_prompt {W} `{FlashWorkflow W} fuel (w w' : W) t p :
  Next (world_files env t) w = (PromptStep p, w') ->
  finishCancelledAttempt env (S fuel) w t
  = finishCancelledAttempt env fuel (SubmitResponse (presentPrompt env t p) w') (t ++ [Shown p (presentPrompt env t p)]).
Proof. intros E. cbn [finishCancelledAttempt]. by rewrite E. Qed.
Lemma advance_attempt {W} `{FlashWorkflow W} fuel (w w' : W) t a :
  Next (world_files env t) w = (AttemptStep a, w') ->
  advance env (S fuel) w t
  = match world_worker env t a with
    | WorkerFinished r => advance env fuel (SubmitResult r w') (t ++ [Ran a (WorkerFinished r)])
    | DialogClosed =>
        match finishCancelledAttempt env fuel (SubmitResult dialog_closed_result w') (t ++ [Ran a DialogClosed]) with
        | Some t => Some (ended_with kOutcomeCancelled, t)
        | None => None
        end
    end.
Proof. intros E. cbn [advance]. by rewrite E. Qed.
(** A workflow whose outcome an attempt's result decided. *)
Lemma record_finished r :
  exists o, FinishedStep moved_from (Record_ r running)
  = Some (if success r then FlashCompletedStep kSucceeded (read_bytes r) (result_rom_id r)
          else if bool_decide (error_kind r = kCancelled) then FlashCompletedStep kOutcomeCancelled None None
          else FlashFailureStep (error_of r), o).
Proof.
  unfold Record_. destruct (success r); [by eexists|]. destruct (bool_decide _); [by eexists|]. by eexists.
Qed.
Lemma cancel_finished : exists o, FinishedStep moved_from (Cancel running) = Some (FlashCompletedStep kOutcomeCancelled None None, o).
Proof. by eexists. Qed.
(** The dialog's end over a recorded result. *)
Lemma advance_recorded {W} `{FlashWorkflow W} fuel (w w' : W) t r step :
  step = (if success r then FlashCompletedStep kSucceeded (read_bytes r) (result_rom_id r)
          else if bool_decide (error_kind r = kCancelled) then FlashCompletedStep kOutcomeCancelled None None
          else FlashFailureStep (error_of r)) ->
  Next (world_files env t) w = (step, w') -> advance env (S fuel) w t = Some (conclude r t).
Proof.
  intros -> E. cbn [advance]. rewrite E. unfold conclude. destruct (success r); [done|].
  destruct (bool_decide (error_kind r = kCancelled)) eqn:Ek; [by rewrite app_nil_r|].
  unfold failure_end. cbn [kind error_of]. by rewrite Ek.
Qed.
Lemma advance_cancelled {W} `{FlashWorkflow W} fuel (w w' : W) t :
  Next (world_files env t) w = (FlashCompletedStep kOutcomeCancelled None None, w') ->
  advance env (S fuel) w t = Some (cancelled t).
Proof. intros E. cbn [advance]. rewrite E. cbn [success_event]. by rewrite app_nil_r. Qed.
Lemma advance_completed {W} `{FlashWorkflow W} fuel (w w' : W) t o bytes rom :
  Next (world_files env t) w = (FlashCompletedStep o bytes rom, w') ->
  advance env (S fuel) w t
  = Some ({| dialog_outcome := o; accepted_read_bytes := bytes; dialog_rom_id := rom |}, t ++ success_event o).
Proof. intros E. cbn [advance]. by rewrite E. Qed.
Lemma finish_done {W} `{FlashWorkflow W} fuel (w w' : W) t step :
  Next (world_files env t) w = (step, w') -> (forall p, step <> PromptStep p) ->
  finishCancelledAttempt env (S fuel) w t = Some t.
Proof. intros E Hs. cbn [finishCancelledAttempt]. rewrite E. destruct step; [by destruct (Hs p)|done..]. Qed.

(** *** One attempt *)
Definition single_at (e : executor) (prepare : PlanPreparation) (q : FlashWorkflowRequest) (plan : FlashPlan)
    (ps : list FlashPromptStep) (n : nat) (attempted : bool) (o : FlashAttemptOutcome) : SingleAttemptFlashWorkflow :=
  {| single_executor := e; single_prepare := prepare; single_request := q; single_plan := Some (Ok plan);
     single_prompts := Some (Ok ps); accepted_ := n; attempted_ := attempted; single_outcome := o |}.
Lemma single_asks e prepare q plan ps n fuel t :
  (n <= length ps)%nat -> (length ps - n < fuel)%nat ->
  advance env fuel (single_at e prepare q plan ps n false running) t
  = let '(go, t') := ask env (drop n ps) t in
    if go then advance env (fuel - (length ps - n)) (single_at e prepare q plan ps (length ps) false running) t'
    else Some (cancelled t').
Proof.
  remember (length ps - n)%nat as k eqn:Ek. revert n fuel t Ek. induction k as [|k IH]; intros n fuel t Ek Hn Hf.
  - assert (n = length ps) as -> by lia. rewrite drop_all. cbn [ask]. by rewrite Nat.sub_0_r.
  - destruct fuel as [|fuel]; [lia|]. destruct (ps !! n) as [p|] eqn:Ep; [|apply lookup_ge_None in Ep; lia].
    rewrite (advance_prompt _ _ (single_at e prepare q plan ps n false running) _ p)
      by (cbn; unfold single_Next; cbn [single_plan single_prompts single_outcome accepted_ single_at FinishedStep running failure_ terminal_];
          by rewrite Ep).
    rewrite (drop_S _ p) by done. cbn [ask SubmitResponse single_driven single_workflow]. unfold single_SubmitResponse.
    destruct (bool_decide (presentPrompt env t p = kAccept)); cbn [negb].
    + specialize (IH (S n) fuel (t ++ [Shown p (presentPrompt env t p)]) ltac:(lia) ltac:(lia) ltac:(lia)).
      by replace (S fuel - S k)%nat with (fuel - k)%nat by lia.
    + destruct fuel as [|fuel]; [lia|]. by eapply advance_cancelled.
Qed.
Lemma single_attempts e prepare q plan ps fuel t :
  (2 <= fuel)%nat ->
  advance env fuel (single_at e prepare q plan ps (length ps) false running) t
  = let a := {| attempt_plan := plan; attempt_executor := e |} in
    Some (match world_worker env t a with
          | WorkerFinished r => conclude r (t ++ [Ran a (WorkerFinished r)])
          | DialogClosed => cancelled (t ++ [Ran a DialogClosed])
          end).
Proof.
  intros Hf. destruct fuel as [|[|fuel]]; [lia..|]. cbv zeta.
  assert (Next (world_files env t) (single_at e prepare q plan ps (length ps) false running)
    = (AttemptStep {| attempt_plan := plan; attempt_executor := e |}, single_at e prepare q plan ps (length ps) true running)) as E.
  { cbn. unfold single_Next. cbn [single_plan single_prompts single_outcome accepted_ single_at FinishedStep running failure_ terminal_].
    by rewrite (proj2 (lookup_ge_None ps (length ps))). }
  rewrite (advance_attempt _ _ _ _ _ E). destruct (world_worker env t _) as [r|].
  - destruct (record_finished r) as [o Ho].
    apply (advance_recorded _ _ (single_at e prepare q plan ps (length ps) true o) _ r _ eq_refl).
    cbn. unfold single_Next. cbn [single_plan single_prompts single_outcome accepted_ single_at single_SubmitResult single_with].
    by rewrite Ho.
  - erewrite finish_done; [reflexivity|reflexivity|discriminate].
Qed.
Lemma advance_same_next {W} `{FlashWorkflow W} fuel (w1 w2 : W) t :
  Next (world_files env t) w1 = Next (world_files env t) w2 -> advance env (S fuel) w1 t = advance env (S fuel) w2 t.
Proof. intros E. cbn [advance]. by rewrite E. Qed.
Definition single_rounds (prepare : PlanPreparation) (q : FlashWorkflowRequest) : nat :=
  match prepare (req_operation q) (req_protocol q) (req_paths q) (req_image q) (world_files env []) with
  | Err _ => 1
  | Ok plan => length (Confirmations plan) + 3
  end.
Lemma prompts_of_length l ps : prompts_of l = Ok ps -> length ps = length l.
Proof.
  revert ps. induction l as [|c l IH]; intros ps E; [by injection E as <-|]. cbn [prompts_of] in E.
  apply result_bind_Ok in E as (p & _ & E). apply result_bind_Ok in E as (qs & E & E'). injection E' as <-. cbn. by rewrite (IH qs).
Qed.
Lemma advance_fails {W} `{FlashWorkflow W} fuel (w w' : W) t e :
  Next (world_files env t) w = (FlashFailureStep e, w') -> advance env (S fuel) w t = Some (fails e t).
Proof. intros E. cbn [advance]. rewrite E. unfold fails. by destruct (failure_end e). Qed.
Lemma single_runs e prepare q fuel :
  (single_rounds prepare q <= fuel)%nat -> run env fuel (single_new e prepare q) = Some (single_script env e prepare q).
Proof.
  unfold single_rounds, single_script, run. intros Hf.
  destruct (prepare _ _ _ _ _) as [plan|err] eqn:Ep.
  2:{ destruct fuel as [|fuel]; [lia|]. eapply advance_fails. cbn. unfold single_Next. cbn. by rewrite Ep. }
  destruct fuel as [|fuel]; [lia|].
  assert (Next (world_files env []) (single_new e prepare q) = single_Next moved_from (world_files env []) (single_new e prepare q))
    as En by reflexivity.
  unfold single_Next in En. cbn [single_new single_plan single_prompts single_request single_prepare single_outcome accepted_ attempted_] in En.
  rewrite Ep in En. destruct (PromptSequence plan) as [ps|err] eqn:Eps; [|by eapply advance_fails].
  rewrite (advance_same_next fuel _ (single_at e prepare q plan ps 0 false running)) by (by rewrite En).
  assert (length ps = S (length (Confirmations plan))) as Hl.
  { unfold PromptSequence in Eps. apply result_bind_Ok in Eps as (qs & E & E'). injection E' as <-. cbn.
    by rewrite (prompts_of_length _ _ E). }
  rewrite single_asks by lia. rewrite drop_0. destruct (ask env ps []) as [go t]. destruct go; [|done].
  by rewrite single_attempts by lia.
Qed.

(** *** The K-Line write with programming voltage *)
Lemma jecs_needs_vpp supplies q plan :
  JecsM32rKline.Build (req_operation q) (Catalog.name (req_protocol q)) (Catalog.mcu (req_protocol q)) (req_image q) supplies = Ok plan ->
  existsb (fun c => bool_decide (conf_id c = kApplyProgrammingVoltage)) (Confirmations plan)
  = bool_decide (req_operation q = kWrite) && negb supplies.
Proof.
  unfold JecsM32rKline.Build, ValidatedPlan. intros E. do 3 apply result_bind_Ok in E as (? & _ & E).
  apply result_bind_Ok in E as (p & E & E'). apply result_bind_Ok in E' as (? & _ & [= <-]).
  unfold ValidateAndBuild in E. do 4 apply result_bind_Ok in E as (? & _ & E).
  destruct (negb _); [done|]. destruct (HasDuplicateConfirmation _); [done|]. injection E as <-.
  cbn. unfold JecsM32rKline.ConfirmationsFor. by destruct (_ && _).
Qed.
Definition jecs_at (plan : FlashPlan) (write vpp : bool) (st : jecs_stage) (name : string) (o : FlashAttemptOutcome)
    : SubaruUnisiaJecsM32rKlineWorkflow :=
  {| jecs_plan := Ok plan; is_write_ := write; needs_vpp_ := vpp; jecs_stage_ := st; attempt_outcome_ := name; jecs_outcome := o |}.
Lemma jecs_attempts plan write vpp name fuel t :
  (3 <= fuel)%nat ->
  advance env fuel (jecs_at plan write vpp JecsAttempt name running) t
  = let a := {| attempt_plan := plan; attempt_executor := jecs_executor |} in
    Some (match world_worker env t a with
          | WorkerFinished r => conclude r (jecs_finish env write vpp r (t ++ [Ran a (WorkerFinished r)]))
          | DialogClosed => cancelled (jecs_finish env write vpp dialog_closed_result (t ++ [Ran a DialogClosed]))
          end).
Proof.
  intros Hf. destruct fuel as [|[|[|fuel]]]; [lia..|]. cbv zeta.
  rewrite (advance_attempt _ (jecs_at plan write vpp JecsAttempt name running) (jecs_at plan write vpp JecsDone name running) t
    {| attempt_plan := plan; attempt_executor := jecs_executor |})
    by (cbn; by rewrite bool_decide_eq_false_2).
  destruct (world_worker env t _) as [r|]; unfold jecs_finish.
  - change (SubmitResult ?r ?w) with (jecs_SubmitResult r w). unfold jecs_SubmitResult. cbn [is_write_ needs_vpp_ jecs_at].
    destruct (record_finished r) as [o Ho]. destruct (write && (vpp || negb (success r))).
    + erewrite advance_prompt by reflexivity. eapply (advance_recorded _ _ _ _ r _ eq_refl). cbn. by rewrite Ho.
    + eapply (advance_recorded _ _ _ _ r _ eq_refl). cbn. by rewrite Ho.
  - change (SubmitResult ?r ?w) with (jecs_SubmitResult r w). unfold jecs_SubmitResult. cbn [is_write_ needs_vpp_ jecs_at].
    destruct (write && (vpp || negb (success dialog_closed_result))).
    + erewrite finish_prompt by reflexivity. erewrite finish_done; [reflexivity|reflexivity|discriminate].
    + erewrite finish_done; [reflexivity|reflexivity|discriminate].
Qed.
Lemma jecs_asks plan write vpp st name fuel t p :
  Next (world_files env t) (jecs_at plan write vpp st name running) = (PromptStep p, jecs_at plan write vpp st name running) ->
  st = JecsBegin \/ st = JecsApplyVpp ->
  advance env (S (S fuel)) (jecs_at plan write vpp st name running) t
  = let '(go, t') := ask env [p] t in
    if go then advance env (S fuel)
      (jecs_at plan write vpp (if bool_decide (st = JecsBegin) && vpp then JecsApplyVpp else JecsAttempt) name running) t'
    else Some (cancelled t').
Proof.
  intros E Hst. rewrite (advance_prompt _ _ _ _ _ E). cbn [ask]. change (SubmitResponse ?r ?w) with (jecs_SubmitResponse r w).
  destruct Hst as [-> | ->]; unfold jecs_SubmitResponse; cbn [jecs_stage_ jecs_at];
    (destruct (bool_decide (presentPrompt env t p = kAccept)); cbn [negb]; [reflexivity|];
     eapply advance_cancelled; cbn; by rewrite bool_decide_eq_false_2).
Qed.
Lemma jecs_runs supplies q fuel : (5 <= fuel)%nat -> run env fuel (jecs_new supplies q) = Some (jecs_script env supplies q).
Proof.
  intros Hf. destruct fuel as [|[|[|[|[|fuel]]]]]; [lia..|]. unfold run, jecs_script.
  destruct (JecsM32rKline.Build _ _ _ _ _) as [plan|err] eqn:Eb.
  2:{ eapply advance_fails. cbn. unfold jecs_Next, jecs_new. cbn [jecs_plan]. rewrite Eb. reflexivity. }
  assert (jecs_new supplies q = jecs_at plan (bool_decide (req_operation q = kWrite))
    (bool_decide (req_operation q = kWrite) && negb supplies) JecsBegin "" running) as ->.
  { unfold jecs_new. rewrite Eb, (jecs_needs_vpp supplies q plan Eb). reflexivity. }
  cbv zeta. destruct (bool_decide (req_operation q = kWrite) && negb supplies).
  - rewrite (jecs_asks _ _ _ _ _ _ _ (prompt kBegin)) by (first [by left|cbn; by rewrite bool_decide_eq_false_2]).
    cbn [ask]. destruct (bool_decide (presentPrompt env [] _ = kAccept)); [|done].
    rewrite (bool_decide_eq_true_2 (JecsBegin = JecsBegin)) by done. cbn [andb].
    rewrite (jecs_asks _ _ _ _ _ _ _ (prompt kPromptApplyProgrammingVoltage)) by (first [by right|cbn; by rewrite bool_decide_eq_false_2]).
    cbn [ask]. destruct (bool_decide (presentPrompt env _ _ = kAccept)); [|done].
    rewrite (bool_decide_eq_false_2 (JecsApplyVpp = JecsBegin)) by done. cbn [andb]. by rewrite jecs_attempts by lia.
  - rewrite (jecs_asks _ _ _ _ _ _ _ (prompt kBegin)) by (first [by left|cbn; by rewrite bool_decide_eq_false_2]).
    cbn [ask]. destruct (bool_decide (presentPrompt env [] _ = kAccept)); [|done].
    rewrite andb_false_r. by rewrite jecs_attempts by lia.
Qed.

(** *** Boot mode *)
Definition boot_at (q : FlashWorkflowRequest) (plans : JecsM32rBootMode.BootModePlans) (st : boot_stage) (name : string)
    (o : FlashAttemptOutcome) : SubaruUnisiaJecsM32rBootModeWorkflow :=
  {| boot_request := q; built_ := Some (Ok plans); boot_stage_ := st; notice_outcome_ := name; boot_outcome := o |}.
Definition boot_writes (q : FlashWorkflowRequest) : bool := negb (bool_decide (req_operation q = kRead)).
(** A step of the workflow away from its notice. *)
Lemma boot_Next_running files q plans st name :
  st <> BootNotice ->
  Next files (boot_at q plans st name running)
  = match st with
    | BootBegin => (PromptStep (prompt kBegin), boot_at q plans st name running)
    | BootApplyVoltages => (PromptStep (prompt kPromptApplyBootModeVoltages), boot_at q plans st name running)
    | BootFirstAttempt => (FirstAttempt plans (boot_at q plans st name running), boot_at q plans BootAwaitFirst name running)
    | BootRemoveMod1 => (PromptStep (prompt kRemoveMod1), boot_at q plans st name running)
    | BootProgramAttempt =>
        match JecsM32rBootMode.program plans with
        | None => (FlashFailureStep (internal_error "the Unisia JECS program plan was not built"), boot_at q plans st name running)
        | Some plan => (AttemptStep {| attempt_plan := plan; attempt_executor := boot_program_executor |},
                        boot_at q plans BootAwaitProgram name running)
        end
    | _ => (FlashCompletedStep kFailed None None, boot_at q plans st name running)
    end.
Proof. intros Hst. change (Next ?f ?w) with (boot_Next moved_from f w). unfold boot_Next. cbn [boot_at built_ boot_stage_]. rewrite bool_decide_eq_false_2 by done. by destruct st. Qed.
Lemma boot_Next_notice files q plans name o :
  Next files (boot_at q plans BootNotice name o) = (PromptStep (boot_notice name), boot_at q plans BootNotice name o).
Proof. reflexivity. Qed.
Lemma boot_Next_finished files q plans st name o step o' :
  st <> BootNotice -> FinishedStep moved_from o = Some (step, o') ->
  Next files (boot_at q plans st name o) = (step, boot_at q plans st name o').
Proof.
  intros Hst E. change (Next ?f ?w) with (boot_Next moved_from f w). unfold boot_Next. cbn [boot_at built_ boot_stage_ boot_outcome]. rewrite bool_decide_eq_false_2 by done. by rewrite E.
Qed.
Lemma boot_asks q plans st fuel t p :
  st = BootBegin /\ p = prompt kBegin \/ st = BootApplyVoltages /\ p = prompt kPromptApplyBootModeVoltages ->
  advance env (S (S fuel)) (boot_at q plans st "" running) t
  = let '(go, t') := ask env [p] t in
    if go then advance env (S fuel)
      (boot_at q plans (if bool_decide (st = BootBegin) && boot_writes q then BootApplyVoltages else BootFirstAttempt) "" running) t'
    else Some (cancelled t').
Proof.
  intros Hst. rewrite (advance_prompt _ _ (boot_at q plans st "" running) _ p)
    by (destruct Hst as [[-> ->] | [-> ->]]; by rewrite boot_Next_running).
  cbn [ask]. change (SubmitResponse ?r ?w) with (boot_SubmitResponse r w).
  assert (st <> BootNotice) as Hn by (by destruct Hst as [[-> _] | [-> _]]).
  destruct (bool_decide (presentPrompt env t p = kAccept)) eqn:Ea.
  - unfold boot_SubmitResponse. rewrite Ea. by destruct Hst as [[-> _] | [-> _]].
  - destruct cancel_finished as [o Ho]. apply (advance_cancelled _ _ (boot_at q plans st "" o)).
    rewrite <- (boot_Next_finished (world_files env (t ++ [Shown p (presentPrompt env t p)])) q plans st "" _ _ _ Hn Ho).
    unfold boot_SubmitResponse. rewrite Ea. by destruct Hst as [[-> _] | [-> _]].
Qed.
Lemma boot_notifies q plans name r fuel t :
  advance env (S (S fuel)) (boot_at q plans BootNotice name (Record_ r running)) t = Some (conclude r (tell env (boot_notice name) t)).
Proof.
  rewrite (advance_prompt _ _ _ _ _ (boot_Next_notice _ _ _ _ _)). destruct (record_finished r) as [o Ho].
  by apply (advance_recorded _ _ (boot_at q plans BootDone name o) _ r _ eq_refl), boot_Next_finished.
Qed.
Lemma boot_notifies_cancel q plans name o fuel t :
  failure_ o = None -> terminal_ o = true ->
  finishCancelledAttempt env (S (S fuel)) (boot_at q plans BootNotice name o) t = Some (tell env (boot_notice name) t).
Proof.
  intros Hf Ht. rewrite (finish_prompt _ _ _ _ _ (boot_Next_notice _ _ _ _ _)). eapply finish_done.
  - eapply (boot_Next_finished _ q plans BootDone name o); [done|]. unfold FinishedStep. by rewrite Hf, Ht.
  - done.
Qed.
Lemma boot_programs q plans fuel t :
  boot_writes q = true -> (4 <= fuel)%nat ->
  advance env fuel (boot_at q plans BootRemoveMod1 "" running) t = Some (boot_program_script env plans t).
Proof.
  intros Hw Hf. destruct fuel as [|[|[|[|fuel]]]]; [lia..|]. unfold boot_program_script.
  rewrite (advance_prompt (W := SubaruUnisiaJecsM32rBootModeWorkflow) _ _ _ _ _ (boot_Next_running _ q plans BootRemoveMod1 "" ltac:(done))). cbn [ask].
  change (SubmitResponse ?r ?w) with (boot_SubmitResponse r w). unfold boot_SubmitResponse. cbn [boot_stage_ boot_at].
  destruct (bool_decide (presentPrompt env t _ = kAccept)); cbn [negb].
  2:{ rewrite (advance_prompt (W := SubaruUnisiaJecsM32rBootModeWorkflow) _ _ _ _ _ (boot_Next_notice _ q plans "cancelled" (Cancel running))).
      destruct cancel_finished as [o Ho]. by eapply (advance_cancelled (W := SubaruUnisiaJecsM32rBootModeWorkflow)), (boot_Next_finished _ q plans BootDone). }
  pose proof (fun f => boot_Next_running f q plans BootProgramAttempt "" ltac:(done)) as En.
  destruct (JecsM32rBootMode.program plans) as [plan|]; [|by eapply (advance_fails (W := SubaruUnisiaJecsM32rBootModeWorkflow)), En].
  rewrite (advance_attempt (W := SubaruUnisiaJecsM32rBootModeWorkflow) _ _ _ _ _ (En _)). destruct (world_worker env _ _) as [r|].
  - change (SubmitResult ?r ?w) with (boot_SubmitResult r w). unfold boot_SubmitResult, IsWrite. cbn [boot_request boot_at boot_stage_].
    unfold boot_writes in Hw. rewrite Hw. cbn [negb]. rewrite bool_decide_eq_false_2 by done. cbn [andb].
    exact (boot_notifies q plans (AttemptOutcomeName r) r fuel _).
  - change (SubmitResult ?r ?w) with (boot_SubmitResult r w). unfold boot_SubmitResult, IsWrite. cbn [boot_request boot_at boot_stage_].
    unfold boot_writes in Hw. rewrite Hw. cbn [negb]. rewrite bool_decide_eq_false_2 by done. cbn [andb].
    exact (f_equal (fun o => match o with Some t => Some (ended_with kOutcomeCancelled, t) | None => None end)
      (boot_notifies_cancel q plans "cancelled" (Record_ dialog_closed_result running) fuel _ eq_refl eq_refl)).
Qed.
Lemma boot_attempts q plans fuel t :
  (6 <= fuel)%nat ->
  advance env fuel (boot_at q plans BootFirstAttempt "" running) t
  = Some (match JecsM32rBootMode.first plans with
          | None => fails (internal_error "the Unisia JECS first-stage plan was not built") t
          | Some plan =>
              if boot_writes q then boot_write_script env plans {| attempt_plan := plan; attempt_executor := boot_kernel_executor |} t
              else boot_read_script env {| attempt_plan := plan; attempt_executor := jecs_executor |} t
          end).
Proof.
  intros Hf. destruct fuel as [|[|[|[|[|[|fuel]]]]]]; [lia..|].
  pose proof (boot_Next_running (world_files env t) q plans BootFirstAttempt "" ltac:(done)) as En. cbv iota in En.
  unfold FirstAttempt in En. destruct (JecsM32rBootMode.first plans) as [plan|];
    [|by eapply (advance_fails (W := SubaruUnisiaJecsM32rBootModeWorkflow)), En].
  rewrite (advance_attempt (W := SubaruUnisiaJecsM32rBootModeWorkflow) _ _ _ _ _ En).
  change (SubmitResult ?r ?w) with (boot_SubmitResult r w). unfold boot_SubmitResult, boot_write_script, boot_read_script.
  change (IsWrite (boot_at q plans ?st ?n ?o)) with (boot_writes q). cbn [boot_stage_ boot_at notice_outcome_ boot_outcome].
  rewrite (bool_decide_eq_true_2 (BootAwaitFirst = BootAwaitFirst)) by done. cbn [andb].
  destruct (boot_writes q) eqn:Hw; cbn [negb].
  - destruct (world_worker env t _) as [r|].
    + destruct (success r) eqn:Es; [exact (boot_programs q plans (S (S (S (S (S fuel))))) _ Hw ltac:(lia))|].
      exact (boot_notifies q plans (AttemptOutcomeName r) r (S (S (S fuel))) _).
    + exact (f_equal (fun o => match o with Some t => Some (ended_with kOutcomeCancelled, t) | None => None end)
        (boot_notifies_cancel q plans "cancelled" (Record_ dialog_closed_result running) (S (S (S fuel))) _ eq_refl eq_refl)).
  - destruct (world_worker env t _) as [r|].
    + destruct (record_finished r) as [o Ho].
      by eapply (advance_recorded (W := SubaruUnisiaJecsM32rBootModeWorkflow) _ _ _ _ r _ eq_refl),
        (boot_Next_finished _ q plans BootAwaitFirst "").
    + erewrite (finish_done (W := SubaruUnisiaJecsM32rBootModeWorkflow)); [done|by apply (boot_Next_finished _ q plans BootAwaitFirst "")|done].
Qed.
Lemma boot_runs q fuel : (8 <= fuel)%nat -> run env fuel (boot_new q) = Some (boot_script env q).
Proof.
  intros Hf. destruct fuel as [|[|fuel]]; [lia..|]. unfold run, boot_script. fold (boot_writes q).
  destruct (JecsM32rBootMode.Prepare _ _ _ _ _) as [plans|err] eqn:Ep.
  2:{ eapply (advance_fails (W := SubaruUnisiaJecsM32rBootModeWorkflow)).
      change (Next ?f ?w) with (boot_Next moved_from f w). unfold boot_Next, boot_new. cbn [boot_request built_]. by rewrite Ep. }
  rewrite (advance_same_next _ (boot_new q) (boot_at q plans BootBegin "" running)).
  2:{ rewrite boot_Next_running by done. change (Next ?f ?w) with (boot_Next moved_from f w). unfold boot_Next, boot_new.
      cbn [boot_request built_ boot_stage_]. rewrite Ep. by rewrite bool_decide_eq_false_2. }
  rewrite (boot_asks q plans BootBegin _ _ (prompt kBegin)) by (by left).
  rewrite (bool_decide_eq_true_2 (BootBegin = BootBegin)) by done. cbn [andb]. pose proof boot_attempts as Hat.
  destruct (boot_writes q) eqn:Hw; cbn [ask]; (destruct (bool_decide (presentPrompt env [] _ = kAccept)); [|done]).
  - destruct fuel as [|fuel]; [lia|].
    rewrite (boot_asks q plans BootApplyVoltages _ _ (prompt kPromptApplyBootModeVoltages)) by (by right).
    rewrite (bool_decide_eq_false_2 (BootApplyVoltages = BootBegin)) by done. cbn [andb ask].
    destruct (bool_decide (presentPrompt env _ _ = kAccept)); [|done]. by rewrite Hat, Hw by lia.
  - by rewrite Hat, Hw by lia.
Qed.

(** *** The EEPROM read *)
Definition eeprom_at (e : executor) (q : FlashWorkflowRequest) (mode : EepromReadMode) (cycle inspect : bool)
    (pending : option (list Z)) (o : FlashAttemptOutcome) : EepromWorkflow :=
  {| eeprom_executor := e; eeprom_request := q; mode_ := mode; begun_ := true; need_cycle_ := cycle; inspect_ := inspect;
     pending_ := pending; eeprom_outcome := o |}.
Definition modes_from (mode : EepromReadMode) : list EepromReadMode :=
  match mode with kMode2 => [kMode2; kMode3; kMode4] | kMode3 => [kMode3; kMode4] | kMode4 => [kMode4] end.
Definition eeprom_rounds (mode : EepromReadMode) : nat := match mode with kMode2 => 10 | kMode3 => 7 | kMode4 => 4 end.
Lemma eeprom_Next_finished files e q mode c i p o step o' :
  req_operation q = kRead -> FinishedStep moved_from o = Some (step, o') ->
  Next files (eeprom_at e q mode c i p o) = (step, eeprom_at e q mode c i p o').
Proof.
  intros Hq E. change (Next ?f ?w) with (eeprom_Next moved_from f w). unfold eeprom_Next. cbn [eeprom_request eeprom_at eeprom_outcome].
  rewrite Hq, bool_decide_eq_true_2 by done. cbn [negb]. by rewrite E.
Qed.
Lemma eeprom_Next_running files e q mode c i p :
  req_operation q = kRead ->
  Next files (eeprom_at e q mode c i p running)
  = (if c then PromptStep (prompt kPromptCycleIgnition)
     else if i then PromptStep (prompt kInspectRead)
     else match DensoEeprom.BuildEepromReadPlan (executor_family e) (req_paths q) (req_protocol q) mode files with
          | Err err => FlashFailureStep err
          | Ok plan => AttemptStep {| attempt_plan := plan; attempt_executor := e |}
          end, eeprom_at e q mode c i p running).
Proof.
  intros Hq. change (Next ?f ?w) with (eeprom_Next moved_from f w). unfold eeprom_Next. cbn [eeprom_request eeprom_at eeprom_outcome].
  rewrite Hq, bool_decide_eq_true_2 by done. cbn [negb FinishedStep running failure_ terminal_ begun_ need_cycle_ inspect_ mode_ eeprom_executor].
  destruct c; [done|]. destruct i; [done|]. by destruct (DensoEeprom.BuildEepromReadPlan _ _ _ _ _).
Qed.
Definition later_modes (mode : EepromReadMode) : list EepromReadMode :=
  if bool_decide (mode = kMode4) then [] else modes_from (Advance mode).
(** The loop from [mode] on follows the script, for every fuel from [n]. *)
Definition eeprom_follows (e : executor) (q : FlashWorkflowRequest) (n : nat) (mode : EepromReadMode) : Prop :=
  forall fuel t p, (n <= fuel)%nat ->
  advance env fuel (eeprom_at e q mode false false p running) t = Some (eeprom_modes env e q (modes_from mode) t).
Abbreviation eeprom_prompt := (advance_prompt (W := EepromWorkflow)).
Lemma eeprom_cycles e q n mode fuel t :
  req_operation q = kRead -> eeprom_follows e q n mode -> (S n <= fuel)%nat -> (1 <= n)%nat ->
  advance env fuel (eeprom_at e q mode true false None running) t
  = Some (let '(go, t') := ask env [prompt kPromptCycleIgnition] t in
          if go then eeprom_modes env e q (modes_from mode) t' else cancelled t').
Proof.
  intros Hq Hn Hf H1. destruct fuel as [|[|fuel]]; [lia..|].
  rewrite (eeprom_prompt _ _ _ _ _ (eeprom_Next_running _ e q mode true false None Hq)).
  change (SubmitResponse ?r ?w) with (eeprom_SubmitResponse r w). unfold eeprom_SubmitResponse.
  cbn [eeprom_at begun_ need_cycle_ negb ask]. destruct (bool_decide (presentPrompt env t _ = kAccept)); cbn [negb].
  - by apply (Hn (S fuel)); lia.
  - destruct cancel_finished as [o Ho]. by eapply (advance_cancelled (W := EepromWorkflow)), (eeprom_Next_finished _ e q mode).
Qed.
(** What follows a successful read: its inspection. *)
Definition eeprom_inspect (e : executor) (q : FlashWorkflowRequest) (mode : EepromReadMode) (r : FlashAttemptResult)
    (t : dialog_trace) : FlashDialogResult * dialog_trace :=
  if bool_decide (presentPrompt env t (prompt kInspectRead) = kSave) then
    ({| dialog_outcome := kSucceeded; accepted_read_bytes := read_bytes r; dialog_rom_id := None |},
     tell env (prompt kInspectRead) t ++ [SuccessShown])
  else match later_modes mode with
       | [] => (ended_with kDiscarded, tell env (prompt kInspectRead) t)
       | rest => let '(go, t) := ask env [prompt kPromptCycleIgnition] (tell env (prompt kInspectRead) t) in
                 if go then eeprom_modes env e q rest t else cancelled t
       end.
Lemma eeprom_inspects e q n mode fuel t r :
  req_operation q = kRead -> (mode <> kMode4 -> eeprom_follows e q n (Advance mode)) -> (S (S n) <= fuel)%nat -> (1 <= n)%nat ->
  advance env fuel (eeprom_at e q mode false true (read_bytes r) running) t = Some (eeprom_inspect e q mode r t).
Proof.
  intros Hq Hn Hf H1. destruct fuel as [|[|fuel]]; [lia..|].
  rewrite (eeprom_prompt _ _ _ _ _ (eeprom_Next_running _ e q mode false true (read_bytes r) Hq)).
  change (SubmitResponse ?r ?w) with (eeprom_SubmitResponse r w). unfold eeprom_SubmitResponse, eeprom_inspect, later_modes.
  cbn [eeprom_at begun_ need_cycle_ inspect_ negb mode_].
  destruct (bool_decide (presentPrompt env t _ = kSave)).
  - by eapply (advance_completed (W := EepromWorkflow)), (eeprom_Next_finished _ e q mode).
  - destruct (bool_decide_reflect (mode = kMode4)) as [->|Hm].
    + rewrite <- (app_nil_r (tell env _ t)).
      by eapply (advance_completed (W := EepromWorkflow)), (eeprom_Next_finished _ e q kMode4).
    + etransitivity; [exact (eeprom_cycles e q n (Advance mode) (S fuel) (tell env (prompt kInspectRead) t) Hq (Hn Hm) ltac:(lia) H1)|].
      by destruct mode.
Qed.
Lemma eeprom_step e q n mode :
  req_operation q = kRead -> (mode <> kMode4 -> eeprom_follows e q n (Advance mode)) -> (1 <= n)%nat ->
  eeprom_follows e q (S (S (S n))) mode.
Proof.
  intros Hq Hn H1 fuel t p Hf. destruct fuel as [|[|fuel]]; [lia..|].
  assert (modes_from mode = mode :: later_modes mode) as -> by (by destruct mode). cbn [eeprom_modes].
  pose proof (eeprom_Next_running (world_files env t) e q mode false false p Hq) as En. cbv iota in En.
  destruct (DensoEeprom.BuildEepromReadPlan _ _ _ _ _) as [plan|err]; [|by eapply (advance_fails (W := EepromWorkflow)), En].
  rewrite (advance_attempt (W := EepromWorkflow) _ _ _ _ _ En). clear En.
  change (SubmitResult ?r ?w) with (eeprom_SubmitResult r w). unfold eeprom_SubmitResult. cbn [eeprom_at eeprom_outcome mode_].
  destruct (world_worker env t _) as [r|].
  - destruct (success r).
    { etransitivity; [exact (eeprom_inspects e q n mode (S fuel) _ r Hq Hn ltac:(lia) H1)|]. unfold eeprom_inspect.
      destruct (bool_decide _); [done|]. by destruct (later_modes mode). }
    destruct (bool_decide (error_kind r = kCancelled)) eqn:Ek.
    { destruct cancel_finished as [o Ho]. by eapply (advance_cancelled (W := EepromWorkflow)), (eeprom_Next_finished _ e q mode). }
    unfold later_modes. destruct (bool_decide_reflect (mode = kMode4)) as [->|Hm]; cbn [negb].
    + etransitivity; [by eapply (advance_fails (W := EepromWorkflow)), (eeprom_Next_finished _ e q kMode4)|].
      unfold fails, failure_end. cbn [kind error_of]. by rewrite Ek.
    + etransitivity; [exact (Hn Hm (S fuel) _ _ ltac:(lia))|]. by destruct mode.
  - erewrite (finish_done (W := EepromWorkflow)); [done|by apply (eeprom_Next_finished _ e q mode)|done].
Qed.
Lemma eeprom_loops e q : req_operation q = kRead -> eeprom_follows e q 10 kMode2.
Proof.
  intros Hq. apply (eeprom_step e q 7 kMode2 Hq); [|lia]. intros _. change (Advance kMode2) with kMode3.
  apply (eeprom_step e q 4 kMode3 Hq); [|lia]. intros _. change (Advance kMode3) with kMode4.
  apply (eeprom_step e q 1 kMode4 Hq); [done|lia].
Qed.
Lemma eeprom_runs e q fuel : (11 <= fuel)%nat -> run env fuel (eeprom_new e q) = Some (eeprom_script env e q).
Proof.
  intros Hf. destruct fuel as [|[|fuel]]; [lia..|]. unfold run, eeprom_script.
  destruct (bool_decide_reflect (req_operation q = kRead)) as [Hq|Hq]; cbn [negb].
  2:{ eapply (advance_fails (W := EepromWorkflow)). change (Next ?f ?w) with (eeprom_Next moved_from f w).
      unfold eeprom_Next. cbn [eeprom_new eeprom_request]. by rewrite bool_decide_eq_false_2. }
  rewrite (eeprom_prompt _ _ (eeprom_new e q) _ (prompt kBegin)).
  2:{ change (Next ?f ?w) with (eeprom_Next moved_from f w). unfold eeprom_Next. cbn [eeprom_new eeprom_request].
      by rewrite bool_decide_eq_true_2. }
  change (SubmitResponse ?r ?w) with (eeprom_SubmitResponse r w). unfold eeprom_SubmitResponse. cbn [eeprom_new begun_ negb ask].
  destruct (bool_decide (presentPrompt env [] _ = kAccept)).
  - exact (eeprom_loops e q Hq (S fuel) _ _ ltac:(lia)).
  - cbn [advance]. change (Next ?f ?w) with (eeprom_Next moved_from f w). unfold eeprom_Next. cbn [eeprom_with_outcome eeprom_set eeprom_request].
    by rewrite bool_decide_eq_true_2.
Qed.
End lemmas.

(** ** Every workflow a route creates *)
(** The dialog over a workflow wrapped in [workflow] is the dialog over the workflow. *)
Section wrapped.
Context (moved_from : string -> string) (env : world) {W : Type} {H : FlashWorkflow W} (wrap : W -> workflow).
#[local] Instance routed : FlashWorkflow workflow := workflow_workflow moved_from.
Class Wraps : Prop := {
  wraps_Next files (w : W) : Next files (wrap w) = (fst (Next files w), wrap (snd (Next files w)));
  wraps_Response r (w : W) : SubmitResponse r (wrap w) = wrap (SubmitResponse r w);
  wraps_Result r (w : W) : SubmitResult r (wrap w) = wrap (SubmitResult r w)
}.
Context {Hw : Wraps}.
Lemma finish_wrapped fuel (w : W) t : finishCancelledAttempt env fuel (wrap w) t = finishCancelledAttempt env fuel w t.
Proof.
  revert w t. induction fuel as [|fuel IH]; intros w t; [done|]. cbn [finishCancelledAttempt].
  rewrite wraps_Next. destruct (Next (world_files env t) w) as [step w']. cbn [fst snd].
  destruct step; [|done..]. by rewrite wraps_Response, IH.
Qed.
Lemma advance_wrapped fuel (w : W) t : advance env fuel (wrap w) t = advance env fuel w t.
Proof.
  revert w t. induction fuel as [|fuel IH]; intros w t; [done|]. cbn [advance].
  rewrite wraps_Next. destruct (Next (world_files env t) w) as [step w']. cbn [fst snd].
  destruct step; [|destruct (world_worker env t a)|done..].
  - by rewrite wraps_Response, IH.
  - by rewrite wraps_Result, IH.
  - by rewrite wraps_Result, finish_wrapped.
Qed.
End wrapped.
#[export] Instance single_wraps moved_from : Wraps moved_from (H := single_workflow moved_from) SingleAttempt.
Proof. split; intros; cbn; [by destruct (single_Next _ _ _)|done..]. Qed.
#[export] Instance jecs_wraps moved_from : Wraps moved_from (H := jecs_workflow moved_from) JecsKline.
Proof. split; intros; cbn; [by destruct (jecs_Next _ _ _)|done..]. Qed.
#[export] Instance boot_wraps moved_from : Wraps moved_from (H := boot_workflow moved_from) JecsBootMode.
Proof. split; intros; cbn; [by destruct (boot_Next _ _ _)|done..]. Qed.
#[export] Instance eeprom_wraps moved_from : Wraps moved_from (H := eeprom_workflow moved_from) EepromRead.
Proof. split; intros; cbn; [by destruct (eeprom_Next _ _ _)|done..]. Qed.
(** What the dialog does over a workflow fresh from its route. *)
Definition workflow_script (env : world) (supplies : bool) (q : FlashWorkflowRequest) (w : workflow)
    : FlashDialogResult * dialog_trace :=
  match w with
  | SingleAttempt w => single_script env (single_executor w) (single_prepare w) q
  | JecsKline _ => jecs_script env supplies q
  | JecsBootMode _ => boot_script env q
  | EepromRead w => eeprom_script env (eeprom_executor w) q
  end.
Definition workflow_rounds (env : world) (q : FlashWorkflowRequest) (w : workflow) : nat :=
  match w with SingleAttempt w => single_rounds env (single_prepare w) q | JecsKline _ => 5 | JecsBootMode _ => 8 | EepromRead _ => 11 end.
(** A workflow as its constructor leaves it. *)
Inductive fresh (supplies : bool) (q : FlashWorkflowRequest) : workflow -> Prop :=
| fresh_single e prepare : fresh supplies q (SingleAttempt (single_new e prepare q))
| fresh_jecs : fresh supplies q (JecsKline (jecs_new supplies q))
| fresh_boot : fresh supplies q (JecsBootMode (boot_new q))
| fresh_eeprom e : fresh supplies q (EepromRead (eeprom_new e q)).
#[export] Hint Constructors fresh : core.
Lemma fresh_runs moved_from env supplies q w fuel :
  fresh supplies q w -> (workflow_rounds env q w <= fuel)%nat ->
  run (H := workflow_workflow moved_from) env fuel w = Some (workflow_script env supplies q w).
Proof.
  intros Hw Hf. unfold run. destruct Hw; cbn [workflow_rounds workflow_script single_new eeprom_new single_prepare single_executor eeprom_executor] in *.
  - rewrite (advance_wrapped moved_from env SingleAttempt (Hw := single_wraps moved_from)). by apply single_runs.
  - rewrite (advance_wrapped moved_from env JecsKline (Hw := jecs_wraps moved_from)). by apply jecs_runs.
  - rewrite (advance_wrapped moved_from env JecsBootMode (Hw := boot_wraps moved_from)). by apply boot_runs.
  - rewrite (advance_wrapped moved_from env EepromRead (Hw := eeprom_wraps moved_from)). by apply eeprom_runs.
Qed.
Lemma route_fresh supplies q route : In route FlashRoutes -> fresh supplies q (create route supplies q).
Proof.
  intros Hr. repeat (destruct Hr as [<-|Hr]; [cbn [create]|]); [..|done].
  17:{ unfold MakeSubaruHitachiSh7058. destruct (bool_decide _); constructor. }
  all: constructor.
Qed.
Lemma TryCreate_fresh supplies q w : TryCreate supplies q = Some w -> fresh supplies q w.
Proof.
  unfold TryCreate. destruct (List.find _ FlashRoutes) as [route|] eqn:E; [|done]. intros [= <-].
  apply find_some in E as [Hin _]. by apply route_fresh.
Qed.

(** ** The order of a trace *)
Section order.
Context (P : FlashAttempt -> Prop).
(** The operator has begun the operation and declined nothing. *)
Definition declines (ev : dialog_event) : Prop := exists p, ev = Shown p kDecline.
Definition ready (t : dialog_trace) : Prop :=
  head t = Some (Shown (prompt kBegin) kAccept) /\ Forall (fun ev => ~ declines ev) t.
(** Every attempt is in [P] and runs at a ready point. *)
Inductive orderly : dialog_trace -> Prop :=
| orderly_nil : orderly []
| orderly_ran t a e : orderly t -> ready t -> P a -> orderly (t ++ [Ran a e])
| orderly_event t ev : orderly t -> (forall a e, ev <> Ran a e) -> orderly (t ++ [ev]).
Lemma orderly_shown t p r : orderly t -> orderly (t ++ [Shown p r]).
Proof. intros. by apply orderly_event. Qed.
Lemma orderly_split t : orderly t -> forall before a e after, t = before ++ Ran a e :: after -> ready before /\ P a.
Proof.
  induction 1 as [|t a' e' Ht IH Hr Ha|t ev Ht IH Hev]; intros before a e after E.
  - by destruct before.
  - destruct after as [|x after _] using rev_ind.
    + apply app_inj_tail in E as [-> [= <- <-]]. done.
    + rewrite app_comm_cons, app_assoc in E. apply app_inj_tail in E as [-> _]. by eapply IH.
  - destruct after as [|x after _] using rev_ind.
    + apply app_inj_tail in E as [_ E]. by destruct (Hev a e).
    + rewrite app_comm_cons, app_assoc in E. apply app_inj_tail in E as [-> _]. by eapply IH.
Qed.
Lemma ready_snoc t ev : ready t -> ~ declines ev -> ready (t ++ [ev]).
Proof. intros [Hh Hf] Hev. split; [by destruct t|]. apply Forall_app. by repeat constructor. Qed.
Lemma ran_not_declined a e : ~ declines (Ran a e).
Proof. by intros []. Qed.
Lemma ready_ran t a e : ready t -> ready (t ++ [Ran a e]).
Proof. intros. apply ready_snoc; [done|]. apply ran_not_declined. Qed.
Lemma ready_accepted t p : ready t -> ready (t ++ [Shown p kAccept]).
Proof. intros. apply ready_snoc; [done|]. by intros []. Qed.
Context (env : world).
Lemma ask_orderly ps t go t' : ask env ps t = (go, t') -> orderly t -> orderly t'.
Proof.
  revert t. induction ps as [|p ps IH]; intros t E Ht; cbn [ask] in E; [by injection E as <- <-|].
  destruct (bool_decide _); [|injection E as <- <-; by apply orderly_shown].
  apply (IH _ E). by apply orderly_shown.
Qed.
Lemma ask_ready ps t t' : ask env ps t = (true, t') -> ready t -> ready t'.
Proof.
  revert t. induction ps as [|p ps IH]; intros t E Ht; cbn [ask] in E; [by injection E as <-|].
  destruct (bool_decide _) eqn:Ea; [|done]. apply bool_decide_eq_true in Ea. rewrite Ea in E.
  apply (IH _ E). by apply ready_accepted.
Qed.
Lemma ask_begins ps t : ask env (prompt kBegin :: ps) [] = (true, t) -> orderly t /\ ready t.
Proof.
  cbn [ask]. destruct (bool_decide _) eqn:Ea; [|done]. apply bool_decide_eq_true in Ea. rewrite Ea. intros E.
  assert (ready [Shown (prompt kBegin) kAccept]) as Hr by (split; [done|]; constructor; [by intros []|constructor]).
  split; [|by eapply ask_ready]. eapply ask_orderly; [exact E|]. apply (orderly_shown []). constructor.
Qed.
Lemma orderly_tell p t : orderly t -> orderly (tell env p t).
Proof. apply orderly_shown. Qed.
Lemma orderly_conclude r t : orderly t -> orderly (snd (conclude r t)).
Proof. intros. unfold conclude. destruct (success r); [by apply orderly_event|]. destruct (bool_decide _); [done|by apply orderly_event]. Qed.
Lemma orderly_fails e t : orderly t -> orderly (snd (fails e t)).
Proof.
  intros. unfold fails, failure_end. destruct (bool_decide _); cbn [snd]; [by rewrite app_nil_r|]. by apply orderly_event.
Qed.
Lemma orderly_jecs_finish w v r t : orderly t -> orderly (jecs_finish env w v r t).
Proof. intros. unfold jecs_finish. destruct (_ && _); [by apply orderly_tell|done]. Qed.
End order.
Create HintDb dialog.
#[export] Hint Constructors orderly : dialog.
#[export] Hint Resolve orderly_shown orderly_tell orderly_conclude orderly_fails orderly_jecs_finish ready_ran ready_accepted : dialog.

Section ordered_scripts.
Context (P : FlashAttempt -> Prop) (env : world).
#[local] Hint Extern 4 (ready (_ ++ [Ran _ _])) => apply ready_ran : dialog.
Lemma single_orderly e prepare q :
  (forall files plan, prepare (req_operation q) (req_protocol q) (req_paths q) (req_image q) files = Ok plan ->
    P {| attempt_plan := plan; attempt_executor := e |}) ->
  orderly P (snd (single_script env e prepare q)).
Proof.
  intros HP. unfold single_script. destruct (prepare _ _ _ _ _) as [plan|err] eqn:Ep; [|auto with dialog].
  specialize (HP _ _ Ep). unfold PromptSequence. destruct (prompts_of _) as [ps|err]; cbn [result_bind]; [|auto with dialog].
  destruct (ask env _ []) as [go t] eqn:Ea. destruct go; [|eapply ask_orderly; [exact Ea|constructor]].
  apply ask_begins with (P := P) in Ea as [Ht Hr]. destruct (world_worker _ _ _); cbn [cancelled snd]; auto with dialog.
Qed.
Lemma jecs_orderly supplies q :
  (forall plan, JecsM32rKline.Build (req_operation q) (Catalog.name (req_protocol q)) (Catalog.mcu (req_protocol q)) (req_image q) supplies = Ok plan ->
    P {| attempt_plan := plan; attempt_executor := jecs_executor |}) ->
  orderly P (snd (jecs_script env supplies q)).
Proof.
  intros HP. unfold jecs_script. destruct (JecsM32rKline.Build _ _ _ _ _) as [plan|err]; [|auto with dialog].
  specialize (HP _ eq_refl). destruct (ask env _ []) as [go t] eqn:Ea. destruct go; [|eapply ask_orderly; [exact Ea|constructor]].
  apply ask_begins with (P := P) in Ea as [Ht Hr]. destruct (world_worker _ _ _); cbn [cancelled snd]; auto with dialog.
Qed.
(** What the boot-mode attempts must be. *)
Definition boot_admits (q : FlashWorkflowRequest) : Prop :=
  forall files plans,
  JecsM32rBootMode.Prepare (req_operation q) (req_protocol q) (req_paths q) (req_image q) files = Ok plans ->
  (forall plan, JecsM32rBootMode.first plans = Some plan ->
    P {| attempt_plan := plan;
         attempt_executor := if negb (bool_decide (req_operation q = kRead)) then boot_kernel_executor else jecs_executor |})
  /\ (forall plan, JecsM32rBootMode.program plans = Some plan ->
      P {| attempt_plan := plan; attempt_executor := boot_program_executor |}).
Lemma boot_program_orderly plans t :
  orderly P t -> ready t ->
  (forall plan, JecsM32rBootMode.program plans = Some plan -> P {| attempt_plan := plan; attempt_executor := boot_program_executor |}) ->
  orderly P (snd (boot_program_script env plans t)).
Proof.
  intros Ht Hr HP. unfold boot_program_script. destruct (ask env _ t) as [go t'] eqn:Ea.
  pose proof (ask_orderly P env _ _ _ _ Ea Ht) as Ht'. destruct go; [|cbn [cancelled snd]; auto with dialog].
  apply ask_ready in Ea; [|done]. destruct (JecsM32rBootMode.program plans) as [plan|]; [|auto with dialog].
  specialize (HP _ eq_refl). destruct (world_worker _ _ _); cbn [cancelled snd]; auto with dialog.
Qed.
Lemma boot_orderly q : boot_admits q -> orderly P (snd (boot_script env q)).
Proof.
  intros HP. unfold boot_script. destruct (JecsM32rBootMode.Prepare _ _ _ _ _) as [plans|err] eqn:Ep; [|auto with dialog].
  destruct (HP _ _ Ep) as [H1 H2]. destruct (ask env _ []) as [go t] eqn:Ea.
  destruct go; [|eapply ask_orderly; [exact Ea|constructor]]. apply ask_begins with (P := P) in Ea as [Ht Hr].
  destruct (JecsM32rBootMode.first plans) as [plan|]; [|auto with dialog]. specialize (H1 _ eq_refl).
  destruct (negb _).
  - unfold boot_write_script. destruct (world_worker _ _ _) as [r|]; [|cbn [cancelled snd]; auto with dialog].
    destruct (success r); [apply boot_program_orderly; auto with dialog|auto with dialog].
  - unfold boot_read_script. destruct (world_worker _ _ _); cbn [cancelled snd]; auto with dialog.
Qed.
Lemma presentPrompt_inspect t : presentPrompt env t (prompt kInspectRead) <> kDecline.
Proof. unfold presentPrompt. by destruct (world_presses _ _ _). Qed.
Lemma eeprom_modes_orderly e q modes t :
  (forall files mode plan, DensoEeprom.BuildEepromReadPlan (executor_family e) (req_paths q) (req_protocol q) mode files = Ok plan ->
    P {| attempt_plan := plan; attempt_executor := e |}) ->
  orderly P t -> ready t -> orderly P (snd (eeprom_modes env e q modes t)).
Proof.
  intros HP. revert t. induction modes as [|mode rest IH]; intros t Ht Hr; [done|]. cbn [eeprom_modes].
  destruct (DensoEeprom.BuildEepromReadPlan _ _ _ _ _) as [plan|err] eqn:Ep; [|auto with dialog].
  apply HP in Ep. destruct (world_worker _ _ _) as [r|]; [|cbn [cancelled snd]; auto with dialog].
  set (t1 := t ++ [Ran _ _]). assert (orderly P t1 /\ ready t1) as [Ht1 Hr1] by (unfold t1; auto with dialog).
  assert (orderly P (tell env (prompt kInspectRead) t1) /\ ready (tell env (prompt kInspectRead) t1)) as [Ht2 Hr2].
  { split; [auto with dialog|]. apply ready_snoc; [done|]. intros [p [= _ E]]. by apply presentPrompt_inspect in E. }
  destruct (success r).
  - destruct (bool_decide _); [by apply orderly_event|]. destruct rest as [|m rest]; [done|].
    destruct (ask env _ _) as [go t3] eqn:Ea. pose proof (ask_orderly P env _ _ _ _ Ea Ht2) as Ht3.
    destruct go; [|done]. apply IH; [done|]. by eapply ask_ready.
  - destruct (bool_decide _); [done|]. destruct rest as [|m rest]; [by apply orderly_event|]. by apply IH.
Qed.
Lemma eeprom_orderly e q :
  (forall files mode plan, DensoEeprom.BuildEepromReadPlan (executor_family e) (req_paths q) (req_protocol q) mode files = Ok plan ->
    P {| attempt_plan := plan; attempt_executor := e |}) ->
  orderly P (snd (eeprom_script env e q)).
Proof.
  intros HP. unfold eeprom_script. destruct (negb _); [auto with dialog|].
  destruct (ask env _ []) as [go t] eqn:Ea. destruct go; [|eapply ask_orderly; [exact Ea|constructor]].
  apply ask_begins with (P := P) in Ea as [Ht Hr]. by apply eeprom_modes_orderly.
Qed.
End ordered_scripts.
