(* ===== verification/FlashRouting.v ===== *)
(** * FlashRouting: the routes, the catalog and the dialog together

    Every plan a route prepares is one its executor admits; so every attempt of a dialog
    is. The built-in catalog and the routes name the same protocols. *)
From S2P Require Import Prelude MemoryMap MemoryImage Catalog BuiltinCatalog.
From S2P Require Import Ports FlashDevices FlashPlan SingleWindowPlans WholeRomPlans StagedPlans FlashExecution FlashWorkflow FlashDialog.

(** ** Admission *)
Definition admitted (a : FlashAttempt) : Prop := Admits (attempt_executor a) (attempt_plan a) = Ok tt.
Lemma ValidateAndBuild_fields f plan : ValidateAndBuild f = Ok plan -> fields_ plan = without_image_map f.
Proof.
  unfold ValidateAndBuild. intros E. do 4 apply result_bind_Ok in E as (? & _ & E).
  destruct (negb _); [done|]. destruct (HasDuplicateConfirmation f); [done|]. by injection E as <-.
Qed.
Lemma ValidateAndBuild_family f plan : ValidateAndBuild f = Ok plan -> Family plan = fp_family (family_plan f).
Proof. intros E. unfold Family. by rewrite (ValidateAndBuild_fields f plan E). Qed.
(** A plan with the executor's family that passed its validation. *)
Lemma admits_built e plan :
  Family plan = executor_family e -> executor_validate e plan = Ok tt -> Admits e plan = Ok tt.
Proof. intros Hf Hv. unfold Admits, CheckFamily. by rewrite decide_True. Qed.
Lemma validated_admits e f validate plan :
  executor_validate e = validate -> fp_family (family_plan f) = executor_family e ->
  ValidatedPlan validate f = Ok plan -> Admits e plan = Ok tt.
Proof.
  intros <- Hf E. unfold ValidatedPlan in E. apply result_bind_Ok in E as (p & Eb & E).
  apply result_bind_Ok in E as ([] & Ev & E). injection E as <-. apply admits_built; [|done].
  by rewrite (ValidateAndBuild_family _ _ Eb).
Qed.
Lemma single_window_admits e spec op protocol mcu img family plan :
  executor_validate e = ValidateSingleWindowPlan spec -> fp_family family = executor_family e ->
  BuildSingleWindowPlan spec op protocol mcu img family = Ok plan -> Admits e plan = Ok tt.
Proof.
  intros Hv Hf E. unfold BuildSingleWindowPlan in E. do 3 apply result_bind_Ok in E as (? & _ & E).
  by eapply validated_admits; [exact Hv| |exact E].
Qed.
Lemma whole_rom_admits e block op protocol mcu family confs img k load device validate plan :
  executor_validate e = validate -> fp_family family = executor_family e ->
  BuildWholeRomKernelPlan block op protocol mcu family confs img k load device validate = Ok plan -> Admits e plan = Ok tt.
Proof.
  intros Hv Hf E. unfold BuildWholeRomKernelPlan in E. apply result_bind_Ok in E as (? & _ & E).
  destruct (_ && _); [done|]. destruct (_ && _); [done|]. by eapply validated_admits; [exact Hv| |exact E].
Qed.
(** Opens the checks before the common builders. *)
Ltac built :=
  repeat match goal with
  | H : Err _ = Ok _ |- _ => discriminate H
  | H : Fail _ _ = Ok _ |- _ => discriminate H
  | H : result_bind (ValidateAndBuild ?f) (fun built => result_bind (@?v built) _) = Ok ?p |- _ => change (ValidatedPlan v f = Ok p) in H
  | H : result_bind _ _ = Ok _ |- _ => apply result_bind_Ok in H as (? & _ & H)
  | H : (if ?b then _ else _) = Ok _ |- _ => destruct b
  | H : match ?o with _ => _ end = Ok _ |- _ => destruct o
  end.
Definition kernel_free_admits (e : executor) (Build : KernelFreePlanBuilder) : Prop :=
  forall op protocol mcu img plan, Build op protocol mcu img = Ok plan -> Admits e plan = Ok tt.
Definition kernel_backed_admits (e : executor) (Build : KernelBackedPlanBuilder) : Prop :=
  forall op protocol mcu img k plan, Build op protocol mcu img k = Ok plan -> Admits e plan = Ok tt.
Ltac admits :=
  built;
  match goal with
  | E : BuildSingleWindowPlan _ _ _ _ _ _ = Ok _ |- _ => refine (single_window_admits _ _ _ _ _ _ _ _ _ _ E)
  | E : BuildWholeRomKernelPlan _ _ _ _ _ _ _ _ _ _ _ = Ok _ |- _ => refine (whole_rom_admits _ _ _ _ _ _ _ _ _ _ _ _ _ _ _ E)
  | E : ValidatedPlan _ _ = Ok _ |- _ => refine (validated_admits _ _ _ _ _ _ E)
  end; reflexivity.
Ltac free_admits B := intros op protocol mcu img plan E; unfold B in E; admits.
Ltac backed_admits B := intros op protocol mcu img k plan E; unfold B in E; admits.
Lemma colt_admits : kernel_free_admits ColtExecutor ColtCan.Build.
Proof. free_admits ColtCan.Build. Qed.
Lemma mitsu_m32r_kline_admits : kernel_free_admits SubaruMitsuM32rKlineExecutor MitsuM32rKline.Build.
Proof. free_admits MitsuM32rKline.Build. Qed.
Lemma hitachi_m32r_kline_admits : kernel_free_admits SubaruHitachiM32rKlineExecutor HitachiM32rKline.Build.
Proof. free_admits HitachiM32rKline.Build. Qed.
Lemma hitachi_m32r_can_admits : kernel_free_admits SubaruHitachiM32rCanExecutor BuildSubaruHitachiM32rCanPlan.
Proof. free_admits BuildSubaruHitachiM32rCanPlan. Qed.
Lemma tcu_hitachi_m32r_kline_admits : kernel_free_admits SubaruTcuHitachiM32rKlineExecutor TcuHitachiM32rKline.Build.
Proof. free_admits TcuHitachiM32rKline.Build. Qed.
Lemma unisia_jecs_admits : kernel_free_admits SubaruUnisiaJecsExecutor UnisiaJecs.Build.
Proof. free_admits UnisiaJecs.Build. Qed.
Lemma tcu_hitachi_m32r_can_admits : kernel_free_admits SubaruTcuHitachiM32rCanExecutor TcuHitachiM32rCan.Build.
Proof. free_admits TcuHitachiM32rCan.Build. Qed.
Lemma hitachi_sh72543r_admits : kernel_free_admits SubaruHitachiSh72543rCanExecutor HitachiSh72543rCan.Build.
Proof. free_admits HitachiSh72543rCan.Build. Qed.
Lemma cvt_hitachi_m32r_admits : kernel_free_admits SubaruTcuCvtHitachiM32rCanExecutor TcuCvtHitachiM32rCan.Build.
Proof. free_admits TcuCvtHitachiM32rCan.Build. Qed.
Lemma cvt_mh8111_admits : kernel_free_admits SubaruTcuCvtMitsuMh8111CanExecutor TcuCvtMitsuMh8111Can.Build.
Proof. free_admits TcuCvtMitsuMh8111Can.Build. Qed.
Lemma cvt_mh8104_admits : kernel_free_admits SubaruTcuCvtMitsuMh8104CanExecutor TcuCvtMitsuMh8104Can.Build.
Proof. free_admits TcuCvtMitsuMh8104Can.Build. Qed.
Lemma denso_1n83m_1_5m_admits : kernel_free_admits SubaruDenso1n83m_1_5mCanExecutor Denso1n83m15mCan.Build.
Proof. free_admits Denso1n83m15mCan.Build. Qed.
Lemma denso_sh72531_admits : kernel_free_admits SubaruDensoSh72531CanExecutor DensoSh72531Can.Build.
Proof. free_admits DensoSh72531Can.Build. Qed.
Lemma denso_sh72543_admits : kernel_free_admits SubaruDensoSh72543CanDieselExecutor DensoSh72543CanDiesel.Build.
Proof. free_admits DensoSh72543CanDiesel.Build. Qed.
Lemma denso_1n83m_4m_admits : kernel_free_admits SubaruDenso1n83m_4mCanExecutor Denso1n83m4mCan.Build.
Proof. free_admits Denso1n83m4mCan.Build. Qed.
Lemma sh705502_admits : kernel_backed_admits SubaruDensoSh7055_02Executor DensoSh705502.Build.
Proof. backed_admits DensoSh705502.Build. Qed.
Lemma densocan_admits : kernel_backed_admits SubaruDensoSh705xDensoCanExecutor DensoCan.Build.
Proof. backed_admits DensoCan.Build. Qed.
Lemma tcu_denso_admits : kernel_backed_admits SubaruTcuDensoSh705xCanExecutor TcuDensoSh705xCan.Build.
Proof. backed_admits TcuDensoSh705xCan.Build. Qed.
Lemma sh7058_can_admits : kernel_backed_admits SubaruDensoSh7058CanExecutor DensoSh7058Can.Build.
Proof. backed_admits DensoSh7058Can.Build. Qed.
Lemma sh7058_diesel_admits : kernel_backed_admits SubaruDensoSh7058CanDieselExecutor DensoSh7058CanDiesel.Build.
Proof. backed_admits DensoSh7058CanDiesel.Build. Qed.
Lemma sh705x_kline_admits : kernel_backed_admits SubaruDensoSh705xKlineExecutor DensoSh705xKline.Build.
Proof. backed_admits DensoSh705xKline.Build. Qed.
Definition prepares (e : executor) (prepare : PlanPreparation) : Prop :=
  forall op protocol paths img files plan, prepare op protocol paths img files = Ok plan -> Admits e plan = Ok tt.
Lemma free_prepares e Build : kernel_free_admits e Build -> prepares e (PrepareWithoutKernel Build).
Proof. intros H op protocol paths img files plan E. exact (H _ _ _ _ _ E). Qed.
Lemma backed_prepares e Build : kernel_backed_admits e Build -> prepares e (PrepareWithProtocolKernel Build).
Proof. intros H op protocol paths img files plan E. unfold PrepareWithProtocolKernel in E. built. exact (H _ _ _ _ _ _ E). Qed.
Lemma mc68_prepares : prepares SubaruDensoMc68hc16y5_02Executor DensoMc68.Prepare.
Proof. intros op protocol paths img files plan E. unfold DensoMc68.Prepare in E. built. unfold DensoMc68.Build in E. admits. Qed.
Lemma mc68_bdm_prepares : prepares SubaruDensoMc68hc16y5_02BdmExecutor DensoMc68Bdm.Prepare.
Proof.
  intros op protocol paths img files plan E. unfold DensoMc68Bdm.Prepare in E. destruct (negb _).
  - unfold DensoMc68Bdm.Build in E. admits.
  - apply result_bind_Ok in E as (k & _ & E). unfold DensoMc68Bdm.Build in E. admits.
Qed.
(** The SH7058 builder validates what the two executors share; each adds its operation. *)
Lemma hitachi_sh7058_built op protocol mcu img plan :
  HitachiSh7058.Build op protocol mcu img = Ok plan ->
  op <> kTestWrite /\ Operation plan = op /\ Family plan = kSubaruHitachiSh7058 /\ HitachiSh7058.ValidateShared plan = Ok tt.
Proof.
  intros E. unfold HitachiSh7058.Build in E. destruct (_ || _); [done|]. destruct (negb _); [done|].
  destruct (bool_decide_reflect (op = kTestWrite)) as [|Hop]; [done|]. destruct (if bool_decide _ then _ else _); [done|].
  unfold ValidatedPlan in E. apply result_bind_Ok in E as (p & Eb & E). apply result_bind_Ok in E as ([] & Ev & E).
  injection E as <-. split_and!; [done|unfold Operation; by rewrite (ValidateAndBuild_fields _ _ Eb)| |done].
  rewrite (ValidateAndBuild_family _ _ Eb). cbn. unfold HitachiSh7058.family_of. by destruct (bool_decide _).
Qed.
Lemma hitachi_sh7058_admits op protocol mcu img plan :
  HitachiSh7058.Build op protocol mcu img = Ok plan ->
  Admits (if bool_decide (op = kRead) then SubaruHitachiSh7058KlineExecutor else SubaruHitachiSh7058CanExecutor) plan = Ok tt.
Proof.
  intros E. apply hitachi_sh7058_built in E as (Ht & Ho & Hf & Hv).
  destruct (bool_decide_reflect (op = kRead)) as [Hr|Hr]; apply admits_built; [done| |done|]; cbn [executor_validate].
  - cbn. unfold HitachiSh7058.ValidateKline. rewrite Hv. cbn [result_bind]. by rewrite bool_decide_eq_true_2 by congruence.
  - cbn. unfold HitachiSh7058.ValidateCan. rewrite Hv. cbn [result_bind].
    by rewrite bool_decide_eq_true_2 by (destruct op; congruence).
Qed.
Lemma jecs_admits op protocol mcu img supplies plan :
  JecsM32rKline.Build op protocol mcu img supplies = Ok plan -> Admits jecs_executor plan = Ok tt.
Proof. intros E. unfold JecsM32rKline.Build in E. admits. Qed.
Lemma boot_kernel_admits op protocol mcu k plan :
  JecsM32rBootMode.BuildKernelPlan op protocol mcu k = Ok plan -> Admits boot_kernel_executor plan = Ok tt.
Proof. intros E. unfold JecsM32rBootMode.BuildKernelPlan, JecsM32rBootMode.Build in E. admits. Qed.
Lemma boot_program_admits op protocol mcu img plan :
  JecsM32rBootMode.BuildProgramPlan op protocol mcu img = Ok plan -> Admits boot_program_executor plan = Ok tt.
Proof. intros E. unfold JecsM32rBootMode.BuildProgramPlan, JecsM32rBootMode.Build in E. admits. Qed.
Lemma boot_prepares q : boot_admits admitted q.
Proof.
  intros files plans E. unfold JecsM32rBootMode.Prepare in E. destruct (bool_decide (req_operation q = kRead)); cbn [negb].
  - apply result_bind_Ok in E as (read & Er & E). injection E as <-. split; [|done]. intros plan [= <-]. exact (jecs_admits _ _ _ _ _ _ Er).
  - apply result_bind_Ok in E as (program & Ep & E). apply result_bind_Ok in E as (bytes & _ & E).
    apply result_bind_Ok in E as (k & Ek & E). injection E as <-. split; intros plan [= <-].
    + exact (boot_kernel_admits _ _ _ _ _ Ek).
    + exact (boot_program_admits _ _ _ _ _ Ep).
Qed.
(** The EEPROM builder checks before it builds; the executor's validation repeats the
    checks on the plan. *)
Lemma eeprom_preflight_family input size :
  DensoEeprom.ValidatePreflight input size = Ok tt ->
  (DensoEeprom.in_family input = kDensoSh705xEepromKline \/ DensoEeprom.in_family input = kDensoSh705xEepromCan)
  /\ DensoEeprom.in_operation input = kRead.
Proof.
  unfold DensoEeprom.ValidatePreflight. intros E.
  destruct (bool_decide_reflect (DensoEeprom.in_family input = kDensoSh705xEepromKline)) as [Hk|Hk];
    destruct (bool_decide_reflect (DensoEeprom.in_family input = kDensoSh705xEepromCan)) as [Hc|Hc]; try (cbn in E; discriminate E);
    destruct (bool_decide_reflect (DensoEeprom.in_operation input = kRead)) as [Ho|Ho]; try (cbn in E; discriminate E); auto.
Qed.
Lemma eeprom_preflight_plan input plan size :
  DensoEeprom.ValidatePreflight input size = Ok tt -> ValidateAndBuild (DensoEeprom.fields_of input) = Ok plan ->
  size = Some (zlen (kernel_bytes (DensoEeprom.in_kernel input))) ->
  Family plan = DensoEeprom.in_family input /\ DensoEeprom.Validate plan = Ok tt.
Proof.
  intros Hv Eb ->. destruct (eeprom_preflight_family _ _ Hv) as [Hf Ho]. apply ValidateAndBuild_fields in Eb.
  unfold DensoEeprom.Validate, Kernel, Operation, Family, TargetId, McuName, TransferRegion. rewrite Eb.
  destruct input as [op family id mcu k mode security region]. cbn in Ho. subst op. cbn in Hf.
  by destruct Hf as [-> | ->].
Qed.
Lemma eeprom_prepares e paths protocol mode files plan :
  executor_validate e = DensoEeprom.Validate ->
  DensoEeprom.BuildEepromReadPlan (executor_family e) paths protocol mode files = Ok plan -> Admits e plan = Ok tt.
Proof.
  intros He E. unfold DensoEeprom.BuildEepromReadPlan in E. destruct (Catalog.kernel_load_address protocol) as [load|]; [|done].
  do 4 apply result_bind_Ok in E as (? & _ & E). unfold DensoEeprom.BuildDensoSh705xEepromPlan in E.
  apply result_bind_Ok in E as ([] & Hv & E). destruct (eeprom_preflight_plan _ _ _ Hv E eq_refl) as [Hf Hp].
  apply admits_built; [done|by rewrite He].
Qed.

(** ** Every route *)
Definition workflow_admits (supplies : bool) (q : FlashWorkflowRequest) (w : workflow) : Prop :=
  match w with
  | SingleAttempt w =>
      forall files plan,
      single_prepare w (req_operation q) (req_protocol q) (req_paths q) (req_image q) files = Ok plan ->
      Admits (single_executor w) plan = Ok tt
  | EepromRead w => executor_validate (eeprom_executor w) = DensoEeprom.Validate
  | JecsKline _ | JecsBootMode _ => True
  end.
Lemma prepares_workflow e prepare supplies q : prepares e prepare -> workflow_admits supplies q (SingleAttempt (single_new e prepare q)).
Proof. intros H files plan E. exact (H _ _ _ _ _ _ E). Qed.
(** Matched by name: two executors are not to be compared by unfolding. *)
Create HintDb admits discriminated.
#[export] Hint Constants Opaque : admits.
#[export] Hint Resolve free_prepares backed_prepares mc68_prepares mc68_bdm_prepares : admits.
#[export] Hint Resolve colt_admits mitsu_m32r_kline_admits hitachi_m32r_kline_admits hitachi_m32r_can_admits tcu_hitachi_m32r_kline_admits unisia_jecs_admits tcu_hitachi_m32r_can_admits hitachi_sh72543r_admits cvt_hitachi_m32r_admits cvt_mh8111_admits cvt_mh8104_admits denso_1n83m_1_5m_admits denso_sh72531_admits denso_sh72543_admits denso_1n83m_4m_admits sh705502_admits densocan_admits tcu_denso_admits sh7058_can_admits sh7058_diesel_admits sh705x_kline_admits free_prepares backed_prepares : admits.
Lemma route_admits supplies q route : In route FlashRoutes -> workflow_admits supplies q (create route supplies q).
Proof.
  intros Hr. repeat (destruct Hr as [<-|Hr]; [cbn [create]|]); [..|done].
  17:{ unfold MakeSubaruHitachiSh7058. intros.
       destruct (bool_decide (req_operation q = kRead)) eqn:E; intros files plan Eb; apply hitachi_sh7058_admits in Eb; by rewrite E in Eb. }
  2,3: reflexivity.
  all: lazymatch goal with
    | |- workflow_admits _ _ (JecsM32rKlineWorkflow _ _) => exact I
    | |- workflow_admits _ _ (JecsM32rBootModeWorkflow _ _) => exact I
    | _ => apply prepares_workflow; auto with admits
  end.
Qed.
Lemma script_orderly env supplies q w :
  fresh supplies q w -> workflow_admits supplies q w -> orderly admitted (snd (workflow_script env supplies q w)).
Proof.
  intros Hw Ha. destruct Hw; cbn [workflow_script].
  - by apply single_orderly.
  - apply jecs_orderly. intros plan E. exact (jecs_admits _ _ _ _ _ _ E).
  - apply boot_orderly, boot_prepares.
  - apply eeprom_orderly. intros files mode plan E. exact (eeprom_prepares _ _ _ _ _ _ Ha E).
Qed.
Lemma TryCreate_admits supplies q w : TryCreate supplies q = Some w -> workflow_admits supplies q w.
Proof.
  unfold TryCreate. destruct (List.find _ FlashRoutes) as [route|] eqn:E; [|done]. intros [= <-].
  apply find_some in E as [Hin _]. by apply route_admits.
Qed.

(** ** The routes and the catalog *)
(** Whether the catalog lists an operation for a protocol. *)
Definition lists (p : ProtocolSpec) (op : FlashOperation) : bool :=
  match op with kRead => Catalog.read p | kTestWrite => Catalog.test_write p | kWrite => Catalog.write p end.
(** The preparation of a workflow's first attempt. *)
Definition prepared {A} (r : result Error A) : bool := match r with Ok _ => true | Err _ => false end.
Definition first_preparation (q : FlashWorkflowRequest) (files : repository) (w : workflow) : bool :=
  match w with
  | SingleAttempt w => prepared (single_prepare w (req_operation q) (req_protocol q) (req_paths q) (req_image q) files)
  | JecsKline w => prepared (jecs_plan w)
  | JecsBootMode w => prepared (JecsM32rBootMode.Prepare (req_operation q) (req_protocol q) (req_paths q) (req_image q) files)
  | EepromRead w => bool_decide (req_operation q = kRead)
  end.
Definition routed_preparation (supplies : bool) (q : FlashWorkflowRequest) (files : repository) : bool :=
  match TryCreate supplies q with None => false | Some w => first_preparation q files w end.
Lemma refused_bind {A B} (x : result Error A) (f : A -> result Error B) :
  (forall a, prepared (f a) = false) -> prepared (result_bind x f) = false.
Proof. intros H. by destruct x; cbn. Qed.
Lemma backed_refused Build op protocol paths img files :
  (forall k, prepared (Build op (Catalog.name protocol) (Catalog.mcu protocol) img k) = false) ->
  prepared (PrepareWithProtocolKernel Build op protocol paths img files) = false.
Proof. intros H. apply refused_bind, H. Qed.
Lemma unlisted_refused p supplies op img paths filename files :
  In p (Protocols BuiltinCatalog) -> lists (Catalog.spec p) op = false ->
  routed_preparation supplies
    {| req_operation := op; req_protocol := Catalog.spec p; req_image := img; req_paths := paths; display_filename := filename |}
    files = false.
Proof.
  intros Hin Hl.
  repeat (destruct Hin as [<-|Hin]; [destruct op; try (vm_compute in Hl; discriminate Hl); clear Hl|]); [..|done].
  all: try reflexivity.
  1,2: apply refused_bind; intros i; reflexivity.
  1-4: apply (backed_refused DensoSh705xKline.Build); intros k; reflexivity.
  all: apply (backed_refused TcuDensoSh705xCan.Build); intros k; reflexivity.
Qed.

(** ** Notices after the last attempt *)
Definition quiet (t : dialog_trace) : Prop := Forall (fun ev => forall a e, ev <> Ran a e) t.
Definition noticed (P : dialog_event -> Prop) (t : dialog_trace) : Prop :=
  forall before a e after, t = before ++ Ran a e :: after -> exists ev, ev ∈ after /\ P ev.
Lemma noticed_intro (P : dialog_event -> Prop) t1 ev t2 :
  quiet t2 -> (forall a e, ev <> Ran a e) -> P ev -> noticed P (t1 ++ ev :: t2).
Proof.
  intros Hq Hev HP before a e after E. apply app_eq_inv in E as [(k & -> & E)|(k & -> & E)].
  - destruct k as [|x k]; [by injection E as E _; destruct (Hev a e)|]. injection E as <- ->.
    exists ev. split; [|done]. apply elem_of_app. right. left.
  - destruct k as [|x k]; [by injection E as E _; destruct (Hev a e)|]. injection E as <- ->.
    exfalso. apply Forall_app in Hq as [_ Hq]. apply Forall_cons in Hq as [Hq _]. by apply (Hq a e).
Qed.
Lemma noticed_quiet P t : quiet t -> noticed P t.
Proof.
  intros Hq before a e after ->. exfalso. apply Forall_app in Hq as [_ Hq]. apply Forall_cons in Hq as [Hq _]. by apply (Hq a e).
Qed.
Lemma quiet_shown p r : quiet [Shown p r].
Proof. by repeat constructor. Qed.
Lemma ask_quiet env ps t go t' : ask env ps t = (go, t') -> quiet t -> quiet t'.
Proof.
  revert t. induction ps as [|p ps IH]; intros t E Hq; cbn [ask] in E; [by injection E as <- <-|].
  assert (quiet (t ++ [Shown p (presentPrompt env t p)])) by (apply Forall_app; split; [done|apply quiet_shown]).
  destruct (bool_decide _); [by eapply IH|by injection E as <- <-].
Qed.
Lemma conclude_noticed P r t1 ev : (forall a e, ev <> Ran a e) -> P ev -> noticed P (snd (conclude r (t1 ++ [ev]))).
Proof.
  intros Hev HP. unfold conclude. destruct (success r); [|destruct (bool_decide _)]; cbn [snd]; rewrite <- ?app_assoc;
    apply noticed_intro; try done; by repeat constructor.
Qed.
Lemma fails_quiet e t : quiet t -> quiet (snd (fails e t)).
Proof.
  intros Hq. unfold fails, failure_end. destruct (bool_decide _); cbn [snd]; [by rewrite app_nil_r|].
  apply Forall_app. split; [done|]. by repeat constructor.
Qed.
(** The notice that tells the operator to remove the programming voltage, as it is shown. *)
Definition vpp_notice (ev : dialog_event) : Prop :=
  exists p, ev = Shown p kAccept /\ prompt_kind p = kRemoveProgrammingVoltage
    /\ In "Remove VPP voltage from the ECU, then press OK."%string (snd (programmingVoltageNotice p)).
Lemma tell_notice env p t :
  prompt_kind p = kRemoveProgrammingVoltage -> tell env p t = t ++ [Shown p kAccept].
Proof. intros Hk. unfold tell, presentPrompt. rewrite Hk. by destruct (world_presses env t p). Qed.
Lemma remove_vpp_notice name : vpp_notice (Shown (remove_vpp name true) kAccept).
Proof. exists (remove_vpp name true). split_and!; [done..|]. by left. Qed.
Lemma boot_vpp_notice name : vpp_notice (Shown (boot_notice name) kAccept).
Proof. exists (boot_notice name). split_and!; [done..|]. by left. Qed.
Lemma jecs_noticed env q : req_operation q = kWrite -> noticed vpp_notice (snd (jecs_script env false q)).
Proof.
  intros Hq. unfold jecs_script. destruct (JecsM32rKline.Build _ _ _ _ _) as [plan|err].
  2:{ apply noticed_quiet, fails_quiet. constructor. }
  rewrite (bool_decide_eq_true_2 (req_operation q = kWrite)) by done. cbn [negb andb].
  destruct (ask env _ []) as [go t] eqn:Ea. pose proof (ask_quiet _ _ _ _ _ Ea ltac:(constructor)) as Hqt.
  destruct go; [|by apply noticed_quiet].
  destruct (world_worker _ _ _) as [r|]; unfold jecs_finish; cbn [andb orb]; rewrite tell_notice by done.
  - apply conclude_noticed; [done|apply remove_vpp_notice].
  - apply noticed_intro; [constructor|done|apply remove_vpp_notice].
Qed.
Lemma boot_conclude_noticed env r name t : noticed vpp_notice (snd (conclude r (tell env (boot_notice name) t))).
Proof. rewrite tell_notice by done. apply conclude_noticed; [done|apply boot_vpp_notice]. Qed.
Lemma boot_cancelled_noticed env name t : noticed vpp_notice (snd (cancelled (tell env (boot_notice name) t))).
Proof. rewrite tell_notice by done. apply noticed_intro; [constructor|done|apply boot_vpp_notice]. Qed.
Lemma boot_prepared_program q files plans :
  req_operation q <> kRead ->
  JecsM32rBootMode.Prepare (req_operation q) (req_protocol q) (req_paths q) (req_image q) files = Ok plans ->
  is_Some (JecsM32rBootMode.program plans).
Proof.
  intros Hq E. unfold JecsM32rBootMode.Prepare in E. rewrite bool_decide_eq_false_2 in E by done.
  do 3 apply result_bind_Ok in E as (? & _ & E). injection E as <-. by eexists.
Qed.
Lemma boot_program_noticed env plans t :
  is_Some (JecsM32rBootMode.program plans) -> noticed vpp_notice (snd (boot_program_script env plans t)).
Proof.
  intros [plan Hp]. unfold boot_program_script. rewrite Hp. destruct (ask env _ t) as [go t'].
  destruct go; [destruct (world_worker _ _ _)|]; [apply boot_conclude_noticed|apply boot_cancelled_noticed..].
Qed.
Lemma boot_noticed env q : req_operation q <> kRead -> noticed vpp_notice (snd (boot_script env q)).
Proof.
  intros Hq. unfold boot_script. destruct (JecsM32rBootMode.Prepare _ _ _ _ _) as [plans|err] eqn:Ep.
  2:{ apply noticed_quiet, fails_quiet. constructor. }
  apply boot_prepared_program in Ep; [|done]. rewrite (bool_decide_eq_false_2 (req_operation q = kRead)) by done. cbn [negb].
  destruct (ask env _ []) as [go t] eqn:Ea. pose proof (ask_quiet _ _ _ _ _ Ea ltac:(constructor)) as Hqt.
  destruct go; [|by apply noticed_quiet]. destruct (JecsM32rBootMode.first plans) as [plan|]; [|by apply noticed_quiet, fails_quiet].
  unfold boot_write_script. destruct (world_worker _ _ _) as [r|]; [|apply boot_cancelled_noticed].
  destruct (success r); [by apply boot_program_noticed|apply boot_conclude_noticed].
Qed.
(** The program attempt of a boot-mode write, and what came just before it. *)
Definition programs_after_kernel (t : dialog_trace) : Prop :=
  forall before a e after, t = before ++ Ran a e :: after -> attempt_executor a = boot_program_executor ->
  exists earlier k r, before = earlier ++ [Ran k (WorkerFinished r); Shown (prompt kRemoveMod1) kAccept]
    /\ attempt_executor k = boot_kernel_executor /\ success r = true.
Lemma other_executor e : executor_family e <> kSubaruUnisiaJecsM32rBootModeProgram -> e <> boot_program_executor.
Proof. by intros H ->. Qed.
(** A trace whose one attempt of that kind is known. *)
Lemma programs_after_quiet t1 t2 : quiet t2 -> programs_after_kernel t1 -> programs_after_kernel (t1 ++ t2).
Proof.
  intros Hq Ht before a e after E Ha. apply app_eq_inv in E as [(k & -> & E)|(k & -> & E)].
  - destruct k as [|x k]; cbn in E.
    + exfalso. subst t2. apply Forall_cons in Hq as [Hq _]. by apply (Hq a e).
    + injection E as <- _. exact (Ht before a e k eq_refl Ha).
  - exfalso. subst t2. apply Forall_app in Hq as [_ Hq]. apply Forall_cons in Hq as [Hq _]. by apply (Hq a e).
Qed.
Lemma programs_after_ran t a e :
  programs_after_kernel t ->
  (attempt_executor a = boot_program_executor ->
   exists earlier k r, t = earlier ++ [Ran k (WorkerFinished r); Shown (prompt kRemoveMod1) kAccept]
     /\ attempt_executor k = boot_kernel_executor /\ success r = true) ->
  programs_after_kernel (t ++ [Ran a e]).
Proof.
  intros Ht Hn before a' e' after E Ha. destruct after as [|x after _] using rev_ind.
  - apply app_inj_tail in E as [<- [= <- <-]]. by apply Hn.
  - rewrite app_comm_cons, app_assoc in E. apply app_inj_tail in E as [-> _]. exact (Ht before a' e' after eq_refl Ha).
Qed.
Lemma programs_after_conclude r t : programs_after_kernel t -> programs_after_kernel (snd (conclude r t)).
Proof.
  intros Ht. unfold conclude. destruct (success r); [|destruct (bool_decide _)]; cbn [snd]; [|done|];
    (apply programs_after_quiet; [by repeat constructor|done]).
Qed.
Lemma programs_after_tell env p t : programs_after_kernel t -> programs_after_kernel (tell env p t).
Proof. apply programs_after_quiet, quiet_shown. Qed.
Lemma programs_after_nil : programs_after_kernel [].
Proof. intros before a e after E. by destruct before. Qed.
Lemma programs_after_fails e t : programs_after_kernel t -> programs_after_kernel (snd (fails e t)).
Proof.
  intros Ht. unfold fails, failure_end. destruct (bool_decide _); cbn [snd]; [by rewrite app_nil_r|].
  apply programs_after_quiet; [by repeat constructor|done].
Qed.
Lemma programs_after_only_quiet t : quiet t -> programs_after_kernel t.
Proof. intros Hq. exact (programs_after_quiet [] t Hq programs_after_nil). Qed.
#[local] Hint Resolve programs_after_conclude programs_after_tell programs_after_nil programs_after_fails programs_after_only_quiet : dialog.
Lemma boot_program_sequenced env plans t k r :
  programs_after_kernel t -> attempt_executor k = boot_kernel_executor -> success r = true ->
  programs_after_kernel (snd (boot_program_script env plans (t ++ [Ran k (WorkerFinished r)]))).
Proof.
  intros Ht Hk Hr. assert (programs_after_kernel (t ++ [Ran k (WorkerFinished r)])) as Ht1.
  { apply programs_after_ran; [done|]. intros E. rewrite Hk in E. by apply (f_equal executor_family) in E. }
  unfold boot_program_script. cbn [ask]. destruct (bool_decide _) eqn:Ea.
  2:{ cbn [cancelled snd]. apply programs_after_tell, programs_after_quiet; [apply quiet_shown|done]. }
  apply bool_decide_eq_true in Ea. rewrite Ea.
  assert (programs_after_kernel ((t ++ [Ran k (WorkerFinished r)]) ++ [Shown (prompt kRemoveMod1) kAccept])) as Ht2
    by (apply programs_after_quiet; [apply quiet_shown|done]).
  destruct (JecsM32rBootMode.program plans) as [plan|]; [|auto with dialog].
  assert (forall e, programs_after_kernel (((t ++ [Ran k (WorkerFinished r)]) ++ [Shown (prompt kRemoveMod1) kAccept])
    ++ [Ran {| attempt_plan := plan; attempt_executor := boot_program_executor |} e])) as Ht3.
  { intros e. apply programs_after_ran; [done|]. intros _. exists t, k, r. by rewrite <- app_assoc. }
  destruct (world_worker _ _ _); cbn [cancelled snd]; auto with dialog.
Qed.
Lemma boot_sequenced env q : programs_after_kernel (snd (boot_script env q)).
Proof.
  unfold boot_script. destruct (JecsM32rBootMode.Prepare _ _ _ _ _) as [plans|err]; [|auto with dialog].
  destruct (ask env _ []) as [go t] eqn:Ea. pose proof (ask_quiet _ _ _ _ _ Ea ltac:(constructor)) as Hq.
  apply programs_after_only_quiet in Hq. destruct go; [|done].
  destruct (JecsM32rBootMode.first plans) as [plan|]; [|auto with dialog].
  assert (forall e x, executor_family e <> kSubaruUnisiaJecsM32rBootModeProgram ->
    programs_after_kernel (t ++ [Ran {| attempt_plan := plan; attempt_executor := e |} x])) as Hran.
  { intros e x He. apply programs_after_ran; [done|]. intros E. by apply other_executor in He. }
  destruct (negb _).
  - unfold boot_write_script. destruct (world_worker _ _ _) as [r|]; [|by apply programs_after_tell, Hran].
    destruct (success r) eqn:Es; [by apply boot_program_sequenced|by apply programs_after_conclude, programs_after_tell, Hran].
  - unfold boot_read_script. destruct (world_worker _ _ _) as [r|]; [by apply programs_after_conclude, Hran|by apply Hran].
Qed.

(** ** Refusals *)
Lemma unprepared_script env supplies q w :
  fresh supplies q w -> first_preparation q (world_files env []) w = false ->
  exists e, workflow_script env supplies q w = fails e [].
Proof.
  intros Hw Hp. destruct Hw; cbn [first_preparation single_new single_prepare jecs_new jecs_plan] in Hp; cbn [workflow_script].
  - unfold single_script. cbn [single_new single_prepare]. destruct (prepare _ _ _ _ _) as [|e']; [done|by exists e'].
  - unfold jecs_script. destruct (JecsM32rKline.Build _ _ _ _ _) as [|e']; [done|by exists e'].
  - unfold boot_script. destruct (JecsM32rBootMode.Prepare _ _ _ _ _) as [|e']; [done|by exists e'].
  - unfold eeprom_script. rewrite Hp. cbn [negb]. by eexists.
Qed.
Lemma fails_outcome e : dialog_outcome (fst (fails e [])) <> kSucceeded /\ (snd (fails e []) = [] \/ snd (fails e []) = [FailureShown e]).
Proof. unfold fails, failure_end. destruct (bool_decide _); cbn; auto. Qed.

(** ** Claims *)
Section claims.
Context (moved_from : string -> string).
#[local] Instance driven : FlashWorkflow workflow := workflow_workflow moved_from.

Lemma created_run env supplies q w fuel result t :
  TryCreate supplies q = Some w -> (workflow_rounds env q w <= fuel)%nat -> run env fuel w = Some (result, t) ->
  workflow_script env supplies q w = (result, t).
Proof.
  intros E Hf Hr. pose proof (fresh_runs moved_from env supplies q w fuel (TryCreate_fresh _ _ _ E) Hf) as Hs.
  unfold driven in Hr. congruence.
Qed.

(** A workflow of one mode: every routed one but the EEPROM reads, which try three. *)
Definition one_mode (w : workflow) : bool := match w with EepromRead _ => false | _ => true end.
(** C12: for every protocol with a route that is not an EEPROM read (the single-attempt
    families, the JECS K-Line family and its boot mode), whatever the kernel files, the
    operator's answers and the attempts' results, the dialog's loop over the workflow ends
    (within [workflow_rounds] turns) and shows, runs and reports exactly what the script of
    that kind of workflow says: preparation, the prompts in order up to the first one
    declined, the attempts, the notices after them, and the end the last result decides. *)
Theorem dialog_follows_script env supplies q w fuel :
  TryCreate supplies q = Some w -> one_mode w = true -> (workflow_rounds env q w <= fuel)%nat ->
  run env fuel w = Some (workflow_script env supplies q w).
Proof. intros E _ Hf. apply fresh_runs; [by apply TryCreate_fresh|done]. Qed.

(** C3: no attempt runs unless its executor admits its plan (the plan is of the executor's
    family and passes its validation), the operator accepted the Begin prompt first, and no prompt
    shown before it was declined; this holds for every protocol, operation, image and kernel
    file, also for the attempts after the first. *)
Theorem attempts_admitted_and_accepted env supplies q w fuel result t :
  TryCreate supplies q = Some w -> (workflow_rounds env q w <= fuel)%nat -> run env fuel w = Some (result, t) ->
  forall before a ended after, t = before ++ Ran a ended :: after ->
  Admits (attempt_executor a) (attempt_plan a) = Ok tt
  /\ head before = Some (Shown (prompt kBegin) kAccept)
  /\ forall p, Shown p kDecline ∉ before.
Proof.
  intros E Hf Hr before a ended after Et. pose proof (TryCreate_fresh _ _ _ E) as Hw.
  apply (created_run _ supplies _ _ _ _ _ E Hf) in Hr.
  pose proof (script_orderly env supplies q w Hw (TryCreate_admits _ _ _ E)) as Ho. rewrite Hr in Ho. cbn [snd] in Ho.
  destruct (orderly_split _ _ Ho _ _ _ _ Et) as [[Hh Hd] Ha]. split_and!; [done..|].
  intros p Hp. rewrite list.Forall_forall in Hd. apply (Hd _ Hp). by exists p.
Qed.

(** an operation the built-in catalog does not list for a protocol is refused before
    anything happens: whatever the image and the kernel files, the dialog asks nothing, runs
    nothing, does not succeed, and shows at most the failure. *)
Theorem unlisted_operation_refused env supplies q w fuel result t p :
  In p (Protocols BuiltinCatalog) -> req_protocol q = Catalog.spec p -> lists (Catalog.spec p) (req_operation q) = false ->
  TryCreate supplies q = Some w -> (workflow_rounds env q w <= fuel)%nat -> run env fuel w = Some (result, t) ->
  dialog_outcome result <> kSucceeded /\ (t = [] \/ exists e, t = [FailureShown e]).
Proof.
  intros Hin Hp Hl E Hf Hr. pose proof (TryCreate_fresh _ _ _ E) as Hw.
  apply (created_run _ supplies _ _ _ _ _ E Hf) in Hr.
  destruct q as [op proto img paths filename]. cbn in Hp, Hl. subst proto.
  pose proof (unlisted_refused p supplies op img paths filename (world_files env []) Hin Hl) as Hn.
  unfold routed_preparation in Hn. rewrite E in Hn. destruct (unprepared_script env supplies _ w Hw Hn) as [e He].
  rewrite He in Hr. destruct (fails_outcome e) as [Ho Ht]. rewrite Hr in Ho, Ht. cbn [fst snd] in Ho, Ht.
  split; [done|]. destruct Ht; [by left|right; by exists e].
Qed.

(** C27: during a write that needs the operator to supply programming voltage (K-Line without an
    adapter that supplies it, and boot mode), every attempt is followed by the notice to
    remove it: after success, failure and cancellation, and also when the dialog is closed
    while the attempt runs or the operator declines the step between the two attempts. *)
Theorem programming_voltage_noticed env q w fuel result t :
  In (Catalog.name (req_protocol q)) (JecsM32rKline.Protocols ++ JecsM32rBootMode.Protocols) ->
  req_operation q = kWrite -> TryCreate false q = Some w -> (workflow_rounds env q w <= fuel)%nat ->
  run env fuel w = Some (result, t) ->
  forall before a ended after, t = before ++ Ran a ended :: after -> exists ev, ev ∈ after /\ vpp_notice ev.
Proof.
  intros Hin Hq E Hf Hr. pose proof (TryCreate_fresh _ _ _ E) as Hw.
  apply (created_run _ false _ _ _ _ _ E Hf) in Hr.
  assert (noticed vpp_notice (snd (workflow_script env false q w))) as Hn; [|by rewrite Hr in Hn].
  assert ((exists j, w = JecsKline j) \/ (exists b, w = JecsBootMode b)) as [[j ->]|[b ->]]; cbn [workflow_script].
  - unfold TryCreate in E. clear -E Hin. repeat (destruct Hin as [Hin|Hin]; [rewrite <- Hin in E; injection E as <-; eauto|]). done.
  - by apply jecs_noticed.
  - apply boot_noticed. congruence.
Qed.

(** in boot mode the program is written only after the kernel was loaded: a program
    attempt is immediately preceded by a successful kernel attempt and the operator's
    acceptance of the step between them. *)
Theorem boot_program_follows_kernel env supplies q w fuel result t :
  In (Catalog.name (req_protocol q)) JecsM32rBootMode.Protocols ->
  TryCreate supplies q = Some w -> (workflow_rounds env q w <= fuel)%nat -> run env fuel w = Some (result, t) ->
  forall before a ended after, t = before ++ Ran a ended :: after -> attempt_executor a = boot_program_executor ->
  exists earlier k r, before = earlier ++ [Ran k (WorkerFinished r); Shown (prompt kRemoveMod1) kAccept]
    /\ attempt_executor k = boot_kernel_executor /\ success r = true.
Proof.
  intros Hin E Hf Hr. pose proof (TryCreate_fresh _ _ _ E) as Hw.
  apply (created_run _ supplies _ _ _ _ _ E Hf) in Hr.
  assert (programs_after_kernel (snd (workflow_script env supplies q w))) as Hn; [|by rewrite Hr in Hn].
  assert (exists b, w = JecsBootMode b) as [b ->]; [|apply boot_sequenced].
  unfold TryCreate in E. clear -E Hin. repeat (destruct Hin as [Hin|Hin]; [rewrite <- Hin in E; injection E as <-; eauto|]). done.
Qed.
End claims.

(** the routes and the built-in catalog agree: no two routes claim one protocol, the
    protocols with a route are the catalog's, all but the MUT-DMA logging protocol, and the
    catalog passes its own consistency checks. *)
Theorem routes_match_catalog :
  NoDup RoutedProtocolIds
  /\ (forall n, n ∈ RoutedProtocolIds <->
        n ∈ map (fun p => Catalog.name (Catalog.spec p)) (Protocols BuiltinCatalog)
        /\ n <> "mitsu_ecu_m32r_kline_mut_dma"%string)
  /\ CatalogProblems BuiltinCatalog = []
  /\ CatalogReferencesResolve (Protocols BuiltinCatalog) (Vehicles BuiltinCatalog) = true.
Proof.
  set (names := map (fun p => Catalog.name (Catalog.spec p)) (Protocols BuiltinCatalog)).
  assert (forallb (fun n => bool_decide (n ∈ names) && negb (String.eqb n "mitsu_ecu_m32r_kline_mut_dma")) RoutedProtocolIds = true) as H1
    by (vm_compute; reflexivity).
  assert (forallb (fun n => bool_decide (n ∈ RoutedProtocolIds) || String.eqb n "mitsu_ecu_m32r_kline_mut_dma") names = true) as H2
    by (vm_compute; reflexivity).
  split; [apply (bool_decide_unpack (NoDup RoutedProtocolIds)); vm_compute; exact I|]. split_and!; [|vm_compute; reflexivity..].
  intros n. rewrite forallb_forall in H1, H2. split.
  - intros Hn%list_elem_of_In. apply H1, andb_prop in Hn as [Hn Hm]. split; [by apply bool_decide_eq_true in Hn|].
    intros ->. by rewrite String.eqb_refl in Hm.
  - intros [Hn%list_elem_of_In Hm]. apply H2, orb_prop in Hn as [Hn|Hn]; [by apply bool_decide_eq_true in Hn|].
    by apply String.eqb_eq in Hn.
Qed.

(** ** An EEPROM read that goes on to the next mode *)
(** After an attempt that failed for another reason than cancellation, the next event
    is the attempt in the next mode: no prompt comes between them, although the plan of that
    attempt asks for the ignition to be cycled. *)
Lemma eeprom_retries_without_cycle env e q t r plan2 plan3 :
  DensoEeprom.BuildEepromReadPlan (executor_family e) (req_paths q) (req_protocol q) kMode2 (world_files env t) = Ok plan2 ->
  let a2 := {| attempt_plan := plan2; attempt_executor := e |} in
  let t2 := t ++ [Ran a2 (WorkerFinished r)] in
  world_worker env t a2 = WorkerFinished r -> success r = false -> error_kind r <> kCancelled ->
  DensoEeprom.BuildEepromReadPlan (executor_family e) (req_paths q) (req_protocol q) kMode3 (world_files env t2) = Ok plan3 ->
  let a3 := {| attempt_plan := plan3; attempt_executor := e |} in
  world_worker env t2 a3 = DialogClosed ->
  snd (eeprom_modes env e q [kMode2; kMode3; kMode4] t) = t2 ++ [Ran a3 DialogClosed]
  /\ confirm kCycleIgnition ∈ Confirmations plan3.
Proof.
  intros E2 a2 t2 Hw2 Hs Hk E3 a3 Hw3. split.
  - cbn [eeprom_modes]. rewrite E2. fold a2. rewrite Hw2, Hs, bool_decide_eq_false_2 by done. fold t2. rewrite E3. fold a3. by rewrite Hw3.
  - unfold DensoEeprom.BuildEepromReadPlan in E3. destruct (Catalog.kernel_load_address _); [|done].
    do 4 apply result_bind_Ok in E3 as (? & _ & E3). unfold DensoEeprom.BuildDensoSh705xEepromPlan in E3.
    apply result_bind_Ok in E3 as (? & _ & E3). apply ValidateAndBuild_fields in E3. unfold Confirmations. rewrite E3.
    cbn. right. left.
Qed.

(** ** Witnesses *)
Definition sample_paths : ConfigPaths := ResolveConfigPaths "/fastecu" "1.0".
Definition sample_request (op : FlashOperation) (p : ProtocolSpec) : FlashWorkflowRequest :=
  {| req_operation := op; req_protocol := p; req_image := None; req_paths := sample_paths; display_filename := "rom.bin" |}.
Definition boot_request_of (rom : list Z) : FlashWorkflowRequest :=
  {| req_operation := kWrite; req_protocol := p_sub_ecu_unisia_jecs_20_bootmode; req_image := Some rom; req_paths := sample_paths;
     display_filename := "rom.bin" |}.
Definition failed_result : FlashAttemptResult :=
  {| success := false; error_kind := kTimeout; error_detail := "no response"; read_bytes := None; result_rom_id := None |}.
Definition done_result : FlashAttemptResult :=
  {| success := true; error_kind := kInternal; error_detail := ""; read_bytes := None; result_rom_id := None |}.
(** A world with one kernel file whose operator accepts everything and whose attempts
    all end alike. *)
Definition world_of (r : FlashAttemptResult) : world :=
  {| world_files := fun _ _ => Ok [1; 2; 3]; world_presses := fun _ _ => true; world_worker := fun _ _ => WorkerFinished r |}.
Definition sample_world : world := world_of failed_result.
Definition same_string (s : string) : string := s.
Abbreviation sample_run env w := (run (H := workflow_workflow same_string) env 20 w).
Lemma dialog_follows_script_witness :
  exists w, TryCreate false (sample_request kRead p_sub_ecu_unisia_jecs_20) = Some w
  /\ sample_run sample_world w = Some (workflow_script sample_world false (sample_request kRead p_sub_ecu_unisia_jecs_20) w).
Proof.
  eexists. split; [reflexivity|]. apply (dialog_follows_script same_string); [reflexivity|reflexivity|cbn; lia].
Defined.
Lemma sample_script_run env supplies q w :
  TryCreate supplies q = Some w -> (workflow_rounds env q w <= 20)%nat ->
  sample_run env w = Some (fst (workflow_script env supplies q w), snd (workflow_script env supplies q w)).
Proof.
  intros E Hf. rewrite (fresh_runs same_string env supplies q w 20 (TryCreate_fresh _ _ _ E) Hf). by destruct (workflow_script _ _ _ _).
Qed.
Definition eeprom_sample : FlashWorkflowRequest := sample_request kRead p_sub_ecu_eeprom_denso_sh7058_can.
Lemma attempts_admitted_and_accepted_witness :
  exists w x1 x2 x3 a after,
  snd (workflow_script sample_world false eeprom_sample w) = [x1; x2; x3] ++ Ran a (WorkerFinished failed_result) :: after
  /\ Admits (attempt_executor a) (attempt_plan a) = Ok tt.
Proof.
  exists (EepromRead (eeprom_new EepromCanExecutor eeprom_sample)).
  eexists _, _, _, _, _. split; [reflexivity|].
  eapply (attempts_admitted_and_accepted same_string sample_world false eeprom_sample
    (EepromRead (eeprom_new EepromCanExecutor eeprom_sample)) 20 _ _ eq_refl ltac:(cbn; lia)
    (sample_script_run sample_world false eeprom_sample _ eq_refl ltac:(cbn; lia)) [_; _; _]).
  reflexivity.
Defined.
Lemma unlisted_operation_refused_witness :
  exists w result t, TryCreate false (sample_request kWrite p_sub_ecu_eeprom_denso_sh7058_can) = Some w
  /\ sample_run sample_world w = Some (result, t) /\ dialog_outcome result <> kSucceeded.
Proof.
  eexists _, _, _. split_and!; [reflexivity|apply (sample_script_run sample_world false (sample_request kWrite p_sub_ecu_eeprom_denso_sh7058_can)); [reflexivity|cbn; lia]|].
  refine (proj1 (unlisted_operation_refused same_string sample_world false (sample_request kWrite p_sub_ecu_eeprom_denso_sh7058_can)
    _ 20 _ _ (List.nth 57 (Protocols BuiltinCatalog) {| Catalog.address := 0; Catalog.spec := p_sub_ecu_eeprom_denso_sh7058_can |})
    _ eq_refl eq_refl eq_refl _
    (sample_script_run sample_world false (sample_request kWrite p_sub_ecu_eeprom_denso_sh7058_can) _ eq_refl _))); [|cbn; lia..].
  apply nth_In. vm_compute. lia.
Defined.
Lemma boot_request_created rom : TryCreate false (boot_request_of rom) = Some (JecsBootMode (boot_new (boot_request_of rom))).
Proof. reflexivity. Qed.
Definition boot_variant : JecsM32rBootMode.Variant :=
  {| JecsM32rBootMode.variant_protocol := "sub_ecu_unisia_jecs_20_bootmode"; JecsM32rBootMode.variant_mcu := "M32R_128KB";
     JecsM32rBootMode.rom_size := 0x20000 |}.
Lemma boot_program_built rom :
  zlen rom = 0x20000 ->
  JecsM32rBootMode.BuildProgramPlan kWrite "sub_ecu_unisia_jecs_20_bootmode" "M32R_128KB" (Some rom)
  = Ok (plan_of (JecsM32rBootMode.fields_of boot_variant rom JecsM32rBootMode.program_family)).
Proof.
  intros Hn. unfold JecsM32rBootMode.BuildProgramPlan.
  replace (JecsM32rBootMode.FindVariant _ _) with (Ok boot_variant : result Error JecsM32rBootMode.Variant) by reflexivity.
  cbn [result_bind JecsM32rBootMode.CheckOperation]. rewrite Hn. cbn [JecsM32rBootMode.rom_size boot_variant Z.eqb Pos.eqb negb].
  unfold JecsM32rBootMode.Build, ValidatedPlan. rewrite ValidateAndBuild_built; [|unfold fields_ok, region_fits; cbn; rewrite Hn|done].
  - unfold JecsM32rBootMode.Validate. cbn [result_bind].
    replace (JecsM32rBootMode.FindVariant _ _) with (Ok boot_variant : result Error JecsM32rBootMode.Variant) by reflexivity.
    unfold JecsM32rBootMode.ValidateProgram, image_size_is. cbn. rewrite Hn. reflexivity.
  - split_and!; try done; [by rewrite decide_False|apply NoDup_singleton].
Qed.
Lemma boot_prepared rom :
  zlen rom = 0x20000 ->
  exists k, JecsM32rBootMode.Prepare kWrite p_sub_ecu_unisia_jecs_20_bootmode sample_paths (Some rom) (fun _ => Ok [1; 2; 3])
  = Ok {| JecsM32rBootMode.first := Some k;
          JecsM32rBootMode.program := Some (plan_of (JecsM32rBootMode.fields_of boot_variant rom JecsM32rBootMode.program_family)) |}.
Proof.
  intros Hn. unfold JecsM32rBootMode.Prepare. cbn [bool_decide]. rewrite bool_decide_eq_false_2 by done.
  change (Catalog.name p_sub_ecu_unisia_jecs_20_bootmode) with "sub_ecu_unisia_jecs_20_bootmode"%string.
  change (Catalog.mcu p_sub_ecu_unisia_jecs_20_bootmode) with "M32R_128KB"%string.
  rewrite boot_program_built by done. cbn [result_bind]. eexists. reflexivity.
Qed.
(** The events of that write: when the kernel attempt fails, and when both succeed. *)
Lemma boot_sample_trace rom :
  zlen rom = 0x20000 ->
  exists k, snd (boot_script sample_world (boot_request_of rom))
  = [Shown (prompt kBegin) kAccept; Shown (prompt kPromptApplyBootModeVoltages) kAccept]
    ++ Ran {| attempt_plan := k; attempt_executor := boot_kernel_executor |} (WorkerFinished failed_result)
    :: [Shown (boot_notice "failed") kAccept; FailureShown (error_of failed_result)].
Proof.
  intros Hn. destruct (boot_prepared rom Hn) as [k Ek]. exists k. unfold boot_script, boot_request_of, sample_world, world_of.
  cbn [req_operation req_protocol req_paths req_image world_files]. rewrite Ek. reflexivity.
Qed.
Lemma boot_done_trace rom :
  zlen rom = 0x20000 ->
  exists k p, snd (boot_script (world_of done_result) (boot_request_of rom))
  = [Shown (prompt kBegin) kAccept; Shown (prompt kPromptApplyBootModeVoltages) kAccept;
     Ran {| attempt_plan := k; attempt_executor := boot_kernel_executor |} (WorkerFinished done_result);
     Shown (prompt kRemoveMod1) kAccept]
    ++ Ran {| attempt_plan := p; attempt_executor := boot_program_executor |} (WorkerFinished done_result)
    :: [Shown (boot_notice "succeeded") kAccept; SuccessShown].
Proof.
  intros Hn. destruct (boot_prepared rom Hn) as [k Ek]. exists k. eexists. unfold boot_script, boot_request_of, world_of.
  cbn [req_operation req_protocol req_paths req_image world_files]. rewrite Ek. reflexivity.
Qed.
Definition zero_rom : list Z := zrepeat 0x20000 0.
Lemma zero_rom_size : zlen zero_rom = 0x20000.
Proof. by apply zlen_zrepeat. Qed.
#[local] Opaque zero_rom.
Lemma programming_voltage_noticed_witness :
  exists before a after,
  snd (boot_script sample_world (boot_request_of zero_rom)) = before ++ Ran a (WorkerFinished failed_result) :: after
  /\ exists ev, ev ∈ after /\ vpp_notice ev.
Proof.
  destruct (boot_sample_trace zero_rom zero_rom_size) as [k Ek]. eexists _, _, _. split; [exact Ek|].
  refine (programming_voltage_noticed same_string sample_world (boot_request_of zero_rom) _ 20 _ _ _ eq_refl
    (boot_request_created zero_rom) _ (sample_script_run sample_world false _ _ (boot_request_created zero_rom) _) _ _ _ _ Ek).
  - cbn. tauto.
  - cbn. lia.
  - cbn. lia.
Defined.
Lemma boot_program_follows_kernel_witness :
  exists before a after,
  snd (boot_script (world_of done_result) (boot_request_of zero_rom)) = before ++ Ran a (WorkerFinished done_result) :: after
  /\ exists earlier k r, before = earlier ++ [Ran k (WorkerFinished r); Shown (prompt kRemoveMod1) kAccept]
    /\ attempt_executor k = boot_kernel_executor /\ success r = true.
Proof.
  destruct (boot_done_trace zero_rom zero_rom_size) as (k & p & Ek). eexists _, _, _. split; [exact Ek|].
  refine (boot_program_follows_kernel same_string (world_of done_result) false (boot_request_of zero_rom) _ 20 _ _ _
    (boot_request_created zero_rom) _ (sample_script_run (world_of done_result) false _ _ (boot_request_created zero_rom) _) _ _ _ _ Ek eq_refl).
  - cbn. tauto.
  - cbn. lia.
  - cbn. lia.
Defined.
