(* ===== verification/FlashLogic.v ===== *)
(** * FlashLogic: reasoning about flash executors

    What an executor may put on the bus is a language of frames. [emits] says a
    computation only sends such frames, [follows] that it sends a word of a
    language when it succeeds and the beginning of one when it fails. The class
    [BootloaderSpec] is what the four steps of a bootloader family promise to
    [RunBootloaderOperation] ([src/backend/flash/ecu/bootloader_operation.h]);
    what an attempt of any such family does on the bus is proved from it here. *)
From S2P Require Import Prelude Bytes Uds Ports UdsClient CanFlash FlashPlan FlashExecution.

(** ** Languages of frames *)
Definition lang : Type := list (list Z) -> Prop.
Definition exactly (l : list (list Z)) : lang := fun w => w = l.
Definition upto (n : nat) (f : list Z) : lang := fun w => exists k, (k <= n)%nat /\ w = replicate k f.
Definition cat (L1 L2 : lang) : lang := fun w => exists w1 w2, w = w1 ++ w2 /\ L1 w1 /\ L2 w2.
(** The beginnings of the words of a language. *)
Definition begun (L : lang) : lang := fun w => exists rest, L (w ++ rest).
(** A language with a word. *)
Definition spoken (L : lang) : Prop := exists w, L w.
Lemma spoken_exactly l : spoken (exactly l).
Proof. by exists l. Qed.
Lemma upto_nil n f : upto n f [].
Proof. exists 0%nat. split; [lia|done]. Qed.
Lemma spoken_upto n f : spoken (upto n f).
Proof. exists []. apply upto_nil. Qed.
Lemma spoken_cat L1 L2 : spoken L1 -> spoken L2 -> spoken (cat L1 L2).
Proof. intros [w1 H1] [w2 H2]. exists (w1 ++ w2), w1, w2. done. Qed.
Lemma begun_nil L : spoken L -> begun L [].
Proof. intros [w Hw]. by exists w. Qed.
Lemma begun_word (L : lang) w : L w -> begun L w.
Proof. exists []. by rewrite app_nil_r. Qed.
Lemma begun_first L1 L2 w : begun L1 w -> spoken L2 -> begun (cat L1 L2) w.
Proof. intros [rest H1] [w2 H2]. exists (rest ++ w2). rewrite app_assoc. by exists (w ++ rest), w2. Qed.
Lemma begun_then (L1 L2 : lang) w1 w2 : L1 w1 -> begun L2 w2 -> begun (cat L1 L2) (w1 ++ w2).
Proof. intros H1 [rest H2]. exists rest. exists w1, (w2 ++ rest). by rewrite <- app_assoc. Qed.
Lemma cat_exactly l1 l2 w : cat (exactly l1) (exactly l2) w <-> w = l1 ++ l2.
Proof. split; [by intros (w1 & w2 & -> & -> & ->)|intros ->; by exists l1, l2]. Qed.
Lemma upto_app n1 n2 f w1 w2 : upto n1 f w1 -> upto n2 f w2 -> upto (n1 + n2) f (w1 ++ w2).
Proof. intros (k1 & H1 & ->) (k2 & H2 & ->). exists (k1 + k2)%nat. rewrite replicate_add. split; [lia|done]. Qed.
Lemma upto_le n1 n2 f w : (n1 <= n2)%nat -> upto n1 f w -> upto n2 f w.
Proof. intros Hn (k & Hk & ->). exists k. split; [lia|done]. Qed.
Lemma upto_once f w : w = [] \/ w = [f] -> upto 1 f w.
Proof. intros [-> | ->]; [exists 0%nat|exists 1%nat]; split; done || lia. Qed.
Lemma upto_once_inv f w : upto 1 f w -> w = [] \/ w = [f].
Proof. intros (k & Hk & ->). destruct k as [|[|k]]; [by left|by right|lia]. Qed.

(** ** Sending the words of a language *)
Definition emits {A} (L : lang) (m : M A) : Prop := does m (fun _ w _ => L w).
Definition follows {A} (L : lang) (m : M (result Error A)) : Prop :=
  does m (fun res w _ => if is_ok res then L w else begun L w).
Create HintDb langs.
#[export] Hint Resolve spoken_exactly spoken_upto spoken_cat : langs.

Lemma follows_weaken {A} (L L' : lang) (m : M (result Error A)) :
  follows L m -> (forall w, L w -> L' w) -> follows L' m.
Proof.
  intros Hm Hw. unfold follows in Hm. refine (does_weaken _ _ _ Hm _). intros [a|e] w _; cbn [is_ok]; [apply Hw|].
  intros [rest H]. exists rest. by apply Hw.
Qed.
Lemma follows_ok {A} (L : lang) (a : A) : L [] -> follows L (ret (Ok a)).
Proof. intros H. by apply does_ret. Qed.
Lemma follows_fail {A} L e : spoken L -> follows (A := A) L (ret (Err e)).
Proof. intros H. apply does_ret. by apply begun_nil. Qed.
Lemma follows_quiet {A B} L (m : M B) (k : B -> M (result Error A)) :
  quiet m -> (forall b, follows L (k b)) -> follows L (bind m k).
Proof. intros Hm Hk. exact (does_quiet m k _ Hm Hk). Qed.
Lemma follows_quiet_try {A B} (L : lang) (m : M (result Error B)) (k : B -> M (result Error A)) :
  quiet m -> spoken L -> (forall b, follows L (k b)) -> follows L (try m k).
Proof. intros Hm Hs Hk. apply follows_quiet; [done|]. intros [b|e]; [apply Hk|by apply follows_fail]. Qed.
Lemma follows_try {A B} (L1 L2 : lang) (m : M (result Error B)) (k : B -> M (result Error A)) :
  follows L1 m -> spoken L2 -> (forall b, follows L2 (k b)) -> follows (cat L1 L2) (try m k).
Proof.
  intros Hm Hs Hk. unfold follows in *. apply (does_try _ _ _ _ Hm); cbn [is_ok].
  - intros b w1 _ H1. refine (does_weaken _ _ _ (Hk b) _). intros [a|e] w2 _; cbn [is_ok]; [by exists w1, w2|].
    by apply begun_then.
  - intros e w _ H1. by apply begun_first.
Qed.
Lemma follows_emits {A B} (L1 L2 : lang) (m : M B) (k : B -> M (result Error A)) :
  emits L1 m -> (forall b, follows L2 (k b)) -> follows (cat L1 L2) (bind m k).
Proof.
  intros Hm Hk. unfold follows, emits in *. apply (does_bind _ _ _ _ Hm). intros b w1 _ H1. refine (does_weaken _ _ _ (Hk b) _).
  intros [a|e] w2 _; cbn [is_ok]; [by exists w1, w2|by apply begun_then].
Qed.
(** The last step of a sequence. *)
Lemma follows_last {A B} L (m : M (result Error B)) (k : B -> M (result Error A)) :
  follows L m -> (forall b, follows (exactly []) (k b)) -> follows L (try m k).
Proof.
  intros Hm Hk. refine (follows_weaken _ _ _ (follows_try L (exactly []) m k Hm (spoken_exactly []) Hk) _).
  intros w (w1 & w2 & -> & H1 & ->). by rewrite app_nil_r.
Qed.

Lemma follows_seq {A B} l1 l2 (m : M (result Error B)) (k : B -> M (result Error A)) :
  follows (exactly l1) m -> (forall b, follows (exactly l2) (k b)) -> follows (exactly (l1 ++ l2)) (try m k).
Proof.
  intros Hm Hk. refine (follows_weaken _ _ _ (follows_try _ _ m k Hm (spoken_exactly l2) Hk) _). intros w Hw.
  by apply cat_exactly in Hw.
Qed.

(** The rules of [does] for computations known by their language. *)
Lemma does_bind_emits {A B} (L : lang) (m : M A) (k : A -> M B) (R : B -> _ -> _ -> Prop) :
  emits L m -> (forall a w1 r1, L w1 -> does (k a) (fun b w2 r2 => R b (w1 ++ w2) (r1 ++ r2))) -> does (bind m k) R.
Proof. apply (does_bind m k (fun _ w _ => L w)). Qed.
Lemma does_try_emits {A B} (L : lang) (m : M (result Error A)) (k : A -> M (result Error B)) (R : result Error B -> _ -> _ -> Prop) :
  emits L m -> (forall a w1 r1, L w1 -> does (k a) (fun b w2 r2 => R b (w1 ++ w2) (r1 ++ r2))) ->
  (forall e w r, L w -> R (Err e) w r) -> does (try m k) R.
Proof. apply (does_try m k (fun _ w _ => L w)). Qed.
Lemma emits_weaken {A} (L L' : lang) (m : M A) : emits L m -> (forall w, L w -> L' w) -> emits L' m.
Proof. intros Hm HL. apply (does_weaken m (fun _ w _ => L w) _ Hm). auto. Qed.
Lemma emits_bind {A B} (L1 L2 : lang) (m : M A) (k : A -> M B) :
  emits L1 m -> (forall a, emits L2 (k a)) -> emits (cat L1 L2) (bind m k).
Proof.
  intros Hm Hk. apply (does_bind_emits L1); [done|]. intros a w1 _ H1.
  apply (does_weaken (k a) (fun _ w _ => L2 w) _ (Hk a)). intros b w2 _ H2. by exists w1, w2.
Qed.
Lemma emits_quiet {A} L (m : M A) : quiet m -> L [] -> emits L m.
Proof. intros Hm HL. apply (does_weaken m (fun _ w r => w = [] /\ r = []) _ Hm). by intros a w r [-> _]. Qed.
(** Attempts of the same request, at most one more than the rest makes. *)
Lemma emits_again {A B} n f (m : M A) (k : A -> M B) :
  emits (upto 1 f) m -> (forall a, emits (upto n f) (k a)) -> emits (upto (S n) f) (bind m k).
Proof.
  intros Hm Hk. apply (emits_weaken _ _ _ (emits_bind _ _ m k Hm Hk)). intros w (w1 & w2 & -> & H1 & H2). by apply (upto_app 1).
Qed.

(** A request that neither writes flash nor is the erase. *)
Definition harmless_pdu (erase : list Z) (pdu : list Z) : Prop := u8 (zget pdu 0) <> kSidWriteMemoryChunk /\ pdu <> erase.
Lemma harmless_pdu_ok erase pdu :
  u8 (zget pdu 0) <> kSidWriteMemoryChunk -> zget pdu 0 <> zget erase 0 -> harmless_pdu erase pdu.
Proof. intros H1 H2. split; [done|]. by intros ->. Qed.

(** ** Sending only harmless frames *)
Section harmless.
Context (harmless : list Z -> Prop).
Definition harmlessly {A} (m : M A) : Prop := emits (Forall harmless) m.
Lemma harmlessly_quiet {A} (m : M A) : quiet m -> harmlessly m.
Proof. intros Hm. unfold quiet in Hm. refine (does_weaken _ _ _ Hm _). by intros a w r [-> _]. Qed.
Lemma harmlessly_bind {A B} (m : M A) (k : A -> M B) :
  harmlessly m -> (forall a, harmlessly (k a)) -> harmlessly (bind m k).
Proof.
  intros Hm Hk. unfold harmlessly, emits in *. apply (does_bind _ _ _ _ Hm). intros a w _ Hw. refine (does_weaken _ _ _ (Hk a) _).
  intros b w2 _ Hw2. by apply Forall_app_2.
Qed.
Lemma harmlessly_try {A B} (m : M (result Error A)) (k : A -> M (result Error B)) :
  harmlessly m -> (forall a, harmlessly (k a)) -> harmlessly (try m k).
Proof. intros Hm Hk. apply harmlessly_bind; [done|]. intros [a|e]; [apply Hk|]. by apply does_ret. Qed.
Lemma harmlessly_emits {A} L (m : M A) : emits L m -> (forall w, L w -> Forall harmless w) -> harmlessly m.
Proof. intros Hm HL. unfold harmlessly, emits in *. refine (does_weaken _ _ _ Hm _). intros a w _. apply HL. Qed.
Lemma harmless_upto n f w : harmless f -> upto n f w -> Forall harmless w.
Proof. intros Hf (k & _ & ->). by apply Forall_replicate. Qed.
End harmless.

(** ** The calls *)
Section channel_calls.
Context `{Env} (channel : UdsChannel) (wrap : list Z -> list Z) (unwrap : list Z -> option (list Z))
  {HC : ChannelSpec channel wrap unwrap}.
Lemma does_Send pdu : does (Send channel pdu) (fun res w r => (w = [] \/ w = [wrap pdu]) /\ r = []
  /\ (res = Ok tt -> w = [wrap pdu])).
Proof.
  apply (runs_weaken _ _ _ (send_spec pdu)). intros res d [R Hw]. rewrite written_writes.
  destruct Hw as [-> | [-> (e & -> & _)]]; cbn; split_and!; auto; discriminate.
Qed.
Lemma does_Receive timeout : does (Receive channel timeout) (fun res w r => w = []
  /\ forall f, res = Ok (Some f) -> exists raw, r = [Ok (Some raw)] /\ unwrap raw = Some f).
Proof.
  apply (runs_weaken _ _ _ (receive_spec timeout)). intros res d [W Hr]. rewrite written_writes, W. split; [done|].
  intros f ->. done.
Qed.
Lemma once_follows (pdu : list Z) (ok : bool) w :
  (w = [] \/ w = [wrap pdu]) -> (ok = true -> w = [wrap pdu]) ->
  if ok then exactly [wrap pdu] w else begun (exactly [wrap pdu]) w.
Proof.
  intros Hw Ho. destruct ok; [by apply Ho|]. destruct Hw as [-> | ->]; [apply begun_nil, spoken_exactly|by apply begun_word].
Qed.
Lemma follows_Send pdu : follows (exactly [wrap pdu]) (Send channel pdu).
Proof.
  refine (does_weaken _ _ _ (does_Send pdu) _). intros res w r (Hw & _ & Hok). apply once_follows; [done|].
  destruct res as [[]|e]; [auto|done].
Qed.
(** A read alone sends nothing. *)
Lemma follows_Receive timeout : follows (exactly []) (Receive channel timeout).
Proof.
  refine (does_weaken _ _ _ (does_Receive timeout) _). intros [a|e] w r [-> _]; [done|]. by apply begun_word.
Qed.
Lemma emits_Send pdu : emits (upto 1 (wrap pdu)) (Send channel pdu).
Proof. refine (does_weaken _ _ _ (does_Send pdu) _). intros a w r [Hw _]. by apply upto_once. Qed.
Lemma emits_Receive timeout : emits (exactly []) (Receive channel timeout).
Proof. refine (does_weaken _ _ _ (does_Receive timeout) _). by intros a w r [-> _]. Qed.
Lemma emits_Request pdu policy : emits (upto 1 (wrap pdu)) (Request channel pdu policy).
Proof.
  pose proof (does_Request {| ctx_channel := channel; ctx_policy := policy |} wrap unwrap pdu policy) as Hr.
  refine (does_weaken _ _ _ Hr _). intros a w r [Hw _]. by apply upto_once.
Qed.
End channel_calls.

Section exchange_calls.
Context `{Env} (ctx : UdsExchangeContext) (wrap : list Z -> list Z) (unwrap : list Z -> option (list Z))
  {HC : ChannelSpec (ctx_channel ctx) wrap unwrap}.
Lemma sends_once_follows pdu res w r :
  sends_once wrap unwrap pdu res w r -> if is_ok res then exactly [wrap pdu] w else begun (exactly [wrap pdu]) w.
Proof.
  intros [Hw Hok]. apply once_follows; [done|]. destruct res as [f|e]; [|done]. intros _. by apply (Hok f).
Qed.
Lemma follows_FatalRequest pdu p o : follows (exactly [wrap pdu]) (FatalRequest ctx pdu p o).
Proof. refine (does_weaken _ _ _ (does_FatalRequest ctx wrap unwrap pdu p o) _). apply sends_once_follows. Qed.
Lemma follows_FatalQuery pdu prefix p s m : follows (exactly [wrap pdu]) (FatalQuery ctx pdu prefix p s m).
Proof.
  refine (does_weaken _ _ _ (does_FatalQuery ctx wrap unwrap pdu prefix p s m) _). intros res w r [Hs _].
  by apply (sends_once_follows pdu res w r).
Qed.
Lemma emits_FatalRequest pdu p o : emits (upto 1 (wrap pdu)) (FatalRequest ctx pdu p o).
Proof. refine (does_weaken _ _ _ (does_FatalRequest ctx wrap unwrap pdu p o) _). intros a w r [Hw _]. by apply upto_once. Qed.
Lemma emits_FatalQuery pdu prefix p s m : emits (upto 1 (wrap pdu)) (FatalQuery ctx pdu prefix p s m).
Proof.
  refine (does_weaken _ _ _ (does_FatalQuery ctx wrap unwrap pdu prefix p s m) _). intros a w r [[Hw _] _].
  by apply upto_once.
Qed.
Lemma emits_NonFatalQuery pdu s p l : emits (upto 1 (wrap pdu)) (NonFatalQuery ctx pdu s p l).
Proof. refine (does_weaken _ _ _ (does_NonFatalQuery ctx wrap unwrap pdu s p l) _). intros a w r Hw. by apply upto_once. Qed.
End exchange_calls.

(** ** Harmless exchanges

    A frame of any identifier whose PDU satisfies [P]. *)
Definition framed (P : list Z -> Prop) (raw : list Z) : Prop := exists id pdu, raw = wrap_can id pdu /\ P pdu.
Lemma framed_wrap (P : list Z -> Prop) id pdu : P pdu -> framed P (wrap_can id pdu).
Proof. intros Hp. by exists id, pdu. Qed.
Section harmless_calls.
Context `{Env} (harmless : list Z -> Prop).
Lemma harmlessly_once {A} (m : M A) f : emits (upto 1 f) m -> harmless f -> harmlessly harmless m.
Proof. intros Hm Hf. apply (harmlessly_emits _ _ _ Hm). intros w. by apply harmless_upto. Qed.
Context (channel : UdsChannel) {wrap : list Z -> list Z} {unwrap : list Z -> option (list Z)}
  {HC : ChannelSpec channel wrap unwrap}.
Lemma harmlessly_Send pdu : harmless (wrap pdu) -> harmlessly harmless (Send channel pdu).
Proof. apply harmlessly_once, (emits_Send channel wrap unwrap). Qed.
Lemma harmlessly_Receive timeout : harmlessly harmless (Receive channel timeout).
Proof. apply (harmlessly_emits _ _ _ (emits_Receive channel wrap unwrap timeout)). intros w ->. constructor. Qed.
Lemma harmlessly_Request pdu policy : harmless (wrap pdu) -> harmlessly harmless (Request channel pdu policy).
Proof. apply harmlessly_once, (emits_Request channel wrap unwrap). Qed.
Context (policy : ExchangePolicy).
Abbreviation ctx := {| ctx_channel := channel; ctx_policy := policy |}.
Lemma harmlessly_FatalRequest pdu p o : harmless (wrap pdu) -> harmlessly harmless (FatalRequest ctx pdu p o).
Proof. apply harmlessly_once, (emits_FatalRequest ctx wrap unwrap). Qed.
Lemma harmlessly_FatalQuery pdu prefix p s m : harmless (wrap pdu) -> harmlessly harmless (FatalQuery ctx pdu prefix p s m).
Proof. apply harmlessly_once, (emits_FatalQuery ctx wrap unwrap). Qed.
Lemma harmlessly_NonFatalQuery pdu s p l : harmless (wrap pdu) -> harmlessly harmless (NonFatalQuery ctx pdu s p l).
Proof. apply harmlessly_once, (emits_NonFatalQuery ctx wrap unwrap). Qed.
End harmless_calls.
Lemma quiet_ReportExchangeFailure `{Env} e p o : quiet (ReportExchangeFailure e p o).
Proof. refine (does_weaken _ _ _ (does_ReportExchangeFailure e p o) _). by intros a w r (_ & -> & ->). Qed.
#[export] Hint Resolve quiet_ReportExchangeFailure : ports.
Create HintDb harmless.
(** Follows the structure of a program down to the frames it sends. *)
Ltac harmless :=
  repeat first
    [ lazymatch goal with
      | |- harmlessly _ (try _ _) => apply harmlessly_try; [|intros ?]
      | |- harmlessly _ (bind _ _) => apply harmlessly_bind; [|intros ?]
      | |- harmlessly _ (Send _ _) => eapply harmlessly_Send
      | |- harmlessly _ (Receive _ _) => eapply harmlessly_Receive
      | |- harmlessly _ (Request _ _ _) => eapply harmlessly_Request
      | |- harmlessly _ (FatalRequest _ _ _ _) => eapply harmlessly_FatalRequest
      | |- harmlessly _ (FatalQuery _ _ _ _ _ _) => eapply harmlessly_FatalQuery
      | |- harmlessly _ (NonFatalQuery _ _ _ _ _) => eapply harmlessly_NonFatalQuery
      | |- harmlessly _ (let _ := _ in _) => cbv zeta
      | |- harmlessly _ (match ?x with _ => _ end) => destruct x
      end
    | solve [apply harmlessly_quiet; auto with ports]
    | solve [eauto with harmless] ].

(** ** Scripts: a fixed sequence of frames *)
Definition script (full : list (list Z)) (ok : bool) (w : list (list Z)) : Prop :=
  if ok then exactly full w else begun (exactly full) w.
Lemma script_nil full : script full false [].
Proof. apply begun_nil, spoken_exactly. Qed.
Lemma script_stop full rest ok w : script full ok w -> script (full ++ rest) false w.
Proof.
  intros Hw. assert (begun (exactly full) w) as [r E] by (destruct ok; [by apply begun_word|done]).
  exists (r ++ rest). unfold exactly in *. by rewrite app_assoc, E.
Qed.
Lemma script_app full rest ok w1 w2 : script full true w1 -> script rest ok w2 -> script (full ++ rest) ok (w1 ++ w2).
Proof.
  unfold script, exactly. intros -> Hw. destruct ok; [by rewrite Hw|]. destruct Hw as [r <-]. exists r. by rewrite app_assoc.
Qed.
Lemma script_weaken full ok w : script full ok w -> script full false w.
Proof. intros Hw%(script_stop full []). by rewrite app_nil_r in Hw. Qed.
Lemma script_prefix full ok w : script full ok w -> w `prefix_of` full.
Proof. intros [r E]%script_weaken. by exists r. Qed.
Lemma follows_script {A} full (m : M (result Error A)) :
  follows (exactly full) m <-> does m (fun res w _ => script full (is_ok res) w).
Proof. done. Qed.
Lemma script_Forall (P : list Z -> Prop) full ok w : Forall P full -> script full ok w -> Forall P w.
Proof. intros Hf [r ->]%script_prefix. by apply Forall_app in Hf as [Hf _]. Qed.

(** ** Counting loops: [for (u32 addr = ..; addr < last; addr += step)]

    [fuel] bounds the rounds; [rounds] is always enough. *)
Fixpoint for_range {S : Type} (fuel : nat) (addr last step : Z) (body : Z -> S -> M (result Error S)) (s : S)
    : M (result Error S) :=
  match fuel with
  | O => ret (Ok s)
  | S fuel =>
      if addr <? last then do! s <- body addr s; for_range fuel (u32 (addr + step)) last step body s
      else ret (Ok s)
  end.
Definition rounds (addr last step : Z) : nat := Z.to_nat ((last - addr) / step + 1).
Definition for_u32 {S : Type} (addr last step : Z) (body : Z -> S -> M (result Error S)) (s : S) : M (result Error S) :=
  for_range (rounds addr last step) addr last step body s.
(** What the rounds from the [i]th to the [n]th did: [Q k s s' r] for each of them. *)
Inductive steps {S : Type} (n : Z) (Q : Z -> S -> S -> list (result Error (option (list Z))) -> Prop)
    : Z -> S -> S -> list (result Error (option (list Z))) -> Prop :=
| steps_done s : steps n Q n s s []
| steps_next i s s1 s2 r1 r2 : i < n -> Q i s s1 r1 -> steps n Q (i + 1) s1 s2 r2 -> steps n Q i s s2 (r1 ++ r2).
Section loops.
Context {S : Type} (start step n : Z) (body : Z -> S -> M (result Error S)) (frames : Z -> list (list Z))
  (Q : Z -> S -> S -> list (result Error (option (list Z))) -> Prop).
Context (Hstep : 0 < step) (Hstart : 0 <= start) (Hend : start + step * n < 2 ^ 32).
Context (Hbody : forall k s, 0 <= k < n -> does (body (start + step * k) s) (fun res w r =>
  script (frames k) (is_ok res) w /\ forall s', res = Ok s' -> Q k s s' r)).
Definition loop_frames (i : Z) : list (list Z) := List.concat (map frames (seqZ i (n - i))).
Lemma loop_frames_cons i : i < n -> loop_frames i = frames i ++ loop_frames (i + 1).
Proof.
  intros Hi. unfold loop_frames. rewrite seqZ_cons by lia. cbn [map List.concat]. unfold Z.succ.
  by replace (Z.pred (n - i)) with (n - (i + 1)) by lia.
Qed.
Lemma does_for_range fuel i s :
  0 <= i <= n -> n - i < Z.of_nat fuel ->
  does (for_range fuel (start + step * i) (start + step * n) step body s) (fun res w r =>
    script (loop_frames i) (is_ok res) w /\ forall s', res = Ok s' -> steps n Q i s s' r).
Proof.
  revert i s. induction fuel as [|fuel IH]; intros i s Hi Hf; [lia|]. cbn [for_range].
  destruct (Z.ltb_spec (start + step * i) (start + step * n)).
  - assert (i < n) by nia. rewrite loop_frames_cons by done.
    apply (does_try _ _ _ _ (Hbody i s ltac:(lia))).
    2:{ intros e w r [Hw _]. split; [by eapply script_stop|done]. }
    intros s1 w1 r1 [H1 HQ]. specialize (HQ s1 eq_refl).
    assert (u32 (start + step * i + step) = start + step * (i + 1)) as -> by (rewrite u32_small; unfold u32_ok; nia).
    apply (does_weaken _ _ _ (IH (i + 1) s1 ltac:(lia) ltac:(lia))). intros res w2 r2 [H2 Hs].
    split; [by apply script_app|]. intros s' E. apply (steps_next n Q i s s1 s' r1 r2); auto.
  - assert (i = n) as -> by nia. apply does_ret. unfold loop_frames. rewrite Z.sub_diag. split; [done|].
    intros s' [= <-]. apply steps_done.
Qed.
Lemma does_for_u32 s :
  0 <= n ->
  does (for_u32 start (start + step * n) step body s) (fun res w r =>
    script (loop_frames 0) (is_ok res) w /\ forall s', res = Ok s' -> steps n Q 0 s s' r).
Proof.
  intros Hn. unfold for_u32, rounds. replace (start + step * n - start) with (n * step) by lia. rewrite Z.div_mul by lia.
  pose proof (does_for_range (Z.to_nat (n + 1)) 0 s) as Hl. rewrite Z.mul_0_r, Z.add_0_r in Hl. apply Hl; lia.
Qed.
End loops.
(** A loop whose rounds only send: each round the frames of its index. *)
Lemma follows_for_u32 {S : Type} (start step n : Z) (body : Z -> S -> M (result Error S)) (frames : Z -> list (list Z)) s :
  0 < step -> 0 <= start -> start + step * n < 2 ^ 32 -> 0 <= n ->
  (forall k s, 0 <= k < n -> follows (exactly (frames k)) (body (start + step * k) s)) ->
  follows (exactly (List.concat (map frames (seqZ 0 n)))) (for_u32 start (start + step * n) step body s).
Proof.
  intros H1 H2 H3 H4 Hb.
  pose proof (does_for_u32 start step n body frames (fun _ _ _ _ => True) H1 H2 H3) as Hl.
  apply follows_script. eapply does_weaken; [apply Hl; [|done]|].
  - intros k s' Hk. unfold follows in Hb. eapply does_weaken; [by apply Hb|]. cbn beta. intros res w r Hw. by split.
  - cbn beta. intros res w r [Hw _]. unfold loop_frames in Hw. by rewrite Z.sub_0_r in Hw.
Qed.

(** Answers to a sequence of requests: [P] relates each answer to the reads of its
    own exchange. *)
Definition replies (P : list Z -> list (result Error (option (list Z))) -> Prop) (frames : list (list Z))
    (r : list (result Error (option (list Z)))) : Prop :=
  exists segments, r = List.concat segments /\ Forall2 P frames segments.
Lemma replies_nil P : replies P [] [].
Proof. exists []. by split. Qed.
Lemma replies_cons (P : list Z -> _ -> Prop) f frames r1 r2 :
  P f r1 -> replies P frames r2 -> replies P (f :: frames) (r1 ++ r2).
Proof. intros H1 (segments & -> & H2). exists (r1 :: segments). split; [done|]. by constructor. Qed.

(** ** Reading pages *)
Section pages.
Context `{Env} (ctx : UdsExchangeContext) (wrap : list Z -> list Z) (unwrap : list Z -> option (list Z))
  {HC : ChannelSpec (ctx_channel ctx) wrap unwrap}.
Definition pages_from (start n i : Z) : list (list Z) :=
  map (fun k => page_request (start + kPageSize * k)) (seqZ i (n - i)).
Definition decrypted (decrypt : list Z -> list Z) (frames : list (list Z)) : list Z :=
  List.concat (map (fun f => decrypt (Payload f)) frames).
(** The pages read: the requests, and the image as the answers' payloads. *)
Definition pages_read (decrypt : list Z -> list Z) (full : list (list Z)) (n : Z) (rom0 : list Z)
    (res : result Error (list Z * PhaseReporter)) (w : list (list Z)) (r : list (result Error (option (list Z)))) : Prop :=
  script (map wrap full) (is_ok res) w
  /\ forall rom p, res = Ok (rom, p) -> exists frames, zlen frames = n /\ rom = rom0 ++ decrypted decrypt frames
       /\ replies (answered unwrap kSidReadMemoryChunk) frames r.
Lemma does_read_pages fuel prefix decrypt start n i rom progress :
  0 <= start -> start + kPageSize * n < 2 ^ 32 -> 0 <= i <= n -> n - i < Z.of_nat fuel ->
  does (read_pages fuel ctx prefix (start + kPageSize * n) decrypt (start + kPageSize * i) rom progress)
    (pages_read decrypt (pages_from start n i) (n - i) rom).
Proof.
  intros Hs He. revert i rom progress. induction fuel as [|fuel IH]; intros i rom progress Hi Hf; [lia|].
  cbn [read_pages]. unfold kPageSize in He. unfold kPageSize at 1 2.
  destruct (Z.ltb_spec (start + 0x100 * i) (start + 0x100 * n)).
  - unfold pages_from. rewrite seqZ_cons by lia. cbn [map]. unfold Z.succ. replace (Z.pred (n - i)) with (n - (i + 1)) by lia.
    fold (pages_from start n (i + 1)). unfold pages_read. cbn [map].
    apply (does_try _ _ _ _ (does_FatalRequest ctx wrap unwrap _ _ _)).
    2:{ intros e w r Hs1%sends_once_follows. split; [|done]. by apply (script_stop [_] (map wrap (pages_from start n (i + 1)))) in Hs1. }
    intros frame w1 r1 Hs1. pose proof (proj2 (proj2 Hs1 frame eq_refl)) as Ha. apply sends_once_follows in Hs1.
    cbv zeta. apply does_quiet; [apply quiet_Update|]. intros p'.
    assert (u32 (start + kPageSize * i + kPageSize) = start + kPageSize * (i + 1)) as ->
      by (unfold kPageSize; rewrite u32_small; unfold u32_ok; lia).
    apply (does_weaken _ _ _ (IH (i + 1) (rom ++ decrypt (Payload frame)) p' ltac:(lia) ltac:(lia))).
    intros res w2 r2 [Hw Hres]. split; [by apply (script_app [_] _ _ w1 w2)|].
    intros rom' p'' E. destruct (Hres rom' p'' E) as (frames & Hlen & -> & Hr).
    exists (frame :: frames). rewrite zlen_cons. split_and!; [lia|by rewrite <- app_assoc|by apply replies_cons].
  - replace i with n by lia. apply does_ret. unfold pages_from. rewrite Z.sub_diag. split; [done|].
    intros rom' p' [= <- _]. exists []. split_and!; [done|by rewrite app_nil_r|apply replies_nil].
Qed.
Lemma does_ReadEncryptedB7Pages prefix decrypt start n progress :
  0 <= start -> start + kPageSize * n < 2 ^ 32 -> 0 <= n ->
  does (ReadEncryptedB7Pages ctx prefix {| reg_start := start; reg_length := kPageSize * n |} decrypt progress)
    (pages_read decrypt (pages_from start n 0) n []).
Proof.
  intros Hs He Hn. unfold ReadEncryptedB7Pages. cbn [reg_start reg_length]. apply does_quiet; [apply quiet_Log|]. intros _.
  rewrite (Z.mul_comm kPageSize n), Z.div_mul, (Z.mul_comm n kPageSize) by done.
  rewrite u32_small by (unfold u32_ok, kPageSize in *; lia).
  pose proof (does_read_pages (Z.to_nat (n + 2)) prefix decrypt start n 0 [] progress Hs He) as Hr.
  rewrite Z.mul_0_r, Z.add_0_r, Z.sub_0_r in Hr. apply Hr; lia.
Qed.
(** The exchange of one page in a trace: its request alone was sent, and [f], its positive
    answer, is the last frame read. *)
Definition page_exchange (start k : Z) (x : list Z * trace) : Prop :=
  written (snd x) = [wrap (page_request (start + kPageSize * k))] /\ answered unwrap kSidReadMemoryChunk (fst x) (reads (snd x)).
(** The pages from the [i]th to the [n]th, one exchange after another in the trace [d]. *)
Definition paged (decrypt : list Z -> list Z) (start n i : Z) (rom : list Z) (d : trace) : Prop :=
  exists fs, Forall2 (page_exchange start) (seqZ i (n - i)) fs /\ d = List.concat (map snd fs) /\ rom = decrypted decrypt (map fst fs).
Lemma runs_read_pages fuel prefix decrypt start n i rom progress :
  0 <= start -> start + kPageSize * n < 2 ^ 32 -> 0 <= i <= n -> n - i < Z.of_nat fuel ->
  runs (read_pages fuel ctx prefix (start + kPageSize * n) decrypt (start + kPageSize * i) rom progress) (fun res d =>
    script (map wrap (pages_from start n i)) (is_ok res) (written d)
    /\ forall rom' p, res = Ok (rom', p) -> exists rest, rom' = rom ++ rest /\ paged decrypt start n i rest d).
Proof.
  intros Hs He. revert i rom progress. induction fuel as [|fuel IH]; intros i rom progress Hi Hf; [lia|].
  cbn [read_pages]. unfold kPageSize in He. unfold kPageSize at 1 2.
  destruct (Z.ltb_spec (start + 0x100 * i) (start + 0x100 * n)).
  - unfold pages_from, paged. rewrite seqZ_cons by lia. cbn [map]. unfold Z.succ. replace (Z.pred (n - i)) with (n - (i + 1)) by lia.
    fold (pages_from start n (i + 1)).
    eapply runs_try; [apply (does_FatalRequest ctx wrap unwrap)| |].
    2:{ intros e d Hs1%sends_once_follows. split; [|done]. by apply (script_stop [_] (map wrap (pages_from start n (i + 1)))) in Hs1. }
    intros frame. cbv zeta. apply (runs_bind _ _ (fun _ d => silent d)); [apply quiet_Update|]. intros p'.
    assert (u32 (start + kPageSize * i + kPageSize) = start + kPageSize * (i + 1)) as ->
      by (unfold kPageSize; rewrite u32_small; unfold u32_ok; lia).
    apply (runs_weaken _ _ _ (IH (i + 1) (rom ++ decrypt (Payload frame)) p' ltac:(lia) ltac:(lia))).
    intros res d3 [Hw Hres] d2 [W2 R2] d1 Hs1. pose proof (proj2 Hs1 frame eq_refl) as [W1 Ha].
    rewrite !written_app, W1, W2. split; [by apply (script_app [_] _ _ [_])|].
    intros rom' p'' E. destruct (Hres rom' p'' E) as (rest & -> & fs & HF & -> & ->).
    exists (decrypt (Payload frame) ++ decrypted decrypt (map fst fs)). split; [by rewrite app_assoc|].
    exists ((frame, d1 ++ d2) :: fs). split_and!; [|cbn [map List.concat snd]; by rewrite app_assoc|done].
    constructor; [|done]. split; cbn [fst snd]; [by rewrite written_app, W1, W2|]. rewrite reads_app, R2, app_nil_r. exact Ha.
  - replace i with n by lia. apply runs_ret. unfold pages_from, paged. rewrite Z.sub_diag. split; [done|].
    intros rom' p' [= <- _]. exists []. split; [by rewrite app_nil_r|]. by exists [].
Qed.
Lemma runs_ReadEncryptedB7Pages prefix decrypt start n progress :
  0 <= start -> start + kPageSize * n < 2 ^ 32 -> 0 <= n ->
  runs (ReadEncryptedB7Pages ctx prefix {| reg_start := start; reg_length := kPageSize * n |} decrypt progress) (fun res d =>
    exists d1 d2, d = d1 ++ d2 /\ silent d1 /\ script (map wrap (pages_from start n 0)) (is_ok res) (written d2)
    /\ forall rom p, res = Ok (rom, p) -> paged decrypt start n 0 rom d2).
Proof.
  intros Hs He Hn. unfold ReadEncryptedB7Pages. cbn [reg_start reg_length].
  apply (runs_bind _ _ (fun _ d => silent d)); [apply quiet_Log|]. intros _.
  rewrite (Z.mul_comm kPageSize n), Z.div_mul, (Z.mul_comm n kPageSize) by done.
  rewrite u32_small by (unfold u32_ok, kPageSize in *; lia).
  pose proof (runs_read_pages (Z.to_nat (n + 2)) prefix decrypt start n 0 [] progress Hs He) as Hr.
  rewrite Z.mul_0_r, Z.add_0_r in Hr. refine (runs_weaken _ _ _ (Hr ltac:(lia) ltac:(lia)) _).
  intros res d [Hw Hres] d1 H1. exists d1, d. split_and!; try done. intros rom p E.
  by destruct (Hres rom p E) as (rest & -> & Hp).
Qed.
End pages.

(** The pages a counting loop appended to its image. *)
Definition appends_page (P : list Z -> list (result Error (option (list Z))) -> Prop) (decrypt : list Z -> list Z)
    (_ : Z) (s s' : list Z * PhaseReporter) (r : list (result Error (option (list Z)))) : Prop :=
  exists f, P f r /\ fst s' = fst s ++ decrypt (Payload f).
Lemma steps_pages P decrypt n i s s' r :
  steps n (appends_page P decrypt) i s s' r -> i <= n ->
  exists frames, zlen frames = n - i /\ fst s' = fst s ++ decrypted decrypt frames /\ replies P frames r.
Proof.
  induction 1 as [s|i s s1 s2 r1 r2 Hi (f & Hf & E) _ IH]; intros Hle.
  - exists []. rewrite Z.sub_diag. split_and!; [done|by rewrite app_nil_r|apply replies_nil].
  - destruct (IH ltac:(lia)) as (frames & Hl & E2 & Hr). exists (f :: frames). rewrite zlen_cons.
    split_and!; [lia|by rewrite E2, E, <- app_assoc|by apply replies_cons].
Qed.

(** ** Dumps: what a read phase sends, and where its image comes from *)
Definition dumped_pages (P : list Z -> list (result Error (option (list Z))) -> Prop) (decrypt : list Z -> list Z)
    (lead tail : list Z) (n : Z) (rom : list Z) (r : list (result Error (option (list Z)))) : Prop :=
  exists r1 r2 r3 frames, r = r1 ++ r2 ++ r3 /\ zlen frames = n /\ rom = lead ++ decrypted decrypt frames ++ tail
    /\ replies P frames r2.
Section dumps.
Context (harmless : list Z -> Prop) (P : list Z -> list (result Error (option (list Z))) -> Prop)
  (decrypt : list Z -> list Z) (lead tail : list Z) (n : Z).
Definition dumps (m : M (result Error (list Z * PhaseReporter))) : Prop :=
  does m (fun res w r => Forall harmless w /\ forall rom p, res = Ok (rom, p) -> dumped_pages P decrypt lead tail n rom r).
Lemma dumps_bind {A} (m : M A) k : harmlessly harmless m -> (forall a, dumps (k a)) -> dumps (bind m k).
Proof.
  intros Hm Hk. apply (does_bind_emits _ m k _ Hm). intros a w1 r1 Hw1. unfold dumps in Hk.
  refine (does_weaken _ _ _ (Hk a) _). intros res w2 r2 [Hw2 Hd]. split; [by apply Forall_app_2|]. intros rom p E.
  destruct (Hd rom p E) as (ra & rb & rc & frames & -> & Hl & Hr & Hp). exists (r1 ++ ra), rb, rc, frames.
  by rewrite <- app_assoc.
Qed.
Lemma dumps_fail e : dumps (ret (Err e)).
Proof. apply does_ret. by split. Qed.
Lemma dumps_try {A} (m : M (result Error A)) k : harmlessly harmless m -> (forall a, dumps (k a)) -> dumps (try m k).
Proof. intros Hm Hk. apply dumps_bind; [done|]. intros [a|e]; [apply Hk|apply dumps_fail]. Qed.
(** After the pages: harmless exchanges, and the image between its pads. *)
Definition finishes (rom : list Z) (m : M (result Error (list Z * PhaseReporter))) : Prop :=
  does m (fun res w _ => Forall harmless w /\ forall rom' p, res = Ok (rom', p) -> rom' = lead ++ rom ++ tail).
Lemma finishes_bind {A} rom (m : M A) k : harmlessly harmless m -> (forall a, finishes rom (k a)) -> finishes rom (bind m k).
Proof.
  intros Hm Hk. apply (does_bind_emits _ m k _ Hm). intros a w1 r1 Hw1. unfold finishes in Hk.
  refine (does_weaken _ _ _ (Hk a) _). intros res w2 r2 [Hw2 Hd]. split; [by apply Forall_app_2|done].
Qed.
Lemma finishes_try {A} rom (m : M (result Error A)) k :
  harmlessly harmless m -> (forall a, finishes rom (k a)) -> finishes rom (try m k).
Proof. intros Hm Hk. apply finishes_bind; [done|]. intros [a|e]; [apply Hk|]. apply does_ret. by split. Qed.
Lemma finishes_ret rom p : finishes rom (ret (Ok (lead ++ rom ++ tail, p))).
Proof. apply does_ret. split; [constructor|]. by intros rom' p' [= <- _]. Qed.
Lemma dumps_pages (m : M (result Error (list Z * PhaseReporter))) k head full :
  Forall harmless full ->
  does m (fun res w r => script full (is_ok res) w /\ forall rom p, res = Ok (rom, p) ->
    exists frames, zlen frames = n /\ rom = head ++ decrypted decrypt frames /\ replies P frames r) ->
  (forall rom p, finishes rom (k (head ++ rom, p))) -> dumps (try m k).
Proof.
  intros Hf Hm Hk. apply (does_try m k _ _ Hm).
  - intros [rom p] w1 r1 [Hw1 Hrom]. destruct (Hrom rom p eq_refl) as (frames & Hl & -> & Hr). unfold finishes in Hk.
    refine (does_weaken _ _ _ (Hk _ p) _). intros res w2 r2 [Hw2 Hres].
    split; [apply Forall_app_2; [exact (script_Forall harmless full _ _ Hf ltac:(eassumption))|done]|]. intros rom' p' E. exists [], r1, r2, frames.
    split_and!; [done|done|by eapply Hres|done].
  - intros e w r [Hw _]. split; [exact (script_Forall harmless full _ _ Hf ltac:(eassumption))|done].
Qed.
End dumps.
(** Some frame read passed the test. *)
Definition answered_by (unwrap : list Z -> option (list Z)) (ok : list Z -> bool) (r : list (result Error (option (list Z)))) : Prop :=
  exists raw f, Ok (Some raw) ∈ r /\ unwrap raw = Some f /\ ok f = true.
Lemma answered_by_app unwrap ok r1 r2 : answered_by unwrap ok r1 \/ answered_by unwrap ok r2 -> answered_by unwrap ok (r1 ++ r2).
Proof. intros [(raw & f & Hin & ?)|(raw & f & Hin & ?)]; exists raw, f; set_solver. Qed.
Lemma answered_by_one unwrap ok raw f : unwrap raw = Some f -> ok f = true -> answered_by unwrap ok [Ok (Some raw)].
Proof. intros Hu Ho. exists raw, f. split_and!; [set_solver|done|done]. Qed.
(** A request sent once, whose answer the rest waits for without sending. *)
Lemma does_send_and_wait `{Env} (channel : UdsChannel) wrap unwrap {HC : ChannelSpec channel wrap unwrap} pdu (rest : M Status)
    (erased : list (result Error (option (list Z))) -> Prop) :
  does rest (fun res w r => w = [] /\ (is_ok res = true -> erased r)) ->
  does (do! _ <- Send channel pdu; rest) (fun res w r =>
    if is_ok res then exactly [wrap pdu] w /\ erased r else begun (exactly [wrap pdu]) w).
Proof.
  intros Hrest. apply (does_try _ _ _ _ (does_Send channel wrap unwrap pdu)).
  2:{ intros e w r (Hw & _ & _). by apply (once_follows wrap pdu false). }
  intros [] w1 r1 (_ & -> & Hok). rewrite (Hok eq_refl). apply (does_weaken _ _ _ Hrest).
  intros [[]|e] w r [-> Hr]; cbn [is_ok]; [split; [done|by apply Hr]|by apply begun_word].
Qed.
(** The same frame, once or more. *)
Definition some_of (n : nat) (f : list Z) : lang := fun w => exists k, (1 <= k <= n)%nat /\ w = replicate k f.
Lemma spoken_some_of n f : (1 <= n)%nat -> spoken (some_of n f).
Proof. intros Hn. exists [f], 1%nat. split; [lia|done]. Qed.
Lemma some_of_cons n f w : w = [f] \/ (exists w', w = f :: w' /\ some_of n f w') -> (1 <= n)%nat -> some_of (S n) f w.
Proof.
  intros [-> | (w' & -> & k & Hk & ->)] Hn; [exists 1%nat; split; [lia|done]|]. exists (S k). split; [lia|done].
Qed.

Lemma some_of_begun n f w : (1 <= n)%nat -> upto n f w -> begun (some_of n f) w.
Proof.
  intros Hn (k & Hk & ->). destruct k as [|k]; [by apply begun_nil, spoken_some_of|]. apply begun_word. exists (S k). split; [lia|done].
Qed.
Lemma follows_of_emits {A} (L : lang) (m : M (result Error A)) : emits L m -> follows L m.
Proof. intros Hm. unfold emits in Hm. apply (does_weaken _ _ _ Hm). intros [a|e] w r Hw; [done|]. by apply begun_word. Qed.

(** ** What a bootloader family promises *)
Record Bootloader := {
  bl_connect : M Status;
  bl_read : PhaseReporter -> M (result Error (list Z * PhaseReporter));
  bl_erase : M Status;
  bl_write : list Z -> PhaseReporter -> M (result Error PhaseReporter)
}.
(** Connecting and reading only send harmless frames; erasing sends a word of
    [erasing] and succeeds only when what was read shows [erased]; writing an image
    follows [writing]; what a read returns is what was [dumped]. *)
Class BootloaderSpec (b : Bootloader) (harmless : list Z -> Prop) (erasing : lang)
    (erased : list (result Error (option (list Z))) -> Prop) (writing : list Z -> lang)
    (dumped : list Z -> list (result Error (option (list Z))) -> Prop) : Prop := {
  connect_spec : harmlessly harmless (bl_connect b);
  read_spec : forall p, does (bl_read b p) (fun res w r => Forall harmless w
    /\ forall rom p', res = Ok (rom, p') -> dumped rom r);
  erase_spec : does (bl_erase b) (fun res w r => if is_ok res then erasing w /\ erased r else begun erasing w);
  write_spec : forall image p, follows (writing image) (bl_write b image p);
  erasing_spoken : spoken erasing;
  writing_spoken : forall image, spoken (writing image)
}.
Section outcomes.
Context (harmless : list Z -> Prop) (erasing : lang) (erased : list (result Error (option (list Z))) -> Prop).
(** A write: connecting, erasing, writing, in this order, and nothing of the write
    unless the erase went out whole and was confirmed by what was read meanwhile. *)
Definition write_outcome (writing : lang) (res : result Error FlashExecutionResult) (d : trace) : Prop :=
  exists dc de dw, d = dc ++ de ++ dw
    /\ Forall harmless (written dc) /\ begun erasing (written de) /\ begun writing (written dw)
    /\ (written dw <> [] -> erasing (written de) /\ erased (reads de))
    /\ (is_ok res = true -> erasing (written de) /\ erased (reads de) /\ writing (written dw)).
(** A read: nothing harmful, and on success what the reads dumped. *)
Definition read_outcome (dumped : list Z -> list (result Error (option (list Z))) -> Prop)
    (res : result Error FlashExecutionResult) (d : trace) : Prop :=
  Forall harmless (written d)
  /\ forall x, res = Ok x -> exists rom d1 d2 d3, d = d1 ++ d2 ++ d3 /\ read_bytes x = Some rom /\ dumped rom (reads d2).
(** Calls before and after that leave the bus alone. *)
Definition padded (R : result Error FlashExecutionResult -> trace -> Prop) : Prop :=
  forall res d1 d2 d3, silent d1 -> silent d3 -> R res d2 -> R res (d1 ++ d2 ++ d3).
Lemma write_outcome_padded writing : padded (write_outcome writing).
Proof.
  intros res d1 d2 d3 [W1 _] [W3 _] (dc & de & dw & -> & H1 & H2 & H3 & H4 & H5).
  exists (d1 ++ dc), de, (dw ++ d3). rewrite !written_app, W1, W3, !app_nil_r. split_and!; try done.
  by rewrite <- !app_assoc.
Qed.
Lemma read_outcome_padded dumped : padded (read_outcome dumped).
Proof.
  intros res d1 d2 d3 [W1 _] [W3 _] [H1 H2]. split.
  - by rewrite !written_app, W1, W3, app_nil_r.
  - intros x E. destruct (H2 x E) as (rom & da & db & dc & -> & H3 & H4).
    exists rom, (d1 ++ da), db, (dc ++ d3). by rewrite <- !app_assoc.
Qed.
Lemma write_outcome_error writing e d res : write_outcome writing res d -> write_outcome writing (Err e) d.
Proof. intros (dc & de & dw & -> & H1 & H2 & H3 & H4 & _). by exists dc, de, dw. Qed.
Lemma read_outcome_error dumped e d res : read_outcome dumped res d -> read_outcome dumped (Err e) d.
Proof. intros [H1 _]. by split. Qed.
Lemma read_outcome_silent dumped e d : silent d -> read_outcome dumped (Err e) d.
Proof. intros [Hw _]. split; [by rewrite Hw|done]. Qed.
Lemma write_outcome_stop writing e dc de :
  spoken writing -> Forall harmless (written dc) -> begun erasing (written de) -> write_outcome writing (Err e) (dc ++ de).
Proof. intros Hs Hc He. exists dc, de, []. rewrite app_nil_r. by split_and!. Qed.
End outcomes.

Section run.
Context `{Env} (b : Bootloader) (harmless : list Z -> Prop) (erasing : lang)
  (erased : list (result Error (option (list Z))) -> Prop) (writing : list Z -> lang)
  (dumped : list Z -> list (result Error (option (list Z))) -> Prop)
  {HB : BootloaderSpec b harmless erasing erased writing dumped}.
Definition RunBootloader (plan : FlashPlan) (name : string) : M (result Error FlashExecutionResult) :=
  RunBootloaderOperation plan name (bl_connect b) (bl_read b) (bl_erase b) (bl_write b).
Lemma write_outcome_silent image e d :
  silent d -> write_outcome harmless erasing erased (writing image) (Err e) d.
Proof.
  intros [Hw _]. rewrite <- (app_nil_r d). apply write_outcome_stop; [apply writing_spoken|by rewrite Hw|].
  apply begun_nil, erasing_spoken.
Qed.
(** Computations after a prefix that only connected, and after a confirmed erase. *)
Definition from_connecting {A} (Q : A -> trace -> Prop) (m : M A) : Prop :=
  runs m (fun x d => forall dc, Forall harmless (written dc) -> Q x (dc ++ d)).
Lemma from_connecting_bind {A B} (m : M A) (k : A -> M B) (Q : B -> trace -> Prop) :
  harmlessly harmless m -> (forall a, from_connecting Q (k a)) -> from_connecting Q (bind m k).
Proof.
  intros Hm Hk. unfold harmlessly, emits, does in Hm. apply (runs_bind m k _ _ Hm). intros a.
  refine (runs_weaken _ _ _ (Hk a) _). intros x d2 H2 d1 H1 dc Hc. rewrite app_assoc. apply H2.
  rewrite written_app. by apply Forall_app_2.
Qed.
Lemma from_connecting_quiet {A B} (m : M A) (k : A -> M B) (Q : B -> trace -> Prop) :
  quiet m -> (forall a, from_connecting Q (k a)) -> from_connecting Q (bind m k).
Proof. intros Hm. apply from_connecting_bind. by apply harmlessly_quiet. Qed.
Lemma from_connecting_ret {A} (a : A) (Q : A -> trace -> Prop) :
  (forall dc, Forall harmless (written dc) -> Q a dc) -> from_connecting Q (ret a).
Proof. intros Ha. apply runs_ret. intros dc Hc. rewrite app_nil_r. auto. Qed.
Definition from_erased {A} (Q : A -> trace -> Prop) (m : M A) : Prop :=
  runs m (fun x d => forall dc de q, Forall harmless (written dc) -> erasing (written de) -> erased (reads de) ->
    silent q -> Q x (dc ++ de ++ q ++ d)).
Lemma from_erased_quiet {A B} (m : M A) (k : A -> M B) (Q : B -> trace -> Prop) :
  quiet m -> (forall a, from_erased Q (k a)) -> from_erased Q (bind m k).
Proof.
  intros Hm Hk. apply (runs_bind m k (fun _ d => silent d) _ Hm). intros a.
  refine (runs_weaken _ _ _ (Hk a) _). intros x d2 H2 d1 H1 dc de q Hc He Ha Hq. rewrite (app_assoc q). apply H2; auto with ports.
Qed.
(** Connecting, in either operation. *)
Lemma run_connects plan name (Q : result Error FlashExecutionResult -> trace -> Prop) :
  (forall e dc, Forall harmless (written dc) -> Q (Err e) dc) ->
  (forall phases, from_connecting Q (
    if bool_decide (Operation plan = kRead) then
      do _ <- Notice "Reading ROM, please wait...";
      do _ <- Log LInfo ("Reading ROM from " +:+ name +:+ " using CAN");
      do (read_phase, phases) <- Start phases "Read ROM" (reg_length (TransferRegion plan));
      do! (rom, read_phase) <- bl_read b read_phase;
      do _ <- Complete read_phase;
      ret (Ok {| res_operation := kRead; read_bytes := Some rom; rom_id := None |})
    else if negb (bool_decide (Operation plan = kWrite)) then
      ret (Fail kUnsupported ("test_write is not supported by the " +:+ name +:+ " CAN family"))
    else
      do _ <- Notice "Writing ROM, please wait...";
      do _ <- Log LInfo ("Writing ROM to " +:+ name +:+ " using CAN");
      do (erasing, phases) <- Start phases "Erase" 1;
      do! _ <- bl_erase b;
      do _ <- Complete erasing;
      do (writing, phases) <- Start phases "Write ROM" (reg_length (TransferRegion plan));
      do! writing <- bl_write b (ImageOrEmpty plan) writing;
      do _ <- Complete writing;
      ret (Ok {| res_operation := kWrite; read_bytes := None; rom_id := None |}))) ->
  runs (RunBootloader plan name) Q.
Proof.
  intros Herr Hrest.
  assert (from_connecting Q (RunBootloader plan name)) as Hr.
  { unfold RunBootloader, RunBootloaderOperation. cbv zeta.
    apply from_connecting_quiet; [apply quiet_Start|]. intros [connecting phases].
    apply from_connecting_quiet; [apply quiet_Log|]. intros _.
    apply from_connecting_bind; [apply connect_spec|]. intros [[]|e]; [|by apply from_connecting_ret; auto].
    apply from_connecting_quiet; [apply quiet_Complete|]. intros _. apply Hrest. }
  refine (runs_weaken _ _ _ Hr _). intros x d Hd. apply (Hd []). constructor.
Qed.
Lemma run_writes plan name :
  Operation plan = kWrite ->
  runs (RunBootloader plan name) (write_outcome harmless erasing erased (writing (ImageOrEmpty plan))).
Proof.
  intros Hop. set (image := ImageOrEmpty plan). pose proof (writing_spoken image) as Hs. pose proof erasing_spoken as He0.
  assert (forall e dc, Forall harmless (written dc) -> write_outcome harmless erasing erased (writing image) (Err e) dc) as Herr.
  { intros e dc Hc. rewrite <- (app_nil_r dc). apply write_outcome_stop; [done|done|by apply begun_nil]. }
  apply run_connects; [exact Herr|]. intros phases. rewrite bool_decide_eq_false_2, bool_decide_eq_true_2 by (rewrite Hop; done).
  cbn [negb]. fold image.
  apply from_connecting_quiet; [apply quiet_Notice|]. intros _. apply from_connecting_quiet; [apply quiet_Log|]. intros _.
  apply from_connecting_quiet; [apply quiet_Start|]. intros [erasing_phase phases'].
  pose proof erase_spec as He. unfold does in He. apply (runs_try _ _ _ _ He); cbn [is_ok].
  2:{ intros e de Hde dc Hc. by apply write_outcome_stop. }
  intros [].
  assert (from_erased (write_outcome harmless erasing erased (writing image)) (
    do _ <- Complete erasing_phase;
    do (writing, _) <- Start phases' "Write ROM" (reg_length (TransferRegion plan));
    do! writing <- bl_write b image writing;
    do _ <- Complete writing;
    ret (Ok {| res_operation := kWrite; read_bytes := None; rom_id := None |}))) as Hw.
  { apply from_erased_quiet; [apply quiet_Complete|]. intros _.
    apply from_erased_quiet; [apply quiet_Start|]. intros [wp phases''].
    pose proof (write_spec image wp) as Hws. unfold follows, does in Hws. apply (runs_try _ _ _ _ Hws); cbn [is_ok].
    - intros p. apply (runs_bind _ _ (fun _ d => silent d)); [exact (quiet_Complete p)|]. intros p'. apply runs_ret.
      intros q2 Hq2 dw Hdw dc de q Hc Hde Ha [Hq _]. exists dc, de, (q ++ dw ++ q2).
      rewrite app_nil_r, !written_app, Hq, (proj1 Hq2), app_nil_r. split_and!; try done; by apply begun_word.
    - intros e dw Hdw dc de q Hc Hde Ha [Hq _]. exists dc, de, (q ++ dw). rewrite written_app, Hq. split_and!; try done.
      by apply begun_word. }
  refine (runs_weaken _ _ _ Hw _). intros x dw Hx de [Hde Ha] dc Hc. apply (Hx dc de []); auto with ports.
Qed.
Lemma run_reads plan name :
  Operation plan = kRead -> runs (RunBootloader plan name) (read_outcome harmless dumped).
Proof.
  intros Hop. apply run_connects; [by intros e dc Hc; split|]. intros phases. rewrite bool_decide_eq_true_2 by done.
  apply from_connecting_quiet; [apply quiet_Notice|]. intros _. apply from_connecting_quiet; [apply quiet_Log|]. intros _.
  apply from_connecting_quiet; [apply quiet_Start|]. intros [rp phases'].
  pose proof (read_spec rp) as Hr. unfold does in Hr. apply (runs_try _ _ _ _ Hr).
  - intros [rom p]. apply (runs_bind _ _ (fun _ d => silent d)); [exact (quiet_Complete p)|]. intros p'. apply runs_ret.
    intros q Hq d [Hd Hrom] dc Hc. rewrite app_nil_r. split.
    + rewrite !written_app, (proj1 Hq), app_nil_r. by apply Forall_app_2.
    + intros x [= <-]. exists rom, dc, d, q. by split_and!; [|..|eapply Hrom].
  - intros e d [Hd _] dc Hc. split; [|done]. rewrite written_app. by apply Forall_app_2.
Qed.
Lemma run_tests plan name :
  Operation plan = kTestWrite ->
  runs (RunBootloader plan name) (fun res d => is_ok res = false /\ Forall harmless (written d)).
Proof.
  intros Hop. apply run_connects; [by intros e dc Hc|]. intros phases.
  rewrite !bool_decide_eq_false_2 by (rewrite Hop; done). cbn [negb]. by apply from_connecting_ret.
Qed.
End run.

(** ** Attempts *)
Section attempt.
Context `{Env} (R : result Error FlashExecutionResult -> trace -> Prop).
Context (Hpad : padded R) (Hno : forall e d, silent d -> R (Err e) d) (Herr : forall res d e, R res d -> R (Err e) d).
Lemma runs_padded_l {A} (m : M A) (k : A -> M (result Error FlashExecutionResult)) :
  quiet m -> (forall a, runs (k a) R) -> runs (bind m k) R.
Proof.
  intros Hm Hk. apply (runs_bind m k (fun _ d => silent d) _ Hm). intros a. refine (runs_weaken _ _ _ (Hk a) _).
  intros x d2 H2 d1 H1. rewrite <- (app_nil_r d2). apply Hpad; auto with ports.
Qed.
Lemma runs_BoundAttempt executor plan :
  quiet (BeforeTransportConfigure executor adapter) -> quiet (BeforeTransportOpen executor) ->
  runs (Execute executor plan (GuardedCanFlashTransport adapter)) R ->
  runs (BoundAttempt_Run executor plan adapter) R.
Proof.
  intros Hc Ho He. apply runs_padded_l.
  - destruct (TransportSetup executor plan) as [setup|e]; [|apply quiet_ret].
    destruct (quiet_adapter setup) as (Q1 & Q2 & Q3). unfold try.
    repeat first [apply quiet_bind; [|intros ?] | assumption | apply quiet_Cancelled | apply quiet_ret
                 | match goal with |- quiet (match ?x with _ => _ end) => destruct x end].
  - intros [[]|e]; [|apply runs_ret; by apply Hno]. unfold ExecuteWithTransportGuard.
    apply (runs_bind _ _ _ _ He). intros outcome. apply (runs_bind _ _ (fun _ d => silent d)); [by apply runs_call|].
    assert (forall d1 d2 x e, silent d2 -> R x d1 -> R (Err e) (d1 ++ d2)) as Hclose.
    { intros d1 d2 x e H2 H1. apply (Hpad (Err e) [] d1 d2); auto with ports. by eapply Herr. }
    intros [[]|e]; destruct outcome as [x|e']; try (apply runs_ret; intros d2 H2 d1 H1; rewrite app_nil_r; by eapply Hclose).
    + apply runs_ret. intros d2 H2 d1 H1. rewrite app_nil_r. apply (Hpad (Ok x) [] d1 d2); auto with ports.
    + apply (runs_bind _ _ (fun _ d => silent d)); [by apply runs_Log|]. intros _. apply runs_ret.
      intros d3 H3 d2 H2 d1 H1. rewrite app_nil_r. eapply Hclose; [|done]. auto with ports.
Qed.
(** An attempt of a family on a plan of that family. *)
Lemma runs_family_attempt {Plan} family (get : FamilyPlan -> option Plan) validate setup run plan p :
  get (family_plan (fields_ plan)) = Some p ->
  runs (run p plan (GuardedCanFlashTransport adapter)) R ->
  runs (BoundAttempt_Run (FamilyExecutor family get validate setup run) plan adapter) R.
Proof.
  intros Hget Hrun. apply runs_BoundAttempt; [apply quiet_ret|apply quiet_ret|]. cbn [Execute FamilyExecutor].
  destruct (let! _ := CheckFamily plan family in validate plan) as [[]|e]; [|apply runs_ret; by apply Hno].
  apply runs_padded_l; [apply quiet_Cancelled|]. intros []; [apply runs_ret; by apply Hno|]. by rewrite Hget.
Qed.
End attempt.

(** What an attempt of a family that keeps [BootloaderSpec] does. *)
Section family_attempts.
Context `{Env} (b : Bootloader) (harmless : list Z -> Prop) (erasing : lang)
  (erased : list (result Error (option (list Z))) -> Prop) (writing : list Z -> lang)
  (dumped : list Z -> list (result Error (option (list Z))) -> Prop)
  {HB : BootloaderSpec b harmless erasing erased writing dumped}.
Context {Plan : Type} (family : FlashFamily) (get : FamilyPlan -> option Plan) (validate : FlashPlan -> Status)
  (setup : Plan -> result Error Iso15765Config)
  (run : Plan -> FlashPlan -> CanFlashTransport -> M (result Error FlashExecutionResult)) (name : string).
Lemma attempt_writes plan p :
  get (family_plan (fields_ plan)) = Some p -> Operation plan = kWrite ->
  run p plan (GuardedCanFlashTransport adapter) = RunBootloader b plan name ->
  runs (BoundAttempt_Run (FamilyExecutor family get validate setup run) plan adapter)
    (write_outcome harmless erasing erased (writing (ImageOrEmpty plan))).
Proof.
  intros Hget Hop Hrun. eapply runs_family_attempt; [apply write_outcome_padded| |intros; by eapply write_outcome_error|exact Hget|].
  - intros e d. by apply (write_outcome_silent b harmless erasing erased writing dumped).
  - rewrite Hrun. by apply (run_writes b harmless erasing erased writing dumped).
Qed.
End family_attempts.
