(* ===== verification/FlashMemory.v ===== *)
(** * FlashMemory: what the frames of a write leave in the flash

    The memory of a unit that obeys write requests ([0xB6], an address of three or
    four bytes, encrypted data), and the cipher of [src/algorithms/protocol/ssm]
    applied to a block in pieces. *)
From S2P Require Import Prelude Bytes Ssm Uds Ports UdsClient CanFlash FlashPlan FlashExecution FlashLogic.

(** ** The cipher on pieces of a buffer *)
Lemma CalculatePayload_subspan buf keys pairs o n :
  bytes_ok buf -> zlen buf mod 4 = 0 -> 0 <= o -> 0 <= n -> o mod 4 = 0 -> n mod 4 = 0 -> o + n <= zlen buf ->
  CalculatePayload (subspan buf o n) keys pairs = subspan (CalculatePayload buf keys pairs) o n.
Proof.
  intros Hb Hl Ho Hn Mo Mn Hon. set (rest := zlen buf - (o + n)).
  assert (buf = subspan buf 0 o ++ subspan buf o n ++ subspan buf (o + n) rest) as E.
  { rewrite <- subspan_add by lia. replace o with (0 + o) at 2 by lia. rewrite <- subspan_add by lia.
    symmetry. apply subspan_full. lia. }
  assert (forall k m, 0 <= k -> 0 <= m -> k + m <= zlen buf -> zlen (subspan buf k m) = m) as Hz
    by (intros; rewrite zlen_subspan; lia).
  rewrite E at 2.
  rewrite !CalculatePayload_app by (try (by apply bytes_ok_subspan); try (apply bytes_ok_app; by apply bytes_ok_subspan);
    rewrite ?zlen_app, !Hz by lia; Z.to_euclidean_division_equations; lia).
  assert (forall k m, 0 <= k -> 0 <= m -> k + m <= zlen buf -> m mod 4 = 0 ->
    zlen (CalculatePayload (subspan buf k m) keys pairs) = m) as Hp
    by (intros; rewrite zlen_CalculatePayload, Hz by lia; Z.to_euclidean_division_equations; lia).
  set (a := CalculatePayload (subspan buf 0 o) keys pairs). set (b := CalculatePayload (subspan buf o n) keys pairs).
  assert (zlen a = o) as Ha by (apply Hp; lia). assert (zlen b = n) as Hbn by (apply Hp; lia).
  unfold subspan, ztake, zdrop. rewrite <- Ha at 1. unfold zlen at 1. rewrite Nat2Z.id, drop_app_length.
  rewrite <- Hbn. unfold zlen. by rewrite Nat2Z.id, take_app_length.
Qed.
Lemma decrypt_encrypt buf keys pairs :
  bytes_ok buf -> zlen buf mod 4 = 0 -> CalculatePayload (CalculatePayload buf keys pairs) (rev keys) pairs = buf.
Proof.
  intros Hb Hl. rewrite CalculatePayload_rev by done. unfold ztake. apply take_ge. unfold zlen in *.
  Z.to_euclidean_division_equations; lia.
Qed.
Lemma decrypt_piece buf keys pairs o n :
  bytes_ok buf -> zlen buf mod 4 = 0 -> 0 <= o -> 0 <= n -> o mod 4 = 0 -> n mod 4 = 0 -> o + n <= zlen buf ->
  CalculatePayload (subspan (CalculatePayload buf keys pairs) o n) (rev keys) pairs = subspan buf o n.
Proof.
  intros Hb Hl Ho Hn Mo Mn Hon. assert (zlen (CalculatePayload buf keys pairs) = zlen buf) as Hz
    by (rewrite zlen_CalculatePayload; Z.to_euclidean_division_equations; lia).
  rewrite CalculatePayload_subspan by (rewrite ?Hz; done || apply bytes_ok_CalculatePayload).
  by rewrite decrypt_encrypt.
Qed.

(** ** A unit that obeys write requests with [w]-byte addresses *)
Definition flash_frame (w : Z) (decrypt : list Z -> list Z) (m : memory) (raw : list Z) : memory :=
  let pdu := zdrop 4 raw in
  if zget pdu 0 =? kSidWriteMemoryChunk then store m (ReadUBe pdu 1 w) (decrypt (zdrop (1 + w) pdu)) else m.
Definition flashed (w : Z) (decrypt : list Z -> list Z) (frames : list (list Z)) (m : memory) : memory :=
  fold_left (flash_frame w decrypt) frames m.
Lemma flash_frame_proper w decrypt raw : Proper ((≡@{memory}) ==> (≡@{memory})) (fun m => flash_frame w decrypt m raw).
Proof. intros m1 m2 E. unfold flash_frame. cbv zeta. destruct (_ =? _); [|done]. by rewrite E. Qed.
#[global] Instance flashed_proper w decrypt frames : Proper ((≡@{memory}) ==> (≡@{memory})) (flashed w decrypt frames).
Proof. apply (fold_left_memory_proper (flash_frame w decrypt)). intros raw. apply flash_frame_proper. Qed.
Lemma flashed_app w decrypt l1 l2 m : flashed w decrypt (l1 ++ l2) m = flashed w decrypt l2 (flashed w decrypt l1 m).
Proof. apply fold_left_app. Qed.
Lemma pdu_of_wrapped id pdu : bytes_ok pdu -> zdrop 4 (wrap_can id pdu) = pdu.
Proof.
  intros Hb. unfold wrap_can. rewrite !ComposeBe_cons, (EmitBe_FBytes pdu Hb). unfold ComposeBe. cbn [map List.concat].
  rewrite app_nil_r. reflexivity.
Qed.
(** Frames of other services change nothing. *)
Definition idle_frame : list Z -> Prop := framed (fun pdu => u8 (zget pdu 0) <> kSidWriteMemoryChunk).
Lemma idle_wrap id pdu : u8 (zget pdu 0) <> kSidWriteMemoryChunk -> idle_frame (wrap_can id pdu).
Proof. intros Hz. by apply framed_wrap. Qed.
Lemma harmless_idle erase raw : framed (harmless_pdu erase) raw -> idle_frame raw.
Proof. intros (id & pdu & -> & Hz & _). by apply idle_wrap. Qed.
Lemma flash_frame_idle w decrypt m raw : idle_frame raw -> flash_frame w decrypt m raw = m.
Proof.
  intros (id & pdu & -> & Hz). unfold flash_frame. cbv zeta.
  assert (zget (zdrop 4 (wrap_can id pdu)) 0 = u8 (zget pdu 0)) as ->.
  { unfold wrap_can. rewrite !ComposeBe_cons. unfold ComposeBe. cbn [map List.concat]. rewrite app_nil_r.
    change (zdrop 4 (EmitBe (FU32 id) ++ EmitBe (FBytes pdu))) with (EmitBe (FBytes pdu)). by destruct pdu. }
  by rewrite (proj2 (Z.eqb_neq _ _)).
Qed.
Lemma flashed_idle w decrypt frames m : Forall idle_frame frames -> flashed w decrypt frames m = m.
Proof.
  unfold flashed. induction 1 as [|raw l Hr _ IH]; [done|]. cbn [fold_left]. by rewrite flash_frame_idle.
Qed.
(** The write requests. *)
Definition chunk24 (addr : Z) (data : list Z) : list Z := ComposeBe [FByte kSidWriteMemoryChunk; FU24 addr; FBytes data].
Definition chunk32 (addr : Z) (data : list Z) : list Z := ComposeBe [FByte kSidWriteMemoryChunk; FU32 addr; FBytes data].
Lemma chunk_stored (n : nat) decrypt m id addr data :
  (1 <= n <= 4)%nat -> 0 <= addr < 2 ^ (8 * Z.of_nat n) -> bytes_ok data ->
  flash_frame (Z.of_nat n) decrypt m (wrap_can id ([kSidWriteMemoryChunk] ++ EmitIntegerBe n addr ++ data))
  = store m addr (decrypt data).
Proof.
  intros Hn Ha Hb. unfold flash_frame. rewrite pdu_of_wrapped.
  2:{ apply bytes_ok_app; [repeat constructor; done|]. apply bytes_ok_app; [apply bytes_ok_EmitIntegerBe|done]. }
  cbv zeta. change (zget ([kSidWriteMemoryChunk] ++ _) 0 =? kSidWriteMemoryChunk) with true. cbv iota. f_equal.
  - change 1 with (zlen [kSidWriteMemoryChunk]). rewrite ReadUBe_middle by (try lia; apply zlen_EmitIntegerBe).
    rewrite ReadUBe_EmitIntegerBe by lia. by apply Z.mod_small.
  - f_equal. rewrite app_assoc. unfold zdrop. replace (Z.to_nat (1 + Z.of_nat n)) with (length ([kSidWriteMemoryChunk] ++ EmitIntegerBe n addr)).
    + apply drop_app_length.
    + pose proof (zlen_EmitIntegerBe n addr) as Hz. unfold zlen in Hz. rewrite length_app. cbn [length]. lia.
Qed.
Lemma compose_chunk24 addr data : bytes_ok data -> chunk24 addr data = [kSidWriteMemoryChunk] ++ EmitIntegerBe 3 addr ++ data.
Proof. intros Hb. unfold chunk24. rewrite !ComposeBe_cons, EmitBe_FBytes by done. unfold ComposeBe. cbn [map List.concat]. by rewrite app_nil_r. Qed.
Lemma compose_chunk32 addr data : bytes_ok data -> chunk32 addr data = [kSidWriteMemoryChunk] ++ EmitIntegerBe 4 addr ++ data.
Proof. intros Hb. unfold chunk32. rewrite !ComposeBe_cons, EmitBe_FBytes by done. unfold ComposeBe. cbn [map List.concat]. by rewrite app_nil_r. Qed.
(** A write request with [w]-byte addresses: what it stores, below [limit]. *)
Definition stores (w : Z) (request : Z -> list Z -> list Z) (limit : Z) : Prop :=
  forall decrypt m id addr data, 0 <= addr < limit -> bytes_ok data ->
    flash_frame w decrypt m (wrap_can id (request addr data)) = store m addr (decrypt data).
Lemma stores24 : stores 3 chunk24 (2 ^ 24).
Proof. intros decrypt m id addr data Ha Hd. rewrite compose_chunk24 by done. exact (chunk_stored 3 decrypt m id addr data ltac:(lia) Ha Hd). Qed.
Lemma stores32 : stores 4 chunk32 (2 ^ 32).
Proof. intros decrypt m id addr data Ha Hd. rewrite compose_chunk32 by done. exact (chunk_stored 4 decrypt m id addr data ltac:(lia) Ha Hd). Qed.

(** ** Writing a block in chunks

    Any frames, obeyed one by one, that each store a piece of the plain data. *)
Lemma pieces_stored (obey : memory -> list Z -> memory) (frame : Z -> list Z) start size n plain m :
  (forall f, Proper ((≡@{memory}) ==> (≡@{memory})) (fun m => obey m f)) -> 0 < size -> 0 <= n -> size * n <= zlen plain ->
  (forall m k, 0 <= k < n -> obey m (frame k) = store m (start + size * k) (subspan plain (size * k) size)) ->
  fold_left obey (map frame (seqZ 0 n)) m ≡ store m start (subspan plain 0 (size * n)).
Proof.
  intros Ho Hsize Hn Hlen Hframe.
  assert (forall j : nat, Z.of_nat j <= n ->
    fold_left obey (map frame (seqZ 0 (Z.of_nat j))) m ≡ store m start (subspan plain 0 (size * Z.of_nat j))) as Hj.
  { induction j as [|j IH]; intros Hjn.
    - rewrite Z.mul_0_r. intros a. cbn. unfold subspan. rewrite store_nil. done.
    - rewrite Nat2Z.inj_succ. unfold Z.succ. rewrite seqZ_app, map_app, fold_left_app by lia.
      rewrite (fold_left_memory_proper obey Ho _ _ _ (IH ltac:(lia))). rewrite Z.add_0_l, seqZ_cons, seqZ_nil by lia.
      cbn [map fold_left]. rewrite Hframe by lia.
      replace (start + size * Z.of_nat j) with (start + zlen (subspan plain 0 (size * Z.of_nat j)))
        by (rewrite zlen_subspan; nia).
      rewrite store_store. replace (size * (Z.of_nat j + 1)) with (size * Z.of_nat j + size) by lia.
      rewrite (subspan_add plain 0) by nia. by rewrite Z.add_0_l. }
  specialize (Hj (Z.to_nat n) ltac:(lia)). rewrite Z2Nat.id in Hj by done. exact Hj.
Qed.
Section chunks.
Context (w : Z) (decrypt : list Z -> list Z) (request : Z -> list Z -> list Z) (id start size n : Z) (encrypted plain : list Z).
Context (Hstored : forall m addr data, start <= addr < start + size * n -> bytes_ok data ->
  flash_frame w decrypt m (wrap_can id (request addr data)) = store m addr (decrypt data)).
Context (He : bytes_ok encrypted) (Hsize : 0 < size) (Hn : 0 <= n) (Hlen : size * n <= zlen plain)
  (Hpiece : forall k, 0 <= k < n -> decrypt (subspan encrypted (size * k) size) = subspan plain (size * k) size).
(** The frames of the chunks. *)
Definition chunk_frames : list (list Z) :=
  map (fun k => wrap_can id (request (start + size * k) (subspan encrypted (size * k) size))) (seqZ 0 n).
Lemma chunks_flashed m : flashed w decrypt chunk_frames m ≡ store m start (subspan plain 0 (size * n)).
Proof.
  apply (pieces_stored (flash_frame w decrypt)); try done; [intros f; apply flash_frame_proper|]. intros m' k Hk. cbv beta.
  rewrite Hstored by (try nia; by apply bytes_ok_subspan). by rewrite Hpiece.
Qed.
End chunks.

(** Chunks of a block encrypted with round keys whose reverse decrypts. *)
Section blocks.
Context (w : Z) (request : Z -> list Z -> list Z) (limit : Z) (Hstores : stores w request limit).
Context (id start size n : Z) (plain keys : list Z) (m : memory).
Context (Hb : bytes_ok plain) (Hl : zlen plain = size * n) (Hs : 0 < size) (Hn : 0 <= n) (Hm : size mod 4 = 0) (H0 : 0 <= start)
  (He : start + size * n <= limit).
Abbreviation decrypt := (fun page => CalculatePayload page (rev keys) kStockPairTable).
Abbreviation block := (chunk_frames request id start size n (CalculatePayload plain keys kStockPairTable)).
Lemma block_flashed : flashed w decrypt block m ≡ store m start plain.
Proof.
  rewrite (chunks_flashed w decrypt request id start size n _ plain).
  - by rewrite <- Hl, subspan_full.
  - intros m' addr data Ha Hd. apply (Hstores decrypt); [lia|done].
  - apply bytes_ok_CalculatePayload.
  - done.
  - done.
  - lia.
  - assert (forall k, (size * k) mod 4 = 0) as Hmul by (intros k; by rewrite Z.mul_mod, Hm by done).
    intros k Hk. assert (0 <= size * k /\ size * k + size <= size * n) as [Hk1 Hk2] by (clear -Hk Hs; nia).
    apply decrypt_piece; rewrite ?Hl; auto; lia.
Qed.
(** A write of one block between frames that store nothing. *)
Lemma one_block_flashed (L1 L2 : lang) frames :
  (forall w, L1 w -> Forall idle_frame w) -> (forall w, L2 w -> Forall idle_frame w) ->
  cat L1 (cat (exactly block) L2) frames -> flashed w decrypt frames m ≡ store m start plain.
Proof.
  intros I1 I2 (w1 & w2 & -> & Hw1%I1 & w3 & w4 & -> & -> & Hw4%I2).
  rewrite !flashed_app, (flashed_idle _ _ w1 m Hw1), (flashed_idle _ _ w4 _ Hw4). apply block_flashed.
Qed.
End blocks.
Lemma idle_upto id n pdu w :
  u8 (zget pdu 0) <> kSidWriteMemoryChunk -> upto n (wrap_can id pdu) w -> Forall idle_frame w.
Proof. intros Hz (k & _ & ->). apply Forall_replicate. by apply idle_wrap. Qed.
