(* ===== verification/HitachiM32rCan.v ===== *)
(** * HitachiM32rCan: [src/backend/flash/ecu/subaru_hitachi_m32r_can_executor.cpp]

    The Subaru Hitachi M32R CAN family: connecting to the resident kernel,
    dumping the ROM, erasing and reflashing it. *)
From S2P Require Import Prelude Bytes Ssm Uds Ports UdsClient CanFlash FlashDevices FlashPlan FlashExecution FlashLogic.

(** ** The cipher tables *)
Definition kExchangePolicy : ExchangePolicy := default_policy.
Definition kSessionBench : Z := 0x43.
Definition kSeedKeyTable : list Z :=
  [0x90A1; 0x2F92; 0xDE3C; 0xCDC0; 0x1A99; 0x437C; 0xF91B; 0xDB57; 0x96BA; 0xDE10; 0xFCAF; 0x3F31; 0xF47F; 0x0BB6;
   0x16E9; 0x4645].
Definition kEncryptTable : list Z := [0x14CA; 0x77F4; 0x973C; 0xF50E].
Definition kDecryptTable : list Z := [0xF50E; 0x973C; 0x77F4; 0x14CA].
Definition SeedKey (seed : list Z) : list Z := CalculateSeedKey seed kSeedKeyTable kStockPairTable.
Definition EncryptRom (image : list Z) : list Z := CalculatePayload image kEncryptTable kStockPairTable.
Definition DecryptPage (page : list Z) : list Z := CalculatePayload page kDecryptTable kStockPairTable.
Definition kRejectionPrefix : string := "Wrong response from ECU: ".

Section executor.
Context `{Env} (channel : UdsChannel).
Definition ectx : UdsExchangeContext := {| ctx_channel := channel; ctx_policy := kExchangePolicy |}.

(** ** Connecting *)
Definition ObkActive : M (result Error bool) :=
  do _ <- Log LInfo "Checking if OBK is already running...";
  do! _ <- Send channel [0xB7];
  do! obk <- Receive channel 200;
  ret (Ok (match obk with
           | Some f => (3 <=? zlen f) && (zget f 0 =? 0x7F) && (zget f 1 =? 0xB7) && (zget f 2 =? 0x13)
           | None => false
           end)).
Definition QueryIdentity : M unit :=
  do _ <- Log LInfo "Requesting ECU ID";
  do _ <- NonFatalQuery ectx [kSidEcuIdQuery] None kRejectionPrefix "ECU ID";
  do _ <- Log LInfo "Requesting VIN";
  do _ <- NonFatalQuery ectx [kSidVehicleInfoRequest; kVehicleInfoPidVin] (Some kVehicleInfoPidVin)
            kRejectionPrefix "VIN";
  do _ <- Log LInfo "Requesting CAL ID...";
  do _ <- NonFatalQuery ectx [kSidVehicleInfoRequest; kVehicleInfoPidCalId] (Some kVehicleInfoPidCalId)
            kRejectionPrefix "CAL ID";
  do _ <- Log LInfo "Requesting CVN";
  NonFatalQuery ectx [kSidVehicleInfoRequest; kVehicleInfoPidCvn] (Some kVehicleInfoPidCvn) kRejectionPrefix "CVN".
Definition session_probe_request : list Z := [0xA8; 0x00; 0x00; 0x00; 0xD7].
Definition RequireBenchSession : M Status :=
  do _ <- Log LInfo "Initializing bootloader...";
  do! _ <- Send channel session_probe_request;
  do! probe <- Receive channel 200;
  match probe with
  | Some session_probe =>
      if zlen session_probe <? 3 then ret (Fail kTimeout "no response from ECU during the session-scope probe")
      else
        let bench := (zget session_probe 1 =? 0xA0) || (zget session_probe 2 =? 0x20) in
        if negb bench then ret (Fail kUnsupported "on-car programming is not supported by this port")
        else do _ <- Log LInfo "Bench Programming, Accessing..."; ret (Ok tt)
  | None => ret (Fail kTimeout "no response from ECU during the session-scope probe")
  end.
Definition download_request : list Z := [kSidRequestDownload; 0x04; 0x33; 0x00; 0x00; 0x00; 0x08; 0x00; 0x00].
Definition UnlockAndJump : M Status :=
  do! _ <- FatalQuery ectx [kSidDiagnosticSessionControl; kSessionBench] [kSessionBench] kRejectionPrefix
             "bench diagnostic session" None;
  do! _ <- UnlockAndKernelJump ectx kRejectionPrefix SeedKey;
  do _ <- Log LInfo "Checking if jump successful and kernel alive...";
  do! _ <- FatalQuery ectx download_request [0x20; 0x01; 0x04] kRejectionPrefix "kernel alive check" None;
  ret (Ok tt).
Definition ConnectBootloader : M Status :=
  do! active <- ObkActive;
  if active : bool then do _ <- Log LInfo "OBK is active!"; ret (Ok tt)
  else
    do _ <- Log LInfo "OBK not active, initializing ECU...";
    do _ <- QueryIdentity;
    do! _ <- RequireBenchSession;
    do! _ <- UnlockAndJump;
    do _ <- Log LInfo "ECU initialised, continue...";
    ret (Ok tt).

(** ** Reading *)
Definition upload_request : list Z := [kSidRequestUpload; 0x04; 0x33; 0x00; 0x00; 0x00; 0x08; 0x00; 0x00].
Definition kLength : Z := 0x80000.
Definition DumpFlashRange (progress : PhaseReporter) : M (result Error (list Z * PhaseReporter)) :=
  do _ <- Log LInfo "Setting dump start & length...";
  do setup <- Request channel upload_request kExchangePolicy;
  do _ <- match setup with
          | Err e => Log LError ("Wrong response from ECU: " +:+ detail e)
          | Ok frame =>
              let p := Payload frame in
              if (zlen p <? 3) || negb (zget p 0 =? 0x20) || negb (zget p 1 =? 0x01) || negb (zget p 2 =? 0x01)
              then Log LError "Wrong response from ECU: unexpected dump setup response"
              else ret tt
          end;
  do! rom <- ReadEncryptedB7Pages ectx kRejectionPrefix {| reg_start := 0; reg_length := kLength |} DecryptPage progress;
  do _ <- Log LInfo "ROM read complete";
  do _ <- Log LInfo "Sending stop command...";
  do! _ <- FatalRequest ectx [kSidRequestTransferExit] kRejectionPrefix "the stop command";
  ret (Ok rom).

(** ** Erasing *)
Definition erase_request : list Z :=
  [kSidRoutineControl; kRoutineControlStart; 0x02; 0x01; 0x0F; 0xFF; 0xFF; 0xFF].
(** The erase completion: the routine's positive response. *)
Definition erase_done (f : list Z) : bool :=
  (2 <? zlen f) && (zget f 0 =? 0x71) && (zget f 1 =? kRoutineControlStart) && (zget f 2 =? 0x02).
(** The re-reads that are left; the flag of the loop is its result. *)
Fixpoint erase_wait (attempts : nat) : M (result Error bool) :=
  match attempts with
  | O => ret (Ok false)
  | S attempts =>
      do! received <- Receive channel 500;
      if match received with Some f => erase_done f | None => false end then ret (Ok true)
      else do! _ <- Sleep 500; erase_wait attempts
  end.
Definition EraseMemory : M Status :=
  do _ <- Log LInfo "Erasing ECU ROM...";
  do! _ <- Send channel erase_request;
  do! connected <- erase_wait 20;
  if negb connected then
    do _ <- Log LError "Flash area erase failed"; ret (Fail kBadResponse "flash area erase failed")
  else do _ <- Log LInfo "Flash erased! Starting flash write, do not power off!"; ret (Ok tt).

(** ** Writing *)
Definition kChunkSize : Z := 256.
Definition chunk_request (encrypted : list Z) (addr : Z) : list Z :=
  ComposeBe [FByte kSidWriteMemoryChunk; FU24 addr; FBytes (subspan encrypted addr kChunkSize)].
Fixpoint write_chunks (fuel : nat) (encrypted : list Z) (addr : Z) (progress : PhaseReporter)
    : M (result Error PhaseReporter) :=
  match fuel with
  | O => ret (Ok progress)
  | S fuel =>
      if addr <? kLength then
        do! _ <- FatalRequest ectx (chunk_request encrypted addr) kRejectionPrefix
                   ("the flash write at 0x" +:+ fmt_x addr);
        do progress <- Update progress (addr + kChunkSize);
        write_chunks fuel encrypted (u32 (addr + kChunkSize)) progress
      else ret (Ok progress)
  end.
Fixpoint close_block (attempts : nat) : M unit :=
  match attempts with
  | O => ret tt
  | S attempts =>
      do closed <- Request channel [kSidRequestTransferExit] kExchangePolicy;
      match closed with
      | Ok _ => Log LInfo "Closed successfully"
      | Err _ => close_block attempts
      end
  end.
Definition verify_request : list Z := [kSidRoutineControl; kRoutineControlStart; 0x02; 0x02; 0x01].
Definition UnlockAndReflashBlock (image : list Z) (progress : PhaseReporter) : M (result Error PhaseReporter) :=
  do _ <- Log LInfo "Setting flash start & length...";
  do! _ <- FatalRequest ectx download_request kRejectionPrefix "the flash start & length setup";
  let encrypted := EncryptRom image in
  do! progress <- write_chunks (Z.to_nat (kLength / kChunkSize + 1)) encrypted 0 progress;
  do _ <- Log LInfo "Closing out Flashing of this block...";
  do _ <- close_block 6;
  do _ <- Log LInfo "Verifying checksum...";
  do! _ <- FatalQuery ectx verify_request [0x01; 0x02] kRejectionPrefix "checksum verify" None;
  do _ <- Log LInfo "Checksum verified";
  ret (Ok progress).
End executor.

(** ** The executor *)
Section family.
Context `{Env}.
Definition m32r_can_setup (family : SubaruHitachiM32rCanPlan) : result Error Iso15765Config :=
  Ok {| bitrate := m32r_bitrate family; cfg_request_id := m32r_request_id family;
        cfg_response_id := m32r_response_id family; extended_id := m32r_extended_id family |}.
Definition m32r_can_run (family : SubaruHitachiM32rCanPlan) (plan : FlashPlan) (transport : CanFlashTransport)
    : M (result Error FlashExecutionResult) :=
  let channel := CanFlashUdsChannel transport (m32r_request_id family) (m32r_response_id family) in
  RunBootloaderOperation plan "Subaru Hitachi M32R" (ConnectBootloader channel) (DumpFlashRange channel)
    (EraseMemory channel) (UnlockAndReflashBlock channel).
Definition SubaruHitachiM32rCanExecutor : ICanFlashExecutor :=
  FamilyExecutor kSubaruHitachiM32rCan AsM32rCan ValidateSubaruHitachiM32rCanPlan m32r_can_setup m32r_can_run.
End family.

(** ** Lemmas: what each step puts on the bus *)
(** The PDUs of a connection and of a read: none of them is a flash write or the erase. *)
Definition connect_pdu : list Z -> Prop := harmless_pdu erase_request.
Lemma connect_pdu_ok pdu : u8 (zget pdu 0) <> kSidWriteMemoryChunk -> zget pdu 0 <> kSidRoutineControl -> connect_pdu pdu.
Proof. exact (harmless_pdu_ok erase_request pdu). Qed.
Section specs.
Context `{Env} (request_id : Z) (channel : UdsChannel) (unwrap : list Z -> option (list Z))
  {HC : ChannelSpec channel (wrap_can request_id) unwrap}.
Abbreviation wrap := (wrap_can request_id).
Local Instance ectx_spec : ChannelSpec (ctx_channel (ectx channel)) wrap unwrap := HC.
Lemma connect_harmless : harmlessly (framed connect_pdu) (ConnectBootloader channel).
Proof.
  unfold ConnectBootloader, ObkActive, QueryIdentity, RequireBenchSession, UnlockAndJump, UnlockAndKernelJump, ectx.
  harmless; apply framed_wrap, connect_pdu_ok; done.
Qed.
(** The unit reported the erase complete. *)
Definition acknowledged : list (result Error (option (list Z))) -> Prop := answered_by unwrap erase_done.
Lemma does_erase_wait n :
  does (erase_wait channel n) (fun res w r => w = [] /\ (res = Ok true -> acknowledged r)).
Proof.
  induction n as [|n IH]; cbn [erase_wait]; [by apply does_ret|].
  apply (does_try _ _ _ _ (does_Receive channel wrap unwrap 500)); [|by intros e w r [-> _]].
  intros received w1 r1 [-> Hr].
  destruct (match received with Some f => erase_done f | None => false end) eqn:Hf.
  - apply does_ret. split; [done|]. intros _. destruct received as [f|]; [|done].
    destruct (Hr f eq_refl) as (raw & -> & U). by apply (answered_by_one unwrap _ raw f).
  - apply (does_try _ _ (fun _ w r => w = [] /\ r = []) _ (quiet_Sleep 500)); [|by intros e w r [-> ->]].
    intros [] w2 r2 [-> ->]. apply (does_weaken _ _ _ IH). intros res w3 r3 [-> Ha]. split; [done|].
    intros Hres. apply answered_by_app. right. by apply Ha.
Qed.
Lemma does_EraseMemory :
  does (EraseMemory channel) (fun res w r =>
    if is_ok res then exactly [wrap erase_request] w /\ acknowledged r else begun (exactly [wrap erase_request]) w).
Proof.
  apply does_quiet; [apply quiet_Log|]. intros _. apply (does_send_and_wait channel wrap unwrap).
  apply (does_try _ _ _ _ (does_erase_wait 20)); [|by intros e w r [-> _]].
  intros [] w2 r2 [-> Ha]; cbn [negb]; (apply does_quiet; [apply quiet_Log|]; intros _; apply does_ret); [|done].
  split; [done|]. intros _. rewrite app_nil_r. by apply Ha.
Qed.
(** The chunk requests from the [i]th on. *)
Definition chunks_from (encrypted : list Z) (i : Z) : list (list Z) :=
  map (fun k => chunk_request encrypted (kChunkSize * k)) (seqZ i (kLength / kChunkSize - i)).
Lemma follows_write_chunks fuel encrypted i p :
  0 <= i <= kLength / kChunkSize -> kLength / kChunkSize - i < Z.of_nat fuel ->
  follows (exactly (map wrap (chunks_from encrypted i))) (write_chunks channel fuel encrypted (kChunkSize * i) p).
Proof.
  revert i p. induction fuel as [|fuel IH]; intros i p Hi Hf; [lia|]. cbn [write_chunks].
  change (kLength / kChunkSize) with 2048 in *. destruct (Z.ltb_spec (kChunkSize * i) kLength) as [Hl|Hl]; unfold kChunkSize, kLength in Hl.
  - unfold chunks_from. change (kLength / kChunkSize) with 2048. rewrite seqZ_cons by lia. cbn [map]. unfold Z.succ.
    replace (Z.pred (2048 - i)) with (2048 - (i + 1)) by lia.
    apply (follows_seq [_]); [apply (follows_FatalRequest (ectx channel) wrap unwrap)|]. intros frame.
    apply follows_quiet; [apply quiet_Update|]. intros p'.
    assert (u32 (kChunkSize * i + kChunkSize) = kChunkSize * (i + 1)) as ->
      by (unfold kChunkSize; rewrite u32_small; unfold u32_ok; lia).
    apply IH; lia.
  - replace i with 2048 by lia. by apply follows_ok.
Qed.
Lemma emits_close_block n : emits (upto n (wrap [kSidRequestTransferExit])) (close_block channel n).
Proof.
  induction n as [|n IH]; cbn [close_block]; [apply does_ret, upto_nil|].
  apply emits_again; [apply (emits_Request channel wrap unwrap)|]. intros [f|e]; [|done].
  apply emits_quiet; [apply quiet_Log|apply upto_nil].
Qed.
(** Everything the write phase sends. *)
Definition write_sequence (image : list Z) (j : nat) : list (list Z) :=
  [download_request] ++ chunks_from (EncryptRom image) 0 ++ replicate j [kSidRequestTransferExit] ++ [verify_request].
Definition writing (image : list Z) : lang := fun w => exists j, (j <= 6)%nat /\ w = map wrap (write_sequence image j).
Lemma follows_UnlockAndReflashBlock image p : follows (writing image) (UnlockAndReflashBlock channel image p).
Proof.
  unfold UnlockAndReflashBlock.
  refine (follows_weaken (cat (exactly [wrap download_request]) (cat (exactly (map wrap (chunks_from (EncryptRom image) 0)))
    (cat (upto 6 (wrap [kSidRequestTransferExit])) (exactly [wrap verify_request])))) _ _ _ _).
  - apply follows_quiet; [apply quiet_Log|]. intros _.
    apply follows_try; [apply (follows_FatalRequest (ectx channel) wrap unwrap)|auto with langs|]. intros _. cbv zeta.
    apply follows_try; [|auto with langs|].
    + apply (follows_write_chunks _ _ 0); by vm_compute.
    + intros p'. apply follows_quiet; [apply quiet_Log|]. intros _.
      apply follows_emits; [apply emits_close_block|]. intros _. apply follows_quiet; [apply quiet_Log|]. intros _.
      apply follows_last; [apply (follows_FatalQuery (ectx channel) wrap unwrap)|]. intros _.
      apply follows_quiet; [apply quiet_Log|]. intros _. by apply follows_ok.
  - intros w (w1 & w2 & -> & -> & w3 & w4 & -> & -> & w5 & w6 & -> & (j & Hj & ->) & ->). exists j. split; [done|].
    unfold write_sequence. by rewrite !map_app, fmap_replicate.
Qed.
(** The whole dump: setup, pages, stop. *)
Definition pages : list (list Z) := pages_from 0 (kLength / kPageSize) 0.
Lemma pages_harmless : Forall (framed connect_pdu) (map wrap pages).
Proof.
  apply List.Forall_map. unfold pages, pages_from. apply Forall_map, Forall_true. intros k.
  by apply framed_wrap, connect_pdu_ok.
Qed.
Definition dumped : list Z -> list (result Error (option (list Z))) -> Prop :=
  dumped_pages (answered unwrap kSidReadMemoryChunk) DecryptPage [] [] (kLength / kPageSize).
Lemma dumps_DumpFlashRange p :
  dumps (framed connect_pdu) (answered unwrap kSidReadMemoryChunk) DecryptPage [] [] (kLength / kPageSize)
    (DumpFlashRange channel p).
Proof.
  unfold DumpFlashRange, ectx.
  apply dumps_bind; [harmless|]. intros _.
  apply dumps_bind; [harmless; by apply framed_wrap, connect_pdu_ok|]. intros setup. apply dumps_bind; [harmless|]. intros _.
  pose proof (does_ReadEncryptedB7Pages (ectx channel) wrap unwrap kRejectionPrefix DecryptPage 0
    (kLength / kPageSize) p ltac:(lia) ltac:(by vm_compute) ltac:(by vm_compute)) as Hr.
  change (kPageSize * (kLength / kPageSize)) with kLength in Hr. fold pages in Hr.
  apply (dumps_pages _ _ _ _ _ _ _ _ [] (map wrap pages)); [apply pages_harmless|exact Hr|]. intros rom p'.
  apply finishes_bind; [harmless|]. intros _. apply finishes_bind; [harmless|]. intros _.
  apply finishes_try; [harmless; by apply framed_wrap, connect_pdu_ok|]. intros _.
  pose proof (finishes_ret (framed connect_pdu) [] [] rom p') as Hf. by rewrite app_nil_r in Hf.
Qed.
(** The family keeps the bootloader contract. *)
Definition bootloader : Bootloader :=
  {| bl_connect := ConnectBootloader channel; bl_read := DumpFlashRange channel; bl_erase := EraseMemory channel;
     bl_write := UnlockAndReflashBlock channel |}.
#[global] Instance bootloader_spec :
  BootloaderSpec bootloader (framed connect_pdu) (exactly [wrap erase_request]) acknowledged writing dumped.
Proof.
  split; cbn [bl_connect bl_read bl_erase bl_write bootloader].
  - apply connect_harmless.
  - apply dumps_DumpFlashRange.
  - apply does_EraseMemory.
  - apply follows_UnlockAndReflashBlock.
  - apply spoken_exactly.
  - intros image. exists (map wrap (write_sequence image 0)), 0%nat. split; [lia|done].
Qed.

(** *** What a read sends, request by request *)
(** The PDUs before the first page: the probes, the identity, the session and the unlock,
    the kernel check and the setup of the dump. No routine, transfer or write is among
    them, and no page. *)
Definition setup_pdu (pdu : list Z) : Prop :=
  pdu ∈ [[kSidReadMemoryChunk]; session_probe_request; download_request; upload_request]
  \/ zget pdu 0 ∈ [kSidDiagnosticSessionControl; kSidSecurityAccess; kSidVehicleInfoRequest; kSidEcuIdQuery].
Lemma connect_setup : harmlessly (framed setup_pdu) (ConnectBootloader channel).
Proof.
  unfold ConnectBootloader, ObkActive, QueryIdentity, RequireBenchSession, UnlockAndJump, UnlockAndKernelJump, ectx.
  harmless; apply framed_wrap; first [left; set_solver | right; apply list_elem_of_In; cbn; tauto].
Qed.
(** A read: setup requests, then of the page requests in ascending order and the stop
    request a beginning. On success every page was asked for, its exchange followed by
    that of the next, each answered by the frame its part of the image is decrypted
    from, and the stop request went out last. *)
Definition paged_read {A} (image : A -> option (list Z)) (res : result Error A) (d : trace) : Prop :=
  exists d1 d2 d3, d = d1 ++ d2 ++ d3 /\ Forall (framed setup_pdu) (written d1)
    /\ written d2 ++ written d3 `prefix_of` map wrap (pages ++ [[kSidRequestTransferExit]])
    /\ forall x, res = Ok x -> exists rom, image x = Some rom /\ paged wrap unwrap DecryptPage 0 (kLength / kPageSize) 0 rom d2
         /\ written d3 = [wrap [kSidRequestTransferExit]].
Lemma paged_read_before {A B} image (m : M B) (k : B -> M (result Error A)) :
  harmlessly (framed setup_pdu) m -> (forall b, runs (k b) (paged_read image)) -> runs (bind m k) (paged_read image).
Proof.
  intros Hm Hk. unfold harmlessly, emits, does in Hm. apply (runs_bind m k _ _ Hm). intros b. refine (runs_weaken _ _ _ (Hk b) _).
  intros res d (d1 & d2 & d3 & -> & H1 & Hr) d0 H0. exists (d0 ++ d1), d2, d3. rewrite <- app_assoc, written_app.
  split_and!; [done|by apply Forall_app_2|by apply Hr..].
Qed.
Lemma paged_read_none {A} image (e : Error) : runs (ret (Err e : result Error A)) (paged_read image).
Proof. apply runs_ret. exists [], [], []. split_and!; [done|constructor|apply prefix_nil|done]. Qed.
Lemma paged_read_padded : padded (paged_read read_bytes).
Proof.
  intros res da d db [Wa _] [Wb _] (d1 & d2 & d3 & -> & H1 & H2 & H3). exists (da ++ d1), d2, (d3 ++ db).
  rewrite !written_app, Wa, Wb, app_nil_r. split_and!; [by rewrite <- !app_assoc|done|done|done].
Qed.
Lemma runs_DumpFlashRange p : runs (DumpFlashRange channel p) (paged_read (fun x => Some (fst x))).
Proof.
  unfold DumpFlashRange. do 3 (apply paged_read_before; [unfold ectx; harmless; apply framed_wrap; left; set_solver|intros ?]).
  pose proof (runs_ReadEncryptedB7Pages (ectx channel) wrap unwrap kRejectionPrefix DecryptPage 0
    (kLength / kPageSize) p ltac:(lia) ltac:(by vm_compute) ltac:(by vm_compute)) as Hr.
  change (kPageSize * (kLength / kPageSize)) with kLength in Hr. fold pages in Hr.
  apply (runs_try _ _ _ _ Hr).
  2:{ intros e d (d1 & d2 & -> & [W1 _] & Hw & _). exists d1, d2, []. rewrite app_nil_r, W1, app_nil_r. split_and!; try done.
      rewrite map_app. apply prefix_app_r. by apply script_prefix in Hw. }
  intros [rom p']. apply (runs_bind _ _ (fun _ d => silent d)); [apply quiet_Log|]. intros _.
  apply (runs_bind _ _ (fun _ d => silent d)); [apply quiet_Log|]. intros _.
  pose proof (follows_FatalRequest (ectx channel) wrap unwrap [kSidRequestTransferExit] kRejectionPrefix "the stop command") as Hx.
  unfold follows, does in Hx. apply (runs_try _ _ _ _ Hx); cbn [is_ok].
  - intros f. apply runs_ret. intros d5 H5 d4 [W4 _] d3 [W3 _] d (d1 & d2 & -> & [W1 _] & Hw & Hres).
    exists d1, d2, (d3 ++ d4 ++ d5). rewrite app_nil_r, !written_app, W1, W3, W4. unfold script, exactly in Hw, H5. rewrite Hw, H5, map_app.
    split_and!; [by rewrite <- app_assoc|constructor|done|]. intros x [= <-]. exists rom. split_and!; [done|by eapply Hres|done].
  - intros e d5 H5 d4 [W4 _] d3 [W3 _] d (d1 & d2 & -> & [W1 _] & Hw & Hres).
    exists d1, d2, (d3 ++ d4 ++ d5). rewrite !written_app, W1, W3, W4. unfold script, exactly in Hw. rewrite Hw, map_app.
    split_and!; [by rewrite <- app_assoc|constructor| |done]. apply prefix_app. destruct H5 as [rest H5]. exists rest. exact (eq_sym H5).
Qed.
Lemma runs_bootloader_read plan name : Operation plan = kRead -> runs (RunBootloader bootloader plan name) (paged_read read_bytes).
Proof.
  intros Hop. unfold RunBootloader, RunBootloaderOperation. cbv zeta. rewrite bool_decide_eq_true_2 by done.
  apply paged_read_before; [apply harmlessly_quiet, quiet_Start|]. intros [connecting phases].
  apply paged_read_before; [apply harmlessly_quiet, quiet_Log|]. intros _.
  apply paged_read_before; [exact connect_setup|]. intros [[]|e]; [|apply paged_read_none].
  apply paged_read_before; [apply harmlessly_quiet, quiet_Complete|]. intros _.
  apply paged_read_before; [apply harmlessly_quiet, quiet_Notice|]. intros _.
  apply paged_read_before; [apply harmlessly_quiet, quiet_Log|]. intros _.
  apply paged_read_before; [apply harmlessly_quiet, quiet_Start|]. intros [rp phases'].
  apply (runs_try _ _ _ _ (runs_DumpFlashRange rp)).
  - intros [rom p]. apply (runs_bind _ _ (fun _ d => silent d)); [exact (quiet_Complete p)|]. intros _. apply runs_ret.
    intros q [Wq _] d (d1 & d2 & d3 & -> & H1 & H2 & H3). exists d1, d2, (d3 ++ q). rewrite app_nil_r, written_app, Wq, app_nil_r.
    split_and!; [by rewrite <- !app_assoc|done|done|]. intros x [= <-]. destruct (H3 _ eq_refl) as (rom' & [= <-] & Hr). by exists rom.
  - intros e d (d1 & d2 & d3 & -> & H1 & H2 & _). exists d1, d2, d3. by split_and!.
Qed.
End specs.

(** ** Lemmas: the image that reaches the flash *)
Lemma chunk_request_data encrypted addr :
  bytes_ok encrypted -> zdrop 4 (chunk_request encrypted addr) = subspan encrypted addr kChunkSize.
Proof.
  intros Hb. unfold chunk_request. rewrite !ComposeBe_cons, EmitBe_FBytes by auto with bytes.
  unfold ComposeBe. cbn [map List.concat]. rewrite app_nil_r. reflexivity.
Qed.
Lemma zlen_EncryptRom image : zlen image = kLength -> zlen (EncryptRom image) = kLength.
Proof. intros Hl. unfold EncryptRom. rewrite zlen_CalculatePayload, Hl. reflexivity. Qed.
Lemma chunks_hold_image image :
  bytes_ok image -> zlen image = kLength ->
  DecryptPage (List.concat (map (zdrop 4) (chunks_from (EncryptRom image) 0))) = image.
Proof.
  intros Hb Hl. unfold chunks_from. rewrite map_map.
  assert (forall l, map (fun k => zdrop 4 (chunk_request (EncryptRom image) (kChunkSize * k))) l
    = map (fun k => subspan (EncryptRom image) (kChunkSize * k) kChunkSize) l) as ->.
  { assert (bytes_ok (EncryptRom image)) as He by (exact (bytes_ok_CalculatePayload _ _ _)).
    intros l. apply map_ext. intros k. exact (chunk_request_data (EncryptRom image) (kChunkSize * k) He). }
  rewrite Z.sub_0_r, concat_pieces by (by vm_compute).
  change (kChunkSize * (kLength / kChunkSize)) with kLength. rewrite Z.mul_0_r.
  rewrite subspan_full by (by rewrite zlen_EncryptRom).
  unfold DecryptPage, EncryptRom. change kDecryptTable with (rev kEncryptTable).
  rewrite CalculatePayload_rev, Hl by done. change (4 * (kLength / 4)) with kLength.
  unfold ztake. apply take_ge. unfold zlen in Hl. lia.
Qed.
(** The plans the builder makes. *)
Lemma m32r_can_plan_built op protocol mcu img plan :
  BuildSubaruHitachiM32rCanPlan op protocol mcu img = Ok plan ->
  Operation plan = op
  /\ AsM32rCan (family_plan (fields_ plan))
     = Some {| m32r_request_id := 0x7E0; m32r_response_id := 0x7E8; m32r_bitrate := 500000; m32r_extended_id := false |}
  /\ (op = kWrite -> exists i, img = Some i /\ zlen i = kLength /\ ImageOrEmpty plan = i).
Proof.
  intros E. apply BuildSingleWindowPlan_lemma in E as (-> & _ & _ & _ & Hop & _);
    [|exact m32r_can_spec_ok|by eexists|done].
  split_and!; [by destruct op|done|]. intros ->. destruct Hop as (_ & i & -> & Hl). by exists i.
Qed.

(** ** Claims *)
Definition m32r_can_attempt `{Env} (plan : FlashPlan) : M (result Error FlashExecutionResult) :=
  BoundAttempt_Run SubaruHitachiM32rCanExecutor plan adapter.

Abbreviation m32r_channel := (CanFlashUdsChannel (GuardedCanFlashTransport adapter) 0x7E0 0x7E8).
Abbreviation m32r_plan :=
  {| m32r_request_id := 0x7E0; m32r_response_id := 0x7E8; m32r_bitrate := 500000; m32r_extended_id := false |}.
Lemma m32r_can_run_bootloader `{Env} plan :
  m32r_can_run m32r_plan plan (GuardedCanFlashTransport adapter) = RunBootloader (bootloader m32r_channel) plan "Subaru Hitachi M32R".
Proof. reflexivity. Qed.

Lemma runs_write_attempt `{Env} protocol mcu image plan :
  BuildSubaruHitachiM32rCanPlan kWrite protocol mcu (Some image) = Ok plan ->
  runs (m32r_can_attempt plan) (write_outcome (framed connect_pdu) (exactly [wrap_can 0x7E0 erase_request])
    (acknowledged (unwrap_can 0x7E8)) (writing 0x7E0 image)).
Proof.
  intros Hb. destruct (m32r_can_plan_built _ _ _ _ _ Hb) as (Hop & Hget & Himg).
  destruct (Himg eq_refl) as (i & [= <-] & _ & <-).
  pose proof (bootloader_spec 0x7E0 m32r_channel (unwrap_can 0x7E8)) as HB.
  exact (attempt_writes (bootloader m32r_channel) _ _ _ _ _ kSubaruHitachiM32rCan AsM32rCan ValidateSubaruHitachiM32rCanPlan
    m32r_can_setup m32r_can_run "Subaru Hitachi M32R" plan m32r_plan Hget Hop (m32r_can_run_bootloader plan)).
Qed.

(** A plan of each kind. *)
Lemma sample_m32r_plan op img :
  operation_ok m32r_can_spec op img ->
  exists plan, BuildSubaruHitachiM32rCanPlan op "sub_ecu_hitachi_m32r_can" "M32R_512KB_1block" img = Ok plan.
Proof.
  intros Hop. eexists. apply BuildSingleWindowPlan_lemma; [exact m32r_can_spec_ok|by eexists|done|].
  split_and!; [reflexivity|apply list_elem_of_In; by left|reflexivity|by eexists|done|reflexivity].
Qed.
Lemma blank_image : operation_ok m32r_can_spec kWrite (Some (zrepeat 0x80000 0xFF)).
Proof. split; [done|]. eexists. split; [done|]. by rewrite zlen_zrepeat. Qed.
Lemma blank_bytes : bytes_ok (zrepeat 0x80000 0xFF).
Proof. apply bytes_ok_zrepeat. unfold byte_ok. lia. Qed.

(** C7: Writing a ROM image to a Hitachi M32R ECU, end to end (plan, attempt, executor,
    exchanges, guard, framing), in every environment: the calls fall into three
    stretches. In the first only connection requests go out, none of which writes or
    erases; in the second at most the one erase request; in the third an initial part
    of download setup, the image's chunks in ascending order, up to six close requests
    and the checksum verification. Nothing of the third goes out unless, in the second,
    the erase was sent and the unit's answer that it is done was read; and when the
    attempt succeeds all three went out whole. The data of the chunks decrypts to the
    image. *)
Theorem m32r_can_write_attempt `{Env} protocol mcu image plan t :
  BuildSubaruHitachiM32rCanPlan kWrite protocol mcu (Some image) = Ok plan -> bytes_ok image ->
  (exists d, snd (m32r_can_attempt plan t) = t ++ d
     /\ write_outcome (framed connect_pdu) (exactly [wrap_can 0x7E0 erase_request]) (acknowledged (unwrap_can 0x7E8))
          (writing 0x7E0 image) (fst (m32r_can_attempt plan t)) d)
  /\ DecryptPage (List.concat (map (zdrop 4) (chunks_from (EncryptRom image) 0))) = image.
Proof.
  intros Hb Hi. split; [exact (runs_write_attempt _ _ _ _ Hb t)|].
  destruct (m32r_can_plan_built _ _ _ _ _ Hb) as (_ & _ & Himg).
  destruct (Himg eq_refl) as (i & [= <-] & Hl & _). by apply chunks_hold_image.
Qed.

Lemma m32r_can_write_attempt_witness :
  exists plan,
    BuildSubaruHitachiM32rCanPlan kWrite "sub_ecu_hitachi_m32r_can" "M32R_512KB_1block" (Some (zrepeat 0x80000 0xFF))
    = Ok plan
    /\ exists d, snd (m32r_can_attempt (H := scripted []) plan []) = [] ++ d.
Proof.
  destruct (sample_m32r_plan kWrite _ blank_image) as [plan E]. exists plan. split; [exact E|].
  destruct (m32r_can_write_attempt (H := scripted []) "sub_ecu_hitachi_m32r_can" "M32R_512KB_1block"
    (zrepeat 0x80000 0xFF) plan [] E blank_bytes) as [(d & Ed & _) _].
  exists d. exact Ed.
Defined.

(** C8: Reading the ROM of a Hitachi M32R ECU, end to end, in every environment. The
    attempt sends setup requests (probes, identity, session, unlock, kernel check, dump
    setup: no routine, no transfer, no flash write), then nothing but a beginning of the
    2048 page requests, in ascending address order, each once, and the stop request. On
    success all of them went out, and the image is the decryption, in that order, of
    the payloads of 2048 replies: that of page [k] is the positive answer read last in
    the exchange whose one request was that of page [k]. *)
Theorem m32r_can_read_attempt `{Env} protocol mcu plan t :
  BuildSubaruHitachiM32rCanPlan kRead protocol mcu None = Ok plan ->
  exists d, snd (m32r_can_attempt plan t) = t ++ d
    /\ paged_read 0x7E0 (unwrap_can 0x7E8) read_bytes (fst (m32r_can_attempt plan t)) d.
Proof.
  intros Hb. destruct (m32r_can_plan_built _ _ _ _ _ Hb) as (Hop & Hget & _).
  refine (runs_family_attempt (paged_read 0x7E0 (unwrap_can 0x7E8) read_bytes) (paged_read_padded _ _) _ _ kSubaruHitachiM32rCan AsM32rCan
    ValidateSubaruHitachiM32rCanPlan m32r_can_setup m32r_can_run plan m32r_plan Hget _ t).
  - intros e d [Hw _]. exists d, [], []. rewrite app_nil_r, Hw. split_and!; [done|constructor|apply prefix_nil|done].
  - intros res d e (d1 & d2 & d3 & -> & H1 & H2 & _). exists d1, d2, d3. by split_and!.
  - rewrite m32r_can_run_bootloader. by apply (runs_bootloader_read 0x7E0 m32r_channel (unwrap_can 0x7E8)).
Qed.
Lemma m32r_can_read_attempt_witness :
  exists plan,
    BuildSubaruHitachiM32rCanPlan kRead "sub_ecu_hitachi_m32r_can" "M32R_512KB_1block" None = Ok plan
    /\ exists d, snd (m32r_can_attempt (H := scripted []) plan []) = [] ++ d
         /\ paged_read 0x7E0 (unwrap_can 0x7E8) read_bytes (fst (m32r_can_attempt (H := scripted []) plan [])) d.
Proof.
  destruct (sample_m32r_plan kRead None I) as [plan E]. exists plan. split; [exact E|].
  exact (m32r_can_read_attempt (H := scripted []) "sub_ecu_hitachi_m32r_can" "M32R_512KB_1block" plan [] E).
Defined.

(** The executor leaves the transport open. *)
Section m32r_steady.
Context `{Env} (channel : UdsChannel) (Hs : forall pdu, steady (Send channel pdu))
  (Hr : forall timeout, steady (Receive channel timeout)).
#[local] Hint Unfold ectx : core.
Lemma steady_ConnectBootloader : steady (ConnectBootloader channel).
Proof.
  unfold ConnectBootloader, ObkActive, QueryIdentity, RequireBenchSession, UnlockAndJump, ectx. steady.
Qed.
Lemma steady_DumpFlashRange p : steady (DumpFlashRange channel p).
Proof. unfold DumpFlashRange, ectx. steady. Qed.
Lemma steady_erase_wait n : steady (erase_wait channel n).
Proof. induction n as [|n IH]; cbn [erase_wait]; steady. Qed.
Lemma steady_EraseMemory : steady (EraseMemory channel).
Proof. unfold EraseMemory. pose proof steady_erase_wait. steady. Qed.
Lemma steady_write_chunks n e addr p : steady (write_chunks channel n e addr p).
Proof. revert addr p. induction n as [|n IH]; intros addr p; cbn [write_chunks]; unfold ectx; steady. Qed.
Lemma steady_close_block n : steady (close_block channel n).
Proof. induction n as [|n IH]; cbn [close_block]; steady. Qed.
Lemma steady_UnlockAndReflashBlock i p : steady (UnlockAndReflashBlock channel i p).
Proof.
  unfold UnlockAndReflashBlock, ectx. pose proof steady_write_chunks. pose proof steady_close_block. steady.
Qed.
End m32r_steady.
Lemma steady_m32r_can `{Env} plan :
  steady (Execute SubaruHitachiM32rCanExecutor plan (GuardedCanFlashTransport adapter)).
Proof.
  cbn [Execute SubaruHitachiM32rCanExecutor FamilyExecutor]. steady. unfold m32r_can_run. cbv zeta.
  pose proof (fun q r pdu => proj1 (steady_channel q r pdu 0)). pose proof (fun q r => fun w => proj2 (steady_channel q r [] w)).
  apply steady_RunBootloaderOperation; intros;
    auto using steady_ConnectBootloader, steady_DumpFlashRange, steady_EraseMemory, steady_UnlockAndReflashBlock.
Qed.

(** C28: the life of the transport in an attempt of the M32R CAN family, for every plan
    and in every environment. Either the transport never opened: the attempt fails and
    nothing was sent or read. Or it was configured once as the plan says, opened once,
    the executor ran once on it and did not reconfigure, reopen or close it, it was
    closed exactly once however the executor ended, nothing went over the bus outside
    that stretch, and the attempt's result is the executor's error if it failed, else
    the error of the close, else the executor's result. *)
Theorem m32r_can_attempt_lifecycle `{Env} plan t :
  exists d, snd (m32r_can_attempt plan t) = t ++ d
    /\ (never_opened (fst (m32r_can_attempt plan t)) d
        \/ opened_and_closed SubaruHitachiM32rCanExecutor plan t (fst (m32r_can_attempt plan t)) d).
Proof. apply attempt_lifecycle; [by apply runs_ret..|apply steady_m32r_can]. Qed.
