(* ===== verification/CvtExecutors.v ===== *)
(** * CvtExecutors: the Subaru CVT transmission families

    [src/backend/flash/ecu/subaru_tcu_cvt_hitachi_m32r_can_executor.cpp],
    [subaru_tcu_cvt_mitsu_mh8111_can_executor.cpp],
    [subaru_tcu_cvt_mitsu_mh8104_can_executor.cpp],
    [subaru_tcu_cvt_mitsu_can_common.cpp] and [cvt_b6_chunk_exchange.cpp]: one
    Module per family. *)
From S2P Require Import Prelude Bytes Ssm Uds Ports UdsClient CanFlash FlashDevices FlashPlan SingleWindowPlans FlashExecution FlashLogic FlashMemory.

(** ** [cvt_b6_chunk_exchange.cpp] *)
Section b6.
Context `{Env}.
Definition ExchangeCvtB6Chunk (channel : UdsChannel) (address : Z) (encrypted_chunk : list Z) : M Status :=
  do! _ <- Send channel (ComposeBe [FByte kSidWriteMemoryChunk; FU24 address; FBytes encrypted_chunk]);
  do! _ <- Receive channel 2000;
  ret (Ok tt).
End b6.

(** ** [subaru_tcu_cvt_mitsu_can_common.cpp]: the cipher tables of both Mitsubishi units *)
Definition kMitsuSeedKeyTable : list Z :=
  [0x9E99; 0x685C; 0x874D; 0xF11E; 0x27D4; 0xA967; 0xB63B; 0x7A37; 0xE23B; 0xA8D0; 0x9B82; 0xAC43; 0xE874; 0x7FC5;
   0x7141; 0x8B44].
Definition kMitsuEncryptTable : list Z := [0x7bf2; 0xa8b4; 0x4492; 0x6587].
Definition kMitsuDecryptTable : list Z := [0x6587; 0x4492; 0xa8b4; 0x7bf2].
Definition TcuCvtMitsuSeedKey (seed : list Z) : list Z := CalculateSeedKey seed kMitsuSeedKeyTable kStockPairTable.
Definition TcuCvtMitsuEncryptRom (image : list Z) : list Z := CalculatePayload image kMitsuEncryptTable kStockPairTable.
Definition TcuCvtMitsuDecryptPage (page : list Z) : list Z := CalculatePayload page kMitsuDecryptTable kStockPairTable.

(** ** [subaru_tcu_cvt_hitachi_m32r_can_executor.cpp] *)
Module Hitachi.
Definition kExchangePolicy : ExchangePolicy := policy_within 2000.
Definition kSessionBootload : Z := 0x43.
Definition kSeedKeyTable : list Z :=
  [0x9E99; 0x685C; 0x874D; 0xF11E; 0x27D4; 0xA967; 0xB63B; 0x7A37; 0xE23B; 0xA8D0; 0x9B82; 0xAC43; 0xE874; 0x7FC5;
   0x7141; 0x8B44].
Definition kEncryptTable : list Z := [0x3B61; 0x8BEF; 0x9E51; 0x1075].
Definition kDecryptTable : list Z := [0x1075; 0x9E51; 0x8BEF; 0x3B61].
Definition kWindow : MemoryRegion := {| reg_start := 0x8000; reg_length := 0x78000 |}.
Definition kOtherRequestId : Z := 0x7e0.
Definition kWriteBlocks : list MemoryRegion :=
  [ {| reg_start := 0x08000; reg_length := 0x08000 |}; {| reg_start := 0x10000; reg_length := 0x10000 |};
    {| reg_start := 0x20000; reg_length := 0x10000 |}; {| reg_start := 0x30000; reg_length := 0x10000 |};
    {| reg_start := 0x40000; reg_length := 0x10000 |}; {| reg_start := 0x50000; reg_length := 0x10000 |};
    {| reg_start := 0x60000; reg_length := 0x10000 |}; {| reg_start := 0x70000; reg_length := 0x10000 |} ].
Definition SeedKey (seed : list Z) : list Z := CalculateSeedKey seed kSeedKeyTable kStockPairTable.
Definition EncryptRom (image : list Z) : list Z := CalculatePayload image kEncryptTable kStockPairTable.
Definition DecryptPage (page : list Z) : list Z := CalculatePayload page kDecryptTable kStockPairTable.
Definition kRejectionPrefix : string := "Wrong response from TCU: ".
Section executor.
(** The context: this family's own channel, and the one on [kOtherRequestId]. *)
Context `{Env} (channel other_channel : UdsChannel).
Definition uds : UdsExchangeContext := {| ctx_channel := channel; ctx_policy := kExchangePolicy |}.
Definition other_uds : UdsExchangeContext := {| ctx_channel := other_channel; ctx_policy := kExchangePolicy |}.
Definition alive_request : list Z := [kSidRoutineControl; kRoutineControlStop; 0x02; 0x01].
Definition kernel_alive (f : list Z) : bool :=
  (3 <? zlen f) && (zget f 0 =? 0x71) && (zget f 1 =? kRoutineControlStop) && (zget f 2 =? 0x02) && (zget f 3 =? 0x03).
(** The exchanges after the alive probe found no kernel. *)
Definition initialise : M Status :=
  do _ <- Log LInfo "TCU Init...";
  do _ <- Log LInfo "Requesting TCU ID";
  do _ <- NonFatalQuery other_uds [kSidEcuIdQuery] None kRejectionPrefix "TCU ID";
  do _ <- Log LInfo "Requesting CAL ID";
  do _ <- NonFatalQuery other_uds [kSidVehicleInfoRequest; kVehicleInfoPidCalId] (Some kVehicleInfoPidCalId)
            kRejectionPrefix "CAL ID";
  do _ <- Log LInfo "Initializing bootloader...";
  do _ <- Log LInfo "Requesting session mode";
  do! _ <- FatalQuery other_uds [kSidDiagnosticSessionControl; kSessionExtendedDiagnostic] [kSessionExtendedDiagnostic]
             kRejectionPrefix "session mode request" None;
  do _ <- NonFatalQuery other_uds [kSidDiagnosticSessionControl; kSessionBootload] (Some kSessionBootload)
            kRejectionPrefix "session mode (bootloader)";
  do _ <- Log LInfo "Starting seed request...";
  do! seed_reply <- FatalQuery other_uds [kSidSecurityAccess; kSecurityAccessRequestSeed] [kSecurityAccessRequestSeed]
                      kRejectionPrefix "seed request" (Some 5);
  do _ <- Log LInfo "Seed request ok";
  let key := SeedKey (subspan (Payload seed_reply) 1 4) in
  do _ <- Log LInfo "Sending seed key";
  do! _ <- FatalQuery other_uds ([kSidSecurityAccess; kSecurityAccessSendKey] ++ key) [kSecurityAccessSendKey]
             kRejectionPrefix "seed key" None;
  do _ <- Log LInfo "Seed key ok";
  do _ <- Log LInfo "Jumping to onboard kernel...";
  do! _ <- FatalQuery uds [kSidDiagnosticSessionControl; kSessionProgramming] [kSessionProgramming] kRejectionPrefix
             "kernel jump" None;
  do _ <- Log LInfo "Jump to kernel ok";
  do _ <- Log LInfo "Checking if jump successful and kernel alive...";
  do! _ <- FatalQuery uds alive_request [kRoutineControlStop; 0x02; 0x03] kRejectionPrefix "kernel alive re-check" None;
  do _ <- Log LInfo "Kernel verified to be running";
  ret (Ok tt).
Definition ConnectBootloader : M Status :=
  do _ <- Log LInfo "Checking if kernel is already running...";
  do! _ <- Send channel alive_request;
  do! alive <- Receive channel 200;
  match alive with
  | Some f =>
      if kernel_alive f then do _ <- Log LInfo "Kernel already running"; ret (Ok tt)
      else do _ <- Log LError ("Wrong response from TCU: " +:+ ToHex f); initialise
  | None => do _ <- Log LError "No valid response from ECU"; initialise
  end.
Definition setup_request (start length : Z) : list Z :=
  ComposeBe [FByte kSidRequestDownload; FByte 0x04; FByte 0x33; FU24 start; FU24 length].
Definition DumpFlashRange (progress : PhaseReporter) : M (result Error (list Z * PhaseReporter)) :=
  do _ <- Log LInfo "Setting dump start & length...";
  do! _ <- FatalQuery uds (setup_request (reg_start kWindow) (reg_length kWindow)) [0x20; 0x01; 0x04] kRejectionPrefix
             "dump start & length setup" None;
  do! (rom, progress) <- ReadEncryptedB7Pages uds kRejectionPrefix kWindow DecryptPage progress;
  do _ <- Log LInfo "ROM read complete";
  do! _ <- FatalRequest uds [kSidRequestTransferExit] kRejectionPrefix "the stop command";
  ret (Ok (zrepeat (reg_start kWindow) 0x00 ++ rom, progress)).
Definition erase_request : list Z := [kSidRoutineControl; kRoutineControlStop; 0x01; 0xff; 0xff; 0xff; 0xff].
Definition erase_done (f : list Z) : bool :=
  negb ((zlen f <? 3) || negb (zget f 0 =? kSidRoutineControl) || negb (zget f 1 =? kRoutineControlStop) || negb (zget f 2 =? 0x01)).
Definition EraseMemory : M Status :=
  do _ <- Log LInfo "Erasing TCU ROM...";
  do! _ <- Send channel erase_request;
  do received <- Receive channel 2000;
  match received with
  | Err e =>
      do e <- ReportExchangeFailure (AfterIoMayHaveStarted e) "Wrong response from TCU: " "the erase command"; ret (Err e)
  | Ok (Some f) =>
      if erase_done f then do _ <- Log LInfo "Flash erased! Starting flash write, do not power off!"; ret (Ok tt)
      else do _ <- Log LError ("Wrong response from TCU: " +:+ ToHex f); ret (Fail kBadResponse "flash area erase failed")
  | Ok None =>
      do _ <- Log LError "No valid response from ECU"; ret (Fail kBadResponse "flash area erase failed")
  end.
Definition kChunkSize : Z := 128.
Definition UnlockAndReflashBlock (block_plain : list Z) (start length done_before : Z) (progress : PhaseReporter)
    : M (result Error PhaseReporter) :=
  do _ <- Log LInfo "Setting flash start & length...";
  do! _ <- FatalRequest uds (setup_request start length) kRejectionPrefix "the flash start & length setup";
  let encrypted := EncryptRom block_plain in
  do! progress <- for_u32 0 length kChunkSize
    (fun offset progress =>
       let addr := u32 (start + offset) in
       do! _ <- ExchangeCvtB6Chunk channel addr (subspan encrypted offset kChunkSize);
       do progress <- Update progress (u32 (done_before + offset + kChunkSize));
       ret (Ok progress))
    progress;
  do _ <- Log LInfo "Closing out Flashing of this block...";
  do! _ <- FatalRequest uds [kSidRequestTransferExit] kRejectionPrefix "the close command";
  do _ <- Log LInfo "Verifying checksum...";
  do! _ <- FatalQuery uds alive_request [kRoutineControlStop; 0x02] kRejectionPrefix "checksum verify" None;
  do _ <- Log LInfo "Checksum verified";
  ret (Ok progress).
Fixpoint write_blocks (blocks : list MemoryRegion) (image : list Z) (done : Z) (write : PhaseReporter)
    : M (result Error PhaseReporter) :=
  match blocks with
  | [] => ret (Ok write)
  | block :: blocks =>
      do! write <- UnlockAndReflashBlock (subspan image (reg_start block) (reg_length block)) (reg_start block)
                     (reg_length block) done write;
      write_blocks blocks image (u32 (done + reg_length block)) write
  end.
Definition WriteBlocks (image : list Z) (write : PhaseReporter) : M (result Error PhaseReporter) :=
  write_blocks kWriteBlocks image 0 write.
End executor.
Section family.
Context `{Env}.
Definition Setup (family : CanPlan) : result Error Iso15765Config := Ok (Iso15765ConfigFrom family).
Definition bootloader (family : CanPlan) (transport : CanFlashTransport) : Bootloader :=
  let channel := CanFlashUdsChannel transport (can_request_id family) (can_response_id family) in
  let other_channel := CanFlashUdsChannel transport kOtherRequestId (can_response_id family) in
  {| bl_connect := ConnectBootloader channel other_channel; bl_read := DumpFlashRange channel;
     bl_erase := EraseMemory channel; bl_write := WriteBlocks channel |}.
Definition Run (family : CanPlan) (plan : FlashPlan) (transport : CanFlashTransport) : M (result Error FlashExecutionResult) :=
  RunBootloader (bootloader family transport) plan "Subaru TCU CVT Hitachi M32R".
Definition AsPlan (p : FamilyPlan) : option CanPlan :=
  match fp_value p with Some (SubaruTcuCvtHitachiM32rCanPlan p) => Some p | _ => None end.
Definition Executor : ICanFlashExecutor :=
  FamilyExecutor kSubaruTcuCvtHitachiM32rCan AsPlan TcuCvtHitachiM32rCan.Validate Setup Run.
End family.
End Hitachi.

(** ** [subaru_tcu_cvt_mitsu_mh8111_can_executor.cpp] *)
Module Mh8111.
Definition kExchangePolicy : ExchangePolicy := policy_within 2000.
Definition kSessionBootload : Z := 0x43.
Definition kReadRegion : MemoryRegion := {| reg_start := 0x8000; reg_length := 0x78000 |}.
Definition kWriteRegion : MemoryRegion := {| reg_start := 0x80000; reg_length := 0x100000 |}.
Definition kRejectionPrefix : string := "Wrong response from TCU: ".
Section executor.
Context `{Env} (channel : UdsChannel).
Definition ExchangeContext : UdsExchangeContext := {| ctx_channel := channel; ctx_policy := kExchangePolicy |}.
Definition RawExpect (request expected : list Z) (failure : string) : M Status :=
  do! _ <- Send channel request;
  do! reply <- Receive channel 2000;
  match reply with
  | None => do _ <- Log LError "No valid response from ECU"; ret (Fail kBadResponse failure)
  | Some reply =>
      if (zlen reply <? zlen expected) || negb (bool_decide (ztake (zlen expected) reply = expected)) then
        do _ <- Log LError ("Wrong response from TCU: " +:+ ToHex reply); ret (Fail kBadResponse failure)
      else ret (Ok tt)
  end.
Fixpoint RequestWithRetries (request : list Z) (attempts : nat) : M bool :=
  match attempts with
  | O => ret false
  | S attempts =>
      do r <- Request channel request kExchangePolicy;
      if is_ok r then ret true else RequestWithRetries request attempts
  end.
Definition download_request : list Z := [kSidRequestDownload; 0x04; 0x33; 0x00; 0x00; 0x00; 0x08; 0x00; 0x00].
Definition ConnectBootloader : M Status :=
  do _ <- Log LInfo "Requesting TCU ID";
  do _ <- NonFatalQuery ExchangeContext [kSidEcuIdQuery] None kRejectionPrefix "TCU ID";
  do _ <- Log LInfo "Requesting CAL ID...";
  do _ <- NonFatalQuery ExchangeContext [kSidVehicleInfoRequest; kVehicleInfoPidCalId] (Some kVehicleInfoPidCalId)
            kRejectionPrefix "CAL ID";
  do _ <- Log LInfo "Initializing bootloader...";
  do _ <- NonFatalQuery ExchangeContext [kSidDiagnosticSessionControl; kSessionBootload] (Some kSessionBootload)
            kRejectionPrefix "session mode (bootloader)";
  do! _ <- UnlockAndKernelJump ExchangeContext kRejectionPrefix TcuCvtMitsuSeedKey;
  do _ <- Log LInfo "Checking if jump successful and kernel alive...";
  do! _ <- RawExpect download_request [0x71; kRoutineControlStop; 0x02; 0x03] "kernel alive check failed";
  do _ <- Log LInfo "Kernel verified to be running";
  ret (Ok tt).
(** The stop command, sent until something answers. *)
Fixpoint send_stop (attempts : nat) : M Status :=
  match attempts with
  | O => ret (Ok tt)
  | S attempts =>
      do! _ <- Send channel [kSidRequestTransferExit];
      do! reply <- Receive channel 800;
      match reply with Some _ => ret (Ok tt) | None => send_stop attempts end
  end.
Definition SendStop : M Status := do _ <- Log LInfo "Sending stop command..."; send_stop 6.
Definition upload_request : list Z := [kSidRequestUpload; 0x04; 0x33; 0x00; 0x00; 0x00; 0x08; 0x00; 0x00].
Definition DumpFlashRange (progress : PhaseReporter) : M (result Error (list Z * PhaseReporter)) :=
  do _ <- Log LInfo "Setting dump start & length...";
  do! _ <- RawExpect upload_request [0x74; 0x20; 0x01; 0x04] "dump start & length setup rejected";
  do! (rom, progress) <- ReadEncryptedB7Pages ExchangeContext kRejectionPrefix kReadRegion TcuCvtMitsuDecryptPage progress;
  do _ <- Log LInfo "ROM read complete";
  do! _ <- SendStop;
  ret (Ok (zrepeat (reg_start kReadRegion) 0xFF ++ rom, progress)).
Definition erase_request : list Z := [kSidRoutineControl; kRoutineControlStart; 0x02; 0x01; 0x0f; 0xff; 0xff; 0xff].
(** The positive answer of a routine: its payload starts [01 02]. *)
Definition routine_done (reply : list Z) : bool :=
  let payload := Payload reply in (2 <=? zlen payload) && (zget payload 0 =? kRoutineControlStart) && (zget payload 1 =? 0x02).
Fixpoint erase_loop (attempts : nat) : M Status :=
  match attempts with
  | O => do _ <- Log LError "Flash area erase failed"; ret (Fail kBadResponse "flash area erase failed")
  | S attempts =>
      do reply <- Request channel erase_request kExchangePolicy;
      match reply with
      | Ok frame =>
          if routine_done frame then do _ <- Log LInfo "Erased! Starting Writing! Do Not Power Off!"; ret (Ok tt)
          else do _ <- Log LError "Wrong response from TCU: unexpected erase acknowledgement"; erase_loop attempts
      | Err e =>
          if bool_decide (kind e = kCancelled) then
            do e <- ReportExchangeFailure e "Wrong response from TCU: " "the erase command"; ret (Err e)
          else do _ <- Log LError ("Wrong response from TCU: " +:+ detail e); erase_loop attempts
      end
  end.
Definition EraseMemory : M Status := do _ <- Log LInfo "Erasing TCU ROM..."; erase_loop 20.
Definition kChunkSize : Z := 256.
Definition SendChunks (encrypted : list Z) (progress : PhaseReporter) : M (result Error PhaseReporter) :=
  for_u32 0 (reg_length kWriteRegion) kChunkSize
    (fun offset progress =>
       let addr := u32 (reg_start kWriteRegion + offset) in
       do! _ <- ExchangeCvtB6Chunk channel addr (subspan encrypted offset kChunkSize);
       do progress <- Update progress (u32 (offset + kChunkSize));
       ret (Ok progress))
    progress.
Definition verify_request : list Z := [kSidRoutineControl; kRoutineControlStart; 0x02; 0x02; 0x01].
Fixpoint verify_loop (attempts : nat) : M Status :=
  match attempts with
  | O => ret (Fail kBadResponse "ROM checksum verify failed")
  | S attempts =>
      do checksum <- Request channel verify_request kExchangePolicy;
      match checksum with
      | Ok frame =>
          if routine_done frame then do _ <- Log LInfo "Checksum verified..."; ret (Ok tt)
          else do _ <- Log LError "Wrong response from TCU: ROM checksum error"; verify_loop attempts
      | Err e => do _ <- Log LError ("Wrong response from TCU: " +:+ detail e); verify_loop attempts
      end
  end.
Definition VerifyChecksum : M Status := do _ <- Log LInfo "Verifying checksum..."; verify_loop 20.
Definition kMaxBlocks : Z := reg_length kWriteRegion / kChunkSize.
Definition kSetupDataLen : Z := kMaxBlocks * 128.
Definition setup_request : list Z :=
  ComposeBe [FByte kSidRequestDownload; FByte 0x04; FByte 0x33; FU24 0; FU24 kSetupDataLen].
Definition UnlockAndReflashBlock (image : list Z) (progress : PhaseReporter) : M (result Error PhaseReporter) :=
  let block_plain := subspan image (reg_start kWriteRegion) (reg_length kWriteRegion) in
  do _ <- Log LInfo "Setting flash start & length...";
  do set_up <- RequestWithRetries setup_request 6;
  if negb set_up then ret (Fail kBadResponse "flash start & length setup rejected")
  else
    do! progress <- SendChunks (TcuCvtMitsuEncryptRom block_plain) progress;
    do _ <- Log LInfo "Closing out Flashing of this block...";
    do closed <- RequestWithRetries [kSidRequestTransferExit] 20;
    if negb closed then ret (Fail kBadResponse "block close failed")
    else
      do _ <- Log LInfo "Flashing of block closed";
      do! _ <- VerifyChecksum;
      ret (Ok progress).
End executor.
Section family.
Context `{Env}.
Definition Setup (family : CanPlan) : result Error Iso15765Config := Ok (Iso15765ConfigFrom family).
Definition bootloader (family : CanPlan) (transport : CanFlashTransport) : Bootloader :=
  let channel := CanFlashUdsChannel transport (can_request_id family) (can_response_id family) in
  {| bl_connect := ConnectBootloader channel; bl_read := DumpFlashRange channel;
     bl_erase := EraseMemory channel; bl_write := UnlockAndReflashBlock channel |}.
Definition Run (family : CanPlan) (plan : FlashPlan) (transport : CanFlashTransport) : M (result Error FlashExecutionResult) :=
  RunBootloader (bootloader family transport) plan "Subaru TCU CVT Mitsu MH8111".
Definition AsPlan (p : FamilyPlan) : option CanPlan :=
  match fp_value p with Some (SubaruTcuCvtMitsuMh8111CanPlan p) => Some p | _ => None end.
Definition Executor : ICanFlashExecutor :=
  FamilyExecutor kSubaruTcuCvtMitsuMh8111Can AsPlan TcuCvtMitsuMh8111Can.Validate Setup Run.
End family.
End Mh8111.

(** ** [subaru_tcu_cvt_mitsu_mh8104_can_executor.cpp] *)
Module Mh8104.
Definition kReadRegion : MemoryRegion := {| reg_start := 0x8000; reg_length := 0x78000 |}.
Definition kWriteRegion : MemoryRegion := {| reg_start := 0x8000; reg_length := 0x78000 |}.
Definition kSessionBootload : Z := 0x43.
Definition kSessionKernelJump : Z := 0x42.
Definition Matches (reply expected : list Z) : bool :=
  (zlen expected <=? zlen reply) && bool_decide (ztake (zlen expected) reply = expected).
Section executor.
Context `{Env} (channel : UdsChannel).
Definition Exchange (pdu : list Z) (timeout : Z) : M (result Error (option (list Z))) :=
  do! _ <- Send channel pdu;
  do received <- Receive channel timeout;
  match received with
  | Err e => ret (Err (AfterIoMayHaveStarted e))
  | Ok r => ret (Ok r)
  end.
Definition SingleShot (pdu : list Z) (timeout : Z) (label : string) : M (result Error (list Z)) :=
  do reply <- Exchange pdu timeout;
  match reply with
  | Err e => do e <- ReportExchangeFailure e "Wrong response from TCU: " label; ret (Err e)
  | Ok None =>
      do _ <- Log LError ("No response from TCU to " +:+ label); ret (Fail kTimeout ("no response to " +:+ label))
  | Ok (Some f) => ret (Ok f)
  end.
Fixpoint RetryUntilAnyReply (pdu : list Z) (attempts : nat) (timeout : Z) : M (result Error (option (list Z))) :=
  match attempts with
  | O => ret (Ok None)
  | S attempts =>
      do reply <- Exchange pdu timeout;
      match reply with
      | Ok None => RetryUntilAnyReply pdu attempts timeout
      | _ => ret reply
      end
  end.
Definition KernelAlreadyRunning : M (result Error bool) :=
  do _ <- Log LInfo "Checking if kernel is already running...";
  do! alive_probe <- Exchange [kSidRoutineControl; kRoutineControlStop; 0x02; 0x01] 200;
  ret (Ok match alive_probe with
          | None => false
          | Some reply => negb (zlen reply =? 0) && (zget reply 0 =? 0x71)
                          && Matches (Payload reply) [kRoutineControlStop; 0x02; 0x03]
          end).
Definition RetryInitStep (pdu : list Z) (attempts : nat) (timeout : Z) (success_prefix no_response_label : string)
    : M (result Error (option (list Z))) :=
  do! reply <- RetryUntilAnyReply pdu attempts timeout;
  do _ <- match reply with
          | Some f => Log LInfo (success_prefix +:+ ToHex f)
          | None => Log LInfo ("No response to " +:+ no_response_label +:+ " after " +:+ fmt_d (Z.of_nat attempts)
                               +:+ " attempts -- proceeding regardless")
          end;
  ret (Ok reply).
Definition SingleShotLogged (pdu : list Z) (timeout : Z) (label : string) (expect : list Z) (mismatch_message : string)
    : M (result Error (list Z)) :=
  do! reply <- SingleShot pdu timeout label;
  do _ <- (if negb (Matches reply expect) then Log LError mismatch_message else ret tt);
  ret (Ok reply).
Definition KernelVerifiedRunning (alive_recheck : list Z) : bool :=
  (4 <=? zlen alive_recheck) && negb (zget alive_recheck 0 =? 0x74) && negb (zget alive_recheck 1 =? 0x20)
  && negb (zget alive_recheck 2 =? 0x01) && negb (zget alive_recheck 3 =? 0x04).
(** The seed bytes the reply carries, zero where it is short. *)
Definition seed_of (seed_reply : list Z) : list Z :=
  let after_sid := Payload seed_reply in
  map (fun i => if i + 1 <? zlen after_sid then zget after_sid (i + 1) else 0) [0; 1; 2; 3].
Definition download_request : list Z := [kSidRequestDownload; 0x04; 0x33; 0x00; 0x00; 0x00; 0x08; 0x00; 0x00].
Definition ConnectBootloader : M Status :=
  do! running <- KernelAlreadyRunning;
  if running : bool then do _ <- Log LInfo "Kernel already running"; ret (Ok tt)
  else
    do _ <- Log LInfo "Trying TCU Init...";
    do! _ <- RetryInitStep [kSidEcuIdQuery] 6 200 "Init Success: " "TCU Init";
    do _ <- Log LInfo "Trying 0x09 0x04...";
    do! _ <- RetryInitStep [kSidVehicleInfoRequest; kVehicleInfoPidCalId] 6 200 "Init Success: TCU ID = " "0x09 0x04";
    do _ <- Log LInfo "Initializing bootloader...";
    do! _ <- SingleShotLogged [kSidDiagnosticSessionControl; kSessionBootload] 200 "session init"
               [0x50; kSessionBootload] "Failed to initialise bootloader";
    do _ <- Log LInfo "Starting seed request...";
    do! seed_reply <- SingleShotLogged [kSidSecurityAccess; kSecurityAccessRequestSeed] 200 "the seed request"
                        [0x67; kSecurityAccessRequestSeed] "Bad response to seed request";
    do _ <- Log LInfo "Seed request ok";
    let key := TcuCvtMitsuSeedKey (seed_of seed_reply) in
    do _ <- Log LInfo "Sending seed key...";
    do! _ <- SingleShotLogged ([kSidSecurityAccess; kSecurityAccessSendKey] ++ key) 200 "the seed key"
               [0x67; kSecurityAccessSendKey] "Bad response to seed request";
    do _ <- Log LInfo "Seed key ok";
    do _ <- Log LInfo "Jumping to onboad kernel...";
    do! _ <- SingleShotLogged [kSidDiagnosticSessionControl; kSessionKernelJump] 200 "the kernel jump"
               [0x50; kSessionKernelJump] "Bad response to jumping to onboard kernel";
    do _ <- Log LInfo "Jump to kernel ok";
    do _ <- Log LInfo "Checking if jump successful and kernel alive...";
    do! alive_recheck <- SingleShot download_request 200 "the alive re-check";
    do _ <- (if KernelVerifiedRunning alive_recheck then Log LInfo "Kernel verified to be running" else ret tt);
    do _ <- Log LInfo "Test script complete";
    ret (Ok tt).
Definition upload_request : list Z := [kSidRequestUpload; 0x04; 0x33; 0x00; 0x00; 0x00; 0x08; 0x00; 0x00].
Definition kPageSize : Z := 0x100.
Definition DumpFlashRange (progress : PhaseReporter) : M (result Error (list Z * PhaseReporter)) :=
  do _ <- Log LInfo "Setting dump start & length...";
  do! setup <- SingleShot upload_request 200 "dump start & length setup";
  do _ <- (if negb (Matches setup [0x75; 0x20; 0x01; 0x01]) then Log LError "Bad response to setting dump start & length"
           else ret tt);
  do _ <- Log LInfo "Start reading ROM, please wait...";
  do! (rom, progress) <- for_u32 (reg_start kReadRegion) (reg_start kReadRegion + reg_length kReadRegion) kPageSize
    (fun addr '(rom, progress) =>
       do! chunk <- SingleShot (ComposeBe [FByte kSidReadMemoryChunk; FU24 addr]) 200 ("the flash read at 0x" +:+ fmt_x addr);
       do _ <- (if negb (Matches chunk [0xF7]) then Log LError "Page data request failed!" else ret tt);
       let decrypted := TcuCvtMitsuDecryptPage (Payload chunk) in
       do progress <- Update progress (u32 (addr + kPageSize - reg_start kReadRegion));
       ret (Ok (rom ++ decrypted, progress)))
    ([], progress);
  do _ <- Log LInfo "ROM read complete";
  do _ <- Log LInfo "Sending stop command...";
  do! _ <- RetryUntilAnyReply [kSidRequestTransferExit] 6 200;
  ret (Ok (zrepeat (reg_start kReadRegion) 0xFF ++ rom, progress)).
Definition erase_request : list Z := [kSidRoutineControl; kRoutineControlStart; 0x02; 0x01; 0x0f; 0xff; 0xff; 0xff].
Definition EraseMemory : M Status :=
  do _ <- Log LInfo "Erasing TCU ROM...";
  do! _ <- Send channel erase_request;
  do! _ <- Sleep 8000;
  do! reply <- Receive channel 200;
  do! _ <- Sleep 5000;
  match reply with
  | None =>
      do _ <- Log LError "No response from TCU to the erase command"; ret (Fail kTimeout "no response to the erase command")
  | Some f =>
      do _ <- (if negb (Matches f [0x71; kRoutineControlStart; 0x02]) then
                 Log LError ("Erasing error! Do not panic, do not reset the TCU immediately. The "
                             +:+ "kernel is most likely still running and receiving commands!")
               else ret tt);
      ret (Ok tt)
  end.
Definition kChunkSize : Z := 128.
Definition setup_request : list Z :=
  ComposeBe [FByte kSidRequestDownload; FByte 0x04; FByte 0x33; FU24 (reg_start kWriteRegion); FU24 (reg_length kWriteRegion)].
Definition verify_request : list Z := [kSidRoutineControl; kRoutineControlStart; 0x02; 0x02; 0x01].
(** A reply that is there and starts as expected. *)
Definition answered_with (reply : option (list Z)) (expect : list Z) : bool :=
  match reply with Some f => Matches f expect | None => false end.
Definition UnlockAndReflashBlock (image : list Z) (progress : PhaseReporter) : M (result Error PhaseReporter) :=
  let block_plain := subspan image (reg_start kWriteRegion) (reg_length kWriteRegion) in
  do _ <- Log LInfo "Setting flash start & length...";
  do! setup <- RetryUntilAnyReply setup_request 6 200;
  do _ <- (if negb (answered_with setup [0x74]) then Log LError "No or bad response received" else ret tt);
  let encrypted := TcuCvtMitsuEncryptRom block_plain in
  do! progress <- for_u32 0 (reg_length kWriteRegion) kChunkSize
    (fun offset progress =>
       let addr := u32 (reg_start kWriteRegion + offset) in
       do! _ <- Send channel (ComposeBe [FByte kSidWriteMemoryChunk; FU24 addr; FBytes (subspan encrypted offset kChunkSize)]);
       do! _ <- Receive channel 500;
       do progress <- Update progress (u32 (offset + kChunkSize));
       ret (Ok progress))
    progress;
  do _ <- Log LInfo "Closing out Flashing of this block...";
  do! closed <- RetryUntilAnyReply [kSidRequestTransferExit] 6 200;
  do _ <- (if negb (answered_with closed [0x77]) then Log LError "No or bad response received" else ret tt);
  do! _ <- Sleep 100;
  do _ <- Log LInfo "Verifying checksum...";
  do! checksum <- RetryUntilAnyReply verify_request 6 200;
  do _ <- (if negb (answered_with checksum [0x71; kRoutineControlStart; 0x02]) then Log LError "No or bad response received"
           else Log LInfo "Checksum verified...");
  ret (Ok progress).
End executor.
Section family.
Context `{Env}.
Definition Setup (family : CanPlan) : result Error Iso15765Config := Ok (Iso15765ConfigFrom family).
Definition bootloader (family : CanPlan) (transport : CanFlashTransport) : Bootloader :=
  let channel := CanFlashUdsChannel transport (can_request_id family) (can_response_id family) in
  {| bl_connect := ConnectBootloader channel; bl_read := DumpFlashRange channel;
     bl_erase := EraseMemory channel; bl_write := UnlockAndReflashBlock channel |}.
Definition Run (family : CanPlan) (plan : FlashPlan) (transport : CanFlashTransport) : M (result Error FlashExecutionResult) :=
  RunBootloader (bootloader family transport) plan "Subaru TCU CVT Mitsu MH8104".
Definition AsPlan (p : FamilyPlan) : option CanPlan :=
  match fp_value p with Some (SubaruTcuCvtMitsuMh8104CanPlan p) => Some p | _ => None end.
Definition Executor : ICanFlashExecutor :=
  FamilyExecutor kSubaruTcuCvtMitsuMh8104Can AsPlan TcuCvtMitsuMh8104Can.Validate Setup Run.
End family.
End Mh8104.
