(* ===== verification/CvtFlashing.v ===== *)
(** * CvtFlashing: what the CVT families' executors do to a unit

    The executors of [CvtExecutors] keep the bootloader contract of [FlashLogic];
    with it, what their attempts put on the bus, what a successful write leaves in
    the flash and where the image of a successful read comes from. *)
From S2P Require Import Prelude Bytes Ssm Uds Ports UdsClient CanFlash FlashDevices FlashPlan SingleWindowPlans FlashExecution FlashLogic FlashMemory CvtExecutors.

#[local] Opaque CalculatePayload CalculateSeedKey.

(** ** Lemmas shared by the families *)
Section exchanges.
Context `{Env} (id : Z) (channel : UdsChannel) (unwrap : list Z -> option (list Z))
  {HC : ChannelSpec channel (wrap_can id) unwrap}.
Lemma follows_ExchangeCvtB6Chunk addr data :
  follows (exactly [wrap_can id (chunk24 addr data)]) (ExchangeCvtB6Chunk channel addr data).
Proof.
  apply follows_last; [apply (follows_Send channel (wrap_can id) unwrap)|]. intros _.
  apply follows_last; [apply (follows_Receive channel (wrap_can id) unwrap)|]. intros _. by apply follows_ok.
Qed.
(** A loop over the chunks of a block, each sent by [body]. *)
Lemma follows_chunks (body : Z -> PhaseReporter -> M (result Error PhaseReporter)) start size n last encrypted p :
  last = size * n -> 0 < size -> 0 <= start -> 0 <= n -> start + size * n < 2 ^ 32 ->
  (forall offset p, 0 <= offset < size * n ->
    follows (exactly [wrap_can id (chunk24 (start + offset) (subspan encrypted offset size))]) (body offset p)) ->
  follows (exactly (chunk_frames chunk24 id start size n encrypted)) (for_u32 0 last size body p).
Proof.
  intros -> Hs H0 Hn He Hb. refine (follows_weaken _ _ _ (follows_for_u32 0 size n body
    (fun k => [wrap_can id (chunk24 (start + size * k) (subspan encrypted (size * k) size))]) p Hs ltac:(lia) ltac:(nia) Hn _) _).
  - intros k p' Hk. apply Hb. nia.
  - intros w ->. unfold chunk_frames, exactly. by rewrite concat_singletons.
Qed.
End exchanges.

(** ** The Hitachi family *)
Module HitachiSpec.
Import Hitachi.
Section specs.
Context `{Env} (id : Z) (channel other_channel : UdsChannel) (unwrap unwrap' : list Z -> option (list Z))
  {HC : ChannelSpec channel (wrap_can id) unwrap} {HO : ChannelSpec other_channel (wrap_can kOtherRequestId) unwrap'}.
Abbreviation wrap := (wrap_can id).
Local Instance uds_spec : ChannelSpec (ctx_channel (uds channel)) wrap unwrap := HC.
Definition harmless : list Z -> Prop := framed (harmless_pdu erase_request).
Lemma cvt_hitachi_connect_harmless : harmlessly harmless (ConnectBootloader channel other_channel).
Proof.
  unfold ConnectBootloader, initialise, uds, other_uds. harmless; apply framed_wrap; by split.
Qed.
Definition dumped : list Z -> list (result Error (option (list Z))) -> Prop :=
  dumped_pages (answered unwrap kSidReadMemoryChunk) DecryptPage (zrepeat 0x8000 0x00) [] 0x780.
Lemma cvt_hitachi_dumps_DumpFlashRange p :
  dumps harmless (answered unwrap kSidReadMemoryChunk) DecryptPage (zrepeat 0x8000 0x00) [] 0x780 (DumpFlashRange channel p).
Proof.
  unfold DumpFlashRange, uds. apply dumps_bind; [harmless|]. intros _.
  apply dumps_try; [harmless; apply framed_wrap; by split|]. intros _.
  pose proof (does_ReadEncryptedB7Pages (uds channel) wrap unwrap kRejectionPrefix DecryptPage 0x8000 0x780 p
    ltac:(lia) ltac:(by vm_compute) ltac:(lia)) as Hr.
  apply (dumps_pages _ _ _ _ _ _ _ _ [] (map wrap (pages_from 0x8000 0x780 0))); [|exact Hr|].
  - apply List.Forall_map, List.Forall_map, Forall_true. intros k. apply framed_wrap. by split.
  - intros rom p'. apply finishes_bind; [harmless|]. intros _.
    apply finishes_try; [harmless; apply framed_wrap; by split|]. intros _.
    pose proof (finishes_ret harmless (zrepeat 0x8000 0x00) [] rom p') as Hf. by rewrite app_nil_r in Hf.
Qed.
Lemma cvt_hitachi_does_EraseMemory :
  does (EraseMemory channel) (fun res w r => if is_ok res
    then exactly [wrap erase_request] w /\ answered_by unwrap erase_done r else begun (exactly [wrap erase_request]) w).
Proof.
  apply does_quiet; [apply quiet_Log|]. intros _. apply (does_send_and_wait channel wrap unwrap).
  apply (does_bind _ _ _ _ (does_Receive channel wrap unwrap 2000)). intros received w2 r2 [-> Hr].
  destruct received as [[f|]|e]; [destruct (erase_done f) eqn:Hf| |]; (apply does_quiet; [auto with ports|]; intros ?; apply does_ret);
    try done.
  split; [done|]. intros _. rewrite app_nil_r. destruct (Hr f eq_refl) as (raw & -> & U). by apply (answered_by_one unwrap _ raw f).
Qed.
(** What goes out for a block, and for all of them. *)
Definition block_sequence (image : list Z) (block : MemoryRegion) : list (list Z) :=
  [wrap (setup_request (reg_start block) (reg_length block))]
  ++ chunk_frames chunk24 id (reg_start block) kChunkSize (reg_length block / kChunkSize)
       (EncryptRom (subspan image (reg_start block) (reg_length block)))
  ++ [wrap [kSidRequestTransferExit]] ++ [wrap alive_request].
Definition write_sequence (image : list Z) : list (list Z) := List.concat (map (block_sequence image) kWriteBlocks).
Definition block_ok (block : MemoryRegion) : Prop :=
  0 <= reg_start block /\ 0 <= reg_length block /\ reg_start block + reg_length block <= 0x80000
  /\ reg_length block = kChunkSize * (reg_length block / kChunkSize).
Lemma follows_block image block done_before p :
  block_ok block ->
  follows (exactly (block_sequence image block))
    (UnlockAndReflashBlock channel (subspan image (reg_start block) (reg_length block)) (reg_start block) (reg_length block)
       done_before p).
Proof.
  intros (H0 & H1 & H2 & H3). unfold UnlockAndReflashBlock, block_sequence.
  apply follows_quiet; [apply quiet_Log|]. intros _.
  apply follows_seq; [apply (follows_FatalRequest (uds channel) wrap unwrap)|]. intros _. cbv zeta.
  apply follows_seq.
  - apply (follows_chunks id); [done|done|done|unfold kChunkSize in *; lia|unfold kChunkSize in *; lia|].
    intros offset p' Ho. assert (u32 (reg_start block + offset) = reg_start block + offset) as ->
      by (apply u32_small; unfold u32_ok, kChunkSize in *; lia).
    apply follows_last; [apply (follows_ExchangeCvtB6Chunk id channel unwrap)|]. intros _.
    apply follows_quiet; [apply quiet_Update|]. intros p''. by apply follows_ok.
  - intros p'. apply follows_quiet; [apply quiet_Log|]. intros _.
    apply follows_seq; [apply (follows_FatalRequest (uds channel) wrap unwrap)|]. intros _.
    apply follows_quiet; [apply quiet_Log|]. intros _.
    apply follows_last; [apply (follows_FatalQuery (uds channel) wrap unwrap)|]. intros _.
    apply follows_quiet; [apply quiet_Log|]. intros _. by apply follows_ok.
Qed.
Lemma blocks_ok : Forall block_ok kWriteBlocks.
Proof. repeat constructor; by vm_compute. Qed.
Lemma follows_WriteBlocks image p : follows (exactly (write_sequence image)) (WriteBlocks channel image p).
Proof.
  unfold WriteBlocks, write_sequence. generalize 0 as done. revert p.
  induction blocks_ok as [|block blocks Hb Hbs IH]; intros p done; cbn [write_blocks map List.concat]; [by apply follows_ok|].
  apply follows_seq; [by apply follows_block|]. intros p'. apply IH.
Qed.
#[export] Instance cvt_hitachi_bootloader_spec :
  BootloaderSpec {| bl_connect := ConnectBootloader channel other_channel; bl_read := DumpFlashRange channel;
                    bl_erase := EraseMemory channel; bl_write := WriteBlocks channel |}
    harmless (exactly [wrap erase_request]) (answered_by unwrap erase_done) (fun image => exactly (write_sequence image)) dumped.
Proof.
  split; cbn [bl_connect bl_read bl_erase bl_write].
  - apply cvt_hitachi_connect_harmless.
  - apply cvt_hitachi_dumps_DumpFlashRange.
  - apply cvt_hitachi_does_EraseMemory.
  - apply follows_WriteBlocks.
  - apply spoken_exactly.
  - intros image. apply spoken_exactly.
Qed.
End specs.
(** What the whole sequence stores. *)
Lemma block_sequence_flashed id image block m :
  bytes_ok image -> zlen image = 0x80000 -> block_ok block ->
  flashed 3 DecryptPage (block_sequence id image block) m
  ≡ store m (reg_start block) (subspan image (reg_start block) (reg_length block)).
Proof.
  intros Hb Hl (H0 & H1 & H2 & H3). unfold block_sequence. rewrite !flashed_app.
  rewrite (flashed_idle _ _ [wrap_can id (setup_request _ _)]) by (constructor; [by apply idle_wrap|constructor]).
  rewrite (flashed_idle _ _ [wrap_can id [kSidRequestTransferExit]]) by (constructor; [by apply idle_wrap|constructor]).
  rewrite (flashed_idle _ _ [wrap_can id alive_request]) by (constructor; [by apply idle_wrap|constructor]).
  change DecryptPage with (fun page => CalculatePayload page (rev kEncryptTable) kStockPairTable).
  unfold kChunkSize in *.
  apply (block_flashed 3 chunk24 (2 ^ 24) stores24 id (reg_start block) 128 (reg_length block / 128) (subspan image (reg_start block) (reg_length block))
    kEncryptTable m); try done; try lia; [by apply bytes_ok_subspan|]. rewrite zlen_subspan. lia.
Qed.
Lemma write_sequence_flashed id image m :
  bytes_ok image -> zlen image = 0x80000 ->
  flashed 3 DecryptPage (write_sequence id image) m ≡ store m 0x8000 (subspan image 0x8000 0x78000).
Proof.
  intros Hb Hl. unfold write_sequence.
  assert (forall blocks s, 0 <= s -> Forall block_ok blocks ->
    tiles s (map (fun b => {| start := reg_start b; len := reg_length b |}) blocks) 0x80000 = true ->
    forall m, flashed 3 DecryptPage (List.concat (map (block_sequence id image) blocks)) m
      ≡ store m s (subspan image s (0x80000 - s))) as Hall.
  { induction blocks as [|block blocks IH]; intros s Hs Hok Ht m'; cbn [map tiles List.concat start len] in *.
    - apply Z.eqb_eq in Ht as ->. intros a. unfold subspan. rewrite store_nil. done.
    - apply andb_prop in Ht as [<-%Z.eqb_eq Ht]. inversion Hok as [|? ? Hbk Hrest]; subst. rewrite flashed_app.
      rewrite (block_sequence_flashed id image block m' Hb Hl Hbk), (IH (reg_start block + reg_length block) ltac:(destruct Hbk as (?&?&?&?); lia) Hrest Ht).
      destruct Hbk as (H0 & H1 & H2 & H3).
      replace (reg_start block + reg_length block) with
        (reg_start block + zlen (subspan image (reg_start block) (reg_length block))) at 1 by (rewrite zlen_subspan; lia).
      rewrite store_store, <- subspan_add by lia. do 2 f_equiv. lia. }
  apply (Hall kWriteBlocks 0x8000); [lia|apply blocks_ok|reflexivity].
Qed.
End HitachiSpec.

(** ** The MH8111 family *)
Module Mh8111Spec.
Import Mh8111.
Section specs.
Context `{Env} (id : Z) (channel : UdsChannel) (unwrap : list Z -> option (list Z)) {HC : ChannelSpec channel (wrap_can id) unwrap}.
Abbreviation wrap := (wrap_can id).
Local Instance ExchangeContext_spec : ChannelSpec (ctx_channel (ExchangeContext channel)) wrap unwrap := HC.
Definition harmless : list Z -> Prop := framed (harmless_pdu erase_request).
Lemma harmless_RawExpect pdu expected failure : harmless (wrap pdu) -> harmlessly harmless (RawExpect channel pdu expected failure).
Proof. intros Hp. unfold RawExpect. by harmless. Qed.
Lemma harmless_send_stop n : harmlessly harmless (send_stop channel n).
Proof. induction n as [|n IH]; cbn [send_stop]; harmless; try done. apply framed_wrap. by split. Qed.
Lemma mh8111_connect_harmless : harmlessly harmless (ConnectBootloader channel).
Proof.
  unfold ConnectBootloader, UnlockAndKernelJump, ExchangeContext. harmless; try apply harmless_RawExpect; apply framed_wrap; by split.
Qed.
Definition dumped : list Z -> list (result Error (option (list Z))) -> Prop :=
  dumped_pages (answered unwrap kSidReadMemoryChunk) TcuCvtMitsuDecryptPage (zrepeat 0x8000 0xFF) [] 0x780.
Lemma mh8111_dumps_DumpFlashRange p :
  dumps harmless (answered unwrap kSidReadMemoryChunk) TcuCvtMitsuDecryptPage (zrepeat 0x8000 0xFF) [] 0x780 (DumpFlashRange channel p).
Proof.
  unfold DumpFlashRange. apply dumps_bind; [harmless|]. intros _.
  apply dumps_try; [apply harmless_RawExpect, framed_wrap; by split|]. intros _.
  pose proof (does_ReadEncryptedB7Pages (ExchangeContext channel) wrap unwrap kRejectionPrefix TcuCvtMitsuDecryptPage 0x8000 0x780 p
    ltac:(lia) ltac:(by vm_compute) ltac:(lia)) as Hr.
  apply (dumps_pages _ _ _ _ _ _ _ _ [] (map wrap (pages_from 0x8000 0x780 0))); [|exact Hr|].
  - apply List.Forall_map, List.Forall_map, Forall_true. intros k. apply framed_wrap. by split.
  - intros rom p'. apply finishes_bind; [harmless|]. intros _. unfold SendStop.
    apply finishes_try; [apply harmlessly_bind; [harmless|intros _; apply harmless_send_stop]|]. intros _.
    pose proof (finishes_ret harmless (zrepeat 0x8000 0xFF) [] rom p') as Hf. by rewrite app_nil_r in Hf.
Qed.
(** The erase, sent again until the unit's answer says it is done. *)
Lemma does_erase_loop n :
  does (erase_loop channel n) (fun res w r => if is_ok res
    then some_of n (wrap erase_request) w /\ answered_by unwrap routine_done r
    else upto n (wrap erase_request) w).
Proof.
  induction n as [|n IH]; cbn [erase_loop].
  { apply does_quiet; [apply quiet_Log|]. intros _. apply does_ret. apply upto_nil. }
  apply (does_bind _ _ _ _ (does_Request (ExchangeContext channel) wrap unwrap erase_request kExchangePolicy)).
  intros reply w1 r1 [Hw Hok]. assert (upto 1 (wrap erase_request) w1) as H1 by (by apply upto_once).
  assert (forall level message, does (do _ <- Log level message; erase_loop channel n) (fun res w r => if is_ok res
    then some_of (S n) (wrap erase_request) (w1 ++ w) /\ answered_by unwrap routine_done (r1 ++ r)
    else upto (S n) (wrap erase_request) (w1 ++ w))) as Hagain.
  { intros level message. apply does_quiet; [apply quiet_Log|]. intros _. apply (does_weaken _ _ _ IH).
    intros [[]|e] w r; cbn [is_ok]; [|by apply (upto_app 1)]. intros [(k & Hk & ->) Ha].
    split; [|apply answered_by_app; by right]. destruct H1 as (j & Hj & ->). exists (j + k)%nat. split; [lia|].
    by rewrite replicate_add. }
  destruct reply as [frame|e].
  - destruct (routine_done frame) eqn:Hd; [|apply Hagain]. apply does_quiet; [apply quiet_Log|]. intros _. apply does_ret.
    cbn [is_ok]. destruct (Hok frame eq_refl) as [-> (_ & pend & raw & -> & U)]. rewrite !app_nil_r. split.
    + exists 1%nat. split; [lia|done].
    + apply answered_by_app. right. by apply (answered_by_one unwrap _ raw frame).
  - destruct (bool_decide _); [|apply Hagain]. apply does_quiet; [auto with ports|]. intros e'. apply does_ret. cbn [is_ok].
    rewrite app_nil_r. apply (upto_le 1); [lia|done].
Qed.
Lemma mh8111_does_EraseMemory :
  does (EraseMemory channel) (fun res w r => if is_ok res
    then some_of 20 (wrap erase_request) w /\ answered_by unwrap routine_done r
    else begun (some_of 20 (wrap erase_request)) w).
Proof.
  apply does_quiet; [apply quiet_Log|]. intros _. apply (does_weaken _ _ _ (does_erase_loop 20)).
  intros [[]|e] w r; cbn [is_ok]; [done|]. apply some_of_begun. lia.
Qed.
(** What the write sends: the setup, the chunks, the close, the verification, of
    which only the chunks have a fixed number. *)
Definition chunks (image : list Z) : list (list Z) :=
  chunk_frames chunk24 id 0x80000 256 4096 (TcuCvtMitsuEncryptRom (subspan image 0x80000 0x100000)).
Definition writing (image : list Z) : lang :=
  cat (upto 6 (wrap setup_request)) (cat (exactly (chunks image))
    (cat (upto 20 (wrap [kSidRequestTransferExit])) (upto 20 (wrap verify_request)))).
Lemma emits_RequestWithRetries pdu n : emits (upto n (wrap pdu)) (RequestWithRetries channel pdu n).
Proof.
  induction n as [|n IH]; cbn [RequestWithRetries]; [apply does_ret, upto_nil|].
  apply emits_again; [apply (emits_Request channel wrap unwrap)|]. intros [f|e]; cbn [is_ok]; [|done]. apply does_ret, upto_nil.
Qed.
Lemma emits_verify_loop n : emits (upto n (wrap verify_request)) (verify_loop channel n).
Proof.
  induction n as [|n IH]; cbn [verify_loop]; [apply does_ret, upto_nil|].
  apply emits_again; [apply (emits_Request channel wrap unwrap)|].
  assert (forall level message, emits (upto n (wrap verify_request)) (do _ <- Log level message; verify_loop channel n)) as Hagain.
  { intros level message. apply does_quiet; [apply quiet_Log|]. intros _. exact IH. }
  intros [f|e]; [|apply Hagain]. destruct (routine_done f); [|apply Hagain].
  apply does_quiet; [apply quiet_Log|]. intros _. apply does_ret, upto_nil.
Qed.
Lemma mh8111_follows_UnlockAndReflashBlock image p : follows (writing image) (UnlockAndReflashBlock channel image p).
Proof.
  unfold UnlockAndReflashBlock, writing. cbv zeta. apply follows_quiet; [apply quiet_Log|]. intros _.
  apply follows_emits; [apply emits_RequestWithRetries|]. intros []; cbn [negb]; [|apply follows_fail; auto 6 with langs].
  apply follows_try; [|auto with langs|].
  - unfold SendChunks, chunks, kChunkSize. cbn [reg_length kWriteRegion].
    apply (follows_chunks id _ 0x80000 256 4096); [lia..|].
    intros offset p' Ho. assert (u32 (reg_start kWriteRegion + offset) = 0x80000 + offset) as ->
      by (cbn [reg_start kWriteRegion]; apply u32_small; unfold u32_ok; lia).
    apply follows_last; [apply (follows_ExchangeCvtB6Chunk id channel unwrap)|]. intros _.
    apply follows_quiet; [apply quiet_Update|]. intros p''. by apply follows_ok.
  - intros p'. apply follows_quiet; [apply quiet_Log|]. intros _.
    apply follows_emits; [apply emits_RequestWithRetries|]. intros []; cbn [negb]; [|apply follows_fail; auto with langs].
    apply follows_quiet; [apply quiet_Log|]. intros _. apply follows_last; [|intros _; by apply follows_ok].
    unfold VerifyChecksum. apply follows_quiet; [apply quiet_Log|]. intros _. apply follows_of_emits, emits_verify_loop.
Qed.
#[export] Instance mh8111_bootloader_spec :
  BootloaderSpec {| bl_connect := ConnectBootloader channel; bl_read := DumpFlashRange channel;
                    bl_erase := EraseMemory channel; bl_write := UnlockAndReflashBlock channel |}
    harmless (some_of 20 (wrap erase_request)) (answered_by unwrap routine_done) writing dumped.
Proof.
  split; cbn [bl_connect bl_read bl_erase bl_write].
  - apply mh8111_connect_harmless.
  - apply mh8111_dumps_DumpFlashRange.
  - apply mh8111_does_EraseMemory.
  - apply mh8111_follows_UnlockAndReflashBlock.
  - apply spoken_some_of. lia.
  - intros image. unfold writing. auto 6 with langs.
Qed.
End specs.
Lemma mh8111_writing_flashed id image w m :
  bytes_ok image -> zlen image = 0x180000 -> writing id image w ->
  flashed 3 TcuCvtMitsuDecryptPage w m ≡ store m 0x80000 (subspan image 0x80000 0x100000).
Proof.
  intros Hb Hl Hw.
  apply (one_block_flashed 3 chunk24 (2 ^ 24) stores24 id 0x80000 256 4096 (subspan image 0x80000 0x100000) kMitsuEncryptTable m) with
    (L1 := upto 6 (wrap_can id setup_request)) (L2 := (cat (upto 20 (wrap_can id [kSidRequestTransferExit])) (upto 20 (wrap_can id verify_request))));
    try lia; try done.
  - by apply bytes_ok_subspan.
  - rewrite zlen_subspan. lia.
  - intros w1. by apply idle_upto.
  - intros w1 (w2 & w3 & -> & H2 & H3). apply Forall_app_2; [by eapply idle_upto; [|exact H2]|by eapply idle_upto; [|exact H3]].
Qed.
End Mh8111Spec.

(** ** The MH8104 family *)
Module Mh8104Spec.
Import Mh8104.
Section specs.
Context `{Env} (id : Z) (channel : UdsChannel) (unwrap : list Z -> option (list Z)) {HC : ChannelSpec channel (wrap_can id) unwrap}.
Abbreviation wrap := (wrap_can id).
Definition harmless : list Z -> Prop := framed (harmless_pdu erase_request).
(** One exchange: the request goes out, and a frame that comes back was read. *)
Definition received_frame (f : list Z) (r : list (result Error (option (list Z)))) : Prop :=
  exists raw, r = [Ok (Some raw)] /\ unwrap raw = Some f.
Lemma does_Exchange pdu timeout :
  does (Exchange channel pdu timeout) (fun res w r => script [wrap pdu] (is_ok res) w
    /\ forall f, res = Ok (Some f) -> received_frame f r).
Proof.
  apply (does_try _ _ _ _ (does_Send channel wrap unwrap pdu)).
  2:{ intros e w r (Hw & _ & _). split; [by apply (once_follows wrap pdu false)|done]. }
  intros [] w1 r1 (_ & -> & Hok). rewrite (Hok eq_refl).
  apply (does_bind _ _ _ _ (does_Receive channel wrap unwrap timeout)). intros [o|e] w2 r2 [-> Hr]; apply does_ret;
    (split; [|]); [done| |by apply begun_word|done]. intros f [= ->]. rewrite app_nil_r. by apply Hr.
Qed.
Lemma emits_Exchange pdu timeout : emits (upto 1 (wrap pdu)) (Exchange channel pdu timeout).
Proof.
  refine (does_weaken _ _ _ (does_Exchange pdu timeout) _). intros res w r [Hw _]. apply upto_once.
  apply script_prefix in Hw as [k E]. destruct w as [|f [|g w]]; [by left|right|done]. by injection E as <- _.
Qed.
Lemma emits_RetryUntilAnyReply pdu n timeout : emits (upto n (wrap pdu)) (RetryUntilAnyReply channel pdu n timeout).
Proof.
  induction n as [|n IH]; cbn [RetryUntilAnyReply]; [apply does_ret, upto_nil|].
  apply emits_again; [apply emits_Exchange|]. intros [[f|]|e]; [apply does_ret, upto_nil|exact IH|apply does_ret, upto_nil].
Qed.
Lemma does_SingleShot pdu timeout label :
  does (SingleShot channel pdu timeout label) (fun res w r => script [wrap pdu] (is_ok res) w
    /\ forall f, res = Ok f -> received_frame f r).
Proof.
  apply (does_bind _ _ _ _ (does_Exchange pdu timeout)). intros [[f|]|e] w r [Hw Hr].
  - apply does_ret. rewrite !app_nil_r. split; [done|]. intros f' [= <-]. by apply Hr.
  - apply does_quiet; [apply quiet_Log|]. intros _. apply does_ret. rewrite app_nil_r. split; [by eapply script_weaken|done].
  - apply does_quiet; [auto with ports|]. intros e'. apply does_ret. rewrite app_nil_r. split; [exact Hw|done].
Qed.
Lemma harmless_Exchange pdu timeout : harmless (wrap pdu) -> harmlessly harmless (Exchange channel pdu timeout).
Proof. apply harmlessly_once, emits_Exchange. Qed.
Lemma harmless_Retry pdu n timeout : harmless (wrap pdu) -> harmlessly harmless (RetryUntilAnyReply channel pdu n timeout).
Proof. intros Hp. apply (harmlessly_emits _ _ _ (emits_RetryUntilAnyReply pdu n timeout)). intros w. by apply harmless_upto. Qed.
Lemma harmless_SingleShot pdu timeout label : harmless (wrap pdu) -> harmlessly harmless (SingleShot channel pdu timeout label).
Proof. intros Hp. unfold SingleShot. apply harmlessly_bind; [by apply harmless_Exchange|]. intros r. harmless. Qed.
#[local] Hint Resolve harmless_Exchange harmless_Retry harmless_SingleShot : harmless.
Lemma harmless_pdu_framed pdu : harmless_pdu erase_request pdu -> harmless (wrap pdu).
Proof. apply framed_wrap. Qed.
#[local] Hint Resolve harmless_pdu_framed : harmless.
#[local] Hint Extern 1 (harmless_pdu _ _) => (split; done) : harmless.
Lemma mh8104_connect_harmless : harmlessly harmless (ConnectBootloader channel).
Proof. unfold ConnectBootloader, KernelAlreadyRunning, RetryInitStep, SingleShotLogged. harmless. Qed.
Definition dumped : list Z -> list (result Error (option (list Z))) -> Prop :=
  dumped_pages received_frame TcuCvtMitsuDecryptPage (zrepeat 0x8000 0xFF) [] 0x780.
Lemma mh8104_dumps_DumpFlashRange p :
  dumps harmless received_frame TcuCvtMitsuDecryptPage (zrepeat 0x8000 0xFF) [] 0x780 (DumpFlashRange channel p).
Proof.
  unfold DumpFlashRange. apply dumps_bind; [harmless|]. intros _. apply dumps_try; [harmless|]. intros setup.
  apply dumps_bind; [harmless|]. intros _. apply dumps_bind; [harmless|]. intros _.
  apply (dumps_pages _ _ _ _ _ _ _ _ [] (map (fun k => wrap (page_request (0x8000 + 0x100 * k))) (seqZ 0 0x780))).
  - apply List.Forall_map, Forall_true. intros k. apply framed_wrap. by split.
  - match goal with |- does (for_u32 _ _ _ ?body _) _ => pose proof (does_for_u32 0x8000 0x100 0x780 body
      (fun k => [wrap (page_request (0x8000 + 0x100 * k))]) (appends_page received_frame TcuCvtMitsuDecryptPage)
      ltac:(lia) ltac:(lia) ltac:(lia)) as Hloop end.
    refine (does_weaken _ _ _ (Hloop _ ([], p) ltac:(lia)) _).
    + intros k [rom p'] Hk. apply (does_try _ _ _ _ (does_SingleShot _ _ _)).
      2:{ intros e w r [Hw _]. by split. }
      intros f w1 r1 [Hw Hr]. apply does_quiet; [destruct (negb _); auto with ports|]. intros _. cbv zeta.
      apply does_quiet; [apply quiet_Update|]. intros p''. apply does_ret. rewrite !app_nil_r. split; [done|].
      intros s' [= <-]. exists f. split; [by apply Hr|done].
    + intros res w r [Hw Hs]. unfold loop_frames in Hw. rewrite concat_singletons, Z.sub_0_r in Hw. split; [done|].
      intros rom p' E. destruct (steps_pages _ _ _ _ _ _ _ (Hs _ E) ltac:(lia)) as (frames & Hl & Hrom & Hr). by exists frames.
  - intros rom p'. apply finishes_bind; [harmless|]. intros _. apply finishes_bind; [harmless|]. intros _.
    apply finishes_try; [harmless|]. intros _.
    pose proof (finishes_ret harmless (zrepeat 0x8000 0xFF) [] rom p') as Hf. by rewrite app_nil_r in Hf.
Qed.
(** The erase: some frame was read after it, whatever it said. *)
Lemma mh8104_does_EraseMemory :
  does (EraseMemory channel) (fun res w r => if is_ok res
    then exactly [wrap erase_request] w /\ answered_by unwrap (fun _ => true) r else begun (exactly [wrap erase_request]) w).
Proof.
  apply does_quiet; [apply quiet_Log|]. intros _. apply (does_send_and_wait channel wrap unwrap).
  apply (does_try _ _ (fun _ w r => w = [] /\ r = []) _ (quiet_Sleep 8000)); [|by intros e w r [-> ->]].
  intros [] w0 r0 [-> ->]. apply (does_try _ _ _ _ (does_Receive channel wrap unwrap 200)); [|by intros e w r [-> _]].
  intros reply w1 r1 [-> Hr]. apply (does_try _ _ (fun _ w r => w = [] /\ r = []) _ (quiet_Sleep 5000)); [|by intros e w r [-> ->]].
  intros [] w2 r2 [-> ->]. destruct reply as [f|].
  - apply does_quiet; [destruct (negb _); auto with ports|]. intros _. apply does_ret. split; [done|]. intros _.
    destruct (Hr f eq_refl) as (raw & -> & U). by apply (answered_by_one unwrap _ raw f).
  - apply does_quiet; [apply quiet_Log|]. intros _. by apply does_ret.
Qed.
Definition chunks (image : list Z) : list (list Z) :=
  chunk_frames chunk24 id 0x8000 128 3840 (TcuCvtMitsuEncryptRom (subspan image 0x8000 0x78000)).
Definition writing (image : list Z) : lang :=
  cat (upto 6 (wrap setup_request)) (cat (exactly (chunks image))
    (cat (upto 6 (wrap [kSidRequestTransferExit])) (upto 6 (wrap verify_request)))).
Lemma follows_Retry pdu n timeout : follows (upto n (wrap pdu)) (RetryUntilAnyReply channel pdu n timeout).
Proof. apply follows_of_emits, emits_RetryUntilAnyReply. Qed.
Lemma mh8104_follows_UnlockAndReflashBlock image p : follows (writing image) (UnlockAndReflashBlock channel image p).
Proof.
  unfold UnlockAndReflashBlock, writing. cbv zeta. apply follows_quiet; [apply quiet_Log|]. intros _.
  apply follows_try; [apply follows_Retry|auto 6 with langs|]. intros setup.
  apply follows_quiet; [destruct (negb _); auto with ports|]. intros _. apply follows_try; [|auto with langs|].
  - unfold chunks, kChunkSize. cbn [reg_length kWriteRegion]. apply (follows_chunks id _ 0x8000 128 3840); [lia..|].
    intros offset p' Ho. assert (u32 (reg_start kWriteRegion + offset) = 0x8000 + offset) as ->
      by (cbn [reg_start kWriteRegion]; apply u32_small; unfold u32_ok; lia).
    apply follows_last; [apply (follows_Send channel wrap unwrap)|]. intros _.
    apply follows_last; [apply (follows_Receive channel wrap unwrap)|]. intros _.
    apply follows_quiet; [apply quiet_Update|]. intros p''. by apply follows_ok.
  - intros p'. apply follows_quiet; [apply quiet_Log|]. intros _.
    apply follows_try; [apply follows_Retry|auto with langs|]. intros closed.
    apply follows_quiet; [destruct (negb _); auto with ports|]. intros _.
    apply follows_quiet_try; [apply quiet_Sleep|auto with langs|]. intros _. apply follows_quiet; [apply quiet_Log|]. intros _.
    apply follows_last; [apply follows_Retry|]. intros checksum.
    apply follows_quiet; [destruct (negb _); auto with ports|]. intros _. by apply follows_ok.
Qed.
#[export] Instance mh8104_bootloader_spec :
  BootloaderSpec {| bl_connect := ConnectBootloader channel; bl_read := DumpFlashRange channel;
                    bl_erase := EraseMemory channel; bl_write := UnlockAndReflashBlock channel |}
    harmless (exactly [wrap erase_request]) (answered_by unwrap (fun _ => true)) writing dumped.
Proof.
  split; cbn [bl_connect bl_read bl_erase bl_write].
  - apply mh8104_connect_harmless.
  - apply mh8104_dumps_DumpFlashRange.
  - apply mh8104_does_EraseMemory.
  - apply mh8104_follows_UnlockAndReflashBlock.
  - apply spoken_exactly.
  - intros image. unfold writing. auto 6 with langs.
Qed.
End specs.
Lemma mh8104_writing_flashed id image w m :
  bytes_ok image -> zlen image = 0x80000 -> writing id image w ->
  flashed 3 TcuCvtMitsuDecryptPage w m ≡ store m 0x8000 (subspan image 0x8000 0x78000).
Proof.
  intros Hb Hl Hw.
  apply (one_block_flashed 3 chunk24 (2 ^ 24) stores24 id 0x8000 128 3840 (subspan image 0x8000 0x78000) kMitsuEncryptTable m) with
    (L1 := upto 6 (wrap_can id setup_request)) (L2 := (cat (upto 6 (wrap_can id [kSidRequestTransferExit])) (upto 6 (wrap_can id verify_request))));
    try lia; try done.
  - by apply bytes_ok_subspan.
  - rewrite zlen_subspan. lia.
  - intros w1. by apply idle_upto.
  - intros w1 (w2 & w3 & -> & H2 & H3). apply Forall_app_2; [by eapply idle_upto; [|exact H2]|by eapply idle_upto; [|exact H3]].
Qed.
End Mh8104Spec.

(** ** The three families together *)
Inductive cvt_family : Set := CvtHitachi | CvtMh8111 | CvtMh8104.
Definition cvt_entry (f : cvt_family) : nat := match f with CvtHitachi => 1 | CvtMh8111 => 2 | CvtMh8104 => 3 end.
Definition cvt_build (f : cvt_family) : FlashOperation -> string -> string -> option (list Z) -> result Error FlashPlan :=
  match f with
  | CvtHitachi => TcuCvtHitachiM32rCan.Build | CvtMh8111 => TcuCvtMitsuMh8111Can.Build | CvtMh8104 => TcuCvtMitsuMh8104Can.Build
  end.
Definition cvt_executor `{Env} (f : cvt_family) : ICanFlashExecutor :=
  match f with CvtHitachi => Hitachi.Executor | CvtMh8111 => Mh8111.Executor | CvtMh8104 => Mh8104.Executor end.
Definition cvt_erase_request (f : cvt_family) : list Z :=
  match f with CvtHitachi => Hitachi.erase_request | CvtMh8111 => Mh8111.erase_request | CvtMh8104 => Mh8104.erase_request end.
(** How often the erase may go out, and the answer it needs. *)
Definition cvt_erasing (f : cvt_family) : lang :=
  some_of (match f with CvtMh8111 => 20 | _ => 1 end) (wrap_can 0x7E1 (cvt_erase_request f)).
Definition cvt_erase_answer (f : cvt_family) : list Z -> bool :=
  match f with CvtHitachi => Hitachi.erase_done | CvtMh8111 => Mh8111.routine_done | CvtMh8104 => fun _ => true end.
Definition cvt_writing (f : cvt_family) (image : list Z) : lang :=
  match f with
  | CvtHitachi => exactly (HitachiSpec.write_sequence 0x7E1 image)
  | CvtMh8111 => Mh8111Spec.writing 0x7E1 image
  | CvtMh8104 => Mh8104Spec.writing 0x7E1 image
  end.
Definition cvt_decrypt (f : cvt_family) : list Z -> list Z :=
  match f with CvtHitachi => Hitachi.DecryptPage | _ => TcuCvtMitsuDecryptPage end.
Definition cvt_spec (f : cvt_family) : SingleWindowPlanSpec :=
  match f with
  | CvtHitachi => TcuCvtHitachiM32rCan.kSpec | CvtMh8111 => TcuCvtMitsuMh8111Can.kSpec | CvtMh8104 => TcuCvtMitsuMh8104Can.kSpec
  end.
(** The answer to a page request: the positive reply, or for the MH8104 any frame. *)
Definition cvt_page_answer (f : cvt_family) : list Z -> list (result Error (option (list Z))) -> Prop :=
  match f with
  | CvtMh8104 => Mh8104Spec.received_frame (unwrap_can 0x7E9)
  | _ => answered (unwrap_can 0x7E9) kSidReadMemoryChunk
  end.
Definition cvt_pad (f : cvt_family) : Z := match f with CvtHitachi => 0x00 | _ => 0xFF end.
Definition cvt_bootloader `{Env} (f : cvt_family) : Bootloader :=
  let p := can_plan 0x7E1 0x7E9 in
  match f with
  | CvtHitachi => Hitachi.bootloader p (GuardedCanFlashTransport adapter)
  | CvtMh8111 => Mh8111.bootloader p (GuardedCanFlashTransport adapter)
  | CvtMh8104 => Mh8104.bootloader p (GuardedCanFlashTransport adapter)
  end.
Definition cvt_dumped (f : cvt_family) : list Z -> list (result Error (option (list Z))) -> Prop :=
  dumped_pages (cvt_page_answer f) (cvt_decrypt f) (zrepeat 0x8000 (cvt_pad f)) [] 0x780.
Definition cvt_harmless (f : cvt_family) : list Z -> Prop := framed (harmless_pdu (cvt_erase_request f)).
Lemma some_of_1 f w : some_of 1 f w <-> exactly [f] w.
Proof. split; [intros (k & Hk & ->); assert (k = 1%nat) as -> by lia; done|intros ->; exists 1%nat; split; [lia|done]]. Qed.
Lemma spec_erasing b harmless f erased writing dumped :
  BootloaderSpec b harmless (exactly [f]) erased writing dumped -> BootloaderSpec b harmless (some_of 1 f) erased writing dumped.
Proof.
  intros [H1 H2 H3 H4 H5 H6]. split; try done; [|apply spoken_some_of; lia].
  refine (does_weaken _ _ _ H3 _). intros [a|e] w r; cbn [is_ok]; [intros [Hw Hr]; split; [by apply some_of_1|done]|].
  intros [rest E]. exists rest. by apply some_of_1.
Qed.
#[export] Instance cvt_bootloader_spec `{Env} f :
  BootloaderSpec (cvt_bootloader f) (cvt_harmless f) (cvt_erasing f) (answered_by (unwrap_can 0x7E9) (cvt_erase_answer f))
    (cvt_writing f) (cvt_dumped f).
Proof.
  destruct f.
  - apply spec_erasing. exact (HitachiSpec.cvt_hitachi_bootloader_spec 0x7E1 _ _ (unwrap_can 0x7E9) (unwrap_can 0x7E9)).
  - exact (Mh8111Spec.mh8111_bootloader_spec 0x7E1 _ (unwrap_can 0x7E9)).
  - apply spec_erasing. exact (Mh8104Spec.mh8104_bootloader_spec 0x7E1 _ (unwrap_can 0x7E9)).
Qed.
Definition cvt_attempt `{Env} (f : cvt_family) (plan : FlashPlan) : M (result Error FlashExecutionResult) :=
  BoundAttempt_Run (cvt_executor f) plan adapter.
(** The plan of a family, as its builder makes it. *)
Lemma cvt_built f op protocol mcu img plan :
  cvt_build f op protocol mcu img = Ok plan ->
  Operation plan = op /\ (forall i, img = Some i -> op = kWrite -> zlen i = image_size (cvt_spec f) /\ ImageOrEmpty plan = i)
  /\ fp_value (family_plan (fields_ plan)) = Some (match f with
       | CvtHitachi => SubaruTcuCvtHitachiM32rCanPlan | CvtMh8111 => SubaruTcuCvtMitsuMh8111CanPlan
       | CvtMh8104 => SubaruTcuCvtMitsuMh8104CanPlan end (can_plan 0x7E1 0x7E9)).
Proof.
  intros Hb. destruct (families !! cvt_entry f) as [e|] eqn:He; [|by destruct f].
  pose proof (family_entry_ok _ _ He) as Hok.
  assert (entry_build e = cvt_build f /\ entry_spec e = cvt_spec f) as [E1 E2] by (destruct f; by injection He as <-).
  rewrite <- E1 in Hb. apply (entry_builds e _ _ _ _ _ Hok) in Hb as [(_ & _ & Ho & _) ->].
  split_and!; [done| |destruct f; by injection He as <-].
  intros i -> ->. rewrite <- E2. destruct Ho as (_ & i' & [= <-] & Hl). done.
Qed.
Lemma cvt_attempt_runs `{Env} f op protocol mcu img plan (R : result Error FlashExecutionResult -> trace -> Prop) :
  cvt_build f op protocol mcu img = Ok plan ->
  padded R -> (forall e d, silent d -> R (Err e) d) -> (forall res d e, R res d -> R (Err e) d) ->
  (forall name, runs (RunBootloader (cvt_bootloader f) plan name) R) -> runs (cvt_attempt f plan) R.
Proof.
  intros Hb Hp Hno Herr Hrun. destruct (cvt_built _ _ _ _ _ _ Hb) as (_ & _ & Hget). unfold cvt_attempt, cvt_executor.
  destruct f.
  - refine (runs_family_attempt R Hp Hno Herr kSubaruTcuCvtHitachiM32rCan Hitachi.AsPlan _ _ Hitachi.Run plan (can_plan 0x7E1 0x7E9) _ (Hrun _)).
    unfold Hitachi.AsPlan. by rewrite Hget.
  - refine (runs_family_attempt R Hp Hno Herr kSubaruTcuCvtMitsuMh8111Can Mh8111.AsPlan _ _ Mh8111.Run plan (can_plan 0x7E1 0x7E9) _ (Hrun _)).
    unfold Mh8111.AsPlan. by rewrite Hget.
  - refine (runs_family_attempt R Hp Hno Herr kSubaruTcuCvtMitsuMh8104Can Mh8104.AsPlan _ _ Mh8104.Run plan (can_plan 0x7E1 0x7E9) _ (Hrun _)).
    unfold Mh8104.AsPlan. by rewrite Hget.
Qed.
Lemma cvt_attempt_writes `{Env} f protocol mcu image plan :
  cvt_build f kWrite protocol mcu (Some image) = Ok plan ->
  runs (cvt_attempt f plan) (write_outcome (cvt_harmless f) (cvt_erasing f)
    (answered_by (unwrap_can 0x7E9) (cvt_erase_answer f)) (cvt_writing f image)).
Proof.
  intros Hb. destruct (cvt_built _ _ _ _ _ _ Hb) as (Hop & Himg & _). destruct (Himg image eq_refl eq_refl) as [_ <-].
  pose proof (cvt_bootloader_spec f) as HB.
  apply (cvt_attempt_runs _ _ _ _ _ _ _ Hb); [apply write_outcome_padded| |intros; by eapply write_outcome_error|].
  - intros e d. by apply (write_outcome_silent (cvt_bootloader f) _ _ _ (cvt_writing f) (cvt_dumped f)).
  - intros name. by apply (run_writes (cvt_bootloader f) _ _ _ (cvt_writing f) (cvt_dumped f)).
Qed.
Lemma cvt_attempt_reads `{Env} f protocol mcu plan :
  cvt_build f kRead protocol mcu None = Ok plan ->
  runs (cvt_attempt f plan) (read_outcome (cvt_harmless f) (cvt_dumped f)).
Proof.
  intros Hb. destruct (cvt_built _ _ _ _ _ _ Hb) as (Hop & _ & _). pose proof (cvt_bootloader_spec f) as HB.
  apply (cvt_attempt_runs _ _ _ _ _ _ _ Hb); [apply read_outcome_padded| |intros; by eapply read_outcome_error|].
  - intros e d. apply read_outcome_silent.
  - intros name. by apply (run_reads (cvt_bootloader f) _ _ _ _ _).
Qed.
Lemma cvt_writing_flashed f image w m :
  bytes_ok image -> zlen image = image_size (cvt_spec f) -> cvt_writing f image w ->
  flashed 3 (cvt_decrypt f) w m
  ≡ store m (reg_start (write_region (cvt_spec f)))
      (subspan image (reg_start (write_region (cvt_spec f))) (reg_length (write_region (cvt_spec f)))).
Proof.
  intros Hb Hl Hw. destruct f.
  - rewrite Hw. by apply HitachiSpec.write_sequence_flashed.
  - by apply (Mh8111Spec.mh8111_writing_flashed 0x7E1).
  - by apply (Mh8104Spec.mh8104_writing_flashed 0x7E1).
Qed.
Lemma cvt_erasing_idle f w : cvt_erasing f w -> Forall idle_frame w.
Proof. intros (k & _ & ->). apply Forall_replicate, idle_wrap. by destruct f. Qed.

(** ** Claims *)
(** C31: Writing a CVT transmission unit of each family (Hitachi M32R, Mitsubishi MH8111
    and MH8104), end to end and in every environment. The calls fall into three
    stretches: connection requests that neither write nor erase; the erase request,
    once, or up to twenty times for the MH8111; and an initial part of the family's
    write sequence. Nothing of the write goes out unless the erase did and the answer
    the family asks for (for the MH8104: any frame) was read before it; when the attempt
    succeeds the whole sequence went out, and a unit that obeys the write requests it
    was sent then holds the image's bytes in the write window at their addresses and
    nothing else changed. *)
Theorem cvt_write_attempt `{Env} f protocol mcu image plan t :
  cvt_build f kWrite protocol mcu (Some image) = Ok plan -> bytes_ok image ->
  exists d, snd (cvt_attempt f plan t) = t ++ d
    /\ write_outcome (cvt_harmless f) (cvt_erasing f) (answered_by (unwrap_can 0x7E9) (cvt_erase_answer f))
         (cvt_writing f image) (fst (cvt_attempt f plan t)) d
    /\ (is_ok (fst (cvt_attempt f plan t)) = true -> forall m, flashed 3 (cvt_decrypt f) (written d) m
         ≡ store m (reg_start (write_region (cvt_spec f)))
             (subspan image (reg_start (write_region (cvt_spec f))) (reg_length (write_region (cvt_spec f))))).
Proof.
  intros Hb Hi. destruct (cvt_built _ _ _ _ _ _ Hb) as (_ & Himg & _). destruct (Himg image eq_refl eq_refl) as [Hl _].
  destruct (cvt_attempt_writes _ _ _ _ _ Hb t) as (d & E & Ho). exists d. split_and!; [exact E|exact Ho|].
  intros Hok m. destruct Ho as (dc & de & dw & -> & Hc & _ & _ & _ & Hdone). destruct (Hdone Hok) as (He & _ & Hw).
  rewrite !written_app, !flashed_app, (flashed_idle _ _ (written dc)), (flashed_idle _ _ (written de)).
  - by apply cvt_writing_flashed.
  - by apply (cvt_erasing_idle f).
  - eapply Forall_impl; [exact Hc|]. intros raw. apply harmless_idle.
Qed.
Lemma sample_cvt_plan op img :
  operation_ok (cvt_spec CvtMh8104) op img ->
  exists plan, cvt_build CvtMh8104 op "sub_tcu_cvt_mitsu_mh8104_can" "MH8104" img = Ok plan.
Proof.
  intros Hop. eexists. apply (entry_builds (Build_family_entry TcuCvtMitsuMh8104Can.kSpec TcuCvtMitsuMh8104Can.FamilyPlanOf
    TcuCvtMitsuMh8104Can.Validate TcuCvtMitsuMh8104Can.Build false)); [by apply (family_entry_ok 3)|].
  split; [|reflexivity]. split_and!; [apply list_elem_of_In; by left|reflexivity|done|discriminate].
Qed.
Lemma cvt_write_attempt_witness :
  exists plan, cvt_build CvtMh8104 kWrite "sub_tcu_cvt_mitsu_mh8104_can" "MH8104" (Some (zrepeat 0x80000 0xFF)) = Ok plan
    /\ exists d, snd (cvt_attempt (H := scripted []) CvtMh8104 plan []) = [] ++ d.
Proof.
  assert (operation_ok (cvt_spec CvtMh8104) kWrite (Some (zrepeat 0x80000 0xFF))) as Hop.
  { split; [done|]. eexists. split; [done|]. by rewrite zlen_zrepeat. }
  destruct (sample_cvt_plan kWrite _ Hop) as [plan E]. exists plan. split; [exact E|].
  destruct (cvt_write_attempt (H := scripted []) CvtMh8104 "sub_tcu_cvt_mitsu_mh8104_can" "MH8104" (zrepeat 0x80000 0xFF) plan [] E
    (bytes_ok_zrepeat 0x80000 0xFF ltac:(unfold byte_ok; lia))) as (d & Ed & _). exists d. exact Ed.
Defined.

(** Reading a CVT transmission unit of each family, in every environment: no request
    of the attempt writes or erases flash, and on success the image is the unread first
    32 KiB as padding (0x00 for the Hitachi unit, 0xFF for the others) followed by the
    decryption of the payloads of 1920 frames in address order, each read as the answer
    to a page request: the positive reply, or for the MH8104 the frame that came. *)
Theorem cvt_read_attempt `{Env} f protocol mcu plan t :
  cvt_build f kRead protocol mcu None = Ok plan ->
  exists d, snd (cvt_attempt f plan t) = t ++ d
    /\ Forall (cvt_harmless f) (written d)
    /\ forall x, fst (cvt_attempt f plan t) = Ok x -> exists frames d1 d2 d3 r1 r2 r3,
         d = d1 ++ d2 ++ d3 /\ reads d2 = r1 ++ r2 ++ r3 /\ zlen frames = 0x780
         /\ replies (cvt_page_answer f) frames r2
         /\ read_bytes x = Some (zrepeat 0x8000 (cvt_pad f) ++ decrypted (cvt_decrypt f) frames).
Proof.
  intros Hb. destruct (cvt_attempt_reads _ _ _ _ Hb t) as (d & E & Hw & Hx). exists d. split_and!; [exact E|exact Hw|].
  intros x Ex. destruct (Hx x Ex) as (rom & d1 & d2 & d3 & -> & Hr & r1 & r2 & r3 & frames & Er & Hl & -> & Hp).
  rewrite app_nil_r in Hr. by exists frames, d1, d2, d3, r1, r2, r3.
Qed.
Lemma cvt_read_attempt_witness :
  exists plan, cvt_build CvtMh8104 kRead "sub_tcu_cvt_mitsu_mh8104_can" "MH8104" None = Ok plan
    /\ exists d, snd (cvt_attempt (H := scripted []) CvtMh8104 plan []) = [] ++ d /\ Forall (cvt_harmless CvtMh8104) (written d).
Proof.
  destruct (sample_cvt_plan kRead None I) as [plan E]. exists plan. split; [exact E|].
  destruct (cvt_read_attempt (H := scripted []) CvtMh8104 "sub_tcu_cvt_mitsu_mh8104_can" "MH8104" plan [] E) as (d & Ed & Hw & _).
  exists d. exact (conj Ed Hw).
Defined.
