(* ===== verification/DensoBootloader.v ===== *)
(** * DensoBootloader: the Denso ISO-15765 bootloader families

    [src/backend/flash/ecu/denso_iso15765_can_common.cpp],
    [denso_iso15765_bootloader_executor.cpp], [denso_iso15765_crypto.h],
    [denso_iso15765_bootloader_profile.h] and the profiles of the 1N83M 1.5M and 4M,
    SH72531 and SH72543 diesel families ([subaru_denso_*_can*_plan.h]). *)
From S2P Require Import Prelude Bytes Ssm Uds Ports UdsClient CanFlash FlashDevices FlashPlan SingleWindowPlans FlashExecution FlashLogic.

(** ** [denso_iso15765_crypto.h] *)
Definition kDensoIso15765SeedKeyTable : list Z :=
  [0x78B1; 0x4625; 0x201C; 0x9EA5; 0xAD6B; 0x35F4; 0xFD21; 0x5E71; 0xB046; 0x7F4A; 0x4B75; 0x93F9; 0x1895; 0x8961;
   0x3ECC; 0x862B].
Definition kDensoIso15765EncryptTable : list Z := [0xC85B; 0x32C0; 0xE282; 0x92A0].
Definition kDensoIso15765DecryptTable : list Z := [0x92A0; 0xE282; 0x32C0; 0xC85B].
Definition DensoSeedKey (seed : list Z) : list Z := CalculateSeedKey seed kDensoIso15765SeedKeyTable kStockPairTable.
Definition DensoEncryptRom (image : list Z) : list Z := CalculatePayload image kDensoIso15765EncryptTable kStockPairTable.
Definition DensoDecryptPage (page : list Z) : list Z := CalculatePayload page kDensoIso15765DecryptTable kStockPairTable.

(** ** [denso_iso15765_bootloader_profile.h] *)
Inductive DensoInCarRun : Set := kN83m | kSh.
Inductive DensoBenchSessionReply : Set := kFatalSession | kTolerantProbe.
Inductive DensoReadSetupReply : Set := kFatalSetup | kTolerantReply.
Inductive DensoIdentityQuery : Set := kEcuIdService | kDidF182.
Inductive DensoRegionLog : Set := kDumpAndBlock | kStartAndLength.
Record DensoBenchArm := {
  settle : Z; session_reply : DensoBenchSessionReply; session_timeout : Z; jump_first_read : Z; jump_loop_read : Z;
  discard_first_reply : bool
}.
Record DensoIso15765BootloaderProfile := {
  unit_ : string;
  obk_active_log : string;
  identity_query : DensoIdentityQuery;
  probe_timeout : Z;
  in_car_run : DensoInCarRun;
  in_car_timeout : Z;
  bench : DensoBenchArm;
  read_setup_reply : DensoReadSetupReply;
  read_setup_policy : ExchangePolicy;
  pace_pages : bool;
  region_log : DensoRegionLog;
  write_block_index : Z;
  checksum_policy : ExchangePolicy;
  image_start : Z
}.
(** The families' profiles. *)
Definition policy_pending (read pending : Z) : ExchangePolicy :=
  {| pre_read_delay := pre_read_delay default_policy; read_timeout := read; pending_timeout := pending;
     max_pending_repeats := max_pending_repeats default_policy |}.
Definition profile_1n83m_1_5m : DensoIso15765BootloaderProfile := {|
  unit_ := "Subaru Denso 1N83M 1.5MB";
  obk_active_log := "OBK is active";
  identity_query := kEcuIdService;
  probe_timeout := 200;
  in_car_run := kN83m;
  in_car_timeout := 200;
  bench := {| settle := 500; session_reply := kFatalSession; session_timeout := 200; jump_first_read := 200;
              jump_loop_read := 200; discard_first_reply := false |};
  read_setup_reply := kFatalSetup;
  read_setup_policy := policy_within 200;
  pace_pages := false;
  region_log := kDumpAndBlock;
  write_block_index := 1;
  checksum_policy := policy_pending 500 500;
  image_start := 0x08F9C000
|}.
Definition profile_1n83m_4m : DensoIso15765BootloaderProfile := {|
  unit_ := "Subaru Denso 1N83M 4MB";
  obk_active_log := "OBK is active";
  identity_query := kEcuIdService;
  probe_timeout := 200;
  in_car_run := kN83m;
  in_car_timeout := 200;
  bench := {| settle := 500; session_reply := kFatalSession; session_timeout := 200; jump_first_read := 200;
              jump_loop_read := 200; discard_first_reply := true |};
  read_setup_reply := kTolerantReply;
  read_setup_policy := policy_within 200;
  pace_pages := false;
  region_log := kDumpAndBlock;
  write_block_index := 1;
  checksum_policy := policy_pending 500 3000;
  image_start := 0x08F9C000
|}.
Definition profile_sh72531 : DensoIso15765BootloaderProfile := {|
  unit_ := "Subaru Denso SH72531";
  obk_active_log := "OBK is active!";
  identity_query := kEcuIdService;
  probe_timeout := 200;
  in_car_run := kSh;
  in_car_timeout := 200;
  bench := {| settle := 500; session_reply := kFatalSession; session_timeout := 200; jump_first_read := 200;
              jump_loop_read := 200; discard_first_reply := true |};
  read_setup_reply := kFatalSetup;
  read_setup_policy := policy_within 2000;
  pace_pages := true;
  region_log := kDumpAndBlock;
  write_block_index := 1;
  checksum_policy := policy_pending 2000 2000;
  image_start := 0x00000000
|}.
Definition profile_sh72543_diesel : DensoIso15765BootloaderProfile := {|
  unit_ := "Subaru Denso SH72543 Diesel";
  obk_active_log := "OBK is active!";
  identity_query := kDidF182;
  probe_timeout := 2000;
  in_car_run := kSh;
  in_car_timeout := 2000;
  bench := {| settle := 50; session_reply := kTolerantProbe; session_timeout := 2000; jump_first_read := 2000;
              jump_loop_read := 200; discard_first_reply := false |};
  read_setup_reply := kFatalSetup;
  read_setup_policy := policy_within 200;
  pace_pages := true;
  region_log := kStartAndLength;
  write_block_index := 0;
  checksum_policy := policy_pending 2000 2000;
  image_start := 0x00000000
|}.

(** ** [denso_iso15765_can_common.cpp] *)
Definition kDensoIso15765RejectionPrefix : string := "Wrong response from ECU: ".
Definition kDataFormatIdentifier : Z := 0x04.
Definition kAddressAndLengthFormat : Z := 0x44.
Definition kDensoRequestSeed : Z := 0x61.
Definition kDensoSendKey : Z := 0x62.
Definition kSecurityAccessPolicy : ExchangePolicy := policy_within 2000.
Definition kErasePolicy : ExchangePolicy := policy_within 500.
Definition kEraseTimeout : Z := 500.
Definition kErasePollLimit : nat := 20.
Definition kRoutineIdHigh : Z := 0x02.
Definition kRoutineErase : Z := 0x01.
Definition kRoutineChecksum : Z := 0x02.
Definition kRoutineControlReply : Z := kSidRoutineControl + 0x40.
Definition kInCarTimeout : Z := 200.
Record InCarExchange := { ice_id : Z; ice_pdu : list Z; ice_length : Z }.
Definition kSidControlDtcSetting : Z := 0x85.
Definition kSidCommunicationControl : Z := 0x28.
Definition kN83mInCarSequence : list InCarExchange :=
  [ {| ice_id := 0x7A2; ice_pdu := [kSidDiagnosticSessionControl; 0xC0; 0]; ice_length := 2 |};
    {| ice_id := 0x7E0; ice_pdu := [kSidDiagnosticSessionControl; 0x63; 0]; ice_length := 2 |};
    {| ice_id := 0x7DF; ice_pdu := [kSidDiagnosticSessionControl; kSessionExtendedDiagnostic; 0]; ice_length := 2 |};
    {| ice_id := 0x7E1; ice_pdu := [kSidDiagnosticSessionControl; 0x63; 0]; ice_length := 2 |};
    {| ice_id := 0x7B0; ice_pdu := [kSidDiagnosticSessionControl; kSessionExtendedDiagnostic; 0]; ice_length := 2 |};
    {| ice_id := 0x7B0; ice_pdu := [kSidControlDtcSetting; 0x02; 0]; ice_length := 2 |};
    {| ice_id := 0x7DF; ice_pdu := [kSidControlDtcSetting; 0x02; 0]; ice_length := 2 |};
    {| ice_id := 0x7B0; ice_pdu := [kSidControlDtcSetting; 0x02; 0]; ice_length := 2 |};
    {| ice_id := 0x7DF; ice_pdu := [kSidControlDtcSetting; 0x02; 0]; ice_length := 2 |};
    {| ice_id := 0x7DF; ice_pdu := [kSidCommunicationControl; 0x03; 0x01]; ice_length := 3 |} ].
Definition kShInCarSequence : list InCarExchange :=
  [ {| ice_id := 0x7A2; ice_pdu := [kSidDiagnosticSessionControl; 0xC0; 0]; ice_length := 2 |};
    {| ice_id := 0x7E0; ice_pdu := [kSidDiagnosticSessionControl; 0x63; 0]; ice_length := 2 |};
    {| ice_id := 0x7DF; ice_pdu := [kSidDiagnosticSessionControl; kSessionExtendedDiagnostic; 0]; ice_length := 2 |};
    {| ice_id := 0x7E1; ice_pdu := [kSidDiagnosticSessionControl; kSessionExtendedDiagnostic; 0]; ice_length := 2 |};
    {| ice_id := 0x7B0; ice_pdu := [kSidDiagnosticSessionControl; kSessionExtendedDiagnostic; 0]; ice_length := 2 |};
    {| ice_id := 0x7B0; ice_pdu := [kSidControlDtcSetting; 0x02; 0]; ice_length := 2 |};
    {| ice_id := 0x7DF; ice_pdu := [kSidControlDtcSetting; 0x02; 0]; ice_length := 2 |};
    {| ice_id := 0x7B0; ice_pdu := [kSidControlDtcSetting; 0x02; 0]; ice_length := 2 |};
    {| ice_id := 0x7DF; ice_pdu := [kSidControlDtcSetting; 0x02; 0]; ice_length := 2 |};
    {| ice_id := 0x7DF; ice_pdu := [kSidCommunicationControl; 0x03; 0x01]; ice_length := 3 |} ].
Definition kObkProbeTimeout : Z := 200.
Definition kIdentityPolicy : ExchangePolicy := policy_within 2000.
Definition kSessionProbe : Z := 0x5F.
Definition kSessionInCarOpen : Z := 0x63.
Definition kSessionInCarJump : Z := 0x62.
Definition kSessionBench : Z := 0x43.
Definition kSessionBenchJump : Z := 0x42.
Definition kSessionControlReply : Z := kSidDiagnosticSessionControl + 0x40.
Definition kReadDataByIdentifierReply : Z := kSidReadDataByIdentifier + 0x40.
Definition DensoIso15765DownloadSetupPdu (region : MemoryRegion) : list Z :=
  ComposeBe [FByte kSidRequestDownload; FByte kDataFormatIdentifier; FByte kAddressAndLengthFormat;
             FU32 (reg_start region); FU32 (reg_length region)].
Definition DensoIso15765UploadSetupPdu (region : MemoryRegion) : list Z :=
  ComposeBe [FByte kSidRequestUpload; FByte kDataFormatIdentifier; FByte kAddressAndLengthFormat;
             FU32 (reg_start region); FU32 (reg_length region)].
Section common.
(** The transport, and this family's channel over it. *)
Context `{Env} (can : CanFlashTransport) (channel : UdsChannel).
Definition ExchangeContext (policy : ExchangePolicy) : UdsExchangeContext :=
  {| ctx_channel := channel; ctx_policy := policy |}.
Definition FireAndForget (request_id : Z) (pdu : list Z) (timeout : Z) : M Status :=
  let channel := CanFlashUdsChannel can request_id request_id in
  do! _ <- Send channel pdu;
  do! _ <- Read can timeout;
  ret (Ok tt).
Fixpoint RunInCarSequence (sequence : list InCarExchange) (primary_timeout : Z) : M Status :=
  match sequence with
  | [] => ret (Ok tt)
  | exchange :: sequence =>
      do! _ <- FireAndForget (ice_id exchange) (ztake (ice_length exchange) (ice_pdu exchange))
                 (if ice_id exchange =? 0x7E0 then primary_timeout else kInCarTimeout);
      RunInCarSequence sequence primary_timeout
  end.
Definition ReadDensoEncryptedPage (address : Z) : M (result Error (list Z)) :=
  do! reply <- FatalRequest (ExchangeContext (policy_within 2000)) (ComposeBe [FByte kSidReadMemoryChunk; FU32 address])
                 kDensoIso15765RejectionPrefix ("the flash read at 0x" +:+ fmt_x address);
  ret (Ok (DensoDecryptPage (Payload reply))).
Definition DensoIso15765WriteChunk (address : Z) (encrypted_chunk : list Z) : M Status :=
  do! _ <- FatalRequest (ExchangeContext (policy_within 500))
             (ComposeBe [FByte kSidWriteMemoryChunk; FU32 address; FBytes encrypted_chunk])
             kDensoIso15765RejectionPrefix ("the flash write at 0x" +:+ fmt_x address);
  ret (Ok tt).
Definition kDensoChunkSize : Z := 256.
(** One round of the write loop, the [chunk_index]th chunk of the block. *)
Definition write_chunk (encrypted : list Z) (image_base : Z) (block : MemoryRegion) (chunk_index : Z)
    (progress : PhaseReporter) : M (result Error PhaseReporter) :=
  let block_addr := u32 (reg_start block + chunk_index * kDensoChunkSize) in
  let image_offset := u32 (block_addr - image_base) in
  do! _ <- DensoIso15765WriteChunk block_addr (subspan encrypted image_offset kDensoChunkSize);
  do progress <- Update progress (u32 ((chunk_index + 1) * kDensoChunkSize));
  ret (Ok progress).
Definition DensoIso15765WriteImage (image : list Z) (image_base : Z) (block : MemoryRegion) (progress : PhaseReporter)
    : M (result Error PhaseReporter) :=
  let max_chunks := reg_length block / kDensoChunkSize in
  let encrypted := DensoEncryptRom image in
  for_u32 0 max_chunks 1 (write_chunk encrypted image_base block) progress.
Definition kDensoPageSize : Z := 0x100.
Definition read_page (region : MemoryRegion) (pace_pages : bool) (offset : Z) (s : list Z * PhaseReporter)
    : M (result Error (list Z * PhaseReporter)) :=
  let '(image, progress) := s in
  do! page <- ReadDensoEncryptedPage (u32 (reg_start region + offset));
  let image := image ++ page in
  do progress <- Update progress (u32 (offset + kDensoPageSize));
  do! _ <- (if pace_pages then Sleep 1 else ret (Ok tt));
  ret (Ok (image, progress)).
(** A transfer exit, tried until it is answered, whose outcome does not matter. *)
Fixpoint best_effort_exit (attempts : nat) (policy : ExchangePolicy) (log_prefix : string) : M unit :=
  match attempts with
  | O => ret tt
  | S attempts =>
      do r <- Request channel [kSidRequestTransferExit] policy;
      match r with
      | Ok frame => Log LInfo (log_prefix +:+ ToHex frame)
      | Err _ => best_effort_exit attempts policy log_prefix
      end
  end.
Definition DensoIso15765ReadDump (region : MemoryRegion) (lead_pad_len tail_pad_len : Z) (progress : PhaseReporter)
    (pace_pages : bool) : M (result Error (list Z * PhaseReporter)) :=
  do _ <- Log LInfo "Start reading ROM, please wait...";
  do! (image, progress) <- for_u32 0 (reg_length region) kDensoPageSize (read_page region pace_pages)
                             (zrepeat lead_pad_len 0xFF, progress);
  do _ <- Log LInfo "ROM read complete";
  do _ <- Log LInfo "Sending stop command";
  do _ <- best_effort_exit 6 (policy_within 500) "Stop request response: ";
  ret (Ok (image ++ zrepeat tail_pad_len 0xFF, progress)).
Definition DensoIso15765BestEffortTransferExit : M unit :=
  do _ <- Log LInfo "Closing out Flashing of this block";
  best_effort_exit 6 (policy_within 200) "Closed successfully: ".
(** The dialect's [FatalQuery]. *)
Definition DensoFatalQuery (pdu expected_prefix : list Z) (policy : ExchangePolicy) (subject : string)
    (min_payload_size : option Z) : M (result Error (list Z)) :=
  FatalQuery (ExchangeContext policy) pdu expected_prefix kDensoIso15765RejectionPrefix subject min_payload_size.
Definition verify_request : list Z := [kSidRoutineControl; kRoutineControlStart; kRoutineIdHigh; kRoutineChecksum; 0x01].
Definition DensoIso15765CloseAndVerifyChecksum (checksum_policy : ExchangePolicy) : M Status :=
  do _ <- DensoIso15765BestEffortTransferExit;
  do! _ <- Sleep 100;
  do _ <- Log LInfo "Verifying checksum";
  do! _ <- DensoFatalQuery verify_request [kRoutineControlStart; kRoutineIdHigh] checksum_policy "checksum verify" None;
  do _ <- Log LInfo "Checksum verified";
  ret (Ok tt).
Definition DensoIso15765WriteImageAndVerifyChecksum (image : list Z) (image_base : Z) (block : MemoryRegion)
    (progress : PhaseReporter) (checksum_policy : ExchangePolicy) : M (result Error PhaseReporter) :=
  do! progress <- DensoIso15765WriteImage image image_base block progress;
  do! _ <- DensoIso15765CloseAndVerifyChecksum checksum_policy;
  ret (Ok progress).
Definition jump_acknowledged (session : Z) (reply : option (list Z)) : bool :=
  match reply with
  | Some f => (1 <? zlen f) && (zget f 0 =? kSidDiagnosticSessionControl + 0x40) && (zget f 1 =? session)
  | None => false
  end.
Fixpoint DensoIso15765WaitForJumpAck (session : Z) (first_reply : option (list Z)) (attempt_count : nat)
    (receive_timeout : Z) : M Status :=
  match attempt_count with
  | O => do _ <- Log LError "Kernel jump was not acknowledged; continuing, as legacy does"; ret (Ok tt)
  | S attempt_count =>
      if jump_acknowledged session first_reply then do _ <- Log LInfo "Kernel jump acknowledged"; ret (Ok tt)
      else
        do! _ <- Sleep 100;
        do! received <- Receive channel receive_timeout;
        DensoIso15765WaitForJumpAck session received attempt_count receive_timeout
  end.
Definition DensoIso15765JumpToKernel (session : Z) (max_tries : nat) (first_read_timeout loop_read_timeout : Z)
    (discard_first_reply : bool) : M Status :=
  do _ <- Log LInfo "Jump to onboad kernel";
  do! _ <- Send channel [kSidDiagnosticSessionControl; session];
  do! first <- Receive channel first_read_timeout;
  do! reply <- (if negb discard_first_reply then ret (Ok first)
                else do! _ <- Sleep 50; Receive channel first_read_timeout);
  DensoIso15765WaitForJumpAck session reply max_tries loop_read_timeout.
Definition TolerantProbe (pdu : list Z) (expected_service expected_subfunction timeout : Z) (subject : string)
    : M (result Error (list Z)) :=
  do! _ <- Send channel pdu;
  do! received <- Receive channel timeout;
  match received with
  | Some frame =>
      if zlen frame <? 2 then
        do _ <- Log LError "No valid response from ECU";
        ret (Fail kTimeout ("no response from ECU during the " +:+ subject))
      else
        do _ <- (if negb (zget frame 0 =? expected_service) || negb (zget frame 1 =? expected_subfunction) then
                   Log LError (kDensoIso15765RejectionPrefix +:+ ToHex frame)
                 else ret tt);
        ret (Ok frame)
  | None =>
      do _ <- Log LError "No valid response from ECU";
      ret (Fail kTimeout ("no response from ECU during the " +:+ subject))
  end.
Definition DensoObkIsActive (active_log : string) : M (result Error bool) :=
  do _ <- Log LInfo "Checking if OBK is active...";
  do! _ <- Send channel [kSidDiagnosticSessionControl; kSessionProbe];
  do! obk <- Receive channel kObkProbeTimeout;
  if match obk with
     | Some f => bool_decide (ztake 2 f = [kSessionControlReply; kSessionProbe])
     | None => false
     end
  then do _ <- Log LInfo active_log; ret (Ok true)
  else do _ <- Log LInfo "OBK not active, initialising ECU..."; ret (Ok false).
Definition DensoEcuIdQuery : M unit :=
  do _ <- Log LInfo "Requesting ECU ID";
  NonFatalQuery (ExchangeContext kIdentityPolicy) [kSidEcuIdQuery] None kDensoIso15765RejectionPrefix "ECU ID".
Definition DensoVehicleInfoQueries : M unit :=
  let exchange := ExchangeContext kIdentityPolicy in
  do _ <- Log LInfo "Requesting VIN";
  do _ <- NonFatalQuery exchange [kSidVehicleInfoRequest; kVehicleInfoPidVin] (Some kVehicleInfoPidVin)
            kDensoIso15765RejectionPrefix "VIN";
  do _ <- Log LInfo "Requesting CAL ID";
  do _ <- NonFatalQuery exchange [kSidVehicleInfoRequest; kVehicleInfoPidCalId] (Some kVehicleInfoPidCalId)
            kDensoIso15765RejectionPrefix "CAL ID";
  do _ <- Log LInfo "Requesting CVN";
  NonFatalQuery exchange [kSidVehicleInfoRequest; kVehicleInfoPidCvn] (Some kVehicleInfoPidCvn)
    kDensoIso15765RejectionPrefix "CVN".
Definition DensoProgrammingBranchIsInCar (probe_timeout : Z) : M (result Error bool) :=
  do _ <- Log LInfo "Checking access method";
  do! _ <- TolerantProbe [kSidDiagnosticSessionControl; kSessionProbe] kSessionControlReply 0x01 probe_timeout
             "access-method probe";
  do! selector <- TolerantProbe [kSidReadDataByIdentifier; 0x10; 0x1D] kReadDataByIdentifierReply 0x10 probe_timeout
                    "programming-branch selector";
  if zlen selector <? 4 then
    do _ <- Log LError "Wrong response from ECU: programming-branch selector reply is too short";
    ret (Fail kBadResponse "programming-branch selector reply is too short")
  else ret (Ok (negb (zget selector 3 =? 0xFF))).
Definition DensoSecurityAccess : M Status :=
  let exchange := ExchangeContext kSecurityAccessPolicy in
  do _ <- Log LInfo "Starting seed request";
  do! seed_reply <- FatalQuery exchange [kSidSecurityAccess; kDensoRequestSeed] [kDensoRequestSeed]
                      kDensoIso15765RejectionPrefix "seed request" (Some 5);
  do _ <- Log LInfo "Seed request ok";
  let key := DensoSeedKey (subspan (Payload seed_reply) 1 4) in
  do _ <- Log LInfo "Sending seed key";
  do! _ <- FatalQuery exchange (ComposeBe [FByte kSidSecurityAccess; FByte kDensoSendKey; FBytes key]) [kDensoSendKey]
             kDensoIso15765RejectionPrefix "seed key" None;
  do _ <- Log LInfo "Seed key ok";
  ret (Ok tt).
Definition erase_request : list Z :=
  [kSidRoutineControl; kRoutineControlStart; kRoutineIdHigh; kRoutineErase; 0xff; 0xff; 0xff; 0xff].
Definition erase_done (f : list Z) : bool :=
  (2 <? zlen f) && (zget f 0 =? kRoutineControlReply) && (zget f 1 =? kRoutineControlStart) && (zget f 2 =? kRoutineIdHigh).
Fixpoint erase_poll (attempts : nat) : M Status :=
  match attempts with
  | O => do _ <- Log LError "Flash area erase failed"; ret (Fail kBadResponse "flash area erase failed")
  | S attempts =>
      do! received <- Receive channel kEraseTimeout;
      if match received with Some f => erase_done f | None => false end then
        do _ <- Log LInfo "Flash erased! Starting flash write, do not power off!"; ret (Ok tt)
      else do! _ <- Sleep kEraseTimeout; erase_poll attempts
  end.
Definition DensoIso15765Erase (region : MemoryRegion) : M Status :=
  do _ <- Log LInfo "Setting flash start & length";
  do! _ <- FatalQuery (ExchangeContext kErasePolicy) (DensoIso15765DownloadSetupPdu region) [0x20; 0x01; 0x05]
             kDensoIso15765RejectionPrefix "flash start & length setup" None;
  do _ <- Log LInfo "Erasing ECU ROM";
  do! _ <- Send channel erase_request;
  do! _ <- Sleep kEraseTimeout;
  erase_poll kErasePollLimit.
Definition N83mInCarFireAndForget : M Status := RunInCarSequence kN83mInCarSequence kInCarTimeout.
Definition ShInCarFireAndForget (primary_timeout : Z) : M Status := RunInCarSequence kShInCarSequence primary_timeout.
Definition DensoIso15765ConnectInCar (run : DensoInCarRun) (read_timeout : Z) : M Status :=
  do _ <- Log LInfo "In car programming: accessing, please wait...";
  let policy := policy_within read_timeout in
  do! _ <- Sleep 500;
  do! _ <- TolerantProbe [kSidDiagnosticSessionControl; kSessionProbe] kSessionControlReply 0x01 read_timeout
             "in-car access-method probe";
  do! _ <- (match run with kSh => ShInCarFireAndForget read_timeout | kN83m => N83mInCarFireAndForget end);
  do! _ <- DensoSecurityAccess;
  do! _ <- DensoFatalQuery [kSidDiagnosticSessionControl; kSessionProbe] [kSessionInCarOpen] policy
             "in-car session confirmation" None;
  do! _ <- DensoFatalQuery [kSidReadDataByIdentifier; 0x10; 0x1D] [0x10] policy "in-car programming-mode confirmation" None;
  DensoIso15765JumpToKernel kSessionInCarJump 10 read_timeout read_timeout false.
Definition DensoIso15765ConnectBench (arm : DensoBenchArm) : M Status :=
  do _ <- Log LInfo "Bench programming: accessing, please wait...";
  let session_pdu := [kSidDiagnosticSessionControl; kSessionBench] in
  do! _ <- Sleep (settle arm);
  do! _ <- (match session_reply arm with
            | kTolerantProbe => TolerantProbe session_pdu kSessionControlReply kSessionBench (session_timeout arm)
                                  "bench diagnostic session"
            | kFatalSession => DensoFatalQuery session_pdu [kSessionBench] (policy_within (session_timeout arm))
                                 "bench diagnostic session" None
            end);
  do! _ <- DensoSecurityAccess;
  DensoIso15765JumpToKernel kSessionBenchJump 50 (jump_first_read arm) (jump_loop_read arm) (discard_first_reply arm).
End common.

(** ** [denso_iso15765_bootloader_executor.cpp] *)
Section executor.
Context `{Env} (can : CanFlashTransport) (channel : UdsChannel).
Definition did_request : list Z := [kSidReadDataByIdentifier; 0xF1; 0x82].
Definition DidF182Query : M unit :=
  let expected_did := [0xF1; 0x82] in
  do reply <- Request channel did_request (policy_within 2000);
  match reply with
  | Err e => Log LError (kDensoIso15765RejectionPrefix +:+ detail e)
  | Ok reply =>
      let payload := Payload reply in
      if (zlen payload <? 2) || negb (bool_decide (ztake 2 payload = expected_did)) then
        Log LError (kDensoIso15765RejectionPrefix +:+ "unexpected ECU ID response")
      else Log LInfo ("ECU ID: " +:+ ToHex (ztake 5 (zdrop 2 payload)))
  end.
Definition IdentityQuery (query : DensoIdentityQuery) : M unit :=
  match query with
  | kDidF182 => do _ <- Log LInfo "Requesting ECU ID"; DidF182Query
  | kEcuIdService => DensoEcuIdQuery channel
  end.
Definition ConnectBootloader (profile : DensoIso15765BootloaderProfile) : M Status :=
  do! obk_active <- DensoObkIsActive channel (obk_active_log profile);
  if obk_active : bool then ret (Ok tt)
  else
    do _ <- IdentityQuery (identity_query profile);
    do _ <- DensoVehicleInfoQueries channel;
    do! in_car <- DensoProgrammingBranchIsInCar channel (probe_timeout profile);
    if in_car : bool then DensoIso15765ConnectInCar can channel (in_car_run profile) (in_car_timeout profile)
    else DensoIso15765ConnectBench channel (bench profile).
Definition StartAndLengthLine (region : MemoryRegion) : string :=
  "Setting flash start: 0x" +:+ fmt_x (reg_start region) +:+ " and length: 0x" +:+ fmt_x (reg_length region).
Definition TolerantSetup (pdu expected_prefix : list Z) (timeout : Z) : M Status :=
  do! _ <- Send channel pdu;
  do! received <- Receive channel timeout;
  do _ <- match received with
          | None => Log LError "No valid response from ECU"
          | Some frame =>
              if zlen frame <? 4 then Log LError "No valid response from ECU"
              else if negb (bool_decide (ztake (zlen expected_prefix) frame = expected_prefix)) then
                Log LError (kDensoIso15765RejectionPrefix +:+ ToHex frame)
              else ret tt
          end;
  ret (Ok tt).
Definition DumpSetup (profile : DensoIso15765BootloaderProfile) (pdu : list Z) (reply_service tail : Z) (subject : string)
    : M Status :=
  match read_setup_reply profile with
  | kTolerantReply =>
      TolerantSetup pdu [reply_service; 0x20; 0x01; tail] (read_timeout (read_setup_policy profile))
  | kFatalSetup =>
      do! _ <- FatalQuery (ExchangeContext channel (read_setup_policy profile)) pdu [0x20; 0x01; tail]
                 kDensoIso15765RejectionPrefix subject None;
      ret (Ok tt)
  end.
Definition ReadMemory (profile : DensoIso15765BootloaderProfile) (family : PaddedCanPlan) (region : MemoryRegion)
    (progress : PhaseReporter) : M (result Error (list Z * PhaseReporter)) :=
  do _ <- Log LInfo (match region_log profile with
                     | kStartAndLength => StartAndLengthLine region
                     | kDumpAndBlock => "Setting dump start & length"
                     end);
  do! _ <- DumpSetup profile (DensoIso15765DownloadSetupPdu region) (kSidRequestDownload + 0x40) 0x05
             "dump start & length setup";
  do! _ <- DumpSetup profile (DensoIso15765UploadSetupPdu region) (kSidRequestUpload + 0x40) 0x01 "dump upload setup";
  DensoIso15765ReadDump channel region (lead_pad_len family) (tail_pad_len family) progress (pace_pages profile).
Definition ReflashBlock (profile : DensoIso15765BootloaderProfile) (image : list Z) (block : MemoryRegion)
    (progress : PhaseReporter) : M (result Error PhaseReporter) :=
  do _ <- Log LInfo (match region_log profile with
                     | kStartAndLength => StartAndLengthLine block
                     | kDumpAndBlock => "Flash block addr: 0x" +:+ fmt_08X (reg_start block) +:+ " len: 0x"
                                        +:+ fmt_08X (reg_length block)
                     end);
  DensoIso15765WriteImageAndVerifyChecksum channel image (image_start profile) block progress (checksum_policy profile).
Definition EraseBlock (profile : DensoIso15765BootloaderProfile) (region : MemoryRegion) : M Status :=
  do _ <- Log LInfo ("Blocks to flash: " +:+ fmt_d (write_block_index profile) +:+ ",  (total: 1)");
  do _ <- Log LInfo "--- Erasing ECU flash memory ---";
  DensoIso15765Erase channel region.
Definition WriteBlock (profile : DensoIso15765BootloaderProfile) (region : MemoryRegion) (image : list Z)
    (progress : PhaseReporter) : M (result Error PhaseReporter) :=
  do _ <- Log LInfo "--- Start writing ROM file to ECU flash memory ---";
  do! progress <- ReflashBlock profile image region progress;
  do _ <- Log LInfo ("Block " +:+ fmt_d (write_block_index profile) +:+ " reflash complete.");
  ret (Ok progress).
End executor.
Section family.
Context `{Env}.
Definition Setup (family : PaddedCanPlan) : result Error Iso15765Config := Ok (Iso15765ConfigFrom (pad_can family)).
Definition bootloader (profile : DensoIso15765BootloaderProfile) (family : PaddedCanPlan) (plan : FlashPlan)
    (transport : CanFlashTransport) : Bootloader :=
  let channel := CanFlashUdsChannel transport (can_request_id (pad_can family)) (can_response_id (pad_can family)) in
  {| bl_connect := ConnectBootloader transport channel profile;
     bl_read := ReadMemory channel profile family (TransferRegion plan);
     bl_erase := EraseBlock channel profile (TransferRegion plan);
     bl_write := WriteBlock channel profile (TransferRegion plan) |}.
Definition Run (profile : DensoIso15765BootloaderProfile) (family : PaddedCanPlan) (plan : FlashPlan)
    (transport : CanFlashTransport) : M (result Error FlashExecutionResult) :=
  RunBootloader (bootloader profile family plan transport) plan (unit_ profile).
(** The four instantiations of [DensoIso15765BootloaderExecutor]. *)
Definition As1n83m15m (p : FamilyPlan) : option PaddedCanPlan :=
  match fp_value p with Some (SubaruDenso1n83m_1_5mCanPlan p) => Some p | _ => None end.
Definition As1n83m4m (p : FamilyPlan) : option PaddedCanPlan :=
  match fp_value p with Some (SubaruDenso1n83m_4mCanPlan p) => Some p | _ => None end.
Definition AsSh72531 (p : FamilyPlan) : option PaddedCanPlan :=
  match fp_value p with Some (SubaruDensoSh72531CanPlan p) => Some p | _ => None end.
Definition AsSh72543Diesel (p : FamilyPlan) : option PaddedCanPlan :=
  match fp_value p with Some (SubaruDensoSh72543CanDieselPlan p) => Some p | _ => None end.
Definition Executor1n83m15m : ICanFlashExecutor :=
  FamilyExecutor kSubaruDenso1n83m15mCan As1n83m15m Denso1n83m15mCan.Validate Setup (Run profile_1n83m_1_5m).
Definition Executor1n83m4m : ICanFlashExecutor :=
  FamilyExecutor kSubaruDenso1n83m4mCan As1n83m4m Denso1n83m4mCan.Validate Setup (Run profile_1n83m_4m).
Definition ExecutorSh72531 : ICanFlashExecutor :=
  FamilyExecutor kSubaruDensoSh72531Can AsSh72531 DensoSh72531Can.Validate Setup (Run profile_sh72531).
Definition ExecutorSh72543Diesel : ICanFlashExecutor :=
  FamilyExecutor kSubaruDensoSh72543CanDiesel AsSh72543Diesel DensoSh72543CanDiesel.Validate Setup
    (Run profile_sh72543_diesel).
End family.
