(* ===== verification/DensoFlashing.v ===== *)
(** * DensoFlashing: what the Denso bootloader executors do to a unit

    The executors of [DensoBootloader] keep the bootloader contract of [FlashLogic];
    with it, what their attempts put on the bus, what a successful write leaves in
    the flash and where the image of a successful read comes from. *)
From S2P Require Import Prelude Bytes Ssm Uds Ports UdsClient CanFlash FlashDevices FlashPlan SingleWindowPlans FlashExecution FlashLogic FlashMemory DensoBootloader.

#[local] Opaque CalculatePayload CalculateSeedKey.

Definition denso_harmless : list Z -> Prop := framed (harmless_pdu erase_request).
Lemma denso_harmless_wrap id pdu : u8 (zget pdu 0) <> kSidWriteMemoryChunk -> pdu <> erase_request -> denso_harmless (wrap_can id pdu).
Proof. intros H1 H2. by apply framed_wrap. Qed.
(** A frame of the given service, and of no other. *)
Ltac denso_frame := apply denso_harmless_wrap; [by cbn|by cbn].

Section steps.
Context `{Env} (id : Z) (channel : UdsChannel) (unwrap : list Z -> option (list Z))
  {HC : ChannelSpec channel (wrap_can id) unwrap}.
Abbreviation wrap := (wrap_can id).
Local Instance denso_context policy : ChannelSpec (ctx_channel (ExchangeContext channel policy)) wrap unwrap := HC.

(** ** Connecting *)
Lemma harmless_guarded_Read timeout : harmlessly denso_harmless (Read (GuardedCanFlashTransport adapter) timeout).
Proof.
  apply (runs_weaken _ _ _ (runs_guarded_Read timeout)). intros a d [W _]. rewrite written_writes, W. constructor.
Qed.
Lemma harmless_FireAndForget request_id pdu timeout :
  denso_harmless (wrap_can request_id pdu) ->
  harmlessly denso_harmless (FireAndForget (GuardedCanFlashTransport adapter) request_id pdu timeout).
Proof.
  intros Hp. unfold FireAndForget. cbv zeta.
  apply harmlessly_try; [exact (harmlessly_Send denso_harmless _ (HC := CanFlashUdsChannel_spec request_id request_id) pdu Hp)|]. intros _.
  apply harmlessly_try; [apply harmless_guarded_Read|]. intros _. by apply harmlessly_quiet, quiet_ret.
Qed.
Lemma harmless_RunInCarSequence sequence timeout :
  Forall (fun x => u8 (zget (ztake (ice_length x) (ice_pdu x)) 0) <> kSidWriteMemoryChunk
    /\ ztake (ice_length x) (ice_pdu x) <> erase_request) sequence ->
  harmlessly denso_harmless (RunInCarSequence (GuardedCanFlashTransport adapter) sequence timeout).
Proof.
  induction 1 as [|x sequence [H1 H2] _ IH]; cbn [RunInCarSequence]; [by apply harmlessly_quiet, quiet_ret|].
  apply harmlessly_try; [|done]. by apply harmless_FireAndForget, denso_harmless_wrap.
Qed.
Lemma harmless_WaitForJumpAck session n timeout reply :
  harmlessly denso_harmless (DensoIso15765WaitForJumpAck channel session reply n timeout).
Proof. revert reply. induction n as [|n IH]; intros reply; cbn [DensoIso15765WaitForJumpAck]; harmless; apply IH. Qed.
Lemma harmless_JumpToKernel session n t1 t2 discard :
  harmlessly denso_harmless (DensoIso15765JumpToKernel channel session n t1 t2 discard).
Proof.
  unfold DensoIso15765JumpToKernel. harmless; try apply harmless_WaitForJumpAck. denso_frame.
Qed.
Lemma harmless_SecurityAccess : harmlessly denso_harmless (DensoSecurityAccess channel).
Proof. unfold DensoSecurityAccess, ExchangeContext. harmless; denso_frame. Qed.
Lemma harmless_TolerantProbe pdu s f t subject :
  denso_harmless (wrap pdu) -> harmlessly denso_harmless (TolerantProbe channel pdu s f t subject).
Proof. intros Hp. unfold TolerantProbe. by harmless. Qed.
Lemma harmless_ConnectInCar run timeout :
  harmlessly denso_harmless (DensoIso15765ConnectInCar (GuardedCanFlashTransport adapter) channel run timeout).
Proof.
  unfold DensoIso15765ConnectInCar, N83mInCarFireAndForget, ShInCarFireAndForget, DensoFatalQuery, ExchangeContext.
  harmless; try apply harmless_JumpToKernel; try apply harmless_SecurityAccess; try apply harmless_TolerantProbe;
    try (apply harmless_RunInCarSequence; repeat constructor; by cbn); denso_frame.
Qed.
Lemma harmless_ConnectBench arm : harmlessly denso_harmless (DensoIso15765ConnectBench channel arm).
Proof.
  unfold DensoIso15765ConnectBench, DensoFatalQuery, ExchangeContext.
  harmless; try apply harmless_JumpToKernel; try apply harmless_SecurityAccess; try apply harmless_TolerantProbe; denso_frame.
Qed.
Lemma denso_connect_harmless profile :
  harmlessly denso_harmless (ConnectBootloader (GuardedCanFlashTransport adapter) channel profile).
Proof.
  unfold ConnectBootloader, DensoObkIsActive, IdentityQuery, DidF182Query, DensoEcuIdQuery, DensoVehicleInfoQueries,
    DensoProgrammingBranchIsInCar, ExchangeContext.
  harmless; try apply harmless_ConnectInCar; try apply harmless_ConnectBench; try apply harmless_TolerantProbe; denso_frame.
Qed.

(** ** Erasing *)
Definition denso_erase_sequence (region : MemoryRegion) : list (list Z) :=
  [wrap (DensoIso15765DownloadSetupPdu region)] ++ [wrap erase_request].
Lemma does_erase_poll n :
  does (erase_poll channel n) (fun res w r => w = [] /\ (is_ok res = true -> answered_by unwrap erase_done r)).
Proof.
  induction n as [|n IH]; cbn [erase_poll].
  { apply does_quiet; [apply quiet_Log|]. intros _. by apply does_ret. }
  apply (does_try _ _ _ _ (does_Receive channel wrap unwrap kEraseTimeout)); [|by intros e w r [-> _]].
  intros received w1 r1 [-> Hr].
  assert (does (do! _ <- Sleep kEraseTimeout; erase_poll channel n) (fun res w r => [] ++ w = []
    /\ (is_ok res = true -> answered_by unwrap erase_done (r1 ++ r)))) as Hagain.
  { apply does_quiet; [apply quiet_Sleep|]. intros [[]|e]; [|by apply does_ret]. apply (does_weaken _ _ _ IH).
    intros res w r [-> Ha]. split; [done|]. intros Hok. apply answered_by_app. auto. }
  destruct received as [f|]; [destruct (erase_done f) eqn:Hf|]; [|exact Hagain|exact Hagain].
  apply does_quiet; [apply quiet_Log|]. intros _. apply does_ret. split; [done|]. intros _. rewrite app_nil_r.
  destruct (Hr f eq_refl) as (raw & -> & U). by apply (answered_by_one unwrap _ raw f).
Qed.
Lemma does_EraseBlock profile region :
  does (EraseBlock channel profile region) (fun res w r => if is_ok res
    then exactly (denso_erase_sequence region) w /\ answered_by unwrap erase_done r
    else begun (exactly (denso_erase_sequence region)) w).
Proof.
  unfold EraseBlock, DensoIso15765Erase. do 3 (apply does_quiet; [apply quiet_Log|]; intros _).
  pose proof (follows_FatalQuery (ExchangeContext channel kErasePolicy) wrap unwrap (DensoIso15765DownloadSetupPdu region)
    [0x20; 0x01; 0x05] kDensoIso15765RejectionPrefix "flash start & length setup" None) as Hs. unfold follows in Hs.
  apply (does_try _ _ _ _ Hs); cbn [is_ok].
  2:{ intros e w r Hw. by apply (script_stop _ _ false). }
  intros f w1 r1 ->. apply does_quiet; [apply quiet_Log|]. intros _.
  assert (does (do! _ <- Sleep kEraseTimeout; erase_poll channel kErasePollLimit) (fun res w r => w = []
    /\ (is_ok res = true -> answered_by unwrap erase_done r))) as Hpoll.
  { apply does_quiet; [apply quiet_Sleep|]. intros [[]|e]; [apply does_erase_poll|by apply does_ret]. }
  refine (does_weaken _ _ _ (does_send_and_wait channel wrap unwrap erase_request _ _ Hpoll) _).
  intros [[]|e] w r; cbn [is_ok].
  - intros [-> Ha]. split; [done|]. apply answered_by_app. by right.
  - intros Hw. by apply (script_app [_] [_] false).
Qed.

(** ** Writing *)
Lemma emits_best_effort_exit n policy prefix :
  emits (upto n (wrap [kSidRequestTransferExit])) (best_effort_exit channel n policy prefix).
Proof.
  induction n as [|n IH]; cbn [best_effort_exit]; [apply emits_quiet; [apply quiet_ret|apply upto_nil]|].
  apply emits_again; [apply (emits_Request channel wrap unwrap)|]. intros [f|e]; [|done].
  apply emits_quiet; [apply quiet_Log|apply upto_nil].
Qed.
Lemma emits_close : emits (upto 6 (wrap [kSidRequestTransferExit])) (DensoIso15765BestEffortTransferExit channel).
Proof. apply (does_quiet _ _ _ (quiet_Log _ _)). intros _. apply emits_best_effort_exit. Qed.
Definition denso_block (encrypted : list Z) (region : MemoryRegion) : list (list Z) :=
  chunk_frames chunk32 id (reg_start region) 256 (reg_length region / 256) encrypted.
Definition denso_writing (profile : DensoIso15765BootloaderProfile) (region : MemoryRegion) (image : list Z) : lang :=
  cat (exactly (denso_block (subspan (DensoEncryptRom image) (reg_start region - image_start profile) (reg_length region)) region))
    (cat (upto 6 (wrap [kSidRequestTransferExit])) (exactly [wrap verify_request])).
(** A window of the image: whole chunks inside it. *)
Definition denso_window (profile : DensoIso15765BootloaderProfile) (region : MemoryRegion) : Prop :=
  0 <= image_start profile <= reg_start region /\ 0 <= reg_length region
  /\ reg_length region = 256 * (reg_length region / 256) /\ reg_start region + reg_length region < 2 ^ 32.
Lemma follows_write_chunk profile encrypted region k p :
  denso_window profile region -> 0 <= k < reg_length region / 256 ->
  follows (exactly [wrap (chunk32 (reg_start region + 256 * k)
      (subspan (subspan encrypted (reg_start region - image_start profile) (reg_length region)) (256 * k) 256))])
    (write_chunk channel encrypted (image_start profile) region k p).
Proof.
  intros (H0 & H1 & H2 & H3) Hk. unfold write_chunk, kDensoChunkSize. cbv zeta.
  replace (k * 256) with (256 * k) by lia. rewrite (u32_small (reg_start region + 256 * k)) by (unfold u32_ok; lia).
  rewrite u32_small by (unfold u32_ok; lia). rewrite subspan_subspan by lia.
  replace (reg_start region - image_start profile + 256 * k) with (reg_start region + 256 * k - image_start profile) by lia.
  apply follows_last.
  - unfold DensoIso15765WriteChunk.
    apply follows_last; [apply (follows_FatalRequest (ExchangeContext channel (policy_within 500)) wrap unwrap)|].
    intros _. by apply follows_ok.
  - intros _. apply follows_quiet; [apply quiet_Update|]. intros p'. by apply follows_ok.
Qed.
Lemma follows_WriteBlock profile region image p :
  denso_window profile region -> follows (denso_writing profile region image) (WriteBlock channel profile region image p).
Proof.
  intros Hw. unfold WriteBlock, ReflashBlock, DensoIso15765WriteImageAndVerifyChecksum, DensoIso15765CloseAndVerifyChecksum.
  apply follows_quiet; [apply quiet_Log|]. intros _.
  apply follows_last; [|intros p'; apply follows_quiet; [apply quiet_Log|]; intros _; by apply follows_ok].
  apply follows_quiet; [apply quiet_Log|]. intros _. apply follows_try.
  - unfold DensoIso15765WriteImage, kDensoChunkSize. cbv zeta.
    pose proof (follows_for_u32 0 1 (reg_length region / 256) (write_chunk channel (DensoEncryptRom image) (image_start profile) region)
      (fun k => [wrap (chunk32 (reg_start region + 256 * k) (subspan (subspan (DensoEncryptRom image)
        (reg_start region - image_start profile) (reg_length region)) (256 * k) 256))]) p) as Hl.
    rewrite Z.add_0_l, Z.mul_1_l in Hl. destruct Hw as (H0 & H1 & H2 & H3).
    refine (follows_weaken _ _ _ (Hl ltac:(lia) ltac:(lia) ltac:(lia) ltac:(lia) _) _).
    + intros k p' Hk. rewrite Z.add_0_l, Z.mul_1_l. by apply follows_write_chunk.
    + intros w ->. unfold denso_block, chunk_frames, exactly. by rewrite concat_singletons.
  - auto with langs.
  - intros p'. apply follows_last; [|intros _; by apply follows_ok].
    apply follows_emits; [apply emits_close|]. intros _.
    apply follows_quiet_try; [apply quiet_Sleep|auto with langs|]. intros _.
    apply follows_quiet; [apply quiet_Log|]. intros _.
    apply follows_last; [apply (follows_FatalQuery (ExchangeContext channel (checksum_policy profile)) wrap unwrap)|].
    intros _. apply follows_quiet; [apply quiet_Log|]. intros _. by apply follows_ok.
Qed.

(** ** Reading *)
Definition denso_page_request (address : Z) : list Z := ComposeBe [FByte kSidReadMemoryChunk; FU32 address].
Definition denso_pages (region : MemoryRegion) : list (list Z) :=
  map (fun k => wrap (denso_page_request (reg_start region + 256 * k))) (seqZ 0 (reg_length region / 256)).
Definition denso_answer : list Z -> list (result Error (option (list Z))) -> Prop := answered unwrap kSidReadMemoryChunk.
Lemma does_read_page region pace k s :
  reg_start region + 256 * k < 2 ^ 32 -> 0 <= reg_start region -> 0 <= k ->
  does (read_page channel region pace (256 * k) s) (fun res w r =>
    script [wrap (denso_page_request (reg_start region + 256 * k))] (is_ok res) w
    /\ forall s', res = Ok s' -> appends_page denso_answer DensoDecryptPage k s s' r).
Proof.
  intros He H0 Hk. destruct s as [image p]. unfold read_page, ReadDensoEncryptedPage. rewrite u32_small by (unfold u32_ok; lia).
  apply (does_try _ _ (fun res w r => script [wrap (denso_page_request (reg_start region + 256 * k))] (is_ok res) w
    /\ forall page, res = Ok page -> exists f, denso_answer f r /\ page = DensoDecryptPage (Payload f))).
  - apply (does_try _ _ _ _ (does_FatalRequest (ExchangeContext channel (policy_within 2000)) wrap unwrap _ _ _)).
    + intros f w1 r1 Hs. apply does_ret. rewrite !app_nil_r. pose proof (proj2 (proj2 Hs f eq_refl)) as Ha.
      apply sends_once_follows in Hs. split; [done|]. intros page [= <-]. by exists f.
    + intros e w r Hs%sends_once_follows. by split.
  - intros page w1 r1 [Hw Hp]. destruct (Hp page eq_refl) as (f & Hf & ->). cbv zeta.
    apply does_quiet; [apply quiet_Update|]. intros p'. apply does_quiet; [destruct pace; auto with ports|].
    intros [[]|e]; apply does_ret; rewrite !app_nil_r.
    + split; [done|]. intros s' [= <-]. by exists f.
    + split; [by apply (script_weaken _ true)|done].
  - intros e w r [Hw _]. by split.
Qed.
Lemma does_denso_pages region pace lead p :
  reg_length region = 256 * (reg_length region / 256) -> 0 <= reg_start region -> 0 <= reg_length region ->
  reg_start region + reg_length region < 2 ^ 32 ->
  does (for_u32 0 (reg_length region) kDensoPageSize (read_page channel region pace) (lead, p)) (fun res w r =>
    script (denso_pages region) (is_ok res) w /\ forall rom p, res = Ok (rom, p) ->
      exists frames, zlen frames = reg_length region / 256 /\ rom = lead ++ decrypted DensoDecryptPage frames
        /\ replies denso_answer frames r).
Proof.
  intros Hm H0 H1 He. set (n := reg_length region / 256) in *.
  pose proof (does_for_u32 0 256 n (read_page channel region pace)
    (fun k => [wrap (denso_page_request (reg_start region + 256 * k))]) (appends_page denso_answer DensoDecryptPage)
    ltac:(lia) ltac:(lia) ltac:(lia)) as Hloop.
  rewrite Z.add_0_l, <- Hm in Hloop. unfold kDensoPageSize.
  refine (does_weaken _ _ _ (Hloop _ (lead, p) ltac:(lia)) _).
  - intros k s Hk. rewrite Z.add_0_l. apply does_read_page; lia.
  - intros res w r [Hw Hs]. unfold loop_frames in Hw. rewrite concat_singletons, Z.sub_0_r in Hw. split; [done|].
    intros rom p' E. destruct (steps_pages _ _ _ _ _ _ _ (Hs _ E) ltac:(lia)) as (frames & Hl & Hrom & Hr).
    exists frames. rewrite Z.sub_0_r in Hl. done.
Qed.
Lemma harmless_best_effort_exit n policy prefix : harmlessly denso_harmless (best_effort_exit channel n policy prefix).
Proof. apply (harmlessly_emits _ _ _ (emits_best_effort_exit n policy prefix)). intros w. apply harmless_upto. denso_frame. Qed.
Lemma harmless_DumpSetup profile pdu service tail subject :
  denso_harmless (wrap pdu) -> harmlessly denso_harmless (DumpSetup channel profile pdu service tail subject).
Proof. intros Hp. unfold DumpSetup, TolerantSetup, ExchangeContext. by harmless. Qed.
Lemma dumps_ReadMemory profile family region p :
  reg_length region = 256 * (reg_length region / 256) -> 0 <= reg_start region -> 0 <= reg_length region ->
  reg_start region + reg_length region < 2 ^ 32 ->
  dumps denso_harmless denso_answer DensoDecryptPage (zrepeat (lead_pad_len family) 0xFF) (zrepeat (tail_pad_len family) 0xFF)
    (reg_length region / 256) (ReadMemory channel profile family region p).
Proof.
  intros Hm H0 H1 He. unfold ReadMemory, DensoIso15765ReadDump. apply dumps_bind; [harmless|]. intros _.
  apply dumps_try; [apply harmless_DumpSetup; denso_frame|]. intros _.
  apply dumps_try; [apply harmless_DumpSetup; denso_frame|]. intros _. apply dumps_bind; [harmless|]. intros _.
  apply (dumps_pages _ _ _ _ _ _ _ _ (zrepeat (lead_pad_len family) 0xFF) (denso_pages region));
    [|by apply does_denso_pages|].
  - apply List.Forall_map, Forall_true. intros k. denso_frame.
  - intros rom p'. do 2 (apply finishes_bind; [harmless|]; intros _).
    apply finishes_bind; [apply harmless_best_effort_exit|]. intros _. rewrite <- app_assoc. apply finishes_ret.
Qed.

(** ** The contract *)
Lemma denso_bootloader_spec profile family region :
  denso_window profile region ->
  BootloaderSpec {| bl_connect := ConnectBootloader (GuardedCanFlashTransport adapter) channel profile;
                    bl_read := ReadMemory channel profile family region;
                    bl_erase := EraseBlock channel profile region; bl_write := WriteBlock channel profile region |}
    denso_harmless (exactly (denso_erase_sequence region)) (answered_by unwrap erase_done) (denso_writing profile region)
    (dumped_pages denso_answer DensoDecryptPage (zrepeat (lead_pad_len family) 0xFF) (zrepeat (tail_pad_len family) 0xFF)
       (reg_length region / 256)).
Proof.
  intros Hw. split; cbn [bl_connect bl_read bl_erase bl_write].
  - apply denso_connect_harmless.
  - intros p. destruct Hw as (H0 & H1 & H2 & H3). apply dumps_ReadMemory; lia.
  - apply does_EraseBlock.
  - intros image p. by apply follows_WriteBlock.
  - apply spoken_exactly.
  - intros image. unfold denso_writing. auto with langs.
Qed.
End steps.

(** ** What the frames of a write store *)
Lemma denso_writing_flashed id profile region image w m :
  denso_window profile region -> (reg_start region - image_start profile) mod 4 = 0 -> bytes_ok image -> zlen image mod 4 = 0 ->
  reg_start region - image_start profile + reg_length region <= zlen image -> denso_writing id profile region image w ->
  flashed 4 DensoDecryptPage w m
  ≡ store m (reg_start region) (subspan image (reg_start region - image_start profile) (reg_length region)).
Proof.
  intros (H0 & H1 & H2 & H3) Hm Hb Hl Hi (w1 & w2 & -> & -> & w3 & w4 & -> & H5 & ->).
  set (plain := subspan image (reg_start region - image_start profile) (reg_length region)).
  rewrite !flashed_app, (flashed_idle _ _ w3), (flashed_idle _ _ [_]).
  - unfold DensoEncryptRom. rewrite <- CalculatePayload_subspan by (try done; Z.to_euclidean_division_equations; lia).
    change DensoDecryptPage with (fun page => CalculatePayload page (rev kDensoIso15765EncryptTable) kStockPairTable).
    assert (zlen plain = 256 * (reg_length region / 256)) as Hz by (unfold plain; rewrite zlen_subspan; lia).
    exact (block_flashed 4 chunk32 (2 ^ 32) stores32 id (reg_start region) 256 (reg_length region / 256) plain
      kDensoIso15765EncryptTable m (bytes_ok_subspan _ _ _ Hb) Hz ltac:(lia) ltac:(lia) eq_refl ltac:(lia) ltac:(lia)).
  - constructor; [by apply idle_wrap|constructor].
  - by eapply idle_upto; [|exact H5].
Qed.

(** ** The four families *)
Inductive denso_family : Set := Denso15m | Denso4m | Denso72531 | Denso72543d.
Definition denso_entry (f : denso_family) : nat :=
  match f with Denso15m => 4 | Denso4m => 5 | Denso72531 => 6 | Denso72543d => 7 end.
Definition denso_build (f : denso_family) : FlashOperation -> string -> string -> option (list Z) -> result Error FlashPlan :=
  match f with
  | Denso15m => Denso1n83m15mCan.Build | Denso4m => Denso1n83m4mCan.Build
  | Denso72531 => DensoSh72531Can.Build | Denso72543d => DensoSh72543CanDiesel.Build
  end.
Definition denso_spec (f : denso_family) : SingleWindowPlanSpec :=
  match f with
  | Denso15m => Denso1n83m15mCan.kSpec | Denso4m => Denso1n83m4mCan.kSpec
  | Denso72531 => DensoSh72531Can.kSpec | Denso72543d => DensoSh72543CanDiesel.kSpec
  end.
Definition denso_profile (f : denso_family) : DensoIso15765BootloaderProfile :=
  match f with
  | Denso15m => profile_1n83m_1_5m | Denso4m => profile_1n83m_4m
  | Denso72531 => profile_sh72531 | Denso72543d => profile_sh72543_diesel
  end.
Definition denso_executor `{Env} (f : denso_family) : ICanFlashExecutor :=
  match f with
  | Denso15m => Executor1n83m15m | Denso4m => Executor1n83m4m
  | Denso72531 => ExecutorSh72531 | Denso72543d => ExecutorSh72543Diesel
  end.
Definition denso_attempt `{Env} (f : denso_family) (plan : FlashPlan) : M (result Error FlashExecutionResult) :=
  BoundAttempt_Run (denso_executor f) plan adapter.
(** The window a family reads and writes, and where it starts in the image. *)
Definition denso_region (f : denso_family) : MemoryRegion := write_region (denso_spec f).
Definition denso_offset (f : denso_family) : Z := reg_start (denso_region f) - image_start (denso_profile f).
Definition denso_plan (f : denso_family) : PaddedCanPlan :=
  {| pad_can := can_plan 0x7E0 0x7E8; lead_pad_len := denso_offset f; tail_pad_len := 0x100 |}.
Definition denso_bootloader `{Env} (f : denso_family) : Bootloader :=
  let channel := CanFlashUdsChannel (GuardedCanFlashTransport adapter) 0x7E0 0x7E8 in
  {| bl_connect := ConnectBootloader (GuardedCanFlashTransport adapter) channel (denso_profile f);
     bl_read := ReadMemory channel (denso_profile f) (denso_plan f) (denso_region f);
     bl_erase := EraseBlock channel (denso_profile f) (denso_region f);
     bl_write := WriteBlock channel (denso_profile f) (denso_region f) |}.
Lemma denso_window_ok f : denso_window (denso_profile f) (denso_region f).
Proof. unfold denso_window. destruct f; by vm_compute. Qed.
(** The window lies in the image, aligned to the cipher's words. *)
Lemma denso_image_ok f :
  denso_offset f mod 4 = 0 /\ image_size (denso_spec f) mod 4 = 0
  /\ denso_offset f + reg_length (denso_region f) + 0x100 = image_size (denso_spec f).
Proof. destruct f; by vm_compute. Qed.
Definition denso_dumped (f : denso_family) : list Z -> list (result Error (option (list Z))) -> Prop :=
  dumped_pages (denso_answer (unwrap_can 0x7E8)) DensoDecryptPage (zrepeat (denso_offset f) 0xFF) (zrepeat 0x100 0xFF)
    (reg_length (denso_region f) / 256).
Definition denso_spec_of `{Env} (f : denso_family) :
  BootloaderSpec (denso_bootloader f) denso_harmless (exactly (denso_erase_sequence 0x7E0 (denso_region f)))
    (answered_by (unwrap_can 0x7E8) erase_done) (denso_writing 0x7E0 (denso_profile f) (denso_region f)) (denso_dumped f)
  := denso_bootloader_spec 0x7E0 _ (unwrap_can 0x7E8) (denso_profile f) (denso_plan f) (denso_region f) (denso_window_ok f).
Lemma denso_built f op protocol mcu img plan :
  denso_build f op protocol mcu img = Ok plan ->
  Operation plan = op /\ TransferRegion plan = denso_region f
  /\ (forall i, img = Some i -> op = kWrite -> zlen i = image_size (denso_spec f) /\ ImageOrEmpty plan = i)
  /\ fp_value (family_plan (fields_ plan)) = Some (match f with
       | Denso15m => SubaruDenso1n83m_1_5mCanPlan | Denso4m => SubaruDenso1n83m_4mCanPlan
       | Denso72531 => SubaruDensoSh72531CanPlan | Denso72543d => SubaruDensoSh72543CanDieselPlan end (denso_plan f)).
Proof.
  intros Hb. destruct (families !! denso_entry f) as [e|] eqn:He; [|by destruct f].
  pose proof (family_entry_ok _ _ He) as Hok.
  assert (entry_build e = denso_build f /\ entry_spec e = denso_spec f) as [E1 E2] by (destruct f; by injection He as <-).
  rewrite <- E1 in Hb. apply (entry_builds e _ _ _ _ _ Hok) in Hb as [(_ & _ & Ho & _) ->].
  split_and!; [done|destruct f, op; by injection He as <-| |destruct f; by injection He as <-].
  intros i -> ->. rewrite <- E2. destruct Ho as (_ & i' & [= <-] & Hl). done.
Qed.
Lemma denso_attempt_runs `{Env} f op protocol mcu img plan (R : result Error FlashExecutionResult -> trace -> Prop) :
  denso_build f op protocol mcu img = Ok plan ->
  padded R -> (forall e d, silent d -> R (Err e) d) -> (forall res d e, R res d -> R (Err e) d) ->
  (forall name, runs (RunBootloader (denso_bootloader f) plan name) R) -> runs (denso_attempt f plan) R.
Proof.
  intros Hb Hp Hno Herr Hrun. destruct (denso_built _ _ _ _ _ _ Hb) as (_ & HT & _ & Hget).
  assert (runs (Run (denso_profile f) (denso_plan f) plan (GuardedCanFlashTransport adapter)) R) as Hf.
  { unfold Run, bootloader. rewrite HT. exact (Hrun (unit_ (denso_profile f))). }
  unfold denso_attempt, denso_executor. destruct f.
  - refine (runs_family_attempt R Hp Hno Herr kSubaruDenso1n83m15mCan As1n83m15m _ _ (Run profile_1n83m_1_5m) plan (denso_plan Denso15m) _ Hf).
    unfold As1n83m15m. by rewrite Hget.
  - refine (runs_family_attempt R Hp Hno Herr kSubaruDenso1n83m4mCan As1n83m4m _ _ (Run profile_1n83m_4m) plan (denso_plan Denso4m) _ Hf).
    unfold As1n83m4m. by rewrite Hget.
  - refine (runs_family_attempt R Hp Hno Herr kSubaruDensoSh72531Can AsSh72531 _ _ (Run profile_sh72531) plan (denso_plan Denso72531) _ Hf).
    unfold AsSh72531. by rewrite Hget.
  - refine (runs_family_attempt R Hp Hno Herr kSubaruDensoSh72543CanDiesel AsSh72543Diesel _ _ (Run profile_sh72543_diesel) plan
      (denso_plan Denso72543d) _ Hf).
    unfold AsSh72543Diesel. by rewrite Hget.
Qed.
Lemma denso_attempt_writes `{Env} f protocol mcu image plan :
  denso_build f kWrite protocol mcu (Some image) = Ok plan ->
  runs (denso_attempt f plan) (write_outcome denso_harmless (exactly (denso_erase_sequence 0x7E0 (denso_region f)))
    (answered_by (unwrap_can 0x7E8) erase_done) (denso_writing 0x7E0 (denso_profile f) (denso_region f) image)).
Proof.
  intros Hb. destruct (denso_built _ _ _ _ _ _ Hb) as (Hop & _ & Himg & _). destruct (Himg image eq_refl eq_refl) as [_ <-].
  pose proof (denso_spec_of f) as HB.
  apply (denso_attempt_runs _ _ _ _ _ _ _ Hb); [apply write_outcome_padded| |intros; by eapply write_outcome_error|].
  - intros e d. by apply (write_outcome_silent (denso_bootloader f) _ _ _ (denso_writing 0x7E0 (denso_profile f) (denso_region f)) (denso_dumped f)).
  - intros name. by apply (run_writes (denso_bootloader f) _ _ _ (denso_writing 0x7E0 (denso_profile f) (denso_region f)) (denso_dumped f)).
Qed.
Lemma denso_attempt_reads `{Env} f protocol mcu plan :
  denso_build f kRead protocol mcu None = Ok plan ->
  runs (denso_attempt f plan) (read_outcome denso_harmless (denso_dumped f)).
Proof.
  intros Hb. destruct (denso_built _ _ _ _ _ _ Hb) as (Hop & _). pose proof (denso_spec_of f) as HB.
  apply (denso_attempt_runs _ _ _ _ _ _ _ Hb); [apply read_outcome_padded| |intros; by eapply read_outcome_error|].
  - intros e d. apply read_outcome_silent.
  - intros name. by apply (run_reads (denso_bootloader f) _ _ _ _ _).
Qed.
(** A dump of whole pages is an image of the family. *)
Lemma zlen_decrypted frames :
  Forall (fun frame => zlen (Payload frame) = 256) frames -> zlen (decrypted DensoDecryptPage frames) = 256 * zlen frames.
Proof.
  unfold decrypted. induction 1 as [|f frames Hf _ IH]; [done|]. cbn [map List.concat]. rewrite zlen_app, zlen_cons, IH.
  unfold DensoDecryptPage. rewrite zlen_CalculatePayload, Hf. change (256 / 4) with 64. lia.
Qed.
Lemma denso_rom_layout f frames rom :
  zlen frames = reg_length (denso_region f) / 256 -> Forall (fun frame => zlen (Payload frame) = 256) frames ->
  rom = zrepeat (denso_offset f) 0xFF ++ decrypted DensoDecryptPage frames ++ zrepeat 0x100 0xFF ->
  zlen rom = image_size (denso_spec f)
  /\ subspan rom (denso_offset f) (reg_length (denso_region f)) = decrypted DensoDecryptPage frames.
Proof.
  intros Hl Hp ->. pose proof (denso_window_ok f) as (H0 & H1 & H2 & _). destruct (denso_image_ok f) as (_ & _ & Hz).
  assert (0 <= denso_offset f) as Ho by (unfold denso_offset; lia).
  pose proof (zlen_decrypted frames Hp) as Hd. rewrite Hl, <- H2 in Hd.
  rewrite !zlen_app, !zlen_zrepeat, Hd by lia. split; [lia|]. apply subspan_app_middle; [rewrite zlen_zrepeat; lia|done].
Qed.
Lemma denso_sample op img :
  operation_ok (denso_spec Denso72531) op img ->
  exists plan, denso_build Denso72531 op "sub_ecu_denso_sh72531_can" "SH72531" img = Ok plan.
Proof.
  intros Hop. eexists. apply (entry_builds (Build_family_entry DensoSh72531Can.kSpec DensoSh72531Can.FamilyPlanOf
    DensoSh72531Can.Validate DensoSh72531Can.Build false)); [by apply (family_entry_ok 6)|].
  split; [|reflexivity]. split_and!; [apply list_elem_of_In; by left|reflexivity|done|discriminate].
Qed.

(** ** Claims *)
(** C30: Writing a Denso ISO-15765 unit (1N83M 1.5M and 4M, SH72531, SH72543 diesel), end to
    end and in every environment. The calls fall into three stretches: connection
    requests that neither write nor erase, on either programming branch; the download
    setup and the erase request; and an initial part of the write sequence. Nothing of
    the write goes out unless the erase request did and the erase reply was read before
    it. On success the whole sequence went out, and a unit that obeys the write requests
    it was sent then holds, over the family's window, the image's bytes of that window (the image
    starts at the family's image base, the window after the lead pad), and nothing else
    changed. *)
Theorem denso_write_attempt `{Env} f protocol mcu image plan t :
  denso_build f kWrite protocol mcu (Some image) = Ok plan -> bytes_ok image ->
  exists d, snd (denso_attempt f plan t) = t ++ d
    /\ write_outcome denso_harmless (exactly (denso_erase_sequence 0x7E0 (denso_region f)))
         (answered_by (unwrap_can 0x7E8) erase_done) (denso_writing 0x7E0 (denso_profile f) (denso_region f) image)
         (fst (denso_attempt f plan t)) d
    /\ (is_ok (fst (denso_attempt f plan t)) = true -> forall m, flashed 4 DensoDecryptPage (written d) m
         ≡ store m (reg_start (denso_region f)) (subspan image (denso_offset f) (reg_length (denso_region f)))).
Proof.
  intros Hb Hi. destruct (denso_built _ _ _ _ _ _ Hb) as (_ & _ & Himg & _). destruct (Himg image eq_refl eq_refl) as [Hl _].
  destruct (denso_attempt_writes _ _ _ _ _ Hb t) as (d & E & Ho). exists d. split_and!; [exact E|exact Ho|].
  intros Hok m. destruct Ho as (dc & de & dw & -> & Hc & _ & _ & _ & Hdone). destruct (Hdone Hok) as (He & _ & Hw).
  destruct (denso_image_ok f) as (Ho & Hs & Hz).
  rewrite !written_app, !flashed_app, (flashed_idle _ _ (written dc)), (flashed_idle _ _ (written de)).
  - apply (denso_writing_flashed 0x7E0 (denso_profile f)); [apply denso_window_ok|exact Ho|done|by rewrite Hl| |exact Hw].
    fold (denso_offset f). lia.
  - rewrite He. repeat constructor; by apply idle_wrap.
  - eapply Forall_impl; [exact Hc|]. intros raw. apply harmless_idle.
Qed.
Lemma denso_write_attempt_witness :
  exists plan, denso_build Denso72531 kWrite "sub_ecu_denso_sh72531_can" "SH72531" (Some (zrepeat 0x140000 0xFF)) = Ok plan
    /\ exists d, snd (denso_attempt (H := scripted []) Denso72531 plan []) = [] ++ d.
Proof.
  assert (operation_ok (denso_spec Denso72531) kWrite (Some (zrepeat 0x140000 0xFF))) as Hop.
  { split; [done|]. eexists. split; [done|]. by rewrite zlen_zrepeat. }
  destruct (denso_sample kWrite _ Hop) as [plan E]. exists plan. split; [exact E|].
  destruct (denso_write_attempt (H := scripted []) Denso72531 "sub_ecu_denso_sh72531_can" "SH72531" (zrepeat 0x140000 0xFF) plan [] E
    (bytes_ok_zrepeat 0x140000 0xFF ltac:(unfold byte_ok; lia))) as (d & Ed & _). exists d. exact Ed.
Defined.

(** Reading a Denso ISO-15765 unit, in every environment: no request of the attempt writes or
    erases flash, and on success the image is the lead pad, the decryption of the
    payloads of the answers to one request per 256-byte page of the window, in address
    order, and the tail pad. When the pages answered have their 256 bytes the image has
    the size and the layout a write of it takes: the window at its offset from the image base. *)
Theorem denso_read_attempt `{Env} f protocol mcu plan t :
  denso_build f kRead protocol mcu None = Ok plan ->
  exists d, snd (denso_attempt f plan t) = t ++ d
    /\ Forall denso_harmless (written d)
    /\ forall x, fst (denso_attempt f plan t) = Ok x -> exists frames d1 d2 d3 r1 r2 r3 rom,
         d = d1 ++ d2 ++ d3 /\ reads d2 = r1 ++ r2 ++ r3 /\ zlen frames = reg_length (denso_region f) / 256
         /\ replies (denso_answer (unwrap_can 0x7E8)) frames r2 /\ read_bytes x = Some rom
         /\ rom = zrepeat (denso_offset f) 0xFF ++ decrypted DensoDecryptPage frames ++ zrepeat 0x100 0xFF
         /\ (Forall (fun frame => zlen (Payload frame) = 256) frames ->
             zlen rom = image_size (denso_spec f)
             /\ subspan rom (denso_offset f) (reg_length (denso_region f)) = decrypted DensoDecryptPage frames).
Proof.
  intros Hb. destruct (denso_attempt_reads _ _ _ _ Hb t) as (d & E & Hw & Hx). exists d. split_and!; [exact E|exact Hw|].
  intros x Ex. destruct (Hx x Ex) as (rom & d1 & d2 & d3 & -> & Hr & r1 & r2 & r3 & frames & Er & Hl & Hrom & Hp).
  exists frames, d1, d2, d3, r1, r2, r3, rom. split_and!; try done. intros Hpages.
  apply (denso_rom_layout f frames); done.
Qed.
Lemma denso_read_attempt_witness :
  exists plan, denso_build Denso72531 kRead "sub_ecu_denso_sh72531_can" "SH72531" None = Ok plan
    /\ exists d, snd (denso_attempt (H := scripted []) Denso72531 plan []) = [] ++ d /\ Forall denso_harmless (written d).
Proof.
  destruct (denso_sample kRead None I) as [plan E]. exists plan. split; [exact E|].
  destruct (denso_read_attempt (H := scripted []) Denso72531 "sub_ecu_denso_sh72531_can" "SH72531" plan [] E) as (d & Ed & Hw & _).
  exists d. exact (conj Ed Hw).
Defined.
