(* ===== verification/CanLiveness.v ===== *)
(** * CanLiveness: attempts against a unit that keeps its protocol

    The theorems for every environment say what an exchange may do; here is what
    it does when nothing fails: nobody cancels, the adapter accepts every call, and
    the unit answers the request it was last sent. [FaultlessBus] states that as a
    promise of the environment, with the protocol of the unit as a parameter, and
    the exchanges of the flash executors are shown to deliver. *)
From S2P Require Import Prelude Bytes Uds Ports UdsClient CanFlash FlashDevices FlashPlan FlashExecution.

(** [obeys w pdu frame]: after the frames [w], the last of which carried [pdu], the
    unit may answer [frame]. *)
Class FaultlessBus `{Env} (request_id response_id : Z) (obeys : list (list Z) -> list Z -> list Z -> Prop) : Prop := {
  bus_cancelled : forall t, env_cancelled t = false;
  bus_sleep : forall t ms, env_sleep t ms = Ok tt;
  bus_configure : forall t config, env_configure t config = Ok tt;
  bus_open : forall t, env_open t = Ok tt;
  bus_close : forall t, env_close t = Ok tt;
  bus_write : forall t data, env_write t data = Ok tt;
  bus_answer : forall t timeout pdu, last (written t) = Some (wrap_can request_id pdu) ->
    exists raw frame, env_read t timeout = Ok (Some raw) /\ unwrap_can response_id raw = Some frame
      /\ obeys (written t) pdu frame
}.

(** ** Computations that deliver

    [ensures I m P]: from every history whose frames satisfy [I], [m] returns a
    value in [P] and [I] holds of the frames again. *)
Definition ensures {A} (I : list (list Z) -> Prop) (m : M A) (P : A -> Prop) : Prop :=
  forall t, I (written t) -> P (fst (m t)) /\ I (written (snd (m t))).
Definition succeeds {A} (I : list (list Z) -> Prop) (m : M (result Error A)) (P : A -> Prop) : Prop :=
  ensures I m (fun r => exists a, r = Ok a /\ P a).
Section ensures.
Context (I : list (list Z) -> Prop).
Lemma ensures_ret {A} (a : A) (P : A -> Prop) : P a -> ensures I (ret a) P.
Proof. by intros HP t Ht. Qed.
Lemma ensures_bind {A B} (m : M A) (k : A -> M B) (P : A -> Prop) (Q : B -> Prop) :
  ensures I m P -> (forall a, P a -> ensures I (k a) Q) -> ensures I (bind m k) Q.
Proof. intros Hm Hk t Ht. rewrite bind_eq. destruct (Hm t Ht) as [HP HI]. by apply Hk. Qed.
Lemma succeeds_ret {A} (a : A) (P : A -> Prop) : P a -> succeeds I (ret (Ok a)) P.
Proof. intros HP. apply ensures_ret. by exists a. Qed.
Lemma succeeds_try {A B} (m : M (result Error A)) (k : A -> M (result Error B)) (P : A -> Prop) (Q : B -> Prop) :
  succeeds I m P -> (forall a, P a -> succeeds I (k a) Q) -> succeeds I (try m k) Q.
Proof. intros Hm Hk. apply (ensures_bind _ _ _ _ Hm). intros _ (a & -> & HP). by apply Hk. Qed.
Lemma ensures_weaken {A} (m : M A) (P Q : A -> Prop) : ensures I m P -> (forall a, P a -> Q a) -> ensures I m Q.
Proof. intros Hm HPQ t Ht. destruct (Hm t Ht). auto. Qed.
Lemma ensures_does {A} (m : M A) (P : A -> Prop) :
  does m (fun a w _ => P a /\ forall w0, I w0 -> I (w0 ++ w)) -> ensures I m P.
Proof. intros Hm t Ht. destruct (Hm t) as (d & E & HP & HI). split; [done|]. rewrite E, written_app. auto. Qed.
Lemma ensures_quiet {A} (m : M A) : quiet m -> ensures I m (fun _ => True).
Proof.
  intros Hm. apply ensures_does. apply (does_weaken m (fun _ w r => w = [] /\ r = [])); [exact Hm|].
  intros a w r [-> _]. split; [done|]. intros w0. by rewrite app_nil_r.
Qed.
Lemma ensures_quiet_bind {A B} (m : M A) (k : A -> M B) (Q : B -> Prop) :
  quiet m -> (forall a, ensures I (k a) Q) -> ensures I (bind m k) Q.
Proof. intros Hm Hk. apply (ensures_bind m k _ _ (ensures_quiet m Hm)). auto. Qed.
Lemma succeeds_bind {A B} (m : M A) (k : A -> M (result Error B)) (P : A -> Prop) (Q : B -> Prop) :
  ensures I m P -> (forall a, P a -> succeeds I (k a) Q) -> succeeds I (bind m k) Q.
Proof. apply ensures_bind. Qed.
Lemma succeeds_quiet_bind {A B} (m : M A) (k : A -> M (result Error B)) (Q : B -> Prop) :
  quiet m -> (forall a, succeeds I (k a) Q) -> succeeds I (bind m k) Q.
Proof. apply ensures_quiet_bind. Qed.
End ensures.
(** [I] survives sending [pdu]. *)
Definition keeps (request_id : Z) (I : list (list Z) -> Prop) (pdu : list Z) : Prop :=
  forall w, I w -> I (w ++ [wrap_can request_id pdu]).

(** Past the reports of a program, which do nothing on the bus. *)
Ltac delivers :=
  repeat (lazymatch goal with
    | |- succeeds _ (bind (Log _ _) _) _ => apply succeeds_quiet_bind; [apply quiet_Log|intros _]
    | |- succeeds _ (bind (Notice _) _) _ => apply succeeds_quiet_bind; [apply quiet_Notice|intros _]
    | |- succeeds _ (bind (Start _ _ _) _) _ => apply succeeds_quiet_bind; [apply quiet_Start|intros [? ?]]
    | |- succeeds _ (bind (Complete _) _) _ => apply succeeds_quiet_bind; [apply quiet_Complete|intros _]
    | |- succeeds _ (let _ := _ in _) _ => cbv zeta
    end).

(** ** Exchanges *)
Section exchanges.
Context `{HB : FaultlessBus request_id response_id obeys}.
Abbreviation channel := (CanFlashUdsChannel (GuardedCanFlashTransport adapter) request_id response_id).
Lemma Send_ok pdu t :
  Send channel pdu t = (Ok tt, t ++ [EvCancelled false; EvWrite (wrap_can request_id pdu) (Ok tt)]).
Proof.
  cbn [Send CanFlashUdsChannel Write GuardedCanFlashTransport adapter]. unfold bind, Cancelled.
  rewrite bus_cancelled, bus_write. by rewrite <- app_assoc.
Qed.
Lemma Receive_ok timeout t pdu :
  last (written t) = Some (wrap_can request_id pdu) ->
  exists frame, fst (Receive channel timeout t) = Ok (Some frame) /\ obeys (written t) pdu frame
    /\ written (snd (Receive channel timeout t)) = written t.
Proof.
  intros Hl. destruct (bus_answer (t ++ [EvCancelled false]) timeout pdu) as (raw & frame & E & U & Ho).
  { by rewrite written_app, app_nil_r. }
  exists frame. cbn [Receive CanFlashUdsChannel Read GuardedCanFlashTransport adapter]. unfold bind, Cancelled, ret.
  rewrite bus_cancelled. cbv zeta beta iota. rewrite E. cbn [fst snd].
  rewrite !written_app in *. cbn [written] in *. rewrite !app_nil_r in *. split_and!; [|done|done].
  unfold unwrap_can in U. destruct (Z.leb_spec kEnvelopeSize (zlen raw)); [|done].
  destruct (ReadU32Be raw 0 =? response_id); [|done]. injection U as <-.
  by rewrite (proj2 (Z.ltb_ge _ _)) by lia.
Qed.
(** Sending a request and taking the answer. *)
Lemma ask_ok pdu timeout t :
  exists t1 frame, Send channel pdu t = (Ok tt, t1) /\ written t1 = written t ++ [wrap_can request_id pdu]
    /\ fst (Receive channel timeout t1) = Ok (Some frame) /\ obeys (written t1) pdu frame
    /\ written (snd (Receive channel timeout t1)) = written t1.
Proof.
  rewrite Send_ok. set (t1 := t ++ _). assert (written t1 = written t ++ [wrap_can request_id pdu]) as W
    by (subst t1; by rewrite written_app).
  destruct (Receive_ok timeout t1 pdu) as (frame & H1 & H2 & H3); [by rewrite W, last_snoc|]. by exists t1, frame.
Qed.
Context (I : list (list Z) -> Prop).
(** What the unit's answers to [pdu] are, when [I] held before. *)
Definition replies (pdu : list Z) (P : list Z -> Prop) : Prop :=
  keeps request_id I pdu /\ forall w frame, I w -> obeys (w ++ [wrap_can request_id pdu]) pdu frame -> P frame.
Lemma ensures_ask {A} pdu timeout (k : option (list Z) -> M (result Error A)) (P : list Z -> Prop) (Q : A -> Prop) :
  replies pdu P -> (forall frame, P frame -> succeeds I (k (Some frame)) Q) ->
  succeeds I (do! _ <- Send channel pdu; do! f <- Receive channel timeout; k f) Q.
Proof.
  intros [Hk Hp] Hq t Ht. destruct (ask_ok pdu timeout t) as (t1 & frame & E1 & W1 & E2 & Ho & W2).
  unfold try. rewrite bind_eq, E1. cbn [fst snd]. rewrite bind_eq, E2.
  apply Hq; [|rewrite W2, W1; by apply Hk]. apply (Hp (written t)); [done|]. by rewrite <- W1.
Qed.
Definition positive (sid : Z) (prefix frame : list Z) : Prop :=
  Matches (ParseResponse frame) sid = true /\ exists rest, Payload frame = prefix ++ rest.
Lemma positive_length sid prefix frame : positive sid prefix frame -> zlen prefix <= zlen (Payload frame).
Proof. intros [_ [rest ->]]. rewrite zlen_app. pose proof (zlen_nonneg rest). lia. Qed.
Lemma ztake_prefix (a b : list Z) : ztake (zlen a) (a ++ b) = a.
Proof. unfold ztake, zlen. rewrite Nat2Z.id. apply take_app_length. Qed.
Lemma positive_shorter sid a b frame : positive sid (a ++ b) frame -> positive sid a frame.
Proof. intros [Hm [rest E]]. split; [done|]. exists (b ++ rest). by rewrite app_assoc. Qed.
Lemma replies_weaken pdu (P Q : list Z -> Prop) : replies pdu P -> (forall frame, P frame -> Q frame) -> replies pdu Q.
Proof. intros [Hk Hp] HPQ. split; [done|]. eauto. Qed.
Lemma Matches_kind r sid : Matches r sid = true -> IsPending r = false /\ resp_kind r = kPositive.
Proof. unfold Matches, IsPending. by destruct (resp_kind r). Qed.
Lemma read_loop_ok policy sid n delay timeout t pdu :
  last (written t) = Some (wrap_can request_id pdu) ->
  (forall frame, obeys (written t) pdu frame -> Matches (ParseResponse frame) sid = true) ->
  exists frame, fst (read_loop channel policy sid (S n) delay timeout t) = Ok frame /\ obeys (written t) pdu frame
    /\ written (snd (read_loop channel policy sid (S n) delay timeout t)) = written t.
Proof.
  intros Hl Hm. cbn [read_loop].
  assert (exists t1, (if 0 <? delay then Sleep delay else ret (Ok tt)) t = (Ok tt, t1) /\ written t1 = written t)
    as (t1 & E1 & W1).
  { destruct (0 <? delay); [|by exists t]. exists (t ++ [EvSleep delay (Ok tt)]). unfold Sleep. rewrite bus_sleep.
    by rewrite written_app, app_nil_r. }
  rewrite !bind_eq, E1. cbn [fst snd]. rewrite <- W1 in *. destruct (Receive_ok timeout t1 pdu Hl) as (frame & E2 & Ho & W2).
  rewrite bind_eq, E2. destruct (Matches_kind _ _ (Hm frame Ho)) as [Hp Hk]. cbv zeta.
  rewrite Hp, Hk, (Hm frame Ho). cbn [negb]. by exists frame.
Qed.
Lemma succeeds_Request pdu policy (P : list Z -> Prop) :
  zlen pdu <> 0 -> 0 <= max_pending_repeats policy ->
  replies pdu (fun frame => Matches (ParseResponse frame) (zget pdu 0) = true /\ P frame) ->
  succeeds I (Request channel pdu policy) P.
Proof.
  intros Hz Hm [Hk Hp] t Ht. unfold Request. rewrite (proj2 (Z.eqb_neq _ _) Hz).
  rewrite bind_eq. unfold Cancelled. rewrite bus_cancelled. cbn [fst snd].
  destruct (ask_ok pdu (read_timeout policy) (t ++ [EvCancelled false])) as (t1 & _ & E1 & W1 & _).
  rewrite written_app, app_nil_r in W1. unfold try. rewrite bind_eq, E1. cbv beta iota. cbn [fst snd].
  replace (Z.to_nat (max_pending_repeats policy + 1)) with (S (Z.to_nat (max_pending_repeats policy))) by lia.
  destruct (read_loop_ok policy (zget pdu 0) (Z.to_nat (max_pending_repeats policy)) (pre_read_delay policy)
    (read_timeout policy) t1 pdu) as (frame & E2 & Ho & W2).
  - by rewrite W1, last_snoc.
  - intros frame Ho. rewrite W1 in Ho. apply (Hp (written t) frame Ht Ho).
  - rewrite E2, W2, W1. split; [|by apply Hk]. exists frame. split; [done|]. rewrite W1 in Ho. apply (Hp _ _ Ht Ho).
Qed.
Context (policy : ExchangePolicy) (Hpolicy : 0 <= max_pending_repeats policy).
Abbreviation ctx := {| ctx_channel := channel; ctx_policy := policy |}.
Lemma succeeds_FatalRequest pdu prefix operation (P : list Z -> Prop) :
  zlen pdu <> 0 -> replies pdu (fun frame => Matches (ParseResponse frame) (zget pdu 0) = true /\ P frame) ->
  succeeds I (FatalRequest ctx pdu prefix operation) P.
Proof.
  intros Hz Hr. apply (ensures_bind _ _ _ _ _ (succeeds_Request pdu policy P Hz Hpolicy Hr)).
  intros _ (frame & -> & HP). by apply succeeds_ret.
Qed.
Lemma succeeds_FatalQuery pdu expected prefix subject m (P : list Z -> Prop) :
  zlen pdu <> 0 ->
  replies pdu (fun frame => positive (zget pdu 0) expected frame
    /\ default (zlen expected) m <= zlen (Payload frame) /\ P frame) ->
  succeeds I (FatalQuery ctx pdu expected prefix subject m) P.
Proof.
  intros Hz [Hk Hr]. eapply succeeds_try.
  - apply succeeds_FatalRequest; [done|]. split; [done|]. intros w frame Hw Ho.
    destruct (Hr w frame Hw Ho) as ((H1 & H2) & H3). split; [exact H1|]. exact (conj H2 H3).
  - cbn beta. intros frame (Hp & Hl & HP). cbv zeta. rewrite (proj2 (Z.ltb_ge _ _) Hl). unfold starts_with.
    destruct Hp as [rest ->]. rewrite bool_decide_eq_true_2 by (by rewrite ztake_prefix). by apply succeeds_ret.
Qed.
(** Unlocking: the unit gives [seed] and accepts [seed_key seed]. *)
Lemma succeeds_UnlockAndKernelJump prefix seed_key seed :
  zlen seed = 4 ->
  replies [kSidSecurityAccess; kSecurityAccessRequestSeed]
    (positive kSidSecurityAccess (kSecurityAccessRequestSeed :: seed)) ->
  replies (ComposeBe [FByte kSidSecurityAccess; FByte kSecurityAccessSendKey; FBytes (seed_key seed)])
    (positive kSidSecurityAccess [kSecurityAccessSendKey]) ->
  replies [kSidDiagnosticSessionControl; kSessionKernelJump]
    (positive kSidDiagnosticSessionControl [kSessionKernelJump]) ->
  succeeds I (UnlockAndKernelJump ctx prefix seed_key) (fun _ => True).
Proof.
  intros Hs H1 H2 H3. unfold UnlockAndKernelJump. delivers.
  apply (succeeds_try _ _ _ (fun frame => subspan (Payload frame) 1 4 = seed)).
  { apply succeeds_FatalQuery; [done|]. eapply replies_weaken; [exact H1|]. intros frame Hp. split_and!.
    - exact (positive_shorter _ [kSecurityAccessRequestSeed] seed frame Hp).
    - apply positive_length in Hp. rewrite zlen_cons in Hp. cbn. lia.
    - destruct Hp as [_ [rest ->]]. unfold subspan. change (zdrop 1 _) with (seed ++ rest). rewrite <- Hs. apply ztake_prefix. }
  intros frame ->. delivers.
  apply (succeeds_try _ _ _ (fun _ => True)).
  { apply succeeds_FatalQuery; [rewrite zlen_ComposeBe; cbn; pose proof (zlen_nonneg (seed_key seed)); lia|].
    eapply replies_weaken; [exact H2|]. intros f Hp. split_and!; [exact Hp|by eapply positive_length|done]. }
  intros f _. delivers. apply (succeeds_try _ _ _ (fun _ => True)).
  { apply succeeds_FatalQuery; [done|].
    eapply replies_weaken; [exact H3|]. intros g Hp. split_and!; [exact Hp|by eapply positive_length|done]. }
  intros g _. delivers. by apply succeeds_ret.
Qed.
(** Reading pages [i..n-1]. *)
Lemma succeeds_read_pages fuel prefix decrypt (page : Z -> list Z) n i rom p :
  0 <= i <= n -> n - i < Z.of_nat fuel -> kPageSize * n < 2 ^ 32 ->
  (forall k, 0 <= k < n -> replies (page_request (kPageSize * k))
     (fun frame => Matches (ParseResponse frame) kSidReadMemoryChunk = true /\ Payload frame = page k)) ->
  succeeds I (read_pages fuel ctx prefix (kPageSize * n) decrypt (kPageSize * i) rom p)
    (fun r => fst r = rom ++ List.concat (map (fun k => decrypt (page k)) (seqZ i (n - i)))).
Proof.
  intros Hi Hf Hn Hr. revert i rom p Hi Hf. induction fuel as [|fuel IH]; intros i rom p Hi Hf; [lia|].
  cbn [read_pages]. destruct (Z.ltb_spec (kPageSize * i) (kPageSize * n)); unfold kPageSize in *.
  - apply (succeeds_try _ _ _ (fun frame => Payload frame = page i)).
    { apply succeeds_FatalRequest; [done|]. apply (Hr i). lia. }
    intros frame ->. cbv zeta. apply succeeds_quiet_bind; [auto with ports|]. intros p'.
    assert (u32 (256 * i + 256) = 256 * (i + 1)) as -> by (rewrite u32_small; unfold u32_ok; lia).
    eapply ensures_weaken; [apply IH; lia|]. intros r ([rom' p''] & -> & E). eexists. split; [done|]. cbn [fst] in *.
    rewrite E, <- app_assoc. f_equal. rewrite (seqZ_cons i (n - i)) by lia. cbn [map List.concat].
    by replace (Z.succ i) with (i + 1) by lia; replace (Z.pred (n - i)) with (n - (i + 1)) by lia.
  - replace (n - i) with 0 by lia. apply succeeds_ret. cbn. by rewrite app_nil_r.
Qed.
End exchanges.

(** ** Operations and attempts *)
Section operations.
Context `{Env} (I : list (list Z) -> Prop).
Lemma succeeds_operation_read plan name connect read erase write (Q : list Z -> Prop) :
  Operation plan = kRead -> succeeds I connect (fun _ => True) -> (forall p, succeeds I (read p) (fun r => Q (fst r))) ->
  succeeds I (RunBootloaderOperation plan name connect read erase write)
    (fun x => exists rom, Q rom /\ x = {| res_operation := kRead; read_bytes := Some rom; rom_id := None |}).
Proof.
  intros Hop Hc Hr. unfold RunBootloaderOperation. rewrite bool_decide_eq_true_2 by done. cbv zeta. delivers.
  apply (succeeds_try _ _ _ _ _ Hc). intros _ _. delivers. apply (succeeds_try _ _ _ _ _ (Hr _)).
  intros [rom p'] HQ. delivers. apply succeeds_ret. eauto.
Qed.
Lemma succeeds_operation_write plan name connect read erase write :
  Operation plan = kWrite -> succeeds I connect (fun _ => True) -> succeeds I erase (fun _ => True) ->
  (forall p, succeeds I (write (ImageOrEmpty plan) p) (fun _ => True)) ->
  succeeds I (RunBootloaderOperation plan name connect read erase write)
    (fun x => x = {| res_operation := kWrite; read_bytes := None; rom_id := None |}).
Proof.
  intros Hop Hc He Hw. unfold RunBootloaderOperation. rewrite bool_decide_eq_false_2 by (rewrite Hop; done). cbv zeta.
  delivers. apply (succeeds_try _ _ _ _ _ Hc). intros _ _. rewrite bool_decide_eq_true_2 by done. cbn [negb]. delivers.
  apply (succeeds_try _ _ _ _ _ He). intros _ _. delivers. apply (succeeds_try _ _ _ _ _ (Hw _)).
  intros p' _. delivers. by apply succeeds_ret.
Qed.
End operations.
Section attempt.
Context `{HB : FaultlessBus request_id response_id obeys} (I : list (list Z) -> Prop).
Lemma succeeds_BoundAttempt executor plan setup (Q : FlashExecutionResult -> Prop) :
  TransportSetup executor plan = Ok setup ->
  BeforeTransportConfigure executor adapter = ret (Ok tt) -> BeforeTransportOpen executor = ret (Ok tt) ->
  succeeds I (Execute executor plan (GuardedCanFlashTransport adapter)) Q ->
  succeeds I (BoundAttempt_Run executor plan adapter) Q.
Proof.
  intros E1 E2 E3 He. unfold BoundAttempt_Run. rewrite E1, E2, E3.
  destruct (quiet_adapter setup) as (Q1 & Q2 & Q3).
  assert (forall m : M Status, quiet m -> (forall t, fst (m t) = Ok tt) -> succeeds I m (fun _ => True)) as Hok.
  { intros m Hq Hm t Ht. destruct (ensures_quiet I m Hq t Ht) as [_ HI]. split; [|done]. rewrite Hm. eauto. }
  apply (ensures_bind _ _ _ (fun r => exists a, r = Ok a /\ True)).
  - apply (succeeds_try _ _ _ (fun _ => True)).
    + apply (ensures_bind _ _ _ (fun b => b = false)).
      * intros t Ht. unfold Cancelled. rewrite bus_cancelled. cbn. by rewrite written_app, app_nil_r.
      * intros _ ->. apply (succeeds_try _ _ _ (fun _ => True)); [by apply succeeds_ret|]. intros _ _.
        apply Hok; [done|]. intros t. cbn. apply bus_configure.
    + intros _ _. apply (succeeds_try _ _ _ (fun _ => True)); [by apply succeeds_ret|]. intros _ _.
      apply Hok; [done|]. intros t. cbn. apply bus_open.
  - intros _ (u & -> & _). apply (ensures_bind _ _ _ _ _ He). intros _ (x & -> & HQ).
    apply (ensures_bind _ _ _ (fun r => exists a, r = Ok a /\ True)).
    + apply Hok; [done|]. intros t. cbn. apply bus_close.
    + intros _ (v & -> & _). by apply succeeds_ret.
Qed.
End attempt.
