(* ===== verification/HitachiM32rUnit.v ===== *)
(** * HitachiM32rUnit: flashing an M32R unit that keeps its protocol

    The protocol the Hitachi M32R CAN executor relies on, as a promise of the unit
    at the other end of the bus, and what the executor achieves against such a unit:
    the attempt to write an image succeeds, and an attempt to read returns it. *)
From S2P Require Import Prelude Bytes Ssm Uds Ports UdsClient CanFlash FlashDevices FlashPlan FlashExecution FlashLogic HitachiM32rCan CanLiveness.

(** ** The unit *)
(** The flash page at [addr], as the frames on the bus leave it: the data last written
    to it since the last erase, in the form it was sent. *)
Definition write_header (addr : Z) : list Z := ComposeBe [FU32 0x7E0; FByte kSidWriteMemoryChunk; FU24 addr].
Definition flash_step (addr : Z) (page : option (list Z)) (raw : list Z) : option (list Z) :=
  if bool_decide (raw = wrap_can 0x7E0 erase_request) then None
  else if bool_decide (ztake 8 raw = write_header addr) then Some (zdrop 8 raw)
  else page.
Definition stored (w : list (list Z)) (addr : Z) : option (list Z) := fold_left (flash_step addr) w None.
(** The answers of a unit with challenge [seed], on the bench, that accepts the right
    key; it may or may not be in its resident kernel already, and it may answer the
    identity queries as it likes. *)
Record m32r_protocol (seed : list Z) (w : list (list Z)) (pdu frame : list Z) : Prop := {
  on_probe : pdu = session_probe_request -> 3 <= zlen frame /\ (zget frame 1 = 0xA0 \/ zget frame 2 = 0x20);
  on_session : pdu = [kSidDiagnosticSessionControl; kSessionBench] ->
    positive kSidDiagnosticSessionControl [kSessionBench] frame;
  on_seed : pdu = [kSidSecurityAccess; kSecurityAccessRequestSeed] ->
    positive kSidSecurityAccess (kSecurityAccessRequestSeed :: seed) frame;
  on_key : pdu = ComposeBe [FByte kSidSecurityAccess; FByte kSecurityAccessSendKey; FBytes (SeedKey seed)] ->
    positive kSidSecurityAccess [kSecurityAccessSendKey] frame;
  on_jump : pdu = [kSidDiagnosticSessionControl; kSessionKernelJump] ->
    positive kSidDiagnosticSessionControl [kSessionKernelJump] frame;
  on_download : pdu = download_request -> positive kSidRequestDownload [0x20; 0x01; 0x04] frame;
  on_erase : pdu = erase_request -> erase_done frame = true;
  on_chunk : forall encrypted addr, pdu = chunk_request encrypted addr ->
    Matches (ParseResponse frame) kSidWriteMemoryChunk = true;
  on_exit : pdu = [kSidRequestTransferExit] -> Matches (ParseResponse frame) kSidRequestTransferExit = true;
  on_verify : pdu = verify_request -> positive kSidRoutineControl [0x01; 0x02] frame;
  on_page : forall k data, 0 <= k < kLength / kPageSize -> pdu = page_request (kPageSize * k) ->
    stored w (kPageSize * k) = Some data ->
    Matches (ParseResponse frame) kSidReadMemoryChunk = true /\ Payload frame = data
}.
Abbreviation M32rUnit seed := (FaultlessBus 0x7E0 0x7E8 (m32r_protocol seed)).

(** ** Lemmas: the flash behind the bus *)
Lemma wrap_bytes q pdu : bytes_ok pdu -> wrap_can q pdu = EmitIntegerBe 4 q ++ pdu.
Proof.
  intros Hb. unfold wrap_can. rewrite !ComposeBe_cons, EmitBe_FBytes by done. unfold ComposeBe. cbn [map List.concat].
  by rewrite app_nil_r.
Qed.
Lemma stored_app w1 w2 addr : stored (w1 ++ w2) addr = fold_left (flash_step addr) w2 (stored w1 addr).
Proof. apply fold_left_app. Qed.
Lemma wrap_service q pdu : pdu <> [] -> zget (wrap_can q pdu) 4 = u8 (zget pdu 0).
Proof. by destruct pdu. Qed.
Lemma write_header_bytes addr : write_header addr = [0; 0; 7; 0xE0; kSidWriteMemoryChunk] ++ EmitIntegerBe 3 addr.
Proof. unfold write_header. rewrite !ComposeBe_cons. unfold ComposeBe. cbn [map List.concat]. by rewrite app_nil_r. Qed.
(** Requests of other services leave the flash alone. *)
Definition harmless (pdu : list Z) : Prop :=
  pdu <> [] /\ u8 (zget pdu 0) <> kSidWriteMemoryChunk /\ wrap_can 0x7E0 pdu <> wrap_can 0x7E0 erase_request.
Lemma harmless_service pdu :
  pdu <> [] -> u8 (zget pdu 0) <> kSidWriteMemoryChunk -> u8 (zget pdu 0) <> kSidRoutineControl -> harmless pdu.
Proof.
  intros H1 H2 H3. split_and!; [done|done|]. intros E. apply (f_equal (fun l => zget l 4)) in E.
  rewrite !wrap_service in E by done. done.
Qed.
Lemma flash_step_harmless addr page pdu : harmless pdu -> flash_step addr page (wrap_can 0x7E0 pdu) = page.
Proof.
  intros (H1 & H2 & H3). unfold flash_step. rewrite bool_decide_eq_false_2 by done. rewrite bool_decide_eq_false_2; [done|].
  intros E. apply (f_equal (fun l => zget l 4)) in E. rewrite zget_ztake, wrap_service, write_header_bytes in E by done.
  done.
Qed.
Lemma chunk_request_bytes encrypted addr :
  bytes_ok encrypted ->
  chunk_request encrypted addr = [kSidWriteMemoryChunk] ++ EmitIntegerBe 3 addr ++ subspan encrypted addr kChunkSize.
Proof.
  intros Hb. unfold chunk_request. rewrite !ComposeBe_cons, EmitBe_FBytes by auto with bytes. unfold ComposeBe.
  cbn [map List.concat]. by rewrite app_nil_r.
Qed.
Lemma EmitIntegerBe3_inj a b : 0 <= a < 2 ^ 24 -> 0 <= b < 2 ^ 24 -> EmitIntegerBe 3 a = EmitIntegerBe 3 b -> a = b.
Proof.
  intros Ha Hb E. pose proof (ReadUBe_EmitIntegerBe 3 a ltac:(lia)) as E1. pose proof (ReadUBe_EmitIntegerBe 3 b ltac:(lia)) as E2.
  rewrite E in E1. rewrite E1 in E2. change (2 ^ (8 * Z.of_nat 3)) with (2 ^ 24) in E2.
  by rewrite !Z.mod_small in E2 by lia.
Qed.
Lemma flash_step_chunk encrypted addr page a :
  bytes_ok encrypted -> 0 <= addr < 2 ^ 24 -> 0 <= a < 2 ^ 24 ->
  flash_step addr page (wrap_can 0x7E0 (chunk_request encrypted a))
  = if decide (addr = a) then Some (subspan encrypted a kChunkSize) else page.
Proof.
  intros Hb Ha Ha'. unfold flash_step. rewrite bool_decide_eq_false_2.
  2:{ intros E. apply (f_equal (fun l => zget l 4)) in E. rewrite !wrap_service in E by done. done. }
  rewrite wrap_bytes by apply bytes_ok_ComposeBe. rewrite chunk_request_bytes, write_header_bytes by done.
  change (EmitIntegerBe 4 0x7E0 ++ [kSidWriteMemoryChunk] ++ EmitIntegerBe 3 a ++ subspan encrypted a kChunkSize)
    with ([0; 0; 7; 0xE0; kSidWriteMemoryChunk] ++ EmitIntegerBe 3 a ++ subspan encrypted a kChunkSize).
  change (ztake 8 _) with ([0; 0; 7; 0xE0; kSidWriteMemoryChunk] ++ EmitIntegerBe 3 a).
  change (zdrop 8 _) with (subspan encrypted a kChunkSize).
  destruct (decide (addr = a)) as [->|Hne]; [by rewrite bool_decide_eq_true_2|].
  rewrite bool_decide_eq_false_2; [done|]. intros E%app_inv_head. destruct Hne. symmetry. by apply EmitIntegerBe3_inj.
Qed.
(** Writing every page leaves every page written. *)
Lemma fold_chunks_other encrypted k l page :
  bytes_ok encrypted -> 0 <= k < 2048 -> Forall (fun i => 0 <= i < 2048 /\ i <> k) l ->
  fold_left (flash_step (kChunkSize * k)) (map (wrap_can 0x7E0) (map (fun i => chunk_request encrypted (kChunkSize * i)) l)) page
  = page.
Proof.
  intros Hb Hk. induction 1 as [|i l [Hi Hne] _ IH]; [done|]. cbn [map fold_left]. unfold kChunkSize in *.
  rewrite flash_step_chunk, decide_False by (done || lia). exact IH.
Qed.
Lemma fold_chunks encrypted k page :
  bytes_ok encrypted -> 0 <= k < 2048 ->
  fold_left (flash_step (kChunkSize * k)) (map (wrap_can 0x7E0) (chunks_from encrypted 0)) page
  = Some (subspan encrypted (kChunkSize * k) kChunkSize).
Proof.
  intros Hb Hk. unfold chunks_from. change (kLength / kChunkSize - 0) with 2048.
  assert (seqZ 0 2048 = seqZ 0 k ++ seqZ k 1 ++ seqZ (k + 1) (2047 - k)) as ->.
  { replace 2048 with (k + (1 + (2047 - k))) by lia. rewrite !seqZ_app by lia. by rewrite Z.add_0_l. }
  rewrite !map_app, !fold_left_app. cbn [map fold_left seqZ].
  assert (seqZ k 1 = [k]) as -> by (rewrite seqZ_cons by lia; done). cbn [map fold_left].
  rewrite flash_step_chunk, decide_True by (done || unfold kChunkSize; lia).
  apply fold_chunks_other; [done|done|]. apply list.Forall_forall. intros i Hi%elem_of_seqZ. lia.
Qed.
Lemma fold_harmless addr l page :
  Forall harmless l -> fold_left (flash_step addr) (map (wrap_can 0x7E0) l) page = page.
Proof. induction 1 as [|pdu l Hp _ IH]; [done|]. cbn [map fold_left]. by rewrite flash_step_harmless. Qed.
(** The flash after the writes of a successful attempt. *)
Definition holds_image (encrypted : list Z) (w : list (list Z)) : Prop :=
  forall k, 0 <= k < 2048 -> stored w (kPageSize * k) = Some (subspan encrypted (kPageSize * k) kPageSize).
Lemma write_sequence_stores image j w :
  holds_image (EncryptRom image) (w ++ map (wrap_can 0x7E0) (write_sequence image j)).
Proof.
  intros k Hk. unfold write_sequence. rewrite stored_app, !map_app, !fold_left_app.
  change kPageSize with kChunkSize. rewrite fold_chunks by (exact (bytes_ok_CalculatePayload _ _ _) || done).
  rewrite !fold_harmless; [done| |]; apply list.Forall_forall.
  - intros pdu [-> _]%elem_of_replicate. by apply harmless_service.
  - intros pdu ->%list_elem_of_singleton. by split_and!.
Qed.
Lemma keeps_image encrypted pdu : harmless pdu -> keeps 0x7E0 (holds_image encrypted) pdu.
Proof. intros Hp w Hw k Hk. rewrite stored_app. cbn [fold_left]. rewrite flash_step_harmless by done. by apply Hw. Qed.
(** Decrypting page by page. *)
Lemma decrypt_pages encrypted i n :
  bytes_ok encrypted -> 0 <= i -> 0 <= n -> kPageSize * (i + n) <= zlen encrypted ->
  List.concat (map (fun k => DecryptPage (subspan encrypted (kPageSize * k) kPageSize)) (seqZ i n))
  = DecryptPage (List.concat (map (fun k => subspan encrypted (kPageSize * k) kPageSize) (seqZ i n))).
Proof.
  intros Hb Hi Hn. revert i Hi. pattern n. apply natlike_ind; [by intros| |done]. clear n Hn. intros n Hn IH i Hi Hl.
  unfold kPageSize in *. rewrite seqZ_cons, Z.pred_succ by lia. cbn [map List.concat]. rewrite IH by lia. symmetry.
  unfold DecryptPage. apply CalculatePayload_app.
  - by apply bytes_ok_subspan.
  - rewrite concat_pieces by lia. by apply bytes_ok_subspan.
  - rewrite zlen_subspan. replace (Z.min _ _) with 256 by lia. done.
  - rewrite concat_pieces by lia. rewrite zlen_subspan. replace (Z.min _ _) with (256 * n) by lia.
    Z.to_euclidean_division_equations; lia.
Qed.
Lemma decrypt_image image :
  bytes_ok image -> zlen image = kLength ->
  List.concat (map (fun k => DecryptPage (subspan (EncryptRom image) (kPageSize * k) kPageSize)) (seqZ 0 2048)) = image.
Proof.
  intros Hb Hl. pose proof (zlen_EncryptRom image Hl) as He.
  assert (bytes_ok (EncryptRom image)) as Hbe by exact (bytes_ok_CalculatePayload _ _ _).
  rewrite decrypt_pages by (done || rewrite ?He; done). rewrite concat_pieces by done.
  change (kPageSize * 0) with 0. change (kPageSize * 2048) with kLength.
  rewrite subspan_full by done. unfold DecryptPage, EncryptRom. change kDecryptTable with (rev kEncryptTable).
  rewrite CalculatePayload_rev, Hl by done. change (4 * (kLength / 4)) with kLength.
  unfold ztake. apply take_ge. unfold zlen in Hl. lia.
Qed.

(** ** Lemmas: the executor against the unit *)
Section against_unit.
Context `{Env} (seed : list Z) {HB : M32rUnit seed} (Hseed : zlen seed = 4).
Context (I : list (list Z) -> Prop) (HI : forall pdu, harmless pdu -> keeps 0x7E0 I pdu).
Abbreviation channel := (CanFlashUdsChannel (GuardedCanFlashTransport adapter) 0x7E0 0x7E8).
Abbreviation answers pdu P := (replies (request_id := 0x7E0) (obeys := m32r_protocol seed) I pdu P).
Lemma answered_as pdu (P : list Z -> Prop) :
  harmless pdu -> (forall w frame, m32r_protocol seed w pdu frame -> P frame) -> answers pdu P.
Proof. intros Hp HP. split; [by apply HI|]. eauto. Qed.
Lemma answered_positive pdu prefix :
  harmless pdu -> (forall w frame, m32r_protocol seed w pdu frame -> positive (zget pdu 0) prefix frame) ->
  answers pdu (fun frame => positive (zget pdu 0) prefix frame
    /\ default (zlen prefix) None <= zlen (Payload frame) /\ True).
Proof.
  intros Hp HP. apply answered_as; [done|]. intros w frame Hm. specialize (HP w frame Hm). split_and!; [done| |done].
  by eapply positive_length.
Qed.
Lemma ensures_sends {A} (m : M A) pdu : harmless pdu ->
  does m (fun _ w _ => w = [] \/ w = [wrap_can 0x7E0 pdu]) -> ensures I m (fun _ => True).
Proof.
  intros Hp Hm. apply ensures_does. apply (does_weaken _ _ _ Hm). intros a w r [-> | ->]; (split; [done|]); intros w0 Hw.
  - by rewrite app_nil_r.
  - by apply HI.
Qed.
Lemma ensures_NonFatalQuery pdu s p l : harmless pdu -> ensures I (NonFatalQuery (ectx channel) pdu s p l) (fun _ => True).
Proof.
  intros Hp. apply (ensures_sends _ pdu Hp), (does_NonFatalQuery (ectx channel) (wrap_can 0x7E0) (unwrap_can 0x7E8)).
Qed.
Lemma ensures_QueryIdentity : ensures I (QueryIdentity channel) (fun _ => True).
Proof.
  unfold QueryIdentity.
  repeat first [ apply ensures_quiet_bind; [apply quiet_Log|intros _]
               | apply (ensures_bind _ _ _ (fun _ => True)); [|intros _ _]
               | apply ensures_NonFatalQuery; by apply harmless_service ].
Qed.
Lemma succeeds_FatalQuery_unit pdu prefix p s :
  harmless pdu -> (forall w frame, m32r_protocol seed w pdu frame -> positive (zget pdu 0) prefix frame) ->
  succeeds I (FatalQuery (ectx channel) pdu prefix p s None) (fun _ => True).
Proof.
  intros Hp HP. apply (succeeds_FatalQuery I kExchangePolicy); [done| |by apply answered_positive].
  destruct Hp as [Hp _]. by destruct pdu.
Qed.
Lemma succeeds_FatalRequest_unit pdu p o (P : list Z -> Prop) :
  harmless pdu ->
  (forall w frame, m32r_protocol seed w pdu frame -> Matches (ParseResponse frame) (zget pdu 0) = true /\ P frame) ->
  succeeds I (FatalRequest (ectx channel) pdu p o) P.
Proof.
  intros Hp HP. apply (succeeds_FatalRequest I kExchangePolicy); [done| |by apply answered_as].
  destruct Hp as [Hp _]. by destruct pdu.
Qed.
Lemma succeeds_ConnectBootloader : succeeds I (ConnectBootloader channel) (fun _ => True).
Proof.
  unfold ConnectBootloader. apply (succeeds_try _ _ _ (fun _ => True)).
  { unfold ObkActive. delivers. apply (ensures_ask I _ _ _ (fun _ => True)); [|intros f _; by apply succeeds_ret].
    apply answered_as; [by apply harmless_service|done]. }
  intros active _. destruct active; delivers; [by apply succeeds_ret|].
  apply (succeeds_bind _ _ _ _ _ ensures_QueryIdentity). intros _ _. apply (succeeds_try _ _ _ (fun _ => True)).
  { unfold RequireBenchSession. delivers.
    apply (ensures_ask I _ _ _ (fun f => 3 <= zlen f /\ (zget f 1 = 0xA0 \/ zget f 2 = 0x20))).
    - apply answered_as; [by apply harmless_service|]. intros w frame Hm. by apply (on_probe _ _ _ _ Hm).
    - intros f [Hl Hf]. rewrite (proj2 (Z.ltb_ge _ _) Hl). cbv zeta.
      assert ((zget f 1 =? 0xA0) || (zget f 2 =? 0x20) = true) as -> by (destruct Hf as [-> | ->]; [done|apply orb_true_r]).
      cbn [negb]. delivers. by apply succeeds_ret. }
  intros _ _. apply (succeeds_try _ _ _ (fun _ => True)); [|intros _ _; delivers; by apply succeeds_ret].
  unfold UnlockAndJump. apply (succeeds_try _ _ _ (fun _ => True)).
  { apply succeeds_FatalQuery_unit; [by apply harmless_service|]. intros w frame Hm. by apply (on_session _ _ _ _ Hm). }
  intros _ _. apply (succeeds_try _ _ _ (fun _ => True)).
  { apply (succeeds_UnlockAndKernelJump I kExchangePolicy ltac:(done) _ _ seed Hseed); (apply answered_as; [by apply harmless_service|]);
      intros w frame Hm; [by apply (on_seed _ _ _ _ Hm)|by apply (on_key _ _ _ _ Hm)|by apply (on_jump _ _ _ _ Hm)]. }
  intros _ _. delivers. apply (succeeds_try _ _ _ (fun _ => True)); [|intros _ _; by apply succeeds_ret].
  apply succeeds_FatalQuery_unit; [by apply harmless_service|]. intros w frame Hm. by apply (on_download _ _ _ _ Hm).
Qed.
End against_unit.
Section reading.
Context `{Env} (seed : list Z) {HB : M32rUnit seed} (Hseed : zlen seed = 4) (encrypted : list Z).
Abbreviation channel := (CanFlashUdsChannel (GuardedCanFlashTransport adapter) 0x7E0 0x7E8).
Abbreviation I := (holds_image encrypted).
Lemma harmless_page addr : harmless (page_request addr).
Proof. by apply harmless_service. Qed.
Lemma page_answered k :
  0 <= k < 2048 ->
  replies (request_id := 0x7E0) (obeys := m32r_protocol seed) I (page_request (kPageSize * k))
    (fun frame => Matches (ParseResponse frame) kSidReadMemoryChunk = true
       /\ Payload frame = subspan encrypted (kPageSize * k) kPageSize).
Proof.
  intros Hk. pose proof (keeps_image encrypted _ (harmless_page (kPageSize * k))) as Hkeep. split; [done|].
  intros w frame Hw Ho. apply (on_page _ _ _ _ Ho k); [done|done|]. by apply Hkeep.
Qed.
Lemma succeeds_DumpFlashRange p :
  succeeds I (DumpFlashRange channel p)
    (fun r => fst r = List.concat (map (fun k => DecryptPage (subspan encrypted (kPageSize * k) kPageSize)) (seqZ 0 2048))).
Proof.
  unfold DumpFlashRange. delivers.
  apply (succeeds_bind _ _ _ (fun _ => True)).
  { apply (ensures_sends I (keeps_image encrypted) _ upload_request); [by apply harmless_service|].
    apply (does_weaken _ _ _ (does_Request (ectx channel) (wrap_can 0x7E0) (unwrap_can 0x7E8) upload_request kExchangePolicy)).
    by intros a w r [Hw _]. }
  intros setup _. apply succeeds_quiet_bind.
  { destruct setup as [f|e]; [|auto with ports]. cbv zeta. destruct (_ || _); auto with ports. }
  intros _. apply (succeeds_try _ _ _ (fun r =>
    fst r = List.concat (map (fun k => DecryptPage (subspan encrypted (kPageSize * k) kPageSize)) (seqZ 0 2048)))).
  { unfold ReadEncryptedB7Pages. delivers.
    cbn [reg_start reg_length]. change (u32 (0 + kLength)) with (kPageSize * 2048).
    exact (succeeds_read_pages I kExchangePolicy ltac:(done) (Z.to_nat (kLength / kPageSize + 2)) kRejectionPrefix DecryptPage
      (fun k => subspan encrypted (kPageSize * k) kPageSize) 2048 0 [] p ltac:(lia) ltac:(by vm_compute) ltac:(done) page_answered). }
  intros r Hr. delivers. apply (succeeds_try _ _ _ (fun _ => True)); [|intros _ _; by apply succeeds_ret].
  apply (succeeds_FatalRequest_unit seed I (keeps_image encrypted)); [by apply harmless_service|].
  intros w frame Hm. split; [by apply (on_exit _ _ _ _ Hm)|done].
Qed.
End reading.
Section writing.
Context `{Env} (seed : list Z) {HB : M32rUnit seed}.
Abbreviation channel := (CanFlashUdsChannel (GuardedCanFlashTransport adapter) 0x7E0 0x7E8).
Abbreviation any := (fun _ : list (list Z) => True).
Lemma answered_any pdu (P : list Z -> Prop) :
  (forall w frame, m32r_protocol seed w pdu frame -> P frame) ->
  replies (request_id := 0x7E0) (obeys := m32r_protocol seed) any pdu P.
Proof. intros HP. split; [done|]. eauto. Qed.
Lemma succeeds_EraseMemory : succeeds any (EraseMemory channel) (fun _ => True).
Proof.
  unfold EraseMemory. delivers. cbn [erase_wait].
  intros t _. destruct (ask_ok (obeys := m32r_protocol seed) (response_id := 0x7E8) erase_request 500 t) as (t1 & frame & E1 & _ & E2 & Ho & _).
  unfold try. rewrite bind_eq, E1. cbn [fst snd]. rewrite !bind_eq, E2. rewrite (on_erase _ _ _ _ Ho eq_refl).
  cbn. split; [|done]. by exists tt.
Qed.
Lemma succeeds_write_chunks fuel encrypted addr p :
  succeeds any (write_chunks channel fuel encrypted addr p) (fun _ => True).
Proof.
  revert addr p. induction fuel as [|fuel IH]; intros addr p; cbn [write_chunks]; [by apply succeeds_ret|].
  destruct (addr <? kLength); [|by apply succeeds_ret]. apply (succeeds_try _ _ _ (fun _ => True)).
  - apply (succeeds_FatalRequest any kExchangePolicy); [done|done|]. apply answered_any. intros w frame Hm.
    split; [|done]. by eapply (on_chunk _ _ _ _ Hm).
  - intros _ _. apply succeeds_quiet_bind; [auto with ports|]. intros p'. apply IH.
Qed.
Lemma succeeds_UnlockAndReflashBlock image p :
  succeeds any (UnlockAndReflashBlock channel image p) (fun _ => True).
Proof.
  unfold UnlockAndReflashBlock. delivers. apply (succeeds_try _ _ _ (fun _ => True)).
  { apply (succeeds_FatalRequest any kExchangePolicy); [done|done|]. apply answered_any. intros w frame Hm.
    split; [|done]. by apply (on_download _ _ _ _ Hm). }
  intros _ _. delivers. apply (succeeds_try _ _ _ _ _ (succeeds_write_chunks _ _ _ _)). intros p' _. delivers.
  apply (succeeds_bind _ _ _ (fun _ => True)); [done|]. intros _ _. delivers.
  apply (succeeds_try _ _ _ (fun _ => True)); [|intros _ _; delivers; by apply succeeds_ret].
  apply (succeeds_FatalQuery any kExchangePolicy); [done|done|]. apply answered_any. intros w frame Hm.
  pose proof (on_verify _ _ _ _ Hm eq_refl) as Hp. split_and!; [exact Hp|by eapply positive_length|done].
Qed.
End writing.

(** ** Lemmas: attempts against the unit *)
Lemma built_plan_admitted op protocol mcu img plan :
  BuildSubaruHitachiM32rCanPlan op protocol mcu img = Ok plan ->
  (let! _ := CheckFamily plan kSubaruHitachiM32rCan in ValidateSubaruHitachiM32rCanPlan plan) = Ok tt.
Proof.
  intros E. pose proof (BuildSingleWindowPlan_valid _ _ _ _ _ _ _ E) as Hv.
  apply BuildSingleWindowPlan_lemma in E as (-> & _); [|exact m32r_can_spec_ok|by eexists|done].
  unfold CheckFamily. rewrite decide_True by done. exact Hv.
Qed.
Section attempts.
Context `{Env} (seed : list Z) {HB : M32rUnit seed} (Hseed : zlen seed = 4) (protocol mcu : string).
Abbreviation channel := (CanFlashUdsChannel (GuardedCanFlashTransport adapter) 0x7E0 0x7E8).
Lemma succeeds_attempt op img plan (I : list (list Z) -> Prop) (Q : FlashExecutionResult -> Prop) :
  BuildSubaruHitachiM32rCanPlan op protocol mcu img = Ok plan ->
  succeeds I (RunBootloaderOperation plan "Subaru Hitachi M32R" (ConnectBootloader channel) (DumpFlashRange channel)
                (EraseMemory channel) (UnlockAndReflashBlock channel)) Q ->
  succeeds I (m32r_can_attempt plan) Q.
Proof.
  intros Hb Hrun. pose proof (built_plan_admitted _ _ _ _ _ Hb) as Ha.
  destruct (m32r_can_plan_built _ _ _ _ _ Hb) as (_ & Hget & _). unfold m32r_can_attempt.
  eapply (succeeds_BoundAttempt (obeys := m32r_protocol seed)); [|done|done|].
  - cbn [TransportSetup SubaruHitachiM32rCanExecutor FamilyExecutor]. rewrite Ha. cbn [result_bind]. rewrite Hget. done.
  - cbn [Execute SubaruHitachiM32rCanExecutor FamilyExecutor]. rewrite Ha.
    apply (succeeds_bind _ _ _ (fun b => b = false)).
    + intros t Ht. unfold Cancelled. rewrite bus_cancelled. cbn. by rewrite written_app, app_nil_r.
    + intros _ ->. rewrite Hget. exact Hrun.
Qed.
Lemma succeeds_write_attempt image plan :
  BuildSubaruHitachiM32rCanPlan kWrite protocol mcu (Some image) = Ok plan ->
  succeeds (fun _ => True) (m32r_can_attempt plan)
    (fun x => x = {| res_operation := kWrite; read_bytes := None; rom_id := None |}).
Proof.
  intros Hb. apply (succeeds_attempt _ _ _ _ _ Hb). destruct (m32r_can_plan_built _ _ _ _ _ Hb) as (Hop & _).
  apply succeeds_operation_write; [done| | |intros p].
  - by apply (succeeds_ConnectBootloader seed).
  - by apply (succeeds_EraseMemory seed).
  - by apply (succeeds_UnlockAndReflashBlock seed).
Qed.
Lemma succeeds_read_attempt image plan :
  BuildSubaruHitachiM32rCanPlan kRead protocol mcu None = Ok plan -> bytes_ok image -> zlen image = kLength ->
  succeeds (holds_image (EncryptRom image)) (m32r_can_attempt plan)
    (fun x => x = {| res_operation := kRead; read_bytes := Some image; rom_id := None |}).
Proof.
  intros Hb Hi Hl. apply (succeeds_attempt _ _ _ _ _ Hb). destruct (m32r_can_plan_built _ _ _ _ _ Hb) as (Hop & _).
  eapply ensures_weaken.
  - apply (succeeds_operation_read _ _ _ _ _ _ _ (fun rom => rom = image)); [done| |intros p].
    + apply (succeeds_ConnectBootloader seed Hseed). apply keeps_image.
    + eapply ensures_weaken; [by apply (succeeds_DumpFlashRange seed)|].
      intros r (x & -> & E). exists x. split; [done|]. rewrite E. by apply decrypt_image.
  - intros r (x & -> & rom & -> & ->). by eexists.
Qed.
(** A write that succeeded leaves the image in the flash. *)
Lemma write_attempt_stores image plan t x :
  BuildSubaruHitachiM32rCanPlan kWrite protocol mcu (Some image) = Ok plan ->
  fst (m32r_can_attempt plan t) = Ok x -> holds_image (EncryptRom image) (written (snd (m32r_can_attempt plan t))).
Proof.
  intros Hb E. destruct (runs_write_attempt _ _ _ _ Hb t) as (d & -> & Hspec). rewrite E in Hspec.
  destruct Hspec as (dc & de & dw & -> & _ & _ & _ & _ & Hok). destruct (Hok eq_refl) as (_ & _ & j & _ & Hw).
  rewrite !written_app, Hw, !app_assoc. apply write_sequence_stores.
Qed.
End attempts.

(** C2: flashing an M32R unit works. Against a unit that keeps the protocol (on the bench,
    answering each request, with its kernel running or not) and an adapter that does not
    fail, an attempt to write an image succeeds from any history, and an attempt to read
    made after it succeeds and returns that image, byte for byte, through both directions
    of the payload cipher. *)
Theorem m32r_can_write_then_read `{Env} seed protocol mcu image write_plan read_plan t :
  M32rUnit seed -> zlen seed = 4 ->
  BuildSubaruHitachiM32rCanPlan kWrite protocol mcu (Some image) = Ok write_plan ->
  BuildSubaruHitachiM32rCanPlan kRead protocol mcu None = Ok read_plan -> bytes_ok image ->
  let '(written_result, t1) := m32r_can_attempt write_plan t in
  let '(read_result, _) := m32r_can_attempt read_plan t1 in
  written_result = Ok {| res_operation := kWrite; read_bytes := None; rom_id := None |}
  /\ read_result = Ok {| res_operation := kRead; read_bytes := Some image; rom_id := None |}.
Proof.
  intros HB Hs Hw Hr Hi. destruct (m32r_can_plan_built _ _ _ _ _ Hw) as (_ & _ & Himg).
  destruct (Himg eq_refl) as (i & [= <-] & Hl & _).
  destruct (succeeds_write_attempt seed Hs _ _ _ _ Hw t Logic.I) as [(x & E1 & ->) _].
  pose proof (write_attempt_stores _ _ _ _ t _ Hw E1) as Hst.
  destruct (m32r_can_attempt write_plan t) as [r1 t1]. cbn [fst snd] in *.
  destruct (succeeds_read_attempt seed Hs _ _ image _ Hr Hi Hl t1 Hst) as [(y & E2 & ->) _].
  by destruct (m32r_can_attempt read_plan t1).
Qed.

(** ** Such a unit *)
Definition sample_seed : list Z := [0x12; 0x34; 0x56; 0x78].
Definition bench_reply (w : list (list Z)) (pdu : list Z) : list Z :=
  let sid := zget pdu 0 in
  if sid =? 0xA8 then [0xE8; 0xA0; 0x20]
  else if sid =? kSidDiagnosticSessionControl then [0x50; zget pdu 1]
  else if sid =? kSidSecurityAccess then
    if zget pdu 1 =? kSecurityAccessRequestSeed then [0x67; 0x01] ++ sample_seed else [0x67; 0x02]
  else if sid =? kSidRequestDownload then [0x74; 0x20; 0x01; 0x04]
  else if sid =? kSidRoutineControl then [0x71; 0x01; 0x02]
  else if sid =? kSidWriteMemoryChunk then [0xF6]
  else if sid =? kSidRequestTransferExit then [0x77]
  else if (sid =? kSidReadMemoryChunk) && (zlen pdu =? 4) then 0xF7 :: default [] (stored w (ReadUBe (zdrop 1 pdu) 0 3))
  else [0x7F; sid; 0x11].
#[local] Instance bench_unit : Env := {|
  env_cancelled := fun _ => false;
  env_sleep := fun _ _ => Ok tt;
  env_reset := fun _ => Ok tt;
  env_configure := fun _ _ => Ok tt;
  env_open := fun _ => Ok tt;
  env_close := fun _ => Ok tt;
  env_write := fun _ _ => Ok tt;
  env_read := fun t _ => Ok (Some (EmitIntegerBe 4 0x7E8 ++ bench_reply (written t) (zdrop 4 (default [] (last (written t))))));
  env_port := fun _ => absent_port
|}.
Lemma bench_reply_ok w pdu : m32r_protocol sample_seed w pdu (bench_reply w (zdrop 4 (wrap_can 0x7E0 pdu))).
Proof.
  split.
  - intros ->. split; [done|]. by left.
  - intros ->. split; [done|]. by exists [].
  - intros ->. split; [done|]. by exists [].
  - intros ->. rewrite wrap_bytes by apply bytes_ok_ComposeBe. split; [done|]. by exists [].
  - intros ->. split; [done|]. by exists [].
  - intros ->. split; [done|]. by exists [].
  - by intros ->.
  - intros encrypted addr ->. rewrite wrap_bytes by apply bytes_ok_ComposeBe. done.
  - by intros ->.
  - intros ->. split; [done|]. by exists [].
  - intros k data Hk -> Hst. rewrite wrap_bytes by apply bytes_ok_ComposeBe.
    assert (bench_reply w (zdrop 4 (EmitIntegerBe 4 0x7E0 ++ page_request (kPageSize * k)))
      = 0xF7 :: default [] (stored w (ReadUBe (EmitIntegerBe 3 (kPageSize * k)) 0 3))) as -> by reflexivity.
    rewrite (ReadUBe_EmitIntegerBe 3) by lia. change (kLength / kPageSize) with 2048 in Hk.
    change (2 ^ (8 * Z.of_nat 3)) with (2 ^ 24).
    rewrite Z.mod_small by (unfold kPageSize; lia). rewrite Hst. done.
Qed.
Lemma unwrap_frame frame : unwrap_can 0x7E8 (EmitIntegerBe 4 0x7E8 ++ frame) = Some frame.
Proof.
  unfold unwrap_can. pose proof (zlen_nonneg frame) as Hn.
  assert (zlen (EmitIntegerBe 4 0x7E8 ++ frame) = 4 + zlen frame) as Hl by (by rewrite zlen_app).
  rewrite Hl, (proj2 (Z.leb_le _ _)) by (unfold kEnvelopeSize; lia).
  rewrite (ReadU32Be_ext _ (EmitIntegerBe 4 0x7E8) 0 0); [done|lia|lia|lia|done|].
  intros i Hi. rewrite zget_app_l by (change (zlen (EmitIntegerBe 4 0x7E8)) with 4; lia). done.
Qed.
#[local] Instance bench_unit_ok : M32rUnit sample_seed.
Proof.
  split; try done. intros t timeout pdu Hl. cbn [env_read bench_unit]. rewrite Hl. cbn [default].
  eexists _, _. split; [done|]. split; [apply unwrap_frame|]. apply bench_reply_ok.
Qed.
Lemma m32r_can_write_then_read_witness :
  exists write_plan read_plan,
    let '(written_result, t1) := m32r_can_attempt write_plan [] in
    let '(read_result, _) := m32r_can_attempt read_plan t1 in
    written_result = Ok {| res_operation := kWrite; read_bytes := None; rom_id := None |}
    /\ read_result = Ok {| res_operation := kRead; read_bytes := Some (zrepeat 0x80000 0xFF); rom_id := None |}.
Proof.
  destruct (sample_m32r_plan kWrite _ blank_image) as [wp Ew]. destruct (sample_m32r_plan kRead None Logic.I) as [rp Er].
  exists wp, rp.
  exact (m32r_can_write_then_read (H := bench_unit) sample_seed "sub_ecu_hitachi_m32r_can" "M32R_512KB_1block"
    (zrepeat 0x80000 0xFF) wp rp [] bench_unit_ok eq_refl Ew Er blank_bytes).
Defined.
