(* ===== verification/Expression.v ===== *)
(** * Expression: [src/algorithms/expression/expression.{h,cpp}]

    The scaling expressions of definitions: a recursive-descent compiler from text
    to a stack program, with constants folded to find errors early, and the
    evaluator of such programs. The text is a list of characters; a [double] and
    [std::from_chars] come from the class [Double], whose binary64 instance is built
    on the Standard Library's floating-point specification. *)
From Stdlib Require Import SpecFloat.
From S2P Require Import Prelude.

(** ** [double] and [std::from_chars(first, last, value, general)]

    [from_chars s] is the value and the number of characters consumed. *)
Class Double := {
  double : Type;
  fadd : double -> double -> double;
  fsub : double -> double -> double;
  fmul : double -> double -> double;
  fdiv : double -> double -> double;
  fopp : double -> double;
  is_zero : double -> bool;
  isfinite : double -> bool;
  zero : double;
  from_chars : list ascii -> option (double * nat)
}.
(** What the code relies on: a parsed number is a non-empty prefix of its input, and
    negation keeps a number finite. *)
Class DoubleSpec `{Double} : Prop := {
  from_chars_range : forall s v n, from_chars s = Some (v, n) -> (1 <= n <= length s)%nat;
  fopp_finite : forall v, isfinite (fopp v) = isfinite v
}.

Section expression.
Context `{Double}.
Definition EvaluationResult : Type := result string double.
Definition Whitespace (c : ascii) : bool :=
  bool_decide (c ∈ [" "; "009"; "010"; "013"; "012"; "011"]%char).
Fixpoint trim_front (text : list ascii) : list ascii :=
  match text with c :: text' => if Whitespace c then trim_front text' else text | [] => [] end.
Definition Trimmed (text : list ascii) : list ascii := rev (trim_front (rev (trim_front text))).
Definition Finite (value : double) : EvaluationResult :=
  if negb (isfinite value) then Err "numeric value is not finite"%string else Ok value.
Record Instruction := { operation : ascii; value : double }.
Definition Apply (operation : ascii) (lhs rhs : double) : EvaluationResult :=
  if (operation =? "+")%char then Finite (fadd lhs rhs)
  else if (operation =? "-")%char then Finite (fsub lhs rhs)
  else if (operation =? "*")%char then Finite (fmul lhs rhs)
  else if (operation =? "/")%char then
    if is_zero rhs then Err "cannot divide by zero"%string else Finite (fdiv lhs rhs)
  else Err "invalid compiled operation"%string.

(** ** [Parser] *)
Definition Constant : Type := option double.
Definition CompileResult : Type := result string Constant.
Record Parser := { position_ : nat; nesting_ : nat; instructions_ : list Instruction }.
Definition kMaximumNesting : nat := 8.
Definition push (st : Parser) (i : Instruction) : Parser :=
  {| position_ := position_ st; nesting_ := nesting_ st; instructions_ := instructions_ st ++ [i] |}.
Definition advance (st : Parser) (n : nat) : Parser :=
  {| position_ := (position_ st + n)%nat; nesting_ := nesting_ st; instructions_ := instructions_ st |}.
Definition set_nesting (st : Parser) (n : nat) : Parser :=
  {| position_ := position_ st; nesting_ := n; instructions_ := instructions_ st |}.
Section parser.
Context (text_ : list ascii).
Definition ParseError (detail : string) (st : Parser) : CompileResult :=
  Err (detail +:+ " at position " +:+ fmt_d (Z.of_nat (position_ st))).
Fixpoint leading_whitespace (l : list ascii) : nat :=
  match l with c :: l => if Whitespace c then S (leading_whitespace l) else 0 | [] => 0 end.
Definition SkipWhitespace (st : Parser) : Parser := advance st (leading_whitespace (drop (position_ st) text_)).
Definition Consume (token : ascii) (st : Parser) : bool * Parser :=
  let st := SkipWhitespace st in
  match text_ !! position_ st with
  | Some c => if (c =? token)%char then (true, advance st 1) else (false, st)
  | None => (false, st)
  end.
Definition Binary (operation : ascii) (lhs rhs : Constant) (st : Parser) : CompileResult * Parser :=
  let st := push st {| operation := operation; value := zero |} in
  match lhs, rhs with
  | Some l, Some r =>
      match Apply operation l r with
      | Ok v => (Ok (Some v), st)
      | Err e => (Err e, st)
      end
  | _, _ => (Ok None, st)
  end.
(** The signs in front of a primary. *)
Fixpoint signs (fuel : nat) (negative : bool) (st : Parser) : option (bool * Parser) :=
  match fuel with
  | O => None
  | S fuel =>
      match Consume "-" st with
      | (true, st) => signs fuel (negb negative) st
      | (false, st) =>
          match Consume "+" st with
          | (true, st) => signs fuel negative st
          | (false, st) => Some (negative, st)
          end
      end
  end.
Definition digit_or_point (c : ascii) : bool :=
  (c =? ".")%char || ((48 <=? N_of_ascii c)%N && (N_of_ascii c <=? 57)%N).
(** A number at the position, which is the last alternative of a primary. *)
Definition number (st : Parser) : CompileResult * Parser :=
  let st := SkipWhitespace st in
  match text_ !! position_ st with
  | Some c =>
      if negb (digit_or_point c) then (ParseError "expected a number, x, or parenthesized expression" st, st)
      else
        match from_chars (drop (position_ st) text_) with
        | None => (ParseError "invalid numeric literal" st, st)
        | Some (v, n) =>
            let st := advance st n in
            match Finite v with
            | Err e => (Err e, st)
            | Ok _ => (Ok (Some v), push st {| operation := "n"; value := v |})
            end
        end
  | None => (ParseError "expected a number, x, or parenthesized expression" st, st)
  end.
Definition sum_operator (c : ascii) : bool := (c =? "+")%char || (c =? "-")%char.
Definition product_operator (c : ascii) : bool := (c =? "*")%char || (c =? "/")%char.
(** The mutually recursive descent; [None] when the fuel runs out. *)
Fixpoint Sum (fuel : nat) (st : Parser) : option (CompileResult * Parser) :=
  match fuel with
  | O => None
  | S fuel => match Product fuel st with Some (lhs, st) => sum_loop fuel lhs st | None => None end
  end
with sum_loop (fuel : nat) (lhs : CompileResult) (st : Parser) : option (CompileResult * Parser) :=
  match fuel with
  | O => None
  | S fuel =>
      match lhs with
      | Err _ => Some (lhs, st)
      | Ok l =>
          let st := SkipWhitespace st in
          match text_ !! position_ st with
          | Some operation =>
              if negb (sum_operator operation) then Some (lhs, st)
              else
                match Product fuel (advance st 1) with
                | None => None
                | Some (Err e, st) => Some (Err e, st)
                | Some (Ok r, st) => let '(lhs, st) := Binary operation l r st in sum_loop fuel lhs st
                end
          | None => Some (lhs, st)
          end
      end
  end
with Product (fuel : nat) (st : Parser) : option (CompileResult * Parser) :=
  match fuel with
  | O => None
  | S fuel => match Unary fuel st with Some (lhs, st) => product_loop fuel lhs st | None => None end
  end
with product_loop (fuel : nat) (lhs : CompileResult) (st : Parser) : option (CompileResult * Parser) :=
  match fuel with
  | O => None
  | S fuel =>
      match lhs with
      | Err _ => Some (lhs, st)
      | Ok l =>
          let st := SkipWhitespace st in
          match text_ !! position_ st with
          | Some operation =>
              if negb (product_operator operation) then Some (lhs, st)
              else
                match Unary fuel (advance st 1) with
                | None => None
                | Some (Err e, st) => Some (Err e, st)
                | Some (Ok r, st) =>
                    if (operation =? "/")%char && match r with Some v => is_zero v | None => false end
                    then Some (ParseError "cannot divide by zero" st, st)
                    else let '(lhs, st) := Binary operation l r st in product_loop fuel lhs st
                end
          | None => Some (lhs, st)
          end
      end
  end
with Unary (fuel : nat) (st : Parser) : option (CompileResult * Parser) :=
  match fuel with
  | O => None
  | S fuel =>
      match signs fuel false st with
      | None => None
      | Some (negative, st) =>
          match Primary fuel st with
          | None => None
          | Some (Ok v, st) =>
              Some (if negative : bool then (Ok (option_map fopp v), push st {| operation := "~"; value := zero |})
                    else (Ok v, st))
          | Some (Err e, st) => Some (Err e, st)
          end
      end
  end
with Primary (fuel : nat) (st : Parser) : option (CompileResult * Parser) :=
  match fuel with
  | O => None
  | S fuel =>
      match Consume "(" st with
      | (true, st) =>
          if (kMaximumNesting <=? nesting_ st)%nat then Some (ParseError "expression nesting is too deep" st, st)
          else
            match Sum fuel (set_nesting st (S (nesting_ st))) with
            | None => None
            | Some (Err e, st) => Some (Err e, set_nesting st (pred (nesting_ st)))
            | Some (Ok v, st) =>
                match Consume ")" (set_nesting st (pred (nesting_ st))) with
                | (true, st) => Some (Ok v, st)
                | (false, st) => Some (ParseError "missing closing parenthesis" st, st)
                end
            end
      | (false, st) =>
          match Consume "x" st with
          | (true, st) => Some (Ok None, push st {| operation := "x"; value := zero |})
          | (false, st) => Some (number st)
          end
      end
  end.
(** Enough fuel for any text: every fourth call consumes a character. *)
Definition parse_fuel : nat := (4 * length text_ + 5)%nat.
Definition Parser_Compile : option (CompileResult * Parser) :=
  match Sum parse_fuel {| position_ := 0; nesting_ := 0; instructions_ := [] |} with
  | None => None
  | Some (Err e, st) => Some (Err e, st)
  | Some (Ok v, st) =>
      let st := SkipWhitespace st in
      Some (if negb (position_ st =? length text_)%nat then (ParseError "unexpected token" st, st) else (Ok v, st))
  end.
End parser.

(** ** [Compile], [Evaluate], [ParseFiniteNumber] *)
Definition Compile (expression : list ascii) : result string (list Instruction) :=
  let expression := Trimmed expression in
  match expression with
  | [] => Ok [{| operation := "x"; value := zero |}]
  | _ =>
      match Parser_Compile expression with
      | Some (Ok _, st) => Ok (instructions_ st)
      | Some (Err e, _) => Err e
      | None => Err "out of fuel"%string
      end
  end.
(** The evaluator's loop over the instructions; the stack's back is the head of
    [values]. [None] stands for reading the back of an empty vector. *)
Fixpoint evaluate (instructions : list Instruction) (x : double) (values : list double) : option EvaluationResult :=
  match instructions with
  | [] => match values with v :: _ => Some (Ok v) | [] => None end
  | i :: instructions =>
      if (operation i =? "n")%char || (operation i =? "x")%char then
        evaluate instructions x ((if (operation i =? "x")%char then x else value i) :: values)
      else if (operation i =? "~")%char then
        match values with v :: values => evaluate instructions x (fopp v :: values) | [] => None end
      else
        match values with
        | rhs :: lhs :: values =>
            match Apply (operation i) lhs rhs with
            | Ok v => evaluate instructions x (v :: values)
            | Err e => Some (Err e)
            end
        | _ => None
        end
  end.
Definition Evaluate (program : list Instruction) (x : double) : option EvaluationResult :=
  match Finite x with
  | Err e => Some (Err e)
  | Ok _ => evaluate program x []
  end.
Definition EvaluateChecked (expression : list ascii) (x : double) : option EvaluationResult :=
  match Compile expression with Err e => Some (Err e) | Ok program => Evaluate program x end.
Definition ParseFiniteNumber (text : list ascii) : EvaluationResult :=
  let text := Trimmed text in
  let! text :=
    match text with
    | "+"%char :: text =>
        match text with
        | c :: _ => if (c =? "-")%char || (c =? "+")%char then Err "numeric literal has multiple signs"%string else Ok text
        | [] => Ok text
        end
    | _ => Ok text
    end in
  match text with
  | [] => Err "numeric literal is empty"%string
  | _ =>
      match from_chars text with
      | Some (v, n) => if negb (n =? length text)%nat then Err "invalid numeric literal"%string else Finite v
      | None => Err "invalid numeric literal"%string
      end
  end.
End expression.

(** ** The binary64 instance *)
Section binary64.
Definition kPrec : Z := 53.
Definition kEmax : Z := 1024.
(** The digits at the front: their value after [acc] and how many. *)
Fixpoint scan_digits (l : list ascii) (acc : Z) : Z * nat :=
  match l with
  | c :: l =>
      let v := Z.of_N (N_of_ascii c) - 48 in
      if (0 <=? v) && (v <=? 9) then let '(r, n) := scan_digits l (10 * acc + v) in (r, S n) else (acc, 0%nat)
  | [] => (acc, 0%nat)
  end.
(** The exponent part: its value and length, nothing if it is not complete. *)
Definition scan_exponent (l : list ascii) : Z * nat :=
  match l with
  | c :: l =>
      if (c =? "e")%char || (c =? "E")%char then
        let '(negative, l, k) :=
          match l with
          | "-"%char :: l => (true, l, 2%nat)
          | "+"%char :: l => (false, l, 2%nat)
          | _ => (false, l, 1%nat)
          end in
        let '(v, n) := scan_digits l 0 in
        if (n =? 0)%nat then (0, 0%nat) else (if negative : bool then - v else v, (k + n)%nat)
      else (0, 0%nat)
  | [] => (0, 0%nat)
  end.
(** The double nearest to [m * 10 ^ e], ties to even. *)
Definition decimal (negative : bool) (m e : Z) : spec_float :=
  match m with
  | Zpos p =>
      if 0 <=? e then binary_normalize kPrec kEmax ((if negative then -1 else 1) * (m * 10 ^ e)) 0 negative
      else let '(q, e', l) := SFdiv_core_binary kPrec kEmax m 0 (10 ^ (- e)) 0 in
           binary_round_aux kPrec kEmax negative q e' l
  | _ => S754_zero negative
  end.
Definition starts_nocase (word l : list ascii) : bool :=
  bool_decide (word = map (fun c => if (65 <=? N_of_ascii c)%N && (N_of_ascii c <=? 90)%N
                                    then ascii_of_N (N_of_ascii c + 32) else c) (take (length word) l)).
Definition unsigned_from_chars (negative : bool) (l : list ascii) : option (spec_float * nat) :=
  if starts_nocase ["i"; "n"; "f"; "i"; "n"; "i"; "t"; "y"]%char l then Some (S754_infinity negative, 8%nat)
  else if starts_nocase ["i"; "n"; "f"]%char l then Some (S754_infinity negative, 3%nat)
  else if starts_nocase ["n"; "a"; "n"]%char l then Some (S754_nan, 3%nat)
  else
    let '(m, n) := scan_digits l 0 in
    let '(m, f, k) :=
      match drop n l with
      | "."%char :: l => let '(m, f) := scan_digits l m in (m, f, S f)
      | _ => (m, 0%nat, 0%nat)
      end in
    if (n + f =? 0)%nat then None
    else
      let '(e, j) := scan_exponent (drop (n + k) l) in
      let e := e - Z.of_nat f in
      let v := if m =? 0 then S754_zero negative
               else if 2000 <? e + Z.log2 m * 30 / 100 then S754_infinity negative
               else if e + (Z.log2 m + 1) * 31 / 100 + 1 <? -2000 then S754_zero negative
               else decimal negative m e in
      match v with
      | S754_infinity _ | S754_nan => None
      | S754_zero _ => if m =? 0 then Some (v, (n + k + j)%nat) else None
      | S754_finite _ _ _ => Some (v, (n + k + j)%nat)
      end.
#[export] Instance binary64 : Double := {|
  double := spec_float;
  fadd := SFadd kPrec kEmax;
  fsub := SFsub kPrec kEmax;
  fmul := SFmul kPrec kEmax;
  fdiv := SFdiv kPrec kEmax;
  fopp := SFopp;
  is_zero v := SFeqb v (S754_zero false);
  isfinite v := match v with S754_zero _ | S754_finite _ _ _ => true | _ => false end;
  zero := S754_zero false;
  from_chars l :=
    match l with
    | "-"%char :: l => option_map (fun '(v, n) => (v, S n)) (unsigned_from_chars true l)
    | _ => unsigned_from_chars false l
    end
|}.
End binary64.
Definition chars (s : string) : list ascii := String.list_ascii_of_string s.

(** ** The grammar

    What the compiler accepts, without positions, loops or fuel. [sum k e inp rest]:
    a prefix of [inp] spells [e] with parentheses at most [k] deep, and [rest] is
    left, up to white space. Signs before a primary negate it when the minus signs are odd in number. *)
Section grammar.
Context `{Double}.
Inductive expr : Type :=
| Num (v : double)
| X
| Neg (e : expr)
| Bin (op : ascii) (l r : expr).
Fixpoint skip (l : list ascii) : list ascii :=
  match l with c :: l' => if Whitespace c then skip l' else l | [] => [] end.
Inductive sign_run : bool -> list ascii -> list ascii -> Prop :=
| signs_done inp rest : skip rest = skip inp -> sign_run false inp rest
| signs_minus odd inp m rest : skip inp = "-"%char :: m -> sign_run odd m rest -> sign_run (negb odd) inp rest
| signs_plus odd inp m rest : skip inp = "+"%char :: m -> sign_run odd m rest -> sign_run odd inp rest.
Inductive sum : nat -> expr -> list ascii -> list ascii -> Prop :=
| sum_intro k l e inp mid rest : product k l inp mid -> sum_tail k l e mid rest -> sum k e inp rest
with sum_tail : nat -> expr -> expr -> list ascii -> list ascii -> Prop :=
| sum_done k e inp rest : skip rest = skip inp -> sum_tail k e e inp rest
| sum_more k l r e op inp m mid rest :
    skip inp = op :: m -> sum_operator op = true -> product k r m mid -> sum_tail k (Bin op l r) e mid rest ->
    sum_tail k l e inp rest
with product : nat -> expr -> list ascii -> list ascii -> Prop :=
| product_intro k l e inp mid rest : unary k l inp mid -> product_tail k l e mid rest -> product k e inp rest
with product_tail : nat -> expr -> expr -> list ascii -> list ascii -> Prop :=
| product_done k e inp rest : skip rest = skip inp -> product_tail k e e inp rest
| product_more k l r e op inp m mid rest :
    skip inp = op :: m -> product_operator op = true -> unary k r m mid -> product_tail k (Bin op l r) e mid rest ->
    product_tail k l e inp rest
with unary : nat -> expr -> list ascii -> list ascii -> Prop :=
| unary_intro k odd e inp mid rest :
    sign_run odd inp mid -> primary k e mid rest -> unary k (if odd then Neg e else e) inp rest
with primary : nat -> expr -> list ascii -> list ascii -> Prop :=
| primary_paren k e inp m mid rest :
    skip inp = "("%char :: m -> sum k e m mid -> skip mid = ")"%char :: rest -> primary (S k) e inp rest
| primary_x k inp rest : skip inp = "x"%char :: rest -> primary k X inp rest
| primary_number k v n inp c m :
    skip inp = c :: m -> digit_or_point c = true -> from_chars (c :: m) = Some (v, n) -> isfinite v = true ->
    primary k (Num v) inp (drop n (c :: m)).
(** A whole text. *)
Definition spells (e : expr) (text : list ascii) : Prop :=
  exists rest, sum kMaximumNesting e text rest /\ skip rest = [].
(** The instructions of an expression, operands first. *)
Fixpoint postfix (e : expr) : list Instruction :=
  match e with
  | Num v => [{| operation := "n"; value := v |}]
  | X => [{| operation := "x"; value := zero |}]
  | Neg e => postfix e ++ [{| operation := "~"; value := zero |}]
  | Bin op l r => postfix l ++ postfix r ++ [{| operation := op; value := zero |}]
  end.
(** Folding: [None] when a constant subexpression fails, or a divisor is the
    constant zero; [Some None] for an expression in [x]. *)
Fixpoint fold (e : expr) : option Constant :=
  match e with
  | Num v => Some (Some v)
  | X => Some None
  | Neg e => match fold e with Some c => Some (option_map fopp c) | None => None end
  | Bin op l r =>
      match fold l, fold r with
      | Some a, Some b =>
          if (op =? "/")%char && match b with Some v => is_zero v | None => false end then None
          else match a, b with
               | Some u, Some v => match Apply op u v with Ok w => Some (Some w) | Err _ => None end
               | _, _ => Some None
               end
      | _, _ => None
      end
  end.
(** The value of an expression. *)
Fixpoint eval (e : expr) (x : double) : EvaluationResult :=
  match e with
  | Num v => Ok v
  | X => Ok x
  | Neg e => let! v := eval e x in Ok (fopp v)
  | Bin op l r => let! u := eval l x in let! v := eval r x in Apply op u v
  end.
End grammar.
Scheme sum_mut := Minimality for sum Sort Prop
  with sum_tail_mut := Minimality for sum_tail Sort Prop
  with product_mut := Minimality for product Sort Prop
  with product_tail_mut := Minimality for product_tail Sort Prop
  with unary_mut := Minimality for unary Sort Prop
  with primary_mut := Minimality for primary Sort Prop.
Combined Scheme grammar_mut from sum_mut, sum_tail_mut, product_mut, product_tail_mut, unary_mut, primary_mut.

(** One call of the descent. *)
Ltac descend_in t :=
  cbn [Sum sum_loop Product product_loop Unary Primary];
  fold (Sum t) (sum_loop t) (Product t) (product_loop t) (Unary t) (Primary t).
Ltac descend :=
  match goal with
  | |- context [Sum ?t (S _)] => descend_in t
  | |- context [sum_loop ?t (S _)] => descend_in t
  | |- context [Product ?t (S _)] => descend_in t
  | |- context [product_loop ?t (S _)] => descend_in t
  | |- context [Unary ?t (S _)] => descend_in t
  | |- context [Primary ?t (S _)] => descend_in t
  end.

(** ** Lemmas: the text from the position on *)
Section remaining.
Context `{Double} (text_ : list ascii).
Definition rem (st : Parser) : list ascii := drop (position_ st) text_.
Definition same (st st' : Parser) : Prop := nesting_ st' = nesting_ st /\ instructions_ st' = instructions_ st.
Lemma skip_idem l : skip (skip l) = skip l.
Proof. induction l as [|c l IH]; [done|]. cbn. destruct (Whitespace c) eqn:E; [done|]. cbn. by rewrite E. Qed.
Lemma skip_length l : (length (skip l) <= length l)%nat.
Proof. induction l as [|c l IH]; [done|]. cbn. destruct (Whitespace c); cbn; lia. Qed.
Lemma skip_cons_length l c m : skip l = c :: m -> (length m < length l)%nat.
Proof. intros E. pose proof (skip_length l) as Hl. rewrite E in Hl. cbn in Hl. lia. Qed.
Lemma drop_leading_whitespace l : drop (leading_whitespace l) l = skip l.
Proof. induction l as [|c l IH]; [done|]. cbn. by destruct (Whitespace c). Qed.
Lemma rem_skip st : rem (SkipWhitespace text_ st) = skip (rem st).
Proof.
  unfold rem, SkipWhitespace, advance. cbn [position_]. rewrite <- drop_drop. apply drop_leading_whitespace.
Qed.
Lemma rem_advance st n : rem (advance st n) = drop n (rem st).
Proof. unfold rem, advance. cbn [position_]. by rewrite drop_drop. Qed.
Lemma peek st : text_ !! position_ st = head (rem st).
Proof.
  unfold rem. rewrite <- (Nat.add_0_r (position_ st)) at 1. rewrite <- lookup_drop.
  by destruct (drop (position_ st) text_).
Qed.
Lemma peek_skip st : text_ !! position_ (SkipWhitespace text_ st) = head (skip (rem st)).
Proof. by rewrite peek, rem_skip. Qed.
Lemma Consume_yes tok st m :
  skip (rem st) = tok :: m ->
  exists st', Consume text_ tok st = (true, st') /\ rem st' = m /\ same st st'.
Proof.
  intros E. unfold Consume. rewrite peek_skip, E. cbn [head]. rewrite Ascii.eqb_refl. eexists. split; [done|].
  rewrite rem_advance, rem_skip, E. by split.
Qed.
Lemma Consume_no tok st :
  (forall m, skip (rem st) <> tok :: m) -> Consume text_ tok st = (false, SkipWhitespace text_ st).
Proof.
  intros Hn. unfold Consume. rewrite peek_skip. destruct (skip (rem st)) as [|c m] eqn:E; cbn [head]; [done|].
  destruct (Ascii.eqb_spec c tok) as [->|]; [|done]. by destruct (Hn m).
Qed.
Lemma Consume_cases tok st :
  (exists m st', skip (rem st) = tok :: m /\ Consume text_ tok st = (true, st') /\ rem st' = m /\ same st st')
  \/ ((forall m, skip (rem st) <> tok :: m) /\ Consume text_ tok st = (false, SkipWhitespace text_ st)).
Proof.
  destruct (skip (rem st)) as [|c m] eqn:E.
  - right. split; [done|]. apply Consume_no. by rewrite E.
  - destruct (decide (c = tok)) as [->|Hne].
    + left. destruct (Consume_yes tok st m E) as (st' & ?). by exists m, st'.
    + right. assert (forall m', c :: m <> tok :: m') by (intros m' [= ]; done). split; [done|]. apply Consume_no. by rewrite E.
Qed.
Lemma same_skip st : same st (SkipWhitespace text_ st).
Proof. done. Qed.
End remaining.

(** ** Lemmas: the parser stops with an answer *)
Section termination.
Context `{Double} (text_ : list ascii).
Abbreviation left_of st := (length (rem text_ st)).
Definition answers (r : option (CompileResult * Parser)) (n : nat) : Prop :=
  exists c st', r = Some (c, st') /\ (left_of st' <= n)%nat.
Lemma signs_total fuel negative st :
  (left_of st < fuel)%nat ->
  exists b st', signs text_ fuel negative st = Some (b, st') /\ (left_of st' <= left_of st)%nat.
Proof.
  revert negative st. induction fuel as [|fuel IH]; intros negative st Hf; [lia|]. cbn [signs].
  destruct (Consume_cases text_ "-" st) as [(m & st' & E & -> & Hr & _)|[_ ->]].
  { apply skip_cons_length in E. destruct (IH (negb negative) st') as (b & st2 & -> & Hl); [rewrite Hr; lia|].
    exists b, st2. rewrite Hr in Hl. split; [done|lia]. }
  destruct (Consume_cases text_ "+" (SkipWhitespace text_ st)) as [(m & st' & E & -> & Hr & _)|[_ ->]].
  - rewrite rem_skip, skip_idem in E. apply skip_cons_length in E.
    destruct (IH negative st') as (b & st2 & -> & Hl); [rewrite Hr; lia|].
    exists b, st2. rewrite Hr in Hl. split; [done|lia].
  - eexists _, _. split; [done|]. rewrite !rem_skip, skip_idem. apply skip_length.
Qed.
Lemma number_answers st : answers (Some (number text_ st)) (left_of st).
Proof.
  unfold number, answers. rewrite peek_skip. pose proof (skip_length (rem text_ st)) as Hs.
  destruct (skip (rem text_ st)) as [|c m] eqn:E; cbn [head].
  { eexists _, _. split; [done|]. rewrite rem_skip, E. cbn. lia. }
  destruct (digit_or_point c); cbn [negb].
  - destruct (from_chars _) as [[v n]|]; [|eexists _, _; split; [done|]; rewrite rem_skip, E; done].
    cbv zeta. destruct (Finite v) as [w|e]; eexists _, _; (split; [done|]).
    + change (left_of (advance (SkipWhitespace text_ st) n) <= left_of st)%nat.
      rewrite rem_advance, rem_skip, length_drop, E. lia.
    + rewrite rem_advance, rem_skip, length_drop, E. lia.
  - eexists _, _. split; [done|]. rewrite rem_skip, E. done.
Qed.
Lemma left_push st i : left_of (push st i) = left_of st.
Proof. done. Qed.
Lemma left_nesting st n : left_of (set_nesting st n) = left_of st.
Proof. done. Qed.
Lemma Binary_left op l r st : left_of (snd (Binary op l r st)) = left_of st.
Proof. unfold Binary. by destruct l as [l|], r as [r|]; [destruct (Apply op l r)|..]. Qed.
Lemma answers_le r n m : answers r n -> (n <= m)%nat -> answers r m.
Proof. intros (c & st' & -> & Hl) Hnm. exists c, st'. split; [done|lia]. Qed.
(** The next operator's operand starts at least one character further on. *)
Lemma left_operator st c m :
  skip (rem text_ st) = c :: m -> (left_of (advance (SkipWhitespace text_ st) 1) < left_of st)%nat.
Proof. intros E. rewrite rem_advance, rem_skip, E. cbn. by apply skip_cons_length in E. Qed.
Lemma left_skip st : (left_of (SkipWhitespace text_ st) <= left_of st)%nat.
Proof. rewrite rem_skip. apply skip_length. Qed.
(** With [4 * n + k] fuel for [n] characters, a call answers. *)
Definition total (k : nat) (f : Parser -> option (CompileResult * Parser)) (fuel : nat) : Prop :=
  forall st, (4 * left_of st + k <= fuel)%nat -> answers (f st) (left_of st).
Section total_steps.
Context (fuel : nat).
Context (IHs : total 4 (Sum text_ fuel) fuel) (IHsl : forall l, total 1 (sum_loop text_ fuel l) fuel)
  (IHp : total 3 (Product text_ fuel) fuel) (IHpl : forall l, total 1 (product_loop text_ fuel l) fuel)
  (IHu : total 2 (Unary text_ fuel) fuel) (IHpr : total 1 (Primary text_ fuel) fuel).
Lemma Sum_total : total 4 (Sum text_ (S fuel)) (S fuel).
Proof.
  intros st Hf. descend. destruct (IHp st ltac:(lia)) as (c & st' & -> & Hl).
  apply (answers_le _ (left_of st')); [apply IHsl; lia|done].
Qed.
Lemma sum_loop_total : forall l, total 1 (sum_loop text_ (S fuel) l) (S fuel).
Proof.
  intros l st Hf. descend. destruct l as [l|e]; [|by eexists _, _]. cbv zeta. rewrite peek_skip.
  pose proof (left_skip st) as Hsk. destruct (skip (rem text_ st)) as [|c m] eqn:E; cbn [head]; [by eexists _, _|].
  destruct (sum_operator c); cbn [negb]; [|by eexists _, _]. apply left_operator in E.
  destruct (IHp (advance (SkipWhitespace text_ st) 1) ltac:(lia)) as (r & st' & -> & Hl).
  destruct r as [r|e]; [|eexists _, _; split; [done|lia]]. pose proof (Binary_left c l r st') as Hb.
  destruct (Binary c l r st') as [l' st2]. cbn [snd] in Hb. apply (answers_le _ (left_of st2)); [apply IHsl; lia|lia].
Qed.
Lemma Product_total : total 3 (Product text_ (S fuel)) (S fuel).
Proof.
  intros st Hf. descend. destruct (IHu st ltac:(lia)) as (c & st' & -> & Hl).
  apply (answers_le _ (left_of st')); [apply IHpl; lia|done].
Qed.
Lemma product_loop_total : forall l, total 1 (product_loop text_ (S fuel) l) (S fuel).
Proof.
  intros l st Hf. descend. destruct l as [l|e]; [|by eexists _, _]. cbv zeta. rewrite peek_skip.
  pose proof (left_skip st) as Hsk. destruct (skip (rem text_ st)) as [|c m] eqn:E; cbn [head]; [by eexists _, _|].
  destruct (product_operator c); cbn [negb]; [|by eexists _, _]. apply left_operator in E.
  destruct (IHu (advance (SkipWhitespace text_ st) 1) ltac:(lia)) as (r & st' & -> & Hl).
  destruct r as [r|e]; [|eexists _, _; split; [done|lia]].
  destruct (_ && _); [eexists _, _; split; [done|lia]|]. pose proof (Binary_left c l r st') as Hb.
  destruct (Binary c l r st') as [l' st2]. cbn [snd] in Hb. apply (answers_le _ (left_of st2)); [apply IHpl; lia|lia].
Qed.
Lemma Unary_total : total 2 (Unary text_ (S fuel)) (S fuel).
Proof.
  intros st Hf. descend. destruct (signs_total fuel false st ltac:(lia)) as (b & st' & -> & Hl).
  destruct (IHpr st' ltac:(lia)) as (r & st2 & -> & Hl2). destruct r as [v|e], b; eexists _, _; (split; [done|]);
    rewrite ?left_push; lia.
Qed.
Lemma Primary_total : total 1 (Primary text_ (S fuel)) (S fuel).
Proof.
  intros st Hf. descend. destruct (Consume_cases text_ "(" st) as [(m & st' & E & -> & Hr & _)|[_ ->]].
  + apply skip_cons_length in E. rewrite <- Hr in E. destruct (_ <=? _)%nat; [eexists _, _; split; [done|lia]|].
    destruct (IHs (set_nesting st' (S (nesting_ st'))) ltac:(rewrite left_nesting; lia)) as (r & st2 & -> & Hl).
    rewrite left_nesting in Hl. destruct r as [v|e]; [|eexists _, _; split; [done|rewrite left_nesting; lia]].
    destruct (Consume_cases text_ ")" (set_nesting st2 (pred (nesting_ st2)))) as [(m2 & st3 & E2 & -> & Hr2 & _)|[_ ->]].
    * apply skip_cons_length in E2. rewrite left_nesting, <- Hr2 in E2. eexists _, _. split; [done|lia].
    * eexists _, _. split; [done|]. pose proof (left_skip (set_nesting st2 (pred (nesting_ st2)))) as H1.
      rewrite left_nesting in H1. lia.
  + destruct (Consume_cases text_ "x" (SkipWhitespace text_ st)) as [(m & st' & E & -> & Hr & _)|[_ ->]].
    * rewrite rem_skip, skip_idem in E. apply skip_cons_length in E. rewrite <- Hr in E.
      eexists _, _. split; [done|]. rewrite left_push. lia.
    * apply (answers_le _ _ _ (number_answers _)). rewrite !rem_skip, skip_idem. apply skip_length.
Qed.
End total_steps.
Lemma descent_total fuel :
  total 4 (Sum text_ fuel) fuel /\ (forall l, total 1 (sum_loop text_ fuel l) fuel)
  /\ total 3 (Product text_ fuel) fuel /\ (forall l, total 1 (product_loop text_ fuel l) fuel)
  /\ total 2 (Unary text_ fuel) fuel /\ total 1 (Primary text_ fuel) fuel.
Proof.
  induction fuel as [|fuel (IHs & IHsl & IHp & IHpl & IHu & IHpr)]; [unfold total; split_and!; intros; lia|].
  split_and!; [apply Sum_total|apply sum_loop_total|apply Product_total|apply product_loop_total|apply Unary_total
    |apply Primary_total]; done.
Qed.
Lemma Parser_Compile_total : exists r, Parser_Compile text_ = Some r.
Proof.
  unfold Parser_Compile.
  destruct (proj1 (descent_total (parse_fuel text_)) {| position_ := 0; nesting_ := 0; instructions_ := [] |})
    as (c & st & -> & _); [unfold parse_fuel, rem; cbn [position_]; rewrite drop_0; lia|]. destruct c; eauto.
Qed.
End termination.

(** ** Lemmas: what is compiled is spelled *)
Section soundness.
Context `{Double} (text_ : list ascii).
Abbreviation R st := (rem text_ st).
Definition parsed (G : expr -> list ascii -> list ascii -> Prop) (st : Parser) (c : Constant) (st' : Parser) : Prop :=
  exists e, G e (R st) (R st') /\ fold e = Some c /\ instructions_ st' = instructions_ st ++ postfix e
    /\ nesting_ st' = nesting_ st.
Definition extended (G : expr -> list ascii -> list ascii -> Prop) (l : expr) (st : Parser) (c : Constant)
    (st' : Parser) : Prop :=
  exists e code, G e (R st) (R st') /\ fold e = Some c /\ postfix e = postfix l ++ code
    /\ instructions_ st' = instructions_ st ++ code /\ nesting_ st' = nesting_ st.
Lemma signs_sound fuel negative st b st' :
  signs text_ fuel negative st = Some (b, st') ->
  exists odd, sign_run odd (R st) (R st') /\ b = xorb negative odd /\ same st st'.
Proof.
  revert negative st. induction fuel as [|fuel IH]; intros negative st; [done|]. cbn [signs].
  destruct (Consume_cases text_ "-" st) as [(m & st1 & E & -> & Hr & [Hn Hi])|[_ ->]].
  { intros E1. destruct (IH _ _ E1) as (odd & Ho & -> & [Hn' Hi']). exists (negb odd). rewrite Hr in Ho. split_and!.
    - by eapply signs_minus.
    - by destruct negative, odd.
    - split; congruence. }
  destruct (Consume_cases text_ "+" (SkipWhitespace text_ st)) as [(m & st1 & E & -> & Hr & [Hn Hi])|[_ ->]].
  - rewrite rem_skip, skip_idem in E. intros E1. destruct (IH _ _ E1) as (odd & Ho & -> & [Hn' Hi']).
    exists odd. rewrite Hr in Ho. split_and!; [by eapply signs_plus|done|split]; cbn in *; congruence.
  - intros [= -> <-]. exists false. rewrite !rem_skip, skip_idem. split_and!; [|by rewrite xorb_false_r|done].
    apply signs_done. apply skip_idem.
Qed.
Lemma number_sound k st c st' : number text_ st = (Ok c, st') -> parsed (primary k) st c st'.
Proof.
  unfold number. rewrite peek_skip. fold (R (SkipWhitespace text_ st)). rewrite rem_skip.
  destruct (skip (R st)) as [|a m] eqn:E; cbn [head]; [done|].
  destruct (digit_or_point a) eqn:Ha; cbn [negb]; [|done].
  destruct (from_chars _) as [[v n]|] eqn:Ef; [|done]. cbv zeta. unfold Finite.
  destruct (isfinite v) eqn:Hv; cbn [negb]; [|done]. intros [= <- <-]. exists (Num v). split_and!; [|done|done|done].
  change (R (push ?s ?i)) with (R s). rewrite rem_advance, rem_skip, E. by apply primary_number.
Qed.
Lemma Binary_sound op l r a b st c st' :
  fold l = Some a -> fold r = Some b ->
  (op =? "/")%char && match b with Some v => is_zero v | None => false end = false ->
  Binary op a b st = (Ok c, st') ->
  fold (Bin op l r) = Some c /\ st' = push st {| operation := op; value := zero |}.
Proof.
  intros Hl Hr Hz. cbn [fold]. rewrite Hl, Hr, Hz. unfold Binary.
  destruct a as [a|], b as [b|]; try (by intros [= <- <-]).
  destruct (Apply op a b); by intros [= <- <-].
Qed.
Lemma sum_operator_cases op : sum_operator op = true -> op = "+"%char \/ op = "-"%char.
Proof. unfold sum_operator. intros [E|E]%orb_prop; apply Ascii.eqb_eq in E; auto. Qed.
Lemma product_operator_cases op : product_operator op = true -> op = "*"%char \/ op = "/"%char.
Proof. unfold product_operator. intros [E|E]%orb_prop; apply Ascii.eqb_eq in E; auto. Qed.
Definition sound_in (G : nat -> expr -> list ascii -> list ascii -> Prop)
    (f : Parser -> option (CompileResult * Parser)) : Prop :=
  forall k st c st', (k + nesting_ st = 8)%nat -> f st = Some (Ok c, st') -> parsed (G k) st c st'.
Definition sound_tail (G : nat -> expr -> expr -> list ascii -> list ascii -> Prop)
    (f : CompileResult -> Parser -> option (CompileResult * Parser)) : Prop :=
  forall k l a st c st', (k + nesting_ st = 8)%nat -> fold l = Some a ->
    f (Ok a) st = Some (Ok c, st') -> extended (G k l) l st c st'.
Section sound_steps.
Context (fuel : nat).
Context (IHs : sound_in sum (Sum text_ fuel)) (IHsl : sound_tail sum_tail (sum_loop text_ fuel))
  (IHp : sound_in product (Product text_ fuel)) (IHpl : sound_tail product_tail (product_loop text_ fuel))
  (IHu : sound_in unary (Unary text_ fuel)) (IHpr : sound_in primary (Primary text_ fuel)).
Lemma Sum_sound : sound_in sum (Sum text_ (S fuel)).
Proof.
  intros k st c st' Hk. descend. destruct (Product text_ fuel st) as [[[a|e] st1]|] eqn:E1; [|destruct fuel; done|done].
  intros E2. destruct (IHp _ _ _ _ Hk E1) as (l & Gl & Fl & Il & Nl). rewrite <- Nl in Hk.
  destruct (IHsl _ _ _ _ _ _ Hk Fl E2) as (e & code & Ge & Fe & Pe & Ie & Ne). exists e. split_and!; [|done| |congruence].
  + by eapply sum_intro.
  + by rewrite Ie, Il, Pe, <- app_assoc.
Qed.
Lemma sum_loop_sound : sound_tail sum_tail (sum_loop text_ (S fuel)).
Proof.
  intros k l a st c st' Hk Fl. descend. cbv zeta. rewrite peek_skip. destruct (skip (R st)) as [|op m] eqn:E; cbn [head].
  + intros [= <- <-]. exists l, []. rewrite !app_nil_r. split_and!; try done. apply sum_done. by rewrite rem_skip, skip_idem.
  + destruct (sum_operator op) eqn:Hop; cbn [negb].
    2:{ intros [= <- <-]. exists l, []. rewrite !app_nil_r. split_and!; try done. apply sum_done. by rewrite rem_skip, skip_idem. }
    destruct (Product _ _ _) as [[[b|e] st1]|] eqn:E1; [|done|done].
    destruct (IHp k (advance (SkipWhitespace text_ st) 1) _ _ Hk E1) as (r & Gr & Fr & Ir & Nr). rewrite rem_advance, rem_skip, E in Gr.
    destruct (Binary op a b st1) as [lhs st2] eqn:Eb. intros E2. destruct lhs as [a'|e]; [|destruct fuel; done].
    apply (Binary_sound op l r) in Eb as [Fb ->]; [|done|done|by destruct (sum_operator_cases op Hop) as [-> | ->]].
    cbn in Nr. destruct (IHsl k _ _ (push st1 _) _ _ ltac:(cbn in *; lia) Fb E2) as (e & code & Ge & Fe & Pe & Ie & Ne).
    exists e, (postfix r ++ [{| operation := op; value := zero |}] ++ code). split_and!; [|done| | |cbn in *; lia].
    * by eapply sum_more.
    * rewrite Pe. cbn [postfix]. by rewrite <- !app_assoc.
    * rewrite Ie. cbn in Ir |- *. rewrite Ir. by rewrite <- !app_assoc.
Qed.
Lemma Product_sound : sound_in product (Product text_ (S fuel)).
Proof.
  intros k st c st' Hk. descend. destruct (Unary text_ fuel st) as [[[a|e] st1]|] eqn:E1; [|destruct fuel; done|done].
  intros E2. destruct (IHu _ _ _ _ Hk E1) as (l & Gl & Fl & Il & Nl). rewrite <- Nl in Hk.
  destruct (IHpl _ _ _ _ _ _ Hk Fl E2) as (e & code & Ge & Fe & Pe & Ie & Ne). exists e. split_and!; [|done| |congruence].
  + by eapply product_intro.
  + by rewrite Ie, Il, Pe, <- app_assoc.
Qed.
Lemma product_loop_sound : sound_tail product_tail (product_loop text_ (S fuel)).
Proof.
  intros k l a st c st' Hk Fl. descend. cbv zeta. rewrite peek_skip. destruct (skip (R st)) as [|op m] eqn:E; cbn [head].
  + intros [= <- <-]. exists l, []. rewrite !app_nil_r. split_and!; try done. apply product_done. by rewrite rem_skip, skip_idem.
  + destruct (product_operator op) eqn:Hop; cbn [negb].
    2:{ intros [= <- <-]. exists l, []. rewrite !app_nil_r. split_and!; try done. apply product_done. by rewrite rem_skip, skip_idem. }
    destruct (Unary _ _ _) as [[[b|e] st1]|] eqn:E1; [|done|done].
    destruct (IHu k (advance (SkipWhitespace text_ st) 1) _ _ Hk E1) as (r & Gr & Fr & Ir & Nr). rewrite rem_advance, rem_skip, E in Gr.
    destruct (_ && _) eqn:Hz; [done|].
    destruct (Binary op a b st1) as [lhs st2] eqn:Eb. intros E2. destruct lhs as [a'|e]; [|destruct fuel; done].
    apply (Binary_sound op l r) in Eb as [Fb ->]; [|done|done|done].
    cbn in Nr. destruct (IHpl k _ _ (push st1 _) _ _ ltac:(cbn in *; lia) Fb E2) as (e & code & Ge & Fe & Pe & Ie & Ne).
    exists e, (postfix r ++ [{| operation := op; value := zero |}] ++ code). split_and!; [|done| | |cbn in *; lia].
    * by eapply product_more.
    * rewrite Pe. cbn [postfix]. by rewrite <- !app_assoc.
    * rewrite Ie. cbn in Ir |- *. rewrite Ir. by rewrite <- !app_assoc.
Qed.
Lemma Unary_sound : sound_in unary (Unary text_ (S fuel)).
Proof.
  intros k st c st' Hk. descend. destruct (signs text_ fuel false st) as [[b st1]|] eqn:E1; [|done].
  destruct (signs_sound _ _ _ _ _ E1) as (odd & Ho & -> & [Hn Hi]). rewrite xorb_false_l.
  destruct (Primary text_ fuel st1) as [[[v|e] st2]|] eqn:E2; [|done|done].
  rewrite <- Hn in Hk. destruct (IHpr _ _ _ _ Hk E2) as (e & Ge & Fe & Ie & Ne).
  intros [= E3]. exists (if odd then Neg e else e). destruct odd; injection E3 as <- <-.
  + split_and!; [by eapply (unary_intro k true)|cbn; by rewrite Fe| |cbn; congruence].
    cbn [postfix]. change (instructions_ (push ?s ?i)) with (instructions_ s ++ [i]). rewrite Ie, Hi. by rewrite <- app_assoc.
  + split_and!; [by eapply (unary_intro k false)|done|congruence|congruence].
Qed.
Lemma Primary_sound : sound_in primary (Primary text_ (S fuel)).
Proof.
  intros k st c st' Hk. descend. destruct (Consume_cases text_ "(" st) as [(m & st1 & E & -> & Hr & [Hn Hi])|[_ ->]].
  + unfold kMaximumNesting. destruct (Nat.leb_spec 8 (nesting_ st1)); [done|].
    destruct (Sum _ _ _) as [[[v|e] st2]|] eqn:E2; [|done|done]. destruct k as [|k]; [lia|].
    destruct (IHs k (set_nesting st1 (S (nesting_ st1))) _ _ ltac:(cbn; lia) E2) as (e & Ge & Fe & Ie & Ne). cbn in Ne, Ie.
    change (R (set_nesting ?s ?n)) with (R s) in Ge. rewrite Hr in Ge.
    destruct (Consume_cases text_ ")" (set_nesting st2 (pred (nesting_ st2)))) as [(m2 & st3 & E3 & -> & Hr2 & [Hn2 Hi2])|[_ ->]]; [|done].
    intros [= <- <-]. exists e. change (R (set_nesting ?s ?n)) with (R s) in E3. cbn in Hn2, Hi2. split_and!; [|done| |].
    * eapply primary_paren; [done|done|]. by rewrite Hr2.
    * by rewrite Hi2, Ie, Hi.
    * rewrite Hn2, Ne, <- Hn. done.
  + destruct (Consume_cases text_ "x" (SkipWhitespace text_ st)) as [(m & st1 & E & -> & Hr & [Hn Hi])|[_ ->]].
    * rewrite rem_skip, skip_idem in E. intros [= <- <-]. exists X. split_and!; [|done| |done].
      -- change (R (push ?s ?i)) with (R s). rewrite Hr. by apply primary_x.
      -- cbn in Hi |- *. by rewrite Hi.
    * intros [= E1]. apply (number_sound k) in E1 as (e & Ge & ?). exists e. split; [|done].
      rewrite !rem_skip, skip_idem in Ge. inversion Ge; subst; rewrite skip_idem in *;
        [by eapply primary_paren|by apply primary_x|by apply primary_number].
Qed.
End sound_steps.
Lemma descent_sound fuel :
  sound_in sum (Sum text_ fuel) /\ sound_tail sum_tail (sum_loop text_ fuel)
  /\ sound_in product (Product text_ fuel) /\ sound_tail product_tail (product_loop text_ fuel)
  /\ sound_in unary (Unary text_ fuel) /\ sound_in primary (Primary text_ fuel).
Proof.
  induction fuel as [|fuel (IHs & IHsl & IHp & IHpl & IHu & IHpr)]; [by split_and!|].
  split_and!; [apply Sum_sound|apply sum_loop_sound|apply Product_sound|apply product_loop_sound|apply Unary_sound
    |apply Primary_sound]; done.
Qed.
End soundness.

(** ** Lemmas: what is spelled is compiled *)
Section completeness.
Context `{Double} (text_ : list ascii).
Abbreviation R st := (rem text_ st).
(** The next character of [l] is none of the operators [op]. *)
Definition stops (op : ascii -> bool) (l : list ascii) : Prop :=
  match skip l with c :: _ => op c = false | [] => True end.
Definition signed (c : ascii) : bool := sum_operator c.
Lemma signs_complete odd inp mid :
  sign_run odd inp mid -> forall negative st fuel,
  skip (R st) = skip inp -> stops signed mid -> (length (skip inp) < fuel)%nat ->
  exists st', signs text_ fuel negative st = Some (xorb negative odd, st') /\ skip (R st') = skip mid /\ same st st'.
Proof.
  induction 1 as [inp rest Hr|odd inp m rest E _ IH|odd inp m rest E _ IH]; intros negative st fuel Hst Hstop Hf;
    (destruct fuel as [|fuel]; [lia|]); cbn [signs].
  - unfold stops in Hstop. rewrite Hr, <- Hst in Hstop.
    assert (forall tok m, signed tok = true -> skip (R st) <> tok :: m) as Hno
      by (intros tok m Ht E; rewrite E in Hstop; congruence).
    rewrite (Consume_no text_ "-") by (intros m; by apply Hno).
    rewrite (Consume_no text_ "+") by (rewrite rem_skip, skip_idem; intros m; by apply Hno).
    eexists. split; [by rewrite xorb_false_r|]. rewrite !rem_skip, !skip_idem. split; [congruence|done].
  - rewrite E in Hst, Hf. destruct (Consume_yes text_ "-" st m Hst) as (st1 & -> & Hr & [Hn Hi]).
    destruct (IH (negb negative) st1 fuel) as (st' & -> & Hs & [Hn' Hi']); [by rewrite Hr|done|cbn in Hf; pose proof (skip_length m); lia|].
    exists st'. split_and!; [by destruct negative, odd|done|split; congruence].
  - rewrite E in Hst, Hf.
    rewrite (Consume_no text_ "-") by (intros m'; by rewrite Hst).
    destruct (Consume_yes text_ "+" (SkipWhitespace text_ st) m) as (st1 & -> & Hr & [Hn Hi]); [by rewrite rem_skip, skip_idem|].
    destruct (IH negative st1 fuel) as (st' & -> & Hs & [Hn' Hi']); [by rewrite Hr|done|cbn in Hf; pose proof (skip_length m); lia|].
    exists st'. cbn in Hn, Hi. split_and!; [done|done|split; congruence].
Qed.
Lemma primary_not_signed k e inp rest : primary k e inp rest -> stops signed inp.
Proof.
  unfold stops, signed, sum_operator. intros Hp. inversion Hp as [? ? ? ? ? ? E| ? ? ? E|? ? ? ? c m E Hd]; subst; rewrite E; [done|done|].
  destruct (Ascii.eqb_spec c "+") as [->|]; [done|]. by destruct (Ascii.eqb_spec c "-") as [->|].
Qed.
Lemma sum_tail_stops k l e inp rest : sum_tail k l e inp rest -> stops product_operator rest -> stops product_operator inp.
Proof.
  unfold stops. intros Ht Hs. inversion Ht as [? ? ? ? Hr|? ? ? ? op ? m ? ? E Hop]; subst; [by rewrite <- Hr|].
  rewrite E. by destruct (sum_operator_cases op Hop) as [-> | ->].
Qed.
(** What a call does on a text that spells [e]. *)
Definition delivers (f : Parser -> option (CompileResult * Parser)) (e : expr) (c : Constant) (st : Parser)
    (rest : list ascii) : Prop :=
  exists st', f st = Some (Ok c, st') /\ skip (R st') = skip rest
    /\ instructions_ st' = instructions_ st ++ postfix e /\ nesting_ st' = nesting_ st.
Definition completes (cost : nat) (f : nat -> Parser -> option (CompileResult * Parser)) (lookahead : ascii -> bool)
    (k : nat) (e : expr) (inp rest : list ascii) : Prop :=
  (length (skip rest) <= length (skip inp))%nat
  /\ forall c st fuel, fold e = Some c -> skip (R st) = skip inp -> (k + nesting_ st <= 8)%nat ->
       (4 * length (skip inp) + cost <= fuel)%nat -> stops lookahead rest -> delivers (f fuel) e c st rest.
Definition completes_tail (f : nat -> CompileResult -> Parser -> option (CompileResult * Parser))
    (lookahead : ascii -> bool) (k : nat) (l e : expr) (inp rest : list ascii) : Prop :=
  (length (skip rest) <= length (skip inp))%nat
  /\ (forall c, fold e = Some c -> exists a, fold l = Some a)
  /\ forall a c st fuel, fold l = Some a -> fold e = Some c -> skip (R st) = skip inp -> (k + nesting_ st <= 8)%nat ->
       (4 * length (skip inp) + 1 <= fuel)%nat -> stops lookahead rest ->
       exists st' code, f fuel (Ok a) st = Some (Ok c, st') /\ skip (R st') = skip rest
         /\ postfix e = postfix l ++ code /\ instructions_ st' = instructions_ st ++ code /\ nesting_ st' = nesting_ st.
Definition any_operator (c : ascii) : bool := sum_operator c || product_operator c.
Definition no_operator (c : ascii) : bool := false.
Lemma stops_any l : stops any_operator l -> stops sum_operator l /\ stops product_operator l.
Proof. unfold stops, any_operator. destruct (skip l) as [|c m]; [done|]. by intros [H1 H2]%orb_false_elim. Qed.
Lemma stops_none l : stops no_operator l.
Proof. unfold stops. by destruct (skip l). Qed.
Lemma fold_Bin op l r c :
  fold (Bin op l r) = Some c ->
  exists a b, fold l = Some a /\ fold r = Some b
    /\ (op =? "/")%char && match b with Some v => is_zero v | None => false end = false
    /\ forall st, Binary op a b st = (Ok c, push st {| operation := op; value := zero |}).
Proof.
  cbn [fold]. destruct (fold l) as [a|]; [|done]. destruct (fold r) as [b|]; [|done]. destruct (_ && _) eqn:Hz; [done|].
  intros E. exists a, b. split_and!; [done|done|done|]. intros st. unfold Binary.
  destruct a as [a|], b as [b|]; try (by injection E as <-). destruct (Apply op a b); [by injection E as <-|done].
Qed.
Lemma sum_complete k l e inp mid rest :
  completes 3 (Product text_) product_operator k l inp mid -> sum_tail k l e mid rest ->
  completes_tail (sum_loop text_) any_operator k l e mid rest -> completes 4 (Sum text_) any_operator k e inp rest.
Proof.
  intros [L1 Hp] Ht (L2 & Hf & Hl). split; [lia|]. intros c st fuel Fe Hst Hk Hfuel Hstop.
  destruct fuel as [|fuel]; [lia|]. destruct (Hf c Fe) as [a Fa]. unfold delivers. descend.
  destruct (Hp a st fuel Fa Hst Hk ltac:(lia)) as (st1 & -> & S1 & I1 & N1).
  { eapply sum_tail_stops; [done|]. by apply stops_any. }
  destruct (Hl a c st1 fuel Fa Fe S1 ltac:(lia) ltac:(lia) Hstop) as (st2 & code & -> & S2 & P2 & I2 & N2).
  exists st2. split_and!; [done|done| |congruence]. by rewrite I2, I1, P2, <- app_assoc.
Qed.
Lemma product_complete k l e inp mid rest :
  completes 2 (Unary text_) no_operator k l inp mid ->
  completes_tail (product_loop text_) product_operator k l e mid rest ->
  completes 3 (Product text_) product_operator k e inp rest.
Proof.
  intros [L1 Hp] (L2 & Hf & Hl). split; [lia|]. intros c st fuel Fe Hst Hk Hfuel Hstop.
  destruct fuel as [|fuel]; [lia|]. destruct (Hf c Fe) as [a Fa]. unfold delivers. descend.
  destruct (Hp a st fuel Fa Hst Hk ltac:(lia) (stops_none _)) as (st1 & -> & S1 & I1 & N1).
  destruct (Hl a c st1 fuel Fa Fe S1 ltac:(lia) ltac:(lia) Hstop) as (st2 & code & -> & S2 & P2 & I2 & N2).
  exists st2. split_and!; [done|done| |congruence]. by rewrite I2, I1, P2, <- app_assoc.
Qed.
Lemma sum_done_complete k e inp rest :
  skip rest = skip inp -> completes_tail (sum_loop text_) any_operator k e e inp rest.
Proof.
  intros Hr. split_and!; [by rewrite Hr|eauto|]. intros a c st fuel Fa Fe Hst _ Hf Hstop.
  destruct fuel as [|fuel]; [lia|]. apply stops_any in Hstop as [Hs _]. unfold stops in Hs. rewrite Hr, <- Hst in Hs.
  rewrite Fa in Fe. injection Fe as ->. descend. cbv zeta. rewrite peek_skip. eexists _, []. rewrite !app_nil_r.
  split_and!; [|by rewrite rem_skip, skip_idem, Hst|done|done|done]. destruct (skip (R st)) as [|op m]; [done|].
  cbn [head]. by rewrite Hs.
Qed.
Lemma product_done_complete k e inp rest :
  skip rest = skip inp -> completes_tail (product_loop text_) product_operator k e e inp rest.
Proof.
  intros Hr. split_and!; [by rewrite Hr|eauto|]. intros a c st fuel Fa Fe Hst _ Hf Hs.
  destruct fuel as [|fuel]; [lia|]. unfold stops in Hs. rewrite Hr, <- Hst in Hs.
  rewrite Fa in Fe. injection Fe as ->. descend. cbv zeta. rewrite peek_skip. eexists _, []. rewrite !app_nil_r.
  split_and!; [|by rewrite rem_skip, skip_idem, Hst|done|done|done]. destruct (skip (R st)) as [|op m]; [done|].
  cbn [head]. by rewrite Hs.
Qed.
Lemma sum_more_complete k l r e op inp m mid rest :
  skip inp = op :: m -> sum_operator op = true -> completes 3 (Product text_) product_operator k r m mid ->
  sum_tail k (Bin op l r) e mid rest -> completes_tail (sum_loop text_) any_operator k (Bin op l r) e mid rest ->
  completes_tail (sum_loop text_) any_operator k l e inp rest.
Proof.
  intros E Hop [L1 Hp] Ht (L2 & Hf & Hl). pose proof (skip_length m) as Lm. split_and!; [rewrite E; cbn; lia| |].
  { intros c Fe. destruct (Hf c Fe) as [a' Fa']. by destruct (fold_Bin _ _ _ _ Fa') as (a & b & Fa & _); exists a. }
  intros a c st fuel Fa Fe Hst Hk Hfuel Hstop. rewrite E in Hfuel. cbn [length] in Hfuel.
  destruct fuel as [|fuel]; [lia|]. destruct (Hf c Fe) as [a' Fa'].
  destruct (fold_Bin _ _ _ _ Fa') as (a0 & b & Fa0 & Fb & Hz & HB). rewrite Fa in Fa0. injection Fa0 as <-.
  descend. cbv zeta. rewrite peek_skip, Hst, E. cbn [head]. rewrite Hop. cbn [negb].
  destruct (Hp b (advance (SkipWhitespace text_ st) 1) fuel Fb) as (st1 & -> & S1 & I1 & N1);
    [by rewrite rem_advance, rem_skip, Hst, E|done|lia|eapply sum_tail_stops; [done|]; by apply stops_any|].
  rewrite HB.
  destruct (Hl a' c (push st1 {| operation := op; value := zero |}) fuel Fa' Fe S1 ltac:(cbn in *; lia) ltac:(lia) Hstop)
    as (st2 & code & -> & S2 & P2 & I2 & N2).
  eexists st2, _. split_and!; [done|done| |rewrite I2; cbn in I1 |- *; rewrite I1, <- !app_assoc; done|cbn in *; congruence].
  rewrite P2. cbn [postfix]. by rewrite <- !app_assoc.
Qed.
Lemma product_more_complete k l r e op inp m mid rest :
  skip inp = op :: m -> product_operator op = true -> completes 2 (Unary text_) no_operator k r m mid ->
  completes_tail (product_loop text_) product_operator k (Bin op l r) e mid rest ->
  completes_tail (product_loop text_) product_operator k l e inp rest.
Proof.
  intros E Hop [L1 Hp] (L2 & Hf & Hl). pose proof (skip_length m) as Lm. split_and!; [rewrite E; cbn; lia| |].
  { intros c Fe. destruct (Hf c Fe) as [a' Fa']. by destruct (fold_Bin _ _ _ _ Fa') as (a & b & Fa & _); exists a. }
  intros a c st fuel Fa Fe Hst Hk Hfuel Hstop. rewrite E in Hfuel. cbn [length] in Hfuel.
  destruct fuel as [|fuel]; [lia|]. destruct (Hf c Fe) as [a' Fa'].
  destruct (fold_Bin _ _ _ _ Fa') as (a0 & b & Fa0 & Fb & Hz & HB). rewrite Fa in Fa0. injection Fa0 as <-.
  descend. cbv zeta. rewrite peek_skip, Hst, E. cbn [head]. rewrite Hop. cbn [negb].
  destruct (Hp b (advance (SkipWhitespace text_ st) 1) fuel Fb) as (st1 & -> & S1 & I1 & N1);
    [by rewrite rem_advance, rem_skip, Hst, E|done|lia|apply stops_none|].
  rewrite Hz, HB.
  destruct (Hl a' c (push st1 {| operation := op; value := zero |}) fuel Fa' Fe S1 ltac:(cbn in *; lia) ltac:(lia) Hstop)
    as (st2 & code & -> & S2 & P2 & I2 & N2).
  eexists st2, _. split_and!; [done|done| |rewrite I2; cbn in I1 |- *; rewrite I1, <- !app_assoc; done|cbn in *; congruence].
  rewrite P2. cbn [postfix]. by rewrite <- !app_assoc.
Qed.
Lemma sign_run_length odd inp mid : sign_run odd inp mid -> (length (skip mid) <= length (skip inp))%nat.
Proof.
  induction 1 as [inp rest Hr|odd inp m rest E _ IH|odd inp m rest E _ IH]; [by rewrite Hr|..];
    rewrite E; pose proof (skip_length m); cbn; lia.
Qed.
Lemma unary_complete k odd e inp mid rest :
  sign_run odd inp mid -> primary k e mid rest -> completes 1 (Primary text_) no_operator k e mid rest ->
  completes 2 (Unary text_) no_operator k (if odd then Neg e else e) inp rest.
Proof.
  intros Ho Hpr [L Hp]. pose proof (sign_run_length _ _ _ Ho) as Lo. split; [lia|]. intros c st fuel Fe Hst Hk Hfuel _.
  destruct fuel as [|fuel]; [lia|]. unfold delivers. descend.
  destruct (signs_complete odd inp mid Ho false st fuel Hst (primary_not_signed _ _ _ _ Hpr) ltac:(lia))
    as (st1 & -> & S1 & [N1 I1]). rewrite xorb_false_l.
  assert (exists a, fold e = Some a /\ c = if odd then option_map fopp a else a) as (a & Fa & ->).
  { destruct odd; [|by exists c]. cbn [fold] in Fe. destruct (fold e) as [a|]; [|done]. injection Fe as <-. by exists a. }
  destruct (Hp a st1 fuel Fa S1 ltac:(lia) ltac:(lia) (stops_none _)) as (st2 & -> & S2 & I2 & N2).
  destruct odd; eexists; (split; [done|]); split_and!; [exact S2| |cbn; congruence|exact S2|congruence|congruence].
  cbn [postfix]. change (instructions_ (push ?s ?i)) with (instructions_ s ++ [i]). by rewrite I2, I1, <- app_assoc.
Qed.
Lemma primary_paren_complete k e inp m mid rest :
  skip inp = "("%char :: m -> completes 4 (Sum text_) any_operator k e m mid -> skip mid = ")"%char :: rest ->
  completes 1 (Primary text_) no_operator (S k) e inp rest.
Proof.
  intros E [L Hs] Em. pose proof (skip_length m). pose proof (skip_length rest). rewrite Em in L. cbn [length] in L.
  split; [rewrite E; cbn; lia|]. intros c st fuel Fe Hst Hk Hfuel _. rewrite E in Hst, Hfuel. cbn [length] in Hfuel.
  destruct fuel as [|fuel]; [lia|]. unfold delivers. descend.
  destruct (Consume_yes text_ "(" st m Hst) as (st1 & -> & R1 & [N1 I1]).
  unfold kMaximumNesting. rewrite (proj2 (Nat.leb_gt _ _)) by lia.
  destruct (Hs c (set_nesting st1 (S (nesting_ st1))) fuel Fe) as (st2 & -> & S2 & I2 & N2);
    [by change (skip (R st1) = skip m); rewrite R1|cbn; lia|lia|unfold stops; by rewrite Em|].
  rewrite Em in S2. destruct (Consume_yes text_ ")" (set_nesting st2 (pred (nesting_ st2))) rest S2) as (st3 & -> & R3 & [N3 I3]).
  exists st3. cbn in I2, N2, N3, I3. split_and!; [done|by rewrite R3|congruence|]. rewrite N3, N2. cbn. done.
Qed.
Lemma primary_x_complete k inp rest : skip inp = "x"%char :: rest -> completes 1 (Primary text_) no_operator k X inp rest.
Proof.
  intros E. pose proof (skip_length rest). split; [rewrite E; cbn; lia|]. intros c st fuel [= <-] Hst Hk Hfuel _.
  rewrite E in Hst. destruct fuel as [|fuel]; [lia|]. unfold delivers. descend.
  rewrite (Consume_no text_ "(") by (intros m; by rewrite Hst).
  destruct (Consume_yes text_ "x" (SkipWhitespace text_ st) rest) as (st1 & -> & R1 & [N1 I1]); [by rewrite rem_skip, skip_idem|].
  eexists. split; [done|]. cbn in N1, I1. split_and!; [change (R (push ?s ?i)) with (R s); by rewrite R1| |done].
  cbn. by rewrite I1.
Qed.
Lemma primary_number_complete k v n inp c m :
  skip inp = c :: m -> digit_or_point c = true -> from_chars (c :: m) = Some (v, n) -> isfinite v = true ->
  completes 1 (Primary text_) no_operator k (Num v) inp (drop n (c :: m)).
Proof.
  intros E Hc Ef Hv. split.
  { rewrite E. etrans; [apply skip_length|]. rewrite length_drop. lia. }
  intros x st fuel [= <-] Hst Hk Hfuel _. rewrite E in Hst. destruct fuel as [|fuel]; [lia|]. unfold delivers. descend.
  assert (c <> "("%char /\ c <> "x"%char) as [Hn1 Hn2] by (split; intros ->; done).
  rewrite (Consume_no text_ "(") by (intros m'; rewrite Hst; congruence).
  rewrite (Consume_no text_ "x") by (intros m'; rewrite rem_skip, skip_idem, Hst; congruence).
  set (st2 := SkipWhitespace text_ (SkipWhitespace text_ st)).
  assert (R st2 = c :: m) as R2 by (subst st2; by rewrite !rem_skip, skip_idem).
  assert (Whitespace c = false) as Hw.
  { pose proof (skip_idem (R st)) as Hi. rewrite Hst in Hi. cbn [skip] in Hi. destruct (Whitespace c); [|done].
    pose proof (skip_length m) as Hm. rewrite Hi in Hm. cbn in Hm. lia. }
  assert (R (SkipWhitespace text_ st2) = c :: m) as R3 by (rewrite rem_skip, R2; cbn; by rewrite Hw).
  unfold number. rewrite peek, R3. cbn [head]. rewrite Hc. cbn [negb].
  change (drop (position_ (SkipWhitespace text_ st2)) text_) with (R (SkipWhitespace text_ st2)). rewrite R3, Ef.
  cbv zeta. unfold Finite. rewrite Hv. cbn [negb]. eexists. split; [done|]. split_and!; [|done|done].
  change (R (push ?s ?i)) with (R s). by rewrite rem_advance, R3.
Qed.
Lemma grammar_complete k e inp rest : sum k e inp rest -> completes 4 (Sum text_) any_operator k e inp rest.
Proof.
  revert k e inp rest. apply (sum_mut _ (completes 4 (Sum text_) any_operator)
    (fun k l e inp rest => completes_tail (sum_loop text_) any_operator k l e inp rest)
    (completes 3 (Product text_) product_operator)
    (fun k l e inp rest => completes_tail (product_loop text_) product_operator k l e inp rest)
    (completes 2 (Unary text_) no_operator) (completes 1 (Primary text_) no_operator));
    eauto using sum_complete, product_complete, sum_done_complete, product_done_complete, sum_more_complete,
      product_more_complete, unary_complete, primary_paren_complete, primary_x_complete, primary_number_complete.
Qed.
End completeness.

(** ** Lemmas: evaluation *)
Section evaluation.
Context `{Double}.
Fixpoint wf (e : expr) : Prop :=
  match e with
  | Num v => isfinite v = true
  | X => True
  | Neg e => wf e
  | Bin op l r => any_operator op = true /\ wf l /\ wf r
  end.
Lemma spelled_wf k e inp rest : sum k e inp rest -> wf e.
Proof.
  revert k e inp rest. apply (sum_mut _ (fun _ e _ _ => wf e) (fun _ l e _ _ => wf l -> wf e) (fun _ e _ _ => wf e)
    (fun _ l e _ _ => wf l -> wf e) (fun _ e _ _ => wf e) (fun _ e _ _ => wf e)); auto.
  - intros k l r e op inp m mid rest _ Hop _ Hr _ IH Hl. apply IH. cbn. unfold any_operator. by rewrite Hop.
  - intros k l r e op inp m mid rest _ Hop _ Hr _ IH Hl. apply IH. cbn. unfold any_operator. by rewrite Hop, orb_true_r.
  - by intros k [] e.
  - done.
Qed.
Lemma any_operator_cases op : any_operator op = true -> op ∈ ["+"; "-"; "*"; "/"]%char.
Proof.
  unfold any_operator. intros [Ho|Ho]%orb_prop.
  - destruct (sum_operator_cases _ Ho) as [-> | ->]; set_solver.
  - destruct (product_operator_cases _ Ho) as [-> | ->]; set_solver.
Qed.
(** Running an expression's instructions pushes its value. *)
Lemma evaluate_postfix e x code values :
  wf e ->
  evaluate (postfix e ++ code) x values
  = match eval e x with Ok v => evaluate code x (v :: values) | Err m => Some (Err m) end.
Proof.
  revert code values. induction e as [v| |e IH|op l IHl r IHr]; intros code values Hwf; cbn [postfix eval].
  - done.
  - done.
  - rewrite <- app_assoc, IH by done. by destruct (eval e x).
  - destruct Hwf as (Hop & Hl & Hr). rewrite <- !app_assoc, IHl by done. destruct (eval l x) as [u|m]; [|done].
    cbn [result_bind]. rewrite IHr by done. destruct (eval r x) as [v|m]; [|done].
    apply any_operator_cases in Hop. rewrite !elem_of_cons in Hop.
    destruct Hop as [-> |[-> |[-> |[-> |[]%elem_of_nil]]]]; cbn -[Apply];
      by match goal with |- context [Apply ?op u v] => destruct (Apply op u v) end.
Qed.
Lemma Apply_finite op u v w : Apply op u v = Ok w -> isfinite w = true.
Proof.
  unfold Apply, Finite. repeat case_match; try done; intros [= <-]; by apply negb_false_iff.
Qed.
Lemma eval_finite `{!DoubleSpec} e x v : wf e -> isfinite x = true -> eval e x = Ok v -> isfinite v = true.
Proof.
  intros Hwf Hx. revert v. induction e as [w| |e IH|op l IHl r IHr]; intros v; cbn [eval].
  - by intros [= <-].
  - by intros [= <-].
  - destruct (eval e x) as [w|]; [|done]. intros [= <-]. rewrite fopp_finite. by apply IH.
  - destruct (eval l x) as [u|]; [|done]. destruct (eval r x) as [w|]; [|done]. apply Apply_finite.
Qed.
(** A folded constant is the value at every input. *)
Lemma eval_fold e x v : fold e = Some (Some v) -> eval e x = Ok v.
Proof.
  revert v. induction e as [w| |e IH|op l IHl r IHr]; intros v; cbn [fold eval].
  - by intros [= ->].
  - done.
  - destruct (fold e) as [[c|]|]; [|done|done]. intros [= <-]. by rewrite (IH c).
  - destruct (fold l) as [[a|]|]; [| |done]; (destruct (fold r) as [[b|]|]; [| |done]); try (by destruct (_ && _)).
    destruct (_ && _); [done|]. rewrite (IHl a), (IHr b) by done. cbn. by destruct (Apply op a b); intros [= ->].
Qed.
End evaluation.

(** ** Lemmas: the position stays in the text *)
Section inside.
Context `{DoubleSpec} (text_ : list ascii).
Definition inside (st : Parser) : Prop := (position_ st <= length text_)%nat.
Definition stays (r : option (CompileResult * Parser)) : Prop :=
  match r with Some (_, st') => inside st' | None => True end.
Lemma leading_whitespace_length l : (leading_whitespace l <= length l)%nat.
Proof. induction l as [|c l IH]; [done|]. cbn. destruct (Whitespace c); lia. Qed.
Lemma inside_skip st : inside st -> inside (SkipWhitespace text_ st).
Proof.
  unfold inside, SkipWhitespace, advance. cbn. pose proof (leading_whitespace_length (drop (position_ st) text_)) as Hl.
  rewrite length_drop in Hl. lia.
Qed.
Lemma inside_peek st c : text_ !! position_ st = Some c -> inside (advance st 1).
Proof. intros Hc%lookup_lt_Some. unfold inside. cbn. lia. Qed.
Lemma inside_Consume tok st b st' : inside st -> Consume text_ tok st = (b, st') -> inside st'.
Proof.
  intros Hi. unfold Consume. apply inside_skip in Hi. destruct (text_ !! _) as [c|] eqn:E; [|by intros [= _ <-]].
  apply inside_peek in E. destruct (_ =? _)%char; by intros [= _ <-].
Qed.
Lemma inside_signs fuel negative st b st' : inside st -> signs text_ fuel negative st = Some (b, st') -> inside st'.
Proof.
  revert negative st. induction fuel as [|fuel IH]; intros negative st Hi; [done|]. cbn [signs].
  destruct (Consume text_ "-" st) as [[] st1] eqn:E1; [apply IH; by eapply inside_Consume|].
  apply inside_Consume in E1; [|done]. destruct (Consume text_ "+" st1) as [[] st2] eqn:E2.
  - apply IH. by eapply inside_Consume.
  - intros [= _ <-]. by eapply inside_Consume.
Qed.
Lemma inside_number st : inside st -> stays (Some (number text_ st)).
Proof.
  intros Hi. unfold number. apply inside_skip in Hi. cbv zeta. destruct (text_ !! _); [|done].
  destruct (negb _); [done|]. destruct (from_chars _) as [[v n]|] eqn:E; [|done]. apply from_chars_range in E.
  rewrite length_drop in E. unfold Finite. destruct (negb _); cbn; unfold inside in *; cbn in *; lia.
Qed.
Lemma inside_Binary op a b st : inside st -> inside (snd (Binary op a b st)).
Proof. intros Hi. unfold Binary. destruct a, b; try done. by destruct (Apply _ _ _). Qed.
Lemma descent_inside fuel :
  (forall st, inside st -> stays (Sum text_ fuel st)) /\ (forall l st, inside st -> stays (sum_loop text_ fuel l st))
  /\ (forall st, inside st -> stays (Product text_ fuel st))
  /\ (forall l st, inside st -> stays (product_loop text_ fuel l st))
  /\ (forall st, inside st -> stays (Unary text_ fuel st)) /\ (forall st, inside st -> stays (Primary text_ fuel st)).
Proof.
  induction fuel as [|fuel (IHs & IHsl & IHp & IHpl & IHu & IHpr)]; [by split_and!|].
  split_and!; [intros st Hi|intros l st Hi|intros st Hi|intros l st Hi|intros st Hi|intros st Hi]; descend.
  - specialize (IHp st Hi). destruct (Product _ _ _) as [[a st1]|]; [|done]. by apply IHsl.
  - destruct l as [l|]; [|done]. cbv zeta. destruct (text_ !! _) as [op|] eqn:E; [|by apply inside_skip].
    destruct (negb _); [by apply inside_skip|]. specialize (IHp _ (inside_peek _ _ E)).
    destruct (Product _ _ _) as [[[b|] st1]|]; [|done|done]. pose proof (inside_Binary op l b st1 IHp).
    destruct (Binary _ _ _ _). by apply IHsl.
  - specialize (IHu st Hi). destruct (Unary _ _ _) as [[a st1]|]; [|done]. by apply IHpl.
  - destruct l as [l|]; [|done]. cbv zeta. destruct (text_ !! _) as [op|] eqn:E; [|by apply inside_skip].
    destruct (negb _); [by apply inside_skip|]. specialize (IHu _ (inside_peek _ _ E)).
    destruct (Unary _ _ _) as [[[b|] st1]|]; [|done|done]. destruct (_ && _); [done|].
    pose proof (inside_Binary op l b st1 IHu). destruct (Binary _ _ _ _). by apply IHpl.
  - destruct (signs _ _ _ _) as [[b st1]|] eqn:E; [|done]. specialize (IHpr st1 (inside_signs _ _ _ _ _ Hi E)).
    destruct (Primary _ _ _) as [[[v|] st2]|]; [|done|done]. by destruct b.
  - destruct (Consume text_ "(" st) as [[] st1] eqn:E1; apply inside_Consume in E1; try done.
    + destruct (_ <=? _)%nat; [done|]. specialize (IHs (set_nesting st1 (S (nesting_ st1))) E1).
      destruct (Sum _ _ _) as [[[v|] st2]|]; [|done|done]. destruct (Consume text_ ")" _) as [b st3] eqn:E3.
      apply inside_Consume in E3; [|done]. by destruct b.
    + destruct (Consume text_ "x" st1) as [[] st2] eqn:E2; apply inside_Consume in E2; try done. by apply inside_number.
Qed.
End inside.

(** ** Lemmas: compiling *)
Section compiling.
Context `{DoubleSpec}.
Lemma Parser_Compile_spec text program :
  (exists c st, Parser_Compile text = Some (Ok c, st) /\ instructions_ st = program) <->
  exists e c, spells e text /\ fold e = Some c /\ program = postfix e.
Proof.
  unfold Parser_Compile. set (st0 := {| position_ := 0; nesting_ := 0; instructions_ := [] |}). split.
  - intros (c & st & E & <-). destruct (Sum _ _ _) as [[[a|m] st1]|] eqn:E1; [|done|done].
    destruct (proj1 (descent_sound text (parse_fuel text)) 8%nat st0 a st1 eq_refl E1) as (e & Ge & Fe & Ie & _).
    cbv zeta in E. destruct (Nat.eqb_spec (position_ (SkipWhitespace text st1)) (length text)) as [Hp|]; cbn [negb] in E; [|done].
    injection E as <- <-. exists e, a. split_and!; [|done|exact Ie]. exists (rem text st1). split; [exact Ge|].
    rewrite <- rem_skip. unfold rem. rewrite Hp. apply drop_all.
  - intros (e & c & (rest & Hs & Hr) & Fe & ->). destruct (grammar_complete text _ _ _ _ Hs) as [_ Hc].
    destruct (Hc c st0 (parse_fuel text) Fe eq_refl ltac:(cbn; lia)) as (st' & E & S1 & I1 & _);
      [unfold parse_fuel; pose proof (skip_length text); lia|unfold stops; by rewrite Hr|].
    pose proof (proj1 (descent_inside text (parse_fuel text)) st0 ltac:(unfold inside; cbn; lia)) as Hin.
    rewrite E in Hin |- *. apply inside_skip in Hin. unfold inside in Hin.
    assert (rem text (SkipWhitespace text st') = []) as Hrem by (by rewrite rem_skip, S1).
    apply (f_equal length) in Hrem. unfold rem in Hrem. rewrite length_drop in Hrem. cbn [length] in Hrem.
    exists c, (SkipWhitespace text st'). cbv zeta.
    rewrite (proj2 (Nat.eqb_eq (position_ (SkipWhitespace text st')) (length text))) by lia. split; [done|exact I1].
Qed.
(** The expression of a definition's text; nothing but white space stands for [x]. *)
Definition spelled (text : list ascii) (e : expr) : Prop :=
  match Trimmed text with [] => e = X | _ => spells e (Trimmed text) end.
Lemma Compile_spec text program :
  Compile text = Ok program <-> exists e c, spelled text e /\ fold e = Some c /\ program = postfix e.
Proof.
  unfold Compile, spelled. cbv zeta. destruct (Trimmed text) as [|a l] eqn:Et.
  { split; [intros [= <-]; by exists X, None|by intros (e & c & -> & _ & ->)]. }
  rewrite <- Parser_Compile_spec. split.
  - destruct (Parser_Compile _) as [[[c|m] st]|]; [|done|done]. intros [= <-]. by exists c, st.
  - intros (c & st & -> & <-). done.
Qed.
Lemma spelled_is_wf text e : spelled text e -> wf e.
Proof. unfold spelled. destruct (Trimmed text) as [|a l]; [by intros ->|]. intros (rest & Hs & _). by eapply spelled_wf. Qed.
Lemma Evaluate_postfix e x :
  wf e -> Evaluate (postfix e) x = Some (if isfinite x then eval e x else Err "numeric value is not finite"%string).
Proof.
  intros Hwf. unfold Evaluate, Finite. destruct (isfinite x); cbn [negb]; [|done].
  rewrite <- (app_nil_r (postfix e)), evaluate_postfix by done. by destruct (eval e x).
Qed.
(** A checked evaluation answers, and a value it answers is finite. *)
Lemma EvaluateChecked_answers text x :
  exists r, EvaluateChecked text x = Some r /\ forall v, r = Ok v -> isfinite v = true.
Proof.
  unfold EvaluateChecked. destruct (Compile text) as [p|m] eqn:E; [|by exists (Err m)].
  apply Compile_spec in E as (e & c & Hs & _ & ->). apply spelled_is_wf in Hs.
  rewrite (Evaluate_postfix e x Hs). eexists. split; [done|]. intros v. destruct (isfinite x) eqn:Hx; [|done].
  by apply eval_finite.
Qed.
End compiling.

(** ** Lemmas: the binary64 instance keeps its promises *)
Section binary64_spec.
Lemma scan_digits_length l acc v n : scan_digits l acc = (v, n) -> (n <= length l)%nat.
Proof.
  revert acc v n. induction l as [|c l IH]; intros acc v n; cbn; [intros [= _ <-]; lia|].
  destruct (_ && _); [|intros [= _ <-]; lia]. destruct (scan_digits _ _) as [r k] eqn:E. intros [= _ <-].
  apply IH in E. lia.
Qed.
Lemma scan_exponent_length l v n : scan_exponent l = (v, n) -> (n <= length l)%nat.
Proof.
  unfold scan_exponent. destruct l as [|c l]; [intros [= _ <-]; lia|].
  destruct (_ || _); [|intros [= _ <-]; lia].
  assert (forall (neg : bool) l' k, (k + length l' <= S (length l))%nat ->
    (let '(v, n) := scan_digits l' 0 in if (n =? 0)%nat then (0, 0%nat) else (if neg then - v else v, (k + n)%nat)) = (v, n) ->
    (n <= S (length l))%nat) as Hrest.
  { intros neg l' k Hl. destruct (scan_digits l' 0) as [u j] eqn:E. apply scan_digits_length in E.
    destruct (j =? 0)%nat; intros [= _ <-]; lia. }
  destruct l as [|[[] [] [] [] [] [] [] []] l']; cbn [length] in *;
    first [apply (Hrest false); cbn; lia | apply (Hrest true); cbn; lia].
Qed.
Lemma starts_nocase_length w l : starts_nocase w l = true -> (length w <= length l)%nat.
Proof.
  unfold starts_nocase. rewrite bool_decide_eq_true. intros Hw%(f_equal length).
  rewrite length_map, length_take in Hw. lia.
Qed.
Lemma fraction_length n l m m' f k :
  (match drop n l with
   | "."%char :: l => let '(m, f) := scan_digits l m in (m, f, S f)
   | _ => (m, 0%nat, 0%nat)
   end) = (m', f, k) -> (n <= length l)%nat -> (n + k <= length l)%nat /\ (f <= k)%nat.
Proof.
  intros E Hn. pose proof (length_drop l n) as Hd. destruct (drop n l) as [|c l']; [injection E as _ <- <-; lia|].
  destruct c as [[] [] [] [] [] [] [] []]; try (injection E as _ <- <-; lia).
  destruct (scan_digits l' m) as [u j] eqn:Es. apply scan_digits_length in Es. injection E as _ <- <-. cbn in Hd. lia.
Qed.
Lemma unsigned_from_chars_range negative l v n :
  unsigned_from_chars negative l = Some (v, n) -> (1 <= n <= length l)%nat.
Proof.
  unfold unsigned_from_chars.
  repeat (destruct (starts_nocase _ l) eqn:Hw; [apply starts_nocase_length in Hw; cbn in Hw; intros [= _ <-]; lia|clear Hw]).
  destruct (scan_digits l 0) as [m d] eqn:Ed. apply scan_digits_length in Ed.
  destruct (match drop d l with [] => _ | _ :: _ => _ end) as [[m' f] k] eqn:Ef. apply fraction_length in Ef as [Hk Hf]; [|done].
  destruct (Nat.eqb_spec (d + f) 0) as [|Hdf]; [done|].
  destruct (scan_exponent _) as [e j] eqn:Ee. apply scan_exponent_length in Ee. rewrite length_drop in Ee.
  intros Hr. enough (n = d + k + j)%nat by lia. revert Hr. repeat case_match; congruence.
Qed.
#[export] Instance binary64_spec : DoubleSpec.
Proof.
  split.
  - intros s v n. cbn [from_chars binary64]. destruct s as [|c s]; [by apply (unsigned_from_chars_range false [])|].
    intros Hr. enough ((exists n', n = S n' /\ (1 <= n' <= length s)%nat) \/ (1 <= n <= length (c :: s))%nat)
      as [(n' & -> & Hn)|]; [cbn; lia|done|].
    destruct c as [[] [] [] [] [] [] [] []]; try (right; by eapply unsigned_from_chars_range).
    left. destruct (unsigned_from_chars true s) as [[u k]|] eqn:E; [|done]. injection Hr as _ <-.
    exists k. split; [done|]. by eapply unsigned_from_chars_range.
  - by intros [].
Qed.
End binary64_spec.

(** ** The compiler and its grammar *)
Section claims.
Context `{DoubleSpec}.
(** C37: The expression compiler accepts exactly the texts of the grammar (sums of
    products of signed numbers, [x] and parentheses nested at most eight deep, with
    white space anywhere between tokens; an empty text is [x]) whose constant parts
    fold without an error, and the program it returns is the postfix code of the
    expression the text spells. *)
Theorem Compile_iff text program :
  Compile text = Ok program <-> exists e c, spelled text e /\ fold e = Some c /\ program = postfix e.
Proof. apply Compile_spec. Qed.

(** C39: The recursive descent terminates: with four calls of fuel per character every
    text is answered, with a constant or with a diagnosis, and the answer does not
    move the parser past the end of the text. *)
Theorem Parser_Compile_terminates text :
  exists c st, Parser_Compile text = Some (c, st) /\ (position_ st <= length text)%nat
    /\ (forall v, c = Ok v -> position_ st = length text).
Proof.
  destruct (Parser_Compile_total text) as [[c st] E]. exists c, st. split; [done|]. revert E. unfold Parser_Compile.
  pose proof (proj1 (descent_inside text (parse_fuel text)) {| position_ := 0; nesting_ := 0; instructions_ := [] |}
    ltac:(unfold inside; cbn; lia)) as Hin.
  destruct (Sum _ _ _) as [[[a|m] st1]|]; [| |done]; cbn [stays] in Hin.
  - cbv zeta. apply inside_skip in Hin. destruct (Nat.eqb_spec (position_ (SkipWhitespace text st1)) (length text));
      cbn [negb]; intros [= <- <-]; (split; [exact Hin|]); [done|discriminate].
  - intros [= <- <-]. split; [exact Hin|discriminate].
Qed.

(** A compiled program is well typed for the stack machine: at every input it
    never reads an empty stack, its answer is the value of the expression the text
    spells or that expression's error, the value is finite, an input that is not
    finite is refused, and when the compiler folded the expression to a constant
    that constant is the answer at every finite input. *)
Theorem compiled_programs_evaluate text program x :
  Compile text = Ok program ->
  exists e c, spelled text e /\ fold e = Some c
    /\ Evaluate program x = Some (if isfinite x then eval e x else Err "numeric value is not finite"%string)
    /\ (forall v, Evaluate program x = Some (Ok v) -> isfinite v = true)
    /\ (forall v, c = Some v -> isfinite x = true -> Evaluate program x = Some (Ok v)).
Proof.
  intros (e & c & Hs & Hf & ->)%Compile_spec. exists e, c. pose proof (spelled_is_wf _ _ Hs) as Hwf.
  pose proof (Evaluate_postfix e x Hwf) as E.
  split_and!; [done|done|done| |].
  - intros v. rewrite E. destruct (isfinite x) eqn:Hx; [|done]. intros [= Hv]. by eapply eval_finite.
  - intros v -> Hx. rewrite E, Hx. by rewrite (eval_fold e x v).
Qed.
End claims.
Lemma compiles_to_length text n :
  match Compile text with Ok p => length p =? n | Err _ => false end%nat = true ->
  exists p, Compile text = Ok p /\ length p = n.
Proof. destruct (Compile text) as [p|]; [|done]. intros Hn%Nat.eqb_eq. by exists p. Qed.
Lemma Compile_iff_witness :
  DoubleSpec /\ exists e c, spelled (chars "x*0.5-40") e /\ fold e = Some c /\ length (postfix e) = 5%nat.
Proof.
  split; [apply binary64_spec|].
  destruct (compiles_to_length (chars "x*0.5-40") 5) as (p & E & L); [vm_compute; reflexivity|].
  apply (Compile_iff (H0 := binary64_spec)) in E as (e & c & Hs & Hf & ->).
  exists e, c. split; [exact Hs|]. split; [exact Hf|exact L].
Defined.
Lemma Parser_Compile_terminates_witness :
  exists c st, Parser_Compile (chars "((x)") = Some (c, st) /\ (position_ st <= 4)%nat.
Proof.
  destruct (Parser_Compile_terminates (H0 := binary64_spec) (chars "((x)")) as (c & st & E & Hp & _).
  exists c, st. split; [exact E|exact Hp].
Defined.
Lemma compiled_programs_evaluate_witness :
  exists program e c, Compile (chars " -(1+1)*3 ") = Ok program /\ fold e = Some c
    /\ Evaluate program zero = Some (eval e zero).
Proof.
  destruct (compiles_to_length (chars " -(1+1)*3 ") 6) as (p & E & L); [vm_compute; reflexivity|].
  destruct (compiled_programs_evaluate (H0 := binary64_spec) _ p zero E) as (e & c & _ & Hf & Hv & _).
  exists p, e, c. split; [exact E|]. split; [exact Hf|exact Hv].
Defined.
