(* ===== verification/MutDma.v ===== *)
(** * MutDma: [src/algorithms/protocol/mut_dma]

    The frames of the MUT-DMA protocol: 51-byte command frames, streamed frames,
    the free-form channel list and the memory access built on them. The unit's
    reading of the frames is written down as decoders, against which the builders
    are shown to be right. *)
From S2P Require Import Prelude Bytes.

(** ** [mut_dma_codec.cpp] *)
Definition kFrameLen : Z := 51.
Definition kTrailerStd : Z := 0x0D.
Definition kTrailerFreeform : Z := 0x0A.
Definition kChecksumOffset : Z := 49.
Definition kTrailerOffset : Z := 50.
Definition BuildCommandFrame (cmd : Z) (payload : list Z) (trailer : Z) : list Z :=
  let f := zrepeat kFrameLen 0 in
  let f := zset f 0 cmd in
  let n := Z.min (zlen payload) (kChecksumOffset - 1) in
  let f := splice f 1 (ztake n payload) in
  let f := zset f kChecksumOffset (Sum8 (ztake kChecksumOffset f)) in
  zset f kTrailerOffset trailer.
Definition VerifyFrame (frame : list Z) : bool :=
  if negb (zlen frame =? kFrameLen) then false
  else if negb (zget frame kChecksumOffset =? Sum8Range frame 0 kChecksumOffset) then false
  else let t := zget frame kTrailerOffset in (t =? kTrailerStd) || (t =? kTrailerFreeform).
Record StreamFrame := { log_id : Z; data : list Z; ok : bool }.
Definition ParseStreamFrame (frame : list Z) : StreamFrame :=
  let s := {| log_id := 0; data := []; ok := false |} in
  if zlen frame <? 3 then s
  else if negb (zget frame (zlen frame - 1) =? kTrailerStd) then s
  else
    let csum_idx := zlen frame - 2 in
    if negb (zget frame csum_idx =? Sum8Range frame 0 csum_idx) then s
    else {| log_id := zget frame 0; data := subspan frame 1 (csum_idx - 1); ok := true |}.

(** ** [mut_dma_freeform.cpp] *)
Record Channel := { id : Z; len : Z }.
Definition BuildSetupFrame (setup_cmd channel_count : Z) : list Z :=
  BuildCommandFrame setup_cmd [channel_count] kTrailerFreeform.
Definition SizeToDescriptor (len : Z) : Z :=
  if len =? 1 then 0 else if len =? 2 then 1 else if len =? 4 then 2 else 0.
Definition ReqLen (channel_count : Z) : Z := (channel_count + 3) / 4 + channel_count * 2 + 0x1c.
(** The two loops of [BuildIdListFrame]. *)
Fixpoint pack_descriptors (channels : list Channel) (i : Z) (f : list Z) : list Z :=
  match channels with
  | [] => f
  | c :: channels =>
      let d := Z.land (SizeToDescriptor (len c)) 3 in
      let shift := (3 - i mod 4) * 2 in
      let desc_idx := 2 + i / 4 in
      pack_descriptors channels (i + 1) (zset f desc_idx (u8 (Z.lor (zget f desc_idx) (Z.shiftl d shift))))
  end.
Fixpoint write_ids (channels : list Channel) (id_off : Z) (f : list Z) : list Z :=
  match channels with
  | [] => f
  | c :: channels => write_ids channels (id_off + 2) (WriteU16Le f id_off (id c))
  end.
Definition BuildIdListFrame (list_cmd : Z) (channels : list Channel) : list Z :=
  let n := zlen channels in
  let total := ReqLen n in
  let f := zrepeat total 0 in
  let f := zset f 0 list_cmd in
  let f := zset f 1 (u8 n) in
  let desc_bytes := (n + 3) / 4 in
  let f := pack_descriptors channels 0 f in
  let f := write_ids channels (2 + desc_bytes) f in
  let f := zset f (total - 2) (Sum8Range f 0 (total - 2)) in
  zset f (total - 1) kTrailerStd.
Definition ResponseDataLength (channels : list Channel) : Z := fold_left (fun n c => n + len c) channels 0.
Fixpoint decode_values (channels : list Channel) (data : list Z) (off : Z) : list Z :=
  match channels with
  | [] => []
  | c :: channels => ReadULe data off (len c) :: decode_values channels data (off + len c)
  end.
Definition DecodeStreamValues (channels : list Channel) (data : list Z) : list Z :=
  if negb (zlen data =? ResponseDataLength channels) then [] else decode_values channels data 0.

(** ** [mut_dma_memory.cpp] *)
Definition kMaxWriteChunk : Z := 43.
Definition write_payload (a chunk : Z) (piece : list Z) : list Z :=
  AppendU16Be [0x00; 0x03] a ++ [u8 chunk] ++ piece.
(** The loop of [BuildWriteFrames]; every pass consumes at least one byte, so the
    size of the data is enough fuel. *)
Fixpoint write_frames (fuel : nat) (addr : Z) (bytes : list Z) (off : Z) : list (list Z) :=
  match fuel with
  | O => []
  | S fuel =>
      if off <? zlen bytes then
        let chunk := Z.min kMaxWriteChunk (zlen bytes - off) in
        let a := u16 (addr + off) in
        BuildCommandFrame 0x87 (write_payload a chunk (subspan bytes off chunk)) kTrailerStd
          :: write_frames fuel addr bytes (off + chunk)
      else []
  end.
Definition BuildWriteFrames (addr : Z) (bytes : list Z) : list (list Z) :=
  if 0x10000 <? u32 (addr + u32 (zlen bytes)) then [] else write_frames (length bytes) addr bytes 0.
Definition PlanReadChannels (addr len : Z) : list Channel :=
  map (fun i => {| id := u16 (addr + i); len := 1 |}) (seqZ 0 len).
Definition ReassembleRead (values : list Z) : list Z := map (fun v => u8 (Z.land v 0xFF)) values.

(** ** The unit's side

    What a unit does with the frames: the channels a list frame names, the bytes it
    streams for them, and the memory a write frame leaves. *)
Definition descriptor_at (f : list Z) (i : Z) : Z :=
  Z.land (Z.shiftr (zget f (2 + i / 4)) ((3 - i mod 4) * 2)) 3.
Definition descriptor_size (d : Z) : Z := if d =? 0 then 1 else if d =? 1 then 2 else 4.
Definition listed_channels (f : list Z) : list Channel :=
  let n := zget f 1 in
  map (fun i => {| id := ReadU16Le f (2 + (n + 3) / 4 + 2 * i); len := descriptor_size (descriptor_at f i) |}) (seqZ 0 n).
Definition streamed (channels : list Channel) (values : list Z) : list Z :=
  List.concat (zip_with (fun c v => le_bytes (Z.to_nat (len c)) v) channels values).
Definition stream_frame (log_id : Z) (data : list Z) : list Z :=
  log_id :: data ++ [Sum8 (log_id :: data); kTrailerStd].
Definition obey_write (m : memory) (f : list Z) : memory :=
  if VerifyFrame f && (zget f 0 =? 0x87) && (zget f 1 =? 0) && (zget f 2 =? 3) then
    store m (ReadU16Be f 3) (subspan f 6 (zget f 5))
  else m.
(** A channel the protocol can name. *)
Definition channel_ok (c : Channel) : Prop := u16_ok (id c) /\ (len c = 1 \/ len c = 2 \/ len c = 4).
Definition value_fits (c : Channel) (v : Z) : Prop := 0 <= v < 256 ^ len c.

(** ** Lemmas: frames *)
Definition body_of (cmd : Z) (payload : list Z) : list Z :=
  cmd :: ztake 48 payload ++ zrepeat (48 - zlen payload) 0.
Lemma zlen_body_of cmd payload : zlen (body_of cmd payload) = 49.
Proof. unfold body_of. pose proof (zlen_nonneg payload). zl. Qed.
(** A list that ends in the sum of the rest and one more byte. *)
Lemma summed_split f n :
  0 < n -> zlen f = n + 2 -> zget f n = Sum8Range f 0 n -> f = ztake n f ++ [Sum8 (ztake n f); zget f (n + 1)].
Proof.
  intros Hn Hl Hs. rewrite Sum8Range_prefix in Hs by lia. rewrite <- Hs.
  apply zget_ext; [zl|]. intros i Hi. destruct (decide (i < n)).
  - by rewrite zget_app_l, zget_ztake by zl.
  - rewrite zget_app_r by zl. rewrite zlen_ztake. destruct (decide (i = n)) as [->|].
    + by replace (n - _) with 0 by lia.
    + replace (i - _) with 1 by lia. rewrite zget_1. f_equal. lia.
Qed.
Lemma summed_join body t n :
  zlen body = n -> 0 < n ->
  zlen (body ++ [Sum8 body; t]) = n + 2 /\ zget (body ++ [Sum8 body; t]) n = Sum8Range (body ++ [Sum8 body; t]) 0 n
  /\ zget (body ++ [Sum8 body; t]) (n + 1) = t.
Proof.
  intros <- Hn. split_and!; [zl| |rewrite zget_app_r by lia; by replace (zlen body + 1 - zlen body) with 1 by lia].
  rewrite Sum8Range_prefix by zl. rewrite zget_app_r, Z.sub_diag by lia. rewrite zget_0. f_equal.
  unfold ztake, zlen. by rewrite Nat2Z.id, take_app_length.
Qed.
Lemma BuildCommandFrame_eq cmd payload trailer :
  BuildCommandFrame cmd payload trailer = body_of cmd payload ++ [Sum8 (body_of cmd payload); trailer].
Proof.
  unfold BuildCommandFrame. pose proof (zlen_nonneg payload).
  change kFrameLen with 51. change kChecksumOffset with 49. change kTrailerOffset with 50. change (49 - 1) with 48.
  set (f := splice (zset (zrepeat 51 0) 0 cmd) 1 (ztake (Z.min (zlen payload) 48) payload)).
  assert (zlen f = 51) as Lf by (unfold f; rewrite zlen_splice; zl).
  assert (ztake 49 f = body_of cmd payload) as Ef.
  { apply zget_ext; rewrite zlen_ztake, Lf; [by rewrite zlen_body_of|]. intros i Hi. rewrite zget_ztake by lia.
    unfold f, body_of. rewrite zget_splice by zl. rewrite zlen_ztake. destruct (decide (i = 0)) as [->|].
    - rewrite decide_False by lia. done.
    - rewrite zget_cons_S by lia. case_decide.
      + rewrite zget_app_l by zl. rewrite !zget_ztake by lia. done.
      + rewrite zget_zset, decide_False by lia. rewrite !zget_app_r by zl. rewrite !zget_zrepeat by zl. done. }
  rewrite Ef. apply zget_ext; [zl; rewrite zlen_body_of; lia|]. intros i Hi. autorewrite with zlen in Hi.
  rewrite !zget_zset. autorewrite with zlen. destruct (decide (i < 49)).
  - rewrite !decide_False by lia. rewrite zget_app_l by (rewrite zlen_body_of; lia). rewrite <- Ef. by rewrite zget_ztake.
  - rewrite zget_app_r by (rewrite zlen_body_of; lia). rewrite zlen_body_of. destruct (decide (i = 49)) as [->|].
    + rewrite decide_False, decide_True by lia. done.
    + rewrite decide_True by lia. by replace i with 50 by lia.
Qed.
Lemma VerifyFrame_spec f :
  VerifyFrame f = true <->
  exists body t, zlen body = 49 /\ f = body ++ [Sum8 body; t] /\ (t = kTrailerStd \/ t = kTrailerFreeform).
Proof.
  unfold VerifyFrame. change kFrameLen with (49 + 2). change kChecksumOffset with 49. change kTrailerOffset with (49 + 1).
  split.
  - destruct (Z.eqb_spec (zlen f) (49 + 2)) as [Hl|]; [|done]. cbn [negb].
    destruct (Z.eqb_spec (zget f 49) (Sum8Range f 0 49)) as [Hs|]; [|done]. cbn [negb]. cbv zeta. intros Ht.
    exists (ztake 49 f), (zget f (49 + 1)). split_and!; [zl|by apply summed_split|].
    apply orb_prop in Ht as [Ht|Ht]; [left|right]; lia.
  - intros (body & t & Hb & -> & Ht). destruct (summed_join body t 49 Hb ltac:(lia)) as (E1 & E2 & E3).
    rewrite E1, E3, <- E2. rewrite !Z.eqb_refl. cbn [negb]. cbv zeta. destruct Ht as [-> | ->]; done.
Qed.
Lemma ParseStreamFrame_spec f i d :
  ParseStreamFrame f = {| log_id := i; data := d; ok := true |} <-> f = stream_frame i d.
Proof.
  unfold ParseStreamFrame, stream_frame. cbv zeta. split.
  - destruct (Z.ltb_spec (zlen f) 3) as [|Hl]; [done|].
    destruct (Z.eqb_spec (zget f (zlen f - 1)) kTrailerStd) as [Ht|]; [|done]. cbn [negb].
    destruct (Z.eqb_spec (zget f (zlen f - 2)) (Sum8Range f 0 (zlen f - 2))) as [Hs|]; [|done]. cbn [negb].
    intros [= Hi Hd]. pose proof (summed_split f (zlen f - 2) ltac:(lia) ltac:(lia) Hs) as E.
    replace (zlen f - 2 + 1) with (zlen f - 1) in E by lia. rewrite Ht in E.
    assert (ztake (zlen f - 2) f = i :: d) as Eb; [|by rewrite Eb in E].
    change (ztake (zlen f - 2) f) with (subspan f 0 (zlen f - 2)). rewrite subspan_cons by lia. rewrite Hi.
    f_equal. rewrite <- Hd. done.
  - intros ->. change (i :: d ++ [Sum8 (i :: d); kTrailerStd]) with ((i :: d) ++ [Sum8 (i :: d); kTrailerStd]).
    pose proof (zlen_nonneg d). destruct (summed_join (i :: d) kTrailerStd (zlen (i :: d)) eq_refl ltac:(zl)) as (E1 & E2 & E3).
    set (g := (i :: d) ++ _) in *. rewrite zlen_cons in *. rewrite (proj2 (Z.ltb_ge _ _)) by lia.
    replace (zlen g - 1) with (1 + zlen d + 1) by lia. replace (zlen g - 2) with (1 + zlen d) by lia.
    rewrite E3, <- E2, !Z.eqb_refl. cbn [negb]. f_equal.
    replace (1 + zlen d - 1) with (zlen d) by lia. subst g. unfold subspan, zdrop, ztake, zlen. rewrite Nat2Z.id.
    change (Z.to_nat 1) with 1%nat. cbn [app drop].
    by rewrite drop_0, take_app_length.
Qed.

(** ** Lemmas: the channel list *)
Lemma SizeToDescriptor_range l : 0 <= SizeToDescriptor l <= 2.
Proof. unfold SizeToDescriptor. repeat case_match; lia. Qed.
Lemma descriptor_size_of l : l = 1 \/ l = 2 \/ l = 4 -> descriptor_size (Z.land (SizeToDescriptor l) 3) = l.
Proof. by intros [-> |[-> | ->]]. Qed.
Lemma slot_set b d p q :
  byte_ok b -> 0 <= d <= 2 -> 0 <= p < 4 -> 0 <= q < 4 ->
  Z.land (Z.shiftr (u8 (Z.lor b (Z.shiftl (Z.land d 3) ((3 - p) * 2)))) ((3 - q) * 2)) 3
  = Z.lor (Z.land (Z.shiftr b ((3 - q) * 2)) 3) (if decide (p = q) then d else 0).
Proof.
  intros Hb Hd Hp Hq.
  assert (0 <= Z.shiftl (Z.land d 3) ((3 - p) * 2) < 2 ^ 8) as Hs.
  { assert (d = 0 \/ d = 1 \/ d = 2) as [-> |[-> | ->]] by lia;
      assert (p = 0 \/ p = 1 \/ p = 2 \/ p = 3) as [-> |[-> |[-> | ->]]] by lia; done. }
  rewrite u8_small by (apply (lor_range _ _ 8); unfold byte_ok in *; lia).
  rewrite Z.shiftr_lor, Z.land_lor_distr_l. f_equal.
  assert (d = 0 \/ d = 1 \/ d = 2) as [-> |[-> | ->]] by lia;
    assert (p = 0 \/ p = 1 \/ p = 2 \/ p = 3) as [-> |[-> |[-> | ->]]] by lia;
    assert (q = 0 \/ q = 1 \/ q = 2 \/ q = 3) as [-> |[-> |[-> | ->]]] by lia; reflexivity.
Qed.
Lemma zlen_pack_descriptors channels i f : zlen (pack_descriptors channels i f) = zlen f.
Proof. revert i f. induction channels as [|c l IH]; intros i f; [done|]. cbn. by rewrite IH, zlen_zset. Qed.
Lemma bytes_ok_pack_descriptors channels i f : bytes_ok f -> bytes_ok (pack_descriptors channels i f).
Proof.
  revert i f. induction channels as [|c l IH]; intros i f Hf; [done|]. cbn. apply IH.
  apply bytes_ok_zset; [done|apply u8_range].
Qed.
(** Packing sets the channels' slots and nothing else. *)
Lemma pack_descriptors_slots channels i f j :
  bytes_ok f -> 0 <= i -> 0 <= j -> 2 + (i + zlen channels + 3) / 4 <= zlen f ->
  (forall k, i <= k -> k < i + zlen channels -> descriptor_at f k = 0) ->
  descriptor_at (pack_descriptors channels i f) j
  = if decide (i <= j < i + zlen channels)
    then SizeToDescriptor (len (default {| id := 0; len := 0 |} (zlookup channels (j - i)))) else descriptor_at f j.
Proof.
  revert i f. induction channels as [|c l IH]; intros i f Hf Hi Hj Hl Hz.
  { rewrite decide_False by (rewrite zlen_nil; lia). done. }
  rewrite zlen_cons in *. pose proof (zlen_nonneg l). cbn [pack_descriptors].
  set (g := zset f _ _). pose proof (Z.div_mod i 4). pose proof (Z.mod_pos_bound i 4).
  assert (i / 4 < (i + (1 + zlen l) + 3) / 4) by (apply Z.div_lt_upper_bound; [lia|];
    pose proof (Z.div_mod (i + (1 + zlen l) + 3) 4); pose proof (Z.mod_pos_bound (i + (1 + zlen l) + 3) 4); lia).
  assert (forall k, 0 <= k -> descriptor_at g k = if decide (k = i)
    then Z.lor (descriptor_at f i) (SizeToDescriptor (len c)) else descriptor_at f k) as Hg.
  { intros k Hk. unfold descriptor_at, g. rewrite zget_zset.
    pose proof (SizeToDescriptor_range (len c)). pose proof (Z.mod_pos_bound k 4).
    destruct (decide (k / 4 = i / 4)) as [E|].
    - rewrite decide_True by lia. rewrite slot_set by (lia || by apply bytes_ok_zget). rewrite E.
      destruct (decide (k = i)) as [->|]; [by rewrite decide_True|].
      rewrite decide_False by (pose proof (Z.div_mod k 4); lia). by rewrite Z.lor_0_r.
    - rewrite decide_False by lia. destruct (decide (k = i)) as [->|]; done. }
  rewrite IH; [|apply bytes_ok_zset; [done|apply u8_range]|lia|lia| |].
  - destruct (decide (j = i)) as [->|].
    + rewrite decide_False, decide_True by lia. rewrite Hg, decide_True by lia.
      rewrite (Hz i) by lia. rewrite Z.lor_0_l, Z.sub_diag. done.
    + rewrite Hg, (decide_False (P := j = i)) by lia. repeat case_decide; try lia.
      unfold zlookup. rewrite !decide_True by lia. replace (Z.to_nat (j - i)) with (S (Z.to_nat (j - (i + 1)))) by lia. done.
  - unfold g. rewrite zlen_zset. replace (i + 1 + zlen l) with (i + (1 + zlen l)) by lia. lia.
  - intros k Hk1 Hk2. rewrite Hg, decide_False by lia. apply Hz; lia.
Qed.
Definition id_bytes (channels : list Channel) : list Z := List.concat (map (fun c => le_bytes 2 (id c)) channels).
Lemma zlen_id_bytes channels : zlen (id_bytes channels) = 2 * zlen channels.
Proof.
  induction channels as [|c l IH]; [done|]. unfold id_bytes in *. cbn [map List.concat].
  rewrite zlen_app, IH, zlen_le_bytes, zlen_cons. lia.
Qed.
Lemma bytes_ok_id_bytes channels : bytes_ok (id_bytes channels).
Proof.
  induction channels as [|c l IH]; [constructor|]. unfold id_bytes in *. cbn [map List.concat].
  apply bytes_ok_app; [apply bytes_ok_le_bytes|done].
Qed.
Lemma WriteU16Le_splice l off v :
  0 <= off -> off + 2 <= zlen l -> u16_ok v -> WriteU16Le l off v = splice l off (le_bytes 2 v).
Proof.
  intros Ho Hl Hv. unfold WriteU16Le. rewrite FitsAt_true by lia. cbn [negb]. rewrite zset2_splice by lia.
  rewrite byte_lane0, byte_lane8. done.
Qed.
Lemma write_ids_splice channels off f :
  0 <= off -> off + 2 * zlen channels <= zlen f -> Forall channel_ok channels ->
  write_ids channels off f = splice f off (id_bytes channels).
Proof.
  revert off f. induction channels as [|c l IH]; intros off f Ho Hl Hc.
  { cbn. unfold splice, ztake, zdrop. change (zlen []) with 0. by rewrite Z.add_0_r, take_nil, app_nil_l, take_drop. }
  inversion_clear Hc as [|? ? [Hid _] Hcs]. rewrite zlen_cons in Hl. pose proof (zlen_nonneg l).
  cbn [write_ids]. rewrite WriteU16Le_splice by (done || lia).
  rewrite IH by (rewrite ?zlen_splice; rewrite ?zlen_le_bytes; done || lia).
  pose proof (zlen_id_bytes l) as Ll. pose proof (zlen_id_bytes (c :: l)) as Lc. rewrite zlen_cons in Lc.
  apply zget_ext; [rewrite !zlen_splice; rewrite ?zlen_splice; rewrite ?zlen_le_bytes; lia|]. intros i Hi.
  rewrite !zget_splice; rewrite ?zlen_splice; rewrite ?zlen_le_bytes; try lia.
  change (id_bytes (c :: l)) with (le_bytes 2 (id c) ++ id_bytes l) in *. rewrite Lc, Ll.
  repeat case_decide; try lia.
  - rewrite zget_app_r by (rewrite zlen_le_bytes; lia). rewrite zlen_le_bytes. f_equal. lia.
  - by rewrite zget_app_l by (rewrite zlen_le_bytes; lia).
Qed.
Lemma le_value_id_bytes channels k :
  0 <= k < zlen channels -> Forall channel_ok channels ->
  le_value (subspan (id_bytes channels) (2 * k) 2) = id (default {| id := 0; len := 0 |} (zlookup channels k)).
Proof.
  revert k. induction channels as [|c l IH]; intros k Hk Hc; [unfold zlen in Hk; cbn [length] in Hk; lia|].
  inversion_clear Hc as [|? ? [Hid _] Hcs]. rewrite zlen_cons in Hk.
  change (id_bytes (c :: l)) with (le_bytes 2 (id c) ++ id_bytes l).
  destruct (decide (k = 0)) as [->|].
  - change (subspan (le_bytes 2 (id c) ++ id_bytes l) (2 * 0) 2) with (le_bytes 2 (id c)).
    rewrite le_value_bytes. apply Z.mod_small. exact Hid.
  - assert (subspan (le_bytes 2 (id c) ++ id_bytes l) (2 * k) 2 = subspan (id_bytes l) (2 * (k - 1)) 2) as ->.
    { pose proof (zlen_id_bytes l). apply zget_ext; [rewrite !zlen_subspan, zlen_app, zlen_le_bytes; lia|].
      intros i Hi. rewrite zlen_subspan, zlen_app, zlen_le_bytes in Hi. rewrite !zget_subspan by lia.
      rewrite zget_app_r by (rewrite zlen_le_bytes; lia). rewrite zlen_le_bytes. f_equal. lia. }
    rewrite IH by (done || lia). unfold zlookup. rewrite !decide_True by lia.
    replace (Z.to_nat k) with (S (Z.to_nat (k - 1))) by lia. done.
Qed.
(** The frame without its sum and trailer. *)
Definition list_body (list_cmd : Z) (channels : list Channel) : list Z :=
  let n := zlen channels in
  write_ids channels (2 + (n + 3) / 4) (pack_descriptors channels 0 (zset (zset (zrepeat (ReqLen n) 0) 0 list_cmd) 1 (u8 n))).
Lemma zlen_write_ids channels off f : zlen (write_ids channels off f) = zlen f.
Proof.
  revert off f. induction channels as [|c l IH]; intros off f; [done|]. cbn. rewrite IH. unfold WriteU16Le.
  destruct (negb _); [done|]. by rewrite !zlen_zset.
Qed.
Lemma zlen_list_body cmd channels : zlen (list_body cmd channels) = ReqLen (zlen channels).
Proof.
  unfold list_body. cbv zeta. rewrite zlen_write_ids, zlen_pack_descriptors, !zlen_zset, zlen_zrepeat.
  unfold ReqLen. pose proof (zlen_nonneg channels). pose proof (Z.div_pos (zlen channels + 3) 4). lia.
Qed.
Lemma ReqLen_room n : 0 <= n -> 2 + (n + 3) / 4 + 2 * n <= ReqLen n - 2 /\ 0 <= (n + 3) / 4.
Proof. intros Hn. unfold ReqLen. pose proof (Z.div_pos (n + 3) 4). lia. Qed.
Lemma BuildIdListFrame_eq cmd channels :
  let body := ztake (ReqLen (zlen channels) - 2) (list_body cmd channels) in
  BuildIdListFrame cmd channels = body ++ [Sum8 body; kTrailerStd].
Proof.
  cbv zeta. unfold BuildIdListFrame. cbv zeta. fold (list_body cmd channels).
  pose proof (zlen_list_body cmd channels) as L. pose proof (zlen_nonneg channels) as Hn.
  destruct (ReqLen_room _ Hn). set (f := list_body cmd channels) in *. set (t := ReqLen (zlen channels)) in *.
  rewrite Sum8Range_prefix by lia. apply zget_ext; [zl|]. intros i Hi. rewrite !zlen_zset in Hi.
  rewrite !zget_zset, !zlen_zset. destruct (decide (i < t - 2)).
  - rewrite !decide_False by lia. rewrite zget_app_l, zget_ztake by zl. done.
  - rewrite zget_app_r by zl. rewrite zlen_ztake. destruct (decide (i = t - 2)) as [->|].
    + rewrite decide_False, decide_True by lia. replace (t - 2 - _) with 0 by lia. done.
    + rewrite decide_True by lia. replace (i - _) with 1 by lia. done.
Qed.
Lemma list_body_front cmd channels i :
  Forall channel_ok channels -> 0 <= i < 2 + (zlen channels + 3) / 4 ->
  zget (list_body cmd channels) i
  = zget (pack_descriptors channels 0 (zset (zset (zrepeat (ReqLen (zlen channels)) 0) 0 cmd) 1 (u8 (zlen channels)))) i.
Proof.
  intros Hc Hi. pose proof (zlen_nonneg channels) as Hn. destruct (ReqLen_room _ Hn). unfold list_body. cbv zeta.
  rewrite write_ids_splice; rewrite ?zlen_pack_descriptors, ?zlen_zset, ?zlen_zrepeat; try done; try lia.
  rewrite zget_splice; rewrite ?zlen_pack_descriptors, ?zlen_zset, ?zlen_zrepeat, ?zlen_id_bytes; try lia.
  by rewrite decide_False by lia.
Qed.
Lemma pack_descriptors_front channels i f j : 0 <= i -> j < 2 -> zget (pack_descriptors channels i f) j = zget f j.
Proof.
  revert i f. induction channels as [|c l IH]; intros i f Hi Hj; [done|]. cbn [pack_descriptors].
  rewrite IH by lia. rewrite zget_zset. pose proof (Z.div_pos i 4). by rewrite decide_False by lia.
Qed.
Lemma list_body_ids cmd channels k :
  byte_ok cmd -> Forall channel_ok channels -> 0 <= k < zlen channels ->
  ReadU16Le (list_body cmd channels) (2 + (zlen channels + 3) / 4 + 2 * k)
  = id (default {| id := 0; len := 0 |} (zlookup channels k)).
Proof.
  intros Hcmd Hc Hk. pose proof (zlen_nonneg channels) as Hn. destruct (ReqLen_room _ Hn) as [Hr Hq].
  rewrite <- le_value_id_bytes by done. unfold list_body. cbv zeta.
  set (g := pack_descriptors _ _ _). set (o := 2 + (zlen channels + 3) / 4) in *.
  assert (zlen g = ReqLen (zlen channels)) as Lg
    by (unfold g; rewrite zlen_pack_descriptors, !zlen_zset, zlen_zrepeat; lia).
  assert (bytes_ok g) as Bg.
  { apply bytes_ok_pack_descriptors, bytes_ok_zset; [|apply u8_range]. apply bytes_ok_zset; [|done].
    apply bytes_ok_zrepeat. unfold byte_ok. lia. }
  rewrite write_ids_splice by (done || lia). set (h := splice _ _ _).
  assert (zlen h = zlen g) as Lh by (unfold h; rewrite zlen_splice; rewrite ?zlen_id_bytes; lia).
  change (ReadU16Le h (o + 2 * k)) with (ReadULe h (o + 2 * k) 2).
  rewrite ReadULe_val; [|apply bytes_ok_splice; [done|apply bytes_ok_id_bytes]|lia|lia|lia]. f_equal.
  apply subspan_splice_within; rewrite ?zlen_id_bytes; lia.
Qed.
Lemma list_body_descriptor cmd channels k :
  byte_ok cmd -> Forall channel_ok channels -> 0 <= k < zlen channels ->
  descriptor_at (list_body cmd channels) k
  = SizeToDescriptor (len (default {| id := 0; len := 0 |} (zlookup channels k))).
Proof.
  intros Hcmd Hc Hk. pose proof (zlen_nonneg channels) as Hn. destruct (ReqLen_room _ Hn) as [Hr Hq].
  unfold descriptor_at. rewrite list_body_front; [|done|].
  - set (z := zset _ 1 _). fold (descriptor_at (pack_descriptors channels 0 z) k).
    assert (zlen z = ReqLen (zlen channels)) as Lz by (unfold z; rewrite !zlen_zset, zlen_zrepeat; lia).
    rewrite pack_descriptors_slots; [|..].
    + rewrite decide_True by lia. by rewrite Z.sub_0_r.
    + apply bytes_ok_zset; [|apply u8_range]. apply bytes_ok_zset; [|done]. apply bytes_ok_zrepeat. unfold byte_ok. lia.
    + lia.
    + lia.
    + rewrite Lz, Z.add_0_l. lia.
    + intros j Hj1 Hj2. unfold descriptor_at, z. pose proof (Z.div_pos j 4). rewrite !zget_zset, !decide_False by lia.
      rewrite zget_zrepeat; [|split; [lia|]].
      * rewrite Z.shiftr_0_l. done.
      * assert (j / 4 < (zlen channels + 3) / 4); [|lia]. apply Z.div_lt_upper_bound; [lia|].
        pose proof (Z.div_mod (zlen channels + 3) 4). pose proof (Z.mod_pos_bound (zlen channels + 3) 4). lia.
  - pose proof (Z.div_pos k 4). split; [lia|]. assert (k / 4 < (zlen channels + 3) / 4); [|lia].
    apply Z.div_lt_upper_bound; [lia|].
    pose proof (Z.div_mod (zlen channels + 3) 4). pose proof (Z.mod_pos_bound (zlen channels + 3) 4). lia.
Qed.

(** Reading a list frame back. *)
Lemma listed_channels_built cmd channels :
  byte_ok cmd -> Forall channel_ok channels -> zlen channels <= 255 ->
  listed_channels (BuildIdListFrame cmd channels) = channels.
Proof.
  intros Hcmd Hc Hn. rewrite BuildIdListFrame_eq. pose proof (zlen_nonneg channels) as Hn0.
  destruct (ReqLen_room _ Hn0) as [Hr Hq]. pose proof (zlen_list_body cmd channels) as L.
  set (f := ztake _ _ ++ _).
  assert (forall i, i < ReqLen (zlen channels) - 2 -> zget f i = zget (list_body cmd channels) i) as Hf.
  { intros i Hi. unfold f. rewrite zget_app_l, zget_ztake by zl. done. }
  assert (zlen f = ReqLen (zlen channels)) as Lf by (unfold f; zl).
  assert (zget f 1 = zlen channels) as Hcount.
  { rewrite Hf, list_body_front by (done || lia). rewrite pack_descriptors_front by lia.
    rewrite zget_zset, decide_True by zl. apply u8_small. unfold byte_ok. lia. }
  unfold listed_channels. cbv zeta. rewrite Hcount.
  apply list_eq. intros k. rewrite list_lookup_fmap. destruct (decide (k < length channels)%nat) as [Hk|Hk].
  - rewrite lookup_seqZ_lt by (unfold zlen; lia). destruct (lookup_lt_is_Some_2 channels k Hk) as [c Ec]. rewrite Ec.
    cbn [fmap option_fmap option_map]. rewrite Z.add_0_l.
    assert (zlookup channels (Z.of_nat k) = Some c) as Ez by (unfold zlookup; rewrite decide_True by lia; by rewrite Nat2Z.id).
    assert (0 <= Z.of_nat k < zlen channels) as Hk' by (unfold zlen; lia).
    pose proof (list_body_ids cmd channels _ Hcmd Hc Hk') as Hid. pose proof (list_body_descriptor cmd channels _ Hcmd Hc Hk') as Hd.
    rewrite Ez in Hid, Hd. cbv [default from_option Datatypes.id] in Hid, Hd.
    pose proof (proj1 (Forall_lookup _ _) Hc k c Ec) as [Hi Hl].
    destruct c as [i l]; cbn [id len] in *.
    assert (Z.of_nat k / 4 < (zlen channels + 3) / 4).
    { apply Z.div_lt_upper_bound; [lia|]. pose proof (Z.div_mod (zlen channels + 3) 4).
      pose proof (Z.mod_pos_bound (zlen channels + 3) 4). lia. }
    do 2 f_equal.
    + rewrite <- Hid. unfold ReadU16Le. rewrite !FitsAt_true by lia. cbn [negb]. by rewrite !Hf by lia.
    + unfold descriptor_at in *. rewrite Hf by lia. rewrite Hd. rewrite <- (descriptor_size_of l Hl) at 2.
      f_equal. destruct Hl as [-> |[-> | ->]]; done.
  - rewrite lookup_seqZ_ge by (unfold zlen; lia). by rewrite lookup_ge_None_2 by lia.
Qed.
Lemma list_frame_parses cmd channels : ok (ParseStreamFrame (BuildIdListFrame cmd channels)) = true.
Proof.
  pose proof (BuildIdListFrame_eq cmd channels) as E. cbv zeta in E. pose proof (zlen_nonneg channels) as Hn.
  destruct (ReqLen_room _ Hn). pose proof (zlen_list_body cmd channels). destruct (ztake _ _) as [|b body] eqn:Eb.
  { apply (f_equal zlen) in Eb. rewrite zlen_ztake in Eb. change (zlen []) with 0 in Eb. lia. }
  by rewrite (proj2 (ParseStreamFrame_spec _ b body) E).
Qed.
Lemma list_frame_cmd cmd channels : Forall channel_ok channels -> zget (BuildIdListFrame cmd channels) 0 = cmd.
Proof.
  intros Hc. rewrite BuildIdListFrame_eq. pose proof (zlen_nonneg channels) as Hn. destruct (ReqLen_room _ Hn).
  pose proof (zlen_list_body cmd channels). rewrite zget_app_l, zget_ztake by zl.
  rewrite list_body_front by (done || lia). rewrite pack_descriptors_front by lia.
  rewrite zget_zset, decide_False by lia. by rewrite zget_zset, decide_True by zl.
Qed.

(** ** Lemmas: streamed values *)
Lemma ResponseDataLength_zsum channels : ResponseDataLength channels = zsum (map len channels).
Proof.
  unfold ResponseDataLength. enough (forall l n, fold_left (fun n c => n + len c) l n = n + zsum (map len l)) as -> by lia.
  induction l as [|c l IH]; intros n; cbn; [lia|]. rewrite IH. unfold zsum. lia.
Qed.
Lemma channel_len c : channel_ok c -> 1 <= len c <= 4.
Proof. intros [_ [-> |[-> | ->]]]; lia. Qed.
Lemma zlen_streamed channels values :
  Forall2 value_fits channels values -> Forall channel_ok channels ->
  zlen (streamed channels values) = ResponseDataLength channels.
Proof.
  rewrite ResponseDataLength_zsum. induction 1 as [|c v cs vs _ _ IH]; [done|]. intros Hc. inversion_clear Hc as [|? ? Ho Hcs].
  apply channel_len in Ho. unfold streamed in *. cbn. rewrite zlen_app, IH, zlen_le_bytes by done. unfold zsum. lia.
Qed.
Lemma decode_values_streamed channels values pre :
  Forall2 value_fits channels values -> Forall channel_ok channels -> bytes_ok pre ->
  decode_values channels (pre ++ streamed channels values) (zlen pre) = values.
Proof.
  intros Hv. revert pre. induction Hv as [|c v cs vs Hv _ IH]; intros pre Hc Hp; [done|].
  inversion_clear Hc as [|? ? Ho Hcs]. apply channel_len in Ho.
  change (streamed (c :: cs) (v :: vs)) with (le_bytes (Z.to_nat (len c)) v ++ streamed cs vs). cbn [decode_values].
  set (e := le_bytes _ v). assert (zlen e = len c) as Le by (unfold e; rewrite zlen_le_bytes; lia).
  assert (bytes_ok (streamed cs vs)) as Bs.
  { clear. revert vs. induction cs as [|c cs IH]; intros [|v vs]; try constructor. unfold streamed in *. cbn.
    apply bytes_ok_app; [apply bytes_ok_le_bytes|apply IH]. }
  pose proof (bytes_ok_le_bytes (Z.to_nat (len c)) v) as Be. pose proof (zlen_nonneg pre). pose proof (zlen_nonneg (streamed cs vs)).
  f_equal.
  - rewrite ReadULe_val; [|by repeat apply bytes_ok_app|lia|lia|zl].
    assert (subspan (pre ++ e ++ streamed cs vs) (zlen pre) (len c) = e) as ->.
    { unfold subspan, zdrop, ztake, zlen. rewrite Nat2Z.id, drop_app_length, <- Le. unfold zlen. by rewrite Nat2Z.id, take_app_length. }
    unfold e. rewrite le_value_bytes. rewrite Z2Nat.id by lia. apply Z.mod_small. exact Hv.
  - rewrite app_assoc, <- Le, <- zlen_app. apply IH; [done|by apply bytes_ok_app].
Qed.

(** ** Lemmas: memory *)
Lemma obey_write_ext m1 m2 f : (forall a, m1 a = m2 a) -> forall a, obey_write m1 f a = obey_write m2 f a.
Proof. intros E a. unfold obey_write. destruct (_ && _); [by apply store_ext|done]. Qed.
Lemma obey_all_ext frames m1 m2 :
  (forall a, m1 a = m2 a) -> forall a, fold_left obey_write frames m1 a = fold_left obey_write frames m2 a.
Proof. revert m1 m2. induction frames as [|f l IH]; intros m1 m2 E; [done|]. apply IH. by apply obey_write_ext. Qed.
(** The write frame for some bytes at an address. *)
Definition write_frame (a : Z) (piece : list Z) : list Z :=
  BuildCommandFrame 0x87 (write_payload a (zlen piece) piece) kTrailerStd.
Lemma write_frame_eq a piece :
  u16_ok a -> 0 <= zlen piece <= kMaxWriteChunk ->
  exists rest, write_frame a piece = [0x87; 0; 3; a / 256; a mod 256; zlen piece] ++ piece ++ rest.
Proof.
  intros Ha Hp. unfold kMaxWriteChunk in Hp. unfold write_frame. rewrite BuildCommandFrame_eq.
  assert (body_of 0x87 (write_payload a (zlen piece) piece)
    = [0x87; 0; 3; a / 256; a mod 256; zlen piece] ++ piece ++ zrepeat (43 - zlen piece) 0) as ->.
  { unfold body_of, write_payload, AppendU16Be. rewrite byte_lane8, byte_lane0. rewrite (u8_small (zlen piece)) by (unfold byte_ok; lia).
    rewrite (Z.mod_small (a / 256)) by (unfold u16_ok in *; split; [apply Z.div_pos; lia|apply Z.div_lt_upper_bound; lia]).
    cbn [app]. rewrite !zlen_cons. replace (48 - _) with (43 - zlen piece) by lia.
    unfold ztake. rewrite take_ge by (unfold zlen in *; cbn [length]; lia). done. }
  eexists. by rewrite <- !app_assoc.
Qed.
Lemma write_frame_obeyed m a piece :
  u16_ok a -> 0 <= zlen piece <= kMaxWriteChunk -> obey_write m (write_frame a piece) = store m a piece.
Proof.
  intros Ha Hp. assert (VerifyFrame (write_frame a piece) = true) as V.
  { apply VerifyFrame_spec. eexists _, kTrailerStd. split_and!; [|apply BuildCommandFrame_eq|by left]. apply zlen_body_of. }
  unfold obey_write. rewrite V. destruct (write_frame_eq a piece Ha Hp) as [rest ->]. unfold kMaxWriteChunk in Hp.
  set (f := _ ++ _). change ((zget f 0 =? 0x87) && (zget f 1 =? 0) && (zget f 2 =? 3)) with true.
  change (zget f 0) with 0x87. change (zget f 1) with 0. change (zget f 2) with 3. cbn [Z.eqb Pos.eqb andb].
  change (zget f 5) with (zlen piece).
  assert (ReadU16Be f 3 = a) as ->.
  { unfold ReadU16Be. rewrite FitsAt_true; [|lia|lia|unfold f; zl; pose proof (zlen_nonneg rest); lia]. cbn [negb].
    change (zget f 3) with (a / 256). change (zget f (3 + 1)) with (a mod 256).
    rewrite be_combine2 by apply (u8_range a). rewrite u16_small; unfold u16_ok in *; pose proof (Z.div_mod a 256); lia. }
  f_equal. unfold f, subspan, zdrop, ztake. change (Z.to_nat 6) with 6%nat. cbn [app drop].
  unfold zlen. by rewrite drop_0, Nat2Z.id, take_app_length.
Qed.
(** A frame that writes inside [lo, hi). *)
Definition writes_inside (lo hi : Z) (f : list Z) : Prop :=
  exists a piece, f = write_frame a piece /\ lo <= a /\ a + zlen piece <= hi /\ 0 < zlen piece <= kMaxWriteChunk.
Lemma writes_inside_verified lo hi f : writes_inside lo hi f -> VerifyFrame f = true.
Proof.
  intros (a & piece & -> & _). apply VerifyFrame_spec. eexists _, kTrailerStd.
  split_and!; [|apply BuildCommandFrame_eq|by left]. apply zlen_body_of.
Qed.
Lemma write_frames_spec fuel addr bytes off :
  0 <= addr -> addr + zlen bytes <= 0x10000 -> 0 <= off -> zlen bytes - off <= Z.of_nat fuel ->
  Forall (writes_inside (addr + off) (addr + zlen bytes)) (write_frames fuel addr bytes off)
  /\ (forall m a, fold_left obey_write (write_frames fuel addr bytes off) m a = store m (addr + off) (zdrop off bytes) a).
Proof.
  intros Ha Hend. revert off. induction fuel as [|fuel IH]; intros off Ho Hf.
  { split; [constructor|]. intros m a. unfold zdrop. rewrite drop_ge by (unfold zlen in *; lia). by rewrite store_nil. }
  cbn [write_frames]. destruct (Z.ltb_spec off (zlen bytes)) as [Hlt|Hge].
  2:{ split; [constructor|]. intros m a. unfold zdrop. rewrite drop_ge by (unfold zlen in *; lia). by rewrite store_nil. }
  set (chunk := Z.min kMaxWriteChunk (zlen bytes - off)). assert (0 < chunk <= 43) as Hc by (unfold chunk, kMaxWriteChunk; lia).
  assert (zlen (subspan bytes off chunk) = chunk) as Lp by (rewrite zlen_subspan; lia).
  rewrite (u16_small (addr + off)) by (unfold u16_ok; lia).
  assert (BuildCommandFrame 0x87 (write_payload (addr + off) chunk (subspan bytes off chunk)) kTrailerStd
    = write_frame (addr + off) (subspan bytes off chunk)) as -> by (unfold write_frame; by rewrite Lp).
  destruct (IH (off + chunk)) as [IHw IHm]; [lia|lia|]. split.
  - constructor.
    + exists (addr + off), (subspan bytes off chunk). unfold kMaxWriteChunk. split_and!; [done|lia|lia|lia|lia].
    + eapply Forall_impl; [exact IHw|]. intros f (a & piece & -> & H1 & H2 & H3). exists a, piece. split_and!; [done|lia|lia|lia|lia].
  - intros m a. cbn [fold_left]. rewrite IHm. rewrite write_frame_obeyed by (unfold u16_ok, kMaxWriteChunk; lia).
    replace (addr + (off + chunk)) with (addr + off + zlen (subspan bytes off chunk)) by lia.
    rewrite store_app. f_equal. unfold subspan, ztake, zdrop. rewrite Z2Nat.inj_add by lia.
    by rewrite <- drop_drop, take_drop.
Qed.

(** Writing memory by frames: for every range inside the 16-bit address space the
    frames [BuildWriteFrames] returns all verify, each carries at most 43 bytes
    inside the range, and a unit that obeys them one after the other ends with
    exactly the given bytes at the given address and nothing else changed; a
    non-empty range beyond the address space gives no frames. *)
Theorem write_frames_store m addr bytes :
  u16_ok addr -> zlen bytes < 2 ^ 31 ->
  (addr + zlen bytes <= 0x10000 ->
     Forall (fun f => VerifyFrame f = true /\ writes_inside addr (addr + zlen bytes) f) (BuildWriteFrames addr bytes)
     /\ forall a, fold_left obey_write (BuildWriteFrames addr bytes) m a = store m addr bytes a)
  /\ (0x10000 < addr + zlen bytes -> BuildWriteFrames addr bytes = []).
Proof.
  intros Hu Hb. pose proof (zlen_nonneg bytes) as Hn. unfold BuildWriteFrames. unfold u16_ok in Hu.
  rewrite (u32_small (zlen bytes)), u32_small by (unfold u32_ok; lia). split.
  - intros Hin. rewrite (proj2 (Z.ltb_ge _ _)) by lia.
    destruct (write_frames_spec (length bytes) addr bytes 0) as [Hw Hm]; [lia|lia|lia|unfold zlen; lia|].
    rewrite Z.add_0_r in *. split; [|intros a; by rewrite Hm].
    eapply Forall_impl; [exact Hw|]. intros f Hf. split; [by eapply writes_inside_verified|done].
  - intros Hout. by rewrite (proj2 (Z.ltb_lt _ _)) by lia.
Qed.
Lemma write_frames_store_witness :
  fold_left obey_write (BuildWriteFrames 0x5000 (zrepeat 100 7)) (fun _ => 0) 0x5063 = store (fun _ => 0) 0x5000 (zrepeat 100 7) 0x5063.
Proof.
  destruct (write_frames_store (fun _ => 0) 0x5000 (zrepeat 100 7)) as [H _]; [unfold u16_ok; lia|vm_compute; reflexivity|].
  apply H. vm_compute. discriminate.
Defined.

(** The free-form handshake agrees on the channels and the values: the list frame
    has the documented length, ends in its sum and trailer, and names exactly the
    channels given, for every list of up to 255 channels of one, two or four bytes;
    when the unit streams any values of those channels' widths, the received frame
    parses and decodes to exactly those values. *)
Theorem free_form_roundtrip list_cmd channels log values :
  byte_ok list_cmd -> Forall channel_ok channels -> zlen channels <= 255 -> Forall2 value_fits channels values ->
  let frame := BuildIdListFrame list_cmd channels in
  let s := ParseStreamFrame (stream_frame log (streamed (listed_channels frame) values)) in
  zlen frame = ReqLen (zlen channels) /\ ok (ParseStreamFrame frame) = true /\ listed_channels frame = channels
  /\ ok s = true /\ log_id s = log /\ DecodeStreamValues channels (data s) = values.
Proof.
  intros Hcmd Hc Hn Hv frame s. pose proof (zlen_nonneg channels) as Hn0. destruct (ReqLen_room _ Hn0) as [Hr Hq].
  assert (listed_channels frame = channels) as Hl by (by apply listed_channels_built).
  assert (s = {| log_id := log; data := streamed channels values; ok := true |}) as ->
    by (subst s; rewrite Hl; by apply ParseStreamFrame_spec).
  pose proof (BuildIdListFrame_eq list_cmd channels) as E. cbv zeta in E. fold frame in E.
  pose proof (zlen_list_body list_cmd channels) as L. split_and!; [rewrite E; zl|apply list_frame_parses|done|done|done|].
  cbn [data]. unfold DecodeStreamValues. rewrite zlen_streamed, Z.eqb_refl by done. cbn [negb].
  apply (decode_values_streamed channels values []); [done|done|constructor].
Qed.
Lemma free_form_roundtrip_witness :
  let channels := [{| id := 0x4000; len := 1 |}; {| id := 0x8010; len := 4 |}; {| id := 7; len := 2 |}] in
  listed_channels (BuildIdListFrame 0xA1 channels) = channels
  /\ DecodeStreamValues channels (streamed channels [1; 0x12345678; 0xABCD]) = [1; 0x12345678; 0xABCD].
Proof.
  intros channels.
  destruct (free_form_roundtrip 0xA1 channels 5 [1; 0x12345678; 0xABCD]) as (_ & _ & Hl & _ & _ & Hd).
  - unfold byte_ok. lia.
  - repeat constructor; unfold u16_ok; cbn; lia.
  - vm_compute. discriminate.
  - repeat constructor; unfold value_fits; cbn; lia.
  - split; [exact Hl|]. rewrite Hl in Hd. vm_compute. reflexivity.
Defined.
