(* ===== verification/MutDmaDriver.v ===== *)
(** * MutDmaDriver: [src/backend/protocol/mut_dma_driver.cpp], [mut_memory.cpp]

    The MUT-DMA driver over a K-Line transport, and the memory access built on it.
    The driver's fields [channels_] and [streaming_] are threaded explicitly. *)
From S2P Require Import Prelude Bytes Ports MutDma.

(** ** [ikline_transport.h], [imut_dma_init.h] *)
Section driver.
Context `{Env}.
Definition Kline_SetBaud (baud : Z) : M Status := Call (KlineSetBaud baud).
Definition Kline_Write (data : list Z) : M (result Error Z) := Call (KlineWrite data).
Definition Kline_Read (timeout : Z) : M (result Error (option (list Z))) := Call (KlineRead timeout).
Definition AlreadyInMode_Wake (baud_ : Z) : M Status := Kline_SetBaud baud_.

(** ** [mut_dma_driver.cpp] *)
Record MutDmaDriver := { channels_ : list Channel; streaming_ : bool }.
Definition AckOk (f : list Z) (c_a c_b : Z) : bool := VerifyFrame f && ((zget f 0 =? c_a) || (zget f 0 =? c_b)).
Definition WriteFrame (frame : list Z) : M Status :=
  do! n <- Kline_Write frame;
  ret (if negb (n =? zlen frame) then Fail kInternal "partial K-Line write" else Ok tt).
Definition acknowledged (resp : option (list Z)) (c_a c_b : Z) : bool :=
  match resp with Some f => AckOk f c_a c_b | None => false end.
(** The handshake; [streaming_] is set on its success only. *)
Definition handshake (Wake : M Status) (channels : list Channel) (setup_cmd list_cmd : Z) : M Status :=
  do! _ <- Wake;
  do! _ <- WriteFrame (BuildSetupFrame setup_cmd (u8 (zlen channels)));
  do! resp1 <- Kline_Read 50;
  do! _ <- (if negb (acknowledged resp1 0xA5 0xB5)
            then ret (Fail kBadResponse "MUT/DMA setup acknowledgement invalid")
            else WriteFrame (BuildIdListFrame list_cmd channels));
  do! resp2 <- Kline_Read 50;
  ret (if negb (acknowledged resp2 0x05 0x15)
       then Fail kBadResponse "MUT/DMA channel-list acknowledgement invalid" else Ok tt).
Definition StartFreeFormLog (Wake : M Status) (channels : list Channel) (setup_cmd list_cmd : Z)
    : M (Status * MutDmaDriver) :=
  do r <- handshake Wake channels setup_cmd list_cmd;
  ret (r, {| channels_ := channels; streaming_ := is_ok r |}).
Fixpoint write_and_echo (frames : list (list Z)) : M Status :=
  match frames with
  | [] => ret (Ok tt)
  | f :: frames =>
      do! _ <- WriteFrame f;
      do! echo <- Kline_Read 50;
      if negb (match echo with Some e => VerifyFrame e | None => false end)
      then ret (Fail kBadResponse "MUT/DMA memory-write echo invalid")
      else write_and_echo frames
  end.
Definition Driver_WriteMemory (Wake : M Status) (addr : Z) (data : list Z) : M Status :=
  do! _ <- Wake;
  let frames := BuildWriteFrames addr data in
  match frames, data with
  | [], _ :: _ => ret (Fail kInvalidConfig "MUT/DMA memory write range is invalid")
  | _, _ => write_and_echo frames
  end.
Definition PollOnce (driver : MutDmaDriver) (timeout : Z) : M (result Error (list Z)) :=
  if negb (streaming_ driver) then ret (Ok [])
  else
    do! frame <- Kline_Read timeout;
    ret match frame with
        | None => Ok []
        | Some frame =>
            let s := ParseStreamFrame frame in
            if negb (ok s) then Fail kBadResponse "MUT/DMA stream framing or checksum invalid"
            else if negb (zlen (data s) =? ResponseDataLength (channels_ driver))
            then Fail kBadResponse "MUT/DMA stream payload length does not match selected widths"
            else Ok (DecodeStreamValues (channels_ driver) (data s))
        end.

(** ** [mut_memory.cpp] *)
Definition kWritableLow : Z := 0x4000.
Definition kWritableEnd : Z := 0xC000.
Definition kAddressSpaceEnd : Z := 0x10000.
Definition kMutBaud : Z := 125000.
Definition kReadChunk : Z := 40.
Definition kSetupCmd : Z := 0xA0.
Definition kListCmd : Z := 0xA1.
Definition kPollTimeout : Z := 50.
Definition WriteMemory (addr : Z) (data : list Z) : M Status :=
  if (addr <? kWritableLow) || (kWritableEnd <=? addr) || (kWritableEnd - addr <? zlen data)
  then ret (Fail kInvalidConfig "MUT/DMA: refusing write outside 0x4000-0xBFFF")
  else Driver_WriteMemory (AlreadyInMode_Wake kMutBaud) addr data.
(** The loop of [ReadMemory]; each pass reads at least a byte, so [len] passes are
    enough fuel. *)
Fixpoint read_chunks (fuel : nat) (addr len off : Z) (out : list Z) : M (result Error (list Z)) :=
  match fuel with
  | O => ret (Ok out)
  | S fuel =>
      if off <? len then
        let chunk := Z.min kReadChunk (len - off) in
        let channels := PlanReadChannels (u16 (addr + off)) chunk in
        do (started, driver) <- StartFreeFormLog (AlreadyInMode_Wake kMutBaud) channels kSetupCmd kListCmd;
        do! _ <- ret started;
        do! values <- PollOnce driver kPollTimeout;
        match values with
        | [] => ret (Fail kTimeout "MUT/DMA: no frame for memory read chunk")
        | _ =>
            let piece := ReassembleRead values in
            if negb (zlen piece =? chunk)
            then ret (Fail kBadResponse "MUT/DMA: memory read chunk has unexpected length")
            else read_chunks fuel addr len (off + kReadChunk) (out ++ piece)
        end
      else ret (Ok out)
  end.
Definition ReadMemory (addr len : Z) : M (result Error (list Z)) :=
  if kAddressSpaceEnd - addr <? len
  then ret (Fail kInvalidConfig "MUT/DMA: refusing read beyond 16-bit address space")
  else read_chunks (Z.to_nat len) addr len 0 [].
End driver.

(** ** What a stretch of the trace says on the K-Line *)
Inductive io : Type := W (frame : list Z) | R (answer : result Error (option (list Z))).
Definition io_of (ev : event) : list io :=
  match ev with
  | EvPort c r =>
      match c as c return port_answer c -> list io with
      | KlineWrite f => fun _ => [W f]
      | KlineRead _ => fun r => [R r]
      | _ => fun _ => []
      end r
  | _ => []
  end.
Abbreviation kline_io := (observed io_of).
Fixpoint sent (l : list io) : list (list Z) :=
  match l with W f :: l => f :: sent l | R _ :: l => sent l | [] => [] end.
Fixpoint received (l : list io) : list (list Z) :=
  match l with R (Ok (Some f)) :: l => f :: received l | _ :: l => received l | [] => [] end.
Lemma sent_app l1 l2 : sent (l1 ++ l2) = sent l1 ++ sent l2.
Proof. induction l1 as [|[] l1 IH]; cbn; congruence. Qed.
Lemma received_app l1 l2 : received (l1 ++ l2) = received l1 ++ received l2.
Proof. induction l1 as [|[|[[]|]] l1 IH]; cbn; congruence. Qed.

(** [talks m P]: from any history, [m] says [l] on the K-Line and returns [a] with [P a l]. *)
Abbreviation talks := (observes io_of).
Section talking.
Context `{Env}.
Lemma talks_SetBaud baud : talks (Kline_SetBaud baud) (fun _ l => l = []).
Proof. by apply runs_Call. Qed.
Lemma talks_Read timeout : talks (Kline_Read timeout) (fun r l => l = [R r]).
Proof. by apply runs_Call. Qed.
Lemma talks_WriteFrame f : talks (WriteFrame f) (fun _ l => l = [W f]).
Proof.
  apply (observes_try _ _ (fun _ l => l = [W f])); [by apply runs_Call| |done]. intros n l ->. by apply observes_ret.
Qed.

(** ** Writing: every frame is echoed before the next goes out *)
Inductive echoed : list (list Z) -> list io -> Status -> Prop :=
| echoed_all : echoed [] [] (Ok tt)
| echoed_unsent f frames e : echoed (f :: frames) [W f] (Err e)
| echoed_wrong f frames r e : echoed (f :: frames) [W f; R r] (Err e)
| echoed_next f frames echo l r :
    VerifyFrame echo = true -> echoed frames l r -> echoed (f :: frames) (W f :: R (Ok (Some echo)) :: l) r.
Lemma write_and_echo_spec frames : talks (write_and_echo frames) (fun r l => echoed frames l r).
Proof.
  induction frames as [|f frames IH]; [apply observes_ret; constructor|]. cbn [write_and_echo].
  apply (observes_try _ _ _ _ (talks_WriteFrame f)); [|intros e l ->; constructor]. intros _ l1 ->.
  apply (observes_try _ _ _ _ (talks_Read 50)); [|intros e l ->; constructor]. intros [echo|] l2 ->.
  2:{ apply observes_ret. constructor. }
  destruct (VerifyFrame echo) eqn:V; cbn [negb].
  - refine (observes_weaken _ _ _ IH _). intros r l Hl. by apply echoed_next.
  - apply observes_ret. constructor.
Qed.
Lemma echoed_sent frames l r : echoed frames l r -> sent l `prefix_of` frames /\ (r = Ok tt -> sent l = frames).
Proof.
  induction 1 as [|f frames e|f frames r e|f frames echo l r V _ [IHp IHo]]; cbn [sent].
  - done.
  - split; [by exists frames|done].
  - split; [by exists frames|done].
  - split; [by apply prefix_cons|]. intros E. by rewrite IHo.
Qed.
(** Refused without a call: outside the writable window. *)
Definition writable (addr : Z) (data : list Z) : Prop :=
  kWritableLow <= addr < kWritableEnd /\ addr + zlen data <= kWritableEnd.
Lemma WriteMemory_refuses addr data t :
  ~ writable addr data -> WriteMemory addr data t = (Fail kInvalidConfig "MUT/DMA: refusing write outside 0x4000-0xBFFF", t).
Proof.
  intros Hw. unfold WriteMemory. enough ((addr <? kWritableLow) || (kWritableEnd <=? addr) || (kWritableEnd - addr <? zlen data) = true) as -> by done.
  unfold writable in Hw. destruct (Z.ltb_spec addr kWritableLow), (Z.leb_spec kWritableEnd addr), (Z.ltb_spec (kWritableEnd - addr) (zlen data)); try done. lia.
Qed.
Lemma WriteMemory_talks addr data :
  writable addr data ->
  talks (WriteMemory addr data) (fun r l => (l = [] /\ exists e, r = Err e) \/ echoed (BuildWriteFrames addr data) l r).
Proof.
  intros [H1 H2]. unfold WriteMemory. rewrite (proj2 (Z.ltb_ge _ _)), (proj2 (Z.leb_gt _ _)), (proj2 (Z.ltb_ge _ _)) by lia.
  cbn [orb]. apply (observes_try _ _ _ _ (talks_SetBaud kMutBaud)); [|intros e l ->; left; eauto]. intros _ l ->. cbv zeta.
  pose proof (write_and_echo_spec (BuildWriteFrames addr data)) as Hw.
  destruct (BuildWriteFrames addr data) as [|f frames]; [destruct data as [|b data]|].
  - refine (observes_weaken _ _ _ Hw _). by right.
  - apply observes_ret. left. split; [done|by eexists].
  - refine (observes_weaken _ _ _ Hw _). by right.
Qed.
End talking.

(** ** Reading: what is asked for and where the bytes come from *)
Lemma ResponseDataLength_plan a n : 0 <= n -> ResponseDataLength (PlanReadChannels a n) = n.
Proof.
  intros Hn. rewrite ResponseDataLength_zsum. unfold PlanReadChannels. rewrite map_map. cbn [len].
  enough (forall (l : list Z), zsum (map (fun _ => 1) l) = zlen l) as -> by (rewrite zlen_seqZ; lia).
  induction l as [|x l IH]; [done|]. rewrite zlen_cons, <- IH. done.
Qed.
Lemma decode_values_bytes channels d off :
  Forall (fun c => len c = 1) channels -> 0 <= off -> off + zlen channels <= zlen d ->
  decode_values channels d off = subspan d off (zlen channels).
Proof.
  intros Hc. revert off. induction Hc as [|c l Hl _ IH]; intros off Ho Hd; [done|]. rewrite zlen_cons in *.
  pose proof (zlen_nonneg l). cbn [decode_values]. rewrite Hl. rewrite subspan_cons by lia. f_equal.
  - unfold ReadULe. cbn [Z.eqb Pos.eqb]. by rewrite (proj2 (Z.ltb_lt _ _)) by lia.
  - replace (1 + zlen l - 1) with (zlen l) by lia. apply IH; lia.
Qed.
Lemma decode_plan a n d : 0 <= n -> zlen d = n -> DecodeStreamValues (PlanReadChannels a n) d = d.
Proof.
  intros Hn Hd. unfold DecodeStreamValues. rewrite ResponseDataLength_plan, Hd, Z.eqb_refl by lia. cbn [negb].
  assert (zlen (PlanReadChannels a n) = n) as L by (unfold PlanReadChannels; rewrite zlen_map, zlen_seqZ; lia).
  rewrite decode_values_bytes, L; [by apply subspan_full|by apply List.Forall_map, list.Forall_true|lia|lia].
Qed.
Lemma ReassembleRead_u8 l : ReassembleRead l = map u8 l.
Proof. unfold ReassembleRead. apply map_ext. intros v. by rewrite byte_lane0. Qed.
(** The two requests of one chunk of a read. *)
Definition read_request (lo hi : Z) (f : list Z) : Prop :=
  exists a n, lo <= a /\ 0 < n <= kReadChunk /\ a + n <= hi
    /\ (f = BuildSetupFrame kSetupCmd n \/ f = BuildIdListFrame kListCmd (PlanReadChannels a n)).
Definition streamed_bytes (frames : list (list Z)) : list Z :=
  map u8 (List.concat (map (fun f => data (ParseStreamFrame f)) frames)).
(** A known list of frames, each of an allowed form. *)
Ltac all_sent := cbn [sent app]; repeat (apply List.Forall_cons; [by auto|]); apply List.Forall_nil.
Section reading.
Context `{Env}.
Lemma handshake_talks Wake channels setup_cmd list_cmd :
  talks Wake (fun _ l => l = []) ->
  talks (handshake Wake channels setup_cmd list_cmd) (fun r l =>
    Forall (fun f => f = BuildSetupFrame setup_cmd (u8 (zlen channels)) \/ f = BuildIdListFrame list_cmd channels) (sent l)).
Proof.
  intros Hwake. unfold handshake.
  apply (observes_try _ _ _ _ Hwake); [|by intros e l ->]. intros _ l ->.
  apply (observes_try _ _ _ _ (talks_WriteFrame _)); [|intros e l ->; all_sent]. intros _ l ->.
  apply (observes_try _ _ _ _ (talks_Read 50)); [|intros e l ->; all_sent]. intros resp l ->.
  apply (observes_try _ _ (fun _ l => l = [] \/ l = [W (BuildIdListFrame list_cmd channels)])).
  - destruct (negb _); [apply observes_ret; by left|]. refine (observes_weaken _ _ _ (talks_WriteFrame _) _). by right.
  - intros _ l Hl. apply (observes_try _ _ _ _ (talks_Read 50)).
    + intros resp2 l2 ->. apply observes_ret. destruct Hl as [-> | ->]; all_sent.
    + intros e l2 ->. destruct Hl as [-> | ->]; all_sent.
  - intros e l [-> | ->]; all_sent.
Qed.
Lemma PollOnce_talks channels timeout :
  talks (PollOnce {| channels_ := channels; streaming_ := true |} timeout) (fun r l =>
    exists answer, l = [R answer] /\ forall values, r = Ok values -> values <> [] ->
      exists frame, answer = Ok (Some frame) /\ ok (ParseStreamFrame frame) = true
        /\ zlen (data (ParseStreamFrame frame)) = ResponseDataLength channels
        /\ values = DecodeStreamValues channels (data (ParseStreamFrame frame))).
Proof.
  unfold PollOnce. cbn [streaming_ negb channels_]. apply (observes_try _ _ _ _ (talks_Read timeout)).
  - intros resp l ->. apply observes_ret. exists (Ok resp). split; [done|]. intros values E Hne.
    destruct resp as [frame|]; [|by injection E as <-]. cbv zeta in E. exists frame.
    destruct (ok (ParseStreamFrame frame)) eqn:Hok; cbn [negb] in E; [|done].
    destruct (Z.eqb_spec (zlen (data (ParseStreamFrame frame))) (ResponseDataLength channels)); cbn [negb] in E; [|done].
    by injection E as <-.
  - intros e l ->. exists (Err e). done.
Qed.
Lemma read_chunks_talks fuel addr len off out :
  0 <= addr -> addr + len <= kAddressSpaceEnd -> 0 <= off -> off <= len + kReadChunk -> len - off <= Z.of_nat fuel ->
  talks (read_chunks fuel addr len off out) (fun r l =>
    Forall (read_request addr (addr + len)) (sent l)
    /\ forall bytes, r = Ok bytes -> zlen bytes = zlen out + Z.max 0 (len - off) /\
         exists frames, bytes = out ++ streamed_bytes frames /\ frames `sublist_of` received l
           /\ Forall (fun f => ok (ParseStreamFrame f) = true) frames).
Proof.
  intros Ha Hend. revert off out. induction fuel as [|fuel IH]; intros off out Ho Ho2 Hf.
  { apply observes_ret. split; [constructor|]. intros bytes [= <-]. split; [lia|]. exists []. by rewrite app_nil_r. }
  cbn [read_chunks]. destruct (Z.ltb_spec off len) as [Hlt|].
  2:{ apply observes_ret. split; [constructor|]. intros bytes [= <-]. split; [lia|]. exists []. by rewrite app_nil_r. }
  cbv zeta. rewrite (u16_small (addr + off)) by (unfold u16_ok, kAddressSpaceEnd in *; lia).
  set (chunk := Z.min kReadChunk (len - off)). set (channels := PlanReadChannels _ chunk).
  assert (0 < chunk <= kReadChunk) as Hc by (unfold chunk, kReadChunk in *; lia).
  assert (zlen channels = chunk) as Lc by (subst channels; unfold PlanReadChannels; rewrite zlen_map, zlen_seqZ; lia).
  apply (observes_bind _ _ (fun p l => (exists r, p = (r, {| channels_ := channels; streaming_ := is_ok r |}))
    /\ Forall (read_request addr (addr + len)) (sent l))).
  { apply (observes_bind _ _ _ _ (handshake_talks (AlreadyInMode_Wake kMutBaud) channels kSetupCmd kListCmd (talks_SetBaud _))).
    intros r l Hl. apply observes_ret. split; [by exists r|]. rewrite app_nil_r. rewrite Lc in Hl.
    rewrite u8_small in Hl by (unfold byte_ok, kReadChunk in *; lia).
    eapply Forall_impl; [exact Hl|]. intros f Hf1. exists (addr + off), chunk. split_and!; try lia. exact Hf1. }
  intros [started driver] l1 [[r [= -> ->]] Hl1].
  apply (observes_try _ _ (fun r' l => r' = r /\ l = [])); [by apply observes_ret| |].
  2:{ intros e l [_ ->]. rewrite app_nil_r. by split. }
  intros [] l [<- ->]. cbn [is_ok]. apply (observes_try _ _ _ _ (PollOnce_talks channels kPollTimeout)).
  2:{ intros e l (answer & -> & _). rewrite sent_app. split; [|done]. apply Forall_app_2; [done|constructor]. }
  intros values l2 (answer & -> & Hv).
  destruct values as [|v vs]; [apply observes_ret; split; [|done]; rewrite !sent_app; apply Forall_app_2; [done|constructor]|].
  set (values := v :: vs) in *. destruct (Hv values eq_refl ltac:(done)) as (frame & -> & Hok & Hlen & E).
  unfold channels in Hlen, E. rewrite ResponseDataLength_plan in Hlen by lia.
  rewrite decode_plan in E by lia. rewrite ReassembleRead_u8, E, zlen_map, Hlen, Z.eqb_refl. cbn [negb].
  refine (observes_weaken _ _ _ (IH (off + kReadChunk) _ _ _ _) _); [unfold kReadChunk; lia|lia|unfold kReadChunk in *; lia|].
  intros r2 l3 [Hs Hr]. rewrite !sent_app, !received_app. cbn [sent received app]. split; [by apply Forall_app_2|].
  intros bytes Hb. destruct (Hr bytes Hb) as (Hz & frames & -> & Hsub & Hoks). split.
  { rewrite Hz, zlen_app, zlen_map, Hlen. unfold chunk. unfold kReadChunk in *. lia. }
  exists (frame :: frames). split_and!.
  - unfold streamed_bytes. cbn [map List.concat]. by rewrite map_app, app_assoc.
  - apply sublist_inserts_l. by apply sublist_skip.
  - by constructor.
Qed.
End reading.

(** ** A unit in MUT-DMA mode

    It obeys memory writes and echoes them, acknowledges a setup frame and a channel
    list, and after a list streams the named memory until the next request. *)
Record MutUnit := { mem : memory; queue : list (list Z); stream : option (list Channel) }.
Definition ack (code : Z) : list Z := BuildCommandFrame code [] kTrailerStd.
Definition unit_receive (u : MutUnit) (f : list Z) : MutUnit :=
  if VerifyFrame f && (zget f 0 =? 0x87) then
    {| mem := obey_write (mem u) f; queue := queue u ++ [f]; stream := None |}
  else if VerifyFrame f && (zget f 0 =? kSetupCmd) then
    {| mem := mem u; queue := queue u ++ [ack 0xA5]; stream := None |}
  else if ok (ParseStreamFrame f) && (zget f 0 =? kListCmd) then
    {| mem := mem u; queue := queue u ++ [ack 0x05]; stream := Some (listed_channels f) |}
  else u.
Definition channel_value (m : memory) (c : Channel) : Z := le_value (map m (seqZ (id c) (len c))).
Definition unit_send (u : MutUnit) : option (list Z) * MutUnit :=
  match queue u with
  | f :: q => (Some f, {| mem := mem u; queue := q; stream := stream u |})
  | [] => (option_map (fun cs => stream_frame 0 (streamed cs (map (channel_value (mem u)) cs))) (stream u), u)
  end.
Definition unit_step (u : MutUnit) (x : io) : MutUnit :=
  match x with W f => unit_receive u f | R _ => snd (unit_send u) end.
Definition idle (m : memory) : MutUnit := {| mem := m; queue := []; stream := None |}.
Definition unit_at (m0 : memory) (t : trace) : MutUnit := fold_left unit_step (kline_io t) (idle m0).
Definition mut_unit (m0 : memory) : Env := {|
  env_cancelled := fun _ => false;
  env_sleep := fun _ _ => Ok tt;
  env_reset := fun _ => Ok tt;
  env_configure := fun _ _ => Ok tt;
  env_open := fun _ => Ok tt;
  env_close := fun _ => Ok tt;
  env_write := fun _ _ => Ok tt;
  env_read := fun _ _ => Ok None;
  env_port := fun t c =>
    match c with
    | KlineSetBaud _ => Ok tt
    | KlineWrite f => Ok (zlen f)
    | KlineRead _ => Ok (fst (unit_send (unit_at m0 t)))
    | c => absent_port c
    end
|}.
Section against_unit.
Context (m0 : memory).
#[local] Instance the_unit : Env := mut_unit m0.
(** [drives m u P]: with the unit in state [u], [m] returns [a] and leaves it in [u'], with [P a u']. *)
Definition drives {A} (m : M A) (u : MutUnit) (P : A -> MutUnit -> Prop) : Prop :=
  forall t, unit_at m0 t = u -> P (fst (m t)) (unit_at m0 (snd (m t))).
Lemma drives_ret {A} (a : A) u (P : A -> MutUnit -> Prop) : P a u -> drives (ret a) u P.
Proof. by intros HP t <-. Qed.
Lemma drives_bind {A B} (m : M A) (k : A -> M B) u P (Q : B -> MutUnit -> Prop) :
  drives m u P -> (forall a u', P a u' -> drives (k a) u' Q) -> drives (bind m k) u Q.
Proof. intros Hm Hk t Ht. unfold bind. specialize (Hm t Ht). destruct (m t) as [a t']. by apply (Hk a _ Hm). Qed.
Lemma drives_try {A B} (m : M (result Error A)) (k : A -> M (result Error B)) u (P : A -> MutUnit -> Prop) (Q : result Error B -> MutUnit -> Prop) :
  drives m u (fun r u' => exists a, r = Ok a /\ P a u') -> (forall a u', P a u' -> drives (k a) u' Q) -> drives (try m k) u Q.
Proof. intros Hm Hk. apply (drives_bind _ _ _ _ _ Hm). intros r u' (a & -> & HP). by apply Hk. Qed.
Lemma drives_weaken {A} (m : M A) u (P Q : A -> MutUnit -> Prop) :
  drives m u P -> (forall a u', P a u' -> Q a u') -> drives m u Q.
Proof. intros Hm HPQ t Ht. auto. Qed.
Lemma drives_SetBaud baud u : drives (Kline_SetBaud baud) u (fun r u' => exists a, r = Ok a /\ u' = u).
Proof. intros t <-. exists tt. split; [done|]. unfold unit_at. cbn [snd Kline_SetBaud Call]. by rewrite observed_app, app_nil_r. Qed.
Lemma drives_WriteFrame f u : drives (WriteFrame f) u (fun r u' => exists a, r = Ok a /\ u' = unit_receive u f).
Proof.
  intros t <-. unfold WriteFrame, try, bind, Kline_Write, Call, ret. cbn [env_port the_unit mut_unit fst snd]. rewrite Z.eqb_refl. exists tt. split; [done|].
  unfold unit_at. by rewrite observed_app, fold_left_app.
Qed.
Lemma drives_Read timeout u :
  drives (Kline_Read timeout) u (fun r u' => exists a, r = Ok a /\ (a = fst (unit_send u) /\ u' = snd (unit_send u))).
Proof.
  intros t <-. eexists. split; [reflexivity|]. split; [done|]. unfold unit_at, Kline_Read, Call. cbn [snd]. by rewrite observed_app, fold_left_app.
Qed.
(** The unit after obeying some write frames, each echoed. *)
Lemma drives_write_and_echo frames u :
  Forall (writes_inside kWritableLow kWritableEnd) frames -> queue u = [] ->
  drives (write_and_echo frames) u (fun r u' => r = Ok tt /\ queue u' = []
    /\ forall a, mem u' a = fold_left obey_write frames (mem u) a).
Proof.
  intros Hf. revert u. induction Hf as [|f frames Hf _ IH]; intros u Hq; [by apply drives_ret|]. cbn [write_and_echo].
  assert (unit_receive u f = {| mem := obey_write (mem u) f; queue := [f]; stream := None |}) as E.
  { unfold unit_receive. rewrite Hq, (writes_inside_verified _ _ _ Hf). destruct Hf as (a & piece & -> & H1 & H2 & H3).
    destruct (write_frame_eq a piece) as [rest ->]; [unfold u16_ok, kWritableLow, kWritableEnd in *; lia|lia|done]. }
  apply (drives_try _ _ _ _ _ (drives_WriteFrame f u)). intros _ u1 ->. rewrite E.
  apply (drives_try _ _ _ _ _ (drives_Read 50 _)). intros echo u2 [-> ->]. cbn [unit_send queue fst snd].
  rewrite (writes_inside_verified _ _ _ Hf). cbn [negb].
  refine (drives_weaken _ _ _ _ (IH _ _) _); [done|]. by intros r u'.
Qed.
(** One chunk: the handshake leaves the unit streaming the planned channels. *)
Lemma plan_channels_ok a n : 0 <= a -> a + n <= kAddressSpaceEnd -> Forall channel_ok (PlanReadChannels a n).
Proof.
  intros Ha He. unfold PlanReadChannels. apply List.Forall_map, list.Forall_forall. intros i Hi%elem_of_seqZ.
  split; [apply u16_range|by left].
Qed.
Lemma drives_handshake a n u :
  0 <= a -> 0 < n <= kReadChunk -> a + n <= kAddressSpaceEnd -> queue u = [] ->
  drives (handshake (AlreadyInMode_Wake kMutBaud) (PlanReadChannels a n) kSetupCmd kListCmd) u (fun r u' =>
    r = Ok tt /\ u' = {| mem := mem u; queue := []; stream := Some (PlanReadChannels a n) |}).
Proof.
  intros Ha Hn He Hq. unfold handshake. pose proof (plan_channels_ok a n Ha He) as Hok.
  set (channels := PlanReadChannels a n) in *.
  assert (zlen channels = n) as Lc by (subst channels; unfold PlanReadChannels; rewrite zlen_map, zlen_seqZ; lia).
  apply (drives_try _ _ _ _ _ (drives_SetBaud kMutBaud u)). intros _ u0 ->.
  apply (drives_try _ _ _ _ _ (drives_WriteFrame _ u)). intros _ u1 ->.
  set (setup := BuildSetupFrame _ _).
  assert (unit_receive u setup = {| mem := mem u; queue := [ack 0xA5]; stream := None |}) as ->.
  { unfold unit_receive. rewrite Hq.
    assert (VerifyFrame setup = true) as ->
      by (apply VerifyFrame_spec; eexists _, kTrailerFreeform; split_and!; [|apply BuildCommandFrame_eq|by right]; apply zlen_body_of).
    assert (zget setup 0 = kSetupCmd) as -> by (unfold setup, BuildSetupFrame; by rewrite BuildCommandFrame_eq). done. }
  apply (drives_try _ _ _ _ _ (drives_Read 50 _)). intros resp u2 [-> ->]. cbn [unit_send queue fst snd mem stream].
  change (acknowledged (Some (ack 0xA5)) 0xA5 0xB5) with true. cbn [negb].
  apply (drives_try _ _ _ _ _ (drives_WriteFrame _ _)). intros _ u3 ->.
  assert (unit_receive {| mem := mem u; queue := []; stream := None |} (BuildIdListFrame kListCmd channels)
    = {| mem := mem u; queue := [ack 0x05]; stream := Some channels |}) as ->.
  { unfold unit_receive. rewrite list_frame_parses, list_frame_cmd by done. cbn [kListCmd kSetupCmd Z.eqb Pos.eqb andb].
    rewrite !andb_false_r. rewrite listed_channels_built; [done|unfold byte_ok, kListCmd; lia|done|unfold kReadChunk in *; lia]. }
  apply (drives_try _ _ _ _ _ (drives_Read 50 _)). intros resp2 u4 [-> ->]. cbn [unit_send queue fst snd mem stream].
  change (acknowledged (Some (ack 0x05)) 0x05 0x15) with true. by apply drives_ret.
Qed.
Lemma streamed_plan m a n :
  (forall x, byte_ok (m x)) -> 0 <= a -> a + n <= kAddressSpaceEnd ->
  streamed (PlanReadChannels a n) (map (channel_value m) (PlanReadChannels a n)) = map m (seqZ a n).
Proof.
  intros Hm Ha He. unfold PlanReadChannels. rewrite map_map. unfold streamed.
  assert (forall i k, 0 <= i -> a + i + Z.of_nat k <= kAddressSpaceEnd ->
    List.concat (zip_with (fun c v => le_bytes (Z.to_nat (len c)) v) (map (fun i => {| id := u16 (a + i); len := 1 |}) (seqZ i (Z.of_nat k)))
      (map (fun i => channel_value m {| id := u16 (a + i); len := 1 |}) (seqZ i (Z.of_nat k)))) = map m (seqZ (a + i) (Z.of_nat k))) as Hk.
  { intros i k. revert i. induction k as [|k IH]; intros i Hi Hk; [done|]. rewrite !(seqZ_cons _ (Z.of_nat (S k))) by lia.
    replace (Z.pred (Z.of_nat (S k))) with (Z.of_nat k) by lia. cbn [map zip_with List.concat]. cbn [len].
    rewrite IH by lia. replace (a + Z.succ i) with (Z.succ (a + i)) by lia.
    rewrite u16_small by (unfold u16_ok, kAddressSpaceEnd in *; lia).
    unfold channel_value. cbn [id len]. change (Z.to_nat 1) with 1%nat. cbn [le_bytes app].
    change (seqZ (a + i) 1) with [a + i]. cbn [map le_value]. rewrite Z.mul_0_r, Z.add_0_r.
    f_equal. apply Z.mod_small, Hm. }
  destruct (decide (0 <= n)) as [Hn|Hn].
  - rewrite <- (Z2Nat.id n) by lia. rewrite Hk by lia. by rewrite Z.add_0_r.
  - by rewrite !seqZ_nil by lia.
Qed.
Lemma map_u8_bytes (m : memory) l : (forall x, byte_ok (m x)) -> map u8 (map m l) = map m l.
Proof. intros Hm. rewrite map_map. apply map_ext. intros x. apply u8_small, Hm. Qed.
Lemma drives_read_chunks fuel addr len off out u :
  0 <= addr -> addr + len <= kAddressSpaceEnd -> 0 <= off -> len - off <= Z.of_nat fuel ->
  queue u = [] -> (forall x, byte_ok (mem u x)) ->
  drives (read_chunks fuel addr len off out) u (fun r _ => r = Ok (out ++ map (mem u) (seqZ (addr + off) (len - off)))).
Proof.
  intros Ha He. revert off out u. induction fuel as [|fuel IH]; intros off out u Ho Hf Hq Hm.
  { apply drives_ret. rewrite seqZ_nil by lia. by rewrite app_nil_r. }
  cbn [read_chunks]. destruct (Z.ltb_spec off len) as [Hlt|].
  2:{ apply drives_ret. rewrite seqZ_nil by lia. by rewrite app_nil_r. }
  cbv zeta. rewrite (u16_small (addr + off)) by (unfold u16_ok, kAddressSpaceEnd in *; lia).
  set (chunk := Z.min kReadChunk (len - off)).
  assert (0 < chunk <= kReadChunk) as Hc by (unfold chunk, kReadChunk in *; lia).
  apply (drives_bind _ _ _ (fun p u' => p = (Ok tt, {| channels_ := PlanReadChannels (addr + off) chunk; streaming_ := true |})
    /\ u' = {| mem := mem u; queue := []; stream := Some (PlanReadChannels (addr + off) chunk) |})).
  { apply (drives_bind _ _ _ _ _ (drives_handshake (addr + off) chunk u ltac:(lia) Hc ltac:(lia) Hq)).
    intros r u' [-> ->]. by apply drives_ret. }
  intros p u1 [-> ->]. apply (drives_try _ _ _ (fun _ u' => u' = {| mem := mem u; queue := []; stream := Some (PlanReadChannels (addr + off) chunk) |})).
  { apply drives_ret. by exists tt. }
  intros _ u2 ->. set (u2 := {| mem := mem u; queue := []; stream := _ |}).
  apply (drives_try _ _ _ (fun values u' => values = map (mem u) (seqZ (addr + off) chunk) /\ u' = u2)).
  { unfold PollOnce. cbn [streaming_ negb channels_]. apply (drives_try _ _ _ _ _ (drives_Read kPollTimeout u2)).
    intros a u' [-> ->]. apply drives_ret. cbn [unit_send u2 queue fst snd stream option_map mem].
    rewrite streamed_plan by (done || lia). set (bytes := map _ _).
    assert (zlen bytes = chunk) as Lb by (subst bytes; rewrite zlen_map, zlen_seqZ; lia).
    rewrite (proj2 (ParseStreamFrame_spec _ 0 bytes) eq_refl). cbn [ok data negb].
    rewrite ResponseDataLength_plan, Lb, Z.eqb_refl by lia. cbn [negb]. exists bytes. by rewrite decode_plan by lia. }
  intros values u3 [-> ->]. remember (map (mem u) (seqZ (addr + off) chunk)) as bytes eqn:Eb.
  assert (zlen bytes = chunk) as Lb by (subst bytes; rewrite zlen_map, zlen_seqZ; lia).
  assert (forall X Y : M (result Error (list Z)), match bytes with [] => X | _ => Y end = Y) as ->
    by (intros X Y; destruct bytes; [change (zlen []) with 0 in Lb; lia|done]).
  cbv zeta. rewrite ReassembleRead_u8, zlen_map, Lb, Z.eqb_refl. cbn [negb].
  refine (drives_weaken _ _ _ _ (IH (off + kReadChunk) _ u2 _ _ eq_refl Hm) _); [unfold kReadChunk; lia|unfold kReadChunk; lia|].
  intros r _ ->. f_equal. rewrite <- app_assoc. f_equal. subst bytes. rewrite map_u8_bytes by done. rewrite <- map_app. f_equal.
  cbn [mem u2]. destruct (decide (kReadChunk <= len - off)).
  - replace (len - off) with (chunk + (len - (off + kReadChunk))) by (unfold chunk; lia).
    rewrite seqZ_app by lia. f_equal. f_equal. unfold chunk. lia.
  - rewrite (seqZ_nil (addr + (off + kReadChunk))) by lia. rewrite app_nil_r. f_equal. unfold chunk. lia.
Qed.
End against_unit.

(** ** The memory access of the backend *)
Lemma writable_frames addr data :
  writable addr data ->
  Forall (writes_inside kWritableLow kWritableEnd) (BuildWriteFrames addr data)
  /\ forall m a, fold_left obey_write (BuildWriteFrames addr data) m a = store m addr data a.
Proof.
  intros [H1 H2]. unfold kWritableLow, kWritableEnd in *. pose proof (zlen_nonneg data) as Hn. unfold BuildWriteFrames.
  rewrite (u32_small (zlen data)), u32_small, (proj2 (Z.ltb_ge _ _)) by (unfold u32_ok; lia).
  destruct (write_frames_spec (length data) addr data 0) as [Hw Hm]; [lia|lia|lia|unfold zlen; lia|].
  rewrite Z.add_0_r in *. split; [|intros m a; by rewrite Hm]. eapply Forall_impl; [exact Hw|].
  intros f (a & piece & -> & E1 & E2 & E3). exists a, piece. split_and!; [done|lia|lia|lia|lia].
Qed.
(** Only an empty write has no frames. *)
Lemma writable_nonempty addr data : writable addr data -> BuildWriteFrames addr data = [] -> data = [].
Proof.
  intros Hw E. destruct (writable_frames addr data Hw) as [_ Hs]. rewrite E in Hs. destruct data as [|b data]; [done|].
  specialize (Hs (fun _ => b + 1) addr). cbn [fold_left] in Hs. unfold store in Hs. rewrite zlen_cons in Hs.
  pose proof (zlen_nonneg data). rewrite bool_decide_eq_true_2, Z.sub_diag, zget_0 in Hs by lia. lia.
Qed.
Lemma drives_WriteMemory m0 addr data :
  writable addr data ->
  drives m0 (@WriteMemory (mut_unit m0) addr data) (idle m0) (fun r u => r = Ok tt /\ queue u = []
    /\ forall a, mem u a = store m0 addr data a).
Proof.
  intros Hw. destruct (writable_frames addr data Hw) as [Hf Hs]. pose proof (writable_nonempty addr data Hw) as Hne.
  assert (drives m0 (@write_and_echo (mut_unit m0) (BuildWriteFrames addr data)) (idle m0) (fun r u => r = Ok tt /\ queue u = []
    /\ forall a, mem u a = store m0 addr data a)) as Hd.
  { refine (drives_weaken m0 _ _ _ _ (drives_write_and_echo m0 _ (idle m0) Hf eq_refl) _).
    intros r u (-> & Hq & Hu). split_and!; [done|done|]. intros a. by rewrite Hu, Hs. }
  destruct Hw as [H1 H2]. unfold WriteMemory.
  rewrite (proj2 (Z.ltb_ge _ _)), (proj2 (Z.leb_gt _ _)), (proj2 (Z.ltb_ge _ _)) by lia. cbn [orb].
  apply (drives_try m0 _ _ _ _ _ (drives_SetBaud m0 kMutBaud (idle m0))). intros _ u ->. cbv zeta.
  destruct (BuildWriteFrames addr data); [|exact Hd]. rewrite (Hne eq_refl) in *. exact Hd.
Qed.

(** A memory write in every environment: a range not wholly inside 0x4000-0xBFFF is
    refused with kInvalidConfig before any call; otherwise the frames sent are a
    prefix of the frames of the write, every one inside the window and each sent
    only after a valid echo of the one before, and when the write reports success
    all of them were sent and echoed, so that a unit obeying them holds the data. *)
Theorem mut_write_memory `{Env} addr data t :
  exists d, let r := fst (WriteMemory addr data t) in
  snd (WriteMemory addr data t) = t ++ d
  /\ (~ writable addr data ->
        r = Fail kInvalidConfig "MUT/DMA: refusing write outside 0x4000-0xBFFF" /\ d = [])
  /\ (writable addr data ->
        ((kline_io d = [] /\ is_ok r = false) \/ echoed (BuildWriteFrames addr data) (kline_io d) r)
        /\ sent (kline_io d) `prefix_of` BuildWriteFrames addr data
        /\ Forall (writes_inside kWritableLow kWritableEnd) (sent (kline_io d))
        /\ (r = Ok tt -> forall m a, fold_left obey_write (sent (kline_io d)) m a = store m addr data a)).
Proof.
  assert ({writable addr data} + {~ writable addr data}) as [Hw|Hw] by (unfold writable; solve_decision).
  - destruct (WriteMemory_talks addr data Hw t) as (d & E & Hd). exists d. cbv zeta. split_and!; [done|done|]. intros _.
    destruct (writable_frames addr data Hw) as [Hf Hm].
    destruct Hd as [[Hl [e He]]|Hd].
    + rewrite He, Hl. split_and!; [by left|apply prefix_nil|constructor|done].
    + destruct (echoed_sent _ _ _ Hd) as [Hp Ho]. split_and!; [by right|done| |intros Hr; by rewrite Ho].
      destruct Hp as [rest Hp]. rewrite Hp in Hf. by apply Forall_app in Hf as [Hf _].
  - exists []. cbv zeta. rewrite WriteMemory_refuses by done. rewrite app_nil_r. done.
Qed.

(** A memory read in every environment: a range beyond the 16-bit address space is
    refused with kInvalidConfig before any call; the frames sent are only setup
    frames and channel lists for parts of the range, so a read never writes memory;
    and a successful read returns exactly [len] bytes, the payloads of frames that
    were received, in order, and whose framing and checksum were valid. *)
Theorem mut_read_memory `{Env} addr len t :
  u16_ok addr -> 0 <= len ->
  exists d, let r := fst (ReadMemory addr len t) in
  snd (ReadMemory addr len t) = t ++ d
  /\ (kAddressSpaceEnd < addr + len ->
        r = Fail kInvalidConfig "MUT/DMA: refusing read beyond 16-bit address space" /\ d = [])
  /\ Forall (read_request addr (addr + len)) (sent (kline_io d))
  /\ (forall bytes, r = Ok bytes -> zlen bytes = len
        /\ exists frames, bytes = streamed_bytes frames /\ frames `sublist_of` received (kline_io d)
             /\ Forall (fun f => ok (ParseStreamFrame f) = true) frames).
Proof.
  intros Ha Hlen. unfold ReadMemory, u16_ok in *. destruct (Z.ltb_spec (kAddressSpaceEnd - addr) len) as [Ho|Hi].
  - exists []. cbv zeta. rewrite app_nil_r. split_and!; [done|done|constructor|done].
  - destruct (read_chunks_talks (Z.to_nat len) addr len 0 [] ltac:(lia) ltac:(lia) ltac:(lia) ltac:(unfold kReadChunk; lia) ltac:(lia) t)
      as (d & E & Hs & Hr). exists d. cbv zeta. split_and!; [done|lia|done|].
    intros bytes Hb. destruct (Hr bytes Hb) as [Hz Hf]. split; [|exact Hf]. rewrite Hz. change (zlen []) with 0. lia.
Qed.
Lemma mut_read_memory_witness :
  exists d, snd (@ReadMemory (mut_unit (fun a => a mod 256)) 0x4000 50 []) = d
    /\ Forall (read_request 0x4000 (0x4000 + 50)) (sent (kline_io d)).
Proof.
  destruct (@mut_read_memory (mut_unit (fun a => a mod 256)) 0x4000 50 [] ltac:(unfold u16_ok; lia) ltac:(lia)) as (d & E & _ & Hs & _).
  exists d. split; [exact E|exact Hs].
Defined.

(** C38: Write and read back: against a unit in MUT-DMA mode, a write inside the
    writable window succeeds, and a read of the same range afterwards returns the
    bytes written. *)
Theorem mut_write_then_read m0 addr data :
  (forall a, byte_ok (m0 a)) -> writable addr data -> bytes_ok data ->
  let write := @WriteMemory (mut_unit m0) addr data [] in
  fst write = Ok tt /\ fst (@ReadMemory (mut_unit m0) addr (zlen data) (snd write)) = Ok data.
Proof.
  intros Hm Hw Hb write.
  destruct (drives_WriteMemory m0 addr data Hw [] eq_refl) as (Hr & Hq & Hu). fold write in Hr, Hq, Hu. split; [exact Hr|].
  destruct Hw as [H1 H2]. unfold kWritableLow, kWritableEnd in *. unfold ReadMemory. rewrite (proj2 (Z.ltb_ge _ _)) by (unfold kAddressSpaceEnd; lia).
  pose proof (zlen_nonneg data).
  rewrite (drives_read_chunks m0 (Z.to_nat (zlen data)) addr (zlen data) 0 [] (unit_at m0 (snd write))); try done; try lia.
  - cbn [app]. rewrite Z.add_0_r, Z.sub_0_r. f_equal. apply zget_ext; [rewrite zlen_map, zlen_seqZ; lia|]. intros i Hi.
    rewrite zlen_map, zlen_seqZ in Hi. unfold zget at 1, zlookup. rewrite decide_True by lia.
    rewrite list_lookup_fmap, lookup_seqZ_lt by lia. cbn. rewrite Hu. unfold store. rewrite bool_decide_eq_true_2 by lia. f_equal. lia.
  - unfold kAddressSpaceEnd. lia.
  - intros x. rewrite Hu. unfold store. case_bool_decide; [by apply bytes_ok_zget|done].
Qed.
Lemma mut_write_then_read_witness :
  fst (@WriteMemory (mut_unit (fun _ => 0)) 0xBF00 (zrepeat 256 9) []) = Ok tt.
Proof.
  refine (proj1 (mut_write_then_read (fun _ => 0) 0xBF00 (zrepeat 256 9) _ _ _)).
  - intros a. unfold byte_ok. lia.
  - unfold writable. rewrite zlen_zrepeat. unfold kWritableLow, kWritableEnd. lia.
  - apply bytes_ok_zrepeat. unfold byte_ok. lia.
Defined.
