(* ===== verification/CdbgDriver.v ===== *)
(** * CdbgDriver: [src/backend/protocol/mitsu_colt_can_cdbg_driver.cpp]

    The CDBG logging session over a raw CAN transport: security access, frame
    configuration, start, and the polling of streamed frames. The driver's fields
    [frames_] and [streaming_] are threaded explicitly. *)
From S2P Require Import Prelude Bytes Ports Uds Colt.
Import Cdbg.

Section driver.
Context `{Env}.
Definition Can_Write (can_id : Z) (payload : list Z) : M (result Error Z) := Call (CanWrite can_id payload).
Definition Can_Read (timeout : Z) : M (result Error (option CanFrame)) := Call (CanRead timeout).
Definition SendAndReceive (command : list Z) (failure_detail : string) : M (result Error (list Z)) :=
  do! written <- Can_Write kRequestCanId command;
  do! reply <- (if negb (written =? zlen command) then ret (Fail kInternal "partial CAN write") else Can_Read 250);
  ret match reply with
      | Some f => if negb (frame_id f =? kReplyCanId) || (zlen (payload f) =? 0)
                  then Fail kBadResponse failure_detail else Ok (payload f)
      | None => Fail kBadResponse failure_detail
      end.
Definition Send (command : list Z) (failure_detail : string) : M Status :=
  do! _ <- SendAndReceive command failure_detail; ret (Ok tt).
Definition Unlock : M Status :=
  do! _ <- Send BuildInitFrame "CDBG session init failed";
  do! seed <- SendAndReceive BuildSecuritySeedRequestFrame "CDBG security seed request failed";
  do! granted <- SendAndReceive (BuildSecurityKeyFrame (SeedToKey (ExtractSeed seed))) "CDBG security key request failed";
  ret (if negb (SecurityGranted granted) then Fail kBadResponse "CDBG security access denied" else Ok tt).
Fixpoint send_all (commands : list (list Z)) : M Status :=
  match commands with
  | [] => ret (Ok tt)
  | cmd :: commands => do! _ <- Send cmd "CDBG log frame setup failed"; send_all commands
  end.
Fixpoint configure_frames (instance f : Z) (frames : list (list CdbgChannel)) : M Status :=
  match frames with
  | [] => ret (Ok tt)
  | items :: frames =>
      do! _ <- send_all (BuildFrameInitFrames instance (u8 f) items); configure_frames instance (f + 1) frames
  end.
Definition ConfigureFrames (instance : Z) (frames : list (list CdbgChannel)) : M Status :=
  do! _ <- Send (BuildLogResetFrame instance) "CDBG log reset failed"; configure_frames instance 0 frames.
Record CdbgLogDriver := { frames_ : list (list CdbgChannel); streaming_ : bool }.
Definition unsupported (ch : CdbgChannel) : bool := negb (size ch =? 1) && negb (size ch =? 2) && negb (size ch =? 4).
Definition StartFreeFormLog (channels : list CdbgChannel) (instance interval_ms : Z) : M (Status * CdbgLogDriver) :=
  let cleared := {| frames_ := []; streaming_ := false |} in
  if (zlen channels =? 0)%Z then ret (Fail kInvalidConfig "no CDBG log parameters selected", cleared)
  else if existsb unsupported channels then
    ret (Fail kInvalidConfig "CDBG log parameter has unsupported byte length", cleared)
  else
    do unlocked <- Unlock;
    match unlocked with
    | Err e => ret (Err e, cleared)
    | Ok _ =>
        match BatchChannelsIntoFrames channels with
        | None => ret (Fail kInvalidConfig "too many CDBG log parameters selected", cleared)
        | Some frames =>
            do r <- (do! _ <- ConfigureFrames instance frames;
                     Send (BuildLogStartFrame instance (u8 (zlen frames)) interval_ms) "CDBG log start failed");
            ret (r, {| frames_ := frames; streaming_ := is_ok r |})
        end
    end.
Record PollResult := { responded : bool; channel_offset : Z; values : list Z }.
Definition no_frame : PollResult := {| responded := false; channel_offset := 0; values := [] |}.
Definition PollOnce (driver : CdbgLogDriver) (timeout : Z) : M (result Error PollResult) :=
  if negb (streaming_ driver) then ret (Ok no_frame)
  else
    do! read <- Can_Read timeout;
    ret (Ok match read with
            | None => no_frame
            | Some f =>
                if negb (frame_id f =? kReplyCanId) || (zlen (payload f) =? 0) then no_frame
                else
                  let frame := payload f in
                  let frame_index := zget frame 0 in
                  match zlookup (frames_ driver) frame_index with
                  | None => no_frame
                  | Some items =>
                      let decoded := DecodeFrame (u8 frame_index) items frame in
                      match decoded with
                      | [] => no_frame
                      | _ =>
                          let offset := fold_left (fun total f => total + zlen f) (ztake frame_index (frames_ driver)) 0 in
                          {| responded := true; channel_offset := offset; values := decoded |}
                      end
                  end
            end).
End driver.

(** ** What a stretch of the trace says on the raw CAN bus *)
Definition can_sent_of (ev : event) : list (Z * list Z) :=
  match ev with EvPort (CanWrite id p) _ => [(id, p)] | _ => [] end.
Abbreviation can_sent := (observed can_sent_of).
(** [commands m P]: from any history, [m] sends the frames [l] and returns [a] with [P a l]. *)
Abbreviation commands := (observes can_sent_of).
(** [m] sends the commands of [script], up to its first failure. *)
Definition scripted {A} (m : M (result Error A)) (script : list (list Z)) : Prop :=
  commands m (fun r l => exists n, l = map (pair kRequestCanId) (take n script) /\ (is_ok r = true -> take n script = script)).
Lemma scripted_try {A B} (m : M (result Error A)) (k : A -> M (result Error B)) s1 s2 :
  scripted m s1 -> (forall a, scripted (k a) s2) -> scripted (try m k) (s1 ++ s2).
Proof.
  intros Hm Hk. unfold scripted in *. apply (observes_try _ _ _ _ Hm).
  - intros a l1 (n & -> & E). specialize (E eq_refl). rewrite E. refine (observes_weaken _ _ _ (Hk a) _).
    intros r l2 (n2 & -> & E2). exists (length s1 + n2)%nat. rewrite take_app_add, map_app. split; [done|].
    intros Hr. by rewrite E2.
  - intros e l (n & -> & _). exists (n `min` length s1)%nat. rewrite take_app_le by lia. split; [|done].
    destruct (decide (n <= length s1)%nat); [by rewrite Nat.min_l|]. by rewrite Nat.min_r, !take_ge by lia.
Qed.
Lemma scripted_ret : scripted (ret (Ok tt)) [].
Proof. apply observes_ret. by exists 0%nat. Qed.
Section sessions.
Context `{Env}.
Lemma commands_SendAndReceive command detail :
  commands (SendAndReceive command detail) (fun _ l => l = [(kRequestCanId, command)]).
Proof.
  apply (observes_try _ _ (fun _ l => l = [(kRequestCanId, command)])); [by apply runs_Call| |done]. intros n l ->.
  apply (observes_try _ _ (fun _ l => l = [])); [|intros reply l ->; by apply observes_ret|by intros e l ->].
  destruct (negb _); [by apply observes_ret|by apply runs_Call].
Qed.
Lemma commands_Send command detail : commands (Send command detail) (fun _ l => l = [(kRequestCanId, command)]).
Proof.
  apply (observes_try _ _ _ _ (commands_SendAndReceive command detail)); [|done]. intros _ l ->. by apply observes_ret.
Qed.
Lemma scripted_Send command detail : scripted (Send command detail) [command].
Proof. refine (observes_weaken _ _ _ (commands_Send command detail) _). intros r l ->. by exists 1%nat. Qed.
Lemma scripted_send_all cs : scripted (send_all cs) cs.
Proof.
  induction cs as [|c cs IH]; [apply scripted_ret|]. change (c :: cs) with ([c] ++ cs). cbn [send_all app].
  apply (scripted_try _ _ [c]); [apply scripted_Send|by intros _].
Qed.
Fixpoint frame_commands (instance f : Z) (frames : list (list CdbgChannel)) : list (list Z) :=
  match frames with
  | [] => []
  | items :: frames => BuildFrameInitFrames instance (u8 f) items ++ frame_commands instance (f + 1) frames
  end.
Lemma scripted_configure instance f frames : scripted (configure_frames instance f frames) (frame_commands instance f frames).
Proof.
  revert f. induction frames as [|items frames IH]; intros f; [apply scripted_ret|]. cbn [configure_frames frame_commands].
  apply scripted_try; [apply scripted_send_all|]. intros _. apply IH.
Qed.
(** The whole session, for the seed the unit gave. *)
Definition unlock_commands (seed : Z) : list (list Z) :=
  [BuildInitFrame; BuildSecuritySeedRequestFrame; BuildSecurityKeyFrame (SeedToKey seed)].
Definition session (seed instance interval_ms : Z) (frames : list (list CdbgChannel)) : list (list Z) :=
  unlock_commands seed ++ [BuildLogResetFrame instance] ++ frame_commands instance 0 frames
  ++ [BuildLogStartFrame instance (u8 (zlen frames)) interval_ms].
Lemma Unlock_commands :
  commands Unlock (fun r l => exists seed n, l = map (pair kRequestCanId) (take n (unlock_commands seed))
    /\ (is_ok r = true -> take n (unlock_commands seed) = unlock_commands seed)).
Proof.
  unfold Unlock. apply (observes_try _ _ _ _ (commands_Send _ _)).
  - intros [] l ->. apply (observes_try _ _ _ _ (commands_SendAndReceive _ _)).
    + intros reply l ->. apply (observes_try _ _ _ _ (commands_SendAndReceive _ _)).
      * intros granted l ->. apply observes_ret. exists (ExtractSeed reply), 3%nat. done.
      * intros e l ->. by exists (ExtractSeed reply), 3%nat.
    + intros e l ->. by exists 0, 2%nat.
  - intros e l ->. by exists 0, 1%nat.
Qed.
Lemma scripted_session_rest instance interval_ms frames :
  scripted (do! _ <- ConfigureFrames instance frames;
            Send (BuildLogStartFrame instance (u8 (zlen frames)) interval_ms) "CDBG log start failed")
    (([BuildLogResetFrame instance] ++ frame_commands instance 0 frames)
     ++ [BuildLogStartFrame instance (u8 (zlen frames)) interval_ms]).
Proof.
  apply scripted_try; [|intros _; apply scripted_Send]. apply scripted_try; [apply scripted_Send|]. intros _.
  apply scripted_configure.
Qed.
End sessions.

(** ** What a poll delivers *)
Lemma offset_of (frames : list (list CdbgChannel)) k acc :
  fold_left (fun total f => total + zlen f) (take k frames) acc = acc + zlen (List.concat (take k frames)).
Proof.
  revert k acc. induction frames as [|f frames IH]; intros k acc; [rewrite take_nil; cbn; unfold zlen; cbn; lia|].
  destruct k as [|k]; [unfold zlen; cbn; lia|]. cbn [take fold_left List.concat]. rewrite IH, zlen_app. lia.
Qed.
Lemma items_in_place (frames : list (list CdbgChannel)) k items :
  frames !! k = Some items ->
  subspan (List.concat frames) (zlen (List.concat (take k frames))) (zlen items) = items.
Proof.
  intros Hk. rewrite <- (take_drop_middle frames k items Hk) at 1. rewrite List.concat_app. cbn [List.concat].
  unfold subspan, ztake, zdrop, zlen. rewrite !Nat2Z.id, drop_app_length. apply take_app_length.
Qed.
Lemma decode_items_length items frame off : length (decode_items items frame off) = length items.
Proof. revert off. induction items as [|c l IH]; intros off; [done|]. cbn. by rewrite IH. Qed.


(** Starting a CDBG log in every environment: an empty selection or a channel of an
    unsupported width is refused before any call; otherwise the commands sent, all
    to 0x630, are a beginning of the session for some seed the unit gave: init, seed
    request, the key for that seed, log reset, the selection of every channel of
    every frame, start; the driver streams exactly when the start reports success,
    and then the whole session was sent and the frames are the channels' packing. *)
Theorem cdbg_start_session `{Env} channels instance interval_ms t :
  exists d, let '(r, driver) := fst (StartFreeFormLog channels instance interval_ms t) in
  snd (StartFreeFormLog channels instance interval_ms t) = t ++ d
  /\ streaming_ driver = is_ok r
  /\ (channels = [] \/ ~ Forall channel_ok channels -> d = [] /\ exists detail, r = Fail kInvalidConfig detail)
  /\ (exists seed frames n,
        can_sent d = map (pair kRequestCanId) (take n (session seed instance interval_ms frames))
        /\ (r = Ok tt -> BatchChannelsIntoFrames channels = Some frames /\ frames_ driver = frames
              /\ take n (session seed instance interval_ms frames) = session seed instance interval_ms frames)).
Proof.
  unfold StartFreeFormLog. cbv zeta. destruct (Z.eqb_spec (zlen channels) 0) as [H0|H0].
  { exists []. split_and!; [by rewrite app_nil_r|done|intros _; split; [done|by eexists]|].
    exists 0, [], 0%nat. split; [done|]. discriminate. }
  assert (channels <> []) as Hne by (intros ->; done).
  destruct (existsb unsupported channels) eqn:Hu.
  { exists []. split_and!; [by rewrite app_nil_r|done|intros _; split; [done|by eexists]|].
    exists 0, [], 0%nat. split; [done|]. discriminate. }
  assert (Forall channel_ok channels) as Hok.
  { apply list.Forall_forall. intros c Hc%list_elem_of_In. rewrite <- not_true_iff_false, existsb_exists in Hu.
    unfold channel_ok. destruct (Z.eqb_spec (size c) 1); [lia|]. destruct (Z.eqb_spec (size c) 2); [lia|].
    destruct (Z.eqb_spec (size c) 4); [lia|]. exfalso. apply Hu. exists c. split; [done|]. unfold unsupported.
    by rewrite !(proj2 (Z.eqb_neq _ _)) by done. }
  match goal with |- context [fst (?m t)] => enough (commands m (fun p l => streaming_ (snd p) = is_ok (fst p) /\ exists seed frames n,
    l = map (pair kRequestCanId) (take n (session seed instance interval_ms frames))
    /\ (fst p = Ok tt -> BatchChannelsIntoFrames channels = Some frames /\ frames_ (snd p) = frames
          /\ take n (session seed instance interval_ms frames) = session seed instance interval_ms frames))) as Hm end.
  { destruct (Hm t) as (d & E & Hs & Hx). exists d. destruct (fst _) as [r driver]. cbn [fst snd] in *.
    split_and!; [done|done| |done]. by intros [->|]. }
  apply (observes_bind _ _ _ _ Unlock_commands). intros [[]|e] l (seed & n & -> & E).
  2:{ apply observes_ret. rewrite app_nil_r. split; [done|]. exists seed, [], (n `min` 3)%nat. split; [|done].
      unfold session. rewrite take_app_le by (cbn; lia).
      destruct (decide (n <= 3)%nat); [by rewrite Nat.min_l|]. by rewrite Nat.min_r, !take_ge by (cbn; lia). }
  rewrite (E eq_refl). destruct (BatchChannelsIntoFrames channels) as [frames|] eqn:Eb.
  - pose proof (scripted_session_rest instance interval_ms frames) as Hrest. unfold scripted in Hrest.
    apply (observes_bind _ _ _ _ Hrest). intros r l (n2 & -> & E2).
    apply observes_ret. rewrite app_nil_r. split; [done|]. exists seed, frames, (3 + n2)%nat. unfold session.
    change 3%nat with (length (unlock_commands seed)). rewrite take_app_add, map_app, <- !app_assoc in *. split; [done|].
    cbn [fst snd frames_]. intros ->. rewrite E2 by done. done.
  - apply observes_ret. rewrite app_nil_r. split; [done|]. exists seed, [], 3%nat. split; [|discriminate].
    unfold session. by rewrite take_app_length' by done.
Qed.

(** A poll of a running CDBG log attributes its values to the right channels, in
    every environment: when it reports a frame, that frame was just received on
    0x631, the reported channel offset is the position in the selection of the first
    channel of the frame its index byte names, and each value is that channel's
    field of the received frame. *)
Theorem cdbg_poll_attributes `{Env} channels frames timeout t res :
  Forall channel_ok channels -> BatchChannelsIntoFrames channels = Some frames ->
  fst (PollOnce {| frames_ := frames; streaming_ := true |} timeout t) = Ok res -> responded res = true ->
  exists f items, snd (PollOnce {| frames_ := frames; streaming_ := true |} timeout t)
      = t ++ [EvPort (CanRead timeout) (Ok (Some f))]
    /\ frame_id f = kReplyCanId
    /\ zlookup frames (zget (payload f) 0) = Some items
    /\ subspan channels (channel_offset res) (zlen (values res)) = items
    /\ 1 + total items <= zlen (payload f)
    /\ values res = decode_items items (payload f) 1.
Proof.
  intros Hc Hb. unfold PollOnce. cbn [streaming_ negb frames_]. unfold try, bind, Can_Read, Call, ret.
  destruct (env_port t (CanRead timeout)) as [[f|]|e] eqn:Er; cbn [fst snd]; [| |done].
  2:{ intros [= <-]. done. }
  intros [= E] Hr. exists f.
  assert (exists items, zlookup frames (zget (payload f) 0) = Some items /\ frame_id f = kReplyCanId
    /\ res = {| responded := true; channel_offset := fold_left (fun total f => total + zlen f) (ztake (zget (payload f) 0) frames) 0;
                values := DecodeFrame (u8 (zget (payload f) 0)) items (payload f) |}
    /\ DecodeFrame (u8 (zget (payload f) 0)) items (payload f) <> []) as (items & Hi & Hid & -> & Hne).
  { destruct (Z.eqb_spec (frame_id f) kReplyCanId); cbn [negb orb] in E; [|by rewrite <- E in Hr].
    destruct (zlen (payload f) =? 0); [by rewrite <- E in Hr|]. cbv zeta in E.
    destruct (zlookup frames _) as [items|]; [|by rewrite <- E in Hr]. exists items.
    destruct (DecodeFrame _ _ _) eqn:Ed; [by rewrite <- E in Hr|]. by rewrite <- E. }
  exists items. cbn [channel_offset values]. clear E Hr. unfold zlookup in Hi. destruct (decide (0 <= zget (payload f) 0)) as [H0|]; [|done].
  destruct (batch_of channels frames Hc Hb) as [Ec Hlen].
  pose proof (lookup_lt_Some _ _ _ Hi) as Hlt. set (k := Z.to_nat (zget (payload f) 0)) in *.
  rewrite u8_small in * by (unfold byte_ok; unfold zlen, kMaxFrames in Hlen; lia).
  assert (1 + total items <= zlen (payload f) /\ DecodeFrame (zget (payload f) 0) items (payload f) = decode_items items (payload f) 1) as [Hn Ed].
  { unfold DecodeFrame in *. destruct (payload f) as [|b p]; [done|]. rewrite Z.eqb_refl in *. cbn [negb] in *. rewrite needed_total in *.
    destruct (Z.ltb_spec (zlen (b :: p)) (1 + total items)); [done|]. done. }
  rewrite Ed. split_and!; [done|done|unfold zlookup; by rewrite decide_True|..| |done|done].
  change (ztake (zget (payload f) 0) frames) with (take k frames). rewrite offset_of, Z.add_0_l.
  unfold zlen at 2. rewrite decode_items_length. change (Z.of_nat (length items)) with (zlen items). rewrite <- Ec. by apply items_in_place.
Qed.
(** A bus on which every read gives one frame. *)
Definition streaming_bus (f : CanFrame) : Env := {|
  env_cancelled := fun _ => false;
  env_sleep := fun _ _ => Ok tt;
  env_reset := fun _ => Ok tt;
  env_configure := fun _ _ => Ok tt;
  env_open := fun _ => Ok tt;
  env_close := fun _ => Ok tt;
  env_write := fun _ _ => Ok tt;
  env_read := fun _ _ => Ok None;
  env_port := fun _ c =>
    match c with CanWrite _ p => Ok (zlen p) | CanRead _ => Ok (Some f) | c => absent_port c end
|}.
Lemma cdbg_poll_attributes_witness :
  let channels := [Build_CdbgChannel 0x804000 4; Build_CdbgChannel 0x804004 4; Build_CdbgChannel 0x804008 2] in
  let f := {| frame_id := 0x631; payload := [1; 0; 0; 1; 2; 255; 254; 0] |} in
  exists f' items, subspan channels 1 2 = items /\ [258; 65534] = decode_items items (payload f') 1.
Proof.
  intros channels f.
  destruct (@cdbg_poll_attributes (streaming_bus f) channels [take 1 channels; drop 1 channels] 50 []
    {| responded := true; channel_offset := 1; values := [258; 65534] |}) as (f' & items & _ & _ & _ & Hs & _ & Hd).
  - repeat constructor; unfold channel_ok; cbn; lia.
  - reflexivity.
  - vm_compute. reflexivity.
  - reflexivity.
  - exists f', items. split; [exact Hs|exact Hd].
Defined.
