(* ===== verification/DtcTables.v ===== *)
(** * DtcTables: [src/algorithms/diagnostics/dtc_tables.cpp]

    The trouble-code tables, entry for entry in the source's order: the 14-bit code
    and its text. A table is the concatenation of parts of at most 140 lines. *)
From S2P Require Import Prelude.
#[local] Open Scope string_scope.
#[local] Open Scope Z_scope.

Definition kPCodes1 : list (Z * string) := [
  (0x0000, "P0000 - No trouble code");
  (0x0001, "P0001 - Fuel Volume Regulator Control Circuit / Open");
  (0x0002, "P0002 - Fuel Volume Regulator Control Circuit Range/Performance");
  (0x0003, "P0003 - Fuel Volume Regulator Control Circuit Low");
  (0x0004, "P0004 - Fuel Volume Regulator Control Circuit High");
  (0x0005, "P0005 - Fuel Shutoff Valve Control Circuit / Open");
  (0x0006, "P0006 - Fuel Shutoff Valve Control Circuit Low");
  (0x0007, "P0007 - Fuel Shutoff Valve Control Circuit High");
  (0x0008, "P0008 - Engine Position System Performance - Bank 1");
  (0x0009, "P0009 - Engine Position System Performance - Bank 1");
  (0x0010, "P0010 - Intake Camshaft Position Actuator Circuit / Open (Bank 1)");
  (0x0011, "P0011 - Intake Camshaft Position Timing - Over-Advanced (Bank 1)");
  (0x0012, "P0012 - Intake Camshaft Position Timing - Over-Retarded (Bank 1)");
  (0x0013, "P0013 - Exhaust Camshaft Position Actuator Circuit / Open (Bank 1)");
  (0x0014, "P0014 - Exhaust Camshaft Position Timing - Over-Advanced (Bank 1)");
  (0x0015, "P0015 - Exhaust Camshaft Position Timing - Over-Retarded (Bank 1)");
  (0x0016, "P0016 - Crankshaft Position Camshaft Position Correlation Bank 1 Sensor A");
  (0x0017, "P0017 - Crankshaft Position Camshaft Position Correlation Bank 1 Sensor B");
  (0x0018, "P0018 - Crankshaft Position Camshaft Position Correlation Bank 2 Sensor A");
  (0x0019, "P0019 - Crankshaft Position Camshaft Position Correlation Bank 2 Sensor B");
  (0x0020, "P0020 - Intake Camshaft Position Actuator Circuit / Open (Bank 2)");
  (0x0021, "P0021 - Intake Camshaft Position Timing - Over-Advanced (Bank 2)");
  (0x0022, "P0022 - Intake Camshaft Position Timing - Over-Retarded (Bank 2)");
  (0x0023, "P0023 - Exhaust Camshaft Position Actuator Circuit / Open (Bank 2)");
  (0x0024, "P0024 - Exhaust Camshaft Position Timing - Over-Advanced (Bank 2)");
  (0x0025, "P0025 - Exhaust Camshaft Position Timing - Over-Retarded (Bank 2)");
  (0x0026, "P0026 - Intake Valve Control Solenoid Circuit Range/Performance (Bank 2)");
  (0x0027, "P0027 - Exhaust Valve Control Solenoid Circuit Range/Performance (Bank 2)");
  (0x0028, "P0028 - Intake Valve Control Solenoid Circuit Range/Performance (Bank 2)");
  (0x0029, "P0029 - Exhaust Valve Control Solenoid Circuit Range/Performance (Bank 2)");
  (0x0030, "P0030 - Heated Oxygen Sensor (H02S) Heater Control Circuit Bank 1 Sensor 1");
  (0x0031, "P0031 - Heated Oxygen Sensor (HO2S) Heater Circuit Low Voltage Bank 1 Sensor 1");
  (0x0032, "P0032 - Heated Oxygen Sensor (HO2S) Heater Circuit High Voltage Bank 1 Sensor 1");
  (0x0033, "P0033 - Turbo/Super Charger Bypass Valve Control Circuit / Open");
  (0x0034, "P0034 - Turbo/Super Charger Bypass Valve Control Circuit Low");
  (0x0035, "P0035 - Turbo/Super Charger Bypass Valve Control Circuit High");
  (0x0036, "P0036 - Heated Oxygen Sensor (HO2S) Heater Control Circuit Bank 1 Sensor 2");
  (0x0037, "P0037 - Heated Oxygen Sensor (HO2S) Heater Circuit Low Voltage Bank 1 Sensor 2");
  (0x0038, "P0038 - Heated Oxygen Sensor (HO2S) Heater Circuit High Voltage Bank 1 Sensor 2");
  (0x0039, "P0039 - Turbo/Super Charger Bypass Valve Control Circuit Range/Performance");
  (0x0040, "P0040 - Oxygen Sensor Signals Swapped Bank 1 Sensor 1 / Bank 2 Sensor 1");
  (0x0041, "P0041 - Oxygen Sensor Signals Swapped Bank 1 Sensor 2 / Bank 2 Sensor 2");
  (0x0042, "P0042 - HO2S Heater Control Circuit (Bank 1, Sensor 3)");
  (0x0043, "P0043 - HO2S Heater Control Circuit Low (Bank 1, Sensor 3)");
  (0x0044, "P0044 - HO2S Heater Control Circuit High (Bank 1, Sensor 3)");
  (0x0046, "P0046 - Turbocharger/Supercharger Boost Control 'A' Circuit Range/Performance");
  (0x0047, "P0047 - Turbocharger/Supercharger Boost Control 'A' Circuit Low");
  (0x0048, "P0048 - Turbocharger/Supercharger Boost Control 'A' Circuit High");
  (0x0049, "P0049 - Turbo/Super Charger Turbine Overspeed");
  (0x0050, "P0050 - Heated Oxygen Sensor (HO2S) Heater Circuit Bank 2 Sensor 1");
  (0x0051, "P0051 - Heated Oxygen Sensor (HO2S) Heater Circuit Low Voltage Bank 2 Sensor 1");
  (0x051B, "P051B - Crankcase Pressure Sensor Circuit Range/Performance");
  (0x0052, "P0052 - Heated Oxygen Sensor (HO2S) Heater Circuit High Voltage Bank 2 Sensor 1");
  (0x0053, "P0053 - HO2S Heater Resistance Bank 1 Sensor 1 (PCM)");
  (0x0054, "P0054 - HO2S Heater Resistance Bank 1 Sensor 2 (PCM)");
  (0x0055, "P0055 - HO2S Heater Resistance Bank 1 Sensor 3 (PCM)");
  (0x0056, "P0056 - Heated Oxygen Sensor (HO2S) Heater Circuit Bank 2 Sensor 2");
  (0x0057, "P0057 - Heated Oxygen Sensor (HO2S) Heater Circuit Low Voltage Bank 2 Sensor 2");
  (0x0058, "P0058 - Heated Oxygen Sensor (HO2S) Heater Circuit High Voltage Bank 2 Sensor 2");
  (0x0059, "P0059 - HO2S Heater Resistance (Bank 2, Sensor 1)");
  (0x0060, "P0060 - HO2S Heater Resistance (Bank 2, Sensor 2)");
  (0x0061, "P0061 - HO2S Heater Resistance (Bank 2, Sensor 3)");
  (0x0062, "P0062 - HO2S Heater Control Circuit (Bank 2, Sensor 3)");
  (0x0063, "P0063 - HO2S Heater Control Circuit Low (Bank 2, Sensor 3)");
  (0x0064, "P0064 - HO2S Heater Control Circuit High (Bank 2, Sensor 3)");
  (0x0065, "P0065 - Air Assisted Injector Control Range/Performance");
  (0x0066, "P0066 - Air Assisted Injector Control Circuit or Circuit Low");
  (0x0067, "P0067 - Air Assisted Injector Control Circuit or Circuit High");
  (0x0068, "P0068 - MAP / MAF - Throttle Position Correlation");
  (0x0069, "P0069 - MAP - Barometric Pressure Correlation");
  (0x0070, "P0070 - Ambient Air Temperature Sensor Circuit");
  (0x0071, "P0071 - Ambient Air Temperature Sensor Range/Performance");
  (0x0072, "P0072 - Ambient Air Temperature Sensor Circuit Low Input");
  (0x0073, "P0073 - Ambient Air Temperature Sensor Circuit High Input");
  (0x0074, "P0074 - Ambient Air Temperature Sensor Circuit Intermittent/Erratic");
  (0x0075, "P0075 - Intake Valve Control Circuit (Bank 2)");
  (0x0076, "P0076 - Intake Valve Control Circuit Low (Bank 2)");
  (0x0077, "P0077 - Intake Valve Control Circuit High (Bank 2)");
  (0x0078, "P0078 - Exhaust Valve Control Circuit (Bank 2)");
  (0x0079, "P0079 - Exhaust Valve Control Circuit Low (Bank 2)");
  (0x0080, "P0080 - Exhaust Valve Control Circuit High (Bank 2)");
  (0x0081, "P0081 - Intake Valve Control Circuit (Bank 2)");
  (0x0082, "P0082 - Intake Valve Control Circuit Low (Bank 2)");
  (0x0083, "P0083 - Intake Valve Control Circuit High (Bank 2)");
  (0x0084, "P0084 - Exhaust Valve Control Circuit (Bank 2)");
  (0x0085, "P0085 - Exhaust Valve Control Circuit Low (Bank 2)");
  (0x0086, "P0086 - Exhaust Valve Control Circuit High (Bank 2)");
  (0x0087, "P0087 - Fuel Rail/System Pressure - Too Low");
  (0x0088, "P0088 - Fuel Rail/System Pressure - Too High");
  (0x0089, "P0089 - Fuel Pressure Regulator Performance");
  (0x0090, "P0090 - Fuel Pressure Regulator Control Circuit");
  (0x0091, "P0091 - Fuel Pressure Regulator Control Circuit Low");
  (0x0092, "P0092 - Fuel Pressure Regulator Control Circuit High");
  (0x0093, "P0093 - Fuel System Leak Detected - Large Leak");
  (0x0094, "P0094 - Fuel System Leak Detected - Small Leak");
  (0x0095, "P0095 - Intake Air Temperature Sensor 2 Circuit");
  (0x0096, "P0096 - Intake Air Temperature Sensor 2 Circuit Range/Performance");
  (0x0097, "P0097 - Intake Air Temperature Sensor 2 Circuit Low Input");
  (0x0098, "P0098 - Intake Air Temperature Sensor 2 Circuit High Input");
  (0x0099, "P0099 - Intake Air Temperature Sensor 2 Circuit Intermittent/Erratic");
  (0x0100, "P0100 - Mass or Volume Air flow Circuit Malfunction");
  (0x0101, "P0101 - Mass or Volume Air flow Circuit Range/Performance Problem");
  (0x0102, "P0102 - Mass or Volume Air Flow Circuit low Input");
  (0x0103, "P0103 - Mass or Volume Air flow Circuit High Input");
  (0x0104, "P0104 - Mass or Volume Air flow Circuit Intermittent");
  (0x0105, "P0105 - Manifold Absolute Pressure/Barometric Pressure Circuit Malfunction");
  (0x0106, "P0106 - Manifold Absolute Pressure/Barometric Pressure Circuit Range/Performance Problem");
  (0x0107, "P0107 - Manifold Absolute Pressure/Barometric Pressure Circuit Low Input");
  (0x0108, "P0108 - Manifold Absolute Pressure/Barometric Pressure Circuit High Input");
  (0x0109, "P0109 - Manifold Absolute Pressure/Barometric Pressure Circuit Intermittent");
  (0x0110, "P0110 - Intake Air Temperature Circuit Malfunction");
  (0x0111, "P0111 - Intake Air Temperature Circuit Range/Performance Problem");
  (0x0112, "P0112 - Intake Air Temperature Circuit Low Input");
  (0x0113, "P0113 - Intake Air Temperature Circuit High Input");
  (0x0114, "P0114 - Intake Air Temperature Circuit Intermittent");
  (0x0115, "P0115 - Engine Coolant Temperature Circuit Malfunction");
  (0x0116, "P0116 - Engine Coolant Temperature Circuit Range/Performance Problem");
  (0x0117, "P0117 - Engine Coolant Temperature Circuit Low Input");
  (0x0118, "P0118 - Engine Coolant Temperature Circuit High Input");
  (0x0119, "P0119 - Engine Coolant Temperature Circuit Intermittent");
  (0x0120, "P0120 - Throttle Pedal Position Sensor/Switch A Circuit Malfunction");
  (0x0121, "P0121 - Throttle/Pedal Position Sensor/Switch A Circuit Range/Performance Problem");
  (0x0122, "P0122 - Throttle/Pedal Position Sensor/Switch A Circuit Low Input");
  (0x0123, "P0123 - Throttle/Pedal Position Sensor/Switch A Circuit High Input");
  (0x0124, "P0124 - Throttle/Pedal Position Sensor/Switch A Circuit Intermittent");
  (0x0125, "P0125 - Insufficient Coolant Temperature for Closed Loop Fuel Control");
  (0x0126, "P0126 - Insufficient Coolant Temperature for Stable Operation");
  (0x0127, "P0127 - Intake Air Temperature Too High");
  (0x0128, "P0128 - Coolant Thermostat (Coolant Temp Below Thermostat Regulating Temperature)");
  (0x0129, "P0129 - Barometric Pressure Too Low");
  (0x0130, "P0130 - O2 Sensor Circuit Malfunction (Bank 1 Sensor 1)");
  (0x0131, "P0131 - O2 Sensor Circuit Low Voltage (Bank 1 Sensor 1)");
  (0x0132, "P0132 - O2 Sensor Circuit High Voltage (Bank 1 Sensor 1)");
  (0x0133, "P0133 - O2 Sensor Circuit Slow Response (Bank 1 Sensor 1)");
  (0x0134, "P0134 - O2 Sensor Circuit No Activity Detected (Bank 1 Sensor 1)");
  (0x0135, "P0135 - O2 Sensor Heater Circuit Malfunction (Bank 1 Sensor 1)");
  (0x0136, "P0136 - O2 Sensor Circuit Malfunction (Bank 1 Sensor 2)");
  (0x0137, "P0137 - O2 Sensor Circuit Low Voltage (Bank 1 Sensor 2)");
  (0x0138, "P0138 - O2 Sensor Circuit High Voltage (Bank 1 Sensor 2)");
  (0x0139, "P0139 - O2 Sensor Circuit Slow Response (Bank 1 Sensor 2)")].
Definition kPCodes2 : list (Z * string) := [
  (0x0140, "P0140 - O2 Sensor Circuit No Activity Detected (Bank 1 Sensor 2)");
  (0x0141, "P0141 - O2 Sensor Heater Circuit Malfunction (Bank 1 Sensor 2)");
  (0x0142, "P0142 - O2 Sensor Circuit Malfunction (Bank 1 Sensor 3)");
  (0x0143, "P0143 - O2 Sensor Circuit Low Voltage (Bank 1 Sensor 3)");
  (0x0144, "P0144 - O2 Sensor Circuit High Voltage (Bank 1 Sensor 3)");
  (0x0145, "P0145 - O2 Sensor Circuit Slow Response (Bank 1 Sensor 3)");
  (0x0146, "P0146 - O2 Sensor Circuit No Activity Detected (Bank 1 Sensor 3)");
  (0x0147, "P0147 - O2 Sensor Heater Circuit Malfunction (Bank 1 Sensor 3)");
  (0x0148, "P0148 - Fuel Delivery Error");
  (0x0149, "P0149 - Fuel Timing Error");
  (0x0150, "P0150 - O2 Sensor Circuit Malfunction (Bank 2 Sensor 1)");
  (0x0151, "P0151 - O2 Sensor Circuit Low Voltage (Bank 2 Sensor 1)");
  (0x0152, "P0152 - O2 Sensor Circuit High Voltage (Bank 2 Sensor 1)");
  (0x0153, "P0153 - O2 Sensor Circuit Slow Response (Bank 2 Sensor 1)");
  (0x0154, "P0154 - O2 Sensor Circuit No Activity Detected (Bank 2 Sensor 1)");
  (0x0155, "P0155 - O2 Sensor Heater Circuit Malfunction (Bank 2 Sensor 1)");
  (0x0156, "P0156 - O2 Sensor Circuit Malfunction (Bank 2 Sensor 2)");
  (0x0157, "P0157 - O2 Sensor Circuit Low Voltage (Bank 2 Sensor 2)");
  (0x0158, "P0158 - O2 Sensor Circuit High Voltage (Bank 2 Sensor 2)");
  (0x0159, "P0159 - O2 Sensor Circuit Slow Response (Bank 2 Sensor 2)");
  (0x0160, "P0160 - O2 Sensor Circuit No Activity Detected (Bank 2 Sensor 2)");
  (0x0161, "P0161 - O2 Sensor Heater Circuit Malfunction (Bank 2 Sensor 2)");
  (0x0162, "P0162 - O2 Sensor Circuit Malfunction (Bank 2 Sensor 3)");
  (0x0163, "P0163 - O2 Sensor Circuit Low Voltage (Bank 2 Sensor 3)");
  (0x0164, "P0164 - O2 Sensor Circuit High Voltage (Bank 2 Sensor 3)");
  (0x0165, "P0165 - O2 Sensor Circuit Slow Response (Bank 2 Sensor 3)");
  (0x0166, "P0166 - O2 Sensor Circuit No Activity Detected (Bank 2 Sensor 3)");
  (0x0167, "P0167 - O2 Sensor Heater Circuit Malfunction (Bank 2 Sensor 3)");
  (0x0168, "P0168 - Engine Fuel Temperature Too High");
  (0x0169, "P0169 - Incorrect Fuel Composition");
  (0x0170, "P0170 - Fuel Trim Malfunction (Bank 1)");
  (0x0171, "P0171 - System Too Lean (Bank 1)");
  (0x0172, "P0172 - System Too Rich (Bank 1)");
  (0x0173, "P0173 - Fuel Trim Malfunction (Bank 2)");
  (0x0174, "P0174 - System Too Lean (Bank 2)");
  (0x0175, "P0175 - System Too Rich (Bank 2)");
  (0x0176, "P0176 - Fuel Composition Sensor Circuit Malfunction");
  (0x0177, "P0177 - Fuel Composition Sensor Circuit Range/Performance");
  (0x0178, "P0178 - Fuel Composition Sensor Circuit Low Input");
  (0x0179, "P0179 - Fuel Composition Sensor Circuit High Input");
  (0x0180, "P0180 - Fuel Temperature Sensor A Circuit Malfunction");
  (0x0181, "P0181 - Fuel Temperature Sensor A Circuit Performance");
  (0x0182, "P0182 - Fuel Temperature Sensor A Circuit low Input");
  (0x0183, "P0183 - Fuel Temperature Sensor A Circuit Intermittent");
  (0x0184, "P0184 - Fuel Temperature Sensor A Circuit Intermittent");
  (0x0185, "P0185 - Fuel Temperature Sensor B Circuit Malfunction");
  (0x0186, "P0186 - Fuel Temperature Sensor B Circuit Range/Performance");
  (0x0187, "P0187 - Fuel Temperature Sensor B Circuit Low Input");
  (0x0188, "P0188 - Fuel Temperature Sensor B Circuit High Input");
  (0x0189, "P0189 - Fuel Temperature Sensor B Circuit Intermittent");
  (0x0190, "P0190 - Fuel Rail Pressure Sensor Circuit Malfunction");
  (0x0191, "P0191 - Fuel Rail Pressure Sensor Circuit Range/Performance");
  (0x0192, "P0192 - Fuel Rail Pressure Sensor Circuit Low Input");
  (0x0193, "P0193 - Fuel Rail Pressure Sensor Circuit High Input");
  (0x0194, "P0194 - Fuel Rail Pressure Sensor Circuit Intermittent");
  (0x0195, "P0195 - Engine Oil Temperature Sensor Malfunction");
  (0x0196, "P0196 - Engine Oil Temperature Sensor Range/Performance");
  (0x0197, "P0197 - Engine Oil Temperature Sensor Low");
  (0x0198, "P0198 - Engine Oil Temperature Sensor High");
  (0x0199, "P0199 - Engine Oil Temperature Sensor Intermittent");
  (0x0200, "P0200 - Injector Circuit Malfunction");
  (0x0201, "P0201 - Injector Circuit Malfunction - Cylinder 1");
  (0x0202, "P0202 - Injector Circuit Malfunction - Cylinder 2");
  (0x0203, "P0203 - Injector Circuit Malfunction - Cylinder 3");
  (0x0204, "P0204 - Injector Circuit Malfunction - Cylinder 4");
  (0x0205, "P0205 - Injector Circuit Malfunction - Cylinder 5");
  (0x0206, "P0206 - Injector Circuit Malfunction - Cylinder 6");
  (0x0207, "P0207 - Injector Circuit Malfunction - Cylinder 7");
  (0x0208, "P0208 - Injector Circuit Malfunction - Cylinder 8");
  (0x0209, "P0209 - Injector Circuit Malfunction - Cylinder 9");
  (0x0210, "P0210 - Injector Circuit Malfunction - Cylinder 10");
  (0x0211, "P0211 - Injector Circuit Malfunction - Cylinder 11");
  (0x0212, "P0212 - Injector Circuit Malfunction - Cylinder 12");
  (0x0213, "P0213 - Cold Start Injector 1 Malfunction");
  (0x0214, "P0214 - Cold Start Injector 2 Malfunction");
  (0x0215, "P0215 - Engine Shutoff Solenoid Malfunction");
  (0x0216, "P0216 - Injection Timing Control Circuit Malfunction");
  (0x0217, "P0217 - Engine Overtemp Condition");
  (0x0218, "P0218 - Transmission Over Temperature Condition");
  (0x0219, "P0219 - Engine Over Speed Condition");
  (0x0220, "P0220 - Throttle/Pedal Position Sensor/Switch B Circuit Malfunction");
  (0x0221, "P0221 - Throttle/Pedal Position Sensor/Switch B Circuit Range/Performance Problem");
  (0x0222, "P0222 - Throttle/Pedal Position Sensor/Switch B Circuit Low Input");
  (0x0223, "P0223 - Throttle/Pedal Position Sensor/Switch B Circuit High Input");
  (0x0224, "P0224 - Throttle/Pedal Position Sensor/Switch B Circuit Intermittent");
  (0x0225, "P0225 - Throttle/Pedal Position Sensor/Switch C Circuit Malfunction");
  (0x0226, "P0226 - Throttle/Pedal Position Sensor/Switch C Circuit Range/Performance Problem");
  (0x0227, "P0227 - Throttle/Pedal Position Sensor/Switch C Circuit Low Input");
  (0x0228, "P0228 - Throttle/Pedal Position Sensor/Switch C Circuit High Input");
  (0x0229, "P0229 - Throttle/Pedal Position Sensor/Switch C Circuit Intermittent");
  (0x0230, "P0230 - Fuel Pump Primary Circuit Malfunction");
  (0x0231, "P0231 - Fuel Pump Secondary Circuit Low");
  (0x0232, "P0232 - Fuel Pump Secondary Circuit Intermittent");
  (0x0233, "P0233 - Fuel Pump Secondary Circuit Intermittent");
  (0x0234, "P0234 - Engine Overboost Condition");
  (0x0235, "P0235 - Turbocharger Boost Sensor A Circuit Malfunction");
  (0x0236, "P0236 - Turbocharger Boost Sensor A Circuit Range/Performance.");
  (0x0237, "P0237 - Turbocharger Boost Sensor A Circuit Low");
  (0x0238, "P0238 - Turbocharger Boost Sensor A Circuit High");
  (0x0239, "P0239 - Turbocharger Boost Sensor B Circuit Malfunction");
  (0x0240, "P0240 - Turbocharger Boost Sensor B Circuit Range/Performance");
  (0x0241, "P0241 - Turbocharger Boost Sensor B Circuit Low");
  (0x0242, "P0242 - Turbocharger Boost Sensor B Circuit High");
  (0x0243, "P0243 - Turbocharger Wastegate Solenoid A Malfunction");
  (0x0244, "P0244 - Turbocharger Wastegate Solenoid A Range/Performance");
  (0x0245, "P0245 - Turbocharger Wastegate Solenoid A low");
  (0x0246, "P0246 - Turbocharger Wastegate Solenoid A High");
  (0x0247, "P0247 - Turbocharger Wastegate Solenoid B Malfunction");
  (0x0248, "P0248 - Turbocharger Wastegate Solenoid B Range/Performance");
  (0x0249, "P0249 - Turbocharger Wastegate Solenoid B Low");
  (0x0250, "P0250 - Turbocharger Wastegate Solenoid B High");
  (0x0251, "P0251 - Injection Pump Fuel Metering Control A Malfunction (Cam/Rotor/Injector)");
  (0x0252, "P0252 - Injection Pump Fuel Metering Control A Range/Performance (Cam/Rotor/Injector)");
  (0x0253, "P0253 - Injection Pump Fuel Metering Control A Low (Cam/Rotor/Injector)");
  (0x0254, "P0254 - Injection Pump Fuel Metering Control A High (Cam/Rotor/Injector)");
  (0x0255, "P0255 - Injection Pump Fuel Metering Control A Intermittent (Cam/Rotor/Injector)");
  (0x0256, "P0256 - Injection Pump Fuel Metering Control B Malfunction (Cam/Rotor/Injector)");
  (0x0257, "P0257 - Injection Pump Fuel Metering Control B Low (Cam/Rotor/Injector)");
  (0x0258, "P0258 - Injection Pump Fuel Metering Control B Low (Cam/Rotor/Injector)");
  (0x0259, "P0259 - Injection lump Fuel Metering Control B High (Cam/Rotor/Injector)");
  (0x0260, "P0260 - Injection Pump Fuel Metering Control B Intermittent (Cam/Rotor/Injector)");
  (0x0261, "P0261 - Cylinder 1 Injector Circuit Low");
  (0x0262, "P0262 - Cylinder 1 Injector Circuit High");
  (0x0263, "P0263 - Cylinder 1 Contribution/Balance Fault");
  (0x0264, "P0264 - Cylinder 2 Injector Circuit Low");
  (0x0265, "P0265 - Cylinder 2 Injector Circuit High");
  (0x0266, "P0266 - Cylinder 2 Contribution/Balance Fault");
  (0x0267, "P0267 - Cylinder 3 Injector Circuit Low");
  (0x0268, "P0268 - Cylinder 3 Injector Circuit High");
  (0x0269, "P0269 - Cylinder 3 Contribution/Balance Fault");
  (0x0270, "P0270 - Cylinder 4 Injector Circuit Low");
  (0x0271, "P0271 - Cylinder 4 Injector Circuit High");
  (0x0272, "P0272 - Cylinder 4 Contribution/Balance Fault");
  (0x0273, "P0273 - Cylinder 5 Injector Circuit Low");
  (0x0274, "P0274 - Cylinder 5 Injector Circuit High");
  (0x0275, "P0275 - Cylinder 5 Contribution/Balance Fault");
  (0x0276, "P0276 - Cylinder 6 Injector Circuit Low");
  (0x0277, "P0277 - Cylinder 6 Injector Circuit High");
  (0x0278, "P0278 - Cylinder 6 Contribution/Balance Fault");
  (0x0279, "P0279 - Cylinder 7 Injector Circuit Low")].
Definition kPCodes3 : list (Z * string) := [
  (0x0280, "P0280 - Cylinder 7 Injector Circuit High");
  (0x0281, "P0281 - Cylinder 7 Contribution/Balance Fault");
  (0x0282, "P0282 - Cylinder 8 Injector Circuit Low");
  (0x0283, "P0283 - Cylinder 8 Injector Circuit High");
  (0x0284, "P0284 - Cylinder 8 Contribution/Balance Fault");
  (0x0285, "P0285 - Cylinder 9 Injector Circuit Low");
  (0x0286, "P0286 - Cylinder 9 Injector Circuit High");
  (0x0287, "P0287 - Cylinder 9 Contribution/Balance Fault");
  (0x0288, "P0288 - Cylinder 10 Injector Circuit Low");
  (0x0289, "P0289 - Cylinder 10 Injector Circuit High");
  (0x0290, "P0290 - Cylinder 10 Contribution/Balance Fault");
  (0x0291, "P0291 - Cylinder 11 Injector Circuit Low");
  (0x0292, "P0292 - Cylinder 11 Injector Circuit High");
  (0x0293, "P0293 - Cylinder 11 Contribution/Balance Fault");
  (0x0294, "P0294 - Cylinder 12 Injector Circuit Low");
  (0x0295, "P0295 - Cylinder 12 Injector Circuit High");
  (0x0296, "P0296 - Cylinder 12 Contribution/Balance Fault");
  (0x0297, "P0297 - Vehicle Overspeed Condition");
  (0x0298, "P0298 - Engine Oil Over Temperature");
  (0x0299, "P0299 - Turbo / Super Charger Underboost");
  (0x0300, "P0300 - Random/Multiple Cylinder Misfire Detected");
  (0x0301, "P0301 - Cylinder 1 Misfire Detected");
  (0x0302, "P0302 - Cylinder 2 Misfire Detected");
  (0x0303, "P0303 - Cylinder 3 Misfire Detected");
  (0x0304, "P0304 - Cylinder 4 Misfire Detected");
  (0x0305, "P0305 - Cylinder 5 Misfire Detected");
  (0x0306, "P0306 - Cylinder 6 Misfire Detected");
  (0x0307, "P0307 - Cylinder 7 Misfire Detected");
  (0x0308, "P0308 - Cylinder 8 Misfire Detected");
  (0x0309, "P0309 - Cylinder 9 Misfire Detected");
  (0x0310, "P0310 - Cylinder 10 Misfire Detected");
  (0x0311, "P0311 - Cylinder 11 Misfire Detected");
  (0x0312, "P0312 - Cylinder 12 Misfire Detected");
  (0x0313, "P0313 - Misfire Detected with Low Fuel");
  (0x0314, "P0314 - Single Cylinder Misfire (Cylinder not Specified)");
  (0x0315, "P0315 - Crankshaft Position System Variation Not Learned");
  (0x0316, "P0316 - Misfire Detected On Startup (First 1000 Revolutions)");
  (0x0317, "P0317 - Rough Road Hardware Not Present");
  (0x0318, "P0318 - Rough Road Sensor A Signal Circuit");
  (0x0319, "P0319 - Rough Road Sensor B Signal Circuit");
  (0x0320, "P0320 - Ignition/Distributor Engine Speed Input Circuit Malfunction");
  (0x0321, "P0321 - Ignition/Distributor Engine Speed Input Circuit Range/Performance");
  (0x0322, "P0322 - Ignition/Distributor Engine Speed Input Circuit No Signal");
  (0x0323, "P0323 - Ignition/Distributor Engine Speed Input Circuit Intermittent");
  (0x0324, "P0324 - Single Cylinder Misfire (Cylinder not Specified)");
  (0x0325, "P0325 - Knock Sensor 1 Circuit (Bank 2 or Single Sensor)");
  (0x0326, "P0326 - Knock Sensor 1 Circuit Range/Performance (Bank 2 or Single Sensor)");
  (0x0327, "P0327 - Knock Sensor 1 Circuit low Input (Bank 2 or Single Sensor)");
  (0x0328, "P0328 - Knock Sensor 1 Circuit High Input (Bank 2 or Single Sensor)");
  (0x0329, "P0329 - Knock Sensor 1 Circuit Input Intermittent (Bank 2 or Single Sensor)");
  (0x0330, "P0330 - Knock Sensor 2 Circuit (Bank 2)");
  (0x0331, "P0331 - Knock Sensor 2 Circuit Range/Performance (Bank 2)");
  (0x0332, "P0332 - Knock Sensor 2 Circuit Low Input (Bank 2)");
  (0x0333, "P0333 - Knock Sensor 2 Circuit High Input (Bank 2)");
  (0x0334, "P0334 - Knock Sensor 2 Circuit Input Intermittent (Bank 2)");
  (0x0335, "P0335 - Crankshaft Position Sensor A Circuit Malfunction");
  (0x0336, "P0336 - Crankshaft Position Sensor A Circuit Range/Performance");
  (0x0337, "P0337 - Crankshaft Position Sensor A Circuit Low Input");
  (0x0338, "P0338 - Crankshaft Position Sensor A Circuit High Input");
  (0x0339, "P0339 - Crankshaft Position Sensor A Circuit Intermittent");
  (0x0340, "P0340 - Camshaft Position Sensor Circuit Malfunction");
  (0x0341, "P0341 - Camshaft Position Sensor Circuit Range/Performance");
  (0x0342, "P0342 - Camshaft Position Sensor Circuit Low Input");
  (0x0343, "P0343 - Camshaft Position Sensor Circuit High Input");
  (0x0344, "P0344 - Camshaft Position Sensor Circuit Intermittent");
  (0x0345, "P0345 - Camshaft Position Sensor A Circuit (Bank 2)");
  (0x0346, "P0346 - Camshaft Position Sensor A Circuit Range/Performance (Bank 2)");
  (0x0347, "P0347 - Camshaft Position Sensor A Circuit Low Input (Bank 2)");
  (0x0348, "P0348 - Camshaft Position Sensor A Circuit High Input (Bank 2)");
  (0x0349, "P0349 - Camshaft Position Sensor A Circuit Intermittent (Bank 2)");
  (0x0350, "P0350 - Ignition Coil Primary/Secondary Circuit Malfunction");
  (0x0351, "P0351 - Ignition Coil A Primary/Secondary Circuit Malfunction");
  (0x0352, "P0352 - Ignition Coil B Primary/Secondary Circuit Malfunction");
  (0x0353, "P0353 - Ignition Coil C Primary/Secondary Circuit Malfunction");
  (0x0354, "P0354 - Ignition Coil D Primary/Secondary Circuit Malfunction");
  (0x0355, "P0355 - Ignition Coil E Primary/Secondary Circuit Malfunction");
  (0x0356, "P0356 - Ignition Coil F Primary/Secondary Circuit Malfunction");
  (0x0357, "P0357 - Ignition Coil G Primary/Secondary Circuit Malfunction");
  (0x0358, "P0358 - Ignition Coil H Primary/Secondary Circuit Malfunction");
  (0x0359, "P0359 - Ignition Coil I Primary/Secondary Circuit Malfunction");
  (0x0360, "P0360 - Ignition Coil J Primary/Secondary Circuit Malfunction");
  (0x0361, "P0361 - Ignition Coil K Primary/Secondary Circuit Malfunction");
  (0x0362, "P0362 - Ignition Coil L Primary/Secondary Circuit Malfunction");
  (0x0363, "P0363 - Misfire Detected - Fueling Disabled");
  (0x0364, "P0364 - Ignition Coil L Primary/Secondary Circuit");
  (0x0365, "P0365 - Camshaft Position Sensor B Circuit (Bank 2)");
  (0x0366, "P0366 - Camshaft Position Sensor B Circuit Range/Performance (Bank 2)");
  (0x0367, "P0367 - Camshaft Position Sensor B Circuit Low Input (Bank 2)");
  (0x0368, "P0368 - Camshaft Position Sensor B Circuit High Input (Bank 2)");
  (0x0369, "P0369 - Camshaft Position Sensor B Circuit Intermittent (Bank 2)");
  (0x0370, "P0370 - Timing Reference High Resolution Signal A Malfunction");
  (0x0371, "P0371 - Timing Reference High Resolution Signal A Too Many Pulses");
  (0x0372, "P0372 - Timing Reference High Resolution Signal A Too Few Pulses");
  (0x0373, "P0373 - Timing Reference High Resolution Signal A Intermittent/Erratic Pulses");
  (0x0374, "P0374 - Timing Reference High Resolution Signal A No Pulses");
  (0x0375, "P0375 - Timing Reference High Resolution Signal B Malfunction");
  (0x0376, "P0376 - Timing Reference High Resolution Signal B Too Many Pulses");
  (0x0377, "P0377 - Timing Reference High Resolution Signal B Too Few Pulses");
  (0x0378, "P0378 - Timing Reference High Resolution Signal B Intermittent/Erratic Pulses");
  (0x0379, "P0379 - Timing Reference High Resolution Signal B No Pulses");
  (0x0380, "P0380 - Glow Plug/Heater Circuit A Malfunction More details...");
  (0x0381, "P0381 - Glow Plug/Heater Indicator Circuit Malfunction");
  (0x0382, "P0382 - Glow Plug/Heater Circuit B Malfunction");
  (0x0383, "P0383 - Glow Plug/Heater Indicator Circuit");
  (0x0384, "P0384 - Glow Plug/Heater Circuit B");
  (0x0385, "P0385 - Crankshaft Position Sensor B Circuit Malfunction");
  (0x0386, "P0386 - Crankshaft Position Sensor B Circuit Range/Performance");
  (0x0387, "P0387 - Crankshaft Position Sensor B Circuit Low Input");
  (0x0388, "P0388 - Crankshaft Position Sensor B Circuit High Input");
  (0x0389, "P0389 - Crankshaft Position Sensor B Circuit Intermittent");
  (0x0390, "P0390 - Camshaft Position Sensor B Circuit (Bank 2)");
  (0x0391, "P0391 - Camshaft Position Sensor B Circuit Range/Performance (Bank 2)");
  (0x0392, "P0392 - Camshaft Position Sensor B Circuit Low Input (Bank 2)");
  (0x0393, "P0393 - Camshaft Position Sensor B Circuit High Input (Bank 2)");
  (0x0394, "P0394 - Camshaft Position Sensor B Circuit Intermittent (Bank 2)");
  (0x0395, "P0395 - Camshaft Position Sensor B Circuit High Input (Bank 2)");
  (0x0396, "P0396 - Camshaft Position Sensor B Circuit Intermittent (Bank 2)");
  (0x0397, "P0397 -");
  (0x0398, "P0398 -");
  (0x0399, "P0399 -");
  (0x0400, "P0400 - Exhaust Gas Recirculation Flow Malfunction");
  (0x0401, "P0401 - Exhaust Gas Recirculation Flow Insufficient Detected");
  (0x0402, "P0402 - Exhaust Gas Recirculation Flow Excessive Detected");
  (0x0403, "P0403 - Exhaust Gas Recirculation Circuit Malfunction");
  (0x0404, "P0404 - Exhaust Gas Recirculation Circuit Range/Performance");
  (0x0405, "P0405 - Exhaust Gas Recirculation Sensor A Circuit Low");
  (0x0406, "P0406 - Exhaust Gas Recirculation Sensor A Circuit High");
  (0x0407, "P0407 - Exhaust Gas Recirculation Sensor B Circuit Low");
  (0x0408, "P0408 - Exhaust Gas Recirculation Sensor B Circuit High");
  (0x0409, "P0409 - Exhaust Gas Recirculation Sensor A Circuit");
  (0x0410, "P0410 - Secondary Air Injection System Malfunction");
  (0x0411, "P0411 - Secondary Air Injection System Incorrect Flow Detected");
  (0x0412, "P0412 - Secondary Air Injection System Switching Valve A Circuit Malfunction");
  (0x0413, "P0413 - Secondary Air Injection System Switching Valve A Circuit Open");
  (0x0414, "P0414 - Secondary Air Injection System Switching Valve A Circuit Shorted");
  (0x0415, "P0415 - Secondary Air Injection System Switching Valve B Circuit Malfunction");
  (0x0416, "P0416 - Secondary Air Injection System Switching Valve B Circuit Open");
  (0x0417, "P0417 - Secondary Air Injection System Switching Valve B Circuit Shorted");
  (0x0418, "P0418 - Secondary Air Injection System Relay A circuit Malfunction");
  (0x0419, "P0419 - Secondary Air Injection System Relay B Circuit Malfunction")].
Definition kPCodes4 : list (Z * string) := [
  (0x0420, "P0420 - Catalyst System Efficiency Below Threshold (Bank 1)");
  (0x0421, "P0421 - Warm Up Catalyst Efficiency Below Threshold (Bank 1)");
  (0x0422, "P0422 - Main Catalyst Efficiency Below Threshold (Bank 1)");
  (0x0423, "P0423 - Heated Catalyst Efficiency Below Threshold (Bank 1)");
  (0x0424, "P0424 - Heated Catalyst Temperature Below Threshold (Bank 1)");
  (0x0425, "P0425 - Catalyst Temperature Sensor (Bank 1 Sensor 1)");
  (0x0426, "P0426 - Catalyst Temperature Sensor Range/Performance (Bank 1 Sensor 1)");
  (0x0427, "P0427 - Catalyst Temperature Sensor Low Input (Bank 1 Sensor 1)");
  (0x0428, "P0428 - Catalyst Temperature Sensor High Input (Bank 1 Sensor 1)");
  (0x0429, "P0429 - Catalyst Heater Control Circuit (Bank 1)");
  (0x0430, "P0430 - Catalyst System Efficiency Below Threshold (Bank 2)");
  (0x0431, "P0431 - Warm Up Catalyst Efficiency Below Threshold (Bank 2)");
  (0x0432, "P0432 - Main Catalyst Efficiency Below Threshold (Bank 2)");
  (0x0433, "P0433 - Heated Catalyst Efficiency Below Threshold (Bank 2)");
  (0x0434, "P0434 - Heated Catalyst Temperature Below Threshold (Bank 2)");
  (0x0435, "P0435 - Catalyst Temperature Sensor (Bank 2 Sensor 1)");
  (0x0436, "P0436 - Catalyst Temperature Sensor Range/Performance (Bank 2 Sensor 1)");
  (0x0437, "P0437 - Catalyst Temperature Sensor Low Input (Bank 2 Sensor 1)");
  (0x0438, "P0438 - Catalyst Temperature Sensor High Input (Bank 2 Sensor 1)");
  (0x0439, "P0439 - Catalyst Heater Control Circuit (Bank 2)");
  (0x0440, "P0440 - Evaporative Emission Control System Malfunction");
  (0x0441, "P0441 - Evaporative Emission Control System Incorrect Purge flow");
  (0x0442, "P0442 - Evaporative Emission Control System leak Detected (small leak)");
  (0x0443, "P0443 - Evaporative Emission Control System Purge Control Valve circuit Malfunction");
  (0x0444, "P0444 - Evaporative Emission Control System Purge Control Valve Circuit Open");
  (0x0445, "P0445 - Evaporative Emission Control System Purge Control Valve Circuit Shorted");
  (0x0446, "P0446 - Evaporative Emission Control System Vent Control Circuit Malfunction");
  (0x0447, "P0447 - Evaporative Emission Control System Vent Control Circuit Open");
  (0x0448, "P0448 - Evaporative Emission Control System Vent Control Circuit Shorted");
  (0x0449, "P0449 - Evaporative Emission Control System Vent Valve/Solenoid Circuit Malfunction");
  (0x0452, "P0452 - - Evaporative Emission Control System Pressure Sensor Low Input");
  (0x0455, "P0455 - System Gross Leak Evaporative Emission");
  (0x0456, "P0456 - Evaporative Emissions System Small Leak Detected");
  (0x0457, "P0457 - Evaporative Emission Control System Leak Detected");
  (0x0460, "P0460 - Evaporative Emission Control System Pressure Sensor Malfunction / Fuel Level Sensor Circuit Malfunction");
  (0x0461, "P0461 - Evaporative Emission Control System Pressure Sensor Range/Performance / Fuel Level Sensor Circuit Range/Performance");
  (0x0462, "P0462 - Evaporative Emission Control System Pressure Sensor Low Input / Fuel Level Sensor Circuit Low Input");
  (0x0463, "P0463 - Evaporative Emission Control System Pressure Sensor High Input / Fuel Level Sensor Circuit High Input");
  (0x0464, "P0464 - Evaporative Emission Control System Pressure Sensor Intermittent / Fuel Level Sensor Circuit Intermittent");
  (0x0465, "P0465 - Evaporative Emission Control System Tank Detected (gross leak) / Purge Flow Sensor Circuit Malfunction");
  (0x0466, "P0466 - Evaporative Emission System Leak Detected (very small leak) / Purge Flow Sensor Circuit Range/Performance");
  (0x0467, "P0467 - Evaporative Emission System Leak Detected (fuel cap loose/off) / Purge Flow Sensor Circuit Low Input");
  (0x0468, "P0468 - Evaporative Emission System Purge Control Valve Circuit Low / Purge Flow Sensor Circuit High Input");
  (0x0469, "P0469 - Evaporative Emission System Purge Control Valve Circuit High / Purge Flow Sensor Circuit Intermittent");
  (0x0470, "P0470 - Exhaust Pressure Sensor Malfunction");
  (0x0471, "P0471 - Exhaust Pressure Sensor Range/Performance");
  (0x0472, "P0472 - Exhaust Pressure Sensor Low");
  (0x0473, "P0473 - Exhaust Pressure Sensor High");
  (0x0474, "P0474 - Exhaust Pressure Sensor Intermittent");
  (0x0475, "P0475 - Exhaust Pressure Control Valve Malfunction");
  (0x0476, "P0476 - Exhaust Pressure Control Valve Range/Performance");
  (0x0477, "P0477 - Exhaust Pressure Control Valve Low");
  (0x0478, "P0478 - Exhaust Pressure Control Valve High");
  (0x0479, "P0479 - Exhaust Pressure Control Valve Intermittent");
  (0x0480, "P0480 - Cooling Fan 1 Control Circuit Malfunction");
  (0x0481, "P0481 - Cooling Fan 2 Control Circuit Malfunction");
  (0x0482, "P0482 - Cooling Fan 3 Control Circuit Malfunction");
  (0x0483, "P0483 - Cooling Fan Rationality Check Malfunction");
  (0x0484, "P0484 - Cooling Fan Circuit Over Current");
  (0x0485, "P0485 - Cooling Fan Power/Ground Circuit Malfunction");
  (0x0486, "P0486 - Exhaust Gas Recirculation Sensor B Circuit");
  (0x0487, "P0487 - Exhaust Gas Recirculation Throttle Position Control Circuit");
  (0x0488, "P0488 - Exhaust Gas Recirculation Throttle Position Control Range/Performance");
  (0x0489, "P0489 - Exhaust Gas Recirculation Control Circuit Low");
  (0x0490, "P0490 - Exhaust Gas Recirculation Control Circuit Low");
  (0x0491, "P0491 - Secondary Air Injection System (Bank 2)");
  (0x0492, "P0492 - Secondary Air Injection System (Bank 2)");
  (0x0493, "P0493 - Fan Overspeed (clutch locked)");
  (0x0494, "P0494 - Fan Speed Low");
  (0x0495, "P0495 - Fan Speed High");
  (0x0496, "P0496 - Evaporative Emission System High Purge Flow");
  (0x0497, "P0497 - Evaporative Emission System Low Purge Flow");
  (0x0498, "P0498 - Evaporative Emission System Vent Control Circuit Low");
  (0x0499, "P0499 - Evaporative Emission System Vent Control Circuit High");
  (0x0500, "P0500 - Vehicle Speed Sensor Malfunction");
  (0x0501, "P0501 - Vehicle Speed Sensor Range/Performance");
  (0x0502, "P0502 - Vehicle Speed Sensor Circuit Low Input");
  (0x0503, "P0503 - Vehicle Speed Sensor Intermittent/Erratic/High");
  (0x0504, "P0504 - Brake Switch A / B Correlation");
  (0x0505, "P0505 - Idle Control System Malfunction");
  (0x0506, "P0506 - Idle Control System RPM lower Than Expected");
  (0x0507, "P0507 - Idle Control System RPM higher Than Expected");
  (0x0508, "P0508 - Idle Air Control System Circuit Low");
  (0x0509, "P0509 - Idle Air Control System Circuit High");
  (0x0510, "P0510 - Closed Throttle Position Switch Malfunction");
  (0x0511, "P0511 - Idle Air Control Circuit");
  (0x0512, "P0512 - Starter Request Circuit");
  (0x0513, "P0513 - Incorrect Immobilizer Key");
  (0x0514, "P0514 - Battery Temperature Sensor Circuit Range/Performance");
  (0x0515, "P0515 - Battery Temperature Sensor Circuit");
  (0x0516, "P0516 - Battery Temperature Sensor Circuit Low");
  (0x0517, "P0517 - Battery Temperature Sensor Circuit High");
  (0x0518, "P0518 - Idle Air Control Circuit Intermittent");
  (0x0519, "P0519 - Idle Air Control Circuit System Performance");
  (0x0520, "P0520 - Engine Oil Pressure Sensor/Switch Circuit Malfunction");
  (0x0521, "P0521 - Engine Oil Pressure Sensor/Switch Range/Performance");
  (0x0522, "P0522 - Engine Oil Pressure Sensor/Switch Low Voltage");
  (0x0523, "P0523 - Engine Oil Pressure Sensor/Switch High Voltage");
  (0x0524, "P0524 - Engine Oil Pressure Too Low");
  (0x0525, "P0525 - Cruise Control Servo Control Circuit Range/Performance");
  (0x0526, "P0526 - Fan Speed Sensor Circuit");
  (0x0527, "P0527 - Fan Speed Sensor Circuit Range/Performance");
  (0x0528, "P0528 - Fan Speed Sensor Circuit No Signal");
  (0x0529, "P0529 - Fan Speed Sensor Circuit Intermittent");
  (0x0530, "P0530 - A/C Refrigerant Pressure Sensor Circuit Malfunction");
  (0x0531, "P0531 - A/C Refrigerant Pressure Sensor Circuit Range/Performance");
  (0x0532, "P0532 - A/C Refrigerant Pressure Sensor Circuit Low Input");
  (0x0533, "P0533 - A/C Refrigerant pressure Sensor Circuit High Input");
  (0x0534, "P0534 - Air Conditioner Refrigerant Charge Loss");
  (0x0535, "P0535 - A/C Evaporator Temperature Sensor Circuit");
  (0x0536, "P0536 - A/C Evaporator Temperature Sensor Circuit Range/Performance");
  (0x0537, "P0537 - A/C Evaporator Temperature Sensor Circuit Low");
  (0x0538, "P0538 - A/C Evaporator Temperature Sensor Circuit High");
  (0x0539, "P0539 - A/C Evaporator Temperature Sensor Circuit Intermittent");
  (0x0540, "P0540 - Intake Air Heater A Circuit");
  (0x0541, "P0541 - Intake Air Heater A Circuit Low");
  (0x0542, "P0542 - Intake Air Heater A Circuit High");
  (0x0543, "P0543 - Intake Air Heater A Circuit Open");
  (0x0544, "P0544 - Exhaust Gas Temperature Sensor Circuit - Bank 2 Sensor 1");
  (0x0545, "P0545 - Exhaust Gas Temperature Sensor Circuit Low - Bank 2 Sensor 1");
  (0x0546, "P0546 - Exhaust Gas Temperature Sensor Circuit High - Bank 2 Sensor 1");
  (0x0547, "P0547 - Exhaust Gas Temperature Sensor Circuit - Bank 2 Sensor 1");
  (0x0548, "P0548 - Exhaust Gas Temperature Sensor Circuit Low - Bank 2 Sensor 1");
  (0x0549, "P0549 - Exhaust Gas Temperature Sensor Circuit High - Bank 2 Sensor 1");
  (0x0550, "P0550 - Power Steering Pressure Sensor Circuit Malfunction");
  (0x0551, "P0551 - Power Steering Pressure Sensor Circuit Range/Performance");
  (0x0552, "P0552 - Power Steering Pressure Sensor Circuit Low Input");
  (0x0553, "P0553 - Power Steering Pressure Sensor Circuit High Input");
  (0x0554, "P0554 - Power Steering Pressure sensor Circuit Intermittent");
  (0x0555, "P0555 - Brake Booster Pressure Sensor Circuit")].
Definition kPCodes5 : list (Z * string) := [
  (0x0556, "P0556 - Brake Booster Pressure Sensor Circuit Range/Performance");
  (0x0557, "P0557 - Brake Booster Pressure Sensor Circuit Low Input");
  (0x0558, "P0558 - Brake Booster Pressure Sensor Circuit High Input");
  (0x0559, "P0559 - Brake Booster Pressure Sensor Circuit Intermittent");
  (0x0560, "P0560 - System Voltage Malfunction");
  (0x0561, "P0561 - System Voltage Unstable");
  (0x0562, "P0562 - System Voltage Low");
  (0x0563, "P0563 - System Voltage High");
  (0x0564, "P0564 - Cruise Control Multi-Function Input A Circuit");
  (0x0565, "P0565 - Cruise Control On Signal Malfunction");
  (0x0566, "P0566 - Cruise Control Off Signal Malfunction");
  (0x0567, "P0567 - Cruise Control Resume Signal Malfunction");
  (0x0568, "P0568 - Cruise Control Set Signal Malfunction");
  (0x0569, "P0569 - Cruise Control Coast Signal Malfunction");
  (0x0570, "P0570 - Cruise Control Accel Signal Malfunction");
  (0x0571, "P0571 - Cruise Control/Brake Switch A Circuit Malfunction");
  (0x0572, "P0572 - Cruise Control/Brake Switch A Circuit Low");
  (0x0573, "P0573 - Cruise Control/Brake Switch A Circuit High");
  (0x0574, "P0574 - Cruise Control System - Vehicle Speed Too High");
  (0x0575, "P0575 - Cruise Control Input Circuit");
  (0x0576, "P0576 - Cruise Control Input Circuit Low");
  (0x0577, "P0577 - Cruise Control Input Circuit High");
  (0x0578, "P0578 - Cruise Control Multi-Function Input A Circuit Stuck");
  (0x0579, "P0579 - Cruise Control Multi-Function Input A Circuit Range/Performance");
  (0x0580, "P0580 - Cruise Control Multi-Function Input A Circuit Low");
  (0x0581, "P0581 - Cruise Control Multi-Function Input A Circuit High");
  (0x0582, "P0582 - Cruise Control Vacuum Control Circuit /Open");
  (0x0583, "P0583 - Cruise Control Vacuum Control Circuit Low");
  (0x0584, "P0584 - Cruise Control Vacuum Control Circuit High");
  (0x0585, "P0585 - Cruise Control Multi-Function Input A / B Correlation");
  (0x0586, "P0586 - Cruise Control Vent Control Circuit / Open");
  (0x0587, "P0587 - Cruise Control Vent Control Circuit Low");
  (0x0588, "P0588 - Cruise Control Vent Control Circuit High");
  (0x0589, "P0589 - Cruise Control Multi-Function Input B Circuit");
  (0x0590, "P0590 - Cruise Control Multi-Function Input B Circuit Stuck");
  (0x0591, "P0591 - Cruise Control Multi-Function Input B Circuit Range/Performance");
  (0x0592, "P0592 - Cruise Control Multi-Function Input B Circuit Low");
  (0x0593, "P0593 - Cruise Control Multi-Function Input B Circuit High");
  (0x0594, "P0594 - Cruise Control Servo Control Circuit / Open");
  (0x0595, "P0595 - Cruise Control Servo Control Circuit Low");
  (0x0596, "P0596 - Cruise Control Servo Control Circuit High");
  (0x0597, "P0597 - Thermostat Heater Control Circuit / Open");
  (0x0598, "P0598 - Thermostat Heater Control Circuit Low");
  (0x0599, "P0599 - Thermostat Heater Control Circuit High");
  (0x0600, "P0600 - Serial Communication Link Malfunction");
  (0x0601, "P0601 - Internal Control Module Memory Check Sum Error");
  (0x0602, "P0602 - Control Module Programming Error");
  (0x0603, "P0603 - Internal Control Module Keep Alive Memory (KAM) Error");
  (0x0604, "P0604 - Internal Control Module Random Access Memory (RAM) Error");
  (0x0605, "P0605 - Internal Control Module Read Only Memory (ROM) Error (Module Identification Defined by SAE J1979)");
  (0x0606, "P0606 - ECM/PCM Processor Fault");
  (0x0607, "P0607 - Control Module Performance");
  (0x0608, "P0608 - Control Module VSS Output A Malfunction");
  (0x0609, "P0609 - Control Module VSS Output B Malfunction");
  (0x0610, "P0610 - Control Module VSS Output B Malfunction");
  (0x0611, "P0611 - Fuel Injector Control Module Performance");
  (0x0612, "P0612 - Fuel Injector Control Module Relay Control Circuit");
  (0x0613, "P0613 - TCM Processor");
  (0x0614, "P0614 - ECM / TCM Mismatch");
  (0x0615, "P0615 - Starter Relay Circuit");
  (0x0616, "P0616 - Starter Relay Circuit Low");
  (0x0617, "P0617 - Starter Relay Circuit High");
  (0x0618, "P0618 - Alternative Fuel Control Module KAM Error");
  (0x0619, "P0619 - Alternative Fuel Control Module RAM/ROM Error");
  (0x0620, "P0620 - Generator Control Circuit Malfunction");
  (0x0621, "P0621 - Generator Lamp L Control Circuit Malfunction");
  (0x0622, "P0622 - Generator Field F Control Circuit Malfunction");
  (0x0623, "P0623 - Generator Lamp Control Circuit");
  (0x0624, "P0624 - Fuel Cap Lamp Control Circuit");
  (0x0625, "P0625 - Generator Field Terminal Circuit Low");
  (0x0626, "P0626 - Generator Field Terminal Circuit High");
  (0x0627, "P0627 - Fuel Pump A Control Circuit / Open");
  (0x0628, "P0628 - Fuel Pump A Control Circuit Low");
  (0x0629, "P0629 - Fuel Pump A Control Circuit High");
  (0x0630, "P0630 - VIN Not Programmed or Mismatch - ECM/PCM");
  (0x0631, "P0631 - VIN Not Programmed or Mismatch - TCM");
  (0x0632, "P0632 - Odometer Not Programmed - ECM/PCM");
  (0x0633, "P0633 - Immobolizer Key Not Programmed - ECM/PCM");
  (0x0634, "P0634 - PCM / ECM / TCM Internal Temperature Too High");
  (0x0635, "P0635 - Power Steering Control Circuit");
  (0x0636, "P0636 - Power Steering Control Circuit Low");
  (0x0637, "P0637 - Power Steering Control Circuit High");
  (0x0638, "P0638 - Throttle Actuator Control Range/Performance (Bank 1)");
  (0x0639, "P0639 - Throttle Actuator Control Range/Performance (Bank 2)");
  (0x0640, "P0640 - Intake Air Heater Control Circuit");
  (0x0641, "P0641 - Sensor Reference Voltage A Circuit/Open");
  (0x0642, "P0642 - Sensor Reference Voltage A Circuit Low");
  (0x0643, "P0643 - Sensor Reference Voltage A Circuit High");
  (0x0644, "P0644 - Driver Display Serial Communication Circuit");
  (0x0645, "P0645 - A/C Clutch Relay Control Circuit");
  (0x0646, "P0646 - A/C Clutch Relay Control Circuit Low");
  (0x0647, "P0647 - A/C Clutch Relay Control Circuit High");
  (0x0648, "P0648 - Immobilizer Lamp Control Circuit");
  (0x0649, "P0649 - Speed Control Lamp Control Circuit");
  (0x0650, "P0650 - Malfunction Indicator Lamp (MIL) Control Circuit Malfunction");
  (0x0651, "P0651 - Sensor Reference Voltage B Circuit/Open");
  (0x0652, "P0652 - Sensor Reference Voltage B Circuit Low");
  (0x0653, "P0653 - Sensor Reference Voltage B Circuit High");
  (0x0654, "P0654 - Engine RPM Output Circuit Malfunction");
  (0x0655, "P0655 - Engine Hot Lamp Output Control Circuit Malfunction");
  (0x0656, "P0656 - Fuel Level Output Circuit Malfunction");
  (0x0657, "P0657 - Actuator Supply Voltage Circuit / Open");
  (0x0658, "P0658 - Actuator Supply Voltage Circuit Low");
  (0x0659, "P0659 - Actuator Supply Voltage Circuit High");
  (0x0660, "P0660 - Intake Manifold Tuning Valve Control Circuit (Bank 1)");
  (0x0661, "P0661 - Intake Manifold Tuning Valve Control Circuit Low (Bank 1)");
  (0x0662, "P0662 - Intake Manifold Tuning Valve Control Circuit High (Bank 1)");
  (0x0663, "P0663 - Intake Manifold Tuning Valve Control Circuit (Bank 2)");
  (0x0664, "P0664 - Intake Manifold Tuning Valve Control Circuit Low (Bank 2)");
  (0x0665, "P0665 - Intake Manifold Tuning Valve Control Circuit High (Bank 2)");
  (0x0666, "P0666 - PCM / ECM / TCM Internal Temperature Sensor Circuit");
  (0x0667, "P0667 - PCM / ECM / TCM Internal Temperature Sensor Range/Performance");
  (0x0668, "P0668 - PCM / ECM / TCM Internal Temperature Sensor Circuit Low");
  (0x0669, "P0669 - PCM / ECM / TCM Internal Temperature Sensor Circuit High");
  (0x0670, "P0670 - Glow Plug Module Control Circuit More details...");
  (0x0671, "P0671 - Cylinder 1 Glow Plug Circuit");
  (0x0672, "P0672 - Cylinder 2 Glow Plug Circuit");
  (0x0673, "P0673 - Cylinder 3 Glow Plug Circuit");
  (0x0674, "P0674 - Cylinder 4 Glow Plug Circuit");
  (0x0675, "P0675 - Cylinder 5 Glow Plug Circuit");
  (0x0676, "P0676 - Cylinder 6 Glow Plug Circuit");
  (0x0677, "P0677 - Cylinder 7 Glow Plug Circuit");
  (0x0678, "P0678 - Cylinder 8 Glow Plug Circuit");
  (0x0679, "P0679 - Cylinder 9 Glow Plug Circuit");
  (0x0680, "P0680 - Cylinder 10 Glow Plug Circuit");
  (0x0681, "P0681 - Cylinder 11 Glow Plug Circuit");
  (0x0682, "P0682 - Cylinder 12 Glow Plug Circuit");
  (0x0683, "P0683 - Glow Plug Control Module to PCM Communication Circuit");
  (0x0684, "P0684 - Glow Plug Control Module to PCM Communication Circuit Range/Performance");
  (0x0685, "P0685 - ECM/PCM Power Relay Control Circuit/Open");
  (0x0686, "P0686 - ECM/PCM Power Relay Control Circuit Low");
  (0x0687, "P0687 - ECM/PCM Power Relay Control Circuit High");
  (0x0688, "P0688 - ECM/PCM Power Relay Sense Circuit");
  (0x0689, "P0689 - ECM/PCM Power Relay Sense Circuit Low");
  (0x0690, "P0690 - ECM/PCM Power Relay Sense Circuit High");
  (0x0691, "P0691 - Fan 1 Control Circuit Low");
  (0x0692, "P0692 - Fan 1 Control Circuit High");
  (0x0693, "P0693 - Fan 2 Control Circuit Low");
  (0x0694, "P0694 - Fan 2 Control Circuit High")].
Definition kPCodes6 : list (Z * string) := [
  (0x0695, "P0695 - Fan 3 Control Circuit Low");
  (0x0696, "P0696 - Fan 3 Control Circuit High");
  (0x0697, "P0697 - Sensor Reference Voltage C Circuit / Open");
  (0x0698, "P0698 - Sensor Reference Voltage C Circuit Low");
  (0x0699, "P0699 - Sensor Reference Voltage C Circuit High");
  (0x0700, "P0700 - Transmission Control System Malfunction");
  (0x0701, "P0701 - Transmission Control System Range/Performance");
  (0x0702, "P0702 - Transmission Control System Electrical");
  (0x0703, "P0703 - Torque Converter/Brake Switch B Circuit Malfunction");
  (0x0704, "P0704 - Clutch Switch Input Circuit Malfunction");
  (0x0705, "P0705 - Transmission Range Sensor Circuit Malfunction (PRNDL Input)");
  (0x0706, "P0706 - Transmission Range Sensor Circuit Range/Performance");
  (0x0707, "P0707 - Transmission Range Sensor Circuit Low Input");
  (0x0708, "P0708 - Transmission Range Sensor Circuit High Input");
  (0x0709, "P0709 - Transmission Range Sensor Circuit Intermittent");
  (0x0710, "P0710 - Transmission Fluid Temperature Sensor Circuit Malfunction");
  (0x0711, "P0711 - Transmission Fluid Temperature Sensor Circuit Range/Performance");
  (0x0712, "P0712 - Transmission Fluid Temperature Sensor Circuit Low Input");
  (0x0713, "P0713 - Transmission Fluid Temperature Sensor Circuit High Input");
  (0x0714, "P0714 - Transmission Fluid Temperature Sensor Circuit Intermittent");
  (0x0715, "P0715 - Input/Turbine Speed Sensor Circuit Malfunction");
  (0x0716, "P0716 - Input/Turbine Speed Sensor Circuit Range/Performance");
  (0x0717, "P0717 - Input/Turbine Speed Sensor Circuit No Signal");
  (0x0718, "P0718 - Input/Turbine Speed Sensor Circuit Intermittent");
  (0x0719, "P0719 - Torque Converter/Brake Switch B Circuit Low");
  (0x0720, "P0720 - Output Speed Sensor Circuit Malfunction");
  (0x0721, "P0721 - Output Speed Sensor Circuit Range/Performance");
  (0x0722, "P0722 - Output Speed Sensor Circuit No Signal");
  (0x0723, "P0723 - Output Speed Sensor Circuit Intermittent");
  (0x0724, "P0724 - Torque Converter/Brake Switch B Circuit High");
  (0x0725, "P0725 - Engine Speed Input Circuit Malfunction");
  (0x0726, "P0726 - Engine Speed Input Circuit Range/Performance");
  (0x0727, "P0727 - Engine Speed Input Circuit No Signal");
  (0x0728, "P0728 - Engine Speed Input Circuit Intermittent");
  (0x0729, "P0729 - Gear 6 Incorrect Ratio");
  (0x0730, "P0730 - Incorrect Gear Ratio");
  (0x0731, "P0731 - Gear 1 Incorrect Ratio");
  (0x0732, "P0732 - Gear 2 Incorrect Ratio");
  (0x0733, "P0733 - Gear 3 Incorrect Ratio");
  (0x0734, "P0734 - Gear 4 Incorrect Ratio");
  (0x0735, "P0735 - Gear 5 Incorrect Ratio");
  (0x0736, "P0736 - Reverse Incorrect Ratio");
  (0x0737, "P0737 - TCM Engine Speed Output Circuit");
  (0x0738, "P0738 - TCM Engine Speed Output Circuit Low");
  (0x0739, "P0739 - Timing Reference High Resolution Signal B No Pulses");
  (0x0740, "P0740 - Torque Converter Clutch Circuit Malfunction");
  (0x0741, "P0741 - Torque Converter Clutch Circuit Performance or Stuck Off");
  (0x0742, "P0742 - Torque Converter Clutch Circuit Stuck On");
  (0x0743, "P0743 - Torque Converter Clutch Circuit Electrical");
  (0x0744, "P0744 - Torque Converter Clutch Circuit Intermittent");
  (0x0745, "P0745 - Pressure Control Solenoid Malfunction");
  (0x0746, "P0746 - Pressure Control Solenoid Performance or Stuck Off");
  (0x0747, "P0747 - Pressure Control Solenoid Stuck On");
  (0x0748, "P0748 - Pressure Control Solenoid Electrical");
  (0x0749, "P0749 - Pressure Control Solenoid Intermittent");
  (0x0750, "P0750 - Shift Solenoid A Malfunction");
  (0x0751, "P0751 - Shift Solenoid A Performance or Stuck Off");
  (0x0752, "P0752 - Shift Solenoid A Stuck On");
  (0x0753, "P0753 - Shift Solenoid A Electrical");
  (0x0754, "P0754 - Shift Solenoid A Intermittent");
  (0x0755, "P0755 - Shift Solenoid B Malfunction");
  (0x0756, "P0756 - Shift Solenoid B Performance or Stuck Off");
  (0x0757, "P0757 - Shift Solenoid B Stuck On");
  (0x0758, "P0758 - Shift Solenoid B Electrical");
  (0x0759, "P0759 - Shift Solenoid B Intermittent");
  (0x0760, "P0760 - Shift Solenoid C Malfunction");
  (0x0761, "P0761 - Shift Solenoid C Performance or Stuck Off");
  (0x0762, "P0762 - Shift Solenoid C Stuck On");
  (0x0763, "P0763 - Shift Solenoid C Electrical");
  (0x0764, "P0764 - Shift Solenoid C Intermittent");
  (0x0765, "P0765 - Shift Solenoid D Malfunction");
  (0x0766, "P0766 - Shift Solenoid D Performance or Stuck Off");
  (0x0767, "P0767 - Shift Solenoid D Stuck On");
  (0x0768, "P0768 - Shift Solenoid D Electrical");
  (0x0769, "P0769 - Shift Solenoid D Intermittent");
  (0x0770, "P0770 - Shift Solenoid E Malfunction");
  (0x0771, "P0771 - Shift Solenoid E Performance or Stuck Off");
  (0x0772, "P0772 - Shift Solenoid E Stuck On");
  (0x0773, "P0773 - Shift Solenoid E Electrical");
  (0x0774, "P0774 - Shift Solenoid E Intermittent");
  (0x0775, "P0775 - Pressure Control Solenoid B");
  (0x0776, "P0776 - Pressure Control Solenoid B Performance or Stuck off");
  (0x0777, "P0777 - Pressure Control Solenoid B Stuck On");
  (0x0778, "P0778 - Pressure Control Solenoid B Electrical");
  (0x0779, "P0779 - Pressure Control Solenoid B Intermittent");
  (0x0780, "P0780 - Shift Malfunction");
  (0x0781, "P0781 - 1-2 Shift Malfunction");
  (0x0782, "P0782 - 2-3 Shift Malfunction");
  (0x0783, "P0783 - 3-4 Shift Malfunction");
  (0x0784, "P0784 - 4-5 Shift Malfunction");
  (0x0785, "P0785 - Shift Timing Solenoid A Malfunction");
  (0x0786, "P0786 - Shift Timing Solenoid A Range/Performance");
  (0x0787, "P0787 - Shift Timing Solenoid A low");
  (0x0788, "P0788 - Shift Timing Solenoid A High");
  (0x0789, "P0789 - Shift Timing Solenoid A Intermittent");
  (0x0790, "P0790 - Normal/Performance Switch Circuit Malfunction");
  (0x0791, "P0791 - Intermediate Shaft Speed Sensor Circuit");
  (0x0792, "P0792 - Intermediate Shaft Speed Sensor Circuit Range/Performance");
  (0x0793, "P0793 - Intermediate Shaft Speed Sensor Circuit No signal");
  (0x0794, "P0794 - Intermediate Shaft Speed Sensor Circuit Intermittent");
  (0x0795, "P0795 - Pressure Control Solenoid C");
  (0x0796, "P0796 - Pressure Control Solenoid C Performance or Stuck off");
  (0x0797, "P0797 - Pressure Control Solenoid C Stuck On");
  (0x0798, "P0798 - Pressure Control Solenoid C Electrical");
  (0x0799, "P0799 - Pressure Control Solenoid C Intermittent");
  (0x0800, "P0800 - Transmission Control System (MIL Request)");
  (0x0801, "P0801 - Reverse Inhibit Control Circuit Malfunction");
  (0x0802, "P0802 - Transmission Control System MIL Request Circuit / Open");
  (0x0803, "P0803 - 1-4 Upshift (Skip Shift) Solenoid Control Circuit Malfunction");
  (0x0804, "P0804 - 1-4 Upshift (Skip Shift) Lamp Control Circuit Malfunction");
  (0x0805, "P0805 - Clutch Position Sensor Circuit Malfunction");
  (0x0806, "P0806 - Clutch Position Sensor Circuit Range/Performance Malfunction");
  (0x0807, "P0807 - Clutch Position Sensor Circuit Low Malfunction");
  (0x0808, "P0808 - Clutch Position Sensor Circuit High Malfunction");
  (0x0809, "P0809 - Clutch Position Sensor Circuit Intermittent Malfunction");
  (0x0810, "P0810 - Clutch Position Control Error");
  (0x0811, "P0811 - Excessive Clutch Slippage");
  (0x0812, "P0812 - Reverse Input Circuit");
  (0x0813, "P0813 - Reverse Output Circuit");
  (0x0814, "P0814 - Transmission Range Display Circuit");
  (0x0815, "P0815 - Upshift Switch Circuit");
  (0x0816, "P0816 - Downshift Switch Circuit");
  (0x0817, "P0817 - Starter Disable Circuit");
  (0x0818, "P0818 - Driveline Disconnect Switch Input Circuit");
  (0x0819, "P0819 - Up and Down Shift Switch to Transmission Range Correlation");
  (0x0820, "P0820 - Gear Lever X - Y Position Sensor Circuit");
  (0x0821, "P0821 - Gear Lever X Position Circuit");
  (0x0822, "P0822 - Gear Lever Y Position Circuit");
  (0x0823, "P0823 - Gear Lever X Position Circuit Intermittent");
  (0x0824, "P0824 - Gear Lever Y Position Circuit Intermittent");
  (0x0825, "P0825 - Gear Lever Push - Pull Switch (Shift Anticipate)");
  (0x0826, "P0826 - Up and Down Switch Input Circuit");
  (0x0827, "P0827 - Up and Down Switch Input Circuit Low");
  (0x0828, "P0828 - Up and Down Switch Input Circuit High");
  (0x0829, "P0829 - 5-6 Shift");
  (0x0830, "P0830 - Clutch Pedal Switch A Circuit");
  (0x0831, "P0831 - Clutch Pedal Switch A Circuit Low");
  (0x0832, "P0832 - Clutch Pedal Switch A Circuit High");
  (0x0833, "P0833 - Clutch Pedal Switch B Circuit");
  (0x0834, "P0834 - Clutch Pedal Switch B Circuit Low")].
Definition kPCodes7 : list (Z * string) := [
  (0x0835, "P0835 - Clutch Pedal Switch B Circuit High");
  (0x0836, "P0836 - Four Wheel Drive (4WD) Switch Circuit");
  (0x0837, "P0837 - Four Wheel Drive (4WD) Switch Circuit Range/Performance");
  (0x0838, "P0838 - Four Wheel Drive (4WD) Switch Circuit Low");
  (0x0839, "P0839 - Four Wheel Drive (4WD) Switch Circuit High");
  (0x0840, "P0840 - Transmission Fluid Pressure Sensor/Switch A Circuit");
  (0x0841, "P0841 - Transmission Fluid Pressure Sensor/Switch A Circuit Range/Performance");
  (0x0842, "P0842 - Transmission Fluid Pressure Sensor/Switch A Circuit Low");
  (0x0843, "P0843 - Transmission Fluid Pressure Sensor/Switch A Circuit High");
  (0x0844, "P0844 - Transmission Fluid Pressure Sensor/Switch A Circuit Intermittent");
  (0x0845, "P0845 - Transmission Fluid Pressure Sensor/Switch B Circuit");
  (0x0846, "P0846 - Transmission Fluid Pressure Sensor/Switch B Circuit Range/Performance");
  (0x0847, "P0847 - Transmission Fluid Pressure Sensor/Switch B Circuit Low");
  (0x0848, "P0848 - Transmission Fluid Pressure Sensor/Switch B Circuit High");
  (0x0849, "P0849 - Transmission Fluid Pressure Sensor/Switch B Circuit Intermittent");
  (0x0850, "P0850 - Park / Neutral Switch Input Circuit");
  (0x0851, "P0851 - Park / Neutral Switch Input Circuit Low");
  (0x0852, "P0852 - Park / Neutral Switch Input Circuit High");
  (0x0853, "P0853 - Drive Switch Input Circuit");
  (0x0854, "P0854 - Drive Switch Input Circuit Low");
  (0x0855, "P0855 - Drive Switch Input Circuit High");
  (0x0856, "P0856 - Traction Control Input Signal");
  (0x0857, "P0857 - Traction Control Input Signal Range/Performance");
  (0x0858, "P0858 - Traction Control Input Signal Low");
  (0x0859, "P0859 - Traction Control Input Signal High");
  (0x0860, "P0860 - Gear Shift Module Communication Circuit");
  (0x0861, "P0861 - Gear Shift Module Communication Circuit Low");
  (0x0862, "P0862 - Gear Shift Module Communication Circuit High");
  (0x0863, "P0863 - TCM Communication Circuit");
  (0x0864, "P0864 - TCM Communication Circuit Range/Performance");
  (0x0865, "P0865 - TCM Communication Circuit Low");
  (0x0866, "P0866 - TCM Communication Circuit High");
  (0x0867, "P0867 - Transmission Fluid Pressure");
  (0x0868, "P0868 - Transmission Fluid Pressure Low");
  (0x0869, "P0869 - Transmission Fluid Pressure High");
  (0x0870, "P0870 - Transmission Fluid Pressure Sensor/Switch C Circuit");
  (0x0871, "P0871 - Transmission Fluid Pressure Sensor/Switch C Circuit Range/Performance");
  (0x0872, "P0872 - Transmission Fluid Pressure Sensor/Switch C Circuit Low");
  (0x0873, "P0873 - Transmission Fluid Pressure Sensor/Switch C Circuit High");
  (0x0874, "P0874 - Transmission Fluid Pressure Sensor/Switch C Circuit Intermittent");
  (0x0875, "P0875 - Transmission Fluid Pressure Sensor/Switch D Circuit");
  (0x0876, "P0876 - Transmission Fluid Pressure Sensor/Switch D Circuit Range/Performance");
  (0x0877, "P0877 - Transmission Fluid Pressure Sensor/Switch D Circuit Low");
  (0x0878, "P0878 - Transmission Fluid Pressure Sensor/Switch D Circuit High");
  (0x0879, "P0879 - Transmission Fluid Pressure Sensor/Switch D Circuit Intermittent");
  (0x0880, "P0880 - TCM Power Input Signal");
  (0x0881, "P0881 - TCM Power Input Signal Range/Performance");
  (0x0882, "P0882 - TCM Power Input Signal Low");
  (0x0883, "P0883 - TCM Power Input Signal High");
  (0x0884, "P0884 - TCM Power Input Signal Intermittent");
  (0x0885, "P0885 - TCM Power Relay Control Circuit /Open");
  (0x0886, "P0886 - TCM Power Relay Control Circuit Low");
  (0x0887, "P0887 - TCM Power Relay Control Circuit High");
  (0x0888, "P0888 - TCM Power Relay Sense Circuit");
  (0x0889, "P0889 - TCM Power Relay Sense Circuit Range/Performance");
  (0x0890, "P0890 - TCM Power Relay Sense Circuit Low");
  (0x0891, "P0891 - TCM Power Relay Sense Circuit High");
  (0x0892, "P0892 - TCM Power Relay Sense Circuit Intermittent");
  (0x0893, "P0893 - Multiple Gears Engaged");
  (0x0894, "P0894 - Transmission Component Slipping");
  (0x0895, "P0895 - Shift Time Too Short");
  (0x0896, "P0896 - Shift Time Too Long");
  (0x0897, "P0897 - Transmission Fluid Deteriorated");
  (0x0898, "P0898 - Transmission Control System MIL Request Circuit Low");
  (0x0899, "P0899 - Transmission Control System MIL Request Circuit High");
  (0x0900, "P0900 - Clutch Actuator Circuit / Open");
  (0x0901, "P0901 - Clutch Actuator Circuit Range/Performance");
  (0x0902, "P0902 - Clutch Actuator Circuit Low");
  (0x0903, "P0903 - Clutch Actuator Circuit High");
  (0x0904, "P0904 - Gate Select Position Circuit [senses left / right position]");
  (0x0905, "P0905 - Gate Select Position Circuit Range/Performance");
  (0x0906, "P0906 - Gate Select Position Circuit Low");
  (0x0907, "P0907 - Gate Select Position Circuit High");
  (0x0908, "P0908 - Gate Select Position Circuit Intermittent");
  (0x0909, "P0909 - Gate Select Control Error");
  (0x0910, "P0910 - Gate Select Actuator Circuit / Open [left / right motion]");
  (0x0911, "P0911 - Gate Select Actuator Circuit Range/Performance");
  (0x0912, "P0912 - Gate Select Actuator Circuit Low");
  (0x0913, "P0913 - Gate Select Actuator Circuit High");
  (0x0914, "P0914 - Gear Shift Position Circuit [senses forward / rearward position, odd / even gears]");
  (0x0915, "P0915 - Gear Shift Position Circuit Range/Performance");
  (0x0916, "P0916 - Gear Shift Position Circuit Low");
  (0x0917, "P0917 - Gear Shift Position Circuit High");
  (0x0918, "P0918 - Gear Shift Position Circuit Intermittent");
  (0x0919, "P0919 - Gear Shift Position Control Error");
  (0x0920, "P0920 - Gear Shift Forward Actuator Circuit / Open [forward motion, odd gears, 1,3,5]");
  (0x0921, "P0921 - Gear Shift Foward Actuator Circuit Range/Performance");
  (0x0922, "P0922 - Gear Shift Foward Actuator Circuit Low");
  (0x0923, "P0923 - Gear Shift Foward Actuator Circuit High");
  (0x0924, "P0924 - Gear Shift Reverse Actuator Circuit / Open [rearward motion, even gears, 2,4,6]");
  (0x0925, "P0925 - Gear Shift Reverse Actuator Circuit Range/Performance");
  (0x0926, "P0926 - Gear Shift Reverse Actuator Circuit Low");
  (0x0927, "P0927 - Gear Shift Reverse Actuator Circuit High");
  (0x0928, "P0928 - Gear Shift Lock Solenoid Circuit / Open");
  (0x0929, "P0929 - Gear Shift Lock Solenoid Circuit Range/Performance");
  (0x0930, "P0930 - Gear Shift Lock Solenoid Circuit Low");
  (0x0931, "P0931 - Gear Shift Lock Solenoid Circuit High");
  (0x0932, "P0932 - Hydraulic Pressure Sensor Circuit");
  (0x0933, "P0933 - Hydraulic Pressure Sensor Range/Performance");
  (0x0934, "P0934 - Hydraulic Pressure Sensor Circuit Low Input");
  (0x0935, "P0935 - Hydraulic Pressure Sensor Circuit High Input");
  (0x0936, "P0936 - Hydraulic Pressure Sensor Circuit Intermittent");
  (0x0937, "P0937 - Hydraulic Oil Temperature Sensor Circuit");
  (0x0938, "P0938 - Hydraulic Oil Temperature Sensor Range/Performance");
  (0x0939, "P0939 - Hydraulic Oil Temperature Sensor Circuit Low Input");
  (0x0940, "P0940 - Hydraulic Oil Temperature Sensor Circuit High Input");
  (0x0941, "P0941 - Hydraulic Oil Temperature Sensor Circuit Intermittent");
  (0x0942, "P0942 - Hydraulic Pressure Unit");
  (0x0943, "P0943 - Hydraulic Pressure Unit Cycling Period Too Short");
  (0x0944, "P0944 - Hydraulic Pressure Unit Loss of Pressure");
  (0x0945, "P0945 - Hydraulic Pump Relay Circuit / Open");
  (0x0946, "P0946 - Hydraulic Pump Relay Circuit Range/Performance");
  (0x0947, "P0947 - Hydraulic Pump Relay Circuit Low");
  (0x0948, "P0948 - Hydraulic Pump Relay Circuit High");
  (0x0949, "P0949 - ASM Adaptive Learning Not Done");
  (0x0950, "P0950 - ASM Control Circuit [Up / Down / Auto / etc]");
  (0x0951, "P0951 - ASM Control Circuit Range/Performance");
  (0x0952, "P0952 - ASM Control Circuit Low");
  (0x0953, "P0953 - ASM Control Circuit High");
  (0x0954, "P0954 - ASM Control Circuit Intermittent");
  (0x0955, "P0955 - ASM Mode Circuit [Perf / Winter / Sport / etc]");
  (0x0956, "P0956 - ASM Mode Circuit Range/Performance");
  (0x0957, "P0957 - ASM Mode Circuit Low");
  (0x0958, "P0958 - ASM Mode Circuit High");
  (0x0959, "P0959 - ASM Mode Circuit Intermittent");
  (0x0960, "P0960 - Pressure Control Solenoid A Control Circuit / Open");
  (0x0961, "P0961 - Pressure Control Solenoid A Control Circuit Range/Performance");
  (0x0962, "P0962 - Pressure Control Solenoid A Control Circuit Low");
  (0x0963, "P0963 - Pressure Control Solenoid A Control Circuit High");
  (0x0964, "P0964 - Pressure Control Solenoid B Control Circuit / Open");
  (0x0965, "P0965 - Pressure Control Solenoid B Control Circuit Range/Performance");
  (0x0966, "P0966 - Pressure Control Solenoid B Control Circuit Low");
  (0x0967, "P0967 - Pressure Control Solenoid B Control Circuit High");
  (0x0968, "P0968 - Pressure Control Solenoid C Control Circuit / Open");
  (0x0969, "P0969 - Pressure Control Solenoid C Control Circuit Range/Performance");
  (0x0970, "P0970 - Pressure Control Solenoid C Control Circuit Low");
  (0x0971, "P0971 - Pressure Control Solenoid C Control Circuit High");
  (0x0972, "P0972 - Shift Solenoid A Control Circuit Range/Performance");
  (0x0973, "P0973 - Shift Solenoid A Control Circuit Low");
  (0x0974, "P0974 - Shift Solenoid A Control Circuit High")].
Definition kPCodes8 : list (Z * string) := [
  (0x0975, "P0975 - Shift Solenoid B Control Circuit Range/Performance");
  (0x0976, "P0976 - Shift Solenoid B Control Circuit Low");
  (0x0977, "P0977 - Shift Solenoid B Control Circuit High");
  (0x0978, "P0978 - Shift Solenoid C Control Circuit Range/Performance");
  (0x0979, "P0979 - Shift Solenoid C Control Circuit Low");
  (0x0980, "P0980 - Shift Solenoid C Control Circuit High");
  (0x0981, "P0981 - Shift Solenoid D Control Circuit Range/Performance");
  (0x0982, "P0982 - Shift Solenoid D Control Circuit Low");
  (0x0983, "P0983 - Shift Solenoid D Control Circuit High");
  (0x0984, "P0984 - Shift Solenoid E Control Circuit Range/Performance");
  (0x0985, "P0985 - Shift Solenoid E Control Circuit Low");
  (0x0986, "P0986 - Shift Solenoid E Control Circuit High");
  (0x0987, "P0987 - Transmission Fluid Pressure Sensor/Switch E Circuit");
  (0x0988, "P0988 - Transmission Fluid Pressure Sensor/Switch E Circuit Range/Performance");
  (0x0989, "P0989 - Transmission Fluid Pressure Sensor/Switch E Circuit Low");
  (0x0990, "P0990 - Transmission Fluid Pressure Sensor/Switch E Circuit High");
  (0x0991, "P0991 - Transmission Fluid Pressure Sensor/Switch E Circuit Intermittent");
  (0x0992, "P0992 - Transmission Fluid Pressure Sensor/Switch F Circuit");
  (0x0993, "P0993 - Transmission Fluid Pressure Sensor/Switch F Circuit Range/Performance");
  (0x0994, "P0994 - Transmission Fluid Pressure Sensor/Switch F Circuit Low");
  (0x0995, "P0995 - Transmission Fluid Pressure Sensor/Switch F Circuit High");
  (0x0996, "P0996 - Transmission Fluid Pressure Sensor/Switch F Circuit Intermittent");
  (0x0997, "P0997 - Shift Solenoid F Control Circuit Range/Performance");
  (0x0998, "P0998 - Shift Solenoid F Control Circuit Low");
  (0x0999, "P0999 - Shift Solenoid F Control Circuit High");
  (0x1100, "P1100 - MAF Sensor Intermittent/ Check of all OBDII Systems Not Complete");
  (0x1101, "P1101 - MAF Sensor Out Of Self Test Range./KOER Not Able To Complete KOER Aborted");
  (0x1102, "P1102 - MAF Sensor In Range But Lower Than Expected");
  (0x1103, "P1103 - MAF Sensor In Range But Higher Than Expected");
  (0x1104, "P1104 - MAF Ground Malfunction");
  (0x1105, "P1105 - Dual Alternator Upper Fault");
  (0x1106, "P1106 - Dual Alternator Lower Fault/ Manifold Absolute Pressure (MAP) Sensor Circuit Intermittent High Voltage");
  (0x1107, "P1107 - Dual Alternator Lower Circuit Malfunction/ Manifold Absolute Pressure (MAP) Sensor Circuit Intermittent Low Voltage");
  (0x1108, "P1108 - Dual Alternator Battery Lamp Circuit Malfunction");
  (0x1109, "P1109 - IAT - B Sensor Intermittent");
  (0x1110, "P1110 - IAT Sensor (D/C) Open/Short");
  (0x1111, "P1111 - Intake Air Temperature (IAT) Sensor Circuit Intermittent High Voltage");
  (0x1112, "P1112 - Intake Air Temperature (IAT) Sensor Circuit Intermittent Low Voltage");
  (0x1113, "P1113 - IAT Sensor Open/Short");
  (0x1114, "P1114 - Engine Coolant Temperature (ECT) Sensor Circuit Intermittent Low Voltage/IAT - B Circuit Low Input");
  (0x1115, "P1115 - Engine Coolant Temperature (ECT) Sensor Circuit Intermittent High Voltage/IAT - B Circuit High Input");
  (0x1116, "P1116 - Engine Coolant sensor out of range/ECT Sensor Out Of Self Test Range");
  (0x1117, "P1117 - Engine Coolant Sensor intermittent/ECT Sensor Intermittent");
  (0x1118, "P1118 - Manifold Absolute Temperature Circuit Low Input");
  (0x1119, "P1119 - Manifold Absolute Temperature Circuit High Input");
  (0x1120, "P1120 - Throttle position sensor out of range");
  (0x1121, "P1121 - Throttle Position (TP) Sensor Circuit Intermittent High Voltage");
  (0x1122, "P1122 - Throttle Position (TP) Sensor Circuit Intermittent Low Voltage");
  (0x1123, "P1123 - Throttle Position Sensor In Range But Higher Than Expected");
  (0x1124, "P1124 - Throttle Position Sensor Out Of Self Test Range");
  (0x1125, "P1125 - Throttle position sensor intermittent");
  (0x1126, "P1126 - Throttle Position (Narrow Range) Sensor Circuit Malfunction");
  (0x1127, "P1127 - Exhaust Not Warm, Downstream O2 Sensor");
  (0x1128, "P1128 - Upstream Heated O2 Sensors Swapped");
  (0x1129, "P1129 - Downstream Heated O2 Sensors Swapped");
  (0x1130, "P1130 - Lack Of HO2S Switch - Adaptive Fuel At Limit");
  (0x1131, "P1131 - Lack Of HO2S Switch - Sensor Indicates Lean");
  (0x1132, "P1132 - Lack Of HO2S Switch - Sensor Indicates Rich");
  (0x1133, "P1133 - HO2S Insufficient Switching Sensor 1");
  (0x1134, "P1134 - HO2S Transition Time Ratio Sensor 1");
  (0x1135, "P1135 - Pedal Position Sensor A Circuit Intermittent");
  (0x1136, "P1136 - Fan Control Circuit Malfunction");
  (0x1137, "P1137 - Lack Of HO2S Switch - Sensor Indicates Lean");
  (0x1138, "P1138 - Lack Of HO2S12 Switch - Sensor Indicates Rich");
  (0x1139, "P1139 - Water In Fuel Indicator Circuit Malfunction");
  (0x1140, "P1140 - Water In Fuel Condition");
  (0x1141, "P1141 - Fuel Restriction Indicator Circuit Malfunction");
  (0x1142, "P1142 - Fuel Restriction Condition");
  (0x1143, "P1143 - Air Assist Control Valve Range/Performance");
  (0x1144, "P1144 - Air Assist Control Valve Circuit Malfunction");
  (0x1150, "P1150 - Lack Of HO2S21 Switch - Adaptive Fuel At Limit");
  (0x1151, "P1151 - Lack Of HO2S21 Switch - Sensor Indicates Lean");
  (0x1152, "P1152 - Lack Of HO2S21 Switch - Sensor Indicates Rich");
  (0x1153, "P1153 - Bank 2 Fuel Control Shifted Lean");
  (0x1154, "P1154 - Bank 2 Fuel Control Shifted Rich");
  (0x1155, "P1155 - Alternative Fuel Controller");
  (0x1156, "P1156 - Fuel Select Switch Malfunction");
  (0x1157, "P1157 - Lack Of HO2S22 Switch - Sensor Indicates Lean");
  (0x1158, "P1158 - Lack Of HO2S22 Switch - Sensor Indicates Rich");
  (0x1159, "P1159 - Fuel Stepper Motor Malfunction");
  (0x1167, "P1167 - Invalid Test,throttle not depressed");
  (0x1168, "P1168 - Fuel Rail Sensor In-Range Low Failure");
  (0x1169, "P1169 - Fuel Rail Sensor In-Range High Failure");
  (0x1170, "P1170 - ESO - Engine Shut Off Solenoid Fault");
  (0x1171, "P1171 - Rotor Sensor Fault");
  (0x1172, "P1172 - Rotor Control Fault");
  (0x1173, "P1173 - Rotor Calibration Fault");
  (0x1174, "P1174 - Cam Sensor Fault");
  (0x1175, "P1175 - Cam Control Fault");
  (0x1176, "P1176 - Cam Calibration Fault");
  (0x1177, "P1177 - Synchronization Fault");
  (0x1178, "P1178 - ( open )");
  (0x1180, "P1180 - Fuel Delivery System Malfunction - Low");
  (0x1181, "P1181 - Fuel Delivery System Malfunction - High");
  (0x1182, "P1182 - Fuel Shut Off Solenoid Malfunction");
  (0x1183, "P1183 - Engine Oil Temperature Circuit Malfunction");
  (0x1184, "P1184 - Engine Oil Temperature Out Of Self Test Range");
  (0x1185, "P1185 - FTS High - Fuel Pump Temperature Sensor High");
  (0x1186, "P1186 - FTS Low - Fuel Pump Temperature Sensor Low");
  (0x1187, "P1187 - Variant Selection");
  (0x1188, "P1188 - Calibration Memory Fault");
  (0x1189, "P1189 - Pump Speed Signal Fault");
  (0x1190, "P1190 - Calibration Resistor Out Of Range");
  (0x1191, "P1191 - Key Line Voltage");
  (0x1192, "P1192 - Voltage External");
  (0x1193, "P1193 - EGR Drive Overcurrent");
  (0x1194, "P1194 - ECU A/D Converter");
  (0x1195, "P1195 - SCP HBCC Failed To Initialize");
  (0x1196, "P1196 - Key Off Voltage High");
  (0x1197, "P1197 - Key Off Voltage Low");
  (0x1198, "P1198 - Pump Rotor Control Underfueling");
  (0x1199, "P1199 - Fuel Level Input Circuit Low");
  (0x1200, "P1200 - Injector Control Circuit");
  (0x1201, "P1201 - Injector Circuit Open / Shorted - Cylinder #1");
  (0x1202, "P1202 - Injector Circuit Open / Shorted - Cylinder #2");
  (0x1203, "P1203 - Injector Circuit Open / Shorted - Cylinder #3");
  (0x1204, "P1204 - Injector Circuit Open / Shorted - Cylinder #4");
  (0x1205, "P1205 - Injector Circuit Open / Shorted - Cylinder #5");
  (0x1206, "P1206 - Injector Circuit Open / Shorted - Cylinder #6");
  (0x1209, "P1209 - Injector Control Pressure System Fault");
  (0x1210, "P1210 - Injector Control Pressure Above Expected Level");
  (0x1211, "P1211 - Injector Control Pressure Sensor Above / Below Desired");
  (0x1212, "P1212 - Injector Control Pressure Not Detected During Crank");
  (0x1213, "P1213 - Start Injector Circuit Malfunction");
  (0x1214, "P1214 - Pedal Position Sensor B Circuit Intermittent");
  (0x1215, "P1215 - Pedal Position Sensor C Circuit Low Input");
  (0x1216, "P1216 - Pedal Position Sensor C Circuit High Input");
  (0x1217, "P1217 - Pedal Position Sensor C Circuit Intermittent");
  (0x1218, "P1218 - CID High");
  (0x1219, "P1219 - CID Low");
  (0x1220, "P1220 - Series Throttle Control System Malfunction");
  (0x1221, "P1221 - Traction Control System Malfunction");
  (0x1222, "P1222 - Traction Control Output Circuit Malfunction");
  (0x1223, "P1223 - Pedal Demand Sensor B Circuit High Input");
  (0x1224, "P1224 - Throttle Position Sensor B Out Of Self Test Range");
  (0x1225, "P1225 - Needle Lift Sensor Malfunction")].
Definition kPCodes9 : list (Z * string) := [
  (0x1226, "P1226 - Control Sleeve Sensor Malfunction");
  (0x1227, "P1227 - Wastegate Failed Closed (Over Pressure)");
  (0x1228, "P1228 - Wastegate Failed Open (Under Pressure)");
  (0x1229, "P1229 - Intercooler Pump Driver Fault");
  (0x1230, "P1230 - Fuel Pump Low Speed Malfunction");
  (0x1231, "P1231 - Fuel Pump Secondary Circuit Low, High Speed");
  (0x1232, "P1232 - Fuel Pump Speed Primary Circuit Malfunction");
  (0x1233, "P1233 - Fuel Pump Driver Module Off Line");
  (0x1234, "P1234 - Fuel Pump Driver Module Off Line");
  (0x1235, "P1235 - Fuel Pump Control Out Of Range");
  (0x1236, "P1236 - Fuel Pump Control Out Of Range");
  (0x1237, "P1237 - Fuel Pump Secondary Circuit Malfunction");
  (0x1238, "P1238 - Fuel Pump Secondary Circuit Malfunction");
  (0x1239, "P1239 - Speed Fuel Pump Positive Feed Fault");
  (0x1240, "P1240 - Sensor Power Supply Malfunction");
  (0x1241, "P1241 - Sensor Power Supply Low Input");
  (0x1242, "P1242 - Sensor Power Supply High Input");
  (0x1243, "P1243 - Second Fuel Pump Faulty or Ground Fault");
  (0x1244, "P1244 - Alternator Load Input Failed High");
  (0x1245, "P1245 - Alternator Load Input Failed Low");
  (0x1246, "P1246 - Alternator Load Input Failed");
  (0x1247, "P1247 - Turbo Boost Pressure Low");
  (0x1248, "P1248 - Turbo Boost Pressure Not Detected");
  (0x1249, "P1249 - Wastegate Control Valve Performance");
  (0x1250, "P1250 - PRC Solenoid Circuit Malfunction");
  (0x1251, "P1251 - Air Mixture Solenoid Circuit Malfunction");
  (0x1252, "P1252 - Pedal Correlation PDS1 and LPDS High");
  (0x1253, "P1253 - Pedal Correlation PDS1 and LPDS Low");
  (0x1254, "P1254 - Pedal Correlation PDS2 and LPDS High");
  (0x1255, "P1255 - Pedal Correlation PDS2 and LPDS Low");
  (0x1256, "P1256 - Pedal Correlation PDS1 and HPDS");
  (0x1257, "P1257 - Pedal Correlation PDS2 and HPDS");
  (0x1258, "P1258 - Pedal Correlation PDS1 and PDS2");
  (0x1259, "P1259 - Immobilizer to PCM Signal Error");
  (0x1260, "P1260 - THEFT Detected, Vehicle Immobilzed");
  (0x1261, "P1261 - Cylinder #1 High To Low Side Short");
  (0x1262, "P1262 - Cylinder #2 High To Low Side Short");
  (0x1263, "P1263 - Cylinder #3 High To Low Side Short");
  (0x1264, "P1264 - Cylinder #4 High To Low Side Short");
  (0x1265, "P1265 - Cylinder #5 High To Low Side Short");
  (0x1266, "P1266 - Cylinder #6 High To Low Side Short");
  (0x1267, "P1267 - Cylinder #7 High To Low Side Short");
  (0x1268, "P1268 - Cylinder #8 High To Low Side Short");
  (0x1269, "P1269 - Immobilizer Code Not Programmed");
  (0x1270, "P1270 - Engine RPM Or Speed Limiter Reached");
  (0x1271, "P1271 - Cylinder #1 High To Low Side Open");
  (0x1272, "P1272 - Cylinder #2 High To Low Side Open");
  (0x1273, "P1273 - Cylinder #3 High To Low Side Open");
  (0x1274, "P1274 - Cylinder #4 High To Low Side Open");
  (0x1275, "P1275 - Cylinder #5 High To Low Side Open");
  (0x1276, "P1276 - Cylinder #6 High To Low Side Open");
  (0x1277, "P1277 - Cylinder #7 High To Low Side Open");
  (0x1278, "P1278 - Cylinder #8 High To Low Side Open");
  (0x1280, "P1280 - Injection Control Pressure Out Of Range Low");
  (0x1281, "P1281 - Injection Control Pressure Out Of Range High");
  (0x1282, "P1282 - Excessive Injection Control Pressure");
  (0x1283, "P1283 - IPR Circuit Failure");
  (0x1284, "P1284 - Aborted KOER - ICP Failure");
  (0x1285, "P1285 - Cylinder head over temp sensed");
  (0x1286, "P1286 - Fuel Pulse In Range But Lower Than Expected");
  (0x1287, "P1287 - Fuel Pulse In Range But Higher Than Expected");
  (0x1288, "P1288 - Cylinder Head Temp Sensor Out Of Self Test Range");
  (0x1289, "P1289 - Cylinder Head Temp Sensor High Input");
  (0x1290, "P1290 - Cylinder Head Temp Sensor Low Input");
  (0x1291, "P1291 - Injector High Side Short To GND Or VBATT - Bank 1");
  (0x1292, "P1292 - Injector High Side Short To GND Or VBATT - Bank 2");
  (0x1293, "P1293 - Injector High Side Open - Bank 1");
  (0x1294, "P1294 - Injector High Side Open - Bank 2/Target idle not reached");
  (0x1295, "P1295 - Multi-faults - Bank 1 - With Low Side Shorts");
  (0x1296, "P1296 - Multi-faults - Bank 2 - With Low Side Shorts");
  (0x1297, "P1297 - Injector High Sides Shorted Together");
  (0x1298, "P1298 - IDM Failure");
  (0x1299, "P1299 - Cylinder Head Overtemperature Protection Active");
  (0x1300, "P1300 - Boost Calibration Fault");
  (0x1301, "P1301 - Boost Calibration High");
  (0x1302, "P1302 - Boost Calibration Low");
  (0x1303, "P1303 - EGR Calibration Fault");
  (0x1304, "P1304 - EGR Calibration High");
  (0x1305, "P1305 - EGR Calibration Low");
  (0x1306, "P1306 - Kickdown Relay Pull - In Circuit Fault");
  (0x1307, "P1307 - Kickdown Relay Hold Circuit Fault");
  (0x1308, "P1308 - A/C Clutch Circuit Fault");
  (0x1309, "P1309 - Misfire Monitor AICE Chip Fault");
  (0x1313, "P1313 - Misfire Rate Catalyst Damage Fault - Bank 1");
  (0x1314, "P1314 - Misfire Rate Catalyst Damage Fault - Bank 2");
  (0x1315, "P1315 - Persistent Misfire");
  (0x1316, "P1316 - Injector Circuit / IDM Codes Detected");
  (0x1317, "P1317 - Injector Circuit / IDM Codes Not Updated");
  (0x1336, "P1336 - Crank / Cam Sensor Range / Performance");
  (0x1340, "P1340 - Camshaft Position Sensor B Circuit Malfunction");
  (0x1341, "P1341 - Camshaft Position Sensor B Range / Performance");
  (0x1345, "P1345 - SGC (Cam Position) Sensor Circuit Malfunction/ Crankshaft Position - Camshaft Position Correlation");
  (0x1346, "P1346 - Fuel Level Sensor B Circuit Malfunction");
  (0x1347, "P1347 - Fuel Level Sensor B Range / Performance");
  (0x1348, "P1348 - Fuel Level Sensor B Circuit Low");
  (0x1349, "P1349 - Fuel Level Sensor B Circuit High");
  (0x1350, "P1350 - Fuel Level Sensor B Intermittent/Bypass Line Monitor");
  (0x1351, "P1351 - IDM Input Circuit Malfunction/ Ignition Coil Control Circuit High Voltage");
  (0x1352, "P1352 - Ignition Coil A Primary Circuit Malfunction");
  (0x1353, "P1353 - Ignition Coil B Primary Circuit Malfunction");
  (0x1354, "P1354 - Ignition Coil C Primary Circuit Malfunction");
  (0x1355, "P1355 - Ignition Coil D Primary Circuit Malfunction");
  (0x1360, "P1360 - Ignition Coil A Secondary Circuit Malfunction");
  (0x1361, "P1361 - Ignition Control (IC) Circuit Low Voltage");
  (0x1362, "P1362 - Ignition Coil C Secondary Circuit Malfunction");
  (0x1363, "P1363 - Ignition Coil D Secondary Circuit Malfunction");
  (0x1364, "P1364 - Ignition Coil Primary Circuit Failure");
  (0x1365, "P1365 - Ignition Coil Secondary Circuit Failure");
  (0x1366, "P1366 - Ignition Spare");
  (0x1367, "P1367 - Ignition Spare");
  (0x1368, "P1368 - Ignition Spare");
  (0x1369, "P1369 - Engine Temperature Light Monitor Failure");
  (0x1370, "P1370 - Insufficient RMP Increase During Spark Test");
  (0x1371, "P1371 - Ignition Coil - Cylinder 1 - Early Activation Fault");
  (0x1372, "P1372 - Ignition Coil - Cylinder 2 - Early Activation Fault");
  (0x1373, "P1373 - Ignition Coil - Cylinder 3 - Early Activation Fault");
  (0x1374, "P1374 - Crankshaft Position (CKP)/Ignition Coil - Cylinder 4 - Early Activation Fault");
  (0x1375, "P1375 - Ignition Coil - Cylinder 5 - Early Activation Fault");
  (0x1376, "P1376 - Ignition Coil - Cylinder 6 - Early Activation Fault");
  (0x1380, "P1380 - Misfire Detected - Rough Road Data Not Available");
  (0x1381, "P1381 - Variable Cam Timing Overadvanced (Bank #1)/ Misfire Detected - No Communication with BCM");
  (0x1382, "P1382 - Variable Cam Timing Solenoid #1 Circuit Malfunction");
  (0x1383, "P1383 - Variable Cam Timing Overretarded (Bank #1)");
  (0x1384, "P1384 - VVT Solenoid A Malfunction");
  (0x1385, "P1385 - Variable Cam Timing Solenoid B Malfunction");
  (0x1386, "P1386 - Variable Cam Timing Overadvanced (Bank #2)");
  (0x1387, "P1387 - Variable Cam Timing Solenoid #2 Circuit Malfunction");
  (0x1388, "P1388 - Variable Cam Timing Overretarded (Bank #2)");
  (0x1389, "P1389 - Glow Plug Circuit High Side Low Input");
  (0x1390, "P1390 - Octane Adjust Pin Out Of Self Test Range");
  (0x1391, "P1391 - Glow Plug Circuit Low Input (Bank #1)");
  (0x1392, "P1392 - Glow Plug Circuit High Input (Bank #1)");
  (0x1393, "P1393 - Glow Plug Circuit Low Input (Bank #2)");
  (0x1394, "P1394 - Glow Plug Circuit High Input (Bank #2)");
  (0x1395, "P1395 - Glow Plug Monitor Fault (Bank #1)");
  (0x1396, "P1396 - Glow Plug Monitor Fault (Bank #2)");
  (0x1397, "P1397 - System Voltage Out Of Self Test Range");
  (0x1398, "P1398 - VVT Solenoid B Circuit High Input");
  (0x1399, "P1399 - Glow Plug Circuit High Side, High Input")].
Definition kPCodes10 : list (Z * string) := [
  (0x1400, "P1400 - DPFE Circuit Low Input");
  (0x1401, "P1401 - DPFE Circuit High Input");
  (0x1402, "P1402 - EGR Metering Orifice Restricted");
  (0x1403, "P1403 - DPFE Sensor Hoses Reversed");
  (0x1404, "P1404 - IAT - B Circuit Malfunction/ Exhaust Gas Recirculation Closed Position Performance");
  (0x1405, "P1405 - DPFE Sensor Upstream Hose Off Or Plugged");
  (0x1406, "P1406 - Exhaust Gas Recirculation (EGR) Position Sensor Performance");
  (0x1407, "P1407 - EGR No Flow Detected");
  (0x1408, "P1408 - EGR Flow Out Of Self Test Range");
  (0x1409, "P1409 - EVR Control Circuit Malfunction");
  (0x1410, "P1410 - Secondary Air Injection System Pump Valve Stuck Open");
  (0x1411, "P1411 - SAI System Incorrect Downstream Flow Detected");
  (0x1413, "P1413 - SAI System Monitor Circuit Low Input");
  (0x1414, "P1414 - SAI System Monitor Circuit High Input");
  (0x1415, "P1415 - Air Pump Circuit Malfunction/ (AIR) System Bank 1");
  (0x1416, "P1416 - Port Air Circuit Malfunction/ (AIR) System Bank 2");
  (0x1417, "P1417 - Port Air Relief Circuit Malfunction");
  (0x1418, "P1418 - Split Air #1 Circuit Malfunction");
  (0x1419, "P1419 - Split Air #2 Circuit Malfunction");
  (0x1420, "P1420 - Catalyst Temperature Sensor Failure");
  (0x1421, "P1421 - Catalyst Damage");
  (0x1422, "P1422 - EGI Temperature Sensor Failure");
  (0x1423, "P1423 - EGI Functionality Test Failed");
  (0x1424, "P1424 - EGI Glow Plug Primary Failure");
  (0x1425, "P1425 - EGI Glow Plug Secondary Failure");
  (0x1426, "P1426 - EGI Mini - MAF Failed Out Of Range");
  (0x1427, "P1427 - EGI Mini - MAF Failed Short Circuit");
  (0x1428, "P1428 - EGI Mini - MAF Failed Open Circuit");
  (0x1429, "P1429 - Electric Air Pump Primary Failure");
  (0x1430, "P1430 - Electric Air Pump Secondary Failure");
  (0x1433, "P1433 - A/C Refrigerant Temperature Circuit Low");
  (0x1434, "P1434 - A/C Refrigerant Temperature Circuit High");
  (0x1435, "P1435 - A/C Refrigerant Temperature Circuit Range/Performance");
  (0x1436, "P1436 - A/C Evaporator Air Temperature Circuit Low");
  (0x1437, "P1437 - A/C Evaporator Air Temperature Circuit High");
  (0x1438, "P1438 - A/C Evaporator Air Temperature Circuit Range/Performance");
  (0x1439, "P1439 - Floor Temperature Switch Circuit Malfunction");
  (0x1440, "P1440 - Purge Valve Stuck Open");
  (0x1441, "P1441 - Evaporative Emission Control (EVAP) System Leak");
  (0x1442, "P1442 - Evaporative Emission Control System Leak Detected");
  (0x1443, "P1443 - Evaporative Emission Control System Control Valve");
  (0x1444, "P1444 - Purge Flow Sensor Circuit Low Input");
  (0x1445, "P1445 - Purge Flow Sensor Circuit High Input");
  (0x1446, "P1446 - Evaporative Vac Solenoid Circuit Malfunction");
  (0x1447, "P1447 - ELC System Closure Valve Flow Fault");
  (0x1448, "P1448 - ELC System 2 Fault");
  (0x1449, "P1449 - Evaporative Check Solenoid Circuit Malfunction");
  (0x1450, "P1450 - Unable To Bleed Up Fuel Tank Vacuum");
  (0x1451, "P1451 - Evap Emission Control Sys Vent Control Valve Circuit");
  (0x1452, "P1452 - Unable To Bleed - Up Vacuum in Tank");
  (0x1453, "P1453 - Fuel Tank Pressure Relief Valve Malfunction");
  (0x1454, "P1454 - Evaporative System Vacuum Test Malfunction");
  (0x1455, "P1455 - Evap Emission Control Sys Leak Detected (Gross Leak/No Flow)");
  (0x1456, "P1456 - Fuel Tank Temperature Sensor Circuit Malfunction");
  (0x1457, "P1457 - Unable To Pull Vacuum In Tank");
  (0x1460, "P1460 - Wide open throttle A/C cutoff relay circuit");
  (0x1461, "P1461 - A/C pressure sensor circuit voltage low");
  (0x1462, "P1462 - A/C pressure sensor circuit voltage high");
  (0x1463, "P1463 - A/C Pressure Sensor Insufficient Pressure Change");
  (0x1464, "P1464 - A/C Demand Out of Self Test Range");
  (0x1465, "P1465 - A/C Relay Circuit Malfunction");
  (0x1466, "P1466 - A/C Refrigerant Temperature Sensor/Circuit Malfunction");
  (0x1467, "P1467 - A/C Compressor Temperature Sensor Malfunction");
  (0x1468, "P1468 - SSPOD Open Circuit or Closed Circuit Fault");
  (0x1469, "P1469 - Low A/C Cycling Period");
  (0x1470, "P1470 - A/C Cycling Period Too Short");
  (0x1471, "P1471 - Electrodrive Fan 1 Operational Failure (Driver Side)");
  (0x1472, "P1472 - Electrodrive Fan 2 Operational Failure (Passenger Side)");
  (0x1473, "P1473 - Fan Secondary High With Fan(s) Off");
  (0x1474, "P1474 - Low Fan Control Primary Circuit Malfunction");
  (0x1475, "P1475 - Fan Relay (Low) Circuit Malfunction");
  (0x1476, "P1476 - Fan Relay (High) Circuit Malfunction");
  (0x1477, "P1477 - Additional Fan Relay Circuit Malfunction");
  (0x1478, "P1478 - Cooling Fan Driver Fault");
  (0x1479, "P1479 - High Fan Control Primary Circuit Malfunction");
  (0x1480, "P1480 - Fan Secondary Low with Low Fan On");
  (0x1481, "P1481 - Fan Secondary Low With High Fan On");
  (0x1482, "P1482 - SCP");
  (0x1483, "P1483 - Power To Fan Circuit Overcurrent");
  (0x1484, "P1484 - Open Power To Ground VCRM");
  (0x1485, "P1485 - EGRV Circuit Malfunction");
  (0x1486, "P1486 - EGRA Circuit Malfunction");
  (0x1487, "P1487 - EGRCHK Solenoid Circuit Malfunction");
  (0x1490, "P1490 - Secondary Air Relief Solenoid Circuit Malfunction");
  (0x1491, "P1491 - Secondary Switch Solenoid Circuit Malfunction");
  (0x1492, "P1492 - EGR Solenoid Valve Signal #1 Circuit Malfunction (Low Input)");
  (0x1493, "P1493 - EGR Solenoid Valve Signal #1 Circuit Malfunction (High Input)");
  (0x1494, "P1494 - EGR Solenoid Valve Signal #2 Circuit Malfunction (Low Input)");
  (0x1495, "P1495 - EGR Solenoid Valve Signal #2 Circuit Malfunction (High Input)");
  (0x1496, "P1496 - EGR Solenoid Valve Signal #3 Circuit Malfunction (Low Input)");
  (0x1497, "P1497 - EGR Solenoid Valve Signal #3 Circuit Malfunction (High Input)");
  (0x1498, "P1498 - EGR Solenoid Valve Signal #4 Circuit Malfunction (Low Input)");
  (0x1499, "P1499 - EGR Solenoid Valve Signal #4 Circuit Malfunction (High Input)");
  (0x1500, "P1500 - Vehicle Speed Sensor Intermittent");
  (0x1501, "P1501 - Vehicle Speed Sensor Out Of Self Test Range");
  (0x1502, "P1502 - Vehicle Speed Sensor Intermittent Malfunction");
  (0x1503, "P1503 - Auxillary Speed Sensor Fault");
  (0x1504, "P1504 - Idle Air Control Circuit Malfunction");
  (0x1505, "P1505 - Idle Air Control System At Adaptive Clip");
  (0x1506, "P1506 - Idle Air Control Overspeed Error");
  (0x1507, "P1507 - Idle Air Control Underspeed Error");
  (0x1508, "P1508 - Idle Control System Circuit Open");
  (0x1509, "P1509 - Idle Control System Circuit Shorted");
  (0x1510, "P1510 - Idle Signal Circuit Malfunction");
  (0x1511, "P1511 - Idle Switch (Electric Control Throttle) Circuit Malfunction");
  (0x1512, "P1512 - Intake Manifold Runner Control (Bank 1) Stuck Closed");
  (0x1513, "P1513 - Intake Manifold Runner Control (Bank 2) Stuck Closed");
  (0x1514, "P1514 - High Load Neutral/Drive Fault");
  (0x1515, "P1515 - Electric Current Circuit Malfunction");
  (0x1516, "P1516 - IMRC Input Error (Bank 1)");
  (0x1517, "P1517 - IMRC Input Error (Bank 2)");
  (0x1518, "P1518 - Intake Manifold Runner Control (Stuck Open)");
  (0x1519, "P1519 - Intake Manifold Runner Control (Stuck Closed)");
  (0x1520, "P1520 - Intake Manifold Runner Control Circuit Malfunction");
  (0x1521, "P1521 - Variable Intake Solenoid #1 Circuit Malfunction");
  (0x1522, "P1522 - Variable Intake Solenoid #2 Circuit Malfunction");
  (0x1523, "P1523 - IVC Solenoid Circuit Malfunction");
  (0x1524, "P1524 - Variable Intake Solenoid System");
  (0x1525, "P1525 - Air Bypass Valve System");
  (0x1526, "P1526 - Air Bypass System");
  (0x1527, "P1527 - Accelerate Warmup Solenoid Circuit Malfunction");
  (0x1528, "P1528 - Subsidiary Throttle Valve Solenoid Circuit Malfunction");
  (0x1529, "P1529 - SCAIR Solenoid Circuit Malfunction");
  (0x1530, "P1530 - A/C Clutch Circuit Malfunction");
  (0x1531, "P1531 - Invalid Test - Accelerator Pedal Movement");
  (0x1532, "P1532 - IMCC Circuit Malfunction, Bank B");
  (0x1533, "P1533 - AAI Circuit Malfunction");
  (0x1534, "P1534 - Inertia Switch Activated");
  (0x1535, "P1535 - Blower Fan Speed Circuit Range/Performance");
  (0x1536, "P1536 - Parking Brake Switch Circuit Failure");
  (0x1537, "P1537 - Intake Manifold Runner Control (Bank 1) Stuck Open");
  (0x1538, "P1538 - Intake Manifold Runner Control (Bank 2) Stuck Open");
  (0x1539, "P1539 - Power To A/C Clutch Circuit Overcurrent");
  (0x1540, "P1540 - Air Bypass Valve Circuit Malfunction");
  (0x1549, "P1549 - IMCC Circuit Malfunction, Bank B");
  (0x1550, "P1550 - PSPS Out Of Self Test Range");
  (0x1565, "P1565 - Speed Control Command Switch Out of Range High");
  (0x1566, "P1566 - Speed Control Command Switch Out of Range Low");
  (0x1567, "P1567 - Speed Control Output Circuit Continuity");
  (0x1568, "P1568 - Speed Control Unable to Hold Speed")].
Definition kPCodes11 : list (Z * string) := [
  (0x1571, "P1571 - Brake Switch Malfunction");
  (0x1572, "P1572 - Brake Pedal Switch Circuit Malfunction");
  (0x1573, "P1573 - Throttle Position Not Available");
  (0x1574, "P1574 - Throttle Position Sensor Disagreement btwn Sensors");
  (0x1575, "P1575 - Pedal Position Out of Self Test Range");
  (0x1576, "P1576 - Pedal Position Not Available");
  (0x1577, "P1577 - Pedal Position Sensor Disagreement btwn Sensors");
  (0x1578, "P1578 - ETC Power Less Than Demand");
  (0x1579, "P1579 - ETC In Power Limiting Mode");
  (0x1580, "P1580 - Electronic Throttle Monitor PCM Override");
  (0x1581, "P1581 - Electronic Throttle Monitor Malfunction");
  (0x1582, "P1582 - Electronic Throttle Monitor Data Available");
  (0x1583, "P1583 - Electronic Throttle Monitor Cruise Disable");
  (0x1584, "P1584 - TCU Detected IPE Circuit Malfunction");
  (0x1585, "P1585 - Throttle Control Unit Malfunction");
  (0x1586, "P1586 - Throttle Control Unit Throttle Position Malfunction");
  (0x1587, "P1587 - Throttle Control Unit Modulated Command Malfunction");
  (0x1588, "P1588 - Throttle Control Unit Detected Loss of Return Spring");
  (0x1589, "P1589 - TCU Unable To Control Desired Throttle Angle");
  (0x1600, "P1600 - Loss of KAM Power; Open Circuit");
  (0x1601, "P1601 - ECM/TCM Serial Communication Error");
  (0x1602, "P1602 - Immobilizer/ECM Communication Error");
  (0x1603, "P1603 - EEPROM Malfunction");
  (0x1604, "P1604 - Code Word Unregestered");
  (0x1605, "P1605 - Keep Alive Memory Test Failure");
  (0x1606, "P1606 - ECM Control Relay O/P Circuit Malfunction");
  (0x1607, "P1607 - MIL O/P Circuit Malfunction");
  (0x1608, "P1608 - Internal ECM Malfunction");
  (0x1609, "P1609 - Diagnostic Lamp Driver Fault");
  (0x1610, "P1610 - SBDS Interactive Codes");
  (0x1611, "P1611 - SBDS Interactive Codes");
  (0x1612, "P1612 - SBDS Interactive Codes");
  (0x1613, "P1613 - SBDS Interactive Codes");
  (0x1614, "P1614 - SBDS Interactive Codes");
  (0x1615, "P1615 - SBDS Interactive Codes");
  (0x1616, "P1616 - SBDS Interactive Codes");
  (0x1617, "P1617 - SBDS Interactive Codes");
  (0x1618, "P1618 - SBDS Interactive Codes");
  (0x1619, "P1619 - SBDS Interactive Codes");
  (0x1620, "P1620 - SBDS Interactive Codes");
  (0x1621, "P1621 - Control Module Long Term Memory Performance/ Immobilizer Code Words Do Not Match");
  (0x1622, "P1622 - Immobilizer ID Does Not Match");
  (0x1623, "P1623 - Immobilizer Code Word/ID Number Write Failure");
  (0x1624, "P1624 - Anti Theft System");
  (0x1625, "P1625 - B+ Supply To VCRM Fan Circuit Malfunction");
  (0x1626, "P1626 - Theft Deterrent Fuel Enable Signal Not Received/ B+ Supply To VCRM A/C Circuit Malfunction");
  (0x1627, "P1627 - Module Supply Voltage Out Of Range");
  (0x1628, "P1628 - Module Ignition Supply Input Malfunction");
  (0x1629, "P1629 - Internal Voltage Regulator Malfunction");
  (0x1630, "P1630 - Internal Vref Malfunction");
  (0x1631, "P1631 - Theft Deterrent Start Enable Signal Not Correct/ Main Relay Malfunction (Power Hold)");
  (0x1632, "P1632 - Smart Alternator Faults Sensor/Circuit Malfunction");
  (0x1633, "P1633 - KAM Voltage Too Low");
  (0x1634, "P1634 - Data Output Link Circuit Failure");
  (0x1635, "P1635 - Tire / Axle Ratio Out of Acceptable Range");
  (0x1636, "P1636 - Inductive Signature Chip Communication Error");
  (0x1637, "P1637 - Can Link ECM/ABSCM Circuit / Network Malfunction");
  (0x1638, "P1638 - Can Link ECM/INSTM Circuit / Network Malfunction");
  (0x1639, "P1639 - Vehicle ID Block Corrupted or Not Programmed");
  (0x1640, "P1640 - Powertrain DTCs Available in Another Module");
  (0x1641, "P1641 - Fuel Pump Primary Circuit Failure");
  (0x1642, "P1642 - Fuel Pump Monitor Circuit High Input");
  (0x1643, "P1643 - Fuel Pump Monitor Circuit Low Input");
  (0x1644, "P1644 - Fuel Pump Speed Control Circuit Malfunction");
  (0x1645, "P1645 - Fuel Pump Resistor Switch Circuit Malfunction");
  (0x1650, "P1650 - PSP Switch Out of Self Test Range");
  (0x1651, "P1651 - PSP Switch Input Malfunction");
  (0x1652, "P1652 - IAC Monitor Disabled by PSP Switch Failed On");
  (0x1653, "P1653 - Power Steering Output Circuit Malfunction");
  (0x1654, "P1654 - Recirculation Override Circuit Malfunction");
  (0x1655, "P1655 - Starter Disable Circuit Malfunction");
  (0x1660, "P1660 - Output Circuit Check Signal High");
  (0x1661, "P1661 - Output Circuit Check Signal Low");
  (0x1662, "P1662 - IDM_EN Circuit Failure");
  (0x1663, "P1663 - Fuel Demand Command Signal Circuit Malfunction");
  (0x1667, "P1667 - CI Circuit Malfunction");
  (0x1668, "P1668 - PCM - IDM Communications Error");
  (0x1670, "P1670 - Electronic Feedback Signal Not Detected");
  (0x1680, "P1680 - Metering Oil Pump Malfunction");
  (0x1681, "P1681 - Metering Oil Pump Malfunction");
  (0x1682, "P1682 - Metering Oil Pump Malfunction");
  (0x1683, "P1683 - Metering Oil Pump Temperature Sensor Circuit Malfunction");
  (0x1684, "P1684 - Metering Oil Pump Position Sensor Circuit Malfunction");
  (0x1685, "P1685 - Metering Oil Pump Stepping Motor Circuit Malfunction");
  (0x1686, "P1686 - Metering Oil Pump Stepping Motor Circuit Malfunction");
  (0x1687, "P1687 - Metering Oil Pump Stepping Motor Circuit Malfunction");
  (0x1688, "P1688 - Metering Oil Pump Stepping Motor Circuit Malfunction");
  (0x1689, "P1689 - Oil Pressure Control Solenoid Circuit Malfunction");
  (0x1690, "P1690 - Wastegate Solenoid Circuit Malfunction");
  (0x1691, "P1691 - Turbo Pressure Control Solenoid Circuit Malfunction");
  (0x1692, "P1692 - Turbo Control Solenoid Circuit Malfunction");
  (0x1693, "P1693 - Turbo Charge Control Circuit Malfunction");
  (0x1694, "P1694 - Turbo Charge Relief Circuit Malfunction");
  (0x1700, "P1700 - Transmission Indeterminate Failure (Failed to Neutral)");
  (0x1701, "P1701 - Reverse Engagement Error");
  (0x1702, "P1702 - TRS Circuit Intermittent Malfunction");
  (0x1703, "P1703 - Brake Switch Out Of Self Test Range");
  (0x1704, "P1704 - Digital TRS Failed to Transition States in KOEO / KOER");
  (0x1705, "P1705 - Not in P or N During KOEO / KOER");
  (0x1706, "P1706 - High Vehicle Speed Observed in Park");
  (0x1707, "P1707 - Transfer Case Neutral Indicator Hard Fault Present");
  (0x1708, "P1708 - Clutch Switch Circuit Malfunction");
  (0x1709, "P1709 - PNP Switch Out Of Self Test Range");
  (0x1711, "P1711 - TFT Sensor Out Of Self Test Range");
  (0x1712, "P1712 - Trans Torque Reduction Request Signal Malfunction");
  (0x1713, "P1713 - TFT Sensor In Range Failure Low Value");
  (0x1714, "P1714 - SSA Inductive Signature Malfunction");
  (0x1715, "P1715 - SSB Inductive Signature Malfunction");
  (0x1716, "P1716 - SSC Inductive Signature Malfunction");
  (0x1717, "P1717 - SSD Inductive Signature Malfunction");
  (0x1718, "P1718 - TFT Sensor In Range Failure High");
  (0x1720, "P1720 - Vehicle Speed (Meter) Circuit Malfunction");
  (0x1721, "P1721 - Gear 1 Incorrect Ratio");
  (0x1722, "P1722 - Gear 2 Incorrect Ratio");
  (0x1723, "P1723 - Gear 3 incorrect Ratio");
  (0x1724, "P1724 - Gear 4 Incorrect Ratio");
  (0x1725, "P1725 - Insufficient Engine Speed Increase During Self Test");
  (0x1726, "P1726 - Insufficient Engine Speed Decrease During Self Test");
  (0x1727, "P1727 - Coast Clutch Solenoid Inductive Signature Malfunction");
  (0x1728, "P1728 - Transmission Slip Error");
  (0x1729, "P1729 - 4x4 Low Switch Error");
  (0x1730, "P1730 - Gear Control Malfunction 2,3,5");
  (0x1731, "P1731 - 1-2 Shift Malfunction");
  (0x1732, "P1732 - 2-3 Shift Malfunction");
  (0x1733, "P1733 - 3-4 Shift Malfunction");
  (0x1734, "P1734 - Gear Control Malfunction");
  (0x1735, "P1735 - First Gear Switch Circuit Malfunction");
  (0x1736, "P1736 - Second Gear Switch Circuit Malfunction");
  (0x1737, "P1737 - Lockup Solenoid System");
  (0x1738, "P1738 - Shift Time Error");
  (0x1739, "P1739 - Slip Solenoid System");
  (0x1740, "P1740 - Torque Converter Clutch Inductive Signature Malfunction");
  (0x1741, "P1741 - Torque Converter Clutch Control Error");
  (0x1742, "P1742 - Torque Converter Clutch Solenoid Failed On");
  (0x1743, "P1743 - Torque Converter Clutch Solenoid Failied On");
  (0x1744, "P1744 - Torque Converter Clutch System Performance");
  (0x1745, "P1745 - Line Pressure Solenoid System");
  (0x1746, "P1746 - Pressure Control Solenoid A Open Circuit");
  (0x1747, "P1747 - Pressure Control Solenoid A Short Circuit");
  (0x1748, "P1748 - EPC Malfunction")].
Definition kPCodes12 : list (Z * string) := [
  (0x1749, "P1749 - Pressure Control Solenoid Failed Low");
  (0x1751, "P1751 - Shift Solenoid A Performance");
  (0x1754, "P1754 - Coast Clutch Solenoid Circuit Malfunction");
  (0x1755, "P1755 - Intermediate Speed Sensor (ISS) Malfunction");
  (0x1756, "P1756 - Shift Solenoid B Performance");
  (0x1760, "P1760 - Pressure Control Solenoid A Short Circuit");
  (0x1761, "P1761 - Shift Solenoid C Performance");
  (0x1762, "P1762 - Overdrive Band Failed Off");
  (0x1765, "P1765 - Timing Solenoid Circuit Malfunction");
  (0x1767, "P1767 - Torque Converter Clutch Circuit Malfunction");
  (0x1768, "P1768 - Performance / Normal / Winter Mode Input Malfunction");
  (0x1769, "P1769 - AG4 Transmission Torque Modulation Fault");
  (0x1770, "P1770 - Clutch Solenoid Circuit Malfunction");
  (0x1775, "P1775 - Transmission System MIL Fault");
  (0x1776, "P1776 - Ignition Retard Request Duration Fault");
  (0x1777, "P1777 - Ignition Retard Request Circuit Fault");
  (0x1778, "P1778 - Transmission Reverse I/P Circuit Malfunction");
  (0x1779, "P1779 - TCIL Circuit Malfunction");
  (0x1780, "P1780 - Trans Control Switch (O/D Cancel) Out of Self Test Range");
  (0x1781, "P1781 - 4X4 Switch Out of Self Test Range");
  (0x1782, "P1782 - P/ES Circuit Out Of Self Test Range");
  (0x1783, "P1783 - Transmission Overtemperature Condition");
  (0x1784, "P1784 - Transmission Mechanical Failure - First And Reverse");
  (0x1785, "P1785 - Transmission Mechanical Failure - First And Second");
  (0x1786, "P1786 - 3-2 Downshift Error");
  (0x1787, "P1787 - 2-1 Downshift Error");
  (0x1788, "P1788 - Pressure Control Solenoid B Open Circuit");
  (0x1789, "P1789 - Pressure Control Solenoid B Short Circuit");
  (0x1790, "P1790 - TP (Mechanical) Circuit Malfunction");
  (0x1791, "P1791 - TP (Electric) Circuit Malfunction");
  (0x1792, "P1792 - Barometer Pressure Circuit Malfunction");
  (0x1793, "P1793 - Intake Air Volume Circuit Malfunction");
  (0x1794, "P1794 - Battery Voltage Circuit Malfunction");
  (0x1795, "P1795 - Idle Switch Circuit Malfunction");
  (0x1796, "P1796 - Kick Down Switch Circuit Malfunction");
  (0x1797, "P1797 - Neutral Switch Circuit Malfunction");
  (0x1798, "P1798 - Coolant Temperature Circuit Malfunction");
  (0x1799, "P1799 - Hold Switch Circuit Malfunction");
  (0x1800, "P1800 - Transmission Clutch Interlock Safety Switch Circuit Failure");
  (0x1801, "P1801 - Transmission Clutch Interlock Safety Switch Open Circuit");
  (0x1802, "P1802 - Transmission Clutch Interlock Safety Switch Short Circuit To Battery");
  (0x1803, "P1803 - Transmission Clutch Interlock Safety Switch Short Circuit To Ground");
  (0x1804, "P1804 - Transmission 4-Wheel Drive High Indicator Circuit Failure");
  (0x1805, "P1805 - Transmission 4-Wheel Drive High Indicator Open Circuit");
  (0x1806, "P1806 - Transmission 4-Wheel Drive High Indicator Short Circuit To Battery");
  (0x1807, "P1807 - Transmission 4-Wheel Drive High Indicator Short Circuit To Ground");
  (0x1808, "P1808 - Transmission 4-Wheel Drive Low Indicator Circuit Failure");
  (0x1809, "P1809 - Transmission 4-Wheel Drive Low Indicator Open Circuit");
  (0x1810, "P1810 - TFP Valve Position Switch Circuit/ Transmission 4-Wheel Drive Low Indicator Short Circuit To Battery");
  (0x1811, "P1811 - Transmission 4-Wheel Drive Low Indicator Short Circuit To Ground");
  (0x1812, "P1812 - Transmission 4-Wheel Drive Mode Select Circuit Failure");
  (0x1813, "P1813 - Transmission 4-Wheel Drive Mode Select Open Circuit");
  (0x1814, "P1814 - Transmission 4-Wheel Drive Mode Select Short Circuit To Battery");
  (0x1815, "P1815 - Transmission 4-Wheel Drive Mode Select Short Circuit To Ground");
  (0x1816, "P1816 - Transmission Neutral Safety Switch Circuit Failure");
  (0x1817, "P1817 - Transmission Neutral Safety Switch Open Circuit");
  (0x1818, "P1818 - Transmission Neutral Safety Switch Short Circuit To Battery");
  (0x1819, "P1819 - Transmission Neutral Safety Switch Short Circuit To Ground");
  (0x1820, "P1820 - Transmission Transfer Case Clockwise Shift Relay Coil Circuit Failure");
  (0x1821, "P1821 - Transmission Transfer Case Clockwise Shift Relay Coil Open Circuit");
  (0x1822, "P1822 - Transmission Transfer Case Clockwise Shift Relay Coil Short Circuit To Battery");
  (0x1823, "P1823 - Transmission Transfer Case Clockwise Shift Relay Coil Short Circuit To Ground");
  (0x1824, "P1824 - Transmission 4-Wheel Drive Clutch Relay Circuit Failure");
  (0x1825, "P1825 - Transmission 4-Wheel Drive Clutch Relay Open Circuit");
  (0x1826, "P1826 - Transmission 4-Wheel Drive Low Clutch Relay Circuit To Battery");
  (0x1827, "P1827 - Transmission 4-Wheel Drive Low Clutch Relay Circuit To Ground");
  (0x1828, "P1828 - Transmission Transfer Case Counter Clockwise Shift Relay Coil Circuit Failure");
  (0x1829, "P1829 - Transmission Transfer Case Counter Clockwise Shift Relay Coil Open Circuit");
  (0x1830, "P1830 - Transmission Transfer Case Counter Clockwise Shift Relay Coil Short Circuit To Battery");
  (0x1831, "P1831 - Transmission Transfer Case Counter Clockwise Shift Relay Coil Short Circuit To Ground");
  (0x1832, "P1832 - Transmission Transfer Case Differential Lock-Up Solenoid Circuit Failure");
  (0x1833, "P1833 - Transmission Transfer Case Differential Lock-Up Solenoid Open Circuit");
  (0x1834, "P1834 - Transmission Transfer Case Differential Lock-Up Solenoid Short Circuit To Battery");
  (0x1835, "P1835 - Transmission Transfer Case Differential Lock-Up Solenoid Short Circuit To Ground");
  (0x1836, "P1836 - Transmission Transfer Case Front Shaft Speed Sensor Circuit Failure");
  (0x1837, "P1837 - Transmission Transfer Case Rear Shaft Speed Sensor Circuit Failure");
  (0x1838, "P1838 - Transmission Transfer Case Shift Motor Circuit Failure");
  (0x1839, "P1839 - Transmission Transfer Case Shift Motor Open Circuit");
  (0x1840, "P1840 - Transmission Transfer Case Shift Motor Short Circuit To Battery");
  (0x1841, "P1841 - Transmission Transfer Case Shift Motor Short Circuit To Ground");
  (0x1842, "P1842 - Transmission Transfer Case Differential Lock-Up Feedback Switch Circuit Failure");
  (0x1843, "P1843 - Transmission Transfer Case Differential Lock-Up Feedback Switch Open Circuit");
  (0x1844, "P1844 - Transmission Transfer Case Differential Lock-Up Feedback Switch Short Circuit To Battery");
  (0x1845, "P1845 - Transmission Transfer Case Differential Lock-Up Feedback Switch Short Circuit To Ground");
  (0x1846, "P1846 - Transmission Transfer Case Contact Plate 'A' Circuit Failure");
  (0x1847, "P1847 - Transmission Transfer Case Contact Plate 'A' Open Circuit");
  (0x1848, "P1848 - Transmission Transfer Case Contact Plate 'A' Short Circuit To Battery");
  (0x1849, "P1849 - Transmission Transfer Case Contact Plate 'A' Short Circuit To Ground");
  (0x1850, "P1850 - Transmission Transfer Case Contact Plate 'B' Circuit Failure");
  (0x1851, "P1851 - Transmission Transfer Case Contact Plate 'B' Open Circuit");
  (0x1852, "P1852 - Transmission Transfer Case Contact Plate 'B' Short Circuit To Battery");
  (0x1853, "P1853 - Transmission Transfer Case Contact Plate 'B' Short Circuit To Ground");
  (0x1854, "P1854 - Transmission Transfer Case Contact Plate 'C' Circuit Failure");
  (0x1855, "P1855 - Transmission Transfer Case Contact Plate 'C' Open Circuit");
  (0x1856, "P1856 - Transmission Transfer Case Contact Plate 'C' Short Circuit To Battery");
  (0x1857, "P1857 - Transmission Transfer Case Contact Plate 'C' Short Circuit To Ground");
  (0x1858, "P1858 - Transmission Transfer Case Contact Plate 'D' Circuit Failure");
  (0x1859, "P1859 - Transmission Transfer Case Contact Plate 'D' Open Circuit");
  (0x1860, "P1860 - TCC PWM Solenoid Circuit Electrical/ Transmission Transfer Case Contact Plate 'D' Short Circuit To Battery");
  (0x1861, "P1861 - Transmission Transfer Case Contact Plate 'D' Short Circuit To Ground");
  (0x1862, "P1862 - Transmission Transfer Case Contact Plate Power Circuit Failure");
  (0x1863, "P1863 - Transmission Transfer Case Contact Plate Power Open Circuit");
  (0x1864, "P1864 - Transmission Transfer Case Contact Plate Power Short To Battery");
  (0x1865, "P1865 - Transmission Transfer Case Contact Plate Power Short To Ground");
  (0x1866, "P1866 - Transmission Transfer Case System Concern - Servicing Required");
  (0x1867, "P1867 - Transmission Transfer Case Contact Plate General Circuit Failure");
  (0x1868, "P1868 - Transmission Automatic 4-Wheel Drive Indicator (Lamp) Circuit Failure");
  (0x1869, "P1869 - Transmission Automatic 4-Wheel Drive Indicator (Lamp) Circuit Short To Battery");
  (0x1870, "P1870 - Transmission Component Slipping/ Transmission Mechanical Transfer Case 4x4 Switch Circuit Failure");
  (0x1871, "P1871 - Transmission Mechanical Transfer Case 4x4 Switch Circuit Short To Battery");
  (0x1872, "P1872 - Transmission Mechanical 4-Wheel Drive Axle Lock Lamp Circuit Failure");
  (0x1873, "P1873 - Transmission Mechanical 4-Wheel Drive Axle Lock Lamp Circuit Short To Battery");
  (0x1874, "P1874 - Transmission Automatic Hall Effect Sensor Power Circuit Failure");
  (0x1875, "P1875 - Transmission Automatic Hall Effect Sensor Power Circuit Short To Battery / 4WD Low Switch Circuit Electrical");
  (0x1876, "P1876 - Transmission Transfer Case 2-Wheel Drive Solenoid Circuit Failure");
  (0x1877, "P1877 - Transmission Transfer Case 2-Wheel Drive Solenoid Circuit Short To Battery");
  (0x1878, "P1878 - Transmission Transfer Case Disengaged Solenoid Circuit Failure");
  (0x1879, "P1879 - Transmission Transfer Case Disengaged Solenoid Open Circuit");
  (0x1880, "P1880 - Transmission Transfer Case Disengaged Solenoid Short to Battery");
  (0x1881, "P1881 - Engine Coolant Level Switch Circuit Failure, GEM");
  (0x1882, "P1882 - Engine Coolant Level Switch Circuit Short to Ground");
  (0x1883, "P1883 - Engine Coolant Level Switch Circuit Failure, GEM");
  (0x1884, "P1884 - Engine Coolant Level Lamp Circuit Short to Ground");
  (0x1885, "P1885 - Transmission Transfer Case Disengaged Solenoid Short to Ground");
  (0x1886, "P1886 - 4X4 Initialization Failure");
  (0x1890, "P1890 - Transmission 4WD Mode Select Return Input Circuit Failure");
  (0x1891, "P1891 - Transmission Transfer Case Contact Plate Ground Return Open Circuit");
  (0x1900, "P1900 - OSS Circuit Intermittent Malfunction");
  (0x1901, "P1901 - TSS Circuit Intermittent Malfunction");
  (0x1902, "P1902 - Pressure Control Solenoid B Intermittent Short");
  (0x1903, "P1903 - Pressure Control Solenoid C Short Circuit");
  (0x1904, "P1904 - Pressure Control Solenoid C Open Circuit");
  (0x1905, "P1905 - Pressure Control Solenoid C Intermittent Short");
  (0x1906, "P1906 - Kickdown Pull Relay Open or Short Circuit to Ground");
  (0x1907, "P1907 - Kickdown Hold Relay Open or Short Circuit to Ground");
  (0x1908, "P1908 - Transmission Pressure Circuit Solenoid Open or Short to Ground")].
Definition kPCodes13 : list (Z * string) := [
  (0x1909, "P1909 - Trans Temp Sensor Circuit Open or Shorted to Pwr or Gnd");
  (0x1910, "P1910 - VFS A Pressure Output Failed Low");
  (0x1911, "P1911 - VFS B Pressure Output Failed Low");
  (0x1912, "P1912 - VFS C Pressure Output Failed Low");
  (0x1913, "P1913 - Pressure Switch A Circuit Malfunction");
  (0x1914, "P1914 - Manually Shifted Automatic (MSA) Sw Circuit Malf");
  (0x1915, "P1915 - Reverse Switch Circuit Malfunction");
  (0x1916, "P1916 - High Clutch Drum Speed Sensor Malfunction");
  (0x1917, "P1917 - High Clutch Drum Speed Sensor Intermittent");
  (0x1918, "P1918 - Transmission Range Display Circuit Malfunction");
  (0x2000, "P2000 - NOx Adsorber Efficiency Below Threshold Bank 1");
  (0x2002, "P2002 - Diesel Particulate Filter Efficiency Below Threshold Bank 1");
  (0x2006, "P2006 - Intake Manifold Runner Control Stuck Closed (Bank 1)");
  (0x2007, "P2007 - Intake Manifold Runner Control Stuck Closed (Bank 2)");
  (0x2008, "P2008 - Intake Manifold Runner Control Circuit / Open (Bank 1)");
  (0x2009, "P2009 - Intake Manifold Runner Control Circuit Low (Bank 1)");
  (0x2010, "P2010 - Intake Manifold Runner Control Solenoid Control Circuit High Voltage");
  (0x2011, "P2011 - Intake Manifold Runner Control Circuit / Open (Bank 2)");
  (0x2012, "P2012 - Intake Manifold Runner Control Circuit Low (Bank 2)");
  (0x2016, "P2016 - Intake Manifold Runner Position Sensor / Switch Circuit Low (Bank 1)");
  (0x2017, "P2017 - Intake Manifold Runner Position Sensor / Switch Circuit High (Bank 1)");
  (0x2021, "P2021 - Intake Manifold Runner Position Sensor / Switch Circuit Low (Bank 2)");
  (0x2022, "P2022 - Intake Manifold Runner Position Sensor / Switch Circuit High (Bank 2)");
  (0x2066, "P2066 - Fuel Level Sensor 2 Performance");
  (0x2067, "P2067 - Fuel Level Sensor 2 Circuit Low Voltage");
  (0x2068, "P2068 - Fuel Level Sensor 2 Circuit High Voltage");
  (0x2088, "P2088 - Intake Camshaft Position Actuator Control Circuit Low (Bank 1)");
  (0x2089, "P2089 - Intake Camshaft Position Actuator Control Circuit High (Bank 1)");
  (0x2090, "P2090 - Exhaust Camshaft Position Actuator Control Circuit Low (Bank 1)");
  (0x2091, "P2091 - Exhaust Camshaft Position Actuator Control Circuit High (Bank 1)");
  (0x2092, "P2092 - Intake Camshaft Position Actuator Control Circuit Low (Bank 2)");
  (0x2093, "P2093 - Intake Camshaft Position Actuator Control Circuit High (Bank 2)");
  (0x2094, "P2094 - Exhaust Camshaft Position Actuator Control Circuit Low (Bank 2)");
  (0x2095, "P2095 - Exhaust Camshaft Position Actuator Control Circuit High (Bank 2)");
  (0x2096, "P2096 - Post Catalyst Fuel Trim System Too Lean Bank 1");
  (0x2097, "P2097 - Post Catalyst Fuel Trim System Too Rich Bank 1");
  (0x2098, "P2098 - Post Catalyst Fuel Trim System Too Lean Bank 2");
  (0x2099, "P2099 - Post Catalyst Fuel Trim System Too Rich Bank 2");
  (0x2100, "P2100 - Throttle Actuator Control Motor Control Circuit");
  (0x2101, "P2101 - Throttle Actuator Control Motor Circuit Range/Performance");
  (0x2102, "P2102 - Throttle Actuator Control Motor Circuit Low");
  (0x2105, "P2105 - Throttle Actuator Control System - Forced Engine Shutdown");
  (0x2107, "P2107 - Throttle Actuator Control Module Internal Circuit");
  (0x2108, "P2108 - Throttle Actuator Control Module Performance");
  (0x2109, "P2109 - Throttle/Pedal Position Sensor “A” Minimum Stop Performance");
  (0x2119, "P2119 - Throttle Closed Position Performance");
  (0x2120, "P2120 - Accelerator Pedal Position Sensor 1 Circuit");
  (0x2121, "P2121 - Accelerator Pedal Position Sensor 1 Performance");
  (0x2122, "P2122 - Accelerator Pedal Position Sensor 1 Circuit Low Voltage");
  (0x2123, "P2123 - Accelerator Pedal Position Sensor 1 Circuit High Voltage");
  (0x2125, "P2125 - Accelerator Pedal Position Sensor 2 Circuit");
  (0x2127, "P2127 - Accelerator Pedal Position Sensor 2 Circuit Low Voltage");
  (0x2128, "P2128 - Accelerator Pedal Position Sensor 2 Circuit High Voltage");
  (0x2135, "P2135 - Throttle Position Sensor 1-2 Correlation");
  (0x2138, "P2138 - Accelerator Pedal Position Sensor 1-2 Correlation");
  (0x2176, "P2176 - Minimum Throttle Position Not Learned");
  (0x2419, "P2419 - Evaporative Emission System Switching Valve Control Circuit Low");
  (0x2420, "P2420 - Evaporative Emission System Switching Valve Control Circuit High");
  (0x2431, "P2431 - Secondary Air Injection System Air Flow / Pressure Sensor Circuit Range / Performance Bank 1");
  (0x2432, "P2432 - Secondary Air Injection System Air Pump Circuit Low");
  (0x2433, "P2433 - Secondary Air Injection System Air Pump Circuit High");
  (0x2440, "P2440 - Secondary Air Injection System Switching Valve Stuck Open Bank 1");
  (0x2441, "P2441 - Secondary Air Injection System Switching Valve Stuck Closed Bank 1");
  (0x2444, "P2444 - Secondary Air Injection System Pump Stuck On");
  (0x2500, "P2500 - Generator L-Terminal Circuit Low Voltage");
  (0x2501, "P2501 - Generator L-Terminal Circuit High Voltage");
  (0x2535, "P2535 - Ignition 1 Switch Circuit High Voltage (PCM)");
  (0x2610, "P2610 - ECU Malfunction");
  (0x2763, "P2763 - Short to voltage in the TCC Solenoid");
  (0x2764, "P2764 - Open or Short to ground in the TCC PWM solenoid valve circuit");
  (0x2A00, "P2A00 - HO2S Circuit Closed Loop Performance Bank 1 Sensor 1 (PCM)");
  (0x2A01, "P2A01 - HO2S Circuit Closed Loop Performance Bank 1 Sensor 2 (PCM)");
  (0x3000, "P3000 - Hacking AWH Data")].
Definition DtcPCodes : list (Z * string) := kPCodes1 ++ kPCodes2 ++ kPCodes3 ++ kPCodes4 ++ kPCodes5 ++ kPCodes6 ++ kPCodes7 ++ kPCodes8 ++ kPCodes9 ++ kPCodes10 ++ kPCodes11 ++ kPCodes12 ++ kPCodes13.

Definition kCCodes1 : list (Z * string) := [
  (0x1091, "C1091 - Speed Wheel Sensor All Coherency Failure");
  (0x1095, "C1095 - ABS Hydraulic Pump Motor Circuit Failure");
  (0x1096, "C1096 - ABS Hydraulic Pump Motor Circuit Open");
  (0x1097, "C1097 - ABS Hydraulic Pump Motor Circuit Short To Ground");
  (0x1098, "C1098 - ABS Hydraulic Pump Motor Circuit Short To Battery");
  (0x1100, "C1100 - ABS Pump Switch Circuit Failure");
  (0x1101, "C1101 - ABS Hydraulic Valve Circuit Failure");
  (0x1102, "C1102 - ABS Acceleration Switch Circuit Failure");
  (0x1103, "C1103 - ABS Hydraulic Brake Switch Circuit Failure");
  (0x1104, "C1104 - Traction Control Active Lamp - Circuit Short to Battery");
  (0x1105, "C1105 - Traction Control Disable Lamp - Circuit Short to Battery");
  (0x1106, "C1106 - Traction Control Disable Switch Circuit Short to Battery");
  (0x1107, "C1107 - ABS Function Enabled Input Circuit Failure");
  (0x1109, "C1109 - Speed Control Actuator Assembly Cable Release  Failure");
  (0x1110, "C1110 - ABS Power Relay Coil Circuit Failure");
  (0x1111, "C1111 - ABS Power Relay Coil Open Circuit");
  (0x1112, "C1112 - ABS Power Relay Coil Short Circuit To Ground");
  (0x1113, "C1113 - ABS Power Relay Coil Short Circuit To Battery");
  (0x1114, "C1114 - ABS Power Relay Output Short Circuit To Ground");
  (0x1115, "C1115 - ABS Power Relay Output Short Circuit To Battery");
  (0x1116, "C1116 - Starter Motor Circuit Failure");
  (0x1117, "C1117 - RPM Input Circuit Failure");
  (0x1123, "C1123 - Vehicle Speed Sensor Input Short to Battery");
  (0x1124, "C1124 - Input shaft speed signal missing/faulted");
  (0x1125, "C1125 - Brake Fluid Level Sensor Input Circuit Failure");
  (0x1126, "C1126 - Cruise Control Command Switch Assembly Circuit Failure");
  (0x1127, "C1127 - Cruise Control Deactivator Brake Switch Circuit Failure");
  (0x1132, "C1132 - Clutch position ckt short to ground");
  (0x1133, "C1133 - Clutch position ckt short to battery");
  (0x1134, "C1134 - Gear Shift position short to ground");
  (0x1135, "C1135 - Gear Shift position short to battery");
  (0x1136, "C1136 - Gear Select position short to ground");
  (0x1137, "C1137 - ECU is Defective");
  (0x1138, "C1138 - Gear Select position short to Battery");
  (0x1139, "C1139 - Wheel Speed Sensor Center Tone Ring Missing Tooth Fault");
  (0x1140, "C1140 - Hydraulic Base Brake Failure");
  (0x1141, "C1141 - Wheel Speed Sensor LF Tone Ring Tooth Missing Fault");
  (0x1142, "C1142 - Wheel Speed Sensor RF Tone Ring Tooth Missing Fault");
  (0x1143, "C1143 - Wheel Speed Sensor LR Tone Ring Tooth Missing Fault");
  (0x1144, "C1144 - Wheel Speed Sensor RR Tone Ring Tooth Missing Fault");
  (0x1145, "C1145 - Speed Wheel Sensor RF Input Circuit Failure");
  (0x1146, "C1146 - Speed Wheel Sensor RF Circuit Open");
  (0x1148, "C1148 - Speed Wheel Sensor RF Coherency Fault");
  (0x1149, "C1149 - Hydraulic Fluid Pressure/ Flow Circuit Failure");
  (0x1150, "C1150 - Two Speed Rear Axle Input Switch Circuit Short to Vbatt");
  (0x1155, "C1155 - Speed Wheel Sensor LF Input Circuit Failure");
  (0x1156, "C1156 - Speed Wheel Sensor LF Circuit Open");
  (0x1157, "C1157 - Park Brake Actuator Assembly Switch Applied Circuit Failure");
  (0x1158, "C1158 - Speed Wheel Sensor LF Coherency Fault");
  (0x1159, "C1159 - Hydraulic Fluid Pressure/ Flow Circuit Short to Gnd");
  (0x1161, "C1161 - Air Pressure Low Circuit Short to Gnd");
  (0x1162, "C1162 - Park Brake Switch # 2 Released Circuit Failure");
  (0x1163, "C1163 - Park Brake Switch # 2 Applied Circuit Short to Gnd");
  (0x1164, "C1164 - Park Brake Actuator Assembly Switch Circuit Failure");
  (0x1165, "C1165 - Speed Wheel Sensor RR Input Circuit Failure");
  (0x1166, "C1166 - Speed Wheel Sensor RR Input Open Circuit");
  (0x1167, "C1167 - Park Brake Actuator Assembly Switch Released Circuit Short to Gnd");
  (0x1168, "C1168 - Speed Wheel Sensor RR Coherency Fault");
  (0x1169, "C1169 - ABS Fluid Dumping Exceeds Maximum Timing");
  (0x1170, "C1170 - PRNDL  Switch Circuit Failure");
  (0x1172, "C1172 - Park Brake Switch # 1 Applied Circuit Failure");
  (0x1173, "C1173 - Park Brake Switch # 1 Released Circuit Short to Gnd");
  (0x1174, "C1174 - Park Brake Switch # 2 Applied Circuit Failure");
  (0x1175, "C1175 - Speed Wheel Sensor LR Input Circuit Failure");
  (0x1176, "C1176 - Speed Wheel Sensor LR Circuit Open");
  (0x1177, "C1177 - Park Brake Actuator Assembly Switch Released Circuit Failure");
  (0x1178, "C1178 - Speed Wheel Sensor LR Coherency Fault");
  (0x1179, "C1179 - Speed Control Actuator Assembly Cable Slack Failure");
  (0x1180, "C1180 - Park Brake Valve Solenoid #1 Sense Input Circuit Failure");
  (0x1181, "C1181 - Park Brake Valve Solenoid #1 Sense Input Circuit Short to Gound");
  (0x1182, "C1182 - Park Lamp Flash Relay Circuit Failure");
  (0x1183, "C1183 - Park Lamp Flash Relay Circuit Short to Battery");
  (0x1184, "C1184 - ABS System Is Not Operational");
  (0x1185, "C1185 - ABS Power Relay Output Circuit Failure");
  (0x1186, "C1186 - ABS Power Relay Output Open Circuit");
  (0x1187, "C1187 - Brake Fluid Level Sensor Input Open Circuit");
  (0x1188, "C1188 - Brake Fluid Level Sensor Input Short Circuit To Battery");
  (0x1189, "C1189 - Brake Fluid Level Sensor Input Short Circuit To Ground");
  (0x1190, "C1190 - Speed Wheel Sensor LF Input Short Circuit To Battery");
  (0x1191, "C1191 - Speed Wheel Sensor LF Input Short Circuit To Ground");
  (0x1192, "C1192 - Speed Wheel Sensor RF Input Short Circuit To Battery");
  (0x1193, "C1193 - Speed Wheel Sensor RF Input Short Circuit To Ground");
  (0x1194, "C1194 - ABS Outlet Valve Coil LF Circuit Failure");
  (0x1195, "C1195 - ABS Outlet Valve Coil LF Circuit Open");
  (0x1196, "C1196 - ABS Outlet Valve Coil LF Circuit Short To Battery");
  (0x1197, "C1197 - ABS Outlet Valve Coil LF Circuit Short To Ground");
  (0x1198, "C1198 - ABS Inlet Valve Coil LF Circuit Failure");
  (0x1199, "C1199 - ABS Inlet Valve Coil LF Circuit Open");
  (0x1200, "C1200 - ABS Inlet Valve Coil LF Circuit Short To Battery");
  (0x1201, "C1201 - ABS Inlet Valve Coil LF Circuit Short To Ground");
  (0x1202, "C1202 - ABS Outlet Valve Coil Rear Circuit Failure");
  (0x1203, "C1203 - ABS Outlet Valve Coil Rear Circuit Open");
  (0x1204, "C1204 - ABS Outlet Valve Coil Rear Circuit Short To Battery");
  (0x1205, "C1205 - ABS Outlet Valve Coil Rear Circuit Short To Ground");
  (0x1206, "C1206 - ABS Inlet Valve Coil Rear Circuit Failure");
  (0x1207, "C1207 - ABS Inlet Valve Coil Rear Circuit Open");
  (0x1208, "C1208 - ABS Inlet Valve Coil Rear Circuit Short To Battery");
  (0x1209, "C1209 - ABS Inlet Valve Coil Rear Circuit Short To Ground");
  (0x1210, "C1210 - ABS Outlet Valve Coil RF Circuit Failure");
  (0x1211, "C1211 - ABS Outlet Valve Coil RF Circuit Open");
  (0x1212, "C1212 - ABS Outlet Valve Coil RF Circuit Short To Battery");
  (0x1213, "C1213 - ABS Outlet Valve Coil RF Circuit Short To Ground");
  (0x1214, "C1214 - ABS Inlet Valve Coil RF Circuit Failure");
  (0x1215, "C1215 - ABS Inlet Valve Coil RF Circuit Open");
  (0x1216, "C1216 - ABS Inlet Valve Coil RF Circuit Short To Battery");
  (0x1217, "C1217 - ABS Inlet Valve Coil RF Circuit Short To Ground");
  (0x1218, "C1218 - Lamp ABS Warning Output Circuit Failure");
  (0x1219, "C1219 - Lamp ABS Warning Output Circuit Open");
  (0x1220, "C1220 - Lamp ABS Warning Output Circuit Short To Battery");
  (0x1221, "C1221 - Lamp ABS Warning Output Circuit Short To Ground");
  (0x1222, "C1222 - Speed Wheel Mismatch");
  (0x1223, "C1223 - Lamp Brake Warning Output Circuit Failure");
  (0x1224, "C1224 - Lamp Brake Warning Output Circuit Open");
  (0x1225, "C1225 - Lamp Brake Warning Output Circuit Short To Battery");
  (0x1226, "C1226 - Lamp Brake Warning Output Circuit Short To Ground");
  (0x1227, "C1227 - Speed Wheel Sensor LR Input Short Circuit To Battery");
  (0x1228, "C1228 - Speed Wheel Sensor LR Input Short Circuit To Ground");
  (0x1229, "C1229 - Speed Wheel Sensor Rear Center Coherency Fault");
  (0x1230, "C1230 - Speed Wheel Sensor Rear Center Input Circuit Failure");
  (0x1231, "C1231 - Speed Wheel Sensor Rear Center Circuit Open");
  (0x1232, "C1232 - Speed Wheel Sensor Rear Center Input Short Circuit To Battery");
  (0x1233, "C1233 - Speed Wheel LF Input Signal Missing");
  (0x1234, "C1234 - Speed Wheel RF Input Signal Missing");
  (0x1235, "C1235 - Speed Wheel RR Input Signal Missing");
  (0x1236, "C1236 - Speed Wheel LR Input Signal Missing");
  (0x1237, "C1237 - Speed Wheel Rear Input Signal Missing");
  (0x1238, "C1238 - ABS Hydraulic Pressure Differential Switch Input Circuit Failure");
  (0x1239, "C1239 - ABS Hydraulic Pressure Differential Switch Input  Open Circuit");
  (0x1240, "C1240 - ABS Hydraulic Pressure Differential Switch Input Short Circuit To Battery");
  (0x1241, "C1241 - ABS Hydraulic Pressure Differential Switch Input Short Circuit To Ground");
  (0x1242, "C1242 - ABS Outlet Valve Coil LR Circuit Failure");
  (0x1243, "C1243 - ABS Outlet Valve Coil LR Circuit Open");
  (0x1244, "C1244 - ABS Outlet Valve Coil LR Circuit Short To Battery");
  (0x1245, "C1245 - ABS Outlet Valve Coil LR Circuit Short To Ground");
  (0x1246, "C1246 - ABS Outlet Valve Coil RR Circuit Failure");
  (0x1247, "C1247 - ABS Outlet Valve Coil RR Circuit Open");
  (0x1248, "C1248 - ABS Outlet Valve Coil RR Circuit Short To Battery");
  (0x1249, "C1249 - ABS Outlet Valve Coil RR Circuit Short To Ground");
  (0x1250, "C1250 - ABS Inlet Valve Coil LR Circuit Failure");
  (0x1251, "C1251 - ABS Inlet Valve Coil LR Circuit Open")].
Definition kCCodes2 : list (Z * string) := [
  (0x1252, "C1252 - ABS Inlet Valve Coil LR Circuit Short To Battery");
  (0x1253, "C1253 - ABS Inlet Valve Coil LR Circuit Short To Ground");
  (0x1254, "C1254 - ABS Inlet Valve Coil RR Circuit Failure");
  (0x1255, "C1255 - ABS Inlet Valve Coil RR Circuit Open");
  (0x1256, "C1256 - ABS Inlet Valve Coil RR Circuit Short To Battery");
  (0x1257, "C1257 - ABS Inlet Valve Coil RR Circuit Short To Ground");
  (0x1258, "C1258 - Speed Wheel LF Comparison Failure");
  (0x1259, "C1259 - Speed Wheel RF Comparison Failure");
  (0x1260, "C1260 - Speed Wheel RR Comparison Failure");
  (0x1261, "C1261 - Speed Wheel LR Comparison Failure");
  (0x1262, "C1262 - Lamp Warning Relay Circuit Failure");
  (0x1263, "C1263 - Lamp Warning Relay Circuit Open");
  (0x1264, "C1264 - Lamp Warning Relay Circuit Short To Battery");
  (0x1265, "C1265 - Lamp Warning Relay Circuit Short To Ground");
  (0x1266, "C1266 - ABS Valve Power Relay Circuit Failure");
  (0x1267, "C1267 - ABS Functions Temporarily Disabled");
  (0x1268, "C1268 - Motor Relay # 1 Circuit Failure");
  (0x1269, "C1269 - Motor Relay # 1 Circuit Short to Battery");
  (0x1270, "C1270 - Motor # 1 Input Circuit Failure");
  (0x1271, "C1271 - Motor # 1 Input Circuit Short to Gnd");
  (0x1272, "C1272 - Motor # 2 Input Circuit Failure");
  (0x1273, "C1273 - Motor # 2 Input Circuit Short to Vbat");
  (0x1274, "C1274 - Solenoid Relay # 1 Circuit Failure");
  (0x1275, "C1275 - Solenoid Relay # 1 Circuit Short to Vbatt");
  (0x1276, "C1276 - Park Brake Actuator Assembly Switch Applied Circuit Short to Gnd");
  (0x1277, "C1277 - STEERING Wheel Angle 1and 2 Circuit Failure");
  (0x1278, "C1278 - STEERING Wheel Angle 1and 2 Signal Faulted");
  (0x1279, "C1279 - Yaw Rate Sensor circuit Failure");
  (0x1280, "C1280 - Yaw Rate Sensor Signal Fault");
  (0x1281, "C1281 - Lateral Accelerometer circuit Failure");
  (0x1282, "C1282 - Lateral Accelerometer Signal Fault");
  (0x1283, "C1283 - Switch Test Signal Failure");
  (0x1284, "C1284 - Oil Pressure Switch Failure");
  (0x1285, "C1285 - Booster Solenoid circuit Failure");
  (0x1286, "C1286 - Booster Mechanical Failure");
  (0x1287, "C1287 - Booster Pedal Force switch circuit Failure");
  (0x1288, "C1288 - Pressure Transducer Main / Primary Input Circuit Failure");
  (0x1289, "C1289 - Pressure Transducer Redundant / Secondary Input Circuit Failure");
  (0x1400, "C1400 - Traction Control Valve RF Circuit Failure");
  (0x1401, "C1401 - Traction Control Valve RF Circuit Open");
  (0x1402, "C1402 - Traction Control Valve RF Circuit Short To Ground");
  (0x1403, "C1403 - Traction Control Valve RF Circuit Short To Battery");
  (0x1404, "C1404 - Traction Control Valve Rear Circuit Failure");
  (0x1405, "C1405 - Traction Control Valve Rear Circuit Open");
  (0x1406, "C1406 - Traction Control Valve Rear Circuit Short To Ground");
  (0x1407, "C1407 - Traction Control Valve Rear Circuit Short To Battery");
  (0x1410, "C1410 - Traction Control Valve LF Circuit Failure");
  (0x1411, "C1411 - Traction Control Valve LF Circuit Open");
  (0x1412, "C1412 - Traction Control Valve LF Circuit Short To Ground");
  (0x1413, "C1413 - Traction Control Valve LF Circuit Short To Battery");
  (0x1414, "C1414 - Incorrect Module Design Level");
  (0x1415, "C1415 - Incorrect Module Configuration");
  (0x1416, "C1416 - Damper RF Circuit Short To Battery");
  (0x1417, "C1417 - Damper RF Circuit Short to Ground");
  (0x1418, "C1418 - Damper RF Circuit Failure");
  (0x1419, "C1419 - Damper RF Circuit Open");
  (0x1420, "C1420 - Hydraulic Fluid Pressure/ Flow Circuit Short to Vbatt");
  (0x1421, "C1421 - Damper LF Circuit Short To Battery");
  (0x1422, "C1422 - Damper LF Circuit Short to Ground");
  (0x1423, "C1423 - Damper LF Circuit Failure");
  (0x1424, "C1424 - Damper LF Circuit Open");
  (0x1425, "C1425 - Damper RR Circuit Short to Ground");
  (0x1426, "C1426 - Damper RR Circuit Short To Battery");
  (0x1427, "C1427 - Damper RR Circuit Open");
  (0x1428, "C1428 - Damper RR Circuit Failure");
  (0x1429, "C1429 - Input-shaft-speed input circuit failure");
  (0x1430, "C1430 - Damper LR Circuit Open");
  (0x1431, "C1431 - Damper LR Circuit Short To Battery");
  (0x1432, "C1432 - Damper LR Circuit Short to Ground");
  (0x1433, "C1433 - Damper LR Circuit Failure");
  (0x1435, "C1435 - Accelerometer Rear Circuit Failure");
  (0x1436, "C1436 - Accelerometer Rear Circuit Signal Is Not Sensed");
  (0x1437, "C1437 - Accelerometer Rear Circuit Short To Ground");
  (0x1438, "C1438 - Accelerometer Rear Circuit Short To Battery");
  (0x1439, "C1439 - Vehicle Acceleration EEC-IV Circuit Failure");
  (0x1440, "C1440 - Pressure Transducer Main / Primary signal Faulted");
  (0x1441, "C1441 - Steering Phase A Circuit Signal Is Not Sensed");
  (0x1442, "C1442 - Steering Phase B Circuit Signal Is Not Sensed");
  (0x1443, "C1443 - Steering Phase A Circuit Short To Ground");
  (0x1444, "C1444 - Steering Phase B Circuit Short To Ground");
  (0x1445, "C1445 - Speed Vehicle Signal Circuit Failure");
  (0x1446, "C1446 - Brake Switch Circuit Failure");
  (0x1447, "C1447 - Traction Control Module Request Circuit Failure");
  (0x1448, "C1448 - Lamp Adaptive Damping Warning Circuit Failure");
  (0x1449, "C1449 - Traction Control Motor Coherency Fault");
  (0x1450, "C1450 - Traction Control Motor Circuit Failure");
  (0x1451, "C1451 - Traction Control Motor Circuit Open");
  (0x1452, "C1452 - Traction Control Motor Circuit Short to Battery");
  (0x1453, "C1453 - Traction Control Motor Circuit Short to Ground");
  (0x1454, "C1454 - Front Lateral Accelerometer Circuit Failure");
  (0x1455, "C1455 - Accelerometer Front Circuit Failure");
  (0x1456, "C1456 - Accelerometer Front Circuit Is Not Sensed");
  (0x1457, "C1457 - Accelerometer Front Circuit Short To Ground");
  (0x1458, "C1458 - Accelerometer Front Circuit Short To Battery");
  (0x1459, "C1459 - Adaptive Mode Switch Circuit Failure");
  (0x1460, "C1460 - Vehicle Accelerometer Power Circuit Failure");
  (0x1461, "C1461 - Vehicle Accelerometer Power Circuit Short to Battery");
  (0x1462, "C1462 - Left Front Vertical Accelerometer Circuit Failure");
  (0x1463, "C1463 - Right Front Vertical Accelerometer Circuit Failure");
  (0x1464, "C1464 - Pressure Transducer Redundant / Secondary Signal Faulted");
  (0x1465, "C1465 - Damper High Side Front Circuit Short To Battery");
  (0x1466, "C1466 - Damper Circuit Failure");
  (0x1467, "C1467 - Damper High Side Rear Circuit Short To Battery");
  (0x1468, "C1468 - Damper Low Side Front Circuit Failure");
  (0x1469, "C1469 - Damper Low Side Rear Circuit Failure");
  (0x1495, "C1495 - Traction Control Motor Potentiometer Circuit Failure");
  (0x1496, "C1496 - Traction Control Motor Potentiometer Circuit Open");
  (0x1497, "C1497 - Traction Control Motor Potentiometer Circuit Short to Battery");
  (0x1498, "C1498 - Traction Control Motor Potentiometer Circuit Short to Ground");
  (0x1499, "C1499 - Transfer Case Contact Plate 'A' Encoder Circuit Failure");
  (0x1500, "C1500 - Transfer Case Contact Plate 'B' Encoder Circuit Failure");
  (0x1501, "C1501 - Transfer Case Contact Plate 'C' Encoder Circuit Failure");
  (0x1502, "C1502 - Transfer Case Contact Plate 'D' Encoder Circuit Failure");
  (0x1503, "C1503 - Dynamic Stability Control Left Front Valve Malfunction");
  (0x1504, "C1504 - Dynamic Stability Control Right Front Valve Malfunction");
  (0x1505, "C1505 - Dynamic Stability Control Left Rear Valve Malfunction");
  (0x1506, "C1506 - Dynamic Stability Control Right Rear Valve Malfunction");
  (0x1507, "C1507 - Traction Control of Brake Exceeds Time-Out");
  (0x1508, "C1508 - Traction Control of Engine Exceeds Time-Out");
  (0x1510, "C1510 - Right Front Wheel Pressure Reduction Performance Problem");
  (0x1511, "C1511 - Left Front Wheel Pressure Reduction Performance Problem");
  (0x1512, "C1512 - Right Rear Wheel Pressure Reduction Performance Problem");
  (0x1513, "C1513 - Left rear Wheel Pressure Reduction Performance Problem");
  (0x1699, "C1699 - Left Rear Sensor Circuit Short to Vbat");
  (0x1700, "C1700 - Left Rear Sensor Circuit Failure");
  (0x1701, "C1701 - Left Rear Sensor Circuit Fault");
  (0x1702, "C1702 - RightRear Sensor Circuit Short to Vbat");
  (0x1703, "C1703 - Right Rear Sensor Circuit Failure");
  (0x1704, "C1704 - Right Rear Sensor Circuit Fault");
  (0x1705, "C1705 - Left Rear Center Sensor Circuit Short to Vbat");
  (0x1706, "C1706 - Left Rear Center Sensor Circuit Failure");
  (0x1707, "C1707 - Left Rear Center Sensor Circuit Fault");
  (0x1708, "C1708 - Right Rear Center Sensor Circuit Short to Vbat");
  (0x1709, "C1709 - Right Rear Center Sensor Circuit Failure");
  (0x1710, "C1710 - Right Rear Center Sensor Circuit Fault");
  (0x1711, "C1711 - Left Front Sensor Circuit Short to Vbat");
  (0x1712, "C1712 - Left Front Sensor Circuit Failure");
  (0x1713, "C1713 - Left Front Sensor Circuit Fault");
  (0x1714, "C1714 - Right Front Sensor Circuit Short to Vbat");
  (0x1715, "C1715 - Right Front Sensor Circuit Failure")].
Definition kCCodes3 : list (Z * string) := [
  (0x1716, "C1716 - Right Front Sensor Circuit Fault");
  (0x1717, "C1717 - Left Front Center Sensor Circuit Short to Vbat");
  (0x1718, "C1718 - Left Front Center Sensor Circuit Failure");
  (0x1719, "C1719 - Left Front Center Sensor Circuit Fault");
  (0x1721, "C1721 - Air Suspension Height Sensor Power Circuit Open");
  (0x1722, "C1722 - Air Suspension Height Sensor Power Circuit Short To Battery");
  (0x1723, "C1723 - Air Suspension Height Sensor Power Circuit Short To Ground");
  (0x1724, "C1724 - Air Suspension Height Sensor Power Circuit Failure");
  (0x1725, "C1725 - Air Suspension Front Pneumatic Failure");
  (0x1726, "C1726 - Air Suspension Rear Pneumatic Failure");
  (0x1727, "C1727 - Air Suspension Reservoir Pneumatic Failure");
  (0x1728, "C1728 - Transfer  Case unable to transition between 2H and 4H");
  (0x1729, "C1729 - Transfer  Case unable to transition between 4H and 4L");
  (0x1730, "C1730 - Reference Voltage Out of Range (+5 v)");
  (0x1731, "C1731 - Air Suspension LF Corner Up Timeout");
  (0x1732, "C1732 - Air Suspension LF Corner Down Timeout");
  (0x1733, "C1733 - Air Suspension RF Corner Up Timeout");
  (0x1734, "C1734 - Air Suspension RF Corner Down Timeout");
  (0x1735, "C1735 - Air Suspension LR Corner Up Timeout");
  (0x1736, "C1736 - Air Suspension LR Corner Down Timeout");
  (0x1737, "C1737 - Air Suspension RR Corner Up Timeout");
  (0x1738, "C1738 - Air Suspension RR Corner Down Timeout");
  (0x1739, "C1739 - Right Front Center Sensor Circuit Short to Vbat");
  (0x1740, "C1740 - Right Front Center Sensor Circuit Failure");
  (0x1741, "C1741 - Right Front Center Sensor Circuit Fault");
  (0x1742, "C1742 - Rear Sounder Circuit Failure");
  (0x1743, "C1743 - Rear Sounder Circuit Short to Vbatt");
  (0x1744, "C1744 - Front Sounder Circuit Failure");
  (0x1745, "C1745 - Front Sounder Circuit Short to Vbatt");
  (0x1748, "C1748 - Switch input Circuit Short to Gnd");
  (0x1749, "C1749 - Trailer Input Circuit Failure");
  (0x1750, "C1750 - Accelerator Position Sensor Out of Range");
  (0x1751, "C1751 - Vehicle Speed Sensor # 1 Output Circuit Short to Vbatt");
  (0x1752, "C1752 - Vehicle Speed Sensor # 1 Output Circuit Short to Gnd");
  (0x1753, "C1753 - Hydraulic Clutch Actuator Valve Signal Fault");
  (0x1754, "C1754 - Hydraulic Clutch Actuator Valve Circuit Failure");
  (0x1755, "C1755 - Power Limit Shutdown Fault");
  (0x1756, "C1756 - Air Suspension Front Height Sensor High (SE) Signal Circuit Failure");
  (0x1757, "C1757 - Air Suspension Front Height Sensor High (SE) Signal Circuit Open");
  (0x1758, "C1758 - Air Suspension Front Height Sensor High (SE) Signal Circuit Short To Battery");
  (0x1759, "C1759 - Air Suspension Front Height Sensor High (SE) Signal Circuit Short To Ground");
  (0x1760, "C1760 - Air Suspension Rear Height Sensor High (SE) Signal Circuit Failure");
  (0x1761, "C1761 - Air Suspension Rear Height Sensor High (SE) Signal Circuit Open");
  (0x1762, "C1762 - Air Suspension Rear Height Sensor High (SE) Signal Circuit Short To Battery");
  (0x1763, "C1763 - Air Suspension Rear Height Sensor High (SE) Signal Circuit Short To Ground");
  (0x1765, "C1765 - Air Suspension Rear Height Sensor Low Signal Circuit Failure");
  (0x1766, "C1766 - Air Suspension Rear Height Sensor Low Signal Circuit Open");
  (0x1767, "C1767 - Air Suspension Rear Height Sensor Low Signal Circuit Short To Battery");
  (0x1768, "C1768 - Air Suspension Rear Height Sensor Low Signal Circuit Short To Ground");
  (0x1770, "C1770 - Air Suspension Vent Solenoid Output Circuit Failure");
  (0x1771, "C1771 - Air Suspension Vent Solenoid Output Circuit Open");
  (0x1772, "C1772 - Air Suspension Vent Solenoid Output Circuit Short To Battery");
  (0x1773, "C1773 - Air Suspension Vent Solenoid Output Circuit Short To Ground");
  (0x1774, "C1774 - Coolant Temp Out of Range");
  (0x1775, "C1775 - DC-DC Converter Failure");
  (0x1776, "C1776 - Heater System Failure");
  (0x1777, "C1777 - Vacuum Pressure Circuit Failure");
  (0x1778, "C1778 - Power Steering Failure");
  (0x1779, "C1779 - Blower Switch Failure");
  (0x1780, "C1780 - Temperature Select Failure");
  (0x1781, "C1781 - Engine Coolant Temperature Signal Missing/Fault");
  (0x1790, "C1790 - Air Suspension LR Air Spring/Shock Solenoid Output Circuit Failure");
  (0x1791, "C1791 - Air Suspension LR Air Spring/Shock Solenoid Output Circuit Open");
  (0x1792, "C1792 - Air Suspension LR Air Spring/Shock Solenoid Output Circuit Short To Battery");
  (0x1793, "C1793 - Air Suspension LR Air Spring/Shock Solenoid Output Circuit Short To Ground");
  (0x1795, "C1795 - Air Suspension RR Air Spring/Shock Solenoid Output Circuit Failure");
  (0x1796, "C1796 - Air Suspension RR Air Spring/Shock Solenoid Output Circuit Open");
  (0x1797, "C1797 - Air Suspension RR Air Spring/Shock Solenoid Output Circuit Short To Battery");
  (0x1798, "C1798 - Air Suspension RR Air Spring/Shock Solenoid Output Circuit Short To Ground");
  (0x1800, "C1800 - Air Suspension Reservoir Solenoid Circuit Failure");
  (0x1805, "C1805 - Mismatched PCM and/or ABS-TC Module");
  (0x1813, "C1813 - Air Suspension LR Vent Request Exceeded Max Timing");
  (0x1814, "C1814 - Air Suspension RR Vent Request Exceeded Max Timing");
  (0x1818, "C1818 - Air Suspension LR Air Compress Request Exceeded Max Timing");
  (0x1819, "C1819 - Air Suspension RR Air Compress Request Exceeded Max Timing");
  (0x1820, "C1820 - Air Suspension RF Air Compress Request Exceeded Max Timing");
  (0x1830, "C1830 - Air Suspension Compressor Relay Circuit Failure");
  (0x1831, "C1831 - Air Suspension Compressor Relay Circuit Open");
  (0x1832, "C1832 - Air Suspension Compressor Relay Circuit Short To Battery");
  (0x1833, "C1833 - Air Suspension Compressor  Relay Circuit Short To Ground");
  (0x1834, "C1834 - Gauge Drive Current Fault");
  (0x1835, "C1835 - Current Sense Circuit Failure");
  (0x1836, "C1836 - Battery Temp out of Range");
  (0x1837, "C1837 - Battery Heater Circuit Failure");
  (0x1838, "C1838 - Charging System Fault");
  (0x1839, "C1839 - Leakage Fault");
  (0x1840, "C1840 - Air Suspension Disable Switch Circuit Failure");
  (0x1841, "C1841 - Air Suspension Disable Switch Circuit Open");
  (0x1842, "C1842 - Air Suspension Disable Switch Circuit Short To Battery");
  (0x1843, "C1843 - Air Suspension Disable Switch Circuit Short To Ground");
  (0x1844, "C1844 - Air Suspension Secondary Front Inflator Solenoid Output Circuit Failure");
  (0x1845, "C1845 - Air Suspension Front Inflator Solenoid Output Circuit Failure");
  (0x1846, "C1846 - Air Suspension Front Inflator Solenoid Output Circuit Open");
  (0x1847, "C1847 - Air Suspension Front Inflator Solenoid Output Circuit Short To  Battery");
  (0x1848, "C1848 - Air Suspension Front Inflator Solenoid Output Circuit Short To Ground");
  (0x1849, "C1849 - Master Cylinder Pressure Out of Range");
  (0x1850, "C1850 - Air Suspension Warning Lamp Circuit Failure");
  (0x1851, "C1851 - Air Suspension Warning Lamp Circuit Open");
  (0x1852, "C1852 - Air Suspension Warning Lamp Circuit Short To Battery");
  (0x1853, "C1853 - Air Suspension Warning Lamp Circuit Short To Ground");
  (0x1854, "C1854 - Motor Temperature Out of Range");
  (0x1855, "C1855 - Acceleration Position Sensor Conflict");
  (0x1856, "C1856 - Traction Motor Encoder  circuit Failure");
  (0x1859, "C1859 - PRNDL Input #2 Circuit Failure");
  (0x1860, "C1860 - PRNDL Input #3 Circuit Failure");
  (0x1861, "C1861 - PRNDL Input #4 Circuit Failure");
  (0x1862, "C1862 - Contactor Circuit Failure");
  (0x1863, "C1863 - External Charging Fault");
  (0x1864, "C1864 - Battery Module Fault");
  (0x1865, "C1865 - Air Suspension Rear Inflator Solenoid Output Circuit Failure");
  (0x1866, "C1866 - Air Suspension Rear Inflator Solenoid Output Circuit Open");
  (0x1867, "C1867 - Air Suspension Rear Inflator Solenoid Output Circuit Short To  Battery");
  (0x1868, "C1868 - Air Suspension Rear Inflator Solenoid Output Circuit Short To Ground");
  (0x1869, "C1869 - Air Suspension Gate Solenoid Output Circuit Failure");
  (0x1870, "C1870 - Air Suspension Gate Solenoid Output Circuit Open");
  (0x1871, "C1871 - Air Suspension Gate Solenoid Output Circuit Short To  Battery");
  (0x1872, "C1872 - Air Suspension Gate Solenoid Output Circuit Short To Ground");
  (0x1873, "C1873 - Air Suspension RF Air Spring Solenoid Output Circuit Failure");
  (0x1874, "C1874 - Air Suspension RF Air Spring Solenoid Output Circuit Open");
  (0x1875, "C1875 - Air Suspension RF Air Spring Solenoid Output Circuit Short To Battery");
  (0x1876, "C1876 - Air Suspension RF Air Spring Solenoid Output Circuit Short To Ground");
  (0x1877, "C1877 - Air Suspension LF Air Spring Solenoid Output Circuit Failure");
  (0x1878, "C1878 - Air Suspension LF Air Spring Solenoid Output Circuit Open");
  (0x1879, "C1879 - Air Suspension LF Air Spring Solenoid Output Circuit Short To Battery");
  (0x1880, "C1880 - Air Suspension LF Air Spring Solenoid Output Circuit Short To Ground");
  (0x1881, "C1881 - Air Suspension RF Height Sensor Circuit Failure");
  (0x1882, "C1882 - Air Suspension RF Height Sensor Circuit Open");
  (0x1883, "C1883 - Air Suspension RF Height Sensor Circuit Short To Battery");
  (0x1884, "C1884 - Air Suspension RF Height Sensor Circuit Short To Ground");
  (0x1885, "C1885 - Air Suspension RR Height Sensor Circuit Failure");
  (0x1886, "C1886 - Air Suspension RR Height Sensor Circuit Open");
  (0x1887, "C1887 - Air Suspension RR Height Sensor Circuit Short To Battery");
  (0x1888, "C1888 - Air Suspension RR Height Sensor Circuit Short To Ground");
  (0x1889, "C1889 - Air Suspension LF Height Sensor Circuit Failure");
  (0x1890, "C1890 - Air Suspension LF Height Sensor Circuit Open");
  (0x1891, "C1891 - Air Suspension LF Height Sensor Circuit Short To Battery");
  (0x1892, "C1892 - Air Suspension LF Height Sensor Circuit Short To Ground");
  (0x1893, "C1893 - Air Suspension LR Height Sensor Circuit Failure");
  (0x1894, "C1894 - Air Suspension LR Height Sensor Circuit Open");
  (0x1895, "C1895 - Air Suspension LR Height Sensor Circuit Short To Battery")].
Definition kCCodes4 : list (Z * string) := [
  (0x1896, "C1896 - Air Suspension LR Height Sensor Circuit Short To Ground");
  (0x1897, "C1897 - Steering VAPS II Circuit Loop Failure");
  (0x1898, "C1898 - Steering VAPS II Circuit Loop Open");
  (0x1899, "C1899 - Steering VAPS II Circuit Loop Short To Battery");
  (0x1900, "C1900 - Steering VAPS II Circuit Loop Short To Ground");
  (0x1901, "C1901 - Ride Control RR Shock Actuator Circuit Failure");
  (0x1902, "C1902 - Ride Control RR Shock Actuator Circuit Open");
  (0x1903, "C1903 - Ride Control RR Shock Actuator Circuit Short To Battery");
  (0x1904, "C1904 - Ride Control RR Shock Actuator Circuit Short To Ground");
  (0x1905, "C1905 - Ride Control LR Shock Actuator Circuit Failure");
  (0x1906, "C1906 - Ride Control LR Shock Actuator Circuit Open");
  (0x1907, "C1907 - Ride Control LR Shock Actuator Circuit Short To Battery");
  (0x1908, "C1908 - Ride Control LR Shock Actuator Circuit Short To Ground");
  (0x1909, "C1909 - Ride Control RF Shock Actuator Circuit Failure");
  (0x1910, "C1910 - Ride Control RF Shock Actuator Circuit Open");
  (0x1911, "C1911 - Ride Control RF Shock Actuator Circuit Short To Battery");
  (0x1912, "C1912 - Ride Control RF Shock Actuator Circuit Short To Ground");
  (0x1913, "C1913 - Ride Control LF Shock Actuator Circuit Failure");
  (0x1914, "C1914 - Ride Control LF Shock Actuator Circuit Open");
  (0x1915, "C1915 - Ride Control LF Shock Actuator Circuit Short To Battery");
  (0x1916, "C1916 - Ride Control LF Shock Actuator Circuit Short To Ground");
  (0x1917, "C1917 - Steering EVO Out-of-Range Fault");
  (0x1918, "C1918 - Air Suspension Ride Height Select Switch Circuit Failure");
  (0x1920, "C1920 - Led #1 Circuit Failure");
  (0x1921, "C1921 - VAPS Solenoid Actuator Output Circuit Failure");
  (0x1922, "C1922 - VAPS Solenoid Actuator Output Circuit Open");
  (0x1923, "C1923 - VAPS Solenoid Actuator Output Circuit Short To Battery");
  (0x1924, "C1924 - VAPS Solenoid Actuator Output Circuit Short To Ground");
  (0x1925, "C1925 - VAPS Solenoid Actuator Return Circuit Failure");
  (0x1926, "C1926 - VAPS Solenoid Actuator Return Circuit Open");
  (0x1927, "C1927 - VAPS Solenoid Actuator Return Circuit Short To Battery");
  (0x1928, "C1928 - VAPS Solenoid Actuator Return Circuit Short To Ground");
  (0x1929, "C1929 - Air Suspension Front Compressor Relay Circuit Failure");
  (0x1930, "C1930 - Air Suspension Front Compressor Relay Circuit Open");
  (0x1931, "C1931 - Air Suspension Front Compressor Relay Circuit Short To Battery");
  (0x1932, "C1932 - Air Suspension Front Compressor Relay Circuit Short To Ground");
  (0x1933, "C1933 - Solenoid Current Out Of Range");
  (0x1934, "C1934 - HPU (Hydraulic Pump Unit) Pressurisation Failure");
  (0x1935, "C1935 - Chime Circuit Failure");
  (0x1936, "C1936 - Hydraulic Pump Relay Circuit Failure");
  (0x1937, "C1937 - Steering Wheel Angle Sensor Offset Failure");
  (0x1938, "C1938 - Invalid Steering Wheel Angle Sensor ID");
  (0x1939, "C1939 - Brake Pressure Switch Input Circuit Failure");
  (0x1940, "C1940 - Brake Pressure Switch Mechanical Failure");
  (0x1942, "C1942 - Unrecognized Powertrain Configuration");
  (0x1943, "C1943 - Airbag Deployment Indication Input Fault");
  (0x1944, "C1944 - Gauge Driver Circuit Fault");
  (0x1945, "C1945 - Park Switch Indicates Park with Vehicle Moving");
  (0x1946, "C1946 - Seat Track Position Switch Circuit Open");
  (0x1947, "C1947 - Seat Track Position Switch Circuit Short to Ground");
  (0x1948, "C1948 - Seat Track Position Switch Circuit Resistance Out of Range");
  (0x1949, "C1949 - Accelerometer Sensor Circuit Open");
  (0x1950, "C1950 - Accelerometer Sensor Circuit Failure");
  (0x1951, "C1951 - Lateral Accelerometer Sensor Circuit Open");
  (0x1952, "C1952 - Yaw Rate Sensor Circuit Open");
  (0x1953, "C1953 - Master Cylinder Pressure Sensor Circuit Open");
  (0x1954, "C1954 - Master Cylinder Pressure Sensor Circuit Failure");
  (0x1955, "C1955 - Steering Angle Sensor Circuit Open");
  (0x1956, "C1956 - Steering Angle Sensor Circuit Failure");
  (0x1957, "C1957 - Dynamic Stability Control Valve RF Circuit Failure");
  (0x1958, "C1958 - Dynamic Stability Control Valve LF Circuit Failure");
  (0x1959, "C1959 - Lateral Accelerometer Sensor Circuit Failure");
  (0x1960, "C1960 - Driver Brake Apply Circuit Fault");
  (0x1961, "C1961 - Park Lamp Relay Coil Circuit Failure");
  (0x1962, "C1962 - Park Lamp Relay Coil Short to Battery");
  (0x1963, "C1963 - Stability Control Inhibit Warning");
  (0x2767, "C2767 - Reserved - TBD")].
Definition DtcCCodes : list (Z * string) := kCCodes1 ++ kCCodes2 ++ kCCodes3 ++ kCCodes4.

Definition kBCodes1 : list (Z * string) := [
  (0x1200, "B1200 - Climate Control Pushbutton Circuit Failure");
  (0x1201, "B1201 - Fuel Sender Circuit Failure");
  (0x1202, "B1202 - Fuel Sender Circuit Open");
  (0x1203, "B1203 - Fuel Sender Circuit Short To Battery");
  (0x1204, "B1204 - Fuel Sender Circuit Short To Ground");
  (0x1205, "B1205 - EIC Switch-1 Assembly Circuit Failure");
  (0x1206, "B1206 - EIC Switch-1 Assembly Circuit Open");
  (0x1207, "B1207 - EIC Switch-1 Assembly Circuit Short To Battery");
  (0x1208, "B1208 - EIC Switch-1 Assembly Circuit Short To Ground");
  (0x1209, "B1209 - EIC Switch-2 Assembly Circuit Failure");
  (0x1210, "B1210 - EIC Switch-2 Assembly Circuit Open");
  (0x1211, "B1211 - EIC Switch-2 Assembly Circuit Short To Battery");
  (0x1212, "B1212 - EIC Switch-2 Assembly Circuit Short To Ground");
  (0x1213, "B1213 - Anti-Theft Number of Programmed Keys Is Below Minimum");
  (0x1214, "B1214 - Running Board Lamp Circuit Failure");
  (0x1215, "B1215 - Running Board Lamp Circuit Short to Battery");
  (0x1216, "B1216 - Emergency & Road Side Assistance Switch Circuit Short to Ground");
  (0x1217, "B1217 - Horn Relay Coil Circuit Failure");
  (0x1218, "B1218 - Horn Relay Coil Circuit Short to Vbatt");
  (0x1219, "B1219 - Fuel Tank Pressure Sensor Circuit Failure");
  (0x1220, "B1220 - Fuel Tank Pressure Sensor Circuit Open");
  (0x1222, "B1222 - Fuel Temperature Sensor #1 Circuit Failure");
  (0x1223, "B1223 - Fuel Temperature Sensor #1 Circuit Open");
  (0x1224, "B1224 - Fuel Temperature Sensor #1 Circuit Short to Battery");
  (0x1225, "B1225 - Fuel Temperature Sensor #1 Circuit Short to Ground");
  (0x1226, "B1226 - Fuel Temperature Sensor #2 Circuit Failure");
  (0x1227, "B1227 - Fuel Temperature Sensor #2 Circuit Open");
  (0x1228, "B1228 - Fuel Temperature Sensor #2 Circuit Short to Battery");
  (0x1229, "B1229 - Fuel Temperature Sensor #2 Circuit Short to Ground");
  (0x1231, "B1231 - Longitudinal Acceleration Threshold Exceeded");
  (0x1232, "B1232 - See Manufacturer");
  (0x1233, "B1233 - Glass Break Sensor Failure");
  (0x1234, "B1234 - Mirror Switch Invalid Code");
  (0x1235, "B1235 - Window Feedback Failure");
  (0x1236, "B1236 - Window Feedback Loss of Signal");
  (0x1237, "B1237 - Window Feedback Out of Range");
  (0x1238, "B1238 - Over Temperature Fault");
  (0x1239, "B1239 - Air Flow Blend Door Driver Circuit Failure");
  (0x1240, "B1240 - Wiper Washer Rear Pump Relay Circuit Failure");
  (0x1241, "B1241 - Wiper Washer Rear Pump Relay Circuit Short to Battery");
  (0x1242, "B1242 - Air Flow Recirculation Door Driver Circuit Failure");
  (0x1243, "B1243 - Express Window Down Switch Circuit Short to Battery");
  (0x1244, "B1244 - Wiper Rear Motor Run Relay Circuit Failure");
  (0x1245, "B1245 - Wiper Rear Motor Run Relay Circuit Short to Battery");
  (0x1246, "B1246 - Dim Panel Potentiometer Switch Circuit Failure");
  (0x1247, "B1247 - Panel Dim Switch Circuit Open");
  (0x1249, "B1249 - Blend Door Failure");
  (0x1250, "B1250 - Air Temperature Internal Sensor Circuit Failure");
  (0x1251, "B1251 - Air Temperature Internal Sensor Circuit Open");
  (0x1252, "B1252 - Air Temperature Internal Sensor Circuit Short To Battery");
  (0x1253, "B1253 - Air Temperature Internal Sensor Circuit Short To Ground");
  (0x1254, "B1254 - Air Temperature External Sensor Circuit Failure");
  (0x1255, "B1255 - Air Temperature External Sensor Circuit Open");
  (0x1256, "B1256 - Air Temperature External Sensor Circuit Short To Battery");
  (0x1257, "B1257 - Air Temperature External Sensor Circuit Short To Ground");
  (0x1258, "B1258 - Solar Radiation Sensor Circuit Failure");
  (0x1259, "B1259 - Solar Radiation Sensor Circuit Open");
  (0x1260, "B1260 - Solar Radiation Sensor Circuit Short To Battery");
  (0x1261, "B1261 - Solar Radiation Sensor Circuit Short To Ground");
  (0x1262, "B1262 - Servo Motor Defrost Circuit Failure");
  (0x1263, "B1263 - Servo Motor Vent Circuit Failure");
  (0x1264, "B1264 - Servo Motor Foot Circuit Failure");
  (0x1265, "B1265 - Servo Motor Coolair Bypass Circuit  Failure");
  (0x1266, "B1266 - Servo Motor Airintake Left Circuit Failure");
  (0x1267, "B1267 - Servo Motor Airintake Right Circuit Failure");
  (0x1268, "B1268 - Servo Motor Potentiometer Defrost Circuit Failure");
  (0x1269, "B1269 - Servo Motor Potentiometer Defrost Circuit Open");
  (0x1270, "B1270 - Servo Motor Potentiometer Defrost Circuit Short To Battery");
  (0x1271, "B1271 - Servo Motor Potentiometer Defrost Circuit Short To Ground");
  (0x1272, "B1272 - Servo Motor Potentiometer Vent Circuit Failure");
  (0x1273, "B1273 - Servo Motor Potentiometer Vent Circuit Open");
  (0x1274, "B1274 - Servo Motor Potentiometer Vent Circuit Short To Battery");
  (0x1275, "B1275 - Servo Motor Potentiometer Vent Circuit Short To Ground");
  (0x1276, "B1276 - Servo Motor Potentiometer Foot Circuit Failure");
  (0x1277, "B1277 - Servo Motor Potentiometer Foot Circuit Open");
  (0x1278, "B1278 - Servo Motor Potentiometer Foot Circuit Short To Battery");
  (0x1279, "B1279 - Servo Motor Potentiometer Foot Circuit Short To Ground");
  (0x1280, "B1280 - Servo Motor Potentiometer Coolair Circuit Failure");
  (0x1281, "B1281 - Servo Motor Potentiometer Coolair Circuit Open");
  (0x1282, "B1282 - Servo Motor Potentiometer Coolair Circuit Short To Battery");
  (0x1283, "B1283 - Servo Motor Potentiometer Coolair Circuit Short To Ground");
  (0x1284, "B1284 - Servo Motor Potentiometer Airintake Left Circuit Failure");
  (0x1285, "B1285 - Servo Motor Potentiometer Airintake Left Circuit Open");
  (0x1286, "B1286 - Servo Motor Potentiometer Airintake Left Circuit Short To Battery");
  (0x1287, "B1287 - Servo Motor Potentiometer Airintake Left Circuit Short To Ground");
  (0x1288, "B1288 - Servo Motor Potentiometer Airintake Right Circuit Failure");
  (0x1289, "B1289 - Servo Motor Potentiometer Airintake Right Circuit Open");
  (0x1290, "B1290 - Servo Motor Potentiometer Airintake Right Circuit Short To Battery");
  (0x1291, "B1291 - Servo Motor Potentiometer Airintake Right Circuit Short To Ground");
  (0x1292, "B1292 - Battery Power Relay Circuit Failure");
  (0x1293, "B1293 - Battery Power Relay Circuit Open");
  (0x1294, "B1294 - Battery Power Relay Circuit Short To Battery");
  (0x1295, "B1295 - Battery Power Relay Circuit Short To Ground");
  (0x1296, "B1296 - Power Supply Sensor Circuit Failure");
  (0x1297, "B1297 - Power Supply Sensor Circuit Open");
  (0x1298, "B1298 - Power Supply Sensor Circuit Short To Battery");
  (0x1299, "B1299 - Power Supply Sensor Circuit Short To Ground");
  (0x1300, "B1300 - Power Door Lock Circuit Failure");
  (0x1301, "B1301 - Power Door Lock Circuit Open");
  (0x1302, "B1302 - Accessory Delay Relay Coil Circuit Failure");
  (0x1303, "B1303 - Accessory Delay Relay Coil Circuit Open");
  (0x1304, "B1304 - Accessory Delay Relay Coil Circuit Short To Battery");
  (0x1305, "B1305 - Accessory Delay Relay Coil Circuit Short To Ground");
  (0x1306, "B1306 - Oil Level Switch Circuit Open");
  (0x1307, "B1307 - Oil Level Switch Circuit Short To Battery");
  (0x1308, "B1308 - Oil Level Switch Circuit Short To Ground");
  (0x1309, "B1309 - Power Door Lock Circuit Short To Ground");
  (0x1310, "B1310 - Power Door Unlock Circuit Failure");
  (0x1311, "B1311 - Power Door Unlock Circuit Open");
  (0x1312, "B1312 - Lamp Headlamp Input Circuit Short To Battery");
  (0x1313, "B1313 - Battery Saver Relay Coil Circuit Failure");
  (0x1314, "B1314 - Battery Saver Relay Coil Circuit Open");
  (0x1315, "B1315 - Battery Saver Relay Coil Circuit Short To Battery");
  (0x1316, "B1316 - Battery Saver Relay Coil Circuit Short To Ground");
  (0x1317, "B1317 - Battery Voltage High");
  (0x1318, "B1318 - Battery Voltage Low");
  (0x1319, "B1319 - Driver Door Ajar Circuit Failure");
  (0x1320, "B1320 - Driver Door Ajar Circuit Open");
  (0x1321, "B1321 - Driver Door Ajar Circuit Short To Battery");
  (0x1322, "B1322 - Driver Door Ajar Circuit Short To Ground");
  (0x1323, "B1323 - Door Ajar Lamp Circuit Failure");
  (0x1324, "B1324 - Door Ajar Lamp Circuit Open");
  (0x1325, "B1325 - Door Ajar Lamp Circuit Short To Battery");
  (0x1326, "B1326 - Door Ajar Lamp Circuit Short To Ground");
  (0x1327, "B1327 - Passenger Door Ajar Circuit Failure");
  (0x1328, "B1328 - Passenger Door Ajar Circuit Open");
  (0x1329, "B1329 - Passenger Door Ajar Circuit Short To Battery");
  (0x1330, "B1330 - Passenger Door Ajar Circuit Short To Ground");
  (0x1331, "B1331 - Decklid Ajar Rear Door Circuit Failure");
  (0x1332, "B1332 - Decklid Ajar Rear Door Circuit Open");
  (0x1333, "B1333 - Decklid Ajar Rear Door Circuit Short To Battery");
  (0x1334, "B1334 - Decklid Ajar Rear Door Circuit Short To Ground");
  (0x1335, "B1335 - Door Ajar RR Circuit Failure");
  (0x1336, "B1336 - Door Ajar RR Circuit Open");
  (0x1337, "B1337 - Door Ajar RR Circuit Short To Battery");
  (0x1338, "B1338 - Door Ajar RR Circuit Short To Ground");
  (0x1339, "B1339 - Chime Input Request Circuit Short To Battery");
  (0x1340, "B1340 - Chime Input Request Circuit Short To Ground");
  (0x1341, "B1341 - Power Door Unlock Circuit Short To Ground");
  (0x1342, "B1342 - ECU Is Defective")].
Definition kBCodes2 : list (Z * string) := [
  (0x1343, "B1343 - Heated Backlite Input Circuit Failure");
  (0x1344, "B1344 - Heated Backlite Input Circuit Open");
  (0x1345, "B1345 - Heated Backlite Input Circuit Short To Ground");
  (0x1346, "B1346 - Heated Backlite Input Circuit Short To Battery");
  (0x1347, "B1347 - Heated Backlite Relay Circuit Failure");
  (0x1348, "B1348 - Heated Backlite Relay Circuit Open");
  (0x1349, "B1349 - Heated Backlite Relay Short To Battery");
  (0x1350, "B1350 - Heated Backlite Relay Short To Ground");
  (0x1351, "B1351 - Ignition Key-In Circuit Short To Battery");
  (0x1352, "B1352 - Ignition Key-In Circuit Failure");
  (0x1353, "B1353 - Ignition Key-In Circuit Open");
  (0x1354, "B1354 - Ignition Key-In Circuit Short To Ground");
  (0x1355, "B1355 - Ignition Run Circuit Failure");
  (0x1356, "B1356 - Ignition Run Circuit Open");
  (0x1357, "B1357 - Ignition Run Circuit Short To Battery");
  (0x1358, "B1358 - Ignition Run Circuit Short To Ground");
  (0x1359, "B1359 - Ignition Run/Acc Circuit Failure");
  (0x1360, "B1360 - Ignition Run/Acc Circuit Open");
  (0x1361, "B1361 - Ignition Run/Acc Circuit Short To Battery");
  (0x1362, "B1362 - Ignition Run/Acc Circuit Short To Ground");
  (0x1363, "B1363 - Ignition Start Circuit Failure");
  (0x1364, "B1364 - Ignition Start Circuit Open");
  (0x1365, "B1365 - Ignition Start Circuit Short To Battery");
  (0x1366, "B1366 - Ignition Start Circuit Short To Ground");
  (0x1367, "B1367 - Ignition Tach Circuit Failure");
  (0x1368, "B1368 - Ignition Tach Circuit Open");
  (0x1369, "B1369 - Ignition Tach Circuit Short To Battery");
  (0x1370, "B1370 - Ignition Tach Circuit Short To Ground");
  (0x1371, "B1371 - Illuminated Entry Relay Circuit Failure");
  (0x1372, "B1372 - Illuminated Entry Relay Circuit Open");
  (0x1373, "B1373 - Illuminated Entry Relay Short To Battery");
  (0x1374, "B1374 - Illuminated Entry Relay Short To Ground");
  (0x1375, "B1375 - Oil Change Lamp Circuit Open");
  (0x1376, "B1376 - Oil Change Lamp Circuit Short To Battery");
  (0x1377, "B1377 - Oil Change Lamp Circuit Failure");
  (0x1378, "B1378 - Oil Change Lamp Circuit Short To Ground");
  (0x1379, "B1379 - Oil Change Reset Button Circuit Short To Ground");
  (0x1380, "B1380 - Oil Change Reset Button Circuit Failure");
  (0x1381, "B1381 - Oil Change Reset Button Circuit Open");
  (0x1382, "B1382 - Oil Change Reset Button Circuit Short To Battery");
  (0x1383, "B1383 - Oil Level Lamp Circuit Short To Battery");
  (0x1384, "B1384 - Oil Level Lamp Circuit Failure");
  (0x1385, "B1385 - Oil Level Lamp Circuit Open");
  (0x1386, "B1386 - Oil Level Lamp Circuit Short To Ground");
  (0x1387, "B1387 - Oil Temperature Sensor Circuit Open");
  (0x1388, "B1388 - Oil Temperature Sensor Circuit Short To Battery");
  (0x1389, "B1389 - Oil Temperature Sensor Circuit Failure");
  (0x1390, "B1390 - Oil Temperature Sensor Circuit Short To Ground");
  (0x1391, "B1391 - Oil Level Switch Circuit Failure");
  (0x1392, "B1392 - Power Door Memory Lock Relay Circuit Failure");
  (0x1393, "B1393 - Power Door Memory Lock Relay Circuit Open");
  (0x1394, "B1394 - Power Door Memory Lock Relay Circuit Short To Battery");
  (0x1395, "B1395 - Power Door Memory Lock Relay Circuit Short To Ground");
  (0x1396, "B1396 - Power Door Lock Circuit Short To Battery");
  (0x1397, "B1397 - Power Door Unlock Circuit Short To Battery");
  (0x1398, "B1398 - Driver Power Window One Touch Window Relay Circuit Failure");
  (0x1399, "B1399 - Driver Power Window One Touch Window Relay Circuit Open");
  (0x1400, "B1400 - Driver Power Window One Touch Window Relay Circuit Short To Battery");
  (0x1401, "B1401 - Driver Power Window One Touch Window Relay Circuit Short To Ground");
  (0x1402, "B1402 - Driver Power Window Down Switch Circuit Failure");
  (0x1403, "B1403 - Driver Power Window Up Switch Circuit Failure");
  (0x1404, "B1404 - Driver Power Window Down Circuit Open");
  (0x1405, "B1405 - Driver Power Window Down Circuit Short To Battery");
  (0x1406, "B1406 - Driver Power Window Down Circuit Short To Ground");
  (0x1407, "B1407 - Driver Power Window Up Circuit Open");
  (0x1408, "B1408 - Driver Power Window Up Circuit Short To Battery");
  (0x1409, "B1409 - Driver Power Window Up Circuit Short To Ground");
  (0x1410, "B1410 - Driver Power Window Motor Circuit Failure");
  (0x1411, "B1411 - Driver Power Window Motor Circuit Open");
  (0x1412, "B1412 - Driver Power Window Motor Circuit Short To Battery");
  (0x1413, "B1413 - Driver Power Window Motor Circuit Short To Ground");
  (0x1414, "B1414 - Power Window LR Motor Circuit Failure");
  (0x1415, "B1415 - Power Window LR Motor Circuit Open");
  (0x1416, "B1416 - Power Window LR Motor Circuit Short To Battery");
  (0x1417, "B1417 - Power Window LR Motor Circuit Short To Ground");
  (0x1418, "B1418 - Passenger Power Window Motor Circuit Failure");
  (0x1419, "B1419 - Passenger Power Window Motor Circuit Open");
  (0x1420, "B1420 - Passenger Power Window Motor Circuit Short To Battery");
  (0x1421, "B1421 - Passenger Power Window Motor Circuit Short To Ground");
  (0x1422, "B1422 - Power Window RR Motor Circuit Failure");
  (0x1423, "B1423 - Power Window RR Motor Circuit Open");
  (0x1424, "B1424 - Power Window RR Motor Circuit Short To Battery");
  (0x1425, "B1425 - Power Window RR Motor Circuit Short To Ground");
  (0x1426, "B1426 - Lamp Seat Belt Circuit Short To Battery");
  (0x1427, "B1427 - Lamp Seat Belt Circuit Open");
  (0x1428, "B1428 - Lamp Seat Belt Circuit Failure");
  (0x1429, "B1429 - Lamp Seat Belt Circuit Short To Ground");
  (0x1430, "B1430 - Seat Belt Switch Circuit Short To Ground");
  (0x1431, "B1431 - Wiper Brake/Run Relay Circuit Failure");
  (0x1432, "B1432 - Wiper Brake/Run Relay Circuit Short To Battery");
  (0x1433, "B1433 - Wiper Brake/Run Relay Circuit Short To Ground");
  (0x1434, "B1434 - Wiper Hi/Low Speed Relay Coil Circuit Failure");
  (0x1435, "B1435 - Wiper Hi/Low Speed Relay Coil Circuit Open");
  (0x1436, "B1436 - Wiper Hi/Low Speed Relay Coil Circuit Short To Battery");
  (0x1437, "B1437 - Wiper Hi/Low Speed Relay Coil Circuit Short To Ground");
  (0x1438, "B1438 - Wiper Mode Select Switch Circuit Failure");
  (0x1439, "B1439 - Wiper Mode Select Switch Circuit Open");
  (0x1440, "B1440 - Wiper Mode Select Switch Circuit Short To Battery");
  (0x1441, "B1441 - Wiper Mode Select Switch Circuit Short To Ground");
  (0x1442, "B1442 - Door Handle Switch Circuit Failure");
  (0x1443, "B1443 - Door Handle Switch Circuit Open");
  (0x1444, "B1444 - Door Handle Switch Circuit Short To Battery");
  (0x1445, "B1445 - Door Handle Switch Circuit Short To Ground");
  (0x1446, "B1446 - Wiper Park Sense Circuit Failure");
  (0x1447, "B1447 - Wiper Park Sense Circuit Open");
  (0x1448, "B1448 - Wiper Park Sense Circuit Short To Battery");
  (0x1449, "B1449 - Wiper Park Sense Circuit Short To Ground");
  (0x1450, "B1450 - Wiper Wash/Delay Switch Circuit Failure");
  (0x1451, "B1451 - Wiper Wash/Delay Switch Circuit Open");
  (0x1452, "B1452 - Wiper Wash/Delay Switch Circuit Short To Battery");
  (0x1453, "B1453 - Wiper Wash/Delay Switch Circuit Short To Ground");
  (0x1454, "B1454 - Wiper Washer Fluid Lamp Circuit Failure");
  (0x1455, "B1455 - Wiper Washer Fluid Lamp Circuit Open");
  (0x1456, "B1456 - Wiper Washer Fluid Lamp Circuit Short To Battery");
  (0x1457, "B1457 - Wiper Washer Fluid Lamp Circuit Short To Ground");
  (0x1458, "B1458 - Wiper Washer Pump Motor Relay Circuit Failure");
  (0x1459, "B1459 - Wiper Washer Pump Motor Relay Coil Circuit Open");
  (0x1460, "B1460 - Wiper Washer Pump Motor Relay Coil Circuit Short To Battery");
  (0x1461, "B1461 - Wiper Washer Pump Motor Relay Coil Circuit Short To Ground");
  (0x1462, "B1462 - Seat Belt Switch Circuit Failure");
  (0x1463, "B1463 - Seat Belt Switch Circuit Open");
  (0x1464, "B1464 - Seat Belt Switch Circuit Short To Battery");
  (0x1465, "B1465 - Wiper Brake/Run Relay Circuit Open");
  (0x1466, "B1466 - Wiper Hi/Low Speed Not Switching");
  (0x1467, "B1467 - Wiper Hi/Low Speed Circuit Motor Short To Battery");
  (0x1468, "B1468 - Chime Input Request Circuit Failure");
  (0x1469, "B1469 - Chime Input Request Circuit Open");
  (0x1470, "B1470 - Lamp Headlamp Input Circuit Failure");
  (0x1471, "B1471 - Lamp Headlamp Input Circuit Open");
  (0x1472, "B1472 - Lamp Headlamp Input Circuit Short To Ground");
  (0x1473, "B1473 - Wiper Low Speed Circuit Motor Failure");
  (0x1474, "B1474 - Battery Saver Power Relay Circuit Short To Battery");
  (0x1475, "B1475 - Accessory Delay Relay Contact Short To Battery");
  (0x1476, "B1476 - Wiper High Speed Circuit Motor Failure");
  (0x1477, "B1477 - Wiper Hi/Low Circuit Motor Short To Ground");
  (0x1478, "B1478 - Power Window One Touch Up/Down Activated Simultaneously");
  (0x1479, "B1479 - Wiper Washer Fluid Level Sensor Circuit Failure");
  (0x1480, "B1480 - Wiper Washer Fluid Level Sensor Circuit Open");
  (0x1481, "B1481 - Wiper Washer Fluid Level Sensor Circuit Short To Battery");
  (0x1482, "B1482 - Wiper Washer Fluid Level Sensor Circuit Short To Ground")].
Definition kBCodes3 : list (Z * string) := [
  (0x1483, "B1483 - Brake Pedal Input Circuit Failure");
  (0x1484, "B1484 - Brake Pedal Input Open Circuit");
  (0x1485, "B1485 - Brake Pedal Input Circuit Battery Short");
  (0x1486, "B1486 - Brake Pedal Input Circuit Ground Short");
  (0x1487, "B1487 - Door Handle Right Front Circuit Failure");
  (0x1488, "B1488 - Door Handle Right Front Circuit Open");
  (0x1489, "B1489 - Door Handle Right Front Short To Battery");
  (0x1490, "B1490 - Door Handle Right Front Short To Ground");
  (0x1491, "B1491 - Ignition Cylinder Sensor Circuit Failure");
  (0x1492, "B1492 - Ignition Cylinder Sensor Open Circuit");
  (0x1493, "B1493 - Ignition Cylinder Sensor Battery Short");
  (0x1494, "B1494 - Ignition Cylinder Sensor Ground Short");
  (0x1495, "B1495 - Decklid Punch-Out Sensor Circuit Failure");
  (0x1496, "B1496 - Decklid Punch-Out Sensor Open Circuit");
  (0x1497, "B1497 - Decklid Punch-Out Sensor Battery Short");
  (0x1498, "B1498 - Decklid Punch-Out Sensor Ground Short");
  (0x1499, "B1499 - Lamp Turn Signal Left Circuit Failure");
  (0x1500, "B1500 - Lamp Turn Signal Left Circuit Open");
  (0x1501, "B1501 - Lamp Turn Signal Left Circuit Short To Battery");
  (0x1502, "B1502 - Lamp Turn Signal Left Circuit Short To Ground");
  (0x1503, "B1503 - Lamp Turn Signal Right Circuit Failure");
  (0x1504, "B1504 - Lamp Turn Signal Right Circuit Open");
  (0x1505, "B1505 - Lamp Turn Signal Right Circuit Short To Battery");
  (0x1506, "B1506 - Lamp Turn Signal Right Circuit Short To Ground");
  (0x1507, "B1507 - Flash To Pass Switch Circuit Failure");
  (0x1508, "B1508 - Flash To Pass Switch Circuit Open");
  (0x1509, "B1509 - Flash To Pass Switch Circuit Short To Battery");
  (0x1510, "B1510 - Flash To Pass Switch Circuit Short To Ground");
  (0x1511, "B1511 - Driver Door Handle  Circuit Failure");
  (0x1512, "B1512 - Driver Door Handle  Circuit Open");
  (0x1513, "B1513 - Driver Door Handle  Circuit Short To Battery");
  (0x1514, "B1514 - Driver Door Handle  Circuit Short To Ground");
  (0x1515, "B1515 - Seat Driver Occupied Switch Circuit Failure");
  (0x1516, "B1516 - Seat Driver Occupied Switch Circuit Open");
  (0x1517, "B1517 - Seat Driver Occupied Switch Circuit Short To Battery");
  (0x1518, "B1518 - Seat Driver Occupied Switch Circuit Short To Ground");
  (0x1519, "B1519 - Hood Switch Circuit Failure");
  (0x1520, "B1520 - Hood Switch Circuit Open");
  (0x1521, "B1521 - Hood Switch Circuit Short To Battery");
  (0x1522, "B1522 - Hood Switch Circuit Short To Ground");
  (0x1523, "B1523 - Keyless Entry Circuit Failure");
  (0x1524, "B1524 - Keyless Entry Circuit Open");
  (0x1525, "B1525 - Keyless Entry Circuit Short To Battery");
  (0x1526, "B1526 - Keyless Entry Circuit Short To Ground");
  (0x1527, "B1527 - Memory Set Switch Circuit Failure");
  (0x1528, "B1528 - Memory Set Switch Circuit Open");
  (0x1529, "B1529 - Memory Set Switch Circuit Short To Battery");
  (0x1530, "B1530 - Memory Set Switch Circuit Short To Ground");
  (0x1531, "B1531 - Memory 1 Switch Circuit Failure");
  (0x1532, "B1532 - Memory 1 Switch Circuit Open");
  (0x1533, "B1533 - Memory 1 Switch Circuit Short To Battery");
  (0x1534, "B1534 - Memory 1 Switch Circuit Short To Ground");
  (0x1535, "B1535 - Memory 2 Switch Circuit Failure");
  (0x1536, "B1536 - Memory 2 Switch Circuit Open");
  (0x1537, "B1537 - Memory 2 Switch Circuit Short To Battery");
  (0x1538, "B1538 - Memory 2 Switch Circuit Short To Ground");
  (0x1539, "B1539 - Mirror Driver Switch Assembly Circuit Failure");
  (0x1540, "B1540 - Mirror Driver Switch Assembly Circuit Open");
  (0x1541, "B1541 - Mirror Driver Switch Assembly Circuit Short To Battery");
  (0x1542, "B1542 - Mirror Driver Switch Assembly Circuit Short To Ground");
  (0x1543, "B1543 - Seat Direction Switch Assembly Circuit Failure");
  (0x1544, "B1544 - Seat Direction Switch Assembly Circuit Open");
  (0x1545, "B1545 - Seat Direction Switch Assembly Circuit Short To Battery");
  (0x1546, "B1546 - Seat Direction Switch Assembly Circuit Short To Ground");
  (0x1547, "B1547 - Power Window Master Circuit Failure");
  (0x1548, "B1548 - Power Window Master Circuit Open");
  (0x1549, "B1549 - Power Window Master Circuit Short To Battery");
  (0x1550, "B1550 - Power Window Master Circuit Short To Ground");
  (0x1551, "B1551 - Decklid Release Circuit Failure");
  (0x1552, "B1552 - Decklid Release Circuit Open");
  (0x1553, "B1553 - Decklid Release Circuit Short To Battery");
  (0x1554, "B1554 - Decklid Release Circuit Short To Ground");
  (0x1555, "B1555 - Ignition Run/Start Circuit Failure");
  (0x1556, "B1556 - Ignition Run/Start Circuit Open");
  (0x1557, "B1557 - Ignition Run/Start Circuit Short To Battery");
  (0x1558, "B1558 - Ignition Run/Start Circuit Short To Ground");
  (0x1559, "B1559 - Door Lock Cylinder Circuit Failure");
  (0x1560, "B1560 - Door Lock Cylinder Circuit Open");
  (0x1561, "B1561 - Door Lock Cylinder Circuit Short To Battery");
  (0x1562, "B1562 - Door Lock Cylinder Circuit Short To Ground");
  (0x1563, "B1563 - Door Ajar Circuit Failure");
  (0x1564, "B1564 - Door Ajar Circuit Open");
  (0x1565, "B1565 - Door Ajar Circuit Short To Battery");
  (0x1566, "B1566 - Door Ajar Circuit Short To Ground");
  (0x1567, "B1567 - Lamp Headlamp High-Beam Circuit Failure");
  (0x1568, "B1568 - Lamp Headlamp High-Beam Circuit Open");
  (0x1569, "B1569 - Lamp Headlamp High-Beam Circuit Short To Battery");
  (0x1570, "B1570 - Lamp Headlamp High-Beam Circuit Short To Ground");
  (0x1571, "B1571 - Door Ajar LR Circuit Failure");
  (0x1572, "B1572 - Door Ajar LR Circuit Open");
  (0x1573, "B1573 - Door Ajar LR Circuit  Short To Battery");
  (0x1574, "B1574 - Door Ajar LR Circuit Short To Ground");
  (0x1575, "B1575 - Lamp Park Input Circuit Failure");
  (0x1576, "B1576 - Lamp Park Input Circuit Open");
  (0x1577, "B1577 - Lamp Park Input Circuit Short To Battery");
  (0x1578, "B1578 - Lamp Park Input Circuit Short To Ground");
  (0x1579, "B1579 - Dim Panel Increase Input Circuit Failure");
  (0x1580, "B1580 - Dim Panel Increase Input Circuit Open");
  (0x1581, "B1581 - Dim Panel Increase Input Circuit Short To Battery");
  (0x1582, "B1582 - Dim Panel Increase Input Circuit Short To Ground");
  (0x1583, "B1583 - Dim Panel Decrease Input Circuit Failure");
  (0x1584, "B1584 - Dim Panel Decrease Input Circuit Open");
  (0x1585, "B1585 - Dim Panel Decrease Input Circuit Short To Battery");
  (0x1586, "B1586 - Dim Panel Decrease Input Circuit Short To Ground");
  (0x1587, "B1587 - Autolamp Delay Increase Circuit Failure");
  (0x1588, "B1588 - Autolamp Delay Increase Circuit Open");
  (0x1589, "B1589 - Autolamp Delay Increase Circuit Short To Battery");
  (0x1590, "B1590 - Autolamp Delay Increase Circuit Short To Ground");
  (0x1591, "B1591 - Autolamp Delay Decrease Circuit Failure");
  (0x1592, "B1592 - Autolamp Delay Decrease Circuit Open");
  (0x1593, "B1593 - Autolamp Delay Decrease Circuit Short To Battery");
  (0x1594, "B1594 - Autolamp Delay Decrease Circuit Short To Ground");
  (0x1595, "B1595 - Ignition Switch Illegal Input Code");
  (0x1596, "B1596 - Service Continuous Codes");
  (0x1600, "B1600 - PATS Ignition Key Transponder Signal Is Not Received");
  (0x1601, "B1601 - PATS Received Incorrect Key-Code From Ignition Key Transponder");
  (0x1602, "B1602 - PATS Received Invalid Format Of Key-Code From Ignition Key Transponder");
  (0x1603, "B1603 - Lamp Anti-Theft Indicator Circuit Failure");
  (0x1604, "B1604 - Lamp Anti-Theft Indicator Circuit Open");
  (0x1605, "B1605 - Lamp Anti-Theft Indicator Circuit Short To Battery");
  (0x1606, "B1606 - Lamp Anti-Theft Indicator Circuit Short To Ground");
  (0x1607, "B1607 - Illuminated Entry Input Circuit Failure");
  (0x1608, "B1608 - Illuminated Entry Input Open Circuit");
  (0x1609, "B1609 - Illuminated Entry Input Short Circuit To Battery");
  (0x1610, "B1610 - Illuminated Entry Input Short Circuit To Ground");
  (0x1611, "B1611 - Wiper Rear Mode Select Switch Circuit Failure");
  (0x1612, "B1612 - Wiper Rear Mode Select Switch Circuit Open");
  (0x1613, "B1613 - Wiper Rear Mode Select Switch Circuit Short To Battery");
  (0x1614, "B1614 - Wiper Rear Mode Select Switch Circuit Short To Ground");
  (0x1615, "B1615 - Wiper Rear Disable Switch Circuit Failure");
  (0x1616, "B1616 - Wiper Rear Disable Switch Circuit Open");
  (0x1617, "B1617 - Wiper Rear Disable Switch Circuit Short To Battery");
  (0x1618, "B1618 - Wiper Rear Disable Switch Circuit Short To Ground");
  (0x1619, "B1619 - Wiper Rear Low Limit Input Circuit Failure");
  (0x1620, "B1620 - Wiper Rear Low Limit Input Circuit Open");
  (0x1621, "B1621 - Wiper Rear Low Limit Input Circuit Short To Battery");
  (0x1622, "B1622 - Wiper Rear Low Limit Input Circuit Short To Ground");
  (0x1623, "B1623 - Lamp Keypad Output Circuit Failure");
  (0x1624, "B1624 - Lamp Keypad Output Open Circuit");
  (0x1625, "B1625 - Lamp Keypad Output Short Circuit To Battery")].
Definition kBCodes4 : list (Z * string) := [
  (0x1626, "B1626 - Lamp Keypad Output Short Circuit To Ground");
  (0x1627, "B1627 - PRNDL Reverse Input Circuit Failure");
  (0x1628, "B1628 - PRNDL Reverse Input Open Circuit");
  (0x1629, "B1629 - PRNDL Reverse Input Short To Battery");
  (0x1630, "B1630 - PRNDL Reverse Input Short Circuit To Ground");
  (0x1631, "B1631 - Mirror Driver Left Circuit Failure");
  (0x1632, "B1632 - Mirror Driver Left Circuit Open");
  (0x1633, "B1633 - Mirror Driver Left Circuit Short To Battery");
  (0x1634, "B1634 - Mirror Driver Left Circuit Short To Ground");
  (0x1635, "B1635 - Mirror Driver Right Circuit Failure");
  (0x1636, "B1636 - Mirror Driver Right Circuit Open");
  (0x1637, "B1637 - Mirror Driver Right Circuit Short To Battery");
  (0x1638, "B1638 - Mirror Driver Right Short To Ground");
  (0x1639, "B1639 - Mirror Passenger Left Circuit Failure");
  (0x1640, "B1640 - Mirror Passenger Left Circuit Open");
  (0x1641, "B1641 - Mirror Passenger Left Circuit Short To Battery");
  (0x1642, "B1642 - Mirror Passenger Left Circuit Short To Ground");
  (0x1643, "B1643 - Mirror Passenger Right Circuit Failure");
  (0x1644, "B1644 - Mirror Passenger Right Circuit Open");
  (0x1645, "B1645 - Mirror Passenger Right Circuit Short To Battery");
  (0x1646, "B1646 - Mirror Passenger Right Circuit Short To Ground");
  (0x1647, "B1647 - Seat Driver Recline Forward Circuit Failure");
  (0x1648, "B1648 - Seat Driver Recline Forward Circuit Open");
  (0x1649, "B1649 - Seat Driver Recline Forward Circuit Short To Battery");
  (0x1650, "B1650 - Seat Driver Recline Forward Circuit Short To Ground");
  (0x1651, "B1651 - Seat Driver Recline Backward Circuit Failure");
  (0x1652, "B1652 - Seat Driver Recline Backward Circuit Open");
  (0x1653, "B1653 - Seat Driver Recline Backward Circuit Short To Battery");
  (0x1654, "B1654 - Seat Driver Recline Backward Circuit Short To Ground");
  (0x1655, "B1655 - Seat Driver Rear Up  Circuit Failure");
  (0x1656, "B1656 - Seat Driver Rear Up Circuit Open");
  (0x1657, "B1657 - Seat Driver Rear Up Circuit Short To Battery");
  (0x1658, "B1658 - Seat Driver Rear Up Circuit Short To Ground");
  (0x1659, "B1659 - Seat Driver Front Up Circuit Failure");
  (0x1660, "B1660 - Seat Driver Front Up Circuit Open");
  (0x1661, "B1661 - Seat Driver Front Up Circuit Short To Battery");
  (0x1662, "B1662 - Seat Driver Front Up Circuit Short To Ground");
  (0x1663, "B1663 - Seat Driver Front Up/Down Motor Stalled");
  (0x1664, "B1664 - Seat Driver Rear Up/Down Motor Stalled");
  (0x1665, "B1665 - Seat Driver Forward/Backward Motor Stalled");
  (0x1666, "B1666 - Seat Driver Recline Motor Stalled");
  (0x1667, "B1667 - Mirror Driver Up/Down Motor Stalled");
  (0x1668, "B1668 - Mirror Driver Right/Left Motor Stalled");
  (0x1669, "B1669 - Mirror Passenger Up/Down Motor Stalled");
  (0x1670, "B1670 - Mirror Passenger Right/Left Motor Stalled");
  (0x1671, "B1671 - Battery Module Voltage Out Of Range");
  (0x1672, "B1672 - Seat Driver Occupied Input Circuit Failure");
  (0x1673, "B1673 - Seat Driver Occupied Input Circuit Open");
  (0x1674, "B1674 - Seat Driver Occupied Input Circuit Short To Battery");
  (0x1675, "B1675 - Seat Driver Occupied Input Circuit Short To Ground");
  (0x1676, "B1676 - Battery Pack Voltage Out Of Range");
  (0x1677, "B1677 - Alarm Panic Input Circuit Failure");
  (0x1678, "B1678 - Alarm Panic Input Circuit Open");
  (0x1679, "B1679 - Alarm Panic Input Circuit Short To Battery");
  (0x1680, "B1680 - Alarm Panic Input Circuit Short To Ground");
  (0x1681, "B1681 - PATS Transceiver Module Signal Is Not Received");
  (0x1682, "B1682 - PATS Is Disabled (Check Link Between PATS And Transponder)");
  (0x1683, "B1683 - Mirror Driver/Passenger Switch Circuit Failure");
  (0x1684, "B1684 - Mirror Driver/Passenger Switch Circuit Open");
  (0x1685, "B1685 - Lamp Dome Input Circuit Failure");
  (0x1686, "B1686 - Lamp Dome Input Circuit Open");
  (0x1687, "B1687 - Lamp Dome Input Circuit Short To Battery");
  (0x1688, "B1688 - Lamp Dome Input Circuit Short To Ground");
  (0x1689, "B1689 - Autolamp Delay Circuit Failure");
  (0x1690, "B1690 - Autolamp Delay Circuit Open");
  (0x1691, "B1691 - Autolamp Delay Circuit Short To Battery");
  (0x1692, "B1692 - Autolamp Delay Circuit Short To Ground");
  (0x1693, "B1693 - Autolamp On Circuit Failure");
  (0x1694, "B1694 - Autolamp On Circuit Open");
  (0x1695, "B1695 - Autolamp On Circuit Short To Battery");
  (0x1696, "B1696 - Autolamp On Circuit Short To Ground");
  (0x1697, "B1697 - Mirror Driver/Passenger Switch Circuit Short To Battery");
  (0x1698, "B1698 - Mirror Driver/Passenger Switch Circuit Short To Ground");
  (0x1701, "B1701 - Seat Driver Recline Forward Switch Circuit Failure");
  (0x1702, "B1702 - Seat Driver Recline Forward Switch Circuit Open");
  (0x1703, "B1703 - Seat Driver Recline Forward Switch Circuit Short To Battery");
  (0x1704, "B1704 - Seat Driver Recline Forward Switch Circuit Short To Ground");
  (0x1705, "B1705 - Seat Driver Recline Rearward Switch Circuit Failure");
  (0x1706, "B1706 - Seat Driver Recline Rearward Switch Circuit Open");
  (0x1707, "B1707 - Seat Driver Recline Rearward Switch Circuit Short To Battery");
  (0x1708, "B1708 - Seat Driver Recline Rearward Switch Circuit Short To Ground");
  (0x1709, "B1709 - Seat Driver Front Up Switch Circuit Failure");
  (0x1710, "B1710 - Seat Driver Front Up Switch Circuit Open");
  (0x1711, "B1711 - Seat Driver Front Up Switch Circuit Short To Battery");
  (0x1712, "B1712 - Seat Driver Front Up Switch Circuit Short To Ground");
  (0x1713, "B1713 - Seat Driver Front Down Switch Circuit Failure");
  (0x1714, "B1714 - Seat Driver Front Down Switch Circuit Open");
  (0x1715, "B1715 - Seat Driver Front Down Switch Circuit Short To Battery");
  (0x1716, "B1716 - Seat Driver Front Down Switch Circuit Short To Ground");
  (0x1717, "B1717 - Seat Driver Forward Switch Circuit Failure");
  (0x1718, "B1718 - Seat Driver Forward Switch Circuit Open");
  (0x1719, "B1719 - Seat Driver Forward Switch Circuit Short To Battery");
  (0x1720, "B1720 - Seat Driver Forward Switch Circuit Short To Ground");
  (0x1721, "B1721 - Seat Driver Rearward Switch Circuit Failure");
  (0x1722, "B1722 - Seat Driver Rearward Switch Circuit Open");
  (0x1723, "B1723 - Seat Driver Rearward Switch Circuit Short To Battery");
  (0x1724, "B1724 - Seat Driver Rearward Switch Circuit Short To Ground");
  (0x1725, "B1725 - Seat Driver Rear Up Switch Circuit Failure");
  (0x1726, "B1726 - Seat Driver Rear Up Switch Circuit Open");
  (0x1727, "B1727 - Seat Driver Rear Up Switch Circuit Short To Battery");
  (0x1728, "B1728 - Seat Driver Rear Up Switch Circuit Short To Ground");
  (0x1729, "B1729 - Seat Driver Rear Down Switch Circuit Failure");
  (0x1730, "B1730 - Seat Driver Rear Down Switch Circuit Open");
  (0x1731, "B1731 - Seat Driver Rear Down Switch Circuit Short To Battery");
  (0x1732, "B1732 - Seat Driver Rear Down Switch Circuit Short To Ground");
  (0x1733, "B1733 - Mirror Driver Vertical Switch Circuit Failure");
  (0x1734, "B1734 - Mirror Driver Vertical Switch Circuit Open");
  (0x1735, "B1735 - Mirror Driver Vertical Switch Circuit Short To Battery");
  (0x1736, "B1736 - Mirror Driver Vertical Switch Circuit Short To Ground");
  (0x1737, "B1737 - Mirror Driver Horizontal Switch Circuit Failure");
  (0x1738, "B1738 - Mirror Driver Horizontal Switch Circuit Open");
  (0x1739, "B1739 - Mirror Driver Horizontal Switch Circuit Short To Battery");
  (0x1740, "B1740 - Mirror Driver Horizontal Switch Circuit Short To Ground");
  (0x1741, "B1741 - Mirror Passenger Vertical Switch Circuit Failure");
  (0x1742, "B1742 - Mirror Passenger Vertical Switch Circuit Open");
  (0x1743, "B1743 - Mirror Passenger Vertical Switch Circuit Short To Battery");
  (0x1744, "B1744 - Mirror Passenger Vertical Switch Circuit Short To Ground");
  (0x1745, "B1745 - Mirror Passenger Horizontal Switch Circuit Failure");
  (0x1746, "B1746 - Mirror Passenger Horizontal Switch Circuit Open");
  (0x1747, "B1747 - Mirror Passenger Horizontal Switch Circuit Short To Battery");
  (0x1748, "B1748 - Mirror Passenger Horizontal Switch Circuit Short To Ground");
  (0x1749, "B1749 - Park/Neutral Switch Circuit Failure");
  (0x1750, "B1750 - Park/Neutral Switch Circuit Open");
  (0x1751, "B1751 - Park/Neutral Switch Circuit Short To Battery");
  (0x1752, "B1752 - Park/Neutral Switch Circuit Short To Ground");
  (0x1753, "B1753 - Hazard Flash Output Circuit Failure");
  (0x1754, "B1754 - Hazard Flash Output Circuit Open");
  (0x1755, "B1755 - Hazard Flash Output Circuit Short Battery");
  (0x1756, "B1756 - Hazard Flash Output Circuit Short To Ground");
  (0x1757, "B1757 - Seat Driver Rear Down  Circuit Failure");
  (0x1758, "B1758 - Seat Driver Rear Down Circuit Open");
  (0x1759, "B1759 - Seat Driver Rear Down Circuit Short To Battery");
  (0x1760, "B1760 - Seat Driver Rear Down Circuit Short To Ground");
  (0x1761, "B1761 - Seat Driver Front Down  Circuit Failure");
  (0x1762, "B1762 - Seat Driver Front Down Circuit Open");
  (0x1763, "B1763 - Seat Driver Front Down Circuit Short To Battery");
  (0x1764, "B1764 - Seat Driver Front Down Circuit Short To Ground");
  (0x1765, "B1765 - Seat Driver Forward Circuit Failure");
  (0x1766, "B1766 - Seat Driver Forward Circuit Open");
  (0x1767, "B1767 - Seat Driver Forward Circuit Short To Battery")].
Definition kBCodes5 : list (Z * string) := [
  (0x1768, "B1768 - Seat Driver Forward Circuit Short To Ground");
  (0x1769, "B1769 - Seat Driver Backward Circuit Failure");
  (0x1770, "B1770 - Seat Driver Backward Circuit Open");
  (0x1771, "B1771 - Seat Driver Backward Circuit Short To Battery");
  (0x1772, "B1772 - Seat Driver Backward Circuit Short To Ground");
  (0x1773, "B1773 - Mirror Driver Up Circuit Failure");
  (0x1774, "B1774 - Mirror Driver Up Circuit Open");
  (0x1775, "B1775 - Mirror Driver Up Circuit Short To Battery");
  (0x1776, "B1776 - Mirror Driver Up Circuit Short To Ground");
  (0x1778, "B1778 - Mirror Driver Down Circuit Failure");
  (0x1779, "B1779 - Mirror Driver Down Circuit Open");
  (0x1780, "B1780 - Mirror Driver Down Circuit Short To Battery");
  (0x1781, "B1781 - Mirror Driver Down Short To Ground");
  (0x1782, "B1782 - Mirror Passenger Up Circuit Failure");
  (0x1783, "B1783 - Mirror Passenger Up Circuit Open");
  (0x1784, "B1784 - Mirror Passenger Up Circuit Short To Battery");
  (0x1785, "B1785 - Mirror Passenger Up Circuit Short To Ground");
  (0x1786, "B1786 - Mirror Passenger Down Circuit Failure");
  (0x1787, "B1787 - Mirror Passenger Down Circuit Open");
  (0x1788, "B1788 - Mirror Passenger Down Circuit Short To Battery");
  (0x1789, "B1789 - Mirror Passenger Down Circuit Short To Ground");
  (0x1790, "B1790 - Autolamp Sensor Input Circuit Failure");
  (0x1791, "B1791 - Autolamp Sensor Input Circuit Open");
  (0x1792, "B1792 - Autolamp Sensor Input Circuit Short To Battery");
  (0x1793, "B1793 - Autolamp Sensor Input Circuit Short To Ground");
  (0x1794, "B1794 - Lamp Headlamp Low-Beam Circuit Failure");
  (0x1795, "B1795 - Lamp Headlamp Low-Beam Circuit Open");
  (0x1796, "B1796 - Lamp Headlamp Low-Beam Circuit Short To Battery");
  (0x1797, "B1797 - Lamp Headlamp Low-Beam Circuit Short To Ground");
  (0x1798, "B1798 - Lamp Turn Signal Front Output Circuit Failure");
  (0x1799, "B1799 - Lamp Turn Signal Front Output Circuit Open");
  (0x1800, "B1800 - Lamp Turn Signal Front Output Circuit Short To Battery");
  (0x1801, "B1801 - Lamp Turn Signal Front Output Circuit Short To Ground");
  (0x1802, "B1802 - Lamp Turn Signal Rear Output Circuit Failure");
  (0x1803, "B1803 - Lamp Turn Signal Rear Output Circuit Open");
  (0x1804, "B1804 - Lamp Turn Signal Rear Output Circuit Short To Battery");
  (0x1805, "B1805 - Lamp Turn Signal Rear Output Circuit Short To Ground");
  (0x1806, "B1806 - Lamp Tail Output Circuit Failure");
  (0x1807, "B1807 - Lamp Tail Output Circuit Open");
  (0x1808, "B1808 - Lamp Tail Output Circuit Short To Battery");
  (0x1809, "B1809 - Lamp Tail Output Circuit Short To Ground");
  (0x1810, "B1810 - Lamp Backup Switch Input Circuit Failure");
  (0x1811, "B1811 - Lamp Backup Switch Input Circuit Open");
  (0x1812, "B1812 - Lamp Backup Switch Input Circuit Short To Battery");
  (0x1813, "B1813 - Lamp Backup Switch Input Circuit Short To Ground");
  (0x1814, "B1814 - Wiper Rear Motor Down Relay Coil Circuit Failure");
  (0x1815, "B1815 - Wiper Rear Motor Down Relay Coil Circuit Open");
  (0x1816, "B1816 - Wiper Rear Motor Down Relay Coil Circuit Short To Battery");
  (0x1817, "B1817 - Wiper Rear Motor Down Relay Coil Circuit Short To Ground");
  (0x1818, "B1818 - Wiper Rear Motor Up Relay Coil Circuit Failure");
  (0x1819, "B1819 - Wiper Rear Motor Up Relay Coil Circuit Open");
  (0x1820, "B1820 - Wiper Rear Motor Up Relay Coil Circuit Short To Battery");
  (0x1821, "B1821 - Wiper Rear Motor Up Relay Coil Circuit Short To Ground");
  (0x1822, "B1822 - Wiper Rear Park Sense Input Circuit Failure");
  (0x1823, "B1823 - Wiper Rear Park Sense Input Circuit Open");
  (0x1824, "B1824 - Wiper Rear Park Sense Input Circuit Short To Battery");
  (0x1825, "B1825 - Wiper Rear Park Sense Input Circuit Short To Ground");
  (0x1826, "B1826 - Wiper Rear High Limit Input Circuit Failure");
  (0x1827, "B1827 - Wiper Rear High Limit Input Circuit Open");
  (0x1828, "B1828 - Wiper Rear High Limit Input Circuit Short To Battery");
  (0x1829, "B1829 - Wiper Rear High Limit Input Circuit Short To Ground");
  (0x1830, "B1830 - Door Unlock Disarm Switch Circuit Failure");
  (0x1831, "B1831 - Door Unlock Disarm Switch Circuit Open");
  (0x1832, "B1832 - Door Unlock Disarm Switch Circuit Short To Battery");
  (0x1833, "B1833 - Door Unlock Disarm Switch Circuit Short To Ground");
  (0x1834, "B1834 - Door Unlock Disarm Output Circuit Failure");
  (0x1835, "B1835 - Door Unlock Disarm Output Circuit Open");
  (0x1836, "B1836 - Door Unlock Disarm Output Circuit Short To Battery");
  (0x1837, "B1837 - Door Unlock Disarm Output Circuit Short To Ground");
  (0x1838, "B1838 - Battery Saver Power Relay Circuit Failure");
  (0x1839, "B1839 - Wiper Rear Motor Circuit Failure");
  (0x1840, "B1840 - Wiper Front Power Circuit Failure");
  (0x1841, "B1841 - Wiper Front Power Circuit Open");
  (0x1842, "B1842 - Wiper Front Power Circuit Short To Battery");
  (0x1843, "B1843 - Wiper Front Power Circuit Short To Ground");
  (0x1844, "B1844 - Phone Handset Circuit Failure");
  (0x1845, "B1845 - Ignition Tamper Circuit Failure");
  (0x1846, "B1846 - Ignition Tamper Circuit Open");
  (0x1847, "B1847 - Ignition Tamper Circuit Short To Battery");
  (0x1848, "B1848 - Ignition Tamper Circuit Short To Ground");
  (0x1849, "B1849 - Climate Control Temperature Differential Circuit Failure");
  (0x1850, "B1850 - Climate Control Temperature Differential Circuit Open");
  (0x1851, "B1851 - Climate Control Temperature Differential Circuit Short To Battery");
  (0x1852, "B1852 - Climate Control Temperature Differential Circuit Short To Ground");
  (0x1853, "B1853 - Climate Control Air Temperature Internal Sensor Motor Circuit Failure");
  (0x1854, "B1854 - Climate Control Air Temperature Internal Sensor Motor Circuit Open");
  (0x1855, "B1855 - Climate Control Air Temperature Internal Sensor Motor Circuit Short To Battery");
  (0x1856, "B1856 - Climate Control Air Temperature Internal Sensor Motor Circuit Short To Ground");
  (0x1857, "B1857 - Climate Control On/Off Switch Circuit Failure");
  (0x1858, "B1858 - Climate Control A/C Pressure Switch Circuit Failure");
  (0x1859, "B1859 - Climate Control A/C Pressure Switch Circuit Open");
  (0x1860, "B1860 - Climate Control A/C Pressure Switch Circuit Short To Battery");
  (0x1861, "B1861 - Climate Control A/C Pressure Switch Circuit Short To Ground");
  (0x1862, "B1862 - Climate Control A/C Lock Sensor Failure");
  (0x1863, "B1863 - Ground ECU Circuit Open");
  (0x1864, "B1864 - Battery Power Supply ECU Circuit Failure");
  (0x1865, "B1865 - Battery Power Supply ECU Circuit Open");
  (0x1866, "B1866 - Battery Power Supply ECU Circuit Short To Battery");
  (0x1867, "B1867 - Battery Power Supply ECU Circuit Short To Ground");
  (0x1868, "B1868 - Lamp Air Bag Warning Indicator Circuit Failure");
  (0x1869, "B1869 - Lamp Air Bag Warning Indicator Circuit Open");
  (0x1870, "B1870 - Lamp Air Bag Warning Indicator Circuit Short To Battery");
  (0x1871, "B1871 - Passenger Air Bag Disable Module Fault");
  (0x1872, "B1872 - Turn Signal / Hazard Power Feed Circuit Short To Battery");
  (0x1873, "B1873 - Turn Signal / Hazard Power Feed Circuit Short To Ground");
  (0x1874, "B1874 - Cellular Phone Handset Not Present");
  (0x1875, "B1875 - Turn Signal / Hazard Switch Signal Circuit Failure");
  (0x1876, "B1876 - Seatbelt Driver Pretensioner Circuit Failure");
  (0x1877, "B1877 - Seatbelt Driver Pretensioner Circuit Open");
  (0x1878, "B1878 - Seatbelt Driver Pretensioner Circuit Short to Battery");
  (0x1879, "B1879 - Seatbelt Driver Pretensioner Circuit Short to Ground");
  (0x1880, "B1880 - Seatbelt Passenger Pretensioner Circuit Failure");
  (0x1881, "B1881 - Seatbelt Passenger Pretensioner Circuit Open");
  (0x1882, "B1882 - Seatbelt Passenger Pretensioner Circuit Short to Battery");
  (0x1883, "B1883 - Seatbelt Passenger Pretensioner Circuit Short to Ground");
  (0x1884, "B1884 - PAD Warning Lamp Inoperative");
  (0x1885, "B1885 - Seatbelt Driver Pretensioner Circuit Resistance Low on Squib");
  (0x1886, "B1886 - Seatbelt Passenger Pretensioner Circuit Resistance Low on Squib");
  (0x1887, "B1887 - Air Bag Driver Circuit Resistance Low or Shorted Together");
  (0x1888, "B1888 - Air Bag Passenger Circuit Resistance Low or Shorted Together");
  (0x1889, "B1889 - Passenger Airbag Disable Module Sensor Obstructed");
  (0x1890, "B1890 - PAD Warning Lamp Circuit Short to Battery");
  (0x1891, "B1891 - Air Bag Tone Warning Indicator Circuit Short to Battery");
  (0x1892, "B1892 - Air Bag Tone Warning Indicator Circuit Failure");
  (0x1893, "B1893 - GPS Antenna Open Circuit");
  (0x1894, "B1894 - Wiper Rear Motor Speed Sense Circuit Failure");
  (0x1897, "B1897 - Horn Switch Circuit Failure");
  (0x1898, "B1898 - Chime Input #2 Circuit Short to Ground");
  (0x1899, "B1899 - Microphone Input Signal Circuit Open");
  (0x1900, "B1900 - Driver Side Airbag Fault");
  (0x1901, "B1901 - Air Bag Crash Sensor #1 Feed/Return Circuit Short To Ground");
  (0x1902, "B1902 - Air Bag Crash Sensor #1 Ground Circuit Failure");
  (0x1903, "B1903 - Air Bag Crash Sensor #1 Ground Circuit Short To Battery");
  (0x1904, "B1904 - Air Bag Crash Sensor #2 Feed/Return Circuit Failure");
  (0x1905, "B1905 - Air Bag Crash Sensor #2 Feed/Return Circuit Short To Battery");
  (0x1906, "B1906 - Air Bag Crash Sensor #2 Feed/Return Circuit Short To Ground");
  (0x1907, "B1907 - Air Bag Crash Sensor #2 Ground Circuit Failure");
  (0x1908, "B1908 - Air Bag Crash Sensor #2 Ground Circuit Short To Battery");
  (0x1909, "B1909 - Air Bag Crash Sensor #2 Ground Circuit Short To Ground");
  (0x1910, "B1910 - Air Bag Diagnostic Monitor Ground Circuit Failure")].
Definition kBCodes6 : list (Z * string) := [
  (0x1911, "B1911 - Air Bag Diagnostic Monitor Ground Circuit Short To Battery");
  (0x1912, "B1912 - Air Bag Diagnostic Monitor Ground Circuit Short To Ground");
  (0x1913, "B1913 - Air Bag Driver/Passenger Circuit Short To Ground");
  (0x1914, "B1914 - Air Bag Crash Sensors #1 / #2  Circuit Short To Ground");
  (0x1915, "B1915 - Air Bag Driver Circuit Failure");
  (0x1916, "B1916 - Air Bag Driver Circuit Short To Battery");
  (0x1917, "B1917 - Air Bag Memory Clear Circuit Failure");
  (0x1918, "B1918 - Air Bag Memory Clear Circuit Open");
  (0x1919, "B1919 - Air Bag Memory Clear Circuit Short To Battery");
  (0x1920, "B1920 - Air Bag Passenger Circuit Failure");
  (0x1921, "B1921 - Air Bag Diagnostic Monitor Ground Circuit Open");
  (0x1922, "B1922 - Air Bag Safing Sensor Output Circuit Short To Battery");
  (0x1923, "B1923 - Air Bag Memory Clear Circuit Short To Ground");
  (0x1924, "B1924 - Air Bag Internal Diagnostic Monitor Fault or System Disarm Fault");
  (0x1925, "B1925 - Air Bag Passenger Circuit Short To Battery");
  (0x1926, "B1926 - Air Bag Passenger Pressure Switch Circuit Failure");
  (0x1927, "B1927 - Passenger Side Airbag Fault");
  (0x1928, "B1928 - Air Bag Safing Sensor Output Circuit Failure");
  (0x1929, "B1929 - Air Bag Safing Sensor Output Circuit Open");
  (0x1930, "B1930 - Air Bag Safing Sensor Output Circuit Short To Ground");
  (0x1931, "B1931 - Air Bag Crash Sensor #1 Feed/Return Circuit Failure");
  (0x1932, "B1932 - Air Bag Driver Circuit Open");
  (0x1933, "B1933 - Air Bag Passenger Circuit Open");
  (0x1934, "B1934 - Air Bag Driver Inflator Circuit Resistance Low on Squib");
  (0x1935, "B1935 - Air Bag Passenger Inflator Circuit Resistance Low on Squib");
  (0x1936, "B1936 - Air Bag Driver Circuit Short To Ground");
  (0x1937, "B1937 - Air Bag Passenger Pressure Switch Circuit Open");
  (0x1938, "B1938 - Air Bag Passenger Circuit Short To Ground");
  (0x1939, "B1939 - Air Bag Passenger Pressure Switch Circuit Short To Ground");
  (0x1941, "B1941 - Air Bag Crash Sensor #1 Feed/Return Circuit Open");
  (0x1942, "B1942 - Air Bag Crash Sensor #2 Feed/Return Circuit Open");
  (0x1943, "B1943 - Air Bag Crash Sensor #1 Ground Circuit Short To Ground");
  (0x1944, "B1944 - Air Bag Crash Sensor #1 Ground Circuit Open");
  (0x1945, "B1945 - Air Bag Crash Sensor #2 Ground Circuit Open");
  (0x1946, "B1946 - Climate Control A/C Post Evaporator Sensor Circuit Failure");
  (0x1947, "B1947 - Climate Control A/C Post Evaporator Sensor Circuit Short To Ground");
  (0x1948, "B1948 - Climate Control Water Temperature Sensor Circuit Failure");
  (0x1949, "B1949 - Climate Control Water Temperature Sensor Circuit Short To Ground");
  (0x1950, "B1950 - Seat Rear Up/Down Potentiometer Feedback Circuit Failure");
  (0x1951, "B1951 - Seat Rear Up/Down Potentiometer Feedback Circuit Open");
  (0x1952, "B1952 - Seat Rear Up/Down Potentiometer Feedback Circuit Short To Battery");
  (0x1953, "B1953 - Seat Rear Up/Down Potentiometer Feedback Circuit Short To Ground");
  (0x1954, "B1954 - Seat Front Up/Down Potentiometer Feedback Circuit Failure");
  (0x1955, "B1955 - Seat Front Up/Down Potentiometer Feedback Circuit Open");
  (0x1956, "B1956 - Seat Front Up/Down Potentiometer Feedback Circuit Short To Battery");
  (0x1957, "B1957 - Seat Front Up/Down Potentiometer Feedback Circuit Short To Ground");
  (0x1958, "B1958 - Seat Recline Forward/Backward Potentiometer Feedback Circuit Failure");
  (0x1959, "B1959 - Seat Recline Forward/Backward Potentiometer Feedback Circuit Open");
  (0x1960, "B1960 - Seat Recline Forward/Backward Potentiometer Feedback Circuit Short To Battery");
  (0x1961, "B1961 - Seat Recline Forward/Backward Potentiometer Feedback Circuit Short To Ground");
  (0x1962, "B1962 - Seat Horizontal Forward/Rearward Potentiometer Feedback Circuit Failure");
  (0x1963, "B1963 - Seat Horizontal Forward/Rearward Potentiometer Feedback Circuit Open");
  (0x1964, "B1964 - Seat Horizontal Forward/Rearward Potentiometer Feedback Circuit Short To Battery");
  (0x1965, "B1965 - Seat Horizontal Forward/Rearward Potentiometer Feedback Circuit Short To Ground");
  (0x1966, "B1966 - A/C Post Heater Sensor Circuit Failure");
  (0x1967, "B1967 - A/C Post Heater Sensor Circuit Short To Ground");
  (0x1968, "B1968 - A/C Water Pump Detection Circuit Failure");
  (0x1969, "B1969 - A/C Clutch Magnetic Control Circuit Failure");
  (0x1970, "B1970 - Passenger Seatback Forward Switch Circuit Short to Ground");
  (0x1971, "B1971 - Passenger Seatback Rearward Switch Circuit Short to Ground");
  (0x1972, "B1972 - Passenger Rear Seat Up Switch Circuit Short to Battery");
  (0x1973, "B1973 - Passenger Rear Seat Down Switch Circuit Short to Battery");
  (0x1979, "B1979 - Passenger Seat Rearward Switch Circuit Short to Battery");
  (0x1980, "B1980 - Bulb - Outage Condition Detected");
  (0x1981, "B1981 - Memory Off Switch Circuit Short to Battery");
  (0x1984, "B1984 - Seat Switch Lumbar Inflate Circuit Failure");
  (0x1985, "B1985 - Seat Switch Lumbar Deflate Circuit Failure");
  (0x1987, "B1987 - Pedal Forward / Rearward Motor Stalled");
  (0x1988, "B1988 - Pedal Position Forward Switch Circuit Short to Battery");
  (0x1989, "B1989 - Pedal Position Rearward Switch Circuit Short to Battery");
  (0x1990, "B1990 - Pedal Forward / Rearward Potentiometer Feedback Circuit Failure");
  (0x1991, "B1991 - Pedal Forward / Rearward Potentiometer Feedback Circuit Short to Battery");
  (0x1992, "B1992 - Driver Side");
  (0x1993, "B1993 - Driver Side");
  (0x1994, "B1994 - Driver Side");
  (0x1995, "B1995 - Driver Side");
  (0x1996, "B1996 - Passenger Side");
  (0x1997, "B1997 - Passenger Side");
  (0x1998, "B1998 - Passenger Side");
  (0x1999, "B1999 - Passenger Side");
  (0x2100, "B2100 - Door Driver Key Cylinder Switch Failure");
  (0x2101, "B2101 - Head Rest Switch Circuit Failure");
  (0x2102, "B2102 - Antenna Circuit Short to Ground");
  (0x2103, "B2103 - Antenna Not Connected");
  (0x2104, "B2104 - Door Passenger Key Cylinder Switch Failure");
  (0x2105, "B2105 - Throttle Position Input Out of Range Low");
  (0x2106, "B2106 - Throttle Position Input Out of Range High");
  (0x2107, "B2107 - Front Wiper Motor Relay Circuit Short to Vbatt");
  (0x2108, "B2108 - Trunk Key Cylinder Switch Failure");
  (0x2109, "B2109 - Heated Wind Shield Relay Short to Vbatt (changed from Failure 2/6/97)");
  (0x2110, "B2110 - Front Wiper Motor Relay Circuit Open (changed from Failure 2/6/97)");
  (0x2111, "B2111 - All Door Lock Input Short to Ground");
  (0x2112, "B2112 - Door Driver Set Switch Stuck Failure");
  (0x2113, "B2113 - Heated Windshield Input Short to Ground");
  (0x2114, "B2114 - Front Washer Input Short to Ground");
  (0x2115, "B2115 - Rear Washer Input Short to Ground");
  (0x2116, "B2116 - Door Driver Reset Switch Stuck Failure");
  (0x2117, "B2117 - Driver Side");
  (0x2118, "B2118 - Passenger Side");
  (0x2119, "B2119 - Compressor Failure");
  (0x2120, "B2120 - Door Passenger Set Switch Stuck Failure");
  (0x2122, "B2122 - Driver Side Satellite Communication Circuit Short to Ground");
  (0x2123, "B2123 - Passenger Side Satellite Communication Circuit Short to Ground");
  (0x2124, "B2124 - Door Passenger Reset Switch Stuck Failure");
  (0x2128, "B2128 - Central Lock Motor Failure");
  (0x2129, "B2129 - Central Lock Feedback Failure");
  (0x2130, "B2130 - Double Lock Timeout Failure");
  (0x2131, "B2131 - Double Lock Feedback Failure");
  (0x2132, "B2132 - Dimmer switch Circuit Short to Gnd");
  (0x2133, "B2133 - Brake Motor Warning lamp Circuit Failure");
  (0x2134, "B2134 - Brake Motor Warning lamp Circuit Short to Vbatt");
  (0x2135, "B2135 - Park Brake Applied Warning Lamp Circuit Failure");
  (0x2136, "B2136 - Park Brake Applied Warning Lamp Circuit Short To Battery");
  (0x2139, "B2139 - Data Mismatch (receive data does not match what was expected)");
  (0x2141, "B2141 - NVM Configuration Failure");
  (0x2142, "B2142 - NVM TIC Failure");
  (0x2143, "B2143 - NVM Memory Failure");
  (0x2144, "B2144 - NVM Alarm Data Failure");
  (0x2145, "B2145 - NVM RF HR Failure");
  (0x2146, "B2146 - Seat Recline Motor Position Out of Range");
  (0x2148, "B2148 - PWM Input Circuit Failure");
  (0x2149, "B2149 - Seat Front Vertical Motor Position Out of Range");
  (0x2150, "B2150 - Power Supply #1 Circuit Short to Ground");
  (0x2151, "B2151 - Power Supply #2 Circuit Short to Ground");
  (0x2152, "B2152 - Seat Rear Vertical Motor Position Out of Range");
  (0x2153, "B2153 - Rear Echo Sensor Circuit Failure");
  (0x2154, "B2154 - Front Echo Sensor Circuit Failure");
  (0x2155, "B2155 - Seat Horizontal Motor Position Out of Range");
  (0x2156, "B2156 - Rear Doppler Sensor Circuit Failure");
  (0x2157, "B2157 - Front Doppler Sensor Circuit Failure");
  (0x2158, "B2158 - Seat Recline Motor Memory Position Out of Range");
  (0x2159, "B2159 - Memory #1 output Short to Ground");
  (0x2160, "B2160 - Memory #1 output Short to VBatt");
  (0x2161, "B2161 - Seat Front Vertical Motor Memory Position Out of Range");
  (0x2162, "B2162 - Data Mismatch #2 (receive data does not match what was expected)");
  (0x2163, "B2163 - Clutch Position Fault");
  (0x2164, "B2164 - Seat Rear Vertical Motor Memory Position Out of Range");
  (0x2165, "B2165 - Gear shift position Fault");
  (0x2166, "B2166 - Gear select position Fault");
  (0x2167, "B2167 - Seat Horizontal Motor Memory Position Out of Range")].
Definition kBCodes7 : list (Z * string) := [
  (0x2168, "B2168 - Unable to confirm Unlock Condition");
  (0x2169, "B2169 - Unable to confirm lock Condition");
  (0x2170, "B2170 - Steering Column Lock Switch Circuit Failure");
  (0x2172, "B2172 - Inertia Switch input Circuit Open");
  (0x2174, "B2174 - Window Driver Rear Remote Up Switch Short to Battery");
  (0x2175, "B2175 - A/C Request Signal Circuit Short to Ground");
  (0x2176, "B2176 - Overdrive switch circuit short to Vbatt");
  (0x2177, "B2177 - Interior Scanning Sensor Circuit Failure");
  (0x2178, "B2178 - Window Driver Rear Remote Down Switch Short to Battery");
  (0x2179, "B2179 - Front Wiper Select Switch 'A' Short to Ground");
  (0x2180, "B2180 - Front Wiper Select Switch 'B' Short to Ground");
  (0x2181, "B2181 - Front Wiper Select Switch 'C' Short to Ground");
  (0x2182, "B2182 - Window Passenger Front Remote Up Switch Short to Battery");
  (0x2183, "B2183 - Front Wiper Select Switch 'H' Short to Ground");
  (0x2184, "B2184 - Front Wiper Select Switch 'W' Short to Ground");
  (0x2185, "B2185 - Rear Wiper Select Switch 'D' Short to Ground");
  (0x2186, "B2186 - Window Passenger Front Remote Down Switch Short to Battery");
  (0x2187, "B2187 - Rear Wiper Select Switch 'B' Short to Ground");
  (0x2188, "B2188 - Rear Wiper Select Switch 'E' Short to Ground");
  (0x2190, "B2190 - Window Passenger Rear Remote Up Switch Short to Battery");
  (0x2194, "B2194 - Window Passenger Rear Remote Down Switch Short to Battery");
  (0x2195, "B2195 - Driver Window  Up / Down Power Circuit Short to Ground");
  (0x2196, "B2196 - Passenger Window Up / Down Power Circuit Short to Ground");
  (0x2197, "B2197 - TV Module Error");
  (0x2198, "B2198 - TrafficMaster Module Error");
  (0x2199, "B2199 - VICS Module Error");
  (0x2200, "B2200 - No Communication to TV Module (No Fitting of TV)");
  (0x2201, "B2201 - No Communication With Traffic MasterModule");
  (0x2202, "B2202 - No Communication to VICS Module (No Fitting of VICS)");
  (0x2203, "B2203 - CD-ROM Error");
  (0x2204, "B2204 - GPS Antenna Connection Open or Short");
  (0x2205, "B2205 - GPS Receiver Error");
  (0x2206, "B2206 - Gyroscope Error");
  (0x2207, "B2207 - ECU ROM Checksum Error");
  (0x2208, "B2208 - Communication Link to Display and Switch Module Error");
  (0x2209, "B2209 - Interior Lamp Override Switch Open Circuit");
  (0x2210, "B2210 - Interior Lamp Override Switch Short to Ground");
  (0x2211, "B2211 - Low Coolant Lamp Output Circuit Short to Battery");
  (0x2214, "B2214 - Window Passenger Front Up Switch Short to Battery");
  (0x2215, "B2215 - Window Passenger Front Down Switch Short to Battery");
  (0x2219, "B2219 - Window Driver Front Current Feedback Exceeded");
  (0x2220, "B2220 - Window Driver Rear Current Feedback Exceeded");
  (0x2221, "B2221 - Window Passenger Front Current Feedback Exceeded");
  (0x2222, "B2222 - Window Passenger Rear Current Feedback Exceeded");
  (0x2223, "B2223 - Mirror Driver Drive Circuit Failure");
  (0x2224, "B2224 - Mirror Passenger Drive Circuit Failure");
  (0x2225, "B2225 - Front Crash Sensor Mount Fault");
  (0x2226, "B2226 - Front Crash Sensor Internal Fault");
  (0x2227, "B2227 - Front Crash Sensor Driver Communications Fault");
  (0x2228, "B2228 - Air Bag Driver Circuit Short to Ground - Loop #2");
  (0x2229, "B2229 - Air Bag Passenger Circuit Short to Ground - Loop #2");
  (0x2230, "B2230 - Air Bag Driver Circuit Short to Battery - Loop #2");
  (0x2231, "B2231 - Air Bag Passenger Circuit Short to Battery - Loop #2");
  (0x2232, "B2232 - Air Bag Driver Circuit Open - Loop #2");
  (0x2233, "B2233 - Air Bag passenger Circuit Open - Loop #2");
  (0x2234, "B2234 - Air Bag Driver Inflator Circuit Resistance Low on Squib - Loop #2");
  (0x2235, "B2235 - Air Bag Passenger Inflator Circuit");
  (0x2236, "B2236 - Weak or Defected Electric Vehicle Battery Module Fault");
  (0x2237, "B2237 - Vehicle Signal indicating Park While VSS Present");
  (0x2238, "B2238 - Power Cable For Power Sliding Door Broken");
  (0x2239, "B2239 - Rear Cargo Door Set Switch Stuck (Short to Ground)");
  (0x2240, "B2240 - Rear Cargo Door Reset Switch Stuck (Short to Ground)");
  (0x2241, "B2241 - Rear Cargo Door Lock Circuit Short to Ground");
  (0x2242, "B2242 - Rear Cargo Door Unlock Circuit Open");
  (0x2243, "B2243 - Driver Rear Door Ajar Circuit Open");
  (0x2244, "B2244 - Driver Sliding Door Ajar Circuit Short to GND");
  (0x2245, "B2245 - Passenger Rear Door Ajar Circuit Open");
  (0x2246, "B2246 - Passenger Sliding Door Ajar Circuit Short to GND");
  (0x2247, "B2247 - EV Battery Pack Temperature Fault");
  (0x2248, "B2248 - Heated Windshield Relay Coil Circuit Failure");
  (0x2249, "B2249 - Head Lamp Relay Coil Short to Battery");
  (0x2250, "B2250 - All Doors Unlock Relay Circuit Failure");
  (0x2251, "B2251 - Parklamp Output Relay Driver Circuit Failure");
  (0x2252, "B2252 - Parklamp Output Relay Dirver Short to Battery");
  (0x2300, "B2300 - Seat Driver Memory Position Error");
  (0x2301, "B2301 - Seat Passenger Memory Position Error");
  (0x2302, "B2302 - Seat Headrest Feedback Potentiometer Circuit Failure");
  (0x2303, "B2303 - Seat Headrest Feedback Potentiometer Circuit Open");
  (0x2304, "B2304 - Seat Headrest Feedback Potentiometer Circuit Short to Battery");
  (0x2305, "B2305 - Seat Headrest Feedback Potentiometer Circuit Short to Ground");
  (0x2306, "B2306 - Seat Headrest Motor Stalled");
  (0x2310, "B2310 - Mirror Driver Memory Position Error");
  (0x2311, "B2311 - Mirror Passenger Memory Position Error");
  (0x2312, "B2312 - Mirror Passenger Horizontal Feedback Potentiometer Circuit Failure");
  (0x2313, "B2313 - Mirror Passenger Horizontal Feedback Potentiometer Circuit Open");
  (0x2314, "B2314 - Mirror Passenger Horizontal Feedback Potentiometer Circuit Short to Battery");
  (0x2315, "B2315 - Mirror Passenger Horizontal Feedback Potentiometer Circuit Short to Ground");
  (0x2316, "B2316 - Mirror Passenger Vertical Feedback Potentiometer Circuit Failure");
  (0x2317, "B2317 - Mirror Passenger Vertical Feedback Potentiometer Circuit Open");
  (0x2318, "B2318 - Mirror Passenger Vertical Feedback Potentiometer Circuit Short to Battery");
  (0x2319, "B2319 - Mirror Passenger Vertical Feedback Potentiometer Circuit Short to Ground");
  (0x2320, "B2320 - Mirror Driver Horizontal Feedback Potentiometer Circuit Failure");
  (0x2321, "B2321 - Mirror Driver Horizontal Feedback Potentiometer Circuit Open");
  (0x2322, "B2322 - Mirror Driver Horizontal Feedback Potentiometer Circuit Short to Battery");
  (0x2323, "B2323 - Mirror Driver Horizontal Feedback Potentiometer Circuit Short to Ground");
  (0x2324, "B2324 - Mirror Driver Vertical Feedback Potentiometer Circuit Failure");
  (0x2325, "B2325 - Mirror Driver Vertical Feedback Potentiometer Circuit Open");
  (0x2326, "B2326 - Mirror Driver Vertical Feedback Potentiometer Circuit Short to Battery");
  (0x2327, "B2327 - Mirror Driver Vertical Feedback Potentiometer Circuit Short to Ground");
  (0x2328, "B2328 - Column Reach Feedback Potentiometer Circuit Failure");
  (0x2329, "B2329 - Column Reach Feedback Potentiometer Circuit Open");
  (0x2330, "B2330 - Column Reach Feedback Potentiometer Circuit Short to Battery");
  (0x2331, "B2331 - Column Reach Feedback Potentiometer Circuit Short to Ground");
  (0x2332, "B2332 - Column Tilt Feedback Potentiometer Circuit Failure");
  (0x2333, "B2333 - Column Tilt Feedback Potentiometer Circuit Open");
  (0x2334, "B2334 - Column Tilt Feedback Potentiometer Circuit Short to Battery");
  (0x2335, "B2335 - Column Tilt Feedback Potentiometer Circuit Short to Ground");
  (0x2336, "B2336 - Mirror Switch Assembly Circuit Failure");
  (0x2337, "B2337 - Mirror Switch Assembly Circuit Open");
  (0x2338, "B2338 - Mirror Switch Assembly Circuit Short to Battery");
  (0x2339, "B2339 - Mirror Switch Assembly Circuit Short to Ground");
  (0x2340, "B2340 - Column Reach Motor Stalled");
  (0x2341, "B2341 - Column Tilt Motor Stalled");
  (0x2342, "B2342 - Seat Switch Reference Voltage Positive Common Open Circuit");
  (0x2343, "B2343 - Seat Switch Reference Voltage Positive Common Supply Low Voltage");
  (0x2344, "B2344 - Seat Switch Reference Voltage Positive Common Supply Voltage Fault");
  (0x2345, "B2345 - Seat Switch Reference Voltage Negative Common Open Circuit");
  (0x2346, "B2346 - Mirror Switch Reference Voltage Positive Common Open Circuit");
  (0x2347, "B2347 - Mirror Switch Reference Voltage Positive Common Supply Low Voltage");
  (0x2348, "B2348 - Mirror Switch Reference Voltage Positive Common Supply Voltage Fault");
  (0x2349, "B2349 - Mirror Switch Reference Voltage Negative Common Open Circuit");
  (0x2350, "B2350 - Steering Column Switch Circuit Short to Battery");
  (0x2351, "B2351 - Steering Column Switch Circuit Failure");
  (0x2352, "B2352 - Driver Memory Power Switch Indicator Circuit Short to Battery");
  (0x2353, "B2353 - Driver Mirror Power Driver Circuit Short Ground");
  (0x2354, "B2354 - Driver Mirror Horizontal / Vertical Feedback Potentiometer Circuit Open");
  (0x2355, "B2355 - Passenger Mirror Horizontal / Vertical Feedback Potentiometer Circuit Open");
  (0x2357, "B2357 - Driver Window Down Current Sense Low Circuit Failure");
  (0x2362, "B2362 - Remote Open/Close signal Circuit Short to Ground");
  (0x2363, "B2363 - Optical Sensor System Failure");
  (0x2364, "B2364 - Fuel Filler Door Circuit Open");
  (0x2365, "B2365 - B-pillar Power Sliding Door Open/Close Switch Input Ckt Short to Gnd");
  (0x2366, "B2366 - IP Power Sliding Door Open/Close switch Ckt Short to Gnd");
  (0x2367, "B2367 - Power Sliding Door Override Switch Input Ckt Short to Gnd");
  (0x2368, "B2368 - Steering Column Switch Circuit Out of Range");
  (0x2369, "B2369 - Chime OUTPUT Request Ckt Short to Ground");
  (0x2373, "B2373 - LED #1 Circuit Short to Battery");
  (0x2374, "B2374 - Power Sliding Detent (Latch) Circuit  Failure");
  (0x2380, "B2380 - Heater Coolant Temp sensor circuit Short to GND");
  (0x2381, "B2381 - Heater Coolant Temp sensor circuit Open")].
Definition kBCodes8 : list (Z * string) := [
  (0x2384, "B2384 - Audio Reverse Aid Mute Input Ckt Failure");
  (0x2385, "B2385 - Audio Navigation Mute Input Ckt  Failure");
  (0x2401, "B2401 - Audio Tape Deck Mechanism Fault");
  (0x2402, "B2402 - Audio CD/DJ Thermal Shutdown Fault");
  (0x2403, "B2403 - Audio CD/DJ Internal Fault");
  (0x2404, "B2404 - Audio Steering Wheel Switch Circuit Fault");
  (0x2405, "B2405 - Audio Single-Disc CD Player Thermal Shutdown Fault");
  (0x2406, "B2406 - Audio Single-Disc CD Player Internal Fault");
  (0x2416, "B2416 - Climate Control Recirculation Actuator Out of Limits");
  (0x2425, "B2425 - Remote Keyless Entry Out of Synchronization");
  (0x2426, "B2426 - Passenger Solar Radiation Sensor  Circuit Open");
  (0x2427, "B2427 - Passenger Solar Radiation Sensor  Circuit Short to Ground");
  (0x2428, "B2428 - A/C Post Heater Sensor #2 Circuit Failure");
  (0x2429, "B2429 - A/C Post Heater Sensor #2 Circuit Short to Ground");
  (0x2431, "B2431 - Transponder Programming Failed");
  (0x2432, "B2432 - Drivers Seat Belt Buckle Switch Circuit Open");
  (0x2433, "B2433 - Drivers Seat Belt Buckle Switch Circuit Short to Battery");
  (0x2434, "B2434 - Drivers Seat Belt Buckle Switch Circuit Short to Ground");
  (0x2435, "B2435 - Drivers Seat Belt Buckle Switch Resistance out of Range");
  (0x2436, "B2436 - Passengers Seat Belt Buckle Switch Circuit Open");
  (0x2437, "B2437 - Passengers Seat Belt Buckle Switch Circuit Short to Battery");
  (0x2438, "B2438 - Passengers Seat Belt Buckle Switch Circuit Short to Ground");
  (0x2439, "B2439 - Passengers Seat Belt Buckle Switch Resistance out of Range");
  (0x2440, "B2440 - Passenger Side");
  (0x2441, "B2441 - Driver Side");
  (0x2442, "B2442 - Intrusion Sensor Fault");
  (0x2443, "B2443 - Powertrain Performance Mode Switch Circuit failure");
  (0x2444, "B2444 - Driver Side Crash Sensor Internal Fault");
  (0x2445, "B2445 - Passenger Side Crash Sensor Internal Fault");
  (0x2446, "B2446 - RESCU/VEMS Input Circuit Open");
  (0x2447, "B2447 - RESCU/VEMS Input Circuit Short to Battery");
  (0x2448, "B2448 - RESCU/VEMS Input Circuit Short to Ground");
  (0x2449, "B2449 - Aux Heater Glow Plug Circuit Short to Ground");
  (0x2450, "B2450 - Aux Heater Glow Plug Circuit Open");
  (0x2451, "B2451 - Aux Heater Fuel Pump Circuit Short to Ground");
  (0x2452, "B2452 - Aux Heater Fuel Pump Circuit Open");
  (0x2453, "B2453 - Aux Heater Blower Fan Circuit Short to Ground");
  (0x2454, "B2454 - Aux Heater Blower Fan Circuit Open");
  (0x2455, "B2455 - Aux Heater Blower Faulted");
  (0x2456, "B2456 - Aux Heater Coolant Sensor Circuit Short to Ground");
  (0x2457, "B2457 - Aux Heater Coolant Sensor Circuit Open");
  (0x2458, "B2458 - Aux Heater Overheat Sensor Circuit Short to Ground");
  (0x2459, "B2459 - Aux Heater Overheat Sensor Circuit Open");
  (0x2460, "B2460 - Aux Heater Flame Sensor Circuit Short to Ground");
  (0x2461, "B2461 - Aux Heater Flame Sensor Circuit Open");
  (0x2462, "B2462 - Aux Heater Flame Out Fault");
  (0x2463, "B2463 - Aux Heater Overheat Fault");
  (0x2464, "B2464 - Aux Heater Start Time Exceeded");
  (0x2465, "B2465 - Aux Heater Start Counter Overrun/System Locked (same as below ?)");
  (0x2466, "B2466 - Aux Heater Overheat Counter Overrun/System Locked");
  (0x2467, "B2467 - Aux Heater Cool Down Time Exceeded (may be con to a453-5 )");
  (0x2468, "B2468 - Aux Heater Coolant Pump Circuit Short to Ground");
  (0x2469, "B2469 - Aux Heater Coolant Pump Circuit Open");
  (0x2470, "B2470 - Interior Fan Control Circuit Short to Ground");
  (0x2471, "B2471 - Interior Fan Control Circuit Open");
  (0x2472, "B2472 - Fog Lamp Switch  Failure");
  (0x2473, "B2473 - Passenger Door Disarm Switch ckt Short to Ground");
  (0x2474, "B2474 - Passenger Door Lock Switch Circuit Shorted to Ground");
  (0x2475, "B2475 - Passenger Door Unlock Switch Circuit Shorted to Ground");
  (0x2476, "B2476 - RADIO PRESENT SWITCH Ckt Failure");
  (0x2477, "B2477 - Module Configuration Failure");
  (0x2478, "B2478 - ANTI THEFT INPUT SIGNAL SHORT TO GROUND");
  (0x2479, "B2479 - BRAKE PARK SWITCH CIRCUIT SHORT TO GROUND");
  (0x2480, "B2480 - LF CORNER LAMP OUTPUT Ckt Short to Battery");
  (0x2481, "B2481 - Convertible Top Up/Down switch Fault");
  (0x2482, "B2482 - RF CORNER LAMP OUTPUT Ckt Short to Battery");
  (0x2483, "B2483 - Enable Signal Open Circuit");
  (0x2484, "B2484 - Disable Signal Short to Ground");
  (0x2485, "B2485 - LF SIDE REPEATER LAMP OUTPUT Ckt Short to Battery");
  (0x2487, "B2487 - RF SIDE REPEATER LAMP OUTPUT Ckt Short to Battery");
  (0x2489, "B2489 - UNDERHOOD LAMP OUTPUT CIRCUIT Failure");
  (0x2490, "B2490 - UNDERHOOD LAMP OUTPUT CIRCUIT Short to Battery");
  (0x2491, "B2491 - RF PARK LAMP OUTPUT CIRCUIT Short to Battery");
  (0x2492, "B2492 - Already Programmed (Test Mode DTC Only !!!)");
  (0x2493, "B2493 - LF PARK LAMP OUTPUT CIRCUIT Short to Battery");
  (0x2494, "B2494 - ANTI THEFT HORN OUTPUT CIRCUIT Short to Batt");
  (0x2495, "B2495 - ANTI THEFT HORN OUTPUT CIRCUIT Failure");
  (0x2496, "B2496 - ANTI THEFT HORN OUTPUT CIRCUIT Short to Gnd");
  (0x2499, "B2499 - COURTESY LAMP OUTPUT Failure");
  (0x2500, "B2500 - COURTESY LAMP OUTPUT Ckt Short to Battery");
  (0x2501, "B2501 - LF LAMP LOW BEAM CIRCUIT Failure");
  (0x2502, "B2502 - LF LAMP LOW BEAM CIRCUIT Short to Battery");
  (0x2503, "B2503 - RF LAMP LOW BEAM CIRCUIT Failure");
  (0x2504, "B2504 - RF LAMP LOW BEAM CIRCUIT Short to Battery");
  (0x2505, "B2505 - LF LAMP HIGH BEAM CIRCUIT Failure");
  (0x2506, "B2506 - LF LAMP HIGH BEAM CIRCUIT Short to Battery");
  (0x2507, "B2507 - RF LAMP HIGH BEAM CIRCUIT Failure");
  (0x2508, "B2508 - RF LAMP HIGH BEAM CIRCUIT Short to Battery");
  (0x2509, "B2509 - Rear Fog Lamp Switch Circuit Failure");
  (0x2510, "B2510 - Main Blower Motor Relay Circuit Short to Battery");
  (0x2511, "B2511 - Horn Output Relay Circuit Short to Battery");
  (0x2512, "B2512 - Front Fog Lamp Relay Ckt Short to Battery");
  (0x2513, "B2513 - Blower (Fan) Circuit Failure");
  (0x2514, "B2514 - Blower (Fan) Circuit Short to Vbatt");
  (0x2515, "B2515 - Heater Blower Relay Circuit Failure");
  (0x2516, "B2516 - Blower Control Circuit Failure");
  (0x2517, "B2517 - Emergency Power Off System Faulted");
  (0x2518, "B2518 - Compressor Overtemp Fault");
  (0x2519, "B2519 - High Mount Stop Lamp Circuit Failure");
  (0x2520, "B2520 - High Mount Stop Lamp Circuit Short to Battery");
  (0x2523, "B2523 - License Lamp Circuit Failure");
  (0x2524, "B2524 - License Lamp Circuit Short to Battery");
  (0x2525, "B2525 - Left Rear Backup Lamp Circuit Failure");
  (0x2526, "B2526 - Left Rear Backup Lamp Circuit Short to Battery");
  (0x2527, "B2527 - Left Rear Stop lamp Circuit Failure");
  (0x2528, "B2528 - Left Rear Stop lamp Circuit Short to Battery");
  (0x2529, "B2529 - Left Rear  Turn Lamp Circuit Failure");
  (0x2530, "B2530 - Left Rear  Turn Lamp Circuit Short to Battery");
  (0x2531, "B2531 - Right Rear Backup Lamp Circuit Failure");
  (0x2532, "B2532 - Right Rear Backup Lamp Circuit Short to Battery");
  (0x2533, "B2533 - Right Rear Stop lamp Circuit Failure");
  (0x2534, "B2534 - Right Rear Stop lamp Circuit Short to Battery");
  (0x2535, "B2535 - Right Rear  Turn Lamp Circuit Failure");
  (0x2536, "B2536 - Right Rear  Turn Lamp Circuit Short to Battery");
  (0x2539, "B2539 - Aux A/C Mode Position Reference Circuit Short to Ground");
  (0x2540, "B2540 - Aux A/C Mode Position Reference Circuit Short to Battery");
  (0x2543, "B2543 - Aux A/C Control Switch Reference Circuit Short to Ground");
  (0x2544, "B2544 - Aux A/C Control Switch Reference Circuit Short to Battery");
  (0x2545, "B2545 - System Power Relay Circuit Short to Battery");
  (0x2546, "B2546 - System Power Relay Circuit Failure");
  (0x2550, "B2550 - LAMP DOME OUTPUT Circuit Short to Ground");
  (0x2553, "B2553 - Disable Signal Output Circuit Short to Battery");
  (0x2554, "B2554 - LAMP DOME OUTPUT Circuit Failure");
  (0x2555, "B2555 - LAMP DOME OUTPUT Circuit Short to Battery");
  (0x2556, "B2556 - Enable Signal  Circuit Short to Battery");
  (0x2557, "B2557 - Left Power Sliding Door Open/Close Output Circuit Short to Battery");
  (0x2558, "B2558 - Right Power Sliding Door Open/Close Output Circuit Short to Battery");
  (0x2559, "B2559 - Aux A/C Blower Motor Relay Circuit Short to Battery");
  (0x2560, "B2560 - Aux A/C Blower Motor Relay Circuit Short to Ground");
  (0x2561, "B2561 - Aux A/C Blower Speed 1 Circuit Failure");
  (0x2562, "B2562 - Aux A/C Blower Speed 1 Circuit Short to Ground");
  (0x2563, "B2563 - Aux A/C Blower Speed 2 Circuit Failure");
  (0x2564, "B2564 - Aux A/C Blower Speed 2 Circuit Short to Ground");
  (0x2565, "B2565 - Right Tail Lamp Circuit Failure");
  (0x2566, "B2566 - Right Tail Lamp Circuit Short to Ground");
  (0x2567, "B2567 - Reverse Mirror Output Circuit Failure");
  (0x2568, "B2568 - Reverse Mirror Output Circuit Short to Ground");
  (0x2569, "B2569 - Liftgate Disarm Switch Circuit Short to Ground");
  (0x2570, "B2570 - Right Lamp Outage Signal Circuit Short to Ground");
  (0x2571, "B2571 - Left Lamp Outage Signal Circuit Short to Ground")].
Definition kBCodes9 : list (Z * string) := [
  (0x2580, "B2580 - Aux Blower Sense Switch Circuit Failure");
  (0x2581, "B2581 - Passenger Seat Occupant Detection Circuit Short To Ground");
  (0x2582, "B2582 - Passenger Seat Occupant Detection Circuit Open");
  (0x2583, "B2583 - Child Seat Detection Circuit Short to Ground");
  (0x2584, "B2584 - Child Seat Detection Circuit Open");
  (0x2585, "B2585 - Anti Theft Input Signal Circuit Short To Battery");
  (0x2586, "B2586 - Headlamp Mode Select Circuit Failure");
  (0x2587, "B2587 - Passenger Seat Occupant Detection Circuit Short To Battery");
  (0x2588, "B2588 - Child Seat Detection Circuit Short To Battery");
  (0x2589, "B2589 - Unexpected Door Reversal During Close");
  (0x2590, "B2590 - Vehicle Park/Speed Signal Circuit Failure");
  (0x2591, "B2591 - Detent Signal Missing During Unlatch");
  (0x2592, "B2592 - PSD Not Fully Closed (Module Commanded Successfully)");
  (0x2593, "B2593 - Power Sliding Door Opened During Module Close Command");
  (0x2594, "B2594 - No Movement Detected After an Unlatch During Power Open");
  (0x2595, "B2595 - Anti Theft Input Signal Circuit Failure");
  (0x2596, "B2596 - Headlamp Aim Output Relay Circuit Short To Battery");
  (0x2597, "B2597 - Headlamp Aim Output Relay Circuit Failure");
  (0x2598, "B2598 - Headlamp Relay Circuit Failure");
  (0x2599, "B2599 - Tailgate Release Open Circuit");
  (0x2600, "B2600 - Double Locking Door Motor Frozen");
  (0x2601, "B2601 - No Latch Signal Sensed on Closing and Door Reversed");
  (0x2602, "B2602 - Missing Latch Signal During Power Sliding Door Unlatch");
  (0x2603, "B2603 - PSD Not Fully Closed During Self-Test");
  (0x2604, "B2604 - Power Sliding Door On/Off Switch Open Circuit");
  (0x2605, "B2605 - Disable Signal Open Circuit");
  (0x2606, "B2606 - A/C Temperature Sensor Out of Range")].
Definition DtcBCodes : list (Z * string) := kBCodes1 ++ kBCodes2 ++ kBCodes3 ++ kBCodes4 ++ kBCodes5 ++ kBCodes6 ++ kBCodes7 ++ kBCodes8 ++ kBCodes9.

Definition kUCodes1 : list (Z * string) := [
  (0x1000, "U1000 - SCP (J1850) Invalid or Missing Data for Primary Id");
  (0x1001, "U1001 - SCP (J1850) Invalid or Missing Data for Primary Id");
  (0x1002, "U1002 - SCP (J1850) Invalid or Missing Data for Primary Id");
  (0x1003, "U1003 - SCP (J1850) Invalid or Missing Data for Primary Id");
  (0x1004, "U1004 - SCP (J1850) Invalid or Missing Data for EEC Programming");
  (0x1005, "U1005 - SCP (J1850) Invalid or Missing Data for EEC Programming");
  (0x1006, "U1006 - SCP (J1850) Invalid or Missing Data for Primary Id");
  (0x1007, "U1007 - SCP (J1850) Invalid or Missing Data for Primary Id");
  (0x1008, "U1008 - SCP (J1850) Invalid or Missing Data for Engine Torque");
  (0x1009, "U1009 - SCP (J1850) Invalid or Missing Data for Engine Torque");
  (0x1010, "U1010 - SCP (J1850) Invalid or Missing Data for Engine Air Intake");
  (0x1011, "U1011 - SCP (J1850) Invalid or Missing Data for Engine Air Intake");
  (0x1012, "U1012 - SCP (J1850) Invalid or Missing Data for Primary Id");
  (0x1013, "U1013 - SCP (J1850) Invalid or Missing Data for Primary Id");
  (0x1014, "U1014 - SCP (J1850) Invalid or Missing Data for Primary Id");
  (0x1015, "U1015 - SCP (J1850) Invalid or Missing Data for Primary Id");
  (0x1016, "U1016 - SCP (J1850) Invalid or Missing Data for Primary Id");
  (0x1017, "U1017 - SCP (J1850) Invalid or Missing Data for Primary Id");
  (0x1018, "U1018 - SCP (J1850) Invalid or Missing Data for Throttle");
  (0x1019, "U1019 - SCP (J1850) Invalid or Missing Data for Throttle");
  (0x1020, "U1020 - SCP (J1850) Invalid or Missing Data for Air Conditioning Clutch");
  (0x1021, "U1021 - SCP (J1850) Invalid or Missing Data for Air Conditioning Clutch");
  (0x1022, "U1022 - SCP (J1850) Invalid or Missing Data for Primary Id");
  (0x1023, "U1023 - SCP (J1850) Invalid or Missing Data for Primary Id");
  (0x1024, "U1024 - SCP (J1850) Invalid or Missing Data for Primary Id");
  (0x1025, "U1025 - SCP (J1850) Invalid or Missing Data for Primary Id");
  (0x1026, "U1026 - SCP (J1850) Invalid or Missing Data for Engine RPM");
  (0x1027, "U1027 - SCP (J1850) Invalid or Missing Data for Engine RPM");
  (0x1028, "U1028 - SCP (J1850) Invalid or Missing Data for Primary Id");
  (0x1029, "U1029 - SCP (J1850) Invalid or Missing Data for Primary Id");
  (0x1030, "U1030 - SCP (J1850) Invalid or Missing Data for Experimental #1");
  (0x1031, "U1031 - SCP (J1850) Invalid or Missing Data for Experimental #1");
  (0x1032, "U1032 - SCP (J1850) Invalid or Missing Data for Primary Id");
  (0x1033, "U1033 - SCP (J1850) Invalid or Missing Data for Primary Id");
  (0x1034, "U1034 - SCP (J1850) Invalid or Missing Data for Primary Id");
  (0x1035, "U1035 - SCP (J1850) Invalid or Missing Data for Primary Id");
  (0x1036, "U1036 - SCP (J1850) Invalid or Missing Data for Wheels");
  (0x1037, "U1037 - SCP (J1850) Invalid or Missing Data for Wheels");
  (0x1038, "U1038 - SCP (J1850) Invalid or Missing Data for Primary Id");
  (0x1039, "U1039 - SCP (J1850) Invalid or Missing Data for Primary Id / Vehicle Speed");
  (0x1040, "U1040 - SCP (J1850) Invalid or Missing Data for Vehicle Speed");
  (0x1041, "U1041 - SCP (J1850) Invalid or Missing Data for Vehicle Speed");
  (0x1042, "U1042 - SCP (J1850) Invalid or Missing Data for Traction Control");
  (0x1043, "U1043 - SCP (J1850) Invalid or Missing Data for Traction Control");
  (0x1044, "U1044 - SCP (J1850) Invalid or Missing Data for Traction Motor");
  (0x1045, "U1045 - SCP (J1850) Invalid or Missing Data for Traction Motor");
  (0x1046, "U1046 - SCP (J1850) Invalid or Missing Data for Primary Id");
  (0x1047, "U1047 - SCP (J1850) Invalid or Missing Data for Primary Id");
  (0x1048, "U1048 - SCP (J1850) Invalid or Missing Data for Primary Id");
  (0x1049, "U1049 - SCP (J1850) Invalid or Missing Data for Primary Id");
  (0x1050, "U1050 - SCP (J1850) Invalid or Missing Data for Brakes");
  (0x1051, "U1051 - SCP (J1850) Invalid or Missing Data for Brakes");
  (0x1052, "U1052 - SCP (J1850) Invalid or Missing Data for Steering / Steering Wheel");
  (0x1053, "U1053 - SCP (J1850) Invalid or Missing Data for Steering / Steering Wheel");
  (0x1054, "U1054 - SCP (J1850) Invalid or Missing Data for Primary Id");
  (0x1055, "U1055 - SCP (J1850) Invalid or Missing Data for Primary Id");
  (0x1056, "U1056 - SCP (J1850) Invalid or Missing Data for Vehicle Configuration");
  (0x1057, "U1057 - SCP (J1850) Invalid or Missing Data for Vehicle Configuration");
  (0x1058, "U1058 - SCP (J1850) Invalid or Missing Data for Transmission / Transaxle / PRNDL");
  (0x1059, "U1059 - SCP (J1850) Invalid or Missing Data for Transmission / Transaxle / PRNDL");
  (0x1060, "U1060 - SCP (J1850) Invalid or Missing Data for Primary Id");
  (0x1061, "U1061 - SCP (J1850) Invalid or Missing Data for Primary Id");
  (0x1062, "U1062 - SCP (J1850) Invalid or Missing Data for Primary Id");
  (0x1063, "U1063 - SCP (J1850) Invalid or Missing Data for Primary Id");
  (0x1064, "U1064 - SCP (J1850) Invalid or Missing Data for Primary Id");
  (0x1065, "U1065 - SCP (J1850) Invalid or Missing Data for Primary Id");
  (0x1066, "U1066 - SCP (J1850) Invalid or Missing Data for Primary Id");
  (0x1067, "U1067 - SCP (J1850) Invalid or Missing Data for Primary Id");
  (0x1068, "U1068 - SCP (J1850) Invalid or Missing Data for Primary Id");
  (0x1069, "U1069 - SCP (J1850) Invalid or Missing Data for Primary Id");
  (0x1070, "U1070 - SCP (J1850) Invalid or Missing Data for Engine Sensors");
  (0x1071, "U1071 - SCP (J1850) Invalid or Missing Data for Engine Sensors");
  (0x1072, "U1072 - SCP (J1850) Invalid or Missing Data for Engine Coolant");
  (0x1073, "U1073 - SCP (J1850) Invalid or Missing Data for Engine Coolant");
  (0x1074, "U1074 - SCP (J1850) Invalid or Missing Data for Engine Oil");
  (0x1075, "U1075 - SCP (J1850) Invalid or Missing Data for Engine Oil Temp");
  (0x1076, "U1076 - SCP (J1850) Invalid or Missing Data for Primary Id");
  (0x1077, "U1077 - SCP (J1850) Invalid or Missing Data for Primary Id");
  (0x1078, "U1078 - SCP (J1850) Invalid or Missing Data for Primary Id");
  (0x1079, "U1079 - SCP (J1850) Invalid or Missing Data for Primary Id");
  (0x1080, "U1080 - SCP (J1850) Invalid or Missing Data for Primary Id");
  (0x1081, "U1081 - SCP (J1850) Invalid or Missing Data for Primary Id");
  (0x1082, "U1082 - SCP (J1850) Invalid or Missing Data for Engine Systems Other");
  (0x1083, "U1083 - SCP (J1850) Invalid or Missing Data for Engine Systems Other");
  (0x1084, "U1084 - SCP (J1850) Invalid or Missing Data for Powertrain Status Request");
  (0x1085, "U1085 - SCP (J1850) Invalid or Missing Data for Powertrain Status Request");
  (0x1086, "U1086 - SCP (J1850) Invalid or Missing Data for Primary Id");
  (0x1087, "U1087 - SCP (J1850) Invalid or Missing Data for Primary Id");
  (0x1088, "U1088 - SCP (J1850) Invalid or Missing Data for Suspension");
  (0x1089, "U1089 - SCP (J1850) Invalid or Missing Data for Suspension");
  (0x1090, "U1090 - SCP (J1850) Invalid or Missing Data for Non-Legislated Diagnostics");
  (0x1091, "U1091 - SCP (J1850) Invalid or Missing Data for Non-Legislated Diagnostics");
  (0x1092, "U1092 - SCP (J1850) Invalid or Missing Data for Primary Id");
  (0x1093, "U1093 - SCP (J1850) Invalid or Missing Data for Primary Id");
  (0x1094, "U1094 - SCP (J1850) Invalid or Missing Data for Experimental #2");
  (0x1095, "U1095 - SCP (J1850) Invalid or Missing Data for Experimental #2");
  (0x1096, "U1096 - SCP (J1850) Invalid or Missing Data for Primary Id");
  (0x1097, "U1097 - SCP (J1850) Invalid or Missing Data for Primary Id");
  (0x1098, "U1098 - SCP (J1850) Invalid or Missing Data for Vehicle Speed Control");
  (0x1099, "U1099 - SCP (J1850) Invalid or Missing Data for Vehicle Speed Control");
  (0x1100, "U1100 - SCP (J1850) Invalid or Missing Data for Primary Id");
  (0x1101, "U1101 - SCP (J1850) Invalid or Missing Data for Primary Id");
  (0x1102, "U1102 - SCP (J1850) Invalid or Missing Data for Primary Id");
  (0x1103, "U1103 - SCP (J1850) Invalid or Missing Data for Primary Id");
  (0x1104, "U1104 - SCP (J1850) Invalid or Missing Data for Chassis Status Request");
  (0x1105, "U1105 - SCP (J1850) Invalid or Missing Data for Chassis Status Request");
  (0x1106, "U1106 - SCP (J1850) Invalid or Missing Data for Legislated Diagnostics");
  (0x1107, "U1107 - SCP (J1850) Invalid or Missing Data for Legislated Diagnostics");
  (0x1108, "U1108 - SCP (J1850) Invalid or Missing Data for Electric Traction Drive (Inverter)");
  (0x1109, "U1109 - SCP (J1850) Invalid or Missing Data for Electric Traction Drive (Inverter)");
  (0x1110, "U1110 - SCP (J1850) Invalid or Missing Data for Primary Id");
  (0x1111, "U1111 - SCP (J1850) Invalid or Missing Data for Primary Id");
  (0x1112, "U1112 - SCP (J1850) Invalid or Missing Data for Primary Id");
  (0x1113, "U1113 - SCP (J1850) Invalid or Missing Data for Primary Id");
  (0x1114, "U1114 - SCP (J1850) Invalid or Missing Data for Charging System");
  (0x1115, "U1115 - SCP (J1850) Invalid or Missing Data for Charging System");
  (0x1116, "U1116 - SCP (J1850) Invalid or Missing Data for Electrical Energy Management");
  (0x1117, "U1117 - SCP (J1850) Invalid or Missing Data for Electrical Energy Management");
  (0x1118, "U1118 - SCP (J1850) Invalid or Missing Data for Primary Id");
  (0x1119, "U1119 - SCP (J1850) Invalid or Missing Data for Primary Id");
  (0x1120, "U1120 - SCP (J1850) Invalid or Missing Data for Primary Id");
  (0x1121, "U1121 - SCP (J1850) Invalid or Missing Data for Primary Id");
  (0x1122, "U1122 - SCP (J1850) Invalid or Missing Data for Odometer");
  (0x1123, "U1123 - SCP (J1850) Invalid or Missing Data for Odometer");
  (0x1124, "U1124 - SCP (J1850) Invalid or Missing Data for Primary Id");
  (0x1125, "U1125 - SCP (J1850) Invalid or Missing Data for Primary Id");
  (0x1126, "U1126 - SCP (J1850) Invalid or Missing Data for Primary Id");
  (0x1127, "U1127 - SCP (J1850) Invalid or Missing Data for Primary Id");
  (0x1128, "U1128 - SCP (J1850) Invalid or Missing Data for Primary Id");
  (0x1129, "U1129 - SCP (J1850) Invalid or Missing Data for Primary Id");
  (0x1130, "U1130 - SCP (J1850) Invalid or Missing Data for Fuel System");
  (0x1131, "U1131 - SCP (J1850) Invalid or Missing Data for Fuel System");
  (0x1132, "U1132 - SCP (J1850) Invalid or Missing Data for Vehicle Motion");
  (0x1133, "U1133 - SCP (J1850) Invalid or Missing Data for Vehicle Motion");
  (0x1134, "U1134 - SCP (J1850) Invalid or Missing Data for Ignition Switch / Starter");
  (0x1135, "U1135 - SCP (J1850) Invalid or Missing Data for Ignition Switch / Starter");
  (0x1136, "U1136 - SCP (J1850) Invalid or Missing Data for Telltales");
  (0x1137, "U1137 - SCP (J1850) Invalid or Missing Data for Telltales");
  (0x1138, "U1138 - SCP (J1850) Invalid or Missing Data for Primary Id");
  (0x1139, "U1139 - SCP (J1850) Invalid or Missing Data for Primary Id")].
Definition kUCodes2 : list (Z * string) := [
  (0x1140, "U1140 - SCP (J1850) Invalid or Missing Data for Gateway");
  (0x1141, "U1141 - SCP (J1850) Invalid or Missing Data for Gateway");
  (0x1142, "U1142 - SCP (J1850) Invalid or Missing Data for Primary Id");
  (0x1143, "U1143 - SCP (J1850) Invalid or Missing Data for Primary Id");
  (0x1144, "U1144 - SCP (J1850) Invalid or Missing Data for Primary Id");
  (0x1145, "U1145 - SCP (J1850) Invalid or Missing Data for Primary Id");
  (0x1146, "U1146 - SCP (J1850) Invalid or Missing Data for Vehicle Security");
  (0x1147, "U1147 - SCP (J1850) Invalid or Missing Data for Vehicle Security");
  (0x1148, "U1148 - SCP (J1850) Invalid or Missing Data for Audio Control");
  (0x1149, "U1149 - SCP (J1850) Invalid or Missing Data for Audio Control");
  (0x1150, "U1150 - SCP (J1850) Invalid or Missing Data for Audible Warnings");
  (0x1151, "U1151 - SCP (J1850) Invalid or Missing Data for Audible Warnings");
  (0x1152, "U1152 - SCP (J1850) Invalid or Missing Data for Experimental #3");
  (0x1153, "U1153 - SCP (J1850) Invalid or Missing Data for Experimental #3");
  (0x1154, "U1154 - SCP (J1850) Invalid or Missing Data for Compact Disc");
  (0x1155, "U1155 - SCP (J1850) Invalid or Missing Data for Compact Disc");
  (0x1156, "U1156 - SCP (J1850) Invalid or Missing Data for Digital Signal Processing");
  (0x1157, "U1157 - SCP (J1850) Invalid or Missing Data for Digital Signal Processing");
  (0x1158, "U1158 - SCP (J1850) Invalid or Missing Data for Antenna");
  (0x1159, "U1159 - SCP (J1850) Invalid or Missing Data for Antenna");
  (0x1160, "U1160 - SCP (J1850) Invalid or Missing Data for Primary Id");
  (0x1161, "U1161 - SCP (J1850) Invalid or Missing Data for Primary Id");
  (0x1162, "U1162 - SCP (J1850) Invalid or Missing Data for Digital Audio Tape");
  (0x1163, "U1163 - SCP (J1850) Invalid or Missing Data for Digital Audio Tape");
  (0x1164, "U1164 - SCP (J1850) Invalid or Missing Data for Tuner / Receiver");
  (0x1165, "U1165 - SCP (J1850) Invalid or Missing Data for Tuner / Receiver");
  (0x1166, "U1166 - SCP (J1850) Invalid or Missing Data for Cassette Tape");
  (0x1167, "U1167 - SCP (J1850) Invalid or Missing Data for Cassette Tape");
  (0x1168, "U1168 - SCP (J1850) Invalid or Missing Data for Primary Id");
  (0x1169, "U1169 - SCP (J1850) Invalid or Missing Data for Primary Id");
  (0x1170, "U1170 - SCP (J1850) Invalid or Missing Data for Cellular Phone / Paging System");
  (0x1171, "U1171 - SCP (J1850) Invalid or Missing Data for Cellular Phone / Paging System");
  (0x1172, "U1172 - SCP (J1850) Invalid or Missing Data for Remote Button Control");
  (0x1173, "U1173 - SCP (J1850) Invalid or Missing Data for Remote Button Control");
  (0x1174, "U1174 - SCP (J1850) Invalid or Missing Data for Primary Id");
  (0x1175, "U1175 - SCP (J1850) Invalid or Missing Data for Primary Id");
  (0x1176, "U1176 - SCP (J1850) Invalid or Missing Data for Primary Id");
  (0x1177, "U1177 - SCP (J1850) Invalid or Missing Data for Primary Id");
  (0x1178, "U1178 - SCP (J1850) Invalid or Missing Data for Climate Control (HVAC)");
  (0x1179, "U1179 - SCP (J1850) Invalid or Missing Data for Climate Control (HVAC)");
  (0x1180, "U1180 - SCP (J1850) Invalid or Missing Data for Personalization (Memory) Features");
  (0x1181, "U1181 - SCP (J1850) Invalid or Missing Data for Personalization (Memory) Features");
  (0x1182, "U1182 - SCP (J1850) Invalid or Missing Data for Primary Id");
  (0x1183, "U1183 - SCP (J1850) Invalid or Missing Data for Primary Id");
  (0x1184, "U1184 - SCP (J1850) Invalid or Missing Data for Window Wiper / Washer");
  (0x1185, "U1185 - SCP (J1850) Invalid or Missing Data for Window Wiper / Washer");
  (0x1186, "U1186 - SCP (J1850) Invalid or Missing Data for Primary Id");
  (0x1187, "U1187 - SCP (J1850) Invalid or Missing Data for Primary Id");
  (0x1188, "U1188 - SCP (J1850) Invalid or Missing Data for Primary Id");
  (0x1189, "U1189 - SCP (J1850) Invalid or Missing Data for Primary Id");
  (0x1190, "U1190 - SCP (J1850) Invalid or Missing Data for Primary Id");
  (0x1191, "U1191 - SCP (J1850) Invalid or Missing Data for Primary Id");
  (0x1192, "U1192 - SCP (J1850) Invalid or Missing Data for Primary Id");
  (0x1193, "U1193 - SCP (J1850) Invalid or Missing Data for Primary Id");
  (0x1194, "U1194 - SCP (J1850) Invalid or Missing Data for Mirrors");
  (0x1195, "U1195 - SCP (J1850) Invalid or Missing Data for Mirrors");
  (0x1196, "U1196 - SCP (J1850) Invalid or Missing Data for Door Locks");
  (0x1197, "U1197 - SCP (J1850) Invalid or Missing Data for Door Locks");
  (0x1198, "U1198 - SCP (J1850) Invalid or Missing Data for External Access (Doors)");
  (0x1199, "U1199 - SCP (J1850) Invalid or Missing Data for External Access (Doors)");
  (0x1200, "U1200 - SCP (J1850) Invalid or Missing Data for Seat Motion / Control");
  (0x1201, "U1201 - SCP (J1850) Invalid or Missing Data for Seat Motion / Control");
  (0x1202, "U1202 - SCP (J1850) Invalid or Missing Data for Windows");
  (0x1203, "U1203 - SCP (J1850) Invalid or Missing Data for Windows");
  (0x1204, "U1204 - SCP (J1850) Invalid or Missing Data for Steering Column");
  (0x1205, "U1205 - SCP (J1850) Invalid or Missing Data for Steering Column");
  (0x1206, "U1206 - SCP (J1850) Invalid or Missing Data for Primary Id");
  (0x1207, "U1207 - SCP (J1850) Invalid or Missing Data for Primary Id");
  (0x1208, "U1208 - SCP (J1850) Invalid or Missing Data for Seat Switches");
  (0x1209, "U1209 - SCP (J1850) Invalid or Missing Data for Seat Switches");
  (0x1210, "U1210 - SCP (J1850) Invalid or Missing Data for Restraints");
  (0x1211, "U1211 - SCP (J1850) Invalid or Missing Data for Restraints");
  (0x1212, "U1212 - SCP (J1850) Invalid or Missing Data for Primary Id");
  (0x1213, "U1213 - SCP (J1850) Invalid or Missing Data for Primary Id");
  (0x1214, "U1214 - SCP (J1850) Invalid or Missing Data for Primary Id");
  (0x1215, "U1215 - SCP (J1850) Invalid or Missing Data for Primary Id");
  (0x1216, "U1216 - SCP (J1850) Invalid or Missing Data for External Lamp Outage");
  (0x1217, "U1217 - SCP (J1850) Invalid or Missing Data for External Lamp Outage");
  (0x1218, "U1218 - SCP (J1850) Invalid or Missing Data for External Lamps");
  (0x1219, "U1219 - SCP (J1850) Invalid or Missing Data for External Lamps");
  (0x1220, "U1220 - SCP (J1850) Invalid or Missing Data for Interior Lamp Outage");
  (0x1221, "U1221 - SCP (J1850) Invalid or Missing Data for Interior Lamp Outage");
  (0x1222, "U1222 - SCP (J1850) Invalid or Missing Data for Interior Lamps");
  (0x1223, "U1223 - SCP (J1850) Invalid or Missing Data for Interior Lamps");
  (0x1224, "U1224 - SCP (J1850) Invalid or Missing Data for Primary Id");
  (0x1225, "U1225 - SCP (J1850) Invalid or Missing Data for Primary Id");
  (0x1226, "U1226 - SCP (J1850) Invalid or Missing Data for Body Status Request");
  (0x1227, "U1227 - SCP (J1850) Invalid or Missing Data for Body Status Request");
  (0x1228, "U1228 - SCP (J1850) Invalid or Missing Data for Tires");
  (0x1229, "U1229 - SCP (J1850) Invalid or Missing Data for Tires");
  (0x1230, "U1230 - SCP (J1850) Invalid or Missing Data for Electric Defrost");
  (0x1231, "U1231 - SCP (J1850) Invalid or Missing Data for Electric Defrost");
  (0x1232, "U1232 - SCP (J1850) Invalid or Missing Data for Navigation");
  (0x1233, "U1233 - SCP (J1850) Invalid or Missing Data for Navigation");
  (0x1234, "U1234 - SCP (J1850) Invalid or Missing Data for Displays");
  (0x1235, "U1235 - SCP (J1850) Invalid or Missing Data for Displays");
  (0x1236, "U1236 - SCP (J1850) Invalid or Missing Data for Memory Storage");
  (0x1237, "U1237 - SCP (J1850) Invalid or Missing Data for Memory Storage");
  (0x1238, "U1238 - SCP (J1850) Invalid or Missing Data for Experimental #4");
  (0x1239, "U1239 - SCP (J1850) Invalid or Missing Data for Experimental #4");
  (0x1240, "U1240 - SCP (J1850) Invalid or Missing Data for Primary Id");
  (0x1241, "U1241 - SCP (J1850) Invalid or Missing Data for Primary Id");
  (0x1242, "U1242 - SCP (J1850) Invalid or Missing Data for Exterior Environment");
  (0x1243, "U1243 - SCP (J1850) Invalid or Missing Data for Exterior Environment");
  (0x1244, "U1244 - SCP (J1850) Invalid or Missing Data for Interior Environment");
  (0x1245, "U1245 - SCP (J1850) Invalid or Missing Data for Interior Environment");
  (0x1246, "U1246 - SCP (J1850) Invalid or Missing Data for Primary Id");
  (0x1247, "U1247 - SCP (J1850) Invalid or Missing Data for Primary Id");
  (0x1248, "U1248 - SCP (J1850) Invalid or Missing Data for Time / Date");
  (0x1249, "U1249 - SCP (J1850) Invalid or Missing Data for Time / Date");
  (0x1250, "U1250 - SCP (J1850) Invalid or Missing Data for Vehicle Id (VIN)");
  (0x1251, "U1251 - SCP (J1850) Invalid or Missing Data for Vehicle Id (VIN)");
  (0x1252, "U1252 - SCP (J1850) Invalid or Missing Data for Class A Functions");
  (0x1253, "U1253 - SCP (J1850) Invalid or Missing Data for Class A Functions");
  (0x1254, "U1254 - SCP (J1850) Invalid or Missing Data for Network Control");
  (0x1255, "U1255 - SCP (J1850) Invalid or Missing Data for Network Control");
  (0x1260, "U1260 - SCP (J1850) Single Ended (+) Circuit Failure");
  (0x1261, "U1261 - SCP (J1850) Single Ended (-) Circuit Failure");
  (0x1262, "U1262 - SCP (J1850) Communication Bus Fault");
  (0x1308, "U1308 - SCP (J1850) Invalid or Missing Data for Function Read  Engine Torque");
  (0x1341, "U1341 - SCP (J1850) Invalid or Missing Data for Function Read Vehicle Speed");
  (0x1430, "U1430 - SCP (J1850) Invalid or Missing Data for Function Read Fuel System");
  (0x1451, "U1451 - SCP (J1850) Invalid or Missing Data for Function Read Audible Warnings /Anti-Theft Module");
  (0x1612, "U1612 - SCP (J1850) Lack of Acknowledgment for Primary Id");
  (0x1736, "U1736 - SCP (J1850) Lack of Acknowledgment for  Telltales");
  (0x1750, "U1750 - SCP (J1850) Lack of Acknowledgment for  Audible Warnings");
  (0x1794, "U1794 - SCP (J1850) Lack of Acknowledgment for Mirrors");
  (0x1797, "U1797 - SCP (J1850) Lack of Acknowledgment for  Door Locks");
  (0x1798, "U1798 - SCP (J1850) Lack of Acknowledgment for  External Access (Doors)");
  (0x1806, "U1806 - SCP (J1850) Lack of Acknowledgment for Primary Id");
  (0x1900, "U1900 - CAN Communication Bus Fault");
  (0x1950, "U1950 - UPB Communication Bus Fault");
  (0x2000, "U2000 - Audio Rear Control Unit is Not Responding");
  (0x2001, "U2001 - Audio Tape Deck Unit is Not Responding");
  (0x2002, "U2002 - Audio Bezel is Not Responding");
  (0x2003, "U2003 - Audio Compact Disk / Disk Jockey Unit is Not Responding");
  (0x2004, "U2004 - Audio Steering Wheel Control Unit is Not Responding");
  (0x2005, "U2005 - Audio Rear Integrated Control Panel Unit is Not Responding");
  (0x2006, "U2006 - Audio Remote Climate Control Unit is Not Responding");
  (0x2007, "U2007 - Audio Navigation Unit is Not Responding")].
Definition kUCodes3 : list (Z * string) := [
  (0x2008, "U2008 - Audio Phone is Not Responding");
  (0x2009, "U2009 - Audio Front Control Module (ACM) is Not Responding");
  (0x2010, "U2010 - Module is Not Responding (Non SCP)");
  (0x2011, "U2011 - Module Transmitted Invalid Data (Non SCP)");
  (0x2012, "U2012 - Communication Bus Error (Non SCP)");
  (0x2013, "U2013 - Compass Module is not Responding");
  (0x2014, "U2014 - Audio Subwoofer Unit is Not Responding");
  (0x2015, "U2015 - Signal Link Fault (Non SCP)");
  (0x2016, "U2016 - Signal Link Short to Ground (Non SCP) / From NGV Module");
  (0x2017, "U2017 - Driver Side Crash Sensor Communication Fault (Non SCP)");
  (0x2018, "U2018 - Passenger Side Crash Sensor Communication Fault (Non SCP)");
  (0x2019, "U2019 - Audio Voice Module Not Responding");
  (0x2020, "U2020 - Audio Center Amp is not responding");
  (0x2021, "U2021 - Invalid /fault data received (Non SCP)");
  (0x2150, "U2150 - SCP (J1850) Invalid Data from REM");
  (0x2152, "U2152 - SCP (J1850) Invalid Data from GEM");
  (0x2160, "U2160 - SCP (J1850) Invalid Data from IC");
  (0x2195, "U2195 - SCP (J1850) Invalid Data from SCLM");
  (0x2500, "U2500 - (CAN) Lack of Acknowledgement From Engine Management")].
Definition DtcUCodes : list (Z * string) := kUCodes1 ++ kUCodes2 ++ kUCodes3.
