(* ===== verification/Dtc.v ===== *)
(** * Dtc: [src/algorithms/diagnostics/dtc_parser.cpp]

    The text of a trouble code: the two top bits choose the table, the other
    fourteen are looked up in it. *)
From S2P Require Import Prelude DtcTables.

Definition kPrefixes : list ascii := ["P"; "C"; "B"; "U"]%char.
(** [{:04x}]: lower-case digits, padded to four. *)
Definition fmt_04x (z : Z) : string :=
  (if z <? 16 then "000" else if z <? 256 then "00" else if z <? 4096 then "0" else "") +:+ fmt_x z.
Definition DefaultDtcMessage (dtc : Z) : string :=
  let category := Z.shiftr dtc 14 in
  let code := Z.land dtc 0x3fff in
  String (nth (Z.to_nat category) kPrefixes "P"%char) (fmt_04x code) +:+ " - Unknown error code".
(** [find]; the keys of a table are unique. *)
Fixpoint find_code (table : list (Z * string)) (code : Z) : option string :=
  match table with
  | [] => None
  | (k, s) :: table => if k =? code then Some s else find_code table code
  end.
Definition DtcDescription_in (dtc : Z) (p_codes c_codes b_codes u_codes : list (Z * string)) : string :=
  let fallback := DefaultDtcMessage dtc in
  let category := Z.shiftr dtc 14 in
  let table := if category =? 0 then Some p_codes else if category =? 1 then Some c_codes
               else if category =? 2 then Some b_codes else if category =? 3 then Some u_codes else None in
  match table with
  | None => fallback
  | Some table => default fallback (find_code table (Z.land dtc 0x3fff))
  end.
Definition DtcDescription (dtc : Z) : string := DtcDescription_in dtc DtcPCodes DtcCCodes DtcBCodes DtcUCodes.

(** ** What a description starts with *)
Definition letter (category : Z) : ascii := nth (Z.to_nat category) kPrefixes "P"%char.
Fixpoint upper_prefix (n : nat) (s : string) : list ascii :=
  match n, s with S n, String c s => upper_char c :: upper_prefix n s | _, _ => [] end.
(** The standard name of a code: the letter and four upper-case digits. *)
Definition code_name (category code : Z) : list ascii := letter category :: upper_prefix 4 (fmt_04x code).
Definition tables : list (Z * list (Z * string)) := [(0, DtcPCodes); (1, DtcCCodes); (2, DtcBCodes); (3, DtcUCodes)].
(** Every entry names its own code, is in the 14-bit range and is found. *)
Definition entry_ok (category : Z) (table : list (Z * string)) (e : Z * string) : bool :=
  let '(k, s) := e in
  (0 <=? k) && (k <? 0x4000) && bool_decide (upper_prefix 5 s = code_name category k)
  && match find_code table k with Some s' => (s =? s')%string | None => false end.
Lemma tables_ok : forallb (fun '(category, table) => forallb (entry_ok category table) table) tables = true.
Proof. vm_compute. reflexivity. Qed.
#[local] Opaque DtcPCodes DtcCCodes DtcBCodes DtcUCodes.
Lemma fmt_digits_step fuel z acc :
  16 <= z -> fmt_digits (S fuel) 16 z acc = fmt_digits fuel 16 (z / 16) (String (digit_char (z mod 16)) acc).
Proof. intros Hz. cbn [fmt_digits]. rewrite (proj2 (Z.eqb_neq _ _)); [done|]. pose proof (Z.div_le_lower_bound z 16 1). lia. Qed.
Lemma fmt_digits_last fuel z acc : 0 <= z < 16 -> fmt_digits (S fuel) 16 z acc = String (digit_char (z mod 16)) acc.
Proof. intros Hz. cbn [fmt_digits]. by rewrite Z.div_small by lia. Qed.
Lemma fmt_04x_length code : 0 <= code < 0x4000 -> String.length (fmt_04x code) = 4%nat.
Proof.
  intros Hc. unfold fmt_04x, fmt_x.
  assert (forall z, 0 <= z -> z / 16 / 16 = z / 256 /\ z / 16 / 16 / 16 = z / 4096) as Hd
    by (intros z Hz; by rewrite !Z.div_div by lia).
  destruct (Hd code ltac:(lia)) as [D2 D3].
  pose proof (Z.div_mod code 16). pose proof (Z.mod_pos_bound code 16). pose proof (Z.div_mod code 256).
  pose proof (Z.mod_pos_bound code 256). pose proof (Z.div_mod code 4096). pose proof (Z.mod_pos_bound code 4096).
  destruct (Z.ltb_spec code 16); [by rewrite fmt_digits_last by lia|]. rewrite fmt_digits_step by lia.
  destruct (Z.ltb_spec code 256); [by rewrite fmt_digits_last by lia|]. rewrite fmt_digits_step by lia.
  destruct (Z.ltb_spec code 4096); [by rewrite fmt_digits_last by lia|]. rewrite fmt_digits_step by lia.
  by rewrite fmt_digits_last by lia.
Qed.
Lemma upper_prefix_app n s1 s2 : (n <= String.length s1)%nat -> upper_prefix n (s1 +:+ s2) = upper_prefix n s1.
Proof.
  revert s1. induction n as [|n IH]; intros s1 Hn; [done|]. destruct s1 as [|c s1]; [cbn in Hn; lia|].
  cbn in Hn. change (upper_char c :: upper_prefix n (s1 +:+ s2) = upper_char c :: upper_prefix n s1). by rewrite IH by lia.
Qed.
Lemma category_code dtc : u16_ok dtc -> 0 <= Z.shiftr dtc 14 < 4 /\ 0 <= Z.land dtc 0x3fff < 0x4000.
Proof.
  intros Hd. unfold u16_ok in Hd. rewrite shiftr_div by lia. change (2 ^ 14) with 16384. change 0x3fff with (Z.ones 14).
  rewrite Z.land_ones by lia. split; [|apply Z.mod_pos_bound; lia]. split; [apply Z.div_pos; lia|apply Z.div_lt_upper_bound; lia].
Qed.
Lemma fallback_names_code dtc :
  u16_ok dtc -> upper_prefix 5 (DefaultDtcMessage dtc) = code_name (Z.shiftr dtc 14) (Z.land dtc 0x3fff).
Proof.
  intros Hd. destruct (category_code dtc Hd) as [Hc Hk]. unfold code_name, letter.
  rewrite <- (upper_prefix_app 4 (fmt_04x (Z.land dtc 0x3fff)) " - Unknown error code") by (by rewrite fmt_04x_length).
  change (upper_prefix 5 (DefaultDtcMessage dtc)) with
    (upper_char (nth (Z.to_nat (Z.shiftr dtc 14)) kPrefixes "P"%char)
       :: upper_prefix 4 (fmt_04x (Z.land dtc 0x3fff) +:+ " - Unknown error code")). f_equal.
  assert (Z.shiftr dtc 14 = 0 \/ Z.shiftr dtc 14 = 1 \/ Z.shiftr dtc 14 = 2 \/ Z.shiftr dtc 14 = 3) as [E|[E|[E|E]]] by lia;
    by rewrite E.
Qed.
Lemma find_code_elem table code s : find_code table code = Some s -> In (code, s) table.
Proof.
  induction table as [|[k s'] table IH]; cbn; [done|]. destruct (Z.eqb_spec k code) as [->|]; [intros [= ->]; by left|]. auto.
Qed.
Lemma entries_ok category table k s :
  In (category, table) tables -> In (k, s) table ->
  0 <= k < 0x4000 /\ upper_prefix 5 s = code_name category k /\ find_code table k = Some s.
Proof.
  intros Ht He. pose proof tables_ok as H. rewrite forallb_forall in H. specialize (H _ Ht). cbn beta iota in H.
  rewrite forallb_forall in H. specialize (H _ He). unfold entry_ok in H.
  destruct (find_code table k) as [s'|]; [|by rewrite !andb_false_r in H].
  rewrite !andb_true_iff, bool_decide_eq_true in H. destruct H as [[[H1 H2] H3] ->%String.eqb_eq]. split_and!; [lia|lia|done|done].
Qed.
Lemma table_of dtc :
  u16_ok dtc -> exists table, In (Z.shiftr dtc 14, table) tables
    /\ DtcDescription dtc = default (DefaultDtcMessage dtc) (find_code table (Z.land dtc 0x3fff)).
Proof.
  intros Hd. destruct (category_code dtc Hd) as [Hc _]. unfold DtcDescription, DtcDescription_in. cbv zeta.
  generalize dependent (Z.shiftr dtc 14). intros c Hc.
  assert (c = 0 \/ c = 1 \/ c = 2 \/ c = 3) as [-> |[-> |[-> | ->]]] by lia; eexists; (split; [|reflexivity]); cbn; tauto.
Qed.

(** Every trouble code is described by its own name: for each of the 65536 codes the
    text starts, up to letter case, with the category letter and the four hexadecimal
    digits of the code, whether it comes from a table or is the fallback; and every
    entry of the four tables is reachable, being the text of the code built from its
    category and key. *)
Theorem dtc_descriptions_name_their_code dtc :
  u16_ok dtc ->
  upper_prefix 5 (DtcDescription dtc) = code_name (Z.shiftr dtc 14) (Z.land dtc 0x3fff)
  /\ forall category table k s, In (category, table) tables -> In (k, s) table ->
       DtcDescription (category * 0x4000 + k) = s.
Proof.
  intros Hd. split.
  - destruct (table_of dtc Hd) as (table & Ht & ->).
    destruct (find_code table _) as [s|] eqn:E; cbn [default].
    + by destruct (entries_ok _ _ _ _ Ht (find_code_elem _ _ _ E)) as (_ & H & _).
    + cbv [from_option]. by apply fallback_names_code.
  - clear dtc Hd. intros category table k s Ht He. destruct (entries_ok _ _ _ _ Ht He) as (Hk & _ & Ef).
    assert (0 <= category < 4) as Hc by (cbn in Ht; decompose [or] Ht; simplify_eq; lia).
    assert (u16_ok (category * 0x4000 + k)) as Hu by (unfold u16_ok; lia).
    assert (Z.shiftr (category * 0x4000 + k) 14 = category) as Es
      by (rewrite shiftr_div by lia; change (2 ^ 14) with 16384; symmetry; apply (Z.div_unique _ _ _ k); lia).
    assert (Z.land (category * 0x4000 + k) 0x3fff = k) as El.
    { change 0x3fff with (Z.ones 14). rewrite Z.land_ones by lia. symmetry. apply (Z.mod_unique _ _ category); lia. }
    destruct (table_of _ Hu) as (table' & Ht' & ->). rewrite Es in Ht'. rewrite El.
    assert (table' = table) as -> by (clear -Ht Ht'; cbn in Ht, Ht'; decompose [or] Ht; decompose [or] Ht'; simplify_eq; done).
    by rewrite Ef.
Qed.
Lemma dtc_descriptions_name_their_code_witness :
  upper_prefix 5 (DtcDescription 0xC073) = ["U"; "0"; "0"; "7"; "3"]%char.
Proof.
  refine (eq_trans (proj1 (dtc_descriptions_name_their_code 0xC073 _)) _); [unfold u16_ok; lia|vm_compute; reflexivity].
Defined.
