(* ===== verification/DefinitionModel.v ===== *)
(** * DefinitionModel: [src/backend/definition/definition_model.{h,cpp}]

    ROM definitions as parsed ([Unresolved...]) and as resolved, the storage types
    of their cells, and the catalog of definition files by format and identifier. *)
From S2P Require Import Prelude.
From S2P Require Import Ports.
From S2P Require Import Expression.

(** ** Data *)
Inductive DefinitionFormat : Set := kRomRaider | kEcuFlash.
Inductive IdEncoding : Set := kAscii | kHex | kAsciiOrHex.
Inductive StorageType : Set :=
  kUint8 | kInt8 | kUint16 | kInt16 | kUint24 | kInt24 | kUint32 | kInt32 | kFloat | kBloblist.
#[global] Instance DefinitionFormat_eq_dec : EqDecision DefinitionFormat.
Proof. solve_decision. Defined.
#[global] Instance IdEncoding_eq_dec : EqDecision IdEncoding.
Proof. solve_decision. Defined.
#[global] Instance StorageType_eq_dec : EqDecision StorageType.
Proof. solve_decision. Defined.

Record DefinitionIndexEntry := {
  de_format : DefinitionFormat;
  de_definition_id : string;
  de_internal_id : string;
  de_internal_id_address : option Z;
  de_internal_id_encoding : IdEncoding;
  de_ecu_id : string;
  de_flash_method : string;
  de_source : string;
  de_parents : list string
}.
Record UnresolvedScaling := {
  us_name : string;
  us_units : string;
  us_from_byte : option string;
  us_to_byte : option string;
  us_format : option string;
  us_minimum : string;
  us_maximum : string;
  us_coarse_increment : string;
  us_fine_increment : string;
  us_storage_type : option StorageType;
  us_endian : string;
  us_selections : list (string * string)
}.
Record UnresolvedAxisDefinition := {
  ua_type : string;
  ua_name : string;
  ua_units : string;
  ua_format : string;
  ua_storage_type : option StorageType;
  ua_endian : string;
  ua_address : option Z;
  ua_size : option Z;
  ua_from_byte : option string;
  ua_to_byte : option string;
  ua_scaling_name : string;
  ua_start_position : option Z;
  ua_interval : option Z;
  ua_log_parameter : option string;
  ua_static_data : option (list string)
}.
Record UnresolvedCalibrationMap := {
  um_id : option string;
  um_name : string;
  um_type : string;
  um_category : string;
  um_subcategory : string;
  um_description : string;
  um_address : option Z;
  um_x_size : option Z;
  um_y_size : option Z;
  um_swap_xy : option bool;
  um_flip_x : option bool;
  um_flip_y : option bool;
  um_level : string;
  um_user_level : string;
  um_scaling_name : string;
  um_storage_type : option StorageType;
  um_endian : string;
  um_start_position : option Z;
  um_interval : option Z;
  um_log_parameter : option string;
  um_x_axis : UnresolvedAxisDefinition;
  um_y_axis : UnresolvedAxisDefinition
}.
Record Selection := { sel_name : string; sel_value : list Z }.
Record Scaling := {
  sc_name : string;
  sc_units : string;
  sc_from_byte : string;
  sc_to_byte : string;
  sc_format : string;
  sc_minimum : string;
  sc_maximum : string;
  sc_coarse_increment : string;
  sc_fine_increment : string;
  sc_storage_type : option StorageType;
  sc_endian : string;
  sc_selections : list Selection
}.
Record AxisDefinition := {
  ax_type : string;
  ax_name : string;
  ax_units : string;
  ax_format : string;
  ax_storage_type : option StorageType;
  ax_endian : string;
  ax_address : option Z;
  ax_size : Z;
  ax_from_byte : string;
  ax_to_byte : string;
  ax_scaling_name : string;
  ax_start_position : Z;
  ax_interval : Z;
  ax_log_parameter : string;
  ax_static_data : list string
}.
Record CalibrationMap := {
  cm_id : string;
  cm_name : string;
  cm_type : string;
  cm_category : string;
  cm_subcategory : string;
  cm_description : string;
  cm_address : option Z;
  cm_x_size : Z;
  cm_y_size : Z;
  cm_swap_xy : bool;
  cm_flip_x : bool;
  cm_flip_y : bool;
  cm_level : string;
  cm_user_level : string;
  cm_scaling_name : string;
  cm_storage_type : option StorageType;
  cm_endian : string;
  cm_start_position : Z;
  cm_interval : Z;
  cm_log_parameter : string;
  cm_x_axis : AxisDefinition;
  cm_y_axis : AxisDefinition
}.
Record RomIdentity := {
  id_xml_id : string;
  id_internal_id : string;
  id_ecu_id : string;
  id_internal_id_address : option Z
}.
Record RomMetadata := {
  md_make : string;
  md_market : string;
  md_model : string;
  md_submodel : string;
  md_transmission : string;
  md_year : string;
  md_flash_method : string;
  md_memory_model : string;
  md_checksum_module : string;
  md_file_size : string;
  md_notes : string
}.
Record UnresolvedDefinition := {
  ud_format : DefinitionFormat;
  ud_source : string;
  ud_identity : RomIdentity;
  ud_metadata : RomMetadata;
  ud_parents : list string;
  ud_maps : list UnresolvedCalibrationMap;
  ud_scalings : list UnresolvedScaling
}.
Record RomDefinition := {
  rd_format : DefinitionFormat;
  rd_source : string;
  rd_identity : RomIdentity;
  rd_metadata : RomMetadata;
  rd_parents : list string;
  rd_maps : list CalibrationMap;
  rd_scalings : list Scaling;
  rd_resolved_sources : list string;
  rd_resolved_definition_ids : list string
}.

(** ** Storage types *)
Definition kStorageTypes : list (string * StorageType) :=
  [("uint8", kUint8); ("int8", kInt8); ("uint16", kUint16); ("int16", kInt16); ("uint24", kUint24);
   ("int24", kInt24); ("uint32", kUint32); ("int32", kInt32); ("float", kFloat); ("bloblist", kBloblist)]%string.
Fixpoint first_named (text : string) (table : list (string * StorageType)) : option StorageType :=
  match table with
  | (name, value) :: table => if String.eqb text name then Some value else first_named text table
  | [] => None
  end.
Definition StorageTypeFromText (text : string) : option StorageType := first_named text kStorageTypes.
Definition StorageTypeText (value : option StorageType) : string :=
  match value with
  | None => ""
  | Some kUint8 => "uint8"
  | Some kInt8 => "int8"
  | Some kUint16 => "uint16"
  | Some kInt16 => "int16"
  | Some kUint24 => "uint24"
  | Some kInt24 => "int24"
  | Some kUint32 => "uint32"
  | Some kInt32 => "int32"
  | Some kFloat => "float"
  | Some kBloblist => "bloblist"
  end.
Definition StorageByteSize (storage_type : option StorageType) : Z :=
  match storage_type with
  | None => 1
  | Some (kUint16 | kInt16) => 2
  | Some (kUint24 | kInt24) => 3
  | Some (kUint32 | kInt32 | kFloat) => 4
  | Some (kUint8 | kInt8 | kBloblist) => 1
  end.
Definition IsUnsignedStorage (storage_type : option StorageType) : bool :=
  match storage_type with
  | Some (kUint8 | kUint16 | kUint24 | kUint32) => true
  | _ => false
  end.
Definition FindScaling (definition : RomDefinition) (name : string) : option Scaling :=
  List.find (fun s => String.eqb (sc_name s) name) (rd_scalings definition).

(** ** [DefinitionCatalog] *)
Record DefinitionCatalog := { entries_ : list DefinitionIndexEntry }.
Definition HasWhitespace (value : string) : bool := existsb Whitespace (chars value).
Definition HasSameLookupKey (left right : DefinitionIndexEntry) : bool :=
  bool_decide (de_format left = de_format right) && String.eqb (de_definition_id left) (de_definition_id right).
Definition HasSameIdentity (left right : DefinitionIndexEntry) : bool :=
  String.eqb (de_internal_id left) (de_internal_id right) && String.eqb (de_ecu_id left) (de_ecu_id right).
Definition HasSameContent (left right : DefinitionIndexEntry) : bool :=
  HasSameIdentity left right
  && bool_decide (de_internal_id_address left = de_internal_id_address right)
  && bool_decide (de_internal_id_encoding left = de_internal_id_encoding right)
  && bool_decide (de_parents left = de_parents right).
Definition bad_parent (parent : string) : bool := String.eqb parent "" || HasWhitespace parent.
Definition Validate (entry : DefinitionIndexEntry) : Status :=
  if String.eqb (de_definition_id entry) "" then Fail kInvalidConfig "definition ID must not be empty"
  else if String.eqb (de_source entry) "" then
    Fail kInvalidConfig ("definition source must not be empty for ID '" +:+ de_definition_id entry +:+ "'")
  else if existsb bad_parent (de_parents entry) then
    Fail kInvalidConfig ("invalid parent reference in '" +:+ de_source entry +:+ "'")
  else Ok tt.
Fixpoint canonical (entries canonical_entries : list DefinitionIndexEntry) : result Error (list DefinitionIndexEntry) :=
  match entries with
  | [] => Ok canonical_entries
  | entry :: entries =>
      let! _ := Validate entry in
      match List.find (fun candidate => HasSameLookupKey candidate entry) canonical_entries with
      | None => canonical entries (canonical_entries ++ [entry])
      | Some existing =>
          if negb (HasSameContent existing entry) then
            Fail kInvalidConfig ("conflicting duplicate definition ID '" +:+ de_definition_id entry +:+ "' from '"
                                 +:+ de_source existing +:+ "' and '" +:+ de_source entry +:+ "'")
          else canonical entries canonical_entries
      end
  end.
Definition Create (entries : list DefinitionIndexEntry) : result Error DefinitionCatalog :=
  let! canonical_entries := canonical entries [] in Ok {| entries_ := canonical_entries |}.
Definition Find (catalog : DefinitionCatalog) (format : DefinitionFormat) (id : string) : result Error DefinitionIndexEntry :=
  match List.find (fun candidate => bool_decide (de_format candidate = format) && String.eqb (de_definition_id candidate) id)
          (entries_ catalog) with
  | None => Fail kInvalidConfig ("definition ID not found: '" +:+ id +:+ "'")
  | Some entry => Ok entry
  end.
Definition Entries (catalog : DefinitionCatalog) : list DefinitionIndexEntry := entries_ catalog.

(** ** Storage types: lemmas *)
Lemma StorageByteSize_range st : 1 <= StorageByteSize st <= 4.
Proof. by destruct st as [[]|]. Qed.
Lemma StorageType_text_roundtrip t : StorageTypeFromText (StorageTypeText (Some t)) = Some t.
Proof. by destruct t. Qed.
Lemma StorageTypeFromText_text text t : StorageTypeFromText text = Some t -> text = StorageTypeText (Some t).
Proof.
  unfold StorageTypeFromText, kStorageTypes. cbn [first_named].
  repeat (case String.eqb_spec; [by intros -> [= <-]|intros _]). done.
Qed.
Lemma FindScaling_elem d n s : FindScaling d n = Some s -> s ∈ rd_scalings d /\ sc_name s = n.
Proof. intros [Hin Hn%String.eqb_eq]%find_some. by apply list_elem_of_In in Hin. Qed.

(** ** The catalog: lemmas

    The lookup key of an entry and what entries with one key must agree on. *)
Section catalog.
Definition key (e : DefinitionIndexEntry) : DefinitionFormat * string := (de_format e, de_definition_id e).
Definition content (e : DefinitionIndexEntry) : string * string * option Z * IdEncoding * list string :=
  (de_internal_id e, de_ecu_id e, de_internal_id_address e, de_internal_id_encoding e, de_parents e).
(** The first entry with a key. *)
Definition first (k : DefinitionFormat * string) (es : list DefinitionIndexEntry) : option DefinitionIndexEntry :=
  List.find (fun e => bool_decide (key e = k)) es.
Definition agree (es : list DefinitionIndexEntry) : Prop :=
  forall e e', e ∈ es -> e' ∈ es -> key e = key e' -> content e = content e'.
(** An entry the catalog takes: an identifier, a source, and parents that are
    non-empty words. *)
Definition valid (e : DefinitionIndexEntry) : Prop :=
  de_definition_id e <> ""%string /\ de_source e <> ""%string
  /\ Forall (fun p => p <> ""%string /\ HasWhitespace p = false) (de_parents e).

Lemma bad_parent_iff p : bad_parent p = false <-> p <> ""%string /\ HasWhitespace p = false.
Proof. unfold bad_parent. by rewrite orb_false_iff, String.eqb_neq. Qed.
Lemma Validate_iff e : Validate e = Ok tt <-> valid e.
Proof.
  unfold Validate, valid. destruct (String.eqb_spec (de_definition_id e) ""); [split; [discriminate|tauto]|].
  destruct (String.eqb_spec (de_source e) ""); [split; [discriminate|tauto]|].
  destruct (existsb _ _) eqn:E.
  - split; [discriminate|]. intros (_ & _ & HF). apply existsb_exists in E as (p & Hp & Hb). apply list_elem_of_In in Hp.
    rewrite Forall_forall in HF. specialize (HF p Hp). apply bad_parent_iff in HF. congruence.
  - split; [|done]. intros _. split_and!; [done..|]. apply Forall_forall. intros p Hp. apply bad_parent_iff.
    destruct (bad_parent p) eqn:Hb; [|done].
    exfalso. apply (Bool.eq_true_false_abs (existsb bad_parent (de_parents e))); [|done].
    apply existsb_exists. exists p. split; [by apply list_elem_of_In|done].
Qed.
Lemma HasSameLookupKey_key c e : HasSameLookupKey c e = bool_decide (key c = key e).
Proof.
  unfold HasSameLookupKey, key. destruct (String.eqb_spec (de_definition_id c) (de_definition_id e)) as [E|E].
  - rewrite E, andb_true_r. apply bool_decide_ext. split; [by intros ->|congruence].
  - rewrite andb_false_r. symmetry. apply bool_decide_eq_false_2. congruence.
Qed.
Lemma HasSameContent_iff c e : HasSameContent c e = true <-> content c = content e.
Proof.
  unfold HasSameContent, HasSameIdentity, content. rewrite !andb_true_iff, !bool_decide_eq_true, !String.eqb_eq.
  split; [by intros [[[[-> ->] ->] ->] ->]|by intros [=]].
Qed.
Lemma find_first c k : List.find (fun e => HasSameLookupKey e c) k = first (key c) k.
Proof. apply find_ext. intros e. apply HasSameLookupKey_key. Qed.
Lemma first_app k es es' : first k (es ++ es') = match first k es with Some e => Some e | None => first k es' end.
Proof. unfold first. induction es as [|e es IH]; cbn; [done|]. by case_bool_decide. Qed.
Lemma first_Some k es e : first k es = Some e -> e ∈ es /\ key e = k.
Proof. intros [Hin Hk]%find_some. split; [by apply list_elem_of_In|by apply bool_decide_eq_true in Hk]. Qed.
Lemma first_None k es : first k es = None <-> k ∉ (key <$> es).
Proof.
  unfold first. rewrite find_None_Forall, Forall_forall, list_elem_of_fmap. split.
  - intros H (e & -> & He). specialize (H e He). cbn in H. by rewrite bool_decide_eq_true_2 in H.
  - intros H e He. apply bool_decide_eq_false_2. intros <-. apply H. by exists e.
Qed.
(** Dropping a repeated key changes no first entry. *)
Lemma first_skip k acc e es : first (key e) acc <> None -> first k (acc ++ e :: es) = first k (acc ++ es).
Proof.
  intros H. rewrite !first_app. destruct (first k acc) eqn:E; [done|]. unfold first at 1. cbn.
  case_bool_decide as Hk; [|done]. by rewrite Hk in H.
Qed.
Lemma canonical_spec es acc cs :
  NoDup (key <$> acc) -> canonical es acc = Ok cs ->
  Forall valid es /\ NoDup (key <$> cs) /\ (forall k, first k cs = first k (acc ++ es))
  /\ Forall (fun e => exists a, first (key e) (acc ++ es) = Some a /\ content a = content e) es.
Proof.
  revert acc. induction es as [|e es IH]; intros acc Hnd; cbn [canonical].
  { intros [= ->]. rewrite app_nil_r. by split_and!; try constructor. }
  intros ([] & Hv%Validate_iff & H)%result_bind_Ok. rewrite find_first in H.
  destruct (first (key e) acc) as [a|] eqn:Ea.
  - destruct (HasSameContent a e) eqn:Hc; cbn [negb] in H; [|done]. apply HasSameContent_iff in Hc.
    destruct (IH acc Hnd H) as (HF & Hnd' & Hf & Hag). split_and!; [by constructor|done| |].
    + intros k. by rewrite Hf, first_skip by (by rewrite Ea).
    + constructor; [exists a; by rewrite first_app, Ea|].
      eapply Forall_impl; [exact Hag|]. intros e' (a' & Hf' & Hc'). exists a'. by rewrite first_skip by (by rewrite Ea).
  - destruct (IH (acc ++ [e])) as (HF & Hnd' & Hf & Hag); [|done|].
    + rewrite fmap_app. apply NoDup_app. split_and!; [done| |by apply NoDup_singleton].
      intros k Hk ->%list_elem_of_singleton. by apply first_None in Ea.
    + rewrite <- app_assoc in Hf, Hag. split_and!; [by constructor|done|done|].
      constructor; [|done]. exists e. rewrite first_app, Ea. split; [|done]. unfold first. cbn.
      by rewrite bool_decide_eq_true_2.
Qed.
Lemma canonical_accepts es acc : Forall valid es -> agree (acc ++ es) -> exists cs, canonical es acc = Ok cs.
Proof.
  revert acc. induction es as [|e es IH]; intros acc Hv Ha; cbn [canonical]; [by eexists|].
  apply Forall_cons in Hv as [He Hv]. apply Validate_iff in He. rewrite He. cbn [result_bind]. rewrite find_first.
  destruct (first (key e) acc) as [a|] eqn:Ea.
  - apply first_Some in Ea as [Hin Hk].
    assert (HasSameContent a e = true) as -> by (apply HasSameContent_iff, Ha; [set_solver..|done]).
    apply IH; [done|]. intros x y Hx Hy. apply Ha; set_solver.
  - apply IH; [done|]. by rewrite <- app_assoc.
Qed.
Lemma Find_first c f id : Find c f id = match first (f, id) (entries_ c) with
  | Some e => Ok e | None => Fail kInvalidConfig ("definition ID not found: '" +:+ id +:+ "'") end.
Proof.
  unfold Find, first. erewrite find_ext; [done|]. intros e. cbn. unfold key.
  destruct (String.eqb_spec (de_definition_id e) id) as [->|E].
  - rewrite andb_true_r. apply bool_decide_ext. split; [by intros ->|congruence].
  - rewrite andb_false_r. symmetry. apply bool_decide_eq_false_2. congruence.
Qed.
End catalog.

(** A definition catalog is made exactly from entries that each have an
    identifier, a source and well-formed parents, and that agree on everything but
    their source and flash method wherever format and identifier coincide; it then
    holds each format and identifier once, and answers every lookup with the first
    entry of the given ones that has them, or with an error when none has. *)
Theorem catalog_holds_first_entries es :
  ((exists c, Create es = Ok c) <-> Forall valid es /\ agree es)
  /\ forall c, Create es = Ok c ->
       NoDup (key <$> Entries c)
       /\ forall f id, Find c f id = match first (f, id) es with
            | Some e => Ok e | None => Fail kInvalidConfig ("definition ID not found: '" +:+ id +:+ "'") end.
Proof.
  unfold Create. split; [split|].
  - intros (c & (cs & E & _)%result_bind_Ok).
    destruct (canonical_spec es [] cs) as (Hv & _ & _ & Ha); [constructor|done|]. split; [done|].
    rewrite Forall_forall in Ha. intros e e' He He' Hk.
    destruct (Ha e He) as (a & Hf & <-), (Ha e' He') as (a' & Hf' & <-). congruence.
  - intros [Hv Ha]. destruct (canonical_accepts es [] Hv Ha) as [cs ->]. by eexists.
  - intros c (cs & E & [= <-])%result_bind_Ok. destruct (canonical_spec es [] cs) as (_ & Hnd & Hf & _); [constructor|done|].
    split; [done|]. intros f id. by rewrite Find_first, Hf.
Qed.
Definition sample_entry (format : DefinitionFormat) (id source : string) (parents : list string) : DefinitionIndexEntry :=
  {| de_format := format; de_definition_id := id; de_internal_id := id; de_internal_id_address := Some 0x2000;
     de_internal_id_encoding := kAscii; de_ecu_id := ""; de_flash_method := ""; de_source := source;
     de_parents := parents |}.
Definition sample_entries : list DefinitionIndexEntry :=
  [sample_entry kEcuFlash "A1" "a.xml" ["BASE"]; sample_entry kEcuFlash "BASE" "base.xml" [];
   sample_entry kEcuFlash "A1" "copy.xml" ["BASE"]]%string.
Lemma catalog_holds_first_entries_witness :
  exists c, Create sample_entries = Ok c /\ NoDup (key <$> Entries c)
    /\ Find c kEcuFlash "A1" = Ok (sample_entry kEcuFlash "A1" "a.xml" ["BASE"%string]).
Proof.
  destruct (Create sample_entries) as [c|e] eqn:E; [|discriminate E].
  destruct (proj2 (catalog_holds_first_entries sample_entries) c E) as [Hd Hf].
  exists c. split; [reflexivity|]. split; [exact Hd|]. rewrite Hf. reflexivity.
Defined.
