(* ===== verification/Numeric.v ===== *)
(** * Numeric: comparisons, rounding and casts of [double]

    What the calibration code uses of [double] beyond the expression evaluator's
    arithmetic: [<] and [==], [std::round], [std::lerp], [std::abs], the casts to and
    from 64-bit integers and through [float], and [std::to_chars] in fixed notation;
    with a binary64 instance on the same floating-point specification. *)
From Stdlib Require Import SpecFloat.
From S2P Require Import Prelude.
From S2P Require Import Expression.

(** [a > b] is [flt b a]; [to_float_bits] is the bit pattern of the value cast to
    [float], [of_float_bits] the value of a [float]'s bit pattern. *)
Class Numeric `{Double} := {
  flt : double -> double -> bool;
  feq : double -> double -> bool;
  quiet_NaN : double;
  fabs : double -> double;
  fround : double -> double;
  flerp : double -> double -> double -> double;
  of_Z : Z -> double;
  to_Z : double -> Z;
  of_float_bits : Z -> double;
  to_float_bits : double -> Z;
  float_max : double;
  to_chars_fixed : double -> list ascii
}.
(** What the code relies on: a finite number rounded and found inside the range of a
    storage width is cast to an integer of that range; nothing is below itself. *)
Class NumericSpec `{Numeric} : Prop := {
  to_Z_unsigned : forall b v, b ∈ [8; 16; 24; 32] -> isfinite v = true ->
    flt (fround v) zero = false -> flt (of_Z (2 ^ b - 1)) (fround v) = false -> 0 <= to_Z (fround v) < 2 ^ b;
  to_Z_signed : forall b v, b ∈ [8; 16; 24; 32] -> isfinite v = true ->
    flt (fround v) (fopp (of_Z (2 ^ (b - 1)))) = false -> flt (of_Z (2 ^ (b - 1) - 1)) (fround v) = false ->
    - 2 ^ (b - 1) <= to_Z (fround v) < 2 ^ (b - 1);
  flt_irrefl : forall v, flt v v = false
}.

(** ** The binary64 instance *)
Section binary64.
Definition signed_mantissa (s : bool) (m : positive) : Z := if s then Z.neg m else Z.pos m.
(** A finite number as mantissa and exponent. *)
Definition sf_parts (x : spec_float) : Z * Z :=
  match x with S754_finite s m e => (signed_mantissa s m, e) | _ => (0, 0) end.
(** [m * 2 ^ e < m' * 2 ^ e'], the exponents aligned. *)
Definition parts_lt (x y : Z * Z) : bool :=
  let e := Z.min x.2 y.2 in x.1 * 2 ^ (x.2 - e) <? y.1 * 2 ^ (y.2 - e).
Definition sf_lt (x y : spec_float) : bool :=
  match x, y with
  | S754_nan, _ | _, S754_nan => false
  | S754_infinity s, S754_infinity s' => s && negb s'
  | S754_infinity s, _ => s
  | _, S754_infinity s => negb s
  | _, _ => parts_lt (sf_parts x) (sf_parts y)
  end.
Definition digits (m : positive) : Z := Z.log2 (Z.pos m) + 1.
(** An integer as a number, its mantissa shifted up to the full precision. *)
Definition sf_integer (s : bool) (z : Z) : spec_float :=
  match z with
  | Zpos p =>
      let j := kPrec - digits p in
      if 0 <=? j then S754_finite s (Z.to_pos (Z.shiftl (Z.pos p) j)) (- j) else S754_finite s p 0
  | _ => S754_zero s
  end.
Definition sf_round (x : spec_float) : spec_float :=
  match x with
  | S754_finite s m e =>
      if 0 <=? e then x else sf_integer s ((2 * Z.pos m + 2 ^ (- e)) / 2 ^ (1 - e))
  | _ => x
  end.
Definition sf_trunc (x : spec_float) : Z :=
  match x with
  | S754_finite s m e =>
      let q := if 0 <=? e then Z.pos m * 2 ^ e else Z.pos m / 2 ^ (- e) in if s then - q else q
  | _ => 0
  end.
Definition sf_of_Z (z : Z) : spec_float := binary_normalize kPrec kEmax z 0 false.
Definition sf_lerp (a b t : spec_float) : spec_float :=
  let le x y := negb (sf_lt y x) in
  let zero := S754_zero false in
  let one := sf_of_Z 1 in
  if (le a zero && le zero b) || (le zero a && le b zero) then
    SFadd kPrec kEmax (SFmul kPrec kEmax t b) (SFmul kPrec kEmax (SFsub kPrec kEmax one t) a)
  else if SFeqb t one then b
  else
    let x := SFadd kPrec kEmax a (SFmul kPrec kEmax t (SFsub kPrec kEmax b a)) in
    if Bool.eqb (sf_lt one t) (sf_lt a b) then (if sf_lt b x then x else b) else (if sf_lt x b then x else b).
Definition sf_of_float_bits (bits : Z) : spec_float :=
  let s := Z.testbit bits 31 in
  let e := bits / 8388608 mod 256 in
  let f := bits mod 8388608 in
  if e =? 255 then (if f =? 0 then S754_infinity s else S754_nan)
  else if e =? 0 then binary_normalize kPrec kEmax (if s then - f else f) (-149) s
  else binary_normalize kPrec kEmax (let m := f + 8388608 in if s then - m else m) (e - 150) s.
Definition sf_to_float_bits (x : spec_float) : Z :=
  let sign (s : bool) := if s then 2147483648 else 0 in
  match (match x with S754_finite s m e => binary_normalize 24 128 (signed_mantissa s m) e s | _ => x end) with
  | S754_zero s => sign s
  | S754_infinity s => sign s + 255 * 8388608
  | S754_nan => 2143289344
  | S754_finite s m e =>
      if Z.pos m <? 8388608 then sign s + Z.pos m else sign s + (e + 150) * 8388608 + (Z.pos m - 8388608)
  end.
(** Decimal digits of a natural number. *)
Fixpoint dec_digits (fuel : nat) (z : Z) (acc : list ascii) : list ascii :=
  match fuel with
  | O => acc
  | S fuel =>
      let acc := ascii_of_N (Z.to_N (z mod 10 + 48)) :: acc in
      if z / 10 =? 0 then acc else dec_digits fuel (z / 10) acc
  end.
Definition dec (z : Z) : list ascii := dec_digits (Z.to_nat (Z.log2 z) + 1) z [].
(** [q / 10 ^ k] with [k] digits after the point. *)
Definition fixed_text (s : bool) (q : Z) (k : nat) : list ascii :=
  let scale := 10 ^ Z.of_nat k in
  let fraction := dec (q mod scale) in
  (if s then ["-"%char] else []) ++ dec (q / scale)
  ++ (match k with O => [] | _ => "."%char :: replicate (k - length fraction) "0"%char ++ fraction end).
(** The fewest digits after the point that read back as the number. *)
Fixpoint shortest (fuel : nat) (s : bool) (m : positive) (e : Z) (k : nat) : list ascii :=
  let q := if 0 <=? e then Z.pos m * 2 ^ e * 10 ^ Z.of_nat k
           else (2 * Z.pos m * 10 ^ Z.of_nat k + 2 ^ (- e)) / 2 ^ (1 - e) in
  match fuel with
  | O => fixed_text s q k
  | S fuel =>
      if SFeqb (decimal s q (- Z.of_nat k)) (S754_finite s m e) then fixed_text s q k else shortest fuel s m e (S k)
  end.
Definition sf_to_chars (x : spec_float) : list ascii :=
  match x with
  | S754_zero s => fixed_text s 0 0
  | S754_infinity s => (if s then ["-"%char] else []) ++ ["i"; "n"; "f"]%char
  | S754_nan => ["n"; "a"; "n"]%char
  | S754_finite s m e => shortest 1100 s m e 0
  end.
#[export] Instance binary64_numeric : Numeric := {|
  flt := sf_lt : double -> double -> bool;
  feq := SFeqb : double -> double -> bool;
  quiet_NaN := S754_nan : double;
  fabs := SFabs : double -> double;
  fround := sf_round : double -> double;
  flerp := sf_lerp : double -> double -> double -> double;
  of_Z := sf_of_Z : Z -> double;
  to_Z := sf_trunc : double -> Z;
  of_float_bits := sf_of_float_bits : Z -> double;
  to_float_bits := sf_to_float_bits : double -> Z;
  float_max := binary_normalize kPrec kEmax 16777215 104 false : double;
  to_chars_fixed := sf_to_chars : double -> list ascii
|}.
End binary64.

(** ** The instance keeps its promises *)
Section binary64_numeric_spec.
(** [x] is a number and [k], an integer with its exponent at most 0, is not above (below) it. *)
Definition numeric (x : spec_float) : bool := match x with S754_zero _ | S754_finite _ _ _ => true | _ => false end.
Lemma pow_split a b : 0 <= a -> 0 <= b -> 2 ^ (a + b) = 2 ^ a * 2 ^ b.
Proof. intros. by apply Z.pow_add_r. Qed.
Lemma parts_ge m e K j : 0 <= j -> parts_lt (m, e) (K * 2 ^ j, - j) = false ->
  if 0 <=? e then K <= m * 2 ^ e else K * 2 ^ (- e) <= m.
Proof.
  intros Hj. unfold parts_lt. cbn [fst snd]. intros Hlt%Z.ltb_ge. destruct (Z.leb_spec 0 e).
  - rewrite Z.min_r, Z.sub_diag in Hlt by lia. replace (e - - j) with (e + j) in Hlt by lia.
    rewrite pow_split in Hlt by lia. pose proof (Z.pow_pos_nonneg 2 j). nia.
  - set (e0 := Z.min e (- j)) in *. replace (- j - e0) with ((- e0) - j) in Hlt by lia.
    rewrite <- Z.mul_assoc, <- pow_split in Hlt by lia. replace (j + (- e0 - j)) with ((- e) + (e - e0)) in Hlt by lia.
    rewrite pow_split in Hlt by lia. pose proof (Z.pow_pos_nonneg 2 (e - e0)). nia.
Qed.
Lemma parts_le m e K j : 0 <= j -> parts_lt (K * 2 ^ j, - j) (m, e) = false ->
  if 0 <=? e then m * 2 ^ e <= K else m <= K * 2 ^ (- e).
Proof.
  intros Hj. unfold parts_lt. cbn [fst snd]. intros Hlt%Z.ltb_ge. destruct (Z.leb_spec 0 e).
  - rewrite Z.min_l, Z.sub_diag in Hlt by lia. replace (e - - j) with (e + j) in Hlt by lia.
    rewrite pow_split in Hlt by lia. pose proof (Z.pow_pos_nonneg 2 j). nia.
  - set (e0 := Z.min (- j) e) in *. replace (- j - e0) with ((- e0) - j) in Hlt by lia.
    rewrite <- Z.mul_assoc, <- pow_split in Hlt by lia. replace (j + (- e0 - j)) with ((- e) + (e - e0)) in Hlt by lia.
    rewrite pow_split in Hlt by lia. pose proof (Z.pow_pos_nonneg 2 (e - e0)). nia.
Qed.
Lemma trunc_between x lo hi j k :
  numeric x = true -> 0 <= j -> 0 <= k -> lo <= 0 <= hi ->
  parts_lt (sf_parts x) (lo * 2 ^ j, - j) = false -> parts_lt (hi * 2 ^ k, - k) (sf_parts x) = false ->
  lo <= sf_trunc x <= hi.
Proof.
  intros Hx Hj Hk Hr Hlo Hhi. destruct x as [s|s| |s m e]; try done.
  apply parts_ge in Hlo; [|done]. apply parts_le in Hhi; [|done]. cbn [sf_trunc]. unfold signed_mantissa in *.
  destruct (Z.leb_spec 0 e); [destruct s; lia|]. pose proof (Z.pow_pos_nonneg 2 (- e)).
  pose proof (Z.div_pos (Z.pos m) (2 ^ (- e))).
  destruct s; [|split; [lia|apply Z.div_le_upper_bound; nia]].
  assert (Z.pos m / 2 ^ (- e) <= - lo) by (apply Z.div_le_upper_bound; nia). lia.
Qed.
Lemma sf_lt_numeric x y : numeric x = true -> numeric y = true -> sf_lt x y = parts_lt (sf_parts x) (sf_parts y).
Proof. by destruct x, y. Qed.
Lemma numeric_round v : isfinite v = true -> numeric (sf_round v) = true.
Proof.
  destruct v as [s|s| |s m e]; try done. cbn [sf_round]. intros _. case_match; [done|].
  unfold sf_integer. by repeat case_match.
Qed.
Lemma bound_parts b : b ∈ [8; 16; 24; 32] ->
  (numeric (sf_of_Z (2 ^ b - 1)) = true /\ sf_parts (sf_of_Z (2 ^ b - 1)) = ((2 ^ b - 1) * 2 ^ (53 - b), - (53 - b)))
  /\ (numeric (sf_of_Z (2 ^ (b - 1) - 1)) = true
      /\ sf_parts (sf_of_Z (2 ^ (b - 1) - 1)) = ((2 ^ (b - 1) - 1) * 2 ^ (54 - b), - (54 - b)))
  /\ (numeric (SFopp (sf_of_Z (2 ^ (b - 1)))) = true
      /\ sf_parts (SFopp (sf_of_Z (2 ^ (b - 1)))) = (- 2 ^ (b - 1) * 2 ^ (53 - b), - (53 - b))).
Proof.
  rewrite !elem_of_cons. intros [-> | [-> | [-> | [-> | []%not_elem_of_nil]]]]; vm_compute; split_and!; reflexivity.
Qed.
Lemma binary64_numeric_spec : NumericSpec.
Proof.
  constructor; cbn [flt of_Z to_Z fround binary64_numeric zero fopp binary64 isfinite].
  - intros b v Hb Hv Hlo Hhi. destruct (bound_parts b Hb) as ((Nu & Pu) & _). apply numeric_round in Hv.
    assert (0 < b <= 32) by (rewrite !elem_of_cons in Hb; set_solver by lia).
    rewrite sf_lt_numeric in Hlo, Hhi by done. rewrite Pu in Hhi. cbn [sf_parts] in Hlo.
    pose proof (Z.pow_pos_nonneg 2 b). change (0, 0) with (0 * 2 ^ 0, - 0) in Hlo.
    enough (0 <= sf_trunc (sf_round v) <= 2 ^ b - 1) by lia. eapply trunc_between; [done|..|exact Hlo|exact Hhi]; lia.
  - intros b v Hb Hv Hlo Hhi. destruct (bound_parts b Hb) as (_ & (Nu & Pu) & (Nl & Pl)). apply numeric_round in Hv.
    assert (0 < b <= 32) by (rewrite !elem_of_cons in Hb; set_solver by lia).
    rewrite sf_lt_numeric in Hlo, Hhi by done. rewrite Pu in Hhi. rewrite Pl in Hlo.
    pose proof (Z.pow_pos_nonneg 2 (b - 1)).
    enough (- 2 ^ (b - 1) <= sf_trunc (sf_round v) <= 2 ^ (b - 1) - 1) by lia.
    eapply trunc_between; [done|..|exact Hlo|exact Hhi]; lia.
  - intros v. unfold sf_lt. destruct v as [s|s| |s m e]; cbn; try done; [by destruct s|].
    unfold parts_lt. apply Z.ltb_irrefl.
Qed.
End binary64_numeric_spec.
