(* ===== verification/FixedNotation.v ===== *)
(** * FixedNotation: numbers printed in fixed notation read back

    What the clipboard relies on of [std::to_chars] and [std::from_chars]: the shortest
    fixed notation of a finite [double] is a sign, digits and a point, and reads back as
    that [double]. Stated as a class on [Numeric], and proved of the binary64 instance for
    every value of the format: the search of the shortest text ends, since the exact
    decimal expansion is found at the latest, and the reader rounds what was printed to
    the number it was printed from. *)
From Stdlib Require Import SpecFloat.
From S2P Require Import Prelude.
From S2P Require Import Expression Numeric.

(** A character of fixed notation. *)
Definition plain (c : ascii) : Prop := c = "-"%char \/ c = "."%char \/ 48 <= Z.of_N (N_of_ascii c) <= 57.
(** [representable] are the values that are numbers of the format. *)
Class FixedNotation `{Numeric} (representable : double -> Prop) : Prop := {
  to_chars_plain : forall v, representable v -> isfinite v = true -> Forall plain (to_chars_fixed v) /\ to_chars_fixed v <> [];
  to_chars_reads : forall v, representable v -> isfinite v = true ->
    from_chars (to_chars_fixed v) = Some (v, length (to_chars_fixed v))
}.

(** ** Digits written and read *)
Section digits.
Definition digit (c : ascii) : Prop := 48 <= Z.of_N (N_of_ascii c) <= 57.
Definition digit_value (c : ascii) : Z := Z.of_N (N_of_ascii c) - 48.
Definition value_after (a : Z) (ds : list ascii) : Z := fold_left (fun a c => 10 * a + digit_value c) ds a.
Lemma scan_digits_app ds rest a : Forall digit ds ->
  scan_digits (ds ++ rest) a = let '(r, n) := scan_digits rest (value_after a ds) in (r, (length ds + n)%nat).
Proof.
  intros HF. revert a. induction HF as [|c ds Hc _ IH]; intros a; cbn [app].
  - cbn. by destruct (scan_digits rest a).
  - cbn [scan_digits]. unfold digit in Hc. rewrite (proj2 (Z.leb_le _ _)), (proj2 (Z.leb_le _ _)) by lia. cbn [andb]. rewrite IH.
    cbn [value_after fold_left length]. unfold digit_value. fold (value_after (10 * a + (Z.of_N (N_of_ascii c) - 48)) ds).
    by destruct (scan_digits rest _).
Qed.
Lemma scan_digits_stop rest a : match rest with c :: _ => ~ digit c | [] => True end -> scan_digits rest a = (a, 0%nat).
Proof.
  destruct rest as [|c rest]; [done|]. cbn. unfold digit. intros Hn.
  destruct (Z.leb_spec 0 (Z.of_N (N_of_ascii c) - 48)), (Z.leb_spec (Z.of_N (N_of_ascii c) - 48) 9); cbn [andb]; done || lia.
Qed.
Lemma value_after_app a ds es : value_after a (ds ++ es) = value_after (value_after a ds) es.
Proof. apply fold_left_app. Qed.
Lemma value_after_shift a ds : value_after a ds = a * 10 ^ Z.of_nat (length ds) + value_after 0 ds.
Proof.
  revert a. induction ds as [|c ds IH]; intros a; cbn [value_after fold_left length]; [lia|].
  fold (value_after (10 * a + digit_value c) ds). fold (value_after (10 * 0 + digit_value c) ds). rewrite IH, (IH (10 * 0 + digit_value c)).
  rewrite Nat2Z.inj_succ, Z.pow_succ_r by lia. lia.
Qed.
Lemma value_after_zeros n a : value_after a (replicate n "0"%char) = a * 10 ^ Z.of_nat n.
Proof.
  rewrite value_after_shift, length_replicate. assert (forall n, value_after 0 (replicate n "0"%char) = 0) as ->; [|lia].
  clear. induction n as [|n IH]; [done|]. exact IH.
Qed.
Lemma digit_char d : 0 <= d <= 9 -> digit (ascii_of_N (Z.to_N (d + 48))) /\ digit_value (ascii_of_N (Z.to_N (d + 48))) = d.
Proof. intros Hd. unfold digit, digit_value. rewrite N_ascii_embedding by lia. lia. Qed.
Lemma dec_digits_spec fuel z acc : 0 <= z < 2 ^ Z.of_nat fuel -> (1 <= fuel)%nat ->
  exists ds, dec_digits fuel z acc = ds ++ acc /\ Forall digit ds /\ ds <> [] /\ value_after 0 ds = z
    /\ forall k, (1 <= k)%nat -> z < 10 ^ Z.of_nat k -> (length ds <= k)%nat.
Proof.
  revert z acc. induction fuel as [|fuel IH]; intros z acc Hz Hf; [lia|]. cbn [dec_digits]. cbv zeta.
  pose proof (Z.mod_pos_bound z 10 ltac:(lia)) as Hm. destruct (digit_char (z mod 10) ltac:(lia)) as [Hd Hv].
  pose proof (Z.div_mod z 10 ltac:(lia)) as Hdm. set (d := ascii_of_N (Z.to_N (z mod 10 + 48))) in *.
  destruct (Z.eqb_spec (z / 10) 0) as [E|E].
  - exists [d]. split_and!; [done|by constructor|done| |intros; cbn; lia]. cbn. lia.
  - pose proof (Z.div_pos z 10 ltac:(lia) ltac:(lia)). rewrite Nat2Z.inj_succ, Z.pow_succ_r in Hz by lia.
    destruct fuel as [|fuel]; [cbn in Hz; lia|]. destruct (IH (z / 10) (d :: acc)) as (ds & -> & HF & Hn & Hval & Hl); [lia|lia|].
    exists (ds ++ [d]). split_and!; [by rewrite <- app_assoc|apply Forall_app; by split; [|constructor]|by destruct ds| |].
    + rewrite value_after_app, Hval. cbn. lia.
    + intros k Hk Hlt. rewrite length_app. cbn [length]. destruct k as [|[|k]]; [lia|cbn in Hlt; lia|].
      assert (length ds <= S k)%nat; [|lia]. apply Hl; [lia|]. rewrite Nat2Z.inj_succ, Z.pow_succ_r in Hlt by lia. lia.
Qed.
Lemma dec_spec z : 0 <= z ->
  Forall digit (dec z) /\ dec z <> [] /\ value_after 0 (dec z) = z /\ forall k, (1 <= k)%nat -> z < 10 ^ Z.of_nat k -> (length (dec z) <= k)%nat.
Proof.
  intros Hz. unfold dec. pose proof (Z.log2_nonneg z). destruct (dec_digits_spec (Z.to_nat (Z.log2 z) + 1) z []) as (ds & -> & H1).
  - split; [done|]. replace (Z.of_nat (Z.to_nat (Z.log2 z) + 1)) with (Z.succ (Z.log2 z)) by lia.
    destruct (decide (z = 0)) as [->|]; [by vm_compute|]. apply Z.log2_spec. lia.
  - lia.
  - by rewrite app_nil_r.
Qed.
End digits.

(** ** A printed text read *)
Section texts.
(** The characters after the sign. *)
Definition unsigned_text (q : Z) (k : nat) : list ascii :=
  dec (q / 10 ^ Z.of_nat k)
  ++ (match k with O => []
      | _ => "."%char :: replicate (k - length (dec (q mod 10 ^ Z.of_nat k))) "0"%char ++ dec (q mod 10 ^ Z.of_nat k) end).
Lemma fixed_text_unsigned s q k : fixed_text s q k = (if s then ["-"%char] else []) ++ unsigned_text q k.
Proof. reflexivity. Qed.
Lemma digit_plain c : digit c -> plain c.
Proof. unfold plain, digit. auto. Qed.
Lemma digits_plain l : Forall digit l -> Forall plain l.
Proof. intros H. apply (Forall_impl _ _ _ H). apply digit_plain. Qed.
Lemma fixed_text_plain s q k : 0 <= q -> Forall plain (fixed_text s q k) /\ fixed_text s q k <> [].
Proof.
  intros Hq. rewrite fixed_text_unsigned. unfold unsigned_text. pose proof (Z.pow_pos_nonneg 10 (Z.of_nat k) ltac:(lia) ltac:(lia)) as Hp.
  destruct (dec_spec (q / 10 ^ Z.of_nat k) ltac:(apply Z.div_pos; lia)) as (H1 & H2 & _).
  destruct (dec_spec (q mod 10 ^ Z.of_nat k) ltac:(apply Z.mod_pos_bound; lia)) as (H3 & _).
  split; [|by destruct s, (dec (q / 10 ^ Z.of_nat k))]. apply Forall_app. split; [destruct s; repeat constructor|].
  apply Forall_app. split; [by apply digits_plain|]. destruct k; [constructor|]. constructor; [by right; left|]. apply Forall_app.
  split; [|by apply digits_plain]. apply Forall_replicate. right. right. by vm_compute.
Qed.
Lemma starts_nocase_digit w word c l : ~ digit w -> (65 <=? N_of_ascii w)%N = true -> digit c -> starts_nocase (w :: word) (c :: l) = false.
Proof.
  intros Hw Hw' Hc. unfold starts_nocase. apply bool_decide_eq_false_2. cbn [length take map]. intros [= E _]. unfold digit in *.
  destruct (N.leb_spec 65 (N_of_ascii c)); cbn [andb] in E; [lia|]. by subst w.
Qed.
Lemma unsigned_reads s q k v : 0 < q -> decimal s q (- Z.of_nat k) = v -> (exists m e, v = S754_finite s m e) ->
  (k <= 1100)%nat -> Z.log2 q <= 4400 ->
  unsigned_from_chars s (unsigned_text q k) = Some (v, length (unsigned_text q k)).
Proof.
  intros Hq Hv (m & e & Em) Hk Hl. pose proof (Z.pow_pos_nonneg 10 (Z.of_nat k) ltac:(lia) ltac:(lia)) as Hp.
  set (scale := 10 ^ Z.of_nat k) in *.
  destruct (dec_spec (q / scale) ltac:(apply Z.div_pos; lia)) as (D1 & N1 & V1 & _).
  pose proof (Z.mod_pos_bound q scale Hp) as Hm. destruct (dec_spec (q mod scale) ltac:(lia)) as (D2 & _ & V2 & L2).
  unfold unsigned_text. fold scale. set (whole := dec (q / scale)) in *. set (frac := dec (q mod scale)) in *.
  set (tail := match k with O => [] | _ => _ end).
  assert (scan_digits (whole ++ tail) 0 = (q / scale, length whole)) as Hscan.
  { rewrite scan_digits_app by done. rewrite scan_digits_stop; [by rewrite V1, Nat.add_0_r|]. unfold tail. destruct k; [done|].
    unfold digit. vm_compute. by intros [[] _]. }
  unfold unsigned_from_chars. destruct whole as [|c whole'] eqn:Ew; [done|]. pose proof D1 as [Dc _]%Forall_cons. cbn [app] in *.
  rewrite !starts_nocase_digit by (try done; unfold digit; vm_compute; by intros [_ []]). rewrite Hscan.
  assert (drop (length (c :: whole')) (c :: whole' ++ tail) = tail) as -> by exact (drop_app_length (c :: whole') tail).
  assert ((match tail with
           | "."%char :: l => let '(m, f) := scan_digits l (q / scale) in (m, f, S f)
           | _ => (q / scale, 0%nat, 0%nat) end) = (q, k, length tail)) as ->.
  { unfold tail. destruct k as [|k]; [unfold scale; cbn; by rewrite Z.div_1_r|].
    assert (length frac <= S k)%nat as HL by (apply L2; lia). rewrite scan_digits_app by (apply Forall_replicate; by vm_compute).
    rewrite <- (app_nil_r frac) at 1. rewrite scan_digits_app by done. cbn [scan_digits]. rewrite value_after_zeros, value_after_shift, V2.
    cbn [length]. rewrite length_app, !length_replicate. rewrite <- Z.mul_assoc, <- Z.pow_add_r by lia.
    replace (Z.of_nat (S k - length frac) + Z.of_nat (length frac)) with (Z.of_nat (S k)) by lia. fold scale.
    pose proof (Z.div_mod q scale ltac:(lia)). f_equal; [f_equal; [lia|lia]|lia]. }
  assert ((length (c :: whole') + k =? 0)%nat = false) as -> by (apply Nat.eqb_neq; cbn; lia).
  assert (drop (length (c :: whole') + length tail) (c :: whole' ++ tail) = []) as ->.
  { apply drop_ge. change (c :: whole' ++ tail) with ((c :: whole') ++ tail). rewrite length_app. lia. }
  cbn [scan_exponent]. cbv zeta. pose proof (Z.log2_nonneg q). rewrite (proj2 (Z.eqb_neq q 0)) by lia.
  rewrite (proj2 (Z.ltb_ge 2000 _)) by (pose proof (Z.div_le_upper_bound (Z.log2 q * 30) 100 1320 ltac:(lia) ltac:(lia)); lia).
  rewrite (proj2 (Z.ltb_ge _ (-2000))) by (pose proof (Z.div_pos ((Z.log2 q + 1) * 31) 100 ltac:(lia) ltac:(lia)); lia).
  replace (0 - Z.of_nat k) with (- Z.of_nat k) by lia. rewrite Hv, Em. do 2 f_equal.
  change (c :: whole' ++ tail) with ((c :: whole') ++ tail). rewrite length_app. lia.
Qed.
Lemma fixed_text_reads s q k v : 0 < q -> decimal s q (- Z.of_nat k) = v -> (exists m e, v = S754_finite s m e) ->
  (k <= 1100)%nat -> Z.log2 q <= 4400 ->
  from_chars (fixed_text s q k) = Some (v, length (fixed_text s q k)).
Proof.
  intros Hq Hv He Hk Hl. pose proof (unsigned_reads s q k v Hq Hv He Hk Hl) as H. rewrite fixed_text_unsigned. destruct s; cbn [app].
  - cbn [from_chars binary64]. by rewrite H.
  - assert (exists c l, unsigned_text q k = c :: l /\ digit c) as (c & l & E & Hc).
    { unfold unsigned_text. pose proof (Z.pow_pos_nonneg 10 (Z.of_nat k) ltac:(lia) ltac:(lia)) as Hp.
      destruct (dec_spec (q / 10 ^ Z.of_nat k) ltac:(apply Z.div_pos; lia)) as (D1 & N1 & _). destruct (dec _) as [|c l]; [done|].
      apply Forall_cons in D1 as [Dc _]. cbn [app]. eauto. }
    rewrite E in *. cbn [from_chars binary64]. destruct (decide (c = "-"%char)) as [->|Hn]; [unfold digit in Hc; vm_compute in Hc; by destruct Hc as [[] _]|].
    destruct c as [[] [] [] [] [] [] [] []]; try exact H. by destruct Hn.
Qed.
End texts.

(** ** Rounding a number of the format changes nothing *)
Section rounding.
Lemma digits2_log2 p : Z.pos (digits2_pos p) = Z.log2 (Z.pos p) + 1.
Proof.
  induction p as [p IH|p IH|]; [| |done]; cbn [digits2_pos]; rewrite Pos2Z.inj_succ, IH.
  - rewrite (Pos2Z.inj_xI p), Z.log2_succ_double by lia. lia.
  - rewrite (Pos2Z.inj_xO p), Z.log2_double by lia. lia.
Qed.
Lemma Zdigits2_log2 z : 0 < z -> Zdigits2 z = Z.log2 z + 1.
Proof. destruct z as [|p|p]; [lia| |lia]. intros _. apply digits2_log2. Qed.
Lemma shr_exact n m : 0 < m ->
  SpecFloat.iter_pos shr_1 n {| shr_m := m * 2 ^ Z.pos n; shr_r := false; shr_s := false |} = {| shr_m := m; shr_r := false; shr_s := false |}.
Proof.
  revert m. induction n as [n IH|n IH|]; intros m Hm; cbn [SpecFloat.iter_pos].
  - assert (shr_1 {| shr_m := m * 2 ^ Z.pos n~1; shr_r := false; shr_s := false |}
      = {| shr_m := m * 2 ^ Z.pos n * 2 ^ Z.pos n; shr_r := false; shr_s := false |}) as ->; [|rewrite !IH; [done|done|]].
    + replace (m * 2 ^ Z.pos n~1) with (2 * (m * 2 ^ Z.pos n * 2 ^ Z.pos n)).
      * assert (0 < m * 2 ^ Z.pos n * 2 ^ Z.pos n) as Hp by (pose proof (Z.pow_pos_nonneg 2 (Z.pos n)); nia).
        by destruct (m * 2 ^ Z.pos n * 2 ^ Z.pos n).
      * rewrite (Pos2Z.inj_xI n). replace (2 * Z.pos n + 1) with (Z.pos n + Z.pos n + 1) by lia. rewrite !Z.pow_add_r by lia. lia.
    + pose proof (Z.pow_pos_nonneg 2 (Z.pos n)). nia.
  - replace (m * 2 ^ Z.pos n~0) with (m * 2 ^ Z.pos n * 2 ^ Z.pos n); [|rewrite (Pos2Z.inj_xO n); replace (2 * Z.pos n) with (Z.pos n + Z.pos n) by lia;
      rewrite Z.pow_add_r by lia; lia].
    rewrite !IH; [done|done|]. pose proof (Z.pow_pos_nonneg 2 (Z.pos n)). nia.
  - replace (m * 2 ^ 1) with (2 * m) by lia. by destruct m.
Qed.
Lemma shr_fexp_exact m e j : 0 < m -> 0 <= j -> fexp kPrec kEmax (Z.log2 m + 1 + e) = e ->
  shr_fexp kPrec kEmax (m * 2 ^ j) (e - j) loc_Exact = ({| shr_m := m; shr_r := false; shr_s := false |}, e).
Proof.
  intros Hm Hj He. unfold shr_fexp. pose proof (Z.pow_pos_nonneg 2 j ltac:(lia) ltac:(lia)).
  rewrite Zdigits2_log2 by nia. rewrite Z.log2_mul_pow2 by lia.
  replace (j + Z.log2 m + 1 + (e - j)) with (Z.log2 m + 1 + e) by lia. rewrite He. replace (e - (e - j)) with j by lia.
  unfold shr, shr_record_of_loc. destruct j as [|j|j]; [|by rewrite shr_exact, Z.sub_add|lia]. by rewrite Z.mul_1_r, Z.sub_0_r.
Qed.
Lemma round_exact s m e j : bounded kPrec kEmax m e = true -> 0 <= j ->
  binary_round_aux kPrec kEmax s (Z.pos m * 2 ^ j) (e - j) loc_Exact = S754_finite s m e.
Proof.
  intros [Hc%Z.eqb_eq Hb]%andb_true_iff Hj. rewrite digits2_log2 in Hc. unfold binary_round_aux. rewrite shr_fexp_exact by (done || lia).
  cbn [shr_m loc_of_shr_record round_nearest_even]. pose proof (shr_fexp_exact (Z.pos m) e 0 ltac:(lia) ltac:(lia) Hc) as E.
  rewrite Z.mul_1_r, Z.sub_0_r in E. rewrite E. cbn [shr_m]. by rewrite Hb.
Qed.
Lemma bounded_range m e : bounded kPrec kEmax m e = true -> -1074 <= e <= 971 /\ Z.log2 (Z.pos m) < 53.
Proof.
  intros [Hc%Z.eqb_eq Hb%Z.leb_le]%andb_true_iff. rewrite digits2_log2 in Hc. unfold fexp, emin, kPrec, kEmax in *. lia.
Qed.
(** The decimal that is exactly the number. *)
Definition exact_places (e : Z) : nat := if 0 <=? e then 0 else Z.to_nat (- e).
Definition printed_digits (m : positive) (e : Z) (k : nat) : Z :=
  if 0 <=? e then Z.pos m * 2 ^ e * 10 ^ Z.of_nat k else (2 * Z.pos m * 10 ^ Z.of_nat k + 2 ^ (- e)) / 2 ^ (1 - e).
Lemma decimal_pos s q e : 0 < q -> decimal s q e
  = if 0 <=? e then binary_normalize kPrec kEmax ((if s then -1 else 1) * (q * 10 ^ e)) 0 s
    else let '(q', e', l) := SFdiv_core_binary kPrec kEmax q 0 (10 ^ (- e)) 0 in binary_round_aux kPrec kEmax s q' e' l.
Proof. by destruct q. Qed.
Lemma decimal_integer s m e : bounded kPrec kEmax m e = true -> 0 <= e -> decimal s (Z.pos m * 2 ^ e) 0 = S754_finite s m e.
Proof.
  intros Hb He. pose proof (Z.pow_pos_nonneg 2 e ltac:(lia) ltac:(lia)). rewrite decimal_pos by nia. cbn [Z.leb Z.compare]. rewrite Z.mul_1_r.
  assert (exists p, Z.pos m * 2 ^ e = Z.pos p) as [p Ep] by (destruct (Z.pos m * 2 ^ e) as [|p|p] eqn:E; [nia|by exists p|nia]).
  assert (binary_normalize kPrec kEmax ((if s then -1 else 1) * (Z.pos m * 2 ^ e)) 0 s = binary_round kPrec kEmax s p 0) as ->
    by (rewrite Ep; by destruct s).
  unfold binary_round. rewrite digits2_log2, <- Ep, Z.log2_mul_pow2 by lia.
  pose proof Hb as [Hc%Z.eqb_eq _]%andb_true_iff. rewrite digits2_log2 in Hc.
  replace (e + Z.log2 (Z.pos m) + 1 + 0) with (Z.log2 (Z.pos m) + 1 + e) by lia. rewrite Hc. unfold shl_align. rewrite Z.sub_0_r.
  assert ((match e with Z.neg d => (Pos.iter xO p d, e) | _ => (p, 0) end) = (p, 0)) as -> by (destruct e; done || lia).
  rewrite <- Ep. pose proof (round_exact s m e e Hb He) as Hr. by rewrite Z.sub_diag in Hr.
Qed.
Lemma log2_ten k : 0 <= k -> Z.log2 (10 ^ k) = Z.log2 (5 ^ k) + k.
Proof.
  intros Hk. change 10 with (5 * 2). rewrite Z.pow_mul_l. rewrite Z.log2_mul_pow2; [lia| |done]. apply Z.pow_pos_nonneg; lia.
Qed.
Lemma decimal_fraction s m e : bounded kPrec kEmax m e = true -> e < 0 ->
  decimal s (Z.pos m * 5 ^ (- e)) (- (- e)) = S754_finite s m e.
Proof.
  intros Hb He. set (k := - e). assert (0 < k) as Hk by lia. pose proof (Z.pow_pos_nonneg 5 k ltac:(lia) ltac:(lia)) as H5.
  rewrite decimal_pos by nia. rewrite (proj2 (Z.leb_gt 0 (- k))) by lia. rewrite Z.opp_involutive.
  unfold SFdiv_core_binary. rewrite !Zdigits2_log2 by (try nia; apply Z.pow_pos_nonneg; lia).
  set (e' := Z.min _ _). assert (e' <= e) as Hle.
  { unfold e'. apply Z.min_le_iff. left. pose proof Hb as [Hc%Z.eqb_eq _]%andb_true_iff. rewrite digits2_log2 in Hc.
    pose proof (Z.log2_mul_above (Z.pos m) (5 ^ k) ltac:(lia) ltac:(lia)) as Ha. rewrite log2_ten by lia. unfold fexp in *. lia. }
  change (0 - 0 - e') with (- e'). assert (exists j, - e' = k + j /\ 0 <= j) as (j & Ej & Hj) by (exists (- e' - k); lia).
  assert ((match - e' with Z.pos _ => Z.shiftl (Z.pos m * 5 ^ k) (- e') | 0 => Z.pos m * 5 ^ k | Z.neg _ => 0 end)
    = Z.pos m * 2 ^ j * 10 ^ k) as ->.
  { replace (match - e' with Z.pos _ => _ | _ => _ end) with (Z.shiftl (Z.pos m * 5 ^ k) (- e')) by (destruct (- e') eqn:E; done || lia).
    rewrite Z.shiftl_mul_pow2, Ej, Z.pow_add_r by lia. change 10 with (5 * 2). rewrite Z.pow_mul_l. lia. }
  pose proof (Z.pow_pos_nonneg 10 k ltac:(lia) ltac:(lia)) as H10.
  assert (Z.div_eucl (Z.pos m * 2 ^ j * 10 ^ k) (10 ^ k) = (Z.pos m * 2 ^ j, 0)) as ->.
  { pose proof (Z.div_mul (Z.pos m * 2 ^ j) (10 ^ k) ltac:(lia)) as Hd. pose proof (Z.mod_mul (Z.pos m * 2 ^ j) (10 ^ k) ltac:(lia)) as Hr.
    unfold Z.div, Z.modulo in Hd, Hr. destruct (Z.div_eucl _ _) as [a b]. by subst. }
  assert (new_location (10 ^ k) 0 = loc_Exact) as -> by (unfold new_location, new_location_even, new_location_odd; by destruct (Z.even _)).
  replace e' with (e - j) by lia. by apply round_exact.
Qed.
Lemma printed_exact s m e : bounded kPrec kEmax m e = true ->
  decimal s (printed_digits m e (exact_places e)) (- Z.of_nat (exact_places e)) = S754_finite s m e.
Proof.
  intros Hb. unfold printed_digits, exact_places. destruct (Z.leb_spec 0 e).
  - rewrite Z.mul_1_r. by apply decimal_integer.
  - rewrite Z2Nat.id by lia. rewrite <- (decimal_fraction s m e Hb) by lia. f_equal. set (k := - e).
    replace (1 - e) with (k + 1) by lia. change 10 with (5 * 2). rewrite Z.pow_mul_l, Z.pow_add_r by lia.
    replace (2 * Z.pos m * (5 ^ k * 2 ^ k) + 2 ^ k) with ((2 * (Z.pos m * 5 ^ k) + 1) * 2 ^ k) by lia.
    rewrite (Z.mul_comm (2 ^ k) (2 ^ 1)), Z.div_mul_cancel_r by (try lia; apply Z.pow_nonzero; lia).
    change (2 ^ 1) with 2. rewrite (Z.mul_comm 2), Z.div_add_l by lia. change (1 / 2) with 0. lia.
Qed.
Lemma SFeqb_finite x s m e : SFeqb x (S754_finite s m e) = true -> x = S754_finite s m e.
Proof.
  destruct x as [s'|s'| |s' m' e']; unfold SFeqb, SFcompare; [by destruct s|by destruct s'|done|].
  destruct s', s; try done; (destruct (Z.compare_spec e' e) as [->| |]; try done);
    change (Pos.compare_cont Eq m' m) with (Pos.compare m' m); destruct (Pos.compare_spec m' m) as [->| |]; done.
Qed.
Lemma SFeqb_refl s m e : SFeqb (S754_finite s m e) (S754_finite s m e) = true.
Proof.
  unfold SFeqb, SFcompare. change (Pos.compare_cont Eq m m) with (Pos.compare m m). rewrite Z.compare_refl, Pos.compare_refl. by destruct s.
Qed.
End rounding.

(** ** The binary64 instance *)
Section binary64_notation.
(** The search ends at the first number of places that reads back. *)
Lemma shortest_reads fuel s m e k : bounded kPrec kEmax m e = true -> (k <= exact_places e < k + fuel)%nat ->
  exists k', (k' <= exact_places e)%nat /\ shortest fuel s m e k = fixed_text s (printed_digits m e k') k'
    /\ decimal s (printed_digits m e k') (- Z.of_nat k') = S754_finite s m e.
Proof.
  intros Hb. revert k. induction fuel as [|fuel IH]; intros k Hk; [lia|]. cbn [shortest]. fold (printed_digits m e k).
  destruct (SFeqb _ _) eqn:E; [exists k; split_and!; [lia|done|by apply SFeqb_finite]|].
  apply IH. assert (k <> exact_places e); [|lia]. intros ->. rewrite printed_exact, SFeqb_refl in E by done. done.
Qed.
Lemma printed_digits_range m e k : bounded kPrec kEmax m e = true -> (k <= exact_places e)%nat ->
  0 <= printed_digits m e k /\ Z.log2 (printed_digits m e k) <= 4400 /\ (k <= 1100)%nat.
Proof.
  intros Hb Hk. apply bounded_range in Hb as [He Hm]. pose proof (Z.log2_spec (Z.pos m) ltac:(lia)) as [_ Hm2].
  assert (Z.pos m < 2 ^ 53) as Hm3 by (eapply Z.lt_le_trans; [exact Hm2|apply Z.pow_le_mono_r; lia]).
  unfold printed_digits, exact_places in *. destruct (Z.leb_spec 0 e).
  - assert (k = 0%nat) as -> by lia. rewrite Z.mul_1_r. pose proof (Z.pow_pos_nonneg 2 e ltac:(lia) ltac:(lia)). split_and!; [nia| |lia].
    rewrite Z.log2_mul_pow2 by lia. lia.
  - assert (0 <= Z.of_nat k <= 1074) as Hk' by lia. pose proof (Z.pow_pos_nonneg 10 (Z.of_nat k) ltac:(lia) ltac:(lia)) as H10.
    pose proof (Z.pow_pos_nonneg 2 (- e) ltac:(lia) ltac:(lia)) as H2. replace (1 - e) with (- e + 1) by lia. rewrite Z.pow_add_r by lia.
    change (2 ^ 1) with 2. set (a := 2 ^ (- e)) in *. set (t := 10 ^ Z.of_nat k) in *.
    assert (0 <= (2 * Z.pos m * t + a) / (a * 2) <= Z.pos m * t) as [Hq0 Hq].
    { split; [apply Z.div_pos; nia|]. apply Z.lt_succ_r, Z.div_lt_upper_bound; nia. }
    split_and!; [done| |lia]. transitivity (Z.log2 (Z.pos m * t)); [by apply Z.log2_le_mono|].
    transitivity (Z.log2 (2 ^ (53 + 4 * Z.of_nat k))); [|rewrite Z.log2_pow2; lia]. apply Z.log2_le_mono.
    rewrite Z.pow_add_r, (Z.pow_mul_r 2 4) by lia. apply Z.mul_le_mono_nonneg; [lia|lia|lia|]. apply Z.pow_le_mono_l. lia.
Qed.
#[export] Instance binary64_notation : FixedNotation (fun v => valid_binary kPrec kEmax v = true).
Proof.
  assert (forall s m e, valid_binary kPrec kEmax (S754_finite s m e) = true -> exists k q,
    sf_to_chars (S754_finite s m e) = fixed_text s q k /\ 0 < q /\ Z.log2 q <= 4400 /\ (k <= 1100)%nat
    /\ decimal s q (- Z.of_nat k) = S754_finite s m e) as Hfinite.
  { intros s m e Hb. cbn [valid_binary] in Hb. pose proof (bounded_range _ _ Hb) as [He _].
    destruct (shortest_reads 1100 s m e 0 Hb) as (k & Hk & Et & Ed).
    { unfold exact_places. destruct (0 <=? e); lia. }
    destruct (printed_digits_range m e k Hb Hk) as (H0 & Hl & Hk'). exists k, (printed_digits m e k). split_and!; try done.
    destruct (Z.eq_dec (printed_digits m e k) 0) as [E|]; [|lia]. by rewrite E in Ed. }
  split; intros [s|s| |s m e] Hb Hf; try discriminate Hf; cbn [to_chars_fixed binary64_numeric] in *.
  - by apply fixed_text_plain.
  - destruct (Hfinite s m e Hb) as (k & q & -> & Hq & _). apply fixed_text_plain. lia.
  - by destruct s.
  - destruct (Hfinite s m e Hb) as (k & q & -> & Hq & Hl & Hk & Hd). apply fixed_text_reads; eauto.
Qed.
End binary64_notation.
