(* ===== verification/CalibrationLayout.v ===== *)
(** * CalibrationLayout: where a map's cells and axes lie in the ROM

    [src/backend/calibration]: [scaling_internal], the layout half of
    [calibration_service] and [map_edit], [definition_bytes.h],
    [definition_interpretation_internal] and [map_placement]. Element runs (a map's
    cells or one axis) as byte addresses in 64-bit arithmetic with overflow checks,
    the packing of raw elements, the resolution of a map's metadata, and the check
    that its runs lie in the memory map. *)
From S2P Require Import Prelude Bytes.
From S2P Require Import MemoryMap.
From S2P Require Import Ports.
From S2P Require Import Expression Numeric.
From S2P Require Import DefinitionModel.

(** ** [scaling_internal.cpp] *)
Definition kU64Max : Z := 18446744073709551615.
Definition i32 (z : Z) : Z := if u32 z <? 2147483648 then u32 z else u32 z - 4294967296.
Definition SignExtend (raw width : Z) : Z :=
  if (width =? 0) || (4 <=? width) then i32 raw
  else
    let sign_bit := Z.shiftl 1 (width * 8 - 1) in
    if Z.land raw sign_bit =? 0 then i32 raw
    else i32 (Z.lor raw (Z.lxor (u32 (Z.shiftl sign_bit 1 - 1)) kU32Max)).
Definition CheckedAdd (lhs rhs : Z) : option Z :=
  if kU64Max - rhs <? lhs then None else Some (u64 (lhs + rhs)).
Definition CheckedMultiply (lhs rhs : Z) : option Z :=
  if negb (rhs =? 0) && (kU64Max / rhs <? lhs) then None else Some (u64 (lhs * rhs)).

(** ** Element runs *)
Definition ElementRunEnd (address start_position interval element_width count : Z) : Z :=
  if count =? 0 then address
  else
    let start_offset := if start_position =? 0 then 0 else start_position - 1 in
    default kU64Max (
      start_bytes ← CheckedMultiply start_offset element_width;
      stride ← CheckedMultiply interval element_width;
      last_offset ← CheckedMultiply (count - 1) stride;
      end_ ← CheckedAdd address start_bytes;
      end_ ← CheckedAdd end_ last_offset;
      CheckedAdd end_ element_width).

(** [DefinitionBytes]: the byte at definition address [db_start + i] is [db_data[i]]. *)
Record DefinitionBytes := { db_data : list Z; db_start : Z }.
Definition At (rom : DefinitionBytes) (address size : Z) : option (list Z) :=
  if address <? db_start rom then None
  else
    let offset := address - db_start rom in
    if (zlen (db_data rom) <? offset) || (zlen (db_data rom) - offset <? size) then None
    else Some (subspan (db_data rom) offset size).

Inductive NumericTarget : Set := kMapBody | kXAxis | kYAxis.
Inductive EditTargetKind : Set := EMapBody | EXAxis | EYAxis | kRejected.
#[global] Instance NumericTarget_eq_dec : EqDecision NumericTarget.
Proof. solve_decision. Defined.
Record SelectionRange := { first_row : Z; first_col : Z; last_row : Z; last_col : Z }.
Record MapDimensions := { d_x_size : Z; d_y_size : Z }.
Record EditTarget := { t_kind : EditTargetKind; t_range : SelectionRange; t_x_size : Z }.
Definition no_range : SelectionRange := {| first_row := 0; first_col := 0; last_row := 0; last_col := 0 |}.
Definition shifted (r : SelectionRange) (rows cols : Z) : SelectionRange :=
  {| first_row := first_row r - rows; first_col := first_col r - cols;
     last_row := last_row r - rows; last_col := last_col r - cols |}.
Definition ResolveEditTarget (selection : SelectionRange) (dims : MapDimensions) (x_scale_type : string) : EditTarget :=
  let is_static_scale := String.eqb x_scale_type "Static Y Axis" || String.eqb x_scale_type "Static X Axis" in
  let rejected := {| t_kind := kRejected; t_range := no_range; t_x_size := d_x_size dims |} in
  if (first_col selection =? 0) && (1 <? d_y_size dims) then
    if is_static_scale then rejected
    else {| t_kind := EYAxis; t_range := shifted selection 1 0; t_x_size := 1 |}
  else if (first_row selection =? 0) && (1 <? d_x_size dims) then
    if is_static_scale then rejected
    else {| t_kind := EXAxis; t_range := shifted selection 0 (if d_y_size dims =? 1 then 0 else 1);
            t_x_size := d_x_size dims |}
  else {| t_kind := EMapBody;
          t_range := shifted selection (if (d_x_size dims =? 1) && negb is_static_scale then 0 else 1)
                                       (if d_y_size dims =? 1 then 0 else 1);
          t_x_size := d_x_size dims |}.

Section layout.
Context `{Numeric}.
Record ElementRun := {
  run_address : Z;
  run_count : Z;
  run_start_position : Z;
  run_interval : Z;
  run_storage_type : option StorageType;
  run_endian : string;
  run_from_byte : string;
  run_is_selectable : bool
}.
Record MapElementSpec := {
  sp_address : Z;
  sp_storage_type : option StorageType;
  sp_endian : string;
  sp_to_byte : string;
  sp_from_byte : string;
  sp_min_value : string;
  sp_max_value : string;
  sp_coarse_increment : double;
  sp_fine_increment : double;
  sp_x_size : Z;
  sp_y_size : Z;
  sp_start_position : Z;
  sp_interval : Z
}.
Definition ElementByteAddress (spec : MapElementSpec) (index : Z) : Z :=
  let width := StorageByteSize (sp_storage_type spec) in
  let start_offset := if sp_start_position spec =? 0 then 0 else sp_start_position spec - 1 in
  default kU64Max (
    start_byte_offset ← CheckedMultiply start_offset width;
    stride ← CheckedMultiply width (sp_interval spec);
    element_offset ← CheckedMultiply index stride;
    address ← CheckedAdd (sp_address spec) start_byte_offset;
    CheckedAdd address element_offset).
Definition WriteRawElement (spec : MapElementSpec) (raw : Z) : list Z :=
  let width := StorageByteSize (sp_storage_type spec) in
  let is_float := bool_decide (sp_storage_type spec = Some kFloat) in
  let packed := u32 raw in
  let little_endian := negb is_float && String.eqb (sp_endian spec) "little" in
  map (fun k => let shift := if little_endian then 8 * k else 8 * (width - 1 - k) in
                u8 (Z.land (Z.shiftr packed shift) 255)) (seqZ 0 width).

(** ** [MapElement] *)
Record MapElement := {
  me_address : option Z;
  me_storage_type : option StorageType;
  me_width : Z;
  me_height : Z;
  me_start_position : Z;
  me_interval : Z;
  me_byte_width : Z;
  me_endian_ : string;
  me_from_byte_ : string;
  me_to_byte_ : string;
  me_min_value_ : string;
  me_max_value_ : string;
  me_coarse_increment_ : double;
  me_fine_increment_ : double;
  me_dimensions_ : MapDimensions;
  me_is_selectable_ : bool
}.
Definition Count (e : MapElement) : Z := u64 (me_width e * me_height e).
Definition IncrementValue (text : string) : double :=
  if forallb Whitespace (chars text) then zero
  else match ParseFiniteNumber (chars text) with Ok value => value | Err _ => quiet_NaN end.
Definition ElementByteWidth (storage_type : option StorageType) (scaling : option Scaling) : Z :=
  match scaling with
  | Some s =>
      match sc_selections s with
      | front :: _ =>
          if bool_decide (storage_type = Some kBloblist) then u32 (zlen (sel_value front))
          else StorageByteSize storage_type
      | [] => StorageByteSize storage_type
      end
  | None => StorageByteSize storage_type
  end.
Definition BodyStorage (map : CalibrationMap) (scaling : option Scaling) : option StorageType :=
  match cm_storage_type map with
  | Some t => Some t
  | None => match scaling with Some s => sc_storage_type s | None => None end
  end.
Definition Run (e : MapElement) : ElementRun :=
  {| run_address := default 0 (me_address e);
     run_count := u32 (Count e);
     run_start_position := me_start_position e;
     run_interval := me_interval e;
     run_storage_type := me_storage_type e;
     run_endian := me_endian_ e;
     run_from_byte := me_from_byte_ e;
     run_is_selectable := me_is_selectable_ e |}.
Definition EditSpec (e : MapElement) : MapElementSpec :=
  {| sp_address := default 0 (me_address e);
     sp_storage_type := me_storage_type e;
     sp_endian := me_endian_ e;
     sp_to_byte := me_to_byte_ e;
     sp_from_byte := me_from_byte_ e;
     sp_min_value := me_min_value_ e;
     sp_max_value := me_max_value_ e;
     sp_coarse_increment := me_coarse_increment_ e;
     sp_fine_increment := me_fine_increment_ e;
     sp_x_size := d_x_size (me_dimensions_ e);
     sp_y_size := d_y_size (me_dimensions_ e);
     sp_start_position := me_start_position e;
     sp_interval := me_interval e |}.
Record BlobPatch := { bp_address : Z; bp_bytes : list Z }.
Inductive BlobMiss : Set := kNotABlob | BUnknownSelection.
Definition ResolveBlobSelection (definition : RomDefinition) (map : CalibrationMap) (selection : string)
    : result Error (BlobPatch + BlobMiss) :=
  let scaling := FindScaling definition (cm_scaling_name map) in
  let storage := BodyStorage map scaling in
  match scaling with
  | None => Ok (inr kNotABlob)
  | Some s =>
      if bool_decide (sc_selections s = []) || negb (bool_decide (storage = Some kBloblist)) then Ok (inr kNotABlob)
      else
        match List.find (fun c => String.eqb (sel_name c) selection) (sc_selections s) with
        | None => Ok (inr BUnknownSelection)
        | Some selected =>
            if negb (zlen (sel_value selected) =? ElementByteWidth storage scaling) then
              Fail kInvalidConfig "selection value width differs from the blob width"
            else Ok (inl {| bp_address := default 0 (cm_address map); bp_bytes := sel_value selected |})
        end
  end.
Definition ResolveMapElement (definition : RomDefinition) (map : CalibrationMap) (target : NumericTarget) : MapElement :=
  let axis := match target with kXAxis => cm_x_axis map | _ => cm_y_axis map end in
  let scaling := match target with
                 | kMapBody => FindScaling definition (cm_scaling_name map)
                 | _ => FindScaling definition (ax_scaling_name axis)
                 end in
  let storage_type := match target with kMapBody => BodyStorage map scaling | _ => ax_storage_type axis end in
  let text (field : Scaling -> string) (absent : string) :=
    match scaling with Some s => field s | None => absent end in
  let body := bool_decide (target = kMapBody) in
  {| me_address := if body then cm_address map else ax_address axis;
     me_storage_type := storage_type;
     me_width := match target with kYAxis => 1 | _ => cm_x_size map end;
     me_height := match target with kXAxis => 1 | _ => cm_y_size map end;
     me_start_position := if body then cm_start_position map else ax_start_position axis;
     me_interval := if body then cm_interval map else ax_interval axis;
     me_byte_width := ElementByteWidth storage_type scaling;
     me_endian_ := if body then (if String.eqb (cm_endian map) "" then text sc_endian "" else cm_endian map)
                   else ax_endian axis;
     me_from_byte_ := if body then text sc_from_byte "x" else ax_from_byte axis;
     me_to_byte_ := if body then text sc_to_byte "x" else ax_to_byte axis;
     me_min_value_ := text sc_minimum "";
     me_max_value_ := text sc_maximum "";
     me_coarse_increment_ := match scaling with Some s => IncrementValue (sc_coarse_increment s) | None => zero end;
     me_fine_increment_ := match scaling with Some s => IncrementValue (sc_fine_increment s) | None => zero end;
     me_dimensions_ := {| d_x_size := cm_x_size map; d_y_size := cm_y_size map |};
     me_is_selectable_ := String.eqb (if body then cm_type map else ax_type axis) "Selectable" |}.

(** ** [map_placement.cpp] *)
Record MapExtent := { x_start : Z; x_end : Z }.
Definition kOutside : string := "outside the ROM's memory map".
Fixpoint slices_problem (w : option Writability) (slices : list BlockSlice) : option string :=
  match slices with
  | [] => None
  | slice :: slices =>
      match block slice with
      | None => Some kOutside
      | Some b =>
          match backing b with
          | FillBacking _ => Some "in a fill block, which holds no ROM file bytes"%string
          | FileBacking _ =>
              match w with
              | Some w => if bool_decide (w <> writability b) then Some "across writable and read-only memory"%string
                          else slices_problem (Some (writability b)) slices
              | None => slices_problem (Some (writability b)) slices
              end
          end
      end
  end.
Definition ProblemWith (start end_ : Z) (memory_map : MemoryMap) : option string :=
  match ToFlashAddress memory_map start with
  | None => Some kOutside
  | Some first =>
      if end_ <=? start then None
      else
        let size := end_ - start in
        match (if kU32Max <? size then None else Make first size) with
        | None => Some kOutside
        | Some range => slices_problem None (Slices memory_map range)
        end
  end.
Definition CheckRun (map_name subject : string) (address : option Z) (count start_position interval width : Z)
    (memory_map : MemoryMap) : result Error (option MapExtent) :=
  match address with
  | None => Ok None
  | Some address =>
      if (count =? 0) || (kU32Max <? count) then Ok None
      else
        let end_ := ElementRunEnd address start_position interval width count in
        match ProblemWith address end_ memory_map with
        | Some problem => Fail kInvalidConfig ("map '" +:+ map_name +:+ "' " +:+ subject +:+ " " +:+ problem)
        | None => Ok (Some {| x_start := address; x_end := end_ |})
        end
  end.
Definition Cover (extent run : option MapExtent) : option MapExtent :=
  match run with
  | None => extent
  | Some r =>
      match extent with
      | Some e => Some {| x_start := Z.min (x_start e) (x_start r); x_end := Z.max (x_end e) (x_end r) |}
      | None => Some r
      end
  end.
Definition CheckMapPlacement (definition : RomDefinition) (map : CalibrationMap) (memory_map : MemoryMap)
    : result Error MapExtent :=
  let body := ResolveMapElement definition map kMapBody in
  let! cells :=
    if bool_decide (me_storage_type body = Some kBloblist) then
      CheckRun (cm_name map) "cells lie" (me_address body) 1 1 1 (me_byte_width body) memory_map
    else
      CheckRun (cm_name map) "cells lie" (me_address body) (Count body) (me_start_position body) (me_interval body)
        (me_byte_width body) memory_map in
  let axis (target : NumericTarget) (subject : string) :=
    let axis := ResolveMapElement definition map target in
    CheckRun (cm_name map) subject (me_address axis) (Count axis) (me_start_position axis) (me_interval axis)
      (me_byte_width axis) memory_map in
  let! x := axis kXAxis "X axis lies" in
  let! y := axis kYAxis "Y axis lies" in
  Ok (default {| x_start := 0; x_end := 0 |} (Cover (Cover cells x) y)).
End layout.
Arguments MapElementSpec {_}.
Arguments MapElement {_}.

(** ** Layout arithmetic: lemmas *)
Lemma CheckedMultiply_spec a b : 0 <= a -> 0 <= b ->
  CheckedMultiply a b = if decide (a * b <= kU64Max) then Some (a * b) else None.
Proof.
  intros Ha Hb. unfold CheckedMultiply, u64, kU64Max. destruct (Z.eqb_spec b 0) as [->|]; cbn [negb andb].
  { rewrite decide_True by lia. f_equal. by rewrite Z.mul_0_r. }
  destruct (Z.ltb_spec (18446744073709551615 / b) a) as [Hlt|Hle].
  - rewrite decide_False; [done|]. apply Z.div_lt_upper_bound in Hlt || idtac.
    intros Hc. assert (a <= 18446744073709551615 / b) by (apply Z.div_le_lower_bound; lia). lia.
  - assert (a * b <= 18446744073709551615).
    { pose proof (Z.mul_div_le 18446744073709551615 b ltac:(lia)). nia. }
    rewrite decide_True by lia. f_equal. apply Z.mod_small. nia.
Qed.
Lemma CheckedAdd_spec a b : 0 <= a -> 0 <= b ->
  CheckedAdd a b = if decide (a + b <= kU64Max) then Some (a + b) else None.
Proof.
  intros Ha Hb. unfold CheckedAdd, u64, kU64Max. destruct (Z.ltb_spec (18446744073709551615 - b) a).
  - by rewrite decide_False by lia.
  - rewrite decide_True by lia. f_equal. apply Z.mod_small. lia.
Qed.
(** The address of element [j] and the end of a run, in exact arithmetic. *)
Definition exact_address (address start_position interval width j : Z) : Z :=
  address + (Z.max 1 start_position - 1) * width + j * (width * interval).
Definition exact_end (address start_position interval width count : Z) : Z :=
  if count =? 0 then address else exact_address address start_position interval width (count - 1) + width.
Lemma start_offset_eq p : 0 <= p -> (if p =? 0 then 0 else p - 1) = Z.max 1 p - 1.
Proof. intros. destruct (Z.eqb_spec p 0); lia. Qed.
Lemma u32_product a b : u32_ok a -> u32_ok b -> 0 <= a * b <= kU64Max.
Proof. unfold u32_ok, kU64Max. nia. Qed.
Lemma ElementRunEnd_exact address start_position interval width count :
  0 <= address <= kU64Max -> u32_ok start_position -> u32_ok interval -> u32_ok width -> u32_ok count ->
  ElementRunEnd address start_position interval width count
  = Z.min (exact_end address start_position interval width count) kU64Max.
Proof.
  intros Ha Hs Hi Hw Hc. unfold ElementRunEnd, exact_end, exact_address.
  destruct (Z.eqb_spec count 0) as [->|Hn]; [lia|]. rewrite start_offset_eq by (unfold u32_ok in Hs; lia).
  assert (u32_ok (Z.max 1 start_position - 1)) as Ho by (unfold u32_ok in *; lia).
  set (o := Z.max 1 start_position - 1) in *. pose proof (u32_product _ _ Ho Hw). pose proof (u32_product _ _ Hi Hw).
  rewrite (Z.mul_comm width interval). set (S := interval * width) in *. set (B := o * width) in *. cbv zeta.
  assert (0 <= count - 1) by (unfold u32_ok in Hc; lia). assert (0 <= (count - 1) * S) by nia.
  rewrite !CheckedMultiply_spec by (unfold u32_ok in *; lia). rewrite !decide_True by lia. cbn [mbind option_bind].
  rewrite CheckedMultiply_spec by lia. set (L := (count - 1) * S) in *. unfold u32_ok in Hw.
  case_decide; cbn [mbind option_bind default from_option]; [|lia].
  repeat (rewrite CheckedAdd_spec by lia; case_decide; cbn [mbind option_bind default from_option]; [|lia]).
  unfold id. lia.
Qed.
Lemma ElementByteAddress_exact `{Numeric} spec index :
  0 <= sp_address spec <= kU64Max -> u32_ok (sp_start_position spec) -> u32_ok (sp_interval spec) -> u32_ok index ->
  ElementByteAddress spec index
  = Z.min (exact_address (sp_address spec) (sp_start_position spec) (sp_interval spec)
             (StorageByteSize (sp_storage_type spec)) index) kU64Max.
Proof.
  intros Ha Hs Hi Hc. unfold ElementByteAddress, exact_address. rewrite start_offset_eq by (unfold u32_ok in Hs; lia).
  pose proof (StorageByteSize_range (sp_storage_type spec)). set (w := StorageByteSize _) in *.
  assert (u32_ok w) as Hw by (unfold u32_ok; lia).
  assert (u32_ok (Z.max 1 (sp_start_position spec) - 1)) as Ho by (unfold u32_ok in *; lia).
  set (o := Z.max 1 (sp_start_position spec) - 1) in *. pose proof (u32_product _ _ Ho Hw). pose proof (u32_product _ _ Hw Hi).
  set (S := w * sp_interval spec) in *. set (B := o * w) in *. cbv zeta. assert (0 <= index * S) by (unfold u32_ok in Hc; nia).
  rewrite !CheckedMultiply_spec by (unfold u32_ok in *; lia). fold B S. rewrite !decide_True by lia. cbn [mbind option_bind].
  rewrite CheckedMultiply_spec by (unfold u32_ok in *; lia). set (L := index * S) in *.
  case_decide; cbn [mbind option_bind default from_option]; [|lia].
  repeat (rewrite CheckedAdd_spec by lia; case_decide; cbn [mbind option_bind default from_option]; [|lia]).
  unfold id. lia.
Qed.
(** An element of a run lies between the run's start and its end, and elements of
    different indices share no byte. *)
Lemma exact_element_inside a p i w c j :
  0 <= w -> 0 <= i -> 0 <= j < c ->
  a <= exact_address a p i w j /\ exact_address a p i w j + w <= exact_end a p i w c.
Proof.
  intros. unfold exact_end, exact_address. rewrite (proj2 (Z.eqb_neq c 0)) by lia.
  assert (j * (w * i) <= (c - 1) * (w * i)) by nia. nia.
Qed.
Lemma exact_elements_disjoint a p i w j k :
  0 <= w -> 1 <= i -> j < k -> exact_address a p i w j + w <= exact_address a p i w k.
Proof. intros. unfold exact_address. assert (w <= w * i) by nia. nia. Qed.

(** ** Raw elements: lemmas *)
Section raw.
Context `{Numeric}.
Lemma u8_land_255 x : u8 (Z.land x 255) = u8 x.
Proof. rewrite land_255. unfold u8. by rewrite Z.mod_mod by lia. Qed.
(** Whether elements of this storage type and byte order are read little-endian. *)
Definition little (t : option StorageType) (endian : string) : bool :=
  negb (bool_decide (t = Some kFloat)) && String.eqb endian "little".
Lemma lanes_le n o p : 0 <= o ->
  map (fun k => u8 (Z.land (Z.shiftr p (8 * k)) 255)) (seqZ o (Z.of_nat n)) = le_bytes n (p / 2 ^ (8 * o)).
Proof.
  revert o. induction n as [|n IH]; intros o Ho; [done|]. rewrite seqZ_cons, Nat2Z.inj_succ, Z.pred_succ by lia.
  cbn [map le_bytes]. rewrite u8_land_255, shiftr_div, IH by lia. f_equal. f_equal.
  rewrite Z.div_div by lia. f_equal. change 256 with (2 ^ 8). rewrite <- Z.pow_add_r by lia. f_equal. lia.
Qed.
Lemma lanes_be n p :
  map (fun k => u8 (Z.land (Z.shiftr p (8 * (Z.of_nat n - 1 - k))) 255)) (seqZ 0 (Z.of_nat n)) = EmitIntegerBe n p.
Proof.
  induction n as [|n IH]; [done|]. rewrite seqZ_cons, Nat2Z.inj_succ, Z.pred_succ by lia. cbn [map EmitIntegerBe].
  rewrite u8_land_255. f_equal; [do 2 f_equal; lia|]. rewrite <- IH. change (Z.succ 0) with (1 + 0).
  rewrite <- (fmap_add_seqZ 1 0). change (Z.add 1 <$> ?l) with (map (Z.add 1) l). rewrite map_map. apply map_ext. intros k. do 4 f_equal. lia.
Qed.
Lemma WriteRawElement_bytes spec raw :
  WriteRawElement spec raw =
    let n := Z.to_nat (StorageByteSize (sp_storage_type spec)) in
    if little (sp_storage_type spec) (sp_endian spec) then le_bytes n (u32 raw) else EmitIntegerBe n (u32 raw).
Proof.
  unfold WriteRawElement, little. generalize (u32 raw) as p. intros p.
  pose proof (StorageByteSize_range (sp_storage_type spec)) as Hw. set (w := StorageByteSize _) in *. cbv zeta.
  generalize (Z2Nat.id w). generalize (Z.to_nat w) as n. intros n Hn. specialize (Hn ltac:(lia)). subst w.
  rewrite <- Hn. destruct (negb _ && _).
  - rewrite lanes_le by lia. f_equal. apply Z.div_1_r.
  - apply lanes_be.
Qed.
Lemma zlen_WriteRawElement spec raw : zlen (WriteRawElement spec raw) = StorageByteSize (sp_storage_type spec).
Proof.
  rewrite WriteRawElement_bytes. pose proof (StorageByteSize_range (sp_storage_type spec)). cbv zeta.
  destruct (little _ _); rewrite ?zlen_le_bytes, ?zlen_EmitIntegerBe; lia.
Qed.
Lemma bytes_ok_WriteRawElement spec raw : bytes_ok (WriteRawElement spec raw).
Proof.
  rewrite WriteRawElement_bytes. cbv zeta.
  destruct (little _ _); [apply bytes_ok_le_bytes|apply bytes_ok_EmitIntegerBe].
Qed.
(** The decoder's reading of one element's bytes. *)
Definition read_element (little_endian : bool) (bytes : list Z) (offset width : Z) : Z :=
  if little_endian then ReadULe bytes offset width else ReadUBe bytes offset width.
Lemma WriteRawElement_reads spec raw :
  let w := StorageByteSize (sp_storage_type spec) in
  read_element (little (sp_storage_type spec) (sp_endian spec)) (WriteRawElement spec raw) 0 w = raw mod 2 ^ (8 * w).
Proof.
  cbv zeta. pose proof (StorageByteSize_range (sp_storage_type spec)) as Hw.
  assert (forall w, 1 <= w <= 4 -> u32 raw mod 2 ^ (8 * w) = raw mod 2 ^ (8 * w)) as Hm.
  { intros w Hr. assert (w = 1 \/ w = 2 \/ w = 3 \/ w = 4) as [-> | [-> | [-> | ->]]] by lia; cbn -[Z.modulo]; zmod. }
  unfold read_element. pose proof (bytes_ok_WriteRawElement spec raw) as Hb. pose proof (zlen_WriteRawElement spec raw) as Hl.
  rewrite WriteRawElement_bytes in *. cbv zeta in *. destruct (little _ _).
  - rewrite ReadULe_val by (done || lia). rewrite subspan_full by lia. rewrite le_value_bytes, Z2Nat.id by lia.
    rewrite <- Hm by lia. f_equal. rewrite Z.pow_mul_r by lia. done.
  - rewrite <- Hm by lia. rewrite <- (Z2Nat.id (StorageByteSize _)) at 2 3 by lia.
    apply ReadUBe_EmitIntegerBe. lia.
Qed.
End raw.
Lemma land_pow2_zero raw k : 0 <= k -> 0 <= raw < 2 ^ (k + 1) -> (Z.land raw (Z.shiftl 1 k) =? 0) = (raw <? 2 ^ k).
Proof.
  intros Hk Hr. rewrite Z.shiftl_1_l. rewrite Z.pow_add_r in Hr by lia.
  assert (Z.land raw (2 ^ k) = if Z.testbit raw k then 2 ^ k else 0) as ->.
  { apply Z.bits_inj'. intros n Hn. rewrite Z.land_spec, Z.pow2_bits_eqb by lia. destruct (Z.eqb_spec k n) as [->|].
    - rewrite andb_true_r. destruct (Z.testbit raw n); [by rewrite Z.pow2_bits_true by lia|by rewrite Z.bits_0].
    - rewrite andb_false_r. destruct (Z.testbit raw k); [by rewrite Z.pow2_bits_false by lia|by rewrite Z.bits_0]. }
  rewrite Z.testbit_odd, shiftr_div by lia. destruct (Z.ltb_spec raw (2 ^ k)).
  - by rewrite Z.div_small by lia.
  - rewrite <- (Z.div_unique raw (2 ^ k) 1 (raw - 2 ^ k)) by lia. apply Z.eqb_neq. cbn. lia.
Qed.
Lemma i32_low x : 0 <= x < 2147483648 -> i32 x = x.
Proof. intros. unfold i32. rewrite u32_small by (unfold u32_ok; lia). by rewrite (proj2 (Z.ltb_lt _ _)) by lia. Qed.
Lemma i32_high x : 2147483648 <= x < 4294967296 -> i32 x = x - 4294967296.
Proof. intros. unfold i32. rewrite u32_small by (unfold u32_ok; lia). by rewrite (proj2 (Z.ltb_ge _ _)) by lia. Qed.
Lemma SignExtend_spec raw w :
  1 <= w <= 4 -> 0 <= raw < 2 ^ (8 * w) ->
  SignExtend raw w = if raw <? 2 ^ (8 * w - 1) then raw else raw - 2 ^ (8 * w).
Proof.
  intros Hw Hr. unfold SignExtend.
  assert (forall mask k, raw < 2 ^ k -> 0 <= k -> Z.lor raw (Z.shiftl mask k) = mask * 2 ^ k + raw) as Hor
    by (intros mask k Hlt Hk; by rewrite Z.lor_comm, lor_shiftl_add by lia).
  assert (w = 4 \/ w = 1 \/ w = 2 \/ w = 3) as [-> | Hc] by lia.
  { cbn [Z.eqb Z.leb Z.compare Pos.compare orb]. destruct (Z.ltb_spec raw (2 ^ (8 * 4 - 1))).
    - apply i32_low. lia.
    - apply i32_high. lia. }
  rewrite (proj2 (Z.eqb_neq w 0)), (proj2 (Z.leb_gt 4 w)) by lia. cbn [orb]. cbv zeta.
  replace (w * 8 - 1) with (8 * w - 1) by lia. rewrite land_pow2_zero by (rewrite ?Z.sub_add; lia).
  destruct Hc as [-> | [-> | ->]];
    [change (Z.lxor _ _) with (Z.shiftl 16777215 8); rewrite (Hor 16777215 8) by lia
    |change (Z.lxor _ _) with (Z.shiftl 65535 16); rewrite (Hor 65535 16) by lia
    |change (Z.lxor _ _) with (Z.shiftl 255 24); rewrite (Hor 255 24) by lia];
    (case Z.ltb_spec; intros; [apply i32_low; lia|rewrite i32_high by lia; lia]).
Qed.

(** ** Placement: lemmas *)
Section placement.
Context (m : MemoryMap) (Hm : map_ok m) (Hbase : 0 <= definition_base_ m).
(** The definition addresses [[start, end)] lie in file-backed blocks of one
    writability. *)
Definition placed (start end_ : Z) : Prop :=
  definition_base_ m + start <= kU32Max
  /\ exists w, forall a, start <= a < end_ ->
       exists b o, BlockAt m (definition_base_ m + a) = Some b /\ backing b = FileBacking o /\ writability b = w.
Definition slice_placed (w : Writability) (s : BlockSlice) : Prop :=
  exists b o, block s = Some b /\ backing b = FileBacking o /\ writability b = w.
Lemma slices_problem_some w ss : slices_problem (Some w) ss = None <-> Forall (slice_placed w) ss.
Proof.
  induction ss as [|s ss IH]; cbn; [split; [constructor|done]|]. rewrite Forall_cons, <- IH. unfold slice_placed.
  destruct (block s) as [b|]; [|split; [done|by intros [(? & ? & ? & _) _]]].
  destruct (backing b) as [o|v] eqn:Eb; [|split; [done|intros [(? & ? & [= <-] & ? & _) _]; congruence]].
  case_bool_decide as Hw.
  - split; [done|]. intros [(? & ? & [= <-] & _ & ?) _]. congruence.
  - rewrite <- Hw. split; [intros; split; [by exists b, o|done]|tauto].
Qed.
Lemma slices_problem_none ss : slices_problem None ss = None <-> exists w, Forall (slice_placed w) ss.
Proof.
  destruct ss as [|s ss]; cbn; [split; [by exists kWritable; constructor|done]|].
  destruct (block s) as [b|] eqn:Es; [|split; [done|intros (w & [(? & ? & ? & _) _]%Forall_cons_1); congruence]].
  destruct (backing b) as [o|v] eqn:Eb.
  - rewrite slices_problem_some. split; [intros; exists (writability b); constructor; [by exists b, o|done]|].
    intros (w & [(? & ? & ? & _ & <-) HF]%Forall_cons_1). by congruence.
  - split; [done|]. intros (w & [(? & ? & ? & ? & _) _]%Forall_cons_1). congruence.
Qed.
Lemma slices_placed r : range_ok r ->
  slices_problem None (Slices m r) = None <->
  exists w, forall a, Start r <= a < End r ->
    exists b o, BlockAt m a = Some b /\ backing b = FileBacking o /\ writability b = w.
Proof.
  intros Hr. rewrite slices_problem_none. destruct (Slices_spec m r (map_ok_sorted m Hm) Hr) as [T _].
  split; intros [w Hw]; exists w.
  - intros a Ha. assert (exists s, s ∈ Slices m r /\ Start (slice_range s) <= a < End (slice_range s)) as (s & Hs & Hin).
    { clear Hw. revert T Ha. generalize (Start r) as c. induction (Slices m r) as [|s ss IH]; intros c T Ha; cbn in T; [lia|].
      destruct T as (E & _ & T). destruct (decide (a < End (slice_range s))); [exists s; split; [set_solver|lia]|].
      destruct (IH _ T ltac:(lia)) as (s' & ? & ?). exists s'. split; [set_solver|done]. }
    rewrite Forall_forall in Hw. rewrite (Slices_BlockAt m r s a (map_ok_sorted m Hm) Hr Hs Hin). apply (Hw s Hs).
  - apply Forall_forall. intros s Hs. pose proof (tiles_bounds _ _ _ _ T Hs). pose proof (tiles_range_ok _ _ _ _ T Hs) as Rs.
    unfold range_ok in Rs. destruct (Hw (Start (slice_range s)) ltac:(lia)) as (b & o & E & ? & ?). exists b, o. split; [|done].
    rewrite <- E. symmetry. apply (Slices_BlockAt m r s); [by apply map_ok_sorted|done|done|lia].
Qed.
Lemma BlockAt_bound a b : BlockAt m a = Some b -> a < kU32Max.
Proof.
  intros E. pose proof (BlockAt_holds m a (map_ok_sorted m Hm)) as Hh. rewrite E in Hh. destruct Hh as [Hin Hh].
  pose proof (sorted_blocks_elem _ _ (map_ok_sorted m Hm) Hin) as [Hr _]. unfold range_ok, holds in *. lia.
Qed.
Lemma ProblemWith_iff start end_ : 0 <= start -> ProblemWith start end_ m = None <-> placed start end_.
Proof.
  intros Hs. unfold ProblemWith, ToFlashAddress, Advance, placed.
  destruct (Z.ltb_spec (kU32Max - definition_base_ m) start) as [Hlt|Hle]; [split; [done|lia]|].
  destruct (Z.leb_spec end_ start) as [He|He]; [split; [intros; split; [lia|exists kWritable; lia]|done]|].
  set (base := definition_base_ m) in *.
  assert (forall w, (forall a, start <= a < end_ -> exists b o, BlockAt m (base + a) = Some b
            /\ backing b = FileBacking o /\ writability b = w) -> base + end_ <= kU32Max) as Hend.
  { intros w Hw. destruct (Hw (end_ - 1) ltac:(lia)) as (b & o & E & _). apply BlockAt_bound in E. lia. }
  assert (0 <= base + start) by (subst base; lia).
  destruct (Z.ltb_spec kU32Max (end_ - start)) as [Hbig|Hsm].
  { split; [done|]. intros (_ & w & Hw). apply Hend in Hw. lia. }
  rewrite Make_spec by lia. case_decide as Hc; [|split; [done|]; intros (_ & w & Hw); apply Hend in Hw; lia].
  rewrite slices_placed by (unfold range_ok; cbn; lia). cbn [Start End]. split.
  - intros (w & Hw). split; [lia|]. exists w. intros a Ha. apply Hw. lia.
  - intros (_ & w & Hw). exists w. intros a Ha. replace a with (base + (a - base)) by lia. apply Hw. lia.
Qed.
End placement.

(** ** A map's runs *)
Section runs.
Context `{Numeric}.
Definition axis_wf (a : AxisDefinition) : Prop :=
  u32_ok (ax_start_position a) /\ u32_ok (ax_interval a) /\ (forall x, ax_address a = Some x -> u32_ok x).
(** The map's numbers are 32-bit values, as the source's types say. *)
Definition map_wf (m : CalibrationMap) : Prop :=
  u32_ok (cm_x_size m) /\ u32_ok (cm_y_size m) /\ u32_ok (cm_start_position m) /\ u32_ok (cm_interval m)
  /\ (forall x, cm_address m = Some x -> u32_ok x) /\ axis_wf (cm_x_axis m) /\ axis_wf (cm_y_axis m).
Definition element_wf (e : MapElement) : Prop :=
  u32_ok (me_width e) /\ u32_ok (me_height e) /\ u32_ok (me_start_position e) /\ u32_ok (me_interval e)
  /\ u32_ok (me_byte_width e) /\ (forall x, me_address e = Some x -> u32_ok x).
Lemma ElementByteWidth_range t s : u32_ok (ElementByteWidth t s).
Proof.
  pose proof (StorageByteSize_range t). unfold ElementByteWidth.
  repeat case_match; try (apply u32_range); unfold u32_ok; lia.
Qed.
Lemma ResolveMapElement_wf d m t : map_wf m -> element_wf (ResolveMapElement d m t).
Proof.
  intros (? & ? & ? & ? & ? & (? & ? & ?) & (? & ? & ?)). unfold element_wf.
  assert (u32_ok 1) by (unfold u32_ok; lia).
  destruct t; cbn; split_and!; auto using ElementByteWidth_range.
Qed.
(** The addresses an element run touches, in exact arithmetic up to the end of the
    64-bit range; nothing for a run without an address or with bad dimensions. *)
Definition element_extent (e : MapElement) : option MapExtent :=
  a ← me_address e;
  let count := me_width e * me_height e in
  if (count =? 0) || (kU32Max <? count) then None
  else Some {| x_start := a;
               x_end := Z.min (exact_end a (me_start_position e) (me_interval e) (me_byte_width e) count) kU64Max |}.
Definition body_extent (e : MapElement) : option MapExtent :=
  if bool_decide (me_storage_type e = Some kBloblist) then
    a ← me_address e; Some {| x_start := a; x_end := a + me_byte_width e |}
  else element_extent e.
Definition map_extents (d : RomDefinition) (m : CalibrationMap) : list MapExtent :=
  option_list (body_extent (ResolveMapElement d m kMapBody))
  ++ option_list (element_extent (ResolveMapElement d m kXAxis))
  ++ option_list (element_extent (ResolveMapElement d m kYAxis)).
Definition extent_placed (mm : MemoryMap) (x : MapExtent) : Prop := placed mm (x_start x) (x_end x).
(** What a run check answers: the run, or an error when it is not placed. *)
Definition checks (mm : MemoryMap) (r : result Error (option MapExtent)) (x : option MapExtent) : Prop :=
  (r = Ok x /\ Forall (extent_placed mm) (option_list x))
  \/ exists t, r = Fail kInvalidConfig t /\ ~ Forall (extent_placed mm) (option_list x).
Lemma CheckRun_checks name subject a count p i w mm :
  map_ok mm -> 0 <= definition_base_ mm -> (forall x, a = Some x -> u32_ok x) -> 0 <= count ->
  u32_ok p -> u32_ok i -> u32_ok w ->
  checks mm (CheckRun name subject a count p i w mm)
    (a ← a; if (count =? 0) || (kU32Max <? count) then None
            else Some {| x_start := a; x_end := Z.min (exact_end a p i w count) kU64Max |}).
Proof.
  intros Hm Hb Ha Hc Hp Hi Hw. unfold CheckRun. destruct a as [a|]; [|left; by split; [|constructor]].
  specialize (Ha a eq_refl). cbn [mbind option_bind].
  destruct ((count =? 0) || (kU32Max <? count)) eqn:E; [left; by split; [|constructor]|]. apply orb_false_iff in E as [?%Z.eqb_neq ?%Z.ltb_ge].
  unfold u32_ok, kU32Max in *. rewrite ElementRunEnd_exact by (unfold u32_ok, kU64Max; lia). set (end_ := Z.min _ _).
  pose proof (ProblemWith_iff mm Hm Hb a end_ ltac:(lia)) as Hiff. destruct (ProblemWith a end_ mm) as [problem|].
  - right. eexists. split; [done|]. change (option_list (Some ?x)) with [x]. rewrite Forall_singleton. intros Hpl. by apply Hiff in Hpl.
  - left. split; [done|]. change (option_list (Some ?x)) with [x]. by apply Forall_singleton, Hiff.
Qed.
Lemma Count_exact e : element_wf e -> Count e = me_width e * me_height e.
Proof.
  intros (Hw & Hh & _). pose proof (u32_product _ _ Hw Hh). unfold Count, u64. apply Z.mod_small.
  unfold kU64Max in *. lia.
Qed.
Lemma element_checks name subject e mm :
  map_ok mm -> 0 <= definition_base_ mm -> element_wf e ->
  checks mm (CheckRun name subject (me_address e) (Count e) (me_start_position e) (me_interval e) (me_byte_width e) mm)
    (element_extent e).
Proof.
  intros Hm Hb He. rewrite (Count_exact e He). destruct He as (Hw & Hh & ? & ? & ? & ?).
  apply CheckRun_checks; try done. unfold u32_ok in *. nia.
Qed.
Lemma body_checks name e mm :
  map_ok mm -> 0 <= definition_base_ mm -> element_wf e ->
  checks mm (if bool_decide (me_storage_type e = Some kBloblist)
             then CheckRun name "cells lie" (me_address e) 1 1 1 (me_byte_width e) mm
             else CheckRun name "cells lie" (me_address e) (Count e) (me_start_position e) (me_interval e)
                    (me_byte_width e) mm) (body_extent e).
Proof.
  intros Hm Hb He. unfold body_extent. case_bool_decide; [|by apply element_checks].
  destruct He as (_ & _ & _ & _ & Hw & Ha).
  pose proof (CheckRun_checks name "cells lie" (me_address e) 1 1 1 (me_byte_width e) mm Hm Hb Ha) as Hc.
  destruct (me_address e) as [a|]; cbn [mbind option_bind] in *; [|apply Hc; unfold u32_ok; (done || lia)].
  assert (exact_end a 1 1 (me_byte_width e) 1 = a + me_byte_width e) as E by (unfold exact_end, exact_address; cbn; lia).
  specialize (Ha a eq_refl). change ((1 =? 0) || (kU32Max <? 1)) with false in Hc. cbv iota in Hc.
  rewrite E, Z.min_l in Hc by (unfold u32_ok, kU64Max in *; lia). apply Hc; unfold u32_ok in *; lia.
Qed.
(** The hull of the runs found so far. *)
Definition hull (e : option MapExtent) (rs : list MapExtent) : Prop :=
  match e with
  | None => rs = []
  | Some e => Forall (fun r => x_start e <= x_start r /\ x_end r <= x_end e) rs
              /\ (exists r, r ∈ rs /\ x_start r = x_start e) /\ (exists r, r ∈ rs /\ x_end r = x_end e)
  end.
Lemma hull_Cover e rs r : hull e rs -> hull (Cover e r) (rs ++ option_list r).
Proof.
  destruct r as [r|]; change (option_list (Some ?x)) with [x]; cbn [Cover]; [|by rewrite app_nil_r]. destruct e as [e|]; cbn [hull].
  - intros (HF & (r1 & H1 & E1) & (r2 & H2 & E2)). cbn [x_start x_end]. split_and!.
    + apply Forall_app. split; [|repeat constructor; lia]. eapply Forall_impl; [exact HF|]. cbn. lia.
    + destruct (decide (x_start e <= x_start r)); [exists r1|exists r]; (split; [set_solver|lia]).
    + destruct (decide (x_end r <= x_end e)); [exists r2|exists r]; (split; [set_solver|lia]).
  - intros ->. cbn. split_and!; [repeat constructor; lia|exists r..]; (split; [set_solver|done]).
Qed.

Lemma CheckMapPlacement_spec d m mm :
  map_wf m -> map_ok mm -> 0 <= definition_base_ mm ->
  match CheckMapPlacement d m mm with
  | Ok x => Forall (extent_placed mm) (map_extents d m)
            /\ (hull (Some x) (map_extents d m) \/ map_extents d m = [] /\ x = {| x_start := 0; x_end := 0 |})
  | Err e => ~ Forall (extent_placed mm) (map_extents d m) /\ kind e = kInvalidConfig
  end.
Proof.
  intros Hw Hm Hb. unfold CheckMapPlacement, map_extents. cbv zeta.
  destruct (body_checks (cm_name m) _ mm Hm Hb (ResolveMapElement_wf d m kMapBody Hw)) as [[-> Pb]|(t & -> & Hn)];
    cbn [result_bind]; [|unfold Fail; cbn [result_bind kind]; rewrite !Forall_app; tauto].
  destruct (element_checks (cm_name m) "X axis lies" _ mm Hm Hb (ResolveMapElement_wf d m kXAxis Hw))
    as [[-> Px]|(t & -> & Hn)]; cbn [result_bind]; [|unfold Fail; cbn [result_bind kind]; rewrite !Forall_app; tauto].
  destruct (element_checks (cm_name m) "Y axis lies" _ mm Hm Hb (ResolveMapElement_wf d m kYAxis Hw))
    as [[-> Py]|(t & -> & Hn)]; cbn [result_bind]; [|unfold Fail; cbn [result_bind kind]; rewrite !Forall_app; tauto].
  split; [by rewrite !Forall_app|]. set (b := body_extent _). set (x := element_extent _). set (y := element_extent _).
  assert (hull (Cover (Cover b x) y) (option_list b ++ option_list x ++ option_list y)) as Hh.
  { rewrite app_assoc. do 2 apply hull_Cover. pose proof (hull_Cover None [] b eq_refl) as Hb'. by destruct b. }
  destruct (Cover (Cover b x) y); [by left|by right].
Qed.
(** Every run is an interval of addresses from 0 up. *)
Lemma element_extent_ordered e x : element_wf e -> element_extent e = Some x -> 0 <= x_start x <= x_end x.
Proof.
  intros (Hw & Hh & Hp & Hi & Hb & Ha). unfold element_extent. destruct (me_address e) as [a|]; [|done]. cbn.
  specialize (Ha a eq_refl). destruct (_ || _) eqn:E; [done|]. intros [= <-]. cbn [x_start x_end].
  apply orb_false_iff in E as [E _]. unfold u32_ok, kU64Max, exact_end, exact_address in *. rewrite E.
  apply Z.eqb_neq in E.
  assert (0 <= (me_width e * me_height e - 1) * (me_byte_width e * me_interval e)) by (apply Z.mul_nonneg_nonneg; nia).
  assert (0 <= (1 `max` me_start_position e - 1) * me_byte_width e) by nia. lia.
Qed.
Lemma map_extents_ordered d m x : map_wf m -> x ∈ map_extents d m -> 0 <= x_start x <= x_end x.
Proof.
  intros Hw. unfold map_extents. rewrite !elem_of_app. pose proof (fun t => ResolveMapElement_wf d m t Hw) as Hwf.
  assert (forall o (y : MapExtent), y ∈ option_list o -> o = Some y) as Hol by (intros [z|] y Hy; set_solver).
  intros [Hx%Hol | [Hx%Hol | Hx%Hol]]; [|by apply element_extent_ordered in Hx..].
  unfold body_extent in Hx. case_bool_decide; [|by apply element_extent_ordered in Hx].
  destruct (Hwf kMapBody) as (_ & _ & _ & _ & Hb & Ha). destruct (me_address _) as [a|]; [|done]. injection Hx as <-.
  specialize (Ha a eq_refl). cbn in Hb. unfold u32_ok in *. cbn [x_start x_end]. lia.
Qed.

(** C29: A map passes the placement check exactly when each of its addressed runs (its
    cells, or its blob, and its two axes) lies byte for byte in file-backed memory
    blocks of one writability, the runs' ends computed in exact arithmetic; the extent
    returned is the hull of those runs, empty when there is none, and a rejected map
    is an [InvalidConfig] error. *)
Theorem CheckMapPlacement_iff d m mm :
  map_wf m -> map_ok mm -> 0 <= definition_base_ mm ->
  match CheckMapPlacement d m mm with
  | Ok x => Forall (extent_placed mm) (map_extents d m)
            /\ (hull (Some x) (map_extents d m) \/ map_extents d m = [] /\ x = {| x_start := 0; x_end := 0 |})
  | Err e => ~ Forall (extent_placed mm) (map_extents d m) /\ kind e = kInvalidConfig
  end.
Proof. apply CheckMapPlacement_spec. Qed.

(** C36: The byte layout of an element run. Element [j] starts at its address plus the
    start position's offset plus [j] strides, or, when that number is not a 64-bit one, at
    the sentinel [UINT64_MAX]; the end [ElementRunEnd] returns is the end of the last
    element in the same way: the exact end, or the sentinel when that does not fit. So
    each of the two is a sentinel by its own value alone. While the end is below the
    sentinel every element lies between the run's address and the end, the last one
    reaches it, and, with a positive interval, two elements share no byte. *)
Theorem element_run_layout spec count :
  let w := StorageByteSize (sp_storage_type spec) in
  let end_ := ElementRunEnd (sp_address spec) (sp_start_position spec) (sp_interval spec) w count in
  let start j := sp_address spec + (Z.max 1 (sp_start_position spec) - 1) * w + j * (w * sp_interval spec) in
  0 <= sp_address spec <= kU64Max -> u32_ok (sp_start_position spec) -> u32_ok (sp_interval spec) -> u32_ok count ->
  0 < count ->
  (forall j, 0 <= j < count -> ElementByteAddress spec j = Z.min (start j) kU64Max)
  /\ end_ = Z.min (start (count - 1) + w) kU64Max
  /\ (end_ < kU64Max ->
     (forall j, 0 <= j < count ->
        ElementByteAddress spec j = start j
        /\ sp_address spec <= ElementByteAddress spec j /\ ElementByteAddress spec j + w <= end_)
     /\ ElementByteAddress spec (count - 1) + w = end_
     /\ (0 < sp_interval spec -> forall j k, 0 <= j < k -> k < count ->
           ElementByteAddress spec j + w <= ElementByteAddress spec k)).
Proof.
  cbv zeta. intros Ha Hp Hi Hc Hpos. pose proof (StorageByteSize_range (sp_storage_type spec)) as Hw.
  set (w := StorageByteSize _) in *.
  rewrite ElementRunEnd_exact by (done || unfold u32_ok; lia).
  assert (forall j, 0 <= j < count -> ElementByteAddress spec j
    = Z.min (exact_address (sp_address spec) (sp_start_position spec) (sp_interval spec) w j) kU64Max) as Hb
    by (intros; apply ElementByteAddress_exact; unfold u32_ok in *; (done || lia)).
  assert (forall j, 0 <= j < count -> sp_address spec <= exact_address (sp_address spec) (sp_start_position spec) (sp_interval spec) w j
    /\ exact_address (sp_address spec) (sp_start_position spec) (sp_interval spec) w j + w
       <= exact_end (sp_address spec) (sp_start_position spec) (sp_interval spec) w count) as Hin
    by (intros; apply exact_element_inside; unfold u32_ok in *; lia).
  split; [exact Hb|]. split.
  { unfold exact_end. rewrite (proj2 (Z.eqb_neq count 0)) by lia. unfold exact_address. done. }
  intros Hend. assert (forall j, 0 <= j < count -> ElementByteAddress spec j
    = exact_address (sp_address spec) (sp_start_position spec) (sp_interval spec) w j) as Hx.
  { intros j Hj. rewrite (Hb j Hj). specialize (Hin j Hj). lia. }
  split_and!.
  - intros j Hj. rewrite (Hx j Hj). specialize (Hin j Hj). split; [done|lia].
  - rewrite Hx by lia. unfold exact_end in *. rewrite (proj2 (Z.eqb_neq count 0)) in * by lia. lia.
  - intros Hi1 j k Hj Hk. rewrite !Hx by lia. apply exact_elements_disjoint; lia.
Qed.
End runs.

(** ** Edit targets

    The widget has a header column when the map has rows, and a header row when it has
    columns or static labels. *)
Definition header_column (dims : MapDimensions) : Z := if 1 <? d_y_size dims then 1 else 0.
Definition header_row (dims : MapDimensions) (static : bool) : Z := if (1 <? d_x_size dims) || static then 1 else 0.
Definition static_scale (t : string) : bool := String.eqb t "Static Y Axis" || String.eqb t "Static X Axis".
(** A selection of whole cells of one kind: inside the widget's table, and in a header
    only when it is all header, does not touch the corner and, on a
    single-column map, is neither the label row nor the Y axis. *)
Definition uniform_selection (s : SelectionRange) (dims : MapDimensions) (t : string) : Prop :=
  0 <= first_row s <= last_row s /\ 0 <= first_col s <= last_col s
  /\ last_row s < d_y_size dims + header_row dims (static_scale t)
  /\ last_col s < d_x_size dims + header_column dims
  /\ (header_column dims = 1 -> first_col s = 0 -> last_col s = 0 /\ header_row dims (static_scale t) <= first_row s)
  /\ (header_row dims (static_scale t) = 1 -> first_row s = 0 -> last_row s = 0 /\ header_column dims <= first_col s)
  /\ (d_x_size dims = 1 -> header_row dims (static_scale t) <= first_row s
        /\ (static_scale t = true \/ header_column dims <= first_col s)).
(** The geometry of a target's run. *)
Definition run_rows (k : EditTargetKind) (dims : MapDimensions) : Z :=
  match k with EXAxis => 1 | _ => d_y_size dims end.
Definition run_cols (k : EditTargetKind) (dims : MapDimensions) : Z :=
  match k with EYAxis => 1 | _ => d_x_size dims end.
(** A selection of the map widget's cells, or of one of its header rows or columns,
    resolves to element coordinates inside the run it targets, with that run's width;
    a header of a map with static labels is rejected, and a selection of body cells
    always resolves to the body. *)
Theorem ResolveEditTarget_inside s dims t :
  1 <= d_x_size dims -> 1 <= d_y_size dims -> uniform_selection s dims t ->
  let target := ResolveEditTarget s dims t in
  match t_kind target with
  | kRejected => static_scale t = true /\ (header_column dims = 1 /\ first_col s = 0 \/ header_row dims true = 1 /\ first_row s = 0)
  | k => 0 <= first_row (t_range target) <= last_row (t_range target) /\ last_row (t_range target) < run_rows k dims
         /\ 0 <= first_col (t_range target) <= last_col (t_range target) /\ last_col (t_range target) < run_cols k dims
         /\ t_x_size target = run_cols k dims
         /\ (k = EMapBody <-> (header_column dims = 1 -> 0 < first_col s) /\ (1 < d_x_size dims -> 0 < first_row s))
  end.
Proof.
  intros Hx Hy. unfold uniform_selection, ResolveEditTarget, header_column, header_row. fold (static_scale t).
  destruct (static_scale t), (Z.ltb_spec 1 (d_x_size dims)), (Z.ltb_spec 1 (d_y_size dims)),
    (Z.eqb_spec (first_col s) 0), (Z.eqb_spec (first_row s) 0), (Z.eqb_spec (d_x_size dims) 1), (Z.eqb_spec (d_y_size dims) 1);
    cbn; intros; try lia; split_and!; try lia; try (split; [discriminate|lia]); try (split; [lia|done]).
Qed.
(** The Y axis of a single-column map has no header row above it, yet its selection is
    moved up one row: the first element resolves outside the axis and every other one
    to its predecessor. *)
Lemma single_column_y_axis s dims t :
  d_x_size dims = 1 -> 1 < d_y_size dims -> static_scale t = false -> first_col s = 0 ->
  header_row dims (static_scale t) = 0
  /\ t_kind (ResolveEditTarget s dims t) = EYAxis
  /\ first_row (t_range (ResolveEditTarget s dims t)) = first_row s - 1.
Proof.
  intros Hx Hy Ht Hc. unfold ResolveEditTarget, header_row. fold (static_scale t). rewrite Ht, Hx, Hc.
  rewrite (proj2 (Z.ltb_lt 1 (d_y_size dims))) by done. done.
Qed.

(** ** A sample map *)
Definition sample_axis : AxisDefinition :=
  {| ax_type := ""; ax_name := ""; ax_units := ""; ax_format := ""; ax_storage_type := None; ax_endian := "";
     ax_address := None; ax_size := 1; ax_from_byte := "x"; ax_to_byte := "x"; ax_scaling_name := "";
     ax_start_position := 1; ax_interval := 1; ax_log_parameter := ""; ax_static_data := [] |}.
Definition sample_scaling : Scaling :=
  {| sc_name := "Boost"; sc_units := "psi"; sc_from_byte := "x*0.5"; sc_to_byte := "x/0.5"; sc_format := "";
     sc_minimum := "0"; sc_maximum := "100"; sc_coarse_increment := "1"; sc_fine_increment := "0.5";
     sc_storage_type := Some kUint16; sc_endian := "big"; sc_selections := [] |}.
Definition sample_calibration (address : Z) : CalibrationMap :=
  {| cm_id := ""; cm_name := "Boost target"; cm_type := "3D"; cm_category := ""; cm_subcategory := "";
     cm_description := ""; cm_address := Some address; cm_x_size := 2; cm_y_size := 2; cm_swap_xy := false;
     cm_flip_x := false; cm_flip_y := false; cm_level := ""; cm_user_level := ""; cm_scaling_name := "Boost";
     cm_storage_type := None; cm_endian := ""; cm_start_position := 1; cm_interval := 1; cm_log_parameter := "";
     cm_x_axis := sample_axis; cm_y_axis := sample_axis |}.
Definition sample_definition : RomDefinition :=
  {| rd_format := kEcuFlash; rd_source := "a.xml";
     rd_identity := {| id_xml_id := "A1"; id_internal_id := "A1"; id_ecu_id := ""; id_internal_id_address := None |};
     rd_metadata := {| md_make := ""; md_market := ""; md_model := ""; md_submodel := ""; md_transmission := "";
       md_year := ""; md_flash_method := ""; md_memory_model := ""; md_checksum_module := ""; md_file_size := "";
       md_notes := "" |};
     rd_parents := []; rd_maps := [sample_calibration 0x10; sample_calibration 0x7ffc]; rd_scalings := [sample_scaling];
     rd_resolved_sources := []; rd_resolved_definition_ids := [] |}.
Lemma sample_calibration_wf a : u32_ok a -> map_wf (sample_calibration a).
Proof. intros Ha. unfold map_wf, axis_wf, u32_ok in *. cbn. split_and!; try lia; intros x [= <-]; lia. Qed.
Lemma CheckMapPlacement_iff_witness :
  CheckMapPlacement sample_definition (sample_calibration 0x10) sample_map = Ok {| x_start := 0x10; x_end := 0x18 |}
  /\ Forall (extent_placed sample_map) (map_extents sample_definition (sample_calibration 0x10))
  /\ ~ Forall (extent_placed sample_map) (map_extents sample_definition (sample_calibration 0x7ffc)).
Proof.
  split; [vm_compute; reflexivity|]. split.
  - pose proof (CheckMapPlacement_iff sample_definition (sample_calibration 0x10) sample_map
      (sample_calibration_wf 0x10 ltac:(unfold u32_ok; lia)) sample_map_ok ltac:(cbn; lia)) as Hp.
    destruct (CheckMapPlacement _ _ _) as [x|e] eqn:E; [exact (proj1 Hp)|vm_compute in E; discriminate E].
  - pose proof (CheckMapPlacement_iff sample_definition (sample_calibration 0x7ffc) sample_map
      (sample_calibration_wf 0x7ffc ltac:(unfold u32_ok; lia)) sample_map_ok ltac:(cbn; lia)) as Hp.
    destruct (CheckMapPlacement _ _ _) as [x|e] eqn:E; [vm_compute in E; discriminate E|exact (proj1 Hp)].
Defined.
Lemma element_run_layout_witness :
  let spec := EditSpec (ResolveMapElement sample_definition (sample_calibration 0x10) kMapBody) in
  ElementByteAddress spec 3 + 2 = ElementRunEnd 0x10 1 1 2 4 /\ ElementRunEnd 0x10 1 1 2 4 = 0x18.
Proof.
  cbv zeta. set (spec := EditSpec _).
  assert (0 <= sp_address spec <= kU64Max) as Ha by (unfold kU64Max; vm_compute; split; congruence).
  assert (u32_ok (sp_start_position spec) /\ u32_ok (sp_interval spec) /\ u32_ok 4) as (Hp & Hi & Hc)
    by (unfold u32_ok; vm_compute; repeat split; congruence).
  destruct (proj2 (proj2 (element_run_layout spec 4 Ha Hp Hi Hc eq_refl)) eq_refl) as (_ & Hlast & _).
  split; [exact Hlast|vm_compute; reflexivity].
Defined.
