(* ===== verification/NumericEdit.v ===== *)
(** * NumericEdit: decoding maps and computing edits

    [src/backend/calibration]: the decoders of [calibration_service.cpp] and all of
    [numeric_map_edit.cpp]. A decode is a snapshot of the scaled values; an edit is a
    patch, the list of the cells whose stored bytes change. *)
From S2P Require Import Prelude Bytes.
From S2P Require Import MemoryMap.
From S2P Require Import Ports.
From S2P Require Import Expression Numeric.
From S2P Require Import DefinitionModel.
From S2P Require Import CalibrationLayout.

Section numeric.
Context `{Numeric}.

(** ** [decoded_map.h] *)
Definition NumericCell : Type := result Error double.
Definition NumericRun : Type := list NumericCell.
Inductive AxisValue : Type := NoAxis | NumericAxis (run : NumericRun) | StaticAxis (labels : list string).
Inductive BodyValue : Type := NumericBody (run : NumericRun) | BlobValue (data : list Z).
Record DecodedMap := { dm_body : BodyValue; dm_x_axis : AxisValue; dm_y_axis : AxisValue }.

(** A checked evaluation; [EvaluateChecked] always answers. *)
Definition evaluated (expression : string) (x : double) : EvaluationResult :=
  default (Err "empty stack"%string) (EvaluateChecked (chars expression) x).

(** ** Decoding *)
Definition decoded_number (storage_type : option StorageType) (raw : Z) : double :=
  if bool_decide (storage_type = Some kFloat) then of_float_bits raw
  else if IsUnsignedStorage storage_type then of_Z raw
  else of_Z (SignExtend raw (StorageByteSize storage_type)).
Definition decode_cell (window : list Z) (run : ElementRun) (index : Z) : NumericCell :=
  let width := StorageByteSize (run_storage_type run) in
  let is_float := bool_decide (run_storage_type run = Some kFloat) in
  let little_endian := negb is_float && String.eqb (run_endian run) "little" in
  let address := u64 (run_address run + (run_start_position run - 1) * width + index * width * run_interval run) in
  let offset := u64 (address - run_address run) in
  let raw := if little_endian then ReadULe window offset width else ReadUBe window offset width in
  let numeric := decoded_number (run_storage_type run) raw in
  match (if run_is_selectable run then Ok zero else evaluated (run_from_byte run) numeric) with
  | Ok value => Ok value
  | Err detail => Fail kInvalidConfig ("cell " +:+ fmt_d index +:+ ": " +:+ detail)
  end.
Definition DecodeNumericRun (rom : DefinitionBytes) (run : ElementRun) : result Error NumericRun :=
  if bool_decide (run_storage_type run = None) || bool_decide (run_storage_type run = Some kBloblist)
     || (run_start_position run =? 0) || (run_interval run =? 0) then
    Fail kInvalidConfig "numeric run has invalid storage or stride metadata"
  else
    let width := StorageByteSize (run_storage_type run) in
    let end_ := ElementRunEnd (run_address run) (run_start_position run) (run_interval run) width (run_count run) in
    match At rom (run_address run) (u64 (end_ - run_address run)) with
    | None => Fail kInvalidConfig "numeric run exceeds ROM size"
    | Some window => Ok (map (decode_cell window run) (seqZ 0 (run_count run)))
    end.
Definition DecodeTypedAxis (axis : AxisDefinition) (extent : Z) (rom : DefinitionBytes) (x_axis : bool)
    (map_type : string) (element : MapElement) : result Error AxisValue :=
  if (extent <=? 1) || String.eqb (ax_type axis) "" then Ok NoAxis
  else if x_axis && (String.eqb (ax_type axis) "Static X Axis" || String.eqb (ax_type axis) "Static Y Axis") then
    if negb (zlen (ax_static_data axis) =? extent) then
      Fail kInvalidConfig "static axis label count differs from map extent"
    else Ok (StaticAxis (ax_static_data axis))
  else if x_axis && negb (String.eqb (ax_type axis) "X Axis")
          && negb (String.eqb (ax_type axis) "Y Axis" && String.eqb map_type "2D") then Ok NoAxis
  else
    match ax_address axis with
    | None => Fail kInvalidConfig "numeric axis has no address"
    | Some _ => let! values := DecodeNumericRun rom (Run element) in Ok (NumericAxis values)
    end.
(** [Fail(error.kind, prefix + error.detail)]. *)
Definition rewrap {A} (prefix : string) (r : result Error A) : result Error A :=
  match r with Ok a => Ok a | Err e => Fail (kind e) (prefix +:+ detail e) end.
Definition DecodeCalibrationMap (rom_definition : RomDefinition) (map : CalibrationMap) (rom : DefinitionBytes)
    : result Error DecodedMap :=
  let scaling := FindScaling rom_definition (cm_scaling_name map) in
  if negb (String.eqb (cm_scaling_name map) "") && negb (match scaling with Some _ => true | None => false end) then
    Fail kInvalidConfig ("map '" +:+ cm_name map +:+ "' has unresolved scaling")
  else
    let element := ResolveMapElement rom_definition map kMapBody in
    match me_address element with
    | None => Fail kInvalidConfig ("map '" +:+ cm_name map +:+ "' has invalid address or dimensions")
    | Some address =>
        if (Count element =? 0) || (kU32Max <? Count element) then
          Fail kInvalidConfig ("map '" +:+ cm_name map +:+ "' has invalid address or dimensions")
        else if bool_decide (me_storage_type element = Some kBloblist) then
          match At rom address (me_byte_width element) with
          | None => Fail kInvalidConfig ("map '" +:+ cm_name map +:+ "' blob exceeds ROM size")
          | Some data => Ok {| dm_body := BlobValue data; dm_x_axis := NoAxis; dm_y_axis := NoAxis |}
          end
        else
          let! body := rewrap ("map '" +:+ cm_name map +:+ "': ") (DecodeNumericRun rom (Run element)) in
          let! x_axis :=
            rewrap ("map '" +:+ cm_name map +:+ "' X axis: ")
              (DecodeTypedAxis (cm_x_axis map) (cm_x_size map) rom true (cm_type map)
                 (ResolveMapElement rom_definition map kXAxis)) in
          let! y_axis :=
            rewrap ("map '" +:+ cm_name map +:+ "' Y axis: ")
              (DecodeTypedAxis (cm_y_axis map) (cm_y_size map) rom false (cm_type map)
                 (ResolveMapElement rom_definition map kYAxis)) in
          Ok {| dm_body := NumericBody body; dm_x_axis := x_axis; dm_y_axis := y_axis |}
    end.

(** ** [numeric_map_edit.h] *)
Record CellWrite := { cw_index : Z; cw_byte_address : Z; cw_bytes : list Z }.
Definition NumericEditPatch : Type := list CellWrite.
Inductive NoChangeReason : Set :=
  RNone | kUnchanged | kBelowStorageResolution | kDefinitionLimit | kMultipleCauses.
Record NumericEditResult := { er_writes : NumericEditPatch; er_no_change : NoChangeReason }.
Inductive IncrementStep : Set := kFineUp | kFineDown | kCoarseUp | kCoarseDown.
Inductive InterpolationMode : Set := kHorizontal | kVertical | kBidirectional.

(** ** Limits, selections, encodings *)
Record Limits := { l_minimum : option double; l_maximum : option double }.
Definition ParseLimit (text : string) : result Error (option double) :=
  if forallb Whitespace (chars text) then Ok None
  else
    match ParseFiniteNumber (chars text) with
    | Err detail => Fail kInvalidConfig ("invalid definition limit: " +:+ detail)
    | Ok value => Ok (Some value)
    end.
Definition LimitsFor (spec : MapElementSpec) : result Error Limits :=
  let! minimum := ParseLimit (sp_min_value spec) in
  let! maximum := ParseLimit (sp_max_value spec) in
  match minimum, maximum with
  | Some low, Some high =>
      if flt high low then Fail kInvalidConfig "definition minimum exceeds maximum"
      else Ok {| l_minimum := minimum; l_maximum := maximum |}
  | _, _ => Ok {| l_minimum := minimum; l_maximum := maximum |}
  end.
Definition ValidateSelection (width count : Z) (range : SelectionRange) : Status :=
  if (width =? 0) || (count =? 0) || (kU32Max <? count) || negb (count mod width =? 0)
     || (first_row range <? 0) || (first_col range <? 0) || (last_row range <? first_row range)
     || (last_col range <? first_col range) || (width <=? last_col range) || (count / width <=? last_row range) then
    Fail kInvalidConfig "edit selection exceeds its numeric run"
  else Ok tt.
(** The bounds of an integer storage type, which are written out as whole numbers. *)
Definition storage_bounds (storage_type : option StorageType) : Z * Z :=
  let bit_count := StorageByteSize storage_type * 8 in
  if IsUnsignedStorage storage_type then (0, 2 ^ bit_count - 1) else (- 2 ^ (bit_count - 1), 2 ^ (bit_count - 1) - 1).
Definition fmt_z (z : Z) : string := if z <? 0 then "-" +:+ fmt_d (- z) else fmt_d z.
Definition EncodeValue (spec : MapElementSpec) (value : double) : result Error (list Z) :=
  let storage_type := sp_storage_type spec in
  if bool_decide (storage_type = None) || bool_decide (storage_type = Some kBloblist) || (sp_start_position spec =? 0)
     || (sp_interval spec =? 0) || negb (isfinite value) then
    Fail kInvalidConfig "edit has invalid numeric storage, stride, or value"
  else
    match evaluated (sp_to_byte spec) value with
    | Err detail => Fail kInvalidConfig ("encoding expression: " +:+ detail)
    | Ok encoded =>
        if bool_decide (storage_type = Some kFloat) then
          if flt float_max (fabs encoded) then Fail kInvalidConfig "value exceeds finite float storage range"
          else Ok (WriteRawElement spec (to_float_bits encoded))
        else
          let bit_count := StorageByteSize storage_type * 8 in
          let is_unsigned := IsUnsignedStorage storage_type in
          let minimum := if is_unsigned then zero else fopp (of_Z (2 ^ (bit_count - 1))) in
          let maximum := of_Z (2 ^ (if is_unsigned then bit_count else bit_count - 1) - 1) in
          let rounded := fround encoded in
          if flt rounded minimum || flt maximum rounded then
            Fail kInvalidConfig ("encoded value is outside storage range [" +:+ fmt_z (fst (storage_bounds storage_type))
                                 +:+ ", " +:+ fmt_z (snd (storage_bounds storage_type)) +:+ "]")
          else Ok (WriteRawElement spec (to_Z rounded))
    end.
Definition reason_eqb (a b : NoChangeReason) : bool :=
  match a, b with
  | RNone, RNone | kUnchanged, kUnchanged | kBelowStorageResolution, kBelowStorageResolution
  | kDefinitionLimit, kDefinitionLimit | kMultipleCauses, kMultipleCauses => true
  | _, _ => false
  end.
Definition MergeReason (previous next : NoChangeReason) : NoChangeReason :=
  if reason_eqb next kUnchanged then previous
  else if reason_eqb previous kUnchanged then next
  else if negb (reason_eqb previous next) then kMultipleCauses else previous.
(** [std::max(a, b)] and [std::min(a, b)]. *)
Definition fmax (a b : double) : double := if flt a b then b else a.
Definition fmin (a b : double) : double := if flt b a then b else a.
Definition clamp (limits : Limits) (requested : double) : double :=
  let clamped := match l_minimum limits with Some low => fmax requested low | None => requested end in
  match l_maximum limits with Some high => fmin clamped high | None => clamped end.
Definition no_write_reason (clamped requested : double) (old_value : option NumericCell) : NoChangeReason :=
  if negb (feq clamped requested) then kDefinitionLimit
  else match old_value with
       | Some (Ok old) => if negb (feq old clamped) then kBelowStorageResolution else kUnchanged
       | _ => kUnchanged
       end.
Definition AppendWrite (result : NumericEditResult) (rom : DefinitionBytes) (spec : MapElementSpec) (limits : Limits)
    (index : Z) (requested : double) (old_value : option NumericCell) : Prelude.result Error NumericEditResult :=
  if negb (isfinite requested) then Fail kInvalidConfig "requested value is not finite"
  else
    let clamped := clamp limits requested in
    let! encoded := EncodeValue spec clamped in
    let address := ElementByteAddress spec index in
    match At rom address (zlen encoded) with
    | None => Fail kInvalidConfig "edit byte range exceeds ROM size"
    | Some current =>
        if bool_decide (current = encoded) then
          Ok {| er_writes := er_writes result;
                er_no_change := MergeReason (er_no_change result) (no_write_reason clamped requested old_value) |}
        else
          Ok {| er_writes := er_writes result ++ [{| cw_index := index; cw_byte_address := address; cw_bytes := encoded |}];
                er_no_change := er_no_change result |}
    end.
Definition finished (result : NumericEditResult) : NumericEditResult :=
  match er_writes result with
  | [] => result
  | _ => {| er_writes := er_writes result; er_no_change := RNone |}
  end.
(** The cells of a selection, row by row. *)
Definition coordinates (range : SelectionRange) : list (Z * Z) :=
  seqZ (first_row range) (last_row range - first_row range + 1) ≫= fun row =>
  (fun col => (row, col)) <$> seqZ (first_col range) (last_col range - first_col range + 1).
Fixpoint build (rom : DefinitionBytes) (spec : MapElementSpec) (width : Z) (cells : NumericRun) (limits : Limits)
    (candidate : Z -> Z -> Z -> Prelude.result Error double) (todo : list (Z * Z)) (result : NumericEditResult)
    : Prelude.result Error NumericEditResult :=
  match todo with
  | [] => Ok result
  | (row, col) :: todo =>
      let index := u32 (row * width + col) in
      let! value := rewrap ("cell " +:+ fmt_d index +:+ ": ") (candidate index row col) in
      let! result := rewrap ("cell " +:+ fmt_d index +:+ ": ")
                       (AppendWrite result rom spec limits index value (zlookup cells index)) in
      build rom spec width cells limits candidate todo result
  end.
Definition nothing_yet : NumericEditResult := {| er_writes := []; er_no_change := kUnchanged |}.
Definition BuildPatch (rom : DefinitionBytes) (spec : MapElementSpec) (width : Z) (cells : NumericRun)
    (range : SelectionRange) (candidate : Z -> Z -> Z -> Prelude.result Error double)
    : Prelude.result Error NumericEditResult :=
  let! limits := (let! _ := ValidateSelection width (zlen cells) range in LimitsFor spec) in
  let! result := build rom spec width cells limits candidate (coordinates range) nothing_yet in
  Ok (finished result).

(** ** The four edits *)
(** [cells[index]]; the code only applies it inside the run. *)
Definition CurrentValue (cells : NumericRun) (index : Z) : Prelude.result Error double :=
  match zlookup cells index with
  | None => Fail kInternal "index past the run"
  | Some (Err e) => Err e
  | Some (Ok value) => if negb (isfinite value) then Fail kInvalidConfig "current cell is not finite" else Ok value
  end.
Definition operator_token (token : ascii) : bool :=
  Whitespace token || bool_decide (token ∈ ["+"; "-"; "*"; "/"; "("; ")"]%char).
Fixpoint uses_loop (fuel : nat) (formula : list ascii) (uses_input : bool) : Prelude.result Error bool :=
  match fuel with
  | O => Fail kInternal "out of fuel"
  | S fuel =>
      match formula with
      | [] => Ok uses_input
      | token :: rest =>
          if (token =? "x")%char then uses_loop fuel rest true
          else if digit_or_point token then
            match from_chars formula with
            | Some (number, n) =>
                if negb (isfinite number) then Fail kInvalidConfig "assignment contains an invalid numeric literal"
                else uses_loop fuel (drop n formula) uses_input
            | None => Fail kInvalidConfig "assignment contains an invalid numeric literal"
            end
          else if operator_token token then uses_loop fuel rest uses_input
          else Fail kInvalidConfig "assignment contains an unsupported token"
      end
  end.
Definition UsesCurrentValue (formula : string) : Prelude.result Error bool :=
  if forallb Whitespace (chars formula) then Ok true
  else uses_loop (S (length (chars formula))) (chars formula) false.
Definition InterpolatePair (cells : NumericRun) (first last : Z) (fraction : double) : Prelude.result Error double :=
  let! low := CurrentValue cells (u32 first) in
  let! high := CurrentValue cells (u32 last) in
  Ok (flerp low high fraction).
Definition fraction (first last at_ : Z) : double :=
  if first =? last then zero else fdiv (of_Z (at_ - first)) (of_Z (last - first)).
Definition Interpolated (cells : NumericRun) (width : Z) (range : SelectionRange) (mode : InterpolationMode)
    (row col : Z) : Prelude.result Error double :=
  let horizontal_fraction := fraction (first_col range) (last_col range) col in
  let vertical_fraction := fraction (first_row range) (last_row range) row in
  match mode with
  | kHorizontal =>
      InterpolatePair cells (row * width + first_col range) (row * width + last_col range) horizontal_fraction
  | kVertical =>
      InterpolatePair cells (first_row range * width + col) (last_row range * width + col) vertical_fraction
  | kBidirectional =>
      let! top := InterpolatePair cells (first_row range * width + first_col range)
                    (first_row range * width + last_col range) horizontal_fraction in
      let! bottom := InterpolatePair cells (last_row range * width + first_col range)
                       (last_row range * width + last_col range) horizontal_fraction in
      Ok (flerp top bottom vertical_fraction)
  end.
Definition CalculateIncrement (rom : DefinitionBytes) (spec : MapElementSpec) (width : Z) (cells : NumericRun)
    (range : SelectionRange) (step : IncrementStep) : Prelude.result Error NumericEditResult :=
  let fine := match step with kFineUp | kFineDown => true | _ => false end in
  let down := match step with kFineDown | kCoarseDown => true | _ => false end in
  let amount := fmul (if fine then sp_fine_increment spec else sp_coarse_increment spec)
                     (if down then of_Z (-1) else of_Z 1) in
  if negb (isfinite amount) || is_zero amount then Fail kInvalidConfig "increment must be finite and nonzero"
  else BuildPatch rom spec width cells range
         (fun index _ _ => let! current := CurrentValue cells index in Ok (fadd current amount)).
Definition CalculateAssignment (rom : DefinitionBytes) (spec : MapElementSpec) (width : Z) (cells : NumericRun)
    (range : SelectionRange) (formula : string) : Prelude.result Error NumericEditResult :=
  let! needs_input := UsesCurrentValue formula in
  BuildPatch rom spec width cells range
    (fun index _ _ =>
       let! current := (if needs_input then CurrentValue cells index else Ok zero) in
       match evaluated formula current with
       | Err detail => Fail kInvalidConfig detail
       | Ok value => Ok value
       end).
Definition CalculateInterpolation (rom : DefinitionBytes) (spec : MapElementSpec) (width : Z) (cells : NumericRun)
    (range : SelectionRange) (mode : InterpolationMode) : Prelude.result Error NumericEditResult :=
  BuildPatch rom spec width cells range (fun _ row col => Interpolated cells width range mode row col).
Fixpoint paste (rom : DefinitionBytes) (spec : MapElementSpec) (limits : Limits) (todo : list (Z * double))
    (result : NumericEditResult) : Prelude.result Error NumericEditResult :=
  match todo with
  | [] => Ok result
  | (index, value) :: todo =>
      let! result := rewrap ("cell " +:+ fmt_d index +:+ ": ") (AppendWrite result rom spec limits index value None) in
      paste rom spec limits todo result
  end.
(** The cells a paste fills, row by row, clipped to the run. *)
Definition paste_row (width : Z) (range : SelectionRange) (values : list (list double)) (row : Z) : list (Z * double) :=
  let columns := match values with [] => 0 | front :: _ => zlen front end in
  match zlookup values row with
  | None => []
  | Some line =>
      let columns_to_use := Z.min (Z.min columns (zlen line)) (width - first_col range) in
      seqZ 0 columns_to_use ≫= fun col =>
      match zlookup line col with
      | None => []
      | Some value => [(u32 ((first_row range + row) * width + first_col range + col), value)]
      end
  end.
Definition paste_cells (width height : Z) (range : SelectionRange) (values : list (list double)) : list (Z * double) :=
  let rows_to_use := Z.min (zlen values) (height - first_row range) in
  seqZ 0 rows_to_use ≫= paste_row width range values.
Definition CalculatePaste (rom : DefinitionBytes) (spec : MapElementSpec) (width height : Z) (range : SelectionRange)
    (values : list (list double)) : Prelude.result Error NumericEditResult :=
  let! limits := (let! _ := ValidateSelection width (u64 (width * height)) range in LimitsFor spec) in
  let! result := paste rom spec limits (paste_cells width height range values) nothing_yet in
  Ok (finished result).
End numeric.

(** ** Patches: lemmas *)
Section patches.
Context `{Numeric} (rom : DefinitionBytes) (spec : MapElementSpec) (limits : Limits).
(** The write a requested value for cell [index] needs; none when the bytes are there. *)
Definition cell_write (t : Z * double) : option CellWrite :=
  match EncodeValue spec (clamp limits t.2) with
  | Err _ => None
  | Ok encoded =>
      let address := ElementByteAddress spec t.1 in
      match At rom address (zlen encoded) with
      | None => None
      | Some current =>
          if bool_decide (current = encoded) then None
          else Some {| cw_index := t.1; cw_byte_address := address; cw_bytes := encoded |}
      end
  end.
(** The requested value is finite, can be encoded after clamping, and its cell is in the bytes. *)
Definition encodable (t : Z * double) : Prop :=
  isfinite t.2 = true /\
  exists encoded current, EncodeValue spec (clamp limits t.2) = Ok encoded
    /\ At rom (ElementByteAddress spec t.1) (zlen encoded) = Some current.
Definition told (r : NoChangeReason) : Prop := r <> RNone.
Lemma MergeReason_told a b : told a -> told b -> told (MergeReason a b).
Proof. by destruct a, b. Qed.
Lemma no_write_reason_told c q o : told (no_write_reason c q o).
Proof. unfold no_write_reason. by repeat case_match. Qed.
(** [r'] is [r] with the write of [t], or a reason for none. *)
Definition appended (t : Z * double) (r r' : NumericEditResult) : Prop :=
  er_writes r' = er_writes r ++ option_list (cell_write t) /\ (told (er_no_change r) -> told (er_no_change r')).
Lemma AppendWrite_spec r i v old :
  match AppendWrite r rom spec limits i v old with
  | Ok r' => encodable (i, v) /\ appended (i, v) r r'
  | Err _ => ~ encodable (i, v)
  end.
Proof.
  unfold AppendWrite, encodable, appended, cell_write. cbn [fst snd].
  destruct (isfinite v); cbn [negb]; [|by intros []].
  destruct (EncodeValue spec (clamp limits v)) as [enc|e] eqn:E; cbn [result_bind]; [|by intros (_ & ? & ? & ? & _)].
  destruct (At rom _ (zlen enc)) as [cur|] eqn:Ea; [|intros (_ & ? & ? & ? & ?); simplify_eq; congruence].
  case_bool_decide; cbn [er_writes er_no_change option_list].
  - split; [split; [done|by exists enc, cur]|]. split; [by rewrite app_nil_r|]. intros Ht.
    by apply MergeReason_told, no_write_reason_told.
  - split; [split; [done|by exists enc, cur]|]. done.
Qed.
Lemma rewrap_Ok {A} p (r : result Error A) a : rewrap p r = Ok a -> r = Ok a.
Proof. by destruct r. Qed.
Lemma option_list_omap {A B} (f : A -> option B) x l : omap f (x :: l) = option_list (f x) ++ omap f l.
Proof. cbn. by destruct (f x). Qed.
(** The writes of a list of requests, in order. *)
Definition all_appended (ts : list (Z * double)) (r r' : NumericEditResult) : Prop :=
  Forall encodable ts /\ er_writes r' = er_writes r ++ omap cell_write ts
  /\ (told (er_no_change r) -> told (er_no_change r')).
Lemma all_appended_cons t ts r r1 r' :
  encodable t -> appended t r r1 -> all_appended ts r1 r' -> all_appended (t :: ts) r r'.
Proof.
  intros He [E1 T1] (HF & E2 & T2). split; [by constructor|]. rewrite option_list_omap, E2, E1, <- app_assoc. tauto.
Qed.
Lemma all_appended_nil r : all_appended [] r r.
Proof. split; [constructor|]. by rewrite app_nil_r. Qed.
Lemma paste_spec todo r :
  match paste rom spec limits todo r with
  | Ok r' => all_appended todo r r'
  | Err _ => ~ Forall encodable todo
  end.
Proof.
  revert r. induction todo as [|[i v] todo IH]; intros r; cbn [paste]; [apply all_appended_nil|].
  pose proof (AppendWrite_spec r i v None) as Ha. destruct (AppendWrite _ _ _ _ _ _ _) as [r1|e]; cbn [rewrap result_bind];
    [|intros HF; by apply Forall_cons in HF as [? _]].
  specialize (IH r1). destruct (paste _ _ _ _ r1) as [r'|e'].
  - destruct Ha. by eapply all_appended_cons.
  - intros HF. by apply Forall_cons in HF as [_ ?].
Qed.
(** The requests a candidate makes for some cells. *)
Definition requests (width : Z) (candidate : Z -> Z -> Z -> result Error double) (rc : Z * Z) (t : Z * double) : Prop :=
  t.1 = u32 (rc.1 * width + rc.2) /\ candidate t.1 rc.1 rc.2 = Ok t.2.
Lemma build_spec width cells candidate todo r r' :
  build rom spec width cells limits candidate todo r = Ok r' ->
  exists ts, Forall2 (requests width candidate) todo ts /\ all_appended ts r r'.
Proof.
  revert r. induction todo as [|[row col] todo IH]; intros r; cbn [build]; cbv zeta.
  { intros [= ->]. exists []. split; [constructor|apply all_appended_nil]. }
  intros (v & Ev%rewrap_Ok & (r1 & E1%rewrap_Ok & E2)%result_bind_Ok)%result_bind_Ok.
  pose proof (AppendWrite_spec r (u32 (row * width + col)) v (zlookup cells (u32 (row * width + col)))) as Ha.
  rewrite E1 in Ha. destruct Ha as [He Ha]. destruct (IH _ E2) as (ts & HF & Hts).
  exists ((u32 (row * width + col), v) :: ts). split; [by constructor|]. by eapply all_appended_cons.
Qed.
Lemma build_complete width cells candidate todo ts r :
  Forall2 (requests width candidate) todo ts -> Forall encodable ts ->
  exists r', build rom spec width cells limits candidate todo r = Ok r'.
Proof.
  intros HF. revert r. induction HF as [|[row col] [i v] todo ts [Hi Hc] HF IH]; intros r He; cbn [build]; [by eexists|].
  cbn [fst snd] in Hi, Hc. subst i. cbv zeta. rewrite Hc. cbn [rewrap result_bind]. apply Forall_cons in He as [He Hes].
  pose proof (AppendWrite_spec r (u32 (row * width + col)) v (zlookup cells (u32 (row * width + col)))) as Ha.
  destruct (AppendWrite _ _ _ _ _ _ _) as [r1|e]; [|by apply Ha in He]. cbn [rewrap result_bind]. by apply IH.
Qed.
Lemma finished_spec ts r :
  all_appended ts nothing_yet r ->
  er_writes (finished r) = omap cell_write ts /\ (er_no_change (finished r) = RNone <-> er_writes (finished r) <> []).
Proof.
  intros (_ & E & T). cbn in E. specialize (T ltac:(done)). unfold finished. rewrite <- E.
  destruct (er_writes r) eqn:Ew; cbn [er_writes er_no_change]; rewrite ?Ew; (split; [done|]); done.
Qed.
End patches.

(** ** Selections: lemmas *)
Section selections.
Context `{Numeric}.
(** A selection inside a run of [count] cells in rows of [width]. *)
Definition selection_ok (width count : Z) (r : SelectionRange) : Prop :=
  0 < width /\ 0 < count <= kU32Max /\ count mod width = 0
  /\ 0 <= first_row r <= last_row r /\ last_row r < count / width
  /\ 0 <= first_col r <= last_col r /\ last_col r < width.
Lemma ValidateSelection_iff width count r :
  0 <= width -> 0 <= count -> ValidateSelection width count r = Ok tt <-> selection_ok width count r.
Proof.
  intros. unfold ValidateSelection, selection_ok.
  assert (forall (b : bool) (d : string), (if b then Fail kInvalidConfig d else Ok tt) = Ok tt <-> b = false) as ->
    by (by intros [] d).
  rewrite !orb_false_iff, negb_false_iff, !Z.ltb_ge, !Z.leb_gt, Z.eqb_eq, !Z.eqb_neq. intuition lia.
Qed.
Lemma selected_index width count r row col :
  selection_ok width count r -> first_row r <= row <= last_row r -> first_col r <= col <= last_col r ->
  0 <= row * width + col < count /\ u32 (row * width + col) = row * width + col.
Proof.
  unfold selection_ok. intros (Hw & Hc & Hm & Hr & Hl & Hf & Hlc) Hrow Hcol.
  assert (0 <= row * width + col < count) as Hi.
  { pose proof (Z.div_mod count width ltac:(lia)). assert (row + 1 <= count / width) by lia. nia. }
  split; [done|]. apply u32_small. unfold u32_ok, kU32Max in *. lia.
Qed.
Lemma elem_of_coordinates r row col :
  (row, col) ∈ coordinates r <-> first_row r <= row <= last_row r /\ first_col r <= col <= last_col r.
Proof.
  unfold coordinates. split.
  - intros (x & (y & [= -> ->] & Hy%elem_of_seqZ)%list_elem_of_fmap & Hx%elem_of_seqZ)%list_elem_of_bind. lia.
  - intros [? ?]. apply list_elem_of_bind. exists row. split; [|apply elem_of_seqZ; lia].
    apply list_elem_of_fmap. exists col. split; [done|]. apply elem_of_seqZ. lia.
Qed.
Lemma coordinates_NoDup r : NoDup (coordinates r).
Proof.
  apply NoDup_bind; [|intros x _|apply NoDup_seqZ].
  - intros x x' y _ _ (c & -> & _)%list_elem_of_fmap (c' & [=] & _)%list_elem_of_fmap. done.
  - apply NoDup_fmap_2; [|apply NoDup_seqZ]. by intros c c' [=].
Qed.
Lemma row_major width row col row' col' :
  0 <= col < width -> 0 <= col' < width -> row * width + col = row' * width + col' -> row = row' /\ col = col'.
Proof.
  intros Hc Hc' E. assert ((row - row') * width = col' - col) as E' by lia.
  assert (row - row' = 0) as Hz by nia. split; [lia|]. rewrite Hz in E'. lia.
Qed.
Lemma coordinates_indices width count r :
  selection_ok width count r -> NoDup ((fun rc => u32 (rc.1 * width + rc.2)) <$> coordinates r).
Proof.
  intros Hs. apply NoDup_fmap_2_strong; [|apply coordinates_NoDup].
  intros [row col] [row' col'] H1%elem_of_coordinates H2%elem_of_coordinates E. cbn [fst snd] in E.
  destruct (selected_index _ _ _ _ _ Hs (proj1 H1) (proj2 H1)) as [_ E1].
  destruct (selected_index _ _ _ _ _ Hs (proj1 H2) (proj2 H2)) as [_ E2]. rewrite E1, E2 in E.
  unfold selection_ok in Hs. apply row_major in E as [-> ->]; (done || lia).
Qed.
(** The cells a paste fills, without values. *)
Lemma elem_of_paste_row width r values row t :
  t ∈ paste_row width r values row ->
  exists col line, 0 <= col < width - first_col r /\ zlookup values row = Some line /\ zlookup line col = Some t.2
    /\ t.1 = u32 ((first_row r + row) * width + first_col r + col).
Proof.
  unfold paste_row. cbv zeta. destruct (zlookup values row) as [line|] eqn:El; [|by intros ?%not_elem_of_nil].
  intros (col & Hin & Hcol%elem_of_seqZ)%list_elem_of_bind.
  destruct (zlookup line col) as [v|] eqn:Ev; [|by apply not_elem_of_nil in Hin].
  apply list_elem_of_singleton in Hin as ->. exists col, line. split_and!; (done || lia).
Qed.
Lemma elem_of_paste width height r values t :
  t ∈ paste_cells width height r values ->
  exists row, 0 <= row < height - first_row r /\ t ∈ paste_row width r values row.
Proof. intros (row & Hin & Hrow%elem_of_seqZ)%list_elem_of_bind. exists row. split; [lia|done]. Qed.
Lemma paste_index width height r row col :
  selection_ok width (width * height) r -> 0 <= row < height - first_row r -> 0 <= col < width - first_col r ->
  0 <= (first_row r + row) * width + first_col r + col < width * height
  /\ u32 ((first_row r + row) * width + first_col r + col) = (first_row r + row) * width + first_col r + col.
Proof.
  unfold selection_ok. intros (Hw & Hc & _ & Hr & _ & Hf & _) Hrow Hcol.
  assert (0 <= (first_row r + row) * width + first_col r + col < width * height) as Hi by nia.
  split; [done|]. apply u32_small. unfold u32_ok, kU32Max in *. lia.
Qed.
Lemma fmap_bind {A B C} (f : B -> C) (g : A -> list B) l : f <$> (l ≫= g) = l ≫= fun x => f <$> g x.
Proof. induction l as [|x l IH]; [done|]. csimpl. by rewrite fmap_app, IH. Qed.
(** A pasted cell's index determines its place. *)
Lemma paste_place width height r row col row' col' :
  selection_ok width (width * height) r -> 0 <= row < height - first_row r -> 0 <= row' < height - first_row r ->
  0 <= col < width - first_col r -> 0 <= col' < width - first_col r ->
  u32 ((first_row r + row) * width + first_col r + col) = u32 ((first_row r + row') * width + first_col r + col') ->
  row = row' /\ col = col'.
Proof.
  intros Hs Hr Hr' Hc Hc' E.
  rewrite (proj2 (paste_index _ _ _ _ _ Hs Hr Hc)), (proj2 (paste_index _ _ _ _ _ Hs Hr' Hc')) in E.
  unfold selection_ok in Hs. destruct (row_major width (first_row r + row) (first_col r + col) (first_row r + row')
    (first_col r + col')); lia.
Qed.
Lemma paste_row_NoDup width height r values row :
  selection_ok width (width * height) r -> 0 <= row < height - first_row r -> NoDup (fst <$> paste_row width r values row).
Proof.
  intros Hs Hrow. unfold paste_row. cbv zeta. destruct (zlookup values row) as [line|]; [|constructor].
  rewrite fmap_bind. apply NoDup_bind; [|intros col _|apply NoDup_seqZ].
  - intros col col' y Hc%elem_of_seqZ Hc'%elem_of_seqZ. cbn. destruct (zlookup line col), (zlookup line col'); cbn;
      try (by intros ?%not_elem_of_nil); try (by intros _ ?%not_elem_of_nil).
    intros ->%list_elem_of_singleton E%list_elem_of_singleton.
    destruct (paste_place width height r row col row col'); (done || lia).
  - cbn. destruct (zlookup line col); cbn; [apply NoDup_singleton|constructor].
Qed.
Lemma paste_NoDup width height r values :
  selection_ok width (width * height) r -> NoDup (fst <$> paste_cells width height r values).
Proof.
  intros Hs. unfold paste_cells. cbv zeta. rewrite fmap_bind.
  apply NoDup_bind; [|intros row Hrow%elem_of_seqZ; cbn; eapply paste_row_NoDup; [done|lia]|apply NoDup_seqZ].
  intros row row' y Hr%elem_of_seqZ Hr'%elem_of_seqZ. cbn.
  intros (t & -> & (c & l & Hc & _ & _ & E)%elem_of_paste_row)%list_elem_of_fmap
    (t' & Ht & (c' & l' & Hc' & _ & _ & E')%elem_of_paste_row)%list_elem_of_fmap.
  destruct (paste_place width height r row c row' c' Hs) as [? _]; [lia..|congruence|done].
Qed.
End selections.

(** ** What an edit writes *)
Section edits.
Context `{Numeric}.
(** A write of [r]: a cell of the edit, at its address, with the encoding of a finite
    value clamped to the definition's limits, different from the bytes there. *)
Definition write_ok (rom : DefinitionBytes) (spec : MapElementSpec) (limits : Limits) (cell : Z -> Prop) (w : CellWrite) : Prop :=
  cell (cw_index w) /\ cw_byte_address w = ElementByteAddress spec (cw_index w)
  /\ (exists v, isfinite v = true /\ EncodeValue spec (clamp limits v) = Ok (cw_bytes w))
  /\ exists current, At rom (cw_byte_address w) (zlen (cw_bytes w)) = Some current /\ current <> cw_bytes w.
Definition patch_ok (rom : DefinitionBytes) (spec : MapElementSpec) (cell : Z -> Prop) (r : NumericEditResult) : Prop :=
  exists limits, LimitsFor spec = Ok limits
    /\ NoDup (cw_index <$> er_writes r) /\ Forall (write_ok rom spec limits cell) (er_writes r)
    /\ (er_no_change r = RNone <-> er_writes r <> []).
Lemma cell_write_index rom spec limits t w : cell_write rom spec limits t = Some w -> cw_index w = t.1.
Proof. unfold cell_write. repeat case_match; by intros [= <-]. Qed.
Lemma cell_writes_NoDup rom spec limits ts :
  NoDup (fst <$> ts) -> NoDup (cw_index <$> omap (cell_write rom spec limits) ts).
Proof.
  induction ts as [|t ts IH]; [done|]. rewrite fmap_cons, NoDup_cons. intros [Hn Hd]. cbn.
  destruct (cell_write _ _ _ t) as [w|] eqn:E; [|by apply IH]. cbn. constructor; [|by apply IH].
  rewrite (cell_write_index _ _ _ _ _ E). intros (w' & Ew & (t' & Ht & Hw)%list_elem_of_omap)%list_elem_of_fmap.
  apply Hn, list_elem_of_fmap. exists t'. by rewrite <- (cell_write_index _ _ _ _ _ Hw).
Qed.
Lemma cell_write_ok rom spec limits (cell : Z -> Prop) t w :
  encodable rom spec limits t -> cell t.1 -> cell_write rom spec limits t = Some w -> write_ok rom spec limits cell w.
Proof.
  intros (Hf & enc & cur & E & Ea) Hc. unfold cell_write, write_ok. rewrite E, Ea. case_bool_decide as Hd; [done|].
  intros [= <-]. cbn [cw_index cw_byte_address cw_bytes]. split_and!; [done|done|by exists t.2|by exists cur].
Qed.
Lemma appended_patch_ok rom spec limits cell ts r :
  LimitsFor spec = Ok limits -> NoDup (fst <$> ts) -> Forall (fun t => cell t.1) ts ->
  all_appended rom spec limits ts nothing_yet r -> patch_ok rom spec cell (finished r).
Proof.
  intros El Hd Hc Ha. pose proof Ha as (He & _ & _). destruct (finished_spec _ _ _ _ _ Ha) as [Ew Hr].
  exists limits. rewrite Ew. split_and!; [done|by apply cell_writes_NoDup| |by rewrite <- Ew].
  apply Forall_forall. intros w (t & Ht & Hw)%list_elem_of_omap. rewrite Forall_forall in He, Hc.
  by eapply cell_write_ok; [apply He| |done]; [|apply Hc].
Qed.
(** The cells of a selection by index, and the rectangle a paste can reach. *)
Definition selected (width : Z) (r : SelectionRange) (i : Z) : Prop :=
  exists row col, first_row r <= row <= last_row r /\ first_col r <= col <= last_col r /\ i = row * width + col.
Definition pasted (width height : Z) (r : SelectionRange) (i : Z) : Prop :=
  exists row col, first_row r <= row < height /\ first_col r <= col < width /\ i = row * width + col.
Lemma BuildPatch_patch_ok rom spec width cells range candidate r :
  0 <= width -> BuildPatch rom spec width cells range candidate = Ok r ->
  selection_ok width (zlen cells) range /\ patch_ok rom spec (selected width range) r.
Proof.
  intros Hw. unfold BuildPatch.
  intros (limits & ([] & Hs & El)%result_bind_Ok & (r0 & Eb & [= <-])%result_bind_Ok)%result_bind_Ok.
  apply ValidateSelection_iff in Hs; [|done|apply zlen_nonneg]. split; [done|].
  destruct (build_spec _ _ _ _ _ _ _ _ _ Eb) as (ts & HF & Ha).
  assert (fst <$> ts = (fun rc => u32 (rc.1 * width + rc.2)) <$> coordinates range) as Ei.
  { clear -HF. induction HF as [|rc t rcs ts [E _] _ IH]; [done|]. by rewrite !fmap_cons, IH, E. }
  eapply appended_patch_ok; [done|rewrite Ei; by eapply coordinates_indices| |done].
  apply Forall_forall. intros t Ht. apply (list_elem_of_fmap_2 fst) in Ht. rewrite Ei in Ht.
  apply list_elem_of_fmap in Ht as ([row col] & -> & [Hrow Hcol]%elem_of_coordinates).
  exists row, col. split_and!; [lia..|]. by apply (selected_index width (zlen cells) range).
Qed.
Lemma CalculatePaste_patch_ok rom spec width height range values r :
  u32_ok width -> u32_ok height -> CalculatePaste rom spec width height range values = Ok r ->
  selection_ok width (width * height) range /\ patch_ok rom spec (pasted width height range) r.
Proof.
  intros Hw Hh. pose proof (u32_product _ _ Hw Hh) as Hp. unfold CalculatePaste.
  assert (u64 (width * height) = width * height) as -> by (unfold u64, kU64Max in *; apply Z.mod_small; lia).
  intros (limits & ([] & Hs & El)%result_bind_Ok & (r0 & Eb & [= <-])%result_bind_Ok)%result_bind_Ok.
  apply ValidateSelection_iff in Hs; [|unfold u32_ok in *; lia|lia]. split; [done|].
  pose proof (paste_spec rom spec limits (paste_cells width height range values) nothing_yet) as Ha. rewrite Eb in Ha.
  eapply appended_patch_ok; [done|by apply paste_NoDup| |done].
  apply Forall_forall. intros t (row & Hrow & (col & line & Hcol & _ & _ & E)%elem_of_paste_row)%elem_of_paste.
  pose proof Hs as (_ & _ & _ & ? & _ & ? & _).
  exists (first_row range + row), (first_col range + col). split_and!; [lia..|].
  rewrite E, (proj2 (paste_index _ _ _ _ _ Hs Hrow Hcol)). lia.
Qed.
End edits.

(** ** Encoding and decoding one element *)
Section encoding.
Context `{HN : Numeric} {HDS : DoubleSpec} {HNS : NumericSpec}.
Lemma evaluated_finite e x v : evaluated e x = Ok v -> isfinite v = true.
Proof.
  unfold evaluated. destruct (EvaluateChecked_answers (chars e) x) as (r & -> & Hr). cbn. intros ->. by apply Hr.
Qed.
(** Scanning a formula ends within its length. *)
Lemma uses_loop_ends fuel formula b :
  (length formula < fuel)%nat -> uses_loop fuel formula b <> Fail kInternal "out of fuel".
Proof.
  revert formula b. induction fuel as [|fuel IH]; intros formula b Hl; [lia|]. cbn [uses_loop].
  destruct formula as [|c rest]; [discriminate|]. cbn [length] in Hl.
  destruct (c =? "x")%char; [apply IH; lia|]. destruct (digit_or_point c).
  - destruct (from_chars (c :: rest)) as [[v n]|] eqn:E; [|discriminate].
    destruct (negb _); [discriminate|]. apply IH. apply from_chars_range in E. rewrite length_drop. cbn [length] in *. lia.
  - destruct (operator_token c); [apply IH; lia|discriminate].
Qed.
Lemma UsesCurrentValue_ends formula : UsesCurrentValue formula <> Fail kInternal "out of fuel".
Proof. unfold UsesCurrentValue. destruct (forallb _ _); [discriminate|]. apply uses_loop_ends. lia. Qed.
(** An integer storage type's reading of the raw bits. *)
Definition stored_integer (t : option StorageType) (raw : Z) : Z :=
  if IsUnsignedStorage t then raw else SignExtend raw (StorageByteSize t).
Definition integer_storage (t : option StorageType) : Prop :=
  t <> None /\ t <> Some kBloblist /\ t <> Some kFloat.
Lemma stored_integer_roundtrip t n :
  integer_storage t -> fst (storage_bounds t) <= n <= snd (storage_bounds t) ->
  stored_integer t (n mod 2 ^ (8 * StorageByteSize t)) = n.
Proof.
  intros (H1 & H2 & H3). unfold stored_integer, storage_bounds. pose proof (StorageByteSize_range t) as Hw.
  assert (2 ^ (8 * StorageByteSize t) = 2 * 2 ^ (8 * StorageByteSize t - 1)) as Ep.
  { rewrite <- Z.pow_succ_r by lia. f_equal. lia. }
  rewrite (Z.mul_comm (StorageByteSize t) 8). pose proof (Z.pow_pos_nonneg 2 (8 * StorageByteSize t - 1)).
  destruct (IsUnsignedStorage t); cbn [fst snd]; intros Hn; [apply Z.mod_small; lia|].
  rewrite SignExtend_spec by (done || (apply Z.mod_pos_bound; lia)).
  destruct (decide (0 <= n)).
  - rewrite Z.mod_small by lia. by rewrite (proj2 (Z.ltb_lt _ _)) by lia.
  - replace (n mod 2 ^ (8 * StorageByteSize t)) with (n + 2 ^ (8 * StorageByteSize t))
      by (apply Z.mod_unique with (-1); lia).
    rewrite (proj2 (Z.ltb_ge _ _)) by lia. lia.
Qed.
Lemma bit_width t : StorageByteSize t * 8 ∈ [8; 16; 24; 32].
Proof.
  pose proof (StorageByteSize_range t). set (w := StorageByteSize t) in *.
  assert (w = 1 \/ w = 2 \/ w = 3 \/ w = 4) as [-> | [-> | [-> | ->]]] by lia; set_solver.
Qed.
(** What the encoder stores. *)
Lemma EncodeValue_spec spec v bs :
  EncodeValue spec v = Ok bs ->
  sp_storage_type spec <> None /\ sp_storage_type spec <> Some kBloblist /\ sp_start_position spec <> 0
  /\ sp_interval spec <> 0 /\ isfinite v = true
  /\ exists e, evaluated (sp_to_byte spec) v = Ok e /\
       if bool_decide (sp_storage_type spec = Some kFloat) then bs = WriteRawElement spec (to_float_bits e)
       else bs = WriteRawElement spec (to_Z (fround e))
            /\ fst (storage_bounds (sp_storage_type spec)) <= to_Z (fround e) <= snd (storage_bounds (sp_storage_type spec)).
Proof.
  unfold EncodeValue. cbv zeta. do 2 (case_bool_decide; [done|]). cbn [orb].
  destruct (Z.eqb_spec (sp_start_position spec) 0), (Z.eqb_spec (sp_interval spec) 0), (isfinite v) eqn:Ev; cbn [orb negb]; try done.
  destruct (evaluated _ v) as [e|] eqn:Ee; [|done]. intros Hb. split_and!; try done. exists e. split; [done|].
  case_bool_decide; [by destruct (flt _ _); simplify_eq|].
  destruct (flt (fround e) _) eqn:Elo; [done|]. destruct (flt _ (fround e)) eqn:Ehi in Hb; [done|]. cbn [orb] in Hb.
  injection Hb as <-. split; [done|]. pose proof (evaluated_finite _ _ _ Ee) as Hf. pose proof (bit_width (sp_storage_type spec)) as Hw.
  unfold storage_bounds. destruct (IsUnsignedStorage _); cbn [fst snd].
  - pose proof (to_Z_unsigned _ e Hw Hf Elo Ehi). lia.
  - pose proof (to_Z_signed _ e Hw Hf Elo Ehi). lia.
Qed.
Lemma zlen_EncodeValue spec v bs : EncodeValue spec v = Ok bs -> zlen bs = StorageByteSize (sp_storage_type spec) /\ bytes_ok bs.
Proof.
  intros (_ & _ & _ & _ & _ & e & _ & Hb)%EncodeValue_spec.
  case_bool_decide; [|destruct Hb as [Hb _]]; subst bs; split; apply zlen_WriteRawElement || apply bytes_ok_WriteRawElement.
Qed.
Lemma decoded_number_integer t raw : t <> Some kFloat -> decoded_number t raw = of_Z (stored_integer t raw).
Proof. intros Ht. unfold decoded_number, stored_integer. rewrite bool_decide_eq_false_2 by done. by destruct (IsUnsignedStorage t). Qed.

(** Encoding is faithful to storage. A value the encoder accepts is stored in as
    many bytes as its storage type has, and the decoder's reading of those bytes, in
    the run's byte order, is the rounded result of the to-byte expression, which then
    lies in the storage type's range; for float storage it is that result cast to
    [float]. *)
Theorem encoded_value_reads_back spec v bs :
  EncodeValue spec v = Ok bs ->
  let t := sp_storage_type spec in
  let w := StorageByteSize t in
  zlen bs = w /\ bytes_ok bs
  /\ exists e, evaluated (sp_to_byte spec) v = Ok e /\
       let raw := read_element (little t (sp_endian spec)) bs 0 w in
       if bool_decide (t = Some kFloat) then decoded_number t raw = of_float_bits (u32 (to_float_bits e))
       else decoded_number t raw = of_Z (to_Z (fround e))
            /\ fst (storage_bounds t) <= to_Z (fround e) <= snd (storage_bounds t).
Proof.
  intros E. cbv zeta. destruct (zlen_EncodeValue _ _ _ E) as [Hl Hb]. split; [done|]. split; [done|].
  destruct (EncodeValue_spec _ _ _ E) as (H1 & H2 & _ & _ & _ & e & Ee & Hs). exists e. split; [done|].
  case_bool_decide as Hf.
  - subst bs. rewrite WriteRawElement_reads. unfold decoded_number. rewrite bool_decide_eq_true_2 by done. by rewrite Hf.
  - destruct Hs as [-> Hr]. split; [|done]. rewrite WriteRawElement_reads, decoded_number_integer by done. f_equal.
    by apply stored_integer_roundtrip.
Qed.
(** A clamped value respects the definition's limits. *)
Lemma clamp_within spec l v :
  LimitsFor spec = Ok l ->
  (forall low, l_minimum l = Some low -> flt (clamp l v) low = false)
  /\ (forall high, l_maximum l = Some high -> flt high (clamp l v) = false).
Proof.
  unfold LimitsFor. intros (mn & _ & (mx & _ & E)%result_bind_Ok)%result_bind_Ok. unfold clamp, fmax, fmin.
  destruct mn as [low|], mx as [high|]; [destruct (flt high low) eqn:Hlh; [done|]|..]; injection E as <-;
    cbn [l_minimum l_maximum]; split; intros x [= <-]; repeat case_match; (done || apply flt_irrefl).
Qed.
End encoding.

(** ** What a decode reads *)
Section decoding.
Context `{Numeric}.
(** A window of bytes inside the 64-bit addresses. *)
Definition rom_wf (rom : DefinitionBytes) : Prop :=
  0 <= db_start rom /\ db_start rom + zlen (db_data rom) < kU64Max /\ bytes_ok (db_data rom).
Lemma At_iff rom a n bs :
  0 <= n -> At rom a n = Some bs <->
  db_start rom <= a /\ a + n <= db_start rom + zlen (db_data rom) /\ bs = subspan (db_data rom) (a - db_start rom) n.
Proof.
  intros Hn. unfold At. destruct (Z.ltb_spec a (db_start rom)); [split; [done|lia]|]. cbv zeta.
  destruct (Z.ltb_spec (zlen (db_data rom)) (a - db_start rom)); cbn [orb]; [split; [done|lia]|].
  destruct (Z.ltb_spec (zlen (db_data rom) - (a - db_start rom)) n); [split; [done|lia]|].
  split; [intros [= <-]; split_and!; (done || lia)|by intros (_ & _ & ->)].
Qed.
Lemma At_inside rom a n bs b k :
  At rom a n = Some bs -> 0 <= n -> 0 <= k -> a <= b -> b + k <= a + n -> At rom b k = Some (subspan bs (b - a) k).
Proof.
  intros E Hn Hk Hb He. apply At_iff in E as (Ha & Hl & ->); [|done]. apply At_iff; [done|]. split_and!; [lia..|].
  rewrite subspan_subspan by lia. f_equal. lia.
Qed.
Lemma read_element_subspan b l o w :
  bytes_ok l -> 0 <= o -> 1 <= w <= 4 -> o + w <= zlen l -> read_element b l o w = read_element b (subspan l o w) 0 w.
Proof.
  intros Hb Ho Hw Hl. unfold read_element. assert (zlen (subspan l o w) = w) as Hs by (rewrite zlen_subspan; lia). destruct b.
  - rewrite !ReadULe_val by (auto using bytes_ok_subspan || lia). by rewrite (subspan_full (subspan l o w)) by lia.
  - apply ReadUBe_ext; try lia. intros i Hi. by rewrite zget_subspan by lia.
Qed.
(** The decoder on one element's own bytes. *)
Definition decode_bytes (run : ElementRun) (index : Z) (bs : list Z) : NumericCell :=
  let t := run_storage_type run in
  let raw := read_element (little t (run_endian run)) bs 0 (StorageByteSize t) in
  match (if run_is_selectable run then Ok zero else evaluated (run_from_byte run) (decoded_number t raw)) with
  | Ok value => Ok value
  | Err detail => Fail kInvalidConfig ("cell " +:+ fmt_d index +:+ ": " +:+ detail)
  end.
Definition run_wf (run : ElementRun) : Prop :=
  0 <= run_address run <= kU64Max /\ u32_ok (run_count run) /\ u32_ok (run_start_position run) /\ u32_ok (run_interval run).
Definition element_address (run : ElementRun) (j : Z) : Z :=
  exact_address (run_address run) (run_start_position run) (run_interval run) (StorageByteSize (run_storage_type run)) j.
Lemma decode_cell_bytes window run j :
  run_wf run -> bytes_ok window -> 1 <= run_start_position run -> 0 <= j ->
  element_address run j + StorageByteSize (run_storage_type run) <= run_address run + zlen window ->
  run_address run + zlen window <= kU64Max ->
  decode_cell window run j
  = decode_bytes run j (subspan window (element_address run j - run_address run) (StorageByteSize (run_storage_type run))).
Proof.
  intros (Ha & _ & _ & Hi) Hb Hp Hj Hend Hmax. pose proof (StorageByteSize_range (run_storage_type run)) as Hw.
  unfold decode_cell, decode_bytes. cbv zeta. fold (little (run_storage_type run) (run_endian run)).
  set (w := StorageByteSize _) in *. set (t := run_storage_type run) in *.
  assert (run_address run + (run_start_position run - 1) * w + j * w * run_interval run = element_address run j) as ->.
  { unfold element_address, exact_address. fold t w. rewrite Z.max_r by lia. lia. }
  assert (run_address run <= element_address run j) as Hge.
  { unfold element_address, exact_address. fold t w. unfold u32_ok in Hi. assert (0 <= j * (w * run_interval run)) by nia. nia. }
  unfold u64, kU64Max in *. rewrite (Z.mod_small (element_address run j)) by lia.
  rewrite (Z.mod_small (element_address run j - run_address run)) by lia.
  fold (read_element (little t (run_endian run)) window (element_address run j - run_address run) w).
  by rewrite (read_element_subspan _ window) by (done || lia).
Qed.
(** A decoded run: one cell per element, read from that element's bytes. *)
Lemma DecodeNumericRun_cells rom run cells :
  rom_wf rom -> run_wf run -> DecodeNumericRun rom run = Ok cells ->
  1 <= run_start_position run /\ 1 <= run_interval run
  /\ run_storage_type run <> None /\ run_storage_type run <> Some kBloblist
  /\ zlen cells = run_count run
  /\ exact_end (run_address run) (run_start_position run) (run_interval run) (StorageByteSize (run_storage_type run))
       (run_count run) < kU64Max
  /\ forall j, 0 <= j < run_count run ->
       exists bs, At rom (element_address run j) (StorageByteSize (run_storage_type run)) = Some bs
         /\ zlookup cells j = Some (decode_bytes run j bs).
Proof.
  intros (Hs & Hl & Hb) Hr. pose proof Hr as (Ha & Hc & Hp & Hi). unfold DecodeNumericRun. cbv zeta.
  do 2 (case_bool_decide; [done|]). cbn [orb].
  destruct (Z.eqb_spec (run_start_position run) 0), (Z.eqb_spec (run_interval run) 0); cbn [orb]; try done.
  pose proof (StorageByteSize_range (run_storage_type run)) as Hw. set (w := StorageByteSize _) in *.
  rewrite ElementRunEnd_exact by (done || (unfold u32_ok; lia)).
  set (end_ := exact_end _ _ _ _ _). unfold u32_ok in *.
  assert (run_address run <= end_) as Hge.
  { subst end_. unfold exact_end, exact_address. case_match; [lia|].
    assert (0 <= (run_count run - 1) * (w * run_interval run)) by nia. nia. }
  assert (u64 (Z.min end_ kU64Max - run_address run) = Z.min end_ kU64Max - run_address run) as ->
    by (unfold u64, kU64Max in *; apply Z.mod_small; lia).
  destruct (At _ _ _) as [win|] eqn:Ew; [|done]. intros [= <-].
  pose proof Ew as Hat. apply At_iff in Hat as (Hs1 & Hs2 & Hwin); [|lia].
  assert (end_ < kU64Max) as Hend by lia. rewrite Z.min_l in * by lia.
  split_and!; try lia; try done.
  { unfold zlen. rewrite length_map, length_seqZ. lia. }
  intros j Hj.
  pose proof (exact_element_inside (run_address run) (run_start_position run) (run_interval run) w (run_count run) j
    ltac:(lia) ltac:(lia) Hj) as [Hlo Hhi]. fold end_ in Hhi.
  change (exact_address _ _ _ _ j) with (element_address run j) in Hlo, Hhi.
  assert (zlen win = end_ - run_address run) as Hwl by (rewrite Hwin, zlen_subspan; lia).
  exists (subspan win (element_address run j - run_address run) w). split; [apply (At_inside _ _ _ _ _ _ Ew); lia|].
  unfold zlookup. rewrite decide_True by lia. change (map ?f ?l) with (f <$> l).
  rewrite list_lookup_fmap, lookup_seqZ_lt, Z2Nat.id by lia. cbn [fmap option_fmap option_map]. f_equal. rewrite Z.add_0_l.
  apply decode_cell_bytes; [done|rewrite Hwin; by apply bytes_ok_subspan|lia..].
Qed.
End decoding.
Definition sample_spec : MapElementSpec := EditSpec (ResolveMapElement sample_definition (sample_calibration 0x10) kMapBody).
(** 12.25 psi is stored as 25, rounded up from 24.5. *)
Lemma encoded_value_reads_back_witness :
  let v := match ParseFiniteNumber (chars "12.25") with Ok v => v | Err _ => zero end in
  EncodeValue sample_spec v = Ok [0; 25]
  /\ decoded_number (Some kUint16) (read_element (little (Some kUint16) "big") [0; 25] 0 2) = of_Z 25.
Proof.
  cbv zeta. set (v := match _ with Ok v => v | Err _ => _ end).
  assert (EncodeValue sample_spec v = Ok [0; 25]) as E by (vm_compute; reflexivity). split; [exact E|].
  destruct (encoded_value_reads_back (HDS := binary64_spec) (HNS := binary64_numeric_spec) sample_spec v [0; 25] E)
    as (_ & _ & e & Ee & Hd & _).
  assert (to_Z (fround e) = 25) as Et.
  { assert (evaluated (sp_to_byte sample_spec) v = Ok e) as Ev by exact Ee.
    destruct (evaluated (sp_to_byte sample_spec) v) as [e'|] eqn:Eq in Ev; [|discriminate Ev].
    injection Ev as <-. vm_compute in Eq. injection Eq as <-. vm_compute. reflexivity. }
  rewrite Et in Hd. exact Hd.
Defined.
