(* ===== verification/CalibrationSession.v ===== *)
(** * CalibrationSession: open calibrations and the edits on them

    [src/backend/calibration/session]: [calibration_session], [calibration_workspace],
    [numeric_target_internal], [map_operations] and [rom_save]. A session owns the
    ROM's memory image and the dirty flag; a workspace owns the open sessions; an
    operation names a session by its identifier and returns the workspace it leaves. *)
From S2P Require Import Prelude Bytes.
From S2P Require Import MemoryMap MemoryImage.
From S2P Require Import Ports.
From S2P Require Import Expression Numeric.
From S2P Require Import DefinitionModel.
From S2P Require Import CalibrationLayout.
From S2P Require Import NumericEdit.

(** ** [CalibrationSession] *)
Inductive RomOrigin : Set := OFile | OEcuRead.
Record RomSource := { src_display_name : string; src_path : string; src_origin : RomOrigin }.
Record ResolvedDefinition := { res_format : DefinitionFormat; res_id : string; res_definition : RomDefinition }.
Record RomProtocolInfo := {
  pi_flash_method : string;
  pi_checksum_module : string;
  pi_mcu_type : string;
  pi_kernel_path : string;
  pi_kernel_start_address : string;
  pi_rom_id : string;
  pi_file_size_label : string
}.
Record SessionContents := {
  c_source : RomSource;
  c_image : MemoryImage;
  c_definition : option ResolvedDefinition;
  c_protocol : RomProtocolInfo
}.
Record CalibrationSession := {
  id_ : Z;
  source_ : RomSource;
  image_ : MemoryImage;
  definition_ : option ResolvedDefinition;
  protocol_ : RomProtocolInfo;
  dirty_ : bool
}.
Definition new_session (id : Z) (contents : SessionContents) : CalibrationSession :=
  {| id_ := id; source_ := c_source contents; image_ := c_image contents; definition_ := c_definition contents;
     protocol_ := c_protocol contents; dirty_ := false |}.
Definition File (s : CalibrationSession) : list Z := file_ (image_ s).
Definition SetProtocol (s : CalibrationSession) (protocol : RomProtocolInfo) : CalibrationSession :=
  {| id_ := id_ s; source_ := source_ s; image_ := image_ s; definition_ := definition_ s; protocol_ := protocol;
     dirty_ := dirty_ s |}.
(** What follows the last slash. *)
Fixpoint after_slash (path name : list ascii) : list ascii :=
  match path with
  | [] => name
  | c :: path => if (c =? "/")%char then after_slash path path else after_slash path name
  end.
Definition basename (path : string) : string :=
  let name := String.string_of_list_ascii (after_slash (chars path) (chars path)) in
  if String.eqb name "" then "default.bin" else name.
Definition MarkSaved (s : CalibrationSession) (path : string) : CalibrationSession :=
  {| id_ := id_ s;
     source_ := {| src_display_name := basename path; src_path := path; src_origin := src_origin (source_ s) |};
     image_ := image_ s; definition_ := definition_ s; protocol_ := protocol_ s; dirty_ := false |}.
(** One past the highest definition address any block holds. *)
Definition DefinitionSize (m : MemoryMap) : Z :=
  let base := definition_base_ m in
  u32 (fold_left (fun end_ b => Z.max end_ (End (range b))) (blocks_ m) base - base).
Definition render_block (image : MemoryImage) (start end_ : Z) (window : list Z) (b : MemoryBlock) : list Z :=
  let from := Z.max (Start (range b)) start in
  let to := Z.min (End (range b)) end_ in
  if to <=? from then window
  else
    match Make from (to - from) with
    | None => window
    | Some r =>
        match Render image r with
        | Ok rendered => splice window (from - start) (view_data rendered)
        | Err _ => window
        end
    end.
Definition RenderWindow (image : MemoryImage) (start end_ : Z) : list Z :=
  fold_left (render_block image start end_) (blocks_ (map_ image)) (zrepeat (end_ - start) 0).
Definition outside_view (what : string) (size offset view_size : Z) : string :=
  what +:+ " of " +:+ fmt_d size +:+ " bytes at 0x" +:+ fmt_x offset +:+ " is outside the " +:+ fmt_d view_size
  +:+ "-byte image".
Definition Read (s : CalibrationSession) (offset size : Z) : result Error (list Z) :=
  let view_size := DefinitionSize (map_ (image_ s)) in
  if (view_size <? offset) || (view_size - offset <? size) then
    Fail kInvalidConfig (outside_view "read" size offset view_size)
  else
    let start := u32 (definition_base_ (map_ (image_ s)) + u32 offset) in
    Ok (RenderWindow (image_ s) start (u32 (start + u32 size))).
(** The flash address of an offset inside the view; the code dereferences it. *)
Definition flash_start (s : CalibrationSession) (offset : Z) : Z :=
  default 0 (ToFlashAddress (map_ (image_ s)) (u32 offset)).
Definition CheckWrite (s : CalibrationSession) (offset size : Z) : Status :=
  let view_size := DefinitionSize (map_ (image_ s)) in
  if (view_size <? offset) || (view_size - offset <? size) then
    Fail kInvalidConfig (outside_view "write" size offset view_size)
  else if size =? 0 then Ok tt
  else
    match MemoryImage.CheckWrite (image_ s) (flash_start s offset) (u32 size) with
    | Err e => Fail kInvalidConfig ("write of " +:+ fmt_d size +:+ " bytes at 0x" +:+ fmt_x offset +:+ ": "
                                    +:+ MemoryMap.detail e)
    | Ok _ => Ok tt
    end.
Definition with_image (s : CalibrationSession) (image : MemoryImage) (dirty : bool) : CalibrationSession :=
  {| id_ := id_ s; source_ := source_ s; image_ := image; definition_ := definition_ s; protocol_ := protocol_ s;
     dirty_ := dirty |}.
Definition WriteBytes (s : CalibrationSession) (offset : Z) (data : list Z) : CalibrationSession * Status :=
  match CheckWrite s offset (zlen data) with
  | Err e => (s, Err e)
  | Ok _ =>
      match data with
      | [] => (with_image s (image_ s) true, Ok tt)
      | _ =>
          match Write (image_ s) (flash_start s offset) data with
          | (image, Ok _) => (with_image s image true, Ok tt)
          | (image, Err e) => (with_image s image (dirty_ s), Fail kInvalidConfig (MemoryMap.detail e))
          end
      end
  end.

(** ** [CalibrationWorkspace]

    The opener's outcome is an argument of the two opening operations. *)
Record RomOpenOutcome := { o_contents : SessionContents; o_vehicle_selected : bool }.
Record OpenedSession := { os_id : Z; os_vehicle_selected : bool }.
Record CalibrationWorkspace := { next_id_ : Z; sessions_ : list CalibrationSession }.
Definition new_workspace : CalibrationWorkspace := {| next_id_ := 1; sessions_ := [] |}.
Definition Insert (ws : CalibrationWorkspace) (outcome : RomOpenOutcome) : CalibrationWorkspace * OpenedSession :=
  let id := next_id_ ws in
  ({| next_id_ := u64 (id + 1); sessions_ := sessions_ ws ++ [new_session id (o_contents outcome)] |},
   {| os_id := id; os_vehicle_selected := o_vehicle_selected outcome |}).
Definition OpenFile (ws : CalibrationWorkspace) (opened : result Error RomOpenOutcome)
    : CalibrationWorkspace * result Error OpenedSession :=
  match opened with
  | Err e => (ws, Err e)
  | Ok outcome => let '(ws, opened) := Insert ws outcome in (ws, Ok opened)
  end.
Definition AdoptReadImage (ws : CalibrationWorkspace) (adopted : result Error RomOpenOutcome)
    : CalibrationWorkspace * result Error OpenedSession :=
  match adopted with
  | Err e => (ws, Err e)
  | Ok outcome => let '(ws, opened) := Insert ws outcome in (ws, Ok opened)
  end.
Fixpoint erase_id (id : Z) (sessions : list CalibrationSession) : option (list CalibrationSession) :=
  match sessions with
  | [] => None
  | s :: sessions => if id_ s =? id then Some sessions else option_map (cons s) (erase_id id sessions)
  end.
Definition Close (ws : CalibrationWorkspace) (id : Z) : CalibrationWorkspace * Status :=
  match erase_id id (sessions_ ws) with
  | None => (ws, Fail kInvalidConfig ("no open calibration session " +:+ fmt_d id))
  | Some sessions => ({| next_id_ := next_id_ ws; sessions_ := sessions |}, Ok tt)
  end.
Definition FindSession (ws : CalibrationWorkspace) (id : Z) : option CalibrationSession :=
  List.find (fun s => id_ s =? id) (sessions_ ws).
Definition Ids (ws : CalibrationWorkspace) : list Z := map id_ (sessions_ ws).
(** The session an operation was given a reference to, after the operation. *)
Fixpoint replace_id (s' : CalibrationSession) (sessions : list CalibrationSession) : list CalibrationSession :=
  match sessions with
  | [] => []
  | s :: sessions => if id_ s =? id_ s' then s' :: sessions else s :: replace_id s' sessions
  end.
Definition update_session (ws : CalibrationWorkspace) (s' : CalibrationSession) : CalibrationWorkspace :=
  {| next_id_ := next_id_ ws; sessions_ := replace_id s' (sessions_ ws) |}.

(** ** Operations on maps *)
Record NumericSelection := { ns_target : NumericTarget; ns_elements : SelectionRange }.
Inductive NumericEditOperation : Type :=
| IncrementEdit (step : IncrementStep)
| AssignmentEdit (expression : string)
| InterpolationEdit (mode : InterpolationMode)
| PasteEdit (rows : list (list string)).
Inductive NotApplicableReason : Set :=
  kClosedSession | kNoDefinition | kUnknownMap | kUnavailableTarget | kUnknownSelection.
Inductive NumericEditOutcome : Type :=
| NumericEditChanged
| NumericEditUnchanged (reason : NoChangeReason)
| EditNotApplicable (reason : NotApplicableReason).
Inductive NumericCopyOutcome : Type :=
| NumericCopyText (text : list ascii)
| NumericCopyInvalidCell (row col : Z) (detail : string)
| CopyNotApplicable (reason : NotApplicableReason).
Record MapRef := { ref_session : Z; ref_map_index : Z }.
Inductive SelectableEditOutcome : Type :=
| SelectableEditChanged
| SelectableEditUnchanged
| SelectableNotApplicable (reason : NotApplicableReason).

Section operations.
Context `{Numeric}.
Definition DecodeMap (s : CalibrationSession) (map_index : Z) : result Error DecodedMap :=
  match definition_ s with
  | None => Fail kInvalidConfig "calibration session has no definition"
  | Some resolved =>
      let rom_definition := res_definition resolved in
      match zlookup (rd_maps rom_definition) map_index with
      | None => Fail kInvalidConfig ("map index " +:+ fmt_d map_index +:+ " is past the definition's "
                                     +:+ fmt_d (zlen (rd_maps rom_definition)) +:+ " maps")
      | Some map =>
          let! extent := CheckMapPlacement rom_definition map (map_ (image_ s)) in
          let! window := Read s (x_start extent) (x_end extent - x_start extent) in
          DecodeCalibrationMap rom_definition map {| db_data := window; db_start := x_start extent |}
      end
  end.
Record LocatedMap := { lm_session : CalibrationSession; lm_definition : RomDefinition; lm_map : CalibrationMap }.
Definition LocateMap (ws : CalibrationWorkspace) (session_id map_index : Z) : LocatedMap + NotApplicableReason :=
  match FindSession ws session_id with
  | None => inr kClosedSession
  | Some session =>
      match definition_ session with
      | None => inr kNoDefinition
      | Some resolved =>
          match zlookup (rd_maps (res_definition resolved)) map_index with
          | None => inr kUnknownMap
          | Some map => inl {| lm_session := session; lm_definition := res_definition resolved; lm_map := map |}
          end
      end
  end.
Record PreparedNumericTarget := { pt_element : MapElement; pt_run : NumericRun; pt_session : CalibrationSession }.
Definition TargetCells (values : DecodedMap) (target : NumericTarget) : option NumericRun :=
  match target with
  | kMapBody => match dm_body values with NumericBody run => Some run | BlobValue _ => None end
  | kXAxis => match dm_x_axis values with NumericAxis run => Some run | _ => None end
  | kYAxis => match dm_y_axis values with NumericAxis run => Some run | _ => None end
  end.
Definition PrepareNumericTarget (ws : CalibrationWorkspace) (session_id map_index : Z) (target : NumericTarget)
    : PreparedNumericTarget + NotApplicableReason :=
  match LocateMap ws session_id map_index with
  | inr miss => inr miss
  | inl located =>
      match DecodeMap (lm_session located) map_index with
      | Err _ => inr kUnavailableTarget
      | Ok decoded =>
          match TargetCells decoded target with
          | None => inr kUnavailableTarget
          | Some run => inl {| pt_element := ResolveMapElement (lm_definition located) (lm_map located) target;
                               pt_run := run; pt_session := lm_session located |}
          end
      end
  end.
(** Every supplied cell is parsed, also those clipping will discard. *)
Fixpoint ParseRow (row : list string) : result Error (list double) :=
  match row with
  | [] => Ok []
  | text :: row =>
      match ParseFiniteNumber (chars text) with
      | Err detail => Fail kInvalidConfig detail
      | Ok number => let! values := ParseRow row in Ok (number :: values)
      end
  end.
Fixpoint ParsePaste (rows : list (list string)) : result Error (list (list double)) :=
  match rows with
  | [] => Ok []
  | row :: rows => let! values := ParseRow row in let! rest := ParsePaste rows in Ok (values :: rest)
  end.
Definition Calculate (rom : DefinitionBytes) (spec : MapElementSpec) (range : SelectionRange) (width height : Z)
    (cells : NumericRun) (operation : NumericEditOperation) : result Error NumericEditResult :=
  match operation with
  | IncrementEdit step => CalculateIncrement rom spec width cells range step
  | AssignmentEdit expression => CalculateAssignment rom spec width cells range expression
  | InterpolationEdit mode => CalculateInterpolation rom spec width cells range mode
  | PasteEdit rows => let! values := ParsePaste rows in CalculatePaste rom spec width height range values
  end.
Fixpoint check_patch (session : CalibrationSession) (spec : MapElementSpec) (cell_count : Z) (patch : NumericEditPatch)
    : Status :=
  match patch with
  | [] => Ok tt
  | cell :: patch =>
      if (cell_count <=? cw_index cell) || negb (zlen (cw_bytes cell) =? StorageByteSize (sp_storage_type spec))
         || negb (cw_byte_address cell =? ElementByteAddress spec (cw_index cell)) then
        Fail kInvalidConfig "map edit index, address, or byte width does not match its target"
      else
        let! _ := CheckWrite session (cw_byte_address cell) (zlen (cw_bytes cell)) in
        check_patch session spec cell_count patch
  end.
Fixpoint write_patch (session : CalibrationSession) (patch : NumericEditPatch) : CalibrationSession * Status :=
  match patch with
  | [] => (session, Ok tt)
  | cell :: patch =>
      match WriteBytes session (cw_byte_address cell) (cw_bytes cell) with
      | (session, Err e) => (session, Err e)
      | (session, Ok _) => write_patch session patch
      end
  end.
Definition WritePatch (session : CalibrationSession) (spec : MapElementSpec) (cell_count : Z) (patch : NumericEditPatch)
    : CalibrationSession * Status :=
  match check_patch session spec cell_count patch with
  | Err e => (session, Err e)
  | Ok _ => write_patch session patch
  end.
Definition Apply (t : PreparedNumericTarget) (range : SelectionRange) (operation : NumericEditOperation)
    : CalibrationSession * result Error NumericEditOutcome :=
  let element := pt_element t in
  let session := pt_session t in
  let spec := EditSpec element in
  let end_ := ElementRunEnd (sp_address spec) (sp_start_position spec) (sp_interval spec) (me_byte_width element)
                (u32 (zlen (pt_run t))) in
  match
    (let! window := Read session (sp_address spec) (u64 (end_ - sp_address spec)) in
     Calculate {| db_data := window; db_start := sp_address spec |} spec range (me_width element) (me_height element)
       (pt_run t) operation)
  with
  | Err e => (session, Err e)
  | Ok calculated =>
      match er_writes calculated with
      | [] => (session, Ok (NumericEditUnchanged (er_no_change calculated)))
      | writes =>
          match WritePatch session spec (zlen (pt_run t)) writes with
          | (session, Ok _) => (session, Ok NumericEditChanged)
          | (session, Err e) => (session, Err e)
          end
      end
  end.
Definition EditNumeric (ws : CalibrationWorkspace) (map : MapRef) (selection : NumericSelection)
    (operation : NumericEditOperation) : CalibrationWorkspace * result Error NumericEditOutcome :=
  match PrepareNumericTarget ws (ref_session map) (ref_map_index map) (ns_target selection) with
  | inl target =>
      let '(session, outcome) := Apply target (ns_elements selection) operation in
      (update_session ws session, outcome)
  | inr miss => (ws, Ok (EditNotApplicable miss))
  end.
Definition FormatValue (value : double) : list ascii := to_chars_fixed value.
Fixpoint copy_cells (width : Z) (range : SelectionRange) (cells : NumericRun) (todo : list (Z * Z)) (text : list ascii)
    : NumericCopyOutcome :=
  match todo with
  | [] => NumericCopyText text
  | (row, col) :: todo =>
      let text := if (col =? first_col range) && negb (row =? first_row range) then text ++ ["010"%char] else text in
      let text := if negb (col =? first_col range) then text ++ ["009"%char] else text in
      match zlookup cells (row * width + col) with
      | Some (Ok value) => copy_cells width range cells todo (text ++ FormatValue value)
      | Some (Err e) => NumericCopyInvalidCell row col (Ports.detail e)
      | None => NumericCopyInvalidCell row col "index past the run"
      end
  end.
Definition Copy (t : PreparedNumericTarget) (range : SelectionRange) : result Error NumericCopyOutcome :=
  let width := me_width (pt_element t) in
  let height := me_height (pt_element t) in
  if (first_row range <? 0) || (first_col range <? 0) || (last_row range <? first_row range)
     || (last_col range <? first_col range) || (height <=? last_row range) || (width <=? last_col range)
     || negb (zlen (pt_run t) =? width * height) then
    Fail kInvalidConfig "copy selection lies outside the target run"
  else Ok (copy_cells width range (pt_run t) (coordinates range) []).
Definition CopyNumeric (ws : CalibrationWorkspace) (map : MapRef) (selection : NumericSelection)
    : result Error NumericCopyOutcome :=
  match PrepareNumericTarget ws (ref_session map) (ref_map_index map) (ns_target selection) with
  | inl target => Copy target (ns_elements selection)
  | inr miss => Ok (CopyNotApplicable miss)
  end.
Definition EditSelectable (ws : CalibrationWorkspace) (map_ref : MapRef) (selection : string)
    : CalibrationWorkspace * result Error SelectableEditOutcome :=
  match LocateMap ws (ref_session map_ref) (ref_map_index map_ref) with
  | inr miss => (ws, Ok (SelectableNotApplicable miss))
  | inl located =>
      let session := lm_session located in
      match ResolveBlobSelection (lm_definition located) (lm_map located) selection with
      | Err e => (ws, Err e)
      | Ok (inr kNotABlob) => (ws, Ok (SelectableNotApplicable kUnavailableTarget))
      | Ok (inr BUnknownSelection) => (ws, Ok (SelectableNotApplicable kUnknownSelection))
      | Ok (inl patch) =>
          let already := match Read session (bp_address patch) (zlen (bp_bytes patch)) with
                         | Ok current => bool_decide (bp_bytes patch = current)
                         | Err _ => false
                         end in
          if already then (ws, Ok SelectableEditUnchanged)
          else
            match WriteBytes session (bp_address patch) (bp_bytes patch) with
            | (session, Ok _) => (update_session ws session, Ok SelectableEditChanged)
            | (session, Err e) => (update_session ws session, Err e)
            end
      end
  end.
End operations.

(** ** [RomSaveUseCase]

    [files_write] is the repository's answer to a write. *)
Section save.
Context `{Env} (files_write : string -> list Z -> Status).
Definition Save (session : CalibrationSession) (path : string) (image : list Z) : M (CalibrationSession * Status) :=
  match files_write path image with
  | Err e =>
      bind (Log LError ("Unable to open file " +:+ path +:+ " for writing")) (fun _ =>
      bind (Notice ("Ecu calibration file: Unable to open file " +:+ path +:+ " for writing")) (fun _ =>
      ret (session, Err e)))
  | Ok _ => ret (MarkSaved session path, Ok tt)
  end.
End save.

(** ** Reading a session: lemmas *)
Section reading.
(** The byte at a definition address: 0 where no block holds it. *)
Definition image_byte (img : MemoryImage) (a : Z) : Z := default 0 (byte_at img a).
Definition def_byte (s : CalibrationSession) (a : Z) : Z := image_byte (image_ s) (definition_base_ (map_ (image_ s)) + a).
Definition session_ok (s : CalibrationSession) : Prop :=
  image_ok (image_ s) /\ 0 <= definition_base_ (map_ (image_ s)) <= kU32Max.
Definition view_end (m : MemoryMap) : Z :=
  fold_left (fun end_ b => Z.max end_ (End (range b))) (blocks_ m) (definition_base_ m).
Lemma fold_max_spec bs acc :
  Forall block_ok bs -> acc <= kU32Max ->
  let e := fold_left (fun end_ b => Z.max end_ (End (range b))) bs acc in
  acc <= e <= kU32Max /\ forall b, b ∈ bs -> End (range b) <= e.
Proof.
  revert acc. induction bs as [|b bs IH]; intros acc Hb Ha; cbn; [split; [lia|set_solver]|].
  apply Forall_cons in Hb as [[Hr _] Hb]. unfold range_ok in Hr.
  destruct (IH (Z.max acc (End (range b))) Hb ltac:(lia)) as [He Hin]. split; [lia|].
  intros c [-> | Hc]%elem_of_cons; [lia|by apply Hin].
Qed.
Lemma view_end_spec s : session_ok s ->
  let m := map_ (image_ s) in
  definition_base_ m <= view_end m <= kU32Max /\ DefinitionSize m = view_end m - definition_base_ m
  /\ forall b, b ∈ blocks_ m -> End (range b) <= view_end m.
Proof.
  intros [[(Hb & _) _] Hbase]. cbv zeta.
  destruct (fold_max_spec (blocks_ (map_ (image_ s))) (definition_base_ (map_ (image_ s))) Hb ltac:(lia)) as [He Hin].
  split; [exact He|]. split; [|exact Hin]. unfold DefinitionSize, view_end. apply u32_small. unfold u32_ok, kU32Max in *. lia.
Qed.
Lemma held_BlockAt m a b : map_ok m -> b ∈ blocks_ m -> Start (range b) <= a < End (range b) -> BlockAt m a = Some b.
Proof.
  intros Hm Hin Ha. eapply holds_at_unique; [by apply map_ok_sorted|by apply BlockAt_holds, map_ok_sorted|].
  split; [done|exact Ha].
Qed.
Definition held (bs : list MemoryBlock) (a : Z) : bool :=
  existsb (fun b => (Start (range b) <=? a) && (a <? End (range b))) bs.
Lemma render_block_spec img start end_ w b :
  image_ok img -> b ∈ blocks_ (map_ img) -> 0 <= start <= end_ -> end_ <= kU32Max -> zlen w = end_ - start ->
  zlen (render_block img start end_ w b) = end_ - start
  /\ forall a, start <= a < end_ ->
       zget (render_block img start end_ w b) (a - start)
       = if (Start (range b) <=? a) && (a <? End (range b)) then image_byte img a else zget w (a - start).
Proof.
  intros Hi Hb Hs He Hw. pose proof Hi as (Hm & _). unfold render_block. cbv zeta.
  destruct (Z.leb_spec (Z.min (End (range b)) end_) (Z.max (Start (range b)) start)) as [Hle|Hlt].
  { split; [done|]. intros a Ha. destruct (Z.leb_spec (Start (range b)) a), (Z.ltb_spec a (End (range b))); cbn [andb]; (done || lia). }
  set (from := Z.max _ start) in *. set (to := Z.min _ end_) in *.
  rewrite Make_spec by lia. rewrite decide_True by lia. replace (from + (to - from)) with to by lia.
  assert (range_ok {| Start := from; Size := to - from; End := to |}) as Hr by (unfold range_ok; cbn; lia).
  destruct (Render_fold img _ Hi Hr) as (data & Ed & Hl & Hv).
  { intros a Ha. cbn in Ha. unfold read_error. by rewrite (held_BlockAt (map_ img) a b) by (done || lia). }
  rewrite Ed. cbn [view_data Start End Size] in *. split; [rewrite zlen_splice; lia|]. intros a Ha.
  rewrite zget_splice by lia. destruct (Z.leb_spec (Start (range b)) a), (Z.ltb_spec a (End (range b))); cbn [andb].
  - rewrite decide_True by lia. unfold image_byte. rewrite (Hv a) by lia. cbn. f_equal. lia.
  - by rewrite decide_False by lia.
  - by rewrite decide_False by lia.
  - by rewrite decide_False by lia.
Qed.
Lemma RenderWindow_spec img start end_ :
  image_ok img -> 0 <= start <= end_ -> end_ <= kU32Max ->
  zlen (RenderWindow img start end_) = end_ - start
  /\ forall a, start <= a < end_ -> zget (RenderWindow img start end_) (a - start) = image_byte img a.
Proof.
  intros Hi Hs He. unfold RenderWindow.
  assert (forall bs w, bs ⊆ blocks_ (map_ img) -> zlen w = end_ - start ->
    zlen (fold_left (render_block img start end_) bs w) = end_ - start
    /\ forall a, start <= a < end_ -> zget (fold_left (render_block img start end_) bs w) (a - start)
         = if held bs a then image_byte img a else zget w (a - start)) as Hf.
  { induction bs as [|b bs IH]; intros w Hin Hw; [done|]. cbn [fold_left held existsb].
    destruct (render_block_spec img start end_ w b Hi ltac:(set_solver) Hs He Hw) as [Hl Hv].
    destruct (IH _ ltac:(set_solver) Hl) as [Hl' Hv']. split; [done|]. intros a Ha. rewrite (Hv' a Ha), (Hv a Ha).
    fold (held bs a). by destruct (held bs a), (_ && _). }
  destruct (Hf (blocks_ (map_ img)) (zrepeat (end_ - start) 0)) as [Hl Hv]; [done|rewrite zlen_zrepeat; lia|].
  split; [done|]. intros a Ha. rewrite (Hv a Ha). destruct (held _ a) eqn:Eh; [done|]. rewrite zget_zrepeat by lia.
  unfold image_byte, byte_at. pose proof (BlockAt_holds (map_ img) a) as Hb. destruct (BlockAt _ a) as [b|] eqn:E; [|done].
  destruct Hi as (Hm & _). destruct (Hb (map_ok_sorted _ Hm)) as [Hin Hh].
  exfalso. apply (Bool.eq_true_false_abs (held (blocks_ (map_ img)) a)); [|done]. apply existsb_exists.
  exists b. split; [by apply list_elem_of_In|]. unfold holds in Hh. apply andb_true_iff.
  rewrite Z.leb_le, Z.ltb_lt. lia.
Qed.
Lemma Read_spec s off n :
  session_ok s -> 0 <= off -> 0 <= n ->
  match Read s off n with
  | Ok bs => off + n <= DefinitionSize (map_ (image_ s)) /\ zlen bs = n
             /\ forall a, off <= a < off + n -> zget bs (a - off) = def_byte s a
  | Err e => DefinitionSize (map_ (image_ s)) < off + n /\ Ports.kind e = kInvalidConfig
  end.
Proof.
  intros Hs Ho Hn. destruct (view_end_spec s Hs) as (Hv & Hd & _). destruct Hs as [Hi Hb]. unfold Read. cbv zeta.
  destruct (Z.ltb_spec (DefinitionSize (map_ (image_ s))) off); cbn [orb]; [split; [lia|done]|].
  destruct (Z.ltb_spec (DefinitionSize (map_ (image_ s)) - off) n); [split; [lia|done]|].
  set (base := definition_base_ (map_ (image_ s))) in *. unfold kU32Max in *.
  rewrite !(u32_small off), !(u32_small n) by (unfold u32_ok; lia). rewrite !(u32_small (base + off)) by (unfold u32_ok; lia).
  rewrite u32_small by (unfold u32_ok; lia).
  destruct (RenderWindow_spec (image_ s) (base + off) (base + off + n) Hi) as [Hl Hw]; [unfold kU32Max; lia..|].
  split; [lia|]. split; [lia|]. intros a Ha. unfold def_byte. fold base. rewrite <- Hw by lia. f_equal. lia.
Qed.
End reading.

(** ** Writing a session: lemmas *)
Section writing.
Lemma image_CheckWrite_iff img start n :
  image_ok img -> 0 <= start -> 0 < n -> start + n <= kU32Max ->
  MemoryImage.CheckWrite img start n = Ok tt <-> forall a, start <= a < start + n -> write_error (map_ img) a = None.
Proof.
  intros (Hm & _) Hs Hn Hmax. unfold MemoryImage.CheckWrite. rewrite (proj2 (Z.eqb_neq n 0)) by lia.
  rewrite Make_spec, decide_True by lia. set (r := mkAddressRange start n (start + n)).
  assert (range_ok r) as Hr by (unfold range_ok; cbn; lia).
  destruct (Slices_spec _ r (map_ok_sorted _ Hm) Hr) as [T _]. unfold CheckedSlices. split.
  - destruct (first_failure _ _) eqn:Ef; [done|]. intros _ a Ha.
    by apply (checked_only_if _ _ _ _ _ a T (slices_checked_write _ r Hm Hr) Ef).
  - intros Hw. by rewrite (checked_passes _ _ _ _ _ T (slices_checked_write _ r Hm Hr) Hw).
Qed.
(** The definition addresses [[off, off + n)] are in the view and writable. *)
Definition writable (s : CalibrationSession) (off n : Z) : Prop :=
  off + n <= DefinitionSize (map_ (image_ s))
  /\ forall a, off <= a < off + n -> write_error (map_ (image_ s)) (definition_base_ (map_ (image_ s)) + a) = None.
Lemma flash_start_spec s off :
  session_ok s -> 0 <= off -> off <= DefinitionSize (map_ (image_ s)) ->
  flash_start s off = definition_base_ (map_ (image_ s)) + off.
Proof.
  intros Hs Ho Hv. destruct (view_end_spec s Hs) as (He & Hd & _). destruct Hs as [_ Hb].
  unfold flash_start, ToFlashAddress, Advance. unfold kU32Max in *. rewrite u32_small by (unfold u32_ok; lia).
  by rewrite (proj2 (Z.ltb_ge _ _)) by lia.
Qed.
Lemma CheckWrite_iff s off n :
  session_ok s -> 0 <= off -> 0 < n -> CheckWrite s off n = Ok tt <-> writable s off n.
Proof.
  intros Hs Ho Hn. destruct (view_end_spec s Hs) as (He & Hd & _). pose proof Hs as [Hi Hb]. unfold CheckWrite, writable. cbv zeta.
  destruct (Z.ltb_spec (DefinitionSize (map_ (image_ s))) off); cbn [orb]; [split; [done|lia]|].
  destruct (Z.ltb_spec (DefinitionSize (map_ (image_ s)) - off) n); [split; [done|lia]|].
  rewrite (proj2 (Z.eqb_neq n 0)), flash_start_spec by (done || lia). unfold kU32Max in *.
  rewrite (u32_small n) by (unfold u32_ok; lia). set (base := definition_base_ _) in *.
  pose proof (image_CheckWrite_iff (image_ s) (base + off) n Hi) as Hc. unfold kU32Max in Hc.
  destruct (MemoryImage.CheckWrite _ _ _) as [[]|e].
  - split; [|done]. intros _. split; [lia|]. intros a Ha. apply Hc; [lia..|done|lia].
  - split; [done|]. intros [_ Hw]. assert (@Err MemoryError unit e = Ok tt) by (apply Hc; [lia..|]; intros a Ha;
      replace a with (base + (a - base)) by lia; apply Hw; lia). done.
Qed.
Lemma CheckWrite_result s off n : CheckWrite s off n = Ok tt \/ exists e, CheckWrite s off n = Err e.
Proof. destruct (CheckWrite s off n) as [[]|e]; eauto. Qed.
(** Two sessions that differ only in image bytes and the dirty flag. *)
Definition same_but_bytes (s s' : CalibrationSession) : Prop :=
  id_ s' = id_ s /\ source_ s' = source_ s /\ definition_ s' = definition_ s /\ protocol_ s' = protocol_ s
  /\ map_ (image_ s') = map_ (image_ s).
#[export] Instance same_but_bytes_preorder : PreOrder same_but_bytes.
Proof. split; [by intros s|]. intros a b c. unfold same_but_bytes. intuition congruence. Qed.
(** The bytes a write leaves. *)
Definition overwritten (s : CalibrationSession) (off : Z) (data : list Z) (a : Z) : Z :=
  if decide (off <= a < off + zlen data) then zget data (a - off) else def_byte s a.
Lemma WriteBytes_ok s off data :
  session_ok s -> bytes_ok data -> data <> [] -> 0 <= off -> writable s off (zlen data) ->
  exists s', WriteBytes s off data = (s', Ok tt) /\ session_ok s' /\ same_but_bytes s s' /\ dirty_ s' = true
    /\ forall a, def_byte s' a = overwritten s off data a.
Proof.
  intros Hs Hd Hne Ho Hw. assert (0 < zlen data) as Hp.
  { destruct data; [done|]. rewrite zlen_cons. pose proof (zlen_nonneg data). lia. }
  pose proof Hw as [Hv Hwe]. destruct (view_end_spec s Hs) as (He & Hsz & _). pose proof Hs as [Hi Hb].
  unfold WriteBytes. rewrite (proj2 (CheckWrite_iff s off (zlen data) Hs Ho Hp) Hw). rewrite flash_start_spec by (done || lia).
  set (base := definition_base_ _) in *.
  destruct (Write_stores_lemma (image_ s) (base + off) data Hi Hd Hne ltac:(lia)) as (img' & E & Em & Hi' & Hbytes); [lia| |].
  { intros a Ha. replace a with (base + (a - base)) by lia. apply Hwe. lia. }
  destruct data as [|x l]; [done|]. rewrite E. exists (with_image s img' true). split; [done|].
  split; [by split; [|cbn; rewrite Em]|]. split; [done|]. split; [done|]. intros a.
  unfold def_byte, image_byte, overwritten. cbn [image_ with_image]. rewrite Em, Hbytes. fold base.
  repeat case_decide; try lia; [|done]. cbn. f_equal. lia.
Qed.
Lemma WriteBytes_spec s off data :
  session_ok s -> bytes_ok data -> 0 <= off ->
  match WriteBytes s off data with
  | (s', Ok _) => session_ok s' /\ same_but_bytes s s' /\ dirty_ s' = true
                  /\ forall a, def_byte s' a = overwritten s off data a
  | (s', Err _) => s' = s
  end.
Proof.
  intros Hs Hd Ho. destruct (CheckWrite_result s off (zlen data)) as [Hc|(e & Hc)]; [|unfold WriteBytes; by rewrite Hc].
  destruct (decide (data = [])) as [->|Hne].
  - unfold WriteBytes. rewrite Hc. split_and!; try done. intros a. unfold overwritten. change (zlen []) with 0.
    by rewrite decide_False by lia.
  - apply CheckWrite_iff in Hc; [|done|done|destruct data; [done|]; rewrite zlen_cons; pose proof (zlen_nonneg data); lia].
    destruct (WriteBytes_ok s off data Hs Hd Hne Ho Hc) as (s' & -> & ?). tauto.
Qed.
Lemma writable_same s s' off n : same_but_bytes s s' -> writable s off n -> writable s' off n.
Proof. intros (_ & _ & _ & _ & E). unfold writable. by rewrite E. Qed.
End writing.

(** ** Applying a patch: lemmas *)
Section patching.
Context `{HN : Numeric}.
Implicit Types (s : CalibrationSession) (w : CellWrite) (patch : NumericEditPatch).
Definition writes_at (w : CellWrite) (a : Z) : Prop := cw_byte_address w <= a < cw_byte_address w + zlen (cw_bytes w).
Definition disjoint_writes (w w' : CellWrite) : Prop := forall a, writes_at w a -> ~ writes_at w' a.
Fixpoint separated (patch : NumericEditPatch) : Prop :=
  match patch with [] => True | w :: patch => Forall (disjoint_writes w) patch /\ separated patch end.
(** The session holds exactly the patch's bytes over the old ones. *)
Definition patched (s s' : CalibrationSession) (patch : NumericEditPatch) : Prop :=
  (forall w a, w ∈ patch -> writes_at w a -> def_byte s' a = zget (cw_bytes w) (a - cw_byte_address w))
  /\ (forall a, (forall w, w ∈ patch -> ~ writes_at w a) -> def_byte s' a = def_byte s a).
Definition storable (s : CalibrationSession) (w : CellWrite) : Prop :=
  bytes_ok (cw_bytes w) /\ cw_bytes w <> [] /\ 0 <= cw_byte_address w
  /\ writable s (cw_byte_address w) (zlen (cw_bytes w)).
Lemma write_patch_ok s patch :
  session_ok s -> Forall (storable s) patch -> separated patch ->
  exists s', write_patch s patch = (s', Ok tt) /\ session_ok s' /\ same_but_bytes s s' /\ patched s s' patch
    /\ (patch <> [] -> dirty_ s' = true).
Proof.
  revert s. induction patch as [|w patch IH]; intros s Hs HF Hsep; cbn [write_patch].
  { exists s. split_and!; try done. split; [set_solver|done]. }
  apply Forall_cons in HF as [(Hb & Hne & Ha & Hw) HF]. destruct Hsep as [Hd Hsep].
  destruct (WriteBytes_ok s _ _ Hs Hb Hne Ha Hw) as (s1 & -> & Hs1 & Hsame & Hdirty & Hv).
  destruct (IH s1 Hs1) as (s' & E & Hs' & Hsame' & [Hp1 Hp2] & Hd'); [|done|].
  { eapply Forall_impl; [exact HF|]. intros w' (? & ? & ? & ?). split_and!; try done. by eapply writable_same. }
  exists s'. split; [done|]. split; [done|]. split; [by etransitivity|]. rewrite list.Forall_forall in Hd.
  assert (patch = [] \/ patch <> []) as Hcase by (destruct patch; [by left|by right]). split; [split|].
  - intros w' a [-> | Hin]%elem_of_cons Hat; [|by apply Hp1].
    rewrite Hp2 by (intros w' Hin Hat'; by apply (Hd w' Hin a)). rewrite Hv. unfold overwritten, writes_at in *.
    by rewrite decide_True.
  - intros a Hout. rewrite Hp2 by (intros w' Hin; apply Hout; set_solver). rewrite Hv. unfold overwritten.
    rewrite decide_False; [done|]. apply (Hout w). set_solver.
  - intros _. destruct Hcase as [-> | Hp]; [|by apply Hd']. cbn in E. by simplify_eq.
Qed.
Lemma check_patch_iff s spec count patch :
  check_patch s spec count patch = Ok tt ->
  Forall (fun w => CheckWrite s (cw_byte_address w) (zlen (cw_bytes w)) = Ok tt) patch.
Proof.
  induction patch as [|w patch IH]; cbn [check_patch]; [constructor|]. case_match; [done|].
  intros ([] & Hc & Hp)%result_bind_Ok. constructor; [done|by apply IH].
Qed.
(** A rejected patch leaves the session alone. *)
Lemma WritePatch_spec s spec count patch :
  session_ok s -> separated patch ->
  Forall (fun w => bytes_ok (cw_bytes w) /\ cw_bytes w <> [] /\ 0 <= cw_byte_address w) patch ->
  match WritePatch s spec count patch with
  | (s', Ok _) => session_ok s' /\ same_but_bytes s s' /\ patched s s' patch /\ (patch <> [] -> dirty_ s' = true)
  | (s', Err _) => s' = s
  end.
Proof.
  intros Hs Hsep HF. unfold WritePatch. destruct (check_patch s spec count patch) as [[]|e] eqn:E; [|done].
  apply check_patch_iff in E.
  destruct (write_patch_ok s patch Hs) as (s' & -> & ?); [|done|tauto].
  apply list.Forall_forall. intros w Hin. rewrite list.Forall_forall in HF, E. destruct (HF w Hin) as (Hb & Hne & Ha).
  split_and!; try done. apply CheckWrite_iff; [done|done| |by apply E].
  destruct (cw_bytes w); [done|]. rewrite zlen_cons. pose proof (zlen_nonneg l). lia.
Qed.
End patching.

(** ** An edit's patch: lemmas *)
Section edits.
Context `{HN : Numeric} {HDS : DoubleSpec} {HNS : NumericSpec}.
(** The cells an operation may change. *)
Definition reach (op : NumericEditOperation) (width height : Z) (r : SelectionRange) (i : Z) : Prop :=
  match op with PasteEdit _ => pasted width height r i | _ => selected width r i end.
Lemma Calculate_patch_ok rom spec range width height cells op r :
  u32_ok width -> u32_ok height -> zlen cells = width * height ->
  Calculate rom spec range width height cells op = Ok r ->
  selection_ok width (width * height) range /\ patch_ok rom spec (reach op width height range) r.
Proof.
  intros Hw Hh Hc E. rewrite <- Hc. assert (0 <= width) by (unfold u32_ok in Hw; lia).
  destruct op as [step|formula|mode|rows]; cbn [Calculate reach] in *.
  - unfold CalculateIncrement in E. case_match; [done|]. by eapply BuildPatch_patch_ok.
  - unfold CalculateAssignment in E. apply result_bind_Ok in E as (b & _ & E). by eapply BuildPatch_patch_ok.
  - by eapply BuildPatch_patch_ok.
  - apply result_bind_Ok in E as (values & _ & E). rewrite Hc. by eapply CalculatePaste_patch_ok.
Qed.
Lemma reach_index op width height r i :
  selection_ok width (width * height) r -> reach op width height r i -> 0 <= i < width * height.
Proof.
  intros Hs. assert (width * height / width = height) as Ed by (rewrite Z.mul_comm; apply Z.div_mul; destruct Hs; lia).
  assert (selected width r i -> 0 <= i < width * height) as Hsel.
  { intros (row & col & Hr & Hc & ->). by apply (selected_index width (width * height) r). }
  destruct op; cbn [reach]; try done. intros (row & col & Hr & Hc & ->).
  pose proof (paste_index width height r (row - first_row r) (col - first_col r) Hs ltac:(lia) ltac:(lia)) as [Hi _].
  replace (first_row r + (row - first_row r)) with row in Hi by lia. lia.
Qed.
(** The writes of a patch computed on a window lie at their elements' exact addresses. *)
Definition spec_wf (spec : MapElementSpec) : Prop :=
  0 <= sp_address spec <= kU64Max /\ u32_ok (sp_start_position spec) /\ u32_ok (sp_interval spec).
Definition spec_address (spec : MapElementSpec) (j : Z) : Z :=
  exact_address (sp_address spec) (sp_start_position spec) (sp_interval spec) (StorageByteSize (sp_storage_type spec)) j.
Lemma write_ok_address rom spec limits (cell : Z -> Prop) w :
  rom_wf rom -> spec_wf spec -> (forall i, cell i -> u32_ok i) -> write_ok rom spec limits cell w ->
  cw_byte_address w = spec_address spec (cw_index w) /\ zlen (cw_bytes w) = StorageByteSize (sp_storage_type spec)
  /\ bytes_ok (cw_bytes w) /\ 1 <= sp_interval spec /\ 0 <= cw_byte_address w.
Proof.
  intros (Hs & Hl & _) (Ha & Hp & Hi) Hix (Hc & Ew & (v & _ & Ev) & cur & Hat & _).
  destruct (zlen_EncodeValue _ _ _ Ev) as [Hz Hb]. destruct (EncodeValue_spec _ _ _ Ev) as (_ & _ & _ & Hi0 & _).
  pose proof (StorageByteSize_range (sp_storage_type spec)).
  apply At_iff in Hat as (Hs1 & Hs2 & _); [|lia].
  rewrite Ew, (ElementByteAddress_exact spec (cw_index w) Ha Hp Hi (Hix _ Hc)) in *. fold (spec_address spec (cw_index w)) in *.
  unfold u32_ok in Hi. split_and!; (done || lia).
Qed.
Lemma patch_separated rom spec limits (cell : Z -> Prop) ws :
  rom_wf rom -> spec_wf spec -> (forall i, cell i -> u32_ok i) ->
  Forall (write_ok rom spec limits cell) ws -> NoDup (cw_index <$> ws) -> separated ws.
Proof.
  intros Hr Hs Hix. induction ws as [|w ws IH]; intros HF Hd; cbn [separated]; [done|].
  apply Forall_cons in HF as [Hw HF]. rewrite fmap_cons in Hd. apply NoDup_cons in Hd as [Hn Hd]. split; [|by apply IH].
  rewrite list.Forall_forall in HF. apply list.Forall_forall. intros w' Hin a. unfold writes_at.
  destruct (write_ok_address _ _ _ _ _ Hr Hs Hix Hw) as (-> & -> & _ & Hi & _).
  destruct (write_ok_address _ _ _ _ _ Hr Hs Hix (HF w' Hin)) as (-> & -> & _ & _ & _).
  pose proof (StorageByteSize_range (sp_storage_type spec)) as Hsz.
  assert (cw_index w <> cw_index w') as Hne by (intros E; apply Hn, list_elem_of_fmap; by exists w').
  unfold spec_address. set (p := sp_start_position spec). set (iv := sp_interval spec) in *. set (k := StorageByteSize _) in *.
  destruct (Z.lt_total (cw_index w) (cw_index w')) as [Hlt|[Heq|Hlt]]; [|done|];
    apply (exact_elements_disjoint (sp_address spec) p iv k) in Hlt; lia.
Qed.
End edits.

(** ** Preparing a target: lemmas *)
Section preparing.
Context `{HN : Numeric}.
Implicit Types (s : CalibrationSession) (d : RomDefinition) (m : CalibrationMap) (t : NumericTarget).
(** Decoding succeeds or fails with the window's place and size alone. *)
Definition same_window (rom rom' : DefinitionBytes) : Prop :=
  db_start rom = db_start rom' /\ zlen (db_data rom) = zlen (db_data rom').
Lemma At_same rom rom' a n bs :
  same_window rom rom' -> At rom a n = Some bs -> exists bs', At rom' a n = Some bs'.
Proof. intros [E1 E2]. unfold At. rewrite <- E1, <- E2. repeat case_match; try done. eexists. reflexivity. Qed.
Lemma DecodeNumericRun_same rom rom' run cells :
  same_window rom rom' -> DecodeNumericRun rom run = Ok cells -> exists cells', DecodeNumericRun rom' run = Ok cells'.
Proof.
  intros Hsame. unfold DecodeNumericRun. destruct (_ || _); [discriminate|]. cbv zeta. destruct (At rom _ _) as [w|] eqn:E; [|done].
  destruct (At_same _ _ _ _ _ Hsame E) as [w' ->]. eexists. reflexivity.
Qed.
Definition alike_axis (a a' : AxisValue) : Prop :=
  match a, a' with NumericAxis _, NumericAxis _ => True | NumericAxis _, _ | _, NumericAxis _ => False | _, _ => a = a' end.
Lemma DecodeTypedAxis_same rom rom' axis n x ty e a :
  same_window rom rom' -> DecodeTypedAxis axis n rom x ty e = Ok a ->
  exists a', DecodeTypedAxis axis n rom' x ty e = Ok a' /\ alike_axis a a'.
Proof.
  intros Hsame. unfold DecodeTypedAxis. destruct ((n <=? 1) || _); [intros [= <-]; by exists NoAxis|].
  destruct (x && (_ || _)).
  { destruct (negb (_ =? n)); [discriminate|]. intros [= <-]. by exists (StaticAxis (ax_static_data axis)). }
  destruct (x && negb _ && negb _); [intros [= <-]; by exists NoAxis|].
  destruct (ax_address axis); [|discriminate]. intros (c & E & [= <-])%result_bind_Ok.
  destruct (DecodeNumericRun_same _ _ _ _ Hsame E) as [c' ->]. eexists. split; [reflexivity|exact I].
Qed.
Definition alike (v v' : DecodedMap) : Prop :=
  match dm_body v, dm_body v' with NumericBody _, NumericBody _ | BlobValue _, BlobValue _ => True | _, _ => False end
  /\ alike_axis (dm_x_axis v) (dm_x_axis v') /\ alike_axis (dm_y_axis v) (dm_y_axis v').
Lemma DecodeCalibrationMap_same d m rom rom' v :
  same_window rom rom' -> DecodeCalibrationMap d m rom = Ok v ->
  exists v', DecodeCalibrationMap d m rom' = Ok v' /\ alike v v'.
Proof.
  intros Hsame. unfold DecodeCalibrationMap. cbv zeta. destruct (negb (String.eqb _ _) && _); [discriminate|].
  destruct (me_address _); [|discriminate]. destruct (_ || _); [discriminate|]. case_bool_decide.
  - destruct (At rom _ _) as [w|] eqn:E; [|done]. intros [= <-]. destruct (At_same _ _ _ _ _ Hsame E) as [w' ->].
    eexists. split; [reflexivity|done].
  - intros (b & Eb%rewrap_Ok & (x & Ex%rewrap_Ok & (y & Ey%rewrap_Ok & [= <-])%result_bind_Ok)%result_bind_Ok)%result_bind_Ok.
    destruct (DecodeNumericRun_same _ _ _ _ Hsame Eb) as [b' ->].
    destruct (DecodeTypedAxis_same _ _ _ _ _ _ _ _ Hsame Ex) as (x' & -> & Hx).
    destruct (DecodeTypedAxis_same _ _ _ _ _ _ _ _ Hsame Ey) as (y' & -> & Hy).
    eexists. split; [reflexivity|done].
Qed.
Lemma TargetCells_alike v v' t run : alike v v' -> TargetCells v t = Some run -> exists run', TargetCells v' t = Some run'.
Proof.
  intros (Hb & Hx & Hy). destruct t; cbn [TargetCells].
  - destruct (dm_body v), (dm_body v'); try done. eexists. reflexivity.
  - destruct (dm_x_axis v), (dm_x_axis v'); try done. eexists. reflexivity.
  - destruct (dm_y_axis v), (dm_y_axis v'); try done. eexists. reflexivity.
Qed.
(** A decoded target is the decode of its own element. *)
Lemma DecodeTypedAxis_numeric axis n rom x ty e run :
  DecodeTypedAxis axis n rom x ty e = Ok (NumericAxis run) ->
  1 < n /\ (exists a, ax_address axis = Some a) /\ DecodeNumericRun rom (Run e) = Ok run.
Proof.
  unfold DecodeTypedAxis. destruct (Z.leb_spec n 1); cbn [orb]; [discriminate|].
  destruct (String.eqb (ax_type axis) ""); [discriminate|].
  destruct (x && (_ || _)); [destruct (negb (_ =? n)); discriminate|].
  destruct (x && negb _ && negb _); [discriminate|]. destruct (ax_address axis); [|discriminate].
  intros (c & E & [= <-])%result_bind_Ok. split_and!; [lia|by eexists|done].
Qed.
Lemma Decode_target d m rom v t run :
  map_wf m -> DecodeCalibrationMap d m rom = Ok v -> TargetCells v t = Some run ->
  let e := ResolveMapElement d m t in
  (exists a, me_address e = Some a) /\ 0 < Count e <= kU32Max /\ DecodeNumericRun rom (Run e) = Ok run.
Proof.
  intros Hw. unfold DecodeCalibrationMap. cbv zeta. destruct (negb (String.eqb _ _) && _); [discriminate|].
  destruct (me_address (ResolveMapElement d m kMapBody)) as [a|] eqn:Ea; [|discriminate].
  pose proof (ResolveMapElement_wf d m t Hw) as He. pose proof (Count_exact _ He) as Hc.
  destruct (Count (ResolveMapElement d m kMapBody) =? 0) eqn:E0; cbn [orb]; [discriminate|].
  destruct (kU32Max <? Count _) eqn:E1; [discriminate|]. apply Z.eqb_neq in E0. apply Z.ltb_ge in E1.
  assert (0 <= Count (ResolveMapElement d m kMapBody)) by (apply Z.mod_pos_bound; lia).
  pose proof Hw as (Hx & Hy & _). case_bool_decide; [destruct (At rom a _); [intros [= <-]; by destruct t|discriminate]|].
  intros (b & Eb%rewrap_Ok & (x & Ex%rewrap_Ok & (y & Ey%rewrap_Ok & [= <-])%result_bind_Ok)%result_bind_Ok)%result_bind_Ok.
  destruct t; cbn [TargetCells dm_body dm_x_axis dm_y_axis].
  - intros [= <-]. split; [by eexists|]. split; [lia|done].
  - destruct x; try done. intros [= <-]. apply DecodeTypedAxis_numeric in Ex as (Hn & Haddr & Er).
    split; [exact Haddr|]. split; [|done]. rewrite Hc. cbn. unfold u32_ok, kU32Max in *. lia.
  - destruct y; try done. intros [= <-]. apply DecodeTypedAxis_numeric in Ey as (Hn & Haddr & Er).
    split; [exact Haddr|]. split; [|done]. rewrite Hc. cbn. unfold u32_ok, kU32Max in *. lia.
Qed.
End preparing.
Section targets.
Context `{HN : Numeric}.
Lemma def_byte_ok s a : session_ok s -> byte_ok (def_byte s a).
Proof.
  intros [(Hm & _ & Hb) _]. unfold def_byte, image_byte, byte_at.
  pose proof (BlockAt_holds (map_ (image_ s)) (definition_base_ (map_ (image_ s)) + a) (map_ok_sorted _ Hm)) as Hh.
  destruct (BlockAt _ _) as [b|]; cbn; [|unfold byte_ok; lia]. destruct Hh as [Hin _].
  destruct (backing b) eqn:E; cbn; [by apply bytes_ok_zget|].
  pose proof (sorted_blocks_elem _ _ (map_ok_sorted _ Hm) Hin) as [_ Hv]. by rewrite E in Hv.
Qed.
Definition def_bytes (s : CalibrationSession) (a n : Z) : list Z := map (def_byte s) (seqZ a n).
Lemma zlen_def_bytes s a n : 0 <= n -> zlen (def_bytes s a n) = n.
Proof. intros. unfold zlen, def_bytes. rewrite length_map, length_seqZ. lia. Qed.
Lemma zget_def_bytes s a n i : 0 <= i < n -> zget (def_bytes s a n) i = def_byte s (a + i).
Proof.
  intros. unfold zget, zlookup, def_bytes. rewrite decide_True by lia. change (map ?f ?l) with (f <$> l).
  rewrite list_lookup_fmap, lookup_seqZ_lt by lia. cbn. f_equal. lia.
Qed.
(** A window read from a session: its bytes are the session's. *)
Lemma Read_window s off n bs :
  session_ok s -> 0 <= off -> 0 <= n -> Read s off n = Ok bs ->
  let rom := {| db_data := bs; db_start := off |} in
  rom_wf rom /\ zlen bs = n /\ off + n <= DefinitionSize (map_ (image_ s))
  /\ forall a k b, 0 <= k -> At rom a k = Some b -> b = def_bytes s a k.
Proof.
  intros Hs Ho Hn E. cbv zeta. pose proof (Read_spec s off n Hs Ho Hn) as Hr. rewrite E in Hr. destruct Hr as (Hv & Hl & Hb).
  destruct (view_end_spec s Hs) as (He & Hd & _). pose proof Hs as [_ Hbase]. split_and!; try done.
  - unfold rom_wf. cbn [db_data db_start]. split_and!; [done|unfold kU32Max, kU64Max in *; lia|].
    apply bytes_ok_of_zget. intros i Hi. replace i with ((off + i) - off) by lia. rewrite Hb by lia. by apply def_byte_ok.
  - intros a k b Hk (Ha & Hle & ->)%At_iff; [|done]. cbn [db_data db_start] in *.
    apply zget_ext; [rewrite zlen_def_bytes, zlen_subspan by lia; lia|]. intros i Hi. rewrite zlen_subspan in Hi.
    rewrite zget_subspan, zget_def_bytes by lia. replace (a - off + i) with ((a + i) - off) by lia. apply Hb. lia.
Qed.
Lemma extent_nonneg d m mm x :
  map_wf m -> map_ok mm -> 0 <= definition_base_ mm -> CheckMapPlacement d m mm = Ok x -> 0 <= x_start x <= x_end x.
Proof.
  intros Hw Hm Hb E. pose proof (CheckMapPlacement_spec d m mm Hw Hm Hb) as Hp. rewrite E in Hp.
  destruct Hp as [_ [(HF & (r & Hr & Er) & _)|[_ ->]]]; [|cbn; lia].
  pose proof (map_extents_ordered d m r Hw Hr). rewrite list.Forall_forall in HF. specialize (HF r Hr). lia.
Qed.
(** The target's element and its decoded cells. *)
Record target_ok (s : CalibrationSession) (e : MapElement) (run : NumericRun) : Prop := {
  to_wf : element_wf e;
  to_address : exists a, me_address e = Some a;
  to_count : zlen run = me_width e * me_height e /\ 0 < zlen run <= kU32Max;
  to_storage : me_storage_type e <> None /\ me_storage_type e <> Some kBloblist;
  to_stride : 1 <= me_start_position e /\ 1 <= me_interval e;
  to_cells : forall j, 0 <= j < zlen run ->
    zlookup run j = Some (decode_bytes (Run e) j
      (def_bytes s (element_address (Run e) j) (StorageByteSize (me_storage_type e))))
}.
Lemma Run_wf e : element_wf e -> (exists a, me_address e = Some a) -> run_wf (Run e).
Proof.
  intros (Hw & Hh & Hp & Hi & _ & Ha) (a & Ea). unfold run_wf. cbn. rewrite Ea. cbn. specialize (Ha a Ea).
  split_and!; try done; try apply u32_range; unfold u32_ok, kU64Max in *; lia.
Qed.
Definition definition_wf (s : CalibrationSession) : Prop :=
  forall r, definition_ s = Some r -> Forall map_wf (rd_maps (res_definition r)).
Lemma DecodeMap_inv s i v r :
  session_ok s -> definition_wf s -> definition_ s = Some r -> DecodeMap s i = Ok v ->
  exists m x w, zlookup (rd_maps (res_definition r)) i = Some m /\ map_wf m
    /\ CheckMapPlacement (res_definition r) m (map_ (image_ s)) = Ok x /\ 0 <= x_start x <= x_end x
    /\ Read s (x_start x) (x_end x - x_start x) = Ok w
    /\ DecodeCalibrationMap (res_definition r) m {| db_data := w; db_start := x_start x |} = Ok v.
Proof.
  intros Hs Hw Er. unfold DecodeMap. rewrite Er. destruct (zlookup _ i) as [m|] eqn:Em; [|discriminate].
  intros (x & Ex & (w & Ew & Ed)%result_bind_Ok)%result_bind_Ok. specialize (Hw r Er). rewrite list.Forall_forall in Hw.
  assert (map_wf m) as Hm.
  { apply Hw. unfold zlookup in Em. case_decide; [|done]. by eapply list_elem_of_lookup_2. }
  destruct Hs as [(Hmap & _) Hb]. exists m, x, w. split_and!; try done; eapply extent_nonneg; (done || lia).
Qed.
Lemma DecodeMap_target s i v r m t run :
  session_ok s -> definition_wf s -> definition_ s = Some r -> zlookup (rd_maps (res_definition r)) i = Some m ->
  DecodeMap s i = Ok v -> TargetCells v t = Some run ->
  target_ok s (ResolveMapElement (res_definition r) m t) run.
Proof.
  intros Hs Hw Er Em Ed Et. destruct (DecodeMap_inv s i v r Hs Hw Er Ed) as (m' & x & w & Em' & Hm & _ & Hx & Ew & Ev).
  replace m' with m in * by congruence. destruct (Decode_target _ _ _ _ t run Hm Ev Et) as (Ha & Hc & Hrun).
  destruct (Read_window s (x_start x) (x_end x - x_start x) w Hs (proj1 Hx) ltac:(lia) Ew) as (Hrom & _ & _ & Hbytes).
  pose proof (ResolveMapElement_wf (res_definition r) m t Hm) as He. set (e := ResolveMapElement _ _ _) in *.
  destruct (DecodeNumericRun_cells _ _ _ Hrom (Run_wf e He Ha) Hrun) as (Hp & Hi & Hn & Hb & Hl & _ & Hcells).
  pose proof (Count_exact e He) as Hce. assert (run_count (Run e) = me_width e * me_height e) as Ec.
  { cbn [run_count Run]. rewrite Hce in *. apply u32_small. unfold u32_ok, kU32Max in *. lia. }
  rewrite Ec in *. rewrite Hce in Hc. split; try done; [split; [done|lia]|].
  intros j Hj. destruct (Hcells j ltac:(lia)) as (bs & Hat & ->). do 2 f_equal. apply Hbytes; [|done].
  pose proof (StorageByteSize_range (me_storage_type e)). cbn in *. lia.
Qed.
Lemma DecodeMap_same s s' i v :
  session_ok s -> session_ok s' -> definition_wf s -> same_but_bytes s s' -> DecodeMap s i = Ok v ->
  exists v', DecodeMap s' i = Ok v' /\ alike v v'.
Proof.
  intros Hs Hs' Hw Hsame Ed. destruct (definition_ s) as [r|] eqn:Er; [|unfold DecodeMap in Ed; by rewrite Er in Ed].
  destruct (DecodeMap_inv s i v r Hs Hw Er Ed) as (m & x & w & Em & Hm & Ex & Hx & Ew & Ev).
  pose proof Hsame as (_ & _ & Ed' & _ & Emap). unfold DecodeMap. rewrite Ed', Er, Em, Emap, Ex. cbn [result_bind].
  destruct (Read_window s (x_start x) (x_end x - x_start x) w Hs (proj1 Hx) ltac:(lia) Ew) as (_ & Hl & Hv & _).
  pose proof (Read_spec s' (x_start x) (x_end x - x_start x) Hs' ltac:(lia) ltac:(lia)) as Hr.
  destruct (Read s' _ _) as [w'|e]; [|rewrite Emap in Hr; lia]. destruct Hr as (_ & Hl' & _). cbn [result_bind].
  eapply DecodeCalibrationMap_same; [|exact Ev]. split; [done|]. cbn. lia.
Qed.
End targets.
Section applying.
Context `{HN : Numeric} {HDS : DoubleSpec} {HNS : NumericSpec}.
(** One cell an edit changes: at its element's address, with the encoding of a finite
    value clamped to the definition's limits, where the session held other bytes. *)
Definition cell_written (s : CalibrationSession) (e : MapElement) (limits : Limits) (cell : Z -> Prop) (w : CellWrite) : Prop :=
  cell (cw_index w) /\ cw_byte_address w = element_address (Run e) (cw_index w)
  /\ zlen (cw_bytes w) = StorageByteSize (me_storage_type e)
  /\ (exists v, isfinite v = true /\ EncodeValue (EditSpec e) (clamp limits v) = Ok (cw_bytes w))
  /\ def_bytes s (cw_byte_address w) (StorageByteSize (me_storage_type e)) <> cw_bytes w.
(** What an edit of a target does when it changes the session. *)
Record edited (s s' : CalibrationSession) (e : MapElement) (range : SelectionRange) (op : NumericEditOperation)
    (patch : NumericEditPatch) : Prop := {
  ed_patch : patch <> [] /\ NoDup (cw_index <$> patch);
  ed_selection : selection_ok (me_width e) (me_width e * me_height e) range;
  ed_cells : exists limits, LimitsFor (EditSpec e) = Ok limits
    /\ Forall (cell_written s e limits (reach op (me_width e) (me_height e) range)) patch;
  ed_session : session_ok s' /\ same_but_bytes s s' /\ dirty_ s' = true;
  ed_bytes : patched s s' patch
}.
Lemma EditSpec_wf e : element_wf e -> (exists a, me_address e = Some a) -> spec_wf (EditSpec e).
Proof.
  intros (_ & _ & Hp & Hi & _ & Ha) (a & Ea). unfold spec_wf. cbn. rewrite Ea. cbn. specialize (Ha a Ea).
  split_and!; try done; unfold u32_ok, kU64Max in *; lia.
Qed.
Lemma write_ok_written s rom e limits (cell : Z -> Prop) w :
  rom_wf rom -> element_wf e -> (exists a, me_address e = Some a) -> (forall i, cell i -> u32_ok i) ->
  (forall a k b, 0 <= k -> At rom a k = Some b -> b = def_bytes s a k) ->
  write_ok rom (EditSpec e) limits cell w -> cell_written s e limits cell w.
Proof.
  intros Hrom He Ha Hix Hb Hw. destruct (write_ok_address rom _ _ _ _ Hrom (EditSpec_wf e He Ha) Hix Hw) as (Eaddr & Hl & _).
  destruct Hw as (Hc & _ & Hv & cur & Hat & Hne). split_and!; try done. change (sp_storage_type (EditSpec e)) with (me_storage_type e) in Hl.
  rewrite Hl in Hat. pose proof (StorageByteSize_range (me_storage_type e)). apply Hb in Hat as <-; [done|lia].
Qed.
Lemma write_ok_storable rom spec limits (cell : Z -> Prop) ws :
  rom_wf rom -> spec_wf spec -> (forall i, cell i -> u32_ok i) -> Forall (write_ok rom spec limits cell) ws ->
  Forall (fun w => bytes_ok (cw_bytes w) /\ cw_bytes w <> [] /\ 0 <= cw_byte_address w) ws.
Proof.
  intros Hrom Hsp Hix HF. eapply Forall_impl; [exact HF|]. intros w Hw.
  destruct (write_ok_address rom _ _ _ _ Hrom Hsp Hix Hw) as (_ & Hl & Hbo & _ & Hpos). split_and!; try done.
  intros E. rewrite E in Hl. pose proof (StorageByteSize_range (sp_storage_type spec)). change (zlen []) with 0 in Hl. lia.
Qed.
Lemma Apply_spec s e run range op :
  session_ok s -> target_ok s e run ->
  match Apply {| pt_element := e; pt_run := run; pt_session := s |} range op with
  | (s', Ok NumericEditChanged) => exists patch, edited s s' e range op patch
  | (s', _) => s' = s
  end.
Proof.
  intros Hs [He Ha [Hc Hc1] _ _ _]. unfold Apply. cbn [pt_element pt_session pt_run]. cbv zeta.
  pose proof (EditSpec_wf e He Ha) as Hsp. set (n := u64 _). assert (0 <= n) as Hn by (apply Z.mod_pos_bound; lia).
  destruct (Read s _ n) as [w|err] eqn:Ew; cbn [result_bind]; [|done].
  destruct (Read_window s (sp_address (EditSpec e)) n w Hs (proj1 (proj1 Hsp)) Hn Ew) as (Hrom & _ & _ & Hb).
  set (rom := {| db_data := w; db_start := _ |}) in *.
  destruct (Calculate rom _ _ _ _ _ _) as [r|err] eqn:Ecalc; [|done].
  destruct He as (Hw & Hh & He'). destruct (Calculate_patch_ok rom _ range _ _ run op r Hw Hh Hc Ecalc)
    as (Hsel & limits & El & Hd & HF & _).
  assert (forall i, reach op (me_width e) (me_height e) range i -> u32_ok i) as Hix.
  { intros i Hi. apply (reach_index _ _ _ _ _ Hsel) in Hi. unfold u32_ok, kU32Max in *. lia. }
  destruct (er_writes r) as [|c cs] eqn:Ewr; [done|]. rewrite <- Ewr in *.
  assert (er_writes r <> []) as Hne by (by rewrite Ewr). clear Ewr.
  pose proof (patch_separated rom _ limits _ _ Hrom Hsp Hix HF Hd) as Hsep.
  pose proof (WritePatch_spec s (EditSpec e) (zlen run) (er_writes r) Hs Hsep) as Hwp.
  specialize (Hwp (write_ok_storable _ _ _ _ _ Hrom Hsp Hix HF)).
  destruct (WritePatch _ _ _ _) as [s' [u|err]]; [|done]. destruct Hwp as (Hs' & Hsame & Hp & Hdirty).
  exists (er_writes r). split; [done|done| |by rewrite (Hdirty Hne)|done]. exists limits. split; [done|].
  eapply Forall_impl; [exact HF|]. intros c' Hc'. by eapply write_ok_written.
Qed.
End applying.

(** ** The workspace: lemmas *)
Section workspace.
Implicit Types (ws : CalibrationWorkspace) (s : CalibrationSession).
Definition workspace_ok ws : Prop :=
  Forall (fun s => session_ok s /\ definition_wf s) (sessions_ ws)
  /\ NoDup (Ids ws) /\ Forall (fun i => 1 <= i < next_id_ ws) (Ids ws).
Lemma FindSession_Some ws i s : FindSession ws i = Some s -> s ∈ sessions_ ws /\ id_ s = i.
Proof. intros [Hin E%Z.eqb_eq]%find_some. by apply list_elem_of_In in Hin. Qed.
Lemma replace_same ss i s : List.find (fun s => id_ s =? i) ss = Some s -> replace_id s ss = ss.
Proof.
  induction ss as [|x ss IH]; [done|]. cbn. destruct (Z.eqb_spec (id_ x) i) as [Ex|Ex].
  - intros [= ->]. by rewrite Z.eqb_refl.
  - intros E. pose proof (find_some _ _ E) as [_ Es%Z.eqb_eq].
    rewrite (proj2 (Z.eqb_neq (id_ x) (id_ s))) by congruence. by rewrite IH.
Qed.
Lemma update_same ws i s : FindSession ws i = Some s -> update_session ws s = ws.
Proof. intros E. unfold update_session. rewrite (replace_same _ i s E). by destruct ws. Qed.
Lemma replace_ids ss s' : map id_ (replace_id s' ss) = map id_ ss.
Proof.
  induction ss as [|x ss IH]; [done|]. cbn. destruct (Z.eqb_spec (id_ x) (id_ s')) as [E|E]; cbn; [by rewrite E|by rewrite IH].
Qed.
Lemma update_ids ws s' : Ids (update_session ws s') = Ids ws.
Proof. apply replace_ids. Qed.
Lemma find_replace ss s' i :
  List.find (fun s => id_ s =? i) (replace_id s' ss)
  = if (i =? id_ s') && existsb (fun s => id_ s =? i) ss then Some s' else List.find (fun s => id_ s =? i) ss.
Proof.
  induction ss as [|x ss IH]; [by rewrite andb_false_r|]. cbn. destruct (Z.eqb_spec (id_ x) (id_ s')) as [Ex|Ex]; cbn.
  - destruct (Z.eqb_spec (id_ s') i) as [E|E].
    + subst i. rewrite Ex, !Z.eqb_refl. done.
    + rewrite (proj2 (Z.eqb_neq i (id_ s'))), (proj2 (Z.eqb_neq (id_ x) i)) by congruence. done.
  - rewrite IH. destruct (Z.eqb_spec (id_ x) i) as [E|E]; cbn; [|done].
    by rewrite (proj2 (Z.eqb_neq i (id_ s'))) by congruence.
Qed.
Lemma FindSession_update ws s s' i :
  FindSession ws (id_ s) = Some s -> id_ s' = id_ s ->
  FindSession (update_session ws s') i = if i =? id_ s then Some s' else FindSession ws i.
Proof.
  intros E Ei. unfold FindSession, update_session in *. cbn [sessions_]. rewrite find_replace, Ei.
  destruct (Z.eqb_spec i (id_ s)) as [->|]; [|done]. cbn [andb]. pose proof (find_some _ _ E) as [Hin Hs].
  assert (existsb (fun s0 => id_ s0 =? id_ s) (sessions_ ws) = true) as ->; [|done].
  apply existsb_exists. by exists s.
Qed.
Lemma replace_Forall (P : CalibrationSession -> Prop) ss s' : Forall P ss -> P s' -> Forall P (replace_id s' ss).
Proof.
  intros HF Hs. induction HF as [|x ss Hx HF IH]; [constructor|]. cbn. destruct (_ =? _); by constructor.
Qed.
Lemma update_ok ws s' : workspace_ok ws -> session_ok s' -> definition_wf s' -> workspace_ok (update_session ws s').
Proof.
  intros (HF & Hd & Hn) Hs Hw. unfold workspace_ok. rewrite update_ids. split_and!; try done. by apply replace_Forall.
Qed.
Lemma workspace_session ws i s : workspace_ok ws -> FindSession ws i = Some s -> session_ok s /\ definition_wf s /\ id_ s = i.
Proof.
  intros (HF & _) [Hin Hi]%FindSession_Some. rewrite list.Forall_forall in HF. destruct (HF s Hin). done.
Qed.
Lemma definition_wf_same s s' : same_but_bytes s s' -> definition_wf s -> definition_wf s'.
Proof. intros (_ & _ & E & _) Hw r Hr. apply Hw. by rewrite <- E. Qed.
End workspace.

(** ** Editing through the workspace *)
Section editing.
Context `{HN : Numeric} {HDS : DoubleSpec} {HNS : NumericSpec}.
Implicit Types (ws : CalibrationWorkspace) (s : CalibrationSession).
Lemma PrepareNumericTarget_ok ws i k t p :
  workspace_ok ws -> PrepareNumericTarget ws i k t = inl p ->
  FindSession ws i = Some (pt_session p) /\ target_ok (pt_session p) (pt_element p) (pt_run p).
Proof.
  intros Hws. unfold PrepareNumericTarget, LocateMap. destruct (FindSession ws i) as [s|] eqn:Ef; [|done].
  destruct (workspace_session ws i s Hws Ef) as (Hs & Hw & _). destruct (definition_ s) as [r|] eqn:Er; [|done].
  destruct (zlookup _ k) as [m|] eqn:Em; [|done]. cbn [lm_session lm_definition lm_map].
  destruct (DecodeMap s k) as [v|] eqn:Ed; [|done]. destruct (TargetCells v t) as [run|] eqn:Et; [|done].
  intros [= <-]. cbn [pt_session pt_element pt_run]. split; [done|]. by eapply DecodeMap_target.
Qed.
(** After an edit of the same session the target is prepared again, with the same element. *)
Lemma PrepareNumericTarget_again ws i k t p s' :
  workspace_ok ws -> PrepareNumericTarget ws i k t = inl p ->
  session_ok s' -> same_but_bytes (pt_session p) s' ->
  exists run', PrepareNumericTarget (update_session ws s') i k t
    = inl {| pt_element := pt_element p; pt_run := run'; pt_session := s' |}.
Proof.
  intros Hws. unfold PrepareNumericTarget, LocateMap. destruct (FindSession ws i) as [s|] eqn:Ef; [|done].
  destruct (workspace_session ws i s Hws Ef) as (Hs & Hw & Ei). destruct (definition_ s) as [r|] eqn:Er; [|done].
  destruct (zlookup _ k) as [m|] eqn:Em; [|done]. cbn [lm_session lm_definition lm_map].
  destruct (DecodeMap s k) as [v|] eqn:Ed; [|done]. destruct (TargetCells v t) as [run|] eqn:Et; [|done].
  intros [= <-] Hs' Hsame. cbn [pt_session pt_element] in *. subst i.
  rewrite (FindSession_update ws s s') by (done || apply Hsame). rewrite Z.eqb_refl.
  pose proof Hsame as (_ & _ & -> & _). rewrite Er, Em. cbn [lm_session lm_definition lm_map].
  destruct (DecodeMap_same s s' k v Hs Hs' Hw Hsame Ed) as (v' & -> & Ha).
  destruct (TargetCells_alike v v' t run Ha Et) as [run' ->]. by exists run'.
Qed.
Lemma NoDup_fmap_eq {A B} (f : A -> B) l x y : NoDup (f <$> l) -> x ∈ l -> y ∈ l -> f x = f y -> x = y.
Proof.
  induction l as [|z l IH]; [set_solver|]. rewrite fmap_cons, NoDup_cons. intros [Hn Hd].
  rewrite !elem_of_cons. intros [-> | Hx] [-> | Hy] E; [done|..|by apply IH]; exfalso; apply Hn, list_elem_of_fmap; eauto.
Qed.
(** An element's bytes after a patch: the patch's, or the old ones. *)
Lemma edited_bytes s s' e run range op patch j :
  target_ok s e run -> edited s s' e range op patch -> 0 <= j < zlen run ->
  let n := StorageByteSize (me_storage_type e) in
  def_bytes s' (element_address (Run e) j) n
  = match List.find (fun w => cw_index w =? j) patch with
    | Some w => cw_bytes w
    | None => def_bytes s (element_address (Run e) j) n
    end.
Proof.
  intros [He Ha [Hc Hc1] _ [Hp Hi] _] [[Hne Hd] Hsel (limits & El & HF) _ [Hp1 Hp2]] Hj n.
  pose proof (StorageByteSize_range (me_storage_type e)) as Hn. fold n in Hn. rewrite list.Forall_forall in HF.
  destruct (List.find _ patch) as [w|] eqn:Ef.
  - apply find_some in Ef as [Hin Ej%Z.eqb_eq]. apply list_elem_of_In in Hin. destruct (HF w Hin) as (_ & Haddr & Hl & _).
    rewrite Ej in Haddr. apply zget_ext; [rewrite zlen_def_bytes; lia|]. intros b Hb. rewrite zlen_def_bytes in Hb by lia.
    rewrite zget_def_bytes by lia. rewrite (Hp1 w) by (done || (unfold writes_at; lia)). f_equal. lia.
  - unfold def_bytes. apply map_ext_in. intros a Hin. apply list_elem_of_In, elem_of_seqZ in Hin. apply Hp2. intros w Hw.
    destruct (HF w Hw) as (_ & Haddr & Hl & _). unfold writes_at. rewrite Haddr, Hl. fold n.
    apply find_none with (x := w) in Ef; [|by apply list_elem_of_In]. apply Z.eqb_neq in Ef.
    unfold element_address in *. change (run_storage_type (Run e)) with (me_storage_type e) in *. fold n in Hin |- *.
    destruct (Z.lt_total (cw_index w) j) as [Hlt|[Heq|Hlt]]; [|done|];
      apply (exact_elements_disjoint (run_address (Run e)) (run_start_position (Run e)) (run_interval (Run e)) n) in Hlt;
      cbn in *; lia.
Qed.
Lemma EditNumeric_cases ws ref sel op :
  workspace_ok ws ->
  match EditNumeric ws ref sel op with
  | (ws', Ok NumericEditChanged) =>
      exists p s' patch, PrepareNumericTarget ws (ref_session ref) (ref_map_index ref) (ns_target sel) = inl p
        /\ FindSession ws (ref_session ref) = Some (pt_session p) /\ target_ok (pt_session p) (pt_element p) (pt_run p)
        /\ ws' = update_session ws s' /\ edited (pt_session p) s' (pt_element p) (ns_elements sel) op patch
  | (ws', _) => ws' = ws
  end.
Proof.
  intros Hws. unfold EditNumeric. destruct (PrepareNumericTarget _ _ _ _) as [p|miss] eqn:Ep; [|done].
  destruct (PrepareNumericTarget_ok _ _ _ _ _ Hws Ep) as [Ef Ht].
  destruct (workspace_session _ _ _ Hws Ef) as (Hs & _ & _). destruct p as [e run s]. cbn [pt_session pt_element pt_run] in *.
  pose proof (Apply_spec s e run (ns_elements sel) op Hs Ht) as Ha. destruct (Apply _ _ _) as [s' [[]|err]];
    try (subst s'; by apply (update_same ws (ref_session ref))).
  destruct Ha as [patch Hpatch]. by exists {| pt_element := e; pt_run := run; pt_session := s |}, s', patch.
Qed.
End editing.
Section claims.
Context `{HN : Numeric} {HDS : DoubleSpec} {HNS : NumericSpec}.
Implicit Types (ws : CalibrationWorkspace) (s : CalibrationSession).
(** C5: Numeric edits are atomic and local. An edit that reports an error, no change or
    that it does not apply leaves every session as it was. An edit that reports a
    change replaces one session by one that differs only in the bytes of some cells of
    the target run, each inside the selection, or, for a paste, inside the rectangle
    from the selection's top-left cell to the end of the run, each written once, at its element's address, with the encoding of a finite value
    clamped to the definition's limits, where other bytes were; the session is then
    dirty, and no other session of the workspace changes. *)
Theorem EditNumeric_atomic ws ref sel op ws' out :
  workspace_ok ws -> EditNumeric ws ref sel op = (ws', out) ->
  (out <> Ok NumericEditChanged -> ws' = ws)
  /\ (out = Ok NumericEditChanged ->
      exists p s' patch,
        PrepareNumericTarget ws (ref_session ref) (ref_map_index ref) (ns_target sel) = inl p
        /\ FindSession ws (ref_session ref) = Some (pt_session p) /\ FindSession ws' (ref_session ref) = Some s'
        /\ edited (pt_session p) s' (pt_element p) (ns_elements sel) op patch
        /\ workspace_ok ws' /\ Ids ws' = Ids ws
        /\ forall i, i <> ref_session ref -> FindSession ws' i = FindSession ws i).
Proof.
  intros Hws E. pose proof (EditNumeric_cases ws ref sel op Hws) as Hc. rewrite E in Hc. split.
  { intros Hne. destruct out as [[]|]; done. }
  intros ->. destruct Hc as (p & s' & patch & Ep & Ef & Ht & -> & Hed). exists p, s', patch.
  destruct (workspace_session _ _ _ Hws Ef) as (Hs & Hw & Ei). destruct (ed_session _ _ _ _ _ _ Hed) as (Hs' & Hsame & _).
  assert (forall i, FindSession (update_session ws s') i = if i =? ref_session ref then Some s' else FindSession ws i) as Hfind.
  { intros i. rewrite <- Ei in *. apply FindSession_update; [done|apply Hsame]. }
  split_and!; try done.
  - by rewrite Hfind, Z.eqb_refl.
  - apply update_ok; [done..|]. by eapply definition_wf_same.
  - apply update_ids.
  - intros i Hi. by rewrite Hfind, (proj2 (Z.eqb_neq _ _)).
Qed.

(** C6: What an edit stores is what the next decode shows. After an edit that reports a
    change, the same target decodes again, to a run of the same length: the cells the
    edit wrote hold the scaled values of the bytes it wrote, and every other cell, the
    ones outside the selection among them, its old value. *)
Theorem edit_then_decode ws ref sel op ws' :
  workspace_ok ws -> EditNumeric ws ref sel op = (ws', Ok NumericEditChanged) ->
  exists p p' patch,
    PrepareNumericTarget ws (ref_session ref) (ref_map_index ref) (ns_target sel) = inl p
    /\ PrepareNumericTarget ws' (ref_session ref) (ref_map_index ref) (ns_target sel) = inl p'
    /\ pt_element p' = pt_element p /\ zlen (pt_run p') = zlen (pt_run p)
    /\ edited (pt_session p) (pt_session p') (pt_element p) (ns_elements sel) op patch
    /\ (forall w, w ∈ patch ->
          zlookup (pt_run p') (cw_index w) = Some (decode_bytes (Run (pt_element p)) (cw_index w) (cw_bytes w)))
    /\ (forall j, j ∉ (cw_index <$> patch) -> zlookup (pt_run p') j = zlookup (pt_run p) j).
Proof.
  intros Hws E. pose proof (EditNumeric_cases ws ref sel op Hws) as Hc. rewrite E in Hc.
  destruct Hc as (p & s' & patch & Ep & Ef & Ht & -> & Hed). destruct (ed_session _ _ _ _ _ _ Hed) as (Hs' & Hsame & _).
  destruct (PrepareNumericTarget_again _ _ _ _ _ s' Hws Ep Hs' Hsame) as [run' Ep'].
  destruct (workspace_session _ _ _ Hws Ef) as (Hs & Hw & _).
  assert (workspace_ok (update_session ws s')) as Hws' by (apply update_ok; [done..|]; by eapply definition_wf_same).
  destruct (PrepareNumericTarget_ok _ _ _ _ _ Hws' Ep') as [_ Ht']. cbn [pt_session pt_element pt_run] in Ht'.
  exists p, {| pt_element := pt_element p; pt_run := run'; pt_session := s' |}, patch.
  assert (zlen run' = zlen (pt_run p)) as Hl by (by rewrite (proj1 (to_count _ _ _ Ht')), (proj1 (to_count _ _ _ Ht))).
  assert (forall j, 0 <= j < zlen run' -> zlookup run' j = Some (decode_bytes (Run (pt_element p)) j
    (match List.find (fun w => cw_index w =? j) patch with Some w => cw_bytes w
     | None => def_bytes (pt_session p) (element_address (Run (pt_element p)) j) (StorageByteSize (me_storage_type (pt_element p))) end))) as Hv.
  { intros j Hj. rewrite (to_cells _ _ _ Ht' j Hj). do 2 f_equal. apply (edited_bytes _ _ _ _ _ _ _ _ Ht Hed). lia. }
  split_and!; try done; cbn [pt_run].
  - intros w Hin. pose proof Hed as [[_ Hd] Hsel (limits & _ & HF) _ _]. rewrite list.Forall_forall in HF.
    pose proof (proj1 (HF w Hin)) as Hr. apply (reach_index _ _ _ _ _ Hsel) in Hr.
    rewrite Hv by (rewrite Hl, (proj1 (to_count _ _ _ Ht)); done). do 2 f_equal.
    destruct (List.find _ patch) as [w'|] eqn:Ef'.
    + apply find_some in Ef' as [Hin' Ei%Z.eqb_eq]. apply list_elem_of_In in Hin'. f_equal.
      by apply (NoDup_fmap_eq cw_index patch).
    + apply find_none with (x := w) in Ef'; [|by apply list_elem_of_In]. apply Z.eqb_neq in Ef'. done.
  - intros j Hj. destruct (decide (0 <= j < zlen run')) as [Hr|Hr].
    + rewrite Hv, (to_cells _ _ _ Ht j) by lia. do 2 f_equal. destruct (List.find _ patch) as [w|] eqn:Ew; [|done].
      apply find_some in Ew as [Hin Ei%Z.eqb_eq]. exfalso. apply Hj, list_elem_of_fmap. exists w.
      split; [done|by apply list_elem_of_In].
    + destruct (decide (j < 0)); [by rewrite !zlookup_neg|by rewrite !zlookup_ge by lia].
Qed.
End claims.

(** ** Selectable maps *)
Section selectable.
Context `{HN : Numeric}.
Implicit Types (ws : CalibrationWorkspace) (s : CalibrationSession).
(** The selections of a definition are bytes. *)
Definition selections_ok (d : RomDefinition) : Prop :=
  Forall (fun sc => Forall (fun c => bytes_ok (sel_value c)) (sc_selections sc)) (rd_scalings d).
Lemma ResolveBlobSelection_patch d m name patch :
  selections_ok d -> ResolveBlobSelection d m name = Ok (inl patch) ->
  exists sc c, FindScaling d (cm_scaling_name m) = Some sc /\ c ∈ sc_selections sc /\ sel_name c = name
    /\ bp_bytes patch = sel_value c /\ bytes_ok (sel_value c) /\ bp_address patch = default 0 (cm_address m).
Proof.
  intros Hd. unfold ResolveBlobSelection. cbv zeta. destruct (FindScaling _ _) as [sc|] eqn:Es; [|discriminate].
  destruct (_ || _); [discriminate|]. destruct (List.find _ _) as [c|] eqn:Ec; [|discriminate].
  destruct (negb _); [discriminate|]. intros [= <-]. apply find_some in Ec as [Hin En%String.eqb_eq].
  apply list_elem_of_In in Hin. exists sc, c. split_and!; try done.
  apply FindScaling_elem in Es as [Hsc _]. unfold selections_ok in Hd. rewrite list.Forall_forall in Hd. specialize (Hd sc Hsc).
  rewrite list.Forall_forall in Hd. by apply Hd.
Qed.
Lemma LocateMap_inv ws i k l :
  workspace_ok ws -> LocateMap ws i k = inl l ->
  FindSession ws i = Some (lm_session l) /\ session_ok (lm_session l) /\ id_ (lm_session l) = i /\ map_wf (lm_map l)
  /\ exists r, definition_ (lm_session l) = Some r /\ lm_definition l = res_definition r.
Proof.
  intros Hws. unfold LocateMap. destruct (FindSession ws i) as [s|] eqn:Ef; [|done].
  destruct (workspace_session ws i s Hws Ef) as (Hs & Hw & Ei). destruct (definition_ s) as [r|] eqn:Er; [|done].
  destruct (zlookup _ k) as [m|] eqn:Em; [|done]. intros [= <-]. cbn. split_and!; try done; [|by exists r].
  specialize (Hw r Er). rewrite list.Forall_forall in Hw. apply Hw. unfold zlookup in Em. case_decide; [|done].
  by eapply list_elem_of_lookup_2.
Qed.
Lemma read_already s addr data :
  session_ok s -> 0 <= addr ->
  match Read s addr (zlen data) with Ok current => bool_decide (data = current) | Err _ => false end = true ->
  def_bytes s addr (zlen data) = data.
Proof.
  intros Hs Ha. pose proof (Read_spec s addr (zlen data) Hs Ha (zlen_nonneg _)) as Hr.
  destruct (Read s addr _) as [cur|]; [|done]. intros ->%bool_decide_eq_true. destruct Hr as (_ & Hl & Hb).
  apply zget_ext; [by rewrite zlen_def_bytes by apply zlen_nonneg|]. intros i Hi.
  rewrite zlen_def_bytes in Hi by apply zlen_nonneg. rewrite zget_def_bytes by lia. rewrite <- Hb by lia. f_equal. lia.
Qed.
Lemma overwritten_bytes s s' addr data :
  (forall a, def_byte s' a = overwritten s addr data a) -> def_bytes s' addr (zlen data) = data.
Proof.
  intros Hv. pose proof (zlen_nonneg data). apply zget_ext; [rewrite zlen_def_bytes; lia|]. intros i Hi. rewrite zlen_def_bytes in Hi by lia.
  rewrite zget_def_bytes, Hv by lia. unfold overwritten. rewrite decide_True by lia. f_equal. lia.
Qed.
(** Choosing a named selection of a selectable map. Every outcome but a change leaves
    the workspace as it was, and an unchanged one means that the selection's bytes were
    there; a change stores exactly the bytes of a selection with that name at the map's
    address, in the one session named, and marks it dirty. *)
Theorem EditSelectable_stores ws ref name ws' out :
  workspace_ok ws -> (forall l, LocateMap ws (ref_session ref) (ref_map_index ref) = inl l -> selections_ok (lm_definition l)) ->
  EditSelectable ws ref name = (ws', out) ->
  (out <> Ok SelectableEditChanged -> ws' = ws)
  /\ (out = Ok SelectableEditChanged \/ out = Ok SelectableEditUnchanged ->
      exists l sc c s', LocateMap ws (ref_session ref) (ref_map_index ref) = inl l
        /\ FindScaling (lm_definition l) (cm_scaling_name (lm_map l)) = Some sc /\ c ∈ sc_selections sc /\ sel_name c = name
        /\ FindSession ws' (ref_session ref) = Some s' /\ same_but_bytes (lm_session l) s' /\ session_ok s'
        /\ def_bytes s' (default 0 (cm_address (lm_map l))) (zlen (sel_value c)) = sel_value c
        /\ (forall a, ~ default 0 (cm_address (lm_map l)) <= a < default 0 (cm_address (lm_map l)) + zlen (sel_value c) ->
             def_byte s' a = def_byte (lm_session l) a)
        /\ (out = Ok SelectableEditChanged -> dirty_ s' = true)
        /\ forall i, i <> ref_session ref -> FindSession ws' i = FindSession ws i).
Proof.
  intros Hws Hsel. unfold EditSelectable. destruct (LocateMap _ _ _) as [l|miss] eqn:El;
    [|intros [= <- <-]; split; [done|intros [|]; done]].
  destruct (LocateMap_inv _ _ _ _ Hws El) as (Ef & Hs & Ei & Hm & _). specialize (Hsel l eq_refl).
  destruct (ResolveBlobSelection _ _ _) as [[patch|[]]|e] eqn:Ep;
    try (intros [= <- <-]; split; [done|intros [|]; done]).
  destruct (ResolveBlobSelection_patch _ _ _ _ Hsel Ep) as (sc & c & Esc & Hc & Hn & Eb & Hbo & Ea). rewrite Eb, Ea.
  set (addr := default 0 (cm_address (lm_map l))). assert (0 <= addr) as Haddr.
  { destruct Hm as (_ & _ & _ & _ & Ha & _). subst addr. destruct (cm_address _) as [a|]; [|done].
    specialize (Ha a eq_refl). unfold u32_ok in Ha. cbn. lia. }
  pose proof (WriteBytes_spec (lm_session l) addr (sel_value c) Hs Hbo Haddr) as Hwr.
  destruct (match Read _ _ _ with Ok current => _ | Err _ => false end) eqn:Ealready.
  - intros [= <- <-]. split; [done|]. intros _. exists l, sc, c, (lm_session l). split_and!; try done.
    by eapply read_already.
  - destruct (WriteBytes _ _ _) as [s' [u|e]].
    + intros [= <- <-]. split; [done|]. intros _. destruct Hwr as (Hs' & Hsame & Hdirty & Hv).
      rewrite <- Ei in *. pose proof (fun i => FindSession_update ws (lm_session l) s' i Ef (proj1 Hsame)) as Hfind.
      exists l, sc, c, s'. split_and!; try done.
      * by rewrite Hfind, Z.eqb_refl.
      * by apply (overwritten_bytes (lm_session l)).
      * intros a Ha. rewrite Hv. unfold overwritten. by rewrite decide_False.
      * intros i Hi. by rewrite Hfind, (proj2 (Z.eqb_neq _ _)).
    + subst s'. intros [= <- <-]. split; [intros _; by eapply update_same|intros [|]; done].
Qed.
End selectable.

(** ** Session identifiers *)
Section identifiers.
Context `{HN : Numeric}.
Implicit Types (ws : CalibrationWorkspace) (s : CalibrationSession).
(** The operations that change a workspace. *)
Inductive workspace_op : Type :=
| OpenOp (opened : result Error RomOpenOutcome)
| AdoptOp (adopted : result Error RomOpenOutcome)
| CloseOp (id : Z)
| EditNumericOp (ref : MapRef) (sel : NumericSelection) (op : NumericEditOperation)
| EditSelectableOp (ref : MapRef) (name : string).
Definition workspace_step ws (op : workspace_op) : CalibrationWorkspace :=
  match op with
  | OpenOp opened => fst (OpenFile ws opened)
  | AdoptOp adopted => fst (AdoptReadImage ws adopted)
  | CloseOp id => fst (Close ws id)
  | EditNumericOp ref sel op => fst (EditNumeric ws ref sel op)
  | EditSelectableOp ref name => fst (EditSelectable ws ref name)
  end.
Definition workspace_run ws (ops : list workspace_op) : CalibrationWorkspace := fold_left workspace_step ops ws.
(** Identifiers are distinct and below the next one; [used] of the 64-bit counter's values are gone. *)
Definition ids_ok ws (used : Z) : Prop :=
  NoDup (Ids ws) /\ Forall (fun i => 1 <= i < next_id_ ws) (Ids ws) /\ 1 <= next_id_ ws <= used + 1.
Lemma erase_ids i ss ss' : erase_id i ss = Some ss' -> exists a b, map id_ ss = a ++ i :: b /\ map id_ ss' = a ++ b.
Proof.
  revert ss'. induction ss as [|s ss IH]; intros ss'; cbn; [done|]. destruct (Z.eqb_spec (id_ s) i) as [<-|].
  - intros [= <-]. by exists [], (map id_ ss).
  - destruct (erase_id i ss) as [t|]; [|done]. intros [= <-]. destruct (IH t eq_refl) as (a & b & E1 & E2).
    exists (id_ s :: a), b. cbn. by rewrite E1, E2.
Qed.
Lemma erase_none i ss : erase_id i ss = None <-> i ∉ map id_ ss.
Proof.
  induction ss as [|s ss IH]; cbn; [split; [intros _; apply not_elem_of_nil|done]|]. rewrite not_elem_of_cons.
  destruct (Z.eqb_spec (id_ s) i) as [E|E]; [split; [done|intros []; congruence]|]. rewrite <- IH.
  destruct (erase_id i ss); cbn; [split; [done|by intros []]|]. split; [|done]. intros _. split; [congruence|done].
Qed.
(** How an operation changes the identifiers: none, one appended, or one erased. *)
Lemma step_ids ws op :
  (Ids (workspace_step ws op) = Ids ws /\ next_id_ (workspace_step ws op) = next_id_ ws)
  \/ (Ids (workspace_step ws op) = Ids ws ++ [next_id_ ws] /\ next_id_ (workspace_step ws op) = u64 (next_id_ ws + 1))
  \/ (exists i a b, Ids ws = a ++ i :: b /\ Ids (workspace_step ws op) = a ++ b
       /\ next_id_ (workspace_step ws op) = next_id_ ws).
Proof.
  destruct op as [[o|]|[o|]|i|ref sel op|ref name]; cbn [workspace_step]; try (by left).
  - right; left. cbn. split; [|done]. unfold Ids. cbn. by rewrite map_app.
  - right; left. cbn. split; [|done]. unfold Ids. cbn. by rewrite map_app.
  - unfold Close. destruct (erase_id i (sessions_ ws)) as [ss|] eqn:E; [|by left]. right; right.
    destruct (erase_ids _ _ _ E) as (a & b & E1 & E2). by exists i, a, b.
  - left. unfold EditNumeric. destruct (PrepareNumericTarget _ _ _ _); [|done]. destruct (Apply _ _ _). split; [apply update_ids|done].
  - left. unfold EditSelectable. destruct (LocateMap _ _ _); [|done].
    destruct (ResolveBlobSelection _ _ _) as [[p|[]]|]; try done. destruct (match Read _ _ _ with Ok _ => _ | Err _ => _ end); [done|].
    destruct (WriteBytes _ _ _) as [s' [u|e]]; split; (apply update_ids || done).
Qed.
Lemma step_ok ws op used :
  ids_ok ws used -> used < 18446744073709551614 -> ids_ok (workspace_step ws op) (used + 1)
  /\ forall i, 1 <= i < next_id_ ws -> i ∉ Ids ws ->
       (i ∉ Ids (workspace_step ws op)) /\ i < next_id_ (workspace_step ws op).
Proof.
  intros (Hd & HF & Hn) Hu. unfold ids_ok.
  destruct (step_ids ws op) as [[-> ->]|[[-> ->]|(i & a & b & E & -> & ->)]].
  - split; [split_and!; (done || lia)|]. intros; split; (done || lia).
  - assert (u64 (next_id_ ws + 1) = next_id_ ws + 1) as -> by (unfold u64; apply Z.mod_small; lia).
    rewrite list.Forall_forall in HF. split.
    + split_and!; [|apply list.Forall_forall|lia|lia].
      * apply NoDup_app. split_and!; [done| |apply NoDup_singleton]. intros x Hx ->%list_elem_of_singleton.
        specialize (HF _ Hx). lia.
      * intros x [Hx| ->%list_elem_of_singleton]%elem_of_app; [specialize (HF _ Hx); lia|lia].
    + intros i Hi Hni. split; [|lia]. rewrite elem_of_app, list_elem_of_singleton. intros [?|?]; [done|lia].
  - rewrite E in Hd, HF. apply NoDup_app in Hd as (H1 & H2 & H3). apply NoDup_cons in H3 as [H4 H5].
    rewrite Forall_app, Forall_cons in HF. split.
    + split_and!; [|apply Forall_app; tauto|lia|lia]. apply NoDup_app. split_and!; [done| |done]. set_solver.
    + intros k Hk Hnk. rewrite E in Hnk. split; [set_solver|lia].
Qed.
Lemma run_ok ops ws used :
  ids_ok ws used -> used + Z.of_nat (length ops) <= 18446744073709551614 ->
  ids_ok (workspace_run ws ops) (used + Z.of_nat (length ops))
  /\ forall i, 1 <= i < next_id_ ws -> i ∉ Ids ws -> i ∉ Ids (workspace_run ws ops).
Proof.
  revert ws used. induction ops as [|op ops IH]; intros ws used Hok Hl; cbn [workspace_run fold_left length] in *.
  { rewrite Z.add_0_r. done. }
  rewrite Nat2Z.inj_succ in *. destruct (step_ok ws op used Hok ltac:(lia)) as [Hok1 Hgone].
  destruct (IH _ _ Hok1 ltac:(lia)) as [Hok2 Hgone2]. fold (workspace_run (workspace_step ws op) ops) in *.
  split; [by replace (used + Z.succ (Z.of_nat (length ops))) with (used + 1 + Z.of_nat (length ops)) by lia|].
  intros i Hi Hni. destruct (Hgone i Hi Hni) as [? ?]. apply Hgone2; (done || lia).
Qed.
(** Session identifiers are never reused. Through any sequence of fewer than
    [2 ^ 64 - 2] operations the open sessions have distinct identifiers, and one that
    was closed is not the identifier of any later session: looking it up, closing it or
    editing through it finds nothing, whatever the operations in between. *)
Theorem session_ids_never_reused before id after :
  Z.of_nat (length before + length after) < 18446744073709551614 ->
  let ws := workspace_run new_workspace before in
  snd (Close ws id) = Ok tt ->
  let ws' := workspace_run (fst (Close ws id)) after in
  NoDup (Ids ws') /\ FindSession ws' id = None /\ snd (Close ws' id) <> Ok tt
  /\ forall k sel op, EditNumeric ws' {| ref_session := id; ref_map_index := k |} sel op = (ws', Ok (EditNotApplicable kClosedSession)).
Proof.
  cbv zeta. intros Hl. rewrite Nat2Z.inj_add in Hl.
  assert (ids_ok new_workspace 0) as H0 by (unfold ids_ok; cbn; split_and!; [constructor|constructor|lia|lia]).
  destruct (run_ok before new_workspace 0 H0 ltac:(lia)) as [Hok _]. set (ws := workspace_run new_workspace before) in *.
  intros Hc. destruct (erase_id id (sessions_ ws)) as [ss|] eqn:E; [|unfold Close in Hc; by rewrite E in Hc].
  destruct (erase_ids _ _ _ E) as (a & b & E1 & E2). fold (Ids ws) in E1.
  change (fst (Close ws id)) with (workspace_step ws (CloseOp id)). set (ws1 := workspace_step ws (CloseOp id)).
  destruct (step_ok ws (CloseOp id) _ Hok ltac:(lia)) as [Hok1 _]. fold ws1 in Hok1.
  assert (Ids ws1 = a ++ b /\ next_id_ ws1 = next_id_ ws) as [I1 N1].
  { subst ws1. cbn [workspace_step]. unfold Close. rewrite E. done. }
  destruct Hok as (Hd & HF & Hn). rewrite E1 in Hd, HF. apply NoDup_app in Hd as (_ & Hd1 & [Hd2 _]%NoDup_cons).
  rewrite Forall_app, Forall_cons in HF. destruct HF as (_ & Hid & _).
  destruct (run_ok after ws1 _ Hok1 ltac:(lia)) as [(Hnd & _) Hgone].
  assert (id ∉ Ids (workspace_run ws1 after)) as Hnot.
  { apply Hgone; [lia|]. rewrite I1. rewrite elem_of_app. intros [?|?]; [set_solver|done]. }
  set (ws' := workspace_run ws1 after) in *.
  assert (FindSession ws' id = None) as Hfind.
  { unfold FindSession. apply find_None_Forall, list.Forall_forall. intros s Hs. apply Z.eqb_neq. intros <-. apply Hnot.
    apply list_elem_of_In, in_map, list_elem_of_In. done. }
  split_and!; try done.
  - unfold Close. by rewrite (proj2 (erase_none id (sessions_ ws')) Hnot).
  - intros k sel op. unfold EditNumeric, PrepareNumericTarget, LocateMap. cbn [ref_session ref_map_index]. by rewrite Hfind.
Qed.
End identifiers.

(** ** A sample workspace *)
Definition sample_contents : SessionContents :=
  {| c_source := {| src_display_name := "a.bin"; src_path := "/roms/a.bin"; src_origin := OFile |};
     c_image := sample_image;
     c_definition := Some {| res_format := kEcuFlash; res_id := "A1"; res_definition := sample_definition |};
     c_protocol := {| pi_flash_method := ""; pi_checksum_module := ""; pi_mcu_type := ""; pi_kernel_path := "";
       pi_kernel_start_address := ""; pi_rom_id := ""; pi_file_size_label := "48kb" |} |}.
Definition sample_opened : result Error RomOpenOutcome := Ok {| o_contents := sample_contents; o_vehicle_selected := false |}.
Definition sample_workspace : CalibrationWorkspace := fst (OpenFile new_workspace sample_opened).
Lemma sample_workspace_ok : workspace_ok sample_workspace.
Proof.
  split_and!.
  - apply Forall_cons. split; [|constructor]. split; [split; [exact sample_image_ok|unfold kU32Max; cbn; lia]|].
    intros r [= <-]. apply Forall_cons. split; [apply sample_calibration_wf; unfold u32_ok; lia|].
    apply Forall_cons. split; [apply sample_calibration_wf; unfold u32_ok; lia|constructor].
  - apply NoDup_singleton.
  - apply Forall_cons. split; [vm_compute; split; congruence|constructor].
Qed.
Definition first_cell : NumericSelection :=
  {| ns_target := kMapBody; ns_elements := {| first_row := 0; first_col := 1; last_row := 0; last_col := 1 |} |}.
Definition first_map : MapRef := {| ref_session := 1; ref_map_index := 0 |}.
(** Adding 12 psi to one cell. *)
Definition sample_edit : CalibrationWorkspace * result Error NumericEditOutcome :=
  EditNumeric sample_workspace first_map first_cell (AssignmentEdit "x + 12").
Lemma sample_edit_changes : snd sample_edit = Ok NumericEditChanged.
Proof. vm_compute. reflexivity. Qed.
Lemma EditNumeric_atomic_witness :
  exists s', FindSession (fst sample_edit) 1 = Some s' /\ dirty_ s' = true.
Proof.
  destruct (EditNumeric_atomic (HDS := binary64_spec) (HNS := binary64_numeric_spec) sample_workspace first_map first_cell
    (AssignmentEdit "x + 12") (fst sample_edit) (snd sample_edit) sample_workspace_ok (surjective_pairing sample_edit)) as [_ Hc].
  destruct (Hc sample_edit_changes) as (p & s' & patch & _ & _ & Ef & Hed & _).
  exists s'. split; [exact Ef|]. exact (proj2 (proj2 (ed_session _ _ _ _ _ _ Hed))).
Defined.
Lemma edit_then_decode_witness :
  exists p', PrepareNumericTarget (fst sample_edit) 1 0 kMapBody = inl p' /\ zlen (pt_run p') = 4.
Proof.
  assert (EditNumeric sample_workspace first_map first_cell (AssignmentEdit "x + 12") = (fst sample_edit, Ok NumericEditChanged)) as E.
  { rewrite <- sample_edit_changes. apply surjective_pairing. }
  destruct (edit_then_decode (HDS := binary64_spec) (HNS := binary64_numeric_spec) sample_workspace first_map first_cell
    (AssignmentEdit "x + 12") (fst sample_edit) sample_workspace_ok E) as (p & p' & patch & Ep & Ep' & _ & Hl & _).
  exists p'. split; [exact Ep'|]. rewrite Hl.
  assert (match PrepareNumericTarget sample_workspace 1 0 kMapBody with inl p => zlen (pt_run p) | inr _ => 0 end = 4) as En
    by (vm_compute; reflexivity).
  change (PrepareNumericTarget sample_workspace (ref_session first_map) (ref_map_index first_map) (ns_target first_cell))
    with (PrepareNumericTarget sample_workspace 1 0 kMapBody) in Ep. rewrite Ep in En. exact En.
Defined.
Lemma session_ids_never_reused_witness :
  let ws := workspace_run new_workspace [OpenOp sample_opened; OpenOp sample_opened] in
  snd (Close ws 1) = Ok tt
  /\ FindSession (workspace_run (fst (Close ws 1)) [OpenOp sample_opened; CloseOp 2; OpenOp sample_opened]) 1 = None.
Proof.
  cbv zeta. assert (snd (Close (workspace_run new_workspace [OpenOp sample_opened; OpenOp sample_opened]) 1) = Ok tt) as E
    by reflexivity. split; [exact E|].
  exact (proj1 (proj2 (session_ids_never_reused [OpenOp sample_opened; OpenOp sample_opened] 1
    [OpenOp sample_opened; CloseOp 2; OpenOp sample_opened] eq_refl E))).
Defined.
(** A switch stored as a two-byte blob. *)
Definition switch_scaling : Scaling :=
  {| sc_name := "Boost"; sc_units := ""; sc_from_byte := "x"; sc_to_byte := "x"; sc_format := ""; sc_minimum := "";
     sc_maximum := ""; sc_coarse_increment := ""; sc_fine_increment := ""; sc_storage_type := Some kBloblist;
     sc_endian := ""; sc_selections := [{| sel_name := "off"; sel_value := [0; 0] |}; {| sel_name := "on"; sel_value := [1; 255] |}] |}.
Definition switch_definition : RomDefinition :=
  {| rd_format := kEcuFlash; rd_source := "a.xml"; rd_identity := rd_identity sample_definition;
     rd_metadata := rd_metadata sample_definition; rd_parents := []; rd_maps := [sample_calibration 0x10];
     rd_scalings := [switch_scaling]; rd_resolved_sources := []; rd_resolved_definition_ids := [] |}.
Definition switch_workspace : CalibrationWorkspace :=
  fst (OpenFile new_workspace (Ok {| o_contents := {| c_source := c_source sample_contents; c_image := sample_image;
    c_definition := Some {| res_format := kEcuFlash; res_id := "A1"; res_definition := switch_definition |};
    c_protocol := c_protocol sample_contents |}; o_vehicle_selected := false |})).
Lemma switch_workspace_ok : workspace_ok switch_workspace.
Proof.
  split_and!; [|apply NoDup_singleton|apply Forall_cons; split; [vm_compute; split; congruence|constructor]].
  apply Forall_cons. split; [|constructor]. split; [split; [exact sample_image_ok|unfold kU32Max; cbn; lia]|].
  intros r [= <-]. apply Forall_cons. split; [apply sample_calibration_wf; unfold u32_ok; lia|constructor].
Qed.
Lemma switch_selections_ok : selections_ok switch_definition.
Proof. repeat constructor; unfold byte_ok; lia. Qed.
Definition switch_on : CalibrationWorkspace * result Error SelectableEditOutcome :=
  EditSelectable switch_workspace first_map "on".
Definition switch_located : LocatedMap :=
  {| lm_session := new_session 1 {| c_source := c_source sample_contents; c_image := sample_image;
       c_definition := Some {| res_format := kEcuFlash; res_id := "A1"; res_definition := switch_definition |};
       c_protocol := c_protocol sample_contents |};
     lm_definition := switch_definition; lm_map := sample_calibration 0x10 |}.
Lemma switch_LocateMap : LocateMap switch_workspace (ref_session first_map) (ref_map_index first_map) = inl switch_located.
Proof. reflexivity. Qed.
Lemma EditSelectable_stores_witness :
  exists s', FindSession (fst switch_on) 1 = Some s' /\ dirty_ s' = true /\ def_bytes s' 0x10 2 = [1; 255].
Proof.
  assert (snd switch_on = Ok SelectableEditChanged) as Ec by (vm_compute; reflexivity).
  destruct (EditSelectable_stores switch_workspace first_map "on" (fst switch_on) (snd switch_on)) as [_ Hc].
  - exact switch_workspace_ok.
  - intros l Hl. rewrite switch_LocateMap in Hl. injection Hl as <-. exact switch_selections_ok.
  - apply surjective_pairing.
  - destruct (Hc (or_introl Ec)) as (l & sc & c & s' & El & Esc & Hin & Hn & Ef & _ & _ & Hb & _ & Hd & _).
    exists s'. split; [exact Ef|]. split; [exact (Hd Ec)|]. rewrite switch_LocateMap in El.
    assert (l = switch_located) as -> by congruence.
    change (FindScaling switch_definition "Boost" = Some sc) in Esc.
    change (FindScaling switch_definition "Boost") with (Some switch_scaling) in Esc.
    assert (sc = switch_scaling) as -> by congruence. cbn [switch_scaling sc_selections] in Hin.
    apply elem_of_cons in Hin as [-> | Hin]; [discriminate Hn|]. apply list_elem_of_singleton in Hin as ->. exact Hb.
Defined.
