(* ===== verification/CopyPaste.v ===== *)
(** * CopyPaste: the clipboard text of numeric cells

    [PreparedNumericTarget::Copy] and [ParsePaste] of
    [src/backend/calibration/session/numeric_target_internal.cpp], and the splitting of
    clipboard text in [src/ui/desktop/calibration/map_edit_adapter.cpp]. *)
From S2P Require Import Prelude Bytes.
From S2P Require Import MemoryMap MemoryImage.
From S2P Require Import Ports.
From S2P Require Import Expression Numeric FixedNotation.
From S2P Require Import DefinitionModel.
From S2P Require Import CalibrationLayout.
From S2P Require Import NumericEdit.
From S2P Require Import CalibrationSession.

Definition tab : ascii := "009".
Definition newline : ascii := "010".
(** [QString::split]: empty parts are kept. *)
Fixpoint split (sep : ascii) (text : list ascii) : list (list ascii) :=
  match text with
  | [] => [[]]
  | c :: text =>
      if (c =? sep)%char then [] :: split sep text
      else match split sep text with part :: parts => (c :: part) :: parts | [] => [[c]] end
  end.
Definition splitPasteRows (text : list ascii) : list (list string) :=
  let rows := split newline text in
  let rows := match list.last text with
              | Some c => if (c =? newline)%char then removelast rows else rows
              | None => rows
              end in
  map (fun row => map String.string_of_list_ascii (split tab row)) rows.

(** ** Joining: lemmas *)
Section joining.
Context (sep : ascii).
Definition join (parts : list (list ascii)) : list ascii :=
  match parts with [] => [] | p :: ps => p ++ List.concat (map (cons sep) ps) end.
Lemma split_app p rest : sep ∉ p -> split sep (p ++ sep :: rest) = p :: split sep rest.
Proof.
  induction p as [|c p IH]; intros Hn; cbn; [by rewrite Ascii.eqb_refl|]. apply not_elem_of_cons in Hn as [Hc Hn].
  rewrite (proj2 (Ascii.eqb_neq c sep)) by congruence. by rewrite IH.
Qed.
Lemma split_single p : sep ∉ p -> split sep p = [p].
Proof.
  induction p as [|c p IH]; intros Hn; cbn; [done|]. apply not_elem_of_cons in Hn as [Hc Hn].
  rewrite (proj2 (Ascii.eqb_neq c sep)) by congruence. by rewrite IH.
Qed.
Lemma split_join ps : ps <> [] -> Forall (fun p => sep ∉ p) ps -> split sep (join ps) = ps.
Proof.
  destruct ps as [|p ps]; [done|]. intros _. cbn [join]. revert p. induction ps as [|q ps IH]; intros p HF; cbn [map List.concat].
  - rewrite app_nil_r. apply split_single. by apply Forall_cons in HF as [? _].
  - apply Forall_cons in HF as [Hp HF]. cbn [app]. rewrite split_app by done. f_equal. apply IH. done.
Qed.
Lemma elem_of_join c ps : c ∈ join ps -> c = sep \/ exists p, p ∈ ps /\ c ∈ p.
Proof.
  destruct ps as [|p ps]; [by intros ?%not_elem_of_nil|]. cbn [join]. rewrite elem_of_app. intros [Hc|Hc]; [right; exists p; set_solver|].
  induction ps as [|q ps IH]; cbn in Hc; [by apply not_elem_of_nil in Hc|]. apply elem_of_cons in Hc as [-> | Hc]; [by left|].
  apply elem_of_app in Hc as [Hc|Hc]; [right; exists q; set_solver|]. destruct (IH Hc) as [->|(r & Hr & Hin)]; [by left|].
  right. exists r. set_solver.
Qed.
Lemma last_join ps p : p <> [] -> list.last (join (ps ++ [p])) = list.last p.
Proof.
  intros Hp. destruct (exists_last Hp) as (l & x & ->). destruct ps as [|q ps]; cbn [app join map List.concat].
  - rewrite app_nil_r. done.
  - rewrite map_app, concat_app. cbn [map List.concat app]. rewrite app_nil_r, app_comm_cons, !app_assoc.
    by rewrite !last_snoc.
Qed.
Lemma join_app_cons p ps q : join (p :: ps ++ [q]) = join (p :: ps) ++ sep :: q.
Proof. cbn [join]. rewrite map_app, concat_app. cbn. by rewrite app_nil_r, app_assoc. Qed.
End joining.

(** ** The copied text: lemmas *)
Section copying.
Context `{HN : Numeric} (width : Z) (range : SelectionRange) (cells : NumericRun).
Definition cell_value (row col : Z) (v : double) : Prop := zlookup cells (row * width + col) = Some (Ok v).
Definition columns : list Z := seqZ (first_col range) (last_col range - first_col range + 1).
Definition row_text (vs : list double) : list ascii := join tab (map FormatValue vs).
(** The cells of a row after its first. *)
Lemma copy_row_tail row cols rest text out :
  Forall (fun c => c <> first_col range) cols ->
  copy_cells width range cells (((fun col => (row, col)) <$> cols) ++ rest) text = NumericCopyText out ->
  exists vs, Forall2 (cell_value row) cols vs
    /\ copy_cells width range cells rest (text ++ List.concat (map (fun v => tab :: FormatValue v) vs)) = NumericCopyText out.
Proof.
  revert text. induction cols as [|c cols IH]; intros text HF E; [exists []; split; [constructor|by rewrite app_nil_r]|].
  apply Forall_cons in HF as [Hc HF]. rewrite fmap_cons in E. cbn [app copy_cells] in E. cbv zeta in E.
  rewrite (proj2 (Z.eqb_neq c (first_col range)) Hc) in E. cbn [andb negb] in E.
  destruct (zlookup cells _) as [[v|e]|] eqn:Ev in E; [|done..]. destruct (IH _ HF E) as (vs & Hvs & Eo).
  exists (v :: vs). split; [by constructor|]. cbn [map List.concat]. rewrite <- Eo. f_equal. rewrite <- !app_assoc. done.
Qed.
Context (Hcols : first_col range <= last_col range).
Lemma columns_cons : exists cols, columns = first_col range :: cols /\ Forall (fun c => c <> first_col range) cols.
Proof.
  unfold columns. rewrite seqZ_cons by lia. eexists. split; [done|]. apply list.Forall_forall.
  intros c Hc%elem_of_seqZ. lia.
Qed.
Lemma copy_row row rest text out :
  copy_cells width range cells (((fun col => (row, col)) <$> columns) ++ rest) text = NumericCopyText out ->
  exists vs, Forall2 (cell_value row) columns vs
    /\ copy_cells width range cells rest
         ((if row =? first_row range then text else text ++ [newline]) ++ row_text vs) = NumericCopyText out.
Proof.
  destruct columns_cons as (cols & -> & HF). rewrite fmap_cons. cbn [app copy_cells]. cbv zeta. rewrite Z.eqb_refl. cbn [andb negb].
  destruct (zlookup cells _) as [[v|e]|] eqn:Ev; [|done..]. intros E.
  destruct (copy_row_tail row cols rest _ out HF E) as (vs & Hvs & Eo). exists (v :: vs). split; [by constructor|].
  rewrite <- Eo. f_equal. unfold row_text, join. cbn [map]. rewrite map_map. destruct (row =? first_row range); cbn [negb]; by rewrite <- !app_assoc.
Qed.
Lemma copy_rows rows rest_text out :
  Forall (fun r => r <> first_row range) rows ->
  copy_cells width range cells (rows ≫= fun row => (fun col => (row, col)) <$> columns) rest_text = NumericCopyText out ->
  exists vss, Forall2 (fun row vs => Forall2 (cell_value row) columns vs) rows vss
    /\ out = rest_text ++ List.concat (map (fun vs => newline :: row_text vs) vss).
Proof.
  revert rest_text. induction rows as [|r rows IH]; intros text HF E.
  { cbn in E. injection E as <-. exists []. split; [constructor|by rewrite app_nil_r]. }
  apply Forall_cons in HF as [Hr HF]. rewrite bind_cons in E. destruct (copy_row _ _ _ _ E) as (vs & Hvs & E').
  rewrite (proj2 (Z.eqb_neq r (first_row range)) Hr) in E'. destruct (IH _ HF E') as (vss & Hvss & ->).
  exists (vs :: vss). split; [by constructor|]. cbn [map List.concat]. rewrite <- !app_assoc. done.
Qed.
Lemma copy_text out :
  first_row range <= last_row range ->
  copy_cells width range cells (coordinates range) [] = NumericCopyText out ->
  exists vss, Forall2 (fun row vs => Forall2 (cell_value row) columns vs)
      (seqZ (first_row range) (last_row range - first_row range + 1)) vss
    /\ vss <> [] /\ out = join newline (map row_text vss).
Proof.
  intros Hrows. unfold coordinates. fold columns. rewrite seqZ_cons by lia. rewrite bind_cons. intros E.
  destruct (copy_row _ _ _ _ E) as (vs & Hvs & E'). rewrite Z.eqb_refl in E'. cbn [app] in E'.
  apply copy_rows in E' as (vss & Hvss & ->); [|apply list.Forall_forall; intros r Hr%elem_of_seqZ; lia].
  exists (vs :: vss). split; [by constructor|]. split; [done|]. cbn [map join]. by rewrite map_map.
Qed.
End copying.

(** ** Pasting it back *)
Section pasting.
Context `{HN : Numeric}.
(** The printed form of a value reads back and has no separators. *)
Definition readable (v : double) : Prop :=
  ParseFiniteNumber (FormatValue v) = Ok v /\ FormatValue v <> [] /\ (tab ∉ FormatValue v) /\ (newline ∉ FormatValue v).
Lemma plain_not_white c : plain c -> Whitespace c = false.
Proof.
  intros Hc. unfold Whitespace. apply bool_decide_eq_false_2. intros Hin.
  repeat (apply elem_of_cons in Hin as [->|Hin]; [destruct Hc as [Hc|[Hc|Hc]]; [discriminate Hc|discriminate Hc|vm_compute in Hc; by destruct Hc as [[] _] || by destruct Hc]|]).
  by apply elem_of_nil in Hin.
Qed.
Lemma trim_front_plain l : Forall plain l -> trim_front l = l.
Proof. destruct l as [|c l]; [done|]. intros [Hc _]%Forall_cons. cbn. by rewrite plain_not_white. Qed.
Lemma Trimmed_plain l : Forall plain l -> Trimmed l = l.
Proof.
  intros Hl. unfold Trimmed. rewrite (trim_front_plain l) by done. rewrite trim_front_plain; [apply rev_involutive|]. by apply Forall_rev.
Qed.
(** What [std::to_chars] and [std::from_chars] promise makes every finite number readable. *)
Lemma number_readable {representable : double -> Prop} {FN : FixedNotation representable} v :
  representable v -> isfinite v = true -> readable v.
Proof.
  intros Hv Hf. destruct (to_chars_plain v Hv Hf) as [Hp Hne]. pose proof (to_chars_reads v Hv Hf) as Hr. unfold readable, FormatValue.
  rewrite list.Forall_forall in Hp. split_and!.
  - unfold ParseFiniteNumber. rewrite Trimmed_plain by (by apply list.Forall_forall). destruct (to_chars_fixed v) as [|c l]; [done|].
    assert (plain c) as Hc by (apply Hp; by left).
    assert (forall t : list ascii, (match c :: t with
      | "+"%char :: text => match text with c' :: _ => if (c' =? "-")%char || (c' =? "+")%char then Err "numeric literal has multiple signs"%string else Ok text | [] => Ok text end
      | _ => Ok (c :: t) end) = Ok (c :: t)) as ->.
    { intros t. destruct Hc as [->|[->|Hc]]; [done|done|]. destruct c as [[] [] [] [] [] [] [] []]; try reflexivity. vm_compute in Hc. by destruct Hc as [[] _] || by destruct Hc. }
    cbn [result_bind]. rewrite Hr, Nat.eqb_refl. cbn [negb]. unfold Finite. by rewrite Hf.
  - done.
  - intros Hin%Hp. destruct Hin as [E|[E|E]]; [discriminate E|discriminate E|vm_compute in E; by destruct E as [[] _] || by destruct E].
  - intros Hin%Hp. destruct Hin as [E|[E|E]]; [discriminate E|discriminate E|vm_compute in E; by destruct E as [[] _] || by destruct E].
Qed.
Definition cell_text (v : double) : string := String.string_of_list_ascii (FormatValue v).
Lemma chars_cell_text v : chars (cell_text v) = FormatValue v.
Proof. apply String.list_ascii_of_string_of_list_ascii. Qed.
Lemma ParseRow_texts vs : Forall readable vs -> ParseRow (map cell_text vs) = Ok vs.
Proof.
  induction vs as [|v vs IH]; intros HF; cbn [map ParseRow]; [done|]. apply Forall_cons in HF as [(Hv & _) HF].
  rewrite chars_cell_text, Hv, (IH HF). done.
Qed.
Lemma ParsePaste_texts vss : Forall (Forall readable) vss -> ParsePaste (map (map cell_text) vss) = Ok vss.
Proof.
  induction vss as [|vs vss IH]; intros HF; cbn [map ParsePaste]; [done|]. apply Forall_cons in HF as [Hv HF].
  by rewrite ParseRow_texts, (IH HF) by done.
Qed.
Lemma split_row vs : vs <> [] -> Forall readable vs -> split tab (row_text vs) = map FormatValue vs.
Proof.
  intros Hne HF. apply split_join; [by destruct vs|]. apply List.Forall_map. eapply Forall_impl; [exact HF|].
  intros v (_ & _ & Ht & _). done.
Qed.
Lemma row_text_newline vs : Forall readable vs -> newline ∉ row_text vs.
Proof.
  intros HF Hin. apply elem_of_join in Hin as [?|(p & Hp & Hc)]; [done|].
  apply list_elem_of_In, in_map_iff in Hp as (v & <- & Hv). rewrite list.Forall_forall in HF.
  apply list_elem_of_In in Hv. by apply (HF v Hv).
Qed.
Lemma row_text_nonempty vs : vs <> [] -> Forall readable vs -> row_text vs <> [].
Proof.
  destruct vs as [|v vs]; [done|]. intros _ [(_ & Hn & _) _]%Forall_cons. unfold row_text. cbn [map join].
  by destruct (FormatValue v).
Qed.
Lemma splitPasteRows_text vss :
  vss <> [] -> Forall (fun vs => vs <> []) vss -> Forall (Forall readable) vss ->
  splitPasteRows (join newline (map row_text vss)) = map (map cell_text) vss.
Proof.
  intros Hne Hrows HF. unfold splitPasteRows. cbv zeta.
  assert (split newline (join newline (map row_text vss)) = map row_text vss) as ->.
  { apply split_join; [by destruct vss|]. apply List.Forall_map. eapply Forall_impl; [exact HF|]. cbn. apply row_text_newline. }
  destruct (exists_last Hne) as (vss' & vs & ->). pose proof HF as [_ Hvs]%Forall_app.
  pose proof Hrows as [_ Hn]%Forall_app. rewrite Forall_singleton in Hvs. rewrite Forall_singleton in Hn. rewrite map_app at 1. cbn [map].
  rewrite last_join by (by apply row_text_nonempty).
  assert (match list.last (row_text vs) with Some c => (c =? newline)%char | None => false end = false) as El.
  { destruct (list.last (row_text vs)) as [c|] eqn:E; [|done]. apply Ascii.eqb_neq. intros ->.
    apply (row_text_newline vs Hvs). apply last_Some_elem_of. done. }
  assert (forall rows : list (list ascii), match list.last (row_text vs) with
    | Some c => if (c =? newline)%char then removelast rows else rows | None => rows end = rows) as ->.
  { intros rows. destruct (list.last (row_text vs)); [by rewrite El|done]. }
  rewrite map_map. apply map_ext_in. intros us Hin. apply list_elem_of_In in Hin. rewrite list.Forall_forall in HF, Hrows.
  rewrite split_row by auto. rewrite map_map. done.
Qed.

(** C33: Copied cells paste back as the same values. When a copy of a selection gives text,
    and the values in it are finite numbers of the format of [double], splitting that text
    as the clipboard is split and parsing its cells gives the selected values, row by row,
    for a paste to use. Nothing is assumed of the program's printing and parsing but what
    [std::to_chars] and [std::from_chars] promise, which binary64 numbers meet. *)
Theorem copied_text_pastes_back {representable : double -> Prop} {FN : FixedNotation representable} t range out :
  Copy t range = Ok (NumericCopyText out) ->
  (forall row col v, first_row range <= row <= last_row range -> first_col range <= col <= last_col range ->
     zlookup (pt_run t) (row * me_width (pt_element t) + col) = Some (Ok v) -> representable v /\ isfinite v = true) ->
  exists vss, ParsePaste (splitPasteRows out) = Ok vss
    /\ Forall2 (fun row vs =>
         Forall2 (fun col v => zlookup (pt_run t) (row * me_width (pt_element t) + col) = Some (Ok v))
           (seqZ (first_col range) (last_col range - first_col range + 1)) vs)
       (seqZ (first_row range) (last_row range - first_row range + 1)) vss.
Proof.
  unfold Copy. cbv zeta. destruct (_ || _) eqn:Hc; [discriminate|]. rewrite !orb_false_iff, !Z.ltb_ge in Hc.
  destruct Hc as ((((((H1 & H2) & H3) & H4) & _) & _) & _). intros [= E] Hread.
  destruct (copy_text _ range _ H4 out H3 E) as (vss & Hvss & Hne & ->). exists vss. split; [|exact Hvss].
  assert (Forall (fun vs => vs <> [] /\ Forall readable vs) vss) as HF.
  { apply list.Forall_forall. intros vs Hin. apply list_elem_of_lookup in Hin as [k Hk].
    destruct (Forall2_lookup_r _ _ _ _ _ Hvss Hk) as (row & Hrow & Hvs).
    apply list_elem_of_lookup_2, elem_of_seqZ in Hrow. split.
    - intros ->. apply Forall2_length in Hvs. unfold columns in Hvs. rewrite length_seqZ in Hvs. cbn in Hvs. lia.
    - apply list.Forall_forall. intros v Hv. apply list_elem_of_lookup in Hv as [k' Hk'].
      destruct (Forall2_lookup_r _ _ _ _ _ Hvs Hk') as (col & Hcol & Hcell).
      apply list_elem_of_lookup_2, elem_of_seqZ in Hcol. destruct (Hread row col v) as [Hrep Hfin]; [lia..|done|]. by apply number_readable. }
  apply Forall_and in HF as [Hrows HF]. rewrite splitPasteRows_text by done. by apply ParsePaste_texts.
Qed.
End pasting.
Definition sample_values : list double :=
  map (fun s => match ParseFiniteNumber (chars s) with Ok v => v | Err _ => zero end) ["12"; "0.5"; "-3.25"; "100"]%string.
Definition sample_target : PreparedNumericTarget :=
  {| pt_element := ResolveMapElement sample_definition (sample_calibration 0x10) kMapBody;
     pt_run := map Ok sample_values; pt_session := new_session 1 sample_contents |}.
Definition all_cells : SelectionRange := {| first_row := 0; first_col := 0; last_row := 1; last_col := 1 |}.
Lemma sample_numbers : Forall (fun v => SpecFloat.valid_binary kPrec kEmax v = true /\ isfinite v = true) sample_values.
Proof. repeat (apply Forall_cons; split); [vm_compute; done..|constructor]. Qed.
Lemma copied_text_pastes_back_witness :
  exists out, Copy sample_target all_cells = Ok (NumericCopyText out)
    /\ exists vss, ParsePaste (splitPasteRows out) = Ok vss /\ length vss = 2%nat.
Proof.
  assert (exists out, Copy sample_target all_cells = Ok (NumericCopyText out)) as [out E] by (eexists; vm_compute; reflexivity).
  exists out. split; [exact E|].
  destruct (copied_text_pastes_back sample_target all_cells out E) as (vss & Hp & HF).
  - intros row col v _ _ Hv. pose proof sample_numbers as Hr. rewrite list.Forall_forall in Hr. apply Hr.
    unfold zlookup in Hv. destruct (decide _) in Hv; [|discriminate Hv]. apply list_elem_of_lookup_2 in Hv.
    apply list_elem_of_In, in_map_iff in Hv as (w & Ew & Hin). injection Ew as <-. by apply list_elem_of_In.
  - exists vss. split; [exact Hp|]. apply Forall2_length in HF. rewrite <- HF. reflexivity.
Defined.
