(* ===== verification/Files.v ===== *)
(** * Files: [src/backend/ports/file_repository.h], [file_system.h],
    [atomic_file_writer.h], [resource_bundle.h]

    What use cases that work on files see of the outside: a world they read, write
    and report to, known only through these operations. A computation passes the
    world along, so a theorem for every world covers files that change between two
    reads and writes that fail. *)
From S2P Require Import Prelude.
From S2P Require Import Ports.

Record DirEntry := { entry_name : string; is_directory : bool; modified_time_epoch_seconds : Z; is_symlink : bool }.
Class World (W : Type) := {
  files_Read : string -> W -> result Error (list Z) * W;
  files_Write : string -> list Z -> W -> Status * W;
  writer_Replace : string -> list Z -> W -> Status * W;
  fs_Exists : string -> W -> bool * W;
  fs_ListDirectory : string -> W -> result Error (list DirEntry) * W;
  fs_MakeDirectory : string -> W -> Status * W;
  fs_CopyFileTo : string -> string -> bool -> W -> Status * W;
  fs_RemoveFile : string -> W -> Status * W;
  bundle_List : string -> W -> result Error (list string) * W;
  bundle_Read : string -> string -> W -> result Error (list Z) * W;
  events_Log : LogLevel -> string -> W -> W;
  events_Notice : string -> W -> W
}.
(** What [Read] hands out are bytes. *)
Class WorldTyped (W : Type) {HW : World W} : Prop :=
  read_bytes : forall handle w data, fst (files_Read handle w) = Ok data -> bytes_ok data.

Section io.
Context {W : Type}.
Definition IO (A : Type) : Type := W -> A * W.
Definition io_ret {A} (a : A) : IO A := fun w => (a, w).
Definition io_bind {A B} (m : IO A) (k : A -> IO B) : IO B := fun w => let '(a, w) := m w in k a w.
Definition io_do (f : W -> W) : IO unit := fun w => (tt, f w).
(** The early return on an error. *)
Definition io_try {A B} (m : IO (result Error A)) (k : A -> IO (result Error B)) : IO (result Error B) :=
  io_bind m (fun r => match r with Ok a => k a | Err e => io_ret (Err e) end).
End io.
Arguments IO W A : clear implicits.
Declare Scope io_scope.
Delimit Scope io_scope with io.
Notation "'io' x <- m ; k" := (io_bind m (fun x => k))
  (at level 10, x pattern, m at level 100, k at level 200) : io_scope.
Notation "'io!' x <- m ; k" := (io_try m (fun x => k))
  (at level 10, x pattern, m at level 100, k at level 200) : io_scope.
#[global] Open Scope io_scope.

(** A world that holds files, for examples. *)
Record Disk := { disk_files : list (string * list Z); disk_log : list string }.
Definition disk_find (handle : string) (d : Disk) : option (list Z) :=
  snd <$> List.find (fun f => String.eqb (fst f) handle) (disk_files d).
Definition disk_put (handle : string) (data : list Z) (d : Disk) : Disk :=
  {| disk_files := (handle, data) :: disk_files d; disk_log := disk_log d |}.
Definition disk_remove (handle : string) (d : Disk) : Disk :=
  {| disk_files := List.filter (fun f => negb (String.eqb (fst f) handle)) (disk_files d); disk_log := disk_log d |}.
Definition disk_note (line : string) (d : Disk) : Disk :=
  {| disk_files := disk_files d; disk_log := disk_log d ++ [line] |}.
#[export] Instance disk_world : World Disk := {|
  files_Read handle d :=
    (match disk_find handle d with Some data => Ok (map u8 data) | None => Fail kInvalidConfig ("cannot read " +:+ handle) end, d);
  files_Write handle data d := (Ok tt, disk_put handle data d);
  writer_Replace handle data d := (Ok tt, disk_put handle data d);
  fs_Exists path d := (bool_decide (is_Some (disk_find path d)), d);
  fs_ListDirectory path d := (Ok [], d);
  fs_MakeDirectory path d := (Ok tt, d);
  fs_CopyFileTo src dst overwrite d :=
    match disk_find src d, disk_find dst d with
    | None, _ => (Fail kInvalidConfig ("cannot read " +:+ src), d)
    | Some _, Some _ => if overwrite then (Ok tt, disk_put dst (default [] (disk_find src d)) d) else (Fail kInvalidConfig (dst +:+ " exists"), d)
    | Some data, None => (Ok tt, disk_put dst data d)
    end;
  fs_RemoveFile path d := (Ok tt, disk_remove path d);
  bundle_List bundle d := (Ok [], d);
  bundle_Read bundle name d := (Fail kInvalidConfig "no such resource", d);
  events_Log _ line d := disk_note line d;
  events_Notice line d := disk_note line d
|}.
#[export] Instance disk_typed : WorldTyped Disk.
Proof.
  intros handle d data. cbn. destruct (disk_find handle d) as [bs|]; [|discriminate]. intros [= <-].
  apply List.Forall_map, list.Forall_forall. intros b _. apply u8_range.
Qed.

(** ** A file system that works

    What the files of a world are, and what each operation may do to them: only a
    write, a copy and a removal change a file, each only the one it names, and a copy
    that may not overwrite leaves a file that is there. *)
Class FileSystem (W : Type) {HW : World W} := { file : W -> string -> option (list Z) }.
Section file_system.
Context {W : Type} {HW : World W} {FS : FileSystem W}.
Definition unchanged (w w' : W) : Prop := forall q, file w' q = file w q.
Definition unchanged_but (p : string) (w w' : W) : Prop := forall q, q <> p -> file w' q = file w q.
End file_system.
Class FileSystemLaws (W : Type) {HW : World W} {FS : FileSystem W} : Prop := {
  fs_read : forall p w, unchanged w (snd (files_Read p w)) /\ forall d, file w p = Some d -> fst (files_Read p w) = Ok d;
  fs_write : forall p d (w : W), unchanged_but p w (snd (files_Write p d w))
    /\ (fst (files_Write p d w) = Ok tt -> bytes_ok d -> file (snd (files_Write p d w)) p = Some d);
  fs_replace : forall p d (w : W), unchanged_but p w (snd (writer_Replace p d w))
    /\ (fst (writer_Replace p d w) = Ok tt -> bytes_ok d -> file (snd (writer_Replace p d w)) p = Some d);
  fs_exists : forall p w, unchanged w (snd (fs_Exists p w)) /\ (is_Some (file w p) -> fst (fs_Exists p w) = true);
  fs_list : forall p (w : W), unchanged w (snd (fs_ListDirectory p w));
  fs_mkdir : forall p (w : W), unchanged w (snd (fs_MakeDirectory p w));
  fs_copy : forall s d b (w : W), unchanged_but d w (snd (fs_CopyFileTo s d b w))
    /\ (b = false -> is_Some (file w d) -> file (snd (fs_CopyFileTo s d b w)) d = file w d);
  fs_remove : forall p (w : W), unchanged_but p w (snd (fs_RemoveFile p w));
  fs_bundle_list : forall b (w : W), unchanged w (snd (bundle_List b w));
  fs_bundle_read : forall b n (w : W), unchanged w (snd (bundle_Read b n w));
  fs_log : forall l s (w : W), unchanged w (events_Log l s w);
  fs_notice : forall s (w : W), unchanged w (events_Notice s w)
}.
#[export] Instance disk_file_system : FileSystem Disk := {| file d p := map u8 <$> disk_find p d |}.
Lemma disk_find_put p data d q : disk_find q (disk_put p data d) = if String.eqb p q then Some data else disk_find q d.
Proof. unfold disk_find. cbn. by destruct (String.eqb p q). Qed.
Lemma disk_find_remove p d q : q <> p -> disk_find q (disk_remove p d) = disk_find q d.
Proof.
  intros Hq. unfold disk_find, disk_remove. cbn. induction (disk_files d) as [|[n data] fs IH]; [done|]. cbn.
  destruct (String.eqb_spec n p) as [->|]; cbn.
  - rewrite IH. by destruct (String.eqb_spec p q) as [->|].
  - by destruct (String.eqb_spec n q).
Qed.
Lemma map_u8_id l : bytes_ok l -> map u8 l = l.
Proof. intros H. induction H as [|b l Hb H IH]; cbn; [done|]. rewrite IH. f_equal. apply u8_small. exact Hb. Qed.
#[export] Instance disk_laws : FileSystemLaws Disk.
Proof.
  split; try (intros; by intros q).
  - intros p w. split; [by intros q|]. intros d. cbn. by destruct (disk_find p w); [intros [= <-]|].
  - intros p d w. split.
    + intros q Hq. cbn [file disk_file_system files_Write disk_world snd]. rewrite disk_find_put.
      by destruct (String.eqb_spec p q); [congruence|].
    + intros _ Hd. cbn [file disk_file_system files_Write disk_world snd]. rewrite disk_find_put, String.eqb_refl. cbn. by rewrite map_u8_id.
  - intros p d w. split.
    + intros q Hq. cbn [file disk_file_system writer_Replace disk_world snd]. rewrite disk_find_put.
      by destruct (String.eqb_spec p q); [congruence|].
    + intros _ Hd. cbn [file disk_file_system writer_Replace disk_world snd]. rewrite disk_find_put, String.eqb_refl. cbn. by rewrite map_u8_id.
  - intros p w. split; [by intros q|]. cbn. intros H. apply bool_decide_eq_true. by destruct (disk_find p w).
  - intros s d b w. cbn [file disk_file_system fs_CopyFileTo disk_world]. destruct (disk_find s w) as [data|] eqn:Es; [|split; [by intros q|done]].
    destruct (disk_find d w) as [old|] eqn:Ed.
    + destruct b; (split; [|intros ?; (discriminate || (intros _; cbn; by rewrite ?Ed))]); intros q Hq; cbn [file disk_file_system snd]; [|done].
      rewrite disk_find_put. by destruct (String.eqb_spec d q); [congruence|].
    + split; [|by intros _ [x Hx]]. intros q Hq. cbn [file disk_file_system snd]. rewrite disk_find_put. by destruct (String.eqb_spec d q); [congruence|].
  - intros p w q Hq. cbn [file disk_file_system fs_RemoveFile disk_world snd]. by rewrite disk_find_remove.
Qed.
