(* ===== verification/Xml.v ===== *)
(** * Xml: the tree an XML parser builds

    The part of the [pugixml] interface the sources navigate documents with. The
    parser and the printer are parameters of what uses them. *)
From S2P Require Import Prelude.

(** ** The tree

    An element, one of the two kinds of text, or what only a parser told to keep it
    hands out: a declaration, a processing instruction, a comment or a document type. A
    missing node has no name, no attributes and no children. *)
Inductive XmlNode : Type :=
| Element (name : string) (attributes : list (string * string)) (children : list XmlNode)
| PcData (text : string)
| CData (text : string)
| Declaration (attributes : list (string * string))
| Pi (name value : string)
| Comment (text : string)
| Doctype (text : string).
Definition node_name (n : option XmlNode) : string := match n with Some (Element name _ _) => name | _ => "" end.
Definition node_children (n : option XmlNode) : list XmlNode :=
  match n with Some (Element _ _ children) => children | _ => [] end.
Definition is_element (n : XmlNode) : bool := match n with Element _ _ _ => true | _ => false end.
Definition is_named (name : string) (n : XmlNode) : bool :=
  match n with
  | Element name' _ _ | Pi name' _ => String.eqb name' name
  | Declaration _ => String.eqb "xml" name
  | _ => false
  end.
Definition children (n : option XmlNode) (name : string) : list XmlNode := List.filter (is_named name) (node_children n).
Definition child (n : option XmlNode) (name : string) : option XmlNode := List.find (is_named name) (node_children n).
Definition attribute (n : option XmlNode) (name : string) : option string :=
  match n with
  | Some (Element _ attributes _) => snd <$> List.find (fun a => String.eqb (fst a) name) attributes
  | _ => None
  end.
Definition has {A} (o : option A) : bool := match o with Some _ => true | None => false end.
(** [attribute.value()]: empty where there is no attribute. *)
Definition attribute_value (n : option XmlNode) (name : string) : string := default ""%string (attribute n name).
