(* ===== verification/DefinitionResolver.v ===== *)
(** * DefinitionResolver: [src/backend/definition/definition_resolver.cpp]

    Inheritance of ROM definitions: the parents a definition names are loaded,
    resolved and merged in order, its own content is laid over them, and the result
    is checked and completed. The loader is a parameter that may keep a state of its
    own. The theorems relate the memoised search to the recursive definition of
    inheritance, the indexed merge to a plain scan, and say what a resolved definition
    promises to the calibration code. *)
From stdpp Require Import gmap sorting.
From S2P Require Import Prelude.
From S2P Require Import Ports.
From S2P Require Import DefinitionModel.

#[global] Instance UnresolvedAxisDefinition_eq_dec : EqDecision UnresolvedAxisDefinition.
Proof. solve_decision. Defined.
#[global] Instance UnresolvedScaling_eq_dec : EqDecision UnresolvedScaling.
Proof. solve_decision. Defined.
#[global] Instance AxisDefinition_eq_dec : EqDecision AxisDefinition.
Proof. solve_decision. Defined.

(** ** [text_format.h] *)
Definition hex_digit (c : ascii) : option Z :=
  let n := Z.of_nat (nat_of_ascii c) in
  if (48 <=? n) && (n <=? 57) then Some (n - 48)
  else if (97 <=? n) && (n <=? 102) then Some (n - 87)
  else if (65 <=? n) && (n <=? 70) then Some (n - 55)
  else None.
Fixpoint hex_pairs (text : list ascii) : option (list Z) :=
  match text with
  | [] => Some []
  | high :: low :: text =>
      h ← hex_digit high; l ← hex_digit low; data ← hex_pairs text; Some (u8 (h * 16 + l) :: data)
  | [_] => None
  end.
Definition ParseHexBytes (text : string) : option (list Z) := hex_pairs (String.list_ascii_of_string text).

(** ** Keys and matches of maps *)
Definition FormatName (format : DefinitionFormat) : string :=
  match format with kRomRaider => "RomRaider" | kEcuFlash => "EcuFlash" end.
Definition StableMapId (map : UnresolvedCalibrationMap) : option string :=
  match um_id map with Some id => if String.eqb id "" then None else Some id | None => None end.
Definition HasStableMapId (map : UnresolvedCalibrationMap) : bool := bool_decide (is_Some (StableMapId map)).
Definition MapKey (map : UnresolvedCalibrationMap) : string := default (um_name map) (StableMapId map).
Definition MapsMatch (left right : UnresolvedCalibrationMap) : bool :=
  if HasStableMapId left && HasStableMapId right then bool_decide (um_id left = um_id right)
  else String.eqb (um_name left) (um_name right).
Definition ResolvedMapKey (map : CalibrationMap) : string :=
  if String.eqb (cm_id map) "" then cm_name map else cm_id map.
Definition ResolvedMapsMatch (left right : CalibrationMap) : bool :=
  if negb (String.eqb (cm_id left) "") && negb (String.eqb (cm_id right) "") then String.eqb (cm_id left) (cm_id right)
  else String.eqb (cm_name left) (cm_name right).

(** ** Overlays *)
Definition OverlayString (value supplied : string) : string := if String.eqb supplied "" then value else supplied.
Definition OverlayOptional {A} (value supplied : option A) : option A :=
  match supplied with Some _ => supplied | None => value end.
Definition OverlayIdentity (value supplied : RomIdentity) : RomIdentity := {|
  id_xml_id := id_xml_id supplied;
  id_internal_id := OverlayString (id_internal_id value) (id_internal_id supplied);
  id_ecu_id := OverlayString (id_ecu_id value) (id_ecu_id supplied);
  id_internal_id_address := OverlayOptional (id_internal_id_address value) (id_internal_id_address supplied)
|}.
Definition OverlayMetadata (value supplied : RomMetadata) : RomMetadata := {|
  md_make := OverlayString (md_make value) (md_make supplied);
  md_market := OverlayString (md_market value) (md_market supplied);
  md_model := OverlayString (md_model value) (md_model supplied);
  md_submodel := OverlayString (md_submodel value) (md_submodel supplied);
  md_transmission := OverlayString (md_transmission value) (md_transmission supplied);
  md_year := OverlayString (md_year value) (md_year supplied);
  md_flash_method := OverlayString (md_flash_method value) (md_flash_method supplied);
  md_memory_model := OverlayString (md_memory_model value) (md_memory_model supplied);
  md_checksum_module := OverlayString (md_checksum_module value) (md_checksum_module supplied);
  md_file_size := OverlayString (md_file_size value) (md_file_size supplied);
  md_notes := OverlayString (md_notes value) (md_notes supplied)
|}.
Definition no_axis : UnresolvedAxisDefinition := {|
  ua_type := ""; ua_name := ""; ua_units := ""; ua_format := ""; ua_storage_type := None; ua_endian := "";
  ua_address := None; ua_size := None; ua_from_byte := None; ua_to_byte := None; ua_scaling_name := "";
  ua_start_position := None; ua_interval := None; ua_log_parameter := None; ua_static_data := None
|}.
Definition OverlayAxis (value supplied : UnresolvedAxisDefinition) : UnresolvedAxisDefinition :=
  if bool_decide (supplied = no_axis) then value
  else {|
    ua_type := OverlayString (ua_type value) (ua_type supplied);
    ua_name := OverlayString (ua_name value) (ua_name supplied);
    ua_units := OverlayString (ua_units value) (ua_units supplied);
    ua_format := OverlayString (ua_format value) (ua_format supplied);
    ua_storage_type := OverlayOptional (ua_storage_type value) (ua_storage_type supplied);
    ua_endian := OverlayString (ua_endian value) (ua_endian supplied);
    ua_address := OverlayOptional (ua_address value) (ua_address supplied);
    ua_size := OverlayOptional (ua_size value) (ua_size supplied);
    ua_from_byte := OverlayOptional (ua_from_byte value) (ua_from_byte supplied);
    ua_to_byte := OverlayOptional (ua_to_byte value) (ua_to_byte supplied);
    ua_scaling_name := OverlayString (ua_scaling_name value) (ua_scaling_name supplied);
    ua_start_position := OverlayOptional (ua_start_position value) (ua_start_position supplied);
    ua_interval := OverlayOptional (ua_interval value) (ua_interval supplied);
    ua_log_parameter := OverlayOptional (ua_log_parameter value) (ua_log_parameter supplied);
    ua_static_data := OverlayOptional (ua_static_data value) (ua_static_data supplied)
  |}.
Definition OverlayMap (value supplied : UnresolvedCalibrationMap) : UnresolvedCalibrationMap := {|
  um_id := if HasStableMapId supplied then um_id supplied else um_id value;
  um_name := OverlayString (um_name value) (um_name supplied);
  um_type := OverlayString (um_type value) (um_type supplied);
  um_category := OverlayString (um_category value) (um_category supplied);
  um_subcategory := OverlayString (um_subcategory value) (um_subcategory supplied);
  um_description := OverlayString (um_description value) (um_description supplied);
  um_address := OverlayOptional (um_address value) (um_address supplied);
  um_x_size := OverlayOptional (um_x_size value) (um_x_size supplied);
  um_y_size := OverlayOptional (um_y_size value) (um_y_size supplied);
  um_swap_xy := OverlayOptional (um_swap_xy value) (um_swap_xy supplied);
  um_flip_x := OverlayOptional (um_flip_x value) (um_flip_x supplied);
  um_flip_y := OverlayOptional (um_flip_y value) (um_flip_y supplied);
  um_level := OverlayString (um_level value) (um_level supplied);
  um_user_level := OverlayString (um_user_level value) (um_user_level supplied);
  um_scaling_name := OverlayString (um_scaling_name value) (um_scaling_name supplied);
  um_storage_type := OverlayOptional (um_storage_type value) (um_storage_type supplied);
  um_endian := OverlayString (um_endian value) (um_endian supplied);
  um_start_position := OverlayOptional (um_start_position value) (um_start_position supplied);
  um_interval := OverlayOptional (um_interval value) (um_interval supplied);
  um_log_parameter := OverlayOptional (um_log_parameter value) (um_log_parameter supplied);
  um_x_axis := OverlayAxis (um_x_axis value) (um_x_axis supplied);
  um_y_axis := OverlayAxis (um_y_axis value) (um_y_axis supplied)
|}.
Definition append_new (destination : list string) (value : string) : list string :=
  if bool_decide (value ∈ destination) then destination else destination ++ [value].
Definition AppendUnique (destination values : list string) : list string := fold_left append_new values destination.

(** ** Checks of one definition *)
Definition quoted (s : string) : string := "'" +:+ s +:+ "'".
Definition of_definition (definition : UnresolvedDefinition) : string :=
  " in definition " +:+ quoted (id_xml_id (ud_identity definition)) +:+ " from " +:+ quoted (ud_source definition).
Fixpoint check_local_maps (definition : UnresolvedDefinition) (seen maps : list UnresolvedCalibrationMap) : Status :=
  match maps with
  | [] => Ok tt
  | map :: maps =>
      let duplicate := existsb (fun candidate => MapsMatch candidate map) seen in
      if negb (String.eqb (MapKey map) "") && duplicate then
        Fail kInvalidConfig ("duplicate map key " +:+ quoted (MapKey map) +:+ of_definition definition)
      else check_local_maps definition (seen ++ [map]) maps
  end.
Fixpoint check_local_scalings (definition : UnresolvedDefinition) (scalings : gmap string UnresolvedScaling)
    (todo : list UnresolvedScaling) : Status :=
  match todo with
  | [] => Ok tt
  | scaling :: todo =>
      if String.eqb (us_name scaling) "" then
        Fail kInvalidConfig ("scaling with an empty name" +:+ of_definition definition)
      else
        match scalings !! us_name scaling with
        | Some existing =>
            if bool_decide (existing <> scaling) then
              Fail kInvalidConfig ("conflicting duplicate scaling " +:+ quoted (us_name scaling) +:+ of_definition definition)
            else check_local_scalings definition scalings todo
        | None => check_local_scalings definition (<[us_name scaling := scaling]> scalings) todo
        end
  end.
Definition empty_identity (definition : UnresolvedDefinition) : string :=
  FormatName (ud_format definition) +:+ " definition from " +:+ quoted (ud_source definition)
  +:+ " has an empty definition identity".
Definition ValidateLocal (definition : UnresolvedDefinition) : Status :=
  if String.eqb (id_xml_id (ud_identity definition)) "" then Fail kInvalidConfig (empty_identity definition)
  else if String.eqb (ud_source definition) "" then
    Fail kInvalidConfig (FormatName (ud_format definition) +:+ " definition "
                         +:+ quoted (id_xml_id (ud_identity definition)) +:+ " has no source")
  else
    let! _ := check_local_maps definition [] (ud_maps definition) in
    check_local_scalings definition ∅ (ud_scalings definition).

(** ** The index of maps *)
Record MapIndex := { by_id_ : gmap string (list nat); by_name_ : gmap string (list nat) }.
Definition push (buckets : gmap string (list nat)) (key : string) (index : nat) : gmap string (list nat) :=
  <[key := default [] (buckets !! key) ++ [index]]> buckets.
Definition Add (ix : MapIndex) (map : UnresolvedCalibrationMap) (index : nat) : MapIndex := {|
  by_name_ := push (by_name_ ix) (um_name map) index;
  by_id_ := match StableMapId map with Some id => push (by_id_ ix) id index | None => by_id_ ix end
|}.
Definition AppendBucket (buckets : gmap string (list nat)) (key : string) (result : list nat) : list nat :=
  result ++ default [] (buckets !! key).
(** [std::ranges::unique]: one of each run of equal neighbours. *)
Fixpoint unique (l : list nat) : list nat :=
  match l with
  | a :: (b :: _) as l' => if Nat.eqb a b then unique l' else a :: unique l'
  | _ => l
  end.
Definition Candidates (ix : MapIndex) (map : UnresolvedCalibrationMap) : list nat :=
  let result := match StableMapId map with Some id => AppendBucket (by_id_ ix) id [] | None => [] end in
  unique (merge_sort le (AppendBucket (by_name_ ix) (um_name map) result)).

(** ** Laying a definition over another

    The value overlaid is returned; an error drops it, as its owner does. *)
Definition while_resolving (supplied : UnresolvedDefinition) : string :=
  " while resolving definition " +:+ quoted (id_xml_id (ud_identity supplied)) +:+ " from " +:+ quoted (ud_source supplied).
(** The only candidate that matches, if any; [None] when two do. *)
Fixpoint find_existing (maps : list UnresolvedCalibrationMap) (map : UnresolvedCalibrationMap) (candidates : list nat)
    (existing : option nat) : option (option nat) :=
  match candidates with
  | [] => Some existing
  | candidate :: candidates =>
      match maps !! candidate with
      | Some m =>
          if negb (MapsMatch m map) then find_existing maps map candidates existing
          else match existing with
               | Some _ => None
               | None => find_existing maps map candidates (Some candidate)
               end
      | None => find_existing maps map candidates existing
      end
  end.
Fixpoint overlay_maps (supplied : UnresolvedDefinition) (todo maps : list UnresolvedCalibrationMap) (index : MapIndex)
    : result Error (list UnresolvedCalibrationMap) :=
  match todo with
  | [] => Ok maps
  | map :: todo =>
      match find_existing maps map (Candidates index map) None with
      | None => Fail kInvalidConfig ("ambiguous map name fallback " +:+ quoted (um_name map) +:+ while_resolving supplied)
      | Some None => overlay_maps supplied todo (maps ++ [map]) (Add index map (length maps))
      | Some (Some existing) =>
          match maps !! existing with
          | Some m =>
              let m := OverlayMap m map in
              overlay_maps supplied todo (<[existing := m]> maps) (Add index m existing)
          | None => overlay_maps supplied todo maps index
          end
      end
  end.
Fixpoint overlay_scalings (supplied : UnresolvedDefinition) (todo scalings : list UnresolvedScaling)
    : result Error (list UnresolvedScaling) :=
  match todo with
  | [] => Ok scalings
  | scaling :: todo =>
      match List.find (fun s => String.eqb (us_name s) (us_name scaling)) scalings with
      | None => overlay_scalings supplied todo (scalings ++ [scaling])
      | Some existing =>
          if bool_decide (existing <> scaling) then
            Fail kInvalidConfig ("conflicting duplicate scaling " +:+ quoted (us_name scaling) +:+ while_resolving supplied)
          else overlay_scalings supplied todo scalings
      end
  end.
Fixpoint index_maps (maps : list UnresolvedCalibrationMap) (i : nat) (index : MapIndex) : MapIndex :=
  match maps with
  | [] => index
  | map :: maps => index_maps maps (S i) (Add index map i)
  end.
Definition empty_index : MapIndex := {| by_id_ := ∅; by_name_ := ∅ |}.
Definition OverlayDefinition (value supplied : UnresolvedDefinition) : result Error UnresolvedDefinition :=
  let! maps := overlay_maps supplied (ud_maps supplied) (ud_maps value) (index_maps (ud_maps value) 0 empty_index) in
  let! scalings := overlay_scalings supplied (ud_scalings supplied) (ud_scalings value) in
  Ok {|
    ud_format := ud_format supplied;
    ud_source := ud_source supplied;
    ud_identity := OverlayIdentity (ud_identity value) (ud_identity supplied);
    ud_metadata := OverlayMetadata (ud_metadata value) (ud_metadata supplied);
    ud_parents := ud_parents supplied;
    ud_maps := maps;
    ud_scalings := scalings
  |}.

(** ** Materializing *)
Definition absent_axis : AxisDefinition := {|
  ax_type := ""; ax_name := ""; ax_units := ""; ax_format := ""; ax_storage_type := None; ax_endian := "";
  ax_address := None; ax_size := 1; ax_from_byte := "x"; ax_to_byte := "x"; ax_scaling_name := "";
  ax_start_position := 1; ax_interval := 1; ax_log_parameter := ""; ax_static_data := []
|}.
Definition AxisIsPresent (axis : AxisDefinition) : bool := bool_decide (axis <> absent_axis).
Definition ResolveAxis (value : UnresolvedAxisDefinition) (default_size : Z) : AxisDefinition :=
  if bool_decide (value = no_axis) then absent_axis
  else {|
    ax_type := ua_type value;
    ax_name := ua_name value;
    ax_units := ua_units value;
    ax_format := ua_format value;
    ax_storage_type := ua_storage_type value;
    ax_endian := ua_endian value;
    ax_address := ua_address value;
    ax_size := default default_size (ua_size value);
    ax_from_byte := default "x"%string (ua_from_byte value);
    ax_to_byte := default "x"%string (ua_to_byte value);
    ax_scaling_name := ua_scaling_name value;
    ax_start_position := default 1 (ua_start_position value);
    ax_interval := default 1 (ua_interval value);
    ax_log_parameter := default ""%string (ua_log_parameter value);
    ax_static_data := default [] (ua_static_data value)
  |}.
Definition ResolveMap (value : UnresolvedCalibrationMap) : CalibrationMap := {|
  cm_id := default (um_name value) (um_id value);
  cm_name := um_name value;
  cm_type := um_type value;
  cm_category := um_category value;
  cm_subcategory := um_subcategory value;
  cm_description := um_description value;
  cm_address := um_address value;
  cm_x_size := default 1 (um_x_size value);
  cm_y_size := default 1 (um_y_size value);
  cm_swap_xy := default false (um_swap_xy value);
  cm_flip_x := default false (um_flip_x value);
  cm_flip_y := default false (um_flip_y value);
  cm_level := um_level value;
  cm_user_level := um_user_level value;
  cm_scaling_name := um_scaling_name value;
  cm_storage_type := um_storage_type value;
  cm_endian := um_endian value;
  cm_start_position := default 1 (um_start_position value);
  cm_interval := default 1 (um_interval value);
  cm_log_parameter := default ""%string (um_log_parameter value);
  cm_x_axis := ResolveAxis (um_x_axis value) (default 1 (um_x_size value));
  cm_y_axis := ResolveAxis (um_y_axis value) (default 1 (um_y_size value))
|}.
Fixpoint check_selections (scaling : Scaling) (width : Z) (names : gset string) (selections : list Selection) : Status :=
  match selections with
  | [] => Ok tt
  | selection :: selections =>
      let name := sel_name selection in
      let value := sel_value selection in
      if String.eqb name "" || bool_decide (value = []) then
        Fail kInvalidConfig ("scaling " +:+ quoted (sc_name scaling) +:+ " has an incomplete selection")
      else if negb (zlen value =? width) then
        Fail kInvalidConfig ("scaling " +:+ quoted (sc_name scaling) +:+ " has selection " +:+ quoted name
                             +:+ " whose width differs from the first selection's")
      else if bool_decide (name ∈ names) then
        Fail kInvalidConfig ("scaling " +:+ quoted (sc_name scaling) +:+ " has duplicate selection " +:+ quoted name)
      else check_selections scaling width ({[name]} ∪ names) selections
  end.
Definition ValidateScaling (scaling : Scaling) : Status :=
  match sc_selections scaling with
  | [] =>
      if bool_decide (sc_storage_type scaling = Some kBloblist) then
        Fail kInvalidConfig ("scaling " +:+ quoted (sc_name scaling) +:+ " uses bloblist storage without selections")
      else Ok tt
  | front :: _ =>
      if bool_decide (sc_storage_type scaling <> Some kBloblist) then
        Fail kInvalidConfig ("scaling " +:+ quoted (sc_name scaling) +:+ " has selections but storage type is not bloblist")
      else check_selections scaling (zlen (sel_value front)) ∅ (sc_selections scaling)
  end.
Fixpoint resolve_selections (scaling_name : string) (selections : list (string * string)) : result Error (list Selection) :=
  match selections with
  | [] => Ok []
  | (name, hex) :: selections =>
      match ParseHexBytes hex with
      | None => Fail kInvalidConfig ("scaling " +:+ quoted scaling_name +:+ " has selection " +:+ quoted name
                                     +:+ " whose value is not whole hexadecimal bytes")
      | Some bytes =>
          let! rest := resolve_selections scaling_name selections in
          Ok ({| sel_name := name; sel_value := bytes |} :: rest)
      end
  end.
Definition ResolveScaling (value : UnresolvedScaling) : result Error Scaling :=
  let! selections := resolve_selections (us_name value) (us_selections value) in
  let result := {|
    sc_name := us_name value;
    sc_units := us_units value;
    sc_from_byte := default "x"%string (us_from_byte value);
    sc_to_byte := default "x"%string (us_to_byte value);
    sc_format := default ""%string (us_format value);
    sc_minimum := us_minimum value;
    sc_maximum := us_maximum value;
    sc_coarse_increment := us_coarse_increment value;
    sc_fine_increment := us_fine_increment value;
    sc_storage_type := us_storage_type value;
    sc_endian := us_endian value;
    sc_selections := selections
  |} in
  let! _ := ValidateScaling result in
  Ok result.
Fixpoint resolve_scalings (scalings : list UnresolvedScaling) : result Error (list Scaling) :=
  match scalings with
  | [] => Ok []
  | scaling :: scalings =>
      let! resolved := ResolveScaling scaling in
      let! rest := resolve_scalings scalings in
      Ok (resolved :: rest)
  end.
Definition Materialize (value : UnresolvedDefinition) : result Error RomDefinition :=
  let! scalings := resolve_scalings (ud_scalings value) in
  Ok {|
    rd_format := ud_format value;
    rd_source := ud_source value;
    rd_identity := ud_identity value;
    rd_metadata := ud_metadata value;
    rd_parents := ud_parents value;
    rd_maps := map ResolveMap (ud_maps value);
    rd_scalings := scalings;
    rd_resolved_sources := [];
    rd_resolved_definition_ids := []
  |}.

(** ** Scalings applied to maps and axes *)
Definition ScalingIndex : Type := gmap string UnresolvedScaling.
Definition FindScaling (scalings : ScalingIndex) (name subject : string) : result Error UnresolvedScaling :=
  match scalings !! name with
  | None => Fail kInvalidConfig ("unresolved scaling " +:+ quoted name +:+ " for " +:+ subject)
  | Some scaling => Ok scaling
  end.
Definition CheckScalingAgrees (storage_type : option StorageType) (endian : string) (scaling : UnresolvedScaling)
    (subject : string) : Status :=
  if bool_decide (is_Some storage_type) && bool_decide (is_Some (us_storage_type scaling))
     && bool_decide (storage_type <> us_storage_type scaling) then
    Fail kInvalidConfig ("contradictory storage type for " +:+ subject +:+ " and scaling " +:+ quoted (us_name scaling))
  else if negb (String.eqb endian "") && negb (String.eqb (us_endian scaling) "")
          && negb (String.eqb endian (us_endian scaling)) then
    Fail kInvalidConfig ("contradictory endian for " +:+ subject +:+ " and scaling " +:+ quoted (us_name scaling))
  else Ok tt.
Definition OverlayAxisScaling (axis : AxisDefinition) (scaling : UnresolvedScaling) : AxisDefinition := {|
  ax_type := ax_type axis;
  ax_name := ax_name axis;
  ax_units := OverlayString (ax_units axis) (us_units scaling);
  ax_format := if bool_decide (is_Some (us_format scaling)) || String.eqb (ax_format axis) ""
               then default ""%string (us_format scaling) else ax_format axis;
  ax_storage_type := OverlayOptional (ax_storage_type axis) (us_storage_type scaling);
  ax_endian := OverlayString (ax_endian axis) (us_endian scaling);
  ax_address := ax_address axis;
  ax_size := ax_size axis;
  ax_from_byte := if bool_decide (is_Some (us_from_byte scaling)) || String.eqb (ax_from_byte axis) "x"
                  then default "x"%string (us_from_byte scaling) else ax_from_byte axis;
  ax_to_byte := if bool_decide (is_Some (us_to_byte scaling)) || String.eqb (ax_to_byte axis) "x"
                then default "x"%string (us_to_byte scaling) else ax_to_byte axis;
  ax_scaling_name := ax_scaling_name axis;
  ax_start_position := ax_start_position axis;
  ax_interval := ax_interval axis;
  ax_log_parameter := ax_log_parameter axis;
  ax_static_data := ax_static_data axis
|}.
Definition ApplyAxisScaling (axis : AxisDefinition) (axis_context : string) (scalings : ScalingIndex)
    : result Error AxisDefinition :=
  if String.eqb (ax_scaling_name axis) "" then Ok axis
  else
    let! scaling := FindScaling scalings (ax_scaling_name axis) axis_context in
    match us_selections scaling with
    | _ :: _ => Fail kInvalidConfig (axis_context +:+ " cannot use selectable scaling " +:+ quoted (ax_scaling_name axis))
    | [] =>
        let! _ := CheckScalingAgrees (ax_storage_type axis) (ax_endian axis) scaling axis_context in
        Ok (OverlayAxisScaling axis scaling)
    end.
Definition ValidateAxis (axis : AxisDefinition) (axis_context : string) (required_size : Z) (supports_static_data : bool)
    (scalings : ScalingIndex) : result Error AxisDefinition :=
  let is_static_axis := String.eqb (ax_type axis) "Static X Axis" in
  if negb (AxisIsPresent axis) then Ok axis
  else if String.eqb (ax_type axis) "" || (String.eqb (ax_name axis) "" && bool_decide (ax_static_data axis = [])) then
    Fail kInvalidConfig ("incomplete " +:+ axis_context)
  else if ax_size axis =? 0 then Fail kInvalidConfig ("zero dimension for " +:+ axis_context)
  else if ax_start_position axis =? 0 then Fail kInvalidConfig ("zero start position for " +:+ axis_context)
  else if negb (ax_size axis =? required_size) then Fail kInvalidConfig ("inconsistent dimension for " +:+ axis_context)
  else if is_static_axis && negb supports_static_data then
    Fail kInvalidConfig ("static data is not supported for " +:+ axis_context)
  else if is_static_axis then
    if negb (zlen (ax_static_data axis) =? ax_size axis) || existsb (fun s => String.eqb s "") (ax_static_data axis) then
      Fail kInvalidConfig ("static data count for " +:+ axis_context +:+ " does not match its size")
    else ApplyAxisScaling axis axis_context scalings
  else if bool_decide (ax_static_data axis <> []) then
    Fail kInvalidConfig ("static data on non-static " +:+ axis_context)
  else ApplyAxisScaling axis axis_context scalings.
Definition with_scaling (map : CalibrationMap) (type : string) (storage_type : option StorageType) (endian : string)
    (x_axis y_axis : AxisDefinition) : CalibrationMap := {|
  cm_id := cm_id map; cm_name := cm_name map; cm_type := type; cm_category := cm_category map;
  cm_subcategory := cm_subcategory map; cm_description := cm_description map; cm_address := cm_address map;
  cm_x_size := cm_x_size map; cm_y_size := cm_y_size map; cm_swap_xy := cm_swap_xy map; cm_flip_x := cm_flip_x map;
  cm_flip_y := cm_flip_y map; cm_level := cm_level map; cm_user_level := cm_user_level map;
  cm_scaling_name := cm_scaling_name map; cm_storage_type := storage_type; cm_endian := endian;
  cm_start_position := cm_start_position map; cm_interval := cm_interval map; cm_log_parameter := cm_log_parameter map;
  cm_x_axis := x_axis; cm_y_axis := y_axis
|}.
Definition ApplyMapScaling (map : CalibrationMap) (subject : string) (scalings : ScalingIndex)
    : result Error (CalibrationMap * bool) :=
  if String.eqb (cm_scaling_name map) "" then Ok (map, false)
  else
    let! scaling := FindScaling scalings (cm_scaling_name map) subject in
    let! _ := CheckScalingAgrees (cm_storage_type map) (cm_endian map) scaling subject in
    let storage_type := OverlayOptional (cm_storage_type map) (us_storage_type scaling) in
    let endian := OverlayString (cm_endian map) (us_endian scaling) in
    match us_selections scaling with
    | [] => Ok (with_scaling map (cm_type map) storage_type endian (cm_x_axis map) (cm_y_axis map), false)
    | _ :: _ => Ok (with_scaling map "Selectable" storage_type endian (cm_x_axis map) (cm_y_axis map), true)
    end.
Definition ValidateMap (map : CalibrationMap) (key : string) (scalings : ScalingIndex) : result Error CalibrationMap :=
  if (cm_x_size map =? 0) || (cm_y_size map =? 0) then
    Fail kInvalidConfig ("zero required dimension for map " +:+ quoted key)
  else if cm_start_position map =? 0 then Fail kInvalidConfig ("zero start position for map " +:+ quoted key)
  else
    let! (map, selection_scaling) := ApplyMapScaling map ("map " +:+ quoted key) scalings in
    let bloblist := bool_decide (cm_storage_type map = Some kBloblist) in
    let selectable := String.eqb (cm_type map) "Selectable" in
    if selectable && (negb bloblist || negb selection_scaling) then
      Fail kInvalidConfig ("selectable map " +:+ quoted key +:+ " requires a bloblist selection scaling")
    else if bloblist && negb selectable then
      Fail kInvalidConfig ("bloblist map " +:+ quoted key +:+ " must be selectable")
    else
      let! x_axis := ValidateAxis (cm_x_axis map) ("x axis for map " +:+ quoted key) (cm_x_size map) true scalings in
      let! y_axis := ValidateAxis (cm_y_axis map) ("y axis for map " +:+ quoted key) (cm_y_size map) false scalings in
      Ok (with_scaling map (cm_type map) (cm_storage_type map) (cm_endian map) x_axis y_axis).
Definition try_emplace (scalings : ScalingIndex) (scaling : UnresolvedScaling) : ScalingIndex :=
  match scalings !! us_name scaling with Some _ => scalings | None => <[us_name scaling := scaling]> scalings end.
Fixpoint validate_maps (scalings : ScalingIndex) (maps todo : list CalibrationMap) : result Error (list CalibrationMap) :=
  match todo with
  | [] => Ok maps
  | map :: todo =>
      let key := ResolvedMapKey map in
      if String.eqb key "" || String.eqb (cm_name map) "" then Fail kInvalidConfig "incomplete map identity"
      else if existsb (fun candidate => ResolvedMapsMatch candidate map) maps then
        Fail kInvalidConfig ("duplicate map key " +:+ quoted key)
      else
        let! map := ValidateMap map key scalings in
        validate_maps scalings (maps ++ [map]) todo
  end.
Definition ValidateAndResolveMaps (definition : RomDefinition) (unresolved : UnresolvedDefinition)
    : result Error RomDefinition :=
  let scalings := fold_left try_emplace (ud_scalings unresolved) ∅ in
  let! maps := validate_maps scalings [] (rd_maps definition) in
  Ok {|
    rd_format := rd_format definition; rd_source := rd_source definition; rd_identity := rd_identity definition;
    rd_metadata := rd_metadata definition; rd_parents := rd_parents definition; rd_maps := maps;
    rd_scalings := rd_scalings definition; rd_resolved_sources := rd_resolved_sources definition;
    rd_resolved_definition_ids := rd_resolved_definition_ids definition
  |}.

(** ** The search over parents *)
Definition link (result id : string) : string := if String.eqb result "" then id else result +:+ " -> " +:+ id.
Definition ChainText (stack : list string) (tail : string) : string :=
  let result := fold_left link stack ""%string in
  if String.eqb tail "" then result else link result tail.
Definition kMaxInheritanceDepth : Z := 256.
Record Resolved := { r_definition : UnresolvedDefinition; r_sources : list string; r_ids : list string }.
Definition no_definition : UnresolvedDefinition := {|
  ud_format := kRomRaider; ud_source := "";
  ud_identity := {| id_xml_id := ""; id_internal_id := ""; id_ecu_id := ""; id_internal_id_address := None |};
  ud_metadata := {| md_make := ""; md_market := ""; md_model := ""; md_submodel := ""; md_transmission := "";
                    md_year := ""; md_flash_method := ""; md_memory_model := ""; md_checksum_module := "";
                    md_file_size := ""; md_notes := "" |};
  ud_parents := []; ud_maps := []; ud_scalings := []
|}.
Definition unresolved : Resolved := {| r_definition := no_definition; r_sources := []; r_ids := [] |}.
Definition failed_in {A} (e : Error) (stack : list string) : result Error A :=
  Fail (kind e) (detail e +:+ " in inheritance chain " +:+ ChainText stack "").
Definition definition_id (definition : UnresolvedDefinition) : string := id_xml_id (ud_identity definition).

(** The loader, and the state it keeps (the file repository behind it, say). *)
Section resolver.
Context {St : Type} (loader_ : DefinitionFormat -> string -> St -> result Error UnresolvedDefinition * St)
  (format_ : DefinitionFormat).
Record ResolverState := {
  visiting_ : gset string;
  stack_ : list string;
  resolved_by_id_ : gmap string Resolved;
  loader_state : St
}.
Definition new_resolver (st : St) : ResolverState :=
  {| visiting_ := ∅; stack_ := []; resolved_by_id_ := ∅; loader_state := st |}.
Definition enter (id : string) (s : ResolverState) : ResolverState :=
  {| visiting_ := {[id]} ∪ visiting_ s; stack_ := stack_ s ++ [id]; resolved_by_id_ := resolved_by_id_ s;
     loader_state := loader_state s |}.
(** The destructor of [ChainGuard]. *)
Definition leave (id : string) (s : ResolverState) : ResolverState :=
  {| visiting_ := visiting_ s ∖ {[id]}; stack_ := removelast (stack_ s); resolved_by_id_ := resolved_by_id_ s;
     loader_state := loader_state s |}.
Definition cycle {A} (stack : list string) (id : string) : result Error A :=
  Fail kInvalidConfig ("inheritance cycle: " +:+ ChainText stack id).

Definition ResolveParent (resolve : UnresolvedDefinition -> ResolverState -> result Error Resolved * ResolverState)
    (parent_id : string) (s : ResolverState) : result Error Resolved * ResolverState :=
  let chain := ChainText (stack_ s) parent_id in
  if bool_decide (parent_id ∈ visiting_ s) then (cycle (stack_ s) parent_id, s)
  else
    match resolved_by_id_ s !! parent_id with
    | Some parent => (Ok parent, s)
    | None =>
        let '(loaded, st) := loader_ format_ parent_id (loader_state s) in
        let s := {| visiting_ := visiting_ s; stack_ := stack_ s; resolved_by_id_ := resolved_by_id_ s;
                    loader_state := st |} in
        match loaded with
        | Err e => (Fail (kind e) ("failed to load parent " +:+ quoted parent_id +:+ " in inheritance chain " +:+ chain
                                   +:+ ": " +:+ detail e), s)
        | Ok loaded =>
            if bool_decide (ud_format loaded <> format_) then
              (Fail kInvalidConfig ("cross-format parent " +:+ quoted parent_id +:+ " in inheritance chain " +:+ chain), s)
            else if negb (String.eqb (definition_id loaded) parent_id) then
              (Fail kInvalidConfig ("parent reference " +:+ quoted parent_id +:+ " loaded definition "
                                    +:+ quoted (definition_id loaded) +:+ " in inheritance chain " +:+ chain), s)
            else
              match resolve loaded s with
              | (Err e, s) => (Err e, s)
              | (Ok resolved, s) => (Ok (default resolved (resolved_by_id_ s !! parent_id)), s)
              end
        end
    end.
(** The loop over the parents; [resolved] is [None] until the first. *)
Fixpoint merge_parents (resolve : UnresolvedDefinition -> ResolverState -> result Error Resolved * ResolverState)
    (parents : list string) (resolved : option Resolved) (s : ResolverState)
    : result Error (option Resolved) * ResolverState :=
  match parents with
  | [] => (Ok resolved, s)
  | parent_id :: parents =>
      match ResolveParent resolve parent_id s with
      | (Err e, s) => (Err e, s)
      | (Ok parent, s) =>
          let merged :=
            match resolved with
            | None => Ok parent
            | Some resolved =>
                match OverlayDefinition (r_definition resolved) (r_definition parent) with
                | Err e => failed_in e (stack_ s)
                | Ok d => Ok {| r_definition := d; r_sources := r_sources resolved; r_ids := r_ids resolved |}
                end
            end in
          match merged with
          | Err e => (Err e, s)
          | Ok resolved =>
              merge_parents resolve parents
                (Some {| r_definition := r_definition resolved;
                         r_sources := AppendUnique (r_sources resolved) (r_sources parent);
                         r_ids := AppendUnique (r_ids resolved) (r_ids parent) |}) s
          end
      end
  end.
(** What is done between entering and leaving the chain. *)
Definition resolve_entered (resolve : UnresolvedDefinition -> ResolverState -> result Error Resolved * ResolverState)
    (definition : UnresolvedDefinition) (s : ResolverState) : result Error Resolved * ResolverState :=
  let id := definition_id definition in
  match ValidateLocal definition with
  | Err e => (failed_in e (stack_ s), s)
  | Ok _ =>
      match merge_parents resolve (ud_parents definition) None s with
      | (Err e, s) => (Err e, s)
      | (Ok resolved, s) =>
          let resolved := default unresolved resolved in
          match OverlayDefinition (r_definition resolved) definition with
          | Err e => (failed_in e (stack_ s), s)
          | Ok d =>
              let resolved := {| r_definition := d; r_sources := AppendUnique (r_sources resolved) [ud_source d];
                                 r_ids := AppendUnique (r_ids resolved) [definition_id d] |} in
              match resolved_by_id_ s !! id with
              | Some stored => (Ok stored, s)
              | None =>
                  (Ok resolved, {| visiting_ := visiting_ s; stack_ := stack_ s;
                                   resolved_by_id_ := <[id := resolved]> (resolved_by_id_ s);
                                   loader_state := loader_state s |})
              end
          end
      end
  end.
(** [fuel] bounds the depth of the recursion. *)
Fixpoint Resolve (fuel : nat) (definition : UnresolvedDefinition) (s : ResolverState)
    : result Error Resolved * ResolverState :=
  match fuel with
  | O => (Fail kInternal "out of fuel", s)
  | S fuel =>
      let id := definition_id definition in
      if String.eqb id "" then (Fail kInvalidConfig (empty_identity definition), s)
      else if bool_decide (id ∈ visiting_ s) then (cycle (stack_ s) id, s)
      else
        match resolved_by_id_ s !! id with
        | Some memoized => (Ok memoized, s)
        | None =>
            if kMaxInheritanceDepth <=? zlen (stack_ s) then
              (Fail kInvalidConfig ("inheritance chain exceeds maximum depth (" +:+ fmt_d kMaxInheritanceDepth +:+ "): "
                                    +:+ ChainText (stack_ s) id), s)
            else
              let '(r, s) := resolve_entered (Resolve fuel) definition (enter id s) in
              (r, leave id s)
        end
  end.
Definition resolver_fuel : nat := 257.
(** [ResolveRoot] after the search. *)
Definition complete (resolved : Resolved) : result Error RomDefinition :=
  let! materialized := Materialize (r_definition resolved) in
  ValidateAndResolveMaps {|
    rd_format := rd_format materialized; rd_source := rd_source materialized; rd_identity := rd_identity materialized;
    rd_metadata := rd_metadata materialized; rd_parents := rd_parents materialized; rd_maps := rd_maps materialized;
    rd_scalings := rd_scalings materialized; rd_resolved_sources := r_sources resolved;
    rd_resolved_definition_ids := r_ids resolved
  |} (r_definition resolved).
Definition with_context {A} (root : UnresolvedDefinition) (r : result Error A) : result Error A :=
  match r with
  | Ok a => Ok a
  | Err e => Fail (kind e) (FormatName (ud_format root) +:+ " definitions " +:+ quoted (definition_id root) +:+ " from "
                            +:+ quoted (ud_source root) +:+ ": " +:+ detail e)
  end.
Definition ResolveRoot (root : UnresolvedDefinition) (st : St) : result Error RomDefinition * St :=
  let '(resolved, s) := Resolve resolver_fuel root (new_resolver st) in
  (with_context root (let! resolved := resolved in complete resolved), loader_state s).
End resolver.
Definition ResolveDefinition {St} (root : UnresolvedDefinition)
    (loader : DefinitionFormat -> string -> St -> result Error UnresolvedDefinition * St) (st : St)
    : result Error RomDefinition * St :=
  ResolveRoot loader (ud_format root) root st.

(** ** The indexed merge is the plain scan

    The reference merge looks at every map for each supplied one. *)
Section indexed.
Definition matching (maps : list UnresolvedCalibrationMap) (map : UnresolvedCalibrationMap) (i : nat) : bool :=
  match maps !! i with Some m => MapsMatch m map | None => false end.
(** The only one of some positions, if any; [None] when there are two. *)
Definition at_most_one (l : list nat) : option (option nat) :=
  match l with [] => Some None | [i] => Some (Some i) | _ => None end.
Definition scan (maps : list UnresolvedCalibrationMap) (map : UnresolvedCalibrationMap) : option (option nat) :=
  at_most_one (List.filter (matching maps map) (seq 0 (length maps))).
Fixpoint scan_maps (supplied : UnresolvedDefinition) (todo maps : list UnresolvedCalibrationMap)
    : result Error (list UnresolvedCalibrationMap) :=
  match todo with
  | [] => Ok maps
  | map :: todo =>
      match scan maps map with
      | None => Fail kInvalidConfig ("ambiguous map name fallback " +:+ quoted (um_name map) +:+ while_resolving supplied)
      | Some None => scan_maps supplied todo (maps ++ [map])
      | Some (Some existing) => scan_maps supplied todo (alter (fun m => OverlayMap m map) existing maps)
      end
  end.

Lemma find_existing_filter maps map cands :
  find_existing maps map cands None = at_most_one (List.filter (matching maps map) cands)
  /\ forall i, find_existing maps map cands (Some i)
       = match List.filter (matching maps map) cands with [] => Some (Some i) | _ => None end.
Proof.
  induction cands as [|c cands [IH1 IH2]]; [done|]. cbn [find_existing List.filter].
  destruct (matching maps map c) eqn:E; unfold matching in E; destruct (maps !! c) as [m|]; try discriminate;
    rewrite ?E; [|done..]. cbn [negb].
  split; [|done]. rewrite IH2. by destruct (List.filter _ cands).
Qed.
Lemma at_most_one_perm l l' : l ≡ₚ l' -> at_most_one l = at_most_one l'.
Proof.
  intros Hp. destruct l as [|a [|b l]]; cbn.
  - by apply Permutation_nil in Hp as ->.
  - by apply Permutation_length_1_inv in Hp as ->.
  - destruct l' as [|a' [|b' l']]; [by apply Permutation_length in Hp..|done].
Qed.

(** Buckets. *)
Definition bucket (b : gmap string (list nat)) (k : string) : list nat := default [] (b !! k).
Lemma elem_of_push b k j k' i : i ∈ bucket (push b k j) k' <-> k = k' /\ i = j \/ i ∈ bucket b k'.
Proof.
  unfold bucket, push. destruct (decide (k = k')) as [<-|Hk].
  - rewrite lookup_insert_eq. cbn. rewrite elem_of_app, list_elem_of_singleton. tauto.
  - rewrite lookup_insert_ne by done. naive_solver.
Qed.
Definition index_ok (ix : MapIndex) (maps : list UnresolvedCalibrationMap) : Prop :=
  forall i m, maps !! i = Some m ->
    i ∈ bucket (by_name_ ix) (um_name m) /\ forall id, StableMapId m = Some id -> i ∈ bucket (by_id_ ix) id.
Lemma index_ok_Add ix maps m i :
  (forall j m', maps !! j = Some m' -> j <> i ->
     j ∈ bucket (by_name_ ix) (um_name m') /\ forall id, StableMapId m' = Some id -> j ∈ bucket (by_id_ ix) id) ->
  maps !! i = Some m -> index_ok (Add ix m i) maps.
Proof.
  intros Hother Hi j m' Hj. cbn. destruct (decide (j = i)) as [->|Hne].
  - rewrite Hi in Hj. injection Hj as <-. split; [apply elem_of_push; by left|].
    intros id ->. apply elem_of_push. by left.
  - destruct (Hother j m' Hj Hne) as [Hn Hid]. split; [apply elem_of_push; by right|].
    intros id E. specialize (Hid id E). destruct (StableMapId m); [apply elem_of_push; by right|done].
Qed.
Lemma index_ok_push ix maps m : index_ok ix maps -> index_ok (Add ix m (length maps)) (maps ++ [m]).
Proof.
  intros Hix. apply index_ok_Add; [|by rewrite lookup_app_r, Nat.sub_diag by lia].
  intros j m' Hj Hne. apply Hix. apply lookup_app_Some in Hj as [?|[Hl Hj]]; [done|].
  apply list_lookup_singleton_Some in Hj as [? _]. lia.
Qed.
Lemma index_ok_insert ix maps m (i : nat) : index_ok ix maps -> (i < length maps)%nat -> index_ok (Add ix m i) (<[i := m]> maps).
Proof.
  intros Hix Hi. apply index_ok_Add; [|by apply list_lookup_insert_eq].
  intros j m' Hj Hne. apply Hix. by rewrite list_lookup_insert_ne in Hj by done.
Qed.
Lemma index_maps_ok todo maps ix : index_ok ix maps -> index_ok (index_maps todo (length maps) ix) (maps ++ todo).
Proof.
  revert maps ix. induction todo as [|m todo IH]; intros maps ix Hix; cbn; [by rewrite app_nil_r|].
  replace (maps ++ m :: todo) with ((maps ++ [m]) ++ todo) by by rewrite <- app_assoc.
  replace (S (length maps)) with (length (maps ++ [m])) by (rewrite length_app; cbn; lia).
  apply IH. by apply index_ok_push.
Qed.

(** Candidates: every match is among them, each position once. *)
Lemma unique_cons a b l : unique (a :: b :: l) = if Nat.eqb a b then unique (b :: l) else a :: unique (b :: l).
Proof. reflexivity. Qed.
Lemma elem_of_unique i l : i ∈ unique l <-> i ∈ l.
Proof.
  induction l as [|a [|b l] IH]; [done..|]. rewrite unique_cons. destruct (Nat.eqb_spec a b) as [->|Hne].
  - rewrite IH. set_solver.
  - rewrite elem_of_cons, IH. set_solver.
Qed.
Lemma NoDup_unique l : StronglySorted le l -> NoDup (unique l).
Proof.
  induction l as [|a [|b l] IH]; intros Hs; [constructor|apply NoDup_singleton|].
  apply StronglySorted_inv in Hs as [Hs Ha]. specialize (IH Hs). rewrite unique_cons.
  destruct (Nat.eqb_spec a b) as [->|Hne]; [done|].
  apply NoDup_cons. split; [|done]. rewrite elem_of_unique. intros Hin.
  apply StronglySorted_inv in Hs as [_ Hb]. rewrite list.Forall_forall in Hb, Ha.
  specialize (Ha b ltac:(by left)). apply elem_of_cons in Hin as [->|Hin]; [done|]. specialize (Hb a Hin). lia.
Qed.
Lemma NoDup_Candidates ix map : NoDup (Candidates ix map).
Proof. apply NoDup_unique, StronglySorted_merge_sort; [apply _|]. intros x y; cbn; lia. Qed.
Lemma StableMapId_match m map : MapsMatch m map = true ->
  (exists id, StableMapId m = Some id /\ StableMapId map = Some id) \/ um_name m = um_name map.
Proof.
  unfold MapsMatch, HasStableMapId. destruct (StableMapId m) as [id|] eqn:E; [|by intros ->%String.eqb_eq; right].
  destruct (StableMapId map) as [id'|] eqn:E'; [|by intros ->%String.eqb_eq; right].
  rewrite !bool_decide_true by done. cbn. intros Hid%bool_decide_eq_true. left. exists id'. split; [|done].
  rewrite <- E, <- E'. unfold StableMapId. by rewrite Hid.
Qed.
Lemma Candidates_complete ix maps map i : index_ok ix maps -> matching maps map i = true -> i ∈ Candidates ix map.
Proof.
  unfold matching. intros Hix Hm. destruct (maps !! i) as [m|] eqn:E; [|done]. destruct (Hix i m E) as [Hn Hid].
  unfold Candidates, AppendBucket. rewrite elem_of_unique, merge_sort_Permutation, elem_of_app.
  fold (bucket (by_name_ ix) (um_name map)).
  apply StableMapId_match in Hm as [(id & E1 & E2)|<-]; [left|by right].
  rewrite E2. cbn. by apply Hid.
Qed.
Lemma find_existing_scan ix maps map : index_ok ix maps -> find_existing maps map (Candidates ix map) None = scan maps map.
Proof.
  intros Hix. rewrite (proj1 (find_existing_filter maps map (Candidates ix map))). apply at_most_one_perm.
  apply NoDup_Permutation.
  - apply NoDup_ListNoDup, List.NoDup_filter, NoDup_ListNoDup, NoDup_Candidates.
  - apply NoDup_ListNoDup, List.NoDup_filter, seq_NoDup.
  - intros i. rewrite !list_elem_of_In, !filter_In, <- !list_elem_of_In. split; intros [Hi Hm]; (split; [|done]).
    + unfold matching in Hm. destruct (maps !! i) eqn:E; [|done]. apply lookup_lt_Some in E. apply elem_of_seq. lia.
    + by eapply Candidates_complete.
Qed.
Lemma matching_lt maps map i : matching maps map i = true -> exists m, maps !! i = Some m.
Proof. unfold matching. destruct (maps !! i) as [m|]; [by exists m|done]. Qed.
Lemma scan_Some maps map i : scan maps map = Some (Some i) -> exists m, maps !! i = Some m /\ MapsMatch m map = true.
Proof.
  unfold scan. destruct (List.filter _ _) as [|j [|? ?]] eqn:E; [done| |done]. intros [= ->].
  assert (In i (List.filter (matching maps map) (seq 0 (length maps)))) as [_ Hm]%filter_In by (rewrite E; by left).
  unfold matching in Hm. destruct (maps !! i) as [m|]; [by exists m|done].
Qed.
Lemma alter_insert (f : UnresolvedCalibrationMap -> UnresolvedCalibrationMap) (maps : list UnresolvedCalibrationMap) i m :
  maps !! i = Some m -> alter f i maps = <[i := f m]> maps.
Proof. intros Hi. rewrite list_insert_alter. apply list_alter_ext; [|done]. intros x E. congruence. Qed.
Lemma overlay_maps_scan supplied todo maps ix :
  index_ok ix maps -> overlay_maps supplied todo maps ix = scan_maps supplied todo maps.
Proof.
  revert maps ix. induction todo as [|map todo IH]; intros maps ix Hix; [done|]. cbn [overlay_maps scan_maps].
  rewrite (find_existing_scan ix maps map Hix). destruct (scan maps map) as [[i|]|] eqn:E; [|by apply IH, index_ok_push|done].
  apply scan_Some in E as (m & Hi & _). rewrite Hi, (alter_insert _ _ _ _ Hi). cbv zeta.
  apply IH, index_ok_insert; [done|]. by eapply lookup_lt_Some.
Qed.
End indexed.

(** ** Inheritance, defined by recursion

    What a definition inherits, without memo, chain or cycle check: its parents'
    inherited contents merged in order, and its own laid over them. [height] bounds the
    length of the chains of parents. *)
Section inheritance.
Context (load : DefinitionFormat -> string -> result Error UnresolvedDefinition) (format_ : DefinitionFormat).
Implicit Types (d : UnresolvedDefinition) (r : Resolved) (p : string).
Definition ok_or_none {E A} (r : result E A) : option A := match r with Ok a => Some a | Err _ => None end.
Definition load_parent p : option UnresolvedDefinition :=
  d ← ok_or_none (load format_ p);
  if bool_decide (ud_format d = format_) && String.eqb (definition_id d) p then Some d else None.
Definition merge_two r r' : option Resolved :=
  d ← ok_or_none (OverlayDefinition (r_definition r) (r_definition r'));
  Some {| r_definition := d; r_sources := AppendUnique (r_sources r) (r_sources r');
          r_ids := AppendUnique (r_ids r) (r_ids r') |}.
Fixpoint merge_all r (rs : list Resolved) : option Resolved :=
  match rs with [] => Some r | r' :: rs => r ← merge_two r r'; merge_all r rs end.
Definition inherited (rs : list Resolved) : option Resolved :=
  match rs with [] => Some unresolved | r :: rs => merge_all r rs end.
Definition own r d : Resolved :=
  {| r_definition := d; r_sources := AppendUnique (r_sources r) [ud_source d];
     r_ids := AppendUnique (r_ids r) [definition_id d] |}.
Fixpoint inherit (height : nat) d : option Resolved :=
  match height with
  | O => None
  | S height =>
      _ ← ok_or_none (ValidateLocal d);
      rs ← mapM (fun p => d ← load_parent p; inherit height d) (ud_parents d);
      r ← inherited rs;
      d ← ok_or_none (OverlayDefinition (r_definition r) d);
      Some (own r d)
  end.

Lemma load_parent_Some p d : load_parent p = Some d <-> load format_ p = Ok d /\ ud_format d = format_ /\ definition_id d = p.
Proof.
  unfold load_parent. destruct (load format_ p) as [d'|e]; cbn; [|split; [done|by intros [? _]]].
  destruct (_ && _) eqn:E.
  - apply andb_prop in E as [Hf%bool_decide_eq_true Hp%String.eqb_eq]. naive_solver.
  - split; [done|]. intros ([= ->] & Hf & Hp). rewrite bool_decide_true, Hp, String.eqb_refl in E by done. done.
Qed.
Lemma mapM_mono {A B} (f g : A -> option B) l rs :
  (forall x y, f x = Some y -> g x = Some y) -> mapM f l = Some rs -> mapM g l = Some rs.
Proof. intros Hfg. rewrite !mapM_Some. intros H. eapply Forall2_impl; [done|]. naive_solver. Qed.
Lemma inherit_step n d r : inherit n d = Some r -> inherit (S n) d = Some r.
Proof.
  revert d r. induction n as [|n IH]; intros d r; [done|]. cbn [inherit] in *.
  destruct (ok_or_none (ValidateLocal d)); cbn; [|done].
  destruct (mapM _ (ud_parents d)) as [rs|] eqn:E; cbn; [|done].
  eapply mapM_mono in E; [by rewrite E|]. intros p r'. cbn. destruct (load_parent p); cbn; [apply IH|done].
Qed.
Lemma inherit_mono n m d r : (n <= m)%nat -> inherit n d = Some r -> inherit m d = Some r.
Proof. induction 1; auto using inherit_step. Qed.
Lemma inherit_unique n m d r r' : inherit n d = Some r -> inherit m d = Some r' -> r = r'.
Proof.
  intros Hn Hm. apply (inherit_mono n (n + m)) in Hn; [|lia]. apply (inherit_mono m (n + m)) in Hm; [|lia]. congruence.
Qed.
(** The least height at which a definition inherits. *)
Lemma inherit_least n d r : inherit n d = Some r ->
  exists m, (m <= n)%nat /\ inherit m d = Some r /\ forall k, (k < m)%nat -> inherit k d = None.
Proof.
  induction n as [n IH] using lt_wf_ind. intros H. destruct (decide (Exists (fun k => is_Some (inherit k d)) (seq 0 n))) as [E|E].
  - apply Exists_exists in E as (k & Hk%elem_of_seq & r' & Hr'). rewrite (inherit_unique _ _ _ _ _ Hr' H) in Hr'.
    destruct (IH k ltac:(lia) Hr') as (m & ? & ? & ?). exists m. split; [lia|done].
  - exists n. split; [lia|]. split; [done|]. intros k Hk. destruct (inherit k d) eqn:Ek; [|done]. destruct E.
    apply Exists_exists. exists k. split; [apply elem_of_seq; lia|by rewrite Ek].
Qed.
Lemma AppendUnique_self l l' : (forall x, x ∈ l' -> x ∈ l) -> AppendUnique l l' = l.
Proof.
  unfold AppendUnique. revert l. induction l' as [|x l' IH]; intros l Hl; [done|]. cbn. unfold append_new at 2.
  rewrite bool_decide_true by set_solver. apply IH. set_solver.
Qed.
End inheritance.

(** ** The chain is restored and the fuel suffices *)
Section chain.
Context {St : Type} (loader_ : DefinitionFormat -> string -> St -> result Error UnresolvedDefinition * St)
  (format_ : DefinitionFormat).
#[local] Abbreviation state := (@ResolverState St).
#[local] Abbreviation resolver := (UnresolvedDefinition -> state -> result Error Resolved * state).
Implicit Types (s : state) (f : resolver).
Definition same_chain s s' : Prop := visiting_ s' = visiting_ s /\ stack_ s' = stack_ s.
#[local] Instance same_chain_preorder : PreOrder same_chain.
Proof. split; [done|]. intros s1 s2 s3 [] []. split; congruence. Qed.
Definition keeps_chain f : Prop := forall d s, same_chain s (snd (f d s)).

Lemma ResolveParent_chain f p s : keeps_chain f -> same_chain s (snd (ResolveParent loader_ format_ f p s)).
Proof.
  intros Hf. unfold ResolveParent. destruct (bool_decide _); [done|]. destruct (_ !! p); [done|].
  destruct (loader_ _ _ _) as [[d|e] st]; [|done]. destruct (bool_decide _); [done|]. destruct (negb _); [done|].
  match goal with |- context [f d ?s0] => pose proof (Hf d s0) as Hs; destruct (f d s0) as [[r|e] s'] end; done.
Qed.
Lemma merge_parents_chain f ps acc s : keeps_chain f -> same_chain s (snd (merge_parents loader_ format_ f ps acc s)).
Proof.
  intros Hf. revert acc s. induction ps as [|p ps IH]; intros acc s; [done|]. cbn [merge_parents].
  pose proof (ResolveParent_chain f p s Hf) as Hs. destruct (ResolveParent _ _ f p s) as [[r|e] s1]; [|done]. cbn in Hs.
  destruct acc as [a|]; [destruct (OverlayDefinition _ _); [|done]|]; (etrans; [exact Hs|apply IH]).
Qed.
Lemma resolve_entered_chain f d s : keeps_chain f -> same_chain s (snd (resolve_entered loader_ format_ f d s)).
Proof.
  intros Hf. unfold resolve_entered. destruct (ValidateLocal d); [|done].
  pose proof (merge_parents_chain f (ud_parents d) None s Hf) as Hs.
  destruct (merge_parents _ _ _ _ _ s) as [[r|e] s1]; [|done]. destruct (OverlayDefinition _ _); [|done].
  destruct (_ !! _); done.
Qed.
Lemma leave_enter (id : string) s s' :
  id ∉ visiting_ s -> same_chain (enter id s) s' -> same_chain s (leave id s').
Proof.
  intros Hid [Hv Hs]. split; cbn in *; [rewrite Hv; set_solver|]. rewrite Hs. apply removelast_last.
Qed.
Lemma Resolve_chain fuel : keeps_chain (Resolve loader_ format_ fuel).
Proof.
  induction fuel as [|fuel IH]; intros d s; [done|]. cbn [Resolve]. destruct (String.eqb _ _); [done|].
  case bool_decide_reflect; intros Hid; [done|]. destruct (_ !! _); [done|]. destruct (_ <=? _); [done|].
  pose proof (resolve_entered_chain _ d (enter (definition_id d) s) IH) as Hs.
  destruct (resolve_entered _ _ _ _ _) as [r s']. by apply leave_enter.
Qed.

(** Whatever holds of the definitions loaded and survives overlays holds of what is
    resolved. *)
Section preserved.
Context (P : UnresolvedDefinition -> Prop) (P_none : P no_definition)
  (P_overlay : forall v d d', P v -> P d -> OverlayDefinition v d = Ok d' -> P d')
  (P_load : forall fmt p st d, fst (loader_ fmt p st) = Ok d -> P d).
Definition memo_all s : Prop := forall id r, resolved_by_id_ s !! id = Some r -> P (r_definition r).
Definition keeps f : Prop := forall d s r s', P d -> memo_all s -> f d s = (Ok r, s') -> P (r_definition r) /\ memo_all s'.
Lemma ResolveParent_keeps f p s r s' : keeps f -> memo_all s -> ResolveParent loader_ format_ f p s = (Ok r, s') ->
  P (r_definition r) /\ memo_all s'.
Proof.
  intros Hf Hs. unfold ResolveParent. destruct (bool_decide _); [discriminate|]. destruct (_ !! p) as [r'|] eqn:E.
  { intros [= <- <-]. split; [by eapply Hs|done]. }
  pose proof (P_load format_ p (loader_state s)) as Hl. destruct (loader_ _ _ _) as [[d|e] st]; [|discriminate].
  destruct (bool_decide _); [discriminate|]. destruct (negb _); [discriminate|].
  destruct (f d _) as [[r1|e] s1] eqn:Ef; [|discriminate]. intros [= <- <-].
  apply Hf in Ef as [Hr Hs1]; [|by apply Hl|done]. split; [|done]. destruct (resolved_by_id_ s1 !! p) as [r2|] eqn:E2; [exact (Hs1 p r2 E2)|exact Hr].
Qed.
Lemma merge_parents_keeps f ps acc s out s' : keeps f -> (forall a, acc = Some a -> P (r_definition a)) -> memo_all s ->
  merge_parents loader_ format_ f ps acc s = (Ok out, s') -> (forall a, out = Some a -> P (r_definition a)) /\ memo_all s'.
Proof.
  intros Hf. revert acc s. induction ps as [|p ps IH]; intros acc s Ha Hs; cbn [merge_parents]; [by intros [= <- <-]|].
  destruct (ResolveParent _ _ f p s) as [[r|e] s1] eqn:E; [|discriminate]. apply ResolveParent_keeps in E as [Hr Hs1]; [|done..].
  destruct acc as [a|]; cbn.
  - destruct (OverlayDefinition _ _) as [d|] eqn:Eo; [|discriminate]. apply IH; [|done]. intros a' [= <-]. cbn.
    by eapply P_overlay; [apply (Ha a)| |exact Eo].
  - apply IH; [|done]. by intros a' [= <-].
Qed.
Lemma Resolve_keeps fuel : keeps (Resolve loader_ format_ fuel).
Proof.
  induction fuel as [|fuel IH]; intros d s r s' Hd Hs; [discriminate|]. cbn [Resolve]. destruct (String.eqb _ _); [discriminate|].
  destruct (bool_decide _); [discriminate|]. destruct (_ !! _) as [r0|] eqn:E0; [intros [= <- <-]; split; [by eapply Hs|done]|].
  destruct (_ <=? _); [discriminate|]. unfold resolve_entered. destruct (ValidateLocal d); [|discriminate].
  destruct (merge_parents _ _ _ _ _ _) as [[out|e] s1] eqn:Em; [|discriminate].
  apply merge_parents_keeps in Em as [Ho Hs1]; [|done..]. destruct (OverlayDefinition _ d) as [d'|e] eqn:Eo; [|discriminate].
  assert (P d') as Hd'.
  { eapply P_overlay; [|exact Hd|exact Eo]. destruct out as [a0|]; [by apply Ho|done]. }
  destruct (resolved_by_id_ s1 !! definition_id d) as [r1|] eqn:E1; intros [= <- <-]; [split; [by eapply Hs1|done]|].
  split; [done|]. intros id r2. cbn. rewrite lookup_insert_Some. intros [[_ <-]|[_ H]]; [done|by eapply Hs1].
Qed.
End preserved.
(** Two resolvers that agree at a depth of the chain give the same merges there. *)
Definition agree_at (depth : nat) f g : Prop := forall d s, length (stack_ s) = depth -> f d s = g d s.
Lemma ResolveParent_ext f g p s :
  agree_at (length (stack_ s)) f g -> ResolveParent loader_ format_ f p s = ResolveParent loader_ format_ g p s.
Proof.
  intros Hfg. unfold ResolveParent. destruct (bool_decide _); [done|]. destruct (_ !! p); [done|].
  destruct (loader_ _ _ _) as [[d|e] st]; [|done]. by rewrite Hfg.
Qed.
Lemma merge_parents_ext f g ps acc s : keeps_chain g ->
  agree_at (length (stack_ s)) f g -> merge_parents loader_ format_ f ps acc s = merge_parents loader_ format_ g ps acc s.
Proof.
  intros Hg. revert acc s. induction ps as [|p ps IH]; intros acc s Hfg; [done|]. cbn [merge_parents].
  rewrite (ResolveParent_ext f g p s Hfg). pose proof (ResolveParent_chain g p s Hg) as [_ Hs].
  destruct (ResolveParent _ _ g p s) as [[r|e] s1]; [|done]. cbn in Hs.
  destruct acc as [a|]; [destruct (OverlayDefinition _ _); [|done]|]; apply IH; by rewrite Hs.
Qed.
(** The recursion never runs out: a chain of 256 definitions is refused. *)
Lemma Resolve_enough n d s : (length (stack_ s) <= 256)%nat -> (257 <= length (stack_ s) + n)%nat ->
  Resolve loader_ format_ n d s = Resolve loader_ format_ (S n) d s.
Proof.
  revert d s. induction n as [|n IH]; intros d s Hl Hn; [lia|].
  remember (S n) as m eqn:Em. rewrite Em at 1. cbn [Resolve].
  destruct (String.eqb _ _); [done|]. destruct (bool_decide _); [done|]. destruct (_ !! _); [done|].
  destruct (Z.leb_spec kMaxInheritanceDepth (zlen (stack_ s))) as [Hd|Hd]; [done|]. unfold kMaxInheritanceDepth, zlen in Hd.
  unfold resolve_entered. destruct (ValidateLocal d); [|done]. subst m.
  erewrite merge_parents_ext; [done|apply Resolve_chain|]. intros d' s' Hs'. cbn in Hs'. rewrite length_app in Hs'. cbn in Hs'.
  apply IH; lia.
Qed.
End chain.

(** ** The search computes inheritance *)
Section search.
Context {St : Type} (loader_ : DefinitionFormat -> string -> St -> result Error UnresolvedDefinition * St)
  (format_ : DefinitionFormat) (load : DefinitionFormat -> string -> result Error UnresolvedDefinition)
  (loader_load : forall f p st, fst (loader_ f p st) = load f p).
#[local] Abbreviation state := (@ResolverState St).
#[local] Abbreviation resolver := (UnresolvedDefinition -> state -> result Error Resolved * state).
#[local] Abbreviation parent_of := (load_parent load format_).
#[local] Abbreviation inherits := (inherit load format_).
Implicit Types (s : state) (f : resolver) (acc out : option Resolved).
Definition memo_ok s : Prop :=
  forall id r, resolved_by_id_ s !! id = Some r -> exists n d, parent_of id = Some d /\ inherits n d = Some r.
Definition inherits_parent (n : nat) (p : string) : option Resolved := d ← parent_of p; inherits n d.
(** The loop's accumulator after some more parents. *)
Definition merged_onto acc (rs : list Resolved) : option (option Resolved) :=
  match acc, rs with
  | Some a, _ => Some <$> merge_all a rs
  | None, [] => Some None
  | None, r :: rs => Some <$> merge_all r rs
  end.
Lemma merged_inherited rs out : merged_onto None rs = Some out -> inherited rs = Some (default unresolved out).
Proof. destruct rs as [|r rs]; cbn; [by intros [= <-]|]. destruct (merge_all r rs); [|done]. by intros [= <-]. Qed.
Lemma inherited_merged rs r : inherited rs = Some r -> exists out, merged_onto None rs = Some out /\ default unresolved out = r.
Proof. destruct rs as [|a rs]; cbn; [intros [= <-]; by exists None|]. intros ->. by exists (Some r). Qed.
(** One round of the loop. *)
Definition next_acc acc r : option Resolved := match acc with None => Some r | Some a => merge_two a r end.
Lemma merged_onto_cons acc r rs : merged_onto acc (r :: rs) = (a ← next_acc acc r; merged_onto (Some a) rs).
Proof. destruct acc as [a|]; cbn; [|done]. by destruct (merge_two a r). Qed.
Definition plus_parent (a r : Resolved) : Resolved :=
  {| r_definition := r_definition a; r_sources := AppendUnique (r_sources a) (r_sources r);
     r_ids := AppendUnique (r_ids a) (r_ids r) |}.
Lemma plus_parent_self r : plus_parent r r = r.
Proof. unfold plus_parent. rewrite !AppendUnique_self by done. by destruct r. Qed.
Lemma merge_parents_cons f p ps acc s out s' :
  merge_parents loader_ format_ f (p :: ps) acc s = (Ok out, s') <->
  exists r s1 a, ResolveParent loader_ format_ f p s = (Ok r, s1) /\ next_acc acc r = Some a
    /\ merge_parents loader_ format_ f ps (Some a) s1 = (Ok out, s').
Proof.
  cbn [merge_parents]. destruct (ResolveParent _ _ f p s) as [[r|e] s1]; [|split; [discriminate|by intros (?&?&?&?&?)]].
  transitivity (exists a, next_acc acc r = Some a /\ merge_parents loader_ format_ f ps (Some a) s1 = (Ok out, s')).
  2: { split; [intros (a & Ha & Hm); by exists r, s1, a|]. intros (r' & s2 & a & [= <- <-] & Ha & Hm). by exists a. }
  destruct acc as [a|]; cbn [next_acc].
  - unfold merge_two. destruct (OverlayDefinition _ _); cbn; (split; [try discriminate|]).
    + intros Hm. by eexists.
    + by intros (a' & [= <-] & Hm).
    + by intros (a' & ? & Hm).
  - cbn. fold (plus_parent r r). rewrite plus_parent_self. split; [by exists r|]. by intros (a' & [= <-] & Hm).
Qed.

(** *** What it returns is inherited *)
Definition sound f : Prop := forall d s r s',
  memo_ok s -> parent_of (definition_id d) = Some d -> f d s = (Ok r, s') ->
  memo_ok s' /\ exists n, inherits n d = Some r.
Lemma ResolveParent_sound f p s r s' : sound f -> memo_ok s -> ResolveParent loader_ format_ f p s = (Ok r, s') ->
  memo_ok s' /\ exists n, inherits_parent n p = Some r.
Proof.
  intros Hf Hs. unfold ResolveParent, inherits_parent. destruct (bool_decide _); [discriminate|].
  destruct (_ !! p) as [r'|] eqn:E.
  { intros [= <- <-]. split; [done|]. destruct (Hs p r' E) as (n & d & Hd & Hn). exists n. by rewrite Hd. }
  pose proof (loader_load format_ p (loader_state s)) as Hl. destruct (loader_ _ _ _) as [[d|e] st]; cbn in Hl; [|discriminate].
  case bool_decide_reflect; [discriminate|]. intros Hfmt%dec_stable. destruct (String.eqb_spec (definition_id d) p) as [Hid|]; [|discriminate].
  cbn [negb]. assert (parent_of p = Some d) as Hp by (apply load_parent_Some; auto).
  destruct (f d _) as [[r1|e] s1] eqn:Ef; [|discriminate]. intros [= <- <-].
  apply Hf in Ef as [Hs1 [n Hn]]; [|done|by rewrite Hid]. split; [done|]. exists n. rewrite Hp. cbn.
  destruct (resolved_by_id_ s1 !! p) as [r2|] eqn:E2; [|done]. cbn.
  destruct (Hs1 p r2 E2) as (n2 & d2 & Hd2 & Hn2). rewrite Hp in Hd2. injection Hd2 as <-.
  rewrite Hn. f_equal. by eapply inherit_unique.
Qed.
Lemma inherits_parent_mono n m p r : (n <= m)%nat -> inherits_parent n p = Some r -> inherits_parent m p = Some r.
Proof. unfold inherits_parent. destruct (parent_of p); cbn; [|done]. apply inherit_mono. Qed.
Lemma merge_parents_sound f ps acc s out s' : sound f -> memo_ok s ->
  merge_parents loader_ format_ f ps acc s = (Ok out, s') ->
  memo_ok s' /\ exists n rs, mapM (inherits_parent n) ps = Some rs /\ merged_onto acc rs = Some out.
Proof.
  intros Hf. revert acc s. induction ps as [|p ps IH]; intros acc s Hs.
  - intros [= <- <-]. split; [done|]. exists 0%nat, []. by destruct acc.
  - intros (r & s1 & a & Hp & Ha & Hm)%merge_parents_cons.
    apply ResolveParent_sound in Hp as [Hs1 [n Hn]]; [|done..]. apply IH in Hm as [Hs' (n' & rs & Hrs & Ho)]; [|done].
    split; [done|]. exists (Nat.max n n'), (r :: rs). rewrite merged_onto_cons, Ha. split; [|done].
    apply mapM_Some. apply Forall2_cons. split; [apply (inherits_parent_mono n); [lia|done]|].
    apply mapM_Some in Hrs. eapply Forall2_impl; [done|]. intros p' r'. cbn. apply inherits_parent_mono. lia.
Qed.
Lemma resolve_entered_sound f d s r s' : sound f -> memo_ok s -> parent_of (definition_id d) = Some d ->
  resolve_entered loader_ format_ f d s = (Ok r, s') -> memo_ok s' /\ exists n, inherits n d = Some r.
Proof.
  intros Hf Hs Hd. unfold resolve_entered. destruct (ValidateLocal d) eqn:Ev; [|discriminate].
  destruct (merge_parents _ _ f (ud_parents d) None s) as [[out|e] s1] eqn:Em; [|discriminate].
  apply merge_parents_sound in Em as [Hs1 (n & rs & Hrs & Ho%merged_inherited)]; [|done..].
  destruct (OverlayDefinition _ d) as [d'|e] eqn:Eo; [|discriminate].
  assert (inherits (S n) d = Some (own (default unresolved out) d')) as Hn.
  { cbn [inherit]. rewrite Ev. cbn [ok_or_none mbind option_bind]. unfold inherits_parent in Hrs. by rewrite Hrs; cbn; rewrite Ho; cbn; rewrite Eo. }
  cbv zeta. fold (own (default unresolved out) d'). destruct (resolved_by_id_ s1 !! definition_id d) as [r'|] eqn:Er.
  - intros [= <- <-]. split; [done|]. destruct (Hs1 _ _ Er) as (n' & d0 & Hd0 & Hn'). rewrite Hd in Hd0. injection Hd0 as <-. by exists n'.
  - intros [= <- <-]. split; [|by exists (S n)]. intros id r'. cbn. rewrite lookup_insert_Some.
    intros [[<- <-]|[_ E]]; [by exists (S n), d|by apply Hs1].
Qed.
Lemma Resolve_sound fuel : sound (Resolve loader_ format_ fuel).
Proof.
  induction fuel as [|fuel IH]; intros d s r s' Hs Hd; [discriminate|]. cbn [Resolve].
  destruct (String.eqb _ _); [discriminate|]. destruct (bool_decide _); [discriminate|].
  destruct (_ !! _) as [r'|] eqn:Er.
  { intros [= <- <-]. split; [done|]. destruct (Hs _ _ Er) as (n & d0 & Hd0 & Hn). rewrite Hd in Hd0. injection Hd0 as <-. by exists n. }
  destruct (_ <=? _); [discriminate|].
  destruct (resolve_entered _ _ _ _ _) as [r1 s1] eqn:E. intros [= -> <-].
  by apply resolve_entered_sound in E as [? ?].
Qed.

(** *** What is inherited it returns *)
Definition none_inherits (m : nat) (ids : gset string) : Prop :=
  forall v dv, v ∈ ids -> parent_of v = Some dv -> inherits m dv = None.
Lemma none_inherits_le m n ids : (m <= n)%nat -> none_inherits n ids -> none_inherits m ids.
Proof.
  intros Hle Hn v dv Hv Hdv. specialize (Hn v dv Hv Hdv). destruct (inherits m dv) eqn:E; [|done].
  eapply inherit_mono in E; [|done]. congruence.
Qed.
Definition gives (o : option Resolved) s (x : result Error (option Resolved) * state) : Prop :=
  fst x = Ok o /\ memo_ok (snd x) /\ same_chain s (snd x).
Definition returns r s (x : result Error Resolved * state) : Prop :=
  fst x = Ok r /\ memo_ok (snd x) /\ same_chain s (snd x).
Definition room (m : nat) s : Prop := (length (stack_ s) + m <= 256)%nat.
Definition complete_to (n : nat) f : Prop := forall m d s r,
  (m <= n)%nat -> inherits m d = Some r -> (forall k, (k < m)%nat -> inherits k d = None) ->
  parent_of (definition_id d) = Some d -> memo_ok s -> room m s -> none_inherits m (visiting_ s) -> returns r s (f d s).
Lemma ResolveParent_complete n f p m s r : complete_to n f -> (m <= n)%nat ->
  inherits_parent m p = Some r -> memo_ok s -> room m s -> none_inherits m (visiting_ s) ->
  returns r s (ResolveParent loader_ format_ f p s).
Proof.
  intros Hf Hmn Hp Hs Hroom Hv. unfold inherits_parent in Hp. destruct (parent_of p) as [d|] eqn:Hd; [|discriminate]. cbn in Hp.
  unfold ResolveParent. case bool_decide_reflect; intros Hpv.
  { rewrite (Hv p d Hpv Hd) in Hp. discriminate. }
  destruct (resolved_by_id_ s !! p) as [r'|] eqn:Er.
  { split; [|done]. cbn. f_equal. destruct (Hs _ _ Er) as (n' & d' & Hd' & Hn'). rewrite Hd in Hd'. injection Hd' as <-.
    by eapply inherit_unique. }
  pose proof (loader_load format_ p (loader_state s)) as Hl. apply load_parent_Some in Hd as Hd2. destruct Hd2 as (Hl2 & Hfmt & Hid).
  destruct (loader_ _ _ _) as [l st]. cbn in Hl. rewrite Hl2 in Hl. subst l.
  rewrite bool_decide_false by (intros Hn; by apply Hn). rewrite Hid, String.eqb_refl. cbn [negb].
  apply inherit_least in Hp as (m' & Hm' & Hp & Hleast).
  set (s0 := {| visiting_ := _; stack_ := _ |}).
  assert (returns r s0 (f d s0)) as (Ho & Hs1 & Hc).
  { apply (Hf m'); try done; [lia|by rewrite Hid|unfold room in *; cbn; lia|]. cbn. by apply (none_inherits_le m' m). }
  destruct (f d s0) as [[r1|e] s1]; cbn in *; [|discriminate]. injection Ho as ->. split; [|done]. cbn. f_equal.
  destruct (resolved_by_id_ s1 !! p) as [r2|] eqn:E2; [|done]. destruct (Hs1 _ _ E2) as (n' & d' & Hd' & Hn').
  rewrite Hd in Hd'. injection Hd' as <-. by eapply inherit_unique.
Qed.
Lemma merge_parents_complete n f m ps acc s rs out : complete_to n f -> (m <= n)%nat ->
  mapM (inherits_parent m) ps = Some rs -> merged_onto acc rs = Some out ->
  memo_ok s -> room m s -> none_inherits m (visiting_ s) -> gives out s (merge_parents loader_ format_ f ps acc s).
Proof.
  intros Hf Hmn. rewrite mapM_Some. revert acc s rs. induction ps as [|p ps IH]; intros acc s rs.
  - intros ->%Forall2_nil_inv_l Ho Hs _ _. cbn. split; [|done]. cbn. f_equal. destruct acc; cbn in Ho; congruence.
  - intros (r & rs' & Hr & Hrs & ->)%Forall2_cons_inv_l Ho Hs Hroom Hv.
    rewrite merged_onto_cons in Ho. destruct (next_acc acc r) as [a|] eqn:Ea; [|discriminate]. cbn in Ho.
    pose proof (ResolveParent_complete n f p m s r Hf Hmn Hr Hs Hroom Hv) as (Hok & Hs1 & Hc).
    destruct (ResolveParent _ _ f p s) as [r1 s1] eqn:E. cbn [fst snd] in *. subst r1. destruct Hc as [Hcv Hcs].
    specialize (IH (Some a) s1 rs' Hrs Ho Hs1). unfold room in *. rewrite Hcs, Hcv in IH.
    specialize (IH Hroom Hv) as (Hok & Hs' & Hc'). destruct (merge_parents _ _ f ps (Some a) s1) as [o s2] eqn:Em. cbn [fst snd] in *. subst o.
    assert (merge_parents loader_ format_ f (p :: ps) acc s = (Ok out, s2)) as Hall by (apply merge_parents_cons; eauto 10).
    rewrite Hall. split; [done|]. split; [done|]. destruct Hc'. split; cbn; congruence.
Qed.
Lemma inherit_S m d r : inherits (S m) d = Some r ->
  ValidateLocal d = Ok tt /\ exists rs r0 d', mapM (inherits_parent m) (ud_parents d) = Some rs /\ inherited rs = Some r0
    /\ OverlayDefinition (r_definition r0) d = Ok d' /\ r = own r0 d'.
Proof.
  cbn [inherit]. destruct (ValidateLocal d) as [[]|]; [|discriminate]. cbn [ok_or_none mbind option_bind].
  fold (inherits_parent m). destruct (mapM _ _) as [rs|]; [|discriminate]. cbn. destruct (inherited rs) as [r0|] eqn:E0; [|discriminate].
  cbn. destruct (OverlayDefinition _ d) as [d'|] eqn:Eo; [|discriminate]. cbn. intros [= <-]. split; [done|]. by exists rs, r0, d'.
Qed.
Lemma resolve_entered_complete fuel m d s r : complete_to fuel (Resolve loader_ format_ fuel) -> (m <= fuel)%nat ->
  inherits (S m) d = Some r -> parent_of (definition_id d) = Some d -> memo_ok s -> room m s -> none_inherits m (visiting_ s) ->
  returns r s (resolve_entered loader_ format_ (Resolve loader_ format_ fuel) d s).
Proof.
  intros Hf Hm Hr Hd Hs Hroom Hv. pose proof Hr as (Ev & rs & r0 & d' & Hrs & H0 & Ho & ->)%inherit_S.
  apply inherited_merged in H0 as (out & Hout & <-).
  pose proof (merge_parents_complete fuel _ m (ud_parents d) None s rs out Hf Hm Hrs Hout Hs Hroom Hv) as (Hok & Hs1 & Hc).
  unfold resolve_entered. rewrite Ev. destruct (merge_parents _ _ _ _ None s) as [o s1]. cbn [fst snd] in *. subst o.
  rewrite Ho. cbv zeta. fold (own (default unresolved out) d').
  destruct (resolved_by_id_ s1 !! definition_id d) as [r'|] eqn:Er.
  - split; [|done]. cbn. f_equal. destruct (Hs1 _ _ Er) as (n & d0 & Hd0 & Hn). rewrite Hd in Hd0. injection Hd0 as <-.
    by eapply inherit_unique.
  - split; [done|]. split; [|done]. intros id r'. cbn. rewrite lookup_insert_Some. intros [[<- <-]|[_ E]]; [|by apply Hs1].
    by exists (S m), d.
Qed.
Lemma Resolve_complete fuel : complete_to fuel (Resolve loader_ format_ fuel).
Proof.
  induction fuel as [|fuel IH]; intros m d s r Hm Hr Hleast Hd Hs Hroom Hv; (destruct m as [|m]; [discriminate|]); [lia|].
  cbn [Resolve]. pose proof Hr as [Ev _]%inherit_S. destruct (String.eqb_spec (definition_id d) "") as [He|He].
  { unfold ValidateLocal in Ev. unfold definition_id in He. by rewrite He in Ev. }
  case bool_decide_reflect; intros Hid.
  { specialize (Hv _ _ Hid Hd). congruence. }
  destruct (resolved_by_id_ s !! definition_id d) as [r'|] eqn:Er.
  { split; [|done]. cbn. f_equal. destruct (Hs _ _ Er) as (n & d0 & Hd0 & Hn). rewrite Hd in Hd0. injection Hd0 as <-.
    by eapply inherit_unique. }
  unfold room in Hroom. destruct (Z.leb_spec kMaxInheritanceDepth (zlen (stack_ s))) as [Hdepth|Hdepth].
  { unfold kMaxInheritanceDepth, zlen in *. lia. }
  set (s0 := enter (definition_id d) s).
  assert (returns r s0 (resolve_entered loader_ format_ (Resolve loader_ format_ fuel) d s0)) as (Ho & Hs' & Hc).
  { apply (resolve_entered_complete fuel m); try done; [lia|unfold room; cbn; rewrite length_app; cbn; lia|].
    intros v dv. cbn. rewrite elem_of_union, elem_of_singleton. intros [->|Hin] Hdv.
    - rewrite Hd in Hdv. injection Hdv as <-. apply Hleast. lia.
    - by apply (none_inherits_le m (S m) (visiting_ s) ltac:(lia) Hv v). }
  destruct (resolve_entered _ _ _ _ _) as [o s1]. cbn [fst snd] in *. subst o. split; [done|]. split; [done|].
  by apply leave_enter.
Qed.
End search.

(** ** What a resolved definition promises *)
Section promises.
Implicit Types (d : RomDefinition) (m : CalibrationMap) (a : AxisDefinition) (sc : Scaling) (us : UnresolvedScaling).
(** Selections go with bloblist storage: named apart, complete and of one width. *)
Definition scaling_ok sc : Prop :=
  (sc_selections sc <> [] <-> sc_storage_type sc = Some kBloblist)
  /\ NoDup (sel_name <$> sc_selections sc)
  /\ exists width, 0 < width /\ Forall (fun c => sel_name c <> ""%string /\ bytes_ok (sel_value c) /\ zlen (sel_value c) = width) (sc_selections sc).
(** A scaling's storage and byte order win where it gives them. *)
Definition storage_from sc (storage_type : option StorageType) (endian : string) : Prop :=
  (sc_storage_type sc <> None -> storage_type = sc_storage_type sc) /\ (sc_endian sc <> ""%string -> endian = sc_endian sc).
Definition axis_complete d (size : Z) (static : bool) a : Prop :=
  ax_type a <> ""%string /\ ax_size a = size /\ ax_size a <> 0 /\ ax_start_position a <> 0
  /\ (if String.eqb (ax_type a) "Static X Axis"
      then static = true /\ zlen (ax_static_data a) = size /\ Forall (fun s => s <> ""%string) (ax_static_data a)
      else ax_static_data a = [] /\ ax_name a <> ""%string)
  /\ (ax_scaling_name a <> ""%string ->
      exists sc, DefinitionModel.FindScaling d (ax_scaling_name a) = Some sc /\ sc_selections sc = []
        /\ storage_from sc (ax_storage_type a) (ax_endian a)).
Definition axis_ok d (size : Z) (static : bool) a : Prop := a = absent_axis \/ axis_complete d size static a.
Definition map_ok d m : Prop :=
  cm_name m <> ""%string /\ cm_x_size m <> 0 /\ cm_y_size m <> 0 /\ cm_start_position m <> 0
  /\ (cm_type m = "Selectable"%string <-> cm_storage_type m = Some kBloblist)
  /\ (cm_scaling_name m = ""%string -> cm_type m <> "Selectable"%string)
  /\ (cm_scaling_name m <> ""%string ->
      exists sc, DefinitionModel.FindScaling d (cm_scaling_name m) = Some sc
        /\ storage_from sc (cm_storage_type m) (cm_endian m) /\ (cm_type m = "Selectable"%string <-> sc_selections sc <> []))
  /\ axis_ok d (cm_x_size m) true (cm_x_axis m) /\ axis_ok d (cm_y_size m) false (cm_y_axis m).
Definition definition_ok d : Prop :=
  Forall scaling_ok (rd_scalings d) /\ Forall (map_ok d) (rd_maps d)
  /\ ForallOrdPairs (fun m m' => ResolvedMapsMatch m m' = false) (rd_maps d).

Lemma ParseHexBytes_ok text bs : ParseHexBytes text = Some bs -> bytes_ok bs.
Proof.
  unfold ParseHexBytes. generalize (String.list_ascii_of_string text). intros l.
  remember (length l) as n eqn:Hn. revert l bs Hn. induction n as [n IH] using lt_wf_ind. intros [|h [|lo l]] bs Hn; cbn.
  - intros [= <-]. constructor.
  - done.
  - destruct (hex_digit h), (hex_digit lo); cbn; try done. destruct (hex_pairs l) as [data|] eqn:E; [|done]. intros [= <-].
    constructor; [apply u8_range|]. eapply IH; [|reflexivity|exact E]. cbn in Hn. lia.
Qed.
Lemma resolve_selections_bytes n sels out : resolve_selections n sels = Ok out -> Forall (fun c => bytes_ok (sel_value c)) out.
Proof.
  revert out. induction sels as [|[name hex] sels IH]; intros out; cbn; [intros [= <-]; constructor|].
  destruct (ParseHexBytes hex) as [bs|] eqn:E; [|discriminate]. intros (rest & Hr & [= <-])%result_bind_Ok.
  constructor; [by apply ParseHexBytes_ok in E|auto].
Qed.
Lemma check_selections_ok sc w names sels : check_selections sc w names sels = Ok tt ->
  Forall (fun c => sel_name c <> ""%string /\ sel_value c <> [] /\ zlen (sel_value c) = w) sels
  /\ NoDup (sel_name <$> sels) /\ Forall (fun c => sel_name c ∉ names) sels.
Proof.
  revert names. induction sels as [|c sels IH]; intros names; [intros _; split_and!; constructor|]. cbn [check_selections].
  destruct (String.eqb_spec (sel_name c) ""); [discriminate|]. case bool_decide_reflect; [discriminate|]. intros Hne. cbn [orb].
  destruct (Z.eqb_spec (zlen (sel_value c)) w) as [Hw|]; [|discriminate]. cbn [negb].
  case bool_decide_reflect; intros Hin; [discriminate|]. intros (Hf & Hd & Hn)%IH. split_and!.
  - by constructor.
  - rewrite fmap_cons, NoDup_cons. split; [|done]. rewrite list_elem_of_fmap. intros (c' & Heq & Hc').
    rewrite list.Forall_forall in Hn. apply (Hn c' Hc'). set_solver.
  - constructor; [done|]. eapply Forall_impl; [done|]. set_solver.
Qed.
Lemma ValidateScaling_ok sc : Forall (fun c => bytes_ok (sel_value c)) (sc_selections sc) ->
  ValidateScaling sc = Ok tt -> scaling_ok sc.
Proof.
  unfold ValidateScaling, scaling_ok. intros Hb. destruct (sc_selections sc) as [|front sels] eqn:E.
  - case bool_decide_reflect; [discriminate|]. intros Hne _. split_and!; [|constructor|exists 1; split; [lia|constructor]]. tauto.
  - case bool_decide_reflect; [discriminate|]. intros Hst%dec_stable. intros (Hf & Hd & _)%check_selections_ok.
    split; [split; [done|discriminate]|]. split; [done|]. exists (zlen (sel_value front)). split.
    { inversion_clear Hf as [|? ? (_ & Hne & _) _]. destruct (sel_value front); [done|]. rewrite zlen_cons. pose proof (zlen_nonneg l). lia. }
    rewrite list.Forall_forall in *. intros c Hc. destruct (Hf c Hc) as (? & ? & ?). split_and!; auto.
Qed.
Lemma resolve_selections_length n sels out : resolve_selections n sels = Ok out -> length out = length sels.
Proof.
  revert out. induction sels as [|[name hex] sels IH]; intros out; cbn; [by intros [= <-]|].
  destruct (ParseHexBytes hex); [|discriminate]. intros (rest & Hr & [= <-])%result_bind_Ok. cbn. by rewrite (IH rest).
Qed.
Definition resolves_to us sc : Prop :=
  scaling_ok sc /\ sc_name sc = us_name us /\ sc_storage_type sc = us_storage_type us /\ sc_endian sc = us_endian us
  /\ (sc_selections sc = [] <-> us_selections us = []).
Lemma ResolveScaling_ok us sc : ResolveScaling us = Ok sc -> resolves_to us sc.
Proof.
  unfold ResolveScaling. intros (sels & Hs & ([] & Hv & [= <-])%result_bind_Ok)%result_bind_Ok.
  split; [apply ValidateScaling_ok; [by eapply resolve_selections_bytes|done]|]. split_and!; try done. cbn.
  apply resolve_selections_length in Hs. rewrite <- !length_zero_iff_nil. by rewrite Hs.
Qed.
Lemma resolve_scalings_ok uss scs : resolve_scalings uss = Ok scs -> Forall2 resolves_to uss scs.
Proof.
  revert scs. induction uss as [|us uss IH]; intros scs; cbn; [intros [= <-]; constructor|].
  intros (sc & Hsc & (rest & Hr & [= <-])%result_bind_Ok)%result_bind_Ok. constructor; [by apply ResolveScaling_ok|auto].
Qed.
Lemma try_emplace_lookup uss ix name :
  fold_left try_emplace uss ix !! name
  = match ix !! name with Some u => Some u | None => List.find (fun u => String.eqb (us_name u) name) uss end.
Proof.
  revert ix. induction uss as [|us uss IH]; intros ix; cbn; [by destruct (ix !! name)|]. rewrite IH. unfold try_emplace.
  destruct (String.eqb_spec (us_name us) name) as [<-|Hne].
  - destruct (ix !! us_name us) eqn:E; [by rewrite E|]. cbv iota. rewrite (lookup_insert_eq (M := gmap string) ix). done.
  - destruct (ix !! us_name us) eqn:E; [done|]. by rewrite (lookup_insert_ne (M := gmap string) ix).
Qed.
(** The scaling the checks look up and the one the definition keeps under its name. *)
Definition same_scalings (ix : ScalingIndex) d : Prop :=
  forall name us, ix !! name = Some us -> exists sc, DefinitionModel.FindScaling d name = Some sc /\ resolves_to us sc.
Lemma find_resolved uss scs name us : Forall2 resolves_to uss scs ->
  List.find (fun u => String.eqb (us_name u) name) uss = Some us ->
  exists sc, List.find (fun sc => String.eqb (sc_name sc) name) scs = Some sc /\ resolves_to us sc.
Proof.
  induction 1 as [|us' sc uss scs Hr Hf IH]; cbn; [done|]. pose proof Hr as (_ & -> & _).
  destruct (String.eqb (us_name us') name); [intros [= <-]; by exists sc|done].
Qed.
Lemma storage_from_overlay us sc st e subject : resolves_to us sc -> CheckScalingAgrees st e us subject = Ok tt ->
  storage_from sc (OverlayOptional st (us_storage_type us)) (OverlayString e (us_endian us)).
Proof.
  intros (_ & _ & Hst & He & _) _. unfold storage_from, OverlayOptional, OverlayString. rewrite Hst, He. split.
  - by destruct (us_storage_type us).
  - destruct (String.eqb_spec (us_endian us) ""); done.
Qed.
Lemma FindScaling_same ix d name subject us : same_scalings ix d -> FindScaling ix name subject = Ok us ->
  exists sc, DefinitionModel.FindScaling d name = Some sc /\ resolves_to us sc.
Proof. unfold FindScaling. intros Hs. destruct (ix !! name) as [us'|] eqn:E; [|discriminate]. intros [= <-]. by apply Hs. Qed.
(** Everything of an axis but what its scaling gives. *)
Definition same_axis a a' : Prop :=
  ax_type a' = ax_type a /\ ax_name a' = ax_name a /\ ax_size a' = ax_size a /\ ax_start_position a' = ax_start_position a
  /\ ax_static_data a' = ax_static_data a /\ ax_scaling_name a' = ax_scaling_name a /\ ax_address a' = ax_address a
  /\ ax_interval a' = ax_interval a.
Lemma ApplyAxisScaling_ok ix d a ctx a' : same_scalings ix d -> ApplyAxisScaling a ctx ix = Ok a' ->
  same_axis a a' /\ (ax_scaling_name a' <> ""%string ->
    exists sc, DefinitionModel.FindScaling d (ax_scaling_name a') = Some sc /\ sc_selections sc = []
      /\ storage_from sc (ax_storage_type a') (ax_endian a')).
Proof.
  intros Hs. unfold ApplyAxisScaling. destruct (String.eqb_spec (ax_scaling_name a) "") as [He|He].
  { intros [= <-]. split; [by split_and!|done]. }
  intros (us & (sc & Hsc & Hr)%(FindScaling_same _ _ _ _ _ Hs) & H)%result_bind_Ok.
  destruct (us_selections us) eqn:Es; [|discriminate]. apply result_bind_Ok in H as ([] & Hc & [= <-]).
  split; [by split_and!|]. intros _. exists sc. split; [done|]. split; [by apply Hr|]. by eapply storage_from_overlay.
Qed.
Lemma ValidateAxis_ok ix d a ctx size static a' : same_scalings ix d -> ValidateAxis a ctx size static ix = Ok a' ->
  axis_ok d size static a' /\ (a' = a \/ same_axis a a').
Proof.
  intros Hs. unfold ValidateAxis, AxisIsPresent. case bool_decide_reflect; [|intros Ha%dec_stable [= <-]; split; by left]. intros _.
  destruct (String.eqb_spec (ax_type a) "") as [|Ht]; [discriminate|]. cbn [negb orb].
  destruct (_ && _) eqn:Hn; [discriminate|]. destruct (Z.eqb_spec (ax_size a) 0) as [|Hz]; [discriminate|].
  destruct (Z.eqb_spec (ax_start_position a) 0) as [|Hp]; [discriminate|].
  destruct (Z.eqb_spec (ax_size a) size) as [Hsz|]; [|discriminate]. cbn [negb].
  assert (forall a', (if String.eqb (ax_type a) "Static X Axis"
      then static = true /\ zlen (ax_static_data a) = size /\ Forall (fun s => s <> ""%string) (ax_static_data a)
      else ax_static_data a = [] /\ ax_name a <> ""%string) -> ApplyAxisScaling a ctx ix = Ok a' ->
      axis_ok d size static a' /\ (a' = a \/ same_axis a a')) as Hgoal.
  { intros a1 Hstat Ha. apply (ApplyAxisScaling_ok _ _ _ _ _ Hs) in Ha as [Hsame Hsc]. split; [right|by right].
    destruct Hsame as (E1 & E2 & E3 & E4 & E5 & E6 & _). unfold axis_complete. by rewrite E1, E2, E3, E4, E5. }
  destruct (String.eqb (ax_type a) "Static X Axis") eqn:Est; cbn [andb].
  - destruct static; [|discriminate]. cbn [negb]. destruct (Z.eqb_spec (zlen (ax_static_data a)) (ax_size a)) as [Hl|]; [|discriminate].
    cbn [negb orb]. destruct (existsb _ _) eqn:Ee; [discriminate|]. apply Hgoal. split; [done|]. split; [congruence|].
    apply list.Forall_forall. intros x Hx ->. apply not_true_iff_false in Ee. apply Ee. apply existsb_exists.
    exists ""%string. split; [by apply list_elem_of_In|done].
  - case bool_decide_reflect; [discriminate|]. intros Hd%dec_stable. apply Hgoal. split; [done|]. intros Hname.
    rewrite Hname, Hd in Hn. done.
Qed.
(** Everything of a map but what its scaling and its axes give. *)
Definition same_map m m' : Prop :=
  cm_id m' = cm_id m /\ cm_name m' = cm_name m /\ cm_scaling_name m' = cm_scaling_name m /\ cm_x_size m' = cm_x_size m
  /\ cm_y_size m' = cm_y_size m /\ cm_start_position m' = cm_start_position m /\ cm_interval m' = cm_interval m
  /\ cm_address m' = cm_address m.
Lemma ApplyMapScaling_ok ix d m subject m' sel : same_scalings ix d -> ApplyMapScaling m subject ix = Ok (m', sel) ->
  same_map m m' /\ cm_x_axis m' = cm_x_axis m /\ cm_y_axis m' = cm_y_axis m
  /\ (cm_scaling_name m' = ""%string -> sel = false)
  /\ (cm_scaling_name m' <> ""%string ->
      exists sc, DefinitionModel.FindScaling d (cm_scaling_name m') = Some sc
        /\ storage_from sc (cm_storage_type m') (cm_endian m')
        /\ (sel = true <-> sc_selections sc <> []) /\ (sel = true -> cm_type m' = "Selectable"%string)).
Proof.
  intros Hs. unfold ApplyMapScaling. destruct (String.eqb_spec (cm_scaling_name m) "") as [He|He].
  { intros [= <- <-]. split_and!; done. }
  intros (us & (sc & Hsc & Hr)%(FindScaling_same _ _ _ _ _ Hs) & ([] & Hc & H)%result_bind_Ok)%result_bind_Ok.
  pose proof (storage_from_overlay us sc _ _ _ Hr Hc) as Hst. destruct Hr as (_ & _ & _ & _ & Hsel).
  destruct (us_selections us) eqn:Es; injection H as <- <-; (split_and!; try done); intros _; exists sc; (split_and!; try done).
  - split; [done|]. intros Hne. by destruct Hne; apply Hsel.
  - split; [|done]. intros _ E. apply Hsel in E. done.
Qed.
(** A map as checked and completed from another. *)
Definition completed m m' : Prop :=
  same_map m m' /\ (cm_x_axis m' = cm_x_axis m \/ same_axis (cm_x_axis m) (cm_x_axis m'))
  /\ (cm_y_axis m' = cm_y_axis m \/ same_axis (cm_y_axis m) (cm_y_axis m')).
Lemma ValidateMap_ok ix d m key m' : same_scalings ix d -> cm_name m <> ""%string -> ValidateMap m key ix = Ok m' ->
  map_ok d m' /\ completed m m'.
Proof.
  intros Hs Hname. unfold ValidateMap. destruct (Z.eqb_spec (cm_x_size m) 0); [discriminate|].
  destruct (Z.eqb_spec (cm_y_size m) 0); [discriminate|]. cbn [orb]. destruct (Z.eqb_spec (cm_start_position m) 0); [discriminate|].
  intros ([m1 sel] & (Hsame & Ex & Ey & Hno & Hsc)%(ApplyMapScaling_ok _ _ _ _ _ _ Hs) & H)%result_bind_Ok.
  destruct (_ && _) eqn:E1 in H; [discriminate|]. destruct (_ && _) eqn:E2 in H; [discriminate|].
  apply result_bind_Ok in H as (x & [Hx Hx']%(ValidateAxis_ok _ _ _ _ _ _ _ Hs) & (y & [Hy Hy']%(ValidateAxis_ok _ _ _ _ _ _ _ Hs) & [= <-])%result_bind_Ok).
  destruct Hsame as (Hi & Hn & Hsn & Hxs & Hys & Hp & Hiv & Hadr). rewrite Ex in Hx'. rewrite Ey in Hy'. split; [|split; [by split_and!|done]]. unfold map_ok. cbn.
  rewrite Hn, Hxs, Hys, Hp in *.
  assert (cm_type m1 = "Selectable"%string -> cm_storage_type m1 = Some kBloblist /\ sel = true) as Hsel.
  { intros Ht. rewrite Ht in E1. cbn in E1. apply orb_false_iff in E1 as [Hb%negb_false_iff%bool_decide_eq_true Hl%negb_false_iff]. done. }
  assert (cm_storage_type m1 = Some kBloblist -> cm_type m1 = "Selectable"%string) as Hblob.
  { intros Hb. rewrite bool_decide_true in E2 by done. cbn in E2. by apply negb_false_iff, String.eqb_eq in E2. }
  split_and!; try done.
  - split; [by intros []%Hsel|done].
  - intros He Ht. apply Hsel in Ht as [_ Ht]. rewrite (Hno He) in Ht. done.
  - intros He. destruct (Hsc He) as (sc & Hf & Hst & Hiff & Ht). exists sc. split; [done|]. split; [done|]. split.
    + intros []%Hsel. by apply Hiff.
    + intros Hne. apply Ht. by apply Hiff.
Qed.
Lemma ResolvedMapsMatch_same m0 m m' : same_map m m' -> ResolvedMapsMatch m0 m' = ResolvedMapsMatch m0 m.
Proof. intros (Hi & Hn & _). unfold ResolvedMapsMatch. by rewrite Hi, Hn. Qed.
Lemma ForallOrdPairs_snoc {A} (R : A -> A -> Prop) l x : ForallOrdPairs R l -> Forall (fun y => R y x) l -> ForallOrdPairs R (l ++ [x]).
Proof.
  induction 1 as [|y l Hy Hl IH]; intros Hf; cbn; [repeat constructor|]. inversion_clear Hf. constructor; [|by apply IH].
  apply List.Forall_app. split; [done|]. by constructor.
Qed.
Lemma validate_maps_ok ix d maps todo out : same_scalings ix d ->
  Forall (map_ok d) maps -> ForallOrdPairs (fun m m' => ResolvedMapsMatch m m' = false) maps ->
  validate_maps ix maps todo = Ok out ->
  Forall (map_ok d) out /\ ForallOrdPairs (fun m m' => ResolvedMapsMatch m m' = false) out
  /\ exists new, out = maps ++ new /\ Forall2 completed todo new.
Proof.
  intros Hs. revert maps. induction todo as [|m todo IH]; intros maps Hm Hp; cbn [validate_maps].
  { intros [= <-]. split_and!; try done. exists []. by rewrite app_nil_r. }
  destruct (String.eqb_spec (ResolvedMapKey m) ""); [discriminate|]. destruct (String.eqb_spec (cm_name m) "") as [|Hn]; [discriminate|].
  cbn [orb]. destruct (existsb _ maps) eqn:E; [discriminate|].
  intros (m' & [Hok Hcomp]%(ValidateMap_ok _ _ _ _ _ Hs Hn) & H)%result_bind_Ok.
  apply IH in H as (Hf & Ho & new & -> & Hnew); [|by apply List.Forall_app; split; [|constructor]|].
  { split_and!; try done. exists (m' :: new). rewrite <- app_assoc. split; [done|]. by constructor. }
  apply ForallOrdPairs_snoc; [done|]. destruct Hcomp as [Hsame _].
  apply list.Forall_forall. intros m0 H0. rewrite (ResolvedMapsMatch_same m0 m m' Hsame). apply not_true_iff_false. intros Ht.
  apply not_true_iff_false in E. apply E, existsb_exists. exists m0. split; [by apply list_elem_of_In|done].
Qed.
Lemma complete_ok r rom : complete r = Ok rom ->
  definition_ok rom /\ rd_resolved_sources rom = r_sources r /\ rd_resolved_definition_ids rom = r_ids r
  /\ rd_identity rom = ud_identity (r_definition r) /\ rd_metadata rom = ud_metadata (r_definition r)
  /\ Forall2 completed (map ResolveMap (ud_maps (r_definition r))) (rd_maps rom).
Proof.
  unfold complete, Materialize. intros (mat & (scs & Hscs & [= <-])%result_bind_Ok & H)%result_bind_Ok.
  unfold ValidateAndResolveMaps in H. apply result_bind_Ok in H as (maps & Hm & [= <-]).
  apply resolve_scalings_ok in Hscs as Hf.
  match goal with |- definition_ok ?d /\ _ => set (rom := d) end.
  assert (same_scalings (fold_left try_emplace (ud_scalings (r_definition r)) ∅) rom) as Hs.
  { intros name us. rewrite try_emplace_lookup. match goal with |- context [@lookup ?a ?b ?c ?d ?e ?f] => change (@lookup a b c d e f) with (@None UnresolvedScaling) end. intros Hus. by eapply find_resolved in Hus. }
  apply (validate_maps_ok _ rom) in Hm as (Hmaps & Hpairs & new & -> & Hnew); [|done|constructor..].
  split_and!; try done. split_and!; try done. cbn. clear -Hf. induction Hf as [|us sc uss scs [Hsc _] Hf IH]; by constructor.
Qed.
End promises.

Lemma OverlayDefinition_scan value supplied :
  OverlayDefinition value supplied
  = (let! maps := scan_maps supplied (ud_maps supplied) (ud_maps value) in
     let! scalings := overlay_scalings supplied (ud_scalings supplied) (ud_scalings value) in
     Ok {| ud_format := ud_format supplied; ud_source := ud_source supplied;
           ud_identity := OverlayIdentity (ud_identity value) (ud_identity supplied);
           ud_metadata := OverlayMetadata (ud_metadata value) (ud_metadata supplied);
           ud_parents := ud_parents supplied; ud_maps := maps; ud_scalings := scalings |}).
Proof.
  unfold OverlayDefinition. rewrite overlay_maps_scan; [done|]. apply (index_maps_ok (ud_maps value) []). intros i m. done.
Qed.

(** * The claims *)
Section claims.
Context {St : Type}.
Implicit Types (loader : DefinitionFormat -> string -> St -> result Error UnresolvedDefinition * St)
  (load : DefinitionFormat -> string -> result Error UnresolvedDefinition).
Lemma ResolveDefinition_inherits loader load root st :
  (forall f p st, fst (loader f p st) = load f p) -> load (ud_format root) (definition_id root) = Ok root ->
  (forall r, inherit load (ud_format root) 256 root = Some r ->
     fst (ResolveDefinition root loader st) = with_context root (complete r))
  /\ (forall rom, fst (ResolveDefinition root loader st) = Ok rom ->
     exists n r, inherit load (ud_format root) n root = Some r /\ complete r = Ok rom).
Proof.
  intros Hl Hroot. unfold ResolveDefinition, ResolveRoot.
  assert (load_parent load (ud_format root) (definition_id root) = Some root) as Hp by (by apply load_parent_Some).
  assert (memo_ok (ud_format root) load (new_resolver st)) as Hm by (intros id r; cbn; by rewrite lookup_empty).
  split.
  - intros r (m & Hle & Hr & Hleast)%inherit_least.
    destruct (Resolve_complete loader (ud_format root) load Hl 257 m root (new_resolver st) r) as (Ho & _); try done; [lia|..].
    unfold resolver_fuel. destruct (Resolve _ _ _ _ _) as [o s]. cbn in Ho. by subst o.
  - intros rom. destruct (Resolve _ _ _ _ _) as [[r|e] s] eqn:E; [|discriminate]. cbn.
    destruct (complete r) as [rom'|] eqn:Ec; [|discriminate]. intros [= <-].
    apply (Resolve_sound loader (ud_format root) load Hl) in E as [_ [n Hn]]; [|done..]. by exists n, r.
Qed.

(** C13: Resolution computes inheritance. Where the loader answers the same for the same
    identifier and the root is what it has under its own: a definition whose chains of
    parents are at most 256 long resolves to what the recursive definition of
    inheritance gives, its parents merged in order and its own content on top, then
    completed; every definition the search returns is one that recursion gives for some
    height, so a cycle among the parents is always an error; and the search ends, more
    fuel than 257 never changing its answer. *)
Theorem resolution_is_inheritance loader load root st :
  (forall f p st, fst (loader f p st) = load f p) -> load (ud_format root) (definition_id root) = Ok root ->
  (forall r, inherit load (ud_format root) 256 root = Some r ->
     fst (ResolveDefinition root loader st) = with_context root (complete r))
  /\ (forall rom, fst (ResolveDefinition root loader st) = Ok rom ->
     exists n r, inherit load (ud_format root) n root = Some r /\ complete r = Ok rom)
  /\ forall n, (257 <= n)%nat ->
     Resolve loader (ud_format root) n root (new_resolver st) = Resolve loader (ud_format root) 257 root (new_resolver st).
Proof.
  intros Hl Hroot. destruct (ResolveDefinition_inherits loader load root st Hl Hroot) as [H1 H2]. split; [done|]. split; [done|].
  induction 1 as [|n Hn IH]; [done|]. rewrite <- IH. symmetry. apply Resolve_enough; cbn; lia.
Qed.

(** C34: A resolved definition is well formed, whatever was loaded. Its maps have names and
    are pairwise distinct, with sizes and start positions that are not zero; selectable
    maps are exactly the bloblist maps and have a scaling with selections; every scaling
    a map or an axis names exists and its storage and byte order are the map's or axis's;
    axes are absent or complete and as long as their side of the map, with static data
    only on an x axis; and the selections of a scaling are named apart, complete bytes
    of one width. *)
Theorem resolved_definitions_ok loader root st rom :
  fst (ResolveDefinition root loader st) = Ok rom -> definition_ok rom.
Proof.
  unfold ResolveDefinition, ResolveRoot. destruct (Resolve _ _ _ _ _) as [[r|e] s]; [|discriminate]. cbn.
  destruct (complete r) as [rom'|] eqn:E; [|discriminate]. intros [= <-]. by apply complete_ok in E as [? _].
Qed.
End claims.

(** The merge with the index of maps by identifier and name is the merge that compares
    every supplied map with every map: it finds the same map to overlay, appends the same
    maps and reports the same ambiguities. *)
Theorem OverlayDefinition_scans value supplied :
  OverlayDefinition value supplied
  = (let! maps := scan_maps supplied (ud_maps supplied) (ud_maps value) in
     let! scalings := overlay_scalings supplied (ud_scalings supplied) (ud_scalings value) in
     Ok {| ud_format := ud_format supplied; ud_source := ud_source supplied;
           ud_identity := OverlayIdentity (ud_identity value) (ud_identity supplied);
           ud_metadata := OverlayMetadata (ud_metadata value) (ud_metadata supplied);
           ud_parents := ud_parents supplied; ud_maps := maps; ud_scalings := scalings |}).
Proof. apply OverlayDefinition_scan. Qed.

(** ** A family of two definitions: the child moves the map and inherits the rest *)
Definition sample_map (id : option string) (name : string) (address x_size : option Z) (scaling : string)
    : UnresolvedCalibrationMap := {|
  um_id := id; um_name := name; um_type := ""; um_category := ""; um_subcategory := ""; um_description := "";
  um_address := address; um_x_size := x_size; um_y_size := None; um_swap_xy := None; um_flip_x := None; um_flip_y := None;
  um_level := ""; um_user_level := ""; um_scaling_name := scaling; um_storage_type := None; um_endian := "";
  um_start_position := None; um_interval := None; um_log_parameter := None; um_x_axis := no_axis; um_y_axis := no_axis
|}.
Definition sample_scaling (name : string) (storage_type : StorageType) (selections : list (string * string))
    : UnresolvedScaling := {|
  us_name := name; us_units := ""; us_from_byte := None; us_to_byte := None; us_format := None; us_minimum := "";
  us_maximum := ""; us_coarse_increment := ""; us_fine_increment := ""; us_storage_type := Some storage_type;
  us_endian := "big"; us_selections := selections
|}.
Definition sample_unresolved (id : string) (parents : list string) (maps : list UnresolvedCalibrationMap)
    (scalings : list UnresolvedScaling) : UnresolvedDefinition := {|
  ud_format := kEcuFlash; ud_source := id +:+ ".xml";
  ud_identity := {| id_xml_id := id; id_internal_id := ""; id_ecu_id := ""; id_internal_id_address := None |};
  ud_metadata := ud_metadata no_definition; ud_parents := parents; ud_maps := maps; ud_scalings := scalings
|}.
Definition sample_base : UnresolvedDefinition :=
  sample_unresolved "BASE" []
    [sample_map (Some "fuel"%string) "Fuel" (Some 0x1000) (Some 4) "u16"; sample_map None "Switch" (Some 0x2000) None "onoff"]
    [sample_scaling "u16" kUint16 []; sample_scaling "onoff" kBloblist [("off", "00"); ("on", "0F")]%string].
Definition sample_child : UnresolvedDefinition :=
  sample_unresolved "CHILD" ["BASE"%string] [sample_map None "Fuel" (Some 0x3000) None ""] [].
Definition sample_load (f : DefinitionFormat) (id : string) : result Error UnresolvedDefinition :=
  if String.eqb id "BASE" then Ok sample_base
  else if String.eqb id "CHILD" then Ok sample_child
  else Fail kInvalidConfig ("definition ID not found: " +:+ quoted id).
Definition sample_loader (f : DefinitionFormat) (id : string) (st : unit) : result Error UnresolvedDefinition * unit :=
  (sample_load f id, st).
Example sample_child_maps :
  match fst (ResolveDefinition sample_child sample_loader tt) with
  | Ok rom => map (fun m => (cm_id m, cm_address m, cm_x_size m, cm_type m, cm_storage_type m)) (rd_maps rom)
              = [("fuel", Some 0x3000, 4, "", Some kUint16); ("Switch", Some 0x2000, 1, "Selectable", Some kBloblist)]%string
              /\ rd_resolved_definition_ids rom = ["BASE"; "CHILD"]%string
  | Err _ => False
  end.
Proof. vm_compute. split; reflexivity. Qed.
(** A cycle is an error that shows the chain. *)
Definition cyclic_load (f : DefinitionFormat) (id : string) : result Error UnresolvedDefinition :=
  Ok (sample_unresolved id [if String.eqb id "A" then "B" else "A"]%string [] []).
Example cycle_is_error :
  fst (ResolveDefinition (sample_unresolved "A" ["B"%string] [] []) (fun f id st => (cyclic_load f id, st)) tt)
  = Fail kInvalidConfig "EcuFlash definitions 'A' from 'A.xml': inheritance cycle: A -> B -> A".
Proof. vm_compute. reflexivity. Qed.
Lemma resolution_is_inheritance_witness :
  exists r, inherit sample_load kEcuFlash 256 sample_child = Some r
    /\ fst (ResolveDefinition sample_child sample_loader tt) = with_context sample_child (complete r).
Proof.
  destruct (inherit sample_load kEcuFlash 256 sample_child) as [r|] eqn:E; [|vm_compute in E; discriminate].
  exists r. split; [reflexivity|].
  exact (proj1 (resolution_is_inheritance sample_loader sample_load sample_child tt (fun f p st => eq_refl) eq_refl) r E).
Defined.
Lemma resolved_definitions_ok_witness :
  exists rom, fst (ResolveDefinition sample_child sample_loader tt) = Ok rom /\ length (rd_maps rom) = 2%nat /\ definition_ok rom.
Proof.
  destruct (fst (ResolveDefinition sample_child sample_loader tt)) as [rom|] eqn:E; [|vm_compute in E; discriminate].
  exists rom. split; [reflexivity|]. split; [vm_compute in E; injection E as <-; reflexivity|].
  exact (resolved_definitions_ok sample_loader sample_child tt rom E).
Defined.
