(* ===== verification/DefinitionParsers.v ===== *)
(** * DefinitionParsers: [src/backend/definition/{parser_utils,ecuflash_parser,romraider_parser}.cpp]

    The readers of the two definition formats, over the tree an XML parser builds
    (the XML parser itself is a parameter): the index entries of a file and the whole
    definition of one identifier. *)
From stdpp Require Import gmap.
From S2P Require Import Prelude.
From S2P Require Import Ports.
From S2P Require Import DefinitionModel.
From S2P Require Import DefinitionResolver.
From S2P Require Import Xml.

(** ** Text *)
Definition isspace (c : ascii) : bool :=
  let n := nat_of_ascii c in Nat.eqb n 32 || (Nat.leb 9 n && Nat.leb n 13).
Fixpoint drop_space (l : list ascii) : list ascii :=
  match l with c :: l' => if isspace c then drop_space l' else l | [] => [] end.
Definition of_chars (l : list ascii) : string := String.string_of_list_ascii l.
Definition to_chars (s : string) : list ascii := String.list_ascii_of_string s.
Definition TrimCopy (value : string) : string := of_chars (rev (drop_space (rev (drop_space (to_chars value))))).
(** UTF-8 encodings of Unicode white space. *)
Definition kWhitespace : list (list Z) :=
  [[32]; [9]; [10]; [11]; [12]; [13]; [0xc2; 0x85]; [0xc2; 0xa0]; [0xe1; 0x9a; 0x80]; [0xe2; 0x80; 0x80];
   [0xe2; 0x80; 0x81]; [0xe2; 0x80; 0x82]; [0xe2; 0x80; 0x83]; [0xe2; 0x80; 0x84]; [0xe2; 0x80; 0x85];
   [0xe2; 0x80; 0x86]; [0xe2; 0x80; 0x87]; [0xe2; 0x80; 0x88]; [0xe2; 0x80; 0x89]; [0xe2; 0x80; 0x8a];
   [0xe2; 0x80; 0xa8]; [0xe2; 0x80; 0xa9]; [0xe2; 0x80; 0xaf]; [0xe2; 0x81; 0x9f]; [0xe3; 0x80; 0x80]].
Definition code (c : ascii) : Z := Z.of_nat (nat_of_ascii c).
Fixpoint starts_with (l : list ascii) (p : list Z) : bool :=
  match p, l with
  | [], _ => true
  | b :: p, c :: l => (code c =? b) && starts_with l p
  | _ :: _, [] => false
  end.
(** The two loops; each turn removes a code point, so the length bounds the turns. *)
Fixpoint trim_start (fuel : nat) (l : list ascii) : list ascii :=
  match fuel with
  | O => l
  | S fuel =>
      match List.find (starts_with l) kWhitespace with
      | Some space => trim_start fuel (skipn (length space) l)
      | None => l
      end
  end.
Fixpoint trim_end (fuel : nat) (reversed : list ascii) : list ascii :=
  match fuel with
  | O => reversed
  | S fuel =>
      match List.find (fun space => starts_with reversed (rev space)) kWhitespace with
      | Some space => trim_end fuel (skipn (length space) reversed)
      | None => reversed
      end
  end.
Definition TrimHeaderText (text : string) : string :=
  let l := to_chars text in
  let l := trim_start (length l) l in
  of_chars (rev (trim_end (length l) (rev l))).
(** [std::from_chars] on a whole unsigned number. *)
Fixpoint number (digit : ascii -> option Z) (base acc : Z) (l : list ascii) : option Z :=
  match l with
  | [] => Some acc
  | c :: l => d ← digit c; number digit base (acc * base + d) l
  end.
Definition kU64Max : Z := 18446744073709551615.
Definition from_chars (digit : ascii -> option Z) (base : Z) (l : list ascii) : option Z :=
  match l with
  | [] => None
  | _ => v ← number digit base 0 l; if v <=? kU64Max then Some v else None
  end.
Definition dec_digit (c : ascii) : option Z :=
  if (48 <=? code c) && (code c <=? 57) then Some (code c - 48) else None.
Definition ParseHexValue (text : string) : option Z :=
  let digits := to_chars (TrimCopy text) in
  from_chars hex_digit 16 (if starts_with digits [48; 120] || starts_with digits [48; 88] then skipn 2 digits else digits).

(** ** [parser_utils.cpp] *)
Definition DetailPrefix (source definition_id : string) : string :=
  let detail := "EcuFlash/RomRaider source " +:+ quoted source in
  (if String.eqb definition_id "" then detail else detail +:+ ", definition " +:+ quoted definition_id) +:+ ": ".
Definition Invalid {A} (source context message definition_id : string) : result Error A :=
  Fail kInvalidConfig (DetailPrefix source definition_id +:+ context +:+ ": " +:+ message).
Definition kSingletonChildren : list string :=
  ["xmlid"; "internalidaddress"; "internalidstring"; "ecuid"; "make"; "market"; "model"; "submodel"; "transmission"; "year";
   "flashmethod"; "memmodel"; "checksummodule"; "filesize"; "notes"]%string.
Definition text_of (n : XmlNode) : string := match n with PcData t | CData t => t | _ => "" end.
Definition ReadElementText (element : option XmlNode) : string :=
  fold_left (fun text child => text +:+ text_of child) (node_children element) ""%string.
Definition HeaderChildText (parent : option XmlNode) (name : string) : string :=
  let text := ReadElementText (child parent name) in
  if String.eqb name "notes" then text else TrimHeaderText text.
Definition has_nested (element : XmlNode) : bool := existsb is_element (node_children (Some element)).
Fixpoint validate_fields (source : string) (parent : option XmlNode) (names : list string) : Status :=
  match names with
  | [] => Ok tt
  | name :: names =>
      if existsb has_nested (children parent name) then
        Invalid source ("element <" +:+ node_name parent +:+ "> child <" +:+ name +:+ ">")
          "nested elements are not allowed in header text" ""
      else validate_fields source parent names
  end.
Definition ValidateHeaderStructure (rom : XmlNode) (source : string) : Status :=
  let! _ := validate_fields source (child (Some rom) "romid") kSingletonChildren in
  validate_fields source (Some rom) ["include"; "notes"]%string.
Definition DefinitionAddressFrom (value : Z) (text source context definition_id : string) : result Error Z :=
  if kU32Max <? value then
    Invalid source context ("invalid hexadecimal unsigned value " +:+ quoted text +:+ ": does not fit 32 bits") definition_id
  else Ok value.
Definition kAddressContext : string := "element <romid> child <internalidaddress>".
Definition ParseHeaderAddress (text source definition_id : string) : result Error (option Z) :=
  let text := TrimHeaderText text in
  if String.eqb text "" then Ok None
  else
    let text := if starts_with (to_chars text) [43] then of_chars (skipn 1 (to_chars text)) else text in
    match (if String.eqb (TrimHeaderText text) text then ParseHexValue text else None) with
    | None => Invalid source kAddressContext ("invalid hexadecimal unsigned value " +:+ quoted text) definition_id
    | Some parsed =>
        let! address := DefinitionAddressFrom parsed text source kAddressContext definition_id in
        Ok (Some address)
    end.
Fixpoint first_text (nodes : list XmlNode) : string :=
  match nodes with
  | [] => ""
  | CData text :: _ => TrimCopy text
  | PcData text :: nodes => if String.eqb (TrimCopy text) "" then first_text nodes else TrimCopy text
  | _ :: nodes => first_text nodes
  end.
Definition TableElementText (element : option XmlNode) : string := first_text (node_children element).
Definition ChildText (parent : option XmlNode) (child_name : string) : string := TableElementText (child parent child_name).
(** Whether a second child of the name follows the first. *)
Definition repeated (parent : option XmlNode) (name : string) : bool := Nat.ltb 1 (length (children parent name)).
Definition IdentityElement (rom : XmlNode) (source : string) : result Error XmlNode :=
  let! _ := ValidateHeaderStructure rom source in
  match child (Some rom) "romid" with
  | None => Invalid source "element <rom> child <romid>" "missing required identity element" ""
  | Some rom_id =>
      if repeated (Some rom) "romid" then
        Invalid source "element <rom> child <romid>" "duplicate singleton identity element" ""
      else
        match List.find (repeated (Some rom_id)) kSingletonChildren with
        | Some child_name => Invalid source ("element <romid> child <" +:+ child_name +:+ ">")
                               "duplicate singleton identity element" ""
        | None => Ok rom_id
        end
  end.
Definition RequiredChildText (parent : option XmlNode) (parent_name child_name source : string) : result Error string :=
  let value := HeaderChildText parent child_name in
  if String.eqb value "" then
    Invalid source ("element <" +:+ parent_name +:+ "> child <" +:+ child_name +:+ ">") "missing or empty required text" ""
  else Ok value.
Definition DefinitionIdForRom (rom : XmlNode) (source : string) : result Error string :=
  let! rom_id := IdentityElement rom source in
  RequiredChildText (Some rom_id) "romid" "xmlid" source.
Record ParsedRomHeader := { h_rom : XmlNode; h_identity : RomIdentity }.
Definition ParseRomHeader (rom : XmlNode) (source : string) : result Error ParsedRomHeader :=
  let! definition_id := DefinitionIdForRom rom source in
  let rom_id := child (Some rom) "romid" in
  let! address := ParseHeaderAddress (ReadElementText (child rom_id "internalidaddress")) source definition_id in
  Ok {| h_rom := rom;
        h_identity := {| id_xml_id := definition_id; id_internal_id := HeaderChildText rom_id "internalidstring";
                         id_ecu_id := HeaderChildText rom_id "ecuid"; id_internal_id_address := address |} |}.
Definition ParseMetadata (rom_id : option XmlNode) : RomMetadata := {|
  md_make := HeaderChildText rom_id "make"; md_market := HeaderChildText rom_id "market";
  md_model := HeaderChildText rom_id "model"; md_submodel := HeaderChildText rom_id "submodel";
  md_transmission := HeaderChildText rom_id "transmission"; md_year := HeaderChildText rom_id "year";
  md_flash_method := HeaderChildText rom_id "flashmethod"; md_memory_model := HeaderChildText rom_id "memmodel";
  md_checksum_module := HeaderChildText rom_id "checksummodule"; md_file_size := HeaderChildText rom_id "filesize";
  md_notes := HeaderChildText rom_id "notes"
|}.
Definition ValueOrEmpty (value : option string) : string := TrimCopy (default ""%string value).
Definition SelectionName (name : string) : string :=
  if String.eqb name "on" then "enabled" else if String.eqb name "off" then "disabled" else name.
Definition data_selection (data : XmlNode) : string * string :=
  let value := ValueOrEmpty (attribute (Some data) "value") in
  (SelectionName (ValueOrEmpty (attribute (Some data) "name")),
   if String.eqb value "" then ValueOrEmpty (attribute (Some data) "data") else value).
Definition AppendDataSelections (parent : option XmlNode) (selections : list (string * string)) : list (string * string) :=
  selections ++ map data_selection (children parent "data").
Definition of_attribute (node : option XmlNode) (name : string) : string :=
  "element <" +:+ node_name node +:+ "> attribute " +:+ quoted name.
Definition ParseHexUnsigned (value source context definition_id : string) : result Error Z :=
  match ParseHexValue value with
  | Some parsed => Ok parsed
  | None => Invalid source context ("invalid hexadecimal unsigned value " +:+ quoted (TrimCopy value)) definition_id
  end.
Definition OptionalHexAttribute (node : option XmlNode) (name source definition_id : string) : result Error (option Z) :=
  match attribute node name with
  | None => Ok None
  | Some value =>
      let! parsed := ParseHexUnsigned value source (of_attribute node name) definition_id in
      Ok (Some parsed)
  end.
Definition OptionalAddress (node : option XmlNode) (source definition_id : string) : result Error (option Z) :=
  let name := if has (attribute node "address") then "address"%string else "storageaddress"%string in
  let! value := OptionalHexAttribute node name source definition_id in
  match value with
  | None => Ok None
  | Some value =>
      let! address := DefinitionAddressFrom value (ValueOrEmpty (attribute node name)) source (of_attribute node name)
                        definition_id in
      Ok (Some address)
  end.
Definition DimensionAttribute (node : option XmlNode) (name : string) (default_value : Z) (source definition_id : string)
    : result Error Z :=
  match attribute node name with
  | None => Ok default_value
  | Some value =>
      match from_chars dec_digit 10 (to_chars (TrimCopy value)) with
      | Some parsed =>
          if (parsed =? 0) || (kU32Max <? parsed) then
            Invalid source (of_attribute node name) ("invalid positive dimension " +:+ quoted (TrimCopy value)) definition_id
          else Ok parsed
      | None => Invalid source (of_attribute node name) ("invalid positive dimension " +:+ quoted (TrimCopy value)) definition_id
      end
  end.
Definition OptionalHexAttribute32 (node : option XmlNode) (name source definition_id : string) : result Error (option Z) :=
  let! parsed := OptionalHexAttribute node name source definition_id in
  match parsed with
  | None => Ok None
  | Some value =>
      if kU32Max <? value then
        Invalid source (of_attribute node name) ("hexadecimal value " +:+ quoted (fmt_d value) +:+ " does not fit in 32 bits")
          definition_id
      else Ok (Some value)
  end.
Definition OptionalStorageTypeAttribute (node : option XmlNode) (name source definition_id : string)
    : result Error (option StorageType) :=
  match attribute node name with
  | None => Ok None
  | Some value =>
      let text := TrimCopy value in
      if String.eqb text "" then Ok None
      else
        match StorageTypeFromText text with
        | None => Invalid source (of_attribute node name) ("unrecognized storage type " +:+ quoted text) definition_id
        | parsed => Ok parsed
        end
  end.
Definition StrictBooleanAttribute (node : option XmlNode) (name source definition_id : string) : result Error bool :=
  match attribute node name with
  | None => Ok false
  | Some value =>
      if String.eqb value "true" then Ok true
      else if String.eqb value "false" then Ok false
      else Invalid source (of_attribute node name)
             ("invalid strict boolean " +:+ quoted value +:+ "; expected 'true' or 'false'") definition_id
  end.
(** The [Populate...] functions that set one optional field: the value it has afterwards. *)
Definition PopulateOptionalHexDimension (table : option XmlNode) (name : string) (destination : option Z)
    (source definition_id : string) : result Error (option Z) :=
  let! dimension := OptionalHexAttribute32 table name source definition_id in
  Ok (match dimension with Some _ => dimension | None => destination end).
Definition PopulateOptionalDimension (table : option XmlNode) (name : string) (destination : option Z)
    (source definition_id : string) : result Error (option Z) :=
  if has (attribute table name) then
    let! dimension := DimensionAttribute table name 1 source definition_id in Ok (Some dimension)
  else Ok destination.
Definition PopulateOptionalBoolean (table : option XmlNode) (name : string) (destination : option bool)
    (source definition_id : string) : result Error (option bool) :=
  if has (attribute table name) then
    let! value := StrictBooleanAttribute table name source definition_id in Ok (Some value)
  else Ok destination.
Definition static_texts (table : option XmlNode) : option (list string) :=
  if has (child table "data") then Some (map (fun data => TableElementText (Some data)) (children table "data")) else None.
Definition PopulateCommonAxisAttributes (table : option XmlNode) (source definition_id : string)
    : result Error UnresolvedAxisDefinition :=
  let! storage_type := OptionalStorageTypeAttribute table "storagetype" source definition_id in
  let! start_position := PopulateOptionalHexDimension table "startpos" None source definition_id in
  let! interval := PopulateOptionalHexDimension table "interval" None source definition_id in
  Ok {| ua_type := ValueOrEmpty (attribute table "type"); ua_name := ValueOrEmpty (attribute table "name");
        ua_units := ""; ua_format := ""; ua_storage_type := storage_type;
        ua_endian := ValueOrEmpty (attribute table "endian"); ua_address := None; ua_size := None;
        ua_from_byte := None; ua_to_byte := None; ua_scaling_name := ""; ua_start_position := start_position;
        ua_interval := interval;
        ua_log_parameter := (fun v => ValueOrEmpty (Some v)) <$> attribute table "logparam";
        ua_static_data := static_texts table |}.
(** The axis with its scaling reference and the conversion of an inline scaling. *)
Definition ApplyScalingToAxis (scaling : UnresolvedScaling) (axis : UnresolvedAxisDefinition) : UnresolvedAxisDefinition :=
  {| ua_type := ua_type axis; ua_name := ua_name axis; ua_units := us_units scaling;
     ua_format := default (ua_format axis) (us_format scaling);
     ua_storage_type := match ua_storage_type axis with Some t => Some t | None => us_storage_type scaling end;
     ua_endian := if String.eqb (ua_endian axis) "" then us_endian scaling else ua_endian axis;
     ua_address := ua_address axis; ua_size := ua_size axis; ua_from_byte := us_from_byte scaling;
     ua_to_byte := us_to_byte scaling; ua_scaling_name := us_name scaling; ua_start_position := ua_start_position axis;
     ua_interval := ua_interval axis; ua_log_parameter := ua_log_parameter axis; ua_static_data := ua_static_data axis |}.
Definition PopulateCommonMapAttributes (table : option XmlNode) (source definition_id : string)
    : result Error UnresolvedCalibrationMap :=
  let! storage_type := OptionalStorageTypeAttribute table "storagetype" source definition_id in
  let! start_position := PopulateOptionalHexDimension table "startpos" None source definition_id in
  let! interval := PopulateOptionalHexDimension table "interval" None source definition_id in
  let description := ValueOrEmpty (attribute table "description") in
  Ok {| um_id := (fun v => ValueOrEmpty (Some v)) <$> attribute table "id";
        um_name := ValueOrEmpty (attribute table "name"); um_type := ValueOrEmpty (attribute table "type");
        um_category := ValueOrEmpty (attribute table "category");
        um_subcategory := ValueOrEmpty (attribute table "subcategory");
        um_description := if String.eqb description "" then ChildText table "description" else description;
        um_address := None; um_x_size := None; um_y_size := None; um_swap_xy := None; um_flip_x := None; um_flip_y := None;
        um_level := ValueOrEmpty (attribute table "level"); um_user_level := ValueOrEmpty (attribute table "userlevel");
        um_scaling_name := ""; um_storage_type := storage_type; um_endian := ValueOrEmpty (attribute table "endian");
        um_start_position := start_position; um_interval := interval;
        um_log_parameter := (fun v => ValueOrEmpty (Some v)) <$> attribute table "logparam";
        um_x_axis := no_axis; um_y_axis := no_axis |}.
(** Assignments to the fields of a map. *)
Definition with_layout (map : UnresolvedCalibrationMap) (type : string) (address x_size y_size : option Z)
    (x_axis y_axis : UnresolvedAxisDefinition) : UnresolvedCalibrationMap :=
  {| um_id := um_id map; um_name := um_name map; um_type := type; um_category := um_category map;
     um_subcategory := um_subcategory map; um_description := um_description map; um_address := address;
     um_x_size := x_size; um_y_size := y_size; um_swap_xy := um_swap_xy map; um_flip_x := um_flip_x map;
     um_flip_y := um_flip_y map; um_level := um_level map; um_user_level := um_user_level map;
     um_scaling_name := um_scaling_name map; um_storage_type := um_storage_type map; um_endian := um_endian map;
     um_start_position := um_start_position map; um_interval := um_interval map; um_log_parameter := um_log_parameter map;
     um_x_axis := x_axis; um_y_axis := y_axis |}.
Definition with_reading (map : UnresolvedCalibrationMap) (type : string) (swap_xy flip_x flip_y : option bool)
    (scaling_name : string) (storage_type : option StorageType) (endian : string) : UnresolvedCalibrationMap :=
  {| um_id := um_id map; um_name := um_name map; um_type := type; um_category := um_category map;
     um_subcategory := um_subcategory map; um_description := um_description map; um_address := um_address map;
     um_x_size := um_x_size map; um_y_size := um_y_size map; um_swap_xy := swap_xy; um_flip_x := flip_x;
     um_flip_y := flip_y; um_level := um_level map; um_user_level := um_user_level map;
     um_scaling_name := scaling_name; um_storage_type := storage_type; um_endian := endian;
     um_start_position := um_start_position map; um_interval := um_interval map; um_log_parameter := um_log_parameter map;
     um_x_axis := um_x_axis map; um_y_axis := um_y_axis map |}.
Definition PopulateMapHeader (table : option XmlNode) (source definition_id : string) : result Error UnresolvedCalibrationMap :=
  let! map := PopulateCommonMapAttributes table source definition_id in
  if String.eqb (um_name map) "" then
    Invalid source "element <table> attribute 'name'" "missing or empty map name" definition_id
  else
    let! address := OptionalAddress table source definition_id in
    Ok (with_layout map (um_type map) address (um_x_size map) (um_y_size map) (um_x_axis map) (um_y_axis map)).
Definition PopulateMapSize (table : option XmlNode) (map : UnresolvedCalibrationMap) (source definition_id : string)
    : result Error UnresolvedCalibrationMap :=
  let! x_size := PopulateOptionalDimension table "sizex" (um_x_size map) source definition_id in
  let! y_size := PopulateOptionalDimension table "sizey" (um_y_size map) source definition_id in
  Ok (with_layout map (um_type map) (um_address map) x_size y_size (um_x_axis map) (um_y_axis map)).
Definition PopulateMapOrientation (table : option XmlNode) (map : UnresolvedCalibrationMap) (source definition_id : string)
    : result Error UnresolvedCalibrationMap :=
  let! swap_xy := PopulateOptionalBoolean table "swapxy" (um_swap_xy map) source definition_id in
  let! flip_x := PopulateOptionalBoolean table "flipx" (um_flip_x map) source definition_id in
  let! flip_y := PopulateOptionalBoolean table "flipy" (um_flip_y map) source definition_id in
  Ok (with_reading map (um_type map) swap_xy flip_x flip_y (um_scaling_name map) (um_storage_type map) (um_endian map)).
Definition MapScalingFallbackName (map : UnresolvedCalibrationMap) : string :=
  if String.eqb (um_scaling_name map) "" then default (um_name map) (um_id map) else um_scaling_name map.
Definition with_scaling_name (map : UnresolvedCalibrationMap) (scaling_name : string) : UnresolvedCalibrationMap :=
  with_reading map (um_type map) (um_swap_xy map) (um_flip_x map) (um_flip_y map) scaling_name (um_storage_type map)
    (um_endian map).
Definition AdoptInlineScaling (scaling : UnresolvedScaling) (map : UnresolvedCalibrationMap) : UnresolvedCalibrationMap :=
  with_reading map (um_type map) (um_swap_xy map) (um_flip_x map) (um_flip_y map) (us_name scaling)
    (match um_storage_type map with Some t => Some t | None => us_storage_type scaling end)
    (if String.eqb (um_endian map) "" then us_endian scaling else um_endian map).
Definition ParseMapScaling (parse_scaling : XmlNode -> string -> result Error UnresolvedScaling) (table : option XmlNode)
    (map : UnresolvedCalibrationMap) : result Error (UnresolvedCalibrationMap * option UnresolvedScaling) :=
  let map := with_scaling_name map (ValueOrEmpty (attribute table "scaling")) in
  match child table "scaling" with
  | None => Ok (map, None)
  | Some scaling_node =>
      let! scaling := parse_scaling scaling_node (MapScalingFallbackName map) in
      Ok (AdoptInlineScaling scaling map, Some scaling)
  end.
Definition with_place (axis : UnresolvedAxisDefinition) (type : string) (address size : option Z) (scaling_name : string)
    : UnresolvedAxisDefinition :=
  {| ua_type := type; ua_name := ua_name axis; ua_units := ua_units axis; ua_format := ua_format axis;
     ua_storage_type := ua_storage_type axis; ua_endian := ua_endian axis; ua_address := address; ua_size := size;
     ua_from_byte := ua_from_byte axis; ua_to_byte := ua_to_byte axis; ua_scaling_name := scaling_name;
     ua_start_position := ua_start_position axis; ua_interval := ua_interval axis;
     ua_log_parameter := ua_log_parameter axis; ua_static_data := ua_static_data axis |}.
(** The axis and the scalings after it. *)
Definition ParseAxisDefinition (parse_scaling : XmlNode -> string -> result Error UnresolvedScaling) (table : option XmlNode)
    (default_size : Z) (source definition_id : string) (scalings : list UnresolvedScaling)
    : result Error (UnresolvedAxisDefinition * list UnresolvedScaling) :=
  let! axis := PopulateCommonAxisAttributes table source definition_id in
  if String.eqb (ua_name axis) "" then
    Invalid source ("element <table> type " +:+ quoted (ua_type axis) +:+ " attribute 'name'") "missing or empty axis name"
      definition_id
  else
    let! address := OptionalAddress table source definition_id in
    let! size :=
      (if has (attribute table "elements") then
         let! size := DimensionAttribute table "elements" default_size source definition_id in Ok (Some size)
       else if has (attribute table "size") then
         let! size := DimensionAttribute table "size" default_size source definition_id in Ok (Some size)
       else Ok None) in
    let axis := with_place axis (ua_type axis) address size (ValueOrEmpty (attribute table "scaling")) in
    match child table "scaling" with
    | None => Ok (axis, scalings)
    | Some scaling_node =>
        let! scaling := parse_scaling scaling_node
                          (if String.eqb (ua_scaling_name axis) "" then ua_name axis else ua_scaling_name axis) in
        Ok (ApplyScalingToAxis scaling axis, scalings ++ [scaling])
    end.
Definition FillsXAxisSlot (type map_type : string) : bool :=
  String.eqb type "X Axis" || String.eqb type "Static X Axis" || String.eqb type "Static Y Axis"
  || (String.eqb type "Y Axis" && String.eqb map_type "2D").
Definition NormalizeXAxis (axis : UnresolvedAxisDefinition) (transposed : bool) (length : Z) : UnresolvedAxisDefinition :=
  with_place axis (if String.eqb (ua_type axis) "Static Y Axis" then "Static X Axis"%string else ua_type axis) (ua_address axis)
    (if transposed && negb (has (ua_size axis)) then Some length else ua_size axis) (ua_scaling_name axis).
Fixpoint populate_axes
    (parse_axis : XmlNode -> Z -> list UnresolvedScaling -> result Error (UnresolvedAxisDefinition * list UnresolvedScaling))
    (source definition_id : string) (tables : list XmlNode) (x_axis_populated y_axis_populated : bool)
    (map : UnresolvedCalibrationMap) (scalings : list UnresolvedScaling)
    : result Error (UnresolvedCalibrationMap * list UnresolvedScaling) :=
  match tables with
  | [] => Ok (map, scalings)
  | axis_table :: tables =>
      let type := ValueOrEmpty (attribute (Some axis_table) "type") in
      let x_slot := FillsXAxisSlot type (um_type map) in
      if negb x_slot && negb (String.eqb type "Y Axis") then
        populate_axes parse_axis source definition_id tables x_axis_populated y_axis_populated map scalings
      else if if x_slot then x_axis_populated else y_axis_populated then
        Invalid source ("element <table> child <table> type " +:+ quoted type)
          ("second axis targets already-populated " +:+ (if x_slot then "X" else "Y") +:+ " axis slot") definition_id
      else
        let transposed := x_slot && (String.eqb type "Static Y Axis" || String.eqb type "Y Axis") in
        let x_size := if transposed then um_y_size map else um_x_size map in
        let y_size := if transposed then Some 1 else um_y_size map in
        let! (axis, scalings) := parse_axis axis_table (default 1 (if x_slot then x_size else y_size)) scalings in
        let axis := if x_slot then NormalizeXAxis axis transposed (default 1 x_size) else axis in
        populate_axes parse_axis source definition_id tables (x_axis_populated || x_slot) (y_axis_populated || negb x_slot)
          (with_layout map (um_type map) (um_address map) x_size y_size
             (if x_slot then axis else um_x_axis map) (if x_slot then um_y_axis map else axis)) scalings
  end.
Definition PopulateAxes
    (parse_axis : XmlNode -> Z -> list UnresolvedScaling -> result Error (UnresolvedAxisDefinition * list UnresolvedScaling))
    (table : option XmlNode) (map : UnresolvedCalibrationMap) (source definition_id : string)
    (scalings : list UnresolvedScaling) : result Error (UnresolvedCalibrationMap * list UnresolvedScaling) :=
  populate_axes parse_axis source definition_id (children table "table") false false map scalings.

(** ** The document

    [load_buffer] is the XML parser: the nodes of the document, or its description of
    what is wrong. *)
Section documents.
Context (load_buffer : list Z -> result string (list XmlNode)).
Definition ParseDocumentRoot (xml : list Z) (source : string) : result Error XmlNode :=
  match load_buffer xml with
  | Err description => Invalid source "XML document" ("malformed XML: " +:+ description) ""
  | Ok nodes =>
      match List.filter is_element nodes with
      | [root] => Ok root
      | _ => Invalid source "XML document" "expected one document root" ""
      end
  end.
Definition ParseRoot (xml : list Z) (source root_name : string) : result Error XmlNode :=
  let! root := ParseDocumentRoot xml source in
  if String.eqb (node_name (Some root)) root_name then Ok root
  else Invalid source ("root element <" +:+ root_name +:+ ">") ("wrong root; found <" +:+ node_name (Some root) +:+ ">") "".
End documents.

(** ** [ecuflash_parser.cpp]

    [tenth_text] is the C library's reading of a whole decimal number and its printing of
    a tenth of it with 15 digits; [None] where the text is not a number. *)
Module EcuFlash.
Section parser.
Context (load_buffer : list Z -> result string (list XmlNode)) (tenth_text : string -> option string).
Fixpoint find_from (c : ascii) (i : nat) (l : list ascii) : option nat :=
  match l with [] => None | c' :: l => if Ascii.eqb c' c then Some i else find_from c (S i) l end.
Definition ConvertValueFormat (format : string) : string :=
  let l := to_chars format in
  match find_from "." 0 l with
  | None => "0"
  | Some dot =>
      match find_from "f" 0 (skipn (S dot) l) with
      | None | Some O => "0"
      | Some n =>
          match from_chars dec_digit 10 (firstn n (skipn (S dot) l)) with
          | None => "0"
          | Some precision =>
              if (precision =? 0) || (2147483647 <? precision) then "0"
              else "0." +:+ of_chars (repeat "0"%char (Z.to_nat precision))
          end
      end
  end.
Definition FineIncrementFrom (coarse_increment : string) : string :=
  let value := TrimCopy coarse_increment in
  if String.eqb value "" then "" else default "0"%string (tenth_text value).
Definition ParseScaling (source definition_id : string) (scaling_node : XmlNode) (fallback_name : string)
    : result Error UnresolvedScaling :=
  let node := Some scaling_node in
  let text name := ValueOrEmpty (attribute node name) in
  let optional name := (fun v => ValueOrEmpty (Some v)) <$> attribute node name in
  let! storage_type := OptionalStorageTypeAttribute node "storagetype" source definition_id in
  Ok {| us_name := if String.eqb (text "name"%string) "" then fallback_name else text "name"%string;
        us_units := text "units"%string; us_from_byte := optional "toexpr"%string; us_to_byte := optional "frexpr"%string;
        us_format := ConvertValueFormat <$> optional "format"%string; us_minimum := text "min"%string;
        us_maximum := text "max"%string; us_coarse_increment := text "inc"%string;
        us_fine_increment := FineIncrementFrom (text "inc"%string); us_storage_type := storage_type;
        us_endian := text "endian"%string; us_selections := AppendDataSelections node [] |}.
Definition ParseAxis (source definition_id : string) (table : XmlNode) (default_size : Z) (scalings : list UnresolvedScaling)
    : result Error (UnresolvedAxisDefinition * list UnresolvedScaling) :=
  ParseAxisDefinition (ParseScaling source definition_id) (Some table) default_size source definition_id scalings.
Definition PopulateDimensions (table : XmlNode) (map : UnresolvedCalibrationMap) (source definition_id : string)
    : result Error UnresolvedCalibrationMap :=
  let is_x_axis := String.eqb (um_type map) "X Axis" in
  if negb is_x_axis && negb (String.eqb (um_type map) "Y Axis") then PopulateMapSize (Some table) map source definition_id
  else
    let! elements := DimensionAttribute (Some table) "elements" 1 source definition_id in
    Ok (with_layout map "2D" (um_address map) (Some (if is_x_axis then elements else 1)) (Some (if is_x_axis then 1 else elements))
          (um_x_axis map) (um_y_axis map)).
Definition AddMapScaling (table : XmlNode) (map : UnresolvedCalibrationMap) (source definition_id : string)
    (scalings : list UnresolvedScaling) : result Error (UnresolvedCalibrationMap * list UnresolvedScaling) :=
  let! (map, scaling) := ParseMapScaling (ParseScaling source definition_id) (Some table) map in
  match scaling with
  | None => Ok (map, scalings)
  | Some scaling =>
      Ok (if bool_decide (us_storage_type scaling = Some kBloblist)
          then with_layout map "Selectable" (um_address map) (um_x_size map) (um_y_size map) (um_x_axis map) (um_y_axis map)
          else map, scalings ++ [scaling])
  end.
Definition PopulateInlineXAxis (table : XmlNode) (map : UnresolvedCalibrationMap) : UnresolvedCalibrationMap :=
  match static_texts (Some table) with
  | Some static_data =>
      if bool_decide (um_x_axis map <> no_axis) then map
      else
        let size := u32 (zlen static_data) in
        with_layout map (um_type map) (um_address map) (Some size) (Some 1)
          {| ua_type := "Static X Axis"; ua_name := ""; ua_units := ""; ua_format := ""; ua_storage_type := None;
             ua_endian := ""; ua_address := None; ua_size := Some size; ua_from_byte := None; ua_to_byte := None;
             ua_scaling_name := ""; ua_start_position := None; ua_interval := None; ua_log_parameter := None;
             ua_static_data := Some static_data |} (um_y_axis map)
  | None => map
  end.
Definition ParseTable (table : XmlNode) (source definition_id : string) (scalings : list UnresolvedScaling)
    : result Error (UnresolvedCalibrationMap * list UnresolvedScaling) :=
  let! map := PopulateMapHeader (Some table) source definition_id in
  let! map := PopulateDimensions table map source definition_id in
  let! map := PopulateMapOrientation (Some table) map source definition_id in
  let! (map, scalings) := AddMapScaling table map source definition_id scalings in
  let! (map, scalings) := PopulateAxes (ParseAxis source definition_id) (Some table) map source definition_id scalings in
  Ok (PopulateInlineXAxis table map, scalings).
Definition ParentReferences (rom : XmlNode) : list string :=
  List.filter (fun parent => negb (String.eqb parent ""))
    (map (fun include => TrimHeaderText (ReadElementText (Some include))) (children (Some rom) "include")).
Definition ParseHeader (xml : list Z) (source : string) : result Error ParsedRomHeader :=
  let! root := ParseRoot load_buffer xml source "rom" in
  ParseRomHeader root source.
Definition ParseEcuflashIndex (xml : list Z) (source : string) : result Error (list DefinitionIndexEntry) :=
  let! header := ParseHeader xml source in
  Ok [{| de_format := kEcuFlash; de_definition_id := id_xml_id (h_identity header);
         de_internal_id := id_internal_id (h_identity header);
         de_internal_id_address := id_internal_id_address (h_identity header); de_internal_id_encoding := kAsciiOrHex;
         de_ecu_id := id_ecu_id (h_identity header);
         de_flash_method := HeaderChildText (child (Some (h_rom header)) "romid") "flashmethod"; de_source := source;
         de_parents := ParentReferences (h_rom header) |}].
Fixpoint global_scalings (source definition_id : string) (nodes : list XmlNode) (known : gmap string UnresolvedScaling)
    (scalings : list UnresolvedScaling) : result Error (list UnresolvedScaling) :=
  match nodes with
  | [] => Ok scalings
  | scaling_node :: nodes =>
      let! scaling := ParseScaling source definition_id scaling_node "" in
      if String.eqb (us_name scaling) "" then global_scalings source definition_id nodes known (scalings ++ [scaling])
      else
        match known !! us_name scaling with
        | Some existing =>
            if bool_decide (existing <> scaling) then
              Invalid source "element <scaling> attribute 'name'"
                ("conflicting duplicate global scaling " +:+ quoted (us_name scaling)) definition_id
            else global_scalings source definition_id nodes known scalings
        | None =>
            global_scalings source definition_id nodes (<[us_name scaling := scaling]> known) (scalings ++ [scaling])
        end
  end.
End parser.
End EcuFlash.

(** The tables of a ROM in either format: a map's identity may not repeat. *)
Fixpoint parse_tables
    (parse_table : XmlNode -> list UnresolvedScaling -> result Error (UnresolvedCalibrationMap * list UnresolvedScaling))
    (source definition_id : string) (tables : list XmlNode) (map_ids : gset string) (maps : list UnresolvedCalibrationMap)
    (scalings : list UnresolvedScaling) : result Error (list UnresolvedCalibrationMap * list UnresolvedScaling) :=
  match tables with
  | [] => Ok (maps, scalings)
  | table :: tables =>
      let! (map, scalings) := parse_table table scalings in
      let map_id := default (um_name map) (um_id map) in
      if bool_decide (map_id ∈ map_ids) then
        Invalid source "element <table> attribute 'id' or 'name'" ("duplicate map identity " +:+ quoted map_id) definition_id
      else parse_tables parse_table source definition_id tables ({[map_id]} ∪ map_ids) (maps ++ [map]) scalings
  end.
Definition ParseEcuflashDefinition (load_buffer : list Z -> result string (list XmlNode)) (tenth_text : string -> option string)
    (xml : list Z) (source : string) : result Error UnresolvedDefinition :=
  let! header := EcuFlash.ParseHeader load_buffer xml source in
  let id := id_xml_id (h_identity header) in
  let rom := Some (h_rom header) in
  let! scalings := EcuFlash.global_scalings tenth_text source id (children rom "scaling") ∅ [] in
  let! (maps, scalings) :=
    parse_tables (fun table => EcuFlash.ParseTable tenth_text table source id) source id (children rom "table") ∅ [] scalings in
  Ok {| ud_format := kEcuFlash; ud_source := source; ud_identity := h_identity header;
        ud_metadata := ParseMetadata (child rom "romid"); ud_parents := EcuFlash.ParentReferences (h_rom header);
        ud_maps := maps; ud_scalings := scalings |}.

(** ** [romraider_parser.cpp] *)
Module RomRaider.
Definition AppendSelections (parent : option XmlNode) (selections : list (string * string)) : list (string * string) :=
  AppendDataSelections parent
    (selections ++ map (fun state => (SelectionName (ValueOrEmpty (attribute (Some state) "name")),
                                      ValueOrEmpty (attribute (Some state) "data"))) (children parent "state")).
(** The first of some attributes that is not empty. *)
Definition first_of (texts : list string) : string :=
  default ""%string (List.find (fun t => negb (String.eqb t "")) texts).
Definition ParseScaling (owner : option XmlNode) (source definition_id : string) (scaling_node : XmlNode)
    (fallback_name : string) : result Error UnresolvedScaling :=
  let node := Some scaling_node in
  let text name := ValueOrEmpty (attribute node name) in
  let owner_text name := ValueOrEmpty (attribute owner name) in
  let optional name := (fun v => ValueOrEmpty (Some v)) <$> attribute node name in
  let! storage_type := OptionalStorageTypeAttribute node "storagetype" source definition_id in
  let! storage_type :=
    match storage_type with
    | None => OptionalStorageTypeAttribute owner "storagetype" source definition_id
    | given => Ok given
    end in
  Ok {| us_name := if String.eqb (text "name"%string) "" then fallback_name else text "name"%string;
        us_units := text "units"%string; us_from_byte := optional "expression"%string;
        us_to_byte := optional "to_byte"%string; us_format := optional "format"%string;
        us_minimum := first_of [text "minimum"; text "min"; owner_text "minvalue"]%string;
        us_maximum := first_of [text "maximum"; text "max"; owner_text "maxvalue"]%string;
        us_coarse_increment := text "coarseincrement"%string; us_fine_increment := text "fineincrement"%string;
        us_storage_type := storage_type; us_endian := first_of [text "endian"; owner_text "endian"]%string;
        us_selections := AppendSelections node [] |}.
Definition ParseAxis (source definition_id : string) (table : XmlNode) (default_size : Z) (scalings : list UnresolvedScaling)
    : result Error (UnresolvedAxisDefinition * list UnresolvedScaling) :=
  ParseAxisDefinition (ParseScaling (Some table) source definition_id) (Some table) default_size source definition_id scalings.
Definition with_selections (scaling : UnresolvedScaling) (storage_type : option StorageType) (selections : list (string * string))
    : UnresolvedScaling :=
  {| us_name := us_name scaling; us_units := us_units scaling; us_from_byte := us_from_byte scaling;
     us_to_byte := us_to_byte scaling; us_format := us_format scaling; us_minimum := us_minimum scaling;
     us_maximum := us_maximum scaling; us_coarse_increment := us_coarse_increment scaling;
     us_fine_increment := us_fine_increment scaling; us_storage_type := storage_type; us_endian := us_endian scaling;
     us_selections := selections |}.
Definition no_scaling (name : string) : UnresolvedScaling :=
  {| us_name := name; us_units := ""; us_from_byte := None; us_to_byte := None; us_format := None; us_minimum := "";
     us_maximum := ""; us_coarse_increment := ""; us_fine_increment := ""; us_storage_type := None; us_endian := "";
     us_selections := [] |}.
(** A [Switch] becomes a selectable map over its states. *)
Definition apply_switch (table : option XmlNode) (map : UnresolvedCalibrationMap) (scaling : option UnresolvedScaling)
    : UnresolvedCalibrationMap * option UnresolvedScaling :=
  if String.eqb (um_type map) "Switch" then
    let map := with_reading map "Selectable" (um_swap_xy map) (um_flip_x map) (um_flip_y map) (um_scaling_name map)
                 (Some kBloblist) (um_endian map) in
    match scaling with
    | Some s => (map, Some (with_selections s (Some kBloblist) (us_selections s)))
    | None =>
        let name := MapScalingFallbackName map in
        (with_scaling_name map name, Some (with_selections (no_scaling name) (Some kBloblist) (AppendSelections table [])))
    end
  else (map, scaling).
Definition ParseTable (table : XmlNode) (source definition_id : string) (scalings : list UnresolvedScaling)
    : result Error (UnresolvedCalibrationMap * list UnresolvedScaling) :=
  let! map := PopulateMapHeader (Some table) source definition_id in
  let! map := PopulateMapSize (Some table) map source definition_id in
  let! map := PopulateMapOrientation (Some table) map source definition_id in
  let! (map, scaling) := ParseMapScaling (ParseScaling (Some table) source definition_id) (Some table) map in
  let scaling := (fun s => with_selections s (us_storage_type s) (AppendSelections (Some table) (us_selections s))) <$> scaling in
  let '(map, scaling) := apply_switch (Some table) map scaling in
  let scalings := match scaling with Some s => scalings ++ [s] | None => scalings end in
  PopulateAxes (ParseAxis source definition_id) (Some table) map source definition_id scalings.
Definition ParentReferences (rom : XmlNode) : list string :=
  let parent := TrimHeaderText (default ""%string (attribute (Some rom) "base")) in
  if String.eqb parent "" then [] else [parent].
Fixpoint index_entries (source : string) (roms : list XmlNode) : result Error (list DefinitionIndexEntry) :=
  match roms with
  | [] => Ok []
  | rom :: roms =>
      let! header := ParseRomHeader rom source in
      let! entries := index_entries source roms in
      Ok ({| de_format := kRomRaider; de_definition_id := id_xml_id (h_identity header);
             de_internal_id := id_internal_id (h_identity header);
             de_internal_id_address := id_internal_id_address (h_identity header); de_internal_id_encoding := kAsciiOrHex;
             de_ecu_id := id_ecu_id (h_identity header);
             de_flash_method := HeaderChildText (child (Some rom) "romid") "flashmethod"; de_source := source;
             de_parents := ParentReferences rom |} :: entries)
  end.
Definition ParseRomraiderIndex (load_buffer : list Z -> result string (list XmlNode)) (xml : list Z) (source : string)
    : result Error (list DefinitionIndexEntry) :=
  let! root := ParseRoot load_buffer xml source "roms" in
  index_entries source (children (Some root) "rom").
Fixpoint select_rom (source definition_id : string) (roms : list XmlNode) (selected_rom : option XmlNode)
    : result Error (option XmlNode) :=
  match roms with
  | [] => Ok selected_rom
  | rom :: roms =>
      let! candidate_id := DefinitionIdForRom rom source in
      if String.eqb candidate_id definition_id then
        match selected_rom with
        | Some _ => Invalid source "element <romid> child <xmlid>" "duplicate definition identity" definition_id
        | None => select_rom source definition_id roms (Some rom)
        end
      else select_rom source definition_id roms selected_rom
  end.
Definition ParseRomraiderDefinition (load_buffer : list Z -> result string (list XmlNode)) (xml : list Z)
    (source definition_id : string) : result Error UnresolvedDefinition :=
  if String.eqb definition_id "" then Invalid source "definition ID" "missing or empty required definition identity" ""
  else
    let! root := ParseRoot load_buffer xml source "roms" in
    let! selected_rom := select_rom source definition_id (children (Some root) "rom") None in
    match selected_rom with
    | None => Invalid source "element <romid> child <xmlid>" "definition ID not found" definition_id
    | Some rom =>
        let! header := ParseRomHeader rom source in
        let! (maps, scalings) :=
          parse_tables (fun table => ParseTable table source definition_id) source definition_id (children (Some rom) "table")
            ∅ [] [] in
        Ok {| ud_format := kRomRaider; ud_source := source; ud_identity := h_identity header;
              ud_metadata := ParseMetadata (child (Some rom) "romid"); ud_parents := ParentReferences rom;
              ud_maps := maps; ud_scalings := scalings |}
    end.
End RomRaider.

(** ** Numbers the readers produce fit 32 bits *)
Section numbers.
Definition opt_u32 (o : option Z) : Prop := forall x, o = Some x -> u32_ok x.
Definition axis_u32 (a : UnresolvedAxisDefinition) : Prop :=
  opt_u32 (ua_address a) /\ opt_u32 (ua_size a) /\ opt_u32 (ua_start_position a) /\ opt_u32 (ua_interval a).
Definition map_u32 (m : UnresolvedCalibrationMap) : Prop :=
  opt_u32 (um_address m) /\ opt_u32 (um_x_size m) /\ opt_u32 (um_y_size m) /\ opt_u32 (um_start_position m)
  /\ opt_u32 (um_interval m) /\ axis_u32 (um_x_axis m) /\ axis_u32 (um_y_axis m).
Definition definition_u32 (d : UnresolvedDefinition) : Prop := Forall map_u32 (ud_maps d).
Lemma opt_u32_None : opt_u32 None.
Proof. done. Qed.
Lemma opt_u32_Some x : u32_ok x -> opt_u32 (Some x).
Proof. by intros ? ? [= <-]. Qed.
Lemma axis_u32_none : axis_u32 no_axis.
Proof. by repeat split. Qed.
#[local] Hint Resolve opt_u32_None opt_u32_Some axis_u32_none : core.
Lemma hex_digit_nonneg c d : hex_digit c = Some d -> 0 <= d.
Proof. unfold hex_digit. repeat case_match; intros [= <-]; lia. Qed.
Lemma dec_digit_nonneg c d : dec_digit c = Some d -> 0 <= d.
Proof. unfold dec_digit. case_match; intros [= <-]; lia. Qed.
Lemma from_chars_nonneg digit base l v : (forall c d, digit c = Some d -> 0 <= d) -> 0 <= base ->
  from_chars digit base l = Some v -> 0 <= v.
Proof.
  intros Hd Hb. assert (forall acc, 0 <= acc -> number digit base acc l = Some v -> 0 <= v) as Hn.
  { induction l as [|c l IH]; cbn; intros acc Hacc; [by intros [= <-]|]. destruct (digit c) as [d|] eqn:E; [|done]. cbn.
    apply IH. specialize (Hd c d E). nia. }
  unfold from_chars. destruct l as [|c l]; [done|]. destruct (number digit base 0 (c :: l)) as [x|] eqn:E; [|done]. cbn.
  case_match; intros [= <-]. by apply (Hn 0).
Qed.
Lemma ParseHexValue_nonneg t v : ParseHexValue t = Some v -> 0 <= v.
Proof. apply from_chars_nonneg; [apply hex_digit_nonneg|lia]. Qed.
Lemma DefinitionAddressFrom_u32 v t s c d a : 0 <= v -> DefinitionAddressFrom v t s c d = Ok a -> u32_ok a.
Proof.
  intros Hv. unfold DefinitionAddressFrom, kU32Max, u32_ok. destruct (Z.ltb_spec 4294967295 v); [discriminate|]. intros [= <-]. lia.
Qed.
Lemma OptionalHexAttribute_nonneg n name s d v : OptionalHexAttribute n name s d = Ok (Some v) -> 0 <= v.
Proof.
  unfold OptionalHexAttribute, ParseHexUnsigned. destruct (attribute n name) as [t|]; [|discriminate].
  destruct (ParseHexValue t) as [x|] eqn:E; [|discriminate]. cbn. intros [= <-]. by apply ParseHexValue_nonneg in E.
Qed.
Lemma OptionalAddress_u32 n s d o : OptionalAddress n s d = Ok o -> opt_u32 o.
Proof.
  unfold OptionalAddress. intros (v & Hv & H)%result_bind_Ok. destruct v as [v|]; [|by injection H as <-].
  apply OptionalHexAttribute_nonneg in Hv. apply result_bind_Ok in H as (a & Ha & [= <-]).
  apply DefinitionAddressFrom_u32 in Ha; auto.
Qed.
Lemma DimensionAttribute_u32 n name dv s d v : u32_ok dv -> DimensionAttribute n name dv s d = Ok v -> u32_ok v.
Proof.
  intros Hdv. unfold DimensionAttribute. destruct (attribute n name) as [t|]; [|by intros [= <-]].
  destruct (from_chars _ _ _) as [p|] eqn:E; [|discriminate]. apply from_chars_nonneg in E; [|apply dec_digit_nonneg|lia].
  destruct (p =? 0); [discriminate|]. unfold kU32Max. destruct (Z.ltb_spec 4294967295 p); [discriminate|]. intros [= <-].
  unfold u32_ok. lia.
Qed.
Lemma PopulateOptionalHexDimension_u32 t name dest s d o :
  opt_u32 dest -> PopulateOptionalHexDimension t name dest s d = Ok o -> opt_u32 o.
Proof.
  intros Hd. unfold PopulateOptionalHexDimension, OptionalHexAttribute32.
  intros (v & (p & Hp & H)%result_bind_Ok & [= <-])%result_bind_Ok. destruct p as [p|]; [|by injection H as <-].
  apply OptionalHexAttribute_nonneg in Hp. unfold kU32Max in H. destruct (Z.ltb_spec 4294967295 p); [discriminate|].
  injection H as <-. apply opt_u32_Some. unfold u32_ok. lia.
Qed.
Lemma u32_1 : u32_ok 1.
Proof. unfold u32_ok. lia. Qed.
Lemma PopulateOptionalDimension_u32 t name dest s d o :
  opt_u32 dest -> PopulateOptionalDimension t name dest s d = Ok o -> opt_u32 o.
Proof.
  intros Hd. unfold PopulateOptionalDimension. destruct (has _); [|by intros [= <-]].
  intros (v & Hv & [= <-])%result_bind_Ok. apply DimensionAttribute_u32 in Hv; auto using u32_1.
Qed.
Lemma PopulateMapHeader_u32 t s d m : PopulateMapHeader t s d = Ok m -> map_u32 m.
Proof.
  unfold PopulateMapHeader, PopulateCommonMapAttributes.
  intros (m0 & (st & _ & (sp & Hsp & (iv & Hiv & [= <-])%result_bind_Ok)%result_bind_Ok)%result_bind_Ok & H)%result_bind_Ok.
  cbn [um_name] in H. destruct (String.eqb _ _); [discriminate|].
  apply result_bind_Ok in H as (a & Ha%OptionalAddress_u32 & [= <-]).
  apply PopulateOptionalHexDimension_u32 in Hsp, Hiv; [|done..]. unfold map_u32. cbn. split_and!; auto.
Qed.
Lemma PopulateMapSize_u32 t m s d m' : map_u32 m -> PopulateMapSize t m s d = Ok m' -> map_u32 m'.
Proof.
  intros (? & ? & ? & ? & ? & ? & ?). unfold PopulateMapSize.
  intros (x & Hx & (y & Hy & [= <-])%result_bind_Ok)%result_bind_Ok.
  apply PopulateOptionalDimension_u32 in Hx, Hy; auto. by split_and!.
Qed.
Lemma with_reading_u32 m t a b c sn st e : map_u32 m -> map_u32 (with_reading m t a b c sn st e).
Proof. done. Qed.
Lemma PopulateMapOrientation_u32 t m s d m' : map_u32 m -> PopulateMapOrientation t m s d = Ok m' -> map_u32 m'.
Proof.
  intros Hm. unfold PopulateMapOrientation. intros (x & _ & (y & _ & (z & _ & [= <-])%result_bind_Ok)%result_bind_Ok)%result_bind_Ok.
  by apply with_reading_u32.
Qed.
Lemma ParseMapScaling_u32 p t m m' sc : map_u32 m -> ParseMapScaling p t m = Ok (m', sc) -> map_u32 m'.
Proof.
  intros Hm. unfold ParseMapScaling. destruct (child t "scaling") as [n|]; [|by intros [= <- <-]].
  by intros (scal & _ & [= <- <-])%result_bind_Ok.
Qed.
Lemma ParseAxisDefinition_u32 p t ds s d scs a scs' : u32_ok ds -> ParseAxisDefinition p t ds s d scs = Ok (a, scs') -> axis_u32 a.
Proof.
  intros Hds. unfold ParseAxisDefinition, PopulateCommonAxisAttributes.
  intros (a0 & (st & _ & (sp & Hsp & (iv & Hiv & [= <-])%result_bind_Ok)%result_bind_Ok)%result_bind_Ok & H)%result_bind_Ok.
  cbn [ua_name] in H. destruct (String.eqb _ _); [discriminate|].
  apply result_bind_Ok in H as (ad & Had%OptionalAddress_u32 & (sz & Hsz & H)%result_bind_Ok).
  apply PopulateOptionalHexDimension_u32 in Hsp, Hiv; auto.
  assert (opt_u32 sz) as Hs.
  { destruct (has _); [|destruct (has _); [|by injection Hsz as <-]];
      (apply result_bind_Ok in Hsz as (v & Hv & [= <-]); apply DimensionAttribute_u32 in Hv; auto). }
  destruct (child t "scaling"); [|injection H as <- <-; unfold axis_u32; cbn; by split_and!].
  apply result_bind_Ok in H as (sc & _ & [= <- <-]). unfold axis_u32. cbn. by split_and!.
Qed.
Lemma NormalizeXAxis_u32 a tr n : axis_u32 a -> u32_ok n -> axis_u32 (NormalizeXAxis a tr n).
Proof. intros (? & ? & ? & ?) Hn. unfold axis_u32. cbn. split_and!; auto. by destruct (tr && _); [apply opt_u32_Some|]. Qed.
Lemma default_u32 o : opt_u32 o -> u32_ok (default 1 o).
Proof. destruct o; [|intros _; apply u32_1]. intros Ho. by apply Ho. Qed.
Lemma PopulateAxes_u32 p t m s d scs m' scs' :
  (forall n ds scs a scs', u32_ok ds -> p n ds scs = Ok (a, scs') -> axis_u32 a) ->
  map_u32 m -> PopulateAxes p t m s d scs = Ok (m', scs') -> map_u32 m'.
Proof.
  intros Hp. assert (forall tables m scs bx by_, map_u32 m ->
    populate_axes p s d tables bx by_ m scs = Ok (m', scs') -> map_u32 m') as Hall; [|by apply Hall].
  induction tables as [|n tables IH]; intros m0 scs0 bx by_ Hm; cbn [populate_axes]; [by intros [= <- <-]|].
  destruct (negb _ && negb _); [by apply IH|].
  destruct (if FillsXAxisSlot _ _ then bx else by_); [discriminate|]. cbv zeta.
  intros ([a scs1] & Ha & H)%result_bind_Ok. destruct Hm as (? & Hx & Hy & ? & ? & ? & ?).
  set (tr := FillsXAxisSlot _ _ && _) in *.
  assert (opt_u32 (if tr then um_y_size m0 else um_x_size m0)) as Hx' by by destruct tr.
  assert (opt_u32 (if tr then Some 1 else um_y_size m0)) as Hy' by (destruct tr; auto using u32_1).
  assert (axis_u32 a) as Hau by (eapply Hp; [|exact Ha]; apply default_u32; by destruct (FillsXAxisSlot _ _)).
  apply IH in H; [done|]. destruct (FillsXAxisSlot _ _); (split_and!; cbn; auto).
  apply NormalizeXAxis_u32; [done|by apply default_u32].
Qed.
Lemma EcuFlash_ParseTable_u32 tt_ t s d scs m scs' : EcuFlash.ParseTable tt_ t s d scs = Ok (m, scs') -> map_u32 m.
Proof.
  unfold EcuFlash.ParseTable.
  intros (m1 & H1%PopulateMapHeader_u32 & (m2 & H2 & (m3 & H3 & ([m4 scs4] & H4 & ([m5 scs5] & H5 & H)%result_bind_Ok)%result_bind_Ok)%result_bind_Ok)%result_bind_Ok)%result_bind_Ok.
  assert (map_u32 m2) as Hm2.
  { unfold EcuFlash.PopulateDimensions in H2. destruct (negb _ && negb _); [by eapply PopulateMapSize_u32|].
    apply result_bind_Ok in H2 as (n & Hn & [= <-]). apply DimensionAttribute_u32 in Hn; [|apply u32_1].
    destruct H1 as (? & _ & _ & ? & ? & ? & ?). destruct (String.eqb _ _); split_and!; cbn; auto using u32_1. }
  apply PopulateMapOrientation_u32 in H3; [|done].
  assert (map_u32 m4) as Hm4.
  { unfold EcuFlash.AddMapScaling in H4. apply result_bind_Ok in H4 as ([m' sc] & Hs%ParseMapScaling_u32 & H4); [|done].
    destruct sc as [sc|]; [|by injection H4 as <- <-]. injection H4 as <- <-. by destruct (bool_decide _). }
  apply PopulateAxes_u32 in H5; [|intros ? ? ? ? ?; apply ParseAxisDefinition_u32|done].
  injection H as <- <-. unfold EcuFlash.PopulateInlineXAxis. destruct (static_texts _) as [l|]; [|done].
  destruct (bool_decide _); [done|]. destruct H5 as (? & _ & _ & ? & ? & _ & ?).
  assert (u32_ok (u32 (zlen l))) by apply u32_range. split_and!; cbn; auto using u32_1. unfold axis_u32. cbn. split_and!; auto.
Qed.
Lemma RomRaider_ParseTable_u32 t s d scs m scs' : RomRaider.ParseTable t s d scs = Ok (m, scs') -> map_u32 m.
Proof.
  unfold RomRaider.ParseTable.
  intros (m1 & H1%PopulateMapHeader_u32 & (m2 & H2 & (m3 & H3 & ([m4 sc] & H4 & H)%result_bind_Ok)%result_bind_Ok)%result_bind_Ok)%result_bind_Ok.
  apply PopulateMapSize_u32 in H2; [|done]. apply PopulateMapOrientation_u32 in H3; [|done].
  apply ParseMapScaling_u32 in H4; [|done].
  destruct (RomRaider.apply_switch _ m4 _) as [m5 sc5] eqn:E5.
  apply PopulateAxes_u32 in H; [done|intros ? ? ? ? ?; apply ParseAxisDefinition_u32|].
  unfold RomRaider.apply_switch in E5. destruct (String.eqb _ _); [|by injection E5 as <- <-].
  destruct (_ <$> sc); by injection E5 as <- <-.
Qed.
Lemma parse_tables_u32 p s d tables ids maps scs maps' scs' :
  (forall t scs m scs', p t scs = Ok (m, scs') -> map_u32 m) -> Forall map_u32 maps ->
  parse_tables p s d tables ids maps scs = Ok (maps', scs') -> Forall map_u32 maps'.
Proof.
  intros Hp. revert ids maps scs. induction tables as [|t tables IH]; intros ids maps scs Hm; cbn [parse_tables]; [by intros [= <- <-]|].
  intros ([m scs1] & Hm1 & H)%result_bind_Ok. cbv zeta in H. destruct (bool_decide _); [discriminate|].
  apply IH in H; [done|]. apply List.Forall_app. split; [done|]. constructor; [by eapply Hp|done].
Qed.
Lemma ParseEcuflashDefinition_u32 lb tt_ xml s d : ParseEcuflashDefinition lb tt_ xml s = Ok d -> definition_u32 d.
Proof.
  unfold ParseEcuflashDefinition.
  intros (h & _ & (scs & _ & ([maps scs'] & Hm & [= <-])%result_bind_Ok)%result_bind_Ok)%result_bind_Ok.
  eapply parse_tables_u32 in Hm; [exact Hm| |constructor]. intros t scs0 m scs1. apply EcuFlash_ParseTable_u32.
Qed.
Lemma ParseRomraiderDefinition_u32 lb xml s id d : RomRaider.ParseRomraiderDefinition lb xml s id = Ok d -> definition_u32 d.
Proof.
  unfold RomRaider.ParseRomraiderDefinition. destruct (String.eqb _ _); [discriminate|].
  intros (root & _ & ([rom|] & _ & H)%result_bind_Ok)%result_bind_Ok; [|discriminate].
  apply result_bind_Ok in H as (h & _ & ([maps scs] & Hm & [= <-])%result_bind_Ok).
  eapply parse_tables_u32 in Hm; [exact Hm| |constructor]. intros t scs0 m scs1. apply RomRaider_ParseTable_u32.
Qed.
Lemma ParseHeaderAddress_u32 text s d o : ParseHeaderAddress text s d = Ok o -> opt_u32 o.
Proof.
  unfold ParseHeaderAddress. cbv zeta. destruct (String.eqb _ ""); [by intros [= <-]|].
  set (text' := if starts_with _ _ then _ else _). destruct (String.eqb (TrimHeaderText text') text'); [|discriminate].
  destruct (ParseHexValue text') as [v|] eqn:Ev; [|discriminate]. intros (a & Ha & [= <-])%result_bind_Ok.
  apply opt_u32_Some. eapply DefinitionAddressFrom_u32; [|exact Ha]. by eapply ParseHexValue_nonneg.
Qed.
Lemma ParseRomHeader_u32 rom s h : ParseRomHeader rom s = Ok h -> opt_u32 (id_internal_id_address (h_identity h)).
Proof. unfold ParseRomHeader. by intros (id & _ & (a & Ha%ParseHeaderAddress_u32 & [= <-])%result_bind_Ok)%result_bind_Ok. Qed.
(** The numbers of a definition: its identifier's address and those of its tables. *)
Definition numbers_fit (d : UnresolvedDefinition) : Prop :=
  opt_u32 (id_internal_id_address (ud_identity d)) /\ definition_u32 d.
Lemma ParseEcuflashDefinition_fits lb tt_ xml s d : ParseEcuflashDefinition lb tt_ xml s = Ok d -> numbers_fit d.
Proof.
  intros Hd. split; [|by eapply ParseEcuflashDefinition_u32]. revert Hd. unfold ParseEcuflashDefinition, EcuFlash.ParseHeader.
  intros (h & (root & _ & Hh%ParseRomHeader_u32)%result_bind_Ok & (scs & _ & ([maps scs'] & _ & [= <-])%result_bind_Ok)%result_bind_Ok)%result_bind_Ok. done.
Qed.
Lemma ParseRomraiderDefinition_fits lb xml s id d : RomRaider.ParseRomraiderDefinition lb xml s id = Ok d -> numbers_fit d.
Proof.
  intros Hd. split; [|by eapply ParseRomraiderDefinition_u32]. revert Hd. unfold RomRaider.ParseRomraiderDefinition. destruct (String.eqb _ _); [discriminate|].
  intros (root & _ & ([rom|] & _ & H)%result_bind_Ok)%result_bind_Ok; [|discriminate].
  apply result_bind_Ok in H as (h & Hh%ParseRomHeader_u32 & ([maps scs] & _ & [= <-])%result_bind_Ok). done.
Qed.
End numbers.

(** ** The index and the definition of a file agree *)
Section agreement.
Context (load_buffer : list Z -> result string (list XmlNode)) (tenth_text : string -> option string).
(** An index entry says what the definition says. *)
Definition indexed (e : DefinitionIndexEntry) (d : UnresolvedDefinition) : Prop :=
  de_format e = ud_format d /\ de_definition_id e = definition_id d /\ de_source e = ud_source d
  /\ de_internal_id e = id_internal_id (ud_identity d) /\ de_internal_id_address e = id_internal_id_address (ud_identity d)
  /\ de_ecu_id e = id_ecu_id (ud_identity d) /\ de_flash_method e = md_flash_method (ud_metadata d)
  /\ de_parents e = ud_parents d.
Lemma ParseRomHeader_inv rom s h : ParseRomHeader rom s = Ok h ->
  h_rom h = rom /\ DefinitionIdForRom rom s = Ok (id_xml_id (h_identity h)).
Proof. unfold ParseRomHeader. by intros (id & Hid & (a & _ & [= <-])%result_bind_Ok)%result_bind_Ok. Qed.
Lemma ecuflash_indexed xml s es d :
  EcuFlash.ParseEcuflashIndex load_buffer xml s = Ok es -> ParseEcuflashDefinition load_buffer tenth_text xml s = Ok d ->
  exists e, es = [e] /\ indexed e d.
Proof.
  unfold EcuFlash.ParseEcuflashIndex, ParseEcuflashDefinition. destruct (EcuFlash.ParseHeader _ _ _) as [h|]; [|discriminate].
  cbn [result_bind]. intros [= <-] (scs & _ & ([maps scs'] & _ & [= <-])%result_bind_Ok)%result_bind_Ok.
  eexists. split; [reflexivity|]. by repeat split.
Qed.
(** The one rom of the identifier, by its place. *)
Lemma select_rom_place s id roms sel out : RomRaider.select_rom s id roms sel = Ok (Some out) ->
  (sel = Some out /\ Forall (fun rom => DefinitionIdForRom rom s <> Ok id) roms)
  \/ (sel = None /\ exists before after, roms = before ++ out :: after /\ DefinitionIdForRom out s = Ok id
       /\ Forall (fun rom => DefinitionIdForRom rom s <> Ok id) (before ++ after)).
Proof.
  revert sel. induction roms as [|r roms IH]; intros sel; cbn [RomRaider.select_rom].
  { intros [= ->]. by left. }
  intros (cid & Hcid & H)%result_bind_Ok. destruct (String.eqb_spec cid id) as [->|Hne].
  - destruct sel; [discriminate|]. apply IH in H as [[[= <-] Hf]|[? _]]; [|done]. right. split; [done|]. by exists [], roms.
  - assert (DefinitionIdForRom r s <> Ok id) as Hr by congruence.
    apply IH in H as [[Hs Hf]|(Hs & before & after & -> & Hid & Hf)]; [left; split; [done|by constructor]|].
    right. split; [done|]. exists (r :: before), after. split_and!; [done|done|by constructor].
Qed.
(** An entry of the index and the rom it was made from. *)
Definition entry_of (s : string) (rom : XmlNode) (e : DefinitionIndexEntry) : Prop :=
  exists h, ParseRomHeader rom s = Ok h /\ de_definition_id e = id_xml_id (h_identity h)
    /\ de_format e = kRomRaider /\ de_source e = s /\ de_internal_id e = id_internal_id (h_identity h)
    /\ de_internal_id_address e = id_internal_id_address (h_identity h) /\ de_ecu_id e = id_ecu_id (h_identity h)
    /\ de_flash_method e = HeaderChildText (child (Some rom) "romid") "flashmethod"
    /\ de_parents e = RomRaider.ParentReferences rom.
Lemma index_entries_inv s roms es : RomRaider.index_entries s roms = Ok es -> Forall2 (entry_of s) roms es.
Proof.
  revert es. induction roms as [|r roms IH]; intros es; cbn [RomRaider.index_entries]; [by intros [= <-]; constructor|].
  intros (h & Hh & (es' & He & [= <-])%result_bind_Ok)%result_bind_Ok. constructor; [|by apply IH]. exists h. by split_and!.
Qed.
Lemma entry_of_id s rom e : entry_of s rom e -> DefinitionIdForRom rom s = Ok (de_definition_id e).
Proof. intros (h & Hh & Eid & _). rewrite Eid. by apply (ParseRomHeader_inv _ _ _ Hh). Qed.
Lemma romraider_indexed xml s es d id :
  RomRaider.ParseRomraiderIndex load_buffer xml s = Ok es -> RomRaider.ParseRomraiderDefinition load_buffer xml s id = Ok d ->
  definition_id d = id /\ exists before e after, es = before ++ e :: after /\ indexed e d
    /\ Forall (fun x => de_definition_id x <> id) (before ++ after).
Proof.
  unfold RomRaider.ParseRomraiderIndex, RomRaider.ParseRomraiderDefinition. destruct (String.eqb id ""); [discriminate|].
  destruct (ParseRoot _ _ _ _) as [root|]; [|discriminate]. cbn [result_bind]. intros Hes%index_entries_inv ([rom|] & Hsel & H)%result_bind_Ok; [|discriminate].
  apply result_bind_Ok in H as (h & Hh & ([maps scs] & _ & [= <-])%result_bind_Ok).
  apply select_rom_place in Hsel as [[? _]|(_ & before & after & Er & Hid & Hothers)]; [done|]. rewrite Er in Hes.
  pose proof (ParseRomHeader_inv _ _ _ Hh) as [_ Hid']. rewrite Hid in Hid'. injection Hid' as Hid'.
  split; [by rewrite Hid'|]. apply Forall2_app_inv_l in Hes as (es1 & es2 & H1 & H2 & ->). apply Forall2_cons_inv_l in H2 as (e & es3 & He & H3 & ->).
  exists es1, e, es3. destruct He as (h' & Hh' & Eid & Ef & Es & E1 & E2 & E3 & E4 & E5). rewrite Hh in Hh'. injection Hh' as <-.
  split_and!; [done|by repeat split|]. pose proof (Forall2_app H1 H3) as Hall. clear -Hall Hothers.
  induction Hall as [|rom e roms es He _ IH]; [constructor|]. apply Forall_cons in Hothers as [Ho Hothers]. constructor; [|by apply IH].
  intros E. apply Ho. by rewrite (entry_of_id _ _ _ He), E.
Qed.
(** The address of an index entry fits 32 bits. *)
Lemma index_address xml s es e : e ∈ es ->
  EcuFlash.ParseEcuflashIndex load_buffer xml s = Ok es \/ RomRaider.ParseRomraiderIndex load_buffer xml s = Ok es -> opt_u32 (de_internal_id_address e).
Proof.
  intros Hin [H|H].
  - revert H. unfold EcuFlash.ParseEcuflashIndex, EcuFlash.ParseHeader. intros (h & (root & _ & Hh%ParseRomHeader_u32)%result_bind_Ok & [= <-])%result_bind_Ok.
    apply list_elem_of_singleton in Hin as ->. exact Hh.
  - revert H. unfold RomRaider.ParseRomraiderIndex. intros (root & _ & H%index_entries_inv)%result_bind_Ok.
    apply list_elem_of_lookup in Hin as [i Hi]. destruct (Forall2_lookup_r _ _ _ _ _ H Hi) as (rom & _ & h & Hh%ParseRomHeader_u32 & _ & _ & _ & _ & -> & _). exact Hh.
Qed.

(** C35: What the index of a file says of a definition is what the definition says: for
    every definition read from a file, in either format, the index read from the same
    bytes holds exactly one entry of its identifier, and that entry has its format, source,
    internal and ECU identifiers, address, flash method and parents (an EcuFlash file has
    this one entry only); and the address of its identifier and every number of its tables
    fit 32 bits. *)
Theorem index_matches_definition xml source :
  (forall es d, EcuFlash.ParseEcuflashIndex load_buffer xml source = Ok es ->
     ParseEcuflashDefinition load_buffer tenth_text xml source = Ok d ->
     (exists e, es = [e] /\ indexed e d) /\ numbers_fit d)
  /\ (forall es d id, RomRaider.ParseRomraiderIndex load_buffer xml source = Ok es ->
     RomRaider.ParseRomraiderDefinition load_buffer xml source id = Ok d ->
     definition_id d = id /\ numbers_fit d
     /\ exists before e after, es = before ++ e :: after /\ indexed e d
          /\ Forall (fun x => de_definition_id x <> id) (before ++ after)).
Proof.
  split.
  - intros es d Hes Hd. split; [by eapply ecuflash_indexed|by eapply ParseEcuflashDefinition_fits].
  - intros es d id Hes Hd. destruct (romraider_indexed _ _ _ _ _ Hes Hd) as [Hid He]. split; [done|].
    split; [by eapply ParseRomraiderDefinition_fits|done].
Qed.
End agreement.

(** ** A file, as the XML parser gives it *)
Definition sample_document : list XmlNode :=
  [Element "rom" []
     [PcData " ";
      Element "romid" [] [Element "xmlid" [] [PcData " A2WC "]; Element "internalidaddress" [] [PcData "0x2000"];
                          Element "internalidstring" [] [PcData "A2WC"]; Element "flashmethod" [] [PcData "sti04"]];
      Element "include" [] [PcData "BASE"];
      Element "table" [("name", "Fuel"); ("address", "c000"); ("type", "2D"); ("sizex", "4"); ("storagetype", "uint16")] []]]%string.
Definition sample_load_buffer (xml : list Z) : result string (list XmlNode) := Ok sample_document.
Example sample_definition_read :
  match ParseEcuflashDefinition sample_load_buffer (fun _ => None) [] "a.xml" with
  | Ok d => definition_id d = "A2WC"%string /\ ud_parents d = ["BASE"%string]
            /\ map (fun m => (um_name m, um_address m, um_x_size m)) (ud_maps d) = [("Fuel"%string, Some 0xc000, Some 4)]
  | Err _ => False
  end.
Proof. vm_compute. by repeat split. Qed.
Definition sample_roms : list XmlNode :=
  [Element "roms" []
     [Element "rom" [] [Element "romid" [] [Element "xmlid" [] [PcData "BASE"]]];
      Element "rom" [("base", "BASE")]
        [Element "romid" [] [Element "xmlid" [] [PcData "A2WC"]; Element "internalidaddress" [] [PcData "2000"];
                             Element "internalidstring" [] [PcData "A2WC"]; Element "flashmethod" [] [PcData "sti04"]];
         Element "table" [("name", "Fuel"); ("address", "c000"); ("type", "2D"); ("sizex", "4"); ("storagetype", "uint16")] []]]]%string.
Lemma index_matches_definition_witness :
  (exists es d, EcuFlash.ParseEcuflashIndex sample_load_buffer [] "a.xml" = Ok es
    /\ ParseEcuflashDefinition sample_load_buffer (fun _ => None) [] "a.xml" = Ok d
    /\ (exists e, es = [e] /\ indexed e d) /\ numbers_fit d)
  /\ exists es d, RomRaider.ParseRomraiderIndex (fun _ => Ok sample_roms) [] "b.xml" = Ok es
    /\ RomRaider.ParseRomraiderDefinition (fun _ => Ok sample_roms) [] "b.xml" "A2WC" = Ok d /\ length es = 2%nat
    /\ numbers_fit d /\ exists before e after, es = before ++ e :: after /\ indexed e d.
Proof.
  destruct (EcuFlash.ParseEcuflashIndex sample_load_buffer [] "a.xml") as [es|] eqn:Ees; [|vm_compute in Ees; discriminate].
  destruct (ParseEcuflashDefinition sample_load_buffer (fun _ => None) [] "a.xml") as [d|] eqn:Ed; [|vm_compute in Ed; discriminate].
  destruct (RomRaider.ParseRomraiderIndex (fun _ => Ok sample_roms) [] "b.xml") as [es'|] eqn:Ees'; [|vm_compute in Ees'; discriminate].
  destruct (RomRaider.ParseRomraiderDefinition (fun _ => Ok sample_roms) [] "b.xml" "A2WC") as [d'|] eqn:Ed'; [|vm_compute in Ed'; discriminate].
  split.
  - exists es, d. split; [reflexivity|]. split; [reflexivity|].
    exact (proj1 (index_matches_definition sample_load_buffer (fun _ => None) [] "a.xml") es d Ees Ed).
  - exists es', d'. split; [reflexivity|]. split; [reflexivity|]. split; [vm_compute in Ees'; injection Ees' as <-; reflexivity|].
    destruct (proj2 (index_matches_definition (fun _ => Ok sample_roms) (fun _ => None) [] "b.xml") es' d' "A2WC"%string Ees' Ed')
      as (_ & Hn & before & e & after & He & Hi & _).
    split; [exact Hn|]. exists before, e, after. exact (conj He Hi).
Defined.
