(* ===== verification/DefinitionWriter.v ===== *)
(** * DefinitionWriter: [src/backend/definition/{definition_writer,definition_header_fields}.cpp]

    Definition files as the application authors them: the header fields, their
    normalisation and checks, the edits of the XML tree and the written file, which is
    read again before it is handed out; and the drafts of headers read from files. The
    XML parser and printer are parameters. *)
From stdpp Require Import gmap countable strings.
From S2P Require Import Prelude.
From S2P Require Import Ports.
From S2P Require Import DefinitionModel.
From S2P Require Import DefinitionResolver.
From S2P Require Import Xml.
From S2P Require Import DefinitionParsers.

(** ** [metadata_fields.h] *)
Record MetadataField := { xml_name : string; member : RomMetadata -> string; set_member : string -> RomMetadata -> RomMetadata }.
Definition with_metadata (a b c d e f g h i j k : string) : RomMetadata :=
  {| md_make := a; md_market := b; md_model := c; md_submodel := d; md_transmission := e; md_year := f; md_flash_method := g;
     md_memory_model := h; md_checksum_module := i; md_file_size := j; md_notes := k |}.
Definition set_make v m := with_metadata v (md_market m) (md_model m) (md_submodel m) (md_transmission m) (md_year m)
  (md_flash_method m) (md_memory_model m) (md_checksum_module m) (md_file_size m) (md_notes m).
Definition set_market v m := with_metadata (md_make m) v (md_model m) (md_submodel m) (md_transmission m) (md_year m)
  (md_flash_method m) (md_memory_model m) (md_checksum_module m) (md_file_size m) (md_notes m).
Definition set_model v m := with_metadata (md_make m) (md_market m) v (md_submodel m) (md_transmission m) (md_year m)
  (md_flash_method m) (md_memory_model m) (md_checksum_module m) (md_file_size m) (md_notes m).
Definition set_submodel v m := with_metadata (md_make m) (md_market m) (md_model m) v (md_transmission m) (md_year m)
  (md_flash_method m) (md_memory_model m) (md_checksum_module m) (md_file_size m) (md_notes m).
Definition set_transmission v m := with_metadata (md_make m) (md_market m) (md_model m) (md_submodel m) v (md_year m)
  (md_flash_method m) (md_memory_model m) (md_checksum_module m) (md_file_size m) (md_notes m).
Definition set_year v m := with_metadata (md_make m) (md_market m) (md_model m) (md_submodel m) (md_transmission m) v
  (md_flash_method m) (md_memory_model m) (md_checksum_module m) (md_file_size m) (md_notes m).
Definition set_flash_method v m := with_metadata (md_make m) (md_market m) (md_model m) (md_submodel m) (md_transmission m) (md_year m)
  v (md_memory_model m) (md_checksum_module m) (md_file_size m) (md_notes m).
Definition set_memory_model v m := with_metadata (md_make m) (md_market m) (md_model m) (md_submodel m) (md_transmission m) (md_year m)
  (md_flash_method m) v (md_checksum_module m) (md_file_size m) (md_notes m).
Definition set_checksum_module v m := with_metadata (md_make m) (md_market m) (md_model m) (md_submodel m) (md_transmission m)
  (md_year m) (md_flash_method m) (md_memory_model m) v (md_file_size m) (md_notes m).
Definition set_file_size v m := with_metadata (md_make m) (md_market m) (md_model m) (md_submodel m) (md_transmission m) (md_year m)
  (md_flash_method m) (md_memory_model m) (md_checksum_module m) v (md_notes m).
Definition kEditableMetadataFields : list MetadataField :=
  [{| xml_name := "make"; member := md_make; set_member := set_make |};
   {| xml_name := "market"; member := md_market; set_member := set_market |};
   {| xml_name := "model"; member := md_model; set_member := set_model |};
   {| xml_name := "submodel"; member := md_submodel; set_member := set_submodel |};
   {| xml_name := "transmission"; member := md_transmission; set_member := set_transmission |};
   {| xml_name := "year"; member := md_year; set_member := set_year |};
   {| xml_name := "flashmethod"; member := md_flash_method; set_member := set_flash_method |};
   {| xml_name := "memmodel"; member := md_memory_model; set_member := set_memory_model |};
   {| xml_name := "checksummodule"; member := md_checksum_module; set_member := set_checksum_module |}].

(** ** [definition_writer.h] *)
Record DefinitionHeaderInput := {
  in_xml_id : string; in_internal_id : string; in_ecu_id : string; in_internal_id_address : option Z; in_metadata : RomMetadata;
  in_include : string; in_notes : string
}.
Definition trim_member (m : RomMetadata) (f : MetadataField) : RomMetadata := set_member f (TrimHeaderText (member f m)) m.
Definition NormalizeHeaderInput (input : DefinitionHeaderInput) : DefinitionHeaderInput :=
  let metadata := fold_left trim_member kEditableMetadataFields (in_metadata input) in
  {| in_xml_id := TrimHeaderText (in_xml_id input); in_internal_id := TrimHeaderText (in_internal_id input);
     in_ecu_id := TrimHeaderText (in_ecu_id input); in_internal_id_address := in_internal_id_address input;
     in_metadata := set_file_size (TrimHeaderText (md_file_size metadata)) metadata;
     in_include := TrimHeaderText (in_include input); in_notes := in_notes input |}.
Definition HasUnrepresentableCharacter (text : string) : bool :=
  existsb (fun c => (code c =? 0) || (code c =? 13)) (to_chars text).
Definition named_fields (input : DefinitionHeaderInput) : list (string * string) :=
  [("XML ID", in_xml_id input); ("internal ID", in_internal_id input); ("ECU ID", in_ecu_id input); ("include", in_include input);
   ("notes", in_notes input); ("identity notes", md_notes (in_metadata input)); ("file size", md_file_size (in_metadata input))]%string
  ++ map (fun f => (xml_name f, member f (in_metadata input))) kEditableMetadataFields.
Definition ValidateRepresentableText (input : DefinitionHeaderInput) : Status :=
  match List.find (fun field => HasUnrepresentableCharacter (snd field)) (named_fields input) with
  | Some (name, _) => Fail kInvalidConfig ("definition " +:+ name +:+ " cannot contain NUL or carriage return characters")
  | None => Ok tt
  end.
Definition ValidateInput (input : DefinitionHeaderInput) : Status :=
  let! _ := ValidateRepresentableText input in
  if String.eqb (in_xml_id input) "" then Fail kInvalidConfig "definition XML ID is required"
  else if String.eqb (in_internal_id input) "" then Fail kInvalidConfig "definition internal ID is required"
  else if String.eqb (in_ecu_id input) "" then Fail kInvalidConfig "definition ECU ID is required"
  else Ok tt.

(** ** Edits of the tree *)
(** [text().set] after the children were removed; only an element takes a text child. *)
Definition set_text (value : string) (n : XmlNode) : XmlNode :=
  match n with Element name attributes _ => Element name attributes [PcData value] | _ => n end.
(** The children with the first of the name rewritten and the later ones removed. *)
Fixpoint set_first (name value : string) (nodes : list XmlNode) : option (list XmlNode) :=
  match nodes with
  | [] => None
  | n :: nodes =>
      if is_named name n then Some (set_text value n :: List.filter (fun n => negb (is_named name n)) nodes)
      else cons n <$> set_first name value nodes
  end.
Definition SetUniqueText (nodes : list XmlNode) (name value : string) : list XmlNode :=
  match set_first name value nodes with
  | Some nodes => nodes
  | None => nodes ++ [Element name [] [PcData value]]
  end.
Definition HexText (value : Z) : string := "0x" +:+ fmt_x value.
Definition SetOptionalHex (nodes : list XmlNode) (name : string) (value : option Z) : list XmlNode :=
  match value with
  | Some value => SetUniqueText nodes name (HexText value)
  | None => List.filter (fun n => negb (is_named name n)) nodes
  end.
(** The identity element's children. *)
Definition update_identity (input : DefinitionHeaderInput) (nodes : list XmlNode) : list XmlNode :=
  let nodes := SetUniqueText nodes "xmlid" (in_xml_id input) in
  let nodes := SetOptionalHex nodes "internalidaddress" (in_internal_id_address input) in
  let nodes := SetUniqueText nodes "internalidstring" (in_internal_id input) in
  let nodes := SetUniqueText nodes "ecuid" (in_ecu_id input) in
  let nodes := fold_left (fun nodes f => SetUniqueText nodes (xml_name f) (member f (in_metadata input))) kEditableMetadataFields nodes in
  let nodes := SetUniqueText nodes "filesize" (md_file_size (in_metadata input)) in
  SetUniqueText nodes "notes" (md_notes (in_metadata input)).
Definition map_children (f : list XmlNode -> list XmlNode) (n : XmlNode) : XmlNode :=
  match n with Element name attributes children => Element name attributes (f children) | _ => n end.
(** The first child of the name, changed. *)
Fixpoint map_first (name : string) (f : XmlNode -> XmlNode) (nodes : list XmlNode) : list XmlNode :=
  match nodes with
  | [] => []
  | n :: nodes => if is_named name n then f n :: nodes else n :: map_first name f nodes
  end.
Definition UpdateHeader (root : list XmlNode) (raw_input : DefinitionHeaderInput) : result Error (list XmlNode) :=
  let input := NormalizeHeaderInput raw_input in
  let! _ := ValidateInput input in
  let root := if existsb (is_named "romid") root then root else Element "romid" [] [] :: root in
  let root := map_first "romid" (map_children (update_identity input)) root in
  let root := SetUniqueText root "include" (in_include input) in
  Ok (SetUniqueText root "notes" (in_notes input)).
Definition is_declaration (n : XmlNode) : bool := match n with Declaration _ => true | _ => false end.
Definition NormalizeDeclaration (document : list XmlNode) : list XmlNode :=
  Declaration [("version", "1.0"); ("encoding", "UTF-8")]%string :: List.filter (fun n => negb (is_declaration n)) document.
Section writer.
(** The parser with its default flags, the same keeping comments, declarations and the
    like, and the printer. *)
Context (load_buffer load_all : list Z -> result string (list XmlNode)) (save : list XmlNode -> list Z)
  (tenth_text : string -> option string).
Definition end_line (xml : list Z) : list Z := match rev xml with 10 :: _ => xml | _ => xml ++ [10] end.
Definition SerializeAndValidate (document : list XmlNode) : result Error (list Z) :=
  let result := end_line (save (NormalizeDeclaration document)) in
  let! _ := ParseEcuflashDefinition load_buffer tenth_text result "generated definition" in
  Ok result.
Definition CreateEcuflashXml (input : DefinitionHeaderInput) : result Error (list Z) :=
  let! root := UpdateHeader [] input in
  SerializeAndValidate [Element "rom" [] root].
(** The document with its first element changed. *)
Fixpoint map_root (f : XmlNode -> XmlNode) (document : list XmlNode) : list XmlNode :=
  match document with
  | [] => []
  | n :: document => if is_element n then f n :: document else n :: map_root f document
  end.
Definition RewriteEcuflashXml (source : list Z) (input : DefinitionHeaderInput) : result Error (list Z) :=
  match load_all source with
  | Err description => Fail kInvalidConfig ("EcuFlash source XML is malformed: " +:+ description)
  | Ok document =>
      let root := List.find is_element document in
      if negb (String.eqb (node_name root) "rom") then Fail kInvalidConfig "EcuFlash source root must be <rom>"
      else if repeated root "romid" then
        Fail kInvalidConfig "EcuFlash source element <rom>: duplicate top-level <romid> elements"
      else
        let! children := UpdateHeader (node_children root) input in
        SerializeAndValidate (map_root (map_children (fun _ => children)) document)
  end.

(** ** [definition_header_fields.cpp] *)
Record DefinitionHeaderDraft := {
  dr_xml_id : string; dr_internal_id : string; dr_ecu_id : string; dr_internal_id_address_text : string; dr_metadata : RomMetadata;
  dr_include : string; dr_notes : string
}.
Definition no_metadata : RomMetadata := with_metadata "" "" "" "" "" "" "" "" "" "" "".
Definition kAuthoring : string := "authoring header".
Definition ReadHeader (bytes : list Z) : result Error DefinitionHeaderDraft :=
  let! root := ParseDocumentRoot load_buffer bytes kAuthoring in
  let rom := if String.eqb (node_name (Some root)) "rom" then Some root
             else if String.eqb (node_name (Some root)) "roms" then child (Some root) "rom" else None in
  match rom with
  | None => Invalid kAuthoring "XML document" "expected <rom> or a direct <rom> child of <roms>" ""
  | Some rom_node =>
      let! _ := ValidateHeaderStructure rom_node kAuthoring in
      let rom_id := child rom "romid" in
      let metadata := fold_left (fun m f => set_member f (HeaderChildText rom_id (xml_name f)) m) kEditableMetadataFields no_metadata in
      Ok {| dr_xml_id := HeaderChildText rom_id "xmlid"; dr_internal_id := HeaderChildText rom_id "internalidstring";
            dr_ecu_id := HeaderChildText rom_id "ecuid"; dr_internal_id_address_text := HeaderChildText rom_id "internalidaddress";
            dr_metadata := metadata; dr_include := HeaderChildText rom "include"; dr_notes := HeaderChildText rom "notes" |}
  end.
Definition BuildDefinitionHeaderInput (draft : DefinitionHeaderDraft) : result Error DefinitionHeaderInput :=
  let! address := ParseHeaderAddress (dr_internal_id_address_text draft) kAuthoring "" in
  Ok (NormalizeHeaderInput {| in_xml_id := dr_xml_id draft; in_internal_id := dr_internal_id draft; in_ecu_id := dr_ecu_id draft;
        in_internal_id_address := address; in_metadata := dr_metadata draft; in_include := dr_include draft; in_notes := dr_notes draft |}).
End writer.


(** ** Trimming *)
Section trimming.
Lemma of_to_chars s : of_chars (to_chars s) = s.
Proof. apply String.string_of_list_ascii_of_string. Qed.
Lemma to_of_chars l : to_chars (of_chars l) = l.
Proof. apply String.list_ascii_of_string_of_list_ascii. Qed.
Definition clean_start (l : list ascii) : Prop := List.find (starts_with l) kWhitespace = None.
Definition clean_end (reversed : list ascii) : Prop := List.find (fun space => starts_with reversed (rev space)) kWhitespace = None.
Lemma spaces_nonempty : Forall (fun space => space <> []) kWhitespace.
Proof. by repeat constructor. Qed.
Lemma starts_with_app l s p : starts_with l p = true -> starts_with (l ++ s) p = true.
Proof.
  revert l. induction p as [|b p IH]; intros l; [by destruct l, s|]. destruct l as [|c l]; [done|]. cbn.
  intros [-> H]%andb_prop. by rewrite IH.
Qed.
Lemma clean_start_prefix l s : clean_start (l ++ s) -> clean_start l.
Proof.
  unfold clean_start. intros H. destruct (List.find (starts_with l) kWhitespace) as [sp|] eqn:E; [|done].
  apply find_some in E as [Hin Hs]. eapply find_none in H; [|exact Hin]. by rewrite starts_with_app in H.
Qed.
Lemma trim_start_clean fuel l : (length l <= fuel)%nat -> clean_start (trim_start fuel l).
Proof.
  revert l. induction fuel as [|fuel IH]; intros l Hl; cbn [trim_start].
  - destruct l; [done|cbn in Hl; lia].
  - destruct (List.find (starts_with l) kWhitespace) as [sp|] eqn:E; [|exact E]. apply find_some in E as [Hin Hs].
    apply IH. pose proof spaces_nonempty as Hne. rewrite List.Forall_forall in Hne. specialize (Hne sp Hin).
    destruct sp as [|b sp]; [done|]. destruct l as [|c l]; [done|]. cbn in *. rewrite length_skipn. lia.
Qed.
Lemma trim_start_id fuel l : clean_start l -> trim_start fuel l = l.
Proof. destruct fuel; cbn [trim_start]; [done|]. by intros ->. Qed.
Lemma trim_end_clean fuel l : (length l <= fuel)%nat -> clean_end (trim_end fuel l).
Proof.
  revert l. induction fuel as [|fuel IH]; intros l Hl; cbn [trim_end].
  - destruct l; [done|cbn in Hl; lia].
  - destruct (List.find (fun sp => starts_with l (rev sp)) kWhitespace) as [sp|] eqn:E; [|exact E]. apply find_some in E as [Hin Hs].
    apply IH. pose proof spaces_nonempty as Hne. rewrite List.Forall_forall in Hne. specialize (Hne sp Hin).
    assert (length (rev sp) <> 0)%nat as Hr by (rewrite length_rev; by destruct sp). rewrite length_skipn. rewrite length_rev in Hr.
    destruct l as [|c l]; [|lia]. destruct (rev sp) eqn:Er; [|done]. apply (f_equal (@length Z)) in Er. rewrite length_rev in Er. done.
Qed.
Lemma trim_end_id fuel l : clean_end l -> trim_end fuel l = l.
Proof. destruct fuel; cbn [trim_end]; [done|]. by intros ->. Qed.
Lemma trim_end_suffix fuel l : exists s, l = s ++ trim_end fuel l.
Proof.
  revert l. induction fuel as [|fuel IH]; intros l; cbn [trim_end]; [by exists []|].
  destruct (List.find _ _) as [sp|]; [|by exists []]. destruct (IH (skipn (length sp) l)) as [s Hs].
  exists (firstn (length sp) l ++ s). rewrite <- app_assoc, <- Hs. by rewrite firstn_skipn.
Qed.
Lemma TrimHeaderText_clean t : clean_start (to_chars (TrimHeaderText t)) /\ clean_end (rev (to_chars (TrimHeaderText t))).
Proof.
  unfold TrimHeaderText. cbv zeta. rewrite to_of_chars, rev_involutive. set (l := trim_start _ _).
  assert (clean_start l) as Hs by (by apply trim_start_clean). split; [|apply trim_end_clean; by rewrite length_rev].
  destruct (trim_end_suffix (length l) (rev l)) as [s Hr]. apply (f_equal (@rev ascii)) in Hr. rewrite rev_involutive, rev_app_distr in Hr.
  rewrite Hr in Hs. by apply clean_start_prefix in Hs.
Qed.
Lemma TrimHeaderText_id t : clean_start (to_chars t) -> clean_end (rev (to_chars t)) -> TrimHeaderText t = t.
Proof.
  intros Hs He. unfold TrimHeaderText. cbv zeta. rewrite trim_start_id by done. rewrite trim_end_id by done.
  by rewrite rev_involutive, of_to_chars.
Qed.
Lemma TrimHeaderText_idemp t : TrimHeaderText (TrimHeaderText t) = TrimHeaderText t.
Proof. destruct (TrimHeaderText_clean t). by apply TrimHeaderText_id. Qed.
(** Text the XML parser drops: nothing but blanks. *)
Definition blank_char (c : ascii) : bool := (code c =? 32) || (code c =? 9) || (code c =? 10) || (code c =? 13).
Definition blank (t : string) : bool := forallb blank_char (to_chars t).
Lemma blank_char_cases c : blank_char c = true -> c = " "%char \/ c = "009"%char \/ c = "010"%char \/ c = "013"%char.
Proof. destruct c as [[] [] [] [] [] [] [] []]; vm_compute; intros H; try discriminate; auto. Qed.
Lemma trim_blank l fuel : forallb blank_char l = true -> (length l <= fuel)%nat -> trim_start fuel l = [].
Proof.
  revert fuel. induction l as [|c l IH]; intros fuel Hb Hl; [by destruct fuel|]. destruct fuel as [|fuel]; [cbn in Hl; lia|].
  cbn in Hb. apply andb_prop in Hb as [Hc Hb]. cbn in Hl. specialize (IH fuel Hb ltac:(lia)).
  assert (List.find (starts_with (c :: l)) kWhitespace = Some [code c]) as E.
  { assert (starts_with l [] = true) as H0 by (by destruct l).
    apply blank_char_cases in Hc as [->|[->|[->| ->]]]; cbn; by rewrite H0. }
  cbn [trim_start]. rewrite E. exact IH.
Qed.
Lemma TrimHeaderText_blank t : blank t = true -> TrimHeaderText t = ""%string.
Proof. intros Hb. unfold TrimHeaderText. cbv zeta. by rewrite trim_blank. Qed.
(** Visible ASCII is not trimmed. *)
Definition visible (c : ascii) : bool := (33 <=? code c) && (code c <=? 126).
Lemma visible_starts l : forallb visible l = true -> clean_start l.
Proof.
  destruct l as [|c l]; [done|]. cbn [forallb]. intros [Hc _]%andb_prop. unfold clean_start.
  destruct (List.find (starts_with (c :: l)) kWhitespace) as [sp|] eqn:E; [|done]. apply find_some in E as [Hin Hs]. exfalso.
  assert (forallb (fun sp => match sp with b :: _ => (b <? 33) || (126 <? b) | [] => false end) kWhitespace = true) as Hall by done.
  rewrite forallb_forall in Hall. specialize (Hall sp Hin). destruct sp as [|b sp]; [done|]. cbn in Hs.
  apply andb_prop in Hs as [Hb%Z.eqb_eq _]. unfold visible in Hc. lia.
Qed.
Lemma visible_ends l : forallb visible l = true -> clean_end l.
Proof.
  destruct l as [|c l]; [done|]. cbn [forallb]. intros [Hc _]%andb_prop. unfold clean_end.
  destruct (List.find _ _) as [sp|] eqn:E; [|done]. apply find_some in E as [Hin Hs]. exfalso.
  assert (forallb (fun sp => match rev sp with b :: _ => (b <? 33) || (126 <? b) | [] => false end) kWhitespace = true) as Hall by done.
  rewrite forallb_forall in Hall. specialize (Hall sp Hin). destruct (rev sp) as [|b sp']; [done|]. cbn in Hs.
  apply andb_prop in Hs as [Hb%Z.eqb_eq _]. unfold visible in Hc. lia.
Qed.
Lemma forallb_rev {A} (f : A -> bool) l : forallb f (rev l) = forallb f l.
Proof. induction l as [|x l IH]; cbn; [done|]. rewrite forallb_app, IH. cbn. rewrite andb_true_r. apply andb_comm. Qed.
Lemma visible_trimmed t : forallb visible (to_chars t) = true -> TrimHeaderText t = t.
Proof. intros H. apply TrimHeaderText_id; [by apply visible_starts|apply visible_ends; by rewrite forallb_rev]. Qed.
Lemma visible_not_space c : visible c = true -> isspace c = false.
Proof. destruct c as [[] [] [] [] [] [] [] []]; vm_compute; congruence. Qed.
Lemma visible_TrimCopy t : forallb visible (to_chars t) = true -> TrimCopy t = t.
Proof.
  assert (forall l, forallb visible l = true -> drop_space l = l) as Hd.
  { intros [|c l]; cbn; [done|]. intros [Hc _]%andb_prop. by rewrite visible_not_space. }
  intros H. unfold TrimCopy. rewrite (Hd _ H), Hd by (by rewrite forallb_rev). by rewrite rev_involutive, of_to_chars.
Qed.
End trimming.

(** ** An address as text *)
Section addresses.
Lemma digit_char_hex d : 0 <= d < 16 -> hex_digit (digit_char d) = Some d /\ visible (digit_char d) = true.
Proof.
  intros H. assert (d = 0 \/ d = 1 \/ d = 2 \/ d = 3 \/ d = 4 \/ d = 5 \/ d = 6 \/ d = 7 \/ d = 8 \/ d = 9 \/ d = 10 \/ d = 11 \/ d = 12 \/ d = 13
    \/ d = 14 \/ d = 15) as Hd by lia.
  repeat destruct Hd as [->|Hd]; [by split..|]. subst d. by split.
Qed.
Lemma number_app digit base v l l' : number digit base v (l ++ l') = (x ← number digit base v l; number digit base x l').
Proof. revert v. induction l as [|c l IH]; intros v; cbn; [done|]. destruct (digit c); cbn; [apply IH|done]. Qed.
(** The text of a number reads back, in any base. *)
Lemma fmt_digits_number (digit : ascii -> option Z) (shown : ascii -> bool) base fuel z acc : 2 <= base ->
  (forall d, 0 <= d < base -> digit (digit_char d) = Some d /\ shown (digit_char d) = true) -> 0 <= z < base ^ (Z.of_nat fuel + 1) ->
  exists ds, to_chars (fmt_digits fuel base z acc) = ds ++ to_chars acc /\ ds <> [] /\ forallb shown ds = true
    /\ forall v, number digit base v ds = Some (v * base ^ Z.of_nat (length ds) + z).
Proof.
  intros Hb Hdigit. revert z acc. induction fuel as [|fuel IH]; intros z acc Hz.
  - cbn [Z.of_nat] in Hz. rewrite Z.add_0_l, Z.pow_1_r in Hz. destruct (Hdigit (z mod base)) as [Hd Hv]; [apply Z.mod_pos_bound; lia|].
    exists [digit_char (z mod base)]. cbn [forallb]. rewrite Hv. split_and!; [done..|]. intros v. cbn. rewrite Hd. cbn. f_equal.
    rewrite Z.mod_small by lia. lia.
  - destruct (Hdigit (z mod base)) as [Hd Hv]; [apply Z.mod_pos_bound; lia|]. cbn [fmt_digits].
    pose proof (Z.div_mod z base ltac:(lia)) as Hdm. destruct (Z.eqb_spec (z / base) 0) as [E|E].
    + exists [digit_char (z mod base)]. cbn [forallb]. rewrite Hv. split_and!; [done..|]. intros v. cbn. rewrite Hd. cbn. f_equal. nia.
    + destruct (IH (z / base) (String (digit_char (z mod base)) acc)) as (ds & Hc & Hne & Hvis & Hn).
      { rewrite Nat2Z.inj_succ in Hz. replace (Z.succ (Z.of_nat fuel) + 1) with (Z.of_nat fuel + 1 + 1) in Hz by lia.
        rewrite (Z.pow_add_r base (Z.of_nat fuel + 1) 1), Z.pow_1_r in Hz by lia.
        split; [by apply Z.div_pos; lia|]. apply Z.div_lt_upper_bound; lia. }
      exists (ds ++ [digit_char (z mod base)]). split_and!.
      * rewrite Hc. cbn. by rewrite <- app_assoc.
      * by destruct ds.
      * rewrite forallb_app, Hvis. cbn [forallb]. by rewrite Hv.
      * intros v. rewrite number_app, Hn. cbn. rewrite Hd. cbn. f_equal. rewrite length_app. cbn [length].
        rewrite Nat2Z.inj_add. change (Z.of_nat 1) with 1. rewrite Z.pow_add_r, Z.pow_1_r by lia. nia.
Qed.
Lemma fmt_digits_hex fuel z acc : 0 <= z < 16 ^ (Z.of_nat fuel + 1) ->
  exists ds, to_chars (fmt_digits fuel 16 z acc) = ds ++ to_chars acc /\ ds <> [] /\ forallb visible ds = true
    /\ forall v, number hex_digit 16 v ds = Some (v * 16 ^ Z.of_nat (length ds) + z).
Proof. apply fmt_digits_number; [lia|]. apply digit_char_hex. Qed.
Lemma hex_text_address text ds a source id :
  to_chars text = "0"%char :: "x"%char :: ds -> ds <> [] -> forallb visible ds = true -> number hex_digit 16 0 ds = Some a -> u32_ok a ->
  ParseHeaderAddress text source id = Ok (Some a).
Proof.
  intros Ht Hne Hvis Hn Ha. assert (forallb visible (to_chars text) = true) as Hv by (rewrite Ht; cbn [forallb]; by rewrite Hvis).
  unfold ParseHeaderAddress. cbv zeta. rewrite (visible_trimmed _ Hv).
  destruct (String.eqb_spec text "") as [E|_]; [rewrite E in Ht; done|].
  assert (starts_with (to_chars text) [43] = false) as -> by (by rewrite Ht). rewrite (visible_trimmed _ Hv), String.eqb_refl.
  unfold ParseHexValue. rewrite (visible_TrimCopy _ Hv). cbv zeta. rewrite Ht.
  change (starts_with ("0"%char :: "x"%char :: ds) [48; 120]) with (true && (true && starts_with ds [])).
  assert (forall l, starts_with l [] = true) as -> by (by intros []). cbn [andb orb skipn]. unfold from_chars.
  rewrite skipn_O. destruct ds as [|c ds]; [done|]. rewrite Hn. cbn [mbind option_bind].
  rewrite (proj2 (Z.leb_le _ _)) by (unfold u32_ok, kU32Max, kU64Max in *; lia). unfold DefinitionAddressFrom.
  rewrite (proj2 (Z.ltb_ge _ _)) by (unfold u32_ok, kU32Max in *; lia). done.
Qed.
Lemma HexText_reads_back a source id : u32_ok a -> ParseHeaderAddress (HexText a) source id = Ok (Some a).
Proof.
  intros Ha. assert (0 <= a < 16 ^ (Z.of_nat 64 + 1)) as Hb.
  { unfold u32_ok, kU32Max in Ha. split; [lia|]. eapply Z.lt_trans with (16 ^ 8); [lia|]. apply Z.pow_lt_mono_r; lia. }
  destruct (fmt_digits_hex 64 a "" Hb) as (ds & Hc & Hne & Hvis & Hn). change (to_chars "") with (@nil ascii) in Hc.
  rewrite app_nil_r in Hc. change (fmt_digits 64 16 a "") with (fmt_x a) in Hc.
  specialize (Hn 0). rewrite Z.mul_0_l, Z.add_0_l in Hn. apply (hex_text_address _ ds); [|done..]. unfold HexText. rewrite <- Hc. generalize (fmt_x a). done.
Qed.
End addresses.



(** ** An authored definition reads back *)
Section authored.
Context (load_buffer : list Z -> result string (list XmlNode)) (save : list XmlNode -> list Z) (tenth_text : string -> option string).
(** What the parser, with its default flags, makes of a printed tree: elements as they
    were, text unless it is blank, and none of the rest. *)
Fixpoint reread (n : XmlNode) : list XmlNode :=
  match n with
  | Element name attributes children => [Element name attributes (flat_map reread children)]
  | PcData text => if blank text then [] else [PcData text]
  | CData text => [CData text]
  | _ => []
  end.
(** The printer and the parser agree on the documents made from representable headers. *)
Definition prints_headers : Prop :=
  forall input root, UpdateHeader [] input = Ok root ->
    let document := NormalizeDeclaration [Element "rom" [] root] in
    load_buffer (end_line (save document)) = Ok (flat_map reread document).
Definition field (name value : string) : XmlNode := Element name [] [PcData value].
Definition identity_fields (input : DefinitionHeaderInput) : list (string * string) :=
  ("xmlid"%string, in_xml_id input)
  :: match in_internal_id_address input with Some a => [("internalidaddress"%string, HexText a)] | None => [] end
  ++ [("internalidstring", in_internal_id input); ("ecuid", in_ecu_id input)]%string
  ++ map (fun f => (xml_name f, member f (in_metadata input))) kEditableMetadataFields
  ++ [("filesize", md_file_size (in_metadata input)); ("notes", md_notes (in_metadata input))]%string.
Definition authored_root (input : DefinitionHeaderInput) : list XmlNode :=
  [Element "romid" [] (map (fun f => field (fst f) (snd f)) (identity_fields input)); field "include" (in_include input);
   field "notes" (in_notes input)].
Lemma UpdateHeader_new raw : ValidateInput (NormalizeHeaderInput raw) = Ok tt ->
  UpdateHeader [] raw = Ok (authored_root (NormalizeHeaderInput raw)).
Proof.
  intros Hv. unfold UpdateHeader. cbv zeta. rewrite Hv. cbn [result_bind]. generalize (NormalizeHeaderInput raw). intros input.
  unfold authored_root, identity_fields, update_identity. destruct input as [x i e [a|] m inc notes]; cbn -[HexText]; reflexivity.
Qed.
(** A field as it is read. *)
Definition unblank (v : string) : string := if blank v then "" else v.
Definition text_children (v : string) : list XmlNode := if blank v then [] else [PcData v].
Definition read_field (f : string * string) : XmlNode := Element (fst f) [] (text_children (snd f)).
Lemma reread_fields fs : flat_map reread (map (fun f => field (fst f) (snd f)) fs) = map read_field fs.
Proof.
  induction fs as [|[n v] fs IH]; [done|]. cbn [map flat_map]. rewrite IH. unfold read_field at 2, text_children. cbn. rewrite app_nil_r.
  reflexivity.
Qed.
Lemma ReadElementText_field f : ReadElementText (Some (read_field f)) = unblank (snd f).
Proof. unfold ReadElementText, read_field, text_children, unblank. cbn. by destruct (blank (snd f)). Qed.
Lemma has_nested_field f : has_nested (read_field f) = false.
Proof. unfold has_nested, read_field, text_children. cbn. by destruct (blank (snd f)). Qed.
Lemma trimmed_read v : TrimHeaderText (unblank (TrimHeaderText v)) = TrimHeaderText v.
Proof.
  unfold unblank. destruct (blank (TrimHeaderText v)) eqn:E; [|apply TrimHeaderText_idemp].
  apply TrimHeaderText_blank in E. rewrite TrimHeaderText_idemp in E. by rewrite E.
Qed.
(** The element as it is read. *)
Definition read_rom (input : DefinitionHeaderInput) : XmlNode :=
  Element "rom" [] [Element "romid" [] (map read_field (identity_fields input)); read_field ("include"%string, in_include input);
                    read_field ("notes"%string, in_notes input)].
Lemma validate_fields_ok source parent names :
  (forall name n, In name names -> In n (children parent name) -> has_nested n = false) -> validate_fields source parent names = Ok tt.
Proof.
  induction names as [|name names IH]; intros H; [done|]. cbn [validate_fields].
  destruct (existsb has_nested (children parent name)) eqn:E.
  - apply existsb_exists in E as (n & Hin & Hn). rewrite (H name n) in Hn; [done|by left|done].
  - apply IH. intros name' n Hn. apply H. by right.
Qed.
Lemma read_structure input source : ValidateHeaderStructure (read_rom input) source = Ok tt.
Proof.
  unfold ValidateHeaderStructure. rewrite validate_fields_ok; cbn [result_bind].
  - apply validate_fields_ok. intros name n Hname Hn. cbn in Hname. destruct Hname as [<-|[<-|[]]]; cbn in Hn; destruct Hn as [<-|[]]; apply has_nested_field.
  - intros name n _ Hn. unfold children in Hn. apply filter_In in Hn as [Hn _]. cbn [child read_rom node_children List.find is_named] in Hn.
    change (String.eqb "romid" "romid") with true in Hn. cbn [node_children] in Hn. apply in_map_iff in Hn as (f & <- & _). apply has_nested_field.
Qed.
(** A field of the identity, by its name. *)
Lemma child_field fs name v : List.find (fun f => String.eqb (fst f) name) fs = Some (name, v) ->
  child (Some (Element "romid" [] (map read_field fs))) name = Some (read_field (name, v)).
Proof.
  unfold child. cbn [node_children]. induction fs as [|[n w] fs IH]; [done|]. cbn [map List.find fst].
  change (is_named name (read_field (n, w))) with (String.eqb n name). destruct (String.eqb_spec n name) as [->|]; [by intros [= <-]|done].
Qed.
Lemma header_field fs name v : List.find (fun f => String.eqb (fst f) name) fs = Some (name, v) -> String.eqb name "notes" = false ->
  HeaderChildText (Some (Element "romid" [] (map read_field fs))) name = TrimHeaderText (unblank v).
Proof. intros Hf Hn. unfold HeaderChildText. cbv zeta. rewrite (child_field _ _ _ Hf), ReadElementText_field, Hn. done. Qed.
Definition identity_names (input : DefinitionHeaderInput) : list string := map fst (identity_fields input).
Lemma count_fields fs name :
  length (List.filter (is_named name) (map read_field fs)) = length (List.filter (fun n => String.eqb n name) (map fst fs)).
Proof.
  induction fs as [|[n v] fs IH]; [done|]. cbn [map List.filter fst]. change (is_named name (read_field (n, v))) with (String.eqb n name).
  destruct (String.eqb n name); cbn [length]; by rewrite IH.
Qed.
Lemma read_identity input source :
  IdentityElement (read_rom input) source = Ok (Element "romid" [] (map read_field (identity_fields input))).
Proof.
  unfold IdentityElement. rewrite read_structure. cbn [result_bind].
  change (child (Some (read_rom input)) "romid") with (Some (Element "romid" [] (map read_field (identity_fields input)))).
  change (repeated (Some (read_rom input)) "romid") with false. cbn iota.
  assert (List.find (repeated (Some (Element "romid" [] (map read_field (identity_fields input))))) kSingletonChildren = None) as ->; [|done].
  destruct (List.find _ _) as [name|] eqn:E; [|done]. apply find_some in E as [Hin Hr]. exfalso.
  unfold repeated, children in Hr. cbn [node_children] in Hr. rewrite count_fields in Hr.
  assert (forallb (fun name => negb (Nat.ltb 1 (length (List.filter (fun n => String.eqb n name) (map fst (identity_fields input)))))) kSingletonChildren
          = true) as Hall by (destruct input as [x i e [a|] m inc notes]; reflexivity).
  rewrite forallb_forall in Hall. specialize (Hall name Hin). by rewrite Hr in Hall.
Qed.
(** What a reader finds in the identity of a normalised header. *)
Lemma identity_text raw name v :
  List.find (fun f => String.eqb (fst f) name) (identity_fields (NormalizeHeaderInput raw)) = Some (name, TrimHeaderText v) ->
  String.eqb name "notes" = false ->
  HeaderChildText (child (Some (read_rom (NormalizeHeaderInput raw))) "romid") name = TrimHeaderText v.
Proof. intros Hf Hn. etransitivity; [exact (header_field _ _ _ Hf Hn)|apply trimmed_read]. Qed.
Ltac identity_field v a := apply (identity_text _ _ v); [by destruct a|reflexivity].
Definition read_metadata (m : RomMetadata) : RomMetadata :=
  with_metadata (md_make m) (md_market m) (md_model m) (md_submodel m) (md_transmission m) (md_year m) (md_flash_method m) (md_memory_model m)
    (md_checksum_module m) (md_file_size m) (unblank (md_notes m)).
Lemma ParseMetadata_read raw :
  ParseMetadata (child (Some (read_rom (NormalizeHeaderInput raw))) "romid") = read_metadata (in_metadata (NormalizeHeaderInput raw)).
Proof.
  destruct raw as [x i e a m inc notes]. unfold ParseMetadata, read_metadata, with_metadata. f_equal.
  - identity_field (md_make m) a.
  - identity_field (md_market m) a.
  - identity_field (md_model m) a.
  - identity_field (md_submodel m) a.
  - identity_field (md_transmission m) a.
  - identity_field (md_year m) a.
  - identity_field (md_flash_method m) a.
  - identity_field (md_memory_model m) a.
  - identity_field (md_checksum_module m) a.
  - identity_field (md_file_size m) a.
  - unfold HeaderChildText. cbv zeta. change (String.eqb "notes" "notes") with true. cbv iota.
    change (child (Some (read_rom ?i)) "romid") with (Some (Element "romid" [] (map read_field (identity_fields i)))).
    rewrite (child_field _ "notes" (md_notes m)) by (by destruct a). apply ReadElementText_field.
Qed.
Lemma HexText_shown a : unblank (HexText a) = HexText a.
Proof. unfold unblank, HexText. by generalize (fmt_x a). Qed.
Lemma read_address raw source id :
  (forall a, in_internal_id_address raw = Some a -> u32_ok a) ->
  ParseHeaderAddress (ReadElementText (child (child (Some (read_rom (NormalizeHeaderInput raw))) "romid") "internalidaddress")) source id
  = Ok (in_internal_id_address raw).
Proof.
  intros Ha. change (child (Some (read_rom ?i)) "romid") with (Some (Element "romid" [] (map read_field (identity_fields i)))).
  destruct raw as [x i e [a|] m inc notes]; [|done].
  rewrite (child_field _ "internalidaddress" (HexText a)) by done. rewrite ReadElementText_field. cbn [snd]. rewrite HexText_shown.
  apply HexText_reads_back, Ha. done.
Qed.
Definition header_identity (input : DefinitionHeaderInput) : RomIdentity :=
  {| id_xml_id := in_xml_id input; id_internal_id := in_internal_id input; id_ecu_id := in_ecu_id input;
     id_internal_id_address := in_internal_id_address input |}.
Lemma ParseRomHeader_read raw source : ValidateInput (NormalizeHeaderInput raw) = Ok tt ->
  (forall a, in_internal_id_address raw = Some a -> u32_ok a) ->
  ParseRomHeader (read_rom (NormalizeHeaderInput raw)) source
  = Ok {| h_rom := read_rom (NormalizeHeaderInput raw); h_identity := header_identity (NormalizeHeaderInput raw) |}.
Proof.
  intros Hv Ha. set (input := NormalizeHeaderInput raw). unfold ParseRomHeader, DefinitionIdForRom. unfold input at 1. rewrite read_identity.
  cbn [result_bind]. unfold RequiredChildText. cbv zeta.
  assert (forall name v, List.find (fun f => String.eqb (fst f) name) (identity_fields input) = Some (name, TrimHeaderText v) ->
    String.eqb name "notes" = false -> HeaderChildText (child (Some (read_rom input)) "romid") name = TrimHeaderText v) as Hid
    by (intros; by apply identity_text).
  pose proof (Hid "xmlid"%string (in_xml_id raw) eq_refl eq_refl) as Hx.
  change (child (Some (read_rom input)) "romid") with (Some (Element "romid" [] (map read_field (identity_fields input)))) in Hx.
  fold input. rewrite Hx. destruct (String.eqb_spec (TrimHeaderText (in_xml_id raw)) "") as [E|_].
  { exfalso. unfold ValidateInput in Hv. apply result_bind_Ok in Hv as (_ & _ & Hv). cbn [in_xml_id NormalizeHeaderInput] in Hv. by rewrite E in Hv. }
  cbn [result_bind]. unfold input at 1. rewrite read_address by done. cbn [result_bind]. unfold header_identity.
  rewrite (Hid "internalidstring"%string (in_internal_id raw)), (Hid "ecuid"%string (in_ecu_id raw)) by (try done; by destruct raw as [? ? ? [] ? ? ?]).
  done.
Qed.
Definition includes (input : DefinitionHeaderInput) : list string := if String.eqb (in_include input) "" then [] else [in_include input].
Lemma ParentReferences_read raw : EcuFlash.ParentReferences (read_rom (NormalizeHeaderInput raw)) = includes (NormalizeHeaderInput raw).
Proof.
  unfold EcuFlash.ParentReferences, includes. set (v := in_include (NormalizeHeaderInput raw)).
  change (children (Some (read_rom (NormalizeHeaderInput raw))) "include") with [read_field ("include"%string, v)]. cbn [map List.filter].
  rewrite ReadElementText_field. cbn [snd]. unfold v. cbn [in_include NormalizeHeaderInput]. rewrite trimmed_read.
  by destruct (String.eqb _ "").
Qed.
Lemma reread_authored input :
  flat_map reread (NormalizeDeclaration [Element "rom" [] (authored_root input)]) = [read_rom input].
Proof.
  unfold NormalizeDeclaration, authored_root. cbn [List.filter is_declaration negb flat_map reread app]. rewrite reread_fields.
  unfold read_rom, read_field, text_children. cbn [flat_map reread app field fst snd]. by rewrite !app_nil_r.
Qed.
Lemma authored_parses raw root source : prints_headers -> UpdateHeader [] raw = Ok root ->
  (forall a, in_internal_id_address raw = Some a -> u32_ok a) ->
  ParseEcuflashDefinition load_buffer tenth_text (end_line (save (NormalizeDeclaration [Element "rom" [] root]))) source
  = Ok {| ud_format := kEcuFlash; ud_source := source; ud_identity := header_identity (NormalizeHeaderInput raw);
          ud_metadata := read_metadata (in_metadata (NormalizeHeaderInput raw)); ud_parents := includes (NormalizeHeaderInput raw);
          ud_maps := []; ud_scalings := [] |}.
Proof.
  intros Hp Hu Ha. assert (ValidateInput (NormalizeHeaderInput raw) = Ok tt) as Hv.
  { unfold UpdateHeader in Hu. apply result_bind_Ok in Hu as ([] & Hv & _). exact Hv. }
  pose proof (Hp raw root Hu) as Hload. cbv zeta in Hload. rewrite UpdateHeader_new in Hu by done.
  assert (root = authored_root (NormalizeHeaderInput raw)) as -> by congruence.
  rewrite reread_authored in Hload. unfold ParseEcuflashDefinition, EcuFlash.ParseHeader.
  assert (ParseRoot load_buffer (end_line (save (NormalizeDeclaration [Element "rom" [] (authored_root (NormalizeHeaderInput raw))]))) source "rom"
    = Ok (read_rom (NormalizeHeaderInput raw))) as -> by (unfold ParseRoot, ParseDocumentRoot; by rewrite Hload).
  cbn [result_bind]. rewrite ParseRomHeader_read by done. cbn [result_bind h_rom h_identity].
  change (children (Some (read_rom ?i)) "scaling") with (@nil XmlNode). change (children (Some (read_rom ?i)) "table") with (@nil XmlNode).
  cbn [EcuFlash.global_scalings parse_tables result_bind]. by rewrite ParentReferences_read, ParseMetadata_read.
Qed.
(** The header as the application reads it for editing: a draft carries neither the file
    size nor the notes of the identity, and a note of blanks alone is not in the file. *)
Definition editable_metadata (m : RomMetadata) : RomMetadata :=
  with_metadata (md_make m) (md_market m) (md_model m) (md_submodel m) (md_transmission m) (md_year m) (md_flash_method m) (md_memory_model m)
    (md_checksum_module m) "" "".
Definition redrafted (input : DefinitionHeaderInput) : DefinitionHeaderInput :=
  {| in_xml_id := in_xml_id input; in_internal_id := in_internal_id input; in_ecu_id := in_ecu_id input;
     in_internal_id_address := in_internal_id_address input; in_metadata := editable_metadata (in_metadata input);
     in_include := in_include input; in_notes := unblank (in_notes input) |}.
Lemma ParseHeaderAddress_trimmed text source id : ParseHeaderAddress (TrimHeaderText text) source id = ParseHeaderAddress text source id.
Proof. unfold ParseHeaderAddress. cbv zeta. by rewrite TrimHeaderText_idemp. Qed.
Lemma authored_drafts raw root : prints_headers -> UpdateHeader [] raw = Ok root ->
  (forall a, in_internal_id_address raw = Some a -> u32_ok a) ->
  result_bind (ReadHeader load_buffer (end_line (save (NormalizeDeclaration [Element "rom" [] root])))) BuildDefinitionHeaderInput
  = Ok (redrafted (NormalizeHeaderInput raw)).
Proof.
  intros Hp Hu Ha. assert (ValidateInput (NormalizeHeaderInput raw) = Ok tt) as Hv.
  { unfold UpdateHeader in Hu. apply result_bind_Ok in Hu as ([] & Hv & _). exact Hv. }
  pose proof (Hp raw root Hu) as Hload. cbv zeta in Hload. rewrite UpdateHeader_new in Hu by done.
  assert (root = authored_root (NormalizeHeaderInput raw)) as -> by congruence.
  rewrite reread_authored in Hload. unfold ReadHeader.
  assert (ParseDocumentRoot load_buffer (end_line (save (NormalizeDeclaration [Element "rom" [] (authored_root (NormalizeHeaderInput raw))])))
    kAuthoring = Ok (read_rom (NormalizeHeaderInput raw))) as -> by (unfold ParseDocumentRoot; by rewrite Hload).
  cbn [result_bind]. change (String.eqb (node_name (Some (read_rom ?i))) "rom") with true. cbv iota.
  rewrite read_structure. cbn [result_bind]. unfold BuildDefinitionHeaderInput. cbn [dr_internal_id_address_text].
  pose proof (read_address raw kAuthoring "" Ha) as Haddr.
  assert (forall p, HeaderChildText p "internalidaddress" = TrimHeaderText (ReadElementText (child p "internalidaddress"))) as -> by done.
  rewrite ParseHeaderAddress_trimmed, Haddr. cbn [result_bind dr_xml_id dr_internal_id dr_ecu_id dr_metadata dr_include dr_notes fold_left kEditableMetadataFields xml_name set_member].
  pose proof (ParseMetadata_read raw) as Hm. destruct raw as [x i e a m inc notes].
  unfold ParseMetadata, read_metadata, with_metadata in Hm. injection Hm as M1 M2 M3 M4 M5 M6 M7 M8 M9 _ _.
  rewrite M1, M2, M3, M4, M5, M6, M7, M8, M9. rewrite (identity_text _ "xmlid" x), (identity_text _ "internalidstring" i), (identity_text _ "ecuid" e)
    by (try reflexivity; by destruct a).
  assert (HeaderChildText (Some (read_rom (NormalizeHeaderInput (Build_DefinitionHeaderInput x i e a m inc notes)))) "include" = TrimHeaderText inc) as ->.
  { etransitivity; [|apply trimmed_read]. unfold HeaderChildText. cbv zeta. change (String.eqb "include" "notes") with false. cbv iota. f_equal.
    exact (ReadElementText_field ("include"%string, TrimHeaderText inc)). }
  assert (HeaderChildText (Some (read_rom (NormalizeHeaderInput (Build_DefinitionHeaderInput x i e a m inc notes)))) "notes" = unblank notes) as ->
    by exact (ReadElementText_field ("notes"%string, notes)).
  unfold redrafted, NormalizeHeaderInput, editable_metadata. cbn -[TrimHeaderText]. rewrite !TrimHeaderText_idemp. done.
Qed.
(** C17: A definition authored in the application reads back as it was entered. For any
    header with an address of 32 bits, [CreateEcuflashXml] succeeds exactly when the
    normalised header is valid, failing with the validation's error otherwise. The file it
    makes is read, as a definition, to the normalised identity and metadata, the include as
    its only parent, and no maps or scalings; and it is read for editing ([ReadHeader], then
    [BuildDefinitionHeaderInput]) to the normalised header with its notes, without the file
    size and the identity's notes, which a draft does not carry. A note of blanks alone is
    read as empty. *)
Theorem authored_definition_reads_back raw source :
  prints_headers -> (forall a, in_internal_id_address raw = Some a -> u32_ok a) ->
  match ValidateInput (NormalizeHeaderInput raw) with
  | Err e => CreateEcuflashXml load_buffer save tenth_text raw = Err e
  | Ok _ => exists bytes, CreateEcuflashXml load_buffer save tenth_text raw = Ok bytes
      /\ ParseEcuflashDefinition load_buffer tenth_text bytes source
         = Ok {| ud_format := kEcuFlash; ud_source := source; ud_identity := header_identity (NormalizeHeaderInput raw);
                 ud_metadata := read_metadata (in_metadata (NormalizeHeaderInput raw)); ud_parents := includes (NormalizeHeaderInput raw);
                 ud_maps := []; ud_scalings := [] |}
      /\ result_bind (ReadHeader load_buffer bytes) BuildDefinitionHeaderInput = Ok (redrafted (NormalizeHeaderInput raw))
  end.
Proof.
  intros Hp Ha. destruct (ValidateInput _) as [[]|e] eqn:Hv.
  - pose proof (UpdateHeader_new raw Hv) as Hu. eexists. unfold CreateEcuflashXml, SerializeAndValidate. rewrite Hu.
    cbn [result_bind]. split; [by rewrite (authored_parses raw _ _ Hp Hu Ha)|]. split; [by apply authored_parses|by apply authored_drafts].
  - unfold CreateEcuflashXml, UpdateHeader. cbv zeta. by rewrite Hv.
Qed.
End authored.

(** ** An import keeps the rest of a file *)
Section imports.
Definition header_names : list string := ["romid"; "include"; "notes"]%string.
(** A node no header edit names. *)
Definition other (n : XmlNode) : bool := negb (existsb (fun name => is_named name n) header_names).
Lemma other_named name n : In name header_names -> is_named name n = true -> other n = false.
Proof. intros Hin Hn. unfold other. apply negb_false_iff, existsb_exists. by exists name. Qed.
Lemma is_named_set_text name v n : is_named name (set_text v n) = is_named name n.
Proof. by destruct n. Qed.
Lemma filter_other_removed name l : In name header_names ->
  List.filter other (List.filter (fun n => negb (is_named name n)) l) = List.filter other l.
Proof.
  intros Hin. induction l as [|n l IH]; [done|]. cbn. destruct (is_named name n) eqn:E; cbn.
  - by rewrite (other_named name n Hin E).
  - destruct (other n); by rewrite IH.
Qed.
Lemma SetUniqueText_other name v l : In name header_names -> List.filter other (SetUniqueText l name v) = List.filter other l.
Proof.
  intros Hin. unfold SetUniqueText. destruct (set_first name v l) as [l'|] eqn:E.
  - revert l' E. induction l as [|n l IH]; intros l'; [done|]. cbn [set_first]. destruct (is_named name n) eqn:En.
    + intros [= <-]. cbn. rewrite (other_named name (set_text v n) Hin) by (by rewrite is_named_set_text).
      rewrite (other_named name n Hin En). by apply filter_other_removed.
    + destruct (set_first name v l) as [r|]; [|done]. intros [= <-]. cbn. by rewrite (IH r).
  - rewrite List.filter_app. cbn. rewrite (other_named name) by (try done; by cbn; rewrite String.eqb_refl). apply app_nil_r.
Qed.
Lemma map_first_other name f l : In name header_names -> (forall n, is_named name (f n) = is_named name n) ->
  List.filter other (map_first name f l) = List.filter other l.
Proof.
  intros Hin Hf. induction l as [|n l IH]; [done|]. cbn. destruct (is_named name n) eqn:E; cbn; [|by rewrite IH].
  by rewrite (other_named name n Hin E), (other_named name (f n) Hin) by (by rewrite Hf).
Qed.
(** Rewriting the header of an imported definition keeps every other node of its root
    element, tables and scalings among them, in their order. *)
Theorem import_keeps_tables root input root' : UpdateHeader root input = Ok root' -> List.filter other root' = List.filter other root.
Proof.
  unfold UpdateHeader. cbv zeta. intros (_ & _ & [= <-])%result_bind_Ok.
  rewrite !SetUniqueText_other by (cbn; auto). rewrite map_first_other; [|by left|by intros []].
  by destruct (existsb _ _).
Qed.
End imports.

(** ** A printer and a parser of headers, for an example *)
Section samples.
Definition field_text (n : XmlNode) : string * string := (node_name (Some n), ReadElementText (Some n)).
Definition sample_save (document : list XmlNode) : list Z :=
  match document with
  | [_; Element _ _ [Element _ _ identity; include; notes]] =>
      pos_bits (encode (map field_text identity, snd (field_text include), snd (field_text notes)))
  | _ => []
  end.
Definition sample_load (bytes : list Z) : result string (list XmlNode) :=
  match decode (bits_pos (removelast bytes)) with
  | Some (identity, include, notes) =>
      Ok [Element "rom" [] [Element "romid" [] (map read_field identity); read_field ("include"%string, include);
                            read_field ("notes"%string, notes)]]
  | None => Err "no document element found"%string
  end.
Lemma end_line_bits p : end_line (pos_bits p) = pos_bits p ++ [10].
Proof.
  unfold end_line. destruct (rev (pos_bits p)) as [|b l] eqn:E; [done|].
  assert (b ∈ pos_bits p) as Hin by (apply list_elem_of_In; rewrite in_rev, E; by left).
  assert (Forall (fun b => b <> 10) (pos_bits p)) as Hf by (clear; induction p; cbn; by constructor).
  rewrite list.Forall_forall in Hf. specialize (Hf b Hin).
  destruct (decide (b = 10)) as [->|]; [done|]. destruct b as [|q|q]; try done. repeat (destruct q as [q|q|]; try done).
Qed.
Lemma field_text_field n v : field_text (field n v) = (n, v).
Proof. done. Qed.
Lemma sample_prints_headers : prints_headers sample_load sample_save.
Proof.
  intros raw root Hu. cbv zeta. assert (ValidateInput (NormalizeHeaderInput raw) = Ok tt) as Hv.
  { unfold UpdateHeader in Hu. apply result_bind_Ok in Hu as ([] & Hv & _). exact Hv. }
  rewrite UpdateHeader_new in Hu by done. assert (root = authored_root (NormalizeHeaderInput raw)) as -> by congruence.
  rewrite reread_authored. unfold sample_save, NormalizeDeclaration, authored_root. cbn [List.filter is_declaration negb].
  assert (forall fs, map field_text (map (fun f : string * string => field (fst f) (snd f)) fs) = fs) as ->
    by (intros fs; induction fs as [|[n v] fs IH]; [done|]; cbn [map]; by rewrite IH).
  rewrite !field_text_field. cbn [snd]. rewrite end_line_bits. unfold sample_load. rewrite removelast_last, bits_pos_bits, decode_encode. done.
Qed.
Definition sample_input : DefinitionHeaderInput :=
  {| in_xml_id := " A2WC "; in_internal_id := "A2WC"; in_ecu_id := "4B12"; in_internal_id_address := Some 0x2000;
     in_metadata := with_metadata "Subaru" "" "" "" "" "" "sti04" "" "" "512kb" ""; in_include := "BASE"; in_notes := "first try" |}.
Lemma authored_definition_reads_back_witness :
  exists bytes d, CreateEcuflashXml sample_load sample_save (fun _ => None) sample_input = Ok bytes
    /\ ParseEcuflashDefinition sample_load (fun _ => None) bytes "a2wc.xml" = Ok d /\ id_xml_id (ud_identity d) = "A2WC"%string
    /\ exists input, result_bind (ReadHeader sample_load bytes) BuildDefinitionHeaderInput = Ok input /\ in_notes input = "first try"%string.
Proof.
  assert (forall a, in_internal_id_address sample_input = Some a -> u32_ok a) as Ha by (intros a [= <-]; unfold u32_ok; lia).
  pose proof (authored_definition_reads_back sample_load sample_save (fun _ => None) sample_input "a2wc.xml" sample_prints_headers Ha) as H.
  assert (ValidateInput (NormalizeHeaderInput sample_input) = Ok tt) as Ev by (vm_compute; reflexivity).
  rewrite Ev in H. destruct H as (bytes & Hb & Hd & Hdraft). exists bytes. eexists. split; [exact Hb|]. split; [exact Hd|]. split; [reflexivity|].
  eexists. split; [exact Hdraft|vm_compute; reflexivity].
Defined.
End samples.
