(* ===== verification/DefinitionService.v ===== *)
(** * DefinitionService: [src/backend/definition/definition_service.cpp]

    Catalogs built from definition files, matching a ROM file to a catalog entry by
    the identifier in its bytes, and loading the definition of an entry with what it
    inherits. Files are read through a [World]; the XML parser and printer
    are parameters. *)
From stdpp Require Import gmap sorting.
From S2P Require Import Prelude.
From S2P Require Import MemoryMap.
From S2P Require Import Ports Files.
From S2P Require Import Expression.
From S2P Require Import DefinitionModel.
From S2P Require Import CalibrationLayout.
From S2P Require Import Xml.
From S2P Require Import DefinitionResolver DefinitionParsers DefinitionWriter.

(** ** Handles *)
Definition JoinPath (directory name : string) : string :=
  match rev (to_chars directory) with
  | [] => name
  | last :: _ => if Ascii.eqb last "/" then directory +:+ name else directory +:+ "/" +:+ name
  end.
Definition tolower (c : ascii) : Z := if (65 <=? code c) && (code c <=? 90) then code c + 32 else code c.
Definition IsXmlHandle (handle : string) : bool :=
  bool_decide (map tolower (firstn 4 (rev (to_chars handle))) = [108; 109; 120; 46]).

(** ** Identifiers *)
Definition HexNibble (character : ascii) : option Z := hex_digit character.
Definition char_bytes (identifier : string) : list Z := map code (to_chars identifier).
Fixpoint nibble_pairs (l : list ascii) : option (list Z) :=
  match l with
  | [] => Some []
  | high :: low :: l =>
      match HexNibble high, HexNibble low with
      | Some high, Some low => cons (Z.lor (Z.shiftl high 4) low) <$> nibble_pairs l
      | _, _ => None
      end
  | [_] => None
  end.
Definition IdentifierBytes (identifier : string) (encoding : IdEncoding) : result Error (list Z) :=
  match encoding with
  | kAscii => Ok (char_bytes identifier)
  | _ =>
      if Z.odd (zlen (to_chars identifier)) then Fail kInvalidConfig "hexadecimal identifier has odd length"
      else match nibble_pairs (to_chars identifier) with
           | Some decoded => Ok decoded
           | None => Fail kInvalidConfig "identifier contains a non-hexadecimal digit"
           end
  end.
Definition IdentifierCandidates (identifier : string) (encoding : IdEncoding) : result Error (list (list Z)) :=
  match encoding with
  | kAsciiOrHex =>
      Ok (char_bytes identifier :: match IdentifierBytes identifier kHex with Ok hexadecimal => [hexadecimal] | Err _ => [] end)
  | _ => let! result := IdentifierBytes identifier encoding in Ok [result]
  end.

(** ** Matching a ROM *)
(** The flash method of an entry, or the last non-empty one of its parents; [fuel]
    bounds the depth, which the chain does too. *)
Fixpoint EffectiveFlashMethod (fuel : nat) (catalog : DefinitionCatalog) (entry : DefinitionIndexEntry) (chain : list string)
    : string :=
  match fuel with
  | O => ""
  | S fuel =>
      if negb (String.eqb (de_flash_method entry) "") then de_flash_method entry
      else if (kMaxInheritanceDepth <=? zlen chain) || bool_decide (de_definition_id entry ∈ chain) then ""
      else
        let chain := chain ++ [de_definition_id entry] in
        fold_left (fun inherited parent_id =>
          match Find catalog (de_format entry) parent_id with
          | Ok parent => OverlayString inherited (EffectiveFlashMethod fuel catalog parent chain)
          | Err _ => inherited
          end) (de_parents entry) ""%string
  end.
Definition matching_fuel : nat := 257.
Definition IdAt (map : MemoryMap) (rom : list Z) (address : Z) (candidate : list Z) : bool :=
  match ToFlashAddress map address, FromSize (zlen candidate) with
  | Some start, Some size =>
      match Make start size with
      | Some range =>
          match FileOffsetOf map range with
          | Some offset => bool_decide (candidate = subspan rom offset (zlen candidate))
          | None => false
          end
      | None => false
      end
  | _, _ => false
  end.
Definition MemoryMapLookup : Type := string -> option MemoryMap.
Definition entry_matches (catalog : DefinitionCatalog) (rom : list Z) (memory_maps : MemoryMapLookup)
    (entry : DefinitionIndexEntry) : bool :=
  if String.eqb (de_internal_id entry) "" then false
  else
    match IdentifierCandidates (de_internal_id entry) (de_internal_id_encoding entry) with
    | Err _ => false
    | Ok candidates =>
        match de_internal_id_address entry with
        | None => false
        | Some address =>
            match memory_maps (EffectiveFlashMethod matching_fuel catalog entry []) with
            | None => false
            | Some map =>
                if negb (file_size_ map =? zlen rom) then false
                else existsb (IdAt map rom address) candidates
            end
        end
    end.
Definition MatchRom (catalog : DefinitionCatalog) (rom : list Z) (memory_maps : MemoryMapLookup)
    : result Error DefinitionIndexEntry :=
  match List.find (entry_matches catalog rom memory_maps) (Entries catalog) with
  | Some entry => Ok entry
  | None => Fail kInvalidConfig "no matching ROM definition found"
  end.

(** ** The service *)
Section service.
Context {W : Type} {HW : World W} (load_buffer : list Z -> result string (list XmlNode)) (tenth_text : string -> option string).
(** [fuel] bounds how deep directories nest. *)
Fixpoint DiscoverXml (fuel : nat) (directory : string) (handles : list string) : IO W (result Error (list string)) :=
  match fuel with
  | O => io_ret (Fail kInternal "out of fuel")
  | S fuel =>
      io! entries <- fs_ListDirectory directory;
      (fix each (entries : list DirEntry) (handles : list string) : IO W (result Error (list string)) :=
         match entries with
         | [] => io_ret (Ok handles)
         | entry :: entries =>
             let handle := JoinPath directory (entry_name entry) in
             if is_directory entry then
               if is_symlink entry then each entries handles
               else io! handles <- DiscoverXml fuel handle handles; each entries handles
             else if IsXmlHandle handle then each entries (handles ++ [handle])
             else each entries handles
         end) entries handles
  end.
Fixpoint read_entries (parser : list Z -> string -> result Error (list DefinitionIndexEntry)) (skip_unusable_handles : bool)
    (handles : list string) (entries : list DefinitionIndexEntry) : IO W (result Error (list DefinitionIndexEntry)) :=
  match handles with
  | [] => io_ret (Ok entries)
  | handle :: handles =>
      io contents <- files_Read handle;
      match (let! contents := contents in parser contents handle) with
      | Ok parsed => read_entries parser skip_unusable_handles handles (entries ++ parsed)
      | Err e => if skip_unusable_handles then read_entries parser skip_unusable_handles handles entries else io_ret (Err e)
      end
  end.
Definition BuildCatalog (parser : list Z -> string -> result Error (list DefinitionIndexEntry)) (handles : list string)
    (skip_unusable_handles : bool) : IO W (result Error DefinitionCatalog) :=
  io! entries <- read_entries parser skip_unusable_handles handles [];
  io_ret (Create entries).
Definition BuildRomraiderCatalog (ordered_handles : list string) (skip_unusable_handles : bool)
    : IO W (result Error DefinitionCatalog) :=
  BuildCatalog (RomRaider.ParseRomraiderIndex load_buffer) ordered_handles skip_unusable_handles.
Definition handle_le (a b : string) : Prop := String.leb a b = true.
Fixpoint unique_handles (l : list string) : list string :=
  match l with
  | a :: (b :: _) as l' => if String.eqb a b then unique_handles l' else a :: unique_handles l'
  | _ => l
  end.
#[local] Instance handle_le_dec : RelDecision handle_le.
Proof. intros a b. unfold handle_le. apply _. Defined.
Definition BuildEcuflashCatalog (fuel : nat) (directory : string) (explicit_handles : list string)
    (skip_unusable_handles : bool) : IO W (result Error DefinitionCatalog) :=
  io! handles <- (if String.eqb directory "" then io_ret (Ok []) else DiscoverXml fuel directory []);
  let handles := handles ++ List.filter IsXmlHandle explicit_handles in
  BuildCatalog (EcuFlash.ParseEcuflashIndex load_buffer) (unique_handles (merge_sort handle_le handles)) skip_unusable_handles.

(** The loader [Load] hands to the resolver; it remembers an error of the repository. *)
Definition catalog_loader (catalog : DefinitionCatalog) (requested_format : DefinitionFormat) (requested_id : string)
    (st : W * option Error) : result Error UnresolvedDefinition * (W * option Error) :=
  match Find catalog requested_format requested_id with
  | Err e => (Err e, st)
  | Ok entry =>
      let '(w, repository_error) := st in
      let '(contents, w) := files_Read (de_source entry) w in
      match contents with
      | Err e => (Err e, (w, Some e))
      | Ok contents =>
          (match requested_format with
           | kRomRaider => RomRaider.ParseRomraiderDefinition load_buffer contents (de_source entry) requested_id
           | kEcuFlash =>
               let! parsed := ParseEcuflashDefinition load_buffer tenth_text contents (de_source entry) in
               if String.eqb (definition_id parsed) requested_id then Ok parsed
               else Fail kInvalidConfig ("EcuFlash catalog ID " +:+ quoted requested_id +:+ " from " +:+ quoted (de_source entry)
                                         +:+ " loaded definition " +:+ quoted (definition_id parsed))
           end, (w, repository_error))
      end
  end.
Definition Load (catalog : DefinitionCatalog) (format : DefinitionFormat) (id : string) : IO W (result Error RomDefinition) :=
  fun w =>
    match catalog_loader catalog format id (w, None) with
    | (Err e, (w, _)) => (Err e, w)
    | (Ok root, st) =>
        match ResolveDefinition root (catalog_loader catalog) st with
        | (Err _, (w, Some repository_error)) => (Err repository_error, w)
        | (resolved, (w, _)) => (resolved, w)
        end
    end.
(** The parser that keeps every node, and the printer. *)
Context (load_all : list Z -> result string (list XmlNode)) (save : list XmlNode -> list Z).
Definition CreateDefinition (destination : string) (input : DefinitionHeaderInput) (allow_overwrite : bool) : IO W Status :=
  io exists_ <- (if allow_overwrite then io_ret false else fs_Exists destination);
  if exists_ then io_ret (Fail kInvalidConfig ("definition destination " +:+ quoted destination +:+ " already exists"))
  else io! contents <- io_ret (CreateEcuflashXml load_buffer save tenth_text input); writer_Replace destination contents.
Definition ImportDefinition (source destination : string) (input : DefinitionHeaderInput) : IO W Status :=
  io! source_contents <- files_Read source;
  io! rewritten <- io_ret (RewriteEcuflashXml load_buffer load_all save tenth_text source_contents input);
  writer_Replace destination rewritten.
End service.

(** ** What a match shows *)
Section matching.
(** The bytes a map places at a definition address are the candidate's. *)
Definition identified (m : MemoryMap) (rom : list Z) (address : Z) (candidate : list Z) : Prop :=
  candidate <> [] /\ forall i, 0 <= i < zlen candidate ->
    exists p, file_pos m (definition_base_ m + address + i) = Some p /\ 0 <= p < zlen rom /\ zget rom p = zget candidate i.
Lemma Advance_Some a n r : Advance a n = Some r -> r = a + n.
Proof. unfold Advance. destruct (_ <? _); [done|]. by intros [= <-]. Qed.
Lemma IdAt_identified m rom a c : MemoryMap.map_ok m -> 0 <= definition_base_ m -> file_size_ m = zlen rom -> 0 <= a ->
  IdAt m rom a c = true -> identified m rom a c.
Proof.
  intros Hm Hb Hsz Ha. unfold IdAt, ToFlashAddress. destruct (Advance _ _) as [start|] eqn:Es; [|done].
  apply Advance_Some in Es as ->. unfold FromSize. destruct (_ <? _); [done|].
  destruct (Make _ _) as [r|] eqn:Er; [|done]. apply Make_ok in Er as (Hr & Hst & Hsize); [|lia|apply zlen_nonneg].
  unfold FileOffsetOf. pose proof (Slices_spec m r (map_ok_sorted m Hm) Hr) as [Ht _].
  destruct (Slices m r) as [|s [|]] eqn:Esl; [done| |done]. pose proof (FileStart_spec m r s Hm Hr) as Hf. rewrite Esl in Hf.
  specialize (Hf (list_elem_of_here _ _)). destruct (FileStart s) as [f|]; [|done]. intros Heq%bool_decide_eq_true.
  cbn in Ht. destruct Ht as (E1 & _ & E2). destruct Hr as (_ & Hpos & Hend & _). split.
  - intros Hc. rewrite Hc in Hsize. unfold zlen in Hsize. cbn in Hsize. lia.
  - intros i Hi. assert (Hp : file_pos m (definition_base_ m + a + i) = Some (f + i)).
    { rewrite Hf by lia. f_equal. lia. }
    exists (f + i). split; [done|]. pose proof (file_pos_range m _ _ Hm Hp). split; [lia|].
    assert (Hp0 := Hf (Start (slice_range s)) ltac:(lia)). apply file_pos_range in Hp0; [|done].
    apply (f_equal (fun l => zget l i)) in Heq. rewrite Heq, zget_subspan; [done|lia|lia].
Qed.
Definition recognises (catalog : DefinitionCatalog) (rom : list Z) (memory_maps : MemoryMapLookup) (entry : DefinitionIndexEntry) : Prop :=
  exists candidates candidate address m,
    IdentifierCandidates (de_internal_id entry) (de_internal_id_encoding entry) = Ok candidates /\ candidate ∈ candidates
    /\ de_internal_id_address entry = Some address /\ memory_maps (EffectiveFlashMethod matching_fuel catalog entry []) = Some m
    /\ file_size_ m = zlen rom /\ identified m rom address candidate.
Lemma entry_matches_recognises c rom maps e : (forall name m, maps name = Some m -> MemoryMap.map_ok m /\ 0 <= definition_base_ m) ->
  opt_u32 (de_internal_id_address e) -> entry_matches c rom maps e = true -> recognises c rom maps e.
Proof.
  intros Hm Ha. unfold entry_matches. destruct (String.eqb _ _); [done|]. destruct (IdentifierCandidates _ _) as [cs|] eqn:Ec; [|done].
  destruct (de_internal_id_address e) as [a|] eqn:Ea; [|done]. destruct (maps _) as [m|] eqn:Em; [|done].
  destruct (Hm _ _ Em) as [Hok Hb]. destruct (Z.eqb_spec (file_size_ m) (zlen rom)) as [Hsz|]; [|done].
  cbn [negb]. intros (cand & Hin & Hid)%existsb_exists. exists cs, cand, a, m. apply list_elem_of_In in Hin.
  split_and!; try done. apply IdAt_identified; try done. by destruct (Ha a eq_refl).
Qed.
End matching.

(** ** The flash method matched by is the one inherited *)
Section methods.
Implicit Types (r : Resolved) (d : UnresolvedDefinition) (e : DefinitionIndexEntry).
Definition flash_of r : string := md_flash_method (ud_metadata (r_definition r)).
Lemma OverlayString_empty s : OverlayString s "" = s.
Proof. done. Qed.
Lemma OverlayString_own v s : s <> ""%string -> OverlayString v s = s.
Proof. unfold OverlayString. by destruct (String.eqb_spec s ""). Qed.
Lemma OverlayDefinition_flash v s d : OverlayDefinition v s = Ok d ->
  md_flash_method (ud_metadata d) = OverlayString (md_flash_method (ud_metadata v)) (md_flash_method (ud_metadata s)).
Proof. unfold OverlayDefinition. by intros (? & _ & (? & _ & [= <-])%result_bind_Ok)%result_bind_Ok. Qed.
Lemma merge_all_flash r rs out : merge_all r rs = Some out -> flash_of out = fold_left OverlayString (map flash_of rs) (flash_of r).
Proof.
  revert r. induction rs as [|r' rs IH]; intros r; cbn; [by intros [= <-]|]. unfold merge_two.
  destruct (OverlayDefinition _ _) as [d|] eqn:E; cbn; [|done]. intros H%IH. rewrite H. f_equal. unfold flash_of at 1. cbn.
  by apply OverlayDefinition_flash.
Qed.
Lemma OverlayString_start s : OverlayString "" s = s.
Proof. unfold OverlayString. by destruct (String.eqb_spec s "") as [->|]. Qed.
Lemma inherited_flash rs out : inherited rs = Some out -> flash_of out = fold_left OverlayString (map flash_of rs) ""%string.
Proof.
  destruct rs as [|r rs]; cbn; [by intros [= <-]|]. rewrite OverlayString_start. apply merge_all_flash.
Qed.

Context (load : DefinitionFormat -> string -> result Error UnresolvedDefinition) (catalog : DefinitionCatalog).
(** The catalog says of every definition what loading it would. *)
Definition describes e d : Prop :=
  de_definition_id e = definition_id d /\ de_format e = ud_format d
  /\ de_flash_method e = md_flash_method (ud_metadata d) /\ de_parents e = ud_parents d.
Definition catalog_describes : Prop :=
  forall f id d, load f id = Ok d -> exists e, Find catalog f id = Ok e /\ describes e d.
Lemma fold_methods format_ fuel chain ps rs acc :
  Forall2 (fun p r => exists e, Find catalog format_ p = Ok e /\ EffectiveFlashMethod fuel catalog e chain = flash_of r) ps rs ->
  fold_left (fun inherited parent_id => match Find catalog format_ parent_id with
    | Ok parent => OverlayString inherited (EffectiveFlashMethod fuel catalog parent chain)
    | Err _ => inherited end) ps acc = fold_left OverlayString (map flash_of rs) acc.
Proof. intros H. revert acc. induction H as [|p r ps rs (e & He & Hm) H IH]; intros acc; [done|]. cbn [fold_left map]. rewrite He, Hm. apply IH. Qed.
Lemma EffectiveFlashMethod_inherits format_ m fuel d e chain r :
  catalog_describes -> describes e d -> load_parent load format_ (definition_id d) = Some d ->
  inherit load format_ m d = Some r -> (forall k, (k < m)%nat -> inherit load format_ k d = None) ->
  (forall v dv, v ∈ chain -> load_parent load format_ v = Some dv -> inherit load format_ m dv = None) ->
  (length chain + m <= 256)%nat -> (m <= fuel)%nat ->
  EffectiveFlashMethod fuel catalog e chain = flash_of r.
Proof.
  intros Hcat. revert m d e chain r. induction fuel as [|fuel IH]; intros m d e chain r He Hd Hr Hleast Hchain Hlen Hm;
    (destruct m as [|m]; [discriminate|]); [lia|].
  pose proof Hr as (_ & rs & r0 & d' & Hrs & H0 & Ho & ->)%(inherit_S format_ load).
  destruct He as (Eid & Ef & Em & Ep). cbn [EffectiveFlashMethod]. unfold flash_of. cbn.
  rewrite (OverlayDefinition_flash _ _ _ Ho), <- Em.
  destruct (String.eqb_spec (de_flash_method e) "") as [E|E]; cbn [negb].
  2: { by rewrite OverlayString_own. }
  rewrite E, OverlayString_empty. fold (flash_of r0). rewrite (inherited_flash _ _ H0).
  destruct (Z.leb_spec kMaxInheritanceDepth (zlen chain)) as [Hd1|Hd1].
  { unfold kMaxInheritanceDepth, zlen in Hd1. lia. }
  rewrite bool_decide_false. 2: { intros Hin. rewrite Eid in Hin. specialize (Hchain _ _ Hin Hd). congruence. }
  cbn [orb]. apply load_parent_Some in Hd as Hd2. destruct Hd2 as (_ & Hfmt & _). rewrite Ep, Ef, Hfmt.
  apply fold_methods. apply mapM_Some in Hrs. eapply Forall2_impl; [exact Hrs|]. intros p rp Hp. cbn in Hp.
  unfold inherits_parent in Hp. destruct (load_parent load format_ p) as [dp|] eqn:Hdp; [|discriminate]. cbn in Hp.
  apply load_parent_Some in Hdp as Hdp2. destruct Hdp2 as (Hl & Hfp & Hip).
  destruct (Hcat _ _ _ Hl) as (ep & Hep & Hdesc). exists ep. split; [done|].
  apply inherit_least in Hp as (m' & Hm' & Hp & Hl').
  apply (IH m' dp ep); try done; [by rewrite Hip| |rewrite length_app; cbn; lia|lia].
  intros v dv Hv Hdv. destruct (inherit load format_ m' dv) as [rv|] eqn:Hrv; [|done]. apply elem_of_app in Hv as [Hv|Hv].
  - specialize (Hchain v dv Hv Hdv). rewrite (inherit_mono _ _ m' (S m) dv rv) in Hchain; [done|lia|done].
  - apply list_elem_of_singleton in Hv as ->. rewrite Eid, Hd in Hdv. injection Hdv as <-.
    rewrite (Hleast m') in Hrv; [done|lia].
Qed.
End methods.

(** ** Files that do not change

    Where reading a file always gives the same bytes, the loader is a function, and a
    catalog built from those files describes what it loads. *)
Section stable.
Context {W : Type} {HW : World W} (load_buffer : list Z -> result string (list XmlNode)) (tenth_text : string -> option string)
  (contents : string -> result Error (list Z)).
Definition stable : Prop := forall handle w, fst (files_Read handle w) = contents handle.
Definition parse_index (f : DefinitionFormat) : list Z -> string -> result Error (list DefinitionIndexEntry) :=
  match f with kRomRaider => RomRaider.ParseRomraiderIndex load_buffer | kEcuFlash => EcuFlash.ParseEcuflashIndex load_buffer end.
(** Every entry comes from the index of its source. *)
Definition catalog_from (catalog : DefinitionCatalog) : Prop :=
  forall e, e ∈ Entries catalog ->
    exists data es, contents (de_source e) = Ok data /\ parse_index (de_format e) data (de_source e) = Ok es /\ e ∈ es.
Lemma parse_index_entry f data s es e : parse_index f data s = Ok es -> e ∈ es -> de_format e = f /\ de_source e = s.
Proof.
  destruct f; cbn.
  - unfold RomRaider.ParseRomraiderIndex. intros (root & _ & H)%result_bind_Ok He.
    apply list_elem_of_lookup in He as [i Hi].
    by destruct (Forall2_lookup_r _ _ _ _ _ (index_entries_inv _ _ _ H) Hi) as (? & _ & ? & _ & _ & ? & ? & _).
  - unfold EcuFlash.ParseEcuflashIndex. intros (h & _ & [= <-])%result_bind_Ok He. by apply list_elem_of_singleton in He as ->.
Qed.
Definition entry_from (f : DefinitionFormat) (e : DefinitionIndexEntry) : Prop :=
  exists data es, contents (de_source e) = Ok data /\ parse_index f data (de_source e) = Ok es /\ e ∈ es.
Lemma read_entries_from f skip handles acc w es : stable -> Forall (entry_from f) acc ->
  fst (read_entries (parse_index f) skip handles acc w) = Ok es -> Forall (entry_from f) es.
Proof.
  intros Hst. revert acc w. induction handles as [|h handles IH]; intros acc w Hacc; [by intros [= <-]|]. cbn [read_entries].
  unfold io_bind. pose proof (Hst h w) as Hr. destruct (files_Read h w) as [c w1]. cbn in Hr. subst c.
  destruct (contents h) as [data|e] eqn:Ec; cbn [result_bind].
  - destruct (parse_index f data h) as [parsed|e] eqn:Ep; [|destruct skip; [by apply IH|discriminate]].
    apply IH. apply List.Forall_app. split; [done|]. apply list.Forall_forall. intros x Hx.
    destruct (parse_index_entry _ _ _ _ _ Ep Hx) as [_ Hs]. exists data, parsed. rewrite Hs. done.
  - destruct skip; [by apply IH|discriminate].
Qed.
Lemma Create_entries es c e : Create es = Ok c -> e ∈ Entries c -> e ∈ es.
Proof.
  unfold Create. intros (cs & Hc & [= <-])%result_bind_Ok. cbn.
  assert (forall es acc cs, canonical es acc = Ok cs -> forall x, x ∈ cs -> x ∈ es \/ x ∈ acc) as H.
  { clear. induction es as [|x es IH]; intros acc cs; cbn; [intros [= <-]; by right|].
    intros ([] & _ & H)%result_bind_Ok y Hy. destruct (List.find _ acc) as [ex|].
    - destruct (negb _); [discriminate|]. destruct (IH _ _ H y Hy) as [?|?]; [left; by right|by right].
    - destruct (IH _ _ H y Hy) as [?|[?|Hs]%elem_of_app]; [left; by right|by right|].
      apply list_elem_of_singleton in Hs as ->. left. by left. }
  intros He. destruct (H es [] cs Hc e He) as [?|Hn]; [done|]. by apply elem_of_nil in Hn.
Qed.
Lemma BuildCatalog_from f handles skip w c : stable -> fst (BuildCatalog (parse_index f) handles skip w) = Ok c -> catalog_from c.
Proof.
  intros Hst. unfold BuildCatalog, io_try, io_bind. destruct (read_entries _ _ _ _ w) as [[es|e] w1] eqn:E; [|discriminate]. cbn.
  intros Hc e He. assert (Forall (entry_from f) es) as Hf.
  { eapply read_entries_from; [done|constructor|]. by rewrite E. }
  rewrite list.Forall_forall in Hf. destruct (Hf e (Create_entries _ _ _ Hc He)) as (data & es' & H1 & H2 & H3).
  exists data, es'. destruct (parse_index_entry _ _ _ _ _ H2 H3) as [-> _]. done.
Qed.
(** The loader's answer. *)
Definition load_from (catalog : DefinitionCatalog) (f : DefinitionFormat) (id : string) : result Error UnresolvedDefinition :=
  match Find catalog f id with
  | Err e => Err e
  | Ok entry =>
      let! data := contents (de_source entry) in
      match f with
      | kRomRaider => RomRaider.ParseRomraiderDefinition load_buffer data (de_source entry) id
      | kEcuFlash =>
          let! parsed := ParseEcuflashDefinition load_buffer tenth_text data (de_source entry) in
          if String.eqb (definition_id parsed) id then Ok parsed
          else Fail kInvalidConfig ("EcuFlash catalog ID " +:+ quoted id +:+ " from " +:+ quoted (de_source entry)
                                    +:+ " loaded definition " +:+ quoted (definition_id parsed))
      end
  end.
Lemma catalog_loader_stable catalog f id st : stable ->
  fst (catalog_loader load_buffer tenth_text catalog f id st) = load_from catalog f id.
Proof.
  intros Hst. unfold catalog_loader, load_from. destruct (Find catalog f id) as [e|]; [|done]. destruct st as [w re].
  pose proof (Hst (de_source e) w) as Hr. destruct (files_Read (de_source e) w) as [c w1]. cbn in Hr. subst c.
  by destruct (contents (de_source e)).
Qed.
Lemma Find_entry c f id e : Find c f id = Ok e -> e ∈ Entries c /\ de_format e = f /\ de_definition_id e = id.
Proof.
  unfold Find. destruct (List.find _ _) as [e'|] eqn:E; [|discriminate]. intros [= <-].
  apply find_some in E as [Hin [Hf%bool_decide_eq_true Hi%String.eqb_eq]%andb_prop]. by apply list_elem_of_In in Hin.
Qed.
Lemma load_from_describes catalog f id d : catalog_from catalog -> load_from catalog f id = Ok d ->
  definition_u32 d /\ exists e, Find catalog f id = Ok e /\ describes e d /\ definition_id d = id /\ ud_format d = f.
Proof.
  intros Hc. unfold load_from. destruct (Find catalog f id) as [e|] eqn:Ef; [|discriminate].
  destruct (Find_entry _ _ _ _ Ef) as (Hin & Hfmt & Hid). destruct (Hc e Hin) as (data & es & Hd & Hes & He).
  rewrite Hd. cbn [result_bind]. rewrite Hfmt in Hes. destruct f; cbn in Hes.
  - intros H. split; [by eapply ParseRomraiderDefinition_u32|]. destruct (romraider_indexed _ _ _ _ _ _ Hes H) as (Hdid & before & e' & after & -> & Hix & Hothers).
    assert (e = e') as <-.
    { apply elem_of_app in He as [He|[He|He]%elem_of_cons]; [|done|]; rewrite list.Forall_forall in Hothers;
        destruct (Hothers e); try done; apply elem_of_app; auto. }
    exists e. split; [done|]. destruct Hix as (E1 & E2 & _ & _ & _ & _ & E7 & E8). split; [by split_and!|].
    split; [done|congruence].
  - intros (p & Hp & H)%result_bind_Ok. destruct (String.eqb_spec (definition_id p) id) as [Hpid|]; [|discriminate].
    injection H as <-. split; [by eapply ParseEcuflashDefinition_u32|].
    destruct (ecuflash_indexed _ _ _ _ _ _ Hes Hp) as (e' & -> & E1 & E2 & _ & _ & _ & _ & E7 & E8).
    apply list_elem_of_singleton in He as ->. exists e'. split; [done|]. split; [by split_and!|]. split; [done|congruence].
Qed.
Lemma catalog_from_describes catalog : catalog_from catalog -> catalog_describes (load_from catalog) catalog.
Proof. intros Hc f id d (_ & e & He & Hd & _)%load_from_describes; [|done]. by exists e. Qed.
End stable.

(** ** Numbers survive inheritance *)
Section numbers.
Lemma OverlayOptional_u32 v s : opt_u32 v -> opt_u32 s -> opt_u32 (OverlayOptional v s).
Proof. by destruct s. Qed.
Lemma OverlayAxis_u32 v s : axis_u32 v -> axis_u32 s -> axis_u32 (OverlayAxis v s).
Proof.
  intros (? & ? & ? & ?) (? & ? & ? & ?). unfold OverlayAxis. destruct (bool_decide _); [by split_and!|].
  unfold axis_u32. cbn. split_and!; by apply OverlayOptional_u32.
Qed.
Lemma OverlayMap_u32 v s : map_u32 v -> map_u32 s -> map_u32 (OverlayMap v s).
Proof.
  intros (? & ? & ? & ? & ? & ? & ?) (? & ? & ? & ? & ? & ? & ?). unfold map_u32. cbn.
  split_and!; first [by apply OverlayOptional_u32|by apply OverlayAxis_u32].
Qed.
Lemma scan_maps_u32 sup todo maps out : Forall map_u32 todo -> Forall map_u32 maps -> scan_maps sup todo maps = Ok out -> Forall map_u32 out.
Proof.
  revert maps. induction todo as [|m todo IH]; intros maps Ht Hm; cbn [scan_maps]; [by intros [= <-]|].
  apply Forall_cons in Ht as [Hm1 Ht]. destruct (scan maps m) as [[i|]|]; [| |discriminate]; apply IH; try done.
  - apply Forall_alter; [done|]. intros x Hx Hxu. by apply OverlayMap_u32.
  - apply List.Forall_app. split; [done|]. by constructor.
Qed.
Lemma OverlayDefinition_u32 v s d : definition_u32 v -> definition_u32 s -> OverlayDefinition v s = Ok d -> definition_u32 d.
Proof.
  intros Hv Hs. rewrite OverlayDefinition_scan.
  intros (maps & Hm & (scs & _ & [= <-])%result_bind_Ok)%result_bind_Ok. exact (scan_maps_u32 _ _ _ _ Hs Hv Hm).
Qed.
Lemma merge_all_u32 r rs out : definition_u32 (r_definition r) -> Forall (fun r => definition_u32 (r_definition r)) rs ->
  merge_all r rs = Some out -> definition_u32 (r_definition out).
Proof.
  intros Hr H. revert r Hr. induction H as [|r' rs Hr' H IH]; intros r Hr; cbn; [by intros [= <-]|]. unfold merge_two.
  destruct (OverlayDefinition _ _) as [d|] eqn:E; cbn; [|done]. apply IH. cbn. exact (OverlayDefinition_u32 _ _ _ Hr Hr' E).
Qed.
Lemma inherit_u32 load format_ n d r : (forall p dp, load format_ p = Ok dp -> definition_u32 dp) -> definition_u32 d ->
  inherit load format_ n d = Some r -> definition_u32 (r_definition r).
Proof.
  intros Hl. revert d r. induction n as [|n IH]; intros d r Hd; [discriminate|].
  intros (_ & rs & r0 & d' & Hrs & H0 & Ho & ->)%(inherit_S format_ load). cbn. eapply OverlayDefinition_u32; [|exact Hd|exact Ho].
  assert (Forall (fun r => definition_u32 (r_definition r)) rs) as Hf.
  { apply mapM_Some in Hrs. eapply Forall2_Forall_r; [exact Hrs|]. apply list.Forall_forall. intros p _ rp Hp. unfold inherits_parent in Hp.
    destruct (load_parent load format_ p) as [dp|] eqn:Ep; [|discriminate]. apply load_parent_Some in Ep as (Ep & _).
    eapply IH; [by eapply Hl|exact Hp]. }
  destruct rs as [|r rs]; cbn in H0; [injection H0 as <-; constructor|]. apply Forall_cons in Hf as [Hr Hf].
  by eapply merge_all_u32.
Qed.
Lemma ResolveAxis_wf a n : axis_u32 a -> axis_wf (ResolveAxis a n).
Proof.
  intros (Ha & _ & Hs & Hi). unfold ResolveAxis. destruct (bool_decide _).
  { split_and!; [apply u32_1..|discriminate]. }
  unfold axis_wf. cbn. split_and!; [by apply default_u32..|done].
Qed.
Lemma ResolveMap_wf m : map_u32 m -> map_wf (ResolveMap m).
Proof.
  intros (Ha & Hx & Hy & Hs & Hi & Hxa & Hya). unfold map_wf. cbn.
  split_and!; try (by apply default_u32); [done|by apply ResolveAxis_wf..].
Qed.
Lemma same_axis_wf a a' : a' = a \/ same_axis a a' -> axis_wf a -> axis_wf a'.
Proof. intros [->|(_ & _ & _ & E1 & _ & _ & E2 & E3)]; [done|]. unfold axis_wf. by rewrite E1, E2, E3. Qed.
Lemma completed_wf m m' : completed m m' -> map_wf m -> map_wf m'.
Proof.
  intros ((_ & _ & _ & E1 & E2 & E3 & E4 & E5) & Hx & Hy) (? & ? & ? & ? & ? & ? & ?). unfold map_wf. rewrite E1, E2, E3, E4, E5.
  split_and!; try done; by eapply same_axis_wf.
Qed.
Lemma complete_wf r rom : definition_u32 (r_definition r) -> complete r = Ok rom -> Forall map_wf (rd_maps rom).
Proof.
  intros Hu (_ & _ & _ & _ & _ & Hf)%complete_ok. unfold definition_u32 in Hu. revert Hu Hf.
  generalize (rd_maps rom). induction (ud_maps (r_definition r)) as [|m ms IH]; intros out Hu Hf; cbn in Hf.
  - apply Forall2_nil_inv_l in Hf as ->. constructor.
  - apply Forall2_cons_inv_l in Hf as (m' & out' & Hc & Hf & ->). apply Forall_cons in Hu as [Hm Hu].
    constructor; [|by apply IH]. eapply completed_wf; [done|]. by apply ResolveMap_wf.
Qed.
End numbers.

(** * The claims *)
Section claims.
Context {W : Type} {HW : World W} (load_buffer : list Z -> result string (list XmlNode)) (tenth_text : string -> option string).
(** A catalog one of the builders made. *)
Definition built (c : DefinitionCatalog) : Prop :=
  (exists handles skip (w : W), fst (BuildRomraiderCatalog load_buffer handles skip w) = Ok c)
  \/ (exists fuel directory handles skip (w : W), fst (BuildEcuflashCatalog load_buffer fuel directory handles skip w) = Ok c).
Lemma built_from contents c : stable (W := W) contents -> built c -> catalog_from load_buffer contents c.
Proof.
  intros Hst [(hs & skip & w & H)|(fuel & dir & hs & skip & w & H)].
  - by apply (BuildCatalog_from load_buffer contents kRomRaider) in H.
  - unfold BuildEcuflashCatalog, io_try, io_bind in H.
    match type of H with context [let '(a, w') := ?x in _] => destruct x as [[hs'|e] w1] end; [|discriminate].
    by apply (BuildCatalog_from load_buffer contents kEcuFlash) in H.
Qed.
Lemma built_keys c : built c -> NoDup (key <$> Entries c).
Proof.
  assert (forall parser handles skip (w : W), fst (BuildCatalog parser handles skip w) = Ok c -> NoDup (key <$> Entries c)) as H.
  { intros parser handles skip w. unfold BuildCatalog, io_try, io_bind. destruct (read_entries _ _ _ _ w) as [[es|e] w1]; [|discriminate].
    intros Hc. by apply (proj2 (catalog_holds_first_entries es) c Hc). }
  intros [(hs & skip & w & E)|(fuel & dir & hs & skip & w & E)]; [by eapply H|].
  unfold BuildEcuflashCatalog, io_try, io_bind in E.
  match type of E with context [let '(a, w') := ?x in _] => destruct x as [[hs'|e] w1] end; [|discriminate]. by eapply H.
Qed.
Lemma built_addresses contents c e : stable (W := W) contents -> built c -> e ∈ Entries c -> opt_u32 (de_internal_id_address e).
Proof.
  intros Hst Hb He. destruct (built_from contents c Hst Hb e He) as (data & es & _ & Hes & Hin).
  apply (index_address load_buffer data (de_source e) es e Hin). destruct (de_format e); cbn in Hes; auto.
Qed.
Lemma Find_listed c e : NoDup (key <$> Entries c) -> e ∈ Entries c -> Find c (de_format e) (de_definition_id e) = Ok e.
Proof.
  intros Hnd He. rewrite Find_first. destruct (first (de_format e, de_definition_id e) (entries_ c)) as [x|] eqn:E.
  - apply first_Some in E as [Hx Hk]. change (key x = key e) in Hk. f_equal.
    apply list_elem_of_lookup in Hx as [i Hi]. apply list_elem_of_lookup in He as [j Hj].
    unfold Entries in *. assert ((key <$> entries_ c) !! i = Some (key e)) as Ki by (by rewrite list_lookup_fmap, Hi, <- Hk).
    assert ((key <$> entries_ c) !! j = Some (key e)) as Kj by (by rewrite list_lookup_fmap, Hj).
    pose proof (NoDup_lookup _ _ _ _ Hnd Ki Kj) as ->. congruence.
  - apply first_None in E. destruct E. by apply (list_elem_of_fmap_2 key).
Qed.
Lemma MatchRom_entry c bytes maps e : MatchRom c bytes maps = Ok e -> e ∈ Entries c /\ entry_matches c bytes maps e = true.
Proof.
  unfold MatchRom. destruct (List.find _ _) as [x|] eqn:E; [|discriminate]. intros [= <-]. apply find_some in E as [H1 H2].
  split; [by apply list_elem_of_In|done].
Qed.
Lemma Load_stable contents c f id (w : W) d : stable (W := W) contents -> load_from load_buffer tenth_text contents c f id = Ok d ->
  forall rom, fst (Load load_buffer tenth_text c f id w) = Ok rom ->
    exists st, fst (ResolveDefinition d (catalog_loader load_buffer tenth_text c) st) = Ok rom.
Proof.
  intros Hst Hd rom. unfold Load. pose proof (catalog_loader_stable load_buffer tenth_text contents c f id (w, None) Hst) as Hl.
  destruct (catalog_loader _ _ c f id (w, None)) as [l st]. cbn in Hl. rewrite Hd in Hl. subst l. exists st.
  destruct (ResolveDefinition d _ st) as [[r|e] [w' [re|]]]; done.
Qed.

(** The flash method of a loaded definition is the one its entry is matched by. *)
Lemma loaded_method contents c f id e d r w rom :
  stable (W := W) contents -> built c -> Find c f id = Ok e ->
  load_from load_buffer tenth_text contents c f id = Ok d ->
  inherit (load_from load_buffer tenth_text contents c) f 256 d = Some r ->
  fst (Load load_buffer tenth_text c f id w) = Ok rom ->
  md_flash_method (rd_metadata rom) = EffectiveFlashMethod matching_fuel c e []
  /\ definition_ok rom /\ Forall map_wf (rd_maps rom).
Proof.
  intros Hst Hb He Hd Hr Hload. pose proof (built_from contents c Hst Hb) as Hc.
  destruct (load_from_describes load_buffer tenth_text contents c f id d Hc Hd) as (Hu & e' & He' & Hdesc & Hid & Hf).
  rewrite He in He'. injection He' as <-. subst f id.
  destruct (Load_stable contents c _ _ w d Hst Hd rom Hload) as (st & Hres).
  destruct (ResolveDefinition_inherits (catalog_loader load_buffer tenth_text c) (load_from load_buffer tenth_text contents c) d st)
    as [_ Hsound]; [intros; by apply catalog_loader_stable|done|].
  destruct (Hsound rom Hres) as (n & r' & Hr' & Hcomp). rewrite (inherit_unique _ _ _ _ _ _ _ Hr' Hr) in Hcomp.
  pose proof (complete_ok _ _ Hcomp) as (Hok & _ & _ & _ & Hmeta & _). split; [|split; [done|]].
  - rewrite Hmeta. symmetry. fold (flash_of r). apply inherit_least in Hr as (m & Hm & Hr & Hleast).
    eapply (EffectiveFlashMethod_inherits (load_from load_buffer tenth_text contents c) c (ud_format d) m); try done.
    + by apply catalog_from_describes.
    + by apply load_parent_Some.
    + intros v dv []%elem_of_nil.
    + unfold matching_fuel. lia.
  - eapply complete_wf; [|exact Hcomp]. eapply inherit_u32; [|exact Hu|exact Hr].
    intros p dp (Hu' & _)%(load_from_describes load_buffer tenth_text contents c); done.
Qed.
(** C14: A ROM is matched and loaded under one flash method. Where files do not change, take
    a catalog built from them, the entry [MatchRom] finds for a ROM, and suppose that the
    chains of parents of its definition are at most 256 long. If [Load] gives the
    definition of that entry, the memory map [MatchRom] placed the ROM with is the map of
    the loaded definition's flash method: it has the ROM's size, and the bytes it places at
    the entry's address are one of the ways to spell the entry's identifier. The definition
    is well formed and the numbers of its maps fit 32 bits. *)
Theorem matched_method_is_loaded contents c bytes maps e d r w rom :
  stable (W := W) contents -> built c ->
  (forall name m, maps name = Some m -> MemoryMap.map_ok m /\ 0 <= definition_base_ m) ->
  MatchRom c bytes maps = Ok e ->
  load_from load_buffer tenth_text contents c (de_format e) (de_definition_id e) = Ok d ->
  inherit (load_from load_buffer tenth_text contents c) (de_format e) 256 d = Some r ->
  fst (Load load_buffer tenth_text c (de_format e) (de_definition_id e) w) = Ok rom ->
  (exists candidates candidate address m,
     IdentifierCandidates (de_internal_id e) (de_internal_id_encoding e) = Ok candidates /\ candidate ∈ candidates
     /\ de_internal_id_address e = Some address /\ maps (md_flash_method (rd_metadata rom)) = Some m
     /\ file_size_ m = zlen bytes /\ identified m bytes address candidate)
  /\ definition_ok rom /\ Forall map_wf (rd_maps rom).
Proof.
  intros Hst Hb Hm Hmatch Hd Hr Hload. apply MatchRom_entry in Hmatch as [He Hmatch].
  destruct (loaded_method contents c _ _ e d r w rom Hst Hb (Find_listed c e (built_keys c Hb) He) Hd Hr Hload) as (Eq & Hok & Hwf).
  split; [|done]. rewrite Eq. apply (entry_matches_recognises c bytes maps e Hm); [|done]. by eapply built_addresses.
Qed.
End claims.

(** ** Two definition files *)
Definition sample_base : list XmlNode :=
  [Element "rom" []
     [Element "romid" [] [Element "xmlid" [] [PcData "BASE"]; Element "flashmethod" [] [PcData "sti04"]];
      Element "scaling" [("name", "raw"); ("storagetype", "uint16"); ("toexpr", "x"); ("frexpr", "x")] []]]%string.
Definition sample_derived : list XmlNode :=
  [Element "rom" []
     [Element "romid" [] [Element "xmlid" [] [PcData "A2WC"]; Element "internalidaddress" [] [PcData "0x4"];
                          Element "internalidstring" [] [PcData "A2WC"]];
      Element "include" [] [PcData "BASE"];
      Element "table" [("name", "Fuel"); ("address", "8"); ("type", "2D"); ("sizex", "4"); ("scaling", "raw")] []]]%string.
Definition sample_contents (handle : string) : result Error (list Z) :=
  if String.eqb handle "base.xml" then Ok [0] else if String.eqb handle "a2wc.xml" then Ok [1]
  else Fail kInvalidConfig "no such file".
Definition sample_parser (xml : list Z) : result string (list XmlNode) :=
  match xml with [0] => Ok sample_base | [1] => Ok sample_derived | _ => Err "not XML"%string end.
(** A world of files that never change. *)
Definition shelf : World unit := {|
  files_Read handle w := (sample_contents handle, w);
  files_Write _ _ w := (Ok tt, w); writer_Replace _ _ w := (Ok tt, w);
  fs_Exists path w := (match sample_contents path with Ok _ => true | Err _ => false end, w);
  fs_ListDirectory _ w := (Ok [], w); fs_MakeDirectory _ w := (Ok tt, w); fs_CopyFileTo _ _ _ w := (Ok tt, w);
  fs_RemoveFile _ w := (Ok tt, w); bundle_List _ w := (Ok [], w); bundle_Read _ _ w := (Fail kInvalidConfig "no such resource", w); events_Log _ _ w := w; events_Notice _ w := w
|}.
Definition sample_catalog : result Error DefinitionCatalog :=
  fst (@BuildEcuflashCatalog unit shelf sample_parser 8 "" ["a2wc.xml"; "base.xml"; "notes.txt"]%string false tt).
Lemma shelf_stable : stable (HW := shelf) sample_contents.
Proof. by intros handle []. Qed.
Definition sample_rom : list Z := [0; 0; 0; 0; 65; 50; 87; 67; 0; 0; 0; 0; 0; 0; 0; 0].
(** A map of one block at address 0, for ROMs of the parent's flash method. *)
Definition shelf_map : MemoryMap :=
  mkMemoryMap [mkMemoryBlock (mkAddressRange 0 0x10 0x10) (FileBacking 0) kReadOnly] 0x10 0.
Lemma shelf_map_ok : MemoryMap.map_ok shelf_map /\ 0 <= definition_base_ shelf_map.
Proof.
  repeat split; try (unfold kU32Max; cbn; lia); try done.
  - repeat constructor; unfold kU32Max; cbn; lia.
  - repeat constructor.
  - repeat constructor.
  - intros o. unfold placements. change (mjoin (file_range <$> blocks_ shelf_map)) with [(0, 0x10)].
    rewrite !count_covers_cons. unfold covers. cbn [fst snd file_size_ shelf_map]. change (count_covers [] o) with 0%nat. repeat case_decide; lia.
Qed.
Definition shelf_maps (name : string) : option MemoryMap := if String.eqb name "sti04" then Some shelf_map else None.
Lemma shelf_maps_ok name m : shelf_maps name = Some m -> MemoryMap.map_ok m /\ 0 <= definition_base_ m.
Proof. unfold shelf_maps. destruct (String.eqb name "sti04"); [|discriminate]. intros [= <-]. exact shelf_map_ok. Qed.
Lemma matched_method_is_loaded_witness :
  exists c e rom, @built unit shelf sample_parser c /\ MatchRom c sample_rom shelf_maps = Ok e /\ de_flash_method e = ""%string
    /\ fst (@Load unit shelf sample_parser (fun _ => None) c (de_format e) (de_definition_id e) tt) = Ok rom
    /\ (exists m, shelf_maps (md_flash_method (rd_metadata rom)) = Some m /\ file_size_ m = zlen sample_rom)
    /\ definition_ok rom /\ Forall map_wf (rd_maps rom).
Proof.
  destruct sample_catalog as [c|] eqn:Ec; [|vm_compute in Ec; discriminate].
  assert (@built unit shelf sample_parser c) as Hb.
  { right. exists 8%nat, ""%string, ["a2wc.xml"; "base.xml"; "notes.txt"]%string, false, tt. exact Ec. }
  vm_compute in Ec. injection Ec as <-.
  match type of Hb with built _ ?x => set (c := x) in * end.
  destruct (MatchRom c sample_rom shelf_maps) as [e|] eqn:Ee; [|vm_compute in Ee; discriminate].
  assert (de_flash_method e = ""%string) as Ef by (vm_compute in Ee; injection Ee as <-; reflexivity).
  destruct (load_from sample_parser (fun _ => None) sample_contents c (de_format e) (de_definition_id e)) as [d|] eqn:Ed.
  2: { vm_compute in Ee. injection Ee as <-. vm_compute in Ed. discriminate. }
  destruct (inherit (load_from sample_parser (fun _ => None) sample_contents c) (de_format e) 256 d) as [r|] eqn:Er.
  2: { vm_compute in Ee. injection Ee as <-. vm_compute in Ed. injection Ed as <-. vm_compute in Er. discriminate. }
  destruct (fst (@Load unit shelf sample_parser (fun _ => None) c (de_format e) (de_definition_id e) tt)) as [rom|] eqn:El.
  2: { vm_compute in Ee. injection Ee as <-. vm_compute in El. discriminate. }
  exists c, e, rom. split; [exact Hb|]. split; [exact Ee|]. split; [exact Ef|]. split; [exact El|].
  destruct (@matched_method_is_loaded unit shelf sample_parser (fun _ => None) sample_contents c sample_rom shelf_maps e d r tt rom
    shelf_stable Hb shelf_maps_ok Ee Ed Er El) as [(candidates & candidate & address & m & _ & _ & _ & Hm & Hsz & _) Hrest].
  split; [exists m; exact (conj Hm Hsz)|exact Hrest].
Defined.

(** Matching takes the first entry that fits. When [MatchRom] gives an entry, none
    before it in the catalog matches, and the entry recognises the ROM: the map of its
    flash method has the ROM's file size, and the bytes that map places at the entry's
    identifier address are one of the ways to spell its identifier, inside the file.
    When it fails, no entry of the catalog matches. *)
Theorem MatchRom_first_match catalog rom maps :
  (forall name m, maps name = Some m -> MemoryMap.map_ok m /\ 0 <= definition_base_ m) ->
  Forall (fun e => opt_u32 (de_internal_id_address e)) (Entries catalog) ->
  match MatchRom catalog rom maps with
  | Ok e => recognises catalog rom maps e
            /\ exists before after, Entries catalog = before ++ e :: after /\ Forall (fun x => entry_matches catalog rom maps x = false) before
  | Err _ => Forall (fun x => entry_matches catalog rom maps x = false) (Entries catalog)
  end.
Proof.
  intros Hm Ha. unfold MatchRom. destruct (List.find _ _) as [e|] eqn:E.
  - split.
    + apply find_some in E as [Hin He]. apply entry_matches_recognises; [done| |done]. rewrite list.Forall_forall in Ha.
      apply Ha. by apply list_elem_of_In.
    + clear Ha. induction (Entries catalog) as [|x es IH]; [discriminate|]. cbn in E.
      destruct (entry_matches catalog rom maps x) eqn:Ex.
      * injection E as ->. by exists [], es.
      * destruct (IH E) as (before & after & -> & Hf). exists (x :: before), after. split; [done|]. by constructor.
  - apply list.Forall_forall. intros x Hx. eapply find_none in E; [exact E|]. by apply list_elem_of_In.
Qed.
Definition sample_entry : DefinitionIndexEntry :=
  {| de_format := kEcuFlash; de_source := "a2wc.xml"; de_definition_id := "A2WC"; de_internal_id := "A2WC";
     de_internal_id_encoding := kAsciiOrHex; de_internal_id_address := Some 0x8004; de_ecu_id := ""; de_flash_method := "sti04"; de_parents := [] |}.
Definition sample_rom_map : MemoryMap :=
  mkMemoryMap [mkMemoryBlock (mkAddressRange 0x8000 0x10 0x8010) (FileBacking 0) kReadOnly] 0x10 0.
Lemma sample_rom_map_ok : MemoryMap.map_ok sample_rom_map /\ 0 <= definition_base_ sample_rom_map.
Proof.
  repeat split; try (unfold kU32Max; cbn; lia); try done.
  - repeat constructor; unfold kU32Max; cbn; lia.
  - repeat constructor.
  - repeat constructor.
  - intros o. unfold placements. change (mjoin (file_range <$> blocks_ sample_rom_map)) with [(0, 0x10)].
    rewrite !count_covers_cons. unfold covers. cbn [fst snd file_size_ sample_rom_map]. change (count_covers [] o) with 0%nat. repeat case_decide; lia.
Qed.
Definition sample_maps (name : string) : option MemoryMap := if String.eqb name "sti04" then Some sample_rom_map else None.
Definition two_entries : DefinitionCatalog :=
  {| entries_ := [{| de_format := kEcuFlash; de_source := "b.xml"; de_definition_id := "OTHER"; de_internal_id := "A2WX";
       de_internal_id_encoding := kAscii; de_internal_id_address := Some 0x8004; de_ecu_id := ""; de_flash_method := "sti04"; de_parents := [] |};
     sample_entry] |}.
Lemma MatchRom_first_match_witness :
  MatchRom two_entries sample_rom sample_maps = Ok sample_entry /\ recognises two_entries sample_rom sample_maps sample_entry.
Proof.
  assert (MatchRom two_entries sample_rom sample_maps = Ok sample_entry) as E by (vm_compute; reflexivity). split; [exact E|].
  pose proof (MatchRom_first_match two_entries sample_rom sample_maps) as H. rewrite E in H. apply H.
  - intros name m. unfold sample_maps. destruct (String.eqb name "sti04"); [|discriminate]. intros [= <-]. exact sample_rom_map_ok.
  - constructor; [|constructor; [|constructor]]; intros x [= <-]; unfold u32_ok; lia.
Defined.
