(* ===== verification/Configuration.v ===== *)
(** * Configuration: [src/backend/config/{app_config,provisioning,config_session}.cpp]

    The settings file, the directories an installation provisions, and the session
    that holds both with the selected vehicle. Files are reached through a [World];
    the XML parser and printer are parameters. *)
From stdpp Require Import sorting countable strings.
From S2P Require Import Prelude.
From S2P Require Import MemoryMap MemoryImage.
From S2P Require Import Ports Files.
From S2P Require Import Catalog.
From S2P Require Import Xml.

(** ** [AppConfig] *)
Record AppConfig := mkAppConfig {
  ac_window_width : string;
  ac_window_height : string;
  ac_toolbar_iconsize : string;
  ac_serial_port : string;
  ac_selected_vehicle_id : string;
  ac_selected_flash_transport : string;
  ac_selected_log_transport : string;
  ac_selected_log_protocol : string;
  ac_primary_definition_base : string;
  ac_calibration_files : list string;
  ac_calibration_files_directory : string;
  ac_use_romraider_definitions : string;
  ac_romraider_definition_files : list string;
  ac_use_ecuflash_definitions : string;
  ac_ecuflash_definition_files_directory : string;
  ac_romraider_logger_definition_file : string;
  ac_datalog_files_directory : string
}.
#[export] Instance AppConfig_eq_dec : EqDecision AppConfig.
Proof. solve_decision. Defined.
Definition empty_config : AppConfig := mkAppConfig "" "" "" "" "" "" "" "" "" [] "" "" [] "" "" "" "".
Definition set_window_width (v : string) (config : AppConfig) : AppConfig :=
  let '(mkAppConfig _ b c d e f g h i j k l m n o p q) := config in mkAppConfig v b c d e f g h i j k l m n o p q.
Definition set_window_height (v : string) (config : AppConfig) : AppConfig :=
  let '(mkAppConfig a _ c d e f g h i j k l m n o p q) := config in mkAppConfig a v c d e f g h i j k l m n o p q.
Definition set_toolbar_iconsize (v : string) (config : AppConfig) : AppConfig :=
  let '(mkAppConfig a b _ d e f g h i j k l m n o p q) := config in mkAppConfig a b v d e f g h i j k l m n o p q.
Definition set_serial_port (v : string) (config : AppConfig) : AppConfig :=
  let '(mkAppConfig a b c _ e f g h i j k l m n o p q) := config in mkAppConfig a b c v e f g h i j k l m n o p q.
Definition set_selected_vehicle_id (v : string) (config : AppConfig) : AppConfig :=
  let '(mkAppConfig a b c d _ f g h i j k l m n o p q) := config in mkAppConfig a b c d v f g h i j k l m n o p q.
Definition set_selected_flash_transport (v : string) (config : AppConfig) : AppConfig :=
  let '(mkAppConfig a b c d e _ g h i j k l m n o p q) := config in mkAppConfig a b c d e v g h i j k l m n o p q.
Definition set_selected_log_transport (v : string) (config : AppConfig) : AppConfig :=
  let '(mkAppConfig a b c d e f _ h i j k l m n o p q) := config in mkAppConfig a b c d e f v h i j k l m n o p q.
Definition set_selected_log_protocol (v : string) (config : AppConfig) : AppConfig :=
  let '(mkAppConfig a b c d e f g _ i j k l m n o p q) := config in mkAppConfig a b c d e f g v i j k l m n o p q.
Definition set_primary_definition_base (v : string) (config : AppConfig) : AppConfig :=
  let '(mkAppConfig a b c d e f g h _ j k l m n o p q) := config in mkAppConfig a b c d e f g h v j k l m n o p q.
Definition set_calibration_files (v : list string) (config : AppConfig) : AppConfig :=
  let '(mkAppConfig a b c d e f g h i _ k l m n o p q) := config in mkAppConfig a b c d e f g h i v k l m n o p q.
Definition set_calibration_files_directory (v : string) (config : AppConfig) : AppConfig :=
  let '(mkAppConfig a b c d e f g h i j _ l m n o p q) := config in mkAppConfig a b c d e f g h i j v l m n o p q.
Definition set_use_romraider_definitions (v : string) (config : AppConfig) : AppConfig :=
  let '(mkAppConfig a b c d e f g h i j k _ m n o p q) := config in mkAppConfig a b c d e f g h i j k v m n o p q.
Definition set_romraider_definition_files (v : list string) (config : AppConfig) : AppConfig :=
  let '(mkAppConfig a b c d e f g h i j k l _ n o p q) := config in mkAppConfig a b c d e f g h i j k l v n o p q.
Definition set_use_ecuflash_definitions (v : string) (config : AppConfig) : AppConfig :=
  let '(mkAppConfig a b c d e f g h i j k l m _ o p q) := config in mkAppConfig a b c d e f g h i j k l m v o p q.
Definition set_ecuflash_definition_files_directory (v : string) (config : AppConfig) : AppConfig :=
  let '(mkAppConfig a b c d e f g h i j k l m n _ p q) := config in mkAppConfig a b c d e f g h i j k l m n v p q.
Definition set_romraider_logger_definition_file (v : string) (config : AppConfig) : AppConfig :=
  let '(mkAppConfig a b c d e f g h i j k l m n o _ q) := config in mkAppConfig a b c d e f g h i j k l m n o v q.
Definition set_datalog_files_directory (v : string) (config : AppConfig) : AppConfig :=
  let '(mkAppConfig a b c d e f g h i j k l m n o p _) := config in mkAppConfig a b c d e f g h i j k l m n o p v.

(** ** [app_config.cpp] *)
Definition back_is_slash (path : string) : bool :=
  match rev (String.list_ascii_of_string path) with c :: _ => Ascii.eqb c "/" || Ascii.eqb c "\" | [] => true end.
Definition AppendTrailingSlashIfMissing (path : string) : string := if back_is_slash path then path else path +:+ "/".
Definition IsDefinitionBase (value : string) : bool := String.eqb value "romraider" || String.eqb value "ecuflash".
Definition IsNonEmpty (value : string) : bool := negb (String.eqb value "").
(** A setting is one value or a list of them. *)
Inductive SettingMember : Type :=
| single (get : AppConfig -> string) (set : string -> AppConfig -> AppConfig)
| many (get : AppConfig -> list string) (set : list string -> AppConfig -> AppConfig).
Record SettingField := { sf_name : string; sf_member : SettingMember; sf_accepts : option (string -> bool) }.
Definition field (name : string) (member : SettingMember) : SettingField :=
  {| sf_name := name; sf_member := member; sf_accepts := None |}.
Definition accepting (name : string) (member : SettingMember) (accepts : string -> bool) : SettingField :=
  {| sf_name := name; sf_member := member; sf_accepts := Some accepts |}.
Definition kSettingFields : list SettingField :=
  [field "toolbar_iconsize" (single ac_toolbar_iconsize set_toolbar_iconsize);
   field "serial_port" (single ac_serial_port set_serial_port);
   field "vehicle_id" (single ac_selected_vehicle_id set_selected_vehicle_id);
   field "flash_transport" (single ac_selected_flash_transport set_selected_flash_transport);
   field "log_transport" (single ac_selected_log_transport set_selected_log_transport);
   field "log_protocol" (single ac_selected_log_protocol set_selected_log_protocol);
   accepting "primary_definition_base" (single ac_primary_definition_base set_primary_definition_base) IsDefinitionBase;
   field "calibration_files" (many ac_calibration_files set_calibration_files);
   field "calibration_files_directory" (single ac_calibration_files_directory set_calibration_files_directory);
   field "use_romraider_definitions" (single ac_use_romraider_definitions set_use_romraider_definitions);
   accepting "romraider_definition_files" (many ac_romraider_definition_files set_romraider_definition_files) IsNonEmpty;
   field "use_ecuflash_definitions" (single ac_use_ecuflash_definitions set_use_ecuflash_definitions);
   field "ecuflash_definition_files_directory"
     (single ac_ecuflash_definition_files_directory set_ecuflash_definition_files_directory);
   field "logger_definition_file" (single ac_romraider_logger_definition_file set_romraider_logger_definition_file);
   field "datalog_files_directory" (single ac_datalog_files_directory set_datalog_files_directory)]%string.
Definition parse_size (config : AppConfig) (value : XmlNode) : AppConfig :=
  let width := attribute_value (Some value) "width" in
  let height := attribute_value (Some value) "height" in
  if negb (String.eqb width "") then set_window_width width config
  else if negb (String.eqb height "") then set_window_height height config
  else config.
Definition ParseWindowSize (setting : XmlNode) (config : AppConfig) : AppConfig :=
  fold_left parse_size (children (Some setting) "value") config.
Definition accepted (f : SettingField) (value : string) : bool :=
  match sf_accepts f with Some accepts => accepts value | None => true end.
Definition ParseField (setting : XmlNode) (f : SettingField) (config : AppConfig) : AppConfig :=
  match sf_member f with
  | single _ set =>
      let value := attribute_value (child (Some setting) "value") "data" in
      if accepted f value then set value config else config
  | many get set =>
      fold_left (fun config value =>
        let data := attribute_value (Some value) "data" in
        if accepted f data then set (get config ++ [data]) config else config) (children (Some setting) "value") config
  end.
Definition ParseSetting (config : AppConfig) (setting : XmlNode) : AppConfig :=
  let name := attribute_value (Some setting) "name" in
  if String.eqb name "window_size" then ParseWindowSize setting config
  else match List.find (fun f => String.eqb (sf_name f) name) kSettingFields with
       | Some f => ParseField setting f config
       | None => config
       end.
Definition SaveField (config : AppConfig) (f : SettingField) : XmlNode :=
  let values := match sf_member f with single get _ => [get config] | many get _ => get config end in
  Element "setting" [("name", sf_name f)]%string (map (fun value => Element "value" [("data", value)]%string []) values).
Section settings_file.
Context {W : Type} {HW : World W} (load_buffer : list Z -> result string (list XmlNode)) (save : list XmlNode -> list Z).
(** What [ParseAppConfig] makes of a document. *)
Definition parse_document (doc : list XmlNode) : AppConfig :=
  let config_node := List.find (is_named "config") doc in
  let settings := if String.eqb (attribute_value config_node "name") "FastECU" then child config_node "software_settings" else None in
  fold_left ParseSetting (children settings "setting") empty_config.
Definition ParseAppConfig (paths : ConfigPaths) : IO W (result Error AppConfig) :=
  io! bytes <- files_Read (config_file paths);
  match load_buffer bytes with
  | Err description => io_ret (Fail kInvalidConfig ("config parse error: " +:+ description))
  | Ok doc => io_ret (Ok (parse_document doc))
  end.
Definition normalized (config : AppConfig) : AppConfig :=
  set_calibration_files_directory (AppendTrailingSlashIfMissing (ac_calibration_files_directory config))
    (set_ecuflash_definition_files_directory (AppendTrailingSlashIfMissing (ac_ecuflash_definition_files_directory config))
       (set_datalog_files_directory (AppendTrailingSlashIfMissing (ac_datalog_files_directory config)) config)).
Definition config_document (config : AppConfig) : list XmlNode :=
  [Element "config" [("name", "FastECU"); ("version", "0.1.0-beta.5")]
     [Element "software_settings" []
        (Element "setting" [("name", "window_size")]
           [Element "value" [("width", ac_window_width config)] []; Element "value" [("height", ac_window_height config)] []]
         :: map (SaveField config) kSettingFields)]]%string.
Definition SaveAppConfig (config : AppConfig) (paths : ConfigPaths) : IO W (result Error AppConfig) :=
  let config := normalized config in
  io! _ <- files_Write (config_file paths) (save (config_document config));
  io_ret (Ok config).
End settings_file.

(** ** [provisioning.cpp]

    [std::ranges::sort] is not stable; [sort] is any sort by decreasing time. *)
Section provisioning.
Context {W : Type} {HW : World W} (sort : list DirEntry -> list DirEntry).
Definition AtPath {A} (error : Error) (path : string) : result Error A := Fail (kind error) (path +:+ ": " +:+ detail error).
Definition EnsureDirectory (path : string) : IO W Status :=
  io exists_ <- fs_Exists path;
  if exists_ then io_ret (Ok tt)
  else
    io result <- fs_MakeDirectory path;
    match result with
    | Err e =>
        io _ <- io_do (events_Log LError ("Unable to create directory: " +:+ path));
        io_ret (AtPath e path)
    | Ok _ => io_ret (Ok tt)
    end.
Fixpoint EnsureDirectories (dirs : list string) : IO W Status :=
  match dirs with
  | [] => io_ret (Ok tt)
  | dir :: dirs => io! _ <- EnsureDirectory dir; EnsureDirectories dirs
  end.
Definition not_provisioned (e : Error) (target : string) : IO W Status :=
  io _ <- io_do (events_Log LError ("Unable to provision default file: " +:+ target));
  io_ret (AtPath e target).
Fixpoint copy_bundle (bundle_id target_directory : string) (names : list string) : IO W Status :=
  match names with
  | [] => io_ret (Ok tt)
  | name :: names =>
      let target := target_directory +:+ name in
      io exists_ <- fs_Exists target;
      if exists_ then copy_bundle bundle_id target_directory names
      else
        io _ <- io_do (events_Log LDebug ("Provisioning default file: " +:+ target));
        io bytes <- bundle_Read bundle_id name;
        match bytes with
        | Err e => not_provisioned e target
        | Ok bytes =>
            io written <- files_Write target bytes;
            match written with
            | Err e => not_provisioned e target
            | Ok _ => copy_bundle bundle_id target_directory names
            end
        end
  end.
Definition CopyBundleIfAbsent (bundle_id target_directory : string) : IO W Status :=
  io names <- bundle_List bundle_id;
  match names with
  | Err _ => io_ret (Ok tt)
  | Ok names => copy_bundle bundle_id target_directory names
  end.
Definition NewestFirst (entries : list DirEntry) (directories : bool) : list DirEntry :=
  sort (List.filter (fun e => Bool.eqb (is_directory e) directories) entries).
Definition PreviousConfigFile (paths : ConfigPaths) : IO W (option string) :=
  io siblings <- fs_ListDirectory (base_config_directory paths);
  match siblings with
  | Err _ => io_ret None
  | Ok siblings =>
      match NewestFirst siblings true with
      | [] => io_ret None
      | front :: _ => io_ret (Some (base_config_directory paths +:+ "/" +:+ entry_name front +:+ "/config/fastecu.cfg"))
      end
  end.
Definition CreateVersionDirectory (paths : ConfigPaths) : IO W Status :=
  io previous_config_file <- PreviousConfigFile paths;
  io! _ <- EnsureDirectories [version_config_directory paths; config_files_directory paths];
  match previous_config_file with
  | Some previous =>
      io _ <- fs_CopyFileTo previous (config_files_directory paths +:+ "fastecu.cfg") false;
      io_ret (Ok tt)
  | None => io_ret (Ok tt)
  end.
Fixpoint remove_logs (directory : string) (files : list DirEntry) : IO W Status :=
  match files with
  | [] => io_ret (Ok tt)
  | f :: files =>
      let path := directory +:+ entry_name f in
      io r <- fs_RemoveFile path;
      match r with Err e => io_ret (AtPath e path) | Ok _ => remove_logs directory files end
  end.
Definition PruneSyslogs (paths : ConfigPaths) : IO W Status :=
  io syslogs <- fs_ListDirectory (syslog_files_directory paths);
  match syslogs with
  | Err _ => io_ret (Ok tt)
  | Ok syslogs => remove_logs (syslog_files_directory paths) (skipn 20 (NewestFirst syslogs false))
  end.
Definition ProvisionConfigDirectories (paths : ConfigPaths) : IO W Status :=
  io! _ <- EnsureDirectory (base_config_directory paths);
  io! _ <- (if negb (String.eqb (version_config_directory paths) (base_config_directory paths)) then
              io exists_ <- fs_Exists (version_config_directory paths);
              if exists_ then io_ret (Ok tt) else CreateVersionDirectory paths
            else io_ret (Ok tt));
  io! _ <- EnsureDirectories
             [calibration_files_directory paths; config_files_directory paths; definition_files_directory paths;
              kernel_files_directory paths; datalog_files_directory paths; syslog_files_directory paths];
  io! _ <- CopyBundleIfAbsent "config" (config_files_directory paths);
  io! _ <- CopyBundleIfAbsent "kernels" (kernel_files_directory paths);
  PruneSyslogs paths.
End provisioning.

(** ** [ConfigSession] *)
Record ConfigSession := { catalog_ : Catalog; initialized_ : bool; provisioned_ : ConfigPaths; settings_ : AppConfig }.
Definition empty_paths : ConfigPaths :=
  {| base_config_directory := ""; version_config_directory := ""; calibration_files_directory := ""; config_files_directory := "";
     definition_files_directory := ""; kernel_files_directory := ""; datalog_files_directory := ""; syslog_files_directory := "";
     config_file := ""; logger_file := "" |}.
Definition new_config_session (catalog : Catalog) : ConfigSession :=
  {| catalog_ := catalog; initialized_ := false; provisioned_ := empty_paths; settings_ := empty_config |}.
Definition with_settings (s : ConfigSession) (settings : AppConfig) : ConfigSession :=
  {| catalog_ := catalog_ s; initialized_ := initialized_ s; provisioned_ := provisioned_ s; settings_ := settings |}.
Definition DefaultIfEmpty (field fallback : string) : string := if String.eqb field "" then fallback else field.
Definition WithDefaults (settings : AppConfig) (paths : ConfigPaths) : AppConfig :=
  let settings := set_window_width (DefaultIfEmpty (ac_window_width settings) "default") settings in
  let settings := set_window_height (DefaultIfEmpty (ac_window_height settings) "default") settings in
  let settings := set_toolbar_iconsize (DefaultIfEmpty (ac_toolbar_iconsize settings) "32") settings in
  let settings := set_serial_port (DefaultIfEmpty (ac_serial_port settings) "ttyUSB0") settings in
  let settings := set_primary_definition_base (DefaultIfEmpty (ac_primary_definition_base settings) "ecuflash") settings in
  let settings := set_use_romraider_definitions (DefaultIfEmpty (ac_use_romraider_definitions settings) "disabled") settings in
  let settings := set_use_ecuflash_definitions (DefaultIfEmpty (ac_use_ecuflash_definitions settings) "disabled") settings in
  let settings := set_calibration_files_directory
    (DefaultIfEmpty (ac_calibration_files_directory settings) (calibration_files_directory paths)) settings in
  set_datalog_files_directory (DefaultIfEmpty (ac_datalog_files_directory settings) (datalog_files_directory paths)) settings.
Definition Failed {A} (error : Error) (what path : string) : result Error A :=
  Fail (kind error) (what +:+ " " +:+ path +:+ ": " +:+ detail error).
Definition not_initialized {A} : result Error A := Fail kInternal "configuration session is not initialized".
Definition SelectedRow (s : ConfigSession) : result Error Z :=
  if negb (initialized_ s) then not_initialized
  else match FindVehicle (catalog_ s) (ac_selected_vehicle_id (settings_ s)) with
       | Some row => Ok row
       | None => Fail kInvalidConfig "no vehicle is selected"
       end.
Definition SelectedVehicle (s : ConfigSession) : option VehicleSpec :=
  match SelectedRow s with Ok row => zlookup (Catalog.Vehicles (catalog_ s)) row | Err _ => None end.
(** The vehicles the session offers. *)
Definition Vehicles (s : ConfigSession) : list VehicleSpec := if initialized_ s then Catalog.Vehicles (catalog_ s) else [].
(** [vehicles[row].protocol->log_protocol]: a catalog in use has no null protocol. *)
Definition log_protocol_of (v : VehicleSpec) : string :=
  match protocol v with Some p => log_protocol (spec p) | None => "" end.
Definition SelectRow (s : ConfigSession) (row : Z) : ConfigSession * Status :=
  if negb (initialized_ s) then (s, not_initialized)
  else
    let vehicles := Catalog.Vehicles (catalog_ s) in
    match zlookup vehicles row with
    | None => (s, Fail kInvalidConfig ("vehicle row " +:+ fmt_d row +:+ " is out of range (" +:+ fmt_d (zlen vehicles) +:+ " rows)"))
    | Some vehicle =>
        (with_settings s (set_selected_log_protocol (log_protocol_of vehicle) (set_selected_vehicle_id (id vehicle) (settings_ s))), Ok tt)
    end.
Definition SelectByProtocolName (s : ConfigSession) (protocol_name : string) : ConfigSession * bool :=
  if negb (initialized_ s) then (s, false)
  else match LastVehicleForProtocol (catalog_ s) protocol_name with
       | None => (s, false)
       | Some row => let '(s, selected) := SelectRow s row in (s, match selected with Ok _ => true | Err _ => false end)
       end.
Definition VehicleForAlias (s : ConfigSession) (flash_method : string) : option VehicleSpec :=
  if initialized_ s then FirstVehicleForAlias (catalog_ s) flash_method else None.
Definition FindProtocol (s : ConfigSession) (name : string) : option ProtocolObject :=
  if initialized_ s then Catalog.FindProtocol (catalog_ s) name else None.
Definition EffectivePaths (s : ConfigSession) : ConfigPaths :=
  let p := provisioned_ s in
  {| base_config_directory := base_config_directory p; version_config_directory := version_config_directory p;
     calibration_files_directory := DefaultIfEmpty (ac_calibration_files_directory (settings_ s)) (calibration_files_directory p);
     config_files_directory := config_files_directory p; definition_files_directory := definition_files_directory p;
     kernel_files_directory := kernel_files_directory p;
     datalog_files_directory := DefaultIfEmpty (ac_datalog_files_directory (settings_ s)) (datalog_files_directory p);
     syslog_files_directory := syslog_files_directory p; config_file := config_file p; logger_file := logger_file p |}.
Section session.
Context {W : Type} {HW : World W} (sort : list DirEntry -> list DirEntry)
  (load_buffer : list Z -> result string (list XmlNode)) (save : list XmlNode -> list Z).
Definition Initialize (s : ConfigSession) (app_root version : string) : IO W (Status * ConfigSession) :=
  let s := new_config_session (catalog_ s) in
  let paths := ResolveConfigPaths app_root version in
  io provisioned <- ProvisionConfigDirectories sort paths;
  match provisioned with
  | Err e => io_ret (Fail (kind e) ("Unable to provision configuration: " +:+ detail e), s)
  | Ok _ =>
      io parsed <- ParseAppConfig load_buffer paths;
      match parsed with
      | Err e => io_ret (Failed e "Unable to load settings" (config_file paths), s)
      | Ok parsed =>
          let settings := WithDefaults parsed paths in
          io rewritten <- SaveAppConfig save settings paths;
          io settings <- match rewritten with
                         | Ok rewritten => io_ret rewritten
                         | Err e =>
                             io _ <- io_do (events_Log LWarning ("Unable to save settings " +:+ config_file paths +:+ ": " +:+ detail e));
                             io_ret settings
                         end;
          let settings := match FindVehicle (catalog_ s) (ac_selected_vehicle_id settings) with
                          | Some _ => settings
                          | None => set_selected_vehicle_id "" settings
                          end in
          io_ret (Ok tt, {| catalog_ := catalog_ s; initialized_ := true; provisioned_ := paths; settings_ := settings |})
      end
  end.
Definition Save (s : ConfigSession) : IO W (Status * ConfigSession) :=
  if negb (initialized_ s) then io_ret (not_initialized, s)
  else
    io saved <- SaveAppConfig save (settings_ s) (provisioned_ s);
    match saved with
    | Err e => io_ret (Failed e "Unable to save settings" (config_file (provisioned_ s)), s)
    | Ok saved => io_ret (Ok tt, with_settings s saved)
    end.
End session.




(** ** The settings file reads back *)
Section settings.
(** What loading keeps of settings: a known definition base, and file names that are not empty. *)
Definition loadable (config : AppConfig) : AppConfig :=
  set_primary_definition_base (if IsDefinitionBase (ac_primary_definition_base config) then ac_primary_definition_base config else "")
    (set_romraider_definition_files (List.filter IsNonEmpty (ac_romraider_definition_files config)) config).
Definition value_node (value : string) : XmlNode := Element "value" [("data"%string, value)] [].
Lemma value_nodes l : List.filter (is_named "value") (map value_node l) = map value_node l.
Proof. induction l as [|v l IH]; cbn; [done|]. by rewrite IH. Qed.
(** A list member is read and written like a field. *)
Definition lawful (f : SettingField) : Prop :=
  match sf_member f with
  | single _ _ => True
  | many get set => forall c, (forall v, get (set v c) = v) /\ (forall v v', set v (set v' c) = set v c) /\ set (get c) c = c
  end.
(** What reading a saved field stores. *)
Definition assign (config0 : AppConfig) (config : AppConfig) (f : SettingField) : AppConfig :=
  match sf_member f with
  | single get set => if accepted f (get config0) then set (get config0) config else config
  | many get set => set (get config ++ List.filter (accepted f) (get config0)) config
  end.
Lemma ParseField_saved config0 config f : lawful f -> ParseField (SaveField config0 f) f config = assign config0 config f.
Proof.
  unfold lawful, assign, ParseField, SaveField, children. destruct (sf_member f) as [get set|get set]; [done|]. intros Hl.
  cbn [node_children]. fold value_node. rewrite value_nodes. revert config.
  induction (get config0) as [|v l IH]; intros config; [cbn; rewrite app_nil_r; by destruct (Hl config) as (_ & _ & ->)|].
  cbn [map fold_left List.filter]. change (attribute_value (Some (value_node v)) "data") with v. cbv zeta.
  destruct (accepted f v) eqn:Ea; [|by apply IH]. rewrite IH. destruct (Hl config) as (-> & -> & _). by rewrite <- app_assoc.
Qed.
Lemma ParseSetting_saved config0 config f : In f kSettingFields ->
  ParseSetting config (SaveField config0 f) = assign config0 config f.
Proof.
  intros H. rewrite <- ParseField_saved; cbn [In kSettingFields] in H; repeat destruct H as [<-|H]; try done; by intros [].
Qed.
Lemma saved_fields config fs : List.filter (is_named "setting") (map (SaveField config) fs) = map (SaveField config) fs.
Proof. induction fs as [|f fs IH]; cbn; [done|]. by rewrite IH. Qed.
Lemma ParseSetting_window config :
  ParseSetting empty_config (Element "setting" [("name", "window_size")]
    [Element "value" [("width", ac_window_width config)] []; Element "value" [("height", ac_window_height config)] []])%string
  = set_window_height (ac_window_height config) (set_window_width (ac_window_width config) empty_config).
Proof.
  unfold ParseSetting, ParseWindowSize, children, attribute_value. cbn -[set_window_height set_window_width]. unfold parse_size, attribute_value.
  cbn -[set_window_height set_window_width].
  destruct (String.eqb_spec (ac_window_width config) "") as [->|], (String.eqb_spec (ac_window_height config) "") as [->|]; done.
Qed.
Lemma fold_saved config0 fs config : incl fs kSettingFields ->
  fold_left ParseSetting (map (SaveField config0) fs) config = fold_left (assign config0) fs config.
Proof.
  revert config. induction fs as [|f fs IH]; intros config Hi; [done|]. cbn [map fold_left].
  rewrite ParseSetting_saved by (apply Hi; by left). apply IH. intros g Hg. apply Hi. by right.
Qed.
Lemma settings_read_back config : parse_document (config_document config) = loadable config.
Proof.
  unfold parse_document, config_document. cbn [List.find is_named String.eqb Ascii.eqb Bool.eqb].
  unfold attribute_value at 1. cbn -[ParseSetting SaveField kSettingFields].
  rewrite saved_fields, ParseSetting_window, fold_saved by apply incl_refl. destruct config as [].
  unfold loadable, assign. cbn -[IsDefinitionBase IsNonEmpty List.filter]. unfold accepted. cbn -[IsDefinitionBase IsNonEmpty].
  assert (forall l : list string, List.filter (fun _ => true) l = l) as Hall by (induction l as [|x l IH]; cbn; [done|by rewrite IH]).
  rewrite Hall. by destruct (IsDefinitionBase _).
Qed.
(** Saved directories end in a slash, so saving again changes nothing. *)
Lemma back_is_slash_appended path : back_is_slash (AppendTrailingSlashIfMissing path) = true.
Proof.
  unfold AppendTrailingSlashIfMissing. destruct (back_is_slash path) eqn:E; [done|]. clear E.
  assert (String.list_ascii_of_string (path +:+ "/") = String.list_ascii_of_string path ++ ["/"%char]) as Hl.
  { induction path as [|c path IH]; [done|]. change (String c path +:+ "/") with (String c (path +:+ "/")). cbn. by f_equal. }
  unfold back_is_slash. by rewrite Hl, rev_app_distr.
Qed.
Lemma AppendTrailingSlash_idemp path : AppendTrailingSlashIfMissing (AppendTrailingSlashIfMissing path) = AppendTrailingSlashIfMissing path.
Proof. unfold AppendTrailingSlashIfMissing at 1. by rewrite back_is_slash_appended. Qed.
Lemma normalized_idemp config : normalized (normalized config) = normalized config.
Proof. destruct config. unfold normalized. cbn. by rewrite !AppendTrailingSlash_idemp. Qed.
End settings.

(** ** Provisioning keeps the files that are there *)
Section keeping.
Context {W : Type} {HW : World W} {FS : FileSystem W} {laws : FileSystemLaws W}.
(** A computation that loses no file whose name [S] admits. *)
Definition keeps (S : string -> Prop) {A} (m : IO W A) : Prop :=
  forall w q d, S q -> file w q = Some d -> file (snd (m w)) q = Some d.
Section rules.
Context (S : string -> Prop).
Lemma keeps_unchanged {A} (m : IO W A) : (forall w, unchanged w (snd (m w))) -> keeps S m.
Proof. intros H w q d _ Hf. by rewrite H. Qed.
Lemma keeps_ret {A} (a : A) : keeps S (io_ret a).
Proof. by intros w q d. Qed.
Lemma keeps_bind {A B} (m : IO W A) (k : A -> IO W B) : keeps S m -> (forall a, keeps S (k a)) -> keeps S (io_bind m k).
Proof.
  intros Hm Hk w q d HS Hf. unfold io_bind. specialize (Hm w q d HS Hf). destruct (m w) as [a w1]. by apply Hk.
Qed.
Lemma keeps_try {A B} (m : IO W (result Error A)) (k : A -> IO W (result Error B)) :
  keeps S m -> (forall a, keeps S (k a)) -> keeps S (io_try m k).
Proof. intros Hm Hk. apply keeps_bind; [done|]. intros [a|e]; [apply Hk|apply keeps_ret]. Qed.
Lemma keeps_log level line : keeps S (io_do (events_Log level line)).
Proof. apply keeps_unchanged. intros w. apply fs_log. Qed.
Lemma keeps_exists p : keeps S (fs_Exists p).
Proof. apply keeps_unchanged. intros w. apply fs_exists. Qed.
Lemma keeps_list p : keeps S (fs_ListDirectory p).
Proof. apply keeps_unchanged. intros w. apply fs_list. Qed.
Lemma keeps_read p : keeps S (files_Read p).
Proof. apply keeps_unchanged. intros w. apply fs_read. Qed.
Lemma EnsureDirectory_keeps p : keeps S (EnsureDirectory p).
Proof.
  apply keeps_bind; [apply keeps_exists|]. intros [|]; [apply keeps_ret|].
  apply keeps_bind; [apply keeps_unchanged; intros w; apply fs_mkdir|].
  intros [u|e]; [apply keeps_ret|]. apply keeps_bind; [apply keeps_log|]. intros _. apply keeps_ret.
Qed.
Lemma EnsureDirectories_keeps ps : keeps S (EnsureDirectories ps).
Proof. induction ps as [|p ps IH]; cbn; [apply keeps_ret|]. apply keeps_try; [apply EnsureDirectory_keeps|done]. Qed.
Lemma not_provisioned_keeps e t : keeps S (not_provisioned e t).
Proof. apply keeps_bind; [apply keeps_log|]. intros _. apply keeps_ret. Qed.
Lemma keeps_write p d w q x : q <> p -> file w q = Some x -> file (snd (files_Write p d w)) q = Some x.
Proof. intros Hq Hf. by rewrite (proj1 (fs_write p d w)). Qed.
Lemma copy_bundle_keeps b dir names : keeps S (copy_bundle b dir names).
Proof.
  induction names as [|name names IH]; cbn [copy_bundle]; [apply keeps_ret|]. intros w q d HS Hf. unfold io_bind, io_do.
  destruct (fs_exists (dir +:+ name) w) as [Hu He]. destruct (fs_Exists (dir +:+ name) w) as [b1 w1]. cbn in Hu, He.
  assert (file w1 q = Some d) as Hf1 by (by rewrite Hu). destruct b1; [by apply IH|].
  assert (q <> dir +:+ name) as Hq. { intros ->. rewrite Hf in He. discriminate He. by eexists. }
  set (w2 := events_Log _ _ w1). assert (file w2 q = Some d) as Hf2 by (unfold w2; by rewrite fs_log).
  pose proof (fs_bundle_read b name w2) as Hb. destruct (bundle_Read b name w2) as [[bytes|e] w3]; cbn in Hb;
    (assert (file w3 q = Some d) as Hf3 by (by rewrite Hb)); [|by apply not_provisioned_keeps].
  pose proof (keeps_write _ bytes w3 q d Hq Hf3) as Hw. destruct (files_Write _ bytes w3) as [[u|e] w4]; cbn in Hw;
    [by apply IH|by apply not_provisioned_keeps].
Qed.
Lemma CopyBundleIfAbsent_keeps b dir : keeps S (CopyBundleIfAbsent b dir).
Proof.
  apply keeps_bind; [apply keeps_unchanged; intros w; apply fs_bundle_list|]. intros [names|e]; [apply copy_bundle_keeps|apply keeps_ret].
Qed.
Context (sort : list DirEntry -> list DirEntry).
Lemma PreviousConfigFile_keeps paths : keeps S (PreviousConfigFile sort paths).
Proof. apply keeps_bind; [apply keeps_list|]. intros [es|e]; [|apply keeps_ret]. destruct (NewestFirst _ _ _); apply keeps_ret. Qed.
Lemma keeps_copy src dst : keeps S (fs_CopyFileTo src dst false).
Proof.
  intros w q d _ Hf. destruct (fs_copy src dst false w) as [Hu Hs]. destruct (decide (q = dst)) as [->|Hq]; [|by rewrite Hu].
  rewrite Hs; [done..|by eexists].
Qed.
Lemma CreateVersionDirectory_keeps paths : keeps S (CreateVersionDirectory sort paths).
Proof.
  apply keeps_bind; [apply PreviousConfigFile_keeps|]. intros previous. apply keeps_try; [apply EnsureDirectories_keeps|].
  intros _. destruct previous; [|apply keeps_ret]. apply keeps_bind; [apply keeps_copy|]. intros ?. apply keeps_ret.
Qed.
Lemma remove_logs_keeps dir fs : (forall q f, S q -> f ∈ fs -> q <> dir +:+ entry_name f) -> keeps S (remove_logs dir fs).
Proof.
  induction fs as [|f fs IH]; intros Hd; cbn [remove_logs]; [apply keeps_ret|]. apply keeps_bind.
  - intros w q d HS Hf. rewrite (fs_remove (dir +:+ entry_name f) w q); [done|]. apply Hd; [done|by left].
  - intros [u|e]; [|apply keeps_ret]. apply IH. intros q g HS Hg. apply Hd; [done|by right].
Qed.
End rules.
Context (sort : list DirEntry -> list DirEntry).
Definition outside (dir : string) (q : string) : Prop := String.prefix dir q = false.
Lemma prefix_app dir name : String.prefix dir (dir +:+ name) = true.
Proof.
  induction dir as [|c dir IH]; [by destruct name|]. change (String c dir +:+ name) with (String c (dir +:+ name)). cbn.
  by destruct (Ascii.ascii_dec c c).
Qed.
Lemma PruneSyslogs_keeps paths : keeps (outside (syslog_files_directory paths)) (PruneSyslogs sort paths).
Proof.
  apply keeps_bind; [apply keeps_list|]. intros [es|e]; [|apply keeps_ret]. apply remove_logs_keeps.
  intros q f HS _ ->. unfold outside in HS. by rewrite prefix_app in HS.
Qed.
Lemma Provision_keeps paths : keeps (outside (syslog_files_directory paths)) (ProvisionConfigDirectories sort paths).
Proof.
  apply keeps_try; [apply EnsureDirectory_keeps|intros _]. apply keeps_try; [|intros _].
  { destruct (negb _); [|apply keeps_ret]. apply keeps_bind; [apply keeps_exists|].
    intros [|]; [apply keeps_ret|apply CreateVersionDirectory_keeps]. }
  apply keeps_try; [apply EnsureDirectories_keeps|intros _].
  do 2 (apply keeps_try; [apply CopyBundleIfAbsent_keeps|intros _]). apply PruneSyslogs_keeps.
Qed.
End keeping.

(** ** The newest logs stay *)
Section newest.
Implicit Types (e f : DirEntry) (es : list DirEntry).
Definition newer (a b : DirEntry) : Prop := modified_time_epoch_seconds b <= modified_time_epoch_seconds a.
(** What [std::ranges::sort] promises. *)
Definition sorts (sort : list DirEntry -> list DirEntry) : Prop :=
  forall es, sort es ≡ₚ es /\ StronglySorted newer (sort es).
#[export] Instance newer_dec a b : Decision (newer a b).
Proof. unfold newer. apply _. Defined.
Definition files_of es : list DirEntry := List.filter (fun e => Bool.eqb (is_directory e) false) es.
(** How many files are at least as new. *)
Definition rank es f : nat := length (filter (fun e => newer e f) (files_of es)).
Lemma sorted_rank l pre f post : StronglySorted newer l -> l = pre ++ f :: post ->
  (length pre < length (filter (fun e => newer e f) l))%nat.
Proof.
  intros Hs ->. rewrite filter_app, length_app. assert (length (filter (fun e => newer e f) pre) = length pre) as ->.
  { assert (Forall (fun e => newer e f) pre) as Hf.
    { apply list.Forall_forall. intros e He. apply (StronglySorted_app_1_elem_of _ pre (f :: post) _ _ Hs He). by left. }
    clear Hs. induction Hf as [|e pre He Hf IH]; [done|]. rewrite filter_cons_True by done. cbn. by rewrite IH. }
  rewrite filter_cons_True by (unfold newer; lia). cbn. lia.
Qed.
Lemma kept_newest sort es f : sorts sort -> NoDup (entry_name <$> files_of es) -> f ∈ files_of es -> (rank es f <= 20)%nat ->
  forall e, e ∈ skipn 20 (NewestFirst sort es false) -> entry_name e <> entry_name f.
Proof.
  intros Hsort Hnd Hf Hr e He. unfold NewestFirst in He. fold (files_of es) in He. destruct (Hsort (files_of es)) as [Hp Hs].
  rewrite <- Hp in Hf. apply list_elem_of_split in Hf as (pre & post & Hl). rewrite <- Hp in Hnd. unfold rank in Hr.
  rewrite <- Hp in Hr. pose proof (sorted_rank _ _ _ _ Hs Hl) as Hlt. rewrite Hl in He, Hnd. rewrite skipn_app in He.
  rewrite skipn_all2, app_nil_l in He by lia. rewrite fmap_app, fmap_cons in Hnd. apply NoDup_app in Hnd as (_ & _ & Hnd).
  apply NoDup_cons in Hnd as [Hnin _]. intros En. apply Hnin. rewrite <- En. apply list_elem_of_fmap_2.
  destruct (20 - length pre)%nat as [|n] eqn:En20; [lia|]. cbn in He.
  rewrite <- (firstn_skipn n post). apply elem_of_app. by right.
Qed.
End newest.
Section pruning.
Context {W : Type} {HW : World W} {FS : FileSystem W} {laws : FileSystemLaws W} (sort : list DirEntry -> list DirEntry) (sort_ok : sorts sort).
Lemma string_app_inj a b c : (a +:+ b)%string = a +:+ c -> b = c.
Proof.
  induction a as [|x a IH]; [done|]. change (String x a +:+ b) with (String x (a +:+ b)).
  change (String x a +:+ c) with (String x (a +:+ c)). intros [= H]. by apply IH.
Qed.
Lemma PruneSyslogs_newest paths w es f d :
  fst (fs_ListDirectory (syslog_files_directory paths) w) = Ok es -> NoDup (entry_name <$> files_of es) ->
  f ∈ files_of es -> (rank es f <= 20)%nat ->
  file w (syslog_files_directory paths +:+ entry_name f) = Some d ->
  file (snd (PruneSyslogs sort paths w)) (syslog_files_directory paths +:+ entry_name f) = Some d.
Proof.
  intros Hes Hnd Hf Hr Hd. unfold PruneSyslogs, io_bind. pose proof (fs_list (syslog_files_directory paths) w) as Hu.
  destruct (fs_ListDirectory _ w) as [r w1]. cbn in Hes, Hu. subst r.
  apply (remove_logs_keeps (fun q => q = syslog_files_directory paths +:+ entry_name f)); [|done|by rewrite Hu].
  intros q e -> He En%string_app_inj. symmetry in En. revert En. by apply (kept_newest sort es).
Qed.
(** Provisioning an installation, whether it succeeds or stops on an error, loses no file
    outside the directory of system logs and overwrites none: what a path held before it
    holds after. Of the system logs it removes only some beyond the 20 newest: a log that at
    most 20 log files, itself included, are as new as stays. *)
Theorem provisioning_keeps_files paths w :
  (forall q d, outside (syslog_files_directory paths) q -> file w q = Some d ->
     file (snd (ProvisionConfigDirectories sort paths w)) q = Some d)
  /\ (forall es f d, fst (fs_ListDirectory (syslog_files_directory paths) w) = Ok es -> NoDup (entry_name <$> files_of es) ->
        f ∈ files_of es -> (rank es f <= 20)%nat ->
        file w (syslog_files_directory paths +:+ entry_name f) = Some d ->
        file (snd (PruneSyslogs sort paths w)) (syslog_files_directory paths +:+ entry_name f) = Some d).
Proof.
  split.
  - intros q d. apply Provision_keeps.
  - intros es f d. apply PruneSyslogs_newest.
Qed.
End pruning.

(** ** Restarting with saved settings *)
Section restarting.
Context {W : Type} {HW : World W} {FS : FileSystem W} {laws : FileSystemLaws W} (sort : list DirEntry -> list DirEntry)
  (load_buffer : list Z -> result string (list XmlNode)) (save : list XmlNode -> list Z).
(** The printer writes bytes, and the parser reads a settings document it printed. *)
Definition prints_settings : Prop :=
  forall config, loadable config = config ->
    bytes_ok (save (config_document config)) /\ load_buffer (save (config_document config)) = Ok (config_document config).
(** Settings a restart gives back. *)
Definition restorable (catalog : Catalog) (paths : ConfigPaths) (c : AppConfig) : Prop :=
  WithDefaults c paths = c /\ loadable c = c
  /\ (ac_selected_vehicle_id c = ""%string \/ is_Some (FindVehicle catalog (ac_selected_vehicle_id c))).
Lemma DefaultIfEmpty_idemp a b : DefaultIfEmpty (DefaultIfEmpty a b) b = DefaultIfEmpty a b.
Proof. unfold DefaultIfEmpty. destruct (String.eqb a "") eqn:E; [by destruct (String.eqb b "")|by rewrite E]. Qed.
Lemma WithDefaults_eq c paths : WithDefaults c paths =
  mkAppConfig
    (DefaultIfEmpty (ac_window_width c) "default") (DefaultIfEmpty (ac_window_height c) "default")
    (DefaultIfEmpty (ac_toolbar_iconsize c) "32") (DefaultIfEmpty (ac_serial_port c) "ttyUSB0")
    (ac_selected_vehicle_id c) (ac_selected_flash_transport c) (ac_selected_log_transport c)
    (ac_selected_log_protocol c) (DefaultIfEmpty (ac_primary_definition_base c) "ecuflash") (ac_calibration_files c)
    (DefaultIfEmpty (ac_calibration_files_directory c) (calibration_files_directory paths))
    (DefaultIfEmpty (ac_use_romraider_definitions c) "disabled") (ac_romraider_definition_files c)
    (DefaultIfEmpty (ac_use_ecuflash_definitions c) "disabled") (ac_ecuflash_definition_files_directory c)
    (ac_romraider_logger_definition_file c)
    (DefaultIfEmpty (ac_datalog_files_directory c) (datalog_files_directory paths)).
Proof. by destruct c. Qed.
Lemma WithDefaults_idemp c paths : WithDefaults (WithDefaults c paths) paths = WithDefaults c paths.
Proof. rewrite !WithDefaults_eq. cbn. by rewrite !DefaultIfEmpty_idemp. Qed.
Lemma AppendTrailingSlash_default a b : AppendTrailingSlashIfMissing b = b ->
  AppendTrailingSlashIfMissing (DefaultIfEmpty a b) = DefaultIfEmpty (AppendTrailingSlashIfMissing a) b.
Proof.
  intros Hb. unfold DefaultIfEmpty. destruct (String.eqb_spec a "") as [->|Ha]; [by rewrite Hb|].
  destruct (String.eqb_spec (AppendTrailingSlashIfMissing a) "") as [E|]; [|done]. exfalso. apply Ha.
  unfold AppendTrailingSlashIfMissing in E. destruct (back_is_slash a); [done|]. by destruct a.
Qed.
Definition slashed (paths : ConfigPaths) : Prop :=
  AppendTrailingSlashIfMissing (calibration_files_directory paths) = calibration_files_directory paths
  /\ AppendTrailingSlashIfMissing (datalog_files_directory paths) = datalog_files_directory paths.
Lemma slash_end s t : back_is_slash (s +:+ String t "/") = true.
Proof.
  assert (String.list_ascii_of_string (s +:+ String t "/") = String.list_ascii_of_string s ++ [t; "/"%char]) as Hl.
  { induction s as [|c s IH]; [done|]. change (String c s +:+ String t "/") with (String c (s +:+ String t "/")). cbn. by f_equal. }
  unfold back_is_slash. by rewrite Hl, rev_app_distr.
Qed.
Lemma string_app_assoc a b c : ((a +:+ b) +:+ c)%string = (a +:+ (b +:+ c))%string.
Proof. induction a as [|x a IH]; [done|]. change (String x (((a +:+ b) +:+ c)) = String x (a +:+ (b +:+ c))). by f_equal. Qed.
Lemma ResolveConfigPaths_slashed root version : slashed (ResolveConfigPaths root version).
Proof.
  unfold slashed, AppendTrailingSlashIfMissing, ResolveConfigPaths. cbn [calibration_files_directory datalog_files_directory].
  change "/calibrations/"%string with ("/calibration" +:+ "s/")%string. change "/datalogs/"%string with ("/datalog" +:+ "s/")%string.
  rewrite <- !string_app_assoc, !slash_end. done.
Qed.
Lemma normalized_defaults c paths : slashed paths -> normalized (WithDefaults c paths) = WithDefaults (normalized c) paths.
Proof.
  intros [H1 H2]. destruct c. unfold normalized, WithDefaults. cbn. by rewrite !AppendTrailingSlash_default.
Qed.
Lemma loadable_idemp c : loadable (loadable c) = loadable c.
Proof.
  destruct c as [? ? ? ? ? ? ? ? base ? ? ? files ? ? ? ?]. unfold loadable. cbn. f_equal.
  - destruct (IsDefinitionBase base) eqn:E; cbn; [by rewrite E|done].
  - induction files as [|f files IH]; cbn; [done|]. destruct (IsNonEmpty f) eqn:E; cbn; [by rewrite E, IH|done].
Qed.
Lemma loadable_default b : IsDefinitionBase (DefaultIfEmpty (if IsDefinitionBase b then b else "") "ecuflash") = true.
Proof. destruct (IsDefinitionBase b) eqn:E; [|done]. unfold DefaultIfEmpty. by destruct (String.eqb b ""). Qed.
Lemma loaded_restorable c paths : loadable (WithDefaults (loadable c) paths) = WithDefaults (loadable c) paths.
Proof.
  pose proof (loadable_idemp c) as H. destruct c as [? ? ? ? ? ? ? ? base ? ? ? files ? ? ? ?]. unfold loadable, WithDefaults in *. cbn in *.
  injection H as H1 H2. rewrite loadable_default. by rewrite H2.
Qed.
Lemma normalized_loadable c : loadable (normalized c) = normalized (loadable c).
Proof. by destruct c. Qed.
End restarting.


(** ** A restart gives the settings back *)
Section restart.
Lemma set_keeps_loadable f v c : In f kSettingFields -> accepted f v = true -> loadable c = c ->
  match sf_member f with single _ set => loadable (set v c) = set v c | many get set => loadable (set (get c ++ [v]) c) = set (get c ++ [v]) c end.
Proof.
  intros Hf Ha Hc. destruct c as [? ? ? ? ? ? ? ? base ? ? ? files ? ? ? ?]. unfold loadable in Hc. cbn in Hc. injection Hc as H1 H2.
  cbn [In kSettingFields] in Hf. repeat destruct Hf as [<-|Hf]; try done; unfold loadable; cbn in *; try (by rewrite ?H1, ?H2).
  - by rewrite Ha, H2.
  - rewrite H1. f_equal. rewrite List.filter_app, H2. cbn. by rewrite Ha.
Qed.
Lemma ParseField_loadable s f c : In f kSettingFields -> loadable c = c -> loadable (ParseField s f c) = ParseField s f c.
Proof.
  intros Hf. unfold ParseField. pose proof (fun v c => set_keeps_loadable f v c Hf) as Hk. destruct (sf_member f) as [get set|get set].
  - intros Hc. cbv zeta. destruct (accepted f _) eqn:Ea; [by apply Hk|done].
  - revert c. induction (children (Some s) "value") as [|v vs IH]; intros c Hc; cbn [fold_left]; [done|]. apply IH.
    cbv zeta. destruct (accepted f _) eqn:Ea; [by apply Hk|done].
Qed.
Lemma ParseWindowSize_loadable s c : loadable c = c -> loadable (ParseWindowSize s c) = ParseWindowSize s c.
Proof.
  unfold ParseWindowSize. revert c. induction (children (Some s) "value") as [|v vs IH]; intros c Hc; cbn [fold_left]; [done|].
  apply IH. unfold parse_size. destruct c as []. unfold loadable in *. cbn in Hc. injection Hc as H1 H2.
  destruct (negb _); [|destruct (negb _)]; cbn; by rewrite H1, H2.
Qed.
Lemma ParseSetting_loadable c s : loadable c = c -> loadable (ParseSetting c s) = ParseSetting c s.
Proof.
  intros Hc. unfold ParseSetting. cbv zeta. destruct (String.eqb _ _); [by apply ParseWindowSize_loadable|].
  destruct (List.find _ _) as [f|] eqn:Ef; [|done]. apply find_some in Ef as [Hf _]. by apply ParseField_loadable.
Qed.
Lemma parse_document_loadable doc : loadable (parse_document doc) = parse_document doc.
Proof.
  unfold parse_document. cbv zeta. assert (loadable empty_config = empty_config) as H by done. revert H. generalize empty_config.
  induction (children _ "setting") as [|s ss IH]; intros c Hc; cbn [fold_left]; [done|]. by apply IH, ParseSetting_loadable.
Qed.
Context {W : Type} {HW : World W} {FS : FileSystem W} {laws : FileSystemLaws W} (sort : list DirEntry -> list DirEntry)
  (load_buffer : list Z -> result string (list XmlNode)) (save : list XmlNode -> list Z).
Definition known_vehicle (catalog : Catalog) (c : AppConfig) : AppConfig :=
  match FindVehicle catalog (ac_selected_vehicle_id c) with Some _ => c | None => set_selected_vehicle_id "" c end.
Lemma known_vehicle_ok catalog paths c : WithDefaults c paths = c -> loadable c = c -> restorable catalog paths (known_vehicle catalog c).
Proof.
  intros Hd Hl. unfold known_vehicle, restorable. destruct (FindVehicle _ _) eqn:E; [split_and!; try done; right; by rewrite E|].
  split; [rewrite WithDefaults_eq in *|split; [|by left; destruct c]]; destruct c.
  - cbn in *. by injection Hd as -> -> -> -> -> -> -> -> ->.
  - unfold loadable in *. cbn in *. by injection Hl as -> ->.
Qed.
Lemma known_vehicle_id catalog paths c : restorable catalog paths c -> known_vehicle catalog c = c.
Proof.
  intros (_ & _ & [E|[row E]]); unfold known_vehicle.
  - destruct (FindVehicle _ _); [done|]. destruct c. cbn in *. by subst.
  - by rewrite E.
Qed.
(** What a successful [Initialize] leaves, from the parsed settings. *)
Lemma Initialize_inv s root version w s' w' : Initialize sort load_buffer save s root version w = ((Ok tt, s'), w') ->
  exists w1 parsed, snd (ProvisionConfigDirectories sort (ResolveConfigPaths root version) w) = w1
    /\ fst (ParseAppConfig load_buffer (ResolveConfigPaths root version) w1) = Ok parsed
    /\ catalog_ s' = catalog_ s /\ initialized_ s' = true /\ provisioned_ s' = ResolveConfigPaths root version
    /\ exists c, settings_ s' = known_vehicle (catalog_ s) c
         /\ (c = WithDefaults parsed (ResolveConfigPaths root version)
             \/ c = normalized (WithDefaults parsed (ResolveConfigPaths root version))).
Proof.
  unfold Initialize, io_bind. cbv zeta. set (paths := ResolveConfigPaths root version).
  destruct (ProvisionConfigDirectories sort paths w) as [[u|e] w1]; [|discriminate].
  destruct (ParseAppConfig load_buffer paths w1) as [[parsed|e] w2] eqn:Ep; [|discriminate].
  unfold SaveAppConfig, io_try, io_bind. cbv zeta. destruct (files_Write _ _ w2) as [[u2|e] w3]; cbn; intros [= <- <-];
    exists w1, parsed; rewrite Ep; (split_and!; [done..|]); (eexists; split; [reflexivity|]); first [by left|by right].
Qed.
Lemma ParseAppConfig_loadable paths w parsed : fst (ParseAppConfig (W := W) load_buffer paths w) = Ok parsed -> loadable parsed = parsed.
Proof.
  unfold ParseAppConfig, io_try, io_bind. destruct (files_Read _ w) as [[bytes|e] w1]; [|discriminate].
  destruct (load_buffer bytes); [|discriminate]. intros [= <-]. apply parse_document_loadable.
Qed.
Lemma Initialize_restorable s root version w s' w' : Initialize sort load_buffer save s root version w = ((Ok tt, s'), w') ->
  restorable (catalog_ s') (provisioned_ s') (settings_ s').
Proof.
  intros (w1 & parsed & _ & Hp & -> & _ & -> & c & -> & Hc)%Initialize_inv. apply ParseAppConfig_loadable in Hp.
  pose proof (loaded_restorable parsed (ResolveConfigPaths root version)) as Hl. rewrite Hp in Hl.
  pose proof (ResolveConfigPaths_slashed root version) as Hs.
  destruct Hc as [-> | ->]; apply known_vehicle_ok; [apply WithDefaults_idemp|done| |].
  - by rewrite normalized_defaults, WithDefaults_idemp.
  - by rewrite normalized_loadable, Hl.
Qed.
Lemma config_file_outside root version : outside (syslog_files_directory (ResolveConfigPaths root version)) (config_file (ResolveConfigPaths root version)).
Proof.
  unfold outside. cbn [syslog_files_directory config_file ResolveConfigPaths]. rewrite !string_app_assoc.
  assert (forall a b c, String.prefix (a +:+ b) (a +:+ c) = String.prefix b c) as Hp.
  { induction a as [|x a IH]; intros b c; [done|]. change (String.prefix (String x (a +:+ b)) (String x (a +:+ c)) = String.prefix b c).
    cbn. destruct (Ascii.ascii_dec x x); [apply IH|done]. }
  by rewrite !Hp.
Qed.
(** Settings edits that keep a session restorable: choosing vehicles. *)
Definition select_rows (s : ConfigSession) (rows : list Z) : ConfigSession := fold_left (fun s row => fst (SelectRow s row)) rows s.
Lemma position_is_Some {A} (g : A -> bool) l n a : a ∈ l -> g a = true -> is_Some (position g n l).
Proof.
  revert n. induction l as [|x l IH]; intros n Hin Ha; [by apply elem_of_nil in Hin|]. cbn. destruct (g x) eqn:E; [by eexists|].
  apply elem_of_cons in Hin as [<-|Hin]; [congruence|]. by apply IH.
Qed.
Definition restorable_session (s : ConfigSession) : Prop := restorable (catalog_ s) (provisioned_ s) (settings_ s).
Lemma SelectRow_restorable s row : restorable_session s -> restorable_session (fst (SelectRow s row)).
Proof.
  unfold SelectRow. destruct (negb _); [done|]. cbv zeta. destruct (zlookup _ row) as [v|] eqn:Ev; [|done].
  unfold restorable_session, restorable. cbn. intros (Hd & Hl & _). split_and!.
  - rewrite WithDefaults_eq in *. destruct (settings_ s). cbn in *. by injection Hd as -> -> -> -> -> -> -> -> ->.
  - destruct (settings_ s). unfold loadable in *. cbn in *. by injection Hl as -> ->.
  - assert (ac_selected_vehicle_id (set_selected_log_protocol (log_protocol_of v) (set_selected_vehicle_id (id v) (settings_ s))) = id v) as ->
      by (by destruct (settings_ s)).
    unfold FindVehicle. destruct (String.eqb_spec (id v) "") as [E|E]; [by left|right].
    apply (position_is_Some _ _ _ v); [|apply String.eqb_refl]. unfold zlookup in Ev. case_decide; [|done]. by eapply list_elem_of_lookup_2.
Qed.
Lemma select_rows_keeps s rows : restorable_session s -> restorable_session (select_rows s rows)
  /\ catalog_ (select_rows s rows) = catalog_ s /\ initialized_ (select_rows s rows) = initialized_ s
  /\ provisioned_ (select_rows s rows) = provisioned_ s.
Proof.
  unfold select_rows. revert s. induction rows as [|row rows IH]; intros s Hs; [done|]. cbn [fold_left].
  destruct (IH (fst (SelectRow s row)) (SelectRow_restorable s row Hs)) as (H1 & H2 & H3 & H4). split; [done|].
  rewrite H2, H3, H4. unfold SelectRow. destruct (negb _); [done|]. cbv zeta. by destruct (zlookup _ row).
Qed.
Lemma saved_settings_load root version s w s1 w1 s3 s2 w2 :
  prints_settings load_buffer save -> initialized_ s = true -> provisioned_ s = ResolveConfigPaths root version -> restorable_session s ->
  Save (W := W) save s w = ((Ok tt, s1), w1) -> catalog_ s3 = catalog_ s ->
  Initialize sort load_buffer save s3 root version w1 = ((Ok tt, s2), w2) -> s2 = s1.
Proof.
  intros Hprint Hi Hpr Hr Hsave Hcat Hinit. unfold Save in Hsave. rewrite Hi in Hsave. cbn [negb] in Hsave.
  unfold SaveAppConfig, io_try, io_bind in Hsave. cbv zeta in Hsave. rewrite Hpr in Hsave.
  set (paths := ResolveConfigPaths root version) in *. set (c := normalized (settings_ s)) in *.
  assert (loadable c = c) as Hlc by (unfold c; by rewrite normalized_loadable, (proj1 (proj2 Hr))).
  destruct (Hprint c Hlc) as [Hbytes Hload]. pose proof (proj2 (fs_write (config_file paths) (save (config_document c)) w)) as Hfile.
  destruct (files_Write _ _ w) as [[[]|e] w'] eqn:Ew; [|discriminate]. injection Hsave as <- <-. cbn in Hfile. specialize (Hfile eq_refl Hbytes).
  apply (Provision_keeps sort paths w' (config_file paths) _ (config_file_outside root version)) in Hfile.
  destruct (Initialize_inv _ _ _ _ _ _ Hinit) as (w3 & parsed & Hw3 & Hp & E1 & E2 & E3 & c2 & E4 & Hc2). rewrite Hcat in *.
  unfold ParseAppConfig, io_try, io_bind in Hp. pose proof (proj2 (fs_read (config_file paths) w3)) as Hread.
  fold paths in Hw3, Hp. rewrite Hw3 in Hfile. specialize (Hread _ Hfile). destruct (files_Read (config_file paths) w3) as [r w4]. cbn in Hread. subst r.
  rewrite Hload in Hp. unfold io_ret in Hp. cbn [fst] in Hp. injection Hp as <-. rewrite settings_read_back in Hc2. fold paths in Hc2.
  destruct Hr as (Hd & Hl & Hv). rewrite Hpr in Hd. pose proof (ResolveConfigPaths_slashed root version : slashed paths) as Hs.
  assert (WithDefaults c paths = c) as Hdc by (unfold c; by rewrite <- normalized_defaults, Hd).
  assert (c2 = c) as ->. { rewrite Hlc, Hdc in Hc2. destruct Hc2 as [-> | ->]; [done|]. apply normalized_idemp. }
  assert (known_vehicle (catalog_ s) c = c) as Hk.
  { apply (known_vehicle_id _ paths). split_and!; try done. unfold c. by destruct (settings_ s). }
  destruct s2. cbn in *. subst. rewrite Hk. unfold with_settings. by rewrite Hi, Hpr.
Qed.
(** C18: Settings survive a restart. Initialise a session, choose any vehicles, save, and
    initialise again over the same files: the second session is the saved one, its
    catalog, paths, settings and selected vehicle, whatever the first file held, as long as
    the XML printer's documents parse and the file system keeps what was written. *)
Theorem settings_survive_restart root version s0 w0 s w rows w' s1 w1 s3 s2 w2 :
  prints_settings load_buffer save ->
  Initialize sort load_buffer save s0 root version w0 = ((Ok tt, s), w) ->
  Save (W := W) save (select_rows s rows) w' = ((Ok tt, s1), w1) ->
  catalog_ s3 = catalog_ s0 -> Initialize sort load_buffer save s3 root version w1 = ((Ok tt, s2), w2) ->
  s2 = s1.
Proof.
  intros Hprint H0 Hsave Hcat H2. pose proof (Initialize_restorable _ _ _ _ _ _ H0) as Hr.
  destruct (Initialize_inv _ _ _ _ _ _ H0) as (_ & _ & _ & _ & Ec & Ei & Ep & _).
  destruct (select_rows_keeps s rows Hr) as (Hr' & Ec' & Ei' & Ep').
  exact (saved_settings_load root version (select_rows s rows) w' s1 w1 s3 s2 w2 Hprint ltac:(congruence) ltac:(congruence) Hr' Hsave
    ltac:(congruence) H2).
Qed.
End restart.

(** ** A printer and a parser of settings, for an example *)
Section samples.
Definition config_strings (c : AppConfig) : list (list string) :=
  let '(mkAppConfig a b c d e f g h i j k l m n o p q) := c in
  [[a]; [b]; [c]; [d]; [e]; [f]; [g]; [h]; [i]; j; [k]; [l]; m; [n]; [o]; [p]; [q]].
Definition strings_config (l : list (list string)) : AppConfig :=
  match l with
  | [[a]; [b]; [c]; [d]; [e]; [f]; [g]; [h]; [i]; j; [k]; [l]; m; [n]; [o]; [p]; [q]] => mkAppConfig a b c d e f g h i j k l m n o p q
  | _ => empty_config
  end.
Definition sample_save (doc : list XmlNode) : list Z := pos_bits (encode (config_strings (parse_document doc))).
Definition sample_load (bytes : list Z) : result string (list XmlNode) :=
  match decode (bits_pos bytes) with
  | Some l => Ok (config_document (strings_config l))
  | None => Err "no document element found"%string
  end.
Lemma sample_prints : prints_settings sample_load sample_save.
Proof.
  intros c Hc. unfold sample_save, sample_load. rewrite settings_read_back, Hc. split; [apply pos_bits_bytes|].
  rewrite bits_pos_bits, decode_encode. by destruct c.
Qed.
Definition sample_sort : list DirEntry -> list DirEntry := merge_sort newer.
Lemma sample_sorts : sorts sample_sort.
Proof.
  assert (Transitive newer) by (intros a b c; unfold newer; lia). assert (Total newer) by (intros a b; unfold newer; lia).
  intros es. split; [apply merge_sort_Permutation|by apply StronglySorted_merge_sort].
Qed.
Definition sample_config_disk : Disk :=
  {| disk_files := [("/fastecu/1.0/config/fastecu.cfg"%string, sample_save (config_document empty_config));
                    ("/fastecu/1.0/calibrations/rom.bin"%string, [1; 2; 3])]; disk_log := [] |}.
Lemma provisioning_keeps_files_witness :
  file (snd (ProvisionConfigDirectories sample_sort (ResolveConfigPaths "/fastecu" "1.0") sample_config_disk)) "/fastecu/1.0/calibrations/rom.bin"
  = Some [1; 2; 3].
Proof.
  exact (proj1 (provisioning_keeps_files sample_sort sample_sorts (ResolveConfigPaths "/fastecu" "1.0") sample_config_disk)
    "/fastecu/1.0/calibrations/rom.bin"%string [1; 2; 3] ltac:(reflexivity) ltac:(reflexivity)).
Defined.
#[local] Abbreviation start s := (Initialize sample_sort sample_load sample_save s "/fastecu" "1.0").
Lemma settings_survive_restart_witness :
  exists s w s1 w1 s2 w2, start (new_config_session sample_catalog) sample_config_disk = ((Ok tt, s), w)
    /\ Save sample_save (select_rows s [0]) w = ((Ok tt, s1), w1)
    /\ start (new_config_session sample_catalog) w1 = ((Ok tt, s2), w2) /\ s2 = s1.
Proof.
  destruct (start (new_config_session sample_catalog) sample_config_disk) as [[[[]|e] s] w] eqn:E0; [|vm_compute in E0; discriminate].
  destruct (Save sample_save (select_rows s [0]) w) as [[[[]|e] s1] w1] eqn:E1.
  2: { vm_compute in E0. injection E0 as <- <-. vm_compute in E1. discriminate. }
  destruct (start (new_config_session sample_catalog) w1) as [[[[]|e] s2] w2] eqn:E2.
  2: { vm_compute in E0. injection E0 as <- <-. vm_compute in E1. injection E1 as <- <-. vm_compute in E2. discriminate. }
  exists s, w, s1, w1, s2, w2. split; [reflexivity|]. split; [exact E1|]. split; [exact E2|].
  exact (settings_survive_restart sample_sort sample_load sample_save "/fastecu" "1.0" _ _ s w [0] w s1 w1 _ s2 w2
    sample_prints E0 E1 eq_refl E2).
Defined.
End samples.
