(* ===== verification/RomOpen.v ===== *)
(** * RomOpen: [src/backend/definition/definition_catalog_session.cpp],
    [src/backend/calibration/session/rom_open.cpp]

    Opening a ROM file or adopting an image read off a unit: the catalogs of definitions
    the settings name, the definition the ROM is matched to, the memory map of its
    protocol, and the vehicle selected by it; and the calibration workspace over that.
    Files and events are those of a [World], definitions come through the interface
    [DefinitionCatalogs]. *)
From stdpp Require Import gmap.
From S2P Require Import Prelude.
From S2P Require Import MemoryMap MemoryImage.
From S2P Require Import Catalog.
From S2P Require Import BuiltinCatalog.
From S2P Require Import Expression Numeric.
From S2P Require Import CalibrationLayout NumericEdit.
From S2P Require Import CalibrationSession.
From S2P Require Import Xml.
From S2P Require Import DefinitionModel.
From S2P Require Import DefinitionResolver DefinitionParsers DefinitionWriter DefinitionService.
From S2P Require Import Configuration.
From S2P Require Import Ports Files.

(** ** [ports/error.h] *)
Definition ToString (k : ErrorKind) : string :=
  match k with
  | kInvalidConfig => "InvalidConfig" | kTimeout => "Timeout" | kDisconnected => "Disconnected" | kBadResponse => "BadResponse"
  | kCancelled => "Cancelled" | kUnsupported => "Unsupported" | kInternal => "Internal"
  end.
Definition error_line (operation : string) (error : Error) : string :=
  operation +:+ " [" +:+ ToString (kind error) +:+ "]: " +:+ detail error.

(** ** [IDefinitionCatalogs]

    An open asks for a catalog, and for where a definition was indexed. *)
Class DefinitionCatalogs (C W : Type) := {
  catalogs_Catalog : ConfigSession -> C -> DefinitionFormat -> IO W (result Error DefinitionCatalog);
  catalogs_IndexedSource : C -> DefinitionFormat -> string -> option string
}.

(** ** [DefinitionCatalogSession] *)
Module DefinitionCatalogSession.
Record IndexEntry := { ix_definition_id : string; ix_source : string }.
Record Session := { ecuflash_index_ : list IndexEntry; romraider_index_ : list IndexEntry; submitted_ecuflash_handles_ : list string }.
Definition new_session : Session := {| ecuflash_index_ := []; romraider_index_ := []; submitted_ecuflash_handles_ := [] |}.
Section session.
(** [fuel] bounds how deep directories nest. *)
Context {W : Type} {HW : World W} (load_buffer load_all : list Z -> result string (list XmlNode)) (save : list XmlNode -> list Z)
  (tenth_text : string -> option string) (fuel : nat).
Definition Catalog (config : ConfigSession) (s : Session) (format : DefinitionFormat) : IO W (result Error DefinitionCatalog) :=
  match format with
  | kRomRaider => BuildRomraiderCatalog load_buffer (ac_romraider_definition_files (settings_ config)) true
  | kEcuFlash =>
      BuildEcuflashCatalog load_buffer fuel (ac_ecuflash_definition_files_directory (settings_ config)) (submitted_ecuflash_handles_ s) true
  end.
Definition Index (s : Session) (format : DefinitionFormat) : list IndexEntry :=
  match format with kRomRaider => romraider_index_ s | kEcuFlash => ecuflash_index_ s end.
Definition set_index (s : Session) (format : DefinitionFormat) (index : list IndexEntry) : Session :=
  match format with
  | kRomRaider => {| ecuflash_index_ := ecuflash_index_ s; romraider_index_ := index; submitted_ecuflash_handles_ := submitted_ecuflash_handles_ s |}
  | kEcuFlash => {| ecuflash_index_ := index; romraider_index_ := romraider_index_ s; submitted_ecuflash_handles_ := submitted_ecuflash_handles_ s |}
  end.
Definition IndexedSource (s : Session) (format : DefinitionFormat) (id : string) : option string :=
  match List.find (fun r => String.eqb (ix_definition_id r) id) (Index s format) with
  | Some found => if String.eqb (ix_source found) "" then None else Some (ix_source found)
  | None => None
  end.
Definition LogError (operation : string) (error : Error) : IO W unit := io_do (events_Log LError (error_line operation error)).
Definition is_romraider (format : DefinitionFormat) : bool := match format with kRomRaider => true | kEcuFlash => false end.
Definition format_name (format : DefinitionFormat) : string := if is_romraider format then "RomRaider" else "EcuFlash".
Fixpoint log_handles (handles : list string) : IO W unit :=
  match handles with
  | [] => io_ret tt
  | handle :: handles =>
      io _ <- io_do (events_Log LDebug ("Reading RomRaider ID's from file: " +:+ handle)); log_handles handles
  end.
Fixpoint notice_missing (handles : list string) : IO W unit :=
  match handles with
  | [] => io_ret tt
  | handle :: handles =>
      io exists_ <- fs_Exists handle;
      if exists_ then notice_missing handles
      else io_do (events_Notice ("Ecu definition file: Unable to open romraider definition file " +:+ handle +:+ " for reading"))
  end.
Definition index_of (format : DefinitionFormat) (catalog : DefinitionCatalog) : list IndexEntry :=
  map (fun e => {| ix_definition_id := de_definition_id e; ix_source := de_source e |})
    (List.filter (fun e => bool_decide (de_format e = format)) (Entries catalog)).
Definition distinct (l : list string) : Z := zlen (remove_dups l).
Definition RefreshIndex (config : ConfigSession) (s : Session) (format : DefinitionFormat) : IO W (Status * Session) :=
  let settings := settings_ config in
  let romraider := is_romraider format in
  let name := format_name format in
  let files := ac_romraider_definition_files settings in
  if (if romraider then bool_decide (files = []) else String.eqb (ac_ecuflash_definition_files_directory settings) "") then
    io _ <- io_do (events_Log LDebug (if romraider then "No RomRaider definition files" else "No EcuFlash definition files directory"));
    io_ret (Ok tt, s)
  else
    io _ <- (if romraider then log_handles files else io_ret tt);
    io scanned <- Catalog config s format;
    match scanned with
    | Err e =>
        io _ <- LogError ("Unable to build " +:+ name +:+ " definition catalog") e;
        io _ <- (if romraider then notice_missing files else io_ret tt);
        io_ret (Err e, s)
    | Ok scanned =>
        let replacement := index_of format scanned in
        let s := set_index s format replacement in
        let count := if romraider then zlen files else distinct (map ix_source replacement) in
        io _ <- io_do (events_Log LDebug (fmt_d count +:+ " " +:+ name +:+ " definition files found"));
        io _ <- io_do (events_Log LDebug (fmt_d (zlen replacement) +:+ " " +:+ name +:+ " ecu id's found"));
        io_ret (Ok tt, s)
    end.
(** [lower_bound] and the insertion before it. *)
Fixpoint insert_handle (destination : string) (handles : list string) : list string :=
  match handles with
  | [] => [destination]
  | handle :: handles =>
      if String.ltb handle destination then handle :: insert_handle destination handles
      else if String.eqb handle destination then handle :: handles else destination :: handle :: handles
  end.
Definition RememberSubmission (s : Session) (destination id : string) : Session :=
  {| ecuflash_index_ := ecuflash_index_ s ++ [{| ix_definition_id := TrimHeaderText id; ix_source := destination |}];
     romraider_index_ := romraider_index_ s;
     submitted_ecuflash_handles_ := insert_handle destination (submitted_ecuflash_handles_ s) |}.
Definition remember (s : Session) (destination id operation : string) (status : Status) : IO W (Status * Session) :=
  match status with
  | Err e => io _ <- LogError operation e; io_ret (status, s)
  | Ok _ => io_ret (status, RememberSubmission s destination id)
  end.
Definition SubmitNewDefinition (s : Session) (destination : string) (input : DefinitionHeaderInput) (allow_overwrite : bool)
    : IO W (Status * Session) :=
  io status <- CreateDefinition load_buffer tenth_text save destination input allow_overwrite;
  remember s destination (in_xml_id input) "Unable to create definition" status.
Definition SubmitImportedDefinition (s : Session) (source destination : string) (input : DefinitionHeaderInput)
    : IO W (Status * Session) :=
  io status <- ImportDefinition load_buffer tenth_text load_all save source destination input;
  remember s destination (in_xml_id input) "Unable to import definition" status.
#[export] Instance catalogs : DefinitionCatalogs Session W :=
  {| catalogs_Catalog := Catalog; catalogs_IndexedSource := IndexedSource |}.
End session.
End DefinitionCatalogSession.

(** ** [RomOpenUseCase] *)
Module RomOpenUseCase.
Definition DisplayName (path : string) : string := basename path.
(** The text from a position, empty past the end. *)
Definition substr (n : nat) (s : string) : string := of_chars (skipn n (to_chars s)).
Definition ChecksumModuleFor (flash_method : string) : string :=
  "checksum" +:+ (if 3 <? zlen (to_chars flash_method) then substr 3 flash_method else "").
Definition FormatName (format : DefinitionFormat) : string := match format with kEcuFlash => "EcuFlash" | kRomRaider => "RomRaider" end.
Record ReadImage := {
  ri_rom : list Z; ri_filename : string; ri_rom_id : string; ri_protocol_name : string; ri_kernel_path : string;
  ri_kernel_start_address : string
}.
Record Seed := {
  sd_source : RomSource; sd_rom : list Z; sd_rom_id : string; sd_flash_method : string; sd_kernel_path : string;
  sd_kernel_start_address : string
}.
Section use_case.
Context {W C : Type} {HW : World W} {HC : DefinitionCatalogs C W} (load_buffer : list Z -> result string (list XmlNode))
  (tenth_text : string -> option string).
Definition ReadRom (file_handle : string) : IO W (result Error (list Z)) := files_Read file_handle.
Definition BackupRom (rom_data : list Z) (backup_handle : string) : IO W unit :=
  io _ <- files_Write backup_handle rom_data; io_ret tt.
Definition LogError (operation : string) (error : Error) : IO W unit := io_do (events_Log LError (error_line operation error)).
Definition spec_of (config : ConfigSession) (name : string) : option ProtocolSpec := option_map spec (FindProtocol config name).
Definition protocol_name_of (v : VehicleSpec) : string := match protocol v with Some p => name (spec p) | None => "" end.
Definition MemoryMapsFor (config : ConfigSession) (file_size : Z) : MemoryMapLookup := fun flash_method =>
  let name := match VehicleForAlias config flash_method with Some aliased => protocol_name_of aliased | None => flash_method end in
  match SelectMemoryMap (spec_of config name) file_size with
  | Ok map => Some map
  | Err _ => match SelectMemoryMap None file_size with Ok map => Some map | Err _ => None end
  end.
Definition ResolveAlias (config : ConfigSession) (flash_method : string) : IO W string :=
  match VehicleForAlias config flash_method with
  | None => io_ret flash_method
  | Some vehicle =>
      io _ <- io_do (events_Log LDebug ("Alias: " +:+ flash_method));
      io _ <- io_do (events_Log LDebug ("Protocol: " +:+ protocol_name_of vehicle));
      io_ret (protocol_name_of vehicle)
  end.
Definition not_in_catalog {A} : result Error A := Fail kInvalidConfig "definition is not in the catalog".
(** The definition of an identifier, the error line and the notice of one that does not load included. *)
Definition load_or_report (format : DefinitionFormat) (rom_id source : string) (loaded : result Error RomDefinition)
    : IO W (option ResolvedDefinition) :=
  match loaded with
  | Ok definition => io_ret (Some {| res_format := format; res_id := rom_id; res_definition := definition |})
  | Err e =>
      io _ <- LogError ("Unable to read " +:+ FormatName format +:+ " definition " +:+ rom_id) e;
      if String.eqb source "" then io_ret None
      else
        io exists_ <- fs_Exists source;
        if exists_ then io_ret None
        else
          io _ <- io_do (events_Notice ("Ecu definitions file: Unable to open ECU definition file " +:+ source +:+ " for reading"));
          io_ret None
  end.
Definition TryFormat (config : ConfigSession) (catalogs_ : C) (format : DefinitionFormat) (rom : list Z) (rom_id : string)
    : IO W (option ResolvedDefinition * string) :=
  let match_operation := "Unable to match " +:+ FormatName format +:+ " definition" in
  io catalog <- catalogs_Catalog config catalogs_ format;
  match catalog with
  | Err e => io _ <- LogError match_operation e; io_ret (None, rom_id)
  | Ok catalog =>
      io rom_id <- match MatchRom catalog rom (MemoryMapsFor config (zlen rom)) with
                   | Ok entry =>
                       io _ <- io_do (events_Log LDebug (FormatName format +:+ " cal id " +:+ de_definition_id entry +:+ " found"));
                       io_ret (de_definition_id entry)
                   | Err e => io _ <- LogError match_operation e; io_ret rom_id
                   end;
      if String.eqb rom_id "" then io_ret (None, rom_id)
      else
        match Find catalog format rom_id with
        | Ok entry =>
            io loaded <- Load load_buffer tenth_text catalog format rom_id;
            io definition <- load_or_report format rom_id (de_source entry) loaded;
            io_ret (definition, rom_id)
        | Err _ =>
            match catalogs_IndexedSource catalogs_ format rom_id with
            | None => io_ret (None, rom_id)
            | Some source => io definition <- load_or_report format rom_id source not_in_catalog; io_ret (definition, rom_id)
            end
        end
  end.
(** One format if it is enabled, then the other if nothing was found. *)
Definition try_both (config : ConfigSession) (catalogs_ : C) (first second : DefinitionFormat) (first_enabled second_enabled : bool)
    (rom : list Z) (rom_id : string) : IO W (option ResolvedDefinition * string) :=
  io found <- (if first_enabled then TryFormat config catalogs_ first rom rom_id else io_ret (None, rom_id));
  match found with
  | (None, rom_id) => if second_enabled then TryFormat config catalogs_ second rom rom_id else io_ret (None, rom_id)
  | found => io_ret found
  end.
Definition FindDefinition (config : ConfigSession) (catalogs_ : C) (rom : list Z) (rom_id : string)
    : IO W (option ResolvedDefinition * string) :=
  let settings := settings_ config in
  let ecuflash_enabled := String.eqb (ac_use_ecuflash_definitions settings) "enabled" in
  let romraider_enabled := String.eqb (ac_use_romraider_definitions settings) "enabled" in
  if (String.eqb (ac_primary_definition_base settings) "ecuflash" || negb romraider_enabled)
     && negb (String.eqb (ac_ecuflash_definition_files_directory settings) "") then
    try_both config catalogs_ kEcuFlash kRomRaider ecuflash_enabled romraider_enabled rom rom_id
  else if String.eqb (ac_primary_definition_base settings) "romraider" && negb (bool_decide (ac_romraider_definition_files settings = [])) then
    try_both config catalogs_ kRomRaider kEcuFlash romraider_enabled ecuflash_enabled rom rom_id
  else io_ret (None, rom_id).
Definition checksum_text (support : ChecksumSupport) (flash_method : string) : string :=
  match support with
  | kCorrected => ChecksumModuleFor flash_method
  | kMissing => "Not implemented yet"
  | kNoChecksum => "No checksums"
  end.
Definition Finish (config : ConfigSession) (catalogs_ : C) (seed : Seed) : IO W (result Error RomOpenOutcome * ConfigSession) :=
  io found <- FindDefinition config catalogs_ (sd_rom seed) (sd_rom_id seed);
  let '(definition, rom_id) := found in
  io resolved <- match definition with
                 | Some d =>
                     io method <- ResolveAlias config (md_flash_method (rd_metadata (res_definition d)));
                     io_ret (method, md_checksum_module (rd_metadata (res_definition d)))
                 | None => io_ret (sd_flash_method seed, ""%string)
                 end;
  let '(flash_method, checksum_module) := resolved in
  match PlaceRomFile (spec_of config flash_method) (sd_rom seed) with
  | Err e =>
      let error := {| kind := kInvalidConfig; detail := MemoryMap.detail e; cancellation_io_exposure := kMayHaveStarted |} in
      io _ <- LogError "ROM file does not fit its protocol's memory map" error;
      io _ <- io_do (events_Notice ("File size error: " +:+ MemoryMap.detail e));
      io_ret (Fail kInvalidConfig (MemoryMap.detail e), config)
  | Ok image =>
      let '(config, vehicle_selected) := SelectByProtocolName config flash_method in
      let vehicle := SelectedVehicle config in
      let selected := vehicle ≫= protocol in
      let checksum_module := match selected with Some p => checksum_text (checksum (spec p)) flash_method | None => checksum_module end in
      io_ret (Ok {|
        o_contents := {|
          c_source := sd_source seed; c_image := image; c_definition := definition;
          c_protocol := {|
            pi_flash_method := flash_method; pi_checksum_module := checksum_module;
            pi_mcu_type := match selected with Some p => mcu (spec p) | None => "" end;
            pi_kernel_path := sd_kernel_path seed; pi_kernel_start_address := sd_kernel_start_address seed;
            pi_rom_id := rom_id; pi_file_size_label := fmt_d (zlen (sd_rom seed) / 1024) +:+ "kb" |} |};
        o_vehicle_selected := vehicle_selected |}, config)
  end.
Definition OpenFile (config : ConfigSession) (catalogs_ : C) (path : string) : IO W (result Error RomOpenOutcome * ConfigSession) :=
  if String.eqb path "" then io_ret (Fail kInvalidConfig "open_file called with no filename", config)
  else
    io rom <- ReadRom path;
    match rom with
    | Err e =>
        io _ <- LogError "Unable to open calibration file" e;
        io _ <- io_do (events_Notice "Calibration file: Unable to open calibration file for reading");
        io_ret (Err e, config)
    | Ok rom =>
        Finish config catalogs_
          {| sd_source := {| src_display_name := DisplayName path; src_path := path; src_origin := OFile |}; sd_rom := rom;
             sd_rom_id := ""; sd_flash_method := ""; sd_kernel_path := ""; sd_kernel_start_address := "" |}
    end.
Definition AdoptReadImage (config : ConfigSession) (catalogs_ : C) (image : ReadImage) : IO W (result Error RomOpenOutcome * ConfigSession) :=
  if String.eqb (ri_filename image) "" then io_ret (Fail kInvalidConfig "adopt_read_image called with no filename", config)
  else if bool_decide (ri_rom image = []) then io_ret (Fail kInvalidConfig "adopt_read_image called with an empty image", config)
  else
    io _ <- BackupRom (ri_rom image) (calibration_files_directory (EffectivePaths config) +:+ "read.bin");
    Finish config catalogs_
      {| sd_source := {| src_display_name := DisplayName (ri_filename image); src_path := ri_filename image; src_origin := OEcuRead |};
         sd_rom := ri_rom image; sd_rom_id := ri_rom_id image; sd_flash_method := ri_protocol_name image;
         sd_kernel_path := ri_kernel_path image; sd_kernel_start_address := ri_kernel_start_address image |}.
End use_case.
End RomOpenUseCase.

(** ** What an open leaves *)
Section loading.
Lemma ResolveDefinition_wf {St} (loader : DefinitionFormat -> string -> St -> result Error UnresolvedDefinition * St) root st rom :
  (forall f p st d, fst (loader f p st) = Ok d -> definition_u32 d) -> definition_u32 root ->
  fst (ResolveDefinition root loader st) = Ok rom -> definition_ok rom /\ Forall map_wf (rd_maps rom).
Proof.
  intros Hl Hr. unfold ResolveDefinition, ResolveRoot. destruct (Resolve _ _ _ _ _) as [[r|e] s] eqn:E; [|discriminate]. cbn.
  destruct (complete r) as [rom'|] eqn:Ec; [|discriminate]. intros [= <-]. split; [by apply complete_ok in Ec as [? _]|].
  eapply complete_wf; [|exact Ec].
  refine (proj1 (Resolve_keeps loader (ud_format root) definition_u32 _ OverlayDefinition_u32 Hl _ root (new_resolver st) r s Hr _ E)).
  - constructor.
  - intros i x. cbn. by rewrite lookup_empty.
Qed.
Context {W : Type} {HW : World W} (load_buffer : list Z -> result string (list XmlNode)) (tenth_text : string -> option string).
Lemma catalog_loader_u32 catalog f p (st : W * option Error) d : fst (catalog_loader load_buffer tenth_text catalog f p st) = Ok d -> definition_u32 d.
Proof.
  unfold catalog_loader. destruct (Find catalog f p) as [e|]; [|discriminate]. destruct st as [w re].
  destruct (files_Read _ w) as [[data|e'] w1]; [|discriminate]. cbn. destruct f.
  - intros H. by eapply ParseRomraiderDefinition_u32.
  - intros (x & Hx & H)%result_bind_Ok. destruct (String.eqb _ _); [|discriminate]. injection H as <-. by eapply ParseEcuflashDefinition_u32.
Qed.
Lemma Load_wf catalog f id (w : W) rom : fst (Load load_buffer tenth_text catalog f id w) = Ok rom -> definition_ok rom /\ Forall map_wf (rd_maps rom).
Proof.
  unfold Load. pose proof (catalog_loader_u32 catalog f id (w, None)) as Hr.
  destruct (catalog_loader _ _ catalog f id (w, None)) as [[root|e] [w1 re]]; [|discriminate]. specialize (Hr root eq_refl).
  pose proof (fun rom => ResolveDefinition_wf (catalog_loader load_buffer tenth_text catalog) root (w1, re) rom
    (fun f p st d => catalog_loader_u32 catalog f p st d) Hr) as Hres.
  destruct (ResolveDefinition root _ (w1, re)) as [[r|e] [w2 [re2|]]]; cbn in *; try discriminate; intros [= <-]; by apply Hres.
Qed.
Lemma definition_ok_selections d : definition_ok d -> selections_ok d.
Proof.
  intros (Hs & _). unfold selections_ok. eapply Forall_impl; [exact Hs|]. intros sc (_ & _ & width & _ & Hf).
  eapply Forall_impl; [exact Hf|]. by intros c (_ & ? & _).
Qed.
End loading.

Section placing.
(** The constants of a catalog have the types of its fields. *)
Definition spec_typed (s : MemoryMapSpec) : Prop := Forall block_ok (map_blocks s) /\ 0 <= map_definition_base s <= kU32Max.
Definition catalog_typed (c : Catalog) : Prop := Forall (fun o => Forall spec_typed (memory_maps (spec o))) (Protocols c).
Definition map_typed (m : MemoryMap) : Prop := MemoryMap.map_ok m /\ 0 <= definition_base_ m <= kU32Max.
Lemma Create_typed blocks n base m : Forall block_ok blocks -> 0 <= base <= kU32Max -> 0 <= n <= kU32Max ->
  MemoryMap.Create blocks n base = Ok m -> map_typed m.
Proof.
  intros Hb Hbase Hn E. pose proof (Create_layout blocks n base Hb Hn) as H. rewrite E in H. destruct H as [-> Hl].
  split; [|done]. split_and!; cbn; try done; by destruct Hn.
Qed.
Lemma Identity_typed n m : 0 < n <= kU32Max -> Identity n = Ok m -> map_typed m.
Proof.
  intros Hn. unfold Identity. rewrite Make_spec, decide_True by lia. intros E. eapply Create_typed; [| | |exact E]; unfold kU32Max in *; try lia.
  constructor; [|constructor]. split; [unfold range_ok, kU32Max; cbn; lia|cbn; lia].
Qed.
Lemma SelectMemoryMap_typed p n m : 0 <= n -> (forall s, p = Some s -> Forall spec_typed (memory_maps s)) -> SelectMemoryMap p n = Ok m ->
  map_typed m /\ file_size_ m = n.
Proof.
  intros Hn Hp. unfold SelectMemoryMap. destruct (Z.eqb_spec n 0); [discriminate|]. unfold FromSize. destruct (Z.ltb_spec kU32Max n); [discriminate|].
  assert (forall m, Identity n = Ok m -> map_typed m /\ file_size_ m = n) as Hid.
  { intros m' E. split; [by apply Identity_typed in E; [|lia]|]. unfold Identity in E. destruct (Make 0 n); [|discriminate]. apply Create_Ok in E as ->. done. }
  destruct p as [s|]; [|apply Hid]. destruct (memory_maps s) as [|m0 ms] eqn:Em; [apply Hid|].
  destruct (List.find _ _) as [x|] eqn:Ef; [|discriminate]. apply find_some in Ef as [Hin Ex%Z.eqb_eq]. intros E.
  specialize (Hp s eq_refl). rewrite Em, list.Forall_forall in Hp. destruct (Hp x) as [Hb Hbase]; [by apply list_elem_of_In|].
  rewrite Ex in E. split; [eapply Create_typed; [done| | |exact E]; lia|]. by apply Create_Ok in E as ->.
Qed.
Lemma PlaceRomFile_typed p rom img : (forall s, p = Some s -> Forall spec_typed (memory_maps s)) -> bytes_ok rom -> PlaceRomFile p rom = Ok img ->
  image_ok img /\ 0 <= definition_base_ (map_ img) <= kU32Max /\ file_ img = rom /\ SelectMemoryMap p (zlen rom) = Ok (map_ img).
Proof.
  intros Hp Hb. unfold PlaceRomFile. intros (m & Em & H)%result_bind_Ok.
  destruct (SelectMemoryMap_typed p (zlen rom) m (zlen_nonneg rom) Hp Em) as [[Hm Hbase] Hsz].
  unfold MemoryImage_Create in H. rewrite Hsz, Z.eqb_refl in H. injection H as <-. split; [|done]. unfold image_ok. cbn. by rewrite Hsz.
Qed.
Lemma spec_of_typed config name s : catalog_typed (catalog_ config) -> RomOpenUseCase.spec_of config name = Some s -> Forall spec_typed (memory_maps s).
Proof.
  intros Hc. unfold RomOpenUseCase.spec_of, FindProtocol. destruct (initialized_ config); [|done].
  unfold Catalog.FindProtocol. destruct (List.find _ _) as [o|] eqn:E; [|done]. intros [= <-]. apply find_some in E as [Hin _].
  unfold catalog_typed in Hc. rewrite list.Forall_forall in Hc. apply Hc. by apply list_elem_of_In.
Qed.
End placing.

Section opening.
Context {W C : Type} {HW : World W} {HC : DefinitionCatalogs C W} (load_buffer : list Z -> result string (list XmlNode))
  (tenth_text : string -> option string).
(** What a computation answers, in every world. *)
Definition yields {A} (m : IO W A) (P : A -> Prop) : Prop := forall w, P (fst (m w)).
Lemma yields_ret {A} (a : A) (P : A -> Prop) : P a -> yields (io_ret a) P.
Proof. by intros H w. Qed.
Lemma yields_bind {A B} (m : IO W A) (k : A -> IO W B) (Q : A -> Prop) (P : B -> Prop) :
  yields m Q -> (forall a, Q a -> yields (k a) P) -> yields (io_bind m k) P.
Proof. intros Hm Hk w. unfold io_bind. specialize (Hm w). destruct (m w) as [a w1]. by apply Hk. Qed.
Lemma yields_any {A} (m : IO W A) : yields m (fun _ => True).
Proof. by intros w. Qed.
Definition definition_good (d : ResolvedDefinition) : Prop :=
  definition_ok (res_definition d) /\ Forall map_wf (rd_maps (res_definition d)).
Definition found_good (found : option ResolvedDefinition * string) : Prop :=
  forall d, fst found = Some d -> definition_good d /\ res_id d = snd found.
Lemma found_none id : found_good (None, id).
Proof. by intros d. Qed.
Lemma load_or_report_good format id source loaded : (forall rom, loaded = Ok rom -> definition_ok rom /\ Forall map_wf (rd_maps rom)) ->
  yields (RomOpenUseCase.load_or_report (W := W) format id source loaded) (fun d => found_good (d, id)).
Proof.
  intros Hl. unfold RomOpenUseCase.load_or_report. destruct loaded as [rom|e].
  - apply yields_ret. intros d [= <-]. split; [by apply Hl|done].
  - eapply yields_bind; [apply yields_any|]. intros _ _. destruct (String.eqb _ _); [apply yields_ret, found_none|].
    eapply yields_bind; [apply yields_any|]. intros [] _; [apply yields_ret, found_none|].
    eapply yields_bind; [apply yields_any|]. intros _ _. apply yields_ret, found_none.
Qed.
Lemma TryFormat_good config cs format rom id : yields (RomOpenUseCase.TryFormat load_buffer tenth_text config cs format rom id) found_good.
Proof.
  unfold RomOpenUseCase.TryFormat. cbv zeta. eapply yields_bind; [apply yields_any|]. intros [catalog|e] _.
  2: { eapply yields_bind; [apply yields_any|]. intros _ _. apply yields_ret, found_none. }
  eapply yields_bind; [apply yields_any|]. intros id' _. destruct (String.eqb id' ""); [apply yields_ret, found_none|].
  assert (forall d, found_good (d, id') -> yields (io_ret (d, id')) found_good) as Hret by (intros d; apply yields_ret).
  destruct (Find catalog format id') as [entry|e].
  - eapply (yields_bind _ _ (fun l => forall r, l = Ok r -> definition_ok r /\ Forall map_wf (rd_maps r))).
    { intros w r. apply Load_wf. }
    intros l Hl. eapply yields_bind; [by apply load_or_report_good|]. exact Hret.
  - destruct (catalogs_IndexedSource cs format id'); [|apply yields_ret, found_none].
    eapply yields_bind; [apply load_or_report_good; intros r; discriminate|]. exact Hret.
Qed.
Lemma try_both_good config cs f1 f2 e1 e2 rom id :
  yields (RomOpenUseCase.try_both load_buffer tenth_text config cs f1 f2 e1 e2 rom id) found_good.
Proof.
  unfold RomOpenUseCase.try_both. eapply (yields_bind _ _ found_good).
  { destruct e1; [apply TryFormat_good|apply yields_ret, found_none]. }
  intros [[d|] id'] Hf; [by apply yields_ret|]. destruct e2; [apply TryFormat_good|by apply yields_ret].
Qed.
Lemma FindDefinition_good config cs rom id : yields (RomOpenUseCase.FindDefinition load_buffer tenth_text config cs rom id) found_good.
Proof.
  unfold RomOpenUseCase.FindDefinition. cbv zeta. destruct (_ && _); [apply try_both_good|]. destruct (_ && _); [apply try_both_good|].
  apply yields_ret, found_none.
Qed.
(** The protocol a definition's flash method stands for. *)
Definition aliased (config : ConfigSession) (flash_method : string) : string :=
  match VehicleForAlias config flash_method with Some v => RomOpenUseCase.protocol_name_of v | None => flash_method end.
Lemma ResolveAlias_aliased config m : yields (RomOpenUseCase.ResolveAlias config m) (fun r => r = aliased config m).
Proof.
  unfold RomOpenUseCase.ResolveAlias, aliased. destruct (VehicleForAlias config m) as [v|]; [|by apply yields_ret].
  do 2 (eapply yields_bind; [apply yields_any|]; intros _ _). by apply yields_ret.
Qed.
(** What a successful open is. *)
Record opened (config : ConfigSession) (rom : list Z) (method0 : string) (o : RomOpenOutcome) (config' : ConfigSession) : Prop := {
  opened_image : PlaceRomFile (RomOpenUseCase.spec_of config (pi_flash_method (c_protocol (o_contents o)))) rom = Ok (c_image (o_contents o));
  opened_method : pi_flash_method (c_protocol (o_contents o))
    = match c_definition (o_contents o) with
      | Some d => aliased config (md_flash_method (rd_metadata (res_definition d)))
      | None => method0
      end;
  opened_definition : forall d, c_definition (o_contents o) = Some d -> definition_good d /\ res_id d = pi_rom_id (c_protocol (o_contents o));
  opened_selection : (config', o_vehicle_selected o) = SelectByProtocolName config (pi_flash_method (c_protocol (o_contents o)))
}.
Definition open_result (config : ConfigSession) (rom : list Z) (method0 : string) (r : result Error RomOpenOutcome * ConfigSession) : Prop :=
  match r with
  | (Ok o, config') => opened config rom method0 o config'
  | (Err _, config') => config' = config
  end.
Lemma Finish_result config cs seed :
  yields (RomOpenUseCase.Finish load_buffer tenth_text config cs seed)
    (open_result config (RomOpenUseCase.sd_rom seed) (RomOpenUseCase.sd_flash_method seed)).
Proof.
  unfold RomOpenUseCase.Finish. eapply yields_bind; [apply FindDefinition_good|]. intros [definition id] Hd.
  eapply (yields_bind _ _ (fun r => fst r = match definition with
    | Some d => aliased config (md_flash_method (rd_metadata (res_definition d))) | None => RomOpenUseCase.sd_flash_method seed end)).
  { destruct definition as [d|]; [|by apply yields_ret]. eapply yields_bind; [apply ResolveAlias_aliased|]. intros r ->. by apply yields_ret. }
  intros [method module] Hm. cbn in Hm. destruct (PlaceRomFile _ _) as [img|e] eqn:Ep.
  - destruct (SelectByProtocolName config method) as [config' selected] eqn:Es. apply yields_ret. split; cbn; try done.
  - do 2 (eapply yields_bind; [apply yields_any|]; intros _ _). by apply yields_ret.
Qed.
Lemma OpenFile_result config cs path w :
  match fst (RomOpenUseCase.OpenFile load_buffer tenth_text config cs path w) with
  | (Ok o, config') => exists rom, fst (files_Read path w) = Ok rom /\ opened config rom "" o config'
  | (Err _, config') => config' = config
  end.
Proof.
  unfold RomOpenUseCase.OpenFile. destruct (String.eqb path ""); [done|]. unfold io_bind at 1, RomOpenUseCase.ReadRom.
  destruct (files_Read path w) as [[rom|e] w1]; [|done].
  pose proof (Finish_result config cs {| RomOpenUseCase.sd_source := {| src_display_name := RomOpenUseCase.DisplayName path; src_path := path; src_origin := OFile |};
    RomOpenUseCase.sd_rom := rom; RomOpenUseCase.sd_rom_id := ""; RomOpenUseCase.sd_flash_method := ""; RomOpenUseCase.sd_kernel_path := "";
    RomOpenUseCase.sd_kernel_start_address := "" |} w1) as H. unfold open_result in H. cbn [RomOpenUseCase.sd_rom RomOpenUseCase.sd_flash_method] in H.
  destruct (fst _) as [[o|e] config']; [|done]. by exists rom.
Qed.
Lemma AdoptReadImage_result config cs image w :
  match fst (RomOpenUseCase.AdoptReadImage load_buffer tenth_text config cs image w) with
  | (Ok o, config') => opened config (RomOpenUseCase.ri_rom image) (RomOpenUseCase.ri_protocol_name image) o config'
  | (Err _, config') => config' = config
  end.
Proof.
  unfold RomOpenUseCase.AdoptReadImage. destruct (String.eqb _ ""); [done|]. destruct (bool_decide _); [done|]. unfold io_bind at 1.
  destruct (RomOpenUseCase.BackupRom _ _ w) as [[] w1].
  match goal with |- context [RomOpenUseCase.Finish _ _ _ _ ?seed _] => pose proof (Finish_result config cs seed w1) as H end.
  unfold open_result in H. exact H.
Qed.
Lemma opened_session config rom m0 o config' i : catalog_typed (catalog_ config) -> bytes_ok rom -> opened config rom m0 o config' ->
  let s := new_session i (o_contents o) in
  session_ok s /\ definition_wf s /\ File s = rom /\ (forall d, definition_ s = Some d -> selections_ok (res_definition d)).
Proof.
  intros Hc Hb [Hi _ Hd _]. cbv zeta. destruct (PlaceRomFile_typed _ _ _ (fun s => spec_of_typed config _ s Hc) Hb Hi) as (Hok & Hbase & Hf & _).
  split; [by split|]. split; [intros d Hd'; apply (Hd d Hd')|]. split; [done|]. intros d Hd'. apply definition_ok_selections, (Hd d Hd').
Qed.
End opening.


(** ** The vehicle selected by protocol *)
Section selecting.
Lemma last_row_spec f row last (l : list VehicleSpec) :
  (exists pre v post, l = pre ++ v :: post /\ f v = true /\ Forall (fun v => f v = false) post /\ Catalog.last_row f row last l = Some (row + zlen pre))
  \/ (Forall (fun v => f v = false) l /\ Catalog.last_row f row last l = last).
Proof.
  revert row last. induction l as [|v l IH]; intros row last; cbn [Catalog.last_row]; [by right|].
  destruct (IH (row + 1) (if f v then Some row else last)) as [(pre & x & post & -> & Hx & Hp & E)|[Hf E]].
  - left. exists (v :: pre), x, post. split_and!; try done. rewrite E. f_equal. rewrite zlen_cons. lia.
  - destruct (f v) eqn:Ev; [|right; by split; [constructor|]]. left. exists [], v, l. split_and!; try done. rewrite E. f_equal. unfold zlen. cbn. lia.
Qed.
(** The settings with a vehicle selected. *)
Definition selecting (s : ConfigSession) (v : VehicleSpec) : ConfigSession :=
  with_settings s (set_selected_log_protocol (log_protocol_of v) (set_selected_vehicle_id (id v) (settings_ s))).
Lemma SelectByProtocolName_spec s name :
  match SelectByProtocolName s name with
  | (s', true) => exists pre v post, Catalog.Vehicles (catalog_ s) = pre ++ v :: post /\ has_protocol_named name v = true
      /\ Forall (fun v => has_protocol_named name v = false) post /\ s' = selecting s v
  | (s', false) => s' = s /\ (initialized_ s = true -> Forall (fun v => has_protocol_named name v = false) (Catalog.Vehicles (catalog_ s)))
  end.
Proof.
  unfold SelectByProtocolName. destruct (initialized_ s) eqn:Ei; cbn [negb]; [|done]. unfold LastVehicleForProtocol.
  destruct (last_row_spec (has_protocol_named name) 0 None (Catalog.Vehicles (catalog_ s))) as [(pre & v & post & Hl & Hv & Hp & ->)|[Hf ->]]; [|done].
  unfold SelectRow. rewrite Ei. cbn [negb]. cbv zeta. rewrite Hl.
  assert (zlookup (pre ++ v :: post) (0 + zlen pre) = Some v) as ->.
  { unfold zlookup. rewrite Z.add_0_l, decide_True by apply zlen_nonneg. unfold zlen. rewrite Nat2Z.id. apply list_lookup_middle. done. }
  by exists pre, v, post.
Qed.
End selecting.

(** ** The application over opens, edits and saves *)
Section application.
Context {W C : Type} {HW : World W} {HT : WorldTyped W} {HC : DefinitionCatalogs C W} {Num : Numeric} {NumD : DoubleSpec} {NumS : NumericSpec}
  (load_buffer : list Z -> result string (list XmlNode)) (tenth_text : string -> option string).
Record App := { app_config : ConfigSession; app_catalogs : C; app_workspace : CalibrationWorkspace; app_world : W }.
(** What the user and the outside may do: open, adopt, close, edit, save, choose a
    vehicle, and change the world or the sources of definitions in any way. *)
Inductive AppOp : Type :=
| AOpen (path : string)
| AAdopt (image : RomOpenUseCase.ReadImage)
| AClose (id : Z)
| AEditNumeric (ref : MapRef) (sel : NumericSelection) (op : NumericEditOperation)
| AEditSelectable (ref : MapRef) (name : string)
| AMarkSaved (id : Z) (path : string)
| ASetProtocol (id : Z) (protocol : RomProtocolInfo)
| ASelectRow (row : Z)
| AOutside (catalogs : C) (world : W).
Definition on_session (ws : CalibrationWorkspace) (id : Z) (f : CalibrationSession -> CalibrationSession) : CalibrationWorkspace :=
  match FindSession ws id with Some s => update_session ws (f s) | None => ws end.
Definition with_workspace (a : App) (ws : CalibrationWorkspace) : App :=
  {| app_config := app_config a; app_catalogs := app_catalogs a; app_workspace := ws; app_world := app_world a |}.
Definition app_step (a : App) (op : AppOp) : App :=
  match op with
  | AOpen path =>
      let '((opened, config), w) := RomOpenUseCase.OpenFile load_buffer tenth_text (app_config a) (app_catalogs a) path (app_world a) in
      {| app_config := config; app_catalogs := app_catalogs a; app_workspace := fst (OpenFile (app_workspace a) opened); app_world := w |}
  | AAdopt image =>
      let '((adopted, config), w) := RomOpenUseCase.AdoptReadImage load_buffer tenth_text (app_config a) (app_catalogs a) image (app_world a) in
      {| app_config := config; app_catalogs := app_catalogs a; app_workspace := fst (AdoptReadImage (app_workspace a) adopted); app_world := w |}
  | AClose id => with_workspace a (fst (Close (app_workspace a) id))
  | AEditNumeric ref sel op => with_workspace a (fst (EditNumeric (app_workspace a) ref sel op))
  | AEditSelectable ref name => with_workspace a (fst (EditSelectable (app_workspace a) ref name))
  | AMarkSaved id path => with_workspace a (on_session (app_workspace a) id (fun s => MarkSaved s path))
  | ASetProtocol id protocol => with_workspace a (on_session (app_workspace a) id (fun s => SetProtocol s protocol))
  | ASelectRow row =>
      {| app_config := fst (SelectRow (app_config a) row); app_catalogs := app_catalogs a; app_workspace := app_workspace a;
         app_world := app_world a |}
  | AOutside catalogs w => {| app_config := app_config a; app_catalogs := catalogs; app_workspace := app_workspace a; app_world := w |}
  end.
Definition app_run (a : App) (ops : list AppOp) : App := fold_left app_step ops a.
(** An image read off a unit is made of bytes. *)
Definition op_typed (op : AppOp) : Prop := match op with AAdopt image => bytes_ok (RomOpenUseCase.ri_rom image) | _ => True end.
Definition session_good (s : CalibrationSession) : Prop :=
  session_ok s /\ definition_wf s /\ forall d, definition_ s = Some d -> selections_ok (res_definition d).
(** The invariant: a typed catalog, good sessions, and distinct identifiers below the
    counter, of which [used] values are gone. *)
Definition app_ok (a : App) (used : Z) : Prop :=
  catalog_typed (catalog_ (app_config a)) /\ Forall session_good (sessions_ (app_workspace a)) /\ ids_ok (app_workspace a) used.
Lemma app_ok_workspace a used : app_ok a used -> workspace_ok (app_workspace a).
Proof.
  intros (_ & Hs & Hn & Hi & _). split; [|done]. eapply Forall_impl; [exact Hs|]. by intros s (? & ? & _).
Qed.
Lemma ids_ok_same ws ws' used : Ids ws' = Ids ws -> next_id_ ws' = next_id_ ws -> ids_ok ws used -> ids_ok ws' (used + 1).
Proof. intros E1 E2 (H1 & H2 & H3). unfold ids_ok. rewrite E1, E2. split_and!; try done; lia. Qed.
Lemma opened_insert config config' rom m0 (r : result Error RomOpenOutcome) ws :
  catalog_typed (catalog_ config) -> bytes_ok rom ->
  match r with Ok o => opened config rom m0 o config' | Err _ => config' = config end ->
  Forall session_good (sessions_ ws) ->
  Forall session_good (sessions_ (fst (OpenFile ws r))) /\ catalog_typed (catalog_ config').
Proof.
  intros Hc Hb Hr Hs. destruct r as [o|e]; [|by subst]. cbn. split.
  - apply List.Forall_app. split; [done|]. constructor; [|constructor].
    destruct (opened_session config rom m0 o config' (next_id_ ws) Hc Hb Hr) as (? & ? & _ & ?). done.
  - destruct Hr as [_ _ _ Hsel]. pose proof (SelectByProtocolName_spec config (pi_flash_method (c_protocol (o_contents o)))) as Hspec.
    rewrite <- Hsel in Hspec. destruct (o_vehicle_selected o); [|by destruct Hspec as [-> _]]. by destruct Hspec as (? & v & ? & _ & _ & _ & ->).
Qed.
Lemma replace_good s' ss : session_good s' -> Forall session_good ss -> Forall session_good (replace_id s' ss).
Proof. intros. by apply replace_Forall. Qed.
Lemma session_good_same s s' : session_good s -> session_ok s' -> same_but_bytes s s' -> session_good s'.
Proof.
  intros (_ & Hw & Hsel) Hs' Hsame. split; [done|]. split; [by eapply definition_wf_same|]. destruct Hsame as (_ & _ & E & _).
  intros d Hd. apply Hsel. by rewrite <- E.
Qed.
Lemma EditNumeric_good ws ref sel op : workspace_ok ws -> Forall session_good (sessions_ ws) ->
  Forall session_good (sessions_ (fst (EditNumeric ws ref sel op))).
Proof.
  intros Hws Hs. pose proof (EditNumeric_cases ws ref sel op Hws) as Hc. destruct (EditNumeric ws ref sel op) as [ws' [[]|e]]; cbn in *;
    try (by subst ws'). destruct Hc as (p & s' & patch & _ & Hf & _ & -> & Hed). destruct (ed_session _ _ _ _ _ _ Hed) as (Hs' & Hsame & _).
  apply replace_good; [|done]. apply FindSession_Some in Hf as [Hin _]. rewrite list.Forall_forall in Hs.
  by apply (session_good_same (pt_session p)); [apply Hs|..].
Qed.
Lemma EditSelectable_good ws ref name : workspace_ok ws -> Forall session_good (sessions_ ws) ->
  Forall session_good (sessions_ (fst (EditSelectable ws ref name))).
Proof.
  intros Hws Hs. unfold EditSelectable. destruct (LocateMap _ _ _) as [l|miss] eqn:El; [|done].
  destruct (LocateMap_inv _ _ _ _ Hws El) as (Ef & Hok & _ & Hm & r & Er & Ed).
  assert (session_good (lm_session l)) as Hgood.
  { apply FindSession_Some in Ef as [Hin _]. rewrite list.Forall_forall in Hs. by apply Hs. }
  destruct (ResolveBlobSelection _ _ _) as [[patch|[]]|e] eqn:Ep; try done.
  assert (selections_ok (lm_definition l)) as Hsel by (rewrite Ed; by apply Hgood).
  destruct (ResolveBlobSelection_patch _ _ _ _ Hsel Ep) as (sc & c & _ & _ & _ & Eb & Hbo & Ea). rewrite Eb, Ea.
  destruct (match Read _ _ _ with Ok current => _ | Err _ => false end); [done|].
  assert (0 <= default 0 (cm_address (lm_map l))) as Haddr.
  { destruct Hm as (_ & _ & _ & _ & Ha & _). destruct (cm_address _) as [a|]; [|done]. specialize (Ha a eq_refl). unfold u32_ok in Ha. cbn. lia. }
  pose proof (WriteBytes_spec (lm_session l) (default 0 (cm_address (lm_map l))) (sel_value c) Hok Hbo Haddr) as Hw.
  destruct (WriteBytes _ _ _) as [s' [u|e]]; cbn; (apply replace_good; [|done]).
  - destruct Hw as (Hs' & Hsame & _). by apply (session_good_same (lm_session l)).
  - by subst s'.
Qed.
Lemma Close_good ws i : Forall session_good (sessions_ ws) -> Forall session_good (sessions_ (fst (Close ws i))).
Proof.
  intros Hs. unfold Close. destruct (erase_id i (sessions_ ws)) as [ss|] eqn:E; [|done]. cbn. revert ss E.
  induction Hs as [|s ss0 Hg Hs IH]; intros ss; cbn; [done|]. destruct (id_ s =? i); [by intros [= <-]|].
  destruct (erase_id i ss0) as [t|]; [|done]. intros [= <-]. constructor; [done|]. by apply IH.
Qed.
Lemma on_session_good ws i f : (forall s, session_good s -> session_good (f s)) -> Forall session_good (sessions_ ws) ->
  Forall session_good (sessions_ (on_session ws i f)).
Proof.
  intros Hf Hs. unfold on_session. destruct (FindSession ws i) as [s|] eqn:E; [|done]. apply FindSession_Some in E as [Hin _].
  apply replace_good; [|done]. apply Hf. rewrite list.Forall_forall in Hs. by apply Hs.
Qed.
Lemma on_session_ids ws i f : Ids (on_session ws i f) = Ids ws /\ next_id_ (on_session ws i f) = next_id_ ws.
Proof. unfold on_session. destruct (FindSession ws i); [|done]. split; [apply update_ids|done]. Qed.
Lemma SelectRow_catalog s row : catalog_ (fst (SelectRow s row)) = catalog_ s.
Proof. unfold SelectRow. destruct (negb _); [done|]. cbv zeta. by destruct (zlookup _ row). Qed.
Lemma app_step_ok a op used : op_typed op -> app_ok a used -> used < 18446744073709551614 -> app_ok (app_step a op) (used + 1).
Proof.
  intros Ht Ha Hu. pose proof (app_ok_workspace a used Ha) as Hws. destruct Ha as (Hc & Hs & Hi).
  pose proof (fun o => proj1 (step_ok (app_workspace a) o used Hi Hu)) as Hids.
  destruct op as [path|image|i|ref sel op|ref name|i path|i p|row|cs w]; cbn [app_step].
  - pose proof (OpenFile_result load_buffer tenth_text (app_config a) (app_catalogs a) path (app_world a)) as Hr.
    destruct (RomOpenUseCase.OpenFile _ _ _ _ _ _) as [[r config] w]. cbn [fst] in Hr. specialize (Hids (OpenOp r)).
    assert (exists rom m0, bytes_ok rom /\ match r with Ok o => opened (app_config a) rom m0 o config | Err _ => config = app_config a end)
      as (rom & m0 & Hb & Hr').
    { destruct r as [o|e]; [|exists [], ""%string; split; [constructor|done]]. destruct Hr as (rom & Hrom & Ho). exists rom, ""%string. split; [|done].
      by eapply read_bytes. }
    destruct (opened_insert _ _ _ _ _ _ Hc Hb Hr' Hs) as [Hs' Hc']. done.
  - pose proof (AdoptReadImage_result load_buffer tenth_text (app_config a) (app_catalogs a) image (app_world a)) as Hr.
    destruct (RomOpenUseCase.AdoptReadImage _ _ _ _ _ _) as [[r config] w]. cbn [fst] in Hr. specialize (Hids (AdoptOp r)).
    destruct (opened_insert _ _ _ _ _ _ Hc Ht Hr Hs) as [Hs' Hc']. done.
  - split; [done|]. split; [by apply Close_good|]. exact (Hids (CloseOp i)).
  - split; [done|]. split; [by apply EditNumeric_good|]. exact (Hids (EditNumericOp ref sel op)).
  - split; [done|]. split; [by apply EditSelectable_good|]. exact (Hids (EditSelectableOp ref name)).
  - destruct (on_session_ids (app_workspace a) i (fun s => MarkSaved s path)) as [E1 E2]. split; [done|].
    split; [apply on_session_good; [|done]; intros s (H1 & H2 & H3); by split_and!|]. by eapply ids_ok_same.
  - destruct (on_session_ids (app_workspace a) i (fun s => SetProtocol s p)) as [E1 E2]. split; [done|].
    split; [apply on_session_good; [|done]; intros s (H1 & H2 & H3); by split_and!|]. by eapply ids_ok_same.
  - split; [cbn; by rewrite SelectRow_catalog|]. split; [done|]. by eapply ids_ok_same.
  - split; [done|]. split; [done|]. by eapply ids_ok_same.
Qed.
Lemma app_run_ok ops a used : Forall op_typed ops -> app_ok a used -> used + Z.of_nat (length ops) <= 18446744073709551614 ->
  app_ok (app_run a ops) (used + Z.of_nat (length ops)).
Proof.
  revert a used. induction ops as [|op ops IH]; intros a used Ht Ha Hl; cbn [app_run fold_left length] in *; [by rewrite Z.add_0_r|].
  apply Forall_cons in Ht as [Ht1 Ht]. rewrite Nat2Z.inj_succ in *.
  replace (used + Z.succ (Z.of_nat (length ops))) with (used + 1 + Z.of_nat (length ops)) by lia.
  apply IH; [done| |lia]. apply app_step_ok; [done..|lia].
Qed.
End application.

Definition block_typed (b : MemoryBlock) : bool :=
  (0 <=? Start (range b)) && (0 <? Size (range b)) && (End (range b) =? Start (range b) + Size (range b)) && (End (range b) <=? kU32Max)
  && match backing b with FileBacking offset => 0 <=? offset | FillBacking v => (0 <=? v) && (v <? 256) end.
Lemma block_typed_ok b : block_typed b = true -> block_ok b.
Proof.
  unfold block_typed, block_ok, range_ok. rewrite !andb_true_iff, !Z.leb_le, Z.ltb_lt, Z.eqb_eq. intros [(((? & ?) & ?) & ?) Hb].
  split; [by split_and!|]. destruct (backing b); [by apply Z.leb_le|]. unfold byte_ok. apply andb_true_iff in Hb. lia.
Qed.
Lemma builtin_catalog_typed : catalog_typed BuiltinCatalog.
Proof.
  assert (forallb (fun o => forallb (fun s => forallb block_typed (map_blocks s)
    && ((0 <=? map_definition_base s) && (map_definition_base s <=? kU32Max))) (memory_maps (spec o))) (Protocols BuiltinCatalog) = true) as H
    by (vm_compute; reflexivity).
  unfold catalog_typed. rewrite list.Forall_forall. rewrite forallb_forall in H. intros o Ho%list_elem_of_In. specialize (H o Ho).
  rewrite list.Forall_forall. rewrite forallb_forall in H. intros s Hs%list_elem_of_In. specialize (H s Hs).
  apply andb_true_iff in H as [Hb H]. apply andb_true_iff in H. split; [|lia]. rewrite list.Forall_forall. rewrite forallb_forall in Hb.
  intros b Hb'%list_elem_of_In. by apply block_typed_ok, Hb.
Qed.
Lemma located_selections ws i k l : Forall session_good (sessions_ ws) -> LocateMap ws i k = inl l -> selections_ok (lm_definition l).
Proof.
  intros Hs. unfold LocateMap, FindSession. destruct (List.find _ _) as [s|] eqn:E; [|done]. apply find_some in E as [Hin _].
  rewrite list.Forall_forall in Hs. destruct (Hs s) as (_ & _ & Hsel); [by apply list_elem_of_In|].
  destruct (definition_ s) as [d|]; [|done]. destruct (zlookup _ k); [|done]. intros [= <-]. by apply Hsel.
Qed.

(** ** The properties *)
Section claims.
Context {W C : Type} {HW : World W} {HT : WorldTyped W} {HC : DefinitionCatalogs C W}
  (load_buffer : list Z -> result string (list XmlNode)) (tenth_text : string -> option string).
(** C16: What opening a ROM gives. A failed open leaves the settings as they were. A
    successful one holds exactly the bytes of the file, under the memory map that the
    protocol declares for a file of that size, as a well-formed image; the protocol is
    the one the definition's flash method names, after the alias of a vehicle; the
    definition carries the identifier the ROM was matched to, and its maps and
    selections fit their types; and the settings select the last vehicle of the catalog
    with that protocol. Only when no vehicle has it, or before the settings are loaded,
    is none selected, and then the settings stay as they were. *)
Theorem opened_rom config (cs : C) path (w : W) :
  catalog_typed (catalog_ config) ->
  match fst (RomOpenUseCase.OpenFile load_buffer tenth_text config cs path w) with
  | (Err _, config') => config' = config
  | (Ok o, config') =>
      let contents := o_contents o in
      let method := pi_flash_method (c_protocol contents) in
      fst (files_Read path w) = Ok (file_ (c_image contents))
      /\ SelectMemoryMap (RomOpenUseCase.spec_of config method) (zlen (file_ (c_image contents))) = Ok (map_ (c_image contents))
      /\ image_ok (c_image contents)
      /\ method = match c_definition contents with
                  | Some d => aliased config (md_flash_method (rd_metadata (res_definition d)))
                  | None => ""%string
                  end
      /\ (forall d, c_definition contents = Some d -> res_id d = pi_rom_id (c_protocol contents)
            /\ Forall map_wf (rd_maps (res_definition d)) /\ selections_ok (res_definition d))
      /\ (if o_vehicle_selected o then
            exists pre v post, Catalog.Vehicles (catalog_ config) = pre ++ v :: post /\ has_protocol_named method v = true
              /\ Forall (fun v => has_protocol_named method v = false) post /\ config' = selecting config v
          else config' = config
            /\ (initialized_ config = true -> Forall (fun v => has_protocol_named method v = false) (Catalog.Vehicles (catalog_ config))))
  end.
Proof.
  intros Hc. pose proof (OpenFile_result load_buffer tenth_text config cs path w) as H.
  destruct (fst (RomOpenUseCase.OpenFile _ _ _ _ _ _)) as [[o|e] config']; [|done].
  destruct H as (rom & Hr & [Hi Hm Hd Hs]). cbv zeta. pose proof (read_bytes path w rom Hr) as Hb.
  destruct (PlaceRomFile_typed _ _ _ (fun s => spec_of_typed config _ s Hc) Hb Hi) as (Hok & _ & -> & Hmap).
  split_and!; try done.
  - intros d Hd'. destruct (Hd d Hd') as [[Hd1 Hd2] Hid]. split_and!; try done. by apply definition_ok_selections.
  - pose proof (SelectByProtocolName_spec config (pi_flash_method (c_protocol (o_contents o)))) as Hspec.
    rewrite <- Hs in Hspec. destruct (o_vehicle_selected o); [done|exact Hspec].
Qed.
(** C15: Whatever is opened, the workspace is well formed. From an empty workspace of a
    program with the built-in catalog, through any sequence of fewer than [2 ^ 64 - 1]
    opens, adopted images, closes, edits, saves and vehicle choices, with files,
    settings directories and definition sources changing in any way between them, every
    session keeps a typed image whose file matches its map, definitions whose maps and
    selections fit their types, and the identifiers stay distinct and below the counter:
    what the theorems on edits and on pasted text assume. *)
Theorem reachable_workspaces_ok {Num : Numeric} {NumD : DoubleSpec} {NumS : NumericSpec} (a : App) ops :
  catalog_ (app_config a) = BuiltinCatalog -> app_workspace a = new_workspace -> Forall op_typed ops ->
  Z.of_nat (length ops) <= 18446744073709551614 ->
  let ws := app_workspace (app_run load_buffer tenth_text a ops) in
  workspace_ok ws
  /\ forall ref l, LocateMap ws (ref_session ref) (ref_map_index ref) = inl l -> selections_ok (lm_definition l).
Proof.
  intros Hc Hw Ht Hl. cbv zeta. assert (app_ok a 0) as H0.
  { split; [rewrite Hc; exact builtin_catalog_typed|]. rewrite Hw. split; [constructor|]. unfold ids_ok. cbn. split_and!; [constructor|constructor|lia|lia]. }
  pose proof (app_run_ok load_buffer tenth_text ops a 0 Ht H0 Hl) as H. split; [by eapply app_ok_workspace|].
  intros ref l El. destruct H as (_ & Hs & _). by eapply located_selections.
Qed.
End claims.

(** ** A disk with a ROM and its definition *)
Definition disk_definition : list XmlNode :=
  [Element "rom" []
     [Element "romid" [] [Element "xmlid" [] [PcData "AB"]; Element "internalidaddress" [] [PcData "0x1"];
                          Element "internalidstring" [] [PcData "AB"]; Element "flashmethod" [] [PcData "p"]];
      Element "scaling" [("name", "raw"); ("storagetype", "uint8"); ("toexpr", "x"); ("frexpr", "x")] [];
      Element "table" [("name", "Fuel"); ("address", "3"); ("type", "1D"); ("scaling", "raw")] []]]%string.
Definition disk_parser (xml : list Z) : result string (list XmlNode) :=
  match xml with [0] => Ok disk_definition | _ => Err "not XML"%string end.
Definition rom_disk : Disk :=
  {| disk_files := [("/roms/a.bin"%string, [9; 65; 66; 4]); ("/defs/ab.xml"%string, [0])]; disk_log := [] |}.
Definition rom_config (catalog : Catalog) : ConfigSession :=
  {| catalog_ := catalog; initialized_ := true; provisioned_ := empty_paths;
     settings_ := set_primary_definition_base "ecuflash" (set_use_ecuflash_definitions "enabled"
       (set_ecuflash_definition_files_directory "/defs" empty_config)) |}.
Definition rom_session : DefinitionCatalogSession.Session :=
  {| DefinitionCatalogSession.ecuflash_index_ := []; DefinitionCatalogSession.romraider_index_ := [];
     DefinitionCatalogSession.submitted_ecuflash_handles_ := ["/defs/ab.xml"]%string |}.
#[local] Instance disk_catalogs : DefinitionCatalogs DefinitionCatalogSession.Session Disk :=
  DefinitionCatalogSession.catalogs disk_parser 4.
Definition sample_open : (result Error RomOpenOutcome * ConfigSession) :=
  fst (RomOpenUseCase.OpenFile disk_parser (fun _ => None) (rom_config Catalog.sample_catalog) rom_session "/roms/a.bin" rom_disk).
Lemma sample_catalog_typed : catalog_typed Catalog.sample_catalog.
Proof. constructor; [|constructor]. constructor; [|constructor]. split; [|cbn; unfold kU32Max; lia].
  repeat (constructor; [by apply block_typed_ok; vm_compute|]). constructor. Qed.
Lemma opened_rom_witness : exists o config, sample_open = (Ok o, config)
  /\ file_ (c_image (o_contents o)) = [9; 65; 66; 4] /\ image_ok (c_image (o_contents o)) /\ o_vehicle_selected o = true.
Proof.
  pose proof (opened_rom disk_parser (fun _ => None) (rom_config Catalog.sample_catalog) rom_session "/roms/a.bin" rom_disk sample_catalog_typed) as H.
  fold sample_open in H. destruct sample_open as [[o|e] config] eqn:E; [|vm_compute in E; discriminate].
  exists o, config. split; [reflexivity|]. cbv zeta in H. destruct H as (Hr & _ & Hok & _). split; [|split; [exact Hok|]].
  - assert (fst (files_Read "/roms/a.bin"%string rom_disk) = Ok [9; 65; 66; 4]) as Hd by reflexivity. rewrite Hr in Hd. by injection Hd.
  - assert (match sample_open with (Ok o, _) => o_vehicle_selected o | _ => false end = true) as Hv by (vm_compute; reflexivity).
    rewrite E in Hv. exact Hv.
Defined.
(** The sample files under the built-in catalog. *)
Definition sample_app : App :=
  {| app_config := rom_config BuiltinCatalog; app_catalogs := rom_session; app_workspace := new_workspace; app_world := rom_disk |}.
Definition sample_ops : list (@AppOp Disk DefinitionCatalogSession.Session) :=
  [AOpen "/roms/a.bin"; AEditNumeric {| ref_session := 1; ref_map_index := 0 |}
     {| ns_target := kMapBody; ns_elements := {| first_row := 0; first_col := 0; last_row := 0; last_col := 0 |} |} (AssignmentEdit "x + 12");
   AClose 1; AOpen "/roms/a.bin"].
Lemma reachable_workspaces_ok_witness :
  workspace_ok (app_workspace (app_run disk_parser (fun _ => None) sample_app sample_ops))
  /\ Ids (app_workspace (app_run disk_parser (fun _ => None) sample_app sample_ops)) = [2]
  /\ File <$> sessions_ (app_workspace (app_run disk_parser (fun _ => None) sample_app (take 2 sample_ops))) = [[9; 65; 66; 16]].
Proof.
  split; [|split; vm_compute; reflexivity].
  exact (proj1 (reachable_workspaces_ok (NumD := binary64_spec) (NumS := binary64_numeric_spec) disk_parser (fun _ => None) sample_app sample_ops
    eq_refl eq_refl ltac:(repeat constructor) ltac:(cbn; lia))).
Defined.
