(* ===== verification/LoggerModel.v ===== *)
(** * LoggerModel: [src/backend/logging], what can be logged and what is selected

    The logger definition read from XML, which of its entries a unit supports, the
    selection of gauges and switches, and the file it is stored in. The document tree
    is that of [Xml]; the parser and the printer are parameters. Files are those of a
    [World]. *)
From stdpp Require Import gmap.
From S2P Require Import Prelude.
From S2P Require Import Ports Files.
From S2P Require Import Xml.
From S2P Require Import DefinitionResolver DefinitionParsers.

(** ** [logger_definition_model.h] *)
Record Conversion := {
  cv_units : string; cv_expr : string; cv_format : string; cv_gauge_min : string; cv_gauge_max : string;
  cv_gauge_step : string; cv_storage_type : string; cv_endian : string
}.
Record LoggerAddressSpec := { as_value : string; as_length : option string; as_bit : option string }.
Record LoggerParameter := {
  lp_protocol : string; lp_id : string; lp_name : string; lp_description : string; lp_address : string;
  lp_length : string; lp_ecu_byte_index : string; lp_ecu_bit : string; lp_target : string; lp_enabled : bool;
  lp_conversions : list Conversion; lp_address_specs : list LoggerAddressSpec
}.
Record LoggerSwitch := {
  lw_protocol : string; lw_id : string; lw_name : string; lw_description : string; lw_address : string;
  lw_ecu_byte_index : string; lw_ecu_bit : string; lw_target : string; lw_enabled : bool; lw_sample_bit : string
}.
Record LoggerDefinition := { ld_parameters : list LoggerParameter; ld_switches : list LoggerSwitch }.
Record LoggerSelection := {
  ls_protocol : string; ls_gauge_ids : list string; ls_lower_panel_ids : list string; ls_switch_ids : list string
}.
Definition empty_definition : LoggerDefinition := {| ld_parameters := []; ld_switches := [] |}.
(** A selection of a protocol, nothing chosen. *)
Definition no_ids (protocol : string) : LoggerSelection :=
  {| ls_protocol := protocol; ls_gauge_ids := []; ls_lower_panel_ids := []; ls_switch_ids := [] |}.

(** ** [logger_definition_parser.cpp] *)
Definition AttributeOr (node : option XmlNode) (name fallback : string) : string := default fallback (attribute node name).
(** The first text of a node. *)
Definition is_text (n : XmlNode) : bool := match n with PcData _ | CData _ => true | _ => false end.
Definition child_value (node : option XmlNode) : string :=
  match List.find is_text (node_children node) with Some n => text_of n | None => "" end.
Definition ParseConversion (node : XmlNode) : Conversion :=
  let node := Some node in
  {| cv_units := AttributeOr node "units" "#"; cv_expr := AttributeOr node "expr" "x";
     cv_format := AttributeOr node "format" "0.00"; cv_gauge_min := AttributeOr node "gauge_min" "No gauge_min";
     cv_gauge_max := AttributeOr node "gauge_max" "No gauge_max"; cv_gauge_step := AttributeOr node "gauge_step" "No gauge_step";
     cv_storage_type := AttributeOr node "storagetype" ""; cv_endian := AttributeOr node "endian" "" |}.
Definition ParseAddress (item : XmlNode) : LoggerAddressSpec :=
  {| as_value := child_value (Some item); as_length := attribute (Some item) "length"; as_bit := attribute (Some item) "bit" |}.
Definition ParseParameter (protocol : string) (node : XmlNode) : LoggerParameter :=
  let node := Some node in
  let address := child node "address" in
  {| lp_protocol := protocol; lp_id := AttributeOr node "id" "No id"; lp_name := AttributeOr node "name" "No name";
     lp_description := AttributeOr node "desc" "No desc";
     lp_address := if has address then child_value address else "";
     lp_length := if has address then AttributeOr address "length" "1" else "";
     lp_ecu_byte_index := AttributeOr node "ecubyteindex" "No byte index"; lp_ecu_bit := AttributeOr node "ecubit" "No ecu bit";
     lp_target := AttributeOr node "target" "No target"; lp_enabled := String.eqb (AttributeOr node "enabled" "0") "1";
     lp_conversions := map ParseConversion (children (child node "conversions") "conversion");
     lp_address_specs := if has address then map ParseAddress (children node "address") else [] |}.
Definition ParseSwitch (protocol : string) (node : XmlNode) : LoggerSwitch :=
  let node := Some node in
  {| lw_protocol := protocol; lw_id := AttributeOr node "id" "No id"; lw_name := AttributeOr node "name" "No name";
     lw_description := AttributeOr node "desc" "No desc"; lw_address := AttributeOr node "byte" "No address";
     lw_ecu_byte_index := AttributeOr node "ecubyteindex" "No ecu byte index"; lw_ecu_bit := AttributeOr node "bit" "No ecu bit";
     lw_target := AttributeOr node "target" "No target"; lw_enabled := String.eqb (AttributeOr node "enabled" "0") "1";
     lw_sample_bit := AttributeOr node "bit" "" |}.
Definition protocol_id (protocol : XmlNode) : string := AttributeOr (Some protocol) "id" "No protocol id".
(** The first node of the name in a document. *)
Definition document_child (document : list XmlNode) (name : string) : option XmlNode := List.find (is_named name) document.
Definition definition_of (root : XmlNode) : LoggerDefinition :=
  let protocols := children (child (Some root) "protocols") "protocol" in
  {| ld_parameters := flat_map (fun p => map (ParseParameter (protocol_id p)) (children (child (Some p) "parameters") "parameter")) protocols;
     ld_switches := flat_map (fun p => map (ParseSwitch (protocol_id p)) (children (child (Some p) "switches") "switch")) protocols |}.
(** What the parser says of a text it refuses: a description and an offset. *)
Definition ParseFailure : Type := string * Z.
Definition malformed {A} (source : string) (failure : ParseFailure) : result Error A :=
  Fail kInvalidConfig (source +:+ ": " +:+ fst failure +:+ " at offset " +:+ fmt_d (snd failure)).
Definition ParseLoggerDefinition (load_buffer : list Z -> result ParseFailure (list XmlNode)) (xml : list Z) (source : string)
    : result Error LoggerDefinition :=
  match load_buffer xml with
  | Err failure => malformed source failure
  | Ok document =>
      match document_child document "logger" with
      | None => Fail kInvalidConfig (source +:+ ": expected root element <logger>")
      | Some root => Ok (definition_of root)
      end
  end.

(** ** [logger_model.cpp] *)
Inductive EcuSupport : Set := kUnknown | kSupported | kUnsupportedByEcu.
#[export] Instance EcuSupport_eq_dec : EqDecision EcuSupport.
Proof. solve_decision. Defined.
Abbreviation LoggerIdentity := (string * string)%type.
Record LoggerModel := {
  installed_ : bool; definition_ : LoggerDefinition; selection_ : LoggerSelection;
  parameter_support_ : gmap LoggerIdentity EcuSupport; switch_support_ : gmap LoggerIdentity EcuSupport
}.
Definition new_logger_model : LoggerModel :=
  {| installed_ := false; definition_ := empty_definition; selection_ := no_ids ""; parameter_support_ := ∅; switch_support_ := ∅ |}.
(** [std::from_chars] on a whole number of at most [max]. *)
Definition bounded_number (digit : ascii -> option Z) (base max : Z) (text : string) : option Z :=
  v ← DefinitionParsers.from_chars digit base (to_chars text); if v <=? max then Some v else None.
Definition Decimal (text : string) : option Z := bounded_number dec_digit 10 kU32Max (TrimCopy text).
Definition Support (flags : gmap LoggerIdentity EcuSupport) (protocol id : string) : EcuSupport :=
  default kUnknown (flags !! (protocol, id)).
Definition Update (flags : gmap LoggerIdentity EcuSupport) (protocol id : string) (value : EcuSupport) : gmap LoggerIdentity EcuSupport :=
  match flags !! (protocol, id) with Some _ => <[(protocol, id) := value]> flags | None => flags end.
Definition Capability (index_text bit_text : string) (bytes : list Z) : EcuSupport :=
  match Decimal index_text, Decimal bit_text with
  | Some index, Some bit =>
      if (zlen bytes <=? index) || (8 <=? bit) then kUnknown
      else if negb (Z.land (zget bytes index) (Z.shiftl 1 bit) =? 0) then kSupported else kUnsupportedByEcu
  | _, _ => kUnknown
  end.
Definition ParameterDefinition (m : LoggerModel) (protocol id : string) : option LoggerParameter :=
  List.find (fun p => String.eqb (lp_protocol p) protocol && String.eqb (lp_id p) id) (ld_parameters (definition_ m)).
Definition SwitchDefinition (m : LoggerModel) (protocol id : string) : option LoggerSwitch :=
  List.find (fun p => String.eqb (lw_protocol p) protocol && String.eqb (lw_id p) id) (ld_switches (definition_ m)).
Definition ParameterSupport (m : LoggerModel) (protocol id : string) : EcuSupport := Support (parameter_support_ m) protocol id.
Definition SwitchSupport (m : LoggerModel) (protocol id : string) : EcuSupport := Support (switch_support_ m) protocol id.
Definition with_support (m : LoggerModel) (parameters switches : gmap LoggerIdentity EcuSupport) : LoggerModel :=
  {| installed_ := installed_ m; definition_ := definition_ m; selection_ := selection_ m; parameter_support_ := parameters;
     switch_support_ := switches |}.
Definition SetParameterSupport (m : LoggerModel) (protocol id : string) (state : EcuSupport) : LoggerModel :=
  with_support m (Update (parameter_support_ m) protocol id state) (switch_support_ m).
Definition SetSwitchSupport (m : LoggerModel) (protocol id : string) (state : EcuSupport) : LoggerModel :=
  with_support m (parameter_support_ m) (Update (switch_support_ m) protocol id state).
Definition SetSelection (m : LoggerModel) (selection : LoggerSelection) : LoggerModel :=
  {| installed_ := installed_ m; definition_ := definition_ m; selection_ := selection; parameter_support_ := parameter_support_ m;
     switch_support_ := switch_support_ m |}.
(** Every entry of a protocol unknown. *)
Definition reset_protocol (protocol : string) (flags : gmap LoggerIdentity EcuSupport) : gmap LoggerIdentity EcuSupport :=
  map_imap (fun key state => Some (if String.eqb (fst key) protocol then kUnknown else state)) flags.
Definition ResetProtocolSupport (m : LoggerModel) (protocol : string) : LoggerModel :=
  with_support m (reset_protocol protocol (parameter_support_ m)) (reset_protocol protocol (switch_support_ m)).
Definition ResetSupport (m : LoggerModel) : LoggerModel :=
  with_support m ((fun _ => kUnknown) <$> parameter_support_ m) ((fun _ => kUnknown) <$> switch_support_ m).
Definition available (state : EcuSupport) (enabled : bool) : bool :=
  match state with kSupported => true | kUnknown => enabled | kUnsupportedByEcu => false end.
Definition ParameterAvailable (m : LoggerModel) (protocol id : string) : bool :=
  match ParameterDefinition m protocol id with
  | Some p => available (ParameterSupport m protocol id) (lp_enabled p)
  | None => false
  end.
Definition SwitchAvailable (m : LoggerModel) (protocol id : string) : bool :=
  match SwitchDefinition m protocol id with
  | Some p => available (SwitchSupport m protocol id) (lw_enabled p)
  | None => false
  end.
Definition apply_parameter (protocol : string) (capabilities : list Z) (m : LoggerModel) (p : LoggerParameter) : LoggerModel :=
  if String.eqb (lp_protocol p) protocol
  then SetParameterSupport m protocol (lp_id p) (Capability (lp_ecu_byte_index p) (lp_ecu_bit p) capabilities) else m.
Definition apply_switch (protocol : string) (capabilities : list Z) (m : LoggerModel) (p : LoggerSwitch) : LoggerModel :=
  if String.eqb (lw_protocol p) protocol
  then SetSwitchSupport m protocol (lw_id p) (Capability (lw_ecu_byte_index p) (lw_ecu_bit p) capabilities) else m.
Definition ApplyCapabilities (m : LoggerModel) (protocol : string) (capabilities : list Z) : LoggerModel :=
  let m := ResetProtocolSupport m protocol in
  let m := fold_left (apply_parameter protocol capabilities) (ld_parameters (definition_ m)) m in
  fold_left (apply_switch protocol capabilities) (ld_switches (definition_ m)) m.
(** [push_back] while fewer than [cap] are there. *)
Definition push_capped (cap : Z) (ids : list string) (id : string) : list string := if zlen ids <? cap then ids ++ [id] else ids.
Definition select_parameter (m : LoggerModel) (result : LoggerSelection) (p : LoggerParameter) : LoggerSelection :=
  if negb (String.eqb (lp_protocol p) (ls_protocol result)) || negb (ParameterAvailable m (lp_protocol p) (lp_id p)) then result
  else {| ls_protocol := ls_protocol result; ls_gauge_ids := push_capped 15 (ls_gauge_ids result) (lp_id p);
          ls_lower_panel_ids := push_capped 12 (ls_lower_panel_ids result) (lp_id p); ls_switch_ids := ls_switch_ids result |}.
Definition select_switch (m : LoggerModel) (result : LoggerSelection) (p : LoggerSwitch) : LoggerSelection :=
  if String.eqb (lw_protocol p) (ls_protocol result) && SwitchAvailable m (lw_protocol p) (lw_id p)
  then {| ls_protocol := ls_protocol result; ls_gauge_ids := ls_gauge_ids result;
          ls_lower_panel_ids := ls_lower_panel_ids result; ls_switch_ids := push_capped 20 (ls_switch_ids result) (lw_id p) |}
  else result.
Definition default_protocol (m : LoggerModel) (protocol : string) : string :=
  let protocol := if String.eqb protocol "" then ls_protocol (selection_ m) else protocol in
  if String.eqb protocol "" then
    match ld_parameters (definition_ m), ld_switches (definition_ m) with
    | p :: _, _ => lp_protocol p
    | [], p :: _ => lw_protocol p
    | [], [] => ""
    end
  else protocol.
Definition DefaultSelection (m : LoggerModel) (protocol : string) : LoggerSelection :=
  let result := no_ids (default_protocol m protocol) in
  let result := fold_left (select_parameter m) (ld_parameters (definition_ m)) result in
  fold_left (select_switch m) (ld_switches (definition_ m)) result.
(** [emplace]: an entry that is there stays. *)
Definition emplace (flags : gmap LoggerIdentity EcuSupport) (key : LoggerIdentity) : gmap LoggerIdentity EcuSupport :=
  match flags !! key with Some _ => flags | None => <[key := kUnknown]> flags end.
Definition InstallDefinition (m : LoggerModel) (definition : LoggerDefinition) : LoggerModel * bool :=
  if installed_ m then (m, false)
  else
    let m := {| installed_ := true; definition_ := definition; selection_ := selection_ m;
                parameter_support_ := fold_left (fun flags p => emplace flags (lp_protocol p, lp_id p)) (ld_parameters definition) (parameter_support_ m);
                switch_support_ := fold_left (fun flags p => emplace flags (lw_protocol p, lw_id p)) (ld_switches definition) (switch_support_ m) |} in
    (SetSelection m (DefaultSelection m ""), true).

(** ** [logger_conf.cpp]

    [load_all] keeps comments, declarations, instructions and document types. *)
Definition kGaugeCap : Z := 15.
Definition kLowerPanelCap : Z := 12.
Definition kSwitchCap : Z := 20.
Definition ecu_named (ecu_id : string) (n : XmlNode) : bool :=
  is_named "ecu" n && String.eqb (attribute_value (Some n) "id") ecu_id.
Definition FindEcu (logger : option XmlNode) (ecu_id : string) : option XmlNode :=
  List.find (ecu_named ecu_id) (node_children logger).
Definition AppendIds (element_name : string) (ids : list string) : list XmlNode :=
  map (fun id => Element element_name [("id"%string, id); ("name"%string, ""%string)] []) ids.
Definition CollectIds (parent : option XmlNode) (element_name : string) : list string :=
  map (fun n => default "No id"%string (attribute (Some n) "id")) (children parent element_name).
Section conf.
Context (load_all : list Z -> result ParseFailure (list XmlNode)) (save : list XmlNode -> list Z).
Definition Load (conf : list Z) (source : string) : result Error (list XmlNode) :=
  match load_all conf with Ok document => Ok document | Err failure => malformed source failure end.
Definition selection_of (ecu : XmlNode) : LoggerSelection :=
  let protocol := child (Some ecu) "protocol" in
  let parameters := child protocol "parameters" in
  {| ls_protocol := default "No id"%string (attribute protocol "id");
     ls_gauge_ids := CollectIds (child parameters "gauges") "parameter";
     ls_lower_panel_ids := CollectIds (child parameters "lower_panel") "parameter";
     ls_switch_ids := CollectIds (child protocol "switches") "switch" |}.
Definition ReadSelection (conf : list Z) (ecu_id source : string) : result Error (option LoggerSelection) :=
  let! document := Load conf source in
  Ok (selection_of <$> FindEcu (child (document_child document "config") "logger") ecu_id).
Definition ecu_element (ecu_id : string) (selection : LoggerSelection) : XmlNode :=
  Element "ecu" [("id"%string, ecu_id)]
    [Element "protocol" [("id"%string, ls_protocol selection)]
       [Element "parameters" []
          [Element "gauges" [] (AppendIds "parameter" (ls_gauge_ids selection));
           Element "lower_panel" [] (AppendIds "parameter" (ls_lower_panel_ids selection))];
        Element "switches" [] (AppendIds "switch" (ls_switch_ids selection))]].
(** Children may be added to elements only. *)
Definition edit_children (f : list XmlNode -> list XmlNode) (n : XmlNode) : XmlNode :=
  match n with Element name attributes children => Element name attributes (f children) | _ => n end.
(** The first node that satisfies [p], changed. *)
Fixpoint edit_first (p : XmlNode -> bool) (f : XmlNode -> XmlNode) (nodes : list XmlNode) : list XmlNode :=
  match nodes with
  | [] => []
  | n :: nodes => if p n then f n :: nodes else n :: edit_first p f nodes
  end.
(** The entry of the unit replaced where it was, or added at the end. *)
Definition put_ecu (ecu_id : string) (selection : LoggerSelection) (logger : list XmlNode) : list XmlNode :=
  let ecu := ecu_element ecu_id selection in
  if existsb (ecu_named ecu_id) logger then edit_first (ecu_named ecu_id) (fun _ => ecu) logger else logger ++ [ecu].
Definition put_logger (ecu_id : string) (selection : LoggerSelection) (config : list XmlNode) : list XmlNode :=
  let config := if existsb (is_named "logger") config then config else config ++ [Element "logger" [] []] in
  edit_first (is_named "logger") (edit_children (put_ecu ecu_id selection)) config.
Definition with_selection (ecu_id : string) (selection : LoggerSelection) (document : list XmlNode) : list XmlNode :=
  edit_first (is_named "config") (edit_children (put_logger ecu_id selection)) document.
Definition WriteSelection (conf : list Z) (ecu_id : string) (selection : LoggerSelection) (source : string)
    : result Error (list Z) :=
  let! document := Load conf source in
  match document_child document "config" with
  | None =>
      Fail kInvalidConfig (source +:+ ": root element is <" +:+ node_name (List.find is_element document) +:+ ">, expected <config>")
  | Some _ => Ok (save (with_selection ecu_id selection document))
  end.
(** The walk over what the definition enables, whatever the unit supports. *)
Definition walk_parameter (selection : LoggerSelection) (p : LoggerParameter) : LoggerSelection :=
  if negb (lp_enabled p) then selection
  else {| ls_protocol := ls_protocol selection; ls_gauge_ids := push_capped kGaugeCap (ls_gauge_ids selection) (lp_id p);
          ls_lower_panel_ids := push_capped kLowerPanelCap (ls_lower_panel_ids selection) (lp_id p);
          ls_switch_ids := ls_switch_ids selection |}.
Definition walk_switch (selection : LoggerSelection) (p : LoggerSwitch) : LoggerSelection :=
  if negb (lw_enabled p) then selection
  else {| ls_protocol := ls_protocol selection; ls_gauge_ids := ls_gauge_ids selection;
          ls_lower_panel_ids := ls_lower_panel_ids selection; ls_switch_ids := push_capped kSwitchCap (ls_switch_ids selection) (lw_id p) |}.
Definition Walk (definition : LoggerDefinition) : LoggerSelection :=
  let selection := no_ids (match ld_parameters definition with p :: _ => lp_protocol p | [] => "" end) in
  let selection := fold_left walk_parameter (ld_parameters definition) selection in
  fold_left walk_switch (ld_switches definition) selection.

(** ** [logger_definition_service.cpp] *)
Definition kCdbgProtocol : string := "CDBG".
Definition kCdbgExampleName : string := "logger_cdbg_example.xml".
Definition kBundledCdbgExample : string := ":/config/logger_cdbg_example.xml".
Context {W : Type} {HW : World W} (load_buffer : list Z -> result ParseFailure (list XmlNode)).
Definition ResolveDefinitionHandle (configured_handle log_protocol config_files_directory : string) : IO W string :=
  if negb (String.eqb configured_handle "") then io_ret configured_handle
  else if negb (String.eqb log_protocol kCdbgProtocol) then io_ret ""%string
  else
    let user_copy := config_files_directory +:+ kCdbgExampleName in
    io exists_ <- fs_Exists user_copy;
    io_ret (if exists_ then user_copy else kBundledCdbgExample).
Definition LoadDefinition (handle : string) : IO W (result Error LoggerDefinition) :=
  io! contents <- files_Read handle; io_ret (ParseLoggerDefinition load_buffer contents handle).
Definition LoadSelection (conf_handle ecu_id : string) : IO W (result Error (option LoggerSelection)) :=
  io! contents <- files_Read conf_handle; io_ret (ReadSelection contents ecu_id conf_handle).
Definition SaveSelection (conf_handle ecu_id : string) (selection : LoggerSelection) : IO W Status :=
  io! contents <- files_Read conf_handle;
  io! written <- io_ret (WriteSelection contents ecu_id selection conf_handle);
  writer_Replace conf_handle written.

(** ** [logging_selection_use_case.cpp] *)
Record DefinitionSource := { dsrc_configured_handle : string; dsrc_log_protocol : string; dsrc_config_files_directory : string }.
Record InstallOutcome := { io_resolved_handle : string; io_bundled_handle_used : bool }.
Record InstallFailure := { if_handle : string; if_bundled_handle_used : bool; if_error : Error }.
Inductive RestoreOutcome : Set := kRestored | kInitialized | kClearedNoDefinition.
Definition InstallLoggerDefinition (m : LoggerModel) (source : DefinitionSource)
    : IO W (result InstallFailure InstallOutcome * LoggerModel) :=
  io handle <- ResolveDefinitionHandle (dsrc_configured_handle source) (dsrc_log_protocol source) (dsrc_config_files_directory source);
  let bundled_handle_used := String.eqb (dsrc_configured_handle source) "" && negb (String.eqb handle "") in
  io definition <- LoadDefinition handle;
  match definition with
  | Err e => io_ret (Err {| if_handle := handle; if_bundled_handle_used := bundled_handle_used; if_error := e |}, m)
  | Ok definition =>
      let m := fst (InstallDefinition m definition) in
      io_ret (Ok {| io_resolved_handle := handle; io_bundled_handle_used := bundled_handle_used |},
              SetSelection m (DefaultSelection m (dsrc_log_protocol source)))
  end.
Definition RestorePendingSelection (m : LoggerModel) (conf_handle ecu_id log_protocol : string)
    : IO W (result Error RestoreOutcome * LoggerModel) :=
  io stored <- LoadSelection conf_handle ecu_id;
  match stored with
  | Err e => io_ret (Err e, m)
  | Ok stored =>
      let m := SetSelection m (no_ids (ls_protocol (selection_ m))) in
      match stored with
      | Some selection => io_ret (Ok kRestored, SetSelection m selection)
      | None =>
          match ld_parameters (definition_ m), ld_switches (definition_ m) with
          | [], [] => io_ret (Ok kClearedNoDefinition, m)
          | _, _ =>
              let initial := DefaultSelection m log_protocol in
              io saved <- SaveSelection conf_handle ecu_id initial;
              match saved with
              | Err e => io_ret (Err e, m)
              | Ok _ => io_ret (Ok kInitialized, SetSelection m initial)
              end
          end
      end
  end.
Definition SavePendingSelection (m : LoggerModel) (conf_handle ecu_id : string) (selection : LoggerSelection)
    : IO W (Status * LoggerModel) :=
  let m := SetSelection m selection in
  io saved <- SaveSelection conf_handle ecu_id (selection_ m); io_ret (saved, m).
End conf.

(** ** Lemmas *)
Section lemmas.
Lemma push_capped_fold cap ids acc : 0 <= cap -> fold_left (push_capped cap) ids (take (Z.to_nat cap) acc) = take (Z.to_nat cap) (acc ++ ids).
Proof.
  intros Hc. revert acc. induction ids as [|i ids IH]; intros acc; cbn [fold_left]; [by rewrite app_nil_r|].
  replace (acc ++ i :: ids) with ((acc ++ [i]) ++ ids) by by rewrite <- app_assoc. rewrite <- IH. f_equal. unfold push_capped, zlen.
  rewrite length_take. destruct (Z.ltb_spec (Z.of_nat (Z.to_nat cap `min` length acc)) cap).
  - rewrite !take_ge; [done|rewrite length_app; cbn; lia|lia].
  - rewrite take_app_le by lia. done.
Qed.
Lemma push_capped_all (cap : nat) ids : fold_left (push_capped (Z.of_nat cap)) ids [] = take cap ids.
Proof. pose proof (push_capped_fold (Z.of_nat cap) ids [] ltac:(lia)) as H. by rewrite take_nil, Nat2Z.id in H. Qed.
(** What a definition offers of a protocol: the available identifiers, in order. *)
Definition offered_parameters (m : LoggerModel) (protocol : string) : list string :=
  map lp_id (List.filter (fun p => String.eqb (lp_protocol p) protocol && ParameterAvailable m (lp_protocol p) (lp_id p)) (ld_parameters (definition_ m))).
Definition offered_switches (m : LoggerModel) (protocol : string) : list string :=
  map lw_id (List.filter (fun p => String.eqb (lw_protocol p) protocol && SwitchAvailable m (lw_protocol p) (lw_id p)) (ld_switches (definition_ m))).
Lemma select_parameters m l r : fold_left (select_parameter m) l r
  = let ids := map lp_id (List.filter (fun p => String.eqb (lp_protocol p) (ls_protocol r) && ParameterAvailable m (lp_protocol p) (lp_id p)) l) in
    {| ls_protocol := ls_protocol r; ls_gauge_ids := fold_left (push_capped 15) ids (ls_gauge_ids r);
       ls_lower_panel_ids := fold_left (push_capped 12) ids (ls_lower_panel_ids r); ls_switch_ids := ls_switch_ids r |}.
Proof.
  cbv zeta. revert r. induction l as [|p l IH]; intros r; cbn [fold_left List.filter]; [by destruct r|]. rewrite IH. unfold select_parameter.
  destruct (String.eqb (lp_protocol p) (ls_protocol r)), (ParameterAvailable m (lp_protocol p) (lp_id p)); done.
Qed.
Lemma select_switches m l r : fold_left (select_switch m) l r
  = let ids := map lw_id (List.filter (fun p => String.eqb (lw_protocol p) (ls_protocol r) && SwitchAvailable m (lw_protocol p) (lw_id p)) l) in
    {| ls_protocol := ls_protocol r; ls_gauge_ids := ls_gauge_ids r; ls_lower_panel_ids := ls_lower_panel_ids r;
       ls_switch_ids := fold_left (push_capped 20) ids (ls_switch_ids r) |}.
Proof.
  cbv zeta. revert r. induction l as [|p l IH]; intros r; cbn [fold_left List.filter]; [by destruct r|]. rewrite IH. unfold select_switch.
  destruct (String.eqb (lw_protocol p) (ls_protocol r)), (SwitchAvailable m (lw_protocol p) (lw_id p)); done.
Qed.
Lemma DefaultSelection_spec m protocol : let q := default_protocol m protocol in
  DefaultSelection m protocol = {| ls_protocol := q; ls_gauge_ids := take 15 (offered_parameters m q);
    ls_lower_panel_ids := take 12 (offered_parameters m q); ls_switch_ids := take 20 (offered_switches m q) |}.
Proof.
  cbv zeta. unfold DefaultSelection. rewrite select_parameters, select_switches. cbn [ls_protocol ls_gauge_ids ls_lower_panel_ids ls_switch_ids no_ids].
  f_equal; [apply (push_capped_all 15)|apply (push_capped_all 12)|apply (push_capped_all 20)].
Qed.
Lemma find_edit_same p f l : (forall n, p n = true -> p (f n) = true) -> List.find p (edit_first p f l) = f <$> List.find p l.
Proof.
  intros Hf. induction l as [|n l IH]; cbn; [done|]. destruct (p n) eqn:E; cbn; [by rewrite Hf|by rewrite E].
Qed.
Lemma find_edit_other p q f l : (forall n, p n = true -> q n = false /\ q (f n) = false) -> List.find q (edit_first p f l) = List.find q l.
Proof.
  intros Hf. induction l as [|n l IH]; cbn; [done|]. destruct (p n) eqn:E; cbn; [|by rewrite IH]. by destruct (Hf n E) as [-> ->].
Qed.
Lemma find_app {A} (p : A -> bool) l1 l2 : List.find p (l1 ++ l2) = match List.find p l1 with Some x => Some x | None => List.find p l2 end.
Proof. induction l1 as [|x l1 IH]; cbn; [done|]. by destruct (p x). Qed.
Lemma existsb_find {A} (p : A -> bool) l : existsb p l = has (List.find p l).
Proof. induction l as [|x l IH]; cbn; [done|]. by destruct (p x). Qed.
Lemma named_edit name f n : is_named name n = true -> is_named name (edit_children f n) = true.
Proof. by destruct n. Qed.
Lemma ecu_element_named i s i' : ecu_named i' (ecu_element i s) = String.eqb i i'.
Proof. done. Qed.
Lemma put_ecu_same i s l : List.find (ecu_named i) (put_ecu i s l) = Some (ecu_element i s).
Proof.
  unfold put_ecu. cbv zeta. rewrite existsb_find. destruct (List.find (ecu_named i) l) as [n|] eqn:E; cbn [has].
  - rewrite find_edit_same, E; [done|]. intros _ _. rewrite ecu_element_named. apply String.eqb_refl.
  - rewrite find_app, E. cbn [List.find]. by rewrite ecu_element_named, String.eqb_refl.
Qed.
Lemma put_ecu_other i i' s l : i' <> i -> List.find (ecu_named i') (put_ecu i s l) = List.find (ecu_named i') l.
Proof.
  intros Hi. assert (ecu_named i' (ecu_element i s) = false) as He by (rewrite ecu_element_named; by apply String.eqb_neq).
  unfold put_ecu. cbv zeta. destruct (existsb _ l).
  - apply find_edit_other. intros n [_ E%String.eqb_eq]%andb_true_iff. split; [|done]. unfold ecu_named. rewrite E.
    rewrite (proj2 (String.eqb_neq i i')) by done. apply andb_false_r.
  - rewrite find_app. cbn [List.find]. rewrite He. by destruct (List.find _ l).
Qed.
End lemmas.

(** ** Selections stored and restored *)
Section stored.
Context (load_all : list Z -> result ParseFailure (list XmlNode)) (save : list XmlNode -> list Z).
(** The printer and the parser agree on a stored file with this selection in it. *)
Definition prints_conf (ecu_id : string) (selection : LoggerSelection) : Prop :=
  forall conf document, load_all conf = Ok document ->
    let written := save (with_selection ecu_id selection document) in
    bytes_ok written /\ load_all written = Ok (with_selection ecu_id selection document).
(** The nodes the file names [config] and [logger] are elements. *)
Definition conf_ok (document : list XmlNode) : Prop :=
  match document_child document "config" with
  | Some config => is_element config = true /\ (forall logger, child (Some config) "logger" = Some logger -> is_element logger = true)
  | None => False
  end.
Definition ecu_of (document : list XmlNode) (ecu_id : string) : option XmlNode :=
  FindEcu (child (document_child document "config") "logger") ecu_id.
Lemma AppendIds_collected name ids attributes : CollectIds (Some (Element "" attributes (AppendIds name ids))) name = ids.
Proof.
  unfold CollectIds, children. cbn [node_children]. induction ids as [|i ids IH]; cbn; [done|]. rewrite String.eqb_refl. cbn. f_equal. exact IH.
Qed.
Lemma selection_of_element i s : selection_of (ecu_element i s) = s.
Proof.
  destruct s as [p g l w]. unfold selection_of, ecu_element. cbn -[AppendIds CollectIds].
  f_equal; exact (AppendIds_collected _ _ []).
Qed.
Lemma with_selection_ecu i i' s document : conf_ok document ->
  ecu_of (with_selection i s document) i' = if String.eqb i' i then Some (ecu_element i s) else ecu_of document i'.
Proof.
  unfold conf_ok, ecu_of, document_child, with_selection. rewrite find_edit_same by apply named_edit.
  destruct (List.find (is_named "config") document) as [config|]; [|done]. intros [He Hl]. cbn [fmap option_fmap option_map].
  destruct config as [cname attrs config| | | | | |]; try done. unfold child in Hl |- *. cbn [node_children edit_children] in *.
  unfold put_logger. cbv zeta. rewrite existsb_find. set (l := List.find (is_named "logger") config) in *.
  assert (List.find (is_named "logger") (edit_first (is_named "logger") (edit_children (put_ecu i s))
    (if has l then config else config ++ [Element "logger" [] []])) = edit_children (put_ecu i s) <$> Some (default (Element "logger" [] []) l)) as ->.
  { rewrite find_edit_same by apply named_edit. subst l. destruct (List.find (is_named "logger") config) as [n|] eqn:E; cbn [has].
    - by rewrite E.
    - by rewrite find_app, E. }
  cbn [fmap option_fmap option_map]. unfold FindEcu. destruct l as [n|] eqn:E; cbn [default].
  - specialize (Hl n eq_refl). destruct n as [nname nattrs n| | | | | |]; try done. cbn [edit_children node_children].
    destruct (String.eqb_spec i' i) as [->|Hi]; [apply put_ecu_same|by apply put_ecu_other].
  - cbn [edit_children node_children]. destruct (String.eqb_spec i' i) as [->|Hi]; [apply put_ecu_same|by apply put_ecu_other].
Qed.
End stored.

(** ** What capabilities say *)
Section capabilities.
Context (protocol : string) (capabilities : list Z).
Definition same_keys (f g : gmap LoggerIdentity EcuSupport) : Prop := dom f = dom g.
Lemma Update_lookup f p i v (k : LoggerIdentity) : Update f p i v !! k = if decide (k = (p, i)) then (fun _ => v) <$> f !! k else f !! k.
Proof.
  unfold Update. destruct (f !! (p, i)) eqn:E; case_decide as Hk; subst; rewrite ?E; try done.
  - by rewrite lookup_insert_eq.
  - by rewrite lookup_insert_ne.
Qed.
Lemma reset_lookup f k : reset_protocol protocol f !! k = (fun s => if String.eqb (fst k) protocol then kUnknown else s) <$> f !! k.
Proof. unfold reset_protocol. rewrite map_lookup_imap. by destruct (f !! k). Qed.
(** What the last entry of an identity says, if any. *)
Definition reported (entries : list (LoggerIdentity * EcuSupport)) (k : LoggerIdentity) (before : EcuSupport) : EcuSupport :=
  fold_left (fun s e => if decide (k = fst e) then snd e else s) entries before.
Lemma reported_cons e entries k s : reported (e :: entries) k s = reported entries k (if decide (k = fst e) then snd e else s).
Proof. done. Qed.
Definition parameter_entries (l : list LoggerParameter) : list (LoggerIdentity * EcuSupport) :=
  map (fun p => ((protocol, lp_id p), Capability (lp_ecu_byte_index p) (lp_ecu_bit p) capabilities))
    (List.filter (fun p => String.eqb (lp_protocol p) protocol) l).
Definition switch_entries (l : list LoggerSwitch) : list (LoggerIdentity * EcuSupport) :=
  map (fun p => ((protocol, lw_id p), Capability (lw_ecu_byte_index p) (lw_ecu_bit p) capabilities))
    (List.filter (fun p => String.eqb (lw_protocol p) protocol) l).
Lemma apply_parameters l m : exists f, fold_left (apply_parameter protocol capabilities) l m = with_support m f (switch_support_ m)
  /\ forall k, f !! k = reported (parameter_entries l) k <$> parameter_support_ m !! k.
Proof.
  revert m. induction l as [|p l IH]; intros m; cbn [fold_left].
  - exists (parameter_support_ m). split; [by destruct m|]. intros k. cbn. by destruct (_ !! k).
  - unfold parameter_entries. cbn [List.filter]. unfold apply_parameter at 2. destruct (String.eqb (lp_protocol p) protocol); [|apply IH].
    edestruct IH as (f & E & Hf). exists f. split; [exact E|]. intros k. rewrite Hf. cbn [parameter_support_ SetParameterSupport with_support].
    rewrite Update_lookup. destruct (_ !! k) as [s|]; [|by destruct (decide _)]. cbn [map fmap option_fmap option_map]. rewrite reported_cons.
    cbn [fst snd]. by case_decide.
Qed.
Lemma apply_switches l m : exists f, fold_left (apply_switch protocol capabilities) l m = with_support m (parameter_support_ m) f
  /\ forall k, f !! k = reported (switch_entries l) k <$> switch_support_ m !! k.
Proof.
  revert m. induction l as [|p l IH]; intros m; cbn [fold_left].
  - exists (switch_support_ m). split; [by destruct m|]. intros k. cbn. by destruct (_ !! k).
  - unfold switch_entries. cbn [List.filter]. unfold apply_switch at 2. destruct (String.eqb (lw_protocol p) protocol); [|apply IH].
    edestruct IH as (f & E & Hf). exists f. split; [exact E|]. intros k. rewrite Hf. cbn [switch_support_ SetSwitchSupport with_support].
    rewrite Update_lookup. destruct (_ !! k) as [s|]; [|by destruct (decide _)]. cbn [map fmap option_fmap option_map]. rewrite reported_cons.
    cbn [fst snd]. by case_decide.
Qed.
(** The support of an entry after the capabilities of its protocol were applied. *)
Definition support_after (entries : list (LoggerIdentity * EcuSupport)) (k : LoggerIdentity) (before : EcuSupport) : EcuSupport :=
  if String.eqb (fst k) protocol then reported entries k kUnknown else before.
Lemma reported_other entries k s : (forall e, e ∈ entries -> fst (fst e) = protocol) -> fst k <> protocol -> reported entries k s = s.
Proof.
  intros He Hk. revert s. induction entries as [|e entries IH]; intros s; cbn; [done|]. rewrite decide_False.
  - apply IH. intros e' ?. apply He. by apply list_elem_of_further.
  - intros ->. apply Hk, He. apply list_elem_of_here.
Qed.
Lemma entries_protocol l : (forall e, e ∈ parameter_entries l -> fst (fst e) = protocol).
Proof. unfold parameter_entries. intros e (p & -> & _)%list_elem_of_fmap. done. Qed.
Lemma switch_entries_protocol l : (forall e, e ∈ switch_entries l -> fst (fst e) = protocol).
Proof. unfold switch_entries. intros e (p & -> & _)%list_elem_of_fmap. done. Qed.
Lemma after_reset entries k (s : EcuSupport) : (forall e, e ∈ entries -> fst (fst e) = protocol) ->
  reported entries k (if String.eqb (fst k) protocol then kUnknown else s) = support_after entries k s.
Proof.
  intros He. unfold support_after. destruct (String.eqb_spec (fst k) protocol); [done|]. by apply reported_other.
Qed.
Lemma ApplyCapabilities_spec m : exists f g, ApplyCapabilities m protocol capabilities = with_support m f g
  /\ (forall k, f !! k = support_after (parameter_entries (ld_parameters (definition_ m))) k <$> parameter_support_ m !! k)
  /\ (forall k, g !! k = support_after (switch_entries (ld_switches (definition_ m))) k <$> switch_support_ m !! k).
Proof.
  unfold ApplyCapabilities. cbv zeta. cbn [ResetProtocolSupport with_support definition_].
  match goal with |- context [fold_left (apply_parameter _ _) ?l ?m0] => destruct (apply_parameters l m0) as (f & -> & Hf) end.
  cbn [with_support definition_].
  match goal with |- context [fold_left (apply_switch _ _) ?l ?m0] => destruct (apply_switches l m0) as (g & -> & Hg) end.
  exists f, g. split; [done|]. split; intros k.
  - rewrite Hf. cbn [parameter_support_ ResetProtocolSupport with_support]. rewrite reset_lookup. destruct (parameter_support_ m !! k); [|done].
    cbn. f_equal. apply after_reset, entries_protocol.
  - rewrite Hg. cbn [switch_support_ ResetProtocolSupport with_support]. rewrite reset_lookup. destruct (switch_support_ m !! k); [|done].
    cbn. f_equal. apply after_reset, switch_entries_protocol.
Qed.
End capabilities.

(** ** The properties *)
Section claims.
Context {W : Type} {HW : World W} {FS : FileSystem W} {FL : FileSystemLaws W}
  (load_all : list Z -> result ParseFailure (list XmlNode)) (save : list XmlNode -> list Z).
Lemma LoadSelection_file conf ecu_id contents document (w : W) : file w conf = Some contents -> load_all contents = Ok document ->
  fst (LoadSelection load_all conf ecu_id w) = Ok (selection_of <$> ecu_of document ecu_id)
  /\ unchanged w (snd (LoadSelection load_all conf ecu_id w)).
Proof.
  intros Hf Hl. destruct (fs_read conf w) as [Hu Hr]. specialize (Hr _ Hf). unfold LoadSelection, io_try, io_bind.
  destruct (files_Read conf w) as [r w1]. cbn [fst snd] in *. subst r. unfold ReadSelection, Load. rewrite Hl. done.
Qed.
(** C26: A saved selection is the one restored. When a stored file is there and a
    selection is saved for a unit, no other file changes, restoring for that unit, in
    this run or the next and whatever the model held, gives exactly that selection and
    leaves the definition and the support of the model alone, and what is stored for
    every other unit reads as before. *)
Theorem saved_selection_restored m conf ecu_id selection contents document (w : W) m1 w1 :
  prints_conf load_all save ecu_id selection -> file w conf = Some contents -> load_all contents = Ok document -> conf_ok document ->
  SavePendingSelection load_all save m conf ecu_id selection w = ((Ok tt, m1), w1) ->
  selection_ m1 = selection /\ unchanged_but conf w w1
  /\ (forall m2 protocol, exists w2, unchanged w1 w2
        /\ RestorePendingSelection load_all save m2 conf ecu_id protocol w1 = ((Ok kRestored, SetSelection m2 selection), w2))
  /\ (forall other, other <> ecu_id -> fst (LoadSelection load_all conf other w1) = fst (LoadSelection load_all conf other w)).
Proof.
  intros Hp Hf Hl Hok. destruct (Hp contents document Hl) as [Hb Hread].
  unfold SavePendingSelection, SaveSelection, io_try, io_bind, io_ret. destruct (fs_read conf w) as [Hu Hr]. specialize (Hr _ Hf).
  destruct (files_Read conf w) as [r w0]. cbn [fst snd] in Hu, Hr. subst r. unfold WriteSelection, Load. rewrite Hl. cbn [result_bind].
  unfold conf_ok in Hok. destruct (document_child document "config") as [config|] eqn:Ec; [|done].
  cbn [selection_ SetSelection]. set (written := save (with_selection ecu_id selection document)) in *.
  destruct (fs_replace conf written w0) as [Hother Hsame]. destruct (writer_Replace conf written w0) as [r w1'] eqn:Er.
  intros [= -> <- <-]. cbn [fst snd] in *. specialize (Hsame eq_refl Hb).
  assert (conf_ok document) as Hok' by (unfold conf_ok; by rewrite Ec).
  split; [done|]. split; [intros q Hq; rewrite Hother by done; apply Hu|]. split.
  - intros m2 protocol. destruct (LoadSelection_file conf ecu_id written _ w1' Hsame Hread) as [Hsel Hun].
    exists (snd (LoadSelection load_all conf ecu_id w1')). split; [exact Hun|]. unfold RestorePendingSelection, io_bind.
    destruct (LoadSelection load_all conf ecu_id w1') as [r w2]. cbn [fst snd] in *. subst r.
    rewrite with_selection_ecu, String.eqb_refl by done. cbn [fmap option_fmap option_map]. by rewrite selection_of_element.
  - intros other Ho. rewrite (proj1 (LoadSelection_file conf other written _ w1' Hsame Hread)),
      (proj1 (LoadSelection_file conf other contents _ w Hf Hl)), with_selection_ecu by done.
    by rewrite (proj2 (String.eqb_neq other ecu_id)).
Qed.
End claims.
(** What the default selection offers. After the capabilities of a protocol are
    applied to a model, an entry of that protocol counts as the last definition of its
    identity says of the unit's answer, entries of other protocols as before, and no
    entry appears or goes; and the default selection of a protocol is its first fifteen
    gauges, twelve lower entries and twenty switches among those available: supported,
    or unknown and enabled. *)
Theorem capabilities_select m protocol capabilities :
  let m' := ApplyCapabilities m protocol capabilities in
  definition_ m' = definition_ m /\ selection_ m' = selection_ m
  /\ (forall k, parameter_support_ m' !! k
        = support_after protocol (parameter_entries protocol capabilities (ld_parameters (definition_ m))) k <$> parameter_support_ m !! k)
  /\ (forall k, switch_support_ m' !! k
        = support_after protocol (switch_entries protocol capabilities (ld_switches (definition_ m))) k <$> switch_support_ m !! k)
  /\ forall requested, let q := default_protocol m' requested in
       DefaultSelection m' requested = {| ls_protocol := q; ls_gauge_ids := take 15 (offered_parameters m' q);
         ls_lower_panel_ids := take 12 (offered_parameters m' q); ls_switch_ids := take 20 (offered_switches m' q) |}.
Proof.
  cbv zeta. destruct (ApplyCapabilities_spec protocol capabilities m) as (f & g & E & Hf & Hg). rewrite E. cbn.
  split_and!; try done. intros requested. apply DefaultSelection_spec.
Qed.

(** ** A stored file *)
Definition sample_conf : list XmlNode :=
  [Element "config" [] [Element "logger" [] [ecu_element "A2WC" {| ls_protocol := "SSM"; ls_gauge_ids := ["P1"];
     ls_lower_panel_ids := []; ls_switch_ids := ["S1"] |}]]]%string.
Definition sample_selection : LoggerSelection :=
  {| ls_protocol := "SSM"; ls_gauge_ids := ["P8"; "P9"]; ls_lower_panel_ids := ["P8"]; ls_switch_ids := [] |}%string.
(** A parser and a printer of two documents: the stored one, and it with the selection. *)
Definition conf_load (bytes : list Z) : result ParseFailure (list XmlNode) :=
  match bytes with
  | [0] => Ok sample_conf
  | [1] => Ok (with_selection "4B12" sample_selection sample_conf)
  | _ => Err ("no document element found"%string, 0)
  end.
Definition conf_save (_ : list XmlNode) : list Z := [1].
Lemma conf_prints : prints_conf conf_load conf_save "4B12" sample_selection.
Proof.
  assert (with_selection "4B12" sample_selection (with_selection "4B12" sample_selection sample_conf)
    = with_selection "4B12" sample_selection sample_conf) as Hi by reflexivity.
  assert (forall d, d = sample_conf \/ d = with_selection "4B12" sample_selection sample_conf ->
    bytes_ok (conf_save d) /\ with_selection "4B12" sample_selection d = with_selection "4B12" sample_selection sample_conf) as Hd.
  { intros d H. split; [repeat constructor; unfold byte_ok; lia|]. by destruct H as [->| ->]. }
  intros conf document Hl. cbv zeta. assert (document = sample_conf \/ document = with_selection "4B12" sample_selection sample_conf) as H.
  { unfold conf_load in Hl. destruct conf as [|[|[]|] [|]]; try done; injection Hl as <-; auto. }
  destruct (Hd document H) as [Hb ->]. done.
Qed.
Definition conf_disk : Disk := {| disk_files := [("logger.cfg"%string, [0])]; disk_log := [] |}.
Lemma saved_selection_restored_witness :
  exists m w, SavePendingSelection conf_load conf_save new_logger_model "logger.cfg" "4B12" sample_selection conf_disk = ((Ok tt, m), w)
    /\ selection_ (snd (fst (RestorePendingSelection conf_load conf_save new_logger_model "logger.cfg" "4B12" "SSM" w))) = sample_selection
    /\ fst (LoadSelection conf_load "logger.cfg" "A2WC" w) = fst (LoadSelection conf_load "logger.cfg" "A2WC" conf_disk).
Proof.
  eexists _, _. split; [reflexivity|].
  assert (conf_ok sample_conf) as Hok by (split; [reflexivity|]; by intros logger [= <-]).
  destruct (saved_selection_restored (FS := disk_file_system) (FL := disk_laws) conf_load conf_save new_logger_model "logger.cfg" "4B12" sample_selection [0] sample_conf conf_disk _ _
    conf_prints ltac:(vm_compute; reflexivity) eq_refl Hok ltac:(reflexivity)) as (_ & _ & Hr & Ho). split; [|by apply Ho].
  destruct (Hr new_logger_model "SSM"%string) as (w2 & _ & E). rewrite E. reflexivity.
Defined.
