(* ===== verification/LoggingSession.v ===== *)
(** * LoggingSession: [src/backend/logging], from a selection to a logging run

    A selected parameter or switch becomes a channel with an address, a width and a
    compiled conversion; the channels of a run become a session with the read plan of
    its protocol; samples are converted, resolved to the measurement they belong to and
    written as records of comma-separated fields. *)
From stdpp Require Import gmap.
From S2P Require Import Prelude Bytes.
From S2P Require Import Ports.
From S2P Require Import Expression Numeric.
From S2P Require Import Colt.
From S2P Require Import DefinitionResolver DefinitionParsers.
From S2P Require Import LoggerModel.

(** ** [logging_types.h] *)
Inductive LoggingProtocolId : Set := kSsm | kMutDma | kCdbg.
Inductive NumericStorage : Set := kUnsignedInteger | kSignedInteger | kFloatNumber.
Inductive NumericByteOrder : Set := kBigEndian | kLittleEndian.
#[export] Instance LoggingProtocolId_eq_dec : EqDecision LoggingProtocolId.
Proof. solve_decision. Defined.
#[export] Instance NumericStorage_eq_dec : EqDecision NumericStorage.
Proof. solve_decision. Defined.
#[export] Instance NumericByteOrder_eq_dec : EqDecision NumericByteOrder.
Proof. solve_decision. Defined.
Record LoggingChannel := {
  ch_id : string; ch_address : Z; ch_length : Z; ch_from_byte_expression : string; ch_unit : string;
  ch_decimal_precision : Z; ch_byte_addresses : list Z; ch_sample_bit : option Z; ch_storage : NumericStorage;
  ch_byte_order : NumericByteOrder
}.
(** Times in milliseconds. *)
Record LoggingPolicy := {
  poll_timeout : Z; car_silence_miss_threshold : Z; reconnect_attempt_threshold : Z; reconnect_retry_period : Z
}.
Record ProtocolSample := { ps_channel_id : string; ps_raw_value : string }.
Inductive LoggingState : Set := kRunning | kCarNotResponding.
#[export] Instance LoggingState_eq_dec : EqDecision LoggingState.
Proof. solve_decision. Defined.

(** ** [logging_read_plan.cpp] *)
Record SsmReadPlan := { plan_addresses : list Z; plan_response_positions : list (list Z) }.
Definition byte_address (channel : LoggingChannel) (i : Z) : Z :=
  match ch_byte_addresses channel with [] => ch_address channel + i | _ => zget (ch_byte_addresses channel) i end.
Definition bad_layout (plan : SsmReadPlan) (channel : LoggingChannel) : bool :=
  (ch_length channel =? 0) || (84 <? ch_length channel) || (84 - ch_length channel <? zlen (plan_addresses plan))
  || (negb (bool_decide (ch_byte_addresses channel = [])) && negb (zlen (ch_byte_addresses channel) =? ch_length channel))
  || match ch_sample_bit channel with Some bit => (8 <=? bit) || negb (ch_length channel =? 1) | None => false end.
(** The bytes of a channel, from the first to the last. *)
Fixpoint plan_bytes (channel : LoggingChannel) (i : Z) (count : nat) (addresses positions : list Z)
    : result Error (list Z * list Z) :=
  match count with
  | O => Ok (addresses, positions)
  | S count =>
      let address := byte_address channel i in
      if 0xffffff <? address then
        Fail kInvalidConfig ("SSM channel " +:+ ch_id channel +:+ ": byte address outside 24-bit range")
      else plan_bytes channel (i + 1) count (addresses ++ [address]) (positions ++ [zlen addresses])
  end.
Fixpoint plan_channels (channels : list LoggingChannel) (plan : SsmReadPlan) : result Error SsmReadPlan :=
  match channels with
  | [] => Ok plan
  | channel :: channels =>
      if bad_layout plan channel then
        Fail kInvalidConfig ("SSM channel " +:+ ch_id channel +:+ ": invalid byte layout or exceeds 84 requested addresses")
      else
        let! bytes := plan_bytes channel 0 (Z.to_nat (ch_length channel)) (plan_addresses plan) [] in
        plan_channels channels {| plan_addresses := fst bytes; plan_response_positions := plan_response_positions plan ++ [snd bytes] |}
  end.
Definition MakeSsmReadPlan (channels : list LoggingChannel) : result Error SsmReadPlan :=
  plan_channels channels {| plan_addresses := []; plan_response_positions := [] |}.

(** ** [logging_session.cpp] *)
Definition ValidAddress (protocol : LoggingProtocolId) (address : Z) : bool :=
  match protocol with kSsm => address <=? 0xffffff | kMutDma => address <=? 0xffff | kCdbg => true end.
Definition ValidProtocol (protocol : LoggingProtocolId) : bool :=
  bool_decide (protocol = kSsm) || bool_decide (protocol = kMutDma) || bool_decide (protocol = kCdbg).
Definition wire_channel (channel : LoggingChannel) : Cdbg.CdbgChannel :=
  {| Cdbg.pointer := ch_address channel; Cdbg.size := u8 (ch_length channel) |}.
Definition ValidWireShape (protocol : LoggingProtocolId) (channels : list LoggingChannel) : bool :=
  match protocol with
  | kSsm => true
  | kMutDma => zlen channels <=? 255
  | kCdbg => match Cdbg.BatchChannelsIntoFrames (map wire_channel channels) with Some _ => true | None => false end
  end.
Definition ValidLength (length : Z) : bool := (length =? 1) || (length =? 2) || (length =? 4).
Definition KnownEncoding (channel : LoggingChannel) : bool :=
  negb (bool_decide (ch_storage channel = kFloatNumber)) || (ch_length channel =? 4).
Definition OverridesEncoding (channel : LoggingChannel) : bool :=
  negb (bool_decide (ch_storage channel = kUnsignedInteger)) || negb (bool_decide (ch_byte_order channel = kBigEndian)).
Definition ExceedsSsmRange (protocol : LoggingProtocolId) (channel : LoggingChannel) : bool :=
  bool_decide (protocol = kSsm) && bool_decide (ch_byte_addresses channel = [])
  && (u32 (0xffffff - ch_address channel) <? u64 (ch_length channel - 1)).
Definition ValidateChannelFields (protocol : LoggingProtocolId) (channel : LoggingChannel) : Status :=
  if negb (ValidProtocol protocol) then Fail kInvalidConfig "invalid logging protocol"
  else if String.eqb (ch_id channel) "" then Fail kInvalidConfig "invalid id; expected a nonempty channel id"
  else if negb (ValidLength (ch_length channel)) then Fail kInvalidConfig "invalid length; expected 1, 2 or 4 bytes"
  else if negb (ValidAddress protocol (ch_address channel)) then
    Fail kInvalidConfig ("invalid address '" +:+ fmt_x (ch_address channel) +:+ "'; outside the selected protocol's address range")
  else if match ch_sample_bit channel with Some bit => (8 <=? bit) || negb (ch_length channel =? 1) | None => false end then
    Fail kInvalidConfig "invalid switch sample bit; expected 0–7 in a one-byte source"
  else if negb (KnownEncoding channel) then Fail kInvalidConfig "invalid numeric storage or byte order"
  else if ExceedsSsmRange protocol channel then Fail kInvalidConfig "expanded byte address exceeds the SSM range"
  else if negb (bool_decide (protocol = kSsm)) && OverridesEncoding channel then
    Fail kInvalidConfig "numeric metadata override is unsupported by this protocol"
  else if 15 <? ch_decimal_precision channel then Fail kInvalidConfig "invalid precision; expected 0–15 decimal places"
  else Ok tt.
Definition ValidPolicy (policy : LoggingPolicy) : bool :=
  (0 <? poll_timeout policy) && (0 <? car_silence_miss_threshold policy) && (0 <? reconnect_attempt_threshold policy)
  && (0 <=? reconnect_retry_period policy).
Definition ValidateMutRequestSize (channels : list LoggingChannel) : Status :=
  let bytes := fold_left (fun total source => total + ch_length source) channels 0 in
  if (96 <? zlen channels) || (96 <? bytes) then Fail kInvalidConfig "MUT request exceeds 96 entries or 96 response bytes" else Ok tt.
Section session.
Context `{Double}.
Definition CompileChannel (protocol : LoggingProtocolId) (channel : LoggingChannel) : result Error (list Instruction) :=
  let! _ := ValidateChannelFields protocol channel in
  if String.eqb (ch_from_byte_expression channel) "" then Fail kInvalidConfig "invalid expression; expected a nonempty conversion"
  else
    match Compile (chars (ch_from_byte_expression channel)) with
    | Ok compiled => Ok compiled
    | Err detail => Fail kInvalidConfig ("invalid expression '" +:+ ch_from_byte_expression channel +:+ "': " +:+ detail)
    end.
Fixpoint compile_channels (protocol : LoggingProtocolId) (channels : list LoggingChannel) (ids : gset string)
    (conversions : list (list Instruction)) : result Error (list (list Instruction)) :=
  match channels with
  | [] => Ok conversions
  | channel :: channels =>
      if bool_decide (ch_id channel ∈ ids) then Fail kInvalidConfig "duplicate logging channel id"
      else
        let! compiled := CompileChannel protocol channel in
        compile_channels protocol channels ({[ch_id channel]} ∪ ids) (conversions ++ [compiled])
  end.
Definition CompileChannels (protocol : LoggingProtocolId) (channels : list LoggingChannel) : result Error (list (list Instruction)) :=
  compile_channels protocol channels ∅ [].
Definition ValidateLoggingChannel (protocol : LoggingProtocolId) (channel : LoggingChannel) : Status :=
  let! _ := CompileChannel protocol channel in Ok tt.
Record LoggingSession := {
  protocol_ : LoggingProtocolId; channels_ : list LoggingChannel; policy_ : LoggingPolicy; read_plan_ : option SsmReadPlan;
  conversions_ : list (list Instruction)
}.
Definition MakeLoggingSession (protocol : LoggingProtocolId) (channels : list LoggingChannel) (policy : LoggingPolicy)
    : result Error LoggingSession :=
  if negb (ValidProtocol protocol) || negb (ValidPolicy policy) then Fail kInvalidConfig "invalid logging policy"
  else if bool_decide (protocol = kCdbg) && bool_decide (channels = []) then Fail kInvalidConfig "no CDBG log parameters selected"
  else
    let! conversions := CompileChannels protocol channels in
    if negb (ValidWireShape protocol channels) then Fail kInvalidConfig "logging channels do not fit the selected protocol"
    else
      let! _ := (if bool_decide (protocol = kMutDma) then ValidateMutRequestSize channels else Ok tt) in
      let! read_plan := (if bool_decide (protocol = kSsm) then let! plan := MakeSsmReadPlan channels in Ok (Some plan) else Ok None) in
      Ok {| protocol_ := protocol; channels_ := channels; policy_ := policy; read_plan_ := read_plan; conversions_ := conversions |}.
Definition FindChannel (s : LoggingSession) (id : string) : option LoggingChannel :=
  List.find (fun channel => String.eqb (ch_id channel) id) (channels_ s).
Fixpoint find_conversion (id : string) (channels : list LoggingChannel) (conversions : list (list Instruction)) : option (list Instruction) :=
  match channels, conversions with
  | channel :: channels, conversion :: conversions =>
      if String.eqb (ch_id channel) id then Some conversion else find_conversion id channels conversions
  | _, _ => None
  end.
Definition FindConversion (s : LoggingSession) (id : string) : option (list Instruction) :=
  find_conversion id (channels_ s) (conversions_ s).

(** ** [logging_conversion.cpp] *)
Context {HN : Numeric}.
Record LogSample := { sample_channel_id : string; numeric_value : option double; sample_raw_value : string; sample_unit : string }.
(** The value of a compiled conversion; an evaluation always answers. *)
Definition converted (program : option (list Instruction)) (x : double) : EvaluationResult :=
  default (Err "empty stack"%string) (program ≫= fun program => Evaluate program x).
Definition ConvertSample (s : LoggingSession) (raw : ProtocolSample) : result Error LogSample :=
  match FindChannel s (ps_channel_id raw) with
  | None => Fail kInternal "protocol sample channel is not in the logging session"
  | Some channel =>
      let sample value := {| sample_channel_id := ps_channel_id raw; numeric_value := Some value; sample_raw_value := ps_raw_value raw;
                             sample_unit := ch_unit channel |} in
      match ch_sample_bit channel with
      | Some bit =>
          match bounded_number dec_digit 10 kU32Max (ps_raw_value raw) with
          | Some byte =>
              if 255 <? byte then Fail kBadResponse "switch raw sample is not a byte"
              else Ok (sample (of_Z (Z.land (Z.shiftr byte bit) 1)))
          | None => Fail kBadResponse "switch raw sample is not a byte"
          end
      | None =>
          match ParseFiniteNumber (chars (ps_raw_value raw)) with
          | Err detail => Fail kBadResponse ("protocol sample raw value is not a finite number: " +:+ detail)
          | Ok raw_value =>
              match converted (FindConversion s (ps_channel_id raw)) raw_value with
              | Err detail => Fail kInvalidConfig ("logging conversion expression failed: " +:+ detail)
              | Ok value => Ok (sample value)
              end
          end
      end
  end.
End session.

(** ** [logging_channel_preparation.cpp] *)
Definition TrimAscii (input : string) : string := TrimCopy input.
(** A whole number that fits its type, [max] the largest. *)
Definition ParseUnsigned (base max : Z) (input : string) : option Z :=
  let digits := to_chars (TrimAscii input) in
  let digits := if (base =? 16) && (starts_with digits [48; 120] || starts_with digits [48; 88]) then skipn 2 digits else digits in
  bounded_number (if base =? 16 then hex_digit else dec_digit) base max (of_chars digits).
Definition LowerAscii (value : string) : string :=
  of_chars (map (fun c => if (65 <=? code c) && (code c <=? 90) then ascii_of_N (Z.to_N (code c + 32)) else c) (to_chars value)).
Definition ParseStorage (input : string) : result string NumericStorage :=
  let type := LowerAscii input in
  if bool_decide (type ∈ [""; "uint"; "uint8"; "uint16"; "uint32"]%string) then Ok kUnsignedInteger
  else if bool_decide (type ∈ ["int"; "int8"; "int16"; "int32"]%string) then Ok kSignedInteger
  else if String.eqb type "float" then Ok kFloatNumber
  else Err ("invalid storagetype '" +:+ input +:+ "'").
Definition ParseByteOrder (input : string) : result string NumericByteOrder :=
  let endian := LowerAscii input in
  if bool_decide (endian ∈ [""; "big"]%string) then Ok kBigEndian
  else if String.eqb endian "little" then Ok kLittleEndian
  else Err ("invalid endian '" +:+ input +:+ "'").
Record Placement := { pl_address : Z; pl_length : Z; pl_byte_addresses : list Z }.
(** The address of a specification, and the length it leaves. *)
Definition ParseAddressSpec (source : LoggerAddressSpec) (explicit_bytes : bool) (length : Z) : result string (Z * Z) :=
  match ParseUnsigned 16 kU32Max (as_value source) with
  | None => Err "invalid explicit byte address"%string
  | Some address =>
      match as_bit source with
      | Some _ => Err "sample bit is only valid for a switch"%string
      | None =>
          match as_length source with
          | None => Ok (address, length)
          | Some text =>
              match ParseUnsigned 10 kU64Max text with
              | None => Err "invalid explicit address length"%string
              | Some length =>
                  if (length =? 0) || (explicit_bytes && negb (length =? 1)) then Err "invalid explicit address length"%string
                  else Ok (address, length)
              end
          end
      end
  end.
Fixpoint parse_specs (sources : list LoggerAddressSpec) (explicit_bytes : bool) (length : Z) (addresses : list Z)
    : result string (list Z * Z) :=
  match sources with
  | [] => Ok (addresses, length)
  | source :: sources =>
      let! parsed := ParseAddressSpec source explicit_bytes length in
      parse_specs sources explicit_bytes (snd parsed) (addresses ++ [fst parsed])
  end.
Definition ApplyAddressSpecs (parameter : LoggerParameter) (protocol : LoggingProtocolId) (placement : Placement)
    : result string Placement :=
  let explicit_bytes := 1 <? zlen (lp_address_specs parameter) in
  if explicit_bytes && negb (bool_decide (protocol = kSsm)) then Err "explicit byte address lists require SSM"%string
  else
    let! parsed := parse_specs (lp_address_specs parameter) explicit_bytes (pl_length placement) [] in
    let '(addresses, length) := parsed in
    Ok {| pl_address := match addresses with a :: _ => a | [] => pl_address placement end;
          pl_length := if explicit_bytes then zlen addresses else length;
          pl_byte_addresses := if explicit_bytes then addresses else pl_byte_addresses placement |}.
Definition ParsePlacement (parameter : LoggerParameter) (protocol : LoggingProtocolId) : result string Placement :=
  match ParseUnsigned 16 kU32Max (lp_address parameter) with
  | None => Err ("invalid address '" +:+ lp_address parameter +:+ "'; expected hexadecimal digits with an optional 0x prefix")
  | Some address =>
      let bad_length {A} : result string A :=
        Err ("invalid length '" +:+ lp_length parameter +:+ "'; expected a positive decimal integer") in
      match ParseUnsigned 10 kU64Max (lp_length parameter) with
      | None => bad_length
      | Some length =>
          if length =? 0 then bad_length
          else
            let! placement := ApplyAddressSpecs parameter protocol {| pl_address := address; pl_length := length; pl_byte_addresses := [] |} in
            if negb (ValidLength (pl_length placement)) then Err "invalid length; expected 1, 2 or 4 bytes"%string else Ok placement
      end
  end.
Record Encoding := { enc_storage : NumericStorage; enc_byte_order : NumericByteOrder }.
Definition ParseEncoding (conversion : Conversion) (protocol : LoggingProtocolId) (length : Z) : result string Encoding :=
  let! storage := ParseStorage (cv_storage_type conversion) in
  let! byte_order := ParseByteOrder (cv_endian conversion) in
  if bool_decide (storage = kFloatNumber) && negb (length =? 4) then Err "storagetype float requires length 4"%string
  else if negb (bool_decide (protocol = kSsm)) && negb (bool_decide (storage = kUnsignedInteger)) then
    Err "storagetype is unsupported by this protocol"%string
  else if negb (bool_decide (protocol = kSsm)) && negb (bool_decide (byte_order = kBigEndian)) then
    Err "endian override is unsupported by this protocol"%string
  else Ok {| enc_storage := storage; enc_byte_order := byte_order |}.
Definition ParsePrecision (format : string) : result string Z :=
  let text := to_chars format in
  if String.eqb format "0" then Ok 0
  else if negb (starts_with text [48; 46]) || (zlen text <? 3) || (17 <? zlen text)
          || negb (forallb (fun c => code c =? 48) (skipn 2 text)) then
    Err ("invalid format '" +:+ format +:+ "'; expected 0 or 0. followed by 1–15 zeros")
  else Ok (u8 (zlen text - 2)).
Section preparation.
Context `{Double}.
Definition ParseChannel (parameter : LoggerParameter) (protocol : LoggingProtocolId) : result string LoggingChannel :=
  match lp_conversions parameter with
  | [] => Err "missing conversion; provide an expression and format"%string
  | conversion :: _ =>
      let! placement := ParsePlacement parameter protocol in
      let! encoding := ParseEncoding conversion protocol (pl_length placement) in
      let! precision := ParsePrecision (cv_format conversion) in
      let channel := {| ch_id := lp_id parameter; ch_address := pl_address placement; ch_length := pl_length placement;
        ch_from_byte_expression := cv_expr conversion; ch_unit := cv_units conversion; ch_decimal_precision := precision;
        ch_byte_addresses := pl_byte_addresses placement; ch_sample_bit := None; ch_storage := enc_storage encoding;
        ch_byte_order := enc_byte_order encoding |} in
      match ValidateLoggingChannel protocol channel with Ok _ => Ok channel | Err e => Err (detail e) end
  end.
Definition PrepareLoggingChannel (parameter : LoggerParameter) (protocol : LoggingProtocolId) : result Error LoggingChannel :=
  match ParseChannel parameter protocol with
  | Ok channel => Ok channel
  | Err e => Fail kInvalidConfig (lp_protocol parameter +:+ " parameter " +:+ lp_id parameter +:+ ": " +:+ e)
  end.
Definition set_sample_bit (bit : Z) (c : LoggingChannel) : LoggingChannel :=
  {| ch_id := ch_id c; ch_address := ch_address c; ch_length := ch_length c; ch_from_byte_expression := ch_from_byte_expression c;
     ch_unit := ch_unit c; ch_decimal_precision := ch_decimal_precision c; ch_byte_addresses := ch_byte_addresses c;
     ch_sample_bit := Some bit; ch_storage := ch_storage c; ch_byte_order := ch_byte_order c |}.
(** The parameter a switch is read as. *)
Definition switch_parameter (source : LoggerSwitch) : LoggerParameter :=
  {| lp_protocol := lw_protocol source; lp_id := lw_id source; lp_name := lw_name source; lp_description := "";
     lp_address := lw_address source; lp_length := "1"; lp_ecu_byte_index := ""; lp_ecu_bit := ""; lp_target := "";
     lp_enabled := false;
     lp_conversions := [{| cv_units := ""; cv_expr := "x"; cv_format := "0"; cv_gauge_min := ""; cv_gauge_max := "";
                           cv_gauge_step := ""; cv_storage_type := ""; cv_endian := "" |}];
     lp_address_specs := [] |}.
Definition PrepareLoggingSwitch (source : LoggerSwitch) (protocol : LoggingProtocolId) : result Error LoggingChannel :=
  let bad_bit {A} : result Error A :=
    Fail kInvalidConfig (lw_protocol source +:+ " switch " +:+ lw_id source +:+ ": invalid sample bit; expected 0–7") in
  match ParseUnsigned 10 255 (lw_sample_bit source) with
  | None => bad_bit
  | Some bit =>
      if 8 <=? bit then bad_bit
      else
        let! channel := PrepareLoggingChannel (switch_parameter source) protocol in
        let channel := set_sample_bit bit channel in
        match ValidateLoggingChannel protocol channel with
        | Ok _ => Ok channel
        | Err e => Fail kInvalidConfig (lw_protocol source +:+ " switch " +:+ lw_id source +:+ ": " +:+ detail e)
        end
  end.
End preparation.

(** ** [logging_run_snapshot.cpp] *)
Inductive LoggingTarget : Set := kEcu | kTcu.
Inductive LoggingMeasurementKind : Set := kParameter | kSwitch.
#[export] Instance LoggingMeasurementKind_eq_dec : EqDecision LoggingMeasurementKind.
Proof. solve_decision. Defined.
Record LoggingMeasurement := {
  ms_kind : LoggingMeasurementKind; ms_identity : string * string; ms_channel_id : string; ms_name : string; ms_unit : string;
  ms_decimal_precision : Z; ms_support : EcuSupport
}.
Definition EffectiveProtocolFilter (protocol : LoggingProtocolId) (filter : string) : result Error string :=
  match protocol with
  | kSsm => if String.eqb filter "" then Fail kInvalidConfig "SSM logging protocol filter is empty" else Ok filter
  | kMutDma => Ok "MUT_DMA"%string
  | kCdbg => Ok "CDBG"%string
  end.
Definition measurement_tag (kind : LoggingMeasurementKind) (id : string) : string :=
  (match kind with kParameter => "parameter" | kSwitch => "switch" end) +:+ ":" +:+ id.
Section snapshot.
Context `{Double}.
Record Resolved := { rs_channel : result Error LoggingChannel; rs_name : string; rs_matches : Z }.
Definition unresolved_measurement : Resolved :=
  {| rs_channel := Fail kInvalidConfig "unresolved measurement"; rs_name := ""; rs_matches := 0 |}.
Definition ResolveMeasurement {Source : Type} (protocol_of id_of name_of : Source -> string)
    (prepare : Source -> LoggingProtocolId -> result Error LoggingChannel) (sources : list Source) (filter id : string)
    (protocol : LoggingProtocolId) : Resolved :=
  fold_left (fun resolved source =>
    if String.eqb (protocol_of source) filter && String.eqb (id_of source) id
    then {| rs_channel := prepare source protocol; rs_name := name_of source; rs_matches := rs_matches resolved + 1 |}
    else resolved) sources unresolved_measurement.
Record MeasurementCollector := {
  mc_channels : list LoggingChannel; mc_measurements : list LoggingMeasurement; mc_identities : gset string
}.
Definition new_collector : MeasurementCollector := {| mc_channels := []; mc_measurements := []; mc_identities := ∅ |}.
Definition with_channel_id (id : string) (c : LoggingChannel) : LoggingChannel :=
  {| ch_id := id; ch_address := ch_address c; ch_length := ch_length c; ch_from_byte_expression := ch_from_byte_expression c;
     ch_unit := ch_unit c; ch_decimal_precision := ch_decimal_precision c; ch_byte_addresses := ch_byte_addresses c;
     ch_sample_bit := ch_sample_bit c; ch_storage := ch_storage c; ch_byte_order := ch_byte_order c |}.
Section collector.
Context (model : LoggerModel) (protocol : LoggingProtocolId) (filter : string).
Definition support_of (kind : LoggingMeasurementKind) (id : string) : EcuSupport :=
  match kind with kParameter => ParameterSupport model filter id | kSwitch => SwitchSupport model filter id end.
Definition resolve_kind (kind : LoggingMeasurementKind) (id : string) : Resolved :=
  match kind with
  | kParameter => ResolveMeasurement lp_protocol lp_id lp_name PrepareLoggingChannel (ld_parameters (definition_ model)) filter id protocol
  | kSwitch => ResolveMeasurement lw_protocol lw_id lw_name PrepareLoggingSwitch (ld_switches (definition_ model)) filter id protocol
  end.
Definition Add (kind : LoggingMeasurementKind) (id : string) (c : MeasurementCollector) : result Error MeasurementCollector :=
  let tag := measurement_tag kind id in
  if bool_decide (tag ∈ mc_identities c) then Ok c
  else
    let state := support_of kind id in
    if bool_decide (state = kUnsupportedByEcu) then
      Fail kInvalidConfig (filter +:+ " " +:+ tag +:+ ": selected measurement is known unsupported; remove or replace it")
    else
      let resolved := resolve_kind kind id in
      if negb (rs_matches resolved =? 1) then
        Fail kInvalidConfig (filter +:+ " " +:+ tag +:+ ": " +:+ (if rs_matches resolved =? 0 then "unresolved" else "duplicate")
                             +:+ " definition; remove or replace the selected entry")
      else
        let! channel := rs_channel resolved in
        Ok {| mc_channels := mc_channels c ++ [with_channel_id tag channel];
              mc_measurements := mc_measurements c ++ [{| ms_kind := kind; ms_identity := (filter, id); ms_channel_id := tag;
                ms_name := rs_name resolved; ms_unit := ch_unit channel; ms_decimal_precision := ch_decimal_precision channel;
                ms_support := state |}];
              mc_identities := {[tag]} ∪ mc_identities c |}.
Fixpoint AddAll (kind : LoggingMeasurementKind) (ids : list string) (c : MeasurementCollector) : result Error MeasurementCollector :=
  match ids with
  | [] => Ok c
  | id :: ids => let! c := Add kind id c in AddAll kind ids c
  end.
End collector.
Record LoggingRunSnapshot := {
  session_ : LoggingSession; protocol_key_ : string; snapshot_selection_ : LoggerSelection; target_ : LoggingTarget;
  measurements_ : list LoggingMeasurement
}.
Definition FindMeasurement (s : LoggingRunSnapshot) (kind : LoggingMeasurementKind) (id : string) : option LoggingMeasurement :=
  List.find (fun m => bool_decide (ms_kind m = kind) && String.eqb (snd (ms_identity m)) id) (measurements_ s).
Definition PrepareLoggingRun (model : LoggerModel) (protocol : LoggingProtocolId) (protocol_filter : string) (policy : LoggingPolicy)
    (target : LoggingTarget) : result Error LoggingRunSnapshot :=
  let! filter := EffectiveProtocolFilter protocol protocol_filter in
  let selection := selection_ model in
  let! c := AddAll model protocol filter kParameter (ls_gauge_ids selection) new_collector in
  let! c := AddAll model protocol filter kParameter (ls_lower_panel_ids selection) c in
  let! c := AddAll model protocol filter kSwitch (ls_switch_ids selection) c in
  match MakeLoggingSession protocol (mc_channels c) policy with
  | Err e => Fail (kind e) (filter +:+ ": " +:+ detail e)
  | Ok session =>
      Ok {| session_ := session; protocol_key_ := filter; snapshot_selection_ := selection; target_ := target;
            measurements_ := mc_measurements c |}
  end.

(** ** [logging_sample_resolution.cpp], [logging_csv_columns.cpp] *)
Record ResolvedLogSample := {
  rl_kind : LoggingMeasurementKind; rl_identity : string * string; rl_numeric_value : option double; rl_decimal_precision : Z
}.
Definition ResolveLogSample (s : LoggingRunSnapshot) (sample : LogSample) : result Error ResolvedLogSample :=
  match FindChannel (session_ s) (sample_channel_id sample) with
  | None =>
      Fail kInternal (protocol_key_ s +:+ " sample " +:+ sample_channel_id sample +:+ ": logging sample id is not in the run snapshot")
  | Some channel =>
      match List.find (fun m => String.eqb (ms_channel_id m) (sample_channel_id sample)) (measurements_ s) with
      | None => Fail kInternal "logging channel has no captured measurement identity"
      | Some m => Ok {| rl_kind := ms_kind m; rl_identity := ms_identity m; rl_numeric_value := numeric_value sample;
                        rl_decimal_precision := ch_decimal_precision channel |}
      end
  end.
Record LoggingCsvColumn := { col_kind : LoggingMeasurementKind; col_identity : string * string; col_name : string }.
Definition PrepareLoggingCsvColumns (s : LoggingRunSnapshot) : list LoggingCsvColumn :=
  map (fun m => {| col_kind := ms_kind m; col_identity := ms_identity m; col_name := ms_name m |}) (measurements_ s).
End snapshot.

(** ** [logging_csv_record.cpp] *)
Definition comma : ascii := "044"%char.
Definition quotation : ascii := "034"%char.
Definition needs_quotes (field : list ascii) : bool := existsb (fun c => bool_decide (c ∈ [comma; quotation; "013"; "010"]%char)) field.
Definition write_field (field : list ascii) : list ascii :=
  let quote := if needs_quotes field then [quotation] else [] in
  quote ++ flat_map (fun c => if (c =? quotation)%char then [quotation; c] else [c]) field ++ quote.
Fixpoint write_fields (first : bool) (fields : list (list ascii)) : list ascii :=
  match fields with
  | [] => []
  | field :: fields => (if first then [] else [comma]) ++ write_field field ++ write_fields false fields
  end.
Definition SerializeLoggingCsvRecord (fields : list (list ascii)) : list ascii := write_fields true fields ++ ["010"%char].

(** ** The read plan *)
Definition channel_addresses (c : LoggingChannel) : list Z := map (byte_address c) (seqZ 0 (ch_length c)).
Fixpoint positions_from (n : Z) (channels : list LoggingChannel) : list (list Z) :=
  match channels with
  | [] => []
  | c :: channels => seqZ n (ch_length c) :: positions_from (n + ch_length c) channels
  end.
Definition layout_ok (c : LoggingChannel) : Prop :=
  1 <= ch_length c <= 84 /\ (ch_byte_addresses c = [] \/ zlen (ch_byte_addresses c) = ch_length c)
  /\ Forall (fun a => a <= 0xffffff) (channel_addresses c).
Lemma seqZ_shift_cons m n : 0 < n -> seqZ m n = m :: seqZ (m + 1) (n - 1).
Proof. intros Hn. by rewrite seqZ_cons. Qed.
Lemma plan_bytes_spec c i n addresses positions r : 0 <= i -> plan_bytes c i n addresses positions = Ok r ->
  fst r = addresses ++ map (byte_address c) (seqZ i (Z.of_nat n)) /\ snd r = positions ++ seqZ (zlen addresses) (Z.of_nat n)
  /\ Forall (fun a => a <= 0xffffff) (map (byte_address c) (seqZ i (Z.of_nat n))).
Proof.
  revert i addresses positions. induction n as [|n IH]; intros i addresses positions Hi; cbn [plan_bytes].
  - intros [= <-]. rewrite !seqZ_nil by lia. cbn. rewrite !app_nil_r. by split_and!.
  - destruct (Z.ltb_spec 0xffffff (byte_address c i)) as [|Ha]; [done|]. intros (E1 & E2 & HF)%IH; [|lia].
    rewrite (seqZ_shift_cons i), (seqZ_shift_cons (zlen addresses)) by lia.
    replace (Z.of_nat (S n) - 1) with (Z.of_nat n) by lia. rewrite E1, E2. rewrite zlen_app. cbn [map].
    split_and!; [by rewrite <- app_assoc..|]. constructor; [lia|done].
Qed.
Lemma plan_channels_spec channels plan r : Forall (fun c => 0 <= ch_length c) channels -> plan_channels channels plan = Ok r ->
  plan_addresses r = plan_addresses plan ++ flat_map channel_addresses channels
  /\ plan_response_positions r = plan_response_positions plan ++ positions_from (zlen (plan_addresses plan)) channels
  /\ Forall layout_ok channels /\ (channels <> [] -> zlen (plan_addresses r) <= 84).
Proof.
  revert plan. induction channels as [|c channels IH]; intros plan HF0; cbn [plan_channels].
  - intros [= <-]. cbn. rewrite !app_nil_r. by split_and!.
  - apply Forall_cons in HF0 as [Hpos HF0]. destruct (bad_layout plan c) eqn:Eb; [done|]. intros ([a p] & Ep & H)%result_bind_Ok. unfold bad_layout in Eb.
    rewrite !orb_false_iff, Z.eqb_neq, !Z.ltb_ge in Eb. destruct Eb as ((((H0 & H84) & Hsum) & Hba) & _).
    apply plan_bytes_spec in Ep as (E1 & E2 & HF); [|lia]. cbn [fst snd app] in *. 
    rewrite Z2Nat.id in * by lia. fold (channel_addresses c) in E1, HF.
    assert (zlen a = zlen (plan_addresses plan) + ch_length c) as Ea.
    { subst a. rewrite zlen_app. unfold channel_addresses, zlen. rewrite length_map, length_seqZ. lia. }
    destruct (IH _ HF0 H) as (F1 & F2 & F3 & F4). cbn [plan_addresses plan_response_positions] in *. cbn [flat_map positions_from].
    split_and!.
    + rewrite F1, E1. by rewrite <- app_assoc.
    + rewrite F2, E2, Ea. by rewrite <- app_assoc.
    + constructor; [|done]. split; [lia|]. split; [|done]. apply andb_false_iff in Hba as [Hb|Hb].
      * left. apply negb_false_iff, bool_decide_eq_true in Hb. done.
      * right. apply negb_false_iff, Z.eqb_eq in Hb. done.
    + intros _. destruct channels as [|c' cs]; [injection H as <-; cbn; lia|]. by apply F4.
Qed.

(** ** Sessions *)
Section sessions.
Context `{Double}.
Lemma compile_channels_spec protocol channels ids conversions r : compile_channels protocol channels ids conversions = Ok r ->
  NoDup (map ch_id channels) /\ Forall (fun c => ch_id c ∉ ids) channels
  /\ exists ps, r = conversions ++ ps /\ Forall2 (fun c p => CompileChannel protocol c = Ok p) channels ps.
Proof.
  revert ids conversions. induction channels as [|c channels IH]; intros ids conversions; cbn [compile_channels].
  - intros [= <-]. split_and!; [constructor|constructor|]. exists []. by rewrite app_nil_r.
  - case_bool_decide as Hin; [done|]. intros (p & Hp & (Hd & Hn & ps & -> & Hps)%IH)%result_bind_Ok. cbn [map].
    split_and!.
    + apply NoDup_cons. split; [|done]. intros (c' & E & Hc')%list_elem_of_fmap. rewrite list.Forall_forall in Hn.
      apply (Hn c' Hc'). rewrite <- E. set_solver.
    + constructor; [done|]. eapply Forall_impl; [exact Hn|]. set_solver.
    + exists (p :: ps). split; [by rewrite <- app_assoc|by constructor].
Qed.
(** What a session of the factory is. *)
Record made (protocol : LoggingProtocolId) (channels : list LoggingChannel) (policy : LoggingPolicy) (s : LoggingSession) : Prop := {
  made_protocol : protocol_ s = protocol;
  made_channels : channels_ s = channels;
  made_policy : policy_ s = policy;
  made_policy_ok : ValidPolicy policy = true;
  made_ids : NoDup (map ch_id channels);
  made_conversions : Forall2 (fun c p => CompileChannel protocol c = Ok p) channels (conversions_ s);
  made_plan : match protocol with
              | kSsm => exists plan, read_plan_ s = Some plan /\ MakeSsmReadPlan channels = Ok plan
              | kMutDma => read_plan_ s = None /\ zlen channels <= 96 /\ fold_left (fun total c => total + ch_length c) channels 0 <= 96
              | kCdbg => read_plan_ s = None /\ exists frames, Cdbg.BatchChannelsIntoFrames (map wire_channel channels) = Some frames
              end
}.
Lemma MakeLoggingSession_made protocol channels policy s : MakeLoggingSession protocol channels policy = Ok s -> made protocol channels policy s.
Proof.
  unfold MakeLoggingSession. destruct (ValidPolicy policy) eqn:Ep; [|by rewrite orb_true_r]. rewrite orb_false_r.
  destruct (negb (ValidProtocol protocol)); [done|]. destruct (bool_decide _ && _); [done|].
  intros (ps & (Hd & _ & ps' & -> & Hps)%compile_channels_spec & E)%result_bind_Ok.
  destruct (ValidWireShape protocol channels) eqn:Ew; cbn [negb] in E; [|done].
  apply result_bind_Ok in E as ([] & Em & (plan & Eplan & [= <-])%result_bind_Ok). split; try done; cbn [read_plan_].
  destruct protocol; cbn in *.
  - apply result_bind_Ok in Eplan as (pl & Hpl & [= <-]). by exists pl.
  - injection Eplan as <-. unfold ValidateMutRequestSize in Em. destruct (_ || _) eqn:Eo; [done|].
    apply orb_false_iff in Eo as [?%Z.ltb_ge ?%Z.ltb_ge]. done.
  - injection Eplan as <-. destruct (Cdbg.BatchChannelsIntoFrames _) as [frames|]; [|done]. split; [done|by exists frames].
Qed.
Lemma CompileChannel_ok protocol c p : CompileChannel protocol c = Ok p ->
  ValidateChannelFields protocol c = Ok tt /\ ch_from_byte_expression c <> ""%string /\ Compile (chars (ch_from_byte_expression c)) = Ok p.
Proof.
  unfold CompileChannel. intros ([] & Hv & E)%result_bind_Ok. split; [done|].
  destruct (String.eqb_spec (ch_from_byte_expression c) ""); [done|]. split; [done|].
  destruct (Compile _); [congruence|done].
Qed.
Lemma ValidateChannelFields_ok protocol c : ValidateChannelFields protocol c = Ok tt ->
  ch_id c <> ""%string /\ (ch_length c = 1 \/ ch_length c = 2 \/ ch_length c = 4) /\ ValidAddress protocol (ch_address c) = true
  /\ (forall bit, ch_sample_bit c = Some bit -> bit < 8 /\ ch_length c = 1) /\ (ch_storage c = kFloatNumber -> ch_length c = 4)
  /\ (protocol <> kSsm -> ch_storage c = kUnsignedInteger /\ ch_byte_order c = kBigEndian) /\ ch_decimal_precision c <= 15.
Proof.
  unfold ValidateChannelFields. destruct (negb (ValidProtocol protocol)); [done|]. destruct (String.eqb_spec (ch_id c) ""); [done|].
  destruct (ValidLength (ch_length c)) eqn:El; [|done]. destruct (ValidAddress protocol (ch_address c)) eqn:Ea; [|done]. cbn [negb].
  destruct (match ch_sample_bit c with Some bit => _ | None => false end) eqn:Eb; [done|].
  destruct (KnownEncoding c) eqn:Ek; [|done]. destruct (ExceedsSsmRange protocol c); [done|]. cbn [negb].
  destruct (negb (bool_decide (protocol = kSsm)) && OverridesEncoding c) eqn:Eo; [done|].
  destruct (Z.ltb_spec 15 (ch_decimal_precision c)); [done|]. intros _. split_and!; try done.
  - unfold ValidLength in El. rewrite !orb_true_iff, !Z.eqb_eq in El. tauto.
  - intros bit E. rewrite E in Eb. apply orb_false_iff in Eb as [?%Z.leb_gt Hl]. apply negb_false_iff, Z.eqb_eq in Hl. done.
  - intros Es. unfold KnownEncoding in Ek. rewrite Es in Ek. cbn in Ek. by apply Z.eqb_eq.
  - intros Hp. rewrite bool_decide_false in Eo by done. cbn in Eo. apply orb_false_iff in Eo as [H1 H2].
    by split; [apply negb_false_iff, bool_decide_eq_true in H1|apply negb_false_iff, bool_decide_eq_true in H2].
Qed.
Lemma find_by_id channels c : NoDup (map ch_id channels) -> c ∈ channels ->
  List.find (fun c' => String.eqb (ch_id c') (ch_id c)) channels = Some c.
Proof.
  intros Hd Hin. induction Hin as [c cs|c c' cs Hin IH]; cbn; [by rewrite String.eqb_refl|].
  cbn [map] in Hd. apply NoDup_cons in Hd as [Hn Hd]. destruct (String.eqb_spec (ch_id c') (ch_id c)) as [E|]; [|by apply IH].
  exfalso. apply Hn. apply list_elem_of_fmap. exists c. done.
Qed.
Lemma find_conversion_by_id protocol channels ps c : NoDup (map ch_id channels) ->
  Forall2 (fun c p => CompileChannel protocol c = Ok p) channels ps -> c ∈ channels ->
  exists p, find_conversion (ch_id c) channels ps = Some p /\ CompileChannel protocol c = Ok p.
Proof.
  intros Hd HF. induction HF as [|c' p cs ps Hp HF IH]; intros Hin; [by apply elem_of_nil in Hin|]. cbn [map] in Hd.
  apply NoDup_cons in Hd as [Hn Hd]. cbn [find_conversion]. destruct (String.eqb_spec (ch_id c') (ch_id c)) as [E|Hne].
  - apply elem_of_cons in Hin as [->|Hin]; [by exists p|]. exfalso. apply Hn, list_elem_of_fmap. by exists c.
  - apply elem_of_cons in Hin as [->|Hin]; [done|]. by apply IH.
Qed.
End sessions.

(** ** The channel of a definition, field by field *)
Section defined_channels.
Context `{Double}.
Definition hexadecimal : string -> option Z := ParseUnsigned 16 kU32Max.
Definition decimal_number : string -> option Z := ParseUnsigned 10 kU64Max.
(** [0] is no decimals, [0.] and zeros as many as there are zeros. *)
Definition spells_precision (format : string) (n : Z) : Prop :=
  format = "0"%string /\ n = 0 \/ 1 <= n <= 15 /\ map code (to_chars format) = [48; 46] ++ replicate (Z.to_nat n) 48.
(** Where the bytes of a parameter are: at its own address and of its own length; or at
    that of its one address entry; or each at the address of its entry. *)
Definition placed (p : LoggerParameter) (c : LoggingChannel) : Prop :=
  match lp_address_specs p with
  | [] => hexadecimal (lp_address p) = Some (ch_address c) /\ decimal_number (lp_length p) = Some (ch_length c) /\ ch_byte_addresses c = []
  | [source] => hexadecimal (as_value source) = Some (ch_address c)
      /\ decimal_number (default (lp_length p) (as_length source)) = Some (ch_length c) /\ ch_byte_addresses c = []
  | sources => Forall2 (fun source a => hexadecimal (as_value source) = Some a) sources (ch_byte_addresses c)
      /\ head (ch_byte_addresses c) = Some (ch_address c) /\ ch_length c = zlen (ch_byte_addresses c)
  end.
Definition parameter_channel (p : LoggerParameter) (c : LoggingChannel) : Prop :=
  placed p c /\ ch_sample_bit c = None
  /\ exists conversion rest, lp_conversions p = conversion :: rest
     /\ ch_from_byte_expression c = cv_expr conversion /\ ch_unit c = cv_units conversion
     /\ spells_precision (cv_format conversion) (ch_decimal_precision c)
     /\ ParseStorage (cv_storage_type conversion) = Ok (ch_storage c) /\ ParseByteOrder (cv_endian conversion) = Ok (ch_byte_order c).
Definition switch_channel (w : LoggerSwitch) (c : LoggingChannel) : Prop :=
  hexadecimal (lw_address w) = Some (ch_address c) /\ ch_length c = 1 /\ ch_byte_addresses c = []
  /\ (exists bit, ch_sample_bit c = Some bit /\ bit < 8 /\ ParseUnsigned 10 255 (lw_sample_bit w) = Some bit)
  /\ ch_from_byte_expression c = "x"%string /\ ch_unit c = ""%string /\ ch_decimal_precision c = 0
  /\ ch_storage c = kUnsignedInteger /\ ch_byte_order c = kBigEndian.
Lemma ParsePrecision_spells format n : ParsePrecision format = Ok n -> spells_precision format n.
Proof.
  unfold ParsePrecision, spells_precision. destruct (String.eqb_spec format "0") as [->|_]; [intros [= <-]; by left|].
  set (text := to_chars format). destruct (negb _ || _ || _ || _) eqn:E; [done|]. intros [= <-]. right.
  rewrite !orb_false_iff, !negb_false_iff, !Z.ltb_ge in E. destruct E as [[[H1 H2] H3] H4].
  rewrite u8_small by (unfold byte_ok; lia). split; [lia|].
  destruct text as [|a [|b text]]; [done|done|]. cbn in H1. rewrite !andb_true_iff, !Z.eqb_eq in H1. destruct H1 as (Ea & Eb & _).
  cbn [map]. rewrite Ea, Eb. cbn [app skipn] in *. do 2 f_equal. rewrite !zlen_cons. replace (1 + (1 + zlen text) - 2) with (zlen text) by lia.
  unfold zlen. rewrite Nat2Z.id. clear -H4. induction text as [|c text IH]; [done|]. cbn in H4. apply andb_true_iff in H4 as [Hc%Z.eqb_eq H4].
  cbn. by rewrite Hc, IH.
Qed.
Lemma ParseAddressSpec_ok source explicit length a l : ParseAddressSpec source explicit length = Ok (a, l) ->
  hexadecimal (as_value source) = Some a
  /\ match as_length source with Some text => decimal_number text = Some l | None => l = length end.
Proof.
  unfold ParseAddressSpec, hexadecimal, decimal_number. destruct (ParseUnsigned 16 _ _) as [address|]; [|done]. destruct (as_bit source); [done|].
  destruct (as_length source) as [text|]; [|by intros [= <- <-]]. destruct (ParseUnsigned 10 _ text) as [n|]; [|done].
  destruct (_ || _); [done|]. by intros [= <- <-].
Qed.
Lemma parse_specs_ok sources explicit length acc addresses l : parse_specs sources explicit length acc = Ok (addresses, l) ->
  exists rest, addresses = acc ++ rest /\ Forall2 (fun source a => hexadecimal (as_value source) = Some a) sources rest.
Proof.
  revert length acc. induction sources as [|source sources IH]; intros length acc; cbn [parse_specs].
  - intros [= <- <-]. exists []. by rewrite app_nil_r.
  - intros ([a n] & Ha & H1)%result_bind_Ok. apply ParseAddressSpec_ok in Ha as [Ha _]. apply IH in H1 as (rest & -> & HF).
    exists (a :: rest). cbn [fst]. by rewrite <- app_assoc; split; [|constructor].
Qed.
Lemma ParsePlacement_placed p protocol pl c : ParsePlacement p protocol = Ok pl -> ch_address c = pl_address pl -> ch_length c = pl_length pl ->
  ch_byte_addresses c = pl_byte_addresses pl -> placed p c.
Proof.
  unfold ParsePlacement. destruct (ParseUnsigned 16 _ _) as [address|] eqn:Ea; [|done].
  destruct (ParseUnsigned 10 _ _) as [length|] eqn:El; [|done]. destruct (length =? 0); [done|].
  intros (pl' & Hap & H1)%result_bind_Ok. destruct (negb _); [done|]. injection H1 as ->. unfold placed. intros -> -> ->.
  unfold ApplyAddressSpecs in Hap. destruct (_ && _); [done|]. apply result_bind_Ok in Hap as ([addresses l] & Hs & [= <-]).
  destruct (lp_address_specs p) as [|s1 [|s2 sources]].
  - injection Hs as <- <-. done.
  - cbn in Hs. apply result_bind_Ok in Hs as ([a n] & [Ha Hl]%ParseAddressSpec_ok & [= <- <-]). cbn. split_and!; [done| |done].
    destruct (as_length s1); cbn; [done|by subst n].
  - assert ((1 <? zlen (s1 :: s2 :: sources)) = true) as Ex by (apply Z.ltb_lt; rewrite !zlen_cons; pose proof (zlen_nonneg sources); lia).
    rewrite Ex in *. apply parse_specs_ok in Hs as (rest & -> & HF). cbn [pl_address pl_length pl_byte_addresses app]. split_and!; [done| |done].
    by inversion HF.
Qed.
Lemma PrepareLoggingChannel_fields p protocol c : PrepareLoggingChannel p protocol = Ok c -> parameter_channel p c.
Proof.
  unfold PrepareLoggingChannel. destruct (ParseChannel p protocol) as [c'|] eqn:E; [|done]. intros [= ->]. revert E.
  unfold ParseChannel. destruct (lp_conversions p) as [|cv rest] eqn:Ecv; [done|].
  intros (pl & Hpl & (enc & Henc & (precision & Hp & H1)%result_bind_Ok)%result_bind_Ok)%result_bind_Ok.
  destruct (ValidateLoggingChannel _ _); [|done]. injection H1 as <-. unfold parameter_channel. cbn. split; [by eapply ParsePlacement_placed|].
  split; [done|]. exists cv, rest. split_and!; try done; [by apply ParsePrecision_spells| |];
    unfold ParseEncoding in Henc; apply result_bind_Ok in Henc as (st & Hst & (bo & Hbo & Henc)%result_bind_Ok);
    destruct (_ && _); [done| |done|]; destruct (_ && _); [done| |done|]; destruct (_ && _); [done| |done|]; by injection Henc as <-.
Qed.
Lemma PrepareLoggingSwitch_fields w protocol c : PrepareLoggingSwitch w protocol = Ok c -> switch_channel w c.
Proof.
  unfold PrepareLoggingSwitch. destruct (ParseUnsigned 10 255 _) as [bit|] eqn:Eb; [|done]. destruct (Z.leb_spec 8 bit); [done|].
  intros (c' & Hc & H1)%result_bind_Ok. destruct (ValidateLoggingChannel _ _); [|done]. injection H1 as <-.
  apply PrepareLoggingChannel_fields in Hc as (Hp & _ & cv & rest & Ecv & E1 & E2 & E3 & E4 & E5). injection Ecv as <- <-.
  destruct Hp as (Ha & Hl & Hb). cbn in Hl, E1, E2, E3, E4, E5. unfold switch_channel. cbn.
  split_and!; try done; [by injection Hl|by exists bit| |by injection E4|by injection E5].
  destruct E3 as [[_ E3]|[_ E3]]; [done|discriminate E3].
Qed.
(** The one source of an identifier in a list. *)
Definition only_source {S : Type} (protocol_of id_of : S -> string) (filter id : string) (sources : list S) (x : S) : Prop :=
  exists pre post, sources = pre ++ x :: post /\ protocol_of x = filter /\ id_of x = id
    /\ Forall (fun y => ~ (protocol_of y = filter /\ id_of y = id)) (pre ++ post).
Lemma ResolveMeasurement_one {S : Type} (protocol_of id_of name_of : S -> string) prepare sources filter id protocol :
  rs_matches (ResolveMeasurement protocol_of id_of name_of prepare sources filter id protocol) = 1 ->
  exists x, only_source protocol_of id_of filter id sources x
    /\ rs_channel (ResolveMeasurement protocol_of id_of name_of prepare sources filter id protocol) = prepare x protocol
    /\ rs_name (ResolveMeasurement protocol_of id_of name_of prepare sources filter id protocol) = name_of x.
Proof.
  unfold ResolveMeasurement. set (f := fun resolved source => _). set (wanted := fun y => protocol_of y = filter /\ id_of y = id).
  assert (forall r y, wanted y /\ f r y = {| rs_channel := prepare y protocol; rs_name := name_of y; rs_matches := rs_matches r + 1 |}
    \/ ~ wanted y /\ f r y = r) as Hf.
  { intros r y. unfold f, wanted. destruct (String.eqb_spec (protocol_of y) filter), (String.eqb_spec (id_of y) id); cbn [andb]; tauto. }
  clearbody f.
  assert (forall l r, rs_matches r <= rs_matches (fold_left f l r) /\ (rs_matches (fold_left f l r) = rs_matches r ->
    fold_left f l r = r /\ Forall (fun y => ~ wanted y) l)) as Hkeep.
  { induction l as [|y l IH]; intros r; [by split|]. cbn [fold_left]. destruct (IH (f r y)) as [H1 H2].
    destruct (Hf r y) as [[_ E]|[Hn E]]; rewrite E in *; cbn [rs_matches] in *; [split; [lia|intros; lia]|].
    split; [done|]. intros E'. destruct (H2 E') as [-> HF]. split; [done|]. by constructor. }
  assert (forall l r, rs_matches (fold_left f l r) = rs_matches r + 1 -> exists x, only_source protocol_of id_of filter id l x
    /\ rs_channel (fold_left f l r) = prepare x protocol /\ rs_name (fold_left f l r) = name_of x) as Hone; [|by intros E; apply Hone].
  induction l as [|y l IH]; intros r E; [cbn in E; lia|]. cbn [fold_left] in E |- *. destruct (Hf r y) as [[Hw E']|[Hn E']]; rewrite E' in *.
  - exists y. destruct (Hkeep l {| rs_channel := prepare y protocol; rs_name := name_of y; rs_matches := rs_matches r + 1 |}) as [_ Hk].
    destruct (Hk E) as [-> HF]. split; [|done]. exists [], l. destruct Hw. by split_and!.
  - destruct (IH r E) as (x & (pre & post & -> & Hp & Hi & HF) & Hc). exists x. split; [|done]. exists (y :: pre), post.
    split_and!; [done|done|done|]. by constructor.
Qed.
End defined_channels.

(** ** What a snapshot holds *)
Section collecting.
Context `{Double} (model : LoggerModel) (protocol : LoggingProtocolId) (filter : string).
Lemma app_inj_l (s t t' : string) : s +:+ t = s +:+ t' -> t = t'.
Proof. induction s as [|c s IH]; [done|]. change (String c s +:+ t) with (String c (s +:+ t)). change (String c s +:+ t') with (String c (s +:+ t')). intros [= E]. by apply IH. Qed.
Lemma measurement_tag_inj k k' i i' : measurement_tag k i = measurement_tag k' i' -> k = k' /\ i = i'.
Proof.
  unfold measurement_tag. destruct k, k'; intros E; try (by vm_compute in E; discriminate E).
  all: apply app_inj_l, app_inj_l in E; done.
Qed.
(** The channel is that of the one definition of the identifier in the model. *)
Definition defines (kind : LoggingMeasurementKind) (id name : string) (c : LoggingChannel) : Prop :=
  match kind with
  | kParameter => exists p, only_source lp_protocol lp_id filter id (ld_parameters (definition_ model)) p /\ parameter_channel p c /\ lp_name p = name
  | kSwitch => exists w, only_source lw_protocol lw_id filter id (ld_switches (definition_ model)) w /\ switch_channel w c /\ lw_name w = name
  end.
Lemma resolve_kind_defines kind id c tag : rs_matches (resolve_kind model protocol filter kind id) = 1 ->
  rs_channel (resolve_kind model protocol filter kind id) = Ok c ->
  defines kind id (rs_name (resolve_kind model protocol filter kind id)) (with_channel_id tag c).
Proof.
  destruct kind; cbn [resolve_kind defines]; intros (x & Ho & -> & ->)%ResolveMeasurement_one Hc; exists x; split_and!; try done.
  - by apply PrepareLoggingChannel_fields in Hc.
  - by apply PrepareLoggingSwitch_fields in Hc.
Qed.
Definition channel_measures (c : LoggingChannel) (m : LoggingMeasurement) : Prop :=
  defines (ms_kind m) (snd (ms_identity m)) (ms_name m) c
  /\ ch_id c = ms_channel_id m /\ ch_unit c = ms_unit m /\ ch_decimal_precision c = ms_decimal_precision m
  /\ ms_support m <> kUnsupportedByEcu /\ ms_channel_id m = measurement_tag (ms_kind m) (snd (ms_identity m)) /\ fst (ms_identity m) = filter.
Record collected (selected : list (LoggingMeasurementKind * string)) (c : MeasurementCollector) : Prop := {
  col_measures : Forall2 channel_measures (mc_channels c) (mc_measurements c);
  col_identities : mc_identities c = list_to_set (map ms_channel_id (mc_measurements c));
  col_distinct : NoDup (map ms_channel_id (mc_measurements c));
  col_selected : forall k i, (k, i) ∈ selected <-> measurement_tag k i ∈ map ms_channel_id (mc_measurements c)
}.
Lemma Add_collected selected k i c c' : collected selected c -> Add model protocol filter k i c = Ok c' -> collected (selected ++ [(k, i)]) c'.
Proof.
  intros [Hm Hi Hd Hs]. unfold Add. cbv zeta. case_bool_decide as Hin.
  - intros [= <-]. rewrite Hi, elem_of_list_to_set in Hin. split; try done. intros k' i'. rewrite elem_of_app, list_elem_of_singleton, Hs.
    split; [intros [?|[= -> ->]]; done|tauto].
  - rewrite Hi, elem_of_list_to_set in Hin. case_bool_decide as Hu; [done|].
    destruct (Z.eqb_spec (rs_matches (resolve_kind model protocol filter k i)) 1) as [Hone|]; [|done]. cbn [negb].
    intros (ch & Hch & [= <-])%result_bind_Ok. pose proof (resolve_kind_defines k i ch (measurement_tag k i) Hone Hch) as Hdef. split; cbn [mc_channels mc_measurements mc_identities].
    + apply Forall2_app; [done|]. constructor; [|constructor]. done.
    + rewrite map_app, list_to_set_app_L, Hi. cbn. set_solver.
    + rewrite map_app. apply NoDup_app. split_and!; [done| |apply NoDup_singleton]. cbn. intros t Ht ->%list_elem_of_singleton. done.
    + intros k' i'. rewrite elem_of_app, list_elem_of_singleton, Hs, map_app, elem_of_app. cbn [map ms_channel_id]. rewrite list_elem_of_singleton.
      split; (intros [?|E]; [by left|]; right); [by injection E as -> ->|by apply measurement_tag_inj in E as [-> ->]].
Qed.
Lemma AddAll_collected selected k ids c c' : collected selected c -> AddAll model protocol filter k ids c = Ok c' ->
  collected (selected ++ map (pair k) ids) c'.
Proof.
  revert selected c. induction ids as [|i ids IH]; intros selected c Hc; cbn [AddAll map].
  - intros [= <-]. by rewrite app_nil_r.
  - intros (c1 & Ha & H1)%result_bind_Ok. apply Add_collected with (selected := selected) in Ha; [|done].
    apply IH with (selected := selected ++ [(k, i)]) in H1; [|done]. by rewrite <- app_assoc in H1.
Qed.
Lemma new_collected : collected [] new_collector.
Proof. split; cbn; try done; [constructor|]. intros k i. by rewrite !elem_of_nil. Qed.
End collecting.
(** What a selection chooses. *)
Definition chosen (s : LoggerSelection) : list (LoggingMeasurementKind * string) :=
  map (pair kParameter) (ls_gauge_ids s) ++ map (pair kParameter) (ls_lower_panel_ids s) ++ map (pair kSwitch) (ls_switch_ids s).
Section prepared.
Context `{Double} {HN : Numeric} {HD : DoubleSpec}.
Lemma PrepareLoggingRun_inv model protocol f0 policy target s : PrepareLoggingRun model protocol f0 policy target = Ok s ->
  EffectiveProtocolFilter protocol f0 = Ok (protocol_key_ s) /\ snapshot_selection_ s = selection_ model /\ target_ s = target
  /\ exists c, collected model (protocol_key_ s) (chosen (selection_ model)) c /\ measurements_ s = mc_measurements c
     /\ made protocol (mc_channels c) policy (session_ s).
Proof.
  unfold PrepareLoggingRun. intros (filter & Hf & (c1 & H1 & (c2 & H2 & (c3 & H3 & E)%result_bind_Ok)%result_bind_Ok)%result_bind_Ok)%result_bind_Ok.
  destruct (MakeLoggingSession _ _ _) as [session|e] eqn:Es; [|done]. injection E as <-. cbn. split_and!; try done.
  exists c3. split; [|split; [done|by apply MakeLoggingSession_made]].
  apply (AddAll_collected _ _ _ []) in H1; [|apply new_collected].
  eapply AddAll_collected in H2; [|exact H1]. eapply AddAll_collected in H3; [|exact H2].
  unfold chosen. rewrite app_nil_l in H3. by rewrite <- app_assoc in H3.
Qed.
Lemma find_measurement ms m : NoDup (map ms_channel_id ms) -> m ∈ ms ->
  List.find (fun m' => String.eqb (ms_channel_id m') (ms_channel_id m)) ms = Some m.
Proof.
  intros Hd Hin. induction Hin as [m cs|m c' cs Hin IH]; cbn; [by rewrite String.eqb_refl|].
  cbn [map] in Hd. apply NoDup_cons in Hd as [Hn Hd]. destruct (String.eqb_spec (ms_channel_id c') (ms_channel_id m)) as [E|]; [|by apply IH].
  exfalso. apply Hn. apply list_elem_of_fmap. by exists m.
Qed.
Lemma find_by_kind f ms m : NoDup (map ms_channel_id ms) ->
  Forall (fun m => ms_channel_id m = measurement_tag (ms_kind m) (snd (ms_identity m)) /\ fst (ms_identity m) = f) ms -> m ∈ ms ->
  List.find (fun m' => bool_decide (ms_kind m' = ms_kind m) && String.eqb (snd (ms_identity m')) (snd (ms_identity m))) ms = Some m.
Proof.
  intros Hd HF Hin. induction Hin as [m cs|m c' cs Hin IH]; cbn [List.find]; [by rewrite bool_decide_true, String.eqb_refl|].
  cbn [map] in Hd. apply NoDup_cons in Hd as [Hn Hd]. apply Forall_cons in HF as [[Ht _] HF].
  destruct (bool_decide _ && _) eqn:E; [|by apply IH]. exfalso. apply andb_true_iff in E as [Ek%bool_decide_eq_true Ei%String.eqb_eq].
  rewrite list.Forall_forall in HF. destruct (HF m Hin) as [Ht' _]. apply Hn, list_elem_of_fmap. exists m. split; [|done]. rewrite Ht, Ht'. congruence.
Qed.
Lemma distinct_measurements f ms : NoDup (map ms_channel_id ms) ->
  Forall (fun m => ms_channel_id m = measurement_tag (ms_kind m) (snd (ms_identity m)) /\ fst (ms_identity m) = f) ms ->
  NoDup (map (fun m => (ms_kind m, ms_identity m)) ms).
Proof.
  induction ms as [|m ms IH]; cbn [map]; intros Hd HF; [constructor|]. apply NoDup_cons in Hd as [Hn Hd]. apply Forall_cons in HF as [[Ht _] HF].
  apply NoDup_cons. split; [|by apply IH]. intros (m' & E & Hin)%list_elem_of_fmap. injection E as Ek Ei. apply Hn, list_elem_of_fmap.
  exists m'. split; [|done]. rewrite list.Forall_forall in HF. destruct (HF m' Hin) as [Ht' _]. by rewrite Ht, Ht', Ek, Ei.
Qed.
Lemma measured_channel model f channels ms m : Forall2 (channel_measures model f) channels ms -> m ∈ ms ->
  exists c, c ∈ channels /\ channel_measures model f c m.
Proof.
  intros HF (i & Hi)%list_elem_of_lookup. destruct (Forall2_lookup_r _ _ _ _ _ HF Hi) as (c & Hc & Hm). exists c.
  split; [by apply list_elem_of_lookup; exists i|done].
Qed.
Lemma ConvertSample_channel s c p e raw : FindChannel s (ch_id c) = Some c -> FindConversion s (ch_id c) = Some p ->
  (forall x, converted (Some p) x = if isfinite x then eval e x else Err "numeric value is not finite"%string) ->
  match ConvertSample s {| ps_channel_id := ch_id c; ps_raw_value := raw |} with
  | Ok sample => sample_channel_id sample = ch_id c /\ sample_raw_value sample = raw /\ sample_unit sample = ch_unit c
      /\ match ch_sample_bit c with
         | Some bit => exists byte, byte <= 255 /\ numeric_value sample = Some (of_Z (Z.land (Z.shiftr byte bit) 1))
                       /\ bounded_number dec_digit 10 kU32Max raw = Some byte
         | None => exists x v, ParseFiniteNumber (chars raw) = Ok x /\ eval e x = Ok v /\ numeric_value sample = Some v
         end
  | Err error => kind error <> kInternal
  end.
Proof.
  intros Hc Hp He. unfold ConvertSample. cbn [ps_channel_id ps_raw_value]. rewrite Hc, Hp. destruct (ch_sample_bit c) as [bit|].
  - destruct (bounded_number _ _ _ raw) as [byte|]; [|done]. destruct (Z.ltb_spec 255 byte); [done|]. cbn. split_and!; try done. by exists byte.
  - destruct (ParseFiniteNumber (chars raw)) as [x|d]; [|done]. rewrite He. destruct (isfinite x); [|done].
    destruct (eval e x) as [v|d] eqn:Ev; [|done]. cbn. split_and!; try done. by exists x, v.
Qed.
(** C25: A prepared run measures what was selected, and every sample finds its way back.
    The measurements of a snapshot are exactly the gauges, lower entries and switches
    selected, each once and none known to be unsupported. Each has its own channel, with
    fields the protocol allows, and that channel is the one its definition, the only one
    of its identifier in the model, describes: the addresses, length and encoding, the
    expression, unit and precision of a parameter's first conversion, a switch's address
    and bit. Whatever a protocol reports for it, converting gives an error of the answer
    or of the expression, never of the program, or a sample whose value is that
    expression's (or the switch's bit) and which resolves to that measurement with its
    precision. *)
Theorem prepared_run model protocol filter policy target s :
  PrepareLoggingRun model protocol filter policy target = Ok s ->
  (forall k i, (k, i) ∈ chosen (selection_ model) <-> is_Some (FindMeasurement s k i))
  /\ NoDup (map (fun m => (ms_kind m, ms_identity m)) (measurements_ s))
  /\ NoDup (map ch_id (channels_ (session_ s)))
  /\ EffectiveProtocolFilter protocol filter = Ok (protocol_key_ s)
  /\ forall m, m ∈ measurements_ s -> exists c e,
       FindChannel (session_ s) (ms_channel_id m) = Some c /\ ValidateChannelFields protocol c = Ok tt
       /\ fst (ms_identity m) = protocol_key_ s
       /\ defines model (protocol_key_ s) (ms_kind m) (snd (ms_identity m)) (ms_name m) c
       /\ spelled (chars (ch_from_byte_expression c)) e /\ ms_support m <> kUnsupportedByEcu
       /\ forall raw, match ConvertSample (session_ s) {| ps_channel_id := ms_channel_id m; ps_raw_value := raw |} with
                      | Ok sample =>
                          ResolveLogSample s sample = Ok {| rl_kind := ms_kind m; rl_identity := ms_identity m;
                            rl_numeric_value := numeric_value sample; rl_decimal_precision := ch_decimal_precision c |}
                          /\ match ch_sample_bit c with
                             | Some bit => exists byte, byte <= 255 /\ numeric_value sample = Some (of_Z (Z.land (Z.shiftr byte bit) 1))
                                           /\ bounded_number dec_digit 10 kU32Max raw = Some byte
                             | None => exists x v, ParseFiniteNumber (chars raw) = Ok x /\ eval e x = Ok v /\ numeric_value sample = Some v
                             end
                      | Err error => kind error <> kInternal
                      end.
Proof.
  intros (Hf & _ & _ & c & [Hm Hi Hd Hs] & Em & Hmade)%PrepareLoggingRun_inv. destruct Hmade as [Ep Ec _ _ Hids Hconv _].
  assert (Forall (fun m => ms_channel_id m = measurement_tag (ms_kind m) (snd (ms_identity m)) /\ fst (ms_identity m) = protocol_key_ s)
    (measurements_ s)) as Htags.
  { rewrite list.Forall_forall. intros m Hin. rewrite Em in Hin. by destruct (measured_channel _ _ _ _ _ Hm Hin) as (ch & _ & _ & _ & _ & _ & _ & ? & ?). }
  split_and!.
  - intros k i. rewrite Hs, <- Em. split.
    + intros (m & Et & Hin)%list_elem_of_fmap. rewrite list.Forall_forall in Htags. destruct (Htags m Hin) as [Et' _].
      rewrite Et' in Et. apply measurement_tag_inj in Et as [-> ->]. exists m. unfold FindMeasurement.
      apply find_by_kind with (f := protocol_key_ s); rewrite ?Em; try done; [rewrite <- Em; by apply list.Forall_forall|by rewrite <- Em].
    + intros [m Hfind]. unfold FindMeasurement in Hfind. apply find_some in Hfind as [Hin [Ek%bool_decide_eq_true Ei%String.eqb_eq]%andb_true_iff].
      apply list_elem_of_In in Hin. rewrite list.Forall_forall in Htags. destruct (Htags m Hin) as [Et _].
      apply list_elem_of_fmap. exists m. split; [by rewrite Et, Ek, Ei|done].
  - rewrite <- Em in Hd. by apply (distinct_measurements (protocol_key_ s)).
  - by rewrite Ec.
  - exact Hf.
  - intros m Hin. rewrite list.Forall_forall in Htags. destruct (Htags m Hin) as [_ Hkey].
    rewrite Em in Hin. destruct (measured_channel _ _ _ _ _ Hm Hin) as (ch & Hch & Hdef & Eid & _ & Epr & Hsup & _).
    destruct (find_conversion_by_id protocol _ _ ch Hids Hconv Hch) as (p & Hfp & Hp).
    pose proof (find_by_id _ ch Hids Hch) as Hfind.
    apply CompileChannel_ok in Hp as (Hv & _ & (e & k & Hsp & _ & ->)%Compile_spec). exists ch, e. rewrite <- Eid.
    split_and!; try done; [by unfold FindChannel; rewrite Ec|]. intros raw.
    pose proof (ConvertSample_channel (session_ s) ch (postfix e) e raw) as Hconvert. unfold FindChannel, FindConversion in Hconvert.
    rewrite Ec in Hconvert. specialize (Hconvert Hfind Hfp).
    assert (forall x, converted (Some (postfix e)) x = if isfinite x then eval e x else Err "numeric value is not finite"%string) as He.
    { intros x. unfold converted. cbn. by rewrite (Evaluate_postfix e x (spelled_is_wf _ _ Hsp)). }
    specialize (Hconvert He). destruct (ConvertSample _ _) as [sample|error]; [|done]. destruct Hconvert as (Es & _ & _ & Hval).
    split; [|done]. unfold ResolveLogSample, FindChannel. rewrite Ec, Es, Hfind, Em, Eid, (find_measurement _ m Hd Hin). done.
Qed.
End prepared.

(** ** Records read back

    A reader of comma-separated records: a field is quoted, with doubled quotation marks
    inside, or runs to the next comma or line end. *)
Definition newline : ascii := "010"%char.
Fixpoint read_quoted (l acc : list ascii) : option (list ascii * list ascii) :=
  match l with
  | [] => None
  | c :: l =>
      if (c =? quotation)%char then
        match l with
        | c' :: l' => if (c' =? quotation)%char then read_quoted l' (acc ++ [c']) else Some (acc, l)
        | [] => Some (acc, l)
        end
      else read_quoted l (acc ++ [c])
  end.
Fixpoint read_plain (l acc : list ascii) : list ascii * list ascii :=
  match l with
  | [] => (acc, [])
  | c :: l' => if (c =? comma)%char || (c =? newline)%char then (acc, l) else read_plain l' (acc ++ [c])
  end.
Definition read_csv_field (l : list ascii) : option (list ascii * list ascii) :=
  match l with
  | c :: l' => if (c =? quotation)%char then read_quoted l' [] else Some (read_plain l [])
  | [] => Some ([], [])
  end.
(** A record and what follows it; each field but the last is followed by a comma. *)
Fixpoint read_csv (fuel : nat) (l : list ascii) : option (list (list ascii) * list ascii) :=
  match fuel with
  | O => None
  | S fuel =>
      match read_csv_field l with
      | Some (field, c :: l) =>
          if (c =? comma)%char then '(fields, rest) ← read_csv fuel l; Some (field :: fields, rest)
          else if (c =? newline)%char then Some ([field], l) else None
      | _ => None
      end
  end.
Section csv.
(** What may follow a field. *)
Definition ends_field (l : list ascii) : Prop := exists c rest, l = c :: rest /\ (c = comma \/ c = newline).
Definition escape (field : list ascii) : list ascii := flat_map (fun c => if (c =? quotation)%char then [quotation; c] else [c]) field.
Lemma read_escaped field acc rest : ends_field rest -> read_quoted (escape field ++ quotation :: rest) acc = Some (acc ++ field, rest).
Proof.
  intros (e & l & -> & He). revert acc. induction field as [|c field IH]; intros acc.
  - cbn. rewrite app_nil_r. by destruct He as [->| ->].
  - unfold escape. cbn [flat_map]. fold (escape field). destruct (Ascii.eqb_spec c quotation) as [->|Hc].
    + cbn. change (fun c : ascii => _) with (fun c : ascii => if (c =? quotation)%char then [quotation; c] else [c]). fold (escape field).
      rewrite IH. by rewrite <- app_assoc.
    + cbn [app read_quoted]. rewrite (proj2 (Ascii.eqb_neq c quotation)) by done. rewrite IH. by rewrite <- app_assoc.
Qed.
Lemma read_unquoted field acc rest : needs_quotes field = false -> ends_field rest -> read_plain (escape field ++ rest) acc = (acc ++ field, rest).
Proof.
  intros Hq (e & l & -> & He). revert acc Hq. induction field as [|c field IH]; intros acc Hq.
  - cbn. rewrite app_nil_r. by destruct He as [->| ->].
  - unfold needs_quotes in Hq. cbn [existsb] in Hq. apply orb_false_iff in Hq as [Hc Hq]. apply bool_decide_eq_false in Hc.
    unfold escape. cbn [flat_map]. fold (escape field). rewrite (proj2 (Ascii.eqb_neq c quotation)) by set_solver. cbn [app read_plain].
    rewrite (proj2 (Ascii.eqb_neq c comma)), (proj2 (Ascii.eqb_neq c newline)) by set_solver. cbn [orb]. rewrite IH by done. by rewrite <- app_assoc.
Qed.
Lemma read_written field rest : ends_field rest -> read_csv_field (write_field field ++ rest) = Some (field, rest).
Proof.
  intros Hr. unfold write_field. cbv zeta. fold (escape field). destruct (needs_quotes field) eqn:Eq.
  - rewrite <- !app_assoc. cbn [app read_csv_field]. rewrite Ascii.eqb_refl. by apply read_escaped.
  - cbn [app]. rewrite app_nil_r. destruct field as [|c field].
    + destruct Hr as (e & l & -> & He). by destruct He as [->| ->].
    + pose proof (read_unquoted (c :: field) [] rest Eq Hr) as H. unfold needs_quotes in Eq. cbn [existsb] in Eq.
      apply orb_false_iff in Eq as [Hc _]. apply bool_decide_eq_false in Hc. unfold escape in H |- *. cbn [flat_map] in *.
      rewrite (proj2 (Ascii.eqb_neq c quotation)) in * by set_solver. cbn [app read_csv_field] in *.
      rewrite (proj2 (Ascii.eqb_neq c quotation)) by set_solver. by rewrite H.
Qed.
(** A record reads back. Whatever its fields hold (commas, quotation marks, line
    ends, nothing), the line written for one or more fields is read by a reader of
    quoted comma-separated records as exactly those fields, and what follows it, such as
    the next record, is left. *)
Theorem csv_record_reads_back field fields rest :
  read_csv (S (length fields)) (SerializeLoggingCsvRecord (field :: fields) ++ rest) = Some (field :: fields, rest).
Proof.
  unfold SerializeLoggingCsvRecord. rewrite <- app_assoc. cbn [app write_fields]. rewrite <- app_assoc.
  revert field. induction fields as [|f fields IH]; intros field; cbn [length write_fields app].
  - cbn [read_csv]. rewrite read_written; [done|]. exists newline, rest. auto.
  - remember (S (length fields)) as n eqn:En. clear En. cbn [read_csv]. rewrite read_written by (eexists _, _; split; [done|by left]).
    rewrite Ascii.eqb_refl, <- app_assoc, IH. done.
Qed.
End csv.

(** ** A sample run: engine speed of two bytes, and a switch *)
Definition sample_parameter : LoggerParameter :=
  {| lp_protocol := "SSM"; lp_id := "P8"; lp_name := "Engine Speed"; lp_description := ""; lp_address := "0x00000E"; lp_length := "2";
     lp_ecu_byte_index := "8"; lp_ecu_bit := "0"; lp_target := "3"; lp_enabled := true;
     lp_conversions := [{| cv_units := "rpm"; cv_expr := "x/4"; cv_format := "0.00"; cv_gauge_min := ""; cv_gauge_max := "";
                           cv_gauge_step := ""; cv_storage_type := ""; cv_endian := "" |}]; lp_address_specs := [] |}.
Definition sample_switch : LoggerSwitch :=
  {| lw_protocol := "SSM"; lw_id := "S20"; lw_name := "Defogger"; lw_description := ""; lw_address := "0x64"; lw_ecu_byte_index := "12";
     lw_ecu_bit := "5"; lw_target := "1"; lw_enabled := true; lw_sample_bit := "5" |}.
Definition sample_logger : LoggerModel :=
  fst (InstallDefinition new_logger_model {| ld_parameters := [sample_parameter]; ld_switches := [sample_switch] |}).
Definition sample_policy : LoggingPolicy :=
  {| poll_timeout := 100; car_silence_miss_threshold := 10; reconnect_attempt_threshold := 20; reconnect_retry_period := 5 |}.
Definition sample_run : result Error LoggingRunSnapshot := PrepareLoggingRun sample_logger kSsm "SSM" sample_policy kEcu.
Lemma prepared_run_witness :
  exists s m, sample_run = Ok s /\ FindMeasurement s kSwitch "S20" = Some m /\ ms_channel_id m = "switch:S20"%string
    /\ forall raw, match ConvertSample (session_ s) {| ps_channel_id := ms_channel_id m; ps_raw_value := raw |} with
                   | Ok _ => True | Err error => kind error <> kInternal end.
Proof.
  assert (is_ok sample_run = true) as Hok by (vm_compute; reflexivity). destruct sample_run as [s|e] eqn:E; [clear Hok|discriminate Hok].
  destruct (prepared_run (HD := binary64_spec) sample_logger kSsm "SSM" sample_policy kEcu s E) as (Hsel & _ & _ & _ & Hm).
  destruct (proj1 (Hsel kSwitch "S20"%string)) as [m Hf].
  { apply list_elem_of_In. vm_compute. auto. }
  exists s, m. split; [reflexivity|]. split; [exact Hf|]. split.
  - assert (match sample_run with Ok s => ms_channel_id <$> FindMeasurement s kSwitch "S20" | Err _ => None end = Some "switch:S20"%string) as Et
      by (vm_compute; reflexivity).
    rewrite E, Hf in Et. by injection Et.
  - assert (m ∈ measurements_ s) as Hin by (apply find_some in Hf as [? _]; by apply list_elem_of_In).
    destruct (Hm m Hin) as (c & e & _ & _ & _ & _ & _ & _ & Hc). intros raw. specialize (Hc raw). by destruct (ConvertSample _ _).
Defined.
