(* ===== verification/LoggingRun.v ===== *)
(** * LoggingRun: [src/backend/logging/logging_use_case.cpp]

    The loop of a logging run over any protocol: start, poll, convert and report,
    count silence, reconnect, stop. A protocol is the interface [LoggingProtocol] over
    an arbitrary state, the adapter and the operator's cancellation included; a run
    leaves the list of what it asked, was told and reported. *)
From stdpp Require Import gmap.
From S2P Require Import Prelude.
From S2P Require Import Ports Files.
From S2P Require Import Expression Numeric.
From S2P Require Import LoggerModel LoggingSession.

(** ** [logging_protocol.h] *)
Record PollData := { pd_responded : bool; pd_samples : list ProtocolSample }.
Definition silent : PollData := {| pd_responded := false; pd_samples := [] |}.
(** [Start] and [Poll] wait on the adapter: no answer stands for a wait without end. *)
Class LoggingProtocol (P : Type) := {
  proto_Cancelled : P -> bool * P;
  proto_Start : P -> option Status * P;
  proto_Poll : Z -> P -> option (result Error PollData) * P;
  proto_Stop : P -> Status * P
}.

(** ** [LoggingUseCase::Run] *)
Section run.
Context `{Double} {HN : Numeric} {P : Type} {LP : LoggingProtocol P} (session : LoggingSession).
Inductive RunEvent : Type :=
| ECancelled (cancelled : bool)
| EStart (started : option Status)
| EPoll (polled : option (result Error PollData))
| EStop (stopped : Status)
| EState (state : LoggingState)
| ESamples (samples : list LogSample)
| EDiagnostic (line : string).
(** The protocol and the events so far. *)
Definition Running (A : Type) : Type := IO (P * list RunEvent) A.
Definition emit (e : RunEvent) : Running unit := fun u => (tt, (fst u, snd u ++ [e])).
Definition ask {A} (f : P -> A * P) (ev : A -> RunEvent) : Running A :=
  fun u => let '(a, p) := f (fst u) in (a, (p, snd u ++ [ev a])).
Definition ReconnectDue (policy : LoggingPolicy) (consecutive_misses : Z) : bool :=
  (0 <? reconnect_retry_period policy) && (reconnect_attempt_threshold policy <=? consecutive_misses)
  && (Z.rem (consecutive_misses - reconnect_attempt_threshold policy) (reconnect_retry_period policy) =? 0).
(** The sample left without a value by a conversion that failed. *)
Definition without_value (raw : ProtocolSample) : LogSample :=
  {| sample_channel_id := ps_channel_id raw; numeric_value := None; sample_raw_value := ps_raw_value raw;
     sample_unit := match FindChannel session (ps_channel_id raw) with Some c => ch_unit c | None => "" end |}.
Fixpoint ConvertSamples (samples : list ProtocolSample) (reported_failures : gset string) (converted : list LogSample)
    : Running (result Error (list LogSample) * gset string) :=
  match samples with
  | [] => io_ret (Ok converted, reported_failures)
  | raw :: samples =>
      match ConvertSample session raw with
      | Ok sample => ConvertSamples samples reported_failures (converted ++ [sample])
      | Err e =>
          if negb (bool_decide (kind e = kInvalidConfig)) then io_ret (Err e, reported_failures)
          else
            io _ <- (if bool_decide (ps_channel_id raw ∈ reported_failures) then io_ret tt
                     else emit (EDiagnostic (ps_channel_id raw +:+ " unavailable: " +:+ detail e)));
            ConvertSamples samples ({[ps_channel_id raw]} ∪ reported_failures) (converted ++ [without_value raw])
      end
  end.
Record LoopState := { consecutive_misses : Z; last_state : LoggingState; reported_conversion_failures : gset string }.
Definition cancelled_run : Status := Fail kCancelled "logging cancelled".
(** One turn of the loop: the state it goes on with, or the answer of the run, none if
    a call did not return. *)
Definition turn (st : LoopState) : Running (LoopState + option Status) :=
  let policy := policy_ session in
  io cancelled <- ask proto_Cancelled ECancelled;
  if cancelled then io_ret (inr (Some cancelled_run))
  else
    io poll_result <- ask (proto_Poll (poll_timeout policy)) EPoll;
    match poll_result with
    | None => io_ret (inr None)
    | Some (Err e) => io_ret (if bool_decide (kind e = kBadResponse) then inl st else inr (Some (Err e)))
    | Some (Ok data) =>
        if pd_responded data then
          io _ <- (if bool_decide (last_state st = kRunning) then io_ret tt else emit (EState kRunning));
          io answer <- ConvertSamples (pd_samples data) (reported_conversion_failures st) [];
          match answer with
          | (Err e, _) => io_ret (inr (Some (Err e)))
          | (Ok converted, reported) =>
              io _ <- emit (ESamples converted);
              io_ret (inl {| consecutive_misses := 0; last_state := kRunning; reported_conversion_failures := reported |})
          end
        else
          let misses := consecutive_misses st + 1 in
          io last <- (if misses =? car_silence_miss_threshold policy
                      then io _ <- emit (EState kCarNotResponding); io_ret kCarNotResponding else io_ret (last_state st));
          let missed := {| consecutive_misses := misses; last_state := last;
                           reported_conversion_failures := reported_conversion_failures st |} in
          if negb (ReconnectDue policy misses) then io_ret (inl missed)
          else
            io reconnected <- ask proto_Start EStart;
            match reconnected with
            | None => io_ret (inr None)
            | Some (Err e) => io_ret (if bool_decide (kind e = kBadResponse) then inl missed else inr (Some (Err e)))
            | Some (Ok _) =>
                io _ <- emit (EState kRunning);
                io_ret (inl {| consecutive_misses := 0; last_state := kRunning;
                               reported_conversion_failures := reported_conversion_failures st |})
            end
    end.
Fixpoint turns (fuel : nat) (st : LoopState) : Running (option Status) :=
  match fuel with
  | O => io_ret None
  | S fuel => io next <- turn st; match next with inl st => turns fuel st | inr answer => io_ret answer end
  end.
Definition first_state : LoopState := {| consecutive_misses := 0; last_state := kRunning; reported_conversion_failures := ∅ |}.
(** What follows the guard, and the guard's destructor. *)
Definition run_started (fuel : nat) : Running (option Status) :=
  io started <- ask proto_Start EStart;
  match started with
  | None => io_ret None
  | Some (Err e) => io_ret (Some (Err e))
  | Some (Ok _) => io _ <- emit (EState kRunning); turns fuel first_state
  end.
Definition stop : Running unit :=
  io stopped <- ask proto_Stop EStop;
  match stopped with Ok _ => io_ret tt | Err e => emit (EDiagnostic (detail e)) end.
(** [fuel] bounds the turns of the loop, which ends only by cancellation or an error. *)
Definition Run (fuel : nat) : Running (option Status) :=
  io cancelled <- ask proto_Cancelled ECancelled;
  if cancelled then io_ret (Some cancelled_run)
  else
    io answer <- run_started fuel;
    match answer with
    | None => io_ret None
    | Some status => io _ <- stop; io_ret (Some status)
    end.
End run.

(** ** What a list of events says *)
Section history.
Context `{Double} {HN : Numeric}.
Implicit Types ev : list RunEvent.
(** The silent polls since the last answer or successful start. *)
Definition count_miss (n : Z) (e : RunEvent) : Z :=
  match e with
  | EPoll (Some (Ok data)) => if pd_responded data then 0 else n + 1
  | EStart (Some (Ok _)) => 0
  | _ => n
  end.
Definition misses_of ev : Z := fold_left count_miss ev 0.
Definition last_reported (s : option LoggingState) (e : RunEvent) : option LoggingState := match e with EState s => Some s | _ => s end.
Definition state_of ev : option LoggingState := fold_left last_reported ev None.
(** The answered poll whose samples are not yet reported. *)
Definition owing (o : option PollData) (e : RunEvent) : option PollData :=
  match e with
  | EPoll (Some (Ok data)) => if pd_responded data then Some data else None
  | EPoll _ | ESamples _ => None
  | _ => o
  end.
Definition owed ev : option PollData := fold_left owing ev None.
(** The last poll was silent, and no restart was tried since. *)
Definition missing (b : bool) (e : RunEvent) : bool :=
  match e with EPoll (Some (Ok data)) => negb (pd_responded data) | EPoll _ | EStart _ => false | _ => b end.
Definition missed ev : bool := fold_left missing ev false.
Definition stops ev : nat := length (List.filter (fun e => match e with EStop _ => true | _ => false end) ev).
Definition cancels ev : nat := length (List.filter (fun e => match e with ECancelled _ => true | _ => false end) ev).
(** How often the operator had cancelled when asked. *)
Definition told ev : nat := length (List.filter (fun e => match e with ECancelled true => true | _ => false end) ev).
(** A protocol call that did not return is the last event. *)
Definition hung ev : Prop := exists pre e, ev = pre ++ [e] /\ (e = EStart None \/ e = EPoll None).
(** The state that silence of [n] polls calls for. *)
Definition expected (policy : LoggingPolicy) (n : Z) : LoggingState :=
  if car_silence_miss_threshold policy <=? n then kCarNotResponding else kRunning.
(** A restart is due at the threshold of silent polls and every retry period after it;
    a retry period of 0 means never. *)
Definition restart_due (policy : LoggingPolicy) (n : Z) : Prop :=
  0 < reconnect_retry_period policy
  /\ exists k, 0 <= k /\ n = reconnect_attempt_threshold policy + k * reconnect_retry_period policy.
(** What is reported for a raw sample: its conversion, or no value where its channel's
    configuration does not convert it. *)
Definition reported_sample (session : LoggingSession) (raw : ProtocolSample) : LogSample :=
  match ConvertSample session raw with Ok sample => sample | Err _ => without_value session raw end.
Definition reportable (session : LoggingSession) (raw : ProtocolSample) : Prop :=
  forall e, ConvertSample session raw = Err e -> kind e = kInvalidConfig.
(** When an event may come. The loop asks for cancellation only when what was last
    reported is what the silence calls for, no samples are owed and no restart is due;
    it polls only right after it was told to go on; it restarts only when that is due;
    and the samples it reports are the conversions of those owed. *)
Definition may_come (session : LoggingSession) ev (e : RunEvent) : Prop :=
  let policy := policy_ session in
  match e with
  | ECancelled _ => ev = [] \/ state_of ev = Some (expected policy (misses_of ev)) /\ owed ev = None
                               /\ (missed ev = true -> ~ restart_due policy (misses_of ev))
  | EPoll _ => exists pre, ev = pre ++ [ECancelled false]
  | EStart _ => ev = [ECancelled false] \/ missed ev = true /\ restart_due policy (misses_of ev)
  | ESamples samples => exists data, owed ev = Some data /\ samples = map (reported_sample session) (pd_samples data)
      /\ Forall (reportable session) (pd_samples data)
  | _ => True
  end.
Definition legal (session : LoggingSession) ev : Prop := forall pre e post, ev = pre ++ e :: post -> may_come session pre e.
(** What ends a run that started: the operator, an error of a poll or of a restart that
    is not a bad response, or a sample owed whose conversion fails otherwise than by its
    channel's configuration. *)
Definition ended (session : LoggingSession) ev (status : Status) : Prop :=
  (exists pre, ev = pre ++ [ECancelled true] /\ status = cancelled_run)
  \/ (exists pre e, (ev = pre ++ [EPoll (Some (Err e))] \/ ev = pre ++ [EStart (Some (Err e))]) /\ kind e <> kBadResponse /\ status = Err e)
  \/ (exists data raw e, owed ev = Some data /\ raw ∈ pd_samples data /\ ConvertSample session raw = Err e /\ kind e <> kInvalidConfig
        /\ status = Err e).
Lemma ReconnectDue_iff policy n : ReconnectDue policy n = true <-> restart_due policy n.
Proof.
  unfold ReconnectDue, restart_due. rewrite !andb_true_iff, Z.ltb_lt, Z.leb_le, Z.eqb_eq. split.
  - intros [[Hp Hn] Hr]. split; [done|]. exists ((n - reconnect_attempt_threshold policy) / reconnect_retry_period policy).
    rewrite Z.rem_mod_nonneg in Hr by lia. pose proof (Z.div_mod (n - reconnect_attempt_threshold policy) (reconnect_retry_period policy)).
    split; [apply Z.div_pos; lia|lia].
  - intros [Hp (k & Hk & ->)]. split_and!; [done|nia|]. rewrite Z.rem_mod_nonneg by nia.
    replace (_ + _ - _) with (k * reconnect_retry_period policy) by lia. apply Z.mod_mul. lia.
Qed.
Lemma legal_nil session : legal session [].
Proof. by intros [] ? ?. Qed.
Lemma legal_snoc session ev e : legal session ev -> may_come session ev e -> legal session (ev ++ [e]).
Proof.
  intros Hl He pre x post E. destruct post as [|y post] using rev_ind; [apply app_inj_tail in E as [<- <-]; done|].
  rewrite app_comm_cons, app_assoc in E. apply app_inj_tail in E as [E _]. by apply (Hl pre x post).
Qed.
Lemma fold_snoc {A B} (f : A -> B -> A) l b a : fold_left f (l ++ [b]) a = f (fold_left f l a) b.
Proof. by rewrite fold_left_app. Qed.
Lemma misses_snoc ev e : misses_of (ev ++ [e]) = count_miss (misses_of ev) e.
Proof. apply fold_snoc. Qed.
Lemma state_snoc ev e : state_of (ev ++ [e]) = last_reported (state_of ev) e.
Proof. apply fold_snoc. Qed.
Lemma owed_snoc ev e : owed (ev ++ [e]) = owing (owed ev) e.
Proof. apply fold_snoc. Qed.
Lemma missed_snoc ev e : missed (ev ++ [e]) = missing (missed ev) e.
Proof. apply fold_snoc. Qed.
Lemma stops_snoc ev e : stops (ev ++ [e]) = (stops ev + match e with EStop _ => 1 | _ => 0 end)%nat.
Proof. unfold stops. rewrite List.filter_app, length_app. by destruct e. Qed.
Lemma cancels_snoc ev e : cancels (ev ++ [e]) = (cancels ev + match e with ECancelled _ => 1 | _ => 0 end)%nat.
Proof. unfold cancels. rewrite List.filter_app, length_app. by destruct e. Qed.
Lemma told_snoc ev e : told (ev ++ [e]) = (told ev + match e with ECancelled true => 1 | _ => 0 end)%nat.
Proof. unfold told. rewrite List.filter_app, length_app. by destruct e as [[]| | | | | |]. Qed.
End history.
Ltac log_simpl :=
  rewrite ?misses_snoc, ?state_snoc, ?owed_snoc, ?missed_snoc, ?stops_snoc, ?cancels_snoc, ?told_snoc; cbn [count_miss last_reported owing missing].
Ltac extends := repeat (eapply prefix_app_r); reflexivity.

(** ** Reasoning about runs *)
Section triples.
Context `{Double} {HN : Numeric} {P : Type} {LP : LoggingProtocol P}.
(** From the events [ev], [m] answers [a] and leaves events with [Q]. *)
Definition leaves {A} (ev : list RunEvent) (m : Running (P := P) A) (Q : A -> list RunEvent -> Prop) : Prop :=
  forall p, let '(a, u) := m (p, ev) in Q a (snd u).
Lemma leaves_ret {A} ev (a : A) (Q : A -> list RunEvent -> Prop) : Q a ev -> leaves ev (io_ret a) Q.
Proof. by intros HQ p. Qed.
Lemma leaves_bind {A B} ev (m : Running A) (k : A -> Running B) R Q :
  leaves ev m R -> (forall a ev', R a ev' -> leaves ev' (k a) Q) -> leaves ev (io_bind m k) Q.
Proof.
  intros Hm Hk p. unfold io_bind. specialize (Hm p). destruct (m (p, ev)) as [a [p' ev']]. exact (Hk a ev' Hm p').
Qed.
Lemma leaves_ask {A B} ev (f : P -> A * P) evf (k : A -> Running B) Q :
  (forall a, leaves (ev ++ [evf a]) (k a) Q) -> leaves ev (io_bind (ask f evf) k) Q.
Proof. intros Hk p. unfold io_bind, ask. cbn [fst snd]. destruct (f p) as [a p']. apply Hk. Qed.
Lemma leaves_emit {B} ev e (k : unit -> Running B) Q : leaves (ev ++ [e]) (k tt) Q -> leaves ev (io_bind (emit e) k) Q.
Proof. intros Hk p. apply Hk. Qed.
Lemma leaves_weaken {A} ev (m : Running A) (R Q : A -> list RunEvent -> Prop) :
  leaves ev m R -> (forall a ev', R a ev' -> Q a ev') -> leaves ev m Q.
Proof. intros Hm HQ p. specialize (Hm p). destruct (m (p, ev)) as [a u]. by apply HQ. Qed.
End triples.

Section runs.
Context `{Double} {HN : Numeric} {P : Type} {LP : LoggingProtocol P} (session : LoggingSession).
#[local] Abbreviation policy := (policy_ session).
(** Events that change nothing the loop keeps track of. *)
Definition same_history (ev ev' : list RunEvent) : Prop :=
  misses_of ev' = misses_of ev /\ state_of ev' = state_of ev /\ owed ev' = owed ev /\ missed ev' = missed ev /\ stops ev' = stops ev /\ cancels ev' = cancels ev /\ told ev' = told ev
  /\ ev `prefix_of` ev' /\ (legal session ev -> legal session ev').
Lemma same_history_refl ev : same_history ev ev.
Proof. split_and!; try done. Qed.
Lemma same_history_trans ev ev1 ev2 : same_history ev ev1 -> same_history ev1 ev2 -> same_history ev ev2.
Proof.
  intros (A1 & A2 & A3 & A4 & A5 & A6 & A7 & A8 & A9) (B1 & B2 & B3 & B4 & B5 & B6 & B7 & B8 & B9).
  split_and!; try congruence; [by transitivity ev1|auto].
Qed.
Definition converts (samples : list ProtocolSample) (acc : list LogSample) (answer : result Error (list LogSample)) : Prop :=
  match answer with
  | Ok l => l = acc ++ map (reported_sample session) samples /\ Forall (reportable session) samples
  | Err e => exists raw, raw ∈ samples /\ ConvertSample session raw = Err e /\ kind e <> kInvalidConfig
  end.
Lemma converts_cons raw samples acc answer : reportable session raw ->
  converts samples (acc ++ [reported_sample session raw]) answer -> converts (raw :: samples) acc answer.
Proof.
  intros Hr. destruct answer as [l|e]; cbn [converts].
  - intros [-> HF]. split; [by rewrite <- app_assoc|by constructor].
  - intros (x & Hx & H1). exists x. split; [by apply list_elem_of_further|done].
Qed.
Lemma ConvertSamples_leaves samples reported acc ev :
  leaves (P := P) ev (ConvertSamples session samples reported acc) (fun r ev' => same_history ev ev' /\ converts samples acc (fst r)).
Proof.
  revert reported acc ev. induction samples as [|raw samples IH]; intros reported acc ev; cbn [ConvertSamples].
  - apply leaves_ret. split; [apply same_history_refl|]. cbn. by rewrite app_nil_r.
  - destruct (ConvertSample session raw) as [sample|e] eqn:Ec.
    + eapply leaves_weaken; [apply IH|]. intros r ev' [Hs Hl]. split; [done|]. apply converts_cons; [intros e He; congruence|].
      unfold reported_sample. by rewrite Ec.
    + case_bool_decide as Hk; cbn [negb].
      2:{ apply leaves_ret. split; [apply same_history_refl|]. exists raw. split_and!; [by apply list_elem_of_here|done|done]. }
      assert (forall ev1, same_history ev ev1 -> leaves (P := P) ev1
        (ConvertSamples session samples ({[ps_channel_id raw]} ∪ reported) (acc ++ [without_value session raw]))
        (fun r ev' => same_history ev ev' /\ converts (raw :: samples) acc (fst r))) as Hrest.
      { intros ev1 H1. eapply leaves_weaken; [apply IH|]. intros r ev' [H2 Hl]. split; [by apply (same_history_trans ev ev1)|].
        apply converts_cons; [intros e' He; congruence|]. unfold reported_sample. by rewrite Ec. }
      case_bool_decide; [eapply leaves_bind; [by apply leaves_ret with (Q := fun _ ev' => ev' = ev)|]; intros _ ev1 ->; apply Hrest, same_history_refl|].
      apply leaves_emit, Hrest. split_and!; log_simpl; try done; try lia; [by eexists|]. intros Hl. by apply legal_snoc.
Qed.
(** What the loop knows at the top of a turn. *)
Record settled (st : LoopState) (ev : list RunEvent) : Prop := {
  settled_misses : misses_of ev = consecutive_misses st;
  settled_nonneg : 0 <= consecutive_misses st;
  settled_state : state_of ev = Some (last_state st);
  settled_expected : last_state st = expected policy (consecutive_misses st);
  settled_owed : owed ev = None;
  settled_restart : missed ev = true -> ~ restart_due policy (consecutive_misses st);
  settled_legal : legal session ev
}.
Definition after_turn (ev : list RunEvent) (next : LoopState + option Status) (ev' : list RunEvent) : Prop :=
  stops ev' = stops ev /\ cancels ev' = S (cancels ev) /\ ev `prefix_of` ev' /\ legal session ev'
  /\ match next with inl st => settled st ev' /\ told ev' = told ev | inr None => hung ev' /\ told ev' = told ev | inr (Some status) => ended session ev' status end.
(** The answered branch of a turn, once its events are in order. *)
Lemma answered_leaves st ev ev3 data : ev `prefix_of` ev3 -> legal session ev3 -> stops ev3 = stops ev -> cancels ev3 = S (cancels ev) ->
  told ev3 = told ev -> owed ev3 = Some data -> missed ev3 = false -> misses_of ev3 = 0 -> state_of ev3 = Some kRunning ->
  0 < car_silence_miss_threshold policy ->
  leaves (P := P) ev3
    (io answer <- ConvertSamples session (pd_samples data) (reported_conversion_failures st) [];
     match answer with
     | (Err e, _) => io_ret (inr (Some (Err e)))
     | (Ok converted, reported) =>
         io _ <- emit (ESamples converted);
         io_ret (inl {| consecutive_misses := 0; last_state := kRunning; reported_conversion_failures := reported |})
     end) (after_turn ev).
Proof.
  intros P3 L3 S3 C3 D3 Q3 I3 M3 T3 Ht. eapply leaves_bind; [apply ConvertSamples_leaves|].
  intros [[converted|e] reported] ev4 [(A1 & A2 & A3 & A4 & A5 & A6 & A7 & A8 & A9) Hc]; specialize (A9 L3); cbn [fst converts] in Hc.
  - destruct Hc as [-> HF]. assert (legal session (ev4 ++ [ESamples ([] ++ map (reported_sample session) (pd_samples data))])) as L5.
    { apply legal_snoc; [done|]. exists data. split_and!; [congruence|done|done]. }
    apply leaves_emit, leaves_ret. unfold after_turn. log_simpl. split_and!; [lia|lia| |done| |lia].
    + transitivity ev3; [done|]. by apply prefix_app_r.
    + split; cbn [consecutive_misses last_state]; log_simpl; [congruence|lia|congruence| |done|congruence|done].
      unfold expected. by rewrite (proj2 (Z.leb_gt _ _)).
  - destruct Hc as (raw & Hraw & Hr & Hk). apply leaves_ret. unfold after_turn. split_and!; [lia|lia|by transitivity ev3|done|].
    right. right. exists data, raw, e. split_and!; congruence.
Qed.
Lemma turn_leaves st ev : 0 < car_silence_miss_threshold policy -> settled st ev -> leaves (P := P) ev (turn session st) (after_turn ev).
Proof.
  intros Ht [Hm Hn Hs He Ho Hd Hl]. unfold turn. cbv zeta. apply leaves_ask. intros cancelled.
  assert (legal session (ev ++ [ECancelled cancelled])) as Hl1.
  { apply legal_snoc; [done|]. right. rewrite Hs, Hm, He. by split_and!. }
  destruct cancelled.
  { apply leaves_ret; unfold after_turn; log_simpl; split_and!; try done; [lia..|extends|]. left. by exists ev. }
  apply leaves_ask. intros polled. set (ev2 := (ev ++ [ECancelled false]) ++ [EPoll polled]).
  assert (legal session ev2) as Hl2 by (apply legal_snoc; [done|by exists ev]).
  assert (stops ev2 = stops ev /\ cancels ev2 = S (cancels ev) /\ told ev2 = told ev /\ ev `prefix_of` ev2) as (Es & Ec & Et & Epre).
  { unfold ev2. log_simpl. split_and!; [lia..|extends]. }
  destruct polled as [[data|e]|].
  2: { apply leaves_ret. unfold after_turn. split_and!; try done. case_bool_decide as Hk.
       - split; [|done]. unfold ev2. split; log_simpl; done.
       - right. left. exists (ev ++ [ECancelled false]), e. split_and!; [by left|done|done]. }
  2: { apply leaves_ret. unfold after_turn. split_and!; try done. eexists _, _. by split; [|right]. }
  destruct (pd_responded data) eqn:Er.
  - assert (misses_of ev2 = 0 /\ owed ev2 = Some data /\ missed ev2 = false) as (Em2 & Eo2 & Ei2) by (unfold ev2; log_simpl; by rewrite Er).
    case_bool_decide as Hrun.
    + eapply leaves_bind; [by apply leaves_ret with (Q := fun _ ev' => ev' = ev2)|]. intros _ ev3 ->. apply answered_leaves; try done.
      unfold ev2. log_simpl. by rewrite Hs, Hrun.
    + apply leaves_emit. apply answered_leaves; log_simpl; try done; try lia; [by apply prefix_app_r|by apply legal_snoc].
  - set (misses := consecutive_misses st + 1).
    assert (misses_of ev2 = misses /\ owed ev2 = None /\ missed ev2 = true) as (Em2 & Eo2 & Ei2) by (unfold ev2; log_simpl; rewrite Er, Hm; done).
    assert (state_of ev2 = Some (last_state st)) as Es2 by (unfold ev2; by log_simpl).
    eapply (leaves_bind _ _ _ (fun last ev3 => ev2 `prefix_of` ev3 /\ legal session ev3 /\ stops ev3 = stops ev2 /\ cancels ev3 = cancels ev2 /\ told ev3 = told ev2
      /\ misses_of ev3 = misses /\ owed ev3 = None /\ missed ev3 = true /\ state_of ev3 = Some last /\ last = expected policy misses)).
    { unfold expected in *. destruct (Z.eqb_spec misses (car_silence_miss_threshold policy)) as [Eq|Hne].
      - apply leaves_emit, leaves_ret. log_simpl. split_and!; [by apply prefix_app_r|by apply legal_snoc|lia|lia|lia|done|done|done|done|].
        by rewrite (proj2 (Z.leb_le _ _)) by lia.
      - apply leaves_ret. split_and!; try done. rewrite He. subst misses.
        destruct (Z.leb_spec (car_silence_miss_threshold policy) (consecutive_misses st));
          [rewrite (proj2 (Z.leb_le _ _)) by lia|rewrite (proj2 (Z.leb_gt _ _)) by lia]; done. }
    intros last ev3 (P3 & L3 & S3 & C3 & D3 & M3 & O3 & I3 & T3 & Hlast).
    destruct (ReconnectDue policy misses) eqn:Edue; cbn [negb].
    2:{ apply leaves_ret; unfold after_turn; split_and!; [lia|lia|by transitivity ev2|done| |lia].
        split; cbn; try done; [lia|]. intros _ Hdue%ReconnectDue_iff. congruence. }
    apply leaves_ask. intros reconnected. set (ev4 := ev3 ++ [EStart reconnected]).
    assert (legal session ev4) as L4 by (apply legal_snoc; [done|right; split; [done|]; rewrite M3; by apply ReconnectDue_iff]).
    assert (stops ev4 = stops ev /\ cancels ev4 = S (cancels ev) /\ told ev4 = told ev /\ ev `prefix_of` ev4) as (S4 & C4 & D4 & P4).
    { unfold ev4. log_simpl. split_and!; [lia|lia|lia|]. transitivity ev2; [done|]. by apply prefix_app_r. }
    destruct reconnected as [[[]|e]|].
    + apply leaves_emit, leaves_ret. unfold after_turn. log_simpl. split_and!; [lia|lia|by apply prefix_app_r|by apply legal_snoc| |lia].
      split; cbn [consecutive_misses last_state]; unfold ev4; log_simpl; [done|lia|done| |done|done|by apply legal_snoc].
      unfold expected. by rewrite (proj2 (Z.leb_gt _ _)).
    + apply leaves_ret. unfold after_turn. split_and!; try done. case_bool_decide as Hk.
      * split; [|done]. unfold ev4. split; cbn [consecutive_misses last_state]; log_simpl; done || lia.
      * right. left. exists ev3, e. split_and!; [by right|done|done].
    + apply leaves_ret. unfold after_turn. split_and!; try done. eexists _, _. by split; [|left].
Qed.
Lemma turns_leaves fuel st ev : 0 < car_silence_miss_threshold policy -> settled st ev ->
  leaves (P := P) ev (turns session fuel st) (fun answer ev' => stops ev' = stops ev /\ ev `prefix_of` ev' /\ legal session ev'
    /\ (cancels ev' <= cancels ev + fuel)%nat /\ (forall status, answer = Some status -> ended session ev' status)
    /\ (answer = None -> told ev' = told ev /\ (hung ev' \/ cancels ev' = (cancels ev + fuel)%nat))).
Proof.
  intros Ht. revert st ev. induction fuel as [|fuel IH]; intros st ev Hset; cbn [turns].
  - apply leaves_ret. split_and!; try done; [apply Hset|lia|]. intros _. split; [done|]. right. lia.
  - eapply leaves_bind; [by apply turn_leaves|]. intros [st'|answer] ev1 (S1 & C1 & P1 & L1 & H1).
    + destruct H1 as [H1 D1]. eapply leaves_weaken; [by apply IH|]. intros answer ev' (S2 & P2 & L2 & C2 & E2 & H2). split_and!; [lia|by transitivity ev1|done|lia|done|].
      intros E. destruct (H2 E) as [D2 [?|?]]; (split; [lia|]); [by left|right; lia].
    + apply leaves_ret. split_and!; try done; [lia|intros status ->; exact H1|]. intros ->. destruct H1 as [H1 D1]. split; [done|by left].
Qed.
End runs.

(** ** The property *)
Section claims.
Context `{Double} {HN : Numeric} {P : Type} {LP : LoggingProtocol P}.
Lemma run_started_leaves (session : LoggingSession) fuel : 0 < car_silence_miss_threshold (policy_ session) -> legal session [ECancelled false] ->
  let ev := [ECancelled false] in
  leaves (P := P) ev (run_started session fuel) (fun answer ev' => exists r mid, ev' = ev ++ EStart r :: mid /\ stops mid = 0%nat
    /\ legal session ev' /\ (forall e, r = Some (Err e) -> mid = [] /\ answer = Some (Err e))
    /\ (forall status, r = Some (Ok tt) -> answer = Some status -> ended session ev' status)
    /\ (answer = None -> told ev' = told ev /\ (hung ev' \/ cancels ev' = (cancels ev + fuel)%nat))).
Proof.
  cbv zeta. set (ev := [ECancelled false]). intros Ht Hl. unfold run_started. apply leaves_ask. intros r.
  assert (legal session (ev ++ [EStart r])) as Hl1 by (apply legal_snoc; [done|by left]).
  destruct r as [[[]|e]|].
  - apply leaves_emit. eapply leaves_weaken; [apply turns_leaves; [done|]|].
    + split; cbn [consecutive_misses last_state first_state]; log_simpl; [done|lia|done| |done|done|by apply legal_snoc].
      unfold expected. by rewrite (proj2 (Z.leb_gt _ _)).
    + intros answer ev' (S1 & (post & ->) & L1 & C1 & E1 & H1). exists (Some (Ok tt)), (EState kRunning :: post). revert S1 C1 H1. log_simpl.
      rewrite <- !app_assoc in *. cbn [app] in *. intros S1 C1 H1. split_and!; try done.
      intros status _. apply E1.
  - apply leaves_ret. exists (Some (Err e)), []. split_and!; try done.
  - apply leaves_ret. exists None, []. split_and!; try done. intros _. log_simpl. split; [lia|]. left. eexists _, _. by split; [|left].
Qed.
(** The events of a run and its answer. *)
Definition run_outcome (session : LoggingSession) (fuel : nat) (answer : option Status) (ev : list RunEvent) : Prop :=
  legal session ev
  /\ (ev = [ECancelled true] /\ answer = Some cancelled_run
      \/ exists r mid, stops mid = 0%nat /\ (forall e, r = Some (Err e) -> mid = [] /\ answer = Some (Err e))
         /\ match answer with
            | Some status => (r = Some (Ok tt) -> ended session (ECancelled false :: EStart r :: mid) status)
                /\ exists stopped, ev = ECancelled false :: EStart r :: mid ++ EStop stopped
                :: match stopped with Ok _ => [] | Err e => [EDiagnostic (detail e)] end
            | None => ev = ECancelled false :: EStart r :: mid /\ told ev = 0%nat /\ (hung ev \/ cancels ev = S fuel)
            end).
(** C23: A logging run, over any protocol and whatever it answers. Cancelled at once, it
    calls nothing. Otherwise it starts the protocol, and when it returns it has stopped
    it, exactly once and after every other call, reporting a failure to stop. At the top
    of every turn the state last reported is the one the answers amount to (not responding
    exactly when the silent polls since the last answer or successful start reach the
    threshold), every answered poll was followed by the report of exactly the conversions
    of its samples, in order (no value where the channel's configuration does not convert
    one), and no restart is outstanding: the protocol is restarted right after a silent
    poll, exactly when the silent polls number the restart threshold plus a multiple of
    the retry period. The run ends with the failed start, or only when it is told to stop,
    by an error of a poll or restart other than a bad response, or by a sample that does
    not convert, with that as its answer; a run not over after [fuel] turns waits in a
    call of the protocol, or has asked for cancellation that often and was never told yes. *)
Theorem logging_run_reports (session : LoggingSession) fuel (p : P) :
  ValidPolicy (policy_ session) = true ->
  let '(answer, (_, ev)) := Run session fuel (p, []) in
  run_outcome session fuel answer ev.
Proof.
  intros Hp. assert (0 < car_silence_miss_threshold (policy_ session)) as Ht.
  { unfold ValidPolicy in Hp. rewrite !andb_true_iff, !Z.ltb_lt in Hp. tauto. }
  enough (leaves (P := P) [] (Run session fuel) (run_outcome session fuel)) as Hrun.
  { specialize (Hrun p). by destruct (Run session fuel (p, [])) as [answer [p' ev]]. }
  unfold Run. apply leaves_ask. intros cancelled. cbn [app].
  assert (legal session [ECancelled cancelled]) as Hl by (apply (legal_snoc _ []); [apply legal_nil|by left]).
  destruct cancelled; [apply leaves_ret; split; [done|by left]|].
  eapply leaves_bind; [by apply run_started_leaves|]. intros [status|] ev (r & mid & -> & S1 & L1 & F1 & E1 & N1).
  - eapply (leaves_bind _ _ _ (fun _ ev' => exists stopped, ev' = ([ECancelled false] ++ EStart r :: mid) ++ EStop stopped
      :: match stopped with Ok _ => [] | Err e => [EDiagnostic (detail e)] end)).
    + unfold stop. apply leaves_ask. intros stopped. destruct stopped as [[]|e]; [by apply leaves_ret; exists (Ok tt)|].
      intros p0. cbn. exists (Err e). by rewrite <- !app_assoc.
    + intros _ ev' [stopped ->]. apply leaves_ret. split.
      * rewrite cons_middle, app_assoc. destruct stopped as [[]|e]; rewrite ?app_nil_r; repeat (apply legal_snoc; [|done]); done.
      * right. exists r, mid. split_and!; try done; [|exists stopped; by rewrite <- app_assoc]. intros Hr. by apply E1.
  - apply leaves_ret. split; [done|]. right. exists r, mid. destruct (N1 eq_refl) as [D C]. split_and!; done.
Qed.
End claims.

(** ** A unit that answers one poll and is silent then, and an operator who cancels at the
    sixth question *)
Definition one_answer : PollData := {| pd_responded := true; pd_samples := [] |}.
#[local] Instance silent_unit : LoggingProtocol nat := {|
  proto_Cancelled n := ((5 <=? n)%nat, S n);
  proto_Start n := (Some (Ok tt), n);
  proto_Poll _ n := (Some (Ok (if (n =? 2)%nat then one_answer else silent)), n);
  proto_Stop n := (Ok tt, n)
|}.
Definition silent_session : LoggingSession :=
  {| protocol_ := kSsm; channels_ := [];
     policy_ := {| poll_timeout := 100; car_silence_miss_threshold := 2; reconnect_attempt_threshold := 3; reconnect_retry_period := 5 |};
     read_plan_ := None; conversions_ := [] |}.
Definition sample_events : list RunEvent :=
  [ECancelled false; EStart (Some (Ok tt)); EState kRunning; ECancelled false; EPoll (Some (Ok one_answer)); ESamples [];
   ECancelled false; EPoll (Some (Ok silent)); ECancelled false; EPoll (Some (Ok silent)); EState kCarNotResponding;
   ECancelled false; EPoll (Some (Ok silent)); EStart (Some (Ok tt)); EState kRunning; ECancelled true; EStop (Ok tt)].
Lemma logging_run_reports_witness :
  Run silent_session 9 (0%nat, []) = (Some cancelled_run, (6%nat, sample_events)) /\ legal silent_session sample_events.
Proof.
  pose proof (logging_run_reports silent_session 9 0%nat eq_refl) as H.
  assert (Run silent_session 9 (0%nat, []) = (Some cancelled_run, (6%nat, sample_events))) as E by reflexivity.
  rewrite E in H. split; [exact E|exact (proj1 H)].
Defined.
