(* ===== verification/LoggingProtocols.v ===== *)
(** * LoggingProtocols: [src/backend/logging/protocols]

    The three protocols a logging run drives: SSM over a byte stream, MUT-DMA over
    K-Line and CDBG over raw CAN, each an instance of [LoggingProtocol] whose state is
    the protocol object's and the history of calls. [general] prints a [double] the way
    [std::format] does; [fuel] bounds the reads of one reply, which the clock bounds in
    the source. *)
From S2P Require Import Prelude Bytes.
From S2P Require Import Ports Files.
From S2P Require Import Expression Numeric.
From S2P Require Import Ssm.
From S2P Require Import MutDma MutDmaDriver.
From S2P Require Import Colt CdbgDriver.
From S2P Require Import LoggerModel LoggingSession LoggingRun.

(** ** [CheckLoggingRunCanContinue] *)
Section guard.
Context `{Env}.
Definition CheckLoggingRunCanContinue (IsOpen : M bool) : M Status :=
  do cancelled <- Cancelled;
  if cancelled then ret (Fail kCancelled "logging cancelled")
  else do open <- IsOpen; ret (if negb open then Fail kDisconnected "adapter disconnected" else Ok tt).
(** A call of a protocol object with state [S], as a step of the run. *)
Definition as_step {S A} (f : S -> M (A * S)) (p : S * trace) : A * (S * trace) :=
  let '((a, s), t) := f (fst p) (snd p) in (a, (s, t)).
Definition ask_cancelled {S} (p : S * trace) : bool * (S * trace) := let '(b, t) := Cancelled (snd p) in (b, (fst p, t)).
End guard.

(** ** [portable_ssm_logging_protocol.cpp] *)
Module SsmLogging.
Definition kStartTimeout : Z := 1000.
Definition BuildPollRequest (plan : SsmReadPlan) : list Z := fold_left AppendU24Be (plan_addresses plan) [0xA8; 0x01].
Definition signed_text (z : Z) : string := if z <? 0 then "-" +:+ fmt_d (- z) else fmt_d z.
(** The byte read at step [i]. *)
Definition byte_position (channel : LoggingChannel) (size i : Z) : Z :=
  match ch_byte_order channel with kLittleEndian => size - 1 - i | kBigEndian => i end.
Fixpoint accumulate (channel : LoggingChannel) (data : list Z) (i : Z) (count : nat) (value : Z) : Z :=
  match count with
  | O => value
  | S count =>
      accumulate channel data (i + 1) count (u32 (Z.lor (Z.shiftl value 8) (zget data (byte_position channel (zlen data) i))))
  end.
Section numbers.
Context `{Double} {HN : Numeric} (general : double -> string).
Definition DecodeNumeric (data : list Z) (channel : LoggingChannel) : result Error string :=
  if negb (zlen data =? ch_length channel) || negb (ValidLength (zlen data)) then Fail kBadResponse "invalid SSM numeric width"
  else
    let value := accumulate channel data 0 (length data) 0 in
    match ch_storage channel with
    | kUnsignedInteger => Ok (fmt_d value)
    | kSignedInteger =>
        let bits := zlen data * 8 in
        Ok (signed_text (if negb (Z.land value (Z.shiftl 1 (bits - 1)) =? 0) then value - Z.shiftl 1 bits else value))
    | kFloatNumber =>
        if negb (zlen data =? 4) then Fail kBadResponse "SSM float requires four bytes"
        else
          let number := of_float_bits value in
          if negb (isfinite number) then Fail kBadResponse "nonfinite SSM float" else Ok (general number)
    end.
(** The bytes at the positions of a channel. *)
Fixpoint raw_bytes (positions data : list Z) (acc : list Z) : result Error (list Z) :=
  match positions with
  | [] => Ok acc
  | position :: positions =>
      match zlookup data position with
      | None => Fail kInvalidConfig "SSM response position outside physical read plan"
      | Some b => raw_bytes positions data (acc ++ [b])
      end
  end.
Fixpoint decode_samples (positions : list (list Z)) (channels : list LoggingChannel) (data : list Z) (samples : list ProtocolSample)
    : result Error (list ProtocolSample) :=
  match channels, positions with
  | channel :: channels, ps :: positions =>
      if negb (zlen ps =? ch_length channel) then Fail kInvalidConfig "SSM channel byte positions do not match width"
      else
        let! raw := raw_bytes ps data [] in
        let! raw_value := DecodeNumeric raw channel in
        decode_samples positions channels data (samples ++ [{| ps_channel_id := ch_id channel; ps_raw_value := raw_value |}])
  | _, _ => Ok samples
  end.
Definition DecodeSamples (plan : SsmReadPlan) (channels : list LoggingChannel) (data : list Z) : result Error (list ProtocolSample) :=
  if negb (zlen (plan_response_positions plan) =? zlen channels) then
    Fail kInvalidConfig "SSM logical channel/read-plan count mismatch"
  else decode_samples (plan_response_positions plan) channels data [].
End numbers.
Definition TargetId (target_is_ecu : bool) : Z := if target_is_ecu then 0x10 else 0x18.
(** The bytes from the first reply header, or the last two. *)
Fixpoint align (target : Z) (received : list Z) : list Z :=
  match received with
  | a :: ((b :: c :: _) as rest) => if negb (a =? 0x80) || negb (b =? 0xf0) || negb (c =? target) then align target rest else received
  | _ => received
  end.
Definition TakeReply (received : list Z) (target : Z) : option (list Z) * list Z :=
  let received := align target received in
  if (zlen received <? 4) || (zlen received <? zget received 3 + 5) then (None, received)
  else (Some (ztake (zget received 3 + 5) received), zdrop (zget received 3 + 5) received).
Definition IsReadReply (reply : list Z) (target data_size : Z) : bool :=
  (zlen reply =? data_size + 6) && (zget reply 0 =? 0x80) && (zget reply 1 =? 0xf0) && (zget reply 2 =? target)
  && (zget reply 3 =? data_size + 1) && (zget reply 4 =? 0xe8) && (Sum8 (ztake (zlen reply - 1) reply) =? zget reply (zlen reply - 1)).
Section protocol.
Context `{Env} `{Double} {HN : Numeric} (general : double -> string) (fuel : nat)
  (channels : list LoggingChannel) (plan : SsmReadPlan) (target_is_ecu use_openport2_adapter : bool).
Definition IsOpen : M bool := Call SsmIsOpen.
Definition CheckCancellation : M Status := CheckCancelled "SSM logging cancelled".
Definition BuildSsmHeader (output : list Z) : list Z := AddHeader output 0xF0 (TargetId target_is_ecu).
(** The bytes of one read appended. *)
Definition read_and_append (timeout : Z) (received : list Z) : M (result Error (list Z)) :=
  do! _ <- CheckCancellation;
  do! chunk <- Call (SsmRead timeout);
  ret (Ok (received ++ default [] chunk)).
Fixpoint frame_loop (rounds : nat) (deadline : Z) (received : list Z) : M (option (result Error (list Z)) * list Z) :=
  match rounds with
  | O => ret (None, [])
  | S rounds =>
      do status <- CheckCancellation;
      match status with
      | Err e => ret (Some (Err e), [])
      | Ok _ =>
          match TakeReply received (TargetId target_is_ecu) with
          | (Some reply, received) => ret (Some (Ok reply), received)
          | (None, received) =>
              do now <- Call ClockNow;
              let remaining := Z.quot (deadline - now) 1000000 in
              if remaining <=? 0 then ret (Some (Ok received), [])
              else
                do appended <- read_and_append (Z.min 10 remaining) received;
                match appended with
                | Err e => ret (Some (Err e), [])
                | Ok received => frame_loop rounds deadline received
                end
          end
      end
  end.
(** The answer, if the wait ends, and the bytes kept for the next call. *)
Definition ReadFramedResponse (timeout : Z) (pending : list Z) : M (option (result Error (list Z)) * list Z) :=
  do now <- Call ClockNow;
  let deadline := now + timeout * 1000000 in
  if use_openport2_adapter then do r <- read_and_append timeout []; ret (Some r, pending)
  else frame_loop fuel deadline pending.
Definition exchange (request : list Z) (timeout : Z) (pending : list Z) : M (option (result Error (list Z)) * list Z) :=
  do written <- Call (SsmWrite (BuildSsmHeader request));
  match written with
  | Err e => ret (Some (Err e), pending)
  | Ok _ => ReadFramedResponse timeout pending
  end.
Definition Start (pending : list Z) : M (option Status * list Z) :=
  do guard <- CheckLoggingRunCanContinue IsOpen;
  match guard with
  | Err e => ret (Some (Err e), pending)
  | Ok _ =>
      do (received, pending) <- exchange [0xA8; 0x00; 0x00; 0x00; 0x07] kStartTimeout [];
      ret (match received with
           | None => None
           | Some (Err e) => Some (Err e)
           | Some (Ok received) =>
               Some (if negb (IsReadReply received (TargetId target_is_ecu) 1)
                     then Fail kBadResponse "no response to logging start request" else Ok tt)
           end, pending)
  end.
Definition decode_reply (received : list Z) : result Error PollData :=
  match received with
  | [] => Ok silent
  | _ =>
      if negb (IsReadReply received (TargetId target_is_ecu) (zlen (plan_addresses plan)))
      then Fail kBadResponse "SSM logging response does not match complete physical read plan"
      else
        let! samples := DecodeSamples general plan channels (subspan received 5 (zlen (plan_addresses plan))) in
        Ok {| pd_responded := true; pd_samples := samples |}
  end.
Definition Poll (timeout : Z) (pending : list Z) : M (option (result Error PollData) * list Z) :=
  do guard <- CheckLoggingRunCanContinue IsOpen;
  match guard with
  | Err e => ret (Some (Err e), pending)
  | Ok _ =>
      do (received, pending) <- exchange (BuildPollRequest plan) timeout pending;
      ret (match received with
           | None => None
           | Some (Err e) => Some (Err e)
           | Some (Ok received) => Some (decode_reply received)
           end, pending)
  end.
Definition Stop (_ : list Z) : M (Status * list Z) := ret (Ok tt, []).
#[export] Instance ssm_logging_protocol : LoggingProtocol (list Z * trace) := {|
  proto_Cancelled := ask_cancelled; proto_Start := as_step Start; proto_Poll timeout := as_step (Poll timeout); proto_Stop := as_step Stop
|}.
End protocol.
End SsmLogging.

(** ** [portable_mut_dma_logging_protocol.cpp] *)
Module MutDmaLogging.
Definition MakeWireChannels (channels : list LoggingChannel) : list Channel :=
  map (fun c => {| MutDma.id := u16 (ch_address c); MutDma.len := u8 (ch_length c) |}) channels.
Definition name_values (channels : list LoggingChannel) (values : list Z) : list ProtocolSample :=
  zip_with (fun c v => {| ps_channel_id := ch_id c; ps_raw_value := fmt_d v |}) channels values.
Section protocol.
Context `{Env} (Wake : M Status) (channels : list LoggingChannel).
Definition IsOpen : M bool := Call KlineIsOpen.
Definition new_driver : MutDmaDriver := {| MutDmaDriver.channels_ := []; MutDmaDriver.streaming_ := false |}.
Definition Start (driver : MutDmaDriver) : M (option Status * MutDmaDriver) :=
  do guard <- CheckLoggingRunCanContinue IsOpen;
  match guard with
  | Err e => ret (Some (Err e), driver)
  | Ok _ => do (status, driver) <- MutDmaDriver.StartFreeFormLog Wake (MakeWireChannels channels) 0xA0 0xA1; ret (Some status, driver)
  end.
Definition Poll (timeout : Z) (driver : MutDmaDriver) : M (option (result Error PollData) * MutDmaDriver) :=
  do answer <- (do! _ <- CheckLoggingRunCanContinue IsOpen;
                if negb (MutDmaDriver.streaming_ driver) then ret (Ok silent)
                else
                  do! values <- MutDmaDriver.PollOnce driver timeout;
                  ret (Ok match values with
                          | [] => silent
                          | _ => {| pd_responded := true; pd_samples := name_values channels values |}
                          end));
  ret (Some answer, driver).
Definition Stop (driver : MutDmaDriver) : M (Status * MutDmaDriver) := ret (Ok tt, driver).
#[export] Instance mut_dma_logging_protocol : LoggingProtocol (MutDmaDriver * trace) := {|
  proto_Cancelled := ask_cancelled; proto_Start := as_step Start; proto_Poll timeout := as_step (Poll timeout); proto_Stop := as_step Stop
|}.
End protocol.
End MutDmaLogging.

(** ** [portable_cdbg_logging_protocol.cpp] *)
Module CdbgLogging.
Section protocol.
Context `{Env} (channels : list LoggingChannel).
Definition IsOpen : M bool := Call CanIsOpen.
Definition new_driver : CdbgLogDriver := {| frames_ := []; CdbgDriver.streaming_ := false |}.
Definition Start (driver : CdbgLogDriver) : M (option Status * CdbgLogDriver) :=
  do guard <- CheckLoggingRunCanContinue IsOpen;
  match guard with
  | Err e => ret (Some (Err e), driver)
  | Ok _ => do (status, driver) <- CdbgDriver.StartFreeFormLog (map wire_channel channels) 0 10; ret (Some status, driver)
  end.
Definition sampled (result : PollResult) : Prelude.result Error PollData :=
  if negb (responded result) then Ok silent
  else if (zlen channels <? channel_offset result) || (zlen channels - channel_offset result <? zlen (values result)) then
    Fail kInternal "CDBG frame values lie outside the captured channels"
  else Ok {| pd_responded := true; pd_samples := MutDmaLogging.name_values (zdrop (channel_offset result) channels) (values result) |}.
Definition Poll (timeout : Z) (driver : CdbgLogDriver) : M (option (result Error PollData) * CdbgLogDriver) :=
  do answer <- (do! _ <- CheckLoggingRunCanContinue IsOpen;
                if negb (CdbgDriver.streaming_ driver) then ret (Ok silent)
                else do! polled <- CdbgDriver.PollOnce driver timeout; ret (sampled polled));
  ret (Some answer, driver).
Definition Stop (driver : CdbgLogDriver) : M (Status * CdbgLogDriver) := ret (Ok tt, driver).
#[export] Instance cdbg_logging_protocol : LoggingProtocol (CdbgLogDriver * trace) := {|
  proto_Cancelled := ask_cancelled; proto_Start := as_step Start; proto_Poll timeout := as_step (Poll timeout); proto_Stop := as_step Stop
|}.
End protocol.
End CdbgLogging.

(** ** What an SSM poll means *)
Section ssm_values.
Import SsmLogging.
(** The integer a channel's bytes hold. *)
Definition unsigned_of (c : LoggingChannel) (bytes : list Z) : Z :=
  le_value (match ch_byte_order c with kLittleEndian => bytes | kBigEndian => rev bytes end).
Definition number_of (c : LoggingChannel) (bytes : list Z) : Z :=
  let value := unsigned_of c bytes in
  let modulus := 256 ^ zlen bytes in
  match ch_storage c with kSignedInteger => if modulus / 2 <=? value then value - modulus else value | _ => value end.
Lemma accumulate_step v b : 0 <= v < 16777216 -> byte_ok b -> u32 (Z.lor (Z.shiftl v 8) b) = v * 256 + b.
Proof. intros Hv Hb. rewrite be_combine2 by done. unfold u32, byte_ok in *. apply Z.mod_small. lia. Qed.
Lemma accumulate_value c data : bytes_ok data -> ValidLength (zlen data) = true -> accumulate c data 0 (length data) 0 = unsigned_of c data.
Proof.
  intros Hb Hl. unfold ValidLength in Hl. rewrite !orb_true_iff, !Z.eqb_eq in Hl. unfold unsigned_of.
  assert (exists b0 bs, data = b0 :: bs /\ (bs = [] \/ (exists b1, bs = [b1]) \/ exists b1 b2 b3, bs = [b1; b2; b3])) as (b0 & bs & -> & H).
  { unfold zlen in Hl. destruct data as [|b0 bs]; cbn [length] in Hl; [lia|]. exists b0, bs. split; [done|].
    destruct bs as [|b1 [|b2 [|b3 [|]]]]; cbn [length] in Hl; try lia; eauto 10. }
  apply Forall_cons in Hb as [H0 Hb].
  destruct H as [->|[(b1 & ->)|(b1 & b2 & b3 & ->)]]; repeat (apply Forall_cons in Hb as [? Hb]); unfold byte_ok in *;
    destruct (ch_byte_order c) eqn:Eo; cbn [accumulate length]; unfold byte_position; rewrite ?Eo; cbn [le_value rev app];
    repeat match goal with |- context [zget ?l ?i] => let v := eval vm_compute in (zget l i) in change (zget l i) with v end;
    rewrite (accumulate_step 0) by (unfold byte_ok; lia); repeat (rewrite (accumulate_step (_ * 256 + _)) by (unfold byte_ok; lia)); lia.
Qed.
Lemma le_value_range l : bytes_ok l -> 0 <= le_value l < 256 ^ zlen l.
Proof.
  intros Hb. induction Hb as [|b l Hb HF IH]; [done|]. rewrite zlen_cons. cbn [le_value]. unfold byte_ok in Hb.
  pose proof (zlen_nonneg l). rewrite Z.pow_add_r by lia. change (256 ^ 1) with 256. lia.
Qed.
Lemma unsigned_range c data : bytes_ok data -> 0 <= unsigned_of c data < 256 ^ zlen data.
Proof.
  intros Hb. unfold unsigned_of. destruct (ch_byte_order c); [|by apply le_value_range].
  replace (zlen data) with (zlen (rev data)) by (unfold zlen; by rewrite length_rev). apply le_value_range. by apply List.Forall_rev.
Qed.
Lemma sign_bit v n : 1 <= n -> 0 <= v < 256 ^ n -> (Z.land v (Z.shiftl 1 (n * 8 - 1)) =? 0) = negb (256 ^ n / 2 <=? v).
Proof.
  intros Hn Hv. assert (256 ^ n = 2 ^ (n * 8)) as E by (rewrite Z.mul_comm, Z.pow_mul_r by lia; done). rewrite E in *.
  assert (2 ^ (n * 8) = 2 * 2 ^ (n * 8 - 1)) as E2 by (rewrite <- Z.pow_succ_r by lia; f_equal; lia).
  rewrite E2 in *. replace (2 * 2 ^ (n * 8 - 1) / 2) with (2 ^ (n * 8 - 1)) by (rewrite (Z.mul_comm 2 (2 ^ _)), Z.div_mul by lia; done).
  set (k := n * 8 - 1) in *. rewrite Z.shiftl_1_l.
  assert (Z.testbit v k = (2 ^ k <=? v)) as Ht.
  { rewrite Z.testbit_eqb by lia. destruct (Z.leb_spec (2 ^ k) v).
    - replace (v / 2 ^ k) with 1; [done|]. apply Z.div_unique with (r := v - 2 ^ k); lia.
    - rewrite Z.div_small by lia. done. }
  rewrite <- Ht. destruct (Z.testbit v k) eqn:Eb; cbn [negb].
  - apply Z.eqb_neq. intros E0. assert (Z.testbit (Z.land v (2 ^ k)) k = true) as H1
      by (rewrite Z.land_spec, Eb, Z.pow2_bits_true by lia; done). rewrite E0, Z.bits_0 in H1. discriminate.
  - apply Z.eqb_eq. apply Z.bits_inj'. intros i Hi. rewrite Z.land_spec, Z.bits_0.
    destruct (decide (i = k)) as [->|Hne]; [by rewrite Eb|]. rewrite Z.pow2_bits_false by lia. apply andb_false_r.
Qed.
(** The text a channel's bytes are reported as, for the integer storages. *)
Lemma DecodeNumeric_integer `{Double} {HN : Numeric} general data c : bytes_ok data -> zlen data = ch_length c -> ValidLength (ch_length c) = true ->
  ch_storage c <> kFloatNumber -> DecodeNumeric general data c = Ok (signed_text (number_of c data)).
Proof.
  intros Hb Hl Hv Hs. unfold DecodeNumeric. rewrite Hl, Z.eqb_refl, Hv. cbn [negb orb]. cbv zeta. rewrite accumulate_value by (rewrite ?Hl; done).
  pose proof (unsigned_range c data Hb) as Hr. unfold number_of. cbv zeta. destruct (ch_storage c); [| |done].
  - unfold signed_text. by rewrite (proj2 (Z.ltb_ge _ _)) by lia.
  - rewrite Hl in Hr |- *. assert (1 <= ch_length c) as H1 by (unfold ValidLength in Hv; rewrite !orb_true_iff, !Z.eqb_eq in Hv; lia).
    rewrite sign_bit by lia. rewrite negb_involutive. rewrite Z.shiftl_1_l.
    replace (2 ^ (ch_length c * 8)) with (256 ^ ch_length c) by (rewrite Z.mul_comm, Z.pow_mul_r by lia; done). done.
Qed.
End ssm_values.

(** ** The samples of a complete reply *)
Section slices.
Import SsmLogging.
Context `{Double} {HN : Numeric} (general : double -> string).
Definition integer_channel (c : LoggingChannel) : Prop := ValidLength (ch_length c) = true /\ ch_storage c <> kFloatNumber.
(** The sample a channel's own bytes make. *)
Definition channel_sample (bytes_of : LoggingChannel -> list Z) (c : LoggingChannel) : ProtocolSample :=
  {| ps_channel_id := ch_id c; ps_raw_value := signed_text (number_of c (bytes_of c)) |}.
Lemma ValidLength_pos n : ValidLength n = true -> 1 <= n.
Proof. unfold ValidLength. rewrite !orb_true_iff, !Z.eqb_eq. lia. Qed.
Lemma raw_bytes_subspan data n k acc : 0 <= n -> 0 <= k -> n + k <= zlen data -> raw_bytes (seqZ n k) data acc = Ok (acc ++ subspan data n k).
Proof.
  intros Hn Hk. revert n acc Hn. pattern k. apply natlike_ind; [| |done].
  - intros n acc Hn _. rewrite seqZ_nil by lia. cbn. change (subspan data n 0) with (@nil Z). by rewrite app_nil_r.
  - clear k Hk. intros k Hk IH n acc Hn Hl. rewrite seqZ_shift_cons by lia. replace (Z.succ k - 1) with k by lia. cbn [raw_bytes].
    rewrite zlookup_zget by lia. rewrite IH by lia. f_equal. rewrite <- app_assoc. f_equal.
    replace (Z.succ k) with (1 + k) by lia. rewrite subspan_add by lia. f_equal. rewrite subspan_cons by lia. by change (subspan data (n + 1) (1 - 1)) with (@nil Z).
Qed.
Lemma decode_samples_spec m channels pre post samples :
  Forall integer_channel channels -> (forall a, byte_ok (m a)) ->
  let data := pre ++ map m (flat_map channel_addresses channels) ++ post in
  decode_samples general (positions_from (zlen pre) channels) channels data samples
  = Ok (samples ++ map (channel_sample (fun c => map m (channel_addresses c))) channels).
Proof.
  intros HF Hm. cbv zeta. revert pre samples. induction HF as [|c channels [Hv Hs] HF IH]; intros pre samples; cbn [positions_from decode_samples flat_map map].
  - by rewrite app_nil_r.
  - pose proof (ValidLength_pos _ Hv) as Hpos. assert (zlen (map m (channel_addresses c)) = ch_length c) as Hl.
    { unfold channel_addresses. rewrite !zlen_map, zlen_seqZ. lia. }
    rewrite zlen_seqZ, Z.max_r, Z.eqb_refl by lia. cbn [negb]. rewrite map_app.
    pose proof (zlen_nonneg pre). rewrite raw_bytes_subspan; [|lia|lia|].
    2: { rewrite !zlen_app, Hl. pose proof (zlen_nonneg post). pose proof (zlen_nonneg (map m (flat_map channel_addresses channels))). lia. }
    rewrite <- (app_assoc (map m (channel_addresses c))), subspan_app_middle by done. cbn [app result_bind].
    rewrite DecodeNumeric_integer; [|by apply List.Forall_map, list.Forall_forall|done|done|done]. cbn [result_bind].
    rewrite (app_assoc pre). replace (zlen pre + ch_length c) with (zlen (pre ++ map m (channel_addresses c))) by (rewrite zlen_app; lia).
    rewrite IH, <- app_assoc. done.
Qed.
Lemma positions_length n channels : zlen (positions_from n channels) = zlen channels.
Proof. revert n. induction channels as [|c cs IH]; intros n; cbn; [done|]. by rewrite !zlen_cons, IH. Qed.
Lemma DecodeSamples_memory m channels plan : MakeSsmReadPlan channels = Ok plan -> Forall integer_channel channels -> (forall a, byte_ok (m a)) ->
  DecodeSamples general plan channels (map m (plan_addresses plan)) = Ok (map (channel_sample (fun c => map m (channel_addresses c))) channels).
Proof.
  intros Hp HF Hm. apply plan_channels_spec in Hp as (Ha & Hr & _ & _).
  2: { eapply Forall_impl; [exact HF|]. intros c [Hv _]. pose proof (ValidLength_pos _ Hv). lia. }
  cbn [plan_addresses plan_response_positions app] in Ha, Hr. unfold DecodeSamples. rewrite Hr, positions_length, Z.eqb_refl, Ha. cbn [negb].
  pose proof (decode_samples_spec m channels [] [] [] HF Hm) as E. cbv zeta in E. rewrite app_nil_r in E. exact E.
Qed.
End slices.

(** ** A unit that answers reads of memory *)
Section ssm_unit.
Import SsmLogging.
Fixpoint triples (l : list Z) : list Z :=
  match l with a :: b :: c :: l => (a * 65536 + b * 256 + c) :: triples l | _ => [] end.
(** The reply to a read request. *)
Definition unit_reply (m : Z -> Z) (target : Z) (request : list Z) : list Z :=
  AddHeader (0xe8 :: map m (triples (zdrop 2 (subspan request 4 (zlen request - 5))))) target 0xf0.
Definition last_write (t : trace) : list Z :=
  fold_left (fun d e => match e with EvPort (SsmWrite data) _ => data | _ => d end) t [].
(** It is open, never cancelled, and answers each read with the reply to the last request. *)
Definition ssm_unit (m : Z -> Z) (target : Z) : Env := {|
  env_cancelled := fun _ => false; env_sleep := fun _ _ => Ok tt; env_reset := fun _ => Ok tt; env_configure := fun _ _ => Ok tt;
  env_open := fun _ => Ok tt; env_close := fun _ => Ok tt; env_write := fun _ _ => Ok tt; env_read := fun _ _ => Ok None;
  env_port := fun t c =>
    match c with
    | SsmIsOpen => true
    | SsmWrite data => Ok (zlen data)
    | SsmRead _ => Ok (Some (unit_reply m target (last_write t)))
    | ClockNow => 0
    | c => absent_port c
    end
|}.
Definition u24_bytes (v : Z) : list Z := [u8 (Z.land (Z.shiftr v 16) 255); u8 (Z.land (Z.shiftr v 8) 255); u8 (Z.land v 255)].
Lemma poll_request_bytes plan : BuildPollRequest plan = [0xA8; 0x01] ++ flat_map u24_bytes (plan_addresses plan).
Proof.
  unfold BuildPollRequest. generalize [0xA8; 0x01]. induction (plan_addresses plan) as [|a l IH]; intros acc; cbn [fold_left flat_map]; [by rewrite app_nil_r|].
  rewrite IH. unfold AppendU24Be. by rewrite <- app_assoc.
Qed.
Lemma triples_bytes l : Forall (fun a => 0 <= a <= 0xffffff) l -> triples (flat_map u24_bytes l) = l.
Proof.
  intros HF. induction HF as [|a l Ha HF IH]; [done|]. cbn [flat_map u24_bytes app triples]. rewrite IH. f_equal.
  rewrite byte_lane16, byte_lane8, byte_lane0, (Z.mod_small (a / 65536)) by (split; [apply Z.div_pos; lia|apply Z.div_lt_upper_bound; lia]).
  pose proof (Z.div_mod a 256 ltac:(lia)). pose proof (Z.div_mod (a / 256) 256 ltac:(lia)). rewrite Z.div_div in * by lia.
  change (256 * 256) with 65536 in *. lia.
Qed.
Lemma u24_bytes_ok l : bytes_ok (flat_map u24_bytes l).
Proof. induction l as [|a l IH]; [constructor|]. cbn [flat_map u24_bytes app]. repeat (constructor; [apply u8_range|]). exact IH. Qed.
Lemma flat_map_u24_length l : zlen (flat_map u24_bytes l) = 3 * zlen l.
Proof. induction l as [|a l IH]; [done|]. cbn [flat_map]. rewrite zlen_app, IH, zlen_cons. change (zlen (u24_bytes a)) with 3. lia. Qed.
(** The payload of a frame. *)
Lemma AddHeader_payload payload s r : bytes_ok payload -> byte_ok s -> byte_ok r ->
  zlen (AddHeader payload s r) = zlen payload + 5 /\ subspan (AddHeader payload s r) 4 (zlen payload) = payload.
Proof.
  intros Hp Hs Hr. rewrite AddHeader_bytes by done. set (h := Sum8 _). rewrite zlen_app, !zlen_cons, zlen_nil. split; [lia|].
  change (0x80 :: r :: s :: u8 (zlen payload) :: payload) with ([0x80; r; s; u8 (zlen payload)] ++ payload). rewrite <- app_assoc. by apply subspan_app_middle.
Qed.
Section replying.
Context (m : Z -> Z) (Hm : forall a, byte_ok (m a)) (target : Z) (Ht : byte_ok target) (plan : SsmReadPlan)
  (Ha : Forall (fun a => 0 <= a <= 0xffffff) (plan_addresses plan)) (Hl : zlen (plan_addresses plan) <= 84).
#[local] Abbreviation data := (map m (plan_addresses plan)).
#[local] Abbreviation reply := (AddHeader (0xe8 :: data) target 0xf0).
Lemma unit_reply_poll : unit_reply m target (AddHeader (BuildPollRequest plan) 0xF0 target) = reply.
Proof.
  unfold unit_reply. assert (bytes_ok (BuildPollRequest plan)) as Hb.
  { rewrite poll_request_bytes. apply Forall_app. split; [repeat constructor; unfold byte_ok; lia|apply u24_bytes_ok]. }
  destruct (AddHeader_payload (BuildPollRequest plan) 0xF0 target Hb ltac:(unfold byte_ok; lia) Ht) as [E1 E2].
  rewrite E1. replace (zlen (BuildPollRequest plan) + 5 - 5) with (zlen (BuildPollRequest plan)) by lia. rewrite E2, poll_request_bytes.
  change (zdrop 2 ([0xA8; 0x01] ++ flat_map u24_bytes (plan_addresses plan))) with (flat_map u24_bytes (plan_addresses plan)).
  by rewrite triples_bytes.
Qed.
Lemma data_ok : bytes_ok (0xe8 :: data).
Proof. constructor; [unfold byte_ok; lia|]. apply List.Forall_map, list.Forall_forall. intros a _. apply Hm. Qed.
Lemma reply_bytes : reply = (0x80 :: 0xf0 :: target :: zlen data + 1 :: 0xe8 :: data) ++ [Sum8 (0x80 :: 0xf0 :: target :: zlen data + 1 :: 0xe8 :: data)].
Proof.
  rewrite AddHeader_bytes; [|apply data_ok|done|unfold byte_ok; lia].
  rewrite zlen_cons, u8_small, (Z.add_comm 1); [done|]. rewrite zlen_map. pose proof (zlen_nonneg (plan_addresses plan)). unfold byte_ok. lia.
Qed.
Lemma reply_length : zlen reply = zlen data + 6.
Proof. rewrite reply_bytes, zlen_app, !zlen_cons, zlen_nil. lia. Qed.
Lemma reply_taken : TakeReply reply target = (Some reply, []).
Proof.
  unfold TakeReply. assert (align target reply = reply) as ->.
  { rewrite reply_bytes. cbn [app align]. by rewrite !Z.eqb_refl. }
  pose proof reply_length as E. assert (zget reply 3 = zlen data + 1) as E3 by by rewrite reply_bytes.
  rewrite E3, E. pose proof (zlen_nonneg data). rewrite !(proj2 (Z.ltb_ge _ _)) by lia. cbn [orb].
  replace (zlen data + 1 + 5) with (zlen reply) by lia. unfold ztake, zdrop, zlen. rewrite Nat2Z.id, take_ge, drop_ge by lia. done.
Qed.
Lemma reply_is_read : IsReadReply reply target (zlen (plan_addresses plan)) = true.
Proof.
  unfold IsReadReply. rewrite reply_length, zlen_map. set (n := zlen (plan_addresses plan)).
  assert (ztake (n + 6 - 1) reply = 0x80 :: 0xf0 :: target :: zlen data + 1 :: 0xe8 :: data
    /\ zget reply (n + 6 - 1) = Sum8 (0x80 :: 0xf0 :: target :: zlen data + 1 :: 0xe8 :: data)) as [Et Eg].
  { rewrite reply_bytes. set (h := 0x80 :: _). assert (zlen h = n + 6 - 1) as Hh by (unfold h; rewrite !zlen_cons, zlen_map; unfold n; lia).
    rewrite <- Hh. split; [unfold ztake, zlen; by rewrite Nat2Z.id, take_app_length|]. by rewrite zget_app_r, Z.sub_diag by lia. }
  rewrite Et, Eg, Z.eqb_refl. rewrite reply_bytes at 1 2 3 4 5. cbn [app]. zgets. rewrite zlen_map. fold n. by rewrite !Z.eqb_refl.
Qed.
Lemma reply_data : subspan reply 5 (zlen (plan_addresses plan)) = data.
Proof.
  rewrite reply_bytes. set (h := Sum8 _). change (0x80 :: 0xf0 :: target :: zlen data + 1 :: 0xe8 :: data) with ([0x80; 0xf0; target; zlen data + 1; 0xe8] ++ data).
  rewrite <- app_assoc. apply subspan_app_middle; [done|]. by rewrite zlen_map.
Qed.
End replying.
End ssm_unit.

(** ** The property *)
Section claims.
Import SsmLogging.
Context `{Double} {HN : Numeric} (general : double -> string).
(** Addresses of a channel have their type. *)
Definition channel_typed (c : LoggingChannel) : Prop := 0 <= ch_address c /\ Forall (fun a => 0 <= a) (ch_byte_addresses c).
Lemma channel_addresses_nonneg c a : channel_typed c -> a ∈ channel_addresses c -> 0 <= a.
Proof.
  intros [Ha Hb] (i & -> & Hi%elem_of_seqZ)%list_elem_of_fmap. unfold byte_address. destruct (ch_byte_addresses c) as [|b bs] eqn:E; [lia|].
  destruct (decide (i < zlen (b :: bs))).
  - pose proof (zlookup_zget (b :: bs) i ltac:(lia)) as Hz. unfold zlookup in Hz. rewrite decide_True in Hz by lia.
    rewrite list.Forall_forall in Hb. apply Hb. apply list_elem_of_lookup. eauto.
  - rewrite zget_out by lia. lia.
Qed.
Lemma session_plan channels policy s plan : MakeLoggingSession kSsm channels policy = Ok s -> read_plan_ s = Some plan -> Forall channel_typed channels ->
  MakeSsmReadPlan channels = Ok plan /\ Forall (fun a => 0 <= a <= 0xffffff) (plan_addresses plan) /\ zlen (plan_addresses plan) <= 84
  /\ Forall (fun c => ValidLength (ch_length c) = true) channels.
Proof.
  intros [_ _ _ _ _ Hconv (plan' & Hp & Hmake)]%MakeLoggingSession_made Hplan Ht. assert (plan' = plan) as -> by congruence.
  assert (Forall (fun c => ValidLength (ch_length c) = true) channels) as Hv.
  { rewrite list.Forall_forall. intros c (i & Hi)%list_elem_of_lookup. destruct (Forall2_lookup_l _ _ _ _ _ Hconv Hi) as (p & _ & Hc).
    apply CompileChannel_ok in Hc as (Hf & _). apply ValidateChannelFields_ok in Hf as (_ & Hl & _). unfold ValidLength.
    rewrite !orb_true_iff, !Z.eqb_eq. tauto. }
  split; [done|]. apply plan_channels_spec in Hmake as (Ea & _ & HF & Hl).
  2: { eapply Forall_impl; [exact Hv|]. intros c Hc. pose proof (ValidLength_pos _ Hc). lia. }
  cbn [plan_addresses app] in Ea. rewrite Ea in *. split; [|split; [|done]].
  - rewrite list.Forall_forall. intros a Hin. apply list_elem_of_In, in_flat_map in Hin as (c & Hc & Hin).
    apply list_elem_of_In in Hc, Hin. rewrite list.Forall_forall in HF, Ht. destruct (HF c Hc) as (_ & _ & Hmax). rewrite list.Forall_forall in Hmax.
    split; [by apply (channel_addresses_nonneg c); [apply Ht|]|by apply Hmax].
  - destruct channels; [unfold zlen; cbn [flat_map length]; lia|by apply Hl].
Qed.
(** C24: An SSM poll reads the unit's memory. For any session of integer channels and any
    contents of memory, against a unit that answers read requests and through either
    kind of adapter, a poll is answered, with one sample for each channel, in order and
    under its name: the decimal text of the number its own bytes hold, at the addresses
    it lists or that follow its address, in its byte order and signedness; nothing is
    kept for the next poll. *)
Theorem ssm_poll_reads_memory m channels policy s plan fuel target_is_ecu use_openport2_adapter timeout t :
  MakeLoggingSession kSsm channels policy = Ok s -> read_plan_ s = Some plan -> Forall channel_typed channels ->
  Forall (fun c => ch_storage c <> kFloatNumber) channels -> (forall a, byte_ok (m a)) -> (2 <= fuel)%nat -> 1 <= timeout ->
  fst (@Poll (ssm_unit m (TargetId target_is_ecu)) _ _ general fuel channels plan target_is_ecu use_openport2_adapter timeout [] t)
  = (Some (Ok {| pd_responded := true; pd_samples := map (channel_sample (fun c => map m (channel_addresses c))) channels |}), []).
Proof.
  intros Hs Hp Ht Hf Hm Hfuel Htime. destruct (session_plan _ _ _ _ Hs Hp Ht) as (Hmake & Ha & Hl & Hv).
  assert (Forall integer_channel channels) as Hi by (apply Forall_and; split; done).
  set (target := TargetId target_is_ecu). assert (byte_ok target) as Htarget by (unfold target, TargetId, byte_ok; destruct target_is_ecu; lia).
  set (reply := AddHeader (0xe8 :: map m (plan_addresses plan)) target 0xf0).
  pose proof (unit_reply_poll m target Htarget plan Ha) as Hreply. fold reply in Hreply.
  assert (decode_reply general channels plan target_is_ecu reply
    = Ok {| pd_responded := true; pd_samples := map (channel_sample (fun c => map m (channel_addresses c))) channels |}) as Hdecode.
  { unfold decode_reply. destruct reply as [|b bs] eqn:E; [apply (f_equal zlen) in E; unfold reply in E; rewrite reply_length in E by done;
      pose proof (zlen_nonneg (map m (plan_addresses plan))); rewrite zlen_nil in E; lia|]. rewrite <- E. unfold reply, target. rewrite reply_is_read by done. cbn [negb].
    rewrite reply_data by done. by rewrite DecodeSamples_memory. }
  unfold Poll, CheckLoggingRunCanContinue, exchange, IsOpen, bind, Cancelled, Call, ret. cbn [env_cancelled ssm_unit env_port negb].
  unfold ReadFramedResponse, bind, Call. cbn [env_port ssm_unit]. destruct use_openport2_adapter.
  - unfold read_and_append, try, bind, CheckCancellation, CheckCancelled, Cancelled, Call, ret. cbn [env_cancelled env_port ssm_unit].
    unfold bind, Cancelled, ret. cbn [env_cancelled ssm_unit]. unfold last_write. rewrite !fold_left_app. cbn [fold_left].
    unfold BuildSsmHeader. fold target. rewrite Hreply. cbn [default app]. unfold Datatypes.id. by rewrite Hdecode.
  - destruct fuel as [|[|fuel]]; [lia|lia|]. cbn [frame_loop]. unfold CheckCancellation, CheckCancelled, bind, Cancelled, ret.
    cbn [env_cancelled ssm_unit]. change (TakeReply [] (TargetId target_is_ecu)) with (@None (list Z), @nil Z). cbv iota.
    unfold Call. cbn [env_port ssm_unit]. replace (Z.quot (0 + timeout * 1000000 - 0) 1000000) with timeout
      by (rewrite Z.sub_0_r, Z.add_0_l, Z.quot_mul by lia; done).
    rewrite (proj2 (Z.leb_gt _ _)) by lia. unfold read_and_append, try, bind, CheckCancellation, CheckCancelled, Cancelled, Call, ret.
    unfold bind, Cancelled, ret. cbn [env_cancelled env_port ssm_unit]. unfold last_write. rewrite !fold_left_app. cbn [fold_left].
    unfold BuildSsmHeader. fold target. rewrite Hreply. cbn [default app]. unfold Datatypes.id.
    assert (TakeReply reply target = (Some reply, [])) as Htake by by apply reply_taken. rewrite Htake. cbn [fst]. by rewrite Hdecode.
Qed.
End claims.

(** ** Two bytes of engine speed, and two of a signed correction, apart and low byte first *)
Definition sample_channels : list LoggingChannel :=
  [{| ch_id := "parameter:P8"; ch_address := 0x0E; ch_length := 2; ch_from_byte_expression := "x/4"; ch_unit := "rpm"; ch_decimal_precision := 2;
      ch_byte_addresses := []; ch_sample_bit := None; ch_storage := kUnsignedInteger; ch_byte_order := kBigEndian |};
   {| ch_id := "parameter:P3"; ch_address := 0x20; ch_length := 2; ch_from_byte_expression := "x"; ch_unit := "%"; ch_decimal_precision := 2;
      ch_byte_addresses := [0x20; 0xF1]; ch_sample_bit := None; ch_storage := kSignedInteger; ch_byte_order := kLittleEndian |}]%string.
Definition sample_memory (a : Z) : Z := if a =? 0x0E then 1 else a mod 256.
Definition sample_session : result Error LoggingSession := MakeLoggingSession kSsm sample_channels sample_policy.
Definition sample_poll (plan : SsmReadPlan) : option (result Error PollData) * list Z :=
  fst (@SsmLogging.Poll (ssm_unit sample_memory (SsmLogging.TargetId true)) _ _ (fun _ => ""%string) 2 sample_channels plan true false 100 [] []).
Lemma ssm_poll_reads_memory_witness :
  exists s plan, sample_session = Ok s /\ read_plan_ s = Some plan
    /\ sample_poll plan = (Some (Ok {| pd_responded := true; pd_samples :=
         [{| ps_channel_id := "parameter:P8"; ps_raw_value := "271" |}; {| ps_channel_id := "parameter:P3"; ps_raw_value := "-3808" |}]%string |}), []).
Proof.
  assert (match sample_session with Ok s => match read_plan_ s with Some _ => true | None => false end | Err _ => false end = true) as Hok by (vm_compute; reflexivity).
  destruct sample_session as [s|e] eqn:Es; [|discriminate Hok]. destruct (read_plan_ s) as [plan|] eqn:Ep; [|discriminate Hok].
  exists s, plan. split; [reflexivity|]. split; [exact Ep|].
  assert (forall a, byte_ok (sample_memory a)) as Hm.
  { intros a. unfold sample_memory, byte_ok. destruct (a =? 0x0E); [lia|]. apply Z.mod_pos_bound. lia. }
  assert (Forall channel_typed sample_channels) as Ht by (repeat (constructor; [split; [cbn; lia|repeat constructor; lia]|]); constructor).
  assert (Forall (fun c => ch_storage c <> kFloatNumber) sample_channels) as Hf by (repeat (constructor; [cbn; discriminate|]); constructor).
  unfold sample_poll. rewrite (ssm_poll_reads_memory (fun _ => ""%string) sample_memory sample_channels sample_policy s plan 2 true false 100 []
    Es Ep Ht Hf Hm ltac:(lia) ltac:(lia)). vm_compute. reflexivity.
Defined.
