(* ===== verification/Scripts.v ===== *)
(** * Scripts: computations that may not return, and the calls they follow

    A loop that ends when a device falls silent is bounded here by fuel; a computation
    that used its fuel up answers nothing ([None]), as one that never returns. A
    computation follows a script when, of the calls that matter, it makes a first part
    of the script, and all of it when it succeeds. *)
From S2P Require Import Prelude Ports.

Definition Mo (A : Type) : Type := M (option (result Error A)).
Definition answering {A} (m : M (result Error A)) : Mo A := bind m (fun r => ret (Some r)).
(** [and_then] and the early return on an error. *)
Definition tryo {A B} (m : Mo A) (k : A -> Mo B) : Mo B :=
  bind m (fun r => match r with Some (Ok a) => k a | Some (Err e) => ret (Some (Err e)) | None => ret None end).
Notation "'do?' x <- m ; k" := (tryo m (fun x => k))
  (at level 10, x pattern, m at level 100, k at level 200) : m_scope.
Definition succeeded {A} (r : option (result Error A)) : bool := match r with Some (Ok _) => true | _ => false end.

(** [std::ranges] over a fixed table: the body for each entry, until one fails. *)
Fixpoint for_each {A B} (l : list A) (body : A -> B -> Mo B) (b : B) : Mo B :=
  match l with [] => ret (Some (Ok b)) | a :: l => do? b <- body a b; for_each l body b end.

Section scripts.
Context {O : Type} (obs : event -> list O).
(** No call that matters. *)
Definition unseen {A} (m : M A) : Prop := observes obs m (fun _ l => l = []).
Definition scripted {A} (L : list O) (m : Mo A) : Prop :=
  observes obs m (fun r l => if succeeded r then l = L else l `prefix_of` L).
Lemma unseen_ret {A} (a : A) : unseen (ret a).
Proof. by apply observes_ret. Qed.
Lemma unseen_bind {A B} (m : M A) (k : A -> M B) : unseen m -> (forall a, unseen (k a)) -> unseen (bind m k).
Proof. intros Hm Hk. unfold unseen, scripted in *. apply (observes_bind _ _ _ _ Hm). intros a l ->. apply Hk. Qed.
Lemma unseen_try {A B} (m : M (result Error A)) (k : A -> M (result Error B)) : unseen m -> (forall a, unseen (k a)) -> unseen (try m k).
Proof. intros Hm Hk. apply unseen_bind; [done|]. intros [a|e]; [apply Hk|apply unseen_ret]. Qed.
Lemma unseen_returns {A} (m : M (result Error A)) : unseen m -> unseen (answering m).
Proof. intros Hm. apply unseen_bind; [done|]. intros. apply unseen_ret. Qed.
Lemma scripted_done {A} (a : A) : scripted [] (ret (Some (Ok a))).
Proof. by apply observes_ret. Qed.
Lemma scripted_failed {A} L e : scripted (A := A) L (ret (Some (Err e))).
Proof. apply observes_ret. apply prefix_nil. Qed.
Lemma scripted_unseen_bind {A B} L (m : M A) (k : A -> Mo B) : unseen m -> (forall a, scripted L (k a)) -> scripted L (bind m k).
Proof. intros Hm Hk. unfold unseen, scripted in *. apply (observes_bind _ _ _ _ Hm). intros a l ->. apply Hk. Qed.
Lemma scripted_tryo {A B} L1 L2 (m : Mo A) (k : A -> Mo B) :
  scripted L1 m -> (forall a, scripted L2 (k a)) -> scripted (L1 ++ L2) (tryo m k).
Proof.
  intros Hm Hk. unfold scripted in *. apply (observes_bind _ _ _ _ Hm). intros [[a|e]|] l Hl; cbn [succeeded] in Hl.
  - subst l. apply (observes_weaken _ _ _ (Hk a)). intros r l. destruct (succeeded r); [by intros ->|]. apply prefix_app.
  - apply observes_ret. cbn [succeeded]. rewrite app_nil_r. by apply prefix_app_r.
  - apply observes_ret. cbn [succeeded]. rewrite app_nil_r. by apply prefix_app_r.
Qed.
Lemma scripted_unseen {A} (m : Mo A) : unseen m -> scripted [] m.
Proof. intros Hm. unfold unseen, scripted in *. apply (observes_weaken _ _ _ Hm). intros r l ->. by destruct (succeeded r). Qed.
Lemma scripted_tryo_unseen {A B} L (m : Mo A) (k : A -> Mo B) : unseen m -> (forall a, scripted L (k a)) -> scripted L (tryo m k).
Proof. intros Hm. apply (scripted_tryo []). by apply scripted_unseen. Qed.
(** The last step makes no call that matters. *)
Lemma scripted_last {A B} L (m : Mo A) (k : A -> Mo B) : scripted L m -> (forall a, scripted [] (k a)) -> scripted L (tryo m k).
Proof. intros Hm Hk. rewrite <- (app_nil_r L). by apply scripted_tryo. Qed.
Lemma scripted_for_each {A B} (f : A -> list O) l (body : A -> B -> Mo B) b :
  (forall a b, scripted (f a) (body a b)) -> scripted (flat_map f l) (for_each l body b).
Proof. intros Hb. revert b. induction l as [|a l IH]; intros b; [apply scripted_done|]. cbn [for_each flat_map]. by apply scripted_tryo. Qed.
(** The same rules for a computation that always answers. *)
Lemma runs_ext {A} (m m' : M A) P : (forall t, m t = m' t) -> runs m P -> runs m' P.
Proof. intros E Hm t. rewrite <- E. apply Hm. Qed.
Lemma scripted_and_then {A B} L1 L2 (m : M (result Error A)) (k : A -> M (result Error B)) :
  scripted L1 (answering m) -> (forall a, scripted L2 (answering (k a))) -> scripted (L1 ++ L2) (answering (try m k)).
Proof.
  intros Hm Hk. refine (runs_ext (tryo (answering m) (fun a => answering (k a))) _ _ _ (scripted_tryo L1 L2 _ _ Hm Hk)).
  intros t. unfold tryo, answering, try, bind, ret. by destruct (m t) as [[a|e] t1].
Qed.
Lemma scripted_try_unseen {A B} L (m : M (result Error A)) (k : A -> M (result Error B)) :
  unseen m -> (forall a, scripted L (answering (k a))) -> scripted L (answering (try m k)).
Proof. intros Hm. apply (scripted_and_then []). by apply scripted_unseen, unseen_returns. Qed.
Lemma scripted_try_last {A B} L (m : M (result Error A)) (k : A -> M (result Error B)) :
  scripted L (answering m) -> (forall a, unseen (k a)) -> scripted L (answering (try m k)).
Proof. intros Hm Hk. rewrite <- (app_nil_r L). apply scripted_and_then; [done|]. intros a. by apply scripted_unseen, unseen_returns. Qed.
Lemma scripted_answering_bind {A B} L (m : M A) (k : A -> M (result Error B)) :
  unseen m -> (forall a, scripted L (answering (k a))) -> scripted L (answering (bind m k)).
Proof.
  intros Hm Hk. refine (runs_ext (bind m (fun a => answering (k a))) _ _ _ (scripted_unseen_bind L _ _ Hm Hk)).
  intros t. unfold answering, bind, ret. by destruct (m t).
Qed.
Context `{Env}.
Lemma unseen_Cancelled : (forall b, obs (EvCancelled b) = []) -> unseen Cancelled.
Proof. intros Ho. apply runs_call. intros b. unfold observed. cbn. by rewrite Ho. Qed.
Lemma unseen_Sleep ms : (forall ms r, obs (EvSleep ms r) = []) -> unseen (Sleep ms).
Proof. intros Ho. apply runs_call. intros b. unfold observed. cbn. by rewrite Ho. Qed.
Lemma unseen_Log level message : (forall level message, obs (EvLog level message) = []) -> unseen (Log level message).
Proof. intros Ho. apply runs_Log. unfold observed. cbn. by rewrite Ho. Qed.
Lemma unseen_Call c : (forall r, obs (EvPort c r) = []) -> unseen (Call c).
Proof. intros Ho. apply runs_call. intros r. unfold observed. cbn. by rewrite Ho. Qed.
Lemma observes_Call c (P : port_answer c -> list O -> Prop) : (forall r, P r (obs (EvPort c r))) -> observes obs (Call c) P.
Proof. intros Ho. apply runs_call. intros r. unfold observed. cbn. by rewrite app_nil_r. Qed.
End scripts.
Create HintDb scripts.
#[export] Hint Resolve unseen_ret unseen_bind unseen_try unseen_returns : scripts.

(** Steps that show nothing, by their shape. *)
Ltac unseen_step :=
  match goal with
  | |- unseen _ (ret _) => apply unseen_ret
  | |- unseen _ (bind _ _) => apply unseen_bind; [|intros ?]
  | |- unseen _ (try _ _) => apply unseen_try; [|intros ?]
  | |- unseen _ (tryo _ _) => apply unseen_bind; [|intros [[?|?]|]]
  | |- unseen _ (answering _) => apply unseen_returns
  | |- unseen _ Cancelled => apply unseen_Cancelled; intros; reflexivity
  | |- unseen _ (Sleep _) => apply unseen_Sleep; intros; reflexivity
  | |- unseen _ (Log _ _) => apply unseen_Log; intros; reflexivity
  | |- unseen ?obs (Call ?c) => apply (unseen_Call obs c); intros; reflexivity
  | |- unseen _ (match ?x with _ => _ end) => destruct x
  | |- unseen _ _ => progress (cbv beta zeta)
  end.
Ltac unseen := repeat unseen_step.

(** Two facts about the same calls. *)
Lemma runs_and {A} (m : M A) (P Q : A -> trace -> Prop) : runs m P -> runs m Q -> runs m (fun a d => P a d /\ Q a d).
Proof.
  intros HP HQ t. destruct (HP t) as (d & E & H1). destruct (HQ t) as (d' & E' & H2). exists d. split; [done|].
  assert (d = d') as -> by (rewrite E in E'; by apply app_inv_head in E'). done.
Qed.
(** Steps nested on the left. *)
Lemma runs_try_try {A B C} (m : M (result Error A)) (f : A -> M (result Error B)) (g : B -> M (result Error C)) P :
  runs (try m (fun a => try (f a) g)) P -> runs (try (try m f) g) P.
Proof. apply runs_ext. intros t. unfold try, bind, ret. by destruct (m t) as [[a|e] t1]. Qed.
Lemma runs_try_bind {A B C} (m : M A) (f : A -> M (result Error B)) (g : B -> M (result Error C)) P :
  runs (bind m (fun a => try (f a) g)) P -> runs (try (bind m f) g) P.
Proof. apply runs_ext. intros t. unfold try, bind, ret. by destruct (m t) as [a t1]. Qed.
(** What a computation brings when it succeeds. *)
Definition brings {A} (Q : A -> Prop) (m : Mo A) : Prop := runs m (fun r _ => forall a, r = Some (Ok a) -> Q a).
Lemma brings_done {A} (Q : A -> Prop) a : Q a -> brings Q (ret (Some (Ok a))).
Proof. intros HQ. apply runs_ret. by intros b [= <-]. Qed.
Lemma brings_none {A} (Q : A -> Prop) : brings Q (ret None).
Proof. by apply runs_ret. Qed.
Lemma brings_failed {A} (Q : A -> Prop) e : brings Q (ret (Some (Err e))).
Proof. by apply runs_ret. Qed.
Lemma any_run {A} (m : M A) P : runs m P -> runs m (fun _ _ => True).
Proof. intros Hm. by apply (runs_weaken _ _ _ Hm). Qed.
Lemma brings_tryo {A B} (P : A -> Prop) (Q : B -> Prop) (m : Mo A) (k : A -> Mo B) :
  brings P m -> (forall a, P a -> brings Q (k a)) -> brings Q (tryo m k).
Proof.
  intros Hm Hk t. unfold tryo, bind. destruct (Hm t) as (d & E & HP). destruct (m t) as [[[a|e]|] t1]; cbn [fst snd] in *; subst t1.
  - destruct (Hk a (HP a eq_refl) (t ++ d)) as (d2 & E2 & HQ). exists (d ++ d2). by rewrite E2, app_assoc.
  - by exists d.
  - by exists d.
Qed.
Lemma brings_bind {A B} (P : A -> Prop) (Q : B -> Prop) (m : M A) (k : A -> Mo B) :
  runs m (fun a _ => P a) -> (forall a, P a -> brings Q (k a)) -> brings Q (bind m k).
Proof.
  intros Hm Hk t. unfold bind. destruct (Hm t) as (d & E & HP). destruct (m t) as [a t1]; cbn [fst snd] in *; subst t1.
  destruct (Hk a HP (t ++ d)) as (d2 & E2 & HQ). exists (d ++ d2). by rewrite E2, app_assoc.
Qed.
Lemma brings_then {A B} (Q : B -> Prop) (m : M A) (k : A -> Mo B) P : runs m P -> (forall a, brings Q (k a)) -> brings Q (bind m k).
Proof. intros Hm Hk. apply (brings_bind (fun _ => True)); [by apply (runs_weaken _ _ _ Hm)|auto]. Qed.
Lemma brings_for_each {A B} (Q : B -> Prop) l (body : A -> B -> Mo B) b :
  Q b -> (forall a b, Q b -> brings Q (body a b)) -> brings Q (for_each l body b).
Proof.
  intros Hb Hbody. revert b Hb. induction l as [|a l IH]; intros b Hb; [by apply brings_done|]. cbn [for_each].
  apply (brings_tryo Q); [by apply Hbody|done].
Qed.
(** Every computation built from calls extends the history. *)
Lemma brings_any {A} (m : Mo A) P : runs m P -> brings (fun _ => True) m.
Proof. intros Hm. apply (runs_weaken _ _ _ Hm). done. Qed.

(** ** A computation whose answer does not depend on the history *)
Definition surely {A} (m : M A) (a : A) : Prop := forall t, fst (m t) = a.
Lemma surely_ret {A} (a : A) : surely (ret a) a.
Proof. done. Qed.
Lemma surely_bind {A B} (m : M A) (k : A -> M B) a b : surely m a -> surely (k a) b -> surely (bind m k) b.
Proof. intros Hm Hk t. unfold bind. specialize (Hm t). destruct (m t) as [x t1]. cbn in Hm. subst x. apply Hk. Qed.
Lemma surely_answering {A} (m : M (result Error A)) r : surely m r -> surely (answering m) (Some r).
Proof. intros Hm. by apply (surely_bind _ _ r). Qed.
Lemma surely_try {A B} (m : M (result Error A)) (k : A -> M (result Error B)) a b : surely m (Ok a) -> surely (k a) b -> surely (try m k) b.
Proof. intros Hm Hk. by apply (surely_bind _ _ (Ok a)). Qed.
Lemma surely_tryo {A B} (m : Mo A) (k : A -> Mo B) a b : surely m (Some (Ok a)) -> surely (k a) b -> surely (tryo m k) b.
Proof. intros Hm Hk. by apply (surely_bind _ _ (Some (Ok a))). Qed.
Lemma surely_tryo_err {A B} (m : Mo A) (k : A -> Mo B) e : surely m (Some (Err e)) -> surely (tryo m k) (Some (Err e)).
Proof. intros Hm. by apply (surely_bind _ _ (Some (Err e))). Qed.
Lemma surely_for_each {A B} (f : B -> A -> B) l (body : A -> B -> Mo B) b :
  (forall a b, a ∈ l -> surely (body a b) (Some (Ok (f b a)))) -> surely (for_each l body b) (Some (Ok (fold_left f l b))).
Proof.
  revert b. induction l as [|a l IH]; intros b Hb; [done|]. cbn [for_each fold_left].
  apply (surely_tryo _ _ (f b a)); [apply Hb; by left|]. apply IH. intros x y Hx. apply Hb. by right.
Qed.

(** What was seen of a computation that succeeds. *)
Definition ends {O A} (obs : event -> list O) (Q : list O -> Prop) (m : Mo A) : Prop :=
  observes obs m (fun r l => succeeded r = true -> Q l).
Lemma ends_tryo {O A B} (obs : event -> list O) (Q : list O -> Prop) (m : Mo A) (k : A -> Mo B) P :
  (forall l1 l2, Q l2 -> Q (l1 ++ l2)) -> runs m P -> (forall a, ends obs Q (k a)) -> ends obs Q (tryo m k).
Proof.
  intros HQ Hm Hk t. unfold tryo, bind. destruct (Hm t) as (d & E & _). destruct (m t) as [[[a|e]|] t1]; cbn [fst snd] in *; subst t1.
  - destruct (Hk a (t ++ d)) as (d2 & E2 & H2). exists (d ++ d2). rewrite E2, observed_app, app_assoc. eauto.
  - by exists d.
  - by exists d.
Qed.
Lemma ends_last {O A B} (obs : event -> list O) (Q : list O -> Prop) (m : Mo A) (k : A -> Mo B) :
  (forall a, unseen obs (k a)) -> observes obs m (fun r l => match r with Some (Ok a) => (exists t, succeeded (fst (k a t)) = true) -> Q l | _ => True end) ->
  ends obs Q (tryo m k).
Proof.
  intros Hk Hm t. unfold tryo, bind. destruct (Hm t) as (d & E & HQ). destruct (m t) as [[[a|e]|] t1]; cbn [fst snd] in *; subst t1.
  - destruct (Hk a (t ++ d)) as (d2 & E2 & H2). exists (d ++ d2). rewrite E2, observed_app, app_assoc, H2, app_nil_r.
    split; [done|]. intros Hs. apply HQ. by exists (t ++ d).
  - by exists d.
  - by exists d.
Qed.
