(* ===== verification/Diagnostics.v ===== *)
(** * Diagnostics: [src/backend/diagnostics]

    The rules of OBD-II frames, one session that reads or clears trouble codes, the
    identification of a unit over SSM, and the parser of terminal scripts. A session
    runs over a diagnostic link ([Ports.LinkWrite], ...); its loops read until the unit
    is silent, so a run has fuel and may not return. *)
From stdpp Require Import sorting.
From S2P Require Import Prelude Bytes.
From S2P Require Import Ports Scripts.
From S2P Require Import Uds.
From S2P Require Import Dtc.
From S2P Require Import DefinitionResolver DefinitionParsers DefinitionWriter.

(** ** [obd_frames.h], [obd_frames.cpp] *)
Inductive ObdProtocol : Set := kIso9141 | kIso14230 | kIso15765.
#[global] Instance ObdProtocol_eq_dec : EqDecision ObdProtocol.
Proof. solve_decision. Defined.
Definition ProtocolName (protocol : ObdProtocol) : string :=
  match protocol with kIso9141 => "iso9141" | kIso14230 => "iso14230" | kIso15765 => "iso15765" end.
Definition ResponseIndex (protocol : ObdProtocol) : Z := if bool_decide (protocol = kIso15765) then 4 else 3.
Definition BuildRequest (protocol : ObdProtocol) (source_id : Z) (payload : list Z) : list Z :=
  (if bool_decide (protocol = kIso15765)
   then [0; 0; u8 (Z.land (Z.shiftr source_id 8) 0xFF); u8 (Z.land source_id 0xFF)] else []) ++ payload.
Inductive ResponseCheck : Set := kShort | kOk | kNrc | kWrongId.
Definition CheckResponse (protocol : ObdProtocol) (frame : list Z) (mode : Z) (pid : option Z) : ResponseCheck :=
  let index := ResponseIndex protocol in
  if zlen frame <=? index then kShort
  else if zget frame index =? 0x7F then kNrc
  else if negb (zget frame index =? u8 (Z.lor mode 0x40)) then kWrongId
  else match pid with
       | Some pid => if (zlen frame <=? index + 1) || negb (zget frame (index + 1) =? pid) then kWrongId else kOk
       | None => kOk
       end.
Definition Tail (data : list Z) (from : Z) : list Z := if zlen data <=? from then [] else subspan data from (zlen data - from).
Definition WithoutChecksum (frame : list Z) : list Z :=
  match frame with [] => frame | _ => subspan frame 0 (zlen frame - 1) end.
Definition UnframeDataResponse (protocol : ObdProtocol) (frame : list Z) : list Z :=
  if bool_decide (protocol = kIso15765) then Tail frame (ResponseIndex protocol + 3)
  else
    let body := WithoutChecksum frame in
    match body with
    | [] => []
    | _ => if zlen body <? 7 then Tail body (zlen body - 1) else Tail body (if zlen body <? 10 then 5 else 6)
    end.
Definition UnframeDtcListResponse (protocol : ObdProtocol) (frame : list Z) : list Z :=
  if bool_decide (protocol = kIso15765) then Tail frame (ResponseIndex protocol + 2)
  else
    let body := WithoutChecksum frame in
    match body with
    | [] => []
    | _ => if zlen body <? 7 then Tail body (zlen body - 1) else Tail body 4
    end.
Definition FiveBaudHeader (requested : ObdProtocol) (r : list Z) (uses_j2534 : bool) : option KlineHeader :=
  if uses_j2534 then
    if bool_decide (requested = kIso9141) && (7 <? zlen r) && (zget r 5 =? 0x38) && (zget r 7 =? 0x38) then Some kHeaderIso9141
    else if bool_decide (requested = kIso14230) && (9 <? zlen r) && (zget r 8 =? 0x38) && (zget r 9 =? 0x66) then Some kHeaderIso14230
    else None
  else if (2 <? zlen r) && (zget r 1 =? 0x08) && (zget r 2 =? 0x08) then Some kHeaderIso9141
  else if (2 <? zlen r) && (zget r 2 =? 0x8F) then Some kHeaderIso14230
  else None.
Definition FastInitAccepted (response : list Z) : bool :=
  (6 <=? zlen response) && bool_decide (subspan response 0 6 = [0x83; 0xF1; 0x10; 0xC1; 0xE9; 0x8F]).
Definition FormatHex (data : list Z) : string := fold_left (fun out b => out +:+ fmt_02x b +:+ " ") data ""%string.
Definition FormatPidPageLabel (page : Z) (bitmap : list Z) : string :=
  let start := page * 0x20 + 1 in
  ("Supported PIDs 0x" +:+ fmt_x start +:+ "-0x" +:+ fmt_x (start + 0x1F) +:+ ": ") +:+ FormatHex bitmap.
(** The identifiers of one byte of a page, highest bit first; zero where not supported. *)
Definition format_pid_byte (start i byte : Z) : string :=
  fold_left (fun out j =>
    let enabled := Z.land (Z.shiftr byte j) 1 in out +:+ "0x" +:+ fmt_02x (enabled * ((i * 8 + 7 - j) + start)) +:+ " ")
    [7; 6; 5; 4; 3; 2; 1; 0] ""%string.
Fixpoint format_pids (start i : Z) (bitmap : list Z) : string :=
  match bitmap with [] => ""%string | byte :: bitmap => format_pid_byte start i byte +:+ format_pids start (i + 1) bitmap end.
Definition FormatSupportedPids (page : Z) (bitmap : list Z) : string := format_pids (page * 0x20 + 1) 0 bitmap.
Fixpoint dtc_words (data : list Z) (i : Z) (count : nat) : list Z :=
  match count with
  | O => []
  | S count =>
      let code := ReadU16Be data i in (if negb (code =? 0) then [code] else []) ++ dtc_words data (i + 2) count
  end.
(** The words at even offsets, [ceil (size / 2)] of them, those that are not zero, sorted. *)
Definition DecodeDtcs (data : list Z) : list Z := merge_sort Z.le (dtc_words data 0 (Z.to_nat ((zlen data + 1) / 2))).

(** ** [dtc_session.h], [dtc_session.cpp] *)
Inductive DtcOperation : Set := kReadCodes | kClearCodes.
#[global] Instance DtcOperation_eq_dec : EqDecision DtcOperation.
Proof. solve_decision. Defined.
Record DtcRequest := { dr_protocol : ObdProtocol; dr_operation : DtcOperation }.
Record SupportedPidPage := { sp_page : Z; sp_bitmap : list Z }.
Record DtcReport := {
  supported_pids : list SupportedPidPage; monitor_status : option (list Z); vin_length : option (list Z); vin : option (list Z);
  cal_id_length : option (list Z); cal_id : option (list Z); cvn_length : option (list Z); cvn : option (list Z);
  stored : list Z; pending : list Z; cleared : bool }.
Definition empty_report : DtcReport :=
  {| supported_pids := []; monitor_status := None; vin_length := None; vin := None; cal_id_length := None; cal_id := None;
     cvn_length := None; cvn := None; stored := []; pending := []; cleared := false |}.
(** The fields of a report the session writes. *)
Inductive info_field : Set := FMonitorStatus | FVinLength | FVin | FCalIdLength | FCalId | FCvnLength | FCvn.
Definition set_info (f : info_field) (x : list Z) (r : DtcReport) : DtcReport :=
  let '(Build_DtcReport pids m vl v cl c nl n st pe k) := r in
  match f with
  | FMonitorStatus => Build_DtcReport pids (Some x) vl v cl c nl n st pe k
  | FVinLength => Build_DtcReport pids m (Some x) v cl c nl n st pe k
  | FVin => Build_DtcReport pids m vl (Some x) cl c nl n st pe k
  | FCalIdLength => Build_DtcReport pids m vl v (Some x) c nl n st pe k
  | FCalId => Build_DtcReport pids m vl v cl (Some x) nl n st pe k
  | FCvnLength => Build_DtcReport pids m vl v cl c (Some x) n st pe k
  | FCvn => Build_DtcReport pids m vl v cl c nl (Some x) st pe k
  end.
Definition push_page (page : SupportedPidPage) (r : DtcReport) : DtcReport :=
  let '(Build_DtcReport pids m vl v cl c nl n st pe k) := r in Build_DtcReport (pids ++ [page]) m vl v cl c nl n st pe k.
Inductive code_list : Set := FStored | FPending.
Definition set_codes (f : code_list) (codes : list Z) (r : DtcReport) : DtcReport :=
  let '(Build_DtcReport pids m vl v cl c nl n st pe k) := r in
  match f with
  | FStored => Build_DtcReport pids m vl v cl c nl n codes pe k
  | FPending => Build_DtcReport pids m vl v cl c nl n st codes k
  end.
Definition set_cleared (r : DtcReport) : DtcReport :=
  let '(Build_DtcReport pids m vl v cl c nl n st pe _) := r in Build_DtcReport pids m vl v cl c nl n st pe true.
Definition kShortRead : Z := 200.
Definition kCanInitRead : Z := 2000.
Definition kBeforeVehicleInfo : Z := 500.
Definition kBetweenRequests : Z := 250.
Definition kFiveBaudAddress : Z := 0x33.
Definition kFastInitWakeup : Z := 0x81.
Definition kCanSource : Z := 0x7E0.
Definition kCanDestination : Z := 0x7E8.
Definition kLiveData : Z := 0x01.
Definition kStoredDtcs : Z := 0x03.
Definition kClearDtcs : Z := 0x04.
Definition kPendingDtcs : Z := 0x07.
Definition kVehicleInfo : Z := 0x09.
Definition kSupportPages : list Z := [0x00; 0x20; 0x40; 0x60; 0x80; 0xA0; 0xC0].
Record KlineIds := { start_byte : Z; ids_tester_id : Z; ids_target_id : Z }.
Definition IdsFor (protocol : ObdProtocol) : KlineIds :=
  if bool_decide (protocol = kIso9141) then {| start_byte := 0x68; ids_tester_id := 0xF1; ids_target_id := 0x6A |}
  else {| start_byte := 0xC0; ids_tester_id := 0xF1; ids_target_id := 0x33 |}.
Definition AsText (data : list Z) : string := of_chars (map (fun b => ascii_of_N (Z.to_N b)) data).
Definition kline_config (protocol : ObdProtocol) (header : KlineHeader) (iso14230_connection : bool) : KlineLinkConfig :=
  let ids := IdsFor protocol in
  {| kl_header := header; kl_iso14230_connection := iso14230_connection; kl_baud := 10400; kl_start_byte := start_byte ids;
     kl_tester_id := ids_tester_id ids; kl_target_id := ids_target_id ids; kl_parity := kParityNone |}.
Record Item := { item_mode : Z; item_pid : Z; item_label : string; item_field : info_field; also_text : bool }.
Definition kItems : list Item :=
  [{| item_mode := kLiveData; item_pid := 0x01; item_label := "Status since DTCs cleared: "; item_field := FMonitorStatus; also_text := false |};
   {| item_mode := kVehicleInfo; item_pid := 0x01; item_label := "VIN length: "; item_field := FVinLength; also_text := false |};
   {| item_mode := kVehicleInfo; item_pid := 0x02; item_label := "VIN: "; item_field := FVin; also_text := true |};
   {| item_mode := kVehicleInfo; item_pid := 0x03; item_label := "CAL ID length: "; item_field := FCalIdLength; also_text := false |};
   {| item_mode := kVehicleInfo; item_pid := 0x04; item_label := "CAL ID: "; item_field := FCalId; also_text := true |};
   {| item_mode := kVehicleInfo; item_pid := 0x05; item_label := "CAL ID num length: "; item_field := FCvnLength; also_text := false |};
   {| item_mode := kVehicleInfo; item_pid := 0x06; item_label := "CAL ID num: "; item_field := FCvn; also_text := false |}].
Record CodeList := { cl_mode : Z; cl_label : string; cl_missing : string; cl_field : code_list }.
Definition kLists : list CodeList :=
  [{| cl_mode := kStoredDtcs; cl_label := "Stored DTCs: "; cl_missing := "no stored DTC response"; cl_field := FStored |};
   {| cl_mode := kPendingDtcs; cl_label := "Pending DTCs: "; cl_missing := "no pending DTC response"; cl_field := FPending |}].
Definition codes_of (f : code_list) (r : DtcReport) : list Z := match f with FStored => stored r | FPending => pending r end.

Module DtcRun.
Section run.
Context `{Env} (fuel : nat) (request_ : DtcRequest).
Definition Info (message : string) : M unit := Log LInfo message.
Definition Error (message : string) : M unit := Log LError message.
Definition ReadFrame (timeout : Z) : M (result Ports.Error (option (list Z))) :=
  do j2534 <- Call LinkUsesJ2534; if j2534 then Call (LinkRead timeout) else Call (LinkReadObd timeout).
Definition FiveBaud (requested : ObdProtocol) : M Status :=
  let name := ProtocolName requested in
  do! _ <- Call (LinkOpenKline (kline_config requested kHeaderNone false));
  do _ <- Info ("Testing " +:+ name +:+ " five baud init, please wait...");
  do _ <- Call (LinkSetP1Max 35);
  do! response <- Call (LinkFiveBaudInit kFiveBaudAddress);
  do _ <- Info ("Init response: " +:+ FormatHex response);
  do j2534 <- Call LinkUsesJ2534;
  do _ <- (if negb j2534 then do _ <- Call (LinkSetP1Max 25); ret tt else ret tt);
  match FiveBaudHeader requested response j2534 with
  | None => do _ <- Error (name +:+ " five baud init failed."); ret (Fail kBadResponse (name +:+ " five baud init failed"))
  | Some header =>
      do _ <- Call (LinkSetHeader header);
      do _ <- Info (name +:+ " five baud init successfully completed.");
      ret (Ok tt)
  end.
Definition FastInit : M Status :=
  do! _ <- Call (LinkOpenKline (kline_config kIso14230 kHeaderIso14230 true));
  do _ <- Info "Initialising iso14230 fast init K-Line communications, please wait...";
  do! _ <- Call (LinkFastInit [kFastInitWakeup]);
  do! frame <- ReadFrame kShortRead;
  if match frame with Some f => FastInitAccepted f | None => false end then
    do _ <- Info "iso14230 fast init mode successfully completed."; ret (Ok tt)
  else do _ <- Error "iso14230 fast init mode failed."; ret (Fail kBadResponse "iso14230 fast init mode failed").
Definition CanInit : M Status :=
  do! _ <- Call (LinkOpenCan {| cl_iso15765 := true; cl_bitrate := 500000; cl_extended_id := false; cl_source_id := kCanSource;
                                cl_destination_id := kCanDestination |});
  do _ <- Info "Initialising iso15765 CAN communications, please wait...";
  do! _ <- Call (LinkWrite (BuildRequest kIso15765 kCanSource [kLiveData; 0x00]));
  do! frame <- Call (LinkRead kCanInitRead);
  let f := default [] frame in
  if zlen f <=? 4 then ret (Fail kBadResponse "no iso15765 init response")
  else if zget f 4 =? 0x7F then
    do _ <- Error ("Wrong response from ECU: " +:+ Describe (subspan f 4 (zlen f - 4)));
    ret (Fail kBadResponse "iso15765 init rejected")
  else if negb (zget f 4 =? 0x41) then
    do _ <- Error ("Wrong response from ECU: " +:+ FormatHex f); ret (Fail kBadResponse "iso15765 init wrong response")
  else do _ <- Info "iso15765 init mode successfully completed."; ret (Ok tt).
Definition Init : M Status :=
  match dr_protocol request_ with
  | kIso9141 => FiveBaud kIso9141
  | kIso14230 =>
      do fast <- FastInit;
      match fast with
      | Err e => if bool_decide (kind e = kCancelled) then ret fast else FiveBaud kIso14230
      | Ok _ => ret fast
      end
  | kIso15765 => CanInit
  end.
(** The frames of one answer, until a read finds nothing. *)
Fixpoint collect (rounds : nat) (mode : Z) (pid : option Z) (dtc_list : bool) (response : list Z) : Mo (list Z) :=
  match rounds with
  | O => ret None
  | S rounds =>
      do? frame <- answering (ReadFrame kShortRead);
      match frame with
      | None => ret (Some (Ok response))
      | Some f =>
          match CheckResponse (dr_protocol request_) f mode pid with
          | kNrc =>
              let index := ResponseIndex (dr_protocol request_) in
              do _ <- Error ("Wrong response from ECU: " +:+ Describe (subspan f index (zlen f - index)));
              ret (Some (Ok response))
          | kWrongId => do _ <- Error ("Wrong response from ECU: " +:+ FormatHex f); ret (Some (Ok response))
          | kOk | kShort =>
              let data := if dtc_list then UnframeDtcListResponse (dr_protocol request_) f
                          else UnframeDataResponse (dr_protocol request_) f in
              collect rounds mode pid dtc_list (response ++ data)
          end
      end
  end.
Definition Request (mode : Z) (pid : option Z) (dtc_list : bool) : Mo (list Z) :=
  do? _ <- answering (Call (LinkWrite (BuildRequest (dr_protocol request_) kCanSource (mode :: option_list pid))));
  collect fuel mode pid dtc_list [].
Definition request_page (entry : Z * Z) (report_ : DtcReport) : Mo DtcReport :=
  let '(page, pid) := entry in
  do? response <- Request kLiveData (Some pid) false;
  do report_ <- match response with
                | [] => ret report_
                | _ => do _ <- Info (FormatPidPageLabel page response);
                       do _ <- Info ("Supported PIDs: " +:+ FormatSupportedPids page response);
                       ret (push_page {| sp_page := page; sp_bitmap := response |} report_)
                end;
  do? _ <- answering (Sleep kBetweenRequests); ret (Some (Ok report_)).
Definition request_item (item : Item) (report_ : DtcReport) : Mo DtcReport :=
  do? response <- Request (item_mode item) (Some (item_pid item)) false;
  do report_ <- match response with
                | [] => ret report_
                | _ => do _ <- Info (item_label item +:+ FormatHex response);
                       do _ <- (if also_text item then Info (item_label item +:+ AsText response) else ret tt);
                       ret (set_info (item_field item) response report_)
                end;
  do? _ <- answering (Sleep kBetweenRequests); ret (Some (Ok report_)).
Definition VehicleInfo (report_ : DtcReport) : Mo DtcReport :=
  do _ <- Info "Requesting vehicle info, please wait...";
  do? _ <- answering (Sleep kBeforeVehicleInfo);
  do? report_ <- for_each (zip (seqZ 0 7) kSupportPages) request_page report_;
  for_each kItems request_item report_.
Fixpoint log_codes (codes : list Z) : M unit :=
  match codes with [] => ret tt | code :: codes => do _ <- Info ("DTC: " +:+ DtcDescription code); log_codes codes end.
Definition request_codes (list : CodeList) (report_ : DtcReport) : Mo DtcReport :=
  do? response <- Request (cl_mode list) None true;
  match response with
  | [] => ret (Some (Fail kBadResponse (cl_missing list)))
  | _ =>
      do _ <- Info (cl_label list +:+ FormatHex response);
      let report_ := set_codes (cl_field list) (DecodeDtcs response) report_ in
      do _ <- log_codes (codes_of (cl_field list) report_);
      do? _ <- answering (Sleep kBetweenRequests); ret (Some (Ok report_))
  end.
Definition ReadDtcs (report_ : DtcReport) : Mo DtcReport :=
  do? report_ <- for_each kLists request_codes report_;
  do _ <- Info "Diagnostic trouble codes successfully read!"; ret (Some (Ok report_)).
(** The answer to a clear request. *)
Fixpoint await_cleared (rounds : nat) : Mo bool :=
  match rounds with
  | O => ret None
  | S rounds =>
      do? frame <- answering (ReadFrame kShortRead);
      match frame with
      | None => ret (Some (Ok false))
      | Some f =>
          let index := ResponseIndex (dr_protocol request_) in
          if zlen f <=? index then await_cleared rounds
          else if zget f index =? 0x7F then
            do _ <- Error ("Wrong response from ECU: " +:+ Describe (subspan f index (zlen f - index))); ret (Some (Ok false))
          else if negb (zget f index =? Z.lor kClearDtcs 0x40) then
            do _ <- Error ("Wrong response from ECU: " +:+ FormatHex f); ret (Some (Ok false))
          else ret (Some (Ok true))
      end
  end.
Definition ClearDtcs (report_ : DtcReport) : Mo DtcReport :=
  do? report_ <- ReadDtcs report_;
  do? _ <- answering (Call (LinkWrite (BuildRequest (dr_protocol request_) kCanSource [kClearDtcs])));
  do? cleared <- await_cleared fuel;
  if negb cleared then ret (Some (Fail kBadResponse "clear DTCs not acknowledged"))
  else do _ <- Info "Diagnostic trouble codes successfully cleared!"; ret (Some (Ok (set_cleared report_))).
Definition Body : Mo DtcReport :=
  do? _ <- answering Init;
  do? report_ <- VehicleInfo empty_report;
  if bool_decide (dr_operation request_ = kReadCodes) then ReadDtcs report_ else ClearDtcs report_.
Definition Execute : Mo DtcReport :=
  do outcome <- Body;
  match outcome with
  | None => ret None
  | Some outcome => do _ <- Call (LinkSetHeader kHeaderNone); do _ <- Call LinkReset; ret (Some outcome)
  end.
End run.
End DtcRun.
Definition RunDtcSession `{Env} (fuel : nat) (request : DtcRequest) : Mo DtcReport := DtcRun.Execute fuel request.

(** ** [ssm_identify.h], [ssm_identify.cpp] *)
Inductive SsmVariant : Set := kSsm1 | kKlineSsm2 | kIso15765Uds.
Inductive SsmTarget : Set := kTargetEcu | kTargetTcu.
Record SsmIdentifyRequest := { ir_variant : SsmVariant; ir_target : SsmTarget }.
Record SsmIdentity := { id_ecu_id : string; id_init_response : list Z }.
Module SsmIdentify.
Definition kSsmHeader : Z := 0x80.
Definition kSsmTester : Z := 0xF0.
Definition kEcuIdOffset : Z := 8.
Definition kEcuIdLength : Z := 5.
Definition kSsmInitCommand : Z := 0xBF.
Definition kSsmInitResponse : Z := 0xFF.
Definition kSsmFrameOverhead : Z := 5.
Definition kSsm1MaxDrainReads : nat := 100.
Definition TargetId (target : SsmTarget) : Z := match target with kTargetEcu => 0x10 | kTargetTcu => 0x18 end.
Definition SsmChecksum (data : list Z) : Z := u8 (Z.land (fold_left (fun total byte => u32 (total + byte)) data 0) 0xFF).
(** [{:02X}] of a byte. *)
Definition UpperHex (data : list Z) : string := fold_left (fun out byte => out +:+ fmt_02X byte) data ""%string.
Definition SpacedHex (data : list Z) : string :=
  fold_left (fun out byte => out +:+ (if String.eqb out "" then "" else " ") +:+ fmt_02X byte) data ""%string.
Definition SsmFrame (payload : list Z) (target : SsmTarget) : list Z :=
  let frame := [kSsmHeader; TargetId target; kSsmTester; u8 (zlen payload)] ++ payload in frame ++ [SsmChecksum frame].
Definition ParseSsmEcuId (init_response : list Z) : option string :=
  if zlen init_response <? kEcuIdOffset + kEcuIdLength then None
  else Some (UpperHex (subspan init_response kEcuIdOffset kEcuIdLength)).
Definition BadFrame {A} (what : string) (frame : list Z) : result Error A :=
  Fail kBadResponse ("SSM init response " +:+ what +:+ ": " +:+ SpacedHex frame).
Definition ValidateSsm2Init (frame : list Z) (target : SsmTarget) : Status :=
  let mismatch (what : string) (i value : Z) := what +:+ " is " +:+ fmt_02X (zget frame i) +:+ ", expected " +:+ fmt_02X value in
  if zget frame 3 =? 0 then BadFrame "has no response code" frame
  else if negb (zget frame 0 =? kSsmHeader) then BadFrame (mismatch "header byte" 0 kSsmHeader) frame
  else if negb (zget frame 1 =? kSsmTester) then BadFrame (mismatch "tester id" 1 kSsmTester) frame
  else if negb (zget frame 2 =? TargetId target) then BadFrame (mismatch "target id" 2 (TargetId target)) frame
  else if negb (zget frame 4 =? kSsmInitResponse) then BadFrame (mismatch "response code" 4 kSsmInitResponse) frame
  else
    let expected := SsmChecksum (subspan frame 0 (zlen frame - 1)) in
    if negb (zget frame (zlen frame - 1) =? expected) then BadFrame (mismatch "checksum" (zlen frame - 1) expected) frame
    else Ok tt.
Section identify.
Context `{Env}.
(** The frame with what one read brought, and whether it brought anything. *)
Definition ReadInto (frame : list Z) (timeout : Z) : M (result Error (bool * list Z)) :=
  do! read <- Call (LinkRead timeout);
  ret (Ok match read with Some bytes => (true, frame ++ bytes) | None => (false, frame) end).
Definition CheckWritten (request : list Z) : M Status := do! _ <- Call (LinkWrite request); ret (Ok tt).
Fixpoint read_up_to (attempts : nat) (frame : list Z) (size : Z) : M (result Error (list Z)) :=
  if zlen frame <? size then
    match attempts with
    | O => ret (Ok frame)
    | S attempts => do! got <- ReadInto frame 50; read_up_to attempts (snd got) size
    end
  else ret (Ok frame).
Definition ReadUpTo (frame : list Z) (size : Z) : M (result Error (list Z)) := read_up_to 10 frame size.
Definition ReadSsm2InitFrame : M (result Error (list Z)) :=
  do! got <- ReadInto [] 200;
  do! frame <- ReadUpTo (snd got) 4;
  match frame with
  | [] => ret (Fail kTimeout "no SSM init response")
  | _ =>
      if zlen frame <? 4 then ret (BadFrame "header incomplete" frame)
      else
        let declared := zget frame 3 + kSsmFrameOverhead in
        do! frame <- ReadUpTo frame declared;
        ret (if zlen frame <? declared then BadFrame "truncated" frame else Ok (subspan frame 0 declared))
  end.
Definition ssm_kline_config (baud : Z) (parity : Parity) : KlineLinkConfig :=
  {| kl_header := kHeaderNone; kl_iso14230_connection := false; kl_baud := baud; kl_start_byte := 0; kl_tester_id := 0;
     kl_target_id := 0; kl_parity := parity |}.
Definition IdentifyKlineSsm2 (target : SsmTarget) : M (result Error SsmIdentity) :=
  do! _ <- Call (LinkOpenKline (ssm_kline_config 4800 kParityNone));
  do! _ <- CheckWritten (SsmFrame [kSsmInitCommand] target);
  do! _ <- Sleep 200;
  do! frame <- ReadSsm2InitFrame;
  ret (let! _ := ValidateSsm2Init frame target in
       match ParseSsmEcuId frame with
       | None => BadFrame "is too short for an ECU ID" frame
       | Some ecu_id => Ok {| id_ecu_id := ecu_id; id_init_response := frame |}
       end).
Fixpoint discard (count : nat) (discarded : list Z) (timeout : Z) : M Status :=
  match count with
  | O => ret (Ok tt)
  | S count => do! got <- ReadInto discarded timeout; discard count (snd got) timeout
  end.
Definition WriteThenDiscard (request : list Z) (count : nat) (timeout : Z) : M Status :=
  do! _ <- CheckWritten request; discard count [] timeout.
Definition WakeSsm1 : M Status :=
  do! _ <- WriteThenDiscard [0x78; 0x12; 0x34; 0x00] 10 500;
  do! _ <- WriteThenDiscard [0x00; 0x46; 0x48; 0x49] 2 500;
  CheckWritten [0x12; 0x00; 0x00; 0x00].
Fixpoint drain (reads : nat) : M Status :=
  match reads with
  | O => ret (Ok tt)
  | S reads => do! drained <- ReadInto [] 100; if negb (fst drained) then ret (Ok tt) else drain reads
  end.
Definition AdoptTrailingFrame (identity : SsmIdentity) : M (result Error SsmIdentity) :=
  do! got <- ReadInto [] 100;
  if negb (fst got) then ret (Ok identity)
  else
    let identity := match ParseSsmEcuId (snd got) with
                    | Some trailing_id => {| id_ecu_id := trailing_id; id_init_response := snd got |}
                    | None => identity
                    end in
    do! _ <- drain kSsm1MaxDrainReads; ret (Ok identity).
Definition IdentifySsm1 : M (result Error SsmIdentity) :=
  do! _ <- Call (LinkOpenKline (ssm_kline_config 1953 kParityEven));
  do! _ <- WakeSsm1;
  do! got <- ReadInto [] 500;
  let frame := snd got in
  match frame with
  | [] => ret (Fail kTimeout "no SSM1 init response")
  | _ =>
      if (zlen frame <? kSsmFrameOverhead) || negb (zlen frame =? zget frame 3 + kSsmFrameOverhead) then
        ret (BadFrame "length does not match its length byte" frame)
      else match ParseSsmEcuId frame with
           | None => ret (BadFrame "is too short for an ECU ID" frame)
           | Some ecu_id => AdoptTrailingFrame {| id_ecu_id := ecu_id; id_init_response := frame |}
           end
  end.
Definition IdentifyIso15765Uds (target : SsmTarget) : M (result Error SsmIdentity) :=
  let source := match target with kTargetEcu => 0x7E0 | kTargetTcu => 0x7E1 end in
  do! _ <- Call (LinkOpenCan {| cl_iso15765 := true; cl_bitrate := 500000; cl_extended_id := false; cl_source_id := source;
                                cl_destination_id := 0x7E8 |});
  do! _ <- CheckWritten [0; 0; u8 (Z.land (Z.shiftr source 8) 0xFF); u8 (Z.land source 0xFF); 0x22; 0xF1; 0x82];
  do! got <- ReadInto [] 100;
  let frame := snd got in
  match frame with
  | [] => ret (Fail kTimeout "no answer to ReadDataByIdentifier F182")
  | _ =>
      ret (if (zlen frame <=? 7) || negb (zget frame 4 =? 0x62) || negb (zget frame 5 =? 0xF1) || negb (zget frame 6 =? 0x82)
           then Fail kBadResponse ("unexpected answer to ReadDataByIdentifier F182: " +:+ SpacedHex frame)
           else Ok {| id_ecu_id := UpperHex (subspan frame 7 (zlen frame - 7)); id_init_response := [] |})
  end.
Definition IdentifySsmEcu (request : SsmIdentifyRequest) : M (result Error SsmIdentity) :=
  match ir_variant request with
  | kSsm1 => IdentifySsm1
  | kKlineSsm2 => IdentifyKlineSsm2 (ir_target request)
  | kIso15765Uds => IdentifyIso15765Uds (ir_target request)
  end.
End identify.
End SsmIdentify.

(** ** [terminal_script.h], [terminal_script.cpp] *)
Inductive TerminalStep : Type := TerminalMessageStep (payload : list Z) | TerminalDelayStep (duration : Z).
Module TerminalScript.
Definition kMaxTerminalDelay : Z := 3600000.
Definition kDelayPrefix : list ascii := to_chars "delay(".
Definition space (c : ascii) : bool := bool_decide (c ∈ [" "; "009"; "013"; "010"]%char).
Definition LineError (line : Z) (detail : string) : Error :=
  {| kind := kInvalidConfig; detail := "line " +:+ fmt_d line +:+ ": " +:+ detail; cancellation_io_exposure := kMayHaveStarted |}.
Fixpoint skip_space (l : list ascii) : list ascii := match l with c :: l' => if space c then skip_space l' else l | [] => [] end.
Definition Trim (text : list ascii) : list ascii := rev (skip_space (rev (skip_space text))).
Fixpoint starts (l p : list ascii) : bool :=
  match p, l with [], _ => true | a :: p, b :: l => bool_decide (a = b) && starts l p | _ :: _, [] => false end.
Definition close : ascii := ")"%char.
Definition ParseDelay (entry : list ascii) (line : Z) : result Error TerminalStep :=
  if negb (starts entry kDelayPrefix) || negb (bool_decide (last entry = Some close)) then
    Err (LineError line ("expected delay(<milliseconds>), got '" +:+ of_chars entry +:+ "'"))
  else
    let digits := take (length entry - length kDelayPrefix - 1) (drop (length kDelayPrefix) entry) in
    match digits, number dec_digit 10 0 digits with
    | _ :: _, Some milliseconds =>
        if kMaxTerminalDelay <? milliseconds then
          Err (LineError line ("delay exceeds the " +:+ fmt_d kMaxTerminalDelay +:+ " ms maximum"))
        else Ok (TerminalDelayStep milliseconds)
    | _, _ => Err (LineError line ("delay needs decimal milliseconds, got '" +:+ of_chars digits +:+ "'"))
    end.
(** The entry up to its first space, and the rest. *)
Fixpoint token (l : list ascii) : list ascii * list ascii :=
  match l with
  | [] => ([], [])
  | c :: l' => if space c then ([], l) else let '(t, rest) := token l' in (c :: t, rest)
  end.
(** A turn takes a byte of a trimmed entry, so the entry's length bounds the turns. *)
Fixpoint parse_message (turns : nat) (entry : list ascii) (line : Z) (payload : list Z) : result Error TerminalStep :=
  match turns, entry with
  | S turns, _ :: _ =>
      let '(text, rest) := token entry in
      match number hex_digit 16 0 text with
      | Some value =>
          if (length text <=? 2)%nat && negb (bool_decide (text = []))
          then parse_message turns (Trim rest) line (payload ++ [u8 value])
          else Err (LineError line ("'" +:+ of_chars text +:+ "' is not a hex byte (one or two digits)"))
      | None => Err (LineError line ("'" +:+ of_chars text +:+ "' is not a hex byte (one or two digits)"))
      end
  | _, _ => Ok (TerminalMessageStep payload)
  end.
Definition ParseMessage (entry : list ascii) (line : Z) : result Error TerminalStep := parse_message (length entry) entry line [].
Fixpoint parse_lines (lines : list string) (line : Z) (steps : list TerminalStep) : result Error (list TerminalStep) :=
  match lines with
  | [] => Ok steps
  | text :: lines =>
      let entry := Trim (to_chars text) in
      match entry with
      | [] => parse_lines lines (line + 1) steps
      | _ =>
          let! step := if starts entry (to_chars "delay") then ParseDelay entry line else ParseMessage entry line in
          parse_lines lines (line + 1) (steps ++ [step])
      end
  end.
Definition ParseTerminalScript (lines : list string) : result Error (list TerminalStep) :=
  let! steps := parse_lines lines 1 [] in
  match steps with [] => Fail kInvalidConfig "script has no steps" | _ => Ok steps end.
End TerminalScript.

(** ** What a session writes *)
Definition link_write (e : event) : list (list Z) := match e with EvPort (LinkWrite data) _ => [data] | _ => [] end.
Definition obd (protocol : ObdProtocol) (payload : list Z) : list Z := BuildRequest protocol kCanSource payload.
Definition info_script (protocol : ObdProtocol) : list (list Z) :=
  (if bool_decide (protocol = kIso15765) then [obd kIso15765 [kLiveData; 0x00]] else [])
  ++ map (fun pid => obd protocol [kLiveData; pid]) kSupportPages
  ++ map (fun item => obd protocol [item_mode item; item_pid item]) kItems.
Definition code_script (protocol : ObdProtocol) : list (list Z) := map (fun mode => obd protocol [mode]) [kStoredDtcs; kPendingDtcs].
Definition dtc_script (request : DtcRequest) : list (list Z) :=
  info_script (dr_protocol request) ++ code_script (dr_protocol request)
  ++ if bool_decide (dr_operation request = kReadCodes) then [] else [obd (dr_protocol request) [kClearDtcs]].
Section session.
Context `{Env}.
Import DtcRun.
Lemma ReadFrame_unseen timeout : unseen link_write (ReadFrame timeout).
Proof. unfold ReadFrame. unseen. Qed.
Lemma FiveBaud_unseen requested : unseen link_write (FiveBaud requested).
Proof. unfold FiveBaud, Info, Error. unseen. Qed.
Lemma write_scripted data : scripted link_write [data] (answering (Call (LinkWrite data))).
Proof.
  apply (observes_bind _ _ (fun _ l => l = [data])); [by apply (observes_Call link_write (LinkWrite data))|].
  intros r l ->. apply observes_ret. destruct r; [done|by exists []].
Qed.
Lemma Init_scripted request :
  scripted link_write (if bool_decide (dr_protocol request = kIso15765) then [obd kIso15765 [kLiveData; 0x00]] else []) (answering (Init request)).
Proof.
  unfold Init. destruct (dr_protocol request).
  - apply scripted_unseen, unseen_returns, FiveBaud_unseen.
  - apply scripted_unseen, unseen_returns. unfold FastInit, ReadFrame, Info, Error. unseen; apply FiveBaud_unseen.
  - rewrite bool_decide_true by done. unfold CanInit, Info, Error. apply scripted_try_unseen; [unseen|]. intros _.
    apply scripted_answering_bind; [unseen|]. intros _. apply scripted_try_last; [apply write_scripted|]. intros _. unseen.
Qed.
Lemma collect_unseen request rounds mode pid dtc_list response : unseen link_write (collect request rounds mode pid dtc_list response).
Proof.
  revert response. induction rounds as [|rounds IH]; intros response; [apply unseen_ret|]. cbn [collect]. unfold Error.
  unseen; first [apply ReadFrame_unseen|apply IH].
Qed.
Lemma Request_scripted fuel request mode pid dtc_list :
  scripted link_write [obd (dr_protocol request) (mode :: option_list pid)] (Request fuel request mode pid dtc_list).
Proof. apply scripted_last; [apply write_scripted|]. intros. apply scripted_unseen, collect_unseen. Qed.
Lemma VehicleInfo_scripted fuel request report :
  scripted link_write (map (fun pid => obd (dr_protocol request) [kLiveData; pid]) kSupportPages
    ++ map (fun item => obd (dr_protocol request) [item_mode item; item_pid item]) kItems) (VehicleInfo fuel request report).
Proof.
  unfold VehicleInfo, Info. apply scripted_unseen_bind; [unseen|]. intros _. apply scripted_tryo_unseen; [unseen|]. intros _.
  apply scripted_tryo.
  - apply (scripted_for_each _ (fun e => [obd (dr_protocol request) [kLiveData; snd e]]) (zip (seqZ 0 7) kSupportPages)).
    intros [page pid] b. unfold request_page, Info. apply scripted_last; [apply (Request_scripted _ _ _ (Some pid))|].
    intros response. apply scripted_unseen. unseen.
  - intros r. apply (scripted_for_each _ (fun item => [obd (dr_protocol request) [item_mode item; item_pid item]]) kItems).
    intros item b. unfold request_item, Info.
    apply scripted_last; [apply (Request_scripted _ _ _ (Some _))|]. intros response. apply scripted_unseen. unseen.
Qed.
Lemma log_codes_unseen codes : unseen link_write (log_codes codes).
Proof. induction codes; cbn [log_codes]; unfold Info; unseen; done. Qed.
Lemma ReadDtcs_scripted fuel request report : scripted link_write (code_script (dr_protocol request)) (ReadDtcs fuel request report).
Proof.
  unfold ReadDtcs, Info. apply scripted_last; [|intros; apply scripted_unseen; unseen].
  apply (scripted_for_each _ (fun l => [obd (dr_protocol request) [cl_mode l]]) kLists). intros list b. unfold request_codes, Info.
  apply scripted_last; [apply (Request_scripted _ _ _ None)|]. intros response. apply scripted_unseen. unseen; apply log_codes_unseen.
Qed.
Lemma await_cleared_unseen request rounds : unseen link_write (await_cleared request rounds).
Proof.
  induction rounds as [|rounds IH]; [apply unseen_ret|]. cbn [await_cleared]. unfold Error. unseen; first [apply ReadFrame_unseen|apply IH].
Qed.
Lemma Body_scripted fuel request : scripted link_write (dtc_script request) (Body fuel request).
Proof.
  unfold Body, dtc_script, info_script. rewrite <- !app_assoc. apply scripted_tryo; [apply Init_scripted|]. intros _.
  rewrite app_assoc. apply scripted_tryo; [apply VehicleInfo_scripted|]. intros report. case_bool_decide.
  - rewrite app_nil_r. apply ReadDtcs_scripted.
  - unfold ClearDtcs, Info. apply scripted_tryo; [apply ReadDtcs_scripted|]. intros r. apply scripted_last; [apply write_scripted|]. intros _.
    apply scripted_unseen. unseen. apply await_cleared_unseen.
Qed.
(** *** The end of a session *)
Definition link_read (e : event) : list (result Ports.Error (option (list Z))) :=
  match e with EvPort (LinkRead _) r => [r] | EvPort (LinkReadObd _) r => [r] | _ => [] end.
(** The last frame read acknowledges a clear request. *)
Definition acknowledged (protocol : ObdProtocol) (l : list (result Ports.Error (option (list Z)))) : Prop :=
  exists pre f, l = pre ++ [Ok (Some f)] /\ ResponseIndex protocol < zlen f /\ zget f (ResponseIndex protocol) = 0x44.
Lemma acknowledged_app protocol l1 l2 : acknowledged protocol l2 -> acknowledged protocol (l1 ++ l2).
Proof. intros (pre & f & -> & Hf). exists (l1 ++ pre), f. by rewrite app_assoc. Qed.
Lemma ReadFrame_reads timeout : observes link_read (ReadFrame timeout) (fun r l => l = [r]).
Proof.
  unfold ReadFrame. apply (observes_bind _ _ (fun _ l => l = [])).
  { by apply (observes_Call link_read LinkUsesJ2534). }
  intros [] l ->; [apply (observes_Call link_read (LinkRead timeout))|apply (observes_Call link_read (LinkReadObd timeout))]; done.
Qed.
Lemma await_cleared_reads request rounds :
  observes link_read (await_cleared request rounds) (fun r l => r = Some (Ok true) -> acknowledged (dr_protocol request) l).
Proof.
  induction rounds as [|rounds IH]; [by apply observes_ret|]. cbn [await_cleared]. unfold Error.
  apply (observes_bind _ _ (fun r l => exists a, r = Some a /\ l = [a])).
  { apply (observes_bind _ _ _ _ (ReadFrame_reads kShortRead)). intros r l ->. apply observes_ret. by exists r. }
  intros r l (a & -> & ->). destruct a as [[f|]|e]; [|by apply observes_ret..]. cbv zeta.
  set (index := ResponseIndex (dr_protocol request)). destruct (Z.leb_spec (zlen f) index) as [|Hl].
  { apply (observes_weaken _ _ _ IH). intros r l Hl Hr. apply (acknowledged_app _ [_]). auto. }
  destruct (zget f index =? 0x7F).
  { apply (observes_bind _ _ (fun _ l => l = [])); [by apply unseen_Log|]. intros _ l ->. by apply observes_ret. }
  change (Z.lor kClearDtcs 0x40) with 0x44. destruct (Z.eqb_spec (zget f index) 0x44); cbn [negb].
  - apply observes_ret. intros _. by exists [], f.
  - apply (observes_bind _ _ (fun _ l => l = [])); [by apply unseen_Log|]. intros _ l ->. by apply observes_ret.
Qed.
Lemma Body_acknowledged fuel request : dr_operation request = kClearCodes ->
  ends link_read (acknowledged (dr_protocol request)) (Body fuel request).
Proof.
  intros Ho. unfold Body. rewrite bool_decide_false by (by rewrite Ho). pose proof (acknowledged_app (dr_protocol request)) as Happ.
  eapply ends_tryo; [exact Happ|exact (Init_scripted request)|]. intros _.
  eapply ends_tryo; [exact Happ|exact (VehicleInfo_scripted fuel request empty_report)|]. intros r. unfold ClearDtcs.
  eapply ends_tryo; [exact Happ|exact (ReadDtcs_scripted fuel request r)|]. intros r'.
  eapply ends_tryo; [exact Happ|exact (write_scripted _)|]. intros _. apply ends_last.
  { intros []; unfold Info; unseen. }
  apply (observes_weaken _ _ _ (await_cleared_reads request fuel)). intros [[[]|e]|] l Hl; try done; [by intros _; apply Hl|].
  by intros [t Ht].
Qed.
Definition kept (b : bool) (r : DtcReport) : Prop := cleared r = b.
Lemma push_page_kept b page r : kept b r -> kept b (push_page page r).
Proof. by destruct r. Qed.
Lemma set_info_kept b f v r : kept b r -> kept b (set_info f v r).
Proof. by destruct r, f. Qed.
Lemma set_codes_kept b f v r : kept b r -> kept b (set_codes f v r).
Proof. by destruct r, f. Qed.
Lemma slept_kept b r : kept b r -> brings (kept b) (do? _ <- answering (Sleep kBetweenRequests); ret (Some (Ok r))).
Proof.
  intros Hr. apply (brings_tryo (fun _ => True)); [|intros _ _; by apply brings_done].
  exact (brings_any _ _ (unseen_returns link_write _ (unseen_Sleep link_write _ ltac:(done)))).
Qed.
Lemma request_page_kept fuel request b entry r : kept b r -> brings (kept b) (request_page fuel request entry r).
Proof.
  intros Hc. destruct entry as [page pid]. unfold request_page.
  apply (brings_tryo (fun _ => True)); [exact (brings_any _ _ (Request_scripted fuel request kLiveData (Some pid) false))|].
  intros [|x response] _; (apply (brings_bind (kept b)); [|intros; by apply slept_kept]); [by apply runs_ret|].
  unfold Info. apply (runs_bind _ _ (fun _ _ => True)); [by apply runs_Log|]. intros _.
  apply (runs_bind _ _ (fun _ _ => True)); [by apply runs_Log|]. intros _. apply runs_ret. intros. by apply push_page_kept.
Qed.
Lemma request_item_kept fuel request b item r : kept b r -> brings (kept b) (request_item fuel request item r).
Proof.
  intros Hc. unfold request_item.
  apply (brings_tryo (fun _ => True)); [exact (brings_any _ _ (Request_scripted fuel request (item_mode item) (Some (item_pid item)) false))|].
  intros [|x response] _; (apply (brings_bind (kept b)); [|intros; by apply slept_kept]); [by apply runs_ret|].
  unfold Info. apply (runs_bind _ _ (fun _ _ => True)); [by apply runs_Log|]. intros _.
  apply (runs_bind _ _ (fun _ _ => True)); [destruct (also_text item); [by apply runs_Log|by apply runs_ret]|].
  intros _. apply runs_ret. intros. by apply set_info_kept.
Qed.
Lemma request_codes_kept fuel request b list r : kept b r -> brings (kept b) (request_codes fuel request list r).
Proof.
  intros Hc. unfold request_codes.
  apply (brings_tryo (fun _ => True)); [exact (brings_any _ _ (Request_scripted fuel request (cl_mode list) None true))|].
  intros [|x response] _; [apply brings_failed|]. unfold Info.
  eapply brings_then; [exact (unseen_Log link_write _ _ ltac:(done))|]. intros _. cbv zeta.
  eapply brings_then; [exact (log_codes_unseen _)|]. intros _. by apply slept_kept, set_codes_kept.
Qed.
Lemma ReadDtcs_kept fuel request b r : kept b r -> brings (kept b) (ReadDtcs fuel request r).
Proof.
  intros Hr. unfold ReadDtcs. apply (brings_tryo (kept b)); [apply brings_for_each; [done|intros; by apply request_codes_kept]|].
  intros r' Hr'. eapply brings_then; [exact (unseen_Log link_write _ _ ltac:(done))|]. intros _. by apply brings_done.
Qed.
Lemma Body_cleared fuel request :
  brings (fun r => cleared r = bool_decide (dr_operation request = kClearCodes)) (Body fuel request).
Proof.
  unfold Body. apply (brings_tryo (fun _ => True)); [exact (brings_any _ _ (Init_scripted request))|]. intros _ _.
  apply (brings_tryo (kept false)).
  { unfold VehicleInfo. eapply brings_then; [exact (unseen_Log link_write _ _ ltac:(done))|]. intros _.
    apply (brings_tryo (fun _ => True)); [exact (brings_any _ _ (unseen_returns link_write _ (unseen_Sleep link_write _ ltac:(done))))|].
    intros _ _. apply (brings_tryo (kept false)); [apply brings_for_each; [done|intros; by apply request_page_kept]|].
    intros r Hr. apply brings_for_each; [done|intros; by apply request_item_kept]. }
  intros r Hr. destruct (dr_operation request); [by apply ReadDtcs_kept|].
  change (bool_decide (kClearCodes = kReadCodes)) with false. change (bool_decide (kClearCodes = kClearCodes)) with true. unfold ClearDtcs.
  apply (brings_tryo (kept false)); [by apply ReadDtcs_kept|]. intros r' Hr'.
  apply (brings_tryo (fun _ => True)); [exact (brings_any _ _ (write_scripted _))|]. intros _ _.
  apply (brings_tryo (fun _ => True)); [exact (brings_any _ _ (await_cleared_unseen _ _))|]. intros [] _; [|apply brings_failed].
  cbn [negb]. eapply brings_then; [exact (unseen_Log link_write _ _ ltac:(done))|]. intros _. apply brings_done. by destruct r'.
Qed.
End session.
Section session_claims.
Context `{Env}.
(** C19: What a trouble-code session does, in every environment and with any patience.
    The requests it writes are a beginning of one fixed script, the whole of it when it
    succeeds: vehicle information, stored and pending codes, and only for a clear the
    clear request, last and so only after both lists were read. It reports codes as
    cleared exactly when that was asked for, and then the last frame it read is the
    unit's acknowledgement. Whenever it returns, its last two calls remove the header
    and reset the link. *)
Theorem dtc_session_script fuel request :
  runs (RunDtcSession fuel request) (fun answer d =>
    (if succeeded answer then observed link_write d = dtc_script request else observed link_write d `prefix_of` dtc_script request)
    /\ (forall report, answer = Some (Ok report) ->
          cleared report = bool_decide (dr_operation request = kClearCodes)
          /\ (cleared report = true -> acknowledged (dr_protocol request) (observed link_read d)))
    /\ (forall outcome, answer = Some outcome ->
          exists before a b, d = before ++ [EvPort (LinkSetHeader kHeaderNone) a; EvPort LinkReset b])).
Proof.
  unfold RunDtcSession, DtcRun.Execute. pose proof (Body_scripted fuel request) as Hs. pose proof (Body_cleared fuel request) as Hc.
  assert (runs (DtcRun.Body fuel request) (fun r d => succeeded r = true -> dr_operation request = kClearCodes ->
    acknowledged (dr_protocol request) (observed link_read d))) as Ha.
  { destruct (dr_operation request) eqn:Ho; [apply (runs_weaken _ _ _ Hs); by intros|].
    apply (runs_weaken _ _ _ (Body_acknowledged fuel request Ho)). auto. }
  intros t. destruct (runs_and _ _ _ Hs (runs_and _ _ _ Hc Ha) t) as (d & E & Hd & Hcl & Hack). unfold bind.
  destruct (DtcRun.Body fuel request t) as [[outcome|] t1]; cbn [fst snd] in *; subst t1.
  - unfold bind, Call, ret. cbn [fst snd]. set (a := env_port _ _). set (b := env_port _ _).
    exists (d ++ [EvPort (LinkSetHeader kHeaderNone) a; EvPort LinkReset b]). split; [by rewrite <- !app_assoc|].
    rewrite !observed_app. cbn [observed map List.concat app]. rewrite !app_nil_r. split; [done|]. split; [|intros; by exists d, a, b].
    intros report [= ->]. specialize (Hcl report eq_refl). split; [done|]. intros Hr. rewrite Hcl in Hr.
    apply bool_decide_eq_true in Hr. by apply Hack.
  - exists d. split; [done|]. split; [done|]. by split.
Qed.
End session_claims.

(** ** A unit on CAN

    It answers the requests of a session, each with one frame: live data by their
    identifier, vehicle information after a count byte, trouble codes as big-endian
    words after their number, and acknowledges a clear. A zero word is padding. *)
Record ObdUnit := {
  live : Z -> list Z; vehicle : Z -> list Z; stored_words : list Z; pending_words : list Z; openport : bool }.
Definition codes_in (words : list Z) : list Z := List.filter (fun c => negb (c =? 0)) words.
Definition be_words (codes : list Z) : list Z := flat_map be16 codes.
Definition unit_payload (u : ObdUnit) (payload : list Z) : list Z :=
  match payload with
  | [0x01; pid] => 0x41 :: pid :: live u pid
  | [0x09; pid] => 0x49 :: pid :: 1 :: vehicle u pid
  | [0x03] => 0x43 :: u8 (zlen (codes_in (stored_words u))) :: be_words (stored_words u)
  | [0x07] => 0x47 :: u8 (zlen (codes_in (pending_words u))) :: be_words (pending_words u)
  | [0x04] => [0x44]
  | _ => [0x7F; zget payload 0; 0x11]
  end.
Definition unit_frame (u : ObdUnit) (request : list Z) : list Z := [0; 0; 0x07; 0xE8] ++ unit_payload u (drop 4 request).
(** What is left to read. *)
Definition unit_queue (u : ObdUnit) (q : list (list Z)) (e : event) : list (list Z) :=
  match e with
  | EvPort (LinkWrite request) _ => [unit_frame u request]
  | EvPort (LinkRead _) _ | EvPort (LinkReadObd _) _ => tail q
  | _ => q
  end.
Definition queue_at (u : ObdUnit) (t : trace) : list (list Z) := fold_left (unit_queue u) t [].
Definition obd_unit (u : ObdUnit) : Env := {|
  env_cancelled := fun _ => false;
  env_sleep := fun _ _ => Ok tt;
  env_reset := fun _ => Ok tt;
  env_configure := fun _ _ => Ok tt;
  env_open := fun _ => Ok tt;
  env_close := fun _ => Ok tt;
  env_write := fun _ _ => Ok tt;
  env_read := fun _ _ => Ok None;
  env_port := fun t c =>
    match c with
    | LinkOpenKline _ | LinkOpenCan _ | LinkReset | LinkSetHeader _ | LinkSetP1Max _ | LinkFastInit _ => Ok tt
    | LinkWrite data => Ok data
    | LinkRead _ | LinkReadObd _ => Ok (head (queue_at u t))
    | LinkUsesJ2534 => openport u
    | c => absent_port c
    end |}.
(** The report of a session with the unit, and what it says of the vehicle. *)
Definition nonempty_set {A} (v : list Z) (set : list Z -> A -> A) (a : A) : A := match v with [] => a | _ => set v a end.
Definition unit_info (u : ObdUnit) : DtcReport :=
  fold_left (fun r item => nonempty_set (if item_mode item =? kLiveData then drop 1 (live u (item_pid item)) else vehicle u (item_pid item))
               (set_info (item_field item)) r) kItems
    (fold_left (fun r e => nonempty_set (drop 1 (live u (snd e))) (fun v => push_page {| sp_page := fst e; sp_bitmap := v |}) r)
       (zip (seqZ 0 7) kSupportPages) empty_report).
Definition unit_report (u : ObdUnit) (operation : DtcOperation) : DtcReport :=
  let r := set_codes FPending (merge_sort Z.le (codes_in (pending_words u)))
             (set_codes FStored (merge_sort Z.le (codes_in (stored_words u))) (unit_info u)) in
  if bool_decide (operation = kReadCodes) then r else set_cleared r.
Definition known (v : list Z) : option (list Z) := match v with [] => None | _ => Some v end.
Section obd_unit.
Context (u : ObdUnit).
#[local] Existing Instance obd_unit.
Lemma queue_at_snoc t e : queue_at u (t ++ [e]) = unit_queue u (queue_at u t) e.
Proof. unfold queue_at. by rewrite fold_left_app. Qed.
Lemma ReadFrame_unit timeout t : exists t', DtcRun.ReadFrame (H := obd_unit u) timeout t = (Ok (head (queue_at u t)), t')
  /\ queue_at u t' = tail (queue_at u t).
Proof.
  unfold DtcRun.ReadFrame, bind, Call. cbn [env_port obd_unit]. destruct (openport u); rewrite !queue_at_snoc; cbn [unit_queue];
    (eexists; split; [reflexivity|]); by rewrite !queue_at_snoc.
Qed.
Lemma collect_unit operation fuel mode pid dtc_list f t : (2 <= fuel)%nat -> queue_at u t = [f] ->
  CheckResponse kIso15765 f mode pid = kOk ->
  fst (DtcRun.collect (H := obd_unit u) {| dr_protocol := kIso15765; dr_operation := operation |} fuel mode pid dtc_list [] t)
  = Some (Ok (if dtc_list then UnframeDtcListResponse kIso15765 f else UnframeDataResponse kIso15765 f)).
Proof.
  intros Hf Hq Hc. destruct fuel as [|[|fuel]]; [lia..|]. cbn [DtcRun.collect]. unfold tryo, answering, bind, ret.
  destruct (ReadFrame_unit kShortRead t) as (t1 & -> & Hq1). rewrite Hq in *. cbn [head tail hd_error] in *. cbn [dr_protocol]. rewrite Hc.
  destruct (ReadFrame_unit kShortRead t1) as (t2 & -> & _). rewrite Hq1. cbn. by destruct dtc_list.
Qed.
Lemma Request_unit operation fuel mode pid (dtc_list : bool) data : (2 <= fuel)%nat ->
  let f := unit_frame u (obd kIso15765 (mode :: option_list pid)) in
  CheckResponse kIso15765 f mode pid = kOk ->
  (if dtc_list then UnframeDtcListResponse kIso15765 f else UnframeDataResponse kIso15765 f) = data ->
  surely (DtcRun.Request (H := obd_unit u) fuel {| dr_protocol := kIso15765; dr_operation := operation |} mode pid dtc_list) (Some (Ok data)).
Proof.
  intros Hf f Hc <- t. unfold DtcRun.Request, tryo, answering, bind, ret, Call. cbn [env_port obd_unit dr_protocol].
  apply collect_unit; [done| |done]. rewrite queue_at_snoc. done.
Qed.
Lemma surely_Sleep ms : surely (Sleep (H := obd_unit u) ms) (Ok tt).
Proof. done. Qed.
Lemma surely_Log level message : surely (Log level message) tt.
Proof. done. Qed.
Lemma reply_ok reply mode pid data : reply = u8 (Z.lor mode 0x40) -> reply <> 0x7F ->
  CheckResponse kIso15765 ([0; 0; 0x07; 0xE8] ++ reply :: pid :: data) mode (Some pid) = kOk
  /\ CheckResponse kIso15765 ([0; 0; 0x07; 0xE8] ++ reply :: pid :: data) mode None = kOk.
Proof.
  intros Hr Hn. unfold CheckResponse. change (ResponseIndex kIso15765) with 4. cbn [app].
  change (zget (0 :: 0 :: 0x07 :: 0xE8 :: reply :: pid :: data) 4) with reply.
  change (zget (0 :: 0 :: 0x07 :: 0xE8 :: reply :: pid :: data) (4 + 1)) with pid.
  pose proof (zlen_nonneg data). rewrite !zlen_cons, !(proj2 (Z.leb_gt _ _)) by lia. rewrite <- Hr, !Z.eqb_refl. apply Z.eqb_neq in Hn. by rewrite Hn.
Qed.
Lemma subspan_from_cons a (l : list Z) n : 0 < n -> subspan (a :: l) n (zlen (a :: l) - n) = subspan l (n - 1) (zlen l - (n - 1)).
Proof.
  intros Hn. unfold subspan, zdrop. rewrite zlen_cons. replace (1 + zlen l - n) with (zlen l - (n - 1)) by lia.
  replace (Z.to_nat n) with (S (Z.to_nat (n - 1))) by lia. done.
Qed.
Lemma Tail_cons a l n : 0 < n -> Tail (a :: l) n = Tail l (n - 1).
Proof.
  intros Hn. unfold Tail. rewrite subspan_from_cons by done. rewrite zlen_cons. destruct (Z.leb_spec (zlen l) (n - 1)).
  - by rewrite (proj2 (Z.leb_le _ _)) by lia.
  - by rewrite (proj2 (Z.leb_gt _ _)) by lia.
Qed.
Lemma Tail_0 l : Tail l 0 = l.
Proof.
  unfold Tail. destruct l as [|a l]; [done|]. pose proof (zlen_nonneg l). rewrite (proj2 (Z.leb_gt _ _)) by (rewrite zlen_cons; lia).
  apply subspan_full. lia.
Qed.
Lemma Tail_1 l : Tail l 1 = drop 1 l.
Proof. destruct l as [|a l]; [done|]. rewrite Tail_cons by lia. apply Tail_0. Qed.
Lemma slept_unit A (a : A) : surely (do? _ <- answering (Sleep (H := obd_unit u) kBetweenRequests); ret (Some (Ok a))) (Some (Ok a)).
Proof. done. Qed.
Lemma request_page_unit operation fuel e r : (2 <= fuel)%nat ->
  surely (DtcRun.request_page (H := obd_unit u) fuel {| dr_protocol := kIso15765; dr_operation := operation |} e r)
    (Some (Ok (nonempty_set (drop 1 (live u (snd e))) (fun v => push_page {| sp_page := fst e; sp_bitmap := v |}) r))).
Proof.
  intros Hf. destruct e as [page pid]. unfold DtcRun.request_page. cbn [fst snd].
  apply (surely_tryo _ _ (drop 1 (live u pid))).
  { apply Request_unit; [done| |].
    - apply (reply_ok 0x41 kLiveData pid (live u pid)); done.
    - cbv iota. unfold UnframeDataResponse. rewrite bool_decide_true by done. change (ResponseIndex kIso15765 + 3) with 7.
      change (unit_frame u (obd kIso15765 (kLiveData :: option_list (Some pid)))) with (0 :: 0 :: 0x07 :: 0xE8 :: 0x41 :: pid :: live u pid).
      rewrite !Tail_cons by lia. apply Tail_1. }
  by destruct (drop 1 (live u pid)).
Qed.
Lemma request_item_unit operation fuel item r : (2 <= fuel)%nat -> item ∈ kItems ->
  surely (DtcRun.request_item (H := obd_unit u) fuel {| dr_protocol := kIso15765; dr_operation := operation |} item r)
    (Some (Ok (nonempty_set (if item_mode item =? kLiveData then drop 1 (live u (item_pid item)) else vehicle u (item_pid item))
       (set_info (item_field item)) r))).
Proof.
  intros Hf Hi. unfold DtcRun.request_item. set (data := if item_mode item =? kLiveData then _ else _).
  apply (surely_tryo _ _ data); [|destruct data; [done|by destruct (also_text item)]].
  assert (item_mode item = 1 \/ item_mode item = 9) as Hm.
  { apply (proj1 (list.Forall_forall (fun i => item_mode i = 1 \/ item_mode i = 9) kItems)); [|done].
    repeat (apply List.Forall_cons; [cbn; auto|]); apply List.Forall_nil. }
  destruct item as [mode pid label field text]. cbn [item_mode item_pid] in *.
  apply Request_unit; [done| |]; cbv iota; destruct Hm as [-> | ->].
  - apply (reply_ok 0x41 1 pid (live u pid)); done.
  - apply (reply_ok 0x49 9 pid (1 :: vehicle u pid)); done.
  - unfold UnframeDataResponse. rewrite bool_decide_true by done. change (ResponseIndex kIso15765 + 3) with 7.
    change (unit_frame u (obd kIso15765 (1 :: option_list (Some pid)))) with (0 :: 0 :: 0x07 :: 0xE8 :: 0x41 :: pid :: live u pid).
    rewrite !Tail_cons by lia. apply Tail_1.
  - unfold UnframeDataResponse. rewrite bool_decide_true by done. change (ResponseIndex kIso15765 + 3) with 7.
    change (unit_frame u (obd kIso15765 (9 :: option_list (Some pid)))) with (0 :: 0 :: 0x07 :: 0xE8 :: 0x49 :: pid :: 1 :: vehicle u pid).
    rewrite !Tail_cons by lia. apply Tail_0.
Qed.
(** *** Codes in and out of words *)
Lemma dtc_words_be pre words : Forall (fun c => 0 <= c < 65536) words ->
  dtc_words (pre ++ be_words words) (zlen pre) (length words) = codes_in words.
Proof.
  intros Hc. revert pre. induction Hc as [|c words Hc _ IH]; intros pre; [done|]. cbn [length dtc_words]. cbv zeta.
  change (be_words (c :: words)) with (be16 c ++ be_words words).
  assert (ReadU16Be (pre ++ be16 c ++ be_words words) (zlen pre) = c) as ->.
  { pose proof (zlen_nonneg pre). pose proof (zlen_nonneg (be_words words)). transitivity (ReadU16Be (be16 c) 0).
    - apply ReadU16Be_ext; rewrite ?zlen_app, ?zlen_be16; try lia. intros i Hi. rewrite zget_app_r by lia. rewrite zget_app_l by (rewrite zlen_be16; lia).
      f_equal. lia.
    - rewrite ReadU16Be_be16. apply u16_small. unfold u16_ok. lia. }
  assert (dtc_words (pre ++ be16 c ++ be_words words) (zlen pre + 2) (length words) = codes_in words) as ->.
  { rewrite app_assoc. specialize (IH (pre ++ be16 c)). by rewrite zlen_app, zlen_be16 in IH. }
  unfold codes_in. cbn [List.filter]. by destruct (negb (c =? 0)).
Qed.
Lemma zlen_be_words words : zlen (be_words words) = 2 * zlen words.
Proof. induction words as [|c words IH]; [done|]. change (be_words (c :: words)) with (be16 c ++ be_words words). rewrite zlen_app, zlen_be16, IH, zlen_cons. lia. Qed.
Lemma DecodeDtcs_be words : Forall (fun c => 0 <= c < 65536) words -> DecodeDtcs (be_words words) = merge_sort Z.le (codes_in words).
Proof.
  intros Hc. unfold DecodeDtcs. f_equal. rewrite zlen_be_words. replace ((2 * zlen words + 1) / 2) with (zlen words) by zmod.
  unfold zlen. rewrite Nat2Z.id. exact (dtc_words_be [] words Hc).
Qed.
Lemma request_codes_unit operation fuel list words reply count r : (2 <= fuel)%nat ->
  list ∈ kLists -> unit_payload u [cl_mode list] = reply :: count :: be_words words ->
  reply = u8 (Z.lor (cl_mode list) 0x40) -> Forall (fun c => 0 <= c < 65536) words -> words <> [] ->
  surely (DtcRun.request_codes (H := obd_unit u) fuel {| dr_protocol := kIso15765; dr_operation := operation |} list r)
    (Some (Ok (set_codes (cl_field list) (merge_sort Z.le (codes_in words)) r))).
Proof.
  intros Hf Hl Hp Hr Hc Hne. unfold DtcRun.request_codes. apply (surely_tryo _ _ (be_words words)).
  { assert (unit_frame u (obd kIso15765 (cl_mode list :: option_list None)) = 0 :: 0 :: 0x07 :: 0xE8 :: reply :: count :: be_words words) as E.
    { unfold unit_frame. change (drop 4 (obd kIso15765 (cl_mode list :: option_list None))) with [cl_mode list]. by rewrite Hp. }
    apply Request_unit; [done|rewrite E|cbv zeta iota; rewrite E].
    - apply (reply_ok reply (cl_mode list) count (be_words words)); [done|]. rewrite Hr.
      apply (proj1 (list.Forall_forall (fun l => u8 (Z.lor (cl_mode l) 0x40) <> 0x7F) kLists)); [|done].
      repeat (apply List.Forall_cons; [done|]); apply List.Forall_nil.
    - unfold UnframeDtcListResponse. rewrite bool_decide_true by done. change (ResponseIndex kIso15765 + 2) with 6.
      rewrite !Tail_cons by lia. apply Tail_0. }
  rewrite <- DecodeDtcs_be by done. destruct words as [|c words]; [done|].
  change (be_words (c :: words)) with (be16 c ++ be_words words). set (data := be16 c ++ be_words words).
  assert (exists b bs, data = b :: bs) as (b & bs & ->) by (unfold data, be16, AppendU16Be; cbn; eauto).
  apply (surely_bind _ _ tt); [done|]. cbv zeta. apply (surely_bind _ _ tt); [|done]. intros t. by destruct (DtcRun.log_codes _ t) as [[] ?].
Qed.
(** What a unit may hold: lists of 16-bit words, each of at least one word. *)
Definition words_ok (words : list Z) : Prop := Forall (fun c => 0 <= c < 65536) words /\ words <> [].
Lemma session_unit fuel operation t : (2 <= fuel)%nat -> words_ok (stored_words u) -> words_ok (pending_words u) ->
  fst (RunDtcSession (H := obd_unit u) fuel {| dr_protocol := kIso15765; dr_operation := operation |} t)
  = Some (Ok (unit_report u operation)).
Proof.
  intros Hf [Hs Hs'] [Hp Hp']. unfold RunDtcSession, DtcRun.Execute.
  assert (surely (DtcRun.Body (H := obd_unit u) fuel {| dr_protocol := kIso15765; dr_operation := operation |})
            (Some (Ok (unit_report u operation)))) as Hb; [|unfold bind; specialize (Hb t); by destruct (DtcRun.Body _ _ t) as [x t1]; cbn in Hb; subst x].
  unfold DtcRun.Body. apply (surely_tryo _ _ tt).
  { intros t'. unfold answering, DtcRun.Init, DtcRun.CanInit, try, bind, ret, Call, DtcRun.Info, Log. cbn [dr_protocol env_port obd_unit].
    rewrite queue_at_snoc. cbn [unit_queue head hd_error default].
    change (unit_frame u (BuildRequest kIso15765 kCanSource [kLiveData; 0])) with (0 :: 0 :: 0x07 :: 0xE8 :: 0x41 :: 0 :: live u 0). unfold Datatypes.id.
    pose proof (zlen_nonneg (live u 0)). rewrite !zlen_cons, (proj2 (Z.leb_gt _ _)) by lia. done. }
  apply (surely_tryo _ _ (unit_info u)).
  { unfold DtcRun.VehicleInfo, unit_info. apply (surely_bind _ _ tt); [done|]. apply (surely_tryo _ _ tt); [done|].
    eapply surely_tryo; [apply surely_for_each; intros; by apply request_page_unit|]. apply surely_for_each. intros. by apply request_item_unit. }
  cbn [dr_operation].
  assert (surely (DtcRun.ReadDtcs (H := obd_unit u) fuel {| dr_protocol := kIso15765; dr_operation := operation |} (unit_info u))
            (Some (Ok (unit_report u kReadCodes)))) as Hread.
  { unfold DtcRun.ReadDtcs, unit_report. rewrite (bool_decide_true (kReadCodes = kReadCodes)) by done. cbv zeta.
    set (stored_list := {| cl_mode := kStoredDtcs; cl_label := "Stored DTCs: "; cl_missing := "no stored DTC response"; cl_field := FStored |}).
    set (pending_list := {| cl_mode := kPendingDtcs; cl_label := "Pending DTCs: "; cl_missing := "no pending DTC response"; cl_field := FPending |}).
    cbn [for_each kLists]. eapply surely_tryo; [|done].
    eapply surely_tryo; [by apply (request_codes_unit operation fuel stored_list (stored_words u) 0x43 _ (unit_info u) Hf ltac:(by left) eq_refl eq_refl)|].
    eapply surely_tryo; [by apply (request_codes_unit operation fuel pending_list (pending_words u) 0x47 _ _ Hf ltac:(by right; left) eq_refl eq_refl)|done]. }
  destruct operation; [exact Hread|]. unfold DtcRun.ClearDtcs. eapply surely_tryo; [exact Hread|].
  unfold unit_report. change (bool_decide (kReadCodes = kReadCodes)) with true. change (bool_decide (kClearCodes = kReadCodes)) with false. cbv iota zeta.
  intros t'. unfold tryo at 1, answering, bind at 1, ret, Call. cbn [env_port obd_unit dr_protocol]. unfold bind at 1. cbv beta iota zeta.
  destruct fuel as [|fuel]; [lia|]. set (t1 := t' ++ _). assert (queue_at u t1 = [[0; 0; 0x07; 0xE8; 0x44]]) as Hq by (unfold t1; by rewrite queue_at_snoc).
  cbn [DtcRun.await_cleared]. unfold tryo, answering, bind, ret. destruct (ReadFrame_unit kShortRead t1) as (t2 & -> & _). by rewrite Hq.
Qed.
(** The report field by field. *)
Lemma pages_keep (l : list (Z * Z)) r0 :
  let r := fold_left (fun r e => nonempty_set (drop 1 (live u (snd e))) (fun v => push_page {| sp_page := fst e; sp_bitmap := v |}) r) l r0 in
  vin_length r = vin_length r0 /\ vin r = vin r0 /\ cal_id_length r = cal_id_length r0 /\ cal_id r = cal_id r0
  /\ cvn_length r = cvn_length r0 /\ cvn r = cvn r0 /\ cleared r = cleared r0.
Proof.
  cbv zeta. revert r0. induction l as [|e l IH]; intros r0; [done|]. cbn [fold_left].
  specialize (IH (nonempty_set (drop 1 (live u (snd e))) (fun v => push_page {| sp_page := fst e; sp_bitmap := v |}) r0)).
  destruct IH as (-> & -> & -> & -> & -> & -> & ->). unfold nonempty_set. destruct (drop 1 _); [done|by destruct r0].
Qed.
Lemma unit_info_fields :
  vin_length (unit_info u) = known (vehicle u 1) /\ vin (unit_info u) = known (vehicle u 2)
  /\ cal_id_length (unit_info u) = known (vehicle u 3) /\ cal_id (unit_info u) = known (vehicle u 4)
  /\ cvn_length (unit_info u) = known (vehicle u 5) /\ cvn (unit_info u) = known (vehicle u 6) /\ cleared (unit_info u) = false.
Proof.
  unfold unit_info. pose proof (pages_keep (zip (seqZ 0 7) kSupportPages) empty_report) as H. cbv zeta in H.
  set (r := fold_left _ (zip (seqZ 0 7) kSupportPages) empty_report) in *. destruct r as [pids m vl v cl c nl n st pe k].
  cbn [vin_length vin cal_id_length cal_id cvn_length cvn cleared empty_report] in H. destruct H as (-> & -> & -> & -> & -> & -> & ->).
  cbn [fold_left kItems item_mode item_pid item_field]. unfold nonempty_set, known. change (kLiveData =? kLiveData) with true. change (kVehicleInfo =? kLiveData) with false. cbv iota.
  destruct (drop 1 _), (vehicle u 1), (vehicle u 2), (vehicle u 3), (vehicle u 4), (vehicle u 5), (vehicle u 6); repeat split.
Qed.
(** C20: A session with a unit on CAN. For any live data and vehicle information, and any
    stored and pending trouble codes, sent as 16-bit words with at least one word in each
    answer (a zero word is padding and stands for no code), through either kind of adapter
    and from any history, a session succeeds within two reads of each answer. It reports
    the stored and the pending codes, each sorted, the vehicle information as the unit
    gives it, and that codes were cleared exactly for a clear. *)
Theorem dtc_session_reports fuel operation t : (2 <= fuel)%nat -> words_ok (stored_words u) -> words_ok (pending_words u) ->
  exists report,
    fst (RunDtcSession (H := obd_unit u) fuel {| dr_protocol := kIso15765; dr_operation := operation |} t) = Some (Ok report)
    /\ stored report = merge_sort Z.le (codes_in (stored_words u)) /\ pending report = merge_sort Z.le (codes_in (pending_words u))
    /\ vin_length report = known (vehicle u 1) /\ vin report = known (vehicle u 2)
    /\ cal_id_length report = known (vehicle u 3) /\ cal_id report = known (vehicle u 4)
    /\ cvn_length report = known (vehicle u 5) /\ cvn report = known (vehicle u 6)
    /\ cleared report = bool_decide (operation = kClearCodes).
Proof.
  intros Hf Hs Hp. exists (unit_report u operation). split; [by apply session_unit|]. pose proof unit_info_fields as H.
  unfold unit_report. destruct (unit_info u) as [pids m vl v cl c nl n st pe k].
  destruct H as (H1 & H2 & H3 & H4 & H5 & H6 & H7). by destruct operation.
Qed.
End obd_unit.
Definition sample_unit : ObdUnit := {|
  live := fun pid => if pid =? 0 then [0xBE; 0x1F; 0xB8; 0x10] else []; vehicle := fun pid => if pid =? 2 then [0x4A; 0x46; 0x31] else [];
  stored_words := [0x0420; 0x0133]; pending_words := [0]; openport := true |}.
Lemma dtc_session_reports_witness :
  exists report, fst (RunDtcSession (H := obd_unit sample_unit) 2 {| dr_protocol := kIso15765; dr_operation := kClearCodes |} []) = Some (Ok report)
    /\ stored report = [0x0133; 0x0420] /\ pending report = [] /\ vin report = Some [0x4A; 0x46; 0x31] /\ cleared report = true.
Proof.
  assert (words_ok (stored_words sample_unit) /\ words_ok (pending_words sample_unit)) as [Hs Hp]
    by (split; (split; [repeat constructor; lia|discriminate])).
  destruct (dtc_session_reports sample_unit 2 kClearCodes [] ltac:(lia) Hs Hp) as (report & E & E1 & E2 & _ & E3 & _ & _ & _ & _ & E4).
  exists report. rewrite E1, E2, E3, E4. split; [exact E|]. repeat split; vm_compute; reflexivity.
Defined.

(** ** What an identification rests on *)
Definition got (l : list (result Error (option (list Z)))) : list Z :=
  flat_map (fun a => match a with Ok (Some bytes) => bytes | _ => [] end) l.
Lemma got_app l1 l2 : got (l1 ++ l2) = got l1 ++ got l2.
Proof. apply flat_map_app. Qed.
(** A frame as an SSM unit sends it in answer to an init. *)
Record init_frame (target : SsmTarget) (f : list Z) : Prop := {
  if_header : zget f 0 = 0x80; if_tester : zget f 1 = 0xF0; if_target : zget f 2 = SsmIdentify.TargetId target;
  if_length : zlen f = zget f 3 + 5; if_code : zget f 4 = 0xFF;
  if_checksum : zget f (zlen f - 1) = SsmIdentify.SsmChecksum (subspan f 0 (zlen f - 1)) }.
Section identify_proofs.
Context `{Env}.
Import SsmIdentify.
Lemma ReadInto_reads frame timeout :
  observes link_read (ReadInto frame timeout) (fun r l => length l = 1%nat /\ forall b f, r = Ok (b, f) -> f = frame ++ got l).
Proof.
  unfold ReadInto. apply (observes_try _ _ (fun r l => l = [r])); [by apply (observes_Call link_read (LinkRead timeout))| |].
  - intros a l ->. apply observes_ret. split; [done|]. intros b f [= E]. destruct a as [bytes|]; injection E as <- <-; cbn; by rewrite ?app_nil_r.
  - intros e l ->. by split.
Qed.
Lemma read_up_to_reads attempts frame size :
  observes link_read (read_up_to attempts frame size) (fun r l => (length l <= attempts)%nat /\ forall f, r = Ok f -> f = frame ++ got l).
Proof.
  revert frame. induction attempts as [|attempts IH]; intros frame; cbn [read_up_to]; destruct (zlen frame <? size).
  2, 4: apply observes_ret; split; [cbn; lia|]; intros f [= <-]; by rewrite app_nil_r.
  - apply observes_ret. split; [done|]. intros f [= <-]. by rewrite app_nil_r.
  - apply (observes_try _ _ _ _ (ReadInto_reads frame 50)).
    + intros [b f] l1 [Hl Hg]. apply (observes_weaken _ _ _ (IH f)). intros r l2 [Hl2 Hg2]. rewrite length_app, got_app. split; [lia|].
      intros f' Hf'. rewrite (Hg2 f' Hf'), (Hg b f eq_refl). by rewrite app_assoc.
    + intros e l [Hl _]. split; [lia|done].
Qed.
Lemma ReadSsm2InitFrame_reads : observes link_read ReadSsm2InitFrame (fun r l => (length l <= 21)%nat
  /\ forall f, r = Ok f -> f `prefix_of` got l /\ (bytes_ok (got l) -> zlen f = zget f 3 + 5)).
Proof.
  unfold ReadSsm2InitFrame, ReadUpTo. apply (observes_try _ _ _ _ (ReadInto_reads [] 200)); [|intros e l [Hl _]; split; [lia|done]].
  intros [b f0] l0 [Hl0 Hg0]. specialize (Hg0 b f0 eq_refl). cbn [snd app] in *.
  apply (observes_try _ _ _ _ (read_up_to_reads 10 f0 4)); [|intros e l [Hl _]; rewrite length_app; split; [lia|done]].
  intros f1 l1 [Hl1 Hg1]. specialize (Hg1 f1 eq_refl). destruct f1 as [|x f1]; [apply observes_ret; rewrite !length_app; cbn; split; [lia|done]|].
  set (f := x :: f1) in *. destruct (Z.ltb_spec (zlen f) 4); [apply observes_ret; rewrite !length_app; cbn; split; [lia|done]|]. cbv zeta.
  apply (observes_try _ _ _ _ (read_up_to_reads 10 f (zget f 3 + kSsmFrameOverhead))); [|intros e l [Hl _]; rewrite !length_app; split; [lia|done]].
  intros f2 l2 [Hl2 Hg2]. specialize (Hg2 f2 eq_refl). apply observes_ret. rewrite !length_app, app_nil_r. split; [cbn; lia|].
  unfold kSsmFrameOverhead in *. intros f' E. destruct (Z.ltb_spec (zlen f2) (zget f 3 + 5)); [done|]. injection E as <-. split.
  - rewrite !got_app, <- Hg0, app_assoc, <- Hg1, <- Hg2. unfold subspan, ztake, zdrop. cbn [Z.to_nat]. rewrite drop_0. apply prefix_take.
  - intros Hok. assert (0 <= zget f 3) as Hr.
    { assert (bytes_ok f) as Hf by (rewrite !got_app, <- Hg0, app_assoc, <- Hg1 in Hok; by apply Forall_app in Hok as [? _]).
      pose proof (bytes_ok_zget f 3 Hf). unfold byte_ok in *. lia. }
    rewrite zlen_subspan, zget_subspan by lia. change (0 + 3) with 3. assert (zget f2 3 = zget f 3) as -> by (rewrite Hg2; apply zget_app_l; lia). lia.
Qed.
Lemma ValidateSsm2Init_ok f target : zlen f = zget f 3 + 5 -> ValidateSsm2Init f target = Ok tt -> init_frame target f.
Proof.
  intros Hl. unfold ValidateSsm2Init, BadFrame. cbv zeta. unfold kSsmHeader, kSsmTester, kSsmInitResponse.
  destruct (Z.eqb_spec (zget f 3) 0); [done|]. destruct (Z.eqb_spec (zget f 0) 0x80); [|done]. destruct (Z.eqb_spec (zget f 1) 0xF0); [|done].
  destruct (Z.eqb_spec (zget f 2) (TargetId target)); [|done]. destruct (Z.eqb_spec (zget f 4) 0xFF); [|done].
  destruct (Z.eqb_spec (zget f (zlen f - 1)) (SsmChecksum (subspan f 0 (zlen f - 1)))); [|done]. cbn [negb]. by constructor.
Qed.
Lemma IdentifyKlineSsm2_writes target : scripted link_write [SsmFrame [kSsmInitCommand] target] (answering (IdentifyKlineSsm2 target)).
Proof.
  assert (forall frame timeout, unseen link_write (ReadInto frame timeout)) as Hr by (intros; unfold ReadInto; unseen).
  assert (forall n frame size, unseen link_write (read_up_to n frame size)) as Hu.
  { induction n as [|n IH]; intros frame size; cbn [read_up_to]; unseen; first [apply Hr|apply IH]. }
  unfold IdentifyKlineSsm2. apply scripted_try_unseen; [unseen|]. intros _. apply scripted_try_last.
  - unfold CheckWritten. apply scripted_try_last; [apply write_scripted|]. intros. unseen.
  - intros _. unfold ReadSsm2InitFrame, ReadUpTo. unseen; first [apply Hr|apply Hu].
Qed.
(** An SSM2 identification over K-Line, in every environment: it writes at most its one
    request and reads at most 21 times, and the identity it returns is that of a frame
    the unit sent, with the right ids, length, code and checksum. *)
Theorem kline_identity_checked target : runs (IdentifyKlineSsm2 target) (fun r d =>
  observed link_write d `prefix_of` [SsmFrame [kSsmInitCommand] target] /\ (length (observed link_read d) <= 21)%nat
  /\ forall identity, r = Ok identity -> bytes_ok (got (observed link_read d)) ->
       let f := id_init_response identity in
       f `prefix_of` got (observed link_read d) /\ init_frame target f /\ 13 <= zlen f /\ id_ecu_id identity = UpperHex (subspan f 8 5)).
Proof.
  assert (runs (IdentifyKlineSsm2 target) (fun _ d => observed link_write d `prefix_of` [SsmFrame [kSsmInitCommand] target])) as Hw.
  { intros t. destruct (IdentifyKlineSsm2_writes target t) as (d & E & Hd). unfold answering, bind, ret in E, Hd.
    destruct (IdentifyKlineSsm2 target t) as [r t1]. cbn [fst snd] in *. exists d. split; [done|]. destruct (succeeded _); [by rewrite Hd|done]. }
  refine (runs_and _ _ _ Hw (_ : observes link_read _ (fun r l => (length l <= 21)%nat
    /\ forall identity, r = Ok identity -> bytes_ok (got l) -> let f := id_init_response identity in
         f `prefix_of` got l /\ init_frame target f /\ 13 <= zlen f /\ id_ecu_id identity = UpperHex (subspan f 8 5)))).
  unfold IdentifyKlineSsm2.
  apply (observes_try _ _ (fun _ l => l = [])); [by apply (observes_Call link_read (LinkOpenKline _))| |by intros e l ->; split; [cbn; lia|]].
  intros _ l ->. apply (observes_try _ _ (fun _ l => l = [])); [|intros _ l ->|by intros e l ->; split; [cbn; lia|]].
  { unfold CheckWritten. apply (observes_try _ _ (fun _ l => l = [])); [by apply (observes_Call link_read (LinkWrite _))| |done].
    intros _ l ->. by apply observes_ret. }
  apply (observes_try _ _ (fun _ l => l = [])); [by apply unseen_Sleep| |by intros e l ->; split; [cbn; lia|]]. intros _ l ->. cbn [app].
  apply (observes_try _ _ _ _ ReadSsm2InitFrame_reads); [|by intros e l [Hl _]]. intros f l [Hl Hf]. destruct (Hf f eq_refl) as [Hp Hlen].
  apply observes_ret. rewrite app_nil_r. split; [done|]. intros identity E Hok. specialize (Hlen Hok).
  destruct (ValidateSsm2Init f target) as [[]|] eqn:Ev; [|done]. cbn [result_bind] in E. apply ValidateSsm2Init_ok in Ev; [|done].
  unfold ParseSsmEcuId, kEcuIdOffset, kEcuIdLength, BadFrame in E. destruct (Z.ltb_spec (zlen f) (8 + 5)); [done|].
  injection E as <-. cbn [id_init_response id_ecu_id]. split_and!; done || lia.
Qed.
End identify_proofs.

(** ** Scripts, printed and parsed *)
Section scripts_text.
Import TerminalScript.
Definition hex2 (b : Z) : list ascii := [digit_char (b / 16); digit_char (b mod 16)].
Fixpoint spaced (payload : list Z) : list ascii :=
  match payload with [] => [] | [b] => hex2 b | b :: payload => hex2 b ++ " "%char :: spaced payload end.
Definition print_step (step : TerminalStep) : string :=
  match step with
  | TerminalMessageStep payload => of_chars (spaced payload)
  | TerminalDelayStep duration => of_chars (kDelayPrefix ++ to_chars (fmt_d duration) ++ [close])
  end.
Definition step_ok (step : TerminalStep) : Prop :=
  match step with
  | TerminalMessageStep payload => payload <> [] /\ bytes_ok payload
  | TerminalDelayStep duration => 0 <= duration <= kMaxTerminalDelay
  end.
Definition shown (c : ascii) : bool := negb (space c).
Lemma digit_char_shown d : 0 <= d < 16 -> hex_digit (digit_char d) = Some d /\ shown (digit_char d) = true.
Proof.
  intros Hd. split; [by apply digit_char_hex|]. apply (forall_range (fun d => shown (digit_char d)) 16); [vm_compute; reflexivity|done].
Qed.
Lemma digit_char_dec d : 0 <= d < 10 -> dec_digit (digit_char d) = Some d /\ shown (digit_char d) = true.
Proof.
  intros Hd. split; [|apply digit_char_shown; lia].
  assert (d = 0 \/ d = 1 \/ d = 2 \/ d = 3 \/ d = 4 \/ d = 5 \/ d = 6 \/ d = 7 \/ d = 8 \/ d = 9) as H by lia.
  repeat destruct H as [->|H]; [done..|]. by subst d.
Qed.
Lemma skip_space_id l : (forall c l', l = c :: l' -> shown c = true) -> skip_space l = l.
Proof. destruct l as [|c l]; [done|]. intros H. cbn. specialize (H c l eq_refl). unfold shown in H. by destruct (space c). Qed.
Lemma Trim_id l : (forall c l', l = c :: l' -> shown c = true) -> (forall c l', l = l' ++ [c] -> shown c = true) -> Trim l = l.
Proof.
  intros Hf Hl. unfold Trim. rewrite (skip_space_id l Hf), skip_space_id; [apply rev_involutive|].
  intros c l' E. apply (Hl c (rev l')). rewrite <- (rev_involutive l), E. done.
Qed.
Lemma hex2_token b rest : byte_ok b -> (forall c l', rest = c :: l' -> space c = true) -> token (hex2 b ++ rest) = (hex2 b, rest).
Proof.
  intros Hb Hr. assert (shown (digit_char (b / 16)) = true /\ shown (digit_char (b mod 16)) = true) as [H1 H2].
  { unfold byte_ok in Hb. split; apply digit_char_shown; zmod. }
  unfold shown in *. unfold hex2. cbn [app token]. destruct (space (digit_char (b / 16))); [done|]. destruct (space (digit_char (b mod 16))); [done|].
  destruct rest as [|c rest]; [done|]. cbn [token]. by rewrite (Hr c rest eq_refl).
Qed.
Lemma number_hex2 b : byte_ok b -> number hex_digit 16 0 (hex2 b) = Some b.
Proof.
  intros Hb. unfold hex2. cbn [number]. unfold byte_ok in Hb.
  rewrite (proj1 (digit_char_shown (b / 16) ltac:(zmod))). cbn. rewrite (proj1 (digit_char_shown (b mod 16) ltac:(zmod))). cbn. f_equal. zmod.
Qed.
Lemma spaced_first b payload : exists rest, spaced (b :: payload) = hex2 b ++ rest /\ match payload with [] => rest = [] | _ => rest = " "%char :: spaced payload end.
Proof. destruct payload as [|b' payload]; [exists []; by rewrite app_nil_r|]. by exists (" "%char :: spaced (b' :: payload)). Qed.
Lemma spaced_last payload c l : bytes_ok payload -> spaced payload = l ++ [c] -> shown c = true.
Proof.
  intros Hp. revert l. induction Hp as [|b payload Hb Hp IH]; intros l E; [by destruct l|].
  destruct payload as [|b' payload].
  - change (spaced [b]) with ([digit_char (b / 16)] ++ [digit_char (b mod 16)]) in E. apply app_inj_tail in E as [_ <-].
    unfold byte_ok in Hb. apply digit_char_shown. zmod.
  - change (spaced (b :: b' :: payload)) with (hex2 b ++ " "%char :: spaced (b' :: payload)) in E.
    destruct (spaced (b' :: payload)) as [|c0 l0] eqn:Es using rev_ind; [by destruct payload|].
    apply (IH l0). rewrite app_comm_cons, app_assoc in E. apply app_inj_tail in E as [_ ->]. done.
Qed.
Lemma Trim_spaced payload : bytes_ok payload -> Trim (spaced payload) = spaced payload.
Proof.
  intros Hp. apply Trim_id.
  - intros c l E. destruct payload as [|b payload]; [done|]. destruct (spaced_first b payload) as (rest & Es & _). rewrite Es in E.
    injection E as <- _. apply Forall_cons in Hp as [Hb _]. unfold byte_ok in Hb. apply digit_char_shown. zmod.
  - intros c l. by apply spaced_last.
Qed.
Lemma parse_message_spaced turns payload line acc : bytes_ok payload -> (length (spaced payload) <= turns)%nat ->
  parse_message turns (spaced payload) line acc = Ok (TerminalMessageStep (acc ++ payload)).
Proof.
  intros Hp. revert turns acc. induction Hp as [|b payload Hb Hp IH]; intros turns acc Ht; [by destruct turns; rewrite app_nil_r|].
  destruct (spaced_first b payload) as (rest & Es & Hr). rewrite Es in *. destruct turns as [|turns]; [cbn in Ht; lia|].
  cbn [parse_message]. change (hex2 b ++ rest) with (digit_char (b / 16) :: digit_char (b mod 16) :: rest).
  change (digit_char (b / 16) :: digit_char (b mod 16) :: rest) with (hex2 b ++ rest).
  assert (token (hex2 b ++ rest) = (hex2 b, rest)) as ->.
  { apply hex2_token; [done|]. intros c l' ->. by destruct payload; [|injection Hr as -> _]. }
  rewrite number_hex2 by done. cbn [length hex2 Nat.leb andb]. rewrite bool_decide_false by done. cbn [negb].
  assert (Trim rest = spaced payload) as ->.
  { destruct payload as [|b' payload]; subst rest; [done|]. rewrite <- (Trim_spaced (b' :: payload)) at 2 by done. done. }
  rewrite IH by (done || (destruct payload; subst rest; cbn in *; lia)). rewrite <- app_assoc. rewrite u8_small by done. done.
Qed.
Lemma starts_hex b rest : byte_ok b -> (forall c l', rest = c :: l' -> space c = true) -> starts (hex2 b ++ rest) (to_chars "delay") = false.
Proof.
  intros Hb Hr. unfold hex2. change (to_chars "delay") with ["d"; "e"; "l"; "a"; "y"]%char. cbn [app starts].
  destruct rest as [|c rest]; [by rewrite !andb_false_r|].
  cbn [starts]. rewrite (bool_decide_false ("l"%char = c)) by (intros <-; by specialize (Hr "l"%char rest eq_refl)). by rewrite !andb_false_r.
Qed.
Lemma starts_app p l : starts (p ++ l) p = true.
Proof. induction p as [|a p IH]; [by destruct l|]. cbn [app starts]. by rewrite bool_decide_true, IH. Qed.
Lemma ParseDelay_print duration line : 0 <= duration <= kMaxTerminalDelay ->
  ParseDelay (kDelayPrefix ++ to_chars (fmt_d duration) ++ [close]) line = Ok (TerminalDelayStep duration)
  /\ exists c ds, to_chars (fmt_d duration) = c :: ds.
Proof.
  intros Hd. unfold fmt_d. destruct (fmt_digits_number dec_digit shown 10 64 duration "") as (ds & E & Hne & _ & Hn); [lia|apply digit_char_dec| |].
  { unfold kMaxTerminalDelay in Hd. split; [lia|]. apply Z.lt_le_trans with (10 ^ 7); [lia|]. apply Z.pow_le_mono_r; lia. }
  change (to_chars "") with (@nil ascii) in E. rewrite app_nil_r in E. rewrite E. split; [|destruct ds; [done|eauto]].
  unfold ParseDelay. rewrite starts_app, app_assoc, last_snoc, bool_decide_true by done. cbn [negb orb].
  rewrite <- app_assoc, drop_app_length, !length_app. replace (_ - _ - 1)%nat with (length ds) by (cbn; lia). rewrite take_app_length.
  specialize (Hn 0). rewrite Z.mul_0_l, Z.add_0_l in Hn. destruct ds as [|c ds]; [done|]. rewrite Hn.
  by rewrite (proj2 (Z.ltb_ge _ _)) by lia.
Qed.
Lemma parse_printed step line : step_ok step ->
  let entry := Trim (to_chars (print_step step)) in
  (exists c l, entry = c :: l) /\ (if starts entry (to_chars "delay") then ParseDelay entry line else ParseMessage entry line) = Ok step.
Proof.
  destruct step as [payload|duration]; cbn [step_ok print_step]; intros Hs; cbv zeta; rewrite to_of_chars.
  - destruct Hs as [Hne Hok]. rewrite Trim_spaced by done. destruct payload as [|b payload]; [done|].
    destruct (spaced_first b payload) as (rest & Es & Hr). split; [rewrite Es; cbn; eauto|]. rewrite Es at 1. rewrite starts_hex.
    + by apply parse_message_spaced.
    + by apply Forall_cons in Hok as [? _].
    + intros c l' ->. by destruct payload; [|injection Hr as -> _].
  - assert (Trim (kDelayPrefix ++ to_chars (fmt_d duration) ++ [close]) = kDelayPrefix ++ to_chars (fmt_d duration) ++ [close]) as ->.
    { apply Trim_id; [intros c l [= <- _]; done|]. intros c l E. rewrite app_assoc in E. apply app_inj_tail in E as [_ <-]. done. }
    split; [cbn; eauto|]. exact (proj1 (ParseDelay_print duration line Hs)).
Qed.
Lemma parse_lines_printed steps line acc : Forall step_ok steps -> parse_lines (map print_step steps) line acc = Ok (acc ++ steps).
Proof.
  intros Hs. revert line acc. induction Hs as [|step steps Hs _ IH]; intros line acc; [by rewrite app_nil_r|]. cbn [map parse_lines].
  destruct (parse_printed step line Hs) as [(c & l & E) Hp]. cbv zeta. rewrite E in *. rewrite Hp. cbn [result_bind]. by rewrite IH, <- app_assoc.
Qed.
Lemma parse_message_ok turns entry line payload step : bytes_ok payload -> (payload <> [] \/ (0 < length entry <= turns)%nat) ->
  parse_message turns entry line payload = Ok step -> step_ok step.
Proof.
  revert entry payload. induction turns as [|turns IH]; intros entry payload Hok Hne; cbn [parse_message].
  { intros [= <-]. split; [|done]. destruct Hne; [done|lia]. }
  destruct entry as [|c entry]; [intros [= <-]; split; [|done]; destruct Hne; [done|cbn in *; lia]|].
  destruct (token (c :: entry)) as [text rest]. destruct (number _ _ _ text) as [value|]; [|done]. destruct (_ && _); [|done].
  apply IH; [apply Forall_app; split; [done|]; repeat constructor; apply u8_range|left; by destruct payload].
Qed.
Lemma number_nonneg digit base l v acc : (forall c d, digit c = Some d -> 0 <= d) -> 0 <= base -> 0 <= acc ->
  number digit base acc l = Some v -> 0 <= v.
Proof.
  intros Hd Hb. revert acc. induction l as [|c l IH]; intros acc Ha; cbn; [by intros [= <-]|].
  destruct (digit c) as [d|] eqn:E; [|done]. cbn. apply IH. specialize (Hd c d E). nia.
Qed.
Lemma ParseDelay_ok entry line step : ParseDelay entry line = Ok step -> step_ok step.
Proof.
  unfold ParseDelay. destruct (_ || _); [done|]. destruct (take _ _) as [|c digits] eqn:E; [done|].
  destruct (number dec_digit 10 0 _) as [v|] eqn:En; [|done]. destruct (Z.ltb_spec kMaxTerminalDelay v); [done|]. intros [= <-]. cbn [step_ok].
  split; [|done]. by apply (number_nonneg dec_digit 10 (c :: digits) v 0 dec_digit_nonneg).
Qed.
Lemma parse_lines_ok lines line acc steps : Forall step_ok acc -> parse_lines lines line acc = Ok steps -> Forall step_ok steps.
Proof.
  revert line acc. induction lines as [|text lines IH]; intros line acc Hacc; cbn [parse_lines]; [by intros [= <-]|]. cbv zeta.
  destruct (Trim (to_chars text)) as [|c entry] eqn:E; [by apply IH|]. intros (step & Hs & Hrest)%result_bind_Ok.
  apply IH in Hrest; [done|]. apply Forall_app. split; [done|]. repeat constructor. destruct (starts _ _); [by apply ParseDelay_ok in Hs|].
  apply parse_message_ok in Hs; [done|constructor|right; cbn; lia].
Qed.
(** Terminal scripts. Every script the parser accepts has steps, each a message of at
    least one byte or a pause of at most an hour; and every list of such steps, printed
    one to a line, parses back as itself. *)
Theorem terminal_script_round_trip :
  (forall lines steps, ParseTerminalScript lines = Ok steps -> steps <> [] /\ Forall step_ok steps)
  /\ (forall step steps, Forall step_ok (step :: steps) -> ParseTerminalScript (map print_step (step :: steps)) = Ok (step :: steps)).
Proof.
  split.
  - intros lines steps (parsed & Hp & E)%result_bind_Ok. apply parse_lines_ok in Hp; [|constructor]. by destruct parsed; [|injection E as <-].
  - intros step steps Hs. unfold ParseTerminalScript. by rewrite parse_lines_printed.
Qed.
End scripts_text.
Definition sample_steps : list TerminalStep := [TerminalMessageStep [0x80; 0x10; 0xF0; 0x01; 0xBF; 0x40]; TerminalDelayStep 250].
Lemma terminal_script_round_trip_witness :
  Forall step_ok sample_steps
  /\ TerminalScript.ParseTerminalScript ["80 10 f0 01 bf 40"; "delay(250)"]%string = Ok sample_steps.
Proof.
  assert (Forall step_ok sample_steps) as Hs.
  { repeat constructor; unfold byte_ok, TerminalScript.kMaxTerminalDelay; done || lia. }
  split; [exact Hs|]. exact (proj2 terminal_script_round_trip _ _ Hs).
Defined.
