(* ===== verification/ServiceFunctions.v ===== *)
(** * ServiceFunctions: [src/backend/service_functions]

    The operator-gated routines of the Subaru Denso SH705x transmission units: reading
    and setting its correction parameters, and the relearn sequence, each a session
    resumed until it asks the operator for something, completes or fails. *)
From S2P Require Import Prelude Bytes.
From S2P Require Import Ports Scripts.
From S2P Require Import Ssm.

(** ** [service_function_types.h], [service_function_session.h] *)
Inductive Framing : Set := kFramingIso15765 | kFramingKline14230.
Record SsmTransportConfig := {
  framing : Framing; bitrate_or_baud : Z; request_id : Z; response_id : Z; st_tester_id : Z; st_target_id : Z; add_iso14230_header : bool }.
Definition default_transport : SsmTransportConfig :=
  {| framing := kFramingIso15765; bitrate_or_baud := 500000; request_id := 0x7e1; response_id := 0x7e9; st_tester_id := 0;
     st_target_id := 0; add_iso14230_header := false |}.
Inductive OperatorGateId : Set := kRelearnStaticSetup | kRelearnEngineRunning.
Inductive GateResponse : Set := kAccept | kDecline.
#[global] Instance GateResponse_eq_dec : EqDecision GateResponse.
Proof. solve_decision. Defined.
Record TcuParameterReadout := {
  input_clutch : Z; high_low_reverse_clutch : Z; direct_clutch : Z; front_brake : Z; awd_clutch_torque : Z; forward_brake : Z;
  four_wheel_drive : Z; line_pressure : Z; readout_temperature_basis : Z }.
Record RelearnOutcome := { polls_performed : Z; last_status_frame : list Z }.
Record SetParametersOutcome := { frames_written : Z }.
Inductive ServiceFunctionOutcome : Type :=
| OReadout (readout : TcuParameterReadout) | ORelearn (outcome : RelearnOutcome) | OSetParameters (outcome : SetParametersOutcome).
Inductive ServiceFunctionStep : Type :=
| GateStep (id : OperatorGateId) | CompletedStep (outcome : ServiceFunctionOutcome) | FailedStep (error : Error).
(** A session; resuming one makes calls and changes it. *)
Class ServiceFunctionSession `{Env} (S : Type) := {
  TransportSetup : S -> result Error SsmTransportConfig;
  Resume : S -> M (ServiceFunctionStep * S);
  Submit : S -> GateResponse -> S
}.
Definition failed (k : ErrorKind) (d : string) : ServiceFunctionStep :=
  FailedStep {| kind := k; detail := d; cancellation_io_exposure := kMayHaveStarted |}.
Definition denso_sh705x (protocol : string) : bool :=
  String.eqb protocol "sub_tcu_denso_sh7055_can" || String.eqb protocol "sub_tcu_denso_sh7058_can".
Definition not_a_tcu {A} (protocol : string) : result Error A :=
  Fail kUnsupported ("not a Subaru Denso SH705x TCU protocol: " +:+ protocol).

(** ** [tcu_parameter_table.h], [tcu_parameter_table.cpp] *)
Record TcuParameterValues := {
  correction_1to2 : Z; correction_2to3 : Z; correction_3to4 : Z; correction_4to5 : Z; correction_forward_brake : Z;
  correction_four_wheel_drive : Z; correction_line_pressure : Z; temperature_basis : Z; torque_correction_awd : Z }.
Record TcuParameterWrite := { address : Z; write_value : Z }.
Definition TcuParameterWrites (values : TcuParameterValues) : list TcuParameterWrite :=
  [{| address := 0x16c; write_value := correction_3to4 values |};
   {| address := 0x16d; write_value := correction_2to3 values |};
   {| address := 0x16e; write_value := correction_1to2 values |};
   {| address := 0x16f; write_value := correction_4to5 values |};
   {| address := 0x170; write_value := u8 (Z.land (Z.shiftr (torque_correction_awd values) 8) 0xff) |};
   {| address := 0x171; write_value := u8 (Z.land (torque_correction_awd values) 0xff) |};
   {| address := 0x1bc; write_value := correction_forward_brake values |};
   {| address := 0x1bd; write_value := correction_four_wheel_drive values |};
   {| address := 0x1be; write_value := correction_line_pressure values |};
   {| address := 0x1bf; write_value := temperature_basis values |};
   {| address := 0xec; write_value := 0x55 |};
   {| address := 0xec; write_value := 0xaa |}].

(** ** [read_parameters_session.h], [read_parameters_session.cpp] *)
Module ReadParameters.
Record Session := { protocol_ : string; misused_ : bool }.
Definition kAttempts : nat := 6.
Definition kReadTimeout : Z := 200.
Definition kMinFrameSize : Z := 15.
Definition kPositiveResponse : Z := 0xe8.
Definition kAddresses : list Z := [0x16c; 0x16d; 0x16e; 0x16f; 0x170; 0x171; 0x1bc; 0x1bd; 0x1be; 0x1bf].
Definition BuildRequest : list Z := fold_left AppendU24Be kAddresses [0x00; 0x00; 0x07; 0xe1; 0xa8; 0x00].
Definition Decode (frame : list Z) : TcuParameterReadout :=
  {| input_clutch := zget frame 5; high_low_reverse_clutch := zget frame 6; direct_clutch := zget frame 7; front_brake := zget frame 8;
     awd_clutch_torque := ReadU16Be frame 9; forward_brake := zget frame 11; four_wheel_drive := zget frame 12;
     line_pressure := zget frame 13; readout_temperature_basis := zget frame 14 |}.
Definition TransportSetup (s : Session) : result Error SsmTransportConfig :=
  if negb (denso_sh705x (protocol_ s)) then not_a_tcu (protocol_ s) else Ok default_transport.
Definition Submit (s : Session) (_ : GateResponse) : Session := {| protocol_ := protocol_ s; misused_ := true |}.
Section resume.
Context `{Env}.
(** The attempts remaining, and the last frame that came. *)
Fixpoint attempts (remaining : nat) (frame : list Z) : M ServiceFunctionStep :=
  match remaining with
  | O =>
      ret match frame with
          | [] => failed kTimeout "no response to the TCU parameter read after 6 attempts"
          | _ => failed kBadResponse ("TCU rejected the parameter read: " +:+ ToHex frame)
          end
  | S remaining =>
      do written <- Call (SsmWrite BuildRequest);
      match written with
      | Err e => ret (FailedStep e)
      | Ok _ =>
          do received <- Call (SsmRead kReadTimeout);
          match received with
          | Err e => ret (FailedStep e)
          | Ok None => attempts remaining frame
          | Ok (Some frame) =>
              if (4 <? zlen frame) && (zget frame 4 =? kPositiveResponse) then
                ret (if zlen frame <? kMinFrameSize then failed kBadResponse "TCU parameter frame shorter than 15 bytes"
                     else CompletedStep (OReadout (Decode frame)))
              else attempts remaining frame
          end
      end
  end.
Definition Resume (s : Session) : M (ServiceFunctionStep * Session) :=
  if misused_ s then ret (failed kInternal "read parameters has no operator gate to answer", s)
  else
    do cancelled <- Cancelled;
    if cancelled then ret (failed kCancelled "cancelled before reading TCU parameters", s)
    else do _ <- Log LInfo "Reading TCU parameters..."; do step <- attempts kAttempts []; ret (step, s).
#[global] Instance session : ServiceFunctionSession Session :=
  {| ServiceFunctions.TransportSetup := TransportSetup; ServiceFunctions.Resume := Resume; ServiceFunctions.Submit := Submit |}.
End resume.
End ReadParameters.

(** ** [set_parameters_session.h], [set_parameters_session.cpp] *)
Module SetParameters.
Record Session := { protocol_ : string; values_ : TcuParameterValues; misused_ : bool }.
Definition kReadTimeout : Z := 500.
Definition kTesterId : Z := 0xf0.
Definition kTargetId : Z := 0x18.
Definition kPositiveResponse : Z := 0xf8.
Definition FrameFor (write : TcuParameterWrite) : list Z :=
  AddHeader (AppendU24Be [0xb8] (address write) ++ [write_value write]) kTesterId kTargetId.
Definition TransportSetup (s : Session) : result Error SsmTransportConfig :=
  if negb (denso_sh705x (protocol_ s)) then not_a_tcu (protocol_ s)
  else Ok {| framing := kFramingKline14230; bitrate_or_baud := 4800; request_id := 0; response_id := 0; st_tester_id := kTesterId;
             st_target_id := kTargetId; add_iso14230_header := false |}.
Definition Submit (s : Session) (_ : GateResponse) : Session :=
  {| protocol_ := protocol_ s; values_ := values_ s; misused_ := true |}.
Section resume.
Context `{Env}.
Fixpoint write_rows (writes : list TcuParameterWrite) (total written_count : Z) : M ServiceFunctionStep :=
  match writes with
  | [] => ret (CompletedStep (OSetParameters {| frames_written := written_count |}))
  | write :: writes =>
      do cancelled <- Cancelled;
      if cancelled then ret (failed kCancelled "cancelled while setting TCU parameters")
      else
        do sent <- Call (SsmWrite (FrameFor write));
        match sent with
        | Err e => ret (FailedStep e)
        | Ok _ =>
            do received <- Call (SsmRead kReadTimeout);
            match received with
            | Err e => ret (FailedStep e)
            | Ok None => ret (failed kTimeout "no response to TCU parameter write")
            | Ok (Some reply) =>
                if (zlen reply <=? 4) || negb (zget reply 4 =? kPositiveResponse)
                then ret (failed kBadResponse ("TCU rejected a parameter write: " +:+ ToHex reply))
                else
                  let written_count := written_count + 1 in
                  do _ <- Call (EventsProgress written_count total);
                  write_rows writes total written_count
            end
        end
  end.
Definition Resume (s : Session) : M (ServiceFunctionStep * Session) :=
  if misused_ s then ret (failed kInternal "set parameters has no operator gate to answer", s)
  else
    do _ <- Log LInfo "Setting TCU parameters...";
    let writes := TcuParameterWrites (values_ s) in
    do step <- write_rows writes (zlen writes) 0; ret (step, s).
#[global] Instance session : ServiceFunctionSession Session :=
  {| ServiceFunctions.TransportSetup := TransportSetup; ServiceFunctions.Resume := Resume; ServiceFunctions.Submit := Submit |}.
End resume.
End SetParameters.

(** ** [relearn_session.h], [relearn_session.cpp] *)
Module Relearn.
Inductive Stage : Set := kAwaitStaticSetupGate | kWriteSteps | kPollStage | kDone.
Record Session := { protocol_ : string; stage_ : Stage; gate_outstanding_ : bool; declined_ : bool }.
Definition new_session (protocol : string) : Session :=
  {| protocol_ := protocol; stage_ := kAwaitStaticSetupGate; gate_outstanding_ := false; declined_ := false |}.
Definition kWriteAttempts : nat := 6.
Definition kPollIterations : nat := 200.
Definition kReadTimeout : Z := 200.
Definition kWriteAck : Z := 0xf8.
Definition kReadAck : Z := 0xe8.
Definition kStepOne : list Z := [0x00; 0x00; 0x07; 0xe1; 0xb8; 0x00; 0x01; 0xfc; 0x01].
Definition kStepTwo : list Z := [0x00; 0x00; 0x07; 0xe1; 0xb8; 0x00; 0x01; 0xfd; 0x09].
Definition kPoll : list Z := [0x00; 0x00; 0x07; 0xe1; 0xa8; 0x00; 0x00; 0x01; 0xfc; 0x00; 0x01; 0xfd].
Definition TransportSetup (s : Session) : result Error SsmTransportConfig :=
  if negb (denso_sh705x (protocol_ s)) then not_a_tcu (protocol_ s) else Ok default_transport.
Definition Submit (s : Session) (response : GateResponse) : Session :=
  {| protocol_ := protocol_ s; stage_ := stage_ s; gate_outstanding_ := false; declined_ := bool_decide (response = kDecline) |}.
Definition at_stage (s : Session) (stage : Stage) (gate_outstanding : bool) : Session :=
  {| protocol_ := protocol_ s; stage_ := stage; gate_outstanding_ := gate_outstanding; declined_ := declined_ s |}.
Section resume.
Context `{Env}.
Fixpoint exchange (remaining : nat) (frame : list Z) (expected : Z) (last : list Z) : M (result Error (list Z)) :=
  match remaining with
  | O => ret (Ok last)
  | S remaining =>
      do cancelled <- Cancelled;
      if cancelled then ret (Fail kCancelled "cancelled before a TCU relearn write")
      else
        do! _ <- Call (SsmWrite frame);
        do! received <- Call (SsmRead kReadTimeout);
        match received with
        | None => exchange remaining frame expected last
        | Some last => if (4 <? zlen last) && (zget last 4 =? expected) then ret (Ok last) else exchange remaining frame expected last
        end
  end.
Definition ExchangeTolerantly (frame : list Z) (expected : Z) : M (result Error (list Z)) := exchange kWriteAttempts frame expected [].
Definition WriteStep (step : Z) (frame : list Z) : M Status :=
  do _ <- Log LInfo ("Initialising TCU relearn, step " +:+ fmt_d step +:+ "...");
  do! response <- ExchangeTolerantly frame kWriteAck;
  do _ <- (if (zlen response <=? 4) || negb (zget response 4 =? kWriteAck)
           then Log LError ("Wrong response from TCU on relearn step " +:+ fmt_d step +:+ "; continuing") else ret tt);
  ret (Ok tt).
Fixpoint polls (remaining : nat) (outcome : RelearnOutcome) : M (result Error RelearnOutcome) :=
  match remaining with
  | O => ret (Ok outcome)
  | S remaining =>
      do cancelled <- Cancelled;
      if cancelled then ret (Fail kCancelled "cancelled while tracking relearn status")
      else
        do! _ <- Call (SsmWrite kPoll);
        do! received <- Call (SsmRead kReadTimeout);
        let performed := polls_performed outcome + 1 in
        do _ <- Call (EventsProgress performed (Z.of_nat kPollIterations));
        match received with
        | None => polls remaining {| polls_performed := performed; last_status_frame := last_status_frame outcome |}
        | Some frame =>
            do _ <- (if (4 <? zlen frame) && negb (zget frame 4 =? kReadAck)
                     then Log LError "Unexpected relearn status response; continuing" else ret tt);
            polls remaining {| polls_performed := performed; last_status_frame := frame |}
        end
  end.
Definition PollStatus : M (result Error RelearnOutcome) :=
  do _ <- Log LInfo "Tracking relearn status...";
  polls kPollIterations {| polls_performed := 0; last_status_frame := [] |}.
Definition Resume (s : Session) : M (ServiceFunctionStep * Session) :=
  if gate_outstanding_ s then ret (failed kInternal "resume() called with an operator gate outstanding", s)
  else if declined_ s then ret (failed kCancelled "operator declined a relearn gate", s)
  else
    do cancelled <- Cancelled;
    if cancelled then ret (failed kCancelled "cancelled during TCU relearn", s)
    else match stage_ s with
    | kAwaitStaticSetupGate => ret (GateStep kRelearnStaticSetup, at_stage s kWriteSteps true)
    | kWriteSteps =>
        do written <- (do! _ <- WriteStep 1 kStepOne; WriteStep 2 kStepTwo);
        match written with
        | Err e => ret (FailedStep e, s)
        | Ok _ => ret (GateStep kRelearnEngineRunning, at_stage s kPollStage true)
        end
    | kPollStage =>
        do outcome <- PollStatus;
        match outcome with
        | Err e => ret (FailedStep e, s)
        | Ok outcome => ret (CompletedStep (ORelearn outcome), at_stage s kDone false)
        end
    | kDone => ret (failed kInternal "relearn resumed after completion", s)
    end.
#[global] Instance session : ServiceFunctionSession Session :=
  {| ServiceFunctions.TransportSetup := TransportSetup; ServiceFunctions.Resume := Resume; ServiceFunctions.Submit := Submit |}.
End resume.
End Relearn.

(** ** What a session puts on the wire *)
Inductive ssm_event : Type := SW (data : list Z) | SR (answer : result Error (option (list Z))).
Definition ssm_io (e : event) : list ssm_event :=
  match e with EvPort (SsmWrite data) _ => [SW data] | EvPort (SsmRead _) r => [SR r] | _ => [] end.
(** The unit took a write. *)
Definition acked (answer : result Error (option (list Z))) : Prop :=
  exists reply, answer = Ok (Some reply) /\ 4 < zlen reply /\ zget reply 4 = 0xf8.
Definition exchanges (frames : list (list Z)) (answers : list (result Error (option (list Z)))) : list ssm_event :=
  flat_map (fun p => [SW (fst p); SR (snd p)]) (zip frames answers).
(** Where a sequence of writes stopped: before the next frame, after it or at its answer. *)
Definition stopped (rest : list (list Z)) (tail : list ssm_event) : Prop :=
  exists f rest', rest = f :: rest' /\ (tail = [] \/ tail = [SW f] \/ exists answer, tail = [SW f; SR answer] /\ ~ acked answer).
Definition set_frames (values : TcuParameterValues) : list (list Z) := map SetParameters.FrameFor (TcuParameterWrites values).
Section set_parameters.
Context `{Env}.
Import SetParameters.
Lemma write_rows_stops writes total count :
  observes ssm_io (write_rows writes total count) (fun step l => exists sent rest answers tail,
    map FrameFor writes = sent ++ rest /\ length sent = length answers /\ Forall acked answers /\ l = exchanges sent answers ++ tail
    /\ match step with
       | CompletedStep outcome => rest = [] /\ tail = [] /\ outcome = OSetParameters {| frames_written := count + zlen writes |}
       | FailedStep _ => stopped rest tail
       | GateStep _ => False
       end).
Proof.
  revert count. induction writes as [|w writes IH]; intros count; cbn [write_rows]; unfold failed.
  { apply observes_ret. exists [], [], [], []. rewrite zlen_nil, Z.add_0_r. by split_and!. }
  assert (forall tail, (tail = [] \/ tail = [SW (FrameFor w)] \/ exists answer, tail = [SW (FrameFor w); SR answer] /\ ~ acked answer) ->
    exists sent rest answers tail', map FrameFor (w :: writes) = sent ++ rest /\ length sent = length answers /\ Forall acked answers
      /\ tail = exchanges sent answers ++ tail' /\ stopped rest tail') as Hstop.
  { intros tail Ht. exists [], (map FrameFor (w :: writes)), [], tail. split_and!; try done. by exists (FrameFor w), (map FrameFor writes). }
  apply (observes_bind _ _ (fun _ l => l = [])); [by apply unseen_Cancelled|]. intros [] l ->; [apply observes_ret, Hstop; auto|].
  apply (observes_bind _ _ (fun _ l => l = [SW (FrameFor w)])); [by apply (observes_Call ssm_io (SsmWrite _))|].
  intros [n|e] l ->; [|apply observes_ret, Hstop; auto].
  apply (observes_bind _ _ (fun r l => l = [SR r])); [by apply (observes_Call ssm_io (SsmRead _))|].
  intros answer l ->. cbn [app]. destruct answer as [[reply|]|e].
  - destruct (Z.leb_spec (zlen reply) 4) as [Hl|Hl]; cbn [orb].
    { apply observes_ret, Hstop. right. right. eexists. split; [done|]. intros (r & [= <-] & ? & _). lia. }
    destruct (Z.eqb_spec (zget reply 4) kPositiveResponse) as [Hr|Hr]; cbn [negb].
    2:{ apply observes_ret, Hstop. right. right. eexists. split; [done|]. by intros (r & [= <-] & _ & ?). }
    apply (observes_bind _ _ (fun _ l => l = [])); [by apply (observes_Call ssm_io (EventsProgress _ _))|]. intros _ l ->. cbn [app].
    apply (observes_weaken _ _ _ (IH (count + 1))). intros step l (sent & rest & answers & tail & E & Hlen & Hall & -> & Hstep).
    exists (FrameFor w :: sent), rest, (Ok (Some reply) :: answers), tail. cbn [map]. rewrite E. split_and!; [done|by cbn; rewrite Hlen| |done|].
    { constructor; [by exists reply|done]. }
    destruct step as [|outcome|]; [done| |done]. destruct Hstep as (-> & -> & ->). split_and!; try done. do 2 f_equal. rewrite zlen_cons. lia.
  - apply observes_ret, Hstop. right. right. eexists. split; [done|]. by intros (r & [=] & _).
  - apply observes_ret, Hstop. right. right. eexists. split; [done|]. by intros (r & [=] & _).
Qed.
(** Setting parameters, in every environment: the twelve frames of the table go out in
    order, each only after the unit took the one before, the two that commit them last;
    a refusal, silence or an error stops it there, and it completes exactly when all
    twelve were taken. *)
Theorem set_parameters_stops s : misused_ s = false ->
  observes ssm_io (Resume s) (fun p l => snd p = s /\ exists sent rest answers tail,
    set_frames (values_ s) = sent ++ rest /\ length sent = length answers /\ Forall acked answers /\ l = exchanges sent answers ++ tail
    /\ match fst p with
       | CompletedStep outcome => rest = [] /\ tail = [] /\ outcome = OSetParameters {| frames_written := 12 |}
       | FailedStep _ => stopped rest tail
       | GateStep _ => False
       end).
Proof.
  intros Hm. unfold Resume. rewrite Hm. apply (observes_bind _ _ (fun _ l => l = [])); [by apply unseen_Log|]. intros _ l ->. cbv zeta.
  apply (observes_bind _ _ _ _ (write_rows_stops _ _ _)). intros step l Hl. apply observes_ret. cbn [fst snd app]. rewrite app_nil_r. split; [done|].
  exact Hl.
Qed.
End set_parameters.

(** ** The gates of a relearn

    A session as its caller drives it: resumed and answered in any order, with what it
    wrote, asked and was told in one log. *)
Inductive relearn_op : Set := OpResume | OpSubmit (response : GateResponse).
Inductive relearn_entry : Type := LGate (id : OperatorGateId) | LAnswer (response : GateResponse) | LWrote (frame : list Z) | LEnded.
Definition wrote (e : event) : list relearn_entry := match e with EvPort (SsmWrite data) _ => [LWrote data] | _ => [] end.
Definition step_entry (step : ServiceFunctionStep) : relearn_entry := match step with GateStep id => LGate id | _ => LEnded end.
(** The gate last raised, and the answer last given since. *)
Definition gate_now (g : option (OperatorGateId * option GateResponse)) (e : relearn_entry) : option (OperatorGateId * option GateResponse) :=
  match e, g with
  | LGate id, _ => Some (id, None)
  | LAnswer r, Some (id, _) => Some (id, Some r)
  | _, _ => g
  end.
Definition gate_at (log : list relearn_entry) : option (OperatorGateId * option GateResponse) := fold_left gate_now log None.
(** The gate that must be open for a frame. *)
Definition gate_of (frame : list Z) : option OperatorGateId :=
  if bool_decide (frame = Relearn.kPoll) then Some kRelearnEngineRunning
  else if bool_decide (frame = Relearn.kStepOne \/ frame = Relearn.kStepTwo) then Some kRelearnStaticSetup else None.
Definition gated (log : list relearn_entry) : Prop :=
  forall pre frame post, log = pre ++ LWrote frame :: post -> exists id, gate_of frame = Some id /\ gate_at pre = Some (id, Some kAccept).
Section relearn.
Context `{Env}.
Import Relearn.
Fixpoint drive (ops : list relearn_op) (s : Session) (t : trace) (log : list relearn_entry) : list relearn_entry :=
  match ops with
  | [] => log
  | OpSubmit r :: ops => drive ops (Submit s r) t (log ++ [LAnswer r])
  | OpResume :: ops =>
      let '((step, s), t') := Resume s t in
      drive ops s t' (log ++ observed wrote (drop (length t) t') ++ [step_entry step])
  end.
Lemma gate_at_snoc log e : gate_at (log ++ [e]) = gate_now (gate_at log) e.
Proof. unfold gate_at. by rewrite fold_left_app. Qed.
Lemma gate_at_wrote log frames : gate_at (log ++ map LWrote frames) = gate_at log.
Proof.
  revert log. induction frames as [|f frames IH]; intros log; [by rewrite app_nil_r|]. cbn [map].
  change (LWrote f :: map LWrote frames) with ([LWrote f] ++ map LWrote frames). rewrite app_assoc, IH, gate_at_snoc. cbn.
  by destruct (gate_at log) as [[? ?]|].
Qed.
Lemma gated_snoc log e : gated log -> (forall frame, e = LWrote frame -> exists id, gate_of frame = Some id /\ gate_at log = Some (id, Some kAccept)) ->
  gated (log ++ [e]).
Proof.
  intros Hg He pre frame post E. destruct post as [|x post _] using rev_ind.
  - apply app_inj_tail in E as [<- ->]. by apply He.
  - rewrite app_comm_cons, app_assoc in E. apply app_inj_tail in E as [-> _]. by apply (Hg pre frame post).
Qed.
Lemma gated_wrote log frames id : gated log -> gate_at log = Some (id, Some kAccept) -> Forall (fun f => gate_of f = Some id) frames ->
  gated (log ++ map LWrote frames).
Proof.
  intros Hg Ha HF. revert log Hg Ha. induction HF as [|f frames Hf HF IH]; intros log Hg Ha; [by rewrite app_nil_r|]. cbn [map].
  change (LWrote f :: map LWrote frames) with ([LWrote f] ++ map LWrote frames). rewrite app_assoc. apply IH.
  - apply gated_snoc; [done|]. intros frame [= <-]. eauto.
  - rewrite gate_at_snoc. cbn. by rewrite Ha.
Qed.
(** A session whose log is [log]. *)
Definition gate_of_stage (stage : Stage) : option OperatorGateId :=
  match stage with kWriteSteps => Some kRelearnStaticSetup | kPollStage | kDone => Some kRelearnEngineRunning | kAwaitStaticSetupGate => None end.
Definition in_step (s : Session) (log : list relearn_entry) : Prop :=
  match gate_at log, gate_of_stage (stage_ s) with
  | None, None => gate_outstanding_ s = false
  | Some (id, None), Some id' => id = id' /\ gate_outstanding_ s = true
  | Some (id, Some r), Some id' => id = id' /\ gate_outstanding_ s = false /\ declined_ s = bool_decide (r = kDecline)
  | _, _ => False
  end.
Lemma exchange_wrote remaining frame expected last :
  observes wrote (exchange remaining frame expected last) (fun _ l => exists n, l = replicate n (LWrote frame)).
Proof.
  revert last. induction remaining as [|remaining IH]; intros last; cbn [exchange]; [apply observes_ret; by exists 0%nat|].
  apply (observes_bind _ _ (fun _ l => l = [])); [by apply unseen_Cancelled|]. intros [] l ->; [apply observes_ret; by exists 0%nat|].
  apply (observes_try _ _ (fun _ l => l = [LWrote frame])); [by apply (observes_Call wrote (SsmWrite _))| |intros e l ->; by exists 1%nat].
  intros _ l ->. apply (observes_try _ _ (fun _ l => l = [])); [by apply (observes_Call wrote (SsmRead _))| |intros e l ->; by exists 1%nat].
  intros [f|] l ->; cbn [app].
  - destruct (_ && _); [apply observes_ret; by exists 1%nat|]. apply (observes_weaken _ _ _ (IH f)). intros r l [n ->]. by exists (S n).
  - apply (observes_weaken _ _ _ (IH last)). intros r l [n ->]. by exists (S n).
Qed.
Lemma polls_wrote remaining outcome : observes wrote (polls remaining outcome) (fun _ l => exists n, l = replicate n (LWrote kPoll)).
Proof.
  revert outcome. induction remaining as [|remaining IH]; intros outcome; cbn [polls]; [apply observes_ret; by exists 0%nat|].
  apply (observes_bind _ _ (fun _ l => l = [])); [by apply unseen_Cancelled|]. intros [] l ->; [apply observes_ret; by exists 0%nat|].
  apply (observes_try _ _ (fun _ l => l = [LWrote kPoll])); [by apply (observes_Call wrote (SsmWrite _))| |intros e l ->; by exists 1%nat].
  intros _ l ->. apply (observes_try _ _ (fun _ l => l = [])); [by apply (observes_Call wrote (SsmRead _))| |intros e l ->; by exists 1%nat].
  intros received l ->. cbv zeta. apply (observes_bind _ _ (fun _ l => l = [])); [by apply (observes_Call wrote (EventsProgress _ _))|].
  intros _ l ->. cbn [app]. destruct received as [f|]; [|apply (observes_weaken _ _ _ (IH _)); intros r l [n ->]; by exists (S n)].
  apply (observes_bind _ _ (fun _ l => l = [])); [destruct (_ && _); [by apply unseen_Log|by apply observes_ret]|]. intros _ l ->. cbn [app].
  apply (observes_weaken _ _ _ (IH _)). intros r l [n ->]. by exists (S n).
Qed.
Definition ends_here (step : ServiceFunctionStep) : Prop := step_entry step = LEnded.
(** What one call of [Resume] does, stage by stage. *)
Definition resumed (s : Session) (step : ServiceFunctionStep) (s' : Session) (frames : list (list Z)) : Prop :=
  (frames = [] /\ s' = s /\ ends_here step)
  \/ (gate_outstanding_ s = false /\ declined_ s = false
      /\ match stage_ s with
         | kAwaitStaticSetupGate => frames = [] /\ step = GateStep kRelearnStaticSetup /\ s' = at_stage s kWriteSteps true
         | kWriteSteps => Forall (fun f => gate_of f = Some kRelearnStaticSetup) frames
             /\ (s' = s /\ ends_here step \/ step = GateStep kRelearnEngineRunning /\ s' = at_stage s kPollStage true)
         | kPollStage => Forall (fun f => gate_of f = Some kRelearnEngineRunning) frames /\ ends_here step /\ (s' = s \/ s' = at_stage s kDone false)
         | kDone => False
         end).
Lemma map_wrote_replicate n f : replicate n (LWrote f) = map LWrote (replicate n f).
Proof. induction n as [|n IH]; [done|]. cbn [replicate map]. by rewrite IH. Qed.
Lemma Forall_repeat_frame (P : list Z -> Prop) n f : P f -> Forall P (replicate n f).
Proof. intros Hf. induction n; cbn; by constructor. Qed.
Lemma WriteStep_wrote step frame : observes wrote (WriteStep step frame) (fun _ l => exists n, l = map LWrote (replicate n frame)).
Proof.
  unfold WriteStep, ExchangeTolerantly. apply (observes_bind _ _ (fun _ l => l = [])); [by apply unseen_Log|]. intros _ l ->. cbn [app].
  apply (observes_try _ _ _ _ (exchange_wrote _ _ _ _)); [|intros e l [n ->]; exists n; apply map_wrote_replicate]. intros response l [n ->].
  apply (observes_bind _ _ (fun _ l => l = [])); [destruct (_ || _); [by apply unseen_Log|by apply observes_ret]|]. intros _ l ->.
  apply observes_ret. rewrite ?app_nil_r. exists n. apply map_wrote_replicate.
Qed.
Lemma Resume_resumed s : observes wrote (Resume s) (fun p l => exists frames, l = map LWrote frames /\ resumed s (fst p) (snd p) frames).
Proof.
  unfold Resume. destruct (gate_outstanding_ s) eqn:Eo; [apply observes_ret; exists []; split; [done|]; by left|].
  destruct (declined_ s) eqn:Ed; [apply observes_ret; exists []; split; [done|]; by left|].
  apply (observes_bind _ _ (fun _ l => l = [])); [by apply unseen_Cancelled|]. intros [] l ->; [apply observes_ret; exists []; split; [done|]; by left|].
  cbn [app]. destruct (stage_ s) eqn:Es.
  - apply observes_ret. exists []. split; [done|]. right. rewrite Es. by split_and!.
  - eapply observes_bind with (P := fun _ l => exists frames, l = map LWrote frames /\ Forall (fun f => gate_of f = Some kRelearnStaticSetup) frames).
    + apply (observes_try _ _ _ _ (WriteStep_wrote 1 kStepOne)).
      * intros _ l [n ->]. apply (observes_weaken _ _ _ (WriteStep_wrote 2 kStepTwo)). intros _ l [m ->].
        exists (replicate n kStepOne ++ replicate m kStepTwo). rewrite map_app. split; [done|]. apply Forall_app. by split; apply Forall_repeat_frame.
      * intros e l [n ->]. exists (replicate n kStepOne). split; [done|]. by apply Forall_repeat_frame.
    + intros written l (frames & -> & Hf). destruct written; apply observes_ret; exists frames; rewrite app_nil_r; (split; [done|]); right; rewrite Es;
        (split_and!; [done..|]); [by right|by left].
  - unfold PollStatus. eapply observes_bind with (P := fun _ l => exists n, l = map LWrote (replicate n kPoll)).
    + apply (observes_bind _ _ (fun _ l => l = [])); [by apply unseen_Log|]. intros _ l ->. cbn [app].
      apply (observes_weaken _ _ _ (polls_wrote _ _)). intros r l [n ->]. exists n. apply map_wrote_replicate.
    + intros outcome l [n ->]. destruct outcome; apply observes_ret; exists (replicate n kPoll); rewrite app_nil_r; (split; [done|]); right; rewrite Es;
        (split_and!; [done..|by apply Forall_repeat_frame|done|auto]).
  - apply observes_ret. exists []. split; [done|]. by left.
Qed.
Lemma resumed_gated s step s' frames log : in_step s log -> gated log -> resumed s step s' frames ->
  in_step s' (log ++ map LWrote frames ++ [step_entry step]) /\ gated (log ++ map LWrote frames ++ [step_entry step]).
Proof.
  intros Hi Hg Hr. rewrite app_assoc. unfold in_step in *. rewrite gate_at_snoc, gate_at_wrote.
  destruct Hr as [(-> & -> & He)|(Eo & Ed & Hr)].
  { rewrite He. cbn [map gate_now]. rewrite app_nil_r. split; [by destruct (gate_at log) as [[? ?]|]|]. by apply gated_snoc. }
  destruct (stage_ s) eqn:Es; cbn [gate_of_stage] in Hi.
  - destruct Hr as (-> & -> & ->). cbn. rewrite app_nil_r. split; [done|]. by apply gated_snoc.
  - destruct (gate_at log) as [[id [r|]]|] eqn:Eg; [|by destruct Hi as [_ ?]; congruence|done]. destruct Hi as (-> & _ & Hd). rewrite Ed in Hd.
    destruct r; [|done]. destruct Hr as [HF Hr]. pose proof (gated_wrote log frames _ Hg Eg HF) as Hg'.
    destruct Hr as [[-> He]|[-> ->]]; [rewrite He|]; cbn; (split; [rewrite ?Es; by rewrite ?Ed, ?Eo|by apply gated_snoc]).
  - destruct (gate_at log) as [[id [r|]]|] eqn:Eg; [|by destruct Hi as [_ ?]; congruence|done]. destruct Hi as (-> & _ & Hd). rewrite Ed in Hd.
    destruct r; [|done]. destruct Hr as (HF & He & Hr). pose proof (gated_wrote log frames _ Hg Eg HF) as Hg'. rewrite He. cbn.
    split; [destruct Hr as [-> | ->]; rewrite ?Es; cbn; by rewrite ?Ed, ?Eo|by apply gated_snoc].
  - done.
Qed.
(** C21: A relearn never acts ahead of the operator. However its caller resumes and answers
    it, and whatever the unit and the adapter do, a frame of the two steps is written
    only while the gate last raised is the static setup and the answer last given is yes,
    and a status poll only after the second gate, engine running, was raised and
    accepted; no other frame is written. *)
Theorem relearn_gated protocol ops t : gated (drive ops (new_session protocol) t []).
Proof.
  assert (forall s log t, in_step s log -> gated log -> gated (drive ops s t log)) as Hd; [|by apply Hd; [|intros [] ? ? [=]]].
  clear t. induction ops as [|[|r] ops IH]; intros s log t Hi Hg; cbn [drive]; [done| |].
  - destruct (Resume_resumed s t) as (d & E & frames & Hf & Hr). destruct (Resume s t) as [[step s'] t']. cbn [fst snd] in *. subst t'.
    rewrite drop_app_length, Hf. destruct (resumed_gated _ _ _ _ _ Hi Hg Hr). by apply IH.
  - apply IH; [|by apply gated_snoc]. unfold in_step in *. rewrite gate_at_snoc. cbn [Submit stage_ gate_outstanding_ declined_].
    destruct (gate_at log) as [[id [r'|]]|]; cbn [gate_now]; destruct (gate_of_stage (stage_ s)); try done; [by destruct Hi as (-> & _)|by destruct Hi as (-> & _)].
Qed.
End relearn.

(** ** A transmission unit

    It stores what a framed write names, acknowledges it, and answers a read of
    addresses over CAN with the bytes they hold. *)
Definition u24 (a b c : Z) : Z := a * 65536 + b * 256 + c.
Fixpoint addresses (l : list Z) : list Z := match l with a :: b :: c :: l => u24 a b c :: addresses l | _ => [] end.
Definition framed_write (request : list Z) : option (Z * Z) :=
  match request with
  | [h; r; s; n; sid; a; b; c; v; ck] =>
      if bool_decide ([h; r; s; n; sid] = [0x80; 0x18; 0xf0; 0x05; 0xb8]) && (ck =? Sum8 [h; r; s; n; sid; a; b; c; v]) then Some (u24 a b c, v) else None
  | _ => None
  end.
Definition tcu_store (m : Z -> Z) (e : event) : Z -> Z :=
  match e with
  | EvPort (SsmWrite request) _ => match framed_write request with Some (a, v) => fun x => if x =? a then v else m x | None => m end
  | _ => m
  end.
Definition memory_at (m : Z -> Z) (t : trace) : Z -> Z := fold_left tcu_store t m.
Definition last_request (t : trace) : list Z := fold_left (fun d e => match e with EvPort (SsmWrite data) _ => data | _ => d end) t [].
Definition tcu_reply (m : Z -> Z) (request : list Z) : list Z :=
  match framed_write request with
  | Some _ => AddHeader [0xf8] 0x18 0xf0
  | None => [0x00; 0x00; 0x07; 0xe9; 0xe8] ++ map m (addresses (drop 6 request))
  end.
Definition tcu (m : Z -> Z) : Env := {|
  env_cancelled := fun _ => false;
  env_sleep := fun _ _ => Ok tt;
  env_reset := fun _ => Ok tt;
  env_configure := fun _ _ => Ok tt;
  env_open := fun _ => Ok tt;
  env_close := fun _ => Ok tt;
  env_write := fun _ _ => Ok tt;
  env_read := fun _ _ => Ok None;
  env_port := fun t c =>
    match c with
    | SsmWrite data => Ok (zlen data)
    | SsmRead _ => Ok (Some (tcu_reply (memory_at m t) (last_request t)))
    | SsmIsOpen => true
    | c => absent_port c
    end |}.
Record values_ok (v : TcuParameterValues) : Prop := {
  ok_12 : byte_ok (correction_1to2 v); ok_23 : byte_ok (correction_2to3 v); ok_34 : byte_ok (correction_3to4 v); ok_45 : byte_ok (correction_4to5 v);
  ok_fb : byte_ok (correction_forward_brake v); ok_4wd : byte_ok (correction_four_wheel_drive v); ok_lp : byte_ok (correction_line_pressure v);
  ok_tb : byte_ok (temperature_basis v); ok_awd : u16_ok (torque_correction_awd v) }.
Definition readout_of (v : TcuParameterValues) : TcuParameterReadout :=
  {| input_clutch := correction_3to4 v; high_low_reverse_clutch := correction_2to3 v; direct_clutch := correction_1to2 v;
     front_brake := correction_4to5 v; awd_clutch_torque := torque_correction_awd v; forward_brake := correction_forward_brake v;
     four_wheel_drive := correction_four_wheel_drive v; line_pressure := correction_line_pressure v;
     readout_temperature_basis := temperature_basis v |}.
Definition row_ok (w : TcuParameterWrite) : Prop := 0 <= address w < 16777216 /\ byte_ok (write_value w).
Definition store (mm : Z -> Z) (w : TcuParameterWrite) : Z -> Z := fun x => if x =? address w then write_value w else mm x.
Section tcu.
Context (m : Z -> Z).
Lemma FrameFor_written w : row_ok w -> framed_write (SetParameters.FrameFor w) = Some (address w, write_value w).
Proof.
  intros [Ha Hv]. unfold SetParameters.FrameFor. rewrite AddHeader_bytes.
  - unfold AppendU24Be. cbn [app]. change (zlen [_; _; _; _; _]) with 5. set (a := u8 _). set (b := u8 _). set (c := u8 _). change (u8 5) with 5.
    unfold framed_write, SetParameters.kTargetId, SetParameters.kTesterId. rewrite bool_decide_true by done. rewrite Z.eqb_refl. cbn [andb].
    do 2 f_equal. unfold u24, a, b, c. lanes. zmod.
  - unfold AppendU24Be. cbn [app]. repeat (constructor; [first [apply u8_range|unfold byte_ok; lia|done]|]). constructor.
  - unfold byte_ok, SetParameters.kTesterId. lia.
  - unfold byte_ok, SetParameters.kTargetId. lia.
Qed.
Lemma memory_at_snoc t e : memory_at m (t ++ [e]) = tcu_store (memory_at m t) e.
Proof. unfold memory_at. by rewrite fold_left_app. Qed.
Lemma last_request_snoc t e : last_request (t ++ [e]) = match e with EvPort (SsmWrite data) _ => data | _ => last_request t end.
Proof. unfold last_request. by rewrite fold_left_app. Qed.
Lemma write_rows_tcu writes total count t : Forall row_ok writes ->
  exists t', SetParameters.write_rows (H := tcu m) writes total count t
    = (CompletedStep (OSetParameters {| frames_written := count + zlen writes |}), t') /\ memory_at m t' = fold_left store writes (memory_at m t).
Proof.
  intros Hw. revert count t. induction Hw as [|w writes Hw _ IH]; intros count t; cbn [SetParameters.write_rows].
  { exists t. rewrite zlen_nil, Z.add_0_r. done. }
  unfold bind, Cancelled, Call. cbn [env_cancelled env_port tcu]. rewrite last_request_snoc.
  set (t2 := _ ++ [EvPort (SsmWrite _) _]). 
  assert (tcu_reply (memory_at m t2) (SetParameters.FrameFor w) = AddHeader [0xf8] 0x18 0xf0) as -> by (unfold tcu_reply; by rewrite FrameFor_written).
  change (zlen (AddHeader [0xf8] 0x18 0xf0) <=? 4) with false. change (zget (AddHeader [0xf8] 0x18 0xf0) 4 =? SetParameters.kPositiveResponse) with true.
  cbn [orb negb]. cbv zeta. unfold bind, Call. cbn [env_port tcu absent_port].
  match goal with |- exists t', SetParameters.write_rows _ _ _ ?t3 = _ /\ _ => destruct (IH (count + 1) t3) as (t' & -> & Hm); exists t' end.
  rewrite zlen_cons. split; [do 4 f_equal; lia|]. rewrite Hm. cbn [fold_left]. f_equal. rewrite !memory_at_snoc. cbn [tcu_store]. unfold t2.
  rewrite !memory_at_snoc. cbn [tcu_store]. by rewrite FrameFor_written.
Qed.
Lemma attempts_tcu t : fst (ReadParameters.attempts (H := tcu m) ReadParameters.kAttempts [] t)
  = CompletedStep (OReadout (ReadParameters.Decode ([0x00; 0x00; 0x07; 0xe9; 0xe8] ++ map (memory_at m t) ReadParameters.kAddresses))).
Proof.
  unfold ReadParameters.kAttempts. cbn [ReadParameters.attempts]. unfold bind, Call. cbn [env_port tcu]. rewrite last_request_snoc, memory_at_snoc.
  unfold tcu_reply. cbn [tcu_store]. change (framed_write ReadParameters.BuildRequest) with (@None (Z * Z)).
  change (addresses (drop 6 ReadParameters.BuildRequest)) with ReadParameters.kAddresses. cbv iota.
  set (frame := [_; _; _; _; _] ++ _). change (zlen frame) with 15. change (zget frame 4) with 0xe8. done.
Qed.
(** C22: What is set is what is read. Against a unit that stores framed writes and answers
    reads of its memory, and whatever it held, setting any parameters completes with
    twelve frames taken, and reading them afterwards completes with a readout of exactly
    those values: the two tables of addresses agree, and the torque keeps both bytes. *)
Theorem set_then_read values protocol protocol' t : values_ok values ->
  let '((step, _), t') := Resume (ServiceFunctionSession := SetParameters.session (H := tcu m))
    {| SetParameters.protocol_ := protocol; SetParameters.values_ := values; SetParameters.misused_ := false |} t in
  step = CompletedStep (OSetParameters {| frames_written := 12 |})
  /\ fst (fst (Resume (ServiceFunctionSession := ReadParameters.session (H := tcu m))
                 {| ReadParameters.protocol_ := protocol'; ReadParameters.misused_ := false |} t'))
     = CompletedStep (OReadout (readout_of values)).
Proof.
  intros Hv. cbn [Resume SetParameters.session]. unfold SetParameters.Resume. cbn [SetParameters.misused_ SetParameters.values_].
  unfold bind at 1, Log. assert (Forall row_ok (TcuParameterWrites values)) as Hrows.
  { destruct Hv. unfold TcuParameterWrites. repeat (apply List.Forall_cons; [split; [cbn; lia|cbn; first [done|apply u8_range|unfold byte_ok; lia]]|]). constructor. }
  cbv zeta. match goal with |- context [bind _ _ ?t0] => destruct (write_rows_tcu _ (zlen (TcuParameterWrites values)) 0 t0 Hrows) as (t' & E & Hm) end.
  unfold bind at 1. rewrite E. unfold ret. split; [done|]. cbn [Resume ReadParameters.session]. unfold ReadParameters.Resume. cbn [ReadParameters.misused_].
  unfold bind at 1, Cancelled. cbn [env_cancelled tcu]. unfold bind at 1, Log.
  unfold bind at 1. match goal with |- context [ReadParameters.attempts _ _ ?t1] => pose proof (attempts_tcu t1) as Ha; destruct (ReadParameters.attempts _ _ t1) as [step t2] end.
  cbn [fst] in *. rewrite Ha. do 2 f_equal. rewrite !memory_at_snoc. cbn [tcu_store]. rewrite Hm. unfold ret. cbn [fst]. do 2 f_equal.
  generalize (memory_at m (t ++ [EvLog LInfo "Setting TCU parameters..."])). intros mm. destruct Hv.
  set (v := torque_correction_awd values) in *. set (hi := u8 (Z.land (Z.shiftr v 8) 0xff)). set (lo := u8 (Z.land v 0xff)).
  assert (map (fold_left store (TcuParameterWrites values) mm) ReadParameters.kAddresses
    = [correction_3to4 values; correction_2to3 values; correction_1to2 values; correction_4to5 values; hi; lo; correction_forward_brake values;
       correction_four_wheel_drive values; correction_line_pressure values; temperature_basis values]) as -> by reflexivity.
  unfold ReadParameters.Decode, readout_of. cbn [app]. fold v. f_equal.
  transitivity (ReadU16Be (be16 v) 0); [|rewrite ReadU16Be_be16; by apply u16_small]. reflexivity.
Qed.
End tcu.
Definition sample_values : TcuParameterValues :=
  {| correction_1to2 := 0x81; correction_2to3 := 0x7f; correction_3to4 := 0x80; correction_4to5 := 0x85; correction_forward_brake := 1;
     correction_four_wheel_drive := 2; correction_line_pressure := 3; temperature_basis := 60; torque_correction_awd := 0x1234 |}.
Definition sample_set : SetParameters.Session :=
  {| SetParameters.protocol_ := "sub_tcu_denso_sh7058_can"; SetParameters.values_ := sample_values; SetParameters.misused_ := false |}.
Definition sample_read : ReadParameters.Session :=
  {| ReadParameters.protocol_ := "sub_tcu_denso_sh7058_can"; ReadParameters.misused_ := false |}.
Lemma set_then_read_witness :
  fst (fst (ReadParameters.Resume (H := tcu (fun _ => 0)) sample_read (snd (SetParameters.Resume (H := tcu (fun _ => 0)) sample_set []))))
  = CompletedStep (OReadout (readout_of sample_values)).
Proof.
  assert (values_ok sample_values) as Hv by (constructor; unfold byte_ok, u16_ok; cbn; lia).
  pose proof (set_then_read (fun _ => 0) sample_values "sub_tcu_denso_sh7058_can" "sub_tcu_denso_sh7058_can" [] Hv) as H.
  cbn [Resume SetParameters.session ReadParameters.session] in H. fold sample_set sample_read in H.
  destruct (SetParameters.Resume (H := tcu (fun _ => 0)) sample_set []) as [[step s] t']. exact (proj2 H).
Defined.
