(* ===== verification/KlineExecution.v ===== *)
(** * KlineExecution: flash plans over the K-Line, and the M32R SSM exchanges

    The K-Line side of [src/backend/flash/flash_executor.h] and
    [guarded_flash_execution.cpp] (admission, the bound attempt), and
    [src/backend/flash/ecu/m32r_ssm_exchange.*], the exchanges its executors share. *)
From S2P Require Import Prelude Bytes Ssm Uds Ports UdsClient CanFlash FlashPlan FlashExecution MutDmaDriver FlashLogic.

(** ** [flash_executor.h]: executors and attempts over the K-Line

    [IKlineFlashTransport] is the K-Line calls of [Ports]. *)
Module Kline.
Record IKlineFlashExecutor := {
  TransportSetup : FlashPlan -> result Error KlineConfig;
  BeforeTransportConfigure : M Status;
  BeforeTransportOpen : M Status;
  Execute : FlashPlan -> M (result Error FlashExecutionResult)
}.
(** [NonIso14230KlineConfigFrom]. *)
Definition NonIso14230KlineConfigFrom (initial_baud tester target : Z) : KlineConfig :=
  {| Ports.baud := initial_baud; Ports.iso14230 := false; Ports.tester_id := tester; Ports.target_id := target; Ports.parity := Ports.kNone |}.
Section execution.
Context `{Env}.
Definition FamilyExecutor {Plan : Type} (family : FlashFamily) (get : FamilyPlan -> option Plan)
    (validate : FlashPlan -> Status) (Setup : Plan -> result Error KlineConfig)
    (Run : Plan -> FlashPlan -> M (result Error FlashExecutionResult)) : IKlineFlashExecutor :=
  let CheckPlan (plan : FlashPlan) : Status := let! _ := CheckFamily plan family in validate plan in
  let bad_any_cast {A} : result Error A := Fail kInternal "std::bad_any_cast" in
  {| TransportSetup := fun plan =>
       let! _ := CheckPlan plan in
       match get (family_plan (fields_ plan)) with Some p => Setup p | None => bad_any_cast end;
     BeforeTransportConfigure := ret (Ok tt);
     BeforeTransportOpen := ret (Ok tt);
     Execute := fun plan =>
       match CheckPlan plan with
       | Err e => ret (Err e)
       | Ok _ =>
           do cancelled <- Cancelled;
           if cancelled then ret (Fail kCancelled "cancelled before setup")
           else match get (family_plan (fields_ plan)) with
                | Some p => Run p plan
                | None => ret bad_any_cast
                end
       end |}.
Definition ExecuteWithTransportGuard (executor : IKlineFlashExecutor) (plan : FlashPlan)
    : M (result Error FlashExecutionResult) := Execute executor plan.
Definition BoundAttempt_Run (executor : IKlineFlashExecutor) (plan : FlashPlan) : M (result Error FlashExecutionResult) :=
  do opened <-
    match TransportSetup executor plan with
    | Err e => ret (Err e)
    | Ok setup =>
        do! _ <- (do cancelled <- Cancelled;
                  if cancelled then ret (Fail kCancelled "cancelled before configure")
                  else do! _ <- BeforeTransportConfigure executor; Call (KlineConfigure setup));
        do! _ <- BeforeTransportOpen executor;
        Call KlineOpen
    end;
  match opened with
  | Err e => ret (Err e)
  | Ok _ =>
      do outcome <- ExecuteWithTransportGuard executor plan;
      do closed <- Call KlineClose;
      match outcome, closed with
      | Err e, Err _ => do _ <- Log LWarning "close failed after execution error"; ret (Err e)
      | Err e, Ok _ => ret (Err e)
      | Ok _, Err e => ret (Err e)
      | Ok r, Ok _ => ret (Ok r)
      end
  end.
End execution.
End Kline.

(** ** [ecu/m32r_ssm_exchange.h], [ecu/m32r_ssm_exchange.cpp] *)
Inductive M32rSsmPeer : Set := kPeerEcu | kPeerTcu.
Record M32rSsmEndpoint := { ep_tester_id : Z; ep_target_id : Z; ep_peer : M32rSsmPeer }.
Definition PeerName (peer : M32rSsmPeer) : string := match peer with kPeerTcu => "TCU" | kPeerEcu => "ECU" end.
Definition M32rSsmPayloadHasPrefix (response prefix : list Z) : bool :=
  let kPayloadOffset := 4 in
  if (zlen response <? kPayloadOffset) || (zlen response - kPayloadOffset <? zlen prefix) then false
  else bool_decide (subspan response kPayloadOffset (zlen prefix) = prefix).
Definition ExpectM32rSsmPrefix (response prefix : list Z) (peer : M32rSsmPeer) : Status :=
  let kEnvelopeBytes := 4 in
  if zlen response <? kEnvelopeBytes + zlen prefix then Fail kBadResponse "response is too short"
  else if negb (M32rSsmPayloadHasPrefix response prefix) then Fail kBadResponse ("wrong response from " +:+ PeerName peer)
  else Ok tt.
(** The identity the ECU or TCU answers 0xBF with, five bytes in upper case, and an underscore. *)
Definition rom_id_text (response : list Z) : string :=
  fold_left (fun id byte => id +:+ fmt_02X byte) (subspan response 8 5) ""%string +:+ "_".
Section exchanges.
Context `{Env}.
Definition SendM32rSsmFrame (payload : list Z) (tester target : Z) : M Status :=
  do cancelled <- Cancelled;
  if cancelled then ret (Fail kCancelled "cancelled before write")
  else
    let request := AddHeader payload tester target in
    do! written <- Call (KlineWrite request);
    ret (if negb (written =? zlen request) then Fail kDisconnected "short K-Line write" else Ok tt).
Definition ReceiveM32rSsmOnce (timeout : Z) : M (result Error (option (list Z))) :=
  do! response <- Call (KlineRead timeout);
  do cancelled <- Cancelled;
  ret (if cancelled then Fail kCancelled "cancelled after read" else Ok response).
Definition ExchangeM32rSsmOptional (payload : list Z) (tester target timeout : Z) : M (result Error (option (list Z))) :=
  do! _ <- SendM32rSsmFrame payload tester target;
  do cancelled <- Cancelled;
  if cancelled then ret (Fail kCancelled "cancelled after write") else ReceiveM32rSsmOnce timeout.
Definition ExchangeM32rSsmRequired (payload : list Z) (endpoint : M32rSsmEndpoint) (timeout : Z) : M (result Error (list Z)) :=
  do! response <- ExchangeM32rSsmOptional payload (ep_tester_id endpoint) (ep_target_id endpoint) timeout;
  ret match response with
      | None => Fail kTimeout ("no response from " +:+ PeerName (ep_peer endpoint))
      | Some reply => Ok reply
      end.
Definition RequestM32rSsmPrefix (payload : list Z) (endpoint : M32rSsmEndpoint) (prefix : list Z) (timeout : Z) : M Status :=
  do! response <- ExchangeM32rSsmRequired payload endpoint timeout;
  ret (ExpectM32rSsmPrefix response prefix (ep_peer endpoint)).
End exchanges.
