(* ===== verification/KlineExecutors.v ===== *)
(** * KlineExecutors: the M32R and SH7058 executors over the K-Line

    [src/backend/flash/ecu/subaru_hitachi_m32r_kline_executor.cpp],
    [subaru_mitsu_m32r_kline_executor.cpp], [subaru_tcu_hitachi_m32r_kline_executor.cpp]
    and [subaru_hitachi_sh7058_kline_executor.cpp], one Module each. *)
From S2P Require Import Prelude Bytes Ssm Uds Ports FlashPlan FlashExecution SingleWindowPlans StagedPlans KlineExecution.

(** ** [subaru_hitachi_m32r_kline_executor.cpp] *)
Module HitachiKline.
Definition kTimeoutMs : Z := 2000.
Definition kSeedIndex : list Z :=
  [0x3275; 0x6ad8; 0x1062; 0x512b; 0xd695; 0x7640; 0x25f6; 0xac45; 0x6803; 0xe5da; 0xc821; 0x36bf; 0xa433; 0x3f41; 0x842c;
   0x05d9].
Definition SeedKey (seed : list Z) : list Z := CalculateSeedKey seed kSeedIndex kStockPairTable.
Definition kPayloadIndex : list Z := [0x78f1; 0x2962; 0x9312; 0x7c03].
Definition Encrypt (image : list Z) : list Z := CalculatePayload image kPayloadIndex kStockPairTable.
Definition Framed (p : SubaruHitachiM32rKlinePlan) (payload : list Z) : list Z :=
  AddHeader payload (kline_tester_id p) (kline_target_id p).
Definition EndpointOf (p : SubaruHitachiM32rKlinePlan) : M32rSsmEndpoint :=
  {| ep_tester_id := kline_tester_id p; ep_target_id := kline_target_id p; ep_peer := kPeerEcu |}.
Definition ExpectPrefix (response prefix : list Z) : Status := ExpectM32rSsmPrefix response prefix kPeerEcu.
Definition ParseRomId (response : list Z) : result Error string :=
  let! _ := ExpectPrefix response [0xff] in
  if zlen response <? 13 then Fail kBadResponse "ECU ID response is too short" else Ok (rom_id_text response).
Section executor.
Context `{Env} (p : SubaruHitachiM32rKlinePlan).
Definition ExchangeOptional (payload : list Z) (timeout : Z) : M (result Error (option (list Z))) :=
  ExchangeM32rSsmOptional payload (kline_tester_id p) (kline_target_id p) timeout.
Definition Exchange (payload : list Z) : M (result Error (list Z)) := ExchangeM32rSsmRequired payload (EndpointOf p) kTimeoutMs.
Definition RequestPrefix (request expected : list Z) : M Status := RequestM32rSsmPrefix request (EndpointOf p) expected kTimeoutMs.
Definition AuthenticatedSession (include_bf : bool) : M Status :=
  do! _ <- (if include_bf then do! id <- Exchange [0xbf]; do! _ <- ret (ParseRomId id); RequestPrefix [0x81] [0xc1]
            else ret (Ok tt));
  do! _ <- RequestPrefix [0x83; 0] [0xc3];
  do! seed <- Exchange [kSidSecurityAccess; kSecurityAccessRequestSeed];
  do! _ <- ret (ExpectPrefix seed [0x67; kSecurityAccessRequestSeed]);
  do! _ <- (if zlen seed <? 10 then ret (Fail kBadResponse "seed response is too short")
            else
              let key_request := ComposeBe [FByte kSidSecurityAccess; FByte kSecurityAccessSendKey; FBytes (SeedKey (subspan seed 6 4))] in
              if bool_decide (session_mode p = kRecovery) then RequestPrefix key_request [0x67]
              else RequestPrefix key_request [0x67; kSecurityAccessSendKey]);
  RequestPrefix [kSidDiagnosticSessionControl; 0x85; 0x02] [0x50].
Definition PrepareRead : M (result Error string) :=
  do! probe <- (do! _ <- Call (KlineSetBaud (read_baud p)); ExchangeOptional [0xbf] kTimeoutMs);
  match match probe with Some reply => ParseRomId reply | None => Fail kTimeout "" end with
  | Ok id => ret (Ok id)
  | Err _ =>
      do! _ <- Call (KlineSetBaud (initial_baud p));
      do! initial <- Exchange [0xbf];
      do! id <- ret (ParseRomId initial);
      do! _ <- RequestPrefix [0xb8; 0x00; 0x00; 0x00; 0x75] [0xf8];
      do! _ <- Call (KlineSetBaud (read_baud p));
      do! _ <- RequestPrefix [0xbf] [0xff];
      ret (Ok id)
  end.
(** The wake attempts that are left. *)
Fixpoint wake (attempts : nat) : M Status :=
  match attempts with
  | O => ret (Fail kTimeout "recovery wake sequence exhausted 1000 attempts")
  | S attempts =>
      do! response <- ExchangeOptional [0x81] 50;
      match response with
      | None => wake attempts
      | Some reply => ret (ExpectPrefix reply [0xc1])
      end
  end.
Definition download_request : list Z := [kSidRequestDownload; 0; 0; 0; 0x04; 0x08; 0; 0].
Definition PrepareWrite : M Status :=
  if bool_decide (session_mode p = kRecovery) then
    do! _ <- Call (KlineSetBaud (initial_baud p));
    do! _ <- wake 1000;
    AuthenticatedSession false
  else
    do! probe <- (do! _ <- Call (KlineSetBaud (write_baud p)); ExchangeOptional download_request kTimeoutMs);
    if match probe with Some f => (6 <=? zlen f) && (zget f 4 =? 0x74) && (zget f 5 =? 0x84) | None => false end
    then ret (Ok tt)
    else do! _ <- Call (KlineSetBaud (initial_baud p)); AuthenticatedSession true.
Definition kRomSize : Z := 0x80000.
Definition read_request (logical : Z) : list Z :=
  ComposeBe [FByte 0xa0; FByte 0x00; FByte 0x00; FU24 (u32 (logical + read_address_bias p)); FByte (u8 (kline_chunk_size p - 1))].
Fixpoint read_loop (fuel : nat) (logical : Z) (rom : list Z) : M (result Error (list Z)) :=
  match fuel with
  | O => ret (Ok rom)
  | S fuel =>
      if logical <? kRomSize then
        do cancelled <- Cancelled;
        if cancelled then ret (Fail kCancelled "cancelled during ROM read")
        else
          do! response <- Exchange (read_request logical);
          if negb (zlen response =? kline_chunk_size p + 6) || negb (zget response 4 =? 0xe0)
          then ret (Fail kBadResponse "ROM read response must contain exactly 128 data bytes")
          else
            do _ <- Call (EventsProgress (logical + kline_chunk_size p) kRomSize);
            read_loop fuel (u32 (logical + kline_chunk_size p)) (rom ++ subspan response 5 (zlen response - 6))
      else ret (Ok rom)
  end.
(** One round more than the ROM has chunks; a validated plan has chunks of 128 bytes. *)
Definition chunk_rounds : nat := Z.to_nat (kRomSize / kline_chunk_size p + 1).
Definition ReadRom : M (result Error (list Z)) := read_loop chunk_rounds 0 [].
Definition erase_request : list Z := [kSidRoutineControl; kRoutineControlStop; 0x0f; 0xff; 0xff; 0xff].
(** Fragments of the answer, while it is short and attempts are left. *)
Fixpoint erase_wait (attempts_remaining : nat) (response : list Z) : M (result Error (list Z)) :=
  match attempts_remaining with
  | O => ret (Ok response)
  | S attempts_remaining =>
      if zlen response <=? 5 then
        do! fragment <- Call (KlineRead 500);
        let response := response ++ default [] fragment in
        do! _ <- (if zlen response <=? 5 then Sleep 500 else ret (Ok tt));
        erase_wait attempts_remaining response
      else ret (Ok response)
  end.
Definition EraseRom : M Status :=
  let request := Framed p erase_request in
  do cancelled <- Cancelled;
  if cancelled then ret (Fail kCancelled "cancelled before erase")
  else
    do! written <- Call (KlineWrite request);
    if negb (written =? zlen request) then ret (Fail kDisconnected "short K-Line erase write")
    else
      do! response <- erase_wait 20 [];
      ret (ExpectPrefix response [0x71; kRoutineControlStop]).
Definition transfer_request (encrypted : list Z) (address : Z) : list Z :=
  ComposeBe [FByte kSidTransferData; FU24 address; FBytes (subspan encrypted address (kline_chunk_size p))].
Fixpoint transfer_loop (fuel : nat) (encrypted : list Z) (address : Z) : M Status :=
  match fuel with
  | O => ret (Ok tt)
  | S fuel =>
      if address <? kRomSize then
        do cancelled <- Cancelled;
        if cancelled then ret (Fail kCancelled "cancelled during ROM write")
        else
          do! ack <- ExchangeOptional (transfer_request encrypted address) kTimeoutMs;
          if match ack with Some f => (4 <? zlen f) && negb (zget f 4 =? 0x76) | None => false end
          then ret (Fail kBadResponse "write data failed")
          else
            do _ <- Call (EventsProgress (address + kline_chunk_size p) kRomSize);
            transfer_loop fuel encrypted (u32 (address + kline_chunk_size p))
      else ret (Ok tt)
  end.
Definition TransferRom (plan : FlashPlan) : M Status := transfer_loop chunk_rounds (Encrypt (ImageOrEmpty plan)) 0.
Definition checksum_request : list Z := [kSidRoutineControl; kRoutineControlStart; 0x02].
Definition WriteRom (plan : FlashPlan) : M Status :=
  do! _ <- Call (KlineSetBaud (write_baud p));
  do! _ <- RequestPrefix download_request [0x74];
  do! _ <- Sleep 200;
  do! _ <- EraseRom;
  do! _ <- (do cancelled <- Cancelled;
            if cancelled then ret (Fail kCancelled "cancelled after erase") else TransferRom plan);
  do! _ <- Sleep 300;
  do! checksum <- ExchangeOptional checksum_request kTimeoutMs;
  ret match checksum with
      | None | Some [] => Fail kTimeout "no final checksum response"
      | Some _ => Ok tt
      end.
End executor.
Definition get (p : FamilyPlan) : option SubaruHitachiM32rKlinePlan :=
  match fp_value p with Some (HitachiM32rKlinePlan w) => Some w | _ => None end.
Section family.
Context `{Env}.
Definition Setup (family : SubaruHitachiM32rKlinePlan) : result Error KlineConfig :=
  Ok (Kline.NonIso14230KlineConfigFrom (initial_baud family) (kline_tester_id family) (kline_target_id family)).
Definition Run (p : SubaruHitachiM32rKlinePlan) (plan : FlashPlan) : M (result Error FlashExecutionResult) :=
  do! _ <- Call (KlineSetAddIso14230Header false);
  if bool_decide (Operation plan = kRead) then
    do! id <- PrepareRead p;
    do! rom <- ReadRom p;
    ret (Ok {| res_operation := kRead; read_bytes := Some rom; rom_id := Some id |})
  else
    do! _ <- PrepareWrite p;
    do! _ <- WriteRom p plan;
    ret (Ok {| res_operation := kWrite; read_bytes := None; rom_id := None |}).
Definition SubaruHitachiM32rKlineExecutor : Kline.IKlineFlashExecutor :=
  Kline.FamilyExecutor kSubaruHitachiM32rKline get HitachiM32rKline.Validate Setup Run.
End family.
End HitachiKline.

(** ** [subaru_mitsu_m32r_kline_executor.cpp] *)
Module MitsuKline.
Definition kSeedIndex : list Z :=
  [0x8519; 0x5c53; 0xc0e9; 0x2452; 0x1e68; 0x6feb; 0x2648; 0x81e2; 0x8ce4; 0x953b; 0x1ca9; 0x6180; 0xb85e; 0x5109; 0xdb3c;
   0x3cf2].
Definition SeedKey (seed : list Z) : list Z := CalculateSeedKey seed kSeedIndex kStockPairTable.
Definition kPayloadIndex : list Z := [0x25b5; 0x3875; 0xca11; 0x2680].
Definition Encrypt (image : list Z) : list Z := CalculatePayload image kPayloadIndex kStockPairTable.
Definition ExpectService (response service : list Z) : Status :=
  if zlen response <? 4 + zlen service then Fail kBadResponse "No valid response from ECU"
  else if negb (bool_decide (subspan response 4 (zlen service) = service)) then Fail kBadResponse "Wrong response from ECU"
  else Ok tt.
Section executor.
Context `{Env} (p : SubaruMitsuM32rKlinePlan).
Definition ExchangeOptional (payload : list Z) : M (result Error (option (list Z))) :=
  ExchangeM32rSsmOptional payload (mitsu_tester_id p) (mitsu_target_id p) 2000.
Definition Exchange (payload : list Z) : M (result Error (list Z)) :=
  ExchangeM32rSsmRequired payload
    {| ep_tester_id := mitsu_tester_id p; ep_target_id := mitsu_target_id p; ep_peer := kPeerEcu |} 2000.
Definition request (payload expected : list Z) : M Status :=
  do! response <- Exchange payload; ret (ExpectService response expected).
Definition Handshake : M (result Error string) :=
  do! _ <- Sleep 100;
  do _ <- Log LInfo "Requesting ECU ID";
  do! id <- Exchange [0xbf];
  do! rom_id <- (do! _ <- ret (ExpectService id [0xff]);
                 if zlen id <? 14 then ret (Fail kBadResponse "ECU ID response does not contain five ID bytes")
                 else
                   let rom_id := rom_id_text id in
                   do _ <- Log LInfo ("ECU ID: " +:+ String.substring 0 (String.length rom_id - 1) rom_id);
                   ret (Ok rom_id));
  do _ <- Log LInfo "Requesting to start communication";
  do! _ <- request [0x81] [0xc1];
  do _ <- Log LInfo "Start communication ok";
  do _ <- Log LInfo "Requesting timings params";
  do! _ <- request [0x83; 0x00] [0xc3];
  do _ <- Log LInfo "Timing parameters ok";
  do _ <- Log LInfo "Requesting seed";
  do! seed_response <- Exchange [kSidSecurityAccess; kSecurityAccessRequestSeed];
  do! _ <- ret (ExpectService seed_response [0x67; kSecurityAccessRequestSeed]);
  do! _ <- (if zlen seed_response <? 10 then ret (Fail kBadResponse "seed response is too short")
            else
              let key_request := ComposeBe [FByte kSidSecurityAccess; FByte kSecurityAccessSendKey;
                                            FBytes (SeedKey (subspan seed_response 6 4))] in
              do _ <- Log LInfo "Sending seed key to ECU";
              request key_request [0x67; kSecurityAccessSendKey]);
  do _ <- Log LInfo "Seed key ok";
  do _ <- Log LInfo "Set session mode";
  do! _ <- request [kSidDiagnosticSessionControl; 0x85; 0x02] [0x50];
  do _ <- Log LInfo "Succesfully set to programming session";
  ret (Ok rom_id).
(** One round more than the region has chunks; a validated plan has chunks of 128 bytes. *)
Definition chunk_rounds (region : MemoryRegion) : nat := Z.to_nat (reg_length region / mitsu_chunk_size p + 1).
Definition read_request (address : Z) : list Z :=
  ComposeBe [FByte 0xa0; FByte 0x00; FByte 0x20; FU24 address; FByte (u8 (mitsu_chunk_size p - 1))].
Fixpoint read_loop (fuel : nat) (region : MemoryRegion) (offset : Z) (rom : list Z) : M (result Error (list Z)) :=
  match fuel with
  | O => ret (Ok rom)
  | S fuel =>
      if offset <? reg_length region then
        do cancelled <- Cancelled;
        if cancelled then ret (Fail kCancelled "cancelled during ROM read")
        else
          do! response <- Exchange (read_request (u32 (reg_start region + offset)));
          if negb (zlen response =? mitsu_chunk_size p + 6) || negb (zget response 4 =? 0xe0)
          then ret (Fail kBadResponse "ROM read response must contain exactly 128 data bytes")
          else
            do _ <- Call (EventsProgress (offset + mitsu_chunk_size p) (reg_length region));
            read_loop fuel region (u32 (offset + mitsu_chunk_size p)) (rom ++ subspan response 5 (zlen response - 6))
      else ret (Ok rom)
  end.
Definition ReadRom (region : MemoryRegion) : M (result Error (list Z)) :=
  do! rom <- read_loop (chunk_rounds region) region 0 (replicate (Z.to_nat (reg_start region)) (unread_prefix_fill p));
  do _ <- Log LWarning "The first 0x8000 ROM bytes are synthetic 0xFF; this protocol reads userspace only";
  ret (Ok rom).
Definition download_request : list Z := [kSidRequestDownload; 0; 0; 0; 0x04; 0x07; 0x80; 0].
Definition erase_request : list Z := [kSidRoutineControl; kRoutineControlStop; 0x0f; 0xff; 0xff; 0xff].
Definition transfer_request (encrypted : list Z) (address : Z) : list Z :=
  ComposeBe [FByte kSidTransferData; FU24 address; FBytes (subspan encrypted address (mitsu_chunk_size p))].
Fixpoint transfer_loop (fuel : nat) (region : MemoryRegion) (encrypted : list Z) (offset : Z) : M Status :=
  match fuel with
  | O => ret (Ok tt)
  | S fuel =>
      if offset <? reg_length region then
        do cancelled <- Cancelled;
        if cancelled then ret (Fail kCancelled "cancelled during ROM write")
        else
          do! _ <- ExchangeOptional (transfer_request encrypted (u32 (reg_start region + offset)));
          do _ <- Call (EventsProgress (offset + mitsu_chunk_size p) (reg_length region));
          transfer_loop fuel region encrypted (u32 (offset + mitsu_chunk_size p))
      else ret (Ok tt)
  end.
Definition checksum_request : list Z := [kSidRoutineControl; kRoutineControlStart; 0x02].
Definition WriteRom (plan : FlashPlan) : M Status :=
  do! _ <- (do! _ <- Call (KlineSetBaud (mitsu_flash_baud p));
            do! setup <- Exchange download_request;
            do! _ <- ret (ExpectService setup [0x74]);
            do _ <- Log LInfo "Erasing...";
            do! erase_reply <- Exchange erase_request;
            do! _ <- ret (ExpectService erase_reply [0x71]);
            CheckCancelled "cancelled after erase");
  let encrypted := Encrypt (ImageOrEmpty plan) in
  let region := TransferRegion plan in
  do _ <- Log LInfo "Starting ROM Flashing...";
  do! _ <- transfer_loop (chunk_rounds region) region encrypted 0;
  do _ <- Log LInfo "Verifying checksum...";
  do! _ <- Sleep 1000;
  do! checksum <- Exchange checksum_request;
  do! _ <- ret (ExpectService checksum [0x71; kRoutineControlStart; 0x02]);
  do _ <- Log LInfo "Checksum verified...";
  ret (Ok tt).
Definition ExecuteOpenTransport (plan : FlashPlan) : M (result Error FlashExecutionResult) :=
  do! _ <- Call (KlineSetAddIso14230Header false);
  do _ <- Log LInfo "Connecting to ECU K-Line bootloader, please wait...";
  do! rom_id <- Handshake;
  if bool_decide (Operation plan = kRead) then
    do _ <- Log LInfo "Reading ROM from ECU using K-Line";
    do! rom <- ReadRom (TransferRegion plan);
    ret (Ok {| res_operation := Operation plan; read_bytes := Some rom; rom_id := Some rom_id |})
  else
    do _ <- Log LInfo "Writing ROM to ECU using K-Line";
    do! _ <- WriteRom plan;
    ret (Ok {| res_operation := Operation plan; read_bytes := None; rom_id := None |}).
End executor.
Definition get (p : FamilyPlan) : option SubaruMitsuM32rKlinePlan :=
  match fp_value p with Some (MitsuM32rKlinePlan w) => Some w | _ => None end.
Section family.
Context `{Env}.
Definition Setup (family : SubaruMitsuM32rKlinePlan) : result Error KlineConfig :=
  Ok (Kline.NonIso14230KlineConfigFrom (mitsu_initial_baud family) (mitsu_tester_id family) (mitsu_target_id family)).
Definition Run (p : SubaruMitsuM32rKlinePlan) (plan : FlashPlan) : M (result Error FlashExecutionResult) :=
  ExecuteOpenTransport p plan.
Definition SubaruMitsuM32rKlineExecutor : Kline.IKlineFlashExecutor :=
  Kline.FamilyExecutor kSubaruMitsuM32rKline get MitsuM32rKline.Validate Setup Run.
End family.
End MitsuKline.

(** ** [subaru_tcu_hitachi_m32r_kline_executor.cpp] *)
Module TcuKline.
Definition kRomSize : Z := 0x80000.
Definition kConnectTimeoutMs : Z := 2000.
Definition kConnectDelay : Z := 100.
Definition kBlockTimeoutMs : Z := 500.
Definition kBlockDelay : Z := 100.
Definition kBlockAttempts : nat := 5.
Definition kSeedIndex : list Z :=
  [0x0FE9; 0xCA58; 0x5E90; 0xDFF1; 0x690B; 0xF591; 0x1794; 0x5C7B; 0xA7BF; 0x98E5; 0x0B63; 0xA1C9; 0x79BF; 0xF413; 0x82B1;
   0xA895].
Definition SeedKey (seed : list Z) : list Z := CalculateSeedKey seed kSeedIndex kStockPairTable.
Definition Framed (p : SubaruTcuHitachiM32rKlinePlan) (payload : list Z) : list Z :=
  AddHeader payload (tcu_tester_id p) (tcu_target_id p).
Definition EndpointOf (p : SubaruTcuHitachiM32rKlinePlan) : M32rSsmEndpoint :=
  {| ep_tester_id := tcu_tester_id p; ep_target_id := tcu_target_id p; ep_peer := kPeerTcu |}.
Definition ExpectPrefix (response prefix : list Z) : Status := ExpectM32rSsmPrefix response prefix kPeerTcu.
Definition ParseRomId (response : list Z) : result Error string :=
  let! _ := ExpectPrefix response [0xff] in
  if zlen response <? 13 then Fail kBadResponse "TCU ID response is too short" else Ok (rom_id_text response).
Section executor.
Context `{Env} (p : SubaruTcuHitachiM32rKlinePlan).
Definition Exchange (payload : list Z) (timeout : Z) : M (result Error (list Z)) :=
  ExchangeM32rSsmRequired payload (EndpointOf p) timeout.
Definition ExchangeBlockRead (payload : list Z) (timeout : Z) : M (result Error (option (list Z))) :=
  do cancelled <- Cancelled;
  if cancelled then ret (Fail kCancelled "cancelled before write")
  else
    let request := Framed p payload in
    do! written <- Call (KlineWrite request);
    if negb (written =? zlen request) then ret (Fail kDisconnected "short K-Line write")
    else
      do cancelled <- Cancelled;
      if cancelled then ret (Fail kCancelled "cancelled after write")
      else
        do! _ <- Sleep kBlockDelay;
        do! response <- Call (KlineRead timeout);
        do cancelled <- Cancelled;
        if cancelled then ret (Fail kCancelled "cancelled after read")
        else do! _ <- Sleep kBlockDelay; ret (Ok response).
Definition RequestPrefix (request expected : list Z) : M Status :=
  RequestM32rSsmPrefix request (EndpointOf p) expected kConnectTimeoutMs.
Definition ConnectBootloader : M (result Error string) :=
  do! _ <- Sleep kConnectDelay;
  do! id_response <- Exchange [0xbf] kConnectTimeoutMs;
  do! id <- ret (ParseRomId id_response);
  do! _ <- RequestPrefix [0x81] [0xc1];
  do! _ <- RequestPrefix [0x83; 0x00] [0xc3];
  do! seed <- Exchange [kSidSecurityAccess; kSecurityAccessRequestSeed] kConnectTimeoutMs;
  do! _ <- ret (ExpectPrefix seed [0x67; kSecurityAccessRequestSeed]);
  if zlen seed <? 10 then ret (Fail kBadResponse "seed response is too short")
  else
    let key_request := ComposeBe [FByte kSidSecurityAccess; FByte kSecurityAccessSendKey; FBytes (SeedKey (subspan seed 6 4))] in
    do! _ <- RequestPrefix key_request [0x67; kSecurityAccessSendKey];
    ret (Ok id).
Definition read_request (address length : Z) : list Z :=
  ComposeBe [FByte 0xa0; FByte 0x00; FU24 address; FByte (u8 (length - 1))].
(** The attempts at one block that are left. *)
Fixpoint read_block (attempts : nat) (request : list Z) : M (result Error (option (list Z))) :=
  match attempts with
  | O => ret (Ok None)
  | S attempts =>
      do! response <- ExchangeBlockRead request kBlockTimeoutMs;
      match response with
      | None => read_block attempts request
      | Some block => if 5 <? zlen block then ret (Ok (Some block)) else read_block attempts request
      end
  end.
(** [{:06x}]. *)
Definition fmt_06x (z : Z) : string :=
  let digits := String.list_ascii_of_string (fmt_x z) in
  String.string_of_list_ascii (replicate (6 - length digits) "0"%char ++ digits).
Fixpoint read_loop (fuel : nat) (address : Z) (rom : list Z) : M (result Error (list Z)) :=
  match fuel with
  | O => ret (Ok rom)
  | S fuel =>
      if address <? kRomSize then
        do cancelled <- Cancelled;
        if cancelled then ret (Fail kCancelled "cancelled during ROM read")
        else
          let length := Z.min (tcu_block_size p) (u32 (kRomSize - address)) in
          do! found <- read_block kBlockAttempts (read_request address length);
          match found with
          | None => ret (Fail kBadResponse ("no block-read response at 0x" +:+ fmt_06x address +:+ " after "
                           +:+ fmt_d (Z.of_nat kBlockAttempts) +:+ " attempts"))
          | Some block =>
              if negb (zlen block =? length + 6) then
                ret (Fail kBadResponse ("block read at 0x" +:+ fmt_06x address +:+ " returned " +:+ fmt_d (zlen block)
                       +:+ " bytes, expected " +:+ fmt_d (length + 6)))
              else
                do _ <- Call (EventsProgress (address + length) kRomSize);
                read_loop fuel (u32 (address + tcu_block_size p)) (rom ++ subspan block 5 (zlen block - 6))
          end
      else ret (Ok rom)
  end.
(** Two rounds more than the ROM has whole blocks: the last block is short. *)
Definition ReadRom : M (result Error (list Z)) := read_loop (Z.to_nat (kRomSize / tcu_block_size p + 2)) 0 [].
End executor.
Definition get (p : FamilyPlan) : option SubaruTcuHitachiM32rKlinePlan :=
  match fp_value p with Some (TcuHitachiM32rKlinePlan w) => Some w | _ => None end.
Section family.
Context `{Env}.
Definition Setup (p : SubaruTcuHitachiM32rKlinePlan) : result Error KlineConfig :=
  Ok {| Ports.baud := tcu_baud p; Ports.iso14230 := true; Ports.tester_id := tcu_tester_id p; Ports.target_id := tcu_target_id p;
        Ports.parity := Ports.kNone |}.
Definition Run (p : SubaruTcuHitachiM32rKlinePlan) (_ : FlashPlan) : M (result Error FlashExecutionResult) :=
  do! _ <- Call (KlineSetAddIso14230Header false);
  do! id <- ConnectBootloader p;
  do! rom <- ReadRom p;
  ret (Ok {| res_operation := kRead; read_bytes := Some rom; rom_id := Some id |}).
Definition SubaruTcuHitachiM32rKlineExecutor : Kline.IKlineFlashExecutor :=
  Kline.FamilyExecutor kSubaruTcuHitachiM32rKline get TcuHitachiM32rKline.Validate Setup Run.
End family.
End TcuKline.

(** ** [subaru_hitachi_sh7058_kline_executor.cpp] *)
Module Sh7058Kline.
Definition Valid (frame : list Z) (service payload_size : Z) : bool :=
  HasValidFrame frame 0xf0 0x10 && (zget frame 3 =? payload_size) && (zget frame 4 =? service).
Section executor.
Context `{Env}.
Definition Exchange (payload : list Z) (delay : Z) : M (result Error (list Z)) :=
  let frame := AddHeader payload 0xf0 0x10 in
  do! _ <- CheckCancelled "SH7058 read cancelled";
  do! written <- Call (KlineWrite frame);
  do! _ <- (if negb (written =? zlen frame) then ret (Fail kDisconnected "short SH7058 K-Line write") else Sleep delay);
  do! reply <- Call (KlineRead (if delay =? 0 then 5000 else 500));
  do cancelled <- Cancelled;
  ret (if cancelled then Fail kCancelled "SH7058 read cancelled"
       else match reply with None => Fail kTimeout "no SH7058 K-Line response" | Some reply => Ok reply end).
Definition ExpectPrefix (reply : result Error (list Z)) (prefix : Z) (rejected : string) : Status :=
  let! frame := reply in
  if negb (HasPayloadPrefix frame [prefix] 0xf0 0x10) then Fail kBadResponse rejected else Ok tt.
Definition IdentifyAndSwitchBaud : M (result Error string) :=
  do! _ <- Call (KlineSetBaud 4800);
  do! identity <- Exchange [0xbf] 200;
  if negb (HasValidFrame identity 0xf0 0x10) || (zlen identity <? 14) || negb (zget identity 4 =? 0xff)
  then ret (Fail kBadResponse "invalid SH7058 identity response")
  else
    let rom_id := rom_id_text identity in
    do switched <- Exchange [0xb8; 0; 0; 0; 0x75] 50;
    do! _ <- ret (ExpectPrefix switched 0xf8 "SH7058 baud switch rejected");
    do! _ <- Call (KlineSetBaud 38400);
    do again <- Exchange [0xbf] 200;
    do! _ <- ret (ExpectPrefix again 0xff "SH7058 connection lost after baud switch");
    ret (Ok rom_id).
Definition kRomSize : Z := 0x100000.
Definition page_request (offset : Z) : list Z := ComposeBe [FByte 0xa0; FU32 (u32 (0x100000 + offset)); FByte 0x7f].
Fixpoint read_loop (fuel : nat) (offset : Z) (rom : list Z) : M (result Error (list Z)) :=
  match fuel with
  | O => ret (Ok rom)
  | S fuel =>
      if offset <? kRomSize then
        do! page <- Exchange (page_request offset) 0;
        if negb (Valid page 0xe0 0x81) then ret (Fail kBadResponse "invalid SH7058 ROM page")
        else
          do _ <- Call (EventsProgress (offset + 0x80) kRomSize);
          read_loop fuel (u32 (offset + 0x80)) (rom ++ subspan page 5 128)
      else ret (Ok rom)
  end.
Definition ReadRom : M (result Error (list Z)) := read_loop (Z.to_nat (kRomSize / 0x80 + 1)) 0 [].
Definition get (p : FamilyPlan) : option SubaruHitachiSh7058KlinePlan :=
  match fp_value p with Some (HitachiSh7058KlinePlan w) => Some w | _ => None end.
Definition Setup (family : SubaruHitachiSh7058KlinePlan) : result Error KlineConfig :=
  Ok (Kline.NonIso14230KlineConfigFrom (h7058_initial_baud family) (h7058_tester_id family) (h7058_target_id family)).
Definition Run (_ : SubaruHitachiSh7058KlinePlan) (_ : FlashPlan) : M (result Error FlashExecutionResult) :=
  do! _ <- (do! _ <- Call (KlineSetAddIso14230Header false); Call (KlineSetBaud 38400));
  do initial <- Exchange [0xbf] 200;
  match initial with
  | Err e =>
      if negb (bool_decide (kind e = kTimeout)) then ret (Err e)
      else
        do! switched <- IdentifyAndSwitchBaud;
        do! rom <- ReadRom;
        ret (Ok {| res_operation := kRead; read_bytes := Some rom; rom_id := Some switched |})
  | Ok frame =>
      do! id <- (if negb (Valid frame 0xff (if 5 <=? zlen frame then zget frame 3 else 0))
                 then do! switched <- IdentifyAndSwitchBaud; ret (Ok (Some switched)) else ret (Ok None));
      do! rom <- ReadRom;
      ret (Ok {| res_operation := kRead; read_bytes := Some rom; rom_id := id |})
  end.
Definition SubaruHitachiSh7058KlineExecutor : Kline.IKlineFlashExecutor :=
  Kline.FamilyExecutor kSubaruHitachiSh7058 get HitachiSh7058.ValidateKline Setup Run.
End executor.
End Sh7058Kline.
