(* ===== verification/KlineFlashing.v ===== *)
(** * KlineFlashing: what the K-Line executors put on the line

    The exchanges of [KlineExecution] and the executors of [KlineExecutors] as seen on
    the line: a write erases before it transfers and transfers the encrypted image in
    order, a read asks for the pages of its region and returns what was answered. *)
From S2P Require Import Prelude Bytes Ssm Uds Ports UdsClient CanFlash FlashPlan FlashExecution FlashMemory MutDmaDriver SingleWindowPlans StagedPlans FlashRouting KlineExecution KlineExecutors Scripts.
#[local] Opaque CalculatePayload CalculateSeedKey.

(** ** Frames that neither transfer data nor start a routine *)
Definition harmless (frame : list Z) : Prop := zget frame 4 <> kSidTransferData /\ zget frame 4 <> kSidRoutineControl.
Lemma service_AddHeader b l s r : zget (AddHeader (b :: l) s r) 4 = u8 b.
Proof. reflexivity. Qed.
Lemma harmless_head payload b l s r :
  payload = b :: l -> u8 b <> kSidTransferData -> u8 b <> kSidRoutineControl -> harmless (AddHeader payload s r).
Proof. intros -> H1 H2. unfold harmless. by rewrite service_AddHeader. Qed.
Ltac is_harmless := eapply harmless_head; [reflexivity|by vm_compute|by vm_compute].
#[local] Opaque AddHeader.

(** ** Frames sent *)
Definition kline_sent (ev : event) : list (list Z) := sent (io_of ev).
Lemma observed_sent d : observed kline_sent d = sent (kline_io d).
Proof. induction d as [|ev d IH]; [done|]. unfold observed in *. cbn [map List.concat]. by rewrite IH, sent_app. Qed.
Lemma talks_sends {A} (m : M A) (P : A -> list (list Z) -> Prop) :
  observes kline_sent m P <-> talks m (fun a l => P a (sent l)).
Proof.
  split; intros Hm; apply (runs_weaken _ _ _ Hm); intros a d; by rewrite observed_sent.
Qed.
(** Only frames with a property are sent. *)
Definition only (P : list Z -> Prop) {A} (m : M A) : Prop := observes kline_sent m (fun _ w => Forall P w).
Section sending.
Context (P : list Z -> Prop).
Lemma only_unseen {A} (m : M A) : unseen kline_sent m -> only P m.
Proof. intros Hm. unfold unseen in Hm. apply (observes_weaken _ _ _ Hm). by intros a w ->. Qed.
Lemma only_ret {A} (a : A) : only P (ret a).
Proof. by apply observes_ret. Qed.
Lemma only_bind {A B} (m : M A) (k : A -> M B) : only P m -> (forall a, only P (k a)) -> only P (bind m k).
Proof.
  intros Hm Hk. unfold only in *. apply (observes_bind _ _ _ _ Hm). intros a w Hw. refine (observes_weaken _ _ _ (Hk a) _).
  intros b w2 Hw2. by apply Forall_app_2.
Qed.
Lemma only_try {A B} (m : M (result Error A)) (k : A -> M (result Error B)) :
  only P m -> (forall a, only P (k a)) -> only P (try m k).
Proof. intros Hm Hk. apply only_bind; [done|]. intros [a|e]; [apply Hk|apply only_ret]. Qed.
Lemma only_scripted {A} L (m : M (result Error A)) : scripted kline_sent L (answering m) -> Forall P L -> only P m.
Proof.
  intros Hm HL t. destruct (Hm t) as (d & E & Hs). unfold answering, bind, ret in *. destruct (m t) as [r t1]. cbn [fst snd] in *.
  exists d. split; [done|]. destruct (succeeded (Some r)); [by rewrite Hs|]. destruct Hs as [rest Hs]. rewrite Hs in HL. by apply Forall_app in HL as [HL _].
Qed.
End sending.
Lemma scripted_sent {A} L (m : M (result Error A)) :
  scripted kline_sent L (answering m) -> talks m (fun r l => if is_ok r then sent l = L else sent l `prefix_of` L).
Proof.
  intros Hm t. destruct (Hm t) as (d & E & Hs). unfold answering, bind, ret in *. destruct (m t) as [r t1]. cbn [fst snd] in *.
  exists d. split; [done|]. rewrite <- observed_sent. by destruct r.
Qed.

(** ** Exchanges *)
Definition exchanged (frame : list Z) (r : result Error (option (list Z))) (l : list io) : Prop :=
  match r with
  | Ok reply => l = [W frame; R (Ok reply)]
  | Err _ => l = [] \/ l = [W frame] \/ exists a, l = [W frame; R a]
  end.
Definition exchanged_reply (frame : list Z) (r : result Error (list Z)) (l : list io) : Prop :=
  match r with
  | Ok reply => l = [W frame; R (Ok (Some reply))]
  | Err _ => l = [] \/ l = [W frame] \/ exists a, l = [W frame; R a]
  end.
Section exchanges.
Context `{Env}.
Lemma talks_write f : talks (Call (KlineWrite f)) (fun _ l => l = [W f]).
Proof. by apply runs_Call. Qed.
Lemma talks_read timeout : talks (Call (KlineRead timeout)) (fun r l => l = [R r]).
Proof. by apply runs_Call. Qed.
Lemma talks_Cancelled : talks Cancelled (fun _ l => l = []).
Proof. by apply unseen_Cancelled. Qed.
Lemma unseen_talks {A} (m : M A) (k : A -> list io -> Prop) : unseen io_of m -> (forall a, k a []) -> talks m k.
Proof. intros Hm Hk. unfold unseen in Hm. apply (observes_weaken _ _ _ Hm). intros a l ->. apply Hk. Qed.
Lemma talks_Send payload tester target :
  talks (SendM32rSsmFrame payload tester target) (fun r l =>
    if is_ok r then l = [W (AddHeader payload tester target)] else l = [] \/ l = [W (AddHeader payload tester target)]).
Proof.
  unfold SendM32rSsmFrame. apply (observes_bind _ _ _ _ talks_Cancelled). intros [] l ->; [apply observes_ret; by left|].
  cbv zeta. apply (observes_try _ _ _ _ (talks_write _)); [|intros e l ->; by right]. intros n l ->. apply observes_ret.
  destruct (negb _); cbn; auto.
Qed.
Lemma talks_Optional payload tester target timeout :
  talks (ExchangeM32rSsmOptional payload tester target timeout) (exchanged (AddHeader payload tester target)).
Proof.
  unfold ExchangeM32rSsmOptional, ReceiveM32rSsmOnce. apply (observes_try _ _ _ _ (talks_Send _ _ _)); cbn [is_ok]; [|unfold exchanged; intros e l []; auto].
  intros _ l ->. apply (observes_bind _ _ _ _ talks_Cancelled). intros [] l ->; [apply observes_ret; right; by left|].
  apply (observes_try _ _ _ _ (talks_read timeout)); [|intros e l ->; right; right; by eexists].
  intros a l ->. apply (observes_bind _ _ _ _ talks_Cancelled). intros [] l ->; apply observes_ret; [right; right; by eexists|done].
Qed.
Lemma talks_Required payload endpoint timeout :
  talks (ExchangeM32rSsmRequired payload endpoint timeout) (exchanged_reply (AddHeader payload (ep_tester_id endpoint) (ep_target_id endpoint))).
Proof.
  unfold ExchangeM32rSsmRequired. apply (observes_try _ _ _ _ (talks_Optional _ _ _ _)); [|by intros e l Hl].
  intros [reply|] l ->; apply observes_ret; [done|]. right. right. by eexists.
Qed.
(** A frame sent, or nothing and a failure. *)
Lemma scripted_exchanged {A} frame (m : M (result Error A)) Q :
  talks m Q -> (forall r l, Q r l -> if is_ok r then sent l = [frame] else sent l = [] \/ sent l = [frame]) ->
  scripted kline_sent [frame] (answering m).
Proof.
  intros Hm HQ t. destruct (Hm t) as (d & E & Hl). apply HQ in Hl. rewrite <- observed_sent in Hl. unfold answering, bind, ret.
  destruct (m t) as [r t1]. cbn [fst snd] in *. exists d. split; [done|]. destruct r; cbn [is_ok succeeded] in *; [done|].
  destruct Hl as [-> | ->]; [apply prefix_nil|done].
Qed.
Lemma exchanged_sends frame r l : exchanged frame r l -> if is_ok r then sent l = [frame] else sent l = [] \/ sent l = [frame].
Proof. destruct r; cbn; [by intros ->|]. intros [-> |[-> |[a ->]]]; auto. Qed.
Lemma exchanged_reply_sends frame r l : exchanged_reply frame r l -> if is_ok r then sent l = [frame] else sent l = [] \/ sent l = [frame].
Proof. destruct r; cbn; [by intros ->|]. intros [-> |[-> |[a ->]]]; auto. Qed.
Lemma scripted_Optional payload tester target timeout :
  scripted kline_sent [AddHeader payload tester target] (answering (ExchangeM32rSsmOptional payload tester target timeout)).
Proof. apply (scripted_exchanged _ _ _ (talks_Optional _ _ _ _)). apply exchanged_sends. Qed.
Lemma scripted_Required payload endpoint timeout :
  scripted kline_sent [AddHeader payload (ep_tester_id endpoint) (ep_target_id endpoint)] (answering (ExchangeM32rSsmRequired payload endpoint timeout)).
Proof. apply (scripted_exchanged _ _ _ (talks_Required _ _ _)). apply exchanged_reply_sends. Qed.
End exchanges.

(** Steps that send only harmless frames, by their shape. *)
Ltac only_step :=
  match goal with
  | |- only _ (ret _) => apply only_ret
  | |- only _ (bind _ _) => apply only_bind; [|intros ?]
  | |- only _ (try _ _) => apply only_try; [|intros ?]
  | |- only _ (ExchangeM32rSsmOptional _ _ _ _) => eapply only_scripted; [apply scripted_Optional|repeat constructor; is_harmless]
  | |- only _ (ExchangeM32rSsmRequired _ _ _) => eapply only_scripted; [apply scripted_Required|repeat constructor; is_harmless]
  | |- only _ (RequestM32rSsmPrefix _ _ _ _) => unfold RequestM32rSsmPrefix
  | |- only _ (match ?x with _ => _ end) => destruct x
  | |- only _ Cancelled => apply only_unseen; unseen
  | |- only _ (Sleep _) => apply only_unseen; unseen
  | |- only _ (Log _ _) => apply only_unseen; unseen
  | |- only _ (CheckCancelled _) => unfold CheckCancelled
  | |- only _ (Call (KlineWrite _)) => fail 1
  | |- only _ (Call _) => apply only_unseen; unseen
  | |- only _ _ => progress (cbv beta zeta)
  end.
Ltac only_harmless := repeat only_step.

Section harmless_steps.
Context `{Env}.
Section hitachi.
Import HitachiKline.
Context (p : SubaruHitachiM32rKlinePlan).
Lemma hitachi_session b : only harmless (AuthenticatedSession p b).
Proof. unfold AuthenticatedSession, Exchange, RequestPrefix. only_harmless. Qed.
Lemma hitachi_PrepareRead : only harmless (PrepareRead p).
Proof. unfold PrepareRead, ExchangeOptional, Exchange, RequestPrefix. only_harmless. Qed.
Lemma hitachi_wake n : only harmless (wake p n).
Proof. induction n as [|n IH]; cbn [wake]; unfold ExchangeOptional; only_harmless; apply IH. Qed.
Lemma hitachi_PrepareWrite : only harmless (PrepareWrite p).
Proof.
  unfold PrepareWrite, ExchangeOptional. only_harmless; first [apply hitachi_session|apply hitachi_wake].
Qed.
Lemma hitachi_read_loop fuel logical rom : only harmless (read_loop p fuel logical rom).
Proof. revert logical rom. induction fuel as [|fuel IH]; intros logical rom; cbn [read_loop]; unfold Exchange; only_harmless; apply IH. Qed.
End hitachi.
Section mitsu.
Import MitsuKline.
Context (p : SubaruMitsuM32rKlinePlan).
Lemma mitsu_Handshake : only harmless (Handshake p).
Proof. unfold Handshake, request, Exchange. only_harmless. Qed.
Lemma mitsu_read_loop fuel region offset rom : only harmless (read_loop p fuel region offset rom).
Proof. revert offset rom. induction fuel as [|fuel IH]; intros offset rom; cbn [read_loop]; unfold Exchange; only_harmless; apply IH. Qed.
End mitsu.
Section tcu.
Import TcuKline.
Context (p : SubaruTcuHitachiM32rKlinePlan).
Lemma tcu_Connect : only harmless (ConnectBootloader p).
Proof. unfold ConnectBootloader, Exchange, RequestPrefix. only_harmless. Qed.
End tcu.
End harmless_steps.

(** ** Reading in pages

    Each page is asked for until an answer carries data, at most [tries] times; the ROM
    is the data of the answers kept, in order. *)
Definition short (a : option (list Z)) : Prop := match a with None => True | Some f => zlen f <= 5 end.
Definition page_data (reply : list Z) : list Z := subspan reply 5 (zlen reply - 6).
Definition page_run (tries : nat) (q reply : list Z) (l : list io) : Prop :=
  exists misses, (length misses < tries)%nat /\ Forall short misses /\ l = flat_map (fun a => [W q; R (Ok a)]) (misses ++ [Some reply]).
Inductive paged (tries : nat) : list (list Z * Z) -> list (list Z) -> list io -> Prop :=
| paged_nil : paged tries [] [] []
| paged_cons q n pages reply replies l1 l2 :
    page_run tries q reply l1 -> zlen reply = n + 6 -> paged tries pages replies l2 ->
    paged tries ((q, n) :: pages) (reply :: replies) (l1 ++ l2).
(** [m] reads the pages onto [rom]. *)
Definition reads_pages (tries : nat) (pages : list (list Z * Z)) (rom : list Z) (m : M (result Error (list Z))) : Prop :=
  talks m (fun r l => forall rom', r = Ok rom' ->
    exists replies, paged tries pages replies l /\ rom' = rom ++ List.concat (map page_data replies)).
Lemma reads_none tries rom : reads_pages tries [] rom (ret (Ok rom)).
Proof. apply observes_ret. intros rom' [= <-]. exists []. split; [constructor|]. by rewrite app_nil_r. Qed.
Lemma reads_failed tries pages rom e : reads_pages tries pages rom (ret (Err e)).
Proof. by apply observes_ret. Qed.
Lemma reads_quiet {A} tries pages rom (m : M A) k : unseen io_of m -> (forall a, reads_pages tries pages rom (k a)) -> reads_pages tries pages rom (bind m k).
Proof. intros Hm Hk. unfold reads_pages, unseen in *. apply (observes_bind _ _ _ _ Hm). intros a l ->. apply Hk. Qed.
(** A page, then the rest. *)
Lemma reads_page {A} tries q n pages rom (m : M (result Error A)) (k : A -> M (result Error (list Z))) :
  talks m (fun r l => forall a, r = Ok a ->
    (exists reply, page_run tries q reply l /\ zlen reply = n + 6 /\ reads_pages tries pages (rom ++ page_data reply) (k a))
    \/ talks (k a) (fun r _ => is_ok r = false)) ->
  reads_pages tries ((q, n) :: pages) rom (try m k).
Proof.
  intros Hm. unfold reads_pages in *. apply (observes_try _ _ _ _ Hm); [|done]. intros a l1 Ha.
  destruct (Ha a eq_refl) as [(reply & Hp & Hn & Hk)|Hk].
  - refine (observes_weaken _ _ _ Hk _). intros r l2 Hr rom' ->. destruct (Hr rom' eq_refl) as (replies & Hps & ->).
    exists (reply :: replies). split; [by constructor|]. cbn [map List.concat]. by rewrite app_assoc.
  - refine (observes_weaken _ _ _ Hk _). by intros r l2 Hr rom' ->.
Qed.
Lemma page_run_once tries q reply : (0 < tries)%nat -> page_run tries q reply [W q; R (Ok (Some reply))].
Proof. intros Ht. exists []. done. Qed.
Lemma paged_length tries pages replies l :
  paged tries pages replies l -> Forall (fun page => 0 <= snd page) pages -> zlen (List.concat (map page_data replies)) = zsum (map snd pages).
Proof.
  induction 1 as [|q n pages reply replies l1 l2 (misses & _) Hn _ IH]; intros Hp; [done|]. apply List.Forall_cons_iff in Hp as [H0 Hp].
  cbn [map List.concat snd]. rewrite zlen_app, IH by done. unfold page_data. rewrite zlen_subspan, Hn. cbn [snd] in H0.
  change (zsum (n :: map snd pages)) with (n + zsum (map snd pages)). lia.
Qed.

Section reading.
Context `{Env}.
(** The pages of a region: [count] of them from the [i]th. *)
Definition pages_of (request : Z -> list Z) (size : Z -> Z) (i count : Z) : list (list Z * Z) :=
  map (fun k => (request k, size k)) (seqZ i (count - i)).
Lemma pages_of_cons request size i count : i < count -> pages_of request size i count = (request i, size i) :: pages_of request size (i + 1) count.
Proof. intros Hi. unfold pages_of. rewrite seqZ_cons by lia. cbn [map]. do 3 f_equal. lia. Qed.
Lemma pages_of_nil request size i count : count <= i -> pages_of request size i count = [].
Proof. intros Hi. unfold pages_of. by rewrite seqZ_nil by lia. Qed.
(** A page whose answer is checked for its length and service. *)
Lemma reads_checked payload endpoint timeout n pages rom d total (rest : list Z -> M (result Error (list Z))) e :
  (forall reply, reads_pages 1 pages (rom ++ page_data reply) (rest reply)) ->
  reads_pages 1 ((AddHeader payload (ep_tester_id endpoint) (ep_target_id endpoint), n) :: pages) rom
    (try (ExchangeM32rSsmRequired payload endpoint timeout) (fun response =>
       if negb (zlen response =? n + 6) || negb (zget response 4 =? 0xe0) then ret (Err e)
       else bind (Call (EventsProgress d total)) (fun _ => rest response))).
Proof.
  intros Hrest. apply reads_page. refine (observes_weaken _ _ _ (talks_Required _ _ _) _). intros r l Hl reply ->. cbn in Hl. subst l.
  destruct (negb _ || negb _) eqn:E; [right; by apply observes_ret|]. left. exists reply. apply orb_false_iff in E as [E _].
  apply negb_false_iff, Z.eqb_eq in E. split_and!; [apply page_run_once; lia|done|]. apply reads_quiet; [unseen|]. done.
Qed.
Section hitachi.
Import HitachiKline.
Context (p : SubaruHitachiM32rKlinePlan) (Hp : kline_chunk_size p = 128).
Definition hitachi_page (k : Z) : list Z := Framed p (read_request p (128 * k)).
Lemma hitachi_reads fuel i rom : 0 <= i <= 4096 -> 4096 - i < Z.of_nat fuel ->
  reads_pages 1 (pages_of hitachi_page (fun _ => 128) i 4096) rom (read_loop p fuel (128 * i) rom).
Proof.
  revert i rom. induction fuel as [|fuel IH]; intros i rom Hi Hf; [lia|]. cbn [read_loop]. unfold kRomSize.
  destruct (Z.ltb_spec (128 * i) 0x80000); [|rewrite pages_of_nil by lia; apply reads_none].
  rewrite pages_of_cons by lia. apply reads_quiet; [unseen|]. intros []; [apply reads_failed|].
  rewrite Hp, (u32_small (128 * i + 128)) by (unfold u32_ok; lia). replace (128 * i + 128) with (128 * (i + 1)) by lia.
  apply reads_checked. intros reply. apply IH; lia.
Qed.
End hitachi.
Section mitsu.
Import MitsuKline.
Context (p : SubaruMitsuM32rKlinePlan) (Hp : mitsu_chunk_size p = 128).
Definition mitsu_page (k : Z) : list Z := AddHeader (read_request p (0x8000 + 128 * k)) (mitsu_tester_id p) (mitsu_target_id p).
Lemma mitsu_reads fuel i rom : 0 <= i <= 3840 -> 3840 - i < Z.of_nat fuel ->
  reads_pages 1 (pages_of mitsu_page (fun _ => 128) i 3840) rom (read_loop p fuel MitsuM32rKline.kUserspace (128 * i) rom).
Proof.
  revert i rom. induction fuel as [|fuel IH]; intros i rom Hi Hf; [lia|]. cbn [read_loop]. cbn [reg_length reg_start MitsuM32rKline.kUserspace].
  destruct (Z.ltb_spec (128 * i) 0x78000); [|rewrite pages_of_nil by lia; apply reads_none].
  rewrite pages_of_cons by lia. apply reads_quiet; [unseen|]. intros []; [apply reads_failed|].
  rewrite (u32_small (0x8000 + 128 * i)) by (unfold u32_ok; lia).
  rewrite Hp, (u32_small (128 * i + 128)) by (unfold u32_ok; lia). replace (128 * i + 128) with (128 * (i + 1)) by lia.
  apply reads_checked. intros reply. apply IH; lia.
Qed.
End mitsu.
Section tcu.
Import TcuKline.
Context (p : SubaruTcuHitachiM32rKlinePlan) (Hp : tcu_block_size p = 96).
Definition tcu_size (k : Z) : Z := Z.min 96 (kRomSize - 96 * k).
Definition tcu_page (k : Z) : list Z := Framed p (read_request (96 * k) (tcu_size k)).
Lemma talks_BlockRead payload timeout : talks (ExchangeBlockRead p payload timeout) (exchanged (Framed p payload)).
Proof.
  unfold ExchangeBlockRead. apply (observes_bind _ _ _ _ talks_Cancelled). intros [] l ->; [apply observes_ret; by left|]. cbv zeta.
  apply (observes_try _ _ _ _ (talks_write _)); [|intros e l ->; right; by left]. intros n l ->.
  destruct (negb _); [apply observes_ret; right; by left|].
  apply (observes_bind _ _ _ _ talks_Cancelled). intros [] l ->; [apply observes_ret; right; by left|].
  assert (forall ms, talks (Sleep ms) (fun _ l => l = [])) as Hs by (intros; by apply unseen_Sleep).
  apply (observes_try _ _ _ _ (Hs _)); [|intros e l ->; right; by left]. intros _ l ->.
  apply (observes_try _ _ _ _ (talks_read _)); [|intros e l ->; right; right; by eexists]. intros a l ->.
  apply (observes_bind _ _ _ _ talks_Cancelled). intros [] l ->; [apply observes_ret; right; right; by eexists|].
  apply (observes_try _ _ _ _ (Hs _)); [|intros e l ->; right; right; by eexists]. intros _ l ->. by apply observes_ret.
Qed.
Lemma only_BlockRead b l timeout : u8 b <> kSidTransferData -> u8 b <> kSidRoutineControl -> only harmless (ExchangeBlockRead p (b :: l) timeout).
Proof.
  intros H1 H2. eapply only_scripted; [apply (scripted_exchanged (Framed p (b :: l)) _ _ (talks_BlockRead _ _)); apply exchanged_sends|].
  repeat constructor; unfold Framed; by rewrite service_AddHeader.
Qed.
Lemma tcu_read_block n payload :
  talks (read_block p n payload) (fun r l => forall block, r = Ok (Some block) -> page_run n (Framed p payload) block l).
Proof.
  induction n as [|n IH]; cbn [read_block]; [by apply observes_ret|].
  assert (forall a, short a -> talks (read_block p n payload) (fun r l => forall block, r = Ok (Some block) ->
    page_run (S n) (Framed p payload) block ([W (Framed p payload); R (Ok a)] ++ l))) as Hmiss.
  { intros a Ha. refine (observes_weaken _ _ _ IH _). intros r l Hl block ->. destruct (Hl block eq_refl) as (misses & Hm & Hs & ->).
    exists (a :: misses). split_and!; [cbn; lia|by constructor|done]. }
  apply (observes_try _ _ _ _ (talks_BlockRead _ _)); [|done]. intros [block|] l ->; [|by apply Hmiss].
  destruct (Z.ltb_spec 5 (zlen block)); [|by apply Hmiss]. apply observes_ret. intros block' [= <-]. apply page_run_once. lia.
Qed.
Lemma tcu_reads fuel i rom : 0 <= i <= 5462 -> 5462 - i < Z.of_nat fuel ->
  reads_pages kBlockAttempts (pages_of tcu_page tcu_size i 5462) rom (read_loop p fuel (96 * i) rom).
Proof.
  revert i rom. induction fuel as [|fuel IH]; intros i rom Hi Hf; [lia|]. cbn [read_loop].
  destruct (Z.ltb_spec (96 * i) kRomSize) as [Hl|Hl]; unfold kRomSize in Hl; [|rewrite pages_of_nil by lia; apply reads_none].
  rewrite pages_of_cons by lia. apply reads_quiet; [unseen|]. intros []; [apply reads_failed|]. cbv zeta. rewrite Hp.
  rewrite (u32_small (kRomSize - 96 * i)) by (unfold u32_ok, kRomSize; lia). fold (tcu_size i). apply reads_page.
  refine (observes_weaken _ _ _ (tcu_read_block _ _) _). intros r l Hr [block|] ->; [|right; by apply observes_ret].
  destruct (Z.eqb_spec (zlen block) (tcu_size i + 6)); cbn [negb]; [|right; by apply observes_ret]. left. exists block.
  split_and!; [by apply Hr|done|]. apply reads_quiet; [unseen|]. intros _.
  rewrite (u32_small (96 * i + 96)) by (unfold u32_ok; lia). replace (96 * i + 96) with (96 * (i + 1)) by lia. apply IH; lia.
Qed.
Lemma tcu_only fuel address rom : only harmless (read_loop p fuel address rom).
Proof.
  assert (forall n address length, only harmless (read_block p n (read_request address length))) as Hb.
  { induction n as [|n IH]; intros a len; cbn [read_block]; only_harmless; [by apply only_BlockRead|apply IH|apply IH]. }
  revert address rom. induction fuel as [|fuel IH]; intros address rom; cbn [read_loop]; only_harmless; [apply Hb|apply IH].
Qed.
End tcu.
Section sh7058.
Import Sh7058Kline.
Definition sh7058_page (k : Z) : list Z := AddHeader (page_request (128 * k)) 0xf0 0x10.
Lemma talks_Sh7058 payload delay : talks (Exchange payload delay) (exchanged_reply (AddHeader payload 0xf0 0x10)).
Proof.
  unfold Exchange, CheckCancelled. cbv zeta.
  apply (observes_try _ _ (fun _ l => l = [])); [apply unseen_bind; [unseen|intros; apply unseen_ret]| |intros e l ->; by left]. intros _ l ->.
  apply (observes_try _ _ _ _ (talks_write _)); [|intros e l ->; right; by left]. intros n l ->.
  apply (observes_try _ _ (fun _ l => l = [])); [|intros _ l ->|intros e l ->; right; by left].
  { destruct (negb _); [by apply observes_ret|by apply unseen_Sleep]. }
  apply (observes_try _ _ _ _ (talks_read _)); [|intros e l ->; right; right; by eexists]. intros a l ->.
  apply (observes_bind _ _ _ _ talks_Cancelled). intros [] l ->; apply observes_ret; [right; right; by eexists|].
  destruct a; [done|right; right; by eexists].
Qed.
Lemma only_Sh7058 payload b l delay :
  payload = b :: l -> u8 b <> kSidTransferData -> u8 b <> kSidRoutineControl -> only harmless (Exchange payload delay).
Proof.
  intros -> H1 H2. eapply only_scripted; [apply (scripted_exchanged (AddHeader (b :: l) 0xf0 0x10) _ _ (talks_Sh7058 _ _)); apply exchanged_reply_sends|].
  repeat constructor; by rewrite service_AddHeader.
Qed.
Lemma Valid_length frame service size : Valid frame service size = true -> zlen frame = size + 5.
Proof.
  unfold Valid, HasValidFrame, kHeaderLength, kChecksumLength. intros [[Hv Hs]%andb_true_iff _]%andb_true_iff. apply Z.eqb_eq in Hs.
  destruct (zlen frame <? 4 + 1); [done|]. destruct (Z.eqb_spec (zlen frame) (4 + zget frame 3 + 1)); [lia|done].
Qed.
Lemma sh7058_reads fuel i rom : 0 <= i <= 8192 -> 8192 - i < Z.of_nat fuel ->
  reads_pages 1 (pages_of sh7058_page (fun _ => 128) i 8192) rom (read_loop fuel (128 * i) rom).
Proof.
  revert i rom. induction fuel as [|fuel IH]; intros i rom Hi Hf; [lia|]. cbn [read_loop].
  destruct (Z.ltb_spec (128 * i) kRomSize) as [Hl|Hl]; unfold kRomSize in Hl; [|rewrite pages_of_nil by lia; apply reads_none].
  rewrite pages_of_cons by lia. apply reads_page. refine (observes_weaken _ _ _ (talks_Sh7058 _ _) _). intros r l Hr reply ->. cbn in Hr. subst l.
  destruct (Valid reply 0xe0 0x81) eqn:E; cbn [negb]; [|right; by apply observes_ret]. left. exists reply. apply Valid_length in E.
  split_and!; [apply page_run_once; lia|lia|]. apply reads_quiet; [unseen|]. intros _.
  unfold page_data. replace (zlen reply - 6) with 128 by lia.
  rewrite (u32_small (128 * i + 0x80)) by (unfold u32_ok; lia). replace (128 * i + 0x80) with (128 * (i + 1)) by lia. apply IH; lia.
Qed.
Lemma sh7058_only fuel offset rom : only harmless (read_loop fuel offset rom).
Proof.
  revert offset rom. induction fuel as [|fuel IH]; intros offset rom; cbn [read_loop]; only_harmless; [|apply IH].
  eapply only_Sh7058; [reflexivity|by vm_compute|by vm_compute].
Qed.
Lemma sh7058_identify : only harmless IdentifyAndSwitchBaud.
Proof.
  unfold IdentifyAndSwitchBaud. only_harmless; (eapply only_Sh7058; [reflexivity|by vm_compute|by vm_compute]).
Qed.
End sh7058.
End reading.

(** ** Writing

    A write first sends harmless frames only; then, if anything more, the erase request
    and reads its answer; and the frames after that, a beginning of [rest] and all of it
    on success, only once the answer acknowledged the erase. *)
Definition fragments (answers : list (result Error (option (list Z)))) : list Z :=
  flat_map (fun a => match a with Ok (Some f) => f | _ => [] end) answers.
Definition acknowledges (prefix : list Z) (answers : list (result Error (option (list Z)))) : Prop :=
  4 + zlen prefix <= zlen (fragments answers) /\ subspan (fragments answers) 4 (zlen prefix) = prefix.
Definition erase_story (erase prefix : list Z) (ok : bool) (l : list io) : Prop :=
  (l = [] /\ ok = false) \/ exists answers, l = W erase :: map R answers /\ (ok = true -> acknowledges prefix answers).
Definition write_story (erase prefix : list Z) (rest : list (list Z)) (ok : bool) (l : list io) : Prop :=
  exists pre, Forall harmless (sent pre) /\
    ((l = pre /\ ok = false) \/
     exists answers post, l = pre ++ W erase :: map R answers ++ post
       /\ (if ok then acknowledges prefix answers /\ sent post = rest
           else sent post `prefix_of` rest /\ (sent post = [] \/ acknowledges prefix answers))).
Definition writes {A} (erase prefix : list Z) (rest : list (list Z)) (m : M (result Error A)) : Prop :=
  talks m (fun r l => write_story erase prefix rest (is_ok r) l).
Section writing.
Context (erase prefix : list Z) (rest : list (list Z)).
Lemma story_before pre ok l : Forall harmless (sent pre) -> write_story erase prefix rest ok l -> write_story erase prefix rest ok (pre ++ l).
Proof.
  intros Hp (pre2 & H2 & Hl). exists (pre ++ pre2). rewrite sent_app. split; [by apply Forall_app_2|].
  destruct Hl as [[-> ->]|(answers & post & -> & Hr)]; [by left|]. right. exists answers, post. by rewrite app_assoc.
Qed.
Lemma story_failed : write_story erase prefix rest false [].
Proof. exists []. split; [constructor|]. by left. Qed.
Lemma writes_failed {A} e : writes (A := A) erase prefix rest (ret (Err e)).
Proof. apply observes_ret. apply story_failed. Qed.
Lemma writes_bind {A B} (m : M A) (k : A -> M (result Error B)) :
  only harmless m -> (forall a, writes erase prefix rest (k a)) -> writes erase prefix rest (bind m k).
Proof.
  intros Hm Hk. apply talks_sends in Hm. unfold writes in *. apply (observes_bind _ _ _ _ Hm). intros a l1 H1.
  refine (observes_weaken _ _ _ (Hk a) _). intros r l2. by apply story_before.
Qed.
Lemma writes_try {A B} (m : M (result Error A)) (k : A -> M (result Error B)) :
  only harmless m -> (forall a, writes erase prefix rest (k a)) -> writes erase prefix rest (try m k).
Proof. intros Hm Hk. apply writes_bind; [done|]. intros [a|e]; [apply Hk|apply writes_failed]. Qed.
(** The last step sends nothing. *)
Lemma writes_last {A B} (m : M (result Error A)) (k : A -> M (result Error B)) :
  writes erase prefix rest m -> (forall a, talks (k a) (fun r l => l = [] /\ is_ok r = true)) -> writes erase prefix rest (try m k).
Proof.
  intros Hm Hk. unfold writes in *. apply (observes_try _ _ _ _ Hm); [|done]. intros a l1 H1. refine (observes_weaken _ _ _ (Hk a) _).
  intros r l2 [-> ->]. by rewrite app_nil_r.
Qed.
(** The erase, then the rest. *)
Lemma writes_erase {A B} (m : M (result Error A)) (k : A -> M (result Error B)) :
  talks m (fun r l => erase_story erase prefix (is_ok r) l) -> (forall a, scripted kline_sent rest (answering (k a))) ->
  writes erase prefix rest (try m k).
Proof.
  intros Hm Hk. unfold writes. apply (observes_try _ _ _ _ Hm); cbn [is_ok].
  - intros a l1 [[_ [=]]|(answers & -> & Ha)]. specialize (Ha eq_refl). refine (observes_weaken _ _ _ (scripted_sent _ _ (Hk a)) _).
    intros r l2 H2. exists []. split; [constructor|]. right. exists answers, l2. split; [done|]. destruct (is_ok r); [done|]. auto.
  - intros e l [[-> _]|(answers & -> & _)]; exists []; (split; [constructor|]); [by left|]. right. exists answers, [].
    rewrite app_nil_r. split_and!; [done|apply prefix_nil|by left].
Qed.
End writing.
Lemma ExpectM32rSsmPrefix_Ok response prefix peer :
  ExpectM32rSsmPrefix response prefix peer = Ok tt -> 4 + zlen prefix <= zlen response /\ subspan response 4 (zlen prefix) = prefix.
Proof.
  unfold ExpectM32rSsmPrefix, M32rSsmPayloadHasPrefix. cbv zeta. destruct (Z.ltb_spec (zlen response) (4 + zlen prefix)); [done|].
  destruct (_ || _); [done|]. destruct (bool_decide _) eqn:E; [|done]. apply bool_decide_eq_true in E. done.
Qed.
Lemma ExpectService_Ok response service :
  MitsuKline.ExpectService response service = Ok tt -> 4 + zlen service <= zlen response /\ subspan response 4 (zlen service) = service.
Proof.
  unfold MitsuKline.ExpectService. destruct (Z.ltb_spec (zlen response) (4 + zlen service)); [done|].
  destruct (bool_decide _) eqn:E; [|done]. apply bool_decide_eq_true in E. done.
Qed.
Section families.
Context `{Env}.
Section hitachi.
Import HitachiKline.
Context (p : SubaruHitachiM32rKlinePlan) (Hp : kline_chunk_size p = 128).
Lemma hitachi_erase_wait n response :
  talks (erase_wait n response) (fun r l => exists answers, l = map R answers /\ (forall response', r = Ok response' -> response' = response ++ fragments answers)).
Proof.
  revert response. induction n as [|n IH]; intros response; cbn [erase_wait].
  - apply observes_ret. exists []. split; [done|]. intros ? [= <-]. by rewrite app_nil_r.
  - destruct (zlen response <=? 5); [|apply observes_ret; exists []; split; [done|]; intros ? [= <-]; by rewrite app_nil_r].
    apply (observes_try _ _ _ _ (talks_read 500)); [|intros e l ->; by exists [Err e]]. intros a l1 ->. cbv zeta.
    apply (observes_try _ _ (fun _ l => l = [])); [| |intros e l ->; by exists [Ok a]].
    { destruct (_ <=? _); [by apply unseen_Sleep|by apply observes_ret]. }
    intros _ l2 ->. refine (observes_weaken _ _ _ (IH _) _). intros r l3 (answers & -> & Hr). exists (Ok a :: answers). split; [done|].
    intros response' E. rewrite (Hr response' E). unfold fragments. cbn [flat_map]. by destruct a; rewrite <- app_assoc.
Qed.
Lemma hitachi_erase : talks (EraseRom p) (fun r l => erase_story (Framed p erase_request) [0x71; kRoutineControlStop] (is_ok r) l).
Proof.
  unfold EraseRom. cbv zeta. apply (observes_bind _ _ _ _ talks_Cancelled). intros [] l ->; [apply observes_ret; by left|].
  apply (observes_try _ _ _ _ (talks_write _)); [|intros e l ->; right; by exists []]. intros n l ->.
  destruct (negb _); [apply observes_ret; right; by exists []|].
  apply (observes_try _ _ _ _ (hitachi_erase_wait 20 [])); [|intros e l (answers & -> & _); right; by exists answers].
  intros response l (answers & -> & Hr). apply observes_ret. right. exists answers. rewrite app_nil_r. split; [done|].
  rewrite (Hr response eq_refl). cbn [app]. intros Hok. apply (ExpectM32rSsmPrefix_Ok _ _ kPeerEcu).
  unfold ExpectPrefix in Hok. destruct (ExpectM32rSsmPrefix _ _ _) as [[]|]; [done|by rewrite ?app_nil_r in Hok].
Qed.
Definition hitachi_chunks (encrypted : list Z) (i : Z) : list (list Z) :=
  map (fun k => Framed p (transfer_request p encrypted (128 * k))) (seqZ i (4096 - i)).
Lemma hitachi_transfer fuel encrypted i : 0 <= i <= 4096 -> 4096 - i < Z.of_nat fuel ->
  scripted kline_sent (hitachi_chunks encrypted i) (answering (transfer_loop p fuel encrypted (128 * i))).
Proof.
  revert i. induction fuel as [|fuel IH]; intros i Hi Hf; [lia|]. cbn [transfer_loop]. unfold hitachi_chunks.
  destruct (Z.ltb_spec (128 * i) kRomSize) as [Hl|Hl]; unfold kRomSize in Hl; [|rewrite seqZ_nil by lia; by apply scripted_done].
  rewrite seqZ_cons by lia. cbn [map]. apply scripted_answering_bind; [unseen|]. intros []; [apply scripted_failed|].
  apply (scripted_and_then _ [_]); [apply scripted_Optional|]. intros ack. destruct (match ack with Some _ => _ | None => _ end); [apply scripted_failed|].
  apply scripted_answering_bind; [unseen|]. intros _. rewrite Hp, (u32_small (128 * i + 128)) by (unfold u32_ok; lia).
  replace (128 * i + 128) with (128 * (i + 1)) by lia. unfold Z.succ. replace (Z.pred (4096 - i)) with (4096 - (i + 1)) by lia. apply IH; lia.
Qed.
Definition hitachi_rest (image : list Z) : list (list Z) := hitachi_chunks (Encrypt image) 0 ++ [Framed p checksum_request].
Lemma hitachi_WriteRom plan :
  writes (Framed p erase_request) [0x71; kRoutineControlStop] (hitachi_rest (ImageOrEmpty plan)) (WriteRom p plan).
Proof.
  unfold WriteRom, RequestPrefix. do 3 (apply writes_try; [only_harmless|]; intros ?).
  apply writes_erase; [apply hitachi_erase|]. intros _. unfold hitachi_rest. apply scripted_and_then.
  - apply scripted_answering_bind; [unseen|]. intros []; [apply scripted_failed|]. unfold TransferRom, chunk_rounds. rewrite Hp.
    apply (hitachi_transfer _ _ 0); by vm_compute.
  - intros _. apply scripted_try_unseen; [unseen|]. intros _. apply scripted_try_last; [apply scripted_Optional|]. intros [[]|]; unseen.
Qed.
End hitachi.
Section mitsu.
Import MitsuKline.
Context (p : SubaruMitsuM32rKlinePlan) (Hp : mitsu_chunk_size p = 128).
Definition mitsu_frame (payload : list Z) : list Z := AddHeader payload (mitsu_tester_id p) (mitsu_target_id p).
Lemma mitsu_erase :
  talks (try (Exchange p erase_request) (fun erase_reply => try (ret (ExpectService erase_reply [0x71])) (fun _ => CheckCancelled "cancelled after erase")))
    (fun r l => erase_story (mitsu_frame erase_request) [0x71] (is_ok r) l).
Proof.
  apply (observes_try _ _ _ _ (talks_Required _ _ _)).
  - intros reply l ->. apply (observes_weaken _ (fun r l => l = [] /\ (is_ok r = true -> ExpectService reply [0x71] = Ok tt))).
    + destruct (ExpectService reply [0x71]) as [[]|e]; [|by apply observes_ret].
      unfold CheckCancelled. apply (observes_bind _ _ _ _ talks_Cancelled). intros b l ->. by apply observes_ret.
    + intros r l [-> Hr]. right. exists [Ok (Some reply)]. split; [done|]. intros Hok. unfold acknowledges, fragments. cbn [flat_map].
      rewrite app_nil_r. by apply ExpectService_Ok, Hr.
  - intros e l [-> |[-> |[a ->]]]; [by left|right; by exists []|right; by exists [a]].
Qed.
Definition mitsu_chunks (encrypted : list Z) (i : Z) : list (list Z) :=
  map (fun k => mitsu_frame (transfer_request p encrypted (0x8000 + 128 * k))) (seqZ i (3840 - i)).
Lemma mitsu_transfer fuel encrypted i : 0 <= i <= 3840 -> 3840 - i < Z.of_nat fuel ->
  scripted kline_sent (mitsu_chunks encrypted i) (answering (transfer_loop p fuel MitsuM32rKline.kUserspace encrypted (128 * i))).
Proof.
  revert i. induction fuel as [|fuel IH]; intros i Hi Hf; [lia|]. cbn [transfer_loop]. cbn [reg_length reg_start MitsuM32rKline.kUserspace].
  unfold mitsu_chunks. destruct (Z.ltb_spec (128 * i) 0x78000); [|rewrite seqZ_nil by lia; by apply scripted_done].
  rewrite seqZ_cons by lia. cbn [map]. apply scripted_answering_bind; [unseen|]. intros []; [apply scripted_failed|].
  rewrite (u32_small (0x8000 + 128 * i)) by (unfold u32_ok; lia). apply (scripted_and_then _ [_]); [apply scripted_Optional|]. intros _.
  apply scripted_answering_bind; [unseen|]. intros _. rewrite Hp, (u32_small (128 * i + 128)) by (unfold u32_ok; lia).
  replace (128 * i + 128) with (128 * (i + 1)) by lia. unfold Z.succ. replace (Z.pred (3840 - i)) with (3840 - (i + 1)) by lia. apply IH; lia.
Qed.
Definition mitsu_rest (image : list Z) : list (list Z) := mitsu_chunks (Encrypt image) 0 ++ [mitsu_frame checksum_request].
Lemma mitsu_WriteRom plan : TransferRegion plan = MitsuM32rKline.kUserspace ->
  writes (mitsu_frame erase_request) [0x71] (mitsu_rest (ImageOrEmpty plan)) (WriteRom p plan).
Proof.
  intros Hr. unfold WriteRom. rewrite Hr.
  enough (forall rest (k : unit -> M Status), (forall a, scripted kline_sent rest (answering (k a))) ->
    writes (mitsu_frame erase_request) [0x71] rest (try (do! _ <- Call (KlineSetBaud (mitsu_flash_baud p));
            do! setup <- Exchange p download_request;
            do! _ <- ret (ExpectService setup [0x74]);
            do _ <- Log LInfo "Erasing...";
            do! erase_reply <- Exchange p erase_request;
            do! _ <- ret (ExpectService erase_reply [0x71]);
            CheckCancelled "cancelled after erase") k)) as Hw.
  - apply Hw. intros _. cbv zeta. apply scripted_answering_bind; [unseen|]. intros _. unfold mitsu_rest. apply scripted_and_then.
    + unfold chunk_rounds. rewrite Hp. apply (mitsu_transfer _ _ 0); by vm_compute.
    + intros _. apply scripted_answering_bind; [unseen|]. intros _. apply scripted_try_unseen; [unseen|]. intros _.
      apply scripted_try_last; [apply scripted_Required|]. intros checksum. unseen.
  - intros rest k Hk.
    do 3 (apply runs_try_try; apply writes_try; [unfold Exchange; only_harmless|]; intros ?).
    apply runs_try_bind. apply writes_bind; [only_harmless|]. intros _. apply writes_erase; [apply mitsu_erase|exact Hk].
Qed.
End mitsu.
End families.

(** ** Attempts *)
Section attempts.
Context `{Env} {Plan : Type} (family : FlashFamily) (get : FamilyPlan -> option Plan) (validate : FlashPlan -> Status)
  (Setup : Plan -> result Error KlineConfig) (Run : Plan -> FlashPlan -> M (result Error FlashExecutionResult)).
Lemma talks_attempt plan p (Q : result Error FlashExecutionResult -> list io -> Prop) :
  get (family_plan (fields_ plan)) = Some p -> (forall e, Q (Err e) []) -> (forall r e l, Q (Ok r) l -> Q (Err e) l) ->
  talks (Run p plan) Q -> talks (Kline.BoundAttempt_Run (Kline.FamilyExecutor family get validate Setup Run) plan) Q.
Proof.
  intros Hg Hno Herr Hrun. unfold Kline.BoundAttempt_Run, Kline.ExecuteWithTransportGuard.
  apply (observes_bind _ _ (fun _ l => l = [])).
  { match goal with |- observes _ ?m _ => change (unseen io_of m) end.
    cbn [Kline.BeforeTransportConfigure Kline.BeforeTransportOpen Kline.FamilyExecutor]. unseen. }
  intros [[]|e] l ->; [|apply observes_ret, Hno]. apply (observes_bind _ _ Q).
  { cbn [Kline.Execute Kline.FamilyExecutor]. rewrite Hg. destruct (result_bind _ _); [|apply observes_ret, Hno].
    apply (observes_bind _ _ _ _ talks_Cancelled). intros [] l ->; [apply observes_ret, Hno|]. exact Hrun. }
  intros outcome l HQ. apply (observes_bind _ _ (fun _ l => l = [])); [by apply runs_Call|]. intros closed l2 ->.
  destruct outcome as [res|e], closed as [[]|e'].
  - apply observes_ret. by rewrite !app_nil_r.
  - apply observes_ret. rewrite !app_nil_r. by apply (Herr res).
  - apply observes_ret. by rewrite !app_nil_r.
  - apply (observes_bind _ _ (fun _ l => l = [])); [by apply unseen_Log|]. intros _ l3 ->. apply observes_ret. by rewrite !app_nil_r.
Qed.
End attempts.

(** ** The families *)
Inductive kline_family : Set := KlHitachi | KlMitsu | KlTcu | KlSh7058.
Definition kline_build (f : kline_family) : FlashOperation -> string -> string -> option (list Z) -> result Error FlashPlan :=
  match f with
  | KlHitachi => HitachiM32rKline.Build | KlMitsu => MitsuM32rKline.Build | KlTcu => TcuHitachiM32rKline.Build
  | KlSh7058 => HitachiSh7058.Build
  end.
Definition kline_executor `{Env} (f : kline_family) : Kline.IKlineFlashExecutor :=
  match f with
  | KlHitachi => HitachiKline.SubaruHitachiM32rKlineExecutor | KlMitsu => MitsuKline.SubaruMitsuM32rKlineExecutor
  | KlTcu => TcuKline.SubaruTcuHitachiM32rKlineExecutor | KlSh7058 => Sh7058Kline.SubaruHitachiSh7058KlineExecutor
  end.
Definition kline_attempt `{Env} (f : kline_family) (plan : FlashPlan) : M (result Error FlashExecutionResult) :=
  Kline.BoundAttempt_Run (kline_executor f) plan.
(** The wire parameters of the plans. *)
Definition hitachi_wire (protocol : string) : SubaruHitachiM32rKlinePlan :=
  {| session_mode := HitachiM32rKline.ModeFor protocol; kline_tester_id := 0xF0; kline_target_id := 0x10; initial_baud := 4800;
     write_baud := 15625; read_baud := 38400; kline_chunk_size := 128; read_address_bias := 0x100000 |}.
Definition mitsu_wire : SubaruMitsuM32rKlinePlan :=
  {| mitsu_tester_id := 0xF0; mitsu_target_id := 0x10; mitsu_initial_baud := 4800; mitsu_flash_baud := 15625; mitsu_chunk_size := 128;
     unread_prefix_fill := 0xFF |}.
Definition tcu_wire : SubaruTcuHitachiM32rKlinePlan :=
  {| tcu_tester_id := 0xF0; tcu_target_id := 0x18; tcu_baud := 4800; tcu_block_size := 96 |}.
(** The pages a read asks for, with the bytes of each; how often; what stands before them. *)
Definition kline_pages (f : kline_family) : list (list Z * Z) :=
  match f with
  | KlHitachi => pages_of (hitachi_page (hitachi_wire "")) (fun _ => 128) 0 4096
  | KlMitsu => pages_of (mitsu_page mitsu_wire) (fun _ => 128) 0 3840
  | KlTcu => pages_of (tcu_page tcu_wire) tcu_size 0 5462
  | KlSh7058 => pages_of sh7058_page (fun _ => 128) 0 8192
  end.
Definition kline_tries (f : kline_family) : nat := match f with KlTcu => 5 | _ => 1 end.
Definition kline_unread (f : kline_family) : list Z := match f with KlMitsu => replicate (Z.to_nat 0x8000) 0xFF | _ => [] end.
Definition kline_size (f : kline_family) : Z := match f with KlSh7058 => 0x100000 | _ => 0x80000 end.
(** What a read leaves on the line and brings back. *)
Definition read_story (f : kline_family) (r : result Error FlashExecutionResult) (l : list io) : Prop :=
  Forall harmless (sent l)
  /\ forall res, r = Ok res -> exists rom, read_bytes res = Some rom /\ zlen rom = kline_size f
       /\ exists pre replies pages, l = pre ++ pages /\ paged (kline_tries f) (kline_pages f) replies pages
            /\ rom = kline_unread f ++ List.concat (map page_data replies).
Lemma zsum_const {A} (f : A -> Z) c (l : list A) : (forall a, f a = c) -> zsum (map f l) = c * zlen l.
Proof. intros Hf. induction l as [|a l IH]; [change (0 = c * 0); lia|]. cbn [map]. rewrite zlen_cons. change (zsum (f a :: map f l)) with (f a + zsum (map f l)). rewrite IH, Hf. lia. Qed.
Lemma kline_pages_total f : Forall (fun page => 0 <= snd page) (kline_pages f) /\ zlen (kline_unread f) + zsum (map snd (kline_pages f)) = kline_size f.
Proof.
  destruct f; unfold kline_pages, pages_of, kline_unread; rewrite ?map_map; cbn [snd].
  1,2,4: (split; [apply List.Forall_map, Forall_true; intros; cbn; lia|]; rewrite (zsum_const _ 128) by done; by rewrite zlen_seqZ).
  split; [|by vm_compute]. apply List.Forall_map, Forall_forall. intros k Hk. apply elem_of_seqZ in Hk. cbn [snd]. unfold tcu_size, TcuKline.kRomSize. lia.
Qed.
(** The plans the builders make. *)
Lemma kline_window_built i f op protocol mcu img plan :
  (i, f) ∈ [(11, KlHitachi); (10, KlMitsu); (12, KlTcu)]%nat -> kline_build f op protocol mcu img = Ok plan ->
  exists e, families !! i = Some e /\ entry_build e = kline_build f
    /\ plan = single_window_plan (entry_spec e) op protocol mcu img (entry_family e protocol) /\ operation_ok (entry_spec e) op img.
Proof.
  intros Hf Hb. destruct (families !! i) as [e|] eqn:He; [|by repeat (apply elem_of_cons in Hf as [[= -> ->]|Hf]; [done|]); apply elem_of_nil in Hf].
  exists e. assert (entry_build e = kline_build f) as Eb
    by (repeat (apply elem_of_cons in Hf as [[= -> ->]|Hf]; [by injection He as <-|]); by apply elem_of_nil in Hf).
  split_and!; try done; rewrite <- Eb in Hb; apply (entry_builds e _ _ _ _ _ (family_entry_ok _ _ He)) in Hb as [(_ & _ & Ho & _) ->]; done.
Qed.
Lemma hitachi_built op protocol mcu img plan :
  HitachiM32rKline.Build op protocol mcu img = Ok plan ->
  Operation plan = op /\ HitachiKline.get (family_plan (fields_ plan)) = Some (hitachi_wire protocol)
  /\ (forall image, img = Some image -> op = kWrite -> zlen image = 0x80000 /\ ImageOrEmpty plan = image).
Proof.
  intros Hb. destruct (kline_window_built 11 KlHitachi _ _ _ _ _ ltac:(by left) Hb) as (e & [= <-] & _ & -> & Ho).
  split_and!; [done|done|]. intros image -> ->. by destruct Ho as (_ & i & [= <-] & Hl).
Qed.
Lemma mitsu_built op protocol mcu img plan :
  MitsuM32rKline.Build op protocol mcu img = Ok plan ->
  Operation plan = op /\ MitsuKline.get (family_plan (fields_ plan)) = Some mitsu_wire /\ TransferRegion plan = MitsuM32rKline.kUserspace
  /\ (forall image, img = Some image -> op = kWrite -> zlen image = 0x80000 /\ ImageOrEmpty plan = image).
Proof.
  intros Hb. destruct (kline_window_built 10 KlMitsu _ _ _ _ _ ltac:(right; by left) Hb) as (e & [= <-] & _ & -> & Ho).
  split_and!; [done|done|by destruct op|]. intros image -> ->. by destruct Ho as (_ & i & [= <-] & Hl).
Qed.
Lemma tcu_built op protocol mcu img plan :
  TcuHitachiM32rKline.Build op protocol mcu img = Ok plan -> TcuKline.get (family_plan (fields_ plan)) = Some tcu_wire.
Proof. intros Hb. by destruct (kline_window_built 12 KlTcu _ _ _ _ _ ltac:(right; right; by left) Hb) as (e & [= <-] & _ & -> & _). Qed.
Lemma sh7058_built protocol mcu img plan :
  HitachiSh7058.Build kRead protocol mcu img = Ok plan -> Sh7058Kline.get (family_plan (fields_ plan)) = Some HitachiSh7058.kline_wire.
Proof.
  unfold HitachiSh7058.Build, ValidatedPlan. intros Hb. repeat (destruct (_ : bool) in Hb; [done|]).
  apply result_bind_Ok in Hb as (built & Hv & Hb). apply result_bind_Ok in Hb as (_ & _ & [= <-]).
  apply ValidateAndBuild_fields in Hv. by rewrite Hv.
Qed.

Section reads.
Context `{Env} (f : kline_family).
Lemma read_story_failed e : talks (ret (Err e)) (read_story f).
Proof. apply observes_ret. split; [constructor|done]. Qed.
Lemma read_story_bind {A} (m : M A) k : only harmless m -> (forall a, talks (k a) (read_story f)) -> talks (bind m k) (read_story f).
Proof.
  intros Hm Hk. apply talks_sends in Hm. apply (observes_bind _ _ _ _ Hm). intros a pre Hpre. refine (observes_weaken _ _ _ (Hk a) _).
  intros r l [Hl Hr]. split; [rewrite sent_app; by apply Forall_app_2|]. intros res ->.
  destruct (Hr res eq_refl) as (rom & H1 & H2 & pre2 & replies & pages & -> & Hp). exists rom. split_and!; [done|done|].
  exists (pre ++ pre2), replies, pages. by rewrite app_assoc.
Qed.
Lemma read_story_try {A} (m : M (result Error A)) k : only harmless m -> (forall a, talks (k a) (read_story f)) -> talks (try m k) (read_story f).
Proof. intros Hm Hk. apply read_story_bind; [done|]. intros [a|e]; [apply Hk|apply read_story_failed]. Qed.
(** The pages themselves. *)
Lemma read_story_pages (read : M (result Error (list Z))) (k : list Z -> M (result Error FlashExecutionResult)) :
  only harmless read -> reads_pages (kline_tries f) (kline_pages f) (kline_unread f) read ->
  (forall rom, talks (k rom) (fun r l => l = [] /\ exists res, r = Ok res /\ read_bytes res = Some rom)) ->
  talks (try read k) (read_story f).
Proof.
  intros Hr Hp Hk. apply talks_sends in Hr. unfold reads_pages in Hp.
  assert (talks read (fun r l => Forall harmless (sent l) /\ forall rom, r = Ok rom ->
    exists replies, paged (kline_tries f) (kline_pages f) replies l /\ rom = kline_unread f ++ List.concat (map page_data replies))) as Hb
    by exact (runs_and _ _ _ Hr Hp).
  apply (observes_try _ _ _ _ Hb); [|intros e l [Hl _]; split; [exact Hl|done]]. intros rom l [Hl H2].
  refine (observes_weaken _ _ _ (Hk rom) _). intros r l2 (-> & res & -> & Hres). rewrite app_nil_r. split; [done|].
  intros res' [= <-]. destruct (H2 rom eq_refl) as (replies & Hpaged & ->). eexists. split; [exact Hres|].
  destruct (kline_pages_total f) as [H0 Ht]. split; [by rewrite zlen_app, (paged_length _ _ _ _ Hpaged H0)|]. by exists [], replies, l.
Qed.
End reads.
Section read_runs.
Context `{Env}.
Lemma hitachi_run_reads protocol plan : Operation plan = kRead -> talks (HitachiKline.Run (hitachi_wire protocol) plan) (read_story KlHitachi).
Proof.
  intros Ho. unfold HitachiKline.Run. apply read_story_try; [only_harmless|]. intros _. rewrite bool_decide_true by done.
  apply read_story_try; [apply hitachi_PrepareRead|]. intros id. apply read_story_pages; [apply hitachi_read_loop| |].
  - apply (hitachi_reads (hitachi_wire protocol) eq_refl _ 0); by vm_compute.
  - intros rom. apply observes_ret. eauto.
Qed.
Lemma mitsu_run_reads plan :
  Operation plan = kRead -> TransferRegion plan = MitsuM32rKline.kUserspace -> talks (MitsuKline.Run mitsu_wire plan) (read_story KlMitsu).
Proof.
  intros Ho Hr. unfold MitsuKline.Run, MitsuKline.ExecuteOpenTransport. apply read_story_try; [only_harmless|]. intros _.
  apply read_story_bind; [only_harmless|]. intros _. apply read_story_try; [apply mitsu_Handshake|]. intros id.
  rewrite bool_decide_true by done. apply read_story_bind; [only_harmless|]. intros _. rewrite Hr. unfold MitsuKline.ReadRom.
  apply runs_try_try. apply read_story_pages; [apply mitsu_read_loop| |].
  - apply (mitsu_reads mitsu_wire eq_refl _ 0); by vm_compute.
  - intros rom t. eexists [_]. split; [reflexivity|]. cbn. eauto.
Qed.
Lemma tcu_run_reads plan : talks (TcuKline.Run tcu_wire plan) (read_story KlTcu).
Proof.
  unfold TcuKline.Run. apply read_story_try; [only_harmless|]. intros _. apply read_story_try; [apply tcu_Connect|]. intros id.
  apply read_story_pages; [apply tcu_only| |].
  - apply (tcu_reads tcu_wire eq_refl _ 0); by vm_compute.
  - intros rom. apply observes_ret. eauto.
Qed.
Lemma sh7058_pages_read (k : list Z -> M (result Error FlashExecutionResult)) :
  (forall rom, talks (k rom) (fun r l => l = [] /\ exists res, r = Ok res /\ read_bytes res = Some rom)) ->
  talks (try Sh7058Kline.ReadRom k) (read_story KlSh7058).
Proof. apply read_story_pages; [apply sh7058_only|]. apply (sh7058_reads _ 0); by vm_compute. Qed.
Lemma sh7058_run_reads p plan : talks (Sh7058Kline.Run p plan) (read_story KlSh7058).
Proof.
  unfold Sh7058Kline.Run. apply read_story_try; [only_harmless|]. intros _.
  apply read_story_bind; [eapply only_Sh7058; [reflexivity|by vm_compute|by vm_compute]|]. intros [frame|e].
  - apply read_story_try; [only_harmless; apply sh7058_identify|]. intros id. apply sh7058_pages_read. intros rom. apply observes_ret. eauto.
  - destruct (negb _); [apply read_story_failed|]. apply read_story_try; [apply sh7058_identify|]. intros id.
    apply sh7058_pages_read. intros rom. apply observes_ret. eauto.
Qed.
Lemma kline_attempt_reads f protocol mcu img plan :
  kline_build f kRead protocol mcu img = Ok plan -> talks (kline_attempt f plan) (read_story f).
Proof.
  intros Hb. assert (forall e, read_story f (Err e) []) as Hno by (intros e; split; [constructor|done]).
  assert (forall (r : FlashExecutionResult) e l, read_story f (Ok r) l -> read_story f (Err e) l) as Herr by (intros r e l [Hl _]; by split).
  destruct f; cbn [kline_build] in Hb; unfold kline_attempt; cbn [kline_executor].
  - destruct (hitachi_built _ _ _ _ _ Hb) as (Ho & Hg & _). apply (talks_attempt _ _ _ _ _ _ _ _ Hg Hno Herr). by apply hitachi_run_reads.
  - destruct (mitsu_built _ _ _ _ _ Hb) as (Ho & Hg & Hr & _). apply (talks_attempt _ _ _ _ _ _ _ _ Hg Hno Herr). by apply mitsu_run_reads.
  - apply (talks_attempt _ _ _ _ _ _ _ _ (tcu_built _ _ _ _ _ Hb) Hno Herr). apply tcu_run_reads.
  - apply (talks_attempt _ _ _ _ _ _ _ _ (sh7058_built _ _ _ _ Hb) Hno Herr). apply sh7058_run_reads.
Qed.
End read_runs.

(** ** What a write leaves in the flash

    A unit that obeys transfer frames: service 0x36, an address of three bytes,
    encrypted data, and the frame's checksum. *)
Definition kline_flash (decrypt : list Z -> list Z) (m : memory) (frame : list Z) : memory :=
  if zget frame 4 =? kSidTransferData then store m (ReadUBe frame 5 3) (decrypt (subspan frame 8 (zlen frame - 9))) else m.
Lemma kline_flash_proper decrypt frame : Proper ((≡@{memory}) ==> (≡@{memory})) (fun m => kline_flash decrypt m frame).
Proof. intros m1 m2 E. unfold kline_flash. destruct (_ =? _); [|done]. by rewrite E. Qed.
Lemma kline_flash_idle decrypt frames m : Forall (fun f => zget f 4 <> kSidTransferData) frames -> fold_left (kline_flash decrypt) frames m = m.
Proof.
  induction 1 as [|f l Hf _ IH]; [done|]. cbn [fold_left]. unfold kline_flash at 2. rewrite (proj2 (Z.eqb_neq _ _)) by done. exact IH.
Qed.
Transparent AddHeader.
Lemma kline_flash_transfer decrypt m a data s r :
  0 <= a < 2 ^ 24 -> bytes_ok data -> byte_ok s -> byte_ok r ->
  kline_flash decrypt m (AddHeader (ComposeBe [FByte kSidTransferData; FU24 a; FBytes data]) s r) = store m a (decrypt data).
Proof.
  intros Ha Hd Hs Hr. unfold kline_flash.
  assert (ComposeBe [FByte kSidTransferData; FU24 a; FBytes data] = [kSidTransferData] ++ EmitIntegerBe 3 a ++ data) as E.
  { rewrite !ComposeBe_cons, EmitBe_FBytes by done. unfold ComposeBe. cbn [map List.concat]. by rewrite app_nil_r. }
  rewrite AddHeader_bytes by (auto with bytes). rewrite E. set (n := u8 _). set (sum := Sum8 _). clearbody n sum.
  assert (forall x, (0x80 :: r :: s :: n :: [kSidTransferData] ++ EmitIntegerBe 3 a ++ data) ++ [x]
    = [0x80; r; s; n; kSidTransferData] ++ EmitIntegerBe 3 a ++ (data ++ [x])) as ->.
  { intros x. transitivity ([0x80; r; s; n; kSidTransferData] ++ ((EmitIntegerBe 3 a ++ data) ++ [x])); [reflexivity|]. by rewrite <- app_assoc. }
  change (zget ([0x80; r; s; n; kSidTransferData] ++ _) 4 =? kSidTransferData) with true. cbv iota. f_equal.
  - change 5 with (zlen [0x80; r; s; n; kSidTransferData]). rewrite ReadUBe_middle by (try lia; apply zlen_EmitIntegerBe).
    rewrite ReadUBe_EmitIntegerBe by lia. by apply Z.mod_small.
  - f_equal. rewrite !zlen_app, zlen_EmitIntegerBe. change (zlen [0x80; r; s; n; kSidTransferData]) with 5. change (zlen [sum]) with 1.
    rewrite app_assoc. apply (subspan_app_middle ([0x80; r; s; n; kSidTransferData] ++ EmitIntegerBe 3 a) data [sum]); [|lia].
    by rewrite zlen_app, zlen_EmitIntegerBe.
Qed.
#[local] Opaque AddHeader.
Lemma kline_flash_other decrypt m b l s r : u8 b <> kSidTransferData -> kline_flash decrypt m (AddHeader (b :: l) s r) = m.
Proof. intros Hb. unfold kline_flash. by rewrite service_AddHeader, (proj2 (Z.eqb_neq _ _)). Qed.
Definition kline_decrypt (f : kline_family) (data : list Z) : list Z :=
  CalculatePayload data (rev (match f with KlMitsu => MitsuKline.kPayloadIndex | _ => HitachiKline.kPayloadIndex end)) kStockPairTable.
Definition kline_region (f : kline_family) : MemoryRegion :=
  match f with KlMitsu => MitsuM32rKline.kUserspace | _ => HitachiM32rKline.kRom end.
Definition kline_erase (f : kline_family) : list Z :=
  match f with KlMitsu => mitsu_frame mitsu_wire MitsuKline.erase_request | _ => HitachiKline.Framed (hitachi_wire "") HitachiKline.erase_request end.
Definition kline_erased (f : kline_family) : list Z := match f with KlMitsu => [0x71] | _ => [0x71; kRoutineControlStop] end.
(** The frames after the erase: the chunks of the encrypted image and the request to check them. *)
Definition kline_rest (f : kline_family) (image : list Z) : list (list Z) :=
  match f with KlMitsu => mitsu_rest mitsu_wire image | _ => hitachi_rest (hitachi_wire "") image end.
Definition kline_writes (f : kline_family) : bool := match f with KlHitachi | KlMitsu => true | _ => false end.
Lemma kline_rest_flashed f image m :
  kline_writes f = true -> bytes_ok image -> zlen image = 0x80000 ->
  fold_left (kline_flash (kline_decrypt f)) (kline_rest f image) m
  ≡ store m (reg_start (kline_region f)) (subspan image (reg_start (kline_region f)) (reg_length (kline_region f))).
Proof.
  intros Hf Hb Hl. destruct f; try done; cbn [kline_rest kline_region reg_start reg_length HitachiM32rKline.kRom MitsuM32rKline.kUserspace].
  - unfold hitachi_rest, hitachi_chunks. rewrite fold_left_app, Z.sub_0_r. cbn [fold_left].
    unfold HitachiKline.Framed, HitachiKline.checksum_request. rewrite kline_flash_other by done.
    replace 0x80000 with (128 * 4096) by lia. apply (pieces_stored (kline_flash (kline_decrypt KlHitachi))); [apply kline_flash_proper|lia|lia|lia|].
    intros m' k Hk. unfold HitachiKline.transfer_request. cbn [kline_chunk_size kline_tester_id kline_target_id hitachi_wire].
    rewrite kline_flash_transfer by (try lia; try done; apply bytes_ok_subspan, bytes_ok_CalculatePayload).
    rewrite Z.add_0_l. f_equal. apply decrypt_piece; try done; try (rewrite Hl; lia); Z.to_euclidean_division_equations; lia.
  - unfold mitsu_rest, mitsu_chunks. rewrite fold_left_app, Z.sub_0_r. cbn [fold_left].
    unfold mitsu_frame, MitsuKline.checksum_request. rewrite kline_flash_other by done.
    rewrite (pieces_stored (kline_flash (kline_decrypt KlMitsu)) _ 0x8000 128 3840 (subspan image 0x8000 0x78000));
      [by rewrite subspan_full by (rewrite zlen_subspan; lia)|apply kline_flash_proper|lia|lia|rewrite zlen_subspan; lia|].
    intros m' k Hk. unfold MitsuKline.transfer_request. cbn [mitsu_chunk_size mitsu_tester_id mitsu_target_id mitsu_wire].
    rewrite kline_flash_transfer by (try lia; try done; apply bytes_ok_subspan, bytes_ok_CalculatePayload).
    f_equal. rewrite subspan_subspan by lia. apply decrypt_piece; try done; try (rewrite Hl; lia); Z.to_euclidean_division_equations; lia.
Qed.
Lemma story_unfinished erase prefix rest l : write_story erase prefix rest true l -> write_story erase prefix rest false l.
Proof.
  intros (pre & Hp & [[_ [=]]|(answers & post & -> & Ha & E)]). exists pre. split; [done|]. right. exists answers, post.
  rewrite E. auto.
Qed.
Lemma kline_attempt_writes `{Env} f protocol mcu image plan :
  kline_writes f = true -> kline_build f kWrite protocol mcu (Some image) = Ok plan ->
  zlen image = 0x80000
  /\ talks (kline_attempt f plan) (fun r l => write_story (kline_erase f) (kline_erased f) (kline_rest f image) (is_ok r) l).
Proof.
  intros Hf Hb.
  set (Q := fun (r : result Error FlashExecutionResult) l => write_story (kline_erase f) (kline_erased f) (kline_rest f image) (is_ok r) l).
  assert (forall e, Q (Err e) []) as Hno by (intros; apply story_failed).
  assert (forall (r : FlashExecutionResult) e l, Q (Ok r) l -> Q (Err e) l) as Herr by (intros r e l; apply story_unfinished).
  destruct f; try done; cbn [kline_build] in Hb; unfold kline_attempt; cbn [kline_executor].
  - destruct (hitachi_built _ _ _ _ _ Hb) as (Ho & Hg & Himg). destruct (Himg image eq_refl eq_refl) as [Hl Hi]. split; [done|].
    apply (talks_attempt _ _ _ _ _ _ _ _ Hg Hno Herr). unfold HitachiKline.Run.
    apply writes_try; [only_harmless|]. intros _. rewrite bool_decide_false by (rewrite Ho; done).
    apply writes_try; [apply hitachi_PrepareWrite|]. intros _. apply writes_last; [|intros; by apply observes_ret].
    pose proof (hitachi_WriteRom (hitachi_wire protocol) eq_refl plan) as Hw. rewrite Hi in Hw. exact Hw.
  - destruct (mitsu_built _ _ _ _ _ Hb) as (Ho & Hg & Hr & Himg). destruct (Himg image eq_refl eq_refl) as [Hl Hi]. split; [done|].
    apply (talks_attempt _ _ _ _ _ _ _ _ Hg Hno Herr). unfold MitsuKline.Run, MitsuKline.ExecuteOpenTransport.
    apply writes_try; [only_harmless|]. intros _. apply writes_bind; [only_harmless|]. intros _.
    apply writes_try; [apply mitsu_Handshake|]. intros ?. rewrite bool_decide_false by (rewrite Ho; done).
    apply writes_bind; [only_harmless|]. intros _. apply writes_last; [|intros; by apply observes_ret].
    pose proof (mitsu_WriteRom mitsu_wire eq_refl plan Hr) as Hw. rewrite Hi in Hw. exact Hw.
Qed.

(** A plan of the Hitachi family. *)
Lemma sample_kline_plan op img :
  operation_ok HitachiM32rKline.kSpec op img -> exists plan, kline_build KlHitachi op "sub_ecu_hitachi_m32r_kline" "M32R_512KB_1block" img = Ok plan.
Proof.
  intros Ho. destruct (families !! 11%nat) as [e|] eqn:He; [|done]. eexists.
  assert (entry_build e = kline_build KlHitachi) as <- by (by injection He as <-). apply (entry_builds _ _ _ _ _ _ (family_entry_ok _ _ He)).
  split; [|reflexivity]. injection He as <-. split_and!; [apply list_elem_of_In; by left|done|exact Ho|done].
Qed.
Lemma blank_kline_image : operation_ok HitachiM32rKline.kSpec kWrite (Some (zrepeat 0x80000 0xFF)).
Proof. split; [done|]. eexists. split; [done|]. by rewrite zlen_zrepeat. Qed.
Lemma blank_kline_bytes : bytes_ok (zrepeat 0x80000 0xFF).
Proof. apply bytes_ok_zrepeat. unfold byte_ok. lia. Qed.

(** ** Claims *)
Section kline_claims.
Context `{Env}.
(** C9: A K-Line write of the two M32R engine families, in every environment. Before the
    erase only frames are sent that neither transfer data nor start a routine; after the
    erase request nothing is sent until the unit's answer, read whole, acknowledges it;
    then the transfer frames of the encrypted image go out in order and the checksum
    request last, all of them when the attempt succeeds. A unit that obeys the frames of a
    successful attempt holds the image in the region written and what it held elsewhere. *)
Theorem kline_write_attempt f protocol mcu image plan :
  kline_writes f = true -> bytes_ok image -> kline_build f kWrite protocol mcu (Some image) = Ok plan ->
  talks (kline_attempt f plan) (fun r l =>
    write_story (kline_erase f) (kline_erased f) (kline_rest f image) (is_ok r) l
    /\ (is_ok r = true -> forall m, fold_left (kline_flash (kline_decrypt f)) (sent l) m
          ≡ store m (reg_start (kline_region f)) (subspan image (reg_start (kline_region f)) (reg_length (kline_region f))))).
Proof.
  intros Hf Hb Hbuild. destruct (kline_attempt_writes f _ _ _ _ Hf Hbuild) as [Hl Ht].
  refine (observes_weaken _ _ _ Ht _). intros r l Hs. split; [done|]. intros Hok m. rewrite Hok in Hs.
  destruct Hs as (pre & Hp & [[_ [=]]|(answers & post & -> & _ & Hrest)]). rewrite sent_app. cbn [sent].
  assert (sent (map R answers ++ post) = kline_rest f image) as -> by (rewrite sent_app, Hrest; by induction answers).
  rewrite fold_left_app. cbn [fold_left].
  rewrite (kline_flash_idle _ (sent pre)) by (apply (Forall_impl _ _ _ Hp); by intros x [Hx _]).
  rewrite <- (kline_rest_flashed f image m Hf Hb Hl). destruct f; try done.
Qed.
(** C10: A K-Line read of the four families, in every environment: it sends no frame that
    transfers data or starts a routine, and when it succeeds the ROM has the size of the
    family and is, after the part the protocol does not read, the data of the answers to
    exactly the requests for its pages, in order, each answer of the length asked for;
    a transmission's page is asked for again, at most five times in all, only after an
    answer too short to carry data. *)
Theorem kline_read_attempt f protocol mcu img plan :
  kline_build f kRead protocol mcu img = Ok plan -> talks (kline_attempt f plan) (read_story f).
Proof. apply kline_attempt_reads. Qed.
End kline_claims.
Lemma kline_write_attempt_witness :
  exists plan,
    kline_build KlHitachi kWrite "sub_ecu_hitachi_m32r_kline" "M32R_512KB_1block" (Some (zrepeat 0x80000 0xFF)) = Ok plan
    /\ exists d, snd (kline_attempt (H := mut_unit (fun _ => 0)) KlHitachi plan []) = [] ++ d
         /\ write_story (kline_erase KlHitachi) (kline_erased KlHitachi) (kline_rest KlHitachi (zrepeat 0x80000 0xFF))
              (is_ok (fst (kline_attempt (H := mut_unit (fun _ => 0)) KlHitachi plan []))) (kline_io d).
Proof.
  destruct (sample_kline_plan kWrite _ blank_kline_image) as [plan E]. exists plan. split; [exact E|].
  destruct (kline_write_attempt (H := mut_unit (fun _ => 0)) KlHitachi "sub_ecu_hitachi_m32r_kline" "M32R_512KB_1block" (zrepeat 0x80000 0xFF) plan
    eq_refl blank_kline_bytes E []) as (d & Ed & Hd & _).
  exists d. exact (conj Ed Hd).
Defined.
Lemma kline_read_attempt_witness :
  exists plan,
    kline_build KlHitachi kRead "sub_ecu_hitachi_m32r_kline" "M32R_512KB_1block" None = Ok plan
    /\ exists d, snd (kline_attempt (H := mut_unit (fun _ => 0)) KlHitachi plan []) = [] ++ d
         /\ read_story KlHitachi (fst (kline_attempt (H := mut_unit (fun _ => 0)) KlHitachi plan [])) (kline_io d).
Proof.
  destruct (sample_kline_plan kRead None I) as [plan E]. exists plan. split; [exact E|].
  destruct (kline_read_attempt (H := mut_unit (fun _ => 0)) KlHitachi "sub_ecu_hitachi_m32r_kline" "M32R_512KB_1block" None plan E []) as (d & Ed & Hd).
  exists d. exact (conj Ed Hd).
Defined.
