(* ===== verification/KlineUnit.v ===== *)
(** * KlineUnit: the K-Line executors against a unit

    A control unit that keeps the protocol of the two M32R engine families over the
    K-Line: it identifies itself, opens its session, obeys transfer frames and answers
    reads with its memory. *)
From S2P Require Import Prelude Bytes Ssm Uds Ports UdsClient CanFlash FlashPlan FlashExecution FlashMemory MutDmaDriver SingleWindowPlans StagedPlans KlineExecution KlineExecutors Scripts KlineFlashing.
#[local] Opaque CalculatePayload CalculateSeedKey.
#[local] Opaque AddHeader.

(** ** Frames taken apart *)
Lemma zlen_AddHeader payload s r : bytes_ok payload -> byte_ok s -> byte_ok r -> zlen (AddHeader payload s r) = zlen payload + 5.
Proof. intros Hp Hs Hr. rewrite AddHeader_bytes by done. rewrite zlen_app, !zlen_cons, zlen_nil. lia. Qed.
Lemma subspan_AddHeader payload s r a b c :
  bytes_ok payload -> byte_ok s -> byte_ok r -> payload = a ++ b ++ c -> subspan (AddHeader payload s r) (4 + zlen a) (zlen b) = b.
Proof.
  intros Hp Hs Hr E. rewrite AddHeader_bytes by done. set (n := u8 _). set (sum := Sum8 _). clearbody n sum. rewrite E.
  change ((0x80 :: r :: s :: n :: a ++ b ++ c) ++ [sum]) with ([0x80; r; s; n] ++ ((a ++ b ++ c) ++ [sum])).
  replace ([0x80; r; s; n] ++ ((a ++ b ++ c) ++ [sum])) with (([0x80; r; s; n] ++ a) ++ b ++ (c ++ [sum])) by (by rewrite <- !app_assoc).
  apply subspan_app_middle; [|done]. rewrite zlen_app. change (zlen [_; _; _; _]) with 4. lia.
Qed.
Lemma expect_reply prefix rest s r peer :
  bytes_ok (prefix ++ rest) -> byte_ok s -> byte_ok r -> ExpectM32rSsmPrefix (AddHeader (prefix ++ rest) s r) prefix peer = Ok tt.
Proof.
  intros Hb Hs Hr. unfold ExpectM32rSsmPrefix, M32rSsmPayloadHasPrefix. cbv zeta. rewrite zlen_AddHeader, zlen_app by done.
  pose proof (zlen_nonneg rest). pose proof (zlen_nonneg prefix). rewrite !(proj2 (Z.ltb_ge _ _)) by lia. cbn [orb].
  rewrite bool_decide_true; [done|]. exact (subspan_AddHeader _ s r [] prefix rest Hb Hs Hr eq_refl).
Qed.
Lemma expect_service prefix rest s r :
  bytes_ok (prefix ++ rest) -> byte_ok s -> byte_ok r -> MitsuKline.ExpectService (AddHeader (prefix ++ rest) s r) prefix = Ok tt.
Proof.
  intros Hb Hs Hr. unfold MitsuKline.ExpectService. rewrite zlen_AddHeader, zlen_app by done.
  pose proof (zlen_nonneg rest). rewrite (proj2 (Z.ltb_ge _ _)) by lia.
  rewrite bool_decide_true; [done|]. exact (subspan_AddHeader _ s r [] prefix rest Hb Hs Hr eq_refl).
Qed.

Section unit.
Context (f : kline_family) (active : bool) (ident seed : list Z) (m0 : memory).
(** Reads of the Hitachi family name an address above the ROM. *)
Definition read_bias : Z := match f with KlMitsu => 0 | _ => 0x100000 end.
Definition ku_payload (m : memory) (frame : list Z) : list Z :=
  let sid := zget frame 4 in
  if sid =? 0xbf then [0xff; 0; 0; 0] ++ ident
  else if sid =? 0x81 then [0xc1]
  else if sid =? 0x83 then [0xc3]
  else if sid =? kSidSecurityAccess then if zget frame 5 =? kSecurityAccessRequestSeed then [0x67; kSecurityAccessRequestSeed] ++ seed else [0x67; kSecurityAccessSendKey]
  else if sid =? kSidDiagnosticSessionControl then [0x50]
  else if sid =? 0xb8 then [0xf8]
  else if sid =? kSidRequestDownload then if active then [0x74; 0x84] else [0x74]
  else if sid =? kSidRoutineControl then [0x71; zget frame 5; zget frame 6]
  else if sid =? kSidTransferData then [0x76]
  else if sid =? 0xa0 then 0xe0 :: map m (seqZ (ReadUBe frame 7 3 - read_bias) (zget frame 10 + 1))
  else [0x7f].
Definition ku_mem (t : trace) : memory := fold_left (kline_flash (kline_decrypt f)) (sent (kline_io t)) m0.
Definition ku_last (t : trace) : list Z := List.last (sent (kline_io t)) [].
Definition ku_reply (m : memory) (frame : list Z) : list Z := AddHeader (ku_payload m frame) 0x10 0xF0.
Definition kline_unit : Env := {|
  env_cancelled := fun _ => false;
  env_sleep := fun _ _ => Ok tt;
  env_reset := fun _ => Ok tt;
  env_configure := fun _ _ => Ok tt;
  env_open := fun _ => Ok tt;
  env_close := fun _ => Ok tt;
  env_write := fun _ _ => Ok tt;
  env_read := fun _ _ => Ok None;
  env_port := fun t c =>
    match c with
    | KlineSetBaud _ | KlineConfigure _ | KlineOpen | KlineClose | KlineSetAddIso14230Header _ => Ok tt
    | KlineWrite frame => Ok (zlen frame)
    | KlineRead _ => Ok (Some (ku_reply (ku_mem t) (ku_last t)))
    | c => absent_port c
    end
|}.
#[local] Instance the_kline_unit : Env := kline_unit.
(** From any history with memory [m], the computation answers [a] and leaves memory [m']. *)
Definition moves {A} (m : memory) (c : M A) (a : A) (m' : memory) : Prop :=
  forall t, ku_mem t = m -> exists t', c t = (a, t') /\ ku_mem t' = m'.
Lemma moves_ret {A} m (a : A) : moves m (ret a) a m.
Proof. intros t Ht. by exists t. Qed.
Lemma moves_bind {A B} m m1 m2 (c : M A) (k : A -> M B) a b : moves m c a m1 -> moves m1 (k a) b m2 -> moves m (bind c k) b m2.
Proof. intros Hc Hk t Ht. unfold bind. destruct (Hc t Ht) as (t1 & -> & Hm). by apply Hk. Qed.
Lemma moves_try {A B} m m1 m2 (c : M (result Error A)) (k : A -> M (result Error B)) a b :
  moves m c (Ok a) m1 -> moves m1 (k a) b m2 -> moves m (try c k) b m2.
Proof. intros Hc Hk. by apply (moves_bind _ m1 _ _ _ (Ok a)). Qed.
Lemma ku_mem_snoc t ev : ku_mem (t ++ [ev]) = fold_left (kline_flash (kline_decrypt f)) (sent (io_of ev)) (ku_mem t).
Proof. unfold ku_mem. rewrite observed_app, sent_app, fold_left_app. unfold observed. cbn [map List.concat]. by rewrite app_nil_r. Qed.
Lemma moves_Cancelled m : moves m Cancelled false m.
Proof. intros t <-. eexists. split; [reflexivity|]. by rewrite ku_mem_snoc. Qed.
Lemma moves_Sleep m ms : moves m (Sleep ms) (Ok tt) m.
Proof. intros t <-. eexists. split; [reflexivity|]. by rewrite ku_mem_snoc. Qed.
Lemma moves_Log m level message : moves m (Log level message) tt m.
Proof. intros t <-. eexists. split; [reflexivity|]. by rewrite ku_mem_snoc. Qed.
Lemma moves_SetBaud m b : moves m (Call (KlineSetBaud b)) (Ok tt) m.
Proof. intros t <-. eexists. split; [reflexivity|]. by rewrite ku_mem_snoc. Qed.
Lemma moves_Header m b : moves m (Call (KlineSetAddIso14230Header b)) (Ok tt) m.
Proof. intros t <-. eexists. split; [reflexivity|]. by rewrite ku_mem_snoc. Qed.
Lemma moves_Progress m d n : moves m (Call (EventsProgress d n)) tt m.
Proof. intros t <-. eexists. split; [reflexivity|]. by rewrite ku_mem_snoc. Qed.
(** A frame and the answer to it. *)
Lemma moves_Optional m payload timeout :
  let frame := AddHeader payload 0xF0 0x10 in let m' := kline_flash (kline_decrypt f) m frame in
  moves m (ExchangeM32rSsmOptional payload 0xF0 0x10 timeout) (Ok (Some (ku_reply m' frame))) m'.
Proof.
  intros frame m' t Ht. unfold ExchangeM32rSsmOptional, SendM32rSsmFrame, ReceiveM32rSsmOnce. cbv zeta. fold frame.
  unfold try, bind, Cancelled, Call, ret. cbn [env_cancelled env_port the_kline_unit kline_unit]. rewrite Z.eqb_refl. cbn [negb fst snd].
  eexists. split.
  - do 4 f_equal.
    + rewrite !ku_mem_snoc. cbn [io_of sent fold_left]. by rewrite Ht.
    + unfold ku_last. rewrite !observed_app, !sent_app. cbn [observed map List.concat io_of app sent]. rewrite !app_nil_r. apply List.last_last.
  - rewrite !ku_mem_snoc. cbn [io_of sent fold_left]. by rewrite Ht.
Qed.
Lemma moves_Required m payload endpoint timeout :
  ep_tester_id endpoint = 0xF0 -> ep_target_id endpoint = 0x10 ->
  let frame := AddHeader payload 0xF0 0x10 in let m' := kline_flash (kline_decrypt f) m frame in
  moves m (ExchangeM32rSsmRequired payload endpoint timeout) (Ok (ku_reply m' frame)) m'.
Proof.
  intros H1 H2 frame m'. unfold ExchangeM32rSsmRequired. rewrite H1, H2. eapply moves_try; [apply moves_Optional|]. apply moves_ret.
Qed.
(** A request the unit answers with a known payload, and that stores nothing. *)
Definition answers (m : memory) (request reply : list Z) : Prop :=
  kline_flash (kline_decrypt f) m (AddHeader request 0xF0 0x10) = m /\ ku_payload m (AddHeader request 0xF0 0x10) = reply.
Lemma moves_asked m payload timeout reply :
  answers m payload reply -> moves m (ExchangeM32rSsmOptional payload 0xF0 0x10 timeout) (Ok (Some (AddHeader reply 0x10 0xF0))) m.
Proof. intros [H1 H2]. pose proof (moves_Optional m payload timeout) as Hm. cbv zeta in Hm. unfold ku_reply in Hm. by rewrite H1, H2 in Hm. Qed.
Lemma moves_replied m payload endpoint timeout reply :
  ep_tester_id endpoint = 0xF0 -> ep_target_id endpoint = 0x10 -> answers m payload reply ->
  moves m (ExchangeM32rSsmRequired payload endpoint timeout) (Ok (AddHeader reply 0x10 0xF0)) m.
Proof.
  intros E1 E2 [H1 H2]. pose proof (moves_Required m payload endpoint timeout E1 E2) as Hm. cbv zeta in Hm. unfold ku_reply in Hm. by rewrite H1, H2 in Hm.
Qed.
Lemma moves_prefix m payload endpoint timeout prefix rest :
  ep_tester_id endpoint = 0xF0 -> ep_target_id endpoint = 0x10 -> answers m payload (prefix ++ rest) -> bytes_ok (prefix ++ rest) ->
  moves m (RequestM32rSsmPrefix payload endpoint prefix timeout) (Ok tt) m.
Proof.
  intros E1 E2 Ha Hb. unfold RequestM32rSsmPrefix. eapply moves_try; [by apply moves_replied|]. rewrite expect_reply by done. apply moves_ret.
Qed.
Lemma ku_payload_transfer m l s r : ku_payload m (AddHeader (kSidTransferData :: l) s r) = [0x76].
Proof. unfold ku_payload. by rewrite service_AddHeader. Qed.
Lemma answers_head m b l reply :
  u8 b <> kSidTransferData -> ku_payload m (AddHeader (b :: l) 0xF0 0x10) = reply -> answers m (b :: l) reply.
Proof. intros Hb Hr. split; [by apply kline_flash_other|done]. Qed.
Context (Hident : bytes_ok ident) (Lident : zlen ident = 5) (Hseed : bytes_ok seed) (Lseed : zlen seed = 4).
Ltac answer := apply answers_head; [by vm_compute|]; unfold ku_payload; rewrite service_AddHeader; try reflexivity.
Lemma answers_id m : answers m [0xbf] ([0xff; 0; 0; 0] ++ ident).
Proof. answer. Qed.
Lemma answers_start m : answers m [0x81] [0xc1].
Proof. answer. Qed.
Lemma answers_timing m : answers m [0x83; 0] [0xc3].
Proof. answer. Qed.
Lemma answers_seed m : answers m [kSidSecurityAccess; kSecurityAccessRequestSeed] ([0x67; kSecurityAccessRequestSeed] ++ seed).
Proof. answer. Qed.
Lemma answers_key m key : answers m (ComposeBe [FByte kSidSecurityAccess; FByte kSecurityAccessSendKey; FBytes key]) [0x67; kSecurityAccessSendKey].
Proof. change (answers m (kSidSecurityAccess :: kSecurityAccessSendKey :: ComposeBe [FBytes key]) [0x67; kSecurityAccessSendKey]). answer. Qed.
Lemma answers_session m : answers m [kSidDiagnosticSessionControl; 0x85; 0x02] [0x50].
Proof. answer. Qed.
Lemma answers_baud m : answers m [0xb8; 0x00; 0x00; 0x00; 0x75] [0xf8].
Proof. answer. Qed.
Lemma answers_download m l : answers m (kSidRequestDownload :: l) ([0x74] ++ if active then [0x84] else []).
Proof. answer. by destruct active. Qed.
Lemma answers_routine m b c l : answers m (kSidRoutineControl :: b :: c :: l) [0x71; u8 b; u8 c].
Proof. answer. Qed.
Definition page_request (x a : Z) : list Z := ComposeBe [FByte 0xa0; FByte 0x00; FByte x; FU24 a; FByte 127].
Lemma answers_read m x a : 0 <= a < 2 ^ 24 -> answers m (page_request x a) (0xe0 :: map m (seqZ (a - read_bias) 128)).
Proof.
  intros Ha. change (answers m (0xa0 :: ComposeBe [FByte 0x00; FByte x; FU24 a; FByte 127]) (0xe0 :: map m (seqZ (a - read_bias) 128))). answer.
  change (u8 0xa0) with 0xa0. cbn [Z.eqb Pos.eqb kSidSecurityAccess kSidDiagnosticSessionControl]. cbv iota.
  change (0xa0 :: ComposeBe [FByte 0x00; FByte x; FU24 a; FByte 127]) with (ComposeBe [FByte 0xa0; FByte 0x00; FByte x; FU24 a; FByte 127]).
  rewrite AddHeader_bytes by (done || apply bytes_ok_ComposeBe). set (n := u8 _). set (sum := Sum8 _). clearbody n sum.
  assert ((0x80 :: 0x10 :: 0xF0 :: n :: ComposeBe [FByte 0xa0; FByte 0x00; FByte x; FU24 a; FByte 127]) ++ [sum]
    = [0x80; 0x10; 0xF0; n; 0xa0; 0; u8 x] ++ EmitIntegerBe 3 a ++ [127; sum]) as -> by done.
  assert (ReadUBe ([0x80; 0x10; 0xF0; n; 0xa0; 0; u8 x] ++ EmitIntegerBe 3 a ++ [127; sum]) 7 3 = a) as ->; [|done].
  change 7 with (zlen [0x80; 0x10; 0xF0; n; 0xa0; 0; u8 x]). rewrite ReadUBe_middle by (try lia; apply zlen_EmitIntegerBe).
  rewrite ReadUBe_EmitIntegerBe by lia. by apply Z.mod_small.
Qed.
(** The bytes of a stretch of memory. *)
Definition holds_bytes (m : memory) (a n : Z) : Prop := bytes_ok (map m (seqZ a n)).
Lemma read_reply m a : holds_bytes m a 128 ->
  let reply := AddHeader (0xe0 :: map m (seqZ a 128)) 0x10 0xF0 in
  zlen reply = 134 /\ zget reply 4 = 0xe0 /\ subspan reply 5 (zlen reply - 6) = map m (seqZ a 128).
Proof.
  intros Hb reply. assert (bytes_ok (0xe0 :: map m (seqZ a 128))) as Hp by (constructor; [done|exact Hb]).
  assert (zlen reply = 134) as Hl by (unfold reply; by rewrite zlen_AddHeader by done). split_and!; [done|done|]. rewrite Hl.
  apply (subspan_AddHeader _ 0x10 0xF0 [0xe0] (map m (seqZ a 128)) [] Hp); [done|done|]. by rewrite app_nil_r.
Qed.
Lemma holds_bytes_sub m a n i k : holds_bytes m a n -> 0 <= i -> 0 <= k -> i + k <= n -> holds_bytes m (a + i) k.
Proof.
  unfold holds_bytes. intros Hb Hi Hk Hn. replace n with (i + (k + (n - i - k))) in Hb by lia. rewrite !seqZ_app, !map_app in Hb by lia.
  by apply Forall_app in Hb as [_ [Hb _]%Forall_app].
Qed.
Lemma id_bytes : bytes_ok ([0xff; 0; 0; 0] ++ ident).
Proof. apply bytes_ok_app; [repeat constructor; unfold byte_ok; lia|done]. Qed.
Definition id_text : string := fold_left (fun id byte => id +:+ fmt_02X byte) ident ""%string +:+ "_".
Lemma rom_id_answered : rom_id_text (AddHeader ([0xff; 0; 0; 0] ++ ident) 0x10 0xF0) = id_text.
Proof.
  unfold rom_id_text, id_text. do 2 f_equal. rewrite <- Lident. apply (subspan_AddHeader _ 0x10 0xF0 [0xff; 0; 0; 0] ident []); try done; [apply id_bytes|].
  by rewrite app_nil_r.
Qed.
Lemma id_length : zlen (AddHeader ([0xff; 0; 0; 0] ++ ident) 0x10 0xF0) = 14.
Proof. rewrite zlen_AddHeader by (done || apply id_bytes). rewrite zlen_app, Lident. done. Qed.
Lemma seed_bytes : bytes_ok ([0x67; kSecurityAccessRequestSeed] ++ seed).
Proof. apply bytes_ok_app; [repeat constructor; done|done]. Qed.
Lemma seed_length : zlen (AddHeader ([0x67; kSecurityAccessRequestSeed] ++ seed) 0x10 0xF0) = 11.
Proof. rewrite zlen_AddHeader by (done || apply seed_bytes). rewrite zlen_app, Lseed. done. Qed.
Ltac literal := cbn [app]; repeat (apply List.Forall_cons; [by vm_compute|]); apply List.Forall_nil.

Section hitachi.
Import HitachiKline.
Context (protocol : string).
Abbreviation p := (hitachi_wire protocol).
Lemma moves_request m request prefix rest :
  answers m request (prefix ++ rest) -> bytes_ok (prefix ++ rest) -> moves m (RequestPrefix p request prefix) (Ok tt) m.
Proof. intros Ha Hb. by apply (moves_prefix _ _ _ _ _ rest). Qed.
Lemma parse_id : ParseRomId (AddHeader ([0xff; 0; 0; 0] ++ ident) 0x10 0xF0) = Ok id_text.
Proof.
  unfold ParseRomId, ExpectPrefix. change ([0xff; 0; 0; 0] ++ ident) with ([0xff] ++ ([0; 0; 0] ++ ident)).
  rewrite expect_reply by (done || apply id_bytes). cbn [result_bind].
  change ([0xff] ++ ([0; 0; 0] ++ ident)) with ([0xff; 0; 0; 0] ++ ident). by rewrite id_length, rom_id_answered.
Qed.
Lemma moves_id m : moves m (Exchange p [0xbf]) (Ok (AddHeader ([0xff; 0; 0; 0] ++ ident) 0x10 0xF0)) m.
Proof. apply moves_replied; [done|done|apply answers_id]. Qed.
Lemma moves_session m b : moves m (AuthenticatedSession p b) (Ok tt) m.
Proof.
  unfold AuthenticatedSession. eapply moves_try.
  { destruct b; [|apply moves_ret]. eapply moves_try; [apply moves_id|]. rewrite parse_id. eapply moves_try; [apply moves_ret|].
    apply (moves_request _ _ _ []); [apply answers_start|literal]. }
  eapply moves_try; [apply (moves_request _ _ _ []); [apply answers_timing|literal]|].
  eapply moves_try; [apply moves_replied; [done|done|apply answers_seed]|]. unfold ExpectPrefix. rewrite expect_reply by (done || apply seed_bytes).
  eapply moves_try; [apply moves_ret|]. rewrite seed_length. change (11 <? 10) with false. cbv iota zeta. eapply moves_try.
  { case_bool_decide; [apply (moves_request _ _ _ [kSecurityAccessSendKey])|apply (moves_request _ _ _ [])]; [apply answers_key|literal|apply answers_key|literal]. }
  apply (moves_request _ _ _ []); [apply answers_session|literal].
Qed.
Lemma moves_PrepareRead m : moves m (PrepareRead p) (Ok id_text) m.
Proof.
  unfold PrepareRead. eapply moves_try.
  { eapply moves_try; [apply moves_SetBaud|]. apply moves_asked, answers_id. }
  cbv beta iota. rewrite parse_id. apply moves_ret.
Qed.
Lemma moves_PrepareWrite m : moves m (PrepareWrite p) (Ok tt) m.
Proof.
  unfold PrepareWrite. case_bool_decide.
  - eapply moves_try; [apply moves_SetBaud|]. eapply moves_try; [|apply moves_session].
    change 1000%nat with (S 999). cbn [wake]. eapply moves_try; [apply moves_asked, answers_start|]. cbv beta iota.
    unfold ExpectPrefix. change [0xc1] with ([0xc1] ++ []) at 1. rewrite (expect_reply [0xc1] []) by (done || literal). apply moves_ret.
  - eapply moves_try; [eapply moves_try; [apply moves_SetBaud|]; apply moves_asked, answers_download|]. cbv beta iota.
    destruct active; [apply moves_ret|]. eapply moves_try; [apply moves_SetBaud|]. apply moves_session.
Qed.
Abbreviation flash := (kline_flash (kline_decrypt f)).
(** What is read after a frame is the unit's answer to it. *)
Lemma reads_answer m request timeout t :
  ku_mem t = m -> ku_last t = request ->
  fst (Call (KlineRead timeout) t) = Ok (Some (ku_reply m request)) /\ ku_mem (snd (Call (KlineRead timeout) t)) = m.
Proof. intros <- <-. split; [done|]. cbn [snd Call]. by rewrite ku_mem_snoc. Qed.
Lemma writes_frame m frame t :
  ku_mem t = m -> let t' := snd (Call (KlineWrite frame) t) in
  fst (Call (KlineWrite frame) t) = Ok (zlen frame) /\ ku_mem t' = flash m frame /\ ku_last t' = frame.
Proof.
  intros <- t'. split_and!; [done| |]; unfold t'; cbn [snd Call].
  - by rewrite ku_mem_snoc.
  - unfold ku_last. rewrite observed_app, sent_app. cbn [observed map List.concat io_of app sent]. apply List.last_last.
Qed.
Lemma erase_wait_answer n m request t :
  ku_mem t = m -> ku_last t = request -> 5 < zlen (ku_reply m request) ->
  exists t', erase_wait (S (S n)) [] t = (Ok (ku_reply m request), t') /\ ku_mem t' = m.
Proof.
  intros Hm Hl Hlen. destruct (reads_answer m request 500 t Hm Hl) as [H1 H2]. cbn [erase_wait].
  change (zlen [] <=? 5) with true. cbv iota. unfold try at 1, bind at 1. destruct (Call (KlineRead 500) t) as [a t1]. cbn [fst snd] in *. subst a.
  cbv beta iota zeta. change ([] ++ default [] (Some (ku_reply m request))) with (ku_reply m request). rewrite (proj2 (Z.leb_gt _ _)) by lia.
  exists t1. split; [reflexivity|exact H2].
Qed.
Lemma moves_Erase m : moves m (EraseRom p) (Ok tt) m.
Proof.
  assert (answers m erase_request [0x71; kRoutineControlStop; 0x0f]) as [H1 H2] by apply answers_routine.
  unfold EraseRom. cbv zeta. change (Framed p erase_request) with (AddHeader erase_request 0xF0 0x10). set (request := AddHeader erase_request _ _) in *.
  eapply moves_bind; [apply moves_Cancelled|]. cbv iota. intros t Ht. destruct (writes_frame m request t Ht) as (E1 & E2 & E3).
  unfold try at 1, bind at 1. destruct (Call (KlineWrite request) t) as [n t1]. cbn [fst snd] in *. subst n. cbv beta iota. rewrite Z.eqb_refl. cbn [negb].
  assert (ku_reply m request = AddHeader ([0x71; kRoutineControlStop] ++ [0x0f]) 0x10 0xF0) as E by (unfold ku_reply; by rewrite H2).
  rewrite H1 in E2. destruct (erase_wait_answer 18 m request t1 E2 E3) as (t2 & E4 & E5); [by rewrite E, zlen_AddHeader by (done || literal)|].
  unfold try, bind. rewrite E4. unfold ExpectPrefix. rewrite E, expect_reply by (done || literal).
  exists t2. by split.
Qed.
Lemma moves_transfer fuel encrypted i m : 0 <= i <= 4096 -> 4096 - i < Z.of_nat fuel ->
  moves m (transfer_loop p fuel encrypted (128 * i)) (Ok tt) (fold_left flash (hitachi_chunks p encrypted i) m).
Proof.
  revert i m. induction fuel as [|fuel IH]; intros i m Hi Hf; [lia|]. cbn [transfer_loop]. unfold hitachi_chunks.
  destruct (Z.ltb_spec (128 * i) kRomSize) as [Hl|Hl]; unfold kRomSize in Hl; [|rewrite seqZ_nil by lia; apply moves_ret].
  rewrite seqZ_cons by lia. cbn [map fold_left]. eapply moves_bind; [apply moves_Cancelled|]. cbv iota.
  eapply moves_try; [apply moves_Optional|]. cbv beta iota zeta.
  match goal with |- moves _ (if ?b then _ else _) _ _ => assert (b = false) as -> end.
  { unfold ku_reply, transfer_request.
    change (ComposeBe (FByte kSidTransferData :: ?fields)) with (kSidTransferData :: ComposeBe fields).
    rewrite ku_payload_transfer, service_AddHeader. apply andb_false_r. }
  eapply moves_bind; [apply moves_Progress|]. cbn [kline_chunk_size hitachi_wire]. rewrite (u32_small (128 * i + 128)) by (unfold u32_ok; lia).
  replace (128 * i + 128) with (128 * (i + 1)) by lia. unfold Z.succ. replace (Z.pred (4096 - i)) with (4096 - (i + 1)) by lia. apply IH; lia.
Qed.
Lemma moves_WriteRom m plan : moves m (WriteRom p plan) (Ok tt) (fold_left flash (hitachi_rest p (ImageOrEmpty plan)) m).
Proof.
  unfold WriteRom. eapply moves_try; [apply moves_SetBaud|].
  eapply moves_try; [apply (moves_request _ _ _ (if active then [0x84] else [])); [apply answers_download|destruct active; literal]|].
  eapply moves_try; [apply moves_Sleep|]. eapply moves_try; [apply moves_Erase|].
  eapply moves_try; [eapply moves_bind; [apply moves_Cancelled|]; apply (moves_transfer _ _ 0); by vm_compute|].
  eapply moves_try; [apply moves_Sleep|]. unfold hitachi_rest. rewrite fold_left_app. cbn [fold_left]. set (m1 := fold_left _ _ m).
  pose proof (answers_routine m1 kRoutineControlStart 0x02 []) as Ha. change (Framed p checksum_request) with (AddHeader [kSidRoutineControl; kRoutineControlStart; 2] 0xF0 0x10). rewrite (proj1 Ha).
  eapply moves_try; [apply moves_asked, Ha|]. cbv beta iota. rewrite AddHeader_bytes by (done || literal). apply moves_ret.
Qed.
Lemma moves_read fuel m i rom : f = KlHitachi -> holds_bytes m 0 0x80000 -> 0 <= i <= 4096 -> 4096 - i < Z.of_nat fuel ->
  moves m (read_loop p fuel (128 * i) rom) (Ok (rom ++ map m (seqZ (128 * i) (0x80000 - 128 * i)))) m.
Proof.
  intros Ef Hm. revert i rom. induction fuel as [|fuel IH]; intros i rom Hi Hf; [lia|]. cbn [read_loop].
  destruct (Z.ltb_spec (128 * i) kRomSize) as [Hl|Hl]; unfold kRomSize in Hl; [|rewrite seqZ_nil, app_nil_r by lia; apply moves_ret].
  eapply moves_bind; [apply moves_Cancelled|]. cbv iota. unfold Exchange, read_request. cbn [read_address_bias hitachi_wire kline_chunk_size].
  rewrite u32_small by (unfold u32_ok; lia). change (u8 (128 - 1)) with 127.
  pose proof (answers_read m 0 (128 * i + 0x100000) ltac:(lia)) as Ha. unfold read_bias in Ha. rewrite Ef in Ha.
  replace (128 * i + 0x100000 - 0x100000) with (128 * i) in Ha by lia.
  eapply moves_try; [by apply moves_replied|]. destruct (read_reply m (128 * i)) as (H1 & H2 & H3); [apply (holds_bytes_sub m 0 0x80000 (128 * i)); first [exact Hm|lia]|].
  cbv zeta in *. rewrite H3, H1, H2. cbn [Z.eqb Pos.eqb Z.add Pos.add Pos.succ negb orb]. eapply moves_bind; [apply moves_Progress|].
  rewrite u32_small by (unfold u32_ok; lia). replace (128 * i + 128) with (128 * (i + 1)) by lia.
  replace (0x80000 - 128 * i) with (128 + (0x80000 - 128 * (i + 1))) by lia. rewrite seqZ_app, map_app, app_assoc by lia.
  replace (128 * i + 128) with (128 * (i + 1)) by lia. apply IH; lia.
Qed.
End hitachi.

Section mitsu.
Import MitsuKline.
Abbreviation p := mitsu_wire.
Abbreviation flash := (kline_flash (kline_decrypt f)).
Lemma moves_exchange m payload reply : answers m payload reply -> moves m (Exchange p payload) (Ok (AddHeader reply 0x10 0xF0)) m.
Proof. by apply moves_replied. Qed.
Lemma moves_service m payload prefix rest :
  answers m payload (prefix ++ rest) -> bytes_ok (prefix ++ rest) -> moves m (request p payload prefix) (Ok tt) m.
Proof. intros Ha Hb. eapply moves_try; [by apply moves_exchange|]. rewrite expect_service by done. apply moves_ret. Qed.
Ltac logged := eapply moves_bind; [apply moves_Log|].
Lemma moves_Handshake m : moves m (Handshake p) (Ok id_text) m.
Proof.
  unfold Handshake. eapply moves_try; [apply moves_Sleep|]. logged. eapply moves_try; [apply moves_exchange, answers_id|].
  eapply moves_try.
  { change ([0xff; 0; 0; 0] ++ ident) with ([0xff] ++ ([0; 0; 0] ++ ident)). rewrite expect_service by (done || apply id_bytes).
    eapply moves_try; [apply moves_ret|]. change ([0xff] ++ ([0; 0; 0] ++ ident)) with ([0xff; 0; 0; 0] ++ ident). rewrite id_length.
    change (14 <? 14) with false. cbv iota zeta. rewrite rom_id_answered. logged. apply moves_ret. }
  logged. eapply moves_try; [apply (moves_service _ _ _ []); [apply answers_start|literal]|]. do 2 logged.
  eapply moves_try; [apply (moves_service _ _ _ []); [apply answers_timing|literal]|]. do 2 logged.
  eapply moves_try; [apply moves_exchange, answers_seed|]. rewrite expect_service by (done || apply seed_bytes).
  eapply moves_try; [apply moves_ret|]. rewrite seed_length. change (11 <? 10) with false. cbv iota zeta.
  eapply moves_try; [logged; apply (moves_service _ _ _ []); [apply answers_key|literal]|]. do 2 logged.
  eapply moves_try; [apply (moves_service _ _ _ []); [apply answers_session|literal]|]. logged. apply moves_ret.
Qed.
Abbreviation region := MitsuM32rKline.kUserspace.
Lemma moves_mitsu_transfer fuel encrypted i m : 0 <= i <= 3840 -> 3840 - i < Z.of_nat fuel ->
  moves m (transfer_loop p fuel region encrypted (128 * i)) (Ok tt) (fold_left flash (mitsu_chunks p encrypted i) m).
Proof.
  revert i m. induction fuel as [|fuel IH]; intros i m Hi Hf; [lia|]. cbn [transfer_loop reg_length reg_start MitsuM32rKline.kUserspace]. unfold mitsu_chunks.
  destruct (Z.ltb_spec (128 * i) 0x78000) as [Hl|Hl]; [|rewrite seqZ_nil by lia; apply moves_ret].
  rewrite seqZ_cons by lia. cbn [map fold_left]. eapply moves_bind; [apply moves_Cancelled|]. cbv iota.
  rewrite (u32_small (0x8000 + 128 * i)) by (unfold u32_ok; lia). eapply moves_try; [apply moves_Optional|].
  eapply moves_bind; [apply moves_Progress|]. cbn [mitsu_chunk_size mitsu_wire]. rewrite (u32_small (128 * i + 128)) by (unfold u32_ok; lia).
  replace (128 * i + 128) with (128 * (i + 1)) by lia. unfold Z.succ. replace (Z.pred (3840 - i)) with (3840 - (i + 1)) by lia. apply IH; lia.
Qed.
Lemma moves_mitsu_WriteRom m plan : TransferRegion plan = region ->
  moves m (WriteRom p plan) (Ok tt) (fold_left flash (mitsu_rest p (ImageOrEmpty plan)) m).
Proof.
  intros Hr. unfold WriteRom. rewrite Hr. eapply moves_try.
  { eapply moves_try; [apply moves_SetBaud|]. eapply moves_try; [apply moves_exchange, answers_download|].
    rewrite expect_service by (done || (destruct active; literal)). eapply moves_try; [apply moves_ret|]. logged.
    eapply moves_try; [apply moves_exchange, answers_routine|].
    change [0x71; u8 kRoutineControlStop; u8 0x0f] with ([0x71] ++ [u8 kRoutineControlStop; u8 0x0f]). rewrite expect_service by (done || literal).
    eapply moves_try; [apply moves_ret|]. unfold CheckCancelled. eapply moves_bind; [apply moves_Cancelled|]. apply moves_ret. }
  cbv zeta. logged. eapply moves_try; [apply (moves_mitsu_transfer _ _ 0); by vm_compute|]. logged. eapply moves_try; [apply moves_Sleep|].
  unfold mitsu_rest. rewrite fold_left_app. cbn [fold_left]. set (m1 := fold_left _ _ m).
  pose proof (answers_routine m1 kRoutineControlStart 0x02 []) as Ha.
  change (mitsu_frame p checksum_request) with (AddHeader [kSidRoutineControl; kRoutineControlStart; 2] 0xF0 0x10). rewrite (proj1 Ha).
  eapply moves_try; [apply moves_exchange, Ha|].
  change [0x71; u8 kRoutineControlStart; u8 0x02] with ([0x71; kRoutineControlStart; 0x02] ++ []). rewrite expect_service by (done || literal).
  eapply moves_try; [apply moves_ret|]. logged. apply moves_ret.
Qed.
Lemma moves_mitsu_read fuel m i rom : f = KlMitsu -> holds_bytes m 0x8000 0x78000 -> 0 <= i <= 3840 -> 3840 - i < Z.of_nat fuel ->
  moves m (read_loop p fuel region (128 * i) rom) (Ok (rom ++ map m (seqZ (0x8000 + 128 * i) (0x78000 - 128 * i)))) m.
Proof.
  intros Ef Hm. revert i rom. induction fuel as [|fuel IH]; intros i rom Hi Hf; [lia|]. cbn [read_loop reg_length reg_start MitsuM32rKline.kUserspace].
  destruct (Z.ltb_spec (128 * i) 0x78000) as [Hl|Hl]; [|rewrite seqZ_nil, app_nil_r by lia; apply moves_ret].
  eapply moves_bind; [apply moves_Cancelled|]. cbv iota. rewrite (u32_small (0x8000 + 128 * i)) by (unfold u32_ok; lia).
  pose proof (answers_read m 0x20 (0x8000 + 128 * i) ltac:(lia)) as Ha. unfold read_bias in Ha. rewrite Ef, Z.sub_0_r in Ha.
  eapply moves_try; [by apply moves_exchange|].
  destruct (read_reply m (0x8000 + 128 * i)) as (H1 & H2 & H3); [by apply (holds_bytes_sub m 0x8000 0x78000 (128 * i)); first [exact Hm|lia]|].
  cbv zeta in *. rewrite H3, H1, H2. cbn [mitsu_chunk_size mitsu_wire Z.eqb Pos.eqb Z.add Pos.add Pos.succ negb orb]. eapply moves_bind; [apply moves_Progress|].
  rewrite u32_small by (unfold u32_ok; lia). replace (128 * i + 128) with (128 * (i + 1)) by lia.
  replace (0x78000 - 128 * i) with (128 + (0x78000 - 128 * (i + 1))) by lia. rewrite seqZ_app, map_app, app_assoc by lia.
  replace (0x8000 + 128 * i + 128) with (0x8000 + 128 * (i + 1)) by lia. apply IH; lia.
Qed.
End mitsu.

Section attempt.
Context {Plan : Type} (family : FlashFamily) (get : FamilyPlan -> option Plan) (validate : FlashPlan -> Status)
  (Setup : Plan -> result Error KlineConfig) (Run : Plan -> FlashPlan -> M (result Error FlashExecutionResult)).
Lemma moves_attempt m m' plan w config r :
  get (family_plan (fields_ plan)) = Some w -> Family plan = family -> validate plan = Ok tt -> Setup w = Ok config ->
  moves m (Run w plan) (Ok r) m' -> moves m (Kline.BoundAttempt_Run (Kline.FamilyExecutor family get validate Setup Run) plan) (Ok r) m'.
Proof.
  intros Hg Hf Hv Hs Hrun. unfold Kline.BoundAttempt_Run, Kline.ExecuteWithTransportGuard, Kline.FamilyExecutor.
  cbn [Kline.TransportSetup Kline.BeforeTransportConfigure Kline.BeforeTransportOpen Kline.Execute].
  unfold CheckFamily. rewrite decide_True by done. cbn [result_bind]. rewrite Hv. cbn [result_bind]. rewrite Hg, Hs.
  apply (moves_bind _ m _ _ _ (Ok tt)).
  - eapply (moves_try _ m _ _ _ tt); [eapply moves_bind; [apply moves_Cancelled|]|].
    + eapply moves_try; [apply moves_ret|]. intros t <-. eexists. split; [reflexivity|]. by rewrite ku_mem_snoc.
    + eapply moves_try; [apply moves_ret|]. intros t <-. eexists. split; [reflexivity|]. by rewrite ku_mem_snoc.
  - apply (moves_bind _ m' _ _ _ (Ok r)); [eapply moves_bind; [apply moves_Cancelled|exact Hrun]|].
    apply (moves_bind _ m' _ _ _ (Ok tt)); [|apply moves_ret]. intros t <-. eexists. split; [reflexivity|]. by rewrite ku_mem_snoc.
Qed.
End attempt.
Definition write_result : FlashExecutionResult := {| res_operation := kWrite; read_bytes := None; rom_id := None |}.
Definition read_result (rom : list Z) : FlashExecutionResult := {| res_operation := kRead; read_bytes := Some rom; rom_id := Some id_text |}.
Abbreviation flash := (kline_flash (kline_decrypt f)).
Lemma hitachi_admitted op protocol mcu img plan :
  HitachiM32rKline.Build op protocol mcu img = Ok plan -> Family plan = kSubaruHitachiM32rKline /\ HitachiM32rKline.Validate plan = Ok tt.
Proof.
  intros Hb. destruct (kline_window_built 11 KlHitachi _ _ _ _ _ ltac:(by left) Hb) as (e & [= <-] & _ & Hp & _).
  split; [by rewrite Hp|exact (BuildSingleWindowPlan_valid _ _ _ _ _ _ _ Hb)].
Qed.
Lemma mitsu_admitted op protocol mcu img plan :
  MitsuM32rKline.Build op protocol mcu img = Ok plan -> Family plan = kSubaruMitsuM32rKline /\ MitsuM32rKline.Validate plan = Ok tt.
Proof.
  intros Hb. destruct (kline_window_built 10 KlMitsu _ _ _ _ _ ltac:(right; by left) Hb) as (e & [= <-] & _ & Hp & _).
  split; [by rewrite Hp|exact (BuildSingleWindowPlan_valid _ _ _ _ _ _ _ Hb)].
Qed.
Lemma moves_hitachi_write protocol mcu image plan m :
  HitachiM32rKline.Build kWrite protocol mcu (Some image) = Ok plan ->
  moves m (kline_attempt KlHitachi plan) (Ok write_result) (fold_left flash (kline_rest KlHitachi image) m).
Proof.
  intros Hb. destruct (hitachi_admitted _ _ _ _ _ Hb) as [Hf Hv]. destruct (hitachi_built _ _ _ _ _ Hb) as (Ho & Hg & Himg).
  destruct (Himg image eq_refl eq_refl) as [_ Hi]. apply (moves_attempt _ _ _ _ _ _ _ _ _ _ _ Hg Hf Hv eq_refl).
  unfold HitachiKline.Run. rewrite bool_decide_false by (rewrite Ho; done). eapply moves_try; [apply moves_Header|].
  eapply moves_try; [apply moves_PrepareWrite|]. eapply moves_try; [apply moves_WriteRom|]. rewrite Hi. apply moves_ret.
Qed.
Lemma moves_mitsu_write protocol mcu image plan m :
  MitsuM32rKline.Build kWrite protocol mcu (Some image) = Ok plan ->
  moves m (kline_attempt KlMitsu plan) (Ok write_result) (fold_left flash (kline_rest KlMitsu image) m).
Proof.
  intros Hb. destruct (mitsu_admitted _ _ _ _ _ Hb) as [Hf Hv]. destruct (mitsu_built _ _ _ _ _ Hb) as (Ho & Hg & Hr & Himg).
  destruct (Himg image eq_refl eq_refl) as [_ Hi]. apply (moves_attempt _ _ _ _ _ _ _ _ _ _ _ Hg Hf Hv eq_refl).
  unfold MitsuKline.Run, MitsuKline.ExecuteOpenTransport. rewrite bool_decide_false by (rewrite Ho; done). eapply moves_try; [apply moves_Header|].
  eapply moves_bind; [apply moves_Log|]. eapply moves_try; [apply moves_Handshake|]. eapply moves_bind; [apply moves_Log|].
  eapply moves_try; [by apply moves_mitsu_WriteRom|]. rewrite Hi, Ho. apply moves_ret.
Qed.
Lemma moves_hitachi_read protocol mcu img plan m :
  f = KlHitachi -> HitachiM32rKline.Build kRead protocol mcu img = Ok plan -> holds_bytes m 0 0x80000 ->
  moves m (kline_attempt KlHitachi plan) (Ok (read_result (map m (seqZ 0 0x80000)))) m.
Proof.
  intros Ef Hb Hm. destruct (hitachi_admitted _ _ _ _ _ Hb) as [Hf Hv]. destruct (hitachi_built _ _ _ _ _ Hb) as (Ho & Hg & _).
  apply (moves_attempt _ _ _ _ _ _ _ _ _ _ _ Hg Hf Hv eq_refl). unfold HitachiKline.Run. rewrite bool_decide_true by done.
  eapply moves_try; [apply moves_Header|]. eapply moves_try; [apply moves_PrepareRead|].
  eapply moves_try; [apply (moves_read _ _ _ 0 []); [done|done|by vm_compute|by vm_compute]|]. apply moves_ret.
Qed.
Lemma moves_mitsu_read_attempt protocol mcu img plan m :
  f = KlMitsu -> MitsuM32rKline.Build kRead protocol mcu img = Ok plan -> holds_bytes m 0x8000 0x78000 ->
  moves m (kline_attempt KlMitsu plan) (Ok (read_result (kline_unread KlMitsu ++ map m (seqZ 0x8000 0x78000)))) m.
Proof.
  intros Ef Hb Hm. destruct (mitsu_admitted _ _ _ _ _ Hb) as [Hf Hv]. destruct (mitsu_built _ _ _ _ _ Hb) as (Ho & Hg & Hr & _).
  apply (moves_attempt _ _ _ _ _ _ _ _ _ _ _ Hg Hf Hv eq_refl). unfold MitsuKline.Run, MitsuKline.ExecuteOpenTransport.
  rewrite bool_decide_true by done. eapply moves_try; [apply moves_Header|]. eapply moves_bind; [apply moves_Log|].
  eapply moves_try; [apply moves_Handshake|]. eapply moves_bind; [apply moves_Log|]. rewrite Hr, Ho. eapply moves_try; [|apply moves_ret].
  eapply moves_try; [apply (moves_mitsu_read _ _ 0); [done|done|by vm_compute|by vm_compute]|]. eapply moves_bind; [apply moves_Log|]. apply moves_ret.
Qed.
End unit.

(** ** Claims *)
Lemma stored_reads (m m0 : memory) a l : m ≡ store m0 a l -> map m (seqZ a (zlen l)) = l.
Proof.
  intros E. rewrite (map_ext _ (store m0 a l)) by exact E. pose proof (zlen_nonneg l).
  assert (seqZ a (zlen l) = map (Z.add a) (seqZ 0 (zlen l))) as -> by (symmetry; etransitivity; [apply fmap_add_seqZ|by rewrite Z.add_0_r]).
  rewrite map_map. apply zget_ext; [rewrite zlen_map, zlen_seqZ; lia|]. rewrite zlen_map, zlen_seqZ. intros i Hi.
  rewrite (zget_map_seqZ (fun x => store m0 a l (a + x))) by lia. unfold store. rewrite bool_decide_true by lia. f_equal. lia.
Qed.
Lemma region_read f image m0 (m := fold_left (kline_flash (kline_decrypt f)) (kline_rest f image) m0) :
  kline_writes f = true -> bytes_ok image -> zlen image = 0x80000 ->
  map m (seqZ (reg_start (kline_region f)) (reg_length (kline_region f))) = subspan image (reg_start (kline_region f)) (reg_length (kline_region f)).
Proof.
  intros Hf Hb Hl. pose proof (kline_rest_flashed f image m0 Hf Hb Hl) as Em. fold m in Em. apply stored_reads in Em.
  assert (zlen (subspan image (reg_start (kline_region f)) (reg_length (kline_region f))) = reg_length (kline_region f)) as Hz
    by (rewrite zlen_subspan, Hl; destruct f; try done).
  by rewrite Hz in Em.
Qed.
(** C11: Against a unit of the two M32R engine families that keeps the protocol over the
    K-Line (it identifies itself, opens its session, acknowledges an erase and transfers,
    and answers reads with its memory), whatever it held before: a write of an image
    succeeds, and a read after it succeeds with the unit's identity and the image, the
    part outside the region the family transfers aside. *)
Theorem kline_write_then_read f active ident seed m0 protocol mcu image writing protocol' mcu' img reading :
  kline_writes f = true -> bytes_ok image -> bytes_ok ident -> zlen ident = 5 -> bytes_ok seed -> zlen seed = 4 ->
  kline_build f kWrite protocol mcu (Some image) = Ok writing -> kline_build f kRead protocol' mcu' img = Ok reading ->
  exists t1 t2,
    kline_attempt (H := kline_unit f active ident seed m0) f writing [] = (Ok write_result, t1)
    /\ kline_attempt (H := kline_unit f active ident seed m0) f reading t1
       = (Ok (read_result ident (kline_unread f ++ subspan image (reg_start (kline_region f)) (reg_length (kline_region f)))), t2).
Proof.
  intros Hf Hb Hi Li Hs Ls Hw Hr. destruct (kline_attempt_writes (H := kline_unit f active ident seed m0) f _ _ _ _ Hf Hw) as [Hl _].
  pose proof (region_read f image m0 Hf Hb Hl) as Hreg. pose proof (bytes_ok_subspan image (reg_start (kline_region f)) (reg_length (kline_region f)) Hb) as Hrb.
  rewrite <- Hreg in Hrb |- *. destruct f; try done; cbn [kline_build] in Hw, Hr.
  - destruct (moves_hitachi_write KlHitachi active ident seed m0 Hi Li Hs Ls _ _ _ _ m0 Hw [] eq_refl) as (t1 & E1 & M1).
    destruct (moves_hitachi_read KlHitachi active ident seed m0 Hi Li _ _ _ _ _ eq_refl Hr Hrb t1 M1) as (t2 & E2 & _).
    exists t1, t2. split; [exact E1|exact E2].
  - destruct (moves_mitsu_write KlMitsu active ident seed m0 Hi Li Hs Ls _ _ _ _ m0 Hw [] eq_refl) as (t1 & E1 & M1).
    destruct (moves_mitsu_read_attempt KlMitsu active ident seed m0 Hi Li Hs Ls _ _ _ _ _ eq_refl Hr Hrb t1 M1) as (t2 & E2 & _).
    exists t1, t2. split; [exact E1|exact E2].
Qed.
Lemma kline_write_then_read_witness :
  exists writing reading t1 t2,
    kline_build KlHitachi kWrite "sub_ecu_hitachi_m32r_kline" "M32R_512KB_1block" (Some (zrepeat 0x80000 0xFF)) = Ok writing
    /\ kline_build KlHitachi kRead "sub_ecu_hitachi_m32r_kline" "M32R_512KB_1block" None = Ok reading
    /\ kline_attempt (H := kline_unit KlHitachi false [1; 2; 3; 4; 5] [6; 7; 8; 9] (fun _ => 0)) KlHitachi writing [] = (Ok write_result, t1)
    /\ kline_attempt (H := kline_unit KlHitachi false [1; 2; 3; 4; 5] [6; 7; 8; 9] (fun _ => 0)) KlHitachi reading t1
       = (Ok (read_result [1; 2; 3; 4; 5] ([] ++ subspan (zrepeat 0x80000 0xFF) 0 0x80000)), t2).
Proof.
  destruct (sample_kline_plan kWrite _ blank_kline_image) as [writing Ew]. destruct (sample_kline_plan kRead None I) as [reading Er].
  exists writing, reading.
  destruct (kline_write_then_read KlHitachi false [1; 2; 3; 4; 5] [6; 7; 8; 9] (fun _ => 0) _ _ (zrepeat 0x80000 0xFF) writing _ _ None reading
    eq_refl blank_kline_bytes ltac:(repeat constructor; done) eq_refl ltac:(repeat constructor; done) eq_refl Ew Er) as (t1 & t2 & H1 & H2).
  exists t1, t2. exact (conj Ew (conj Er (conj H1 H2))).
Defined.
